(* ===== verification/_CoqProject ===== *)
-Q . S2P
Prelude.v
AsciiManip.v
Utf8.v
Punycode.v
Tokenizer.v
Base64.v
MimeUrl.v
Xml.v
Js.v
TextOps.v
IntStr.v
Url.v
TextTemplate.v
HttpAddress.v
Idna.v
CommonDecimal.v
SimpleDecimal.v
Decimal.v
DecimalConv.v
DecimalDiv.v
DecimalText.v
Time.v
TimeFormat.v
HttpCookie.v
Crc.v
BoundedMap.v
CompressedSet.v
Utf8Category.v
Utf8Tables.v
LowerTables.v
UpperTables.v
UniformTables.v
SimplifyTables.v
Utf8Case.v
Utf8Simplify.v
CaseText.v
SpaceTree.v
DigitTree.v
LetterTree.v
LowerLetterTree.v
TitleLetterTree.v
UpperLetterTree.v
AllTree.v
Utf8Properties.v
NormTables.v
UnicodeNormalizer.v
NormTableFacts.v
Normalization.v
IdnaNormalizer.v
ActiveObject.v
ThreadRunner.v
CommonImpl.v
TaskRunner.v
Scheduler.v
