(* ===== verification/Prelude.v ===== *)
(** * Unixcommons: a verification library

    Unixcommons is a C++ library of general services.  This development models
    the parts of it that carry its own logic, most of the string library
    ([src/String]), the addresses and cookies of [src/HTTP], and the number, time,
    container and threading classes of [src/Generics], and proves them correct.
    Paths below are under [src/].

    ** The program and the files

    Foundations:
    - [Prelude] (this file): machine integers, bytes, C strings, the result
      type [outcome] of a call, pointers, buffers and tables, tactics and the
      lemmas the other files share.

    Octets and texts, [String]:
    - [AsciiManip]: [AsciiStringManip.hpp] and [.cpp].  Case tables,
      character categories ([CharTable], [Category]) with their searches,
      [flatten], caseless comparison, hexadecimal digits.  The other string
      files build on it.
    - [Utf8]: [UTF8Handler.hpp] and the conversions of [StringManip.cpp]
      between octets and wide characters.
    - [Punycode]: the Punycode codec of [StringManip.cpp].
    - [Tokenizer]: [Tokenizer.hpp], the splitters over any category of symbols.
    - [Base64], [MimeUrl], [Xml], [Js], [TextOps]: the encoders and decoders of
      [StringManip.cpp] and [.ipp]: Base64 with both alphabets, percent
      encoding, XML and JavaScript/JSON escapes (over [Utf8]), CSV, trimming,
      replacement, hexadecimal text, transliteration, [strlcpy]/[strlcat].
    - [IntStr]: [StringManip.tpp]: decimal text of integers of every width, and
      the fixed buffers of [append] and [concat].
    - [TextTemplate]: [TextTemplate.hpp] and [.cpp]: templates with keys, their
      callbacks, encoders and default values.
    - [Utf8Category]: [UTF8Category.hpp] and [.cpp] with [UTF8NArcTree.hpp]: sets
      of symbols as trees, built from any set of integers.

    Unicode data, [String]:
    - [Utf8Tables], [LowerTables], [UpperTables], [UniformTables],
      [SimplifyTables]: the types of [UTF8Tables.hpp] and the tables of
      [UTF8CaseLower.cpp] and its siblings.  [Utf8Case] and [Utf8Simplify]: the
      functions that read them, with [case_change] of [UTF8Case.hpp];
      [CaseText]: their theorems.
    - [SpaceTree], [DigitTree], [LetterTree], [LowerLetterTree],
      [TitleLetterTree], [UpperLetterTree], [AllTree]: the trees of
      [UTF8IsSpace.cpp] and its siblings and of [UTF8AllProperties.cpp];
      [Utf8Properties]: [UTF8IsProperty.hpp] and [UTF8AllProperties.hpp].
    - [NormTables], [UnicodeNormalizer]: [UnicodeNormTables.cpp] and
      [UnicodeNormalizer.cpp]; [NormTableFacts]: what holds of the tables, by one
      evaluation; [Normalization]: the theorems; [IdnaNormalizer]: the normalizer
      as the one [Idna] takes.

    Addresses, [HTTP]:
    - [Url]: [UrlAddress.hpp] and [.cpp], splitting, checking and assembling;
      [HttpAddress]: the HTTP and browser addresses and checkers over it; [Idna]:
      international host names (over [Punycode] and [Utf8]) and the
      normalization of addresses; [HttpCookie]: [HTTPCookie.cpp], cookies and
      their headers.

    Numbers, times and containers, [Generics]:
    - [CommonDecimal], [SimpleDecimal]: [CommonDecimal.hpp] and
      [SimpleDecimal.tpp]: decimal fractions with a fixed number of digits in one
      integer, their text and the double width [muldiv].
    - [Decimal], [DecimalConv], [DecimalDiv], [DecimalText]: [Decimal.tpp], decimal
      fractions in an array of elements of [DIGITS] digits: sums and products;
      conversions and rounding; long division; text and packing.
    - [Time]: [Time.hpp] and [.cpp].  Arithmetic of [Time], and the calendar
      functions [gm_to_time] and [time_to_gm].  [TimeFormat]: parsing and printing
      of [ExtendedTime] by format strings, over [Time], [IntStr] and [AsciiManip].
    - [Crc]: [CRC.hpp] and [.cpp], both checksums with their tables.
    - [BoundedMap]: [BoundedMap.hpp], a hash table of limited size with a list of
      its keys by their last use, over [Time].
    - [CompressedSet]: [CompressedSet.hpp], a set of integers as disjoint intervals.

    Threads, [Generics]:
    - [ActiveObject]: [ActiveObject.hpp] and [CompositeActiveObject.hpp].  The
      interface of objects with a life cycle as a class, [SimpleActiveObject] and
      composites as instances.
    - [ThreadRunner]: [ThreadRunner.cpp], the creation, the beginning and the
      joining of threads; [CommonImpl]: [ActiveObjectCommonImpl] of
      [ActiveObject.cpp], the life cycle of objects with threads over it.
    - [TaskRunner]: [TaskRunner.cpp], the pool of threads with its queue, over
      [CommonImpl].
    - [Scheduler]: [Scheduler.cpp], the planner that delivers goals at given times,
      over [CommonImpl] and [Time].

    ** Interfaces

    Where components meet, a class states what one promises to the other, and the
    client is proved against it: [Category] and [CategoryLaws] (in [Tokenizer]; the
    tables of characters, the trees of [Utf8Category] and the separators of cookies
    are instances), [IntegerSet] and [IntegerSetLaws] (in [CompressedSet], used by
    [Utf8Category]), [Decomposer] (in [NormTableFacts], both decomposers),
    [Converts] (in [CaseText], the three case conversions), the class of active
    objects.  Virtual functions are arguments: the checks of an address in
    [HttpAddress], the callbacks of a template in [TextTemplate].

    ** How the code is modelled

    Integers are [Z] with the wrap-around of their width written out ([u8],
    [s32], ...); a [char] is its byte, and an overflow of a signed type is [Undef],
    apart from the 64 bit seconds of [Time], which have no width here.  In
    [Utf8Category] a shift by 32 or more is taken modulo 32, as the processor does.
    A text that is only read forwards is the list of the characters from the pointer
    to its end; a buffer that is written in place is a list with positions, and a
    read or write outside it, or outside a table, is [Undef].  A call returns an
    [outcome]: [Ret], [Throw] with the exception (its message shortened), or [Undef]
    for undefined behaviour or used up fuel, so a theorem that a call is [Ret]
    includes that it terminates and stays in bounds.

    Loops that are not structural take fuel; it is the length of the text or of the
    list that the loop consumes plus a constant (three for [remove] of
    [CompressedSet], which may look at one node twice and insert one; one for the
    searches of invalid characters and labels in [Url]).  The bias of Punycode
    adapts within 7 divisions and a delta has at most 10 digits; the guess of a
    digit in the long division takes 4, since a normalized divisor makes it at most
    two too big.  The theorems show that it is enough.

    A [std::map] is the ordered list of its nodes and an iterator the key of its
    node; a hash table is a finite map, and an iterator of a [std::list] in
    [BoundedMap] the address of its node, so that a dangling one is [Undef]; in
    [HttpCookie] the use of the iterator after its node is erased is [Undef].  [std::stable_sort] and
    [std::lower_bound] have the meaning of the standard.  The counters of
    [BoundedMapStat] do not wrap, and a failing allocation is an argument of the
    call.  Tables are the lists of their cells; a large one is given plane by plane,
    and what the proofs need of it is evaluated once, on all characters it is asked
    for.  The task runner and the planner are transition systems: a step of a thread
    is what it does from one lock or atomic counter to the next, and every access to
    a member that is read or written without a lock ([number_running_],
    [active_state_], [terminating_], the semaphore and the slots of the threads) is
    a step of its own.  Labels carry the results of system calls, conditions may wake
    a thread at any time, and ghost fields hold the history.  [executes] of
    [TaskRunner] are all executions; since the thread runner is not thread safe,
    some facts hold only for [reachable], the executions in which no two callers are
    inside it at once, and the theorem [TaskRunner_overlap] shows that they must.  The calls of a composite active object run one at a
    time, and a call that would wait for another thread is [Blocked].

    Code outside the sources enters as arguments with named hypotheses: the time
    zone functions of the C library in [TimeFormat], the clock in [HttpCookie], the
    content of a stream or file in [TextTemplate], the hooks of an active object in
    [ActiveObject].

    ** What is shown

    - Round trips: UTF-8, Base64, percent encoding, XML, JavaScript, CSV,
      hexadecimal text, Punycode, decimal integers and fractions, the calendar,
      formatted times, URLs and their parts, addresses and their views, cookies and
      their headers, encoded values in templates.  Each decoder gives back what the
      encoder was given, on the domain stated.
    - Functional behaviour: which octet sequences are valid UTF-8, which texts are
      integers, the leftmost occurrences [replace] replaces, the tokens of both
      splitters, the components of RFC 3986 (of texts that do not begin with a
      colon) and a grammar of URLs, the one way a
      template is cut and what it is instantiated to, the arithmetic and order of
      [Time] as that of microseconds; the operations of both decimal classes compute
      the rounded exact result or throw [Overflow] exactly when it does not fit, the
      long division included; checksums are the remainders of a division bit by
      bit and detect every error in one octet.
    - Unicode: case conversions work on any octets within their buffers, accept
      exactly the well-formed texts, are idempotent, and the uniform case does not
      depend on the case of a text; the simplification turns a text into a
      well-formed one and does not depend on its case; the tests of one property agree with the tree of all
      properties on every character; the normalizer puts the decomposed text into
      the one order of the repository's combining classes and composes it in place
      as a function on texts does, which is the composition of the Unicode standard
      on the texts called [regular]; normalized addresses with plain ASCII hosts
      are normalized to themselves.
    - Safety of decoders on any input: [base64mod_decode], [xml_decode], the
      in-place percent decoder (equal to the copying one), [flatten], the
      decomposers and their tables.
    - Refinement: [CompressedSet] answers sequences of calls that remove nothing up
      to the greatest integer as a plain set of integers, [Utf8Category] as the set it was built from and [BoundedMap] as a
      least recent use cache that stays within its bound and evicts no more than
      needed; a composite follows the life cycle [life] whatever its children do
      and calls them in order, and with children whose deactivation does not fail it
      keeps them in its own state and stops.
    - Invariants over interleavings: the task runner delivers tasks in order, loses
      none and respects the limit of its queue in all executions, and the limit of
      its threads while callers keep apart; its assertion holds until it is activated
      again, whoever meets, if the activation does not fail; the planner loses no
      message, delivers none early, never sleeps past the first message or a signal,
      and ends when it is deactivated, unless a wait that found no thread takes the
      deactivation back.
    - Deviations of the code, stated as theorems: the third octet of four is
      unchecked by the decoder, surrogate ranges of [js_unicode_decode], the buffer
      of [wchar_to_hex], the digit [concat] drops, leap years from 2100, the greatest
      integer in [CompressedSet], edges of the decimal classes, a size that wraps in
      [BoundedMap], the second activation of a task runner, the races of its
      activation with the creation of threads and of an activation with a wait, the
      semaphore a failed start leaves open, years that do not fit and hours that
      overflow, the erased cookie, the empty scheme, URLs the checker and the
      address treat differently, hosts that end in two dots, the domain suffixes and
      the replacement of cookies, starters that join over combiners and the dropped
      U+11A7 in compositions, the classes above U+1D244, the items a failed template
      read leaves behind, what the simplification loses at the end of a text.

    ** What is not modelled

    Input and output, the wrappers of system and external libraries (sockets,
    files, thread attributes, PCRE, ICU, Xerces, OpenSSL, CORBA, userver) and what
    is mostly made of them: the HTTP clients, the block files of [PlainStorage], the
    loggers, the language and GeoIP libraries, the signatures of [Uuid].  The stream
    classes of [Stream] and the value classes over the files above
    ([UnicodeSymbol], [Uuid]), the command line analyzers of [String], the hash
    functions and random generators, the periodic tasks and the task pool.
    Destructors and reference counts, swaps, iostream operators (apart from the
    extraction of cookie attributes) and floating point. *)
From stdpp Require Export base numbers list strings.
#[global] Set Default Goal Selector "!".
Local Open Scope Z_scope.

(** ** Notation *)

(** A character literal in [uchar_scope] denotes the code of one character:
    ["A"%uchar] is the number 65, as ['A'] in the C++ sources. *)
Definition uchar_of_bytes (l : list Byte.byte) : option Z :=
  match l with
  | [b] => Some (Z.of_N (Byte.to_N b))
  | _ => None
  end.

Definition uchar_to_bytes (z : Z) : option (list Byte.byte) := None.

Declare Scope uchar_scope.
Delimit Scope uchar_scope with uchar.
String Notation Z uchar_of_bytes uchar_to_bytes : uchar_scope.

(** A string literal of the sources as the list of its character codes. *)
Definition bytes (s : string) : list Z :=
  map (fun a => Z.of_N (Ascii.N_of_ascii a)) (String.list_ascii_of_string s).

(** ** Machine integers

    Integers are [Z]; the conversions below are the ones the sources perform
    (x86-64, gcc: conversions to a narrower type are modular, [char] is
    signed, [wchar_t] is a signed 32 bit integer, [size_t] is 64 bit). *)
Definition u8 (z : Z) : Z := z mod 2 ^ 8.
Definition u16 (z : Z) : Z := z mod 2 ^ 16.
Definition u32 (z : Z) : Z := z mod 2 ^ 32.
Definition u64 (z : Z) : Z := z mod 2 ^ 64.

(** The value of a [char] whose object representation is the byte [b]. *)
Definition s8 (b : Z) : Z := (b + 2 ^ 7) mod 2 ^ 8 - 2 ^ 7.
Definition s32 (z : Z) : Z := (z + 2 ^ 31) mod 2 ^ 32 - 2 ^ 31.
Definition s64 (z : Z) : Z := (z + 2 ^ 63) mod 2 ^ 64 - 2 ^ 63.

(** A [char] is modelled by its byte, an integer in [0, 256). *)
Definition is_byte (b : Z) : Prop := 0 <= b < 256.
Definition byteb (b : Z) : bool := (0 <=? b) && (b <? 256).
Abbreviation bytes_ok := (Forall is_byte).

(** The characters of a zero-terminated string, without the terminator. *)
Definition is_cchar (b : Z) : Prop := 0 < b < 256.
Abbreviation cstring := (Forall is_cchar).

(** Access to a constant table of the sources. *)
Definition tab {A} (d : A) (t : list A) (i : Z) : A := nth (Z.to_nat i) t d.

(** ** Outcomes

    [Ret] is normal return and [Throw] a C++ exception with its message (the
    function name and the offending text the sources add to it are left out).
    [Undef] is an execution the language gives no meaning to: a read or write
    out of bounds, a failed [assert], or a loop that has used up its fuel; a
    theorem that a call is [Ret _] therefore shows that it terminates and is
    memory safe. *)
Inductive exn : Type :=
| InvalidFormatException (what : string)
| InvalidArgument (what : string)
| Overflow (what : string)
| NotNumber (what : string)
| Sign (what : string)
| InvalidURL (what : string)
| IDNAError (what : string)
| TextTemplException (what : string)
| InvalidTemplate (what : string)
| UnknownName (what : string).

Inductive outcome (A : Type) : Type :=
| Ret (a : A)
| Throw (e : exn)
| Undef.
Arguments Ret {A} a.
Arguments Throw {A} e.
Arguments Undef {A}.

Definition obind {A B} (m : outcome A) (k : A -> outcome B) : outcome B :=
  match m with
  | Ret a => k a
  | Throw e => Throw e
  | Undef => Undef
  end.

(** [assert (b)] *)
Definition guard {A} (b : bool) (m : outcome A) : outcome A := if b then m else Undef.

Declare Scope outcome_scope.
Delimit Scope outcome_scope with outcome.
Notation "'let*' x := m 'in' k" := (obind m (fun x => k))
  (at level 10, x pattern, m at level 200, k at level 200) : outcome_scope.

(** ** Pointers into a buffer

    A pointer into a buffer that ends at a fixed [END] is modelled by the
    characters from the pointer to [END]; [*p] is the head, [p + 1] the tail,
    [p == END] is [p = []], and [range p q] are the characters of [[p, q)]. *)
Definition range {A} (p q : list A) : list A := take (length p - length q) p.

(** A buffer with positions in it: [buf[i]] and [buf[i] = ch]. *)
Definition rd {A} (buf : list A) (i : nat) : outcome A :=
  match buf !! i with
  | Some ch => Ret ch
  | None => Undef
  end.

Definition wr {A} (buf : list A) (i : nat) (ch : A) : outcome (list A) :=
  if (i <? length buf)%nat then Ret (<[i := ch]> buf) else Undef.

(** [t[i]] of a table, with the index as the integer the code computes *)
Definition cell {A} (t : list A) (i : Z) : outcome A :=
  if i <? 0 then Undef else rd t (Z.to_nat i).

(** ** Tactics *)

(** Case analysis on a comparison of integers in the goal or a hypothesis. *)
Ltac case_Z :=
  match goal with
  | |- context [Z.eqb ?a ?b] => destruct (Z.eqb_spec a b)
  | |- context [Z.ltb ?a ?b] => destruct (Z.ltb_spec a b)
  | |- context [Z.leb ?a ?b] => destruct (Z.leb_spec a b)
  | H : context [Z.eqb ?a ?b] |- _ => destruct (Z.eqb_spec a b)
  | H : context [Z.ltb ?a ?b] |- _ => destruct (Z.ltb_spec a b)
  | H : context [Z.leb ?a ?b] |- _ => destruct (Z.leb_spec a b)
  end.

(** Proves a closed decidable proposition by evaluating its decision. *)
Ltac by_eval := apply (bool_decide_eq_true_1 _); vm_compute; reflexivity.

(** [lia] with division and modulo by constants. *)
Ltac zlia := Z.div_mod_to_equations; lia.

(** Replaces the integer comparisons of the goal that [lia] can decide. *)
Ltac decide_Z :=
  repeat match goal with
  | |- context [?a <? ?b] =>
    first [rewrite (proj2 (Z.ltb_lt a b)) by lia | rewrite (proj2 (Z.ltb_ge a b)) by lia]
  | |- context [?a <=? ?b] =>
    first [rewrite (proj2 (Z.leb_le a b)) by lia | rewrite (proj2 (Z.leb_gt a b)) by lia]
  | |- context [?a =? ?b] =>
    first [rewrite (proj2 (Z.eqb_eq a b)) by lia | rewrite (proj2 (Z.eqb_neq a b)) by lia]
  end.

Create HintDb unixcommons.
Create Rewrite HintDb unixcommons.

(** ** Bytes *)

Lemma byteb_spec b : byteb b = true <-> is_byte b.
Proof. unfold byteb, is_byte. rewrite andb_true_iff, Z.leb_le, Z.ltb_lt. tauto. Qed.

#[export] Instance is_byte_dec b : Decision (is_byte b).
Proof. unfold is_byte. apply _. Defined.

#[export] Instance is_cchar_dec b : Decision (is_cchar b).
Proof. unfold is_cchar. apply _. Defined.

Lemma is_cchar_byte b : is_cchar b -> is_byte b.
Proof. unfold is_cchar, is_byte. lia. Qed.

Lemma cstring_bytes s : cstring s -> bytes_ok s.
Proof. intros H. eapply Forall_impl; [exact H|]. exact is_cchar_byte. Qed.

Lemma u8_byte z : is_byte (u8 z).
Proof. unfold u8, is_byte. apply Z.mod_pos_bound. lia. Qed.

Lemma u8_id b : is_byte b -> u8 b = b.
Proof. intros H. apply Z.mod_small. exact H. Qed.

Lemma s8_low b : 0 <= b < 128 -> s8 b = b.
Proof. unfold s8. intros H. rewrite Z.mod_small; lia. Qed.

Lemma s8_high b : 128 <= b < 256 -> s8 b = b - 256.
Proof.
  unfold s8. intros H. change (2 ^ 8) with 256. change (2 ^ 7) with 128.
  rewrite <- (Z.mod_add _ (-1)) by lia. rewrite Z.mod_small; lia.
Qed.

Lemma s8_val b : is_byte b -> s8 b = if b <? 128 then b else b - 256.
Proof.
  unfold is_byte. intros H. case_Z; [apply s8_low|apply s8_high]; lia.
Qed.

#[export] Hint Resolve is_cchar_byte cstring_bytes u8_byte : unixcommons.

(** Every byte, for proofs by evaluation over all of them. *)
Definition all_below (n : nat) : list Z := map Z.of_nat (seq 0 n).

Lemma in_all_below n z : 0 <= z < Z.of_nat n -> In z (all_below n).
Proof.
  intros H. unfold all_below. apply in_map_iff. exists (Z.to_nat z).
  split; [lia|]. apply in_seq. lia.
Qed.

Lemma forall_below n (P : Z -> bool) :
  forallb P (all_below n) = true -> forall z, 0 <= z < Z.of_nat n -> P z = true.
Proof.
  intros H z Hz. rewrite forallb_forall in H. apply H, in_all_below, Hz.
Qed.

Lemma forall_byte (P : Z -> bool) :
  forallb P (all_below 256) = true -> forall b, is_byte b -> P b = true.
Proof. intros H b Hb. apply (forall_below 256); [exact H|exact Hb]. Qed.

(** [byte_eval b] proves a boolean fact about the byte [b] by evaluating it
    on all 256 bytes. *)
Ltac byte_eval b :=
  match goal with
  | H : is_byte b |- ?e = true =>
    let P := eval pattern b in e in
    match P with
    | ?Q _ =>
      exact (forall_byte Q (eq_refl true <: forallb Q (all_below 256) = true) b H)
    end
  end.

(** ** Bit operations as arithmetic *)

Lemma land_mask z n : 0 <= n -> Z.land z (Z.ones n) = z mod 2 ^ n.
Proof. apply Z.land_ones. Qed.

(** Disjoint bits: [lor] is addition. *)
Lemma lor_add a b k : 0 <= k -> 0 <= b < 2 ^ k -> Z.lor (a * 2 ^ k) b = a * 2 ^ k + b.
Proof.
  intros Hk Hb. symmetry. rewrite <- Z.shiftl_mul_pow2 by lia.
  rewrite Z.add_nocarry_lxor.
  2: { apply Z.bits_inj'. intros i Hi. rewrite Z.land_spec, Z.bits_0.
       destruct (Z.ltb_spec i k).
       - rewrite Z.shiftl_spec_low by lia. reflexivity.
       - rewrite <- (Z.mod_small b (2 ^ k)) by lia.
         rewrite Z.mod_pow2_bits_high by lia. apply andb_false_r. }
  apply Z.bits_inj'. intros i Hi. rewrite Z.lxor_spec, Z.lor_spec.
  destruct (Z.ltb_spec i k).
  - rewrite Z.shiftl_spec_low by lia. reflexivity.
  - rewrite <- (Z.mod_small b (2 ^ k)) by lia.
    rewrite Z.mod_pow2_bits_high by lia.
    rewrite orb_false_r, xorb_false_r. reflexivity.
Qed.

(** [(x & mask) | c] for a constant [c] with no bit under the mask. *)
Lemma mask_or x k c : 0 <= k -> Z.lor (Z.land x (Z.ones k)) (c * 2 ^ k) = c * 2 ^ k + x mod 2 ^ k.
Proof.
  intros Hk. rewrite Z.lor_comm, land_mask by done. apply lor_add; [done|].
  apply Z.mod_pos_bound. lia.
Qed.

Lemma shiftl_or a b k : 0 <= k -> 0 <= b < 2 ^ k -> Z.lor (Z.shiftl a k) b = a * 2 ^ k + b.
Proof. intros Hk Hb. rewrite Z.shiftl_mul_pow2 by done. by apply lor_add. Qed.

(** ** Lists *)

Lemma range_nil {A} (p : list A) : range p [] = p.
Proof. unfold range. simpl. rewrite Nat.sub_0_r. apply take_ge. lia. Qed.

Lemma range_self {A} (p : list A) : range p p = [].
Proof. unfold range. rewrite Nat.sub_diag. reflexivity. Qed.

Lemma range_app {A} (p q : list A) : range (p ++ q) q = p.
Proof.
  unfold range. rewrite length_app, Nat.add_sub.
  rewrite take_app_le by lia. apply take_ge. lia.
Qed.

Lemma range_cons {A} (x : A) p : range (x :: p) p = [x].
Proof. exact (range_app [x] p). Qed.

#[export] Hint Rewrite @range_nil @range_self @range_app @range_cons : unixcommons.

(** Induction on a list by groups of three. *)
Lemma list_ind3 {A} (P : list A -> Prop) :
  P [] -> (forall a, P [a]) -> (forall a b, P [a; b]) ->
  (forall a b c l, P l -> P (a :: b :: c :: l)) -> forall l, P l.
Proof.
  intros H0 H1 H2 H3 l. remember (length l) as n eqn:En.
  assert (Hn : (length l <= n)%nat) by lia. clear En. revert l Hn.
  induction n as [|n IH]; intros l Hn.
  - destruct l; [done|simpl in Hn; lia].
  - destruct l as [|a [|b [|c l]]]; auto. apply H3, IH. simpl in Hn. lia.
Qed.

Lemma forallb_false {A} (f : A -> bool) l : forallb f l = false -> exists x, In x l /\ f x = false.
Proof.
  induction l as [|x l IH]; simpl; [done|]. destruct (f x) eqn:E; simpl.
  - intros (y & Hy & Ef)%IH. exists y. auto.
  - intros _. exists x. auto.
Qed.

(** ** Outcomes and buffers *)

Lemma obind_assoc {A B C} (m : outcome A) (f : A -> outcome B) (g : B -> outcome C) :
  obind (obind m f) g = obind m (fun a => obind (f a) g).
Proof. by destruct m. Qed.

Lemma rd_drop {A} (text : list A) src ch rest :
  drop src text = ch :: rest -> rd text src = Ret ch.
Proof.
  intros H. unfold rd. rewrite <- (Nat.add_0_r src), <- lookup_drop, H. done.
Qed.

Lemma rd_at {A} (pre : list A) x post : rd (pre ++ x :: post) (length pre) = Ret x.
Proof. unfold rd. by rewrite list_lookup_middle. Qed.

Lemma insert_at {A} (pre : list A) x c mid :
  <[length pre := c]> (pre ++ x :: mid) = pre ++ c :: mid.
Proof. induction pre as [|y pre IH]; [done|]. exact (f_equal (cons y) IH). Qed.

Lemma wr_at {A} (pre : list A) x c post :
  wr (pre ++ x :: post) (length pre) c = Ret (pre ++ c :: post).
Proof.
  unfold wr. rewrite insert_at. rewrite (proj2 (Nat.ltb_lt _ _)); [done|].
  rewrite length_app. simpl. lia.
Qed.

(** ** Cells of tables *)

Lemma cell_lookup {A} (t : list A) i x : 0 <= i -> t !! Z.to_nat i = Some x -> cell t i = Ret x.
Proof. intros Hi H. unfold cell, rd. case_Z; [lia|]. by rewrite H. Qed.

Lemma cell_in {A} (t : list A) i : 0 <= i < Z.of_nat (length t) -> exists x, cell t i = Ret x /\ In x t.
Proof.
  intros H. destruct (lookup_lt_is_Some_2 t (Z.to_nat i)) as [x Hx]; [lia|].
  exists x. split; [apply cell_lookup; [lia|done]|]. apply list_elem_of_In. by eapply list_elem_of_lookup_2.
Qed.
