(* ===== verification/AsciiManip.v ===== *)
(** * AsciiManip: character tables, categories and hexadecimal digits

    Models [src/String/AsciiStringManip.hpp] and [.cpp]: the case tables, the
    [Category] template over a predicate on characters ([CharTable], [Char1],
    [Char2], [Char3]), the searches of a category in a buffer, [flatten], the
    caseless comparison and the conversion of hexadecimal digits. *)
From S2P Require Import Prelude.
Local Open Scope Z_scope.
Local Open Scope outcome_scope.

(** ** Tables *)

Definition ASCII_TOLOWER_TABLE : list Z :=
  [0x00; 0x01; 0x02; 0x03; 0x04; 0x05; 0x06; 0x07; 0x08; 0x09; 0x0a; 0x0b; 0x0c; 0x0d; 0x0e; 0x0f;
   0x10; 0x11; 0x12; 0x13; 0x14; 0x15; 0x16; 0x17; 0x18; 0x19; 0x1a; 0x1b; 0x1c; 0x1d; 0x1e; 0x1f;
   0x20; 0x21; 0x22; 0x23; 0x24; 0x25; 0x26; 0x27; 0x28; 0x29; 0x2a; 0x2b; 0x2c; 0x2d; 0x2e; 0x2f;
   0x30; 0x31; 0x32; 0x33; 0x34; 0x35; 0x36; 0x37; 0x38; 0x39; 0x3a; 0x3b; 0x3c; 0x3d; 0x3e; 0x3f;
   0x40; 0x61; 0x62; 0x63; 0x64; 0x65; 0x66; 0x67; 0x68; 0x69; 0x6a; 0x6b; 0x6c; 0x6d; 0x6e; 0x6f;
   0x70; 0x71; 0x72; 0x73; 0x74; 0x75; 0x76; 0x77; 0x78; 0x79; 0x7a; 0x5b; 0x5c; 0x5d; 0x5e; 0x5f;
   0x60; 0x61; 0x62; 0x63; 0x64; 0x65; 0x66; 0x67; 0x68; 0x69; 0x6a; 0x6b; 0x6c; 0x6d; 0x6e; 0x6f;
   0x70; 0x71; 0x72; 0x73; 0x74; 0x75; 0x76; 0x77; 0x78; 0x79; 0x7a; 0x7b; 0x7c; 0x7d; 0x7e; 0x7f;
   0x80; 0x81; 0x82; 0x83; 0x84; 0x85; 0x86; 0x87; 0x88; 0x89; 0x8a; 0x8b; 0x8c; 0x8d; 0x8e; 0x8f;
   0x90; 0x91; 0x92; 0x93; 0x94; 0x95; 0x96; 0x97; 0x98; 0x99; 0x9a; 0x9b; 0x9c; 0x9d; 0x9e; 0x9f;
   0xa0; 0xa1; 0xa2; 0xa3; 0xa4; 0xa5; 0xa6; 0xa7; 0xa8; 0xa9; 0xaa; 0xab; 0xac; 0xad; 0xae; 0xaf;
   0xb0; 0xb1; 0xb2; 0xb3; 0xb4; 0xb5; 0xb6; 0xb7; 0xb8; 0xb9; 0xba; 0xbb; 0xbc; 0xbd; 0xbe; 0xbf;
   0xc0; 0xc1; 0xc2; 0xc3; 0xc4; 0xc5; 0xc6; 0xc7; 0xc8; 0xc9; 0xca; 0xcb; 0xcc; 0xcd; 0xce; 0xcf;
   0xd0; 0xd1; 0xd2; 0xd3; 0xd4; 0xd5; 0xd6; 0xd7; 0xd8; 0xd9; 0xda; 0xdb; 0xdc; 0xdd; 0xde; 0xdf;
   0xe0; 0xe1; 0xe2; 0xe3; 0xe4; 0xe5; 0xe6; 0xe7; 0xe8; 0xe9; 0xea; 0xeb; 0xec; 0xed; 0xee; 0xef;
   0xf0; 0xf1; 0xf2; 0xf3; 0xf4; 0xf5; 0xf6; 0xf7; 0xf8; 0xf9; 0xfa; 0xfb; 0xfc; 0xfd; 0xfe; 0xff].

Definition ASCII_TOUPPER_TABLE : list Z :=
  [0x00; 0x01; 0x02; 0x03; 0x04; 0x05; 0x06; 0x07; 0x08; 0x09; 0x0a; 0x0b; 0x0c; 0x0d; 0x0e; 0x0f;
   0x10; 0x11; 0x12; 0x13; 0x14; 0x15; 0x16; 0x17; 0x18; 0x19; 0x1a; 0x1b; 0x1c; 0x1d; 0x1e; 0x1f;
   0x20; 0x21; 0x22; 0x23; 0x24; 0x25; 0x26; 0x27; 0x28; 0x29; 0x2a; 0x2b; 0x2c; 0x2d; 0x2e; 0x2f;
   0x30; 0x31; 0x32; 0x33; 0x34; 0x35; 0x36; 0x37; 0x38; 0x39; 0x3a; 0x3b; 0x3c; 0x3d; 0x3e; 0x3f;
   0x40; 0x41; 0x42; 0x43; 0x44; 0x45; 0x46; 0x47; 0x48; 0x49; 0x4a; 0x4b; 0x4c; 0x4d; 0x4e; 0x4f;
   0x50; 0x51; 0x52; 0x53; 0x54; 0x55; 0x56; 0x57; 0x58; 0x59; 0x5a; 0x5b; 0x5c; 0x5d; 0x5e; 0x5f;
   0x60; 0x41; 0x42; 0x43; 0x44; 0x45; 0x46; 0x47; 0x48; 0x49; 0x4a; 0x4b; 0x4c; 0x4d; 0x4e; 0x4f;
   0x50; 0x51; 0x52; 0x53; 0x54; 0x55; 0x56; 0x57; 0x58; 0x59; 0x5a; 0x7b; 0x7c; 0x7d; 0x7e; 0x7f;
   0x80; 0x81; 0x82; 0x83; 0x84; 0x85; 0x86; 0x87; 0x88; 0x89; 0x8a; 0x8b; 0x8c; 0x8d; 0x8e; 0x8f;
   0x90; 0x91; 0x92; 0x93; 0x94; 0x95; 0x96; 0x97; 0x98; 0x99; 0x9a; 0x9b; 0x9c; 0x9d; 0x9e; 0x9f;
   0xa0; 0xa1; 0xa2; 0xa3; 0xa4; 0xa5; 0xa6; 0xa7; 0xa8; 0xa9; 0xaa; 0xab; 0xac; 0xad; 0xae; 0xaf;
   0xb0; 0xb1; 0xb2; 0xb3; 0xb4; 0xb5; 0xb6; 0xb7; 0xb8; 0xb9; 0xba; 0xbb; 0xbc; 0xbd; 0xbe; 0xbf;
   0xc0; 0xc1; 0xc2; 0xc3; 0xc4; 0xc5; 0xc6; 0xc7; 0xc8; 0xc9; 0xca; 0xcb; 0xcc; 0xcd; 0xce; 0xcf;
   0xd0; 0xd1; 0xd2; 0xd3; 0xd4; 0xd5; 0xd6; 0xd7; 0xd8; 0xd9; 0xda; 0xdb; 0xdc; 0xdd; 0xde; 0xdf;
   0xe0; 0xe1; 0xe2; 0xe3; 0xe4; 0xe5; 0xe6; 0xe7; 0xe8; 0xe9; 0xea; 0xeb; 0xec; 0xed; 0xee; 0xef;
   0xf0; 0xf1; 0xf2; 0xf3; 0xf4; 0xf5; 0xf6; 0xf7; 0xf8; 0xf9; 0xfa; 0xfb; 0xfc; 0xfd; 0xfe; 0xff].

Definition to_lower (ch : Z) : Z := tab 0 ASCII_TOLOWER_TABLE ch.

Definition to_upper (ch : Z) : Z := tab 0 ASCII_TOUPPER_TABLE ch.

Definition to_lower_str (dest : list Z) : list Z := map to_lower dest.

Definition to_upper_str (dest : list Z) : list Z := map to_upper dest.

Definition HEX_DIGITS : list Z := bytes "0123456789ABCDEF".

Definition hex_digit (n : Z) : Z := tab 0 HEX_DIGITS n.

(** ** Predicates on characters

    The [Category] template calls the [operator ()] of its [Predicate]. *)
Class CharPredicate (P : Type) := call : P -> Z -> bool.

Record CharTable : Type := { table_ : list bool }.

#[export] Instance CharTable_call : CharPredicate CharTable :=
  fun t ch => tab false (table_ t) ch.

Record Char1 : Type := { symbol : Z }.

#[export] Instance Char1_call : CharPredicate Char1 :=
  fun c ch => ch =? symbol c.

Record Char2 : Type := { symbol1 : Z; symbol2 : Z }.

#[export] Instance Char2_call : CharPredicate Char2 :=
  fun c ch => (ch =? symbol1 c) || (ch =? symbol2 c).

Record Char3 : Type := { symbol_1 : Z; symbol_2 : Z; symbol_3 : Z }.

#[export] Instance Char3_call : CharPredicate Char3 :=
  fun c ch => (ch =? symbol_1 c) || (ch =? symbol_2 c) || (ch =? symbol_3 c).

(** *** Construction of a [CharTable] *)

Definition set_char (ch : Z) (t : list bool) : list bool :=
  <[Z.to_nat ch := true]> t.

(** [for (char ch = last; ; ch++) { table_[ch] = true; if (ch == till) break; }]:
    [ch++] wraps around, so 256 rounds reach every [till]. *)
Fixpoint set_char_range (fuel : nat) (ch till : Z) (t : list bool) : list bool :=
  match fuel with
  | O => t
  | S fuel' =>
    let t' := set_char ch t in
    if ch =? till then t' else set_char_range fuel' (u8 (ch + 1)) till t'
  end.

(** The loop of the constructor; [str] is the rest of the zero-terminated
    string, so [str[1]] is non-zero when two characters are left. *)
Fixpoint CharTable_loop (last : Z) (str : list Z) (t : list bool) : list bool :=
  match str with
  | [] => t
  | c :: rest =>
    match rest with
    | till :: rest' =>
      if (c =? "-"%uchar) && negb (last =? 0)
      then CharTable_loop till rest' (set_char_range 256 last till t)
      else CharTable_loop c rest (set_char c t)
    | [] => CharTable_loop c rest (set_char c t)
    end
  end.

Definition CharTable_of_str (str : list Z) (check_zero : bool) : CharTable :=
  let t := replicate 256 false in
  let t := if check_zero then set_char 0 t else t in
  {| table_ := CharTable_loop 0 str t |}.

Definition CharTable_union (first second : CharTable) : CharTable :=
  {| table_ := map (fun i => call first i || call second i) (all_below 256) |}.

Definition CharTable_union3 (first second third : CharTable) : CharTable :=
  {| table_ := map (fun i => call first i || call second i || call third i)
                   (all_below 256) |}.

Definition CharTable_of_predicate (predicate : Z -> bool) : CharTable :=
  {| table_ := map predicate (all_below 256) |}.

(** [isspace] of the C library in the "C" locale. *)
Definition isspace (i : Z) : bool := (i =? 32) || ((9 <=? i) && (i <=? 13)).

Definition ALPHA : CharTable := CharTable_of_str (bytes "A-Za-z") false.
Definition NUMBER : CharTable := CharTable_of_str (bytes "0-9") false.
Definition ALPHA_NUM : CharTable := CharTable_union ALPHA NUMBER.
Definition OCTAL_NUMBER : CharTable := CharTable_of_str (bytes "0-7") false.
Definition HEX_NUMBER : CharTable := CharTable_of_str (bytes "0-9A-Fa-f") false.
Definition SPACE : CharTable := CharTable_of_predicate isspace.
Definition REGEX_META : CharTable :=
  CharTable_of_str (bytes "^.$\|()[]*+?{}") false.

(** ** Searches of a category

    The argument [str] of the one-pointer versions is a zero-terminated
    string; a null result is [None]. *)
Section Category.
Context {P : Type} `{CharPredicate P} (c : P).

Definition is_owned (ch : Z) : bool := call c ch.

(** [for (char ch = CHAR_MIN; ; ch++)] over every [char]. *)
Definition empty : bool :=
  forallb (fun i => negb (is_owned (u8 (i - 128)))) (all_below 256).

Fixpoint find_owned_cstr (str : list Z) : option (list Z) :=
  match str with
  | [] => if is_owned 0 then Some [] else None
  | ch :: str' => if is_owned ch then Some str else find_owned_cstr str'
  end.

Fixpoint find_owned (str : list Z) : list Z :=
  match str with
  | [] => []
  | ch :: str' => if is_owned ch then str else find_owned str'
  end.

Fixpoint find_nonowned_cstr (str : list Z) : option (list Z) :=
  match str with
  | [] => if negb (is_owned 0) then Some [] else None
  | ch :: str' => if negb (is_owned ch) then Some str else find_nonowned_cstr str'
  end.

Fixpoint find_nonowned (str : list Z) : list Z :=
  match str with
  | [] => []
  | ch :: str' => if negb (is_owned ch) then str else find_nonowned str'
  end.

(** The backward searches look at [[start, pos)], given as [str], from its
    end; the result is the offset from [start], and [length str] is [pos]. *)
Fixpoint rfind_loop (test : Z -> bool) (rev_str : list Z) : option nat :=
  match rev_str with
  | [] => None
  | ch :: rev_str' =>
    if test ch then Some (length rev_str') else rfind_loop test rev_str'
  end.

Definition rfind_owned (str : list Z) : nat :=
  default (length str) (rfind_loop is_owned (rev str)).

Definition rfind_nonowned (str : list Z) : nat :=
  default (length str) (rfind_loop (fun ch => negb (is_owned ch)) (rev str)).

(** ** [flatten]

    [dest] is resized to [cap] characters and written through [out]; a write
    past the end is undefined. *)
Definition emit (cap : nat) (out src : list Z) : outcome (list Z) :=
  if (length out + length src <=? cap)%nat then Ret (out ++ src) else Undef.

Fixpoint flatten_loop (fuel cap : nat) (replacement first out : list Z)
  : outcome (list Z) :=
  match fuel with
  | O => Undef
  | S fuel' =>
    match first with
    | [] => Ret out
    | _ =>
      let current := find_owned first in
      let* out := emit cap out (range first current) in
      match current with
      | [] => Ret out
      | _ =>
        let* out := emit cap out replacement in
        flatten_loop fuel' cap replacement (find_nonowned current) out
      end
    end
  end.

Definition flatten (str replacement : list Z) : outcome (list Z) :=
  let repl_size := length replacement in
  let cap := (length str * (if (repl_size =? 0)%nat then 1 else repl_size))%nat in
  flatten_loop (S (length str)) cap replacement str [].
End Category.

(** ** Caseless comparison *)

(** The stored string is [this]; the table holds [char]s, so the differences
    are those of signed characters. *)
Fixpoint Caseless_compare_loop (str1 str2 : list Z) : Z :=
  match str1, str2 with
  | c1 :: s1, c2 :: s2 =>
    let result := s8 (to_lower c1) - s8 (to_lower c2) in
    if negb (result =? 0) then result else Caseless_compare_loop s1 s2
  | _, _ => 0
  end.

Definition Caseless_compare (this str : list Z) : Z :=
  let result := Caseless_compare_loop this str in
  if negb (result =? 0) then result
  else if (length this =? length str)%nat then 0
  else if (length this <? length str)%nat then -1 else 1.

Fixpoint Caseless_equal_loop (str1 str2 : list Z) : bool :=
  match str1, str2 with
  | c1 :: s1, c2 :: s2 =>
    if to_lower c1 =? to_lower c2 then Caseless_equal_loop s1 s2 else false
  | _, _ => true
  end.

Definition Caseless_equal (this str : list Z) : bool :=
  if negb (length str =? length this)%nat then false
  else Caseless_equal_loop str this.

Definition Caseless_start (this str : list Z) : bool :=
  Caseless_equal this (take (length this) str).

(** ** Hexadecimal digits *)

Definition hex_to_int (ch : Z) : Z :=
  u8 (if s8 ch <=? "9"%uchar then s8 ch - "0"%uchar
      else Z.land (s8 ch) 0x0F + 9).

Definition hex_to_char (major minor : Z) : Z :=
  u8 (Z.lor (Z.shiftl (hex_to_int major) 4) (hex_to_int minor)).

(** [width] is [sizeof (Integer) * 8]; [data] holds at least [width / 4]
    digits. *)
Fixpoint hex_to_integer_loop (n : nat) (width i : Z) (data : list Z) (value : Z)
  : outcome Z :=
  match n with
  | O => Ret value
  | S n' =>
    match data with
    | d1 :: d2 :: data' =>
      let value := Z.lor value (Z.shiftl (hex_to_int d1) (i + 4) mod 2 ^ width) in
      let value := Z.lor value (Z.shiftl (hex_to_int d2) i mod 2 ^ width) in
      hex_to_integer_loop n' width (i + 8) data' value
    | _ => Undef
    end
  end.

Definition hex_to_integer (size : nat) (data : list Z) : outcome Z :=
  hex_to_integer_loop size (8 * Z.of_nat size) 0 data 0.

Fixpoint hex_to_buf (data : list Z) : outcome (list Z) :=
  match data with
  | [] => Ret []
  | [_] => Undef
  | d1 :: d2 :: data' =>
    let* buf := hex_to_buf data' in Ret (hex_to_char d1 d2 :: buf)
  end.

(** ** The tables *)

(** Only the capital Latin letters are changed by [to_lower]. *)
Lemma to_lower_spec b :
  is_byte b ->
  to_lower b = (if ("A"%uchar <=? b) && (b <=? "Z"%uchar) then b + 32 else b).
Proof. intros Hb. apply Z.eqb_eq. byte_eval b. Qed.

Lemma to_upper_spec b :
  is_byte b ->
  to_upper b = (if ("a"%uchar <=? b) && (b <=? "z"%uchar) then b - 32 else b).
Proof. intros Hb. apply Z.eqb_eq. byte_eval b. Qed.

Lemma to_lower_byte b : is_byte b -> is_byte (to_lower b).
Proof. intros Hb. apply byteb_spec. byte_eval b. Qed.

Lemma to_upper_byte b : is_byte b -> is_byte (to_upper b).
Proof. intros Hb. apply byteb_spec. byte_eval b. Qed.

#[export] Hint Resolve to_lower_byte to_upper_byte : unixcommons.

(** ** Searches *)

Section CategoryFacts.
Context {P : Type} `{CharPredicate P} (c : P).

Lemma find_owned_split str :
  exists pre, str = pre ++ find_owned c str /\
    Forall (fun x => is_owned c x = false) pre /\
    forall x t, find_owned c str = x :: t -> is_owned c x = true.
Proof.
  induction str as [|x str IH]; simpl.
  - exists []. split; [reflexivity|]. split; [constructor|]. discriminate.
  - destruct (is_owned c x) eqn:E.
    + exists []. split; [reflexivity|]. split; [constructor|]. congruence.
    + destruct IH as (pre & Hs & Hp & Hh). exists (x :: pre).
      simpl. rewrite <- Hs. auto.
Qed.

Lemma find_nonowned_split str :
  exists pre, str = pre ++ find_nonowned c str /\
    Forall (fun x => is_owned c x = true) pre /\
    forall x t, find_nonowned c str = x :: t -> is_owned c x = false.
Proof.
  induction str as [|x str IH]; simpl.
  - exists []. split; [reflexivity|]. split; [constructor|]. discriminate.
  - destruct (is_owned c x) eqn:E; simpl.
    + destruct IH as (pre & Hs & Hp & Hh). exists (x :: pre).
      simpl. rewrite <- Hs. auto.
    + exists []. split; [reflexivity|]. split; [constructor|]. congruence.
Qed.

(** *** [flatten] against its specification *)

(** Every maximal run of owned characters becomes one [replacement];
    [in_run] tells whether the previous character was owned. *)
Fixpoint flatten_spec (replacement : list Z) (in_run : bool) (s : list Z) : list Z :=
  match s with
  | [] => []
  | x :: s' =>
    if is_owned c x
    then (if in_run then [] else replacement) ++ flatten_spec replacement true s'
    else x :: flatten_spec replacement false s'
  end.

Lemma flatten_spec_nonowned repl r pre s :
  Forall (fun x => is_owned c x = false) pre ->
  flatten_spec repl r (pre ++ s) =
  pre ++ flatten_spec repl (match pre with [] => r | _ => false end) s.
Proof.
  intros Hp. revert r. induction Hp as [|x pre Hx Hp IH]; intros r; simpl.
  - reflexivity.
  - rewrite Hx, IH. simpl. destruct pre; reflexivity.
Qed.

Lemma flatten_spec_run repl pre s :
  Forall (fun x => is_owned c x = true) pre ->
  flatten_spec repl true (pre ++ s) = flatten_spec repl true s.
Proof. induction 1 as [|x pre Hx Hp IH]; simpl; [done|]. by rewrite Hx, IH. Qed.

Lemma flatten_spec_head repl s :
  (forall x t, s = x :: t -> is_owned c x = false) ->
  flatten_spec repl true s = flatten_spec repl false s.
Proof. destruct s as [|x s]; simpl; [done|]. intros Hh. by rewrite (Hh x s). Qed.

Lemma emit_fits cap out src :
  (length out + length src <= cap)%nat -> emit cap out src = Ret (out ++ src).
Proof. intros Hl. unfold emit. apply Nat.leb_le in Hl. by rewrite Hl. Qed.

Lemma flatten_loop_correct repl k : (1 <= k)%nat -> (length repl <= k)%nat ->
  forall fuel cap first out,
  (length first < fuel)%nat -> (length out + length first * k <= cap)%nat ->
  flatten_loop c fuel cap repl first out = Ret (out ++ flatten_spec repl false first).
Proof.
  intros Hk Hr. induction fuel as [|fuel IH]; intros cap first out Hf Hc; [lia|].
  destruct first as [|x0 first0] eqn:Ef; [simpl; by rewrite app_nil_r|].
  rewrite <- Ef in *. cbn [flatten_loop]. rewrite Ef at 1.
  destruct (find_owned_split first) as (pre & Hs & Hp & Hh).
  revert Hs Hh. generalize (find_owned c first) as cur. intros cur Hs Hh.
  rewrite Hs, range_app, flatten_spec_nonowned by done.
  assert (Hlen : length first = (length pre + length cur)%nat)
    by (rewrite Hs; apply length_app).
  rewrite emit_fits by nia. cbn [obind].
  destruct cur as [|y cur]; [simpl; by rewrite app_nil_r|].
  rewrite emit_fits by (rewrite length_app; simpl in *; nia). cbn [obind].
  destruct (find_nonowned_split (y :: cur)) as (run & Hs2 & Hp2 & Hh2).
  revert Hs2 Hh2. generalize (find_nonowned c (y :: cur)) as nxt. intros nxt Hs2 Hh2.
  destruct run as [|y' run].
  { simpl in Hs2. subst nxt. specialize (Hh _ _ eq_refl).
    specialize (Hh2 _ _ eq_refl). congruence. }
  assert (Hl2 : length (y :: cur) = (S (length run) + length nxt)%nat)
    by (rewrite Hs2, length_app; reflexivity).
  rewrite IH by (rewrite ?length_app; nia).
  f_equal. rewrite Hs2. cbn [flatten_spec app].
  inversion Hp2 as [|? ? Hy Hrun]; subst. rewrite Hy.
  rewrite flatten_spec_run, flatten_spec_head by done.
  replace (if match pre with [] => false | _ => false end then [] else repl)
    with repl by (destruct pre; reflexivity).
  by rewrite !app_assoc.
Qed.
End CategoryFacts.

(** ** The contents of a [CharTable] *)

(** The characters from [lo] up to [hi], counted around the end of the
    character range when [hi] is below [lo]. *)
Definition in_span (b : Z) (lohi : Z * Z) : bool :=
  (b - lohi.1) mod 256 <=? (lohi.2 - lohi.1) mod 256.

(** What the constructor string denotes: a dash that has a character before
    and after it makes a range, and the character after it may start the next
    one; everything else stands for itself. *)
Fixpoint spans (last : Z) (str : list Z) : list (Z * Z) :=
  match str with
  | [] => []
  | c :: rest =>
    match rest with
    | till :: rest' =>
      if (c =? "-"%uchar) && negb (last =? 0)
      then (last, till) :: spans till rest'
      else (c, c) :: spans c rest
    | [] => [(c, c)]
    end
  end.

Lemma set_char_spec ch t b :
  is_byte ch -> is_byte b -> length t = 256%nat ->
  length (set_char ch t) = 256%nat /\
  tab false (set_char ch t) b = (b =? ch) || tab false t b.
Proof.
  unfold is_byte. intros Hc Hb Hl. unfold set_char.
  split; [by rewrite length_insert|]. unfold tab.
  rewrite !nth_lookup. destruct (Z.eqb_spec b ch) as [->|Hne].
  - rewrite list_lookup_insert_eq by lia. reflexivity.
  - rewrite list_lookup_insert_ne by lia. reflexivity.
Qed.

Lemma in_span_single b ch : is_byte b -> is_byte ch -> in_span b (ch, ch) = (b =? ch).
Proof.
  unfold is_byte, in_span. simpl. intros. rewrite Z.sub_diag. change (0 mod 256) with 0.
  destruct (Z.eqb_spec b ch) as [->|]; [by rewrite Z.sub_diag|].
  apply Z.leb_gt. Z.div_mod_to_equations. lia.
Qed.

Lemma in_span_step b ch till :
  is_byte b -> is_byte ch -> is_byte till -> ch <> till ->
  in_span b (ch, till) = (b =? ch) || in_span b (u8 (ch + 1), till).
Proof.
  unfold is_byte, in_span, u8. simpl. intros.
  apply eq_iff_eq_true. rewrite orb_true_iff, Z.eqb_eq, !Z.leb_le.
  change (2 ^ 8) with 256. Z.div_mod_to_equations. lia.
Qed.

Lemma set_char_range_spec b till :
  is_byte b -> is_byte till ->
  forall fuel ch t, is_byte ch -> length t = 256%nat ->
  (till - ch) mod 256 < Z.of_nat fuel ->
  length (set_char_range fuel ch till t) = 256%nat /\
  tab false (set_char_range fuel ch till t) b = in_span b (ch, till) || tab false t b.
Proof.
  intros Hb Ht. induction fuel as [|fuel IH]; intros ch t Hc Hl Hf.
  - pose proof (Z.mod_pos_bound (till - ch) 256). lia.
  - cbn [set_char_range].
    destruct (set_char_spec ch t b Hc Hb Hl) as [Hl' Ht'].
    destruct (Z.eqb_spec ch till) as [->|Hne].
    { rewrite in_span_single by done. auto. }
    destruct (IH (u8 (ch + 1)) (set_char ch t)) as [Hl2 Ht2];
      [apply u8_byte|done| |].
    { unfold u8, is_byte in *. change (2 ^ 8) with 256. Z.div_mod_to_equations. lia. }
    rewrite Hl2, Ht2, Ht', (in_span_step b ch till) by done. split; [done|].
    by rewrite orb_assoc, (orb_comm (in_span _ _) (b =? ch)).
Qed.

Lemma CharTable_loop_cons last c till rest t :
  CharTable_loop last (c :: till :: rest) t =
  (if (c =? "-"%uchar) && negb (last =? 0)
   then CharTable_loop till rest (set_char_range 256 last till t)
   else CharTable_loop c (till :: rest) (set_char c t)).
Proof. reflexivity. Qed.

Lemma spans_cons last c till rest :
  spans last (c :: till :: rest) =
  (if (c =? "-"%uchar) && negb (last =? 0)
   then (last, till) :: spans till rest
   else (c, c) :: spans c (till :: rest)).
Proof. reflexivity. Qed.

Lemma CharTable_loop_spec b : is_byte b ->
  forall str last t, cstring str -> is_byte last -> length t = 256%nat ->
  length (CharTable_loop last str t) = 256%nat /\
  tab false (CharTable_loop last str t) b =
  existsb (in_span b) (spans last str) || tab false t b.
Proof.
  intros Hb str. remember (length str) as n eqn:En.
  assert (Hn : (length str <= n)%nat) by lia. clear En. revert str Hn.
  induction n as [|n IH]; intros str Hn last t Hs Hlast Hl.
  { destruct str; [auto|simpl in Hn; lia]. }
  destruct str as [|c [|till rest]].
  - auto.
  - inversion Hs as [|? ? Hc ?]; subst. apply is_cchar_byte in Hc.
    cbn [CharTable_loop spans existsb].
    rewrite in_span_single, orb_false_r by done. by apply set_char_spec.
  - inversion Hs as [|? ? Hc Hs']; subst. inversion Hs' as [|? ? Ht Hs'']; subst.
    apply is_cchar_byte in Hc, Ht. rewrite CharTable_loop_cons, spans_cons.
    destruct ((c =? "-"%uchar) && negb (last =? 0)).
    + destruct (set_char_range_spec b till Hb Ht 256 last t) as [Hl1 Ht1];
        [done|done| |].
      { pose proof (Z.mod_pos_bound (till - last) 256). lia. }
      destruct (IH rest ltac:(simpl in Hn; lia) till _ Hs'' Ht Hl1) as [Hl2 Ht2].
      rewrite Hl2, Ht2, Ht1. split; [done|]. cbn [existsb].
      by rewrite orb_assoc, (orb_comm (in_span b (last, till))).
    + destruct (set_char_spec c t b Hc Hb Hl) as [Hl1 Ht1].
      destruct (IH (till :: rest) ltac:(simpl in *; lia) c _ Hs' Hc Hl1) as [Hl2 Ht2].
      rewrite Hl2, Ht2, Ht1. split; [done|]. cbn [existsb].
      by rewrite in_span_single, orb_assoc, (orb_comm (b =? c)) by done.
Qed.

(** What a table holds. *)
Lemma CharTable_of_str_owned (str : list Z) (check_zero : bool) (b : Z) :
  cstring str -> is_byte b ->
  is_owned (CharTable_of_str str check_zero) b =
  existsb (in_span b) (spans 0 str) || (check_zero && (b =? 0)).
Proof.
  intros Hs Hb. unfold is_owned, call, CharTable_call, CharTable_of_str, table_.
  assert (Hr : length (replicate 256 false) = 256%nat) by reflexivity.
  assert (Hz : tab false (replicate 256 false) b = false)
    by (apply negb_true_iff; byte_eval b).
  assert (H0 : is_byte 0) by (unfold is_byte; lia).
  destruct check_zero; cbn [andb].
  - destruct (set_char_spec 0 _ b H0 Hb Hr) as [Hl Ht].
    destruct (CharTable_loop_spec b Hb str 0 _ Hs H0 Hl) as [_ ->].
    by rewrite Ht, Hz, orb_false_r.
  - destruct (CharTable_loop_spec b Hb str 0 _ Hs H0 Hr) as [_ ->]. by rewrite Hz.
Qed.

(** ** Caseless comparison *)

Lemma Caseless_equal_loop_spec s1 s2 :
  length s1 = length s2 ->
  Caseless_equal_loop s1 s2 = true <-> to_lower_str s1 = to_lower_str s2.
Proof.
  revert s2. induction s1 as [|a s1 IH]; intros [|b s2] Hl; simpl in *; try done.
  case_Z; [|split; congruence].
  rewrite IH by lia. split; congruence.
Qed.

Lemma s8_inj a b : is_byte a -> is_byte b -> s8 a = s8 b -> a = b.
Proof.
  intros Ha Hb. rewrite !s8_val by done. unfold is_byte in *. repeat case_Z; lia.
Qed.

Lemma Caseless_compare_loop_zero s1 s2 :
  bytes_ok s1 -> bytes_ok s2 -> length s1 = length s2 ->
  Caseless_compare_loop s1 s2 = 0 <-> to_lower_str s1 = to_lower_str s2.
Proof.
  revert s2. induction s1 as [|a s1 IH]; intros [|b s2] H1 H2 Hl; simpl in *; try done.
  inversion H1; inversion H2; subst. case_Z; simpl.
  - rewrite IH by (done || lia). split; [|congruence]. intros ->. f_equal.
    apply s8_inj; [auto with unixcommons..|lia].
  - split; [done|]. injection 1 as Heq _. rewrite Heq in *. lia.
Qed.

Lemma Caseless_compare_loop_antisym s1 s2 :
  Caseless_compare_loop s2 s1 = - Caseless_compare_loop s1 s2.
Proof.
  revert s2. induction s1 as [|a s1 IH]; intros [|b s2]; simpl; try done.
  rewrite IH. repeat case_Z; simpl; lia.
Qed.

(** ** Hexadecimal digits *)

Lemma hex_digit_byte n : 0 <= n < 16 -> is_byte (hex_digit n).
Proof. intros Hn. apply byteb_spec. revert n Hn. by apply (forall_below 16). Qed.

Lemma hex_to_int_digit n : 0 <= n < 16 -> hex_to_int (hex_digit n) = n.
Proof. intros Hn. apply Z.eqb_eq. revert n Hn. by apply (forall_below 16). Qed.

Lemma HEX_NUMBER_digit n : 0 <= n < 16 -> is_owned HEX_NUMBER (hex_digit n) = true.
Proof. revert n. by apply (forall_below 16). Qed.

(** Two digits written by the encoders read back as the byte. *)
Lemma hex_to_char_digits b :
  is_byte b ->
  hex_to_char (hex_digit (Z.land (Z.shiftr b 4) 0x0F)) (hex_digit (Z.land b 0x0F)) = b.
Proof. intros Hb. apply Z.eqb_eq. byte_eval b. Qed.

(** The [n] low digits of [u], the most significant first. *)
Fixpoint hexd (n : nat) (u : Z) : list Z :=
  match n with
  | O => []
  | S n' => hex_digit (u / 16 ^ Z.of_nat n' mod 16) :: hexd n' u
  end.

Lemma length_hexd n u : length (hexd n u) = n.
Proof. induction n as [|n IH]; simpl; congruence. Qed.

Lemma hexd_digit u n : 0 <= u / 16 ^ Z.of_nat n mod 16 < 16.
Proof. apply Z.mod_pos_bound. lia. Qed.

(** A number in hexadecimal is the value of its digits. *)
Lemma hexd_value u n : forall value, 0 <= u ->
  fold_left (fun v d => v * 16 + hex_to_int d) (hexd n u) value =
  value * 16 ^ Z.of_nat n + u mod 16 ^ Z.of_nat n.
Proof.
  induction n as [|n IH]; intros value Hu.
  - cbn [hexd fold_left]. rewrite Z.mod_1_r. lia.
  - cbn [hexd fold_left]. rewrite hex_to_int_digit, IH by (done || apply hexd_digit).
    rewrite Nat2Z.inj_succ, Z.pow_succ_r by lia.
    rewrite (Z.mul_comm 16 (16 ^ _)), Z.rem_mul_r by lia. ring.
Qed.

(** ** Properties *)

(** [flatten] terminates, never writes past the buffer it has resized
    [dest] to, and replaces exactly the maximal runs of owned characters by
    one [replacement], for every category and every string. *)
Theorem flatten_correct {P : Type} `{CharPredicate P} (c : P) (str replacement : list Z) :
  flatten c str replacement = Ret (flatten_spec c replacement false str).
Proof.
  unfold flatten.
  rewrite (flatten_loop_correct c replacement
    (if (length replacement =? 0)%nat then 1%nat else length replacement));
    [reflexivity| | |lia|simpl; lia];
    destruct (Nat.eqb_spec (length replacement) 0); lia.
Qed.

(** The table built from a string holds exactly the characters the string
    denotes (single characters and dash ranges), and the zero character when
    asked for. *)
Theorem CharTable_of_str_spec (str : list Z) (check_zero : bool) (b : Z) :
  cstring str -> is_byte b ->
  is_owned (CharTable_of_str str check_zero) b =
  existsb (in_span b) (spans 0 str) || (check_zero && (b =? 0)).
Proof. apply CharTable_of_str_owned. Qed.

Lemma CharTable_of_str_spec_witness :
  is_owned (CharTable_of_str (bytes "A-Fx-") false) "-"%uchar = true.
Proof.
  rewrite CharTable_of_str_spec.
  - reflexivity.
  - by_eval.
  - by_eval.
Defined.

(** [Caseless::equal] and [Caseless::compare] agree: both decide equality
    up to the case of Latin letters, and [compare] changes sign with the order
    of its arguments. *)
Theorem Caseless_compare_equal (a b : list Z) :
  bytes_ok a -> bytes_ok b ->
  (Caseless_compare a b = 0 <-> to_lower_str a = to_lower_str b) /\
  (Caseless_equal a b = true <-> to_lower_str a = to_lower_str b) /\
  Z.sgn (Caseless_compare b a) = - Z.sgn (Caseless_compare a b).
Proof.
  intros Ha Hb.
  assert (Hlen : to_lower_str a = to_lower_str b -> length a = length b).
  { intros E. apply (f_equal length) in E. unfold to_lower_str in E.
    by rewrite !length_map in E. }
  split; [|split].
  - unfold Caseless_compare. case_Z; cbn [negb].
    + destruct (Nat.eqb_spec (length a) (length b)) as [Hl|Hl].
      * rewrite <- Caseless_compare_loop_zero by done. tauto.
      * destruct (Nat.ltb_spec (length a) (length b)); (split; [done|tauto]).
    + split; [done|]. intros E. apply Caseless_compare_loop_zero in E; auto.
  - unfold Caseless_equal. destruct (Nat.eqb_spec (length b) (length a)) as [Hl|Hl]; cbn [negb].
    + rewrite Caseless_equal_loop_spec by done. split; congruence.
    + split; [done|]. intros E. apply Hlen in E. lia.
  - unfold Caseless_compare. rewrite Caseless_compare_loop_antisym.
    destruct (Z.eqb_spec (- Caseless_compare_loop a b) 0),
      (Z.eqb_spec (Caseless_compare_loop a b) 0); cbn [negb]; try lia.
    destruct (Nat.eqb_spec (length b) (length a)), (Nat.eqb_spec (length a) (length b)),
      (Nat.ltb_spec (length b) (length a)), (Nat.ltb_spec (length a) (length b)); simpl; lia.
Qed.

Lemma Caseless_compare_equal_witness :
  Caseless_equal (bytes "Sunday") (bytes "sUNDAY") = true.
Proof.
  apply (Caseless_compare_equal (bytes "Sunday") (bytes "sUNDAY")).
  - by_eval.
  - by_eval.
  - by_eval.
Defined.
