(* ===== verification/Utf8.v ===== *)
(** * Utf8: UTF-8 sequences and code points

    Models [src/String/UTF8Handler.hpp] and the conversions between UTF-8 and
    wide strings of [src/String/StringManip.cpp] and [.ipp]. A [const char*]
    argument is the memory readable from the pointer on (for a zero-terminated
    string: its characters and the terminator); a read past it is [Undef]. *)
From S2P Require Import Prelude.
Local Open Scope Z_scope.
Local Open Scope outcome_scope.

(** ** [UTF8Handler] *)

(** [octets_count] is the second component of the result. *)
Definition is_correct_utf8_sequence (src : list Z) : outcome (bool * Z) :=
  let* B1 := rd src 0 in
  if B1 <=? 0x7F then Ret (true, 1)
  else if (B1 <? 0xC2) || (0xF4 <? B1) then Ret (false, 0)
  else
    let* B2 := rd src 1 in
    if B1 <=? 0xDF then
      if Z.land B2 0xC0 =? 0x80 then Ret (true, 2) else Ret (false, 0)
    else
      let second :=
        if B1 =? 0xE0 then Z.land B2 0xE0 =? 0xA0
        else if B1 =? 0xED then Z.land B2 0xE0 =? 0x80
        else if B1 =? 0xF0 then (0x90 <=? B2) && (B2 <=? 0xBF)
        else if B1 =? 0xF4 then Z.land B2 0xF0 =? 0x80
        else if B1 <=? 0xEF then Z.land B2 0xC0 =? 0x80
        else Z.land B2 0xC0 =? 0x80 in
      if negb second then Ret (false, 0)
      else if B1 <? 0xF0 then
        let* B3 := rd src 2 in
        if negb (Z.land B3 0xC0 =? 0x80) then Ret (false, 0) else Ret (true, 3)
      else
        let* B4 := rd src 3 in
        if negb (Z.land B4 0xC0 =? 0x80) then Ret (false, 0) else Ret (true, 4).

(** The result is [None] for the null pointer and otherwise the memory from
    the first invalid sequence on. *)
Fixpoint is_correct_utf8_string_loop (fuel : nat) (str : list Z)
  : outcome (option (list Z)) :=
  match fuel with
  | O => Undef
  | S fuel' =>
    let* ch := rd str 0 in
    if ch =? 0 then Ret None
    else
      let* (ok, octets_count) := is_correct_utf8_sequence str in
      if negb ok then Ret (Some str)
      else is_correct_utf8_string_loop fuel' (drop (Z.to_nat octets_count) str)
  end.

Definition is_correct_utf8_string (str : list Z) : outcome (option (list Z)) :=
  is_correct_utf8_string_loop (S (length str)) str.

Definition TRAILING_BYTES_FOR_UTF8 : list Z :=
  replicate 128 1 ++ replicate 64 0 ++
  [0; 0] ++ replicate 30 2 ++
  replicate 16 3 ++ replicate 8 4 ++ replicate 4 5 ++ replicate 2 6 ++ [0; 0].

Definition get_octet_count (ch : Z) : Z := tab 0 TRAILING_BYTES_FOR_UTF8 ch.

Definition FIRST_BYTE_MASKS : list Z := [0; 0x7F; 0x1F; 0x0F; 0x07; 0x03; 0x01].

(** The loop over the [n] continuation octets; the result carries [dest]. *)
Fixpoint utf8_char_to_wchar_loop (n : nat) (src : list Z) (dest : Z)
  : outcome (bool * Z) :=
  match n with
  | O => Ret (true, dest)
  | S n' =>
    let* CH := rd src 0 in
    if negb (Z.land CH 0xC0 =? 0x80) then Ret (false, dest)
    else utf8_char_to_wchar_loop n' (drop 1 src)
           (Z.lor (Z.shiftl dest 6) (Z.land CH 0x3F))
  end.

Definition utf8_char_to_wchar (src : list Z) (octets_count : Z) : outcome (bool * Z) :=
  if negb (octets_count =? 0) && (octets_count <=? 6) then
    let* CH := rd src 0 in
    utf8_char_to_wchar_loop (Z.to_nat (octets_count - 1)) (drop 1 src)
      (Z.land CH (tab 0 FIRST_BYTE_MASKS octets_count))
  else Ret (false, 0).

(** [(x & 0x0000003F) | 0x00000080] *)
Definition utf8_tail (x : Z) : Z := Z.lor (Z.land x 0x3F) 0x80.

(** The octets stored into [dest_buff]; [None] is the result [false]. *)
Definition ulong_to_utf8_char (ul4wc : Z) : option (list Z) :=
  if ul4wc <? 0x80 then Some [Z.land ul4wc 0x7F]
  else if ul4wc <? 0x800 then
    Some [Z.lor (Z.land (Z.shiftr ul4wc 6) 0x1F) 0xC0; utf8_tail ul4wc]
  else if ul4wc <? 0x10000 then
    Some [Z.lor (Z.land (Z.shiftr ul4wc 12) 0x0F) 0xE0;
          utf8_tail (Z.shiftr ul4wc 6); utf8_tail ul4wc]
  else if ul4wc <? 0x200000 then
    Some [Z.lor (Z.land (Z.shiftr ul4wc 18) 0x07) 0xF0;
          utf8_tail (Z.shiftr ul4wc 12); utf8_tail (Z.shiftr ul4wc 6);
          utf8_tail ul4wc]
  else if ul4wc <? 0x4000000 then
    Some [Z.lor (Z.land (Z.shiftr ul4wc 24) 0x03) 0xF8;
          utf8_tail (Z.shiftr ul4wc 18); utf8_tail (Z.shiftr ul4wc 12);
          utf8_tail (Z.shiftr ul4wc 6); utf8_tail ul4wc]
  else if ul4wc <? 0x80000000 then
    Some [Z.lor (Z.land (Z.shiftr ul4wc 30) 0x01) 0xFC;
          utf8_tail (Z.shiftr ul4wc 24); utf8_tail (Z.shiftr ul4wc 18);
          utf8_tail (Z.shiftr ul4wc 12); utf8_tail (Z.shiftr ul4wc 6);
          utf8_tail ul4wc]
  else None.

(** The same up to four octets; a negative [wchar_t] becomes a large
    [unsigned long]. *)
Definition wchar_to_utf8_char (src : Z) : option (list Z) :=
  let ul4wc := u64 src in
  if ul4wc <? 0x80 then Some [Z.land ul4wc 0x7F]
  else if ul4wc <? 0x800 then
    Some [Z.lor (Z.land (Z.shiftr ul4wc 6) 0x1F) 0xC0; utf8_tail ul4wc]
  else if ul4wc <? 0x10000 then
    Some [Z.lor (Z.land (Z.shiftr ul4wc 12) 0x0F) 0xE0;
          utf8_tail (Z.shiftr ul4wc 6); utf8_tail ul4wc]
  else if ul4wc <? 0x200000 then
    Some [Z.lor (Z.land (Z.shiftr ul4wc 18) 0x07) 0xF0;
          utf8_tail (Z.shiftr ul4wc 12); utf8_tail (Z.shiftr ul4wc 6);
          utf8_tail ul4wc]
  else None.

(** [src] is the position [pos] of [buf] and [limit] a position of it or the
    null pointer. The result is [None] for [false] and otherwise
    [octets_count] and [distance]. *)
Fixpoint distance_loop (buf : list Z) (limit : option nat) (p : nat)
  : outcome (option nat) :=
  let* ch := rd buf p in
  if Z.land ch 0xC0 =? 0x80 then
    if match limit with Some l => (p =? l)%nat | None => false end then Ret None
    else match p with
         | O => Undef
         | S p' => distance_loop buf limit p'
         end
  else Ret (Some p).

Definition distance_to_sequence_beginning (buf : list Z) (pos : nat) (limit : option nat)
  : outcome (option (Z * Z)) :=
  let* ch := rd buf pos in
  if Z.land ch 0x80 =? 0 then Ret (Some (1, 0))
  else
    let* r := distance_loop buf limit pos in
    match r with
    | None => Ret None
    | Some p =>
      let distance := Z.of_nat (pos - p) in
      let* lead := rd buf p in
      let octets_count := get_octet_count lead in
      if (octets_count =? 0) || (octets_count <=? distance) then Ret None
      else Ret (Some (octets_count, distance))
    end.

(** ** Strings of [StringManip] *)

(** [wchar_to_utf8 (wchar_t, std::string&)]: the octets appended to the
    string. Values from [0x80000000] on (negative [wchar_t]) take the last
    branch too. *)
Definition wchar_to_utf8 (src : Z) : list Z :=
  let ucs4_char := u32 src in
  if ucs4_char <? 0x80 then [Z.land ucs4_char 0x7F]
  else if ucs4_char <? 0x10000 then
    if ucs4_char <? 0x800 then
      [Z.lor (Z.land (Z.shiftr ucs4_char 6) 0x1F) 0xC0; utf8_tail ucs4_char]
    else
      [Z.lor (Z.land (Z.shiftr ucs4_char 12) 0x0F) 0xE0;
       utf8_tail (Z.shiftr ucs4_char 6); utf8_tail ucs4_char]
  else if ucs4_char <? 0x200000 then
    [Z.lor (Z.land (Z.shiftr ucs4_char 18) 0x07) 0xF0;
     utf8_tail (Z.shiftr ucs4_char 12); utf8_tail (Z.shiftr ucs4_char 6);
     utf8_tail ucs4_char]
  else if ucs4_char <? 0x4000000 then
    [Z.lor (Z.land (Z.shiftr ucs4_char 24) 0x03) 0xF8;
     utf8_tail (Z.shiftr ucs4_char 18); utf8_tail (Z.shiftr ucs4_char 12);
     utf8_tail (Z.shiftr ucs4_char 6); utf8_tail ucs4_char]
  else
    [Z.lor (Z.land (Z.shiftr ucs4_char 30) 0x01) 0xFC;
     utf8_tail (Z.shiftr ucs4_char 24); utf8_tail (Z.shiftr ucs4_char 18);
     utf8_tail (Z.shiftr ucs4_char 12); utf8_tail (Z.shiftr ucs4_char 6);
     utf8_tail ucs4_char].

(** [wchar_to_utf8 (const WSubString&, std::string&)] *)
Fixpoint wchar_to_utf8_str (src : list Z) : list Z :=
  match src with
  | [] => []
  | w :: src' => wchar_to_utf8 w ++ wchar_to_utf8_str src'
  end.

Definition err_incomplete : exn :=
  InvalidFormatException "Incomplete octet sequence in UTF-8 string".
Definition err_octet : exn :=
  InvalidFormatException "Invalid octet in UTF-8 string".

(** [dst] has [src.size() + 1] elements; the terminating zero is left out. *)
Fixpoint utf8_to_wchar_loop (fuel : nat) (cur : list Z) : outcome (list Z) :=
  match fuel with
  | O => Undef
  | S fuel' =>
    match cur with
    | [] => Ret []
    | ch :: _ =>
      let length := get_octet_count ch in
      if Z.of_nat (List.length cur) <? length then Throw err_incomplete
      else if length =? 0 then Throw err_octet
      else
        let* (ok, wch) := utf8_char_to_wchar cur length in
        if negb ok then Throw err_octet
        else
          let* rest := utf8_to_wchar_loop fuel' (drop (Z.to_nat length) cur) in
          Ret (wch :: rest)
    end
  end.

Definition utf8_to_wchar (src : list Z) : outcome (list Z) :=
  utf8_to_wchar_loop (S (length src)) src.

(** The continuation octets of one character: [n] of them from [length_]. *)
Fixpoint utf8_substr_tail (src : list Z) (n : nat) (length_ : nat)
  : outcome (option nat) :=
  match n with
  | O => Ret (Some length_)
  | S n' =>
    let* ch := rd src length_ in
    if negb (Z.land ch 0xC0 =? 0x80) then Ret None
    else utf8_substr_tail src n' (S length_)
  end.

Fixpoint utf8_substr_loop (fuel : nat) (src : list Z) (max_octets : Z) (length_ : nat)
  : outcome (option nat) :=
  match fuel with
  | O => Undef
  | S fuel' =>
    if negb (max_octets =? 0) && (length_ <? length src)%nat then
      let* ch := rd src length_ in
      let octets := get_octet_count ch in
      if max_octets <? octets then Ret (Some length_)
      else if (octets =? 0) || (Z.of_nat (length src) <? Z.of_nat length_ + octets)
      then Ret None
      else
        let* r := utf8_substr_tail src (Z.to_nat (octets - 1)) (S length_) in
        match r with
        | None => Ret None
        | Some length' => utf8_substr_loop fuel' src (max_octets - octets) length'
        end
    else Ret (Some length_)
  end.

(** [None] is the result [false]; [dst] is left alone then. *)
Definition utf8_substr (src : list Z) (max_octets : Z) : outcome (option (list Z)) :=
  let* r := utf8_substr_loop (S (length src)) src max_octets 0 in
  Ret (match r with
       | None => None
       | Some length_ => Some (take length_ src)
       end).

(** ** Octets as arithmetic *)

Lemma utf8_tail_val x : utf8_tail x = 128 + x mod 64.
Proof. exact (mask_or x 6 2 ltac:(lia)). Qed.

Lemma utf8_tail_cont x : Z.land (utf8_tail x) 0xC0 = 0x80.
Proof.
  rewrite utf8_tail_val.
  assert (H : 0 <= x mod 64 < Z.of_nat 64) by (apply Z.mod_pos_bound; lia).
  revert H. generalize (x mod 64). intros y Hy. apply Z.eqb_eq.
  revert y Hy. apply (forall_below 64). reflexivity.
Qed.

(** A lead octet [c * 2 ^ k + y] gives its low [k] bits back under the mask. *)
Lemma lead_low y k c : 0 <= k -> 0 <= y < 2 ^ k -> Z.land (c * 2 ^ k + y) (Z.ones k) = y.
Proof.
  intros Hk Hy. rewrite land_mask by done. rewrite Z.add_comm, Z.mod_add by lia.
  by apply Z.mod_small.
Qed.

Lemma utf8_tail_low x : Z.land (utf8_tail x) 0x3F = x mod 64.
Proof.
  rewrite utf8_tail_val. apply (lead_low _ 6 2); [lia|]. apply Z.mod_pos_bound. lia.
Qed.

Lemma shiftr6 x : Z.shiftr x 6 = x / 64.
Proof. apply Z.shiftr_div_pow2. lia. Qed.

Lemma decode_tail n x src dest :
  utf8_char_to_wchar_loop (S n) (utf8_tail x :: src) dest =
  utf8_char_to_wchar_loop n src (dest * 64 + x mod 64).
Proof.
  cbn [utf8_char_to_wchar_loop rd lookup list_lookup obind drop].
  rewrite utf8_tail_cont, utf8_tail_low. cbn [Z.eqb negb].
  rewrite shiftl_or by (first [lia | apply Z.mod_pos_bound; lia]).
  reflexivity.
Qed.

Lemma get_octet_count_val h :
  is_byte h ->
  get_octet_count h =
  (if h <? 128 then 1 else if h <? 194 then 0 else if h <? 224 then 2
   else if h <? 240 then 3 else if h <? 248 then 4 else if h <? 252 then 5
   else if h <? 254 then 6 else 0).
Proof. intros Hh. apply Z.eqb_eq. byte_eval h. Qed.

(** The lead octet of a sequence with [n] continuation octets. *)
Lemma decode_lead w rest k c n :
  0 <= k -> 0 <= w < 2 ^ k ->
  tab 0 FIRST_BYTE_MASKS (Z.of_nat (S n)) = Z.ones k -> (n <= 5)%nat ->
  utf8_char_to_wchar (c * 2 ^ k + w :: rest) (Z.of_nat (S n)) =
  utf8_char_to_wchar_loop n rest w.
Proof.
  intros Hk Hw Hm Hn. unfold utf8_char_to_wchar.
  destruct (Z.eqb_spec (Z.of_nat (S n)) 0), (Z.leb_spec (Z.of_nat (S n)) 6); try lia.
  cbn [negb andb rd lookup list_lookup obind drop]. rewrite Hm, lead_low by done.
  f_equal. lia.
Qed.

(** Decides [get_octet_count h = n] for a lead octet in the range of [n]. *)
Ltac lead_count :=
  rewrite get_octet_count_val by (unfold is_byte; lia);
  repeat (case_Z; try lia).

(** One branch of the encoder: the lead octet is [c * 2 ^ k] plus the top bits. *)
Ltac encode_branch k c :=
  rewrite (mask_or _ k c) by lia; rewrite ?Z.shiftr_div_pow2 by lia;
  match goal with
  | |- context [?x mod 2 ^ k] =>
    assert (x mod 2 ^ k = x) as -> by (apply Z.mod_small; zlia);
    assert (0 <= x < 2 ^ k) by zlia;
    split; [unfold is_byte; lia|]; split; [lead_count; zlia|];
    rewrite (decode_lead x _ k c) by (reflexivity || lia);
    rewrite ?decode_tail;
    cbn [utf8_char_to_wchar_loop]; do 2 f_equal; zlia
  end.

(** What the string conversions rely on: the octets of a code point form one
    sequence that reads back as the code point. *)
Lemma wchar_to_utf8_decode w rest :
  0 <= w < 2 ^ 31 ->
  exists h t, wchar_to_utf8 w = h :: t /\ is_byte h /\
    get_octet_count h = Z.of_nat (length (wchar_to_utf8 w)) /\
    utf8_char_to_wchar (wchar_to_utf8 w ++ rest)
      (Z.of_nat (length (wchar_to_utf8 w))) = Ret (true, w).
Proof.
  intros Hw. unfold wchar_to_utf8, u32.
  rewrite (Z.mod_small w) by lia. cbv zeta.
  repeat case_Z; try lia; cbn [app length];
    eexists _, _; (split; [reflexivity|]).
  - change 0x7F with (Z.ones 7). rewrite land_mask, Z.mod_small by lia.
    split; [unfold is_byte; lia|]. split; [lead_count|].
    by rewrite (decode_lead w _ 7 0) by (reflexivity || lia).
  - encode_branch 5 6.
  - encode_branch 4 14.
  - encode_branch 3 30.
  - encode_branch 2 62.
  - encode_branch 1 126.
Qed.

Lemma utf8_tail_byte x : is_byte (utf8_tail x).
Proof. rewrite utf8_tail_val. unfold is_byte. zlia. Qed.

#[export] Hint Resolve utf8_tail_byte : unixcommons.

Lemma wchar_to_utf8_bytes w : bytes_ok (wchar_to_utf8 w).
Proof.
  unfold wchar_to_utf8. set (u := u32 w). cbv zeta.
  repeat case_Z; repeat apply Forall_cons_2; auto with unixcommons; unfold is_byte.
  - change 0x7F with (Z.ones 7). rewrite land_mask by lia. zlia.
  - rewrite (mask_or _ 5 6) by lia. zlia.
  - rewrite (mask_or _ 4 14) by lia. zlia.
  - rewrite (mask_or _ 3 30) by lia. zlia.
  - rewrite (mask_or _ 2 62) by lia. zlia.
  - rewrite (mask_or _ 1 126) by lia. zlia.
Qed.

(** ** Well-formed sequences

    The sequences of octets Unicode calls well-formed (its table of well-formed
    UTF-8 byte sequences), by ranges. *)
Definition between (lo b hi : Z) : bool := (lo <=? b) && (b <=? hi).

Definition second_octet_ok (b1 b2 : Z) : bool :=
  if b1 =? 0xE0 then between 0xA0 b2 0xBF
  else if b1 =? 0xED then between 0x80 b2 0x9F
  else if b1 =? 0xF0 then between 0x90 b2 0xBF
  else if b1 =? 0xF4 then between 0x80 b2 0x8F
  else between 0x80 b2 0xBF.

Definition utf8_well_formed (seq : list Z) : bool :=
  match seq with
  | [b1] => between 0x00 b1 0x7F
  | [b1; b2] => between 0xC2 b1 0xDF && between 0x80 b2 0xBF
  | [b1; b2; b3] =>
    between 0xE0 b1 0xEF && second_octet_ok b1 b2 && between 0x80 b3 0xBF
  | [b1; b2; b3; b4] =>
    between 0xF0 b1 0xF4 && second_octet_ok b1 b2 && between 0x80 b3 0xBF &&
    between 0x80 b4 0xBF
  | _ => false
  end.

(** What the code accepts: the third octet of four is never looked at. *)
Definition utf8_accepted (seq : list Z) : bool :=
  match seq with
  | [b1; b2; b3; b4] => utf8_well_formed [b1; b2; 0x80; b4]
  | _ => utf8_well_formed seq
  end.

Lemma cont_mask b : is_byte b -> (Z.land b 0xC0 =? 0x80) = between 0x80 b 0xBF.
Proof. intros Hb. apply eqb_prop. byte_eval b. Qed.

Lemma second_mask b1 b2 :
  is_byte b2 ->
  (if b1 =? 0xE0 then Z.land b2 0xE0 =? 0xA0
   else if b1 =? 0xED then Z.land b2 0xE0 =? 0x80
   else if b1 =? 0xF0 then (0x90 <=? b2) && (b2 <=? 0xBF)
   else if b1 =? 0xF4 then Z.land b2 0xF0 =? 0x80
   else if b1 <=? 0xEF then Z.land b2 0xC0 =? 0x80
   else Z.land b2 0xC0 =? 0x80) = second_octet_ok b1 b2.
Proof.
  intros Hb. unfold second_octet_ok.
  assert (HE0 : (Z.land b2 0xE0 =? 0xA0) = between 0xA0 b2 0xBF)
    by (apply eqb_prop; byte_eval b2).
  assert (HED : (Z.land b2 0xE0 =? 0x80) = between 0x80 b2 0x9F)
    by (apply eqb_prop; byte_eval b2).
  assert (HF4 : (Z.land b2 0xF0 =? 0x80) = between 0x80 b2 0x8F)
    by (apply eqb_prop; byte_eval b2).
  rewrite HE0, HED, HF4, cont_mask by done. by destruct (b1 <=? 0xEF).
Qed.

(** The decision of the code as a function of the octets it reads. *)
Lemma is_correct_utf8_sequence_eq src :
  bytes_ok src ->
  is_correct_utf8_sequence src =
  (let* b1 := rd src 0 in
   if b1 <? 0x80 then Ret (true, 1)
   else if negb (between 0xC2 b1 0xF4) then Ret (false, 0)
   else
     let* b2 := rd src 1 in
     if b1 <? 0xE0 then
       if between 0x80 b2 0xBF then Ret (true, 2) else Ret (false, 0)
     else if negb (second_octet_ok b1 b2) then Ret (false, 0)
     else
       let* b := rd src (if b1 <? 0xF0 then 2%nat else 3%nat) in
       if between 0x80 b 0xBF then Ret (true, if b1 <? 0xF0 then 3 else 4)
       else Ret (false, 0)).
Proof.
  intros Hs. unfold is_correct_utf8_sequence.
  assert (Hrd : forall i b, rd src i = Ret b -> is_byte b).
  { intros i b. unfold rd. destruct (src !! i) eqn:E; [|done]. intros [= <-].
    by apply (Forall_lookup_1 _ _ _ _ Hs E). }
  destruct (rd src 0) as [b1| |]; [|done..]. cbn [obind].
  replace (b1 <=? 0x7F) with (b1 <? 0x80) by (repeat case_Z; lia).
  destruct (b1 <? 0x80); [done|].
  replace ((b1 <? 0xC2) || (0xF4 <? b1)) with (negb (between 0xC2 b1 0xF4))
    by (unfold between; repeat case_Z; done || lia).
  destruct (between 0xC2 b1 0xF4); cbn [negb]; [|done].
  destruct (rd src 1) as [b2| |] eqn:E2; [|done..]. cbn [obind].
  rewrite second_mask, cont_mask by eauto.
  replace (b1 <=? 0xDF) with (b1 <? 0xE0) by (repeat case_Z; lia).
  destruct (b1 <? 0xE0); [done|]. destruct (second_octet_ok b1 b2); [|done].
  cbn [negb]. destruct (b1 <? 0xF0).
  - destruct (rd src 2) as [b| |] eqn:E3; [|done..]. cbn [obind].
    rewrite cont_mask by eauto. by destruct (between 0x80 b 0xBF).
  - destruct (rd src 3) as [b| |] eqn:E3; [|done..]. cbn [obind].
    rewrite cont_mask by eauto. by destruct (between 0x80 b 0xBF).
Qed.

Lemma between_spec lo b hi : between lo b hi = true <-> lo <= b <= hi.
Proof. unfold between. rewrite andb_true_iff, !Z.leb_le. tauto. Qed.

Lemma between_true lo b hi : lo <= b <= hi -> between lo b hi = true.
Proof. apply between_spec. Qed.

Lemma is_correct_of_accepted seq rest :
  bytes_ok (seq ++ rest) -> utf8_accepted seq = true ->
  is_correct_utf8_sequence (seq ++ rest) = Ret (true, Z.of_nat (length seq)).
Proof.
  intros Hs Ha. rewrite is_correct_utf8_sequence_eq by done.
  destruct seq as [|b1 [|b2 [|b3 [|b4 [|]]]]];
    unfold utf8_accepted, utf8_well_formed in Ha; try discriminate;
    rewrite ?andb_true_iff in Ha; destruct_and?;
    repeat match goal with H : between _ b1 _ = true |- _ => apply between_spec in H end;
    cbn [app rd lookup list_lookup obind];
    decide_Z; rewrite ?(between_true 0xC2 b1) by lia;
    repeat match goal with H : ?x = true |- context [?x] => rewrite H end;
    cbn [negb rd lookup list_lookup obind];
    repeat match goal with H : ?x = true |- context [?x] => rewrite H end;
    reflexivity.
Qed.

Lemma accepted_of_is_correct src n :
  bytes_ok src -> is_correct_utf8_sequence src = Ret (true, n) ->
  exists seq rest, src = seq ++ rest /\ n = Z.of_nat (length seq) /\
    utf8_accepted seq = true.
Proof.
  intros Hs. rewrite is_correct_utf8_sequence_eq by done.
  destruct src as [|b1 src]; [done|]. cbn [rd lookup list_lookup obind].
  assert (Hb1 : is_byte b1) by (by inversion Hs). unfold is_byte in Hb1.
  destruct (Z.ltb_spec b1 0x80).
  { intros [= <-]. exists [b1], src. repeat split.
    cbn. apply between_true. lia. }
  destruct (between 0xC2 b1 0xF4) eqn:E1; cbn [negb]; [|done].
  apply between_spec in E1.
  destruct src as [|b2 src]; [done|]. cbn [rd lookup list_lookup obind].
  destruct (Z.ltb_spec b1 0xE0).
  { destruct (between 0x80 b2 0xBF) eqn:E2; [|done]. intros [= <-].
    exists [b1; b2], src. repeat split. cbn. rewrite E2, between_true by lia. done. }
  destruct (second_octet_ok b1 b2) eqn:E2; cbn [negb]; [|done].
  destruct src as [|b3 src]; [destruct (b1 <? 0xF0); done|].
  destruct (Z.ltb_spec b1 0xF0); cbn [rd lookup list_lookup obind].
  { destruct (between 0x80 b3 0xBF) eqn:E3; [|done]. intros [= <-].
    exists [b1; b2; b3], src. repeat split. cbn [utf8_accepted utf8_well_formed].
    rewrite E2, E3, between_true by lia. done. }
  destruct src as [|b4 src]; [done|]. cbn [rd lookup list_lookup obind].
  destruct (between 0x80 b4 0xBF) eqn:E4; [|done]. intros [= <-].
  exists [b1; b2; b3; b4], src. repeat split. cbn [utf8_accepted utf8_well_formed].
  rewrite E2, E4, between_true by lia. done.
Qed.

(** A scalar value of Unicode: a code point that is not a surrogate. *)
Definition scalar (w : Z) : Prop := 0 <= w < 0xD800 \/ 0xE000 <= w < 0x110000.

Lemma wchar_to_utf8_well_formed w : scalar w -> utf8_well_formed (wchar_to_utf8 w) = true.
Proof.
  intros Hw. unfold scalar in Hw. unfold wchar_to_utf8, u32.
  rewrite (Z.mod_small w) by lia. cbv zeta.
  repeat case_Z; try lia; rewrite ?utf8_tail_val, ?Z.shiftr_div_pow2 by lia.
  - change 0x7F with (Z.ones 7). rewrite land_mask, Z.mod_small by lia.
    apply between_true. lia.
  - rewrite (mask_or _ 5 6) by lia. cbn [utf8_well_formed].
    rewrite !between_true by zlia. done.
  - rewrite (mask_or _ 4 14) by lia. cbn [utf8_well_formed]. unfold second_octet_ok.
    rewrite (between_true 0xE0), !(between_true 0x80 _ 0xBF), andb_true_r by zlia.
    simpl andb. repeat case_Z; first [done | apply between_true; zlia].
  - rewrite (mask_or _ 3 30) by lia. cbn [utf8_well_formed]. unfold second_octet_ok.
    rewrite (between_true 0xF0), !(between_true 0x80 _ 0xBF), !andb_true_r by zlia.
    simpl andb. repeat case_Z; first [done | apply between_true; zlia].
Qed.

(** ** Characters as the code delimits them *)

(** The bounded encoder is the general one below 0x200000. *)
Lemma wchar_to_utf8_char_eq w :
  - 2 ^ 31 <= w < 2 ^ 31 ->
  wchar_to_utf8_char w =
  if (0 <=? w) && (w <? 0x200000) then Some (wchar_to_utf8 w) else None.
Proof.
  intros Hw. unfold wchar_to_utf8_char, wchar_to_utf8, u64, u32.
  destruct (Z.leb_spec 0 w); cbn [andb].
  - rewrite !(Z.mod_small w) by lia. cbv zeta. repeat case_Z; reflexivity || lia.
  - replace (w mod 2 ^ 64) with (w + 2 ^ 64)
      by (rewrite <- (Z.mod_add w 1) by lia; rewrite Z.mod_small; lia).
    cbv zeta. by decide_Z.
Qed.

(** The octets of a scalar value pass the check. *)
Lemma scalar_is_correct w rest :
  scalar w -> bytes_ok rest ->
  is_correct_utf8_sequence (wchar_to_utf8 w ++ rest) =
  Ret (true, Z.of_nat (length (wchar_to_utf8 w))).
Proof.
  intros Hsc Hr. pose proof (wchar_to_utf8_well_formed w Hsc) as Hwf.
  apply is_correct_of_accepted.
  { apply Forall_app. auto using wchar_to_utf8_bytes. }
  revert Hwf. generalize (wchar_to_utf8 w). intros seq.
  destruct seq as [|b1 [|b2 [|b3 [|b4 [|]]]]]; try done.
  cbn. rewrite !andb_true_iff. tauto.
Qed.

(** A character that a zero-terminated text can hold. *)
Definition text_scalar (w : Z) : Prop := scalar w /\ w <> 0.

#[export] Instance text_scalar_dec w : Decision (text_scalar w).
Proof. unfold text_scalar, scalar. apply _. Defined.

Lemma text_scalar_range w : text_scalar w -> 0 < w < 0x110000.
Proof. unfold text_scalar, scalar. lia. Qed.

Lemma wchar_to_utf8_ascii w : 0 <= w < 128 -> wchar_to_utf8 w = [w].
Proof.
  intros Hw. unfold wchar_to_utf8, u32. rewrite Z.mod_small by lia. cbv zeta. decide_Z.
  change 0x7F with (Z.ones 7). rewrite land_mask by lia. by rewrite Z.mod_small by lia.
Qed.

Lemma wchar_to_utf8_high w :
  128 <= w < 0x200000 ->
  Forall (fun b => 128 <= b < 256) (wchar_to_utf8 w) /\ (2 <= length (wchar_to_utf8 w))%nat.
Proof.
  intros Hw. unfold wchar_to_utf8, u32. rewrite Z.mod_small by lia. cbv zeta.
  repeat case_Z; try lia; rewrite ?utf8_tail_val, ?(mask_or _ 5 6), ?(mask_or _ 4 14),
    ?(mask_or _ 3 30) by lia; (split; [|simpl; lia]);
    repeat (constructor; [zlia|]); constructor.
Qed.

Lemma length_utf8_str ws :
  Forall text_scalar ws -> (length ws <= length (wchar_to_utf8_str ws))%nat.
Proof.
  induction 1 as [|w ws Hw%text_scalar_range _ IH]; [simpl; lia|].
  cbn [wchar_to_utf8_str length]. rewrite length_app.
  destruct (wchar_to_utf8_decode w [] ltac:(lia)) as (h & t & -> & _). simpl. lia.
Qed.

Lemma wchar_to_utf8_str_bytes ws : bytes_ok (wchar_to_utf8_str ws).
Proof.
  induction ws; [constructor|]. apply Forall_app. auto using wchar_to_utf8_bytes.
Qed.

Definition is_cont (b : Z) : Prop := Z.land b 0xC0 = 0x80.

#[export] Instance is_cont_dec b : Decision (is_cont b).
Proof. unfold is_cont. apply _. Defined.

(** A lead octet followed by the continuation octets it announces. *)
Definition utf8_char (seq : list Z) : Prop :=
  match seq with
  | [] => False
  | h :: t => get_octet_count h = Z.of_nat (length seq) /\ Forall is_cont t
  end.

Definition utf8_chars (s : list Z) : Prop :=
  exists seqs, s = concat seqs /\ Forall utf8_char seqs.

Lemma utf8_chars_snoc s seq : utf8_chars s -> utf8_char seq -> utf8_chars (s ++ seq).
Proof.
  intros (seqs & -> & Hs) Hc. exists (seqs ++ [seq]).
  rewrite concat_app. simpl. rewrite app_nil_r. split; [done|].
  apply Forall_app. auto.
Qed.

Lemma utf8_substr_tail_spec n : forall pre rest,
  (n <= length rest)%nat ->
  utf8_substr_tail (pre ++ rest) n (length pre) =
  Ret (if decide (Forall is_cont (take n rest)) then Some (length pre + n)%nat else None).
Proof.
  induction n as [|n IH]; intros pre rest Hn.
  - simpl. by rewrite Nat.add_0_r.
  - destruct rest as [|x rest]; [simpl in Hn; lia|]. cbn [utf8_substr_tail take].
    rewrite rd_at. cbn [obind].
    destruct (Z.eqb_spec (Z.land x 0xC0) 0x80) as [E|E]; cbn [negb].
    + specialize (IH (pre ++ [x]) rest). rewrite <- app_assoc in IH.
      rewrite length_app, Nat.add_1_r in IH. cbn [app] in IH.
      rewrite IH by (simpl in Hn; lia).
      destruct (decide (Forall is_cont (take n rest))) as [Hd|Hd].
      * rewrite decide_True by (by constructor). do 2 f_equal. lia.
      * rewrite decide_False by (by inversion 1). done.
    + rewrite decide_False; [done|]. by inversion 1.
Qed.

(** What the loop of [utf8_substr] yields from a state in which it has passed
    the characters [pre] of [src] with [max] octets left. *)
Definition substr_result (pre rest : list Z) (max : Z) (r : option nat) : Prop :=
  match r with
  | Some n =>
    exists mid post, rest = mid ++ post /\ n = length (pre ++ mid) /\
      utf8_chars mid /\ Z.of_nat (length mid) <= max /\
      (post = [] \/ max = Z.of_nat (length mid) \/
       exists h t, post = h :: t /\ max - Z.of_nat (length mid) < get_octet_count h)
  | None =>
    exists mid post, rest = mid ++ post /\ utf8_chars mid /\
      forall seq t, post = seq ++ t -> ~ utf8_char seq
  end.

Lemma substr_result_stop pre rest max :
  0 <= max ->
  (rest = [] \/ max = 0 \/ exists h t, rest = h :: t /\ max < get_octet_count h) ->
  substr_result pre rest max (Some (length pre)).
Proof.
  intros Hmax Hs. exists [], rest. rewrite app_nil_r. repeat split; [|simpl; lia|].
  - by exists [].
  - simpl. destruct Hs as [->|[->|(h & t & -> & Hh)]]; [by left|right; by left|].
    right; right. exists h, t. split; [done|lia].
Qed.

Lemma substr_result_step pre seq rest max r :
  utf8_char seq ->
  substr_result (pre ++ seq) rest (max - Z.of_nat (length seq)) r ->
  substr_result pre (seq ++ rest) max r.
Proof.
  intros Hc. assert (Hsingle : forall mid, utf8_chars mid -> utf8_chars (seq ++ mid)).
  { intros mid (seqs & -> & Hs). exists (seq :: seqs). split; [done|by constructor]. }
  destruct r as [n|]; intros (mid & post & -> & H).
  - destruct H as (-> & Hm & Hl & Hp). exists (seq ++ mid), post.
    rewrite !app_assoc. split; [done|]. split; [done|]. split; [auto|].
    rewrite length_app. split; [lia|].
    destruct Hp as [?|[?|(h & t & ? & ?)]]; [by left|right; left; lia|].
    right; right. exists h, t. split; [done|lia].
  - destruct H as (Hm & Hp). exists (seq ++ mid), post. rewrite app_assoc. auto.
Qed.

Lemma substr_result_none pre rest max :
  (forall seq t, rest = seq ++ t -> ~ utf8_char seq) -> substr_result pre rest max None.
Proof. intros H. exists [], rest. repeat split; [by exists []|done]. Qed.

Lemma get_octet_count_nonneg h : is_byte h -> 0 <= get_octet_count h.
Proof. intros Hh. rewrite get_octet_count_val by done. repeat case_Z; lia. Qed.

Lemma utf8_char_prefix h rest seq t :
  h :: rest = seq ++ t -> utf8_char seq ->
  get_octet_count h = Z.of_nat (length seq) /\ (1 <= length seq <= S (length rest))%nat /\
  Forall is_cont (take (Z.to_nat (get_octet_count h - 1)) rest).
Proof.
  destruct seq as [|h' s]; [done|]. intros [= <- ->] [Hc Hf].
  rewrite length_app. cbn [length] in *. split; [done|]. split; [lia|].
  rewrite Hc. replace (Z.to_nat (Z.of_nat (S (length s)) - 1)) with (length s) by lia.
  by rewrite take_app_length.
Qed.

Lemma utf8_substr_loop_spec : forall fuel pre rest max,
  (length rest < fuel)%nat -> 0 <= max -> bytes_ok rest ->
  exists r, utf8_substr_loop fuel (pre ++ rest) max (length pre) = Ret r /\
    substr_result pre rest max r.
Proof.
  induction fuel as [|fuel IH]; intros pre rest max Hf Hmax Hb; [lia|].
  cbn [utf8_substr_loop]. destruct (Z.eqb_spec max 0) as [->|Hne]; cbn [negb andb].
  { eexists. split; [done|]. apply substr_result_stop; auto. }
  destruct rest as [|h rest].
  { rewrite app_nil_r, (proj2 (Nat.ltb_ge _ _)) by lia. eexists. split; [done|].
    apply substr_result_stop; auto. }
  rewrite (proj2 (Nat.ltb_lt _ _)), rd_at by (rewrite length_app; simpl; lia).
  cbn [obind]. assert (Hh : is_byte h) by (by inversion Hb).
  pose proof (get_octet_count_nonneg h Hh) as Hnn.
  destruct (Z.ltb_spec max (get_octet_count h)).
  { eexists. split; [done|]. apply substr_result_stop; eauto 6. }
  destruct (Z.eqb_spec (get_octet_count h) 0) as [E0|E0]; cbn [orb].
  { eexists. split; [done|]. apply substr_result_none.
    intros seq t Hs Hc. destruct (utf8_char_prefix _ _ _ _ Hs Hc). lia. }
  destruct (Z.ltb_spec (Z.of_nat (length (pre ++ h :: rest)))
    (Z.of_nat (length pre) + get_octet_count h)) as [Hl|Hl];
    rewrite length_app in Hl; cbn [length] in Hl.
  { eexists. split; [done|]. apply substr_result_none.
    intros seq t Hs Hc. destruct (utf8_char_prefix _ _ _ _ Hs Hc). lia. }
  set (n := Z.to_nat (get_octet_count h - 1)).
  assert (Hn : get_octet_count h = Z.of_nat (S n)) by lia.
  pose proof (utf8_substr_tail_spec n (pre ++ [h]) rest ltac:(lia)) as Ht.
  rewrite <- app_assoc, length_app, Nat.add_1_r in Ht. cbn [app] in Ht.
  rewrite Ht. cbn [obind]. case_decide as Hd.
  2: { eexists. split; [done|]. apply substr_result_none.
       intros seq t Hs Hc. destruct (utf8_char_prefix _ _ _ _ Hs Hc) as (_ & _ & ?). done. }
  assert (Hseq : utf8_char (h :: take n rest)).
  { split; [|done]. cbn [length]. rewrite length_take. lia. }
  destruct (IH (pre ++ h :: take n rest) (drop n rest) (max - Z.of_nat (S n)))
    as (r & Hr & Hres); [rewrite length_drop; simpl in Hf; lia|lia| |].
  { apply Forall_drop. by inversion Hb. }
  exists r. rewrite <- app_assoc in Hr. cbn [app] in Hr. rewrite take_drop in Hr.
  rewrite length_app in Hr. cbn [length] in Hr. rewrite length_take in Hr.
  rewrite Hn. replace (S (length pre) + n)%nat
    with (length pre + S (n `min` length rest))%nat by lia.
  split; [done|]. rewrite <- (take_drop n rest) at 1.
  apply (substr_result_step pre (h :: take n rest)); [done|].
  cbn [length]. rewrite length_take. replace (n `min` length rest)%nat with n by lia. done.
Qed.

(** The decoder of strings, character by character. *)
Lemma utf8_to_wchar_loop_encode : forall ws fuel,
  Forall (fun w => 0 <= w < 2 ^ 31) ws ->
  (length (wchar_to_utf8_str ws) < fuel)%nat ->
  utf8_to_wchar_loop fuel (wchar_to_utf8_str ws) = Ret ws.
Proof.
  induction ws as [|w ws IH]; intros fuel Hw Hf; (destruct fuel as [|fuel]; [lia|]).
  { done. }
  inversion Hw as [|? ? Hw0 Hws]; subst. cbn [wchar_to_utf8_str] in *.
  rewrite length_app in Hf.
  destruct (wchar_to_utf8_decode w (wchar_to_utf8_str ws) Hw0)
    as (h & t & E & Hh & Hc & Hd).
  cbn [utf8_to_wchar_loop].
  assert (Hlen : (0 < length (wchar_to_utf8 w))%nat) by (rewrite E; simpl; lia).
  rewrite E at 1. cbn [app]. rewrite Hc.
  rewrite length_app. decide_Z.
  rewrite Hd. cbn [obind negb]. rewrite Nat2Z.id, drop_app_length.
  rewrite IH by (done || lia). done.
Qed.

(** ** Looking for the beginning of a character *)

Lemma lead_not_cont h : is_byte h -> get_octet_count h <> 0 -> ~ is_cont h.
Proof.
  intros Hh. unfold is_cont.
  rewrite <- (Z.eqb_eq (Z.land h 0xC0)), cont_mask, between_spec, get_octet_count_val by done.
  repeat case_Z; lia.
Qed.

Lemma distance_loop_spec pre h t post limit :
  is_byte h -> get_octet_count h <> 0 -> Forall is_cont t ->
  (forall l, limit = Some l -> (l <= length pre)%nat) ->
  forall i, (i <= length t)%nat ->
  distance_loop (pre ++ h :: t ++ post) limit (length pre + i) = Ret (Some (length pre)).
Proof.
  intros Hh Hc Ht Hl. induction i as [|i IH]; intros Hi.
  - rewrite Nat.add_0_r. apply (lead_not_cont h Hh) in Hc. unfold is_cont in Hc.
    destruct (length pre) eqn:E; cbn [distance_loop]; rewrite <- E, rd_at;
      cbn [obind]; decide_Z; by rewrite E.
  - rewrite Nat.add_succ_r. cbn [distance_loop].
    assert (Hx : exists x, t !! i = Some x /\ is_cont x).
    { destruct (lookup_lt_is_Some_2 t i ltac:(lia)) as [x Hx]. exists x.
      split; [done|]. by apply (Forall_lookup_1 _ _ _ _ Ht Hx). }
    destruct Hx as (x & Hx & Hxc). unfold rd.
    rewrite lookup_app_r by lia. replace (S (length pre + i) - length pre)%nat with (S i) by lia.
    change ((h :: t ++ post) !! S i) with ((t ++ post) !! i).
    rewrite lookup_app_l, Hx by lia. cbn [obind].
    unfold is_cont in Hxc. rewrite Hxc. cbn [Z.eqb Pos.eqb].
    destruct limit as [l|].
    + specialize (Hl l eq_refl). rewrite (proj2 (Nat.eqb_neq _ _)) by lia. apply IH. lia.
    + apply IH. lia.
Qed.

Lemma high_bit b : is_byte b -> (Z.land b 0x80 =? 0) = (b <? 128).
Proof. intros Hb. apply eqb_prop. byte_eval b. Qed.

(** An octet of a character has its high bit clear only when it is all of it. *)
Lemma octet_of_char pre h t post i :
  bytes_ok (h :: t) -> get_octet_count h = Z.of_nat (length (h :: t)) ->
  Forall is_cont t -> (i < length (h :: t))%nat ->
  exists x, rd (pre ++ h :: t ++ post) (length pre + i) = Ret x /\
    (Z.land x 0x80 = 0 -> i = 0%nat /\ t = []).
Proof.
  intros Hb Hc Ht Hi. inversion Hb as [|? ? Hh Hb']; subst. destruct i as [|i].
  - rewrite Nat.add_0_r, rd_at. exists h. split; [done|].
    rewrite <- (Z.eqb_eq (Z.land h 0x80)), high_bit by done. intros E.
    rewrite get_octet_count_val, E in Hc by done.
    destruct t; [done|simpl in Hc; lia].
  - cbn [length] in Hi. destruct (lookup_lt_is_Some_2 t i ltac:(lia)) as [x Hx].
    exists x. unfold rd. rewrite lookup_app_r by lia.
    replace (length pre + S i - length pre)%nat with (S i) by lia.
    change ((h :: t ++ post) !! S i) with ((t ++ post) !! i).
    rewrite lookup_app_l, Hx by lia. split; [done|].
    assert (Hxb : is_byte x) by (by apply (Forall_lookup_1 _ _ _ _ Hb' Hx)).
    assert (Hxc : is_cont x) by (by apply (Forall_lookup_1 _ _ _ _ Ht Hx)).
    unfold is_cont in Hxc. rewrite <- Z.eqb_eq, cont_mask, between_spec in Hxc by done.
    rewrite <- (Z.eqb_eq (Z.land x 0x80)), high_bit, Z.ltb_lt by done. lia.
Qed.

(** ** Properties *)

(** C37: a wide string of non-negative code points survives the conversion to
    UTF-8 and back: [utf8_to_wchar] terminates without an exception and
    returns the original code points. *)
Theorem utf8_string_roundtrip (ws : list Z) :
  Forall (fun w => 0 <= w < 2 ^ 31) ws ->
  utf8_to_wchar (wchar_to_utf8_str ws) = Ret ws.
Proof. intros Hw. apply utf8_to_wchar_loop_encode; [done|]. lia. Qed.

Lemma utf8_string_roundtrip_witness :
  utf8_to_wchar (wchar_to_utf8_str [0x41; 0x439; 0x20AC; 0x1F600; 0x7FFFFFFF]) =
  Ret [0x41; 0x439; 0x20AC; 0x1F600; 0x7FFFFFFF].
Proof. apply utf8_string_roundtrip. by_eval. Defined.

(** [wchar_to_utf8_char] succeeds exactly on the values below 0x200000,
    with the octets [wchar_to_utf8] appends, and its output decodes to the
    value again; for a scalar value of Unicode the output is well-formed and
    [is_correct_utf8_sequence] accepts it with the same length. *)
Theorem wchar_to_utf8_char_correct (w : Z) (rest : list Z) :
  - 2 ^ 31 <= w < 2 ^ 31 -> bytes_ok rest ->
  match wchar_to_utf8_char w with
  | None => w < 0 \/ 0x200000 <= w
  | Some seq =>
    0 <= w < 0x200000 /\ seq = wchar_to_utf8 w /\
    utf8_char_to_wchar (seq ++ rest) (Z.of_nat (length seq)) = Ret (true, w) /\
    (scalar w ->
     utf8_well_formed seq = true /\
     is_correct_utf8_sequence (seq ++ rest) = Ret (true, Z.of_nat (length seq)))
  end.
Proof.
  intros Hw Hr.
  rewrite wchar_to_utf8_char_eq by done.
  destruct (Z.leb_spec 0 w), (Z.ltb_spec w 0x200000); cbn [andb]; try lia.
  destruct (wchar_to_utf8_decode w rest ltac:(lia)) as (h & t & _ & _ & _ & Hd).
  split; [lia|]. split; [done|]. split; [done|]. intros Hsc.
  split; [by apply wchar_to_utf8_well_formed|]. by apply scalar_is_correct.
Qed.

Lemma wchar_to_utf8_char_correct_witness :
  utf8_well_formed [0xE2; 0x82; 0xAC] = true.
Proof.
  pose proof (wchar_to_utf8_char_correct 0x20AC [] ltac:(lia) ltac:(constructor)) as H.
  apply H. left. lia.
Defined.

(** What [is_correct_utf8_sequence] accepts, exactly: the well-formed
    sequences of one to three octets, and the sequences of four octets that are
    well-formed once their third octet, which the code never looks at, is
    replaced by a continuation octet. In particular every well-formed sequence
    is accepted. *)
Theorem is_correct_utf8_sequence_spec (src : list Z) (n : Z) :
  bytes_ok src ->
  is_correct_utf8_sequence src = Ret (true, n) <->
  exists seq rest, src = seq ++ rest /\ n = Z.of_nat (length seq) /\
    utf8_accepted seq = true.
Proof.
  intros Hs. split; [by apply accepted_of_is_correct|].
  intros (seq & rest & -> & -> & Ha). by apply is_correct_of_accepted.
Qed.

Lemma is_correct_utf8_sequence_spec_witness :
  is_correct_utf8_sequence [0xE2; 0x82; 0xAC; 0] = Ret (true, 3).
Proof.
  apply (is_correct_utf8_sequence_spec [0xE2; 0x82; 0xAC; 0] 3).
  - by_eval.
  - exists [0xE2; 0x82; 0xAC], [0]. repeat split; reflexivity.
Defined.

(** The missing check of the third octet: a sequence of four octets that
    is not well-formed, and that [utf8_char_to_wchar] refuses, is reported as
    correct; and on a string that ends after two octets of four the code reads
    past the terminator. *)
Theorem third_octet_unchecked :
  is_correct_utf8_sequence [0xF1; 0x80; 0x41; 0x80; 0] = Ret (true, 4) /\
  utf8_well_formed [0xF1; 0x80; 0x41; 0x80] = false /\
  utf8_char_to_wchar [0xF1; 0x80; 0x41; 0x80; 0] 4 = Ret (false, 64) /\
  is_correct_utf8_sequence [0xF1; 0x80; 0] = Undef.
Proof. repeat split. Qed.

(** [utf8_substr] always terminates inside the string. Its result is a
    prefix made of whole characters, no longer than [max_octets], and as long
    as the limit allows; it reports failure only when a character the code
    cannot delimit follows a prefix of whole characters. *)
Theorem utf8_substr_correct (src : list Z) (max_octets : Z) :
  bytes_ok src -> 0 <= max_octets ->
  exists r, utf8_substr src max_octets = Ret r /\
  match r with
  | Some dst =>
    exists post, src = dst ++ post /\ utf8_chars dst /\
      Z.of_nat (length dst) <= max_octets /\
      (post = [] \/ max_octets = Z.of_nat (length dst) \/
       exists h t, post = h :: t /\
         max_octets - Z.of_nat (length dst) < get_octet_count h)
  | None =>
    exists pre post, src = pre ++ post /\ utf8_chars pre /\
      forall seq t, post = seq ++ t -> ~ utf8_char seq
  end.
Proof.
  intros Hb Hm. unfold utf8_substr.
  destruct (utf8_substr_loop_spec (S (length src)) [] src max_octets)
    as (r & Hr & Hres); [lia|done|done|]. cbn [app length] in Hr.
  rewrite Hr. cbn [obind]. eexists. split; [reflexivity|].
  destruct r as [n|]; [|done].
  destruct Hres as (mid & post & Hs & -> & Hc & Hl & Hp).
  subst src. exists post. cbn [app]. rewrite take_app_length. auto.
Qed.

Lemma utf8_substr_correct_witness :
  exists r, utf8_substr [0x41; 0xD0; 0x99; 0xD0; 0x99] 4 = Ret r.
Proof.
  destruct (utf8_substr_correct [0x41; 0xD0; 0x99; 0xD0; 0x99] 4) as (r & Hr & _).
  - by_eval.
  - lia.
  - by exists r.
Defined.

(** From any octet of a character, [distance_to_sequence_beginning] finds
    the number of octets of the character and the distance to its first one,
    whatever precedes and follows it, as long as [limit] is not inside it. *)
Theorem distance_to_sequence_beginning_correct
    (pre seq post : list Z) (i : nat) (limit : option nat) :
  bytes_ok seq -> utf8_char seq -> (i < length seq)%nat ->
  (forall l, limit = Some l -> (l <= length pre)%nat) ->
  distance_to_sequence_beginning (pre ++ seq ++ post) (length pre + i) limit =
  Ret (Some (Z.of_nat (length seq), Z.of_nat i)).
Proof.
  intros Hb Hc Hi Hl. destruct seq as [|h t]; [done|]. destruct Hc as [Hc Ht].
  assert (Hh : is_byte h) by (by inversion Hb).
  unfold distance_to_sequence_beginning. cbn [app].
  destruct (octet_of_char pre h t post i Hb Hc Ht Hi) as (x & -> & Hx). cbn [obind].
  destruct (Z.eqb_spec (Z.land x 0x80) 0) as [E|E].
  { destruct (Hx E) as [-> ->]. done. }
  rewrite (distance_loop_spec pre h t post) by (done || simpl in *; lia). cbn [obind].
  rewrite rd_at. cbn [obind]. rewrite Hc. cbn [length] in *. decide_Z. cbn [orb].
  do 4 f_equal. lia.
Qed.

Lemma distance_to_sequence_beginning_correct_witness :
  distance_to_sequence_beginning ([0x41] ++ [0xE2; 0x82; 0xAC] ++ [0]) (1 + 2) (Some 0%nat) =
  Ret (Some (3, 2)).
Proof.
  apply (distance_to_sequence_beginning_correct [0x41] [0xE2; 0x82; 0xAC] [0] 2 (Some 0%nat)).
  - by_eval.
  - split; [reflexivity|]. by_eval.
  - simpl. lia.
  - intros l [= <-]. simpl. lia.
Defined.
