(* ===== verification/Punycode.v ===== *)
(** * Punycode: internationalized labels as ASCII

    Models [Punycode::adapt], [punycode_encode] and [punycode_decode] of
    [src/String/StringManip.cpp] (RFC 3492).  A [wchar_t] is a signed 32 bit
    integer: arithmetic on it that overflows is undefined. *)
From S2P Require Import Prelude AsciiManip.
Local Open Scope Z_scope.
Local Open Scope outcome_scope.

(** The value of signed 32 bit arithmetic, undefined when it does not fit. *)
Definition int32 (z : Z) : outcome Z :=
  if (- 2 ^ 31 <=? z) && (z <? 2 ^ 31) then Ret z else Undef.

Definition DECODE : list Z :=
  [26; 27; 28; 29; 30; 31; 32; 33; 34; 35; 36; 36; 36; 36; 36;
   36; 36;  0;  1;  2;  3;  4;  5;  6;  7;  8;  9; 10; 11; 12;
   13; 14; 15; 16; 17; 18; 19; 20; 21; 22; 23; 24; 25; 36; 36;
   36; 36; 36; 36;  0;  1;  2;  3;  4;  5;  6;  7;  8;  9; 10;
   11; 12; 13; 14; 15; 16; 17; 18; 19; 20; 21; 22; 23; 24; 25].

Definition ENCODE : list Z := bytes "abcdefghijklmnopqrstuvwxyz0123456789".

Definition MAX_WCHAR_T : Z := 2 ^ 31 - 1.

(** [for (; delta > 455; k += 36)] *)
Fixpoint adapt_loop (fuel : nat) (delta k : Z) : outcome (Z * Z) :=
  if 455 <? delta then
    match fuel with
    | O => Undef
    | S fuel' =>
      let* k := int32 (k + 36) in
      adapt_loop fuel' (Z.quot delta 35) k
    end
  else Ret (delta, k).

(** Seven divisions by 35 take any 32 bit integer below 455. *)
Definition adapt (delta numpoints : Z) (firsttime : bool) : outcome Z :=
  let delta := if firsttime then Z.quot delta 700 else Z.shiftr delta 1 in
  let* delta := if numpoints =? 0 then Undef else int32 (delta + Z.quot delta numpoints) in
  let* (delta, k) := adapt_loop 7 delta 0 in
  let* product := int32 (36 * delta) in
  if delta + 38 =? 0 then Undef else int32 (k + Z.quot product (delta + 38)).

(** [k <= bias ? 1 : k >= bias + 26 ? 26 : k - bias] *)
Definition threshold (k bias : Z) : Z :=
  if k <=? bias then 1 else if bias + 26 <=? k then 26 else k - bias.

(** ** Encoder *)

(** The characters written for [delta]; [k] grows by 36 with every one.  The
    quotient falls by a factor of at least ten, so ten are enough. *)
Fixpoint encode_delta (fuel : nat) (q k bias : Z) : outcome (list Z) :=
  let t := threshold k bias in
  if q <? t then let* ch := rd ENCODE (Z.to_nat q) in Ret [ch]
  else
    match fuel with
    | O => Undef
    | S fuel' =>
      let* ch := rd ENCODE (Z.to_nat (t + Z.rem (q - t) (36 - t))) in
      let* rest := encode_delta fuel' (Z.quot (q - t) (36 - t)) (k + 36) bias in
      Ret (ch :: rest)
    end.

(** The variables of the encoder: [delta], [bias], [handled], [first], [output]. *)
Record encoder : Type := {
  e_delta : Z;
  e_bias : Z;
  e_handled : Z;
  e_first : bool;
  e_output : list Z
}.

(** The least character from [not_less_than] on. *)
Fixpoint find_least (not_less_than : Z) (input : list Z) (least_found : Z) : Z :=
  match input with
  | [] => least_found
  | ch :: input' =>
    find_least not_less_than input'
      (if (not_less_than <=? ch) && (ch <? least_found) then ch else least_found)
  end.

Definition set_delta (delta : Z) (e : encoder) : encoder :=
  {| e_delta := delta; e_bias := e_bias e; e_handled := e_handled e; e_first := e_first e;
     e_output := e_output e |}.

(** The character [not_less_than] is written. *)
Definition encode_char (e : encoder) : outcome encoder :=
  let* chars := encode_delta 10 (e_delta e) 36 (e_bias e) in
  let handled := u64 (e_handled e + 1) in
  let* bias := adapt (e_delta e) (s32 handled) (e_first e) in
  Ret {| e_delta := 0; e_bias := bias; e_handled := handled; e_first := false;
         e_output := e_output e ++ chars |}.

(** The second loop over the input. *)
Fixpoint encode_scan (not_less_than : Z) (input : list Z) (e : encoder) : outcome encoder :=
  match input with
  | [] => Ret e
  | ch :: input' =>
    let* e :=
      if ch <? not_less_than then let* delta := int32 (e_delta e + 1) in Ret (set_delta delta e)
      else if ch =? not_less_than then encode_char e
      else Ret e in
    encode_scan not_less_than input' e
  end.

(** [for (...; handled < input.size(); delta++, not_less_than++)]; every round
    handles a character. *)
Fixpoint encode_loop (fuel : nat) (input : list Z) (not_less_than : Z) (e : encoder) : outcome (list Z) :=
  if e_handled e <? Z.of_nat (length input) then
    match fuel with
    | O => Undef
    | S fuel' =>
      let least_found := find_least not_less_than input MAX_WCHAR_T in
      let* gap := int32 (least_found - not_less_than) in
      let* product := int32 (gap * s32 (u64 (e_handled e + 1))) in
      let* delta := int32 (e_delta e + product) in
      let* e := encode_scan least_found input (set_delta delta e) in
      let* delta := int32 (e_delta e + 1) in
      let* not_less_than := int32 (least_found + 1) in
      encode_loop fuel' input not_less_than (set_delta delta e)
    end
  else Ret (e_output e).

(** The first loop: the ASCII characters, up to a negative one. *)
Fixpoint encode_basic (input : list Z) : bool * list Z :=
  match input with
  | [] => (true, [])
  | WCH :: input' =>
    if WCH <? 0 then (false, [])
    else
      let '(b, output) := encode_basic input' in
      (b, if WCH <? 0x80 then to_lower (u8 WCH) :: output else output)
  end.

(** The value returned and [output]. *)
Definition punycode_encode (input : list Z) : outcome (bool * list Z) :=
  let '(ok, output) := encode_basic input in
  if negb ok then Ret (false, output)
  else
    let handled := Z.of_nat (length output) in
    let output := match output with [] => [] | _ => output ++ ["-"%uchar] end in
    let* output := encode_loop (length input) input 0x80
      {| e_delta := 0; e_bias := 72; e_handled := handled; e_first := true; e_output := output |} in
    Ret (true, output).

(** ** Decoder *)

Definition decode_digit (ch : Z) : Z :=
  let digit := s8 ch - 48 in
  if (0 <=? digit) && (digit <=? 74) then tab 36 DECODE digit else 36.

(** [for (wchar_t w = 1, k = 36; ; k += 36)]: the new value of [out] and the rest
    of the input, or [None] for [return false]. *)
Fixpoint decode_delta (input : list Z) (out w k bias : Z) : outcome (option (Z * list Z)) :=
  match input with
  | [] => Ret None
  | ch :: input' =>
    let digit := decode_digit ch in
    if 36 <=? digit then Ret None
    else
      let* product := int32 (digit * w) in
      let out := u64 (out + product) in
      let t := threshold k bias in
      if digit <? t then Ret (Some (out, input'))
      else
        let* w := int32 (w * (36 - t)) in
        let* k := int32 (k + 36) in
        decode_delta input' out w k bias
  end.

(** [memmove(&buf[dst], &buf[src], n)] *)
Definition memmove (buf : list Z) (dst src n : nat) : outcome (list Z) :=
  if (dst + n <=? length buf)%nat && (src + n <=? length buf)%nat then
    Ret (take dst buf ++ take n (drop src buf) ++ drop (dst + n) buf)
  else Undef.

(** [memmove] in the string with its terminating zero, which is also moved and
    has to be zero afterwards, and the assignment that ends the round. *)
Definition decode_insert (output : list Z) (out : nat) (decoded : Z) : outcome (list Z) :=
  let* buf := memmove (output ++ [0]) (out + 1) out (length output - out) in
  let* terminator := rd buf (length output) in
  guard (terminator =? 0) (wr (take (length output) buf) out decoded).

(** [for (out = 0; in < input.size(); output[out++] = decoded)] *)
Fixpoint decode_loop (fuel : nat) (input output : list Z) (out decoded bias : Z)
  : outcome (bool * list Z) :=
  match input with
  | [] => Ret (true, output)
  | _ =>
    match fuel with
    | O => Undef
    | S fuel' =>
      let oldout := out in
      let* r := decode_delta input out 1 36 bias in
      match r with
      | None => Ret (false, output)
      | Some (out, input) =>
        let output := output ++ [0] in
        let size := Z.of_nat (length output) in
        let* bias := adapt (s32 (out - oldout)) (s32 size) (oldout =? 0) in
        let decoded := s32 (decoded + out / size) in
        let out := out mod size in
        let* output := decode_insert output (Z.to_nat out) decoded in
        decode_loop fuel' input output (out + 1) decoded bias
      end
    end
  end.

(** [input.rfind('-')] *)
Definition rfind_minus (input : list Z) : option nat :=
  option_map (fun p => length input - 1 - p.1)%nat (list_find (fun ch => ch = "-"%uchar) (reverse input)).

(** The ASCII characters before the last minus. *)
Fixpoint decode_basic (basic : list Z) : bool * list Z :=
  match basic with
  | [] => (true, [])
  | ch :: basic' =>
    if negb (Z.land ch 0x80 =? 0) then (false, [])
    else let '(b, output) := decode_basic basic' in (b, ch :: output)
  end.

Definition punycode_decode (input : list Z) : outcome (bool * list Z) :=
  match rfind_minus input with
  | None => decode_loop (length input) input [] 0 0x80 72
  | Some i =>
    let '(ok, output) := decode_basic (take i input) in
    if negb ok then Ret (false, output)
    else decode_loop (length input) (drop (i + 1) input) output 0 0x80 72
  end.

(** ** Arithmetic *)

Lemma int32_ok z : - 2 ^ 31 <= z < 2 ^ 31 -> int32 z = Ret z.
Proof. intros Hz. unfold int32. by rewrite (proj2 (Z.leb_le _ _)), (proj2 (Z.ltb_lt _ _)) by lia. Qed.

Lemma s32_small z : - 2 ^ 31 <= z < 2 ^ 31 -> s32 z = z.
Proof. intros Hz. unfold s32. rewrite Z.mod_small; lia. Qed.

Lemma u64_fits z : 0 <= z < 2 ^ 64 -> u64 z = z.
Proof. apply Z.mod_small. Qed.

Lemma threshold_bounds k bias : 1 <= threshold k bias <= 26.
Proof. unfold threshold. repeat case_Z; lia. Qed.

Lemma adapt_loop_ok n : forall fuel delta k, (n <= fuel)%nat -> 0 <= delta < 456 * 35 ^ Z.of_nat n ->
  0 <= k -> k + 36 * Z.of_nat n < 2 ^ 31 ->
  exists d' k', adapt_loop fuel delta k = Ret (d', k') /\ 0 <= d' <= 455 /\ k <= k' <= k + 36 * Z.of_nat n.
Proof.
  induction n as [|n IH]; intros fuel delta k Hf Hd Hk Hs.
  - exists delta, k. change (456 * 35 ^ Z.of_nat 0) with 456 in Hd.
    destruct fuel; cbn [adapt_loop]; rewrite (proj2 (Z.ltb_ge _ _)) by lia; (split; [done|lia]).
  - destruct fuel as [|fuel]; [lia|]. cbn [adapt_loop]. destruct (Z.ltb_spec 455 delta) as [Hlt|Hge].
    + rewrite int32_ok by lia. cbn [obind]. rewrite Z.quot_div_nonneg by lia.
      destruct (IH fuel (delta / 35) (k + 36)) as (d' & k' & -> & Hd' & Hk'); [lia| |lia|lia|].
      * rewrite Nat2Z.inj_succ, Z.pow_succ_r in Hd by lia. split; [apply Z.div_pos; lia|].
        apply Z.div_lt_upper_bound; lia.
      * exists d', k'. split; [done|lia].
    + exists delta, k. split; [done|lia].
Qed.

(** The bias stays below 214, so that a digit has a threshold below 18 only at the
    first six places. *)
Lemma adapt_ok delta numpoints first : 0 <= delta < 2 ^ 31 -> 1 <= numpoints ->
  exists bias, adapt delta numpoints first = Ret bias /\ 0 <= bias <= 213.
Proof.
  intros Hd Hn. unfold adapt. set (d := if first then _ else _).
  assert (Hd' : 0 <= d < 2 ^ 30).
  { unfold d. destruct first; [rewrite Z.quot_div_nonneg by lia|rewrite Z.shiftr_div_pow2 by lia]; zlia. }
  clearbody d. rewrite (proj2 (Z.eqb_neq _ _)) by lia. rewrite Z.quot_div_nonneg by lia.
  assert (Hq : 0 <= d / numpoints <= d).
  { split; [apply Z.div_pos; lia|]. apply Z.div_le_upper_bound; [lia|]. nia. }
  rewrite int32_ok by lia. cbn [obind].
  destruct (adapt_loop_ok 5 7 (d + d / numpoints) 0) as (d' & k' & -> & Hr & Hk);
    [lia|change (456 * 35 ^ Z.of_nat 5) with 23949975000; lia|lia|lia|]. cbn [obind].
  rewrite int32_ok by lia. cbn [obind]. rewrite (proj2 (Z.eqb_neq _ _)) by lia.
  rewrite Z.quot_div_nonneg by lia. assert (Hb : 0 <= 36 * d' / (d' + 38) <= 33).
  { split; [apply Z.div_pos; lia|]. apply Z.lt_succ_r. apply Z.div_lt_upper_bound; lia. }
  eexists. rewrite int32_ok by lia. split; [done|]. lia.
Qed.

(** ** The digits of a number *)

Lemma encode_digit_ok d : 0 <= d < 36 ->
  exists ch, rd ENCODE (Z.to_nat d) = Ret ch /\ decode_digit ch = d /\ 0 < ch < 0x80 /\ ch <> "-"%uchar.
Proof.
  intros Hd.
  set (P := fun d => match rd ENCODE (Z.to_nat d) with
    | Ret ch => (decode_digit ch =? d) && (0 <? ch) && (ch <? 0x80) && negb (ch =? "-"%uchar) | _ => false end).
  assert (HP : P d = true) by (apply (forall_below 36); [vm_compute; reflexivity|lia]).
  unfold P in HP. destruct (rd ENCODE (Z.to_nat d)) as [ch| |]; try done. exists ch.
  rewrite !andb_true_iff, negb_true_iff, Z.eqb_eq, !Z.ltb_lt, Z.eqb_neq in HP. split; [done|]. split; [tauto|].
  split; [lia|tauto].
Qed.

Definition is_digit_char (ch : Z) : Prop := 0 < ch < 0x80 /\ ch <> "-"%uchar.

(** Characters that the decoder reads as the number [q] at the place of [k]; [i]
    digits have been read before and the weight is [w]. *)
Definition read_as (q k bias : Z) (chars : list Z) (room : Z) : Prop :=
  forall i w out rest, k = 36 * (i + 1) -> 0 <= i -> k + room <= 1000 -> 0 <= bias <= 213 ->
  1 <= w <= 35 ^ i -> q * w < 2 ^ 31 -> 0 <= out -> out + q * w < 2 ^ 64 ->
  decode_delta (chars ++ rest) out w k bias = Ret (Some (out + q * w, rest)).

Lemma encode_last q k bias room : 0 <= q < threshold k bias ->
  exists ch, rd ENCODE (Z.to_nat q) = Ret ch /\ is_digit_char ch /\ read_as q k bias [ch] room.
Proof.
  intros Hq. pose proof (threshold_bounds k bias) as Ht.
  destruct (encode_digit_ok q ltac:(lia)) as (ch & Er & Ed & Hc & Hm). exists ch. split; [done|]. split; [done|].
  intros i w out rest Ek Hi Hk Hb Hw Hqw Ho Hs. cbn [app decode_delta]. rewrite Ed.
  rewrite (proj2 (Z.leb_gt _ _)), int32_ok by nia. cbn [obind].
  rewrite (proj2 (Z.ltb_lt _ _)), u64_fits by nia. done.
Qed.

(** The encoder writes the digits of [q]. *)
Lemma encode_delta_ok fuel : forall q k bias, 0 <= q < 10 ^ Z.of_nat fuel ->
  exists chars, encode_delta fuel q k bias = Ret chars /\ Forall is_digit_char chars /\ chars <> [] /\
  read_as q k bias chars (36 * Z.of_nat fuel).
Proof.
  induction fuel as [|fuel IH]; intros q k bias Hq; pose proof (threshold_bounds k bias) as Ht;
    cbn [encode_delta]; set (t := threshold k bias) in *.
  - change (10 ^ Z.of_nat 0) with 1 in Hq. rewrite (proj2 (Z.ltb_lt _ _)) by lia.
    destruct (encode_last q k bias (36 * Z.of_nat 0)) as (ch & -> & Hc & Hr); [fold t; lia|]. cbn [obind].
    exists [ch]. split; [done|]. split; [by apply Forall_singleton|]. by split.
  - destruct (Z.ltb_spec q t) as [Hlt|Hge].
    { destruct (encode_last q k bias (36 * Z.of_nat (S fuel))) as (ch & -> & Hc & Hr); [fold t; lia|]. cbn [obind].
      exists [ch]. split; [done|]. split; [by apply Forall_singleton|]. by split. }
    rewrite Z.rem_mod_nonneg, Z.quot_div_nonneg by lia.
    pose proof (Z.div_mod (q - t) (36 - t) ltac:(lia)) as Edm.
    pose proof (Z.mod_pos_bound (q - t) (36 - t) ltac:(lia)) as Hm.
    set (q' := (q - t) / (36 - t)) in *. set (r := (q - t) mod (36 - t)) in *.
    assert (Hq' : 0 <= q' < 10 ^ Z.of_nat fuel).
    { split; [apply Z.div_pos; lia|]. rewrite Nat2Z.inj_succ, Z.pow_succ_r in Hq by lia.
      apply Z.div_lt_upper_bound; [lia|]. nia. }
    destruct (encode_digit_ok (t + r) ltac:(lia)) as (ch & -> & Ed & Hc & Hm'). cbn [obind].
    destruct (IH q' (k + 36) bias Hq') as (chars & -> & Hf & _ & Hd). cbn [obind]. exists (ch :: chars).
    split; [done|]. split; [by constructor|]. split; [done|].
    intros i w out rest Ek Hi Hk Hb Hw Hqw Ho Hs. cbn [app decode_delta]. rewrite Ed. fold t.
    assert (Esum : (t + r) * w + q' * (w * (36 - t)) = q * w) by nia.
    assert (Hww : 1 <= w * (36 - t) <= 35 ^ (i + 1)).
    { rewrite Z.pow_add_r by lia. change (35 ^ 1) with 35. nia. }
    assert (Hw31 : w * (36 - t) < 2 ^ 31).
    { destruct (Z.le_gt_cases 18 t) as [H18|H18]; [nia|].
      assert (Hi6 : i + 1 <= 6) by (unfold t, threshold in H18; repeat case_Z; lia).
      assert (35 ^ (i + 1) <= 35 ^ 6) by (apply Z.pow_le_mono_r; lia).
      change (35 ^ 6) with 1838265625 in *. lia. }
    rewrite (proj2 (Z.leb_gt _ _)), int32_ok by nia. cbn [obind].
    rewrite (proj2 (Z.ltb_ge _ _)), int32_ok by nia. cbn [obind].
    rewrite int32_ok by lia. cbn [obind]. rewrite u64_fits by nia.
    rewrite (Hd (i + 1)) by nia. by rewrite <- Z.add_assoc, Esum.
Qed.

(** ** The rounds of the decoder *)

Lemma memmove_insert pre post c :
  decode_insert (pre ++ post ++ [0]) (length pre) c = Ret (pre ++ c :: post).
Proof.
  unfold decode_insert, memmove. set (x := hd 0 (post ++ [0])).
  assert (Ex : post ++ [0] = x :: tl (post ++ [0])) by (unfold x; by destruct post).
  rewrite !length_app. cbn [length].
  replace (length pre + (length post + 1) - length pre)%nat with (length post + 1)%nat by lia.
  rewrite (proj2 (Nat.leb_le _ _)), (proj2 (Nat.leb_le _ _)) by lia. cbn [andb obind].
  rewrite <- !(app_assoc pre), drop_app_length.
  rewrite (take_app_length' (post ++ [0])) by (rewrite length_app; cbn; lia).
  rewrite drop_ge by (rewrite !length_app; cbn; lia). rewrite app_nil_r.
  replace (take (length pre + 1) (pre ++ (post ++ [0]) ++ [0])) with (pre ++ [x])
    by (rewrite take_app_add, Ex; done).
  replace ((pre ++ [x]) ++ post ++ [0]) with ((pre ++ x :: post) ++ [0]) by (by rewrite <- !app_assoc).
  replace (length pre + (length post + 1))%nat with (length (pre ++ x :: post)) by (rewrite length_app; cbn; lia).
  rewrite rd_at. cbn [obind]. rewrite take_app_length. cbn. apply wr_at.
Qed.

Lemma decode_delta_shorter input : forall out w k bias out' rest,
  decode_delta input out w k bias = Ret (Some (out', rest)) -> (length rest < length input)%nat.
Proof.
  induction input as [|ch input IH]; intros out w k bias out' rest; cbn [decode_delta]; [done|].
  destruct (36 <=? _); [done|]. destruct (int32 (_ * w)); cbn [obind]; try done.
  destruct (_ <? _); [intros [= _ <-]; cbn; lia|].
  destruct (int32 _); cbn [obind]; try done. destruct (int32 (k + 36)); cbn [obind]; try done.
  intros E%IH. cbn. lia.
Qed.

Lemma decode_loop_fuel f1 : forall f2 input output out decoded bias,
  (length input <= f1)%nat -> (length input <= f2)%nat ->
  decode_loop f1 input output out decoded bias = decode_loop f2 input output out decoded bias.
Proof.
  induction f1 as [|f1 IH]; intros f2 input output out decoded bias H1 H2.
  - destruct input; [|cbn in H1; lia]. by destruct f2.
  - destruct input as [|ch input]; [by destruct f2|]. destruct f2 as [|f2]; [cbn in H2; lia|].
    cbn [decode_loop]. destruct (decode_delta (ch :: input) out 1 36 bias) as [[[out' rest]|]| |] eqn:E; try done.
    cbn [obind]. apply decode_delta_shorter in E. cbn [length] in *.
    destruct (adapt _ _ _); cbn [obind]; try done. destruct (decode_insert _ _ _); cbn [obind]; try done.
    apply IH; lia.
Qed.

(** The decoder in the middle of its work. *)
Definition decode (input output : list Z) (out decoded bias : Z) : outcome (bool * list Z) :=
  decode_loop (length input) input output out decoded bias.

(** A round that moves the decoder from the position [i] of the character [n] to the
    position [i'] of [n']. *)
Lemma decode_round chars rest L i n bias delta i' n' bias' :
  0 <= delta < 2 ^ 31 -> 0 <= bias <= 213 -> Z.of_nat (length L) + 1 < 2 ^ 31 ->
  0 <= i <= Z.of_nat (length L) -> 0 <= i' <= Z.of_nat (length L) -> 0 <= n <= n' -> n' < 2 ^ 31 ->
  i + delta = (n' - n) * (Z.of_nat (length L) + 1) + i' ->
  encode_delta 10 delta 36 bias = Ret chars ->
  adapt delta (Z.of_nat (length L) + 1) (i =? 0) = Ret bias' ->
  decode (chars ++ rest) L i n bias =
  decode rest (take (Z.to_nat i') L ++ n' :: drop (Z.to_nat i') L) (i' + 1) n' bias'.
Proof.
  intros Hd Hb Hl Hi Hi' Hn Hn' E Ec Ea.
  destruct (encode_delta_ok 10 delta 36 bias) as (chars' & Ec' & _ & Hne & Hr);
    [change (10 ^ Z.of_nat 10) with 10000000000; lia|]. rewrite Ec in Ec'. injection Ec' as <-.
  specialize (Hr 0 1 i rest eq_refl ltac:(lia) ltac:(lia) Hb ltac:(lia) ltac:(lia) ltac:(lia) ltac:(lia)).
  unfold decode. destruct (chars ++ rest) as [|ch l] eqn:El; [by destruct chars|].
  cbn [length decode_loop]. rewrite Hr. cbn [obind]. rewrite Z.mul_1_r, Z.add_simpl_l, length_app.
  cbn [length]. replace (Z.of_nat (length L + 1)) with (Z.of_nat (length L) + 1) by lia.
  rewrite !s32_small by lia. rewrite Ea. cbn [obind].
  assert (Eq : (i + delta) / (Z.of_nat (length L) + 1) = n' - n).
  { symmetry. apply (Z.div_unique _ _ _ i'); lia. }
  assert (Em : (i + delta) mod (Z.of_nat (length L) + 1) = i').
  { symmetry. apply (Z.mod_unique _ _ (n' - n)); lia. }
  rewrite Eq, Em. rewrite s32_small by lia. replace (n + (n' - n)) with n' by lia.
  rewrite <- (take_drop (Z.to_nat i') L) at 1. rewrite <- app_assoc.
  replace (Z.to_nat i') with (length (take (Z.to_nat i') L)) at 3 by (rewrite length_take; lia).
  rewrite memmove_insert. cbn [obind]. apply decode_loop_fuel; [|done].
  apply (f_equal length) in El. rewrite length_app in El. cbn in El. destruct chars; [done|]. cbn in El. lia.
Qed.

(** ** The rounds of the encoder *)

(** What the decoder gives back for a character: ASCII letters in lower case. *)
Definition lowered (ch : Z) : Z := if ch <? 0x80 then to_lower ch else ch.

Definition below (n : Z) (l : list Z) : list Z := filter (fun ch => ch < n) l.
Definition upto (n : Z) (l : list Z) : list Z := filter (fun ch => ch <= n) l.

Lemma below_cons n ch l : below n (ch :: l) = if ch <? n then ch :: below n l else below n l.
Proof. unfold below. rewrite filter_cons. case_Z; by case_decide; try lia. Qed.

Lemma upto_snoc n l ch : upto n (l ++ [ch]) = upto n l ++ if ch <=? n then [ch] else [].
Proof.
  unfold upto. rewrite filter_app, filter_cons, filter_nil. case_Z; case_decide; try lia; by rewrite ?app_nil_r.
Qed.

Lemma upto_below n l : upto n l = below (n + 1) l.
Proof. unfold upto, below. apply list_filter_iff. lia. Qed.

Lemma handled_le n pre post : (length (upto n pre ++ below n post) <= length (pre ++ post))%nat.
Proof.
  rewrite !length_app. unfold upto, below. pose proof (length_filter (fun ch => ch <= n) pre).
  pose proof (length_filter (fun ch => ch < n) post). lia.
Qed.

Lemma find_least_spec n l : forall acc, let m := find_least n l acc in
  m <= acc /\ (m = acc \/ (m ∈ l /\ n <= m)) /\ (forall ch, ch ∈ l -> n <= ch -> m <= ch).
Proof.
  induction l as [|ch l IH]; intros acc; cbn [find_least].
  { split; [lia|]. split; [by left|]. intros ch Hc. by apply not_elem_of_nil in Hc. }
  destruct (Z.leb_spec n ch) as [H1|H1]; [destruct (Z.ltb_spec ch acc) as [H2|H2]|]; cbn [andb].
  - destruct (IH ch) as (I1 & I2 & I3). split; [lia|]. split.
    + right. destruct I2 as [I2|[I2 I4]]; [rewrite I2; split; [apply list_elem_of_here|lia]|].
      split; [by apply list_elem_of_further|done].
    + intros x [->|Hx]%elem_of_cons Hnx; [done|by apply I3].
  - destruct (IH acc) as (I1 & I2 & I3). split; [lia|]. split.
    + destruct I2 as [I2|[I2 I4]]; [by left|right]. split; [by apply list_elem_of_further|done].
    + intros x [->|Hx]%elem_of_cons Hnx; [lia|by apply I3].
  - destruct (IH acc) as (I1 & I2 & I3). split; [lia|]. split.
    + destruct I2 as [I2|[I2 I4]]; [by left|right]. split; [by apply list_elem_of_further|done].
    + intros x [->|Hx]%elem_of_cons Hnx; [lia|by apply I3].
Qed.

Lemma below_all n l : length (below n l) = length l -> below n l = l.
Proof.
  unfold below. induction l as [|ch l IH]; [done|]. rewrite filter_cons.
  pose proof (length_filter (fun ch => ch < n) l). case_decide; cbn [length]; [intros E; f_equal; apply IH; lia|lia].
Qed.

Lemma below_none n l : (length (below n l) < length l)%nat -> exists ch, ch ∈ l /\ n <= ch.
Proof.
  unfold below. induction l as [|ch l IH]; [cbn; lia|]. rewrite filter_cons. case_decide; cbn [length].
  - intros (x & Hx & Hn)%Nat.succ_lt_mono%IH. exists x. split; [by apply list_elem_of_further|done].
  - intros _. exists ch. split; [apply list_elem_of_here|lia].
Qed.

Lemma below_grows m l : m ∈ l -> (length (below m l) < length (below (m + 1) l))%nat.
Proof.
  assert (Hle : forall l, (length (below m l) <= length (below (m + 1)%Z l))%nat).
  { clear. induction l as [|x l IH]; [done|]. rewrite !below_cons. do 2 case_Z; cbn [length]; lia. }
  intros Hm. apply list_elem_of_split in Hm as (l1 & l2 & ->). unfold below. rewrite !filter_app, !length_app.
  fold (below m l1) (below (m + 1) l1) (below m (m :: l2)) (below (m + 1) (m :: l2)).
  rewrite !below_cons, (proj2 (Z.ltb_ge m m)), (proj2 (Z.ltb_lt m (m + 1))) by lia. cbn [length].
  pose proof (Hle l1). pose proof (Hle l2). lia.
Qed.

Lemma below_same m n l : (forall ch, ch ∈ l -> ch < m <-> ch < n) -> below m l = below n l.
Proof.
  induction l as [|ch l IH]; intros Hl; [done|].
  rewrite !below_cons, IH by (intros x Hx; apply Hl; by apply list_elem_of_further).
  specialize (Hl ch (list_elem_of_here _ _)). do 2 case_Z; done || lia.
Qed.

Section Encode.
Context (input : list Z) (M : Z).
Hypothesis HM : Forall (fun ch => 0 <= ch <= M) input.
Hypothesis Hsize : (M + 1) * (Z.of_nat (length input) + 1) <= 2 ^ 31.
Hypothesis HM80 : 0x80 <= M.

(** The encoder has passed the characters [pre] in its round for [n]; [prefix] was
    written before the first round.  The decoder has read what was written since,
    holds the smaller characters and those of [pre] up to [n] and stands at position
    [i_d] of [n_d], [delta] short of the position after [pre] of [n]. *)
Record encoding (prefix : list Z) (n : Z) (pre post : list Z) (e : encoder) (written : list Z) (i_d n_d : Z) : Prop := {
  en_output : e_output e = prefix ++ written;
  en_chars : Forall is_digit_char written;
  en_decode : forall rest, decode (written ++ rest) (map lowered (below 0x80 input)) 0 0x80 72 =
    decode rest (map lowered (upto n pre ++ below n post)) i_d n_d (e_bias e);
  en_handled : e_handled e = Z.of_nat (length (upto n pre ++ below n post));
  en_delta : e_delta e = (n - n_d) * (e_handled e + 1) + Z.of_nat (length (upto n pre)) - i_d;
  en_nonneg : 0 <= e_delta e;
  en_char : 0x80 <= n_d <= n;
  en_position : 0 <= i_d <= e_handled e;
  en_bias : 0 <= e_bias e <= 213;
  en_first : e_first e = (i_d =? 0)
}.

(** No intermediate value overflows. *)
Lemma delta_fits h n n_d c i_d : 0x80 <= n_d <= n -> n <= M + 1 -> 0 <= h <= Z.of_nat (length input) ->
  0 <= c <= h -> 0 <= i_d -> n <= M \/ c = 0 -> (n - n_d) * (h + 1) + c - i_d < 2 ^ 31.
Proof using Hsize HM80.
  intros Hn Hm Hh Hc Hi Hcase. assert (HN : 0 <= Z.of_nat (length input)) by lia.
  assert ((n - n_d) * (h + 1) <= (n - n_d) * (Z.of_nat (length input) + 1)) by nia.
  destruct Hcase; nia.
Qed.

(** Writing a character of the round brings the decoder to the position after it. *)
Lemma char_ok prefix n pre post e written i_d n_d : n <= M -> input = pre ++ n :: post ->
  encoding prefix n pre (n :: post) e written i_d n_d ->
  exists e' written' i_d', encode_char e = Ret e' /\ encoding prefix n (pre ++ [n]) post e' written' i_d' n.
Proof using Hsize HM80.
  intros Hn Ei [E1 E2 E3 E4 E5 E6 E7 E8 E9 E10].
  pose proof (handled_le n pre (n :: post)) as Hh. rewrite <- Ei in Hh.
  rewrite below_cons, Z.ltb_irrefl in E3, E4, Hh. rewrite length_app in E4, Hh.
  set (c := Z.of_nat (length (upto n pre))) in *. assert (Hc : 0 <= c <= e_handled e) by lia.
  pose proof (delta_fits (e_handled e) n n_d c i_d E7 ltac:(lia) ltac:(lia) Hc ltac:(lia) ltac:(lia)) as Hfit.
  destruct (encode_delta_ok 10 (e_delta e) 36 (e_bias e)) as (chars & Ec & Hf & _ & _);
    [change (10 ^ Z.of_nat 10) with 10000000000; lia|].
  destruct (adapt_ok (e_delta e) (e_handled e + 1) (e_first e)) as (bias' & Ea & Hb'); [lia|lia|].
  assert (HN : Z.of_nat (length input) + 1 < 2 ^ 31) by nia.
  unfold encode_char. rewrite Ec. cbn [obind]. rewrite u64_fits, s32_small, Ea by lia. cbn [obind].
  assert (Hlow : lowered n = n) by (unfold lowered; rewrite (proj2 (Z.ltb_ge _ _)); [done|lia]).
  assert (El : upto n (pre ++ [n]) = upto n pre ++ [n]) by (by rewrite upto_snoc, Z.leb_refl).
  eexists _, (written ++ chars), (c + 1). split; [done|].
  constructor; cbn [e_output e_bias e_handled e_delta e_first].
  - by rewrite E1, app_assoc.
  - by apply Forall_app.
  - intros rest. rewrite <- app_assoc, E3.
    assert (Hlen : Z.of_nat (length (map lowered (upto n pre ++ below n post))) = e_handled e)
      by (rewrite length_map, length_app; lia).
    rewrite (decode_round chars rest _ i_d n_d (e_bias e) (e_delta e) c n bias'); try done; try lia.
    + f_equal. rewrite El, map_app, !map_app. cbn [map]. rewrite Hlow, <- app_assoc. cbn [app].
      unfold c. rewrite Nat2Z.id, take_app_length', drop_app_length' by (by rewrite length_map). done.
    + rewrite Hlen, <- E10. exact Ea.
  - rewrite El, !length_app. cbn [length]. lia.
  - rewrite El, length_app. cbn [length]. lia.
  - lia.
  - lia.
  - lia.
  - lia.
  - symmetry. apply Z.eqb_neq. lia.
Qed.

(** Passing another character. *)
Lemma pass_ok prefix n pre ch post e written i_d n_d : n <= M -> input = pre ++ ch :: post -> ch <> n ->
  encoding prefix n pre (ch :: post) e written i_d n_d ->
  exists e', (if ch <? n then let* delta := int32 (e_delta e + 1) in Ret (set_delta delta e) else Ret e) = Ret e' /\
  encoding prefix n (pre ++ [ch]) post e' written i_d n_d.
Proof using Hsize HM80.
  intros Hn Ei Hne [E1 E2 E3 E4 E5 E6 E7 E8 E9 E10].
  pose proof (handled_le n pre (ch :: post)) as Hh. rewrite <- Ei in Hh. rewrite below_cons in E3, E4, Hh.
  destruct (Z.ltb_spec ch n) as [Hlt|Hge].
  - assert (El : upto n (pre ++ [ch]) = upto n pre ++ [ch]) by (rewrite upto_snoc, (proj2 (Z.leb_le _ _)) by lia; done).
    assert (Ec : upto n (pre ++ [ch]) ++ below n post = upto n pre ++ ch :: below n post) by (by rewrite El, <- app_assoc).
    rewrite length_app in Hh. pose proof E4 as E4'. rewrite length_app in E4'. cbn [length] in E4', Hh.
    pose proof (delta_fits (e_handled e) n n_d (Z.of_nat (length (upto n pre)) + 1) i_d E7 ltac:(lia) ltac:(lia)
      ltac:(lia) ltac:(lia) ltac:(lia)) as Hfit.
    rewrite int32_ok by lia. cbn [obind]. eexists. split; [done|].
    constructor; try done; cbn [set_delta e_output e_bias e_handled e_delta e_first].
    + by rewrite Ec.
    + by rewrite Ec.
    + rewrite El, length_app. cbn [length]. lia.
    + lia.
  - assert (El : upto n (pre ++ [ch]) = upto n pre)
      by (rewrite upto_snoc, (proj2 (Z.leb_gt _ _)) by lia; apply app_nil_r).
    exists e. split; [done|]. by constructor; rewrite ?El.
Qed.

Lemma scan_ok prefix n post : n <= M -> forall pre e written i_d n_d, input = pre ++ post ->
  encoding prefix n pre post e written i_d n_d ->
  exists e' written' i_d' n_d', encode_scan n post e = Ret e' /\ encoding prefix n input [] e' written' i_d' n_d'.
Proof using HM Hsize HM80.
  intros Hn. induction post as [|ch post IH]; intros pre e written i_d n_d Ei En.
  { rewrite app_nil_r in Ei. subst pre. by exists e, written, i_d, n_d. }
  assert (Ei' : input = (pre ++ [ch]) ++ post) by (by rewrite <- app_assoc).
  cbn [encode_scan]. destruct (Z.eq_dec ch n) as [->|Hne].
  - rewrite Z.ltb_irrefl, Z.eqb_refl.
    destruct (char_ok prefix n pre post e written i_d n_d Hn Ei En) as (e' & w' & i' & -> & En'). cbn [obind].
    exact (IH _ _ _ _ _ Ei' En').
  - destruct (pass_ok prefix n pre ch post e written i_d n_d Hn Ei Hne En) as (e' & Ee & En').
    rewrite (proj2 (Z.eqb_neq _ _) Hne), Ee. cbn [obind]. exact (IH _ _ _ _ _ Ei' En').
Qed.

(** A round of the encoder from [n], where the characters below [n] are handled, to
    the first character [m] from there on and past it. *)
Lemma round_ok prefix n e written i_d n_d : n <= M + 1 ->
  encoding prefix n [] input e written i_d n_d -> e_handled e < Z.of_nat (length input) ->
  exists m e2 written' i_d' n_d', n <= m <= M /\ m ∈ input /\ find_least n input MAX_WCHAR_T = m /\
  (forall k : encoder -> outcome (list Z),
   (let* gap := int32 (m - n) in
    let* product := int32 (gap * s32 (u64 (e_handled e + 1))) in
    let* delta := int32 (e_delta e + product) in
    let* e := encode_scan m input (set_delta delta e) in
    let* delta := int32 (e_delta e + 1) in
    k (set_delta delta e)) = k e2) /\
  encoding prefix (m + 1) [] input e2 written' i_d' n_d' /\ e_handled e < e_handled e2.
Proof using HM Hsize HM80.
  intros Hn En Hlt. pose proof En as [E1 E2 E3 E4 E5 E6 E7 E8 E9 E10].
  change (upto n []) with (@nil Z) in E3, E4, E5. cbn [app length] in E3, E4, E5.
  assert (HN : Z.of_nat (length input) + 1 < 2 ^ 30) by nia. assert (HM30 : M + 1 <= 2 ^ 30) by nia.
  destruct (below_none n input ltac:(lia)) as (ch & Hch & Hnch).
  pose proof (proj1 (Forall_forall _ _) HM ch Hch) as Hchm. cbn beta in Hchm.
  destruct (find_least_spec n input MAX_WCHAR_T) as (F1 & F2 & F3). set (m := find_least n input MAX_WCHAR_T) in *.
  specialize (F3 ch Hch Hnch) as Fm. unfold MAX_WCHAR_T in *.
  destruct F2 as [F2|[Hm Hnm]]; [lia|]. exists m.
  assert (Eb : below m input = below n input).
  { apply below_same. intros x Hx. split; intros Hxx; [|lia].
    destruct (Z.lt_ge_cases x n) as [|Hge]; [done|]. specialize (F3 x Hx Hge). lia. }
  pose proof (delta_fits (e_handled e) m n_d 0 i_d ltac:(lia) ltac:(lia) ltac:(lia) ltac:(lia) ltac:(lia) ltac:(lia)) as Hfit.
  pose proof (Z.mul_nonneg_nonneg (m - n) (e_handled e + 1) ltac:(lia) ltac:(lia)) as Hprod.
  assert (En1 : encoding prefix m [] input (set_delta (e_delta e + (m - n) * (e_handled e + 1)) e) written i_d n_d).
  { constructor; try done; cbn [set_delta e_output e_bias e_handled e_delta e_first upto filter list_filter app length].
    - by rewrite Eb.
    - by rewrite Eb.
    - lia.
    - nia.
    - lia. }
  destruct (scan_ok prefix m input ltac:(lia) [] _ _ _ _ eq_refl En1) as (e2 & w2 & i2 & n2 & Es & En2).
  destruct En2 as [G1 G2 G3 G4 G5 G6 G7 G8 G9 G10]. cbn [below filter list_filter] in G3, G4.
  rewrite app_nil_r in G3, G4. rewrite upto_below in G3, G4, G5. pose proof (below_grows m input Hm) as Hg.
  pose proof (handled_le (m + 1) [] input) as Hh2.
  change (upto (m + 1) []) with (@nil Z) in Hh2. cbn [app] in Hh2.
  pose proof (delta_fits (e_handled e2) (m + 1) n2 0 i2 ltac:(lia) ltac:(lia) ltac:(lia) ltac:(lia) ltac:(lia) ltac:(lia)) as Hfit2.
  exists (set_delta (e_delta e2 + 1) e2), w2, i2, n2. split; [lia|]. split; [done|]. split; [done|]. split; [|split].
  - intros k. rewrite int32_ok by lia. cbn [obind]. rewrite u64_fits, s32_small by lia.
    rewrite int32_ok by lia. cbn [obind]. rewrite int32_ok by lia. cbn [obind]. rewrite Es. cbn [obind].
    by rewrite int32_ok by lia.
  - constructor; try done; cbn [set_delta e_output e_bias e_handled e_delta e_first upto filter list_filter app length];
      try lia.
  - cbn [set_delta e_handled]. rewrite Eb in Hg. lia.
Qed.

Lemma loop_end prefix n e written i_d n_d : encoding prefix n [] input e written i_d n_d ->
  Z.of_nat (length input) <= e_handled e ->
  decode written (map lowered (below 0x80 input)) 0 0x80 72 = Ret (true, map lowered input).
Proof using.
  intros [_ _ E3 E4 _ _ _ _ _ _] Hge. specialize (E3 []). rewrite app_nil_r in E3. rewrite E3.
  change (upto n []) with (@nil Z) in E4 |- *. cbn [app] in E4 |- *. rewrite below_all; [done|].
  pose proof (handled_le n [] input) as Hh. change (upto n []) with (@nil Z) in Hh. cbn [app] in Hh. lia.
Qed.

Lemma loop_ok prefix fuel : forall n e written i_d n_d, n <= M + 1 ->
  encoding prefix n [] input e written i_d n_d -> Z.of_nat (length input) - e_handled e <= Z.of_nat fuel ->
  exists written', encode_loop fuel input n e = Ret (prefix ++ written') /\ Forall is_digit_char written' /\
  decode written' (map lowered (below 0x80 input)) 0 0x80 72 = Ret (true, map lowered input).
Proof using HM Hsize HM80.
  induction fuel as [|fuel IH]; intros n e written i_d n_d Hn En Hf; cbn [encode_loop];
    destruct (Z.ltb_spec (e_handled e) (Z.of_nat (length input))) as [Hlt|Hge]; try lia.
  - exists written. rewrite (en_output _ _ _ _ _ _ _ _ En). split; [done|].
    split; [apply En|]. by apply (loop_end prefix n e written i_d n_d).
  - destruct (round_ok prefix n e written i_d n_d Hn En Hlt) as (m & e2 & w2 & i2 & n2 & Hm & _ & -> & Er & En2 & Hh).
    rewrite (Er (fun e => let* n' := int32 (m + 1) in encode_loop fuel input n' e)).
    pose proof (en_char _ _ _ _ _ _ _ _ En) as Hc. pose proof (en_position _ _ _ _ _ _ _ _ En) as Hp.
    assert (HM30 : M + 1 <= 2 ^ 30) by nia. rewrite int32_ok by lia.
    cbn [obind]. apply (IH (m + 1) e2 w2 i2 n2); [lia|done|lia].
  - exists written. rewrite (en_output _ _ _ _ _ _ _ _ En). split; [done|].
    split; [apply En|]. by apply (loop_end prefix n e written i_d n_d).
Qed.
End Encode.

(** ** The whole functions *)

Lemma encode_basic_ok input : Forall (fun ch => 0 <= ch) input ->
  encode_basic input = (true, map lowered (below 0x80 input)).
Proof.
  induction 1 as [|ch input Hc _ IH]; [done|]. cbn [encode_basic]. rewrite (proj2 (Z.ltb_ge _ _) Hc), IH, below_cons.
  destruct (Z.ltb_spec ch 0x80) as [Hlt|Hge]; [|done]. cbn [map]. unfold lowered at 2.
  rewrite (proj2 (Z.ltb_lt _ _) Hlt), u8_id by (unfold is_byte; lia). done.
Qed.

Lemma encode_basic_negative pre ch post : Forall (fun ch => 0 <= ch) pre -> ch < 0 ->
  encode_basic (pre ++ ch :: post) = (false, map lowered (below 0x80 pre)).
Proof.
  intros Hp Hc. induction Hp as [|c pre Hc' _ IH]; cbn [app encode_basic]; [by rewrite (proj2 (Z.ltb_lt _ _) Hc)|].
  rewrite (proj2 (Z.ltb_ge _ _) Hc'), IH, below_cons. destruct (Z.ltb_spec c 0x80) as [Hlt|Hge]; [|done].
  cbn [map]. unfold lowered at 2. rewrite (proj2 (Z.ltb_lt _ _) Hlt), u8_id by (unfold is_byte; lia). done.
Qed.

Lemma lowered_ascii input : Forall (fun ch => 0 <= ch) input ->
  Forall (fun ch => 0 <= ch < 0x80) (map lowered (below 0x80 input)).
Proof.
  intros Hi. apply Forall_map. unfold below. apply Forall_forall. intros ch [Hc Hin]%list_elem_of_filter.
  rewrite Forall_forall in Hi. specialize (Hi ch Hin). unfold lowered. rewrite (proj2 (Z.ltb_lt _ _) Hc).
  rewrite to_lower_spec by (unfold is_byte; lia). repeat case_Z; cbn [andb]; lia.
Qed.

Lemma decode_basic_ok l : Forall (fun ch => 0 <= ch < 0x80) l -> decode_basic l = (true, l).
Proof.
  induction 1 as [|ch l Hc _ IH]; [done|]. cbn [decode_basic]. rewrite IH.
  assert (E : (Z.land ch 0x80 =? 0) = true); [|by rewrite E].
  apply (forall_below 128 (fun ch => Z.land ch 0x80 =? 0)); [vm_compute; reflexivity|lia].
Qed.

Lemma no_minus l : Forall is_digit_char l -> list_find (fun ch => ch = "-"%uchar) (reverse l) = None.
Proof.
  intros Hl. apply list_find_None. apply Forall_forall. intros ch Hc. rewrite elem_of_reverse in Hc.
  rewrite Forall_forall in Hl. apply (Hl ch Hc).
Qed.

Lemma rfind_minus_ok pre post : Forall is_digit_char post ->
  rfind_minus (pre ++ "-"%uchar :: post) = Some (length pre).
Proof.
  intros Hp. unfold rfind_minus. rewrite reverse_app, reverse_cons, <- app_assoc, list_find_app_r by by apply no_minus.
  cbn [app list_find]. rewrite decide_True by done. cbn. f_equal.
  rewrite length_app, length_reverse. cbn [length]. lia.
Qed.

(** C14: [punycode_decode] reads what [punycode_encode] writes back as the same text
    with its ASCII letters in lower case, for every text whose characters and length
    do not overflow a [wchar_t] ([M] is a bound of the characters: with the last code
    point of Unicode every text of up to 1926 characters).  What is written is ASCII;
    both functions return and stay inside their tables and strings. *)
Theorem punycode_roundtrip input M : Forall (fun ch => 0 <= ch <= M) input -> 0x80 <= M ->
  (M + 1) * (Z.of_nat (length input) + 1) <= 2 ^ 31 ->
  exists output, punycode_encode input = Ret (true, output) /\ Forall (fun ch => 0 <= ch < 0x80) output /\
  punycode_decode output = Ret (true, map lowered input).
Proof.
  intros HM H80 Hs. assert (Hnn : Forall (fun ch => 0 <= ch) input) by (eapply Forall_impl; [exact HM|]; cbn; lia).
  unfold punycode_encode. rewrite (encode_basic_ok input Hnn). cbn [negb].
  pose proof (lowered_ascii input Hnn) as Ha. set (basic := map lowered (below 0x80 input)) in *.
  set (prefix := match basic with [] => [] | _ => basic ++ ["-"%uchar] end).
  assert (Hlen : length basic = length (below 0x80 input)) by apply length_map.
  destruct (loop_ok input M HM Hs H80 prefix (length input) 0x80
    {| e_delta := 0; e_bias := 72; e_handled := Z.of_nat (length basic); e_first := true; e_output := prefix |}
    [] 0 0x80) as (written & -> & Hw & Hd).
  - lia.
  - constructor; cbn [e_delta e_bias e_handled e_first e_output]; try done; try lia.
    + by rewrite app_nil_r.
    + by rewrite Hlen.
  - cbn [e_handled]. lia.
  - cbn [obind]. eexists. split; [done|]. split.
    + apply Forall_app. split.
      * unfold prefix. destruct basic; [constructor|]. apply Forall_app. split; [done|]. by apply Forall_singleton.
      * eapply Forall_impl; [exact Hw|]. intros ch [Hc _]. lia.
    + unfold punycode_decode. unfold prefix. destruct basic as [|b basic'] eqn:Eb.
      * unfold rfind_minus. cbn [app]. rewrite no_minus by done. cbn [option_map].
        change (map lowered (below 0x80 input)) with basic in Hd. rewrite Eb in Hd. exact Hd.
      * rewrite <- Eb in *. rewrite <- app_assoc. cbn [app]. rewrite (rfind_minus_ok basic written Hw).
        rewrite take_app_length, (decode_basic_ok basic Ha). cbn [negb]. rewrite drop_app_add. cbn [drop].
        rewrite <- Hd. apply decode_loop_fuel; [rewrite length_app; cbn; lia|done].
Qed.

Lemma punycode_roundtrip_witness :
  exists output, punycode_encode [0x42; 0xfc; 0x63; 0x68; 0x65; 0x72; 0x2d; 0x1f600; 0x4e2d] = Ret (true, output) /\
  punycode_decode output = Ret (true, [0x62; 0xfc; 0x63; 0x68; 0x65; 0x72; 0x2d; 0x1f600; 0x4e2d]).
Proof.
  destruct (punycode_roundtrip [0x42; 0xfc; 0x63; 0x68; 0x65; 0x72; 0x2d; 0x1f600; 0x4e2d] 0x10FFFF)
    as (output & E & _ & D).
  - by_eval.
  - lia.
  - apply Z.leb_le. vm_compute. reflexivity.
  - exists output. split; [exact E|exact D].
Defined.

(** What the functions do at the edges: a negative character is refused with the
    ASCII characters before it in the output; the greatest [wchar_t] overflows the
    counter after it; the decoder overflows on long runs of big digits, and accepts
    numbers that are no code points. *)
Theorem punycode_edges :
  (forall pre ch post, Forall (fun ch => 0 <= ch) pre -> ch < 0 ->
    punycode_encode (pre ++ ch :: post) = Ret (false, map lowered (below 0x80 pre))) /\
  punycode_encode [MAX_WCHAR_T] = Undef /\
  punycode_decode (bytes "99999999a") = Undef /\
  punycode_decode (bytes "99999a") = Ret (true, [4760513]) /\ 0x10FFFF < 4760513.
Proof.
  split.
  - intros pre ch post Hp Hc. unfold punycode_encode. by rewrite (encode_basic_negative pre ch post Hp Hc).
  - split; [|split; [|split]]; vm_compute; reflexivity.
Qed.

Example punycode_samples :
  punycode_encode [0x62; 0xfc; 0x63; 0x68; 0x65; 0x72] = Ret (true, bytes "bcher-kva") /\
  punycode_decode (bytes "bcher-kva") = Ret (true, [0x62; 0xfc; 0x63; 0x68; 0x65; 0x72]).
Proof. split; vm_compute; reflexivity. Qed.
