(* ===== verification/Tokenizer.v ===== *)
(** * Tokenizer: splitting of texts by categories

    Models [src/String/Tokenizer.hpp] and [InverseCategory] of
    [src/String/StringManip.tpp].  The templates work with every category that
    finds its characters in a range; the class [Category] is that interface and
    [CategoryLaws] what the categories promise: a text is read symbol by symbol,
    and the searches stop at the first symbol that is owned or not.  The categories
    of single characters ([AsciiManip]) are an instance.

    A text is the list of its characters from a pointer to [END]; a null pointer
    that a search returns is [None].  The text itself is not null: on a default
    constructed [SubString], which has no text at all, the search for the first
    token returns the null pointer it was given and [is_error] becomes true, where
    an empty text has no token and no error. *)
From S2P Require Import Prelude AsciiManip.
Local Open Scope Z_scope.
Local Open Scope outcome_scope.

(** The pointer and [*octets] that [find_owned(begin, end, octets)] and
    [find_nonowned(begin, end, octets)] give. *)
Class Category (C : Type) := {
  cat_find_owned : C -> list Z -> outcome (option (list Z * nat));
  cat_find_nonowned : C -> list Z -> outcome (option (list Z * nat))
}.

(** [*octets_length = 1] when a character is found; the [find_nonowned] of these
    categories has no such argument, and nothing uses the value. *)
Definition one_octet (found : list Z) : option (list Z * nat) :=
  Some (found, match found with [] => O | _ => 1%nat end).

#[export] Instance CharCategory {P} `{CharPredicate P} : Category P := {
  cat_find_owned := fun c str => Ret (one_octet (find_owned c str));
  cat_find_nonowned := fun c str => Ret (one_octet (find_nonowned c str))
}.

Record InverseCategory (C : Type) : Type := { inverse_of : C }.
Arguments inverse_of {C} _.

#[export] Instance InverseCategory_category {C} `{Category C} : Category (InverseCategory C) := {
  cat_find_owned := fun c => cat_find_nonowned (inverse_of c);
  cat_find_nonowned := fun c => cat_find_owned (inverse_of c)
}.

(** ** Splitter *)

(** [separator] has no value before a token is found. *)
Record SplitterState : Type := {
  str : list Z;
  separator : option (list Z);
  error : bool
}.

Definition SplitterState_ (s : list Z) : SplitterState :=
  {| str := s; separator := None; error := false |}.

Section Splitter.
Context {C : Type} `{Category C} (category : C).

(** [GetToken<true>] *)
Definition get_token_empty (state : SplitterState) : outcome (option (list Z) * SplitterState) :=
  match str state with
  | [] => Ret (None, state)
  | _ =>
    let* found := cat_find_owned category (str state) in
    match found with
    | Some (separator, octets_length) =>
      Ret (Some (range (str state) separator),
           {| str := drop octets_length separator; separator := Some separator; error := error state |})
    | None => Ret (None, {| str := str state; separator := None; error := true |})
    end
  end.

(** [GetToken<false>] *)
Definition get_token_nonempty (state : SplitterState) : outcome (option (list Z) * SplitterState) :=
  let failed := Ret (None, {| str := str state; separator := separator state; error := true |}) in
  let* found := cat_find_nonowned category (str state) in
  match found with
  | Some (begin, _) =>
    let* found := cat_find_owned category begin in
    match found with
    | Some (end_, _) =>
      if (length begin =? length end_)%nat then Ret (None, state)
      else Ret (Some (range begin end_), {| str := end_; separator := Some end_; error := error state |})
    | None => failed
    end
  | None => failed
  end.

(** [Splitter::get_token] *)
Definition get_token (EMPTY : bool) : SplitterState -> outcome (option (list Z) * SplitterState) :=
  if EMPTY then get_token_empty else get_token_nonempty.

(** [while (splitter.get_token(token))]: the tokens and [is_error()]. *)
Fixpoint all_tokens (fuel : nat) (EMPTY : bool) (state : SplitterState) : outcome (list (list Z) * bool) :=
  match fuel with
  | O => Undef
  | S fuel' =>
    let* (token, state) := get_token EMPTY state in
    match token with
    | None => Ret ([], error state)
    | Some token => let* (tokens, e) := all_tokens fuel' EMPTY state in Ret (token :: tokens, e)
    end
  end.

Definition split (EMPTY : bool) (s : list Z) : outcome (list (list Z) * bool) :=
  all_tokens (S (length s)) EMPTY (SplitterState_ s).

(** ** divide

    The calls of [callback] and the result. *)
Inductive piece : Type :=
| Nonowned (s : list Z)
| Owned (s : list Z).

Definition call_back (f : list Z -> piece) (last cur : list Z) : list piece :=
  if (length cur =? length last)%nat then [] else [f (range last cur)].

Fixpoint divide_loop (fuel : nat) (last : list Z) : outcome (list piece * bool) :=
  match fuel with
  | O => Undef
  | S fuel' =>
    let* cur := cat_find_owned category last in
    match cur with
    | None => Ret ([], false)
    | Some (cur, _) =>
      let first := call_back Nonowned last cur in
      match cur with
      | [] => Ret (first, true)
      | _ =>
        let last := cur in
        let* cur := cat_find_nonowned category last in
        match cur with
        | None => Ret (first, false)
        | Some (cur, _) =>
          let second := call_back Owned last cur in
          match cur with
          | [] => Ret (first ++ second, true)
          | _ => let* (rest, b) := divide_loop fuel' cur in Ret (first ++ second ++ rest, b)
          end
        end
      end
    end
  end.

Definition divide (s : list Z) : outcome (list piece * bool) := divide_loop (S (length s)) s.
End Splitter.

(** ** What a category promises *)

(** The length of the first symbol of a text, or [None] when it cannot be read, and
    whether it is owned. *)
Class CategorySymbols (C : Type) := {
  symbol_length : C -> list Z -> option nat;
  owns : C -> list Z -> bool
}.

(** The symbols of a text, up to its end ([true]) or to the first one that cannot
    be read. *)
Inductive reads {C} `{CategorySymbols C} (c : C) : list Z -> list (list Z * bool) -> bool -> Prop :=
| reads_end : reads c [] [] true
| reads_broken ch s : symbol_length c (ch :: s) = None -> reads c (ch :: s) [] false
| reads_symbol y s L b : y <> [] -> symbol_length c (y ++ s) = Some (length y) -> reads c s L b ->
    reads c (y ++ s) ((y, owns c (y ++ s)) :: L) b.

(** [r] is the first symbol of [s] that is owned or not as [want] says. *)
Definition found_at {C} `{CategorySymbols C} (c : C) (want : bool) (s : list Z) (L : list (list Z * bool)) (b : bool)
  (r : option (list Z * nat)) : Prop :=
  exists pre post, L = pre ++ post /\ Forall (fun p => p.2 = negb want) pre /\
  match post with
  | [] => r = (if b then Some ([], O) else None) /\ (b = true -> s = concat pre.*1)
  | (y, o) :: _ => o = want /\ exists sep, r = Some (sep, length y) /\ reads c sep post b /\ s = concat pre.*1 ++ sep
  end.

Class CategoryLaws (C : Type) `{Category C} `{CategorySymbols C} := {
  symbol_length_bounds : forall c ch s n, symbol_length c (ch :: s) = Some n -> (1 <= n <= S (length s))%nat;
  find_owned_law : forall c s L b, reads c s L b ->
    exists r, cat_find_owned c s = Ret r /\ found_at c true s L b r;
  find_nonowned_law : forall c s L b, reads c s L b ->
    exists r, cat_find_nonowned c s = Ret r /\ found_at c false s L b r
}.

Section Reads.
Context {C : Type} `{CategoryLaws C} (c : C).

Lemma reads_total s : exists L b, reads c s L b.
Proof using All.
  remember (length s) as k eqn:Ek. assert (Hk : (length s <= k)%nat) by lia. clear Ek. revert s Hk.
  induction k as [|k IH]; intros [|ch s] Hk; try (by exists [], true; constructor); [cbn in Hk; lia|].
  destruct (symbol_length c (ch :: s)) as [n|] eqn:E; [|by exists [], false; constructor].
  pose proof (symbol_length_bounds c ch s n E) as Hn.
  destruct (IH (drop n (ch :: s))) as (L & b & HL); [rewrite length_drop; cbn in *; lia|].
  exists ((take n (ch :: s), owns c (ch :: s)) :: L), b.
  pose proof (reads_symbol c (take n (ch :: s)) (drop n (ch :: s)) L b) as HR. rewrite take_drop in HR.
  apply HR; [|by rewrite length_take_le by (cbn; lia)|done]. destruct n; [lia|done].
Qed.

Lemma reads_fun s L b : reads c s L b -> forall L' b', reads c s L' b' -> L = L' /\ b = b'.
Proof using All.
  induction 1 as [|ch s E|y s L b Hy Ey HR IH]; intros L' b' H'.
  - inversion H' as [| |y' s' L'' b'' Hy']; subst; [done|]. by destruct y'.
  - inversion H' as [|ch' s' E'|y' s' L'' b'' Hy' Ey']; subst; [done|]. congruence.
  - inversion H' as [E0|ch' s' E' E0|y' s' L'' b'' Hy' Ey' HR' E0]; subst.
    + by destruct y.
    + congruence.
    + rewrite E0 in Ey'. rewrite Ey in Ey'. injection Ey' as El.
      apply app_inj_1 in E0 as [-> ->]; [|done]. destruct (IH _ _ HR') as [-> ->]. done.
Qed.

Lemma reads_length s L b : reads c s L b -> (length L <= length s)%nat.
Proof using All.
  induction 1 as [| |y s L b Hy _ _ IH]; cbn; [lia..|]. rewrite length_app. destruct y; [done|]. cbn. lia.
Qed.

Lemma reads_concat s L b : reads c s L b -> exists bad, s = concat L.*1 ++ bad /\ (b = true <-> bad = []).
Proof using All.
  induction 1 as [|ch s E|y s L b Hy _ _ (bad & -> & Hb)].
  - by exists [].
  - by exists (ch :: s).
  - exists bad. cbn. by rewrite app_assoc.
Qed.
End Reads.

#[export] Instance CharCategory_symbols {P} `{CharPredicate P} : CategorySymbols P := {
  symbol_length := fun _ s => match s with [] => None | _ => Some 1%nat end;
  owns := fun c s => match s with [] => false | ch :: _ => is_owned c ch end
}.

Lemma found_here {C} `{CategorySymbols C} (c : C) want y o s L b :
  o = want -> reads c (y ++ s) ((y, o) :: L) b -> found_at c want (y ++ s) ((y, o) :: L) b (Some (y ++ s, length y)).
Proof.
  intros Eo HR. exists [], ((y, o) :: L). split; [done|]. split; [constructor|]. split; [done|]. by exists (y ++ s).
Qed.

Lemma found_further {C} `{CategorySymbols C} (c : C) want y o s L b r :
  o = negb want -> found_at c want s L b r -> found_at c want (y ++ s) ((y, o) :: L) b r.
Proof.
  intros Eo (pre & post & -> & Hp & Hr). exists ((y, o) :: pre), post. split; [done|]. split; [by constructor|].
  destruct post as [|[y' o'] post].
  - destruct Hr as [-> Hs]. split; [done|]. intros Eb. cbn. by rewrite Hs.
  - destruct Hr as (-> & sep & -> & HR & ->). split; [done|]. exists sep. split; [done|]. split; [done|].
    cbn. by rewrite app_assoc.
Qed.

#[export] Instance CharCategory_laws {P} `{CharPredicate P} : CategoryLaws P.
Proof.
  split.
  - intros c ch s n [= <-]. lia.
  - intros c s L b HR. eexists. split; [done|].
    induction HR as [|ch s E|y s L b Hy Ey HR IH]; [by exists [], []|done|].
    destruct y as [|ch [|]]; [done| |done]. cbn [app owns CharCategory_symbols find_owned].
    destruct (is_owned c ch) eqn:Eo.
    + apply (found_here c true [ch]); [done|]. rewrite <- Eo. exact (reads_symbol c [ch] s L b Hy Ey HR).
    + by apply (found_further c true [ch]).
  - intros c s L b HR. eexists. split; [done|].
    induction HR as [|ch s E|y s L b Hy Ey HR IH]; [by exists [], []|done|].
    destruct y as [|ch [|]]; [done| |done]. cbn [app owns CharCategory_symbols find_nonowned].
    destruct (is_owned c ch) eqn:Eo; cbn [negb].
    + by apply (found_further c false [ch]).
    + apply (found_here c false [ch]); [done|]. rewrite <- Eo. exact (reads_symbol c [ch] s L b Hy Ey HR).
Qed.

#[export] Instance InverseCategory_symbols {C} `{CategorySymbols C} : CategorySymbols (InverseCategory C) := {
  symbol_length := fun c => symbol_length (inverse_of c);
  owns := fun c s => negb (owns (inverse_of c) s)
}.

Definition inverted (L : list (list Z * bool)) : list (list Z * bool) := (fun p => (p.1, negb p.2)) <$> L.

Lemma inverted_twice L : inverted (inverted L) = L.
Proof.
  unfold inverted. rewrite <- list_fmap_compose. induction L as [|[y o] L IH]; [done|].
  rewrite fmap_cons, IH. cbn. by rewrite negb_involutive.
Qed.

Lemma reads_inverse {C} `{CategorySymbols C} (c : InverseCategory C) s L b :
  reads c s L b <-> reads (inverse_of c) s (inverted L) b.
Proof.
  split.
  - induction 1 as [|ch s E|y s L b Hy Ey HR IH]; [constructor|by constructor|].
    cbn. rewrite negb_involutive. by constructor.
  - intros HR. rewrite <- (inverted_twice L). revert HR. generalize (inverted L) as L'. clear L. intros L' HR.
    induction HR as [|ch s E|y s L b Hy Ey HR IH]; [constructor|by constructor|]. exact (reads_symbol c y s (inverted L) b Hy Ey IH).
Qed.

Lemma found_inverse {C} `{CategorySymbols C} (c : InverseCategory C) want s L b r :
  found_at (inverse_of c) (negb want) s (inverted L) b r -> found_at c want s L b r.
Proof.
  intros (pre & post & E & Hp & Hr). exists (inverted pre), (inverted post).
  rewrite <- (inverted_twice L), E. unfold inverted in *. split; [apply fmap_app|].
  assert (E1 : forall l : list (list Z * bool), ((fun p => (p.1, negb p.2)) <$> l).*1 = l.*1)
    by (intros l; rewrite <- list_fmap_compose; done).
  split; [rewrite Forall_fmap; eapply Forall_impl; [exact Hp|]; intros [y o]; cbn; by intros ->; rewrite negb_involutive|].
  rewrite E1. destruct post as [|[y o] post]; [done|]. cbn. destruct Hr as (Eo & sep & -> & HR & ->).
  split; [rewrite Eo; apply negb_involutive|]. exists sep. split; [done|]. split; [|done].
  apply reads_inverse. unfold inverted. cbn. rewrite negb_involutive.
  replace (_ <$> (_ <$> post)) with post; [done|]. symmetry. apply (inverted_twice post).
Qed.

#[export] Instance InverseCategory_laws {C} `{CategoryLaws C} : CategoryLaws (InverseCategory C).
Proof.
  split.
  - intros c. exact (symbol_length_bounds (inverse_of c)).
  - intros c s L b HR%reads_inverse. destruct (find_nonowned_law _ _ _ _ HR) as (r & E & Hf). exists r.
    split; [done|]. by apply found_inverse.
  - intros c s L b HR%reads_inverse. destruct (find_owned_law _ _ _ _ HR) as (r & E & Hf). exists r.
    split; [done|]. by apply found_inverse.
Qed.

(** ** The tokens of a text *)

(** The texts between the owned symbols. *)
Fixpoint groups (L : list (list Z * bool)) : list (list Z) :=
  match L with
  | [] => [[]]
  | (y, true) :: L' => [] :: groups L'
  | (y, false) :: L' =>
    match groups L' with
    | [] => [y]
    | g :: gs => (y ++ g) :: gs
    end
  end.

Definition is_nil (t : list Z) : bool := match t with [] => true | _ => false end.

(** The groups that an owned symbol ends, and the last one if it is not empty and
    the text was read to its end; without [EMPTY] the empty ones are left out. *)
Fixpoint tokens_of (EMPTY complete : bool) (gs : list (list Z)) : list (list Z) :=
  match gs with
  | [] => []
  | [g] => if complete && negb (is_nil g) then [g] else []
  | g :: gs' => (if EMPTY || negb (is_nil g) then [g] else []) ++ tokens_of EMPTY complete gs'
  end.

Lemma groups_nonnil L : groups L <> [].
Proof. destruct L as [|[y []] L]; [done|done|]. cbn. by destruct (groups L). Qed.

Lemma groups_app pre post : Forall (fun p => p.2 = false) pre ->
  groups (pre ++ post) =
  match groups post with [] => [] | g :: gs => (concat pre.*1 ++ g) :: gs end.
Proof.
  induction 1 as [|[y o] pre Ho _ IH]; cbn.
  - by destruct (groups post).
  - cbn in Ho. subst o. rewrite IH. destruct (groups post) eqn:E; [by destruct (groups_nonnil post)|].
    by rewrite app_assoc.
Qed.

Lemma tokens_owned_run E b y L : tokens_of E b (groups ((y, true) :: L)) =
  (if E then [[]] else []) ++ tokens_of E b (groups L).
Proof.
  cbn [groups tokens_of]. destruct (groups L) as [|g gs] eqn:Eg; [by destruct (groups_nonnil L)|].
  by destruct E.
Qed.

Lemma tokens_owned_prefix b pre post : Forall (fun p => p.2 = true) pre ->
  tokens_of false b (groups (pre ++ post)) = tokens_of false b (groups post).
Proof.
  induction 1 as [|[y o] pre Ho _ IH]; [done|]. cbn in Ho. subst o. rewrite <- IH.
  apply (tokens_owned_run false).
Qed.

Section Tokens.
Context {C : Type} `{CategoryLaws C} (c : C).

Lemma concat_nonnil (pre : list (list Z * bool)) : Forall (fun p => p.1 <> []) pre -> pre <> [] -> concat pre.*1 <> [].
Proof using. intros Hp Hn. destruct Hp as [|[y o] pre Hy _]; [done|]. cbn in *. by destruct y. Qed.

Lemma reads_nonnil s L b : reads c s L b -> Forall (fun p => p.1 <> []) L.
Proof using. by induction 1; constructor. Qed.

Lemma reads_cons s y o L b : reads c s ((y, o) :: L) b ->
  exists s', s = y ++ s' /\ y <> [] /\ reads c s' L b.
Proof using. inversion 1; subst. eauto. Qed.

Lemma all_tokens_empty fuel : forall s sep L b, (length s < fuel)%nat -> reads c s L b ->
  all_tokens c fuel true {| str := s; separator := sep; error := false |} =
  Ret (tokens_of true b (groups L), negb b).
Proof using All.
  induction fuel as [|fuel IH]; intros s sep L b Hf HR; [lia|]. cbn [all_tokens get_token]. unfold get_token_empty.
  cbn [str error]. destruct s as [|ch s'] eqn:Es.
  { inversion HR as [| |y s' L' b' Hy]; subst; [done|]. by destruct y. }
  rewrite <- Es in *. destruct (find_owned_law c s L b HR) as (r & -> & pre & post & -> & Hp & Hr). cbn [obind].
  rewrite groups_app by done. destruct post as [|[y o] post].
  - destruct Hr as [-> Hs]. cbn [groups]. rewrite app_nil_r. destruct b; cbn [obind].
    + rewrite range_nil, Hs by done. destruct fuel as [|fuel]; [rewrite Es in Hf; cbn in Hf; lia|]. cbn.
      assert (Hn : concat pre.*1 <> []) by (rewrite <- Hs by done; by rewrite Es). by destruct (concat pre.*1).
    + cbn. done.
  - destruct Hr as (-> & sep' & -> & HR' & ->). rewrite range_app.
    apply reads_cons in HR' as (s'' & -> & Hy & HR''). rewrite drop_app_length. cbn [obind].
    rewrite (IH s'' _ post b); [|rewrite !length_app in Hf; destruct y; [done|]; cbn in Hf; lia|done]. cbn [obind groups].
    rewrite app_nil_r. cbn [tokens_of]. destruct (groups post) as [|g gs] eqn:Eg; [by destruct (groups_nonnil post)|]. done.
Qed.

Lemma all_tokens_nonempty fuel : forall s sep L b, (length s < fuel)%nat -> reads c s L b ->
  all_tokens c fuel false {| str := s; separator := sep; error := false |} =
  Ret (tokens_of false b (groups L), negb b).
Proof using All.
  induction fuel as [|fuel IH]; intros s sep L b Hf HR; [lia|]. cbn [all_tokens get_token]. unfold get_token_nonempty.
  cbn [str error separator]. destruct (find_nonowned_law c s L b HR) as (r & -> & pre & post & -> & Hp & Hr). cbn [obind].
  rewrite tokens_owned_prefix by done. destruct post as [|[y o] post].
  - destruct Hr as [-> Hs]. destruct b; cbn [obind]; [|done].
    destruct (find_owned_law c [] [] true (reads_end c)) as (r & -> & pre' & post' & E & _ & Hr'). cbn [obind].
    symmetry in E. apply app_eq_nil in E as [-> ->]. destruct Hr' as [-> _]. done.
  - destruct Hr as (-> & begin & -> & HR' & ->).
    destruct (find_owned_law c begin _ b HR') as (r & -> & pre' & post' & E & Hp' & Hr'). cbn [obind].
    destruct pre' as [|[y' o'] pre'].
    { destruct post' as [|[y' o'] post']; [done|]. cbn in E. injection E as _ Eo _. destruct Hr' as [Et _]. congruence. }
    injection E as <- <- ->. pose proof (reads_nonnil _ _ _ HR') as Hnn.
    change ((y, false) :: pre' ++ post') with (((y, false) :: pre') ++ post') in *. set (run := (y, false) :: pre') in *.
    apply Forall_app in Hnn as [Hnn _]. pose proof (concat_nonnil run Hnn ltac:(done)) as Hne.
    rewrite groups_app by done. destruct post' as [|[y' o'] post'].
    + destruct Hr' as [-> Hs]. cbn [groups]. rewrite app_nil_r. destruct b; cbn [obind]; [|done].
      rewrite Hs in Hf |- * by done. rewrite range_nil.
      destruct (concat run.*1) as [|ch rest] eqn:Ec; [done|]. cbn [length Nat.eqb obind].
      destruct fuel as [|fuel]; [rewrite length_app in Hf; cbn in Hf; lia|].
      rewrite (IH [] _ [] true); [done|cbn; lia|constructor].
    + destruct Hr' as (-> & end_ & -> & HR'' & ->). rewrite range_app.
      rewrite (proj2 (Nat.eqb_neq _ _)) by (rewrite length_app; destruct (concat run.*1); [done|]; cbn; lia).
      cbn [obind]. rewrite (IH end_ _ ((y', true) :: post') b); [|rewrite !length_app in Hf; destruct (concat run.*1); [done|]; cbn in Hf; lia|exact HR''].
      rewrite tokens_owned_run. cbn [groups app obind]. rewrite app_nil_r. cbn [tokens_of].
      destruct (groups post') as [|g gs] eqn:Eg; [by destruct (groups_nonnil post')|]. by destruct (concat run.*1).
Qed.

Lemma split_reads EMPTY s L b : reads c s L b -> split c EMPTY s = Ret (tokens_of EMPTY b (groups L), negb b).
Proof using All.
  intros HR. unfold split, SplitterState_.
  destruct EMPTY; [apply all_tokens_empty|apply all_tokens_nonempty]; (done || lia).
Qed.

(** C16: Splitting a text with any category: its symbols [L] up to the end ([b]) or to
    the first one that cannot be read; the tokens are the texts between the owned
    symbols, without the empty ones if [EMPTY] is not set and without an empty last
    one; [is_error()] tells that a symbol could not be read, and then the text after
    the last owned symbol before it is not a token. *)
Theorem split_correct EMPTY s :
  exists L b, reads c s L b /\ split c EMPTY s = Ret (tokens_of EMPTY b (groups L), negb b).
Proof using All.
  destruct (reads_total c s) as (L & b & HR). exists L, b. split; [done|by apply split_reads].
Qed.

(** *** divide *)

(** The runs of owned and of other symbols. *)
Fixpoint runs (L : list (list Z * bool)) : list (list Z * bool) :=
  match L with
  | [] => []
  | (y, o) :: L' =>
    match runs L' with
    | (t, o') :: rs => if Bool.eqb o o' then (y ++ t, o) :: rs else (y, o) :: (t, o') :: rs
    | [] => [(y, o)]
    end
  end.

Definition piece_of (r : list Z * bool) : piece := if r.2 then Owned r.1 else Nonowned r.1.

Definition pieces (complete : bool) (rs : list (list Z * bool)) : list piece :=
  map piece_of (if complete then rs else removelast rs).

Lemma runs_app pre post o : Forall (fun p => p.2 = o) pre -> pre <> [] ->
  (forall y o' post', post = (y, o') :: post' -> o' = negb o) ->
  runs (pre ++ post) = (concat pre.*1, o) :: runs post.
Proof using.
  intros Hp Hne Hpost. induction Hp as [|[y o1] pre Ho Hp IH]; [done|]. cbn in Ho. subst o1. cbn.
  destruct pre as [|p pre].
  - cbn. rewrite app_nil_r. destruct post as [|[y' o'] post]; [done|]. rewrite (Hpost y' o' post eq_refl).
    cbn [runs]. destruct (runs post) as [|[t o''] rs]; [by destruct o|].
    destruct (Bool.eqb (negb o) o'') eqn:E; by destruct o.
  - rewrite IH by done. by rewrite eqb_reflx.
Qed.

Lemma runs_nonnil L : L <> [] -> runs L <> [].
Proof using.
  destruct L as [|[y o] L]; [done|]. cbn. intros _. destruct (runs L) as [|[t o'] rs]; [done|].
  by destruct (Bool.eqb o o').
Qed.

Lemma call_back_spec f (pre : list (list Z * bool)) sep : Forall (fun p => p.1 <> []) pre ->
  call_back f (concat pre.*1 ++ sep) sep = match pre with [] => [] | _ => [f (concat pre.*1)] end.
Proof using.
  intros Hp. unfold call_back. rewrite length_app, range_app. destruct Hp as [|[y o] pre Hy _]; cbn.
  - by rewrite Nat.eqb_refl.
  - rewrite (proj2 (Nat.eqb_neq _ _)); [done|]. cbn in Hy. rewrite length_app. destruct y; [done|]. cbn. lia.
Qed.

Lemma divide_loop_ok fuel : forall s L b, (length s < fuel)%nat -> reads c s L b ->
  divide_loop c fuel s = Ret (pieces b (runs L), b).
Proof using All.
  induction fuel as [|fuel IH]; intros s L b Hf HR; [lia|]. cbn [divide_loop].
  pose proof (reads_nonnil _ _ _ HR) as Hnn.
  destruct (find_owned_law c s L b HR) as (r & -> & pre & post & -> & Hp & Hr). cbn [obind].
  apply Forall_app in Hnn as [Hnn Hnn2]. destruct post as [|[y o] post].
  { destruct Hr as [-> Hs]. rewrite app_nil_r. destruct b.
    - rewrite Hs by done. rewrite <- (app_nil_r (concat pre.*1)), call_back_spec by done.
      destruct pre as [|p pre]; [done|]. pose proof (runs_app (p :: pre) [] false Hp ltac:(done) ltac:(done)) as Er.
      rewrite app_nil_r in Er. by rewrite Er.
    - destruct pre as [|p pre]; [done|]. pose proof (runs_app (p :: pre) [] false Hp ltac:(done) ltac:(done)) as Er.
      rewrite app_nil_r in Er. by rewrite Er. }
  destruct Hr as (-> & sep & -> & HR' & ->). rewrite call_back_spec by done.
  set (first := match pre with [] => [] | _ => [Nonowned (concat pre.*1)] end).
  pose proof (reads_cons _ _ _ _ _ HR') as (s' & Es & Hy & _).
  destruct sep as [|ch sep'] eqn:Esep; [by destruct y|]. rewrite <- Esep in *. clear Esep.
  destruct (find_nonowned_law c sep _ b HR') as (r & -> & pre2 & post2 & E2 & Hp2 & Hr2). cbn [obind].
  destruct pre2 as [|p2 pre2].
  { destruct post2 as [|[y2 o2] post2]; [done|]. cbn in E2. injection E2 as _ Eo _. destruct Hr2 as [Et _]. congruence. }
  rewrite E2 in Hnn2 |- *. set (run := p2 :: pre2) in *. apply Forall_app in Hnn2 as [Hnn2 Hnn3].
  assert (Hpost2 : forall y o post', post2 = (y, o) :: post' -> o = negb true)
    by (intros y2 o2 post' ->; by destruct Hr2).
  assert (Er : runs (pre ++ run ++ post2) =
    match pre with [] => [] | _ => [(concat pre.*1, false)] end ++ (concat run.*1, true) :: runs post2).
  { rewrite <- (runs_app run post2 true) by done. destruct pre as [|p pre]; [done|].
    rewrite (runs_app (p :: pre) (run ++ post2) false); [done|done|done|].
    intros y2 o2 post'. unfold run. cbn. intros [= -> _]. by apply Forall_cons in Hp2 as [? _]. }
  rewrite Er. set (first' := match pre with [] => [] | _ => [(concat pre.*1, false)] end).
  assert (Ef : first = map piece_of first') by (unfold first, first'; by destruct pre).
  destruct post2 as [|[y2 o2] post2].
  - destruct Hr2 as [-> Hs2]. cbn [runs]. unfold pieces. destruct b.
    + rewrite Hs2 by done. rewrite <- (app_nil_r (concat run.*1)) at 1. rewrite call_back_spec by done.
      unfold run. by rewrite map_app, Ef.
    + rewrite removelast_last, Ef. done.
  - destruct Hr2 as (-> & sep2 & -> & HR2 & Es2). rewrite Es2, call_back_spec by done.
    pose proof (reads_cons _ _ _ _ _ HR2) as (s2 & E & Hy2 & _).
    destruct sep2 as [|ch2 sep2'] eqn:Esep2; [by destruct y2|]. rewrite <- Esep2 in *.
    rewrite (IH sep2 ((y2, false) :: post2) b); [|rewrite Es2, !length_app in Hf; pose proof (concat_nonnil run Hnn2 ltac:(done));
      destruct (concat run.*1); [done|]; cbn in Hf; lia|exact HR2]. cbn [obind]. unfold run. do 2 f_equal.
    unfold pieces. rewrite Ef. pose proof (runs_nonnil ((y2, false) :: post2) ltac:(done)) as Hrn.
    destruct b; [by rewrite map_app|]. rewrite removelast_app by done. rewrite map_app. f_equal.
    destruct (runs ((y2, false) :: post2)) as [|rr rs]; [done|]. done.
Qed.

(** [divide] calls back with the runs of owned and of other symbols in order, the
    whole text when it can be read; otherwise it returns false and the run before the
    symbol that cannot be read is not reported. *)
Theorem divide_correct s :
  exists L b, reads c s L b /\ divide c s = Ret (pieces b (runs L), b) /\
  (b = true -> concat (map fst (runs L)) = s).
Proof using All.
  destruct (reads_total c s) as (L & b & HR). exists L, b. split; [done|]. split; [apply divide_loop_ok; [lia|done]|].
  intros Eb. destruct (reads_concat c s L b HR) as (bad & -> & Hb). rewrite (proj1 Hb Eb), app_nil_r.
  clear. induction L as [|[y o] L IH]; [done|]. cbn. rewrite <- IH.
  destruct (runs L) as [|[t o'] rs]; [done|]. destruct (Bool.eqb o o'); cbn; [by rewrite app_assoc|done].
Qed.
End Tokens.

(** ** Joining *)

Fixpoint join (sep : Z) (ts : list (list Z)) : list Z :=
  match ts with
  | [] => []
  | [t] => t
  | t :: ts' => t ++ sep :: join sep ts'
  end.

Section Join.
Context {P : Type} `{CharPredicate P} (c : P).

Definition char_symbols (s : list Z) : list (list Z * bool) := map (fun ch => ([ch], is_owned c ch)) s.

Lemma reads_chars s : reads c s (char_symbols s) true.
Proof using.
  induction s as [|ch s IH]; [constructor|]. exact (reads_symbol c [ch] s (char_symbols s) true ltac:(done) eq_refl IH).
Qed.

Lemma groups_token t rest : Forall (fun ch => is_owned c ch = false) t ->
  groups (char_symbols (t ++ rest)) =
  match groups (char_symbols rest) with [] => [] | g :: gs => (t ++ g) :: gs end.
Proof using.
  intros Ht. unfold char_symbols. rewrite map_app, groups_app.
  - assert (Ec : concat (map (fun ch => ([ch], is_owned c ch)) t).*1 = t)
      by (clear; induction t as [|ch t IH]; [done|]; cbn in *; by f_equal).
    by rewrite Ec.
  - apply Forall_map. exact Ht.
Qed.

Lemma groups_join sep ts : is_owned c sep = true -> Forall (Forall (fun ch => is_owned c ch = false)) ts -> ts <> [] ->
  groups (char_symbols (join sep ts)) = ts.
Proof using.
  intros Hs Ht Hn. induction Ht as [|t ts Ht Hts IH]; [done|]. destruct ts as [|t' ts].
  - cbn [join]. rewrite <- (app_nil_r t) at 1. rewrite groups_token by done. cbn. by rewrite app_nil_r.
  - change (join sep (t :: t' :: ts)) with (t ++ sep :: join sep (t' :: ts)). rewrite groups_token by done.
    cbn [char_symbols map groups]. rewrite Hs. fold (char_symbols (join sep (t' :: ts))). rewrite IH by done.
    by rewrite app_nil_r.
Qed.

(** Tokens without separators that are joined by a separator are found again by
    the splitter with empty tokens, unless the last one is empty, and without them
    by the splitter that skips empty tokens. *)
Theorem split_join sep ts : is_owned c sep = true -> Forall (Forall (fun ch => is_owned c ch = false)) ts ->
  split c false (join sep ts) = Ret (List.filter (fun t => negb (is_nil t)) ts, false) /\
  (List.last ts [] <> [] -> split c true (join sep ts) = Ret (ts, false)).
Proof using.
  intros Hs Ht. destruct ts as [|t0 ts0] eqn:Ets; [done|]. rewrite <- Ets in *. assert (Hn : ts <> []) by by rewrite Ets.
  assert (Es : forall E, split c E (join sep ts) = Ret (tokens_of E true ts, false)).
  { intros E. rewrite (split_reads c E _ _ _ (reads_chars (join sep ts))). by rewrite groups_join. }
  rewrite !Es. clear. split; [|intros Hl].
  - do 2 f_equal. induction ts as [|t ts IH]; [done|]. cbn [tokens_of List.filter]. destruct ts as [|t' ts].
    + by destruct t.
    + rewrite IH. by destruct t.
  - do 2 f_equal. induction ts as [|t ts IH]; [done|]. cbn [tokens_of]. destruct ts as [|t' ts].
    + cbn in *. by destruct t.
    + rewrite IH by done. done.
Qed.
End Join.

Lemma split_correct_witness : let c := {| symbol := ","%uchar |} in let s := bytes "a,,b" in
  exists L b, reads c s L b /\ split c true s = Ret (tokens_of true b (groups L), negb b).
Proof. exact (split_correct {| symbol := ","%uchar |} true (bytes "a,,b")). Defined.

Lemma split_join_witness :
  split {| symbol := ","%uchar |} true (join ","%uchar [bytes "a"; bytes ""; bytes "bc"]) =
  Ret ([bytes "a"; bytes ""; bytes "bc"], false).
Proof.
  apply (split_join {| symbol := ","%uchar |} ","%uchar [bytes "a"; bytes ""; bytes "bc"]).
  - reflexivity.
  - by_eval.
  - discriminate.
Defined.

Example split_samples :
  split {| symbol := ","%uchar |} true (bytes ",a,,bc,") = Ret ([bytes ""; bytes "a"; bytes ""; bytes "bc"], false) /\
  split {| symbol := ","%uchar |} false (bytes ",a,,bc,") = Ret ([bytes "a"; bytes "bc"], false) /\
  divide {| symbol := ","%uchar |} (bytes ",a,,bc,") =
    Ret ([Owned (bytes ","); Nonowned (bytes "a"); Owned (bytes ",,"); Nonowned (bytes "bc"); Owned (bytes ",")], true).
Proof. done. Qed.
