(* ===== verification/Base64.v ===== *)
(** * Base64: the base64 encoders and the decoder

    Models the namespace [Base64] and the functions [base64_encode],
    [base64mod_encode] and [base64mod_decode] of [src/String/StringManip.cpp],
    and the size functions of [src/String/StringManip.ipp]. *)
From S2P Require Import Prelude.
Local Open Scope Z_scope.
Local Open Scope outcome_scope.

(** ** Tables *)

Definition STD_ENCODE : list Z :=
  bytes "ABCDEFGHIJKLMNOPQRSTUVWXYZabcdefghijklmnopqrstuvwxyz0123456789+/".

Definition MOD_ENCODE : list Z :=
  bytes "ABCDEFGHIJKLMNOPQRSTUVWXYZabcdefghijklmnopqrstuvwxyz0123456789-_".

Definition PADDING : Z := "."%uchar.

Definition std_encode (ch : Z) : Z := tab 0 STD_ENCODE (Z.land ch 0x3F).

Definition mod_encode (ch : Z) : Z := tab 0 MOD_ENCODE (Z.land ch 0x3F).

(** 0x40 ends the data, 0x7f is skipped. *)
Definition DECODE : list Z :=
  [0x40; 0x7f; 0x7f; 0x7f; 0x7f; 0x7f; 0x7f; 0x7f; 0x7f; 0x7f; 0x7f; 0x7f; 0x7f; 0x7f; 0x7f; 0x7f;
   0x7f; 0x7f; 0x7f; 0x7f; 0x7f; 0x7f; 0x7f; 0x7f; 0x7f; 0x7f; 0x7f; 0x7f; 0x7f; 0x7f; 0x7f; 0x7f;
   0x7f; 0x7f; 0x7f; 0x7f; 0x7f; 0x7f; 0x7f; 0x7f; 0x7f; 0x7f; 0x7f; 0x3e; 0x7f; 0x3e; 0x40; 0x3f;
   0x34; 0x35; 0x36; 0x37; 0x38; 0x39; 0x3a; 0x3b; 0x3c; 0x3d; 0x7f; 0x7f; 0x7f; 0x7f; 0x7f; 0x7f;
   0x7f; 0x00; 0x01; 0x02; 0x03; 0x04; 0x05; 0x06; 0x07; 0x08; 0x09; 0x0a; 0x0b; 0x0c; 0x0d; 0x0e;
   0x0f; 0x10; 0x11; 0x12; 0x13; 0x14; 0x15; 0x16; 0x17; 0x18; 0x19; 0x7f; 0x7f; 0x7f; 0x7f; 0x3f;
   0x7f; 0x1a; 0x1b; 0x1c; 0x1d; 0x1e; 0x1f; 0x20; 0x21; 0x22; 0x23; 0x24; 0x25; 0x26; 0x27; 0x28;
   0x29; 0x2a; 0x2b; 0x2c; 0x2d; 0x2e; 0x2f; 0x30; 0x31; 0x32; 0x33; 0x7f; 0x40; 0x7f; 0x7f; 0x7f;
   0x7f; 0x7f; 0x7f; 0x7f; 0x7f; 0x7f; 0x7f; 0x7f; 0x7f; 0x7f; 0x7f; 0x7f; 0x7f; 0x7f; 0x7f; 0x7f;
   0x7f; 0x7f; 0x7f; 0x7f; 0x7f; 0x7f; 0x7f; 0x7f; 0x7f; 0x7f; 0x7f; 0x7f; 0x7f; 0x7f; 0x7f; 0x7f;
   0x7f; 0x7f; 0x7f; 0x7f; 0x7f; 0x7f; 0x7f; 0x7f; 0x7f; 0x7f; 0x7f; 0x7f; 0x7f; 0x7f; 0x7f; 0x7f;
   0x7f; 0x7f; 0x7f; 0x7f; 0x7f; 0x7f; 0x7f; 0x7f; 0x7f; 0x7f; 0x7f; 0x7f; 0x7f; 0x7f; 0x7f; 0x7f;
   0x7f; 0x7f; 0x7f; 0x7f; 0x7f; 0x7f; 0x7f; 0x7f; 0x7f; 0x7f; 0x7f; 0x7f; 0x7f; 0x7f; 0x7f; 0x7f;
   0x7f; 0x7f; 0x7f; 0x7f; 0x7f; 0x7f; 0x7f; 0x7f; 0x7f; 0x7f; 0x7f; 0x7f; 0x7f; 0x7f; 0x7f; 0x7f;
   0x7f; 0x7f; 0x7f; 0x7f; 0x7f; 0x7f; 0x7f; 0x7f; 0x7f; 0x7f; 0x7f; 0x7f; 0x7f; 0x7f; 0x7f; 0x7f;
   0x7f; 0x7f; 0x7f; 0x7f; 0x7f; 0x7f; 0x7f; 0x7f; 0x7f; 0x7f; 0x7f; 0x7f; 0x7f; 0x7f; 0x7f; 0x7f].

(** ** Encoding *)

Section Encode.
Context (encode : Z -> Z) (padding_char fill : Z) (padding : bool).

Fixpoint func_encode_loop (p : list Z) : list Z :=
  match p with
  | [] => []
  | [c1] =>
    let buf := [encode (Z.shiftr c1 2);
                encode (Z.lor (Z.land (Z.shiftl c1 4) 0x30) (Z.land fill 0x0F));
                padding_char; padding_char] in
    if padding then buf else take 2 buf
  | [c1; c2] =>
    let buf := [encode (Z.shiftr c1 2);
                encode (Z.lor (Z.land (Z.shiftl c1 4) 0x30) (Z.land (Z.shiftr c2 4) 0x0F));
                encode (Z.lor (Z.land (Z.shiftl c2 2) 0x3C) (Z.land fill 0x03));
                padding_char] in
    if padding then buf else take 3 buf
  | c1 :: c2 :: c3 :: p' =>
    [encode (Z.shiftr c1 2);
     encode (Z.lor (Z.land (Z.shiftl c1 4) 0x30) (Z.land (Z.shiftr c2 4) 0x0F));
     encode (Z.lor (Z.land (Z.shiftl c2 2) 0x3C) (Z.land (Z.shiftr c3 6) 0x03));
     encode (Z.land c3 0x3F)] ++ func_encode_loop p'
  end.

Definition func_encode (src : list Z) : list Z :=
  match src with
  | [] => []
  | _ => func_encode_loop src
  end.
End Encode.

Definition base64_encode (src : list Z) (padding : bool) : list Z :=
  func_encode std_encode "="%uchar 0 padding src.

Definition base64mod_encode (src : list Z) (padding : bool) (fill : Z) : list Z :=
  func_encode mod_encode PADDING fill padding src.

Definition base64mod_encoded_size (original_size : Z) (padding : bool) : Z :=
  if padding then (original_size + 2) / 3 * 4
  else original_size / 3 * 4 +
       (if negb (original_size mod 3 =? 0) then original_size mod 3 + 1 else 0).

Definition base64mod_max_decoded_size (original_size : Z) : Z :=
  (original_size + 3) / 4 * 3.

Definition base64mod_fill_size (original_size : Z) : Z :=
  Z.land (Z.shiftr 8 (original_size mod 3)) 6.

(** ** Decoding *)

(** [ptr_] are the characters left, [length_] their number. *)
Record Iterator : Type := { ptr_ : list Z; length_ : Z }.

Definition Iterator_init (src : list Z) : Iterator :=
  {| ptr_ := src; length_ := Z.of_nat (length src) |}.

Definition available (p : Iterator) : bool := 0 <? length_ p.

(** [operator *] *)
Definition deref (p : Iterator) : outcome Z :=
  if length_ p <=? 0 then Ret (tab 0 DECODE 0)
  else match ptr_ p with
       | [] => Undef
       | ch :: _ => Ret (tab 0 DECODE ch)
       end.

(** [operator ++] *)
Definition advance (p : Iterator) : Iterator :=
  {| ptr_ := tail (ptr_ p); length_ := length_ p - 1 |}.

Fixpoint skip_blanks_loop (fuel : nat) (p : Iterator) : outcome (Iterator * Z) :=
  match fuel with
  | O => Undef
  | S fuel' =>
    let* ch := deref p in
    if ch =? 0x7F then skip_blanks_loop fuel' (advance p) else Ret (p, ch)
  end.

Definition skip_blanks (p : Iterator) : outcome (Iterator * Z) :=
  skip_blanks_loop (S (length (ptr_ p))) p.

Definition PAD1 : list Z := bytes "......".
Definition PAD2 : list Z := bytes "||||||".
Definition PAD3 : list Z := bytes "======".

(** [!strncmp(str, pad, n)] for a zero-terminated [pad]; a read of [str] past
    its end is undefined. *)
Fixpoint strncmp_eq (str pad : list Z) (n : nat) {struct n} : outcome bool :=
  match n with
  | O => Ret true
  | S n' =>
    match str with
    | [] => Undef
    | a :: str' =>
      let b := match pad with [] => 0 | b :: _ => b end in
      if negb (a =? b) then Ret false
      else if a =? 0 then Ret true
      else strncmp_eq str' (tail pad) n'
    end
  end.

Definition err_padding : exn :=
  InvalidFormatException "invalid format. Padding characters expected.".
Definition err_symbol : exn :=
  InvalidFormatException "invalid format. Unexpected symbol.".
Definition err_end : exn :=
  InvalidFormatException "invalid format. Unexpected end of data.".

(** [consumed] is [ptr_ - src]. *)
Definition check_padding (consumed : Z) (p : Iterator) : outcome unit :=
  let pad_size := Z.land (u64 (- consumed)) 3 in
  if negb (length_ p =? pad_size) && negb (length_ p =? pad_size + 4)
  then Throw err_padding
  else
    let n := Z.to_nat (length_ p) in
    let* e1 := strncmp_eq (ptr_ p) PAD1 n in
    if e1 : bool then Ret tt
    else
      let* e2 := strncmp_eq (ptr_ p) PAD2 n in
      if e2 : bool then Ret tt
      else
        let* e3 := strncmp_eq (ptr_ p) PAD3 n in
        if e3 : bool then Ret tt else Throw err_padding.

(** The bits left over at the end: stored through [fill] when the pointer is
    given, and otherwise required to be zero. *)
Definition leave_fill (want_fill : bool) (left_ : Z) : outcome (option Z) :=
  if want_fill then Ret (Some left_)
  else if negb (left_ =? 0) then Throw err_end else Ret None.

(** The main loop; the result is the iterator at its end, [dst] and [*fill]
    when it was stored. *)
Fixpoint decode_loop (fuel : nat) (want_fill : bool) (p : Iterator) (dst : list Z)
  : outcome (Iterator * list Z * option Z) :=
  match fuel with
  | O => Undef
  | S fuel' =>
    if negb (available p) then Ret (p, dst, None)
    else
      let* (p, c1) := skip_blanks p in
      if c1 =? 0x40 then Ret (p, dst, None)
      else
        let* (p, c2) := skip_blanks (advance p) in
        if c2 =? 0x40 then Throw err_symbol
        else
          let* (p, c3) := skip_blanks (advance p) in
          if c3 =? 0x40 then
            let* f := leave_fill want_fill (Z.land c2 0x0F) in
            Ret (p, dst ++ [u8 (Z.lor (Z.shiftl c1 2) (Z.shiftr c2 4))], f)
          else
            let* (p, c4) := skip_blanks (advance p) in
            let dst := dst ++ [u8 (Z.lor (Z.shiftl c1 2) (Z.shiftr c2 4));
                               u8 (Z.lor (Z.shiftl c2 4) (Z.shiftr c3 2))] in
            if c4 =? 0x40 then
              let* f := leave_fill want_fill (Z.land c3 0x03) in
              Ret (p, dst, f)
            else
              decode_loop fuel' want_fill (advance p)
                (dst ++ [u8 (Z.lor (Z.shiftl c3 6) c4)])
  end.

Definition base64mod_decode (src : list Z) (padding want_fill : bool)
  : outcome (list Z * option Z) :=
  let* (p, dst, f) := decode_loop (S (length src)) want_fill (Iterator_init src) [] in
  if padding || available p then
    let* _ := check_padding (Z.of_nat (length src) - length_ p) p in
    Ret (dst, f)
  else Ret (dst, f).

(** ** Six-bit groups as arithmetic *)

Lemma group1 a : is_byte a -> Z.shiftr a 2 = a / 4.
Proof. intros. by rewrite Z.shiftr_div_pow2 by lia. Qed.

Lemma group2 a y : is_byte a -> 0 <= y < 16 ->
  Z.lor (Z.land (Z.shiftl a 4) 0x30) y = (a mod 4) * 16 + y.
Proof.
  intros Ha Hy. assert (Z.land (Z.shiftl a 4) 0x30 = (a mod 4) * 16) as ->
    by (apply Z.eqb_eq; byte_eval a).
  apply (lor_add _ _ 4); lia.
Qed.

Lemma group3 b y : is_byte b -> 0 <= y < 4 ->
  Z.lor (Z.land (Z.shiftl b 2) 0x3C) y = (b mod 16) * 4 + y.
Proof.
  intros Hb Hy. assert (Z.land (Z.shiftl b 2) 0x3C = (b mod 16) * 4) as ->
    by (apply Z.eqb_eq; byte_eval b).
  apply (lor_add _ _ 2); lia.
Qed.

Lemma high4 b : is_byte b -> Z.land (Z.shiftr b 4) 0x0F = b / 16.
Proof. intros Hb. apply Z.eqb_eq. byte_eval b. Qed.

Lemma high2 c : is_byte c -> Z.land (Z.shiftr c 6) 0x03 = c / 64.
Proof. intros Hc. apply Z.eqb_eq. byte_eval c. Qed.

Lemma low6 c : Z.land c 0x3F = c mod 64.
Proof. exact (land_mask c 6 ltac:(lia)). Qed.

Lemma low4 c : Z.land c 0x0F = c mod 16.
Proof. exact (land_mask c 4 ltac:(lia)). Qed.

Lemma low2 c : Z.land c 0x03 = c mod 4.
Proof. exact (land_mask c 2 ltac:(lia)). Qed.

Lemma join1 c1 c2 : 0 <= c2 < 64 ->
  u8 (Z.lor (Z.shiftl c1 2) (Z.shiftr c2 4)) = (c1 * 4 + c2 / 16) mod 256.
Proof. intros. rewrite Z.shiftr_div_pow2, shiftl_or by (lia || zlia). done. Qed.

Lemma join2 c2 c3 : 0 <= c3 < 64 ->
  u8 (Z.lor (Z.shiftl c2 4) (Z.shiftr c3 2)) = (c2 * 16 + c3 / 4) mod 256.
Proof. intros. rewrite Z.shiftr_div_pow2, shiftl_or by (lia || zlia). done. Qed.

Lemma join3 c3 c4 : 0 <= c4 < 64 ->
  u8 (Z.lor (Z.shiftl c3 6) c4) = (c3 * 64 + c4) mod 256.
Proof. intros. by rewrite shiftl_or by lia. Qed.

(** ** The iterator *)

Definition code (s : list Z) : Z :=
  match s with
  | [] => 0x40
  | ch :: _ => tab 0 DECODE ch
  end.

Fixpoint drop_blanks (s : list Z) : list Z :=
  match s with
  | [] => []
  | ch :: s' => if tab 0 DECODE ch =? 0x7F then drop_blanks s' else s
  end.

Lemma deref_init s : deref (Iterator_init s) = Ret (code s).
Proof.
  unfold deref, Iterator_init. cbn [length_ ptr_].
  destruct s as [|ch s]; [done|]. cbn [length]. by decide_Z.
Qed.

Lemma advance_init ch s : advance (Iterator_init (ch :: s)) = Iterator_init s.
Proof. unfold advance, Iterator_init. cbn [length_ ptr_ length tail]. f_equal. lia. Qed.

Lemma available_init s : available (Iterator_init s) = match s with [] => false | _ => true end.
Proof.
  unfold available, Iterator_init. cbn [length_]. destruct s; [done|].
  cbn [length]. by decide_Z.
Qed.

Lemma skip_blanks_init s :
  skip_blanks (Iterator_init s) = Ret (Iterator_init (drop_blanks s), code (drop_blanks s)).
Proof.
  unfold skip_blanks. cbn [Iterator_init ptr_].
  assert (Hgen : forall fuel, (length s < fuel)%nat ->
    skip_blanks_loop fuel (Iterator_init s) =
    Ret (Iterator_init (drop_blanks s), code (drop_blanks s))); [|apply Hgen; lia].
  induction s as [|ch s IH]; intros [|fuel] Hf; try (simpl in Hf; lia).
  - cbn [skip_blanks_loop]. rewrite deref_init. reflexivity.
  - cbn [skip_blanks_loop]. rewrite deref_init. cbn [obind code drop_blanks].
    destruct (Z.eqb_spec (tab 0 DECODE ch) 0x7F); [|done].
    rewrite advance_init. apply IH. simpl in Hf. lia.
Qed.

Lemma skip_blanks_digit ch s :
  0 <= tab 0 DECODE ch < 64 ->
  skip_blanks (Iterator_init (ch :: s)) = Ret (Iterator_init (ch :: s), tab 0 DECODE ch).
Proof.
  intros Hc. rewrite skip_blanks_init. cbn [drop_blanks]. by decide_Z.
Qed.

(** [code] of the first significant character: a digit or the end of data. *)
Lemma code_range s : bytes_ok s -> 0 <= code (drop_blanks s) <= 64.
Proof.
  induction 1 as [|ch s Hch Hs IH]; cbn [drop_blanks code]; [lia|].
  destruct (Z.eqb_spec (tab 0 DECODE ch) 0x7F) as [|Hne]; [done|]. cbn [code].
  assert (H : (tab 0 DECODE ch =? 0x7F) || ((0 <=? tab 0 DECODE ch) && (tab 0 DECODE ch <=? 64)) = true)
    by byte_eval ch.
  revert H. repeat case_Z; simpl; done || lia.
Qed.

Lemma drop_blanks_suffix s : exists pre, s = pre ++ drop_blanks s.
Proof.
  induction s as [|ch s [pre IH]]; cbn [drop_blanks]; [by exists []|].
  destruct (tab 0 DECODE ch =? 0x7F); [|by exists []].
  exists (ch :: pre). cbn [app]. by rewrite <- IH.
Qed.

(** ** Decoding what has been encoded *)

Section Roundtrip.
Context (encode : Z -> Z) (pc fill : Z) (padding : bool).
Hypothesis decode_digit : forall i, 0 <= i < 64 -> tab 0 DECODE (encode i) = i.

Lemma skip_digit i s : 0 <= i < 64 ->
  skip_blanks (Iterator_init (encode i :: s)) = Ret (Iterator_init (encode i :: s), i).
Proof. intros Hi. rewrite skip_blanks_digit; by rewrite decode_digit. Qed.

Lemma decode_quad fuel w i1 i2 i3 i4 rest dst :
  0 <= i1 < 64 -> 0 <= i2 < 64 -> 0 <= i3 < 64 -> 0 <= i4 < 64 ->
  decode_loop (S fuel) w
    (Iterator_init (encode i1 :: encode i2 :: encode i3 :: encode i4 :: rest)) dst =
  decode_loop fuel w (Iterator_init rest)
    (dst ++ [(i1 * 4 + i2 / 16) mod 256; (i2 * 16 + i3 / 4) mod 256; (i3 * 64 + i4) mod 256]).
Proof.
  intros H1 H2 H3 H4. cbn [decode_loop]. rewrite available_init. cbn [negb].
  rewrite skip_digit by done. cbn [obind]. decide_Z.
  rewrite advance_init, skip_digit by done. cbn [obind]. decide_Z.
  rewrite advance_init, skip_digit by done. cbn [obind]. decide_Z.
  rewrite advance_init, skip_digit by done. cbn [obind]. decide_Z.
  rewrite advance_init, join1, join2, join3, <- app_assoc by done. done.
Qed.

Lemma decode_two fuel w i1 i2 pads dst f :
  0 <= i1 < 64 -> 0 <= i2 < 64 -> code (drop_blanks pads) = 0x40 ->
  leave_fill w (i2 mod 16) = Ret f ->
  decode_loop (S fuel) w (Iterator_init (encode i1 :: encode i2 :: pads)) dst =
  Ret (Iterator_init (drop_blanks pads), dst ++ [(i1 * 4 + i2 / 16) mod 256], f).
Proof.
  intros H1 H2 Hp Hf. cbn [decode_loop]. rewrite available_init. cbn [negb].
  rewrite skip_digit by done. cbn [obind]. decide_Z.
  rewrite advance_init, skip_digit by done. cbn [obind]. decide_Z.
  rewrite advance_init, skip_blanks_init. cbn [obind]. rewrite Hp, low4, Hf.
  cbn [obind Z.eqb Pos.eqb]. by rewrite join1.
Qed.

Lemma decode_three fuel w i1 i2 i3 pads dst f :
  0 <= i1 < 64 -> 0 <= i2 < 64 -> 0 <= i3 < 64 -> code (drop_blanks pads) = 0x40 ->
  leave_fill w (i3 mod 4) = Ret f ->
  decode_loop (S fuel) w (Iterator_init (encode i1 :: encode i2 :: encode i3 :: pads)) dst =
  Ret (Iterator_init (drop_blanks pads),
       dst ++ [(i1 * 4 + i2 / 16) mod 256; (i2 * 16 + i3 / 4) mod 256], f).
Proof.
  intros H1 H2 H3 Hp Hf. cbn [decode_loop]. rewrite available_init. cbn [negb].
  rewrite skip_digit by done. cbn [obind]. decide_Z.
  rewrite advance_init, skip_digit by done. cbn [obind]. decide_Z.
  rewrite advance_init, skip_digit by done. cbn [obind]. decide_Z.
  rewrite advance_init, skip_blanks_init. cbn [obind]. rewrite Hp, low2, Hf.
  cbn [obind Z.eqb Pos.eqb]. by rewrite join1, join2.
Qed.

(** The padding after the last digit, and the bits stored in it. *)
Definition end_pads (n : nat) : list Z :=
  if padding then
    match (n mod 3)%nat with 1%nat => [pc; pc] | 2%nat => [pc] | _ => [] end
  else [].

Definition fill_bits (n : nat) : option Z :=
  match (n mod 3)%nat with
  | 1%nat => Some (fill mod 16)
  | 2%nat => Some (fill mod 4)
  | _ => None
  end.

Definition stored (w : bool) (n : nat) : option Z := if w then fill_bits n else None.

Lemma leave_fill_stored w n left_ :
  fill_bits n = Some left_ -> (w = false -> fill_bits n = Some 0) ->
  leave_fill w left_ = Ret (stored w n).
Proof.
  intros Hb Hw. unfold leave_fill, stored. destruct w; [by rewrite Hb|].
  specialize (Hw eq_refl). rewrite Hb in Hw. by injection Hw as ->.
Qed.

Lemma fill_bits_step n : fill_bits (S (S (S n))) = fill_bits n.
Proof.
  unfold fill_bits. replace (S (S (S n))) with (n + 1 * 3)%nat by lia.
  by rewrite Nat.Div0.mod_add.
Qed.

Lemma end_pads_step n : end_pads (S (S (S n))) = end_pads n.
Proof.
  unfold end_pads. replace (S (S (S n))) with (n + 1 * 3)%nat by lia.
  by rewrite Nat.Div0.mod_add.
Qed.

Lemma encode_one a : is_byte a ->
  func_encode_loop encode pc fill padding [a] =
  encode (a / 4) :: encode (a mod 4 * 16 + fill mod 16) :: end_pads 1.
Proof.
  intros Ha. cbn [func_encode_loop]. cbv zeta.
  rewrite group1, low4, group2 by (done || zlia). unfold end_pads.
  by destruct padding.
Qed.

Lemma encode_two a b : is_byte a -> is_byte b ->
  func_encode_loop encode pc fill padding [a; b] =
  encode (a / 4) :: encode (a mod 4 * 16 + b / 16) ::
  encode (b mod 16 * 4 + fill mod 4) :: end_pads 2.
Proof.
  intros Ha Hb. assert (0 <= b / 16 < 16) by (unfold is_byte in Hb; zlia).
  cbn [func_encode_loop]. cbv zeta.
  rewrite group1, high4, low2, group2, group3 by (done || zlia). unfold end_pads.
  by destruct padding.
Qed.

Lemma encode_three a b c l : is_byte a -> is_byte b -> is_byte c ->
  func_encode_loop encode pc fill padding (a :: b :: c :: l) =
  encode (a / 4) :: encode (a mod 4 * 16 + b / 16) ::
  encode (b mod 16 * 4 + c / 64) :: encode (c mod 64) ::
  func_encode_loop encode pc fill padding l.
Proof.
  intros Ha Hb Hc. assert (0 <= b / 16 < 16) by (unfold is_byte in Hb; zlia).
  assert (0 <= c / 64 < 4) by (unfold is_byte in Hc; zlia).
  cbn [func_encode_loop app].
  by rewrite group1, high4, high2, group2, group3, low6.
Qed.

(** The data come back, with the iterator on the padding. *)
Lemma decode_encoded w data :
  bytes_ok data ->
  code (drop_blanks (end_pads (length data))) = 0x40 ->
  (w = false -> forall left_, fill_bits (length data) = Some left_ -> left_ = 0) ->
  forall fuel dst, (length (func_encode_loop encode pc fill padding data) < fuel)%nat ->
  decode_loop fuel w (Iterator_init (func_encode_loop encode pc fill padding data)) dst =
  Ret (Iterator_init (drop_blanks (end_pads (length data))), dst ++ data,
       stored w (length data)).
Proof.
  revert data. refine (list_ind3 _ _ _ _ _).
  - intros _ _ _ [|fuel] dst Hf; [lia|]. cbn [func_encode_loop decode_loop].
    rewrite available_init. unfold end_pads, stored. rewrite app_nil_r.
    cbn. by destruct padding, w.
  - intros a Hb Hc Hw [|fuel] dst Hf; [lia|]. inversion Hb as [|? ? Ha _]; subst.
    rewrite encode_one by done. unfold is_byte in Ha.
    rewrite (decode_two fuel w _ _ _ dst (stored w 1)); [|zlia|zlia|done|].
    + by replace ((a / 4 * 4 + _) mod 256) with a by zlia.
    + apply leave_fill_stored; [cbn; f_equal; zlia|].
      intros E. specialize (Hw E _ eq_refl). cbn. by f_equal.
  - intros a b Hb Hc Hw [|fuel] dst Hf; [lia|]. inversion Hb as [|? ? Ha Hb']; subst.
    inversion Hb' as [|? ? Hbb _]; subst. rewrite encode_two by done. unfold is_byte in Ha, Hbb.
    rewrite (decode_three fuel w _ _ _ _ dst (stored w 2)); [|zlia|zlia|zlia|done|].
    + by replace ((a / 4 * 4 + _) mod 256) with a by zlia;
        replace (((a mod 4 * 16 + b / 16) * 16 + _) mod 256) with b by zlia.
    + apply leave_fill_stored; [cbn; f_equal; zlia|].
      intros E. specialize (Hw E _ eq_refl). cbn. by f_equal.
  - intros a b c l IH Hb Hc Hw [|fuel] dst Hf; [lia|].
    inversion Hb as [|? ? Ha Hb1]; subst. inversion Hb1 as [|? ? Hbb Hb2]; subst.
    inversion Hb2 as [|? ? Hcc Hl]; subst. rewrite encode_three in * by done.
    unfold is_byte in Ha, Hbb, Hcc. unfold stored in *. cbn [length] in *.
    rewrite ?fill_bits_step, ?end_pads_step in *.
    rewrite decode_quad, IH by (done || zlia).
    replace ((a / 4 * 4 + _) mod 256) with a by zlia.
    replace (((a mod 4 * 16 + b / 16) * 16 + _) mod 256) with b by zlia.
    replace (((b mod 16 * 4 + c / 64) * 64 + _) mod 256) with c by zlia.
    by rewrite <- app_assoc.
Qed.
End Roundtrip.

Lemma mod_decode_digit i : 0 <= i < 64 -> tab 0 DECODE (mod_encode i) = i.
Proof. intros Hi. apply Z.eqb_eq. revert i Hi. by apply (forall_below 64). Qed.

Lemma std_decode_digit i : 0 <= i < 64 -> tab 0 DECODE (std_encode i) = i.
Proof. intros Hi. apply Z.eqb_eq. revert i Hi. by apply (forall_below 64). Qed.

(** ** Sizes *)

Lemma func_encode_loop_length encode pc fill padding data :
  Z.of_nat (length (func_encode_loop encode pc fill padding data)) =
  base64mod_encoded_size (Z.of_nat (length data)) padding.
Proof.
  unfold base64mod_encoded_size. revert data. refine (list_ind3 _ _ _ _ _).
  - by destruct padding.
  - intros a. by destruct padding.
  - intros a b. by destruct padding.
  - intros a b c l IH. cbn [func_encode_loop app length]. rewrite !Nat2Z.inj_succ, IH.
    destruct padding; [zlia|].
    replace (Z.succ (Z.succ (Z.succ (Z.of_nat (length l)))) mod 3)
      with (Z.of_nat (length l) mod 3) by zlia.
    destruct (Z.of_nat (length l) mod 3 =? 0); cbn [negb]; zlia.
Qed.

Lemma func_encode_eq encode pc fill padding data :
  func_encode encode pc fill padding data = func_encode_loop encode pc fill padding data.
Proof. by destruct data. Qed.

(** ** Padding *)

Lemma pad_size_val consumed :
  Z.land (u64 (- consumed)) 3 = (- consumed) mod 4.
Proof.
  unfold u64. rewrite low2. change (2 ^ 64) with (4 * 2 ^ 62).
  rewrite Z.rem_mul_r by lia. rewrite (Z.mul_comm 4), Z.mod_add, Z.mod_mod by lia. done.
Qed.

Lemma check_padding_dots consumed k :
  (k <= 2)%nat -> 0 <= consumed -> (consumed + Z.of_nat k) mod 4 = 0 ->
  check_padding consumed (Iterator_init (replicate k PADDING)) = Ret tt.
Proof.
  intros Hk Hc Hm. unfold check_padding. rewrite pad_size_val.
  cbn [Iterator_init length_ ptr_]. rewrite length_replicate, Nat2Z.id.
  replace ((- consumed) mod 4) with (Z.of_nat k) by zlia. rewrite Z.eqb_refl.
  destruct k as [|[|[|]]]; [reflexivity..|lia].
Qed.

(** ** Every input has an outcome *)

Lemma strncmp_eq_defined n : forall str pad,
  (n <= length str)%nat -> exists b, strncmp_eq str pad n = Ret b.
Proof.
  induction n as [|n IH]; intros str pad Hn; [by exists true|].
  destruct str as [|a str]; [simpl in Hn; lia|]. cbn [strncmp_eq].
  destruct (negb _); [by exists false|]. destruct (a =? 0); [by exists true|].
  apply IH. simpl in Hn. lia.
Qed.

Lemma check_padding_defined consumed s :
  check_padding consumed (Iterator_init s) = Ret tt \/
  check_padding consumed (Iterator_init s) = Throw err_padding.
Proof.
  unfold check_padding. cbn [Iterator_init length_ ptr_].
  destruct (_ && _); [by right|]. rewrite Nat2Z.id.
  destruct (strncmp_eq_defined (length s) s PAD1 ltac:(lia)) as [[] ->]; cbn [obind]; [by left|].
  destruct (strncmp_eq_defined (length s) s PAD2 ltac:(lia)) as [[] ->]; cbn [obind]; [by left|].
  destruct (strncmp_eq_defined (length s) s PAD3 ltac:(lia)) as [[] ->]; cbn [obind];
    [by left|by right].
Qed.

(** The outcome of the loop: an exception, or an iterator further on in the
    same string with at most three octets for four characters. *)
Definition decode_outcome (s dst : list Z) (o : outcome (Iterator * list Z * option Z)) : Prop :=
  match o with
  | Ret (p, dst', _) =>
    exists pre s', s = pre ++ s' /\ p = Iterator_init s' /\
      4 * Z.of_nat (length dst') <= 4 * Z.of_nat (length dst) + 3 * Z.of_nat (length pre)
  | Throw e => e = err_symbol \/ e = err_end
  | Undef => False
  end.

(** The next significant character: the end of data or a digit. *)
Lemma next_digit s :
  exists pre s', s = pre ++ s' /\
  ((skip_blanks (Iterator_init s) = Ret (Iterator_init s', 0x40)) \/
   exists ch t c, s' = ch :: t /\ (c =? 0x40) = false /\
     skip_blanks (Iterator_init s) = Ret (Iterator_init s', c) /\
     advance (Iterator_init s') = Iterator_init t).
Proof.
  destruct (drop_blanks_suffix s) as [pre Hs]. exists pre, (drop_blanks s). split; [done|].
  rewrite skip_blanks_init. destruct (Z.eqb_spec (code (drop_blanks s)) 0x40) as [->|Hne].
  - by left.
  - right. destruct (drop_blanks s) as [|ch t]; [done|].
    exists ch, t, (code (ch :: t)). split; [done|]. split; [by apply Z.eqb_neq|].
    split; [done|]. apply advance_init.
Qed.

Lemma decode_outcome_fill s dst w left_ p dst' :
  decode_outcome s dst (Ret (p, dst', None)) ->
  decode_outcome s dst (let* f := leave_fill w left_ in Ret (p, dst', f)).
Proof.
  unfold leave_fill. destruct w; cbn; [done|]. destruct (left_ =? 0); cbn; auto.
Qed.

Lemma decode_loop_outcome w : forall fuel s dst,
  (length s < fuel)%nat -> decode_outcome s dst (decode_loop fuel w (Iterator_init s) dst).
Proof.
  induction fuel as [|fuel IH]; intros s dst Hf; [lia|]. cbn [decode_loop].
  destruct (available (Iterator_init s)); cbn [negb].
  2: { exists [], s. repeat split. simpl. lia. }
  destruct (next_digit s) as (pre1 & s1 & Hs1 & [H1|(ch1 & t1 & c1 & E1 & Hc1 & H1 & A1)]);
    rewrite H1; cbn [obind].
  { exists pre1, s1. repeat split; [done|lia]. }
  rewrite Hc1, A1.
  destruct (next_digit t1) as (pre2 & s2 & Hs2 & [H2|(ch2 & t2 & c2 & E2 & Hc2 & H2 & A2)]);
    rewrite H2; cbn [obind]; [by left|].
  rewrite Hc2, A2.
  destruct (next_digit t2) as (pre3 & s3 & Hs3 & [H3|(ch3 & t3 & c3 & E3 & Hc3 & H3 & A3)]);
    rewrite H3; cbn [obind].
  { apply decode_outcome_fill. exists (pre1 ++ ch1 :: pre2 ++ ch2 :: pre3), s3.
    split; [subst; by rewrite <- !app_assoc; cbn [app]; rewrite <- !app_assoc|].
    split; [done|]. rewrite !length_app. cbn [length]. rewrite !length_app. cbn [length]. lia. }
  rewrite Hc3, A3.
  destruct (next_digit t3) as (pre4 & s4 & Hs4 & [H4|(ch4 & t4 & c4 & E4 & Hc4 & H4 & A4)]);
    rewrite H4; cbn [obind].
  { apply decode_outcome_fill.
    exists (pre1 ++ ch1 :: pre2 ++ ch2 :: pre3 ++ ch3 :: pre4), s4.
    split; [subst; by rewrite <- !app_assoc; cbn [app]; rewrite <- !app_assoc; cbn [app];
      rewrite <- !app_assoc|].
    split; [done|]. repeat (rewrite !length_app; cbn [length]). lia. }
  rewrite Hc4, A4.
  match goal with |- context [decode_loop _ _ _ ?d] => specialize (IH t4 d) end.
  assert (Hs : s = (pre1 ++ ch1 :: pre2 ++ ch2 :: pre3 ++ ch3 :: pre4 ++ [ch4]) ++ t4).
  { subst. repeat (rewrite <- !app_assoc; cbn [app]). done. }
  apply (f_equal length) in Hs as Hl. repeat (rewrite !length_app in Hl; cbn [length] in Hl).
  specialize (IH ltac:(lia)). destruct (decode_loop _ _ _ _) as [[[p dst'] f']| |]; [|done..].
  destruct IH as (pre & s' & -> & -> & IH).
  eexists (_ ++ pre), s'. split; [by rewrite <- app_assoc|]. split; [done|].
  repeat (rewrite !length_app in *; cbn [length] in *). lia.
Qed.

(** ** Properties *)

Lemma encoded_total_mod4 encode pc fill data :
  Z.of_nat (length (func_encode_loop encode pc fill true data)) mod 4 = 0.
Proof. rewrite func_encode_loop_length. unfold base64mod_encoded_size. apply Z.mod_mul. lia. Qed.

(** The decoder on the output of [func_encode] with dots for padding. *)
Lemma decode_mod data padding fill w :
  bytes_ok data ->
  (w = false -> forall left_, fill_bits fill (length data) = Some left_ -> left_ = 0) ->
  base64mod_decode (base64mod_encode data padding fill) padding w =
  Ret (data, stored fill w (length data)).
Proof.
  intros Hb Hw. unfold base64mod_encode, base64mod_decode. rewrite func_encode_eq.
  set (s := func_encode_loop mod_encode PADDING fill padding data).
  assert (Hp : exists k, (k <= 2)%nat /\
    end_pads PADDING padding (length data) = replicate k PADDING /\ (padding = false -> k = 0%nat)).
  { unfold end_pads. destruct padding; [|by exists 0%nat; repeat split; lia].
    destruct (length data mod 3)%nat as [|[|[|]]];
      [exists 0%nat|exists 2%nat|exists 1%nat|exists 0%nat]; repeat split; done || lia. }
  destruct Hp as (k & Hk & Hpads & Hk0).
  assert (Hdrop : drop_blanks (replicate k PADDING) = replicate k PADDING)
    by (destruct k as [|[|[|]]]; [reflexivity..|lia]).
  rewrite (decode_encoded mod_encode PADDING fill padding mod_decode_digit w data Hb);
    [|rewrite Hpads, Hdrop; by destruct k as [|[|[|]]]; [..|lia]|done|subst s; lia].
  rewrite Hpads, Hdrop. cbn [obind app].
  destruct (padding || _) eqn:E; [|done].
  destruct padding.
  - assert (Hge : (k <= length s)%nat).
    { assert (H : (0 < length data)%nat -> (4 <= length s)%nat).
      { intros H. subst s. pose proof (func_encode_loop_length mod_encode PADDING fill true data) as E2.
        unfold base64mod_encoded_size in E2. zlia. }
      destruct (length data) eqn:El; [cbn in Hpads; destruct k; done || lia|lia]. }
    rewrite check_padding_dots; [done|done| |]; cbn [Iterator_init length_];
      rewrite length_replicate; [lia|].
    replace (Z.of_nat (length s) - Z.of_nat k + Z.of_nat k) with (Z.of_nat (length s)) by lia.
    apply encoded_total_mod4.
  - rewrite (Hk0 eq_refl) in E. done.
Qed.

(** What [base64mod_encode] produces, [base64mod_decode] reads back: the
    data, and through [fill] the low bits of the encoder's [fill] argument, as
    many as [base64mod_fill_size] says; with or without padding. *)
Theorem base64mod_roundtrip (data : list Z) (padding : bool) (fill : Z) :
  bytes_ok data ->
  let bits := base64mod_fill_size (Z.of_nat (length data)) in
  base64mod_decode (base64mod_encode data padding fill) padding true =
  Ret (data, if bits =? 0 then None else Some (fill mod 2 ^ bits)).
Proof.
  intros Hb. rewrite decode_mod by done. cbv zeta. unfold stored, fill_bits, base64mod_fill_size.
  replace (Z.of_nat (length data) mod 3) with (Z.of_nat (length data mod 3))
    by (rewrite Nat2Z.inj_mod; done).
  pose proof (Nat.mod_upper_bound (length data) 3 ltac:(lia)) as Hm.
  destruct (length data mod 3)%nat as [|[|[|]]]; [done..|lia].
Qed.

Lemma base64mod_roundtrip_witness :
  base64mod_decode (base64mod_encode [0xDE; 0xAD; 0xBE; 0xEF] true 0x35) true true =
  Ret ([0xDE; 0xAD; 0xBE; 0xEF], Some 5).
Proof. apply (base64mod_roundtrip [0xDE; 0xAD; 0xBE; 0xEF] true 0x35). by_eval. Defined.

(** The standard alphabet with its ['='] padding is read by the same
    decoder: the padding characters are skipped like blanks, and the data come
    back in both modes. *)
Theorem base64_roundtrip (data : list Z) (padding : bool) :
  bytes_ok data ->
  base64mod_decode (base64_encode data padding) padding false = Ret (data, None).
Proof.
  intros Hb. unfold base64_encode, base64mod_decode. rewrite func_encode_eq.
  assert (Hpads : drop_blanks (end_pads "="%uchar padding (length data)) = []).
  { unfold end_pads. destruct padding; [|done].
    by destruct (length data mod 3)%nat as [|[|[|]]]. }
  rewrite (decode_encoded std_encode "="%uchar 0 padding std_decode_digit false data Hb);
    [|by rewrite Hpads| |lia].
  2: { intros _ left_. unfold fill_bits.
       destruct (length data mod 3)%nat as [|[|[|]]]; intros [= <-]; done. }
  rewrite Hpads. cbn [obind app stored].
  destruct padding; [|done]. cbn [orb].
  rewrite (check_padding_dots _ 0); [done|lia|simpl; lia|].
  cbn [Iterator_init length_ length]. rewrite Z.sub_0_r, Z.add_0_r. apply encoded_total_mod4.
Qed.

Lemma base64_roundtrip_witness :
  base64mod_decode (base64_encode (bytes "any carnal pleas") true) true false =
  Ret (bytes "any carnal pleas", None).
Proof. apply base64_roundtrip. by_eval. Defined.

(** [base64mod_encoded_size] is the size of the encoded string, for both
    alphabets. *)
Theorem base64_encoded_size_exact (data : list Z) (padding : bool) (fill : Z) :
  Z.of_nat (length (base64mod_encode data padding fill)) =
    base64mod_encoded_size (Z.of_nat (length data)) padding /\
  Z.of_nat (length (base64_encode data padding)) =
    base64mod_encoded_size (Z.of_nat (length data)) padding.
Proof.
  unfold base64mod_encode, base64_encode. rewrite !func_encode_eq.
  by rewrite !func_encode_loop_length.
Qed.

(** The decoder terminates on every string without leaving it: it throws
    one of its three format errors, or returns at most three octets for four
    characters, within [base64mod_max_decoded_size]. *)
Theorem base64mod_decode_total (src : list Z) (padding want_fill : bool) :
  match base64mod_decode src padding want_fill with
  | Ret (dst, _) =>
    4 * Z.of_nat (length dst) <= 3 * Z.of_nat (length src) /\
    Z.of_nat (length dst) <= base64mod_max_decoded_size (Z.of_nat (length src))
  | Throw e => e = err_symbol \/ e = err_end \/ e = err_padding
  | Undef => False
  end.
Proof.
  unfold base64mod_decode.
  pose proof (decode_loop_outcome want_fill (S (length src)) src [] ltac:(lia)) as H.
  destruct (decode_loop _ _ _ _) as [[[p dst] f]|e|]; cbn [obind decode_outcome] in *; [|tauto|done].
  destruct H as (pre & s' & Hs & -> & Hl). cbn [length] in Hl.
  assert (Hlen : length src = (length pre + length s')%nat) by (rewrite Hs; apply length_app).
  assert (Hok : 4 * Z.of_nat (length dst) <= 3 * Z.of_nat (length src) /\
    Z.of_nat (length dst) <= base64mod_max_decoded_size (Z.of_nat (length src))).
  { unfold base64mod_max_decoded_size. zlia. }
  destruct (padding || _); [|done].
  destruct (check_padding_defined
    (Z.of_nat (length src) - length_ (Iterator_init s')) s') as [-> | ->]; cbn [obind]; auto.
Qed.
