(* ===== verification/MimeUrl.v ===== *)
(** * MimeUrl: the percent encoding of URLs

    Models [mime_url_encode] and the two versions of [mime_url_decode] of
    [src/String/StringManip.cpp]: the one that writes a new string and the one
    that decodes inside the string it is given. *)
From S2P Require Import Prelude AsciiManip.
Local Open Scope Z_scope.
Local Open Scope outcome_scope.

Definition MIME : CharTable := CharTable_of_str (bytes "A-Za-z0-9_*.,-") false.

(** ** Encoding *)

Fixpoint mime_url_encode_loop (fuel : nat) (cur dest : list Z) : outcome (list Z) :=
  match fuel with
  | O => Undef
  | S fuel' =>
    let ptr := find_nonowned MIME cur in
    let dest := dest ++ range cur ptr in
    match ptr with
    | [] => Ret dest
    | ch :: cur' =>
      if ch =? " "%uchar
      then mime_url_encode_loop fuel' cur' (dest ++ ["+"%uchar])
      else mime_url_encode_loop fuel' cur'
             (dest ++ ["%"%uchar; hex_digit (Z.land (Z.shiftr ch 4) 0x0F);
                       hex_digit (Z.land ch 0x0F)])
    end
  end.

Definition mime_url_encode (src : list Z) : outcome (list Z) :=
  mime_url_encode_loop (S (length src)) src [].

(** ** Decoding into a new string *)

Definition err_broken : exn := InvalidFormatException "broken encoding in".

(** [cur] is at the head of [src]; after [length--] the number of characters
    left is [length (tail src)]. *)
Fixpoint mime_url_decode (strict : bool) (src : list Z) : outcome (list Z) :=
  match src with
  | [] => Ret []
  | ch :: rest =>
    if ch =? "+"%uchar then
      let* dst := mime_url_decode strict rest in Ret (" "%uchar :: dst)
    else if ch =? "%"%uchar then
      match rest with
      | h1 :: h2 :: rest' =>
        if negb (is_owned HEX_NUMBER h1) || negb (is_owned HEX_NUMBER h2) then
          if strict then Throw err_broken
          else let* dst := mime_url_decode strict rest in Ret (ch :: dst)
        else
          let* dst := mime_url_decode strict rest' in Ret (hex_to_char h1 h2 :: dst)
      | _ =>
        if strict then Throw err_broken
        else let* dst := mime_url_decode strict rest in Ret (ch :: dst)
      end
    else
      let* dst := mime_url_decode strict rest in Ret (ch :: dst)
  end.

(** ** Decoding in place

    [text] is the one buffer; [dest] and [src] are offsets in it and [size]
    the characters left to read. *)
Fixpoint decode_in_place_loop (fuel : nat) (text : list Z) (dest src : nat) (size : Z)
  : outcome (list Z) :=
  match fuel with
  | O => Undef
  | S fuel' =>
    if negb (0 <? size) then Ret (take dest text)
    else
      let size := size - 1 in
      let* ch := rd text src in
      if ch =? "+"%uchar then
        let* text := wr text dest " "%uchar in
        decode_in_place_loop fuel' text (S dest) (S src) size
      else if ch =? "%"%uchar then
        if size <? 2 then Throw err_broken
        else
          let* h1 := rd text (src + 1) in
          if negb (is_owned HEX_NUMBER h1) then Throw err_broken
          else
            let* h2 := rd text (src + 2) in
            if negb (is_owned HEX_NUMBER h2) then Throw err_broken
            else
              let* text := wr text dest (hex_to_char h1 h2) in
              decode_in_place_loop fuel' text (S dest) (src + 3) (size - 2)
      else
        let* text := wr text dest ch in
        decode_in_place_loop fuel' text (S dest) (S src) size
  end.

Definition mime_url_decode_in_place (text : list Z) : outcome (list Z) :=
  match text with
  | [] => Ret []
  | _ => decode_in_place_loop (S (length text)) text 0 0 (Z.of_nat (length text))
  end.

(** ** The encoding of one character *)

Definition encode_char (ch : Z) : list Z :=
  if is_owned MIME ch then [ch]
  else if ch =? " "%uchar then ["+"%uchar]
  else ["%"%uchar; hex_digit (Z.land (Z.shiftr ch 4) 0x0F); hex_digit (Z.land ch 0x0F)].

Lemma encode_owned pre :
  Forall (fun x => is_owned MIME x = true) pre -> concat (map encode_char pre) = pre.
Proof.
  induction 1 as [|x pre Hx _ IH]; [done|]. cbn [map concat]. unfold encode_char at 1.
  by rewrite Hx, IH.
Qed.

Lemma mime_url_encode_loop_spec : forall fuel cur dest,
  (length cur < fuel)%nat ->
  mime_url_encode_loop fuel cur dest = Ret (dest ++ concat (map encode_char cur)).
Proof.
  induction fuel as [|fuel IH]; intros cur dest Hf; [lia|]. cbn [mime_url_encode_loop].
  destruct (find_nonowned_split MIME cur) as (pre & Hs & Hp & Hh).
  revert Hs Hh. generalize (find_nonowned MIME cur) as ptr. intros ptr Hs Hh.
  rewrite Hs, range_app, map_app, concat_app, encode_owned by done.
  apply (f_equal length) in Hs. rewrite length_app in Hs.
  destruct ptr as [|ch cur']; [by rewrite app_nil_r|]. cbn [length] in Hs.
  specialize (Hh _ _ eq_refl). cbn [map concat]. unfold encode_char at 1. rewrite Hh.
  destruct (ch =? " "%uchar); rewrite IH by lia; by rewrite <- !app_assoc.
Qed.

(** ** Decoding an encoded character *)

Lemma decode_encode_char strict ch rest :
  is_byte ch ->
  mime_url_decode strict (encode_char ch ++ rest) =
  (let* dst := mime_url_decode strict rest in Ret (ch :: dst)).
Proof.
  intros Hb. unfold encode_char.
  destruct (is_owned MIME ch) eqn:E.
  - assert (Hne : negb (is_owned MIME ch) || negb ((ch =? "+"%uchar) || (ch =? "%"%uchar)) = true)
      by byte_eval ch.
    rewrite E in Hne. cbn [negb orb] in Hne. apply negb_true_iff, orb_false_iff in Hne as [H1 H2].
    cbn [app mime_url_decode]. by rewrite H1, H2.
  - destruct (Z.eqb_spec ch " "%uchar) as [->|Hne]; [done|].
    assert (H4 : Z.land (Z.shiftr ch 4) 0x0F = ch / 16)
      by (apply Z.eqb_eq; byte_eval ch).
    assert (H0 : Z.land ch 0x0F = ch mod 16) by exact (land_mask ch 4 ltac:(lia)).
    unfold is_byte in Hb. cbn [app mime_url_decode Z.eqb Pos.eqb].
    rewrite !HEX_NUMBER_digit by (rewrite ?H4, ?H0; zlia). cbn [negb orb].
    by rewrite hex_to_char_digits.
Qed.

(** ** In place against the copying version *)

(** A write at [dest], before what is still to be read. *)
Lemma wr_ahead (text : list Z) dest src ch c rest :
  (dest <= src)%nat -> drop src text = ch :: rest ->
  exists text', wr text dest c = Ret text' /\
    length text' = length text /\
    take (S dest) text' = take dest text ++ [c] /\
    forall n, (src < n)%nat -> drop n text' = drop n text.
Proof.
  intros Hd Hs. assert (Hl : (src < length text)%nat).
  { apply (f_equal length) in Hs. rewrite length_drop in Hs. simpl in Hs. lia. }
  exists (<[dest := c]> text). unfold wr.
  rewrite (proj2 (Nat.ltb_lt dest (length text))) by lia.
  split; [done|]. split; [apply length_insert|]. split.
  - rewrite (take_S_r _ _ c) by (apply list_lookup_insert_eq; lia).
    by rewrite take_insert_ge by lia.
  - intros n Hn. apply drop_insert_lt. lia.
Qed.

Lemma decode_in_place_loop_spec : forall fuel text dest src,
  (dest <= src)%nat -> (length text - src < fuel)%nat -> (src <= length text)%nat ->
  decode_in_place_loop fuel text dest src (Z.of_nat (length text - src)) =
  (let* dst := mime_url_decode true (drop src text) in Ret (take dest text ++ dst)).
Proof.
  induction fuel as [|fuel IH]; intros text dest src Hd Hf Hs; [lia|].
  cbn [decode_in_place_loop].
  destruct (drop src text) as [|ch rest] eqn:Er;
    (pose proof (f_equal length Er) as Hlen; rewrite length_drop in Hlen;
     cbn [length] in Hlen; rewrite Hlen).
  { cbn [length Z.of_nat Z.ltb Z.compare negb obind mime_url_decode]. by rewrite app_nil_r. }
  rewrite (proj2 (Z.ltb_lt 0 _)) by lia. cbn [negb].
  replace (Z.of_nat (S (length rest)) - 1) with (Z.of_nat (length rest)) by lia.
  rewrite (rd_drop _ _ _ _ Er). cbn [obind].
  assert (Hd1 : drop (S src) text = rest)
    by (rewrite <- Nat.add_1_r, <- drop_drop, Er; done).
  assert (Hstep : forall c n, (src < n <= length text)%nat ->
    (let* text' := wr text dest c in
     decode_in_place_loop fuel text' (S dest) n (Z.of_nat (length text - n))) =
    (let* dst := mime_url_decode true (drop n text) in Ret (take dest text ++ c :: dst))).
  { intros c n Hn. destruct (wr_ahead text dest src ch c rest Hd Er)
      as (text' & -> & Hl & Ht & Hdr). cbn [obind].
    rewrite <- Hl, IH, Ht, Hdr by lia.
    destruct (mime_url_decode true (drop n text)); cbn [obind]; [|done..].
    by rewrite <- app_assoc. }
  assert (Hone : forall c,
    (let* text' := wr text dest c in
     decode_in_place_loop fuel text' (S dest) (S src) (Z.of_nat (length rest))) =
    (let* dst := mime_url_decode true rest in Ret (take dest text ++ c :: dst))).
  { intros c. rewrite <- Hd1, <- Hstep by lia. rewrite Hd1.
    by replace (length text - S src)%nat with (length rest) by lia. }
  cbn [mime_url_decode].
  destruct (ch =? "+"%uchar); [rewrite Hone, obind_assoc; done|].
  destruct (ch =? "%"%uchar); [|rewrite Hone, obind_assoc; done].
  destruct rest as [|h1 [|h2 rest]]; [done|done|].
  assert (Hd2 : drop (src + 2) text = h2 :: rest)
    by (replace (src + 2)%nat with (S src + 1)%nat by lia; rewrite <- drop_drop, Hd1; done).
  rewrite (proj2 (Z.ltb_ge _ 2)) by (cbn [length]; lia).
  rewrite Nat.add_1_r, (rd_drop _ _ _ _ Hd1). cbn [obind].
  destruct (is_owned HEX_NUMBER h1); cbn [negb orb]; [|done].
  rewrite (rd_drop _ _ _ _ Hd2). cbn [obind].
  destruct (is_owned HEX_NUMBER h2); cbn [negb]; [|done].
  replace (Z.of_nat (length (h1 :: h2 :: rest)) - 2) with (Z.of_nat (length text - (src + 3)))
    by (cbn [length] in *; lia).
  rewrite Hstep, obind_assoc by (cbn [length] in *; lia).
  replace (src + 3)%nat with (src + 2 + 1)%nat by lia. by rewrite <- drop_drop, Hd2.
Qed.

(** ** Properties *)

(** Percent encoding loses nothing: decoding the encoded string gives the
    original characters, in the strict and in the lenient mode. *)
Theorem mime_url_roundtrip (src : list Z) (strict : bool) :
  bytes_ok src ->
  exists enc, mime_url_encode src = Ret enc /\ mime_url_decode strict enc = Ret src.
Proof.
  intros Hb. exists (concat (map encode_char src)). split.
  { unfold mime_url_encode. rewrite mime_url_encode_loop_spec by lia. done. }
  induction Hb as [|ch src Hch _ IH]; [done|]. cbn [map concat].
  by rewrite decode_encode_char, IH.
Qed.

Lemma mime_url_roundtrip_witness :
  exists enc, mime_url_encode (bytes "a b%&=") = Ret enc /\
    mime_url_decode true enc = Ret (bytes "a b%&=").
Proof. apply mime_url_roundtrip. by_eval. Defined.

(** The encoded string holds only characters that need no encoding
    themselves, ['+'] and ['%']. *)
Theorem mime_url_encode_safe (src : list Z) :
  bytes_ok src ->
  exists enc, mime_url_encode src = Ret enc /\
    Forall (fun ch => is_owned MIME ch = true \/ ch = "+"%uchar \/ ch = "%"%uchar) enc.
Proof.
  intros Hb. exists (concat (map encode_char src)). split.
  { unfold mime_url_encode. rewrite mime_url_encode_loop_spec by lia. done. }
  induction Hb as [|ch src Hch _ IH]; [constructor|]. cbn [map concat].
  apply Forall_app. split; [|done]. unfold encode_char.
  destruct (is_owned MIME ch) eqn:E; [constructor; [by left|constructor]|].
  destruct (ch =? " "%uchar); [constructor; [auto|constructor]|].
  assert (Hx : is_owned MIME (hex_digit (Z.land (Z.shiftr ch 4) 0x0F)) &&
    is_owned MIME (hex_digit (Z.land ch 0x0F)) = true) by byte_eval ch.
  apply andb_true_iff in Hx as [H1 H2]. repeat (constructor; [auto|]); constructor.
Qed.

Lemma mime_url_encode_safe_witness :
  exists enc, mime_url_encode (bytes "/?q=1") = Ret enc.
Proof.
  destruct (mime_url_encode_safe (bytes "/?q=1")) as (enc & H & _); [by_eval|by exists enc].
Defined.

(** Decoding inside the string gives what the copying version gives in
    strict mode, exceptions included: although both ends work on the same
    buffer, a write never destroys a character that is still to be read. *)
Theorem mime_url_decode_in_place_correct (text : list Z) :
  mime_url_decode_in_place text = mime_url_decode true text.
Proof.
  destruct text as [|ch text]; [done|]. cbn [mime_url_decode_in_place].
  set (t := ch :: text). pose proof (decode_in_place_loop_spec (S (length t)) t 0 0) as H.
  rewrite Nat.sub_0_r in H. rewrite H by lia. rewrite drop_0. cbn [take app].
  by destruct (mime_url_decode true t).
Qed.
