(* ===== verification/Xml.v ===== *)
(** * Xml: escaping for XML

    Models the namespaces [XmlEncode] and [XmlDecode] and the functions
    [xml_encode] (for UTF-8 and for wide strings) and [xml_decode] of
    [src/String/StringManip.cpp].  A zero-terminated source string is a list
    that ends with its zero; [None] is the null pointer. *)
From S2P Require Import Prelude AsciiManip Utf8.
Local Open Scope Z_scope.
Local Open Scope outcome_scope.

Definition XU_TEXT : Z := 0x1.
Definition XU_ATTRIBUTE : Z := 0x2.
Definition XU_PRESERVE_UTF8 : Z := 0x4.

(** ** Encoding *)

Module XmlEncode.

(** [None] when there is nothing to encode, else the units to use. *)
Definition init {A} (src : option A) (units : Z) : option (A * Z) :=
  match src with
  | None => None
  | Some s => Some (s, if units =? 0 then Z.lor XU_TEXT XU_ATTRIBUTE else units)
  end.

(** The characters appended to [dest]. *)
Definition special (symbol units : Z) : list Z :=
  if symbol =? "<"%uchar then bytes "&lt;"
  else if symbol =? ">"%uchar then bytes "&gt;"
  else if symbol =? "&"%uchar then bytes "&amp;"
  else if negb (Z.land units XU_ATTRIBUTE =? 0) && (symbol =? "'"%uchar) then bytes "&apos;"
  else if negb (Z.land units XU_ATTRIBUTE =? 0) && (symbol =? 34) then bytes "&quot;"
  else [symbol].

(** [while (!(ucs & mask))] *)
Fixpoint skip_mask (fuel : nat) (ucs mask shift : Z) : outcome (Z * Z) :=
  match fuel with
  | O => Undef
  | S fuel' =>
    if negb (Z.land ucs mask =? 0) then Ret (mask, shift)
    else skip_mask fuel' ucs (Z.shiftr mask 4) (u32 (shift - 4))
  end.

(** [*ptr++ = ch] in [char buf[11]], the characters stored so far in [buf]. *)
Definition put (buf : list Z) (ch : Z) : outcome (list Z) :=
  if (length buf <? 11)%nat then Ret (buf ++ [ch]) else Undef.

Fixpoint put_digits (fuel : nat) (ucs mask shift : Z) (buf : list Z) : outcome (list Z) :=
  match fuel with
  | O => Undef
  | S fuel' =>
    if negb (shift =? 0) then
      let* buf := put buf (hex_digit (Z.shiftr (Z.land ucs mask) shift)) in
      put_digits fuel' ucs (Z.shiftr mask 4) (u32 (shift - 4)) buf
    else put buf (hex_digit (Z.land ucs mask))
  end.

Definition wchar_to_hex (ucs : Z) : outcome (list Z) :=
  if (0 <? ucs) && (ucs <=? 0xFFFFFFFF) then
    let* (mask, shift) := skip_mask 8 ucs 0xF0000000 28 in
    let* buf := put_digits 8 ucs mask shift (bytes "&#x") in
    put buf ";"%uchar
  else Undef.

End XmlEncode.

(** The loop of [xml_encode] for a wide string. *)
Fixpoint xml_encode_wchar_loop (units : Z) (src dest : list Z) : outcome (list Z) :=
  match src with
  | [] => Undef
  | current :: src' =>
    if current =? 0 then Ret dest
    else
      let l_byte := s8 (u8 current) in
      if (Z.shiftr current 8 =? 0) && (0x20 <=? l_byte) && (l_byte <=? 0x7E) then
        xml_encode_wchar_loop units src' (dest ++ XmlEncode.special l_byte units)
      else if negb (Z.land units XU_PRESERVE_UTF8 =? 0) then
        xml_encode_wchar_loop units src' (dest ++ wchar_to_utf8 current)
      else
        let* hex := XmlEncode.wchar_to_hex (u32 current) in
        xml_encode_wchar_loop units src' (dest ++ hex)
  end.

Definition xml_encode_wchar (src : option (list Z)) (units : Z) : outcome (list Z) :=
  match XmlEncode.init src units with
  | None => Ret []
  | Some (src, units) => xml_encode_wchar_loop units src []
  end.

Definition err_xml_utf8 : exn := InvalidFormatException "Invalid source UTF-8 string".

(** The loop of [xml_encode] for a UTF-8 string. *)
Fixpoint xml_encode_loop (fuel : nat) (units : Z) (src dest : list Z) : outcome (list Z) :=
  match fuel with
  | O => Undef
  | S fuel' =>
    let* current := rd src 0 in
    if current =? 0 then Ret dest
    else
      let* (ok, octets_count) := is_correct_utf8_sequence src in
      if negb ok then Throw err_xml_utf8
      else
        let next := drop (Z.to_nat octets_count) src in
        if (octets_count =? 1) && (0x20 <=? s8 current) && (s8 current <=? 0x7E) then
          xml_encode_loop fuel' units next (dest ++ XmlEncode.special current units)
        else if negb (Z.land units XU_PRESERVE_UTF8 =? 0) then
          xml_encode_loop fuel' units next (dest ++ take (Z.to_nat octets_count) src)
        else
          let* (_, ucs) := utf8_char_to_wchar src octets_count in
          let* hex := XmlEncode.wchar_to_hex (u32 ucs) in
          xml_encode_loop fuel' units next (dest ++ hex)
  end.

Definition xml_encode (src : option (list Z)) (units : Z) : outcome (list Z) :=
  match XmlEncode.init src units with
  | None => Ret []
  | Some (src, units) => xml_encode_loop (S (length src)) units src []
  end.

(** ** Decoding *)

Module XmlDecode.
Definition APOS : list Z := bytes "apos".
Definition QUOT : list Z := bytes "quot".
Definition LT : list Z := bytes "lt".
Definition GT : list Z := bytes "gt".
Definition AMP : list Z := bytes "amp".
End XmlDecode.

(** [src.find(ch, cur)]: the position is the suffix that begins with [ch],
    [None] is [NPOS]. *)
Fixpoint find_char (ch : Z) (cur : list Z) : option (list Z) :=
  match cur with
  | [] => None
  | c :: cur' => if c =? ch then Some cur else find_char ch cur'
  end.

(** [found == cur] for positions of one string. *)
Definition peq (found cur : list Z) : bool := (length found =? length cur)%nat.

Definition err_semicolon : exn := InvalidFormatException "absent semicolon".
Definition err_empty : exn := InvalidFormatException "empty sequence".
Definition err_code : exn := InvalidFormatException "invalid char code".
Definition err_unknown : exn := InvalidFormatException "unknown sequence".

(** [while (src[found] == '0')] *)
Fixpoint skip_zeros (found cur : list Z) : outcome (list Z) :=
  match found with
  | [] => Undef
  | ch :: found' =>
    if ch =? "0"%uchar then
      if peq found' cur then Ret found' else skip_zeros found' cur
    else Ret found
  end.

(** [for (; found != cur; found++)] *)
Fixpoint hex_value (found cur : list Z) (value : Z) : outcome Z :=
  if peq found cur then Ret value
  else
    match found with
    | [] => Undef
    | ch :: found' =>
      if negb (is_owned HEX_NUMBER ch) then Throw err_code
      else hex_value found' cur (Z.lor (Z.shiftl value 4) (hex_to_int ch))
    end.

(** The digits from [found], which is after ["#x"], up to [cur]. *)
Definition decode_hex (found cur : list Z) : outcome (list Z) :=
  let* found := skip_zeros found cur in
  if peq found cur then Ret [0]
  else if (6 <? length found - length cur)%nat then Throw err_code
  else
    let* value := hex_value found cur 0 in
    match wchar_to_utf8_char value with
    | None => Throw err_code
    | Some buf => Ret buf
    end.

(** The [switch]: what the sequence between [found] and [cur] stands for. *)
Definition decode_tag (found cur : list Z) : outcome (list Z) :=
  let tag := range found cur in
  let* c0 := rd tag 0 in
  if c0 =? "#"%uchar then
    let* c1 := rd found 1 in
    if c1 =? "x"%uchar then
      let found := drop 2 found in
      if peq found cur then Throw err_unknown else decode_hex found cur
    else Throw err_unknown
  else if c0 =? "a"%uchar then
    if bool_decide (tag = XmlDecode.AMP) then Ret ["&"%uchar]
    else if bool_decide (tag = XmlDecode.APOS) then Ret ["'"%uchar]
    else Throw err_unknown
  else if c0 =? "g"%uchar then
    if bool_decide (tag = XmlDecode.GT) then Ret [">"%uchar] else Throw err_unknown
  else if c0 =? "l"%uchar then
    if bool_decide (tag = XmlDecode.LT) then Ret ["<"%uchar] else Throw err_unknown
  else if c0 =? "q"%uchar then
    if bool_decide (tag = XmlDecode.QUOT) then Ret [34] else Throw err_unknown
  else Throw err_unknown.

Fixpoint xml_decode_loop (fuel : nat) (cur dst : list Z) : outcome (list Z) :=
  match fuel with
  | O => Undef
  | S fuel' =>
    match find_char "&"%uchar cur with
    | None => Ret (dst ++ cur)
    | Some found =>
      let dst := dst ++ range cur found in
      let found := drop 1 found in
      match find_char ";"%uchar found with
      | None => Throw err_semicolon
      | Some cur =>
        if peq cur found then Throw err_empty
        else
          let* seq := decode_tag found cur in
          xml_decode_loop fuel' (drop 1 cur) (dst ++ seq)
      end
    end
  end.

Definition xml_decode (src : list Z) : outcome (list Z) :=
  xml_decode_loop (S (length src)) src [].

Example xml_sample :
  xml_encode (Some (bytes "a<b&'" ++ [0xE2; 0x82; 0xAC; 10; 0])) 0 =
    Ret (bytes "a&lt;b&amp;&apos;&#x20AC;&#xA;") /\
  xml_decode (bytes "a&lt;b&amp;&apos;&#x020AC;&#xA;") = Ret (bytes "a<b&'" ++ [0xE2; 0x82; 0xAC; 10]).
Proof. split; vm_compute; reflexivity. Qed.

(** ** Hexadecimal digits *)

Lemma mask_digit u n :
  0 <= u -> Z.land u (15 * 16 ^ Z.of_nat n) = (u / 16 ^ Z.of_nat n mod 16) * 16 ^ Z.of_nat n.
Proof.
  intros Hu. replace (16 ^ Z.of_nat n) with (2 ^ (4 * Z.of_nat n))
    by (rewrite Z.pow_mul_r by lia; done).
  rewrite <- Z.shiftr_div_pow2, <- !Z.shiftl_mul_pow2 by lia.
  rewrite <- (land_mask _ 4) by lia. change (Z.ones 4) with 15.
  apply Z.bits_inj'. intros i Hi. rewrite Z.land_spec.
  destruct (Z.ltb_spec i (4 * Z.of_nat n)).
  - by rewrite !Z.shiftl_spec_low, andb_false_r by lia.
  - rewrite !Z.shiftl_spec, Z.land_spec, Z.shiftr_spec by lia. by rewrite Z.sub_add.
Qed.

Lemma mask_next n : Z.shiftr (15 * 16 ^ Z.of_nat (S n)) 4 = 15 * 16 ^ Z.of_nat n.
Proof.
  rewrite Z.shiftr_div_pow2 by lia. change (2 ^ 4) with 16.
  rewrite Nat2Z.inj_succ, Z.pow_succ_r by lia.
  replace (15 * (16 * 16 ^ Z.of_nat n)) with (15 * 16 ^ Z.of_nat n * 16) by ring.
  apply Z.div_mul. lia.
Qed.

Lemma shift_next n : (n < 8)%nat -> u32 (4 * Z.of_nat (S n) - 4) = 4 * Z.of_nat n.
Proof. intros Hn. unfold u32. rewrite Z.mod_small; lia. Qed.

Lemma top_digit u n : 0 <= u < 16 ^ Z.of_nat (S n) -> u / 16 ^ Z.of_nat n mod 16 = u / 16 ^ Z.of_nat n.
Proof.
  intros Hu. rewrite Nat2Z.inj_succ, Z.pow_succ_r in Hu by lia.
  apply Z.mod_small. split.
  - apply Z.div_pos; lia.
  - apply Z.div_lt_upper_bound; lia.
Qed.

Lemma skip_mask_spec u : 0 < u -> forall n, (n < 8)%nat -> u < 16 ^ Z.of_nat (S n) ->
  exists m, (m <= n)%nat /\ 16 ^ Z.of_nat m <= u < 16 ^ Z.of_nat (S m) /\
    XmlEncode.skip_mask (S n) u (15 * 16 ^ Z.of_nat n) (4 * Z.of_nat n) =
    Ret (15 * 16 ^ Z.of_nat m, 4 * Z.of_nat m).
Proof.
  intros Hu. induction n as [|n IH]; intros Hn Hlt.
  - exists 0%nat. split; [lia|]. split; [lia|]. cbn [XmlEncode.skip_mask].
    rewrite mask_digit, top_digit by lia. rewrite Z.div_1_r. by decide_Z.
  - cbn [XmlEncode.skip_mask]. rewrite mask_digit, top_digit by lia.
    assert (Hp : 0 < 16 ^ Z.of_nat (S n)) by lia.
    destruct (Z.lt_ge_cases u (16 ^ Z.of_nat (S n))) as [Hs|Hs].
    + rewrite Z.div_small by lia. cbn [Z.mul Z.eqb negb].
      rewrite mask_next, shift_next by lia.
      destruct (IH ltac:(lia) Hs) as (m & ? & ? & ?). exists m. auto with lia.
    + exists (S n). split; [lia|]. split; [lia|].
      assert (1 <= u / 16 ^ Z.of_nat (S n)) by (apply Z.div_le_lower_bound; lia).
      destruct (Z.eqb_spec (u / 16 ^ Z.of_nat (S n) * 16 ^ Z.of_nat (S n)) 0); [nia|done].
Qed.

Lemma put_ok buf ch : (length buf < 11)%nat -> XmlEncode.put buf ch = Ret (buf ++ [ch]).
Proof. intros H. unfold XmlEncode.put. by rewrite (proj2 (Nat.ltb_lt _ _)). Qed.

Lemma put_digits_spec u : 0 <= u -> forall m fuel buf,
  (m < 8)%nat -> (m < fuel)%nat -> (length buf + m < 11)%nat ->
  XmlEncode.put_digits fuel u (15 * 16 ^ Z.of_nat m) (4 * Z.of_nat m) buf =
  Ret (buf ++ hexd (S m) u).
Proof.
  intros Hu. induction m as [|m IH]; intros fuel buf Hm Hf Hb;
    (destruct fuel as [|fuel]; [lia|]); cbn [XmlEncode.put_digits].
  - decide_Z. cbn [negb hexd]. rewrite mask_digit, put_ok by lia.
    by rewrite Z.mul_1_r.
  - decide_Z. cbn [negb]. rewrite mask_digit, put_ok by lia. cbn [obind].
    rewrite mask_next, shift_next, IH by (rewrite ?length_app; simpl; lia).
    rewrite <- app_assoc. cbn [app]. f_equal. f_equal.
    change (hexd (S (S m)) u) with (hex_digit (u / 16 ^ Z.of_nat (S m) mod 16) :: hexd (S m) u).
    f_equal. f_equal. rewrite Z.shiftr_div_pow2 by lia.
    rewrite Z.pow_mul_r by lia. change (2 ^ 4) with 16. apply Z.div_mul. lia.
Qed.

(** [wchar_to_hex] writes the reference without leading zeros; [buf] has room
    for seven digits. *)
Lemma wchar_to_hex_spec u :
  0 < u < 16 ^ 7 ->
  exists m, (m < 7)%nat /\ 16 ^ Z.of_nat m <= u < 16 ^ Z.of_nat (S m) /\
    XmlEncode.wchar_to_hex u = Ret (bytes "&#x" ++ hexd (S m) u ++ bytes ";").
Proof.
  intros Hu. destruct (skip_mask_spec u ltac:(lia) 7 ltac:(lia) ltac:(simpl; lia))
    as (m & Hm & Hr & Hs). exists m.
  assert (m < 7)%nat.
  { destruct (Nat.lt_ge_cases m 7); [done|]. replace m with 7%nat in Hr by lia.
    simpl in Hr. lia. }
  split; [done|]. split; [done|]. unfold XmlEncode.wchar_to_hex. decide_Z. cbn [andb].
  change 0xF0000000 with (15 * 16 ^ Z.of_nat 7). change 28 with (4 * Z.of_nat 7).
  rewrite Hs. cbn [obind]. rewrite put_digits_spec by (simpl; lia). cbn [obind].
  rewrite put_ok by (rewrite length_app, length_hexd; simpl; lia). by rewrite <- app_assoc.
Qed.

(** ** One character *)

(** The text both encoders write for the character [w]. *)
Definition xml_char (units w : Z) : list Z :=
  if between 0x20 w 0x7E then XmlEncode.special w units
  else if negb (Z.land units XU_PRESERVE_UTF8 =? 0) then wchar_to_utf8 w
  else match XmlEncode.wchar_to_hex w with Ret hex => hex | _ => [] end.

Lemma xml_char_hex units w :
  0 < w < 0x110000 -> between 0x20 w 0x7E = false ->
  negb (Z.land units XU_PRESERVE_UTF8 =? 0) = false ->
  exists m, (m < 6)%nat /\ 16 ^ Z.of_nat m <= w < 16 ^ Z.of_nat (S m) /\
    XmlEncode.wchar_to_hex w = Ret (xml_char units w) /\
    xml_char units w = bytes "&#x" ++ hexd (S m) w ++ bytes ";".
Proof.
  intros Hw Hb Hu. destruct (wchar_to_hex_spec w ltac:(simpl; lia)) as (m & Hm & Hr & Hx).
  exists m. assert (m <> 6)%nat by (intros ->; simpl in Hr; lia).
  split; [lia|]. split; [done|]. unfold xml_char. rewrite Hb, Hu, Hx. done.
Qed.

(** ** The encoders *)

Lemma xml_encode_wchar_loop_spec units ws : Forall text_scalar ws -> forall dest,
  xml_encode_wchar_loop units (ws ++ [0]) dest = Ret (dest ++ concat (map (xml_char units) ws)).
Proof.
  induction 1 as [|w ws Hw _ IH]; intros dest; cbn [app xml_encode_wchar_loop map concat].
  { by rewrite app_nil_r. }
  apply text_scalar_range in Hw. decide_Z.
  assert (Hc : (Z.shiftr w 8 =? 0) && (0x20 <=? s8 (u8 w)) && (s8 (u8 w) <=? 0x7E) =
    between 0x20 w 0x7E /\ (between 0x20 w 0x7E = true -> s8 (u8 w) = w)).
  { rewrite s8_val by apply u8_byte. unfold u8, between. rewrite Z.shiftr_div_pow2 by lia.
    change (2 ^ 8) with 256. repeat case_Z; cbn [andb]; split; try done; zlia. }
  destruct Hc as [-> Hc]. destruct (between 0x20 w 0x7E) eqn:Eb.
  { rewrite IH, Hc, <- app_assoc by done. unfold xml_char. by rewrite Eb. }
  destruct (negb (Z.land units XU_PRESERVE_UTF8 =? 0)) eqn:Eu.
  { rewrite IH, <- app_assoc. unfold xml_char. by rewrite Eb, Eu. }
  destruct (xml_char_hex units w Hw Eb Eu) as (m & _ & _ & Hx & _).
  unfold u32. rewrite Z.mod_small by lia. rewrite Hx. cbn [obind].
  by rewrite IH, <- app_assoc.
Qed.

Lemma wchar_to_utf8_cons w : 0 < w < 0x110000 ->
  exists h t, wchar_to_utf8 w = h :: t /\ h <> 0 /\
    (Z.of_nat (length (h :: t)) =? 1) && (0x20 <=? s8 h) && (s8 h <=? 0x7E) =
    between 0x20 w 0x7E /\ (between 0x20 w 0x7E = true -> h = w).
Proof.
  intros Hw. destruct (Z.ltb_spec w 128).
  - rewrite wchar_to_utf8_ascii by lia. exists w, []. split; [done|]. split; [lia|].
    split; [|done]. by rewrite s8_low by lia.
  - destruct (wchar_to_utf8_high w ltac:(lia)) as [Hf Hl].
    destruct (wchar_to_utf8 w) as [|h t]; [simpl in Hl; lia|]. inversion_clear Hf.
    exists h, t. split; [done|]. split; [lia|]. unfold between. decide_Z. done.
Qed.

Lemma xml_encode_loop_spec units : forall ws fuel dest,
  Forall text_scalar ws -> (length ws < fuel)%nat ->
  xml_encode_loop fuel units (wchar_to_utf8_str ws ++ [0]) dest =
  Ret (dest ++ concat (map (xml_char units) ws)).
Proof.
  induction ws as [|w ws IH]; intros fuel dest Hws Hf; (destruct fuel as [|fuel]; [simpl in Hf; lia|]);
    cbn [xml_encode_loop wchar_to_utf8_str map concat].
  { by rewrite app_nil_r. }
  inversion_clear Hws as [|? ? Hw Hws']. cbn [length] in Hf. rewrite <- app_assoc.
  assert (Hrest : bytes_ok (wchar_to_utf8_str ws ++ [0])).
  { apply Forall_app. split; [apply wchar_to_utf8_str_bytes|by_eval]. }
  rewrite scalar_is_correct by (done || apply Hw). apply text_scalar_range in Hw as Hr.
  destruct (wchar_to_utf8_cons w Hr) as (h & t & E & H0 & Hc & Hh).
  destruct (wchar_to_utf8_decode w (wchar_to_utf8_str ws ++ [0]) ltac:(lia))
    as (_ & _ & _ & _ & _ & Hd).
  rewrite E in *. cbn [obind negb]. change (rd ((h :: t) ++ _) 0) with (Ret h). cbn [obind].
  destruct (Z.eqb_spec h 0); [done|].
  rewrite Nat2Z.id, drop_app_length, take_app_length, Hc, !IH by (done || lia).
  rewrite Hd. cbn [obind]. unfold u32. rewrite Z.mod_small by lia.
  destruct (between 0x20 w 0x7E) eqn:Eb.
  { rewrite Hh, <- app_assoc by done. unfold xml_char. by rewrite Eb. }
  destruct (negb (Z.land units XU_PRESERVE_UTF8 =? 0)) eqn:Eu.
  { rewrite <- app_assoc. unfold xml_char. by rewrite Eb, Eu, E. }
  destruct (xml_char_hex units w Hr Eb Eu) as (m & _ & _ & Hx & _).
  rewrite Hx. cbn [obind]. by rewrite IH, <- app_assoc by (done || lia).
Qed.

(** ** The decoder *)

Lemma find_char_length ch p q : find_char ch p = Some q -> (length q <= length p)%nat.
Proof.
  revert q. induction p as [|c p IH]; intros q H; [done|]. cbn in H.
  destruct (c =? ch); [injection H as <-; lia|]. apply IH in H. simpl. lia.
Qed.

Lemma find_char_skip ch pre rest :
  Forall (fun c => c <> ch) pre -> find_char ch (pre ++ rest) = find_char ch rest.
Proof.
  induction 1 as [|c pre Hc _ IH]; [done|]. cbn.
  by rewrite (proj2 (Z.eqb_neq c ch) Hc), IH.
Qed.

Lemma decode_plain fuel pre rest dst :
  Forall (fun c => c <> "&"%uchar) pre ->
  xml_decode_loop (S fuel) (pre ++ rest) dst = xml_decode_loop (S fuel) rest (dst ++ pre).
Proof.
  intros Hp. cbn [xml_decode_loop]. rewrite find_char_skip by done.
  destruct (find_char "&"%uchar rest) as [q|] eqn:E; [|by rewrite app_assoc].
  replace (range (pre ++ rest) q) with (pre ++ range rest q); [by rewrite app_assoc|].
  apply find_char_length in E. unfold range. rewrite length_app, take_app, (take_ge pre) by lia.
  f_equal. f_equal. lia.
Qed.

Lemma decode_entity fuel tag rest dst :
  tag <> [] -> Forall (fun c => c <> ";"%uchar) tag ->
  xml_decode_loop (S fuel) ("&"%uchar :: tag ++ ";"%uchar :: rest) dst =
  (let* seq := decode_tag (tag ++ ";"%uchar :: rest) (";"%uchar :: rest) in
   xml_decode_loop fuel rest (dst ++ seq)).
Proof.
  intros Hn Ht. cbn [xml_decode_loop find_char Z.eqb Pos.eqb drop]. rewrite drop_0.
  rewrite find_char_skip by done. cbn [find_char Z.eqb Pos.eqb].
  assert (Hp : peq (";"%uchar :: rest) (tag ++ ";"%uchar :: rest) = false).
  { apply Nat.eqb_neq. rewrite length_app. destruct tag; [done|]. simpl. lia. }
  rewrite Hp, range_self, app_nil_r. cbn [drop]. by rewrite drop_0.
Qed.

Lemma peq_app pre cur : peq (pre ++ cur) cur = (length pre =? 0)%nat.
Proof.
  unfold peq. rewrite length_app. destruct (Nat.eqb_spec (length pre) 0) as [->|].
  - apply Nat.eqb_refl.
  - apply Nat.eqb_neq. lia.
Qed.

Lemma peq_cons c pre cur : peq (c :: pre ++ cur) cur = false.
Proof. exact (peq_app (c :: pre) cur). Qed.

Lemma hex_value_digits u cur : 0 <= u -> forall n value,
  hex_value (hexd n u ++ cur) cur value = Ret (value * 16 ^ Z.of_nat n + u mod 16 ^ Z.of_nat n).
Proof.
  intros Hu. induction n as [|n IH]; intros value.
  - cbn [hexd app]. unfold hex_value. destruct cur; unfold peq;
      rewrite Nat.eqb_refl, Z.mod_1_r; f_equal; lia.
  - cbn [hexd app hex_value]. rewrite peq_cons.
    pose proof (hexd_digit u n).
    rewrite HEX_NUMBER_digit, hex_to_int_digit by lia. cbn [negb].
    rewrite shiftl_or, IH by lia. f_equal.
    rewrite Nat2Z.inj_succ, Z.pow_succ_r, Z.mul_comm by lia. change (2 ^ 4) with 16.
    rewrite (Z.mul_comm 16), Z.rem_mul_r by lia. ring.
Qed.

(** The first digit is not a zero, so [skip_zeros] leaves the digits alone. *)
Lemma skip_zeros_hexd m w cur :
  16 ^ Z.of_nat m <= w < 16 ^ Z.of_nat (S m) ->
  skip_zeros (hexd (S m) w ++ cur) cur = Ret (hexd (S m) w ++ cur).
Proof.
  intros Hw. cbn [hexd app skip_zeros]. rewrite top_digit by lia.
  assert (H1 : 1 <= w / 16 ^ Z.of_nat m) by (apply Z.div_le_lower_bound; lia).
  pose proof (hexd_digit w m) as H2. rewrite top_digit in H2 by lia.
  assert (Hd : (hex_digit (w / 16 ^ Z.of_nat m) =? "0"%uchar) =
    (w / 16 ^ Z.of_nat m =? 0)).
  { apply eqb_prop. revert H2. generalize (w / 16 ^ Z.of_nat m).
    by apply (forall_below 16 (fun n => eqb (hex_digit n =? "0"%uchar) (n =? 0))). }
  rewrite Hd. by decide_Z.
Qed.

Lemma decode_tag_hex m w rest :
  (m < 6)%nat -> 16 ^ Z.of_nat m <= w < 16 ^ Z.of_nat (S m) -> w < 0x200000 ->
  decode_tag ((bytes "#x" ++ hexd (S m) w) ++ ";"%uchar :: rest) (";"%uchar :: rest) =
  Ret (wchar_to_utf8 w).
Proof.
  intros Hm Hw Hlt. unfold decode_tag. rewrite range_app, <- app_assoc.
  set (cur := ";"%uchar :: rest). cbv [bytes map String.list_ascii_of_string Ascii.N_of_ascii].
  cbn [app Ascii.N_of_digits N.add N.mul Pos.add Pos.mul Z.of_N].
  cbn [rd lookup list_lookup obind Z.eqb Pos.eqb drop].
  change (drop 0 (hexd (S m) w ++ cur)) with (hexd (S m) w ++ cur).
  rewrite peq_app, length_hexd. cbn [Nat.eqb]. unfold decode_hex.
  rewrite skip_zeros_hexd by done. cbn [obind].
  rewrite peq_app, length_app, length_hexd, Nat.add_sub. cbn [Nat.eqb].
  rewrite (proj2 (Nat.ltb_ge 6 (S m))) by lia.
  rewrite hex_value_digits by lia. cbn [obind]. rewrite Z.mod_small, Z.mul_0_l, Z.add_0_l by lia.
  rewrite wchar_to_utf8_char_eq by lia. by decide_Z.
Qed.

(** Decoding one named reference. *)
Lemma decode_named fuel tag w rest dst :
  tag <> [] -> Forall (fun c => c <> ";"%uchar) tag ->
  decode_tag (tag ++ ";"%uchar :: rest) (";"%uchar :: rest) = Ret [w] ->
  xml_decode_loop (S fuel) (("&"%uchar :: tag ++ [";"%uchar]) ++ rest) dst =
  xml_decode_loop fuel rest (dst ++ [w]).
Proof.
  intros Hn Ht Hd. rewrite <- app_comm_cons, <- app_assoc. cbn [app].
  by rewrite decode_entity, Hd by done.
Qed.

Lemma decode_special fuel units w rest dst :
  between 0x20 w 0x7E = true ->
  exists fuel', (fuel <= fuel')%nat /\
    xml_decode_loop (S fuel) (XmlEncode.special w units ++ rest) dst =
    xml_decode_loop fuel' rest (dst ++ [w]).
Proof.
  intros Hb. unfold XmlEncode.special.
  assert (Hnamed : forall tag w', tag <> [] -> Forall (fun c => c <> ";"%uchar) tag ->
    decode_tag (tag ++ ";"%uchar :: rest) (";"%uchar :: rest) = Ret [w'] -> w = w' ->
    exists fuel', (fuel <= fuel')%nat /\
      xml_decode_loop (S fuel) (("&"%uchar :: tag ++ [";"%uchar]) ++ rest) dst =
      xml_decode_loop fuel' rest (dst ++ [w])).
  { intros tag w' H1 H2 H3 ->. exists fuel. split; [lia|]. by apply decode_named. }
  destruct (Z.eqb_spec w "<"%uchar).
  { apply (Hnamed XmlDecode.LT "<"%uchar); [done|by_eval| |done]. unfold decode_tag. by rewrite range_app. }
  destruct (Z.eqb_spec w ">"%uchar).
  { apply (Hnamed XmlDecode.GT ">"%uchar); [done|by_eval| |done]. unfold decode_tag. by rewrite range_app. }
  destruct (Z.eqb_spec w "&"%uchar).
  { apply (Hnamed XmlDecode.AMP "&"%uchar); [done|by_eval| |done]. unfold decode_tag. by rewrite range_app. }
  destruct (negb (Z.land units XU_ATTRIBUTE =? 0) && (w =? "'"%uchar)) eqn:E1.
  { apply andb_true_iff in E1 as [_ E1%Z.eqb_eq].
    apply (Hnamed XmlDecode.APOS "'"%uchar); [done|by_eval| |done]. unfold decode_tag. by rewrite range_app. }
  destruct (negb (Z.land units XU_ATTRIBUTE =? 0) && (w =? 34)) eqn:E2.
  { apply andb_true_iff in E2 as [_ E2%Z.eqb_eq].
    apply (Hnamed XmlDecode.QUOT 34); [done|by_eval| |done]. unfold decode_tag. by rewrite range_app. }
  exists (S fuel). split; [lia|]. rewrite decode_plain; [done|]. by constructor.
Qed.

Lemma decode_xml_char fuel units w rest dst :
  text_scalar w ->
  exists fuel', (fuel <= fuel')%nat /\
    xml_decode_loop (S fuel) (xml_char units w ++ rest) dst =
    xml_decode_loop fuel' rest (dst ++ wchar_to_utf8 w).
Proof.
  intros Hw%text_scalar_range. destruct (between 0x20 w 0x7E) eqn:Eb.
  { unfold xml_char. rewrite Eb. apply between_spec in Eb as Hb.
    rewrite wchar_to_utf8_ascii by lia. by apply decode_special. }
  destruct (negb (Z.land units XU_PRESERVE_UTF8 =? 0)) eqn:Eu.
  { unfold xml_char. rewrite Eb, Eu. exists (S fuel). split; [lia|]. apply decode_plain.
    destruct (Z.ltb_spec w 128).
    - rewrite wchar_to_utf8_ascii by lia. constructor; [|constructor].
      intros ->. by vm_compute in Eb.
    - eapply Forall_impl; [apply (wchar_to_utf8_high w); lia|]. simpl. lia. }
  destruct (xml_char_hex units w Hw Eb Eu) as (m & Hm & Hr & _ & ->).
  exists fuel. split; [lia|].
  rewrite <- !app_assoc. change (bytes "&#x") with ("&"%uchar :: bytes "#x").
  change (bytes ";" ++ rest) with (";"%uchar :: rest). 
  rewrite <- app_comm_cons, app_assoc, decode_entity, decode_tag_hex; [done|lia|done|lia|done|].
  apply Forall_app. split; [by_eval|]. generalize (S m). clear. intros n.
  induction n as [|n IH]; constructor; [|done].
  pose proof (hexd_digit w n) as Hd. revert Hd. generalize (w / 16 ^ Z.of_nat n mod 16).
  intros d Hd He. assert (negb (hex_digit d =? ";"%uchar) = true).
  { revert d Hd He. intros d Hd _. revert d Hd. by apply (forall_below 16). }
  by rewrite He in *.
Qed.

Lemma xml_char_cons units w : text_scalar w -> (1 <= length (xml_char units w))%nat.
Proof.
  intros Hw%text_scalar_range. destruct (between 0x20 w 0x7E) eqn:Eb.
  { unfold xml_char, XmlEncode.special. rewrite Eb. repeat case_match; simpl; lia. }
  destruct (negb (Z.land units XU_PRESERVE_UTF8 =? 0)) eqn:Eu.
  { unfold xml_char. rewrite Eb, Eu.
    destruct (wchar_to_utf8_cons w Hw) as (h & t & -> & _). simpl. lia. }
  destruct (xml_char_hex units w Hw Eb Eu) as (m & _ & _ & _ & ->). simpl. lia.
Qed.

Lemma xml_decode_chars units ws : Forall text_scalar ws ->
  xml_decode (concat (map (xml_char units) ws)) = Ret (wchar_to_utf8_str ws).
Proof.
  intros Hws. unfold xml_decode.
  assert (H : forall dst fuel, (length ws < fuel)%nat ->
    xml_decode_loop fuel (concat (map (xml_char units) ws)) dst =
    Ret (dst ++ wchar_to_utf8_str ws)).
  { induction Hws as [|w ws Hw _ IH]; intros dst fuel Hf;
      (destruct fuel as [|fuel]; [simpl in Hf; lia|]); [done|].
    cbn [map concat length wchar_to_utf8_str] in *.
    destruct (decode_xml_char fuel units w (concat (map (xml_char units) ws)) dst Hw)
      as (fuel' & Hle & ->). rewrite IH by lia. by rewrite <- app_assoc. }
  apply H. clear H. induction Hws as [|w ws Hw _ IH]; [simpl; lia|].
  cbn [map concat length]. rewrite length_app.
  pose proof (xml_char_cons units w Hw). lia.
Qed.

(** ** No read out of bounds *)

Lemma skip_zeros_inside cur : forall pre, pre <> [] ->
  exists pre', skip_zeros (pre ++ cur) cur = Ret (pre' ++ cur).
Proof.
  induction pre as [|c pre IH]; intros Hn; [done|]. cbn [app skip_zeros].
  destruct (c =? "0"%uchar); [|by exists (c :: pre)]. rewrite peq_app.
  destruct pre as [|c' pre]; [by exists []|]. by apply IH.
Qed.

Lemma hex_value_inside cur : forall pre value, hex_value (pre ++ cur) cur value <> Undef.
Proof.
  induction pre as [|c pre IH]; intros value.
  - cbn [app]. unfold hex_value. destruct cur; unfold peq; by rewrite Nat.eqb_refl.
  - cbn [app hex_value]. rewrite peq_cons. destruct (is_owned HEX_NUMBER c); [apply IH|done].
Qed.

Lemma decode_tag_inside tag rest :
  tag <> [] -> decode_tag (tag ++ ";"%uchar :: rest) (";"%uchar :: rest) <> Undef.
Proof.
  intros Hn. unfold decode_tag. rewrite range_app. destruct tag as [|c0 tag]; [done|].
  change (rd (c0 :: tag) 0) with (Ret c0). cbn [obind].
  destruct (c0 =? "#"%uchar); [|repeat case_match; done].
  set (cur := ";"%uchar :: rest).
  assert (Hc1 : exists c1, rd ((c0 :: tag) ++ cur) 1 = Ret c1 /\ (tag = [] -> c1 = ";"%uchar))
    by (destruct tag as [|c1 tag]; eexists; done).
  destruct Hc1 as (c1 & -> & Hc1). cbn [obind].
  destruct (Z.eqb_spec c1 "x"%uchar); [|done].
  destruct tag as [|c1' tag]; [by rewrite Hc1 in *|]. cbn [app drop].
  rewrite drop_0, peq_app. destruct tag as [|c2 tag]; [done|]. cbn [length Nat.eqb].
  unfold decode_hex. destruct (skip_zeros_inside cur (c2 :: tag) ltac:(done)) as (pre & ->).
  cbn [obind]. destruct (peq _ _); [done|]. destruct (6 <? _)%nat; [done|].
  pose proof (hex_value_inside cur pre 0) as Hv.
  destruct (hex_value (pre ++ cur) cur 0); cbn [obind]; [by destruct (wchar_to_utf8_char a)|done..].
Qed.

Lemma find_char_split ch p q : find_char ch p = Some q -> exists pre t, p = pre ++ q /\ q = ch :: t.
Proof.
  revert q. induction p as [|c p IH]; intros q H; [done|]. cbn in H.
  destruct (Z.eqb_spec c ch) as [->|].
  - injection H as <-. by exists [], p.
  - destruct (IH _ H) as (pre & t & -> & ->). by exists (c :: pre), t.
Qed.

Lemma xml_decode_loop_inside : forall fuel cur dst,
  (length cur < fuel)%nat -> xml_decode_loop fuel cur dst <> Undef.
Proof.
  induction fuel as [|fuel IH]; intros cur dst Hf; [lia|]. cbn [xml_decode_loop].
  destruct (find_char "&"%uchar cur) as [found|] eqn:E1; [|done].
  destruct (find_char_split _ _ _ E1) as (pre & t & -> & ->). cbn [drop]. rewrite drop_0.
  destruct (find_char ";"%uchar t) as [cur|] eqn:E2; [|done].
  destruct (find_char_split _ _ _ E2) as (tag & rest & -> & ->).
  destruct (peq _ _) eqn:Ep; [done|]. cbn [drop]. rewrite drop_0.
  assert (Ht : tag <> []) by (intros ->; unfold peq in Ep; by rewrite Nat.eqb_refl in Ep).
  pose proof (decode_tag_inside tag rest Ht) as Hd.
  destruct (decode_tag _ _); cbn [obind]; [|done..]. apply IH.
  rewrite !length_app in Hf. simpl in Hf. rewrite length_app in Hf. simpl in Hf. lia.
Qed.

(** ** Properties *)

(** Escaping and unescaping is the identity: for every text of Unicode
    scalar values and every choice of units the UTF-8 encoder returns a text
    and [xml_decode] gives the original octets back. *)
Theorem xml_roundtrip (ws : list Z) (units : Z) :
  Forall text_scalar ws ->
  exists enc, xml_encode (Some (wchar_to_utf8_str ws ++ [0])) units = Ret enc /\
    xml_decode enc = Ret (wchar_to_utf8_str ws).
Proof.
  intros Hws. unfold xml_encode, XmlEncode.init.
  set (u := if units =? 0 then _ else _). exists (concat (map (xml_char u) ws)).
  split; [|by apply xml_decode_chars]. apply xml_encode_loop_spec; [done|].
  rewrite length_app. pose proof (length_utf8_str ws Hws). lia.
Qed.

Lemma xml_roundtrip_witness :
  exists enc, xml_encode (Some (wchar_to_utf8_str [0x3C; 0x27; 9; 0x20AC; 0x10FFFF] ++ [0])) 1
    = Ret enc /\ xml_decode enc = Ret (wchar_to_utf8_str [0x3C; 0x27; 9; 0x20AC; 0x10FFFF]).
Proof. apply xml_roundtrip. by_eval. Defined.

(** The encoder for wide strings and the encoder for UTF-8 write the same
    text for the same characters. *)
Theorem xml_encode_wchar_agrees (ws : list Z) (units : Z) :
  Forall text_scalar ws ->
  xml_encode_wchar (Some (ws ++ [0])) units =
  xml_encode (Some (wchar_to_utf8_str ws ++ [0])) units.
Proof.
  intros Hws. unfold xml_encode, xml_encode_wchar, XmlEncode.init.
  rewrite xml_encode_wchar_loop_spec by done. symmetry. apply xml_encode_loop_spec; [done|].
  rewrite length_app. pose proof (length_utf8_str ws Hws). lia.
Qed.

Lemma xml_encode_wchar_agrees_witness :
  xml_encode_wchar (Some ([0x26; 0xFF; 0x1F600] ++ [0])) 6 =
  xml_encode (Some (wchar_to_utf8_str [0x26; 0xFF; 0x1F600] ++ [0])) 6.
Proof. apply xml_encode_wchar_agrees. by_eval. Defined.

(** A numeric reference fits the buffer of [wchar_to_hex] exactly for the
    values below 0x10000000; the semicolon of a larger one is written past its
    end. *)
Theorem wchar_to_hex_bounds (ucs : Z) :
  0 < ucs <= 0xFFFFFFFF ->
  if ucs <? 0x10000000
  then exists n, (n <= 7)%nat /\
         XmlEncode.wchar_to_hex ucs = Ret (bytes "&#x" ++ hexd n ucs ++ bytes ";")
  else XmlEncode.wchar_to_hex ucs = Undef.
Proof.
  intros Hu. case_Z.
  - destruct (wchar_to_hex_spec ucs ltac:(simpl; lia)) as (m & Hm & _ & Hx).
    exists (S m). split; [lia|done].
  - destruct (skip_mask_spec ucs ltac:(lia) 7 ltac:(lia) ltac:(simpl; lia))
      as (m & Hm & Hr & Hs).
    assert (m = 7)%nat as ->.
    { destruct (Nat.eq_dec m 7%nat); [done|]. exfalso.
      assert (16 ^ Z.of_nat (S m) <= 16 ^ 7) by (apply Z.pow_le_mono_r; lia). simpl in *. lia. }
    unfold XmlEncode.wchar_to_hex. decide_Z. cbn [andb].
    change 0xF0000000 with (15 * 16 ^ Z.of_nat 7). change 28 with (4 * Z.of_nat 7).
    rewrite Hs. cbn [obind]. rewrite put_digits_spec by (simpl; lia). cbn [obind].
    unfold XmlEncode.put. by rewrite length_app, length_hexd.
Qed.

Lemma wchar_to_hex_bounds_witness :
  XmlEncode.wchar_to_hex 0x10000000 = Undef.
Proof. apply (wchar_to_hex_bounds 0x10000000). lia. Defined.

(** [xml_decode] returns a text or throws on every input whatsoever: it
    terminates and never reads outside its source. *)
Theorem xml_decode_total (src : list Z) : xml_decode src <> Undef.
Proof. apply xml_decode_loop_inside. lia. Qed.
