(* ===== verification/Js.v ===== *)
(** * Js: escaping for JavaScript and JSON

    Models the namespace [JS] and the functions [js_unicode_encode],
    [js_unicode_decode], [json_escape] and [js_encode] of
    [src/String/StringManip.cpp].  A zero-terminated source is the list of its
    characters without the zero, a [SubString] the list of its characters. *)
From S2P Require Import Prelude AsciiManip Utf8.
Local Open Scope Z_scope.
Local Open Scope outcome_scope.

Definition NON_JS : CharTable :=
  CharTable_of_str (bytes "\" ++ [34] ++ bytes "'/" ++ [10; 13] ++ bytes "<>" ++ [0xE2]) true.

Definition NON_JSON : CharTable :=
  CharTable_of_str (bytes "\" ++ [34; 10; 13; 0x01] ++ bytes "-" ++ [0x1F]) true.

(** ** The namespace [JS]

    What each function appends to the destination. *)
Module JS.

Definition add_unicode_symbol (dest : Z) : list Z :=
  bytes "\u" ++
  [hex_digit (Z.land (Z.shiftr dest 12) 0x0F);
   hex_digit (Z.land (Z.shiftr dest 8) 0x0F);
   hex_digit (Z.land (Z.shiftr dest 4) 0x0F);
   hex_digit (Z.land dest 0x0F)].

Definition err_symbol : exn := InvalidFormatException "invalid symbol in".
Definition err_unpaired : exn := InvalidFormatException "unpaired surrogate in".

Definition add_wchar (ch : Z) (strict : bool) : outcome (list Z) :=
  match wchar_to_utf8_char ch with
  | Some buf => Ret buf
  | None => if strict then Throw err_symbol else Ret []
  end.

Definition add_surrogate (surrogate : Z) (strict : bool) : outcome (list Z) :=
  if strict then Throw err_unpaired else add_wchar surrogate strict.

End JS.

(** ** [js_unicode_encode] *)

Definition err_non_unicode : exn := InvalidFormatException "found non-unicode symbol".

(** Moving [src] past the terminating zero has no meaning. *)
Fixpoint js_unicode_encode_loop (fuel : nat) (src dst : list Z) : outcome (list Z) :=
  match fuel with
  | O => Undef
  | S fuel' =>
    match find_nonowned_cstr ALPHA_NUM src with
    | None => Undef
    | Some ptr =>
      let dst := dst ++ range src ptr in
      match ptr with
      | [] => Ret dst
      | ch :: _ =>
        let octets_count := get_octet_count ch in
        if octets_count =? 0 then Throw err_non_unicode
        else
          let* (_, dest) := utf8_char_to_wchar (ptr ++ [0]) octets_count in
          let dst :=
            if dest <? 0x10000 then dst ++ JS.add_unicode_symbol dest
            else dst ++ JS.add_unicode_symbol (0xD7C0 + Z.shiftr dest 10)
                     ++ JS.add_unicode_symbol (0xDC00 + Z.land dest 0x3FF) in
          if Z.of_nat (length ptr) <? octets_count then Undef
          else js_unicode_encode_loop fuel' (drop (Z.to_nat octets_count) ptr) dst
      end
    end
  end.

Definition js_unicode_encode (src : list Z) : outcome (list Z) :=
  match src with
  | [] => Ret []
  | _ => js_unicode_encode_loop (S (length src)) src []
  end.

(** ** [js_unicode_decode] *)

Definition err_js_broken : exn := InvalidFormatException "broken encoding in".

(** [for (int j = 2; j < 6; j++)]: [src] is at [i]. *)
Definition js_code (src : list Z) : outcome Z :=
  let* d2 := rd src 2 in
  let ch := hex_to_int d2 in
  let* d3 := rd src 3 in
  let ch := Z.lor (Z.shiftl ch 4) (hex_to_int d3) in
  let* d4 := rd src 4 in
  let ch := Z.lor (Z.shiftl ch 4) (hex_to_int d4) in
  let* d5 := rd src 5 in
  Ret (Z.lor (Z.shiftl ch 4) (hex_to_int d5)).

(** The character is not [special], or a [special] that begins no sequence. *)
Definition js_plain (strict : bool) (ch last_surrogate : Z) : outcome (list Z) :=
  let* s := if negb (last_surrogate =? 0) then JS.add_surrogate last_surrogate strict
            else Ret [] in
  Ret (s ++ [ch]).

(** A sequence with the code [ch]: what is appended to [dest] and the next
    [last_surrogate]. *)
Definition js_unit (strict : bool) (ch last_surrogate : Z) : outcome (list Z * Z) :=
  if negb (last_surrogate =? 0) then
    if (0xDC00 <=? ch) && (ch <? 0xE000) then
      let ch := Z.lor (Z.shiftl (last_surrogate - 0xD7C0) 10) (ch - 0xDC00) in
      let* s := JS.add_wchar ch strict in Ret (s, 0)
    else
      let* s1 := JS.add_surrogate last_surrogate strict in
      let* s2 := JS.add_wchar ch strict in Ret (s1 ++ s2, 0)
  else if (0xD700 <=? ch) && (ch <? 0xDC00) then Ret ([], ch)
  else if (0xDC00 <=? ch) && (ch <? 0xE000) then
    let* s := JS.add_surrogate ch strict in Ret (s, last_surrogate)
  else
    let* s := JS.add_wchar ch strict in Ret (s, last_surrogate).

Fixpoint js_unicode_decode_loop (fuel : nat) (strict : bool) (special : Z)
    (src : list Z) (last_surrogate : Z) (dest : list Z) : outcome (list Z) :=
  match fuel with
  | O => Undef
  | S fuel' =>
    match src with
    | [] =>
      if negb (last_surrogate =? 0) then
        let* s := JS.add_surrogate last_surrogate strict in Ret (dest ++ s)
      else Ret dest
    | ch :: src' =>
      let plain (_ : unit) :=
        let* s := js_plain strict ch last_surrogate in
        js_unicode_decode_loop fuel' strict special src' 0 (dest ++ s) in
      if ch =? special then
        if (5 <=? length src)%nat && bool_decide (src !! 1%nat = Some "u"%uchar) then
          let* code := js_code src in
          let* (s, last_surrogate) := js_unit strict code last_surrogate in
          js_unicode_decode_loop fuel' strict special (drop 6 src) last_surrogate (dest ++ s)
        else if strict then Throw err_js_broken
        else plain tt
      else plain tt
    end
  end.

(** The text is appended to what [dest] holds. *)
Definition js_unicode_decode (src dest : list Z) (strict : bool) (special : Z)
  : outcome (list Z) :=
  js_unicode_decode_loop (S (length src)) strict special src 0 dest.

(** ** [json_escape] *)

Definition JSON_REPL : list (list Z) :=
  map bytes ["\u0000"; "\u0001"; "\u0002"; "\u0003"; "\u0004"; "\u0005"; "\u0006"; "\u0007";
    "\b"; "\t"; "\n"; "\u000B"; "\f"; "\r"; "\u000E"; "\u000F";
    "\u0010"; "\u0011"; "\u0012"; "\u0013"; "\u0014"; "\u0015"; "\u0016"; "\u0017";
    "\u0018"; "\u0019"; "\u001A"; "\u001B"; "\u001C"; "\u001D"; "\u001E"; "\u001F"]%string ++
  [[]; []; ["\"%uchar; 34]].

(** [REPL[ch]], out of the table is no access. *)
Definition json_repl (ch : Z) : outcome (list Z) :=
  match JSON_REPL !! Z.to_nat ch with
  | Some s => Ret s
  | None => Undef
  end.

Fixpoint json_escape_loop (fuel : nat) (cur dest : list Z) : outcome (list Z) :=
  match fuel with
  | O => Undef
  | S fuel' =>
    let ptr := find_owned NON_JSON cur in
    let dest := dest ++ range cur ptr in
    match ptr with
    | [] => Ret dest
    | ch :: cur =>
      if ch =? "\"%uchar then json_escape_loop fuel' cur (dest ++ bytes "\\")
      else
        let* s := json_repl ch in
        json_escape_loop fuel' cur (dest ++ s)
    end
  end.

Definition json_escape (src : list Z) : outcome (list Z) :=
  json_escape_loop (S (length src)) src [].

(** ** [js_encode] *)

(** [src] is where the text not yet copied begins, [from] where the search
    goes on, at or after it. *)
Fixpoint js_encode_loop (fuel : nat) (src from dst : list Z) : outcome (list Z) :=
  match fuel with
  | O => Undef
  | S fuel' =>
    match find_owned_cstr NON_JS from with
    | None => Undef
    | Some ptr =>
      let dst := dst ++ range src ptr in
      match ptr with
      | [] => Ret dst
      | ch :: next =>
        if ch =? 0xE2 then
          let* p1 := rd (ptr ++ [0]) 1 in
          if p1 =? 0x80 then
            let* p2 := rd (ptr ++ [0]) 2 in
            if (p2 =? 0xA9) || (p2 =? 0xA8) then
              let buf := if p2 =? 0xA9 then bytes "\u2029" else bytes "\u2028" in
              js_encode_loop fuel' (drop 3 ptr) (drop 3 ptr) (dst ++ buf)
            else js_encode_loop fuel' ptr next dst
          else js_encode_loop fuel' ptr next dst
        else
          js_encode_loop fuel' next next
            (dst ++ bytes "\x" ++ [hex_digit (Z.land (Z.shiftr ch 4) 0x0F);
                                   hex_digit (Z.land ch 0x0F)])
      end
    end
  end.

Definition js_encode (src : list Z) : outcome (list Z) :=
  js_encode_loop (S (length src)) src src [].

Example js_samples :
  js_unicode_encode (bytes "a-" ++ [0xF0; 0x9F; 0x98; 0x80]) = Ret (bytes "a\u002D\uD83D\uDE00") /\
  js_unicode_decode (bytes "a\u002D\uD83D\uDE00") [] true "\"%uchar =
    Ret (bytes "a-" ++ [0xF0; 0x9F; 0x98; 0x80]) /\
  json_escape (bytes "a\b" ++ [10; 1; 34]) = Ret (bytes "a\\b\n\u0001\" ++ [34]) /\
  js_encode (bytes "<'" ++ [0xE2; 0x80; 0xA9; 0xE2; 0x82; 0xAC]) =
    Ret (bytes "\x3C\x27\u2029" ++ [0xE2; 0x82; 0xAC]).
Proof. repeat split; vm_compute; reflexivity. Qed.

(** ** Unicode sequences *)

Lemma js_code_unit v rest :
  0 <= v < 0x10000 -> js_code (JS.add_unicode_symbol v ++ rest) = Ret v.
Proof.
  intros Hv. unfold JS.add_unicode_symbol, js_code. change (bytes "\u") with ["\"%uchar; "u"%uchar].
  cbn [app rd lookup list_lookup obind].
  assert (Hd : forall x, Z.land x 0x0F = x mod 16) by exact (fun x => land_mask x 4 ltac:(lia)).
  rewrite !Hd, !Z.shiftr_div_pow2 by lia.
  change (2 ^ 12) with 4096. change (2 ^ 8) with 256. change (2 ^ 4) with 16.
  rewrite !hex_to_int_digit by zlia. f_equal.
  rewrite !shiftl_or by zlia. zlia.
Qed.

(** Decoding the sequence of one code unit. *)
Lemma decode_unit fuel strict v last rest dest :
  0 <= v < 0x10000 ->
  js_unicode_decode_loop (S fuel) strict "\"%uchar (JS.add_unicode_symbol v ++ rest) last dest =
  (let* (s, last) := js_unit strict v last in
   js_unicode_decode_loop fuel strict "\"%uchar rest last (dest ++ s)).
Proof.
  intros Hv. pose proof (js_code_unit v rest Hv) as Hc. revert Hc.
  unfold JS.add_unicode_symbol. change (bytes "\u") with ["\"%uchar; "u"%uchar].
  cbn [app]. intros Hc. cbn [js_unicode_decode_loop Z.eqb Pos.eqb length Nat.leb andb].
  rewrite (bool_decide_eq_true_2 (_ = Some "u"%uchar)) by done. rewrite Hc. done.
Qed.

(** The escaped form of one character. *)
Definition js_char (w : Z) : list Z :=
  if is_owned ALPHA_NUM w && (w <? 128) then [w]
  else if w <? 0x10000 then JS.add_unicode_symbol w
  else JS.add_unicode_symbol (0xD7C0 + Z.shiftr w 10) ++
       JS.add_unicode_symbol (0xDC00 + Z.land w 0x3FF).

(** The characters the decoder does not take for half of a pair. *)
Definition js_scalar (w : Z) : Prop := text_scalar w /\ ~ (0xD700 <= w < 0xD800).

#[export] Instance js_scalar_dec w : Decision (js_scalar w).
Proof. unfold js_scalar. apply _. Defined.

Lemma add_wchar_scalar w strict : 0 <= w < 0x200000 -> JS.add_wchar w strict = Ret (wchar_to_utf8 w).
Proof. intros Hw. unfold JS.add_wchar. rewrite wchar_to_utf8_char_eq by lia. by decide_Z. Qed.

Lemma decode_js_char fuel strict w rest dest :
  js_scalar w ->
  exists fuel', (2 + fuel <= fuel' + length (js_char w))%nat /\
  js_unicode_decode_loop (S (S fuel)) strict "\"%uchar (js_char w ++ rest) 0 dest =
  js_unicode_decode_loop fuel' strict "\"%uchar rest 0 (dest ++ wchar_to_utf8 w).
Proof.
  intros [[Hs H0] Hne]. unfold scalar in Hs. unfold js_char.
  destruct (is_owned ALPHA_NUM w && (w <? 128)) eqn:Ea; [|destruct (Z.ltb_spec w 0x10000)].
  - apply andb_true_iff in Ea as [Ea Hlt%Z.ltb_lt].
    assert (Hb : is_byte w) by (unfold is_byte; lia).
    assert (Hsp : negb (is_owned ALPHA_NUM w) || negb (w =? "\"%uchar) = true) by byte_eval w.
    rewrite Ea in Hsp. cbn [negb orb] in Hsp. apply negb_true_iff in Hsp.
    exists (S fuel). split; [simpl; lia|]. rewrite wchar_to_utf8_ascii by lia. cbn [app].
    by cbn [js_unicode_decode_loop]; rewrite Hsp.
  - exists (S fuel). split; [simpl; lia|]. rewrite decode_unit by lia. unfold js_unit.
    cbn [Z.eqb negb]. assert (He : forall lo hi, w < lo \/ hi <= w ->
      (lo <=? w) && (w <? hi) = false) by (intros lo hi Hlh; repeat case_Z; done || lia).
    rewrite !He by lia. by rewrite add_wchar_scalar by lia.
  - assert (Hhi : Z.shiftr w 10 = w / 1024) by (apply Z.shiftr_div_pow2; lia).
    assert (Hlo : Z.land w 0x3FF = w mod 1024) by exact (land_mask w 10 ltac:(lia)).
    rewrite Hhi, Hlo. exists fuel. split; [simpl; lia|]. rewrite <- app_assoc.
    rewrite decode_unit by zlia. unfold js_unit at 1. cbn [Z.eqb negb].
    assert (Hq : 64 <= w / 1024 < 1088) by zlia. pose proof (Z.mod_pos_bound w 1024 ltac:(lia)).
    decide_Z. cbn [andb obind]. rewrite app_nil_r, decode_unit by lia.
    unfold js_unit. decide_Z. cbn [negb andb obind].
    replace (0xD7C0 + w / 1024 - 0xD7C0) with (w / 1024) by lia.
    replace (0xDC00 + w mod 1024 - 0xDC00) with (w mod 1024) by lia.
    rewrite shiftl_or by lia. change (2 ^ 10) with 1024.
    replace (w / 1024 * 1024 + w mod 1024) with w by zlia.
    by rewrite add_wchar_scalar by lia.
Qed.

Lemma js_unicode_decode_chars strict ws : Forall js_scalar ws -> forall dest fuel,
  (length (concat (map js_char ws)) < fuel)%nat ->
  js_unicode_decode_loop fuel strict "\"%uchar (concat (map js_char ws)) 0 dest =
  Ret (dest ++ wchar_to_utf8_str ws).
Proof.
  induction 1 as [|w ws Hw Hws IH]; intros dest fuel Hf.
  { destruct fuel; [simpl in Hf; lia|]. cbn. by rewrite app_nil_r. }
  cbn [map concat wchar_to_utf8_str] in *. rewrite length_app in Hf.
  assert (Hl : (1 <= length (js_char w))%nat)
    by (unfold js_char; repeat case_match; simpl; lia).
  destruct fuel as [|[|fuel]]; [lia..|].
  destruct (decode_js_char fuel strict w (concat (map js_char ws)) dest Hw)
    as (fuel' & Hle & ->). rewrite IH by lia. by rewrite <- app_assoc.
Qed.

(** ** The encoder *)

Lemma find_nonowned_cstr_eq ptr :
  find_nonowned_cstr ALPHA_NUM ptr = Some (find_nonowned ALPHA_NUM ptr).
Proof.
  induction ptr as [|c ptr IH]; [done|]. cbn [find_nonowned_cstr find_nonowned].
  destruct (is_owned ALPHA_NUM c); done.
Qed.

Lemma encode_alnum fuel c src dst :
  is_owned ALPHA_NUM c = true ->
  js_unicode_encode_loop (S fuel) (c :: src) dst =
  js_unicode_encode_loop (S fuel) src (dst ++ [c]).
Proof.
  intros Hc. cbn [js_unicode_encode_loop]. rewrite !find_nonowned_cstr_eq.
  cbn [find_nonowned]. rewrite Hc. cbn [negb].
  destruct (find_nonowned_split ALPHA_NUM src) as (pre & Hs & _). revert Hs.
  generalize (find_nonowned ALPHA_NUM src). intros ptr ->.
  rewrite app_comm_cons, !range_app, <- app_assoc. done.
Qed.

Lemma encode_js_char fuel w src dst :
  text_scalar w ->
  js_unicode_encode_loop (S fuel) (wchar_to_utf8 w ++ src) dst =
  js_unicode_encode_loop (if is_owned ALPHA_NUM w && (w <? 128) then S fuel else fuel)
    src (dst ++ js_char w).
Proof.
  intros Hw%text_scalar_range. unfold js_char.
  destruct (is_owned ALPHA_NUM w && (w <? 128)) eqn:Ea.
  { apply andb_true_iff in Ea as [Ea Hlt%Z.ltb_lt].
    rewrite wchar_to_utf8_ascii by lia. by apply encode_alnum. }
  destruct (wchar_to_utf8_decode w (src ++ [0]) ltac:(lia)) as (h & t & E & Hb & Hn & Hd).
  assert (Hh : is_owned ALPHA_NUM h = false).
  { destruct (Z.ltb_spec w 128).
    - rewrite wchar_to_utf8_ascii in E by lia. injection E as <- _.
      by rewrite andb_true_r in Ea.
    - destruct (wchar_to_utf8_high w ltac:(lia)) as [Hf _]. rewrite E in Hf.
      inversion_clear Hf. assert (Hx : (h <? 128) || negb (is_owned ALPHA_NUM h) = true)
        by byte_eval h. revert Hx. decide_Z. by destruct (is_owned ALPHA_NUM h). }
  cbn [js_unicode_encode_loop]. rewrite find_nonowned_cstr_eq, E. cbn [app find_nonowned].
  rewrite Hh. cbn [negb]. rewrite range_self, app_nil_r, Hn.
  rewrite E in Hd. cbn [app] in Hd. rewrite E. cbn [length app]. rewrite <- app_assoc.
  decide_Z. cbn [length] in Hd. rewrite Hd. cbn [obind]. rewrite length_app. decide_Z.
  rewrite Nat2Z.id. cbn [drop]. rewrite drop_app_length. by destruct (w <? 0x10000).
Qed.

Lemma js_unicode_encode_chars ws : Forall text_scalar ws -> forall fuel dst,
  (length ws < fuel)%nat ->
  js_unicode_encode_loop fuel (wchar_to_utf8_str ws) dst =
  Ret (dst ++ concat (map js_char ws)).
Proof.
  induction 1 as [|w ws Hw _ IH]; intros fuel dst Hf.
  { destruct fuel; [simpl in Hf; lia|done]. }
  destruct fuel as [|fuel]; [lia|]. cbn [wchar_to_utf8_str map concat length] in *.
  rewrite encode_js_char by done.
  rewrite IH, <- app_assoc; [done|]. case_match; lia.
Qed.

(** ** JSON strings *)

(** The text between the quotes of a JSON string (RFC 8259, section 7) and
    the characters it denotes, outside the surrogate range. *)
Definition json_simple (e : Z) : option Z :=
  if e =? 34 then Some 34
  else if e =? "\"%uchar then Some "\"%uchar
  else if e =? "/"%uchar then Some "/"%uchar
  else if e =? "b"%uchar then Some 8
  else if e =? "f"%uchar then Some 12
  else if e =? "n"%uchar then Some 10
  else if e =? "r"%uchar then Some 13
  else if e =? "t"%uchar then Some 9
  else None.

Fixpoint json_unescape (s : list Z) : option (list Z) :=
  match s with
  | [] => Some []
  | c :: s1 =>
    if (c <? 0x20) || (c =? 34) then None
    else if c =? "\"%uchar then
      match s1 with
      | [] => None
      | e :: s2 =>
        match json_simple e with
        | Some d => cons d <$> json_unescape s2
        | None =>
          if e =? "u"%uchar then
            match s2 with
            | d1 :: d2 :: d3 :: d4 :: s3 =>
              if forallb (is_owned HEX_NUMBER) [d1; d2; d3; d4] then
                app (wchar_to_utf8 (fold_left (fun v d => v * 16 + hex_to_int d) [d1; d2; d3; d4] 0))
                  <$> json_unescape s3
              else None
            | _ => None
            end
          else None
        end
      end
    else cons c <$> json_unescape s1
  end.

Definition json_char (ch : Z) : list Z :=
  if ch =? "\"%uchar then bytes "\\"
  else if is_owned NON_JSON ch then default [] (JSON_REPL !! Z.to_nat ch)
  else [ch].

Lemma NON_JSON_spec b :
  is_byte b -> is_owned NON_JSON b = (b <? 0x20) || (b =? 34) || (b =? "\"%uchar).
Proof. intros Hb. apply eqb_prop. byte_eval b. Qed.

Lemma json_repl_char ch :
  is_byte ch -> is_owned NON_JSON ch = true -> ch <> "\"%uchar -> json_repl ch = Ret (json_char ch).
Proof.
  intros Hb Ho Hn. unfold json_repl, json_char. destruct (Z.eqb_spec ch "\"%uchar); [done|].
  rewrite Ho. rewrite NON_JSON_spec in Ho by done. unfold is_byte in Hb.
  destruct (lookup_lt_is_Some_2 JSON_REPL (Z.to_nat ch)) as [s Hs]; [|by rewrite Hs].
  change (length JSON_REPL) with 35%nat. revert Ho. repeat case_Z; done || lia.
Qed.

Lemma json_char_plain pre :
  Forall (fun c => is_owned NON_JSON c = false) pre -> concat (map json_char pre) = pre.
Proof.
  induction 1 as [|c pre Hc _ IH]; [done|]. cbn [map concat]. rewrite IH.
  unfold json_char. rewrite Hc. destruct (Z.eqb_spec c "\"%uchar) as [->|]; [|done].
  by vm_compute in Hc.
Qed.

Lemma json_escape_loop_spec : forall fuel cur dest,
  bytes_ok cur -> (length cur < fuel)%nat ->
  json_escape_loop fuel cur dest = Ret (dest ++ concat (map json_char cur)).
Proof.
  induction fuel as [|fuel IH]; intros cur dest Hb Hf; [lia|]. cbn [json_escape_loop].
  destruct (find_owned_split NON_JSON cur) as (pre & Hs & Hp & Hh).
  revert Hs Hh. generalize (find_owned NON_JSON cur) as ptr. intros ptr Hs Hh.
  subst cur. rewrite range_app, map_app, concat_app, json_char_plain by done.
  apply Forall_app in Hb as [_ Hb]. rewrite length_app in Hf.
  destruct ptr as [|ch cur]; [by rewrite app_nil_r|]. cbn [length] in Hf.
  specialize (Hh _ _ eq_refl). inversion_clear Hb. cbn [map concat].
  destruct (Z.eqb_spec ch "\"%uchar) as [->|].
  - rewrite IH by (done || lia). by rewrite <- !app_assoc.
  - rewrite json_repl_char by done. cbn [obind].
    rewrite IH by (done || lia). by rewrite <- !app_assoc.
Qed.

Lemma json_unescape_char ch rest :
  is_byte ch -> json_unescape (json_char ch ++ rest) = cons ch <$> json_unescape rest.
Proof.
  intros Hb. destruct (is_owned NON_JSON ch) eqn:Eo.
  - assert (Hall : Forall (fun c => json_unescape (json_char c ++ rest) =
      cons c <$> json_unescape rest) (34 :: "\"%uchar :: all_below 32)).
    { let l := eval vm_compute in (all_below 32) in change (all_below 32) with l.
      repeat (constructor; [reflexivity|]). constructor. }
    rewrite Forall_forall in Hall. apply Hall. apply list_elem_of_In.
    rewrite NON_JSON_spec in Eo by done. unfold is_byte in Hb.
    rewrite !orb_true_iff, Z.ltb_lt, !Z.eqb_eq in Eo.
    destruct Eo as [[Eo | ->] | ->]; [do 2 right; apply in_all_below; lia|by left|by right; left].
  - unfold json_char. rewrite Eo. rewrite NON_JSON_spec in Eo by done.
    apply orb_false_iff in Eo as [E1 E2]. rewrite E2. cbn [app json_unescape].
    by rewrite E1, E2.
Qed.

(** ** [js_encode] against its specification *)

Definition js_hex (ch : Z) : list Z :=
  bytes "\x" ++ [hex_digit (Z.land (Z.shiftr ch 4) 0x0F); hex_digit (Z.land ch 0x0F)].

(** The line separators U+2028 and U+2029 and the characters of [NON_JS] are
    escaped, all others are kept. *)
Fixpoint js_spec (s : list Z) : list Z :=
  match s with
  | [] => []
  | ch :: s1 =>
    if ch =? 0xE2 then
      match s1 with
      | p1 :: p2 :: s2 =>
        if (p1 =? 0x80) && (p2 =? 0xA9) then bytes "\u2029" ++ js_spec s2
        else if (p1 =? 0x80) && (p2 =? 0xA8) then bytes "\u2028" ++ js_spec s2
        else ch :: js_spec s1
      | _ => ch :: js_spec s1
      end
    else if is_owned NON_JS ch then js_hex ch ++ js_spec s1
    else ch :: js_spec s1
  end.

Lemma js_spec_plain pre s :
  Forall (fun c => is_owned NON_JS c = false) pre -> js_spec (pre ++ s) = pre ++ js_spec s.
Proof.
  induction 1 as [|c pre Hc _ IH]; [done|]. cbn [app js_spec]. rewrite Hc, IH.
  destruct (Z.eqb_spec c 0xE2) as [->|]; [by vm_compute in Hc|done].
Qed.

Lemma find_owned_cstr_eq from : find_owned_cstr NON_JS from = Some (find_owned NON_JS from).
Proof.
  induction from as [|c from IH]; [done|]. cbn [find_owned_cstr find_owned].
  destruct (is_owned NON_JS c); done.
Qed.

Lemma js_encode_loop_spec : forall fuel pre from dst,
  (length from < fuel)%nat ->
  js_encode_loop fuel (pre ++ from) from dst = Ret (dst ++ pre ++ js_spec from).
Proof.
  induction fuel as [|fuel IH]; intros pre from dst Hf; [lia|]. cbn [js_encode_loop].
  rewrite find_owned_cstr_eq.
  destruct (find_owned_split NON_JS from) as (q & Hs & Hp & Hh).
  revert Hs Hh. generalize (find_owned NON_JS from) as ptr. intros ptr Hs Hh. subst from.
  rewrite app_assoc, range_app, js_spec_plain by done. rewrite length_app in Hf.
  destruct ptr as [|ch next]; [by rewrite !app_nil_r|]. cbn [length] in Hf.
  specialize (Hh _ _ eq_refl). cbn [js_spec].
  assert (Hkeep : js_encode_loop fuel (ch :: next) next (dst ++ pre ++ q) =
    Ret (dst ++ pre ++ q ++ ch :: js_spec next)).
  { pose proof (IH [ch] next (dst ++ pre ++ q) ltac:(lia)) as Hk. cbn [app] in Hk.
    rewrite Hk. by rewrite <- !app_assoc. }
  assert (Hesc : forall s buf, (length s <= length next)%nat ->
    js_encode_loop fuel s s ((dst ++ pre ++ q) ++ buf) = Ret (dst ++ pre ++ q ++ buf ++ js_spec s)).
  { intros s buf Hl. pose proof (IH [] s ((dst ++ pre ++ q) ++ buf) ltac:(lia)) as Hk.
    cbn [app] in Hk. rewrite Hk. by rewrite <- !app_assoc. }
  destruct (ch =? 0xE2); [|rewrite Hh; by apply Hesc].
  destruct next as [|p1 [|p2 s2]]; cbn [app rd lookup list_lookup obind]; [done| |].
  { by destruct (p1 =? 0x80). }
  destruct (p1 =? 0x80); [|done]. cbn [andb]. destruct (p2 =? 0xA9); cbn [orb].
  { cbn [drop]. rewrite drop_0. apply Hesc. simpl. lia. }
  destruct (p2 =? 0xA8); [|done]. cbn [drop]. rewrite drop_0. apply Hesc. simpl. lia.
Qed.

(** A character that cannot end a string literal, a line or a script. *)
Definition js_safe (c : Z) : Prop := c ∉ 34 :: 10 :: 13 :: bytes "'/<>".

#[export] Instance js_safe_dec c : Decision (js_safe c).
Proof. unfold js_safe. apply _. Defined.

Lemma js_hex_safe ch : Forall js_safe (js_hex ch).
Proof.
  assert (Hd : forall x, js_safe (hex_digit (Z.land x 0x0F))).
  { intros x. change 0x0F with (Z.ones 4). rewrite land_mask by lia.
    pose proof (Z.mod_pos_bound x (2 ^ 4) ltac:(lia)) as Hm. revert Hm.
    generalize (x mod 2 ^ 4). intros d Hd. apply (bool_decide_eq_true_1 _).
    revert d Hd. by apply (forall_below 16 (fun d => bool_decide (js_safe (hex_digit d)))). }
  unfold js_hex. apply Forall_app. split; [by_eval|]. repeat constructor; apply Hd.
Qed.

Lemma js_spec_safe : forall n src, (length src <= n)%nat -> Forall js_safe (js_spec src).
Proof.
  induction n as [|n IH]; intros [|ch s1] Hl; try (constructor || (simpl in Hl; lia)).
  cbn [length js_spec] in *.
  assert (Hk : ch = 0xE2 \/ is_owned NON_JS ch = false -> Forall js_safe (ch :: js_spec s1)).
  { intros Hc. constructor; [|apply IH; lia].
    intros Hin%list_elem_of_In. repeat (destruct Hin as [<-|Hin]; [by destruct Hc as [Hc|Hc]; vm_compute in Hc|]).
    done. }
  destruct (Z.eqb_spec ch 0xE2) as [He|He].
  - destruct s1 as [|p1 [|p2 s2]]; [auto..|]. cbn [length] in Hl.
    assert (Hs2 : Forall js_safe (js_spec s2)) by (apply IH; lia).
    destruct (_ && _); [|destruct (_ && _); [|auto]]; apply Forall_app;
      (split; [by_eval|done]).
  - destruct (is_owned NON_JS ch); [|auto]. apply Forall_app.
    split; [apply js_hex_safe|apply IH; lia].
Qed.

(** ** Properties *)

(** The escapes [js_unicode_encode] writes for a text are read back by
    [js_unicode_decode], strict or not, as the same text: all scalar values
    except U+D700 to U+D7FF, those above U+FFFF as pairs. *)
Theorem js_unicode_roundtrip (ws dest : list Z) (strict : bool) :
  Forall js_scalar ws ->
  exists enc, js_unicode_encode (wchar_to_utf8_str ws) = Ret enc /\
    js_unicode_decode enc dest strict "\"%uchar = Ret (dest ++ wchar_to_utf8_str ws).
Proof.
  intros Hws. exists (concat (map js_char ws)).
  assert (Ht : Forall text_scalar ws) by (eapply Forall_impl; [exact Hws|]; by intros w []).
  split; [|apply js_unicode_decode_chars; [done|lia]].
  pose proof (js_unicode_encode_chars ws Ht (S (length (wchar_to_utf8_str ws))) []) as H.
  pose proof (length_utf8_str ws Ht). cbn [app] in H.
  rewrite <- H by lia. unfold js_unicode_encode. by destruct (wchar_to_utf8_str ws).
Qed.

Lemma js_unicode_roundtrip_witness :
  exists enc, js_unicode_encode (wchar_to_utf8_str [0x61; 0x22; 0x20AC; 0x1F600]) = Ret enc /\
    js_unicode_decode enc [] true "\"%uchar =
    Ret ([] ++ wchar_to_utf8_str [0x61; 0x22; 0x20AC; 0x1F600]).
Proof. apply js_unicode_roundtrip. by_eval. Defined.

(** U+D700, which is not a surrogate, is taken for the first half of a
    pair: the decoder rejects what the encoder wrote for it, and drops the
    pairing of a character that follows. *)
Theorem js_surrogate_range :
  js_unicode_encode (wchar_to_utf8 0xD700) = Ret (bytes "\uD700") /\
  js_unicode_decode (bytes "\uD700") [] true "\"%uchar = Throw JS.err_unpaired /\
  js_unicode_decode (bytes "\uD700\uDC00") [] true "\"%uchar = Throw JS.err_symbol /\
  js_unicode_decode (bytes "\u004") [] true "\"%uchar = Undef.
Proof. repeat split; vm_compute; reflexivity. Qed.

(** [json_escape] returns, for every string, the body of a JSON string
    that denotes it. *)
Theorem json_escape_correct (src : list Z) :
  bytes_ok src ->
  exists enc, json_escape src = Ret enc /\ json_unescape enc = Some src.
Proof.
  intros Hb. exists (concat (map json_char src)).
  split; [apply json_escape_loop_spec; [done|lia]|].
  induction Hb as [|ch src Hch _ IH]; [done|]. cbn [map concat].
  by rewrite json_unescape_char, IH.
Qed.

Lemma json_escape_correct_witness :
  exists enc, json_escape ([0; 8; 34; 0x5C; 0x1F] ++ bytes "text") = Ret enc /\
    json_unescape enc = Some ([0; 8; 34; 0x5C; 0x1F] ++ bytes "text").
Proof. apply json_escape_correct. by_eval. Defined.

(** [js_encode] terminates, reads nothing past the end of its string and
    returns the specified text, in which no quote, slash, angle bracket or line
    break is left. *)
Theorem js_encode_correct (src : list Z) :
  js_encode src = Ret (js_spec src) /\ Forall js_safe (js_spec src).
Proof.
  split; [|by apply (js_spec_safe (length src))].
  apply (js_encode_loop_spec _ []). lia.
Qed.
