(* ===== verification/TextOps.v ===== *)
(** * TextOps: operations on plain strings

    Models [csv_encode], [trim], [mark], [replace], [hex_encode], [hex_decode]
    and the class [Translit] of [src/String/StringManip.cpp], and [strlcpy] and
    [strlcat] of [src/String/StringManip.ipp].  A zero-terminated source is the
    list of its characters without the zero; [None] is the null pointer. *)
From S2P Require Import Prelude AsciiManip.
Local Open Scope Z_scope.
Local Open Scope outcome_scope.

(** ** [csv_encode] *)

Definition QUOTE : Z := 34.

Definition C_NON_CSV : CharTable := CharTable_of_str ([","%uchar; QUOTE; 10; 13]) false.
Definition PC_NON_CSV : CharTable := CharTable_of_str ([";"%uchar; QUOTE; 10; 13]) false.

(** [ptr] runs over the text, [src] is where the part not yet copied begins. *)
Fixpoint csv_loop (src ptr dest : list Z) : list Z :=
  match ptr with
  | [] => match src with [] => dest | _ => dest ++ range src ptr end
  | ch :: ptr' =>
    if ch =? QUOTE then csv_loop ptr' ptr' (dest ++ range src ptr ++ [QUOTE; QUOTE])
    else csv_loop src ptr' dest
  end.

Definition csv_encode (src : option (list Z)) (separator : Z) : list Z :=
  match src with
  | None => []
  | Some src =>
    let non_csv :=
      if separator =? ","%uchar then C_NON_CSV
      else if separator =? ";"%uchar then PC_NON_CSV
      else CharTable_of_str [separator; QUOTE; 10; 13] false in
    match find_owned_cstr non_csv src with
    | None => src
    | Some _ => csv_loop src src [QUOTE] ++ [QUOTE]
    end
  end.

(** ** [trim] *)

(** The loop that moves [end] back, over the reversed text before it. *)
Fixpoint trim_end {P} `{CharPredicate P} (trim_set : P) (rev_str : list Z) : outcome (list Z) :=
  match rev_str with
  | [] => Undef
  | ch :: rev_str' =>
    if is_owned trim_set ch then trim_end trim_set rev_str' else Ret rev_str
  end.

Definition trim {P} `{CharPredicate P} (str : list Z) (trim_set : P) : outcome (list Z) :=
  match find_nonowned trim_set str with
  | [] => Ret []
  | begin_ =>
    let* rev_str := trim_end trim_set (rev str) in
    let end_ := length rev_str in
    Ret (drop (length str - length begin_) (take end_ str))
  end.

(** ** [mark] *)

Fixpoint mark_loop {P} `{CharPredicate P} (fuel : nat) (predicate : P) (marker : Z)
    (src dest : list Z) : outcome (list Z) :=
  match fuel with
  | O => Undef
  | S fuel' =>
    match find_owned_cstr predicate src with
    | None => Ret (dest ++ src)
    | Some ptr =>
      let dest := dest ++ range src ptr in
      match ptr with
      | [] => Ret (dest ++ [marker; 0])
      | ch :: src => mark_loop fuel' predicate marker src (dest ++ [marker; ch])
      end
    end
  end.

Definition mark {P} `{CharPredicate P} (src : option (list Z)) (predicate : P) (marker : Z)
  : outcome (list Z) :=
  match src with
  | None => Ret []
  | Some src => mark_loop (S (length src)) predicate marker src []
  end.

(** ** [replace] *)

Fixpoint starts_with (sub str : list Z) : bool :=
  match sub, str with
  | [], _ => true
  | a :: sub', b :: str' => (a =? b) && starts_with sub' str'
  | _ :: _, [] => false
  end.

(** [std::search] for a sequence that is not empty. *)
Fixpoint search (sub str : list Z) : option (list Z) :=
  match str with
  | [] => None
  | _ :: str' => if starts_with sub str then Some str else search sub str'
  end.

(** [SubString::find] of a substring that is not empty, at [pos], given as the
    rest of the string from there. *)
Definition SubString_find (pos sub : list Z) : option (list Z) :=
  if (length pos <? length sub)%nat then None else search sub pos.

Fixpoint replace_loop (fuel : nat) (to_find to_replace last dest : list Z)
  : outcome (list Z) :=
  match fuel with
  | O => Undef
  | S fuel' =>
    match SubString_find last to_find with
    | None => Ret (dest ++ last)
    | Some pos =>
      replace_loop fuel' to_find to_replace (drop (length to_find) pos)
        (dest ++ range last pos ++ to_replace)
    end
  end.

Definition replace (str to_find to_replace : list Z) : outcome (list Z) :=
  match to_find with
  | [] => Ret str
  | _ => replace_loop (S (length str)) to_find to_replace str []
  end.

(** ** [hex_encode], [hex_decode] *)

(** [while (!*data)]; [None] when only zeros were there. *)
Fixpoint skip_zero_bytes (data : list Z) : option (list Z) :=
  match data with
  | [] => None
  | d :: data' => if d =? 0 then skip_zero_bytes data' else Some data
  end.

Fixpoint hex_encode_loop (data : list Z) : list Z :=
  match data with
  | [] => []
  | d :: data' =>
    hex_digit (Z.shiftr d 4) :: hex_digit (Z.land d 0xF) :: hex_encode_loop data'
  end.

Definition hex_encode (data : list Z) (skip_leading_zeroes : bool) : list Z :=
  match data with
  | [] => []
  | _ =>
    match if skip_leading_zeroes then skip_zero_bytes data else Some data with
    | None => ["0"%uchar]
    | Some data =>
      match data with
      | d :: data' =>
        if skip_leading_zeroes && (Z.land d 0xF0 =? 0)
        then hex_digit d :: hex_encode_loop data'
        else hex_encode_loop data
      | [] => []
      end
    end
  end.

Definition err_odd : exn := InvalidFormatException "odd length of hex string".

Definition hex_decode (src : list Z) (allow_odd_string : bool) : outcome (list Z) :=
  let odd_string := Nat.odd (length src) in
  if odd_string && negb allow_odd_string then Throw err_odd
  else if odd_string then
    match src with
    | [] => Undef
    | s0 :: src => let* data := hex_to_buf src in Ret (hex_to_int s0 :: data)
    end
  else hex_to_buf src.

(** ** [Translit] *)

(** [invalid[i]] for [i] from the number of characters before [invalid]. *)
Fixpoint Translit_loop (i : nat) (invalid valid replacement_ : list Z) : list Z :=
  match invalid with
  | [] => replacement_
  | ch :: invalid' =>
    Translit_loop (S i) invalid' valid
      (<[Z.to_nat ch := nth (i mod length valid) valid 0]> replacement_)
  end.

(** The constructor; the result is [replacement_]. *)
Definition Translit (invalid valid : option (list Z)) : list Z :=
  let replacement_ := all_below 256 in
  match invalid, valid with
  | Some invalid, Some valid =>
    match valid with
    | [] => replacement_
    | _ => Translit_loop 0 invalid valid replacement_
    end
  | _, _ => replacement_
  end.

(** The four overloads differ in where the text is read from and written to. *)
Fixpoint translit (replacement_ src : list Z) : list Z :=
  match src with
  | [] => []
  | ch :: src' => tab 0 replacement_ ch :: translit replacement_ src'
  end.

(** ** [strlcpy], [strlcat]

    [dst] is the whole destination buffer and [size] the size the caller gives,
    [src] the text before its zero.  The result is the buffer and the length. *)

(** [while (--size)]: [n] is [size] after the decrement, [at_] where [dst]
    points; [inl] is the early return. *)
Fixpoint strlcpy_loop (n : nat) (dst : list Z) (at_ : nat) (src : list Z)
  : outcome (list Z + list Z * nat * list Z) :=
  match n with
  | O => Ret (inr (dst, at_, src))
  | S n' =>
    if (at_ <? length dst)%nat then
      match src with
      | [] => Ret (inl (<[at_ := 0]> dst))
      | ch :: src' => strlcpy_loop n' (<[at_ := ch]> dst) (S at_) src'
      end
    else Undef
  end.

(** The common end of both functions, [dst] at [at_]. *)
Definition copy_rest (dst : list Z) (at_ : nat) (src : list Z) (size : nat) : outcome (list Z) :=
  match size with
  | O => Ret dst
  | S n =>
    let* r := strlcpy_loop n dst at_ src in
    match r with
    | inl dst => Ret dst
    | inr (dst, at_, _) =>
      if (at_ <? length dst)%nat then Ret (<[at_ := 0]> dst) else Undef
    end
  end.

Definition strlcpy (dst src : list Z) (size : nat) : outcome (list Z * nat) :=
  let* dst := copy_rest dst 0 src size in Ret (dst, length src).

(** [while (size-- && *dst)]: where [dst] ends up and what is left of [size]. *)
Fixpoint strlcat_end (dst : list Z) (at_ size : nat) : outcome (nat * nat) :=
  match size with
  | O => Ret (at_, O)
  | S size' =>
    match dst !! at_ with
    | None => Undef
    | Some ch => if ch =? 0 then Ret (at_, size) else strlcat_end dst (S at_) size'
    end
  end.

Definition strlcat (dst src : list Z) (size : nat) : outcome (list Z * nat) :=
  let* (at_, left_) := strlcat_end dst 0 size in
  let dst_len := (size - left_)%nat in
  let* dst := copy_rest dst at_ src left_ in
  Ret (dst, length src + dst_len)%nat.

Example text_samples :
  csv_encode (Some (bytes "a," ++ [34])) ","%uchar = [34] ++ bytes "a," ++ [34; 34; 34] /\
  trim (bytes "  a b ") (CharTable_of_str (bytes " ") false) = Ret (bytes "a b") /\
  mark (Some (bytes "a.b")) (CharTable_of_str (bytes ".") false) "\"%uchar = Ret (bytes "a\.b") /\
  replace (bytes "abcabc") (bytes "bc") (bytes "X") = Ret (bytes "aXaX") /\
  hex_encode [0; 5; 255] true = bytes "5FF" /\ hex_decode (bytes "5FF") true = Ret [5; 255] /\
  translit (Translit (Some (bytes "abc")) (Some (bytes "xy"))) (bytes "cabd") = bytes "xxyd" /\
  strlcpy (bytes "12345") (bytes "abcdef") 4 = Ret (bytes "abc" ++ [0] ++ bytes "5", 6%nat) /\
  strlcat (bytes "12" ++ [0; 9; 9]) (bytes "abcdef") 5 = Ret (bytes "12ab" ++ [0], 8%nat).
Proof. repeat split; vm_compute; reflexivity. Qed.

(** ** Fields of a CSV record *)

(** Reading one field (RFC 4180): its value and the rest of the record. *)
Fixpoint csv_quoted (s : list Z) : option (list Z * list Z) :=
  match s with
  | [] => None
  | c :: s1 =>
    if c =? QUOTE then
      match s1 with
      | q :: s2 =>
        if q =? QUOTE then (fun '(v, r) => (QUOTE :: v, r)) <$> csv_quoted s2
        else Some ([], s1)
      | [] => Some ([], [])
      end
    else (fun '(v, r) => (c :: v, r)) <$> csv_quoted s1
  end.

(** What ends a field. *)
Definition csv_end (sep c : Z) : bool := (c =? sep) || (c =? 10) || (c =? 13).

Fixpoint csv_raw (sep : Z) (s : list Z) : list Z * list Z :=
  match s with
  | [] => ([], [])
  | c :: s1 => if csv_end sep c then ([], s) else let '(v, r) := csv_raw sep s1 in (c :: v, r)
  end.

Definition csv_field (sep : Z) (s : list Z) : option (list Z * list Z) :=
  match s with
  | c :: s1 => if c =? QUOTE then csv_quoted s1 else Some (csv_raw sep s)
  | [] => Some ([], [])
  end.

Definition double_quotes (s : list Z) : list Z :=
  concat (map (fun c => if c =? QUOTE then [QUOTE; QUOTE] else [c]) s).

Lemma csv_loop_spec : forall ptr pre dest,
  csv_loop (pre ++ ptr) ptr dest = dest ++ pre ++ double_quotes ptr.
Proof.
  unfold double_quotes.
  induction ptr as [|c ptr IH]; intros pre dest; cbn [csv_loop map concat].
  { rewrite !app_nil_r, range_nil. destruct pre; [by rewrite app_nil_r|done]. }
  destruct (Z.eqb_spec c QUOTE) as [->|].
  - pose proof (IH [] (dest ++ range (pre ++ QUOTE :: ptr) (QUOTE :: ptr) ++ [QUOTE; QUOTE])) as H.
    cbn [app] in H. rewrite H, range_app. by rewrite <- !app_assoc.
  - pose proof (IH (pre ++ [c]) dest) as H. rewrite <- !app_assoc in H. exact H.
Qed.

Lemma csv_quoted_double s tail :
  (forall t, tail <> QUOTE :: t) -> csv_quoted (double_quotes s ++ QUOTE :: tail) = Some (s, tail).
Proof.
  intros Ht. unfold double_quotes. induction s as [|c s IH]; cbn [map concat app].
  - cbn [csv_quoted]. rewrite Z.eqb_refl. destruct tail as [|t tail]; [done|].
    destruct (Z.eqb_spec t QUOTE) as [->|]; [by destruct (Ht tail)|done].
  - destruct (Z.eqb_spec c QUOTE) as [->|Hc]; cbn [app csv_quoted].
    + by rewrite !Z.eqb_refl, IH.
    + by rewrite (proj2 (Z.eqb_neq _ _) Hc), IH.
Qed.

Lemma csv_raw_spec sep src tail :
  Forall (fun c => csv_end sep c = false) src ->
  (forall c t, tail = c :: t -> csv_end sep c = true) ->
  csv_raw sep (src ++ tail) = (src, tail).
Proof.
  intros Hs Ht. induction Hs as [|c src Hc _ IH]; cbn [app csv_raw].
  - destruct tail as [|c t]; [done|]. cbn [csv_raw]. by rewrite (Ht c t).
  - by rewrite Hc, IH.
Qed.

(** The characters for which a field is quoted. *)
Lemma non_csv_spec sep b :
  0 < sep < 256 -> is_byte b ->
  is_owned (if sep =? ","%uchar then C_NON_CSV
            else if sep =? ";"%uchar then PC_NON_CSV
            else CharTable_of_str [sep; QUOTE; 10; 13] false) b = csv_end sep b || (b =? QUOTE).
Proof.
  intros Hs Hb.
  transitivity (is_owned (CharTable_of_str [sep; QUOTE; 10; 13] false) b).
  { destruct (Z.eqb_spec sep ","%uchar) as [->|]; [reflexivity|].
    destruct (Z.eqb_spec sep ";"%uchar) as [->|]; reflexivity. }
  rewrite CharTable_of_str_owned by
    (done || (repeat constructor; unfold is_cchar, QUOTE; simpl; lia)).
  rewrite orb_false_r. cbn [spans]. rewrite andb_false_r. cbn [existsb spans andb Z.eqb Pos.eqb QUOTE].
  rewrite !in_span_single by (unfold is_byte, QUOTE in *; lia). unfold csv_end.
  destruct (b =? sep), (b =? 10), (b =? 13), (b =? QUOTE); done.
Qed.

Lemma find_owned_cstr_none {P} `{CharPredicate P} (c : P) str :
  find_owned_cstr c str = None -> Forall (fun x => is_owned c x = false) str.
Proof.
  induction str as [|x str IH]; intros Hf; [constructor|]. cbn in Hf.
  destruct (is_owned c x) eqn:E; [done|]. constructor; [done|]. by apply IH.
Qed.

(** ** [trim] *)

Lemma trim_end_spec {P} `{CharPredicate P} (c : P) : forall post r x,
  Forall (fun y => is_owned c y = true) post -> is_owned c x = false ->
  trim_end c (post ++ x :: r) = Ret (x :: r).
Proof.
  intros post r x Hp Hx. induction Hp as [|y post Hy _ IH]; cbn [app trim_end].
  - by rewrite Hx.
  - by rewrite Hy.
Qed.

(** Every text is its longest owned prefix and a rest. *)
Lemma owned_prefix {P} `{CharPredicate P} (c : P) str :
  exists pre rest, str = pre ++ rest /\ Forall (fun y => is_owned c y = true) pre /\
    match rest with [] => True | x :: _ => is_owned c x = false end.
Proof.
  destruct (find_nonowned_split c str) as (pre & Hs & Hp & Hh).
  exists pre, (find_nonowned c str). split; [done|]. split; [done|].
  destruct (find_nonowned c str) as [|x t]; [done|]. by apply (Hh x t).
Qed.

(** ** [replace] *)

Lemma starts_with_spec sub str : starts_with sub str = true <-> exists t, str = sub ++ t.
Proof.
  revert str. induction sub as [|a sub IH]; intros str; cbn [starts_with].
  - split; [by exists str|done].
  - destruct str as [|b str]; [split; [done|by intros [t ?]]|].
    rewrite andb_true_iff, Z.eqb_eq, IH. split.
    + intros [-> [t ->]]. by exists t.
    + intros [t Ht]. injection Ht as -> ->. split; [done|]. by exists t.
Qed.

Definition occurs (sub str : list Z) : Prop := exists a b, str = a ++ sub ++ b.

(** [search] finds the first occurrence. *)
Lemma search_spec sub str : sub <> [] ->
  match search sub str with
  | None => ~ occurs sub str
  | Some q => exists p t, str = p ++ q /\ q = sub ++ t /\
      forall a b, p ++ sub = a ++ sub ++ b -> b = []
  end.
Proof.
  intros Hn. induction str as [|c str IH]; cbn [search].
  { intros (a & b & E). destruct sub; [done|]. by destruct a. }
  destruct (starts_with sub (c :: str)) eqn:Es.
  - apply starts_with_spec in Es as [t Et]. exists [], t. split; [done|]. split; [done|].
    intros a b E. apply (f_equal length) in E. rewrite !length_app in E. cbn in E.
    destruct b; [done|]. simpl in E. lia.
  - assert (Hno : forall b, c :: str <> sub ++ b).
    { intros b E. assert (H : starts_with sub (c :: str) = true) by (apply starts_with_spec; by exists b).
      congruence. }
    destruct (search sub str) as [q|].
    + destruct IH as (p & t & -> & -> & Hf). exists (c :: p), t. split; [done|]. split; [done|].
      intros [|a0 a] b E.
      * destruct (Hno (b ++ t)). rewrite app_comm_cons, app_assoc, E. cbn [app].
        by rewrite <- app_assoc.
      * injection E as _ E. by apply (Hf a).
    + intros ([|a0 a] & b & E); [by destruct (Hno b)|]. injection E as _ E. apply IH. by exists a, b.
Qed.

Lemma replace_loop_spec to_find to_replace : to_find <> [] -> forall fuel last dest,
  (length last < fuel)%nat ->
  exists pieces rest,
    last = concat (map (fun p => p ++ to_find) pieces) ++ rest /\
    Forall (fun p => forall a b, p ++ to_find = a ++ to_find ++ b -> b = []) pieces /\
    ~ occurs to_find rest /\
    replace_loop fuel to_find to_replace last dest =
    Ret (dest ++ concat (map (fun p => p ++ to_replace) pieces) ++ rest).
Proof.
  intros Hn. induction fuel as [|fuel IH]; intros last dest Hf; [lia|]. cbn [replace_loop].
  assert (Hs : SubString_find last to_find = search to_find last).
  { unfold SubString_find. destruct (Nat.ltb_spec (length last) (length to_find)); [|done].
    pose proof (search_spec to_find last Hn) as H1. destruct (search to_find last); [|done].
    destruct H1 as (p & t & -> & -> & _). rewrite !length_app in *. lia. }
  pose proof (search_spec to_find last Hn) as H. rewrite Hs.
  destruct (search to_find last) as [q|].
  - destruct H as (p & t & -> & -> & Hfirst). rewrite range_app, drop_app_length.
    assert (Hl : (length t < fuel)%nat).
    { rewrite !length_app in Hf. destruct to_find; [done|]. simpl in Hf. lia. }
    destruct (IH t (dest ++ p ++ to_replace) Hl) as (pieces & rest & -> & Hp & Ho & ->).
    exists (p :: pieces), rest. cbn [map concat]. rewrite <- !app_assoc. auto.
  - exists [], last. auto.
Qed.

(** ** Hexadecimal *)

Lemma hex_to_buf_encode data : bytes_ok data -> hex_to_buf (hex_encode_loop data) = Ret data.
Proof.
  induction 1 as [|d data Hd _ IH]; [done|]. cbn [hex_encode_loop hex_to_buf]. rewrite IH.
  cbn [obind]. f_equal. f_equal. apply Z.eqb_eq. byte_eval d.
Qed.

Lemma hex_encode_loop_even data : Nat.odd (length (hex_encode_loop data)) = false.
Proof. induction data as [|d data IH]; [done|exact IH]. Qed.

Lemma hex_decode_encode data allow :
  bytes_ok data -> hex_decode (hex_encode_loop data) allow = Ret data.
Proof.
  intros Hb. unfold hex_decode. rewrite hex_encode_loop_even. cbn [andb].
  by apply hex_to_buf_encode.
Qed.

Lemma skip_zero_bytes_spec data :
  match skip_zero_bytes data with
  | Some r => exists n d r', data = replicate n 0 ++ r /\ r = d :: r' /\ d <> 0
  | None => data = replicate (length data) 0
  end.
Proof.
  induction data as [|d data IH]; [done|]. cbn [skip_zero_bytes].
  destruct (Z.eqb_spec d 0) as [->|Hd]; [|by exists 0%nat, d, data].
  destruct (skip_zero_bytes data) as [r|].
  - destruct IH as (n & d & r' & -> & -> & Hd). by exists (S n), d, r'.
  - cbn [length replicate]. by rewrite <- IH.
Qed.

(** ** Bounded copies *)

Lemma take_min_length {A} n (l : list A) : take (Nat.min n (length l)) l = take n l.
Proof.
  destruct (Nat.le_ge_cases n (length l)); [by rewrite Nat.min_l by lia|].
  by rewrite Nat.min_r, !take_ge by lia.
Qed.

Lemma strlcpy_loop_spec : forall n pre mid src, (n < length mid)%nat ->
  strlcpy_loop n (pre ++ mid) (length pre) src =
  Ret (if (length src <? n)%nat
       then inl (pre ++ src ++ 0 :: drop (S (length src)) mid)
       else inr (pre ++ take n src ++ drop n mid, length pre + n, drop n src)%nat).
Proof.
  induction n as [|n IH]; intros pre mid src Hn; cbn [strlcpy_loop].
  { cbn [take drop app]. by rewrite !drop_0, Nat.add_0_r. }
  destruct mid as [|m mid]; [simpl in Hn; lia|]. cbn [length] in Hn.
  rewrite (proj2 (Nat.ltb_lt _ _)) by (rewrite length_app; simpl; lia).
  destruct src as [|c src]; cbn [length drop take app].
  - by rewrite insert_at, drop_0.
  - rewrite insert_at. pose proof (IH (pre ++ [c]) mid src ltac:(lia)) as H.
    rewrite length_app in H. cbn [length] in H. rewrite <- !app_assoc in H. cbn [app] in H.
    rewrite Nat.add_1_r in H. rewrite H. change (S (length src) <? S n)%nat with (length src <? n)%nat.
    destruct (length src <? n)%nat; [done|]. f_equal. f_equal. f_equal. f_equal. lia.
Qed.

(** The copy leaves [min (size - 1) (length src)] characters and a zero. *)
Lemma copy_rest_spec pre mid src n : (n < length mid)%nat ->
  copy_rest (pre ++ mid) (length pre) src (S n) =
  Ret (pre ++ take n src ++ 0 :: drop (S (Nat.min n (length src))) mid).
Proof.
  intros Hn. cbn [copy_rest]. rewrite strlcpy_loop_spec by done. cbn [obind].
  destruct (Nat.ltb_spec (length src) n).
  - rewrite take_ge by lia. by rewrite Nat.min_r by lia.
  - rewrite Nat.min_l by lia. rewrite app_assoc.
    assert (Hl : length (pre ++ take n src) = (length pre + n)%nat)
      by (rewrite length_app, length_take; lia).
    destruct (drop n mid) as [|m mid'] eqn:Ed.
    { apply (f_equal length) in Ed. rewrite length_drop in Ed. simpl in Ed. lia. }
    rewrite (proj2 (Nat.ltb_lt _ _)) by (rewrite length_app, Hl; simpl; lia).
    rewrite <- Hl, insert_at, <- app_assoc. do 4 f_equal.
    rewrite <- (Nat.add_1_r n), <- drop_drop, Ed. done.
Qed.

Lemma strlcat_end_spec post : forall old pre size,
  Forall (fun c => c <> 0) old -> (length old < size)%nat ->
  strlcat_end (pre ++ old ++ 0 :: post) (length pre) size =
  Ret (length pre + length old, size - length old)%nat.
Proof.
  induction old as [|c old IH]; intros pre size Hf Hs; (destruct size as [|size]; [simpl in *; lia|]);
    cbn [strlcat_end app]; rewrite list_lookup_middle by done.
  - cbn. by rewrite Nat.add_0_r.
  - inversion_clear Hf. destruct (Z.eqb_spec c 0); [done|].
    pose proof (IH (pre ++ [c]) size ltac:(done) ltac:(simpl in Hs; lia)) as H1.
    rewrite length_app in H1. cbn [length] in *. rewrite <- app_assoc in H1. cbn [app] in H1.
    rewrite Nat.add_1_r in H1. rewrite H1. f_equal. f_equal. lia.
Qed.

(** ** [Translit] and [mark] *)

(** The table maps a character to the one at its last place in [invalid]. *)
Lemma Translit_loop_spec b valid : forall invalid i r,
  bytes_ok invalid -> is_byte b -> length r = 256%nat ->
  tab 0 (Translit_loop i invalid valid r) b =
  fold_left (fun v '(j, c) => if c =? b then nth (j mod length valid) valid 0 else v)
    (zip (seq i (length invalid)) invalid) (tab 0 r b).
Proof.
  induction invalid as [|c invalid IH]; intros i r Hi Hb Hr; [done|]. inversion_clear Hi.
  cbn [Translit_loop length seq zip zip_with fold_left].
  rewrite IH by (done || by rewrite length_insert). f_equal. unfold tab, is_byte in *.
  set (v := nth (i mod length valid) valid 0).
  destruct (Z.eqb_spec c b) as [->|Hne].
  - apply nth_lookup_Some. apply list_lookup_insert_eq. lia.
  - rewrite !nth_lookup. by rewrite list_lookup_insert_ne by lia.
Qed.

Definition mark_spec {P} `{CharPredicate P} (predicate : P) (marker : Z) (s : list Z) : list Z :=
  concat (map (fun c => if is_owned predicate c then [marker; c] else [c]) s) ++
  (if is_owned predicate 0 then [marker; 0] else []).

Lemma mark_loop_plain {P} `{CharPredicate P} (predicate : P) marker fuel c src dest :
  is_owned predicate c = false ->
  mark_loop (S fuel) predicate marker (c :: src) dest =
  mark_loop (S fuel) predicate marker src (dest ++ [c]).
Proof.
  intros Hc. cbn [mark_loop find_owned_cstr]. rewrite Hc.
  destruct (find_owned_cstr predicate src) as [ptr|] eqn:E; [|by rewrite <- app_assoc].
  assert (Hs : exists pre, src = pre ++ ptr).
  { clear Hc. revert ptr E. induction src as [|x src IH]; intros ptr E; cbn in E.
    - destruct (is_owned predicate 0); [|done]. injection E as <-. by exists [].
    - destruct (is_owned predicate x); [injection E as <-; by exists []|].
      destruct (IH _ E) as [pre ->]. by exists (x :: pre). }
  destruct Hs as [pre ->]. rewrite app_comm_cons, !range_app, <- (app_assoc dest [c] pre). done.
Qed.

Lemma mark_loop_spec {P} `{CharPredicate P} (predicate : P) marker : forall src fuel dest,
  (length src < fuel)%nat ->
  mark_loop fuel predicate marker src dest = Ret (dest ++ mark_spec predicate marker src).
Proof.
  unfold mark_spec. induction src as [|c src IH]; intros [|fuel] dest Hf; try (simpl in Hf; lia).
  - cbn [mark_loop find_owned_cstr map concat app].
    destruct (is_owned predicate 0); [by rewrite range_self, app_nil_r|done].
  - cbn [map concat]. destruct (is_owned predicate c) eqn:E.
    + cbn [mark_loop find_owned_cstr]. rewrite E, range_self, app_nil_r.
      rewrite IH by (simpl in Hf; lia). by rewrite <- !app_assoc.
    + rewrite mark_loop_plain by done. rewrite IH by (simpl in Hf; lia).
      by rewrite <- !app_assoc.
Qed.

(** ** Properties *)

(** A record made of encoded fields reads back: the field [csv_encode]
    writes for a text, followed by the end of the record, a separator or a line
    break, is read by the rules of RFC 4180 as that text. *)
Theorem csv_field_roundtrip (src tail : list Z) (separator : Z) :
  bytes_ok src -> 0 < separator < 256 -> separator <> QUOTE ->
  (forall c t, tail = c :: t -> csv_end separator c = true) ->
  csv_field separator (csv_encode (Some src) separator ++ tail) = Some (src, tail).
Proof.
  intros Hb Hs Hq Ht. unfold csv_encode.
  destruct (find_owned_cstr _ src) eqn:E.
  - pose proof (csv_loop_spec src [] [QUOTE]) as Hl. cbn [app] in Hl. rewrite Hl.
    rewrite <- app_assoc. cbn [app csv_field]. rewrite Z.eqb_refl.
    apply csv_quoted_double. intros t Et. specialize (Ht _ _ Et). revert Ht.
    unfold csv_end, QUOTE in *. by decide_Z.
  - apply find_owned_cstr_none in E.
    assert (Hc : Forall (fun c => csv_end separator c = false /\ c <> QUOTE) src).
    { rewrite Forall_forall in *. intros x Hx. pose proof (E x Hx) as Ho.
      rewrite non_csv_spec in Ho by auto. apply orb_false_iff in Ho as [H1 H2].
      by rewrite Z.eqb_neq in H2. }
    rewrite <- (csv_raw_spec separator src tail); [|by eapply Forall_impl; [exact Hc|]; intros ? []|done].
    unfold csv_field. destruct src as [|c src]; cbn [app].
    + destruct tail as [|c t]; [done|]. specialize (Ht c t eq_refl).
      destruct (Z.eqb_spec c QUOTE) as [->|]; [|done]. revert Ht. unfold csv_end, QUOTE in *.
      by decide_Z.
    + inversion_clear Hc as [|? ? [_ Hc'] _]. by rewrite (proj2 (Z.eqb_neq _ _) Hc').
Qed.

Lemma csv_field_roundtrip_witness :
  csv_field ";"%uchar (csv_encode (Some (bytes "a;b" ++ [34; 10])) ";"%uchar ++ bytes ";x") =
  Some (bytes "a;b" ++ [34; 10], bytes ";x").
Proof.
  apply csv_field_roundtrip; [by_eval|lia|done|]. by intros c t [= <- _].
Defined.

(** [trim] returns what is left after the longest prefix and the longest
    suffix of characters of the set, without reading outside the text. *)
Theorem trim_correct {P : Type} `{CharPredicate P} (str : list Z) (trim_set : P) :
  exists pre r post, str = pre ++ r ++ post /\ trim str trim_set = Ret r /\
    Forall (fun c => is_owned trim_set c = true) pre /\
    Forall (fun c => is_owned trim_set c = true) post /\
    (forall x t, r = x :: t -> is_owned trim_set x = false) /\
    (forall x t, r = t ++ [x] -> is_owned trim_set x = false).
Proof.
  unfold trim. destruct (find_nonowned_split trim_set str) as (pre & Hs & Hp & Hh).
  destruct (find_nonowned trim_set str) as [|x begin_].
  { exists pre, [], []. rewrite app_nil_r in *. subst str. repeat split; try done.
    by intros x [|]. }
  specialize (Hh _ _ eq_refl). destruct (owned_prefix trim_set (rev (x :: begin_)))
    as (post & rest & Hr & Hpost & Hrest). apply (f_equal (@rev Z)) in Hr.
  rewrite rev_involutive, rev_app_distr in Hr.
  destruct rest as [|y rest].
  { exfalso. cbn in Hr. assert (Hin : x ∈ rev post) by (rewrite <- Hr; left).
    rewrite Forall_forall in Hpost. apply list_elem_of_In, in_rev, list_elem_of_In in Hin.
    by rewrite (Hpost x Hin) in Hh. }
  rewrite Hr in Hs. exists pre, (rev (y :: rest)), (rev post).
  split; [done|]. split.
  { rewrite Hr, Hs, !rev_app_distr, !rev_involutive, <- !app_assoc, <- app_comm_cons.
    rewrite trim_end_spec by done. cbn [obind]. f_equal. rewrite app_assoc.
    replace (length (y :: rest ++ rev pre)) with (length (pre ++ rev (y :: rest)))
      by (rewrite length_app, length_rev; cbn [length]; rewrite length_app, length_rev; lia).
    rewrite take_app_length. rewrite <- app_assoc, (length_app pre), Nat.add_sub.
    apply drop_app_length. }
  split; [done|]. split; [by apply Forall_rev|]. split.
  - intros x' t E. rewrite E in Hr. injection Hr as -> _. done.
  - intros x' t E. cbn [rev] in E. apply app_inj_tail in E as [_ ->]. done.
Qed.

(** [replace] replaces, from left to right, every occurrence of a string
    that is not empty and nothing else: the text is cut at the first occurrences
    and no occurrence is left in the last piece. *)
Theorem replace_correct (str to_find to_replace : list Z) :
  to_find <> [] ->
  exists pieces rest,
    str = concat (map (fun p => p ++ to_find) pieces) ++ rest /\
    Forall (fun p => forall a b, p ++ to_find = a ++ to_find ++ b -> b = []) pieces /\
    ~ occurs to_find rest /\
    replace str to_find to_replace =
    Ret (concat (map (fun p => p ++ to_replace) pieces) ++ rest).
Proof.
  intros Hn. destruct (replace_loop_spec to_find to_replace Hn (S (length str)) str [] ltac:(lia))
    as (pieces & rest & Hs & Hp & Ho & Hr).
  exists pieces, rest. repeat (split; [done|]). unfold replace. by destruct to_find.
Qed.

Lemma replace_correct_witness :
  exists pieces rest, bytes "aaab" = concat (map (fun p => p ++ bytes "aa") pieces) ++ rest /\
    replace (bytes "aaab") (bytes "aa") (bytes "x") =
    Ret (concat (map (fun p => p ++ bytes "x") pieces) ++ rest).
Proof.
  destruct (replace_correct (bytes "aaab") (bytes "aa") (bytes "x") ltac:(done))
    as (pieces & rest & H1 & _ & _ & H2). by exists pieces, rest.
Defined.

(** [hex_decode] inverts [hex_encode]; without its leading zeros the text
    denotes the data without leading zero bytes, one byte at least. *)
Theorem hex_roundtrip (data : list Z) :
  bytes_ok data ->
  hex_decode (hex_encode data false) false = Ret data /\
  exists n r, data = replicate n 0 ++ r /\ hex_decode (hex_encode data true) true = Ret r /\
    (data <> [] -> r <> []) /\ (forall t, r = 0 :: t -> t = []).
Proof.
  intros Hb. split.
  { destruct data as [|d data]; [done|]. cbn [hex_encode andb]. by apply hex_decode_encode. }
  pose proof (skip_zero_bytes_spec data) as Hz. unfold hex_encode.
  destruct data as [|d0 data0] eqn:Ed; [by exists 0%nat, []|]. rewrite <- Ed in *.
  destruct (skip_zero_bytes data) as [r|].
  - destruct Hz as (n & d & r' & E & -> & Hd). exists n, (d :: r').
    split; [done|]. rewrite E in Hb. apply Forall_app in Hb as [_ Hb].
    split; [|split; [done|by intros t [= ? _]]].
    cbn [andb]. destruct (Z.eqb_spec (Z.land d 0xF0) 0) as [Hl|_]; [|by apply hex_decode_encode].
    inversion_clear Hb as [|? ? Hdb Hrb]. unfold hex_decode. cbn [length].
    rewrite Nat.odd_succ, <- Nat.negb_odd, hex_encode_loop_even. cbn [negb andb].
    rewrite hex_to_buf_encode by done. cbn [obind]. f_equal. f_equal. apply hex_to_int_digit.
    assert (Hx : negb (Z.land d 0xF0 =? 0) || (d <? 16) = true) by byte_eval d.
    rewrite Hl in Hx. apply Z.ltb_lt in Hx. unfold is_byte in Hdb. lia.
  - exists (length data0), [0]. split.
    { rewrite Hz, Ed at 1. cbn [length]. by rewrite <- replicate_S_end. }
    split; [done|]. split; [done|]. by intros t [= <-].
Qed.

Lemma hex_roundtrip_witness :
  hex_decode (hex_encode [0; 0x0A; 0xFF] false) false = Ret [0; 0x0A; 0xFF].
Proof. apply (hex_roundtrip [0; 0x0A; 0xFF]). by_eval. Defined.

(** [strlcpy] and [strlcat] leave as much of the source as fits before a
    terminating zero, write only inside the first [size] characters of the
    buffer and return the length the complete text has. *)
Theorem strl_bounds (dst src old post : list Z) (size : nat) :
  dst = old ++ 0 :: post -> Forall (fun c => c <> 0) old ->
  (length old < size <= length dst)%nat ->
  (exists n, n = Nat.min (size - 1) (length src) /\
     strlcpy dst src size = Ret (take n src ++ 0 :: drop (S n) dst, length src)) /\
  (exists n, n = Nat.min (size - 1 - length old) (length src) /\
     strlcat dst src size =
     Ret (old ++ take n src ++ 0 :: drop n post, (length src + length old)%nat)).
Proof.
  intros Hd Ho Hs. split; (eexists; split; [reflexivity|]).
  - unfold strlcpy. destruct size as [|size]; [lia|].
    pose proof (copy_rest_spec [] dst src size ltac:(lia)) as Hc. cbn [app length] in Hc.
    rewrite Hc. cbn [obind].
    replace (S size - 1)%nat with size by lia. by rewrite take_min_length.
  - unfold strlcat. pose proof (strlcat_end_spec post old [] size Ho ltac:(lia)) as He.
    cbn [app length] in He. rewrite Hd in *. rewrite He. cbn [obind].
    destruct (size - length old)%nat as [|n] eqn:En; [lia|]. rewrite length_app in Hs.
    cbn [length] in Hs. rewrite Nat.add_0_l, copy_rest_spec by (simpl; lia). cbn [obind drop].
    replace (size - 1 - length old)%nat with n by lia. rewrite take_min_length.
    do 3 f_equal. lia.
Qed.

Lemma strl_bounds_witness :
  exists n, n = Nat.min (5 - 1 - 2) 6 /\
    strlcat (bytes "12" ++ 0 :: [9; 9]) (bytes "abcdef") 5 =
    Ret (bytes "12" ++ take n (bytes "abcdef") ++ 0 :: drop n [9; 9], (6 + 2)%nat).
Proof.
  destruct (strl_bounds (bytes "12" ++ 0 :: [9; 9]) (bytes "abcdef") (bytes "12") [9; 9] 5)
    as [_ H]; [done|by_eval|simpl; lia|exact H].
Defined.
