(* ===== verification/IntStr.v ===== *)
(** * IntStr: decimal numbers

    Models [int_to_str], [IntToStr] and [str_to_int] of
    [src/String/StringManip.tpp], for every integer type, and the functions
    [append] and [concat] of [src/String/StringManip.ipp] that build a text in
    a fixed buffer out of strings and numbers. *)
From S2P Require Import Prelude TextOps.
Local Open Scope Z_scope.
Local Open Scope outcome_scope.

(** ** Integer types

    The fields of [std::numeric_limits] the templates use. *)
Record IntegerType : Type := { is_signed : bool; digits : Z }.

Definition int32_t : IntegerType := {| is_signed := true; digits := 31 |}.
Definition uint32_t : IntegerType := {| is_signed := false; digits := 32 |}.
Definition int64_t : IntegerType := {| is_signed := true; digits := 63 |}.
Definition uint64_t : IntegerType := {| is_signed := false; digits := 64 |}.

Definition max_ (T : IntegerType) : Z := 2 ^ digits T - 1.
Definition min_ (T : IntegerType) : Z := if is_signed T then - 2 ^ digits T else 0.
Definition digits10 (T : IntegerType) : Z := digits T * 30103 / 100000.

(** The types of 8 to 64 bits. *)
Definition integer (T : IntegerType) : Prop :=
  digits T ∈ (if is_signed T then [7; 15; 31; 63] else [8; 16; 32; 64]).

Definition in_type (T : IntegerType) (v : Z) : bool := (min_ T <=? v) && (v <=? max_ T).

(** A result that leaves the type has no meaning. *)
Definition arith (T : IntegerType) (v : Z) : outcome Z :=
  if in_type T v then Ret v else Undef.

(** ** [int_to_str] *)

(** [do ... while (value /= 10)]: [ptr] is the position in [str]. *)
Fixpoint put_decimal (fuel : nat) (value : Z) (str : list Z) (ptr : nat)
  : outcome (list Z * nat) :=
  match fuel with
  | O => Undef
  | S fuel' =>
    let* str := wr str ptr ("0"%uchar + value mod 10) in
    let value := value / 10 in
    if negb (value =? 0) then put_decimal fuel' value str (S ptr)
    else Ret (str, S ptr)
  end.

(** [for (...; str < ptr; str++, ptr--)] with [std::swap] *)
Fixpoint swap_loop (fuel : nat) (buf : list Z) (str ptr : nat) : outcome (list Z) :=
  match fuel with
  | O => Undef
  | S fuel' =>
    if (str <? ptr)%nat then
      let* a := rd buf str in
      let* b := rd buf ptr in
      let* buf := wr buf str b in
      let* buf := wr buf ptr a in
      swap_loop fuel' buf (S str) (ptr - 1)
    else Ret buf
  end.

(** [IntToStrSign<Integer, false>::convert], [start] the position of [str]. *)
Definition convert_unsigned (value : Z) (buf : list Z) (start : nat) : outcome (list Z * nat) :=
  let* (buf, ptr) := put_decimal 20 value buf start in
  let size := (ptr - start)%nat in
  let* buf := wr buf ptr 0 in
  let* buf := swap_loop (S size) buf start (ptr - 1) in
  Ret (buf, size).

Definition convert (T : IntegerType) (value : Z) (buf : list Z) : outcome (list Z * nat) :=
  if is_signed T then
    if value <? - max_ T then Ret (buf, O)
    else if value <? 0 then
      let* buf := wr buf 0 "-"%uchar in
      let* (buf, n) := convert_unsigned (- value) buf 1 in
      Ret (buf, S n)
    else convert_unsigned value buf 0
  else convert_unsigned value buf 0.

(** The buffer afterwards and the result. *)
Definition int_to_str (T : IntegerType) (value : Z) (str : list Z) (size : nat)
  : outcome (list Z * nat) :=
  if Z.of_nat size <? digits10 T + 3 then Ret (str, O)
  else convert T value str.

(** The text an [IntToStr] object holds. *)
Definition IntToStr (T : IntegerType) (value : Z) (buf_ : list Z) : outcome (list Z) :=
  let* (buf_, length_) := int_to_str T value buf_ 32 in
  Ret (take length_ buf_).

(** ** [str_to_int] *)

Definition LIMIT (T : IntegerType) : Z := max_ T / 10.

Fixpoint negative_loop (T : IntegerType) (src : list Z) (value : Z) : outcome (option Z) :=
  match src with
  | [] => Undef
  | c :: src' =>
    let ch := u8 (c - "0"%uchar) in
    if (9 <? ch) || (value <? - LIMIT T) ||
       ((value =? - LIMIT T) && (u8 (- (min_ T + LIMIT T * 10)) <? ch))
    then Ret None
    else
      let* value := arith T (value * 10 - ch) in
      match src' with
      | [] => Ret (Some value)
      | _ => negative_loop T src' value
      end
  end.

Fixpoint positive_loop (T : IntegerType) (src : list Z) (value : Z) : outcome (option Z) :=
  match src with
  | [] => Undef
  | c :: src' =>
    let ch := u8 (c - "0"%uchar) in
    if (9 <? ch) || (LIMIT T <? value) ||
       ((value =? LIMIT T) && (u8 (max_ T - LIMIT T * 10) <? ch))
    then Ret None
    else
      let* value := arith T (value * 10 + ch) in
      match src' with
      | [] => Ret (Some value)
      | _ => positive_loop T src' value
      end
  end.

(** [None] is the result [false]. *)
Definition str_to_int (T : IntegerType) (str : list Z) : outcome (option Z) :=
  match str with
  | [] => Ret None
  | c :: rest =>
    if c =? "-"%uchar then
      if negb (is_signed T) then Ret None
      else match rest with [] => Ret None | _ => negative_loop T rest 0 end
    else if c =? "+"%uchar then
      match rest with [] => Ret None | _ => positive_loop T rest 0 end
    else positive_loop T str 0
  end.

(** ** [append] and [concat]

    [buffer] is the memory from the pointer to the end of the caller's
    array. *)
Inductive piece : Type :=
| PChars (str : list Z)
| PSubString (str : list Z)
| PInteger (T : IntegerType) (integer : Z).

Definition append_chars (buffer : list Z) (size : nat) (str : list Z) : outcome (list Z * nat) :=
  let* (buffer, length) := strlcpy buffer str size in
  Ret (buffer, if (length <? size)%nat then length else size).

(** [CharTraits::copy] *)
Fixpoint copy (buffer str : list Z) : outcome (list Z) :=
  match str with
  | [] => Ret buffer
  | ch :: str' =>
    match buffer with
    | [] => Undef
    | _ :: buffer' => let* r := copy buffer' str' in Ret (ch :: r)
    end
  end.

Definition append_substring (buffer : list Z) (size : nat) (str : list Z)
  : outcome (list Z * nat) :=
  if (size <=? length str)%nat then
    match size with
    | O => Undef
    | S n =>
      let* buffer := copy buffer (take n str) in
      let* buffer := wr buffer n 0 in
      Ret (buffer, size)
    end
  else
    let* buffer := copy buffer str in
    Ret (buffer, length str).

Definition append_integer (T : IntegerType) (buffer : list Z) (size : nat) (integer : Z)
  : outcome (list Z * nat) :=
  let* (buffer, res) := int_to_str T integer buffer size in
  match res with
  | O => let* buffer := wr buffer 0 0 in Ret (buffer, size)
  | S n => Ret (buffer, n)
  end.

Definition append (buffer : list Z) (size : nat) (p : piece) : outcome (list Z * nat) :=
  match p with
  | PChars str => append_chars buffer size str
  | PSubString str => append_substring buffer size str
  | PInteger T n => append_integer T buffer size n
  end.

Fixpoint concat_pieces (buffer : list Z) (size : nat) (args : list piece) : outcome (list Z) :=
  match args with
  | [] => match size with O => Undef | _ => wr buffer 0 0 end
  | f :: args =>
    let* (buffer, length) := append buffer size f in
    if (length <? size)%nat then
      let* rest := concat_pieces (drop length buffer) (size - length) args in
      Ret (take length buffer ++ rest)
    else Ret buffer
  end.

Example int_samples :
  int_to_str int32_t (-1205) (replicate 12 7) 12 = Ret (bytes "-1205" ++ [0] ++ replicate 6 7, 5%nat) /\
  str_to_int int32_t (bytes "-2147483648") = Ret (Some (-2147483648)) /\
  str_to_int int32_t (bytes "2147483648") = Ret None /\
  concat_pieces (replicate 20 7) 20 [PChars (bytes "ab"); PSubString (bytes "cd")] =
    Ret (bytes "abcd" ++ [0] ++ replicate 15 7).
Proof. repeat split; vm_compute; reflexivity. Qed.

(** ** Reading: against the decimal notation *)

(** The number a text of digits denotes, after the digits read so far. *)
Fixpoint dec_from (acc : Z) (ds : list Z) : option Z :=
  match ds with
  | [] => Some acc
  | c :: ds' =>
    if ("0"%uchar <=? c) && (c <=? "9"%uchar) then dec_from (acc * 10 + (c - "0"%uchar)) ds'
    else None
  end.

(** An optional sign and at least one digit. *)
Definition decimal_value (signed : bool) (str : list Z) : option Z :=
  match str with
  | [] => None
  | c :: rest =>
    if c =? "-"%uchar then
      if negb signed then None
      else match rest with [] => None | _ => Z.opp <$> dec_from 0 rest end
    else if c =? "+"%uchar then match rest with [] => None | _ => dec_from 0 rest end
    else dec_from 0 str
  end.

Lemma dec_from_ge ds : forall acc v, 0 <= acc -> dec_from acc ds = Some v -> acc <= v.
Proof.
  induction ds as [|c ds IH]; intros acc v Ha H; cbn in H; [injection H; lia|].
  destruct (Z.leb_spec "0"%uchar c), (Z.leb_spec c "9"%uchar); try done.
  apply IH in H; lia.
Qed.

Lemma digit_char c : is_byte c ->
  (9 <? u8 (c - "0"%uchar)) = negb (("0"%uchar <=? c) && (c <=? "9"%uchar)) /\
  ((9 <? u8 (c - "0"%uchar)) = false -> u8 (c - "0"%uchar) = c - "0"%uchar).
Proof.
  intros Hc. split; [apply eqb_prop; byte_eval c|]. intros H9.
  assert (Hx : (9 <? u8 (c - "0"%uchar)) || (u8 (c - "0"%uchar) =? c - "0"%uchar) = true)
    by byte_eval c. rewrite H9 in Hx. by apply Z.eqb_eq.
Qed.

(** What the overflow tests rely on: the greatest value does not end in 9. *)
Lemma integer_limits T : integer T ->
  0 < LIMIT T /\ LIMIT T * 10 <= max_ T < LIMIT T * 10 + 9 /\
  u8 (max_ T - LIMIT T * 10) = max_ T - LIMIT T * 10 /\
  min_ T = (if is_signed T then - max_ T - 1 else 0) /\
  (is_signed T = true -> u8 (- (min_ T + LIMIT T * 10)) = max_ T + 1 - LIMIT T * 10) /\
  max_ T < 10 ^ (digits10 T + 1) /\ 0 <= digits10 T < 20.
Proof.
  destruct T as [[] d]; unfold integer, LIMIT, max_, min_, digits10; cbn [is_signed digits];
    rewrite !elem_of_cons; intros Hd; repeat (destruct Hd as [->|Hd]; [by vm_compute|]);
    by apply elem_of_nil in Hd.
Qed.

Lemma positive_loop_spec T : integer T -> forall src value,
  src <> [] -> bytes_ok src -> 0 <= value <= max_ T ->
  positive_loop T src value =
  Ret (v ← dec_from value src; if v <=? max_ T then Some v else None).
Proof.
  intros HT. destruct (integer_limits T HT) as (H0 & H1 & H2 & H3 & _).
  assert (Hin : forall v, 0 <= v <= max_ T -> arith T v = Ret v).
  { intros v Hv. unfold arith, in_type. rewrite H3. destruct (is_signed T); by decide_Z. }
  induction src as [|c src IH]; intros value Hn Hb Hv; [done|]. cbn [positive_loop dec_from].
  inversion_clear Hb as [|? ? Hc Hb']. destruct (digit_char c Hc) as [E Hd].
  rewrite <- (negb_involutive (("0"%uchar <=? c) && (c <=? "9"%uchar))), <- E.
  destruct (9 <? u8 (c - "0"%uchar)) eqn:E9; cbn [negb orb]; [done|]. rewrite Hd by done.
  assert (Hc9 : 0 <= c - "0"%uchar <= 9).
  { symmetry in E. apply negb_false_iff, andb_true_iff in E as [?%Z.leb_le ?%Z.leb_le]. lia. }
  rewrite H2. set (ch := c - "0"%uchar) in *.
  assert (Ho : (LIMIT T <? value) || ((value =? LIMIT T) && (max_ T - LIMIT T * 10 <? ch)) =
    (max_ T <? value * 10 + ch)).
  { repeat case_Z; cbn [orb andb]; lia || done. }
  rewrite Ho. destruct (Z.ltb_spec (max_ T) (value * 10 + ch)).
  - destruct (dec_from (value * 10 + ch) src) as [v|] eqn:Ev; [|done].
    apply dec_from_ge in Ev; [|lia]. cbn. by decide_Z.
  - rewrite Hin by lia. cbn [obind]. destruct src as [|c' src]; [cbn; by decide_Z|].
    apply IH; [done|done|lia].
Qed.

Lemma negative_loop_spec T : integer T -> is_signed T = true -> forall src acc,
  src <> [] -> bytes_ok src -> 0 <= acc <= max_ T + 1 ->
  negative_loop T src (- acc) =
  Ret (v ← dec_from acc src; if v <=? max_ T + 1 then Some (- v) else None).
Proof.
  intros HT Hsg. destruct (integer_limits T HT) as (H0 & H1 & _ & H3 & H2 & _).
  rewrite Hsg in H3. specialize (H2 Hsg).
  assert (Hin : forall v, 0 <= v <= max_ T + 1 -> arith T (- v) = Ret (- v)).
  { intros v Hv. unfold arith, in_type. rewrite H3. by decide_Z. }
  induction src as [|c src IH]; intros acc Hn Hb Hv; [done|]. cbn [negative_loop dec_from].
  inversion_clear Hb as [|? ? Hc Hb']. destruct (digit_char c Hc) as [E Hd].
  rewrite <- (negb_involutive (("0"%uchar <=? c) && (c <=? "9"%uchar))), <- E.
  destruct (9 <? u8 (c - "0"%uchar)) eqn:E9; cbn [negb orb]; [done|]. rewrite Hd by done.
  assert (Hc9 : 0 <= c - "0"%uchar <= 9).
  { symmetry in E. apply negb_false_iff, andb_true_iff in E as [?%Z.leb_le ?%Z.leb_le]. lia. }
  rewrite H2. set (ch := c - "0"%uchar) in *.
  assert (Ho : (- acc <? - LIMIT T) || ((- acc =? - LIMIT T) && (max_ T + 1 - LIMIT T * 10 <? ch)) =
    (max_ T + 1 <? acc * 10 + ch)).
  { repeat case_Z; cbn [orb andb]; lia || done. }
  rewrite Ho. destruct (Z.ltb_spec (max_ T + 1) (acc * 10 + ch)).
  - destruct (dec_from (acc * 10 + ch) src) as [v|] eqn:Ev; [|done].
    apply dec_from_ge in Ev; [|lia]. cbn. by decide_Z.
  - replace (- acc * 10 - ch) with (- (acc * 10 + ch)) by ring. rewrite Hin by lia.
    cbn [obind]. destruct src as [|c' src]; [cbn; by decide_Z|]. apply IH; [done|done|lia].
Qed.

Lemma str_to_int_spec T str : integer T -> bytes_ok str ->
  str_to_int T str =
  Ret (v ← decimal_value (is_signed T) str; if in_type T v then Some v else None).
Proof.
  intros HT Hb. destruct (integer_limits T HT) as (H0 & H1 & _ & H3 & _).
  assert (Hpos : forall src, bytes_ok src -> src <> [] -> positive_loop T src 0 =
    Ret (v ← dec_from 0 src; if in_type T v then Some v else None)).
  { intros src Hs Hn. rewrite positive_loop_spec by (done || lia). f_equal.
    destruct (dec_from 0 src) as [v|] eqn:Ev; [|done]. cbn. apply dec_from_ge in Ev; [|lia].
    unfold in_type. rewrite H3. destruct (is_signed T); by decide_Z. }
  unfold str_to_int, decimal_value. destruct str as [|c rest]; [done|].
  inversion_clear Hb as [|? ? Hc Hb']. destruct (c =? "-"%uchar).
  - destruct (is_signed T) eqn:Es; [|done]. cbn [negb]. destruct rest as [|c' rest]; [done|].
    change 0 with (- 0) at 1. rewrite negative_loop_spec by (done || lia).
    destruct (dec_from 0 (c' :: rest)) as [v|] eqn:Ev; [|done]. cbn.
    apply dec_from_ge in Ev; [|lia]. unfold in_type. rewrite H3.
    f_equal. repeat case_Z; cbn [andb]; lia || done.
  - destruct (c =? "+"%uchar).
    + destruct rest as [|c' rest]; [done|]. by apply Hpos.
    + apply Hpos; [by constructor|done].
Qed.

(** ** Writing *)

(** The digits of a number, the last first. *)
Fixpoint digits_rev (fuel : nat) (v : Z) : list Z :=
  match fuel with
  | O => []
  | S fuel' => ("0"%uchar + v mod 10) :: (if v / 10 =? 0 then [] else digits_rev fuel' (v / 10))
  end.

Definition decimal (v : Z) : list Z := rev (digits_rev 20 v).

Lemma digits_rev_length fuel : forall v k,
  0 <= v < 10 ^ Z.of_nat (S k) -> (length (digits_rev fuel v) <= S k)%nat.
Proof.
  induction fuel as [|fuel IH]; intros v k Hv; [simpl; lia|]. cbn [digits_rev length].
  destruct (Z.eqb_spec (v / 10) 0); [simpl; lia|].
  rewrite Nat2Z.inj_succ, Z.pow_succ_r in Hv by lia.
  destruct k as [|k]; [simpl in Hv; zlia|]. apply le_n_S, IH.
  assert (v / 10 < 10 ^ Z.of_nat (S k)) by (apply Z.div_lt_upper_bound; lia). zlia.
Qed.

Lemma digits_rev_S fuel v :
  digits_rev (S fuel) v =
  ("0"%uchar + v mod 10) :: (if v / 10 =? 0 then [] else digits_rev fuel (v / 10)).
Proof. reflexivity. Qed.

Lemma div10_bound fuel v : 0 <= v < 10 ^ Z.of_nat (S fuel) -> v / 10 <> 0 ->
  exists fuel', fuel = S fuel' /\ 0 <= v / 10 < 10 ^ Z.of_nat (S fuel').
Proof.
  rewrite Nat2Z.inj_succ, Z.pow_succ_r by lia. intros Hv Hn.
  destruct fuel as [|fuel]; [simpl in Hv; zlia|]. exists fuel. split; [done|].
  split; [zlia|]. apply Z.div_lt_upper_bound; lia.
Qed.

Lemma put_decimal_spec : forall fuel v pre mid,
  0 <= v < 10 ^ Z.of_nat (S fuel) -> (length (digits_rev (S fuel) v) <= length mid)%nat ->
  put_decimal (S fuel) v (pre ++ mid) (length pre) =
  Ret (pre ++ digits_rev (S fuel) v ++ drop (length (digits_rev (S fuel) v)) mid,
       (length pre + length (digits_rev (S fuel) v))%nat).
Proof.
  induction fuel as [|fuel IH]; intros v pre mid Hv Hl; rewrite digits_rev_S in *;
    (destruct mid as [|m mid]; [simpl in Hl; lia|]); cbn [put_decimal];
    rewrite wr_at; cbn [obind]; (destruct (Z.eqb_spec (v / 10) 0) as [Hz|Hz]; cbn [negb]).
  - cbn [length app drop]. by rewrite drop_0, Nat.add_1_r.
  - simpl in Hv. zlia.
  - cbn [length app drop]. by rewrite drop_0, Nat.add_1_r.
  - destruct (div10_bound (S fuel) v Hv Hz) as (f & [= <-] & Hv').
    cbn [length app drop] in *.
    pose proof (IH (v / 10) (pre ++ ["0"%uchar + v mod 10]) mid Hv' ltac:(lia)) as H.
    rewrite length_app in H. cbn [length] in H. rewrite <- !app_assoc in H. cbn [app] in H.
    rewrite Nat.add_1_r in H. cbn [put_decimal] in H. rewrite H. do 2 f_equal. lia.
Qed.

Lemma swap_loop_spec : forall n pre mid post fuel,
  (length mid <= n)%nat -> (length mid < fuel)%nat -> mid <> [] ->
  swap_loop fuel (pre ++ mid ++ post) (length pre) (length pre + length mid - 1) =
  Ret (pre ++ rev mid ++ post).
Proof.
  induction n as [|n IH]; intros pre mid post fuel Hn Hf Hne; [destruct mid; [done|simpl in Hn; lia]|].
  destruct fuel as [|fuel]; [lia|]. destruct mid as [|a mid]; [done|]. clear Hne.
  destruct mid as [|b m _] using rev_ind.
  { cbn [swap_loop length]. rewrite (proj2 (Nat.ltb_ge _ _)) by lia. done. }
  cbn [length] in *. rewrite length_app in *. cbn [length] in *. cbn [swap_loop].
  rewrite (proj2 (Nat.ltb_lt _ _)) by lia. rewrite <- app_comm_cons, <- (app_assoc m), rd_at.
  cbn [obind app].
  replace (length pre + S (length m + 1) - 1)%nat with (length (pre ++ a :: m))
    by (rewrite length_app; simpl; lia).
  replace (pre ++ a :: m ++ b :: post) with ((pre ++ a :: m) ++ b :: post)
    by (by rewrite <- app_assoc).
  rewrite rd_at. cbn [obind]. rewrite <- app_assoc, <- app_comm_cons, wr_at. cbn [obind].
  replace (pre ++ b :: m ++ b :: post) with ((pre ++ b :: m) ++ b :: post)
    by (by rewrite <- app_assoc).
  replace (length (pre ++ a :: m)) with (length (pre ++ b :: m)) by (by rewrite !length_app).
  rewrite wr_at. cbn [obind]. cbn [rev]. rewrite rev_app_distr. cbn [rev app].
  destruct m as [|x m]; [|set (mm := x :: m) in *].
  { destruct fuel as [|fuel]; [simpl in Hf; lia|]. cbn [swap_loop].
    rewrite (proj2 (Nat.ltb_ge _ _)) by (rewrite length_app; simpl; lia).
    rewrite <- !app_assoc. done. }
  pose proof (IH (pre ++ [b]) mm (a :: post) fuel ltac:(lia) ltac:(lia) ltac:(done)) as H.
  rewrite length_app in *. cbn [length] in *. rewrite <- !app_assoc in *. cbn [app] in *.
  replace (length pre + S (length mm) - 1)%nat with (length pre + 1 + length mm - 1)%nat by lia.
  by rewrite <- Nat.add_1_r, H.
Qed.

Lemma digits_rev_value : forall fuel v, 0 <= v < 10 ^ Z.of_nat (S fuel) ->
  dec_from 0 (rev (digits_rev (S fuel) v)) = Some v /\
  exists c t, rev (digits_rev (S fuel) v) = c :: t /\ "0"%uchar <= c <= "9"%uchar.
Proof.
  assert (Hsnoc : forall ds acc d, 0 <= d < 10 ->
    dec_from acc (ds ++ ["0"%uchar + d]) = v ← dec_from acc ds; Some (v * 10 + d)).
  { induction ds as [|c ds IH]; intros acc d Hd; cbn [app dec_from].
    - decide_Z. cbn. f_equal. lia.
    - destruct (_ && _); [by apply IH|done]. }
  assert (Hdig : forall v, "0"%uchar <= "0"%uchar + v mod 10 <= "9"%uchar) by (intros; zlia).
  induction fuel as [|fuel IH]; intros v Hv; rewrite digits_rev_S; cbn [rev];
    (rewrite Hsnoc by zlia); (destruct (Z.eqb_spec (v / 10) 0) as [Hz|Hz]);
    try (cbn [rev app dec_from]; split; [cbn; f_equal; zlia|]; by eexists _, _).
  destruct (div10_bound (S fuel) v Hv Hz) as (f & [= <-] & Hv').
  destruct (IH _ Hv') as (-> & c & t & -> & Hc). cbn. split; [f_equal; zlia|].
  by exists c, (t ++ ["0"%uchar + v mod 10]).
Qed.

Lemma convert_unsigned_spec v pre mid :
  0 <= v < 10 ^ 20 -> (length (decimal v) < length mid)%nat ->
  convert_unsigned v (pre ++ mid) (length pre) =
  Ret (pre ++ decimal v ++ 0 :: drop (S (length (decimal v))) mid, length (decimal v)).
Proof.
  intros Hv Hl. unfold convert_unsigned, decimal in *. rewrite length_rev in *.
  rewrite (put_decimal_spec 19) by (exact Hv || lia). cbn [obind].
  set (ds := digits_rev 20 v) in *. set (n := length ds) in *.
  replace (length pre + n - length pre)%nat with n by lia.
  destruct (drop n mid) as [|m mid'] eqn:Ed.
  { apply (f_equal length) in Ed. rewrite length_drop in Ed. simpl in Ed. lia. }
  rewrite app_assoc. replace (length pre + n)%nat with (length (pre ++ ds))
    by (rewrite length_app; lia).
  rewrite wr_at. cbn [obind]. rewrite <- app_assoc, length_app.
  rewrite (swap_loop_spec n) by (lia || done). cbn [obind].
  do 5 f_equal. rewrite <- Nat.add_1_r, <- drop_drop, Ed. done.
Qed.

(** The text of a number with its sign. *)
Definition decimal_text (v : Z) : list Z :=
  if v <? 0 then "-"%uchar :: decimal (- v) else decimal v.

Lemma decimal_length T v : integer T -> 0 <= v <= max_ T ->
  Z.of_nat (length (decimal v)) <= digits10 T + 1 /\ 0 <= v < 10 ^ 20.
Proof.
  intros HT Hv. destruct (integer_limits T HT) as (_ & _ & _ & _ & _ & Hm & Hd).
  unfold decimal. rewrite length_rev.
  assert (H : (length (digits_rev 20 v) <= S (Z.to_nat (digits10 T)))%nat).
  { apply digits_rev_length. rewrite Nat2Z.inj_succ, Z2Nat.id by lia.
    unfold Z.succ. lia. }
  split; [lia|]. assert (10 ^ (digits10 T + 1) <= 10 ^ 20) by (apply Z.pow_le_mono_r; lia). lia.
Qed.

Lemma int_to_str_spec T v str size : integer T ->
  - max_ T <= v <= max_ T -> (is_signed T = false -> 0 <= v) ->
  digits10 T + 3 <= Z.of_nat size -> (size <= length str)%nat ->
  int_to_str T v str size =
  Ret (decimal_text v ++ 0 :: drop (S (length (decimal_text v))) str, length (decimal_text v)).
Proof.
  intros HT Hv Hs Hsz Hl. destruct (integer_limits T HT) as (_ & _ & _ & _ & _ & _ & Hd10).
  unfold int_to_str, convert, decimal_text. decide_Z.
  assert (Hpos : 0 <= v -> convert_unsigned v str 0 =
    Ret (decimal v ++ 0 :: drop (S (length (decimal v))) str, length (decimal v))).
  { intros Hp. destruct (decimal_length T v HT ltac:(lia)) as [Hn Hb].
    exact (convert_unsigned_spec v [] str Hb ltac:(lia)). }
  destruct (is_signed T).
  2: { specialize (Hs eq_refl). decide_Z. by apply Hpos. }
  decide_Z. destruct (Z.ltb_spec v 0); [|by apply Hpos].
  destruct str as [|s0 str]; [simpl in Hl; lia|]. 
  change (wr (s0 :: str) 0 "-"%uchar) with (Ret ("-"%uchar :: str)). cbn [obind].
  destruct (decimal_length T (- v) HT ltac:(lia)) as [Hn Hb]. cbn [length] in Hl.
  pose proof (convert_unsigned_spec (- v) ["-"%uchar] str Hb ltac:(lia)) as H1.
  cbn [app length] in H1. rewrite H1. done.
Qed.

Lemma decimal_text_value T v : integer T -> - max_ T <= v <= max_ T ->
  decimal_value true (decimal_text v) = Some v /\
  Z.of_nat (length (decimal_text v)) <= digits10 T + 2 /\ bytes_ok (decimal_text v).
Proof.
  intros HT Hv. unfold decimal_text, decimal.
  assert (Hby : forall fuel w, bytes_ok (digits_rev fuel w)).
  { induction fuel as [|fuel IH]; intros w; [constructor|]. rewrite digits_rev_S.
    constructor; [unfold is_byte; zlia|]. destruct (_ =? 0); [constructor|apply IH]. }
  assert (Hd : forall w, 0 <= w <= max_ T ->
    dec_from 0 (rev (digits_rev 20 w)) = Some w /\
    Z.of_nat (length (rev (digits_rev 20 w))) <= digits10 T + 1 /\
    exists c t, rev (digits_rev 20 w) = c :: t /\ "0"%uchar <= c <= "9"%uchar).
  { intros w Hw. destruct (decimal_length T w HT Hw) as [Hl Hb].
    destruct (digits_rev_value 19 w Hb) as [H1 H2]. auto. }
  destruct (Z.ltb_spec v 0).
  - destruct (Hd (- v) ltac:(lia)) as (H1 & H2 & c & t & E & Hc). cbn [length].
    split; [|split; [lia|constructor; [unfold is_byte; lia|by apply Forall_rev]]].
    cbn [decimal_value Z.eqb Pos.eqb negb]. rewrite H1, E. cbn. f_equal. lia.
  - destruct (Hd v ltac:(lia)) as (H1 & H2 & c & t & E & Hc).
    split; [|split; [lia|by apply Forall_rev]]. rewrite E in *. cbn [decimal_value].
    by decide_Z.
Qed.

(** ** Properties *)

(** [str_to_int] accepts exactly the decimal numbers of its type: on any
    text it returns the number the text denotes if the type holds it and fails
    otherwise, and none of its operations overflows. *)
Theorem str_to_int_correct (T : IntegerType) (str : list Z) :
  integer T -> bytes_ok str ->
  str_to_int T str =
  Ret (v ← decimal_value (is_signed T) str; if in_type T v then Some v else None).
Proof. apply str_to_int_spec. Qed.

Lemma str_to_int_correct_witness :
  str_to_int uint64_t (bytes "18446744073709551616") =
  Ret (v ← decimal_value (is_signed uint64_t) (bytes "18446744073709551616");
       if in_type uint64_t v then Some v else None).
Proof. apply str_to_int_correct; by_eval. Defined.

(** [int_to_str] stays inside the given size and writes a terminated text
    that [str_to_int] reads back as the same number, for every value but the
    least one of a signed type. *)
Theorem int_to_str_roundtrip (T : IntegerType) (v : Z) (str : list Z) (size : nat) :
  integer T -> min_ T <= v <= max_ T -> (is_signed T = true -> v <> min_ T) ->
  digits10 T + 3 <= Z.of_nat size -> (size <= length str)%nat ->
  exists str' n, int_to_str T v str size = Ret (str', n) /\
    length str' = length str /\ (n < size)%nat /\ str' !! n = Some 0 /\
    drop (S n) str' = drop (S n) str /\
    str_to_int T (take n str') = Ret (Some v).
Proof.
  intros HT Hv Hmin Hsz Hl. destruct (integer_limits T HT) as (_ & _ & _ & Hm & _).
  assert (Hr : - max_ T <= v <= max_ T /\ (is_signed T = false -> 0 <= v)).
  { rewrite Hm in *. destruct (is_signed T); [specialize (Hmin eq_refl)|]; split; lia || done. }
  destruct Hr as [Hr Hu]. rewrite (int_to_str_spec T v str size) by done.
  destruct (decimal_text_value T v HT Hr) as (Hval & Hlen & Hbytes).
  eexists _, _. split; [reflexivity|]. set (t := decimal_text v) in *.
  split; [rewrite length_app; cbn [length]; rewrite length_drop; lia|].
  split; [lia|]. split; [by rewrite list_lookup_middle by done|]. split.
  { rewrite <- (Nat.add_1_r (length t)), <- drop_drop, drop_app_length. cbn [drop].
    by rewrite drop_0, Nat.add_1_r. }
  rewrite take_app_length, str_to_int_spec by done.
  assert (Hin : in_type T v = true) by (unfold in_type; by decide_Z).
  destruct (is_signed T) eqn:Es; [rewrite Hval; cbn; by rewrite Hin|].
  specialize (Hu eq_refl). replace (decimal_value false t) with (decimal_value true t);
    [rewrite Hval; cbn; by rewrite Hin|].
  unfold t, decimal_text. decide_Z. unfold decimal.
  destruct (decimal_length T v HT ltac:(lia)) as [_ Hb].
  destruct (digits_rev_value 19 v Hb) as (_ & c & t' & -> & Hc). cbn [decimal_value]. by decide_Z.
Qed.

Lemma int_to_str_roundtrip_witness :
  exists str' n, int_to_str int64_t (-42) (replicate 21 7) 21 = Ret (str', n) /\
    str_to_int int64_t (take n str') = Ret (Some (-42)).
Proof.
  destruct (int_to_str_roundtrip int64_t (-42) (replicate 21 7) 21)
    as (str' & n & H1 & _ & _ & _ & _ & H2); [by_eval..|by exists str', n].
Defined.

(** [append] takes the count [int_to_str] returns for one that includes the
    zero, so the last digit of a number is overwritten by what follows it. *)
Theorem concat_drops_digit :
  concat_pieces (replicate 20 7) 20 [PInteger int32_t 123; PChars (bytes "x")] =
    Ret (bytes "12x" ++ [0] ++ replicate 16 7) /\
  concat_pieces (replicate 20 7) 20 [PChars (bytes "123"); PChars (bytes "x")] =
    Ret (bytes "123x" ++ [0] ++ replicate 15 7).
Proof. split; vm_compute; reflexivity. Qed.
