(* ===== verification/Url.v ===== *)
(** * Url: splitting, checking and assembling of URLs

    Models the part of [src/HTTP/UrlAddress.cpp] that works on the parts of a URL: the
    character categories of RFC 3986, the test of percent encoded texts, [split_url],
    [URLPartsChecker], [assign_url_parts_], the repair of parts and the decoding of
    percent encoded texts.

    A [SubString] is the list of its characters and a pointer to a character of a text
    that ends at [END] the list of the characters from it on. *)
From S2P Require Import Prelude AsciiManip Tokenizer.
Local Open Scope Z_scope.
Local Open Scope outcome_scope.

(** ** SubString *)

Fixpoint index (ch : Z) (s : list Z) : option nat :=
  match s with
  | [] => None
  | c :: s' => if c =? ch then Some O else S <$> index ch s'
  end.

(** [find] from a position; [NPOS] is [None] *)
Definition SubString_find_char (s : list Z) (ch : Z) (pos : nat) : option nat :=
  if (pos <? length s)%nat then (fun i => pos + i)%nat <$> index ch (drop pos s) else None.

Definition SubString_rfind_char (s : list Z) (ch : Z) : option nat := rfind_loop (fun c => c =? ch) (rev s).

(** [substr] and [assign] of a part: the length is cut, the position is not checked *)
Definition substr (s : list Z) (pos count : nat) : outcome (list Z) :=
  if (pos <=? length s)%nat then Ret (take count (drop pos s)) else Undef.

(** ** Categories *)

Definition category (symbols : string) : CharTable := CharTable_of_str (bytes symbols) false.

Definition UNRESERVED : CharTable := CharTable_union ALPHA_NUM (category "-._~").
Definition SUB_DELIMS : CharTable := category "!$&'()*+,;=".
Definition PCHAR : CharTable := CharTable_union3 UNRESERVED SUB_DELIMS (category ":@").
Definition NON_COMPLIANT : CharTable := category "{}|^~[]`".
Definition URL_PARSER_SCHEME_END : CharTable := category ":/?#".
Definition URL_PARSER_AUTORITY_END : Char3 :=
  {| symbol_1 := "/"%uchar; symbol_2 := "?"%uchar; symbol_3 := "#"%uchar |}.
Definition URL_PARSER_PATH_END : Char2 := {| symbol1 := "?"%uchar; symbol2 := "#"%uchar |}.
Definition URL_PARSER_QUERY_END : Char1 := {| symbol := "#"%uchar |}.
Definition SCHEME_FIRST : CharTable := ALPHA.
Definition SCHEME_NOT_FIRST : CharTable := CharTable_union ALPHA_NUM (category "-+.").
Definition USER_INFO : CharTable := CharTable_union3 UNRESERVED SUB_DELIMS (category ":").
Definition HOST : CharTable := CharTable_union UNRESERVED SUB_DELIMS.
Definition PORT : CharTable := NUMBER.
Definition PATH : CharTable := CharTable_union3 NON_COMPLIANT PCHAR (category "/").
Definition QUERY : CharTable := CharTable_union3 NON_COMPLIANT PCHAR (category "/?").
Definition FRAGMENT : CharTable := CharTable_union3 NON_COMPLIANT PCHAR (category "/?").

Definition MAX_HOSTNAME_LABEL_SIZE : nat := 63.
Definition MAX_HOSTNAME_SIZE : nat := 255.
Definition LABEL_SEPARATOR : Z := "."%uchar.
Definition LabelSeparatorCategory : Char1 := {| symbol := LABEL_SEPARATOR |}.
Definition LABEL_FIRST_LAST : CharTable := CharTable_union ALPHA_NUM (category "_").
Definition LABEL_MIDDLE : CharTable := CharTable_union ALPHA_NUM (category "-_").

Definition HTTP_SCHEME : list Z := bytes "http".
Definition HTTPS_SCHEME : list Z := bytes "https".

(** ** Percent encoded texts *)

Definition is_valid_chars (str : list Z) (category : CharTable) : bool := is_nil (find_nonowned category str).

Fixpoint find_invalid_loop (fuel : nat) (category : CharTable) (str : list Z) : outcome (list Z) :=
  match fuel with
  | O => Undef
  | S fuel' =>
    match find_nonowned category str with
    | [] => Ret []
    | ch :: rest =>
      if negb (ch =? "%"%uchar) then Ret (ch :: rest)
      else
        match rest with
        | h1 :: h2 :: rest' =>
          if negb (call HEX_NUMBER h1) || negb (call HEX_NUMBER h2) then Ret (ch :: rest)
          else find_invalid_loop fuel' category rest'
        | _ => Ret (ch :: rest)
        end
    end
  end.

Definition find_invalid (str : list Z) (category : CharTable) : outcome (list Z) :=
  find_invalid_loop (S (length str)) category str.

Definition is_valid_encoded (encoded_str : list Z) (category : CharTable) : outcome bool :=
  let* str := find_invalid encoded_str category in Ret (is_nil str).

(** The loop of [http_fix_part]; the characters after the first are always looked up in
    [QUERY]. *)
Fixpoint http_fix_loop (fuel : nat) (str new_part : list Z) : outcome (list Z) :=
  match fuel with
  | O => Undef
  | S fuel' =>
    match str with
    | [] => Undef
    | CH :: OLD =>
      let new_part := new_part ++ ["%"%uchar; tab 0 HEX_DIGITS (Z.land (Z.shiftr CH 4) 0x0F);
                                   tab 0 HEX_DIGITS (Z.land CH 0x0F)] in
      let* str := find_invalid OLD QUERY in
      let new_part := new_part ++ range OLD str in
      match str with
      | [] => Ret new_part
      | _ => http_fix_loop fuel' str new_part
      end
    end
  end.

(** [None] is the result [false]: the part is valid as it is. *)
Definition http_fix_part (part : list Z) (checker : CharTable) : outcome (option (list Z)) :=
  let* str := find_invalid part checker in
  match str with
  | [] => Ret None
  | _ =>
    let* new_part := http_fix_loop (S (length part)) str (range part str) in
    Ret (Some new_part)
  end.

(** The asserts of [unmime] are the guards. *)
Fixpoint unmime_loop (valid : CharTable) (str : list Z) : outcome (list Z) :=
  match str with
  | [] => Ret []
  | ch :: rest =>
    if ch =? "%"%uchar then
      match rest with
      | h1 :: h2 :: rest' =>
        guard (call HEX_NUMBER h1)
        (let* result := unmime_loop valid rest' in
         let ch := hex_to_char h1 h2 in
         Ret ((if call valid ch then [to_lower ch] else ["%"%uchar; to_lower h1; to_lower h2]) ++ result))
      | _ => Undef
      end
    else let* result := unmime_loop valid rest in Ret (to_lower ch :: result)
  end.

Definition unmime (str : list Z) (valid : CharTable) : outcome (list Z) := unmime_loop valid str.

Fixpoint unmime_all (src : list Z) : list Z :=
  match src with
  | [] => []
  | ch :: rest =>
    match rest with
    | h1 :: h2 :: rest' =>
      if (ch =? "%"%uchar) && call HEX_NUMBER h1 && call HEX_NUMBER h2
      then hex_to_char h1 h2 :: unmime_all rest'
      else ch :: unmime_all rest
    | _ => ch :: unmime_all rest
    end
  end.

(** ** Parts *)

(** A field of [UrlParts] with its flag [has_]. *)
Record Part : Type := { has : bool; text : list Z }.

Definition absent : Part := {| has := false; text := [] |}.
Definition given (t : list Z) : Part := {| has := true; text := t |}.
(** What the constructor of [UrlParts] makes of a text. *)
Definition part_of (t : list Z) : Part := {| has := negb (is_nil t); text := t |}.

Record UrlParts : Type := {
  scheme : Part; userinfo : Part; host : Part; port : Part; path : Part; query : Part; fragment : Part
}.

Definition UrlParts_ (scheme userinfo host port path query fragment : list Z) : UrlParts :=
  {| scheme := part_of scheme; userinfo := part_of userinfo; host := part_of host; port := part_of port;
     path := part_of path; query := part_of query; fragment := part_of fragment |}.

(** [host_after] are the octets that follow [host] in the text it points into. *)
Record ExtendedUrlParts : Type := { parts :> UrlParts; authority : list Z; host_after : list Z }.

Definition clear : ExtendedUrlParts :=
  {| parts := {| scheme := absent; userinfo := absent; host := absent; port := absent; path := absent;
                 query := absent; fragment := absent |}; authority := []; host_after := [] |}.

(** *** split_url *)

(** Scheme, authority with what follows it, path, query and fragment. *)
Record Split : Type := {
  s_scheme : Part; s_authority : list Z; s_after : list Z; s_path : Part; s_query : Part; s_fragment : Part
}.

Definition split_fragment (sc : Part) (au af : list Z) (pa qu : Part) (cur : list Z) : outcome Split :=
  match cur with
  | [] => Undef
  | c :: rest => guard (c =? "#"%uchar)
    (Ret {| s_scheme := sc; s_authority := au; s_after := af; s_path := pa; s_query := qu; s_fragment := given rest |})
  end.

Definition split_query (sc : Part) (au af : list Z) (pa : Part) (cur : list Z) : outcome Split :=
  match cur with
  | [] => Undef
  | c :: cur' =>
    if c =? "?"%uchar then
      let end_ := find_owned URL_PARSER_QUERY_END cur' in
      let qu := given (range cur' end_) in
      match end_ with
      | [] => Ret {| s_scheme := sc; s_authority := au; s_after := af; s_path := pa; s_query := qu; s_fragment := absent |}
      | _ => split_fragment sc au af pa qu end_
      end
    else split_fragment sc au af pa absent cur
  end.

Definition split_path (sc : Part) (au af : list Z) (cur : list Z) : outcome Split :=
  let end_ := find_owned URL_PARSER_PATH_END cur in
  let pa := given (range cur end_) in
  match end_ with
  | [] => Ret {| s_scheme := sc; s_authority := au; s_after := af; s_path := pa; s_query := absent; s_fragment := absent |}
  | _ => split_query sc au af pa end_
  end.

(** From [if ( *cur != '?' && *cur != '#')] on. *)
Definition split_hier (sc : Part) (cur : list Z) : outcome Split :=
  match cur with
  | [] => Undef
  | c :: cur1 =>
    if negb (c =? "?"%uchar) && negb (c =? "#"%uchar) then
      match cur1 with
      | c1 :: cur2 =>
        if (c =? "/"%uchar) && (c1 =? "/"%uchar) then
          match cur2 with
          | [] => Ret {| s_scheme := sc; s_authority := []; s_after := []; s_path := absent; s_query := absent;
                         s_fragment := absent |}
          | _ =>
            let end_ := find_owned URL_PARSER_AUTORITY_END cur2 in
            let au := range cur2 end_ in
            match end_ with
            | [] => Ret {| s_scheme := sc; s_authority := au; s_after := []; s_path := absent; s_query := absent;
                           s_fragment := absent |}
            | _ => split_path sc au end_ end_
            end
          end
        else split_path sc [] [] cur
      | [] => split_path sc [] [] cur
      end
    else split_query sc [] [] absent cur
  end.

Definition split_parts (url : list Z) : outcome Split :=
  match find_owned URL_PARSER_SCHEME_END url with
  | [] => Ret {| s_scheme := absent; s_authority := []; s_after := []; s_path := given url; s_query := absent;
                 s_fragment := absent |}
  | c :: rest =>
    if c =? ":"%uchar then
      let sc := given (range url (c :: rest)) in
      match rest with
      | [] => Ret {| s_scheme := sc; s_authority := []; s_after := []; s_path := absent; s_query := absent;
                     s_fragment := absent |}
      | _ => split_hier sc rest
      end
    else split_hier absent url
  end.

(** The second half: userinfo and the position of the host, *)
Definition split_userinfo (authority : list Z) : outcome (Part * nat) :=
  match SubString_find_char authority "@"%uchar 0 with
  | Some host_begin =>
    let* ui := if negb (host_begin =? 0)%nat then let* u := substr authority 0 host_begin in Ret (given u)
               else Ret absent in
    Ret (ui, (host_begin + 1)%nat)
  | None => Ret (absent, O)
  end.

(** port and the end of the host, *)
Definition split_port (authority : list Z) (host_begin : nat) : outcome (Part * nat) :=
  let host_end :=
    match SubString_rfind_char authority ":"%uchar with
    | Some e => if negb (host_begin =? 0)%nat && (e <? host_begin)%nat then None else Some e
    | None => None
    end in
  match host_end with
  | Some e =>
    if negb (e =? length authority - 1)%nat then
      let* p := substr authority (e + 1) (length authority - e) in Ret (given p, e)
    else Ret (absent, e)
  | None => Ret (absent, length authority)
  end.

(** and the host with what follows it in the authority. *)
Definition split_authority (authority : list Z) : outcome (Part * Part * Part * list Z) :=
  match authority with
  | [] => Ret (absent, absent, absent, [])
  | _ =>
    let* (ui, host_begin) := split_userinfo authority in
    let* (po, host_end) := split_port authority host_begin in
    let* h := substr authority host_begin (host_end - host_begin) in
    Ret (ui, given h, po, drop host_end authority)
  end.

Definition split_url (url : list Z) : outcome ExtendedUrlParts :=
  let* s := split_parts url in
  let* (ui, ho, po, af) := split_authority (s_authority s) in
  Ret {| parts := {| scheme := s_scheme s; userinfo := ui; host := ho; port := po; path := s_path s;
                     query := s_query s; fragment := s_fragment s |};
         authority := s_authority s; host_after := af ++ s_after s |}.

(** ** URLPartsChecker *)

(** The message of a check, or [None] when it passes ([make_invalid]; the text of the URL
    in the message is left out). *)
Definition make_invalid (type : string) : option string := Some ("invalid " +:+ type)%string.

Definition check_scheme (p : Part) : option string :=
  if (match text p with
      | [] => has p
      | c :: rest => negb (is_owned SCHEME_FIRST c) || negb (is_valid_chars rest SCHEME_NOT_FIRST)
      end)
  then make_invalid "scheme in url" else None.

Definition check_encoded (p : Part) (category : CharTable) (type : string) : outcome (option string) :=
  match text p with
  | [] => Ret None
  | t => let* ok := is_valid_encoded t category in Ret (if ok : bool then None else make_invalid type)
  end.

Definition check_label (label : list Z) : outcome (option string) :=
  let size := length label in
  if (size =? 0)%nat || (MAX_HOSTNAME_LABEL_SIZE <? size)%nat
  then Ret (make_invalid "length of host's label in url")
  else
    let* first := rd label 0 in
    let* last := rd label (size - 1) in
    let* middle := if (2 <? size)%nat then substr label 1 (size - 2) else Ret [] in
    Ret (if negb (call LABEL_FIRST_LAST first) || ((1 <? size)%nat && negb (call LABEL_FIRST_LAST last)) ||
            ((2 <? size)%nat && negb (is_valid_chars middle LABEL_MIDDLE))
         then make_invalid "characters in host's label in url" else None).

Fixpoint check_labels (fuel : nat) (labels : SplitterState) : outcome (option string) :=
  match fuel with
  | O => Undef
  | S fuel' =>
    let* (token, labels) := get_token LabelSeparatorCategory true labels in
    match token with
    | None => Ret None
    | Some label =>
      let* error := check_label label in
      match error with
      | None => check_labels fuel' labels
      | error => Ret error
      end
    end
  end.

Definition check_host (host userinfo port : list Z) : outcome (option string) :=
  match host with
  | [] => Ret (if negb (is_nil userinfo) || negb (is_nil port) then make_invalid "empty host in url" else None)
  | _ =>
    if (MAX_HOSTNAME_SIZE <? length host)%nat || negb (is_valid_chars host HOST)
    then Ret (make_invalid "host in url")
    else
      let* last := rd host (length host - 1) in
      let* labels := if last =? LABEL_SEPARATOR then substr host 0 (length host - 1) else Ret host in
      check_labels (S (length labels)) (SplitterState_ labels)
  end.

Definition PATH_SEPARATOR : Z := "/"%uchar.

Definition check_path (host : list Z) (p : Part) : outcome (option string) :=
  match text p with
  | [] => Ret None
  | c0 :: rest =>
    let bad :=
      match host with
      | _ :: _ => negb (c0 =? PATH_SEPARATOR)
      | [] => (c0 =? PATH_SEPARATOR) && match rest with c1 :: _ => c1 =? PATH_SEPARATOR | [] => false end
      end in
    if bad then Ret (make_invalid "path in url")
    else let* ok := is_valid_encoded (text p) PATH in Ret (if ok : bool then None else make_invalid "path in url")
  end.

(** The first error, if any. *)
Definition orelse (m : outcome (option string)) (k : outcome (option string)) : outcome (option string) :=
  let* error := m in match error with None => k | error => Ret error end.

Definition URLPartsChecker (p : UrlParts) : outcome (option string) :=
  orelse (Ret (check_scheme (scheme p)))
  (orelse (check_encoded (userinfo p) USER_INFO "userinfo in url")
  (orelse (check_host (text (host p)) (text (userinfo p)) (text (port p)))
  (orelse (Ret (if negb (is_nil (text (port p))) && negb (is_valid_chars (text (port p)) PORT)
                then make_invalid "port in url" else None))
  (orelse (check_path (text (host p)) (path p))
  (orelse (check_encoded (query p) QUERY "query in url")
          (check_encoded (fragment p) FRAGMENT "fragment in url")))))).

Definition URLChecker (url : list Z) : outcome bool :=
  let* p := split_url url in
  let* error := URLPartsChecker p in
  Ret (match error with None => true | Some _ => false end).

(** ** Assembling *)

Definition has_authority (p : UrlParts) : bool :=
  has (userinfo p) || negb (is_nil (text (host p))) || has (port p).

Definition assemble_authority (p : UrlParts) : list Z :=
  (if has (userinfo p) then text (userinfo p) ++ bytes "@" else []) ++ text (host p) ++
  (if has (port p) then bytes ":" ++ text (port p) else []).

Definition assemble_tail (p : UrlParts) : list Z :=
  text (path p) ++
  (if has (query p) then bytes "?" ++ text (query p) else []) ++
  (if has (fragment p) then bytes "#" ++ text (fragment p) else []).

Definition assemble (p : UrlParts) : list Z :=
  (if is_nil (text (scheme p)) then [] else text (scheme p) ++ bytes ":") ++
  (if has_authority p then bytes "//" ++ assemble_authority p else []) ++ assemble_tail p.

(** [parts_] after the assembling: the parts are cut out of the new [url_] by their sizes;
    [ptr] is the text from the pointer on. *)
Definition cut (ptr : list Z) (size : nat) : outcome (list Z) :=
  if (size <=? length ptr)%nat then Ret (take size ptr) else Undef.

Definition adjust_authority (p : UrlParts) (authority : list Z) : outcome (Part * Part * Part * list Z) :=
  let host_begin := (length (text (userinfo p)) + (if has (userinfo p) then 1 else 0))%nat in
  let* ui := if has (userinfo p) then let* u := substr authority 0 (length (text (userinfo p))) in Ret (given u)
             else Ret absent in
  let* ho := if negb (is_nil (text (host p))) then
               let* h := substr authority host_begin (length (text (host p))) in Ret (given h)
             else Ret absent in
  let* po := if has (port p) then
               let* o := substr authority (length authority - length (text (port p))) (length (text (port p))) in
               Ret (given o)
             else Ret absent in
  Ret (ui, ho, po, drop (host_begin + length (text (host p))) authority).

Definition adjust_scheme (p : UrlParts) (ptr : list Z) : outcome (Part * list Z) :=
  if is_nil (text (scheme p)) then Ret (absent, ptr)
  else
    let* s := cut ptr (length (text (scheme p))) in
    Ret (given s, drop (length (text (scheme p)) + 1) ptr).

(** userinfo, host, port, authority, what follows the host, and the new pointer *)
Definition adjust_hier (p : UrlParts) (authority_size : nat) (ptr : list Z)
  : outcome (Part * Part * Part * list Z * list Z * list Z) :=
  if has_authority p then
    let ptr := drop 2 ptr in
    let* au := cut ptr authority_size in
    let ptr := drop authority_size ptr in
    let* (ui, ho, po, af) := adjust_authority p au in
    Ret (ui, ho, po, au, af ++ ptr, ptr)
  else Ret (absent, absent, absent, [], [], ptr).

(** A query or a fragment behind its separator. *)
Definition adjust_part (x : Part) (ptr : list Z) : outcome (Part * list Z) :=
  if has x then
    let ptr := drop 1 ptr in
    let* t := cut ptr (length (text x)) in
    Ret (given t, drop (length (text x)) ptr)
  else Ret (absent, ptr).

Definition adjust (p : UrlParts) (url_ : list Z) (authority_size : nat) : outcome ExtendedUrlParts :=
  let* (sc, ptr) := adjust_scheme p url_ in
  let* (ui, ho, po, au, af, ptr) := adjust_hier p authority_size ptr in
  let* pa := cut ptr (length (text (path p))) in
  let ptr := drop (length (text (path p))) ptr in
  let* (qu, ptr) := adjust_part (query p) ptr in
  let* (fr, _) := adjust_part (fragment p) ptr in
  Ret {| parts := {| scheme := sc; userinfo := ui; host := ho; port := po; path := given pa; query := qu;
                     fragment := fr |}; authority := au; host_after := af |}.

(** [url_] and [parts_] after [assign_url_parts_] *)
Definition assign_url_parts_ (p : UrlParts) (check : bool) : outcome (list Z * ExtendedUrlParts) :=
  let new_url := assemble p in
  let authority_size := if has_authority p then length (assemble_authority p) else O in
  let* error := if check then URLPartsChecker p else Ret None in
  match error with
  | Some e => Throw (InvalidURL e)
  | None => let* parts_ := adjust p new_url authority_size in Ret (new_url, parts_)
  end.

(** ** Percent encoded texts: facts *)

#[local] Arguments call : simpl never.
#[local] Opaque HEX_NUMBER USER_INFO PATH QUERY FRAGMENT HOST PORT SCHEME_FIRST SCHEME_NOT_FIRST LABEL_FIRST_LAST
  LABEL_MIDDLE URL_PARSER_SCHEME_END.

Abbreviation hexb h := (call HEX_NUMBER h).

(** Characters of a category and percent encoded octets. *)
Inductive encoded (category : CharTable) : list Z -> Prop :=
| encoded_nil : encoded category []
| encoded_char ch s : call category ch = true -> encoded category s -> encoded category (ch :: s)
| encoded_octet h1 h2 s : hexb h1 = true -> hexb h2 = true -> encoded category s ->
    encoded category ("%"%uchar :: h1 :: h2 :: s).

(** A text that does not begin with a character of the category nor with an octet. *)
Definition no_octet (s : list Z) : bool :=
  match s with h1 :: h2 :: _ => negb (hexb h1) || negb (hexb h2) | _ => true end.

Definition bad (category : CharTable) (s : list Z) : Prop :=
  match s with
  | [] => False
  | ch :: rest => call category ch = false /\ (ch = "%"%uchar -> no_octet rest = true)
  end.

(** A category without the percent sign. *)
Class PctFree (category : CharTable) : Prop := { pct_free : call category "%"%uchar = false }.

Section Encoded.
Context (category : CharTable) `{Hpct : !PctFree category}.

Lemma encoded_app a b : encoded category a -> encoded category b -> encoded category (a ++ b).
Proof using. intros Ha Hb. induction Ha; cbn; [done|by constructor|by constructor]. Qed.

Lemma encoded_chars s : Forall (fun ch => call category ch = true) s -> encoded category s.
Proof using. induction 1; by constructor. Qed.

Lemma encoded_cancel a b : encoded category a -> encoded category (a ++ b) -> encoded category b.
Proof using Hpct.
  intros Ha. induction Ha as [|ch s Hc _ IH|h1 h2 s _ _ _ IH]; cbn [app]; [done|..]; intros Hs; apply IH; inversion Hs; subst; done || by destruct Hpct; congruence.
Qed.

Lemma encoded_not_bad s : encoded category s -> bad category s -> False.
Proof using Hpct.
  intros [|ch s' Hc _|h1 h2 s' H1 H2 _]; cbn [bad]; [done|..].
  - intros [E _]. congruence.
  - intros [_ E]. specialize (E eq_refl). cbn [no_octet] in E. by rewrite H1, H2 in E.
Qed.

Lemma find_invalid_loop_ok fuel : forall str, (length str < fuel)%nat ->
  exists pre rest, find_invalid_loop fuel category str = Ret rest /\ str = pre ++ rest /\
  encoded category pre /\ (rest = [] \/ bad category rest).
Proof using Hpct.
  induction fuel as [|fuel IH]; intros str Hf; [lia|]. cbn [find_invalid_loop].
  destruct (find_nonowned_split category str) as (pre & Es & Hp & Hh).
  assert (He : encoded category pre) by (apply encoded_chars; exact Hp).
  destruct (find_nonowned category str) as [|ch rest] eqn:E.
  { exists pre, []. split; [done|]. split; [done|]. split; [done|by left]. }
  specialize (Hh ch rest eq_refl). change (call category ch = false) in Hh.
  destruct (Z.eqb_spec ch "%"%uchar) as [->|Hc]; cbn [negb].
  2: { exists pre, (ch :: rest). split; [done|]. split; [done|]. split; [done|]. by right. }
  destruct (no_octet rest) eqn:En.
  - exists pre, ("%"%uchar :: rest). split.
    { destruct rest as [|h1 [|h2 rest']]; [done..|]. cbn [no_octet] in En. by rewrite En. }
    split; [done|]. split; [done|]. by right.
  - destruct rest as [|h1 [|h2 rest']]; [done..|]. cbn [no_octet] in En. rewrite En.
    apply orb_false_iff in En as [H1%negb_false_iff H2%negb_false_iff].
    destruct (IH rest') as (pre' & r & -> & -> & Hpre' & Hr).
    { subst str. rewrite length_app in Hf. cbn in Hf. lia. }
    exists (pre ++ "%"%uchar :: h1 :: h2 :: pre'), r. split; [done|]. split; [by rewrite <- app_assoc|].
    split; [|done]. apply encoded_app; [done|]. by constructor.
Qed.

Lemma find_invalid_ok str : exists pre rest, find_invalid str category = Ret rest /\ str = pre ++ rest /\
  encoded category pre /\ (rest = [] \/ bad category rest).
Proof using Hpct. apply find_invalid_loop_ok. lia. Qed.

Lemma is_valid_encoded_ok str : exists b, is_valid_encoded str category = Ret b /\ (b = true <-> encoded category str).
Proof using Hpct.
  unfold is_valid_encoded. destruct (find_invalid_ok str) as (pre & rest & -> & -> & Hp & Hr). cbn [obind].
  exists (is_nil rest). split; [done|]. destruct rest as [|ch rest]; cbn [is_nil].
  - rewrite app_nil_r. done.
  - split; [done|]. intros He. destruct Hr as [|Hb]; [done|]. destruct (encoded_not_bad _ (encoded_cancel pre _ Hp He) Hb).
Qed.
End Encoded.

Lemma in_table (t : CharTable) ch : call t 0 = false -> length (table_ t) = 256%nat -> call t ch = true -> is_byte ch.
Proof.
  unfold call, CharTable_call, tab, is_byte. intros H0 Hl Hc. destruct (Z.ltb_spec ch 0).
  - replace (Z.to_nat ch) with (Z.to_nat 0) in Hc by lia. congruence.
  - destruct (Z.ltb_spec ch 256); [lia|]. rewrite nth_overflow in Hc by lia. done.
Qed.

(** The categories of the parts: no percent sign in any of them. *)
#[export] Instance USER_INFO_pct : PctFree USER_INFO.
Proof. constructor. vm_compute. reflexivity. Qed.

#[export] Instance PATH_pct : PctFree PATH.
Proof. constructor. vm_compute. reflexivity. Qed.

#[export] Instance QUERY_pct : PctFree QUERY.
Proof. constructor. vm_compute. reflexivity. Qed.

#[export] Instance FRAGMENT_pct : PctFree FRAGMENT.
Proof. constructor. vm_compute. reflexivity. Qed.

Lemma fragment_query : FRAGMENT = QUERY.
Proof. reflexivity. Qed.

Lemma query_byte ch : call QUERY ch = true -> is_byte ch.
Proof. apply in_table; vm_compute; reflexivity. Qed.

Lemma query_path ch : call QUERY ch = true -> ch <> "?"%uchar -> call PATH ch = true.
Proof.
  intros Hc Hn. pose proof (query_byte ch Hc) as Hb.
  assert (E : negb (call QUERY ch) || (ch =? "?"%uchar) || call PATH ch = true) by byte_eval ch.
  rewrite Hc, (proj2 (Z.eqb_neq _ _) Hn) in E. exact E.
Qed.

Lemma encoded_impl (c1 c2 : CharTable) s : (forall ch, In ch s -> call c1 ch = true -> call c2 ch = true) ->
  encoded c1 s -> encoded c2 s.
Proof.
  intros Hi He. induction He as [|ch s Hc _ IH|h1 h2 s H1 H2 _ IH].
  - apply encoded_nil.
  - apply encoded_char; [apply Hi; [by left|done]|]. apply IH. intros x Hx. apply Hi. by right.
  - apply encoded_octet; [done..|]. apply IH. intros x Hx. apply Hi. right. right. by right.
Qed.

(** *** Decoding *)

Lemma unmime_all_octet h1 h2 s : hexb h1 = true -> hexb h2 = true ->
  unmime_all ("%"%uchar :: h1 :: h2 :: s) = hex_to_char h1 h2 :: unmime_all s.
Proof. intros H1 H2. cbn [unmime_all]. by rewrite H1, H2. Qed.

Lemma unmime_all_char ch s : (ch = "%"%uchar -> no_octet s = true) -> unmime_all (ch :: s) = ch :: unmime_all s.
Proof.
  intros Hn. destruct s as [|h1 [|h2 s]]; [done..|]. cbn [unmime_all].
  destruct (Z.eqb_spec ch "%"%uchar) as [E|]; cbn [andb]; [|done]. specialize (Hn E). cbn [no_octet] in Hn.
  destruct (hexb h1); [|done]. destruct (hexb h2); [|done]. done.
Qed.

Lemma unmime_all_app (c : CharTable) `{!PctFree c} a b : encoded c a ->
  unmime_all (a ++ b) = unmime_all a ++ unmime_all b.
Proof.
  intros Ha. induction Ha as [|ch s Hc _ IH|h1 h2 s H1 H2 _ IH]; cbn [app]; [done|..].
  - assert (Hn : ch = "%"%uchar -> False) by (intros ->; destruct PctFree0; congruence).
    rewrite !unmime_all_char by (intros E; destruct (Hn E)). by rewrite IH.
  - rewrite !unmime_all_octet by done. by rewrite IH.
Qed.

(** *** Repair *)

Definition octet_of (CH : Z) : list Z :=
  ["%"%uchar; tab 0 HEX_DIGITS (Z.land (Z.shiftr CH 4) 0x0F); tab 0 HEX_DIGITS (Z.land CH 0x0F)].

Lemma octet_of_ok CH : is_byte CH -> exists h1 h2, octet_of CH = ["%"%uchar; h1; h2] /\
  hexb h1 = true /\ hexb h2 = true /\ hex_to_char h1 h2 = CH.
Proof.
  intros Hb. eexists _, _. split; [reflexivity|]. split; [byte_eval CH|]. split; [byte_eval CH|]. apply Z.eqb_eq. byte_eval CH.
Qed.

Definition escape_char (ch : Z) : bool := (ch =? "%"%uchar) || hexb ch.

Lemma http_fix_loop_ok fuel : forall str new_part, (length str < fuel)%nat -> bytes_ok str -> (exists c, bad c str) ->
  exists out, http_fix_loop fuel str new_part = Ret (new_part ++ out) /\ encoded QUERY out /\
  unmime_all out = unmime_all str /\ forall ch, In ch out -> escape_char ch = true \/ In ch str.
Proof.
  induction fuel as [|fuel IH]; intros str new_part Hf Hb Hbad; [lia|]. cbn [http_fix_loop].
  destruct str as [|CH OLD]; [by destruct Hbad|]. inversion_clear Hb as [|? ? Hch Hb']. destruct Hbad as (c0 & _ & Hbad).
  destruct (octet_of_ok CH Hch) as (h1 & h2 & Eo & Hh1 & Hh2 & Ech). change ([_; tab _ _ _; _]) with (octet_of CH). rewrite Eo.
  destruct (find_invalid_ok QUERY OLD) as (pre & rest & -> & -> & Hp & Hr).
  cbn [obind]. rewrite range_app. rewrite unmime_all_char by done. cbn [length] in Hf. rewrite length_app in Hf.
  apply Forall_app in Hb' as [_ Hbr].
  assert (Hin : forall ch, In ch ("%"%uchar :: h1 :: h2 :: pre) -> escape_char ch = true \/ In ch (CH :: pre ++ rest)).
  { unfold escape_char. intros ch [<-|[<-|[<-|Hc]]]; [by left| | |].
    - left. by rewrite Hh1, orb_true_r.
    - left. by rewrite Hh2, orb_true_r.
    - right. right. apply in_or_app. by left. }
  assert (He : encoded QUERY ("%"%uchar :: h1 :: h2 :: pre)) by by constructor.
  assert (Eu : unmime_all ("%"%uchar :: h1 :: h2 :: pre) = CH :: unmime_all pre).
  { rewrite unmime_all_octet by done. by rewrite Ech. }
  rewrite (unmime_all_app QUERY pre rest Hp).
  destruct rest as [|ch rest].
  - exists ("%"%uchar :: h1 :: h2 :: pre). rewrite <- app_assoc, Eu. change (unmime_all []) with (@nil Z). rewrite app_nil_r.
    split; [done|]. split; [done|]. split; [done|]. exact Hin.
  - destruct Hr as [|Hr]; [done|].
    destruct (IH (ch :: rest) ((new_part ++ ["%"%uchar; h1; h2]) ++ pre) ltac:(lia) Hbr (ex_intro _ QUERY Hr)) as (out & -> & Ho & Ed & Hin').
    exists (("%"%uchar :: h1 :: h2 :: pre) ++ out). split; [f_equal; by rewrite <- !app_assoc|]. split; [by apply encoded_app|].
    split.
    + rewrite (unmime_all_app QUERY _ out He), Eu, Ed. done.
    + intros x [Hx|Hx]%in_app_or; [by apply Hin|]. destruct (Hin' x Hx) as [|Hx']; [by left|].
      right. right. apply in_or_app. by right.
Qed.

Lemma http_fix_part_ok (checker : CharTable) `{!PctFree checker} part : bytes_ok part ->
  exists r, http_fix_part part checker = Ret r /\
  match r with
  | None => encoded checker part
  | Some new_part => ~ encoded checker part /\ unmime_all new_part = unmime_all part /\
    (forall ch, In ch new_part -> escape_char ch = true \/ In ch part) /\
    exists pre rest out, part = pre ++ rest /\ bad checker rest /\ new_part = pre ++ out /\
      encoded checker pre /\ encoded QUERY out
  end.
Proof.
  intros Hb. unfold http_fix_part.
  destruct (find_invalid_ok checker part) as (pre & rest & -> & -> & He & Hr). cbn [obind]. rewrite range_app.
  destruct rest as [|ch rest]; [exists None; by rewrite app_nil_r|]. destruct Hr as [|Hr]; [done|].
  apply Forall_app in Hb as [_ Hb].
  destruct (http_fix_loop_ok (S (length (pre ++ ch :: rest))) (ch :: rest) pre) as (out & -> & Ho & Ed & Hin);
    [rewrite length_app; lia|done|by exists checker|]. cbn [obind]. eexists. split; [done|]. split; [|split; [|split]].
  - intros Hc. exact (encoded_not_bad checker _ (encoded_cancel checker pre _ He Hc) Hr).
  - rewrite !(unmime_all_app checker pre) by done. by rewrite Ed.
  - intros x [Hx|Hx]%in_app_or; [right; apply in_or_app; by left|]. destruct (Hin x Hx); [by left|].
    right. apply in_or_app. by right.
  - by exists pre, (ch :: rest), out.
Qed.

(** Outside strict mode a path, a query and a fragment are always made valid: what
    [http_fix_part] returns is percent encoded and stands for the same octets, and a
    valid part is left alone.  In a userinfo only the first bad character is looked up
    in its own category, so the result may still be invalid. *)
Theorem http_fix_part_correct part : bytes_ok part ->
  (forall checker, checker = QUERY \/ checker = FRAGMENT \/ (checker = PATH /\ ~ In "?"%uchar part) ->
    (http_fix_part part checker = Ret None /\ encoded checker part) \/
    exists new_part, http_fix_part part checker = Ret (Some new_part) /\ ~ encoded checker part /\
    encoded checker new_part /\ unmime_all new_part = unmime_all part) /\
  http_fix_part (bytes "<[") USER_INFO = Ret (Some (bytes "%3C[")) /\
  is_valid_encoded (bytes "%3C[") USER_INFO = Ret false.
Proof.
  intros Hb. split; [|split; vm_compute; reflexivity].
  assert (H : forall checker, PctFree checker ->
    (forall ch, escape_char ch = true \/ In ch part -> call QUERY ch = true -> call checker ch = true) ->
    (http_fix_part part checker = Ret None /\ encoded checker part) \/
    exists new_part, http_fix_part part checker = Ret (Some new_part) /\ ~ encoded checker part /\
    encoded checker new_part /\ unmime_all new_part = unmime_all part).
  { intros checker Hp Hi. destruct (http_fix_part_ok checker part Hb) as ([new_part|] & -> & Hr); [|by left].
    destruct Hr as (Hn & Ed & Hin & pre & rest & out & _ & _ & E & He & Ho). right. exists new_part. split; [done|]. split; [done|].
    split; [|done]. rewrite E. apply encoded_app; [done|]. apply (encoded_impl QUERY); [|done]. intros ch Hc. apply Hi, Hin.
    rewrite E. apply in_or_app. by right. }
  intros checker [-> | [-> | [-> Hq]]]; apply H; try apply _; try done. intros ch Hc Hch. apply query_path; [done|]. intros ->.
  destruct Hc as [Hc|Hc]; [|done]. by vm_compute in Hc.
Qed.

Lemma http_fix_part_correct_witness :
  http_fix_part (bytes "a<b%zz") PATH = Ret (Some (bytes "a%3Cb%25zz")) /\
  encoded PATH (bytes "a%3Cb%25zz") /\ unmime_all (bytes "a%3Cb%25zz") = unmime_all (bytes "a<b%zz").
Proof.
  assert (Hb : bytes_ok (bytes "a<b%zz")) by by_eval.
  assert (Hq : PATH = PATH /\ ~ In "?"%uchar (bytes "a<b%zz")) by (split; [done|]; vm_compute; intuition discriminate).
  assert (E : http_fix_part (bytes "a<b%zz") PATH = Ret (Some (bytes "a%3Cb%25zz"))) by (vm_compute; reflexivity).
  split; [exact E|]. destruct (proj1 (http_fix_part_correct _ Hb) PATH (or_intror (or_intror Hq))) as [[E' _]|(n & E' & _ & H)].
  - rewrite E in E'. discriminate.
  - rewrite E in E'. injection E' as <-. exact H.
Defined.

(** ** Splitting: facts *)

(** No character of [stops] occurs. *)
Abbreviation stop stops ch := (existsb (Z.eqb ch) stops).
Definition free (stops s : list Z) : Prop := Forall (fun ch => stop stops ch = false) s.

(** The end, or a character of [stops]. *)
Definition ends (stops s : list Z) : Prop := match s with [] => True | ch :: _ => stop stops ch = true end.

Lemma cut_unique stops a b r r' : free stops a -> free stops b -> ends stops r -> ends stops r' ->
  a ++ r = b ++ r' -> a = b /\ r = r'.
Proof.
  intros Ha Hb Hr Hr'. revert b Hb. induction Ha as [|ch a Hc _ IH]; intros b Hb E; destruct Hb as [|ch' b Hc' Hb]; cbn in E.
  - done.
  - subst r. cbn in Hr. congruence.
  - subst r'. cbn in Hr'. congruence.
  - injection E as -> E. by destruct (IH b Hb E) as [-> ->].
Qed.

Lemma find_owned_free {P} `{CharPredicate P} (c : P) stops s : (forall ch, call c ch = stop stops ch) ->
  exists pre, s = pre ++ find_owned c s /\ free stops pre /\ ends stops (find_owned c s).
Proof.
  intros Hc. destruct (find_owned_split c s) as (pre & Es & Hp & Hh). exists pre. split; [done|]. split.
  - eapply Forall_impl; [exact Hp|]. intros ch E. by rewrite <- Hc.
  - destruct (find_owned c s) as [|ch t]; [done|]. cbn. rewrite <- Hc. by apply (Hh ch t).
Qed.

Lemma scheme_end_stops ch : call URL_PARSER_SCHEME_END ch = stop (bytes ":/?#") ch.
Proof.
  destruct (Z.leb_spec 0 ch), (Z.ltb_spec ch 256).
  - assert (Hb : is_byte ch) by (unfold is_byte; lia).
    apply eqb_prop. assert (E : Bool.eqb (call URL_PARSER_SCHEME_END ch) (stop (bytes ":/?#") ch) = true) by byte_eval ch. exact E.
  - assert (E : call URL_PARSER_SCHEME_END ch = false).
    { destruct (call URL_PARSER_SCHEME_END ch) eqn:E; [|done]. apply in_table in E; [unfold is_byte in E; lia|by vm_compute..]. }
    rewrite E. symmetry. cbn. by decide_Z.
  - assert (E : call URL_PARSER_SCHEME_END ch = false).
    { destruct (call URL_PARSER_SCHEME_END ch) eqn:E; [|done]. apply in_table in E; [unfold is_byte in E; lia|by vm_compute..]. }
    rewrite E. symmetry. cbn. by decide_Z.
  - lia.
Qed.

Lemma authority_end_stops ch : call URL_PARSER_AUTORITY_END ch = stop (bytes "/?#") ch.
Proof. unfold call, Char3_call. cbn. by rewrite orb_false_r, orb_assoc. Qed.

Lemma path_end_stops ch : call URL_PARSER_PATH_END ch = stop (bytes "?#") ch.
Proof. unfold call, Char2_call. cbn. by rewrite orb_false_r. Qed.

Lemma query_end_stops ch : call URL_PARSER_QUERY_END ch = stop (bytes "#") ch.
Proof. unfold call, Char1_call. cbn. by rewrite orb_false_r. Qed.

(** The components of RFC 3986, with the optional ones as options. *)
Record components : Type := {
  c_scheme : option (list Z); c_authority : option (list Z); c_path : list Z; c_query : option (list Z);
  c_fragment : option (list Z)
}.

(** A component behind its separator. *)
Definition opt_text (separator : string) (o : option (list Z)) : list Z :=
  match o with Some t => bytes separator ++ t | None => [] end.

Definition query_text (c : components) : list Z := opt_text "?" (c_query c).
Definition fragment_text (c : components) : list Z := opt_text "#" (c_fragment c).
Definition tail_text (c : components) : list Z := c_path c ++ query_text c ++ fragment_text c.
Definition hier_text (c : components) : list Z :=
  opt_text "//" (c_authority c) ++ tail_text c.
Definition url_text (c : components) : list Z :=
  match c_scheme c with Some s => s ++ bytes ":" | None => [] end ++ hier_text c.

(** A component of an optional text. *)
Definition opt_free (stops : list Z) (o : option (list Z)) : Prop := free stops (default [] o).

(** Everything after the scheme. *)
Record hier_shape (c : components) : Prop := {
  hs_authority : match c_authority c with
    | Some a => free (bytes "/?#") a /\ ends (bytes "/?#") (tail_text c)
    | None => forall rest, tail_text c <> bytes "//" ++ rest
    end;
  hs_path : free (bytes "?#") (c_path c);
  hs_query : opt_free (bytes "#") (c_query c)
}.

(** How [split_url] reads a text: up to a colon before any of [/?#] there is a scheme, which
    may be empty. *)
Record url_shape (url : list Z) (c : components) : Prop := {
  us_text : url = url_text c;
  us_scheme : match c_scheme c with
    | Some s => free (bytes ":/?#") s
    | None => forall pre post, url = pre ++ bytes ":" ++ post -> ~ free (bytes ":/?#") pre
    end;
  us_hier : hier_shape c
}.

(** The regular expression of appendix B of RFC 3986, read with the longest matches:
    [(([^:/?#]+):)?(//([^/?#]* ))?([^?#]* )(\?([^#]* ))?(#(.* ))?]; a scheme is not empty. *)
Record rfc3986 (url : list Z) (c : components) : Prop := {
  rfc_text : url = url_text c;
  rfc_scheme : match c_scheme c with
    | Some s => s <> [] /\ free (bytes ":/?#") s
    | None => forall pre post, pre <> [] -> url = pre ++ bytes ":" ++ post -> ~ free (bytes ":/?#") pre
    end;
  rfc_hier : hier_shape c
}.

(** The two agree unless the text begins with the colon of an empty scheme. *)
Lemma url_shape_rfc url c : (forall rest, url <> bytes ":" ++ rest) -> url_shape url c <-> rfc3986 url c.
Proof.
  intros Hn. split; intros [E Hs Hh]; (split; [done| |done]); destruct (c_scheme c) as [s|] eqn:Es.
  - split; [|done]. intros ->. apply (Hn (hier_text c)). rewrite E. unfold url_text. by rewrite Es.
  - intros pre post _. apply Hs.
  - apply Hs.
  - intros [|ch pre] post Eu; [by destruct (Hn post)|]. by apply (Hs (ch :: pre) post).
Qed.

Lemma url_shape_colon rest c : url_shape (bytes ":" ++ rest) c -> c_scheme c = Some [] /\ rest = hier_text c.
Proof.
  intros [E Hs _]. unfold url_text in E. destruct (c_scheme c) as [[|ch s]|]; cbn in E.
  - split; [done|]. by injection E.
  - injection E as <- _. by inversion_clear Hs.
  - destruct (Hs [] rest eq_refl). constructor.
Qed.

Lemma fragment_ends c : ends (bytes "#") (fragment_text c).
Proof. unfold fragment_text, opt_text. by destruct (c_fragment c). Qed.

Lemma query_ends c : ends (bytes "?#") (query_text c ++ fragment_text c).
Proof. unfold query_text, fragment_text, opt_text. by destruct (c_query c), (c_fragment c). Qed.

Lemma tail_unique c c' : free (bytes "?#") (c_path c) -> free (bytes "?#") (c_path c') ->
  opt_free (bytes "#") (c_query c) -> opt_free (bytes "#") (c_query c') ->
  tail_text c = tail_text c' -> c_path c = c_path c' /\ c_query c = c_query c' /\ c_fragment c = c_fragment c'.
Proof.
  intros Hp Hp' Hq Hq' E. unfold tail_text in E.
  destruct (cut_unique _ _ _ _ _ Hp Hp' (query_ends c) (query_ends c') E) as [-> E']. split; [done|].
  pose proof (fragment_ends c) as He. pose proof (fragment_ends c') as He'. unfold query_text in E'. unfold opt_free in Hq, Hq'.
  destruct (c_query c) as [q|], (c_query c') as [q'|].
  - cbn in E', Hq, Hq'. injection E' as E'. destruct (cut_unique _ _ _ _ _ Hq Hq' He He' E') as [-> Ef].
    split; [done|]. unfold fragment_text, opt_text in Ef. by destruct (c_fragment c), (c_fragment c'); simplify_eq.
  - unfold fragment_text, opt_text in E'. by destruct (c_fragment c').
  - unfold fragment_text, opt_text in E'. by destruct (c_fragment c).
  - split; [done|]. unfold fragment_text, opt_text in E'. by destruct (c_fragment c), (c_fragment c'); cbn in E'; simplify_eq.
Qed.

Lemma url_shape_unique url c c' : url_shape url c -> url_shape url c' -> c = c'.
Proof.
  intros [E Hs [Ha Hp Hq]] [E' Hs' [Ha' Hp' Hq']]. rewrite E in E'. unfold url_text in E'.
  assert (H : c_scheme c = c_scheme c' /\ hier_text c = hier_text c').
  { destruct (c_scheme c) as [s|] eqn:Es, (c_scheme c') as [s'|] eqn:Es'.
    - rewrite <- !app_assoc in E'.
      destruct (cut_unique (bytes ":/?#") _ _ (bytes ":" ++ hier_text c) (bytes ":" ++ hier_text c') Hs Hs'
        eq_refl eq_refl E') as [-> E1]. by injection E1.
    - exfalso. apply (Hs' s (hier_text c)); [|done]. rewrite E. unfold url_text. by rewrite Es, <- app_assoc.
    - exfalso. apply (Hs s' (hier_text c')); [|done]. rewrite E. unfold url_text. by rewrite Es, E', <- app_assoc.
    - done. }
  destruct H as [Esc Eh]. unfold hier_text, opt_text in Eh.
  assert (H : c_authority c = c_authority c' /\ tail_text c = tail_text c').
  { destruct (c_authority c) as [a|], (c_authority c') as [a'|].
    - injection Eh as Eh. destruct Ha as [Ha He], Ha' as [Ha' He'].
      by destruct (cut_unique _ _ _ _ _ Ha Ha' He He' Eh) as [-> ->].
    - destruct (Ha' (a ++ tail_text c)). by rewrite app_assoc.
    - destruct (Ha (a' ++ tail_text c')). by rewrite app_assoc.
    - done. }
  destruct H as [Eau Et]. destruct (tail_unique c c' Hp Hp' Hq Hq' Et) as (Epa & Equ & Efr).
  destruct c, c'; cbn in *. congruence.
Qed.

Definition part_opt (o : option (list Z)) : Part := match o with Some t => given t | None => absent end.

(** What the first half of [split_url] stores for the components. *)
Record stores (s : Split) (c : components) : Prop := {
  st_scheme : s_scheme s = part_opt (c_scheme c);
  st_authority : s_authority s = default [] (c_authority c);
  st_after : s_after s = match c_authority c with Some _ => tail_text c | None => [] end;
  st_path : text (s_path s) = c_path c;
  st_has_path : has (s_path s) = false -> c_path c = [];
  st_query : s_query s = part_opt (c_query c);
  st_fragment : s_fragment s = part_opt (c_fragment c)
}.

Lemma split_query_ok sc au af pa cur : cur <> [] -> ends (bytes "?#") cur ->
  exists qu fr, cur = opt_text "?" qu ++ opt_text "#" fr /\ opt_free (bytes "#") qu /\
  split_query sc au af pa cur = Ret {| s_scheme := sc; s_authority := au; s_after := af; s_path := pa;
    s_query := part_opt qu; s_fragment := part_opt fr |}.
Proof.
  intros Hn He. destruct cur as [|c cur]; [done|]. change (stop [63; 35] c = true) in He. cbn in He. cbn [split_query].
  destruct (Z.eqb_spec c "?"%uchar) as [->|Hc].
  - destruct (find_owned_free URL_PARSER_QUERY_END (bytes "#") cur query_end_stops) as (q & Eq & Hq & Hend).
    destruct (find_owned URL_PARSER_QUERY_END cur) as [|c' fr].
    + exists (Some q), None. split; [cbn; by rewrite Eq, !app_nil_r|]. split; [done|]. by rewrite range_nil, Eq, app_nil_r.
    + change (stop [35] c' = true) in Hend. cbn in Hend. rewrite orb_false_r in Hend. apply Z.eqb_eq in Hend as ->. exists (Some q), (Some fr).
      split; [by rewrite Eq|]. split; [done|]. rewrite Eq, range_app. done.
  - cbn [orb] in He. rewrite orb_false_r in He. apply Z.eqb_eq in He as ->.
    exists None, (Some cur). split; [done|]. by split; [constructor|].
Qed.

Lemma split_path_ok sc au af cur :
  exists pa qu fr, cur = pa ++ opt_text "?" qu ++ opt_text "#" fr /\ free (bytes "?#") pa /\ opt_free (bytes "#") qu /\
  split_path sc au af cur = Ret {| s_scheme := sc; s_authority := au; s_after := af; s_path := given pa;
    s_query := part_opt qu; s_fragment := part_opt fr |}.
Proof.
  unfold split_path. destruct (find_owned_free URL_PARSER_PATH_END (bytes "?#") cur path_end_stops) as (pa & Ep & Hp & Hend).
  destruct (find_owned URL_PARSER_PATH_END cur) as [|c rest] eqn:E.
  - exists pa, None, None. split; [done|]. split; [done|]. split; [constructor|]. by rewrite range_nil, Ep, app_nil_r.
  - destruct (split_query_ok sc au af (given (range cur (c :: rest))) (c :: rest)) as (qu & fr & Ec & Hq & ->); [done..|].
    exists pa, qu, fr. split; [by rewrite Ep at 1; rewrite Ec|]. split; [done|]. split; [done|]. by rewrite Ep, range_app.
Qed.

(** The result for the text after the scheme. *)
Definition hier_split (sc : option (list Z)) (cur : list Z) (r : outcome Split) : Prop :=
  exists s c, r = Ret s /\ stores s c /\ cur = hier_text c /\ c_scheme c = sc /\ hier_shape c.

Lemma split_path_hier sc cur : (forall rest, cur <> bytes "//" ++ rest) ->
  hier_split sc cur (split_path (part_opt sc) [] [] cur).
Proof.
  intros Hs. destruct (split_path_ok (part_opt sc) [] [] cur) as (pa & qu & fr & Ecur & Hp & Hq & ->).
  eexists _, {| c_scheme := sc; c_authority := None; c_path := pa; c_query := qu; c_fragment := fr |}.
  split; [done|]. split; [by split|]. split; [done|]. split; [done|]. split; [|done..].
  intros rest E. apply (Hs rest). by rewrite Ecur.
Qed.

Lemma split_query_hier sc c cur : stop (bytes "?#") c = true ->
  hier_split sc (c :: cur) (split_query (part_opt sc) [] [] absent (c :: cur)).
Proof.
  intros He. destruct (split_query_ok (part_opt sc) [] [] absent (c :: cur)) as (qu & fr & Ecur & Hq & ->); [done..|].
  eexists _, {| c_scheme := sc; c_authority := None; c_path := []; c_query := qu; c_fragment := fr |}.
  split; [done|]. split; [by split|]. split; [done|]. split; [done|]. split; [|constructor|done].
  intros rest E. assert (E' : c :: cur = bytes "//" ++ rest) by (rewrite Ecur; exact E). by injection E' as -> _.
Qed.

Lemma split_hier_ok sc cur : cur <> [] -> hier_split sc cur (split_hier (part_opt sc) cur).
Proof.
  intros Hn. destruct cur as [|c cur1]; [done|]. cbn [split_hier].
  destruct (negb (c =? "?"%uchar) && negb (c =? "#"%uchar)) eqn:Ec.
  2: { apply split_query_hier. change (stop [63; 35] c = true). cbn. rewrite orb_false_r. by destruct (c =? "?"%uchar), (c =? "#"%uchar). }
  destruct cur1 as [|c1 cur2]; [by apply split_path_hier|].
  destruct ((c =? "/"%uchar) && (c1 =? "/"%uchar)) eqn:Es.
  2: { apply split_path_hier. intros rest E. by injection E as -> -> _. }
  apply andb_true_iff in Es as [->%Z.eqb_eq ->%Z.eqb_eq].
  destruct (find_owned_free URL_PARSER_AUTORITY_END (bytes "/?#") cur2 authority_end_stops) as (au & Ea & Ha & Hend).
  destruct cur2 as [|c2 cur3] eqn:E2.
  { eexists _, {| c_scheme := sc; c_authority := Some []; c_path := []; c_query := None; c_fragment := None |}.
    split; [done|]. split; [by split|]. split; [done|]. split; [done|]. split; [by split; [constructor|]|constructor..]. }
  rewrite <- E2 in *. destruct (find_owned URL_PARSER_AUTORITY_END cur2) as [|ce end_] eqn:Ef.
  - rewrite range_nil. rewrite app_nil_r in Ea. subst au.
    eexists _, {| c_scheme := sc; c_authority := Some cur2; c_path := []; c_query := None; c_fragment := None |}.
    split; [done|]. split; [by split|]. split; [unfold hier_text, tail_text; cbn; by rewrite app_nil_r|]. split; [done|].
    split; [done|constructor..].
  - rewrite Ea, range_app.
    destruct (split_path_ok (part_opt sc) au (ce :: end_) (ce :: end_)) as (pa & qu & fr & Ecur & Hp & Hq & ->).
    eexists _, {| c_scheme := sc; c_authority := Some au; c_path := pa; c_query := qu; c_fragment := fr |}.
    assert (Et : tail_text {| c_scheme := sc; c_authority := Some au; c_path := pa; c_query := qu; c_fragment := fr |} = ce :: end_)
      by by rewrite Ecur.
    split; [done|]. split; [split; try done; by rewrite Et|]. split; [unfold hier_text; by rewrite Et|].
    split; [done|]. split; [|done..]. split; [done|]. by rewrite Et.
Qed.

Lemma split_parts_ok url : exists s c, split_parts url = Ret s /\ stores s c /\ url_shape url c.
Proof.
  unfold split_parts.
  destruct (find_owned_free URL_PARSER_SCHEME_END (bytes ":/?#") url scheme_end_stops) as (pre & Eu & Hp & Hend).
  assert (Hno : forall c rest, find_owned URL_PARSER_SCHEME_END url = c :: rest -> c <> ":"%uchar ->
    forall p q, url = p ++ bytes ":" ++ q -> ~ free (bytes ":/?#") p).
  { intros c rest E Hc p q Eq Hf. rewrite E in *. rewrite Eu in Eq.
    destruct (cut_unique (bytes ":/?#") pre p (c :: rest) (bytes ":" ++ q) Hp Hf Hend eq_refl Eq) as [_ E']. by injection E'. }
  destruct (find_owned URL_PARSER_SCHEME_END url) as [|c rest] eqn:E.
  - rewrite app_nil_r in Eu. subst pre.
    assert (Hq : free (bytes "?#") url).
    { eapply Forall_impl; [exact Hp|]. intros ch Ech. change (stop [58; 47; 63; 35] ch = false) in Ech. change (stop [63; 35] ch = false).
      cbn in *. by repeat destruct (_ =? _). }
    eexists _, {| c_scheme := None; c_authority := None; c_path := url; c_query := None; c_fragment := None |}.
    split; [done|]. split; [by split|]. split; [unfold url_text, hier_text, tail_text; cbn; by rewrite app_nil_r| |split; [|done|constructor]].
    + intros p q Eq Hf. rewrite Eq in Hp. apply Forall_app in Hp as [_ Hp]. by inversion_clear Hp.
    + intros r Er. unfold tail_text in Er. cbn in Er. rewrite app_nil_r in Er. rewrite Er in Hp. by inversion_clear Hp.
  - destruct (Z.eqb_spec c ":"%uchar) as [->|Hc].
    + rewrite Eu, range_app. destruct rest as [|c1 rest1] eqn:Er.
      * eexists _, {| c_scheme := Some pre; c_authority := None; c_path := []; c_query := None; c_fragment := None |}.
        split; [done|]. split; [by split|].
        split; [unfold url_text, hier_text, tail_text; cbn; by rewrite app_nil_r|done|split; [done|constructor..]].
      * rewrite <- Er in *. destruct (split_hier_ok (Some pre) rest) as (s & c & E1 & Hs & Ec & Esc & Hh); [by subst|].
        exists s, c. split; [exact E1|]. split; [done|]. split; [|by rewrite Esc|done].
        unfold url_text. rewrite Esc, Ec. by rewrite <- app_assoc.
    + destruct (split_hier_ok None url) as (s & c' & E1 & Hs & Ec & Esc & Hh); [intros ->; by destruct pre|].
      exists s, c'. split; [exact E1|]. split; [done|]. split; [unfold url_text; by rewrite Esc|rewrite Esc|done].
      by apply (Hno c rest).
Qed.

(** The place of a character in a text. *)
Definition cut_at (ch : Z) (s : list Z) (r : option nat) (first : bool) : Prop :=
  match r with
  | Some k => exists a b, s = a ++ ch :: b /\ k = length a /\ ~ In ch (if first then a else b)
  | None => ~ In ch s
  end.

Lemma index_ok ch s : cut_at ch s (index ch s) true.
Proof.
  induction s as [|c s IH]; cbn [index]; [intros []|]. destruct (Z.eqb_spec c ch) as [->|Hc].
  - exists [], s. split; [done|]. split; [done|]. intros [].
  - destruct (index ch s) as [k|]; cbn.
    + destruct IH as (a & b & -> & -> & Ha). exists (c :: a), b. split; [done|]. split; [done|]. by intros [?|?].
    + by intros [?|?].
Qed.

Lemma index_app ch a b : ~ In ch a -> index ch (a ++ b) = (fun i => length a + i)%nat <$> index ch b.
Proof.
  induction a as [|c a IH]; intros Hi; cbn [app index].
  - by destruct (index ch b).
  - rewrite (proj2 (Z.eqb_neq c ch)) by (intros ->; apply Hi; by left). rewrite IH by (intros H; apply Hi; by right).
    by destruct (index ch b).
Qed.

Lemma find_char_ok s ch : cut_at ch s (SubString_find_char s ch 0) true.
Proof.
  unfold SubString_find_char. destruct s as [|c s]; [intros []|]. rewrite (proj2 (Nat.ltb_lt _ _)) by (cbn; lia).
  pose proof (index_ok ch (c :: s)) as H. rewrite drop_0. by destruct (index ch (c :: s)).
Qed.

Lemma rfind_char_ok s ch : cut_at ch s (SubString_rfind_char s ch) false.
Proof.
  unfold SubString_rfind_char. rewrite <- (rev_involutive s) at 1. generalize (rev s) as r. intros r.
  induction r as [|c r IH]; cbn [rfind_loop rev]; [intros []|]. destruct (Z.eqb_spec c ch) as [->|Hc].
  - exists (rev r), []. split; [done|]. split; [by rewrite length_rev|]. intros [].
  - destruct (rfind_loop _ r) as [k|]; cbn in IH |- *.
    + destruct IH as (a & b & -> & -> & Hb). exists a, (b ++ [c]). split; [by rewrite <- app_assoc|]. split; [done|].
      intros [Hi|[Hi|[]]]%in_app_or; done.
    + intros [Hi|[Hi|[]]]%in_app_or; done.
Qed.

Lemma substr_app a b c : substr (a ++ b ++ c) (length a) (length b) = Ret b.
Proof.
  unfold substr. rewrite (proj2 (Nat.leb_le _ _)) by (rewrite length_app; lia).
  by rewrite drop_app_length, take_app_length.
Qed.

Lemma substr_tail a b n : (length b <= n)%nat -> substr (a ++ b) (length a) n = Ret b.
Proof.
  intros Hn. unfold substr. rewrite (proj2 (Nat.leb_le _ _)) by (rewrite length_app; lia).
  by rewrite drop_app_length, take_ge.
Qed.

(** An authority: [[userinfo "@"] host [":" port]], cut at the first ["@"] and at the last
    [":"] behind it. *)
Definition userinfo_text (u : option (list Z)) : list Z := match u with Some u => u ++ bytes "@" | None => [] end.

Record authority_shape (au : list Z) (u : option (list Z)) (h : list Z) (p : option (list Z)) : Prop := {
  as_text : au = userinfo_text u ++ h ++ opt_text ":" p;
  as_userinfo : ~ In "@"%uchar (match u with Some u => u | None => au end);
  as_port : ~ In ":"%uchar (match p with Some p => p | None => h end)
}.

Lemma split_userinfo_ok au : exists u rest, au = userinfo_text u ++ rest /\
  ~ In "@"%uchar (match u with Some u => u | None => au end) /\
  split_userinfo au = Ret (part_of (default [] u), length (userinfo_text u)).
Proof.
  unfold split_userinfo. pose proof (find_char_ok au "@"%uchar) as Hf. destruct (SubString_find_char au "@"%uchar 0) as [k|].
  - destruct Hf as (a & b & -> & -> & Ha). exists (Some a), b. split; [cbn; by rewrite <- app_assoc|]. split; [done|].
    cbn [userinfo_text default]. rewrite length_app. cbn [length bytes]. destruct a as [|c a]; [done|]. cbn [length Nat.eqb negb].
    change (S (length a)) with (length (c :: a)). change ((c :: a) ++ _ :: b) with ([] ++ (c :: a) ++ "@"%uchar :: b).
    change 0%nat with (length (@nil Z)). by rewrite substr_app.
  - exists None, au. by split.
Qed.

Lemma port_behind a b : let au := a ++ ":"%uchar :: b in
  (if negb (length a =? length au - 1)%nat then
     let* p := substr au (length a + 1) (length au - length a) in Ret (given p, length a)
   else Ret (absent, length a)) = Ret (part_of b, length a).
Proof.
  cbn zeta. rewrite (length_app a (_ :: b)). cbn [length]. destruct b as [|c b].
  - rewrite (proj2 (Nat.eqb_eq _ _)) by (cbn; lia). done.
  - rewrite (proj2 (Nat.eqb_neq _ _)) by (cbn; lia). cbn [negb].
    change (a ++ _ :: c :: b) with (a ++ [":"%uchar] ++ c :: b). rewrite app_assoc.
    change (length a + 1)%nat with (length a + length [":"%uchar])%nat. rewrite <- (length_app a [":"%uchar]).
    rewrite substr_tail by (cbn; lia). done.
Qed.

Lemma split_port_ok pre rest : exists h p, rest = h ++ opt_text ":" p /\
  ~ In ":"%uchar (match p with Some p => p | None => h end) /\
  split_port (pre ++ rest) (length pre) = Ret (part_of (default [] p), length (pre ++ h)).
Proof.
  unfold split_port. pose proof (rfind_char_ok (pre ++ rest) ":"%uchar) as Hr.
  assert (Hnone : ~ In ":"%uchar rest -> exists h p, rest = h ++ opt_text ":" p /\
    ~ In ":"%uchar (match p with Some p => p | None => h end) /\
    Ret (absent, length (pre ++ rest)) = Ret (part_of (default [] p), length (pre ++ h))).
  { intros Hi. exists rest, None. split; [by rewrite app_nil_r|]. by split. }
  destruct (SubString_rfind_char (pre ++ rest) ":"%uchar) as [e|].
  2: { apply Hnone. intros Hi. apply Hr, in_or_app. by right. }
  destruct Hr as (a & b & Ea & -> & Hb).
  assert (Hfound : forall h, a = pre ++ h -> rest = h ++ ":"%uchar :: b -> exists h p, rest = h ++ opt_text ":" p /\
    ~ In ":"%uchar (match p with Some p => p | None => h end) /\
    match (if negb (length pre =? 0)%nat && (length a <? length pre)%nat then None else Some (length a)) with
    | Some e => if negb (e =? length (pre ++ rest) - 1)%nat then
        let* p := substr (pre ++ rest) (e + 1) (length (pre ++ rest) - e) in Ret (given p, e)
      else Ret (absent, e)
    | None => Ret (absent, length (pre ++ rest))
    end = Ret (part_of (default [] p), length (pre ++ h))).
  { intros h -> ->. exists h, (Some b). split; [done|]. split; [done|].
    rewrite (proj2 (Nat.ltb_ge _ _)) by (rewrite length_app; lia). rewrite andb_false_r.
    rewrite (app_assoc pre h). apply port_behind. }
  apply app_eq_app in Ea as (l & [[Epre Er]|[Eapp Er]]); [|by apply (Hfound l)]. destruct l as [|c l].
  { apply (Hfound []); [by rewrite Epre, !app_nil_r|by rewrite Er]. }
  injection Er as <- Er. rewrite (proj2 (Nat.ltb_lt _ _)), (proj2 (Nat.eqb_neq _ _)) by (rewrite Epre, length_app; cbn; lia).
  apply Hnone. intros Hi. apply Hb. rewrite Er. apply in_or_app. by right.
Qed.

Lemma split_authority_ok au : au <> [] ->
  exists u h p, authority_shape au u h p /\
  split_authority au = Ret (part_of (default [] u), given h, part_of (default [] p), opt_text ":" p).
Proof.
  intros Hn. unfold split_authority. destruct au as [|c0 au0] eqn:Eau; [done|]. rewrite <- Eau in *. clear Eau.
  destruct (split_userinfo_ok au) as (u & rest & Eu & Hu & ->). cbn [obind].
  destruct (split_port_ok (userinfo_text u) rest) as (h & p & Er & Hp & E). rewrite <- Eu in E. rewrite E. cbn [obind].
  exists u, h, p. split; [split; [by rewrite Eu, Er|done|done]|]. rewrite Eu, Er, length_app, Nat.add_comm, Nat.add_sub.
  rewrite substr_app. cbn [obind]. rewrite Nat.add_comm, <- length_app, app_assoc, drop_app_length. done.
Qed.

Lemma authority_unique au u h p u' h' p' : authority_shape au u h p -> authority_shape au u' h' p' ->
  u = u' /\ h = h' /\ p = p'.
Proof.
  assert (Hcut : forall (ch : Z) a b c d, ~ In ch a -> ~ In ch c -> a ++ ch :: b = c ++ ch :: d -> a = c /\ b = d).
  { intros ch a. induction a as [|x a IH]; intros b [|y c] d Ha Hc E; cbn in E; injection E.
    - done.
    - intros _ ->. destruct Hc. by left.
    - intros _ ->. destruct Ha. by left.
    - intros E' ->. destruct (IH b c d) as [-> ->]; [intros Hi; apply Ha; by right|intros Hi; apply Hc; by right|done..]. }
  assert (Hrcut : forall (ch : Z) a b c d, ~ In ch b -> ~ In ch d -> a ++ ch :: b = c ++ ch :: d -> a = c /\ b = d).
  { intros ch a b c d Hb Hd E. apply (f_equal (@rev Z)) in E. rewrite !rev_app_distr in E. cbn in E. rewrite <- !app_assoc in E.
    destruct (Hcut ch (rev b) (rev a) (rev d) (rev c)) as [E1 E2]; [by rewrite <- in_rev..|done|].
    split; [by rewrite <- (rev_involutive a), E2, rev_involutive|by rewrite <- (rev_involutive b), E1, rev_involutive]. }
  intros [E Hu Hp] [E' Hu' Hp'].
  assert (H : u = u' /\ h ++ opt_text ":" p = h' ++ opt_text ":" p').
  { destruct u as [u|], u' as [u'|]; cbn in E, E'.
    - rewrite E, <- !app_assoc in E'. destruct (Hcut _ _ _ _ _ Hu Hu' E') as [-> ->]. done.
    - destruct Hu'. rewrite E. apply in_or_app. left. apply in_or_app. right. by left.
    - destruct Hu. rewrite E'. apply in_or_app. left. apply in_or_app. right. by left.
    - split; [done|]. congruence. }
  destruct H as [-> Eh]. split; [done|]. destruct p as [p|], p' as [p'|]; cbn in Eh.
  - destruct (Hrcut _ _ _ _ _ Hp Hp' Eh) as [-> ->]. done.
  - rewrite app_nil_r in Eh. destruct Hp'. rewrite <- Eh. apply in_or_app. right. by left.
  - rewrite app_nil_r in Eh. destruct Hp. rewrite Eh. apply in_or_app. right. by left.
  - rewrite !app_nil_r in Eh. done.
Qed.

(** What [split_url] stores for the components and the parts of the authority. *)
Record splits (url : list Z) (p : ExtendedUrlParts) (c : components) : Prop := {
  sp_shape : url_shape url c;
  sp_scheme : scheme p = part_opt (c_scheme c);
  sp_authority : authority p = default [] (c_authority c);
  sp_path : text (path p) = c_path c;
  sp_has_path : has (path p) = false -> c_path c = [];
  sp_query : query p = part_opt (c_query c);
  sp_fragment : fragment p = part_opt (c_fragment c);
  sp_parts : match authority p with
    | [] => userinfo p = absent /\ host p = absent /\ port p = absent
    | au => exists u h o, authority_shape au u h o /\ userinfo p = part_of (default [] u) /\
      host p = given h /\ port p = part_of (default [] o) /\
      host_after p = opt_text ":" o ++ tail_text c
    end
}.

Lemma split_url_ok url : exists p c, split_url url = Ret p /\ splits url p c.
Proof.
  unfold split_url. destruct (split_parts_ok url) as (s & c & -> & [H1 H2 H3 H4 H5 H6 H7] & Hc). cbn [obind].
  destruct (decide (s_authority s = [])) as [E|E].
  - rewrite E. cbn [split_authority obind]. eexists _, c. split; [done|]. split; cbn; try done. congruence.
  - destruct (split_authority_ok (s_authority s) E) as (u & h & o & Has & ->). cbn [obind]. eexists _, c. split; [done|].
    split; cbn; try done. destruct (s_authority s) as [|c0 au] eqn:Eau; [done|].
    exists u, h, o. split; [done|]. split; [done|]. split; [done|]. split; [done|]. f_equal. rewrite H3.
    destruct (c_authority c); done.
Qed.

(** C17: [split_url] returns for every text, without an access out of bounds.  A text that
    does not begin with a colon gets the components of RFC 3986 (the regular expression of
    its appendix B, which reads it in exactly one way): scheme, authority, path, query and
    fragment.  A text that begins with a colon gets an empty scheme that is marked as
    present, where the expression has none, and the other components of the rest.  A
    nonempty authority is cut into userinfo, host and port at the first ["@"] and the last
    [":"], again in the only way.  An empty userinfo or port counts as absent. *)
Theorem split_url_correct url : exists p c, split_url url = Ret p /\ splits url p c /\
  ((forall rest, url <> bytes ":" ++ rest) -> rfc3986 url c /\ forall c', rfc3986 url c' -> c' = c) /\
  (forall rest, url = bytes ":" ++ rest ->
    scheme p = given [] /\ c_scheme c = Some [] /\ rest = hier_text c /\ hier_shape c /\ ~ rfc3986 url c) /\
  (forall u h o u' h' o', authority_shape (authority p) u h o -> authority_shape (authority p) u' h' o' ->
    u = u' /\ h = h' /\ o = o').
Proof.
  destruct (split_url_ok url) as (p & c & E & Hs). exists p, c. split; [done|]. split; [done|].
  destruct Hs as [Hsh Hsc _ _ _ _ _ _]. split; [|split].
  - intros Hn. pose proof (url_shape_rfc url) as H. split; [by apply H|].
    intros c' Hc'. apply (url_shape_unique url); [by apply H|done].
  - intros rest ->. destruct (url_shape_colon rest c Hsh) as [Ec Er]. rewrite Ec in Hsc. split; [done|]. split; [done|].
    split; [done|]. split; [apply Hsh|]. intros [_ Hr _]. rewrite Ec in Hr. by destruct Hr.
  - intros u h o u' h' o'. apply authority_unique.
Qed.

(** ** Checks: facts *)

(** A label of a host name: 1 to 63 letters, digits, underscores and hyphens, no hyphen at
    its ends. *)
Definition label_ok (l : list Z) : Prop :=
  (1 <= length l <= MAX_HOSTNAME_LABEL_SIZE)%nat /\ call LABEL_FIRST_LAST (hd 0 l) = true /\
  call LABEL_FIRST_LAST (List.last l 0) = true /\ Forall (fun ch => call LABEL_MIDDLE ch = true) l.

Lemma is_valid_chars_ok s c : is_valid_chars s c = true <-> Forall (fun ch => call c ch = true) s.
Proof.
  unfold is_valid_chars. induction s as [|ch s IH]; [cbn; split; [constructor|done]|]. cbn [find_nonowned].
  change (is_owned c ch) with (call c ch). destruct (call c ch) eqn:E; cbn [negb is_nil].
  - rewrite Forall_cons, IH. tauto.
  - split; [done|]. intros H. inversion_clear H. congruence.
Qed.

Lemma first_last_middle ch : call LABEL_FIRST_LAST ch = true -> call LABEL_MIDDLE ch = true.
Proof.
  intros Hc. assert (Hb : is_byte ch) by (revert Hc; apply in_table; vm_compute; reflexivity).
  assert (E : negb (call LABEL_FIRST_LAST ch) || call LABEL_MIDDLE ch = true) by byte_eval ch. by rewrite Hc in E.
Qed.

Lemma rd_end {A} (l : list A) d : l <> [] -> rd l (length l - 1) = Ret (List.last l d).
Proof.
  intros Hn. destruct (exists_last Hn) as (l' & x & ->). rewrite length_app, Nat.add_sub, rd_at, last_last. done.
Qed.

Lemma check_label_ok l : exists e, check_label l = Ret e /\ (e = None <-> label_ok l).
Proof.
  unfold check_label, label_ok. destruct l as [|c l].
  { exists (make_invalid "length of host's label in url"). split; [done|]. cbn. split; [done|]. lia. }
  set (lab := c :: l). destruct (Nat.ltb_spec MAX_HOSTNAME_LABEL_SIZE (length lab)) as [Hl|Hl].
  { exists (make_invalid "length of host's label in url"). split; [done|]. split; [done|]. lia. }
  rewrite (rd_end lab 0) by done. change (rd lab 0) with (Ret c). change (length lab =? 0)%nat with false. cbn [orb obind].
  assert (Hm : exists m, (if (2 <? length lab)%nat then substr lab 1 (length lab - 2) else Ret []) = Ret m /\
    (call LABEL_FIRST_LAST c = true -> call LABEL_FIRST_LAST (List.last lab 0) = true ->
     (Forall (fun ch => call LABEL_MIDDLE ch = true) m <-> Forall (fun ch => call LABEL_MIDDLE ch = true) lab)) /\
    ((2 <? length lab)%nat = false -> m = [])).
  { destruct l as [|d l] using rev_ind.
    - exists []. split; [done|]. split; [|done]. intros Hf _. split; [|done]. intros _.
      constructor; [by apply first_last_middle|constructor].
    - clear IHl. unfold lab. cbn [length]. rewrite length_app. cbn [length].
      rewrite app_comm_cons, last_last. exists l. split; [|split].
      + destruct l as [|d' l]; [done|]. rewrite (proj2 (Nat.ltb_lt _ _)) by (cbn; lia).
        change ((c :: d' :: l) ++ [d]) with ([c] ++ (d' :: l) ++ [d]). change 1%nat with (length [c]) at 1.
        replace (S (length (d' :: l) + 1) - 2)%nat with (length (d' :: l)) by lia. apply substr_app.
      + intros Hf Hla. cbn [app]. rewrite Forall_cons, Forall_app, Forall_cons, Forall_nil.
        pose proof (first_last_middle c Hf). pose proof (first_last_middle d Hla). tauto.
      + intros H%Nat.ltb_ge. destruct l; [done|]. cbn in H. lia. }
  destruct Hm as (m & -> & Hm & Hm0). cbn [obind]. eexists. split; [reflexivity|].
  change (hd 0 lab) with c. destruct (call LABEL_FIRST_LAST c) eqn:E1; cbn [negb orb].
  2: { split; [done|]. by intros (_ & ? & _). }
  assert (E2 : ((1 <? length lab)%nat && negb (call LABEL_FIRST_LAST (List.last lab 0))) = negb (call LABEL_FIRST_LAST (List.last lab 0))).
  { destruct l as [|d l]; [|done]. change (List.last lab 0) with c. by rewrite E1. }
  rewrite E2. destruct (call LABEL_FIRST_LAST (List.last lab 0)) eqn:E3; cbn [negb orb].
  2: { split; [done|]. by intros (_ & _ & ? & _). }
  specialize (Hm eq_refl eq_refl). destruct (is_valid_chars m LABEL_MIDDLE) eqn:E4; cbn [negb].
  - rewrite andb_false_r. split; [intros _|done]. apply is_valid_chars_ok in E4. cbn [length lab]. cbn [length lab] in Hl.
    split; [unfold lab in *; cbn in *; lia|]. split; [done|]. split; [done|]. by apply Hm.
  - destruct (2 <? length lab)%nat eqn:E5.
    + cbn. split; [done|]. intros (_ & _ & _ & H). apply Hm, is_valid_chars_ok in H. congruence.
    + rewrite (Hm0 eq_refl) in E4. by vm_compute in E4.
Qed.

Lemma check_labels_ok fuel : forall st ts e, all_tokens LabelSeparatorCategory fuel true st = Ret (ts, e) ->
  exists r, check_labels fuel st = Ret r /\ (r = None <-> Forall label_ok ts).
Proof.
  induction fuel as [|fuel IH]; intros st ts e; [done|]. cbn [all_tokens check_labels].
  destruct (get_token LabelSeparatorCategory true st) as [[[token|] st']| |]; cbn [obind]; try done.
  - destruct (all_tokens LabelSeparatorCategory fuel true st') as [[ts' e']| |] eqn:E; cbn [obind]; try done. intros [= <- <-].
    destruct (check_label_ok token) as (r & -> & Hr). cbn [obind]. destruct r as [msg|].
    + exists (Some msg). split; [done|]. split; [done|]. rewrite Forall_cons. intros [H _]. by apply Hr in H.
    + destruct (IH st' ts' e' E) as (r & -> & Hr'). exists r. split; [done|]. rewrite Hr', Forall_cons. tauto.
  - intros [= <- _]. exists None. split; [done|]. split; [constructor|done].
Qed.

Lemma tokens_all gs x : tokens_of true true (gs ++ [x]) = gs ++ (if is_nil x then [] else [x]).
Proof.
  induction gs as [|g gs IH]; cbn; [by destruct x|]. destruct (gs ++ [x]) as [|g' gs'] eqn:E; [by destruct gs|].
  by rewrite IH.
Qed.

(** The texts between the dots. *)
Lemma groups_char1 sep s : let gs := groups (char_symbols {| symbol := sep |} s) in s = join sep gs.
Proof.
  cbn zeta. induction s as [|ch s IH]; [done|]. cbn [char_symbols map groups]. fold (char_symbols {| symbol := sep |} s).
  destruct (groups (char_symbols {| symbol := sep |} s)) as [|g gs] eqn:E; [by destruct (groups_nonnil (char_symbols {| symbol := sep |} s))|].
  destruct (is_owned {| symbol := sep |} ch) eqn:Eo.
  - apply Z.eqb_eq in Eo as ->. rewrite IH. done.
  - rewrite IH. by destruct gs.
Qed.

Lemma join_snoc sep gs x : gs <> [] -> join sep (gs ++ [x]) = join sep gs ++ sep :: x.
Proof.
  intros Hn. induction gs as [|g gs IH]; [done|]. destruct gs as [|g' gs]; [done|].
  change (join sep ((g :: g' :: gs) ++ [x])) with (g ++ sep :: join sep ((g' :: gs) ++ [x])). rewrite IH by done.
  change (join sep (g :: g' :: gs)) with (g ++ sep :: join sep (g' :: gs)). by rewrite <- app_assoc.
Qed.

(** A host name: labels with dots between them; one dot may follow, and, since the splitter
    drops an empty last token, a second one. *)
Record host_name (host : list Z) (labels : list (list Z)) (dots : nat) : Prop := {
  hn_text : host = join LABEL_SEPARATOR labels ++ replicate dots LABEL_SEPARATOR;
  hn_labels : Forall label_ok labels;
  hn_dots : (dots <= 2)%nat /\ (labels = [] -> dots = 1%nat)
}.

Lemma label_no_dot l : label_ok l -> Forall (fun ch => is_owned LabelSeparatorCategory ch = false) l.
Proof.
  intros (_ & _ & _ & H). eapply Forall_impl; [exact H|]. intros ch Hc. apply Z.eqb_neq. intros ->. by vm_compute in Hc.
Qed.

Lemma label_last l : label_ok l -> l <> [] /\ List.last l 0 <> LABEL_SEPARATOR.
Proof.
  intros ([Hl _] & _ & H & _). split; [intros ->; cbn in Hl; lia|]. intros E. rewrite E in H. by vm_compute in H.
Qed.

(** The labels the splitter finds. *)
Lemma split_labels s : exists ts, split LabelSeparatorCategory true s = Ret (ts, false) /\
  exists x, groups (char_symbols LabelSeparatorCategory s) = ts ++ x /\
  s = join LABEL_SEPARATOR (ts ++ x) /\ (x = [] \/ x = [[]]).
Proof.
  rewrite (split_reads LabelSeparatorCategory true _ _ _ (reads_chars LabelSeparatorCategory s)). eexists. split; [reflexivity|].
  pose proof (groups_char1 LABEL_SEPARATOR s) as Ej. cbn zeta in Ej. fold LabelSeparatorCategory in Ej.
  destruct (exists_last (groups_nonnil (char_symbols LabelSeparatorCategory s))) as (gs & x & E). rewrite E in *.
  rewrite tokens_all. destruct x as [|c x]; cbn [is_nil].
  - exists [[]]. rewrite app_nil_r. split; [done|]. split; [done|by right].
  - exists []. rewrite !app_nil_r. split; [done|]. split; [done|by left].
Qed.

Lemma split_of_labels labels dots : Forall label_ok labels -> (dots <= 1)%nat -> (labels = [] -> dots = O) ->
  split LabelSeparatorCategory true (join LABEL_SEPARATOR labels ++ replicate dots LABEL_SEPARATOR) = Ret (labels, false).
Proof.
  intros Hl Hd Hn. assert (Hf : Forall (Forall (fun ch => is_owned LabelSeparatorCategory ch = false)) labels).
  { eapply Forall_impl; [exact Hl|]. apply label_no_dot. }
  rewrite (split_reads LabelSeparatorCategory true _ _ _ (reads_chars LabelSeparatorCategory _)). f_equal. f_equal.
  destruct labels as [|l0 ls] eqn:El; [rewrite (Hn eq_refl); done|]. rewrite <- El in *. assert (Hne : labels <> []) by by rewrite El.
  destruct dots as [|[|]]; [| |lia].
  - cbn [replicate]. rewrite app_nil_r, (groups_join LabelSeparatorCategory) by done.
    destruct (exists_last Hne) as (gs & x & E). rewrite E, tokens_all. rewrite E in Hl. apply Forall_app in Hl as [_ Hx].
    inversion_clear Hx as [|? ? Hx' _]. destruct (label_last x Hx') as [Hx _]. by destruct x.
  - change (replicate 1 LABEL_SEPARATOR) with [LABEL_SEPARATOR]. rewrite <- (join_snoc _ labels []) by done.
    rewrite (groups_join LabelSeparatorCategory).
    + rewrite tokens_all. apply app_nil_r.
    + done.
    + apply Forall_app. split; [done|]. constructor; constructor.
    + by destruct labels.
Qed.

Lemma join_last labels : labels <> [] -> Forall label_ok labels ->
  join LABEL_SEPARATOR labels <> [] /\ List.last (join LABEL_SEPARATOR labels) 0 <> LABEL_SEPARATOR.
Proof.
  intros Hn Hl. destruct (exists_last Hn) as (gs & x & ->). apply Forall_app in Hl as [_ Hx].
  inversion_clear Hx as [|? ? Hx' _]. destruct (label_last x Hx') as [Hx Hlast]. destruct (exists_last Hx) as (x' & ch & ->).
  assert (E : exists p, join LABEL_SEPARATOR (gs ++ [x' ++ [ch]]) = p ++ [ch]).
  { destruct gs as [|g gs]; [by exists x'|]. rewrite join_snoc by done. eexists (_ ++ _ :: x'). by rewrite <- app_assoc. }
  destruct E as (p & ->). split; [by destruct p|]. rewrite last_last in *. done.
Qed.

Lemma labels_dot h ts : split LabelSeparatorCategory true h = Ret (ts, false) ->
  (Forall label_ok ts <-> exists labels dots, host_name (h ++ [LABEL_SEPARATOR]) labels dots).
Proof.
  intros Es. split.
  - intros Hl. destruct (split_labels h) as (ts' & Es' & x & _ & Eh & Hx). rewrite Es in Es'. injection Es' as <-.
    destruct Hx as [-> | ->].
    + rewrite app_nil_r in Eh. exists ts, 1%nat. split; [by rewrite Eh|done|]. split; [lia|done].
    + destruct (decide (ts = [])) as [->|Hn].
      * cbn in Eh. subst h. exists [], 1%nat. by split; [|constructor|split; [lia|]].
      * rewrite join_snoc in Eh by done. exists ts, 2%nat. split; [by rewrite Eh, <- app_assoc|done|]. by split; [lia|].
  - intros (labels & dots & [E Hl [Hd Hn]]). destruct dots as [|dots].
    + exfalso. cbn [replicate] in E. rewrite app_nil_r in E. destruct (decide (labels = [])) as [->|Hne]; [by specialize (Hn eq_refl)|].
      destruct (join_last labels Hne Hl) as [_ H]. apply H. by rewrite <- E, last_last.
    + replace (S dots) with (dots + 1)%nat in E by lia. rewrite replicate_add, app_assoc in E.
      apply app_inj_tail in E as [-> _]. rewrite split_of_labels in Es; [|done|lia|].
      * injection Es as <-. done.
      * intros ->. by injection (Hn eq_refl).
Qed.

Lemma labels_nodot host ts : host <> [] -> List.last host 0 <> LABEL_SEPARATOR ->
  split LabelSeparatorCategory true host = Ret (ts, false) ->
  (Forall label_ok ts <-> exists labels dots, host_name host labels dots).
Proof.
  intros Hh Hlast Es. split.
  - intros Hl. destruct (split_labels host) as (ts' & Es' & x & Eg & Eh & Hx). rewrite Es in Es'. injection Es' as <-.
    destruct Hx as [-> | ->].
    + rewrite app_nil_r in Eh, Eg. exists ts, O. split; [by rewrite app_nil_r|done|]. split; [lia|]. intros ->.
      by destruct (groups_nonnil (char_symbols LabelSeparatorCategory host)).
    + exfalso. destruct (decide (ts = [])) as [->|Hn]; [by subst host|]. rewrite join_snoc in Eh by done.
      apply Hlast. by rewrite Eh, last_last.
  - intros (labels & dots & [E Hl [Hd Hn]]). destruct dots as [|dots].
    + assert (labels <> []) by (intros ->; by specialize (Hn eq_refl)). rewrite E in Es. rewrite split_of_labels in Es; [|done|lia|done].
      by injection Es as <-.
    + exfalso. apply Hlast. replace (S dots) with (dots + 1)%nat in E by lia. rewrite replicate_add, app_assoc in E.
      change (replicate 1 LABEL_SEPARATOR) with [LABEL_SEPARATOR] in E. by rewrite E, last_last.
Qed.

Lemma check_host_ok host ui po : host <> [] -> exists e, check_host host ui po = Ret e /\
  (e = None <-> (length host <= MAX_HOSTNAME_SIZE)%nat /\ Forall (fun ch => call HOST ch = true) host /\
    exists labels dots, host_name host labels dots).
Proof.
  intros Hn. unfold check_host. destruct host as [|c0 h0] eqn:Eh; [done|]. rewrite <- Eh in *.
  destruct (Nat.ltb_spec MAX_HOSTNAME_SIZE (length host)) as [Hl|Hl]; cbn [orb].
  { eexists. split; [done|]. split; [done|]. lia. }
  destruct (is_valid_chars host HOST) eqn:Ev; cbn [negb].
  2: { eexists. split; [done|]. split; [done|]. intros (_ & H%is_valid_chars_ok & _). congruence. }
  apply is_valid_chars_ok in Ev. rewrite (rd_end host 0) by done. cbn [obind].
  assert (Hlab : forall text, (forall ts, split LabelSeparatorCategory true text = Ret (ts, false) ->
      (Forall label_ok ts <-> exists labels dots, host_name host labels dots)) ->
    exists e, check_labels (S (length text)) (SplitterState_ text) = Ret e /\
    (e = None <-> (length host <= MAX_HOSTNAME_SIZE)%nat /\ Forall (fun ch => call HOST ch = true) host /\
      exists labels dots, host_name host labels dots)).
  { intros text Ht. destruct (split_labels text) as (ts & Es & _). destruct (check_labels_ok _ _ _ _ Es) as (r & -> & Hr).
    exists r. split; [done|]. rewrite Hr, (Ht ts Es). tauto. }
  destruct (Z.eqb_spec (List.last host 0) LABEL_SEPARATOR) as [Ed|Ed].
  - destruct (exists_last Hn) as (h & x & E). rewrite E, last_last in Ed. subst x.
    assert (Esub : substr host 0 (length host - 1) = Ret h).
    { rewrite E, length_app, Nat.add_sub. exact (substr_app [] h [LABEL_SEPARATOR]). }
    rewrite Esub. cbn [obind]. apply Hlab. intros ts Es. rewrite E. by apply labels_dot.
  - apply Hlab. intros ts Es. by apply labels_nodot.
Qed.

(** *** The parts that pass *)

Record url_grammar (p : UrlParts) : Prop := {
  g_scheme : match text (scheme p) with
    | [] => has (scheme p) = false
    | c :: rest => call SCHEME_FIRST c = true /\ Forall (fun ch => call SCHEME_NOT_FIRST ch = true) rest
    end;
  g_userinfo : encoded USER_INFO (text (userinfo p));
  g_host : match text (host p) with
    | [] => text (userinfo p) = [] /\ text (port p) = []
    | _ => (length (text (host p)) <= MAX_HOSTNAME_SIZE)%nat /\ Forall (fun ch => call HOST ch = true) (text (host p)) /\
      exists labels dots, host_name (text (host p)) labels dots
    end;
  g_port : Forall (fun ch => call PORT ch = true) (text (port p));
  g_path : encoded PATH (text (path p)) /\
    match text (host p) with
    | [] => forall rest, text (path p) <> bytes "//" ++ rest
    | _ => text (path p) = [] \/ exists rest, text (path p) = bytes "/" ++ rest
    end;
  g_query : encoded QUERY (text (query p));
  g_fragment : encoded FRAGMENT (text (fragment p))
}.

(** A check that returns and passes exactly when [P] holds. *)
Definition checks (m : outcome (option string)) (P : Prop) : Prop := exists e, m = Ret e /\ (e = None <-> P).

Lemma checks_orelse m k P Q : checks m P -> checks k Q -> checks (orelse m k) (P /\ Q).
Proof.
  intros (e & -> & He) (e' & -> & He'). unfold orelse. cbn [obind]. destruct e as [msg|].
  - exists (Some msg). split; [done|]. split; [done|]. intros [H _]. by apply He in H.
  - exists e'. split; [done|]. rewrite He'. split; [|tauto]. intros HQ. split; [by apply He|done].
Qed.

Lemma checks_encoded p (c : CharTable) `{!PctFree c} type : checks (check_encoded p c type) (encoded c (text p)).
Proof.
  unfold checks, check_encoded. destruct (text p) as [|ch t]; [exists None; split; [done|split; [intros _; constructor|done]]|].
  destruct (is_valid_encoded_ok c (ch :: t)) as (b & -> & Hb). cbn [obind]. eexists. split; [done|]. rewrite <- Hb. by destruct b.
Qed.

Lemma checks_iff m P Q : checks m P -> (P <-> Q) -> checks m Q.
Proof. intros (e & -> & He) H. exists e. split; [done|]. by rewrite He. Qed.

Lemma checks_bool (b : bool) type : checks (Ret (if b then make_invalid type else None)) (b = false).
Proof. exists (if b then make_invalid type else None). split; [done|]. by destruct b. Qed.

Lemma checks_path h p : checks (check_path h p) (encoded PATH (text p) /\
  match h with
  | [] => forall rest, text p <> bytes "//" ++ rest
  | _ => text p = [] \/ exists rest, text p = bytes "/" ++ rest
  end).
Proof.
  unfold check_path. destruct (text p) as [|c0 rest] eqn:Et.
  { exists None. split; [done|]. split; [intros _|done]. split; [constructor|]. destruct h; [done|by left]. }
  rewrite <- Et. set (bad_ := match h with [] => _ | _ :: _ => _ end).
  assert (Hbad : bad_ = false <-> match h with
    | [] => forall r, text p <> bytes "//" ++ r
    | _ => text p = [] \/ exists r, text p = bytes "/" ++ r
    end).
  { unfold bad_. rewrite Et. destruct h as [|h0 h].
    - destruct (Z.eqb_spec c0 PATH_SEPARATOR) as [->|Hc]; cbn [andb].
      + destruct rest as [|c1 rest]; [done|]. destruct (Z.eqb_spec c1 PATH_SEPARATOR) as [->|Hc].
        * split; [done|]. intros H. by destruct (H rest).
        * split; [|done]. intros _ r E. by injection E.
      + split; [|done]. intros _ r E. by injection E.
    - destruct (Z.eqb_spec c0 PATH_SEPARATOR) as [->|Hc]; cbn [negb].
      + split; [|done]. intros _. right. by exists rest.
      + split; [done|]. intros [?|(r & E)]; [done|]. by injection E. }
  destruct bad_.
  - eexists. split; [done|]. split; [done|]. intros [_ H]. by apply Hbad in H.
  - destruct (is_valid_encoded_ok PATH (text p)) as (b & -> & Hb). cbn [obind]. eexists. split; [done|]. rewrite <- Hb. split.
    + intros E. split; [by destruct b|by apply Hbad].
    + intros [-> _]. done.
Qed.

Lemma checks_scheme p : checks (Ret (check_scheme p))
  (match text p with
   | [] => has p = false
   | c :: rest => call SCHEME_FIRST c = true /\ Forall (fun ch => call SCHEME_NOT_FIRST ch = true) rest
   end).
Proof.
  unfold check_scheme. eapply checks_iff; [apply checks_bool|]. destruct (text p) as [|c rest]; [done|].
  rewrite <- is_valid_chars_ok. change (is_owned SCHEME_FIRST c) with (call SCHEME_FIRST c).
  destruct (call SCHEME_FIRST c), (is_valid_chars rest SCHEME_NOT_FIRST); cbn; intuition congruence.
Qed.

Lemma checks_host h ui po : checks (check_host h ui po)
  (match h with
   | [] => ui = [] /\ po = []
   | _ => (length h <= MAX_HOSTNAME_SIZE)%nat /\ Forall (fun ch => call HOST ch = true) h /\
     exists labels dots, host_name h labels dots
   end).
Proof.
  destruct h as [|c h]; [|by apply check_host_ok]. unfold check_host.
  eapply checks_iff; [apply checks_bool|]. destruct ui, po; cbn; intuition congruence.
Qed.

Lemma checks_port po : checks (Ret (if negb (is_nil po) && negb (is_valid_chars po PORT) then make_invalid "port in url" else None))
  (Forall (fun ch => call PORT ch = true) po).
Proof.
  eapply checks_iff; [apply checks_bool|]. rewrite <- is_valid_chars_ok. destruct po as [|c po]; [done|]. cbn [is_nil negb andb].
  by destruct (is_valid_chars (c :: po) PORT).
Qed.

Lemma URLPartsChecker_ok p : checks (URLPartsChecker p) (url_grammar p).
Proof.
  unfold URLPartsChecker. eapply checks_iff.
  - apply checks_orelse; [apply checks_scheme|]. apply checks_orelse; [by apply checks_encoded, _|].
    apply checks_orelse; [apply checks_host|]. apply checks_orelse; [apply checks_port|].
    apply checks_orelse; [apply checks_path|]. apply checks_orelse; by apply checks_encoded, _.
  - split; [intros (? & ? & ? & ? & ? & ? & ?); by constructor|intros []; auto 8].
Qed.

(** C18: [URLPartsChecker] never fails to return and accepts exactly the parts of this
    grammar: a scheme of a letter and letters, digits and ["+-."]; percent encoded userinfo,
    path, query and fragment over their categories; a host of at most 255 characters made of
    valid labels; a port of digits; a path that begins with a slash behind a host and not
    with two without one.  Up to two dots may follow the last label. *)
Theorem URLPartsChecker_correct p : exists e, URLPartsChecker p = Ret e /\ (e = None <-> url_grammar p).
Proof. exact (URLPartsChecker_ok p). Qed.

Example checker_samples :
  URLChecker (bytes "http://user@www.example.com:8080/a%20b?c=d#e") = Ret true /\
  URLChecker (bytes "http://a..b/") = Ret false /\ URLChecker (bytes "http://a-.b/") = Ret false /\
  URLChecker (bytes "http://a.b./") = Ret true /\ URLChecker (bytes "http://a.b../") = Ret true.
Proof. vm_compute. auto. Qed.

(** ** Assembling: facts *)

(** A fact about the characters of a table, by evaluation. *)
Lemma table_forall (t : CharTable) (P : Z -> bool) : call t 0 = false -> length (table_ t) = 256%nat ->
  forallb (fun ch => negb (call t ch) || P ch) (all_below 256) = true -> forall ch, call t ch = true -> P ch = true.
Proof.
  intros H0 Hl Hf ch Hc. pose proof (forall_byte _ Hf ch (in_table t ch H0 Hl Hc)) as E. cbn beta in E. by rewrite Hc in E.
Qed.

Ltac table_eval t := apply (table_forall t); vm_compute; reflexivity.

Lemma encoded_forall (c : CharTable) (P : Z -> Prop) s : (forall ch, call c ch = true -> P ch) -> P "%"%uchar ->
  (forall h, hexb h = true -> P h) -> encoded c s -> Forall P s.
Proof. intros Hc Hp Hh He. induction He; constructor; auto. Qed.

(** Which separators the parts do not contain. *)
Definition clear_of (c : CharTable) (stops : list Z) : Prop :=
  forall ch, call c ch = true -> stop stops ch = false.

Lemma clear_of_eval c stops : (forall ch, call c ch = true -> negb (stop stops ch) = true) -> clear_of c stops.
Proof. intros H ch Hc. apply negb_true_iff. auto. Qed.

Lemma clear_forall c stops s : clear_of c stops -> Forall (fun ch => call c ch = true) s -> free stops s.
Proof. intros Hc Hs. eapply Forall_impl; [exact Hs|]. exact Hc. Qed.

Lemma clear_encoded c stops s : clear_of c stops -> clear_of HEX_NUMBER stops -> stop stops "%"%uchar = false ->
  encoded c s -> free stops s.
Proof. intros Hc Hh Hp He. by apply (encoded_forall c). Qed.

Lemma stop_sub stops stops' ch : forallb (fun x => stop stops x) stops' = true -> stop stops ch = false -> stop stops' ch = false.
Proof.
  intros Hi E. destruct (stop stops' ch) eqn:E'; [|done].
  apply existsb_exists in E' as (x & Hx & ->%Z.eqb_eq). rewrite forallb_forall in Hi. rewrite (Hi x Hx) in E. done.
Qed.

Lemma free_sub stops stops' s : forallb (fun x => stop stops x) stops' = true -> free stops s -> free stops' s.
Proof. intros Hi Hs. eapply Forall_impl; [exact Hs|]. intros ch. by apply stop_sub. Qed.

Lemma free_In stops s ch : free stops s -> stop stops ch = true -> ~ In ch s.
Proof. intros Hf Hs Hi. unfold free in Hf. rewrite List.Forall_forall in Hf. rewrite (Hf ch Hi) in Hs. done. Qed.

Lemma separators_clear :
  clear_of HEX_NUMBER (bytes ":/?#@") /\ clear_of SCHEME_FIRST (bytes ":/?#@") /\ clear_of SCHEME_NOT_FIRST (bytes ":/?#@") /\
  clear_of USER_INFO (bytes "/?#@") /\ clear_of HOST (bytes ":/?#@") /\ clear_of PORT (bytes ":/?#@") /\
  clear_of PATH (bytes "?#") /\ clear_of QUERY (bytes "#").
Proof.
  split; [apply clear_of_eval; table_eval HEX_NUMBER|]. split; [apply clear_of_eval; table_eval SCHEME_FIRST|].
  split; [apply clear_of_eval; table_eval SCHEME_NOT_FIRST|]. split; [apply clear_of_eval; table_eval USER_INFO|].
  split; [apply clear_of_eval; table_eval HOST|]. split; [apply clear_of_eval; table_eval PORT|].
  split; [apply clear_of_eval; table_eval PATH|]. apply clear_of_eval; table_eval QUERY.
Qed.

(** Parts as the constructors and [split_url] make them. *)
Record flagged (p : UrlParts) : Prop := {
  f_scheme : has (scheme p) = negb (is_nil (text (scheme p)));
  f_userinfo : has (userinfo p) = negb (is_nil (text (userinfo p)));
  f_port : has (port p) = negb (is_nil (text (port p)));
  f_query : has (query p) = false -> text (query p) = [];
  f_fragment : has (fragment p) = false -> text (fragment p) = []
}.

(** The same parts; the flags of host and path may differ. *)
Record same_parts (p q : UrlParts) : Prop := {
  sm_scheme : scheme q = scheme p; sm_userinfo : userinfo q = userinfo p; sm_host : text (host q) = text (host p);
  sm_port : port q = port p; sm_path : text (path q) = text (path p); sm_query : query q = query p;
  sm_fragment : fragment q = fragment p
}.

Definition opt (x : Part) : option (list Z) := if has x then Some (text x) else None.

(** The components of an assembled URL. *)
Definition components_of (p : UrlParts) : components :=
  {| c_scheme := if is_nil (text (scheme p)) then None else Some (text (scheme p));
     c_authority := if has_authority p then Some (assemble_authority p) else None;
     c_path := text (path p); c_query := opt (query p); c_fragment := opt (fragment p) |}.

Lemma components_tail p : tail_text (components_of p) = assemble_tail p.
Proof.
  unfold tail_text, assemble_tail, query_text, fragment_text, opt_text, components_of, opt. cbn.
  by destruct (has (query p)), (has (fragment p)).
Qed.

Lemma components_text p : url_text (components_of p) = assemble p.
Proof.
  unfold url_text, hier_text, assemble. rewrite components_tail. unfold opt_text, components_of. cbn.
  by destruct (is_nil (text (scheme p))), (has_authority p).
Qed.

(** Without a scheme and an authority a path is read as it was only if no colon comes
    before its first slash. *)
Definition no_colon (p : UrlParts) : Prop := text (scheme p) = [] -> has_authority p = false ->
  forall pre post, text (path p) = pre ++ bytes ":" ++ post -> ~ free (bytes ":/?#") pre.

Section Assembled.
Context (p : UrlParts) (Hg : url_grammar p) (Hf : flagged p).

Lemma authority_parts : has_authority p = true -> exists c h, text (host p) = c :: h.
Proof using All.
  destruct Hf as [_ Hu Hp _ _]. destruct Hg as [_ _ Hh _ _ _ _]. unfold has_authority. rewrite Hu, Hp.
  destruct (text (host p)) as [|c h]; [|by eauto]. destruct Hh as [-> ->]. done.
Qed.

Lemma assembled_scheme_free : free (bytes ":/?#") (text (scheme p)).
Proof using Hg.
  destruct Hg as [Hs _ _ _ _ _ _]. destruct separators_clear as (_ & H1 & H2 & _).
  apply (free_sub (bytes ":/?#@")); [done|]. destruct (text (scheme p)) as [|c rest]; [constructor|]. destruct Hs as [Hc Hr]. constructor; [by apply H1|].
  by apply (clear_forall SCHEME_NOT_FIRST).
Qed.

Lemma userinfo_free : free (bytes "/?#@") (text (userinfo p)).
Proof using Hg.
  destruct separators_clear as (H1 & _ & _ & H2 & _). apply (clear_encoded USER_INFO); [done| |done|apply Hg].
  intros ch Hc. apply (stop_sub (bytes ":/?#@")); [done|by apply H1].
Qed.

Lemma host_free : free (bytes ":/?#@") (text (host p)).
Proof using Hg.
  destruct separators_clear as (_ & _ & _ & _ & H & _). destruct Hg as [_ _ Hh _ _ _ _].
  destruct (text (host p)) as [|c h] eqn:E; [constructor|]. destruct Hh as (_ & Hh & _). by apply (clear_forall HOST).
Qed.

Lemma port_free : free (bytes ":/?#@") (text (port p)).
Proof using Hg.
  destruct separators_clear as (_ & _ & _ & _ & _ & H & _). by apply (clear_forall PORT), Hg.
Qed.

Lemma authority_free : free (bytes "/?#") (assemble_authority p).
Proof using Hg.
  pose proof userinfo_free as Hu. pose proof host_free as Hh. pose proof port_free as Hp.
  apply (free_sub _ (bytes "/?#")) in Hu, Hh, Hp; [|done..]. unfold assemble_authority, free in *.
  repeat apply Forall_app_2; [|done|].
  - destruct (has (userinfo p)); [|constructor]. apply Forall_app_2; [done|]. by repeat constructor.
  - destruct (has (port p)); [|constructor]. apply Forall_app_2; [|done]. by repeat constructor.
Qed.

Lemma assembled_tail_ends : has_authority p = true -> ends (bytes "/?#") (assemble_tail p).
Proof using All.
  intros Ha. destruct (authority_parts Ha) as (c & h & Eh). destruct Hg as [_ _ _ _ [_ Hp] _ _]. rewrite Eh in Hp.
  unfold assemble_tail. destruct Hp as [-> | (rest & ->)]; [|done]. by destruct (has (query p)), (has (fragment p)).
Qed.

Lemma assembled_tail_slashes : has_authority p = false -> forall rest, assemble_tail p <> bytes "//" ++ rest.
Proof using All.
  intros Ha rest E. assert (Eh : text (host p) = []).
  { unfold has_authority in Ha. destruct (text (host p)); [done|]. by rewrite orb_true_r in Ha. }
  destruct Hg as [_ _ _ _ [_ Hp] _ _]. rewrite Eh in Hp. unfold assemble_tail in E.
  destruct (text (path p)) as [|c0 [|c1 pa]]; cbn [app] in E.
  - by destruct (has (query p)), (has (fragment p)).
  - injection E as -> E. by destruct (has (query p)), (has (fragment p)).
  - injection E as -> -> E. by apply (Hp pa).
Qed.

Lemma assembled_shape : no_colon p -> url_shape (assemble p) (components_of p).
Proof using All.
  intros Hn. split; [by rewrite components_text| |split].
  - cbn. destruct (is_nil (text (scheme p))) eqn:Es; [|exact assembled_scheme_free].
    assert (Esc : text (scheme p) = []) by by destruct (text (scheme p)). intros pre post E Hpre.
    unfold assemble in E. rewrite Es in E. cbn [app] in E. destruct (has_authority p) eqn:Ea.
    + destruct pre as [|c pre]; [done|]. injection E as <- _. by inversion_clear Hpre.
    + cbn [app] in E. unfold assemble_tail in E. apply app_eq_app in E as (l & [[E1 E2]|[E1 E2]]).
      * apply (Hn Esc Ea pre (drop 1 l)); [|done]. destruct l as [|c l].
        -- exfalso. cbn in E2. by destruct (has (query p)), (has (fragment p)).
        -- by injection E2 as <- E2.
      * destruct l as [|c l]; [cbn in E2; by destruct (has (query p)), (has (fragment p))|].
        rewrite E1 in Hpre. apply Forall_app in Hpre as [_ Hpre]. inversion_clear Hpre as [|? ? Hc _].
        destruct (has (query p)), (has (fragment p)); cbn in E2; try done; injection E2 as <- _; done.
  - rewrite components_tail. cbn. destruct (has_authority p) eqn:Ea; [|by apply assembled_tail_slashes].
    split; [exact authority_free|by apply assembled_tail_ends].
  - destruct separators_clear as (H1 & _ & _ & _ & _ & _ & H2 & _). apply (clear_encoded PATH); [done| |done|apply Hg].
    intros ch Hc. apply (stop_sub (bytes ":/?#@")); [done|by apply H1].
  - destruct separators_clear as (H1 & _ & _ & _ & _ & _ & _ & H2). unfold opt_free, components_of, opt. cbn.
    destruct (has (query p)); [|constructor]. apply (clear_encoded QUERY); [done| |done|apply Hg].
    intros ch Hc. apply (stop_sub (bytes ":/?#@")); [done|by apply H1].
Qed.

Lemma assembled_authority_shape : has_authority p = true ->
  authority_shape (assemble_authority p) (opt (userinfo p)) (text (host p)) (opt (port p)).
Proof using All.
  intros Ha. split.
  - unfold assemble_authority, userinfo_text, opt_text, opt. by destruct (has (userinfo p)), (has (port p)).
  - unfold opt, assemble_authority. destruct (has (userinfo p)) eqn:Eu.
    + by apply (free_In (bytes "/?#@") _ _ userinfo_free).
    + apply (free_In (bytes "/?#@")); [|done]. apply (free_sub (bytes "/?#@")); [done|].
      apply Forall_app_2; [constructor|]. apply Forall_app_2; [by apply (free_sub (bytes ":/?#@")), host_free|].
      destruct (has (port p)); [|constructor]. apply Forall_app_2; [by repeat constructor|]. by apply (free_sub (bytes ":/?#@")), port_free.
  - unfold opt. destruct (has (port p)); [by apply (free_In (bytes ":/?#@") _ _ port_free)|by apply (free_In (bytes ":/?#@") _ _ host_free)].
Qed.

Lemma opt_part (x : Part) : has x = negb (is_nil (text x)) -> part_of (default [] (opt x)) = x.
Proof using. destruct x as [[] t]; cbn; intros E; [by rewrite E|]. by destruct t. Qed.

Lemma opt_flag (x : Part) : (has x = false -> text x = []) -> part_opt (opt x) = x.
Proof using. destruct x as [[] t]; cbn; [done|]. intros E. by rewrite E. Qed.

(** What [split_url] makes of the assembled URL. *)
Lemma assembled_split : no_colon p -> exists q, split_url (assemble p) = Ret q /\ same_parts p q /\
  authority q = (if has_authority p then assemble_authority p else []) /\
  (has_authority p = true -> host_after q = (if has (port p) then bytes ":" ++ text (port p) else []) ++ assemble_tail p).
Proof using All.
  intros Hn. destruct (split_url_ok (assemble p)) as (q & c & E & [Hr H1 H2 H3 H4 H5 H6 H7]). exists q. split; [done|].
  assert (c = components_of p) as -> by (apply (url_shape_unique (assemble p)); [done|by apply assembled_shape]).
  pose proof authority_parts as Hau. pose proof assembled_authority_shape as Hsh. destruct Hf as [Fs Fu Fp Fq Ff].
  assert (Es : scheme q = scheme p).
  { rewrite H1. cbn. destruct (scheme p) as [b t]; cbn in *. subst b. by destruct t. }
  assert (Eq : query q = query p) by (rewrite H5; by apply opt_flag).
  assert (Ef : fragment q = fragment p) by (rewrite H6; by apply opt_flag).
  cbn in H2. destruct (has_authority p) eqn:Ea.
  - cbn in H2. destruct (Hau eq_refl) as (ch & h & Eh).
    destruct (authority q) as [|a0 au] eqn:Eau.
    { exfalso. apply (f_equal (@length Z)) in H2. unfold assemble_authority in H2. rewrite Eh, !length_app in H2. cbn in H2. lia. }
    destruct H7 as (u & hh & o & Hs & Eu & Eho & Epo & Eaf). rewrite H2 in Hs.
    destruct (authority_unique _ _ _ _ _ _ _ Hs (Hsh eq_refl)) as (-> & -> & ->). rewrite opt_part in Eu, Epo by done.
    split; [split; try done; by rewrite Eho|]. split; [done|]. intros _. rewrite Eaf, components_tail. unfold opt_text, opt.
    by destruct (has (port p)).
  - cbn in H2. rewrite H2 in H7. destruct H7 as (Eu & Eho & Epo).
    unfold has_authority in Ea. apply orb_false_iff in Ea as [[Ea1 Ea2]%orb_false_iff Ea3].
    split; [|done]. split; try done.
    + rewrite Eu. destruct (userinfo p) as [b t]; cbn in *. subst b. by destruct t.
    + rewrite Eho. cbn. by destruct (text (host p)).
    + rewrite Epo. destruct (port p) as [b t]; cbn in *. subst b. by destruct t.
Qed.
End Assembled.

Lemma cut_app a b : cut (a ++ b) (length a) = Ret a.
Proof. unfold cut. rewrite (proj2 (Nat.leb_le _ _)) by (rewrite length_app; lia). by rewrite take_app_length. Qed.

Lemma given_part (x : Part) : has x = true -> given (text x) = x.
Proof. destruct x as [b t]; cbn. by intros ->. Qed.

Lemma absent_part (x : Part) : has x = false -> text x = [] -> absent = x.
Proof. destruct x as [b t]; cbn. by intros -> ->. Qed.

Section Adjusted.
Context (p : UrlParts) (Hf : flagged p).

Let ui_text := if has (userinfo p) then text (userinfo p) ++ bytes "@" else [].
Let po_text := if has (port p) then bytes ":" ++ text (port p) else [].

Lemma flagged_nil (x : Part) : has x = negb (is_nil (text x)) -> has x = false -> text x = [].
Proof using. intros E E'. rewrite E in E'. by destruct (text x). Qed.

Lemma adjust_authority_ok : adjust_authority p (assemble_authority p) =
  Ret (userinfo p, part_of (text (host p)), port p, po_text).
Proof using Hf.
  unfold adjust_authority. change (assemble_authority p) with (ui_text ++ text (host p) ++ po_text).
  destruct Hf as [_ Fu Fp _ _]. pose proof (flagged_nil _ Fu) as Nu. pose proof (flagged_nil _ Fp) as Np.
  assert (Ebeg : (length (text (userinfo p)) + (if has (userinfo p) then 1 else 0))%nat = length ui_text).
  { unfold ui_text. destruct (has (userinfo p)); [by rewrite length_app|]. by rewrite Nu. }
  rewrite Ebeg.
  assert (E1 : (if has (userinfo p) then let* u := substr (ui_text ++ text (host p) ++ po_text) 0 (length (text (userinfo p))) in Ret (given u)
             else Ret absent) = Ret (userinfo p)).
  { unfold ui_text. destruct (has (userinfo p)) eqn:E; [|by rewrite (absent_part (userinfo p)) by auto].
    rewrite <- app_assoc. pose proof (substr_app [] (text (userinfo p)) (bytes "@" ++ text (host p) ++ po_text)) as Es.
    cbn [app length] in Es. rewrite Es. cbn [obind]. by rewrite given_part. }
  rewrite E1. cbn [obind].
  assert (E2 : (if negb (is_nil (text (host p))) then let* h := substr (ui_text ++ text (host p) ++ po_text) (length ui_text) (length (text (host p))) in Ret (given h)
             else Ret absent) = Ret (part_of (text (host p)))).
  { destruct (text (host p)) as [|c h] eqn:E; [done|]. cbn [is_nil negb]. rewrite substr_app. done. }
  rewrite E2. cbn [obind].
  assert (E3 : (if has (port p) then let* o := substr (ui_text ++ text (host p) ++ po_text)
                 (length (ui_text ++ text (host p) ++ po_text) - length (text (port p))) (length (text (port p))) in Ret (given o)
             else Ret absent) = Ret (port p)).
  { unfold po_text. destruct (has (port p)) eqn:E; [|by rewrite (absent_part (port p)) by auto].
    rewrite !app_assoc. rewrite length_app, Nat.add_sub, substr_tail by lia. cbn [obind]. by rewrite given_part. }
  rewrite E3. cbn [obind]. by rewrite <- length_app, app_assoc, drop_app_length.
Qed.

Lemma adjust_scheme_ok rest :
  adjust_scheme p ((if is_nil (text (scheme p)) then [] else text (scheme p) ++ bytes ":") ++ rest) = Ret (scheme p, rest).
Proof using Hf.
  unfold adjust_scheme. destruct Hf as [Fs _ _ _ _]. destruct (is_nil (text (scheme p))) eqn:E.
  - rewrite (absent_part (scheme p)); [done|done|by destruct (text (scheme p))].
  - rewrite <- app_assoc, cut_app. cbn [obind]. rewrite given_part by done.
    change (length (text (scheme p)) + 1)%nat with (length (text (scheme p)) + length (bytes ":"))%nat.
    by rewrite <- length_app, app_assoc, drop_app_length.
Qed.

Lemma adjust_hier_ok rest : exists ho af,
  adjust_hier p (if has_authority p then length (assemble_authority p) else O)
    ((if has_authority p then bytes "//" ++ assemble_authority p else []) ++ rest) =
  Ret (userinfo p, ho, port p, if has_authority p then assemble_authority p else [], af, rest) /\
  text ho = text (host p) /\ (has_authority p = true -> af = po_text ++ rest).
Proof using Hf.
  unfold adjust_hier. pose proof adjust_authority_ok as Ha. destruct Hf as [_ Fu Fp _ _]. destruct (has_authority p) eqn:E.
  - cbn zeta. change (drop 2 ((bytes "//" ++ assemble_authority p) ++ rest)) with (assemble_authority p ++ rest).
    rewrite cut_app, drop_app_length. cbn [obind]. rewrite Ha. cbn [obind]. eexists _, _. split; [done|]. done.
  - unfold has_authority in E. apply orb_false_iff in E as [[E1 E2]%orb_false_iff E3]. exists absent, [].
    rewrite <- (absent_part (userinfo p)), <- (absent_part (port p)) by (done || by apply flagged_nil).
    split; [done|]. split; [by destruct (text (host p))|done].
Qed.

Lemma adjust_part_ok (x : Part) sep rest : (has x = false -> text x = []) -> length (bytes sep) = 1%nat ->
  adjust_part x ((if has x then bytes sep ++ text x else []) ++ rest) = Ret (x, rest).
Proof using.
  intros Hx Hs. unfold adjust_part. destruct (has x) eqn:E; [|by rewrite (absent_part x) by auto]. cbn zeta.
  rewrite <- app_assoc. rewrite <- Hs. rewrite drop_app_length, cut_app, drop_app_length. cbn [obind].
  by rewrite given_part.
Qed.

Lemma adjust_ok : exists q, adjust p (assemble p) (if has_authority p then length (assemble_authority p) else O) = Ret q /\
  same_parts p q /\ authority q = (if has_authority p then assemble_authority p else []) /\
  (has_authority p = true -> host_after q = po_text ++ assemble_tail p).
Proof using Hf.
  unfold adjust, assemble. rewrite adjust_scheme_ok. cbn [obind].
  destruct (adjust_hier_ok (assemble_tail p)) as (ho & af & -> & Eh & Eaf). cbn [obind].
  unfold assemble_tail. rewrite cut_app, drop_app_length. cbn [obind]. destruct Hf as [_ _ _ Fq Ff].
  rewrite adjust_part_ok by done. cbn [obind].
  pose proof (adjust_part_ok (fragment p) "#" [] Ff eq_refl) as E. rewrite app_nil_r in E. rewrite E. cbn [obind].
  eexists. split; [done|]. split; [by split|]. split; [done|exact Eaf].
Qed.
End Adjusted.

(** C19: An address made of parts: [assign_url_parts_] throws exactly when the parts do
    not pass the checker; otherwise its parts are the given ones, cut out of the new
    text inside its bounds.  [split_url] reads the same parts back from the text if the
    parts have a scheme or an authority, or no colon before the first slash of the path;
    such a colon is read as the end of a scheme. *)
Theorem url_parts_roundtrip p : flagged p ->
  (~ url_grammar p -> exists e, assign_url_parts_ p true = Throw (InvalidURL e)) /\
  (url_grammar p -> exists q, assign_url_parts_ p true = Ret (assemble p, q) /\ same_parts p q /\
    (no_colon p -> exists q', split_url (assemble p) = Ret q' /\ same_parts p q' /\ authority q' = authority q /\
      (has_authority p = true -> host_after q' = host_after q))).
Proof.
  intros Hf. unfold assign_url_parts_. destruct (URLPartsChecker_ok p) as (e & -> & He). cbn [obind]. split.
  - intros Hn. destruct e as [e|]; [by exists e|]. by destruct (Hn (proj1 He eq_refl)).
  - intros Hg. rewrite (proj2 He Hg). destruct (adjust_ok p Hf) as (q & -> & Hs & Ea & Eaf). cbn [obind]. exists q.
    split; [done|]. split; [done|]. intros Hn. destruct (assembled_split p Hg Hf Hn) as (q' & E & Hs' & Ea' & Eaf'). exists q'.
    split; [done|]. split; [done|]. split; [congruence|]. intros H. by rewrite Eaf', Eaf.
Qed.

Lemma UrlParts_flagged sc ui ho po pa qu fr : flagged (UrlParts_ sc ui ho po pa qu fr).
Proof. split; cbn; try done; by intros ?%negb_false_iff; destruct qu, fr. Qed.

Lemma url_parts_roundtrip_witness : exists q,
  assign_url_parts_ (UrlParts_ (bytes "http") (bytes "u:p") (bytes "a-b.com") (bytes "8080") (bytes "/x%20y") (bytes "q=1") []) true =
    Ret (bytes "http://u:p@a-b.com:8080/x%20y?q=1", q) /\ text (host q) = bytes "a-b.com".
Proof.
  set (p := UrlParts_ (bytes "http") (bytes "u:p") (bytes "a-b.com") (bytes "8080") (bytes "/x%20y") (bytes "q=1") []).
  assert (Hg : url_grammar p).
  { destruct (URLPartsChecker_ok p) as (e & E & He). apply He. assert (E' : URLPartsChecker p = Ret None) by (vm_compute; reflexivity).
    rewrite E' in E. by injection E. }
  destruct (proj2 (url_parts_roundtrip p (UrlParts_flagged _ _ _ _ _ _ _)) Hg) as (q & E & Hs & _). exists q. split; [exact E|].
  exact (sm_host p q Hs).
Defined.
