(* ===== verification/TextTemplate.v ===== *)
(** * Text templates

    [String/TextTemplate.hpp] and [.cpp]: a template is cut into texts and keys
    between a start and an end lexeme, and is instantiated with the values a
    callback has for the keys.  [Basic], [String] and [IStream] with their items,
    the callbacks [ArgsContainer], [DefaultValue], [ArgsEncoder] and [Args], the
    registered encoders and [UpdateStrategy].

    A virtual call of [ArgsCallback] is a function: the key, the text of [result]
    before the call and the flag [value] give the flag returned and the text of
    [result] after it.  [init] yields the items that are in the template after the
    call, also when it throws. *)
From stdpp Require Import gmap.
From S2P Require Import Prelude Utf8 Base64 MimeUrl Xml Js TextOps.
From S2P Require Url.
Local Open Scope Z_scope.
Local Open Scope outcome_scope.

(** ** [SubString] *)

(** [str.find (sub, pos)] of a substring that is not empty; [NPOS] is [None] *)
Definition find (str sub : list Z) (pos : nat) : option nat :=
  match SubString_find (drop pos str) sub with
  | Some rest => Some (length str - length rest)%nat
  | None => None
  end.

(** ** [Basic] *)

Inductive Item : Type :=
| StringItem (value_ : list Z)
| VarItem (key_ : list Z).

Definition ArgsCallback : Type := list Z -> list Z -> bool -> outcome (bool * list Z).

Definition append_value (callback : ArgsCallback) (it : Item) (dst : list Z) : outcome (list Z) :=
  match it with
  | StringItem value_ => Ret (dst ++ value_)
  | VarItem key_ =>
    let* r := callback key_ [] true in
    if negb r.1 then Throw (UnknownName "failed to substitute key") else Ret (dst ++ r.2)
  end.

Definition key (callback : ArgsCallback) (it : Item) : outcome (list Z) :=
  match it with
  | StringItem _ => Ret []
  | VarItem key_ => let* r := callback key_ [] false in Ret r.2
  end.

(** the loop of [init] over the rest [str] of the template *)
Fixpoint init_loop (fuel : nat) (start_lexeme end_lexeme str : list Z) (items_ : list Item) :
    list Item * outcome unit :=
  match str with
  | [] => (items_, Ret tt)
  | _ :: _ =>
    match fuel with
    | O => (items_, Undef)
    | S fuel' =>
      match find str start_lexeme 0 with
      | None => (items_ ++ [StringItem str], Ret tt)
      | Some begin =>
        let items_ := if (0 <? begin)%nat then items_ ++ [StringItem (take begin str)] else items_ in
        let begin := (begin + length start_lexeme)%nat in
        match find str end_lexeme begin with
        | None => (items_, Throw (InvalidTemplate "invalid template: closing lexeme not found"))
        | Some e =>
          let items_ := items_ ++ [VarItem (take (e - begin) (drop begin str))] in
          init_loop fuel' start_lexeme end_lexeme (drop (e + length end_lexeme) str) items_
        end
      end
    end
  end.

Definition init (source start_lexeme end_lexeme : list Z) : list Item * outcome unit :=
  match start_lexeme, end_lexeme with
  | [], _ => ([], Throw (TextTemplException "empty start_lexeme."))
  | _, [] => ([], Throw (TextTemplException "empty end_lexeme."))
  | _, _ => init_loop (length source) start_lexeme end_lexeme source []
  end.

Definition DEFAULT_LEXEME : list Z := bytes "%%".

Fixpoint instantiate_loop (args : ArgsCallback) (items_ : list Item) (str : list Z) : outcome (list Z) :=
  match items_ with
  | [] => Ret str
  | it :: items' =>
    let* str := append_value args it str in
    instantiate_loop args items' str
  end.

Definition instantiate (items_ : list Item) (args : ArgsCallback) : outcome (list Z) :=
  instantiate_loop args items_ [].

Fixpoint keys_loop (args : ArgsCallback) (items_ : list Item) (keys : gset (list Z)) : outcome (gset (list Z)) :=
  match items_ with
  | [] => Ret keys
  | it :: items' =>
    let* name := key args it in
    keys_loop args items' (match name with [] => keys | _ => {[name]} ∪ keys end)
  end.

Definition keys (items_ : list Item) (args : ArgsCallback) : outcome (gset (list Z)) :=
  keys_loop args items_ ∅.

(** ** [String] and [IStream] *)

Record Template : Type := { text_template_ : list Z; items : list Item }.

(** [Basic::empty] *)
Definition empty (t : Template) : bool := match items t with [] => true | _ => false end.

Definition String_init (str start_lexeme end_lexeme : list Z) : Template * outcome unit :=
  let r := init str start_lexeme end_lexeme in
  ({| text_template_ := str; items := r.1 |}, r.2).

(** [std::getline (istr, text, '\0')]: the characters before the first zero; the end
    of the stream is reached when there is none *)
Fixpoint getline0 (content : list Z) : list Z * bool :=
  match content with
  | [] => ([], true)
  | c :: content' =>
    if c =? 0 then ([], false)
    else let r := getline0 content' in (c :: r.1, r.2)
  end.

(** [bad] is the state of the stream after reading *)
Definition IStream_init (t : Template) (content : list Z) (bad : bool) (start_lexeme end_lexeme : list Z) :
    Template * outcome unit :=
  let '(text, eof) := getline0 content in
  if bad || negb eof then
    ({| text_template_ := text; items := items t |}, Throw (TextTemplException "unable to read from istream."))
  else
    let r := init text start_lexeme end_lexeme in
    ({| text_template_ := text; items := r.1 |}, r.2).

(** ** Encoders *)

(** the encoders that are registered here, and those of a client *)
Inductive ValueEncoder : Type :=
| encode_utf8_
| encode_xml_
| encode_mime_
| encode_js_unicode_
| encode_base64_
| encode_js_
| encode_other (f : list Z -> outcome (list Z)).

(** [value.c_str ()] *)
Definition c_str (value : list Z) : list Z := (getline0 value).1.

Definition run_encoder (encoder : ValueEncoder) (value : list Z) : outcome (list Z) :=
  match encoder with
  | encode_utf8_ => Ret value
  | encode_xml_ => xml_encode (Some (c_str value ++ [0])) (Z.lor XU_TEXT XU_ATTRIBUTE)
  | encode_mime_ => mime_url_encode value
  | encode_js_unicode_ => js_unicode_encode (c_str value)
  | encode_base64_ => Ret (base64mod_encode value true 0)
  | encode_js_ => js_encode (c_str value)
  | encode_other f => f value
  end.

(** [encoder == EI_UTF8.get_encoder_ ()] *)
Definition is_utf8_encoder (encoder : ValueEncoder) : bool :=
  match encoder with encode_utf8_ => true | _ => false end.

(** [EncoderHolder]: the registered encoders by their keys; an encoder of a client
    may be null *)
Definition EncoderHolder : Type := gmap (list Z) (option ValueEncoder).

Definition get_value_encoder (relation_ : EncoderHolder) (k : list Z) : option ValueEncoder :=
  match relation_ !! k with
  | Some encoder => encoder
  | None => None
  end.

Definition register_value_encoder (relation_ : EncoderHolder) (k : list Z) (encoder : option ValueEncoder) :
    EncoderHolder :=
  <[k := encoder]> relation_.

(** the default encodings, registered by the static objects in this order *)
Definition encoder_holder : EncoderHolder :=
  fold_left (fun relation_ e => register_value_encoder relation_ (bytes e.1) (Some e.2))
    [("utf8"%string, encode_utf8_); ("mime-url"%string, encode_mime_); ("xml"%string, encode_xml_);
     ("js-unicode"%string, encode_js_unicode_); ("js"%string, encode_js_); ("base64"%string, encode_base64_)] ∅.

(** ** Callbacks *)

(** [ArgsContainer] over a container of values *)
Definition ArgsContainer_get_argument (cont_ : gmap (list Z) (list Z)) : ArgsCallback := fun k result value =>
  if negb value then Ret (true, k)
  else
    match cont_ !! k with
    | None => Ret (false, result)
    | Some v => Ret (true, v)
    end.

Definition DefaultValue_get_argument (callback_ : ArgsCallback) : ArgsCallback := fun k result value =>
  match Url.SubString_find_char k "="%uchar 0 with
  | Some O => Ret (false, result)
  | None => callback_ k result value
  | Some pos =>
    let* r := callback_ (take pos k) result value in
    if r.1 then Ret (true, r.2)
    else Ret (true, if value then drop (pos + 1) k else take pos k)
  end.

Record ArgsEncoder : Type := {
  args_container_ : ArgsCallback;
  ENCODE_ : bool;
  ERROR_IF_NO_KEY_ : bool;
  DEFAULT_ENCODER_ : ValueEncoder }.

(** the constructor; the encoder of [default_encoding] may be null *)
Definition ArgsEncoder_ (args_container : ArgsCallback) (encode error_if_no_key : bool)
    (default_encoding : option ValueEncoder) : outcome ArgsEncoder :=
  match default_encoding with
  | None => Throw (UnknownName "invalid key")
  | Some e => Ret {| args_container_ := args_container; ENCODE_ := encode;
                     ERROR_IF_NO_KEY_ := error_if_no_key; DEFAULT_ENCODER_ := e |}
  end.

Definition set_callback (a : ArgsEncoder) (args_container : ArgsCallback) : ArgsEncoder :=
  {| args_container_ := args_container; ENCODE_ := ENCODE_ a; ERROR_IF_NO_KEY_ := ERROR_IF_NO_KEY_ a;
     DEFAULT_ENCODER_ := DEFAULT_ENCODER_ a |}.

(** the encoder a key asks for, and the key without it *)
Definition choose_encoder (relation_ : EncoderHolder) (a : ArgsEncoder) (k : list Z) : ValueEncoder * list Z :=
  if ENCODE_ a then
    match Url.SubString_find_char k ":"%uchar 0 with
    | Some pos =>
      match get_value_encoder relation_ (take pos k) with
      | Some found => (found, drop (pos + 1) k)
      | None => (DEFAULT_ENCODER_ a, k)
      end
    | None => (DEFAULT_ENCODER_ a, k)
    end
  else (DEFAULT_ENCODER_ a, k).

Definition ArgsEncoder_get_argument (relation_ : EncoderHolder) (a : ArgsEncoder) : ArgsCallback :=
  fun k result value =>
  match k with
  | [] => Ret (false, result)
  | _ =>
    let '(encoder, key_val) := choose_encoder relation_ a k in
    let* r := args_container_ a key_val [] value in
    if negb r.1 then
      if ERROR_IF_NO_KEY_ a then Ret (false, result)
      else Ret (true, if value then [] else key_val)
    else if negb value then Ret (true, r.2)
    else if is_utf8_encoder encoder then Ret (true, r.2)
    else let* encoded := run_encoder encoder r.2 in Ret (true, encoded)
  end.

(** [Args] with the values [cont_] *)
Definition Args_ (cont_ : gmap (list Z) (list Z)) (encode error_if_no_key : bool)
    (default_encoding : option ValueEncoder) (has_defaults : bool) : outcome ArgsEncoder :=
  let* a := ArgsEncoder_ (fun _ _ _ => Undef) encode error_if_no_key default_encoding in
  let callback := ArgsContainer_get_argument cont_ in
  Ret (set_callback a (if has_defaults then DefaultValue_get_argument callback else callback)).

(** ** [UpdateStrategy] *)

(** [update] with what the file gives: an exception on opening it, or its content
    and the state of the stream *)
Definition UpdateStrategy_update (t : Template) (file : exn + list Z * bool) (start_lexeme end_lexeme : list Z) :
    Template * outcome unit :=
  match file with
  | inl _ => (t, Throw (TextTemplException "failed to open file"))
  | inr (content, bad) =>
    let '(t, r) := IStream_init t content bad start_lexeme end_lexeme in
    (t, match r with
        | Throw (TextTemplException _ | InvalidTemplate _ | UnknownName _) =>
          Throw (TextTemplException "failed to initialize with file")
        | Throw _ => Throw (TextTemplException "failed to open file")
        | Ret _ => Ret tt
        | Undef => Undef
        end)
  end.

(** ** Searching *)

(** [p] ends where the first occurrence of [sub] in [p ++ sub] begins *)
Definition before_first (sub p : list Z) : Prop := forall a b, p ++ sub = a ++ sub ++ b -> b = [].

Lemma find_lexeme_spec str sub pos : sub <> [] -> (pos <= length str)%nat ->
  match find str sub pos with
  | None => ~ occurs sub (drop pos str)
  | Some i => exists p t, drop pos str = p ++ sub ++ t /\ i = (pos + length p)%nat /\ before_first sub p
  end.
Proof.
  intros Hn Hp. unfold find, SubString_find. destruct (Nat.ltb_spec (length (drop pos str)) (length sub)) as [Hl|_].
  { intros (a & b & E). apply (f_equal length) in E. rewrite !length_app in E. lia. }
  pose proof (search_spec sub (drop pos str) Hn) as H. destruct (search sub (drop pos str)) as [q|]; [|done].
  destruct H as (p & t & Ep & -> & Hf). exists p, t. split; [done|]. split; [|done].
  apply (f_equal length) in Ep. rewrite length_drop, !length_app in Ep. rewrite length_app. lia.
Qed.

(** both can be evaluated *)
Lemma before_first_search sub p : sub <> [] -> search sub (p ++ sub) = Some sub -> before_first sub p.
Proof.
  intros Hn E. pose proof (search_spec sub (p ++ sub) Hn) as H. rewrite E in H.
  destruct H as (q & t & Eq & _ & Hf). apply app_inv_tail in Eq as ->. exact Hf.
Qed.

Lemma occurs_search sub t : sub <> [] -> search sub t = None -> ~ occurs sub t.
Proof. intros Hn E. pose proof (search_spec sub t Hn) as H. by rewrite E in H. Qed.

(** the place of the first occurrence is determined *)
Lemma before_first_unique sub p q t u : sub <> [] -> before_first sub p -> before_first sub q ->
  p ++ sub ++ t = q ++ sub ++ u -> p = q /\ t = u.
Proof.
  assert (G : forall p q t u, sub <> [] -> before_first sub q -> p ++ sub ++ t = q ++ sub ++ u ->
    (length p <= length q)%nat -> p = q).
  { clear. intros p q t u Hn Hq E Hl. assert (Ep : q = p ++ drop (length p) q).
    { rewrite <- (take_drop (length p) q) at 1. f_equal.
      assert (E' : take (length p) (p ++ sub ++ t) = take (length p) (q ++ sub ++ u)) by (by rewrite E).
      rewrite take_app_length, take_app_le in E' by lia. done. }
    set (d := drop (length p) q) in *. clearbody d. subst q. rewrite <- app_assoc in E. apply app_inv_head in E.
    (* sub ++ t = d ++ sub ++ u *)
    assert (Ed : exists b, d ++ sub = sub ++ b).
    { exists (drop (length sub) (d ++ sub)). rewrite <- (take_drop (length sub) (d ++ sub)) at 1. f_equal.
      assert (E' : take (length sub) (sub ++ t) = take (length sub) ((d ++ sub) ++ u)) by (by rewrite E, <- app_assoc).
      rewrite take_app_length, take_app_le in E' by (rewrite length_app; lia). done. }
    destruct Ed as [b Eb]. specialize (Hq p b). rewrite <- app_assoc, Eb in Hq. specialize (Hq eq_refl). subst b.
    apply (f_equal length) in Eb. rewrite !length_app in Eb. cbn [length] in Eb.
    destruct d; [by rewrite app_nil_r|cbn [length] in Eb; lia]. }
  intros Hn Hp Hq E. assert (p = q) as ->.
  { destruct (Nat.le_ge_cases (length p) (length q)); [by eapply G|]. symmetry. by eapply G. }
  split; [done|]. by apply app_inv_head, app_inv_head in E.
Qed.

(** ** What a template is cut into *)

(** the text before a variable, which is an item only if there is some *)
Definition text_item (p : list Z) : list Item := match p with [] => [] | _ => [StringItem p] end.

Section Lexemes.
Context (start_lexeme end_lexeme : list Z) (start_some : start_lexeme <> []) (end_some : end_lexeme <> []).

(** The items of a template, and whether it is complete: texts go up to the next
    start lexeme, keys to the next end lexeme after it. *)
Inductive splits : list Z -> list Item -> bool -> Prop :=
| splits_end : splits [] [] true
| splits_text t : t <> [] -> ~ occurs start_lexeme t -> splits t [StringItem t] true
| splits_var p k rest its ok : before_first start_lexeme p -> before_first end_lexeme k -> splits rest its ok ->
    splits (p ++ start_lexeme ++ k ++ end_lexeme ++ rest) (text_item p ++ VarItem k :: its) ok
| splits_open p rest : before_first start_lexeme p -> ~ occurs end_lexeme rest ->
    splits (p ++ start_lexeme ++ rest) (text_item p) false.

Lemma occurs_at sub (p t : list Z) : occurs sub (p ++ sub ++ t).
Proof using. by exists p, t. Qed.

(** A template is cut in one way only. *)
Lemma splits_unique src its ok its' ok' : splits src its ok -> splits src its' ok' -> its = its' /\ ok = ok'.
Proof using start_some end_some.
  intros H. revert its' ok'. induction H as [|t Ht Hno|p k rest its ok Hp Hk Hs IH|p rest Hp Hno]; intros its' ok' H'.
  - inversion H' as [|t Ht|p k rest i o ? ? ? E|p rest ? ? E]; subst; try done.
    + apply app_eq_nil in E as [_ E]. by apply app_eq_nil in E as [-> _].
    + apply app_eq_nil in E as [_ E]. by apply app_eq_nil in E as [-> _].
  - inversion H' as [|t' Ht'|p k rest i o ? ? ? E|p rest ? ? E]; subst; try done; by destruct Hno; apply occurs_at.
  - inversion H' as [E|t' Ht' Hno' E|q k' rest' i o Hq Hk' Hs' E|q rest' Hq Hno' E]; subst.
    + apply (eq_sym) in E. apply app_eq_nil in E as [_ E]. by apply app_eq_nil in E as [-> _].
    + by destruct Hno'; apply occurs_at.
    + apply before_first_unique in E as [-> E]; [|done..]. apply before_first_unique in E as [-> ->]; [|done..].
      destruct (IH _ _ Hs') as [-> ->]. done.
    + apply before_first_unique in E as [-> E]; [|done..]. subst. by destruct Hno'; apply occurs_at.
  - inversion H' as [E|t' Ht' Hno' E|q k' rest' i o Hq Hk' Hs' E|q rest' Hq Hno' E]; subst.
    + apply (eq_sym) in E. apply app_eq_nil in E as [_ E]. by apply app_eq_nil in E as [-> _].
    + by destruct Hno'; apply occurs_at.
    + apply before_first_unique in E as [-> E]; [|done..]. subst. by destruct Hno; apply occurs_at.
    + by apply before_first_unique in E as [-> _].
Qed.

Definition closing_missing : exn := InvalidTemplate "invalid template: closing lexeme not found".

Lemma text_item_push (its0 : list Item) p str begin : begin = length p -> take begin str = p ->
  (if (0 <? begin)%nat then its0 ++ [StringItem (take begin str)] else its0) = its0 ++ text_item p.
Proof using.
  intros -> ->. destruct p as [|c p]; [by rewrite app_nil_r|done].
Qed.

Lemma init_loop_ok fuel str its0 : (length str <= fuel)%nat -> exists its ok, splits str its ok /\
  init_loop fuel start_lexeme end_lexeme str its0 =
  (its0 ++ its, if ok then Ret tt else Throw closing_missing).
Proof using start_some end_some.
  revert str its0. induction fuel as [|fuel IH]; intros str its0 Hf.
  { destruct str as [|c str]; [|cbn [length] in Hf; lia]. exists [], true. split; [constructor|]. by rewrite app_nil_r. }
  cbn [init_loop]. destruct str as [|c str]; [exists [], true; split; [constructor|by rewrite app_nil_r]|].
  set (s := c :: str) in *. pose proof (find_lexeme_spec s start_lexeme 0 start_some ltac:(lia)) as Hs.
  rewrite drop_0 in Hs. destruct (find s start_lexeme 0) as [begin|].
  2: { exists [StringItem s], true. split; [by apply splits_text|done]. }
  destruct Hs as (p & t & Es & -> & Hp). rewrite Nat.add_0_l.
  rewrite (text_item_push its0 p s _ eq_refl) by (by rewrite Es, take_app_length).
  assert (Ed : drop (length p + length start_lexeme) s = t) by (by rewrite Es, <- drop_drop, !drop_app_length).
  pose proof (find_lexeme_spec s end_lexeme (length p + length start_lexeme) end_some) as He.
  specialize (He ltac:(rewrite Es, !length_app; lia)). rewrite Ed in He |- *.
  destruct (find s end_lexeme (length p + length start_lexeme)) as [e|].
  2: { exists (text_item p), false. split; [|done]. rewrite Es. by apply splits_open. }
  destruct He as (k & rest & -> & -> & Hk).
  replace (length p + length start_lexeme + length k - (length p + length start_lexeme))%nat with (length k) by lia.
  rewrite take_app_length.
  assert (Er : drop (length p + length start_lexeme + length k + length end_lexeme) s = rest).
  { rewrite <- !drop_drop, Es, !drop_app_length. done. }
  rewrite Er. destruct (IH rest ((its0 ++ text_item p) ++ [VarItem k])) as (its & ok & Hspl & E).
  { apply (f_equal length) in Es. rewrite !length_app in Es. destruct start_lexeme; [done|]. cbn [length] in *. lia. }
  exists (text_item p ++ VarItem k :: its), ok. split; [rewrite Es; by apply splits_var|].
  rewrite E. by rewrite <- !app_assoc.
Qed.

Lemma init_ok src : exists its ok, splits src its ok /\
  init src start_lexeme end_lexeme = (its, if ok then Ret tt else Throw closing_missing).
Proof using start_some end_some.
  destruct (init_loop_ok (length src) src [] ltac:(lia)) as (its & ok & Hs & E). exists its, ok. split; [done|].
  unfold init. destruct start_lexeme; [done|]. by destruct end_lexeme.
Qed.

(** the text that items stand for *)
Definition item_text (it : Item) : list Z :=
  match it with StringItem v => v | VarItem k => start_lexeme ++ k ++ end_lexeme end.

Definition template_text (its : list Item) : list Z := concat (map item_text its).

Lemma text_item_text p : template_text (text_item p) = p.
Proof using. destruct p; [done|]. unfold template_text. cbn. by rewrite app_nil_r. Qed.

Lemma template_text_app l l' : template_text (l ++ l') = template_text l ++ template_text l'.
Proof using. unfold template_text. by rewrite map_app, concat_app. Qed.

(** a complete template is the text of its items, an incomplete one goes on with
    the start lexeme *)
Lemma splits_text_of src its ok : splits src its ok ->
  if ok then template_text its = src
  else exists rest, src = template_text its ++ start_lexeme ++ rest /\ ~ occurs end_lexeme rest.
Proof using.
  intros H. induction H as [|t Ht Hno|p k rest its ok Hp Hk Hs IH|p rest Hp Hno].
  - done.
  - unfold template_text. cbn. by rewrite app_nil_r.
  - rewrite template_text_app, text_item_text. change (template_text (VarItem k :: its)) with
      ((start_lexeme ++ k ++ end_lexeme) ++ template_text its). destruct ok.
    + rewrite IH. by rewrite <- !app_assoc.
    + destruct IH as (r & -> & Hr). exists r. split; [|done]. by rewrite <- !app_assoc.
  - exists rest. rewrite text_item_text. done.
Qed.
End Lexemes.

(** ** What a template is filled with *)

(** the text of a template with the values of its keys; [None] if one has none *)
Fixpoint filled (val : list Z -> option (list Z)) (its : list Item) : option (list Z) :=
  match its with
  | [] => Some []
  | StringItem v :: its' => app v <$> filled val its'
  | VarItem k :: its' =>
    match val k, filled val its' with
    | Some v, Some t => Some (v ++ t)
    | _, _ => None
    end
  end.

(** [val] is what [args] answers for the keys of the items *)
Definition answers (args : ArgsCallback) (val : list Z -> option (list Z)) (its : list Item) : Prop :=
  forall k, In (VarItem k) its -> exists r, args k [] true = Ret (match val k with Some v => (true, v) | None => (false, r) end).

Lemma instantiate_loop_ok args val its str : answers args val its ->
  instantiate_loop args its str =
  match filled val its with
  | Some t => Ret (str ++ t)
  | None => Throw (UnknownName "failed to substitute key")
  end.
Proof.
  revert str. induction its as [|[v|k] its IH]; intros str H; cbn [instantiate_loop filled append_value].
  - by rewrite app_nil_r.
  - cbn [obind]. rewrite IH by (intros k Hk; apply H; by right).
    destruct (filled val its); cbn [fmap option_fmap option_map]; [by rewrite app_assoc|done].
  - destruct (H k ltac:(by left)) as [r ->]. cbn [obind]. destruct (val k) as [v|]; cbn [fst snd negb obind]; [|done].
    rewrite IH by (intros k' Hk; apply H; by right). destruct (filled val its); [by rewrite app_assoc|done].
Qed.

Lemma instantiate_ok args val its : answers args val its ->
  instantiate its args =
  match filled val its with Some t => Ret t | None => Throw (UnknownName "failed to substitute key") end.
Proof. intros H. unfold instantiate. rewrite (instantiate_loop_ok args val its []) by done. done. Qed.

Lemma filled_text start_lexeme end_lexeme its :
  filled (fun k => Some (start_lexeme ++ k ++ end_lexeme)) its = Some (template_text start_lexeme end_lexeme its).
Proof. induction its as [|[v|k] its IH]; [done| |]; cbn [filled]; by rewrite IH. Qed.

Lemma filled_app val its its' : filled val (its ++ its') =
  match filled val its, filled val its' with Some t, Some t' => Some (t ++ t') | _, _ => None end.
Proof.
  induction its as [|[v|k] its IH]; cbn [app filled]; [by destruct (filled val its')| |]; rewrite IH.
  - destruct (filled val its), (filled val its'); cbn; by rewrite ?app_assoc.
  - destruct (val k), (filled val its), (filled val its'); cbn; by rewrite ?app_assoc.
Qed.

(** ** Encoded values *)

Lemma c_str_nonzero v : ~ In 0 v -> c_str v = v.
Proof.
  unfold c_str. induction v as [|c v IH]; intros H; [done|]. cbn [getline0].
  destruct (Z.eqb_spec c 0) as [-> |_]; [destruct H; by left|]. cbn [fst].
  rewrite IH; [done|]. intros Hv. apply H. by right.
Qed.

Lemma utf8_nonzero ws : Forall text_scalar ws -> ~ In 0 (wchar_to_utf8_str ws).
Proof.
  induction 1 as [|w ws Hw%text_scalar_range _ IH]; [by intros []|]. cbn [wchar_to_utf8_str]. rewrite in_app_iff.
  intros [H|H]; [|done]. destruct (Z.ltb_spec w 128).
  - rewrite wchar_to_utf8_ascii in H by lia. destruct H as [->|[]]. lia.
  - destruct (wchar_to_utf8_high w ltac:(lia)) as [Hf _]. rewrite Forall_forall in Hf.
    apply list_elem_of_In, Hf in H. lia.
Qed.

(** the decoder of each registered encoder *)
Definition decodes (e : ValueEncoder) (enc v : list Z) : Prop :=
  match e with
  | encode_utf8_ => enc = v
  | encode_mime_ => mime_url_decode true enc = Ret v
  | encode_xml_ => xml_decode enc = Ret v
  | encode_js_unicode_ => js_unicode_decode enc [] true "\"%uchar = Ret v
  | encode_base64_ => exists fill, base64mod_decode enc true true = Ret (v, fill)
  | encode_js_ | encode_other _ => False
  end.

(** the encoders that have a decoder, with their names *)
Definition decodable : list (string * ValueEncoder) :=
  [("utf8"%string, encode_utf8_); ("mime-url"%string, encode_mime_); ("xml"%string, encode_xml_);
   ("js-unicode"%string, encode_js_unicode_); ("base64"%string, encode_base64_)].

(** Every value of Unicode text is encoded, and the decoder gives it back. *)
Lemma run_encoder_decodes ename e ws : In (ename, e) decodable -> Forall js_scalar ws ->
  exists enc, run_encoder e (wchar_to_utf8_str ws) = Ret enc /\ decodes e enc (wchar_to_utf8_str ws).
Proof.
  intros Hin Hws. assert (Ht : Forall text_scalar ws) by (eapply Forall_impl; [exact Hws|]; by intros w []).
  pose proof (c_str_nonzero _ (utf8_nonzero ws Ht)) as Ec. pose proof (wchar_to_utf8_str_bytes ws) as Hb.
  unfold decodable in Hin. cbn [In] in Hin.
  destruct Hin as [[= <- <-]|[[= <- <-]|[[= <- <-]|[[= <- <-]|[[= <- <-]|[]]]]]]; cbn [run_encoder decodes]; rewrite ?Ec.
  - eauto.
  - by apply mime_url_roundtrip.
  - exists (concat (map (xml_char (Z.lor XU_TEXT XU_ATTRIBUTE)) ws)). split; [|by apply xml_decode_chars].
    unfold xml_encode, XmlEncode.init. apply xml_encode_loop_spec; [done|].
    rewrite length_app. pose proof (length_utf8_str ws Ht). lia.
  - destruct (js_unicode_roundtrip ws [] true Hws) as (enc & E & D). eauto.
  - eexists. split; [reflexivity|]. eexists. apply decode_mod; [done|discriminate].
Qed.

Lemma decodable_registered ename e : In (ename, e) decodable ->
  get_value_encoder encoder_holder (bytes ename) = Some e /\ ~ In ":"%uchar (bytes ename).
Proof.
  intros Hin. unfold decodable in Hin. cbn [In] in Hin. rewrite <- list_elem_of_In.
  destruct Hin as [[= <- <-]|[[= <- <-]|[[= <- <-]|[[= <- <-]|[[= <- <-]|[]]]]]];
    (split; [vm_compute; reflexivity|by_eval]).
Qed.

(** ** The arguments of [Args] *)

Lemma find_char_first a ch b : ~ In ch a -> Url.SubString_find_char (a ++ ch :: b) ch 0 = Some (length a).
Proof.
  intros H. unfold Url.SubString_find_char. rewrite (proj2 (Nat.ltb_lt _ _)) by (rewrite length_app; cbn; lia).
  rewrite drop_0, Url.index_app by done. cbn [Url.index]. rewrite Z.eqb_refl. cbn. f_equal. lia.
Qed.

(** [name=default] is the value of [name], or [default] if there is none *)
Lemma default_argument cont name def result : name <> [] -> ~ In "="%uchar name ->
  DefaultValue_get_argument (ArgsContainer_get_argument cont) (name ++ "="%uchar :: def) result true =
  Ret (true, match cont !! name with Some v => v | None => def end).
Proof.
  intros Hn He. unfold DefaultValue_get_argument. rewrite find_char_first by done.
  rewrite take_app_length. destruct (length name) eqn:El; [destruct name; done|]. rewrite <- El.
  unfold ArgsContainer_get_argument. cbn [negb]. destruct (cont !! name) as [v|]; cbn [obind fst snd]; [done|].
  by rewrite <- drop_drop, drop_app_length.
Qed.

(** [encoder:key] is the value of [key], encoded *)
Lemma encoded_argument a ename e k value result : In (ename, e) decodable -> ENCODE_ a = true ->
  args_container_ a k [] true = Ret (true, value) ->
  ArgsEncoder_get_argument encoder_holder a (bytes ename ++ ":"%uchar :: k) result true =
  let* enc := run_encoder e value in Ret (true, enc).
Proof.
  intros Hin Henc Ha. destruct (decodable_registered ename e Hin) as [Hg Hc].
  unfold ArgsEncoder_get_argument. destruct (bytes ename ++ ":"%uchar :: k) as [|x l] eqn:El; [by destruct (bytes ename)|].
  rewrite <- El. unfold choose_encoder. rewrite Henc, find_char_first, take_app_length, Hg by done.
  rewrite <- drop_drop, drop_app_length. cbn [drop]. rewrite drop_0, Ha. cbn [obind fst snd negb].
  destruct e; done.
Qed.

(** ** The theorems *)

(** C30: [Basic::init] with lexemes that are not empty returns, and cuts the template
    at the first start lexeme and the first end lexeme after it, again and again:
    there is one such cut, the items of a complete template stand for its text, and
    [InvalidTemplate] is thrown exactly when an end lexeme is missing, with the items
    found before it left in the template. *)
Theorem init_correct start_lexeme end_lexeme src : start_lexeme <> [] -> end_lexeme <> [] ->
  exists its ok, splits start_lexeme end_lexeme src its ok /\
    init src start_lexeme end_lexeme = (its, if ok then Ret tt else Throw closing_missing) /\
    (forall its' ok', splits start_lexeme end_lexeme src its' ok' -> its' = its /\ ok' = ok) /\
    (if ok then template_text start_lexeme end_lexeme its = src
     else exists rest, src = template_text start_lexeme end_lexeme its ++ start_lexeme ++ rest /\
       ~ occurs end_lexeme rest).
Proof.
  intros Hs He. destruct (init_ok start_lexeme end_lexeme Hs He src) as (its & ok & Hsp & E).
  exists its, ok. split; [done|]. split; [done|]. split.
  - intros its' ok' H. by apply (splits_unique start_lexeme end_lexeme Hs He src).
  - by apply splits_text_of.
Qed.

Lemma init_correct_witness :
  exists its ok, splits (bytes "%%") (bytes "%%") (bytes "a%%k%%b%%c") its ok /\
    init (bytes "a%%k%%b%%c") (bytes "%%") (bytes "%%") = (its, if ok then Ret tt else Throw closing_missing) /\
    (forall its' ok', splits (bytes "%%") (bytes "%%") (bytes "a%%k%%b%%c") its' ok' -> its' = its /\ ok' = ok) /\
    (if ok then template_text (bytes "%%") (bytes "%%") its = bytes "a%%k%%b%%c"
     else exists rest, bytes "a%%k%%b%%c" = template_text (bytes "%%") (bytes "%%") its ++ bytes "%%" ++ rest /\
       ~ occurs (bytes "%%") rest).
Proof. apply (init_correct (bytes "%%") (bytes "%%") (bytes "a%%k%%b%%c")); done. Defined.

(** C31: [instantiate] replaces every key of a template by the value the callback
    answers for it and leaves the rest of the text; it throws [UnknownName] exactly
    when the callback refuses a key.  Keys replaced by themselves between the lexemes
    give the template back. *)
Theorem instantiate_correct start_lexeme end_lexeme src its args val :
  start_lexeme <> [] -> end_lexeme <> [] -> init src start_lexeme end_lexeme = (its, Ret tt) ->
  answers args val its ->
  instantiate its args =
    match filled val its with Some t => Ret t | None => Throw (UnknownName "failed to substitute key") end /\
  filled (fun k => Some (start_lexeme ++ k ++ end_lexeme)) its = Some src.
Proof.
  intros Hs He Hi Ha. split; [by apply instantiate_ok|].
  destruct (init_ok start_lexeme end_lexeme Hs He src) as (its' & ok & Hsp & E). rewrite Hi in E.
  injection E as <- Eok. destruct ok; [|done]. rewrite filled_text. by rewrite (splits_text_of _ _ _ _ _ Hsp).
Qed.

Lemma instantiate_correct_witness :
  instantiate [StringItem (bytes "Dear "); VarItem (bytes "name"); StringItem (bytes "!")]
    (ArgsContainer_get_argument {[bytes "name" := bytes "Ann"]}) = Ret (bytes "Dear Ann!") /\
  filled (fun k => Some (bytes "%%" ++ k ++ bytes "%%"))
    [StringItem (bytes "Dear "); VarItem (bytes "name"); StringItem (bytes "!")] = Some (bytes "Dear %%name%%!").
Proof.
  apply (instantiate_correct (bytes "%%") (bytes "%%") (bytes "Dear %%name%%!")
    [StringItem (bytes "Dear "); VarItem (bytes "name"); StringItem (bytes "!")]
    (ArgsContainer_get_argument {[bytes "name" := bytes "Ann"]}) (fun _ => Some (bytes "Ann"))).
  - done.
  - done.
  - vm_compute. reflexivity.
  - intros k [H|[H|[H|[]]]]; try discriminate H. injection H as <-. exists []. vm_compute. reflexivity.
Defined.

(** C32: A key [encoder:name=default] between the default lexemes, with one of the
    registered encoders [utf8], [mime-url], [xml], [js-unicode] or [base64] (not [js]),
    where the value of [name], or [default] if it has none, is well-formed UTF-8 without
    a zero and without [U+D700] to [U+D7FF], which the decoder takes for half of a pair,
    and the text before and the key hold no lexeme: [Args] takes this value, and the
    text that stands for the key in the instantiated template decodes to it. *)
Theorem Args_encoded cont error_if_no_key ename e name def ws t1 t2 a : In (ename, e) decodable ->
  name <> [] -> ~ In "="%uchar name -> Forall js_scalar ws ->
  match cont !! name with Some v => v | None => def end = wchar_to_utf8_str ws ->
  before_first DEFAULT_LEXEME t1 ->
  before_first DEFAULT_LEXEME (bytes ename ++ ":"%uchar :: name ++ "="%uchar :: def) ->
  t2 <> [] -> ~ occurs DEFAULT_LEXEME t2 ->
  Args_ cont true error_if_no_key (Some encode_utf8_) true = Ret a ->
  exists its enc,
    init (t1 ++ DEFAULT_LEXEME ++ (bytes ename ++ ":"%uchar :: name ++ "="%uchar :: def) ++ DEFAULT_LEXEME ++ t2)
      DEFAULT_LEXEME DEFAULT_LEXEME = (its, Ret tt) /\
    instantiate its (ArgsEncoder_get_argument encoder_holder a) = Ret (t1 ++ enc ++ t2) /\
    decodes e enc (wchar_to_utf8_str ws).
Proof.
  intros Hin Hn He Hws Hv H1 Hk Ht2 H2 Ha. set (k := bytes ename ++ ":"%uchar :: name ++ "="%uchar :: def) in *.
  assert (Hl : DEFAULT_LEXEME <> []) by done.
  assert (Hsp : splits DEFAULT_LEXEME DEFAULT_LEXEME (t1 ++ DEFAULT_LEXEME ++ k ++ DEFAULT_LEXEME ++ t2)
    (text_item t1 ++ VarItem k :: [StringItem t2]) true) by (apply splits_var; [done|done|by apply splits_text]).
  destruct (init_ok _ _ Hl Hl (t1 ++ DEFAULT_LEXEME ++ k ++ DEFAULT_LEXEME ++ t2)) as (its & ok & Hsp' & E).
  destruct (splits_unique _ _ Hl Hl _ _ _ _ _ Hsp Hsp') as [<- <-].
  destruct (run_encoder_decodes ename e ws Hin Hws) as (enc & Er & Hd).
  eexists _, enc. split; [exact E|]. split; [|done].
  unfold Args_, ArgsEncoder_ in Ha. cbn [obind] in Ha. injection Ha as <-.
  rewrite (instantiate_ok _ (fun _ => Some enc)).
  - rewrite filled_app. assert (Ft : filled (fun _ => Some enc) (text_item t1) = Some t1).
    { destruct t1 as [|c t1]; [done|]. cbn. by rewrite app_nil_r. }
    rewrite Ft. cbn. by rewrite app_nil_r.
  - intros k' Hk'. exists []. apply in_app_iff in Hk' as [Hk'|[Hk'|[Hk'|[]]]]; [|injection Hk' as <-|done].
    { destruct t1; [done|]. by destruct Hk' as [Hk'|[]]. }
    unfold k. rewrite (encoded_argument _ ename e _ (wchar_to_utf8_str ws)); [by rewrite Er|done|done|].
    cbn [args_container_ set_callback]. by rewrite default_argument, Hv.
Qed.

Lemma Args_encoded_witness :
  exists its enc,
    init (bytes "<p>" ++ DEFAULT_LEXEME ++ (bytes "xml" ++ ":"%uchar :: bytes "who" ++ "="%uchar :: bytes "you") ++
        DEFAULT_LEXEME ++ bytes "</p>") DEFAULT_LEXEME DEFAULT_LEXEME = (its, Ret tt) /\
    instantiate its (ArgsEncoder_get_argument encoder_holder
      {| args_container_ := DefaultValue_get_argument (ArgsContainer_get_argument {[bytes "who" := bytes "A&B"]});
         ENCODE_ := true; ERROR_IF_NO_KEY_ := true; DEFAULT_ENCODER_ := encode_utf8_ |}) =
      Ret (bytes "<p>" ++ enc ++ bytes "</p>") /\
    decodes encode_xml_ enc (wchar_to_utf8_str (bytes "A&B")).
Proof.
  apply (Args_encoded {[bytes "who" := bytes "A&B"]} true "xml" encode_xml_ (bytes "who") (bytes "you") (bytes "A&B")
    (bytes "<p>") (bytes "</p>")).
  - right. right. left. reflexivity.
  - done.
  - rewrite <- list_elem_of_In. by_eval.
  - by_eval.
  - vm_compute. reflexivity.
  - apply before_first_search; [done|]. vm_compute. reflexivity.
  - apply before_first_search; [done|]. vm_compute. reflexivity.
  - done.
  - apply occurs_search; [done|]. vm_compute. reflexivity.
  - reflexivity.
Defined.

(** A template with a default and an encoder, from its text to the result. *)
Example template_sample :
  (let* _ := (init (bytes "?q=%%mime-url:q=a b%%&x=%%x%%") DEFAULT_LEXEME DEFAULT_LEXEME).2 in
   let* a := Args_ {[bytes "x" := bytes "1"]} true true (Some encode_utf8_) true in
   instantiate (init (bytes "?q=%%mime-url:q=a b%%&x=%%x%%") DEFAULT_LEXEME DEFAULT_LEXEME).1
     (ArgsEncoder_get_argument encoder_holder a)) = Ret (bytes "?q=a+b&x=1").
Proof. vm_compute. reflexivity. Qed.

(** A read that fails leaves the items of the template that was there before,
    although its text is gone. *)
Lemma failed_read_keeps_items t content s e : In 0 content ->
  IStream_init t content false s e =
  ({| text_template_ := (getline0 content).1; items := items t |},
   Throw (TextTemplException "unable to read from istream.")).
Proof.
  intros H. unfold IStream_init. assert (E : (getline0 content).2 = false).
  { induction content as [|c content IH]; [done|]. cbn [getline0]. destruct (Z.eqb_spec c 0); [done|].
    cbn [snd]. apply IH. by destruct H. }
  destruct (getline0 content) as [text eof]. cbn [snd fst] in *. by rewrite E.
Qed.
