(* ===== verification/HttpAddress.v ===== *)
(** * HttpAddress: HTTP addresses and their checkers

    Models the classes of [src/HTTP/UrlAddress.cpp] over the parts of [Url]: [URLAddress],
    [HTTPAddress] with its views, [HTTPChecker].  The virtual functions that the derived
    classes override ([specific_checks_], [additional_checks_], [process_parts_]) are
    arguments of the functions that call them; [BrowserAddress] passes its own.

    A constructor that throws leaves no object; the state a failed assignment leaves in an
    object that exists is not modelled. *)
From S2P Require Import Prelude AsciiManip Tokenizer IntStr Url.
Local Open Scope Z_scope.
Local Open Scope outcome_scope.

(** ** Checks of HTTP URLs *)

Definition uint16_t : IntegerType := {| is_signed := false; digits := 16 |}.

Definition HTTP_PREFIX : list Z := bytes "http:".
Definition HTTPS_PREFIX : list Z := bytes "https:".
Definition SCHEME_AUTHORITY_MEDIATOR : list Z := bytes "://".

Definition is_http (scheme : list Z) : bool := Caseless_equal HTTP_SCHEME scheme.
Definition is_https (scheme : list Z) : bool := Caseless_equal HTTPS_SCHEME scheme.

Definition check_http_url_components (scheme host : list Z) (strict : bool) : option string :=
  if negb (is_http scheme) && negb (is_https scheme) && (strict || negb (is_nil scheme))
  then make_invalid "unexpected protocol in url"
  else if is_nil host then make_invalid "empty server name in url"
  else None.

Definition http_url_needs_prefix (scheme host : list Z) : bool :=
  is_nil host && negb (is_http scheme) && negb (is_https scheme).

Definition http_add_scheme (url : list Z) : list Z := HTTP_SCHEME ++ SCHEME_AUTHORITY_MEDIATOR ++ url.

(** ** URLAddress *)

Record URLAddress : Type := { url_ : list Z; parts_ : ExtendedUrlParts }.

Definition url_without_check_ (value : list Z) : outcome URLAddress :=
  match value with
  | [] => Ret {| url_ := []; parts_ := clear |}
  | _ => let* p := split_url value in Ret {| url_ := value; parts_ := p |}
  end.

Definition throw_if (error : option string) : outcome unit :=
  match error with Some e => Throw (InvalidURL e) | None => Ret tt end.

(** [assign_], with the [specific_checks_] of the class *)
Definition URLAddress_assign_ (specific_checks_ : URLAddress -> outcome URLAddress) (value : list Z) : outcome URLAddress :=
  let* a := url_without_check_ value in
  let* a := specific_checks_ a in
  let* error := URLPartsChecker (parts_ a) in
  let* _ := throw_if error in
  Ret a.

(** The constructors from a URL and from parts, and the copy. *)
Definition URLAddress_of_url (value : list Z) : outcome URLAddress := URLAddress_assign_ Ret value.

Definition URLAddress_of_parts (scheme userinfo host port path query fragment : list Z) : outcome URLAddress :=
  let* (u, p) := assign_url_parts_ (UrlParts_ scheme userinfo host port path query fragment) true in
  Ret {| url_ := u; parts_ := p |}.

Definition URLAddress_copy (another : URLAddress) : outcome URLAddress :=
  let* (u, p) := assign_url_parts_ (parts_ another) false in Ret {| url_ := u; parts_ := p |}.

(** ** HTTPAddress *)

Record HTTPAddress : Type := {
  address : URLAddress; port_number_ : Z; secure_ : bool; default_port_ : bool
}.

Definition get_default_port_ (secure : bool) : Z := if secure then 443 else 80.
Definition DEFAULT_PATH : list Z := bytes "/".

Definition set_text (x : Part) (t : list Z) : Part := {| has := has x; text := t |}.

(** One round of the loop over the parts that are repaired. *)
Definition fix_part (x : Part) (checker : CharTable) : outcome (Part * bool) :=
  let* r := http_fix_part (text x) checker in
  Ret (match r with Some t => (set_text x t, true) | None => (x, false) end).

Definition fix_parts (p : UrlParts) : outcome (UrlParts * bool) :=
  let* (ui, b1) := fix_part (userinfo p) USER_INFO in
  let* (pa, b2) := fix_part (path p) PATH in
  let* (qu, b3) := fix_part (query p) QUERY in
  let* (fr, b4) := fix_part (fragment p) FRAGMENT in
  Ret ({| scheme := scheme p; userinfo := ui; host := host p; port := port p; path := pa; query := qu; fragment := fr |},
       b1 || b2 || b3 || b4).

(** The prefix that is added outside strict mode. *)
Definition add_prefix (strict_ : bool) (a : URLAddress) : outcome URLAddress :=
  if negb strict_ && http_url_needs_prefix (text (scheme (parts_ a))) (text (host (parts_ a)))
  then url_without_check_ (http_add_scheme (url_ a)) else Ret a.

(** [specific_checks_]; [additional_checks_] changes the object and tells whether to rebuild it *)
Definition HTTPAddress_specific_checks_ (strict_ : bool)
    (additional_checks_ : URLAddress -> outcome (URLAddress * bool)) (a : URLAddress) : outcome URLAddress :=
  let* a := add_prefix strict_ a in
  let* (a, rebuild) := additional_checks_ a in
  let* _ := throw_if (check_http_url_components (text (scheme (parts_ a))) (text (host (parts_ a))) strict_) in
  let* (new_parts, fixed) := if strict_ then Ret (parts (parts_ a), false) else fix_parts (parts_ a) in
  if rebuild || fixed then
    let* (u, p) := assign_url_parts_ new_parts false in Ret {| url_ := u; parts_ := p |}
  else Ret a.

Definition no_additional_checks (a : URLAddress) : outcome (URLAddress * bool) := Ret (a, false).

Definition set_path (a : URLAddress) (t : list Z) : URLAddress :=
  let p := parts (parts_ a) in
  {| url_ := url_ a;
     parts_ := {| parts := {| scheme := scheme p; userinfo := userinfo p; host := host p; port := port p;
                              path := set_text (path p) t; query := query p; fragment := fragment p |};
                  authority := authority (parts_ a); host_after := host_after (parts_ a) |} |}.

(** The second half of [assign_]: the numbers behind the parts *)
Definition HTTPAddress_finish_ (a : URLAddress) : outcome HTTPAddress :=
  let secure := is_https (text (scheme (parts_ a))) in
  let port_str := text (port (parts_ a)) in
  let* (port_number, default_port) :=
    match port_str with
    | [] => Ret (get_default_port_ secure, true)
    | _ =>
      let* n := str_to_int uint16_t port_str in
      match n with
      | Some n => Ret (n, false)
      | None => Throw (InvalidURL "invalid port value=")
      end
    end in
  let a := match text (path (parts_ a)) with [] => set_path a DEFAULT_PATH | _ => a end in
  Ret {| address := a; port_number_ := port_number; secure_ := secure; default_port_ := default_port |}.

Definition HTTPAddress_assign_ (strict_ : bool) (additional_checks_ : URLAddress -> outcome (URLAddress * bool))
    (http_url : list Z) : outcome HTTPAddress :=
  match http_url with
  | [] => Throw (InvalidURL "url is nil")
  | _ =>
    let* a := URLAddress_assign_ (HTTPAddress_specific_checks_ strict_ additional_checks_) http_url in
    HTTPAddress_finish_ a
  end.

Definition empty_address : HTTPAddress :=
  {| address := {| url_ := []; parts_ := clear |}; port_number_ := 0; secure_ := false; default_port_ := true |}.

(** The constructors from a URL *)
Definition HTTPAddress_of_url (url : list Z) (strict_url : bool) : outcome HTTPAddress :=
  match url with
  | [] => Ret empty_address
  | _ => HTTPAddress_assign_ strict_url no_additional_checks url
  end.

Definition set_ (secure : bool) (userinfo host : list Z) (port : Z) (path query fragment : list Z) : outcome HTTPAddress :=
  match host with
  | [] => Ret empty_address
  | _ =>
    let default_port := port =? get_default_port_ secure in
    let* (u, p) := assign_url_parts_
      (UrlParts_ (if secure then HTTPS_SCHEME else HTTP_SCHEME) userinfo host (if default_port then [] else decimal port)
         (match path with [] => DEFAULT_PATH | _ => path end) query fragment) true in
    Ret {| address := {| url_ := u; parts_ := p |}; port_number_ := port; secure_ := secure; default_port_ := default_port |}
  end.

(** The constructor from parts *)
Definition HTTPAddress_of_parts (host path query fragment : list Z) (port : Z) (secure : bool) (userinfo : list Z)
    : outcome HTTPAddress :=
  set_ secure userinfo host (if negb (port =? 0) then port else get_default_port_ secure) path query fragment.

Definition create_address (url : list Z) : outcome HTTPAddress :=
  match url with
  | [] => Throw (InvalidURL "url is empty")
  | _ =>
    if Caseless_start HTTP_PREFIX url || Caseless_start HTTPS_PREFIX url then HTTPAddress_of_url url true
    else Throw (InvalidURL "unsupported protocol in url")
  end.

(** *** get_view *)

Definition VW_PROTOCOL : Z := 0x01.
Definition VW_HOSTNAME : Z := 0x02.
Definition VW_HOSTNAME_WWW : Z := VW_HOSTNAME + 0x100.
Definition VW_PORT : Z := 0x04.
Definition VW_NDEF_PORT : Z := 0x08.
Definition VW_PATH : Z := 0x10.
Definition VW_QUERY : Z := 0x20.
Definition VW_STRIP_PATH : Z := VW_PATH + 0x40.
Definition VW_FRAGMENT : Z := 0x80.
Definition VW_FULL : Z :=
  Z.lor (Z.lor (Z.lor (Z.lor (Z.lor VW_PROTOCOL VW_HOSTNAME) VW_NDEF_PORT) VW_PATH) VW_QUERY) VW_FRAGMENT.

Definition flag (flags f : Z) : bool := negb (Z.land flags f =? 0).
Definition all_flags (flags f : Z) : bool := Z.land flags f =? f.

Definition WWW : list Z := bytes "www.".

Definition view_path (flags : Z) (path : list Z) : outcome (list Z) :=
  if all_flags flags VW_STRIP_PATH then
    match path with
    | [] => Undef
    | _ =>
      let* last := rd path (length path - 1) in
      Ret (if last =? PATH_SEPARATOR then take (length path - 1) path else path)
    end
  else Ret path.

Definition get_view (a : HTTPAddress) (flags : Z) : outcome (list Z) :=
  let p := parts_ (address a) in
  let protocol :=
    if flag flags VW_PROTOCOL then
      (if has (scheme p) then (if secure_ a then HTTPS_PREFIX else HTTP_PREFIX) else []) ++ bytes "//"
    else [] in
  let hostname :=
    if flag flags VW_HOSTNAME then
      (if all_flags flags VW_HOSTNAME_WWW && negb (Caseless_start WWW (text (host p))) then WWW else []) ++ text (host p)
    else [] in
  let port :=
    if flag flags VW_PORT || (negb (default_port_ a) && flag flags VW_NDEF_PORT) then bytes ":" ++ decimal (port_number_ a)
    else [] in
  let* path := if flag flags VW_PATH then view_path flags (text (path p)) else Ret [] in
  let query := if flag flags VW_QUERY && has (query p) then bytes "?" ++ text (query p) else [] in
  let fragment := if flag flags VW_FRAGMENT && has (fragment p) then bytes "#" ++ text (fragment p) else [] in
  Ret (protocol ++ hostname ++ port ++ path ++ query ++ fragment).

(** ** HTTPChecker *)

(** [process_parts_] changes the parts; the result is the error. *)
Definition HTTPChecker_process_parts_ (strict : bool) (p : ExtendedUrlParts) : ExtendedUrlParts :=
  if strict then p
  else {| parts := {| scheme := scheme p; userinfo := absent; host := host p; port := port p; path := absent;
                      query := absent; fragment := absent |};
          authority := authority p; host_after := host_after p |}.

(** [ends] is what is known to follow the text: the zero behind a text that was made here,
    nothing behind the caller's. *)
Definition HTTPChecker_with
    (process_parts_ : bool -> list Z -> ExtendedUrlParts -> outcome (option string * ExtendedUrlParts))
    (url : list Z) (strict : bool) : outcome (option string) :=
  match url with
  | [] => Ret (Some "url is null")
  | _ =>
    let* p := split_url url in
    let prefix := negb strict && http_url_needs_prefix (text (scheme p)) (text (host p)) in
    let* p := if prefix then split_url (http_add_scheme url) else Ret p in
    let* (error, p) := process_parts_ strict (if prefix then [0] else []) p in
    orelse (Ret error)
      (orelse (Ret (check_http_url_components (text (scheme p)) (text (host p)) strict)) (URLPartsChecker p))
  end.

Definition HTTPChecker (url : list Z) (strict : bool) : outcome (option string) :=
  HTTPChecker_with (fun strict _ p => Ret (None, HTTPChecker_process_parts_ strict p)) url strict.

(** ** Facts *)

#[local] Arguments call : simpl never.
#[local] Opaque USER_INFO PATH QUERY FRAGMENT HOST PORT HEX_NUMBER.

(** The parts the work starts with: those of the URL, or of the URL behind [http://]. *)
Definition start_parts (strict : bool) (url : list Z) : outcome ExtendedUrlParts :=
  let* p := split_url url in
  if negb strict && http_url_needs_prefix (text (scheme p)) (text (host p)) then split_url (http_add_scheme url) else Ret p.

Lemma bytes_ok_app (a b : list Z) : bytes_ok (a ++ b) <-> bytes_ok a /\ bytes_ok b.
Proof. apply Forall_app. Qed.

Lemma add_prefix_ok strict url : url <> [] -> bytes_ok url ->
  exists u p c, (let* a := url_without_check_ url in add_prefix strict a) = Ret {| url_ := u; parts_ := p |} /\
  start_parts strict url = Ret p /\ split_url u = Ret p /\ splits u p c /\ bytes_ok u.
Proof.
  intros Hn Hb. unfold url_without_check_, start_parts, add_prefix. destruct url as [|ch url0] eqn:E; [done|]. rewrite <- E in *.
  destruct (split_url_ok url) as (p & c & Es & Hs). rewrite Es. cbn [obind url_ parts_].
  destruct (negb strict && http_url_needs_prefix (text (scheme p)) (text (host p))); [|by exists url, p, c].
  destruct (split_url_ok (http_add_scheme url)) as (p' & c' & Es' & Hs'). exists (http_add_scheme url), p', c'.
  unfold url_without_check_. change (http_add_scheme url) with ("h"%uchar :: drop 1 (http_add_scheme url)). cbn [obind].
  change ("h"%uchar :: drop 1 (http_add_scheme url)) with (http_add_scheme url). rewrite Es'. cbn [obind].
  split; [done|]. split; [done|]. split; [done|]. split; [done|]. unfold http_add_scheme.
  rewrite !bytes_ok_app. split; [by_eval|]. split; [by_eval|done].
Qed.

Lemma add_prefix_run {B} strict url (k : URLAddress -> outcome B) a : (let* a := url_without_check_ url in add_prefix strict a) = Ret a ->
  (let* a := url_without_check_ url in let* a := add_prefix strict a in k a) = k a.
Proof.
  destruct (url_without_check_ url) as [x| |]; cbn [obind]; [|done..]. by intros ->.
Qed.

(** The characters of the parts are characters of the URL. *)
Lemma splits_bytes url p c : splits url p c -> bytes_ok url ->
  bytes_ok (text (userinfo p)) /\ bytes_ok (text (port p)) /\ bytes_ok (text (path p)) /\ bytes_ok (text (query p)) /\
  bytes_ok (text (fragment p)).
Proof.
  intros [[Et _ _] _ Ea Ep _ Eq Ef Hp] Hb. rewrite Et in Hb. unfold url_text, hier_text, tail_text, query_text, fragment_text in Hb.
  apply bytes_ok_app in Hb as [_ Hb]. apply bytes_ok_app in Hb as [Hau Hb]. apply bytes_ok_app in Hb as [Hpa Hb].
  apply bytes_ok_app in Hb as [Hqu Hfr].
  assert (Hopt : forall sep o, bytes_ok (opt_text sep o) -> bytes_ok (text (part_opt o)) /\ bytes_ok (default [] o)).
  { intros sep [t|] Ho; cbn in *; [|by split; constructor]. apply bytes_ok_app in Ho as [_ Ho]. done. }
  assert (Hua : bytes_ok (text (userinfo p)) /\ bytes_ok (text (port p))).
  { apply Hopt in Hau as [_ Hau]. rewrite <- Ea in Hau. destruct (authority p) as [|a0 au].
    - destruct Hp as (-> & _ & ->). by split; constructor.
    - destruct Hp as (u & h & o & [Es _ _] & -> & _ & -> & _). rewrite Es in Hau. apply bytes_ok_app in Hau as [Hu Hau].
      apply bytes_ok_app in Hau as [_ Ho]. cbn [part_of text]. split; [|by apply (Hopt ":")].
      destruct u as [u|]; [|constructor]. by apply bytes_ok_app in Hu as [Hu _]. }
  split; [apply Hua|]. split; [apply Hua|]. rewrite Ep, Eq, Ef. split; [done|]. split; [by apply (Hopt "?")|by apply (Hopt "#")].
Qed.

(** A host brings a path that is empty or begins with a slash. *)
Lemma splits_path url p c : splits url p c -> text (host p) <> [] ->
  (text (path p) = [] \/ exists rest, text (path p) = bytes "/" ++ rest) /\ ~ In "?"%uchar (text (path p)).
Proof.
  intros [[_ _ [Ha Hfree _]] _ Ea Ep _ _ _ Hp] Hh. rewrite Ep. split.
  2: { by apply (free_In (bytes "?#")). }
  destruct (c_authority c) as [a|].
  - destruct Ha as [_ He]. unfold tail_text in He. destruct (c_path c) as [|ch rest] eqn:E; [by left|]. right. exists rest.
    cbn [app ends] in He. assert (Hs : stop (bytes "?#") ch = false) by (by inversion_clear Hfree).
    change (stop [47; 63; 35] ch = true) in He. change (stop [63; 35] ch = false) in Hs. cbn in He, Hs.
    destruct (Z.eqb_spec ch 47) as [->|]; [done|]. cbn in He. rewrite He in Hs. done.
  - cbn in Ea. rewrite Ea in Hp. destruct Hp as (_ & E & _). by rewrite E in Hh.
Qed.

Lemma splits_flagged' url p c : splits url p c ->
  has (userinfo p) = negb (is_nil (text (userinfo p))) /\ has (port p) = negb (is_nil (text (port p))) /\
  (has (query p) = false -> text (query p) = []) /\ (has (fragment p) = false -> text (fragment p) = []).
Proof.
  intros [_ _ _ _ _ Eq Ef Hp].
  assert (H : has (userinfo p) = negb (is_nil (text (userinfo p))) /\ has (port p) = negb (is_nil (text (port p)))).
  { destruct (authority p); [by destruct Hp as (-> & _ & ->)|]. by destruct Hp as (u & h & o & _ & -> & _ & -> & _). }
  split; [apply H|]. split; [apply H|]. split; [rewrite Eq; by destruct (c_query c)|rewrite Ef; by destruct (c_fragment c)].
Qed.

Lemma splits_flagged url p c : splits url p c -> (text (scheme p) = [] -> has (scheme p) = false) -> flagged p.
Proof.
  intros Hs Hsc. destruct (splits_flagged' url p c Hs) as (H1 & H2 & H3 & H4). split; [|done..].
  rewrite (sp_scheme _ _ _ Hs) in *. destruct (c_scheme c) as [[|ch s]|]; cbn in *; [by specialize (Hsc eq_refl)|done|done].
Qed.

(** *** Repairing the parts *)

Lemma unmime_all_nil s : is_nil (unmime_all s) = is_nil s.
Proof. destruct s as [|ch [|h1 [|h2 s]]]; [done..|]. cbn [unmime_all]. by destruct (_ && _ && _). Qed.

Lemma fix_part_ok x (checker : CharTable) `{!PctFree checker} : bytes_ok (text x) ->
  exists y b, fix_part x checker = Ret (y, b) /\ has y = has x /\ is_nil (text y) = is_nil (text x) /\
  (b = false -> y = x) /\ (b = false <-> encoded checker (text x)).
Proof.
  intros Hb. unfold fix_part. destruct (http_fix_part_ok checker (text x) Hb) as ([t|] & -> & Hr); cbn [obind].
  - destruct Hr as (Hn & Ed & _). exists (set_text x t), true. split; [done|]. split; [done|]. split; [|split; [done|]].
    + cbn [set_text text]. by rewrite <- (unmime_all_nil t), <- (unmime_all_nil (text x)), Ed.
    + split; [done|]. intros He. destruct (Hn He).
  - exists x, false. done.
Qed.

Lemma encoded_bytes (c : CharTable) s : (forall ch, call c ch = true -> is_byte ch) -> encoded c s -> bytes_ok s.
Proof.
  intros Hc. apply encoded_forall; [done|unfold is_byte; lia|]. intros h. apply in_table; vm_compute; reflexivity.
Qed.

Lemma fix_part_valid x (checker : CharTable) `{!PctFree checker} : call checker 0 = false ->
  length (table_ checker) = 256%nat -> encoded checker (text x) -> fix_part x checker = Ret (x, false).
Proof.
  intros H0 Hl He. destruct (fix_part_ok x checker) as (y & b & -> & _ & _ & Hy & Hb).
  { apply (encoded_bytes checker); [|done]. intros ch. by apply in_table. }
  apply Hb in He as ->. by rewrite Hy.
Qed.

Lemma fix_parts_valid p : encoded USER_INFO (text (userinfo p)) -> encoded PATH (text (path p)) ->
  encoded QUERY (text (query p)) -> encoded FRAGMENT (text (fragment p)) -> fix_parts p = Ret (p, false).
Proof.
  intros Hu Hp Hq Hf. unfold fix_parts. rewrite (fix_part_valid (userinfo p)) by (done || by vm_compute). cbn [obind].
  rewrite (fix_part_valid (path p)) by (done || by vm_compute). cbn [obind].
  rewrite (fix_part_valid (query p)) by (done || by vm_compute). cbn [obind].
  rewrite (fix_part_valid (fragment p)) by (done || by vm_compute). cbn [obind]. by destruct p.
Qed.

(** *** The port *)

(** The number of a port text, 80 or 443 without one. *)
Definition port_value (secure : bool) (t : list Z) : option Z :=
  match t with
  | [] => Some (get_default_port_ secure)
  | _ => v ← dec_from 0 t; if v <=? 65535 then Some v else None
  end.

Lemma port_digit ch : call PORT ch = true -> "0"%uchar <= ch <= "9"%uchar.
Proof.
  intros Hc. assert (E : ("0"%uchar <=? ch) && (ch <=? "9"%uchar) = true)
    by (revert ch Hc; table_eval PORT). apply andb_true_iff in E as [?%Z.leb_le ?%Z.leb_le]. lia.
Qed.

Lemma str_to_port t : t <> [] -> Forall (fun ch => call PORT ch = true) t ->
  str_to_int uint16_t t = Ret (v ← dec_from 0 t; if v <=? 65535 then Some v else None).
Proof.
  intros Hn Ht. rewrite str_to_int_spec.
  - f_equal. destruct t as [|c t]; [done|]. inversion_clear Ht as [|? ? Hc _]. apply port_digit in Hc. unfold decimal_value.
    rewrite (proj2 (Z.eqb_neq c "-"%uchar)), (proj2 (Z.eqb_neq c "+"%uchar)) by lia.
    destruct (dec_from 0 (c :: t)) as [v|] eqn:E; [|done]. cbn. apply dec_from_ge in E; [|lia].
    unfold in_type. cbn [is_signed uint16_t min_ max_ digits]. change (min_ uint16_t) with 0. change (max_ uint16_t) with 65535.
    by decide_Z.
  - by_eval.
  - eapply Forall_impl; [exact Ht|]. intros ch Hc%port_digit. unfold is_byte. lia.
Qed.

Definition with_path (a : URLAddress) : URLAddress :=
  match text (path (parts_ a)) with [] => set_path a DEFAULT_PATH | _ => a end.

Lemma finish_ok a : Forall (fun ch => call PORT ch = true) (text (port (parts_ a))) ->
  let secure := is_https (text (scheme (parts_ a))) in
  HTTPAddress_finish_ a =
  match port_value secure (text (port (parts_ a))) with
  | Some n => Ret {| address := with_path a; port_number_ := n; secure_ := secure;
                     default_port_ := is_nil (text (port (parts_ a))) |}
  | None => Throw (InvalidURL "invalid port value=")
  end.
Proof.
  intros Hp. cbn zeta. unfold HTTPAddress_finish_, port_value. destruct (text (port (parts_ a))) as [|c t] eqn:E; [done|].
  rewrite str_to_port by done. cbn [obind]. by destruct (v ← dec_from 0 (c :: t); _).
Qed.

(** *** Construction *)

Lemma check_http_ok scheme host strict : check_http_url_components scheme host strict = None <->
  (is_http scheme = true \/ is_https scheme = true \/ (strict = false /\ scheme = [])) /\ host <> [].
Proof.
  unfold check_http_url_components, make_invalid. destruct (is_http scheme), (is_https scheme), strict, scheme, host; cbn; intuition congruence.
Qed.

Lemma no_prefix scheme host strict : check_http_url_components scheme host strict = None ->
  http_url_needs_prefix scheme host = false.
Proof. intros [_ H]%check_http_ok. unfold http_url_needs_prefix. by destruct host. Qed.

(** A URL that needs no repair. *)
Lemma construct_valid strict url p : url <> [] -> split_url url = Ret p -> url_grammar p ->
  check_http_url_components (text (scheme p)) (text (host p)) strict = None ->
  HTTPAddress_of_url url strict = HTTPAddress_finish_ {| url_ := url; parts_ := p |}.
Proof.
  intros Hn Es Hg Hc. unfold HTTPAddress_of_url, HTTPAddress_assign_. destruct url as [|c0 url0] eqn:E; [done|]. rewrite <- E in *.
  assert (Ew : url_without_check_ url = Ret {| url_ := url; parts_ := p |}).
  { unfold url_without_check_. rewrite E at 1. by rewrite Es. }
  assert (Ef : (if strict then Ret (parts p, false) else fix_parts p) = Ret (parts p, false)).
  { destruct strict; [done|]. by apply fix_parts_valid; apply Hg. }
  unfold URLAddress_assign_. rewrite Ew. cbn [obind]. unfold HTTPAddress_specific_checks_, add_prefix. cbn [parts_].
  rewrite (no_prefix _ _ _ Hc), andb_false_r. cbn [obind no_additional_checks parts_]. rewrite Hc. cbn [throw_if obind].
  rewrite Ef. cbn [obind orb parts_]. destruct (URLPartsChecker_ok p) as (e & -> & He). by rewrite (proj2 He Hg).
Qed.

Lemma grammar_same p q : same_parts p q -> url_grammar p -> url_grammar q.
Proof.
  intros [E1 E2 E3 E4 E5 E6 E7] [G1 G2 G3 G4 G5 G6 G7]. split; rewrite ?E1, ?E2, ?E3, ?E4, ?E5, ?E6, ?E7; done.
Qed.

Lemma same_sym p q : same_parts p q -> same_parts q p.
Proof. intros []. by split. Qed.

(** An empty path or one that begins with a slash. *)
Definition slashed (t : list Z) : Prop := t = [] \/ exists rest, t = bytes "/" ++ rest.

Lemma fix_path_ok x : bytes_ok (text x) -> slashed (text x) -> ~ In "?"%uchar (text x) ->
  exists y b, fix_part x PATH = Ret (y, b) /\ (b = false -> y = x) /\ encoded PATH (text y) /\ slashed (text y).
Proof.
  intros Hb Hs Hq. unfold fix_part. destruct (http_fix_part_ok PATH (text x) Hb) as ([t|] & -> & Hr); cbn [obind].
  - destruct Hr as (Hn & Ed & Hin & pre & rest & out & Ex & Hbad & -> & He & Ho). exists (set_text x (pre ++ out)), true.
    split; [done|]. split; [done|]. cbn [set_text text]. split.
    + apply encoded_app; [done|]. apply (encoded_impl QUERY); [|done]. intros ch Hc Hch. apply query_path; [done|]. intros ->.
      destruct (Hin "?"%uchar) as [H|H]; [apply in_or_app; by right| |done]. by vm_compute in H.
    + destruct Hs as [E|(r & E)]; rewrite E in Ex.
      * destruct pre, rest; [by destruct Hbad|done..].
      * right. destruct pre as [|ch pre]; [|injection Ex as <- _; by exists (pre ++ out)].
        cbn in Ex. subst rest. destruct Hbad as [H _]. by vm_compute in H.
  - exists x, false. done.
Qed.

Lemma fix_query_ok x (c : CharTable) : c = QUERY -> bytes_ok (text x) ->
  exists y b, fix_part x c = Ret (y, b) /\ (b = false -> y = x) /\ has y = has x /\ is_nil (text y) = is_nil (text x) /\
  encoded c (text y).
Proof.
  intros -> Hb. destruct (fix_part_ok x QUERY Hb) as (y & b & E & Eh & En & Hy & Hbe). exists y, b. split; [done|].
  split; [done|]. split; [done|]. split; [done|]. unfold fix_part in E.
  destruct (http_fix_part_ok QUERY (text x) Hb) as ([t|] & Et & Hr); rewrite Et in E; cbn [obind] in E; injection E as <- <-.
  - destruct Hr as (_ & _ & _ & pre & rest & out & _ & _ & -> & He & Ho). by apply encoded_app.
  - done.
Qed.

(** The parts after the repair. *)
Record repaired (p np : UrlParts) : Prop := {
  rp_scheme : scheme np = scheme p; rp_host : host np = host p; rp_port : port np = port p;
  rp_userinfo : has (userinfo np) = has (userinfo p) /\ is_nil (text (userinfo np)) = is_nil (text (userinfo p));
  rp_userinfo_same : encoded USER_INFO (text (userinfo p)) -> userinfo np = userinfo p;
  rp_path : encoded PATH (text (path np)) /\ slashed (text (path np));
  rp_query : has (query np) = has (query p) /\ is_nil (text (query np)) = is_nil (text (query p)) /\ encoded QUERY (text (query np));
  rp_fragment : has (fragment np) = has (fragment p) /\ is_nil (text (fragment np)) = is_nil (text (fragment p)) /\
    encoded FRAGMENT (text (fragment np))
}.

Lemma fix_parts_ok url p c : splits url p c -> bytes_ok url -> text (host p) <> [] ->
  exists np b, fix_parts p = Ret (np, b) /\ (b = false -> np = parts p) /\ repaired p np.
Proof.
  intros Hs Hb Hh. destruct (splits_bytes url p c Hs Hb) as (Bu & _ & Bp & Bq & Bf). destruct (splits_path url p c Hs Hh) as [Hsl Hq].
  unfold fix_parts. destruct (fix_part_ok (userinfo p) USER_INFO Bu) as (y1 & b1 & -> & H1 & N1 & S1 & V1). cbn [obind].
  destruct (fix_path_ok (path p) Bp Hsl Hq) as (y2 & b2 & -> & S2 & V2 & L2). cbn [obind].
  destruct (fix_query_ok (query p) QUERY eq_refl Bq) as (y3 & b3 & -> & S3 & H3 & N3 & V3). cbn [obind].
  destruct (fix_query_ok (fragment p) FRAGMENT fragment_query Bf) as (y4 & b4 & -> & S4 & H4 & N4 & V4). cbn [obind].
  eexists _, _. split; [done|]. split.
  - intros [[[-> ->]%orb_false_iff ->]%orb_false_iff ->]%orb_false_iff. rewrite S1, S2, S3, S4 by done. by destruct (parts p).
  - split; cbn; try done. intros He. apply S1. by apply V1.
Qed.

(** The parts with the flag of the scheme that assembling gives them. *)
Definition normal (p : UrlParts) : UrlParts :=
  {| scheme := part_of (text (scheme p)); userinfo := userinfo p; host := host p; port := port p; path := path p;
     query := query p; fragment := fragment p |}.

Lemma assign_normal p : assign_url_parts_ p false = assign_url_parts_ (normal p) false.
Proof. reflexivity. Qed.

Lemma nil_flag (x y : Part) : has y = has x -> is_nil (text y) = is_nil (text x) -> (has x = false -> text x = []) ->
  has y = false -> text y = [].
Proof. intros Eh En Hx Hy. rewrite Eh in Hy. rewrite (Hx Hy) in En. by destruct (text y). Qed.

(** The object when the checks of the parts begin: [p] are the parts of [u]. *)
Record prepared (strict : bool) (u : list Z) (p : ExtendedUrlParts) (a : URLAddress) : Prop := {
  pr_strict : strict = true -> a = {| url_ := u; parts_ := p |};
  pr_scheme : text (scheme (parts_ a)) = text (scheme p);
  pr_scheme_same : scheme p <> given [] -> scheme (parts_ a) = scheme p;
  pr_host : text (host (parts_ a)) = text (host p);
  pr_port : port (parts_ a) = port p;
  pr_userinfo : encoded USER_INFO (text (userinfo p)) -> userinfo (parts_ a) = userinfo p;
  pr_slashed : slashed (text (path (parts_ a)));
  pr_encoded : strict = false -> encoded PATH (text (path (parts_ a))) /\ encoded QUERY (text (query (parts_ a))) /\
    encoded FRAGMENT (text (fragment (parts_ a)));
  pr_url : url_grammar (parts_ a) -> exists q, split_url (url_ a) = Ret q /\ same_parts (parts_ a) q;
  pr_flags : url_grammar (parts_ a) -> flagged (parts_ a)
}.

Lemma prepared_as_is strict u p c : splits u p c -> split_url u = Ret p -> text (host p) <> [] ->
  (strict = false -> repaired p (parts p)) -> prepared strict u p {| url_ := u; parts_ := p |}.
Proof.
  intros Hs Es Hh Hr. destruct (splits_path u p c Hs Hh) as [Hsl _]. split; cbn [parts_ url_]; try done.
  - intros Hst. destruct (Hr Hst) as [_ _ _ _ _ [? _] (_ & _ & ?) (_ & _ & ?)]. done.
  - intros _. exists p. by split.
  - intros [G _ _ _ _ _ _]. apply (splits_flagged u p c Hs). intros E. by rewrite E in G.
Qed.

(** What the flags say of the texts after a split, whatever the host. *)
Record split_flags (p : UrlParts) : Prop := {
  sf_scheme : has (scheme p) = false -> text (scheme p) = [];
  sf_userinfo : has (userinfo p) = negb (is_nil (text (userinfo p)));
  sf_port : has (port p) = negb (is_nil (text (port p)));
  sf_query : has (query p) = false -> text (query p) = [];
  sf_fragment : has (fragment p) = false -> text (fragment p) = []
}.

Lemma splits_flags url p c : splits url p c -> split_flags p.
Proof.
  intros Hs. destruct (splits_flagged' url p c Hs) as (Fu & Fp & Fq & Ff). split; try done.
  rewrite (sp_scheme _ _ _ Hs). by destruct (c_scheme c).
Qed.

Lemma repaired_flagged p np : split_flags p -> repaired p np -> flagged (normal np).
Proof.
  intros [Fs Fu Fp Fq Ff] [R1 R2 R3 [R4 R4'] R5 [R6 R6'] (R7 & R7' & R7'') (R8 & R8' & R8'')].
  split; cbn; [done|by rewrite R4, R4'|by rewrite R3|by apply (nil_flag (query p))|by apply (nil_flag (fragment p))].
Qed.

(** The object assembled again from the repaired parts. *)
Lemma prepared_fixed u (p : ExtendedUrlParts) np : split_flags p -> text (host p) <> [] -> repaired p np ->
  exists a, (let* (u, p) := assign_url_parts_ np false in Ret {| url_ := u; parts_ := p |}) = Ret a /\
  prepared false u p a /\ same_parts (normal np) (parts_ a).
Proof.
  intros Hs Hh Hr. pose proof (repaired_flagged p np Hs Hr) as Hf. destruct Hs as [Fs _ _ _ _].
  destruct Hr as [R1 R2 R3 _ R5 [R6 R6'] (_ & _ & R7) (_ & _ & R8)].
  rewrite assign_normal. unfold assign_url_parts_. cbn [obind].
  destruct (adjust_ok (normal np) Hf) as (q & -> & Hsm & _). cbn [obind]. eexists. split; [done|]. split; [|exact Hsm].
  pose proof Hsm as [E1 E2 E3 E4 E5 E6 E7]. cbn [normal scheme userinfo host port path query fragment] in E1, E2, E3, E4, E5, E6, E7.
  split; cbn [parts_ url_]; try done.
  - by rewrite E1, R1.
  - intros Hns. rewrite E1, R1. destruct (scheme p) as [[|] [|ch s]]; [done..|by specialize (Fs eq_refl)].
  - by rewrite E3, R2.
  - by rewrite E4, R3.
  - intros He. rewrite E2. by apply R5.
  - by rewrite E5.
  - by rewrite E5, E6, E7.
  - intros Hg. apply (grammar_same q (normal np)) in Hg; [|by apply same_sym].
    destruct (assembled_split (normal np) Hg Hf) as (q' & Eq' & Hs' & _).
    + intros _ Ha. exfalso. unfold has_authority in Ha. cbn [normal host] in Ha. rewrite R2 in Ha.
      destruct (text (host p)); [done|]. by rewrite orb_true_r in Ha.
    + exists q'. split; [done|]. destruct Hs', Hsm. by split; congruence.
  - intros _. destruct Hf as [F1 F2 F3 F4 F5]. by split; rewrite ?E1, ?E2, ?E4, ?E6, ?E7.
Qed.

Definition prepare (strict : bool) (url : list Z) : outcome URLAddress :=
  let* a := url_without_check_ url in HTTPAddress_specific_checks_ strict no_additional_checks a.

Lemma prepare_ok strict url : url <> [] -> bytes_ok url ->
  exists u p c, start_parts strict url = Ret p /\ splits u p c /\ bytes_ok u /\
  match check_http_url_components (text (scheme p)) (text (host p)) strict with
  | Some e => prepare strict url = Throw (InvalidURL e)
  | None => exists a, prepare strict url = Ret a /\ prepared strict u p a
  end.
Proof.
  intros Hn Hb. destruct (add_prefix_ok strict url Hn Hb) as (u & p & c & Ea & Ep & Es & Hs & Hbu). exists u, p, c.
  split; [done|]. split; [done|]. split; [done|].
  unfold prepare, HTTPAddress_specific_checks_. rewrite (add_prefix_run strict url _ _ Ea). cbn [no_additional_checks obind parts_].
  destruct (check_http_url_components _ _ strict) as [e|] eqn:Ec; cbn [throw_if obind]; [done|].
  apply check_http_ok in Ec as [_ Hh]. destruct strict.
  - cbn [obind orb]. eexists. split; [done|]. by apply (prepared_as_is true u p c).
  - destruct (fix_parts_ok u p c Hs Hbu Hh) as (np & b & -> & Hnp & Hr). cbn [obind orb]. destruct b.
    + destruct (prepared_fixed u p np (splits_flags _ _ _ Hs) Hh Hr) as (a & -> & Hp & _). by exists a.
    + eexists. split; [done|]. apply (prepared_as_is false u p c); try done. intros _. by rewrite (Hnp eq_refl) in Hr.
Qed.

Lemma construct_prepared strict url : url <> [] ->
  HTTPAddress_of_url url strict =
  (let* a := prepare strict url in
   let* error := URLPartsChecker (parts_ a) in
   let* _ := throw_if error in
   HTTPAddress_finish_ a).
Proof.
  intros Hn. unfold HTTPAddress_of_url, HTTPAddress_assign_, URLAddress_assign_, prepare. destruct url; [done|].
  rewrite !obind_assoc. destruct (url_without_check_ _); [|done..]. cbn [obind].
  destruct (HTTPAddress_specific_checks_ _ _ _); [|done..]. cbn [obind]. destruct (URLPartsChecker _); [|done..]. cbn [obind].
  by destruct (throw_if _).
Qed.

(** *** Valid addresses *)

Record http_valid (strict : bool) (a : HTTPAddress) : Prop := {
  hv_grammar : url_grammar (parts_ (address a));
  hv_flags : flagged (parts_ (address a));
  hv_host : text (host (parts_ (address a))) <> [];
  hv_scheme : let s := scheme (parts_ (address a)) in
    is_http (text s) = true \/ is_https (text s) = true \/ (strict = false /\ s = absent);
  hv_secure : secure_ a = is_https (text (scheme (parts_ (address a))));
  hv_port : port_value (secure_ a) (text (port (parts_ (address a)))) = Some (port_number_ a);
  hv_port_range : 0 <= port_number_ a <= 65535;
  hv_default : default_port_ a = is_nil (text (port (parts_ (address a))));
  hv_path : exists rest, text (path (parts_ (address a))) = bytes "/" ++ rest;
  hv_url : exists b, HTTPAddress_of_url (url_ (address a)) strict = Ret b /\
    same_parts (parts_ (address a)) (parts_ (address b)) /\ port_number_ b = port_number_ a /\ secure_ b = secure_ a
}.

Lemma with_path_parts a : url_grammar (parts_ a) -> text (host (parts_ a)) <> [] ->
  url_grammar (parts_ (with_path a)) /\ exists rest, text (path (parts_ (with_path a))) = bytes "/" ++ rest.
Proof.
  intros Hg Hh. unfold with_path. destruct (text (path (parts_ a))) as [|ch t] eqn:E.
  - split; [|by exists []]. destruct Hg as [G1 G2 G3 G4 _ G6 G7].
    split; cbn [set_path set_text parts_ parts scheme userinfo host port path query fragment text]; try assumption.
    split; [|destruct (text (host (parts_ a))); [done|right; by exists []]]. apply encoded_chars. constructor; [by vm_compute|constructor].
  - split; [done|]. destruct Hg as [_ _ _ _ [_ G] _ _]. rewrite E in *. destruct (text (host (parts_ a))); [done|].
    destruct G as [|G]; [done|exact G].
Qed.

Lemma with_path_flagged a : flagged (parts_ a) -> flagged (parts_ (with_path a)).
Proof. unfold with_path. destruct (text (path (parts_ a))); [|done]. intros []. by split. Qed.

Lemma with_path_rest a : scheme (parts_ (with_path a)) = scheme (parts_ a) /\ userinfo (parts_ (with_path a)) = userinfo (parts_ a) /\
  host (parts_ (with_path a)) = host (parts_ a) /\ port (parts_ (with_path a)) = port (parts_ a) /\
  query (parts_ (with_path a)) = query (parts_ a) /\ fragment (parts_ (with_path a)) = fragment (parts_ a) /\ url_ (with_path a) = url_ a.
Proof. unfold with_path. by destruct (text (path (parts_ a))). Qed.

Lemma with_path_same a b : same_parts (parts_ a) (parts_ b) -> same_parts (parts_ (with_path a)) (parts_ (with_path b)).
Proof.
  intros [E1 E2 E3 E4 E5 E6 E7]. unfold with_path. rewrite E5.
  destruct (text (path (parts_ a))) eqn:E; split; cbn; congruence.
Qed.

Lemma port_value_range secure t n : port_value secure t = Some n -> 0 <= n <= 65535.
Proof.
  unfold port_value. destruct t as [|c t]; [intros [= <-]; destruct secure; cbn; lia|].
  destruct (dec_from 0 (c :: t)) as [v|] eqn:E; cbn; [|done]. apply dec_from_ge in E; [|lia].
  destruct (Z.leb_spec v 65535); [|done]. intros [= <-]. lia.
Qed.

(** The object made of parts that pass. *)
Definition http_of (a : URLAddress) (n : Z) : HTTPAddress :=
  {| address := with_path a; port_number_ := n; secure_ := is_https (text (scheme (parts_ a)));
     default_port_ := is_nil (text (port (parts_ a))) |}.

Lemma finish_grammar a : url_grammar (parts_ a) ->
  HTTPAddress_finish_ a =
  match port_value (is_https (text (scheme (parts_ a)))) (text (port (parts_ a))) with
  | Some n => Ret (http_of a n)
  | None => Throw (InvalidURL "invalid port value=")
  end.
Proof. intros Hg. apply finish_ok, Hg. Qed.

Lemma http_of_valid strict u p a n : prepared strict u p a ->
  check_http_url_components (text (scheme p)) (text (host p)) strict = None -> url_grammar (parts_ a) ->
  port_value (is_https (text (scheme (parts_ a)))) (text (port (parts_ a))) = Some n -> http_valid strict (http_of a n).
Proof.
  intros Hp Hc Hg Hn. pose proof Hc as [Hsc Hh]%check_http_ok. rewrite <- (pr_host _ _ _ _ Hp) in Hh.
  destruct (with_path_rest a) as (W1 & W2 & W3 & W4 & W5 & W6 & W7). destruct (with_path_parts a Hg Hh) as [Hg' Hpath].
  pose proof (pr_flags _ _ _ _ Hp Hg) as Hf. destruct (pr_url _ _ _ _ Hp Hg) as (q & Eq & Hq).
  split; cbn [http_of address secure_ port_number_ default_port_]; rewrite ?W1, ?W3, ?W4; try done.
  - by apply with_path_flagged.
  - rewrite (pr_scheme _ _ _ _ Hp). destruct Hsc as [?|[?|[Hst E]]]; [by left|by right; left|]. right. right. split; [done|].
    destruct Hf as [Fs _ _ _ _]. rewrite <- (pr_scheme _ _ _ _ Hp) in E. destruct (scheme (parts_ a)) as [b t]. cbn in *. by subst.
  - by apply (port_value_range _ _ _ Hn).
  - rewrite W7. exists (http_of {| url_ := url_ a; parts_ := q |} n). split; [|split; [|split]].
    + rewrite (construct_valid strict (url_ a) q).
      * rewrite finish_grammar by (cbn; by apply (grammar_same (parts_ a))). cbn [parts_].
        destruct Hq as [E1 _ _ E4 _ _ _]. by rewrite E1, E4, Hn.
      * intros E. rewrite E in Eq. cbn in Eq. injection Eq as <-. by destruct Hh; rewrite <- (sm_host _ _ Hq).
      * done.
      * by apply (grammar_same (parts_ a)).
      * destruct Hq as [E1 _ E3 _ _ _ _]. by rewrite E1, E3, (pr_scheme _ _ _ _ Hp), (pr_host _ _ _ _ Hp).
    + by apply (with_path_same a).
    + done.
    + cbn. by rewrite (sm_scheme _ _ Hq).
Qed.

Lemma construct_total url strict : url <> [] -> bytes_ok url ->
  (exists a, HTTPAddress_of_url url strict = Ret a /\ http_valid strict a) \/
  (exists e, HTTPAddress_of_url url strict = Throw (InvalidURL e)).
Proof.
  intros Hn Hb. rewrite construct_prepared by done. destruct (prepare_ok strict url Hn Hb) as (u & p & c & _ & Hs & _ & H).
  destruct (check_http_url_components _ _ strict) as [e|] eqn:Ec; [right; rewrite H; by exists e|].
  destruct H as (a & -> & Hp). cbn [obind]. destruct (URLPartsChecker_ok (parts_ a)) as (e & -> & He). cbn [obind].
  destruct e as [e|]; cbn [throw_if obind]; [right; by exists e|]. pose proof (proj1 He eq_refl) as Hg.
  rewrite finish_grammar by done. destruct (port_value _ _) as [n|] eqn:En; [|right; by eexists].
  left. exists (http_of a n). split; [done|]. by apply (http_of_valid strict u p).
Qed.



(** *** Checkers and constructors *)

Lemma HTTPChecker_start strict url : url <> [] ->
  HTTPChecker url strict =
  (let* p := start_parts strict url in
   orelse (Ret (check_http_url_components (text (scheme p)) (text (host p)) strict))
     (URLPartsChecker (HTTPChecker_process_parts_ strict p))).
Proof.
  intros Hn. unfold HTTPChecker, HTTPChecker_with, start_parts. destruct url; [done|]. rewrite obind_assoc.
  destruct (split_url _) as [p| |]; [|done..]. cbn [obind]. destruct (negb strict && _); [|by destruct strict].
  destruct (split_url _) as [p'| |]; [|done..]. cbn [obind]. by destruct strict.
Qed.

(** The grammar of the parts the checker looks at. *)
Lemma process_grammar strict (p : ExtendedUrlParts) : text (host p) <> [] ->
  url_grammar (HTTPChecker_process_parts_ strict p) <->
  (if strict then url_grammar p else
     (match text (scheme p) with
      | [] => has (scheme p) = false
      | c :: rest => call SCHEME_FIRST c = true /\ Forall (fun ch => call SCHEME_NOT_FIRST ch = true) rest
      end) /\
     (length (text (host p)) <= MAX_HOSTNAME_SIZE)%nat /\ Forall (fun ch => call HOST ch = true) (text (host p)) /\
     (exists labels dots, host_name (text (host p)) labels dots) /\ Forall (fun ch => call PORT ch = true) (text (port p))).
Proof.
  intros Hh. destruct strict; [done|]. destruct (text (host p)) as [|c h] eqn:E; [done|]. split.
  - intros [G1 _ G3 G4 _ _ _]. cbn [HTTPChecker_process_parts_ parts scheme host port] in G1, G3, G4. rewrite E in G3. tauto.
  - intros (G1 & G2 & G3 & G4 & G5).
    split; cbn [HTTPChecker_process_parts_ parts scheme userinfo host port path query fragment absent text]; rewrite ?E; try assumption; try constructor.
    + done.
    + done.
    + constructor.
    + by left.
Qed.

(** What a prepared address adds to it. *)
Lemma prepared_grammar strict u p a : prepared strict u p a -> text (host p) <> [] ->
  (strict = false -> scheme p <> given [] /\ encoded USER_INFO (text (userinfo p))) ->
  url_grammar (parts_ a) <-> url_grammar (HTTPChecker_process_parts_ strict p).
Proof.
  intros Hp Hh Hns. rewrite process_grammar by done. destruct strict; [by rewrite (pr_strict _ _ _ _ Hp eq_refl)|].
  destruct (Hns eq_refl) as [Hsc Hui]. destruct (pr_encoded _ _ _ _ Hp eq_refl) as (Epa & Equ & Efr).
  pose proof (pr_scheme_same _ _ _ _ Hp Hsc) as E1. pose proof (pr_userinfo _ _ _ _ Hp Hui) as E2.
  pose proof (pr_host _ _ _ _ Hp) as E3. pose proof (pr_port _ _ _ _ Hp) as E4. pose proof (pr_slashed _ _ _ _ Hp) as E5.
  destruct (text (host p)) as [|c h] eqn:E; [done|]. split.
  - intros [G1 _ G3 G4 _ _ _]. rewrite E1, E3, E4 in *. tauto.
  - intros (G1 & G2 & G3 & G4 & G5). split; rewrite ?E1, ?E2, ?E3, ?E4; try assumption; done.
Qed.



(** Where the two part ways outside strict mode. *)
Example checker_differs :
  HTTPChecker (bytes "http://<[@a.com/") false = Ret None /\
  HTTPAddress_of_url (bytes "http://<[@a.com/") false = Throw (InvalidURL "invalid userinfo in url") /\
  HTTPChecker (bytes "://a.com/<") false = Ret (Some "invalid scheme in url") /\
  exists a, HTTPAddress_of_url (bytes "://a.com/<") false = Ret a.
Proof.
  split; [vm_compute; reflexivity|]. split; [vm_compute; reflexivity|]. split; [vm_compute; reflexivity|].
  eexists. vm_compute. reflexivity.
Qed.

(** ** Views *)

(** The parts of the full view. *)
Definition view_parts (a : HTTPAddress) : UrlParts :=
  let p := parts_ (address a) in
  {| scheme := if has (scheme p) then given (if secure_ a then HTTPS_SCHEME else HTTP_SCHEME) else absent;
     userinfo := absent; host := host p;
     port := if default_port_ a then absent else given (decimal (port_number_ a));
     path := path p; query := query p; fragment := fragment p |}.

Lemma decimal_port n : 0 <= n <= 65535 -> dec_from 0 (decimal n) = Some n /\ decimal n <> [] /\
  Forall (fun ch => call PORT ch = true) (decimal n).
Proof.
  intros Hn. destruct (digits_rev_value 19 n) as [E (c & t & Ec & _)]; [cbn; lia|]. unfold decimal. split; [done|].
  split; [by rewrite Ec|]. clear. generalize 20%nat as fuel. intros fuel. revert n.
  assert (H : forall v, call PORT ("0"%uchar + v mod 10) = true).
  { intros v. assert (0 <= v mod 10 < 10) by (apply Z.mod_pos_bound; lia).
    apply (forall_below 10 (fun d => call PORT ("0"%uchar + d))); [vm_compute; reflexivity|done]. }
  induction fuel as [|fuel IH]; intros v; cbn [digits_rev rev]; [constructor|]. apply Forall_app. split; [|by constructor].
  destruct (v / 10 =? 0); [constructor|apply IH].
Qed.

Lemma get_view_full a : get_view a VW_FULL = Ret (assemble (view_parts a)) \/ has_authority (view_parts a) = false \/
  (text (scheme (parts_ (address a))) = [] /\ has (scheme (parts_ (address a))) = true).
Proof.
  destruct (has_authority (view_parts a)) eqn:Ea; [|by right; left]. left. unfold get_view.
  change (flag VW_FULL VW_PROTOCOL) with true. change (flag VW_FULL VW_HOSTNAME) with true.
  change (all_flags VW_FULL VW_HOSTNAME_WWW) with false. change (flag VW_FULL VW_PORT) with false.
  change (flag VW_FULL VW_NDEF_PORT) with true. change (flag VW_FULL VW_PATH) with true. unfold view_path.
  change (all_flags VW_FULL VW_STRIP_PATH) with false. change (flag VW_FULL VW_QUERY) with true.
  change (flag VW_FULL VW_FRAGMENT) with true. cbn [obind andb orb]. f_equal. unfold assemble. rewrite Ea.
  unfold assemble_authority, assemble_tail, view_parts. cbn [scheme userinfo host port path query fragment].
  destruct (has (scheme (parts_ (address a)))), (secure_ a), (default_port_ a), (has (query (parts_ (address a)))), (has (fragment (parts_ (address a))));
    cbn [given absent has text is_nil app negb andb]; rewrite <- ?app_assoc; reflexivity.
Qed.

Lemma view_grammar strict a : http_valid strict a -> url_grammar (view_parts a) /\ flagged (view_parts a) /\
  has_authority (view_parts a) = true.
Proof.
  intros [Hg Hf Hh Hsc Esec Ep Hpr Edef Hpa _]. destruct (decimal_port _ Hpr) as (_ & Hd & Hdig). split; [|split].
  - destruct Hg as [_ _ G3 _ G5 G6 G7]. split; unfold view_parts; cbn [scheme userinfo host port path query fragment]; try assumption.
    + destruct (has (scheme (parts_ (address a)))); [|done]. destruct (secure_ a); (split; [by vm_compute|by_eval]).
    + constructor.
    + by destruct (text (host (parts_ (address a)))).
    + destruct (default_port_ a); [constructor|exact Hdig].
  - destruct Hf as [_ _ _ F4 F5]. split; unfold view_parts; cbn [scheme userinfo host port path query fragment]; try assumption.
    + destruct (has (scheme (parts_ (address a)))); [|done]. by destruct (secure_ a).
    + done.
    + destruct (default_port_ a); [done|]. cbn [given has text]. by destruct (decimal (port_number_ a)).
  - unfold has_authority, view_parts. cbn [userinfo host]. destruct (text (host (parts_ (address a)))); [done|]. by rewrite orb_true_r.
Qed.

(** The full view of a valid address constructs the same address again, without the
    userinfo: host, port number, security, path, query and fragment are those of the
    address (in strict mode when the address has a scheme). *)
Theorem get_view_roundtrip strict a : http_valid strict a ->
  exists v b, get_view a VW_FULL = Ret v /\ HTTPAddress_of_url v (has (scheme (parts_ (address a)))) = Ret b /\
  port_number_ b = port_number_ a /\ secure_ b = secure_ a /\ default_port_ b = default_port_ a /\
  let p := parts_ (address a) in let q := parts_ (address b) in
  text (host q) = text (host p) /\ text (path q) = text (path p) /\ query q = query p /\ fragment q = fragment p /\
  userinfo q = absent.
Proof.
  intros Hv. destruct (view_grammar strict a Hv) as (Hg & Hf & Ha). destruct Hv as [G0 F0 Hh Hsc Esec Ep Hpr Edef Hpa _].
  destruct (get_view_full a) as [Ev|[E|[E1 E2]]]; [|congruence|].
  2: { destruct F0 as [F _ _ _ _]. rewrite E1, E2 in F. done. }
  destruct (assembled_split (view_parts a) Hg Hf) as (q & Eq & Hq & _); [intros _ E; congruence|].
  set (s := has (scheme (parts_ (address a)))) in *.
  assert (Esc : is_https (text (scheme q)) = secure_ a /\
    check_http_url_components (text (scheme q)) (text (host q)) s = None).
  { rewrite check_http_ok, (sm_scheme _ _ Hq), (sm_host _ _ Hq). cbn [view_parts scheme host]. fold s. unfold s in *.
    destruct Hsc as [E|[E|[_ E]]].
    - destruct F0 as [F _ _ _ _]. rewrite F. destruct (text (scheme (parts_ (address a)))) eqn:Et; [by vm_compute in E|].
      cbn. destruct (secure_ a); (split; [by vm_compute|]); (split; [|done]); [right; left|left]; by vm_compute.
    - destruct F0 as [F _ _ _ _]. rewrite F. destruct (text (scheme (parts_ (address a)))) eqn:Et; [by vm_compute in E|].
      cbn. destruct (secure_ a); (split; [by vm_compute|]); (split; [|done]); [right; left|left]; by vm_compute.
    - rewrite E in *. cbn. split; [by rewrite Esec|]. split; [|done]. right. right. done. }
  destruct Esc as [Esc Ec]. pose proof (grammar_same _ _ Hq Hg) as Hgq.
  eexists _, (http_of {| url_ := assemble (view_parts a); parts_ := q |} (port_number_ a)). split; [exact Ev|]. split.
  - rewrite (construct_valid s (assemble (view_parts a)) q); [|..|done].
    + rewrite finish_grammar by done. cbn [parts_]. rewrite Esc, (sm_port _ _ Hq).
      assert (Epv : port_value (secure_ a) (text (port (view_parts a))) = Some (port_number_ a)).
      { cbn [view_parts port]. destruct (default_port_ a) eqn:Ed.
        - symmetry in Edef. destruct (text (port (parts_ (address a)))); [exact Ep|done].
        - destruct (decimal_port _ Hpr) as (Edec & Hd & _). cbn [given text]. unfold port_value.
          destruct (decimal (port_number_ a)); [done|]. rewrite Edec. cbn. by decide_Z. }
      by rewrite Epv.
    + intros E. rewrite E in Eq. injection Eq as <-. destruct Hh. by rewrite <- (sm_host _ _ Hq : _ = text (host (parts_ (address a)))).
    + done.
    + done.
  - split; [done|]. split; [exact Esc|]. destruct Hq as [Q1 Q2 Q3 Q4 Q5 Q6 Q7].
    destruct (with_path_rest {| url_ := assemble (view_parts a); parts_ := q |}) as (_ & W2 & W3 & _ & W5 & W6 & _).
    split; [|cbn zeta; cbn [http_of address]; rewrite W2, W3, W5, W6; cbn [parts_]].
    + cbn [http_of default_port_ parts_]. rewrite Q4. cbn [view_parts port]. destruct (default_port_ a) eqn:Ed; [done|]. cbn [given text]. destruct (decimal_port _ Hpr) as (_ & Hd & _).
      by destruct (decimal (port_number_ a)).
    + split; [exact Q3|]. split; [|split; [exact Q6|split; [exact Q7|exact Q2]]].
      unfold with_path. cbn [parts_]. rewrite Q5. cbn [view_parts path]. destruct Hpa as (r & Er). rewrite Er. change (text (path q) = bytes "/" ++ r).
      rewrite Q5. exact Er.
Qed.

Lemma get_view_roundtrip_witness :
  exists a v b, HTTPAddress_of_url (bytes "HTTPS://u@a.com:0443?q") true = Ret a /\ http_valid true a /\
  get_view a VW_FULL = Ret v /\ v = bytes "https://a.com:443/?q" /\ HTTPAddress_of_url v true = Ret b /\ port_number_ b = port_number_ a.
Proof.
  assert (Hn : bytes "HTTPS://u@a.com:0443?q" <> []) by discriminate.
  assert (Hb : bytes_ok (bytes "HTTPS://u@a.com:0443?q")) by by_eval.
  destruct (construct_total (bytes "HTTPS://u@a.com:0443?q") true Hn Hb) as [(a & E & Ha)|(e & E)].
  2: { exfalso. vm_compute in E. discriminate E. }
  destruct (get_view_roundtrip true a Ha) as (v & b & Ev & Eb & Ep & _). exists a, v, b. split; [exact E|]. split; [exact Ha|].
  split; [exact Ev|]. vm_compute in E. injection E as <-. vm_compute in Ev. injection Ev as <-. split; [reflexivity|].
  split; [exact Eb|exact Ep].
Defined.
