(* ===== verification/Idna.v ===== *)
(** * Idna: internationalized host names and browser addresses

    Models the rest of [src/HTTP/UrlAddress.cpp]: the conversion of host names with
    [IDNA0] and [IDNA2008], [BrowserAddress], [BrowserChecker], [normalize_http_address] and
    [keywords_from_http_address].  [String::lower_and_normalize] is an argument.

    A host is a part of a text: [after] are the octets that follow it there.  The messages
    of the errors are shortened: the host and the label in them are left out. *)
From S2P Require Import Prelude AsciiManip Utf8 Punycode Tokenizer IntStr Url HttpAddress.
Local Open Scope Z_scope.
Local Open Scope outcome_scope.

Definition IDNA_PREFIX : list Z := bytes "xn--".
Definition IDNA_DELIMITER : Z := "-"%uchar.
Definition IDNA_ALLOWED : CharTable := CharTable_union ALPHA_NUM (category "-").

(** The two strings that are built, [ascii] and [unicode]. *)
Record Names : Type := { ascii_ : list Z; unicode_ : list Z }.

(** [*category.find_nonowned(str.c_str())]: a character outside the category *)
Definition has_nonowned (category : CharTable) (str : list Z) : bool :=
  match find_nonowned_cstr category str with
  | Some (ch :: _) => negb (ch =? 0)
  | _ => false
  end.

(** ** Labels *)

(** [idna_label_convert], with the [append] of the destination; [D] is its state. *)
Fixpoint label_loop {D} (fuel : nat) (append : list Z -> D -> outcome D) (normalized : list Z) (last : nat) (dst : D)
    : outcome D :=
  match fuel with
  | O => Undef
  | S fuel' =>
    if (length normalized <=? last)%nat then Ret dst
    else
      let pos := default (length normalized) (SubString_find_char normalized LABEL_SEPARATOR last) in
      let* label := substr normalized last (pos - last) in
      let last := (pos + 1)%nat in
      if is_nil label then Throw (IDNAError "Empty label in")
      else if (MAX_HOSTNAME_LABEL_SIZE <? length label)%nat then Throw (IDNAError "Label is too large")
      else
        let* dst := append label dst in
        label_loop fuel' append normalized last dst
  end.

Definition idna_label_convert {D} (normalized : list Z) (append : list Z -> D -> outcome D) (dst : D) : outcome D :=
  label_loop (S (length normalized)) append normalized 0 dst.

(** [IDNA0] only refuses encoded labels; its destructor makes the name lower case. *)
Definition IDNA0_append (label : list Z) (_ : unit) : outcome unit :=
  if Caseless_start IDNA_PREFIX label then Throw (IDNAError "Possibly IDNA label") else Ret tt.

Section Normalizer.
(** [lower_and_normalize (input, output, idna2008)]; [None] is the result [false] *)
Context (lower_and_normalize : list Z -> bool -> option (list Z)).

(** *** IDNA2008 *)

(** The characters before the first one above ASCII, and whether there is one. *)
Fixpoint ascii_label (lab : list Z) : list Z * bool :=
  match lab with
  | [] => ([], false)
  | ch :: lab' =>
    if 0x80 <=? ch then ([], true)
    else let '(alabel, unicode) := ascii_label lab' in (u8 ch :: alabel, unicode)
  end.

(** [decode_]: [inl alabel] is the result [true], [inr (alabel, wlab, unicode)] the result [false] *)
Definition IDNA2008_decode_ (lab : list Z) : outcome (list Z + list Z * list Z * bool) :=
  let '(alabel, unicode) := ascii_label lab in
  if unicode then Ret (inr (alabel, lab, true))
  else if negb (is_valid_chars alabel HOST) then Throw (IDNAError "Invalid input sequence in label")
  else if negb (Caseless_start IDNA_PREFIX alabel) || (length alabel =? length IDNA_PREFIX)%nat ||
          has_nonowned IDNA_ALLOWED alabel
  then Ret (inl alabel)
  else
    let* (ok, decoded) := punycode_decode (drop (length IDNA_PREFIX) alabel) in
    if negb ok then Ret (inl alabel)
    else
      match lower_and_normalize decoded false with
      | Some (ch :: rest) => Ret (inr (alabel, ch :: rest, false))
      | _ => Ret (inl alabel)
      end.

(** The loop that appends the label to [unicode_]: what was appended before a character
    that has no octets stays. *)
Fixpoint append_utf8 (wlabel : list Z) : bool * list Z :=
  match wlabel with
  | [] => (true, [])
  | ch :: wlabel' =>
    match ulong_to_utf8_char (u64 ch) with
    | Some octets => let '(ok, rest) := append_utf8 wlabel' in (ok, octets ++ rest)
    | None => (false, [])
    end
  end.

(** A refusal throws for a label given in Unicode and is the result [false] for a decoded one. *)
Definition refuse (unicode : bool) (what : string) (names : Names) : outcome (bool * Names) :=
  if unicode then Throw (IDNAError what) else Ret (false, names).

Definition IDNA2008_encode_ (wlabel : list Z) (unicode : bool) (names : Names) : outcome (bool * Names) :=
  let* first := rd wlabel 0 in
  let* last := rd wlabel (length wlabel - 1) in
  if (first =? IDNA_DELIMITER) || (last =? IDNA_DELIMITER) then refuse unicode "extra hyphens" names
  else
    let* (ok, encoded) := punycode_encode wlabel in
    if negb ok && unicode then Throw (IDNAError "punycode failure")
    else if has_nonowned IDNA_ALLOWED encoded then refuse unicode "Invalid symbols in the encoded label" names
    else
      let* last := rd encoded (length encoded - 1) in
      if last =? IDNA_DELIMITER then refuse unicode "Extra hyphens in the encoded label" names
      else
        let '(ok, octets) := append_utf8 wlabel in
        let names := {| ascii_ := ascii_ names; unicode_ := unicode_ names ++ octets |} in
        if negb ok then refuse unicode "Invalid input sequence" names
        else Ret (true, {| ascii_ := ascii_ names ++ IDNA_PREFIX ++ encoded ++ [LABEL_SEPARATOR];
                           unicode_ := unicode_ names ++ [LABEL_SEPARATOR] |}).

Definition append_names (names : Names) (a u : list Z) : Names :=
  {| ascii_ := ascii_ names ++ a ++ [LABEL_SEPARATOR]; unicode_ := unicode_ names ++ u ++ [LABEL_SEPARATOR] |}.

Definition IDNA2008_append (label : list Z) (names : Names) : outcome Names :=
  let* d := IDNA2008_decode_ label in
  match d with
  | inl alabel => Ret (append_names names alabel alabel)
  | inr (alabel, wlabel, unicode) =>
    if existsb (fun ch => 0x80 <=? ch) wlabel then
      let* (ok, names) := IDNA2008_encode_ wlabel unicode names in
      Ret (if ok : bool then names else append_names names alabel alabel)
    else
      let adecoded := map u8 wlabel in
      Ret (if negb (is_valid_chars adecoded HOST) then append_names names alabel adecoded
           else append_names names adecoded adecoded)
  end.

(** ** Host names *)

(** The loop that fills [whost], an array of [MAX_HOSTNAME_SIZE] characters; [memory] is the
    host with what follows it. *)
Fixpoint decode_host (fuel : nat) (size : nat) (memory : list Z) (i : nat) (has_unicode : bool) (whost : list Z)
    : outcome (bool * list Z) :=
  match fuel with
  | O => Undef
  | S fuel' =>
    if (size <=? i)%nat then Ret (has_unicode, whost)
    else
      let* ch := rd memory i in
      let octet_count := get_octet_count ch in
      let* (ok, wch) := utf8_char_to_wchar (drop i memory) octet_count in
      if negb ok then Throw (IDNAError "Invalid input sequence in host")
      else
        guard (length whost <? MAX_HOSTNAME_SIZE)%nat
          (decode_host fuel' size memory (i + Z.to_nat octet_count) (has_unicode || (1 <? octet_count)) (whost ++ [wch]))
  end.

(** A name without its last separator, unless the input had one. *)
Definition strip_last (last_is_sep : bool) (s : list Z) : outcome (list Z) :=
  if last_is_sep then Ret s else match s with [] => Undef | _ => Ret (removelast s) end.

(** From the normalization on. *)
Definition idna_normalize_unicode (whost : list Z) : outcome Names :=
  match lower_and_normalize whost true with
  | None => Throw (IDNAError "Normalization of host name failed")
  | Some [] => Throw (IDNAError "Empty host name after normalization")
  | Some normalized =>
    let* last := rd normalized (length normalized - 1) in
    let last_is_sep := last =? LABEL_SEPARATOR in
    let* names := idna_label_convert normalized IDNA2008_append {| ascii_ := []; unicode_ := [] |} in
    if (MAX_HOSTNAME_SIZE <=? length (ascii_ names))%nat then Throw (IDNAError "Resulted host name is too large")
    else
      let* a := strip_last last_is_sep (ascii_ names) in
      let* u := strip_last last_is_sep (unicode_ names) in
      Ret {| ascii_ := a; unicode_ := u |}
  end.

Definition idna_normalize_host (host after : list Z) : outcome Names :=
  if is_nil host then Throw (IDNAError "Host name is empty")
  else if (MAX_HOSTNAME_SIZE <=? length host)%nat then Throw (IDNAError "Host name is too large")
  else
    let* (has_unicode, whost) := decode_host (S (length host)) (length host) (host ++ after) 0 false [] in
    if has_unicode then idna_normalize_unicode whost
    else
      match idna_label_convert host IDNA0_append tt with
      | Ret _ => Ret {| ascii_ := to_lower_str host; unicode_ := to_lower_str host |}
      | Throw (IDNAError _) => idna_normalize_unicode whost
      | Throw e => Throw e
      | Undef => Undef
      end.

(** [idna_host_normalize]: the error instead of the exception *)
Definition idna_host_normalize (host after : list Z) : outcome (string + Names) :=
  match idna_normalize_host host after with
  | Ret names => Ret (inr names)
  | Throw (IDNAError e) => Ret (inl e)
  | Throw e => Throw e
  | Undef => Undef
  end.

(** ** BrowserAddress *)

Definition set_host (p : ExtendedUrlParts) (h after : list Z) : ExtendedUrlParts :=
  {| parts := {| scheme := scheme p; userinfo := userinfo p; host := set_text (host p) h; port := port p; path := path p;
                 query := query p; fragment := fragment p |};
     authority := authority p; host_after := after |}.

(** [process_host_] for a host and what follows it: [encoded_host_] and [decoded_host_] *)
Definition process_host_ (host after : list Z) : outcome Names :=
  let* r := idna_host_normalize host after in
  match r with
  | inl e => Throw (InvalidURL e)
  | inr names => Ret names
  end.

(** [additional_checks_]: the host points into [url_], which ends with a zero *)
Definition browser_checks (a : URLAddress) : outcome (URLAddress * bool) :=
  let* names := process_host_ (text (host (parts_ a))) (host_after (parts_ a) ++ [0]) in
  Ret ({| url_ := url_ a; parts_ := set_host (parts_ a) (ascii_ names) [] |}, true).

Record BrowserAddress : Type := { http : HTTPAddress; encoded_host_ : list Z; decoded_host_ : list Z }.

(** The names are those [process_host_] made of the host the checks saw. *)
Definition BrowserAddress_of_url (url : list Z) : outcome BrowserAddress :=
  match url with
  | [] => Ret {| http := empty_address; encoded_host_ := []; decoded_host_ := [] |}
  | _ =>
    let* h := HTTPAddress_assign_ false browser_checks url in
    let* a := url_without_check_ url in
    let* a := add_prefix false a in
    let* names := process_host_ (text (host (parts_ a))) (host_after (parts_ a) ++ [0]) in
    Ret {| http := h; encoded_host_ := ascii_ names; decoded_host_ := unicode_ names |}
  end.

Definition BrowserAddress_of_parts (host path query fragment : list Z) (port : Z) (secure : bool) (userinfo : list Z)
    : outcome BrowserAddress :=
  let* names := process_host_ host [] in
  let* h := set_ secure userinfo (ascii_ names) (if negb (port =? 0) then port else get_default_port_ secure)
    path query fragment in
  Ret {| http := h; encoded_host_ := ascii_ names; decoded_host_ := unicode_ names |}.

Definition BrowserChecker_process_parts_ (strict : bool) (ends : list Z) (p : ExtendedUrlParts)
    : outcome (option string * ExtendedUrlParts) :=
  let p := HTTPChecker_process_parts_ strict p in
  let* r := idna_host_normalize (text (host p)) (host_after p ++ ends) in
  match r with
  | inl e => Ret (Some e, p)
  | inr names => Ret (None, set_host p (ascii_ names) [])
  end.

Definition BrowserChecker (url : list Z) : outcome (option string) :=
  HTTPChecker_with BrowserChecker_process_parts_ url false.

(** ** Functions *)

Definition normalize_http_address (url : list Z) : outcome (list Z) :=
  let* a := BrowserAddress_of_url url in
  let p := parts_ (address (http a)) in
  if negb (secure_ (http a)) && (port_number_ (http a) =? 80) then
    let* pa := unmime (text (path p)) PATH in
    let* qu := match text (query p) with
               | [] => Ret []
               | q => let* t := unmime q QUERY in Ret (bytes "?" ++ t)
               end in
    Ret (HTTP_PREFIX ++ bytes "//" ++ to_lower_str (text (host p)) ++ pa ++ qu)
  else Ret [].

Definition keywords_from_http_address (url : list Z) : outcome (list Z) :=
  let* p := split_url url in
  let prefix := http_url_needs_prefix (text (scheme p)) (text (host p)) in
  let* p := if prefix then split_url (http_add_scheme url) else Ret p in
  let* names := idna_normalize_host (text (host p)) (host_after p ++ if prefix then [0] else []) in
  let keywords := unicode_ names ++ unmime_all (text (path p)) in
  match text (query p) with
  | [] => Ret keywords
  | q =>
    let tmp := unmime_all q in
    let keywords := keywords ++ bytes "?" ++ tmp in
    Ret (match tmp with [] => keywords | _ => keywords ++ bytes "?" ++ unmime_all tmp end)
  end.
End Normalizer.

(** ** Facts *)

#[local] Arguments call : simpl never.
#[local] Opaque USER_INFO PATH QUERY FRAGMENT HOST PORT HEX_NUMBER LABEL_FIRST_LAST LABEL_MIDDLE.

(** *** Lower case *)

Lemma to_lower_twice ch : is_byte ch -> to_lower (to_lower ch) = to_lower ch.
Proof. intros Hb. apply Z.eqb_eq. byte_eval ch. Qed.

Lemma lower_twice s : bytes_ok s -> to_lower_str (to_lower_str s) = to_lower_str s.
Proof.
  induction 1 as [|ch s Hc _ IH]; [done|]. cbn [to_lower_str map]. f_equal; [by apply to_lower_twice|exact IH].
Qed.

(** A category that is closed under lower case. *)
Class Lowered (c : CharTable) : Prop := { lower_closed : forall ch, call c ch = true -> call c (to_lower ch) = true }.

#[export] Instance PATH_lowered : Lowered PATH.
Proof. constructor. apply (table_forall PATH (fun ch => call PATH (to_lower ch))); vm_compute; reflexivity. Qed.

#[export] Instance QUERY_lowered : Lowered QUERY.
Proof. constructor. apply (table_forall QUERY (fun ch => call QUERY (to_lower ch))); vm_compute; reflexivity. Qed.

Lemma hex_byte h : hexb h = true -> is_byte h.
Proof. apply in_table; vm_compute; reflexivity. Qed.

Lemma hex_lower h : hexb h = true -> hexb (to_lower h) = true /\ hex_to_int (to_lower h) = hex_to_int h.
Proof.
  intros Hh. split.
  - revert h Hh. apply (table_forall HEX_NUMBER (fun h => call HEX_NUMBER (to_lower h))); vm_compute; reflexivity.
  - apply Z.eqb_eq. revert h Hh. apply (table_forall HEX_NUMBER (fun h => hex_to_int (to_lower h) =? hex_to_int h)); vm_compute; reflexivity.
Qed.

(** *** unmime *)

Lemma unmime_char (c : CharTable) ch s t : ch <> "%"%uchar -> unmime_loop c s = Ret t ->
  unmime_loop c (ch :: s) = Ret (to_lower ch :: t).
Proof. intros Hc E. cbn [unmime_loop]. by rewrite (proj2 (Z.eqb_neq _ _) Hc), E. Qed.

Lemma unmime_octet (c : CharTable) h1 h2 s t : hexb h1 = true -> unmime_loop c s = Ret t ->
  unmime_loop c ("%"%uchar :: h1 :: h2 :: s) =
  Ret ((if call c (hex_to_char h1 h2) then [to_lower (hex_to_char h1 h2)] else ["%"%uchar; to_lower h1; to_lower h2]) ++ t).
Proof. intros Hh E. cbn [unmime_loop]. rewrite Hh, E. done. Qed.

(** The text is decoded without a failed assert; the result is a valid text and a fixed
    point. *)
Lemma unmime_ok (c : CharTable) `{!PctFree c, !Lowered c} s : (forall ch, call c ch = true -> is_byte ch) -> encoded c s ->
  exists t, unmime s c = Ret t /\ encoded c t /\ unmime t c = Ret t /\ is_nil t = is_nil s /\
  (forall ch s', s = ch :: s' -> call c ch = true -> exists t', t = to_lower ch :: t').
Proof.
  intros Hbyte He. assert (Hpct : forall ch, call c ch = true -> ch <> "%"%uchar).
  { intros ch Hc ->. destruct PctFree0. congruence. }
  assert (Hone : forall ch t, call c ch = true -> encoded c t -> unmime t c = Ret t ->
    encoded c (to_lower ch :: t) /\ unmime (to_lower ch :: t) c = Ret (to_lower ch :: t)).
  { intros ch t Hc Ht Hu. assert (Hl := lower_closed ch Hc). split; [by apply encoded_char|]. unfold unmime.
    rewrite (unmime_char c _ t t) by (done || by apply Hpct). by rewrite to_lower_twice by by apply Hbyte. }
  unfold unmime in *. induction He as [|ch s Hc _ (t & E & Ht & Hu & _)|h1 h2 s H1 H2 _ (t & E & Ht & Hu & _)].
  - exists []. split; [done|]. split; [constructor|]. split; [done|]. by split.
  - destruct (Hone ch t Hc Ht Hu) as [Hen Hfix]. exists (to_lower ch :: t). rewrite (unmime_char c ch s t) by auto.
    split; [done|]. split; [done|]. split; [done|]. split; [done|]. intros ch' s' [= <- <-] _. by exists t.
  - rewrite (unmime_octet c h1 h2 s t H1 E). eexists. split; [done|]. destruct (call c (hex_to_char h1 h2)) eqn:Ev.
    + destruct (Hone _ t Ev Ht Hu) as [Hen Hfix]. split; [done|]. split; [done|]. split; [done|].
      intros ch' s' [= <- _] Hp. by destruct (Hpct _ Hp).
    + destruct (hex_lower h1 H1) as [L1 I1], (hex_lower h2 H2) as [L2 I2]. split; [by apply encoded_octet|]. split.
      * cbn [app]. rewrite (unmime_octet c _ _ t t) by done.
        assert (Ech : hex_to_char (to_lower h1) (to_lower h2) = hex_to_char h1 h2) by (unfold hex_to_char; by rewrite I1, I2).
        rewrite Ech, Ev. by rewrite !to_lower_twice by by apply hex_byte.
      * split; [done|]. intros ch' s' [= <- _] Hp. by destruct (Hpct _ Hp).
Qed.

Lemma path_byte ch : call PATH ch = true -> is_byte ch.
Proof. apply in_table; vm_compute; reflexivity. Qed.

(** *** Plain host names *)

(** A label that [IDNA0] takes. *)
Definition plain_label (l : list Z) : Prop :=
  l <> [] /\ (length l <= MAX_HOSTNAME_LABEL_SIZE)%nat /\ ~ In LABEL_SEPARATOR l /\ Caseless_start IDNA_PREFIX l = false.

(** An ASCII name without encoded labels; a dot may follow it. *)
Record plain_name (host : list Z) (labels : list (list Z)) (dots : nat) : Prop := {
  pn_text : host = join LABEL_SEPARATOR labels ++ replicate dots LABEL_SEPARATOR;
  pn_labels : labels <> [] /\ Forall plain_label labels;
  pn_dots : (dots <= 1)%nat;
  pn_ascii : Forall (fun ch => 0 <= ch < 0x80) host;
  pn_size : (length host < MAX_HOSTNAME_SIZE)%nat
}.

Lemma find_char_at pre a ch b : ~ In ch a -> SubString_find_char (pre ++ a ++ ch :: b) ch (length pre) = Some (length pre + length a)%nat.
Proof.
  intros Hi. unfold SubString_find_char. rewrite (proj2 (Nat.ltb_lt _ _)) by (rewrite !length_app; cbn; lia).
  rewrite drop_app_length, index_app by done. cbn [index]. rewrite Z.eqb_refl. cbn. f_equal. lia.
Qed.

Lemma find_char_none pre a ch : ~ In ch a -> SubString_find_char (pre ++ a) ch (length pre) = None.
Proof.
  intros Hi. unfold SubString_find_char. destruct (length pre <? length (pre ++ a))%nat; [|done].
  rewrite drop_app_length. rewrite <- (app_nil_r a), index_app by done. done.
Qed.

Lemma label_step l pre post fuel : plain_label l -> (post = [] \/ exists post', post = LABEL_SEPARATOR :: post') ->
  label_loop (S fuel) IDNA0_append (pre ++ l ++ post) (length pre) tt =
  label_loop fuel IDNA0_append (pre ++ l ++ post) (length pre + length l + 1) tt.
Proof.
  intros (Hn & Hl & Hd & Hx) Hpost. cbn [label_loop].
  assert (Hlen : (0 < length l)%nat) by (destruct l; [done|cbn; lia]).
  rewrite (proj2 (Nat.leb_gt _ _)) by (rewrite !length_app; lia).
  assert (Ep : default (length (pre ++ l ++ post)) (SubString_find_char (pre ++ l ++ post) LABEL_SEPARATOR (length pre)) =
    (length pre + length l)%nat).
  { destruct Hpost as [->|(post' & ->)].
    - rewrite app_nil_r, find_char_none by done. cbn. by rewrite length_app.
    - by rewrite find_char_at. }
  rewrite Ep. replace (length pre + length l - length pre)%nat with (length l) by lia. rewrite substr_app. cbn [obind].
  destruct l as [|c l']; [done|]. cbn [is_nil]. rewrite (proj2 (Nat.ltb_ge _ _)) by done. unfold IDNA0_append. rewrite Hx. done.
Qed.

Lemma label_loop_end fuel s last : (length s <= last)%nat -> label_loop (S fuel) IDNA0_append s last tt = Ret tt.
Proof. intros Hl. cbn [label_loop]. by rewrite (proj2 (Nat.leb_le _ _)). Qed.

Lemma labels_plain labels dots : labels <> [] -> Forall plain_label labels -> (dots <= 1)%nat -> forall pre fuel,
  let s := pre ++ join LABEL_SEPARATOR labels ++ replicate dots LABEL_SEPARATOR in
  (length s < length pre + fuel)%nat -> label_loop fuel IDNA0_append s (length pre) tt = Ret tt.
Proof.
  intros Hn Hl Hd. induction Hl as [|l labels Hl0 Hls IH]; [done|]. intros pre fuel s Hf. subst s.
  destruct Hl0 as (Hl1 & Hl2 & Hl3 & Hl4). assert (Hlen : (0 < length l)%nat) by (destruct l; [done|cbn; lia]).
  destruct labels as [|l' labels].
  - cbn [join] in *. destruct fuel as [|[|fuel]]; rewrite ?length_app in Hf; try lia.
    rewrite label_step; [|done|destruct dots as [|[|]]; [by left|right; by exists []|lia]].
    apply label_loop_end. rewrite !length_app, length_replicate. lia.
  - change (join LABEL_SEPARATOR (l :: l' :: labels)) with (l ++ LABEL_SEPARATOR :: join LABEL_SEPARATOR (l' :: labels)) in *.
    rewrite <- app_assoc in *. cbn [app] in *. set (rest := join LABEL_SEPARATOR (l' :: labels) ++ replicate dots LABEL_SEPARATOR) in *.
    destruct fuel as [|fuel]; [rewrite ?length_app in Hf; lia|]. rewrite label_step; [|done|right; by exists rest].
    specialize (IH ltac:(done) (pre ++ l ++ [LABEL_SEPARATOR]) fuel). rewrite <- !app_assoc in IH. cbn [app] in IH.
    rewrite !length_app in IH. cbn [length] in IH. rewrite <- Nat.add_assoc. apply IH.
    rewrite !length_app in *. cbn [length] in *. lia.
Qed.

(** ASCII hosts are read character by character. *)
Lemma decode_ascii h after : Forall (fun ch => 0 <= ch < 0x80) h -> forall fuel done_,
  (length h < fuel)%nat -> (length done_ + length h <= MAX_HOSTNAME_SIZE)%nat ->
  decode_host fuel (length (done_ ++ h)) (done_ ++ h ++ after) (length done_) false done_ = Ret (false, done_ ++ h).
Proof.
  induction 1 as [|ch h Hc Hh IH]; intros fuel done_ Hf Hs; (destruct fuel as [|fuel]; [cbn in Hf; lia|]); cbn [decode_host].
  - rewrite app_nil_r, Nat.leb_refl. done.
  - rewrite (proj2 (Nat.leb_gt _ _)) by (rewrite length_app; cbn; lia). cbn [app]. rewrite rd_at. cbn [obind].
    assert (Eo : get_octet_count ch = 1).
    { apply Z.eqb_eq. apply (forall_below 128 (fun ch => get_octet_count ch =? 1)); [vm_compute; reflexivity|lia]. }
    rewrite Eo. rewrite drop_app_length. unfold utf8_char_to_wchar. cbn [Z.eqb Z.leb Z.compare negb andb].
    assert (Em : Z.land ch (tab 0 FIRST_BYTE_MASKS 1) = ch).
    { apply Z.eqb_eq. apply (forall_below 128 (fun ch => Z.land ch (tab 0 FIRST_BYTE_MASKS 1) =? ch)); [vm_compute; reflexivity|lia]. }
    change (rd (ch :: h ++ after) 0) with (Ret ch). cbn [obind]. rewrite Em. change (Z.to_nat (1 - 1)) with O. cbn [utf8_char_to_wchar_loop obind negb].
    cbn [length] in *. rewrite (proj2 (Nat.ltb_lt (length done_) MAX_HOSTNAME_SIZE)) by lia. cbn [guard orb].
    change (1 <? 1) with false. change (Z.to_nat 1) with 1%nat.
    specialize (IH fuel (done_ ++ [ch]) ltac:(lia) ltac:(rewrite length_app; cbn; lia)).
    rewrite <- !app_assoc, !length_app in IH. cbn [app length] in IH. rewrite length_app. cbn [length].
    replace (length done_ + S (length h))%nat with (length done_ + (1 + length h))%nat by lia. exact IH.
Qed.

Section Plain.
Context (lower_and_normalize : list Z -> bool -> option (list Z)).

Lemma idna_plain host labels dots after : plain_name host labels dots ->
  idna_normalize_host lower_and_normalize host after = Ret {| ascii_ := to_lower_str host; unicode_ := to_lower_str host |}.
Proof using.
  intros [E [Hn Hl] Hd Ha Hs]. unfold idna_normalize_host.
  assert (Hne : host <> []).
  { intros ->. destruct labels as [|l labels]; [done|]. inversion_clear Hl as [|? ? [Hl0 _] _]. destruct l; [done|]. by destruct labels. }
  destruct host as [|c host0] eqn:Eh; [done|]. rewrite <- Eh in *. assert (is_nil host = false) as -> by by rewrite Eh.
  rewrite (proj2 (Nat.leb_gt _ _)) by done.
  pose proof (decode_ascii host after Ha (S (length host)) [] ltac:(lia) ltac:(cbn; lia)) as Edec. cbn [app length] in Edec. rewrite Edec.
  cbn [obind]. unfold idna_label_convert.
  pose proof (labels_plain labels dots Hn Hl Hd [] (S (length host))) as El. cbn zeta in El. cbn [app length] in El. rewrite <- E in El.
  rewrite El by lia. done.
Qed.
End Plain.

(** *** Reading a host stays inside its text *)

Lemma wchar_loop_zero n : forall src dest, In 0 src -> exists r, utf8_char_to_wchar_loop n src dest = Ret r.
Proof.
  induction n as [|n IH]; intros src dest Hz; cbn [utf8_char_to_wchar_loop]; [by eexists|].
  destruct src as [|ch src]; [done|]. change (rd (ch :: src) 0) with (Ret ch). cbn [obind].
  destruct (Z.land ch 0xC0 =? 0x80) eqn:Ec; cbn [negb]; [|by eexists]. apply IH. destruct Hz as [->|Hz]; [done|exact Hz].
Qed.

Lemma wchar_zero src ch src' : src = ch :: src' -> In 0 src' -> exists ok w, utf8_char_to_wchar src (get_octet_count ch) = Ret (ok, w) /\
  (ok = true -> get_octet_count ch <> 0).
Proof.
  intros -> Hz. unfold utf8_char_to_wchar. destruct (Z.eqb_spec (get_octet_count ch) 0) as [E|E]; [by eexists _, _|].
  cbn [negb andb]. destruct (get_octet_count ch <=? 6); [|by eexists _, _]. change (rd (ch :: src') 0) with (Ret ch).
  cbn [obind]. edestruct wchar_loop_zero as ([ok w] & ->); [done|]. by exists ok, w.
Qed.

(** A host whose text is followed by a zero somewhere is read inside it, and [whost] is
    long enough. *)
Lemma decode_host_safe host after : bytes_ok host -> (length host < MAX_HOSTNAME_SIZE)%nat -> In 0 after -> forall fuel i has_unicode whost,
  (length whost <= i)%nat -> (length host < i + fuel)%nat -> (0 < fuel)%nat ->
  (exists r, decode_host fuel (length host) (host ++ after) i has_unicode whost = Ret r) \/
  (exists e, decode_host fuel (length host) (host ++ after) i has_unicode whost = Throw (IDNAError e)).
Proof.
  intros Hb Hs Hz. induction fuel as [|fuel IH]; intros i hu whost Hw Hf Hf0; [lia|]. cbn [decode_host].
  destruct (Nat.leb_spec (length host) i) as [Hi|Hi]; [left; by eexists|].
  destruct (lookup_lt_is_Some_2 host i Hi) as (ch & Ech).
  assert (Ed : drop i (host ++ after) = ch :: (drop (S i) host ++ after)).
  { rewrite drop_app_le by lia. by rewrite (drop_S host ch i Ech). }
  rewrite (rd_drop (host ++ after) i ch _ Ed). cbn [obind].
  destruct (wchar_zero (drop i (host ++ after)) ch _ Ed) as (ok & wch & -> & Ho); [apply in_or_app; by right|]. cbn [obind].
  destruct ok; cbn [negb]; [|right; by eexists]. rewrite (proj2 (Nat.ltb_lt _ _)) by lia. cbn [guard].
  assert (Hcb : is_byte ch) by (rewrite Forall_lookup in Hb; by apply (Hb i)).
  pose proof (get_octet_count_nonneg ch Hcb). specialize (Ho eq_refl). apply IH; [rewrite length_app; cbn [length]; lia|lia|lia].
Qed.

(** *** Lower case host names *)

Lemma lower_join sep labels : to_lower sep = sep -> to_lower_str (join sep labels) = join sep (map to_lower_str labels).
Proof.
  intros Hs. induction labels as [|l labels IH]; [done|]. destruct labels as [|l' labels]; [done|].
  change (join sep (l :: l' :: labels)) with (l ++ sep :: join sep (l' :: labels)). unfold to_lower_str in *.
  rewrite map_app. cbn [map]. rewrite Hs. cbn [map] in IH. rewrite IH. done.
Qed.

Lemma lower_replicate n : to_lower_str (replicate n LABEL_SEPARATOR) = replicate n LABEL_SEPARATOR.
Proof. induction n as [|n IH]; [done|]. cbn [replicate to_lower_str map]. f_equal; exact IH. Qed.

Lemma caseless_lower this s : bytes_ok this -> bytes_ok s -> Caseless_start this (to_lower_str s) = Caseless_start this s.
Proof.
  intros Ht Hs. unfold Caseless_start, Caseless_equal, to_lower_str. rewrite firstn_map, length_map.
  destruct (negb _); [done|]. assert (H : forall a b, bytes_ok a -> Caseless_equal_loop (map to_lower a) b = Caseless_equal_loop a b).
  { induction a as [|x a IH]; intros b Ha; [done|]. inversion_clear Ha as [|? ? Hx Ha']. destruct b as [|y b]; [done|].
    cbn [map Caseless_equal_loop]. rewrite to_lower_twice by done. destruct (_ =? _); [by apply IH|done]. }
  apply H. by apply Forall_take.
Qed.

Lemma lower_plain host labels dots : plain_name host labels dots ->
  plain_name (to_lower_str host) (map to_lower_str labels) dots.
Proof.
  intros [E [Hn Hl] Hd Ha Hs].
  assert (Hb : Forall bytes_ok labels).
  { assert (H : bytes_ok (join LABEL_SEPARATOR labels)).
    { apply (Forall_impl (fun ch => 0 <= ch < 0x80)); [|unfold is_byte; lia]. rewrite E in Ha. by apply Forall_app in Ha as [Ha _]. }
    clear - H. induction labels as [|l labels IH]; [constructor|]. destruct labels as [|l' labels].
    - constructor; [exact H|constructor].
    - change (join LABEL_SEPARATOR (l :: l' :: labels)) with (l ++ LABEL_SEPARATOR :: join LABEL_SEPARATOR (l' :: labels)) in H.
      apply Forall_app in H as [H1 H2]. inversion_clear H2. constructor; [done|by apply IH]. }
  split.
  - rewrite E. unfold to_lower_str at 1. rewrite map_app. fold (to_lower_str (join LABEL_SEPARATOR labels)).
    fold (to_lower_str (replicate dots LABEL_SEPARATOR)). by rewrite lower_join, lower_replicate by by vm_compute.
  - split; [by destruct labels|]. apply Forall_map. rewrite List.Forall_forall in Hl, Hb |- *. intros l Hi. cbn.
    destruct (Hl l Hi) as (H1 & H2 & H3 & H4). specialize (Hb l Hi). split; [by destruct l|]. unfold to_lower_str. rewrite length_map.
    split; [done|]. split.
    + intros (x & Ex & Hx)%in_map_iff. apply H3. rewrite List.Forall_forall in Hb. specialize (Hb x Hx).
      assert (Ed : negb (to_lower x =? LABEL_SEPARATOR) || (x =? LABEL_SEPARATOR) = true) by byte_eval x.
      rewrite Ex in Ed. cbn in Ed. apply Z.eqb_eq in Ed. by rewrite <- Ed.
    + fold (to_lower_str l). rewrite caseless_lower; [done|by_eval|done].
  - done.
  - apply Forall_map. eapply Forall_impl; [exact Ha|]. intros ch Hc. cbn beta in Hc |- *.
    assert (Er : (0 <=? to_lower ch) && (to_lower ch <? 128) = true).
    { apply (forall_below 128 (fun ch => (0 <=? to_lower ch) && (to_lower ch <? 128))); [vm_compute; reflexivity|lia]. }
    lia.
  - by unfold to_lower_str; rewrite length_map.
Qed.

(** ** Browser addresses *)

Lemma fix_parts_host (p : ExtendedUrlParts) h after np b : fix_parts p = Ret (np, b) ->
  fix_parts (set_host p h after) =
  Ret ({| scheme := scheme np; userinfo := userinfo np; host := set_text (host p) h; port := port np; path := path np;
          query := query np; fragment := fragment np |}, b).
Proof.
  unfold fix_parts, set_host. cbn [parts scheme userinfo host port path query fragment].
  destruct (fix_part (userinfo p) USER_INFO) as [[ui b1]| |]; [|done..]. cbn [obind].
  destruct (fix_part (path p) PATH) as [[pa b2]| |]; [|done..]. cbn [obind].
  destruct (fix_part (query p) QUERY) as [[qu b3]| |]; [|done..]. cbn [obind].
  destruct (fix_part (fragment p) FRAGMENT) as [[fr b4]| |]; [|done..]. cbn [obind]. by intros [= <- <-].
Qed.

Lemma set_host_flags (p : ExtendedUrlParts) h after : split_flags p -> split_flags (set_host p h after).
Proof. intros []. by split. Qed.

Section Browser.
Context (lower_and_normalize : list Z -> bool -> option (list Z)).

(** The names of the host of these parts, in a text that ends with a zero. *)
Definition host_names (p : ExtendedUrlParts) : outcome Names :=
  process_host_ lower_and_normalize (text (host p)) (host_after p ++ [0]).

Lemma host_names_nonempty p names : host_names p = Ret names -> text (host p) <> [].
Proof using. intros E En. unfold host_names in E. by rewrite En in E. Qed.

(** The object when the checks of the parts begin. *)
Definition browser_prepare (url : list Z) : outcome URLAddress :=
  let* a := url_without_check_ url in HTTPAddress_specific_checks_ false (browser_checks lower_and_normalize) a.

(** The host is replaced by its encoded name and the object is assembled again. *)
Lemma browser_prepare_ok url u p c names : bytes_ok u -> splits u p c -> host_names p = Ret names ->
  (let* a := url_without_check_ url in add_prefix false a) = Ret {| url_ := u; parts_ := p |} ->
  match check_http_url_components (text (scheme p)) (ascii_ names) false with
  | Some e => browser_prepare url = Throw (InvalidURL e)
  | None => exists a np b, browser_prepare url = Ret a /\ prepared false u (set_host p (ascii_ names) []) a /\
    fix_parts (set_host p (ascii_ names) []) = Ret (np, b) /\ same_parts (normal np) (parts_ a)
  end.
Proof using.
  intros Hb Hs En Ea. unfold browser_prepare, HTTPAddress_specific_checks_. rewrite (add_prefix_run false url _ _ Ea).
  unfold browser_checks. cbn [parts_]. unfold host_names in En. rewrite En. cbn [obind parts_].
  change (text (scheme (set_host p (ascii_ names) []))) with (text (scheme p)).
  change (text (host (set_host p (ascii_ names) []))) with (ascii_ names).
  destruct (check_http_url_components _ _ false) as [e|] eqn:Ec; cbn [throw_if obind]; [done|].
  apply check_http_ok in Ec as [_ Hh]. pose proof (host_names_nonempty _ _ En) as Hhp.
  destruct (fix_parts_ok u p c Hs Hb Hhp) as (np & b & Ef & _ & Hr). rewrite (fix_parts_host p _ [] np b Ef). cbn [obind orb].
  match goal with |- context [assign_url_parts_ ?x false] => set (np' := x) end.
  assert (Hr' : repaired (set_host p (ascii_ names) []) np') by (destruct Hr; by split).
  destruct (prepared_fixed u (set_host p (ascii_ names) []) np') as (a & -> & Hp & Hsm); [|done..|].
  - apply set_host_flags. by apply (splits_flags u p c).
  - by exists a, np', b.
Qed.

Lemma browser_run url : url <> [] ->
  HTTPAddress_assign_ false (browser_checks lower_and_normalize) url =
  (let* a := browser_prepare url in
   let* error := URLPartsChecker (parts_ a) in
   let* _ := throw_if error in
   HTTPAddress_finish_ a).
Proof using.
  intros Hn. unfold HTTPAddress_assign_, URLAddress_assign_, browser_prepare. destruct url; [done|]. rewrite !obind_assoc.
  destruct (url_without_check_ _); [|done..]. cbn [obind]. destruct (HTTPAddress_specific_checks_ _ _ _); [|done..]. cbn [obind].
  destruct (URLPartsChecker _); [|done..]. cbn [obind]. by destruct (throw_if _).
Qed.

(** The names of the address are those of the parts the work started with. *)
Lemma browser_names url u p : url <> [] ->
  (let* a := url_without_check_ url in add_prefix false a) = Ret {| url_ := u; parts_ := p |} ->
  BrowserAddress_of_url lower_and_normalize url =
  (let* h := HTTPAddress_assign_ false (browser_checks lower_and_normalize) url in
   let* names := host_names p in
   Ret {| http := h; encoded_host_ := ascii_ names; decoded_host_ := unicode_ names |}).
Proof using.
  intros Hn Ea. unfold BrowserAddress_of_url. destruct url as [|ch url0] eqn:E; [done|]. rewrite <- E in *.
  destruct (HTTPAddress_assign_ _ _ url) as [h| |]; [|done..]. cbn [obind].
  rewrite (add_prefix_run false url (fun a => obind (process_host_ lower_and_normalize (text (host (parts_ a))) (host_after (parts_ a) ++ [0]))
    (fun names => Ret {| http := h; encoded_host_ := ascii_ names; decoded_host_ := unicode_ names |})) _ Ea). done.
Qed.
End Browser.

Section Results.
Context (lower_and_normalize : list Z -> bool -> option (list Z)).

Lemma browser_total url : url <> [] -> bytes_ok url -> exists u p c, start_parts false url = Ret p /\ splits u p c /\ bytes_ok u /\
  match host_names lower_and_normalize p with
  | Ret names =>
    (exists a np b n, BrowserAddress_of_url lower_and_normalize url =
       Ret {| http := http_of a n; encoded_host_ := ascii_ names; decoded_host_ := unicode_ names |} /\
     check_http_url_components (text (scheme p)) (ascii_ names) false = None /\ url_grammar (parts_ a) /\
     prepared false u (set_host p (ascii_ names) []) a /\ fix_parts (set_host p (ascii_ names) []) = Ret (np, b) /\
     same_parts (normal np) (parts_ a) /\ port_value (is_https (text (scheme (parts_ a)))) (text (port (parts_ a))) = Some n) \/
    (exists e, BrowserAddress_of_url lower_and_normalize url = Throw (InvalidURL e))
  | Throw e => BrowserAddress_of_url lower_and_normalize url = Throw e
  | Undef => BrowserAddress_of_url lower_and_normalize url = Undef
  end.
Proof using.
  intros Hn Hb. destruct (add_prefix_ok false url Hn Hb) as (u & p & c & Ea & Ep & _ & Hs & Hbu). exists u, p, c.
  split; [done|]. split; [done|]. split; [done|].
  rewrite (browser_names _ url u p), browser_run by done. destruct (host_names lower_and_normalize p) as [names|e|] eqn:En.
  - pose proof (browser_prepare_ok _ url u p c names Hbu Hs En Ea) as H.
    destruct (check_http_url_components _ _ false) as [e|] eqn:Ec; [right; rewrite H; by exists e|].
    destruct H as (a & np & b & -> & Hp & Ef & Hsm). cbn [obind].
    destruct (URLPartsChecker_ok (parts_ a)) as (e & -> & He). cbn [obind]. destruct e as [e|]; cbn [throw_if obind]; [right; by exists e|].
    pose proof (proj1 He eq_refl) as Hg. rewrite finish_grammar by done.
    destruct (port_value _ _) as [n|] eqn:Epv; [|right; by eexists]. left. exists a, np, b, n. done.
  - unfold browser_prepare, HTTPAddress_specific_checks_. rewrite (add_prefix_run false url _ _ Ea). unfold browser_checks. cbn [parts_].
    unfold host_names in En. by rewrite En.
  - unfold browser_prepare, HTTPAddress_specific_checks_. rewrite (add_prefix_run false url _ _ Ea). unfold browser_checks. cbn [parts_].
    unfold host_names in En. by rewrite En.
Qed.

(** *** normalize_http_address *)

(** The parts of a normalized address. *)
Definition norm_parts (h pa qu : list Z) : UrlParts := UrlParts_ HTTP_SCHEME [] h [] pa qu [].

Lemma norm_text h pa qu : h <> [] ->
  HTTP_PREFIX ++ bytes "//" ++ h ++ pa ++ (match qu with [] => [] | _ => bytes "?" ++ qu end) = assemble (norm_parts h pa qu).
Proof using.
  intros Hn. destruct h as [|ch h]; [done|]. destruct qu; unfold assemble, assemble_authority, assemble_tail;
    cbn [norm_parts UrlParts_ part_of has_authority scheme userinfo host port path query fragment has text is_nil negb orb];
    rewrite ?app_nil_r, <- ?app_assoc; reflexivity.
Qed.

(** What normalization makes of a path and a query. *)
Record normal_texts (h pa qu : list Z) : Prop := {
  nt_host : h <> [] /\ (length h <= MAX_HOSTNAME_SIZE)%nat /\ Forall (fun ch => call HOST ch = true) h /\
    exists labels dots, host_name h labels dots;
  nt_plain : exists labels dots, plain_name h labels dots;
  nt_lower : to_lower_str h = h;
  nt_path : encoded PATH pa /\ (exists rest, pa = bytes "/" ++ rest) /\ unmime pa PATH = Ret pa;
  nt_query : encoded QUERY qu /\ unmime qu QUERY = Ret qu
}.

Lemma norm_grammar h pa qu : normal_texts h pa qu -> url_grammar (norm_parts h pa qu) /\ flagged (norm_parts h pa qu).
Proof using.
  intros [(H1 & H2 & H3 & H4) _ _ (P1 & (r & P2) & _) (Q1 & _)]. split.
  - destruct h as [|ch h]; [done|]. split; cbn [norm_parts UrlParts_ part_of scheme userinfo host port path query fragment text]; try done.
    + split; [by vm_compute|by_eval].
    + constructor.
    + split; [done|]. right. by exists r.
    + constructor.
  - split; cbn; try done. by destruct qu.
Qed.

Lemma norm_bytes h pa qu : normal_texts h pa qu -> bytes_ok (assemble (norm_parts h pa qu)).
Proof using.
  intros [(H1 & _) (labels & dots & [_ _ _ Ha _]) _ (P1 & _) (Q1 & _)]. rewrite <- norm_text by done.
  rewrite !bytes_ok_app. split; [by_eval|]. split; [by_eval|]. split.
  { eapply Forall_impl; [exact Ha|]. intros ch Hc. cbn beta in Hc. unfold is_byte. lia. }
  split; [by apply (encoded_bytes PATH), P1; apply path_byte|]. destruct qu as [|c qu]; [constructor|].
  apply bytes_ok_app. split; [by_eval|]. by apply (encoded_bytes QUERY), Q1; apply query_byte.
Qed.

(** The text of an insecure address on port 80. *)
Lemma normalize_value url a h pa qu enc dec : BrowserAddress_of_url lower_and_normalize url =
    Ret {| http := http_of a 80; encoded_host_ := enc; decoded_host_ := dec |} ->
  is_https (text (scheme (parts_ a))) = false -> h <> [] -> to_lower_str (text (host (parts_ a))) = h ->
  unmime (text (path (parts_ (with_path a)))) PATH = Ret pa -> unmime (text (query (parts_ a))) QUERY = Ret qu ->
  is_nil qu = is_nil (text (query (parts_ a))) ->
  normalize_http_address lower_and_normalize url = Ret (assemble (norm_parts h pa qu)).
Proof using.
  intros E Hsec Hn Eh Ep Eq En. unfold normalize_http_address. rewrite E. cbn [obind http http_of secure_ port_number_ address].
  rewrite Hsec. change (80 =? 80) with true. cbn [negb andb]. destruct (with_path_rest a) as (_ & _ & -> & _ & -> & _).
  rewrite Ep, Eh. cbn [obind]. rewrite <- norm_text by done. destruct (text (query (parts_ a))) as [|c q].
  - destruct qu; [done|discriminate En].
  - rewrite Eq. cbn [obind]. by destruct qu.
Qed.

Lemma plain_names (p : ExtendedUrlParts) labels dots : plain_name (text (host p)) labels dots ->
  host_names lower_and_normalize p = Ret {| ascii_ := to_lower_str (text (host p)); unicode_ := to_lower_str (text (host p)) |}.
Proof using.
  intros Hp. unfold host_names, process_host_, idna_host_normalize. by rewrite (idna_plain _ _ labels dots) by done.
Qed.

(** A normalized text is its own normalization. *)
Lemma norm_fixed h pa qu : normal_texts h pa qu ->
  normalize_http_address lower_and_normalize (assemble (norm_parts h pa qu)) = Ret (assemble (norm_parts h pa qu)).
Proof using.
  intros Ht. destruct (norm_grammar h pa qu Ht) as [Hg Hf]. pose proof (norm_bytes h pa qu Ht) as Hb. set (norm := assemble _) in *.
  destruct Ht as [(Hh & _) (labels & dots & Hpl) El (_ & (r & Er) & Eup) (_ & Euq)].
  destruct (assembled_split (norm_parts h pa qu) Hg Hf) as (q & Eq & Hsm & _); [done|]. fold norm in Eq.
  assert (Hn : norm <> []) by done. destruct (add_prefix_ok false norm Hn Hb) as (u & p & c & Ea & Es & _ & Hs & Hbu).
  pose proof Hsm as [E1 E2 E3 E4 E5 E6 E7]. cbn [norm_parts UrlParts_ scheme userinfo host port path query fragment part_of text] in E3, E4, E5, E6.
  assert (p = q) as ->.
  { unfold start_parts in Es. rewrite Eq in Es. cbn [obind] in Es. unfold http_url_needs_prefix in Es. rewrite E3 in Es.
    destruct h; [done|]. cbn in Es. by injection Es. }
  assert (En : host_names lower_and_normalize q = Ret {| ascii_ := h; unicode_ := h |}).
  { rewrite (plain_names q labels dots) by by rewrite E3. by rewrite E3, El. }
  pose proof (browser_prepare_ok _ norm u q c _ Hbu Hs En Ea) as H. cbn [ascii_] in H.
  assert (Ec : check_http_url_components (text (scheme q)) h false = None).
  { apply check_http_ok. rewrite E1. split; [left; by vm_compute|done]. }
  rewrite Ec in H. destruct H as (a & np & b & Eprep & _ & Efix & Hsa).
  assert (Hgq : url_grammar (set_host q h [])).
  { apply (grammar_same (norm_parts h pa qu)); [|done]. split; cbn [set_host parts scheme userinfo host port path query fragment set_text text]; done. }
  rewrite fix_parts_valid in Efix by apply Hgq. injection Efix as <- _.
  destruct Hsa as [A1 A2 A3 A4 A5 A6 A7]. cbn [normal set_host parts scheme userinfo host port path query fragment set_text text] in A1, A2, A3, A4, A5, A6, A7.
  assert (Hsec : is_https (text (scheme (parts_ a))) = false) by (rewrite A1, E1; by vm_compute).
  assert (Hga : url_grammar (parts_ a)).
  { apply (grammar_same (norm_parts h pa qu)); [|done]. split; rewrite ?A1, ?A2, ?A3, ?A4, ?A5, ?A6, ?A7; cbn [text part_of]; rewrite ?E1; done. }
  assert (Eb : BrowserAddress_of_url lower_and_normalize norm = Ret {| http := http_of a 80; encoded_host_ := h; decoded_host_ := h |}).
  { rewrite (browser_names _ norm u q), browser_run, Eprep by done. cbn [obind].
    destruct (URLPartsChecker_ok (parts_ a)) as (e & -> & He). rewrite (proj2 He Hga). cbn [obind throw_if].
    rewrite finish_grammar, Hsec, A4, E4 by done. cbn [port_value obind]. rewrite En. done. }
  apply (normalize_value norm a h pa qu h h Eb Hsec Hh).
  - by rewrite A3.
  - assert (with_path a = a) as -> by (unfold with_path; by rewrite A5, E5, Er). by rewrite A5, E5.
  - by rewrite A6, E6.
  - by rewrite A6, E6.
Qed.

Lemma plain_lower host labels dots : plain_name host labels dots -> to_lower_str (to_lower_str host) = to_lower_str host.
Proof using.
  intros [_ _ _ Ha _]. apply lower_twice. eapply Forall_impl; [exact Ha|]. intros ch Hc. cbn beta in Hc. unfold is_byte. lia.
Qed.

(** C23: [normalize_http_address] on an address whose host is an ASCII name of nonempty
    labels, with at most one dot after them, none of which begins with [xn--], within
    the sizes of labels and names: the decoding of path and query never fails an assert,
    and the function throws [InvalidURL] or returns a text that it maps to itself (the
    empty text for secure addresses and other ports than 80). *)
Theorem normalize_idempotent url p labels dots : bytes_ok url -> start_parts false url = Ret p ->
  plain_name (text (host p)) labels dots ->
  (exists norm, normalize_http_address lower_and_normalize url = Ret norm /\
    normalize_http_address lower_and_normalize norm = Ret norm) \/
  (exists e, normalize_http_address lower_and_normalize url = Throw (InvalidURL e)).
Proof using.
  intros Hb Es Hpl. destruct url as [|ch url0] eqn:Eu; [left; by exists []|]. rewrite <- Eu in *.
  assert (Hn : url <> []) by (by rewrite Eu). destruct (browser_total url Hn Hb) as (u & p' & c & Es' & _ & _ & H).
  assert (p' = p) as -> by congruence. rewrite (plain_names p labels dots Hpl) in H. cbn [ascii_ unicode_] in H.
  destruct H as [(a & np & b & n & E & Ec & Hg & Hp & _ & _ & Hpv)|(e & E)].
  2: { right. exists e. unfold normalize_http_address. by rewrite E. }
  apply check_http_ok in Ec as [_ Hh]. pose proof (pr_host _ _ _ _ Hp) as Ehost. cbn [set_host parts host set_text text] in Ehost.
  left. destruct (is_https (text (scheme (parts_ a)))) eqn:Esec, (Z.eqb_spec n 80) as [->|Hn80]; cycle -2.
  - destruct (with_path_parts a Hg) as [Hgw (rest & Er)]; [by rewrite Ehost|].
    destruct Hgw as [_ _ _ _ [Gp _] _ _]. pose proof Hg as [_ _ Gh _ _ Gq _].
    destruct (unmime_ok PATH _ path_byte Gp) as (pa & Ep1 & Ep2 & Ep3 & _ & Ep4).
    destruct (unmime_ok QUERY _ query_byte Gq) as (qu & Eq1 & Eq2 & Eq3 & Eq4 & _).
    exists (assemble (norm_parts (to_lower_str (text (host p))) pa qu)). split.
    + apply (normalize_value url a _ pa qu _ _ E Esec Hh); [|done..]. rewrite Ehost. by apply (plain_lower _ labels dots).
    + apply norm_fixed. rewrite Ehost in Gh. split.
      * destruct (to_lower_str (text (host p))); done.
      * eexists _, _. by apply lower_plain.
      * by apply (plain_lower _ labels dots).
      * split; [done|]. split; [|done]. destruct (Ep4 "/"%uchar rest Er ltac:(by vm_compute)) as (t & ->). by exists t.
      * done.
  - exists []. split; [|done]. unfold normalize_http_address. rewrite E. cbn [obind http http_of secure_ port_number_]. rewrite Esec.
    by rewrite (proj2 (Z.eqb_neq _ _) Hn80).
  - exists []. split; [|done]. unfold normalize_http_address. rewrite E. cbn [obind http http_of secure_ port_number_]. by rewrite Esec.
  - exists []. split; [|done]. unfold normalize_http_address. rewrite E. cbn [obind http http_of secure_ port_number_]. by rewrite Esec.
Qed.
End Results.

(** A normalization for the examples: ASCII lower case. *)
Definition ascii_normalize (s : list Z) (_ : bool) : option (list Z) := Some (map to_lower s).


Lemma normalize_idempotent_witness :
  exists norm, normalize_http_address ascii_normalize (bytes "A.com/%7Ex?%41") = Ret norm /\ norm = bytes "http://a.com/~x?a" /\
  normalize_http_address ascii_normalize norm = Ret norm.
Proof.
  assert (Hb : bytes_ok (bytes "A.com/%7Ex?%41")) by by_eval.
  destruct (start_parts false (bytes "A.com/%7Ex?%41")) as [p| |] eqn:Es; [|vm_compute in Es; discriminate Es..].
  assert (Hp : plain_name (text (host p)) [bytes "A"; bytes "com"] 0).
  { vm_compute in Es. injection Es as <-. split; [reflexivity|..].
    - split; [discriminate|]. repeat constructor; vm_compute; try lia; try discriminate; intuition lia.
    - lia.
    - repeat constructor; vm_compute; congruence.
    - apply Nat.ltb_lt. vm_compute. reflexivity. }
  destruct (normalize_idempotent ascii_normalize _ p _ _ Hb Es Hp) as [(norm & E1 & E2)|(e & E)]; [|vm_compute in E; discriminate E].
  exists norm. split; [exact E1|]. split; [|exact E2]. vm_compute in E1. injection E1 as <-. reflexivity.
Defined.

(** Reading the characters of a host stays inside the text and the array of 255
    characters when a zero ends the text, as in the classes; the text of a caller has none,
    and an octet that announces others at its end is read past it. *)
Theorem host_reading_safe host after : bytes_ok host -> (length host < MAX_HOSTNAME_SIZE)%nat -> In 0 after ->
  ((exists has_unicode whost, decode_host (S (length host)) (length host) (host ++ after) 0 false [] = Ret (has_unicode, whost)) \/
   (exists e, decode_host (S (length host)) (length host) (host ++ after) 0 false [] = Throw (IDNAError e))) /\
  keywords_from_http_address ascii_normalize (bytes "http://" ++ [0xE2]) = Undef.
Proof.
  intros Hb Hs Hz. split; [|vm_compute; reflexivity].
  destruct (decode_host_safe host after Hb Hs Hz (S (length host)) 0 false []) as [([hu w] & E)|H]; cbn [length]; try lia.
  - left. by exists hu, w.
  - by right.
Qed.

Lemma host_reading_safe_witness :
  exists has_unicode whost, decode_host 3 2 [0xC3; 0xA9; 0] 0 false [] = Ret (has_unicode, whost) /\ whost = [0xE9].
Proof.
  destruct (host_reading_safe [0xC3; 0xA9] [0]) as [[(hu & w & E)|(e & E)] _].
  - by_eval.
  - apply Nat.ltb_lt. vm_compute. reflexivity.
  - left. reflexivity.
  - exists hu, w. split; [exact E|]. vm_compute in E. injection E as <- <-. reflexivity.
  - vm_compute in E. discriminate E.
Defined.
