(* ===== verification/CommonDecimal.v ===== *)
(** * CommonDecimal: helpers of the decimal numbers

    Models [DecimalHelper] of [src/Generics/CommonDecimal.hpp] and [.cpp], which
    [SimpleDecimal] and [Decimal] share: powers of ten, signs, digits, the
    reader of decimal texts and the 128 bit multiplication and division that
    are written in assembler. *)
From S2P Require Import Prelude IntStr.
Local Open Scope Z_scope.
Local Open Scope outcome_scope.

(** [enum DecimalMulRemainder] and [enum DecimalDivRemainder] *)
Inductive DecimalMulRemainder : Type := DMR_FLOOR | DMR_ROUND | DMR_CEIL.
Inductive DecimalDivRemainder : Type := DDR_FLOOR | DDR_CEIL.

#[export] Instance DecimalMulRemainder_eq_dec : EqDecision DecimalMulRemainder.
Proof. solve_decision. Defined.

#[export] Instance DecimalDivRemainder_eq_dec : EqDecision DecimalDivRemainder.
Proof. solve_decision. Defined.

(** ** Integer types *)

(** Conversion to a type. *)
Definition cast (T : IntegerType) (v : Z) : Z :=
  if is_signed T then (v + 2 ^ digits T) mod 2 ^ (digits T + 1) - 2 ^ digits T
  else v mod 2 ^ digits T.

(** [res *= base]: a signed product must fit its type. *)
Definition times (T : IntegerType) (a b : Z) : outcome Z :=
  if is_signed T then arith T (a * b) else Ret (cast T (a * b)).

(** [Splitter::split]: the absolute value and the sign. *)
Definition split_sign (T : IntegerType) (integer : Z) : outcome (Z * bool) :=
  if is_signed T then
    if integer <? 0 then guard (- max_ T <=? integer) (Ret (- integer, true))
    else Ret (integer, false)
  else Ret (integer, false).

(** [exceeds]: both arguments are converted to [unsigned long long]. *)
Definition exceeds (a b : Z) : bool := u64 b <=? u64 a.

(** ** Powers of ten *)

Definition READY_POWERS : list Z :=
  [1; 10; 100; 1000; 10000; 100000; 1000000; 10000000; 100000000; 1000000000;
   10000000000; 100000000000; 1000000000000; 10000000000000; 100000000000000;
   1000000000000000; 10000000000000000; 100000000000000000;
   1000000000000000000; 10000000000000000000].

(** The loop [for (;;)]; [pow] has 32 bits. *)
Fixpoint pow10_loop (T : IntegerType) (fuel : nat) (pow res base : Z) : outcome Z :=
  match fuel with
  | O => Undef
  | S fuel' =>
    let* res := if Z.testbit pow 0 then times T res base else Ret res in
    let pow := Z.shiftr pow 1 in
    if pow =? 0 then Ret res
    else
      let* base := times T base base in
      pow10_loop T fuel' pow res base
  end.

Definition pow10 (T : IntegerType) (pow : Z) : outcome Z :=
  if pow <? 20 then Ret (cast T (tab 0 READY_POWERS pow))
  else pow10_loop T 32 pow 1 10.

(** ** Digits *)

(** [assemble_decimal]: [digits] digits from [num] on. *)
Fixpoint assemble_decimal_loop (T : IntegerType) (digits : nat) (num : list Z) (ret : Z)
  : outcome Z :=
  match digits, num with
  | O, _ => Ret ret
  | S digits', d :: num' => assemble_decimal_loop T digits' num' (cast T (ret * 10 + d))
  | S _, [] => Undef
  end.

Definition assemble_decimal (T : IntegerType) (digits : nat) (num : list Z) : outcome Z :=
  assemble_decimal_loop T digits num 0.

(** [disassemble_decimal]: writes [num[digits - 1]] down to [num[0]]. *)
Fixpoint disassemble_decimal (digits : nat) (elem : Z) (num : list Z) : outcome (list Z) :=
  match digits with
  | O => Ret num
  | S i =>
    let* num := wr num i (elem mod 10) in
    disassemble_decimal i (elem / 10) num
  end.

(** ** Reading a decimal text *)

(** [static_cast<unsigned>(ch - '0')] *)
Definition digit_of (ch : Z) : Z := u32 (s8 ch - "0"%uchar).

(** The bits of [iostate] an extraction sets, its message, and the values it
    writes on success. *)
Record Extracted : Type := {
  failbit : bool;
  eofbit : bool;
  message : option string;
  number : option (Z * bool)
}.

Definition failed (eof : bool) (what : string) : Extracted :=
  {| failbit := true; eofbit := eof; message := Some what; number := None |}.

(** [skip]: does the run of digits after the current one reach the end? *)
Fixpoint skip_digits (cur : list Z) : bool :=
  match cur with
  | [] => true
  | ch :: cur' => if digit_of ch <? 10 then skip_digits cur' else false
  end.

Section Extract.
Context (Base : IntegerType) (TOTAL FRACTION : Z).

(** The loop over the integer part.  A list [cur] stands for [[cur, end)]; the
    result is [inl eof] when the number is too long ([eof] from [skip]). *)
Fixpoint extract_integer (cur : list Z) (decimal : Z) : bool + Z * list Z :=
  match cur with
  | [] => inr (decimal, [])
  | ch :: cur' =>
    let digit := digit_of ch in
    if digit <? 10 then
      if decimal <? 10 ^ (TOTAL - FRACTION) / 10
      then extract_integer cur' (cast Base (decimal * 10 + digit))
      else inl (skip_digits cur')
    else inr (decimal, cur)
  end.

(** The loop over the fractional part, from the character after the point. *)
Fixpoint extract_fraction (cur : list Z) (decimal digits_left : Z) : bool + Z * Z * list Z :=
  match cur with
  | [] => inr (decimal, digits_left, [])
  | ch :: cur' =>
    let digit := digit_of ch in
    if digit <? 10 then
      if negb (digits_left =? 0)
      then extract_fraction cur' (cast Base (decimal * 10 + digit)) (digits_left - 1)
      else inl (skip_digits cur')
    else inr (decimal, digits_left, cur)
  end.

Definition is_end (cur : list Z) : bool := match cur with [] => true | _ => false end.

Definition extracted (negative : bool) (decimal : Z) (cur : list Z) : Extracted :=
  {| failbit := false; eofbit := is_end cur; message := None;
     number := Some (decimal, negative) |}.

(** The digits, once the sign has been read. *)
Definition extract_unsigned (negative : bool) (cur : list Z) : outcome Extracted :=
  match cur with
  | [] => Ret (failed true "empty number passed")
  | ch :: _ =>
    if 9 <? digit_of ch then Ret (failed false "empty number passed")
    else
      match extract_integer cur 0 with
      | inl eof =>
        Ret (failed eof "number of digits in integer part of string is bigger than expected")
      | inr (decimal, cur) =>
        match cur with
        | ch :: cur' =>
          if negb (FRACTION =? 0) && (digit_of ch =? u32 ("."%uchar - "0"%uchar)) then
            match extract_fraction cur' decimal FRACTION with
            | inl eof =>
              Ret (failed eof
                "number of digits in fractional part of string is bigger than expected")
            | inr (decimal, digits_left, cur) =>
              let* decimal :=
                if (1 <? FRACTION) && (0 <? digits_left) then
                  let* p := pow10 Base digits_left in times Base decimal p
                else Ret decimal in
              Ret (extracted negative decimal cur)
            end
          else Ret (extracted negative (cast Base (decimal * 10 ^ FRACTION)) cur)
        | [] => Ret (extracted negative (cast Base (decimal * 10 ^ FRACTION)) cur)
        end
      end
  end.

Definition extract_decimal (cur : list Z) : outcome Extracted :=
  match cur with
  | [] => Ret (failed true "empty string passed")
  | ch :: cur' =>
    let digit := digit_of ch in
    if digit =? u32 ("-"%uchar - "0"%uchar) then extract_unsigned true cur'
    else if digit =? u32 ("+"%uchar - "0"%uchar) then extract_unsigned false cur'
    else extract_unsigned false cur
  end.
End Extract.

(** ** Products and quotients of 128 bits *)

(** [muldiv]: the quotient, the remainder and the result.  [mulq] leaves the
    product in two registers; when the high one is not below the divisor the
    division is jumped over and the divisor is returned. *)
Definition muldiv (factor1 factor2 divisor : Z) : Z * Z * bool :=
  let prod := factor1 * factor2 in
  let low := u64 prod in
  let high := prod / 2 ^ 64 in
  if divisor <=? high then (low, high, negb (divisor =? 0))
  else (prod / divisor, prod mod divisor, false).

(** [divq]: faults when the quotient does not fit. *)
Definition divq (high low divisor : Z) : outcome (Z * Z) :=
  if divisor <=? high then Undef
  else Ret ((high * 2 ^ 64 + low) / divisor, (high * 2 ^ 64 + low) mod divisor).

(** [mul<>]: [true] for a base whose square fits 64 bits; [major] and [minor]. *)
Definition mul_base (fits : bool) (factor1 factor2 base : Z) : outcome (Z * Z) :=
  if fits then
    let major := u64 (factor1 * factor2) in
    guard (negb (base =? 0)) (Ret (major / base, major mod base))
  else divq (factor1 * factor2 / 2 ^ 64) (u64 (factor1 * factor2)) base.

(** [div<>]: [quotient] and [remainder] *)
Definition div_base (fits : bool) (major minor base divisor : Z) : outcome (Z * Z) :=
  if fits then
    let quotient := u64 (u64 (major * base) + minor) in
    guard (negb (divisor =? 0)) (Ret (quotient / divisor, quotient mod divisor))
  else
    let low := u64 (major * base) in
    let high := major * base / 2 ^ 64 in
    divq (u64 (high + (low + minor) / 2 ^ 64)) (u64 (low + minor)) divisor.

(** ** Integer types: facts *)

(** The type [Base] of a decimal number: unsigned, of 8 to 64 bits. *)
Definition unsigned (T : IntegerType) : Prop := integer T /\ is_signed T = false.

Lemma integer_digits T : integer T -> 7 <= digits T <= 64.
Proof.
  unfold integer. destruct (is_signed T); rewrite !elem_of_cons, elem_of_nil; lia.
Qed.

Lemma cast_id T v : integer T -> min_ T <= v <= max_ T -> cast T v = v.
Proof.
  unfold cast, min_, max_. intros H%integer_digits. destruct (is_signed T); intros Hv.
  - rewrite Z.mod_small; [lia|]. rewrite Z.pow_add_r by lia. lia.
  - apply Z.mod_small. lia.
Qed.

Lemma cast_unsigned T v : unsigned T -> cast T v = v mod 2 ^ digits T.
Proof. intros [_ H]. unfold cast. by rewrite H. Qed.

Lemma unsigned_id T v : unsigned T -> 0 <= v <= max_ T -> cast T v = v.
Proof. intros [H Hs] Hv. apply cast_id; [done|]. unfold min_. by rewrite Hs. Qed.

Lemma times_small T a b : integer T -> 0 <= a * b <= max_ T -> times T a b = Ret (a * b).
Proof.
  intros HT Hab. unfold times, arith, in_type. pose proof (integer_digits T HT).
  assert (min_ T <= 0) by (unfold min_; destruct (is_signed T); lia).
  destruct (is_signed T); [decide_Z; done|]. rewrite cast_id by (done || lia). done.
Qed.

Lemma max_u64 T : integer T -> 0 <= max_ T < 2 ^ 64.
Proof.
  intros H%integer_digits. unfold max_.
  pose proof (Z.pow_le_mono_r 2 (digits T) 64 ltac:(lia) ltac:(lia)).
  pose proof (Z.pow_pos_nonneg 2 (digits T)). lia.
Qed.

Lemma digits10_max T : integer T -> 10 ^ digits10 T <= max_ T.
Proof.
  unfold integer, max_, digits10. intros H.
  destruct (is_signed T); rewrite !elem_of_cons, elem_of_nil in H;
    destruct H as [-> | [-> | [-> | [-> | []]]]]; by_eval.
Qed.

Lemma pow10_max T p : integer T -> 0 <= p <= digits10 T -> 1 <= 10 ^ p <= max_ T.
Proof.
  intros HT Hp. pose proof (digits10_max T HT).
  pose proof (Z.pow_le_mono_r 10 p (digits10 T)). pose proof (Z.pow_pos_nonneg 10 p). lia.
Qed.

Lemma digits10_le T : integer T -> 0 < digits10 T <= 19.
Proof.
  unfold integer, digits10. intros H.
  destruct (is_signed T); rewrite !elem_of_cons, elem_of_nil in H;
    destruct H as [-> | [-> | [-> | [-> | []]]]]; by_eval.
Qed.

Lemma exceeds_spec a b : 0 <= a < 2 ^ 64 -> 0 <= b < 2 ^ 64 -> exceeds a b = (b <=? a).
Proof. intros Ha Hb. unfold exceeds, u64. by rewrite !Z.mod_small. Qed.

(** ** Powers of ten: facts *)

Lemma pow10_loop_spec T fuel : unsigned T -> forall pow res base,
  0 < pow < 2 ^ Z.of_nat fuel ->
  pow10_loop T fuel pow res base = Ret (cast T (res * base ^ pow)).
Proof.
  intros HT. assert (Htimes : forall a b, times T a b = Ret (cast T (a * b))).
  { intros a b. unfold times. by rewrite (proj2 HT). }
  induction fuel as [|fuel IH]; intros pow res base Hpow.
  { change (2 ^ Z.of_nat 0) with 1 in Hpow. lia. }
  cbn [pow10_loop]. rewrite Z.bit0_odd, !Htimes.
  rewrite Z.shiftr_div_pow2 by lia. change (2 ^ 1) with 2.
  pose proof (Z.div_mod pow 2 ltac:(lia)) as E.
  pose proof (Zmod_odd pow) as Eo. rewrite Nat2Z.inj_succ, Z.pow_succ_r in Hpow by lia.
  assert (Hr : (if Z.odd pow then Ret (cast T (res * base)) else Ret res) =
               Ret (if Z.odd pow then cast T (res * base) else res)) by by destruct (Z.odd pow).
  rewrite Hr. cbn [obind]. destruct (Z.eqb_spec (pow / 2) 0) as [Z0|Z0].
  - destruct (Z.odd pow); [|lia]. replace pow with 1 by lia. by rewrite Z.pow_1_r.
  - rewrite IH by zlia. f_equal. rewrite !cast_unsigned by done.
    replace (base ^ pow) with ((base ^ 2) ^ (pow / 2) * base ^ (pow mod 2))
      by (rewrite <- Z.pow_mul_r, <- Z.pow_add_r, <- E by zlia; done).
    pose proof (Z.pow_pos_nonneg 2 (digits T) ltac:(lia)
      ltac:(pose proof (integer_digits T (proj1 HT)); lia)).
    assert (Hp : forall x, (x * ((base * base) mod 2 ^ digits T) ^ (pow / 2)) mod 2 ^ digits T =
      (x * ((base ^ 2) ^ (pow / 2))) mod 2 ^ digits T).
    { intros x. rewrite <- Z.mul_mod_idemp_r, Z.mod_pow_l by lia.
      rewrite Z.mul_mod_idemp_r by lia. by rewrite <- Z.pow_2_r. }
    rewrite Hp, Eo. destruct (Z.odd pow).
    + rewrite Z.mul_mod_idemp_l by lia. f_equal. ring.
    + f_equal. ring.
Qed.

Lemma ready_powers p : 0 <= p < 20 -> tab 0 READY_POWERS p = 10 ^ p.
Proof.
  intros Hp. apply Z.eqb_eq.
  exact (forall_below 20 (fun p => tab 0 READY_POWERS p =? 10 ^ p)
    (eq_refl true <: forallb (fun p => tab 0 READY_POWERS p =? 10 ^ p) (all_below 20) = true) p Hp).
Qed.

Lemma pow10_small T p : integer T -> 0 <= p <= digits10 T -> pow10 T p = Ret (10 ^ p).
Proof.
  intros HT Hp. pose proof (digits10_le T HT). unfold pow10. decide_Z.
  rewrite ready_powers by lia. pose proof (pow10_max T p HT Hp).
  rewrite cast_id; [done|done|]. unfold min_. destruct (is_signed T); [|lia].
  pose proof (Z.pow_pos_nonneg 2 (digits T)). pose proof (integer_digits T HT). lia.
Qed.

Lemma pow10_wraps T p : unsigned T -> 0 <= p < 2 ^ 32 -> pow10 T p = Ret (10 ^ p mod 2 ^ digits T).
Proof.
  intros HT Hp. unfold pow10. destruct (Z.ltb_spec p 20).
  - rewrite ready_powers by lia. by rewrite cast_unsigned.
  - rewrite pow10_loop_spec by (done || (split; [lia|exact (proj2 Hp)])).
    by rewrite cast_unsigned, Z.mul_1_l.
Qed.

(** ** Products: facts *)

Lemma muldiv_spec a b d : 0 <= a -> 0 <= b -> 0 < d ->
  let '(quot, rem, over) := muldiv a b d in
  if over then 2 ^ 64 <= a * b / d
  else quot = a * b / d /\ rem = (a * b) mod d /\ quot < 2 ^ 64.
Proof.
  intros Ha Hb Hd. unfold muldiv. destruct (Z.leb_spec d (a * b / 2 ^ 64)) as [H|H].
  - decide_Z. simpl. apply Z.div_le_lower_bound; [done|].
    pose proof (Z.mul_div_le (a * b) (2 ^ 64)). nia.
  - split; [done|]. split; [done|]. apply Z.div_lt_upper_bound; [done|].
    pose proof (Z.mod_pos_bound (a * b) (2 ^ 64)). pose proof (Z.div_mod (a * b) (2 ^ 64)). nia.
Qed.

(** ** Decimal texts *)

(** Digits most significant first, their characters and their number. *)
Definition digit_list (ds : list Z) : Prop := Forall (fun d => 0 <= d < 10) ds.
Definition chars (ds : list Z) : list Z := map (fun d => d + "0"%uchar) ds.
Fixpoint num (acc : Z) (ds : list Z) : Z :=
  match ds with
  | [] => acc
  | d :: ds' => num (acc * 10 + d) ds'
  end.

(** The last [n] digits of [v]. *)
Fixpoint digits_of (n : nat) (v : Z) : list Z :=
  match n with
  | O => []
  | S n' => digits_of n' (v / 10) ++ [v mod 10]
  end.

Lemma digits_of_ok n : forall v, digit_list (digits_of n v).
Proof.
  induction n as [|n IH]; intros v; simpl; [constructor|].
  apply Forall_app. split; [apply IH|]. constructor; [|constructor]. apply Z.mod_pos_bound. lia.
Qed.

Lemma digits_of_length n : forall v, length (digits_of n v) = n.
Proof. induction n as [|n IH]; intros v; simpl; [done|]. rewrite length_app, IH. simpl. lia. Qed.

Lemma num_app ds : forall acc es, num acc (ds ++ es) = num (num acc ds) es.
Proof. induction ds as [|d ds IH]; intros acc es; simpl; [done|]. apply IH. Qed.

Lemma num_acc ds : forall acc, num acc ds = acc * 10 ^ Z.of_nat (length ds) + num 0 ds.
Proof.
  induction ds as [|d ds IH] using rev_ind; intros acc.
  - simpl. change (10 ^ Z.of_nat 0) with 1. lia.
  - rewrite !num_app. cbn [num]. rewrite IH, length_app, Nat2Z.inj_add, Z.pow_add_r by lia.
    change (10 ^ Z.of_nat (length [d])) with 10. ring.
Qed.

Lemma num_digits_of n : forall v, 0 <= v -> num 0 (digits_of n v) = v mod 10 ^ Z.of_nat n.
Proof.
  induction n as [|n IH]; intros v Hv.
  - simpl. change (10 ^ Z.of_nat 0) with 1. by rewrite Z.mod_1_r.
  - cbn [digits_of]. rewrite num_app, IH by zlia. cbn [num].
    rewrite Nat2Z.inj_succ, Z.pow_succ_r by lia. rewrite (Z.rem_mul_r v 10) by lia. ring.
Qed.

Lemma num_bound ds : digit_list ds -> 0 <= num 0 ds < 10 ^ Z.of_nat (length ds).
Proof.
  induction ds as [|d ds IH] using rev_ind; intros Hd.
  - simpl. change (10 ^ Z.of_nat 0) with 1. lia.
  - apply Forall_app in Hd as [Hd [Hx _]%Forall_cons]. specialize (IH Hd).
    rewrite num_app, length_app, Nat2Z.inj_add, Z.pow_add_r by lia. cbn [num].
    change (10 ^ Z.of_nat (length [d])) with 10. lia.
Qed.

Lemma num_mono ds : digit_list ds -> forall acc, 0 <= acc -> acc <= num acc ds.
Proof.
  induction 1 as [|d ds Hd _ IH]; intros acc Hacc; simpl; [lia|].
  specialize (IH (acc * 10 + d)). lia.
Qed.

Lemma digit_of_char d : 0 <= d < 10 -> digit_of (d + "0"%uchar) = d.
Proof.
  intros Hd. apply Z.eqb_eq.
  exact (forall_below 10 (fun d => digit_of (d + "0"%uchar) =? d)
    (eq_refl true <: forallb (fun d => digit_of (d + "0"%uchar) =? d) (all_below 10) = true) d Hd).
Qed.

Lemma digit_of_lt c : is_byte c -> digit_of c < 10 -> exists d, 0 <= d < 10 /\ c = d + "0"%uchar.
Proof.
  intros Hc Hd. exists (c - "0"%uchar). split; [|lia].
  assert (H : (negb (digit_of c <? 10) || (48 <=? c) && (c <? 58)) = true) by byte_eval c.
  destruct (Z.ltb_spec (digit_of c) 10); [|lia]. simpl in H.
  apply andb_true_iff in H as [H1%Z.leb_le H2%Z.ltb_lt]. lia.
Qed.

Lemma digit_of_inj c d : is_byte c -> is_byte d -> digit_of c = digit_of d -> c = d.
Proof.
  intros Hc Hd. unfold digit_of, u32. rewrite !s8_val by done. unfold is_byte in *.
  repeat case_Z; zlia.
Qed.

Lemma skip_digits_spec ds : digit_list ds -> skip_digits (chars ds) = true.
Proof.
  induction 1 as [|d ds Hd _ IH]; simpl; [done|]. rewrite digit_of_char by done. by decide_Z.
Qed.

(** ** Reading a decimal text: facts *)

(** A text does not begin with a digit. *)
Definition no_digit (cur : list Z) : Prop :=
  match cur with [] => True | ch :: _ => 10 <= digit_of ch end.

(** A number as the documentation writes it, [[+|-]abcd[.[efg]]]: the sign, the
    digits before the point and, if there is a point, those after it. *)
Definition sign_text (sign : option bool) : list Z :=
  match sign with
  | None => []
  | Some true => ["-"%uchar]
  | Some false => ["+"%uchar]
  end.

Definition fraction_text (fp : option (list Z)) : list Z :=
  match fp with
  | None => []
  | Some ds => "."%uchar :: chars ds
  end.

Definition number_text (sign : option bool) (ip : list Z) (fp : option (list Z)) : list Z :=
  sign_text sign ++ chars ip ++ fraction_text fp.

Definition fraction_digits (fp : option (list Z)) : list Z := default [] fp.

Definition negative_sign (sign : option bool) : bool := default false sign.

(** The number in units of the last of [F] fractional digits. *)
Definition scaled (F : Z) (ip : list Z) (fp : option (list Z)) : Z :=
  num 0 (ip ++ fraction_digits fp) * 10 ^ (F - Z.of_nat (length (fraction_digits fp))).

Section ExtractFacts.
Context (Base : IntegerType) (TOTAL FRACTION : Z).
Context (HB : unsigned Base) (HT : TOTAL <= digits10 Base) (HF : 0 <= FRACTION <= TOTAL).

Lemma total_max : 10 ^ TOTAL <= max_ Base.
Proof using HB HT HF. apply pow10_max; [exact (proj1 HB)|lia]. Qed.

Lemma total_split : 10 ^ TOTAL = 10 ^ (TOTAL - FRACTION) * 10 ^ FRACTION.
Proof using HF. rewrite <- Z.pow_add_r by lia. f_equal. lia. Qed.

Lemma fraction_pos : 1 <= 10 ^ FRACTION.
Proof using HF. pose proof (Z.pow_pos_nonneg 10 FRACTION). lia. Qed.

Lemma integer_max : 10 ^ (TOTAL - FRACTION) <= max_ Base.
Proof using HB HT HF. apply pow10_max; [exact (proj1 HB)|lia]. Qed.

Lemma extract_integer_ok ds rest : digit_list ds -> forall acc,
  0 <= acc -> num acc ds < 10 ^ (TOTAL - FRACTION) -> 0 < TOTAL - FRACTION ->
  extract_integer Base TOTAL FRACTION (chars ds ++ rest) acc =
    extract_integer Base TOTAL FRACTION rest (num acc ds).
Proof using HB HT HF.
  induction 1 as [|d ds Hd Hds IH]; intros acc Hacc Hn HI; [done|].
  cbn [chars map app extract_integer]. rewrite digit_of_char by done. cbn [num] in *.
  pose proof (num_mono ds Hds (acc * 10 + d)). pose proof integer_max.
  replace (TOTAL - FRACTION) with (1 + (TOTAL - FRACTION - 1)) in * by lia.
  rewrite Z.pow_add_r in * by lia. change (10 ^ 1) with 10 in *.
  rewrite (Z.mul_comm 10), Z.div_mul by lia. decide_Z.
  rewrite unsigned_id by (done || lia). apply IH; lia.
Qed.

Lemma extract_integer_over ds : digit_list ds -> forall acc,
  0 <= acc < 10 ^ (TOTAL - FRACTION) -> 10 ^ (TOTAL - FRACTION) <= num acc ds ->
  0 < TOTAL - FRACTION -> forall rest, exists eof,
  extract_integer Base TOTAL FRACTION (chars ds ++ rest) acc = inl eof.
Proof using HB HT HF.
  induction 1 as [|d ds Hd Hds IH]; intros acc Hacc Hn HI rest; cbn [num] in Hn; [lia|].
  cbn [chars map app extract_integer]. rewrite digit_of_char by done. pose proof integer_max.
  replace (TOTAL - FRACTION) with (1 + (TOTAL - FRACTION - 1)) in * by lia.
  rewrite Z.pow_add_r in * by lia. change (10 ^ 1) with 10 in *.
  rewrite (Z.mul_comm 10 (10 ^ _)), Z.div_mul by lia. decide_Z.
  destruct (Z.ltb_spec acc (10 ^ (TOTAL - FRACTION - 1))); [|by eexists].
  rewrite unsigned_id by (done || lia). apply IH; lia.
Qed.

Lemma extract_integer_inv cur : bytes_ok cur -> forall acc v rest,
  extract_integer Base TOTAL FRACTION cur acc = inr (v, rest) ->
  exists ds, digit_list ds /\ cur = chars ds ++ rest /\ no_digit rest.
Proof using.
  induction 1 as [|c cur Hc _ IH]; intros acc v rest E; cbn [extract_integer] in E.
  { injection E as _ <-. exists []. repeat split. constructor. }
  destruct (Z.ltb_spec (digit_of c) 10) as [H|H].
  - destruct (Z.ltb acc _); [|done].
    apply IH in E as (ds & Hds & -> & Hr). destruct (digit_of_lt c Hc H) as (d & Hd & ->).
    exists (d :: ds). repeat split; [by constructor|exact Hr].
  - injection E as _ <-. exists []. repeat split; [constructor|exact H].
Qed.

Lemma extract_integer_stop rest acc : no_digit rest ->
  extract_integer Base TOTAL FRACTION rest acc = inr (acc, rest).
Proof using. destruct rest as [|c rest]; simpl; intros H; [done|]. by decide_Z. Qed.

Lemma extract_fraction_ok ds rest : digit_list ds -> forall acc left,
  0 <= acc -> num acc ds <= max_ Base -> Z.of_nat (length ds) <= left ->
  extract_fraction Base (chars ds ++ rest) acc left =
    extract_fraction Base rest (num acc ds) (left - Z.of_nat (length ds)).
Proof using HB.
  induction 1 as [|d ds Hd Hds IH]; intros acc left Hacc Hn Hl.
  { cbn. f_equal. lia. }
  cbn [chars map app extract_fraction]. rewrite digit_of_char by done. cbn [num length] in *.
  pose proof (num_mono ds Hds (acc * 10 + d)). decide_Z. cbn [negb].
  rewrite unsigned_id by (done || lia). rewrite IH by lia. f_equal. lia.
Qed.

Lemma extract_fraction_over ds rest : digit_list ds -> forall acc left,
  0 <= left < Z.of_nat (length ds) -> exists eof,
  extract_fraction Base (chars ds ++ rest) acc left = inl eof.
Proof using.
  induction 1 as [|d ds Hd Hds IH]; intros acc left Hl; cbn [length] in Hl; [simpl in Hl; lia|].
  cbn [chars map app extract_fraction]. rewrite digit_of_char by done. decide_Z.
  destruct (Z.eqb_spec left 0); [by eexists|]. cbn [negb]. apply IH. lia.
Qed.

Lemma extract_fraction_inv cur : bytes_ok cur -> forall acc left v l rest,
  extract_fraction Base cur acc left = inr (v, l, rest) ->
  exists ds, digit_list ds /\ cur = chars ds ++ rest.
Proof using.
  induction 1 as [|c cur Hc _ IH]; intros acc left v l rest E; cbn [extract_fraction] in E.
  { injection E as _ _ <-. exists []. repeat split. constructor. }
  destruct (Z.ltb_spec (digit_of c) 10) as [H|H].
  - destruct (negb _); [|done].
    apply IH in E as (ds & Hds & ->). destruct (digit_of_lt c Hc H) as (d & Hd & ->).
    exists (d :: ds). repeat split. by constructor.
  - injection E as _ _ <-. exists []. repeat split. constructor.
Qed.

(** The texts a type with [FRACTION] fractional digits reads, but for the one
    form of one fractional digit that is left out after the point. *)
Definition grammar (ip : list Z) (fp : option (list Z)) : Prop :=
  digit_list ip /\ ip <> [] /\ digit_list (fraction_digits fp) /\ (is_Some fp -> 0 < FRACTION).

Definition fits (ip : list Z) (fp : option (list Z)) : bool :=
  (num 0 ip <? 10 ^ (TOTAL - FRACTION)) && (Z.of_nat (length (fraction_digits fp)) <=? FRACTION).

Lemma fraction_no_digit fp : no_digit (fraction_text fp).
Proof using. by destruct fp. Qed.

Lemma scaled_bound ip fp : grammar ip fp -> fits ip fp = true ->
  0 <= num 0 (ip ++ fraction_digits fp) <= scaled FRACTION ip fp /\
  scaled FRACTION ip fp < 10 ^ TOTAL.
Proof using HF.
  intros (Hip & _ & Hfp & _) [H1%Z.ltb_lt H2%Z.leb_le]%andb_true_iff.
  unfold scaled. rewrite num_app, num_acc.
  pose proof (num_bound ip Hip). pose proof (num_bound _ Hfp) as Hf.
  set (k := Z.of_nat (length (fraction_digits fp))) in *.
  rewrite total_split. replace (10 ^ FRACTION) with (10 ^ k * 10 ^ (FRACTION - k))
    by (rewrite <- Z.pow_add_r by lia; f_equal; lia).
  pose proof (Z.pow_pos_nonneg 10 (FRACTION - k)). pose proof (Z.pow_pos_nonneg 10 k).
  assert (0 <= num 0 ip * 10 ^ k + num 0 (fraction_digits fp) < 10 ^ (TOTAL - FRACTION) * 10 ^ k)
    by nia. nia.
Qed.

Lemma extract_unsigned_ok neg ip fp : 0 < TOTAL - FRACTION -> grammar ip fp ->
  (fp = Some [] -> FRACTION <> 1) -> fits ip fp = true ->
  extract_unsigned Base TOTAL FRACTION neg (chars ip ++ fraction_text fp) =
    Ret (extracted neg (scaled FRACTION ip fp) []).
Proof using HB HT HF.
  intros HI Hg H1 Hfit. destruct (scaled_bound _ _ Hg Hfit) as [Hs1 Hs2].
  destruct Hg as (Hip & Hne & Hfp & HF0). pose proof total_max.
  apply andb_true_iff in Hfit as [Hi%Z.ltb_lt Hl%Z.leb_le].
  assert (E : extract_integer Base TOTAL FRACTION (chars ip ++ fraction_text fp) 0 =
    inr (num 0 ip, fraction_text fp)).
  { rewrite extract_integer_ok by (done || lia). apply extract_integer_stop, fraction_no_digit. }
  destruct ip as [|d ip]; [done|]. cbn [chars map app] in E |- *. cbn [extract_unsigned].
  rewrite digit_of_char by by inversion Hip.
  inversion Hip; subst. decide_Z. rewrite E. unfold scaled in *.
  destruct fp as [ds|]; cbn [fraction_text fraction_digits default from_option id] in *.
  - assert (0 < FRACTION) by by apply HF0. decide_Z. cbn [negb andb].
    change (digit_of "."%uchar =? u32 ("."%uchar - "0"%uchar)) with true.
    rewrite num_app in Hs1, Hs2 |- *.
    rewrite <- (app_nil_r (chars ds)), extract_fraction_ok by (done || (pose proof (num_bound (d :: ip) Hip)); lia).
    cbn [extract_fraction]. destruct (Z.leb_spec FRACTION (Z.of_nat (length ds))).
    + replace (FRACTION - Z.of_nat (length ds)) with 0 in * by lia.
      rewrite andb_false_r. by rewrite Z.mul_1_r.
    + assert (1 < FRACTION) by (destruct ds; [assert (FRACTION <> 1) by by apply H1|simpl in *]; lia).
      decide_Z. cbn [andb]. rewrite pow10_small by (exact (proj1 HB) || lia). cbn [obind].
      rewrite times_small by (exact (proj1 HB) || lia). done.
  - rewrite app_nil_r, Z.sub_0_r in *. by rewrite unsigned_id by (done || lia).
Qed.

Lemma extract_unsigned_over neg ip fp : 0 < TOTAL - FRACTION -> grammar ip fp ->
  fits ip fp = false -> exists eof what,
  extract_unsigned Base TOTAL FRACTION neg (chars ip ++ fraction_text fp) = Ret (failed eof what).
Proof using HB HT HF.
  intros HI (Hip & Hne & Hfp & HF0) Hfit. destruct ip as [|d ip]; [done|].
  cbn [chars map app extract_unsigned]. inversion Hip; subst. rewrite digit_of_char by done. decide_Z.
  change (d + "0"%uchar :: map _ ip ++ fraction_text fp) with (chars (d :: ip) ++ fraction_text fp).
  destruct (Z.ltb_spec (num 0 (d :: ip)) (10 ^ (TOTAL - FRACTION))) as [Hi|Hi].
  - rewrite extract_integer_ok, extract_integer_stop by (apply fraction_no_digit || done || lia).
    unfold fits in Hfit. rewrite (proj2 (Z.ltb_lt _ _)) in Hfit by done.
    apply Z.leb_gt in Hfit. destruct fp as [ds|]; cbn in Hfit; [|lia].
    cbn [fraction_text]. assert (0 < FRACTION) by by apply HF0. decide_Z. cbn [negb andb].
    change (digit_of "."%uchar =? u32 ("."%uchar - "0"%uchar)) with true. cbv iota.
    destruct (extract_fraction_over ds [] Hfp (num 0 (d :: ip)) FRACTION) as [eof E]; [lia|].
    rewrite app_nil_r in E. rewrite E. by do 2 eexists.
  - pose proof (Z.pow_pos_nonneg 10 (TOTAL - FRACTION)).
    destruct (extract_integer_over (d :: ip) Hip 0 ltac:(lia) Hi HI (fraction_text fp)) as [eof E].
    rewrite E. by do 2 eexists.
Qed.

Lemma extract_unsigned_inv neg cur decimal : bytes_ok cur ->
  extract_unsigned Base TOTAL FRACTION neg cur = Ret (extracted neg decimal []) ->
  exists ip fp, grammar ip fp /\ cur = chars ip ++ fraction_text fp.
Proof using HF.
  intros Hb. destruct cur as [|c cur]; [done|]. cbn [extract_unsigned].
  destruct (Z.ltb_spec 9 (digit_of c)) as [|Hc]; [done|].
  destruct (extract_integer _ _ _ (c :: cur) 0) as [|[v rest]] eqn:E; [done|].
  destruct (extract_integer_inv _ Hb _ _ _ E) as (ip & Hip & Ec & Hr).
  assert (ip <> []). { intros ->. simpl in Ec. subst rest. simpl in Hr. lia. }
  rewrite Ec in Hb |- *. apply Forall_app in Hb as [_ Hrb]. destruct rest as [|ch rest].
  { intros _. exists ip, None. repeat split; [done|done|constructor|by intros []]. }
  apply Forall_cons in Hrb as [Hch Hrb].
  destruct (negb (FRACTION =? 0) && _) eqn:Hp.
  - apply andb_true_iff in Hp as [HF0%negb_true_iff%Z.eqb_neq Hdot].
    assert (ch = "."%uchar) as ->.
    { apply Z.eqb_eq.
      assert (G : negb (digit_of ch =? u32 ("."%uchar - "0"%uchar)) || (ch =? "."%uchar) = true)
        by byte_eval ch. by rewrite Hdot in G. }
    destruct (extract_fraction Base rest v FRACTION) as [|[[d l] r]] eqn:Ef; [done|].
    destruct (extract_fraction_inv _ Hrb _ _ _ _ _ Ef) as (ds & Hds & ->).
    match goal with |- obind ?m _ = _ -> _ => destruct m as [x| |] end; cbn [obind]; intros G; try done.
    destruct r; [|by injection G]. exists ip, (Some ds).
    rewrite app_nil_r. repeat split; try done. lia.
  - intros G. by injection G.
Qed.

(** Every extraction either fails or is an [extracted]. *)
Lemma extract_unsigned_shape neg cur r :
  extract_unsigned Base TOTAL FRACTION neg cur = Ret r ->
  (exists eof what, r = failed eof what) \/ (exists d rest, r = extracted neg d rest).
Proof using.
  destruct cur as [|c cur]; cbn [extract_unsigned]; [intros [= <-]; left; by do 2 eexists|].
  destruct (Z.ltb 9 (digit_of c)); [intros [= <-]; left; by do 2 eexists|].
  destruct (extract_integer _ _ _ _ _) as [|[v [|ch rest]]];
    [intros [= <-]; left; by do 2 eexists|intros [= <-]; right; by do 2 eexists|].
  destruct (negb (FRACTION =? 0) && _); [|intros [= <-]; right; by do 2 eexists].
  destruct (extract_fraction _ _ _ _) as [|[[d l] r']]; [intros [= <-]; left; by do 2 eexists|].
  match goal with |- obind ?m _ = _ -> _ => destruct m as [x| |] end; [|done..].
  intros [= <-]. right. by do 2 eexists.
Qed.

(** Whatever is extracted has at most [TOTAL] digits. *)
Lemma extract_integer_bound cur : forall acc v rest, 0 <= acc < 10 ^ (TOTAL - FRACTION) ->
  extract_integer Base TOTAL FRACTION cur acc = inr (v, rest) -> 0 <= v < 10 ^ (TOTAL - FRACTION).
Proof using HB HT HF.
  pose proof integer_max as Hm.
  induction cur as [|c cur IH]; intros acc v rest Ha; cbn [extract_integer].
  { by intros [= <- <-]. }
  destruct (Z.ltb_spec (digit_of c) 10); [|by intros [= <- <-]].
  destruct (Z.ltb_spec acc (10 ^ (TOTAL - FRACTION) / 10)); [|done].
  assert (0 <= digit_of c) by (apply Z.mod_pos_bound; lia).
  apply IH. pose proof (Z.mul_div_le (10 ^ (TOTAL - FRACTION)) 10).
  rewrite unsigned_id by (done || lia). lia.
Qed.

Lemma extract_fraction_bound cur : forall acc left v l rest,
  0 <= left <= TOTAL -> 0 <= acc < 10 ^ (TOTAL - left) ->
  extract_fraction Base cur acc left = inr (v, l, rest) ->
  0 <= l <= left /\ 0 <= v < 10 ^ (TOTAL - l).
Proof using HB HT HF.
  induction cur as [|c cur IH]; intros acc left v l rest Hl Ha; cbn [extract_fraction].
  { intros [= <- <- <-]. lia. }
  destruct (Z.ltb_spec (digit_of c) 10); [|intros [= <- <- <-]; lia].
  destruct (Z.eqb_spec left 0); cbn [negb]; [done|].
  assert (0 <= digit_of c) by (apply Z.mod_pos_bound; lia).
  assert (Hs : 10 ^ (TOTAL - (left - 1)) = 10 * 10 ^ (TOTAL - left)).
  { rewrite <- Z.pow_succ_r by lia. f_equal. lia. }
  pose proof (pow10_max Base (TOTAL - (left - 1)) (proj1 HB) ltac:(lia)).
  intros E. apply IH in E; [lia|lia|]. rewrite unsigned_id by (done || lia). lia.
Qed.

Lemma extract_unsigned_bound neg cur d rest :
  extract_unsigned Base TOTAL FRACTION neg cur = Ret (extracted neg d rest) -> 0 <= d < 10 ^ TOTAL.
Proof using HB HT HF.
  destruct cur as [|c cur]; [done|]. cbn [extract_unsigned].
  destruct (Z.ltb 9 (digit_of c)); [done|].
  destruct (extract_integer _ _ _ _ _) as [|[v r]] eqn:E; [done|].
  apply extract_integer_bound in E; [|pose proof (Z.pow_pos_nonneg 10 (TOTAL - FRACTION)); lia].
  pose proof total_max. pose proof total_split as Ht. pose proof fraction_pos.
  assert (Hw : 0 <= cast Base (v * 10 ^ FRACTION) < 10 ^ TOTAL).
  { rewrite unsigned_id by (done || nia). nia. }
  destruct r as [|ch r]; [intros G; injection G; intros; subst; exact Hw|].
  destruct (negb (FRACTION =? 0) && _); [|intros G; injection G; intros; subst; exact Hw].
  destruct (extract_fraction Base r v FRACTION) as [|[[w l] r']] eqn:Ef; [done|].
  apply extract_fraction_bound in Ef as [Hl Hw']; [|lia|lia].
  assert (Hp : 10 ^ TOTAL = 10 ^ (TOTAL - l) * 10 ^ l).
  { rewrite <- Z.pow_add_r by lia. f_equal. lia. }
  pose proof (Z.pow_pos_nonneg 10 l).
  destruct ((1 <? FRACTION) && (0 <? l)).
  - rewrite pow10_small by (apply HB || lia). cbn [obind].
    rewrite times_small by (apply HB || nia). intros G; injection G; intros; subst; nia.
  - intros G; injection G; intros; subst; nia.
Qed.

Lemma extract_unsigned_total neg cur : exists r, extract_unsigned Base TOTAL FRACTION neg cur = Ret r.
Proof using HB HT HF.
  destruct cur as [|c cur]; cbn [extract_unsigned]; [by eexists|].
  destruct (Z.ltb 9 (digit_of c)); [by eexists|].
  destruct (extract_integer _ _ _ _ _) as [|[v [|ch r]]] eqn:E; [by eexists..|].
  destruct (negb (FRACTION =? 0) && _); [|by eexists].
  apply extract_integer_bound in E; [|pose proof (Z.pow_pos_nonneg 10 (TOTAL - FRACTION)); lia].
  destruct (extract_fraction Base r v FRACTION) as [|[[w l] r']] eqn:Ef; [by eexists|].
  apply extract_fraction_bound in Ef as [Hl _]; [|lia|lia].
  destruct ((1 <? FRACTION) && (0 <? l)); [|by eexists].
  rewrite pow10_small by (apply HB || lia). unfold times. rewrite (proj2 HB). by eexists.
Qed.
End ExtractFacts.

(** ** Writing digits: facts *)

Lemma chars_app ds es : chars (ds ++ es) = chars ds ++ chars es.
Proof. apply map_app. Qed.

Lemma digits_of_pad j : forall n v, 0 <= v < 10 ^ Z.of_nat j ->
  digits_of (n + j) v = repeat 0 n ++ digits_of j v.
Proof.
  induction j as [|j IH]; intros n v Hv.
  - change (10 ^ Z.of_nat 0) with 1 in Hv. assert (v = 0) as -> by lia.
    rewrite Nat.add_0_r. simpl. rewrite app_nil_r. induction n as [|n IHn]; [done|].
    cbn [digits_of]. rewrite Z.div_0_l, IHn by lia. by rewrite <- repeat_cons.
  - rewrite Nat2Z.inj_succ, Z.pow_succ_r in Hv by lia.
    rewrite Nat.add_succ_r. cbn [digits_of]. rewrite IH by zlia. by rewrite app_assoc.
Qed.

Lemma digits_of_small n v : 0 <= v < 10 ^ Z.of_nat n -> num 0 (digits_of n v) = v.
Proof. intros H. rewrite num_digits_of by lia. apply Z.mod_small, H. Qed.
