(* ===== verification/SimpleDecimal.v ===== *)
(** * SimpleDecimal: fixed point numbers in one machine word

    Models the class [SimpleDecimal] of [src/Generics/SimpleDecimal.hpp] and
    [.tpp] for every base type and every number of digits its static assertions
    admit: a sign and an unsigned integer that counts units of the last
    fractional digit.  The theorems compare each operation with the arithmetic
    of the signed integer [value]. *)
From S2P Require Import Prelude IntStr CommonDecimal.
Local Open Scope Z_scope.
Local Open Scope outcome_scope.

(** The template arguments and the constants of [DecimalRanks]. *)
Record DecimalRanks : Type := { Base : IntegerType; TOTAL_RANK : Z; FRACTION_RANK : Z }.

Definition INTEGER_RANK (D : DecimalRanks) : Z := TOTAL_RANK D - FRACTION_RANK D.

(** The static assertions of [DecimalRanks], [DecimalBase] and
    [SimpleDecimalBase] ([CalcType] is [uint64_t]). *)
Definition static_asserts (D : DecimalRanks) : Prop :=
  unsigned (Base D) /\ 0 < TOTAL_RANK D /\ 0 <= FRACTION_RANK D <= TOTAL_RANK D /\
  TOTAL_RANK D <= digits10 (Base D).

(** A C++ object: its members. *)
Record SimpleDecimal : Type := { negative_ : bool; data_ : Z }.

#[export] Instance SimpleDecimal_eq_dec : EqDecision SimpleDecimal.
Proof. solve_decision. Defined.

Section Operations.
Context (D : DecimalRanks).

Definition MAX_VALUE_ : Z := 10 ^ TOTAL_RANK D.
Definition MAX_FRACTION_ : Z := 10 ^ FRACTION_RANK D.
Definition MAX_INTEGER_ : Z := 10 ^ INTEGER_RANK D.
Definition INVALID_FLAG_ : Z := max_ (Base D).

Definition is_set (x : SimpleDecimal) : bool := negb (data_ x =? INVALID_FLAG_).

(** Subtraction in the type the operands are promoted to. *)
Definition minus (a b : Z) : Z :=
  if digits (Base D) <? 32 then a - b else cast (Base D) (a - b).

(** ** Construction *)

Definition construct_parts (negative : bool) (integer fraction : Z) : outcome SimpleDecimal :=
  if exceeds fraction MAX_FRACTION_ then Throw (Overflow "fraction is not less than the maximum")
  else if exceeds integer MAX_INTEGER_ then Throw (Overflow "integer is not less than the maximum")
  else Ret {| negative_ := negative;
              data_ := cast (Base D) (cast (Base D) integer * MAX_FRACTION_ +
                                      cast (Base D) fraction) |}.

(** [construct_(integer, power)] once the sign is split off. *)
Definition construct_abs (Integer : IntegerType) (negative : bool) (integer power : Z)
  : outcome SimpleDecimal :=
  if power =? FRACTION_RANK D then
    if exceeds integer MAX_VALUE_ then Throw (Overflow "integer is not less than the maximum")
    else Ret {| negative_ := negative; data_ := cast (Base D) integer |}
  else if FRACTION_RANK D <? power then
    let* p := pow10 Integer (power - FRACTION_RANK D) in
    let integer := integer / p in
    if exceeds integer MAX_VALUE_ then Throw (Overflow "integer is not less than the maximum")
    else Ret {| negative_ := negative; data_ := cast (Base D) integer |}
  else
    let* mul := pow10 (Base D) (FRACTION_RANK D - power) in
    if exceeds integer (MAX_VALUE_ / mul)
    then Throw (Overflow "integer is not less than the maximum")
    else Ret {| negative_ := negative; data_ := cast (Base D) (cast (Base D) integer * mul) |}.

Definition construct_power (Integer : IntegerType) (integer power : Z) : outcome SimpleDecimal :=
  if (digits10 Integer + FRACTION_RANK D <=? power) || (integer =? 0)
  then Ret {| negative_ := false; data_ := 0 |}
  else
    let* (integer, negative) := split_sign Integer integer in
    construct_abs Integer negative integer power.

(** What [construct_(str)] makes of an extraction. *)
Definition construct_extracted (r : Extracted) : outcome SimpleDecimal :=
  if failbit r then Throw (Overflow (default ""%string (message r)))
  else
    match message r, number r with
    | Some what, _ => Throw (NotNumber what)
    | None, Some (data, negative) =>
      if eofbit r then Ret {| negative_ := negative; data_ := data |}
      else Throw (NotNumber "string contains non-digit character")
    | None, None => Undef
    end.

Definition construct_str (str : list Z) : outcome SimpleDecimal :=
  let* r := extract_decimal (Base D) (TOTAL_RANK D) (FRACTION_RANK D) str in
  construct_extracted r.

(** [SimpleDecimal()] and the constructor from a number [diff] of other ranks
    [E], at most as precise. *)
Definition SimpleDecimal_ : SimpleDecimal := {| negative_ := false; data_ := INVALID_FLAG_ |}.

Definition SimpleDecimal_diff (E : DecimalRanks) (diff : SimpleDecimal) : outcome SimpleDecimal :=
  let* x := construct_power (Base E) (data_ diff) (FRACTION_RANK E) in
  Ret {| negative_ := negative_ diff; data_ := data_ x |}.

Definition ZERO : outcome SimpleDecimal := construct_parts false 0 0.
Definition EPSILON : outcome SimpleDecimal :=
  construct_parts false (if FRACTION_RANK D =? 0 then 1 else 0)
    (if FRACTION_RANK D =? 0 then 0 else 1).
Definition MAXIMUM : outcome SimpleDecimal :=
  construct_parts false (MAX_INTEGER_ - 1) (MAX_FRACTION_ - 1).

(** ** Conversion *)

Definition SimpleDecimal_integer (ToInteger : IntegerType) (x : SimpleDecimal) : outcome Z :=
  guard (is_set x)
    (let int_part := data_ x / MAX_FRACTION_ in
     if max_ ToInteger <? int_part then Throw (Overflow "return type is too narrow")
     else if negative_ x && negb (int_part =? 0) && negb (is_signed ToInteger)
     then Throw (Sign "return type is unsigned but the value to return is negative")
     else Ret (if negative_ x then cast ToInteger (- cast ToInteger int_part)
               else cast ToInteger int_part)).

(** A buffer filled from its end: the room before the pointer and the
    characters from the pointer to the end; [push] is [*--buf = ch]. *)
Abbreviation buffer := (nat * list Z)%type.

Definition push (ch : Z) (buf : buffer) : outcome buffer :=
  match fst buf with
  | O => Undef
  | S room => Ret (room, ch :: snd buf)
  end.

(** [do ... while (!rest)]: drops the trailing zeros. *)
Fixpoint omit_zeros (fuel : nat) (fraction_part frac_index : Z) : outcome (Z * Z * Z) :=
  match fuel with
  | O => Undef
  | S fuel' =>
    let rest := fraction_part mod 10 in
    let fraction_part := fraction_part / 10 in
    let frac_index := frac_index + 1 in
    if rest =? 0 then omit_zeros fuel' fraction_part frac_index
    else Ret (rest, fraction_part, frac_index)
  end.

(** [while (fraction_part)] *)
Fixpoint put_fraction (fuel : nat) (fraction_part frac_index : Z) (buf : buffer)
  : outcome (Z * buffer) :=
  match fuel with
  | O => Undef
  | S fuel' =>
    if fraction_part =? 0 then Ret (frac_index, buf)
    else
      let* buf := push (fraction_part mod 10 + "0"%uchar) buf in
      put_fraction fuel' (fraction_part / 10) (frac_index + 1) buf
  end.

(** [for (; frac_index != FRACTION; ++frac_index)] *)
Fixpoint put_zeros (fuel : nat) (frac_index : Z) (buf : buffer) : outcome buffer :=
  match fuel with
  | O => Undef
  | S fuel' =>
    if frac_index =? FRACTION_RANK D then Ret buf
    else
      let* buf := push "0"%uchar buf in
      put_zeros fuel' (frac_index + 1) buf
  end.

(** [do ... while (elem)] *)
Fixpoint put_integer (fuel : nat) (elem : Z) (buf : buffer) : outcome buffer :=
  match fuel with
  | O => Undef
  | S fuel' =>
    let* buf := push (elem mod 10 + "0"%uchar) buf in
    let elem := elem / 10 in
    if elem =? 0 then Ret buf else put_integer fuel' elem buf
  end.

(** The block [if (FRACTION)]: the fraction, the point and the integer part. *)
Definition fraction_to_char (elem : Z) (buf : buffer) : outcome (Z * buffer) :=
  let fraction_part := elem mod MAX_FRACTION_ in
  let* buf :=
    if negb (fraction_part =? 0) then
      let* (rest, fraction_part, frac_index) := omit_zeros 20 fraction_part 0 in
      let* buf := push (rest + "0"%uchar) buf in
      let* (frac_index, buf) := put_fraction 20 fraction_part frac_index buf in
      put_zeros 20 frac_index buf
    else push "0"%uchar buf in
  let* buf := push "."%uchar buf in
  Ret (elem / MAX_FRACTION_, buf).

Definition decimal_to_char_ (x : SimpleDecimal) (buf : buffer) : outcome buffer :=
  guard (is_set x)
    (if data_ x =? 0 then
       let* buf := push "0"%uchar buf in
       if negb (FRACTION_RANK D =? 0) then
         let* buf := push "."%uchar buf in push "0"%uchar buf
       else Ret buf
     else
       let* (elem, buf) :=
         if negb (FRACTION_RANK D =? 0) then fraction_to_char (data_ x) buf
         else Ret (data_ x, buf) in
       let* buf := put_integer 20 elem buf in
       if negative_ x then push "-"%uchar buf else Ret buf).

(** [char buffer[TOTAL + 2]] *)
Definition str (x : SimpleDecimal) : outcome (list Z) :=
  let* buf := decimal_to_char_ x (Z.to_nat (TOTAL_RANK D + 2), []) in
  Ret (snd buf).

(** [memcpy] of an integer (little endian), and the byte of the sign. *)
Fixpoint le_bytes (n : nat) (v : Z) : list Z :=
  match n with
  | O => []
  | S n' => v mod 256 :: le_bytes n' (v / 256)
  end.

Fixpoint le_value (bs : list Z) : Z :=
  match bs with
  | [] => 0
  | b :: bs' => b + 256 * le_value bs'
  end.

Definition sizeof_data : nat := Z.to_nat (digits (Base D) / 8).

Definition pack (x : SimpleDecimal) : outcome (list Z) :=
  guard (is_set x)
    (Ret (le_bytes sizeof_data (data_ x) ++ [if negative_ x then 1 else 0])).

Definition unpack (buf : list Z) : outcome SimpleDecimal :=
  guard (sizeof_data <=? length buf)%nat
    (let* sign := rd buf sizeof_data in
     Ret {| negative_ := negb (sign =? 0); data_ := le_value (take sizeof_data buf) |}).

(** ** Operations on one number *)

Definition negate (x : SimpleDecimal) : outcome SimpleDecimal :=
  guard (is_set x) (Ret {| negative_ := negb (negative_ x); data_ := data_ x |}).

Definition with_data (x : SimpleDecimal) (data : Z) : SimpleDecimal :=
  {| negative_ := negative_ x; data_ := data |}.

Definition floor (fraction : Z) (x : SimpleDecimal) : outcome SimpleDecimal :=
  guard (is_set x)
    (if (FRACTION_RANK D <? fraction) || (fraction =? FRACTION_RANK D) then Ret x
     else
       let* pow := pow10 (Base D) (FRACTION_RANK D - fraction) in
       if negb (data_ x mod pow =? 0)
       then Ret (with_data x (cast (Base D) (data_ x / pow * pow)))
       else Ret x).

Definition ceil (fraction : Z) (x : SimpleDecimal) : outcome SimpleDecimal :=
  guard (is_set x)
    (if (FRACTION_RANK D <? fraction) || (fraction =? FRACTION_RANK D) then Ret x
     else
       let* pow := pow10 (Base D) (FRACTION_RANK D - fraction) in
       if negb (data_ x mod pow =? 0) then
         let data := cast (Base D) ((data_ x / pow + 1) * pow) in
         if data =? MAX_VALUE_ then Throw (Overflow "overflow while ceiling")
         else Ret (with_data x data)
       else Ret x).

Definition is_zero (x : SimpleDecimal) : outcome bool := guard (is_set x) (Ret (data_ x =? 0)).
Definition is_nonnegative (x : SimpleDecimal) : outcome bool :=
  guard (is_set x) (Ret (negb (negative_ x))).
Definition is_nonpositive (x : SimpleDecimal) : outcome bool :=
  guard (is_set x) (Ret (negative_ x)).

(** ** Comparison *)

Definition equal (x test : SimpleDecimal) : outcome bool :=
  guard (is_set x && is_set test)
    (Ret (if eqb (negative_ x) (negative_ test) then data_ x =? data_ test
          else (data_ x =? 0) && (data_ test =? 0))).

Definition less (x test : SimpleDecimal) : outcome bool :=
  guard (is_set x && is_set test)
    (Ret (if negative_ x then
            if negative_ test then data_ test <? data_ x
            else negb (data_ x =? 0) || negb (data_ test =? 0)
          else negb (negative_ test) && (data_ x <? data_ test))).

Definition not_equal (x test : SimpleDecimal) : outcome bool :=
  let* b := equal x test in Ret (negb b).
Definition greater (x test : SimpleDecimal) : outcome bool := less test x.
Definition greater_equal (x test : SimpleDecimal) : outcome bool :=
  let* b := less x test in Ret (negb b).
Definition less_equal (x test : SimpleDecimal) : outcome bool :=
  let* b := less test x in Ret (negb b).

(** ** Arithmetic *)

(** Results are what [target] holds afterwards; it may be one of the operands,
    whose members are read before they are written. *)
Definition add (summand1 summand2 : SimpleDecimal) : outcome SimpleDecimal :=
  guard (is_set summand1 && is_set summand2)
    (if eqb (negative_ summand1) (negative_ summand2) then
       if minus MAX_VALUE_ (data_ summand1) <=? data_ summand2
       then Throw (Overflow "overflow summing")
       else Ret {| negative_ := negative_ summand1;
                   data_ := cast (Base D) (data_ summand1 + data_ summand2) |}
     else if data_ summand1 <? data_ summand2 then
       Ret {| negative_ := negative_ summand2;
              data_ := cast (Base D) (data_ summand2 - data_ summand1) |}
     else
       Ret {| negative_ := negative_ summand1;
              data_ := cast (Base D) (data_ summand1 - data_ summand2) |}).

Definition sub (minuend subtrahend : SimpleDecimal) : outcome SimpleDecimal :=
  guard (is_set minuend && is_set subtrahend)
    (if negb (eqb (negative_ minuend) (negative_ subtrahend)) then
       if minus MAX_VALUE_ (data_ minuend) <=? data_ subtrahend
       then Throw (Overflow "overflow subtracting")
       else Ret {| negative_ := negative_ minuend;
                   data_ := cast (Base D) (data_ minuend + data_ subtrahend) |}
     else if data_ minuend <? data_ subtrahend then
       Ret {| negative_ := negb (negative_ subtrahend);
              data_ := cast (Base D) (data_ subtrahend - data_ minuend) |}
     else
       Ret {| negative_ := negative_ minuend;
              data_ := cast (Base D) (data_ minuend - data_ subtrahend) |}).

Definition rounds_up (dmr : DecimalMulRemainder) (rem : Z) : bool :=
  match dmr with
  | DMR_FLOOR => false
  | DMR_ROUND => negb (FRACTION_RANK D =? 0) && (MAX_FRACTION_ / 2 <=? rem)
  | DMR_CEIL => negb (FRACTION_RANK D =? 0) && negb (rem =? 0)
  end.

Definition mul (factor1 factor2 : SimpleDecimal) (dmr : DecimalMulRemainder)
  : outcome SimpleDecimal :=
  guard (is_set factor1 && is_set factor2)
    (let '(res, rem, over) := muldiv (data_ factor1) (data_ factor2) MAX_FRACTION_ in
     if over || (MAX_VALUE_ <=? res) then Throw (Overflow "overflow multiplying")
     else
       let* res :=
         if rounds_up dmr rem then
           let res := u64 (res + 1) in
           if res =? MAX_VALUE_
           then Throw (Overflow "overflow incrementing after multiplication")
           else Ret res
         else Ret res in
       Ret {| negative_ := xorb (negative_ factor1) (negative_ factor2);
              data_ := cast (Base D) res |}).

Definition div_ (dividend divisor : SimpleDecimal) (ddr : DecimalDivRemainder)
  : outcome SimpleDecimal :=
  guard (is_set dividend && is_set divisor)
    (if data_ divisor =? 0 then Throw (Overflow "division by zero")
     else
       let '(quot, rem, over) := muldiv (data_ dividend) MAX_FRACTION_ (data_ divisor) in
       if over || (MAX_VALUE_ <=? quot) then Throw (Overflow "overflow dividing")
       else
         let* quot :=
           if bool_decide (ddr = DDR_CEIL) && negb (rem =? 0) then
             let quot := u64 (quot + 1) in
             if quot =? MAX_VALUE_ then Throw (Overflow "overflow increment after division")
             else Ret quot
           else Ret quot in
         Ret {| negative_ := xorb (negative_ dividend) (negative_ divisor);
                data_ := cast (Base D) quot |}).

(** The quotient and the remainder. *)
Definition div_remainder (dividend divisor : SimpleDecimal)
  : outcome (SimpleDecimal * SimpleDecimal) :=
  let* quotient := div_ dividend divisor DDR_FLOOR in
  let* product := mul quotient divisor DMR_FLOOR in
  let* remainder := sub dividend product in
  Ret (quotient, remainder).

Definition div (dividend divisor : SimpleDecimal) (ddr : DecimalDivRemainder)
  : outcome SimpleDecimal := div_ dividend divisor ddr.
End Operations.

(** ** Specification *)

(** The number of units of the last digit. *)
Definition value (x : SimpleDecimal) : Z := if negative_ x then - data_ x else data_ x.

(** A quotient rounded as the remainder mode says. *)
Definition rounded (dmr : DecimalMulRemainder) (a b : Z) : Z :=
  match dmr with
  | DMR_FLOOR => a / b
  | DMR_ROUND => (2 * a + b) / (2 * b)
  | DMR_CEIL => (a + b - 1) / b
  end.

Definition ddr_mode (ddr : DecimalDivRemainder) : DecimalMulRemainder :=
  match ddr with
  | DDR_FLOOR => DMR_FLOOR
  | DDR_CEIL => DMR_CEIL
  end.

Definition valid (D : DecimalRanks) (x : SimpleDecimal) : Prop := 0 <= data_ x < MAX_VALUE_ D.

(** The call returns the number [z] if it has few enough digits and throws
    [Overflow] otherwise. *)
Definition represents (D : DecimalRanks) (r : outcome SimpleDecimal) (z : Z) : Prop :=
  if Z.abs z <? MAX_VALUE_ D then exists x, r = Ret x /\ valid D x /\ value x = z
  else exists what, r = Throw (Overflow what).

#[export] Instance valid_dec D x : Decision (valid D x).
Proof. unfold valid. apply _. Defined.

(** Rounding as the code does it, from the quotient and the remainder. *)
Lemma rounded_spec dmr a b : 0 < b ->
  rounded dmr a b = a / b +
    match dmr with
    | DMR_FLOOR => 0
    | DMR_ROUND => if b <=? 2 * (a mod b) then 1 else 0
    | DMR_CEIL => if a mod b =? 0 then 0 else 1
    end.
Proof.
  intros Hb. pose proof (Z.div_mod a b ltac:(lia)) as E. pose proof (Z.mod_pos_bound a b Hb).
  destruct dmr; unfold rounded; [lia|..].
  - symmetry. case_Z.
    + apply (Z.div_unique _ _ _ (2 * (a mod b) - b)); lia.
    + apply (Z.div_unique _ _ _ (2 * (a mod b) + b)); lia.
  - symmetry. case_Z.
    + apply (Z.div_unique _ _ _ (b - 1)); lia.
    + apply (Z.div_unique _ _ _ (a mod b - 1)); lia.
Qed.

Lemma sgn_value x d : 0 <= data_ x -> (data_ x = 0 -> d = 0) ->
  Z.sgn (value x) * d = if negative_ x then - d else d.
Proof.
  intros Hx Hd. unfold value. destruct (Z.eq_dec (data_ x) 0) as [E|E].
  - rewrite (Hd E), E. by destruct (negative_ x).
  - destruct (negative_ x); [rewrite Z.sgn_opp|]; rewrite (Z.sgn_pos (data_ x)) by lia; lia.
Qed.

Lemma sgn_mul n1 n2 d1 d2 q : 0 <= d1 -> 0 <= d2 -> (d1 * d2 = 0 -> q = 0) ->
  Z.sgn (value {| negative_ := n1; data_ := d1 |} * value {| negative_ := n2; data_ := d2 |}) * q =
    if xorb n1 n2 then - q else q.
Proof.
  intros H1 H2 Hq. unfold value. cbn [negative_ data_].
  destruct (Z.eq_dec (d1 * d2) 0) as [E|E].
  - rewrite Hq by done. destruct (xorb n1 n2); lia.
  - assert (0 < d1 * d2) by nia.
    destruct n1, n2; cbn [xorb]; rewrite ?Z.mul_opp_opp, ?Z.mul_opp_l, ?Z.mul_opp_r, ?Z.sgn_opp;
      rewrite (Z.sgn_pos (d1 * d2)) by done; lia.
Qed.

(** The remainder a rounded quotient and a rounded product leave. *)
Lemma remainder_bounds a b M : 0 <= a -> 0 < b -> 0 < M ->
  let Q := a * M / b in let P := Q * b / M in
  (0 <= Q /\ (a = 0 -> Q = 0)) /\ 0 <= P <= a /\ (a - P) * M < b + M.
Proof.
  intros Ha Hb HM Q P. assert (HQ0 : 0 <= Q) by (apply Z.div_pos; nia).
  assert (HQ : b * Q <= a * M < b * Q + b).
  { unfold Q. pose proof (Z.mul_div_le (a * M) b). pose proof (Z.mul_succ_div_gt (a * M) b). lia. }
  assert (HP : M * P <= Q * b < M * P + M).
  { unfold P. pose proof (Z.mul_div_le (Q * b) M). pose proof (Z.mul_succ_div_gt (Q * b) M). lia. }
  split; [split; [done|]|].
  { intros ->. unfold Q. by rewrite Z.mul_0_l, Z.div_0_l by lia. }
  split; [split|]; [apply Z.div_pos; nia|nia|lia].
Qed.

Lemma sgn_scale x p : 0 <= p -> Z.abs (Z.sgn x * p) <= p.
Proof. destruct (Z.sgn_spec x) as [[_ ->]|[[_ ->]|[_ ->]]]; lia. Qed.

Lemma sgn_product x y Q P : y <> 0 -> 0 <= Q -> (Q = 0 -> P = 0) ->
  Z.sgn (Z.sgn (x * y) * Q * y) * P = Z.sgn x * P.
Proof.
  intros Hy HQ HP. destruct (Z.eq_dec Q 0) as [E|E]; [rewrite (HP E); lia|]. f_equal.
  rewrite !Z.sgn_mul, !Z.sgn_sgn, (Z.sgn_pos Q) by lia.
  destruct (Z.sgn_spec y) as [[_ ->]|[[? _]|[_ ->]]]; lia.
Qed.

Section Facts.
Context (D : DecimalRanks) (HD : static_asserts D).

Lemma base_unsigned : unsigned (Base D).
Proof using HD. apply HD. Qed.

Lemma base_integer : integer (Base D).
Proof using HD. apply base_unsigned. Qed.

Lemma max_value : MAX_VALUE_ D <= max_ (Base D) < 2 ^ 64.
Proof using HD.
  destruct HD as (HB & _ & HF & HT). split; [|apply max_u64, HB].
  apply (total_max (Base D) _ (FRACTION_RANK D)); (done || lia).
Qed.

Lemma max_value_split : MAX_VALUE_ D = MAX_INTEGER_ D * MAX_FRACTION_ D.
Proof using HD. apply total_split. apply HD. Qed.

Lemma max_fraction : 1 <= MAX_FRACTION_ D.
Proof using HD. apply (fraction_pos (TOTAL_RANK D)). apply HD. Qed.

Lemma max_integer : 1 <= MAX_INTEGER_ D.
Proof using HD.
  unfold MAX_INTEGER_, INTEGER_RANK. destruct HD as (_ & _ & HF & _).
  pose proof (Z.pow_pos_nonneg 10 (TOTAL_RANK D - FRACTION_RANK D)). lia.
Qed.

Lemma valid_set x : valid D x -> is_set D x = true.
Proof using HD.
  unfold valid, is_set, INVALID_FLAG_. pose proof max_value. intros Hx. by decide_Z.
Qed.

Lemma base_cast z : 0 <= z <= MAX_VALUE_ D -> cast (Base D) z = z.
Proof using HD.
  pose proof max_value. intros Hz. apply unsigned_id; [exact base_unsigned|lia].
Qed.

Lemma minus_max x : valid D x -> minus D (MAX_VALUE_ D) (data_ x) = MAX_VALUE_ D - data_ x.
Proof using HD.
  unfold valid, minus. intros H. destruct (digits (Base D) <? 32); [done|]. apply base_cast. lia.
Qed.

(** The common shape of the results. *)
Lemma represents_ret (n : bool) d z : 0 <= d < MAX_VALUE_ D -> z = (if n then - d else d) ->
  represents D (Ret {| negative_ := n; data_ := cast (Base D) d |}) z.
Proof using HD.
  intros H ->. unfold represents. rewrite base_cast by lia.
  replace (Z.abs _) with d by (destruct n; lia). decide_Z. by eexists.
Qed.

Lemma represents_throw what z : MAX_VALUE_ D <= Z.abs z -> represents D (Throw (Overflow what)) z.
Proof using. intros H. unfold represents. decide_Z. by eexists. Qed.

Lemma add_represents x y : valid D x -> valid D y -> represents D (add D x y) (value x + value y).
Proof using HD.
  intros Hx Hy. unfold add. rewrite !valid_set, minus_max by done. cbn [andb guard].
  destruct x as [n1 d1], y as [n2 d2]. unfold valid, value in *. cbn [negative_ data_] in *.
  destruct (Bool.eqb n1 n2) eqn:E.
  - apply eqb_prop in E as <-. case_Z.
    + apply represents_throw. destruct n1; lia.
    + apply represents_ret; [lia|]. destruct n1; lia.
  - case_Z; (apply represents_ret; [lia|]); destruct n1, n2; done || lia.
Qed.

(** [sub] is [add] of the opposite, up to the text of the exception. *)
Lemma sub_add x y :
  match sub D x y, add D x {| negative_ := negb (negative_ y); data_ := data_ y |} with
  | Ret a, Ret b => a = b
  | Throw (Overflow _), Throw (Overflow _) => True
  | Undef, Undef => True
  | _, _ => False
  end.
Proof using.
  unfold sub, add, is_set, minus. cbn [negative_ data_].
  destruct (negb (data_ x =? _)), (negb (data_ y =? _)); cbn [andb guard]; [|done..].
  destruct (negative_ x), (negative_ y); cbn [Bool.eqb negb]; repeat case_Z; done.
Qed.

Lemma sub_represents x y : valid D x -> valid D y -> represents D (sub D x y) (value x - value y).
Proof using HD.
  intros Hx Hy. set (y' := {| negative_ := negb (negative_ y); data_ := data_ y |}).
  assert (Hy' : valid D y') by done.
  assert (Hv : value x - value y = value x + value y').
  { unfold value. subst y'. simpl. destruct (negative_ y); simpl; lia. }
  pose proof (add_represents x y' Hx Hy') as Ha. pose proof (sub_add x y) as E. fold y' in E.
  rewrite Hv. unfold represents in *.
  destruct (Z.abs (value x + value y') <? MAX_VALUE_ D).
  - destruct Ha as (z & Ez & Hz). rewrite Ez in E. destruct (sub D x y) as [z'|[]|]; try done.
    subst z'. by exists z.
  - destruct Ha as (what & Ez). rewrite Ez in E. destruct (sub D x y) as [z'|[]|]; try done.
    by eexists.
Qed.

(** The end of [mul] and [div_]: the quotient is incremented if [up]. *)
Lemma increment_represents (up : bool) what q (n : bool) z : 0 <= q < MAX_VALUE_ D ->
  z = (if n then - (q + Z.b2z up) else q + Z.b2z up) ->
  represents D
    (let* res :=
       if up then
         let res := u64 (q + 1) in
         if res =? MAX_VALUE_ D then Throw (Overflow what) else Ret res
       else Ret q in
     Ret {| negative_ := n; data_ := cast (Base D) res |}) z.
Proof using HD.
  intros Hq ->. pose proof max_value. destruct up; cbn [Z.b2z].
  - unfold u64. rewrite Z.mod_small by lia. case_Z; cbn [obind].
    + apply represents_throw. destruct n; lia.
    + apply represents_ret; [lia|]. by destruct n.
  - apply represents_ret; [lia|]. destruct n; lia.
Qed.

Lemma rounds_up_spec dmr a : 0 <= a ->
  rounded dmr a (MAX_FRACTION_ D) =
    a / MAX_FRACTION_ D + Z.b2z (rounds_up D dmr (a mod MAX_FRACTION_ D)).
Proof using HD.
  intros Ha. pose proof max_fraction. rewrite rounded_spec by lia. f_equal.
  pose proof (Z.mod_pos_bound a (MAX_FRACTION_ D) ltac:(lia)).
  destruct dmr; cbn [rounds_up]; [done|..].
  - destruct (Z.eqb_spec (FRACTION_RANK D) 0) as [E|E]; cbn [negb andb].
    + assert (MAX_FRACTION_ D = 1) by (unfold MAX_FRACTION_; by rewrite E). decide_Z. done.
    + assert (Ev : MAX_FRACTION_ D = 2 * (5 * 10 ^ (FRACTION_RANK D - 1))).
      { unfold MAX_FRACTION_. destruct HD as (_ & _ & ? & _).
        replace (FRACTION_RANK D) with (1 + (FRACTION_RANK D - 1)) at 1 by lia.
        rewrite Z.pow_add_r by lia. change (10 ^ 1) with 10. ring. }
      rewrite Ev at 3. rewrite (Z.mul_comm 2 (5 * _)), Z.div_mul by lia. repeat case_Z; cbn; lia.
  - destruct (Z.eqb_spec (FRACTION_RANK D) 0) as [E|E]; cbn [negb andb]; [|by case_Z].
    assert (MAX_FRACTION_ D = 1) by (unfold MAX_FRACTION_; by rewrite E). by decide_Z.
Qed.

Lemma rounded_mono dmr a b : 0 < b -> a / b <= rounded dmr a b.
Proof using. intros Hb. rewrite rounded_spec by done. destruct dmr; repeat case_Z; lia. Qed.

Lemma rounded_0 dmr b : 0 < b -> rounded dmr 0 b = 0.
Proof using.
  intros Hb. rewrite rounded_spec, Z.div_0_l, Z.mod_0_l by lia. by destruct dmr; decide_Z.
Qed.

Lemma mul_represents x y dmr : valid D x -> valid D y ->
  represents D (mul D x y dmr)
    (Z.sgn (value x * value y) * rounded dmr (data_ x * data_ y) (MAX_FRACTION_ D)).
Proof using HD.
  intros Hx Hy. unfold mul. rewrite !valid_set by done. cbn [andb guard].
  destruct x as [n1 d1], y as [n2 d2]. unfold valid in *. cbn [negative_ data_] in *.
  pose proof max_fraction as HF. pose proof (muldiv_spec d1 d2 (MAX_FRACTION_ D)) as Hm.
  pose proof max_value. pose proof (rounded_mono dmr (d1 * d2) (MAX_FRACTION_ D)).
  rewrite sgn_mul; [|lia|lia|intros ->; apply rounded_0; lia].
  destruct (muldiv _ _ _) as [[res rem] over]. specialize (Hm ltac:(lia) ltac:(lia) ltac:(lia)).
  destruct over; cbn [orb].
  - apply represents_throw. destruct (xorb n1 n2); lia.
  - destruct Hm as (-> & -> & _). destruct (Z.leb_spec (MAX_VALUE_ D) (d1 * d2 / MAX_FRACTION_ D)).
    + apply represents_throw. destruct (xorb n1 n2); lia.
    + apply increment_represents; [split; [apply Z.div_pos; nia|done]|].
      by rewrite rounds_up_spec by nia.
Qed.

Lemma div_represents x y ddr : valid D x -> valid D y -> value y <> 0 ->
  represents D (div_ D x y ddr)
    (Z.sgn (value x * value y) * rounded (ddr_mode ddr) (data_ x * MAX_FRACTION_ D) (data_ y)).
Proof using HD.
  intros Hx Hy Hy0. unfold div_. rewrite !valid_set by done. cbn [andb guard].
  destruct x as [n1 d1], y as [n2 d2]. unfold valid in *. cbn [negative_ data_] in *.
  assert (0 < d2) by (unfold value in Hy0; destruct n2; simpl in Hy0; lia). decide_Z.
  pose proof max_fraction as HF. pose proof (muldiv_spec d1 (MAX_FRACTION_ D) d2) as Hm.
  pose proof max_value. pose proof (rounded_mono (ddr_mode ddr) (d1 * MAX_FRACTION_ D) d2).
  rewrite sgn_mul; [|lia|lia|intros E; assert (d1 = 0) as -> by nia; apply rounded_0; lia].
  destruct (muldiv _ _ _) as [[quot rem] over]. specialize (Hm ltac:(lia) ltac:(lia) ltac:(lia)).
  destruct over; cbn [orb].
  - apply represents_throw. destruct (xorb n1 n2); lia.
  - destruct Hm as (-> & -> & _). destruct (Z.leb_spec (MAX_VALUE_ D) (d1 * MAX_FRACTION_ D / d2)).
    + apply represents_throw. destruct (xorb n1 n2); lia.
    + apply increment_represents; [split; [apply Z.div_pos; nia|done]|].
      rewrite rounded_spec by done. destruct ddr; cbn [ddr_mode bool_decide]; [done|].
      by case_Z.
Qed.

Lemma value_abs x : valid D x -> Z.abs (value x) = data_ x.
Proof using. unfold valid, value. destruct (negative_ x); lia. Qed.

Lemma represents_inv r z x : represents D r z -> r = Ret x -> valid D x /\ value x = z.
Proof using.
  unfold represents. intros H ->. destruct (Z.abs z <? MAX_VALUE_ D).
  - destruct H as (x' & E & H). by injection E as <-.
  - by destruct H.
Qed.

Lemma represents_fits r z : represents D r z -> Z.abs z < MAX_VALUE_ D ->
  exists x, r = Ret x /\ valid D x /\ value x = z.
Proof using. unfold represents. intros H Hz. by rewrite (proj2 (Z.ltb_lt _ _) Hz) in H. Qed.

Lemma div_zero x y ddr : valid D x -> valid D y -> value y = 0 ->
  div_ D x y ddr = Throw (Overflow "division by zero").
Proof using HD.
  intros Hx Hy E. unfold div_. rewrite !valid_set by done. cbn [andb guard].
  pose proof (value_abs y Hy). by decide_Z.
Qed.

Lemma div_remainder_value x y q : valid D x -> valid D y -> div_ D x y DDR_FLOOR = Ret q ->
  exists r p, mul D q y DMR_FLOOR = Ret p /\ div_remainder D x y = Ret (q, r) /\
    valid D r /\ value x = value p + value r /\
    0 <= Z.sgn (value x) * value r /\
    Z.abs (value r) * MAX_FRACTION_ D < Z.abs (value y) + MAX_FRACTION_ D.
Proof using HD.
  intros Hx Hy Hq. assert (Hy0 : value y <> 0) by (intros E; by rewrite div_zero in Hq).
  destruct (represents_inv _ _ _ (div_represents x y DDR_FLOOR Hx Hy Hy0) Hq) as [Vq Eq].
  pose proof (value_abs x Hx) as Ax. pose proof (value_abs y Hy) as Ay.
  pose proof (value_abs q Vq) as Aq. pose proof (mul_represents q y DMR_FLOOR Vq Hy) as Hm.
  cbn [rounded ddr_mode] in *.
  destruct (remainder_bounds (data_ x) (data_ y) (MAX_FRACTION_ D)) as (HQ & HP & Hr);
    [apply Hx|lia|pose proof max_fraction; lia|].
  set (Q := data_ x * MAX_FRACTION_ D / data_ y) in *.
  assert (EQ : data_ q = Q). {
    rewrite <- Aq, Eq, Z.abs_mul. destruct (Z.eq_dec (data_ x) 0) as [E|E]; [lia|].
    assert (value x * value y <> 0) by (apply Z.neq_mul_0; lia).
    destruct (Z.sgn_spec (value x * value y)) as [[_ ->]|[[? _]|[_ ->]]]; lia. }
  rewrite EQ in Hm. set (P := Q * data_ y / MAX_FRACTION_ D) in *.
  assert (Ep : Z.sgn (value q * value y) * P = Z.sgn (value x) * P).
  { rewrite Eq. apply sgn_product; [lia|lia|]. intros EQ0. unfold P. by rewrite EQ0. }
  unfold valid in Hx. rewrite Ep in Hm. apply represents_fits in Hm as (p & Hp & Vp & Vep);
    [|pose proof (sgn_scale (value x) P); lia].
  assert (Er : value x - value p = Z.sgn (value x) * (data_ x - P)).
  { by rewrite Vep, Z.mul_sub_distr_l, <- Ax, (Z.mul_comm _ (Z.abs _)), Z.abs_sgn. }
  pose proof (sub_represents x p ltac:(done) Vp) as Hs. rewrite Er in Hs.
  apply represents_fits in Hs as (r & Hs & Vr & Ver);
    [|pose proof (sgn_scale (value x) (data_ x - P)); lia].
  exists r, p. split; [done|]. split.
  { unfold div_remainder. rewrite Hq. cbn [obind]. rewrite Hp. cbn [obind]. by rewrite Hs. }
  split; [done|]. split; [lia|]. rewrite Ver. split.
  - destruct (Z.sgn_spec (value x)) as [[_ ->]|[[_ ->]|[_ ->]]]; lia.
  - pose proof (sgn_scale (value x) (data_ x - P) ltac:(lia)). pose proof max_fraction. nia.
Qed.

Lemma div_valid x y ddr q : valid D x -> valid D y -> div_ D x y ddr = Ret q -> valid D q.
Proof using HD.
  intros Hx Hy Hq. destruct (Z.eq_dec (value y) 0) as [E|E].
  - by rewrite div_zero in Hq.
  - exact (proj1 (represents_inv _ _ _ (div_represents _ _ _ Hx Hy E) Hq)).
Qed.

(** *** Text *)

Lemma push_ok c n text : push c (S n, text) = Ret (n, c :: text).
Proof using. done. Qed.

Lemma omit_zeros_spec fuel : forall v idx, 0 < v < 10 ^ Z.of_nat fuel -> exists k rest fp,
  omit_zeros fuel v idx = Ret (rest, fp, idx + 1 + Z.of_nat k) /\
  v = (fp * 10 + rest) * 10 ^ Z.of_nat k /\ 0 < rest < 10 /\ 0 <= fp.
Proof using.
  induction fuel as [|fuel IH]; intros v idx Hv.
  { change (10 ^ Z.of_nat 0) with 1 in Hv. lia. }
  rewrite Nat2Z.inj_succ, Z.pow_succ_r in Hv by lia. cbn [omit_zeros].
  pose proof (Z.div_mod v 10 ltac:(lia)). pose proof (Z.mod_pos_bound v 10 ltac:(lia)).
  destruct (Z.eqb_spec (v mod 10) 0) as [E|E].
  - destruct (IH (v / 10) (idx + 1)) as (k & rest & fp & Eo & Ev & Hr & Hf); [lia|].
    exists (S k), rest, fp. rewrite Eo. split; [do 2 f_equal; lia|].
    split; [|done]. rewrite Nat2Z.inj_succ, Z.pow_succ_r by lia. lia.
  - exists O, (v mod 10), (v / 10). change (10 ^ Z.of_nat 0) with 1.
    split; [do 2 f_equal; lia|]. lia.
Qed.

Lemma put_fraction_spec fuel : forall n v idx room text,
  0 <= v < 10 ^ Z.of_nat n -> (n < fuel)%nat -> (n <= room)%nat -> exists j,
  (j <= n)%nat /\ v < 10 ^ Z.of_nat j /\
  put_fraction fuel v idx (room, text) =
    Ret (idx + Z.of_nat j, ((room - j)%nat, chars (digits_of j v) ++ text)).
Proof using.
  induction fuel as [|fuel IH]; intros n v idx room text Hv Hf Hr; [lia|].
  cbn [put_fraction]. destruct (Z.eqb_spec v 0) as [->|E].
  { exists O. change (10 ^ Z.of_nat 0) with 1. split; [lia|]. split; [lia|].
    rewrite Nat.sub_0_r, Z.add_0_r. done. }
  destruct n as [|n]; [change (10 ^ Z.of_nat 0) with 1 in Hv; lia|].
  destruct room as [|room]; [lia|]. rewrite push_ok. cbn [obind].
  rewrite Nat2Z.inj_succ, Z.pow_succ_r in Hv by lia.
  destruct (IH n (v / 10) (idx + 1) room (v mod 10 + "0"%uchar :: text)) as (j & Hj & Hvj & ->);
    [zlia|lia|lia|].
  exists (S j). split; [lia|]. rewrite Nat2Z.inj_succ, Z.pow_succ_r by lia. split; [zlia|].
  cbn [digits_of]. rewrite chars_app, <- app_assoc. cbn [Nat.sub chars map app].
  do 2 f_equal. lia.
Qed.

Lemma put_zeros_spec n : forall fuel idx room text, idx + Z.of_nat n = FRACTION_RANK D ->
  (n < fuel)%nat -> (n <= room)%nat ->
  put_zeros D fuel idx (room, text) = Ret ((room - n)%nat, chars (repeat 0 n) ++ text).
Proof using.
  induction n as [|n IH]; intros fuel idx room text Hn Hf Hr; (destruct fuel as [|fuel]; [lia|]);
    cbn [put_zeros].
  - decide_Z. by rewrite Nat.sub_0_r.
  - decide_Z. destruct room as [|room]; [lia|]. rewrite push_ok. cbn [obind].
    rewrite IH by lia. cbn [Nat.sub]. f_equal. f_equal. cbn [repeat]. rewrite repeat_cons, chars_app.
    by rewrite <- app_assoc.
Qed.

Lemma put_integer_spec fuel : forall n v room text,
  0 <= v < 10 ^ Z.of_nat (S n) -> (n < fuel)%nat -> (n < room)%nat -> exists j,
  (j <= n)%nat /\ v < 10 ^ Z.of_nat (S j) /\
  put_integer fuel v (room, text) =
    Ret ((room - S j)%nat, chars (digits_of (S j) v) ++ text).
Proof using.
  induction fuel as [|fuel IH]; intros n v room text Hv Hf Hr; [lia|].
  rewrite Nat2Z.inj_succ, Z.pow_succ_r in Hv by lia.
  cbn [put_integer]. destruct room as [|room]; [lia|]. rewrite push_ok. cbn [obind].
  destruct (Z.eqb_spec (v / 10) 0) as [E|E].
  { exists O. split; [lia|]. split; [change (10 ^ Z.of_nat 1) with 10; zlia|].
    cbn [Nat.sub]. by rewrite Nat.sub_0_r. }
  destruct n as [|n]; [change (10 ^ Z.of_nat 0) with 1 in Hv; zlia|].
  destruct (IH n (v / 10) room (v mod 10 + "0"%uchar :: text)) as (j & Hj & Hvj & ->);
    [zlia|lia|lia|].
  exists (S j). split; [lia|]. rewrite (Nat2Z.inj_succ (S j)), Z.pow_succ_r by lia. split; [zlia|].
  cbn [digits_of]. rewrite !chars_app, <- !app_assoc. done.
Qed.

(** The digits of a fraction, without trailing zeros. *)
Lemma put_fraction_part f room text : 0 < f < MAX_FRACTION_ D ->
  FRACTION_RANK D <= Z.of_nat room -> exists ds used,
  (let* (rest, fraction_part, frac_index) := omit_zeros 20 f 0 in
   let* buf := push (rest + "0"%uchar) (room, text) in
   let* (frac_index, buf) := put_fraction 20 fraction_part frac_index buf in
   put_zeros D 20 frac_index buf) = Ret ((room - used)%nat, chars ds ++ text) /\
  digit_list ds /\ (0 < length ds)%nat /\ Z.of_nat used <= FRACTION_RANK D /\
  Z.of_nat (length ds) <= FRACTION_RANK D /\
  num 0 ds * 10 ^ (FRACTION_RANK D - Z.of_nat (length ds)) = f.
Proof using HD.
  intros Hf Hroom. unfold MAX_FRACTION_ in Hf.
  assert (HF : 0 <= FRACTION_RANK D <= 19).
  { destruct HD as (HB & _ & ? & ?). pose proof (digits10_le _ (proj1 HB)). lia. }
  pose proof (Z.pow_lt_mono_r 10 (FRACTION_RANK D) 20 ltac:(lia) ltac:(lia) ltac:(lia)).
  destruct (omit_zeros_spec 20 f 0) as (k & rest & fp & -> & Ef & Hrest & Hfp); [split; [lia|]|].
  { change (Z.of_nat 20) with 20. lia. }
  cbn [obind]. assert (Hk : Z.of_nat k < FRACTION_RANK D).
  { apply (Z.pow_lt_mono_r_iff 10); [lia|lia|].
    pose proof (Z.pow_pos_nonneg 10 (Z.of_nat k)). nia. }
  set (n := (Z.to_nat (FRACTION_RANK D) - 1 - k)%nat).
  assert (Hn : FRACTION_RANK D = Z.of_nat k + (Z.of_nat n + 1)) by lia.
  assert (Hfn : fp < 10 ^ Z.of_nat n).
  { rewrite Hn, !Z.pow_add_r in Hf by lia. change (10 ^ 1) with 10 in Hf.
    pose proof (Z.pow_pos_nonneg 10 (Z.of_nat k)). nia. }
  destruct room as [|room]; [lia|]. rewrite push_ok. cbn [obind].
  destruct (put_fraction_spec 20 n fp (0 + 1 + Z.of_nat k) room (rest + "0"%uchar :: text))
    as (j & Hj & Hfj & ->); [lia|lia|lia|].
  cbn [obind]. rewrite (put_zeros_spec (n - j)) by lia.
  exists (digits_of n fp ++ [rest]), (S n). split.
  { f_equal. f_equal; [lia|]. rewrite app_assoc, <- chars_app, <- digits_of_pad by lia.
    replace (n - j + j)%nat with n by lia. by rewrite chars_app, <- app_assoc. }
  rewrite length_app, digits_of_length, num_app, digits_of_small by lia. cbn [num length].
  split; [apply Forall_app; split; [apply digits_of_ok|repeat constructor; lia]|].
  split; [lia|]. split; [lia|]. split; [lia|]. rewrite Ef. f_equal. f_equal. lia.
Qed.

(** The digits after the point: the fractional part of a number. *)
Definition fraction_of (fp : option (list Z)) (f : Z) : Prop :=
  digit_list (fraction_digits fp) /\ fp <> Some [] /\ (is_Some fp -> 0 < FRACTION_RANK D) /\
  Z.of_nat (length (fraction_digits fp)) <= FRACTION_RANK D /\
  num 0 (fraction_digits fp) * 10 ^ (FRACTION_RANK D - Z.of_nat (length (fraction_digits fp))) = f.

Lemma fraction_to_char_spec v room : 0 <= v -> 0 <= FRACTION_RANK D < Z.of_nat room ->
  exists fp used,
  (if negb (FRACTION_RANK D =? 0) then fraction_to_char D v (room, []) else Ret (v, (room, []))) =
    Ret (v / MAX_FRACTION_ D, ((room - used)%nat, fraction_text fp)) /\
  Z.of_nat used <= FRACTION_RANK D + 1 /\
  (FRACTION_RANK D = 0 -> used = O) /\ fraction_of fp (v mod MAX_FRACTION_ D).
Proof using HD.
  intros Hv Hroom. unfold fraction_of. destruct (Z.eqb_spec (FRACTION_RANK D) 0) as [E|E]; cbn [negb].
  { exists None, O. assert (MAX_FRACTION_ D = 1) as -> by (unfold MAX_FRACTION_; by rewrite E).
    rewrite Z.div_1_r, Z.mod_1_r, Nat.sub_0_r. cbn.
    repeat split; first [done | lia | by intros [] | by constructor]. }
  unfold fraction_to_char. pose proof max_fraction as HM.
  pose proof (Z.mod_pos_bound v (MAX_FRACTION_ D)).
  destruct (Z.eqb_spec (v mod MAX_FRACTION_ D) 0) as [E0|E0]; cbn [negb].
  - destruct room as [|[|room]]; [lia..|]. rewrite push_ok. cbn [obind]. rewrite push_ok.
    exists (Some [0]), 2%nat. rewrite E0. cbn [fraction_text fraction_digits default from_option id].
    cbn [obind Nat.sub]. rewrite Nat.sub_0_r.
    repeat split; first [done | lia | by repeat constructor | cbn; lia].
  - destruct (put_fraction_part (v mod MAX_FRACTION_ D) room []) as
      (ds & used & -> & Hds & Hne & Hu & Hl & Hn); [lia|lia|].
    cbn [obind]. destruct (room - used)%nat as [|room'] eqn:Er; [lia|].
    rewrite push_ok. cbn [obind]. exists (Some ds), (S used). rewrite app_nil_r.
    cbn [fraction_text fraction_digits default from_option id].
    repeat split; try done; try lia.
    + repeat f_equal. lia.
    + intros [= ->]. simpl in Hne. lia.
Qed.

(** The text of a number other than zero. *)
Lemma str_nonzero x : valid D x -> data_ x <> 0 -> 0 < INTEGER_RANK D -> exists ip fp,
  str D x = Ret (number_text (if negative_ x then Some true else None) ip fp) /\
  grammar (FRACTION_RANK D) ip fp /\ fits (TOTAL_RANK D) (FRACTION_RANK D) ip fp = true /\
  fp <> Some [] /\ scaled (FRACTION_RANK D) ip fp = data_ x.
Proof using HD.
  intros Hx H0 HI. unfold str, decimal_to_char_. rewrite valid_set by done. cbn [guard].
  unfold valid in Hx. decide_Z. pose proof max_value_split as Hsplit. pose proof max_fraction as HM.
  assert (HR : 0 < TOTAL_RANK D <= 19 /\ 0 <= FRACTION_RANK D).
  { destruct HD as (HB & ? & ? & ?). pose proof (digits10_le _ (proj1 HB)). lia. }
  assert (HTI : TOTAL_RANK D = INTEGER_RANK D + FRACTION_RANK D) by (unfold INTEGER_RANK; lia).
  destruct (fraction_to_char_spec (data_ x) (Z.to_nat (TOTAL_RANK D + 2)))
    as (fp & used & -> & Hu & Hu0 & Hds & Hne & HF & Hl & Hn); [lia|lia|]. cbn [obind].
  set (room := (Z.to_nat (TOTAL_RANK D + 2) - used)%nat).
  assert (Hq : 0 <= data_ x / MAX_FRACTION_ D < MAX_INTEGER_ D).
  { split; [apply Z.div_pos; lia|]. apply Z.div_lt_upper_bound; lia. }
  destruct (put_integer_spec 20 (Z.to_nat (INTEGER_RANK D - 1)) (data_ x / MAX_FRACTION_ D) room
    (fraction_text fp)) as (j & Hj & Hqj & ->); [|lia|lia|].
  { split; [lia|]. replace (Z.of_nat _) with (INTEGER_RANK D) by lia. apply Hq. }
  cbn [obind]. exists (digits_of (S j) (data_ x / MAX_FRACTION_ D)), fp.
  split; [|split; [|split; [|split; [done|]]]].
  - unfold number_text. destruct (negative_ x); [|done].
    destruct (room - S j)%nat as [|r] eqn:Er; [lia|]. done.
  - repeat split; try done; [apply digits_of_ok|].
    intros E%(f_equal length). rewrite digits_of_length in E. done.
  - unfold fits. rewrite digits_of_small by lia. fold (INTEGER_RANK D) (MAX_INTEGER_ D).
    rewrite (proj2 (Z.ltb_lt _ _)) by lia. by apply Z.leb_le.
  - unfold scaled. rewrite num_app, num_acc, digits_of_small by lia.
    rewrite Z.mul_add_distr_r, Hn, <- Z.mul_assoc, <- Z.pow_add_r by lia.
    replace (_ + (_ - _)) with (FRACTION_RANK D) by lia. fold (MAX_FRACTION_ D).
    rewrite (Z.div_mod (data_ x) (MAX_FRACTION_ D)) at 3 by lia. lia.
Qed.

Lemma extract_sign sign ip rest : digit_list ip -> ip <> [] ->
  extract_decimal (Base D) (TOTAL_RANK D) (FRACTION_RANK D) (sign_text sign ++ chars ip ++ rest) =
    extract_unsigned (Base D) (TOTAL_RANK D) (FRACTION_RANK D) (negative_sign sign)
      (chars ip ++ rest).
Proof using.
  intros Hip Hne. destruct sign as [[]|]; [done..|]. destruct ip as [|d ip]; [done|].
  inversion Hip; subst. cbn [sign_text app chars map extract_decimal].
  rewrite digit_of_char by done.
  change (u32 ("-"%uchar - "0"%uchar)) with (2 ^ 32 - 3).
  change (u32 ("+"%uchar - "0"%uchar)) with (2 ^ 32 - 5). decide_Z. done.
Qed.

Lemma construct_str_text sign ip fp : 0 < INTEGER_RANK D -> grammar (FRACTION_RANK D) ip fp ->
  (fp = Some [] -> FRACTION_RANK D <> 1) ->
  if fits (TOTAL_RANK D) (FRACTION_RANK D) ip fp
  then construct_str D (number_text sign ip fp) =
    Ret {| negative_ := negative_sign sign; data_ := scaled (FRACTION_RANK D) ip fp |} /\
    0 <= scaled (FRACTION_RANK D) ip fp < MAX_VALUE_ D
  else exists what, construct_str D (number_text sign ip fp) = Throw (Overflow what).
Proof using HD.
  intros HI Hg H1. destruct HD as (HB & HT & HF & HD10).
  unfold construct_str, number_text. rewrite extract_sign by apply Hg.
  destruct (fits _ _ ip fp) eqn:Hfit.
  - rewrite extract_unsigned_ok by done. split; [done|].
    destruct (scaled_bound _ _ HF _ _ Hg Hfit) as [Hs1 Hs2]. unfold MAX_VALUE_. lia.
  - destruct (extract_unsigned_over (Base D) _ _ HB HD10 HF (negative_sign sign) ip fp HI Hg Hfit)
      as (eof & what & ->). by eexists.
Qed.

Lemma construct_str_inv text x : bytes_ok text -> construct_str D text = Ret x ->
  exists sign ip fp, grammar (FRACTION_RANK D) ip fp /\ text = number_text sign ip fp.
Proof using HD.
  intros Hb. unfold construct_str.
  assert (Hu : forall neg cur, bytes_ok cur ->
    (let* r := extract_unsigned (Base D) (TOTAL_RANK D) (FRACTION_RANK D) neg cur in
     construct_extracted r) = Ret x -> exists ip fp, grammar (FRACTION_RANK D) ip fp /\
     cur = chars ip ++ fraction_text fp).
  { intros neg cur Hc. destruct (extract_unsigned _ _ _ neg cur) as [r| |] eqn:E; [|done..].
    cbn [obind]. intros Hr. destruct HD as (HB & _ & HF & _).
    destruct (extract_unsigned_shape _ _ _ _ _ _ E) as [(eof & what & ->)|(d & rest & ->)]; [done|].
    destruct rest; [|done]. by apply (extract_unsigned_inv (Base D) _ _ HF neg _ d). }
  destruct text as [|c text]; [done|]. cbn [extract_decimal].
  apply Forall_cons in Hb as [Hc Hb].
  destruct (Z.eqb_spec (digit_of c) (u32 ("-"%uchar - "0"%uchar))) as [E|E].
  { intros (ip & fp & Hg & ->)%Hu; [|done]. exists (Some true), ip, fp. split; [done|].
    unfold number_text. cbn [sign_text app]. f_equal. by apply digit_of_inj. }
  destruct (Z.eqb_spec (digit_of c) (u32 ("+"%uchar - "0"%uchar))) as [E'|E'].
  { intros (ip & fp & Hg & ->)%Hu; [|done]. exists (Some false), ip, fp. split; [done|].
    unfold number_text. cbn [sign_text app]. f_equal. by apply digit_of_inj. }
  intros (ip & fp & Hg & ->)%Hu; [|by constructor]. by exists None, ip, fp.
Qed.

(** *** Construction, conversion, rounding *)

Lemma construct_parts_spec n i f : 0 <= i < 2 ^ 64 -> 0 <= f < 2 ^ 64 ->
  if (i <? MAX_INTEGER_ D) && (f <? MAX_FRACTION_ D)
  then construct_parts D n i f = Ret {| negative_ := n; data_ := i * MAX_FRACTION_ D + f |} /\
    0 <= i * MAX_FRACTION_ D + f < MAX_VALUE_ D
  else exists what, construct_parts D n i f = Throw (Overflow what).
Proof using HD.
  intros Hi Hf. pose proof max_integer as HI. pose proof max_fraction as HF.
  pose proof max_value as HM. pose proof max_value_split as HS.
  unfold construct_parts. rewrite !exceeds_spec by nia.
  destruct (Z.ltb_spec f (MAX_FRACTION_ D)); [|rewrite andb_false_r; decide_Z; by eexists].
  destruct (Z.ltb_spec i (MAX_INTEGER_ D)); cbn [andb]; decide_Z; [|by eexists].
  assert (0 <= i * MAX_FRACTION_ D + f < MAX_VALUE_ D) by nia. split; [|done].
  assert (0 <= i <= MAX_VALUE_ D /\ 0 <= f <= MAX_VALUE_ D) by nia.
  by rewrite !base_cast by (rewrite ?base_cast by lia; lia).
Qed.

(** Scaling by a power of ten that divides the range. *)
Lemma scale_bound a p : 0 <= p <= TOTAL_RANK D -> 0 <= a ->
  (MAX_VALUE_ D / 10 ^ p <=? a) = (MAX_VALUE_ D <=? a * 10 ^ p).
Proof using.
  intros Hp Ha. unfold MAX_VALUE_. pose proof (Z.pow_pos_nonneg 10 p).
  replace (TOTAL_RANK D) with (p + (TOTAL_RANK D - p)) by lia. rewrite Z.pow_add_r by lia.
  rewrite (Z.mul_comm (10 ^ p)), Z.div_mul by lia.
  repeat case_Z; try done; nia.
Qed.

Lemma construct_abs_spec T i n power : integer T -> 0 <= i <= max_ T ->
  0 <= power < digits10 T + FRACTION_RANK D ->
  represents D (construct_abs D T n i power)
    (if n then - (i * 10 ^ FRACTION_RANK D / 10 ^ power) else i * 10 ^ FRACTION_RANK D / 10 ^ power).
Proof using HD.
  intros HT Hi Hp. unfold construct_abs. pose proof max_value as HM.
  pose proof (max_u64 T HT) as HT64.
  destruct HD as (HB & Ht & HF & H10).
  assert (Hend : forall d, 0 <= d -> d < 2 ^ 64 -> represents D
    (if exceeds d (MAX_VALUE_ D) then Throw (Overflow "integer is not less than the maximum")
     else Ret {| negative_ := n; data_ := cast (Base D) d |}) (if n then - d else d)).
  { intros d Hd Hd64. rewrite exceeds_spec by (unfold MAX_VALUE_ in *; lia). case_Z.
    - apply represents_throw. destruct n; lia.
    - by apply represents_ret. }
  destruct (Z.eqb_spec power (FRACTION_RANK D)) as [->|E].
  { rewrite Z.div_mul by (pose proof (Z.pow_pos_nonneg 10 (FRACTION_RANK D)); lia).
    apply Hend; lia. }
  destruct (Z.ltb_spec (FRACTION_RANK D) power).
  - rewrite pow10_small by (done || lia). cbn [obind].
    pose proof (Z.pow_pos_nonneg 10 (power - FRACTION_RANK D)) as Hpp.
    assert (Eq : i * 10 ^ FRACTION_RANK D / 10 ^ power = i / 10 ^ (power - FRACTION_RANK D)).
    { replace power with ((power - FRACTION_RANK D) + FRACTION_RANK D) at 1 by lia.
      rewrite Z.pow_add_r, Z.div_mul_cancel_r by lia. done. }
    rewrite Eq. apply Hend; [apply Z.div_pos; lia|].
    apply Z.le_lt_trans with i; [|lia]. apply Z.div_le_upper_bound; [lia|]. nia.
  - rewrite pow10_small by (apply HB || lia). cbn [obind].
    set (m := 10 ^ (FRACTION_RANK D - power)).
    assert (Hm : 0 < m) by (apply Z.pow_pos_nonneg; lia).
    assert (Eq : i * 10 ^ FRACTION_RANK D / 10 ^ power = i * m).
    { unfold m. replace (FRACTION_RANK D) with ((FRACTION_RANK D - power) + power) at 1 by lia.
      rewrite Z.pow_add_r, Z.mul_assoc, Z.div_mul by lia. done. }
    assert (Hq : 0 <= MAX_VALUE_ D / m < 2 ^ 64).
    { unfold MAX_VALUE_ in *. split; [apply Z.div_pos; lia|]. apply Z.div_lt_upper_bound; nia. }
    rewrite Eq, exceeds_spec by lia. unfold m at 1. rewrite scale_bound by lia. fold m. case_Z.
    + apply represents_throw. destruct n; nia.
    + rewrite (base_cast i) by nia. by apply represents_ret; [nia|].
Qed.

Lemma construct_power_spec T i power : integer T -> - max_ T <= i <= max_ T ->
  (is_signed T = false -> 0 <= i) -> 0 <= power ->
  power < digits10 T + FRACTION_RANK D \/ Z.abs i < 10 ^ digits10 T ->
  represents D (construct_power D T i power)
    (Z.sgn i * (Z.abs i * 10 ^ FRACTION_RANK D / 10 ^ power)).
Proof using HD.
  intros HT Hi Hs Hp Hcut. unfold construct_power.
  assert (Hz : represents D (Ret {| negative_ := false; data_ := 0 |}) 0).
  { unfold represents. pose proof max_value_split. pose proof max_integer. pose proof max_fraction.
    rewrite (proj2 (Z.ltb_lt _ _)) by (simpl; nia). eexists. split; [done|]. split; [|done].
    unfold valid. simpl. nia. }
  destruct (Z.eqb_spec i 0) as [->|Hi0]; [rewrite orb_true_r; exact Hz|]. rewrite orb_false_r.
  pose proof HD as (_ & _ & HF & _). pose proof (digits10_le T HT) as H10.
  destruct (Z.leb_spec (digits10 T + FRACTION_RANK D) power) as [Hbig|Hsmall].
  { assert (Z.abs i * 10 ^ FRACTION_RANK D / 10 ^ power = 0) as ->; [|by rewrite Z.mul_0_r].
    apply Z.div_small. split; [nia|].
    apply Z.lt_le_trans with (10 ^ (digits10 T + FRACTION_RANK D)).
    - rewrite Z.pow_add_r by lia. pose proof (Z.pow_pos_nonneg 10 (FRACTION_RANK D)). nia.
    - apply Z.pow_le_mono_r; lia. }
  unfold split_sign. destruct (Z.ltb_spec i 0) as [Hneg|Hnn].
  - destruct (is_signed T); [|lia]. unfold guard. decide_Z. cbn [obind].
    rewrite Z.abs_neq, Z.sgn_neg by lia.
    rewrite Z.mul_comm, <- Z.opp_eq_mul_m1.
    apply (construct_abs_spec T (- i) true); (done || lia).
  - rewrite Z.abs_eq, Z.sgn_pos, Z.mul_1_l by lia.
    destruct (is_signed T); cbn [obind]; apply (construct_abs_spec T i false); (done || lia).
Qed.

Lemma integer_spec T x : integer T -> valid D x ->
  let v := Z.quot (value x) (MAX_FRACTION_ D) in
  if max_ T <? Z.abs v then exists what, SimpleDecimal_integer D T x = Throw (Overflow what)
  else if (v <? 0) && negb (is_signed T)
  then exists what, SimpleDecimal_integer D T x = Throw (Sign what)
  else SimpleDecimal_integer D T x = Ret v.
Proof using HD.
  intros HT Hx v. pose proof max_fraction as HM. unfold SimpleDecimal_integer.
  rewrite valid_set by done. cbn [guard]. unfold valid in Hx.
  assert (Hq : 0 <= data_ x / MAX_FRACTION_ D) by (apply Z.div_pos; lia).
  assert (Ev : v = if negative_ x then - (data_ x / MAX_FRACTION_ D) else data_ x / MAX_FRACTION_ D).
  { unfold v, value. destruct (negative_ x); rewrite ?Z.quot_opp_l, Z.quot_div_nonneg by lia; done. }
  rewrite Ev. replace (Z.abs _) with (data_ x / MAX_FRACTION_ D) by (destruct (negative_ x); lia).
  destruct (Z.ltb_spec (max_ T) (data_ x / MAX_FRACTION_ D)); [by eexists|].
  pose proof (integer_digits T HT). pose proof (Z.pow_pos_nonneg 2 (digits T)).
  assert (Hc : forall z, 0 <= z <= max_ T -> cast T z = z).
  { intros z Hz. apply cast_id; [done|]. unfold min_, max_ in *. destruct (is_signed T); lia. }
  destruct (negative_ x); cbn [andb].
  - destruct (Z.eqb_spec (data_ x / MAX_FRACTION_ D) 0) as [->|E]; cbn [negb andb].
    + decide_Z. cbn [andb]. rewrite (Hc 0), (Hc (- 0)) by lia. done.
    + decide_Z. cbn [andb]. destruct (is_signed T) eqn:Es; cbn [negb]; [|by eexists].
      rewrite (Hc (data_ x / _)) by lia. rewrite cast_id; [done|done|].
      unfold min_, max_ in *. rewrite Es. lia.
  - decide_Z. cbn [andb]. by rewrite Hc by lia.
Qed.

(** The unit in the [k]-th digit after the point. *)
Definition unit_at (k : Z) : Z := 10 ^ Z.max 0 (FRACTION_RANK D - k).

Lemma unit_at_pos k : 0 < unit_at k.
Proof using. apply Z.pow_pos_nonneg; lia. Qed.

Lemma represents_self x : valid D x -> represents D (Ret x) (value x).
Proof using.
  intros Hx. unfold represents. rewrite value_abs by done.
  rewrite (proj2 (Z.ltb_lt _ _)) by apply Hx. by eexists.
Qed.

(** The frame [floor] and [ceil] share. *)
Lemma round_frame x k (m : Z -> outcome SimpleDecimal) z : 0 <= k -> valid D x ->
  (unit_at k = 1 -> z = value x) ->
  (k < FRACTION_RANK D -> represents D (m (unit_at k)) z) ->
  represents D
    (guard (is_set D x)
       (if (FRACTION_RANK D <? k) || (k =? FRACTION_RANK D) then Ret x
        else let* pow := pow10 (Base D) (FRACTION_RANK D - k) in m pow)) z.
Proof using HD.
  intros Hk Hx H1 H2. rewrite valid_set by done. cbn [guard]. unfold unit_at in *.
  destruct (Z.leb_spec (FRACTION_RANK D) k).
  - rewrite (proj2 (orb_true_iff _ _)); [|rewrite Z.ltb_lt, Z.eqb_eq; lia].
    rewrite H1; [by apply represents_self|]. by rewrite Z.max_l by lia.
  - decide_Z. cbn [orb]. destruct HD as (HB & _ & HF & H10).
    rewrite pow10_small by (apply HB || lia). cbn [obind]. rewrite Z.max_r in H2 by lia. auto.
Qed.

Lemma sgn_value_id x : 0 <= data_ x -> Z.sgn (value x) * data_ x = value x.
Proof using. intros Hx. by rewrite sgn_value. Qed.

Lemma floor_spec x k : valid D x -> 0 <= k ->
  represents D (floor D k x) (Z.sgn (value x) * (data_ x / unit_at k * unit_at k)).
Proof using HD.
  intros Hx Hk. apply round_frame; [done|done| |].
  { intros ->. rewrite Z.div_1_r, Z.mul_1_r. apply sgn_value_id, Hx. }
  intros _. unfold valid in Hx. pose proof (unit_at_pos k) as Hp. set (p := unit_at k) in *.
  pose proof (Z.div_mod (data_ x) p ltac:(lia)). pose proof (Z.mod_pos_bound (data_ x) p Hp).
  assert (0 <= data_ x / p) by (apply Z.div_pos; lia).
  rewrite sgn_value by nia. destruct (Z.eqb_spec (data_ x mod p) 0) as [E|E]; cbn [negb].
  - replace (data_ x / p * p) with (data_ x) by lia. by apply represents_self.
  - apply represents_ret; [nia|done].
Qed.

Lemma ceil_spec x k : valid D x -> 0 <= k ->
  represents D (ceil D k x) (Z.sgn (value x) * (rounded DMR_CEIL (data_ x) (unit_at k) * unit_at k)).
Proof using HD.
  intros Hx Hk. rewrite rounded_spec by apply unit_at_pos. apply round_frame; [done|done| |].
  { intros ->. rewrite Z.div_1_r, Z.mod_1_r. simpl. rewrite Z.add_0_r, Z.mul_1_r.
    apply sgn_value_id, Hx. }
  intros Hkf. unfold valid in Hx. pose proof (unit_at_pos k) as Hp.
  assert (HM : exists q, MAX_VALUE_ D = q * unit_at k).
  { exists (10 ^ (TOTAL_RANK D - (FRACTION_RANK D - k))). unfold MAX_VALUE_, unit_at.
    destruct HD as (_ & _ & HF & _). rewrite <- Z.pow_add_r by lia. f_equal. lia. }
  destruct HM as [q HM]. set (p := unit_at k) in *.
  pose proof (Z.div_mod (data_ x) p ltac:(lia)). pose proof (Z.mod_pos_bound (data_ x) p Hp).
  assert (0 <= data_ x / p) by (apply Z.div_pos; lia).
  assert (data_ x / p + 1 <= q) by nia.
  destruct (Z.eqb_spec (data_ x mod p) 0) as [E|E]; cbn [negb].
  - rewrite sgn_value by nia. replace ((data_ x / p + 0) * p) with (data_ x) by lia.
    by apply represents_self.
  - rewrite sgn_value by nia. rewrite base_cast by nia. case_Z.
    + apply represents_throw. destruct (negative_ x); lia.
    + unfold with_data. rewrite <- (base_cast ((data_ x / p + 1) * p)) at 1 by nia.
      apply represents_ret; [nia|done].
Qed.

Lemma le_bytes_length n : forall v, length (le_bytes n v) = n.
Proof using. induction n as [|n IH]; intros v; simpl; [done|]. by rewrite IH. Qed.

Lemma le_value_bytes n : forall v, 0 <= v < 256 ^ Z.of_nat n -> le_value (le_bytes n v) = v.
Proof using.
  induction n as [|n IH]; intros v Hv.
  - change (256 ^ Z.of_nat 0) with 1 in Hv. simpl. lia.
  - rewrite Nat2Z.inj_succ, Z.pow_succ_r in Hv by lia. cbn [le_bytes le_value].
    rewrite IH by zlia. zlia.
Qed.

Lemma sizeof_digits : 256 ^ Z.of_nat (sizeof_data D) = 2 ^ digits (Base D).
Proof using HD.
  destruct HD as ([HB Hs] & _). unfold integer, sizeof_data in *. rewrite Hs in HB.
  rewrite !elem_of_cons, elem_of_nil in HB. by destruct HB as [-> | [-> | [-> | [-> | []]]]].
Qed.

Lemma pack_spec x : valid D x -> exists bs, pack D x = Ret bs /\
  length bs = S (sizeof_data D) /\ unpack D bs = Ret x.
Proof using HD.
  intros Hx. unfold pack. rewrite valid_set by done. cbn [guard]. eexists. split; [done|].
  rewrite length_app, le_bytes_length. split; [simpl; lia|].
  unfold unpack. rewrite length_app, le_bytes_length. rewrite (proj2 (Nat.leb_le _ _)) by lia.
  cbn [guard]. pose proof (rd_at (le_bytes (sizeof_data D) (data_ x)) (if negative_ x then 1 else 0) [])
    as Hrd. rewrite le_bytes_length in Hrd. rewrite Hrd. cbn [obind].
  rewrite take_app_le, take_ge by (rewrite le_bytes_length; lia).
  rewrite le_value_bytes.
  - destruct x as [[] d]; done.
  - rewrite sizeof_digits. unfold valid in Hx. pose proof max_value. unfold max_ in *. lia.
Qed.

(** *** Every value has at most [TOTAL] digits *)

(** The value an object can get from the operations of the class: the closure
    of construction and arithmetic. *)
Inductive made : SimpleDecimal -> Prop :=
| made_parts n i f x : construct_parts D n i f = Ret x -> made x
| made_power T i power x : integer T -> in_type T i = true -> 0 <= power ->
    construct_power D T i power = Ret x -> made x
| made_str text x : construct_str D text = Ret x -> made x
| made_diff E y x : static_asserts E -> valid E y -> FRACTION_RANK E <= FRACTION_RANK D ->
    SimpleDecimal_diff D E y = Ret x -> made x
| made_negate y x : made y -> negate D y = Ret x -> made x
| made_floor k y x : 0 <= k -> made y -> floor D k y = Ret x -> made x
| made_ceil k y x : 0 <= k -> made y -> ceil D k y = Ret x -> made x
| made_add y z x : made y -> made z -> add D y z = Ret x -> made x
| made_sub y z x : made y -> made z -> sub D y z = Ret x -> made x
| made_mul y z dmr x : made y -> made z -> mul D y z dmr = Ret x -> made x
| made_div y z ddr x : made y -> made z -> div D y z ddr = Ret x -> made x
| made_quotient y z q r : made y -> made z -> div_remainder D y z = Ret (q, r) -> made q
| made_remainder y z q r : made y -> made z -> div_remainder D y z = Ret (q, r) -> made r
| made_unpack y bs x : made y -> pack D y = Ret bs -> unpack D bs = Ret x -> made x.

Lemma construct_parts_valid n i f x : construct_parts D n i f = Ret x -> valid D x.
Proof using HD.
  unfold construct_parts, exceeds, valid. pose proof max_value as HM.
  pose proof max_integer as HI. pose proof max_fraction as HF. pose proof max_value_split as HS.
  assert (Hc : forall z m, 0 <= m <= MAX_VALUE_ D -> u64 z < u64 m -> 0 <= cast (Base D) z < m).
  { intros z m Hm. unfold u64. rewrite (Z.mod_small m) by lia. intros Hz.
    pose proof (Z.mod_pos_bound z (2 ^ 64)). pose proof base_unsigned as HB.
    pose proof (integer_digits _ (proj1 HB)). rewrite cast_unsigned by done.
    assert (E : z mod 2 ^ digits (Base D) = z mod 2 ^ 64).
    { symmetry. apply (Z.mod_unique _ _ (2 ^ (64 - digits (Base D)) * (z / 2 ^ 64))).
      - unfold max_ in HM. lia.
      - rewrite Z.mul_assoc, <- Z.pow_add_r by lia.
        replace (digits (Base D) + (64 - digits (Base D))) with 64 by lia.
        apply Z.div_mod. lia. }
    lia. }
  destruct (Z.leb_spec (u64 (MAX_FRACTION_ D)) (u64 f)) as [|Hf]; [done|].
  destruct (Z.leb_spec (u64 (MAX_INTEGER_ D)) (u64 i)) as [|Hi]; [done|].
  intros [= <-]. cbn [data_]. apply Hc in Hf; [|nia]. apply Hc in Hi; [|nia].
  rewrite base_cast by nia. nia.
Qed.

Lemma construct_str_valid text x : construct_str D text = Ret x -> valid D x.
Proof using HD.
  unfold construct_str. destruct HD as (HB & _ & HF & H10).
  assert (Hu : forall neg cur,
    (let* r := extract_unsigned (Base D) (TOTAL_RANK D) (FRACTION_RANK D) neg cur in
     construct_extracted r) = Ret x -> valid D x).
  { intros neg cur. destruct (extract_unsigned _ _ _ neg cur) as [r| |] eqn:E; [|done..].
    cbn [obind]. destruct (extract_unsigned_shape _ _ _ _ _ _ E) as [(eof & what & ->)|(d & rest & ->)];
      [done|]. destruct rest; [|done]. intros [= <-].
    by apply (extract_unsigned_bound (Base D) _ _ HB H10 HF) in E. }
  destruct text as [|c text]; [done|]. cbn [extract_decimal].
  destruct (_ =? _); [apply Hu|]. destruct (_ =? _); apply Hu.
Qed.

Lemma construct_str_total text : construct_str D text <> Undef.
Proof using HD.
  unfold construct_str. destruct HD as (HB & _ & HF & H10).
  assert (Hu : forall neg cur,
    (let* r := extract_unsigned (Base D) (TOTAL_RANK D) (FRACTION_RANK D) neg cur in
     construct_extracted r) <> Undef).
  { intros neg cur. destruct (extract_unsigned_total (Base D) _ _ HB H10 HF neg cur) as [r E].
    rewrite E. cbn [obind].
    destruct (extract_unsigned_shape _ _ _ _ _ _ E) as [(eof & what & ->)|(d & rest & ->)]; [done|].
    by destruct rest. }
  destruct text as [|c text]; [done|]. cbn [extract_decimal].
  destruct (_ =? _); [apply Hu|]. destruct (_ =? _); apply Hu.
Qed.

Lemma construct_power_valid T i power x : integer T -> in_type T i = true -> 0 <= power ->
  construct_power D T i power = Ret x -> valid D x.
Proof using HD.
  intros HT [Hi1%Z.leb_le Hi2%Z.leb_le]%andb_true_iff Hp.
  destruct (Z.leb_spec (digits10 T + FRACTION_RANK D) power) as [Hbig|Hsmall].
  { unfold construct_power. rewrite (proj2 (Z.leb_le _ _)) by done. intros [= <-]. unfold valid.
    pose proof max_value_split. pose proof max_integer. pose proof max_fraction. simpl. nia. }
  intros E. eapply represents_inv; [|exact E]. apply construct_power_spec; [done| | |done|by left].
  - split; [|done]. apply Z.nlt_ge. intros Hlt. unfold min_ in Hi1. destruct (is_signed T) eqn:Es.
    + assert (i = - 2 ^ digits T) as -> by (unfold max_ in Hlt; lia).
      pose proof (Z.pow_pos_nonneg 2 (digits T)). pose proof (integer_digits T HT).
      revert E. unfold construct_power. pose proof HD as (_ & _ & HF & _).
      decide_Z. cbn [orb]. unfold split_sign, guard. rewrite Es. decide_Z. done.
    + pose proof (max_u64 T HT). lia.
  - intros Es. unfold min_ in Hi1. by rewrite Es in Hi1.
Qed.

Lemma diff_spec E y : static_asserts E -> valid E y -> FRACTION_RANK E <= FRACTION_RANK D ->
  represents D (SimpleDecimal_diff D E y)
    (value y * 10 ^ (FRACTION_RANK D - FRACTION_RANK E)).
Proof using HD.
  intros (HB & HT & HFE & H10) Hy HF.
  pose proof (total_max (Base E) _ (FRACTION_RANK E) HB H10 HFE) as HM. fold (MAX_VALUE_ E) in HM.
  unfold valid in Hy. pose proof (digits10_le _ (proj1 HB)).
  pose proof (Z.pow_pos_nonneg 10 (FRACTION_RANK D - FRACTION_RANK E)).
  assert (Hc : represents D (construct_power D (Base E) (data_ y) (FRACTION_RANK E))
    (data_ y * 10 ^ (FRACTION_RANK D - FRACTION_RANK E))).
  { pose proof (construct_power_spec (Base E) (data_ y) (FRACTION_RANK E)) as Hc.
    replace (_ * (_ / _)) with (data_ y * 10 ^ (FRACTION_RANK D - FRACTION_RANK E)) in Hc.
    - apply Hc; try lia. apply HB.
    - replace (FRACTION_RANK D) with ((FRACTION_RANK D - FRACTION_RANK E) + FRACTION_RANK E) at 2 by lia.
      rewrite Z.pow_add_r, Z.mul_assoc, Z.div_mul by (pose proof (Z.pow_pos_nonneg 10 (FRACTION_RANK E)); lia).
      rewrite (Z.abs_eq (data_ y)) by lia. destruct (Z.eq_dec (data_ y) 0) as [->|]; [done|].
      rewrite Z.sgn_pos by lia. lia. }
  set (v := data_ y * 10 ^ (FRACTION_RANK D - FRACTION_RANK E)) in *.
  assert (Hv : Z.abs (value y * 10 ^ (FRACTION_RANK D - FRACTION_RANK E)) = Z.abs v).
  { rewrite !Z.abs_mul. f_equal. unfold value. destruct (negative_ y); lia. }
  unfold represents in *. rewrite Hv. unfold SimpleDecimal_diff.
  destruct (Z.abs v <? MAX_VALUE_ D).
  - destruct Hc as (x & -> & Hx & Ex). cbn [obind]. eexists. split; [done|]. split; [exact Hx|].
    assert (data_ x = v) as Ed.
    { rewrite <- (value_abs x Hx), Ex. apply Z.abs_eq. unfold v. nia. }
    unfold value. cbn [negative_ data_]. rewrite Ed. unfold v. destruct (negative_ y); lia.
  - destruct Hc as [what ->]. by eexists.
Qed.

Lemma made_valid x : made x -> valid D x.
Proof using HD.
  induction 1 as [n i f x E|T i p x HT Hi Hp E|t x E|E' y x HE Hy HF E|y x _ IH E|k y x Hk _ IH E|
    k y x Hk _ IH E|y z x _ IHy _ IHz E|y z x _ IHy _ IHz E|y z dmr x _ IHy _ IHz E|
    y z ddr x _ IHy _ IHz E|y z q r _ IHy _ IHz E|y z q r _ IHy _ IHz E|y bs x _ IH Eb E].
  - exact (construct_parts_valid _ _ _ _ E).
  - exact (construct_power_valid _ _ _ _ HT Hi Hp E).
  - exact (construct_str_valid _ _ E).
  - exact (proj1 (represents_inv _ _ _ (diff_spec _ _ HE Hy HF) E)).
  - unfold negate in E. rewrite valid_set in E by done. by injection E as <-.
  - exact (proj1 (represents_inv _ _ _ (floor_spec _ _ IH Hk) E)).
  - exact (proj1 (represents_inv _ _ _ (ceil_spec _ _ IH Hk) E)).
  - exact (proj1 (represents_inv _ _ _ (add_represents _ _ IHy IHz) E)).
  - exact (proj1 (represents_inv _ _ _ (sub_represents _ _ IHy IHz) E)).
  - exact (proj1 (represents_inv _ _ _ (mul_represents _ _ _ IHy IHz) E)).
  - exact (div_valid _ _ _ _ IHy IHz E).
  - unfold div_remainder in E. destruct (div_ D y z DDR_FLOOR) as [q'| |] eqn:Eq; [|done..].
    destruct (div_remainder_value _ _ _ IHy IHz Eq) as (r' & p & Ep & Er & _).
    unfold div_remainder in Er. rewrite Eq in Er. rewrite Er in E. injection E as <- <-.
    exact (div_valid _ _ _ _ IHy IHz Eq).
  - unfold div_remainder in E. destruct (div_ D y z DDR_FLOOR) as [q'| |] eqn:Eq; [|done..].
    destruct (div_remainder_value _ _ _ IHy IHz Eq) as (r' & p & Ep & Er & Vr & _).
    unfold div_remainder in Er. rewrite Eq in Er. rewrite Er in E. by injection E as <- <-.
  - destruct (pack_spec _ IH) as (bs' & Ep & _ & Eu). rewrite Ep in Eb. injection Eb as <-.
    rewrite Eu in E. by injection E as <-.
Qed.

Lemma str_zero x : valid D x -> data_ x = 0 -> 0 < INTEGER_RANK D ->
  exists text, str D x = Ret text /\ exists y, construct_str D text = Ret y /\ data_ y = 0.
Proof using HD.
  intros Hx E HI. set (fp := if FRACTION_RANK D =? 0 then None else Some [0]).
  exists (number_text None [0] fp). split.
  - unfold str, decimal_to_char_. rewrite valid_set by done. cbn [guard]. decide_Z.
    destruct HD as (_ & HT & HF & _). unfold fp.
    replace (Z.to_nat (TOTAL_RANK D + 2)) with (S (S (S (Z.to_nat (TOTAL_RANK D - 1))))) by lia.
    rewrite push_ok. cbn [obind]. by destruct (FRACTION_RANK D =? 0).
  - pose proof HD as (HB & HT & HF & _).
    pose proof (construct_str_text None [0] fp HI) as H.
    assert (Hg : grammar (FRACTION_RANK D) [0] fp).
    { unfold grammar, fp. destruct (Z.eqb_spec (FRACTION_RANK D) 0); cbn;
        repeat split; first [done | by repeat constructor | by intros [] | lia]. }
    assert (Hfit : fits (TOTAL_RANK D) (FRACTION_RANK D) [0] fp = true).
    { unfold fits. cbn [num]. fold (INTEGER_RANK D) (MAX_INTEGER_ D). pose proof max_integer.
      rewrite (proj2 (Z.ltb_lt _ _)) by lia. apply Z.leb_le. unfold fp.
      destruct (Z.eqb_spec (FRACTION_RANK D) 0); cbn; lia. }
    rewrite Hfit in H. eexists. split.
    + apply H; [done|]. unfold fp. by destruct (FRACTION_RANK D =? 0).
    + cbn [data_]. unfold scaled, fp. by destruct (FRACTION_RANK D =? 0).
Qed.

Lemma equal_value x y : valid D x -> valid D y -> equal D x y = Ret (value x =? value y).
Proof using HD.
  intros Hx Hy. unfold equal. rewrite !valid_set by done. cbn [andb guard]. f_equal.
  apply eq_iff_eq_true. unfold valid, value in *.
  destruct (negative_ x), (negative_ y); cbn [eqb]; rewrite ?andb_true_iff, !Z.eqb_eq; lia.
Qed.

Lemma less_value x y : valid D x -> valid D y -> less D x y = Ret (value x <? value y).
Proof using HD.
  intros Hx Hy. unfold less. rewrite !valid_set by done. cbn [andb guard]. f_equal.
  apply eq_iff_eq_true. unfold valid, value in *.
  destruct (negative_ x), (negative_ y); cbn [negb andb];
    rewrite ?orb_true_iff, ?negb_true_iff, ?Z.ltb_lt, ?Z.eqb_neq; first [lia | split; [done|lia]].
Qed.
End Facts.

(** ** Results *)

(** The type of the examples: 18 digits, 8 of them after the point. *)
Definition money : DecimalRanks :=
  {| Base := uint64_t; TOTAL_RANK := 18; FRACTION_RANK := 8 |}.

Lemma money_ok : static_asserts money.
Proof. by_eval. Defined.

(** C39: every number the class can produce, from whatever texts, parts and
    operations, has at most [TOTAL] digits: [0 <= data_ < MAX_VALUE_].  In
    particular none equals [INVALID_FLAG_] and no sum of two wraps around. *)
Theorem SimpleDecimal_valid (D : DecimalRanks) (x : SimpleDecimal) :
  static_asserts D -> made D x -> valid D x /\ is_set D x = true.
Proof.
  intros HD Hx. pose proof (made_valid D HD x Hx) as Hv. split; [done|]. by apply valid_set.
Qed.

Lemma SimpleDecimal_valid_witness : valid money {| negative_ := true; data_ := 150000000 |}.
Proof.
  apply (SimpleDecimal_valid money); [exact money_ok|].
  apply (made_str money (bytes "-1.5")). vm_compute. reflexivity.
Defined.

(** Arithmetic is exact.  [add] and [sub] return the sum and the difference,
    [mul] the product and [div] the quotient, rounded towards zero, to the
    nearest or away from zero as asked; each throws [Overflow] exactly when the
    result has too many digits, and [div] also for a zero divisor.  The
    quotient and the remainder of [div_remainder] satisfy
    [dividend = quotient * divisor + remainder], the remainder has the sign of
    the dividend and is below [|divisor| / 10 ^ FRACTION + 1] units. *)
Theorem SimpleDecimal_arithmetic (D : DecimalRanks) (x y : SimpleDecimal) :
  static_asserts D -> valid D x -> valid D y ->
  represents D (add D x y) (value x + value y) /\
  represents D (sub D x y) (value x - value y) /\
  (forall dmr, represents D (mul D x y dmr)
    (Z.sgn (value x * value y) * rounded dmr (Z.abs (value x) * Z.abs (value y)) (MAX_FRACTION_ D))) /\
  (value y <> 0 -> forall ddr, represents D (div D x y ddr)
    (Z.sgn (value x * value y) *
     rounded (ddr_mode ddr) (Z.abs (value x) * MAX_FRACTION_ D) (Z.abs (value y)))) /\
  (value y = 0 -> forall ddr, div D x y ddr = Throw (Overflow "division by zero")) /\
  (forall q, div D x y DDR_FLOOR = Ret q -> exists r p,
    mul D q y DMR_FLOOR = Ret p /\ div_remainder D x y = Ret (q, r) /\ valid D r /\
    value x = value p + value r /\ 0 <= Z.sgn (value x) * value r /\
    Z.abs (value r) * MAX_FRACTION_ D < Z.abs (value y) + MAX_FRACTION_ D).
Proof.
  intros HD Hx Hy. rewrite !(value_abs D) by done.
  split; [by apply add_represents|]. split; [by apply sub_represents|].
  split; [intros dmr; by apply mul_represents|]. split; [intros H0 ddr; by apply div_represents|].
  split; [intros H0 ddr; by apply div_zero|]. intros q Hq.
  pose proof (div_remainder_value D HD x y q Hx Hy Hq) as H. by rewrite (value_abs D y Hy) in H.
Qed.

Lemma SimpleDecimal_arithmetic_witness :
  exists z, add money {| negative_ := true; data_ := 150000000 |}
    {| negative_ := false; data_ := 5 |} = Ret z /\ value z = -149999995.
Proof.
  pose proof (SimpleDecimal_arithmetic money {| negative_ := true; data_ := 150000000 |}
    {| negative_ := false; data_ := 5 |} money_ok ltac:(by_eval) ltac:(by_eval)) as [H _].
  destruct H as (z & Hz & _ & Ez). exists z. split; [exact Hz|exact Ez].
Defined.

(** The comparison operators are those of the numbers, [0] and [-0] being
    equal. *)
Theorem SimpleDecimal_order (D : DecimalRanks) (x y : SimpleDecimal) :
  static_asserts D -> valid D x -> valid D y ->
  equal D x y = Ret (value x =? value y) /\ not_equal D x y = Ret (negb (value x =? value y)) /\
  less D x y = Ret (value x <? value y) /\ greater D x y = Ret (value y <? value x) /\
  less_equal D x y = Ret (value x <=? value y) /\ greater_equal D x y = Ret (value y <=? value x) /\
  is_zero D x = Ret (value x =? 0).
Proof.
  intros HD Hx Hy. unfold not_equal, greater, less_equal, greater_equal.
  rewrite equal_value, !less_value by done. cbn [obind]. rewrite <- !Z.leb_antisym.
  do 6 (split; [done|]). unfold is_zero. rewrite valid_set by done. cbn [guard]. f_equal.
  apply eq_iff_eq_true. rewrite !Z.eqb_eq. unfold value. destruct (negative_ x); lia.
Qed.

Lemma SimpleDecimal_order_witness :
  equal money {| negative_ := true; data_ := 0 |} {| negative_ := false; data_ := 0 |} = Ret true.
Proof.
  refine (proj1 (SimpleDecimal_order money {| negative_ := true; data_ := 0 |}
    {| negative_ := false; data_ := 0 |} money_ok _ _)); by_eval.
Defined.

(** With at least one digit before the point, [str] stays inside its buffer
    of [TOTAL + 2] characters and [construct_] reads the text back as the same
    number. *)
Theorem SimpleDecimal_text_roundtrip (D : DecimalRanks) (x : SimpleDecimal) :
  static_asserts D -> valid D x -> 0 < INTEGER_RANK D ->
  exists text y, str D x = Ret text /\ construct_str D text = Ret y /\ equal D x y = Ret true.
Proof.
  intros HD Hx HI. assert (Heq : forall y, data_ y = data_ x ->
    (data_ x <> 0 -> negative_ y = negative_ x) -> equal D x y = Ret true).
  { intros y Ey En. unfold equal, is_set. rewrite Ey. pose proof (valid_set D HD x Hx) as Hs.
    unfold is_set in Hs. rewrite Hs. cbn [andb guard]. rewrite Z.eqb_refl.
    destruct (Z.eqb_spec (data_ x) 0) as [E|E]; [by destruct (Bool.eqb _ _)|].
    by rewrite En, eqb_reflx by done. }
  destruct (Z.eq_dec (data_ x) 0) as [E|E].
  - destruct (str_zero D HD x Hx E HI) as (text & -> & y & Hy & Ey).
    exists text, y. split; [done|]. split; [done|]. apply Heq; [congruence|]. by intros [].
  - destruct (str_nonzero D HD x Hx E HI) as (ip & fp & -> & Hg & Hfit & Hne & Es).
    eexists _, _. split; [done|].
    pose proof (construct_str_text D HD (if negative_ x then Some true else None) ip fp HI Hg) as H.
    rewrite Hfit in H. split; [apply H; intros Efp; by destruct Hne|]. apply Heq; [done|].
    intros _. cbn [negative_]. by destruct (negative_ x).
Qed.

Lemma SimpleDecimal_text_roundtrip_witness : exists text y,
  str money {| negative_ := true; data_ := 150000000 |} = Ret text /\
  construct_str money text = Ret y /\
  equal money {| negative_ := true; data_ := 150000000 |} y = Ret true.
Proof. by apply (SimpleDecimal_text_roundtrip money _ money_ok); by_eval. Defined.

(** Exactly which texts are numbers.  A text [[+|-]abcd[.[efg]]] gives the
    number it denotes if it has at most [FRACTION] digits after the point and
    its integer part is below [10 ^ INTEGER_RANK] (leading zeros do not count),
    and [Overflow] otherwise; every other text is an exception. *)
Theorem SimpleDecimal_parse (D : DecimalRanks) (text : list Z) :
  static_asserts D -> 0 < INTEGER_RANK D -> bytes_ok text ->
  construct_str D text <> Undef /\
  (forall sign ip fp, text = number_text sign ip fp -> grammar (FRACTION_RANK D) ip fp ->
    (fp = Some [] -> FRACTION_RANK D <> 1) ->
    if fits (TOTAL_RANK D) (FRACTION_RANK D) ip fp
    then construct_str D text =
      Ret {| negative_ := negative_sign sign; data_ := scaled (FRACTION_RANK D) ip fp |}
    else exists what, construct_str D text = Throw (Overflow what)) /\
  (forall x, construct_str D text = Ret x -> valid D x /\
    exists sign ip fp, grammar (FRACTION_RANK D) ip fp /\ text = number_text sign ip fp).
Proof.
  intros HD HI Hb. split; [by apply construct_str_total|]. split.
  - intros sign ip fp -> Hg H1. pose proof (construct_str_text D HD sign ip fp HI Hg H1) as H.
    destruct (fits _ _ ip fp); [apply H|exact H].
  - intros x E. split; [exact (construct_str_valid D HD text x E)|].
    exact (construct_str_inv D HD text x Hb E).
Qed.

Lemma SimpleDecimal_parse_witness :
  construct_str money (bytes "+007.25") = Ret {| negative_ := false; data_ := 725000000 |}.
Proof.
  pose proof (SimpleDecimal_parse money (bytes "+007.25") money_ok ltac:(by_eval) ltac:(by_eval))
    as (_ & H & _).
  specialize (H (Some false) [0; 0; 7] (Some [2; 5]) eq_refl). apply H; [|done].
  repeat split; try done; by_eval.
Defined.

(** Conversions.  [construct_(integer, power)] is [integer / 10 ^ power]
    and the constructor from other ranks keeps the value; [floor] and [ceil]
    round the absolute value to the given digit; [integer] is the integer part,
    or [Overflow] or [Sign] if the type does not hold it. *)
Theorem SimpleDecimal_conversions (D : DecimalRanks) : static_asserts D ->
  (forall T i power, integer T -> - max_ T <= i <= max_ T -> (is_signed T = false -> 0 <= i) ->
    0 <= power -> power < digits10 T + FRACTION_RANK D \/ Z.abs i < 10 ^ digits10 T ->
    represents D (construct_power D T i power)
      (Z.sgn i * (Z.abs i * 10 ^ FRACTION_RANK D / 10 ^ power))) /\
  (forall E y, static_asserts E -> valid E y -> FRACTION_RANK E <= FRACTION_RANK D ->
    represents D (SimpleDecimal_diff D E y)
      (value y * 10 ^ (FRACTION_RANK D - FRACTION_RANK E))) /\
  (forall x, valid D x ->
    (forall k, 0 <= k ->
      represents D (floor D k x)
        (Z.sgn (value x) * (rounded DMR_FLOOR (Z.abs (value x)) (unit_at D k) * unit_at D k)) /\
      represents D (ceil D k x)
        (Z.sgn (value x) * (rounded DMR_CEIL (Z.abs (value x)) (unit_at D k) * unit_at D k))) /\
    (forall T, integer T ->
      let v := Z.quot (value x) (MAX_FRACTION_ D) in
      if max_ T <? Z.abs v then exists what, SimpleDecimal_integer D T x = Throw (Overflow what)
      else if (v <? 0) && negb (is_signed T)
      then exists what, SimpleDecimal_integer D T x = Throw (Sign what)
      else SimpleDecimal_integer D T x = Ret v)).
Proof.
  intros HD. split; [intros T i power HT Hi Hs Hp; by apply construct_power_spec|].
  split; [intros E y HE Hy HF; by apply diff_spec|]. intros x Hx. split.
  - intros k Hk. rewrite (value_abs D) by done. split; [by apply floor_spec|by apply ceil_spec].
  - intros T HT. by apply integer_spec.
Qed.

Lemma SimpleDecimal_conversions_witness : exists z,
  construct_power money int64_t (-12345) 3 = Ret z /\ value z = -1234500000.
Proof.
  pose proof (SimpleDecimal_conversions money money_ok) as (H & _).
  destruct (H int64_t (-12345) 3) as (z & Hz & _ & Ez); [by_eval..|by left|].
  exists z. split; [exact Hz|exact Ez].
Defined.

(** What goes wrong at the edges.  With one fractional digit a text that
    ends in the point is read as a tenth of its number.  With no digit before
    the point, [str] of a negative number with all its digits writes in front
    of its buffer, and no text at all is a number, not even ["0.5"] that [str]
    prints.  Texts without digits are reported as [Overflow].  A numerator of
    19 digits over [10 ^ 18] is taken for zero.  [is_nonpositive] is false for
    zero. *)
Theorem SimpleDecimal_edges :
  let tenth := {| Base := uint32_t; TOTAL_RANK := 5; FRACTION_RANK := 1 |} in
  let pure := {| Base := uint32_t; TOTAL_RANK := 3; FRACTION_RANK := 3 |} in
  construct_str tenth (bytes "5.") = Ret {| negative_ := false; data_ := 5 |} /\
  construct_str tenth (bytes "5") = Ret {| negative_ := false; data_ := 50 |} /\
  str pure {| negative_ := true; data_ := 125 |} = Undef /\
  str pure {| negative_ := false; data_ := 500 |} = Ret (bytes "0.5") /\
  (forall text, exists what, construct_str pure text = Throw (Overflow what)) /\
  construct_str money (bytes "abc") = Throw (Overflow "empty number passed") /\
  construct_power money int64_t 9000000000000000000 26 = Ret {| negative_ := false; data_ := 0 |} /\
  is_nonpositive money {| negative_ := false; data_ := 0 |} = Ret false /\
  is_nonnegative money {| negative_ := true; data_ := 0 |} = Ret false.
Proof.
  intros tenth pure. do 4 (split; [reflexivity|]). split; [|repeat split].
  assert (Hu : forall neg cur, exists what,
    (let* r := extract_unsigned (Base pure) 3 3 neg cur in construct_extracted r) =
      Throw (Overflow what)).
  { intros neg [|c cur]; cbn [extract_unsigned obind]; [by eexists|].
    destruct (Z.ltb_spec 9 (digit_of c)); [by eexists|]. cbn [extract_integer].
    decide_Z. by eexists. }
  intros [|c text]; [by eexists|]. unfold construct_str. cbn [extract_decimal].
  destruct (_ =? _); [apply Hu|]. destruct (_ =? _); apply Hu.
Qed.

(** [unpack] restores what [pack] wrote into [PACK_SIZE] bytes. *)
Theorem SimpleDecimal_pack (D : DecimalRanks) (x : SimpleDecimal) :
  static_asserts D -> valid D x ->
  exists bs, pack D x = Ret bs /\ length bs = S (sizeof_data D) /\ unpack D bs = Ret x.
Proof. intros HD Hx. by apply pack_spec. Qed.
