(* ===== verification/Decimal.v ===== *)
(** * Decimal: fixed point numbers of any length

    Models the class [Decimal] of [src/Generics/Decimal.hpp] and [.tpp]: a sign
    and an array of elements, the least significant first, each a digit in the
    base [BASE], the greatest power of ten such that two elements can be added
    in the element type.  This file has the constants, comparison, addition,
    subtraction and multiplication with its temporary array, and the numbers
    that lists of elements denote. *)
From S2P Require Import Prelude IntStr CommonDecimal SimpleDecimal.
Local Open Scope Z_scope.
Local Open Scope outcome_scope.

(** The static assertions of [DecimalRanks] and [DecimalBase]. *)
Definition decimal_asserts (D : DecimalRanks) : Prop :=
  unsigned (Base D) /\ 0 < TOTAL_RANK D /\ 0 <= FRACTION_RANK D <= TOTAL_RANK D.

Record Decimal : Type := { negative_ : bool; array_ : list Z }.

#[export] Instance Decimal_eq_dec : EqDecision Decimal.
Proof. solve_decision. Defined.

Section Operations.
Context (D : DecimalRanks).

(** [Element], and the constants of the class. *)
Abbreviation Element := (Base D).

Definition DIGITS_PER_ELEMENT : Z :=
  if 2 <=? max_ Element / 10 ^ digits10 Element then digits10 Element else digits10 Element - 1.
Definition BASE : Z := 10 ^ DIGITS_PER_ELEMENT.
Definition MAX_SUM : Z := max_ Element / BASE.
Definition SIZE : Z := (TOTAL_RANK D + DIGITS_PER_ELEMENT - 1) / DIGITS_PER_ELEMENT.
Definition INTEGER_MAX_OVER : Z :=
  10 ^ (DIGITS_PER_ELEMENT - (SIZE * DIGITS_PER_ELEMENT - TOTAL_RANK D)).
Definition FRACTION_END : Z := FRACTION_RANK D / DIGITS_PER_ELEMENT.
Definition FRACTION_REMAINDER : Z := 10 ^ (FRACTION_RANK D mod DIGITS_PER_ELEMENT).
Definition FRACTION_OVER : Z :=
  10 ^ (DIGITS_PER_ELEMENT - FRACTION_RANK D mod DIGITS_PER_ELEMENT).

(** Access to the elements; a constant position. *)
Definition at_ (array : list Z) (i : Z) : outcome Z := rd array (Z.to_nat i).

Definition is_set (x : Decimal) : bool :=
  match array_ x with
  | [] => false
  | e :: _ => negb (e =? max_ Element)
  end.

(** ** Comparison *)

(** [is_less_than_]: the result and [diff_index]; [n] is [i + 1]. *)
Fixpoint less_loop (n : nat) (array test : list Z) : outcome (bool * nat) :=
  match n with
  | O => Ret (false, O)
  | S i =>
    let* a := rd array i in
    let* t := rd test i in
    if a <? t then Ret (true, i)
    else if t <? a then Ret (false, i)
    else less_loop i array test
  end.

Definition is_less_than_ (x test : Decimal) : outcome (bool * nat) :=
  less_loop (Z.to_nat SIZE) (array_ x) (array_ test).

Fixpoint all_zero (array : list Z) : bool :=
  match array with
  | [] => true
  | e :: array' => if negb (e =? 0) then false else all_zero array'
  end.

Definition is_zero (x : Decimal) : outcome bool := guard (is_set x) (Ret (all_zero (array_ x))).

(** The two loops of [operator ==]. *)
Fixpoint same_elements (array right : list Z) : bool :=
  match array, right with
  | e :: array', r :: right' => if negb (e =? r) then false else same_elements array' right'
  | _, _ => true
  end.

Fixpoint both_zero (array right : list Z) : bool :=
  match array, right with
  | e :: array', r :: right' =>
    if negb (e =? 0) || negb (r =? 0) then false else both_zero array' right'
  | _, _ => true
  end.

Definition equal (x right : Decimal) : outcome bool :=
  guard (is_set x && is_set right)
    (Ret (if eqb (negative_ x) (negative_ right) then same_elements (array_ x) (array_ right)
          else both_zero (array_ x) (array_ right))).

Definition less (x test : Decimal) : outcome bool :=
  guard (is_set x && is_set test)
    (if negative_ x then
       if negative_ test then let* (b, _) := is_less_than_ test x in Ret b
       else
         let* z := is_zero x in
         if negb z then Ret true else let* zt := is_zero test in Ret (negb zt)
     else if negative_ test then Ret false
     else let* (b, _) := is_less_than_ x test in Ret b).

(** ** Addition and subtraction *)

(** The loop of [internal_add_]: the elements and the last [overflow].  [target]
    may be one of the summands: each element is read before it is written. *)
Fixpoint add_elements (array1 array2 : list Z) (overflow : Z) : list Z * Z :=
  match array1, array2 with
  | e1 :: array1', e2 :: array2' =>
    let num := cast Element (e1 + e2 + overflow) in
    let '(e, overflow) := if BASE <=? num then (num - BASE, 1) else (num, 0) in
    let '(array, overflow) := add_elements array1' array2' overflow in
    (e :: array, overflow)
  | _, _ => ([], overflow)
  end.

Definition internal_add_ (summand1 summand2 : list Z) : outcome (list Z * bool) :=
  let '(array, overflow) := add_elements summand1 summand2 0 in
  let* last := at_ array (SIZE - 1) in
  Ret (array, negb (overflow =? 0) || (INTEGER_MAX_OVER <=? last)).

(** The loop of [internal_sub_] over [n] elements. *)
Fixpoint sub_elements (n : nat) (minuend subtrahend : list Z) (underflow : Z) : list Z * Z :=
  match n, minuend, subtrahend with
  | S n', m :: minuend', s :: subtrahend' =>
    let real_subtrahend := cast Element (s + underflow) in
    let '(e, underflow) :=
      if m <? real_subtrahend then (BASE - (real_subtrahend - m), 1)
      else (m - real_subtrahend, 0) in
    let '(array, underflow) := sub_elements n' minuend' subtrahend' underflow in
    (e :: array, underflow)
  | _, _, _ => ([], underflow)
  end.

Definition internal_sub_ (minuend subtrahend : list Z) (diff_index : nat) : outcome (list Z) :=
  let '(array, underflow) := sub_elements (S diff_index) minuend subtrahend 0 in
  guard (underflow =? 0) (Ret (array ++ repeat 0 (Z.to_nat SIZE - S diff_index))).

Definition add (summand1 summand2 : Decimal) : outcome Decimal :=
  guard (is_set summand1 && is_set summand2)
    (if eqb (negative_ summand1) (negative_ summand2) then
       let* (array, over) := internal_add_ (array_ summand1) (array_ summand2) in
       if over : bool then Throw (Overflow "overflow summing")
       else Ret {| negative_ := negative_ summand1; array_ := array |}
     else
       let* (lt, diff_index) := is_less_than_ summand1 summand2 in
       if lt : bool then
         let* array := internal_sub_ (array_ summand2) (array_ summand1) diff_index in
         Ret {| negative_ := negative_ summand2; array_ := array |}
       else
         let* array := internal_sub_ (array_ summand1) (array_ summand2) diff_index in
         Ret {| negative_ := negative_ summand1; array_ := array |}).

Definition sub (minuend subtrahend : Decimal) : outcome Decimal :=
  guard (is_set minuend && is_set subtrahend)
    (if eqb (negative_ minuend) (negative_ subtrahend) then
       let* (lt, diff_index) := is_less_than_ minuend subtrahend in
       if lt : bool then
         let* array := internal_sub_ (array_ subtrahend) (array_ minuend) diff_index in
         Ret {| negative_ := negb (negative_ subtrahend); array_ := array |}
       else
         let* array := internal_sub_ (array_ minuend) (array_ subtrahend) diff_index in
         Ret {| negative_ := negative_ minuend; array_ := array |}
     else
       let* (array, over) := internal_add_ (array_ minuend) (array_ subtrahend) in
       if over : bool then Throw (Overflow "overflow subtracting")
       else Ret {| negative_ := negative_ minuend; array_ := array |}).

(** ** Multiplication *)

Definition TMP_TOTAL_RANK : Z := INTEGER_RANK D + 2 * FRACTION_RANK D.
Definition TMP_SIZE : Z :=
  TMP_TOTAL_RANK / DIGITS_PER_ELEMENT +
  (if TMP_TOTAL_RANK mod DIGITS_PER_ELEMENT =? 0 then 0 else 1).
Definition TMP_INTEGER_MAX_OVER : Z :=
  10 ^ (DIGITS_PER_ELEMENT - (TMP_SIZE * DIGITS_PER_ELEMENT - TMP_TOTAL_RANK)).

(** The minor and the major element of a product. *)
Definition mul_elements_ (multiplier factor : Z) : outcome (Z * Z) :=
  let* (h, l) := mul_base (digits10 Element <=? 19 / 2) multiplier factor BASE in
  Ret (cast Element l, cast Element h).

(** The carry loop of [MulTmpArray::add] over the elements after [index]; [true]
    when it returns [false] at once. *)
Fixpoint carry_loop (tmp : list Z) (overflow : Z) : bool * Z * list Z :=
  match tmp with
  | [] => (false, overflow, [])
  | e :: tmp' =>
    let e := cast Element (e + overflow) in
    if e <? BASE then
      match tmp' with
      | [] => (false, 0, [e])
      | _ => (true, 0, e :: tmp')
      end
    else
      let '(ret, overflow, tmp') := carry_loop tmp' 1 in
      (ret, overflow, e - BASE :: tmp')
  end.

(** The first element: its new value and the overflow. *)
Definition first_element (e value : Z) : outcome (Z * Z) :=
  if (2 <? MAX_SUM) || (e <=? max_ Element - value) then
    let e := cast Element (e + value) in
    if BASE <=? e then Ret (e mod BASE, e / BASE) else Ret (e, 0)
  else
    guard (BASE <? value)
      (let e := cast Element (e + value mod BASE) in
       if BASE <=? e then Ret (e - BASE, value / BASE + 1) else Ret (e, value / BASE)).

(** [MulTmpArray::add]: [tmp_array_] afterwards and the result. *)
Definition tmp_add (value : Z) (index : nat) (tmp_array_ : list Z) : outcome (list Z * bool) :=
  if TMP_SIZE <=? Z.of_nat index then Ret (tmp_array_, true)
  else
    let* e := rd tmp_array_ index in
    let* (e, overflow) := first_element e value in
    let '(ret, overflow, tail) := carry_loop (drop (S index) tmp_array_) overflow in
    let tmp_array_ := take index tmp_array_ ++ e :: tail in
    if ret : bool then Ret (tmp_array_, false)
    else
      let* last := at_ tmp_array_ (TMP_SIZE - 1) in
      Ret (tmp_array_, negb (overflow =? 0) || (TMP_INTEGER_MAX_OVER <=? last)).

(** The loop over the elements of [factor1] from [j] on, for the element [f2] of
    [factor2] at [i]; [exceeds] is [true] in the result. *)
Fixpoint mul_row (f2 : Z) (i : nat) (factor1 : list Z) (j : nat) (overflow : Z) (tmp : list Z)
  : outcome (list Z * Z * bool) :=
  match factor1 with
  | [] => Ret (tmp, overflow, false)
  | f1 :: factor1' =>
    if negb (f1 =? 0) then
      let* (result, over) := mul_elements_ f1 f2 in
      let* (tmp, exceeds) := tmp_add (cast Element (result + overflow)) (i + j) tmp in
      if exceeds : bool then Ret (tmp, overflow, true)
      else mul_row f2 i factor1' (S j) over tmp
    else if negb (overflow =? 0) then
      let* (tmp, exceeds) := tmp_add overflow (i + j) tmp in
      if exceeds : bool then Ret (tmp, overflow, true)
      else mul_row f2 i factor1' (S j) 0 tmp
    else mul_row f2 i factor1' (S j) overflow tmp
  end.

(** The loop over the elements of [factor2] from [i] on. *)
Fixpoint mul_rows (factor1 factor2 : list Z) (i : nat) (tmp : list Z) : outcome (list Z * bool) :=
  match factor2 with
  | [] => Ret (tmp, false)
  | f2 :: factor2' =>
    if f2 =? 0 then mul_rows factor1 factor2' (S i) tmp
    else
      let* (tmp, overflow, exceeds) := mul_row f2 i factor1 0 0 tmp in
      if exceeds : bool then Ret (tmp, true)
      else if negb (overflow =? 0) then
        let* (tmp, exceeds) := tmp_add overflow (i + Z.to_nat SIZE) tmp in
        if exceeds : bool then Ret (tmp, true) else mul_rows factor1 factor2' (S i) tmp
      else mul_rows factor1 factor2' (S i) tmp
  end.

(** [MulTmpArray::round] and [MulTmpArray::ceil]: do they add to the last digit
    that is kept? *)
Definition round_up (tmp : list Z) : outcome bool :=
  if FRACTION_REMAINDER =? 1 then
    let* e := at_ tmp (FRACTION_END - 1) in Ret (BASE / 2 <=? e)
  else
    let* e := at_ tmp FRACTION_END in
    Ret (FRACTION_REMAINDER / 2 <=? e mod FRACTION_REMAINDER).

Definition ceil_up (tmp : list Z) : outcome bool :=
  if FRACTION_REMAINDER =? 1 then
    let* e := at_ tmp (FRACTION_END - 1) in Ret (negb (e =? 0))
  else
    let* e := at_ tmp FRACTION_END in Ret (negb (e mod FRACTION_REMAINDER =? 0)).

Definition tmp_round (up : list Z -> outcome bool) (tmp : list Z) : outcome (list Z * bool) :=
  let* b := up tmp in
  if b : bool then tmp_add FRACTION_REMAINDER (Z.to_nat FRACTION_END) tmp else Ret (tmp, false).

(** [MulTmpArray::export_to]: [size] elements are left to write, [tmp] is
    [tmp_array_] from [index] on; the elements after the [break] keep the zeros
    of a new object. *)
Fixpoint export_loop (size : nat) (last : Z) (tmp : list Z) : list Z :=
  match size with
  | O => []
  | S size' =>
    match tmp with
    | [] => last :: repeat 0 size'
    | e :: tmp' =>
      cast Element (last + e mod FRACTION_REMAINDER * FRACTION_OVER) ::
        export_loop size' (e / FRACTION_REMAINDER) tmp'
    end
  end.

Definition tmp_export (tmp : list Z) : outcome (list Z) :=
  if FRACTION_REMAINDER =? 1 then
    let array := take (Z.to_nat SIZE) (drop (Z.to_nat FRACTION_END) tmp) in
    guard (length array =? Z.to_nat SIZE)%nat (Ret array)
  else
    let* e := at_ tmp FRACTION_END in
    Ret (export_loop (Z.to_nat SIZE) (e / FRACTION_REMAINDER) (drop (S (Z.to_nat FRACTION_END)) tmp)).

Definition mul (factor1 factor2 : Decimal) (dmr : DecimalMulRemainder) : outcome Decimal :=
  guard (is_set factor1 && is_set factor2)
    (let* (mul_tmp, exceeds) :=
       mul_rows (array_ factor1) (array_ factor2) 0 (repeat 0 (Z.to_nat TMP_SIZE)) in
     if exceeds : bool then Throw (Overflow "overflow multiplying")
     else
       let* mul_tmp :=
         if negb (FRACTION_RANK D =? 0) && negb (bool_decide (dmr = DMR_FLOOR)) then
           let* (mul_tmp, over) :=
             tmp_round (if bool_decide (dmr = DMR_ROUND) then round_up else ceil_up) mul_tmp in
           if over : bool then Throw (Overflow "overflow increment after multiplying")
           else Ret mul_tmp
         else Ret mul_tmp in
       let* array := tmp_export mul_tmp in
       Ret {| negative_ := xorb (negative_ factor1) (negative_ factor2); array_ := array |}).
End Operations.

(** ** Numbers as lists of digits *)

Section Digits.
Context (B : Z) (HB : 1 < B).

Definition digits_ok (l : list Z) : Prop := Forall (fun e => 0 <= e < B) l.

(** The number a list of digits denotes, the least significant first. *)
Fixpoint val (l : list Z) : Z :=
  match l with
  | [] => 0
  | e :: l' => e + B * val l'
  end.

Lemma pow_pos n : 0 < B ^ Z.of_nat n.
Proof using HB. apply Z.pow_pos_nonneg; lia. Qed.

Lemma pow_S n : B ^ Z.of_nat (S n) = B * B ^ Z.of_nat n.
Proof using. rewrite Nat2Z.inj_succ, Z.pow_succ_r by lia. done. Qed.

Lemma val_app l1 l2 : val (l1 ++ l2) = val l1 + B ^ Z.of_nat (length l1) * val l2.
Proof using.
  induction l1 as [|e l1 IH]; cbn [app val length].
  - change (B ^ Z.of_nat 0) with 1. lia.
  - rewrite IH, pow_S. ring.
Qed.

Lemma val_split n l : (n <= length l)%nat ->
  val l = val (take n l) + B ^ Z.of_nat n * val (drop n l).
Proof using.
  intros Hn. rewrite <- (take_drop n l) at 1. rewrite val_app, length_take, Nat.min_l by lia. done.
Qed.

Lemma val_repeat0 n : val (repeat 0 n) = 0.
Proof using. induction n as [|n IH]; simpl; [done|]. rewrite IH. lia. Qed.

Lemma digits_ok_0 n : digits_ok (repeat 0 n).
Proof using HB. induction n as [|n IH]; [constructor|]. constructor; [lia|exact IH]. Qed.

Lemma val_bound l : digits_ok l -> 0 <= val l < B ^ Z.of_nat (length l).
Proof using HB.
  induction 1 as [|e l He _ IH]; cbn [val length].
  - change (B ^ Z.of_nat 0) with 1. lia.
  - rewrite pow_S. nia.
Qed.

Lemma digits_take n l : digits_ok l -> digits_ok (take n l).
Proof using. apply Forall_take. Qed.

Lemma digits_drop n l : digits_ok l -> digits_ok (drop n l).
Proof using. apply Forall_drop. Qed.

Lemma val_inj l1 : forall l2, digits_ok l1 -> digits_ok l2 -> length l1 = length l2 ->
  val l1 = val l2 -> l1 = l2.
Proof using HB.
  induction l1 as [|e l1 IH]; intros [|f l2] H1 H2 Hl Hv; [done..|].
  apply Forall_cons in H1 as [He H1], H2 as [Hf H2]. cbn [val] in Hv. injection Hl as Hl.
  pose proof (val_bound l1 H1). pose proof (val_bound l2 H2).
  assert (val l1 = val l2) by nia. assert (e = f) by nia. subst f. f_equal. by apply IH.
Qed.

(** The element at a position, between the digits below and above it. *)
Lemma val_at i e l : l !! i = Some e -> digits_ok l ->
  (0 <= e < B) /\ drop i l = e :: drop (S i) l /\ exists low,
  0 <= low < B ^ Z.of_nat i /\ val l = low + B ^ Z.of_nat i * (e + B * val (drop (S i) l)).
Proof using HB.
  intros Hi Hl. assert (Hd : drop i l = e :: drop (S i) l) by by apply drop_S.
  split; [exact (proj1 (Forall_lookup _ _) Hl i e Hi)|]. split; [done|]. exists (val (take i l)).
  assert (Hlen : (i < length l)%nat) by by apply lookup_lt_Some in Hi. split.
  - pose proof (val_bound (take i l) (digits_take i l Hl)) as H.
    rewrite length_take, Nat.min_l in H by lia. done.
  - rewrite (val_split i) at 1 by lia. by rewrite Hd.
Qed.
End Digits.

#[export] Hint Resolve digits_take digits_drop : unixcommons.

(** ** Specification *)

Definition magnitude (D : DecimalRanks) (x : Decimal) : Z := val (BASE D) (array_ x).

(** The number of units of the last digit. *)
Definition value (D : DecimalRanks) (x : Decimal) : Z :=
  if negative_ x then - magnitude D x else magnitude D x.

Definition valid (D : DecimalRanks) (x : Decimal) : Prop :=
  length (array_ x) = Z.to_nat (SIZE D) /\ digits_ok (BASE D) (array_ x) /\
  magnitude D x < MAX_VALUE_ D.

#[export] Instance Decimal_valid_dec D x : Decision (valid D x).
Proof. unfold valid, digits_ok. apply _. Defined.

Definition represents (D : DecimalRanks) (r : outcome Decimal) (z : Z) : Prop :=
  if Z.abs z <? MAX_VALUE_ D then exists x, r = Ret x /\ valid D x /\ value D x = z
  else exists what, r = Throw (Overflow what).

Section Facts.
Context (D : DecimalRanks) (HD : decimal_asserts D).

Local Abbreviation B := (BASE D).

(** *** Constants *)

Lemma digits_per_element : 2 <= DIGITS_PER_ELEMENT D <= 18 /\ 2 * B <= max_ (Base D).
Proof using HD.
  destruct HD as ([HT Hs] & _). unfold BASE, DIGITS_PER_ELEMENT, integer, max_, digits10 in *.
  rewrite Hs in HT. rewrite !elem_of_cons, elem_of_nil in HT.
  destruct HT as [-> | [-> | [-> | [-> | []]]]]; by_eval.
Qed.

Lemma base_gt : 100 <= B.
Proof using HD.
  pose proof digits_per_element as [H _]. unfold BASE. change 100 with (10 ^ 2).
  apply Z.pow_le_mono_r; lia.
Qed.

Lemma base_gt1 : 1 < B.
Proof using HD. pose proof base_gt. lia. Qed.

Lemma size_bounds : 1 <= SIZE D /\
  (SIZE D - 1) * DIGITS_PER_ELEMENT D < TOTAL_RANK D <= SIZE D * DIGITS_PER_ELEMENT D.
Proof using HD.
  pose proof digits_per_element as [H _]. destruct HD as (_ & HT & _). unfold SIZE.
  pose proof (Z.div_mod (TOTAL_RANK D + DIGITS_PER_ELEMENT D - 1) (DIGITS_PER_ELEMENT D)) as E.
  pose proof (Z.mod_pos_bound (TOTAL_RANK D + DIGITS_PER_ELEMENT D - 1) (DIGITS_PER_ELEMENT D)).
  set (q := (TOTAL_RANK D + DIGITS_PER_ELEMENT D - 1) / DIGITS_PER_ELEMENT D) in *. nia.
Qed.

Lemma base_pow n : 0 <= n -> B ^ n = 10 ^ (n * DIGITS_PER_ELEMENT D).
Proof using HD.
  intros Hn. pose proof digits_per_element as [H _]. unfold BASE.
  rewrite <- Z.pow_mul_r by lia. f_equal. lia.
Qed.

Lemma max_value_size : MAX_VALUE_ D = INTEGER_MAX_OVER D * B ^ (SIZE D - 1) /\
  1 <= INTEGER_MAX_OVER D <= B.
Proof using HD.
  pose proof size_bounds as (H1 & H2 & H3). pose proof digits_per_element as [H _].
  unfold MAX_VALUE_, INTEGER_MAX_OVER. rewrite base_pow by lia. split.
  - rewrite <- Z.pow_add_r by nia. f_equal. lia.
  - split.
    + pose proof (Z.pow_pos_nonneg 10
        (DIGITS_PER_ELEMENT D - (SIZE D * DIGITS_PER_ELEMENT D - TOTAL_RANK D))). lia.
    + unfold BASE. apply Z.pow_le_mono_r; lia.
Qed.

(** The last element alone tells whether a list of digits is in range. *)
Lemma top_element l n over : digits_ok B l -> length l = S n -> exists last,
  l !! n = Some last /\ (val B l < over * B ^ Z.of_nat n <-> last < over).
Proof using HD.
  intros Hl Hn. pose proof base_gt1 as HB. destruct (lookup_lt_is_Some_2 l n) as [e He]; [lia|].
  exists e. split; [done|]. destruct (val_at B HB n e l He Hl) as (He' & _ & low & Hlow & ->).
  rewrite drop_ge by lia. cbn [val]. pose proof (pow_pos B HB n). nia.
Qed.

Lemma valid_last l : length l = Z.to_nat (SIZE D) -> digits_ok B l -> exists last,
  at_ l (SIZE D - 1) = Ret last /\ (val B l < MAX_VALUE_ D <-> last < INTEGER_MAX_OVER D).
Proof using HD.
  intros Hlen Hl. pose proof size_bounds as [HS _]. pose proof max_value_size as [-> _].
  destruct (top_element l (Z.to_nat (SIZE D - 1)) (INTEGER_MAX_OVER D) Hl) as (last & E & H); [lia|].
  exists last. unfold at_, rd. rewrite E. split; [done|]. by rewrite Z2Nat.id in H by lia.
Qed.

Lemma Decimal_valid_set x : valid D x -> is_set D x = true.
Proof using HD.
  intros (Hl & Hd & _). unfold is_set. pose proof size_bounds. pose proof digits_per_element.
  destruct (array_ x) as [|e l]; [simpl in Hl; lia|]. apply Forall_cons in Hd as [He _].
  by decide_Z.
Qed.

Lemma element_cast z : 0 <= z <= 2 * B -> cast (Base D) z = z.
Proof using HD.
  pose proof digits_per_element. intros Hz. apply unsigned_id; [apply HD|lia].
Qed.

(** *** Comparison *)

Lemma less_loop_spec n a t : digits_ok B a -> digits_ok B t -> (n <= length a)%nat ->
  (n <= length t)%nat -> drop n a = drop n t -> exists b i,
  less_loop n a t = Ret (b, i) /\ (i < Nat.max 1 n)%nat /\ drop (S i) a = drop (S i) t /\
  b = (val B a <? val B t).
Proof using HD.
  intros Ha Ht. pose proof base_gt1 as HB. induction n as [|i IH]; intros Hna Hnt Hd.
  { rewrite !drop_0 in Hd. subst t. exists false, O. repeat split; [lia|]. by rewrite Z.ltb_irrefl. }
  cbn [less_loop]. destruct (lookup_lt_is_Some_2 a i) as [ea Ea]; [lia|].
  destruct (lookup_lt_is_Some_2 t i) as [et Et]; [lia|].
  unfold rd. rewrite Ea, Et. cbn [obind].
  destruct (val_at B HB i ea a Ea Ha) as (Hea & Da & la & Hla & Va).
  destruct (val_at B HB i et t Et Ht) as (Het & Dt & lt & Hlt & Vt).
  pose proof (pow_pos B HB i). rewrite Hd in Va.
  destruct (Z.ltb_spec ea et); [|destruct (Z.ltb_spec et ea)].
  - exists true, i. repeat split; [lia|done|]. symmetry. apply Z.ltb_lt. rewrite Va, Vt. nia.
  - exists false, i. repeat split; [lia|done|]. symmetry. apply Z.ltb_ge. rewrite Va, Vt. nia.
  - destruct IH as (b & j & E & Hj & Hdj & Hb); [lia|lia|rewrite Da, Dt, Hd; f_equal; lia|].
    exists b, j. repeat split; [done|lia|done|done].
Qed.

Lemma is_less_than_spec x y : valid D x -> valid D y -> exists i,
  is_less_than_ D x y = Ret (magnitude D x <? magnitude D y, i) /\
  (S i <= Z.to_nat (SIZE D))%nat /\ drop (S i) (array_ x) = drop (S i) (array_ y).
Proof using HD.
  intros (Lx & Dx & _) (Ly & Dy & _). pose proof size_bounds as [HS _].
  destruct (less_loop_spec (Z.to_nat (SIZE D)) (array_ x) (array_ y)) as (b & i & E & Hi & Hd & Hb);
    [done|done|lia|lia|by rewrite !drop_ge by lia|].
  exists i. unfold is_less_than_. rewrite E, Hb. repeat split; [lia|done].
Qed.

Lemma all_zero_spec l : digits_ok B l -> all_zero l = (val B l =? 0).
Proof using HD.
  pose proof base_gt1 as HB.
  induction 1 as [|e l He Hl IH]; cbn [all_zero val]; [done|]. rewrite IH.
  pose proof (val_bound B HB l Hl). destruct (Z.eqb_spec e 0); cbn [negb]; repeat case_Z; try done; nia.
Qed.

Lemma same_elements_spec a : forall b, digits_ok B a -> digits_ok B b -> length a = length b ->
  same_elements a b = (val B a =? val B b).
Proof using HD.
  pose proof base_gt1 as HB. intros b Ha Hb Hl.
  assert (E : same_elements a b = true <-> a = b).
  { clear Ha Hb. revert b Hl. induction a as [|e a IH]; intros [|f b] Hl; [done..|].
    cbn [same_elements]. injection Hl as Hl. destruct (Z.eqb_spec e f) as [->|Hne]; cbn [negb].
    - rewrite IH by done. split; [by intros ->|by intros [= ->]].
    - split; [done|]. by intros [= -> _]. }
  apply eq_iff_eq_true. rewrite E, Z.eqb_eq. split; [by intros ->|]. by apply (val_inj B HB).
Qed.

Lemma both_zero_spec a : forall b, length a = length b ->
  both_zero a b = all_zero a && all_zero b.
Proof using.
  induction a as [|e a IH]; intros [|f b] Hl; [done..|]. cbn [both_zero all_zero].
  injection Hl as Hl. rewrite IH by done. by destruct (e =? 0), (f =? 0); cbn;
    rewrite ?andb_false_r.
Qed.

Lemma magnitude_bound x : valid D x -> 0 <= magnitude D x < MAX_VALUE_ D.
Proof using HD.
  intros (_ & Hd & Hm). split; [|done]. apply (val_bound B base_gt1 _ Hd).
Qed.

Lemma Decimal_equal_value x y : valid D x -> valid D y -> equal D x y = Ret (value D x =? value D y).
Proof using HD.
  intros Hx Hy. unfold equal. rewrite !Decimal_valid_set by done. cbn [andb guard]. f_equal.
  pose proof (magnitude_bound x Hx) as Bx. pose proof (magnitude_bound y Hy) as By.
  destruct Hx as (Lx & Dx & _), Hy as (Ly & Dy & _). unfold value, magnitude in *.
  rewrite same_elements_spec, both_zero_spec, !all_zero_spec by (done || congruence).
  apply eq_iff_eq_true.
  destruct (negative_ x), (negative_ y); cbn [eqb]; rewrite ?andb_true_iff, !Z.eqb_eq; lia.
Qed.

Lemma Decimal_less_value x y : valid D x -> valid D y -> less D x y = Ret (value D x <? value D y).
Proof using HD.
  intros Hx Hy. unfold less, is_zero. rewrite !Decimal_valid_set by done. cbn [andb guard obind].
  pose proof (magnitude_bound x Hx) as Bx. pose proof (magnitude_bound y Hy) as By.
  destruct (is_less_than_spec x y Hx Hy) as (i & Ei & _).
  destruct (is_less_than_spec y x Hy Hx) as (j & Ej & _).
  destruct Hx as (Lx & Dx & _), Hy as (Ly & Dy & _). unfold value.
  rewrite Ei, Ej, !all_zero_spec by done. cbn [obind]. unfold magnitude in *.
  destruct (negative_ x), (negative_ y); [| | |done].
  - f_equal. apply eq_iff_eq_true. rewrite !Z.ltb_lt. lia.
  - destruct (Z.eqb_spec (val B (array_ x)) 0) as [E|E]; cbn [negb]; f_equal; symmetry.
    + destruct (Z.eqb_spec (val B (array_ y)) 0); cbn [negb]; [apply Z.ltb_ge|apply Z.ltb_lt]; lia.
    + apply Z.ltb_lt. lia.
  - f_equal. symmetry. apply Z.ltb_ge. lia.
Qed.

(** *** Addition and subtraction *)

Lemma add_elements_spec a : forall b o, digits_ok B a -> digits_ok B b -> length a = length b ->
  0 <= o <= 1 -> forall l o', add_elements D a b o = (l, o') ->
  digits_ok B l /\ length l = length a /\ 0 <= o' <= 1 /\
  val B l + B ^ Z.of_nat (length l) * o' = val B a + val B b + o.
Proof using HD.
  induction a as [|e a IH]; intros [|f b] o Ha Hb Hl Ho l o'; try done; cbn [add_elements].
  { intros [= <- <-]. repeat split; [constructor|lia|lia|]. cbn. lia. }
  apply Forall_cons in Ha as [He Ha], Hb as [Hf Hb]. injection Hl as Hl.
  rewrite element_cast by lia.
  set (p := if B <=? e + f + o then (e + f + o - B, 1) else (e + f + o, 0)).
  assert (Hp : 0 <= fst p < B /\ 0 <= snd p <= 1 /\ fst p + B * snd p = e + f + o).
  { unfold p. case_Z; cbn; lia. }
  destruct p as [d o1]. cbn [fst snd] in Hp.
  destruct (add_elements D a b o1) as [l1 o2] eqn:E. intros [= <- <-].
  destruct (IH b o1 Ha Hb Hl ltac:(lia) l1 o2 E) as (Hd & Hlen & Ho2 & Hv).
  repeat split; [constructor; [lia|done]|cbn; congruence|lia|lia|]. cbn [length val]. rewrite pow_S.
  replace (d + B * val B l1 + B * B ^ Z.of_nat (length l1) * o2)
    with (d + B * (val B l1 + B ^ Z.of_nat (length l1) * o2)) by ring. rewrite Hv. lia.
Qed.

Lemma internal_add_spec a b : digits_ok B a -> digits_ok B b -> length a = Z.to_nat (SIZE D) ->
  length b = Z.to_nat (SIZE D) -> exists l,
  internal_add_ D a b = Ret (l, MAX_VALUE_ D <=? val B a + val B b) /\
  (val B a + val B b < MAX_VALUE_ D ->
   length l = Z.to_nat (SIZE D) /\ digits_ok B l /\ val B l = val B a + val B b).
Proof using HD.
  intros Ha Hb La Lb. unfold internal_add_. destruct (add_elements D a b 0) as [l o] eqn:E.
  destruct (add_elements_spec a b 0 Ha Hb ltac:(congruence) ltac:(lia) l o E) as (Hl & Ll & Ho & Hv).
  exists l. rewrite La in Ll. destruct (valid_last l Ll Hl) as (last & -> & Hlast). cbn [obind].
  pose proof size_bounds as [HS _]. pose proof base_gt1 as HB. pose proof (val_bound B HB l Hl) as Hb'.
  assert (HP : MAX_VALUE_ D <= B ^ Z.of_nat (length l)).
  { pose proof max_value_size as [-> HI]. rewrite Ll, Z2Nat.id by lia.
    replace (SIZE D) with (1 + (SIZE D - 1)) at 2 by lia. rewrite Z.pow_add_r, Z.pow_1_r by lia.
    pose proof (Z.pow_pos_nonneg B (SIZE D - 1)). nia. }
  assert (Eo : (negb (o =? 0) || (INTEGER_MAX_OVER D <=? last)) = (MAX_VALUE_ D <=? val B a + val B b)).
  { apply eq_iff_eq_true. rewrite orb_true_iff, negb_true_iff, Z.eqb_neq, !Z.leb_le.
    destruct (Z.eq_dec o 0) as [->|]; [|nia]. lia. }
  rewrite Eo. split; [done|]. intros Hlt. repeat split; [done|done|nia].
Qed.

Lemma sub_elements_spec n : forall a b u, digits_ok B a -> digits_ok B b -> (n <= length a)%nat ->
  (n <= length b)%nat -> 0 <= u <= 1 -> forall l u', sub_elements D n a b u = (l, u') ->
  digits_ok B l /\ length l = n /\ 0 <= u' <= 1 /\
  val B l - B ^ Z.of_nat n * u' = val B (take n a) - val B (take n b) - u.
Proof using HD.
  induction n as [|n IH]; intros a b u Ha Hb La Lb Hu l u'.
  { cbn [sub_elements]. intros [= <- <-]. repeat split; [constructor|lia|lia|].
    change (B ^ Z.of_nat 0) with 1. rewrite !take_0. cbn [val]. lia. }
  destruct a as [|e a]; [simpl in La; lia|]. destruct b as [|f b]; [simpl in Lb; lia|].
  apply Forall_cons in Ha as [He Ha], Hb as [Hf Hb]. cbn [sub_elements length take val] in *.
  rewrite element_cast by lia.
  set (p := if e <? f + u then (B - (f + u - e), 1) else (e - (f + u), 0)).
  assert (Hp : 0 <= fst p < B /\ 0 <= snd p <= 1 /\ fst p - B * snd p = e - f - u).
  { unfold p. case_Z; cbn; lia. }
  destruct p as [d u1]. cbn [fst snd] in Hp.
  destruct (sub_elements D n a b u1) as [l1 u2] eqn:E. intros [= <- <-].
  destruct (IH a b u1 Ha Hb ltac:(lia) ltac:(lia) ltac:(lia) l1 u2 E) as (Hd & Hlen & Hu2 & Hv).
  repeat split; [constructor; [lia|done]|cbn; congruence|lia|lia|]. cbn [val]. rewrite pow_S.
  replace (d + B * val B l1 - B * B ^ Z.of_nat n * u2)
    with (d + B * (val B l1 - B ^ Z.of_nat n * u2)) by ring. rewrite Hv. lia.
Qed.

Lemma internal_sub_spec a b i : digits_ok B a -> digits_ok B b -> length a = Z.to_nat (SIZE D) ->
  length b = Z.to_nat (SIZE D) -> (S i <= Z.to_nat (SIZE D))%nat -> drop (S i) a = drop (S i) b ->
  val B b <= val B a -> exists l, internal_sub_ D a b i = Ret l /\
  length l = Z.to_nat (SIZE D) /\ digits_ok B l /\ val B l = val B a - val B b.
Proof using HD.
  intros Ha Hb La Lb Hi Hd Hle. unfold internal_sub_. pose proof base_gt1 as HB.
  destruct (sub_elements D (S i) a b 0) as [l u] eqn:E.
  destruct (sub_elements_spec (S i) a b 0 Ha Hb ltac:(lia) ltac:(lia) ltac:(lia) l u E)
    as (Hl & Ll & Hu & Hv).
  rewrite (val_split B (S i) a), (val_split B (S i) b), Hd in Hle by lia.
  pose proof (val_bound B HB l Hl) as Hb'. rewrite Ll in Hb'.
  assert (u = 0) as -> by nia. rewrite Z.eqb_refl. cbn [guard]. eexists. split; [done|].
  rewrite length_app, repeat_length. split; [lia|]. split.
  - apply Forall_app. split; [done|]. by apply digits_ok_0.
  - rewrite val_app, val_repeat0. rewrite (val_split B (S i) a), (val_split B (S i) b), Hd by lia. lia.
Qed.

Lemma Decimal_represents_ret (n : bool) l z : length l = Z.to_nat (SIZE D) -> digits_ok B l ->
  val B l < MAX_VALUE_ D -> z = (if n then - val B l else val B l) ->
  represents D (Ret {| negative_ := n; array_ := l |}) z.
Proof using HD.
  intros Hl Hd Hv ->. unfold represents. pose proof (val_bound B base_gt1 l Hd).
  replace (Z.abs _) with (val B l) by (destruct n; lia). decide_Z. by eexists.
Qed.

Lemma Decimal_represents_throw what z : MAX_VALUE_ D <= Z.abs z -> represents D (Throw (Overflow what)) z.
Proof using. intros H. unfold represents. decide_Z. by eexists. Qed.

Lemma Decimal_represents_fits r z : represents D r z -> Z.abs z < MAX_VALUE_ D ->
  exists x, r = Ret x /\ valid D x /\ value D x = z.
Proof using. unfold represents. intros H Hz. by rewrite (proj2 (Z.ltb_lt _ _) Hz) in H. Qed.

(** The two halves of [add] and [sub]. *)
Lemma add_same x y (n : bool) what z : valid D x -> valid D y ->
  z = (if n then - (magnitude D x + magnitude D y) else magnitude D x + magnitude D y) ->
  represents D
    (let* (array, over) := internal_add_ D (array_ x) (array_ y) in
     if over : bool then Throw (Overflow what) else Ret {| negative_ := n; array_ := array |}) z.
Proof using HD.
  intros Hx Hy Hz. pose proof (magnitude_bound x Hx). pose proof (magnitude_bound y Hy).
  destruct (internal_add_spec (array_ x) (array_ y)) as (l & -> & Hl);
    [apply Hx|apply Hy|apply Hx|apply Hy|]. cbn [obind]. unfold magnitude in *. case_Z.
  - apply Decimal_represents_throw. destruct n; lia.
  - destruct Hl as (Ll & Dl & Vl); [lia|]. apply Decimal_represents_ret; [done|done|lia|].
    by rewrite Vl.
Qed.

Lemma sub_magnitudes x y (nx ny : bool) z : valid D x -> valid D y ->
  z = (if nx then - magnitude D x else magnitude D x) + (if ny then - magnitude D y else magnitude D y) ->
  nx = negb ny ->
  represents D
    (let* (lt, diff_index) := is_less_than_ D x y in
     if lt : bool then
       let* array := internal_sub_ D (array_ y) (array_ x) diff_index in
       Ret {| negative_ := ny; array_ := array |}
     else
       let* array := internal_sub_ D (array_ x) (array_ y) diff_index in
       Ret {| negative_ := nx; array_ := array |}) z.
Proof using HD.
  intros Hx Hy -> ->. pose proof (magnitude_bound x Hx). pose proof (magnitude_bound y Hy).
  destruct (is_less_than_spec x y Hx Hy) as (i & -> & Hi & Hd). cbn [obind]. unfold magnitude in *.
  destruct Hx as (Lx & Dx & _), Hy as (Ly & Dy & _). case_Z.
  - destruct (internal_sub_spec (array_ y) (array_ x) i) as (l & -> & Ll & Dl & Vl);
      [done|done|done|done|done|done|lia|]. cbn [obind].
    apply Decimal_represents_ret; [done|done|lia|]. rewrite Vl. destruct ny; cbn [negb]; lia.
  - destruct (internal_sub_spec (array_ x) (array_ y) i) as (l & -> & Ll & Dl & Vl);
      [done|done|done|done|done|done|lia|]. cbn [obind].
    apply Decimal_represents_ret; [done|done|lia|]. rewrite Vl. destruct ny; cbn [negb]; lia.
Qed.

Lemma Decimal_add_represents x y : valid D x -> valid D y -> represents D (add D x y) (value D x + value D y).
Proof using HD.
  intros Hx Hy. unfold add. rewrite !Decimal_valid_set by done. cbn [andb guard]. unfold value.
  destruct (negative_ x), (negative_ y); cbn [eqb].
  - apply (add_same x y true); [done|done|lia].
  - by apply sub_magnitudes.
  - by apply sub_magnitudes.
  - by apply (add_same x y false).
Qed.

Lemma Decimal_sub_represents x y : valid D x -> valid D y -> represents D (sub D x y) (value D x - value D y).
Proof using HD.
  intros Hx Hy. unfold sub. rewrite !Decimal_valid_set by done. cbn [andb guard]. unfold value.
  destruct (negative_ x), (negative_ y); cbn [eqb negb].
  - apply sub_magnitudes; [done|done|lia|done].
  - apply (add_same x y true); [done|done|lia].
  - apply (add_same x y false); [done|done|lia].
  - apply sub_magnitudes; [done|done|lia|done].
Qed.

(** *** Multiplication *)

Definition TMP_VALUE : Z := 10 ^ TMP_TOTAL_RANK D.

Lemma tmp_value : TMP_VALUE = MAX_VALUE_ D * MAX_FRACTION_ D.
Proof using HD.
  unfold TMP_VALUE, TMP_TOTAL_RANK, MAX_VALUE_, MAX_FRACTION_, INTEGER_RANK.
  destruct HD as (_ & ? & ?). rewrite <- Z.pow_add_r by lia. f_equal. lia.
Qed.

Lemma tmp_size_bounds : 1 <= TMP_SIZE D /\
  (TMP_SIZE D - 1) * DIGITS_PER_ELEMENT D < TMP_TOTAL_RANK D <= TMP_SIZE D * DIGITS_PER_ELEMENT D.
Proof using HD.
  pose proof digits_per_element as [H _]. destruct HD as (_ & HT & HF). unfold TMP_SIZE.
  assert (HTT : 0 < TMP_TOTAL_RANK D) by (unfold TMP_TOTAL_RANK, INTEGER_RANK; lia).
  pose proof (Z.div_mod (TMP_TOTAL_RANK D) (DIGITS_PER_ELEMENT D)) as E.
  pose proof (Z.mod_pos_bound (TMP_TOTAL_RANK D) (DIGITS_PER_ELEMENT D)).
  set (q := TMP_TOTAL_RANK D / DIGITS_PER_ELEMENT D) in *. case_Z; nia.
Qed.

Lemma tmp_value_size : TMP_VALUE = TMP_INTEGER_MAX_OVER D * B ^ (TMP_SIZE D - 1) /\
  1 <= TMP_INTEGER_MAX_OVER D <= B.
Proof using HD.
  pose proof tmp_size_bounds as (H1 & H2 & H3). pose proof digits_per_element as [H _].
  unfold TMP_VALUE, TMP_INTEGER_MAX_OVER. rewrite base_pow by lia. split.
  - rewrite <- Z.pow_add_r by nia. f_equal. lia.
  - split.
    + pose proof (Z.pow_pos_nonneg 10
        (DIGITS_PER_ELEMENT D - (TMP_SIZE D * DIGITS_PER_ELEMENT D - TMP_TOTAL_RANK D))). lia.
    + unfold BASE. apply Z.pow_le_mono_r; lia.
Qed.

Lemma base_product : B * B < (if digits10 (Base D) <=? 19 / 2 then 2 ^ 64 else B * 2 ^ 64).
Proof using HD.
  destruct HD as ([HT Hs] & _). unfold BASE, DIGITS_PER_ELEMENT, integer, max_, digits10 in *.
  rewrite Hs in HT. rewrite !elem_of_cons, elem_of_nil in HT.
  destruct HT as [-> | [-> | [-> | [-> | []]]]]; by_eval.
Qed.

Lemma mul_elements_spec a b : 0 <= a < B -> 0 <= b < B -> exists minor major,
  mul_elements_ D a b = Ret (minor, major) /\ a * b = minor + B * major /\
  0 <= minor < B /\ 0 <= major <= B - 2.
Proof using HD.
  intros Ha Hb. pose proof base_gt1 as HB. pose proof base_product as HP.
  exists ((a * b) mod B), (a * b / B).
  pose proof (Z.div_mod (a * b) B ltac:(lia)) as E. pose proof (Z.mod_pos_bound (a * b) B ltac:(lia)).
  assert (Hq : 0 <= a * b / B <= B - 2) by (set (q := a * b / B) in *; nia).
  split; [|lia]. unfold mul_elements_, mul_base. destruct (digits10 (Base D) <=? 19 / 2).
  - unfold u64. rewrite Z.mod_small by nia. decide_Z. cbn [negb guard obind].
    by rewrite !element_cast by lia.
  - unfold divq. pose proof (Z.div_mod (a * b) (2 ^ 64) ltac:(lia)).
    pose proof (Z.mod_pos_bound (a * b) (2 ^ 64) ltac:(lia)).
    assert (a * b / 2 ^ 64 < B) by (apply Z.div_lt_upper_bound; nia). decide_Z. cbn [obind].
    unfold u64. replace (a * b / 2 ^ 64 * 2 ^ 64 + (a * b) mod 2 ^ 64) with (a * b) by lia.
    by rewrite !element_cast by lia.
Qed.

Lemma first_element_spec e v : 0 <= e < B -> 0 <= v <= 2 * B - 2 -> exists e' o,
  first_element D e v = Ret (e', o) /\ 0 <= e' < B /\ 0 <= o <= 2 /\ e' + B * o = e + v.
Proof using HD.
  intros He Hv. pose proof base_gt1 as HB. pose proof digits_per_element as [_ Hm].
  unfold first_element, MAX_SUM.
  destruct ((2 <? max_ (Base D) / B) || (e <=? max_ (Base D) - v)) eqn:Hc.
  - assert (Hs : e + v <= max_ (Base D)).
    { apply orb_true_iff in Hc as [Hc%Z.ltb_lt|Hc%Z.leb_le]; [|lia].
      pose proof (Z.mul_div_le (max_ (Base D)) B). nia. }
    rewrite unsigned_id by (apply HD || lia). pose proof (Z.div_mod (e + v) B ltac:(lia)).
    pose proof (Z.mod_pos_bound (e + v) B ltac:(lia)).
    case_Z; eexists _, _; (split; [done|]); [|lia].
    split; [lia|]. split; [|lia]. set (q := (e + v) / B) in *. nia.
  - apply orb_false_iff in Hc as [_ Hc%Z.leb_gt]. decide_Z. cbn [guard].
    assert (Ev : v / B = 1 /\ v mod B = v - B).
    { assert (Eq : v / B = 1) by (symmetry; apply (Z.div_unique _ _ _ (v - B)); lia).
      split; [done|]. rewrite Z.mod_eq, Eq by lia. lia. }
    destruct Ev as [-> ->]. rewrite element_cast by lia.
    case_Z; eexists _, _; (split; [done|]); lia.
Qed.

Lemma carry_loop_spec l : forall o, digits_ok B l -> 0 <= o <= 2 -> forall ret o' l',
  carry_loop D l o = (ret, o', l') ->
  length l' = length l /\ digits_ok B l' /\ 0 <= o' <= 2 /\
  val B l' + B ^ Z.of_nat (length l) * o' = val B l + o /\
  (ret = true -> o' = 0 /\ l <> [] /\ last l' = last l).
Proof using HD.
  pose proof base_gt as HB. induction l as [|e l IH]; intros o Hl Ho ret o' l'; cbn [carry_loop].
  { intros [= <- <- <-]. repeat split; [constructor|lia|lia|cbn; lia|done..]. }
  apply Forall_cons in Hl as [He Hl]. rewrite element_cast by lia.
  destruct (Z.ltb_spec (e + o) B).
  - destruct l as [|f l]; intros [= <- <- <-].
    + repeat split; [by repeat constructor; lia|lia|lia|cbn; lia|done..].
    + repeat split; [constructor; [lia|done]|lia|lia|cbn [val]; lia|done..].
  - destruct (carry_loop D l 1) as [[r o1] l1] eqn:E. intros [= <- <- <-].
    destruct (IH 1 Hl ltac:(lia) r o1 l1 E) as (Hlen & Hd & Ho1 & Hv & Hr).
    repeat split; [by cbn; f_equal|constructor; [lia|done]|lia|lia| |by apply Hr|done|].
    + cbn [val length]. rewrite pow_S.
      replace (e + o - B + B * val B l1 + B * B ^ Z.of_nat (length l) * o1)
        with (e + o - B + B * (val B l1 + B ^ Z.of_nat (length l) * o1)) by ring. rewrite Hv. lia.
    + destruct (Hr H0) as (_ & Hne & Hlast). destruct l as [|f l]; [done|].
      destruct l1 as [|f1 l1]; [done|]. exact Hlast.
Qed.

(** A temporary array in range. *)
Definition tmp_ok (tmp : list Z) : Prop :=
  length tmp = Z.to_nat (TMP_SIZE D) /\ digits_ok B tmp /\ val B tmp < TMP_VALUE.

Lemma tmp_last l : length l = Z.to_nat (TMP_SIZE D) -> digits_ok B l -> exists x,
  at_ l (TMP_SIZE D - 1) = Ret x /\ last l = Some x /\
  (val B l < TMP_VALUE <-> x < TMP_INTEGER_MAX_OVER D).
Proof using HD.
  intros Hlen Hl. pose proof tmp_size_bounds as [HS _]. pose proof tmp_value_size as [-> _].
  destruct (top_element l (Z.to_nat (TMP_SIZE D - 1)) (TMP_INTEGER_MAX_OVER D) Hl) as (x & E & H); [lia|].
  exists x. unfold at_, rd. rewrite E. split; [done|]. split; [|by rewrite Z2Nat.id in H by lia].
  rewrite last_lookup, Hlen. rewrite <- E. f_equal. lia.
Qed.

Lemma tmp_power : TMP_VALUE <= B ^ Z.of_nat (Z.to_nat (TMP_SIZE D)).
Proof using HD.
  pose proof tmp_value_size as [-> HI]. pose proof tmp_size_bounds as [HS _]. pose proof base_gt1.
  rewrite Z2Nat.id by lia. replace (TMP_SIZE D) with (1 + (TMP_SIZE D - 1)) at 2 by lia.
  rewrite Z.pow_add_r, Z.pow_1_r by lia. pose proof (Z.pow_pos_nonneg B (TMP_SIZE D - 1)). nia.
Qed.

Lemma tmp_add_spec v index tmp : tmp_ok tmp -> 0 <= v <= 2 * B - 2 ->
  (index < Z.to_nat (TMP_SIZE D))%nat -> exists tmp',
  tmp_add D v index tmp = Ret (tmp', TMP_VALUE <=? val B tmp + v * B ^ Z.of_nat index) /\
  (val B tmp + v * B ^ Z.of_nat index < TMP_VALUE ->
   tmp_ok tmp' /\ val B tmp' = val B tmp + v * B ^ Z.of_nat index).
Proof using HD.
  intros (Ht & Hd & Hv) Hval Hi. pose proof base_gt1 as HB. unfold tmp_add. decide_Z.
  destruct (lookup_lt_is_Some_2 tmp index) as [e He]; [lia|]. unfold rd. rewrite He. cbn [obind].
  assert (Hee : 0 <= e < B) by exact (proj1 (Forall_lookup _ _) Hd index e He).
  destruct (first_element_spec e v Hee Hval) as (e' & o & -> & He' & Ho & Eo). cbn [obind].
  destruct (carry_loop D (drop (S index) tmp) o) as [[ret o'] tail] eqn:E.
  destruct (carry_loop_spec _ o (digits_drop B (S index) tmp Hd) Ho ret o' tail E)
    as (Hlt & Hdt & Ho' & Hvt & Hret).
  rewrite length_drop in Hlt, Hvt. set (tmp' := take index tmp ++ e' :: tail).
  assert (Hlen : length tmp' = Z.to_nat (TMP_SIZE D)).
  { unfold tmp'. rewrite length_app, length_take. cbn [length]. lia. }
  assert (Hd' : digits_ok B tmp').
  { apply Forall_app. split; [by apply digits_take|]. by constructor. }
  assert (Hsum : val B tmp' + B ^ Z.of_nat (Z.to_nat (TMP_SIZE D)) * o' =
    val B tmp + v * B ^ Z.of_nat index).
  { rewrite (val_split B index tmp) by lia. rewrite (drop_S _ _ _ He). unfold tmp'.
    rewrite val_app, length_take, Nat.min_l by lia. cbn [val].
    replace (Z.of_nat (Z.to_nat (TMP_SIZE D)))
      with (Z.of_nat index + (1 + Z.of_nat (length tmp - S index))) by lia.
    rewrite !Z.pow_add_r, Z.pow_1_r by lia.
    replace (v * B ^ Z.of_nat index) with (B ^ Z.of_nat index * (e' + B * o - e)) by (rewrite Eo; ring).
    replace (val B tail) with (val B (drop (S index) tmp) + o -
      B ^ Z.of_nat (length tmp - S index) * o') by lia. ring. }
  pose proof (val_bound B HB tmp' Hd') as Hb. rewrite Hlen in Hb. pose proof tmp_power.
  destruct (tmp_last tmp' Hlen Hd') as (x & Ex & Lx & Hx). exists tmp'. destruct ret.
  - destruct (Hret eq_refl) as (-> & Hne & Hlast). rewrite Z.mul_0_r, Z.add_0_r in Hsum.
    destruct (tmp_last tmp Ht Hd) as (y & _ & Ly & Hy).
    assert (x = y) as ->.
    { apply (inj Some). rewrite <- Lx, <- Ly. unfold tmp'. rewrite <- (take_drop index tmp) at 2.
      rewrite (drop_S _ _ _ He), !last_app_cons. rewrite !last_cons, Hlast.
      apply last_is_Some in Hne as [z Hz]. by rewrite Hz. }
    assert (val B tmp' < TMP_VALUE) by (apply Hx, Hy; done).
    rewrite <- Hsum. decide_Z. repeat split; done.
  - rewrite Ex. cbn [obind].
    assert (Eb : (negb (o' =? 0) || (TMP_INTEGER_MAX_OVER D <=? x)) =
      (TMP_VALUE <=? val B tmp + v * B ^ Z.of_nat index)).
    { apply eq_iff_eq_true. rewrite orb_true_iff, negb_true_iff, Z.eqb_neq, !Z.leb_le, <- Hsum.
      destruct (Z.eq_dec o' 0) as [->|]; [|nia]. lia. }
    rewrite Eb. split; [done|]. intros Hlt'. assert (o' = 0) as -> by nia.
    rewrite Z.mul_0_r, Z.add_0_r in Hsum. rewrite <- Hsum in Hlt' |- *. repeat split; done.
Qed.

Lemma tmp_add_over v index tmp : (Z.to_nat (TMP_SIZE D) <= index)%nat ->
  tmp_add D v index tmp = Ret (tmp, true) /\ TMP_VALUE <= B ^ Z.of_nat index.
Proof using HD.
  intros Hi. pose proof tmp_size_bounds as [HS _]. pose proof base_gt1. unfold tmp_add. decide_Z.
  split; [done|]. pose proof tmp_power. pose proof (Z.pow_le_mono_r B
    (Z.of_nat (Z.to_nat (TMP_SIZE D))) (Z.of_nat index)). lia.
Qed.

(** One row: the product of [f2] and the elements [l] is added at [i + j]. *)
Lemma mul_row_spec f2 i l : 0 < f2 < B -> digits_ok B l -> forall j o tmp,
  tmp_ok tmp -> 0 <= o <= B - 2 ->
  let sum := val B tmp + (o + f2 * val B l) * B ^ Z.of_nat (i + j) in
  exists tmp' o' exceeds, mul_row D f2 i l j o tmp = Ret (tmp', o', exceeds) /\
  if exceeds : bool then TMP_VALUE <= sum
  else tmp_ok tmp' /\ 0 <= o' <= B - 2 /\
    val B tmp' + o' * B ^ Z.of_nat (i + j + length l) = sum.
Proof using HD.
  intros Hf2 Hl. pose proof base_gt1 as HB.
  induction Hl as [|f1 l Hf1 Hl IH]; intros j o tmp Ht Ho sum; cbn [mul_row].
  { exists tmp, o, false. split; [done|]. split; [done|]. split; [done|]. unfold sum.
    cbn [val length]. rewrite Nat.add_0_r, Z.mul_0_r, Z.add_0_r. lia. }
  pose proof (val_bound B HB l Hl) as Hlb. pose proof (pow_pos B HB (i + j)) as HP.
  pose proof (val_bound B HB tmp (proj1 (proj2 Ht))) as Htb.
  (* the step: [v] goes to [i + j], [o1] to the next position *)
  assert (Hstep : forall v o1, 0 <= v <= 2 * B - 2 -> 0 <= o1 <= B - 2 ->
    v + B * o1 = o + f2 * f1 -> (0 < o \/ 0 < f1) ->
    exists tmp' o' exceeds,
    (let* (tmp, exceeds) := tmp_add D v (i + j) tmp in
     if exceeds : bool then Ret (tmp, o, true) else mul_row D f2 i l (S j) o1 tmp) =
      Ret (tmp', o', exceeds) /\
    if exceeds : bool then TMP_VALUE <= sum
    else tmp_ok tmp' /\ 0 <= o' <= B - 2 /\
      val B tmp' + o' * B ^ Z.of_nat (i + j + length (f1 :: l)) = sum).
  { intros v o1 Hv Ho1 Ev Hpos.
    assert (Es : sum = (val B tmp + v * B ^ Z.of_nat (i + j)) +
      (o1 + f2 * val B l) * B ^ Z.of_nat (i + S j)).
    { unfold sum. cbn [val]. rewrite Nat.add_succ_r, pow_S.
      replace (o + f2 * (f1 + B * val B l)) with (v + B * o1 + f2 * B * val B l) by (rewrite Ev; ring).
      ring. }
    assert (0 <= (o1 + f2 * val B l) * B ^ Z.of_nat (i + S j)).
    { apply Z.mul_nonneg_nonneg; [nia|]. pose proof (pow_pos B HB (i + S j)). lia. }
    destruct (Nat.lt_ge_cases (i + j) (Z.to_nat (TMP_SIZE D))) as [Hi|Hi].
    - destruct (tmp_add_spec v (i + j) tmp Ht Hv Hi) as (tmp' & -> & Ht'). cbn [obind].
      destruct (Z.leb_spec TMP_VALUE (val B tmp + v * B ^ Z.of_nat (i + j))) as [Hov|Hov].
      + exists tmp', o, true. split; [done|]. lia.
      + destruct (Ht' Hov) as [Hok Ev']. destruct (IH (S j) o1 tmp' Hok Ho1) as (t & o2 & ex & -> & Hex).
        exists t, o2, ex. split; [done|]. rewrite Ev' in Hex. rewrite Es.
        replace (i + j + length (f1 :: l))%nat with (i + S j + length l)%nat by (cbn [length]; lia).
        exact Hex.
    - destruct (tmp_add_over v (i + j) tmp Hi) as [-> Hp]. cbn [obind].
      exists tmp, o, true. split; [done|]. unfold sum. cbn [val].
      assert (1 <= o + f2 * (f1 + B * val B l)) by nia. nia. }
  destruct (Z.eqb_spec f1 0) as [->|Hf0]; cbn [negb].
  - destruct (Z.eqb_spec o 0) as [->|Ho0]; cbn [negb].
    + destruct (IH (S j) 0 tmp Ht ltac:(lia)) as (t & o2 & ex & -> & Hex).
      exists t, o2, ex. split; [done|].
      assert (Es : sum = val B tmp + (0 + f2 * val B l) * B ^ Z.of_nat (i + S j)).
      { unfold sum. cbn [val]. rewrite Nat.add_succ_r, pow_S. ring. }
      rewrite Es. replace (i + j + length (0%Z :: l))%nat with (i + S j + length l)%nat
        by (cbn [length]; lia). exact Hex.
    + apply Hstep; lia.
  - destruct (mul_elements_spec f1 f2 Hf1 ltac:(lia)) as (minor & major & -> & Em & Hmin & Hmaj).
    cbn [obind]. rewrite element_cast by lia. apply Hstep; lia.
Qed.

Lemma mul_rows_spec a b : digits_ok B a -> length a = Z.to_nat (SIZE D) -> digits_ok B b ->
  forall i tmp, tmp_ok tmp ->
  let sum := val B tmp + val B a * val B b * B ^ Z.of_nat i in
  exists tmp' exceeds, mul_rows D a b i tmp = Ret (tmp', exceeds) /\
  if exceeds : bool then TMP_VALUE <= sum else tmp_ok tmp' /\ val B tmp' = sum.
Proof using HD.
  intros Ha La Hb. pose proof base_gt1 as HB. pose proof (val_bound B HB a Ha) as Hab.
  induction Hb as [|f2 b Hf2 Hb IH]; intros i tmp Ht sum; cbn [mul_rows].
  { exists tmp, false. split; [done|]. split; [done|]. unfold sum. cbn [val]. lia. }
  pose proof (val_bound B HB b Hb) as Hbb. pose proof (pow_pos B HB i) as HP.
  pose proof (val_bound B HB tmp (proj1 (proj2 Ht))) as Htb.
  assert (Es : sum = (val B tmp + f2 * val B a * B ^ Z.of_nat i) +
    val B a * val B b * B ^ Z.of_nat (S i)).
  { unfold sum. cbn [val]. rewrite pow_S. ring. }
  assert (Hrest : 0 <= val B a * val B b * B ^ Z.of_nat (S i)).
  { pose proof (pow_pos B HB (S i)). apply Z.mul_nonneg_nonneg; nia. }
  assert (Hnext : forall tmp1, tmp_ok tmp1 ->
    val B tmp1 = val B tmp + f2 * val B a * B ^ Z.of_nat i ->
    exists tmp' exceeds, mul_rows D a b (S i) tmp1 = Ret (tmp', exceeds) /\
    if exceeds : bool then TMP_VALUE <= sum else tmp_ok tmp' /\ val B tmp' = sum).
  { intros tmp1 Ht1 E1. destruct (IH (S i) tmp1 Ht1) as (t & ex & -> & Hex).
    exists t, ex. split; [done|]. rewrite Es, <- E1. exact Hex. }
  destruct (Z.eqb_spec f2 0) as [->|Hf0]; [apply Hnext; [done|lia]|].
  destruct (mul_row_spec f2 i a ltac:(lia) Ha O 0 tmp Ht ltac:(lia)) as (t & o & ex & -> & Hex).
  cbn [obind]. rewrite Nat.add_0_r, La, Z.add_0_l in Hex. destruct ex.
  { exists t, true. split; [done|]. lia. }
  destruct Hex as (Hok & Ho & Ev). destruct (Z.eqb_spec o 0) as [->|Ho0]; cbn [negb].
  { apply Hnext; [done|lia]. }
  destruct (Nat.lt_ge_cases (i + Z.to_nat (SIZE D)) (Z.to_nat (TMP_SIZE D))) as [Hi|Hi].
  - destruct (tmp_add_spec o (i + Z.to_nat (SIZE D)) t Hok ltac:(lia) Hi) as (t' & -> & Ht').
    cbn [obind]. destruct (Z.leb_spec TMP_VALUE (val B t + o * B ^ Z.of_nat (i + Z.to_nat (SIZE D)))).
    + exists t', true. split; [done|]. lia.
    + destruct (Ht' H) as [Hok' E']. apply Hnext; [done|lia].
  - destruct (tmp_add_over o (i + Z.to_nat (SIZE D)) t Hi) as [-> Hp]. cbn [obind].
    exists t, true. split; [done|]. pose proof (val_bound B HB t (proj1 (proj2 Hok))). nia.
Qed.

Lemma fraction_split : MAX_FRACTION_ D = B ^ FRACTION_END D * FRACTION_REMAINDER D /\
  FRACTION_REMAINDER D * FRACTION_OVER D = B /\ 1 <= FRACTION_REMAINDER D < B /\
  0 <= FRACTION_END D < TMP_SIZE D /\
  (FRACTION_REMAINDER D = 1 <-> FRACTION_RANK D mod DIGITS_PER_ELEMENT D = 0).
Proof using HD.
  pose proof digits_per_element as [H _]. destruct HD as (_ & HT & HF).
  pose proof tmp_size_bounds as (H1 & H2 & H3).
  pose proof (Z.div_mod (FRACTION_RANK D) (DIGITS_PER_ELEMENT D) ltac:(lia)) as E.
  pose proof (Z.mod_pos_bound (FRACTION_RANK D) (DIGITS_PER_ELEMENT D) ltac:(lia)) as Hm.
  unfold MAX_FRACTION_, FRACTION_END, FRACTION_REMAINDER, FRACTION_OVER in *.
  set (q := FRACTION_RANK D / DIGITS_PER_ELEMENT D) in *.
  set (r := FRACTION_RANK D mod DIGITS_PER_ELEMENT D) in *.
  assert (Hq : 0 <= q) by nia. split; [|split; [|split; [|split]]].
  - rewrite base_pow, <- Z.pow_add_r by nia. f_equal. lia.
  - unfold BASE. rewrite <- Z.pow_add_r by lia. f_equal. lia.
  - pose proof (Z.pow_pos_nonneg 10 r). split; [lia|]. unfold BASE. apply Z.pow_lt_mono_r; lia.
  - split; [done|]. unfold TMP_TOTAL_RANK, INTEGER_RANK in *. nia.
  - split; [|intros ->; done]. intros Hr. destruct (Z.eq_dec r 0); [done|].
    pose proof (Z.pow_le_mono_r 10 1 r). lia.
Qed.

Lemma pow10_even k : 0 < k -> exists h, 10 ^ k = 2 * h.
Proof using.
  intros Hk. exists (5 * 10 ^ (k - 1)). replace k with (1 + (k - 1)) at 1 by lia.
  rewrite Z.pow_add_r by lia. change (10 ^ 1) with 10. ring.
Qed.

(** What [round] and [ceil] look at: the most significant part [d] of the digits
    that are cut off, [low] being the digits below it. *)
Lemma cut_spec tmp : tmp_ok tmp -> 0 < FRACTION_RANK D -> exists low P h d,
  val B tmp mod MAX_FRACTION_ D = low + P * d /\ 0 <= low < P /\
  MAX_FRACTION_ D = P * (2 * h) /\ 0 <= d < 2 * h /\
  round_up D tmp = Ret (h <=? d) /\ ceil_up D tmp = Ret (negb (d =? 0)).
Proof using HD.
  intros (Ht & Hd & Hv) HF. pose proof base_gt1 as HB.
  pose proof fraction_split as (EF & ER & HR & HE & H1). unfold round_up, ceil_up, at_, rd.
  pose proof digits_per_element as [HDP _].
  pose proof (Z.div_mod (FRACTION_RANK D) (DIGITS_PER_ELEMENT D) ltac:(lia)) as Ediv.
  destruct (Z.eqb_spec (FRACTION_REMAINDER D) 1) as [Er|Er].
  - assert (HE1 : 1 <= FRACTION_END D).
    { rewrite (proj1 H1 Er) in Ediv. unfold FRACTION_END. nia. }
    set (n := Z.to_nat (FRACTION_END D - 1)).
    destruct (lookup_lt_is_Some_2 tmp n) as [e He]; [lia|]. rewrite He. cbn [obind].
    destruct (val_at B HB n e tmp He Hd) as (Hee & _ & low & Hlow & Ev).
    destruct (pow10_even (DIGITS_PER_ELEMENT D)) as [h Hh]; [lia|]. fold B in Hh.
    assert (EP : MAX_FRACTION_ D = B ^ Z.of_nat n * (2 * h)).
    { rewrite EF, Er, Z.mul_1_r, <- Hh. replace (FRACTION_END D) with (Z.of_nat n + 1) by lia.
      rewrite Z.pow_add_r, Z.pow_1_r by lia. done. }
    exists low, (B ^ Z.of_nat n), h, e. split; [|split; [done|split; [done|split; [lia|]]]].
    + rewrite Ev, EP, <- Hh. symmetry.
      apply (Z.mod_unique _ _ (val B (drop (S n) tmp))); [left; nia|ring].
    + rewrite Hh, (Z.mul_comm 2), Z.div_mul by lia. done.
  - set (n := Z.to_nat (FRACTION_END D)).
    destruct (lookup_lt_is_Some_2 tmp n) as [e He]; [lia|]. rewrite He. cbn [obind].
    destruct (val_at B HB n e tmp He Hd) as (Hee & _ & low & Hlow & Ev).
    destruct (pow10_even (FRACTION_RANK D mod DIGITS_PER_ELEMENT D)) as [h Hh].
    { pose proof (Z.mod_pos_bound (FRACTION_RANK D) (DIGITS_PER_ELEMENT D)).
      destruct (Z.eq_dec (FRACTION_RANK D mod DIGITS_PER_ELEMENT D) 0); [|lia].
      destruct Er. by apply H1. }
    fold (FRACTION_REMAINDER D) in Hh. set (R := FRACTION_REMAINDER D) in *.
    assert (EP : MAX_FRACTION_ D = B ^ Z.of_nat n * (2 * h)).
    { rewrite EF, <- Hh. do 2 f_equal. lia. }
    pose proof (Z.mod_pos_bound e R ltac:(lia)). pose proof (Z.div_mod e R ltac:(lia)) as Ee.
    exists low, (B ^ Z.of_nat n), h, (e mod R). split; [|split; [done|split; [done|split; [lia|]]]].
    + rewrite Ev, EP, <- Hh. symmetry.
      apply (Z.mod_unique _ _ (e / R + FRACTION_OVER D * val B (drop (S n) tmp))).
      * left. nia.
      * rewrite <- ER. rewrite Ee at 1. ring.
    + rewrite Hh, (Z.mul_comm 2), Z.div_mul by lia. done.
Qed.

Lemma export_loop_spec size : forall last t, digits_ok B t -> 0 <= last < FRACTION_OVER D ->
  last + FRACTION_OVER D * val B t < B ^ Z.of_nat size ->
  length (export_loop D size last t) = size /\ digits_ok B (export_loop D size last t) /\
  val B (export_loop D size last t) = last + FRACTION_OVER D * val B t.
Proof using HD.
  pose proof base_gt1 as HB. pose proof fraction_split as (_ & ER & HR & _).
  set (R := FRACTION_REMAINDER D) in *. set (O := FRACTION_OVER D) in *. assert (HO : 0 < O) by nia.
  induction size as [|size IH]; intros last t Ht Hlast Hb; cbn [export_loop].
  { change (B ^ Z.of_nat 0) with 1 in Hb. pose proof (val_bound B HB t Ht).
    split; [done|]. split; [constructor|]. cbn [val]. nia. }
  destruct Ht as [|e t He Ht].
  { split; [cbn; by rewrite repeat_length|]. split.
    - constructor; [nia|]. by apply digits_ok_0.
    - cbn [val]. rewrite val_repeat0. lia. }
  fold R O. pose proof (Z.mod_pos_bound e R ltac:(lia)). pose proof (Z.div_mod e R ltac:(lia)) as Ee.
  assert (Hdig : 0 <= last + e mod R * O < B) by nia. rewrite element_cast by lia.
  assert (Hq : 0 <= e / R < O) by (set (q := e / R) in *; nia).
  assert (Es : last + O * val B (e :: t) = last + e mod R * O + B * (e / R + O * val B t)).
  { cbn [val]. rewrite <- ER. rewrite Ee at 1. ring. }
  destruct (IH (e / R) t Ht Hq) as (IL & ID & IV).
  { rewrite pow_S in Hb. nia. }
  split; [cbn [length]; by rewrite IL|]. split; [by constructor|].
  cbn [val]. rewrite IV. cbn [val] in Es. lia.
Qed.

Lemma tmp_export_spec tmp : tmp_ok tmp -> exists l, tmp_export D tmp = Ret l /\
  length l = Z.to_nat (SIZE D) /\ digits_ok B l /\ val B l = val B tmp / MAX_FRACTION_ D.
Proof using HD.
  intros (Ht & Hd & Hv). pose proof base_gt1 as HB. pose proof (val_bound B HB tmp Hd) as Hvb.
  pose proof fraction_split as (EF & ER & HR & HE & H1). unfold tmp_export.
  pose proof size_bounds as [HS1 HS2]. pose proof digits_per_element as [HDP _].
  pose proof (Z.div_mod (FRACTION_RANK D) (DIGITS_PER_ELEMENT D) ltac:(lia)) as Ediv.
  set (n := Z.to_nat (FRACTION_END D)). assert (Hn : (n < length tmp)%nat) by lia.
  rewrite <- (Z2Nat.id (FRACTION_END D)) in EF by lia. fold n in EF.
  pose proof (pow_pos B HB n) as HP.
  destruct (Z.eqb_spec (FRACTION_REMAINDER D) 1) as [Er|Er].
  - assert (Hsz : TMP_SIZE D = SIZE D + FRACTION_END D).
    { pose proof tmp_size_bounds as (T1 & T2). rewrite (proj1 H1 Er) in Ediv.
      fold (FRACTION_END D) in Ediv. unfold TMP_TOTAL_RANK, INTEGER_RANK in T2. nia. }
    rewrite take_ge by (rewrite length_drop; lia).
    assert (Hl : length (drop n tmp) = Z.to_nat (SIZE D)) by (rewrite length_drop; lia).
    rewrite Hl, Nat.eqb_refl. cbn [guard]. eexists. split; [done|]. split; [done|].
    split; [by apply digits_drop|]. rewrite EF, Er, Z.mul_1_r.
    apply (Z.div_unique _ _ _ (val B (take n tmp))).
    + left. pose proof (val_bound B HB _ (digits_take B n tmp Hd)) as Hb.
      rewrite length_take, Nat.min_l in Hb by lia. exact Hb.
    + rewrite (val_split B n tmp) by lia. lia.
  - unfold at_, rd. fold n. destruct (lookup_lt_is_Some_2 tmp n) as [e He]; [lia|]. rewrite He.
    cbn [obind]. destruct (val_at B HB n e tmp He Hd) as (Hee & _ & low & Hlow & Ev).
    set (R := FRACTION_REMAINDER D) in *. set (O := FRACTION_OVER D) in *.
    pose proof (Z.mod_pos_bound e R ltac:(lia)). pose proof (Z.div_mod e R ltac:(lia)) as Ee.
    assert (Eq : val B tmp / MAX_FRACTION_ D = e / R + O * val B (drop (S n) tmp)).
    { symmetry. apply (Z.div_unique _ _ _ (low + B ^ Z.of_nat n * (e mod R))).
      - left. rewrite EF. nia.
      - rewrite Ev, EF, <- ER. rewrite Ee at 1. ring. }
    assert (Hq : 0 <= e / R < O) by (set (q := e / R) in *; nia).
    pose proof max_value_size as [EM HM].
    destruct (export_loop_spec (Z.to_nat (SIZE D)) (e / R) (drop (S n) tmp)) as (L1 & L2 & L3);
      [by apply digits_drop|done| |].
    { fold O. rewrite <- Eq. pose proof tmp_value as EV. rewrite EV in Hv.
      assert (0 < MAX_FRACTION_ D) by (rewrite EF; nia).
      apply Z.lt_le_trans with (MAX_VALUE_ D); [apply Z.div_lt_upper_bound; lia|].
      rewrite EM, Z2Nat.id by lia. replace (SIZE D) with (1 + (SIZE D - 1)) at 2 by lia.
      rewrite Z.pow_add_r, Z.pow_1_r by lia. pose proof (Z.pow_pos_nonneg B (SIZE D - 1)). nia. }
    eexists. split; [done|]. split; [done|]. split; [done|]. by rewrite L3, Eq.
Qed.

(** Where the fraction takes at most one element, [d] is all that is cut off. *)
Lemma cut_exact tmp : tmp_ok tmp -> 0 < FRACTION_RANK D -> FRACTION_RANK D <= DIGITS_PER_ELEMENT D ->
  ceil_up D tmp = Ret (negb (val B tmp mod MAX_FRACTION_ D =? 0)).
Proof using HD.
  intros (Ht & Hd & Hv) HF Hle. pose proof base_gt1 as HB.
  pose proof fraction_split as (EF & ER & HR & HE & H1). unfold ceil_up, at_, rd.
  pose proof digits_per_element as [HDP _].
  pose proof (Z.div_mod (FRACTION_RANK D) (DIGITS_PER_ELEMENT D) ltac:(lia)) as Ediv.
  pose proof (Z.mod_pos_bound (FRACTION_RANK D) (DIGITS_PER_ELEMENT D) ltac:(lia)) as Hm.
  fold (FRACTION_END D) in Ediv.
  destruct tmp as [|e tmp]; [simpl in Ht; lia|]. apply Forall_cons in Hd as [He Hd]. cbn [val].
  destruct (Z.eqb_spec (FRACTION_REMAINDER D) 1) as [Er|Er].
  - rewrite (proj1 H1 Er) in Ediv. assert (FRACTION_END D = 1) as E1 by nia.
    rewrite E1 in EF |- *. rewrite EF, Er, Z.pow_1_r, Z.mul_1_r. cbn [obind].
    rewrite (Z.mul_comm B), Z.mod_add, Z.mod_small by lia. done.
  - assert (FRACTION_END D = 0) as E0.
    { assert (FRACTION_RANK D <> DIGITS_PER_ELEMENT D).
      { intros Eq. apply Er, H1. rewrite Eq. apply Z.mod_same. lia. }
      assert (FRACTION_END D < 1); [|lia]. apply Z.div_lt_upper_bound; lia. }
    rewrite E0 in EF |- *. rewrite EF, Z.pow_0_r, Z.mul_1_l. cbn [obind].
    replace (e + B * val B tmp) with (e + FRACTION_OVER D * val B tmp * FRACTION_REMAINDER D)
      by (rewrite <- ER; ring). by rewrite Z.mod_add by lia.
Qed.

(** The rounding step: it is asked to add [b] to the last digit kept. *)
Lemma round_step up tmp b : tmp_ok tmp -> up tmp = Ret b -> exists tmp',
  tmp_round D up tmp = Ret (tmp', TMP_VALUE <=? val B tmp + Z.b2z b * MAX_FRACTION_ D) /\
  (val B tmp + Z.b2z b * MAX_FRACTION_ D < TMP_VALUE ->
   tmp_ok tmp' /\ val B tmp' = val B tmp + Z.b2z b * MAX_FRACTION_ D).
Proof using HD.
  intros Ht Eu. unfold tmp_round. rewrite Eu. cbn [obind].
  pose proof fraction_split as (EF & _ & HR & HE & _). pose proof base_gt1 as HB. destruct b; cbn [Z.b2z].
  - destruct (tmp_add_spec (FRACTION_REMAINDER D) (Z.to_nat (FRACTION_END D)) tmp Ht) as (tmp' & E & H);
      [lia|lia|]. rewrite Z2Nat.id in E, H by lia. exists tmp'.
    replace (1 * MAX_FRACTION_ D) with (FRACTION_REMAINDER D * B ^ FRACTION_END D) by (rewrite EF; ring).
    by split.
  - destruct Ht as (H1 & H2 & H3). exists tmp. rewrite Z.mul_0_l, Z.add_0_r. decide_Z. by repeat split.
Qed.

Lemma zeros_ok : tmp_ok (repeat 0 (Z.to_nat (TMP_SIZE D))).
Proof using HD.
  split; [apply repeat_length|]. split; [apply digits_ok_0, base_gt1|]. rewrite val_repeat0.
  unfold TMP_VALUE. apply Z.pow_pos_nonneg; [lia|].
  unfold TMP_TOTAL_RANK, INTEGER_RANK. destruct HD as (_ & ? & ?). lia.
Qed.

Lemma Decimal_sgn_mul x y q : valid D x -> valid D y -> (magnitude D x * magnitude D y = 0 -> q = 0) ->
  Z.sgn (value D x * value D y) * q = if xorb (negative_ x) (negative_ y) then - q else q.
Proof using HD.
  intros Hx%magnitude_bound Hy%magnitude_bound Hq.
  exact (SimpleDecimal.sgn_mul (negative_ x) (negative_ y) (magnitude D x) (magnitude D y) q
    ltac:(lia) ltac:(lia) Hq).
Qed.

(** The digits after the product, rounded: [b] is what [up] says. *)
Definition mul_carry (dmr : DecimalMulRemainder) (V : Z) (b : bool) : Prop :=
  forall tmp, tmp_ok tmp -> val B tmp = V ->
  if negb (FRACTION_RANK D =? 0) && negb (bool_decide (dmr = DMR_FLOOR))
  then (if bool_decide (dmr = DMR_ROUND) then round_up D else ceil_up D) tmp = Ret b
  else b = false.

Lemma mul_with x y dmr b : valid D x -> valid D y ->
  mul_carry dmr (magnitude D x * magnitude D y) b ->
  (magnitude D x * magnitude D y = 0 -> b = false) ->
  represents D (mul D x y dmr) (Z.sgn (value D x * value D y) *
    (magnitude D x * magnitude D y / MAX_FRACTION_ D + Z.b2z b)).
Proof using HD.
  intros Hx Hy Hc H0. unfold mul. rewrite !Decimal_valid_set by done. cbn [andb guard].
  pose proof (magnitude_bound x Hx). pose proof (magnitude_bound y Hy).
  set (V := magnitude D x * magnitude D y) in *.
  assert (HF : 0 < MAX_FRACTION_ D) by (apply Z.pow_pos_nonneg; [lia|]; destruct HD as (_ & _ & ?); lia).
  assert (HV : 0 <= V / MAX_FRACTION_ D) by (apply Z.div_pos; nia).
  pose proof tmp_value as HT. rewrite Decimal_sgn_mul; [|done|done|].
  2: { intros E. fold V in E. rewrite H0, E by done. by rewrite Z.div_0_l by lia. }
  destruct (mul_rows_spec (array_ x) (array_ y)) with (i := O)
    (tmp := repeat 0 (Z.to_nat (TMP_SIZE D))) as (tmp & ex & -> & Hex);
    [apply Hx|apply Hx|apply Hy|apply zeros_ok|]. cbn [obind].
  rewrite val_repeat0, Z.pow_0_r, Z.mul_1_r, Z.add_0_l in Hex. fold (magnitude D x) (magnitude D y) V in Hex.
  destruct ex.
  { apply Decimal_represents_throw. assert (MAX_VALUE_ D <= V / MAX_FRACTION_ D)
      by (apply Z.div_le_lower_bound; lia). destruct b, (xorb _ _); cbn [Z.b2z]; lia. }
  destruct Hex as [Hok EV]. specialize (Hc tmp Hok EV).
  set (W := V + Z.b2z b * MAX_FRACTION_ D).
  assert (EW : V / MAX_FRACTION_ D + Z.b2z b = W / MAX_FRACTION_ D)
    by (unfold W; by rewrite Z.div_add by lia).
  assert (Hround : exists tmp', (
    if negb (FRACTION_RANK D =? 0) && negb (bool_decide (dmr = DMR_FLOOR)) then
      let* (mul_tmp, over) :=
        tmp_round D (if bool_decide (dmr = DMR_ROUND) then round_up D else ceil_up D) tmp in
      if over : bool then Throw (Overflow "overflow increment after multiplying") else Ret mul_tmp
    else Ret tmp) =
    (if TMP_VALUE <=? W then Throw (Overflow "overflow increment after multiplying") else Ret tmp') /\
    (W < TMP_VALUE -> tmp_ok tmp' /\ val B tmp' = W)).
  { destruct (negb (FRACTION_RANK D =? 0) && _).
    - destruct (round_step _ tmp b Hok Hc) as (tmp' & -> & H'). exists tmp'. rewrite EV in H' |- *.
      by fold W in H' |- *.
    - exists tmp. subst b. unfold W. cbn [Z.b2z]. rewrite Z.mul_0_l, Z.add_0_r.
      pose proof Hok as (_ & _ & H3). rewrite EV in H3. decide_Z. split; [done|]. intros _. by split. }
  destruct Hround as (tmp' & -> & H'). rewrite EW. case_Z; cbn [obind].
  - apply Decimal_represents_throw. assert (MAX_VALUE_ D <= W / MAX_FRACTION_ D)
      by (apply Z.div_le_lower_bound; lia). destruct (xorb _ _); lia.
  - destruct H' as [Hok' EV']; [lia|]. destruct (tmp_export_spec tmp' Hok') as (l & -> & L1 & L2 & L3).
    cbn [obind]. rewrite EV' in L3. apply Decimal_represents_ret; [done|done| |by rewrite L3].
    rewrite L3. apply Z.div_lt_upper_bound; lia.
Qed.

Lemma Decimal_mul_represents x y dmr : valid D x -> valid D y ->
  (dmr = DMR_CEIL -> FRACTION_RANK D <= DIGITS_PER_ELEMENT D) ->
  represents D (mul D x y dmr)
    (Z.sgn (value D x * value D y) * rounded dmr (magnitude D x * magnitude D y) (MAX_FRACTION_ D)).
Proof using HD.
  intros Hx Hy Hceil. set (V := magnitude D x * magnitude D y).
  assert (HF0 : 0 <= FRACTION_RANK D) by (destruct HD as (_ & _ & ?); lia).
  assert (HF : 0 < MAX_FRACTION_ D) by (apply Z.pow_pos_nonneg; lia).
  assert (HF1 : FRACTION_RANK D = 0 -> MAX_FRACTION_ D = 1) by (intros E; unfold MAX_FRACTION_; by rewrite E).
  rewrite rounded_spec by done. set (m := V mod MAX_FRACTION_ D).
  assert (Hm : 0 <= m < MAX_FRACTION_ D) by (apply Z.mod_pos_bound; lia).
  assert (Hm0 : V = 0 -> m = 0) by (unfold m; intros ->; apply Z.mod_0_l; lia).
  set (b := match dmr with
            | DMR_FLOOR => false
            | DMR_ROUND => MAX_FRACTION_ D <=? 2 * m
            | DMR_CEIL => negb (m =? 0)
            end).
  replace (match dmr with DMR_FLOOR => 0 | _ => _ end) with (Z.b2z b)
    by (unfold b; destruct dmr; [done|by case_Z|by case_Z]).
  apply mul_with; [done|done| |]; fold V.
  2: { intros E. unfold b. rewrite (Hm0 E). destruct dmr; [done| |done]. by decide_Z. }
  intros tmp Hok EV. destruct (Z.eqb_spec (FRACTION_RANK D) 0) as [E0|E0]; cbn [negb andb].
  { specialize (HF1 E0). unfold b. destruct dmr; [done|by decide_Z|by decide_Z]. }
  destruct (cut_spec tmp Hok ltac:(lia)) as (low & P & h & d & E1 & E2 & E3 & E4 & E5 & _).
  rewrite EV in E1. fold m in E1. unfold b. destruct dmr; cbn [bool_decide negb].
  - done.
  - rewrite bool_decide_false by done. rewrite bool_decide_true by done. cbn [negb]. rewrite E5. f_equal.
    apply eq_iff_eq_true. rewrite !Z.leb_le. nia.
  - rewrite !bool_decide_false by done. cbn [negb]. rewrite cut_exact by (done || lia || by apply Hceil).
    rewrite EV. done.
Qed.
End Facts.

(** ** Results *)

(** The type of the examples: 30 digits, 12 of them after the point, in four
    elements of nine digits. *)
Definition wide : DecimalRanks :=
  {| Base := uint32_t; TOTAL_RANK := 30; FRACTION_RANK := 12 |}.

Lemma wide_ok : decimal_asserts wide.
Proof. by_eval. Defined.

(** C13: Arithmetic on arrays of elements.  [add] and [sub] return the exact sum and
    difference, and [mul] the product cut off or rounded to the nearest for all ranks,
    and rounded up for ranks whose fraction takes at most one element (with more
    elements [DMR_CEIL] may be wrong and nothing is said of it); the elements are below
    [BASE], and [Overflow] is thrown exactly when the result has too many digits. *)
Theorem Decimal_arithmetic (D : DecimalRanks) (x y : Decimal) :
  decimal_asserts D -> valid D x -> valid D y ->
  represents D (add D x y) (value D x + value D y) /\
  represents D (sub D x y) (value D x - value D y) /\
  (forall dmr, (dmr = DMR_CEIL -> FRACTION_RANK D <= DIGITS_PER_ELEMENT D) ->
   represents D (mul D x y dmr)
    (Z.sgn (value D x * value D y) *
     rounded dmr (Z.abs (value D x) * Z.abs (value D y)) (MAX_FRACTION_ D))).
Proof.
  intros HD Hx Hy. split; [by apply Decimal_add_represents|]. split; [by apply Decimal_sub_represents|].
  assert (Habs : forall z, valid D z -> Z.abs (value D z) = magnitude D z).
  { intros z Hz%magnitude_bound; [|done]. unfold value. destruct (negative_ z); lia. }
  intros dmr Hdmr. rewrite !Habs by done. by apply Decimal_mul_represents.
Qed.

Lemma Decimal_arithmetic_witness : exists z,
  mul wide {| negative_ := true; array_ := [0; 500000; 0; 0] |}
    {| negative_ := false; array_ := [1; 3000; 0; 0] |} DMR_ROUND = Ret z /\
  value wide z = -1500000000000500.
Proof.
  pose proof (Decimal_arithmetic wide {| negative_ := true; array_ := [0; 500000; 0; 0] |}
    {| negative_ := false; array_ := [1; 3000; 0; 0] |} wide_ok ltac:(by_eval) ltac:(by_eval))
    as (_ & _ & H).
  destruct (Decimal_represents_fits wide _ _ (H DMR_ROUND ltac:(done)) ltac:(by_eval)) as (z & Hz & _ & Ez).
  exists z. split; [exact Hz|]. rewrite Ez. vm_compute. reflexivity.
Defined.

(** The comparison operators are those of the numbers, [0] and [-0] being
    equal. *)
Theorem Decimal_order (D : DecimalRanks) (x y : Decimal) :
  decimal_asserts D -> valid D x -> valid D y ->
  equal D x y = Ret (value D x =? value D y) /\ less D x y = Ret (value D x <? value D y).
Proof. intros HD Hx Hy. split; [by apply Decimal_equal_value|by apply Decimal_less_value]. Qed.
