(* ===== verification/DecimalConv.v ===== *)
(** * DecimalConv: construction, conversion and rounding of [Decimal]

    Models the constructors from integers and from [SimpleDecimal], [integer],
    [floor] and [ceil] of [src/Generics/Decimal.tpp] over the numbers of
    [Decimal.v]. *)
From S2P Require Import Prelude AsciiManip IntStr CommonDecimal SimpleDecimal Decimal.
Local Open Scope Z_scope.
Local Open Scope outcome_scope.

Section Operations.
Context (D : DecimalRanks).
Abbreviation Element := (Base D).

(** ** Construction from integers *)

(** Writing [n] elements of a number, the least significant first: the elements
    and what is left of the number. *)
Fixpoint write_elements (n : nat) (v : Z) : list Z * Z :=
  match n with
  | O => ([], v)
  | S n' =>
    let '(l, rest) := write_elements n' (v / BASE D) in
    (cast Element (v mod BASE D) :: l, rest)
  end.

(** [construct_(negative, integer, fraction)], with the elements up to
    [FRACTION_END], those between it and the last one, and the last one. *)
Definition construct_parts (negative : bool) (integer fraction : Z) : outcome Decimal :=
  let '(low, fraction) := write_elements (Z.to_nat (FRACTION_END D)) fraction in
  if exceeds fraction (FRACTION_REMAINDER D) then Throw (Overflow "fraction exceeds maximum allowed")
  else
    guard (FRACTION_END D <? SIZE D)
      (let middle :=
         cast Element (fraction + cast Element (integer mod FRACTION_OVER D) * FRACTION_REMAINDER D) in
       let '(high, integer) :=
         if negb (INTEGER_RANK D =? 0) then
           let integer := integer / FRACTION_OVER D in
           let '(l, integer) := write_elements (Z.to_nat (SIZE D - FRACTION_END D - 2)) integer in
           if FRACTION_END D + 1 <? SIZE D
           then (l ++ [cast Element (integer mod INTEGER_MAX_OVER D)], integer / INTEGER_MAX_OVER D)
           else (l, integer)
         else ([], integer) in
       if negb (integer =? 0) then Throw (Overflow "integer exceeds maximum allowed")
       else Ret {| negative_ := negative; array_ := low ++ middle :: high |}).

(** [for (; integer && i + 1 < SIZE; i++)]: the elements, [i] and what is left. *)
Fixpoint write_nonzero (fuel : nat) (v : Z) (i : Z) : list Z * Z * Z :=
  match fuel with
  | O => ([], i, v)
  | S fuel' =>
    if negb (v =? 0) && (i + 1 <? SIZE D) then
      let '(l, i, rest) := write_nonzero fuel' (v / BASE D) (i + 1) in
      (cast Element (v mod BASE D) :: l, i, rest)
    else ([], i, v)
  end.

(** The elements from [i] on, and what is left of the number. *)
Definition write_rest (integer i : Z) : list Z * Z :=
  let '(l, i, integer) := write_nonzero (Z.to_nat (SIZE D)) integer i in
  if i =? SIZE D - 1
  then (l ++ [cast Element (integer mod INTEGER_MAX_OVER D)], integer / INTEGER_MAX_OVER D)
  else (l ++ repeat 0 (Z.to_nat (SIZE D - i)), integer).

(** [construct_(integer, power)] once the sign is split off and [power] is at
    most [FRACTION_RANK]. *)
Definition construct_abs (negative : bool) (integer power : Z) : outcome Decimal :=
  let diff := FRACTION_RANK D - power in
  let i := diff / DIGITS_PER_ELEMENT D in
  let zeros := repeat 0 (Z.to_nat i) in
  let diff := diff mod DIGITS_PER_ELEMENT D in
  let* (part, i, integer) :=
    if negb (diff =? 0) then
      let* mask := pow10 Element (DIGITS_PER_ELEMENT D - diff) in
      Ret ([cast Element (cast Element (integer mod mask) * (BASE D / mask))], i + 1, integer / mask)
    else Ret ([], i, integer) in
  let '(l, integer) := write_rest integer i in
  if negb (integer =? 0) then Throw (Overflow "Initializer exceeds maximum allowed")
  else Ret {| negative_ := negative; array_ := zeros ++ part ++ l |}.

Definition construct_power (Integer : IntegerType) (integer power : Z) : outcome Decimal :=
  if (digits10 Integer + FRACTION_RANK D <=? power) || (integer =? 0)
  then Ret {| negative_ := false; array_ := repeat 0 (Z.to_nat (SIZE D)) |}
  else
    let* (integer, negative) := split_sign Integer integer in
    if FRACTION_RANK D <? power then
      let* p := pow10 Integer (power - FRACTION_RANK D) in
      construct_abs negative (integer / p) (FRACTION_RANK D)
    else construct_abs negative integer power.

(** The constructor from a [SimpleDecimal] of ranks [E], at most as precise. *)
Definition Decimal_of_simple (E : DecimalRanks) (diff : SimpleDecimal) : outcome Decimal :=
  let* x := construct_power (Base E) (data_ diff) (FRACTION_RANK E) in
  Ret {| negative_ := SimpleDecimal.negative_ diff; array_ := array_ x |}.

Definition maximum_ : Decimal :=
  {| negative_ := false;
     array_ := repeat (BASE D - 1) (Z.to_nat (SIZE D - 1)) ++ [INTEGER_MAX_OVER D - 1] |}.

(** ** Conversion to an integer *)

(** [for (i = SIZE - 1; i != FRACTION_END; i--)] over the elements above the
    boundary, the most significant first. *)
Fixpoint integer_loop (INTEG_MAX : Z) (T : IntegerType) (high : list Z) (ret : Z) : option Z :=
  match high with
  | [] => Some ret
  | e :: high' =>
    if (e <=? INTEG_MAX) && (ret <=? (INTEG_MAX - e) / BASE D)
    then integer_loop INTEG_MAX T high' (cast T (ret * BASE D + e))
    else None
  end.

Definition Decimal_integer (T : IntegerType) (x : Decimal) : outcome Z :=
  guard (is_set D x)
    (if INTEGER_RANK D =? 0 then Ret 0
     else
       let INTEG_MAX := max_ T in
       match integer_loop INTEG_MAX T (rev (drop (S (Z.to_nat (FRACTION_END D))) (array_ x))) 0 with
       | None => Throw (Overflow "return type is too narrow")
       | Some ret =>
         let* e := at_ (array_ x) (FRACTION_END D) in
         let e := e / FRACTION_REMAINDER D in
         if (INTEG_MAX <? e) || ((INTEG_MAX - e) / FRACTION_OVER D <? ret)
         then Throw (Overflow "return type is too narrow")
         else
           let ret := cast T (ret * cast T (FRACTION_OVER D) + cast T e) in
           if negative_ x && negb (ret =? 0) && negb (is_signed T)
           then Throw (Sign "return type is unsigned but the value to return is negative")
           else Ret (if negative_ x then cast T (- ret) else ret)
       end).

(** ** Rounding *)

Definition with_array (x : Decimal) (array : list Z) : Decimal :=
  {| negative_ := negative_ x; array_ := array |}.

Definition floor (fraction : Z) (x : Decimal) : outcome Decimal :=
  guard (is_set D x)
    (if (FRACTION_RANK D <? fraction) || (fraction =? FRACTION_RANK D) then Ret x
     else
       let fraction := FRACTION_RANK D - fraction in
       let index := Z.to_nat (fraction / DIGITS_PER_ELEMENT D) in
       let low := repeat 0 index in
       match drop index (array_ x) with
       | [] => Ret (with_array x low)
       | e :: high =>
         let* pow := pow10 Element (fraction mod DIGITS_PER_ELEMENT D) in
         let e := if negb (e mod pow =? 0) then cast Element (e / pow * pow) else e in
         Ret (with_array x (low ++ e :: high))
       end).

(** The loop over the elements after [index]: them and [overflow]. *)
Fixpoint ceil_carry (high : list Z) : list Z * bool :=
  match high with
  | [] => ([], true)
  | e :: high' =>
    if e <? BASE D - 1 then (cast Element (e + 1) :: high', false)
    else let '(l, overflow) := ceil_carry high' in (0 :: l, overflow)
  end.

Definition ceil (fraction : Z) (x : Decimal) : outcome Decimal :=
  guard (is_set D x)
    (if (FRACTION_RANK D <? fraction) || (fraction =? FRACTION_RANK D) then Ret x
     else
       let fraction := FRACTION_RANK D - fraction in
       let index := Z.to_nat (fraction / DIGITS_PER_ELEMENT D) in
       let overflow := existsb (fun e => negb (e =? 0)) (take index (array_ x)) in
       let low := repeat 0 index in
       let* (array, overflow) :=
         match drop index (array_ x) with
         | [] => Ret (low, overflow)
         | e :: high =>
           let* pow := pow10 Element (fraction mod DIGITS_PER_ELEMENT D) in
           if overflow || negb (e mod pow =? 0) then
             let res := cast Element ((e / pow + 1) * pow) in
             let '(tail, overflow) :=
               if res <? BASE D then (res :: high, false)
               else let '(l, overflow) := ceil_carry high in (0 :: l, overflow) in
             let* last := at_ (low ++ tail) (SIZE D - 1) in
             Ret (low ++ tail, overflow || (INTEGER_MAX_OVER D <=? last))
           else Ret (low ++ e :: high, overflow)
         end in
       if overflow : bool then Throw (Overflow "overflow while ceiling")
       else Ret (with_array x array)).
End Operations.

Section Facts.
Context (D : DecimalRanks) (HD : decimal_asserts D).

Local Abbreviation B := (BASE D).

Lemma max_fraction_pos : 0 < MAX_FRACTION_ D.
Proof using HD. apply Z.pow_pos_nonneg; [lia|]. destruct HD as (_ & _ & ?). lia. Qed.

(** *** Construction *)

Lemma write_elements_spec n : forall v, 0 <= v -> forall l rest, write_elements D n v = (l, rest) ->
  length l = n /\ digits_ok B l /\ 0 <= rest /\ val B l + B ^ Z.of_nat n * rest = v.
Proof using HD.
  pose proof (base_gt1 D HD) as HB. induction n as [|n IH]; intros v Hv l rest; cbn [write_elements].
  { intros [= <- <-]. split; [done|]. split; [constructor|]. split; [done|].
    change (B ^ Z.of_nat 0) with 1. cbn [val]. lia. }
  destruct (write_elements D n (v / B)) as [l1 r1] eqn:E. intros [= <- <-].
  destruct (IH (v / B)) with (l := l1) (rest := r1) as (H1 & H2 & H3 & H4);
    [apply Z.div_pos; lia|done|].
  pose proof (Z.mod_pos_bound v B ltac:(lia)). pose proof (Z.div_mod v B ltac:(lia)).
  rewrite (element_cast D HD) by lia. split; [cbn; congruence|]. split; [by constructor|].
  split; [done|]. cbn [val]. rewrite pow_S.
  replace (v mod B + B * val B l1 + B * B ^ Z.of_nat n * r1)
    with (v mod B + B * (val B l1 + B ^ Z.of_nat n * r1)) by ring. lia.
Qed.

(** The element of the boundary is not the last one: more than one element holds
    digits of the integer part, or none does. *)
Definition boundary_inside : Prop := FRACTION_END D + 1 < SIZE D.

Lemma integer_split : boundary_inside ->
  0 < INTEGER_RANK D /\ MAX_INTEGER_ D =
    FRACTION_OVER D * (B ^ (SIZE D - FRACTION_END D - 2) * INTEGER_MAX_OVER D) /\
  MAX_VALUE_ D = MAX_INTEGER_ D * MAX_FRACTION_ D.
Proof using HD.
  intros Hin. pose proof (size_bounds D HD) as [H1 H2]. pose proof (digits_per_element D HD) as [H _].
  pose proof (Z.div_mod (FRACTION_RANK D) (DIGITS_PER_ELEMENT D) ltac:(lia)) as E.
  pose proof (Z.mod_pos_bound (FRACTION_RANK D) (DIGITS_PER_ELEMENT D) ltac:(lia)) as Hm.
  unfold boundary_inside in Hin. fold (FRACTION_END D) in E.
  assert (HI : 0 < INTEGER_RANK D) by (unfold INTEGER_RANK; nia).
  destruct HD as (_ & HT & HF). split; [done|]. assert (0 <= FRACTION_END D) by nia. split.
  - unfold MAX_INTEGER_, FRACTION_OVER, INTEGER_MAX_OVER. rewrite base_pow by (done || lia).
    rewrite <- !Z.pow_add_r by nia. f_equal. unfold INTEGER_RANK in *. nia.
  - unfold MAX_VALUE_, MAX_INTEGER_, MAX_FRACTION_, INTEGER_RANK.
    rewrite <- Z.pow_add_r by lia. f_equal. lia.
Qed.

Lemma Decimal_construct_parts_spec n i f : boundary_inside -> 0 <= i < 2 ^ 64 -> 0 <= f < 2 ^ 64 ->
  if (i <? MAX_INTEGER_ D) && (f <? MAX_FRACTION_ D)
  then exists x, construct_parts D n i f = Ret x /\ valid D x /\ negative_ x = n /\
    magnitude D x = i * MAX_FRACTION_ D + f
  else exists what, construct_parts D n i f = Throw (Overflow what).
Proof using HD.
  intros Hin Hi Hf. pose proof (base_gt1 D HD) as HB. pose proof (base_gt D HD).
  destruct (integer_split Hin) as (HI & EI & EV). unfold boundary_inside in Hin.
  pose proof (fraction_split D HD) as (EF & ER & HR & HE & _).
  pose proof (max_value_size D HD) as [EM HIM]. pose proof max_fraction_pos as HMF.
  unfold construct_parts.
  destruct (write_elements D (Z.to_nat (FRACTION_END D)) f) as [low f1] eqn:E1.
  destruct (write_elements_spec _ f ltac:(lia) low f1 E1) as (L1 & D1 & P1 & V1).
  rewrite Z2Nat.id in V1 by lia.
  pose proof (Z.pow_pos_nonneg B (FRACTION_END D) ltac:(lia) ltac:(lia)) as HPE.
  pose proof (val_bound B HB low D1) as Hlow. rewrite L1, Z2Nat.id in Hlow by lia.
  assert (Hover : exceeds f1 (FRACTION_REMAINDER D) = negb (f <? MAX_FRACTION_ D)).
  { pose proof (digits_per_element D HD) as [_ Hmax]. pose proof (max_u64 _ (proj1 (proj1 HD))).
    rewrite exceeds_spec by nia. rewrite <- Z.leb_antisym, EF. apply eq_iff_eq_true.
    rewrite !Z.leb_le. nia. }
  rewrite Hover. destruct (Z.ltb_spec f (MAX_FRACTION_ D)) as [Hff|Hff]; cbn [negb];
    [|rewrite andb_false_r; by eexists]. rewrite andb_true_r.
  assert (Hf1 : 0 <= f1 < FRACTION_REMAINDER D) by nia.
  assert (HO : 0 < FRACTION_OVER D) by nia.
  rewrite (proj2 (Z.ltb_lt (FRACTION_END D) (SIZE D))) by lia. cbn [guard].
  rewrite (proj2 (Z.eqb_neq (INTEGER_RANK D) 0)) by lia. cbn [negb].
  rewrite (proj2 (Z.ltb_lt (FRACTION_END D + 1) (SIZE D))) by lia.
  pose proof (Z.mod_pos_bound i (FRACTION_OVER D) HO) as HmO.
  pose proof (Z.div_mod i (FRACTION_OVER D) ltac:(lia)) as EdO.
  destruct (write_elements D (Z.to_nat (SIZE D - FRACTION_END D - 2)) (i / FRACTION_OVER D))
    as [l i1] eqn:E2.
  destruct (write_elements_spec _ _ (Z.div_pos _ _ (proj1 Hi) HO) l i1 E2) as (L2 & D2 & P2 & V2).
  pose proof (val_bound B HB l D2) as Hl. rewrite L2 in Hl. rewrite Z2Nat.id in Hl, V2 by lia.
  set (S2 := B ^ (SIZE D - FRACTION_END D - 2)) in *.
  assert (HS2 : 0 < S2) by (apply Z.pow_pos_nonneg; lia).
  pose proof (Z.mod_pos_bound i1 (INTEGER_MAX_OVER D) ltac:(lia)) as HmI.
  pose proof (Z.div_mod i1 (INTEGER_MAX_OVER D) ltac:(lia)) as EdI.
  rewrite (element_cast D HD (i mod _)) by nia. rewrite !(element_cast D HD) by nia.
  set (I2 := i1 / INTEGER_MAX_OVER D) in *.
  assert (E12 : I2 = i / MAX_INTEGER_ D).
  { rewrite EI, <- !Z.div_div by lia. unfold I2. f_equal.
    apply (Z.div_unique _ _ _ (val B l)); [left; lia|]. rewrite <- V2. ring. }
  assert (Hq : (i <? MAX_INTEGER_ D) = (I2 =? 0)).
  { apply eq_iff_eq_true. rewrite Z.ltb_lt, Z.eqb_eq, E12. rewrite Z.div_small_iff by nia. lia. }
  rewrite Hq. destruct (Z.eqb_spec I2 0) as [E0|E0]; cbn [negb]; [|by eexists].
  eexists. split; [done|].
  assert (EMag : val B (low ++ (f1 + i mod FRACTION_OVER D * FRACTION_REMAINDER D) ::
    l ++ [i1 mod INTEGER_MAX_OVER D]) = i * MAX_FRACTION_ D + f).
  { rewrite val_app. cbn [val]. rewrite val_app. cbn [val]. rewrite L1, L2, !Z2Nat.id by lia.
    fold S2. rewrite EF, Z.mul_0_r, Z.add_0_r. rewrite EdO at 2. rewrite <- V2, <- V1.
    rewrite EdI at 2. rewrite E0, <- ER. ring. }
  split; [|split; [done|exact EMag]]. split; [|split].
  - cbn [array_]. rewrite length_app. cbn [length]. rewrite length_app, L1, L2. cbn [length]. lia.
  - apply Forall_app. split; [done|]. constructor; [nia|]. apply Forall_app. split; [done|].
    constructor; [lia|constructor].
  - unfold magnitude. cbn [array_]. rewrite EMag, EV. assert (i < MAX_INTEGER_ D).
    { by apply Z.ltb_lt. }
    nia.
Qed.

Lemma write_nonzero_spec fuel : forall v i, 0 <= v -> 0 <= i <= SIZE D - 1 ->
  SIZE D - 1 - i < Z.of_nat fuel -> forall l j rest, write_nonzero D fuel v i = (l, j, rest) ->
  digits_ok B l /\ j = i + Z.of_nat (length l) /\ j <= SIZE D - 1 /\ 0 <= rest /\
  val B l + B ^ Z.of_nat (length l) * rest = v /\ (j <> SIZE D - 1 -> rest = 0).
Proof using HD.
  pose proof (base_gt1 D HD) as HB.
  induction fuel as [|fuel IH]; intros v i Hv Hi Hf l j rest; [lia|]. cbn [write_nonzero].
  destruct (Z.eqb_spec v 0) as [->|Hv0]; cbn [negb andb].
  { intros [= <- <- <-]. cbn [length val]. change (B ^ Z.of_nat 0) with 1.
    repeat split; [constructor|lia..]. }
  destruct (Z.ltb_spec (i + 1) (SIZE D)).
  - destruct (write_nonzero D fuel (v / B) (i + 1)) as [[l1 j1] r1] eqn:E. intros [= <- <- <-].
    destruct (IH (v / B) (i + 1)) with (l := l1) (j := j1) (rest := r1)
      as (H1 & H2 & H3 & H4 & H5 & H6); [apply Z.div_pos; lia|lia|lia|done|].
    pose proof (Z.mod_pos_bound v B ltac:(lia)). pose proof (Z.div_mod v B ltac:(lia)).
    rewrite (element_cast D HD) by lia. split; [by constructor|]. cbn [length val].
    split; [lia|]. split; [done|]. split; [done|]. split; [|done]. rewrite pow_S.
    replace (v mod B + B * val B l1 + B * B ^ Z.of_nat (length l1) * r1)
      with (v mod B + B * (val B l1 + B ^ Z.of_nat (length l1) * r1)) by ring. lia.
  - intros [= <- <- <-]. cbn [length val]. change (B ^ Z.of_nat 0) with 1.
    repeat split; [constructor|lia..].
Qed.

Lemma write_rest_spec v i l rest : 0 <= v -> 0 <= i <= SIZE D - 1 ->
  write_rest D v i = (l, rest) ->
  Z.of_nat (length l) = SIZE D - i /\ digits_ok B l /\ 0 <= rest /\
  val B l + B ^ (SIZE D - 1 - i) * INTEGER_MAX_OVER D * rest = v /\
  val B l < B ^ (SIZE D - 1 - i) * INTEGER_MAX_OVER D.
Proof using HD.
  intros Hv Hi. pose proof (base_gt1 D HD) as HB. pose proof (max_value_size D HD) as [_ HM].
  unfold write_rest. destruct (write_nonzero D (Z.to_nat (SIZE D)) v i) as [[l0 j] r] eqn:E.
  destruct (write_nonzero_spec (Z.to_nat (SIZE D)) v i Hv Hi ltac:(lia) l0 j r E)
    as (H1 & H2 & H3 & H4 & H5 & H6).
  pose proof (val_bound B HB l0 H1) as Hb. pose proof (Z.mod_pos_bound r (INTEGER_MAX_OVER D) ltac:(lia)).
  pose proof (Z.div_mod r (INTEGER_MAX_OVER D) ltac:(lia)) as Er. pose proof (pow_pos B HB (length l0)).
  destruct (Z.eqb_spec j (SIZE D - 1)) as [Ej|Ej]; intros [= <- <-].
  - rewrite (element_cast D HD) by lia. rewrite length_app. cbn [length]. split; [lia|]. split.
    { apply Forall_app. split; [done|]. constructor; [lia|constructor]. }
    split; [apply Z.div_pos; lia|]. rewrite val_app. cbn [val]. rewrite Z.mul_0_r, Z.add_0_r.
    replace (SIZE D - 1 - i) with (Z.of_nat (length l0)) by lia.
    split; [rewrite <- H5; rewrite Er at 3; ring|nia].
  - rewrite (H6 Ej) in *. rewrite length_app, repeat_length.
    split; [lia|]. split; [apply Forall_app; split; [done|by apply digits_ok_0]|].
    split; [lia|]. rewrite val_app, val_repeat0. split; [lia|].
    assert (B ^ Z.of_nat (length l0) <= B ^ (SIZE D - 1 - i)) by (apply Z.pow_le_mono_r; lia). nia.
Qed.

Lemma Decimal_construct_abs_spec n v power : boundary_inside -> 0 <= v ->
  0 <= power <= FRACTION_RANK D ->
  represents D (construct_abs D n v power)
    (if n then - (v * 10 ^ (FRACTION_RANK D - power)) else v * 10 ^ (FRACTION_RANK D - power)).
Proof using HD.
  intros Hin Hv Hp. unfold construct_abs, boundary_inside in *. pose proof (base_gt1 D HD) as HB.
  pose proof (digits_per_element D HD) as [HDP HDM]. set (diff := FRACTION_RANK D - power).
  set (dpe := DIGITS_PER_ELEMENT D) in *.
  pose proof (Z.div_mod diff dpe ltac:(lia)) as Ed. pose proof (Z.mod_pos_bound diff dpe ltac:(lia)) as Hr.
  set (i0 := diff / dpe) in *. set (r := diff mod dpe) in *.
  assert (Hi0 : 0 <= i0 <= FRACTION_END D).
  { split; [apply Z.div_pos; lia|]. apply Z.div_le_mono; lia. }
  assert (EP : 10 ^ diff = B ^ i0 * 10 ^ r).
  { rewrite (base_pow D HD), <- Z.pow_add_r by nia. f_equal. fold dpe. lia. }
  (* the part below the next element boundary *)
  assert (Hpart : exists part v',
    (if negb (r =? 0) then
       let* mask := pow10 (Base D) (dpe - r) in
       Ret ([cast (Base D) (cast (Base D) (v mod mask) * (B / mask))], i0 + 1, v / mask)
     else Ret ([], i0, v)) = Ret (part, i0 + Z.of_nat (length part), v') /\
    digits_ok B part /\ Z.of_nat (length part) <= 1 /\ 0 <= v' /\
    val B part + B ^ Z.of_nat (length part) * v' = v * 10 ^ r).
  { destruct (Z.eqb_spec r 0) as [E0|E0]; cbn [negb].
    - exists [], v. rewrite E0. cbn [length val]. rewrite Z.add_0_r.
      split; [done|]. split; [constructor|]. change (B ^ Z.of_nat 0) with 1. lia.
    - assert (Hd10 : dpe <= digits10 (Base D)).
      { unfold dpe, DIGITS_PER_ELEMENT. case_Z; lia. }
      rewrite pow10_small by (apply HD || lia). cbn [obind].
      set (mask := 10 ^ (dpe - r)).
      assert (Hmask : 0 < mask) by (apply Z.pow_pos_nonneg; lia).
      assert (EB : B = mask * 10 ^ r).
      { unfold mask, BASE. rewrite <- Z.pow_add_r by lia. f_equal. fold dpe. lia. }
      assert (H10 : 0 < 10 ^ r) by (apply Z.pow_pos_nonneg; lia).
      assert (EQ : B / mask = 10 ^ r) by (rewrite EB, Z.mul_comm, Z.div_mul by lia; done).
      rewrite EQ.
      pose proof (Z.mod_pos_bound v mask Hmask). pose proof (Z.div_mod v mask ltac:(lia)) as Ev.
      assert (mask <= B) by nia.
      rewrite (element_cast D HD (v mod mask)) by lia. rewrite (element_cast D HD) by nia.
      exists [v mod mask * 10 ^ r], (v / mask). cbn [length val]. split; [done|].
      split; [constructor; [nia|constructor]|]. split; [lia|]. split; [apply Z.div_pos; lia|].
      change (B ^ Z.of_nat 1) with (B ^ 1). rewrite Z.pow_1_r. rewrite Ev at 3. rewrite EB. ring. }
  destruct Hpart as (part & v' & -> & Dp & Lp & Hv' & Ev'). cbn [obind].
  set (i := i0 + Z.of_nat (length part)) in *.
  destruct (write_rest D v' i) as [l rest] eqn:E.
  destruct (write_rest_spec v' i l rest Hv' ltac:(lia) E) as (Ll & Dl & Hr' & El & Hb).
  assert (EM : MAX_VALUE_ D = B ^ i * (B ^ (SIZE D - 1 - i) * INTEGER_MAX_OVER D)).
  { rewrite (proj1 (max_value_size D HD)). rewrite Z.mul_assoc, <- Z.pow_add_r by lia.
    replace (i + (SIZE D - 1 - i)) with (SIZE D - 1) by lia. ring. }
  set (M := B ^ (SIZE D - 1 - i) * INTEGER_MAX_OVER D) in *.
  assert (Hall : val B (repeat 0 (Z.to_nat i0) ++ part ++ l) + MAX_VALUE_ D * rest = v * 10 ^ diff).
  { rewrite !val_app, val_repeat0, repeat_length, Z2Nat.id by lia. rewrite EM, EP.
    unfold i. rewrite Z.pow_add_r by lia.
    replace (v * (B ^ i0 * 10 ^ r)) with (B ^ i0 * (v * 10 ^ r)) by ring. rewrite <- Ev', <- El. ring. }
  assert (Dall : digits_ok B (repeat 0 (Z.to_nat i0) ++ part ++ l)).
  { apply Forall_app. split; [by apply digits_ok_0|]. by apply Forall_app. }
  pose proof (val_bound B HB _ Dall) as Ball.
  destruct (Z.eqb_spec rest 0) as [E0|E0]; cbn [negb].
  - apply Decimal_represents_ret; [done| |done| |].
    + rewrite !length_app, repeat_length. lia.
    + rewrite !val_app, val_repeat0, repeat_length, Z2Nat.id by lia. rewrite EM. unfold i in *.
      rewrite Z.pow_add_r by lia. pose proof (val_bound B HB part Dp).
      pose proof (Z.pow_pos_nonneg B i0). fold M.
      assert (val B part + B ^ Z.of_nat (length part) * val B l < B ^ Z.of_nat (length part) * M) by nia.
      nia.
    + rewrite <- Hall, E0, Z.mul_0_r, Z.add_0_r. done.
  - apply Decimal_represents_throw. rewrite <- Hall.
    assert (0 < MAX_VALUE_ D) by (apply Z.pow_pos_nonneg; [lia|]; destruct HD as (_ & ? & _); lia).
    destruct n; nia.
Qed.

Lemma zeros_represent n : represents D (Ret {| negative_ := n; array_ := repeat 0 (Z.to_nat (SIZE D)) |}) 0.
Proof using HD.
  apply Decimal_represents_ret; [done|apply repeat_length|apply digits_ok_0, base_gt1, HD|..];
    rewrite val_repeat0; [|by destruct n].
  apply Z.pow_pos_nonneg; [lia|]. destruct HD as (_ & ? & _). lia.
Qed.

Lemma Decimal_construct_power_spec T i power : boundary_inside -> integer T -> - max_ T <= i <= max_ T ->
  (is_signed T = false -> 0 <= i) -> 0 <= power ->
  power < digits10 T + FRACTION_RANK D \/ Z.abs i < 10 ^ digits10 T ->
  represents D (construct_power D T i power)
    (Z.sgn i * (Z.abs i * 10 ^ FRACTION_RANK D / 10 ^ power)).
Proof using HD.
  intros Hin HT Hi Hs Hp Hcut. unfold construct_power.
  destruct (Z.eqb_spec i 0) as [->|Hi0]; [rewrite orb_true_r; apply zeros_represent|].
  rewrite orb_false_r. pose proof HD as (_ & _ & HF). pose proof (digits10_le T HT) as H10.
  destruct (Z.leb_spec (digits10 T + FRACTION_RANK D) power) as [Hbig|Hsmall].
  { assert (Z.abs i * 10 ^ FRACTION_RANK D / 10 ^ power = 0) as ->; [|rewrite Z.mul_0_r; apply zeros_represent].
    apply Z.div_small. pose proof (Z.pow_pos_nonneg 10 (FRACTION_RANK D)). split; [nia|].
    apply Z.lt_le_trans with (10 ^ (digits10 T + FRACTION_RANK D)).
    - rewrite Z.pow_add_r by lia. nia.
    - apply Z.pow_le_mono_r; lia. }
  assert (Habs : forall n v, 0 <= v -> represents D
    (if FRACTION_RANK D <? power then
       let* p := pow10 T (power - FRACTION_RANK D) in
       construct_abs D n (v / p) (FRACTION_RANK D)
     else construct_abs D n v power)
    (if n then - (v * 10 ^ FRACTION_RANK D / 10 ^ power) else v * 10 ^ FRACTION_RANK D / 10 ^ power)).
  { intros n v Hv. destruct (Z.ltb_spec (FRACTION_RANK D) power).
    - rewrite pow10_small by (done || lia). cbn [obind].
      assert (Eq : v * 10 ^ FRACTION_RANK D / 10 ^ power = v / 10 ^ (power - FRACTION_RANK D)).
      { pose proof (Z.pow_pos_nonneg 10 (power - FRACTION_RANK D)).
        pose proof (Z.pow_pos_nonneg 10 (FRACTION_RANK D)).
        replace power with ((power - FRACTION_RANK D) + FRACTION_RANK D) at 1 by lia.
        rewrite Z.pow_add_r, Z.div_mul_cancel_r by lia. done. }
      rewrite Eq. pose proof (Decimal_construct_abs_spec n (v / 10 ^ (power - FRACTION_RANK D)) (FRACTION_RANK D) Hin) as H'.
      rewrite Z.sub_diag, Z.pow_0_r, Z.mul_1_r in H'. apply H'; [|lia].
      apply Z.div_pos; [done|]. apply Z.pow_pos_nonneg; lia.
    - assert (Eq : v * 10 ^ FRACTION_RANK D / 10 ^ power = v * 10 ^ (FRACTION_RANK D - power)).
      { pose proof (Z.pow_pos_nonneg 10 power).
        replace (FRACTION_RANK D) with ((FRACTION_RANK D - power) + power) at 1 by lia.
        rewrite Z.pow_add_r, Z.mul_assoc, Z.div_mul by lia. done. }
      rewrite Eq. by apply Decimal_construct_abs_spec. }
  unfold split_sign. destruct (Z.ltb_spec i 0) as [Hneg|Hnn].
  - destruct (is_signed T); [|lia]. unfold guard. decide_Z. cbn [obind].
    rewrite Z.abs_neq, Z.sgn_neg, Z.mul_comm, <- Z.opp_eq_mul_m1 by lia. apply (Habs true). lia.
  - rewrite Z.abs_eq, Z.sgn_pos, Z.mul_1_l by lia.
    destruct (is_signed T); cbn [obind]; by apply (Habs false).
Qed.

(** *** Conversion to an integer *)

Lemma integer_loop_spec T h : integer T -> digits_ok B h -> forall ret, 0 <= ret <= max_ T ->
  let v := ret * B ^ Z.of_nat (length h) + val B (rev h) in
  integer_loop D (max_ T) T h ret = if v <=? max_ T then Some v else None.
Proof using HD.
  intros HT Hh. pose proof (base_gt1 D HD) as HB.
  assert (Hc : forall z, 0 <= z <= max_ T -> cast T z = z).
  { intros z Hz. apply cast_id; [done|]. unfold min_. destruct (is_signed T); [|lia].
    pose proof (Z.pow_pos_nonneg 2 (digits T)). pose proof (integer_digits T HT). lia. }
  induction Hh as [|e h He Hh IH]; intros ret Hret v.
  { unfold v. cbn. rewrite Z.mul_1_r, Z.add_0_r. by decide_Z. }
  cbn [integer_loop]. unfold v. cbn [length rev]. rewrite val_app, pow_S, length_rev. cbn [val].
  rewrite Z.mul_0_r, Z.add_0_r.
  assert (Hrb : 0 <= val B (rev h)).
  { apply val_bound; [done|]. apply Forall_rev, Hh. }
  pose proof (pow_pos B HB (length h)) as HP.
  assert (Hg : (e <=? max_ T) && (ret <=? (max_ T - e) / B) = (ret * B + e <=? max_ T)).
  { apply eq_iff_eq_true. rewrite andb_true_iff, !Z.leb_le. split.
    - intros [H1 H2]. pose proof (Z.mul_div_le (max_ T - e) B). nia.
    - intros H1. split; [nia|]. apply Z.div_le_lower_bound; lia. }
  rewrite Hg. replace (ret * (B * B ^ Z.of_nat (length h)) + _)
    with ((ret * B + e) * B ^ Z.of_nat (length h) + val B (rev h)) by ring.
  destruct (Z.leb_spec (ret * B + e) (max_ T)).
  - rewrite Hc by nia. apply IH. nia.
  - rewrite (proj2 (Z.leb_gt _ _)); [done|]. nia.
Qed.

Lemma fraction_end_size : 0 < INTEGER_RANK D -> FRACTION_END D < SIZE D.
Proof using HD.
  intros HI. pose proof (digits_per_element D HD) as [H _]. pose proof (size_bounds D HD) as [H1 H2].
  pose proof (Z.div_mod (FRACTION_RANK D) (DIGITS_PER_ELEMENT D) ltac:(lia)) as E.
  pose proof (Z.mod_pos_bound (FRACTION_RANK D) (DIGITS_PER_ELEMENT D) ltac:(lia)) as Hm.
  fold (FRACTION_END D) in E. unfold INTEGER_RANK in HI. nia.
Qed.

Lemma Decimal_integer_spec T x : integer T -> valid D x ->
  let v := Z.quot (value D x) (MAX_FRACTION_ D) in
  if max_ T <? Z.abs v then exists what, Decimal_integer D T x = Throw (Overflow what)
  else if (v <? 0) && negb (is_signed T)
  then exists what, Decimal_integer D T x = Throw (Sign what)
  else Decimal_integer D T x = Ret v.
Proof using HD.
  intros HT Hx v. pose proof (base_gt1 D HD) as HB. pose proof max_fraction_pos as HM.
  pose proof (magnitude_bound D HD x Hx) as Hmag. unfold Decimal_integer.
  rewrite (Decimal_valid_set D HD) by done. cbn [guard].
  set (q := magnitude D x / MAX_FRACTION_ D).
  assert (Hq : 0 <= q) by (apply Z.div_pos; lia).
  assert (Ev : v = if negative_ x then - q else q).
  { unfold v, value, q. destruct (negative_ x); rewrite ?Z.quot_opp_l, Z.quot_div_nonneg by lia; done. }
  rewrite Ev. replace (Z.abs _) with q by (destruct (negative_ x); lia).
  pose proof (integer_digits T HT). pose proof (Z.pow_pos_nonneg 2 (digits T)).
  assert (Hmin : min_ T <= 0) by (unfold min_; destruct (is_signed T); lia).
  pose proof (max_u64 T HT) as HT64.
  destruct (Z.eqb_spec (INTEGER_RANK D) 0) as [EI|EI].
  { assert (q = 0) as ->.
    { apply Z.div_small. split; [lia|]. replace (MAX_FRACTION_ D) with (MAX_VALUE_ D); [lia|].
      unfold MAX_VALUE_, MAX_FRACTION_. f_equal. unfold INTEGER_RANK in EI. lia. }
    rewrite (proj2 (Z.ltb_ge (max_ T) 0)) by lia. by destruct (negative_ x). }
  assert (HI : 0 < INTEGER_RANK D) by (destruct HD as (_ & _ & ?); unfold INTEGER_RANK in *; lia).
  pose proof (fraction_end_size HI) as HE'.
  pose proof (fraction_split D HD) as (EF & ER & HR & HE & _).
  destruct Hx as (Lx & Dx & _). set (n := Z.to_nat (FRACTION_END D)).
  destruct (lookup_lt_is_Some_2 (array_ x) n) as [e He]; [lia|].
  destruct (val_at B HB n e _ He Dx) as (Hee & _ & low & Hlow & Em).
  set (high := drop (S n) (array_ x)) in *.
  pose proof (integer_loop_spec T (rev high) HT (Forall_rev (digits_drop B (S n) _ Dx)) 0 ltac:(lia)) as Hloop.
  cbv zeta in Hloop. rewrite Z.mul_0_l, Z.add_0_l, rev_involutive in Hloop. rewrite Hloop.
  set (R := FRACTION_REMAINDER D) in *. set (O := FRACTION_OVER D) in *.
  assert (HO : 0 < O) by nia. pose proof (Z.mod_pos_bound e R ltac:(lia)) as Hmr.
  pose proof (Z.div_mod e R ltac:(lia)) as Ee. pose proof (val_bound B HB _ (digits_drop B (S n) _ Dx)) as Hhb.
  fold high in Hhb.
  assert (Eq : q = e / R + O * val B high).
  { symmetry. unfold q. apply (Z.div_unique _ _ _ (low + B ^ Z.of_nat n * (e mod R))).
    - left. rewrite EF. replace (FRACTION_END D) with (Z.of_nat n) by lia. nia.
    - unfold magnitude. rewrite Em, EF. replace (FRACTION_END D) with (Z.of_nat n) by lia.
      rewrite <- ER. rewrite Ee at 1. ring. }
  assert (HeR : 0 <= e / R) by (apply Z.div_pos; lia).
  set (Hv := val B high) in *. set (E := e / R) in *.
  destruct (Z.leb_spec Hv (max_ T)) as [HH|HH].
  2: { rewrite (proj2 (Z.ltb_lt (max_ T) q)) by nia. by eexists. }
  unfold at_, rd. fold n. rewrite He. cbn [obind]. fold E.
  assert (Hg : (max_ T <? E) || ((max_ T - E) / O <? Hv) = (max_ T <? q)).
  { apply eq_iff_eq_true. rewrite orb_true_iff, !Z.ltb_lt. split.
    - intros [H1|H1]; [nia|]. pose proof (Z.mul_succ_div_gt (max_ T - E) O HO). nia.
    - intros H1. destruct (Z.lt_ge_cases (max_ T) E); [by left|]. right.
      apply Z.div_lt_upper_bound; [done|]. lia. }
  rewrite Hg. destruct (Z.ltb_spec (max_ T) q) as [Hover|Hfit]; [by eexists|].
  assert (Eret : cast T (Hv * cast T O + cast T E) = q).
  { assert (Hc : forall z, 0 <= z <= max_ T -> cast T z = z) by (intros z Hz; apply cast_id; [done|lia]).
    rewrite (Hc E) by nia. destruct (Z.eq_dec Hv 0) as [->|Hv0].
    - rewrite Z.mul_0_l, Z.add_0_l, Hc by nia. lia.
    - rewrite (Hc O) by nia. rewrite Hc by nia. lia. }
  rewrite Eret. destruct (negative_ x); cbn [andb].
  - destruct (Z.eqb_spec q 0) as [->|E0]; cbn [negb andb].
    + rewrite (proj2 (Z.ltb_ge _ _)) by lia. cbn [andb]. by rewrite cast_id by (done || lia).
    + rewrite (proj2 (Z.ltb_lt _ _)) by lia. cbn [andb].
      destruct (is_signed T) eqn:Es; cbn [negb]; [|by eexists].
      rewrite cast_id; [done|done|]. unfold min_, max_ in *. rewrite Es. lia.
  - rewrite (proj2 (Z.ltb_ge _ _)) by lia. done.
Qed.

(** *** Rounding *)

(** The position of a unit: the elements below it and its place in the next. *)
Lemma unit_split k : 0 <= k < FRACTION_RANK D ->
  let fraction := FRACTION_RANK D - k in
  let index := Z.to_nat (fraction / DIGITS_PER_ELEMENT D) in
  let pow := 10 ^ (fraction mod DIGITS_PER_ELEMENT D) in
  unit_at D k = B ^ Z.of_nat index * pow /\ 0 < pow /\ (exists c, B = pow * c) /\
  pow10 (Base D) (fraction mod DIGITS_PER_ELEMENT D) = Ret pow /\ (index <= Z.to_nat (SIZE D))%nat.
Proof using HD.
  intros Hk fraction index pow. pose proof (digits_per_element D HD) as [H _].
  pose proof (Z.div_mod fraction (DIGITS_PER_ELEMENT D) ltac:(lia)) as E.
  pose proof (Z.mod_pos_bound fraction (DIGITS_PER_ELEMENT D) ltac:(lia)) as Hm.
  assert (Hq : 0 <= fraction / DIGITS_PER_ELEMENT D) by (apply Z.div_pos; lia).
  split; [|split; [|split; [|split]]].
  - unfold unit_at, index, pow. rewrite Z.max_r, Z2Nat.id, (base_pow D HD), <- Z.pow_add_r by nia.
    f_equal. fold fraction. lia.
  - apply Z.pow_pos_nonneg; lia.
  - exists (10 ^ (DIGITS_PER_ELEMENT D - fraction mod DIGITS_PER_ELEMENT D)).
    unfold BASE, pow. rewrite <- Z.pow_add_r by lia. f_equal. lia.
  - apply pow10_small; [apply HD|]. unfold DIGITS_PER_ELEMENT in *. destruct (2 <=? _); lia.
  - pose proof (size_bounds D HD) as (H1 & H2 & H3). destruct HD as (_ & HT & HF).
    assert (fraction / DIGITS_PER_ELEMENT D <= SIZE D); [|lia].
    apply Z.div_le_upper_bound; [lia|]. lia.
Qed.

Lemma magnitude_value x : valid D x -> Z.abs (value D x) = magnitude D x.
Proof using HD. intros Hx%(magnitude_bound D HD). unfold value. destruct (negative_ x); lia. Qed.

Lemma Decimal_represents_self x : valid D x -> represents D (Ret x) (value D x).
Proof using HD.
  intros Hx. unfold represents. rewrite magnitude_value by done.
  rewrite (proj2 (Z.ltb_lt _ _)) by apply Hx. by eexists.
Qed.

Lemma sgn_magnitude x d : valid D x -> (magnitude D x = 0 -> d = 0) ->
  Z.sgn (value D x) * d = if negative_ x then - d else d.
Proof using HD.
  intros Hx%(magnitude_bound D HD). exact (SimpleDecimal.sgn_value
    {| SimpleDecimal.negative_ := negative_ x; data_ := magnitude D x |} d (proj1 Hx)).
Qed.

Lemma Decimal_floor_spec x k : valid D x -> 0 <= k ->
  represents D (floor D k x) (Z.sgn (value D x) * (magnitude D x / unit_at D k * unit_at D k)).
Proof using HD.
  intros Hx Hk. pose proof (base_gt1 D HD) as HB. pose proof (magnitude_bound D HD x Hx) as Hmag.
  unfold floor. rewrite (Decimal_valid_set D HD) by done. cbn [guard].
  destruct (Z.leb_spec (FRACTION_RANK D) k) as [Hle|Hlt].
  { rewrite (proj2 (orb_true_iff _ _)) by (rewrite Z.ltb_lt, Z.eqb_eq; lia).
    unfold unit_at. rewrite Z.max_l, Z.pow_0_r, Z.div_1_r, Z.mul_1_r, sgn_magnitude by (done || lia).
    by apply Decimal_represents_self. }
  decide_Z. cbn [orb]. destruct (unit_split k ltac:(lia)) as (EU & HP & [c Hc] & -> & Hi).
  set (index := Z.to_nat _) in *. set (pow := 10 ^ (_ mod _)) in *.
  rewrite sgn_magnitude; [|done|intros ->; rewrite Z.div_0_l; [lia|]].
  2: { rewrite EU. pose proof (pow_pos B HB index). nia. }
  destruct Hx as (Lx & Dx & Vx). pose proof (pow_pos B HB index) as HPi.
  pose proof (val_bound B HB _ (digits_take B index _ Dx)) as Hlow.
  rewrite length_take, Nat.min_l in Hlow by lia.
  destruct (drop index (array_ x)) as [|e high] eqn:Ed.
  - assert (magnitude D x / unit_at D k = 0) as ->.
    { apply Z.div_small. unfold magnitude in *. rewrite (val_split B index), Ed in * by lia.
      cbn [val] in *. rewrite EU. nia. }
    rewrite Z.mul_0_l. assert (index = Z.to_nat (SIZE D)) as ->.
    { apply (f_equal length) in Ed. rewrite length_drop in Ed. simpl in Ed. lia. }
    replace (if negative_ x then - 0 else 0) with 0 by by destruct (negative_ x). apply zeros_represent.
  - cbn [obind]. pose proof (digits_drop B index _ Dx) as Dh. rewrite Ed in Dh.
    apply Forall_cons in Dh as [He Dh].
    pose proof (Z.mod_pos_bound e pow HP). pose proof (Z.div_mod e pow ltac:(lia)) as Ee.
    assert (Hfl : 0 <= e / pow * pow <= e) by (split; [apply Z.mul_nonneg_nonneg; [apply Z.div_pos|]|]; lia).
    assert (Ee' : (if negb (e mod pow =? 0) then cast (Base D) (e / pow * pow) else e) = e / pow * pow).
    { case_Z; cbn [negb]; [lia|]. apply (element_cast D HD). lia. }
    assert (EM : magnitude D x / unit_at D k * unit_at D k =
      val B (repeat 0 index ++ e / pow * pow :: high)).
    { rewrite val_app, val_repeat0, repeat_length. cbn [val]. rewrite EU.
      assert (Eq : magnitude D x / (B ^ Z.of_nat index * pow) = e / pow + c * val B high).
      { symmetry. apply (Z.div_unique _ _ _ (val B (take index (array_ x)) + B ^ Z.of_nat index * (e mod pow))).
        - left. nia.
        - unfold magnitude. rewrite (val_split B index) at 1 by lia. rewrite Ed. cbn [val].
          rewrite Hc. rewrite Ee at 1. ring. }
      rewrite Eq, Hc. ring. }
    rewrite Ee', EM. apply Decimal_represents_ret; [done| | | |done].
    + apply (f_equal length) in Ed. rewrite length_drop in Ed. cbn [length] in Ed.
      rewrite length_app, repeat_length. cbn [length]. lia.
    + apply Forall_app. split; [by apply digits_ok_0|]. constructor; [lia|done].
    + rewrite val_app, val_repeat0, repeat_length. cbn [val]. unfold magnitude in Vx.
      rewrite (val_split B index), Ed in Vx by lia. cbn [val] in Vx. nia.
Qed.

Lemma ceil_carry_spec h : digits_ok B h -> forall l o, ceil_carry D h = (l, o) ->
  length l = length h /\ digits_ok B l /\
  val B l + B ^ Z.of_nat (length h) * Z.b2z o = val B h + 1.
Proof using HD.
  pose proof (base_gt1 D HD) as HB. induction 1 as [|e h He Hh IH]; intros l o; cbn [ceil_carry].
  { intros [= <- <-]. split; [done|]. split; [constructor|]. cbn. lia. }
  destruct (Z.ltb_spec e (B - 1)).
  - intros [= <- <-]. rewrite (element_cast D HD) by lia. split; [done|].
    split; [constructor; [lia|done]|]. cbn [Z.b2z val]. lia.
  - destruct (ceil_carry D h) as [l1 o1] eqn:E. intros [= <- <-].
    destruct (IH l1 o1 eq_refl) as (H1 & H2 & H3). split; [cbn; congruence|].
    split; [constructor; [lia|done]|]. cbn [val length]. rewrite pow_S.
    replace (0 + B * val B l1 + B * B ^ Z.of_nat (length h) * Z.b2z o1)
      with (B * (val B l1 + B ^ Z.of_nat (length h) * Z.b2z o1)) by ring. rewrite H3. lia.
Qed.

Lemma exists_nonzero l : digits_ok B l -> existsb (fun e => negb (e =? 0)) l = negb (val B l =? 0).
Proof using HD.
  pose proof (base_gt1 D HD) as HB. induction 1 as [|e l He Hl IH]; cbn [existsb val]; [done|].
  rewrite IH. pose proof (val_bound B HB l Hl).
  repeat case_Z; cbn [negb orb]; first [done | exfalso; nia].
Qed.

(** The element that is rounded up, with the carry into those above. *)
Lemma ceil_element pow c e high : 0 < pow -> B = pow * c -> 0 <= e < B -> digits_ok B high ->
  forall tail o,
  (if cast (Base D) ((e / pow + 1) * pow) <? B
   then (cast (Base D) ((e / pow + 1) * pow) :: high, false)
   else let '(l, o) := ceil_carry D high in (0 :: l, o)) = (tail, o) ->
  length tail = S (length high) /\ digits_ok B tail /\
  val B tail + B ^ Z.of_nat (S (length high)) * Z.b2z o = (e / pow + 1) * pow + B * val B high.
Proof using HD.
  intros HP Hc He Hh tail o. pose proof (base_gt1 D HD) as HB.
  pose proof (Z.mod_pos_bound e pow HP). pose proof (Z.div_mod e pow ltac:(lia)) as Ee.
  assert (Hq : 0 <= e / pow < c) by (split; [apply Z.div_pos; lia|apply Z.div_lt_upper_bound; lia]).
  set (q := e / pow) in *. assert (Hle : 0 <= (q + 1) * pow <= B) by nia.
  rewrite (element_cast D HD) by lia. destruct (Z.ltb_spec ((q + 1) * pow) B).
  - intros [= <- <-]. split; [done|]. split; [constructor; [lia|done]|]. cbn [Z.b2z val]. lia.
  - destruct (ceil_carry D high) as [l o1] eqn:E. intros [= <- <-].
    destruct (ceil_carry_spec high Hh l o1 E) as (H1 & H2 & H3). split; [cbn; congruence|].
    split; [constructor; [lia|done]|]. cbn [val]. rewrite pow_S.
    replace (0 + B * val B l + B * B ^ Z.of_nat (length high) * Z.b2z o1)
      with (B * (val B l + B ^ Z.of_nat (length high) * Z.b2z o1)) by ring. rewrite H3. lia.
Qed.

(** A list of [SIZE] elements with a carry out of it. *)
Lemma carry_out l o z n what : length l = Z.to_nat (SIZE D) -> digits_ok B l ->
  val B l + B ^ SIZE D * Z.b2z o = z -> represents D
    (let* last := at_ l (SIZE D - 1) in
     if o || (INTEGER_MAX_OVER D <=? last) then Throw (Overflow what)
     else Ret {| negative_ := n; array_ := l |}) (if n then - z else z).
Proof using HD.
  intros Hl Hd <-. pose proof (base_gt1 D HD) as HB. destruct (valid_last D HD l Hl Hd) as (last & -> & Hv).
  pose proof (val_bound B HB l Hd) as Hb. pose proof (size_bounds D HD) as [HS _].
  rewrite Hl, Z2Nat.id in Hb by lia. cbn [obind]. pose proof (max_value_size D HD) as [EM HM].
  assert (MAX_VALUE_ D <= B ^ SIZE D).
  { rewrite EM. replace (SIZE D) with (1 + (SIZE D - 1)) at 2 by lia.
    rewrite Z.pow_add_r, Z.pow_1_r by lia. pose proof (Z.pow_pos_nonneg B (SIZE D - 1)). nia. }
  destruct o; cbn [orb Z.b2z].
  - apply Decimal_represents_throw. destruct n; lia.
  - rewrite Z.mul_0_r, Z.add_0_r. case_Z.
    + apply Decimal_represents_throw. destruct n; lia.
    + apply Decimal_represents_ret; [done|done|done|lia|done].
Qed.

Lemma Decimal_ceil_spec x k : valid D x -> 0 <= k ->
  represents D (ceil D k x)
    (Z.sgn (value D x) * (rounded DMR_CEIL (magnitude D x) (unit_at D k) * unit_at D k)).
Proof using HD.
  intros Hx Hk. pose proof (base_gt1 D HD) as HB. pose proof (magnitude_bound D HD x Hx) as Hmag.
  rewrite rounded_spec by apply unit_at_pos.
  unfold ceil. rewrite (Decimal_valid_set D HD) by done. cbn [guard].
  destruct (Z.leb_spec (FRACTION_RANK D) k) as [Hle|Hlt].
  { rewrite (proj2 (orb_true_iff _ _)) by (rewrite Z.ltb_lt, Z.eqb_eq; lia).
    unfold unit_at. rewrite Z.max_l, Z.pow_0_r, Z.div_1_r, Z.mod_1_r by lia.
    rewrite Z.eqb_refl, Z.add_0_r, Z.mul_1_r, sgn_magnitude by (done || lia). by apply Decimal_represents_self. }
  decide_Z. cbn [orb]. destruct (unit_split k ltac:(lia)) as (EU & HP & [c Hc] & -> & Hi).
  set (index := Z.to_nat _) in *. set (pow := 10 ^ (_ mod _)) in *.
  pose proof (unit_at_pos D k) as HU. pose proof (pow_pos B HB index) as HPi.
  rewrite sgn_magnitude; [|done|intros ->; by rewrite Z.div_0_l, Z.mod_0_l by lia].
  pose proof Hx as (Lx & Dx & Vx). rewrite exists_nonzero by by apply digits_take.
  pose proof (val_bound B HB _ (digits_take B index _ Dx)) as Hlow.
  rewrite length_take, Nat.min_l in Hlow by lia. set (low := val B (take index (array_ x))) in *.
  assert (EMag : magnitude D x = low + B ^ Z.of_nat index * val B (drop index (array_ x)))
    by (unfold magnitude; rewrite (val_split B index) at 1 by lia; done).
  destruct (drop index (array_ x)) as [|e high] eqn:Ed.
  - (* no digit is left: the unit is above the greatest number *)
    assert (Ei : index = Z.to_nat (SIZE D)).
    { apply (f_equal length) in Ed. rewrite length_drop in Ed. simpl in Ed. lia. }
    cbn [val] in EMag. rewrite Z.mul_0_r, Z.add_0_r in EMag.
    assert (Hsm : 0 <= magnitude D x < unit_at D k) by (rewrite EU; nia).
    rewrite Z.div_small, Z.mod_small, <- EMag by lia. cbn [obind].
    destruct (Z.eqb_spec (magnitude D x) 0) as [E0|E0]; cbn [negb].
    + rewrite Ei, Z.mul_0_l. change (- 0) with 0.
      replace (if negative_ x then 0 else 0) with 0 by by destruct (negative_ x). apply zeros_represent.
    + apply Decimal_represents_throw. assert (MAX_VALUE_ D <= unit_at D k); [|destruct (negative_ x); lia].
      rewrite EU, Ei, (proj1 (max_value_size D HD)). pose proof (max_value_size D HD) as [_ HM].
      pose proof (size_bounds D HD) as [HS _]. rewrite Z2Nat.id by lia.
      replace (SIZE D) with (1 + (SIZE D - 1)) at 2 by lia. rewrite Z.pow_add_r, Z.pow_1_r by lia.
      pose proof (Z.pow_pos_nonneg B (SIZE D - 1) ltac:(lia) ltac:(lia)).
      assert (INTEGER_MAX_OVER D * B ^ (SIZE D - 1) <= B * B ^ (SIZE D - 1)) by nia. nia.
  - cbn [obind]. pose proof (digits_drop B index _ Dx) as Dh. rewrite Ed in Dh.
    apply Forall_cons in Dh as [He Dh].
    pose proof (Z.mod_pos_bound e pow HP) as Hm. pose proof (Z.div_mod e pow ltac:(lia)) as Ee.
    assert (Eq : magnitude D x / unit_at D k = e / pow + c * val B high /\
      magnitude D x mod unit_at D k = low + B ^ Z.of_nat index * (e mod pow)).
    { assert (E : magnitude D x = unit_at D k * (e / pow + c * val B high) +
        (low + B ^ Z.of_nat index * (e mod pow))).
      { rewrite EMag, EU. cbn [val]. rewrite Hc. rewrite Ee at 1. ring. }
      assert (0 <= low + B ^ Z.of_nat index * (e mod pow) < unit_at D k) by (rewrite EU; nia).
      split; [by symmetry; apply (Z.div_unique_pos _ _ _ _ H E)|
        by symmetry; apply (Z.mod_unique_pos _ _ _ _ H E)]. }
    destruct Eq as [-> ->].
    assert (Hlen : (S index + length high)%nat = Z.to_nat (SIZE D)).
    { apply (f_equal length) in Ed. rewrite length_drop in Ed. cbn [length] in Ed. lia. }
    assert (Hup : (negb (low =? 0) || negb (e mod pow =? 0)) =
      negb (low + B ^ Z.of_nat index * (e mod pow) =? 0)).
    { repeat case_Z; cbn [negb orb]; first [done | exfalso; nia]. }
    rewrite Hup. destruct (Z.eqb_spec (low + B ^ Z.of_nat index * (e mod pow)) 0) as [E0|E0]; cbn [negb].
    + cbn [obind]. assert (Hnn : 0 <= B ^ Z.of_nat index * (e mod pow)) by (apply Z.mul_nonneg_nonneg; lia).
      assert (El : low = 0) by lia. assert (Em : e mod pow = 0).
      { apply (Z.mul_reg_l _ _ (B ^ Z.of_nat index)); lia. }
      rewrite El. cbn [negb Z.eqb]. apply Decimal_represents_ret; [done| | | |].
      * rewrite length_app, repeat_length. cbn [length]. lia.
      * apply Forall_app. split; [by apply digits_ok_0|]. by constructor.
      * rewrite val_app, val_repeat0, repeat_length, Z.add_0_l. lia.
      * rewrite val_app, val_repeat0, repeat_length, Z.add_0_l, Z.add_0_r, EU. cbn [val].
        replace ((e / pow + c * val B high) * (B ^ Z.of_nat index * pow))
          with (B ^ Z.of_nat index * (e + B * val B high)); [done|].
        rewrite Hc. rewrite Ee at 1. rewrite Em. ring.
    + match goal with |- context [if cast ?T ?r <? ?b then ?t else ?f] =>
        destruct (if cast T r <? b then t else f) as [tail o] eqn:Et end.
      destruct (ceil_element pow c e high HP Hc He Dh tail o Et) as (T1 & T2 & T3).
      assert (Lt : length (repeat 0 index ++ tail) = Z.to_nat (SIZE D))
        by (rewrite length_app, repeat_length, T1; lia).
      assert (Dt : digits_ok B (repeat 0 index ++ tail))
        by (apply Forall_app; split; [by apply digits_ok_0|done]).
      pose proof (carry_out (repeat 0 index ++ tail) o
        ((e / pow + c * val B high + 1) * unit_at D k) (negative_ x) "overflow while ceiling" Lt Dt) as Hout.
      destruct (valid_last D HD _ Lt Dt) as (last & Hl & _). rewrite Hl in Hout |- *. cbn [obind] in *.
      apply Hout. rewrite val_app, val_repeat0, repeat_length, Z.add_0_l, EU.
      replace (B ^ SIZE D) with (B ^ Z.of_nat index * B ^ Z.of_nat (S (length high)))
        by (rewrite <- Z.pow_add_r by lia; f_equal; lia).
      rewrite <- Z.mul_assoc, <- Z.mul_add_distr_l, T3, Hc. ring.
Qed.
End Facts.

(** ** Results *)

(** Conversions of numbers whose integer part reaches beyond the element of
    the boundary.  The constructors from parts and from [integer / 10 ^ power]
    give the number exactly or throw [Overflow]; [floor] and [ceil] round the
    absolute value to the given digit; [integer] is the integer part, or
    [Overflow] or [Sign] if the type does not hold it. *)
Theorem Decimal_conversions (D : DecimalRanks) : decimal_asserts D ->
  (boundary_inside D ->
    (forall n i f, 0 <= i < 2 ^ 64 -> 0 <= f < 2 ^ 64 ->
      if (i <? MAX_INTEGER_ D) && (f <? MAX_FRACTION_ D)
      then exists x, construct_parts D n i f = Ret x /\ valid D x /\ negative_ x = n /\
        magnitude D x = i * MAX_FRACTION_ D + f
      else exists what, construct_parts D n i f = Throw (Overflow what)) /\
    (forall T i power, integer T -> - max_ T <= i <= max_ T -> (is_signed T = false -> 0 <= i) ->
      0 <= power -> power < digits10 T + FRACTION_RANK D \/ Z.abs i < 10 ^ digits10 T ->
      represents D (construct_power D T i power)
        (Z.sgn i * (Z.abs i * 10 ^ FRACTION_RANK D / 10 ^ power)))) /\
  (forall x, valid D x ->
    (forall k, 0 <= k ->
      represents D (floor D k x)
        (Z.sgn (value D x) * (rounded DMR_FLOOR (magnitude D x) (unit_at D k) * unit_at D k)) /\
      represents D (ceil D k x)
        (Z.sgn (value D x) * (rounded DMR_CEIL (magnitude D x) (unit_at D k) * unit_at D k))) /\
    (forall T, integer T ->
      let v := Z.quot (value D x) (MAX_FRACTION_ D) in
      if max_ T <? Z.abs v then exists what, Decimal_integer D T x = Throw (Overflow what)
      else if (v <? 0) && negb (is_signed T)
      then exists what, Decimal_integer D T x = Throw (Sign what)
      else Decimal_integer D T x = Ret v)).
Proof.
  intros HD. split.
  - intros Hin. split; [intros n i f Hi Hf; by apply Decimal_construct_parts_spec|].
    intros T i power HT Hi Hs Hp Hcut. by apply Decimal_construct_power_spec.
  - intros x Hx. split; [intros k Hk; split; [by apply Decimal_floor_spec|by apply Decimal_ceil_spec]|].
    intros T HT. by apply Decimal_integer_spec.
Qed.

Lemma Decimal_conversions_witness : exists z,
  ceil wide 2 {| negative_ := true; array_ := [7; 1999; 0; 0] |} = Ret z /\
  value wide z = -2000000000000.
Proof.
  pose proof (Decimal_conversions wide wide_ok) as [_ H].
  destruct (H {| negative_ := true; array_ := [7; 1999; 0; 0] |} ltac:(by_eval)) as [Hk _].
  destruct (Hk 2 ltac:(by_eval)) as [_ Hc].
  destruct (Decimal_represents_fits wide _ _ Hc ltac:(by_eval)) as (z & Hz & _ & Ez).
  exists z. split; [exact Hz|]. rewrite Ez. vm_compute. reflexivity.
Defined.

(** What goes wrong at the edges.  [mul] with [DMR_CEIL] looks only at the
    most significant element of the digits it cuts off: with a fraction of two
    elements the product of two epsilons is rounded down to zero although it is
    positive.  When the element of the boundary is the last one, the
    constructors from integers do not see that the integer part has too many
    digits: 99999 becomes a number of three integer digits. *)
Theorem Decimal_edges :
  let D2 := {| Base := uint32_t; TOTAL_RANK := 27; FRACTION_RANK := 18 |} in
  let EPSILON := {| negative_ := false; array_ := [1; 0; 0] |} in
  let D1 := {| Base := uint32_t; TOTAL_RANK := 5; FRACTION_RANK := 2 |} in
  let x := {| negative_ := false; array_ := [9999900] |} in
  (decimal_asserts D2 /\ valid D2 EPSILON /\
   mul D2 EPSILON EPSILON DMR_CEIL = Ret {| negative_ := false; array_ := [0; 0; 0] |} /\
   rounded DMR_CEIL (value D2 EPSILON * value D2 EPSILON) (MAX_FRACTION_ D2) = 1) /\
  (decimal_asserts D1 /\ MAX_INTEGER_ D1 = 1000 /\
   construct_parts D1 false 99999 0 = Ret x /\ construct_power D1 int32_t 99999 0 = Ret x /\
   ~ valid D1 x /\ value D1 x = 9999900 /\ MAX_VALUE_ D1 = 100000).
Proof.
  intros D2 EPSILON D1 x. split.
  - split; [by_eval|]. split; [by_eval|]. split; vm_compute; reflexivity.
  - split; [by_eval|]. split; [reflexivity|]. split; [vm_compute; reflexivity|].
    split; [vm_compute; reflexivity|]. split; [|split; reflexivity].
    intros (_ & _ & H). revert H. vm_compute. done.
Qed.
