(* ===== verification/DecimalDiv.v ===== *)
(** * DecimalDiv: long division of [Decimal]

    Models the division of [src/Generics/Decimal.tpp]: the temporary arrays
    [DivTmpDividend] and [DivTmpDivisor], the quick division by one element and
    the long division by more (Knuth's algorithm D in the base [BASE], with the
    guess of each element of the quotient from three elements of the dividend
    and two of the divisor), and the two functions [div] over it. *)
From S2P Require Import Prelude IntStr CommonDecimal SimpleDecimal Decimal DecimalConv.
Local Open Scope Z_scope.
Local Open Scope outcome_scope.

Section Operations.
Context (D : DecimalRanks).
Abbreviation Element := (Base D).

(** The quotient and the remainder of [major * BASE + minor]. *)
Definition div_elements_ (major minor divisor : Z) : outcome (Z * Z) :=
  let* (q, r) := div_base (digits10 Element <=? 19 / 2) major minor (BASE D) divisor in
  Ret (cast Element q, cast Element r).

(** ** Temporary arrays *)

Record DivTmpArray : Type := { tmp_array_ : list Z; size_ : nat; initial_size_ : nat }.

Definition DIV_TMP_SIZE : Z :=
  let rank := INTEGER_RANK D + 2 * FRACTION_RANK D + DIGITS_PER_ELEMENT D in
  rank / DIGITS_PER_ELEMENT D + (if rank mod DIGITS_PER_ELEMENT D =? 0 then 0 else 1).

(** [for (; size_ > 1 && !tmp_array_[size_ - 1]; size_--)] *)
Fixpoint shrink_size (size : nat) (tmp : list Z) : nat :=
  match size with
  | S (S n as size') => if nth size' tmp 0 =? 0 then shrink_size size' tmp else size
  | _ => size
  end.

Definition shrink (a : DivTmpArray) : DivTmpArray :=
  let size := shrink_size (size_ a) (tmp_array_ a) in
  {| tmp_array_ := tmp_array_ a; size_ := size;
     initial_size_ := if (initial_size_ a =? 0)%nat then size else initial_size_ a |}.

(** The loop of [DivTmpArrayBase::mul]: the elements and the last [overflow]. *)
Fixpoint mul_loop (tmp : list Z) (multiplicator overflow : Z) : outcome (list Z * Z) :=
  match tmp with
  | [] => Ret ([], overflow)
  | e :: tmp' =>
    let* (result, over) := mul_elements_ D e multiplicator in
    let result := cast Element (result + overflow) in
    let '(result, over) :=
      if BASE D <=? result then (result - BASE D, cast Element (over + 1)) else (result, over) in
    let* (tmp', overflow) := mul_loop tmp' multiplicator over in
    Ret (result :: tmp', overflow)
  end.

Definition tmp_mul (multiplicator : Z) (a : DivTmpArray) : outcome DivTmpArray :=
  let* (low, overflow) := mul_loop (take (size_ a) (tmp_array_ a)) multiplicator 0 in
  let high := drop (size_ a) (tmp_array_ a) in
  if negb (overflow =? 0) then
    match high with
    | [] => Undef
    | _ :: high' =>
      Ret {| tmp_array_ := low ++ overflow :: high'; size_ := S (size_ a);
             initial_size_ := initial_size_ a |}
    end
  else Ret {| tmp_array_ := low ++ high; size_ := size_ a; initial_size_ := initial_size_ a |}.

(** The loop of [DivTmpArrayBase::div], from the most significant element down. *)
Fixpoint div_loop (tmp : list Z) (divisor : Z) : outcome (list Z * Z) :=
  match tmp with
  | [] => Ret ([], 0)
  | e :: tmp' =>
    let* (tmp', r) := div_loop tmp' divisor in
    let* (q, r) := div_elements_ r e divisor in
    Ret (q :: tmp', r)
  end.

Definition tmp_div (divisor : Z) (a : DivTmpArray) : outcome (DivTmpArray * Z) :=
  let* (low, remainder) := div_loop (take (size_ a) (tmp_array_ a)) divisor in
  Ret (shrink {| tmp_array_ := low ++ drop (size_ a) (tmp_array_ a); size_ := size_ a;
                 initial_size_ := initial_size_ a |}, remainder).

(** The constructor [DivTmpDividend(dividend)]: the dividend times
    [10 ^ FRACTION_RANK]. *)
Fixpoint dividend_loop (array : list Z) (over : Z) : list Z :=
  match array with
  | [] => [over]
  | e :: array' =>
    cast Element (e mod FRACTION_OVER D * FRACTION_REMAINDER D + over) ::
      dividend_loop array' (e / FRACTION_OVER D)
  end.

Definition DivTmpDividend (dividend : Decimal) : outcome DivTmpArray :=
  let low := repeat 0 (Z.to_nat (FRACTION_END D)) in
  let tmp := low ++ (if FRACTION_REMAINDER D =? 1 then array_ dividend
                     else dividend_loop (array_ dividend) 0) in
  guard (length tmp <=? Z.to_nat DIV_TMP_SIZE)%nat
    (Ret {| tmp_array_ := tmp ++ repeat 0 (Z.to_nat DIV_TMP_SIZE - length tmp);
            size_ := Z.to_nat DIV_TMP_SIZE; initial_size_ := O |}).

Definition DivTmpDivisor (divider : Decimal) : DivTmpArray :=
  {| tmp_array_ := array_ divider ++ [0]; size_ := S (length (array_ divider)); initial_size_ := O |}.

(** [DivTmpDividend::export_to] *)
Definition div_export (a : DivTmpArray) : outcome (option (list Z)) :=
  let* last := at_ (tmp_array_ a) (SIZE D - 1) in
  if INTEGER_MAX_OVER D <=? last then Ret None
  else if all_zero (drop (Z.to_nat (SIZE D)) (tmp_array_ a))
  then Ret (Some (take (Z.to_nat (SIZE D)) (tmp_array_ a)))
  else Ret None.

(** ** One element of the quotient *)

(** [while (r < BASE)]: [u2] is [tmp_array_[index - 2]].  At most three rounds
    when [max_div] is at least [BASE / 2]. *)
Fixpoint guess_loop (fuel : nat) (index : nat) (tmp : list Z) (max_div pre_max_div : Z)
  (guess guess_high r : Z) : outcome Z :=
  match fuel with
  | O => Undef
  | S fuel' =>
    if r <? BASE D then
      guard (2 <=? index)%nat
        (let* u2 := rd tmp (index - 2) in
         let* (minor, major) := mul_elements_ D pre_max_div guess in
         let major := cast Element (major + guess_high * pre_max_div) in
         if ((major <? r) || ((major =? r) && (minor <=? u2))) &&
            (negb (guess_high =? 1) || negb (guess =? 0))
         then Ret guess
         else
           let '(guess, guess_high) :=
             if guess =? 0 then (BASE D - 1, cast Element (guess_high - 1)) else (guess - 1, guess_high) in
           guess_loop fuel' index tmp max_div pre_max_div guess guess_high (cast Element (r + max_div)))
    else Ret guess
  end.

Definition guess_next_quotient (index : nat) (max_div pre_max_div : Z) (tmp : list Z) : outcome Z :=
  guard (1 <=? index)%nat
    (let* u0 := rd tmp index in
     let* u1 := rd tmp (index - 1) in
     guard ((u0 <=? max_div) || (max_div / 2 <? u0))
       (if max_div <=? u0 then
          let* (guess, r) := div_elements_ (u0 - max_div) u1 max_div in
          guess_loop 4 index tmp max_div pre_max_div guess 1 r
        else
          let* (guess, r) := div_elements_ u0 u1 max_div in
          guess_loop 4 index tmp max_div pre_max_div guess 0 r)).

(** The loop of [apply_next_quotient] over the elements of the divisor: the new
    elements of [target], [carry] and [borrow]. *)
Fixpoint apply_loop (divisor target : list Z) (guess carry borrow : Z) : outcome (list Z * Z * Z) :=
  match divisor, target with
  | [], _ => Ret ([], carry, borrow)
  | d :: divisor', t :: target' =>
    let* (temp, temp2) := mul_elements_ D d guess in
    let temp := cast Element (temp + carry) in
    let '(temp, carry) :=
      if BASE D <=? temp then (temp - BASE D, cast Element (temp2 + 1)) else (temp, temp2) in
    let temp := cast Element (temp + borrow) in
    let '(t, borrow) :=
      if t <? temp then (cast Element (t + (BASE D - temp)), 1) else (t - temp, 0) in
    let* (l, carry, borrow) := apply_loop divisor' target' guess carry borrow in
    Ret (t :: l, carry, borrow)
  | _ :: _, [] => Undef
  end.

Definition apply_next_quotient (index : nat) (guess : Z) (divisor tmp : list Z) : outcome (list Z * bool) :=
  let target := drop index tmp in
  let* (l, carry, borrow) := apply_loop divisor target guess 0 0 in
  match drop (length divisor) target with
  | [] => Undef
  | t :: high =>
    let temp := cast Element (carry + borrow) in
    let '(t, borrow) :=
      if t <? temp then (cast Element (t + (BASE D - temp)), true) else (t - temp, false) in
    Ret (take index tmp ++ l ++ t :: high, borrow)
  end.

(** [fix_next_quotient] *)
Fixpoint fix_loop (divisor target : list Z) (carry : Z) : outcome (list Z * Z) :=
  match divisor, target with
  | [], _ => Ret ([], carry)
  | d :: divisor', t :: target' =>
    let temp := cast Element (t + d + carry) in
    let '(t, carry) := if BASE D <=? temp then (temp - BASE D, 1) else (temp, 0) in
    let* (l, carry) := fix_loop divisor' target' carry in
    Ret (t :: l, carry)
  | _ :: _, [] => Undef
  end.

Definition fix_next_quotient (index : nat) (divisor tmp : list Z) : outcome (list Z) :=
  let target := drop index tmp in
  let* (l, carry) := fix_loop divisor target 0 in
  match drop (length divisor) target with
  | [] => Undef
  | t :: high => Ret (take index tmp ++ l ++ cast Element (t - (BASE D - carry)) :: high)
  end.

(** One round of the loop [for (; i >= 0; i--)]: the element of the quotient and
    the dividend. *)
Definition next_quotient (i : nat) (max_div pre_max_div : Z) (divisor tmp : list Z)
  : outcome (Z * list Z) :=
  let* guess := guess_next_quotient (i + length divisor) max_div pre_max_div tmp in
  let* (tmp, borrow) := apply_next_quotient i guess divisor tmp in
  if borrow : bool then
    let* tmp := fix_next_quotient i divisor tmp in
    Ret (cast Element (guess - 1), tmp)
  else Ret (guess, tmp).

(** The loop for [i = n - 1, ..., 0]; [quotient] holds the elements from [i + 1]
    on.  [None] is an overflow. *)
Fixpoint quotient_loop (n : nat) (max_div pre_max_div : Z) (divisor : list Z) (dividend : DivTmpArray)
  (quotient : list Z) : outcome (option (DivTmpArray * list Z)) :=
  match n with
  | O => Ret (Some (dividend, quotient))
  | S i =>
    let* (guess, tmp) := next_quotient i max_div pre_max_div divisor (tmp_array_ dividend) in
    let dividend := {| tmp_array_ := tmp; size_ := size_ dividend;
                       initial_size_ := initial_size_ dividend |} in
    if Z.of_nat i =? SIZE D then
      if negb (guess =? 0) then Ret None
      else quotient_loop i max_div pre_max_div divisor dividend quotient
    else if (Z.of_nat i =? SIZE D - 1) && (INTEGER_MAX_OVER D <=? guess) then Ret None
    else quotient_loop i max_div pre_max_div divisor (shrink dividend) (guess :: quotient)
  end.

(** ** Division *)

(** The elements of the quotient by long division. *)
Definition long_division (dividend_tmp divisor_tmp : DivTmpArray) : outcome (list Z) :=
  let* max_div := rd (tmp_array_ divisor_tmp) (size_ divisor_tmp - 1) in
  let scale := BASE D / (max_div + 1) in
  guard ((0 <? scale) && (scale <? BASE D))
    (let* (dividend_tmp, divisor_tmp) :=
       if 1 <? scale then
         let* a := tmp_mul scale dividend_tmp in
         let* b := tmp_mul scale divisor_tmp in
         Ret (a, b)
       else Ret (dividend_tmp, divisor_tmp) in
     let* max_div := rd (tmp_array_ divisor_tmp) (size_ divisor_tmp - 1) in
     let* pre_max_div := rd (tmp_array_ divisor_tmp) (size_ divisor_tmp - 2) in
     let i := (initial_size_ dividend_tmp - initial_size_ divisor_tmp)%nat in
     if SIZE D <? Z.of_nat i then Throw (Overflow "overflow dividing")
     else
       let quotient := repeat 0 (Z.to_nat (SIZE D) - S i) in
       let* r :=
         quotient_loop (S i) max_div pre_max_div
           (take (initial_size_ divisor_tmp) (tmp_array_ divisor_tmp)) dividend_tmp quotient in
       match r with
       | None => Throw (Overflow "overflow dividing")
       | Some (dividend_tmp, quotient) =>
         if 1 <? scale then
           let* (_, junk) := tmp_div scale dividend_tmp in
           guard (junk =? 0) (Ret quotient)
         else Ret quotient
       end).

(** [div_]: the quotient and the result. *)
Definition div_ (dividend divisor : Decimal) : outcome (Decimal * bool) :=
  guard (is_set D dividend && is_set D divisor)
    (let divisor_tmp := shrink (DivTmpDivisor divisor) in
     let* max_div := rd (tmp_array_ divisor_tmp) (size_ divisor_tmp - 1) in
     if max_div =? 0 then Throw (Overflow "division by zero")
     else
       let* dividend_tmp := DivTmpDividend dividend in
       let dividend_tmp := shrink dividend_tmp in
       let negative := xorb (negative_ dividend) (negative_ divisor) in
       if (size_ dividend_tmp <? size_ divisor_tmp)%nat then
         Ret ({| negative_ := negative; array_ := repeat 0 (Z.to_nat (SIZE D)) |}, true)
       else if (size_ divisor_tmp =? 1)%nat then
         let* (dividend_tmp, _) := tmp_div max_div dividend_tmp in
         let* r := div_export dividend_tmp in
         match r with
         | None => Throw (Overflow "overflow dividing")
         | Some array => Ret ({| negative_ := negative; array_ := array |}, false)
         end
       else
         let* array := long_division dividend_tmp divisor_tmp in
         Ret ({| negative_ := negative; array_ := array |}, false)).

(** [div] with the remainder. *)
Definition div_remainder (dividend divisor : Decimal) : outcome (Decimal * Decimal) :=
  let* (quotient, small) := div_ dividend divisor in
  if small : bool then Ret (quotient, dividend)
  else
    let* product := mul D quotient divisor DMR_FLOOR in
    let* remainder := sub D dividend product in
    Ret (quotient, remainder).

Definition EPSILON : outcome Decimal :=
  construct_parts D false (if FRACTION_RANK D =? 0 then 1 else 0)
    (if FRACTION_RANK D =? 0 then 0 else 1).

(** [div] with a rounding mode. *)
Definition div (dividend divisor : Decimal) (ddr : DecimalDivRemainder) : outcome Decimal :=
  let* (quotient, _) := div_ dividend divisor in
  if bool_decide (ddr = DDR_CEIL) then
    let* product := mul D quotient divisor DMR_FLOOR in
    let* same := equal D dividend product in
    if negb same then
      let* epsilon := EPSILON in
      let* (array, over) := internal_add_ D (array_ quotient) (array_ epsilon) in
      if over : bool then Throw (Overflow "overflow while dividing")
      else Ret {| negative_ := negative_ quotient; array_ := array |}
    else Ret quotient
  else Ret quotient.
End Operations.

(** A small check: 22 digits over 13 digits. *)
Example div_sample :
  div wide {| negative_ := false; array_ := [123456789; 987654321; 123456; 0] |}
    {| negative_ := true; array_ := [777777777; 5555; 0; 0] |} DDR_FLOOR =
  Ret {| negative_ := true;
         array_ := [(123456987654321123456789 * 10 ^ 12 / 5555777777777) mod 10 ^ 9;
                    (123456987654321123456789 * 10 ^ 12 / 5555777777777) / 10 ^ 9 mod 10 ^ 9;
                    (123456987654321123456789 * 10 ^ 12 / 5555777777777) / 10 ^ 18; 0] |}.
Proof. vm_compute. reflexivity. Qed.

Section Facts.
Context (D : DecimalRanks) (HD : decimal_asserts D).

Local Abbreviation B := (BASE D).

Lemma base_u64 : B < 2 ^ 64.
Proof using HD.
  pose proof (digits_per_element D HD) as [_ H]. pose proof (max_u64 (Base D) (proj1 (proj1 HD))).
  pose proof (base_gt D HD). lia.
Qed.

Lemma div_elements_spec major minor d : 0 <= major < d -> d <= B -> 0 <= minor < B ->
  div_elements_ D major minor d = Ret ((major * B + minor) / d, (major * B + minor) mod d) /\
  0 <= (major * B + minor) / d < B /\ 0 <= (major * B + minor) mod d < d.
Proof using HD.
  intros Ha Hd Hi. pose proof (base_gt1 D HD) as HB. pose proof (base_product D HD) as HP.
  pose proof base_u64 as HB64. set (N := major * B + minor).
  assert (HN : 0 <= N < d * B) by (unfold N; nia).
  assert (Hq : 0 <= N / d < B) by (split; [apply Z.div_pos; lia|apply Z.div_lt_upper_bound; lia]).
  pose proof (Z.mod_pos_bound N d ltac:(lia)) as Hr. split; [|done].
  unfold div_elements_, div_base. destruct (digits10 (Base D) <=? 19 / 2).
  - unfold u64. rewrite (Z.mod_small (major * B)) by nia. rewrite Z.mod_small by (fold N; nia).
    fold N. rewrite (proj2 (Z.eqb_neq d 0)) by lia. cbn [negb guard obind].
    by rewrite !(element_cast D HD) by lia.
  - assert (Ehl : u64 (major * B / 2 ^ 64 + (u64 (major * B) + minor) / 2 ^ 64) = N / 2 ^ 64 /\
      u64 (u64 (major * B) + minor) = N mod 2 ^ 64).
    { unfold u64. pose proof (Z.div_mod (major * B) (2 ^ 64) ltac:(lia)) as E.
      assert (EN : N / 2 ^ 64 = major * B / 2 ^ 64 + ((major * B) mod 2 ^ 64 + minor) / 2 ^ 64).
      { unfold N. rewrite E at 1.
        replace (2 ^ 64 * (major * B / 2 ^ 64) + (major * B) mod 2 ^ 64 + minor)
          with ((major * B) mod 2 ^ 64 + minor + (major * B / 2 ^ 64) * 2 ^ 64) by ring.
        rewrite Z.div_add by lia. lia. }
      rewrite <- EN. split.
      - apply Z.mod_small. split; [apply Z.div_pos; lia|]. apply Z.div_lt_upper_bound; [lia|]. nia.
      - unfold N. by rewrite Z.add_mod_idemp_l by lia. }
    destruct Ehl as [-> ->]. unfold divq.
    assert (N / 2 ^ 64 < d) by (apply Z.div_lt_upper_bound; nia).
    rewrite (proj2 (Z.leb_gt _ _)) by done. cbn [obind].
    replace (N / 2 ^ 64 * 2 ^ 64 + N mod 2 ^ 64) with N
      by (pose proof (Z.div_mod N (2 ^ 64)); lia).
    by rewrite !(element_cast D HD) by lia.
Qed.

(** *** Temporary arrays *)

(** The elements from [size_] on are zero. *)
Definition sized (a : DivTmpArray) : Prop :=
  digits_ok B (tmp_array_ a) /\ (1 <= size_ a <= length (tmp_array_ a))%nat /\
  val B (drop (size_ a) (tmp_array_ a)) = 0.

Definition tval (a : DivTmpArray) : Z := val B (tmp_array_ a).

Lemma sized_take a : sized a -> val B (take (size_ a) (tmp_array_ a)) = tval a.
Proof using. intros (_ & Hs & H0). unfold tval. rewrite (val_split B (size_ a) (tmp_array_ a)) by lia. lia. Qed.

Lemma shrink_size_spec s tmp : digits_ok B tmp -> (1 <= s <= length tmp)%nat ->
  val B (drop s tmp) = 0 ->
  let s' := shrink_size s tmp in
  (1 <= s' <= s)%nat /\ val B (drop s' tmp) = 0 /\ ((1 < s')%nat -> B ^ (Z.of_nat s' - 1) <= val B tmp).
Proof using HD.
  intros Hd. pose proof (base_gt1 D HD) as HB. induction s as [|s IH]; intros Hs H0; [lia|].
  destruct s as [|s]; [cbn; split; [lia|]; split; [done|lia]|].
  change (shrink_size (S (S s)) tmp)
    with (if nth (S s) tmp 0 =? 0 then shrink_size (S s) tmp else S (S s)).
  destruct (lookup_lt_is_Some_2 tmp (S s)) as [e He]; [lia|].
  rewrite (nth_lookup_Some _ _ _ _ He).
  destruct (val_at B HB (S s) e tmp He Hd) as (Hee & Ed & low & Hlow & Ev).
  destruct (Z.eqb_spec e 0) as [E|E].
  - destruct IH as (H1 & H2 & H3); [lia|rewrite Ed, E; cbn [val]; lia|]. cbv zeta in *.
    split; [lia|]. by split.
  - cbv zeta. split; [lia|]. split; [done|]. intros _.
    replace (Z.of_nat (S (S s)) - 1) with (Z.of_nat (S s)) by lia. rewrite Ev, H0.
    pose proof (pow_pos B HB (S s)). nia.
Qed.

Lemma shrink_spec a : sized a -> sized (shrink a) /\ tval (shrink a) = tval a /\
  (size_ (shrink a) <= size_ a)%nat /\
  ((1 < size_ (shrink a))%nat -> B ^ (Z.of_nat (size_ (shrink a)) - 1) <= tval a).
Proof using HD.
  intros (Hd & Hs & H0). destruct (shrink_size_spec (size_ a) (tmp_array_ a) Hd Hs H0) as (H1 & H2 & H3).
  unfold sized, shrink, tval. cbn [tmp_array_ size_]. repeat split; try done; lia.
Qed.

Lemma mul_loop_spec l m : digits_ok B l -> 0 <= m < B -> forall o, 0 <= o <= B - 1 -> exists l' o',
  mul_loop D l m o = Ret (l', o') /\ length l' = length l /\ digits_ok B l' /\ 0 <= o' <= B - 1 /\
  val B l' + B ^ Z.of_nat (length l) * o' = val B l * m + o.
Proof using HD.
  intros Hl Hm. pose proof (base_gt1 D HD) as HB.
  induction Hl as [|e l He Hl IH]; intros o Ho; cbn [mul_loop].
  { exists [], o. split; [done|]. split; [done|]. split; [constructor|]. split; [done|].
    change (B ^ Z.of_nat (length [])) with 1. cbn [val]. lia. }
  destruct (mul_elements_spec D HD e m He Hm) as (minor & major & -> & Em & Hmin & Hmaj). cbn [obind].
  rewrite (element_cast D HD) by lia.
  set (p := if B <=? minor + o then (minor + o - B, cast (Base D) (major + 1)) else (minor + o, major)).
  assert (Hp : 0 <= fst p < B /\ 0 <= snd p <= B - 1 /\ fst p + B * snd p = e * m + o).
  { unfold p. rewrite (element_cast D HD) by lia. case_Z; cbn [fst snd]; lia. }
  destruct p as [r o1]. cbn [fst snd] in Hp.
  destruct (IH o1 ltac:(lia)) as (l' & o' & -> & H1 & H2 & H3 & H4). cbn [obind].
  exists (r :: l'), o'. split; [done|]. split; [cbn; congruence|]. split; [constructor; [lia|done]|].
  split; [done|]. cbn [val length]. rewrite pow_S.
  replace (r + B * val B l' + B * B ^ Z.of_nat (length l) * o')
    with (r + B * (val B l' + B ^ Z.of_nat (length l) * o')) by ring. rewrite H4. lia.
Qed.

Lemma tmp_mul_spec m a : sized a -> 0 < m < B -> tval a * m < B ^ Z.of_nat (length (tmp_array_ a)) ->
  exists a', tmp_mul D m a = Ret a' /\ sized a' /\ tval a' = tval a * m /\
  initial_size_ a' = initial_size_ a /\ length (tmp_array_ a') = length (tmp_array_ a) /\
  (tval a * m < B ^ Z.of_nat (size_ a) -> size_ a' = size_ a).
Proof using HD.
  intros Ha Hm Hb. pose proof (base_gt1 D HD) as HB. pose proof (sized_take a Ha) as Et.
  destruct Ha as (Hd & Hs & H0). unfold tmp_mul.
  destruct (mul_loop_spec (take (size_ a) (tmp_array_ a)) m (digits_take B _ _ Hd) ltac:(lia) 0 ltac:(lia))
    as (low & o & -> & L1 & L2 & L3 & L4). cbn [obind].
  rewrite Et, Z.add_0_r, length_take, Nat.min_l in L4 by lia. rewrite length_take, Nat.min_l in L1 by lia.
  pose proof (val_bound B HB low L2) as Hlow. rewrite L1 in Hlow.
  pose proof (digits_drop B (size_ a) _ Hd) as Dh. pose proof (length_drop (tmp_array_ a) (size_ a)) as Lh.
  pose proof (pow_pos B HB (size_ a)) as HP. unfold sized, tval.
  destruct (Z.eqb_spec o 0) as [->|Ho]; cbn [negb].
  - eexists. split; [done|]. cbn [tmp_array_ size_ initial_size_]. unfold tval in L4.
    rewrite length_app, L1, Lh, val_app, L1, H0. split; [split|]; [by apply Forall_app| |].
    + split; [lia|]. by rewrite drop_app_length' by done.
    + repeat split; lia.
  - destruct (drop (size_ a) (tmp_array_ a)) as [|z high] eqn:Eh.
    { simpl in Lh. replace (length (tmp_array_ a)) with (size_ a) in Hb by lia. unfold tval in *. nia. }
    apply Forall_cons in Dh as [Hz Dh]. cbn [val] in H0. pose proof (val_bound B HB high Dh).
    assert (Hh : val B high = 0) by nia. eexists. split; [done|].
    cbn [tmp_array_ size_ initial_size_]. rewrite length_app, L1, val_app, L1. cbn [val length] in *.
    rewrite Hh. unfold tval in L4, Hb |- *. repeat split; try lia.
    + apply Forall_app. split; [done|]. constructor; [lia|done].
    + rewrite drop_app, L1, drop_ge by lia. replace (S (size_ a) - size_ a)%nat with 1%nat by lia. done.
    + nia.
Qed.

Lemma div_loop_spec l d : digits_ok B l -> 0 < d <= B -> exists l' r,
  div_loop D l d = Ret (l', r) /\ length l' = length l /\ digits_ok B l' /\ 0 <= r < d /\
  val B l = val B l' * d + r.
Proof using HD.
  intros Hl Hd. pose proof (base_gt1 D HD) as HB. induction Hl as [|e l He Hl IH]; cbn [div_loop].
  { exists [], 0. repeat split; [constructor|lia..]. }
  destruct IH as (l' & r & -> & L1 & L2 & L3 & L4). cbn [obind].
  destruct (div_elements_spec r e d L3 ltac:(lia) He) as (-> & Hq & Hr). cbn [obind].
  eexists _, _. split; [done|]. split; [cbn; congruence|]. split; [by constructor|]. split; [done|].
  cbn [val]. rewrite L4. pose proof (Z.div_mod (r * B + e) d ltac:(lia)). nia.
Qed.

Lemma tmp_div_spec d a : sized a -> 0 < d <= B -> exists a' r,
  tmp_div D d a = Ret (a', r) /\ digits_ok B (tmp_array_ a') /\
  length (tmp_array_ a') = length (tmp_array_ a) /\ tval a' = tval a / d /\ r = tval a mod d.
Proof using HD.
  intros Ha Hd. pose proof (sized_take a Ha) as Et. destruct Ha as (Hdig & Hs & H0). unfold tmp_div.
  destruct (div_loop_spec _ d (digits_take B (size_ a) _ Hdig) Hd) as (l & r & -> & L1 & L2 & L3 & L4).
  cbn [obind]. rewrite Et in L4. rewrite length_take, Nat.min_l in L1 by lia. eexists _, _. split; [done|].
  unfold shrink, tval. cbn [tmp_array_]. split; [|split; [|split]].
  - apply Forall_app. split; [done|]. by apply digits_drop.
  - rewrite length_app, L1, length_drop. lia.
  - rewrite val_app, L1, H0. apply (Z.div_unique _ _ _ r); [by left|]. unfold tval in L4. lia.
  - apply (Z.mod_unique _ _ (val B l)); [by left|]. unfold tval in L4. lia.
Qed.

(** *** The dividend *)

Lemma dividend_loop_spec l : digits_ok B l -> forall over, 0 <= over < FRACTION_REMAINDER D ->
  length (dividend_loop D l over) = S (length l) /\ digits_ok B (dividend_loop D l over) /\
  val B (dividend_loop D l over) = val B l * FRACTION_REMAINDER D + over.
Proof using HD.
  pose proof (base_gt1 D HD) as HB. pose proof (fraction_split D HD) as (_ & ER & HR & _).
  set (R := FRACTION_REMAINDER D) in *. set (O := FRACTION_OVER D) in *. assert (HO : 0 < O) by nia.
  induction 1 as [|e l He Hl IH]; intros over Hov; cbn [dividend_loop].
  { split; [done|]. split; [constructor; [lia|constructor]|]. cbn [val]. lia. }
  fold R O. pose proof (Z.mod_pos_bound e O HO). pose proof (Z.div_mod e O ltac:(lia)) as Ee.
  assert (Hq : 0 <= e / O < R) by (split; [apply Z.div_pos; lia|apply Z.div_lt_upper_bound; lia]).
  destruct (IH (e / O) Hq) as (H1 & H2 & H3).
  assert (Hd : 0 <= e mod O * R + over < B) by nia. rewrite (element_cast D HD) by lia.
  split; [cbn; congruence|]. split; [by constructor|]. cbn [val]. rewrite H3, <- ER.
  rewrite Ee at 3. ring.
Qed.

Lemma div_tmp_size : DIV_TMP_SIZE D = TMP_SIZE D + 1.
Proof using HD.
  pose proof (digits_per_element D HD) as [H _]. unfold DIV_TMP_SIZE, TMP_SIZE, TMP_TOTAL_RANK.
  set (r := INTEGER_RANK D + 2 * FRACTION_RANK D). set (d := DIGITS_PER_ELEMENT D) in *.
  replace (r + d) with (r + 1 * d) by lia. rewrite Z.div_add, Z.mod_add by lia. lia.
Qed.

Lemma DivTmpDividend_spec x : valid D x -> exists a, DivTmpDividend D x = Ret a /\
  sized a /\ length (tmp_array_ a) = Z.to_nat (DIV_TMP_SIZE D) /\ initial_size_ a = O /\
  size_ a = Z.to_nat (DIV_TMP_SIZE D) /\ tval a = magnitude D x * MAX_FRACTION_ D.
Proof using HD.
  intros (Lx & Dx & _). pose proof (base_gt1 D HD) as HB. unfold DivTmpDividend.
  pose proof (fraction_split D HD) as (EF & ER & HR & HE & H1). pose proof div_tmp_size as Esz.
  pose proof (size_bounds D HD) as (HS1 & HS2 & HS3). pose proof (tmp_size_bounds D HD) as (HT1 & HT2 & HT3).
  pose proof (digits_per_element D HD) as [HDP _].
  pose proof (Z.div_mod (FRACTION_RANK D) (DIGITS_PER_ELEMENT D) ltac:(lia)) as Ediv.
  pose proof (Z.mod_pos_bound (FRACTION_RANK D) (DIGITS_PER_ELEMENT D) ltac:(lia)) as Hm.
  fold (FRACTION_END D) in Ediv. unfold TMP_TOTAL_RANK, INTEGER_RANK in HT2, HT3.
  set (body := if FRACTION_REMAINDER D =? 1 then array_ x else dividend_loop D (array_ x) 0).
  assert (Hbody : digits_ok B body /\ val B body = magnitude D x * FRACTION_REMAINDER D /\
    Z.of_nat (length body) + FRACTION_END D <= DIV_TMP_SIZE D).
  { unfold body. destruct (Z.eqb_spec (FRACTION_REMAINDER D) 1) as [Er|Er].
    - rewrite Er, Z.mul_1_r, Lx. split; [done|]. split; [done|]. rewrite (proj1 H1 Er) in Ediv.
      assert (FRACTION_END D + SIZE D < TMP_SIZE D + 1); [nia|lia].
    - destruct (dividend_loop_spec (array_ x) Dx 0 ltac:(lia)) as (L1 & L2 & L3).
      split; [done|]. split; [unfold magnitude; lia|]. rewrite L1, Lx.
      assert (FRACTION_END D + SIZE D <= TMP_SIZE D); [nia|lia]. }
  destruct Hbody as (Db & Vb & Lb). set (tmp := repeat 0 (Z.to_nat (FRACTION_END D)) ++ body).
  assert (Lt : length tmp = (Z.to_nat (FRACTION_END D) + length body)%nat)
    by (unfold tmp; by rewrite length_app, repeat_length).
  rewrite (proj2 (Nat.leb_le _ _)) by lia. cbn [guard]. eexists. split; [done|].
  unfold sized, tval. cbn [tmp_array_ size_ initial_size_]. rewrite length_app, repeat_length.
  split; [split; [|split]|split; [lia|split; [done|split; [done|]]]].
  - apply Forall_app. split; [|by apply digits_ok_0]. apply Forall_app. split; [by apply digits_ok_0|done].
  - lia.
  - rewrite drop_ge; [done|]. rewrite length_app, repeat_length. lia.
  - rewrite val_app, val_repeat0. unfold tmp. rewrite val_app, val_repeat0, repeat_length, Vb, EF.
    rewrite Z2Nat.id by lia. ring.
Qed.

(** *** The guess

    The window [U] of the dividend and the divisor [V], by their leading
    elements: [K] is the weight of the elements that are not looked at. *)
Section Guess.
Context (u0 u1 u2 ul v1 v2 vl K : Z).
Context (Hu0 : 0 <= u0 < B) (Hu1 : 0 <= u1 < B) (Hu2 : 0 <= u2 < B) (Hul : 0 <= ul < K).
Context (Hv1 : B <= 2 * v1) (Hv1B : v1 < B) (Hv2 : 0 <= v2 < B) (Hvl : 0 <= vl < K).

Let V := (v1 * B + v2) * K + vl.
Let U := ((u0 * B + u1) * B + u2) * K + ul.
Let w := v1 * B + v2.
Let u3 := (u0 * B + u1) * B + u2.

Context (HUV : U < V * B).

Lemma guess_w : B <= w.
Proof using HD Hv1 Hv2. clear - HD Hv1 Hv2. unfold w. pose proof (base_gt1 D HD). nia. Qed.

Lemma guess_V : w * K <= V < (w + 1) * K /\ 0 < V.
Proof using HD Hv1 Hv2 Hvl.
  pose proof guess_w. pose proof (base_gt1 D HD). unfold V. fold w. clear - H H0 Hvl. nia.
Qed.

Lemma guess_u0 : u0 <= v1.
Proof using HD Hu0 Hu1 Hu2 Hul Hv1 Hv1B Hv2 Hvl HUV.
  pose proof (base_gt1 D HD) as HB. pose proof guess_V as [HV _].
  assert (HK : 0 < K) by lia. assert (H1 : u0 * B * B * K <= U) by (unfold U; nia).
  assert (H2 : V * B < (v1 + 1) * B * B * K) by (unfold w in HV; clear - HV HB HK Hv2 Hv1; nia).
  assert (H3 : u0 * (B * B * K) < (v1 + 1) * (B * B * K)) by lia.
  assert (0 < B * B * K) by nia. apply Z.mul_lt_mono_pos_r in H3; lia.
Qed.

(** The quotient is not above the first guess. *)
Lemma guess_upper : U / V <= (u0 * B + u1) / v1.
Proof using HD Hu0 Hu1 Hu2 Hul Hv1 Hv1B Hv2 Hvl HUV.
  pose proof (base_gt1 D HD) as HB. pose proof guess_V as [HV HV0]. assert (HK : 0 < K) by lia.
  apply Z.div_le_lower_bound; [lia|]. pose proof (Z.mul_div_le U V HV0) as H.
  assert (HU0 : 0 <= U) by (unfold U; nia).
  assert (0 <= U / V) by (apply Z.div_pos; lia). set (q := U / V) in *.
  assert (H1 : v1 * q * (B * K) <= U).
  { assert (v1 * B * K <= V) by (unfold w in HV; nia). nia. }
  assert (H2 : U < (u0 * B + u1 + 1) * (B * K)) by (unfold U; nia).
  assert (H3 : v1 * q * (B * K) < (u0 * B + u1 + 1) * (B * K)) by lia.
  assert (0 < B * K) by nia. apply Z.mul_lt_mono_pos_r in H3; lia.
Qed.

(** A guess that fails the test is too big, one that passes it is at most one
    too big. *)
Lemma guess_too_big g : 0 <= g -> u3 < g * w -> U / V < g.
Proof using HD Hu0 Hu1 Hu2 Hul Hv1 Hv1B Hv2 Hvl HUV.
  intros Hg Hlt. pose proof guess_V as [HV HV0]. apply Z.div_lt_upper_bound; [done|].
  assert (U < (u3 + 1) * K) by (unfold U; fold u3; lia).
  assert ((u3 + 1) * K <= g * w * K) by (apply Z.mul_le_mono_nonneg_r; lia). nia.
Qed.

Lemma guess_close g : 0 <= g < B -> g * w <= u3 -> g <= U / V + 1.
Proof using HD Hu0 Hu1 Hu2 Hul Hv1 Hv1B Hv2 Hvl HUV.
  intros Hg Hle. pose proof guess_V as [HV HV0]. pose proof guess_w as Hw.
  assert (g - 1 <= U / V); [|lia]. apply Z.div_le_lower_bound; [done|].
  assert (H1 : g * w * K <= U) by (unfold U; fold u3; nia).
  destruct (Z.eq_dec g 0) as [->|]; [lia|].
  assert (H2 : V * (g - 1) <= (w + 1) * K * (g - 1)) by (apply Z.mul_le_mono_nonneg_r; lia).
  assert (H3 : (w + 1) * (g - 1) <= g * w) by nia. nia.
Qed.

Lemma guess_below g : g * w <= u3 -> g <= B.
Proof using HD Hu0 Hu1 Hu2 Hul Hv1 Hv1B Hv2 Hvl HUV.
  intros Hle. pose proof guess_V as [HV HV0]. pose proof guess_w as Hw. pose proof (base_gt1 D HD) as HB.
  assert (H1 : u3 * K <= U) by (unfold U; fold u3; lia).
  assert (H2 : V * B < (w + 1) * B * K) by nia.
  assert (H3 : u3 < (w + 1) * B). { apply (Z.mul_lt_mono_pos_r K); lia. }
  apply Z.nlt_ge. intros Hlt. nia.
Qed.

(** The test of a guess, on the elements of its product. *)
Lemma guess_test g high r minor major : r = u0 * B + u1 - (high * B + g) * v1 ->
  v2 * g = minor + B * major -> 0 <= minor < B ->
  ((major + high * v2 <? r) || ((major + high * v2 =? r) && (minor <=? u2))) =
  ((high * B + g) * w <=? u3).
Proof using Hu2.
  clear - Hu2. intros -> E Hm. set (r := u0 * B + u1 - (high * B + g) * v1).
  assert (Ew : u3 - (high * B + g) * w = (r - (major + high * v2)) * B + u2 - minor)
    by (unfold u3, w, r; nia).
  apply eq_true_iff_eq. rewrite orb_true_iff, andb_true_iff, Z.ltb_lt, Z.eqb_eq, !Z.leb_le. nia.
Qed.

(** With a divisor that starts with [BASE / 2] at least, the loop ends within the
    fuel, with the element of the quotient or one more. *)
Lemma guess_loop_spec index tmp : (2 <= index)%nat -> rd tmp (index - 2) = Ret u2 ->
  forall fuel g high r, 0 <= g < B -> high = 0 \/ high = 1 ->
  r = u0 * B + u1 - (high * B + g) * v1 -> 0 <= r -> U / V <= high * B + g ->
  B <= r + (Z.of_nat fuel - 1) * v1 -> (0 < fuel)%nat ->
  exists g', guess_loop D fuel index tmp v1 v2 g high r = Ret g' /\ 0 <= g' < B /\ U / V <= g' <= U / V + 1.
Proof using HD Hu0 Hu1 Hu2 Hul Hv1 Hv1B Hv2 Hvl HUV.
  intros Hi E2. pose proof (base_gt1 D HD) as HB. pose proof guess_V as [HV HV0]. pose proof guess_u0 as H0.
  pose proof guess_w as Hw.
  assert (HUB : U / V < B) by (apply Z.div_lt_upper_bound; lia).
  induction fuel as [|fuel IH]; intros g high r Hg Hh Er Hr Hup Hf Hpos; [lia|]. cbn [guess_loop].
  destruct (Z.ltb_spec r B) as [Hlt|Hge].
  - rewrite (proj2 (Nat.leb_le _ _)), E2 by done. cbn [guard obind].
    destruct (mul_elements_spec D HD v2 g Hv2 Hg) as (minor & major & -> & Em & Hmin & Hmaj). cbn [obind].
    rewrite (element_cast D HD) by (destruct Hh as [-> | ->]; lia).
    rewrite (guess_test g high r minor major Er Em Hmin).
    destruct (Z.leb_spec ((high * B + g) * w) u3) as [Ht|Ht]; cbn [andb].
    + pose proof (guess_below _ Ht) as Hb.
      destruct (negb (high =? 1) || negb (g =? 0)) eqn:Ec.
      * assert (high = 0) as ->
          by (destruct Hh as [->|E]; [done|]; rewrite E in *; decide_Z; cbn in Ec; try done; lia).
        rewrite Z.mul_0_l, Z.add_0_l in *. exists g. pose proof (guess_close g Hg Ht). split; [done|]. lia.
      * apply orb_false_iff in Ec as [E1%negb_false_iff%Z.eqb_eq E0%negb_false_iff%Z.eqb_eq]. subst g high.
        cbn [Z.eqb]. rewrite !(element_cast D HD) by lia. apply IH; [lia|lia|lia|lia|lia|lia|].
        destruct fuel; [|lia]. lia.
    + assert (HG : 0 <= high * B + g) by (destruct Hh as [-> | ->]; lia).
      pose proof (guess_too_big _ HG Ht) as Hq.
      assert (Hu : 0 <= u3) by (unfold u3; nia).
      assert (0 <= U / V) by (apply Z.div_pos; [unfold U; fold u3; nia|done]).
      destruct (Z.eqb_spec g 0) as [->|Hg0].
      * destruct Hh as [-> | ->]; [lia|]. rewrite !(element_cast D HD) by lia.
        apply IH; [lia|lia|lia|lia|lia|lia|]. destruct fuel; lia.
      * rewrite (element_cast D HD (r + v1)) by lia.
        apply IH; [lia|done|lia|lia|lia|lia|]. destruct fuel; lia.
  - assert (high = 0) as -> by (destruct Hh as [-> | ->]; [done|nia]).
    rewrite Z.mul_0_l, Z.add_0_l in *. exists g. split; [done|]. split; [done|]. split; [done|].
    apply guess_close; [done|]. unfold w, u3. nia.
Qed.

Lemma guess_next_spec index tmp : (2 <= index)%nat -> rd tmp index = Ret u0 ->
  rd tmp (index - 1) = Ret u1 -> rd tmp (index - 2) = Ret u2 ->
  exists g, guess_next_quotient D index v1 v2 tmp = Ret g /\ 0 <= g < B /\ U / V <= g <= U / V + 1.
Proof using HD Hu0 Hu1 Hu2 Hul Hv1 Hv1B Hv2 Hvl HUV.
  intros Hi E0 E1 E2. pose proof guess_u0 as H0. pose proof guess_upper as Hup. unfold guess_next_quotient.
  rewrite (proj2 (Nat.leb_le _ _)), E0, E1 by lia. cbn [guard obind].
  rewrite (proj2 (Z.leb_le _ _) H0). cbn [orb guard].
  destruct (Z.leb_spec v1 u0) as [Hc|Hc].
  - assert (u0 = v1) as E by lia.
    destruct (div_elements_spec (u0 - v1) u1 v1) as (-> & Hq & Hr); [lia..|]. cbn [obind].
    replace ((u0 - v1) * B + u1) with u1 in * by lia.
    replace (u0 * B + u1) with (B * v1 + u1) in Hup by nia. rewrite Z.div_add_l in Hup by lia.
    pose proof (Z.div_mod u1 v1 ltac:(lia)).
    apply guess_loop_spec; [done|done|lia|by right|lia|lia|lia|lia|lia].
  - destruct (div_elements_spec u0 u1 v1) as (-> & Hq & Hr); [lia..|]. cbn [obind].
    pose proof (Z.div_mod (u0 * B + u1) v1 ltac:(lia)).
    apply guess_loop_spec; [done|done|lia|by left|lia|lia|lia|lia|lia].
Qed.
End Guess.

(** *** Subtracting the product *)

Lemma apply_loop_spec d : digits_ok B d -> forall t g c b, digits_ok B t -> length t = length d ->
  0 <= g < B -> 0 <= c <= B - 1 -> 0 <= b <= 1 -> forall high, exists l c' b',
  apply_loop D d (t ++ high) g c b = Ret (l, c', b') /\ length l = length d /\ digits_ok B l /\
  0 <= c' <= B - 1 /\ 0 <= b' <= 1 /\
  val B l = val B t - val B d * g - c - b + B ^ Z.of_nat (length d) * (c' + b').
Proof using HD.
  pose proof (base_gt1 D HD) as HB.
  induction 1 as [|e d He Hd IH]; intros [|t0 t] g c b Ht Hl Hg Hc Hb high; try done; cbn [app apply_loop].
  { exists [], c, b. repeat split; [constructor|lia..|]. change (B ^ Z.of_nat (length [])) with 1.
    cbn [val]. lia. }
  apply Forall_cons in Ht as [H0 Ht]. injection Hl as Hl.
  destruct (mul_elements_spec D HD e g He Hg) as (minor & major & -> & Em & Hmin & Hmaj). cbn [obind].
  rewrite (element_cast D HD) by lia.
  set (p := if B <=? minor + c then (minor + c - B, cast (Base D) (major + 1)) else (minor + c, major)).
  assert (Hp : 0 <= fst p < B /\ 0 <= snd p <= B - 1 /\ fst p + B * snd p = e * g + c).
  { unfold p. rewrite (element_cast D HD) by lia. case_Z; cbn [fst snd]; lia. }
  destruct p as [x c1]. cbn [fst snd] in Hp. rewrite (element_cast D HD (x + b)) by lia.
  set (q := if t0 <? x + b then (cast (Base D) (t0 + (B - (x + b))), 1) else (t0 - (x + b), 0)).
  assert (Hq : 0 <= fst q < B /\ 0 <= snd q <= 1 /\ fst q = t0 - (x + b) + B * snd q).
  { unfold q. destruct (Z.ltb_spec t0 (x + b)); cbn [fst snd]; [rewrite (element_cast D HD) by lia|]; lia. }
  destruct q as [y b1]. cbn [fst snd] in Hq.
  destruct (IH t g c1 b1 Ht Hl Hg ltac:(lia) ltac:(lia) high) as (l & c' & b' & -> & L1 & L2 & L3 & L4 & L5).
  cbn [obind]. exists (y :: l), c', b'. split; [done|]. split; [cbn; congruence|].
  split; [constructor; [lia|done]|]. split; [done|]. split; [done|].
  cbn [val length]. rewrite pow_S, L5. nia.
Qed.

(** The window [low ++ [t]] of the dividend loses the product, modulo its weight. *)
Lemma apply_spec pre low t high g d : digits_ok B d -> digits_ok B low -> length low = length d ->
  0 <= t < B -> 0 <= g < B -> exists l t' borrow,
  apply_next_quotient D (length pre) g d (pre ++ low ++ t :: high) = Ret (pre ++ l ++ t' :: high, borrow) /\
  length l = length d /\ digits_ok B l /\ 0 <= t' < B /\
  val B (l ++ [t']) = val B (low ++ [t]) - val B d * g +
    B ^ Z.of_nat (length d) * B * Z.b2z borrow.
Proof using HD.
  intros Hd Hlow Hl Ht Hg. pose proof (base_gt1 D HD) as HB. unfold apply_next_quotient.
  rewrite drop_app_length, take_app_length.
  destruct (apply_loop_spec d Hd low g 0 0 Hlow Hl Hg ltac:(lia) ltac:(lia) (t :: high))
    as (l & c & b & -> & L1 & L2 & L3 & L4 & L5).
  cbn [obind]. rewrite <- Hl, drop_app_length. rewrite (element_cast D HD) by lia.
  set (q := if t <? c + b then (cast (Base D) (t + (B - (c + b))), true) else (t - (c + b), false)).
  assert (Hq : 0 <= fst q < B /\ fst q = t - (c + b) + B * Z.b2z (snd q)).
  { unfold q. destruct (Z.ltb_spec t (c + b)); cbn [fst snd Z.b2z];
      [rewrite (element_cast D HD) by lia|]; lia. }
  destruct q as [t' borrow]. cbn [fst snd] in Hq. exists l, t', borrow. split; [done|].
  split; [congruence|]. split; [done|]. split; [lia|]. rewrite !val_app, L1, Hl, L5. cbn [val].
  rewrite (proj2 Hq). ring.
Qed.

Lemma fix_loop_spec d : digits_ok B d -> forall t c, digits_ok B t -> length t = length d ->
  0 <= c <= 1 -> forall high, exists l c',
  fix_loop D d (t ++ high) c = Ret (l, c') /\ length l = length d /\ digits_ok B l /\ 0 <= c' <= 1 /\
  val B l + B ^ Z.of_nat (length d) * c' = val B t + val B d + c.
Proof using HD.
  pose proof (base_gt1 D HD) as HB.
  induction 1 as [|e d He Hd IH]; intros [|t0 t] c Ht Hl Hc high; try done; cbn [app fix_loop].
  { exists [], c. repeat split; [constructor|lia..|]. change (B ^ Z.of_nat (length [])) with 1.
    cbn [val]. lia. }
  apply Forall_cons in Ht as [H0 Ht]. injection Hl as Hl. rewrite (element_cast D HD) by lia.
  set (p := if B <=? t0 + e + c then (t0 + e + c - B, 1) else (t0 + e + c, 0)).
  assert (Hp : 0 <= fst p < B /\ 0 <= snd p <= 1 /\ fst p + B * snd p = t0 + e + c)
    by (unfold p; case_Z; cbn [fst snd]; lia).
  destruct p as [x c1]. cbn [fst snd] in Hp.
  destruct (IH t c1 Ht Hl ltac:(lia) high) as (l & c' & -> & L1 & L2 & L3 & L4). cbn [obind].
  exists (x :: l), c'. split; [done|]. split; [cbn; congruence|]. split; [constructor; [lia|done]|].
  split; [done|]. cbn [val length]. rewrite pow_S. nia.
Qed.

(** After a guess that was one too big, adding the divisor back clears the top
    element. *)
Lemma fix_spec pre low t high d : digits_ok B d -> digits_ok B low -> length low = length d ->
  0 <= t < B -> let n := length d in
  0 <= val B (low ++ [t]) + val B d - B ^ Z.of_nat n * B < B ^ Z.of_nat n -> exists l,
  fix_next_quotient D (length pre) d (pre ++ low ++ t :: high) = Ret (pre ++ l ++ 0 :: high) /\
  length l = length d /\ digits_ok B l /\
  val B l = val B (low ++ [t]) + val B d - B ^ Z.of_nat n * B.
Proof using HD.
  intros Hd Hlow Hl Ht n Hn. pose proof (base_gt1 D HD) as HB. unfold fix_next_quotient.
  rewrite drop_app_length, take_app_length.
  destruct (fix_loop_spec d Hd low 0 Hlow Hl ltac:(lia) (t :: high)) as (l & c & -> & L1 & L2 & L3 & L4).
  cbn [obind]. rewrite <- Hl, drop_app_length. rewrite val_app, Hl in Hn |- *. cbn [val] in *. fold n in L1, L4, Hn |- *.
  pose proof (val_bound B HB l L2) as Hv. rewrite L1 in Hv. pose proof (pow_pos B HB n) as HP.
  set (P := B ^ Z.of_nat n) in *.
  assert (Et : t - (B - c) = 0) by nia. rewrite Et, (element_cast D HD) by lia.
  exists l. split; [done|]. split; [done|]. split; [done|]. nia.
Qed.

(** *** One round of the long division *)

Lemma last_elements (l : list Z) m k : length l = (m + k)%nat -> exists low high,
  l = low ++ high /\ length low = m /\ length high = k.
Proof using.
  intros Hl. exists (take m l), (drop m l). rewrite take_drop, length_take, length_drop. split; [done|]. lia.
Qed.

(** A divisor whose first element is at least half of the base. *)
Definition normalized (d : list Z) (v1 v2 : Z) : Prop :=
  digits_ok B d /\ B <= 2 * v1 /\ exists vlow, d = vlow ++ [v2; v1].

Lemma rd_app pre (x : Z) post i : i = length pre -> rd (pre ++ x :: post) i = Ret x.
Proof using. intros ->. apply rd_at. Qed.

(** The guess on a window [w ++ [t]] of the dividend. *)
Lemma guess_window pre w t high d v1 v2 : normalized d v1 v2 -> digits_ok B w -> length w = length d ->
  0 <= t < B -> let U := val B (w ++ [t]) in let V := val B d in U < V * B -> exists g,
  guess_next_quotient D (length pre + length d) v1 v2 (pre ++ w ++ t :: high) = Ret g /\
  0 <= g < B /\ U / V <= g <= U / V + 1 /\ 0 <= U /\ 0 < V < B ^ Z.of_nat (length d).
Proof using HD.
  intros (Hd & Hv1 & vlow & ->) Hw Hl Ht U V HUV. pose proof (base_gt1 D HD) as HB.
  destruct (last_elements w (length vlow) 2) as (ulow & [|u2 [|u1 [|]]] & -> & Lu & L2); try done.
  { rewrite Hl, length_app. done. }
  pose proof (val_bound B HB _ Hd) as HVb. fold V in HVb.
  apply Forall_app in Hd as [Dv [H2 [H1 _]%Forall_cons]%Forall_cons].
  apply Forall_app in Hw as [Du [Hu2 [Hu1 _]%Forall_cons]%Forall_cons].
  pose proof (val_bound B HB _ Dv) as Hvl. pose proof (val_bound B HB _ Du) as Hul. rewrite Lu in Hul.
  set (K := B ^ Z.of_nat (length vlow)) in *.
  assert (EV : V = (v1 * B + v2) * K + val B vlow)
    by (unfold V; rewrite val_app; fold K; cbn [val]; ring).
  assert (EU : U = ((t * B + u1) * B + u2) * K + val B ulow).
  { unfold U. rewrite <- app_assoc, val_app, Lu. fold K. cbn [app val]. ring. }
  rewrite EU, EV in HUV.
  pose proof (guess_V v1 v2 (val B vlow) K Hv1 H2 Hvl) as [_ HV0].
  destruct (guess_next_spec t u1 u2 (val B ulow) v1 v2 (val B vlow) K Ht Hu1 Hu2 Hul Hv1 (proj2 H1) H2 Hvl
    HUV (length pre + length (vlow ++ [v2; v1])) (pre ++ (ulow ++ [u2; u1]) ++ t :: high))
    as (g & -> & Hg & Hq).
  - rewrite length_app. cbn [length]. lia.
  - rewrite app_assoc. apply rd_app. rewrite !length_app. cbn [length]. lia.
  - replace (pre ++ (ulow ++ [u2; u1]) ++ t :: high) with ((pre ++ ulow ++ [u2]) ++ u1 :: t :: high)
      by by rewrite <- !app_assoc. apply rd_app.
    rewrite !length_app. cbn [length]. lia.
  - replace (pre ++ (ulow ++ [u2; u1]) ++ t :: high) with ((pre ++ ulow) ++ u2 :: u1 :: t :: high)
      by by rewrite <- !app_assoc. apply rd_app.
    rewrite !length_app. cbn [length]. lia.
  - exists g. rewrite <- EU, <- EV in *. split; [done|]. split; [done|]. split; [done|]. split; [|lia].
    rewrite EU. nia.
Qed.

(** On a window: the element of the quotient, and the window modulo the divisor. *)
Lemma next_window pre w t high d v1 v2 : normalized d v1 v2 -> digits_ok B w -> length w = length d ->
  0 <= t < B -> let U := val B (w ++ [t]) in let V := val B d in U < V * B -> exists l,
  next_quotient D (length pre) v1 v2 d (pre ++ w ++ t :: high) = Ret (U / V, pre ++ l ++ high) /\
  length l = S (length d) /\ digits_ok B l /\ val B l = U mod V /\ 0 <= U / V < B.
Proof using HD.
  intros Hn Hw Hl Ht U V HUV. pose proof (base_gt1 D HD) as HB. unfold next_quotient.
  destruct (guess_window pre w t high d v1 v2 Hn Hw Hl Ht HUV) as (g & -> & Hg & Hq & HU & HV).
  fold U V in Hq, HU, HV. cbn [obind]. pose proof (proj1 Hn) as Hd.
  destruct (apply_spec pre w t high g d Hd Hw Hl Ht Hg) as (l & t' & borrow & -> & L1 & L2 & L3 & L4).
  cbn [obind]. fold U V in L4. set (P := B ^ Z.of_nat (length d)) in *.
  assert (Hb : 0 <= val B (l ++ [t']) < P * B).
  { rewrite val_app, L1. fold P. cbn [val]. pose proof (val_bound B HB l L2) as Hv. rewrite L1 in Hv.
    fold P in Hv. nia. }
  pose proof (Z.div_mod U V ltac:(lia)) as Edm. pose proof (Z.mod_pos_bound U V ltac:(lia)) as Hm.
  assert (Hqb : 0 <= U / V < B) by (split; [apply Z.div_pos; lia|apply Z.div_lt_upper_bound; lia]).
  destruct borrow; cbn [Z.b2z] in L4.
  - assert (Eg : g = U / V + 1) by (clear - L4 Hb Hq Edm Hm HV; nia). rewrite Eg in *. clear Eg g.
    destruct (fix_spec pre l t' high d Hd L2 L1 L3) as (l2 & -> & M1 & M2 & M3).
    { fold P V. rewrite L4. nia. }
    cbn [obind]. rewrite Z.add_simpl_r, (element_cast D HD) by lia. exists (l2 ++ [0]).
    rewrite <- (app_assoc l2), length_app, M1. split; [done|]. split; [cbn; lia|].
    split; [apply Forall_app; split; [done|]; constructor; [lia|constructor]|].
    rewrite val_app, M3. fold P V. cbn [val]. split; [|done]. nia.
  - assert (Eg : g = U / V) by (clear - L4 Hb Hq Edm Hm HV; nia). rewrite Eg in *. clear Eg g.
    exists (l ++ [t']). rewrite <- (app_assoc l), length_app, L1. split; [done|]. split; [cbn; lia|].
    split; [apply Forall_app; split; [done|]; constructor; [done|constructor]|]. split; [|done]. lia.
Qed.

(** On the whole dividend. *)
Lemma next_quotient_spec i d v1 v2 tmp : normalized d v1 v2 -> digits_ok B tmp ->
  (i + length d < length tmp)%nat -> let V := val B d * B ^ Z.of_nat i in
  val B tmp < V * B -> exists tmp',
  next_quotient D i v1 v2 d tmp = Ret (val B tmp / V, tmp') /\ length tmp' = length tmp /\
  digits_ok B tmp' /\ val B tmp' = val B tmp mod V /\ 0 <= val B tmp / V < B /\ 0 < V.
Proof using HD.
  intros Hn Ht Hl V HV. pose proof (base_gt1 D HD) as HB. pose proof (proj1 Hn) as Hd.
  pose proof (val_bound B HB d Hd) as Hdb.
  assert (Etmp : exists pre w t high, tmp = pre ++ w ++ t :: high /\ length pre = i /\ length w = length d).
  { exists (take i tmp). destruct (last_elements (drop i tmp) (length d) (length tmp - i - length d))
      as (w & [|t high] & E & L1 & L2); [rewrite length_drop; lia|cbn in L2; lia|].
    exists w, t, high. rewrite <- E, take_drop, length_take. split; [done|]. lia. }
  destruct Etmp as (pre & w & t & high & -> & <- & Lw).
  apply Forall_app in Ht as [Dp Ht]. apply Forall_app in Ht as [Dw Ht].
  apply Forall_cons in Ht as [H0 Dh].
  pose proof (val_bound B HB _ Dp) as Hp. pose proof (val_bound B HB _ Dh) as Hh.
  pose proof (val_bound B HB _ Dw) as Hw. rewrite Lw in Hw.
  set (P := B ^ Z.of_nat (length pre)) in *. set (Q := B ^ Z.of_nat (length d)) in *.
  assert (EX : val B (pre ++ w ++ t :: high) = val B pre + P * (val B (w ++ [t]) + Q * B * val B high)).
  { rewrite !val_app, Lw. fold P Q. cbn [val]. ring. }
  rewrite EX in *. set (U := val B (w ++ [t])) in *.
  assert (HU : 0 <= U) by (unfold U; rewrite val_app, Lw; fold Q; cbn [val]; nia).
  assert (HW : U + Q * B * val B high < val B d * B).
  { apply (Z.mul_lt_mono_pos_l P); [lia|]. unfold V in HV. lia. }
  assert (Eh : val B high = 0).
  { assert (Q * B * val B high < Q * B * 1) by nia. apply Z.mul_lt_mono_pos_l in H; nia. }
  rewrite Eh in *.
  replace (P * (U + Q * B * 0)) with (P * U) in * by ring.
  destruct (next_window pre w t high d v1 v2 Hn Dw Lw H0) as (l & -> & L1 & L2 & L3 & L4);
    [fold U; lia|]. fold U in L3, L4 |- *.
  assert (Hd0 : 0 < val B d) by nia.
  assert (Emod : U mod val B d = U - val B d * (U / val B d)) by (apply Z.mod_eq; lia).
  pose proof (Z.mod_pos_bound U (val B d) ltac:(lia)) as Hmb.
  assert (Eq : (val B pre + P * U) / V = U / val B d).
  { symmetry. apply (Z.div_unique _ _ _ (val B pre + P * (U mod val B d))); [left; unfold V; nia|].
    rewrite Emod. unfold V. ring. }
  rewrite Eq. exists (pre ++ l ++ high). split; [done|].
  split; [rewrite !length_app, L1; cbn; lia|]. split; [by apply Forall_app; split; [|apply Forall_app]|].
  split; [|split; [done|unfold V; nia]].
  rewrite !val_app, Eh, L3. fold P. rewrite Z.mul_0_r, Z.add_0_r, (Z.mod_eq _ V) by (unfold V; nia).
  rewrite Eq, Emod. unfold V. ring.
Qed.

(** *** The loop over the elements of the quotient *)

(** A smaller number in the same array keeps the elements above the size clear. *)
Lemma sized_smaller a tmp : sized a -> digits_ok B tmp -> length tmp = length (tmp_array_ a) ->
  val B tmp <= tval a ->
  sized {| tmp_array_ := tmp; size_ := size_ a; initial_size_ := initial_size_ a |}.
Proof using HD.
  intros Ha Hd Hl Hv. pose proof (base_gt1 D HD) as HB. pose proof (sized_take a Ha) as Et.
  destruct Ha as (Hda & Hs & _). split; [done|]. split; [cbn; lia|]. cbn [tmp_array_ size_].
  pose proof (val_bound B HB _ (digits_take B (size_ a) _ Hda)) as Hb.
  rewrite Et, length_take, Nat.min_l in Hb by lia.
  pose proof (val_bound B HB _ (digits_take B (size_ a) _ Hd)) as Ht.
  pose proof (val_bound B HB _ (digits_drop B (size_ a) _ Hd)) as Hh.
  rewrite (val_split B (size_ a) tmp) in Hv by lia. nia.
Qed.

Lemma div_chunk X V P : 0 < V -> 0 < P -> let W := V * P in
  X / V = X / W * P + X mod W / V /\ (X mod W) mod V = X mod V /\ 0 <= X mod W / V < P.
Proof using.
  intros HV HP W. pose proof (Z.mod_pos_bound X W ltac:(nia)) as Hm.
  pose proof (Z.div_mod X W ltac:(nia)) as E. set (g := X / W) in *. set (r := X mod W) in *.
  assert (EX : X = g * P * V + r) by (rewrite E; unfold W; ring). split; [|split; [|split]].
  - rewrite EX. apply Z.div_add_l. lia.
  - rewrite EX, Z.add_comm. by rewrite Z.mod_add by lia.
  - apply Z.div_pos; lia.
  - apply Z.div_lt_upper_bound; lia.
Qed.

(** The range of the numbers by the weight of an element. *)
Lemma max_value_weight i : let P := B ^ Z.of_nat i in
  (Z.of_nat i = SIZE D -> MAX_VALUE_ D <= P) /\
  (Z.of_nat i = SIZE D - 1 -> MAX_VALUE_ D = INTEGER_MAX_OVER D * P) /\
  (Z.of_nat i < SIZE D - 1 -> P * B <= MAX_VALUE_ D).
Proof using HD.
  intros P. pose proof (base_gt1 D HD) as HB. pose proof (size_bounds D HD) as [HS _].
  pose proof (max_value_size D HD) as [EM HM]. pose proof (pow_pos B HB i) as HP. fold P in HP.
  rewrite EM. split; [|split]; intros Hi.
  - unfold P. rewrite Hi. replace (B ^ SIZE D) with (B * B ^ (SIZE D - 1))
      by (rewrite <- Z.pow_succ_r by lia; f_equal; lia).
    apply Z.mul_le_mono_nonneg_r; [apply Z.pow_nonneg|]; lia.
  - unfold P. by rewrite Hi.
  - assert (P * B <= B ^ (SIZE D - 1)); [|nia]. unfold P. rewrite Z.mul_comm, <- Z.pow_succ_r by lia.
    apply Z.pow_le_mono_r; lia.
Qed.

(** What the loop for the elements below [n] leaves: the quotient [q], or an
    overflow, and the remainder [r]. *)
Definition loop_result (n : nat) (q r : Z) (quot : list Z) (out : outcome (option (DivTmpArray * list Z))) : Prop :=
  if q <? MAX_VALUE_ D then exists a ql,
    out = Ret (Some (a, ql ++ quot)) /\ sized a /\ tval a = r /\
    length ql = Nat.min n (Z.to_nat (SIZE D)) /\ digits_ok B ql /\ val B ql = q
  else out = Ret None.

Lemma loop_result_cons i g q r quot out : Z.of_nat i < SIZE D -> 0 <= g < B -> 0 <= q < B ^ Z.of_nat i ->
  g * B ^ Z.of_nat i + q < MAX_VALUE_ D ->
  loop_result i q r (g :: quot) out -> loop_result (S i) (g * B ^ Z.of_nat i + q) r quot out.
Proof using HD.
  intros Hi Hg Hq HM. unfold loop_result. rewrite !(proj2 (Z.ltb_lt _ _)) by nia.
  intros (a & ql & -> & H1 & H2 & H3 & H4 & H5). exists a, (ql ++ [g]). rewrite <- app_assoc.
  rewrite length_app, val_app, H5, H3, Nat.min_l by lia. split; [done|]. split; [done|]. split; [done|].
  split; [cbn [length]; lia|]. split; [|cbn [val]; lia].
  apply Forall_app. split; [done|]. constructor; [done|constructor].
Qed.

Lemma quotient_loop_spec d v1 v2 : normalized d v1 v2 -> 0 < val B d -> forall n a quot, sized a ->
  (n + length d <= length (tmp_array_ a))%nat -> Z.of_nat n <= SIZE D + 1 ->
  tval a < val B d * B ^ Z.of_nat n ->
  loop_result n (tval a / val B d) (tval a mod val B d) quot (quotient_loop D n v1 v2 d a quot).
Proof using HD.
  intros Hn HV. pose proof (base_gt1 D HD) as HB. pose proof (max_value_size D HD) as [_ HM].
  induction n as [|i IH]; intros a quot Ha Hl Hns HX.
  { change (B ^ Z.of_nat 0) with 1 in HX. pose proof (val_bound B HB _ (proj1 Ha)) as H0.
    fold (tval a) in H0. rewrite Z.div_small, Z.mod_small by lia. unfold loop_result.
    rewrite (proj2 (Z.ltb_lt _ _)) by (apply Z.pow_pos_nonneg; [lia|]; destruct HD as (_ & ? & _); lia).
    exists a, []. do 4 (split; [done|]). split; [constructor|done]. }
  cbn [quotient_loop]. rewrite pow_S in HX. pose proof (pow_pos B HB i) as HP.
  destruct (next_quotient_spec i d v1 v2 (tmp_array_ a) Hn (proj1 Ha)) as (tmp & -> & L1 & L2 & L3 & L4 & HW);
    [lia|fold (tval a); lia|]. cbn [obind]. fold (tval a) in *.
  destruct (div_chunk (tval a) (val B d) _ HV HP) as (Eq & Er & Hq1). rewrite Eq, <- Er.
  pose proof (max_value_weight i) as (M1 & M2 & M3). set (P := B ^ Z.of_nat i) in *.
  set (W := val B d * P) in *. set (g := tval a / W) in *. assert (EW : W = val B d * P) by done.
  pose proof (Z.mod_pos_bound (tval a) W HW) as Hm. pose proof (Z.div_mod (tval a) W ltac:(lia)) as Edm.
  set (a1 := {| tmp_array_ := tmp; size_ := size_ a; initial_size_ := initial_size_ a |}).
  assert (Ha1 : sized a1) by (apply sized_smaller; [done..|fold g in Edm; nia]).
  assert (Ea1 : tval a1 = tval a mod W) by exact L3. rewrite <- Ea1 in *.
  set (q1 := tval a1 / val B d) in *.
  destruct (Z.eqb_spec (Z.of_nat i) (SIZE D)) as [Ei|Ei].
  - specialize (M1 Ei). destruct (Z.eqb_spec g 0) as [Eg|Eg]; cbn [negb].
    + pose proof (IH a1 quot Ha1) as IH'. rewrite Eg, Z.mul_0_l, Z.add_0_l. unfold loop_result in *.
      rewrite Nat.min_r in * by lia. apply IH'; [cbn; lia|lia|lia].
    + unfold loop_result. rewrite (proj2 (Z.ltb_ge _ _)) by nia. done.
  - destruct ((Z.of_nat i =? SIZE D - 1) && (INTEGER_MAX_OVER D <=? g)) eqn:Ec.
    + apply andb_true_iff in Ec as [E1%Z.eqb_eq E2%Z.leb_le]. specialize (M2 E1).
      unfold loop_result. rewrite (proj2 (Z.ltb_ge _ _)) by nia. done.
    + destruct (shrink_spec a1 Ha1) as (S1 & S2 & _). pose proof (IH (shrink a1) (g :: quot) S1) as IH'.
      rewrite S2 in IH'. apply loop_result_cons; [lia|done|done| |apply IH'; [cbn; lia|lia|lia]].
      destruct (Z.eqb_spec (Z.of_nat i) (SIZE D - 1)) as [E1|E1]; [|nia].
      specialize (M2 E1). apply Z.leb_gt in Ec. nia.
Qed.

(** *** Normalization *)

Lemma base_even : exists h, B = 2 * h.
Proof using HD.
  pose proof (digits_per_element D HD) as [H _]. exists (5 * 10 ^ (DIGITS_PER_ELEMENT D - 1)). unfold BASE.
  replace (DIGITS_PER_ELEMENT D) with (Z.succ (DIGITS_PER_ELEMENT D - 1)) at 1 by lia.
  rewrite Z.pow_succ_r by lia. lia.
Qed.

(** The scale makes the first element of the divisor at least half of the base. *)
Lemma scale_half m : 1 <= m < B -> let s := B / (m + 1) in
  1 <= s < B /\ (m + 1) * s <= B /\ B <= 2 * (m * s).
Proof using HD.
  intros Hm s. destruct base_even as [h Eh]. pose proof (Z.div_mod B (m + 1) ltac:(lia)) as E.
  pose proof (Z.mod_pos_bound B (m + 1) ltac:(lia)) as Hr. fold s in E. set (r := B mod (m + 1)) in *.
  assert (Hs : 1 <= s) by (apply Z.div_le_lower_bound; lia). split; [|split; [lia|]]; [nia|].
  destruct (Z.eq_dec m 1) as [->|]; [lia|]. destruct (Z.eq_dec s 1) as [->|]; [lia|]. nia.
Qed.

(** The elements of a divisor of [n] elements, after scaling. *)
Lemma scaled_divisor b n m s : sized b -> size_ b = n -> (2 <= n)%nat -> B <= 2 * (m * s) ->
  m * s * B ^ (Z.of_nat n - 1) <= tval b -> exists v1 v2,
  rd (tmp_array_ b) (n - 1) = Ret v1 /\ rd (tmp_array_ b) (n - 2) = Ret v2 /\
  normalized (take n (tmp_array_ b)) v1 v2 /\ val B (take n (tmp_array_ b)) = tval b.
Proof using HD.
  intros Hb <- Hn Hh Hv. pose proof (base_gt1 D HD) as HB. pose proof (sized_take b Hb) as Et.
  destruct Hb as (Hd & Hs & _). set (l := take (size_ b) (tmp_array_ b)) in *.
  assert (Ll : length l = size_ b) by (unfold l; rewrite length_take; lia).
  assert (Dl : digits_ok B l) by by apply digits_take.
  destruct (last_elements l (size_ b - 2) 2) as (low & [|v2 [|v1 [|]]] & E & L1 & L2); try done; [lia|].
  assert (Et2 : tmp_array_ b = low ++ v2 :: v1 :: drop (size_ b) (tmp_array_ b)).
  { rewrite <- (take_drop (size_ b) (tmp_array_ b)) at 1. fold l. by rewrite E, <- app_assoc. }
  exists v1, v2. split; [|split; [|split; [|done]]].
  - rewrite Et2. replace (low ++ v2 :: v1 :: drop (size_ b) (tmp_array_ b))
      with ((low ++ [v2]) ++ v1 :: drop (size_ b) (tmp_array_ b)) by by rewrite <- app_assoc.
    apply rd_app. rewrite length_app. cbn [length]. lia.
  - rewrite Et2. apply rd_app. lia.
  - split; [done|]. split; [|by exists low]. rewrite <- Et, E, val_app, L1 in Hv. cbn [val] in Hv.
    rewrite E in Dl. apply Forall_app in Dl as [Dl [H2 [H1 _]%Forall_cons]%Forall_cons].
    pose proof (val_bound B HB low Dl) as Hl. rewrite L1 in Hl.
    replace (Z.of_nat (size_ b) - 1) with (Z.of_nat (S (size_ b - 2))) in Hv by lia. rewrite pow_S in Hv.
    pose proof (pow_pos B HB (size_ b - 2)) as HP. set (P := B ^ Z.of_nat (size_ b - 2)) in *.
    assert (m * s * (B * P) < (v1 + 1) * (B * P)) as Hlt by nia.
    apply Z.mul_lt_mono_pos_r in Hlt; nia.
Qed.

(** The first element of a divisor of [n] elements, before scaling. *)
Lemma first_divisor b n : sized b -> size_ b = n -> (1 <= n)%nat -> exists m,
  rd (tmp_array_ b) (n - 1) = Ret m /\ 0 <= m < B /\
  m * B ^ (Z.of_nat n - 1) <= tval b < (m + 1) * B ^ (Z.of_nat n - 1).
Proof using HD.
  intros (Hd & Hs & H0) <- Hn. pose proof (base_gt1 D HD) as HB.
  destruct (lookup_lt_is_Some_2 (tmp_array_ b) (size_ b - 1)) as [m Hm]; [lia|].
  destruct (val_at B HB _ _ _ Hm Hd) as (Hmb & _ & low & Hlow & Ev).
  replace (S (size_ b - 1)) with (size_ b) in Ev by lia. rewrite H0 in Ev.
  replace (Z.of_nat (size_ b) - 1) with (Z.of_nat (size_ b - 1)) by lia.
  exists m. unfold rd, tval. rewrite Hm, Ev. split; [done|]. split; [done|]. nia.
Qed.

(** *** The long division *)

(** A number of [n] elements that are not all needed to be zero. *)
Definition exact_size (a : DivTmpArray) : Prop :=
  sized a /\ initial_size_ a = size_ a /\ B ^ (Z.of_nat (size_ a) - 1) <= tval a.

Lemma sized_bound a : sized a -> 0 <= tval a < B ^ Z.of_nat (size_ a).
Proof using HD.
  intros Ha. pose proof (base_gt1 D HD) as HB. rewrite <- (sized_take a Ha). destruct Ha as (Hd & Hs & _).
  pose proof (val_bound B HB _ (digits_take B (size_ a) _ Hd)) as H. by rewrite length_take, Nat.min_l in H by lia.
Qed.

(** Scaling keeps the quotient and multiplies the remainder; scaling by one is
    skipped. *)
Lemma scale_both s a b : exact_size a -> exact_size b -> 1 <= s < B ->
  tval a * s < B ^ Z.of_nat (length (tmp_array_ a)) -> tval b * s < B ^ Z.of_nat (size_ b) -> exists a' b',
  (if 1 <? s then let* a := tmp_mul D s a in let* b := tmp_mul D s b in Ret (a, b) else Ret (a, b)) =
    Ret (a', b') /\
  sized a' /\ tval a' = tval a * s /\ initial_size_ a' = size_ a /\
  length (tmp_array_ a') = length (tmp_array_ a) /\
  sized b' /\ tval b' = tval b * s /\ initial_size_ b' = size_ b /\ size_ b' = size_ b.
Proof using HD.
  intros (Ha & Ia & _) (Hb & Ib & _) Hs Ba Bb. pose proof (base_gt1 D HD) as HB.
  destruct (Z.ltb_spec 1 s) as [H1|H1].
  - destruct (tmp_mul_spec s a Ha ltac:(lia) Ba) as (a' & -> & A1 & A2 & A3 & A4 & _). cbn [obind].
    assert (Bb' : tval b * s < B ^ Z.of_nat (length (tmp_array_ b))).
    { eapply Z.lt_le_trans; [exact Bb|]. apply Z.pow_le_mono_r; [lia|]. destruct Hb as (_ & ? & _). lia. }
    destruct (tmp_mul_spec s b Hb ltac:(lia) Bb') as (b' & -> & B1 & B2 & B3 & B4 & B5). cbn [obind].
    exists a', b'. rewrite Ia in A3. rewrite Ib in B3. specialize (B5 Bb). done.
  - assert (s = 1) as -> by lia. exists a, b. rewrite !Z.mul_1_r. done.
Qed.

(** The quotient has at least [size_ a - size_ b] elements and at most one more. *)
Lemma quotient_size a b : exact_size a -> exact_size b -> (size_ b <= size_ a)%nat ->
  let i := (size_ a - size_ b)%nat in
  tval a < tval b * B ^ Z.of_nat (S i) /\ (SIZE D < Z.of_nat i -> MAX_VALUE_ D <= tval a / tval b).
Proof using HD.
  intros (Ha & _ & La) (Hb & _ & Lb) Hle i. pose proof (base_gt1 D HD) as HB.
  pose proof (sized_bound a Ha) as Ua. pose proof (sized_bound b Hb) as Ub.
  pose proof (proj1 (proj2 Hb)) as Sb. pose proof (size_bounds D HD) as [HS _].
  assert (0 < B ^ (Z.of_nat (size_ b) - 1)) by (apply Z.pow_pos_nonneg; lia). split.
  - assert (E : B ^ Z.of_nat (size_ a) = B ^ (Z.of_nat (size_ b) - 1) * B ^ Z.of_nat (S i))
      by (rewrite <- Z.pow_add_r by lia; f_equal; lia).
    pose proof (pow_pos B HB (S i)). nia.
  - intros Hi. destruct (max_value_weight (Z.to_nat (SIZE D))) as (M1 & _). specialize (M1 ltac:(lia)).
    apply Z.div_le_lower_bound; [lia|]. eapply Z.le_trans; [|exact La].
    replace (Z.of_nat (size_ a) - 1) with (Z.of_nat (size_ b) + Z.of_nat (i - 1)) by lia.
    rewrite Z.pow_add_r by lia. apply Z.mul_le_mono_nonneg; [lia|lia| |].
    + pose proof (Z.pow_nonneg 10 (TOTAL_RANK D)). unfold MAX_VALUE_. lia.
    + eapply Z.le_trans; [exact M1|]. apply Z.pow_le_mono_r; lia.
Qed.

(** The elements of the quotient of the scaled numbers, and the check that the
    scale divides the remainder. *)
Lemma scaled_quotient s a b d v1 v2 i : 1 <= s < B -> normalized d v1 v2 -> 0 < b -> val B d = b * s ->
  sized a -> forall x, tval a = x * s -> x < b * B ^ Z.of_nat (S i) -> Z.of_nat i <= SIZE D ->
  (S i + length d <= length (tmp_array_ a))%nat ->
  let r := quotient_loop D (S i) v1 v2 d a (repeat 0 (Z.to_nat (SIZE D) - S i)) in
  if x / b <? MAX_VALUE_ D then exists a' l, r = Ret (Some (a', l)) /\
    (exists a2, tmp_div D s a' = Ret (a2, 0)) /\
    length l = Z.to_nat (SIZE D) /\ digits_ok B l /\ val B l = x / b
  else r = Ret None.
Proof using HD.
  intros Hs Hn Hb Ed Ha x Ex Hx Hi Hl r. pose proof (base_gt1 D HD) as HB.
  pose proof (quotient_loop_spec d v1 v2 Hn ltac:(nia) (S i) a (repeat 0 (Z.to_nat (SIZE D) - S i)) Ha Hl
    ltac:(lia)) as H.
  rewrite Ex, Ed in H. rewrite Z.div_mul_cancel_r, Z.mul_mod_distr_r in H by lia.
  specialize (H ltac:(nia)). unfold loop_result in H. fold r in H. destruct (x / b <? MAX_VALUE_ D); [|done].
  destruct H as (a' & ql & -> & H1 & H2 & H3 & H4 & H5). eexists _, _. split; [done|].
  split; [|rewrite length_app, repeat_length, H3, val_app, val_repeat0, H5; split; [lia|split; [|lia]]].
  - destruct (tmp_div_spec s a' H1 ltac:(lia)) as (a2 & j & -> & _ & _ & _ & ->). rewrite H2.
    exists a2. by rewrite Z.mod_mul by lia.
  - apply Forall_app. split; [done|]. by apply digits_ok_0.
Qed.

Lemma long_division_spec a b : exact_size a -> exact_size b -> (2 <= size_ b <= size_ a)%nat ->
  (size_ a < length (tmp_array_ a))%nat ->
  let q := tval a / tval b in
  if q <? MAX_VALUE_ D then exists l, long_division D a b = Ret l /\ length l = Z.to_nat (SIZE D) /\
    digits_ok B l /\ val B l = q
  else long_division D a b = Throw (Overflow "overflow dividing").
Proof using HD.
  intros Ha Hb Hsz Hlen q. pose proof (base_gt1 D HD) as HB. unfold long_division.
  pose proof (sized_bound a (proj1 Ha)) as Ua. pose proof (sized_bound b (proj1 Hb)) as Ub.
  destruct (first_divisor b _ (proj1 Hb) eq_refl) as (m & -> & Hm & Hmv); [lia|]. cbn [obind].
  assert (Hm1 : 1 <= m).
  { destruct Hb as (_ & _ & Hlow). destruct (Z.eq_dec m 0) as [->|]; lia. }
  destruct (scale_half m ltac:(lia)) as (Hs & Hs1 & Hs2). set (s := B / (m + 1)) in *.
  set (P := B ^ (Z.of_nat (size_ b) - 1)) in *. assert (HP : 0 < P) by (apply Z.pow_pos_nonneg; lia).
  assert (EP : B ^ Z.of_nat (size_ b) = B * P).
  { unfold P. rewrite <- Z.pow_succ_r by lia. f_equal. lia. }
  rewrite (proj2 (Z.ltb_lt 0 s)), (proj2 (Z.ltb_lt s B)) by lia. cbn [andb guard].
  destruct (scale_both s a b Ha Hb Hs) as (a' & b' & -> & A1 & A2 & A3 & A4 & B1 & B2 & B3 & B4).
  { assert (B ^ Z.of_nat (S (size_ a)) <= B ^ Z.of_nat (length (tmp_array_ a))) by (apply Z.pow_le_mono_r; lia).
    rewrite pow_S in H. nia. }
  { rewrite EP. nia. }
  cbn [obind].
  destruct (scaled_divisor b' (size_ b) m s B1 B4 ltac:(lia) Hs2) as (v1 & v2 & E1 & E2 & Hn & Ev).
  { fold P. rewrite B2. nia. }
  rewrite B4, E1, E2. cbn [obind]. rewrite A3, B3.
  destruct (quotient_size a b Ha Hb ltac:(lia)) as [Q1 Q2]. fold q in Q2. set (i := (size_ a - size_ b)%nat) in *.
  destruct (Z.ltb_spec (SIZE D) (Z.of_nat i)) as [Hi|Hi]; [rewrite (proj2 (Z.ltb_ge _ _) (Q2 Hi)); done|].
  rewrite B2 in Ev. assert (Hlb : length (take (size_ b) (tmp_array_ b')) = size_ b).
  { rewrite length_take. destruct B1 as (_ & ? & _). lia. }
  pose proof (scaled_quotient s a' (tval b) _ v1 v2 i Hs Hn ltac:(nia) Ev A1 (tval a) A2 Q1 Hi ltac:(lia)) as R.
  cbv zeta in R. fold q in R. destruct (q <? MAX_VALUE_ D); [|by rewrite R].
  destruct R as (a3 & l & -> & (a2 & Ed) & R). cbn [obind]. exists l. split; [|done].
  destruct (1 <? s); [|done]. by rewrite Ed.
Qed.

(** *** The whole division *)

Lemma shrink_exact a : sized a -> initial_size_ a = O -> let a' := shrink a in
  sized a' /\ tval a' = tval a /\ initial_size_ a' = size_ a' /\ ((1 < size_ a')%nat \/ 0 < tval a -> exact_size a').
Proof using HD.
  intros Ha H0 a'. destruct (shrink_spec a Ha) as (S1 & S2 & S3 & S4). fold a' in S1, S2, S3, S4.
  assert (Ei : initial_size_ a' = size_ a') by (unfold a', shrink; cbn [initial_size_ size_]; by rewrite H0).
  split; [done|]. split; [done|]. split; [done|]. intros Hc. split; [done|]. split; [done|].
  rewrite S2. destruct (Nat.lt_trichotomy (size_ a') 1) as [H|[H|H]].
  - destruct S1 as (_ & ? & _). lia.
  - rewrite H. change (B ^ (Z.of_nat 1 - 1)) with 1. destruct Hc; lia.
  - by apply S4.
Qed.

Lemma divisor_spec y : valid D y -> let b := shrink (DivTmpDivisor y) in
  sized b /\ tval b = magnitude D y /\ exists m, rd (tmp_array_ b) (size_ b - 1) = Ret m /\
  (m = 0 <-> magnitude D y = 0) /\ (size_ b = 1%nat -> m = magnitude D y /\ m < B) /\ (m <> 0 -> exact_size b).
Proof using HD.
  intros (Ly & Dy & _) b. pose proof (base_gt1 D HD) as HB.
  set (a := DivTmpDivisor y) in *.
  assert (Ha : sized a).
  { unfold a, sized, DivTmpDivisor. cbn [tmp_array_ size_]. rewrite length_app. cbn [length].
    split; [apply Forall_app; split; [done|]; constructor; [lia|constructor]|]. split; [lia|].
    rewrite drop_ge; [done|]. rewrite length_app. cbn [length]. lia. }
  assert (Ea : tval a = magnitude D y).
  { unfold tval, a, DivTmpDivisor, magnitude. cbn [tmp_array_]. rewrite val_app. cbn [val]. lia. }
  destruct (shrink_exact a Ha eq_refl) as (S1 & S2 & S3 & S4). fold b in S1, S2, S3, S4. rewrite Ea in S2.
  split; [done|]. split; [done|]. destruct (first_divisor b _ S1 eq_refl) as (m & -> & Hm & Hv).
  { destruct S1 as (_ & ? & _). lia. }
  exists m. rewrite S2 in Hv. rewrite Ea in S4. split; [done|].
  assert (HP : 0 < B ^ (Z.of_nat (size_ b) - 1)).
  { apply Z.pow_pos_nonneg; [lia|]. destruct S1 as (_ & ? & _). lia. }
  assert (H0 : magnitude D y = 0 -> m = 0) by nia.
  split; [split; [|done]|split].
  - intros ->. destruct (Nat.le_gt_cases (size_ b) 1) as [H|H].
    + assert (size_ b = 1%nat) as E by (destruct S1 as (_ & ? & _); lia). rewrite E in Hv. cbn in Hv. lia.
    + destruct (S4 (or_introl H)) as (_ & _ & Hl). lia.
  - intros E. rewrite E in Hv. change (B ^ (Z.of_nat 1 - 1)) with 1 in Hv. lia.
  - intros Hm0. apply S4. right. nia.
Qed.

Lemma dividend_spec x : valid D x -> exists a, DivTmpDividend D x = Ret a /\ let a' := shrink a in
  sized a' /\ tval a' = magnitude D x * MAX_FRACTION_ D /\ ((1 < size_ a')%nat -> exact_size a') /\
  (size_ a' < length (tmp_array_ a'))%nat /\ length (tmp_array_ a') = Z.to_nat (DIV_TMP_SIZE D).
Proof using HD.
  intros Hx. pose proof (base_gt1 D HD) as HB.
  destruct (DivTmpDividend_spec x Hx) as (a & -> & Ha & La & Ia & Sa & Va). exists a. split; [done|].
  cbv zeta. destruct (shrink_exact a Ha Ia) as (S1 & S2 & S3 & S4). rewrite Va in S2.
  split; [done|]. split; [done|]. split; [intros H; apply S4; by left|].
  assert (El : length (tmp_array_ (shrink a)) = Z.to_nat (DIV_TMP_SIZE D)) by exact La.
  split; [|exact El]. rewrite El, div_tmp_size.
  pose proof (tmp_size_bounds D HD) as (T1 & _ & T2).
  destruct (Nat.le_gt_cases (size_ (shrink a)) 1) as [H|H]; [lia|].
  destruct (S4 (or_introl H)) as (_ & _ & Hl). rewrite S2 in Hl.
  pose proof (magnitude_bound D HD x Hx) as Hmx.
  assert (Hlt : B ^ (Z.of_nat (size_ (shrink a)) - 1) < B ^ TMP_SIZE D).
  { eapply Z.le_lt_trans; [exact Hl|]. rewrite (base_pow D HD) by lia.
    apply Z.lt_le_trans with (TMP_VALUE D).
    - rewrite (tmp_value D HD). apply Z.mul_lt_mono_pos_r; [|lia].
      apply Z.pow_pos_nonneg; [lia|]. destruct HD as (_ & _ & ?). lia.
    - unfold TMP_VALUE. apply Z.pow_le_mono_r; lia. }
  apply Z.pow_lt_mono_r_iff in Hlt; lia.
Qed.

Lemma div_export_spec a : digits_ok B (tmp_array_ a) -> SIZE D < Z.of_nat (length (tmp_array_ a)) ->
  if tval a <? MAX_VALUE_ D then exists l, div_export D a = Ret (Some l) /\ length l = Z.to_nat (SIZE D) /\
    digits_ok B l /\ val B l = tval a
  else div_export D a = Ret None.
Proof using HD.
  intros Hd Hl. pose proof (base_gt1 D HD) as HB. pose proof (size_bounds D HD) as [HS _].
  set (low := take (Z.to_nat (SIZE D)) (tmp_array_ a)). set (high := drop (Z.to_nat (SIZE D)) (tmp_array_ a)).
  assert (Ll : length low = Z.to_nat (SIZE D)) by (unfold low; rewrite length_take; lia).
  assert (Dl : digits_ok B low) by by apply digits_take.
  assert (Dh : digits_ok B high) by by apply digits_drop.
  pose proof (val_bound B HB low Dl) as Hlow. pose proof (val_bound B HB high Dh) as Hhigh.
  destruct (valid_last D HD low Ll Dl) as (last & E & Hlast). unfold div_export.
  assert (E' : at_ (tmp_array_ a) (SIZE D - 1) = Ret last).
  { rewrite <- E. unfold at_, rd, low. by rewrite lookup_take_lt by lia. }
  rewrite E'. cbn [obind]. fold low high. rewrite (all_zero_spec D HD high Dh).
  assert (Ev : tval a = val B low + B ^ Z.of_nat (length low) * val B high).
  { unfold tval. rewrite (val_split B (Z.to_nat (SIZE D))) by lia. by rewrite Ll. }
  destruct (max_value_weight (length low)) as (M1 & _). specialize (M1 ltac:(lia)).
  destruct (Z.leb_spec (INTEGER_MAX_OVER D) last) as [H|H].
  - rewrite (proj2 (Z.ltb_ge _ _)) by nia. done.
  - apply Hlast in H. destruct (Z.eqb_spec (val B high) 0) as [H0|H0].
    + rewrite Ev, H0, Z.mul_0_r, Z.add_0_r. rewrite (proj2 (Z.ltb_lt _ _) H). by exists low.
    + rewrite (proj2 (Z.ltb_ge _ _)) by nia. done.
Qed.

(** The quotient of the magnitudes, and whether the division took the short way
    out for a divisor that is longer than the dividend. *)
Definition quotient_of (x y : Decimal) (q : Z) (out : outcome (Decimal * bool)) : Prop :=
  if q <? MAX_VALUE_ D then exists z small, out = Ret (z, small) /\ valid D z /\
    negative_ z = xorb (negative_ x) (negative_ y) /\ magnitude D z = q /\ (small = true -> q = 0)
  else out = Throw (Overflow "overflow dividing").

Lemma quotient_array x y q l (small : bool) : length l = Z.to_nat (SIZE D) -> digits_ok B l -> val B l = q ->
  q < MAX_VALUE_ D -> (small = true -> q = 0) ->
  exists z s, Ret ({| negative_ := xorb (negative_ x) (negative_ y); array_ := l |}, small) = Ret (z, s) /\
    valid D z /\ negative_ z = xorb (negative_ x) (negative_ y) /\ magnitude D z = q /\ (s = true -> q = 0).
Proof using HD.
  intros Hl Hd Hv Hq Hs. eexists _, _. split; [done|]. unfold valid, magnitude. cbn [array_ negative_].
  rewrite Hv. done.
Qed.

Lemma Decimal_div_magnitudes x y : valid D x -> valid D y -> magnitude D y <> 0 ->
  quotient_of x y (magnitude D x * MAX_FRACTION_ D / magnitude D y) (div_ D x y).
Proof using HD.
  intros Hx Hy Hy0. pose proof (base_gt1 D HD) as HB. unfold div_.
  rewrite !(Decimal_valid_set D HD) by done. cbn [andb guard].
  pose proof (size_bounds D HD) as (HS & HS1 & _). pose proof (digits_per_element D HD) as [HDP _].
  pose proof (tmp_size_bounds D HD) as (HT & _ & HT1). pose proof div_tmp_size as EZ.
  assert (HST : SIZE D <= TMP_SIZE D).
  { destruct HD as (_ & _ & HF). unfold TMP_TOTAL_RANK, INTEGER_RANK in HT1. nia. }
  destruct (divisor_spec y Hy) as (Sb & Vb & m & -> & Hm0 & Hm1 & Eb). cbn [obind].
  set (b := shrink (DivTmpDivisor y)) in *. pose proof (sized_bound b Sb) as Ub. rewrite Vb in Ub.
  rewrite (proj2 (Z.eqb_neq m 0)) by tauto. specialize (Eb ltac:(tauto)).
  destruct (dividend_spec x Hx) as (a0 & -> & Sa & Va & Ea & La & Za). cbn [obind].
  set (a := shrink a0) in *. pose proof (sized_bound a Sa) as Ua. rewrite Va in Ua.
  set (X := magnitude D x * MAX_FRACTION_ D) in *. set (V := magnitude D y) in *. set (q := X / V).
  assert (HM : 0 < MAX_VALUE_ D) by (apply Z.pow_pos_nonneg; [lia|]; destruct HD as (_ & ? & _); lia).
  unfold quotient_of. destruct (Nat.ltb_spec (size_ a) (size_ b)) as [Hlt|Hge].
  { assert (Eq : q = 0).
    { apply Z.div_small. split; [lia|]. destruct Eb as (_ & _ & Lb). rewrite Vb in Lb.
      apply Z.lt_le_trans with (B ^ Z.of_nat (size_ a)); [lia|]. eapply Z.le_trans; [|exact Lb].
      apply Z.pow_le_mono_r; lia. }
    rewrite Eq, (proj2 (Z.ltb_lt _ _) HM). apply quotient_array; try done.
    - apply repeat_length.
    - by apply digits_ok_0.
    - apply val_repeat0. }
  destruct (Nat.eqb_spec (size_ b) 1) as [E1|E1].
  - destruct (Hm1 E1) as [-> HVB]. fold V.
    destruct (tmp_div_spec V a Sa ltac:(lia)) as (a' & r & -> & D1 & L1 & V1 & _). cbn [obind].
    rewrite Va in V1. fold q in V1.
    pose proof (div_export_spec a' D1 ltac:(rewrite L1, Za; lia)) as H. rewrite V1 in H.
    destruct (Z.ltb_spec q (MAX_VALUE_ D)) as [Hq|Hq]; [|by rewrite H].
    destruct H as (l & -> & H1 & H2 & H3). cbn [obind]. by apply quotient_array.
  - assert (Hb2 : (2 <= size_ b)%nat) by (destruct Sb as (_ & ? & _); lia).
    pose proof (long_division_spec a b (Ea ltac:(lia)) Eb ltac:(lia) La) as H.
    cbv zeta in H. rewrite Va, Vb in H. fold q in H.
    destruct (Z.ltb_spec q (MAX_VALUE_ D)) as [Hq|Hq]; [|by rewrite H].
    destruct H as (l & -> & H1 & H2 & H3). cbn [obind]. by apply quotient_array.
Qed.

Lemma Decimal_div_zero x y : valid D x -> valid D y -> magnitude D y = 0 ->
  div_ D x y = Throw (Overflow "division by zero").
Proof using HD.
  intros Hx Hy H0. unfold div_. rewrite !(Decimal_valid_set D HD) by done. cbn [andb guard].
  destruct (divisor_spec y Hy) as (_ & _ & m & -> & Hm0 & _). cbn [obind].
  by rewrite (proj2 Hm0 H0).
Qed.

(** The product of the quotient and the divisor, rounded down, and what it leaves
    of the dividend. *)
Lemma div_product x y z : valid D x -> valid D y -> magnitude D y <> 0 -> valid D z ->
  negative_ z = xorb (negative_ x) (negative_ y) ->
  magnitude D z = magnitude D x * MAX_FRACTION_ D / magnitude D y ->
  let P := magnitude D z * magnitude D y / MAX_FRACTION_ D in
  0 <= P <= magnitude D x /\
  (magnitude D x - P) * MAX_FRACTION_ D < magnitude D y + MAX_FRACTION_ D /\
  (P = magnitude D x <-> (magnitude D x * MAX_FRACTION_ D) mod magnitude D y = 0) /\
  exists p, mul D z y DMR_FLOOR = Ret p /\ valid D p /\ value D p = Z.sgn (value D x) * P.
Proof using HD.
  intros Hx Hy Hy0 Hz En Em P. pose proof (magnitude_bound D HD x Hx) as Bx.
  pose proof (magnitude_bound D HD y Hy) as By.
  assert (HF : 0 < MAX_FRACTION_ D) by (apply Z.pow_pos_nonneg; [lia|]; destruct HD as (_ & _ & ?); lia).
  destruct (remainder_bounds (magnitude D x) (magnitude D y) (MAX_FRACTION_ D)) as ([HQ H0] & HP & Hr); [lia..|].
  rewrite <- Em in HQ, H0, HP, Hr. fold P in HP, Hr. split; [done|]. split; [done|]. split.
  { pose proof (Z.div_mod (magnitude D x * MAX_FRACTION_ D) (magnitude D y) Hy0) as E. rewrite <- Em in E.
    pose proof (Z.mod_pos_bound (magnitude D x * MAX_FRACTION_ D) (magnitude D y) ltac:(lia)) as Hm.
    pose proof (Z.mul_div_le (magnitude D z * magnitude D y) (MAX_FRACTION_ D) HF) as Hle. fold P in Hle.
    split; intros H; [rewrite H in Hle; lia|]. rewrite H in E. apply Z.le_antisymm; [lia|].
    apply Z.div_le_lower_bound; [done|]. lia. }
  pose proof (Decimal_mul_represents D HD z y DMR_FLOOR Hz Hy ltac:(done)) as Hmul. cbn [rounded] in Hmul.
  fold P in Hmul. rewrite Decimal_sgn_mul, En in Hmul; [|done|done|done|].
  2: { intros E. unfold P. by rewrite E. }
  assert (Es : Z.sgn (value D x) * P = if negative_ x then - P else P).
  { apply sgn_magnitude; [done|done|]. intros E. lia. }
  destruct (Decimal_represents_fits D _ _ Hmul) as (p & Hp & Vp & Ep).
  { destruct (negative_ x), (negative_ y); cbn [xorb]; lia. }
  exists p. split; [done|]. split; [done|]. rewrite Ep, Es. by destruct (negative_ x), (negative_ y).
Qed.

Lemma Decimal_EPSILON_spec : boundary_inside D -> exists e, EPSILON D = Ret e /\ valid D e /\ magnitude D e = 1.
Proof using HD.
  intros Hb. unfold EPSILON. destruct HD as (_ & HT & HF).
  assert (HI : 1 <= MAX_INTEGER_ D /\ (FRACTION_RANK D = 0 -> 1 < MAX_INTEGER_ D)).
  { unfold MAX_INTEGER_, INTEGER_RANK. split.
    - pose proof (Z.pow_pos_nonneg 10 (TOTAL_RANK D - FRACTION_RANK D)). lia.
    - intros ->. apply (Z.pow_gt_1 10); lia. }
  destruct (Z.eqb_spec (FRACTION_RANK D) 0) as [E|E].
  - pose proof (Decimal_construct_parts_spec D HD false 1 0 Hb ltac:(lia) ltac:(lia)) as H.
    assert (EF : MAX_FRACTION_ D = 1) by (unfold MAX_FRACTION_; by rewrite E).
    rewrite EF, (proj2 (Z.ltb_lt 1 (MAX_INTEGER_ D))) in H by tauto. destruct H as (x & -> & Hx & _ & Em).
    by exists x.
  - pose proof (Decimal_construct_parts_spec D HD false 0 1 Hb ltac:(lia) ltac:(lia)) as H.
    assert (EF : 1 < MAX_FRACTION_ D) by (apply (Z.pow_gt_1 10); lia).
    rewrite (proj2 (Z.ltb_lt _ _) EF), (proj2 (Z.ltb_lt 0 (MAX_INTEGER_ D))) in H by lia.
    destruct H as (x & -> & Hx & _ & Em). exists x. split; [done|]. split; [done|]. lia.
Qed.

(** The sign of a quotient. *)
Lemma quotient_sign x y r : valid D x -> valid D y -> magnitude D y <> 0 -> (magnitude D x = 0 -> r = 0) ->
  Z.sgn (value D x * value D y) * r = if xorb (negative_ x) (negative_ y) then - r else r.
Proof using HD.
  intros Hx Hy Hy0 H0. apply Decimal_sgn_mul; [done..|]. intros E. apply H0.
  apply Z.mul_eq_0 in E as [E|E]; [done|lia].
Qed.

Lemma Decimal_div_represents x y ddr : valid D x -> valid D y -> magnitude D y <> 0 ->
  (ddr = DDR_CEIL -> boundary_inside D) ->
  represents D (div D x y ddr) (Z.sgn (value D x * value D y) *
    rounded (ddr_mode ddr) (magnitude D x * MAX_FRACTION_ D) (magnitude D y)).
Proof using HD.
  intros Hx Hy Hy0 Hb. pose proof (Decimal_div_magnitudes x y Hx Hy Hy0) as H. unfold quotient_of in H.
  pose proof (magnitude_bound D HD x Hx) as Bx. pose proof (magnitude_bound D HD y Hy) as By.
  assert (HF : 0 < MAX_FRACTION_ D) by (apply Z.pow_pos_nonneg; [lia|]; destruct HD as (_ & _ & ?); lia).
  rewrite rounded_spec, quotient_sign by (done || lia ||
    (intros ->; rewrite Z.mul_0_l, Z.div_0_l, Z.mod_0_l by lia; by destruct ddr)).
  unfold div. destruct (Z.ltb_spec (magnitude D x * MAX_FRACTION_ D / magnitude D y) (MAX_VALUE_ D)) as [Hq|Hq].
  - destruct H as (z & small & -> & Hz & En & Em & _). cbn [obind].
    destruct (div_product x y z Hx Hy Hy0 Hz En Em) as (HP & _ & Hex & p & Hp & Vp & Ep).
    rewrite <- Em, <- En. destruct ddr; cbn [ddr_mode].
    + rewrite bool_decide_eq_false_2 by done. rewrite Z.add_0_r. by apply Decimal_represents_self.
    + rewrite bool_decide_eq_true_2 by done. rewrite Hp. cbn [obind].
      rewrite (Decimal_equal_value D HD) by done. cbn [obind].
      rewrite Ep, sgn_magnitude by (done || lia). set (P := magnitude D z * magnitude D y / MAX_FRACTION_ D) in *.
      assert (Ee : (value D x =? (if negative_ x then - P else P)) = (P =? magnitude D x))
        by (unfold value; destruct (negative_ x); apply eq_true_iff_eq; rewrite !Z.eqb_eq; lia).
      rewrite Ee. destruct (Z.eqb_spec P (magnitude D x)) as [E|E]; cbn [negb].
      * rewrite (proj1 Hex E), Z.add_0_r. by apply Decimal_represents_self.
      * rewrite (proj2 (Z.eqb_neq _ _)) by tauto.
        destruct (Decimal_EPSILON_spec (Hb eq_refl)) as (e & -> & Ve & E1). cbn [obind].
        apply add_same; [done|done|done|]. by rewrite E1.
  - rewrite H. cbn [obind]. apply Decimal_represents_throw.
    set (u := match ddr_mode ddr with DMR_FLOOR => _ | _ => _ end).
    assert (0 <= u) by (unfold u; destruct ddr; cbn [ddr_mode]; [lia|case_Z; lia]).
    destruct (xorb _ _); lia.
Qed.

Lemma Decimal_div_remainder_value x y z : valid D x -> valid D y -> div D x y DDR_FLOOR = Ret z ->
  exists r p, mul D z y DMR_FLOOR = Ret p /\ div_remainder D x y = Ret (z, r) /\
    valid D r /\ value D x = value D p + value D r /\ 0 <= Z.sgn (value D x) * value D r /\
    Z.abs (value D r) * MAX_FRACTION_ D < Z.abs (value D y) + MAX_FRACTION_ D.
Proof using HD.
  intros Hx Hy Hdiv. unfold div in Hdiv. rewrite bool_decide_eq_false_2 in Hdiv by done.
  destruct (Z.eq_dec (magnitude D y) 0) as [E0|Hy0].
  { by rewrite (Decimal_div_zero x y Hx Hy E0) in Hdiv. }
  pose proof (Decimal_div_magnitudes x y Hx Hy Hy0) as H. unfold quotient_of in H.
  destruct (Z.ltb_spec (magnitude D x * MAX_FRACTION_ D / magnitude D y) (MAX_VALUE_ D)) as [Hq|Hq];
    [|rewrite H in Hdiv; done].
  destruct H as (z' & small & Ed & Hz & En & Em & Hsm). rewrite Ed in Hdiv. injection Hdiv as ->.
  destruct (div_product x y z Hx Hy Hy0 Hz En Em) as (HP & Hr & _ & p & Hp & Vp & Ep).
  set (P := magnitude D z * magnitude D y / MAX_FRACTION_ D) in *.
  assert (Er : value D x - value D p = Z.sgn (value D x) * (magnitude D x - P)).
  { by rewrite Ep, Z.mul_sub_distr_l, <- (magnitude_value D HD x Hx), (Z.mul_comm _ (Z.abs _)), Z.abs_sgn. }
  pose proof (magnitude_bound D HD x Hx) as Bx.
  assert (HR : exists r, div_remainder D x y = Ret (z, r) /\ valid D r /\ value D r = value D x - value D p).
  { unfold div_remainder. rewrite Ed. cbn [obind]. destruct small.
    - exists x. split; [done|]. split; [done|]. rewrite Ep. unfold P. rewrite Em, Hsm by done.
      rewrite Z.mul_0_l, Z.div_0_l by (unfold MAX_FRACTION_; apply Z.pow_nonzero; [lia|];
        destruct HD as (_ & _ & ?); lia). lia.
    - rewrite Hp. cbn [obind]. pose proof (Decimal_sub_represents D HD x p Hx Vp) as Hs.
      destruct (Decimal_represents_fits D _ _ Hs) as (r & -> & Vr & Evr).
      { rewrite Er. pose proof (sgn_scale (value D x) (magnitude D x - P)). lia. }
      by exists r. }
  destruct HR as (r & Hr1 & Vr & Evr). exists r, p. split; [done|]. split; [done|]. split; [done|].
  split; [lia|]. rewrite Evr, Er, (magnitude_value D HD y Hy).
  assert (HF : 0 <= MAX_FRACTION_ D) by (apply Z.pow_nonneg; lia). split.
  - destruct (Z.sgn_spec (value D x)) as [[_ ->]|[[_ ->]|[_ ->]]]; lia.
  - pose proof (sgn_scale (value D x) (magnitude D x - P) ltac:(lia)). nia.
Qed.
End Facts.


