(* ===== verification/DecimalText.v ===== *)
(** * DecimalText: text, packing and the small operations of [Decimal]

    Models [construct_(str)], [str], [pack], [unpack], [negate], the sign
    predicates, the derived comparisons and the constructor from another
    [Decimal] of [src/Generics/Decimal.tpp], over the numbers of [Decimal.v]. *)
From S2P Require Import Prelude IntStr CommonDecimal SimpleDecimal Decimal DecimalConv.
Local Open Scope Z_scope.
Local Open Scope outcome_scope.

Section Operations.
Context (D : DecimalRanks).
Abbreviation Element := (Base D).

(** ** Reading *)

(** [while (begin != end && '0' == *begin)]; a list stands for [[begin, end)]. *)
Fixpoint skip_leading (range : list Z) : list Z :=
  match range with
  | ch :: range' => if ch =? "0"%uchar then skip_leading range' else range
  | [] => []
  end.

(** [while (end != begin && '0' == end[-1])] *)
Fixpoint trim_trailing (range : list Z) : list Z :=
  match range with
  | [] => []
  | ch :: range' =>
    match trim_trailing range' with
    | [] => if ch =? "0"%uchar then [] else [ch]
    | trimmed => ch :: trimmed
    end
  end.

(** [str.find('.')] *)
Fixpoint find_point (str : list Z) : option nat :=
  match str with
  | [] => None
  | ch :: str' => if ch =? "."%uchar then Some O else option_map S (find_point str')
  end.

Definition isdigit (ch : Z) : bool := ("0"%uchar <=? ch) && (ch <=? "9"%uchar).

(** The loops that copy digits into [num]. *)
Fixpoint read_digits (range : list Z) : outcome (list Z) :=
  match range with
  | [] => Ret []
  | ch :: range' =>
    if negb (isdigit ch) then Throw (NotNumber "string contains non-digit character")
    else let* ds := read_digits range' in Ret (ch - "0"%uchar :: ds)
  end.

(** The last loop: [size] elements are left, [n] digits of [num]. *)
Fixpoint assemble_elements (size n : nat) (num : list Z) : outcome (list Z) :=
  match size with
  | O => Ret []
  | S size' =>
    let digits := Nat.min n (Z.to_nat (DIGITS_PER_ELEMENT D)) in
    let n := (n - digits)%nat in
    let* e := assemble_decimal Element digits (drop n num) in
    let* array := assemble_elements size' n num in
    Ret (e :: array)
  end.

(** The part of [construct_] after the [return] for zero. *)
Definition construct_digits (negative : bool) (integer fraction : list Z) : outcome Decimal :=
  if FRACTION_RANK D <? Z.of_nat (length fraction)
  then Throw (Overflow "number of digits in fraction is bigger")
  else if INTEGER_RANK D <? Z.of_nat (length integer)
  then Throw (Overflow "number of digits in integer is bigger")
  else
    let* fraction := read_digits fraction in
    let* integer := read_digits integer in
    let num :=
      repeat 0 (Z.to_nat (INTEGER_RANK D) - length integer) ++ integer ++
      fraction ++ repeat 0 (Z.to_nat (FRACTION_RANK D) - length fraction) in
    let* array := assemble_elements (Z.to_nat (SIZE D)) (Z.to_nat (TOTAL_RANK D)) num in
    Ret {| negative_ := negative; array_ := array |}.

(** The part after the sign: [str] is the whole text, [range] the rest of it. *)
Definition construct_unsigned (negative : bool) (str range : list Z) : outcome Decimal :=
  let range := skip_leading range in
  let start := (length str - length range)%nat in
  let zero := Ret {| negative_ := negative; array_ := repeat 0 (Z.to_nat (SIZE D)) |} in
  match find_point str with
  | None => if is_end range then zero else construct_digits negative range []
  | Some point_pos =>
    let range := trim_trailing range in
    let* last := rd range (length range - 1) in
    if last =? "."%uchar then
      let range := removelast range in
      if is_end range then zero else construct_digits negative range []
    else if is_end range then zero
    else construct_digits negative (take (point_pos - start) range) (drop (S point_pos - start) range)
  end.

Definition construct_str (str : list Z) : outcome Decimal :=
  match str with
  | [] => Throw (NotNumber "empty string passed")
  | ch :: rest =>
    let '(negative, range) :=
      if ch =? "-"%uchar then (true, rest)
      else if ch =? "+"%uchar then (false, rest)
      else (false, str) in
    if is_end range then Throw (NotNumber "empty number passed")
    else construct_unsigned negative str range
  end.

(** ** Printing *)

(** The loop over the elements: [left] is [num_cur - num]. *)
Fixpoint disassemble_elements (array : list Z) (left : nat) (num : list Z) : outcome (list Z) :=
  match array with
  | [] => Ret num
  | e :: array' =>
    let digits := if is_end array' then left else Z.to_nat (DIGITS_PER_ELEMENT D) in
    guard (digits <=? left)%nat
      (let left := (left - digits)%nat in
       let* part := disassemble_decimal digits e (drop left num) in
       disassemble_elements array' left (take left num ++ part))
  end.

(** [for (; i != INTEGER_RANK && !num[i]; i++)] *)
Fixpoint skip_zeros_num (num : list Z) : list Z :=
  match num with
  | d :: num' => if d =? 0 then skip_zeros_num num' else num
  | [] => []
  end.

(** The position of the last digit that is not zero, or of the first one. *)
Fixpoint last_nonzero (fraction : list Z) (i last : nat) : nat :=
  match fraction with
  | [] => last
  | d :: fraction' => last_nonzero fraction' (S i) (if d =? 0 then last else i)
  end.

Definition str (x : Decimal) : outcome (list Z) :=
  guard (is_set D x)
    (let size := (Z.to_nat (TOTAL_RANK D) + 3 + if (INTEGER_RANK D =? 0)%Z then 1 else 0)%nat in
     let* num := disassemble_elements (array_ x) (Z.to_nat (TOTAL_RANK D))
       (repeat 0 (Z.to_nat (TOTAL_RANK D))) in
     let sign := if negative_ x && negb (all_zero (array_ x)) then ["-"%uchar] else [] in
     let integer :=
       match skip_zeros_num (take (Z.to_nat (INTEGER_RANK D)) num) with
       | [] => ["0"%uchar]
       | ds => chars ds
       end in
     if negb (FRACTION_RANK D =? 0) then
       let fraction := take (Z.to_nat (FRACTION_RANK D)) (drop (Z.to_nat (INTEGER_RANK D)) num) in
       let ret := sign ++ integer ++ "."%uchar :: chars fraction in
       let last := (length (sign ++ integer) + 1 + last_nonzero fraction 0 0)%nat in
       guard ((length ret <=? size) && (last + 1 <? size))%nat (Ret (take (last + 1) ret))
     else
       let ret := sign ++ integer in
       guard (length ret <=? size)%nat (Ret ret)).

(** ** Packing *)

(** The bytes of the elements, little endian. *)
Definition pack (x : Decimal) : outcome (list Z) :=
  guard (is_set D x)
    (Ret (flat_map (le_bytes (sizeof_data D)) (array_ x) ++ [if negative_ x then 1 else 0])).

Fixpoint unpack_elements (size : nat) (buf : list Z) : list Z :=
  match size with
  | O => []
  | S size' =>
    le_value (take (sizeof_data D) buf) :: unpack_elements size' (drop (sizeof_data D) buf)
  end.

Definition unpack (buf : list Z) : outcome Decimal :=
  let bytes := (Z.to_nat (SIZE D) * sizeof_data D)%nat in
  guard (S bytes <=? length buf)%nat
    (let* sign := rd buf bytes in
     Ret {| negative_ := negb (sign =? 0); array_ := unpack_elements (Z.to_nat (SIZE D)) buf |}).

(** ** Signs and derived comparisons *)

Definition negate (x : Decimal) : outcome Decimal :=
  guard (is_set D x) (Ret {| negative_ := negb (negative_ x); array_ := array_ x |}).

Definition is_nonnegative (x : Decimal) : outcome bool := guard (is_set D x) (Ret (negb (negative_ x))).
Definition is_nonpositive (x : Decimal) : outcome bool := guard (is_set D x) (Ret (negative_ x)).

Definition not_equal (x right : Decimal) : outcome bool :=
  let* b := equal D x right in Ret (negb b).
Definition greater (x right : Decimal) : outcome bool := less D right x.
Definition greater_equal (x right : Decimal) : outcome bool :=
  let* b := less D x right in Ret (negb b).
Definition less_equal (x right : Decimal) : outcome bool :=
  let* b := less D right x in Ret (negb b).
End Operations.

(** The constructor from another [Decimal], at most as precise. *)
Definition Decimal_diff (D E : DecimalRanks) (diff : Decimal) : outcome Decimal :=
  let* text := str E diff in construct_str D text.

Example Decimal_text_samples :
  str wide {| negative_ := true; array_ := [7; 1999; 0; 0] |} = Ret (bytes "-1.999000000007") /\
  construct_str wide (bytes "-01.999000000007") = Ret {| negative_ := true; array_ := [7; 1999; 0; 0] |} /\
  construct_str wide (bytes ".") = Ret {| negative_ := false; array_ := [0; 0; 0; 0] |} /\
  construct_str wide (bytes "+") = Throw (NotNumber "empty number passed") /\
  construct_str wide (bytes "12.5000000000000000") = Ret {| negative_ := false; array_ := [0; 12500; 0; 0] |} /\
  construct_str wide (bytes "1.2.") = Throw (NotNumber "string contains non-digit character").
Proof. repeat split. Qed.

(** ** Digits and elements *)

Lemma digits_of_app b : forall a v, digits_of (a + b) v = digits_of a (v / 10 ^ Z.of_nat b) ++ digits_of b v.
Proof.
  induction b as [|b IH]; intros a v.
  - rewrite Nat.add_0_r. change (10 ^ Z.of_nat 0) with 1. by rewrite Z.div_1_r, app_nil_r.
  - rewrite Nat.add_succ_r. cbn [digits_of]. rewrite IH, Nat2Z.inj_succ, Z.pow_succ_r by lia.
    rewrite Z.div_div, app_assoc by lia. done.
Qed.

Lemma digits_of_mod n : forall v, 0 <= v -> digits_of n (v mod 10 ^ Z.of_nat n) = digits_of n v.
Proof.
  induction n as [|n IH]; intros v Hv; [done|]. cbn [digits_of].
  rewrite Nat2Z.inj_succ, Z.pow_succ_r, Z.rem_mul_r by lia.
  rewrite (Z.mul_comm 10), Z.div_add, Z.mod_add by lia.
  rewrite (Z.div_small (v mod 10)), (Z.mod_small (v mod 10)), Z.add_0_l by (apply Z.mod_pos_bound; lia).
  rewrite IH by (apply Z.div_pos; lia). done.
Qed.

Lemma disassemble_spec n : forall e num, (n <= length num)%nat ->
  disassemble_decimal n e num = Ret (digits_of n e ++ drop n num).
Proof.
  induction n as [|n IH]; intros e num Hn; [done|]. cbn [disassemble_decimal].
  destruct (drop n num) as [|d post] eqn:Ed; [apply (f_equal length) in Ed; rewrite length_drop in Ed; simpl in Ed; lia|].
  assert (En : num = take n num ++ d :: post) by by rewrite <- Ed, take_drop.
  assert (Ln : length (take n num) = n) by (rewrite length_take; lia).
  pose proof (wr_at (take n num) d (e mod 10) post) as Hw. rewrite <- En, Ln in Hw. rewrite Hw.
  cbn [obind]. rewrite IH by (rewrite length_app, Ln; simpl; lia). cbn [digits_of].
  rewrite drop_app_length' by done. rewrite <- app_assoc.
  rewrite <- (Nat.add_1_r n), <- drop_drop, Ed. done.
Qed.

Section Facts.
Context (D : DecimalRanks) (HD : decimal_asserts D).
Local Abbreviation B := (BASE D).
Local Abbreviation DPE := (Z.to_nat (DIGITS_PER_ELEMENT D)).

Lemma base_digits : B = 10 ^ Z.of_nat DPE.
Proof using HD. pose proof (digits_per_element D HD) as [H _]. unfold BASE. by rewrite Z2Nat.id by lia. Qed.

Lemma disassemble_elements_spec array : digits_ok B array -> forall left num,
  ((length array - 1) * DPE < left <= length array * DPE)%nat -> (left <= length num)%nat ->
  disassemble_elements D array left num = Ret (digits_of left (val B array) ++ drop left num).
Proof using HD.
  pose proof base_digits as EB. pose proof (base_gt1 D HD) as HB.
  induction 1 as [|e array He Ha IH]; intros left num Hl Hn; [cbn in Hl; lia|].
  cbn [disassemble_elements]. pose proof (val_bound B HB array Ha) as Hv.
  destruct array as [|e2 array]; cbn [is_end].
  - rewrite (proj2 (Nat.leb_le _ _)), Nat.sub_diag by lia. cbn [guard]. rewrite drop_0.
    rewrite disassemble_spec by done. cbn [obind disassemble_elements take app val].
    by rewrite Z.mul_0_r, Z.add_0_r.
  - assert (Hle : (DPE <= left)%nat) by (cbn [length] in Hl; nia).
    rewrite (proj2 (Nat.leb_le _ _)) by lia. cbn [guard].
    rewrite disassemble_spec by (rewrite length_drop; lia). cbn [obind]. rewrite drop_drop.
    replace (left - DPE + DPE)%nat with left by lia.
    assert (Lt : length (take (left - DPE) num) = (left - DPE)%nat) by (rewrite length_take; lia).
    rewrite IH; [|cbn [length] in *; nia|rewrite length_app, Lt; lia].
    rewrite drop_app_length' by done. rewrite app_assoc. f_equal. f_equal.
    replace left with ((left - DPE) + DPE)%nat at 2 by lia. rewrite digits_of_app, <- EB.
    cbn [val] in *. set (w := e2 + B * val B array) in *.
    replace (e + B * w) with (w * B + e) by ring. rewrite Z.div_add_l, (Z.div_small e), Z.add_0_r by lia.
    f_equal. rewrite <- (digits_of_mod DPE (w * B + e)) by nia. rewrite <- EB.
    by rewrite Z.add_comm, Z.mod_add, Z.mod_small by lia.
Qed.

Lemma assemble_loop_spec T n : unsigned T -> forall l acc, digit_list l -> (n <= length l)%nat -> 0 <= acc ->
  num acc (take n l) <= max_ T -> assemble_decimal_loop T n l acc = Ret (num acc (take n l)).
Proof using.
  intros HT. induction n as [|n IH]; intros l acc Hd Hl Ha Hm; [done|].
  destruct l as [|d l]; [cbn in Hl; lia|]. cbn [assemble_decimal_loop take num length] in *.
  apply Forall_cons in Hd as [H0 Hd].
  assert (Hb : acc * 10 + d <= max_ T).
  { pose proof (num_mono (take n l) (Forall_take _ n l Hd) (acc * 10 + d)). lia. }
  rewrite unsigned_id by (done || lia). apply IH; [done|lia|lia|done].
Qed.

Lemma assemble_elements_spec size : forall n l, digit_list l -> (n <= length l)%nat -> (n <= size * DPE)%nat ->
  exists array, assemble_elements D size n l = Ret array /\ length array = size /\ digits_ok B array /\
  val B array = num 0 (take n l).
Proof using HD.
  pose proof base_digits as EB. pose proof (base_gt1 D HD) as HB.
  pose proof (digits_per_element D HD) as [HDP HBM].
  induction size as [|size IH]; intros n l Hd Hn Hs.
  { assert (n = O) as -> by lia. exists []. split; [done|]. split; [done|]. split; [constructor|done]. }
  cbn [assemble_elements]. set (digits := Nat.min n DPE). set (n' := (n - digits)%nat).
  assert (Dd : digit_list (drop n' l)) by by apply Forall_drop.
  pose proof (num_bound (take digits (drop n' l)) (Forall_take _ _ _ Dd)) as Hb.
  rewrite length_take, length_drop, Nat.min_l in Hb by lia.
  assert (He : 10 ^ Z.of_nat digits <= B) by (rewrite EB; apply Z.pow_le_mono_r; lia).
  unfold assemble_decimal.
  rewrite (assemble_loop_spec (Base D) digits); [|apply HD|done|rewrite length_drop; lia|lia|lia]. cbn [obind].
  destruct (IH n' l Hd ltac:(lia)) as (array & -> & L1 & L2 & L3); [unfold n', digits; nia|]. cbn [obind].
  eexists. split; [done|]. split; [cbn; congruence|]. split; [constructor; [lia|done]|]. cbn [val].
  assert (En : take n l = take n' l ++ take digits (drop n' l)) by (rewrite take_take_drop; f_equal; lia).
  rewrite L3, En, num_app.
  rewrite (num_acc (take digits (drop n' l)) (num 0 (take n' l))). rewrite length_take, length_drop, Nat.min_l by lia.
  destruct (Nat.le_gt_cases DPE n) as [H|H].
  - assert (Ed : 10 ^ Z.of_nat digits = B) by (rewrite EB; do 2 f_equal; unfold digits; lia). lia.
  - assert (E0 : num 0 (take n' l) = 0) by (replace n' with O by lia; done). rewrite E0. lia.
Qed.

(** *** The digits of a text *)

Lemma isdigit_spec ch : isdigit ch = true <-> exists d, 0 <= d < 10 /\ ch = d + "0"%uchar.
Proof using.
  unfold isdigit. rewrite andb_true_iff, !Z.leb_le. split.
  - intros H. exists (ch - "0"%uchar). lia.
  - intros (d & Hd & ->). lia.
Qed.

Lemma read_digits_chars ds : digit_list ds -> read_digits (chars ds) = Ret ds.
Proof using.
  induction 1 as [|d ds Hd _ IH]; [done|]. cbn [chars map read_digits]. fold (chars ds).
  rewrite (proj2 (isdigit_spec _)) by by exists d. cbn [negb]. rewrite IH. cbn [obind]. do 2 f_equal. lia.
Qed.

Lemma read_digits_cases range :
  (exists ds, digit_list ds /\ range = chars ds /\ read_digits range = Ret ds) \/
  exists what, read_digits range = Throw (NotNumber what).
Proof using.
  induction range as [|ch range IH]; [left; exists []; split; [constructor|done]|]. cbn [read_digits].
  destruct (isdigit ch) eqn:E; cbn [negb]; [|right; by eexists].
  apply isdigit_spec in E as (d & Hd & ->).
  destruct IH as [(ds & H1 & -> & ->)|(what & ->)]; cbn [obind]; [left|right; by eexists].
  exists (d :: ds). split; [by constructor|]. split; [done|]. do 2 f_equal. lia.
Qed.

Lemma num_zeros n l : num 0 (repeat 0 n ++ l) = num 0 l.
Proof using. induction n as [|n IH]; [done|]. exact IH. Qed.

Lemma num_pad n : forall acc, num acc (repeat 0 n) = acc * 10 ^ Z.of_nat n.
Proof using.
  induction n as [|n IH]; intros acc; [change (10 ^ Z.of_nat 0) with 1; cbn; lia|].
  cbn [repeat num]. rewrite IH, Nat2Z.inj_succ, Z.pow_succ_r by lia. ring.
Qed.

Lemma digit_list_0 n : digit_list (repeat 0 n).
Proof using. induction n; constructor; [lia|done]. Qed.

Lemma construct_digits_spec n ip fp : digit_list ip -> digit_list fp ->
  if (Z.of_nat (length ip) <=? INTEGER_RANK D) && (Z.of_nat (length fp) <=? FRACTION_RANK D)
  then exists x, construct_digits D n (chars ip) (chars fp) = Ret x /\ valid D x /\ negative_ x = n /\
    magnitude D x = num 0 (ip ++ fp) * 10 ^ (FRACTION_RANK D - Z.of_nat (length fp))
  else exists what, construct_digits D n (chars ip) (chars fp) = Throw (Overflow what).
Proof using HD.
  intros Hi Hf. unfold construct_digits, chars. rewrite !length_map. fold (chars ip) (chars fp).
  destruct (Z.leb_spec (Z.of_nat (length fp)) (FRACTION_RANK D)) as [H1|H1].
  2: { rewrite andb_false_r, (proj2 (Z.ltb_lt _ _)) by lia. by eexists. }
  rewrite (proj2 (Z.ltb_ge _ _)), andb_true_r by lia.
  destruct (Z.leb_spec (Z.of_nat (length ip)) (INTEGER_RANK D)) as [H2|H2].
  2: { rewrite (proj2 (Z.ltb_lt _ _)) by lia. by eexists. }
  rewrite (proj2 (Z.ltb_ge _ _)) by lia. rewrite !read_digits_chars by done. cbn [obind].
  set (l := repeat 0 _ ++ _). pose proof HD as (_ & HT & HF). unfold INTEGER_RANK in *.
  assert (Ll : length l = Z.to_nat (TOTAL_RANK D)).
  { unfold l. rewrite !length_app, !repeat_length. lia. }
  assert (Dl : digit_list l) by (repeat apply Forall_app_2; try done; apply digit_list_0).
  pose proof (size_bounds D HD) as (HS & _ & HS2). pose proof (digits_per_element D HD) as [HDP _].
  destruct (assemble_elements_spec (Z.to_nat (SIZE D)) (Z.to_nat (TOTAL_RANK D)) l Dl) as (a & -> & L1 & L2 & L3);
    [lia|nia|]. cbn [obind]. eexists. split; [done|].
  assert (Em : val B a = num 0 (ip ++ fp) * 10 ^ (FRACTION_RANK D - Z.of_nat (length fp))).
  { rewrite L3, <- Ll, take_ge by done. unfold l. rewrite num_zeros, app_assoc, num_app, num_pad.
    do 2 f_equal. lia. }
  unfold valid, magnitude. cbn [array_ negative_]. split; [|by split]. split; [done|]. split; [done|].
  rewrite L3, <- Ll, take_ge by done. pose proof (num_bound l Dl) as Hb. rewrite Ll, Z2Nat.id in Hb by lia.
  apply Hb.
Qed.

(** What [construct_digits] returns is read from digits. *)
Lemma construct_digits_inv n i f : construct_digits D n i f <> Undef /\
  forall x, construct_digits D n i f = Ret x -> exists ip fp,
  digit_list ip /\ digit_list fp /\ i = chars ip /\ f = chars fp /\ valid D x.
Proof using HD.
  destruct (read_digits_cases i) as [(ip & H1 & -> & E1)|(w & E1)];
    [destruct (read_digits_cases f) as [(fp & H2 & -> & E2)|(w & E2)]|].
  - pose proof (construct_digits_spec n ip fp H1 H2) as H. destruct (_ && _).
    + destruct H as (x & -> & Hx & _). split; [done|]. intros x' [= <-]. by exists ip, fp.
    + destruct H as (what & ->). split; [done|]. by intros x.
  - unfold construct_digits. rewrite E2. cbn [obind]. repeat case_Z; by split.
  - unfold construct_digits. rewrite E1.
    destruct (read_digits_cases f) as [(fp & _ & _ & ->)|(w' & ->)]; cbn [obind]; repeat case_Z; by split.
Qed.

Lemma construct_digits_zero n :
  construct_digits D n [] [] = Ret {| negative_ := n; array_ := repeat 0 (Z.to_nat (SIZE D)) |}.
Proof using HD.
  pose proof (construct_digits_spec n [] []) as H. specialize (H ltac:(constructor) ltac:(constructor)).
  pose proof HD as (_ & HT & HF). pose proof (base_gt1 D HD) as HB. cbn [length] in H. unfold INTEGER_RANK in H.
  rewrite !(proj2 (Z.leb_le _ _)) in H by lia. cbn [andb] in H. destruct H as (x & Hx & (L1 & L2 & _) & En & Em).
  cbn [chars map] in Hx. rewrite Hx. destruct x as [m a]. cbn [negative_ array_] in *. subst m. do 2 f_equal.
  apply (val_inj B HB); [done|by apply digits_ok_0|by rewrite repeat_length|]. rewrite val_repeat0. exact Em.
Qed.

(** *** The shape of a text *)

Local Abbreviation POINT := ("."%uchar).
Local Abbreviation ZERO_CHAR := ("0"%uchar).

Definition no_point (l : list Z) : Prop := Forall (fun ch => ch <> POINT) l.

Lemma find_point_none l : no_point l -> find_point l = None.
Proof using. induction 1 as [|ch l H _ IH]; [done|]. cbn [find_point]. rewrite IH. by decide_Z. Qed.

Lemma find_point_some pre post : no_point pre -> find_point (pre ++ POINT :: post) = Some (length pre).
Proof using.
  induction 1 as [|ch l H _ IH]; [done|]. cbn [find_point app length]. rewrite IH. by decide_Z.
Qed.

Lemma point_split l : no_point l \/ exists pre post, no_point pre /\ l = pre ++ POINT :: post.
Proof using.
  induction l as [|ch l IH]; [left; constructor|]. destruct (Z.eq_dec ch POINT) as [->|Hc].
  - right. exists [], l. split; [constructor|done].
  - destruct IH as [IH|(pre & post & H & ->)]; [left; by constructor|].
    right. exists (ch :: pre), post. split; [by constructor|done].
Qed.

Lemma skip_leading_app a b : skip_leading (a ++ POINT :: b) = skip_leading a ++ POINT :: b.
Proof using.
  induction a as [|ch a IH]; [done|]. cbn [app skip_leading]. destruct (ch =? ZERO_CHAR); [exact IH|done].
Qed.

Lemma skip_leading_inv l : exists k, l = repeat ZERO_CHAR k ++ skip_leading l.
Proof using.
  induction l as [|ch l IH]; [by exists O|]. cbn [skip_leading].
  destruct (Z.eqb_spec ch ZERO_CHAR) as [->|Hc]; [|by exists O].
  destruct IH as (k & IH). exists (S k). cbn [repeat app]. by f_equal.
Qed.

Lemma trim_trailing_app a b : trim_trailing (a ++ b) =
  if is_end (trim_trailing b) then trim_trailing a else a ++ trim_trailing b.
Proof using.
  induction a as [|ch a IH]; [cbn [app]; by destruct (trim_trailing b)|]. cbn [app trim_trailing]. rewrite IH.
  destruct (trim_trailing b) as [|c t]; [done|]. cbn [is_end]. destruct (a ++ c :: t) eqn:E; [|done].
  by destruct a.
Qed.

Lemma trim_trailing_inv l : exists k, l = trim_trailing l ++ repeat ZERO_CHAR k.
Proof using.
  induction l as [|ch l (k & IH)]; [by exists O|]. cbn [trim_trailing].
  destruct (trim_trailing l) as [|c t] eqn:E.
  - destruct (Z.eqb_spec ch ZERO_CHAR) as [->|Hc]; [exists (S k)|exists k]; by rewrite IH at 1.
  - exists k. cbn [app]. f_equal. exact IH.
Qed.

Lemma rd_last (l : list Z) x : rd (l ++ [x]) (length (l ++ [x]) - 1) = Ret x.
Proof using. rewrite length_app. cbn [length]. rewrite Nat.add_sub. apply rd_at. Qed.

(** Reading with the split at the first point known. *)
Lemma construct_no_point n sgn b : no_point (sgn ++ b) ->
  construct_unsigned D n (sgn ++ b) b = construct_digits D n (skip_leading b) [].
Proof using HD.
  intros H. unfold construct_unsigned. rewrite find_point_none by done.
  destruct (skip_leading b); cbn [is_end]; [|done]. by rewrite construct_digits_zero.
Qed.

Lemma trim_point a post : trim_trailing (a ++ POINT :: post) =
  if is_end (trim_trailing post) then a ++ [POINT] else a ++ POINT :: trim_trailing post.
Proof using.
  rewrite cons_middle, app_assoc, trim_trailing_app. destruct (trim_trailing post); cbn [is_end].
  - by rewrite trim_trailing_app.
  - by rewrite <- app_assoc.
Qed.

Lemma construct_point_end n sgn pre post : no_point (sgn ++ pre) -> trim_trailing post = [] ->
  construct_unsigned D n (sgn ++ pre ++ POINT :: post) (pre ++ POINT :: post) =
  construct_digits D n (skip_leading pre) [].
Proof using HD.
  intros H E. unfold construct_unsigned. rewrite app_assoc, find_point_some by done.
  rewrite skip_leading_app, trim_point, E. cbn [is_end]. rewrite rd_last. cbn [obind]. rewrite Z.eqb_refl.
  rewrite removelast_last. destruct (skip_leading pre); cbn [is_end]; [|done]. by rewrite construct_digits_zero.
Qed.

Lemma construct_point_some n sgn pre post t c : no_point (sgn ++ pre) -> trim_trailing post = t ++ [c] ->
  construct_unsigned D n (sgn ++ pre ++ POINT :: post) (pre ++ POINT :: post) =
  if c =? POINT then construct_digits D n (skip_leading pre ++ POINT :: t) []
  else construct_digits D n (skip_leading pre) (t ++ [c]).
Proof using HD.
  intros H E. unfold construct_unsigned. rewrite app_assoc, find_point_some by done.
  rewrite skip_leading_app, trim_point, E. set (a := skip_leading pre).
  assert (Ee : is_end (t ++ [c]) = false) by by destruct t. rewrite Ee, app_comm_cons, app_assoc, rd_last.
  cbn [obind]. rewrite removelast_last.
  assert (La : (length a <= length pre)%nat).
  { destruct (skip_leading_inv pre) as (k & Ek). rewrite Ek, length_app. unfold a. lia. }
  destruct (c =? POINT); [by destruct a|].
  replace (is_end ((a ++ POINT :: t) ++ [c])) with false by by destruct a.
  rewrite !length_app. cbn [length]. rewrite <- app_assoc, <- app_comm_cons. f_equal.
  - replace (_ - _)%nat with (length a) by lia. by rewrite take_app_length.
  - replace (_ - _)%nat with (length a + 1)%nat by lia. rewrite <- drop_drop, drop_app_length. done.
Qed.

(** *** Digits without the zeros at their ends *)

Lemma skip_leading_chars ip : digit_list ip -> skip_leading (chars ip) = chars (skip_zeros_num ip).
Proof using.
  induction 1 as [|d ip Hd _ IH]; [done|]. cbn [chars map skip_leading skip_zeros_num]. fold (chars ip).
  destruct (Z.eqb_spec d 0) as [->|H]; [exact IH|]. by decide_Z.
Qed.

Lemma skip_zeros_facts ip : digit_list ip -> let r := skip_zeros_num ip in
  digit_list r /\ num 0 r = num 0 ip /\
  forall n, 0 <= n -> Z.of_nat (length r) <= n <-> num 0 ip < 10 ^ n.
Proof using.
  induction 1 as [|d ip Hd Hip IH]; cbn [skip_zeros_num].
  - split; [constructor|]. split; [done|]. intros n Hn. cbn. pose proof (Z.pow_pos_nonneg 10 n). lia.
  - destruct (Z.eqb_spec d 0) as [->|H]; [exact IH|]. split; [by constructor|]. split; [done|].
    intros n Hn. cbn [num length]. rewrite (num_acc ip (0 * 10 + d)). pose proof (num_bound ip Hip) as Hb.
    rewrite Nat2Z.inj_succ. set (P := 10 ^ Z.of_nat (length ip)) in *.
    destruct (Z.le_gt_cases (Z.succ (Z.of_nat (length ip))) n) as [Hle|Hgt].
    + split; [|done]. intros _. apply Z.lt_le_trans with (10 ^ Z.succ (Z.of_nat (length ip))).
      * rewrite Z.pow_succ_r by lia. fold P. nia.
      * by apply Z.pow_le_mono_r; lia.
    + split; [lia|]. intros Hlt. assert (10 ^ n <= P) by (apply Z.pow_le_mono_r; lia). nia.
Qed.

Lemma skip_zeros_length l : exists k, length l = (k + length (skip_zeros_num l))%nat.
Proof using.
  induction l as [|d l (k & IH)]; [by exists O|]. cbn [skip_zeros_num].
  destruct (d =? 0); [exists (S k); cbn [length]; lia|by exists O].
Qed.

(** The digits of a fraction without the trailing zeros. *)
Fixpoint trim_num (fp : list Z) : list Z :=
  match fp with
  | [] => []
  | d :: fp' =>
    match trim_num fp' with
    | [] => if d =? 0 then [] else [d]
    | t => d :: t
    end
  end.

Lemma trim_trailing_chars fp : digit_list fp -> trim_trailing (chars fp) = chars (trim_num fp).
Proof using.
  induction 1 as [|d fp Hd _ IH]; [done|]. cbn [chars map trim_trailing trim_num]. fold (chars fp).
  rewrite IH. destruct (trim_num fp); [|done]. cbn [chars map].
  destruct (Z.eqb_spec d 0) as [->|H]; [done|]. by decide_Z.
Qed.

Lemma trim_num_inv fp : exists k, fp = trim_num fp ++ repeat 0 k.
Proof using.
  induction fp as [|d fp (k & IH)]; [by exists O|]. cbn [trim_num]. destruct (trim_num fp) as [|c t] eqn:E.
  - destruct (Z.eqb_spec d 0) as [->|H]; [exists (S k)|exists k]; by rewrite IH at 1.
  - exists k. cbn [app]. f_equal. exact IH.
Qed.

Lemma trim_num_last fp t c : trim_num fp = t ++ [c] -> c <> 0.
Proof using.
  revert t. induction fp as [|d fp IH]; intros t E; cbn [trim_num] in E; [by destruct t|].
  destruct (trim_num fp) as [|x r] eqn:Ef.
  - destruct (Z.eqb_spec d 0) as [->|H]; [by destruct t|]. destruct t as [|? [|]]; [|done..].
    by injection E as ->.
  - destruct t as [|y t]; [destruct r; done|]. injection E as -> E. by apply (IH t).
Qed.

(** The trimmed fraction is at most [F] digits long exactly when the number is a
    multiple of [10 ^ - F]. *)
Lemma trim_num_facts fp F : digit_list fp -> 0 <= F -> let t := trim_num fp in
  exists k, fp = t ++ repeat 0 k /\ digit_list t /\
  (Z.of_nat (length t) <= F <-> (num 0 fp * 10 ^ F) mod 10 ^ Z.of_nat (length fp) = 0).
Proof using.
  intros Hd HF t. destruct (trim_num_inv fp) as (k & E). fold t in E.
  assert (Dt : digit_list t) by (rewrite E in Hd; by apply Forall_app in Hd as [Hd _]).
  exists k. split; [done|]. split; [done|].
  assert (Ef : (num 0 fp * 10 ^ F) mod 10 ^ Z.of_nat (length fp) =
    ((num 0 t * 10 ^ F) mod 10 ^ Z.of_nat (length t)) * 10 ^ Z.of_nat k).
  { rewrite E, num_app, num_pad, length_app, repeat_length, Nat2Z.inj_add, Z.pow_add_r by lia.
    rewrite <- Z.mul_mod_distr_r by (apply Z.pow_nonzero; lia). f_equal. ring. }
  rewrite Ef. set (L := Z.of_nat (length t)). assert (HK : 0 < 10 ^ Z.of_nat k) by (apply Z.pow_pos_nonneg; lia).
  destruct (Z.le_gt_cases L F) as [Hle|Hgt].
  - split; [intros _|done]. replace F with (F - L + L) by lia. rewrite Z.pow_add_r, Z.mul_assoc, Z.mod_mul
      by (lia || (apply Z.pow_nonzero; lia)). done.
  - split; [lia|]. intros H0. exfalso.
    assert (Hm : (num 0 t * 10 ^ F) mod 10 ^ L = 0) by nia.
    destruct (exists_last (l := t)) as (r & c & Et); [intros Et; unfold L in Hgt; rewrite Et in Hgt; cbn in Hgt; lia|].
    pose proof (trim_num_last fp r c Et) as Hc. rewrite Et in Dt.
    apply Forall_app in Dt as [_ [Hcd _]%Forall_cons]. rewrite Et, num_app in Hm. cbn [num] in Hm.
    replace L with (Z.succ (L - F - 1) + F) in Hm by lia.
    rewrite Z.pow_add_r, Z.mul_mod_distr_r in Hm by (lia || (apply Z.pow_nonzero; lia)).
    assert (HP : 0 < 10 ^ F) by (apply Z.pow_pos_nonneg; lia).
    assert (Hm' : (num 0 r * 10 + c) mod 10 ^ Z.succ (L - F - 1) = 0) by nia.
    apply Z.mod_divide in Hm'; [|apply Z.pow_nonzero; lia]. destruct Hm' as (q & Hq).
    rewrite Z.pow_succ_r in Hq by lia. lia.
Qed.

(** *** Reading a number *)

Lemma chars_no_point ds : digit_list ds -> no_point (chars ds).
Proof using. induction 1 as [|d ds Hd _ IH]; [constructor|]. constructor; [lia|exact IH]. Qed.

Lemma sign_no_point sign : no_point (sign_text sign).
Proof using. destruct sign as [[]|]; repeat constructor; lia. Qed.

Lemma chars_cons d ds : chars (d :: ds) = d + ZERO_CHAR :: chars ds.
Proof using. done. Qed.

(** The sign is split off; [b] does not begin with one. *)
Lemma construct_sign sign b : b <> [] ->
  (sign = None -> forall ch rest, b = ch :: rest -> ch <> "-"%uchar /\ ch <> "+"%uchar) ->
  construct_str D (sign_text sign ++ b) =
    construct_unsigned D (negative_sign sign) (sign_text sign ++ b) b.
Proof using.
  intros Hb Hs. destruct b as [|ch rest]; [done|]. destruct sign as [[]|]; [done..|].
  cbn [sign_text app construct_str negative_sign default].
  destruct (Hs eq_refl ch rest eq_refl) as [H1 H2]. by decide_Z.
Qed.

Lemma number_no_sign ip fp ch rest : digit_list ip -> chars ip ++ fraction_text fp = ch :: rest ->
  ch <> "-"%uchar /\ ch <> "+"%uchar.
Proof using.
  intros Hd E. destruct ip as [|d ip].
  - destruct fp as [fp|]; [|done]. cbn in E. injection E as <- _. lia.
  - apply Forall_cons in Hd as [Hd _]. rewrite chars_cons in E. injection E as <- _. lia.
Qed.

(** A number of the grammar, reduced to its significant digits. *)
Lemma construct_number sign ip fp : digit_list ip -> digit_list (fraction_digits fp) ->
  chars ip ++ fraction_text fp <> [] ->
  construct_str D (number_text sign ip fp) =
    construct_digits D (negative_sign sign) (chars (skip_zeros_num ip)) (chars (trim_num (fraction_digits fp))).
Proof using HD.
  intros Hi Hf Hne. unfold number_text. rewrite construct_sign; [|done|].
  2: { intros _ ch rest E. by apply (number_no_sign ip fp ch rest). }
  assert (Hp : no_point (sign_text sign ++ chars ip)).
  { apply Forall_app. split; [apply sign_no_point|by apply chars_no_point]. }
  destruct fp as [fp|]; cbn [fraction_text] in *.
  - change (fraction_digits (Some fp)) with fp in *. pose proof (trim_trailing_chars fp Hf) as Et.
    destruct (trim_num fp) as [|d0 t0] eqn:E0.
    + rewrite (construct_point_end _ _ _ _ Hp Et), skip_leading_chars by done. done.
    + destruct (exists_last (l := d0 :: t0)) as (t & c & Ec); [done|]. rewrite Ec, chars_app in Et.
      rewrite Ec, chars_app. rewrite (construct_point_some _ _ _ _ _ _ Hp Et).
      destruct (trim_num_facts fp 0 Hf ltac:(lia)) as (_ & _ & Dt & _). rewrite E0, Ec in Dt.
      apply Forall_app in Dt as [_ [Hc _]%Forall_cons]. rewrite (proj2 (Z.eqb_neq _ _)) by lia.
      by rewrite skip_leading_chars.
  - rewrite app_nil_r in *. rewrite construct_no_point by done. by rewrite skip_leading_chars.
Qed.

(** A text of digits fits when its integer part is below [10 ^ INTEGER_RANK] and
    it is a multiple of [10 ^ - FRACTION_RANK]. *)
Definition representable (ip fd : list Z) : bool :=
  (num 0 ip <? 10 ^ INTEGER_RANK D) &&
  ((num 0 fd * 10 ^ FRACTION_RANK D) mod 10 ^ Z.of_nat (length fd) =? 0).

Lemma construct_str_number sign ip fp : digit_list ip -> digit_list (fraction_digits fp) ->
  chars ip ++ fraction_text fp <> [] -> let fd := fraction_digits fp in
  if representable ip fd
  then exists x, construct_str D (number_text sign ip fp) = Ret x /\ valid D x /\
    negative_ x = negative_sign sign /\
    magnitude D x * 10 ^ Z.of_nat (length fd) = num 0 (ip ++ fd) * 10 ^ FRACTION_RANK D
  else exists what, construct_str D (number_text sign ip fp) = Throw (Overflow what).
Proof using HD.
  intros Hi Hf Hne fd. rewrite construct_number by done. fold fd in Hf |- *.
  pose proof HD as (_ & HT & HF). destruct (skip_zeros_facts ip Hi) as (D1 & N1 & F1).
  destruct (trim_num_facts fd (FRACTION_RANK D) Hf ltac:(lia)) as (k & Ek & D2 & F2).
  specialize (F1 (INTEGER_RANK D) ltac:(unfold INTEGER_RANK; lia)).
  pose proof (construct_digits_spec (negative_sign sign) _ _ D1 D2) as H.
  assert (Er : representable ip fd =
    (Z.of_nat (length (skip_zeros_num ip)) <=? INTEGER_RANK D) &&
    (Z.of_nat (length (trim_num fd)) <=? FRACTION_RANK D)).
  { unfold representable. f_equal; apply eq_true_iff_eq; rewrite ?Z.ltb_lt, ?Z.eqb_eq, Z.leb_le; by symmetry. }
  rewrite Er. destruct (Z.leb_spec (Z.of_nat (length (trim_num fd))) (FRACTION_RANK D)) as [Hl|Hl];
    [|rewrite andb_false_r in *; exact H].
  destruct (_ && true); [|exact H]. destruct H as (x & -> & Vx & Nx & Mx). exists x.
  split; [done|]. split; [done|]. split; [done|]. rewrite Mx.
  assert (El : length fd = (length (trim_num fd) + k)%nat)
    by (rewrite Ek at 1; by rewrite length_app, repeat_length).
  rewrite El, Nat2Z.inj_add, Z.pow_add_r by lia.
  assert (En : num 0 (ip ++ fd) = num 0 (skip_zeros_num ip ++ trim_num fd) * 10 ^ Z.of_nat k).
  { rewrite Ek at 1. by rewrite !num_app, N1, num_pad. }
  rewrite En. set (L := Z.of_nat (length (trim_num fd))) in *.
  replace (10 ^ FRACTION_RANK D) with (10 ^ (FRACTION_RANK D - L) * 10 ^ L)
    by (rewrite <- Z.pow_add_r by lia; f_equal; lia). ring.
Qed.

(** Every text is refused at once or has its sign split off. *)
Lemma construct_str_shape text : (exists what, construct_str D text = Throw what) \/
  exists sign b, text = sign_text sign ++ b /\
    construct_str D text = construct_unsigned D (negative_sign sign) (sign_text sign ++ b) b.
Proof using.
  destruct text as [|ch rest]; [left; by eexists|]. cbn [construct_str].
  destruct (Z.eqb_spec ch "-"%uchar) as [->|H1]; [|destruct (Z.eqb_spec ch "+"%uchar) as [->|H2]].
  - destruct rest as [|c rest]; [left; by eexists|]. right. by exists (Some true), (c :: rest).
  - destruct rest as [|c rest]; [left; by eexists|]. right. by exists (Some false), (c :: rest).
  - right. by exists None, (ch :: rest).
Qed.

(** Whatever is read is a number of the grammar. *)
Lemma skipped_digits pre ds : skip_leading pre = chars ds -> digit_list ds ->
  exists ip, digit_list ip /\ pre = chars ip.
Proof using.
  intros E Hd. destruct (skip_leading_inv pre) as (k & Ek). exists (repeat 0 k ++ ds).
  split; [apply Forall_app; split; [apply digit_list_0|done]|].
  rewrite Ek, E, chars_app. f_equal. unfold chars. rewrite map_repeat. done.
Qed.

Lemma trimmed_digits post ds : trim_trailing post = chars ds -> digit_list ds ->
  exists fp, digit_list fp /\ post = chars fp.
Proof using.
  intros E Hd. destruct (trim_trailing_inv post) as (k & Ek). exists (ds ++ repeat 0 k).
  split; [apply Forall_app; split; [done|apply digit_list_0]|].
  rewrite Ek, E, chars_app. f_equal. unfold chars. rewrite map_repeat. done.
Qed.

Lemma construct_unsigned_inv n sgn b : no_point sgn -> let r := construct_unsigned D n (sgn ++ b) b in
  r <> Undef /\ forall x, r = Ret x -> valid D x /\ exists ip fp,
  digit_list ip /\ digit_list (fraction_digits fp) /\ b = chars ip ++ fraction_text fp.
Proof using HD.
  intros Hs. cbv zeta. destruct (point_split b) as [Hb|(pre & post & Hb & ->)].
  - rewrite construct_no_point by by apply Forall_app. 
    destruct (construct_digits_inv n (skip_leading b) []) as [Hu Hr]. split; [done|]. intros x E.
    destruct (Hr x E) as (ip & fp & D1 & _ & E1 & _ & Vx). split; [done|].
    destruct (skipped_digits b ip E1 D1) as (ip' & D1' & ->). exists ip', None.
    cbn [fraction_text]. rewrite app_nil_r. split; [done|]. split; [constructor|done].
  - assert (Hp : no_point (sgn ++ pre)) by by apply Forall_app.
    destruct (trim_trailing post) as [|c0 t0] eqn:Et.
    + rewrite (construct_point_end _ _ _ _ Hp Et).
      destruct (construct_digits_inv n (skip_leading pre) []) as [Hu Hr]. split; [done|]. intros x E.
      destruct (Hr x E) as (ip & fp & D1 & _ & E1 & _ & Vx). split; [done|].
      destruct (skipped_digits pre ip E1 D1) as (ip' & D1' & ->).
      destruct (trimmed_digits post [] Et ltac:(constructor)) as (fp' & D2 & ->). by exists ip', (Some fp').
    + destruct (exists_last (l := c0 :: t0)) as (t & c & Ec); [done|]. rewrite Ec in Et.
      rewrite (construct_point_some _ _ _ _ _ _ Hp Et). destruct (c =? POINT).
      * destruct (construct_digits_inv n (skip_leading pre ++ POINT :: t) []) as [Hu Hr]. split; [done|].
        intros x E. destruct (Hr x E) as (ip & fp & D1 & _ & E1 & _ & _). exfalso.
        pose proof (chars_no_point ip D1) as Hn. rewrite <- E1 in Hn.
        apply Forall_app in Hn as [_ [Hn _]%Forall_cons]. done.
      * destruct (construct_digits_inv n (skip_leading pre) (t ++ [c])) as [Hu Hr]. split; [done|]. intros x E.
        destruct (Hr x E) as (ip & fp & D1 & D2 & E1 & E2 & Vx). split; [done|].
        destruct (skipped_digits pre ip E1 D1) as (ip' & D1' & ->). rewrite E2 in Et.
        destruct (trimmed_digits post fp Et D2) as (fp' & D2' & ->). by exists ip', (Some fp').
Qed.

(** *** Printing *)

Lemma last_nonzero_spec l : forall i last,
  (last_nonzero l i last = last /\ l = repeat 0 (length l)) \/
  exists j, last_nonzero l i last = (i + j)%nat /\ (j < length l)%nat /\
    drop (S j) l = repeat 0 (length l - S j).
Proof using.
  induction l as [|d l IH]; intros i last; cbn [last_nonzero]; [by left|].
  destruct (IH (S i) (if d =? 0 then last else i)) as [[-> E]|(j & -> & Hj & E)].
  - destruct (Z.eqb_spec d 0) as [->|H].
    + left. split; [done|]. cbn [length repeat]. by rewrite E at 1.
    + right. exists O. cbn [length drop]. split; [lia|]. split; [lia|]. by rewrite E at 1; rewrite Nat.sub_1_r.
  - right. exists (S j). cbn [length]. split; [lia|]. split; [lia|]. exact E.
Qed.

(** The digits kept of a fraction: at least one, and only zeros are cut off. *)
Lemma fraction_kept l : l <> [] -> let r := last_nonzero l 0 0 in
  (r < length l)%nat /\ l = take (S r) l ++ repeat 0 (length l - S r).
Proof using.
  intros Hl r. destruct l as [|d l]; [done|].
  assert (H : (r < length (d :: l))%nat /\ drop (S r) (d :: l) = repeat 0 (length (d :: l) - S r)).
  { unfold r. destruct (last_nonzero_spec (d :: l) 0 0) as [[-> E]|(j & -> & Hj & E)].
    - split; [cbn; lia|]. rewrite E at 1. cbn [length repeat drop]. rewrite drop_0. f_equal. lia.
    - split; [lia|]. exact E. }
  destruct H as [H1 H2]. split; [done|]. rewrite <- H2. by rewrite take_drop.
Qed.

Lemma printed_digits x : valid D x ->
  disassemble_elements D (array_ x) (Z.to_nat (TOTAL_RANK D)) (repeat 0 (Z.to_nat (TOTAL_RANK D))) =
  Ret (digits_of (Z.to_nat (INTEGER_RANK D)) (magnitude D x / 10 ^ FRACTION_RANK D) ++
       digits_of (Z.to_nat (FRACTION_RANK D)) (magnitude D x)).
Proof using HD.
  intros (Lx & Dx & _). pose proof (size_bounds D HD) as (HS & HS1 & HS2). pose proof HD as (_ & HT & HF).
  pose proof (digits_per_element D HD) as [HDP _].
  rewrite disassemble_elements_spec; [|done|rewrite Lx; nia|by rewrite repeat_length].
  rewrite drop_ge, app_nil_r by by rewrite repeat_length.
  replace (Z.to_nat (TOTAL_RANK D)) with (Z.to_nat (INTEGER_RANK D) + Z.to_nat (FRACTION_RANK D))%nat
    by (unfold INTEGER_RANK; lia).
  rewrite digits_of_app, Z2Nat.id by lia. done.
Qed.

(** The text of a number: the sign of a number that is not zero, the integer part
    without leading zeros, and the fraction up to its last digit that counts. *)
Lemma str_spec x : valid D x -> exists ip fp, let fd := fraction_digits fp in
  str D x = Ret (number_text (if negative_ x && negb (magnitude D x =? 0) then Some true else None) ip fp) /\
  digit_list ip /\ digit_list fd /\ ip <> [] /\ Z.of_nat (length fd) <= FRACTION_RANK D /\
  num 0 ip = magnitude D x / 10 ^ FRACTION_RANK D /\
  num 0 (ip ++ fd) * 10 ^ (FRACTION_RANK D - Z.of_nat (length fd)) = magnitude D x.
Proof using HD.
  intros Hx. pose proof (magnitude_bound D HD x Hx) as Bx. pose proof HD as (_ & HT & HF). unfold str.
  rewrite (Decimal_valid_set D HD) by done. cbn [guard]. rewrite (printed_digits x Hx). cbn [obind].
  rewrite (all_zero_spec D HD) by apply Hx. change (val B (array_ x)) with (magnitude D x).
  set (M := magnitude D x) in *. set (IR := Z.to_nat (INTEGER_RANK D)). set (FR := Z.to_nat (FRACTION_RANK D)).
  set (I := digits_of IR (M / 10 ^ FRACTION_RANK D)). set (F := digits_of FR M).
  assert (LI : length I = IR) by apply digits_of_length. assert (LF : length F = FR) by apply digits_of_length.
  assert (HP : 0 < 10 ^ FRACTION_RANK D) by (apply Z.pow_pos_nonneg; lia).
  assert (NI : num 0 I = M / 10 ^ FRACTION_RANK D).
  { apply digits_of_small. split; [apply Z.div_pos; lia|]. apply Z.div_lt_upper_bound; [done|].
    unfold IR. rewrite Z2Nat.id, <- Z.pow_add_r by (unfold INTEGER_RANK; lia).
    replace (FRACTION_RANK D + INTEGER_RANK D) with (TOTAL_RANK D) by (unfold INTEGER_RANK; lia). apply Bx. }
  assert (NF : num 0 F = M mod 10 ^ FRACTION_RANK D).
  { unfold F. rewrite num_digits_of by lia. unfold FR. by rewrite Z2Nat.id by lia. }
  assert (Esum : num 0 I * 10 ^ FRACTION_RANK D + num 0 F = M).
  { rewrite NI, NF. pose proof (Z.div_mod M (10 ^ FRACTION_RANK D) ltac:(lia)). lia. }
  rewrite take_app_length', drop_app_length', (take_ge F) by (done || lia).
  set (ip := match skip_zeros_num I with [] => [0] | ds => ds end).
  assert (Hip : digit_list ip /\ ip <> [] /\ num 0 ip = num 0 I /\ (length ip <= Nat.max 1 IR)%nat).
  { destruct (skip_zeros_facts I (digits_of_ok _ _)) as (D1 & N1 & F1).
    destruct (skip_zeros_length I) as [k Hk]. unfold ip. destruct (skip_zeros_num I) as [|d ds].
    - split; [apply (digit_list_0 1)|]. split; [done|]. split; [done|]. cbn; lia.
    - split; [done|]. split; [done|]. split; [done|]. lia. }
  destruct Hip as (Dip & Nip & Eip & Lip).
  replace (match skip_zeros_num I with [] => _ | _ => _ end) with (chars ip)
    by (unfold ip; by destruct (skip_zeros_num I)).
  set (sign := if negative_ x && _ then Some true else None).
  replace (if negative_ x && negb (M =? 0) then ["-"%uchar] else []) with (sign_text sign)
    by (unfold sign; by destruct (negative_ x && _)).
  assert (Ls : (length (sign_text sign) <= 1)%nat) by (unfold sign; destruct (_ && _); cbn; lia).
  assert (Lc : length (chars ip) = length ip) by apply length_map.
  assert (HIR : 0 <= INTEGER_RANK D) by (unfold INTEGER_RANK; lia).
  assert (Hsize : (IR + FR = Z.to_nat (TOTAL_RANK D))%nat) by (unfold IR, FR, INTEGER_RANK; lia).
  exists ip. destruct (Z.eqb_spec (FRACTION_RANK D) 0) as [E0|E0]; cbn [negb].
  - exists None. cbn [fraction_digits]. change (fraction_digits None) with (@nil Z).
    rewrite (proj2 (Nat.leb_le _ _)) by (rewrite length_app, Lc; destruct (Z.eqb_spec (INTEGER_RANK D) 0); lia).
    cbn [guard]. unfold number_text. cbn [fraction_text length]. rewrite !app_nil_r, Eip, NI.
    split; [done|]. split; [done|]. split; [constructor|]. split; [done|]. split; [lia|]. split; [done|].
    rewrite E0. change (10 ^ (0 - Z.of_nat 0)) with 1. change (10 ^ 0) with 1. rewrite Z.div_1_r. lia.
  - destruct (fraction_kept F) as [Hr EF]; [intros E; rewrite E in LF; cbn in LF; lia|].
    set (r := last_nonzero F 0 0) in *. exists (Some (take (S r) F)).
    change (fraction_digits (Some (take (S r) F))) with (take (S r) F).
    assert (Lf : length (chars F) = FR) by by rewrite <- LF; apply length_map.
    assert (Lt : length (take (S r) F) = S r) by (rewrite length_take; lia).
    rewrite (proj2 (andb_true_iff _ _)).
    2: { rewrite Nat.leb_le, Nat.ltb_lt, !length_app. cbn [length]. rewrite Lc, Lf.
         destruct (Z.eqb_spec (INTEGER_RANK D) 0); lia. }
    cbn [guard]. split.
    { f_equal. unfold number_text. cbn [fraction_text]. rewrite !app_assoc.
      rewrite <- Nat.add_assoc, <- (Nat.add_assoc (length _)), take_app_add. f_equal.
      replace (1 + (r + 1))%nat with (S (S r)) by lia. cbn [take]. f_equal. apply firstn_map. }
    split; [done|]. split; [apply Forall_take, digits_of_ok|]. split; [done|]. rewrite Lt, Eip.
    split; [lia|]. split; [done|]. rewrite num_app, num_acc, Lt, Eip.
    rewrite EF, num_app, num_pad, LF in Esum. rewrite <- Esum.
    replace (10 ^ FRACTION_RANK D) with (10 ^ Z.of_nat (S r) * 10 ^ (FRACTION_RANK D - Z.of_nat (S r)))
      by (rewrite <- Z.pow_add_r by lia; f_equal; lia).
    replace (Z.of_nat (FR - S r)) with (FRACTION_RANK D - Z.of_nat (S r)) by lia. ring.
Qed.

(** *** Texts of other ranks *)

Lemma representable_spec ip fd (F M : Z) : digit_list fd -> Z.of_nat (length fd) <= F <= FRACTION_RANK D ->
  num 0 ip = M / 10 ^ F -> num 0 (ip ++ fd) * 10 ^ (F - Z.of_nat (length fd)) = M ->
  representable ip fd = (M * 10 ^ (FRACTION_RANK D - F) <? MAX_VALUE_ D) /\
  forall m, m * 10 ^ Z.of_nat (length fd) = num 0 (ip ++ fd) * 10 ^ FRACTION_RANK D ->
  m = M * 10 ^ (FRACTION_RANK D - F).
Proof using HD.
  intros Hd HF Hi HM. pose proof HD as (_ & HT & HFR). set (L := Z.of_nat (length fd)) in *.
  assert (HL : 0 <= L) by (unfold L; lia).
  assert (HPL : 0 < 10 ^ L) by (apply Z.pow_pos_nonneg; lia).
  assert (HPF : 0 < 10 ^ F) by (apply Z.pow_pos_nonneg; lia).
  assert (HPD : 0 < 10 ^ (FRACTION_RANK D - F)) by (apply Z.pow_pos_nonneg; lia). split.
  - unfold representable. fold L.
    assert (E0 : (num 0 fd * 10 ^ FRACTION_RANK D) mod 10 ^ L = 0).
    { replace (FRACTION_RANK D) with (FRACTION_RANK D - L + L) by lia.
      rewrite Z.pow_add_r, Z.mul_assoc, Z.mod_mul by lia. done. }
    rewrite E0, andb_true_r, Hi. apply eq_true_iff_eq. rewrite !Z.ltb_lt.
    assert (EV : MAX_VALUE_ D = 10 ^ INTEGER_RANK D * 10 ^ F * 10 ^ (FRACTION_RANK D - F)).
    { unfold MAX_VALUE_, INTEGER_RANK. rewrite <- !Z.pow_add_r by lia. f_equal. lia. }
    rewrite EV. pose proof (Z.div_mod M (10 ^ F) ltac:(lia)) as E.
    pose proof (Z.mod_pos_bound M (10 ^ F) HPF) as Hb.
    rewrite <- (Z.mul_lt_mono_pos_r (10 ^ (FRACTION_RANK D - F))) by done. nia.
  - intros m Em. apply (Z.mul_cancel_r _ _ (10 ^ L)); [lia|]. rewrite Em, <- HM.
    replace (FRACTION_RANK D) with ((F - L) + (FRACTION_RANK D - F) + L) at 1 by lia.
    rewrite !Z.pow_add_r by lia. ring.
Qed.

(** *** Packing *)

Lemma element_size : B <= 256 ^ Z.of_nat (sizeof_data D).
Proof using HD.
  pose proof (digits_per_element D HD) as [_ H]. pose proof (base_gt1 D HD).
  assert (E : 256 ^ Z.of_nat (sizeof_data D) = 2 ^ digits (Base D)).
  { destruct HD as ([HT Hs] & _). unfold integer, sizeof_data in *. rewrite Hs in HT.
    rewrite !elem_of_cons, elem_of_nil in HT. by destruct HT as [-> | [-> | [-> | [-> | []]]]]. }
  rewrite E. unfold max_ in H. lia.
Qed.

Lemma unpack_elements_spec l : digits_ok B l -> forall rest,
  unpack_elements D (length l) (flat_map (le_bytes (sizeof_data D)) l ++ rest) = l.
Proof using HD.
  induction 1 as [|e l He _ IH]; intros rest; [done|]. cbn [length unpack_elements flat_map].
  rewrite <- app_assoc, take_app_length', drop_app_length' by (symmetry; apply le_bytes_length). rewrite IH.
  f_equal. apply le_value_bytes. pose proof element_size. lia.
Qed.

Lemma packed_length l : length (flat_map (le_bytes (sizeof_data D)) l) = (length l * sizeof_data D)%nat.
Proof using.
  induction l as [|e l IH]; [done|]. cbn [flat_map length]. rewrite length_app, IH, le_bytes_length. lia.
Qed.

Lemma unpack_packed x : valid D x ->
  unpack D (flat_map (le_bytes (sizeof_data D)) (array_ x) ++ [if negative_ x then 1 else 0]) = Ret x.
Proof using HD.
  intros (Lx & Dx & _). unfold unpack. rewrite length_app, packed_length, Lx. cbn [length].
  rewrite (proj2 (Nat.leb_le _ _)) by lia. cbn [guard].
  pose proof (rd_at (flat_map (le_bytes (sizeof_data D)) (array_ x)) (if negative_ x then 1 else 0) []) as Hr.
  rewrite packed_length, Lx in Hr. rewrite Hr. cbn [obind].
  rewrite <- Lx, unpack_elements_spec by done. destruct x as [[] a]; done.
Qed.
End Facts.

(** A text printed with the ranks [E] is read with the ranks [D]. *)
Lemma construct_printed D E y : decimal_asserts D -> decimal_asserts E -> valid E y ->
  FRACTION_RANK E <= FRACTION_RANK D ->
  represents D (Decimal_diff D E y) (value E y * 10 ^ (FRACTION_RANK D - FRACTION_RANK E)).
Proof.
  intros HD HE Hy HF. unfold Decimal_diff.
  destruct (str_spec E HE y Hy) as (ip & fp & -> & D1 & D2 & Hne & HL & Hi & HM). cbn [obind].
  set (sign := if negative_ y && _ then Some true else None).
  pose proof (construct_str_number D HD sign ip fp D1 D2) as H.
  destruct (representable_spec D HD ip _ (FRACTION_RANK E) (magnitude E y) D2 ltac:(lia) Hi HM) as [Er Em].
  pose proof (magnitude_bound E HE y Hy) as By.
  assert (HP : 0 < 10 ^ (FRACTION_RANK D - FRACTION_RANK E)) by (apply Z.pow_pos_nonneg; lia).
  specialize (H ltac:(destruct ip; [done|by rewrite chars_cons])). cbv zeta in H. rewrite Er in H.
  unfold represents. rewrite Z.abs_mul, (magnitude_value E HE y Hy), (Z.abs_eq (10 ^ _)) by lia.
  destruct (_ <? MAX_VALUE_ D); [|done]. destruct H as (x & -> & Vx & Nx & Mx). apply Em in Mx.
  exists x. split; [done|]. split; [done|]. unfold value. rewrite Nx, Mx. unfold sign.
  destruct (negative_ y); cbn [andb]; [|done].
  destruct (Z.eqb_spec (magnitude E y) 0) as [E0|E0]; cbn [negb negative_sign default]; [|cbn; ring].
  rewrite E0. done.
Qed.

(** Text.  Reading a [Decimal] never goes out of bounds.  A text of an optional
    sign, digits and an optional point is read as the number it denotes if its
    integer part is below [10 ^ INTEGER_RANK] and it is a multiple of
    [10 ^ - FRACTION_RANK] (leading and trailing zeros do not count), and is an
    [Overflow] otherwise; no other text is read as a number. *)
Theorem Decimal_parse (D : DecimalRanks) : decimal_asserts D ->
  (forall text, construct_str D text <> Undef) /\
  (forall sign ip fp, digit_list ip -> digit_list (fraction_digits fp) ->
    chars ip ++ fraction_text fp <> [] -> let fd := fraction_digits fp in
    if representable D ip fd
    then exists x, construct_str D (number_text sign ip fp) = Ret x /\ valid D x /\
      negative_ x = negative_sign sign /\
      magnitude D x * 10 ^ Z.of_nat (length fd) = num 0 (ip ++ fd) * 10 ^ FRACTION_RANK D
    else exists what, construct_str D (number_text sign ip fp) = Throw (Overflow what)) /\
  (forall text x, construct_str D text = Ret x -> valid D x /\ exists sign ip fp,
    digit_list ip /\ digit_list (fraction_digits fp) /\ text = number_text sign ip fp).
Proof.
  intros HD. assert (Hall : forall text, construct_str D text <> Undef /\
    forall x, construct_str D text = Ret x -> valid D x /\ exists sign ip fp,
    digit_list ip /\ digit_list (fraction_digits fp) /\ text = number_text sign ip fp).
  { intros text. destruct (construct_str_shape D text) as [(what & ->)|(sign & b & -> & ->)]; [by split|].
    destruct (construct_unsigned_inv D HD (negative_sign sign) (sign_text sign) b) as [Hu Hr];
      [apply sign_no_point|].
    split; [done|]. intros x Ex. destruct (Hr x Ex) as (Vx & ip & fp & D1 & D2 & ->).
    split; [done|]. by exists sign, ip, fp. }
  split; [apply Hall|]. split; [|apply Hall]. intros sign ip fp D1 D2 Hne. by apply construct_str_number.
Qed.

Lemma Decimal_parse_witness : exists x,
  construct_str wide (bytes "-0012.50") = Ret x /\ value wide x = -12500000000000.
Proof.
  pose proof (Decimal_parse wide wide_ok) as (_ & H & _).
  specialize (H (Some true) [0; 0; 1; 2] (Some [5; 0]) ltac:(by_eval) ltac:(by_eval) ltac:(done)).
  cbv zeta in H. replace (representable wide _ _) with true in H by (vm_compute; reflexivity).
  destruct H as (x & Hx & _ & Nx & Mx). exists x. split; [exact Hx|]. unfold value. rewrite Nx.
  replace (num 0 _ * 10 ^ FRACTION_RANK wide) with 1250000000000000 in Mx by (vm_compute; reflexivity).
  change (10 ^ Z.of_nat (length _)) with 100 in Mx. cbn. lia.
Defined.

(** C40: printing.  [str] stays inside its buffer, and the text it prints reads
    back as the same number, also by a type of other ranks that is at least as
    precise: the constructor from another [Decimal] keeps the value, or throws
    [Overflow] if it has too many digits.  [unpack] restores what [pack] wrote. *)
Theorem Decimal_text_roundtrip (D : DecimalRanks) (x : Decimal) : decimal_asserts D -> valid D x ->
  (exists text, str D x = Ret text /\ exists y, construct_str D text = Ret y /\ valid D y /\ value D y = value D x) /\
  (forall E, decimal_asserts E -> FRACTION_RANK D <= FRACTION_RANK E ->
    represents E (Decimal_diff E D x) (value D x * 10 ^ (FRACTION_RANK E - FRACTION_RANK D))) /\
  (exists bs, pack D x = Ret bs /\ unpack D bs = Ret x).
Proof.
  intros HD Hx. split; [|split].
  - pose proof (construct_printed D D x HD HD Hx ltac:(lia)) as H. unfold Decimal_diff in H.
    destruct (str_spec D HD x Hx) as (ip & fp & Es & _). eexists. split; [exact Es|]. rewrite Es in H.
    cbn [obind] in H. rewrite Z.sub_diag, Z.mul_1_r in H. apply (Decimal_represents_fits D _ _ H).
    rewrite (magnitude_value D HD x Hx). apply Hx.
  - intros E HE HF. by apply construct_printed.
  - unfold pack. rewrite (Decimal_valid_set D HD) by done. cbn [guard]. eexists. split; [done|].
    by apply unpack_packed.
Qed.

Lemma Decimal_text_roundtrip_witness : exists text,
  str wide {| negative_ := true; array_ := [7; 1999; 0; 0] |} = Ret text /\
  exists y, construct_str wide text = Ret y /\ value wide y = -1999000000007.
Proof.
  pose proof (Decimal_text_roundtrip wide {| negative_ := true; array_ := [7; 1999; 0; 0] |} wide_ok
    ltac:(by_eval)) as [(text & Ht & y & Hy & _ & Ey) _].
  exists text. split; [exact Ht|]. exists y. split; [exact Hy|]. rewrite Ey. vm_compute. reflexivity.
Defined.
