(* ===== verification/Time.v ===== *)
(** * Time: time values and the calendar

    Models the structure [Time] with its arithmetic, comparison, printing and
    packing ([src/Generics/Time.hpp]) and the conversions [gm_to_time] and
    [time_to_gm] between seconds and broken-down time ([src/Generics/Time.cpp]).
    Seconds and microseconds of [Time] are integers without a width here: the
    operations of the source are undefined where a 64 bit count of seconds
    overflows.  The fields of a date are of type [int]: their products in
    [gm_to_time] are undefined where they overflow, and [time_to_gm] stores the
    year modulo 2 ^ 32. *)
From S2P Require Import Prelude IntStr.
Local Open Scope Z_scope.
Local Open Scope outcome_scope.

(** ** [Time] *)

Definition USEC_MAX : Z := 1000000.

Record Time : Type := { tv_sec : Z; tv_usec : Z }.

Definition mkTime (sec usec : Z) : Time := {| tv_sec := sec; tv_usec := usec |}.

Definition Time_neg (tv : Time) : Time :=
  if negb (tv_usec tv =? 0) then mkTime (- tv_sec tv - 1) (USEC_MAX - tv_usec tv)
  else mkTime (- tv_sec tv) 0.

Definition Time_abs (tv : Time) : Time := if tv_sec tv <? 0 then Time_neg tv else tv.

Definition Time_add (tv1 tv2 : Time) : Time :=
  if USEC_MAX <=? tv_usec tv1 + tv_usec tv2
  then mkTime (tv_sec tv1 + tv_sec tv2 + 1) (tv_usec tv1 + tv_usec tv2 - USEC_MAX)
  else mkTime (tv_sec tv1 + tv_sec tv2) (tv_usec tv1 + tv_usec tv2).

Definition Time_add_sec (tv : Time) (time : Z) : Time := mkTime (tv_sec tv + time) (tv_usec tv).

Definition Time_sub (tv1 tv2 : Time) : Time :=
  if tv_usec tv1 <? tv_usec tv2
  then mkTime (tv_sec tv1 - tv_sec tv2 - 1) (USEC_MAX + tv_usec tv1 - tv_usec tv2)
  else mkTime (tv_sec tv1 - tv_sec tv2) (tv_usec tv1 - tv_usec tv2).

Definition Time_sub_sec (tv : Time) (time : Z) : Time := mkTime (tv_sec tv - time) (tv_usec tv).

(** The namespace [Helper]; division is the one of C++, towards zero. *)
Definition Helper_abs (value : Z) : Z := if value <? 0 then - value else value.

Definition Helper_mul (tv : Time) (multiplier : Z) : Time :=
  mkTime (tv_sec tv * multiplier + Z.quot (tv_usec tv * multiplier) USEC_MAX)
         (Z.rem (tv_usec tv * multiplier) USEC_MAX).

Definition Helper_div (tv : Time) (divisor : Z) : Time :=
  mkTime (Z.quot (tv_sec tv) divisor)
         (Z.quot ((tv_sec tv - Z.quot (tv_sec tv) divisor * divisor) * USEC_MAX + tv_usec tv)
                 divisor).

Definition Time_mul (tv : Time) (multiplier : Z) : Time :=
  if eqb (tv_sec tv <? 0) (multiplier <? 0)
  then Helper_mul (Time_abs tv) (Helper_abs multiplier)
  else Time_neg (Helper_mul (Time_abs tv) (Helper_abs multiplier)).

Definition Time_div (tv : Time) (divisor : Z) : Time :=
  if eqb (tv_sec tv <? 0) (divisor <? 0)
  then Helper_div (Time_abs tv) (Helper_abs divisor)
  else Time_neg (Helper_div (Time_abs tv) (Helper_abs divisor)).

Definition Time_eq (tv1 tv2 : Time) : bool :=
  (tv_sec tv1 =? tv_sec tv2) && (tv_usec tv1 =? tv_usec tv2).

Definition Time_lt (tv1 tv2 : Time) : bool :=
  (tv_sec tv1 <? tv_sec tv2) ||
  ((tv_sec tv1 =? tv_sec tv2) && (tv_usec tv1 <? tv_usec tv2)).

Definition Time_le (tv1 tv2 : Time) : bool := negb (Time_lt tv2 tv1).

Record Print : Type := { sign : Z; integer_part : Z; fractional_part : Z }.

Definition print (tv : Time) : Print :=
  if 0 <? tv_sec tv then {| sign := 1; integer_part := tv_sec tv; fractional_part := tv_usec tv |}
  else if negb (tv_sec tv =? 0) then
    if negb (tv_usec tv =? 0)
    then {| sign := -1; integer_part := - tv_sec tv - 1;
            fractional_part := USEC_MAX - tv_usec tv |}
    else {| sign := -1; integer_part := - tv_sec tv; fractional_part := 0 |}
  else if negb (tv_usec tv =? 0)
  then {| sign := 1; integer_part := 0; fractional_part := tv_usec tv |}
  else {| sign := 0; integer_part := 0; fractional_part := 0 |}.

Definition microseconds (tv : Time) : Z := tv_sec tv * USEC_MAX + tv_usec tv.

(** [pack] stores two [int32_t]. *)
Definition pack (tv : Time) : Z * Z := (s32 (tv_sec tv), s32 (tv_usec tv)).
Definition unpack (buf : Z * Z) : Time := mkTime (fst buf) (snd buf).

(** The operations keep [tv_usec] between 0 and [USEC_MAX]. *)
Definition normalized (tv : Time) : Prop := 0 <= tv_usec tv < USEC_MAX.

#[export] Instance normalized_dec tv : Decision (normalized tv).
Proof. unfold normalized. apply _. Defined.

(** ** The calendar *)

Record tm : Type := {
  tm_sec : Z; tm_min : Z; tm_hour : Z; tm_mday : Z; tm_mon : Z; tm_year : Z;
  tm_wday : Z; tm_yday : Z
}.

(** [Time::compare] *)
Definition tm_compare (t1 t2 : tm) : Z :=
  let diff := tm_year t1 - tm_year t2 in
  let diff := if diff =? 0 then tm_mon t1 - tm_mon t2 else diff in
  let diff := if diff =? 0 then tm_mday t1 - tm_mday t2 else diff in
  let diff := if diff =? 0 then tm_hour t1 - tm_hour t2 else diff in
  let diff := if diff =? 0 then tm_min t1 - tm_min t2 else diff in
  if diff =? 0 then tm_sec t1 - tm_sec t2 else diff.

Definition DAYS (leap : bool) : list Z :=
  if leap then [0; 31; 60; 91; 121; 152; 182; 213; 244; 274; 305; 335]
  else [0; 31; 59; 90; 120; 151; 181; 212; 243; 273; 304; 334].

(** The sum is of type [long], which holds it for all fields of type [int]. *)
Definition gm_to_time (et : tm) : outcome Z :=
  let* YEARS := arith int32_t (tm_year et - 70) in
  let* days := cell (DAYS (Z.land YEARS 3 =? 2)) (tm_mon et) in
  let* hours := arith int32_t (tm_hour et * 3600) in
  let* minutes := arith int32_t (tm_min et * 60) in
  Ret ((YEARS * 365 + Z.quot (YEARS + 1) 4 + days + tm_mday et - 1) * 86400 +
       hours + minutes + tm_sec et).

(** [std::lower_bound]: the index of the first element of an ascending list
    that is not below [v]. *)
Fixpoint lower_bound (l : list Z) (v : Z) : Z :=
  match l with
  | [] => 0
  | x :: l' => if x <? v then 1 + lower_bound l' v else 0
  end.

Definition time_to_gm (time : Z) : tm :=
  let sec := Z.rem time 60 in
  let time := Z.quot time 60 in
  let min := Z.rem time 60 in
  let time := Z.quot time 60 in
  let hour := Z.rem time 24 in
  let time := Z.quot time 24 in
  let wday := Z.rem (time + 4) 7 in
  let years := Z.quot time (4 * 365 + 1) * 4 in
  let time := Z.rem time (4 * 365 + 1) in
  let '(years, time, leap) :=
    if 365 <=? time then
      if 365 * 2 <=? time then
        if 365 * 3 + 1 <=? time then (years + 3, time - (365 * 3 + 1), false)
        else (years + 2, time - 365 * 2, true)
      else (years + 1, time - 365, false)
    else (years, time, false) in
  let yday := time in
  let CDAYS := DAYS leap in
  let time := time + 1 in
  let MONTH := lower_bound (drop 1 CDAYS) time in
  {| tm_sec := sec; tm_min := min; tm_hour := hour; tm_mday := time - tab 0 CDAYS MONTH;
     tm_mon := MONTH; tm_year := s32 (years + 70); tm_wday := wday; tm_yday := yday |}.

Example calendar_samples :
  time_to_gm 951782400 = {| tm_sec := 0; tm_min := 0; tm_hour := 0; tm_mday := 29; tm_mon := 1;
    tm_year := 100; tm_wday := 2; tm_yday := 59 |} /\
  gm_to_time (time_to_gm 951782400) = Ret 951782400.
Proof. split; vm_compute; reflexivity. Qed.

(** ** Arithmetic *)

Lemma Time_neg_us tv : normalized tv -> normalized (Time_neg tv) /\
  microseconds (Time_neg tv) = - microseconds tv.
Proof.
  unfold normalized, Time_neg, microseconds, mkTime, USEC_MAX. destruct tv as [s u]. cbn.
  intros H. case_Z; cbn; lia.
Qed.

Lemma Time_abs_us tv : normalized tv -> normalized (Time_abs tv) /\
  microseconds (Time_abs tv) = Z.abs (microseconds tv) /\ 0 <= tv_sec (Time_abs tv).
Proof.
  intros H. unfold Time_abs. destruct (Z.ltb_spec (tv_sec tv) 0) as [Hs|Hs].
  - destruct (Time_neg_us tv H) as [H1 H2]. split; [done|]. rewrite H2.
    unfold normalized, microseconds, USEC_MAX in *. split; [lia|].
    unfold Time_neg. case_Z; cbn; lia.
  - unfold normalized, microseconds, USEC_MAX in *. lia.
Qed.

Lemma Helper_mul_us tv k : normalized tv -> 0 <= k ->
  normalized (Helper_mul tv k) /\ microseconds (Helper_mul tv k) = microseconds tv * k.
Proof.
  unfold normalized, Helper_mul, microseconds, mkTime, USEC_MAX. destruct tv as [s u]. cbn.
  intros H Hk. assert (0 <= u * k) by nia.
  rewrite Z.quot_div_nonneg, Z.rem_mod_nonneg by lia. split; [zlia|].
  pose proof (Z.div_mod (u * k) 1000000 ltac:(lia)). lia.
Qed.

Lemma Helper_div_us tv k : normalized tv -> 0 <= tv_sec tv -> 0 < k ->
  normalized (Helper_div tv k) /\ microseconds (Helper_div tv k) = microseconds tv / k.
Proof.
  unfold normalized, Helper_div, microseconds, mkTime, USEC_MAX. destruct tv as [s u]. cbn.
  intros H Hs Hk. rewrite (Z.quot_div_nonneg s k) by lia.
  pose proof (Z.div_mod s k ltac:(lia)) as E. pose proof (Z.mod_pos_bound s k ltac:(lia)) as B.
  replace (s - s / k * k) with (s mod k) by lia. set (r := s mod k) in *. set (q := s / k) in *.
  rewrite Z.quot_div_nonneg by lia. split.
  - split; [apply Z.div_pos; lia|]. apply Z.div_lt_upper_bound; nia.
  - rewrite E. replace ((k * q + r) * 1000000 + u) with (r * 1000000 + u + q * 1000000 * k) by ring.
    rewrite Z.div_add by lia. lia.
Qed.

Lemma Time_sign tv : normalized tv -> (tv_sec tv <? 0) = (microseconds tv <? 0).
Proof. unfold normalized, microseconds, USEC_MAX. intros H. repeat case_Z; lia || done. Qed.

Lemma Helper_abs_val k : Helper_abs k = Z.abs k.
Proof. unfold Helper_abs. case_Z; lia. Qed.

Lemma Time_mul_us tv k : normalized tv ->
  normalized (Time_mul tv k) /\ microseconds (Time_mul tv k) = microseconds tv * k.
Proof.
  intros H. unfold Time_mul. destruct (Time_abs_us tv H) as (Ha & Hm & _).
  rewrite Helper_abs_val, Time_sign by done.
  destruct (Helper_mul_us (Time_abs tv) (Z.abs k) Ha ltac:(lia)) as [H1 H2].
  rewrite Hm, <- Z.abs_mul in H2.
  destruct (Time_neg_us _ H1) as [H3 H4]. rewrite H2 in H4. set (x := microseconds tv) in *.
  destruct (Z.ltb_spec x 0), (Z.ltb_spec k 0); cbn [eqb]; (split; [done|]); rewrite ?H2, ?H4; nia.
Qed.

Lemma Time_div_us tv k : normalized tv -> k <> 0 ->
  normalized (Time_div tv k) /\ microseconds (Time_div tv k) = Z.quot (microseconds tv) k.
Proof.
  intros H Hk. unfold Time_div. destruct (Time_abs_us tv H) as (Ha & Hm & Hs).
  rewrite Helper_abs_val, Time_sign by done.
  destruct (Helper_div_us (Time_abs tv) (Z.abs k) Ha Hs ltac:(lia)) as [H1 H2].
  rewrite Hm in H2. destruct (Time_neg_us _ H1) as [H3 H4]. rewrite H2 in H4.
  set (x := microseconds tv) in *. rewrite (Z.quot_div x k) by done.
  set (q := Z.abs x / Z.abs k) in *.
  assert (Hx : x = 0 -> q = 0) by (intros E; unfold q; rewrite E; apply Z.div_0_l; lia).
  destruct (Z.ltb_spec x 0), (Z.ltb_spec k 0); cbn [eqb]; (split; [done|]); rewrite ?H2, ?H4;
    destruct (Z.eq_dec x 0) as [E|E]; try (rewrite (Hx E); lia);
    rewrite ?(Z.sgn_neg x), ?(Z.sgn_pos x), ?(Z.sgn_neg k), ?(Z.sgn_pos k) by lia; lia.
Qed.

Lemma Time_sub_us a b : normalized a -> normalized b ->
  normalized (Time_sub a b) /\ microseconds (Time_sub a b) = microseconds a - microseconds b.
Proof.
  unfold normalized, Time_sub, microseconds, USEC_MAX. intros Ha Hb. case_Z; cbn; lia.
Qed.

Lemma Time_lt_us a b : normalized a -> normalized b ->
  Time_lt a b = (microseconds a <? microseconds b).
Proof.
  unfold normalized, Time_lt, microseconds, USEC_MAX. intros Ha Hb.
  repeat case_Z; cbn; lia || done.
Qed.

Lemma Time_le_us a b : normalized a -> normalized b ->
  Time_le a b = (microseconds a <=? microseconds b).
Proof. intros Ha Hb. unfold Time_le. rewrite Time_lt_us by done. repeat case_Z; cbn; lia || done. Qed.

(** ** Calendar dates *)

Definition leap_of (years : Z) : bool := Z.land years 3 =? 2.

Definition year_length (leap : bool) : Z := if leap then 366 else 365.

Definition month_length (leap : bool) (m : Z) : Z :=
  tab 0 (drop 1 (DAYS leap) ++ [year_length leap]) m - tab 0 (DAYS leap) m.

(** A date and a time of day in GMT. *)
Definition valid_tm (et : tm) : Prop :=
  70 <= tm_year et < 2 ^ 31 /\ 0 <= tm_mon et < 12 /\
  1 <= tm_mday et <= month_length (leap_of (tm_year et - 70)) (tm_mon et) /\
  0 <= tm_hour et < 24 /\ 0 <= tm_min et < 60 /\ 0 <= tm_sec et < 60.

#[export] Instance valid_tm_dec et : Decision (valid_tm et).
Proof. unfold valid_tm. apply _. Defined.

Definition month_of (leap : bool) (yday : Z) : Z := lower_bound (drop 1 (DAYS leap)) (yday + 1).

(** The month a day of the year falls in, for all days. *)
Lemma month_of_day leap yday :
  0 <= yday < year_length leap ->
  0 <= month_of leap yday < 12 /\
  1 <= yday + 1 - tab 0 (DAYS leap) (month_of leap yday) <= month_length leap (month_of leap yday).
Proof.
  intros Hy. set (Q := fun l y => bool_decide (0 <= month_of l y < 12 /\
    1 <= y + 1 - tab 0 (DAYS l) (month_of l y) <= month_length l (month_of l y))).
  apply (bool_decide_eq_true_1 _). change (Q leap yday = true). revert yday Hy.
  destruct leap; [apply (forall_below 366 (Q true))|apply (forall_below 365 (Q false))];
    vm_compute; reflexivity.
Qed.

(** And the other way round. *)
Lemma day_of_month leap m d :
  0 <= m < 12 -> 1 <= d <= month_length leap m ->
  0 <= tab 0 (DAYS leap) m + d - 1 < year_length leap /\
  month_of leap (tab 0 (DAYS leap) m + d - 1) = m.
Proof.
  intros Hm Hd. set (Q := fun l m => forallb (fun d => negb (bool_decide (1 <= d <= month_length l m)) ||
    bool_decide (0 <= tab 0 (DAYS l) m + d - 1 < year_length l /\
      month_of l (tab 0 (DAYS l) m + d - 1) = m)) (all_below 400)).
  assert (HQ : Q leap m = true).
  { revert m Hm Hd. destruct leap; intros m Hm _; revert m Hm;
      [apply (forall_below 12 (Q true))|apply (forall_below 12 (Q false))]; vm_compute; reflexivity. }
  assert (Hb : month_length leap m < 400).
  { clear Hd HQ Q. apply (bool_decide_eq_true_1 _). revert m Hm.
    destruct leap; [apply (forall_below 12 (fun m => bool_decide (month_length true m < 400)))
      |apply (forall_below 12 (fun m => bool_decide (month_length false m < 400)))]; vm_compute; reflexivity. }
  pose proof (forall_below 400 _ HQ d ltac:(lia)) as H. cbv beta in H.
  rewrite (bool_decide_eq_true_2 (1 <= d <= _)) in H by done. by apply bool_decide_eq_true in H.
Qed.

Lemma leap_of_mod years : leap_of years = (years mod 4 =? 2).
Proof. unfold leap_of. change 3 with (Z.ones 2). by rewrite land_mask by lia. Qed.

(** The days before the year [70 + years]. *)
Definition year_start (years : Z) : Z := years * 365 + (years + 1) / 4.

Lemma year_start_next y : year_start (y + 1) = year_start y + year_length (leap_of y).
Proof.
  unfold year_start, year_length. rewrite leap_of_mod. case_Z; zlia.
Qed.

Lemma year_start_mono y y' : y < y' -> year_start y + year_length (leap_of y) <= year_start y'.
Proof. intros H. rewrite <- year_start_next. unfold year_start. zlia. Qed.

(** The first second of the first year that is too large for [tm_year]. *)
Definition time_limit : Z := year_start (2 ^ 31 - 70) * 86400.

(** Seconds split into the fields of a date. *)
Lemma time_to_gm_fields t : 0 <= t ->
  exists y yday, 0 <= y /\ 0 <= yday < year_length (leap_of y) /\
    year_start y + yday = t / 86400 /\
    time_to_gm t =
    {| tm_sec := t mod 60; tm_min := t / 60 mod 60; tm_hour := t / 3600 mod 24;
       tm_mday := yday + 1 - tab 0 (DAYS (leap_of y)) (month_of (leap_of y) yday);
       tm_mon := month_of (leap_of y) yday; tm_year := s32 (y + 70);
       tm_wday := (t / 86400 + 4) mod 7; tm_yday := yday |}.
Proof.
  intros Ht. unfold time_to_gm. cbv zeta. fold (DAYS false) (DAYS true).
  rewrite (Z.quot_div_nonneg t 60), (Z.rem_mod_nonneg t 60) by lia.
  rewrite (Z.quot_div_nonneg (t / 60) 60), (Z.rem_mod_nonneg (t / 60) 60) by zlia.
  rewrite Z.div_div by lia. change (60 * 60) with 3600.
  rewrite (Z.quot_div_nonneg (t / 3600) 24), (Z.rem_mod_nonneg (t / 3600) 24) by zlia.
  rewrite Z.div_div by lia. change (3600 * 24) with 86400.
  set (d := t / 86400). assert (Hd : 0 <= d) by (unfold d; zlia).
  rewrite (Z.quot_div_nonneg d), (Z.rem_mod_nonneg d), (Z.rem_mod_nonneg (d + 4)) by lia.
  change (4 * 365 + 1) with 1461. set (q := d / 1461). set (r := d mod 1461).
  assert (Hdr : d = 1461 * q + r /\ 0 <= r < 1461 /\ 0 <= q) by (unfold q, r; zlia).
  assert (Hleap : forall i, 0 <= i < 4 -> leap_of (q * 4 + i) = (i =? 2)).
  { intros i Hi. rewrite leap_of_mod. f_equal. zlia. }
  unfold year_start, month_of.
  destruct (Z.leb_spec 365 r); [destruct (Z.leb_spec (365 * 2) r); [destruct (Z.leb_spec (365 * 3 + 1) r)|]|].
  - exists (q * 4 + 3), (r - (365 * 3 + 1)). rewrite Hleap by lia. cbn [Z.eqb Pos.eqb].
    unfold year_length. repeat (split; [zlia|]). done.
  - exists (q * 4 + 2), (r - 365 * 2). rewrite Hleap by lia. cbn [Z.eqb Pos.eqb].
    unfold year_length. repeat (split; [zlia|]). done.
  - exists (q * 4 + 1), (r - 365). rewrite Hleap by lia. cbn [Z.eqb Pos.eqb].
    unfold year_length. repeat (split; [zlia|]). done.
  - exists (q * 4 + 0), r. rewrite Hleap by lia. cbn [Z.eqb Pos.eqb].
    unfold year_length. repeat (split; [zlia|]). by rewrite Z.add_0_r.
Qed.

Lemma time_to_gm_spec t : 0 <= t < time_limit ->
  exists y yday, 0 <= y < 2 ^ 31 - 70 /\ 0 <= yday < year_length (leap_of y) /\
    year_start y + yday = t / 86400 /\
    time_to_gm t =
    {| tm_sec := t mod 60; tm_min := t / 60 mod 60; tm_hour := t / 3600 mod 24;
       tm_mday := yday + 1 - tab 0 (DAYS (leap_of y)) (month_of (leap_of y) yday);
       tm_mon := month_of (leap_of y) yday; tm_year := y + 70;
       tm_wday := (t / 86400 + 4) mod 7; tm_yday := yday |}.
Proof.
  intros Ht. destruct (time_to_gm_fields t ltac:(lia)) as (y & yday & Hy & Hyd & E & ->).
  assert (Hlt : y < 2 ^ 31 - 70).
  { destruct (Z.lt_ge_cases y (2 ^ 31 - 70)) as [|Hge]; [done|]. unfold time_limit in Ht.
    unfold year_start in *. zlia. }
  assert (E32 : s32 (y + 70) = y + 70) by (unfold s32; rewrite Z.mod_small by lia; lia).
  exists y, yday. rewrite E32.
  repeat split; done || lia.
Qed.

Lemma cell_DAYS leap m : 0 <= m < 12 -> cell (DAYS leap) m = Ret (tab 0 (DAYS leap) m).
Proof.
  intros Hm. destruct (cell (DAYS leap) m) as [d| |] eqn:E;
    (assert (H : match cell (DAYS leap) m with Ret d => d =? tab 0 (DAYS leap) m | _ => false end = true);
     [revert m Hm E; destruct leap; intros m Hm _; revert m Hm;
      [apply (forall_below 12 (fun m => match cell (DAYS true) m with Ret d => d =? tab 0 (DAYS true) m | _ => false end))
      |apply (forall_below 12 (fun m => match cell (DAYS false) m with Ret d => d =? tab 0 (DAYS false) m | _ => false end))];
      vm_compute; reflexivity|rewrite E in H]); [|done|done].
  by apply Z.eqb_eq in H as ->.
Qed.

Lemma arith_int v : - 2 ^ 31 <= v < 2 ^ 31 -> arith int32_t v = Ret v.
Proof. intros Hv. unfold arith, in_type, min_, max_. cbn [is_signed digits int32_t]. by decide_Z. Qed.

Lemma gm_to_time_spec et : 70 <= tm_year et < 2 ^ 31 -> 0 <= tm_mon et < 12 ->
  - 2 ^ 31 <= tm_hour et * 3600 < 2 ^ 31 -> - 2 ^ 31 <= tm_min et * 60 < 2 ^ 31 ->
  gm_to_time et =
  Ret ((year_start (tm_year et - 70) + tab 0 (DAYS (leap_of (tm_year et - 70))) (tm_mon et) +
   tm_mday et - 1) * 86400 + tm_hour et * 3600 + tm_min et * 60 + tm_sec et).
Proof.
  intros Hy Hm Hh Hmi. unfold gm_to_time. rewrite arith_int by lia. cbn [obind].
  rewrite cell_DAYS by done. cbn [obind]. rewrite !arith_int by done. cbn [obind].
  unfold year_start. by rewrite Z.quot_div_nonneg by lia.
Qed.

(** ** The Gregorian calendar *)

Definition gregorian_leap (Y : Z) : bool :=
  (Y mod 4 =? 0) && (negb (Y mod 100 =? 0) || (Y mod 400 =? 0)).

(** The days from 1970-01-01 to the first of the month [m] (from 0) of [Y]. *)
Definition gregorian_month (Y m : Z) : Z :=
  fold_left (fun n i => n + (if gregorian_leap (1970 + Z.of_nat i) then 366 else 365))
    (seq 0 (Z.to_nat (Y - 1970))) 0 +
  fold_left Z.add
    (take (Z.to_nat m) [31; if gregorian_leap Y then 29 else 28; 31; 30; 31; 30; 31; 31; 30; 31; 30; 31])
    0.

Lemma gm_to_time_inverse t : 0 <= t < time_limit ->
  gm_to_time (time_to_gm t) = Ret t /\ valid_tm (time_to_gm t).
Proof.
  intros Ht. destruct (time_to_gm_spec t Ht) as (y & yday & Hy0 & Hyd & E & ->).
  destruct (month_of_day _ _ Hyd) as [Hm Hd]. split.
  - rewrite gm_to_time_spec by (cbn [tm_year tm_mon tm_hour tm_min]; zlia).
    cbn [tm_sec tm_min tm_hour tm_mday tm_mon tm_year].
    replace (y + 70 - 70) with y by lia. f_equal. zlia.
  - unfold valid_tm. cbn. replace (y + 70 - 70) with y by lia. repeat split; zlia.
Qed.

(** Also before the epoch the date of a time has seconds: the fields count
    towards zero. *)
Lemma gm_to_time_defined t : - 2 ^ 40 <= t < time_limit -> exists t', gm_to_time (time_to_gm t) = Ret t'.
Proof.
  intros Ht. destruct (Z.lt_ge_cases t 0) as [Hneg|Hpos].
  2: { exists t. apply gm_to_time_inverse; lia. }
  assert (E : exists h m y rest, - 24 < h < 24 /\ - 60 < m < 60 /\ - 2 ^ 31 + 70 <= y <= 70 /\
    time_to_gm t = {| tm_sec := Z.rem t 60; tm_min := m; tm_hour := h; tm_mday := rest;
      tm_mon := 0; tm_year := s32 y; tm_wday := Z.rem (Z.quot (Z.quot (Z.quot t 60) 60) 24 + 4) 7;
      tm_yday := Z.rem (Z.quot (Z.quot (Z.quot t 60) 60) 24) 1461 |}).
  { unfold time_to_gm. cbv zeta. change (4 * 365 + 1) with 1461.
    set (d := Z.quot (Z.quot (Z.quot t 60) 60) 24). assert (Hd : - 2 ^ 40 <= d <= 0) by (unfold d; Z.to_euclidean_division_equations; lia).
    assert (Hr : - 1461 < Z.rem d 1461 <= 0) by (Z.to_euclidean_division_equations; lia).
    assert (Hq : - 2 ^ 30 <= Z.quot d 1461 <= 0) by (Z.to_euclidean_division_equations; lia).
    rewrite (proj2 (Z.leb_gt 365 (Z.rem d 1461))) by lia.
    assert (Hl : lower_bound (drop 1 (DAYS false)) (Z.rem d 1461 + 1) = 0).
    { change (drop 1 (DAYS false)) with (31 :: drop 2 (DAYS false)). cbn [lower_bound].
      by rewrite (proj2 (Z.ltb_ge 31 _)) by lia. }
    rewrite Hl. exists (Z.rem (Z.quot (Z.quot t 60) 60) 24), (Z.rem (Z.quot t 60) 60), (Z.quot d 1461 * 4 + 70).
    eexists. split; [Z.to_euclidean_division_equations; lia|]. split; [Z.to_euclidean_division_equations; lia|]. split; [|reflexivity].
    unfold d in *. clear Hl Hr. Z.to_euclidean_division_equations. lia. }
  destruct E as (h & m & y & rest & Hh & Hm & Hy & ->). unfold gm_to_time. cbn [tm_year tm_mon tm_hour tm_min tm_mday tm_sec].
  assert (E32 : s32 y = y) by (unfold s32; rewrite Z.mod_small by lia; lia). rewrite E32.
  rewrite arith_int by lia. cbn [obind]. rewrite cell_DAYS by lia. cbn [obind].
  rewrite !arith_int by lia. cbn [obind]. by eexists.
Qed.

(** ** Properties *)

(** Arithmetic on [Time] is arithmetic on the number of microseconds: every
    operation keeps the value normalized and computes the negation, sum,
    difference, product or quotient (rounded towards zero), and the comparisons
    compare. *)
Theorem Time_arithmetic (a b : Time) (k : Z) :
  normalized a -> normalized b ->
  (normalized (Time_neg a) /\ microseconds (Time_neg a) = - microseconds a) /\
  (normalized (Time_add a b) /\ microseconds (Time_add a b) = microseconds a + microseconds b) /\
  (normalized (Time_sub a b) /\ microseconds (Time_sub a b) = microseconds a - microseconds b) /\
  (normalized (Time_mul a k) /\ microseconds (Time_mul a k) = microseconds a * k) /\
  (k <> 0 -> normalized (Time_div a k) /\ microseconds (Time_div a k) = Z.quot (microseconds a) k) /\
  Time_lt a b = (microseconds a <? microseconds b) /\
  Time_eq a b = (microseconds a =? microseconds b) /\
  sign (print a) * (integer_part (print a) * USEC_MAX + fractional_part (print a)) = microseconds a.
Proof.
  intros Ha Hb. split; [by apply Time_neg_us|].
  split; [|split; [|split; [by apply Time_mul_us|split; [by intros; apply Time_div_us|]]]].
  - unfold normalized, Time_add, microseconds, USEC_MAX in *. case_Z; cbn; lia.
  - by apply Time_sub_us.
  - split; [by apply Time_lt_us|]. unfold normalized, Time_eq, print, microseconds, USEC_MAX in *.
    repeat split; repeat case_Z; cbn; lia || done.
Qed.

Lemma Time_arithmetic_witness :
  microseconds (Time_mul (mkTime (-2) 500000) 3) = microseconds (mkTime (-2) 500000) * 3.
Proof.
  apply (Time_arithmetic (mkTime (-2) 500000) (mkTime 0 0) 3); by_eval.
Defined.

(** C36: [time_to_gm] and [gm_to_time] are inverse: seconds from the epoch up to
    [time_limit], where the year no longer fits the [int] of [tm_year], become a valid
    date and come back, and the seconds of a valid date (years from 1970 of a calendar
    with a leap year in every fourth year) are computed without an overflow and give its
    fields. *)
Theorem calendar_roundtrip (t : Z) (et : tm) :
  0 <= t < time_limit -> valid_tm et ->
  (gm_to_time (time_to_gm t) = Ret t /\ valid_tm (time_to_gm t)) /\
  exists t', gm_to_time et = Ret t' /\ 0 <= t' < time_limit /\
  let et' := time_to_gm t' in
  (tm_year et', tm_mon et', tm_mday et', tm_hour et', tm_min et', tm_sec et') =
  (tm_year et, tm_mon et, tm_mday et, tm_hour et, tm_min et, tm_sec et).
Proof.
  intros Ht (Hy & Hmon & Hmd & Hh & Hmi & Hs). split.
  - by apply gm_to_time_inverse.
  - rewrite gm_to_time_spec by lia. set (Y := tm_year et - 70) in *.
    destruct (day_of_month _ _ _ Hmon Hmd) as [Hyd Hmo].
    set (yd := tab 0 (DAYS (leap_of Y)) (tm_mon et) + tm_mday et - 1) in *.
    set (t' := (_ * 86400 + _ + _ + _)). exists t'. split; [done|].
    assert (Ht' : t' / 86400 = year_start Y + yd /\ t' mod 60 = tm_sec et /\
      t' / 60 mod 60 = tm_min et /\ t' / 3600 mod 24 = tm_hour et /\ 0 <= t').
    { unfold t', yd, year_start. zlia. }
    destruct Ht' as (E1 & E2 & E3 & E4 & E5).
    assert (Hlim : t' < time_limit).
    { pose proof (year_start_mono Y (2 ^ 31 - 70) ltac:(lia)). unfold time_limit. zlia. }
    split; [lia|]. cbv zeta.
    destruct (time_to_gm_spec t' (conj E5 Hlim)) as (y & yday & Hy0 & Hyd' & E & ->). cbn.
    assert (Hyy : y = Y).
    { destruct (Z.lt_trichotomy y Y) as [Hl|[Hl|Hl]]; [|done|];
        apply year_start_mono in Hl; unfold year_length in *; lia. }
    subst y. replace yday with yd by lia. rewrite Hmo, E2, E3, E4.
    replace (Y + 70) with (tm_year et) by lia. repeat f_equal. lia.
Qed.

Lemma calendar_roundtrip_witness : gm_to_time (time_to_gm 951782399) = Ret 951782399.
Proof.
  apply (calendar_roundtrip 951782399 (time_to_gm 0)); [by_eval|by_eval].
Defined.

(** Beyond [time_limit] the year wraps around, and [gm_to_time] does not compute
    dates whose time of day leaves [int]. *)
Example calendar_limits :
  time_limit = 67769427761049600 /\ tm_year (time_to_gm time_limit) = - 2 ^ 31 /\
  gm_to_time {| tm_sec := 0; tm_min := 0; tm_hour := 600000; tm_mday := 1; tm_mon := 0;
                tm_year := 120; tm_wday := 0; tm_yday := 0 |} = Undef.
Proof. repeat split; vm_compute; reflexivity. Qed.

(** [gm_to_time] counts the seconds of the Gregorian calendar for every
    date from 1970 to February 2100; from March 2100 on it is one day off,
    because it takes 2100 for a leap year. *)
Theorem gm_to_time_gregorian (et : tm) :
  70 <= tm_year et <= 200 -> 0 <= tm_mon et < 12 -> 0 <= tm_hour et < 24 -> 0 <= tm_min et < 60 ->
  gm_to_time et =
  Ret ((gregorian_month (tm_year et + 1900) (tm_mon et) +
   (if (tm_year et =? 200) && (1 <? tm_mon et) then 1 else 0) + tm_mday et - 1) * 86400 +
  tm_hour et * 3600 + tm_min et * 60 + tm_sec et).
Proof.
  intros Hy Hm Hh Hmi. rewrite gm_to_time_spec by lia. do 7 f_equal.
  set (Q := fun y => forallb (fun m => year_start y + tab 0 (DAYS (leap_of y)) m =?
    gregorian_month (y + 70 + 1900) m + (if (y + 70 =? 200) && (1 <? m) then 1 else 0)) (all_below 12)).
  assert (HQ : Q (tm_year et - 70) = true)
    by (apply (forall_below 131 Q); [vm_compute; reflexivity|lia]).
  pose proof (forall_below 12 _ HQ _ Hm) as H. cbv beta in H. apply Z.eqb_eq in H.
  by replace (tm_year et - 70 + 70) with (tm_year et) in H by lia.
Qed.

Lemma gm_to_time_gregorian_witness :
  gm_to_time {| tm_sec := 0; tm_min := 0; tm_hour := 0; tm_mday := 1; tm_mon := 2;
                tm_year := 200; tm_wday := 0; tm_yday := 0 |} =
  Ret ((gregorian_month 2100 2 + 1 + 1 - 1) * 86400 + 0 * 3600 + 0 * 60 + 0).
Proof.
  apply (gm_to_time_gregorian {| tm_sec := 0; tm_min := 0; tm_hour := 0; tm_mday := 1;
    tm_mon := 2; tm_year := 200; tm_wday := 0; tm_yday := 0 |}); cbn; lia.
Defined.
