(* ===== verification/TimeFormat.v ===== *)
(** * TimeFormat: broken-down time and its text

    Models [ExtendedTime] with its parser [from_str_] and printer [to_str_]
    ([src/Generics/Time.cpp]), its other operations and the functions of [Time]
    that go through it ([src/Generics/Time.hpp]).  The conversions of the C
    library that know the local time zone are arguments. *)
From S2P Require Import Prelude AsciiManip TextOps IntStr Time.
Local Open Scope Z_scope.
Local Open Scope outcome_scope.

Inductive TimeZone : Type := TZ_GMT | TZ_LOCAL.

(** [struct ExtendedTime : public tm] *)
Record ExtendedTime : Type := { base : tm; tm_usec : Z; timezone : TimeZone }.

Definition DAYS_ : list (list Z) :=
  map bytes ["Sun"; "Mon"; "Tue"; "Wed"; "Thu"; "Fri"; "Sat"]%string.
Definition DAYS_FULL_ : list (list Z) :=
  map bytes ["Sunday"; "Monday"; "Tuesday"; "Wednesday"; "Thursday"; "Friday"; "Saturday"]%string.
Definition MONTHS_ : list (list Z) :=
  map bytes ["Jan"; "Feb"; "Mar"; "Apr"; "May"; "Jun"; "Jul"; "Aug"; "Sep"; "Oct"; "Nov"; "Dec"]%string.
Definition MONTHS_FULL_ : list (list Z) :=
  map bytes ["January"; "February"; "March"; "April"; "May"; "June"; "July"; "August";
    "September"; "October"; "November"; "December"]%string.

(** ** The fields *)

Definition set_sec (v : Z) (t : tm) : tm :=
  {| tm_sec := v; tm_min := tm_min t; tm_hour := tm_hour t; tm_mday := tm_mday t;
     tm_mon := tm_mon t; tm_year := tm_year t; tm_wday := tm_wday t; tm_yday := tm_yday t |}.
Definition set_min (v : Z) (t : tm) : tm :=
  {| tm_sec := tm_sec t; tm_min := v; tm_hour := tm_hour t; tm_mday := tm_mday t;
     tm_mon := tm_mon t; tm_year := tm_year t; tm_wday := tm_wday t; tm_yday := tm_yday t |}.
Definition set_hour (v : Z) (t : tm) : tm :=
  {| tm_sec := tm_sec t; tm_min := tm_min t; tm_hour := v; tm_mday := tm_mday t;
     tm_mon := tm_mon t; tm_year := tm_year t; tm_wday := tm_wday t; tm_yday := tm_yday t |}.
Definition set_mday (v : Z) (t : tm) : tm :=
  {| tm_sec := tm_sec t; tm_min := tm_min t; tm_hour := tm_hour t; tm_mday := v;
     tm_mon := tm_mon t; tm_year := tm_year t; tm_wday := tm_wday t; tm_yday := tm_yday t |}.
Definition set_mon (v : Z) (t : tm) : tm :=
  {| tm_sec := tm_sec t; tm_min := tm_min t; tm_hour := tm_hour t; tm_mday := tm_mday t;
     tm_mon := v; tm_year := tm_year t; tm_wday := tm_wday t; tm_yday := tm_yday t |}.
Definition set_year (v : Z) (t : tm) : tm :=
  {| tm_sec := tm_sec t; tm_min := tm_min t; tm_hour := tm_hour t; tm_mday := tm_mday t;
     tm_mon := tm_mon t; tm_year := v; tm_wday := tm_wday t; tm_yday := tm_yday t |}.

Definition on_base (f : tm -> tm) (et : ExtendedTime) : ExtendedTime :=
  {| base := f (base et); tm_usec := tm_usec et; timezone := timezone et |}.

Definition set_usec (v : Z) (et : ExtendedTime) : ExtendedTime :=
  {| base := base et; tm_usec := v; timezone := timezone et |}.

(** ** Helpers of the parser

    [src] and [size] are the rest of the text. *)
Definition check_name (src cl : list Z) : option (list Z) :=
  if Caseless_start cl src then Some (drop (length cl) src) else None.

Definition check_names (src cl1 cl2 : list Z) : option (list Z) :=
  match check_name src cl1 with
  | Some src => Some src
  | None => check_name src cl2
  end.

(** The loop over the names: the index found and the rest of the text. *)
Fixpoint find_names (i : Z) (src : list Z) (full short : list (list Z)) : option (Z * list Z) :=
  match full, short with
  | f :: full', s :: short' =>
    match check_names src f s with
    | Some src => Some (i, src)
    | None => find_names (i + 1) src full' short'
    end
  | _, _ => None
  end.

(** [do ... while (--left && NUMBER(...))]: the number, [left] and the rest. *)
Fixpoint read_digits (left_ : nat) (src : list Z) (number : Z) : Z * nat * list Z :=
  match left_, src with
  | S left', c :: src' =>
    let number := number * 10 + (s8 c - "0"%uchar) in
    match left', src' with
    | S _, c' :: _ =>
      if is_owned NUMBER c' then read_digits left' src' number else (number, left', src')
    | _, _ => (number, left', src')
    end
  | _, _ => (number, left_, src)
  end.

Definition read_number (SIZE : nat) (src : list Z) (strict : bool) : option (Z * list Z) :=
  match src with
  | [] => None
  | c :: _ =>
    if negb (is_owned NUMBER c) || (strict && (length src <? SIZE)%nat) then None
    else
      let '(number, left_, src) := read_digits (Nat.min SIZE (length src)) src 0 in
      if negb strict || (left_ =? 0)%nat then Some (number, src) else None
  end.

(** ** [from_str_]

    [inl] is the message returned. *)
Definition result (A : Type) : Type := (string + A)%type.

Definition read_field (SIZE : nat) (src : list Z) (strict : bool) (ok : Z -> bool)
    (error : string) (store : Z -> ExtendedTime -> ExtendedTime) (et : ExtendedTime)
  : result (ExtendedTime * list Z) :=
  match read_number SIZE src strict with
  | Some (n, src) => if ok n then inr (store n et, src) else inl error
  | None => inl error
  end.

Definition from_directive (d : Z) (strict : bool) (et : ExtendedTime) (v : list Z)
  : result (ExtendedTime * list Z) :=
  if d =? "%"%uchar then
    match v with
    | c :: v' => if c =? "%"%uchar then inr (et, v') else inl "% sign is expected but not found"%string
    | [] => inl "% sign is expected but not found"%string
    end
  else if (d =? "a"%uchar) || (d =? "A"%uchar) then
    match find_names 0 v DAYS_FULL_ DAYS_ with
    | Some (_, v) => inr (et, v)
    | None => inl "weekday name is expected but not found"%string
    end
  else if (d =? "b"%uchar) || (d =? "B"%uchar) || (d =? "h"%uchar) then
    match find_names 0 v MONTHS_FULL_ MONTHS_ with
    | Some (m, v) => inr (on_base (set_mon m) et, v)
    | None => inl "month name is expected but not found"%string
    end
  else if (d =? "d"%uchar) || (d =? "e"%uchar) then
    read_field 2 v strict (fun n => negb ((n <? 1) || (31 <? n)))
      "day of month expected but not found" (fun n => on_base (set_mday n)) et
  else if d =? "H"%uchar then
    read_field 2 v strict (fun n => negb (23 <? n))
      "hours expected but not found" (fun n => on_base (set_hour n)) et
  else if d =? "m"%uchar then
    read_field 2 v strict (fun n => negb ((n <? 1) || (12 <? n)))
      "month number expected but not found" (fun n => on_base (set_mon (n - 1))) et
  else if d =? "M"%uchar then
    read_field 2 v strict (fun n => negb (59 <? n))
      "minutes expected but not found" (fun n => on_base (set_min n)) et
  else if d =? "q"%uchar then
    read_field 6 v strict (fun n => negb (USEC_MAX <=? n))
      "microseconds expected but not found" set_usec et
  else if d =? "S"%uchar then
    read_field 2 v strict (fun n => negb (59 <? n))
      "seconds expected but not found" (fun n => on_base (set_sec n)) et
  else if d =? "Y"%uchar then
    read_field 4 v strict (fun n => negb (n <? 1970))
      "year expected but not found" (fun n => on_base (set_year (n - 1900))) et
  else inl "unknown format specifier"%string.

(** [while (v_size && SPACE(...))] *)
Fixpoint skip_spaces (v : list Z) : list Z :=
  match v with
  | c :: v' => if is_owned SPACE c then skip_spaces v' else v
  | [] => []
  end.

Fixpoint from_str_ (format : list Z) (strict : bool) (et : ExtendedTime) (v : list Z)
  : result ExtendedTime :=
  match format with
  | [] => inr et
  | f :: format1 =>
    if f =? "%"%uchar then
      match format1 with
      | [] => inl "unknown format specifier"%string
      | d :: format2 =>
        match from_directive d strict et v with
        | inl error => inl error
        | inr (et, v) => from_str_ format2 strict et v
        end
      end
    else if negb strict && is_owned SPACE f then from_str_ format1 strict et (skip_spaces v)
    else
      match v with
      | c :: v' =>
        if c =? f then from_str_ format1 strict et v'
        else inl "character is expected but not found"%string
      | [] => inl "character is expected but not found"%string
      end
  end.

(** ** Helpers of the printer

    [out] is what was written so far; [None] is the result [false]. *)
Definition add_str (out : list Z) (length_ : nat) (src : list Z) : option (list Z) :=
  if (length_ <? length out + length src)%nat then None else Some (out ++ src).

Definition add_num (T : IntegerType) (out : list Z) (length_ : nat) (number : Z)
  : outcome (option (list Z)) :=
  let* (buf, ns) := int_to_str T number (replicate 64 0) 64 in
  Ret (match ns with
       | O => None
       | _ => add_str out length_ (take ns buf)
       end).

(** The last [n] digits of [number], before [acc]. *)
Fixpoint fixed_digits (n : nat) (number : Z) (acc : list Z) : list Z :=
  match n with
  | O => acc
  | S n' => fixed_digits n' (Z.quot number 10) (u8 (Z.rem number 10 + "0"%uchar) :: acc)
  end.

Definition add_num_fixed (SIZE : nat) (out : list Z) (length_ : nat) (number : Z)
  : option (list Z) :=
  add_str out length_ (fixed_digits SIZE number []).

(** [names[i].str], out of the table is no access. *)
Definition add_name (names : list (list Z)) (i : Z) (out : list Z) (length_ : nat)
  : outcome (option (list Z)) :=
  if i <? 0 then Undef
  else match names !! Z.to_nat i with
       | Some name => Ret (add_str out length_ name)
       | None => Undef
       end.

(** ** Conversions and the printer *)

Section LocalTime.
  (** [mktime] with the [tm_gmtoff] and the fields it leaves, and [localtime_r]
      ([None] is a null result). *)
  Context (mktime : tm -> Z) (mktime_gmtoff : tm -> Z) (mktime_tm : tm -> tm)
          (localtime_r : Z -> option tm).

(** [ExtendedTime::ExtendedTime(time_t, suseconds_t, TimeZone)]; [None] is the
    exception. *)
Definition ExtendedTime_of (sec usec : Z) (tz : TimeZone) : option ExtendedTime :=
  match tz with
  | TZ_GMT => Some {| base := time_to_gm sec; tm_usec := usec; timezone := tz |}
  | TZ_LOCAL =>
    match localtime_r sec with
    | Some t => Some {| base := t; tm_usec := usec; timezone := tz |}
    | None => None
    end
  end.

(** [operator Time() const] *)
Definition to_Time (et : ExtendedTime) : outcome Time :=
  match timezone et with
  | TZ_LOCAL => Ret (mkTime (mktime (base et)) (tm_usec et))
  | TZ_GMT => let* sec := gm_to_time (base et) in Ret (mkTime sec (tm_usec et))
  end.

(** [None] is the exception. *)
Definition normalize (et : ExtendedTime) : outcome (option ExtendedTime) :=
  match timezone et with
  | TZ_GMT => let* sec := gm_to_time (base et) in Ret (Some (on_base (fun _ => time_to_gm sec) et))
  | TZ_LOCAL => Ret (if mktime (base et) =? -1 then None else Some (on_base mktime_tm et))
  end.

(** The directives that call no other format; [None] is the result 0. *)
Definition to_directive (d : Z) (et : ExtendedTime) (out : list Z) (length_ : nat)
  : outcome (option (list Z)) :=
  let t := base et in
  if d =? "%"%uchar then Ret (add_str out length_ ["%"%uchar])
  else if d =? "a"%uchar then add_name DAYS_ (tm_wday t) out length_
  else if d =? "A"%uchar then add_name DAYS_FULL_ (tm_wday t) out length_
  else if (d =? "b"%uchar) || (d =? "h"%uchar) then add_name MONTHS_ (tm_mon t) out length_
  else if d =? "B"%uchar then add_name MONTHS_FULL_ (tm_mon t) out length_
  else if d =? "d"%uchar then Ret (add_num_fixed 2 out length_ (tm_mday t))
  else if d =? "e"%uchar then
    let t10 := Z.quot (tm_mday t) 10 in
    Ret (add_str out length_
      [if negb (t10 =? 0) then u8 (t10 + "0"%uchar) else " "%uchar;
       u8 (Z.rem (tm_mday t) 10 + "0"%uchar)])
  else if d =? "H"%uchar then Ret (add_num_fixed 2 out length_ (tm_hour t))
  else if d =? "k"%uchar then add_num int32_t out length_ (tm_hour t)
  else if d =? "m"%uchar then
    let* mon := arith int32_t (tm_mon t + 1) in Ret (add_num_fixed 2 out length_ mon)
  else if d =? "M"%uchar then Ret (add_num_fixed 2 out length_ (tm_min t))
  else if d =? "q"%uchar then Ret (add_num_fixed 6 out length_ (tm_usec et))
  else if d =? "s"%uchar then
    let* t := to_Time et in add_num int64_t out length_ (tv_sec t)
  else if d =? "S"%uchar then Ret (add_num_fixed 2 out length_ (tm_sec t))
  else if d =? "Y"%uchar then
    let* year := arith int32_t (tm_year t + 1900) in Ret (add_num_fixed 4 out length_ year)
  else if d =? "z"%uchar then
    match timezone et with
    | TZ_GMT => Ret (add_str out length_ (bytes "+0000"))
    | TZ_LOCAL =>
      if mktime t =? -1 then Ret None
      else
        let diff := mktime_gmtoff t in
        let SIGN := if diff <? 0 then "-"%uchar else "+"%uchar in
        let diff := if diff <? 0 then - diff else diff in
        match add_str out length_ [SIGN] with
        | None => Ret None
        | Some out =>
          let diff := Z.quot diff 60 in
          Ret (add_num_fixed 4 out length_ (Z.quot diff 60 * 100 + Z.rem diff 60))
        end
    end
  else Ret None.

(** The loop of [to_str_], for the directives [directive] knows. *)
Fixpoint to_str_loop (directive : Z -> list Z -> outcome (option (list Z)))
    (format : list Z) (length_ : nat) (out : list Z) : outcome (option (list Z)) :=
  match format with
  | [] => Ret (Some out)
  | f :: format1 =>
    if f =? "%"%uchar then
      match format1 with
      | [] => Ret None
      | d :: format2 =>
        let* r := directive d out in
        match r with
        | None => Ret None
        | Some out => to_str_loop directive format2 length_ out
        end
      end
    else
      match add_str out length_ [f] with
      | None => Ret None
      | Some out => to_str_loop directive format1 length_ out
      end
  end.

(** A call of [to_str_] with a format without [%F] and [%T]. *)
Definition to_str_plain (et : ExtendedTime) (length_ : nat) (format : list Z)
  : outcome (option (list Z)) :=
  to_str_loop (fun d out => to_directive d et out length_) format length_ [].

(** A directive that prints the rest with another format. *)
Definition to_nested (et : ExtendedTime) (format out : list Z) (length_ : nat)
  : outcome (option (list Z)) :=
  let* res := to_str_plain et (length_ - length out) format in
  Ret (match res with
       | None | Some [] => None
       | Some s => Some (out ++ s)
       end).

(** The text written; [None], like the empty text, is the result 0. *)
Definition to_str_ (et : ExtendedTime) (length_ : nat) (format : list Z)
  : outcome (option (list Z)) :=
  to_str_loop (fun d out =>
    if d =? "F"%uchar then to_nested et (bytes "%Y-%m-%d") out length_
    else if d =? "T"%uchar then to_nested et (bytes "%H:%M:%S") out length_
    else to_directive d et out length_) format length_ [].

Definition err_format : exn := InvalidArgument "format argument is NULL".
Definition err_cant_format : exn := InvalidFormatException "can't format time".

(** [ExtendedTime::format] *)
Definition format (et : ExtendedTime) (fmt : option (list Z)) : outcome (list Z) :=
  match fmt with
  | None => Throw err_format
  | Some fmt =>
    let* r := to_str_ et 256 fmt in
    match r with
    | None | Some [] => Throw err_cant_format
    | Some s => Ret s
    end
  end.

(** [Time::set(value, format, strict)]: the parse begins at the epoch. *)
Definition Time_set (value : list Z) (fmt : option (list Z)) (strict : bool) : outcome Time :=
  match fmt with
  | None => Throw err_format
  | Some fmt =>
    let time := {| base := time_to_gm 0; tm_usec := 0; timezone := TZ_GMT |} in
    match from_str_ fmt strict time value with
    | inl error => Throw (InvalidFormatException error)
    | inr time => to_Time time
    end
  end.

Definition gm_f (tv : Time) : outcome (list Z) :=
  format {| base := time_to_gm (tv_sec tv); tm_usec := tv_usec tv; timezone := TZ_GMT |}
    (Some (bytes "%F")).

Definition gm_ft (tv : Time) : outcome (list Z) :=
  format {| base := time_to_gm (tv_sec tv); tm_usec := tv_usec tv; timezone := TZ_GMT |}
    (Some (bytes "%F %T")).

Definition set_f (value : list Z) (strict : bool) : outcome Time :=
  Time_set value (Some (bytes "%Y-%m-%d")) strict.

Definition set_ft (value : list Z) (strict : bool) : outcome Time :=
  Time_set value (Some (bytes "%Y-%m-%d %H:%M:%S")) strict.

End LocalTime.

(** ** Other operations *)

(** [ExtendedTime(year, month, day, hour, min, sec, usec)] *)
Definition ExtendedTime_of_fields (year month day hour min sec usec : Z) : outcome ExtendedTime :=
  let* tm_year := arith int32_t (year - 1900) in
  let* tm_mon := arith int32_t (month - 1) in
  let* time := gm_to_time
    {| tm_sec := sec; tm_min := min; tm_hour := hour; tm_mday := day; tm_mon := tm_mon;
       tm_year := tm_year; tm_wday := 0; tm_yday := 0 |} in
  Ret {| base := time_to_gm time; tm_usec := usec; timezone := TZ_GMT |}.

Definition get_time (et : ExtendedTime) : ExtendedTime :=
  on_base (fun t => {| tm_sec := tm_sec t; tm_min := tm_min t; tm_hour := tm_hour t;
    tm_mday := 0; tm_mon := 0; tm_year := 0; tm_wday := 0; tm_yday := 0 |}) et.

Definition set_time (et time : ExtendedTime) : ExtendedTime :=
  set_usec (tm_usec time)
    (on_base (fun t => set_sec (tm_sec (base time)) (set_min (tm_min (base time))
      (set_hour (tm_hour (base time)) t))) et).

Definition get_date (et : ExtendedTime) : ExtendedTime :=
  set_usec 0 (on_base (fun t => set_sec 0 (set_min 0 (set_hour 0 t))) et).

Definition set_date (et time : ExtendedTime) : ExtendedTime :=
  on_base (fun t => set_year (tm_year (base time)) (set_mon (tm_mon (base time))
    (set_mday (tm_mday (base time)) t))) et.

Definition err_month : exn := InvalidArgument "invalid month specified".
Definition err_day : exn := InvalidArgument "invalid day specified".

(** The first name equal to the text up to case. *)
Fixpoint find_name (i : Z) (text : list Z) (names : list (list Z)) : option Z :=
  match names with
  | [] => None
  | n :: names' => if Caseless_equal n text then Some i else find_name (i + 1) text names'
  end.

Definition month_of_name (mon : list Z) : outcome Z :=
  match mon with
  | [] => Throw (InvalidArgument "empty month specified")
  | _ => match find_name 0 mon MONTHS_ with Some i => Ret i | None => Throw err_month end
  end.

Definition month_name (month : Z) : outcome (list Z) :=
  if 11 <? month then Throw err_month else Ret (tab [] MONTHS_ month).

(** The loop of [week_day] tests the short and the full name of each day. *)
Fixpoint find_day (i : Z) (day : list Z) (short full : list (list Z)) : option Z :=
  match short, full with
  | s :: short', f :: full' =>
    if Caseless_equal s day || Caseless_equal f day then Some i
    else find_day (i + 1) day short' full'
  | _, _ => None
  end.

Definition week_day_of_name (day : list Z) : outcome Z :=
  match day with
  | [] => Throw (InvalidArgument "empty day specified")
  | _ => match find_day 0 day DAYS_ DAYS_FULL_ with Some i => Ret i | None => Throw err_day end
  end.

Definition week_day_name (day : Z) : outcome (list Z) :=
  if 6 <? day then Throw err_day else Ret (tab [] DAYS_ day).

Example format_samples :
  gm_ft (fun _ => 0) (fun _ => 0) (mkTime 951782405 7) = Ret (bytes "2000-02-29 00:00:05") /\
  set_ft (fun _ => 0) (bytes "2000-02-29 00:00:05") true = Ret (mkTime 951782405 0) /\
  week_day_of_name (bytes "TUESDAY") = Ret 2 /\ month_of_name (bytes "dec") = Ret 11.
Proof. repeat split; vm_compute; reflexivity. Qed.

(** ** Numbers of fixed width *)

Lemma fixed_digits_app n : forall v acc, fixed_digits n v acc = fixed_digits n v [] ++ acc.
Proof.
  induction n as [|n IH]; intros v acc; [done|]. cbn [fixed_digits].
  rewrite IH, (IH _ [_]), <- app_assoc. done.
Qed.

Lemma fixed_digits_S n v : 0 <= v ->
  fixed_digits (S n) v [] = fixed_digits n (v / 10) [] ++ [v mod 10 + "0"%uchar].
Proof.
  intros Hv. cbn [fixed_digits]. rewrite fixed_digits_app.
  rewrite Z.quot_div_nonneg, Z.rem_mod_nonneg by lia. do 2 f_equal. unfold u8. zlia.
Qed.

Definition is_digit (c : Z) : Prop := "0"%uchar <= c <= "9"%uchar.

Lemma fixed_digits_spec n : forall v, 0 <= v < 10 ^ Z.of_nat n ->
  length (fixed_digits n v []) = n /\ Forall is_digit (fixed_digits n v []) /\
  fold_left (fun a c => a * 10 + (c - "0"%uchar)) (fixed_digits n v []) 0 = v.
Proof.
  induction n as [|n IH]; intros v Hv.
  { cbn in Hv. split; [done|]. split; [constructor|]. simpl. lia. }
  rewrite Nat2Z.inj_succ, Z.pow_succ_r in Hv by lia. rewrite fixed_digits_S by lia.
  assert (v / 10 < 10 ^ Z.of_nat n) by (apply Z.div_lt_upper_bound; lia).
  destruct (IH (v / 10) ltac:(zlia)) as (Hl & Hf & Hv').
  rewrite length_app, Hl. cbn [length]. split; [lia|]. split.
  - apply Forall_app. split; [done|]. constructor; [unfold is_digit; zlia|constructor].
  - rewrite fold_left_app, Hv'. cbn [fold_left]. zlia.
Qed.

Lemma digit_owned c : is_digit c -> is_owned NUMBER c = true /\ s8 c = c.
Proof.
  unfold is_digit. intros Hd. split; [|apply s8_low; lia].
  assert (Hb : is_byte c) by (unfold is_byte; lia).
  assert (Hx : negb (("0"%uchar <=? c) && (c <=? "9"%uchar)) || is_owned NUMBER c = true) by byte_eval c.
  revert Hx. by decide_Z.
Qed.

Lemma read_digits_spec rest : forall ds number, Forall is_digit ds -> ds <> [] ->
  read_digits (length ds) (ds ++ rest) number =
  (fold_left (fun a c => a * 10 + (c - "0"%uchar)) ds number, O, rest).
Proof.
  induction ds as [|c ds IH]; intros number Hd Hn; [done|]. inversion_clear Hd as [|? ? Hc Hd'].
  destruct (digit_owned c Hc) as [_ Hs]. cbn [length app read_digits fold_left]. rewrite Hs.
  destruct ds as [|c' ds]; [by destruct rest|]. cbn [length app].
  inversion_clear Hd' as [|? ? Hc' ?]. destruct (digit_owned c' Hc') as [-> _].
  apply IH; [by constructor|done].
Qed.

Lemma read_number_digits ds rest : Forall is_digit ds -> ds <> [] ->
  read_number (length ds) (ds ++ rest) true =
  Some (fold_left (fun a c => a * 10 + (c - "0"%uchar)) ds 0, rest).
Proof.
  intros Hd Hn. pose proof (read_digits_spec rest ds 0 Hd Hn) as Hr. unfold read_number.
  destruct ds as [|c ds]; [done|]. inversion_clear Hd as [|? ? Hc _].
  destruct (digit_owned c Hc) as [Ho _]. cbn [app] in *. rewrite Ho.
  assert (Hl : (length (c :: ds ++ rest) = length (c :: ds) + length rest)%nat)
    by (cbn [length]; by rewrite length_app).
  rewrite Hl, (proj2 (Nat.ltb_ge _ _)), Nat.min_l, Hr by lia. done.
Qed.

Lemma read_number_fixed n v rest : (0 < n)%nat -> 0 <= v < 10 ^ Z.of_nat n ->
  read_number n (fixed_digits n v [] ++ rest) true = Some (v, rest).
Proof.
  intros Hn Hv. destruct (fixed_digits_spec n v Hv) as (Hl & Hf & Hval).
  rewrite <- Hval at 2. rewrite <- Hl at 1. apply read_number_digits; [done|].
  intros E. rewrite E in Hl. simpl in Hl. lia.
Qed.

(** ** Formats whose directives have a fixed width *)

Definition numeric (d : Z) : bool := existsb (Z.eqb d) (bytes "%dHmMqSY").

Fixpoint numeric_format (fmt : list Z) : bool :=
  match fmt with
  | [] => true
  | f :: fmt1 =>
    if f =? "%"%uchar then
      match fmt1 with [] => false | d :: fmt2 => numeric d && numeric_format fmt2 end
    else numeric_format fmt1
  end.

(** What a directive stands for. *)
Definition directive_text (et : ExtendedTime) (d : Z) : list Z :=
  let t := base et in
  if d =? "d"%uchar then fixed_digits 2 (tm_mday t) []
  else if d =? "H"%uchar then fixed_digits 2 (tm_hour t) []
  else if d =? "m"%uchar then fixed_digits 2 (tm_mon t + 1) []
  else if d =? "M"%uchar then fixed_digits 2 (tm_min t) []
  else if d =? "q"%uchar then fixed_digits 6 (tm_usec et) []
  else if d =? "S"%uchar then fixed_digits 2 (tm_sec t) []
  else if d =? "Y"%uchar then fixed_digits 4 (tm_year t + 1900) []
  else [d].

(** Copies the field of a directive from [et] to [et0]. *)
Definition copy_field (et : ExtendedTime) (d : Z) (et0 : ExtendedTime) : ExtendedTime :=
  let t := base et in
  if d =? "d"%uchar then on_base (set_mday (tm_mday t)) et0
  else if d =? "H"%uchar then on_base (set_hour (tm_hour t)) et0
  else if d =? "m"%uchar then on_base (set_mon (tm_mon t)) et0
  else if d =? "M"%uchar then on_base (set_min (tm_min t)) et0
  else if d =? "q"%uchar then set_usec (tm_usec et) et0
  else if d =? "S"%uchar then on_base (set_sec (tm_sec t)) et0
  else if d =? "Y"%uchar then on_base (set_year (tm_year t)) et0
  else et0.

Fixpoint format_text (et : ExtendedTime) (fmt : list Z) : list Z :=
  match fmt with
  | [] => []
  | f :: fmt1 =>
    if f =? "%"%uchar then
      match fmt1 with [] => [] | d :: fmt2 => directive_text et d ++ format_text et fmt2 end
    else f :: format_text et fmt1
  end.

(** The fields a format mentions. *)
Fixpoint copy_fields (et : ExtendedTime) (fmt : list Z) (et0 : ExtendedTime) : ExtendedTime :=
  match fmt with
  | [] => et0
  | f :: fmt1 =>
    if f =? "%"%uchar then
      match fmt1 with [] => et0 | d :: fmt2 => copy_fields et fmt2 (copy_field et d et0) end
    else copy_fields et fmt1 et0
  end.

(** The years are those of four digits the parser accepts. *)
Definition fields_ok (et : ExtendedTime) : Prop :=
  70 <= tm_year (base et) < 8100 /\ 0 <= tm_mon (base et) < 12 /\
  1 <= tm_mday (base et) <= 31 /\ 0 <= tm_hour (base et) < 24 /\
  0 <= tm_min (base et) < 60 /\ 0 <= tm_sec (base et) < 60 /\ 0 <= tm_usec et < USEC_MAX.

#[export] Instance fields_ok_dec et : Decision (fields_ok et).
Proof. unfold fields_ok. apply _. Defined.

Lemma numeric_cases (Q : Z -> Prop) d : numeric d = true ->
  Forall Q (bytes "%dHmMqSY") -> Q d.
Proof.
  intros Hd HQ. unfold numeric in Hd. apply existsb_exists in Hd as (x & Hin & ->%Z.eqb_eq).
  rewrite Forall_forall in HQ. apply HQ. by apply list_elem_of_In.
Qed.

Lemma to_directive_numeric mktime gmtoff et d out L :
  fields_ok et -> numeric d = true ->
  to_directive mktime gmtoff d et out L = Ret (add_str out L (directive_text et d)).
Proof.
  intros (Hy & Hmo & _) Hd. apply (numeric_cases (fun d => to_directive mktime gmtoff d et out L =
    Ret (add_str out L (directive_text et d))) d Hd).
  let l := eval vm_compute in (bytes "%dHmMqSY") in change (bytes "%dHmMqSY") with l.
  repeat (apply List.Forall_cons; [unfold to_directive, directive_text; cbn [Z.eqb Pos.eqb orb];
    try rewrite arith_int by lia; done|]). apply List.Forall_nil.
Qed.

Lemma read_field_fixed n v rest ok error store et0 :
  (0 < n)%nat -> 0 <= v < 10 ^ Z.of_nat n -> ok v = true ->
  read_field n (fixed_digits n v [] ++ rest) true ok error store et0 = inr (store v et0, rest).
Proof. intros Hn Hv Hok. unfold read_field. by rewrite read_number_fixed, Hok. Qed.

Lemma from_directive_numeric et et0 d rest :
  numeric d = true -> fields_ok et ->
  from_directive d true et0 (directive_text et d ++ rest) = inr (copy_field et d et0, rest).
Proof.
  intros Hd (Hy & Hmo & Hmd & Hh & Hmi & Hs & Hu). unfold USEC_MAX in Hu.
  apply (numeric_cases (fun d => from_directive d true et0 (directive_text et d ++ rest) =
    inr (copy_field et d et0, rest)) d Hd).
  let l := eval vm_compute in (bytes "%dHmMqSY") in change (bytes "%dHmMqSY") with l.
  constructor; [done|].
  repeat (constructor; [unfold from_directive, directive_text, copy_field; cbn [Z.eqb Pos.eqb orb];
    rewrite read_field_fixed; [repeat f_equal; lia|lia|simpl; lia|unfold USEC_MAX; by decide_Z]|]).
  constructor.
Qed.

Lemma add_str_fits out L s : (length out + length s <= L)%nat -> add_str out L s = Some (out ++ s).
Proof. intros H. unfold add_str. by rewrite (proj2 (Nat.ltb_ge _ _)) by lia. Qed.

Lemma to_str_loop_numeric et L directive :
  (forall d out, numeric d = true -> directive d out = Ret (add_str out L (directive_text et d))) ->
  forall n fmt out, (length fmt <= n)%nat -> numeric_format fmt = true ->
  (length out + length (format_text et fmt) <= L)%nat ->
  to_str_loop directive fmt L out = Ret (Some (out ++ format_text et fmt)).
Proof.
  intros Hd. induction n as [|n IH]; intros [|f fmt] out Hn Hf Hl;
    try (simpl in Hn; lia); try (cbn; by rewrite app_nil_r).
  cbn [length to_str_loop format_text numeric_format] in *. destruct (f =? "%"%uchar).
  - destruct fmt as [|d fmt]; [done|]. apply andb_true_iff in Hf as [Hf1 Hf2].
    rewrite length_app in Hl. rewrite Hd, add_str_fits by (done || lia). cbn [obind length] in *.
    rewrite IH, <- app_assoc; [done|lia|done|]. rewrite length_app. lia.
  - cbn [length] in Hl. rewrite add_str_fits by (simpl; lia).
    rewrite IH, <- app_assoc; [done|lia|done|]. rewrite length_app. simpl. lia.
Qed.

Lemma from_str_numeric et : fields_ok et -> forall n fmt et0 rest,
  (length fmt <= n)%nat -> numeric_format fmt = true ->
  from_str_ fmt true et0 (format_text et fmt ++ rest) = inr (copy_fields et fmt et0).
Proof.
  intros Hok. induction n as [|n IH]; intros [|f fmt] et0 rest Hn Hf;
    try (simpl in Hn; lia); try done.
  cbn [length from_str_ format_text numeric_format copy_fields] in *. destruct (f =? "%"%uchar) eqn:E.
  - destruct fmt as [|d fmt]; [done|]. apply andb_true_iff in Hf as [Hf1 Hf2].
    rewrite <- app_assoc, from_directive_numeric by done. cbn [length] in Hn. apply IH; [lia|done].
  - cbn [negb andb app]. rewrite Z.eqb_refl. apply IH; [lia|done].
Qed.

(** The room a format needs. *)
Definition directive_width (d : Z) : nat :=
  if d =? "q"%uchar then 6 else if d =? "Y"%uchar then 4 else if d =? "%"%uchar then 1 else 2.

Fixpoint format_width (fmt : list Z) : nat :=
  match fmt with
  | [] => 0
  | f :: fmt1 =>
    if f =? "%"%uchar then
      match fmt1 with [] => 0 | d :: fmt2 => directive_width d + format_width fmt2 end
    else S (format_width fmt1)
  end.

Lemma length_directive_text et d : fields_ok et -> numeric d = true ->
  length (directive_text et d) = directive_width d.
Proof.
  intros (Hy & Hmo & Hmd & Hh & Hmi & Hs & Hu) Hd. unfold USEC_MAX in Hu.
  apply (numeric_cases (fun d => length (directive_text et d) = directive_width d) d Hd).
  let l := eval vm_compute in (bytes "%dHmMqSY") in change (bytes "%dHmMqSY") with l.
  constructor; [done|].
  repeat (constructor; [unfold directive_text, directive_width; cbn [Z.eqb Pos.eqb];
    apply fixed_digits_spec; simpl; lia|]).
  constructor.
Qed.

Lemma length_format_text et : fields_ok et -> forall n fmt,
  (length fmt <= n)%nat -> numeric_format fmt = true ->
  length (format_text et fmt) = format_width fmt.
Proof.
  intros Hok. induction n as [|n IH]; intros [|f fmt] Hn Hf; try (simpl in Hn; lia); try done.
  cbn [length format_text format_width numeric_format] in *. destruct (f =? "%"%uchar).
  - destruct fmt as [|d fmt]; [done|]. apply andb_true_iff in Hf as [Hf1 Hf2].
    cbn [length] in Hn. rewrite length_app, length_directive_text, IH by (done || lia). done.
  - cbn [length]. rewrite IH by (done || lia). done.
Qed.

Lemma to_nested_numeric mktime gmtoff et fmt out :
  fields_ok et -> numeric_format fmt = true -> (0 < format_width fmt)%nat ->
  (length out + format_width fmt <= 256)%nat ->
  to_nested mktime gmtoff et fmt out 256 = Ret (Some (out ++ format_text et fmt)).
Proof.
  intros Hok Hf Hn Hlen. unfold to_nested, to_str_plain.
  pose proof (length_format_text et Hok (length fmt) fmt ltac:(lia) Hf) as Hl.
  rewrite (to_str_loop_numeric et (256 - length out) _ ltac:(intros; by apply to_directive_numeric)
    (length fmt)) by (done || simpl; lia).
  cbn [obind app]. destruct (format_text et fmt); [simpl in Hl; lia|done].
Qed.

Lemma to_str_numeric mktime gmtoff et L fmt :
  fields_ok et -> numeric_format fmt = true -> (format_width fmt <= L)%nat ->
  to_str_ mktime gmtoff et L fmt = Ret (Some (format_text et fmt)).
Proof.
  intros Hok Hf Hl. unfold to_str_.
  rewrite (to_str_loop_numeric et L _) with (n := length fmt); [done| |lia|done|].
  - intros d out Hd. rewrite <- (to_directive_numeric mktime gmtoff) by done.
    apply (numeric_cases (fun d => (if d =? "F"%uchar then _ else if d =? "T"%uchar then _ else _) = _) d Hd).
    repeat constructor.
  - rewrite (length_format_text et Hok (length fmt)) by (done || lia). simpl. lia.
Qed.

(** [%F %T] is the long format. *)
Lemma gm_ft_text mktime gmtoff et :
  fields_ok et ->
  to_str_ mktime gmtoff et 256 (bytes "%F %T") =
  Ret (Some (format_text et (bytes "%Y-%m-%d %H:%M:%S"))).
Proof.
  intros Hok. unfold to_str_.
  change (bytes "%F %T") with ["%"%uchar; "F"%uchar; " "%uchar; "%"%uchar; "T"%uchar].
  pose proof (to_nested_numeric mktime gmtoff et (bytes "%Y-%m-%d") [] Hok eq_refl
    ltac:(vm_compute; lia) ltac:(vm_compute; lia)) as H1.
  pose proof (length_format_text et Hok 8 (bytes "%Y-%m-%d") ltac:(vm_compute; lia) eq_refl) as Hl.
  change (format_width (bytes "%Y-%m-%d")) with 10%nat in Hl.
  cbn [to_str_loop Z.eqb Pos.eqb]. rewrite H1. cbn [obind app].
  rewrite add_str_fits by (rewrite Hl; simpl; lia).
  rewrite to_nested_numeric; [|done|done|vm_compute; lia|].
  - reflexivity.
  - rewrite length_app, Hl. vm_compute. lia.
Qed.

Lemma gm_fields_ok t : 0 <= tv_sec t < 253402300800 -> normalized t ->
  fields_ok {| base := time_to_gm (tv_sec t); tm_usec := tv_usec t; timezone := TZ_GMT |}.
Proof.
  intros Ht Hn. destruct (time_to_gm_spec (tv_sec t)) as (y & yday & Hy0 & Hyd & E & ->).
  { change time_limit with 67769427761049600. lia. }
  destruct (month_of_day _ _ Hyd) as [Hm Hd]. unfold fields_ok. cbn -[Z.div Z.modulo].
  assert (Hml : month_length (leap_of y) (month_of (leap_of y) yday) <= 31).
  { revert Hm. generalize (month_of (leap_of y) yday). intros m Hm.
    apply (bool_decide_eq_true_1 _). revert m Hm. destruct (leap_of y);
      [apply (forall_below 12 (fun m => bool_decide (month_length true m <= 31)))
      |apply (forall_below 12 (fun m => bool_decide (month_length false m <= 31)))];
      vm_compute; reflexivity. }
  assert (Hy : y < 8030) by (unfold year_start in E; zlia).
  unfold normalized in Hn. repeat split; zlia.
Qed.

(** ** Properties *)



(** [Time::set_ft] reads what [Time::gm_ft] prints: every time from the
    epoch to the year 9999 comes back with its fraction of a second dropped. *)
Theorem gm_ft_set_ft (mktime gmtoff : tm -> Z) (t : Time) :
  0 <= tv_sec t < 253402300800 -> normalized t ->
  exists s, gm_ft mktime gmtoff t = Ret s /\ set_ft mktime s true = Ret (mkTime (tv_sec t) 0).
Proof.
  intros Ht Hn. pose proof (gm_fields_ok t Ht Hn) as Hok.
  set (et := {| base := time_to_gm (tv_sec t); tm_usec := tv_usec t; timezone := TZ_GMT |}) in *.
  exists (format_text et (bytes "%Y-%m-%d %H:%M:%S")). split.
  - unfold gm_ft, format. fold et. rewrite gm_ft_text by done. cbn [obind].
    pose proof (length_format_text et Hok 17 (bytes "%Y-%m-%d %H:%M:%S") ltac:(vm_compute; lia) eq_refl) as Hl.
    by destruct (format_text et _).
  - unfold set_ft, Time_set. rewrite <- (app_nil_r (format_text et _)).
    rewrite (from_str_numeric et Hok 17) by (done || (vm_compute; lia)). unfold to_Time.
    change (timezone (copy_fields et _ _)) with TZ_GMT. cbv iota.
    match goal with |- context [gm_to_time ?x] =>
      assert (E : gm_to_time x = gm_to_time (time_to_gm (tv_sec t))) by reflexivity; rewrite E end.
    destruct (gm_to_time_inverse (tv_sec t)) as [-> _]; [change time_limit with 67769427761049600; lia|].
    reflexivity.
Qed.

Lemma gm_ft_set_ft_witness :
  exists s, gm_ft (fun _ => 0) (fun _ => 0) (mkTime 1700000000 5) = Ret s /\
    set_ft (fun _ => 0) s true = Ret (mkTime 1700000000 0).
Proof. apply (gm_ft_set_ft (fun _ => 0) (fun _ => 0) (mkTime 1700000000 5)); [cbn; lia|by_eval]. Defined.
