(* ===== verification/HttpCookie.v ===== *)
(** * HttpCookie: cookies in HTTP headers

    Models [src/HTTP/HTTPCookie.cpp], [src/HTTP/HTTPCookie.hpp] and the headers of
    [src/HTTP/HttpMisc.hpp]: reading of [Set-Cookie] and [Cookie] headers into lists of
    cookies, expiration, and writing of the headers.

    [CookieDef] and [PersistentCookieDef] differ in who owns the characters and have one
    model, so [CookieDefList] and [ClientCookieFacility] share the functions of the unnamed
    namespace.  The clock is an argument: [now] is the time of the call.  A list keeps what
    it got before an exception, so the results carry the list beside the exception. *)
From S2P Require Import Prelude AsciiManip Tokenizer TextOps IntStr Url HttpAddress Time TimeFormat.
Local Open Scope Z_scope.
Local Open Scope outcome_scope.

(** ** Data *)

Record Header : Type := { header_name : list Z; header_value : list Z }.

Record Cookie : Type := { name : list Z; value : list Z }.

Record CookieDef : Type := {
  cookie :> Cookie; cookie_domain : list Z; cookie_path : list Z; expires : Time; secure : bool
}.

Definition ZERO : Time := mkTime 0 0.

Definition CookieDef_ : CookieDef :=
  {| cookie := {| name := []; value := [] |}; cookie_domain := []; cookie_path := []; expires := ZERO; secure := false |}.

Definition SECURE : list Z := bytes "secure".
Definition CPATH : list Z := bytes "path".
Definition CDOMAIN : list Z := bytes "domain".
Definition EXPIRES : list Z := bytes "expires".
Definition SET_COOKIE : list Z := bytes "Set-Cookie".
Definition COOKIE : list Z := bytes "Cookie".

(** [==] of [std::string] and [SubString] *)
Definition equal (a b : list Z) : bool := bool_decide (a = b).

(** ** Dates *)

(** [operator >>] of [std::istream] for a word and for an [int]: the result and the rest of
    the text; [None] sets [failbit].  The stream is at its end when the rest is empty. *)
Definition skip_ws (s : list Z) : list Z := find_nonowned SPACE s.

Definition extract_word (s : list Z) : option (list Z * list Z) :=
  match skip_ws s with
  | [] => None
  | s => let rest := find_owned SPACE s in Some (range s rest, rest)
  end.

Definition extract_int (s : list Z) : option (Z * list Z) :=
  let s := skip_ws s in
  let '(neg, s) :=
    match s with
    | c :: s' => if c =? "-"%uchar then (true, s') else if c =? "+"%uchar then (false, s') else (false, s)
    | [] => (false, [])
    end in
  let rest := find_nonowned NUMBER s in
  match range s rest with
  | [] => None
  | ds =>
    match dec_from 0 ds with
    | Some v => let v := if neg : bool then - v else v in if in_type int32_t v then Some (v, rest) else None
    | None => None
    end
  end.

(** [parser >> field; if (!parser || !parser.eof()) throw] *)
Definition read_int (token : list Z) : outcome Z :=
  match extract_int token with
  | Some (v, []) => Ret v
  | _ => Throw (InvalidArgument "number")
  end.

Definition SepMinus : Char1 := {| symbol := "-"%uchar |}.
Definition SepColon : Char1 := {| symbol := ":"%uchar |}.

(** day, month and year *)
Definition read_date (date : list Z) : outcome (Z * Z * Z) :=
  let* (token, tokenizer) := get_token SepMinus false (SplitterState_ date) in
  match token with
  | None => Ret (0, 0, 0)
  | Some token =>
    let* day := read_int token in
    let* (token, tokenizer) := get_token SepMinus false tokenizer in
    match token with
    | None => Ret (day, 0, 0)
    | Some token =>
      let* m := month_of_name token in
      let month := m + 1 in
      let* (token, _) := get_token SepMinus false tokenizer in
      match token with
      | None => Ret (day, month, 0)
      | Some token =>
        let* year := read_int token in
        Ret (day, month, if year <? 100 then year + 2000 else year)
      end
    end
  end.

(** hours, minutes and seconds *)
Definition read_time (time : list Z) : outcome (Z * Z * Z) :=
  let* (token, tokenizer) := get_token SepColon false (SplitterState_ time) in
  match token with
  | None => Ret (0, 0, 0)
  | Some token =>
    let* hours := read_int token in
    let* (token, tokenizer) := get_token SepColon false tokenizer in
    match token with
    | None => Ret (hours, 0, 0)
    | Some token =>
      let* minutes := read_int token in
      let* (token, _) := get_token SepColon false tokenizer in
      match token with
      | None => Ret (hours, minutes, 0)
      | Some token => let* seconds := read_int token in Ret (hours, minutes, seconds)
      end
    end
  end.

(** The zone of the result is GMT, so [mktime] is not called. *)
Definition get_expires (value : list Z) : outcome Time :=
  match (w1 ← extract_word value; w2 ← extract_word w1.2; w3 ← extract_word w2.2; Some (w2.1, w3.1)) with
  | None => Throw (InvalidArgument "expires")
  | Some (date, time) =>
    let* (day, month, year) := read_date date in
    if (day <? 1) || (31 <? day) || (month <? 1) || (12 <? month) || (year <? 1900)
    then Throw (InvalidArgument "invalid date")
    else
      let* (hours, minutes, seconds) := read_time time in
      let* et := ExtendedTime_of_fields year month day hours minutes seconds 0 in
      to_Time (fun _ => 0) et
  end.

(** [%02i] *)
Definition pad2 (v : Z) : list Z := if (0 <=? v) && (v <? 10) then bytes "0" ++ decimal_text v else decimal_text v.

(** The text is far shorter than the buffer of 128 characters. *)
Definition cookie_date (tim : Time) (show_usec : bool) : outcome (list Z) :=
  let t := time_to_gm (tv_sec tim) in
  let* wday := week_day_name (tm_wday t) in
  let* mon := month_name (tm_mon t) in
  let* year := arith int32_t (tm_year t + 1900) in
  let out := wday ++ bytes ", " ++ decimal_text (tm_mday t) ++ bytes "-" ++ mon ++ bytes "-" ++
    decimal_text year ++ bytes " " ++ pad2 (tm_hour t) ++ bytes ":" ++ pad2 (tm_min t) ++ bytes ":" ++
    pad2 (tm_sec t) in
  Ret (out ++ (if show_usec && negb (tv_usec tim =? 0) then bytes "." ++ fixed_digits 6 (tv_usec tim) [] ++ bytes " GMT"
               else bytes " GMT")).

(** ** Set-Cookie headers *)

Definition address_path (a : HTTPAddress) : list Z := text (path (parts_ (address a))).
Definition address_host (a : HTTPAddress) : list Z := text (host (parts_ (address a))).

(** What [parse_value] changes. *)
Record ParseState : Type := {
  list_ : list CookieDef; ps_cookie : CookieDef; control_info : bool; expired : bool
}.

Definition set_cookie (st : ParseState) (c : CookieDef) : ParseState :=
  {| list_ := list_ st; ps_cookie := c; control_info := control_info st; expired := expired st |}.

Definition with_domain (c : CookieDef) (d : list Z) : CookieDef :=
  {| cookie := c; cookie_domain := d; cookie_path := cookie_path c; expires := expires c; secure := secure c |}.

Definition with_path_ (c : CookieDef) (p : list Z) : CookieDef :=
  {| cookie := c; cookie_domain := cookie_domain c; cookie_path := p; expires := expires c; secure := secure c |}.

Definition with_expires (c : CookieDef) (e : Time) : CookieDef :=
  {| cookie := c; cookie_domain := cookie_domain c; cookie_path := cookie_path c; expires := e; secure := secure c |}.

Definition with_secure (c : CookieDef) (s : bool) : CookieDef :=
  {| cookie := c; cookie_domain := cookie_domain c; cookie_path := cookie_path c; expires := expires c; secure := s |}.

Definition with_value (c : CookieDef) (n v : list Z) : CookieDef :=
  {| cookie := {| name := n; value := v |}; cookie_domain := cookie_domain c; cookie_path := cookie_path c;
     expires := expires c; secure := secure c |}.

(** The defaults that end the control information. *)
Definition complete (url_address : HTTPAddress) (c : CookieDef) : CookieDef :=
  let c := match cookie_path c with
           | [] => with_path_ c (address_path url_address)
           | p => if equal p (bytes "\") then with_path_ c DEFAULT_PATH else c
           end in
  match cookie_domain c with
  | [] => with_domain c (address_host url_address)
  | d => if equal d (bytes ".") then with_domain c (address_host url_address) else c
  end.

Section Load.
Context (now : Time).

(** The branch [if (control_info)]. *)
Definition parse_control (url_address : HTTPAddress) (n v : list Z) (st : ParseState) : outcome ParseState :=
  let c := ps_cookie st in
  if Caseless_equal SECURE n then Ret (set_cookie st (with_secure c true))
  else if Caseless_equal CPATH n then Ret (set_cookie st (with_path_ c v))
  else if Caseless_equal CDOMAIN n then Ret (set_cookie st (with_domain c v))
  else if Caseless_equal EXPIRES n then
    let* e := get_expires v in
    Ret {| list_ := list_ st; ps_cookie := with_expires c e; control_info := control_info st; expired := Time_lt e now |}
  else Ret {| list_ := list_ st; ps_cookie := complete url_address c; control_info := false; expired := expired st |}.

Definition same_cookie (it c : CookieDef) : bool :=
  Caseless_equal (cookie_domain c) (cookie_domain it) && equal (cookie_path it) (cookie_path c) && equal (name it) (name c).

(** The search of the list: [None] is [it == list.end()]. *)
Fixpoint replace_cookie (c : CookieDef) (l : list CookieDef) : option (list CookieDef) :=
  match l with
  | [] => None
  | it :: l' => if same_cookie it c then Some (c :: l') else cons it <$> replace_cookie c l'
  end.

(** The branch [if (!control_info)].  After [list.erase(it)] the loop is left and [it] is
    compared with [list.end()], which is undefined. *)
Definition store_cookie (keep_expired : bool) (n v : list Z) (st : ParseState) : outcome ParseState :=
  let c := with_value (ps_cookie st) n v in
  let* l := match replace_cookie c (list_ st) with
            | Some l => if expired st && negb keep_expired then Undef else Ret l
            | None => Ret (if negb (expired st) || keep_expired then c :: list_ st else list_ st)
            end in
  Ret {| list_ := l; ps_cookie := c; control_info := control_info st; expired := expired st |}.

(** [parse_value], with the name and the value cut out of the header. *)
Definition parse_value (url_address : HTTPAddress) (keep_expired : bool) (n v : list Z) (st : ParseState)
    : outcome (ParseState * option exn) :=
  let* n := trim n SPACE in
  let* v := trim v SPACE in
  match n with
  | [] => Ret (st, None)
  | _ =>
    match (if control_info st then parse_control url_address n v st else Ret st) with
    | Ret st =>
      if control_info st then Ret (st, None)
      else let* st := store_cookie keep_expired n v st in Ret (st, None)
    | Throw e => Ret (st, Some e)
    | Undef => Undef
    end
  end.

(** The characters of [[b, e)]. *)
Definition slice (s : list Z) (b e : nat) : list Z := take (e - b) (drop b s).

(** The loop over the header from its end: [b] is [itor.base() - HEADER.begin()], [*itor] is
    the character before it. *)
Fixpoint header_loop (url_address : HTTPAddress) (keep_expired : bool) (HEADER : list Z) (b cookie_end : nat)
    (sep : option nat) (st : ParseState) : outcome (ParseState * option exn) :=
  let parse st :=
    if (b =? length HEADER)%nat then Ret (st, None)
    else
      match sep with
      | Some p => parse_value url_address keep_expired (slice HEADER b (p - 1)) (slice HEADER p cookie_end) st
      | None => parse_value url_address keep_expired (slice HEADER b cookie_end) [] st
      end in
  match b with
  | O => parse st
  | S b' =>
    let* ch := rd HEADER b' in
    if ch =? ";"%uchar then
      let* (st, error) := parse st in
      match error with
      | Some e => Ret (st, Some e)
      | None => header_loop url_address keep_expired HEADER b' b' None st
      end
    else if ch =? "="%uchar then header_loop url_address keep_expired HEADER b' cookie_end (Some b) st
    else header_loop url_address keep_expired HEADER b' cookie_end sep st
  end.

Fixpoint load_from_headers (l : list CookieDef) (headers : list Header) (url_address : HTTPAddress) (keep_expired : bool)
    : outcome (list CookieDef * option exn) :=
  match headers with
  | [] => Ret (l, None)
  | it :: headers' =>
    if negb (Caseless_equal SET_COOKIE (header_name it)) then load_from_headers l headers' url_address keep_expired
    else
      let HEADER := header_value it in
      let st := {| list_ := l; ps_cookie := with_secure CookieDef_ (secure_ url_address); control_info := true;
                   expired := false |} in
      let* (st, error) := header_loop url_address keep_expired HEADER (length HEADER) (length HEADER) None st in
      match error with
      | Some e => Ret (list_ st, Some e)
      | None => load_from_headers (list_ st) headers' url_address keep_expired
      end
  end.

(** ** Expiration and the Cookie header *)

Definition is_expired (session_cookies : bool) (c : CookieDef) : bool :=
  if Time_eq (expires c) ZERO then session_cookies else Time_lt (expires c) now.

Definition expire (l : list CookieDef) (session_cookies : bool) : list CookieDef :=
  List.filter (fun c => negb (is_expired session_cookies c)) l.

Definition CookieDefList_expire_ (keep_expired_ : bool) (l : list CookieDef) (session_cookies : bool) : list CookieDef :=
  if keep_expired_ then l else expire l session_cookies.
End Load.

(** The tests of [cookie_header] *)
Definition is_sent (url_address : HTTPAddress) (it : CookieDef) : outcome bool :=
  let host := address_host url_address in
  let domain_len := length (cookie_domain it) in
  if (secure it && negb (secure_ url_address)) || (length host <? domain_len)%nat then Ret false
  else
    let* tail := substr host (length host - domain_len) domain_len in
    if negb (Caseless_equal (cookie_domain it) tail) then Ret false
    else
      let* p := substr (address_path url_address) 0 (length (cookie_path it)) in
      Ret (equal p (cookie_path it)).

Fixpoint cookie_header_loop (l : list CookieDef) (url_address : HTTPAddress) (result : list Z) (is_empty : bool)
    : outcome (list Z) :=
  match l with
  | [] => Ret result
  | it :: l' =>
    let* sent := is_sent url_address it in
    if negb sent then cookie_header_loop l' url_address result is_empty
    else
      let result := if negb is_empty then result ++ bytes "; " else result in
      cookie_header_loop l' url_address (result ++ name it ++ bytes "=" ++ value it) false
  end.

Definition cookie_header (l : list CookieDef) (url_address : HTTPAddress) : outcome (list Z) :=
  cookie_header_loop l url_address [] true.

(** The list after the call and the header. *)
Definition CookieDefList_cookie_header (now : Time) (keep_expired_ : bool) (l : list CookieDef) (url_address : HTTPAddress)
    : outcome (list CookieDef * list Z) :=
  let l := CookieDefList_expire_ now keep_expired_ l false in
  let* h := cookie_header l url_address in Ret (l, h).

Definition ClientCookieFacility_cookie_header (now : Time) (l : list CookieDef) (url_address : HTTPAddress)
    : outcome (list CookieDef * list Z) :=
  let l := expire now l false in
  let* h := cookie_header l url_address in Ret (l, h).

Definition end_session (now : Time) (l : list CookieDef) : list CookieDef := expire now l true.

(** ** Writing of Set-Cookie headers *)

(** The attributes behind the cookies. *)
Definition attributes (c : CookieDef) : outcome (list Z) :=
  let* e := if negb (Time_eq (expires c) ZERO) then let* d := cookie_date (expires c) false in Ret (bytes "; expires=" ++ d)
            else Ret [] in
  Ret (e ++
    (if negb (is_nil (cookie_domain c)) then bytes "; domain=" ++ cookie_domain c else []) ++
    (if negb (is_nil (cookie_path c)) then bytes "; path=" ++ cookie_path c else []) ++
    (if secure c then bytes "; secure" else [])).

Definition cookie_header_plain (c : CookieDef) : outcome (list Z) :=
  let* a := attributes c in Ret (name c ++ bytes "=" ++ value c ++ a).

(** The headers that are appended. *)
Fixpoint set_cookie_header_plain (l : list CookieDef) : outcome (list Header) :=
  match l with
  | [] => Ret []
  | it :: l' =>
    let* header := cookie_header_plain it in
    let* headers := set_cookie_header_plain l' in
    Ret ({| header_name := SET_COOKIE; header_value := header |} :: headers)
  end.

(** Cookies that share a header. *)
Definition same_attributes (it c : CookieDef) : bool :=
  Caseless_equal (cookie_domain it) (cookie_domain c) && equal (cookie_path it) (cookie_path c) &&
  Time_eq (expires it) (expires c) && Bool.eqb (secure it) (secure c).

(** The inner loop: the header, and the cookies that stay in the list. *)
Fixpoint group_loop (c : CookieDef) (cookies : list CookieDef) (first : bool) (header : list Z) : list Z * list CookieDef :=
  match cookies with
  | [] => (header, [])
  | it :: cookies' =>
    if same_attributes it c then
      group_loop c cookies' false ((if first then header else header ++ bytes "; ") ++ name it ++ bytes "=" ++ value it)
    else
      let '(header, rest) := group_loop c cookies' first header in (header, it :: rest)
  end.

Fixpoint set_cookie_loop (fuel : nat) (cookies : list CookieDef) : outcome (list Header) :=
  match cookies with
  | [] => Ret []
  | c :: _ =>
    match fuel with
    | O => Undef
    | S fuel' =>
      let '(header, cookies) := group_loop c cookies true [] in
      let* a := attributes c in
      let* headers := set_cookie_loop fuel' cookies in
      Ret ({| header_name := SET_COOKIE; header_value := header ++ a |} :: headers)
    end
  end.

Definition set_cookie_header (l : list CookieDef) : outcome (list Header) := set_cookie_loop (length l) l.

(** ** CookieList *)

(** The separator of cookies: a semicolon or a comma with a space behind it.  Only the
    splitter with empty tokens uses it, which does not call [find_nonowned]. *)
Inductive CookieSep : Type := CookieSep_.

Fixpoint find_sep (begin : list Z) : option (list Z * nat) :=
  match begin with
  | [] => Some ([], O)
  | ch :: next =>
    if negb (ch =? ";"%uchar) && negb (ch =? ","%uchar) then find_sep next
    else
      match next with
      | [] => Some ([], O)
      | ch' :: _ => if ch' =? " "%uchar then Some (begin, 2%nat) else find_sep next
      end
  end.

#[export] Instance CookieSep_category : Category CookieSep := {
  cat_find_owned := fun _ s => Ret (find_sep s);
  cat_find_nonowned := fun _ _ => Undef
}.

(** The loop over the list: [None] when there is no such name. *)
Fixpoint replace_value (n v : list Z) (l : list Cookie) : option (list Cookie) :=
  match l with
  | [] => None
  | it :: l' => if equal n (name it) then Some ({| name := name it; value := v |} :: l') else cons it <$> replace_value n v l'
  end.

Definition add_cookie (replace_duplicate : bool) (n v : list Z) (l : list Cookie) : list Cookie :=
  let found := if replace_duplicate then None else replace_value n v l in
  match found with
  | Some l => l
  | None => l ++ [{| name := n; value := v |}]
  end.

(** One token of a [Cookie] header. *)
Definition load_cookie (replace_duplicate : bool) (cookie : list Z) (l : list Cookie) : outcome (list Cookie) :=
  match cookie with
  | [] => Ret l
  | _ =>
    match SubString_find_char cookie "="%uchar 0 with
    | None => Throw (InvalidArgument "invalid cookie format")
    | Some pos =>
      let* n := substr cookie 0 pos in
      let* n := trim n SPACE in
      match n with
      | [] => Throw (InvalidArgument "empty cookie name")
      | _ =>
        let* v := substr cookie (pos + 1) (length cookie) in
        let* v := trim v SPACE in
        Ret (add_cookie replace_duplicate n v l)
      end
    end
  end.

Fixpoint cookies_loop (fuel : nat) (replace_duplicate : bool) (tokenizer : SplitterState) (l : list Cookie)
    : outcome (list Cookie * option exn) :=
  match fuel with
  | O => Undef
  | S fuel' =>
    let* (token, tokenizer) := get_token CookieSep_ true tokenizer in
    match token with
    | None => Ret (l, None)
    | Some token =>
      match load_cookie replace_duplicate token l with
      | Ret l => cookies_loop fuel' replace_duplicate tokenizer l
      | Throw e => Ret (l, Some e)
      | Undef => Undef
      end
    end
  end.

Fixpoint CookieList_load_from_headers_ (l : list Cookie) (headers : list Header) (replace_duplicate : bool)
    : outcome (list Cookie * option exn) :=
  match headers with
  | [] => Ret (l, None)
  | it :: headers' =>
    if negb (Caseless_equal COOKIE (header_name it)) then CookieList_load_from_headers_ l headers' replace_duplicate
    else
      let* header := trim (header_value it) SPACE in
      let* (l, error) := cookies_loop (S (length header)) replace_duplicate (SplitterState_ header) l in
      match error with
      | Some e => Ret (l, Some e)
      | None => CookieList_load_from_headers_ l headers' replace_duplicate
      end
  end.

Fixpoint CookieList_header_loop (l : list Cookie) (result : list Z) (is_empty : bool) : list Z :=
  match l with
  | [] => result
  | it :: l' =>
    let result := if negb is_empty then result ++ bytes "; " else result in
    CookieList_header_loop l' (result ++ name it ++ bytes "=" ++ value it) false
  end.

Definition CookieList_cookie_header (l : list Cookie) : list Z := CookieList_header_loop l [] true.

(** ** Facts *)

(** *** The scan of a Set-Cookie header *)

(** A segment at its first [=]. *)
Definition cut_value (s : list Z) : list Z * list Z :=
  match index "="%uchar s with
  | Some i => (take i s, drop (i + 1) s)
  | None => (s, [])
  end.

Lemma cut_value_at a b : ~ In "="%uchar a -> cut_value (a ++ "="%uchar :: b) = (a, b).
Proof.
  intros Hi. unfold cut_value. rewrite index_app by done. cbn [index]. rewrite Z.eqb_refl. cbn [fmap option_fmap option_map].
  rewrite Nat.add_0_r, take_app_length, <- drop_drop, drop_app_length. done.
Qed.

Section Scan.
Context (now : Time) (url_address : HTTPAddress) (keep_expired : bool).

Definition parse_segment (st : ParseState) (s : list Z) : outcome (ParseState * option exn) :=
  let '(n, v) := cut_value s in parse_value now url_address keep_expired n v st.

(** The segments in the order of the loop. *)
Fixpoint parse_segments (segments : list (list Z)) (st : ParseState) : outcome (ParseState * option exn) :=
  match segments with
  | [] => Ret (st, None)
  | s :: segments' =>
    let* (st, error) := parse_segment st s in
    match error with
    | Some e => Ret (st, Some e)
    | None => parse_segments segments' st
    end
  end.

(** The end of a segment: what [parse_value] gets. *)
Lemma segment_end pre seen post st :
  (if (length pre =? length (pre ++ seen ++ post))%nat then Ret (st, None)
   else match (fun i => length pre + i + 1)%nat <$> index "="%uchar seen with
        | Some p => parse_value now url_address keep_expired (slice (pre ++ seen ++ post) (length pre) (p - 1))
            (slice (pre ++ seen ++ post) p (length pre + length seen)) st
        | None => parse_value now url_address keep_expired (slice (pre ++ seen ++ post) (length pre) (length pre + length seen)) [] st
        end) = parse_segment st seen.
Proof using.
  destruct (Nat.eqb_spec (length pre) (length (pre ++ seen ++ post))) as [E|_].
  { rewrite !length_app in E. destruct seen; [|cbn in E; lia]. done. }
  unfold parse_segment, cut_value, slice. pose proof (index_ok "="%uchar seen) as Hi. destruct (index "="%uchar seen) as [i|]; cbn [fmap option_fmap option_map].
  - destruct Hi as (x & y & -> & -> & _). rewrite take_app_length. f_equal.
    + rewrite drop_app_length. replace (length pre + length x + 1 - 1 - length pre)%nat with (length x) by lia.
      by rewrite <- app_assoc, take_app_length.
    + replace (length pre + length x + 1)%nat with (length (pre ++ x ++ ["="%uchar])) by (rewrite !length_app; cbn; lia).
      replace (pre ++ (x ++ "="%uchar :: y) ++ post) with ((pre ++ x ++ ["="%uchar]) ++ y ++ post) by by rewrite <- !app_assoc.
      rewrite drop_app_length. rewrite <- drop_drop, drop_app_length. cbn [drop]. rewrite take_app_length'; [done|].
      rewrite !length_app. cbn [length]. lia.
  - rewrite drop_app_length. replace (length pre + length seen - length pre)%nat with (length seen) by lia. by rewrite take_app_length.
Qed.

Lemma scan_segment s : ~ In ";"%uchar s -> forall pre seen post st,
  header_loop now url_address keep_expired ((pre ++ s) ++ seen ++ post) (length (pre ++ s)) (length (pre ++ s) + length seen)
    ((fun i => length (pre ++ s) + i + 1)%nat <$> index "="%uchar seen) st =
  header_loop now url_address keep_expired (pre ++ (s ++ seen) ++ post) (length pre) (length pre + length (s ++ seen))
    ((fun i => length pre + i + 1)%nat <$> index "="%uchar (s ++ seen)) st.
Proof using.
  induction s as [|c s IH] using rev_ind; intros Hs pre seen post st.
  { by rewrite !app_nil_r. }
  assert (Hc : c <> ";"%uchar) by (intros ->; apply Hs; apply in_or_app; right; by left).
  specialize (IH ltac:(intros H; apply Hs; apply in_or_app; by left) pre (c :: seen) post st).
  rewrite <- (app_assoc s [c]) in *. cbn [app] in *. rewrite <- IH.
  replace ((pre ++ s ++ [c]) ++ seen ++ post) with ((pre ++ s) ++ c :: seen ++ post) by by rewrite <- !app_assoc.
  replace (length (pre ++ s ++ [c])) with (S (length (pre ++ s))) by (rewrite !length_app; cbn; lia).
  cbn [header_loop]. rewrite rd_at. cbn [obind]. rewrite (proj2 (Z.eqb_neq _ _) Hc).
  cbn [length index]. replace (length (pre ++ s) + S (length seen))%nat with (S (length (pre ++ s)) + length seen)%nat by lia.
  destruct (c =? "="%uchar).
  - cbn [fmap option_fmap option_map]. f_equal. f_equal. lia.
  - f_equal. destruct (index "="%uchar seen); [|done]. cbn. f_equal. lia.
Qed.

(** The loop parses the segments between the semicolons from the last to the first. *)
Lemma header_loop_segments segs : segs <> [] -> Forall (fun s => ~ In ";"%uchar s) segs -> forall post st,
  (post = [] \/ exists p, post = ";"%uchar :: p) ->
  header_loop now url_address keep_expired (join ";"%uchar segs ++ post) (length (join ";"%uchar segs)) (length (join ";"%uchar segs)) None st =
  parse_segments (rev segs) st.
Proof using.
  intros Hn Hs. induction segs as [|s segs IH] using rev_ind; [done|]. intros post st Hpost.
  apply Forall_app in Hs as [Hss Hs]. inversion_clear Hs as [|? ? Hs0 _]. rewrite rev_app_distr. cbn [rev app parse_segments].
  destruct segs as [|s1 segs1] eqn:Es.
  - cbn [app join]. pose proof (scan_segment s Hs0 [] [] post st) as E. cbn [app length] in E. rewrite app_nil_r in E.
    rewrite Nat.add_0_r in E. change ((fun i => length s + i + 1)%nat <$> index "="%uchar []) with (@None nat) in E. rewrite E.
    pose proof (segment_end [] s post st) as E2. cbn [app length] in E2. cbn [header_loop]. rewrite E2.
    destruct (parse_segment st s) as [[st' [e|]]| |]; done.
  - rewrite <- Es in *. assert (Hne : segs <> []) by by rewrite Es.
    assert (Ej : join ";"%uchar (segs ++ [s]) = join ";"%uchar segs ++ ";"%uchar :: s).
    { clear - Hne. induction segs as [|a segs IH]; [done|]. destruct segs as [|b segs]; [done|].
      change (join ";"%uchar ((a :: b :: segs) ++ [s])) with (a ++ ";"%uchar :: join ";"%uchar ((b :: segs) ++ [s])).
      rewrite IH by done. change (join ";"%uchar (a :: b :: segs)) with (a ++ ";"%uchar :: join ";"%uchar (b :: segs)). by rewrite <- app_assoc. }
    rewrite Ej. set (J := join ";"%uchar segs) in *.
    pose proof (scan_segment s Hs0 (J ++ [";"%uchar]) [] post st) as E. cbn [app] in E.
    replace ((J ++ [";"%uchar]) ++ s) with (J ++ ";"%uchar :: s) in E by by rewrite <- app_assoc.
    cbn [length] in E. rewrite Nat.add_0_r in E.
    change ((fun i => length (J ++ ";"%uchar :: s) + i + 1)%nat <$> index "="%uchar []) with (@None nat) in E. rewrite E, app_nil_r.
    pose proof (segment_end (J ++ [";"%uchar]) s post st) as E2.
    replace (length (J ++ [";"%uchar])) with (S (length J)) in * by (rewrite length_app; cbn; lia).
    replace ((J ++ [";"%uchar]) ++ s ++ post) with (J ++ ";"%uchar :: s ++ post) in * by by rewrite <- app_assoc.
    cbn [header_loop]. rewrite rd_at. cbn [obind]. rewrite Z.eqb_refl. rewrite E2.
    destruct (parse_segment st s) as [[st' [e|]]| |]; cbn [obind]; [done| |done|done].
    apply (IH Hne Hss (";"%uchar :: s ++ post) st'). right. by eexists.
Qed.
End Scan.

(** *** Trimmed texts *)

Definition spaces (s : list Z) : Prop := Forall (fun c => is_owned SPACE c = true) s.

(** Neither end is a space. *)
Definition clean (t : list Z) : Prop :=
  (forall x r, t = x :: r -> is_owned SPACE x = false) /\ (forall x r, t = r ++ [x] -> is_owned SPACE x = false).

Lemma clean_nil : clean [].
Proof. split; [done|]. by intros x [|]. Qed.

Lemma spaces_prefix pre r a t : spaces pre -> spaces a -> (forall x r', r = x :: r' -> is_owned SPACE x = false) ->
  (forall x r', t = x :: r' -> is_owned SPACE x = false) -> r <> [] -> t <> [] -> pre ++ r = a ++ t -> r = t.
Proof.
  revert a. induction pre as [|c pre IH]; intros a Hp Ha Hr Ht Nr Nt E.
  - destruct a as [|d a]; [done|]. cbn in E. rewrite E in Hr. inversion_clear Ha as [|? ? Hd _]. by rewrite (Hr _ _ eq_refl) in Hd.
  - inversion_clear Hp as [|? ? Hc Hp']. destruct a as [|d a].
    + cbn in E. rewrite <- E in Ht. by rewrite (Ht _ _ eq_refl) in Hc.
    + inversion_clear Ha as [|? ? Hd Ha']. injection E as _ E. by apply (IH a).
Qed.

Lemma trim_clean a t b : spaces a -> clean t -> spaces b -> trim (a ++ t ++ b) SPACE = Ret t.
Proof.
  intros Ha [Ht1 Ht2] Hb. destruct (trim_correct (a ++ t ++ b) SPACE) as (pre & r & post & E & Et & Hp & Hq & Hr1 & Hr2). rewrite Et. f_equal.
  assert (Hall : r = [] -> t = []).
  { intros ->. cbn in E. destruct t as [|x t]; [done|]. assert (Hx : x ∈ pre ++ post) by (rewrite <- E; apply list_elem_of_In, in_or_app; right; by left).
    assert (Hs : spaces (pre ++ post)) by by apply Forall_app. unfold spaces in Hs; rewrite Forall_forall in Hs. specialize (Hs x Hx).
    by rewrite (Ht1 _ _ eq_refl) in Hs. }
  assert (Hall' : t = [] -> r = []).
  { intros ->. cbn in E. destruct r as [|x r]; [done|]. assert (Hx : x ∈ a ++ b) by (rewrite E; apply list_elem_of_In, in_or_app; right; by left).
    assert (Hs : spaces (a ++ b)) by by apply Forall_app. unfold spaces in Hs; rewrite Forall_forall in Hs. specialize (Hs x Hx).
    by rewrite (Hr1 _ _ eq_refl) in Hs. }
  destruct (decide (r = [])) as [Er|Nr]; [by rewrite Er, (Hall Er)|]. assert (Nt : t <> []) by by intros ->; auto.
  assert (E1 : r ++ post = t ++ b).
  { symmetry in E. apply (spaces_prefix pre _ a); try done; [| |by destruct r|by destruct t].
    - destruct r as [|x r]; [done|]. intros x' r' [= <- _]. by apply (Hr1 _ _ eq_refl).
    - destruct t as [|x t]; [done|]. intros x' r' [= <- _]. by apply (Ht1 _ _ eq_refl). }
  apply (f_equal (@rev Z)) in E1. rewrite !rev_app_distr in E1.
  apply (spaces_prefix (rev post) _ (rev b)) in E1.
  - by apply rev_inj.
  - by apply Forall_rev.
  - by apply Forall_rev.
  - intros x r' Ex. apply (Hr2 x (rev r')). rewrite <- (rev_involutive r), Ex. done.
  - intros x r' Ex. apply (Ht2 x (rev r')). rewrite <- (rev_involutive t), Ex. done.
  - intros Ex. apply Nr. rewrite <- (rev_involutive r), Ex. done.
  - intros Ex. apply Nt. rewrite <- (rev_involutive t), Ex. done.
Qed.

Lemma trim_own t : clean t -> trim t SPACE = Ret t.
Proof. intros Ht. pose proof (trim_clean [] t [] ltac:(constructor) Ht ltac:(constructor)) as E. by rewrite app_nil_r in E. Qed.

Lemma trim_after_space t : clean t -> trim (" "%uchar :: t) SPACE = Ret t.
Proof.
  intros Ht. pose proof (trim_clean [" "%uchar] t [] ltac:(by_eval) Ht ltac:(constructor)) as E. by rewrite app_nil_r in E.
Qed.

(** *** Dates *)

(** What a word of a date is made of. *)
Definition word_char (c : Z) : bool :=
  negb (is_owned SPACE c) && negb (c =? "-"%uchar) && negb (c =? ":"%uchar) && negb (c =? ";"%uchar) && negb (c =? "="%uchar).

Definition word (t : list Z) : bool := negb (is_nil t) && forallb word_char t.

(** A text that stands before the end or before a character of a category. *)
Definition ends_in {P} `{CharPredicate P} (c : P) (rest : list Z) : Prop :=
  match rest with [] => True | x :: _ => is_owned c x = true end.

Lemma find_owned_at {P} `{CharPredicate P} (c : P) t rest : Forall (fun x => is_owned c x = false) t -> ends_in c rest ->
  find_owned c (t ++ rest) = rest.
Proof.
  intros Ht Hr. induction Ht as [|x t Hx _ IH]; cbn [app find_owned].
  - destruct rest as [|x rest]; [done|]. cbn [find_owned]. cbn in Hr. by rewrite Hr.
  - by rewrite Hx.
Qed.

Lemma find_nonowned_at {P} `{CharPredicate P} (c : P) pre x t : Forall (fun x => is_owned c x = true) pre -> is_owned c x = false ->
  find_nonowned c (pre ++ x :: t) = x :: t.
Proof.
  intros Hp Hx. induction Hp as [|y pre Hy _ IH]; cbn [app find_nonowned].
  - by rewrite Hx.
  - by rewrite Hy.
Qed.

Lemma extract_word_at pre t rest : spaces pre -> t <> [] -> Forall (fun x => is_owned SPACE x = false) t -> ends_in SPACE rest ->
  extract_word (pre ++ t ++ rest) = Some (t, rest).
Proof.
  intros Hp Hn Ht Hr. destruct t as [|x t]; [done|]. inversion_clear Ht as [|? ? Hx Ht']. unfold extract_word, skip_ws. cbn [app].
  rewrite (find_nonowned_at SPACE pre x) by done. change (x :: t ++ rest) with ((x :: t) ++ rest).
  rewrite find_owned_at by first [done|by constructor]. by rewrite range_app.
Qed.

Lemma token_at {P} `{CharPredicate P} (c : P) pre t rest st : Forall (fun x => is_owned c x = true) pre -> t <> [] ->
  Forall (fun x => is_owned c x = false) t -> ends_in c rest -> str st = pre ++ t ++ rest ->
  get_token c false st = Ret (Some t, {| str := rest; separator := Some rest; error := error st |}).
Proof.
  intros Hp Hn Ht Hr E. destruct t as [|x t]; [done|]. inversion_clear Ht as [|? ? Hx Ht']. unfold get_token, get_token_nonempty.
  cbn [cat_find_nonowned cat_find_owned CharCategory obind]. rewrite E. cbn [app]. rewrite (find_nonowned_at c pre x) by done.
  unfold one_octet at 1. cbn [obind]. change (x :: t ++ rest) with ((x :: t) ++ rest). rewrite find_owned_at by first [done|by constructor].
  unfold one_octet. rewrite (proj2 (Nat.eqb_neq _ _)) by (rewrite length_app; cbn [length]; lia). by rewrite range_app.
Qed.

Lemma no_token {P} `{CharPredicate P} (c : P) st : str st = [] -> get_token c false st = Ret (None, st).
Proof. intros E. unfold get_token, get_token_nonempty. cbn. rewrite E. cbn. done. Qed.

(** The tokens between two separators. *)
Lemma three_tokens (sep : Z) a b d : let c := {| symbol := sep |} in
  Forall (fun t => t <> [] /\ Forall (fun x => is_owned c x = false) t) [a; b; d] ->
  exists s1 s2 s3, get_token c false (SplitterState_ (a ++ sep :: b ++ sep :: d)) = Ret (Some a, s1) /\
  get_token c false s1 = Ret (Some b, s2) /\ get_token c false s2 = Ret (Some d, s3).
Proof.
  intros c H. apply List.Forall_cons_iff in H as [[Ha Ha'] H]. apply List.Forall_cons_iff in H as [[Hb Hb'] H].
  apply List.Forall_cons_iff in H as [[Hd Hd'] _]. assert (Hs : is_owned c sep = true) by (unfold is_owned; cbn; apply Z.eqb_refl).
  eexists _, _, _. split; [|split].
  - apply (token_at c [] a (sep :: b ++ sep :: d)); [constructor|done|done|exact Hs|done].
  - apply (token_at c [sep] b (sep :: d)); [by constructor|done|done|exact Hs|done].
  - apply (token_at c [sep] d []); [by constructor|done|done|done|by rewrite app_nil_r].
Qed.

Lemma word_free t : word t = true -> t <> [] /\ Forall (fun x => is_owned SPACE x = false) t /\
  Forall (fun x => is_owned SepMinus x = false) t /\ Forall (fun x => is_owned SepColon x = false) t /\
  ~ In ";"%uchar t /\ ~ In "="%uchar t.
Proof.
  unfold word. rewrite andb_true_iff, forallb_forall. intros [Hn Hc]. split; [by destruct t|].
  assert (H : forall x, In x t -> is_owned SPACE x = false /\ x <> "-"%uchar /\ x <> ":"%uchar /\ x <> ";"%uchar /\ x <> "="%uchar).
  { intros x Hx. specialize (Hc x Hx). unfold word_char in Hc. rewrite !andb_true_iff, !negb_true_iff, !Z.eqb_neq in Hc. tauto. }
  rewrite !List.Forall_forall. split; [intros x Hx; by apply H|]. split; [intros x Hx; by apply Z.eqb_neq, H|].
  split; [intros x Hx; by apply Z.eqb_neq, H|]. split; intros Hx; destruct (H _ Hx) as (_ & _ & _ & ? & ?); done.
Qed.

(** The numbers and names of a date. *)
Definition number_read (t : list Z) (v : Z) : bool := word t && match read_int t with Ret w => w =? v | _ => false end.

Lemma number_read_ok t v : number_read t v = true -> word t = true /\ read_int t = Ret v.
Proof. unfold number_read. intros [Hw H]%andb_true_iff. split; [done|]. destruct (read_int t); [|done..]. by apply Z.eqb_eq in H as ->. Qed.

Lemma year_read v : 0 <= v < 10000 -> number_read (decimal_text v) v = true.
Proof.
  intros Hv. apply (forall_below (Z.to_nat 10000) (fun v => number_read (decimal_text v) v)); [vm_compute; reflexivity|].
  by rewrite Z2Nat.id.
Qed.

Lemma pad2_read v : 0 <= v < 60 -> number_read (pad2 v) v = true.
Proof. apply (forall_below 60 (fun v => number_read (pad2 v) v)). vm_compute. reflexivity. Qed.

Lemma month_read m : 0 <= m < 12 -> exists t, month_name m = Ret t /\ word t = true /\ month_of_name t = Ret m.
Proof.
  intros Hm. assert (E : match month_name m with
    | Ret t => word t && match month_of_name t with Ret k => k =? m | _ => false end | _ => false end = true).
  { revert m Hm. apply (forall_below 12 (fun m => match month_name m with
      | Ret t => word t && match month_of_name t with Ret k => k =? m | _ => false end | _ => false end)). vm_compute. reflexivity. }
  destruct (month_name m) as [t| |]; [|done..]. apply andb_true_iff in E as [Hw E]. exists t. split; [done|]. split; [done|].
  destruct (month_of_name t); [|done..]. by apply Z.eqb_eq in E as ->.
Qed.

Lemma week_day_read d : 0 <= d < 7 -> exists t, week_day_name d = Ret t /\ word (t ++ bytes ",") = true.
Proof.
  intros Hd. assert (E : match week_day_name d with Ret t => word (t ++ bytes ",") | _ => false end = true).
  { revert d Hd. apply (forall_below 7 (fun d => match week_day_name d with Ret t => word (t ++ bytes ",") | _ => false end)). vm_compute. reflexivity. }
  destruct (week_day_name d) as [t| |]; [|done..]. by exists t.
Qed.

(** The characters of a date between spaces. *)
Definition date_char (c : Z) : bool := negb (is_owned SPACE c) && negb (c =? ";"%uchar).

Lemma word_date t : word t = true -> t <> [] /\ forallb date_char t = true.
Proof.
  intros Hw. destruct (word_free t Hw) as (Hn & Hs & _ & _ & Hc & _). split; [done|]. apply forallb_forall. intros x Hx.
  unfold date_char. rewrite List.Forall_forall in Hs. rewrite (Hs x Hx). cbn. apply negb_true_iff, Z.eqb_neq. by intros ->.
Qed.

(** The text of a time, its parts, and what is read back. *)
Record date_text (t : Z) (d : list Z) : Prop := {
  dt_read : get_expires d = Ret (mkTime t 0);
  dt_no_semicolon : ~ In ";"%uchar d;
  dt_clean : clean d;
  dt_nonempty : d <> []
}.

Lemma read_date_text day mon year dt mt yt : 0 <= mon -> number_read dt day = true -> word mt = true -> month_of_name mt = Ret mon ->
  number_read yt year = true -> 100 <= year ->
  read_date (dt ++ bytes "-" ++ mt ++ bytes "-" ++ yt) = Ret (day, mon + 1, year).
Proof.
  intros Hm [Wd Rd]%number_read_ok Wm Rm [Wy Ry]%number_read_ok Hy. unfold read_date.
  destruct (three_tokens "-"%uchar dt mt yt) as (s1 & s2 & s3 & E1 & E2 & E3).
  { repeat constructor; try (by apply word_free). }
  change (bytes "-" ++ mt ++ bytes "-" ++ yt) with ("-"%uchar :: mt ++ "-"%uchar :: yt). unfold SepMinus.
  rewrite E1. cbn [obind]. rewrite Rd. cbn [obind]. rewrite E2. cbn [obind]. rewrite Rm. cbn [obind]. rewrite E3. cbn [obind].
  rewrite Ry. cbn [obind]. by rewrite (proj2 (Z.ltb_ge _ _) Hy).
Qed.

Lemma read_time_text h m s ht mt st : number_read ht h = true -> number_read mt m = true -> number_read st s = true ->
  read_time (ht ++ bytes ":" ++ mt ++ bytes ":" ++ st) = Ret (h, m, s).
Proof.
  intros [Wh Rh]%number_read_ok [Wm Rm]%number_read_ok [Ws Rs]%number_read_ok. unfold read_time.
  destruct (three_tokens ":"%uchar ht mt st) as (s1 & s2 & s3 & E1 & E2 & E3).
  { repeat constructor; try (by apply word_free). }
  change (bytes ":" ++ mt ++ bytes ":" ++ st) with (":"%uchar :: mt ++ ":"%uchar :: st). unfold SepColon.
  rewrite E1. cbn [obind]. rewrite Rh. cbn [obind]. rewrite E2. cbn [obind]. rewrite Rm. cbn [obind]. rewrite E3. cbn [obind].
  rewrite Rs. done.
Qed.

Lemma date_chars t : forallb date_char t = true -> Forall (fun x => is_owned SPACE x = false) t /\ ~ In ";"%uchar t.
Proof.
  intros H. rewrite forallb_forall in H. split.
  - apply List.Forall_forall. intros x Hx. specialize (H x Hx). unfold date_char in H. apply andb_true_iff in H as [H _]. by apply negb_true_iff in H.
  - intros Hx. by specialize (H _ Hx).
Qed.

(** Three words and the zone. *)
Lemma date_words W D T : W <> [] -> D <> [] -> T <> [] -> forallb date_char W = true -> forallb date_char D = true ->
  forallb date_char T = true -> let d := W ++ bytes " " ++ D ++ bytes " " ++ T ++ bytes " GMT" in
  (w1 ← extract_word d; w2 ← extract_word w1.2; w3 ← extract_word w2.2; Some (w2.1, w3.1)) = Some (D, T) /\
  ~ In ";"%uchar d /\ clean d /\ d <> [].
Proof.
  intros NW ND NT HW HD HT d. apply date_chars in HW as [HW W'], HD as [HD D'], HT as [HT T']. split; [|split; [|split]].
  - unfold d. pose proof (extract_word_at [] W (bytes " " ++ D ++ bytes " " ++ T ++ bytes " GMT") ltac:(constructor) NW HW ltac:(by vm_compute)) as E1.
    cbn [app] in E1. rewrite E1. cbn [mbind option_bind snd].
    pose proof (extract_word_at (bytes " ") D (bytes " " ++ T ++ bytes " GMT") ltac:(unfold spaces; by_eval) ND HD ltac:(by vm_compute)) as E2.
    rewrite E2. cbn [mbind option_bind fst snd].
    pose proof (extract_word_at (bytes " ") T (bytes " GMT") ltac:(unfold spaces; by_eval) NT HT ltac:(by vm_compute)) as E3. rewrite E3. done.
  - unfold d. rewrite !in_app_iff. vm_compute bytes. cbn [In]. intuition lia.
  - split.
    + intros x r E. unfold d in E. destruct W as [|w W]; [done|]. injection E as <- _. by inversion_clear HW.
    + intros x r E. unfold d in E. rewrite !app_assoc in E.
      change (bytes " GMT") with (bytes " GM" ++ ["T"%uchar]) in E. rewrite app_assoc in E. apply app_inj_tail in E as [_ <-]. by vm_compute.
  - by destruct W.
Qed.

Lemma date_text_of t W D T day mon year h m s : W <> [] -> D <> [] -> T <> [] -> forallb date_char W = true ->
  forallb date_char D = true -> forallb date_char T = true -> read_date D = Ret (day, mon, year) -> read_time T = Ret (h, m, s) ->
  1 <= day <= 31 -> 1 <= mon <= 12 -> 1900 <= year ->
  (let* et := ExtendedTime_of_fields year mon day h m s 0 in to_Time (fun _ => 0) et) = Ret (mkTime t 0) ->
  date_text t (W ++ bytes " " ++ D ++ bytes " " ++ T ++ bytes " GMT").
Proof.
  intros NW ND NT HW HD HT Rd Rt Hd Hm Hy Et. destruct (date_words W D T NW ND NT HW HD HT) as (Ew & Hc & Hcl & Hn).
  split; try done. unfold get_expires. rewrite Ew, Rd. cbn [obind].
  rewrite (proj2 (Z.ltb_ge day 1)), (proj2 (Z.ltb_ge 31 day)), (proj2 (Z.ltb_ge mon 1)), (proj2 (Z.ltb_ge 12 mon)), (proj2 (Z.ltb_ge year 1900)) by lia.
  cbn [orb]. rewrite Rt. cbn [obind]. exact Et.
Qed.

(** The day of the week and of the year are not used. *)
Lemma gm_to_time_fields g :
  gm_to_time {| tm_sec := tm_sec g; tm_min := tm_min g; tm_hour := tm_hour g; tm_mday := tm_mday g; tm_mon := tm_mon g;
                tm_year := tm_year g; tm_wday := 0; tm_yday := 0 |} = gm_to_time g.
Proof. by destruct g. Qed.

(** [cookie_date] stays in the range of its tables, and [get_expires] reads the second back. *)
Lemma cookie_date_ok t : 0 <= tv_sec t < 253402300800 -> exists d, cookie_date t false = Ret d /\ date_text (tv_sec t) d.
Proof.
  intros Ht. pose proof (gm_fields_ok (mkTime (tv_sec t) 0) Ht ltac:(by_eval)) as (Hy & Hmon & Hd & Hh & Hmi & Hs & _).
  cbn [base tv_sec mkTime] in Hy, Hmon, Hd, Hh, Hmi, Hs. unfold cookie_date.
  assert (Hlim : 0 <= tv_sec t < time_limit) by (change time_limit with 67769427761049600; lia).
  pose proof (gm_to_time_inverse (tv_sec t) Hlim) as [Hinv _].
  assert (Hw : 0 <= tm_wday (time_to_gm (tv_sec t)) < 7).
  { destruct (time_to_gm_spec (tv_sec t) Hlim) as (y & yd & _ & _ & _ & ->). cbn [tm_wday]. zlia. }
  set (g := time_to_gm (tv_sec t)) in *.
  destruct (week_day_read _ Hw) as (wt & -> & Ww). cbn [obind]. destruct (month_read _ Hmon) as (mt & -> & Wm & Rm). cbn [obind andb].
  rewrite arith_int by lia. cbn [obind].
  pose proof (year_read (tm_mday g) ltac:(lia)) as Rd. pose proof (year_read (tm_year g + 1900) ltac:(lia)) as Ry.
  pose proof (pad2_read (tm_hour g) ltac:(lia)) as Rh. pose proof (pad2_read (tm_min g) ltac:(lia)) as Rmi.
  pose proof (pad2_read (tm_sec g) ltac:(lia)) as Rs.
  set (dt := decimal_text (tm_mday g)) in *. set (yt := decimal_text (tm_year g + 1900)) in *. set (ht := pad2 (tm_hour g)) in *.
  set (mit := pad2 (tm_min g)) in *. set (st := pad2 (tm_sec g)) in *.
  exists ((wt ++ bytes ",") ++ bytes " " ++ (dt ++ bytes "-" ++ mt ++ bytes "-" ++ yt) ++ bytes " " ++ (ht ++ bytes ":" ++ mit ++ bytes ":" ++ st) ++ bytes " GMT").
  split; [f_equal; rewrite <- !app_assoc; reflexivity|].
  apply number_read_ok in Rd as Rd', Ry as Ry', Rh as Rh', Rmi as Rmi', Rs as Rs'.
  destruct (word_date _ Ww) as [N1 C1], (word_date _ (proj1 Rd')) as [N2 C2], (word_date _ Wm) as [N3 C3], (word_date _ (proj1 Ry')) as [N4 C4],
    (word_date _ (proj1 Rh')) as [N5 C5], (word_date _ (proj1 Rmi')) as [N6 C6], (word_date _ (proj1 Rs')) as [N7 C7].
  apply (date_text_of _ _ _ _ (tm_mday g) (tm_mon g + 1) (tm_year g + 1900) (tm_hour g) (tm_min g) (tm_sec g)); try lia.
  - done.
  - by destruct dt.
  - by destruct ht.
  - done.
  - by rewrite !forallb_app, C2, C3, C4.
  - by rewrite !forallb_app, C5, C6, C7.
  - apply read_date_text; [lia|done..|lia].
  - by apply read_time_text.
  - unfold ExtendedTime_of_fields. rewrite !arith_int by lia. cbn [obind].
    replace (tm_mon g + 1 - 1) with (tm_mon g) by lia. replace (tm_year g + 1900 - 1900) with (tm_year g) by lia.
    rewrite gm_to_time_fields, Hinv. cbn [obind]. unfold to_Time. cbn [timezone base tm_usec]. fold g. by rewrite Hinv.
Qed.

(** *** Keys *)

(** What identifies a cookie in a list. *)
Definition key (c : CookieDef) : list Z * list Z * list Z := (to_lower_str (cookie_domain c), cookie_path c, name c).

Lemma equal_spec a b : equal a b = true <-> a = b.
Proof. apply bool_decide_eq_true. Qed.

Lemma Caseless_equal_spec a b : Caseless_equal a b = true <-> to_lower_str a = to_lower_str b.
Proof.
  unfold Caseless_equal. destruct (Nat.eqb_spec (length b) (length a)) as [E|E]; cbn [negb].
  - rewrite (Caseless_equal_loop_spec b a) by done. split; congruence.
  - split; [done|]. intros H. destruct E. apply (f_equal length) in H. unfold to_lower_str in H. by rewrite !length_map in H.
Qed.

Lemma same_cookie_spec it c : same_cookie it c = true <-> key it = key c.
Proof.
  unfold same_cookie, key. rewrite !andb_true_iff, Caseless_equal_spec, !equal_spec. split.
  - by intros [[-> ->] ->].
  - by intros [= -> -> ->].
Qed.

(** The list after a cookie that has not expired is stored. *)
Definition put (c : CookieDef) (l : list CookieDef) : list CookieDef :=
  match replace_cookie c l with Some l => l | None => c :: l end.

Lemma replace_cookie_none c l : replace_cookie c l = None <-> ~ In (key c) (map key l).
Proof.
  induction l as [|it l IH]; cbn [replace_cookie map In]; [split; [by intros _ []|done]|].
  destruct (same_cookie it c) eqn:E.
  - split; [done|]. intros H. destruct H. left. by apply same_cookie_spec.
  - assert (key it <> key c) by (intros Ek; apply same_cookie_spec in Ek; congruence).
    destruct (replace_cookie c l); cbn; intuition congruence.
Qed.

(** The keys after a cookie is stored in the place of one with its key. *)
Lemma replace_cookie_keys c l l' : replace_cookie c l = Some l' -> map key l' = map key l.
Proof.
  revert l'. induction l as [|it l IH]; intros l' E; cbn [replace_cookie] in E; [done|]. destruct (same_cookie it c) eqn:Es.
  - injection E as <-. cbn. f_equal. symmetry. by apply same_cookie_spec.
  - destruct (replace_cookie c l) as [r|]; [|done]. cbn in E. injection E as <-. cbn. f_equal. by apply IH.
Qed.

Lemma put_fresh c l : ~ In (key c) (map key l) -> put c l = c :: l.
Proof. intros H. unfold put. by rewrite (proj2 (replace_cookie_none c l) H). Qed.

(** *** Parsing of well formed segments *)

Definition control_name (n : list Z) : bool :=
  Caseless_equal SECURE n || Caseless_equal CPATH n || Caseless_equal CDOMAIN n || Caseless_equal EXPIRES n.

(** A name and a value that a header can hold. *)
Record good_pair (c : Cookie) : Prop := {
  gp_name : name c <> [] /\ clean (name c) /\ ~ In ";"%uchar (name c) /\ ~ In "="%uchar (name c) /\ control_name (name c) = false;
  gp_value : clean (value c) /\ ~ In ";"%uchar (value c)
}.

(** A domain or a path that a header can hold, other than the text that stands for the default. *)
Definition good_text (default t : list Z) : Prop := t <> [] /\ clean t /\ ~ In ";"%uchar t /\ t <> default.

(** Attributes that a header can hold and that have not expired. *)
Record good_attributes (now : Time) (c : CookieDef) : Prop := {
  ga_domain : good_text (bytes ".") (cookie_domain c);
  ga_path : good_text (bytes "\") (cookie_path c);
  ga_expires : expires c = ZERO \/ (0 < tv_sec (expires c) < 253402300800 /\ tv_usec (expires c) = 0 /\ Time_lt (expires c) now = false)
}.

Lemma good_nonempty d t : good_text d t -> match t with [] => false | _ => negb (equal t d) end = true.
Proof.
  intros (Hn & _ & _ & Hd). destruct t; [done|]. apply negb_true_iff, not_true_is_false. by rewrite equal_spec.
Qed.

Lemma complete_good now url c : good_attributes now c -> complete url c = c.
Proof.
  intros [Hd Hp _]. apply good_nonempty in Hd, Hp. unfold complete. destruct (cookie_path c) as [|p0 p] eqn:Ep; [done|].
  apply negb_true_iff in Hp. rewrite Hp. destruct (cookie_domain c) as [|d0 d] eqn:Ed; [done|]. apply negb_true_iff in Hd. by rewrite Hd.
Qed.

Section Parse.
Context (now : Time) (url : HTTPAddress) (keep_expired : bool).

(** The state between the segments of a header. *)
Definition parsing (l : list CookieDef) (c : CookieDef) (control : bool) : ParseState :=
  {| list_ := l; ps_cookie := c; control_info := control; expired := false |}.

Lemma parse_pair sp c l d control : sp = [] \/ sp = bytes " " -> good_pair c -> good_attributes now d ->
  parse_segment now url keep_expired (parsing l d control) (sp ++ name c ++ bytes "=" ++ value c) =
  Ret (parsing (put (with_value d (name c) (value c)) l) (with_value d (name c) (value c)) false, None).
Proof using.
  intros Hsp [(Hn & Hcl & Hs & He & Hcn) [Hv Hvs]] Hd. unfold parse_segment.
  assert (Ecut : cut_value (sp ++ name c ++ bytes "=" ++ value c) = (sp ++ name c, value c)).
  { rewrite app_assoc. apply cut_value_at. rewrite in_app_iff. intros [H|H]; [|done]. destruct Hsp as [-> | ->]; [done|].
    vm_compute in H. intuition lia. }
  rewrite Ecut. unfold parse_value.
  assert (Et : trim (sp ++ name c) SPACE = Ret (name c)).
  { destruct Hsp as [-> | ->]; [by apply trim_own|by apply trim_after_space]. }
  rewrite Et. cbn [obind]. rewrite trim_own by done. cbn [obind]. destruct (name c) as [|n0 n] eqn:En; [done|]. rewrite <- En in *.
  assert (Ectl : (if control then parse_control now url (name c) (value c) (parsing l d control) else Ret (parsing l d control)) =
    Ret (parsing l d false)).
  { destruct control; [|done]. unfold parse_control. unfold control_name in Hcn. rewrite !orb_false_iff in Hcn.
    destruct Hcn as [[[-> ->] ->] ->]. cbn [ps_cookie parsing]. by rewrite (complete_good now). }
  cbn [control_info parsing] in *. rewrite Ectl. cbn [control_info parsing]. unfold store_cookie, put, parsing.
  cbn [ps_cookie expired list_ control_info andb negb orb]. by destruct (replace_cookie _ l).
Qed.

(** An attribute with its value. *)
Lemma parse_attribute a v l c : a <> [] -> clean a -> ~ In "="%uchar a -> clean v ->
  parse_segment now url keep_expired (parsing l c true) (" "%uchar :: a ++ "="%uchar :: v) =
  match parse_control now url a v (parsing l c true) with
  | Ret st => if control_info st then Ret (st, None) else let* st := store_cookie keep_expired a v st in Ret (st, None)
  | Throw e => Ret (parsing l c true, Some e)
  | Undef => Undef
  end.
Proof using.
  intros Hn Ha He Hv. unfold parse_segment.
  assert (Ecut : cut_value (" "%uchar :: a ++ "="%uchar :: v) = (" "%uchar :: a, v)).
  { change (" "%uchar :: a ++ "="%uchar :: v) with ((" "%uchar :: a) ++ "="%uchar :: v). apply cut_value_at. by intros [H|H]. }
  rewrite Ecut. unfold parse_value. rewrite trim_after_space by done. cbn [obind]. rewrite trim_own by done. cbn [obind]. by destruct a.
Qed.
End Parse.

(** *** Headers that were written *)

Lemma join_concat sep s segs : join sep (s :: segs) = s ++ concat (map (cons sep) segs).
Proof.
  revert s. induction segs as [|a segs IH]; intros s; [by rewrite app_nil_r|].
  change (join sep (s :: a :: segs)) with (s ++ sep :: join sep (a :: segs)). by rewrite IH.
Qed.

(** A cookie without name and value. *)
Definition shell (c : CookieDef) : CookieDef := with_value c [] [].

Lemma shell_value c : with_value (shell c) (name c) (value c) = c.
Proof. by destruct c as [[] ? ? ? ?]. Qed.

Lemma parse_segments_app now url ke a b st : parse_segments now url ke (a ++ b) st =
  (let* (st, error) := parse_segments now url ke a st in
   match error with Some e => Ret (st, Some e) | None => parse_segments now url ke b st end).
Proof.
  revert st. induction a as [|s a IH]; intros st; [done|]. cbn [app parse_segments].
  destruct (parse_segment now url ke st s) as [[st' [e|]]| |]; cbn [obind]; [done|apply IH|done|done].
Qed.

(** The attributes as segments, with the effect of each on the state. *)
Record segments_for (now : Time) (text : list Z) (c0 c1 : CookieDef) : Prop := {
  sf_segments : exists segs, text = concat (map (cons ";"%uchar) segs) /\ Forall (fun s => ~ In ";"%uchar s) segs /\
    forall url ke l, parse_segments now url ke (rev segs) (parsing l c0 true) = Ret (parsing l c1 true, None)
}.

Lemma segments_none now c : segments_for now [] c c.
Proof. constructor. by exists []. Qed.

Lemma segments_app now a b c0 c1 c2 : segments_for now b c0 c1 -> segments_for now a c1 c2 -> segments_for now (a ++ b) c0 c2.
Proof.
  intros [(sb & -> & Hb & Pb)] [(sa & -> & Ha & Pa)]. constructor. exists (sa ++ sb). rewrite map_app, concat_app. split; [done|].
  split; [by apply Forall_app|]. intros url ke l. rewrite rev_app_distr, parse_segments_app, Pb. apply Pa.
Qed.

Lemma segments_one now a v c0 c1 : a <> [] -> clean a -> ~ In "="%uchar a -> ~ In ";"%uchar a -> clean v -> ~ In ";"%uchar v ->
  (forall url l, parse_control now url a v (parsing l c0 true) = Ret (parsing l c1 true)) ->
  segments_for now (bytes "; " ++ a ++ bytes "=" ++ v) c0 c1.
Proof.
  intros Hn Ha He Hs Hv Hvs Hp. constructor. exists [" "%uchar :: a ++ "="%uchar :: v]. split; [cbn; by rewrite app_nil_r|]. split.
  - constructor; [|constructor]. intros [H|H]; [done|]. apply in_app_or in H as [H|[H|H]]; done.
  - intros url ke l. cbn [rev app parse_segments]. rewrite parse_attribute by done. rewrite Hp. done.
Qed.

Lemma clean_text t : t <> [] -> is_owned SPACE (hd 0 t) = false -> is_owned SPACE (List.last t 0) = false -> clean t.
Proof.
  intros Hn Hh Hl. split.
  - intros x r ->. exact Hh.
  - intros x r ->. by rewrite last_last in Hl.
Qed.

(** The names of the attributes are told apart. *)
Lemma control_names :
  (Caseless_equal SECURE CPATH = false /\ Caseless_equal CPATH CPATH = true) /\
  (Caseless_equal SECURE CDOMAIN = false /\ Caseless_equal CPATH CDOMAIN = false /\ Caseless_equal CDOMAIN CDOMAIN = true) /\
  (Caseless_equal SECURE EXPIRES = false /\ Caseless_equal CPATH EXPIRES = false /\ Caseless_equal CDOMAIN EXPIRES = false /\
   Caseless_equal EXPIRES EXPIRES = true).
Proof. by vm_compute. Qed.

(** What a name of an attribute must be like. *)
Record attribute_name (a : list Z) : Prop := {
  an_name : a <> []; an_clean : clean a; an_equal : ~ In "="%uchar a; an_semicolon : ~ In ";"%uchar a
}.

Lemma attribute_names : attribute_name CPATH /\ attribute_name CDOMAIN /\ attribute_name EXPIRES.
Proof.
  split; [|split]; (split; [discriminate|apply clean_text; [discriminate|by vm_compute|by vm_compute]|vm_compute; intuition lia|vm_compute; intuition lia]).
Qed.

Lemma segments_path now c0 p : good_text (bytes "\") p -> segments_for now (bytes "; path=" ++ p) c0 (with_path_ c0 p).
Proof.
  intros (Hn & Hc & Hs & _). destruct attribute_names as ([A1 A2 A3 A4] & _ & _). apply (segments_one now CPATH p _ _ A1 A2 A3 A4 Hc Hs).
  intros url l. unfold parse_control. destruct control_names as ((-> & ->) & _ & _). reflexivity.
Qed.

Lemma segments_domain now c0 d : good_text (bytes ".") d -> segments_for now (bytes "; domain=" ++ d) c0 (with_domain c0 d).
Proof.
  intros (Hn & Hc & Hs & _). destruct attribute_names as (_ & [A1 A2 A3 A4] & _). apply (segments_one now CDOMAIN d _ _ A1 A2 A3 A4 Hc Hs).
  intros url l. unfold parse_control. destruct control_names as (_ & (-> & -> & ->) & _). reflexivity.
Qed.

Lemma segments_expires now c0 t d : date_text t d -> Time_lt (mkTime t 0) now = false ->
  segments_for now (bytes "; expires=" ++ d) c0 (with_expires c0 (mkTime t 0)).
Proof.
  intros [Hr Hs Hc Hn] Hl. destruct attribute_names as (_ & _ & [A1 A2 A3 A4]). apply (segments_one now EXPIRES d _ _ A1 A2 A3 A4 Hc Hs).
  intros url l. unfold parse_control. destruct control_names as (_ & _ & (-> & -> & -> & ->)). rewrite Hr. cbn [obind]. rewrite Hl. reflexivity.
Qed.

Lemma segments_secure now c0 : segments_for now (bytes "; secure") c0 (with_secure c0 true).
Proof.
  constructor. exists [bytes " secure"]. split; [done|]. split; [constructor; [vm_compute; intuition lia|constructor]|]. done.
Qed.

(** All attributes of a cookie. *)
Lemma attributes_ok now c sec : good_attributes now c -> (sec = true -> secure c = true) ->
  exists a, attributes c = Ret a /\ segments_for now a (with_secure CookieDef_ sec) (shell c).
Proof.
  intros [Hd Hp He] Hsec. unfold attributes.
  assert (Ee : exists e, (if negb (Time_eq (expires c) ZERO) then let* d := cookie_date (expires c) false in Ret (bytes "; expires=" ++ d) else Ret []) = Ret e /\
    forall c0, expires c0 = ZERO -> segments_for now e c0 (with_expires c0 (expires c))).
  { destruct He as [E|(Ht & Hu & Hl)].
    - rewrite E. exists []. split; [done|]. intros c0 E0. rewrite <- E0. replace (with_expires c0 (expires c0)) with c0 by by destruct c0. apply segments_none.
    - assert (Time_eq (expires c) ZERO = false) as ->.
      { unfold Time_eq. apply andb_false_iff. left. apply Z.eqb_neq. cbn. lia. }
      destruct (cookie_date_ok (expires c) ltac:(lia)) as (d & -> & Hdt). cbn [negb obind]. eexists. split; [done|]. intros c0 _.
      assert (expires c = mkTime (tv_sec (expires c)) 0) as -> by (destruct (expires c); cbn in *; by subst).
      apply segments_expires; [done|]. destruct (expires c) as [s u]. cbn in *. by subst. }
  destruct Ee as (e & -> & Se). cbn [obind]. eexists. split; [done|].
  rewrite (proj2 (negb_true_iff (is_nil (cookie_domain c)))) by (by destruct (cookie_domain c); [destruct Hd|]).
  rewrite (proj2 (negb_true_iff (is_nil (cookie_path c)))) by (by destruct (cookie_path c); [destruct Hp|]).
  apply (segments_app now _ _ _ (with_domain (with_path_ (with_secure CookieDef_ (secure c)) (cookie_path c)) (cookie_domain c))).
  2: { replace (shell c) with (with_expires (with_domain (with_path_ (with_secure CookieDef_ (secure c)) (cookie_path c)) (cookie_domain c)) (expires c)) by done.
       by apply Se. }
  apply (segments_app now _ _ _ (with_path_ (with_secure CookieDef_ (secure c)) (cookie_path c))); [|by apply segments_domain].
  apply (segments_app now _ _ _ (with_secure CookieDef_ (secure c))); [|by apply segments_path].
  destruct (secure c); [|destruct sec; [by specialize (Hsec eq_refl)|apply segments_none]].
  exact (segments_secure now (with_secure CookieDef_ sec)).
Qed.

(** *** Loading what was written *)

Definition pair_segment (sp : list Z) (c : Cookie) : list Z := sp ++ name c ++ bytes "=" ++ value c.

Lemma pair_segment_free sp c : sp = [] \/ sp = bytes " " -> good_pair c -> ~ In ";"%uchar (pair_segment sp c).
Proof.
  intros Hsp [(_ & _ & Hn & _ & _) [_ Hv]]. unfold pair_segment. rewrite !in_app_iff.
  assert (~ In ";"%uchar sp) by (destruct Hsp as [-> | ->]; vm_compute; intuition lia).
  assert (~ In ";"%uchar (bytes "=")) by (vm_compute; intuition lia). tauto.
Qed.

Lemma with_value_shell d d' n v : shell d' = shell d -> with_value d' n v = with_value d n v.
Proof. intros [=]. unfold with_value. congruence. Qed.

Lemma good_shell now d d' : shell d' = shell d -> good_attributes now d -> good_attributes now d'.
Proof. intros [= E1 E2 E3 E4] [H1 H2 H3]. split; congruence. Qed.

Lemma parse_pairs now url ke sp d xs : sp = [] \/ sp = bytes " " -> good_attributes now d -> Forall good_pair xs -> forall l d0 ctl,
  shell d0 = shell d ->
  exists d' ctl', parse_segments now url ke (map (pair_segment sp) xs) (parsing l d0 ctl) =
    Ret (parsing (fold_left (fun l (c : Cookie) => put (with_value d (name c) (value c)) l) xs l) d' ctl', None) /\ shell d' = shell d.
Proof.
  intros Hsp Hd. induction 1 as [|c xs Hc _ IH]; intros l d0 ctl E0; [by exists d0, ctl|]. cbn [map parse_segments fold_left].
  unfold pair_segment at 1. rewrite parse_pair by (done || by apply (good_shell now d)). cbn [obind]. rewrite (with_value_shell d d0) by done.
  apply IH. done.
Qed.

(** Cookies with the attributes of the first in one header. *)
Definition group_text (c : CookieDef) (rest : list CookieDef) : list Z :=
  pair_segment [] c ++ concat (map (fun c : CookieDef => bytes "; " ++ name c ++ bytes "=" ++ value c) rest).

Lemma group_segments c rest segs : group_text c rest ++ concat (map (cons ";"%uchar) segs) =
  join ";"%uchar (pair_segment [] c :: map (pair_segment (bytes " ")) (map cookie rest) ++ segs).
Proof.
  rewrite join_concat, map_app, concat_app. unfold group_text. rewrite <- app_assoc. f_equal. f_equal. f_equal.
  rewrite map_map, map_map. reflexivity.
Qed.

Definition alike (c : CookieDef) (x : CookieDef) : Prop := good_pair x /\ with_value c (name x) (value x) = x.

Lemma load_group now url ke c rest a l hs : good_attributes now c -> alike c c -> Forall (alike c) rest -> attributes c = Ret a ->
  (secure_ url = true -> secure c = true) ->
  load_from_headers now l ({| header_name := SET_COOKIE; header_value := group_text c rest ++ a |} :: hs) url ke =
  load_from_headers now (foldr put l (c :: rest)) hs url ke.
Proof.
  intros Hg [Hc _] Hr Ea Hsec. cbn [load_from_headers header_name header_value]. change (Caseless_equal SET_COOKIE SET_COOKIE) with true. cbn [negb].
  destruct (attributes_ok now c (secure_ url) Hg Hsec) as (a' & Ea' & [(segs & Es & Hfree & Hp)]). assert (a' = a) as -> by congruence.
  rewrite Es, group_segments.
  match goal with |- context [header_loop _ _ _ ?h _ _ _ ?st] => assert (El : header_loop now url ke h (length h) (length h) None st =
    Ret (parsing (foldr put l (c :: rest)) c false, None)) end.
  2: { rewrite El. done. }
  rewrite <- (app_nil_r (join _ _)) at 1.
  assert (Hgp : Forall good_pair (map cookie rest)) by (apply Forall_map; eapply Forall_impl; [exact Hr|]; by intros x []).
  rewrite header_loop_segments; [|done| |by left].
  2: { constructor; [by apply pair_segment_free; [left|]|]. apply Forall_app. split; [|done]. apply Forall_map.
       eapply Forall_impl; [exact Hgp|]. intros x Hx. apply pair_segment_free; [by right|done]. }
  cbn [rev]. rewrite rev_app_distr, <- app_assoc, parse_segments_app.
  change {| list_ := l; ps_cookie := with_secure CookieDef_ (secure_ url); control_info := true; expired := false |} with
    (parsing l (with_secure CookieDef_ (secure_ url)) true). rewrite Hp. cbn [obind].
  rewrite parse_segments_app, <- map_rev.
  destruct (parse_pairs now url ke (bytes " ") (shell c) (rev (map cookie rest)) ltac:(by right) ltac:(by apply (good_shell now c)) ltac:(by apply Forall_rev)
    l (shell c) true eq_refl) as (d' & ctl' & -> & Ed'). cbn [obind parse_segments].
  unfold pair_segment. rewrite parse_pair; [|by left|done|by apply (good_shell now c)]. cbn [obind].
  assert (Ec : forall x, alike c x -> with_value (shell c) (name x) (value x) = x).
  { intros x [_ E]. exact E. }
  rewrite (with_value_shell (shell c) d') by done. rewrite shell_value. do 3 f_equal. cbn [foldr]. f_equal.
  rewrite <- fold_left_rev_right, rev_involutive. clear - Hr Ec. induction Hr as [|x rest Hx _ IH]; [done|]. cbn [map fold_right foldr]. rewrite IH.
  by rewrite Ec.
Qed.

Definition good_cookie (now : Time) (c : CookieDef) : Prop := good_pair c /\ good_attributes now c.

Lemma alike_self now c : good_cookie now c -> alike c c.
Proof. intros [Hp _]. split; [done|]. by destruct c as [[] ? ? ? ?]. Qed.

Lemma put_group l cs : NoDup (map key cs ++ map key l) -> foldr put l cs = cs ++ l.
Proof.
  induction cs as [|c cs IH]; intros Hn; [done|]. cbn [foldr map app] in *. apply NoDup_cons in Hn as [Hc Hn]. rewrite IH by done.
  apply put_fresh. rewrite map_app. by rewrite <- list_elem_of_In.
Qed.

Lemma load_plain now url ke cs : Forall (good_cookie now) cs -> (secure_ url = true -> Forall (fun c => secure c = true) cs) ->
  exists headers, set_cookie_header_plain cs = Ret headers /\
  forall l, NoDup (map key cs ++ map key l) -> load_from_headers now l headers url ke = Ret (rev cs ++ l, None).
Proof.
  induction 1 as [|c cs Hc _ IH]; intros Hsec; [by exists []|].
  destruct IH as (headers & Eh & IH); [intros H; specialize (Hsec H); by inversion_clear Hsec|].
  assert (Hsc : secure_ url = true -> secure c = true) by (intros H; specialize (Hsec H); by inversion_clear Hsec).
  destruct (attributes_ok now c (secure_ url) (proj2 Hc) Hsc) as (a & Ea & _).
  cbn [set_cookie_header_plain]. unfold cookie_header_plain. rewrite Ea. cbn [obind]. rewrite Eh. cbn [obind]. eexists. split; [done|].
  intros l Hn. pose proof (load_group now url ke c [] a l headers (proj2 Hc) (alike_self now c Hc) ltac:(constructor) Ea Hsc) as E.
  unfold group_text, pair_segment in E. cbn [map concat app] in E. rewrite app_nil_r, <- !app_assoc in E. rewrite E.
  rewrite (put_group l [c]); cbn [map app] in *.
  - rewrite IH; [cbn [rev]; by rewrite <- app_assoc|]. cbn [map]. rewrite <- Permutation_middle. done.
  - apply NoDup_cons in Hn as [H1 H2]. apply NoDup_cons. rewrite elem_of_app in H1. split; [tauto|]. by apply NoDup_app in H2 as (_ & _ & ?).
Qed.

(** *** The grouping of set_cookie_header *)

Lemma same_attributes_spec it c : to_lower_str (cookie_domain it) = cookie_domain it -> to_lower_str (cookie_domain c) = cookie_domain c ->
  same_attributes it c = true <-> shell it = shell c.
Proof.
  intros Hi Hc. unfold same_attributes. rewrite !andb_true_iff, Caseless_equal_spec, equal_spec, Hi, Hc, eqb_true_iff.
  unfold Time_eq. rewrite andb_true_iff, !Z.eqb_eq. split.
  - intros [[[E1 E2] [E3 E4]] E5]. unfold shell, with_value. rewrite E1, E2, E5. f_equal. destruct (expires it), (expires c). cbn in *. by subst.
  - intros [= E1 E2 E3 E4]. by rewrite E1, E2, E3, E4.
Qed.

Lemma group_loop_rest c cs header :
  group_loop c cs false header =
  (header ++ concat (map (fun c : CookieDef => bytes "; " ++ name c ++ bytes "=" ++ value c) (List.filter (fun it => same_attributes it c) cs)),
   List.filter (fun it => negb (same_attributes it c)) cs).
Proof.
  revert header. induction cs as [|it cs IH]; intros header; cbn [group_loop List.filter]; [by rewrite app_nil_r|].
  destruct (same_attributes it c); cbn [negb map concat].
  - rewrite IH. by rewrite <- !app_assoc.
  - by rewrite IH.
Qed.

Lemma filter_parts {A} (p : A -> bool) l : Permutation (List.filter p l ++ List.filter (fun x => negb (p x)) l) l.
Proof.
  induction l as [|x l IH]; [done|]. cbn [List.filter]. destruct (p x); cbn [negb app].
  - by rewrite IH.
  - by rewrite <- Permutation_middle, IH.
Qed.

(** Cookies whose domains are in lower case. *)
Definition lower_cookie (now : Time) (c : CookieDef) : Prop :=
  good_cookie now c /\ to_lower_str (cookie_domain c) = cookie_domain c.

Lemma load_grouped now url ke fuel : forall cs, (length cs <= fuel)%nat -> Forall (lower_cookie now) cs ->
  (secure_ url = true -> Forall (fun c => secure c = true) cs) ->
  exists headers, set_cookie_loop fuel cs = Ret headers /\
  forall l, NoDup (map key cs ++ map key l) -> exists l', load_from_headers now l headers url ke = Ret (l', None) /\ Permutation l' (cs ++ l).
Proof.
  induction fuel as [|fuel IH]; intros cs Hlen Hg Hsec.
  { destruct cs; [|cbn in Hlen; lia]. exists []. split; [done|]. intros l _. by exists l. }
  destruct cs as [|c cs]; [exists []; split; [done|]; intros l _; by exists l|].
  inversion_clear Hg as [|? ? [Hc Hcl] Hcs].
  assert (Hsc : secure_ url = true -> secure c = true) by (intros H; specialize (Hsec H); by inversion_clear Hsec).
  destruct (attributes_ok now c (secure_ url) (proj2 Hc) Hsc) as (a & Ea & _).
  cbn [set_cookie_loop group_loop]. assert (same_attributes c c = true) as -> by by apply same_attributes_spec.
  cbn [app]. rewrite group_loop_rest, Ea. cbn [obind].
  set (mine := List.filter (fun it => same_attributes it c) cs). set (others := List.filter (fun it => negb (same_attributes it c)) cs).
  pose proof (filter_parts (fun it => same_attributes it c) cs) as Hparts. change (Permutation (mine ++ others) cs) in Hparts.
  assert (Hall : Forall (lower_cookie now) mine /\ Forall (lower_cookie now) others) by (apply Forall_app; by rewrite Hparts).
  destruct (IH others) as (headers & Eh & Hload).
  { apply Permutation_length in Hparts. rewrite length_app in Hparts. cbn in Hlen. lia. }
  { apply Hall. }
  { intros H. specialize (Hsec H). inversion_clear Hsec as [|? ? _ Hs]. rewrite <- Hparts in Hs. by apply Forall_app in Hs as [_ Hs]. }
  rewrite Eh. cbn [obind]. eexists. split; [done|]. intros l Hn.
  assert (Hal : Forall (alike c) mine).
  { apply List.Forall_forall. intros y Hy. apply filter_In in Hy as [Hy Hs]. rewrite List.Forall_forall in Hcs. destruct (Hcs y Hy) as [[Hyp _] Hyl].
    split; [done|]. apply same_attributes_spec in Hs; [|done..]. rewrite (with_value_shell y c) by done. by destruct y as [[] ? ? ? ?]. }
  pose proof (load_group now url ke c mine a l headers (proj2 Hc) (alike_self now c Hc) Hal Ea Hsc) as E.
  unfold group_text, pair_segment in E. cbn [app] in E. rewrite E.
  assert (Hperm : Permutation (map key others ++ map key ((c :: mine) ++ l)) (map key (c :: cs) ++ map key l)).
  { rewrite <- !map_app. apply Permutation_map. cbn [app]. rewrite <- Hparts. rewrite <- Permutation_middle. apply perm_skip.
    rewrite !app_assoc. apply Permutation_app_tail, Permutation_app_comm. }
  assert (Hn' : NoDup (map key others ++ map key ((c :: mine) ++ l))) by by rewrite Hperm.
  rewrite put_group.
  - destruct (Hload ((c :: mine) ++ l) Hn') as (l' & El & Hl'). exists l'. split; [done|]. rewrite Hl'. cbn [app].
    rewrite <- Permutation_middle. apply perm_skip. rewrite app_assoc. apply Permutation_app_tail. rewrite Permutation_app_comm. exact Hparts.
  - rewrite <- map_app. apply NoDup_app in Hn' as (_ & _ & ?). done.
Qed.

(** C33: Cookies written by [set_cookie_header_plain], one in a header, or by
    [set_cookie_header], grouped by their attributes, are loaded back into an empty
    list, if they have different keys, domains and paths that are not empty and not the
    texts of the defaults, nonempty names that are no attribute names, texts without
    separators and without spaces at their ends, no date or one of whole seconds up to
    the year 9999 that has not passed, and, for a secure URL, are secure: the list gets exactly these cookies, in
    reverse order in the first case and, where the domains are in lower case (a group
    takes the domain of its first cookie), in some order in the second.  The writing of
    every date and of every group terminates. *)
Theorem set_cookie_roundtrip now url keep_expired cs : Forall (good_cookie now) cs -> NoDup (map key cs) ->
  (secure_ url = true -> Forall (fun c => secure c = true) cs) ->
  (exists headers, set_cookie_header_plain cs = Ret headers /\
    load_from_headers now [] headers url keep_expired = Ret (rev cs, None)) /\
  (Forall (fun c => to_lower_str (cookie_domain c) = cookie_domain c) cs ->
   exists headers l, set_cookie_header cs = Ret headers /\
    load_from_headers now [] headers url keep_expired = Ret (l, None) /\ Permutation l cs).
Proof.
  intros Hg Hn Hs. split.
  - destruct (load_plain now url keep_expired cs Hg Hs) as (headers & E & H). exists headers. split; [done|].
    rewrite H by (cbn [map]; by rewrite app_nil_r). by rewrite app_nil_r.
  - intros Hl. destruct (load_grouped now url keep_expired (length cs) cs) as (headers & E & H); [done| |done|].
    { rewrite List.Forall_forall in *. intros c Hc. split; [by apply Hg|by apply Hl]. }
    destruct (H []) as (l & El & Hp); [cbn [map]; by rewrite app_nil_r|]. exists headers, l. rewrite app_nil_r in Hp. done.
Qed.

(** *** The invariant of a list *)

(** Not yet expired; a cookie without a date never expires. *)
Definition fresh (now : Time) (c : CookieDef) : Prop := is_expired now false c = false.

Record list_ok (now : Time) (keep_expired : bool) (l : list CookieDef) : Prop := {
  lo_keys : NoDup (map key l);
  lo_fresh : keep_expired = false -> Forall (fresh now) l
}.

Lemma get_token_ret {P} `{CharPredicate P} (c : P) st : exists t st', get_token c false st = Ret (t, st').
Proof.
  unfold get_token, get_token_nonempty. cbn [cat_find_nonowned cat_find_owned CharCategory one_octet obind].
  destruct (_ =? _)%nat; by eexists _, _.
Qed.

(** A call that returns a value with a property or throws [InvalidArgument]. *)
Definition returns {A} (P : A -> Prop) (m : outcome A) : Prop :=
  match m with Ret a => P a | Throw (InvalidArgument _) => True | _ => False end.

Definition argument_error (e : option exn) : Prop := match e with None | Some (InvalidArgument _) => True | _ => False end.

Definition int (v : Z) : Prop := - 2 ^ 31 <= v < 2 ^ 31.

Lemma returns_bind {A B} (P : A -> Prop) (Q : B -> Prop) (m : outcome A) (k : A -> outcome B) :
  returns P m -> (forall a, P a -> returns Q (k a)) -> returns Q (obind m k).
Proof. destruct m as [a|[]|]; intros Hm Hk; try done. by apply Hk. Qed.

Lemma read_int_returns t : returns int (read_int t).
Proof.
  unfold read_int. destruct (extract_int t) as [[v [|]]|] eqn:E; [|done|done]. cbn.
  unfold extract_int in E. destruct (match skip_ws t with [] => _ | _ => _ end) as [neg s0].
  destruct (range s0 _); [done|]. destruct (dec_from 0 _); [|done].
  destruct (in_type int32_t _) eqn:Ei; [|done]. injection E as <- _.
  unfold in_type, min_, max_ in Ei. cbn [is_signed digits int32_t] in Ei.
  apply andb_true_iff in Ei as [?%Z.leb_le ?%Z.leb_le]. unfold int. lia.
Qed.

Lemma month_returns t : returns (fun _ => True) (month_of_name t).
Proof. unfold month_of_name. destruct t; [done|]. by destruct (find_name _ _ _). Qed.

Ltac returns_step :=
  match goal with
  | |- returns _ (obind (get_token ?c false ?st) _) => destruct (get_token_ret c st) as ([?|] & ? & ->); cbn [obind]
  | |- returns _ (obind (read_int _) _) => eapply returns_bind; [apply read_int_returns|intros ? ?]
  | |- returns _ (obind (month_of_name _) _) => eapply returns_bind; [apply month_returns|intros ? _]
  end.

Lemma read_date_returns d : returns (fun '(_, _, year) => int year) (read_date d).
Proof.
  unfold read_date. repeat returns_step; cbn; unfold int in *; try lia. case_Z; lia.
Qed.

Lemma read_time_returns d : returns (fun '(hours, minutes, seconds) => int hours /\ int minutes /\ int seconds) (read_time d).
Proof. unfold read_time. repeat returns_step; cbn; unfold int in *; lia. Qed.

(** The third word of a date is a time of day whose seconds leave [int]. *)
Definition time_overflows (v : list Z) : Prop :=
  exists w1 w2 w3 h m s, extract_word v = Some w1 /\ extract_word w1.2 = Some w2 /\ extract_word w2.2 = Some w3 /\
    read_time w3.1 = Ret (h, m, s) /\ ~ (int (h * 3600) /\ int (m * 60)).

Lemma arith_undef v : ~ int v -> arith int32_t v = Undef.
Proof.
  unfold int, arith, in_type, min_, max_. cbn [is_signed digits int32_t]. intros H.
  destruct (Z.leb_spec (- 2 ^ 31) v), (Z.leb_spec v (2 ^ 31 - 1)); cbn [andb]; done || lia.
Qed.

(** [get_expires] returns, throws [InvalidArgument] or overflows. *)
Lemma get_expires_cases v : match get_expires v with Undef => time_overflows v | m => returns (fun _ => True) m end.
Proof.
  unfold get_expires. destruct (extract_word v) as [w1|] eqn:E1; [|done]. cbn [mbind option_bind].
  destruct (extract_word w1.2) as [w2|] eqn:E2; [|done]. cbn [mbind option_bind].
  destruct (extract_word w2.2) as [w3|] eqn:E3; [|done]. cbn [mbind option_bind].
  pose proof (read_date_returns w2.1) as Hd. destruct (read_date w2.1) as [[[day month] year]|[]|]; try done.
  cbn [obind returns] in *. destruct (Z.ltb_spec day 1); [done|]. destruct (Z.ltb_spec 31 day); [done|].
  destruct (Z.ltb_spec month 1); [done|]. destruct (Z.ltb_spec 12 month); [done|]. destruct (Z.ltb_spec year 1900); [done|].
  cbn [orb]. pose proof (read_time_returns w3.1) as Ht.
  destruct (read_time w3.1) as [[[h m] s0]|[]|] eqn:E4; try done. cbn [obind returns] in *. destruct Ht as (Hh & Hm & Hs).
  unfold int in *. unfold ExtendedTime_of_fields. rewrite !arith_int by lia. cbn [obind].
  destruct (decide (int (h * 3600) /\ int (m * 60))) as [[Ho1 Ho2]|Hno].
  - unfold int in *. unfold gm_to_time at 1. cbn [tm_year tm_mon tm_hour tm_min tm_mday tm_sec].
    rewrite arith_int by lia. cbn [obind]. rewrite cell_DAYS by lia. cbn [obind]. rewrite !arith_int by done. cbn [obind].
    set (leap := (_ =? 2)).
    assert (Hdays : 0 <= tab 0 (DAYS leap) (month - 1) <= 335).
    { assert (Hmon : 0 <= month - 1 < 12) by lia. revert Hmon. generalize (month - 1). intros k Hk.
      apply (bool_decide_eq_true_1 _). revert k Hk. destruct leap;
        [apply (forall_below 12 (fun k => bool_decide (0 <= tab 0 (DAYS true) k <= 335)))
        |apply (forall_below 12 (fun k => bool_decide (0 <= tab 0 (DAYS false) k <= 335)))]; vm_compute; reflexivity. }
    unfold to_Time. cbn [timezone base tm_usec].
    match goal with |- context [time_to_gm ?t] => destruct (gm_to_time_defined t) as [t' ->]; [|done] end.
    change time_limit with 67769427761049600. Z.to_euclidean_division_equations. lia.
  - assert (Ho : time_overflows v) by (by exists w1, w2, w3, h, m, s0). unfold gm_to_time at 1.
    cbn [tm_year tm_mon tm_hour tm_min tm_mday tm_sec]. rewrite arith_int by lia. cbn [obind]. rewrite cell_DAYS by lia.
    cbn [obind]. destruct (decide (int (h * 3600))) as [Hh'|?]; [|by rewrite arith_undef].
    rewrite arith_int by (unfold int in Hh'; lia). cbn [obind]. rewrite arith_undef; [done|]. tauto.
Qed.

Lemma get_expires_undef v : match get_expires v with Undef => time_overflows v | _ => True end.
Proof. pose proof (get_expires_cases v). by destruct (get_expires v). Qed.

(** The text [v] is a part of the text [h]. *)
Definition part (v h : list Z) : Prop := exists a b, h = a ++ v ++ b.

Lemma part_trim v h r : part v h -> trim v SPACE = Ret r -> part r h.
Proof.
  intros (a & b & ->) E. destruct (trim_correct v SPACE) as (pre & r' & post & Ev & E' & _). rewrite E in E'.
  injection E' as <-. exists (a ++ pre), (post ++ b). rewrite Ev. by rewrite <- !app_assoc.
Qed.

Lemma part_slice h b e : part (slice h b e) h.
Proof. exists (take b h), (drop (e - b) (drop b h)). unfold slice. by rewrite !take_drop. Qed.

Section Invariant.
Context (now : Time) (url : HTTPAddress) (keep_expired : bool).

(** A header with a date that has passed. *)
Definition expired_part (HEADER : list Z) : Prop :=
  exists v e, part v HEADER /\ get_expires v = Ret e /\ Time_lt e now = true.

(** What a header must have for loading it to be undefined. *)
Definition ill_dated (HEADER : list Z) : Prop :=
  (exists v, part v HEADER /\ time_overflows v) \/ keep_expired = false /\ expired_part HEADER.

Record state_ok (HEADER : list Z) (st : ParseState) : Prop := {
  so_list : list_ok now keep_expired (list_ st);
  so_expired : expired st = false -> fresh now (ps_cookie st);
  so_seen : expired st = true -> expired_part HEADER
}.

Lemma fresh_same c c' : expires c' = expires c -> fresh now c -> fresh now c'.
Proof using. intros E. unfold fresh, is_expired. by rewrite E. Qed.

Lemma replace_fresh c l l' : fresh now c -> replace_cookie c l = Some l' -> Forall (fresh now) l -> Forall (fresh now) l'.
Proof using.
  intros Hc E Hl. revert l' E. induction Hl as [|it l Hit Hl IH]; intros l' E; cbn [replace_cookie] in E; [done|]. destruct (same_cookie it c).
  - injection E as <-. by constructor.
  - destruct (replace_cookie c l) as [r|]; [|done]. cbn in E. injection E as <-. constructor; [done|by apply IH].
Qed.

Lemma store_ok HEADER n v st : state_ok HEADER st ->
  match store_cookie keep_expired n v st with Ret st' => state_ok HEADER st' | Throw _ => False | Undef => ill_dated HEADER end.
Proof using.
  intros [[Hk Hf] He Hs]. unfold store_cookie. set (c := with_value (ps_cookie st) n v).
  assert (Hc : expired st = false -> fresh now c) by (intros H; apply (fresh_same (ps_cookie st)); [done|by apply He]).
  destruct (replace_cookie c (list_ st)) as [l|] eqn:E.
  - destruct (expired st) eqn:Ex; [destruct keep_expired eqn:Ek|]; cbn [andb negb obind]; [..|].
    + split; cbn [list_ expired]; [split; [|intros; congruence]|done|done]. apply replace_cookie_keys in E. by rewrite E.
    + right. split; [done|by apply Hs].
    + split; [split|done|done]; cbn [list_].
      * apply replace_cookie_keys in E. by rewrite E.
      * intros Hke. apply (replace_fresh c (list_ st) l) in E; [done|by apply Hc|by apply Hf].
  - apply replace_cookie_none in E. cbn [obind]. split; cbn [list_ ps_cookie expired]; [|done|done].
    destruct (negb (expired st) || keep_expired) eqn:Es; [|by split]. split.
    + cbn. apply NoDup_cons. by rewrite list_elem_of_In.
    + intros Hke. rewrite Hke, orb_false_r in Es. apply negb_true_iff in Es. constructor; [by apply Hc|by apply Hf].
Qed.

Lemma control_ok HEADER n v st : part v HEADER -> state_ok HEADER st ->
  match parse_control now url n v st with
  | Ret st' => state_ok HEADER st'
  | Throw e => argument_error (Some e)
  | Undef => ill_dated HEADER
  end.
Proof using.
  intros Hv [Hl He Hs]. unfold parse_control.
  destruct (Caseless_equal SECURE n); [by split|]. destruct (Caseless_equal CPATH n); [by split|].
  destruct (Caseless_equal CDOMAIN n); [by split|]. destruct (Caseless_equal EXPIRES n).
  - pose proof (get_expires_cases v) as Hc. destruct (get_expires v) as [e|[]|] eqn:Ee; cbn in Hc |- *; try done; [|left; by exists v].
    split; [done|..]; cbn [expired ps_cookie].
    + intros Hlt. unfold fresh, is_expired. cbn [expires with_expires]. by destruct (Time_eq e ZERO).
    + intros Hlt. by exists v, e.
  - split; [done|..|done]. cbn [expired ps_cookie]. intros H. apply (fresh_same (ps_cookie st)); [|by apply He].
    unfold complete. destruct (cookie_path (ps_cookie st)); [|destruct (equal _ _)]; cbn [cookie_domain with_path_];
      destruct (cookie_domain (ps_cookie st)); try destruct (equal _ _); done.
Qed.

(** The result of loading: the state and the error, or undefined for a reason. *)
Definition parsed_ok (HEADER : list Z) (m : outcome (ParseState * option exn)) : Prop :=
  match m with
  | Ret (st, e) => state_ok HEADER st /\ argument_error e
  | Throw _ => False
  | Undef => ill_dated HEADER
  end.

Lemma parse_value_ok HEADER n v st : part v HEADER -> state_ok HEADER st ->
  parsed_ok HEADER (parse_value now url keep_expired n v st).
Proof using.
  intros Hv Hst. unfold parse_value. destruct (trim_correct n SPACE) as (_ & n' & _ & _ & -> & _). cbn [obind].
  destruct (trim_correct v SPACE) as (_ & v' & _ & _ & Ev & _). pose proof (part_trim _ _ _ Hv Ev) as Hv'. rewrite Ev. cbn [obind].
  destruct n' as [|n0 n1]; [done|]. set (m := n0 :: n1).
  assert (Hc : match (if control_info st then parse_control now url m v' st else Ret st) with
    | Ret st' => state_ok HEADER st' | Throw e => argument_error (Some e) | Undef => ill_dated HEADER end).
  { destruct (control_info st); [by apply control_ok|done]. }
  destruct (if control_info st then _ else _) as [st'|e|]; [|done|done]. destruct (control_info st'); [done|].
  pose proof (store_ok HEADER m v' st' Hc) as Hs. by destruct (store_cookie keep_expired m v' st').
Qed.

Lemma part_nil h : part [] h.
Proof using. by exists [], h. Qed.

Lemma header_loop_ok HEADER b : (b <= length HEADER)%nat -> forall ce sep st, state_ok HEADER st ->
  parsed_ok HEADER (header_loop now url keep_expired HEADER b ce sep st).
Proof using.
  assert (Hparse : forall b ce sep st, state_ok HEADER st -> parsed_ok HEADER (if (b =? length HEADER)%nat then Ret (st, None) else
     match sep with
     | Some p => parse_value now url keep_expired (slice HEADER b (p - 1)) (slice HEADER p ce) st
     | None => parse_value now url keep_expired (slice HEADER b ce) [] st
     end)).
  { intros b' ce sep st Hst. destruct (_ =? _)%nat; [done|].
    destruct sep; apply parse_value_ok; (done || apply part_slice || apply part_nil). }
  induction b as [|b IH]; intros Hb ce sep st Hst; [by apply Hparse|].
  cbn [header_loop]. destruct (lookup_lt_is_Some_2 HEADER b ltac:(lia)) as (ch & Ech). unfold rd. rewrite Ech. cbn [obind].
  destruct (ch =? ";"%uchar).
  - specialize (Hparse (S b) ce sep st Hst). destruct (if (S b =? _)%nat then _ else _) as [[st' e]| |]; [|done|done].
    destruct Hparse as [Hst' He]. cbn [obind]. destruct e; [done|]. apply IH; [lia|done].
  - destruct (ch =? "="%uchar); apply IH; (lia || done).
Qed.

Lemma load_ok headers : forall l, list_ok now keep_expired l ->
  match load_from_headers now l headers url keep_expired with
  | Ret (l', e) => list_ok now keep_expired l' /\ argument_error e
  | Throw _ => False
  | Undef => exists h, In h headers /\ ill_dated (header_value h)
  end.
Proof using.
  induction headers as [|h headers IH]; intros l Hl; cbn [load_from_headers]; [done|].
  assert (Hrest : forall l, list_ok now keep_expired l ->
    match load_from_headers now l headers url keep_expired with
    | Ret (l', e) => list_ok now keep_expired l' /\ argument_error e
    | Throw _ => False
    | Undef => exists h0, In h0 (h :: headers) /\ ill_dated (header_value h0)
    end).
  { intros l0 Hl0. specialize (IH l0 Hl0). destruct (load_from_headers now l0 headers url keep_expired) as [[]| |]; [done|done|].
    destruct IH as (h0 & ? & ?). exists h0. split; [by right|done]. }
  destruct (negb _); [by apply Hrest|].
  pose proof (header_loop_ok (header_value h) (length (header_value h)) ltac:(lia) (length (header_value h)) None
    {| list_ := l; ps_cookie := with_secure CookieDef_ (secure_ url); control_info := true; expired := false |}) as Hh.
  destruct (header_loop _ _ _ _ _ _ _ _) as [[st e]| |].
  - destruct Hh as [[Hst _ _] He]; [by split|]. cbn [obind]. destruct e; [done|]. by apply Hrest.
  - apply Hh. by split.
  - exists h. split; [by left|]. apply Hh. by split.
Qed.
End Invariant.

(** C34: Loading headers into a list of cookies: no text is read out of bounds, the only
    exception is [InvalidArgument], and in every case, the exception included, no two
    cookies of the list have the same domain up to case, path and name; unless expired
    cookies are kept, none of them has expired, so that the expiration before a [Cookie]
    header at the same time drops nothing.  The behaviour is undefined only for a header
    with a part that reads as a date whose hours or minutes overflow when they are made
    seconds, or, unless expired cookies are kept, as a date that has passed. *)
Theorem CookieDefList_invariant now url keep_expired l headers : list_ok now keep_expired l ->
  match load_from_headers now l headers url keep_expired with
  | Ret (l', e) => argument_error e /\ list_ok now keep_expired l' /\ CookieDefList_expire_ now keep_expired l' false = l'
  | Throw _ => False
  | Undef => exists h v, In h headers /\ part v (header_value h) /\
      (time_overflows v \/ keep_expired = false /\ exists e, get_expires v = Ret e /\ Time_lt e now = true)
  end.
Proof.
  intros Hl. pose proof (load_ok now url keep_expired headers l Hl) as H.
  destruct (load_from_headers now l headers url keep_expired) as [[l' e]| |]; [|done|].
  - destruct H as [H He]. split; [done|]. split; [done|]. unfold CookieDefList_expire_, expire. destruct keep_expired; [done|].
    destruct H as [_ Hf]. specialize (Hf eq_refl). induction Hf as [|c l' Hc _ IH]; [done|].
    cbn [List.filter]. unfold fresh in Hc. rewrite Hc. cbn [negb]. by f_equal.
  - destruct H as (h & Hin & [(v & Hp & Ho)|(Hk & v & e & Hp & Ee & Hlt)]); exists h, v; split; auto.
    split; [done|]. right. split; [done|]. by exists e.
Qed.

Definition example_address : HTTPAddress :=
  match HTTPAddress_of_url (bytes "http://www.a.com/x") true with Ret a => a | _ => empty_address end.

Lemma CookieDefList_invariant_witness :
  exists l, load_from_headers (mkTime 1000 0) [] [{| header_name := SET_COOKIE; header_value := bytes "a=1; b=2; domain=.A.com" |};
     {| header_name := SET_COOKIE; header_value := bytes "a=3; domain=.a.com" |}] example_address false = Ret (l, None) /\
  list_ok (mkTime 1000 0) false l /\ map (fun c : CookieDef => value c) l = [bytes "3"; bytes "2"].
Proof.
  pose proof (CookieDefList_invariant (mkTime 1000 0) example_address false []
    [{| header_name := SET_COOKIE; header_value := bytes "a=1; b=2; domain=.A.com" |};
     {| header_name := SET_COOKIE; header_value := bytes "a=3; domain=.a.com" |}]) as H.
  destruct (load_from_headers _ _ _ _ _) as [[l e]| |] eqn:E; [|vm_compute in E; discriminate E..].
  destruct H as (_ & Hl & _); [split; [apply NoDup_nil_2|intros _; apply List.Forall_nil]|].
  exists l. assert (e = None) as -> by (vm_compute in E; injection E as _ <-; reflexivity). split; [reflexivity|]. split; [exact Hl|].
  vm_compute in E. injection E as <-. reflexivity.
Defined.

(** Both undefined cases happen: a cookie that a server deletes by an old date, and a date
    with too many hours. *)
Example load_undefined :
  let load h := load_from_headers (mkTime 1000 0) [] [{| header_name := SET_COOKIE; header_value := bytes "a=1" |};
    {| header_name := SET_COOKIE; header_value := bytes h |}] example_address false in
  load "a=1; expires=Thu, 01-Jan-1970 00:00:01 GMT" = Undef /\
  load "b=1; expires=Wed, 01-Jan-2020 600000:00:00 GMT" = Undef.
Proof. split; vm_compute; reflexivity. Qed.

Definition example_cookies : list CookieDef :=
  [{| cookie := {| name := bytes "a"; value := bytes "1" |}; cookie_domain := bytes ".a.com"; cookie_path := bytes "/";
      expires := mkTime 951782405 0; secure := true |};
   {| cookie := {| name := bytes "b"; value := bytes "x=y" |}; cookie_domain := bytes ".a.com"; cookie_path := bytes "/";
      expires := mkTime 951782405 0; secure := true |}].

Lemma example_good : Forall (good_cookie (mkTime 1000 0)) example_cookies.
Proof.
  assert (Ht : forall t, t = bytes ".a.com" \/ t = bytes "/" -> forall d, d = bytes "." \/ d = bytes "\" -> good_text d t).
  { intros t [-> | ->] d [-> | ->]; (split; [discriminate|]; split; [apply clean_text; [discriminate|vm_compute; reflexivity|vm_compute; reflexivity]|];
      split; [vm_compute; intuition lia|discriminate]). }
  assert (Hc : forall t, t = bytes "a" \/ t = bytes "b" \/ t = bytes "1" \/ t = bytes "x=y" -> clean t).
  { intros t [-> | [-> | [-> | ->]]]; (apply clean_text; [discriminate|vm_compute; reflexivity|vm_compute; reflexivity]). }
  repeat apply List.Forall_cons; try apply List.Forall_nil; (split; [split|split; [apply Ht; auto|apply Ht; auto|]]);
    cbn [name value cookie expires].
  all: try (split; [apply Hc; auto|vm_compute; intuition lia]).
  all: try (right; vm_compute; repeat split; reflexivity).
  all: split; [discriminate|]; split; [apply Hc; auto|]; repeat split; vm_compute; intuition lia.
Qed.

Lemma set_cookie_roundtrip_witness :
  exists headers l, set_cookie_header example_cookies = Ret headers /\
  map header_value headers = [bytes "a=1; b=x=y; expires=Tue, 29-Feb-2000 00:00:05 GMT; domain=.a.com; path=/; secure"] /\
  load_from_headers (mkTime 1000 0) [] headers example_address false = Ret (l, None) /\ Permutation l example_cookies.
Proof.
  assert (Hk : NoDup (map key example_cookies)) by by_eval.
  destruct (set_cookie_roundtrip (mkTime 1000 0) example_address false example_cookies example_good Hk) as [_ H].
  { intros _. by_eval. }
  destruct H as (headers & l & E & El & Hp); [by_eval|]. exists headers, l. split; [exact E|]. split; [|split; [exact El|exact Hp]].
  vm_compute in E. injection E as <-. reflexivity.
Defined.

(** ** Cookie headers *)

(** *** What is sent *)

Definition pair_text (c : Cookie) : list Z := name c ++ bytes "=" ++ value c.

Fixpoint pairs_text (l : list Cookie) : list Z :=
  match l with
  | [] => []
  | [c] => pair_text c
  | c :: l' => pair_text c ++ bytes "; " ++ pairs_text l'
  end.

(** The cookies for an address: allowed on it, the domain ends the host up to case, the
    path begins the path of the address. *)
Definition sent_to (url : HTTPAddress) (c : CookieDef) : Prop :=
  (secure c = true -> secure_ url = true) /\
  (exists h t, address_host url = h ++ t /\ to_lower_str t = to_lower_str (cookie_domain c)) /\
  (exists r, address_path url = cookie_path c ++ r).

Lemma is_sent_ok url c : exists b, is_sent url c = Ret b /\ (b = true <-> sent_to url c).
Proof.
  unfold is_sent, sent_to. set (host := address_host url). set (n := length (cookie_domain c)).
  destruct (secure c && negb (secure_ url)) eqn:Es; cbn [orb].
  { exists false. split; [done|]. split; [done|]. intros [H _]. apply andb_true_iff in Es as [E1 E2]. by rewrite (H E1) in E2. }
  assert (Hs : secure c = true -> secure_ url = true) by (by destruct (secure c), (secure_ url)).
  destruct (Nat.ltb_spec (length host) n) as [Hl|Hl].
  { exists false. split; [done|]. split; [done|]. intros (_ & (h & t & E & Et) & _). apply (f_equal length) in E, Et.
    unfold to_lower_str in Et. rewrite !length_map in Et. rewrite length_app in E. fold n in Et. lia. }
  unfold substr. rewrite (proj2 (Nat.leb_le _ _)) by lia. cbn [obind].
  assert (Edrop : take n (drop (length host - n) host) = drop (length host - n) host) by (apply take_ge; rewrite length_drop; lia).
  rewrite Edrop. destruct (Caseless_equal (cookie_domain c) (drop (length host - n) host)) eqn:Ed; cbn [negb].
  - apply Caseless_equal_spec in Ed. rewrite (proj2 (Nat.leb_le 0 _)) by lia. cbn [obind]. eexists. split; [done|]. rewrite equal_spec, drop_0.
    split.
    + intros E. split; [done|]. split; [exists (take (length host - n) host), (drop (length host - n) host); by rewrite take_drop|].
      exists (drop (length (cookie_path c)) (address_path url)). by rewrite <- E at 1; rewrite take_drop.
    + intros (_ & _ & r & ->). apply take_app_length.
  - exists false. split; [done|]. split; [done|]. intros (_ & (h & t & E & Et) & _).
    assert (Hn : length t = n) by (apply (f_equal length) in Et; unfold to_lower_str in Et; by rewrite !length_map in Et).
    assert (Caseless_equal (cookie_domain c) (drop (length host - n) host) = true); [|congruence]. apply Caseless_equal_spec.
    rewrite E, length_app, Hn, Nat.add_sub, drop_app_length. done.
Qed.

Lemma cookie_header_rest url l result : exists sent, cookie_header_loop l url result false =
  Ret (result ++ concat (map (fun c : CookieDef => bytes "; " ++ pair_text c) sent)) /\ sublist sent l /\ forall c, In c l -> In c sent <-> sent_to url c.
Proof.
  revert result. induction l as [|c l IH]; intros result; [exists []; by rewrite app_nil_r|]. cbn [cookie_header_loop].
  destruct (is_sent_ok url c) as ([|] & -> & Hc); cbn [obind negb].
  - destruct (IH ((result ++ bytes "; ") ++ name c ++ bytes "=" ++ value c)) as (sent & -> & Hs & Hi). exists (c :: sent).
    split; [cbn [map concat]; unfold pair_text; by rewrite <- !app_assoc|]. split; [by constructor|]. intros c' [<-|Hin]; [|split; [intros [<-|H]|]].
    + split; [by intros _; apply Hc|by left].
    + by apply Hc.
    + by apply Hi.
    + intros H. right. by apply Hi.
  - destruct (IH result) as (sent & -> & Hs & Hi). exists sent. split; [done|]. split; [by constructor|]. intros c' [<-|Hin]; [|by apply Hi]. split.
    + intros H. assert (Hl : In c l) by (apply list_elem_of_In; eapply elem_of_sublist; [apply list_elem_of_In; exact H|done]). by apply Hi.
    + intros H. by apply Hc in H.
Qed.

Lemma pairs_text_cons c l : pairs_text (c :: l) = pair_text c ++ concat (map (fun c => bytes "; " ++ pair_text c) l).
Proof.
  revert c. induction l as [|d l IH]; intros c; [by rewrite app_nil_r|].
  change (pairs_text (c :: d :: l)) with (pair_text c ++ bytes "; " ++ pairs_text (d :: l)). rewrite IH. done.
Qed.

Lemma cookie_header_ok url l : exists sent, cookie_header l url = Ret (pairs_text (map cookie sent)) /\ sublist sent l /\
  forall c, In c l -> In c sent <-> sent_to url c.
Proof.
  unfold cookie_header. induction l as [|c l IH]; [by exists []|]. cbn [cookie_header_loop].
  destruct (is_sent_ok url c) as ([|] & -> & Hc); cbn [obind negb app].
  - destruct (cookie_header_rest url l (name c ++ bytes "=" ++ value c)) as (sent & -> & Hs & Hi). exists (c :: sent). split.
    + f_equal. cbn [map]. rewrite pairs_text_cons, map_map. done.
    + split; [by constructor|]. intros c' [<-|Hin]; [split; [by intros _; apply Hc|by left]|]. split; [intros [<-|H]; [by apply Hc|by apply Hi]|].
      intros H. right. by apply Hi.
  - destruct IH as (sent & -> & Hs & Hi). exists sent. split; [done|]. split; [by constructor|]. intros c' [<-|Hin]; [|by apply Hi]. split.
    + intros H. assert (Hl : In c l) by (apply list_elem_of_In; eapply elem_of_sublist; [apply list_elem_of_In; exact H|done]). by apply Hi.
    + intros H. by apply Hc in H.
Qed.

(** *** What a server reads *)

(** A pair that a [Cookie] header can hold. *)
Record good_token (c : Cookie) : Prop := {
  gt_name : name c <> [] /\ clean (name c) /\ ~ In "="%uchar (name c);
  gt_value : clean (value c);
  gt_free : Forall (fun ch => ch <> ";"%uchar /\ ch <> ","%uchar) (pair_text c)
}.

Lemma find_sep_at t rest : Forall (fun ch => ch <> ";"%uchar /\ ch <> ","%uchar) t ->
  rest = [] \/ (exists r, rest = bytes "; " ++ r) -> find_sep (t ++ rest) = Some (rest, if is_nil rest then O else 2%nat).
Proof.
  intros Ht Hr. induction Ht as [|ch t [H1 H2] _ IH]; cbn [app find_sep].
  - by destruct Hr as [-> | (r & ->)].
  - by rewrite (proj2 (Z.eqb_neq _ _) H1), (proj2 (Z.eqb_neq _ _) H2).
Qed.

Lemma load_cookie_ok rd c l : good_token c -> load_cookie rd (pair_text c) l = Ret (add_cookie rd (name c) (value c) l).
Proof.
  intros [(Hn & Hcl & He) Hv _]. unfold load_cookie, pair_text. destruct (name c ++ bytes "=" ++ value c) as [|c0 p] eqn:Ep; [by destruct (name c)|].
  rewrite <- Ep. change (bytes "=" ++ value c) with ("="%uchar :: value c).
  assert (Ef : SubString_find_char (name c ++ "="%uchar :: value c) "="%uchar 0 = Some (length (name c))).
  { unfold SubString_find_char. rewrite (proj2 (Nat.ltb_lt _ _)) by (rewrite length_app; cbn; lia). rewrite drop_0, index_app by done.
    cbn [index]. rewrite Z.eqb_refl. cbn. by rewrite Nat.add_0_r. }
  rewrite Ef. pose proof (substr_app [] (name c) ("="%uchar :: value c)) as E1. cbn [app length] in E1. rewrite E1. cbn [obind].
  rewrite trim_own by done. cbn [obind]. destruct (name c) as [|n0 n] eqn:En; [done|]. rewrite <- En in *.
  assert (E2 : substr (name c ++ "="%uchar :: value c) (length (name c) + 1) (length (name c ++ "="%uchar :: value c)) = Ret (value c)).
  { set (N := length (name c ++ "="%uchar :: value c)). pose proof (substr_tail (name c ++ bytes "=") (value c) N ltac:(unfold N; rewrite length_app; cbn; lia)) as E.
    rewrite <- app_assoc, (length_app (name c) (bytes "=")) in E. exact E. }
  rewrite E2. cbn [obind]. rewrite trim_own by done. done.
Qed.

Lemma add_cookie_fresh rd n v l : ~ In n (map name l) -> add_cookie rd n v l = l ++ [{| name := n; value := v |}].
Proof.
  intros Hn. unfold add_cookie. destruct rd; [done|]. assert (replace_value n v l = None) as ->; [|done].
  induction l as [|it l IH]; [done|]. cbn [replace_value map In] in *.
  assert (equal n (name it) = false) as -> by (apply not_true_is_false; rewrite equal_spec; intros ->; tauto). by rewrite IH by tauto.
Qed.

Lemma cookies_loop_ok rd cs : Forall good_token cs -> forall fuel l sep err, (length cs < fuel)%nat -> NoDup (map name l ++ map name cs) ->
  cookies_loop fuel rd {| str := pairs_text cs; separator := sep; error := err |} l = Ret (l ++ cs, None).
Proof.
  induction 1 as [|c cs Hc Hcs IH]; intros fuel l sep err Hf Hn; (destruct fuel as [|fuel]; [cbn in Hf; lia|]); cbn [cookies_loop].
  { cbn. by rewrite app_nil_r. }
  assert (Hnew : ~ In (name c) (map name l)).
  { apply NoDup_app in Hn as (_ & H & _). intros Hin. apply (H (name c)); [by apply list_elem_of_In|left]. }
  assert (Hne : pair_text c <> []) by (destruct Hc as [(H & _) _ _]; unfold pair_text; by destruct (name c)).
  set (rest := match cs with [] => [] | _ => bytes "; " ++ pairs_text cs end).
  assert (Ep : pairs_text (c :: cs) = pair_text c ++ rest) by (unfold rest; destruct cs; [by rewrite app_nil_r|done]).
  assert (Et : get_token CookieSep_ true {| str := pairs_text (c :: cs); separator := sep; error := err |} =
    Ret (Some (pair_text c), {| str := pairs_text cs; separator := Some rest; error := err |})).
  { unfold get_token, get_token_empty. cbn [str cat_find_owned CookieSep_category obind error]. rewrite Ep, find_sep_at.
    - destruct (pair_text c ++ rest) as [|x y] eqn:E; [by destruct (pair_text c)|]. rewrite <- E, range_app. unfold rest. by destruct cs.
    - apply Hc.
    - unfold rest. destruct cs; [by left|right; by eexists]. }
  rewrite Et. cbn [obind]. rewrite load_cookie_ok, add_cookie_fresh by done. rewrite IH.
  - rewrite <- app_assoc. by destruct c.
  - cbn in Hf. lia.
  - rewrite map_app. cbn [map]. rewrite <- app_assoc. exact Hn.
Qed.

Lemma pairs_text_length cs : Forall good_token cs -> (length cs <= length (pairs_text cs))%nat.
Proof.
  induction 1 as [|c cs Hc _ IH]; [done|]. rewrite pairs_text_cons, length_app. destruct cs as [|d cs].
  - destruct Hc as [(H & _) _ _]. unfold pair_text. rewrite !length_app. cbn. lia.
  - rewrite pairs_text_cons in IH. cbn [map concat]. rewrite !length_app in *. change (length (bytes "; ")) with 2%nat. cbn [length] in *. lia.
Qed.

Lemma pair_text_last c : good_token c -> is_owned SPACE (List.last (pair_text c) 0) = false.
Proof.
  intros [_ [_ Hv] _]. unfold pair_text. destruct (value c) as [|x v] using rev_ind.
  - rewrite app_nil_r. change (bytes "=") with ["="%uchar]. rewrite last_last. by vm_compute.
  - rewrite !app_assoc, last_last. by apply (Hv x v).
Qed.

Lemma last_app_ne (a b : list Z) d : b <> [] -> List.last (a ++ b) d = List.last b d.
Proof.
  intros Hb. induction a as [|x a IH]; [done|]. cbn [app]. destruct (a ++ b) eqn:E; [by destruct a|]. rewrite <- E in *. cbn. rewrite E in *. exact IH.
Qed.

Lemma pairs_text_clean cs : Forall good_token cs -> clean (pairs_text cs).
Proof.
  intros Hg. destruct cs as [|c cs]; [apply clean_nil|]. assert (Hne : forall c, good_token c -> pair_text c <> []).
  { intros x [(H & _) _ _]. unfold pair_text. by destruct (name x). }
  inversion_clear Hg as [|? ? Hc Hcs]. apply clean_text.
  - rewrite pairs_text_cons. specialize (Hne c Hc). by destruct (pair_text c).
  - rewrite pairs_text_cons. destruct Hc as [(Hn & [Hh _] & _) _ _]. unfold pair_text. destruct (name c) as [|x n]; [done|]. by apply (Hh x n).
  - revert c Hc. induction Hcs as [|d cs Hd _ IH]; intros c Hc; [by apply pair_text_last|].
    change (pairs_text (c :: d :: cs)) with (pair_text c ++ bytes "; " ++ pairs_text (d :: cs)).
    assert (pairs_text (d :: cs) <> []) by (rewrite pairs_text_cons; specialize (Hne d Hd); by destruct (pair_text d)).
    rewrite !last_app_ne by done. by apply IH.
Qed.

Lemma CookieList_header_rest l result :
  CookieList_header_loop l result false = result ++ concat (map (fun c => bytes "; " ++ pair_text c) l).
Proof.
  revert result. induction l as [|c l IH]; intros result; cbn [CookieList_header_loop map concat]; [by rewrite app_nil_r|].
  rewrite IH. unfold pair_text. cbn [negb]. by rewrite <- !app_assoc.
Qed.

Lemma CookieList_header_text l : CookieList_cookie_header l = pairs_text l.
Proof.
  unfold CookieList_cookie_header. destruct l as [|c l]; [done|]. cbn [CookieList_header_loop negb app].
  by rewrite CookieList_header_rest, pairs_text_cons.
Qed.

(** The [Cookie] header of a list for an address, and what a server reads from it.  The
    header holds exactly the cookies allowed on the connection whose domain ends the host up
    to case and whose path begins the path of the address, in the order of the list; when
    their names are different and a header can hold them, [CookieList] reads the same
    cookies in this order and writes the same header. *)
Theorem cookie_header_roundtrip url l replace_duplicate : exists sent h, cookie_header l url = Ret h /\ sublist sent l /\
  (forall c, In c l -> In c sent <-> sent_to url c) /\
  (Forall good_token (map cookie sent) -> NoDup (map (fun c : CookieDef => name c) sent) ->
   CookieList_load_from_headers_ [] [{| header_name := COOKIE; header_value := h |}] replace_duplicate = Ret (map cookie sent, None) /\
   CookieList_cookie_header (map cookie sent) = h).
Proof.
  destruct (cookie_header_ok url l) as (sent & E & Hs & Hi). eexists sent, _. split; [exact E|]. split; [done|]. split; [done|]. intros Hg Hn.
  split; [|apply CookieList_header_text].
  cbn [CookieList_load_from_headers_ header_name header_value]. change (Caseless_equal COOKIE COOKIE) with true. cbn [negb].
  rewrite trim_own by by apply pairs_text_clean. cbn [obind]. unfold SplitterState_.
  rewrite cookies_loop_ok; [done|done| |].
  - pose proof (pairs_text_length _ Hg). lia.
  - cbn [map app]. rewrite map_map. exact Hn.
Qed.

Lemma cookie_header_roundtrip_witness :
  exists sent h, cookie_header example_cookies
    {| address := address example_address; port_number_ := 443; secure_ := true; default_port_ := true |} = Ret h /\
  h = bytes "a=1; b=x=y" /\ sublist sent example_cookies.
Proof.
  destruct (cookie_header_roundtrip {| address := address example_address; port_number_ := 443; secure_ := true; default_port_ := true |}
    example_cookies true) as (sent & h & E & Hs & _). exists sent, h. split; [exact E|]. split; [|exact Hs].
  vm_compute in E. injection E as <-. reflexivity.
Defined.

(** The flag of [load_from_headers] of [CookieList] works the other way round: a cookie that
    comes again replaces the first without the flag and is appended with it. *)
Example replace_duplicate_inverted :
  let headers := [{| header_name := COOKIE; header_value := bytes "a=1; a=2" |}] in
  CookieList_load_from_headers_ [] headers true =
    Ret ([{| name := bytes "a"; value := bytes "1" |}; {| name := bytes "a"; value := bytes "2" |}], None) /\
  CookieList_load_from_headers_ [] headers false = Ret ([{| name := bytes "a"; value := bytes "2" |}], None).
Proof. split; vm_compute; reflexivity. Qed.
