(* ===== verification/Crc.v ===== *)
(** * Crc: cyclic redundancy checks

    Models [Generics/CRC.hpp] and the tables of [Generics/CRC.cpp].  Both functions
    are compared with the division by the polynomial bit by bit, [quick] with the
    most significant bit first and [reversed] with the least significant one. *)
From Stdlib Require Import Btauto.
From S2P Require Import Prelude.
Local Open Scope Z_scope.
Local Open Scope outcome_scope.

Definition CRC_QUICK_TABLE : list Z :=
  [0x00000000; 0x04C11DB7; 0x09823B6E; 0x0D4326D9; 0x130476DC; 0x17C56B6B; 0x1A864DB2; 0x1E475005;
   0x2608EDB8; 0x22C9F00F; 0x2F8AD6D6; 0x2B4BCB61; 0x350C9B64; 0x31CD86D3; 0x3C8EA00A; 0x384FBDBD;
   0x4C11DB70; 0x48D0C6C7; 0x4593E01E; 0x4152FDA9; 0x5F15ADAC; 0x5BD4B01B; 0x569796C2; 0x52568B75;
   0x6A1936C8; 0x6ED82B7F; 0x639B0DA6; 0x675A1011; 0x791D4014; 0x7DDC5DA3; 0x709F7B7A; 0x745E66CD;
   0x9823B6E0; 0x9CE2AB57; 0x91A18D8E; 0x95609039; 0x8B27C03C; 0x8FE6DD8B; 0x82A5FB52; 0x8664E6E5;
   0xBE2B5B58; 0xBAEA46EF; 0xB7A96036; 0xB3687D81; 0xAD2F2D84; 0xA9EE3033; 0xA4AD16EA; 0xA06C0B5D;
   0xD4326D90; 0xD0F37027; 0xDDB056FE; 0xD9714B49; 0xC7361B4C; 0xC3F706FB; 0xCEB42022; 0xCA753D95;
   0xF23A8028; 0xF6FB9D9F; 0xFBB8BB46; 0xFF79A6F1; 0xE13EF6F4; 0xE5FFEB43; 0xE8BCCD9A; 0xEC7DD02D;
   0x34867077; 0x30476DC0; 0x3D044B19; 0x39C556AE; 0x278206AB; 0x23431B1C; 0x2E003DC5; 0x2AC12072;
   0x128E9DCF; 0x164F8078; 0x1B0CA6A1; 0x1FCDBB16; 0x018AEB13; 0x054BF6A4; 0x0808D07D; 0x0CC9CDCA;
   0x7897AB07; 0x7C56B6B0; 0x71159069; 0x75D48DDE; 0x6B93DDDB; 0x6F52C06C; 0x6211E6B5; 0x66D0FB02;
   0x5E9F46BF; 0x5A5E5B08; 0x571D7DD1; 0x53DC6066; 0x4D9B3063; 0x495A2DD4; 0x44190B0D; 0x40D816BA;
   0xACA5C697; 0xA864DB20; 0xA527FDF9; 0xA1E6E04E; 0xBFA1B04B; 0xBB60ADFC; 0xB6238B25; 0xB2E29692;
   0x8AAD2B2F; 0x8E6C3698; 0x832F1041; 0x87EE0DF6; 0x99A95DF3; 0x9D684044; 0x902B669D; 0x94EA7B2A;
   0xE0B41DE7; 0xE4750050; 0xE9362689; 0xEDF73B3E; 0xF3B06B3B; 0xF771768C; 0xFA325055; 0xFEF34DE2;
   0xC6BCF05F; 0xC27DEDE8; 0xCF3ECB31; 0xCBFFD686; 0xD5B88683; 0xD1799B34; 0xDC3ABDED; 0xD8FBA05A;
   0x690CE0EE; 0x6DCDFD59; 0x608EDB80; 0x644FC637; 0x7A089632; 0x7EC98B85; 0x738AAD5C; 0x774BB0EB;
   0x4F040D56; 0x4BC510E1; 0x46863638; 0x42472B8F; 0x5C007B8A; 0x58C1663D; 0x558240E4; 0x51435D53;
   0x251D3B9E; 0x21DC2629; 0x2C9F00F0; 0x285E1D47; 0x36194D42; 0x32D850F5; 0x3F9B762C; 0x3B5A6B9B;
   0x0315D626; 0x07D4CB91; 0x0A97ED48; 0x0E56F0FF; 0x1011A0FA; 0x14D0BD4D; 0x19939B94; 0x1D528623;
   0xF12F560E; 0xF5EE4BB9; 0xF8AD6D60; 0xFC6C70D7; 0xE22B20D2; 0xE6EA3D65; 0xEBA91BBC; 0xEF68060B;
   0xD727BBB6; 0xD3E6A601; 0xDEA580D8; 0xDA649D6F; 0xC423CD6A; 0xC0E2D0DD; 0xCDA1F604; 0xC960EBB3;
   0xBD3E8D7E; 0xB9FF90C9; 0xB4BCB610; 0xB07DABA7; 0xAE3AFBA2; 0xAAFBE615; 0xA7B8C0CC; 0xA379DD7B;
   0x9B3660C6; 0x9FF77D71; 0x92B45BA8; 0x9675461F; 0x8832161A; 0x8CF30BAD; 0x81B02D74; 0x857130C3;
   0x5D8A9099; 0x594B8D2E; 0x5408ABF7; 0x50C9B640; 0x4E8EE645; 0x4A4FFBF2; 0x470CDD2B; 0x43CDC09C;
   0x7B827D21; 0x7F436096; 0x7200464F; 0x76C15BF8; 0x68860BFD; 0x6C47164A; 0x61043093; 0x65C52D24;
   0x119B4BE9; 0x155A565E; 0x18197087; 0x1CD86D30; 0x029F3D35; 0x065E2082; 0x0B1D065B; 0x0FDC1BEC;
   0x3793A651; 0x3352BBE6; 0x3E119D3F; 0x3AD08088; 0x2497D08D; 0x2056CD3A; 0x2D15EBE3; 0x29D4F654;
   0xC5A92679; 0xC1683BCE; 0xCC2B1D17; 0xC8EA00A0; 0xD6AD50A5; 0xD26C4D12; 0xDF2F6BCB; 0xDBEE767C;
   0xE3A1CBC1; 0xE760D676; 0xEA23F0AF; 0xEEE2ED18; 0xF0A5BD1D; 0xF464A0AA; 0xF9278673; 0xFDE69BC4;
   0x89B8FD09; 0x8D79E0BE; 0x803AC667; 0x84FBDBD0; 0x9ABC8BD5; 0x9E7D9662; 0x933EB0BB; 0x97FFAD0C;
   0xAFB010B1; 0xAB710D06; 0xA6322BDF; 0xA2F33668; 0xBCB4666D; 0xB8757BDA; 0xB5365D03; 0xB1F740B4].

Definition CRC_REVERSED_TABLE : list Z :=
  [0x00000000; 0x77073096; 0xEE0E612C; 0x990951BA; 0x076DC419; 0x706AF48F; 0xE963A535; 0x9E6495A3;
   0x0EDB8832; 0x79DCB8A4; 0xE0D5E91E; 0x97D2D988; 0x09B64C2B; 0x7EB17CBD; 0xE7B82D07; 0x90BF1D91;
   0x1DB71064; 0x6AB020F2; 0xF3B97148; 0x84BE41DE; 0x1ADAD47D; 0x6DDDE4EB; 0xF4D4B551; 0x83D385C7;
   0x136C9856; 0x646BA8C0; 0xFD62F97A; 0x8A65C9EC; 0x14015C4F; 0x63066CD9; 0xFA0F3D63; 0x8D080DF5;
   0x3B6E20C8; 0x4C69105E; 0xD56041E4; 0xA2677172; 0x3C03E4D1; 0x4B04D447; 0xD20D85FD; 0xA50AB56B;
   0x35B5A8FA; 0x42B2986C; 0xDBBBC9D6; 0xACBCF940; 0x32D86CE3; 0x45DF5C75; 0xDCD60DCF; 0xABD13D59;
   0x26D930AC; 0x51DE003A; 0xC8D75180; 0xBFD06116; 0x21B4F4B5; 0x56B3C423; 0xCFBA9599; 0xB8BDA50F;
   0x2802B89E; 0x5F058808; 0xC60CD9B2; 0xB10BE924; 0x2F6F7C87; 0x58684C11; 0xC1611DAB; 0xB6662D3D;
   0x76DC4190; 0x01DB7106; 0x98D220BC; 0xEFD5102A; 0x71B18589; 0x06B6B51F; 0x9FBFE4A5; 0xE8B8D433;
   0x7807C9A2; 0x0F00F934; 0x9609A88E; 0xE10E9818; 0x7F6A0DBB; 0x086D3D2D; 0x91646C97; 0xE6635C01;
   0x6B6B51F4; 0x1C6C6162; 0x856530D8; 0xF262004E; 0x6C0695ED; 0x1B01A57B; 0x8208F4C1; 0xF50FC457;
   0x65B0D9C6; 0x12B7E950; 0x8BBEB8EA; 0xFCB9887C; 0x62DD1DDF; 0x15DA2D49; 0x8CD37CF3; 0xFBD44C65;
   0x4DB26158; 0x3AB551CE; 0xA3BC0074; 0xD4BB30E2; 0x4ADFA541; 0x3DD895D7; 0xA4D1C46D; 0xD3D6F4FB;
   0x4369E96A; 0x346ED9FC; 0xAD678846; 0xDA60B8D0; 0x44042D73; 0x33031DE5; 0xAA0A4C5F; 0xDD0D7CC9;
   0x5005713C; 0x270241AA; 0xBE0B1010; 0xC90C2086; 0x5768B525; 0x206F85B3; 0xB966D409; 0xCE61E49F;
   0x5EDEF90E; 0x29D9C998; 0xB0D09822; 0xC7D7A8B4; 0x59B33D17; 0x2EB40D81; 0xB7BD5C3B; 0xC0BA6CAD;
   0xEDB88320; 0x9ABFB3B6; 0x03B6E20C; 0x74B1D29A; 0xEAD54739; 0x9DD277AF; 0x04DB2615; 0x73DC1683;
   0xE3630B12; 0x94643B84; 0x0D6D6A3E; 0x7A6A5AA8; 0xE40ECF0B; 0x9309FF9D; 0x0A00AE27; 0x7D079EB1;
   0xF00F9344; 0x8708A3D2; 0x1E01F268; 0x6906C2FE; 0xF762575D; 0x806567CB; 0x196C3671; 0x6E6B06E7;
   0xFED41B76; 0x89D32BE0; 0x10DA7A5A; 0x67DD4ACC; 0xF9B9DF6F; 0x8EBEEFF9; 0x17B7BE43; 0x60B08ED5;
   0xD6D6A3E8; 0xA1D1937E; 0x38D8C2C4; 0x4FDFF252; 0xD1BB67F1; 0xA6BC5767; 0x3FB506DD; 0x48B2364B;
   0xD80D2BDA; 0xAF0A1B4C; 0x36034AF6; 0x41047A60; 0xDF60EFC3; 0xA867DF55; 0x316E8EEF; 0x4669BE79;
   0xCB61B38C; 0xBC66831A; 0x256FD2A0; 0x5268E236; 0xCC0C7795; 0xBB0B4703; 0x220216B9; 0x5505262F;
   0xC5BA3BBE; 0xB2BD0B28; 0x2BB45A92; 0x5CB36A04; 0xC2D7FFA7; 0xB5D0CF31; 0x2CD99E8B; 0x5BDEAE1D;
   0x9B64C2B0; 0xEC63F226; 0x756AA39C; 0x026D930A; 0x9C0906A9; 0xEB0E363F; 0x72076785; 0x05005713;
   0x95BF4A82; 0xE2B87A14; 0x7BB12BAE; 0x0CB61B38; 0x92D28E9B; 0xE5D5BE0D; 0x7CDCEFB7; 0x0BDBDF21;
   0x86D3D2D4; 0xF1D4E242; 0x68DDB3F8; 0x1FDA836E; 0x81BE16CD; 0xF6B9265B; 0x6FB077E1; 0x18B74777;
   0x88085AE6; 0xFF0F6A70; 0x66063BCA; 0x11010B5C; 0x8F659EFF; 0xF862AE69; 0x616BFFD3; 0x166CCF45;
   0xA00AE278; 0xD70DD2EE; 0x4E048354; 0x3903B3C2; 0xA7672661; 0xD06016F7; 0x4969474D; 0x3E6E77DB;
   0xAED16A4A; 0xD9D65ADC; 0x40DF0B66; 0x37D83BF0; 0xA9BCAE53; 0xDEBB9EC5; 0x47B2CF7F; 0x30B5FFE9;
   0xBDBDF21C; 0xCABAC28A; 0x53B39330; 0x24B4A3A6; 0xBAD03605; 0xCDD70693; 0x54DE5729; 0x23D967BF;
   0xB3667A2E; 0xC4614AB8; 0x5D681B02; 0x2A6F2B94; 0xB40BBE37; 0xC30C8EA1; 0x5A05DF1B; 0x2D02EF8D].

(** One octet of the loop: [crc << 8] and [crc >> 8] are those of [uint32_t]. *)
Definition quick_step (crc b : Z) : outcome Z :=
  let* t := cell CRC_QUICK_TABLE (Z.lxor (u8 (Z.shiftr crc 24)) b) in
  Ret (Z.lxor (u32 (Z.shiftl crc 8)) t).

Fixpoint quick (crc : Z) (data : list Z) : outcome Z :=
  match data with
  | [] => Ret crc
  | b :: data =>
    let* crc := quick_step crc b in
    quick crc data
  end.

Definition reversed_step (crc b : Z) : outcome Z :=
  let* t := cell CRC_REVERSED_TABLE (Z.lxor (u8 crc) b) in
  Ret (Z.lxor (Z.shiftr crc 8) t).

Fixpoint reversed_loop (crc : Z) (data : list Z) : outcome Z :=
  match data with
  | [] => Ret crc
  | b :: data =>
    let* crc := reversed_step crc b in
    reversed_loop crc data
  end.

(** [~crc] of [uint32_t] *)
Definition not32 (crc : Z) : Z := u32 (Z.lnot crc).

Definition reversed (crc : Z) (data : list Z) : outcome Z :=
  let* crc := reversed_loop (not32 crc) data in
  Ret (not32 crc).

(** ** Division by the polynomial *)

Definition POLY : Z := 0x04C11DB7.
Definition POLY_REVERSED : Z := 0xEDB88320.

(** One bit: the register is shifted to the left, and the polynomial is subtracted
    when a bit is shifted out. *)
Definition shift_left (x : Z) : Z :=
  Z.lxor (u32 (Z.shiftl x 1)) (if Z.testbit x 31 then POLY else 0).

Definition shift_right (x : Z) : Z :=
  Z.lxor (Z.shiftr x 1) (if Z.testbit x 0 then POLY_REVERSED else 0).

(** An octet enters at the top or at the bottom. *)
Definition divide_octet (crc b : Z) : Z := Nat.iter 8 shift_left (Z.lxor crc (Z.shiftl b 24)).
Definition divide_octet_reversed (crc b : Z) : Z := Nat.iter 8 shift_right (Z.lxor crc b).

(** ** Registers *)

Definition register (x : Z) : Prop := 0 <= x < 2 ^ 32.

Lemma u32_bit z n : 0 <= n -> Z.testbit (u32 z) n = (n <? 32) && Z.testbit z n.
Proof.
  intros Hn. unfold u32. case_Z; [apply Z.mod_pow2_bits_low; lia|apply Z.mod_pow2_bits_high; lia].
Qed.

Lemma register_bits x : 0 <= x -> (forall n, 32 <= n -> Z.testbit x n = false) -> register x.
Proof.
  intros Hx H. split; [done|]. destruct (Z.eq_dec x 0) as [->|N]; [done|].
  apply Z.log2_lt_pow2; [lia|]. destruct (Z.lt_ge_cases (Z.log2 x) 32) as [|Hl]; [done|].
  apply H in Hl. rewrite Z.bit_log2 in Hl by lia. done.
Qed.

Lemma bits_register x n : register x -> 32 <= n -> Z.testbit x n = false.
Proof.
  intros [H0 H1] Hn. rewrite <- (Z.mod_small x (2 ^ 32)) by done. apply Z.mod_pow2_bits_high. lia.
Qed.

Lemma lxor_register x y : register x -> register y -> register (Z.lxor x y).
Proof.
  intros Hx Hy. apply register_bits; [apply Z.lxor_nonneg; unfold register in *; lia|].
  intros n Hn. by rewrite Z.lxor_spec, !bits_register.
Qed.

Lemma u32_register z : register (u32 z).
Proof. unfold register, u32. apply Z.mod_pos_bound. lia. Qed.

Lemma shiftr_register x n : 0 <= n -> register x -> register (Z.shiftr x n).
Proof.
  intros Hn [H0 H1]. rewrite Z.shiftr_div_pow2 by done. unfold register.
  assert (0 < 2 ^ n) by (apply Z.pow_pos_nonneg; lia).
  split; [apply Z.div_pos; lia|]. apply Z.div_lt_upper_bound; [lia|]. nia.
Qed.

Lemma shift_left_register x : register (shift_left x).
Proof. apply lxor_register; [apply u32_register|]. by destruct (Z.testbit x 31). Qed.

Lemma shift_right_register x : register x -> register (shift_right x).
Proof. intros H. apply lxor_register; [by apply shiftr_register|]. by destruct (Z.testbit x 0). Qed.

(** ** Linearity *)

Definition linear (f : Z -> Z) : Prop := forall x y, f (Z.lxor x y) = Z.lxor (f x) (f y).

Lemma lxor_swap a b c d : Z.lxor (Z.lxor a b) (Z.lxor c d) = Z.lxor (Z.lxor a c) (Z.lxor b d).
Proof. apply Z.bits_inj'. intros n _. rewrite !Z.lxor_spec. btauto. Qed.

Lemma poly_if (p q : bool) P :
  (if xorb p q then P else 0) = Z.lxor (if p then P else 0) (if q then P else 0).
Proof. destruct p, q; cbn [xorb]; by rewrite ?Z.lxor_nilpotent, ?Z.lxor_0_l, ?Z.lxor_0_r. Qed.

Lemma shift_left_linear : linear shift_left.
Proof.
  intros x y. unfold shift_left. rewrite Z.lxor_spec, poly_if, lxor_swap. f_equal.
  apply Z.bits_inj'. intros n Hn. rewrite Z.lxor_spec, !u32_bit, Z.shiftl_lxor, Z.lxor_spec by done. btauto.
Qed.

Lemma shift_right_linear : linear shift_right.
Proof.
  intros x y. unfold shift_right. rewrite Z.lxor_spec, poly_if, lxor_swap. f_equal. apply Z.shiftr_lxor.
Qed.

Lemma iter_S n (f : Z -> Z) x : Nat.iter (S n) f x = f (Nat.iter n f x).
Proof. reflexivity. Qed.

Lemma iter_linear n f : linear f -> linear (Nat.iter n f).
Proof. intros H. induction n as [|n IH]; intros x y; [done|]. by rewrite !iter_S, (IH x y), H. Qed.

Lemma iter_register n f x : (forall x, register x -> register (f x)) -> register x ->
  register (Nat.iter n f x).
Proof. intros H Hx. induction n as [|n IH]; [done|]. rewrite iter_S. auto. Qed.

Lemma iter_kernel n f x : (forall x, register x -> register (f x)) ->
  (forall x, register x -> f x = 0 -> x = 0) -> register x -> Nat.iter n f x = 0 -> x = 0.
Proof.
  intros HR HK Hx. induction n as [|n IH]; [done|]. rewrite iter_S. intros E. apply IH, HK; [|done].
  by apply iter_register.
Qed.

(** Linear functions with a trivial kernel are injective. *)
Lemma linear_inj f : linear f -> (forall x, register x -> f x = 0 -> x = 0) ->
  forall x y, register x -> register y -> f x = f y -> x = y.
Proof.
  intros L K x y Hx Hy E. apply Z.lxor_eq, K; [by apply lxor_register|].
  by rewrite L, E, Z.lxor_nilpotent.
Qed.

Lemma shift_left_kernel x : register x -> shift_left x = 0 -> x = 0.
Proof.
  intros Hx E. unfold shift_left in E. apply Z.lxor_eq in E.
  destruct (Z.testbit x 31) eqn:B.
  - apply (f_equal (fun z => Z.testbit z 0)) in E. rewrite u32_bit, Z.shiftl_spec_low in E by lia. done.
  - apply Z.bits_inj'. intros n Hn. rewrite Z.bits_0.
    destruct (Z.lt_ge_cases n 31) as [Hl|Hl].
    + apply (f_equal (fun z => Z.testbit z (n + 1))) in E.
      rewrite u32_bit, Z.shiftl_spec, Z.bits_0 in E by lia. replace (n + 1 - 1) with n in E by lia.
      by rewrite (proj2 (Z.ltb_lt _ _)) in E by lia.
    + destruct (Z.eq_dec n 31) as [->|]; [done|]. apply bits_register; [done|lia].
Qed.

Lemma shift_right_kernel x : register x -> shift_right x = 0 -> x = 0.
Proof.
  intros Hx E. unfold shift_right in E. apply Z.lxor_eq in E.
  destruct (Z.testbit x 0) eqn:B.
  - apply (f_equal (fun z => Z.testbit z 31)) in E. rewrite Z.shiftr_spec, bits_register in E by (done || lia).
    done.
  - apply Z.bits_inj'. intros n Hn. rewrite Z.bits_0. destruct (Z.eq_dec n 0) as [->|]; [done|].
    apply (f_equal (fun z => Z.testbit z (n - 1))) in E. rewrite Z.shiftr_spec, Z.bits_0 in E by lia.
    by replace (n - 1 + 1) with n in E by lia.
Qed.

(** ** Eight bits at once *)

Lemma shift_left_low k x : 0 <= x < 2 ^ 24 -> (k <= 8)%nat ->
  Nat.iter k shift_left x = x * 2 ^ Z.of_nat k.
Proof.
  intros Hx. induction k as [|k IH]; intros Hk; [cbn; lia|]. rewrite iter_S, IH by lia.
  assert (B : 2 ^ Z.of_nat k <= 2 ^ 7) by (apply Z.pow_le_mono_r; lia).
  assert (0 < 2 ^ Z.of_nat k) by (apply Z.pow_pos_nonneg; lia).
  assert (R : 0 <= x * 2 ^ Z.of_nat k < 2 ^ 31) by nia. unfold shift_left.
  rewrite <- (Z.mod_small (x * 2 ^ Z.of_nat k) (2 ^ 31)) at 2 by lia.
  rewrite Z.mod_pow2_bits_high, Z.lxor_0_r by lia. rewrite Z.shiftl_mul_pow2 by lia.
  unfold u32. rewrite Z.mod_small by lia. rewrite Nat2Z.inj_succ, Z.pow_succ_r by lia. lia.
Qed.

Lemma shift_right_high k h : 0 <= h -> Nat.iter k shift_right (h * 2 ^ Z.of_nat k) = h.
Proof.
  intros Hh. revert h Hh. induction k as [|k IH]; intros h Hh; [cbn; lia|].
  rewrite iter_S, Nat2Z.inj_succ, Z.pow_succ_r by lia.
  replace (h * (2 * 2 ^ Z.of_nat k)) with (h * 2 * 2 ^ Z.of_nat k) by lia. rewrite IH by lia.
  unfold shift_right. rewrite Z.bit0_odd, Z.odd_mul, andb_false_r, Z.lxor_0_r.
  rewrite Z.shiftr_div_pow2 by lia. change (2 ^ 1) with 2. apply Z.div_mul. lia.
Qed.

Lemma quick_table i : 0 <= i < 256 ->
  cell CRC_QUICK_TABLE i = Ret (Nat.iter 8 shift_left (Z.shiftl i 24)).
Proof.
  intros Hi. apply (forall_below 256 (fun i => match cell CRC_QUICK_TABLE i with
    | Ret t => t =? Nat.iter 8 shift_left (Z.shiftl i 24) | _ => false end)) in Hi;
    [|vm_compute; reflexivity].
  destruct (cell _ _); try discriminate. by apply Z.eqb_eq in Hi as ->.
Qed.

Lemma reversed_table i : 0 <= i < 256 ->
  cell CRC_REVERSED_TABLE i = Ret (Nat.iter 8 shift_right i).
Proof.
  intros Hi. apply (forall_below 256 (fun i => match cell CRC_REVERSED_TABLE i with
    | Ret t => t =? Nat.iter 8 shift_right i | _ => false end)) in Hi;
    [|vm_compute; reflexivity].
  destruct (cell _ _); try discriminate. by apply Z.eqb_eq in Hi as ->.
Qed.

Lemma lxor_byte x y : is_byte x -> is_byte y -> is_byte (Z.lxor x y).
Proof.
  intros Hx Hy. assert (E : forall z, is_byte z -> Z.land z (Z.ones 8) = z)
    by (intros z Hz; rewrite land_mask by lia; by apply Z.mod_small).
  rewrite <- (E x Hx), <- (E y Hy).
  replace (Z.lxor _ _) with (Z.land (Z.lxor x y) (Z.ones 8));
    [rewrite land_mask by lia; apply Z.mod_pos_bound; lia|].
  apply Z.bits_inj'. intros n _. rewrite Z.lxor_spec, !Z.land_spec, Z.lxor_spec. btauto.
Qed.

(** A number as its high and low bits *)
Lemma split_bits x k : 0 <= k -> x = Z.lxor (Z.shiftl (Z.shiftr x k) k) (x mod 2 ^ k).
Proof.
  intros Hk. apply Z.bits_inj'. intros n Hn. rewrite Z.lxor_spec.
  destruct (Z.lt_ge_cases n k).
  - rewrite Z.shiftl_spec_low, Z.mod_pow2_bits_low by lia. by destruct (Z.testbit x n).
  - rewrite Z.shiftl_spec, Z.shiftr_spec, Z.mod_pow2_bits_high by lia.
    replace (n - k + k) with n by lia. by destruct (Z.testbit x n).
Qed.

Lemma top_octet crc : register crc -> is_byte (Z.shiftr crc 24).
Proof.
  intros [H0 H1]. unfold is_byte. rewrite Z.shiftr_div_pow2 by lia.
  split; [apply Z.div_pos; lia|]. apply Z.div_lt_upper_bound; lia.
Qed.

Lemma quick_step_divides crc b : register crc -> is_byte b ->
  quick_step crc b = Ret (divide_octet crc b).
Proof.
  intros Hc Hb. pose proof (top_octet crc Hc) as Ht. unfold quick_step, divide_octet.
  rewrite u8_id by done. rewrite quick_table by by apply lxor_byte. cbn [obind]. f_equal.
  rewrite (split_bits crc 24) at 3 by lia.
  rewrite <- (Z.lxor_comm (crc mod 2 ^ 24)), Z.lxor_assoc, <- Z.shiftl_lxor.
  pose proof (Z.mod_pos_bound crc (2 ^ 24) ltac:(lia)).
  rewrite (iter_linear 8 _ shift_left_linear), (shift_left_low 8 (crc mod 2 ^ 24)) by lia. f_equal. unfold u32. rewrite Z.shiftl_mul_pow2 by lia. change (2 ^ 32) with (2 ^ 24 * 2 ^ 8).
  by rewrite Z.mul_mod_distr_r.
Qed.

Lemma reversed_step_divides crc b : register crc -> is_byte b ->
  reversed_step crc b = Ret (divide_octet_reversed crc b).
Proof.
  intros Hc Hb. unfold reversed_step, divide_octet_reversed.
  rewrite reversed_table by (apply lxor_byte; [apply u8_byte|done]). cbn [obind]. f_equal.
  rewrite (split_bits crc 8) at 3 by lia. rewrite Z.lxor_assoc.
  rewrite (iter_linear 8 _ shift_right_linear (Z.shiftl (Z.shiftr crc 8) 8)). f_equal.
  rewrite Z.shiftl_mul_pow2 by lia. rewrite (shift_right_high 8); [done|].
  apply Z.shiftr_nonneg. unfold register in Hc. lia.
Qed.

Lemma octet_register b k : is_byte b -> 0 <= k <= 24 -> register (Z.shiftl b k).
Proof.
  intros Hb Hk. rewrite Z.shiftl_mul_pow2 by lia.
  assert (2 ^ k <= 2 ^ 24) by (apply Z.pow_le_mono_r; lia).
  assert (0 < 2 ^ k) by (apply Z.pow_pos_nonneg; lia). unfold register, is_byte in *. nia.
Qed.

Lemma divide_octet_register crc b : register crc -> is_byte b -> register (divide_octet crc b).
Proof.
  intros Hc Hb. apply iter_register; [intros; apply shift_left_register|].
  apply lxor_register; [done|]. by apply octet_register.
Qed.

Lemma divide_octet_reversed_register crc b :
  register crc -> is_byte b -> register (divide_octet_reversed crc b).
Proof.
  intros Hc Hb. apply iter_register; [exact shift_right_register|].
  apply lxor_register; [done|]. unfold register, is_byte in *. lia.
Qed.

Lemma not32_register x : register (not32 x).
Proof. apply u32_register. Qed.

Lemma not32_inj x y : register x -> register y -> not32 x = not32 y -> x = y.
Proof.
  intros Hx Hy E. apply Z.bits_inj'. intros n Hn.
  apply (f_equal (fun z => Z.testbit z n)) in E. unfold not32 in E.
  rewrite !u32_bit, !Z.lnot_spec in E by done. revert E.
  destruct (Z.ltb_spec n 32); [by destruct (Z.testbit x n), (Z.testbit y n)|].
  intros _. by rewrite !bits_register.
Qed.

(** Octets and registers enter the division injectively. *)
Lemma divide_octet_inj crc crc' b b' : register crc -> register crc' -> is_byte b -> is_byte b' ->
  divide_octet crc b = divide_octet crc' b' -> Z.lxor crc (Z.shiftl b 24) = Z.lxor crc' (Z.shiftl b' 24).
Proof.
  intros Hc Hc' Hb Hb'. apply (linear_inj (Nat.iter 8 shift_left)).
  - apply iter_linear, shift_left_linear.
  - intros x. apply iter_kernel; [intros; apply shift_left_register|exact shift_left_kernel].
  - apply lxor_register; [done|by apply octet_register].
  - apply lxor_register; [done|by apply octet_register].
Qed.

Lemma divide_octet_reversed_inj crc crc' b b' : register crc -> register crc' -> is_byte b -> is_byte b' ->
  divide_octet_reversed crc b = divide_octet_reversed crc' b' -> Z.lxor crc b = Z.lxor crc' b'.
Proof.
  intros Hc Hc' Hb Hb'. apply (linear_inj (Nat.iter 8 shift_right)).
  - apply iter_linear, shift_right_linear.
  - intros x. apply iter_kernel; [exact shift_right_register|exact shift_right_kernel].
  - apply lxor_register; [done|]. unfold register, is_byte in *. lia.
  - apply lxor_register; [done|]. unfold register, is_byte in *. lia.
Qed.

(** ** Loops as folds

    The step of a division is a variable here, so that no proof looks at its bits. *)
Section Folds.
Context (f : Z -> Z -> Z).
Hypothesis f_register : forall x b, register x -> is_byte b -> register (f x b).

Lemma fold_register data : forall x, register x -> bytes_ok data -> register (fold_left f data x).
Proof.
  induction data as [|b data IH]; intros x Hx Hd; [done|]. apply Forall_cons in Hd as [Hb Hd].
  apply IH; auto.
Qed.

Lemma loop_folds (loop : Z -> list Z -> outcome Z) :
  (forall x, loop x [] = Ret x) ->
  (forall x b data, register x -> is_byte b -> loop x (b :: data) = loop (f x b) data) ->
  forall data x, register x -> bytes_ok data -> loop x data = Ret (fold_left f data x).
Proof.
  intros H0 H1 data. induction data as [|b data IH]; intros x Hx Hd; [apply H0|].
  apply Forall_cons in Hd as [Hb Hd]. rewrite H1 by done. cbn [fold_left]. apply IH; auto.
Qed.

Hypothesis f_inj : forall x y b, register x -> register y -> is_byte b -> f x b = f y b -> x = y.
Hypothesis f_inj_octet : forall x b b', register x -> is_byte b -> is_byte b' -> f x b = f x b' -> b = b'.

(** A division loses no difference of the registers. *)
Lemma fold_inj data : forall x y, register x -> register y -> bytes_ok data ->
  fold_left f data x = fold_left f data y -> x = y.
Proof.
  induction data as [|b data IH]; intros x y Hx Hy Hd E; [done|]. apply Forall_cons in Hd as [Hb Hd].
  cbn [fold_left] in E. apply IH in E; [|auto..]. by apply (f_inj x y b).
Qed.

Lemma fold_detects x pre post b b' : register x -> bytes_ok pre -> bytes_ok post ->
  is_byte b -> is_byte b' -> b <> b' ->
  fold_left f (pre ++ b' :: post) x <> fold_left f (pre ++ b :: post) x.
Proof.
  intros Hx Hp Hq Hb Hb' N E. rewrite !fold_left_app in E. cbn [fold_left] in E.
  pose proof (fold_register pre x Hx Hp). apply fold_inj in E; [|auto..].
  apply f_inj_octet in E; auto.
Qed.
End Folds.

Lemma lxor_cancel_l a b c : Z.lxor a b = Z.lxor a c -> b = c.
Proof.
  intros E. apply (f_equal (Z.lxor a)) in E.
  by rewrite <- !Z.lxor_assoc, Z.lxor_nilpotent, !Z.lxor_0_l in E.
Qed.

Lemma lxor_cancel_r a b c : Z.lxor b a = Z.lxor c a -> b = c.
Proof. rewrite !(Z.lxor_comm _ a). apply lxor_cancel_l. Qed.

Lemma shiftl_inj a b k : 0 <= k -> Z.shiftl a k = Z.shiftl b k -> a = b.
Proof.
  intros Hk. rewrite !Z.shiftl_mul_pow2 by done. intros E.
  apply Z.mul_reg_r in E; [done|]. apply Z.pow_nonzero; lia.
Qed.

Lemma quick_divides data crc : register crc -> bytes_ok data ->
  quick crc data = Ret (fold_left divide_octet data crc).
Proof.
  apply (loop_folds _ divide_octet_register quick); [done|]. intros x b l Hx Hb.
  change (quick x (b :: l)) with (let* c := quick_step x b in quick c l).
  by rewrite quick_step_divides.
Qed.

Lemma reversed_divides data crc : register crc -> bytes_ok data ->
  reversed_loop crc data = Ret (fold_left divide_octet_reversed data crc).
Proof.
  apply (loop_folds _ divide_octet_reversed_register reversed_loop); [done|]. intros x b l Hx Hb.
  change (reversed_loop x (b :: l)) with (let* c := reversed_step x b in reversed_loop c l).
  by rewrite reversed_step_divides.
Qed.

Lemma quick_app crc pre post :
  quick crc (pre ++ post) = let* c := quick crc pre in quick c post.
Proof.
  revert crc. induction pre as [|b pre IH]; intros crc; [done|]. cbn [app quick].
  destruct (quick_step crc b); cbn [obind]; auto.
Qed.

(** Different octets at one place make different remainders. *)
Lemma quick_detects x pre post b b' : register x -> bytes_ok pre -> bytes_ok post ->
  is_byte b -> is_byte b' -> b <> b' ->
  fold_left divide_octet (pre ++ b' :: post) x <> fold_left divide_octet (pre ++ b :: post) x.
Proof.
  apply fold_detects; [exact divide_octet_register|..].
  - intros y z d Hy Hz Hd E. apply divide_octet_inj in E; [|done..]. by apply lxor_cancel_r in E.
  - intros y d d' Hy Hd Hd' E. apply divide_octet_inj in E; [|done..].
    apply lxor_cancel_l, shiftl_inj in E; [done|lia].
Qed.

Lemma reversed_detects x pre post b b' : register x -> bytes_ok pre -> bytes_ok post ->
  is_byte b -> is_byte b' -> b <> b' ->
  fold_left divide_octet_reversed (pre ++ b' :: post) x <>
  fold_left divide_octet_reversed (pre ++ b :: post) x.
Proof.
  apply fold_detects; [exact divide_octet_reversed_register|..].
  - intros y z d Hy Hz Hd E. apply divide_octet_reversed_inj in E; [|done..]. by apply lxor_cancel_r in E.
  - intros y d d' Hy Hd Hd' E. apply divide_octet_reversed_inj in E; [|done..]. by apply lxor_cancel_l in E.
Qed.

(** C29: [quick] and [reversed] return within their tables and compute the
    remainder of the division by the polynomial 0x04C11DB7, bit by bit, of any data;
    the checksum of a text in parts is that of the text; and two texts of the same
    length that differ in one octet have different checksums. *)
Theorem crc_divides (crc : Z) (pre post : list Z) (b b' : Z) :
  register crc -> bytes_ok pre -> bytes_ok post -> is_byte b -> is_byte b' ->
  let data := pre ++ b :: post in
  quick crc data = Ret (fold_left divide_octet data crc) /\
  reversed crc data = Ret (not32 (fold_left divide_octet_reversed data (not32 crc))) /\
  (let* c := quick crc pre in quick c (b :: post)) = quick crc data /\
  (b <> b' -> quick crc (pre ++ b' :: post) <> quick crc data /\
    reversed crc (pre ++ b' :: post) <> reversed crc data).
Proof.
  intros Hc Hp Hq Hb Hb' data.
  assert (Hd : bytes_ok data) by (apply Forall_app; auto).
  assert (Hd' : bytes_ok (pre ++ b' :: post)) by (apply Forall_app; auto).
  pose proof (not32_register crc) as Hn.
  split; [by apply quick_divides|]. split; [unfold reversed; by rewrite reversed_divides|].
  split; [symmetry; apply quick_app|]. intros N. unfold reversed.
  rewrite !quick_divides, !reversed_divides by done. cbn [obind]. split; intros E; injection E as E.
  - exact (quick_detects _ _ _ _ _ Hc Hp Hq Hb Hb' N E).
  - apply not32_inj in E; [exact (reversed_detects _ _ _ _ _ Hn Hp Hq Hb Hb' N E)|..];
      (apply fold_register; [exact divide_octet_reversed_register|done|done]).
Qed.

(** The checksum of "123456789" is that of the reversed CRC-32 in use. *)
Lemma crc_check_value : reversed 0 (bytes "123456789") = Ret 0xCBF43926.
Proof. vm_compute. reflexivity. Qed.

Lemma crc_divides_witness :
  quick 0 [0x31; 0x32; 0x33] = Ret (fold_left divide_octet [0x31; 0x32; 0x33] 0) /\
  reversed 0 [0x31; 0x32; 0x33] = Ret (not32 (fold_left divide_octet_reversed [0x31; 0x32; 0x33] (not32 0))) /\
  (let* c := quick 0 [0x31] in quick c [0x32; 0x33]) = quick 0 [0x31; 0x32; 0x33] /\
  (0x32 <> 0x42 -> quick 0 [0x31; 0x42; 0x33] <> quick 0 [0x31; 0x32; 0x33] /\
    reversed 0 [0x31; 0x42; 0x33] <> reversed 0 [0x31; 0x32; 0x33]).
Proof.
  apply (crc_divides 0 [0x31] [0x33] 0x32 0x42); unfold register, is_byte; repeat constructor; lia.
Defined.
