(* ===== verification/BoundedMap.v ===== *)
(** * BoundedMap: a map of limited size with least recent use eviction

    Models [src/Generics/BoundedMap.hpp]: a hash table and a list of its keys
    ordered by the time of their last use.  The operations run one at a time
    under the mutex of the map; each reads the clock before it takes the mutex,
    so the times [now] of successive operations come in any order.  The size
    policy looks at data that its users may share and change, so every
    operation gets the policy as it is at that moment. *)
From stdpp Require Import gmap.
From S2P Require Import Prelude Time.
Local Open Scope Z_scope.
Local Open Scope outcome_scope.
Local Set Warnings "-clear-no-such-hyp".

Record BoundedMapStat : Type := {
  inserted_new : Z;
  insert_existing : Z;
  removed_outdated : Z;
  removed_updated : Z;
  not_inserted : Z;
  replaced : Z
}.

Definition BoundedMapStat_ : BoundedMapStat :=
  {| inserted_new := 0; insert_existing := 0; removed_outdated := 0; removed_updated := 0;
     not_inserted := 0; replaced := 0 |}.

(** The increments of the counters. *)
Inductive Counter : Type :=
| InsertedNew | InsertExisting | RemovedOutdated | RemovedUpdated | NotInserted | Replaced.

#[export] Instance Counter_eq_dec : EqDecision Counter.
Proof. solve_decision. Defined.

Definition count (c : Counter) (st : BoundedMapStat) : BoundedMapStat :=
  let one x := if decide (x = c) then 1 else 0 in
  {| inserted_new := inserted_new st + one InsertedNew;
     insert_existing := insert_existing st + one InsertExisting;
     removed_outdated := removed_outdated st + one RemovedOutdated;
     removed_updated := removed_updated st + one RemovedUpdated;
     not_inserted := not_inserted st + one NotInserted;
     replaced := replaced st + one Replaced |}.

Section Map.
Context {Key Data : Type} `{Countable Key}.

Record Ordered : Type := { key : Key; last_used : Time }.

(** A node of [queue_] is its address and its value; [order] is the address of
    the node of the item. *)
Definition node : Type := nat * Ordered.

Record Item : Type := { data : Data; item_size : Z; order : nat }.

(** [allocated_] is the first address no node has had yet. *)
Record BoundedMap : Type := {
  bound_ : Z;
  timeout_ : Time;
  container_ : gmap Key Item;
  queue_ : list node;
  size_ : Z;
  stat_ : BoundedMapStat;
  allocated_ : nat
}.

Definition BoundedMap_ (bound : Z) (timeout : Time) : BoundedMap :=
  {| bound_ := bound; timeout_ := timeout; container_ := empty; queue_ := []; size_ := 0;
     stat_ := BoundedMapStat_; allocated_ := O |}.

Definition set_container (c : gmap Key Item) (m : BoundedMap) : BoundedMap :=
  {| bound_ := bound_ m; timeout_ := timeout_ m; container_ := c; queue_ := queue_ m;
     size_ := size_ m; stat_ := stat_ m; allocated_ := allocated_ m |}.
Definition set_queue (q : list node) (m : BoundedMap) : BoundedMap :=
  {| bound_ := bound_ m; timeout_ := timeout_ m; container_ := container_ m; queue_ := q;
     size_ := size_ m; stat_ := stat_ m; allocated_ := allocated_ m |}.
Definition set_size (n : Z) (m : BoundedMap) : BoundedMap :=
  {| bound_ := bound_ m; timeout_ := timeout_ m; container_ := container_ m; queue_ := queue_ m;
     size_ := n; stat_ := stat_ m; allocated_ := allocated_ m |}.
Definition counted (c : Counter) (m : BoundedMap) : BoundedMap :=
  {| bound_ := bound_ m; timeout_ := timeout_ m; container_ := container_ m; queue_ := queue_ m;
     size_ := size_ m; stat_ := count c (stat_ m); allocated_ := allocated_ m |}.
Definition set_allocated (n : nat) (m : BoundedMap) : BoundedMap :=
  {| bound_ := bound_ m; timeout_ := timeout_ m; container_ := container_ m; queue_ := queue_ m;
     size_ := size_ m; stat_ := stat_ m; allocated_ := n |}.

(** Taking the node at an address out of the list; an address that is not in the
    list is a dangling iterator. *)
Fixpoint unlink (id : nat) (q : list node) : outcome (Ordered * list node) :=
  match q with
  | [] => Undef
  | (i, o) :: q' =>
    if (i =? id)%nat then Ret (o, q')
    else let* (o', q') := unlink id q' in Ret (o', (i, o) :: q')
  end.

(** ** Finding *)

(** [find_]: the item found; it becomes the most recent one. *)
Definition find_ (k : Key) (now : Time) (m : BoundedMap) : outcome (option Item * BoundedMap) :=
  match container_ m !! k with
  | None => Ret (None, m)
  | Some item =>
    let* (o, q) := unlink (order item) (queue_ m) in
    Ret (Some item, set_queue (q ++ [(order item, {| key := key o; last_used := now |})]) m)
  end.

(** An iterator holds a copy of the key and the data, or is [end()]. *)
Definition iterator : Type := option (Key * Data).

Definition find (k : Key) (now : Time) (m : BoundedMap) : outcome (iterator * BoundedMap) :=
  let* (itor, m) := find_ k now m in
  Ret (option_map (fun item => (k, data item)) itor, m).

(** ** Insertion *)

(** [order->last_used + timeout_ > now] *)
Definition is_recent (timeout now : Time) (o : Ordered) : bool :=
  Time_lt now (Time_add (last_used o) timeout).

(** [while (size_ + size > bound_)]: is there room for [size]? *)
Fixpoint insert_loop (size : Z) (now : Time) (q : list node) (m : BoundedMap)
  : outcome (bool * BoundedMap) :=
  if bound_ m <? u64 (size_ m + size) then
    match q with
    | [] => Ret (false, counted NotInserted (set_queue q m))
    | (_, o) :: q' =>
      if is_recent (timeout_ m) now o then Ret (false, counted NotInserted (set_queue q m))
      else
        match container_ m !! key o with
        | None => Undef
        | Some item =>
          insert_loop size now q'
            (set_container (delete (key o) (container_ m))
              (set_size (u64 (size_ m - item_size item)) (counted RemovedOutdated m)))
        end
    end
  else Ret (true, set_queue q m).

(** What an insertion does: return an iterator and [bool], or throw what the
    construction of the item or [container_.insert] throw. *)
Inductive insertion : Type :=
| Inserted (itor : iterator) (b : bool)
| Failed.

(** [insert_(key, data, now)]; [throws] tells whether the allocation fails. *)
Definition insert_ (policy : Key -> Data -> Z) (throws : bool) (k : Key) (d : Data) (now : Time)
  (m : BoundedMap) : outcome (insertion * BoundedMap) :=
  let size := policy k d in
  if bound_ m <? size then Ret (Inserted None false, counted NotInserted m)
  else
    let* (room, m) := insert_loop size now (queue_ m) m in
    if negb room then Ret (Inserted None false, m)
    else
      let id := allocated_ m in
      let queue := queue_ m in
      let m := set_allocated (S id) (set_queue (queue ++ [(id, {| key := k; last_used := now |})]) m) in
      if throws then
        let* (_, q) := unlink id (queue_ m) in
        Ret (Failed, set_queue q m)
      else
        match container_ m !! k with
        | Some _ => Undef
        | None =>
          let item := {| data := d; item_size := size; order := id |} in
          Ret (Inserted (Some (k, d)) true,
               set_size (u64 (size_ m + size))
                 (counted InsertedNew (set_container (<[k := item]> (container_ m)) m)))
        end.

(** [insert(value)] *)
Definition insert (policy : Key -> Data -> Z) (throws : bool) (k : Key) (d : Data) (now : Time)
  (m : BoundedMap) : outcome (insertion * BoundedMap) :=
  let* (itor, m) := find_ k now m in
  match itor with
  | Some item => Ret (Inserted (Some (k, data item)) false, counted InsertExisting m)
  | None => insert_ policy throws k d now m
  end.

(** ** Update *)

(** The item [k] is taken out of the map. *)
Definition drop_item (k : Key) (item : Item) (m : BoundedMap) : outcome BoundedMap :=
  let* (_, q) := unlink (order item) (queue_ m) in
  Ret (set_container (delete k (container_ m))
        (set_queue q (set_size (u64 (size_ m - item_size item)) m))).

(** [for (; new_size > bound_; ++order)]: the nodes before and from [order] on and
    [new_size], or [None] when a node is recent or there is none left. *)
Fixpoint update_scan (own : nat) (now : Time) (m : BoundedMap) (q : list node) (new_size : Z)
  : outcome (option (list node * list node * Z)) :=
  if bound_ m <? new_size then
    match q with
    | [] => Ret None
    | (id, o) :: q' =>
      if is_recent (timeout_ m) now o then Ret None
      else
        let* new_size :=
          if (id =? own)%nat then Ret new_size
          else
            match container_ m !! key o with
            | None => Undef
            | Some item => Ret (u64 (new_size - item_size item))
            end in
        let* r := update_scan own now m q' new_size in
        match r with
        | None => Ret None
        | Some (passed, rest, new_size) => Ret (Some ((id, o) :: passed, rest, new_size))
        end
    end
  else Ret (Some ([], q, new_size)).

(** The loop that removes the nodes before [order] but for the one of the item:
    the nodes that are left of them. *)
Fixpoint update_remove (own : nat) (passed : list node) (m : BoundedMap) : list node * BoundedMap :=
  match passed with
  | [] => ([], m)
  | (id, o) :: passed' =>
    if (id =? own)%nat then
      let '(l, m) := update_remove own passed' m in ((id, o) :: l, m)
    else
      update_remove own passed'
        (set_container (delete (key o) (container_ m)) (counted RemovedOutdated m))
  end.

(** [update_]: the item stays with its new size ([true]) or is removed. *)
Definition update_ (policy : Key -> Data -> Z) (k : Key) (now : Time) (m : BoundedMap)
  : outcome (bool * BoundedMap) :=
  match container_ m !! k with
  | None => Undef
  | Some item =>
    let size := policy k (data item) in
    let new_size := u64 (u64 (size_ m + size) - item_size item) in
    let resized := {| data := data item; item_size := size; order := order item |} in
    if new_size <=? bound_ m then
      Ret (true, set_size new_size (set_container (<[k := resized]> (container_ m)) m))
    else if bound_ m <? size then
      let* m := drop_item k item (counted RemovedUpdated m) in Ret (false, m)
    else
      let* r := update_scan (order item) now m (queue_ m) new_size in
      match r with
      | None => let* m := drop_item k item (counted RemovedUpdated m) in Ret (false, m)
      | Some (passed, rest, new_size) =>
        let '(l, m) := update_remove (order item) passed m in
        Ret (true, set_size new_size
                     (set_container (<[k := resized]> (container_ m)) (set_queue (l ++ rest) m)))
      end
  end.

Definition update (policy : Key -> Data -> Z) (k : Key) (now : Time) (m : BoundedMap) : outcome BoundedMap :=
  match container_ m !! k with
  | None => Ret m
  | Some _ => let* (_, m) := update_ policy k now m in Ret m
  end.

(** [insert_or_update(key, data)], also reached through [operator []]; [true] when
    it throws. *)
Definition insert_or_update (policy : Key -> Data -> Z) (throws : bool) (k : Key) (d : Data) (now : Time)
  (m : BoundedMap) : outcome (bool * BoundedMap) :=
  let* (itor, m) := find_ k now m in
  match itor with
  | Some item =>
    let changed := {| data := d; item_size := item_size item; order := order item |} in
    let m := set_container (<[k := changed]> (container_ m)) m in
    let* (b, m) := update_ policy k now m in
    Ret (false, if b : bool then counted Replaced m else m)
  | None =>
    let* (r, m) := insert_ policy throws k d now m in
    Ret (match r with Failed => true | Inserted _ _ => false end, m)
  end.

(** ** The other operations *)

Definition erase (k : Key) (m : BoundedMap) : outcome BoundedMap :=
  match container_ m !! k with
  | None => Ret m
  | Some item => drop_item k item m
  end.

Definition clear (m : BoundedMap) : BoundedMap := set_size 0 (set_container empty (set_queue [] m)).

Definition size_of (m : BoundedMap) : Z := Z.of_nat (size (container_ m)).

(** [copy_to]: the pairs in the order of the hash table. *)
Definition copy_to (m : BoundedMap) : list (Key * Data) :=
  prod_map id data <$> map_to_list (container_ m).

Definition statistics (reset : bool) (m : BoundedMap) : BoundedMapStat * BoundedMap :=
  (stat_ m,
   if reset then
     {| bound_ := bound_ m; timeout_ := timeout_ m; container_ := container_ m; queue_ := queue_ m;
        size_ := size_ m; stat_ := BoundedMapStat_; allocated_ := allocated_ m |}
   else m).

Definition set_bound (new_bound : Z) (m : BoundedMap) : BoundedMap :=
  {| bound_ := new_bound; timeout_ := timeout_ m; container_ := container_ m; queue_ := queue_ m;
     size_ := size_ m; stat_ := stat_ m; allocated_ := allocated_ m |}.
Definition set_timeout (new_timeout : Time) (m : BoundedMap) : BoundedMap :=
  {| bound_ := bound_ m; timeout_ := new_timeout; container_ := container_ m; queue_ := queue_ m;
     size_ := size_ m; stat_ := stat_ m; allocated_ := allocated_ m |}.

(** ** Specification

    The map as the list of its entries from the least to the most recently used
    one. *)
Record Entry : Type := { e_key : Key; e_data : Data; e_size : Z; e_time : Time }.

Definition entry_of (o : Ordered) (item : Item) : Entry :=
  {| e_key := key o; e_data := data item; e_size := item_size item; e_time := last_used o |}.

Definition entries (m : BoundedMap) : list Entry :=
  omap (fun n => option_map (entry_of n.2) (container_ m !! key n.2)) (queue_ m).

Definition total (l : list Entry) : Z := foldr (fun e t => e_size e + t) 0 l.

Definition lookup_entry (k : Key) (l : list Entry) : option Entry :=
  snd <$> list_find (fun e => e_key e = k) l.

Definition without (k : Key) (l : list Entry) : list Entry := filter (fun e => e_key e <> k) l.

(** The entry was last used [timeout] ago or earlier. *)
Definition stale (timeout now : Time) (e : Entry) : Prop :=
  Time_lt now (Time_add (e_time e) timeout) = false.

(** The size that is freed when the entries but the one of [own] are removed. *)
Definition freed (own : option Key) (l : list Entry) : Z :=
  total (filter (fun e => Some (e_key e) <> own) l).

(** The least number of entries from the least recently used one on that have to
    go to free [excess], if all of these are stale. *)
Fixpoint evictions (timeout now : Time) (own : option Key) (excess : Z) (l : list Entry) : option nat :=
  if excess <=? 0 then Some O
  else
    match l with
    | [] => None
    | e :: l' =>
      if Time_lt now (Time_add (e_time e) timeout) then None
      else option_map S (evictions timeout now own (excess - freed own [e]) l')
    end.

Fixpoint stale_prefix (timeout now : Time) (l : list Entry) : nat :=
  match l with
  | [] => O
  | e :: l' => if Time_lt now (Time_add (e_time e) timeout) then O else S (stale_prefix timeout now l')
  end.

Lemma total_cons e l : total (e :: l) = e_size e + total l.
Proof using. done. Qed.

Lemma total_size_app l1 l2 : total (l1 ++ l2) = total l1 + total l2.
Proof using. induction l1 as [|e l1 IH]; [done|]. cbn [app]. rewrite !total_cons. lia. Qed.

Lemma total_size_nonneg l : Forall (fun e => 0 <= e_size e) l -> 0 <= total l.
Proof using. induction 1 as [|e l He _ IH]; [done|]. rewrite total_cons. lia. Qed.

Lemma freed_cons own e l : freed own (e :: l) = freed own [e] + freed own l.
Proof using.
  unfold freed. rewrite !filter_cons, filter_nil. case_decide; rewrite ?total_cons; cbn [total foldr]; lia.
Qed.

Lemma freed_bounds own l : Forall (fun e => 0 <= e_size e) l -> 0 <= freed own l <= total l.
Proof using.
  induction 1 as [|e l He _ IH]; [done|]. rewrite freed_cons, total_cons. unfold freed in *.
  rewrite filter_cons, filter_nil. case_decide; rewrite ?total_cons; change (total []) with 0; lia.
Qed.

Lemma evictions_none_needed timeout now own excess l : excess <= 0 ->
  evictions timeout now own excess l = Some O.
Proof using. intros Hx. destruct l; cbn [evictions]; by rewrite (proj2 (Z.leb_le _ _) Hx). Qed.

(** [evictions] is what it says. *)
Lemma evictions_spec timeout now own excess l n : Forall (fun e => 0 <= e_size e) l ->
  evictions timeout now own excess l = Some n <->
  (n <= length l)%nat /\ Forall (stale timeout now) (take n l) /\ excess <= freed own (take n l) /\
  forall j, (j < n)%nat -> freed own (take j l) < excess.
Proof using.
  intros Hs. revert excess n.
  induction Hs as [|e l He Hs IH]; intros excess n; cbn [evictions];
    destruct (Z.leb_spec excess 0) as [Hx|Hx].
  - split.
    + intros [= <-]. split; [cbn; lia|]. split; [constructor|]. split; [done|]. lia.
    + intros (Hn & _). cbn in Hn. f_equal. lia.
  - split; [done|]. intros (Hn & _ & H1 & _). rewrite take_nil in H1. cbn in H1. unfold freed, total in H1.
    cbn in H1. lia.
  - split.
    + intros [= <-]. split; [lia|]. split; [constructor|]. split; [done|]. lia.
    + intros (_ & _ & _ & Hj). destruct n as [|n]; [done|]. specialize (Hj O ltac:(lia)). cbn in Hj. lia.
  - pose proof (freed_bounds own [e] ltac:(by repeat constructor)) as Hb.
    destruct n as [|n].
    + split; [destruct (Time_lt _ _); [done|]; destruct (evictions _ _ _ _ l); done|].
      intros (_ & _ & H1 & _). cbn in H1. lia.
    + cbn [take length]. rewrite Forall_cons, (freed_cons own e (take n l)). unfold stale at 1.
      destruct (Time_lt now (Time_add (e_time e) timeout)); [split; [done|]; by intros (_ & [? _] & _)|].
      destruct (IH (excess - freed own [e]) n) as [I1 I2]. split.
      * destruct (evictions _ _ _ _ l) as [n'|]; [|done]. intros [= ->].
        destruct (I1 eq_refl) as (J1 & J2 & J3 & J4). split; [lia|]. split; [done|]. split; [lia|].
        intros [|j] Hj; [cbn; lia|]. cbn [take]. rewrite (freed_cons own e (take j l)). specialize (J4 j ltac:(lia)). lia.
      * intros (J1 & [_ J2] & J3 & J4). rewrite I2; [done|]. split; [lia|]. split; [done|]. split; [lia|].
        intros j Hj. specialize (J4 (S j) ltac:(lia)). cbn [take] in J4. rewrite (freed_cons own e (take j l)) in J4. lia.
Qed.

(** ** Representation

    The entries with the addresses of their nodes. *)
Definition node_of (p : nat * Entry) : node := (p.1, {| key := e_key p.2; last_used := e_time p.2 |}).
Definition item_of (p : nat * Entry) : Item :=
  {| data := e_data p.2; item_size := e_size p.2; order := p.1 |}.

Definition key_of (p : nat * Entry) : Key := e_key p.2.
Definition sizes (l : list (nat * Entry)) : Z := total l.*2.

Record rep_parts (c : gmap Key Item) (sz : Z) (alloc : nat) (l : list (nat * Entry)) : Prop := {
  rep_keys : NoDup (key_of <$> l);
  rep_ids : NoDup l.*1;
  rep_alloc : Forall (fun p => (p.1 < alloc)%nat) l;
  rep_items : forall k item, c !! k = Some item <-> exists p, p ∈ l /\ key_of p = k /\ item = item_of p;
  rep_sizes : Forall (fun p => 0 <= e_size p.2) l;
  rep_total : sz = sizes l;
  rep_width : sizes l < 2 ^ 63
}.

Definition rep (m : BoundedMap) (l : list (nat * Entry)) : Prop :=
  queue_ m = node_of <$> l /\ rep_parts (container_ m) (size_ m) (allocated_ m) l /\ 0 <= bound_ m < 2 ^ 63.

Lemma sizes_app l1 l2 : sizes (l1 ++ l2) = sizes l1 + sizes l2.
Proof using. unfold sizes. by rewrite fmap_app, total_size_app. Qed.

Lemma sizes_cons p l : sizes (p :: l) = e_size p.2 + sizes l.
Proof using. done. Qed.

Lemma sizes_nonneg l : Forall (fun p => 0 <= e_size p.2) l -> 0 <= sizes l.
Proof using. intros Hl. apply total_size_nonneg. by rewrite Forall_fmap. Qed.

Lemma rep_lookup c sz a l k item : rep_parts c sz a l -> c !! k = Some item ->
  exists l1 p l2, l = l1 ++ p :: l2 /\ key_of p = k /\ item = item_of p.
Proof using.
  intros R E. apply (rep_items _ _ _ _ R) in E as (p & Hp & Ek & Ei).
  apply list_elem_of_split in Hp as (l1 & l2 & ->). by exists l1, p, l2.
Qed.

Lemma rep_member c sz a l1 p l2 : rep_parts c sz a (l1 ++ p :: l2) -> c !! key_of p = Some (item_of p).
Proof using. intros R. apply (rep_items _ _ _ _ R). exists p. split; [set_solver|done]. Qed.

Lemma rep_absent c sz a l k : rep_parts c sz a l -> c !! k = None -> k ∉ (key_of <$> l).
Proof using.
  intros R E Hk. apply list_elem_of_fmap in Hk as (p & -> & Hp).
  assert (c !! key_of p = Some (item_of p)) by (apply (rep_items _ _ _ _ R); by exists p). congruence.
Qed.

(** The key and the address of an entry are its own. *)
Lemma nodup_middle {A B} (f : A -> B) l1 p l2 : NoDup (f <$> (l1 ++ p :: l2)) ->
  NoDup (f <$> (l1 ++ l2)) /\ (forall q, q ∈ l1 ++ l2 -> f q <> f p).
Proof using.
  rewrite !fmap_app, fmap_cons. intros Hn. apply NoDup_app in Hn as (H1 & H2 & H3).
  apply NoDup_cons in H3 as [H3 H4]. split.
  - apply NoDup_app. split; [done|]. split; [|done]. intros x Hx1 Hx2. apply (H2 x Hx1). by apply elem_of_cons; right.
  - intros q Hq E. apply elem_of_app in Hq as [Hq|Hq].
    + apply (H2 (f q)); [by apply list_elem_of_fmap_2|]. rewrite E. set_solver.
    + apply H3. rewrite <- E. by apply list_elem_of_fmap_2.
Qed.

Lemma unlink_spec l1 p l2 : NoDup (l1 ++ p :: l2).*1 ->
  unlink p.1 (node_of <$> (l1 ++ p :: l2)) = Ret ((node_of p).2, node_of <$> (l1 ++ l2)).
Proof using.
  induction l1 as [|q l1 IH]; intros Hn; cbn [app fmap list_fmap unlink node_of].
  - rewrite Nat.eqb_refl. done.
  - cbn in Hn. apply NoDup_cons in Hn as [Hq Hn]. destruct (Nat.eqb_spec q.1 p.1) as [E|E].
    + exfalso. apply Hq. rewrite E, fmap_app. set_solver.
    + rewrite (IH Hn). done.
Qed.

Lemma rep_remove c sz a l1 p l2 : rep_parts c sz a (l1 ++ p :: l2) ->
  rep_parts (delete (key_of p) c) (u64 (sz - e_size p.2)) a (l1 ++ l2).
Proof using.
  intros R. destruct (nodup_middle key_of l1 p l2 (rep_keys _ _ _ _ R)) as [Hk Hne].
  destruct (nodup_middle fst l1 p l2 (rep_ids _ _ _ _ R)) as [Hi _].
  pose proof (rep_sizes _ _ _ _ R) as Hs. pose proof (rep_alloc _ _ _ _ R) as Ha.
  apply Forall_app in Hs as [Hs1 [Hsp Hs2]%Forall_cons]. apply Forall_app in Ha as [Ha1 [_ Ha2]%Forall_cons].
  pose proof (rep_total _ _ _ _ R) as Et. pose proof (rep_width _ _ _ _ R) as Hw.
  rewrite sizes_app, sizes_cons in Et, Hw. pose proof (sizes_nonneg l1 Hs1). pose proof (sizes_nonneg l2 Hs2).
  constructor; [done|done|by apply Forall_app| |by apply Forall_app| |rewrite sizes_app; lia].
  - intros k item. rewrite lookup_delete_Some, (rep_items _ _ _ _ R). split.
    + intros (Hkp & q & Hq & <- & ->). exists q. split; [|done]. apply elem_of_app.
      apply elem_of_app in Hq as [Hq|[->|Hq]%elem_of_cons]; [by left|done|by right].
    + intros (q & Hq & <- & ->). split; [intros E; by apply (Hne q Hq)|]. exists q. split; [set_solver|done].
  - rewrite sizes_app. unfold u64. rewrite Z.mod_small; lia.
Qed.

Lemma u64_small z : 0 <= z < 2 ^ 64 -> u64 z = z.
Proof using. apply Z.mod_small. Qed.

(** A new entry at the end. *)
Lemma rep_snoc c sz a l k d n t : rep_parts c sz a l -> c !! k = None -> 0 <= n -> sz + n < 2 ^ 63 ->
  let p := (a, {| e_key := k; e_data := d; e_size := n; e_time := t |}) in
  rep_parts (<[k := item_of p]> c) (u64 (sz + n)) (S a) (l ++ [p]).
Proof using.
  intros R E Hn Hw p. pose proof (rep_absent _ _ _ _ k R E) as Hk. pose proof (rep_alloc _ _ _ _ R) as Ha.
  pose proof (sizes_nonneg l (rep_sizes _ _ _ _ R)) as H0. pose proof (rep_total _ _ _ _ R) as Et.
  constructor.
  - rewrite fmap_app. apply NoDup_app. split; [apply R|]. split; [|apply NoDup_singleton].
    intros x Hx Hx'%list_elem_of_singleton. subst x. done.
  - rewrite fmap_app. apply NoDup_app. split; [apply R|]. split; [|apply NoDup_singleton].
    intros x Hx Hx'%list_elem_of_singleton. subst x. apply list_elem_of_fmap in Hx as (q & Eq & Hq).
    rewrite Forall_forall in Ha. specialize (Ha q Hq). cbn in Eq. lia.
  - apply Forall_app. split; [|constructor; [cbn; lia|constructor]].
    eapply Forall_impl; [exact Ha|]. cbn. lia.
  - intros k' item. rewrite lookup_insert_Some, (rep_items _ _ _ _ R). split.
    + intros [[<- <-]|[Hne (q & Hq & <- & ->)]]; [exists p; split; [set_solver|done]|].
      exists q. split; [set_solver|done].
    + intros (q & Hq & <- & ->). apply elem_of_app in Hq as [Hq|Hq%list_elem_of_singleton].
      * right. split; [|by exists q]. intros Ek. apply Hk. rewrite Ek. by apply list_elem_of_fmap_2.
      * left. by subst q.
  - apply Forall_app. split; [apply R|]. by constructor; [|constructor].
  - rewrite sizes_app, u64_small by lia. unfold sizes at 2. cbn. lia.
  - rewrite sizes_app. unfold sizes at 2. cbn. lia.
Qed.

(** The data and the size of an entry change in place. *)
Lemma rep_replace c sz a l1 p l2 d n : rep_parts c sz a (l1 ++ p :: l2) -> 0 <= n ->
  sz - e_size p.2 + n < 2 ^ 63 ->
  let p' := (p.1, {| e_key := e_key p.2; e_data := d; e_size := n; e_time := e_time p.2 |}) in
  rep_parts (<[key_of p := item_of p']> c) (sz - e_size p.2 + n) a (l1 ++ p' :: l2).
Proof using.
  intros R Hn Hw p'. destruct (nodup_middle key_of l1 p l2 (rep_keys _ _ _ _ R)) as [_ Hne].
  pose proof (rep_total _ _ _ _ R) as Et. pose proof (rep_sizes _ _ _ _ R) as Hs.
  pose proof (rep_alloc _ _ _ _ R) as Ha. apply Forall_app in Hs as [Hs1 [Hsp Hs2]%Forall_cons].
  apply Forall_app in Ha as [Ha1 [Hap Ha2]%Forall_cons]. rewrite sizes_app, sizes_cons in Et. constructor.
  - pose proof (rep_keys _ _ _ _ R) as Hk. by rewrite fmap_app, fmap_cons in Hk |- *.
  - pose proof (rep_ids _ _ _ _ R) as Hk. by rewrite fmap_app, fmap_cons in Hk |- *.
  - by apply Forall_app; split; [|constructor].
  - intros k item. rewrite lookup_insert_Some, (rep_items _ _ _ _ R). split.
    + intros [[<- <-]|[Hkne (q & Hq & <- & ->)]]; [exists p'; split; [set_solver|done]|].
      exists q. split; [|done]. apply elem_of_app in Hq as [Hq|Hq]; [set_solver|].
      apply elem_of_cons in Hq as [->|Hq]; [done|set_solver].
    + intros (q & Hq & <- & ->). apply elem_of_app in Hq as [Hq|Hq].
      * right. assert (Hq' : q ∈ l1 ++ l2) by set_solver. split; [intros E; by apply (Hne q Hq')|].
        exists q. split; [set_solver|done].
      * apply elem_of_cons in Hq as [->|Hq]; [by left|]. right. assert (Hq' : q ∈ l1 ++ l2) by set_solver.
        split; [intros E; by apply (Hne q Hq')|]. exists q. split; [set_solver|done].
  - by apply Forall_app; split; [|constructor].
  - rewrite sizes_app, sizes_cons. cbn. lia.
  - rewrite sizes_app, sizes_cons. cbn. lia.
Qed.

(** An entry becomes the most recent one. *)
Lemma rep_move c sz a l1 p l2 t : rep_parts c sz a (l1 ++ p :: l2) ->
  let p' := (p.1, {| e_key := e_key p.2; e_data := e_data p.2; e_size := e_size p.2; e_time := t |}) in
  rep_parts c sz a ((l1 ++ l2) ++ [p']).
Proof using.
  intros R p'. assert (HP : (l1 ++ l2) ++ [p'] ≡ₚ l1 ++ p' :: l2)
    by (rewrite <- app_assoc; apply Permutation_app_head, Permutation_app_comm).
  pose proof (rep_keys _ _ _ _ R) as Hk. pose proof (rep_ids _ _ _ _ R) as Hi.
  pose proof (rep_alloc _ _ _ _ R) as Ha. pose proof (rep_sizes _ _ _ _ R) as Hs.
  pose proof (rep_total _ _ _ _ R) as Et. pose proof (rep_width _ _ _ _ R) as Hw.
  apply Forall_app in Hs as [Hs1 [Hsp Hs2]%Forall_cons]. apply Forall_app in Ha as [Ha1 [Hap Ha2]%Forall_cons].
  rewrite !sizes_app, sizes_cons in Et, Hw. constructor.
  - rewrite HP. by rewrite fmap_app, fmap_cons in Hk |- *.
  - rewrite HP. by rewrite fmap_app, fmap_cons in Hi |- *.
  - rewrite HP. by apply Forall_app; split; [|constructor].
  - intros k item. rewrite (rep_items _ _ _ _ R). split.
    + intros (q & Hq & <- & ->). apply elem_of_app in Hq as [Hq|Hq]; [exists q; split; [set_solver|done]|].
      apply elem_of_cons in Hq as [->|Hq]; [exists p'|exists q]; (split; [set_solver|done]).
    + intros (q & Hq & <- & ->). rewrite HP in Hq.
      apply elem_of_app in Hq as [Hq|Hq]; [exists q; split; [set_solver|done]|].
      apply elem_of_cons in Hq as [->|Hq]; [exists p|exists q]; (split; [set_solver|done]).
  - rewrite HP. by apply Forall_app; split; [|constructor].
  - rewrite !sizes_app. unfold sizes at 3. cbn. lia.
  - rewrite !sizes_app. unfold sizes at 3. cbn. lia.
Qed.

Lemma entries_rep m l : rep m l -> entries m = l.*2.
Proof using.
  intros (Eq & R & _). unfold entries. rewrite Eq. assert (Hsub : forall p, p ∈ l ->
    container_ m !! key_of p = Some (item_of p)) by (intros p Hp; apply (rep_items _ _ _ _ R); by exists p).
  clear Eq R. induction l as [|p l IH]; [done|]. cbn. fold (key_of p). rewrite Hsub by set_solver. cbn.
  rewrite IH by (intros q Hq; apply Hsub; set_solver). f_equal. by destruct p as [? []].
Qed.

(** ** The operations on the entries *)

Definition consistent (m : BoundedMap) : Prop := exists l, rep m l.

Definition at_time (now : Time) (e : Entry) : Entry :=
  {| e_key := e_key e; e_data := e_data e; e_size := e_size e; e_time := now |}.
Definition of_size (n : Z) (e : Entry) : Entry :=
  {| e_key := e_key e; e_data := e_data e; e_size := n; e_time := e_time e |}.

(** The entry of [k] becomes the most recent one. *)
Definition touched (k : Key) (now : Time) (l : list Entry) : list Entry :=
  match lookup_entry k l with
  | Some e => without k l ++ [at_time now e]
  | None => l
  end.

Definition counts (c : Counter) (n : nat) (st : BoundedMapStat) : BoundedMapStat := Nat.iter n (count c) st.

Lemma filter_all {A} (P : A -> Prop) `{forall x, Decision (P x)} l : Forall P l -> filter P l = l.
Proof using. induction 1 as [|x l Hx _ IH]; [done|]. rewrite filter_cons_True by done. by rewrite IH. Qed.

Lemma lookup_middle l1 p l2 : NoDup (key_of <$> (l1 ++ p :: l2)) ->
  lookup_entry (key_of p) (l1 ++ p :: l2).*2 = Some p.2 /\
  without (key_of p) (l1 ++ p :: l2).*2 = (l1 ++ l2).*2.
Proof using.
  intros Hn. destruct (nodup_middle key_of l1 p l2 Hn) as [_ Hne].
  assert (Hf : forall l, (forall q, q ∈ l -> key_of q <> key_of p) ->
    list_find (fun e => e_key e = key_of p) l.*2 = None /\ without (key_of p) l.*2 = l.*2).
  { intros l Hl. split.
    - apply list_find_None. rewrite Forall_fmap. apply Forall_forall. intros q Hq. by apply Hl.
    - unfold without. apply filter_all. rewrite Forall_fmap. apply Forall_forall. intros q Hq. by apply Hl. }
  destruct (Hf l1) as [F1 W1]; [set_solver|]. destruct (Hf l2) as [_ W2]; [set_solver|]. split.
  - unfold lookup_entry. rewrite fmap_app, fmap_cons, list_find_app_r by done. cbn. by rewrite decide_True.
  - unfold without in *. rewrite !fmap_app, fmap_cons, filter_app, filter_cons_False, W1, W2 by naive_solver. done.
Qed.

Lemma lookup_absent l k : k ∉ (key_of <$> l) -> lookup_entry k l.*2 = None.
Proof using.
  intros Hk. unfold lookup_entry. replace (list_find _ _) with (@None (nat * Entry)); [done|].
  symmetry. apply list_find_None. rewrite Forall_fmap. apply Forall_forall. intros q Hq E. apply Hk.
  rewrite <- E. by apply (list_elem_of_fmap_2 key_of).
Qed.

Lemma find_spec k now m l : rep m l ->
  match container_ m !! k with
  | None => find_ k now m = Ret (None, m) /\ k ∉ (key_of <$> l)
  | Some item => exists l1 p l2, l = l1 ++ p :: l2 /\ key_of p = k /\ item = item_of p /\
    exists m', find_ k now m = Ret (Some item, m') /\ rep m' ((l1 ++ l2) ++ [(p.1, at_time now p.2)]) /\
    container_ m' = container_ m /\ stat_ m' = stat_ m /\ bound_ m' = bound_ m /\ timeout_ m' = timeout_ m
  end.
Proof using.
  intros (Eq & R & Hb). unfold find_. destruct (container_ m !! k) as [item|] eqn:E.
  - destruct (rep_lookup _ _ _ _ _ _ R E) as (l1 & p & l2 & -> & <- & ->).
    exists l1, p, l2. split; [done|]. split; [done|]. split; [done|]. rewrite Eq.
    change (order (item_of p)) with p.1. rewrite unlink_spec by apply R. cbn [obind].
    eexists. split; [done|]. split; [|done]. split; [|split; [exact (rep_move _ _ _ _ _ _ now R)|done]].
    cbn. by rewrite (fmap_app node_of (l1 ++ l2)).
  - split; [done|]. by apply (rep_absent _ _ _ _ _ R).
Qed.

Lemma counts_S c n st : counts c n (count c st) = counts c (S n) st.
Proof using. unfold counts. by rewrite Nat.iter_succ_r. Qed.

Lemma freed_none e : freed None [e] = e_size e.
Proof using. unfold freed. rewrite filter_cons_True by done. cbn. lia. Qed.

Lemma freed_all l : freed None l = total l.
Proof using. induction l as [|e l IH]; [done|]. rewrite freed_cons, freed_none, total_cons. lia. Qed.

(** The loop of [insert_] removes exactly the entries that have to go, or all
    entries before the first recent one. *)
Lemma insert_loop_spec size now l : 0 <= size < 2 ^ 63 -> forall m,
  rep_parts (container_ m) (size_ m) (allocated_ m) l -> 0 <= bound_ m < 2 ^ 63 ->
  let ev := evictions (timeout_ m) now None (sizes l + size - bound_ m) l.*2 in
  let n := default (stale_prefix (timeout_ m) now l.*2) ev in
  exists m', insert_loop size now (node_of <$> l) m = Ret (bool_decide (is_Some ev), m') /\
  rep m' (drop n l) /\ bound_ m' = bound_ m /\ timeout_ m' = timeout_ m /\ allocated_ m' = allocated_ m /\
  stat_ m' = (if bool_decide (is_Some ev) then id else count NotInserted)
    (counts RemovedOutdated n (stat_ m)).
Proof using.
  intros Hs. induction l as [|p l IH]; intros m R Hb ev n; pose proof (rep_total _ _ _ _ R) as Et;
    pose proof (rep_width _ _ _ _ R) as Hw; pose proof (sizes_nonneg _ (rep_sizes _ _ _ _ R)) as H0;
    cbn [fmap list_fmap insert_loop]; rewrite u64_small by lia.
  - destruct (Z.ltb_spec (bound_ m) (size_ m + size)) as [Hlt|Hge].
    + assert (Eev : ev = None) by (unfold ev; cbn [evictions fmap list_fmap]; by decide_Z).
      unfold n. rewrite Eev. cbn. eexists. split; [done|]. split; [|done]. split; [done|]. split; [exact R|done].
    + assert (Eev : ev = Some O) by (unfold ev; cbn [evictions fmap list_fmap]; by decide_Z).
      unfold n. rewrite Eev. cbn. eexists. split; [done|]. split; [|done]. split; [done|]. split; [exact R|done].
  - destruct (Z.ltb_spec (bound_ m) (size_ m + size)) as [Hlt|Hge].
    + cbn [node_of]. change (is_recent (timeout_ m) now _) with (Time_lt now (Time_add (e_time p.2) (timeout_ m))).
      unfold n, ev. cbn [evictions stale_prefix fmap list_fmap]. rewrite (proj2 (Z.leb_gt _ _)) by lia.
      destruct (Time_lt now (Time_add (e_time p.2) (timeout_ m))) eqn:Er.
      * cbn. eexists. split; [done|]. split; [|done]. split; [done|]. split; [exact R|done].
      * cbn [key]. fold (key_of p). rewrite (rep_member _ _ _ [] p l R).
        change (item_size (item_of p)) with (e_size p.2). rewrite freed_none.
        set (m1 := set_container _ _).
        destruct (IH m1) as (m' & -> & R' & B' & T' & A' & S');
          [exact (rep_remove _ _ _ [] p l R)|done|]. exists m'. change (timeout_ m1) with (timeout_ m) in *.
        change (bound_ m1) with (bound_ m) in *. change (stat_ m1) with (count RemovedOutdated (stat_ m)) in *.
        replace (sizes (p :: l) + size - bound_ m - e_size p.2) with (sizes l + size - bound_ m) in *
          by (rewrite sizes_cons; lia).
        rewrite counts_S in S'. by destruct (evictions _ _ _ _ l.*2) as [n'|]; repeat (split; [done|]).
    + assert (Eev : ev = Some O) by (unfold ev; cbn [evictions fmap list_fmap]; by decide_Z).
      unfold n. rewrite Eev. cbn. eexists. split; [done|]. split; [|done]. split; [done|]. split; [exact R|done].
Qed.

(** ** The least recent use cache

    The abstract machine: the settings, the entries and the counters. *)
Record LRU : Type := {
  l_bound : Z;
  l_timeout : Time;
  l_entries : list Entry;
  l_stat : BoundedMapStat
}.

Definition abs (m : BoundedMap) : LRU :=
  {| l_bound := bound_ m; l_timeout := timeout_ m; l_entries := entries m; l_stat := stat_ m |}.

Definition with_entries (l : list Entry) (st : BoundedMapStat) (c : LRU) : LRU :=
  {| l_bound := l_bound c; l_timeout := l_timeout c; l_entries := l; l_stat := st |}.

Definition LRU_find (k : Key) (now : Time) (c : LRU) : iterator * LRU :=
  (option_map (fun e => (k, e_data e)) (lookup_entry k (l_entries c)),
   with_entries (touched k now (l_entries c)) (l_stat c) c).

(** Entries are evicted from the least recently used one on, only stale ones, and
    only as many as it takes; when a recent one is in the way nothing is inserted
    but the stale entries before it are gone. *)
Definition LRU_insert_new (size : Z) (throws : bool) (k : Key) (d : Data) (now : Time) (c : LRU)
  : insertion * LRU :=
  let l := l_entries c in
  if l_bound c <? size then (Inserted None false, with_entries l (count NotInserted (l_stat c)) c)
  else
    match evictions (l_timeout c) now None (total l + size - l_bound c) l with
    | None =>
      let n := stale_prefix (l_timeout c) now l in
      (Inserted None false,
       with_entries (drop n l) (count NotInserted (counts RemovedOutdated n (l_stat c))) c)
    | Some n =>
      let st := counts RemovedOutdated n (l_stat c) in
      if throws then (Failed, with_entries (drop n l) st c)
      else
        (Inserted (Some (k, d)) true,
         with_entries (drop n l ++ [{| e_key := k; e_data := d; e_size := size; e_time := now |}])
           (count InsertedNew st) c)
    end.

Definition LRU_insert (size : Z) (throws : bool) (k : Key) (d : Data) (now : Time) (c : LRU)
  : insertion * LRU :=
  match lookup_entry k (l_entries c) with
  | Some e =>
    (Inserted (Some (k, e_data e)) false,
     with_entries (touched k now (l_entries c)) (count InsertExisting (l_stat c)) c)
  | None => LRU_insert_new size throws k d now c
  end.

(** The data and the size of the entry of [k] change. *)
Definition resized (k : Key) (n : Z) (l : list Entry) : list Entry :=
  (fun e => if decide (e_key e = k) then of_size n e else e) <$> l.
Definition assigned (k : Key) (d : Data) (l : list Entry) : list Entry :=
  (fun e => if decide (e_key e = k)
            then {| e_key := k; e_data := d; e_size := e_size e; e_time := e_time e |} else e) <$> l.

(** The entry of [k] gets its new size if stale entries can make room for it, and
    is removed otherwise. *)
Definition LRU_update (policy : Key -> Data -> Z) (k : Key) (now : Time) (c : LRU) : bool * LRU :=
  let l := l_entries c in
  match lookup_entry k l with
  | None => (false, c)
  | Some e =>
    let size := policy k (e_data e) in
    match evictions (l_timeout c) now (Some k) (total l - e_size e + size - l_bound c) l with
    | Some n =>
      (true,
       with_entries (resized k size (filter (fun e => e_key e = k) (take n l) ++ drop n l))
         (counts RemovedOutdated (length (without k (take n l))) (l_stat c)) c)
    | None => (false, with_entries (without k l) (count RemovedUpdated (l_stat c)) c)
    end
  end.

Definition LRU_insert_or_update (policy : Key -> Data -> Z) (throws : bool) (k : Key) (d : Data) (now : Time)
  (c : LRU) : bool * LRU :=
  match lookup_entry k (l_entries c) with
  | Some _ =>
    let c := with_entries (assigned k d (touched k now (l_entries c))) (l_stat c) c in
    let '(b, c) := LRU_update policy k now c in
    (false, if b : bool then with_entries (l_entries c) (count Replaced (l_stat c)) c else c)
  | None =>
    let '(r, c) := LRU_insert_new (policy k d) throws k d now c in
    (match r with Failed => true | Inserted _ _ => false end, c)
  end.

Definition LRU_erase (k : Key) (c : LRU) : LRU := with_entries (without k (l_entries c)) (l_stat c) c.
Definition LRU_clear (c : LRU) : LRU := with_entries [] (l_stat c) c.

(** An operation of the map does what the abstract machine does. *)
Definition refines {A} (out : outcome (A * BoundedMap)) (spec : A * LRU) : Prop :=
  exists m', out = Ret (spec.1, m') /\ consistent m' /\ abs m' = spec.2.

Lemma rep_abs m l : rep m l ->
  abs m = {| l_bound := bound_ m; l_timeout := timeout_ m; l_entries := l.*2; l_stat := stat_ m |}.
Proof using. intros R. unfold abs. by rewrite (entries_rep m l R). Qed.

Lemma refines_ret {A} (r : A) m' l' c : rep m' l' ->
  c = {| l_bound := bound_ m'; l_timeout := timeout_ m'; l_entries := l'.*2; l_stat := stat_ m' |} ->
  refines (Ret (r, m')) (r, c).
Proof using. intros R ->. exists m'. split; [done|]. split; [by exists l'|]. by apply rep_abs. Qed.

Lemma find_refines k now m : consistent m -> refines (find k now m) (LRU_find k now (abs m)).
Proof using.
  intros (l & R). pose proof (find_spec k now m l R) as Hf. unfold find, LRU_find. rewrite (rep_abs m l R).
  cbn [l_entries l_stat].
  destruct (container_ m !! k) as [item|].
  - destruct Hf as (l1 & p & l2 & -> & <- & -> & m' & -> & R' & _ & S' & B' & T').
    destruct (lookup_middle l1 p l2) as [El Ew]; [apply R|]. unfold touched. rewrite El, Ew. cbn [option_map obind].
    apply (refines_ret _ m' _ _ R'). rewrite S', B', T'. by rewrite (fmap_app snd (l1 ++ l2)).
  - destruct Hf as [-> Hk]. unfold touched. rewrite (lookup_absent l k Hk). by apply (refines_ret _ m l).
Qed.

(** [insert_] for a key that is not in the map. *)
Lemma insert_new_refines policy throws k d now m : consistent m -> container_ m !! k = None ->
  0 <= policy k d < 2 ^ 63 ->
  refines (insert_ policy throws k d now m) (LRU_insert_new (policy k d) throws k d now (abs m)).
Proof using.
  intros (l & R) Hk Hs. unfold insert_, LRU_insert_new. rewrite (rep_abs m l R).
  destruct R as (Eq & R & Hb). cbn [l_bound l_timeout l_entries l_stat].
  destruct (Z.ltb_spec (bound_ m) (policy k d)) as [Hlt|Hge].
  { apply (refines_ret _ (counted NotInserted m) l); [by split|done]. }
  destruct (insert_loop_spec (policy k d) now l Hs m R Hb) as (m1 & Ei & R1 & B1 & T1 & A1 & S1).
  rewrite Eq, Ei. cbn [obind]. fold (sizes l).
  set (ev := evictions _ _ _ _ _) in *. destruct ev as [n|] eqn:Eev; cbn [default from_option] in *.
  - rewrite bool_decide_eq_true_2 in S1 |- * by done. cbn [negb id] in *. destruct R1 as (Eq1 & R1 & Hb1).
    rewrite B1 in *. pose proof (rep_total _ _ _ _ R1) as Et1.
    assert (Hroom : size_ m1 + policy k d <= bound_ m).
    { apply evictions_spec in Eev as (Hn & _ & Hf & _); [|by rewrite Forall_fmap; apply R].
      rewrite Et1. unfold sizes in *. rewrite freed_all in Hf.
      assert (Esum : total l.*2 = total (take n l.*2) + total (drop n l.*2)) by by rewrite <- total_size_app, take_drop.
      rewrite fmap_drop. lia. }
    assert (Hk1 : container_ m1 !! k = None).
    { destruct (container_ m1 !! k) as [item|] eqn:E; [|done]. exfalso.
      apply (rep_items _ _ _ _ R1) in E as (p & Hp & Ek & _). apply (rep_absent _ _ _ _ k R Hk).
      rewrite <- Ek. apply list_elem_of_fmap_2. rewrite <- (take_drop n l). set_solver. }
    set (m2 := set_allocated _ _).
    assert (E2 : queue_ m2 = node_of <$> (drop n l ++
      [(allocated_ m1, {| e_key := k; e_data := d; e_size := policy k d; e_time := now |})]))
      by (cbn; by rewrite Eq1, fmap_app).
    pose proof (rep_snoc _ _ _ _ k d (policy k d) now R1 Hk1 ltac:(lia) ltac:(lia)) as R2.
    destruct throws.
    + rewrite E2. change (allocated_ m1) with
        (fst (allocated_ m1, {| e_key := k; e_data := d; e_size := policy k d; e_time := now |})) at 1.
      rewrite (unlink_spec (drop n l) _ []) by apply R2. cbn [obind]. rewrite app_nil_r.
      apply (refines_ret _ (set_queue (node_of <$> drop n l) m2) (drop n l)).
      * split; [done|]. split; [|cbn; by rewrite B1]. pose proof (rep_alloc _ _ _ _ R1) as Ha1.
        destruct R1. constructor; try done. eapply Forall_impl; [exact Ha1|]. cbn. lia.
      * cbn. by rewrite B1, T1, S1, fmap_drop.
    + change (container_ m2) with (container_ m1). rewrite Hk1.
      eapply refines_ret; [split; [exact E2|split; [exact R2|cbn; by rewrite B1]]|].
      cbn. by rewrite B1, T1, S1, fmap_app, fmap_drop.
  - rewrite bool_decide_eq_false_2 in S1 |- * by by intros []. cbn [negb] in *.
    apply (refines_ret _ m1 _ _ R1). by rewrite B1, T1, S1, fmap_drop.
Qed.

Lemma insert_refines policy throws k d now m : consistent m -> 0 <= policy k d < 2 ^ 63 ->
  refines (insert policy throws k d now m) (LRU_insert (policy k d) throws k d now (abs m)).
Proof using.
  intros (l & R) Hs. pose proof (find_spec k now m l R) as Hf. unfold insert, LRU_insert.
  rewrite (rep_abs m l R) at 1. cbn [l_entries].
  destruct (container_ m !! k) as [item|] eqn:E.
  - destruct Hf as (l1 & p & l2 & -> & <- & -> & m' & -> & R' & _ & S' & B' & T').
    destruct (lookup_middle l1 p l2) as [El Ew]; [apply R|]. rewrite (rep_abs m _ R).
    cbn [l_entries l_stat]. unfold touched. rewrite El, Ew. cbn [obind].
    apply (refines_ret _ (counted InsertExisting m') _ _ R'). cbn. rewrite S', B', T'.
    by rewrite (fmap_app snd (l1 ++ l2)).
  - destruct Hf as [-> Hk]. rewrite (lookup_absent l k Hk). cbn [obind].
    apply insert_new_refines; [by exists l|done|done].
Qed.

(** *** Update *)

Lemma drop_item_refines c k m l1 p l2 : rep m (l1 ++ p :: l2) -> key_of p = k ->
  exists m', drop_item k (item_of p) (counted c m) = Ret m' /\ rep m' (l1 ++ l2) /\
  bound_ m' = bound_ m /\ timeout_ m' = timeout_ m /\ stat_ m' = count c (stat_ m).
Proof using.
  intros (Eq & R & Hb) <-. unfold drop_item. change (queue_ (counted c m)) with (queue_ m). rewrite Eq.
  change (order (item_of p)) with p.1. rewrite unlink_spec by apply R. cbn [obind]. eexists. split; [done|].
  split; [|done]. split; [done|]. split; [exact (rep_remove _ _ _ _ _ _ R)|done].
Qed.

Lemma freed_one own e : freed own [e] = if decide (Some (e_key e) = own) then 0 else e_size e.
Proof using.
  unfold freed. rewrite filter_cons, filter_nil. do 2 case_decide; try done. cbn. lia.
Qed.

(** The scan of [update_] computes [evictions]; [own] is the node of [k]. *)
Lemma update_scan_spec own k now m l : forall new_size,
  (forall p, p ∈ l -> container_ m !! key_of p = Some (item_of p) /\ (p.1 = own <-> key_of p = k)) ->
  Forall (fun p => 0 <= e_size p.2) l -> freed (Some k) l.*2 <= new_size < 2 ^ 64 -> 0 <= bound_ m ->
  update_scan own now m (node_of <$> l) new_size =
  Ret (option_map (fun n => (node_of <$> take n l, node_of <$> drop n l, new_size - freed (Some k) (take n l).*2))
         (evictions (timeout_ m) now (Some k) (new_size - bound_ m) l.*2)).
Proof using.
  induction l as [|p l IH]; intros new_size Hp Hs Hn Hb; cbn [fmap list_fmap update_scan evictions].
  - destruct (Z.ltb_spec (bound_ m) new_size) as [Hlt|Hge].
    + by rewrite (proj2 (Z.leb_gt _ _)) by lia.
    + rewrite (proj2 (Z.leb_le _ _)) by lia. cbn [option_map take drop fmap list_fmap]. do 4 f_equal. cbn. lia.
  - destruct (Z.ltb_spec (bound_ m) new_size) as [Hlt|Hge].
    2: { rewrite (proj2 (Z.leb_le _ _)) by lia. cbn [option_map take drop fmap list_fmap]. do 4 f_equal. cbn. lia. }
    rewrite (proj2 (Z.leb_gt _ _)) by lia. cbn [node_of].
    change (is_recent (timeout_ m) now _) with (Time_lt now (Time_add (e_time p.2) (timeout_ m))).
    destruct (Time_lt now (Time_add (e_time p.2) (timeout_ m))); [done|].
    destruct (Hp p) as [Ec Ho]; [set_solver|]. apply Forall_cons in Hs as [Hsp Hs]. cbn [fmap list_fmap] in Hn.
    rewrite freed_cons in Hn. pose proof (freed_bounds (Some k) l.*2 ltac:(by rewrite Forall_fmap)) as Hfb.
    set (f := freed (Some k) [p.2]) in *.
    assert (Hf : 0 <= f) by (pose proof (freed_bounds (Some k) [p.2] ltac:(by repeat constructor)); lia).
    assert (Estep : (if (p.1 =? own)%nat then Ret new_size
      else match container_ m !! key {| key := e_key p.2; last_used := e_time p.2 |} with
           | Some item => Ret (u64 (new_size - item_size item)) | None => Undef end) = Ret (new_size - f)).
    { cbn [key]. fold (key_of p). rewrite Ec. unfold f. rewrite freed_one. fold (key_of p).
      destruct (Nat.eqb_spec p.1 own) as [E|E].
      - rewrite decide_True by (f_equal; tauto). f_equal. lia.
      - rewrite decide_False by (intros [= E']; tauto). cbn [item_of item_size].
        assert (Ef : f = e_size p.2) by (unfold f; rewrite freed_one, decide_False; [done|intros [= E']; tauto]).
        rewrite u64_small by lia. done. }
    rewrite Estep. cbn [obind]. rewrite IH; [|set_solver|done|lia|done]. cbn [obind].
    replace (new_size - f - bound_ m) with (new_size - bound_ m - f) by lia.
    destruct (evictions _ _ _ _ l.*2) as [n|]; cbn [option_map take drop fmap list_fmap]; [|done].
    rewrite (freed_cons (Some k) p.2 (take n l).*2). fold f. by rewrite Z.sub_add_distr.
Qed.

(** The removal of the scanned entries but the one of [k]. *)
Lemma update_remove_spec own k P : forall K R m sz, (forall p, p ∈ P -> p.1 = own <-> key_of p = k) ->
  rep_parts (container_ m) sz (allocated_ m) (K ++ P ++ R) ->
  exists m', update_remove own (node_of <$> P) m = (node_of <$> filter (fun p => key_of p = k) P, m') /\
  rep_parts (container_ m') (sz - freed (Some k) P.*2) (allocated_ m') (K ++ filter (fun p => key_of p = k) P ++ R) /\
  bound_ m' = bound_ m /\ timeout_ m' = timeout_ m /\
  stat_ m' = counts RemovedOutdated (length (without k P.*2)) (stat_ m).
Proof using.
  induction P as [|p P IH]; intros K R m sz Ho Hr.
  { exists m. split; [done|]. split; [|done]. cbn. by rewrite Z.sub_0_r. }
  cbn [fmap list_fmap update_remove node_of]. destruct (Ho p) as [H1 H2]; [set_solver|].
  destruct (Nat.eqb_spec p.1 own) as [E|E].
  - destruct (IH (K ++ [p]) R m sz) as (m' & -> & R' & B' & T' & S'); [set_solver|by rewrite <- app_assoc|].
    exists m'. rewrite filter_cons_True by auto. split; [done|]. rewrite <- app_assoc in R'.
    rewrite freed_cons, freed_one, decide_True, Z.add_0_l by (f_equal; auto).
    split; [done|]. split; [done|]. split; [done|]. unfold without in *.
    rewrite filter_cons_False; [done|]. intros Hn. apply Hn. by apply H1.
  - pose proof (rep_remove _ _ _ K p (P ++ R) Hr) as Hr'. pose proof (rep_total _ _ _ _ Hr) as Et.
    pose proof (rep_width _ _ _ _ Hr) as Hw. pose proof (rep_sizes _ _ _ _ Hr) as Hs.
    apply Forall_app in Hs as [Hs1 Hs2]. cbn [app] in Hs2. apply Forall_cons in Hs2 as [Hsp Hs2].
    rewrite sizes_app in Et, Hw. cbn [app] in Et, Hw. rewrite sizes_cons in Et, Hw.
    pose proof (sizes_nonneg K Hs1). pose proof (sizes_nonneg (P ++ R) Hs2).
    rewrite u64_small in Hr' by lia. cbn [key]. fold (key_of p).
    set (m1 := set_container _ _). destruct (IH K R m1 (sz - e_size p.2)) as (m' & -> & R' & B' & T' & S');
      [set_solver|exact Hr'|]. exists m'. rewrite filter_cons_False by auto. split; [done|].
    rewrite freed_cons, freed_one, decide_False by (intros [= E']; apply E; by apply H2).
    split; [by rewrite Z.sub_add_distr|]. split; [done|]. split; [done|]. rewrite S'.
    change (stat_ m1) with (count RemovedOutdated (stat_ m)). rewrite counts_S. unfold without.
    rewrite filter_cons_True; [done|]. intros E'. apply E. by apply H2.
Qed.

(** The entry of [k] in the list that is left. *)
Lemma resized_middle k n l1 p l2 : NoDup (key_of <$> (l1 ++ p :: l2)) -> key_of p = k ->
  resized k n (l1 ++ p :: l2).*2 = (l1 ++ (p.1, of_size n p.2) :: l2).*2.
Proof using.
  intros Hn <-. destruct (nodup_middle key_of l1 p l2 Hn) as [_ Hne]. unfold resized.
  rewrite !fmap_app, !fmap_cons. rewrite decide_True by done.
  assert (Hid : forall l, (forall q, q ∈ l -> key_of q <> key_of p) ->
    (fun e => if decide (e_key e = key_of p) then of_size n e else e) <$> l.*2 = l.*2).
  { intros l Hl. rewrite <- list_fmap_compose. apply list_fmap_ext. intros i q Hq. cbn.
    rewrite decide_False; [done|]. apply Hl. by eapply list_elem_of_lookup_2. }
  rewrite !Hid by set_solver. done.
Qed.

Lemma filter_key k l : (filter (fun p => key_of p = k) l).*2 = filter (fun e => e_key e = k) l.*2.
Proof using.
  induction l as [|p l IH]; [done|]. cbn [fmap list_fmap]. destruct (decide (e_key p.2 = k)) as [E|E].
  - rewrite !filter_cons_True by done. cbn [fmap list_fmap]. by rewrite IH.
  - rewrite !filter_cons_False by done. exact IH.
Qed.

Lemma freed_own l1 p l2 : NoDup (key_of <$> (l1 ++ p :: l2)) ->
  freed (Some (key_of p)) (l1 ++ p :: l2).*2 = sizes (l1 ++ p :: l2) - e_size p.2.
Proof using.
  intros Hn. destruct (lookup_middle l1 p l2 Hn) as [_ Ew].
  assert (Ef : filter (fun e => Some (e_key e) <> Some (key_of p)) (l1 ++ p :: l2).*2 = (l1 ++ l2).*2).
  { rewrite <- Ew. apply list_filter_iff. intros e. split; intros Hne E; apply Hne; congruence. }
  unfold freed. rewrite Ef. fold (sizes (l1 ++ l2)). rewrite !sizes_app, sizes_cons. lia.
Qed.

(** An item that is bigger than the map does not fit whatever is removed. *)
Lemma evictions_too_big timeout now k l bound size e : Forall (fun e => 0 <= e_size e) l -> bound < size ->
  freed (Some k) l = total l - e_size e ->
  evictions timeout now (Some k) (total l - e_size e + size - bound) l = None.
Proof using.
  intros Hs Hb Hf. destruct (evictions _ _ _ _ l) as [n|] eqn:E; [|done]. exfalso.
  apply evictions_spec in E as (_ & _ & He & _); [|done].
  assert (Hsplit : freed (Some k) l = freed (Some k) (take n l) + freed (Some k) (drop n l)).
  { unfold freed. rewrite <- total_size_app, <- filter_app, take_drop. done. }
  pose proof (freed_bounds (Some k) (drop n l) (Forall_drop _ n l Hs)). lia.
Qed.

Lemma update_kept m m1 l1 p l2 n : bound_ m1 = bound_ m -> timeout_ m1 = timeout_ m -> 0 <= bound_ m < 2 ^ 63 ->
  rep_parts (container_ m1) (sizes (l1 ++ p :: l2)) (allocated_ m1) (l1 ++ p :: l2) -> 0 <= n ->
  sizes (l1 ++ p :: l2) - e_size p.2 + n <= bound_ m ->
  refines (Ret (true, set_size (sizes (l1 ++ p :: l2) - e_size p.2 + n)
      (set_container (<[key_of p := {| data := e_data p.2; item_size := n; order := p.1 |}]> (container_ m1))
        (set_queue (node_of <$> (l1 ++ p :: l2)) m1))))
    (true, {| l_bound := bound_ m; l_timeout := timeout_ m;
              l_entries := resized (key_of p) n (l1 ++ p :: l2).*2; l_stat := stat_ m1 |}).
Proof using.
  intros B1 T1 Hb R Hn Hfit.
  pose proof (rep_replace _ _ _ _ _ _ (e_data p.2) n R Hn ltac:(lia)) as R'.
  eapply refines_ret; [split; [|split; [exact R'|cbn; by rewrite B1]]|].
  - cbn. by rewrite !fmap_app, !fmap_cons.
  - cbn. rewrite B1, T1, resized_middle by (done || apply R). done.
Qed.

Lemma update_item_refines policy k now m item : consistent m -> container_ m !! k = Some item ->
  0 <= policy k (data item) < 2 ^ 63 ->
  refines (update_ policy k now m) (LRU_update policy k now (abs m)).
Proof using.
  intros (l & R) E Hs. unfold update_, LRU_update. rewrite (rep_abs m l R), E.
  pose proof R as (Eq & Rp & Hb). destruct (rep_lookup _ _ _ _ _ _ Rp E) as (l1 & p & l2 & -> & <- & ->).
  pose proof (rep_keys _ _ _ _ Rp) as Hk. destruct (lookup_middle l1 p l2 Hk) as [El Ew].
  cbn [l_entries l_timeout l_bound l_stat]. rewrite El. cbn [item_of data item_size order] in *.
  set (n := policy (key_of p) (e_data p.2)) in *. set (l := l1 ++ p :: l2) in *.
  pose proof (rep_total _ _ _ _ Rp) as Et. pose proof (rep_width _ _ _ _ Rp) as Hw.
  pose proof (freed_own l1 p l2 Hk) as Hfo. fold l in Hfo.
  assert (HsE : Forall (fun e => 0 <= e_size e) l.*2) by (rewrite Forall_fmap; apply Rp).
  pose proof (freed_bounds (Some (key_of p)) l.*2 HsE) as Hfb.
  change (total l.*2) with (sizes l) in *.
  rewrite (u64_small (size_ m + n)), u64_small by lia.
  replace (size_ m + n - e_size p.2) with (sizes l - e_size p.2 + n) by lia.
  destruct (Z.leb_spec (sizes l - e_size p.2 + n) (bound_ m)) as [Hfit|Hbig].
  { rewrite evictions_none_needed by lia. cbn [take drop]. rewrite Et in Rp. unfold with_entries. cbn [l_bound l_timeout l_stat].
    pose proof (update_kept m m l1 p l2 n eq_refl eq_refl Hb Rp ltac:(lia) Hfit) as H'.
    fold l in H'. rewrite <- Eq in H'. replace (set_queue (queue_ m) m) with m in H' by by destruct m. exact H'. }
  destruct (Z.ltb_spec (bound_ m) n) as [Hn|Hn].
  { rewrite (evictions_too_big _ _ _ _ _ _ _ HsE Hn Hfo).
    destruct (drop_item_refines RemovedUpdated (key_of p) m l1 p l2 R eq_refl) as (m' & Ed & R' & B' & T' & S').
    change {| data := e_data p.2; item_size := e_size p.2; order := p.1 |} with (item_of p). rewrite Ed.
    cbn [obind]. apply (refines_ret _ m' _ _ R'). rewrite B', T', S'. by rewrite Ew. }
  assert (Hl : forall q, q ∈ l -> container_ m !! key_of q = Some (item_of q) /\ (q.1 = p.1 <-> key_of q = key_of p)).
  { intros q Hq. split; [apply (rep_items _ _ _ _ Rp); by exists q|].
    destruct (nodup_middle fst l1 p l2 (rep_ids _ _ _ _ Rp)) as [_ Hi].
    destruct (nodup_middle key_of l1 p l2 Hk) as [_ Hkk].
    apply elem_of_app in Hq as [Hq|Hq]; [|apply elem_of_cons in Hq as [->|Hq]; [done|]];
      (split; intros Ex; exfalso; [apply (Hi q)|apply (Hkk q)]; set_solver). }
  rewrite Eq. rewrite (update_scan_spec p.1 (key_of p) now m l _ Hl) by (lia || apply Rp). cbn [obind].
  destruct (evictions _ _ _ _ l.*2) as [j|] eqn:Eev; cbn [option_map].
  - apply evictions_spec in Eev as (_ & _ & Hfree & _); [|done]. rewrite <- fmap_take in Hfree.
    pose proof Rp as Rj. rewrite <- (take_drop j l), Et in Rj.
    destruct (update_remove_spec p.1 (key_of p) (take j l) [] (drop j l) m (sizes l)) as (m1 & -> & R1 & B1 & T1 & S1).
    { intros q Hq. apply Hl. rewrite <- (take_drop j l). set_solver. }
    { exact Rj. }
    cbn [app] in R1. rewrite <- fmap_app. pose proof (rep_total _ _ _ _ R1) as Et1.
    assert (Hp : p ∈ filter (fun q => key_of q = key_of p) (take j l) ++ drop j l).
    { assert (Hp : p ∈ take j l ++ drop j l) by (rewrite take_drop; unfold l; set_solver).
      apply elem_of_app in Hp as [Hp|Hp]; apply elem_of_app; [left|by right].
      by apply list_elem_of_filter. }
    apply list_elem_of_split in Hp as (r1 & r2 & Er).
    rewrite <- fmap_take, <- fmap_drop, <- filter_key, <- fmap_app, Er. rewrite Er in R1, Et1.
    rewrite Et1 in R1.
    replace (sizes l - e_size p.2 + n - freed (Some (key_of p)) (take j l).*2)
      with (sizes (r1 ++ p :: r2) - e_size p.2 + n) in * by lia.
    unfold with_entries. cbn [l_bound l_timeout l_stat].
    rewrite <- S1. apply update_kept; [done|done|done|exact R1|lia|lia].
  - destruct (drop_item_refines RemovedUpdated (key_of p) m l1 p l2 R eq_refl) as (m' & Ed & R' & B' & T' & S').
    change {| data := e_data p.2; item_size := e_size p.2; order := p.1 |} with (item_of p). rewrite Ed.
    cbn [obind]. apply (refines_ret _ m' _ _ R'). rewrite B', T', S'. by rewrite Ew.
Qed.

Lemma container_lookup m l k : rep m l ->
  lookup_entry k l.*2 = None <-> container_ m !! k = None.
Proof using.
  intros (Eq & R & Hb). destruct (container_ m !! k) as [item|] eqn:E.
  - destruct (rep_lookup _ _ _ _ _ _ R E) as (l1 & p & l2 & -> & <- & ->).
    destruct (lookup_middle l1 p l2) as [-> _]; [apply R|]. done.
  - split; [done|]. intros _. by apply lookup_absent, (rep_absent _ _ _ _ _ R).
Qed.

Lemma update_refines policy k now m : consistent m -> (forall k d, 0 <= policy k d < 2 ^ 63) ->
  refines (let* m := update policy k now m in Ret (tt, m)) (tt, (LRU_update policy k now (abs m)).2).
Proof using.
  intros Hc Hs. unfold update. destruct (container_ m !! k) as [item|] eqn:E.
  - destruct (update_item_refines policy k now m item Hc E (Hs _ _)) as (m' & -> & Hc' & Ea).
    cbn [obind]. by exists m'.
  - destruct Hc as (l & R). unfold LRU_update. rewrite (rep_abs m l R). cbn [l_entries].
    rewrite (proj2 (container_lookup m l k R) E). cbn [obind]. by apply (refines_ret _ m l).
Qed.

(** The data of the entry of [k] are assigned in place. *)
Lemma assigned_middle k d l1 p l2 : NoDup (key_of <$> (l1 ++ p :: l2)) -> key_of p = k ->
  assigned k d (l1 ++ p :: l2).*2 =
  (l1 ++ (p.1, {| e_key := e_key p.2; e_data := d; e_size := e_size p.2; e_time := e_time p.2 |}) :: l2).*2.
Proof using.
  intros Hn <-. destruct (nodup_middle key_of l1 p l2 Hn) as [_ Hne]. unfold assigned.
  rewrite !fmap_app, !fmap_cons. rewrite decide_True by done.
  assert (Hid : forall l, (forall q, q ∈ l -> key_of q <> key_of p) ->
    (fun e => if decide (e_key e = key_of p)
      then {| e_key := key_of p; e_data := d; e_size := e_size e; e_time := e_time e |} else e) <$> l.*2 = l.*2).
  { intros l Hl. rewrite <- list_fmap_compose. apply list_fmap_ext. intros i q Hq. cbn.
    rewrite decide_False; [done|]. apply Hl. by eapply list_elem_of_lookup_2. }
  rewrite !Hid by set_solver. done.
Qed.

Lemma insert_or_update_refines policy throws k d now m : consistent m -> (forall k d, 0 <= policy k d < 2 ^ 63) ->
  refines (insert_or_update policy throws k d now m) (LRU_insert_or_update policy throws k d now (abs m)).
Proof using.
  intros (l & R) Hs. pose proof (find_spec k now m l R) as Hf. unfold insert_or_update, LRU_insert_or_update.
  rewrite (rep_abs m l R). cbn [l_entries l_stat]. destruct (container_ m !! k) as [item|] eqn:E.
  - destruct Hf as (l1 & p & l2 & -> & <- & -> & m' & -> & R' & C' & S' & B' & T').
    destruct (lookup_middle l1 p l2) as [El Ew]; [apply R|]. unfold touched. rewrite El, Ew. cbn [obind].
    set (p' := (p.1, at_time now p.2)) in *. set (l' := l1 ++ l2) in *.
    set (m1 := set_container _ _).
    destruct R' as (Eq' & Rp' & Hb').
    pose proof (rep_replace _ _ _ l' p' [] d (e_size p.2) Rp') as R1. cbn [fst snd p' e_size at_time] in R1.
    pose proof (rep_sizes _ _ _ _ Rp') as Hn. apply Forall_app in Hn as [_ [Hn _]%Forall_cons].
    pose proof (rep_total _ _ _ _ Rp') as Et. pose proof (rep_width _ _ _ _ Rp') as Hw.
    specialize (R1 Hn ltac:(lia)). replace (size_ m' - e_size p.2 + e_size p.2) with (size_ m') in R1 by lia.
    set (p1 := (p.1, {| e_key := e_key p.2; e_data := d; e_size := e_size p.2; e_time := now |})) in *.
    assert (Rm1 : rep m1 (l' ++ [p1])).
    { split; [|split; [exact R1|exact Hb']]. change (queue_ m1) with (queue_ m'). rewrite Eq'. by rewrite !fmap_app. }
    assert (Em1 : container_ m1 !! key_of p = Some (item_of p1)) by (cbn; by rewrite lookup_insert_eq).
    destruct (update_item_refines policy (key_of p) now m1 (item_of p1)) as (m2 & Eu & Hc2 & Ea2);
      [by eexists|done|apply Hs|]. rewrite Eu.
    replace (with_entries (assigned (key_of p) d (l'.*2 ++ [at_time now p.2])) _ _) with (abs m1).
    2: { rewrite (rep_abs m1 _ Rm1). unfold with_entries. change (bound_ m1) with (bound_ m').
         change (timeout_ m1) with (timeout_ m'). change (stat_ m1) with (stat_ m'). rewrite B', T', S'.
         cbn [l_bound l_timeout]. f_equal. symmetry.
         transitivity (assigned (key_of p) d (l' ++ [p']).*2); [by rewrite fmap_app|].
         apply (assigned_middle (key_of p) d l' p' []); [apply Rp'|done]. }
    destruct (LRU_update policy (key_of p) now (abs m1)) as [b c] eqn:Ec. cbn [fst snd] in *. subst c. cbn [obind].
    destruct b; [|by exists m2]. exists (counted Replaced m2). split; [done|]. split; [|done].
    destruct Hc2 as (l2' & R2). by exists l2'.
  - destruct Hf as [-> Hk]. rewrite (lookup_absent l k Hk). cbn [obind].
    destruct (insert_new_refines policy throws k d now m) as (m' & -> & Hc' & Ea); [by exists l|done|apply Hs|].
    rewrite (rep_abs m l R) in *. cbn [obind].
    destruct (LRU_insert_new _ _ _ _ _ _) as [r c]. cbn [fst snd] in *. by exists m'.
Qed.

Lemma erase_refines k m : consistent m ->
  refines (let* m := erase k m in Ret (tt, m)) (tt, LRU_erase k (abs m)).
Proof using.
  intros (l & R). unfold erase, LRU_erase. rewrite (rep_abs m l R). cbn [l_entries l_stat].
  destruct (container_ m !! k) as [item|] eqn:E.
  - pose proof R as (Eq & Rp & Hb). destruct (rep_lookup _ _ _ _ _ _ Rp E) as (l1 & p & l2 & -> & <- & ->).
    destruct (lookup_middle l1 p l2) as [_ ->]; [apply Rp|]. unfold drop_item. rewrite Eq.
    change (order (item_of p)) with p.1. rewrite unlink_spec by apply Rp. cbn [obind].
    eapply refines_ret; [split; [done|split; [exact (rep_remove _ _ _ _ _ _ Rp)|done]]|done].
  - cbn [obind]. apply (refines_ret _ m l); [done|]. unfold with_entries. cbn. f_equal.
    unfold without. apply filter_all. rewrite Forall_fmap. apply Forall_forall. intros q Hq Ek.
    apply (rep_absent _ _ _ _ k (proj1 (proj2 R)) E). rewrite <- Ek. by apply (list_elem_of_fmap_2 key_of).
Qed.

Lemma rep_nil a : rep_parts (empty : gmap Key Item) 0 a [].
Proof using.
  constructor; try by constructor. intros k item. rewrite lookup_empty. split; [done|].
  intros (p & Hp & _). by apply not_elem_of_nil in Hp.
Qed.

Lemma clear_refines m : consistent m -> refines (Ret (tt, clear m)) (tt, LRU_clear (abs m)).
Proof using.
  intros (l & R). apply (refines_ret _ (clear m) []).
  - split; [done|]. split; [apply rep_nil|apply R].
  - by rewrite (rep_abs m l R).
Qed.

(** ** Sequences of operations *)

Inductive operation : Type :=
| Find (k : Key)
| Insert (k : Key) (d : Data) (throws : bool)
| InsertOrUpdate (k : Key) (d : Data) (throws : bool)
| Update (k : Key)
| Erase (k : Key)
| Clear
| Statistics (reset : bool)
| SetBound (new_bound : Z)
| SetTimeout (new_timeout : Time).

(** A call: the size policy and the clock as they are then, and the operation. *)
Record call : Type := { c_policy : Key -> Data -> Z; c_now : Time; c_op : operation }.

Inductive answer : Type :=
| Found (itor : iterator)
| Insertion (r : insertion)
| Threw (b : bool)
| Nothing
| Counters (st : BoundedMapStat).

Definition answered {A} (f : A -> answer) (out : outcome (A * BoundedMap)) : outcome (answer * BoundedMap) :=
  let* (a, m) := out in Ret (f a, m).

Definition run_call (c : call) (m : BoundedMap) : outcome (answer * BoundedMap) :=
  match c_op c with
  | Find k => answered Found (find k (c_now c) m)
  | Insert k d throws => answered Insertion (insert (c_policy c) throws k d (c_now c) m)
  | InsertOrUpdate k d throws => answered Threw (insert_or_update (c_policy c) throws k d (c_now c) m)
  | Update k => answered (fun _ => Nothing) (let* m := update (c_policy c) k (c_now c) m in Ret (tt, m))
  | Erase k => answered (fun _ => Nothing) (let* m := erase k m in Ret (tt, m))
  | Clear => answered (fun _ => Nothing) (Ret (tt, clear m))
  | Statistics reset => answered Counters (Ret (statistics reset m))
  | SetBound b => Ret (Nothing, set_bound b m)
  | SetTimeout t => Ret (Nothing, set_timeout t m)
  end.

Fixpoint run (cs : list call) (m : BoundedMap) : outcome (list answer * BoundedMap) :=
  match cs with
  | [] => Ret ([], m)
  | c :: cs =>
    let* (a, m) := run_call c m in
    let* (l, m) := run cs m in Ret (a :: l, m)
  end.

Definition LRU_ (bound : Z) (timeout : Time) : LRU :=
  {| l_bound := bound; l_timeout := timeout; l_entries := []; l_stat := BoundedMapStat_ |}.

Definition LRU_call (c : call) (l : LRU) : answer * LRU :=
  match c_op c with
  | Find k => prod_map Found id (LRU_find k (c_now c) l)
  | Insert k d throws => prod_map Insertion id (LRU_insert (c_policy c k d) throws k d (c_now c) l)
  | InsertOrUpdate k d throws => prod_map Threw id (LRU_insert_or_update (c_policy c) throws k d (c_now c) l)
  | Update k => (Nothing, (LRU_update (c_policy c) k (c_now c) l).2)
  | Erase k => (Nothing, LRU_erase k l)
  | Clear => (Nothing, LRU_clear l)
  | Statistics reset =>
    (Counters (l_stat l), if reset then with_entries (l_entries l) BoundedMapStat_ l else l)
  | SetBound b =>
    (Nothing, {| l_bound := b; l_timeout := l_timeout l; l_entries := l_entries l; l_stat := l_stat l |})
  | SetTimeout t =>
    (Nothing, {| l_bound := l_bound l; l_timeout := t; l_entries := l_entries l; l_stat := l_stat l |})
  end.

Fixpoint LRU_run (cs : list call) (l : LRU) : list answer * LRU :=
  match cs with
  | [] => ([], l)
  | c :: cs =>
    let '(a, l) := LRU_call c l in
    let '(r, l) := LRU_run cs l in (a :: r, l)
  end.

(** Sizes and bounds are below 2^63, so that sums of two of them do not wrap. *)
Definition legal (c : call) : Prop :=
  (forall k d, 0 <= c_policy c k d < 2 ^ 63) /\ (forall b, c_op c = SetBound b -> 0 <= b < 2 ^ 63).

Lemma refines_answered {A} (f : A -> answer) out spec :
  refines out spec -> refines (answered f out) (prod_map f id spec).
Proof using. intros (m' & -> & Hc & Ea). exists m'. by destruct spec. Qed.

Lemma refines_nothing out l : refines out (tt, l) -> refines (answered (fun _ => Nothing) out) (Nothing, l).
Proof using. intros Hr. exact (refines_answered (fun _ => Nothing) out (tt, l) Hr). Qed.

Lemma run_call_refines c m : legal c -> consistent m -> refines (run_call c m) (LRU_call c (abs m)).
Proof using.
  intros [Hp Ho] Hc. unfold run_call, LRU_call. destruct (c_op c).
  - by apply refines_answered, find_refines.
  - by apply refines_answered, insert_refines.
  - by apply refines_answered, insert_or_update_refines.
  - by apply refines_nothing, update_refines.
  - by apply refines_nothing, erase_refines.
  - by apply refines_nothing, clear_refines.
  - eexists. split; [done|]. destruct Hc as (l & R).
    by destruct reset; (split; [by exists l|]).
  - eexists. split; [done|]. destruct Hc as (l & R). split; [|done]. exists l. split; [apply R|].
    split; [apply R|]. by apply Ho.
  - eexists. split; [done|]. destruct Hc as (l & R). by split; [exists l|].
Qed.

Lemma run_refines cs : Forall legal cs -> forall m, consistent m -> refines (run cs m) (LRU_run cs (abs m)).
Proof using.
  induction 1 as [|c cs Hl _ IH]; intros m Hc; [by exists m|]. cbn [run LRU_run].
  destruct (run_call_refines c m Hl Hc) as (m1 & -> & Hc1 & Ea1). cbn [obind].
  destruct (LRU_call c (abs m)) as [a l1]. cbn [fst snd] in *. subst l1.
  destruct (IH m1 Hc1) as (m2 & -> & Hc2 & Ea2). cbn [obind].
  destruct (LRU_run cs (abs m1)) as [r l2]. by exists m2.
Qed.

Lemma consistent_empty bound timeout : 0 <= bound < 2 ^ 63 ->
  consistent (BoundedMap_ bound timeout) /\ abs (BoundedMap_ bound timeout) = LRU_ bound timeout.
Proof using. intros Hb. split; [|done]. exists []. split; [done|]. split; [apply rep_nil|done]. Qed.

(** ** Invariants of the abstract machine *)

Definition distinct (l : list Entry) : Prop := NoDup (e_key <$> l).

Lemma consistent_entries m : consistent m ->
  distinct (entries m) /\ Forall (fun e => 0 <= e_size e) (entries m) /\ size_ m = total (entries m).
Proof using.
  intros (l & R). rewrite (entries_rep m l R). destruct R as (_ & R & _). unfold distinct.
  split; [rewrite <- list_fmap_compose; exact (rep_keys _ _ _ _ R)|].
  split; [rewrite Forall_fmap; exact (rep_sizes _ _ _ _ R)|]. exact (rep_total _ _ _ _ R).
Qed.

#[local] Instance total_proper : Proper ((≡ₚ) ==> (=)) total.
Proof using. induction 1; rewrite ?total_cons in *; try done; lia. Qed.

(** The entry that is found and the others. *)
Lemma lookup_perm k l e : distinct l -> lookup_entry k l = Some e -> e_key e = k /\ l ≡ₚ e :: without k l.
Proof using.
  unfold distinct, lookup_entry. induction l as [|e' l IH]; cbn [list_find fmap list_fmap]; [done|].
  intros [Hk Hn]%NoDup_cons.
  unfold without. rewrite filter_cons. destruct (decide (e_key e' = k)) as [E|E].
  - intros [= <-]. split; [done|]. rewrite decide_False by auto. rewrite filter_all; [done|].
    apply Forall_forall. intros q Hq Eq. apply Hk. rewrite E, <- Eq. by apply list_elem_of_fmap_2.
  - rewrite decide_True by done. destruct (list_find _ l) as [[i x]|] eqn:El; [|done]. cbn. intros [= <-].
    destruct (IH Hn eq_refl) as [Ek HP]. split; [done|]. unfold without in HP. rewrite HP at 1. by constructor.
Qed.

Lemma total_resized k n l e : distinct l -> lookup_entry k l = Some e ->
  total (resized k n l) = total l - e_size e + n.
Proof using.
  intros Hd El. destruct (lookup_perm k l e Hd El) as [Ek HP]. rewrite HP at 2. rewrite total_cons.
  assert (HR : resized k n l ≡ₚ resized k n (e :: without k l)) by (unfold resized; by rewrite HP at 1).
  rewrite HR. unfold resized. rewrite fmap_cons, decide_True, total_cons by done.
  assert (Hid : forall l, total ((fun e => if decide (e_key e = k) then of_size n e else e) <$> without k l)
    = total (without k l)).
  { clear. intros l. induction l as [|x l IH]; [done|]. unfold without in *. rewrite filter_cons.
    case_decide as Hx; [|done]. rewrite fmap_cons, decide_False by done. rewrite !total_cons. lia. }
  rewrite Hid. cbn [e_size of_size]. lia.
Qed.

(** What an update keeps of the entries. *)
Definition kept (k : Key) (n : nat) (l : list Entry) : list Entry :=
  filter (fun e => e_key e = k) (take n l) ++ drop n l.

Lemma kept_total k n l : total (kept k n l) = total l - freed (Some k) (take n l).
Proof using.
  unfold kept. rewrite <- (take_drop n l) at 3. rewrite !total_size_app. set (P := take n l). clearbody P.
  assert (total P = total (filter (fun e => e_key e = k) P) + freed (Some k) P); [|lia].
  unfold freed. induction P as [|e P IH]; [done|]. rewrite !filter_cons. destruct (decide (e_key e = k)) as [E|E].
  - rewrite decide_False by (rewrite E; auto). rewrite !total_cons. lia.
  - rewrite decide_True by congruence. rewrite !total_cons. lia.
Qed.

Lemma kept_length k n l : (length (kept k n l) + length (without k (take n l)) = length l)%nat.
Proof using.
  unfold kept, without. rewrite <- (take_drop n l) at 4. rewrite !length_app. set (P := take n l). clearbody P.
  assert (length P = length (filter (fun e => e_key e = k) P) + length (filter (fun e => e_key e <> k) P))%nat; [|lia].
  induction P as [|e P IH]; [done|]. rewrite !filter_cons. destruct (decide (e_key e = k)) as [E|E].
  - rewrite decide_False by auto. cbn. lia.
  - rewrite decide_True by auto. cbn. lia.
Qed.

Lemma lookup_cons k e l :
  lookup_entry k (e :: l) = if decide (e_key e = k) then Some e else lookup_entry k l.
Proof using.
  unfold lookup_entry. cbn [list_find]. case_decide; [done|]. by destruct (list_find _ l) as [[]|].
Qed.

Lemma lookup_kept k l : forall n, lookup_entry k (kept k n l) = lookup_entry k l.
Proof using.
  induction l as [|e l IH]; intros [|n]; [done|done|done|]. unfold kept in *. cbn [take drop].
  rewrite filter_cons, lookup_cons. case_decide; cbn [app]; [by rewrite lookup_cons, decide_True|apply IH].
Qed.

Lemma kept_distinct k n l : distinct l -> distinct (kept k n l).
Proof using.
  unfold distinct, kept. intros Hd. eapply sublist_NoDup; [exact Hd|]. apply fmap_sublist.
  rewrite <- (take_drop n l) at 3. apply sublist_app; [apply sublist_filter|done].
Qed.

(** *** The total size stays within the bound *)

Lemma touched_total k now l : distinct l -> total (touched k now l) = total l /\ length (touched k now l) = length l.
Proof using.
  intros Hd. unfold touched. destruct (lookup_entry k l) as [e|] eqn:El; [|done].
  destruct (lookup_perm k l e Hd El) as [_ HP]. split.
  - rewrite HP at 2. rewrite total_size_app, !total_cons. cbn. lia.
  - rewrite HP at 2. rewrite length_app. cbn. lia.
Qed.

Lemma assigned_total k d l : total (assigned k d l) = total l /\ e_key <$> assigned k d l = e_key <$> l.
Proof using.
  unfold assigned. induction l as [|e l [IH1 IH2]]; [done|]. rewrite !fmap_cons, !total_cons, IH1, IH2.
  by case_decide; subst.
Qed.

Lemma touched_distinct k now l : distinct l -> distinct (touched k now l).
Proof using.
  intros Hd. unfold touched. destruct (lookup_entry k l) as [e|] eqn:El; [|done].
  destruct (lookup_perm k l e Hd El) as [_ HP]. unfold distinct in *. rewrite HP in Hd.
  by rewrite Permutation_app_comm.
Qed.

Lemma total_drop n l : Forall (fun e => 0 <= e_size e) l -> total (drop n l) = total l - freed None (take n l).
Proof using. intros _. rewrite <- (take_drop n l) at 2. rewrite total_size_app, freed_all. lia. Qed.

Lemma total_without k l : Forall (fun e => 0 <= e_size e) l -> total (without k l) <= total l.
Proof using.
  induction 1 as [|e l He _ IH]; [done|]. unfold without in *. rewrite filter_cons.
  case_decide; rewrite !total_cons; lia.
Qed.

Lemma update_total policy k now c : distinct (l_entries c) -> Forall (fun e => 0 <= e_size e) (l_entries c) ->
  (forall k d, 0 <= policy k d < 2 ^ 63) -> total (l_entries c) <= l_bound c ->
  total (l_entries (LRU_update policy k now c).2) <= l_bound c.
Proof using.
  intros Hd Hs Hp Hf. unfold LRU_update. destruct (lookup_entry k (l_entries c)) as [e|] eqn:El; [|done].
  destruct (evictions _ _ _ _ _) as [n|] eqn:Eev; cbn [snd l_entries with_entries].
  - apply evictions_spec in Eev as (_ & _ & Hx & _); [|done]. fold (kept k n (l_entries c)).
    rewrite (total_resized k _ _ e) by (by apply kept_distinct || by rewrite lookup_kept). rewrite kept_total. lia.
  - pose proof (total_without k _ Hs). lia.
Qed.

Lemma insert_new_total size throws k d now c : Forall (fun e => 0 <= e_size e) (l_entries c) -> 0 <= size ->
  total (l_entries c) <= l_bound c ->
  total (l_entries (LRU_insert_new size throws k d now c).2) <= l_bound c.
Proof using.
  intros Hs Hn Hf. unfold LRU_insert_new. destruct (l_bound c <? size); [done|].
  destruct (evictions _ _ _ _ _) as [n|] eqn:Eev.
  - apply evictions_spec in Eev as (_ & _ & Hx & _); [|done]. pose proof (total_drop n _ Hs).
    destruct throws; cbn [snd l_entries with_entries]; [lia|]. rewrite total_size_app, total_cons.
    change (total []) with 0. cbn [e_size]. lia.
  - cbn [snd l_entries with_entries]. rewrite total_drop by done. pose proof (freed_bounds None (take (stale_prefix (l_timeout c) now (l_entries c)) (l_entries c)) (Forall_take _ _ _ Hs)). lia.
Qed.

(** The entries after [insert_or_update] has moved and assigned the one of [k]. *)
Lemma reassigned k d now l : distinct l -> Forall (fun e => 0 <= e_size e) l ->
  let l' := assigned k d (touched k now l) in
  distinct l' /\ Forall (fun e => 0 <= e_size e) l' /\ total l' = total l /\ length l' = length l.
Proof using.
  intros Hd Hs l'. destruct (assigned_total k d (touched k now l)) as [Et Ek].
  destruct (touched_total k now l Hd) as [Et' El']. split; [unfold distinct, l'; rewrite Ek; by apply touched_distinct|].
  split; [|split; [unfold l'; lia|unfold l', assigned; by rewrite length_fmap]].
  assert (Ht : Forall (fun e => 0 <= e_size e) (touched k now l)).
  { unfold touched. destruct (lookup_entry k l) as [e|] eqn:El; [|done].
    destruct (lookup_perm k l e Hd El) as [_ HP]. rewrite HP in Hs. apply Forall_cons in Hs as [He Hs].
    apply Forall_app. split; [done|]. by constructor; [|constructor]. }
  unfold l', assigned. rewrite Forall_fmap. eapply Forall_impl; [exact Ht|]. intros e He. cbn. by case_decide.
Qed.

Lemma update_bound policy k now c : l_bound (LRU_update policy k now c).2 = l_bound c.
Proof using.
  unfold LRU_update. destruct (lookup_entry k (l_entries c)); [|done]. by destruct (evictions _ _ _ _ _).
Qed.

Lemma insert_new_bound size throws k d now c : l_bound (LRU_insert_new size throws k d now c).2 = l_bound c.
Proof using.
  unfold LRU_insert_new. destruct (_ <? _); [done|]. destruct (evictions _ _ _ _ _); [|done]. by destruct throws.
Qed.

Lemma call_total c l : legal c -> (forall b, c_op c <> SetBound b) ->
  distinct (l_entries l) -> Forall (fun e => 0 <= e_size e) (l_entries l) -> total (l_entries l) <= l_bound l ->
  l_bound (LRU_call c l).2 = l_bound l /\ total (l_entries (LRU_call c l).2) <= l_bound l.
Proof using.
  intros [Hp _] Hb Hd Hs Hf. pose proof (total_size_nonneg _ Hs) as H0. unfold LRU_call.
  assert (Ht : forall k, total (touched k (c_now c) (l_entries l)) <= l_bound l)
    by (intros k; by rewrite (proj1 (touched_total k (c_now c) _ Hd))).
  destruct (c_op c) as [k|k d throws|k d throws|k|k| |[|]|b|t] eqn:Eo.
  - split; [done|]. apply Ht.
  - unfold LRU_insert. destruct (lookup_entry k (l_entries l)); [split; [done|apply Ht]|].
    split; [apply insert_new_bound|]. apply insert_new_total; [done|apply Hp|done].
  - unfold LRU_insert_or_update. destruct (lookup_entry k (l_entries l)).
    + set (l1 := with_entries _ _ _). destruct (reassigned k d (c_now c) _ Hd Hs) as (Hd1 & Hs1 & Et1 & _).
      pose proof (update_total (c_policy c) k (c_now c) l1 Hd1 Hs1 Hp) as Hu.
      pose proof (update_bound (c_policy c) k (c_now c) l1) as Hub. 
      specialize (Hu (eq_ind_r (fun z => z <= l_bound l) Hf Et1)).
      destruct (LRU_update _ _ _ _) as [[|] c2]; by split.
    + pose proof (insert_new_bound (c_policy c k d) throws k d (c_now c) l) as Hib.
      pose proof (insert_new_total (c_policy c k d) throws k d (c_now c) l Hs (proj1 (Hp _ _)) Hf) as Hit.
      by destruct (LRU_insert_new _ _ _ _ _ _) as [r c2].
  - split; [apply update_bound|]. by apply update_total.
  - split; [done|]. pose proof (total_without k _ Hs). cbn [snd LRU_erase with_entries l_entries]. lia.
  - split; [done|]. cbn. lia.
  - done.
  - done.
  - by destruct (Hb b).
  - done.
Qed.

(** *** The counters *)

Ltac solve_count :=
  cbn [count inserted_new removed_outdated removed_updated with_entries l_entries l_stat length snd];
  repeat case_decide; simplify_eq; lia.


Definition balance (l : LRU) : Z :=
  inserted_new (l_stat l) - removed_outdated (l_stat l) - removed_updated (l_stat l) - Z.of_nat (length (l_entries l)).

Lemma counts_outdated n st :
  let st' := counts RemovedOutdated n st in
  inserted_new st' = inserted_new st /\ removed_outdated st' = removed_outdated st + Z.of_nat n /\
  removed_updated st' = removed_updated st.
Proof using.
  induction n as [|n (I1 & I2 & I3)]; [cbn; lia|].
  change (counts RemovedOutdated (S n) st) with (count RemovedOutdated (counts RemovedOutdated n st)).
  cbn [count inserted_new removed_outdated removed_updated]. rewrite I1, I2, I3. solve_count.
Qed.

Lemma update_balance policy k now c : distinct (l_entries c) ->
  balance (LRU_update policy k now c).2 = balance c.
Proof using.
  intros Hd. unfold LRU_update. destruct (lookup_entry k (l_entries c)) as [e|] eqn:El; [|done].
  destruct (evictions _ _ _ _ _) as [n|]; unfold balance; cbn [snd with_entries l_entries l_stat].
  - fold (kept k n (l_entries c)). unfold resized. rewrite length_fmap.
    pose proof (kept_length k n (l_entries c)).
    destruct (counts_outdated (length (without k (take n (l_entries c)))) (l_stat c)) as (-> & -> & ->). lia.
  - destruct (lookup_perm k _ e Hd El) as [_ HP]. rewrite HP at 2. solve_count.
Qed.

Lemma stale_prefix_length timeout now l : (stale_prefix timeout now l <= length l)%nat.
Proof using. induction l as [|e l IH]; [done|]. cbn. destruct (Time_lt _ _); lia. Qed.

Lemma insert_new_balance size throws k d now c : Forall (fun e => 0 <= e_size e) (l_entries c) ->
  balance (LRU_insert_new size throws k d now c).2 = balance c.
Proof using.
  intros Hs. unfold LRU_insert_new. destruct (_ <? _); [unfold balance; solve_count|].
  destruct (evictions _ _ _ _ _) as [n|] eqn:Eev.
  - apply evictions_spec in Eev as (Hn & _); [|done]. pose proof (counts_outdated n (l_stat c)) as (E1 & E2 & E3).
    destruct throws; unfold balance; cbn [snd with_entries l_entries l_stat].
    + rewrite E1, E2, E3, length_drop. lia.
    + cbn [count inserted_new removed_outdated removed_updated]. rewrite E1, E2, E3, length_app, length_drop. solve_count.
  - pose proof (stale_prefix_length (l_timeout c) now (l_entries c)) as Hn. set (n := stale_prefix _ _ _) in *.
    pose proof (counts_outdated n (l_stat c)) as (E1 & E2 & E3). unfold balance. cbn [snd with_entries l_entries l_stat].
    cbn [count inserted_new removed_outdated removed_updated]. rewrite E1, E2, E3, length_drop. solve_count.
Qed.

(** The operations that change the counters or the entries, not both. *)
Definition unaccounted (c : call) : Prop :=
  match c_op c with Erase _ | Clear | Statistics true => True | _ => False end.

Lemma balance_entries l' l st c : length l' = length l -> inserted_new st = inserted_new (l_stat c) ->
  removed_outdated st = removed_outdated (l_stat c) -> removed_updated st = removed_updated (l_stat c) ->
  l = l_entries c -> balance (with_entries l' st c) = balance c.
Proof using. intros El E1 E2 E3 ->. unfold balance. cbn [with_entries l_entries l_stat]. lia. Qed.

Lemma call_balance c l : ~ unaccounted c -> distinct (l_entries l) -> Forall (fun e => 0 <= e_size e) (l_entries l) ->
  balance (LRU_call c l).2 = balance l.
Proof using.
  intros Hu Hd Hs. unfold unaccounted in Hu. unfold LRU_call.
  assert (Ht : forall k, length (touched k (c_now c) (l_entries l)) = length (l_entries l))
    by (intros k; by rewrite (proj2 (touched_total k (c_now c) _ Hd))).
  destruct (c_op c) as [k|k d throws|k d throws|k|k| |[|]|b|t] eqn:Eo; try done.
  - by apply (balance_entries _ (l_entries l)).
  - unfold LRU_insert. destruct (lookup_entry k (l_entries l)); [|by apply insert_new_balance].
    apply (balance_entries _ (l_entries l)); [apply Ht|solve_count..|done].
  - unfold LRU_insert_or_update. destruct (lookup_entry k (l_entries l)).
    + set (l1 := with_entries _ _ _). destruct (reassigned k d (c_now c) _ Hd Hs) as (Hd1 & Hs1 & _ & El1).
      pose proof (update_balance (c_policy c) k (c_now c) l1 Hd1) as Hub.
      assert (E1 : balance l1 = balance l) by by apply (balance_entries _ (l_entries l)). rewrite E1 in Hub.
      destruct (LRU_update _ _ _ _) as [[|] c2]; [|exact Hub]. cbn [prod_map snd id] in *. rewrite <- Hub.
      apply (balance_entries _ (l_entries c2)); [done|solve_count..|done].
    + pose proof (insert_new_balance (c_policy c k d) throws k d (c_now c) l Hs) as Hib.
      by destruct (LRU_insert_new _ _ _ _ _ _) as [r c2].
  - by apply update_balance.
Qed.

(** *** Runs *)

Definition pair_of (e : Entry) : Key * Data := (e_key e, e_data e).

Lemma copy_entries m : consistent m -> copy_to m ≡ₚ pair_of <$> entries m.
Proof using.
  intros Hc. pose proof (consistent_entries m Hc) as (Hd & _ & _). destruct Hc as (l & R).
  unfold copy_to. apply NoDup_Permutation.
  - apply (NoDup_fmap_1 fst). rewrite <- list_fmap_compose.
    exact (NoDup_fst_map_to_list (container_ m)).
  - apply (NoDup_fmap_1 fst). by rewrite <- list_fmap_compose.
  - intros [k d]. rewrite (entries_rep m l R). destruct R as (_ & R & _). rewrite !list_elem_of_fmap. split.
    + intros ([k' item] & [= -> ->] & Hi). apply elem_of_map_to_list, (rep_items _ _ _ _ R) in Hi as (p & Hp & <- & ->).
      exists p.2. split; [done|]. by apply list_elem_of_fmap_2.
    + intros (e & [= -> ->] & He). apply list_elem_of_fmap in He as (p & -> & Hp).
      exists (key_of p, item_of p). split; [done|]. apply elem_of_map_to_list, (rep_items _ _ _ _ R). by exists p.
Qed.

Lemma size_entries m : consistent m -> size_of m = Z.of_nat (length (entries m)).
Proof using.
  intros Hc. pose proof (Permutation_length (copy_entries m Hc)) as El. unfold copy_to in El.
  rewrite !length_fmap, length_map_to_list in El. unfold size_of. by rewrite El.
Qed.

(** What every call keeps of the abstract machine holds after every run. *)
Lemma run_invariant (P : call -> Prop) (I : LRU -> Prop) cs :
  (forall c l, legal c -> P c -> distinct (l_entries l) -> Forall (fun e => 0 <= e_size e) (l_entries l) ->
    I l -> I (LRU_call c l).2) ->
  Forall legal cs -> Forall P cs -> forall m, consistent m -> I (abs m) ->
  exists r m', run cs m = Ret (r, m') /\ consistent m' /\ I (abs m').
Proof using.
  intros Hstep Hl HP. induction Hl as [|c cs Hc _ IH]; intros m Hm HI; [by exists [], m|].
  apply Forall_cons in HP as [HPc HP]. cbn [run].
  destruct (run_call_refines c m Hc Hm) as (m1 & -> & Hm1 & Ea1). cbn [obind].
  destruct (consistent_entries m Hm) as (Hd & Hs & _).
  destruct (IH HP m1 Hm1) as (r & m2 & -> & Hm2 & HI2); [rewrite Ea1; by apply Hstep|].
  cbn [obind]. by eexists _, m2.
Qed.


(** As long as [bound] is not changed the total size of the entries never
    exceeds it: no sequence of operations, updates of items that have grown
    included, leaves the map above its bound. *)
Theorem BoundedMap_bounded bound timeout cs : 0 <= bound < 2 ^ 63 -> Forall legal cs ->
  Forall (fun c => forall b, c_op c <> SetBound b) cs ->
  exists r m', run cs (BoundedMap_ bound timeout) = Ret (r, m') /\
  bound_ m' = bound /\ 0 <= size_ m' <= bound /\ size_ m' = total (entries m').
Proof using.
  intros Hb Hl Hn. destruct (consistent_empty bound timeout Hb) as [Hc Ea].
  destruct (run_invariant (fun c => forall b, c_op c <> SetBound b)
    (fun l => l_bound l = bound /\ total (l_entries l) <= bound) cs) with (m := BoundedMap_ bound timeout)
    as (r & m' & E & Hc' & Eb & Ht).
  - intros c l Hlc Hnc Hd Hs [Eb Ht]. rewrite <- Eb. rewrite <- Eb in Ht. by apply call_total.
  - done.
  - done.
  - done.
  - rewrite Ea. split; [done|]. cbn. lia.
  - exists r, m'. destruct (consistent_entries m' Hc') as (_ & Hs & Es). pose proof (total_size_nonneg _ Hs).
    cbn [abs l_bound l_entries] in *. split; [done|]. split; [done|]. split; [lia|done].
Qed.

(** The counters account for the entries: without [erase], [clear] and a
    reset of the statistics every inserted entry is either still in the map or was
    counted once as [removed_outdated] or [removed_updated]. *)
Theorem BoundedMap_counters bound timeout cs : 0 <= bound < 2 ^ 63 -> Forall legal cs ->
  Forall (fun c => ~ unaccounted c) cs ->
  exists r m', run cs (BoundedMap_ bound timeout) = Ret (r, m') /\
  inserted_new (stat_ m') =
    size_of m' + removed_outdated (stat_ m') + removed_updated (stat_ m').
Proof using.
  intros Hb Hl Hn. destruct (consistent_empty bound timeout Hb) as [Hc Ea].
  destruct (run_invariant (fun c => ~ unaccounted c) (fun l => balance l = 0) cs)
    with (m := BoundedMap_ bound timeout) as (r & m' & E & Hc' & Eb).
  - intros c l Hlc Hnc Hd Hs Eb. rewrite <- Eb. by apply call_balance.
  - done.
  - done.
  - done.
  - by rewrite Ea.
  - exists r, m'. split; [done|]. unfold balance in Eb. cbn [abs l_stat l_entries] in Eb.
    rewrite (size_entries m' Hc'). lia.
Qed.

(** ** The eviction policy *)

Lemma stale_prefix_spec timeout now l :
  let n := stale_prefix timeout now l in
  Forall (stale timeout now) (take n l) /\
  (drop n l = [] \/ exists e rest, drop n l = e :: rest /\ ~ stale timeout now e).
Proof using.
  induction l as [|e l [IH1 IH2]]; [by split; [constructor|left]|]. cbn [stale_prefix].
  destruct (Time_lt now (Time_add (e_time e) timeout)) eqn:E.
  - split; [constructor|]. right. exists e, l. split; [done|]. unfold stale. by rewrite E.
  - split; [by constructor|done].
Qed.

Lemma evictions_stuck timeout now l : Forall (fun e => 0 <= e_size e) l -> forall excess,
  evictions timeout now None excess l = None ->
  forall j, (j <= stale_prefix timeout now l)%nat -> freed None (take j l) < excess.
Proof using.
  induction 1 as [|e l He Hs IH]; intros excess; cbn [evictions stale_prefix];
    destruct (Z.leb_spec excess 0) as [Hx|Hx]; try done.
  - intros _ j Hj. replace j with O by (cbn in Hj; lia). done.
  - destruct (Time_lt now (Time_add (e_time e) timeout)); [intros _ j Hj; by replace j with O by lia|].
    intros Ev [|j] Hj; [done|]. cbn [take]. rewrite freed_cons.
    destruct (evictions timeout now None _ l) eqn:Ev'; [done|]. specialize (IH _ Ev' j ltac:(lia)). lia.
Qed.

End Map.

(** ** Witnesses *)

Definition ex_policy (_ d : Z) : Z := d mod 10.
Definition ex_call (t : Z) (op : operation) : call (Key := Z) (Data := Z) :=
  {| c_policy := ex_policy; c_now := {| tv_sec := t; tv_usec := 0 |}; c_op := op |}.
Definition ex_timeout : Time := {| tv_sec := 10; tv_usec := 0 |}.

(** A find makes an entry recent, an insertion evicts the entries that were not used
    for 10 seconds, fails while the others are recent, and the update of an item that
    has grown evicts another entry. *)
Definition ex_calls : list call :=
  [ex_call 0 (Insert 1 3 false); ex_call 1 (Insert 2 4 false); ex_call 5 (Find 1);
   ex_call 20 (Insert 3 6 false); ex_call 21 (Insert 4 5 false); ex_call 40 (InsertOrUpdate 4 7 false);
   ex_call 41 (Insert 5 2 false); ex_call 60 (InsertOrUpdate 5 8 false)].

Lemma ex_legal : Forall legal ex_calls.
Proof.
  unfold ex_calls. repeat (apply Forall_cons; split; [|]); [..|apply Forall_nil]; try done;
    (split; [intros k d; unfold ex_call, ex_policy; cbn; pose proof (Z.mod_pos_bound d 10 ltac:(lia)); lia|done]).
Qed.

Example ex_run : exists m, run ex_calls (BoundedMap_ 9 ex_timeout) =
    Ret ([Insertion (Inserted (Some (1, 3)) true); Insertion (Inserted (Some (2, 4)) true); Found (Some (1, 3));
          Insertion (Inserted (Some (3, 6)) true); Insertion (Inserted None false); Threw false;
          Insertion (Inserted (Some (5, 2)) true); Threw false], m) /\
  entries m = [{| e_key := 5; e_data := 8; e_size := 8; e_time := {| tv_sec := 60; tv_usec := 0 |} |}] /\
  stat_ m = {| inserted_new := 5; insert_existing := 0; removed_outdated := 4; removed_updated := 0;
               not_inserted := 1; replaced := 1 |}.
Proof. eexists. split; [vm_compute; reflexivity|]. split; vm_compute; reflexivity. Qed.


Lemma BoundedMap_bounded_witness : exists r m', run ex_calls (BoundedMap_ 9 ex_timeout) = Ret (r, m') /\
  0 <= size_ m' <= 9.
Proof.
  destruct (BoundedMap_bounded 9 ex_timeout ex_calls ltac:(lia) ex_legal) as (r & m' & E & _ & Hs & _).
  - unfold ex_calls. repeat (apply Forall_cons; split; [intros b; discriminate|]). apply Forall_nil. exact I.
  - exact (ex_intro _ r (ex_intro _ m' (conj E Hs))).
Defined.

Lemma BoundedMap_counters_witness : exists r m', run ex_calls (BoundedMap_ 9 ex_timeout) = Ret (r, m') /\
  inserted_new (stat_ m') = size_of m' + removed_outdated (stat_ m') + removed_updated (stat_ m').
Proof.
  apply (BoundedMap_counters 9 ex_timeout ex_calls ltac:(lia) ex_legal).
  unfold ex_calls. repeat (apply Forall_cons; split; [intros Hu; exact Hu|]). apply Forall_nil. exact I.
Defined.

(** The map after the first two insertions. *)
Definition ex_map : BoundedMap (Key := Z) (Data := Z) :=
  match run (take 2 ex_calls) (BoundedMap_ 9 ex_timeout) with Ret (_, m) => m | _ => BoundedMap_ 9 ex_timeout end.

Lemma ex_map_consistent : consistent ex_map.
Proof.
  destruct (consistent_empty (Key := Z) (Data := Z) 9 ex_timeout ltac:(lia)) as [Hc _].
  destruct (run_refines (take 2 ex_calls) (Forall_take _ _ _ ex_legal) _ Hc) as (m' & E & Hc' & _).
  unfold ex_map. rewrite E. exact Hc'.
Qed.


(** ** Edge cases *)

(** After a reset of the statistics an eviction makes [removed_outdated] bigger than
    [inserted_new]. *)
Example removed_more_than_inserted : exists r m,
  run (take 3 ex_calls ++ [ex_call 6 (Statistics true); ex_call 20 (Insert 3 9 false)]) (BoundedMap_ 9 ex_timeout)
    = Ret (r, m) /\
  inserted_new (stat_ m) = 1 /\ removed_outdated (stat_ m) = 2.
Proof. eexists _, _. split; [vm_compute; reflexivity|]. split; vm_compute; reflexivity. Qed.

(** A size near 2^64 wraps in the sum that [update_] compares with the bound before it
    compares the size itself: the item stays with a size far above the bound and
    [size_] is the wrapped sum. *)
Example update_size_wraps : exists m,
  update (fun _ _ => 2 ^ 64 - 1) 2 {| tv_sec := 2; tv_usec := 0 |} ex_map = Ret m /\
  bound_ m = 9 /\ size_ m = 2 /\ (e_size <$> entries m) = [3; 2 ^ 64 - 1].
Proof. eexists. split; [vm_compute; reflexivity|]. split; [|split]; vm_compute; reflexivity. Qed.
