(* ===== verification/CompressedSet.v ===== *)
(** * CompressedSet: a set of integers stored as disjoint intervals

    Models [CompressedSet<Integer>] ([src/Generics/CompressedSet.hpp]) with
    [safe_next] ([src/Generics/TypeTraits.hpp]).

    A [std::map] is the list of its nodes in the order of their keys.  An
    iterator stays with its node while other nodes come and go, so it is the
    key of the node, or [None] for [end()]; following an iterator whose node
    has been erased is [Undef].  The bounds of the type [Integer] are
    arguments. *)
From S2P Require Import Prelude.
Local Open Scope Z_scope.
Local Open Scope outcome_scope.

(** ** std::map *)

Definition Holder : Type := list (Z * Z).
Definition iterator : Type := option Z.

(** The node an iterator points at. *)
Fixpoint node (h : Holder) (k : Z) : option Z :=
  match h with
  | [] => None
  | (first, second) :: h => if first =? k then Some second else node h k
  end.

Definition map_begin (h : Holder) : iterator := fst <$> head h.

Fixpoint map_lower_bound (h : Holder) (k : Z) : iterator :=
  match h with
  | [] => None
  | (first, _) :: h => if k <=? first then Some first else map_lower_bound h k
  end.

(** [++itor] *)
Definition next (h : Holder) (k : Z) : iterator := map_lower_bound h (k + 1).

(** [--itor]; there is none before [begin()]. *)
Fixpoint prev (h : Holder) (itor : iterator) : iterator :=
  match h with
  | [] => None
  | (first, _) :: h =>
    match itor with
    | Some k => if k <=? first then None else
                match prev h itor with Some p => Some p | None => Some first end
    | None => match prev h itor with Some p => Some p | None => Some first end
    end
  end.

(** [insert] leaves a node with the same key as it is. *)
Fixpoint map_insert (h : Holder) (k v : Z) : Holder :=
  match h with
  | [] => [(k, v)]
  | (first, second) :: t =>
    if k <? first then (k, v) :: h
    else if k =? first then h
    else (first, second) :: map_insert t k v
  end.

Definition erase (h : list (Z * Z)) (k : Z) : list (Z * Z) := filter (fun p => p.1 <> k) h.

(** [itor->second = v] *)
Definition set_second (h : Holder) (k v : Z) : Holder :=
  map (fun p => if p.1 =? k then (k, v) else p) h.

(** [itor->second] *)
Definition second (h : Holder) (k : Z) : outcome Z :=
  match node h k with
  | Some v => Ret v
  | None => Undef
  end.

(** [--itor], defined when there is a node before it. *)
Definition step_back (h : Holder) (itor : iterator) : outcome Z :=
  match prev h itor with
  | Some k => Ret k
  | None => Undef
  end.

(** ** The class *)

Record CompressedSet : Type := { holder_ : Holder; last_found_ : iterator }.

Inductive CheckStatus : Type := CS_NONE | CS_ALL | CS_SOME.

Definition CompressedSet_init : CompressedSet := {| holder_ := []; last_found_ := None |}.

Definition set_empty (s : CompressedSet) : bool :=
  match holder_ s with [] => true | _ => false end.

Section Integer.
  (** [std::numeric_limits<Integer>] *)
  Context (MIN MAX : Z).

Definition safe_next (number : Z) : Z := if number <? MAX then number + 1 else number.

(** The loop of [add] that removes what the new interval overlaps. *)
Fixpoint add_loop (fuel : nat) (base high : Z) (itor : iterator) (h : Holder) : outcome Holder :=
  match fuel with
  | O => Undef
  | S fuel =>
    match itor with
    | None => Ret h
    | Some k =>
      if k <=? safe_next high then
        let* itor_second := second h k in
        if high <? itor_second
        then Ret (erase (set_second h base itor_second) k)
        else add_loop fuel base high (next h k) (erase h k)
      else Ret h
    end
  end.

(** The search both modifiers start with: the last node that starts at or
    below [low], or [begin()]. *)
Definition start_element (h : Holder) (low : Z) : outcome iterator :=
  let itor := map_lower_bound h low in
  if (bool_decide (itor = None) || negb (bool_decide (itor = Some low)))
     && negb (bool_decide (itor = map_begin h))
  then let* k := step_back h itor in Ret (Some k)
  else Ret itor.

Definition add (low high : Z) (s : CompressedSet) : outcome CompressedSet :=
  if high <? low then Ret s
  else
    let h := holder_ s in
    let* itor := start_element h low in
    let inserted := (map_insert h low high, low) in
    let* (h, base) :=
      match itor with
      | None => Ret inserted
      | Some k =>
        if low <? k then Ret inserted
        else
          let* itor_second := second h k in
          if safe_next itor_second <? low then Ret inserted
          else if itor_second <? high then Ret (set_second h k high, k)
          else Ret (h, k)
      end in
    let* h := add_loop (S (length h)) base high (next h base) h in
    Ret {| holder_ := h; last_found_ := None |}.

Fixpoint remove_loop (fuel : nat) (low high : Z) (itor : iterator) (h : Holder) : outcome Holder :=
  match fuel with
  | O => Undef
  | S fuel =>
    match itor with
    | None => Ret h
    | Some k =>
      if k <? safe_next high then
        let* itor_second := second h k in
        if low <=? k then
          if itor_second <=? high then remove_loop fuel low high (next h k) (erase h k)
          else Ret (erase (map_insert h (safe_next high) itor_second) k)
        else if itor_second <? low then remove_loop fuel low high (next h k) h
        else if itor_second <=? high
        then remove_loop fuel low high itor (set_second h k (low - 1))
        else remove_loop fuel low high itor
               (set_second (map_insert h (safe_next high) itor_second) k (low - 1))
      else Ret h
    end
  end.

Definition remove (low high : Z) (s : CompressedSet) : outcome CompressedSet :=
  if high <? low then Ret s
  else
    let* itor := start_element (holder_ s) low in
    let* h := remove_loop (3 + length (holder_ s)) low high itor (holder_ s) in
    Ret {| holder_ := h; last_found_ := None |}.

Definition add_value (value : Z) : CompressedSet -> outcome CompressedSet := add value value.
Definition remove_value (value : Z) : CompressedSet -> outcome CompressedSet := remove value value.

(** The overloads for a set do nothing when it is the same object. *)
Fixpoint for_each (f : Z -> Z -> CompressedSet -> outcome CompressedSet) (l : Holder)
    (s : CompressedSet) : outcome CompressedSet :=
  match l with
  | [] => Ret s
  | (first, second) :: l => let* s := f first second s in for_each f l s
  end.

Definition add_set (same : bool) (cset s : CompressedSet) : outcome CompressedSet :=
  if same then Ret s else for_each add (holder_ cset) s.

Definition remove_set (same : bool) (cset s : CompressedSet) : outcome CompressedSet :=
  if same then Ret s else for_each remove (holder_ cset) s.

Definition set_clear (s : CompressedSet) : CompressedSet :=
  {| holder_ := []; last_found_ := None |}.

(** The part of [belongs] after the look at [last_found_]. *)
Definition belongs_search (value : Z) (h : Holder) : outcome (bool * CompressedSet) :=
  let found := map_lower_bound h value in
  if bool_decide (found = Some value)
  then Ret (true, {| holder_ := h; last_found_ := found |})
  else if bool_decide (found = map_begin h)
  then Ret (false, {| holder_ := h; last_found_ := found |})
  else
    let* k := step_back h found in
    let* v := second h k in
    Ret (value <=? v, {| holder_ := h; last_found_ := Some k |}).

Definition belongs (value : Z) (s : CompressedSet) : outcome (bool * CompressedSet) :=
  let* cached :=
    match last_found_ s with
    | None => Ret false
    | Some k =>
      if k <=? value
      then let* v := second (holder_ s) k in Ret (value <=? v)
      else Ret false
    end in
  if cached : bool then Ret (true, s) else belongs_search value (holder_ s).

Definition check_presence (low high : Z) (s : CompressedSet) : outcome CheckStatus :=
  let h := holder_ s in
  if high <? low then Ret CS_NONE
  else
    let itor := map_lower_bound h low in
    let before :=
      if bool_decide (itor = map_begin h) then Ret CS_NONE
      else
        let* k := step_back h itor in
        let* v := second h k in
        if v <? low then Ret CS_NONE
        else Ret (if high <=? v then CS_ALL else CS_SOME) in
    match itor with
    | None => before
    | Some first =>
      if first =? low then
        let* v := second h first in Ret (if high <=? v then CS_ALL else CS_SOME)
      else if first <=? high then Ret CS_SOME
      else before
    end.

End Integer.

(** ** The map operations at a node

    The lemmas describe a map by the nodes before and after a key. *)

Abbreviation below k := (Forall (fun p : Z * Z => p.1 < k)).
Abbreviation above k := (Forall (fun p : Z * Z => k < p.1)).

Lemma map_lower_bound_app k pre post :
  below k pre -> Forall (fun p : Z * Z => k <= p.1) post ->
  map_lower_bound (pre ++ post) k = map_begin post.
Proof.
  intros Hpre Hpost. induction Hpre as [|[a b] pre Ha _ IH]; simpl in *.
  - destruct Hpost as [|[a b] post Ha _]; simpl in *; [done|]. by decide_Z.
  - by decide_Z.
Qed.

Lemma next_at k v pre post :
  below k pre -> above k post -> next (pre ++ (k, v) :: post) k = map_begin post.
Proof.
  intros Hpre Hpost. unfold next. change ((k, v) :: post) with ([(k, v)] ++ post).
  rewrite app_assoc. apply map_lower_bound_app.
  - apply Forall_app. split; [|repeat constructor; simpl; lia].
    eapply Forall_impl; [exact Hpre|]. simpl. lia.
  - eapply Forall_impl; [exact Hpost|]. simpl. lia.
Qed.

Lemma prev_at k v pre post :
  below k pre -> above k post -> prev (pre ++ (k, v) :: post) (map_begin post) = Some k.
Proof.
  intros Hpre Hpost. induction Hpre as [|[a b] pre Ha Hpre IH]; simpl in *.
  - destruct Hpost as [|[a b] post Ha _]; simpl in *; [done|]. by decide_Z.
  - rewrite IH. destruct Hpost as [|[c d] post Hc _]; simpl in *; [done|]. by decide_Z.
Qed.

Lemma second_at k v pre post : below k pre -> second (pre ++ (k, v) :: post) k = Ret v.
Proof.
  intros Hpre. unfold second.
  assert (node (pre ++ (k, v) :: post) k = Some v) as ->; [|done].
  induction Hpre as [|[a b] pre Ha _ IH]; simpl in *; by decide_Z.
Qed.

Lemma map_insert_at k v pre post :
  below k pre -> above k post -> map_insert (pre ++ post) k v = pre ++ (k, v) :: post.
Proof.
  intros Hpre Hpost. induction Hpre as [|[a b] pre Ha _ IH]; simpl in *.
  - destruct Hpost as [|[a b] post Ha _]; simpl in *; [done|]. by decide_Z.
  - decide_Z. by rewrite IH.
Qed.

Lemma map_insert_mid a b k v pre post :
  below a pre -> a < k -> above k post ->
  map_insert (pre ++ (a, b) :: post) k v = pre ++ (a, b) :: (k, v) :: post.
Proof.
  intros Hpre Ha Hpost. change ((a, b) :: post) with ([(a, b)] ++ post).
  rewrite app_assoc, map_insert_at, <- app_assoc; [done| |done].
  apply Forall_app. split; [|by repeat constructor].
  eapply Forall_impl; [exact Hpre|]. simpl. lia.
Qed.

Lemma set_second_other k v l : Forall (fun p : Z * Z => p.1 <> k) l -> set_second l k v = l.
Proof. intros H. induction H as [|[a b] l Ha _ IH]; simpl in *; [done|]. by decide_Z; rewrite IH. Qed.

Lemma below_ne k l : below k l -> Forall (fun p : Z * Z => p.1 <> k) l.
Proof. intros H. eapply Forall_impl; [exact H|]. simpl. lia. Qed.

Lemma above_ne k l : above k l -> Forall (fun p : Z * Z => p.1 <> k) l.
Proof. intros H. eapply Forall_impl; [exact H|]. simpl. lia. Qed.

Lemma set_second_at k v w pre post :
  below k pre -> above k post -> set_second (pre ++ (k, v) :: post) k w = pre ++ (k, w) :: post.
Proof.
  intros Hpre Hpost. unfold set_second. rewrite map_app. simpl. rewrite Z.eqb_refl.
  f_equal; [by apply set_second_other, below_ne|].
  f_equal. by apply set_second_other, above_ne.
Qed.

Lemma erase_other k l : Forall (fun p : Z * Z => p.1 <> k) l -> erase l k = l.
Proof.
  intros H. unfold erase. induction H as [|p l Hp _ IH]; [done|].
  rewrite filter_cons_True by done. by rewrite IH.
Qed.

Lemma erase_at k v pre post :
  below k pre -> above k post -> erase (pre ++ (k, v) :: post) k = pre ++ post.
Proof.
  intros Hpre Hpost. unfold erase. rewrite filter_app, filter_cons_False by (simpl; lia).
  f_equal; [by apply erase_other, below_ne|by apply erase_other, above_ne].
Qed.

(** ** The invariant and the set a map denotes *)

Definition elem (h : Holder) (x : Z) : Prop := Exists (fun p => p.1 <= x <= p.2) h.

Lemma elem_app a b x : elem (a ++ b) x <-> elem a x \/ elem b x.
Proof. apply Exists_app. Qed.

Lemma elem_cons k v h x : elem ((k, v) :: h) x <-> k <= x <= v \/ elem h x.
Proof. unfold elem. rewrite Exists_cons. done. Qed.

Lemma elem_nil x : elem [] x <-> False.
Proof. apply Exists_nil. Qed.

Lemma elem_above h x k : elem h x -> above k h -> k < x.
Proof.
  unfold elem. intros (p & Hp & Hx)%Exists_exists H. rewrite Forall_forall in H.
  specialize (H p Hp). lia.
Qed.

Lemma above_weaken a b h : a <= b -> above b h -> above a h.
Proof. intros Hab H. eapply Forall_impl; [exact H|]. simpl. lia. Qed.

Lemma below_weaken a b h : a <= b -> below a h -> below b h.
Proof. intros Hab H. eapply Forall_impl; [exact H|]. simpl. lia. Qed.

#[export] Hint Rewrite elem_app elem_cons elem_nil : unixcommons.

(** Membership in lists of intervals by arithmetic. *)
Ltac elem_lia :=
  intros; autorewrite with unixcommons;
  repeat match goal with H : Forall _ _ |- _ => clear H end; intuition lia.

Section Proofs.
  Context (MIN MAX : Z).

(** Intervals inside the type, ordered, with a gap between neighbours. *)
Fixpoint intervals (h : Holder) : Prop :=
  match h with
  | [] => True
  | (k, v) :: h => MIN <= k <= v /\ v <= MAX /\ above (v + 1) h /\ intervals h
  end.

Abbreviation ends_below k := (Forall (fun p : Z * Z => p.2 + 1 < k)).

Lemma intervals_app a b :
  intervals (a ++ b) <->
  intervals a /\ intervals b /\ Forall (fun p => above (p.2 + 1) b) a.
Proof.
  induction a as [|[k v] a IH]; simpl.
  - split; [intros H; repeat split; [done|constructor]|by intros (_ & H & _)].
  - rewrite IH, Forall_app, Forall_cons. simpl. tauto.
Qed.

(** The middle of a well-formed map. *)
Lemma intervals_mid pre k v post :
  intervals (pre ++ (k, v) :: post) <->
  intervals pre /\ ends_below k pre /\ MIN <= k <= v /\ v <= MAX /\ above (v + 1) post /\
  intervals post.
Proof.
  rewrite intervals_app. simpl. split.
  - intros (Ha & Hb & Hc). repeat split; try tauto. eapply Forall_impl; [exact Hc|].
    intros p Hp. by inversion Hp.
  - intros (Ha & Hc & Hk & Hv & Hab & Hp). repeat split; try tauto; try lia.
    eapply Forall_impl; [exact Hc|]. intros p Hpk. constructor; [done|].
    eapply above_weaken; [|exact Hab]. simpl in Hpk. lia.
Qed.

Lemma intervals_below pre k : intervals pre -> ends_below k pre -> below k pre.
Proof.
  intros Hi H. induction H as [|[a b] pre Ha _ IH]; simpl in *; constructor; simpl; [lia|].
  apply IH, Hi.
Qed.

Lemma intervals_head h k v t : intervals h -> h = (k, v) :: t -> above k t.
Proof. intros H ->. simpl in H. eapply above_weaken; [|apply H]. lia. Qed.

Lemma intervals_around pre k v post : intervals (pre ++ (k, v) :: post) ->
  below k pre /\ above k post.
Proof.
  intros (Hi & He & Hk & _ & Hp & _)%intervals_mid. split; [by apply intervals_below|].
  eapply above_weaken; [|exact Hp]. lia.
Qed.

(** The last node that starts at or below [low], if there is one. *)
Lemma cut_at h low : intervals h ->
  above low h \/ exists pre k v post, h = pre ++ (k, v) :: post /\ k <= low /\ above low post.
Proof.
  induction h as [|[k v] h IH]; intros H; [left; constructor|].
  destruct (Z.ltb_spec low k) as [Hk|Hk].
  - left. constructor; [done|]. eapply above_weaken; [|exact (intervals_head _ _ _ _ H eq_refl)]. lia.
  - right. destruct IH as [Ha|(pre & k' & v' & post & -> & Hk' & Hp)]; [apply H| |].
    + by exists [], k, v, h.
    + by exists ((k, v) :: pre), k', v', post.
Qed.

Lemma map_begin_at pre k v post : below k pre ->
  exists c, map_begin (pre ++ (k, v) :: post) = Some c /\ c <= k.
Proof.
  intros [|[c d] pre' Hc _]; simpl in *; [by exists k|]. exists c. split; [done|lia].
Qed.

Lemma map_begin_above low h c : above low h -> map_begin h = Some c -> low < c.
Proof. intros [|[a b] t Ha _]; simpl; [done|]. by intros [= <-]. Qed.

Lemma map_lower_bound_above low h : above low h -> map_lower_bound h low = map_begin h.
Proof.
  intros H. apply (map_lower_bound_app low []); [constructor|].
  eapply Forall_impl; [exact H|]. simpl. lia.
Qed.

(** The end of a map is not its beginning after a node. *)
Lemma begin_after low pre k v post : below k pre -> k <= low -> above low post ->
  map_begin post <> map_begin (pre ++ (k, v) :: post).
Proof.
  intros Hpre Hk Hpost Heq. destruct (map_begin_at pre k v post Hpre) as (c & Hc & Hck).
  rewrite Hc in Heq. pose proof (map_begin_above _ _ _ Hpost Heq). lia.
Qed.

Lemma map_lower_bound_at pre k v post low : below k pre -> above low post -> k < low ->
  map_lower_bound (pre ++ (k, v) :: post) low = map_begin post.
Proof.
  intros Hpre Hpost Hk. change ((k, v) :: post) with ([(k, v)] ++ post). rewrite app_assoc.
  apply map_lower_bound_app; [|eapply Forall_impl; [exact Hpost|]; simpl; lia].
  apply Forall_app. split; [eapply below_weaken; [|exact Hpre]; lia|by repeat constructor].
Qed.

Lemma map_lower_bound_here pre k v post : below k pre -> above k post ->
  map_lower_bound (pre ++ (k, v) :: post) k = Some k.
Proof.
  intros Hpre Hpost. rewrite map_lower_bound_app; [done|done|].
  constructor; [simpl; lia|]. eapply Forall_impl; [exact Hpost|]. simpl. lia.
Qed.

Lemma start_element_begin h low : above low h -> start_element h low = Ret (map_begin h).
Proof.
  intros H. unfold start_element. rewrite map_lower_bound_above by done.
  rewrite (bool_decide_eq_true_2 (map_begin h = map_begin h)) by done.
  by rewrite andb_false_r.
Qed.

Lemma start_element_at pre k v post low :
  intervals (pre ++ (k, v) :: post) -> k <= low -> above low post ->
  start_element (pre ++ (k, v) :: post) low = Ret (Some k).
Proof.
  intros H Hk Hpost. destruct (intervals_around _ _ _ _ H) as [Hpre Hkp].
  unfold start_element. destruct (Z.eq_dec k low) as [->|Hne].
  - rewrite map_lower_bound_here by done. by rewrite (bool_decide_eq_true_2 (Some low = Some low)).
  - rewrite map_lower_bound_at by (done || lia).
    rewrite (bool_decide_eq_false_2 (map_begin post = Some low)).
    2: { intros E. pose proof (map_begin_above _ _ _ Hpost E). lia. }
    rewrite orb_true_r, bool_decide_eq_false_2 by eauto using begin_after.
    simpl. unfold step_back. by rewrite prev_at.
Qed.

(** ** add *)

Lemma safe_next_le high : high <= MAX ->
  high <= safe_next MAX high <= high + 1 /\ safe_next MAX high <= MAX.
Proof. unfold safe_next. case_Z; lia. Qed.

Lemma safe_next_above high k : k <= MAX -> safe_next MAX high < k -> high + 1 < k.
Proof. unfold safe_next. case_Z; lia. Qed.

Lemma safe_next_reach high k : high <= MAX -> k <= MAX -> safe_next MAX high <= k ->
  high < k \/ high = MAX /\ k = MAX.
Proof. unfold safe_next. case_Z; lia. Qed.

(** The loop merges into the interval of [base] what touches it. *)
Lemma add_loop_ok post fuel pre base v high :
  (length post < fuel)%nat -> below base pre -> above base post -> intervals post ->
  base <= high <= v -> v <= MAX -> v = high \/ above (v + 1) post ->
  exists v' post',
    add_loop MAX fuel base high (map_begin post) (pre ++ (base, v) :: post) =
      Ret (pre ++ (base, v') :: post') /\
    base <= v' <= MAX /\ above (v' + 1) post' /\ intervals post' /\
    forall x, (base <= x <= v' \/ elem post' x) <-> (base <= x <= v \/ elem post x).
Proof.
  revert fuel. induction post as [|[k w] post IH];
    intros [|fuel] Hf Hpre Hpost Hi Hb Hv Hor; [simpl in Hf; lia| |simpl in Hf; lia|].
  - exists v, []. repeat split; [lia|lia|constructor|done..].
  - apply Forall_cons in Hpost as [Hk Hpost]. simpl in Hk, Hi.
    destruct Hi as (Hkw & Hw & Hap & Hi). simpl.
    assert (Hbk : below k (pre ++ [(base, v)])).
    { apply Forall_app. split; [eapply below_weaken; [|exact Hpre]; lia|by repeat constructor]. }
    assert (Hak : above k post) by (eapply above_weaken; [|exact Hap]; lia).
    pose proof (safe_next_le high ltac:(lia)) as Hsn.
    assert (Hass : forall l, pre ++ (base, v) :: l = (pre ++ [(base, v)]) ++ l)
      by (intros l; by rewrite <- app_assoc).
    case_Z; [rewrite Hass, second_at by done; simpl; case_Z|].
    + rewrite <- Hass, set_second_at by (try constructor; simpl; done).
      exists w, post. destruct Hor as [->|Hor]; [|inversion Hor; simpl in *; lia].
      change ((base, w) :: (k, w) :: post) with ([(base, w)] ++ (k, w) :: post).
      rewrite app_assoc, erase_at, <- app_assoc; [|apply Forall_app; split|done].
      2: { eapply below_weaken; [|exact Hpre]. lia. }
      2: { by repeat constructor. }
      split; [done|]. split; [lia|]. split; [done|]. split; [done|]. elem_lia.
    + destruct Hor as [->|Hor]; [|inversion Hor; simpl in *; lia].
      rewrite next_at, erase_at, <- Hass by done.
      destruct (IH fuel) as (v' & post' & -> & Hv' & Hap' & Hi' & He); try done;
        [simpl in Hf; lia|by left|].
      exists v', post'. split; [done|]. split; [done|]. split; [done|]. split; [done|].
      intros x. rewrite He. elem_lia.
    + exists v, ((k, w) :: post). repeat split; try done; try lia.
      destruct Hor as [->|Hor]; [|done].
      pose proof (safe_next_above high k ltac:(lia) ltac:(lia)).
      constructor; [done|]. eapply above_weaken; [|exact Hap]. lia.
Qed.

Lemma add_merge pre base v post high :
  intervals pre -> ends_below base pre -> above base post -> intervals post ->
  MIN <= base -> base <= high <= v -> v <= MAX -> v = high \/ above (v + 1) post ->
  let h := pre ++ (base, v) :: post in
  exists h',
    add_loop MAX (S (length h)) base high (next h base) h = Ret h' /\ intervals h' /\
    forall x, elem h' x <-> elem h x.
Proof.
  intros Hpre He Hpost Hi Hm Hb Hv Hor h. subst h.
  rewrite next_at by eauto using intervals_below.
  destruct (add_loop_ok post (S (length (pre ++ (base, v) :: post))) pre base v high)
    as (v' & post' & E & Hv' & Hap & Hi' & Hx); try done.
  - rewrite length_app. simpl. lia.
  - by apply intervals_below.
  - exists (pre ++ (base, v') :: post'). split; [exact E|]. split.
    + apply intervals_mid. repeat split; try done; lia.
    + intros x. specialize (Hx x). elem_lia.
Qed.

(** The new interval is the nodes of [pre], itself and the nodes of [post]. *)
Lemma add_insert pre post low high :
  intervals pre -> ends_below low pre -> above low post -> intervals post ->
  MIN <= low <= high -> high <= MAX ->
  let h := map_insert (pre ++ post) low high in
  exists h',
    add_loop MAX (S (length h)) low high (next h low) h = Ret h' /\ intervals h' /\
    forall x, elem h' x <-> elem (pre ++ post) x \/ low <= x <= high.
Proof.
  intros Hpre He Hpost Hi Hl Hh h. subst h.
  rewrite map_insert_at by eauto using intervals_below.
  destruct (add_merge pre low high post high) as (h' & E & Hi' & Hx); try done; [lia..|by left|].
  exists h'. split; [exact E|]. split; [done|]. intros x. rewrite Hx. elem_lia.
Qed.

Lemma add_ok low high s :
  intervals (holder_ s) -> MIN <= low <= high -> high <= MAX ->
  exists h', add MAX low high s = Ret {| holder_ := h'; last_found_ := None |} /\
    intervals h' /\ forall x, elem h' x <-> elem (holder_ s) x \/ low <= x <= high.
Proof.
  intros H Hl Hh. unfold add. rewrite (proj2 (Z.ltb_ge high low)) by lia.
  destruct s as [h lf]. cbn [holder_] in *.
  destruct (cut_at h low H) as [Ha|(pre & k & v & post & -> & Hk & Hp)].
  - rewrite start_element_begin by done. cbn [obind].
    destruct (add_insert [] h low high) as (h' & E & Hi' & Hx); try done. cbn [app] in *.
    assert ((match map_begin h with Some k => low <? k | None => true end) = true) as Hb.
    { destruct Ha as [|[a b] t Ha _]; simpl in *; [done|lia]. }
    exists h'. destruct (map_begin h); [rewrite Hb|]; cbn [obind]; by rewrite E.
  - rewrite start_element_at by done. cbn [obind]. decide_Z.
    destruct (intervals_around _ _ _ _ H) as [Hpre Hpost]. rewrite second_at by done. cbn [obind].
    pose proof (proj1 (intervals_mid _ _ _ _) H) as (Hi & He & Hkv & Hv & Hap & Hip).
    assert (Hsn := safe_next_le v Hv). case_Z; [|case_Z].
    + destruct (add_insert (pre ++ [(k, v)]) post low high) as (h' & E & Hi' & Hx); try done.
      * apply intervals_mid. repeat split; try done; try lia; by constructor.
      * apply Forall_app. split; [eapply Forall_impl; [exact He|]; simpl; lia|].
        repeat constructor. simpl. apply safe_next_above; lia.
      * rewrite <- app_assoc in *. cbn [obind app] in *. rewrite E. by exists h'.
    + rewrite set_second_at by done. cbn [obind].
      destruct (add_merge pre k high post high) as (h' & E & Hi' & Hx); try done; [lia..|by left|].
      rewrite E. exists h'. split; [done|]. split; [done|].
      intros x. rewrite Hx. elem_lia.
    + destruct (add_merge pre k v post high) as (h' & E & Hi' & Hx); try done; [lia..|by right|].
      cbn [obind]. rewrite E. exists h'. split; [done|]. split; [done|].
      intros x. rewrite Hx. elem_lia.
Qed.

(** ** remove *)

(** What [remove] leaves: a node that starts at [MAX] is out of its reach. *)
Definition kept (low high : Z) (h : Holder) (x : Z) : Prop :=
  elem h x /\ (~ low <= x <= high \/ x = MAX /\ In (MAX, MAX) h).

Lemma no_max h k v : above k h -> v <= k -> ~ (v = MAX /\ In (MAX, MAX) h).
Proof.
  intros Ha Hv [-> Hin]. rewrite Forall_forall in Ha.
  specialize (Ha _ (proj2 (list_elem_of_In _ _) Hin)). simpl in Ha. lia.
Qed.

(** The loop from the first node that starts at or above [low]. *)
Lemma remove_loop_ok post fuel pre low high :
  (length post < fuel)%nat -> below low pre -> Forall (fun p : Z * Z => low <= p.1) post ->
  intervals post -> MIN <= low <= high -> high <= MAX ->
  exists post',
    remove_loop MAX fuel low high (map_begin post) (pre ++ post) = Ret (pre ++ post') /\
    Forall (fun p : Z * Z => low <= p.1) post' /\ intervals post' /\
    forall x, elem post' x <-> kept low high post x.
Proof.
  revert fuel. induction post as [|[k w] post IH];
    intros [|fuel] Hf Hpre Hpost Hi Hl Hh; [simpl in Hf; lia| |simpl in Hf; lia|].
  - exists []. split; [done|]. split; [constructor|]. split; [done|]. unfold kept. elem_lia.
  - apply Forall_cons in Hpost as [Hk Hpost]. simpl in Hk, Hi.
    destruct Hi as (Hkw & Hw & Hap & Hi). simpl.
    assert (Hbk : below k pre) by (eapply below_weaken; [|exact Hpre]; lia).
    assert (Hak : above k post) by (eapply above_weaken; [|exact Hap]; lia).
    assert (Hhp : forall x, elem post x -> w + 1 < x) by (intros x Hx; by eapply elem_above).
    assert (Hnm : forall x, x <= w -> ~ (x = MAX /\ In (MAX, MAX) post))
      by (intros x Hx; eapply no_max; [exact Hap|lia]).
    pose proof (safe_next_le high Hh) as Hsn. unfold kept.
    case_Z; [rewrite second_at, (proj2 (Z.leb_le low k)) by done; cbn [obind]; case_Z|].
    + rewrite next_at, erase_at by done.
      destruct (IH fuel) as (post' & -> & Hp' & Hi' & Hx); try done; [simpl in Hf; lia|].
      exists post'. split; [done|]. split; [done|]. split; [done|].
      intros x. rewrite Hx. unfold kept. cbn [In]. autorewrite with unixcommons.
      specialize (Hhp x). specialize (Hnm x).
      assert ((k, w) = (MAX, MAX) <-> k = MAX /\ w = MAX) by (intuition congruence).
      intuition lia.
    + assert (E : safe_next MAX high = high + 1) by (unfold safe_next; decide_Z; lia).
      rewrite E in *. rewrite map_insert_mid by (first [done | lia | eapply above_weaken; [|exact Hap]; lia]).
      rewrite erase_at; [|done|constructor; [simpl; lia|done]].
      exists ((high + 1, w) :: post). split; [done|]. split; [constructor; [simpl; lia|done]|].
      split; [cbn; repeat split; try done; lia|].
      intros x. cbn [In]. autorewrite with unixcommons. specialize (Hhp x). specialize (Hnm x).
      assert ((k, w) = (MAX, MAX) <-> k = MAX /\ w = MAX) by (intuition congruence).
      intuition lia.
    + exists ((k, w) :: post). split; [done|]. split; [by constructor|].
      split; [cbn; repeat split; try done; lia|].
      intros x. cbn [In]. autorewrite with unixcommons. specialize (Hhp x).
      destruct (safe_next_reach high k Hh) as [Hlt|[-> ->]]; [lia..|intuition lia|].
      assert (w = MAX) as -> by lia. intuition lia.
Qed.

Lemma above_elem h m : intervals h -> (forall x, elem h x -> m < x) -> above m h.
Proof.
  induction h as [|[k v] h IH]; intros H Hx; constructor; simpl in *.
  - apply Hx, elem_cons. lia.
  - apply IH; [apply H|]. intros x Hh. apply Hx, elem_cons. by right.
Qed.

Lemma elem_ends_below pre k x : elem pre x -> ends_below k pre -> x + 1 < k.
Proof.
  unfold elem. intros (p & Hp & Hx)%Exists_exists H. rewrite Forall_forall in H.
  specialize (H p Hp). lia.
Qed.

(** The loop from a node that ends below [low]. *)
Lemma remove_loop_skip pre k u rest fuel low high :
  (S (length rest) < fuel)%nat -> intervals (pre ++ (k, u) :: rest) -> u < low ->
  Forall (fun p : Z * Z => low <= p.1) rest -> MIN <= low <= high -> high <= MAX ->
  exists h',
    remove_loop MAX fuel low high (Some k) (pre ++ (k, u) :: rest) = Ret h' /\
    intervals h' /\ forall x, elem h' x <-> elem (pre ++ [(k, u)]) x \/ kept low high rest x.
Proof.
  intros Hf H Hu Hr Hl Hh. destruct (intervals_around _ _ _ _ H) as [Hpre Hpost].
  pose proof (proj1 (intervals_mid _ _ _ _) H) as (Hi & He & Hku & Hum & Hap & Hir).
  destruct fuel as [|fuel]; [lia|]. cbn [remove_loop].
  pose proof (safe_next_le high Hh). assert (k < safe_next MAX high) by lia.
  rewrite second_at, next_at by done. cbn [obind]. decide_Z.
  destruct (remove_loop_ok rest fuel (pre ++ [(k, u)]) low high)
    as (post' & E & Hp' & Hi' & Hx); try done; [lia| |].
  { apply Forall_app. split; [eapply below_weaken; [|exact Hpre]; lia|].
    repeat constructor. simpl. lia. }
  rewrite <- !app_assoc in E. cbn [app] in E. exists (pre ++ (k, u) :: post').
  split; [exact E|]. split.
  - apply intervals_mid. split; [done|]. split; [done|]. split; [done|]. split; [done|].
    split; [|done]. apply above_elem; [done|]. intros x [Hx' _]%Hx. by eapply elem_above.
  - intros x. specialize (Hx x). autorewrite with unixcommons. tauto.
Qed.

Lemma in_max_post pre k v post : below MAX (pre ++ [(k, v)]) ->
  In (MAX, MAX) (pre ++ (k, v) :: post) <-> In (MAX, MAX) post.
Proof.
  intros H. change ((k, v) :: post) with ([(k, v)] ++ post). rewrite app_assoc, in_app_iff.
  split; [|by right]. intros [Hin|Hin]; [|done]. rewrite Forall_forall in H.
  specialize (H _ (proj2 (list_elem_of_In _ _) Hin)). simpl in H. lia.
Qed.

(** The loop from a node that starts below [low]. *)
Lemma remove_loop_first pre k v post fuel low high :
  (3 + length post < fuel)%nat -> intervals (pre ++ (k, v) :: post) ->
  k < low -> above low post -> MIN <= low <= high -> high <= MAX ->
  exists h',
    remove_loop MAX fuel low high (Some k) (pre ++ (k, v) :: post) = Ret h' /\
    intervals h' /\ forall x, elem h' x <-> kept low high (pre ++ (k, v) :: post) x.
Proof.
  intros Hf H Hk Hp Hl Hh. destruct (intervals_around _ _ _ _ H) as [Hpre Hpost].
  pose proof (proj1 (intervals_mid _ _ _ _) H) as (Hi & He & Hkv & Hvm & Hap & Hip).
  assert (Hmax : below MAX (pre ++ [(k, v)])).
  { apply Forall_app. split; [eapply below_weaken; [|exact Hpre]; lia|].
    repeat constructor. simpl. lia. }
  assert (Hge : Forall (fun p : Z * Z => low <= p.1) post)
    by (eapply Forall_impl; [exact Hp|]; simpl; lia).
  assert (Hnm : forall x, x <= v -> ~ (x = MAX /\ In (MAX, MAX) post))
    by (intros x Hx; eapply no_max; [exact Hap|lia]).
  assert (Hpe := fun x Hin => elem_ends_below pre k x Hin He).
  assert (Hpo := fun x Hin => elem_above post x (v + 1) Hin Hap).
  pose proof (safe_next_le high Hh) as Hsn.
  destruct (Z.ltb_spec v low).
  - destruct (remove_loop_skip pre k v post fuel low high) as (h' & E & Hi' & Hx); try done; [lia|].
    exists h'. split; [done|]. split; [done|]. intros x. rewrite Hx. unfold kept.
    rewrite in_max_post by done. specialize (Hpe x). autorewrite with unixcommons. intuition lia.
  - destruct fuel as [|fuel]; [lia|]. cbn [remove_loop].
    assert (k < safe_next MAX high) by (unfold safe_next; case_Z; lia).
    rewrite second_at by done. cbn [obind].
    rewrite (proj2 (Z.ltb_lt k _)), (proj2 (Z.leb_gt low k)), (proj2 (Z.ltb_ge v low)) by lia.
    case_Z.
    + rewrite set_second_at by done.
      destruct (remove_loop_skip pre k (low - 1) post fuel low high) as (h' & E & Hi' & Hx);
        try done; [lia|apply intervals_mid; repeat split; try done; try lia|lia|].
      { eapply above_weaken; [|exact Hap]. lia. }
      exists h'. split; [done|]. split; [done|]. intros x. rewrite Hx. unfold kept.
      rewrite in_max_post by done. specialize (Hpe x). specialize (Hnm x).
      autorewrite with unixcommons. intuition lia.
    + assert (E : safe_next MAX high = high + 1) by (unfold safe_next; decide_Z; lia).
      rewrite E, map_insert_mid by (first [done | lia | eapply above_weaken; [|exact Hap]; lia]).
      rewrite set_second_at; [|done|by constructor; [simpl; lia|]].
      destruct (remove_loop_skip pre k (low - 1) ((high + 1, v) :: post) fuel low high)
        as (h' & E' & Hi' & Hx); try done.
      * simpl. lia.
      * apply intervals_mid. repeat split; try done; try lia.
        constructor; [simpl; lia|]. eapply above_weaken; [|exact Hap]. lia.
      * lia.
      * constructor; [simpl; lia|done].
      * exists h'. split; [done|]. split; [done|]. intros x. rewrite Hx. unfold kept.
        rewrite in_max_post by done. specialize (Hpe x). specialize (Hpo x). specialize (Hnm x).
        cbn [In]. autorewrite with unixcommons. intuition lia.
Qed.

(** The nodes before the first one that is touched stay. *)
Lemma remove_prefix pre v post low high post' :
  intervals (pre ++ (low, v) :: post) -> low <= high <= MAX ->
  intervals post' -> (forall x, elem post' x <-> kept low high ((low, v) :: post) x) ->
  intervals (pre ++ post') /\
  forall x, elem (pre ++ post') x <-> kept low high (pre ++ (low, v) :: post) x.
Proof.
  intros H Hl Hi Hx. destruct (intervals_around _ _ _ _ H) as [Hpre Hpost].
  pose proof (proj1 (intervals_mid _ _ _ _) H) as (Hip & He & _).
  assert (Hge : forall x, elem post' x -> low <= x).
  { intros x [[?|Hp]%elem_cons _]%Hx; [lia|]. pose proof (elem_above _ _ _ Hp Hpost). lia. }
  split.
  - apply intervals_app. split; [done|]. split; [done|]. eapply Forall_impl; [exact He|].
    intros p Hp. simpl in Hp. apply above_elem; [done|]. intros x Hpx. specialize (Hge x Hpx). lia.
  - intros x. rewrite elem_app, Hx. unfold kept. rewrite elem_app, in_app_iff.
    pose proof (fun Hin => elem_ends_below pre low x Hin He).
    assert (~ In (MAX, MAX) pre).
    { intros Hin. rewrite Forall_forall in Hpre.
      specialize (Hpre _ (proj2 (list_elem_of_In _ _) Hin)). simpl in Hpre. lia. }
    repeat match goal with H : Forall _ _ |- _ => clear H end. intuition lia.
Qed.

Lemma remove_ok low high s :
  intervals (holder_ s) -> MIN <= low <= high -> high <= MAX ->
  exists h', remove MAX low high s = Ret {| holder_ := h'; last_found_ := None |} /\
    intervals h' /\ forall x, elem h' x <-> kept low high (holder_ s) x.
Proof.
  intros H Hl Hh. unfold remove. rewrite (proj2 (Z.ltb_ge high low)) by lia.
  destruct s as [h lf]. cbn [holder_] in *.
  destruct (cut_at h low H) as [Ha|(pre & k & v & post & -> & Hk & Hp)].
  - rewrite start_element_begin by done. cbn [obind].
    destruct (remove_loop_ok h (3 + length h) [] low high) as (h' & E & _ & Hi & Hx); try done.
    + lia.
    + eapply Forall_impl; [exact Ha|]. simpl. lia.
    + cbn [app] in E. rewrite E. by exists h'.
  - rewrite start_element_at by done. cbn [obind].
    destruct (Z.eq_dec k low) as [->|Hne].
    + destruct (intervals_around _ _ _ _ H) as [Hpre Hpost].
      destruct (remove_loop_ok ((low, v) :: post) (3 + length (pre ++ (low, v) :: post)) pre low high)
        as (h' & E & Hge & Hi & Hx); try done.
      * rewrite length_app. lia.
      * constructor; [simpl; lia|]. eapply Forall_impl; [exact Hp|]. simpl. lia.
      * exact (proj1 (proj2 (proj1 (intervals_app _ _) H))).
      * cbn [map_begin head fmap option_fmap option_map fst] in E. rewrite E.
        exists (pre ++ h'). split; [done|]. eapply remove_prefix; [exact H|lia|done..].
    + destruct (remove_loop_first pre k v post (3 + length (pre ++ (k, v) :: post)) low high)
        as (h' & E & Hi & Hx); try done; [rewrite length_app; simpl; lia|lia|].
      rewrite E. by exists h'.
Qed.

(** ** belongs and check_presence *)

(** The invariant of an object: [last_found_] is [end()] or a node. *)
Definition wf (s : CompressedSet) : Prop :=
  intervals (holder_ s) /\
  match last_found_ s with Some k => is_Some (node (holder_ s) k) | None => True end.

Lemma node_In h k v : node h k = Some v -> In (k, v) h.
Proof.
  induction h as [|[a b] h IH]; simpl; [done|]. case_Z; [|auto]. intros [= ->]. left. by subst.
Qed.

Lemma elem_In h k v x : In (k, v) h -> k <= x <= v -> elem h x.
Proof. intros Hin Hx. apply Exists_exists. exists (k, v). split; [by apply list_elem_of_In|done]. Qed.

(** Above a node and below the next one only the node counts. *)
Lemma elem_cut pre k v post x : intervals (pre ++ (k, v) :: post) -> k <= x -> above x post ->
  elem (pre ++ (k, v) :: post) x <-> x <= v.
Proof.
  intros (_ & He & _)%intervals_mid Hk Hp. autorewrite with unixcommons.
  pose proof (fun H => elem_above post x x H Hp).
  pose proof (fun H => elem_ends_below pre k x H He).
  repeat match goal with H : Forall _ _ |- _ => clear H end. intuition lia.
Qed.

Lemma above_not_elem h x y : above x h -> y <= x -> ~ elem h y.
Proof. intros H Hy He. pose proof (elem_above _ _ _ He H). lia. Qed.

Lemma node_at pre k v post : below k pre -> node (pre ++ (k, v) :: post) k = Some v.
Proof.
  intros H. pose proof (second_at k v pre post H) as E. unfold second in E.
  destruct (node _ k); [by injection E as ->|done].
Qed.

Lemma wf_begin h : intervals h -> wf {| holder_ := h; last_found_ := map_begin h |}.
Proof. intros H. split; [done|]. destruct h as [|[k v] h]; [done|]. simpl. rewrite Z.eqb_refl. by exists v. Qed.

Lemma wf_at pre k v post : intervals (pre ++ (k, v) :: post) ->
  wf {| holder_ := pre ++ (k, v) :: post; last_found_ := Some k |}.
Proof.
  intros H. split; [done|]. simpl. destruct (intervals_around _ _ _ _ H) as [Hpre _].
  rewrite node_at by done. by exists v.
Qed.

Lemma belongs_search_ok value h : intervals h ->
  exists b s', belongs_search value h = Ret (b, s') /\
    wf s' /\ holder_ s' = h /\ (b = true <-> elem h value).
Proof.
  intros H. unfold belongs_search.
  destruct (cut_at h value H) as [Ha|(pre & k & v & post & -> & Hk & Hp)].
  - rewrite map_lower_bound_above by done. rewrite bool_decide_eq_false_2.
    2: { intros E. pose proof (map_begin_above _ _ _ Ha E). lia. }
    rewrite bool_decide_eq_true_2 by done. exists false, {| holder_ := h; last_found_ := map_begin h |}.
    split; [done|]. split; [by apply wf_begin|]. split; [done|].
    pose proof (above_not_elem h value value Ha ltac:(lia)). by split.
  - destruct (intervals_around _ _ _ _ H) as [Hpre Hkp].
    pose proof (elem_cut pre k v post value H Hk Hp) as Hx.
    destruct (Z.eq_dec k value) as [->|Hne].
    + rewrite map_lower_bound_here, bool_decide_eq_true_2 by done.
      eexists true, _. split; [done|]. split; [by apply wf_at|]. split; [done|].
      apply intervals_mid in H. rewrite Hx. split; [lia|done].
    + rewrite map_lower_bound_at by (done || lia). rewrite bool_decide_eq_false_2.
      2: { intros E. pose proof (map_begin_above _ _ _ Hp E). lia. }
      rewrite bool_decide_eq_false_2 by eauto using begin_after.
      unfold step_back. rewrite prev_at by done. cbn [obind]. rewrite second_at by done.
      eexists _, _. split; [done|]. split; [by apply wf_at|]. split; [done|].
      by rewrite Hx, Z.leb_le.
Qed.

Lemma belongs_ok value s : wf s ->
  exists b s', belongs value s = Ret (b, s') /\
    wf s' /\ holder_ s' = holder_ s /\ (b = true <-> elem (holder_ s) value).
Proof.
  intros Hw. destruct Hw as [Hi Hl] eqn:E. unfold belongs. clear E.
  destruct (last_found_ s) as [k|]; [|by apply belongs_search_ok].
  destruct Hl as [v Hv]. unfold second. rewrite Hv. cbn [obind].
  case_Z; [|by apply belongs_search_ok]. cbn [obind].
  case_Z; [|by apply belongs_search_ok].
  exists true, s. split; [done|]. split; [done|]. split; [done|].
  split; [|done]. intros _. by eapply elem_In; [apply node_In|].
Qed.

(** What a status says of the values of an interval. *)
Definition status_ok (st : CheckStatus) (low high : Z) (h : Holder) : Prop :=
  match st with
  | CS_NONE => forall x, low <= x <= high -> ~ elem h x
  | CS_ALL => forall x, low <= x <= high -> elem h x
  | CS_SOME => (exists x, low <= x <= high /\ elem h x) /\
               (exists x, low <= x <= high /\ ~ elem h x)
  end.

Lemma status_after pre k v post low high : intervals (pre ++ (k, v) :: post) ->
  k <= low <= high -> above (Z.min high (v + 1)) post -> low <= v ->
  status_ok (if high <=? v then CS_ALL else CS_SOME) low high (pre ++ (k, v) :: post).
Proof.
  intros H Hk Hp Hv.
  assert (Hx : forall x, k <= x <= Z.min high (v + 1) ->
                elem (pre ++ (k, v) :: post) x <-> x <= v).
  { intros x Hx. apply elem_cut; [done|lia|]. eapply above_weaken; [|exact Hp]. lia. }
  case_Z; simpl.
  - intros x Hr. apply Hx; lia.
  - split; [exists low|exists (v + 1)]; rewrite Hx; lia.
Qed.

(** The end of [check_presence]: the node before [low] decides. *)
Lemma status_before pre k v post low high : intervals (pre ++ (k, v) :: post) ->
  k <= low <= high -> above high post ->
  exists st,
    (if v <? low then Ret CS_NONE else Ret (if high <=? v then CS_ALL else CS_SOME)) = Ret st /\
    status_ok st low high (pre ++ (k, v) :: post).
Proof.
  intros H Hk Hp. case_Z.
  - exists CS_NONE. split; [done|]. intros x Hx. rewrite elem_cut; [lia|done|lia|].
    eapply above_weaken; [|exact Hp]. lia.
  - eexists. split; [done|]. apply status_after; [done..| |done].
    eapply above_weaken; [|exact Hp]. lia.
Qed.

Lemma check_presence_ok low high s : intervals (holder_ s) -> low <= high ->
  exists st, check_presence low high s = Ret st /\ status_ok st low high (holder_ s).
Proof.
  intros H Hl. unfold check_presence. rewrite (proj2 (Z.ltb_ge high low)) by lia.
  destruct s as [h lf]. cbn [holder_] in *.
  destruct (cut_at h low H) as [Ha|(pre & k & v & post & -> & Hk & Hp)].
  - rewrite map_lower_bound_above by done.
    rewrite (bool_decide_eq_true_2 (map_begin h = map_begin h)) by done.
    destruct h as [|[k v] t]; cbn.
    + exists CS_NONE. split; [done|]. intros x _ Hx. by apply elem_nil in Hx.
    + pose proof (above_not_elem _ low low Ha ltac:(lia)) as Hn.
      apply Forall_cons in Ha as [Hk Ha]. simpl in Hk, H.
      rewrite (proj2 (Z.eqb_neq k low)) by lia. case_Z.
      * exists CS_SOME. split; [done|]. split; [exists k|exists low]; (split; [lia|]); [|done].
        apply elem_cons. lia.
      * exists CS_NONE. split; [done|]. intros x Hx. apply (above_not_elem _ high); [|lia].
        constructor; [done|]. eapply above_weaken; [|apply H]. lia.
  - destruct (intervals_around _ _ _ _ H) as [Hpre Hkp].
    pose proof (proj1 (intervals_mid _ _ _ _) H) as (_ & _ & Hkv & _ & Hap & Hip).
    destruct (Z.eq_dec k low) as [->|Hne].
    + rewrite map_lower_bound_here, Z.eqb_refl, second_at by done. cbn [obind].
      eexists. split; [done|]. apply status_after; [done|lia| |lia].
      eapply above_weaken; [|exact Hap]. lia.
    + rewrite map_lower_bound_at by (done || lia).
      rewrite bool_decide_eq_false_2 by eauto using begin_after.
      unfold step_back. rewrite prev_at by done. cbn [obind]. rewrite second_at by done.
      cbn [obind].
      destruct post as [|[a b] post]; cbn [map_begin head fmap option_fmap option_map fst].
      * by apply status_before.
      * apply Forall_cons in Hp as [Ha Hp]. simpl in Ha. destruct Hip as (Hab & _ & Hbp & _).
        rewrite (proj2 (Z.eqb_neq a low)) by lia. destruct (Z.leb_spec a high).
        -- exists CS_SOME. split; [done|]. inversion Hap; simpl in *; subst.
           split; [exists a|exists (a - 1)]; (split; [lia|]).
           ++ autorewrite with unixcommons. lia.
           ++ rewrite elem_cut; [lia|done|lia|]. constructor; [simpl; lia|].
              eapply above_weaken; [|exact Hbp]. lia.
        -- apply status_before; [done|lia|]. constructor; [done|].
           eapply above_weaken; [|exact Hbp]. lia.
Qed.

(** ** The specification: a set of integers

    The specification is the simplest implementation, a membership function
    with a loop over every value for [check_presence]. *)

Inductive request : Type :=
| ReqAdd (low high : Z) | ReqRemove (low high : Z)
| ReqAddSet (cset : CompressedSet) | ReqRemoveSet (cset : CompressedSet)
| ReqClear | ReqBelongs (value : Z) | ReqCheck (low high : Z).

Inductive answer : Type := Done | Belongs (b : bool) | Status (st : CheckStatus).

Definition serve (r : request) (s : CompressedSet) : outcome (answer * CompressedSet) :=
  match r with
  | ReqAdd low high => let* s := add MAX low high s in Ret (Done, s)
  | ReqRemove low high => let* s := remove MAX low high s in Ret (Done, s)
  | ReqAddSet cset => let* s := add_set MAX false cset s in Ret (Done, s)
  | ReqRemoveSet cset => let* s := remove_set MAX false cset s in Ret (Done, s)
  | ReqClear => Ret (Done, set_clear s)
  | ReqBelongs value => let* (b, s) := belongs value s in Ret (Belongs b, s)
  | ReqCheck low high => let* st := check_presence low high s in Ret (Status st, s)
  end.

Fixpoint serve_all (rs : list request) (s : CompressedSet) : outcome (list answer * CompressedSet) :=
  match rs with
  | [] => Ret ([], s)
  | r :: rs =>
    let* (a, s) := serve r s in
    let* (l, s) := serve_all rs s in
    Ret (a :: l, s)
  end.

Definition in_interval (low high x : Z) : bool := (low <=? x) && (x <=? high).
Definition covers (h : Holder) (x : Z) : bool := existsb (fun p => in_interval p.1 p.2 x) h.

Definition values (low high : Z) : list Z :=
  map (fun i => low + Z.of_nat i) (seq 0 (Z.to_nat (high - low + 1))).

Definition spec_status (m : Z -> bool) (low high : Z) : CheckStatus :=
  if forallb (fun x => negb (m x)) (values low high) then CS_NONE
  else if forallb m (values low high) then CS_ALL else CS_SOME.

Definition spec_serve (r : request) (m : Z -> bool) : answer * (Z -> bool) :=
  match r with
  | ReqAdd low high => (Done, fun x => in_interval low high x || m x)
  | ReqRemove low high => (Done, fun x => negb (in_interval low high x) && m x)
  | ReqAddSet cset => (Done, fun x => covers (holder_ cset) x || m x)
  | ReqRemoveSet cset => (Done, fun x => negb (covers (holder_ cset) x) && m x)
  | ReqClear => (Done, fun _ => false)
  | ReqBelongs value => (Belongs (m value), m)
  | ReqCheck low high => (Status (spec_status m low high), m)
  end.

Fixpoint spec_serve_all (rs : list request) (m : Z -> bool) : list answer * (Z -> bool) :=
  match rs with
  | [] => ([], m)
  | r :: rs =>
    let (a, m) := spec_serve r m in
    let (l, m) := spec_serve_all rs m in
    (a :: l, m)
  end.

Definition in_type (x : Z) : Prop := MIN <= x <= MAX.

(** The arguments are values of the type; nothing is removed up to [MAX]. *)
Definition allowed (r : request) : Prop :=
  match r with
  | ReqAdd low high | ReqCheck low high => in_type low /\ in_type high
  | ReqRemove low high => in_type low /\ in_type high /\ high < MAX
  | ReqAddSet cset => intervals (holder_ cset)
  | ReqRemoveSet cset => intervals (holder_ cset) /\ Forall (fun p => p.2 < MAX) (holder_ cset)
  | ReqClear => True
  | ReqBelongs value => in_type value
  end.

(** The function a state denotes. *)
Definition denotes (s : CompressedSet) (m : Z -> bool) : Prop :=
  forall x, m x = true <-> elem (holder_ s) x.

Lemma in_interval_spec low high x : in_interval low high x = true <-> low <= x <= high.
Proof. unfold in_interval. rewrite andb_true_iff, !Z.leb_le. done. Qed.

Lemma covers_spec h x : covers h x = true <-> elem h x.
Proof.
  unfold covers, elem. rewrite existsb_exists, Exists_exists. setoid_rewrite in_interval_spec.
  setoid_rewrite list_elem_of_In. done.
Qed.

Lemma values_spec low high x : In x (values low high) <-> low <= x <= high.
Proof.
  unfold values. rewrite in_map_iff. split.
  - intros (i & <- & Hi%in_seq). lia.
  - intros Hx. exists (Z.to_nat (x - low)). split; [lia|]. apply in_seq. lia.
Qed.

Lemma add_denotes low high s m : wf s -> denotes s m -> in_type low -> in_type high ->
  exists s', add MAX low high s = Ret s' /\ wf s' /\
    denotes s' (fun x => in_interval low high x || m x).
Proof.
  intros [Hi Hw] Hm Hl Hh. unfold in_type in *. destruct (Z.ltb_spec high low).
  - exists s. unfold add. rewrite (proj2 (Z.ltb_lt high low)) by done.
    split; [done|]. split; [done|]. intros x. rewrite orb_true_iff, in_interval_spec, (Hm x).
    intuition lia.
  - destruct (add_ok low high s) as (h' & E & Hi' & Hx); [done|lia..|].
    eexists. split; [exact E|]. split; [done|]. intros x. simpl.
    rewrite orb_true_iff, in_interval_spec, (Hm x), Hx. tauto.
Qed.

Lemma remove_denotes low high s m : wf s -> denotes s m -> in_type low -> in_type high ->
  high < MAX ->
  exists s', remove MAX low high s = Ret s' /\ wf s' /\
    denotes s' (fun x => negb (in_interval low high x) && m x).
Proof.
  intros [Hi Hw] Hm Hl Hh Hmax. unfold in_type in *. destruct (Z.ltb_spec high low).
  - exists s. unfold remove. rewrite (proj2 (Z.ltb_lt high low)) by done.
    split; [done|]. split; [done|]. intros x.
    rewrite andb_true_iff, negb_true_iff, <- not_true_iff_false, in_interval_spec, (Hm x).
    intuition lia.
  - destruct (remove_ok low high s) as (h' & E & Hi' & Hx); [done|lia..|].
    eexists. split; [exact E|]. split; [done|]. intros x. simpl.
    rewrite andb_true_iff, negb_true_iff, <- not_true_iff_false, in_interval_spec, (Hm x), Hx.
    unfold kept. intuition lia.
Qed.

#[export] Instance denotes_proper :
  Proper (eq ==> pointwise_relation Z eq ==> iff) denotes.
Proof. intros s ? <- m m' Hm. unfold denotes. by setoid_rewrite Hm. Qed.

Lemma intervals_in_type h k v t : intervals h -> h = (k, v) :: t -> in_type k /\ in_type v.
Proof. intros H ->. simpl in H. unfold in_type. lia. Qed.

Lemma for_each_add h s m : intervals h -> wf s -> denotes s m ->
  exists s', for_each (add MAX) h s = Ret s' /\ wf s' /\ denotes s' (fun x => covers h x || m x).
Proof.
  revert s m. induction h as [|[k v] h IH]; intros s m H Hw Hm; [by exists s|].
  destruct (intervals_in_type _ _ _ _ H eq_refl). simpl.
  destruct (add_denotes k v s m) as (s1 & -> & Hw1 & Hm1); try done. cbn [obind].
  destruct (IH s1 _ (proj2 (proj2 (proj2 H))) Hw1 Hm1) as (s2 & -> & Hw2 & Hm2).
  exists s2. split; [done|]. split; [done|]. eapply denotes_proper; [done| |exact Hm2].
  intros x. simpl. by rewrite orb_assoc, (orb_comm (covers h x)).
Qed.

Lemma for_each_remove h s m : intervals h -> Forall (fun p => p.2 < MAX) h -> wf s -> denotes s m ->
  exists s', for_each (remove MAX) h s = Ret s' /\ wf s' /\
    denotes s' (fun x => negb (covers h x) && m x).
Proof.
  revert s m. induction h as [|[k v] h IH]; intros s m H Hmax Hw Hm; [by exists s|].
  apply Forall_cons in Hmax as [Hv Hmax]. destruct (intervals_in_type _ _ _ _ H eq_refl). simpl.
  destruct (remove_denotes k v s m) as (s1 & -> & Hw1 & Hm1); try done. cbn [obind].
  destruct (IH s1 _ (proj2 (proj2 (proj2 H))) Hmax Hw1 Hm1) as (s2 & -> & Hw2 & Hm2).
  exists s2. split; [done|]. split; [done|]. eapply denotes_proper; [done| |exact Hm2].
  intros x. simpl. by rewrite negb_orb, andb_assoc, (andb_comm (negb (covers h x))).
Qed.

Lemma status_fun st st' low high h : low <= high ->
  status_ok st low high h -> status_ok st' low high h -> st = st'.
Proof.
  intros Hl. destruct st, st'; simpl; try done; intros H1 H2; exfalso.
  - by apply (H1 low); [|apply (H2 low)].
  - destruct H2 as [(x & Hx & He) _]. by apply (H1 x).
  - by apply (H2 low); [|apply (H1 low)].
  - destruct H2 as [_ (x & Hx & He)]. by apply He, H1.
  - destruct H1 as [(x & Hx & He) _]. by apply (H2 x).
  - destruct H1 as [_ (x & Hx & He)]. by apply He, H2.
Qed.

Lemma spec_status_ok m low high s : denotes s m ->
  status_ok (spec_status m low high) low high (holder_ s).
Proof.
  intros Hm. unfold spec_status.
  destruct (forallb (fun x => negb (m x)) (values low high)) eqn:En;
    [|destruct (forallb m (values low high)) eqn:Ea]; simpl.
  - intros x Hx%values_spec Hex%Hm. rewrite forallb_forall in En. specialize (En x Hx).
    by rewrite Hex in En.
  - intros x Hx%values_spec. rewrite forallb_forall in Ea. apply Hm. by apply Ea.
  - apply forallb_false in En as (x & Hx%values_spec & Ex%negb_false_iff).
    apply forallb_false in Ea as (y & Hy%values_spec & Ey).
    split; [exists x|exists y]; (split; [done|]); rewrite <- (Hm _); congruence.
Qed.

Lemma serve_ok r s m : wf s -> denotes s m -> allowed r ->
  exists a s', serve r s = Ret (a, s') /\ a = (spec_serve r m).1 /\ wf s' /\
    denotes s' (spec_serve r m).2.
Proof.
  intros Hw Hm Ha. destruct r as [low high|low high|cset|cset| |value|low high]; simpl in *.
  - destruct (add_denotes low high s m) as (s' & -> & ?); try apply Ha; try done. by exists Done, s'.
  - destruct (remove_denotes low high s m) as (s' & -> & ?); try apply Ha; try done.
    by exists Done, s'.
  - destruct (for_each_add (holder_ cset) s m) as (s' & E & ?); try done.
    unfold add_set. rewrite E. by exists Done, s'.
  - destruct (for_each_remove (holder_ cset) s m) as (s' & E & ?); try apply Ha; try done.
    unfold remove_set. rewrite E. by exists Done, s'.
  - exists Done, (set_clear s). repeat split; try done. intros H%elem_nil. done.
  - destruct (belongs_ok value s Hw) as (b & s' & -> & Hw' & Hh & Hb).
    exists (Belongs b), s'. split; [done|]. split; [|split; [done|]].
    + f_equal. apply eq_true_iff_eq. by rewrite Hb, (Hm value).
    + unfold denotes. by rewrite Hh.
  - destruct (Z.ltb_spec high low).
    + unfold check_presence. rewrite (proj2 (Z.ltb_lt high low)) by done.
      eexists _, s. split; [done|]. split; [|done]. unfold spec_status, values.
      by replace (Z.to_nat (high - low + 1)) with 0%nat by lia.
    + destruct (check_presence_ok low high s) as (st & -> & Hst); [apply Hw|done|].
      eexists _, s. split; [done|]. split; [|done]. f_equal.
      by eapply status_fun; [|exact Hst|apply spec_status_ok].
Qed.

Lemma serve_all_ok rs s m : wf s -> denotes s m -> Forall allowed rs ->
  exists s', serve_all rs s = Ret ((spec_serve_all rs m).1, s') /\ wf s' /\
    denotes s' (spec_serve_all rs m).2.
Proof.
  intros Hw Hm Ha. revert s m Hw Hm. induction Ha as [|r rs Hr _ IH]; intros s m Hw Hm;
    [by exists s|].
  destruct (serve_ok r s m Hw Hm Hr) as (a & s1 & E & Ea & Hw1 & Hm1). simpl. rewrite E.
  cbn [obind]. destruct (spec_serve r m) as [a' m1]. simpl in *. subst a'.
  destruct (IH s1 m1 Hw1 Hm1) as (s2 & -> & Hw2 & Hm2). exists s2.
  destruct (spec_serve_all rs m1). done.
Qed.

(** C3: A [CompressedSet] against a plain set of integers: for every sequence of calls
    with arguments of the integer type in which every removal, of an interval or of
    another set, ends below the greatest integer of the type and no set is removed from
    itself, each call returns, every answer is the one of the specification, and the
    intervals stay ordered and apart.  The calls that are left out are those where the
    code departs from a set. *)
Theorem CompressedSet_refines rs :
  Forall allowed rs ->
  exists s, serve_all rs CompressedSet_init = Ret ((spec_serve_all rs (fun _ => false)).1, s) /\
    wf s /\ denotes s (spec_serve_all rs (fun _ => false)).2.
Proof.
  apply serve_all_ok; [by split|]. intros x. by split; [|intros H%elem_nil].
Qed.

(** [remove] takes exactly the interval [[low, high]] out of the set,
    except that an interval which starts at the greatest integer of the type
    is never removed; and [remove] of the set itself removes nothing. *)
Theorem CompressedSet_remove_max low high s :
  wf s -> in_type low -> in_type high -> low <= high ->
  (exists s', remove MAX low high s = Ret s' /\ wf s' /\
     forall x, elem (holder_ s') x <->
       elem (holder_ s) x /\ (~ low <= x <= high \/ x = MAX /\ In (MAX, MAX) (holder_ s))) /\
  remove_set MAX true s s = Ret s.
Proof.
  intros [Hi _] Hl Hh Hlh. unfold in_type in *. split; [|done].
  destruct (remove_ok low high s) as (h' & E & Hi' & Hx); [done|lia..|].
  eexists. split; [exact E|]. by split.
Qed.

End Proofs.

Lemma CompressedSet_refines_witness :
  let rs := [ReqAdd 3 5; ReqAdd 8 9; ReqAdd 6 7; ReqRemove 4 8; ReqCheck 3 9;
             ReqBelongs 9; ReqAddSet {| holder_ := [(1, 2)]; last_found_ := None |};
             ReqCheck 1 3; ReqBelongs 4; ReqRemoveSet {| holder_ := [(1, 2)]; last_found_ := None |};
             ReqBelongs 2] in
  Forall (allowed 0 255) rs /\
  (spec_serve_all rs (fun _ => false)).1 =
    [Done; Done; Done; Done; Status CS_SOME; Belongs true; Done; Status CS_ALL; Belongs false;
     Done; Belongs false] /\
  exists s, serve_all 255 rs CompressedSet_init = Ret ((spec_serve_all rs (fun _ => false)).1, s) /\
    wf 0 255 s /\ denotes s (spec_serve_all rs (fun _ => false)).2.
Proof.
  intros rs.
  assert (H : Forall (allowed 0 255) rs).
  { repeat constructor; simpl; unfold in_type; try lia; repeat constructor; simpl; lia. }
  split; [exact H|]. split; [reflexivity|]. exact (CompressedSet_refines 0 255 rs H).
Defined.

Lemma CompressedSet_remove_max_witness :
  let s := {| holder_ := [(250, 252); (255, 255)]; last_found_ := None |} in
  remove 255 251 255 s =
    Ret {| holder_ := [(250, 250); (255, 255)]; last_found_ := None |} /\
  (exists s', remove 255 251 255 s = Ret s' /\ wf 0 255 s' /\
     forall x, elem (holder_ s') x <->
       elem (holder_ s) x /\ (~ 251 <= x <= 255 \/ x = 255 /\ In (255, 255) (holder_ s))) /\
  remove_set 255 true s s = Ret s.
Proof.
  intros s. split; [reflexivity|].
  apply (CompressedSet_remove_max 0 255 251 255 s); unfold in_type; try lia.
  split; [|exact I]. simpl. repeat split; try lia; repeat constructor; simpl; lia.
Defined.

(** ** The interface of a set of integers

    What the users of [CompressedSet] rely on: its operations, the invariant of an
    object and the integers it holds. *)
Class IntegerSet (MIN MAX : Z) (S : Type) := {
  is_new : S;
  is_add : Z -> Z -> S -> outcome S;
  is_belongs : Z -> S -> outcome (bool * S);
  is_check_presence : Z -> Z -> S -> outcome CheckStatus
}.

Class IntegerSetLaws (MIN MAX : Z) (S : Type) `{IntegerSet MIN MAX S} := {
  is_valid : S -> Prop;
  is_holds : S -> Z -> Prop;
  is_new_law : is_valid is_new /\ forall x, ~ is_holds is_new x;
  is_add_law : forall low high s, is_valid s -> MIN <= low <= MAX -> MIN <= high <= MAX ->
    exists s', is_add low high s = Ret s' /\ is_valid s' /\
    forall x, is_holds s' x <-> is_holds s x \/ low <= x <= high;
  is_belongs_law : forall x s, is_valid s ->
    exists b s', is_belongs x s = Ret (b, s') /\ is_valid s' /\
    (forall y, is_holds s' y <-> is_holds s y) /\ (b = true <-> is_holds s x);
  is_check_presence_law : forall low high s, is_valid s ->
    exists st, is_check_presence low high s = Ret st /\
    (low <= high ->
      match st with
      | CS_NONE => forall x, low <= x <= high -> ~ is_holds s x
      | CS_ALL => forall x, low <= x <= high -> is_holds s x
      | CS_SOME => True
      end)
}.

#[export] Instance CompressedSet_ops MIN MAX : IntegerSet MIN MAX CompressedSet := {
  is_new := CompressedSet_init;
  is_add := add MAX;
  is_belongs := belongs;
  is_check_presence := check_presence
}.

#[export] Instance CompressedSet_laws MIN MAX : IntegerSetLaws MIN MAX CompressedSet.
Proof.
  apply (Build_IntegerSetLaws MIN MAX CompressedSet _ (wf MIN MAX) (fun s => elem (holder_ s))).
  - split; [done|]. intros x Hx. by apply Exists_nil in Hx.
  - intros low high s [Hi Hw] Hl Hh. destruct (Z.ltb_spec high low).
    + exists s. cbn. unfold add. rewrite (proj2 (Z.ltb_lt high low)) by done. split; [done|]. split; [done|].
      intros x. split; [intros Hx; by left|intros [Hx|Hx]; [exact Hx|lia]].
    + destruct (add_ok MIN MAX low high s Hi ltac:(lia) ltac:(lia)) as (h' & E & Hi' & Hx).
      eexists. split; [exact E|]. split; [done|]. exact Hx.
  - intros x s Hw. destruct (belongs_ok MIN MAX x s Hw) as (b & s' & E & Hw' & Eh & Hb). exists b, s'.
    split; [done|]. split; [done|]. split; [by rewrite Eh|done].
  - intros low high s [Hi Hw]. cbn. destruct (Z.ltb_spec high low).
    + exists CS_NONE. unfold check_presence. rewrite (proj2 (Z.ltb_lt high low)) by done. split; [done|]. lia.
    + destruct (check_presence_ok MIN MAX low high s Hi ltac:(lia)) as (st & E & Hs). exists st. split; [done|].
      intros _. by destruct st.
Defined.
