(* ===== verification/Utf8Category.v ===== *)
(** * Utf8Category: sets of UTF-8 symbols as trees of arcs

    Models [src/String/UTF8Category.cpp] and [.hpp] and the trees of
    [src/String/UTF8NArcTree.hpp].  A symbol is the number its octets spell; the
    set a category is built from is any set of integers that keeps the promises of
    [CompressedSet].  A category is a [Category] of [Tokenizer].

    A string is the list of the octets that may be read from a pointer on. *)
From S2P Require Import Prelude AsciiManip Utf8 CompressedSet Tokenizer.
Local Open Scope Z_scope.
Local Open Scope outcome_scope.
Local Set Warnings "-register-all".

(** ** Trees *)

(** The union [Node]: a null pointer, [&TREE_STOP], an array of 64 nodes, or the
    bits of a leaf. *)
Inductive Node : Type :=
| Null
| Stop
| Children (nodes : list Node)
| Leaf (leaf : Z).

(** [leaf]; a null pointer is a leaf without bits, and another pointer no leaf. *)
Definition leaf_of (n : Node) : outcome Z :=
  match n with
  | Null => Ret 0
  | Leaf leaf => Ret leaf
  | _ => Undef
  end.

(** The loop of [belong] and its end; [str] is what follows the octet before. *)
Fixpoint belong_loop (current_tree : Node) (str : list Z) (depth : Z) : outcome bool :=
  if depth =? 2 then
    match str with
    | [] => Undef
    | ch :: _ =>
      let* leaf := leaf_of current_tree in
      Ret (negb (Z.land leaf (Z.shiftl 1 (Z.land ch 0x3F)) =? 0))
    end
  else
    match current_tree with
    | Null => Ret false
    | Stop => Ret true
    | Leaf _ => Undef
    | Children nodes =>
      match str with
      | [] => Undef
      | ch :: str' =>
        let* current_tree := rd nodes (Z.to_nat (Z.land ch 0x3F)) in
        belong_loop current_tree str' (u64 (depth - 1))
      end
    end.

Definition belong (tree : list Node) (str : list Z) : outcome bool :=
  match str with
  | [] => Undef
  | ch :: str' =>
    let* current_tree := rd tree (Z.to_nat ch) in
    belong_loop current_tree str' (get_octet_count ch)
  end.

(** ** Symbols as numbers *)

Definition UTF8CHAR_MAX : Z := 2 ^ 32 - 1.

Fixpoint read_octets (n : nat) (symbol : list Z) (utf8char : Z) : outcome Z :=
  match n with
  | O => Ret utf8char
  | S n' =>
    match symbol with
    | [] => Undef
    | ch :: symbol' => read_octets n' symbol' (Z.lor (u32 (Z.shiftl utf8char 8)) ch)
    end
  end.

(** The symbol and [*poctets]. *)
Definition get_char (symbol : list Z) : outcome (Z * Z) :=
  let* ch := rd symbol 0 in
  let octets := get_octet_count ch in
  if (octets =? 0) || (4 <? octets) then Ret (UTF8CHAR_MAX, 0)
  else let* utf8char := read_octets (Z.to_nat octets) symbol 0 in Ret (utf8char, octets).

Section Set_.
Context {S : Type} `{IntegerSet 0 UTF8CHAR_MAX S}.

Definition add_symbol (chars : S) (symbol : list Z) : outcome S :=
  let* (ch, _) := get_char symbol in is_add ch ch chars.

Definition add_symbols (chars : S) (first last : list Z) : outcome S :=
  let* (f, _) := get_char first in
  let* (l, _) := get_char last in
  is_add f l chars.

(** ** Construction *)

(** A shift of an [uint32_t]; the hardware takes the count modulo 32. *)
Definition shl32 (x count : Z) : Z := u32 (Z.shiftl x (count mod 32)).

(** [prefix <<= 8; prefix += 0x80;] and the 64 values from there on. *)
Definition first_child (prefix : Z) : Z := u32 (shl32 prefix 8 + 0x80).
Definition children (prefix : Z) : list Z := map (fun i => u32 (first_child prefix + i)) (all_below 64).

Fixpoint check_loop (f : Z -> outcome CheckStatus) (prefixes : list Z) (all none : bool) : outcome CheckStatus :=
  match prefixes with
  | [] => Ret (if none then CS_NONE else CS_ALL)
  | prefix :: prefixes' =>
    let* status := f prefix in
    match status with
    | CS_NONE => if negb none then Ret CS_SOME else check_loop f prefixes' false none
    | CS_ALL => if negb all then Ret CS_SOME else check_loop f prefixes' all false
    | CS_SOME => Ret CS_SOME
    end
  end.

Fixpoint check_interval_ (chars : S) (prefix : Z) (depth_left : nat) : outcome CheckStatus :=
  match depth_left with
  | Datatypes.S depth_left' =>
    let shift := (Z.of_nat depth_left + 1) * 8 in
    let* status := is_check_presence (shl32 prefix shift) (u32 (shl32 (u32 (prefix + 1)) shift - 1)) chars in
    match status with
    | CS_SOME => check_loop (fun prefix => check_interval_ chars prefix depth_left') (children prefix) true true
    | _ => Ret status
    end
  | O => is_check_presence (first_child prefix) (u32 (first_child prefix + 63)) chars
  end.

(** The loop that sets the bits of a leaf. *)
Fixpoint leaf_loop (values : list Z) (flag leaf : Z) (chars : S) : outcome (Z * S) :=
  match values with
  | [] => Ret (leaf, chars)
  | x :: values' =>
    let* (b, chars) := is_belongs x chars in
    leaf_loop values' (u64 (Z.shiftl flag 1)) (if b : bool then Z.lor leaf flag else leaf) chars
  end.

Fixpoint init_nodes (f : Z -> S -> outcome (Node * S)) (prefixes : list Z) (chars : S) : outcome (list Node * S) :=
  match prefixes with
  | [] => Ret ([], chars)
  | prefix :: prefixes' =>
    let* (node, chars) := f prefix chars in
    let* (nodes, chars) := init_nodes f prefixes' chars in
    Ret (node :: nodes, chars)
  end.

Fixpoint init_interval_ (depth_left : nat) (prefix : Z) (chars : S) : outcome (Node * S) :=
  match depth_left with
  | Datatypes.S depth_left' =>
    let* status := check_interval_ chars prefix depth_left in
    match status with
    | CS_NONE => Ret (Null, chars)
    | CS_ALL => Ret (Stop, chars)
    | CS_SOME =>
      let* (nodes, chars) := init_nodes (init_interval_ depth_left') (children prefix) chars in
      Ret (Children nodes, chars)
    end
  | O =>
    let* status := is_check_presence (first_child prefix) (u32 (first_child prefix + 63)) chars in
    match status with
    | CS_NONE => Ret (Leaf 0, chars)
    | CS_ALL => Ret (Leaf (2 ^ 64 - 1), chars)
    | CS_SOME => let* (leaf, chars) := leaf_loop (children prefix) 1 0 chars in Ret (Leaf leaf, chars)
    end
  end.

(** The node of the first octet [i]. *)
Definition init_node (i : Z) (chars : S) : outcome (Node * S) :=
  let depth := get_octet_count i in
  if depth =? 0 then Ret (Null, chars)
  else if depth =? 1 then
    let* (b, chars) := is_belongs i chars in
    Ret (if b : bool then Stop else Null, chars)
  else init_interval_ (Z.to_nat (depth - 2)) i chars.

Record Utf8Category : Type := { nodes_ : list Node }.

(** [init_] and the constructor from a set *)
Definition Utf8Category_of_set (chars : S) : outcome Utf8Category :=
  let* (nodes, _) := init_nodes init_node (all_below 256) chars in Ret {| nodes_ := nodes |}.

(** The loop of the constructor from a string, which includes its terminator. *)
Fixpoint symbols_loop (fuel : nat) (symbols : list Z) (last : Z) (advanced : bool) (chars : S) : outcome S :=
  match fuel with
  | O => Undef
  | Datatypes.S fuel' =>
    let* ch := rd symbols 0 in
    if ch =? 0 then Ret chars
    else
      let* (cur, octets) := get_char symbols in
      if octets =? 0 then Throw (InvalidArgument "non UTF-8 symbol in argument")
      else
        let symbols := drop (Z.to_nat octets) symbols in
        if advanced then
          let* chars := is_add last cur chars in
          symbols_loop fuel' symbols last false chars
        else
          let* dash :=
            if cur =? "-"%uchar then let* ch := rd symbols 0 in Ret (negb (ch =? 0) && negb (last =? 0))
            else Ret false in
          if dash : bool then symbols_loop fuel' symbols last true chars
          else
            let* chars := is_add cur cur chars in
            symbols_loop fuel' symbols cur false chars
  end.

Definition Utf8Category_of_str (symbols : list Z) (check_zero : bool) : outcome Utf8Category :=
  let* chars := if check_zero then is_add 0 0 is_new else Ret is_new in
  let* chars := symbols_loop (Datatypes.S (length symbols)) (symbols ++ [0]) 0 false chars in
  Utf8Category_of_set chars.
End Set_.

(** ** Searches *)

Definition utf8_is_owned (category : Utf8Category) (str : list Z) : outcome bool := belong (nodes_ category) str.

(** The search in [begin, end) for a symbol that is owned or not as [want] says. *)
Fixpoint find_loop (fuel : nat) (want : bool) (category : Utf8Category) (begin : list Z)
  : outcome (option (list Z * nat)) :=
  match begin with
  | [] => Ret (Some ([], O))
  | ch :: _ =>
    match fuel with
    | O => Undef
    | S fuel' =>
      let octets_count := get_octet_count ch in
      if octets_count =? 0 then Ret None
      else if Z.of_nat (length begin) <? octets_count then Ret None
      else
        let* owned := utf8_is_owned category begin in
        if Bool.eqb owned want then Ret (Some (begin, Z.to_nat octets_count))
        else find_loop fuel' want category (drop (Z.to_nat octets_count) begin)
    end
  end.

Definition utf8_find_owned (category : Utf8Category) (begin : list Z) : outcome (option (list Z * nat)) :=
  find_loop (length begin) true category begin.
Definition utf8_find_nonowned (category : Utf8Category) (begin : list Z) : outcome (option (list Z * nat)) :=
  find_loop (length begin) false category begin.

(** [for (size_t i = 1; i < octets_count; i++)]: is there a zero? *)
Fixpoint ends_early (str : list Z) (i n : nat) : outcome bool :=
  match n with
  | O => Ret false
  | S n' => let* ch := rd str i in if ch =? 0 then Ret true else ends_early str (S i) n'
  end.

(** The search in a zero-terminated string. *)
Fixpoint find_cstr_loop (fuel : nat) (want : bool) (category : Utf8Category) (str : list Z)
  : outcome (option (list Z * nat)) :=
  match fuel with
  | O => Undef
  | S fuel' =>
    let* ch := rd str 0 in
    let octets_count := get_octet_count ch in
    if octets_count =? 0 then Ret None
    else
      let* short := ends_early str 1 (Z.to_nat octets_count - 1) in
      if short : bool then Ret None
      else
        let* owned := utf8_is_owned category str in
        if Bool.eqb owned want then Ret (Some (str, Z.to_nat octets_count))
        else if ch =? 0 then Ret None
        else find_cstr_loop fuel' want category (drop (Z.to_nat octets_count) str)
  end.

Definition utf8_find_owned_cstr (category : Utf8Category) (str : list Z) : outcome (option (list Z * nat)) :=
  find_cstr_loop (length str) true category str.
Definition utf8_find_nonowned_cstr (category : Utf8Category) (str : list Z) : outcome (option (list Z * nat)) :=
  find_cstr_loop (length str) false category str.

(** The search backwards in [start, pos): the offset from [start] of the symbol and
    its length, or that of [pos]. *)
Fixpoint rfind_loop (want : bool) (category : Utf8Category) (text : list Z) (current last_review : nat)
  : outcome (option (nat * nat)) :=
  match current with
  | O => Ret (Some (length text, O))
  | S current =>
    let* ch := rd text current in
    if negb (Z.land ch 0xC0 =? 0x80) then
      let current_range := (last_review - current)%nat in
      if negb (get_octet_count ch =? Z.of_nat current_range) then Ret None
      else
        let* owned := utf8_is_owned category (drop current text) in
        if Bool.eqb owned want then Ret (Some (current, current_range))
        else rfind_loop want category text current current
    else rfind_loop want category text current last_review
  end.

Definition utf8_rfind_owned (category : Utf8Category) (text : list Z) : outcome (option (nat * nat)) :=
  rfind_loop true category text (length text) (length text).
Definition utf8_rfind_nonowned (category : Utf8Category) (text : list Z) : outcome (option (nat * nat)) :=
  rfind_loop false category text (length text) (length text).

#[export] Instance Utf8Category_category : Category Utf8Category := {
  cat_find_owned := utf8_find_owned;
  cat_find_nonowned := utf8_find_nonowned
}.

(** ** The shape of the trees *)

(** A node [d] arcs above a leaf. *)
Fixpoint shaped (d : nat) (n : Node) : Prop :=
  match d with
  | O => exists leaf, n = Leaf leaf
  | S d' => n = Null \/ n = Stop \/ exists l, n = Children l /\ length l = 64%nat /\ Forall (shaped d') l
  end.

Lemma land63 ch : Z.land ch 0x3F = ch mod 64.
Proof. apply (Z.land_ones ch 6). lia. Qed.

Lemma shaped_child d l ch : length l = 64%nat -> Forall (shaped d) l ->
  exists n, rd l (Z.to_nat (Z.land ch 0x3F)) = Ret n /\ shaped d n.
Proof.
  intros Hl Hf. rewrite land63. pose proof (Z.mod_pos_bound ch 64 ltac:(lia)) as Hb. unfold rd.
  destruct (l !! Z.to_nat (ch mod 64)) as [n|] eqn:E; [|apply lookup_ge_None in E; lia].
  exists n. split; [done|]. by apply (proj1 (Forall_lookup _ _) Hf _ _ E).
Qed.

Lemma belong_loop_safe d : (d <= 4)%nat -> forall n str, shaped d n -> (d < length str)%nat ->
  exists b, belong_loop n str (Z.of_nat d + 2) = Ret b.
Proof.
  induction d as [|d IH]; intros Hd n [|ch str] Hs Hl; try (cbn in Hl; lia).
  - destruct Hs as [leaf ->]. cbn. by eexists.
  - cbn [belong_loop]. rewrite (proj2 (Z.eqb_neq _ _)) by lia.
    destruct Hs as [->|[->|(l & -> & Hn & Hf)]]; [by eexists..|].
    destruct (shaped_child d l ch Hn Hf) as (n' & -> & Hs'). cbn [obind].
    replace (u64 (Z.of_nat (S d) + 2 - 1)) with (Z.of_nat d + 2) by (unfold u64; rewrite Z.mod_small; lia).
    apply IH; [lia|done|cbn in Hl; lia].
Qed.

(** A tree as [init_] builds it. *)
Definition tree_shaped (nodes : list Node) : Prop :=
  length nodes = 256%nat /\
  forall i n, nodes !! i = Some n ->
    let depth := get_octet_count (Z.of_nat i) in
    if depth =? 0 then n = Null
    else if depth =? 1 then n = Null \/ n = Stop
    else shaped (Z.to_nat (depth - 2)) n.

Lemma octet_count_range ch : is_byte ch -> 0 <= get_octet_count ch <= 6.
Proof. intros Hb. rewrite get_octet_count_val by done. repeat case_Z; lia. Qed.

Lemma octet_count_index ch : get_octet_count ch = get_octet_count (Z.of_nat (Z.to_nat ch)).
Proof. unfold get_octet_count, tab. by rewrite Nat2Z.id. Qed.

Lemma octet_count_byte ch : get_octet_count ch <> 0 -> (Z.to_nat ch < 256)%nat.
Proof.
  intros Hc. destruct (Nat.lt_ge_cases (Z.to_nat ch) 256) as [|Hge]; [done|]. exfalso. apply Hc.
  unfold get_octet_count, tab. apply nth_overflow. done.
Qed.

(** Looking a symbol up reads no octet after it. *)
Lemma belong_safe nodes ch str : tree_shaped nodes -> get_octet_count ch <> 0 ->
  get_octet_count ch <= Z.of_nat (length (ch :: str)) -> exists b, belong nodes (ch :: str) = Ret b.
Proof.
  intros [Hl Hn] Hne Hc. pose proof (octet_count_byte ch Hne) as Hch. unfold belong, rd.
  destruct (nodes !! Z.to_nat ch) as [n|] eqn:E; [|apply lookup_ge_None in E; lia].
  cbn [obind]. specialize (Hn _ _ E). cbn zeta in Hn. rewrite <- octet_count_index in Hn.
  assert (Hr : 0 <= get_octet_count ch <= 6)
    by (rewrite octet_count_index; apply octet_count_range; unfold is_byte; lia).
  set (depth := get_octet_count ch) in *. clearbody depth. rewrite (proj2 (Z.eqb_neq _ _) Hne) in Hn.
  destruct (Z.eqb_spec depth 1) as [E1|Hn1]; [rewrite E1; destruct Hn as [-> | ->]; by destruct str; eexists|].
  destruct (belong_loop_safe (Z.to_nat (depth - 2)) ltac:(lia) n str Hn) as (b & Eb); [cbn [length] in Hc; lia|].
  exists b. rewrite <- Eb. f_equal. lia.
Qed.

(** ** The sets the trees hold *)

Definition cont (c : Z) : Prop := 0x80 <= c < 0xC0.

(** The number that octets spell after [p]. *)
Definition spell (p : Z) (cs : list Z) : Z := fold_left (fun v c => v * 256 + c) cs p.

Lemma spell_bounds cs : Forall is_byte cs -> forall p,
  p * 256 ^ Z.of_nat (length cs) <= spell p cs < (p + 1) * 256 ^ Z.of_nat (length cs).
Proof.
  induction 1 as [|c cs Hc _ IH]; intros p.
  - change (256 ^ Z.of_nat (length [])) with 1. cbn [spell fold_left]. lia.
  - change (spell p (c :: cs)) with (spell (p * 256 + c) cs). specialize (IH (p * 256 + c)).
    cbn [length]. rewrite Nat2Z.inj_succ, Z.pow_succ_r by lia. unfold is_byte in Hc.
    pose proof (Z.pow_pos_nonneg 256 (Z.of_nat (length cs)) ltac:(lia) ltac:(lia)). nia.
Qed.

Lemma cont_byte c : cont c -> is_byte c.
Proof. unfold cont, is_byte. lia. Qed.

Lemma conts_bytes cs : Forall cont cs -> Forall is_byte cs.
Proof. intros Hc. eapply Forall_impl; [exact Hc|]. exact cont_byte. Qed.

Lemma land_bit a i : 0 <= i -> negb (Z.land a (Z.shiftl 1 i) =? 0) = Z.testbit a i.
Proof.
  intros Hi. rewrite Z.shiftl_1_l. destruct (Z.testbit a i) eqn:E.
  - destruct (Z.eqb_spec (Z.land a (2 ^ i)) 0) as [E0|]; [|done]. exfalso.
    assert (Hb : Z.testbit (Z.land a (2 ^ i)) i = true) by (rewrite Z.land_spec, Z.pow2_bits_true, E by done; done).
    rewrite E0, Z.bits_0 in Hb. done.
  - rewrite (proj2 (Z.eqb_eq _ _)); [done|]. apply Z.bits_inj'. intros j Hj. rewrite Z.land_spec, Z.bits_0.
    destruct (Z.eq_dec j i) as [->|Hne]; [by rewrite E|]. rewrite Z.pow2_bits_false by done. apply andb_false_r.
Qed.

(** The children of a prefix that leaves room for them. *)
Lemma shl32_small x k : 0 <= x -> 0 <= k < 32 -> x * 2 ^ k < 2 ^ 32 -> shl32 x k = x * 2 ^ k.
Proof.
  intros Hx Hk Hs. unfold shl32. rewrite (Z.mod_small k 32), Z.shiftl_mul_pow2 by lia.
  apply Z.mod_small. nia.
Qed.

Lemma first_child_small p : 0 <= p -> (p + 1) * 256 <= 2 ^ 32 -> first_child p = p * 256 + 0x80.
Proof.
  intros Hp Hs. unfold first_child. rewrite shl32_small by lia. change (2 ^ 8) with 256. apply Z.mod_small. lia.
Qed.

Lemma children_small p : 0 <= p -> (p + 1) * 256 <= 2 ^ 32 ->
  children p = map (fun i => p * 256 + 0x80 + i) (all_below 64).
Proof.
  intros Hp Hs. unfold children. rewrite first_child_small by done. apply map_ext_in. intros i Hi.
  unfold all_below in Hi. apply in_map_iff in Hi as (j & <- & Hj%in_seq). apply Z.mod_small. lia.
Qed.

Lemma children_lookup p c : 0 <= p -> (p + 1) * 256 <= 2 ^ 32 -> cont c ->
  children p !! Z.to_nat (Z.land c 0x3F) = Some (p * 256 + c).
Proof.
  intros Hp Hs Hc. rewrite children_small, land63 by done. unfold cont in Hc.
  replace (c mod 64) with (c - 128) by zlia. unfold all_below. rewrite !list_lookup_fmap.
  rewrite lookup_seq_lt by lia. cbn. f_equal. lia.
Qed.

Lemma children_in p x : 0 <= p -> (p + 1) * 256 <= 2 ^ 32 -> In x (children p) ->
  exists c, cont c /\ x = p * 256 + c.
Proof.
  intros Hp Hs Hx. rewrite children_small in Hx by done. apply in_map_iff in Hx as (i & <- & Hi).
  unfold all_below in Hi. apply in_map_iff in Hi as (j & <- & Hj%in_seq). exists (0x80 + Z.of_nat j).
  unfold cont. lia.
Qed.

Lemma children_length p : length (children p) = 64%nat.
Proof. unfold children. by rewrite length_map. Qed.

Section Sets.
Context {S : Type} `{IntegerSetLaws 0 UTF8CHAR_MAX S} (holds : Z -> Prop).

(** A state of the set, which [belongs] changes, that holds the same integers. *)
Definition good (s : S) : Prop := is_valid s /\ forall x, is_holds s x <-> holds x.

Definition status_says (st : CheckStatus) (P : Z -> Prop) : Prop :=
  match st with
  | CS_NONE => forall x, P x -> ~ holds x
  | CS_ALL => forall x, P x -> holds x
  | CS_SOME => True
  end.

Lemma check_presence_good s low high : good s ->
  exists st, is_check_presence low high s = Ret st /\ (low <= high -> status_says st (fun x => low <= x <= high)).
Proof using All.
  intros [Hv Hh]. destruct (is_check_presence_law low high s Hv) as (st & E & Hs). exists st. split; [done|].
  intros Hl. specialize (Hs Hl). destruct st; cbn in *; [|..|done]; intros x Hx; rewrite <- Hh; by apply Hs.
Qed.

Lemma belongs_good s x : good s -> exists b s', is_belongs x s = Ret (b, s') /\ good s' /\ (b = true <-> holds x).
Proof using All.
  intros [Hv Hh]. destruct (is_belongs_law x s Hv) as (b & s' & E & Hv' & Hs & Hb). exists b, s'. split; [done|].
  split; [|by rewrite Hb, Hh]. split; [done|]. intros y. by rewrite Hs.
Qed.

Lemma status_weaken st (P Q : Z -> Prop) : (forall x, Q x -> P x) -> status_says st P -> status_says st Q.
Proof using. intros HPQ. destruct st; cbn; auto. Qed.

Lemma check_loop_ok (f : Z -> outcome CheckStatus) (P : Z -> Z -> Prop) ps : forall all none,
  (forall p, In p ps -> exists st, f p = Ret st /\ status_says st (P p)) -> all || none = true ->
  exists st, check_loop f ps all none = Ret st /\
  (st = CS_NONE -> none = true) /\ (st = CS_ALL -> all = true) /\
  (ps <> [] \/ True -> status_says st (fun x => exists p, In p ps /\ P p x)).
Proof using.
  induction ps as [|p ps IH]; intros all none Hf Han; cbn [check_loop].
  { exists (if none then CS_NONE else CS_ALL). split; [done|]. destruct none; cbn.
    - split; [done|]. split; [done|]. intros _ x (p & [] & _).
    - rewrite orb_false_r in Han. split; [done|]. split; [done|]. intros _ x (p & [] & _). }
  destruct (Hf p (or_introl eq_refl)) as (st & -> & Hst). cbn [obind].
  assert (Hf' : forall p', In p' ps -> exists st, f p' = Ret st /\ status_says st (P p')) by (intros; apply Hf; by right).
  destruct st.
  - destruct none; cbn [negb]; [|by exists CS_SOME].
    destruct (IH false true Hf' eq_refl) as (st & -> & H1 & H2 & H3). exists st. split; [done|]. split; [done|].
    split; [intros E; by specialize (H2 E)|]. intros _. specialize (H3 (or_intror I)). destruct st; cbn in *; [|by specialize (H2 eq_refl)|done].
    intros x (p' & [<-|Hin] & Hx); [by apply Hst|]. apply H3. by exists p'.
  - destruct all; cbn [negb]; [|by exists CS_SOME].
    destruct (IH true false Hf' eq_refl) as (st & -> & H1 & H2 & H3). exists st. split; [done|].
    split; [intros E; by specialize (H1 E)|]. split; [done|]. intros _. specialize (H3 (or_intror I)).
    destruct st; cbn in *; [by specialize (H1 eq_refl)| |done].
    intros x (p' & [<-|Hin] & Hx); [by apply Hst|]. apply H3. by exists p'.
  - by exists CS_SOME.
Qed.

(** The symbols under a prefix. *)
Definition under (d : nat) (p x : Z) : Prop := exists cs, length cs = Datatypes.S d /\ Forall cont cs /\ x = spell p cs.

Lemma check_interval_total s d : good s -> forall p, exists st, check_interval_ s p d = Ret st.
Proof using All.
  intros Hg. induction d as [|d IH]; intros p; cbn [check_interval_].
  - destruct (check_presence_good s (first_child p) (u32 (first_child p + 63)) Hg) as (st & E & _). by exists st.
  - destruct (check_presence_good s (shl32 p ((Z.of_nat (Datatypes.S d) + 1) * 8))
      (u32 (shl32 (u32 (p + 1)) ((Z.of_nat (Datatypes.S d) + 1) * 8) - 1)) Hg) as (st & -> & _). cbn [obind].
    destruct st; [by eexists..|].
    destruct (check_loop_ok (fun p => check_interval_ s p d) (fun _ _ => False) (children p) true true) as (st & E & _);
      [|done|by exists st].
    intros p' _. destruct (IH p') as (st & ->). exists st. split; [done|]. by destruct st; cbn; [intros x []..|].
Qed.

Lemma check_interval_ok s d : good s -> (d <= 2)%nat -> forall p, 0 <= p -> (p + 1) * 256 ^ (Z.of_nat d + 1) < 2 ^ 32 ->
  exists st, check_interval_ s p d = Ret st /\ status_says st (under d p).
Proof using All.
  intros Hg. induction d as [|d IH]; intros Hd p Hp Hs; cbn [check_interval_].
  - change (256 ^ (Z.of_nat 0 + 1)) with 256 in Hs. rewrite first_child_small by lia.
    replace (u32 (p * 256 + 128 + 63)) with (p * 256 + 191) by (unfold u32; rewrite Z.mod_small; lia).
    destruct (check_presence_good s (p * 256 + 128) (p * 256 + 191) Hg) as (st & E & Hst). exists st. split; [done|].
    eapply status_weaken; [|apply Hst; lia]. intros x (cs & Hl & Hc & ->). destruct cs as [|c [|]]; try done.
    apply Forall_cons in Hc as [Hc _]. unfold cont in Hc. cbn. lia.
  - replace ((Z.of_nat (Datatypes.S d) + 1) * 8) with (8 * (Z.of_nat d + 2)) by lia.
    replace (Z.of_nat (Datatypes.S d) + 1) with (Z.of_nat d + 2) in Hs by lia.
    assert (Ep : 2 ^ (8 * (Z.of_nat d + 2)) = 256 ^ (Z.of_nat d + 2)) by (rewrite Z.pow_mul_r by lia; done).
    set (w := 256 ^ (Z.of_nat d + 2)) in *.
    assert (Hw : 256 ^ 2 <= w) by (apply Z.pow_le_mono_r; lia). change (256 ^ 2) with 65536 in Hw.
    assert (Hp1 : u32 (p + 1) = p + 1) by (apply Z.mod_small; nia).
    rewrite Hp1, !shl32_small by (rewrite ?Ep; nia). rewrite !Ep.
    replace (u32 ((p + 1) * w - 1)) with ((p + 1) * w - 1) by (unfold u32; rewrite Z.mod_small; nia).
    destruct (check_presence_good s (p * w) ((p + 1) * w - 1) Hg) as (st & -> & Hst). cbn [obind].
    assert (Hst' : status_says st (under (Datatypes.S d) p)).
    { eapply status_weaken; [|apply Hst; nia]. intros x (cs & Hl & Hc & ->).
      pose proof (spell_bounds cs (conts_bytes cs Hc) p) as Hb. rewrite Hl in Hb.
      replace (Z.of_nat (Datatypes.S (Datatypes.S d))) with (Z.of_nat d + 2) in Hb by lia. fold w in Hb. lia. }
    destruct st; [by eexists..|]. clear Hst Hst'.
    assert (Hw' : w = 256 * 256 ^ (Z.of_nat d + 1)) by (unfold w; rewrite <- Z.pow_succ_r by lia; f_equal; lia).
    assert (Hpos : 0 < 256 ^ (Z.of_nat d + 1)) by (apply Z.pow_pos_nonneg; lia).
    destruct (check_loop_ok (fun p => check_interval_ s p d) (under d) (children p) true true) as (st & E & _ & _ & Hst).
    { intros x Hx. apply children_in in Hx as (c & Hc & ->); [|lia|nia]. apply IH; [lia|unfold cont in Hc; lia|].
      unfold cont in Hc. nia. }
    { done. }
    exists st. split; [done|]. eapply status_weaken; [|apply Hst; by right]. intros x (cs & Hl & Hc & ->).
    destruct cs as [|c cs]; [done|]. apply Forall_cons in Hc as [Hc Hcs]. exists (p * 256 + c). split.
    + eapply list_elem_of_In, list_elem_of_lookup_2, (children_lookup p c); [lia|nia|done].
    + exists cs. split; [by injection Hl|]. by split.
Qed.

Lemma leaf_loop_ok vs : forall k leaf s, good s -> 0 <= k -> k + Z.of_nat (length vs) <= 64 ->
  exists leaf' s', leaf_loop vs (u64 (2 ^ k)) leaf s = Ret (leaf', s') /\ good s' /\
  (forall j, 0 <= j < k -> Z.testbit leaf' j = Z.testbit leaf j) /\
  (forall j v, vs !! j = Some v -> (forall i, k <= i -> Z.testbit leaf i = false) ->
    (Z.testbit leaf' (k + Z.of_nat j) = true <-> holds v)).
Proof using All.
  induction vs as [|v vs IH]; intros k leaf s Hg Hk Hl; cbn [leaf_loop].
  { exists leaf, s. split; [done|]. split; [done|]. split; [done|]. intros j v Hj. by rewrite lookup_nil in Hj. }
  destruct (belongs_good s v Hg) as (b & s1 & -> & Hg1 & Hb). cbn [obind length] in *.
  assert (Hk64 : 2 ^ k < 2 ^ 64) by (apply Z.pow_lt_mono_r; lia).
  assert (E1 : u64 (2 ^ k) = 2 ^ k) by (apply Z.mod_small; lia).
  assert (E2 : u64 (Z.shiftl (u64 (2 ^ k)) 1) = u64 (2 ^ (k + 1)))
    by (rewrite E1, Z.shiftl_mul_pow2, Z.pow_add_r by lia; done).
  rewrite E2, E1. set (leaf1 := if b then Z.lor leaf (2 ^ k) else leaf).
  assert (Hl1 : forall j, 0 <= j -> Z.testbit leaf1 j = Z.testbit leaf j || (b && (j =? k))).
  { intros j Hj. unfold leaf1. destruct b; cbn [andb]; [|by rewrite orb_false_r].
    rewrite Z.lor_spec, Z.pow2_bits_eqb by lia. by rewrite (Z.eqb_sym k j). }
  destruct (IH (k + 1) leaf1 s1 Hg1 ltac:(lia) ltac:(lia)) as (leaf' & s' & -> & Hg' & Hlow & Hhigh).
  exists leaf', s'. split; [done|]. split; [done|]. split.
  - intros j Hj. rewrite Hlow, Hl1 by lia. rewrite (proj2 (Z.eqb_neq j k)) by lia. by rewrite andb_false_r, orb_false_r.
  - intros [|j] x Hx Hz.
    + injection Hx as <-. rewrite Z.add_0_r, Hlow, Hl1, Hz, Z.eqb_refl by lia. by rewrite andb_true_r.
    + replace (k + Z.of_nat (Datatypes.S j)) with (k + 1 + Z.of_nat j) by lia. apply Hhigh; [done|].
      intros i Hi. rewrite Hl1, Hz by lia. rewrite (proj2 (Z.eqb_neq i k)) by lia. by rewrite andb_false_r.
Qed.

Lemma init_nodes_ok (f : Z -> S -> outcome (Node * S)) (P : Z -> Node -> Prop) ps :
  (forall p s, In p ps -> good s -> exists n s', f p s = Ret (n, s') /\ good s' /\ P p n) -> forall s, good s ->
  exists ns s', init_nodes f ps s = Ret (ns, s') /\ good s' /\ Forall2 P ps ns.
Proof using.
  induction ps as [|p ps IH]; intros Hf s Hg; cbn [init_nodes]; [by exists [], s|].
  destruct (Hf p s (or_introl eq_refl) Hg) as (n & s1 & -> & Hg1 & Hn). cbn [obind].
  destruct (IH (fun p s Hin => Hf p s (or_intror Hin)) s1 Hg1) as (ns & s2 & -> & Hg2 & Hns). cbn [obind].
  exists (n :: ns), s2. split; [done|]. split; [done|]. by constructor.
Qed.

(** The node of a prefix holds the symbols under it. *)
Definition node_holds (d : nat) (p : Z) (n : Node) : Prop :=
  forall cs rest, length cs = Datatypes.S d -> Forall cont cs ->
  exists b, belong_loop n (cs ++ rest) (Z.of_nat d + 2) = Ret b /\ (b = true <-> holds (spell p cs)).

Definition node_ok (d : nat) (p : Z) (n : Node) : Prop :=
  shaped d n /\
  ((d <= 2)%nat -> 0 <= p -> (p + 1) * 256 ^ (Z.of_nat d + 1) < 2 ^ 32 -> node_holds d p n).

Lemma leaf_holds p leaf : (forall c, cont c -> Z.testbit leaf (c - 128) = true <-> holds (p * 256 + c)) ->
  node_holds O p (Leaf leaf).
Proof using.
  intros Hl cs rest Hlen Hc. destruct cs as [|c [|]]; try done. apply Forall_cons in Hc as [Hc _]. cbn [app].
  cbn [belong_loop leaf_of obind]. eexists. split; [done|]. rewrite land63. unfold cont in Hc.
  replace (c mod 64) with (c - 128) by zlia. rewrite land_bit by lia. by apply Hl.
Qed.

Lemma null_holds d p : status_says CS_NONE (under (Datatypes.S d) p) -> node_holds (Datatypes.S d) p Null.
Proof using.
  intros Hst cs rest Hl Hc. exists false. split.
  - destruct (cs ++ rest); cbn [belong_loop]; by rewrite (proj2 (Z.eqb_neq _ _)) by lia.
  - split; [done|]. intros Hx. exfalso. apply (Hst (spell p cs)); [|done]. by exists cs.
Qed.

Lemma stop_holds d p : status_says CS_ALL (under (Datatypes.S d) p) -> node_holds (Datatypes.S d) p Stop.
Proof using.
  intros Hst cs rest Hl Hc. exists true. split.
  - destruct (cs ++ rest); cbn [belong_loop]; by rewrite (proj2 (Z.eqb_neq _ _)) by lia.
  - split; [|done]. intros _. apply Hst. by exists cs.
Qed.

Lemma children_hold d p ns : Forall2 (node_ok d) (children p) ns -> node_ok (Datatypes.S d) p (Children ns).
Proof using.
  intros Hns. pose proof (Forall2_length _ _ _ Hns) as Hl. rewrite children_length in Hl. split.
  - right. right. exists ns. split; [done|]. split; [done|]. apply Forall_lookup. intros i n Hi.
    destruct (Forall2_lookup_r _ _ _ _ _ Hns Hi) as (x & _ & Hx & _). exact Hx.
  - intros Hd Hp Hs cs rest Hlc Hc. destruct cs as [|c cs]; [done|]. apply Forall_cons in Hc as [Hc Hcs].
    rewrite Nat2Z.inj_succ in Hs.
    assert (Hpow : 256 ^ (Z.succ (Z.of_nat d) + 1) = 256 * 256 ^ (Z.of_nat d + 1))
      by (rewrite <- Z.pow_succ_r by lia; f_equal; lia).
    assert (Hpos : 1 <= 256 ^ (Z.of_nat d + 1)) by (apply Z.lt_pred_le, Z.pow_pos_nonneg; lia).
    pose proof (children_lookup p c Hp ltac:(nia) Hc) as Hlk.
    destruct (Forall2_lookup_l _ _ _ _ _ Hns Hlk) as (n & Hn & _ & Hh). cbn [app belong_loop].
    rewrite (proj2 (Z.eqb_neq _ _)) by lia. unfold rd. rewrite Hn. cbn [obind].
    replace (u64 (Z.of_nat (Datatypes.S d) + 2 - 1)) with (Z.of_nat d + 2) by (unfold u64; rewrite Z.mod_small; lia).
    apply (Hh ltac:(lia) ltac:(unfold cont in Hc; lia) ltac:(unfold cont in Hc; nia) cs rest); [by injection Hlc|done].
Qed.

Lemma init_interval_ok d : forall p s, good s ->
  exists n s', init_interval_ d p s = Ret (n, s') /\ good s' /\ node_ok d p n.
Proof using All.
  induction d as [|d IH]; intros p s Hg; cbn [init_interval_].
  - destruct (check_presence_good s (first_child p) (u32 (first_child p + 63)) Hg) as (st & -> & Hst). cbn [obind].
    assert (Hsmall : 0 <= p -> (p + 1) * 256 ^ (Z.of_nat 0 + 1) < 2 ^ 32 ->
      status_says st (fun x => p * 256 + 128 <= x <= p * 256 + 191)).
    { intros Hp Hs. change (256 ^ (Z.of_nat 0 + 1)) with 256 in Hs. rewrite first_child_small in Hst by lia.
      replace (u32 (p * 256 + 128 + 63)) with (p * 256 + 191) in Hst by (unfold u32; rewrite Z.mod_small; lia).
      apply Hst. lia. }
    destruct st.
    + exists (Leaf 0), s. split; [done|]. split; [done|]. split; [by eexists|]. intros _ Hp Hs. apply leaf_holds.
      intros c Hc. rewrite Z.bits_0. split; [done|]. intros Hx. exfalso. unfold cont in Hc. apply (Hsmall Hp Hs (p * 256 + c)); [lia|done].
    + exists (Leaf (2 ^ 64 - 1)), s. split; [done|]. split; [done|]. split; [by eexists|]. intros _ Hp Hs. apply leaf_holds.
      intros c Hc. unfold cont in Hc. change (2 ^ 64 - 1) with (Z.ones 64). rewrite Z.ones_spec_low by lia.
      split; [|done]. intros _. apply (Hsmall Hp Hs). lia.
    + destruct (leaf_loop_ok (children p) 0 0 s Hg ltac:(lia)) as (leaf & s' & E & Hg' & _ & Hb);
        [rewrite children_length; lia|]. change (u64 (2 ^ 0)) with 1 in E. rewrite E. cbn [obind].
      exists (Leaf leaf), s'. split; [done|]. split; [done|]. split; [by eexists|]. intros _ Hp Hs. apply leaf_holds.
      intros c Hc. change (256 ^ (Z.of_nat 0 + 1)) with 256 in Hs.
      pose proof (children_lookup p c Hp ltac:(lia) Hc) as Hlk. rewrite land63 in Hlk. unfold cont in Hc.
      replace (c mod 64) with (c - 128) in Hlk by zlia. specialize (Hb _ _ Hlk).
      rewrite Z.add_0_l, Z2Nat.id in Hb by lia. apply Hb. intros i _. apply Z.bits_0.
  - destruct (check_interval_total s (Datatypes.S d) Hg p) as (st & Est). rewrite Est. cbn [obind].
    assert (Hsmall : (Datatypes.S d <= 2)%nat -> 0 <= p -> (p + 1) * 256 ^ (Z.of_nat (Datatypes.S d) + 1) < 2 ^ 32 ->
      status_says st (under (Datatypes.S d) p)).
    { intros Hd Hp Hs. destruct (check_interval_ok s (Datatypes.S d) Hg Hd p Hp Hs) as (st' & E & Hst). congruence. }
    destruct st.
    + exists Null, s. split; [done|]. split; [done|]. split; [by left|]. intros Hd Hp Hs. by apply null_holds, Hsmall.
    + exists Stop, s. split; [done|]. split; [done|]. split; [by right; left|]. intros Hd Hp Hs. by apply stop_holds, Hsmall.
    + destruct (init_nodes_ok (init_interval_ d) (node_ok d) (children p) (fun p s _ => IH p s) s Hg)
        as (ns & s' & -> & Hg' & Hns). cbn [obind]. exists (Children ns), s'. split; [done|]. split; [done|].
      by apply children_hold.
Qed.

(** The node of a first octet. *)
Definition start_ok (i : Z) (n : Node) : Prop :=
  let depth := get_octet_count i in
  (if depth =? 0 then n = Null
   else if depth =? 1 then n = Null \/ n = Stop
   else shaped (Z.to_nat (depth - 2)) n) /\
  (depth = 1 -> forall rest, exists b, belong_loop n rest 1 = Ret b /\ (b = true <-> holds i)) /\
  (2 <= depth <= 4 -> node_holds (Z.to_nat (depth - 2)) i n).

Lemma init_node_ok i s : is_byte i -> good s -> exists n s', init_node i s = Ret (n, s') /\ good s' /\ start_ok i n.
Proof using All.
  intros Hi Hg. unfold init_node, start_ok. pose proof (octet_count_range i Hi) as Hr.
  assert (H4 : get_octet_count i = 4 -> i < 248) by (rewrite get_octet_count_val by done; repeat case_Z; lia).
  destruct (Z.eqb_spec (get_octet_count i) 0) as [E0|Hn0].
  { exists Null, s. split; [done|]. split; [done|]. split; [done|]. split; intros; lia. }
  destruct (Z.eqb_spec (get_octet_count i) 1) as [E1|Hn1].
  { destruct (belongs_good s i Hg) as (b & s' & -> & Hg' & Hb). cbn [obind]. exists (if b then Stop else Null), s'.
    split; [done|]. split; [done|]. split; [destruct b; auto|]. split; [|lia].
    intros _ rest. exists b. split; [by destruct b, rest|done]. }
  destruct (init_interval_ok (Z.to_nat (get_octet_count i - 2)) i s Hg) as (n & s' & -> & Hg' & Hsh & Hn).
  exists n, s'. split; [done|]. split; [done|]. split; [done|]. split; [lia|]. intros Hd. unfold is_byte in Hi.
  apply Hn; [lia|lia|]. replace (Z.of_nat (Z.to_nat (get_octet_count i - 2)) + 1) with (get_octet_count i - 1) by lia.
  assert (E : get_octet_count i = 2 \/ get_octet_count i = 3 \/ get_octet_count i = 4) by lia.
  destruct E as [E|[E|E]]; rewrite E; cbn; [lia..|]. specialize (H4 E). lia.
Qed.

Definition octets_ok (seq : list Z) : Prop := utf8_char seq /\ bytes_ok seq /\ (length seq <= 4)%nat.

Lemma is_cont_cont c : is_byte c -> is_cont c -> cont c.
Proof using.
  intros Hb Hc. unfold is_cont in Hc. assert (E : negb (Z.land c 0xC0 =? 0x80) || (128 <=? c) && (c <? 192) = true) by byte_eval c.
  rewrite (proj2 (Z.eqb_eq _ _) Hc) in E. cbn in E. unfold cont. apply andb_true_iff in E as [?%Z.leb_le ?%Z.ltb_lt]. lia.
Qed.

Lemma octets_conts h t : octets_ok (h :: t) ->
  is_byte h /\ get_octet_count h = Z.of_nat (length t) + 1 /\ Forall cont t /\ (length t <= 3)%nat.
Proof using.
  intros ([Hc Ht] & Hb & Hl). apply Forall_cons in Hb as [Hh Hb]. split; [done|]. cbn [length] in *. split; [lia|].
  split; [|lia]. apply Forall_forall. intros c Hin. rewrite Forall_forall in Ht, Hb. apply is_cont_cont; auto.
Qed.

(** The category of a set of symbols. *)
Lemma category_of_set_ok s : good s ->
  exists cat, Utf8Category_of_set s = Ret cat /\ tree_shaped (nodes_ cat) /\
  forall seq rest, octets_ok seq ->
  exists b, utf8_is_owned cat (seq ++ rest) = Ret b /\ (b = true <-> holds (spell 0 seq)).
Proof using All.
  intros Hg. unfold Utf8Category_of_set.
  destruct (init_nodes_ok init_node start_ok (all_below 256)) with (s := s) as (ns & s' & -> & Hg' & Hns); [|done|].
  { intros i s1 Hi Hg1. apply init_node_ok; [|done]. unfold all_below in Hi.
    apply in_map_iff in Hi as (j & <- & Hj%in_seq). unfold is_byte. lia. }
  cbn [obind]. exists {| nodes_ := ns |}. split; [done|].
  assert (Hlk : forall h, is_byte h -> exists n, rd ns (Z.to_nat h) = Ret n /\ start_ok h n).
  { intros h Hh. unfold is_byte in Hh. assert (Ha : all_below 256 !! Z.to_nat h = Some h).
    { unfold all_below. rewrite list_lookup_fmap, lookup_seq_lt by lia. cbn. f_equal. lia. }
    destruct (Forall2_lookup_l _ _ _ _ _ Hns Ha) as (n & Hn & Hs). exists n. unfold rd. by rewrite Hn. }
  split.
  - pose proof (Forall2_length _ _ _ Hns) as Hl. unfold all_below in Hl. rewrite length_map, length_seq in Hl.
    split; [by cbn|]. cbn [nodes_]. intros i n Hi. pose proof (lookup_lt_Some _ _ _ Hi) as Hlt.
    destruct (Hlk (Z.of_nat i)) as (n' & E & Hs & _); [unfold is_byte; lia|]. unfold rd in E.
    rewrite Nat2Z.id, Hi in E. injection E as <-. exact Hs.
  - intros seq rest Hq. destruct seq as [|h t]; [by destruct Hq as [[] _]|].
    destruct (octets_conts h t Hq) as (Hh & Ec & Ht & Hl).
    destruct (Hlk h Hh) as (n & E & _ & H1 & H2). unfold utf8_is_owned, belong. cbn [app nodes_]. rewrite E. cbn [obind].
    change (spell 0 (h :: t)) with (spell h t). destruct t as [|c t].
    + assert (E1 : get_octet_count h = 1) by (cbn [length] in Ec; lia). rewrite E1. destruct (H1 E1 rest) as (b & Eb & Hb). exists b. by split.
    + cbn [length] in *. destruct (H2 ltac:(lia) (c :: t) rest) as (b & Eb & Hb); [cbn [length]; lia|done|]. exists b.
      split; [|done]. rewrite <- Eb. f_equal. lia.
Qed.
End Sets.

(** ** Categories keep the promises of [Tokenizer] *)

Record ShapedCategory : Type := { category : Utf8Category; category_shaped : tree_shaped (nodes_ category) }.

#[export] Instance ShapedCategory_category : Category ShapedCategory := {
  cat_find_owned := fun c => cat_find_owned (category c);
  cat_find_nonowned := fun c => cat_find_nonowned (category c)
}.

#[export] Instance ShapedCategory_symbols : CategorySymbols ShapedCategory := {
  symbol_length := fun c s =>
    match s with
    | [] => None
    | ch :: _ =>
      let n := get_octet_count ch in
      if (n =? 0) || (Z.of_nat (length s) <? n) then None else Some (Z.to_nat n)
    end;
  owns := fun c s => match utf8_is_owned (category c) s with Ret b => b | _ => false end
}.

Lemma symbol_length_spec (c : ShapedCategory) ch s n : symbol_length c (ch :: s) = Some n ->
  get_octet_count ch <> 0 /\ get_octet_count ch = Z.of_nat n /\ (1 <= n <= S (length s))%nat /\
  utf8_is_owned (category c) (ch :: s) = Ret (owns c (ch :: s)).
Proof.
  cbn -[get_octet_count Z.of_nat utf8_is_owned]. destruct (Z.eqb_spec (get_octet_count ch) 0) as [|Hne]; [done|].
  destruct (Z.ltb_spec (Z.of_nat (S (length s))) (get_octet_count ch)) as [|Hle]; [done|]. cbn [orb]. intros [= <-].
  assert (Hr : 0 <= get_octet_count ch)
    by (rewrite octet_count_index; apply octet_count_range; pose proof (octet_count_byte ch Hne); unfold is_byte; lia).
  split; [done|]. split; [lia|]. split; [lia|].
  destruct (belong_safe _ ch s (category_shaped c) Hne) as (b & Eb); [cbn [length]; lia|].
  unfold utf8_is_owned. by rewrite Eb.
Qed.

Lemma find_loop_law (c : ShapedCategory) want s L b : reads c s L b -> forall fuel, (length s <= fuel)%nat ->
  exists r, find_loop fuel want (category c) s = Ret r /\ found_at c want s L b r.
Proof.
  induction 1 as [|ch s E|y s L b Hy Ey HR IH]; intros fuel Hf.
  - exists (Some ([], O)). split; [by destruct fuel|]. by exists [], [].
  - exists None. destruct fuel as [|fuel]; [cbn in Hf; lia|]. split; [|by exists [], []].
    cbn [find_loop]. cbn -[get_octet_count Z.of_nat] in E. cbn [length].
    destruct (get_octet_count ch =? 0); [done|]. by destruct (_ <? _).
  - destruct y as [|ch y]; [done|]. destruct fuel as [|fuel]; [cbn in Hf; lia|].
    cbn [app] in *. pose proof (symbol_length_spec c ch (y ++ s) _ Ey) as (Hne & En & Hn & Eo).
    cbn [find_loop]. rewrite (proj2 (Z.eqb_neq _ _) Hne), En.
    rewrite (proj2 (Z.ltb_ge _ _)) by (cbn [length]; rewrite length_app; lia). rewrite Eo, Nat2Z.id. cbn [obind].
    destruct (Bool.eqb (owns c (ch :: y ++ s)) want) eqn:Ew.
    + eexists. split; [done|]. apply (found_here c want (ch :: y)); [by apply eqb_prop|].
      exact (reads_symbol c (ch :: y) s L b Hy Ey HR).
    + cbn [length drop]. rewrite drop_app_length.
      destruct (IH fuel) as (r & -> & Hr); [cbn in Hf; rewrite length_app in Hf; lia|]. exists r. split; [done|].
      apply (found_further c want (ch :: y)); [|done]. apply eqb_false_iff in Ew. by destruct (owns c _), want.
Qed.

#[export] Instance ShapedCategory_laws : CategoryLaws ShapedCategory.
Proof.
  split.
  - intros c ch s n E. by apply (symbol_length_spec c ch s n E).
  - intros c s L b HR. exact (find_loop_law c true s L b HR (length s) (le_n _)).
  - intros c s L b HR. exact (find_loop_law c false s L b HR (length s) (le_n _)).
Qed.

(** ** Categories from strings *)

Lemma read_octets_ok seq rest : bytes_ok seq -> forall v, 0 <= v -> (v + 1) * 256 ^ Z.of_nat (length seq) <= 2 ^ 32 ->
  read_octets (length seq) (seq ++ rest) v = Ret (spell v seq).
Proof.
  induction 1 as [|c seq Hc _ IH]; intros v Hv Hs; [done|]. cbn [length app read_octets]. unfold is_byte in Hc.
  cbn [length] in Hs. rewrite Nat2Z.inj_succ, Z.pow_succ_r in Hs by lia.
  pose proof (Z.pow_pos_nonneg 256 (Z.of_nat (length seq)) ltac:(lia) ltac:(lia)) as Hpos.
  rewrite Z.shiftl_mul_pow2 by lia. change (2 ^ 8) with 256.
  replace (u32 (v * 256)) with (v * 256) by (unfold u32; rewrite Z.mod_small; nia).
  change 256 with (2 ^ 8) at 1. rewrite lor_add by lia. change (2 ^ 8) with 256.
  rewrite IH; [done|lia|nia].
Qed.

Lemma get_char_ok seq rest : octets_ok seq ->
  get_char (seq ++ rest) = Ret (spell 0 seq, Z.of_nat (length seq)).
Proof.
  intros Hq. destruct seq as [|h t]; [by destruct Hq as [[] _]|]. destruct (octets_conts h t Hq) as (Hh & Ec & Ht & Hl).
  unfold get_char. cbn [app rd lookup list_lookup obind]. rewrite Ec.
  rewrite (proj2 (Z.eqb_neq _ _)), (proj2 (Z.ltb_ge _ _)) by lia. cbn [orb].
  replace (Z.to_nat (Z.of_nat (length t) + 1)) with (length (h :: t)) by (cbn [length]; lia).
  change (h :: t ++ rest) with ((h :: t) ++ rest). rewrite read_octets_ok; [|apply Hq|lia|].
  - cbn [obind]. do 3 f_equal. cbn [length]. lia.
  - cbn [length]. rewrite Z.mul_1_l. change (2 ^ 32) with (256 ^ 4). apply Z.pow_le_mono_r; lia.
Qed.

Lemma spell_range seq : octets_ok seq -> 0 <= spell 0 seq <= UTF8CHAR_MAX.
Proof.
  intros (Hc & Hb & Hl). pose proof (spell_bounds seq Hb 0) as Hs. unfold UTF8CHAR_MAX.
  assert (256 ^ Z.of_nat (length seq) <= 256 ^ 4) by (apply Z.pow_le_mono_r; lia).
  change (256 ^ 4) with (2 ^ 32) in *. lia.
Qed.

(** The intervals that the symbols of the constructor's argument denote: a dash with
    a symbol before and one after it makes a range, whose lower end stays the one
    of the next range. *)
Fixpoint symbol_spans (last : Z) (advanced : bool) (vals : list Z) : list (Z * Z) :=
  match vals with
  | [] => []
  | cur :: vals' =>
    if advanced then (last, cur) :: symbol_spans last false vals'
    else if (cur =? "-"%uchar) && negb (match vals' with [] => true | _ => false end) && negb (last =? 0)
    then symbol_spans last true vals'
    else (cur, cur) :: symbol_spans cur false vals'
  end.

Definition in_spans (spans : list (Z * Z)) (x : Z) : Prop := Exists (fun p => p.1 <= x <= p.2) spans.

(** A symbol of a zero-terminated string. *)
Definition symbol_ok (seq : list Z) : Prop := octets_ok seq /\ hd 0 seq <> 0.

Section Strings.
Context {S : Type} `{IntegerSetLaws 0 UTF8CHAR_MAX S}.

Lemma next_symbol seqs : Forall symbol_ok seqs ->
  exists ch, rd (concat seqs ++ [0]) 0 = Ret ch /\
  (ch =? 0) = (match map (spell 0) seqs with [] => true | _ => false end).
Proof using.
  intros Hs. destruct Hs as [|seq seqs [Hq Hh] _]; [by exists 0|]. destruct seq as [|h t]; [done|].
  exists h. split; [done|]. cbn in *. by apply Z.eqb_neq.
Qed.

Lemma symbols_loop_ok seqs : Forall symbol_ok seqs -> forall fuel last advanced s,
  (length (concat seqs) < fuel)%nat -> is_valid s -> 0 <= last <= UTF8CHAR_MAX ->
  exists s', symbols_loop fuel (concat seqs ++ [0]) last advanced s = Ret s' /\ is_valid s' /\
  forall x, is_holds s' x <-> is_holds s x \/ in_spans (symbol_spans last advanced (map (spell 0) seqs)) x.
Proof using All.
  induction 1 as [|seq seqs [Hq Hh] Hs IH]; intros fuel last advanced s Hf Hv Hl;
    (destruct fuel as [|fuel]; [cbn in Hf; lia|]); cbn [symbols_loop].
  { exists s. split; [done|]. split; [done|]. intros x. split; [by left|]. intros [?|Hx]; [done|].
    by apply Exists_nil in Hx. }
  destruct seq as [|h t] eqn:Eseq; [done|]. rewrite <- Eseq in *. cbn [concat map].
  rewrite <- app_assoc. replace (rd (seq ++ concat seqs ++ [0]) 0) with (Ret h) by (by rewrite Eseq). cbn [obind].
  rewrite Eseq in Hh. cbn in Hh. rewrite (proj2 (Z.eqb_neq h 0) Hh), (get_char_ok seq _ Hq). cbn [obind].
  assert (Hlen : (0 < length seq)%nat) by (rewrite Eseq; cbn; lia).
  rewrite (proj2 (Z.eqb_neq _ 0)) by lia. rewrite Nat2Z.id, drop_app_length.
  pose proof (spell_range seq Hq) as Hr. set (cur := spell 0 seq) in *.
  assert (Hf' : (length (concat seqs) < fuel)%nat) by (cbn [concat] in Hf; rewrite length_app in Hf; lia).
  cbn [symbol_spans]. destruct advanced.
  - destruct (is_add_law last cur s Hv Hl Hr) as (s1 & -> & Hv1 & Hx1). cbn [obind].
    destruct (IH fuel last false s1 Hf' Hv1 Hl) as (s' & -> & Hv' & Hx'). exists s'. split; [done|]. split; [done|].
    intros x. rewrite Hx', Hx1. unfold in_spans. rewrite Exists_cons. cbn. tauto.
  - assert (Ed : (if cur =? "-"%uchar then
        let* ch := rd (concat seqs ++ [0]) 0 in Ret (negb (ch =? 0) && negb (last =? 0)) else Ret false) =
      Ret ((cur =? "-"%uchar) && negb (match map (spell 0) seqs with [] => true | _ => false end) && negb (last =? 0))).
    { destruct (cur =? "-"%uchar); [|done]. destruct (next_symbol seqs Hs) as (ch & -> & E0). cbn [obind].
      by rewrite E0. }
    rewrite Ed. cbn [obind]. clear Ed. destruct ((cur =? "-"%uchar) && _ && _).
    + apply (IH fuel last true s Hf' Hv Hl).
    + destruct (is_add_law cur cur s Hv Hr Hr) as (s1 & -> & Hv1 & Hx1). cbn [obind].
      destruct (IH fuel cur false s1 Hf' Hv1 Hr) as (s' & -> & Hv' & Hx'). exists s'. split; [done|]. split; [done|].
      intros x. rewrite Hx', Hx1. unfold in_spans. rewrite Exists_cons. cbn. tauto.
Qed.
End Strings.

(** ** The backward search *)

Section Backwards.
Context (cat : Utf8Category) (own : list Z -> bool).
Hypothesis Hown : forall seq rest, octets_ok seq -> utf8_is_owned cat (seq ++ rest) = Ret (own seq).

(** The octets after the first one are passed. *)
Lemma rfind_conts want lr pre t : Forall cont t -> forall after,
  rfind_loop want cat (pre ++ t ++ after) (length pre + length t) lr =
  rfind_loop want cat (pre ++ t ++ after) (length pre) lr.
Proof using.
  intros Ht. induction t as [|c t IH] using rev_ind; intros after; [by rewrite Nat.add_0_r|].
  apply Forall_app in Ht as [Ht Hc]. apply Forall_cons in Hc as [Hc _].
  replace (length pre + length (t ++ [c]))%nat with (S (length (pre ++ t))) by (rewrite !length_app; cbn; lia).
  replace (pre ++ (t ++ [c]) ++ after) with ((pre ++ t) ++ c :: after) by (by rewrite <- !app_assoc).
  cbn [rfind_loop]. rewrite rd_at. cbn [obind].
  assert (E : (Z.land c 0xC0 =? 0x80) = true).
  { unfold cont in Hc. assert (E : negb ((128 <=? c) && (c <? 192)) || (Z.land c 0xC0 =? 0x80) = true)
      by (apply (forall_below 256 (fun c => negb ((128 <=? c) && (c <? 192)) || (Z.land c 0xC0 =? 0x80))); [vm_compute; reflexivity|lia]).
    by rewrite (proj2 (Z.leb_le _ _)), (proj2 (Z.ltb_lt _ _)) in E by lia. }
  rewrite E. cbn [negb]. rewrite length_app, <- app_assoc. apply (IH Ht (c :: after)).
Qed.

(** A symbol is looked at. *)
Lemma rfind_symbol want pre seq after : octets_ok seq ->
  let text := pre ++ seq ++ after in
  rfind_loop want cat text (length pre + length seq) (length pre + length seq) =
  if Bool.eqb (own seq) want then Ret (Some (length pre, length seq))
  else rfind_loop want cat text (length pre) (length pre).
Proof using Hown.
  intros Hq. destruct seq as [|h t]; [by destruct Hq as [[] _]|]. cbn zeta.
  destruct (octets_conts h t Hq) as (Hh & Ec & Ht & Hl).
  replace (pre ++ (h :: t) ++ after) with ((pre ++ [h]) ++ t ++ after) by (by rewrite <- app_assoc).
  replace (length pre + length (h :: t))%nat with (length (pre ++ [h]) + length t)%nat at 1
    by (rewrite length_app; cbn; lia).
  rewrite rfind_conts by done. replace (length (pre ++ [h])) with (S (length pre)) by (rewrite length_app; cbn; lia).
  replace ((pre ++ [h]) ++ t ++ after) with (pre ++ h :: t ++ after) by (by rewrite <- app_assoc).
  cbn [rfind_loop]. rewrite rd_at. cbn [obind].
  assert (Eh : (Z.land h 0xC0 =? 0x80) = false).
  { assert (E : (get_octet_count h =? 0) || negb (Z.land h 0xC0 =? 0x80) = true) by byte_eval h.
    rewrite (proj2 (Z.eqb_neq _ _)) in E by lia. by destruct (Z.land h 0xC0 =? 0x80). }
  rewrite Eh. cbn [negb]. replace (length pre + length (h :: t) - length pre)%nat with (length (h :: t)) by lia.
  rewrite (proj2 (Z.eqb_eq _ _)) by (rewrite Ec; cbn [length]; lia). cbn [negb].
  rewrite drop_app_length. change (h :: t ++ after) with ((h :: t) ++ after). rewrite Hown by done. done.
Qed.

(** The last symbol of a text that is owned or not as [want] says, or its end. *)
Fixpoint last_symbol (want : bool) (rev_seqs : list (list Z)) (end_ : nat) : nat * nat :=
  match rev_seqs with
  | [] => (end_, O)
  | seq :: rev_seqs' =>
    if Bool.eqb (own seq) want then (length (concat (reverse rev_seqs')), length seq)
    else last_symbol want rev_seqs' end_
  end.

Lemma rfind_ok want rs : Forall octets_ok rs -> forall after,
  let text := concat (reverse rs) ++ after in
  rfind_loop want cat text (length (concat (reverse rs))) (length (concat (reverse rs))) =
  Ret (Some (last_symbol want rs (length text))).
Proof using Hown.
  induction 1 as [|seq rs Hq Hs IH]; intros after; [done|]. cbn zeta.
  rewrite reverse_cons, concat_app. cbn [concat last_symbol]. rewrite app_nil_r, length_app, <- app_assoc.
  rewrite rfind_symbol by done. destruct (Bool.eqb (own seq) want); [done|]. apply (IH (seq ++ after)).
Qed.
End Backwards.

(** ** The correctness of a category *)

(** Whether a category made from the symbols [seqs] owns the symbol [seq]. *)
Definition owned_by (seqs : list (list Z)) (check_zero : bool) (seq : list Z) : bool :=
  covers ((if check_zero then [(0, 0)] else []) ++ symbol_spans 0 false (map (spell 0) seqs)) (spell 0 seq).

Lemma reads_symbols (c : ShapedCategory) own ts : Forall octets_ok ts ->
  (forall seq rest, octets_ok seq -> utf8_is_owned (category c) (seq ++ rest) = Ret (own seq)) ->
  reads c (concat ts) (map (fun seq => (seq, own seq)) ts) true.
Proof.
  intros Ht Ho. induction Ht as [|seq ts Hq _ IH]; [constructor|]. cbn [concat map].
  assert (Eo : owns c (seq ++ concat ts) = own seq)
    by (cbn -[utf8_is_owned]; by rewrite (Ho seq (concat ts) Hq)).
  rewrite <- Eo. destruct seq as [|h t]; [by destruct Hq as [[] _]|]. constructor; [done| |done].
  destruct (octets_conts h t Hq) as (_ & Ec & _ & _). cbn -[get_octet_count Z.of_nat]. rewrite Ec.
  rewrite (proj2 (Z.eqb_neq _ _)), (proj2 (Z.ltb_ge _ _)) by (rewrite ?length_app; lia). cbn [orb]. f_equal. lia.
Qed.

(** C15: A category built from a set of symbols owns exactly the symbols of the set:
    for every sequence of up to four octets the lookup in the tree finds what the set
    holds, whatever follows the sequence.  The set may be any that keeps the promises
    of [CompressedSet]. *)
Theorem Utf8Category_set {S} `{IntegerSetLaws 0 UTF8CHAR_MAX S} (s : S) : is_valid s ->
  exists cat, Utf8Category_of_set s = Ret cat /\ tree_shaped (nodes_ cat) /\
  forall seq rest, octets_ok seq ->
  get_char (seq ++ rest) = Ret (spell 0 seq, Z.of_nat (length seq)) /\
  exists b, utf8_is_owned cat (seq ++ rest) = Ret b /\ (b = true <-> is_holds s (spell 0 seq)).
Proof.
  intros Hv. destruct (category_of_set_ok (is_holds s) s) as (cat & E & Hs & Ho); [by split|]. exists cat.
  split; [done|]. split; [done|]. intros seq rest Hq. split; [by apply get_char_ok|by apply Ho].
Qed.

(** The constructor from a string of symbols and ranges, with the tree it builds:
    [is_owned] tells whether a symbol is in one of the ranges, the backward searches
    find the last symbol of a text that is owned or not, and splitting a text with the
    category gives the texts between the owned symbols. *)
Theorem Utf8Category_symbols seqs check_zero : Forall symbol_ok seqs ->
  exists cat, Utf8Category_of_str (S := CompressedSet) (concat seqs) check_zero = Ret cat /\
  exists Hs : tree_shaped (nodes_ cat),
  (forall seq rest, octets_ok seq -> utf8_is_owned cat (seq ++ rest) = Ret (owned_by seqs check_zero seq)) /\
  (forall ts, Forall octets_ok ts ->
    let own := owned_by seqs check_zero in
    utf8_rfind_owned cat (concat ts) = Ret (Some (last_symbol own true (reverse ts) (length (concat ts)))) /\
    utf8_rfind_nonowned cat (concat ts) = Ret (Some (last_symbol own false (reverse ts) (length (concat ts)))) /\
    forall EMPTY, split {| category := cat; category_shaped := Hs |} EMPTY (concat ts) =
      Ret (tokens_of EMPTY true (groups (map (fun seq => (seq, own seq)) ts)), false)).
Proof.
  intros Hseqs. unfold Utf8Category_of_str.
  set (zero := if check_zero then [(0, 0)] else [] : list (Z * Z)).
  assert (Hz : exists s : CompressedSet, (if check_zero then is_add (MIN := 0) (MAX := UTF8CHAR_MAX) 0 0 (is_new (MIN := 0) (MAX := UTF8CHAR_MAX)) else Ret (is_new (MIN := 0) (MAX := UTF8CHAR_MAX))) = Ret s /\ is_valid (MIN := 0) (MAX := UTF8CHAR_MAX) s /\
    forall x, is_holds (MIN := 0) (MAX := UTF8CHAR_MAX) s x <-> in_spans zero x).
  { destruct (is_new_law (MIN := 0) (MAX := UTF8CHAR_MAX) (S := CompressedSet)) as [Hv Hn]. unfold zero, in_spans. destruct check_zero.
    - destruct (is_add_law (MIN := 0) (MAX := UTF8CHAR_MAX) 0 0 _ Hv) as (s & E & Hv' & Hx); [unfold UTF8CHAR_MAX; lia..|]. exists s. split; [done|].
      split; [done|]. intros x. rewrite Hx, Exists_cons, Exists_nil. cbn. specialize (Hn x). tauto.
    - exists (is_new (MIN := 0) (MAX := UTF8CHAR_MAX)). split; [done|]. split; [done|]. intros x. rewrite Exists_nil. specialize (Hn x). tauto. }
  destruct Hz as (s0 & -> & Hv0 & Hx0). cbn [obind].
  destruct (symbols_loop_ok seqs Hseqs (S (length (concat seqs))) 0 false s0) as (s & -> & Hv & Hx);
    [lia|done|unfold UTF8CHAR_MAX; lia|]. cbn [obind].
  destruct (category_of_set_ok (is_holds (MIN := 0) (MAX := UTF8CHAR_MAX) s) s) as (cat & -> & Hs & Ho); [by split|]. exists cat. split; [done|]. exists Hs.
  assert (Hown : forall seq rest, octets_ok seq -> utf8_is_owned cat (seq ++ rest) = Ret (owned_by seqs check_zero seq)).
  { intros seq rest Hq. destruct (Ho seq rest Hq) as (b & -> & Hb). f_equal. apply eq_iff_eq_true.
    rewrite Hb, Hx, Hx0. unfold owned_by. rewrite covers_spec. unfold elem, in_spans. fold zero.
    by rewrite Exists_app. }
  split; [done|]. intros ts Hts. set (own := owned_by seqs check_zero) in *.
  assert (Hr : forall want, rfind_loop want cat (concat ts) (length (concat ts)) (length (concat ts)) =
    Ret (Some (last_symbol own want (reverse ts) (length (concat ts))))).
  { intros want. pose proof (rfind_ok cat own Hown want (reverse ts)) as H'. specialize (H' ltac:(by apply Forall_reverse) []).
    rewrite reverse_involutive, app_nil_r in H'. exact H'. }
  split; [apply Hr|]. split; [apply Hr|]. intros EMPTY. set (c := {| category := cat; category_shaped := Hs |}).
  by rewrite (split_reads c EMPTY _ _ _ (reads_symbols c own ts Hts Hown)).
Qed.

(** ** Witnesses and edge cases *)

Lemma sample_octets seq : (match seq with [] => false | h :: t => (get_octet_count h =? Z.of_nat (length seq)) &&
    forallb (fun ch => Z.land ch 0xC0 =? 0x80) t end) && forallb (fun ch => (0 <=? ch) && (ch <? 256)) seq &&
  (length seq <=? 4)%nat && negb (hd 0 seq =? 0) = true -> symbol_ok seq.
Proof.
  intros (((H1 & H2)%andb_true_iff & H3%Nat.leb_le)%andb_true_iff & H4)%andb_true_iff.
  split; [split; [|split; [|done]]|].
  - destruct seq as [|h t]; [done|]. apply andb_true_iff in H1 as [E%Z.eqb_eq Ht]. split; [done|].
    rewrite forallb_forall in Ht. apply List.Forall_forall. intros ch Hin. specialize (Ht ch Hin). by apply Z.eqb_eq.
  - rewrite forallb_forall in H2. apply List.Forall_forall. intros ch Hin. specialize (H2 ch Hin). unfold is_byte. lia.
  - by apply negb_true_iff, Z.eqb_neq in H4.
Qed.

Lemma sample_symbols : Forall symbol_ok [[0x61]; [0x2D]; [0x7A]; [0xD0; 0xB0]].
Proof. repeat (apply List.Forall_cons; [apply sample_octets; vm_compute; reflexivity|]); apply List.Forall_nil. Qed.

Lemma Utf8Category_set_witness :
  let s := {| holder_ := [(0x61, 0x7A); (0xD0B0, 0xD0BF)]; last_found_ := None |} in
  is_valid (MIN := 0) (MAX := UTF8CHAR_MAX) s /\
  exists cat, Utf8Category_of_set s = Ret cat /\ tree_shaped (nodes_ cat) /\
  forall seq rest, octets_ok seq ->
  get_char (seq ++ rest) = Ret (spell 0 seq, Z.of_nat (length seq)) /\
  exists b, utf8_is_owned cat (seq ++ rest) = Ret b /\
  (b = true <-> is_holds (MIN := 0) (MAX := UTF8CHAR_MAX) s (spell 0 seq)).
Proof.
  intros s. assert (Hv : is_valid (MIN := 0) (MAX := UTF8CHAR_MAX) s) by (split; [cbn; unfold UTF8CHAR_MAX; rewrite ?Forall_cons, ?Forall_nil; cbn; lia|done]).
  split; [exact Hv|]. exact (Utf8Category_set s Hv).
Defined.

Lemma Utf8Category_symbols_witness :
  exists cat, Utf8Category_of_str (S := CompressedSet) [0x61; 0x2D; 0x7A; 0xD0; 0xB0] false = Ret cat /\
  utf8_is_owned cat [0x62] = Ret true /\ utf8_is_owned cat [0x2D] = Ret false /\
  utf8_is_owned cat [0xD0; 0xB0] = Ret true /\ utf8_is_owned cat [0xD0; 0xB1] = Ret false.
Proof.
  destruct (Utf8Category_symbols [[0x61]; [0x2D]; [0x7A]; [0xD0; 0xB0]] false sample_symbols) as (cat & E & _ & Ho & _).
  exists cat. split; [exact E|].
  assert (Ht : Forall symbol_ok [[0x62]; [0x2D]; [0xD0; 0xB0]; [0xD0; 0xB1]])
    by (repeat (apply List.Forall_cons; [apply sample_octets; vm_compute; reflexivity|]); apply List.Forall_nil).
  rewrite !Forall_cons in Ht. destruct Ht as ([H1 _] & [H2 _] & [H3 _] & [H4 _] & _).
  split; [exact (Ho _ [] H1)|]. split; [exact (Ho _ [] H2)|]. split; [exact (Ho _ [] H3)|exact (Ho _ [] H4)].
Defined.

(** A lead octet that announces no symbol is refused; a symbol cut short by the end of
    the string is read past the terminating zero, whatever it is followed by. *)
Example Utf8Category_str_edges :
  Utf8Category_of_str (S := CompressedSet) [0x61; 0x80] false = Throw (InvalidArgument "non UTF-8 symbol in argument") /\
  Utf8Category_of_str (S := CompressedSet) [0x61; 0xE2; 0x82] false = Undef.
Proof. split; vm_compute; reflexivity. Qed.
