(* ===== verification/Utf8Tables.v ===== *)
(** * Types of the case tables

    The types of [String/UTF8Tables.hpp] that the tables of [LowerTables],
    [UpperTables], [UniformTables] and [SimplifyTables] have.  An array is the list
    of its cells and a [SubString] the list of its octets. *)
From Stdlib Require Import ZArith List.

(** [const char[2]] and [const char[4]] *)
Record CodeUnit2Bytes : Type := U2 { unit2_0 : Z; unit2_1 : Z }.
Record CodeUnit4Bytes : Type := U4 { unit4_0 : Z; unit4_1 : Z; unit4_2 : Z; unit4_3 : Z }.

Definition Plane1Byte : Type := list Z.
Definition Plane2Bytes : Type := list CodeUnit2Bytes.
Definition Plane4Bytes : Type := list CodeUnit4Bytes.
Definition Plane2Bits : Type := list Z.

Record Table_3_E1_BF : Type := BF { substr : list Z; symbols : Z }.
