(* ===== verification/LowerTables.v ===== *)
(** * Tables of the conversion to lower case

    The data of [String/UTF8CaseLower.cpp], namespace [ToLower]: a table is the
    list of its planes, a plane the list of the 64 code units that its last octet
    selects; a plane of [TABLE_x] is named [PLANE_x_y] after the octet [y] that
    selects it.  [Utf8Case] holds the function that reads them. *)
From S2P Require Import Utf8Tables.
From Stdlib Require Import ZArith List.
Import ListNotations.
Local Open Scope Z_scope.

Definition TABLE_1 : list Z :=
  [0x00; 0x01; 0x02; 0x03; 0x04; 0x05; 0x06; 0x07;
   0x08; 0x09; 0x0A; 0x0B; 0x0C; 0x0D; 0x0E; 0x0F;
   0x10; 0x11; 0x12; 0x13; 0x14; 0x15; 0x16; 0x17;
   0x18; 0x19; 0x1A; 0x1B; 0x1C; 0x1D; 0x1E; 0x1F;
   0x20; 0x21; 0x22; 0x23; 0x24; 0x25; 0x26; 0x27;
   0x28; 0x29; 0x2A; 0x2B; 0x2C; 0x2D; 0x2E; 0x2F;
   0x30; 0x31; 0x32; 0x33; 0x34; 0x35; 0x36; 0x37;
   0x38; 0x39; 0x3A; 0x3B; 0x3C; 0x3D; 0x3E; 0x3F;
   0x40; 0x61; 0x62; 0x63; 0x64; 0x65; 0x66; 0x67;
   0x68; 0x69; 0x6A; 0x6B; 0x6C; 0x6D; 0x6E; 0x6F;
   0x70; 0x71; 0x72; 0x73; 0x74; 0x75; 0x76; 0x77;
   0x78; 0x79; 0x7A; 0x5B; 0x5C; 0x5D; 0x5E; 0x5F;
   0x60; 0x61; 0x62; 0x63; 0x64; 0x65; 0x66; 0x67;
   0x68; 0x69; 0x6A; 0x6B; 0x6C; 0x6D; 0x6E; 0x6F;
   0x70; 0x71; 0x72; 0x73; 0x74; 0x75; 0x76; 0x77;
   0x78; 0x79; 0x7A; 0x7B; 0x7C; 0x7D; 0x7E; 0x7F].

Definition PLANE_2_C3 : Plane2Bytes :=
  [U2 0xC3 0xA0; U2 0xC3 0xA1; U2 0xC3 0xA2; U2 0xC3 0xA3;
   U2 0xC3 0xA4; U2 0xC3 0xA5; U2 0xC3 0xA6; U2 0xC3 0xA7;
   U2 0xC3 0xA8; U2 0xC3 0xA9; U2 0xC3 0xAA; U2 0xC3 0xAB;
   U2 0xC3 0xAC; U2 0xC3 0xAD; U2 0xC3 0xAE; U2 0xC3 0xAF;
   U2 0xC3 0xB0; U2 0xC3 0xB1; U2 0xC3 0xB2; U2 0xC3 0xB3;
   U2 0xC3 0xB4; U2 0xC3 0xB5; U2 0xC3 0xB6; U2 0xC3 0x97;
   U2 0xC3 0xB8; U2 0xC3 0xB9; U2 0xC3 0xBA; U2 0xC3 0xBB;
   U2 0xC3 0xBC; U2 0xC3 0xBD; U2 0xC3 0xBE; U2 0xC3 0x9F;
   U2 0xC3 0xA0; U2 0xC3 0xA1; U2 0xC3 0xA2; U2 0xC3 0xA3;
   U2 0xC3 0xA4; U2 0xC3 0xA5; U2 0xC3 0xA6; U2 0xC3 0xA7;
   U2 0xC3 0xA8; U2 0xC3 0xA9; U2 0xC3 0xAA; U2 0xC3 0xAB;
   U2 0xC3 0xAC; U2 0xC3 0xAD; U2 0xC3 0xAE; U2 0xC3 0xAF;
   U2 0xC3 0xB0; U2 0xC3 0xB1; U2 0xC3 0xB2; U2 0xC3 0xB3;
   U2 0xC3 0xB4; U2 0xC3 0xB5; U2 0xC3 0xB6; U2 0xC3 0xB7;
   U2 0xC3 0xB8; U2 0xC3 0xB9; U2 0xC3 0xBA; U2 0xC3 0xBB;
   U2 0xC3 0xBC; U2 0xC3 0xBD; U2 0xC3 0xBE; U2 0xC3 0xBF].

Definition PLANE_2_C4 : Plane2Bytes :=
  [U2 0xC4 0x81; U2 0xC4 0x81; U2 0xC4 0x83; U2 0xC4 0x83;
   U2 0xC4 0x85; U2 0xC4 0x85; U2 0xC4 0x87; U2 0xC4 0x87;
   U2 0xC4 0x89; U2 0xC4 0x89; U2 0xC4 0x8B; U2 0xC4 0x8B;
   U2 0xC4 0x8D; U2 0xC4 0x8D; U2 0xC4 0x8F; U2 0xC4 0x8F;
   U2 0xC4 0x91; U2 0xC4 0x91; U2 0xC4 0x93; U2 0xC4 0x93;
   U2 0xC4 0x95; U2 0xC4 0x95; U2 0xC4 0x97; U2 0xC4 0x97;
   U2 0xC4 0x99; U2 0xC4 0x99; U2 0xC4 0x9B; U2 0xC4 0x9B;
   U2 0xC4 0x9D; U2 0xC4 0x9D; U2 0xC4 0x9F; U2 0xC4 0x9F;
   U2 0xC4 0xA1; U2 0xC4 0xA1; U2 0xC4 0xA3; U2 0xC4 0xA3;
   U2 0xC4 0xA5; U2 0xC4 0xA5; U2 0xC4 0xA7; U2 0xC4 0xA7;
   U2 0xC4 0xA9; U2 0xC4 0xA9; U2 0xC4 0xAB; U2 0xC4 0xAB;
   U2 0xC4 0xAD; U2 0xC4 0xAD; U2 0xC4 0xAF; U2 0xC4 0xAF;
   U2 0x00 0x00; U2 0xC4 0xB1; U2 0xC4 0xB3; U2 0xC4 0xB3;
   U2 0xC4 0xB5; U2 0xC4 0xB5; U2 0xC4 0xB7; U2 0xC4 0xB7;
   U2 0xC4 0xB8; U2 0xC4 0xBA; U2 0xC4 0xBA; U2 0xC4 0xBC;
   U2 0xC4 0xBC; U2 0xC4 0xBE; U2 0xC4 0xBE; U2 0xC5 0x80].

Definition PLANE_2_C5 : Plane2Bytes :=
  [U2 0xC5 0x80; U2 0xC5 0x82; U2 0xC5 0x82; U2 0xC5 0x84;
   U2 0xC5 0x84; U2 0xC5 0x86; U2 0xC5 0x86; U2 0xC5 0x88;
   U2 0xC5 0x88; U2 0xC5 0x89; U2 0xC5 0x8B; U2 0xC5 0x8B;
   U2 0xC5 0x8D; U2 0xC5 0x8D; U2 0xC5 0x8F; U2 0xC5 0x8F;
   U2 0xC5 0x91; U2 0xC5 0x91; U2 0xC5 0x93; U2 0xC5 0x93;
   U2 0xC5 0x95; U2 0xC5 0x95; U2 0xC5 0x97; U2 0xC5 0x97;
   U2 0xC5 0x99; U2 0xC5 0x99; U2 0xC5 0x9B; U2 0xC5 0x9B;
   U2 0xC5 0x9D; U2 0xC5 0x9D; U2 0xC5 0x9F; U2 0xC5 0x9F;
   U2 0xC5 0xA1; U2 0xC5 0xA1; U2 0xC5 0xA3; U2 0xC5 0xA3;
   U2 0xC5 0xA5; U2 0xC5 0xA5; U2 0xC5 0xA7; U2 0xC5 0xA7;
   U2 0xC5 0xA9; U2 0xC5 0xA9; U2 0xC5 0xAB; U2 0xC5 0xAB;
   U2 0xC5 0xAD; U2 0xC5 0xAD; U2 0xC5 0xAF; U2 0xC5 0xAF;
   U2 0xC5 0xB1; U2 0xC5 0xB1; U2 0xC5 0xB3; U2 0xC5 0xB3;
   U2 0xC5 0xB5; U2 0xC5 0xB5; U2 0xC5 0xB7; U2 0xC5 0xB7;
   U2 0xC3 0xBF; U2 0xC5 0xBA; U2 0xC5 0xBA; U2 0xC5 0xBC;
   U2 0xC5 0xBC; U2 0xC5 0xBE; U2 0xC5 0xBE; U2 0xC5 0xBF].

Definition PLANE_2_C6 : Plane2Bytes :=
  [U2 0xC6 0x80; U2 0xC9 0x93; U2 0xC6 0x83; U2 0xC6 0x83;
   U2 0xC6 0x85; U2 0xC6 0x85; U2 0xC9 0x94; U2 0xC6 0x88;
   U2 0xC6 0x88; U2 0xC9 0x96; U2 0xC9 0x97; U2 0xC6 0x8C;
   U2 0xC6 0x8C; U2 0xC6 0x8D; U2 0xC7 0x9D; U2 0xC9 0x99;
   U2 0xC9 0x9B; U2 0xC6 0x92; U2 0xC6 0x92; U2 0xC9 0xA0;
   U2 0xC9 0xA3; U2 0xC6 0x95; U2 0xC9 0xA9; U2 0xC9 0xA8;
   U2 0xC6 0x99; U2 0xC6 0x99; U2 0xC6 0x9A; U2 0xC6 0x9B;
   U2 0xC9 0xAF; U2 0xC9 0xB2; U2 0xC6 0x9E; U2 0xC9 0xB5;
   U2 0xC6 0xA1; U2 0xC6 0xA1; U2 0xC6 0xA3; U2 0xC6 0xA3;
   U2 0xC6 0xA5; U2 0xC6 0xA5; U2 0xCA 0x80; U2 0xC6 0xA8;
   U2 0xC6 0xA8; U2 0xCA 0x83; U2 0xC6 0xAA; U2 0xC6 0xAB;
   U2 0xC6 0xAD; U2 0xC6 0xAD; U2 0xCA 0x88; U2 0xC6 0xB0;
   U2 0xC6 0xB0; U2 0xCA 0x8A; U2 0xCA 0x8B; U2 0xC6 0xB4;
   U2 0xC6 0xB4; U2 0xC6 0xB6; U2 0xC6 0xB6; U2 0xCA 0x92;
   U2 0xC6 0xB9; U2 0xC6 0xB9; U2 0xC6 0xBA; U2 0xC6 0xBB;
   U2 0xC6 0xBD; U2 0xC6 0xBD; U2 0xC6 0xBE; U2 0xC6 0xBF].

Definition PLANE_2_C7 : Plane2Bytes :=
  [U2 0xC7 0x80; U2 0xC7 0x81; U2 0xC7 0x82; U2 0xC7 0x83;
   U2 0xC7 0x86; U2 0xC7 0x86; U2 0xC7 0x86; U2 0xC7 0x89;
   U2 0xC7 0x89; U2 0xC7 0x89; U2 0xC7 0x8C; U2 0xC7 0x8C;
   U2 0xC7 0x8C; U2 0xC7 0x8E; U2 0xC7 0x8E; U2 0xC7 0x90;
   U2 0xC7 0x90; U2 0xC7 0x92; U2 0xC7 0x92; U2 0xC7 0x94;
   U2 0xC7 0x94; U2 0xC7 0x96; U2 0xC7 0x96; U2 0xC7 0x98;
   U2 0xC7 0x98; U2 0xC7 0x9A; U2 0xC7 0x9A; U2 0xC7 0x9C;
   U2 0xC7 0x9C; U2 0xC7 0x9D; U2 0xC7 0x9F; U2 0xC7 0x9F;
   U2 0xC7 0xA1; U2 0xC7 0xA1; U2 0xC7 0xA3; U2 0xC7 0xA3;
   U2 0xC7 0xA5; U2 0xC7 0xA5; U2 0xC7 0xA7; U2 0xC7 0xA7;
   U2 0xC7 0xA9; U2 0xC7 0xA9; U2 0xC7 0xAB; U2 0xC7 0xAB;
   U2 0xC7 0xAD; U2 0xC7 0xAD; U2 0xC7 0xAF; U2 0xC7 0xAF;
   U2 0xC7 0xB0; U2 0xC7 0xB3; U2 0xC7 0xB3; U2 0xC7 0xB3;
   U2 0xC7 0xB5; U2 0xC7 0xB5; U2 0xC6 0x95; U2 0xC6 0xBF;
   U2 0xC7 0xB9; U2 0xC7 0xB9; U2 0xC7 0xBB; U2 0xC7 0xBB;
   U2 0xC7 0xBD; U2 0xC7 0xBD; U2 0xC7 0xBF; U2 0xC7 0xBF].

Definition PLANE_2_C8 : Plane2Bytes :=
  [U2 0xC8 0x81; U2 0xC8 0x81; U2 0xC8 0x83; U2 0xC8 0x83;
   U2 0xC8 0x85; U2 0xC8 0x85; U2 0xC8 0x87; U2 0xC8 0x87;
   U2 0xC8 0x89; U2 0xC8 0x89; U2 0xC8 0x8B; U2 0xC8 0x8B;
   U2 0xC8 0x8D; U2 0xC8 0x8D; U2 0xC8 0x8F; U2 0xC8 0x8F;
   U2 0xC8 0x91; U2 0xC8 0x91; U2 0xC8 0x93; U2 0xC8 0x93;
   U2 0xC8 0x95; U2 0xC8 0x95; U2 0xC8 0x97; U2 0xC8 0x97;
   U2 0xC8 0x99; U2 0xC8 0x99; U2 0xC8 0x9B; U2 0xC8 0x9B;
   U2 0xC8 0x9D; U2 0xC8 0x9D; U2 0xC8 0x9F; U2 0xC8 0x9F;
   U2 0xC6 0x9E; U2 0xC8 0xA1; U2 0xC8 0xA3; U2 0xC8 0xA3;
   U2 0xC8 0xA5; U2 0xC8 0xA5; U2 0xC8 0xA7; U2 0xC8 0xA7;
   U2 0xC8 0xA9; U2 0xC8 0xA9; U2 0xC8 0xAB; U2 0xC8 0xAB;
   U2 0xC8 0xAD; U2 0xC8 0xAD; U2 0xC8 0xAF; U2 0xC8 0xAF;
   U2 0xC8 0xB1; U2 0xC8 0xB1; U2 0xC8 0xB3; U2 0xC8 0xB3;
   U2 0xC8 0xB4; U2 0xC8 0xB5; U2 0xC8 0xB6; U2 0xC8 0xB7;
   U2 0xC8 0xB8; U2 0xC8 0xB9; U2 0x00 0xA5; U2 0xC8 0xBC;
   U2 0xC8 0xBC; U2 0xC6 0x9A; U2 0x00 0xA6; U2 0xC8 0xBF].

Definition PLANE_2_C9 : Plane2Bytes :=
  [U2 0xC9 0x80; U2 0xC9 0x82; U2 0xC9 0x82; U2 0xC6 0x80;
   U2 0xCA 0x89; U2 0xCA 0x8C; U2 0xC9 0x87; U2 0xC9 0x87;
   U2 0xC9 0x89; U2 0xC9 0x89; U2 0xC9 0x8B; U2 0xC9 0x8B;
   U2 0xC9 0x8D; U2 0xC9 0x8D; U2 0xC9 0x8F; U2 0xC9 0x8F;
   U2 0xC9 0x90; U2 0xC9 0x91; U2 0xC9 0x92; U2 0xC9 0x93;
   U2 0xC9 0x94; U2 0xC9 0x95; U2 0xC9 0x96; U2 0xC9 0x97;
   U2 0xC9 0x98; U2 0xC9 0x99; U2 0xC9 0x9A; U2 0xC9 0x9B;
   U2 0xC9 0x9C; U2 0xC9 0x9D; U2 0xC9 0x9E; U2 0xC9 0x9F;
   U2 0xC9 0xA0; U2 0xC9 0xA1; U2 0xC9 0xA2; U2 0xC9 0xA3;
   U2 0xC9 0xA4; U2 0xC9 0xA5; U2 0xC9 0xA6; U2 0xC9 0xA7;
   U2 0xC9 0xA8; U2 0xC9 0xA9; U2 0xC9 0xAA; U2 0xC9 0xAB;
   U2 0xC9 0xAC; U2 0xC9 0xAD; U2 0xC9 0xAE; U2 0xC9 0xAF;
   U2 0xC9 0xB0; U2 0xC9 0xB1; U2 0xC9 0xB2; U2 0xC9 0xB3;
   U2 0xC9 0xB4; U2 0xC9 0xB5; U2 0xC9 0xB6; U2 0xC9 0xB7;
   U2 0xC9 0xB8; U2 0xC9 0xB9; U2 0xC9 0xBA; U2 0xC9 0xBB;
   U2 0xC9 0xBC; U2 0xC9 0xBD; U2 0xC9 0xBE; U2 0xC9 0xBF].

Definition PLANE_2_CA : Plane2Bytes :=
  [U2 0xCA 0x80; U2 0xCA 0x81; U2 0xCA 0x82; U2 0xCA 0x83;
   U2 0xCA 0x84; U2 0xCA 0x85; U2 0xCA 0x86; U2 0xCA 0x87;
   U2 0xCA 0x88; U2 0xCA 0x89; U2 0xCA 0x8A; U2 0xCA 0x8B;
   U2 0xCA 0x8C; U2 0xCA 0x8D; U2 0xCA 0x8E; U2 0xCA 0x8F;
   U2 0xCA 0x90; U2 0xCA 0x91; U2 0xCA 0x92; U2 0xCA 0x93;
   U2 0xCA 0x94; U2 0xCA 0x95; U2 0xCA 0x96; U2 0xCA 0x97;
   U2 0xCA 0x98; U2 0xCA 0x99; U2 0xCA 0x9A; U2 0xCA 0x9B;
   U2 0xCA 0x9C; U2 0xCA 0x9D; U2 0xCA 0x9E; U2 0xCA 0x9F;
   U2 0xCA 0xA0; U2 0xCA 0xA1; U2 0xCA 0xA2; U2 0xCA 0xA3;
   U2 0xCA 0xA4; U2 0xCA 0xA5; U2 0xCA 0xA6; U2 0xCA 0xA7;
   U2 0xCA 0xA8; U2 0xCA 0xA9; U2 0xCA 0xAA; U2 0xCA 0xAB;
   U2 0xCA 0xAC; U2 0xCA 0xAD; U2 0xCA 0xAE; U2 0xCA 0xAF;
   U2 0xCA 0xB0; U2 0xCA 0xB1; U2 0xCA 0xB2; U2 0xCA 0xB3;
   U2 0xCA 0xB4; U2 0xCA 0xB5; U2 0xCA 0xB6; U2 0xCA 0xB7;
   U2 0xCA 0xB8; U2 0xCA 0xB9; U2 0xCA 0xBA; U2 0xCA 0xBB;
   U2 0xCA 0xBC; U2 0xCA 0xBD; U2 0xCA 0xBE; U2 0xCA 0xBF].

Definition PLANE_2_CB : Plane2Bytes :=
  [U2 0xCB 0x80; U2 0xCB 0x81; U2 0xCB 0x82; U2 0xCB 0x83;
   U2 0xCB 0x84; U2 0xCB 0x85; U2 0xCB 0x86; U2 0xCB 0x87;
   U2 0xCB 0x88; U2 0xCB 0x89; U2 0xCB 0x8A; U2 0xCB 0x8B;
   U2 0xCB 0x8C; U2 0xCB 0x8D; U2 0xCB 0x8E; U2 0xCB 0x8F;
   U2 0xCB 0x90; U2 0xCB 0x91; U2 0xCB 0x92; U2 0xCB 0x93;
   U2 0xCB 0x94; U2 0xCB 0x95; U2 0xCB 0x96; U2 0xCB 0x97;
   U2 0xCB 0x98; U2 0xCB 0x99; U2 0xCB 0x9A; U2 0xCB 0x9B;
   U2 0xCB 0x9C; U2 0xCB 0x9D; U2 0xCB 0x9E; U2 0xCB 0x9F;
   U2 0xCB 0xA0; U2 0xCB 0xA1; U2 0xCB 0xA2; U2 0xCB 0xA3;
   U2 0xCB 0xA4; U2 0xCB 0xA5; U2 0xCB 0xA6; U2 0xCB 0xA7;
   U2 0xCB 0xA8; U2 0xCB 0xA9; U2 0xCB 0xAA; U2 0xCB 0xAB;
   U2 0xCB 0xAC; U2 0xCB 0xAD; U2 0xCB 0xAE; U2 0xCB 0xAF;
   U2 0xCB 0xB0; U2 0xCB 0xB1; U2 0xCB 0xB2; U2 0xCB 0xB3;
   U2 0xCB 0xB4; U2 0xCB 0xB5; U2 0xCB 0xB6; U2 0xCB 0xB7;
   U2 0xCB 0xB8; U2 0xCB 0xB9; U2 0xCB 0xBA; U2 0xCB 0xBB;
   U2 0xCB 0xBC; U2 0xCB 0xBD; U2 0xCB 0xBE; U2 0xCB 0xBF].

Definition PLANE_2_CC : Plane2Bytes :=
  [U2 0xCC 0x80; U2 0xCC 0x81; U2 0xCC 0x82; U2 0xCC 0x83;
   U2 0xCC 0x84; U2 0xCC 0x85; U2 0xCC 0x86; U2 0xCC 0x87;
   U2 0xCC 0x88; U2 0xCC 0x89; U2 0xCC 0x8A; U2 0xCC 0x8B;
   U2 0xCC 0x8C; U2 0xCC 0x8D; U2 0xCC 0x8E; U2 0xCC 0x8F;
   U2 0xCC 0x90; U2 0xCC 0x91; U2 0xCC 0x92; U2 0xCC 0x93;
   U2 0xCC 0x94; U2 0xCC 0x95; U2 0xCC 0x96; U2 0xCC 0x97;
   U2 0xCC 0x98; U2 0xCC 0x99; U2 0xCC 0x9A; U2 0xCC 0x9B;
   U2 0xCC 0x9C; U2 0xCC 0x9D; U2 0xCC 0x9E; U2 0xCC 0x9F;
   U2 0xCC 0xA0; U2 0xCC 0xA1; U2 0xCC 0xA2; U2 0xCC 0xA3;
   U2 0xCC 0xA4; U2 0xCC 0xA5; U2 0xCC 0xA6; U2 0xCC 0xA7;
   U2 0xCC 0xA8; U2 0xCC 0xA9; U2 0xCC 0xAA; U2 0xCC 0xAB;
   U2 0xCC 0xAC; U2 0xCC 0xAD; U2 0xCC 0xAE; U2 0xCC 0xAF;
   U2 0xCC 0xB0; U2 0xCC 0xB1; U2 0xCC 0xB2; U2 0xCC 0xB3;
   U2 0xCC 0xB4; U2 0xCC 0xB5; U2 0xCC 0xB6; U2 0xCC 0xB7;
   U2 0xCC 0xB8; U2 0xCC 0xB9; U2 0xCC 0xBA; U2 0xCC 0xBB;
   U2 0xCC 0xBC; U2 0xCC 0xBD; U2 0xCC 0xBE; U2 0xCC 0xBF].

Definition PLANE_2_CD : Plane2Bytes :=
  [U2 0xCD 0x80; U2 0xCD 0x81; U2 0xCD 0x82; U2 0xCD 0x83;
   U2 0xCD 0x84; U2 0xCD 0x85; U2 0xCD 0x86; U2 0xCD 0x87;
   U2 0xCD 0x88; U2 0xCD 0x89; U2 0xCD 0x8A; U2 0xCD 0x8B;
   U2 0xCD 0x8C; U2 0xCD 0x8D; U2 0xCD 0x8E; U2 0xCD 0x8F;
   U2 0xCD 0x90; U2 0xCD 0x91; U2 0xCD 0x92; U2 0xCD 0x93;
   U2 0xCD 0x94; U2 0xCD 0x95; U2 0xCD 0x96; U2 0xCD 0x97;
   U2 0xCD 0x98; U2 0xCD 0x99; U2 0xCD 0x9A; U2 0xCD 0x9B;
   U2 0xCD 0x9C; U2 0xCD 0x9D; U2 0xCD 0x9E; U2 0xCD 0x9F;
   U2 0xCD 0xA0; U2 0xCD 0xA1; U2 0xCD 0xA2; U2 0xCD 0xA3;
   U2 0xCD 0xA4; U2 0xCD 0xA5; U2 0xCD 0xA6; U2 0xCD 0xA7;
   U2 0xCD 0xA8; U2 0xCD 0xA9; U2 0xCD 0xAA; U2 0xCD 0xAB;
   U2 0xCD 0xAC; U2 0xCD 0xAD; U2 0xCD 0xAE; U2 0xCD 0xAF;
   U2 0xCD 0xB1; U2 0xCD 0xB1; U2 0xCD 0xB3; U2 0xCD 0xB3;
   U2 0xCD 0xB4; U2 0xCD 0xB5; U2 0xCD 0xB7; U2 0xCD 0xB7;
   U2 0xCD 0xB8; U2 0xCD 0xB9; U2 0xCD 0xBA; U2 0xCD 0xBB;
   U2 0xCD 0xBC; U2 0xCD 0xBD; U2 0xCD 0xBE; U2 0xCF 0xB3].

Definition PLANE_2_CE : Plane2Bytes :=
  [U2 0xCE 0x80; U2 0xCE 0x81; U2 0xCE 0x82; U2 0xCE 0x83;
   U2 0xCE 0x84; U2 0xCE 0x85; U2 0xCE 0xAC; U2 0xCE 0x87;
   U2 0xCE 0xAD; U2 0xCE 0xAE; U2 0xCE 0xAF; U2 0xCE 0x8B;
   U2 0xCF 0x8C; U2 0xCE 0x8D; U2 0xCF 0x8D; U2 0xCF 0x8E;
   U2 0xCE 0x90; U2 0xCE 0xB1; U2 0xCE 0xB2; U2 0xCE 0xB3;
   U2 0xCE 0xB4; U2 0xCE 0xB5; U2 0xCE 0xB6; U2 0xCE 0xB7;
   U2 0xCE 0xB8; U2 0xCE 0xB9; U2 0xCE 0xBA; U2 0xCE 0xBB;
   U2 0xCE 0xBC; U2 0xCE 0xBD; U2 0xCE 0xBE; U2 0xCE 0xBF;
   U2 0xCF 0x80; U2 0xCF 0x81; U2 0xCE 0xA2; U2 0xCF 0x83;
   U2 0xCF 0x84; U2 0xCF 0x85; U2 0xCF 0x86; U2 0xCF 0x87;
   U2 0xCF 0x88; U2 0xCF 0x89; U2 0xCF 0x8A; U2 0xCF 0x8B;
   U2 0xCE 0xAC; U2 0xCE 0xAD; U2 0xCE 0xAE; U2 0xCE 0xAF;
   U2 0xCE 0xB0; U2 0xCE 0xB1; U2 0xCE 0xB2; U2 0xCE 0xB3;
   U2 0xCE 0xB4; U2 0xCE 0xB5; U2 0xCE 0xB6; U2 0xCE 0xB7;
   U2 0xCE 0xB8; U2 0xCE 0xB9; U2 0xCE 0xBA; U2 0xCE 0xBB;
   U2 0xCE 0xBC; U2 0xCE 0xBD; U2 0xCE 0xBE; U2 0xCE 0xBF].

Definition PLANE_2_CF : Plane2Bytes :=
  [U2 0xCF 0x80; U2 0xCF 0x81; U2 0xCF 0x82; U2 0xCF 0x83;
   U2 0xCF 0x84; U2 0xCF 0x85; U2 0xCF 0x86; U2 0xCF 0x87;
   U2 0xCF 0x88; U2 0xCF 0x89; U2 0xCF 0x8A; U2 0xCF 0x8B;
   U2 0xCF 0x8C; U2 0xCF 0x8D; U2 0xCF 0x8E; U2 0xCF 0x97;
   U2 0xCF 0x90; U2 0xCF 0x91; U2 0xCF 0x92; U2 0xCF 0x93;
   U2 0xCF 0x94; U2 0xCF 0x95; U2 0xCF 0x96; U2 0xCF 0x97;
   U2 0xCF 0x99; U2 0xCF 0x99; U2 0xCF 0x9B; U2 0xCF 0x9B;
   U2 0xCF 0x9D; U2 0xCF 0x9D; U2 0xCF 0x9F; U2 0xCF 0x9F;
   U2 0xCF 0xA1; U2 0xCF 0xA1; U2 0xCF 0xA3; U2 0xCF 0xA3;
   U2 0xCF 0xA5; U2 0xCF 0xA5; U2 0xCF 0xA7; U2 0xCF 0xA7;
   U2 0xCF 0xA9; U2 0xCF 0xA9; U2 0xCF 0xAB; U2 0xCF 0xAB;
   U2 0xCF 0xAD; U2 0xCF 0xAD; U2 0xCF 0xAF; U2 0xCF 0xAF;
   U2 0xCF 0xB0; U2 0xCF 0xB1; U2 0xCF 0xB2; U2 0xCF 0xB3;
   U2 0xCE 0xB8; U2 0xCF 0xB5; U2 0xCF 0xB6; U2 0xCF 0xB8;
   U2 0xCF 0xB8; U2 0xCF 0xB2; U2 0xCF 0xBB; U2 0xCF 0xBB;
   U2 0xCF 0xBC; U2 0xCD 0xBB; U2 0xCD 0xBC; U2 0xCD 0xBD].

Definition PLANE_2_D0 : Plane2Bytes :=
  [U2 0xD1 0x90; U2 0xD1 0x91; U2 0xD1 0x92; U2 0xD1 0x93;
   U2 0xD1 0x94; U2 0xD1 0x95; U2 0xD1 0x96; U2 0xD1 0x97;
   U2 0xD1 0x98; U2 0xD1 0x99; U2 0xD1 0x9A; U2 0xD1 0x9B;
   U2 0xD1 0x9C; U2 0xD1 0x9D; U2 0xD1 0x9E; U2 0xD1 0x9F;
   U2 0xD0 0xB0; U2 0xD0 0xB1; U2 0xD0 0xB2; U2 0xD0 0xB3;
   U2 0xD0 0xB4; U2 0xD0 0xB5; U2 0xD0 0xB6; U2 0xD0 0xB7;
   U2 0xD0 0xB8; U2 0xD0 0xB9; U2 0xD0 0xBA; U2 0xD0 0xBB;
   U2 0xD0 0xBC; U2 0xD0 0xBD; U2 0xD0 0xBE; U2 0xD0 0xBF;
   U2 0xD1 0x80; U2 0xD1 0x81; U2 0xD1 0x82; U2 0xD1 0x83;
   U2 0xD1 0x84; U2 0xD1 0x85; U2 0xD1 0x86; U2 0xD1 0x87;
   U2 0xD1 0x88; U2 0xD1 0x89; U2 0xD1 0x8A; U2 0xD1 0x8B;
   U2 0xD1 0x8C; U2 0xD1 0x8D; U2 0xD1 0x8E; U2 0xD1 0x8F;
   U2 0xD0 0xB0; U2 0xD0 0xB1; U2 0xD0 0xB2; U2 0xD0 0xB3;
   U2 0xD0 0xB4; U2 0xD0 0xB5; U2 0xD0 0xB6; U2 0xD0 0xB7;
   U2 0xD0 0xB8; U2 0xD0 0xB9; U2 0xD0 0xBA; U2 0xD0 0xBB;
   U2 0xD0 0xBC; U2 0xD0 0xBD; U2 0xD0 0xBE; U2 0xD0 0xBF].

Definition PLANE_2_D1 : Plane2Bytes :=
  [U2 0xD1 0x80; U2 0xD1 0x81; U2 0xD1 0x82; U2 0xD1 0x83;
   U2 0xD1 0x84; U2 0xD1 0x85; U2 0xD1 0x86; U2 0xD1 0x87;
   U2 0xD1 0x88; U2 0xD1 0x89; U2 0xD1 0x8A; U2 0xD1 0x8B;
   U2 0xD1 0x8C; U2 0xD1 0x8D; U2 0xD1 0x8E; U2 0xD1 0x8F;
   U2 0xD1 0x90; U2 0xD1 0x91; U2 0xD1 0x92; U2 0xD1 0x93;
   U2 0xD1 0x94; U2 0xD1 0x95; U2 0xD1 0x96; U2 0xD1 0x97;
   U2 0xD1 0x98; U2 0xD1 0x99; U2 0xD1 0x9A; U2 0xD1 0x9B;
   U2 0xD1 0x9C; U2 0xD1 0x9D; U2 0xD1 0x9E; U2 0xD1 0x9F;
   U2 0xD1 0xA1; U2 0xD1 0xA1; U2 0xD1 0xA3; U2 0xD1 0xA3;
   U2 0xD1 0xA5; U2 0xD1 0xA5; U2 0xD1 0xA7; U2 0xD1 0xA7;
   U2 0xD1 0xA9; U2 0xD1 0xA9; U2 0xD1 0xAB; U2 0xD1 0xAB;
   U2 0xD1 0xAD; U2 0xD1 0xAD; U2 0xD1 0xAF; U2 0xD1 0xAF;
   U2 0xD1 0xB1; U2 0xD1 0xB1; U2 0xD1 0xB3; U2 0xD1 0xB3;
   U2 0xD1 0xB5; U2 0xD1 0xB5; U2 0xD1 0xB7; U2 0xD1 0xB7;
   U2 0xD1 0xB9; U2 0xD1 0xB9; U2 0xD1 0xBB; U2 0xD1 0xBB;
   U2 0xD1 0xBD; U2 0xD1 0xBD; U2 0xD1 0xBF; U2 0xD1 0xBF].

Definition PLANE_2_D2 : Plane2Bytes :=
  [U2 0xD2 0x81; U2 0xD2 0x81; U2 0xD2 0x82; U2 0xD2 0x83;
   U2 0xD2 0x84; U2 0xD2 0x85; U2 0xD2 0x86; U2 0xD2 0x87;
   U2 0xD2 0x88; U2 0xD2 0x89; U2 0xD2 0x8B; U2 0xD2 0x8B;
   U2 0xD2 0x8D; U2 0xD2 0x8D; U2 0xD2 0x8F; U2 0xD2 0x8F;
   U2 0xD2 0x91; U2 0xD2 0x91; U2 0xD2 0x93; U2 0xD2 0x93;
   U2 0xD2 0x95; U2 0xD2 0x95; U2 0xD2 0x97; U2 0xD2 0x97;
   U2 0xD2 0x99; U2 0xD2 0x99; U2 0xD2 0x9B; U2 0xD2 0x9B;
   U2 0xD2 0x9D; U2 0xD2 0x9D; U2 0xD2 0x9F; U2 0xD2 0x9F;
   U2 0xD2 0xA1; U2 0xD2 0xA1; U2 0xD2 0xA3; U2 0xD2 0xA3;
   U2 0xD2 0xA5; U2 0xD2 0xA5; U2 0xD2 0xA7; U2 0xD2 0xA7;
   U2 0xD2 0xA9; U2 0xD2 0xA9; U2 0xD2 0xAB; U2 0xD2 0xAB;
   U2 0xD2 0xAD; U2 0xD2 0xAD; U2 0xD2 0xAF; U2 0xD2 0xAF;
   U2 0xD2 0xB1; U2 0xD2 0xB1; U2 0xD2 0xB3; U2 0xD2 0xB3;
   U2 0xD2 0xB5; U2 0xD2 0xB5; U2 0xD2 0xB7; U2 0xD2 0xB7;
   U2 0xD2 0xB9; U2 0xD2 0xB9; U2 0xD2 0xBB; U2 0xD2 0xBB;
   U2 0xD2 0xBD; U2 0xD2 0xBD; U2 0xD2 0xBF; U2 0xD2 0xBF].

Definition PLANE_2_D3 : Plane2Bytes :=
  [U2 0xD3 0x8F; U2 0xD3 0x82; U2 0xD3 0x82; U2 0xD3 0x84;
   U2 0xD3 0x84; U2 0xD3 0x86; U2 0xD3 0x86; U2 0xD3 0x88;
   U2 0xD3 0x88; U2 0xD3 0x8A; U2 0xD3 0x8A; U2 0xD3 0x8C;
   U2 0xD3 0x8C; U2 0xD3 0x8E; U2 0xD3 0x8E; U2 0xD3 0x8F;
   U2 0xD3 0x91; U2 0xD3 0x91; U2 0xD3 0x93; U2 0xD3 0x93;
   U2 0xD3 0x95; U2 0xD3 0x95; U2 0xD3 0x97; U2 0xD3 0x97;
   U2 0xD3 0x99; U2 0xD3 0x99; U2 0xD3 0x9B; U2 0xD3 0x9B;
   U2 0xD3 0x9D; U2 0xD3 0x9D; U2 0xD3 0x9F; U2 0xD3 0x9F;
   U2 0xD3 0xA1; U2 0xD3 0xA1; U2 0xD3 0xA3; U2 0xD3 0xA3;
   U2 0xD3 0xA5; U2 0xD3 0xA5; U2 0xD3 0xA7; U2 0xD3 0xA7;
   U2 0xD3 0xA9; U2 0xD3 0xA9; U2 0xD3 0xAB; U2 0xD3 0xAB;
   U2 0xD3 0xAD; U2 0xD3 0xAD; U2 0xD3 0xAF; U2 0xD3 0xAF;
   U2 0xD3 0xB1; U2 0xD3 0xB1; U2 0xD3 0xB3; U2 0xD3 0xB3;
   U2 0xD3 0xB5; U2 0xD3 0xB5; U2 0xD3 0xB7; U2 0xD3 0xB7;
   U2 0xD3 0xB9; U2 0xD3 0xB9; U2 0xD3 0xBB; U2 0xD3 0xBB;
   U2 0xD3 0xBD; U2 0xD3 0xBD; U2 0xD3 0xBF; U2 0xD3 0xBF].

Definition PLANE_2_D4 : Plane2Bytes :=
  [U2 0xD4 0x81; U2 0xD4 0x81; U2 0xD4 0x83; U2 0xD4 0x83;
   U2 0xD4 0x85; U2 0xD4 0x85; U2 0xD4 0x87; U2 0xD4 0x87;
   U2 0xD4 0x89; U2 0xD4 0x89; U2 0xD4 0x8B; U2 0xD4 0x8B;
   U2 0xD4 0x8D; U2 0xD4 0x8D; U2 0xD4 0x8F; U2 0xD4 0x8F;
   U2 0xD4 0x91; U2 0xD4 0x91; U2 0xD4 0x93; U2 0xD4 0x93;
   U2 0xD4 0x95; U2 0xD4 0x95; U2 0xD4 0x97; U2 0xD4 0x97;
   U2 0xD4 0x99; U2 0xD4 0x99; U2 0xD4 0x9B; U2 0xD4 0x9B;
   U2 0xD4 0x9D; U2 0xD4 0x9D; U2 0xD4 0x9F; U2 0xD4 0x9F;
   U2 0xD4 0xA1; U2 0xD4 0xA1; U2 0xD4 0xA3; U2 0xD4 0xA3;
   U2 0xD4 0xA5; U2 0xD4 0xA5; U2 0xD4 0xA7; U2 0xD4 0xA7;
   U2 0xD4 0xA9; U2 0xD4 0xA9; U2 0xD4 0xAB; U2 0xD4 0xAB;
   U2 0xD4 0xAD; U2 0xD4 0xAD; U2 0xD4 0xAF; U2 0xD4 0xAF;
   U2 0xD4 0xB0; U2 0xD5 0xA1; U2 0xD5 0xA2; U2 0xD5 0xA3;
   U2 0xD5 0xA4; U2 0xD5 0xA5; U2 0xD5 0xA6; U2 0xD5 0xA7;
   U2 0xD5 0xA8; U2 0xD5 0xA9; U2 0xD5 0xAA; U2 0xD5 0xAB;
   U2 0xD5 0xAC; U2 0xD5 0xAD; U2 0xD5 0xAE; U2 0xD5 0xAF].

Definition PLANE_2_D5 : Plane2Bytes :=
  [U2 0xD5 0xB0; U2 0xD5 0xB1; U2 0xD5 0xB2; U2 0xD5 0xB3;
   U2 0xD5 0xB4; U2 0xD5 0xB5; U2 0xD5 0xB6; U2 0xD5 0xB7;
   U2 0xD5 0xB8; U2 0xD5 0xB9; U2 0xD5 0xBA; U2 0xD5 0xBB;
   U2 0xD5 0xBC; U2 0xD5 0xBD; U2 0xD5 0xBE; U2 0xD5 0xBF;
   U2 0xD6 0x80; U2 0xD6 0x81; U2 0xD6 0x82; U2 0xD6 0x83;
   U2 0xD6 0x84; U2 0xD6 0x85; U2 0xD6 0x86; U2 0xD5 0x97;
   U2 0xD5 0x98; U2 0xD5 0x99; U2 0xD5 0x9A; U2 0xD5 0x9B;
   U2 0xD5 0x9C; U2 0xD5 0x9D; U2 0xD5 0x9E; U2 0xD5 0x9F;
   U2 0xD5 0xA0; U2 0xD5 0xA1; U2 0xD5 0xA2; U2 0xD5 0xA3;
   U2 0xD5 0xA4; U2 0xD5 0xA5; U2 0xD5 0xA6; U2 0xD5 0xA7;
   U2 0xD5 0xA8; U2 0xD5 0xA9; U2 0xD5 0xAA; U2 0xD5 0xAB;
   U2 0xD5 0xAC; U2 0xD5 0xAD; U2 0xD5 0xAE; U2 0xD5 0xAF;
   U2 0xD5 0xB0; U2 0xD5 0xB1; U2 0xD5 0xB2; U2 0xD5 0xB3;
   U2 0xD5 0xB4; U2 0xD5 0xB5; U2 0xD5 0xB6; U2 0xD5 0xB7;
   U2 0xD5 0xB8; U2 0xD5 0xB9; U2 0xD5 0xBA; U2 0xD5 0xBB;
   U2 0xD5 0xBC; U2 0xD5 0xBD; U2 0xD5 0xBE; U2 0xD5 0xBF].

Definition TABLE_2 : list Plane2Bytes :=
  [PLANE_2_C3; PLANE_2_C4; PLANE_2_C5; PLANE_2_C6;
   PLANE_2_C7; PLANE_2_C8; PLANE_2_C9; PLANE_2_CA;
   PLANE_2_CB; PLANE_2_CC; PLANE_2_CD; PLANE_2_CE;
   PLANE_2_CF; PLANE_2_D0; PLANE_2_D1; PLANE_2_D2;
   PLANE_2_D3; PLANE_2_D4; PLANE_2_D5].

Definition PLANE_3_E1_80 : Plane4Bytes :=
  [U4 0xE1 0x80 0x80 0x00; U4 0xE1 0x80 0x81 0x00; U4 0xE1 0x80 0x82 0x00; U4 0xE1 0x80 0x83 0x00;
   U4 0xE1 0x80 0x84 0x00; U4 0xE1 0x80 0x85 0x00; U4 0xE1 0x80 0x86 0x00; U4 0xE1 0x80 0x87 0x00;
   U4 0xE1 0x80 0x88 0x00; U4 0xE1 0x80 0x89 0x00; U4 0xE1 0x80 0x8A 0x00; U4 0xE1 0x80 0x8B 0x00;
   U4 0xE1 0x80 0x8C 0x00; U4 0xE1 0x80 0x8D 0x00; U4 0xE1 0x80 0x8E 0x00; U4 0xE1 0x80 0x8F 0x00;
   U4 0xE1 0x80 0x90 0x00; U4 0xE1 0x80 0x91 0x00; U4 0xE1 0x80 0x92 0x00; U4 0xE1 0x80 0x93 0x00;
   U4 0xE1 0x80 0x94 0x00; U4 0xE1 0x80 0x95 0x00; U4 0xE1 0x80 0x96 0x00; U4 0xE1 0x80 0x97 0x00;
   U4 0xE1 0x80 0x98 0x00; U4 0xE1 0x80 0x99 0x00; U4 0xE1 0x80 0x9A 0x00; U4 0xE1 0x80 0x9B 0x00;
   U4 0xE1 0x80 0x9C 0x00; U4 0xE1 0x80 0x9D 0x00; U4 0xE1 0x80 0x9E 0x00; U4 0xE1 0x80 0x9F 0x00;
   U4 0xE1 0x80 0xA0 0x00; U4 0xE1 0x80 0xA1 0x00; U4 0xE1 0x80 0xA2 0x00; U4 0xE1 0x80 0xA3 0x00;
   U4 0xE1 0x80 0xA4 0x00; U4 0xE1 0x80 0xA5 0x00; U4 0xE1 0x80 0xA6 0x00; U4 0xE1 0x80 0xA7 0x00;
   U4 0xE1 0x80 0xA8 0x00; U4 0xE1 0x80 0xA9 0x00; U4 0xE1 0x80 0xAA 0x00; U4 0xE1 0x80 0xAB 0x00;
   U4 0xE1 0x80 0xAC 0x00; U4 0xE1 0x80 0xAD 0x00; U4 0xE1 0x80 0xAE 0x00; U4 0xE1 0x80 0xAF 0x00;
   U4 0xE1 0x80 0xB0 0x00; U4 0xE1 0x80 0xB1 0x00; U4 0xE1 0x80 0xB2 0x00; U4 0xE1 0x80 0xB3 0x00;
   U4 0xE1 0x80 0xB4 0x00; U4 0xE1 0x80 0xB5 0x00; U4 0xE1 0x80 0xB6 0x00; U4 0xE1 0x80 0xB7 0x00;
   U4 0xE1 0x80 0xB8 0x00; U4 0xE1 0x80 0xB9 0x00; U4 0xE1 0x80 0xBA 0x00; U4 0xE1 0x80 0xBB 0x00;
   U4 0xE1 0x80 0xBC 0x00; U4 0xE1 0x80 0xBD 0x00; U4 0xE1 0x80 0xBE 0x00; U4 0xE1 0x80 0xBF 0x00].

Definition PLANE_3_E1_81 : Plane4Bytes :=
  [U4 0xE1 0x81 0x80 0x00; U4 0xE1 0x81 0x81 0x00; U4 0xE1 0x81 0x82 0x00; U4 0xE1 0x81 0x83 0x00;
   U4 0xE1 0x81 0x84 0x00; U4 0xE1 0x81 0x85 0x00; U4 0xE1 0x81 0x86 0x00; U4 0xE1 0x81 0x87 0x00;
   U4 0xE1 0x81 0x88 0x00; U4 0xE1 0x81 0x89 0x00; U4 0xE1 0x81 0x8A 0x00; U4 0xE1 0x81 0x8B 0x00;
   U4 0xE1 0x81 0x8C 0x00; U4 0xE1 0x81 0x8D 0x00; U4 0xE1 0x81 0x8E 0x00; U4 0xE1 0x81 0x8F 0x00;
   U4 0xE1 0x81 0x90 0x00; U4 0xE1 0x81 0x91 0x00; U4 0xE1 0x81 0x92 0x00; U4 0xE1 0x81 0x93 0x00;
   U4 0xE1 0x81 0x94 0x00; U4 0xE1 0x81 0x95 0x00; U4 0xE1 0x81 0x96 0x00; U4 0xE1 0x81 0x97 0x00;
   U4 0xE1 0x81 0x98 0x00; U4 0xE1 0x81 0x99 0x00; U4 0xE1 0x81 0x9A 0x00; U4 0xE1 0x81 0x9B 0x00;
   U4 0xE1 0x81 0x9C 0x00; U4 0xE1 0x81 0x9D 0x00; U4 0xE1 0x81 0x9E 0x00; U4 0xE1 0x81 0x9F 0x00;
   U4 0xE1 0x81 0xA0 0x00; U4 0xE1 0x81 0xA1 0x00; U4 0xE1 0x81 0xA2 0x00; U4 0xE1 0x81 0xA3 0x00;
   U4 0xE1 0x81 0xA4 0x00; U4 0xE1 0x81 0xA5 0x00; U4 0xE1 0x81 0xA6 0x00; U4 0xE1 0x81 0xA7 0x00;
   U4 0xE1 0x81 0xA8 0x00; U4 0xE1 0x81 0xA9 0x00; U4 0xE1 0x81 0xAA 0x00; U4 0xE1 0x81 0xAB 0x00;
   U4 0xE1 0x81 0xAC 0x00; U4 0xE1 0x81 0xAD 0x00; U4 0xE1 0x81 0xAE 0x00; U4 0xE1 0x81 0xAF 0x00;
   U4 0xE1 0x81 0xB0 0x00; U4 0xE1 0x81 0xB1 0x00; U4 0xE1 0x81 0xB2 0x00; U4 0xE1 0x81 0xB3 0x00;
   U4 0xE1 0x81 0xB4 0x00; U4 0xE1 0x81 0xB5 0x00; U4 0xE1 0x81 0xB6 0x00; U4 0xE1 0x81 0xB7 0x00;
   U4 0xE1 0x81 0xB8 0x00; U4 0xE1 0x81 0xB9 0x00; U4 0xE1 0x81 0xBA 0x00; U4 0xE1 0x81 0xBB 0x00;
   U4 0xE1 0x81 0xBC 0x00; U4 0xE1 0x81 0xBD 0x00; U4 0xE1 0x81 0xBE 0x00; U4 0xE1 0x81 0xBF 0x00].

Definition PLANE_3_E1_82 : Plane4Bytes :=
  [U4 0xE1 0x82 0x80 0x00; U4 0xE1 0x82 0x81 0x00; U4 0xE1 0x82 0x82 0x00; U4 0xE1 0x82 0x83 0x00;
   U4 0xE1 0x82 0x84 0x00; U4 0xE1 0x82 0x85 0x00; U4 0xE1 0x82 0x86 0x00; U4 0xE1 0x82 0x87 0x00;
   U4 0xE1 0x82 0x88 0x00; U4 0xE1 0x82 0x89 0x00; U4 0xE1 0x82 0x8A 0x00; U4 0xE1 0x82 0x8B 0x00;
   U4 0xE1 0x82 0x8C 0x00; U4 0xE1 0x82 0x8D 0x00; U4 0xE1 0x82 0x8E 0x00; U4 0xE1 0x82 0x8F 0x00;
   U4 0xE1 0x82 0x90 0x00; U4 0xE1 0x82 0x91 0x00; U4 0xE1 0x82 0x92 0x00; U4 0xE1 0x82 0x93 0x00;
   U4 0xE1 0x82 0x94 0x00; U4 0xE1 0x82 0x95 0x00; U4 0xE1 0x82 0x96 0x00; U4 0xE1 0x82 0x97 0x00;
   U4 0xE1 0x82 0x98 0x00; U4 0xE1 0x82 0x99 0x00; U4 0xE1 0x82 0x9A 0x00; U4 0xE1 0x82 0x9B 0x00;
   U4 0xE1 0x82 0x9C 0x00; U4 0xE1 0x82 0x9D 0x00; U4 0xE1 0x82 0x9E 0x00; U4 0xE1 0x82 0x9F 0x00;
   U4 0xE2 0xB4 0x80 0x00; U4 0xE2 0xB4 0x81 0x00; U4 0xE2 0xB4 0x82 0x00; U4 0xE2 0xB4 0x83 0x00;
   U4 0xE2 0xB4 0x84 0x00; U4 0xE2 0xB4 0x85 0x00; U4 0xE2 0xB4 0x86 0x00; U4 0xE2 0xB4 0x87 0x00;
   U4 0xE2 0xB4 0x88 0x00; U4 0xE2 0xB4 0x89 0x00; U4 0xE2 0xB4 0x8A 0x00; U4 0xE2 0xB4 0x8B 0x00;
   U4 0xE2 0xB4 0x8C 0x00; U4 0xE2 0xB4 0x8D 0x00; U4 0xE2 0xB4 0x8E 0x00; U4 0xE2 0xB4 0x8F 0x00;
   U4 0xE2 0xB4 0x90 0x00; U4 0xE2 0xB4 0x91 0x00; U4 0xE2 0xB4 0x92 0x00; U4 0xE2 0xB4 0x93 0x00;
   U4 0xE2 0xB4 0x94 0x00; U4 0xE2 0xB4 0x95 0x00; U4 0xE2 0xB4 0x96 0x00; U4 0xE2 0xB4 0x97 0x00;
   U4 0xE2 0xB4 0x98 0x00; U4 0xE2 0xB4 0x99 0x00; U4 0xE2 0xB4 0x9A 0x00; U4 0xE2 0xB4 0x9B 0x00;
   U4 0xE2 0xB4 0x9C 0x00; U4 0xE2 0xB4 0x9D 0x00; U4 0xE2 0xB4 0x9E 0x00; U4 0xE2 0xB4 0x9F 0x00].

Definition PLANE_3_E1_83 : Plane4Bytes :=
  [U4 0xE2 0xB4 0xA0 0x00; U4 0xE2 0xB4 0xA1 0x00; U4 0xE2 0xB4 0xA2 0x00; U4 0xE2 0xB4 0xA3 0x00;
   U4 0xE2 0xB4 0xA4 0x00; U4 0xE2 0xB4 0xA5 0x00; U4 0xE1 0x83 0x86 0x00; U4 0xE2 0xB4 0xA7 0x00;
   U4 0xE1 0x83 0x88 0x00; U4 0xE1 0x83 0x89 0x00; U4 0xE1 0x83 0x8A 0x00; U4 0xE1 0x83 0x8B 0x00;
   U4 0xE1 0x83 0x8C 0x00; U4 0xE2 0xB4 0xAD 0x00; U4 0xE1 0x83 0x8E 0x00; U4 0xE1 0x83 0x8F 0x00;
   U4 0xE1 0x83 0x90 0x00; U4 0xE1 0x83 0x91 0x00; U4 0xE1 0x83 0x92 0x00; U4 0xE1 0x83 0x93 0x00;
   U4 0xE1 0x83 0x94 0x00; U4 0xE1 0x83 0x95 0x00; U4 0xE1 0x83 0x96 0x00; U4 0xE1 0x83 0x97 0x00;
   U4 0xE1 0x83 0x98 0x00; U4 0xE1 0x83 0x99 0x00; U4 0xE1 0x83 0x9A 0x00; U4 0xE1 0x83 0x9B 0x00;
   U4 0xE1 0x83 0x9C 0x00; U4 0xE1 0x83 0x9D 0x00; U4 0xE1 0x83 0x9E 0x00; U4 0xE1 0x83 0x9F 0x00;
   U4 0xE1 0x83 0xA0 0x00; U4 0xE1 0x83 0xA1 0x00; U4 0xE1 0x83 0xA2 0x00; U4 0xE1 0x83 0xA3 0x00;
   U4 0xE1 0x83 0xA4 0x00; U4 0xE1 0x83 0xA5 0x00; U4 0xE1 0x83 0xA6 0x00; U4 0xE1 0x83 0xA7 0x00;
   U4 0xE1 0x83 0xA8 0x00; U4 0xE1 0x83 0xA9 0x00; U4 0xE1 0x83 0xAA 0x00; U4 0xE1 0x83 0xAB 0x00;
   U4 0xE1 0x83 0xAC 0x00; U4 0xE1 0x83 0xAD 0x00; U4 0xE1 0x83 0xAE 0x00; U4 0xE1 0x83 0xAF 0x00;
   U4 0xE1 0x83 0xB0 0x00; U4 0xE1 0x83 0xB1 0x00; U4 0xE1 0x83 0xB2 0x00; U4 0xE1 0x83 0xB3 0x00;
   U4 0xE1 0x83 0xB4 0x00; U4 0xE1 0x83 0xB5 0x00; U4 0xE1 0x83 0xB6 0x00; U4 0xE1 0x83 0xB7 0x00;
   U4 0xE1 0x83 0xB8 0x00; U4 0xE1 0x83 0xB9 0x00; U4 0xE1 0x83 0xBA 0x00; U4 0xE1 0x83 0xBB 0x00;
   U4 0xE1 0x83 0xBC 0x00; U4 0xE1 0x83 0xBD 0x00; U4 0xE1 0x83 0xBE 0x00; U4 0xE1 0x83 0xBF 0x00].

Definition PLANE_3_E1_84 : Plane4Bytes :=
  [U4 0xE1 0x84 0x80 0x00; U4 0xE1 0x84 0x81 0x00; U4 0xE1 0x84 0x82 0x00; U4 0xE1 0x84 0x83 0x00;
   U4 0xE1 0x84 0x84 0x00; U4 0xE1 0x84 0x85 0x00; U4 0xE1 0x84 0x86 0x00; U4 0xE1 0x84 0x87 0x00;
   U4 0xE1 0x84 0x88 0x00; U4 0xE1 0x84 0x89 0x00; U4 0xE1 0x84 0x8A 0x00; U4 0xE1 0x84 0x8B 0x00;
   U4 0xE1 0x84 0x8C 0x00; U4 0xE1 0x84 0x8D 0x00; U4 0xE1 0x84 0x8E 0x00; U4 0xE1 0x84 0x8F 0x00;
   U4 0xE1 0x84 0x90 0x00; U4 0xE1 0x84 0x91 0x00; U4 0xE1 0x84 0x92 0x00; U4 0xE1 0x84 0x93 0x00;
   U4 0xE1 0x84 0x94 0x00; U4 0xE1 0x84 0x95 0x00; U4 0xE1 0x84 0x96 0x00; U4 0xE1 0x84 0x97 0x00;
   U4 0xE1 0x84 0x98 0x00; U4 0xE1 0x84 0x99 0x00; U4 0xE1 0x84 0x9A 0x00; U4 0xE1 0x84 0x9B 0x00;
   U4 0xE1 0x84 0x9C 0x00; U4 0xE1 0x84 0x9D 0x00; U4 0xE1 0x84 0x9E 0x00; U4 0xE1 0x84 0x9F 0x00;
   U4 0xE1 0x84 0xA0 0x00; U4 0xE1 0x84 0xA1 0x00; U4 0xE1 0x84 0xA2 0x00; U4 0xE1 0x84 0xA3 0x00;
   U4 0xE1 0x84 0xA4 0x00; U4 0xE1 0x84 0xA5 0x00; U4 0xE1 0x84 0xA6 0x00; U4 0xE1 0x84 0xA7 0x00;
   U4 0xE1 0x84 0xA8 0x00; U4 0xE1 0x84 0xA9 0x00; U4 0xE1 0x84 0xAA 0x00; U4 0xE1 0x84 0xAB 0x00;
   U4 0xE1 0x84 0xAC 0x00; U4 0xE1 0x84 0xAD 0x00; U4 0xE1 0x84 0xAE 0x00; U4 0xE1 0x84 0xAF 0x00;
   U4 0xE1 0x84 0xB0 0x00; U4 0xE1 0x84 0xB1 0x00; U4 0xE1 0x84 0xB2 0x00; U4 0xE1 0x84 0xB3 0x00;
   U4 0xE1 0x84 0xB4 0x00; U4 0xE1 0x84 0xB5 0x00; U4 0xE1 0x84 0xB6 0x00; U4 0xE1 0x84 0xB7 0x00;
   U4 0xE1 0x84 0xB8 0x00; U4 0xE1 0x84 0xB9 0x00; U4 0xE1 0x84 0xBA 0x00; U4 0xE1 0x84 0xBB 0x00;
   U4 0xE1 0x84 0xBC 0x00; U4 0xE1 0x84 0xBD 0x00; U4 0xE1 0x84 0xBE 0x00; U4 0xE1 0x84 0xBF 0x00].

Definition PLANE_3_E1_85 : Plane4Bytes :=
  [U4 0xE1 0x85 0x80 0x00; U4 0xE1 0x85 0x81 0x00; U4 0xE1 0x85 0x82 0x00; U4 0xE1 0x85 0x83 0x00;
   U4 0xE1 0x85 0x84 0x00; U4 0xE1 0x85 0x85 0x00; U4 0xE1 0x85 0x86 0x00; U4 0xE1 0x85 0x87 0x00;
   U4 0xE1 0x85 0x88 0x00; U4 0xE1 0x85 0x89 0x00; U4 0xE1 0x85 0x8A 0x00; U4 0xE1 0x85 0x8B 0x00;
   U4 0xE1 0x85 0x8C 0x00; U4 0xE1 0x85 0x8D 0x00; U4 0xE1 0x85 0x8E 0x00; U4 0xE1 0x85 0x8F 0x00;
   U4 0xE1 0x85 0x90 0x00; U4 0xE1 0x85 0x91 0x00; U4 0xE1 0x85 0x92 0x00; U4 0xE1 0x85 0x93 0x00;
   U4 0xE1 0x85 0x94 0x00; U4 0xE1 0x85 0x95 0x00; U4 0xE1 0x85 0x96 0x00; U4 0xE1 0x85 0x97 0x00;
   U4 0xE1 0x85 0x98 0x00; U4 0xE1 0x85 0x99 0x00; U4 0xE1 0x85 0x9A 0x00; U4 0xE1 0x85 0x9B 0x00;
   U4 0xE1 0x85 0x9C 0x00; U4 0xE1 0x85 0x9D 0x00; U4 0xE1 0x85 0x9E 0x00; U4 0xE1 0x85 0x9F 0x00;
   U4 0xE1 0x85 0xA0 0x00; U4 0xE1 0x85 0xA1 0x00; U4 0xE1 0x85 0xA2 0x00; U4 0xE1 0x85 0xA3 0x00;
   U4 0xE1 0x85 0xA4 0x00; U4 0xE1 0x85 0xA5 0x00; U4 0xE1 0x85 0xA6 0x00; U4 0xE1 0x85 0xA7 0x00;
   U4 0xE1 0x85 0xA8 0x00; U4 0xE1 0x85 0xA9 0x00; U4 0xE1 0x85 0xAA 0x00; U4 0xE1 0x85 0xAB 0x00;
   U4 0xE1 0x85 0xAC 0x00; U4 0xE1 0x85 0xAD 0x00; U4 0xE1 0x85 0xAE 0x00; U4 0xE1 0x85 0xAF 0x00;
   U4 0xE1 0x85 0xB0 0x00; U4 0xE1 0x85 0xB1 0x00; U4 0xE1 0x85 0xB2 0x00; U4 0xE1 0x85 0xB3 0x00;
   U4 0xE1 0x85 0xB4 0x00; U4 0xE1 0x85 0xB5 0x00; U4 0xE1 0x85 0xB6 0x00; U4 0xE1 0x85 0xB7 0x00;
   U4 0xE1 0x85 0xB8 0x00; U4 0xE1 0x85 0xB9 0x00; U4 0xE1 0x85 0xBA 0x00; U4 0xE1 0x85 0xBB 0x00;
   U4 0xE1 0x85 0xBC 0x00; U4 0xE1 0x85 0xBD 0x00; U4 0xE1 0x85 0xBE 0x00; U4 0xE1 0x85 0xBF 0x00].

Definition PLANE_3_E1_86 : Plane4Bytes :=
  [U4 0xE1 0x86 0x80 0x00; U4 0xE1 0x86 0x81 0x00; U4 0xE1 0x86 0x82 0x00; U4 0xE1 0x86 0x83 0x00;
   U4 0xE1 0x86 0x84 0x00; U4 0xE1 0x86 0x85 0x00; U4 0xE1 0x86 0x86 0x00; U4 0xE1 0x86 0x87 0x00;
   U4 0xE1 0x86 0x88 0x00; U4 0xE1 0x86 0x89 0x00; U4 0xE1 0x86 0x8A 0x00; U4 0xE1 0x86 0x8B 0x00;
   U4 0xE1 0x86 0x8C 0x00; U4 0xE1 0x86 0x8D 0x00; U4 0xE1 0x86 0x8E 0x00; U4 0xE1 0x86 0x8F 0x00;
   U4 0xE1 0x86 0x90 0x00; U4 0xE1 0x86 0x91 0x00; U4 0xE1 0x86 0x92 0x00; U4 0xE1 0x86 0x93 0x00;
   U4 0xE1 0x86 0x94 0x00; U4 0xE1 0x86 0x95 0x00; U4 0xE1 0x86 0x96 0x00; U4 0xE1 0x86 0x97 0x00;
   U4 0xE1 0x86 0x98 0x00; U4 0xE1 0x86 0x99 0x00; U4 0xE1 0x86 0x9A 0x00; U4 0xE1 0x86 0x9B 0x00;
   U4 0xE1 0x86 0x9C 0x00; U4 0xE1 0x86 0x9D 0x00; U4 0xE1 0x86 0x9E 0x00; U4 0xE1 0x86 0x9F 0x00;
   U4 0xE1 0x86 0xA0 0x00; U4 0xE1 0x86 0xA1 0x00; U4 0xE1 0x86 0xA2 0x00; U4 0xE1 0x86 0xA3 0x00;
   U4 0xE1 0x86 0xA4 0x00; U4 0xE1 0x86 0xA5 0x00; U4 0xE1 0x86 0xA6 0x00; U4 0xE1 0x86 0xA7 0x00;
   U4 0xE1 0x86 0xA8 0x00; U4 0xE1 0x86 0xA9 0x00; U4 0xE1 0x86 0xAA 0x00; U4 0xE1 0x86 0xAB 0x00;
   U4 0xE1 0x86 0xAC 0x00; U4 0xE1 0x86 0xAD 0x00; U4 0xE1 0x86 0xAE 0x00; U4 0xE1 0x86 0xAF 0x00;
   U4 0xE1 0x86 0xB0 0x00; U4 0xE1 0x86 0xB1 0x00; U4 0xE1 0x86 0xB2 0x00; U4 0xE1 0x86 0xB3 0x00;
   U4 0xE1 0x86 0xB4 0x00; U4 0xE1 0x86 0xB5 0x00; U4 0xE1 0x86 0xB6 0x00; U4 0xE1 0x86 0xB7 0x00;
   U4 0xE1 0x86 0xB8 0x00; U4 0xE1 0x86 0xB9 0x00; U4 0xE1 0x86 0xBA 0x00; U4 0xE1 0x86 0xBB 0x00;
   U4 0xE1 0x86 0xBC 0x00; U4 0xE1 0x86 0xBD 0x00; U4 0xE1 0x86 0xBE 0x00; U4 0xE1 0x86 0xBF 0x00].

Definition PLANE_3_E1_87 : Plane4Bytes :=
  [U4 0xE1 0x87 0x80 0x00; U4 0xE1 0x87 0x81 0x00; U4 0xE1 0x87 0x82 0x00; U4 0xE1 0x87 0x83 0x00;
   U4 0xE1 0x87 0x84 0x00; U4 0xE1 0x87 0x85 0x00; U4 0xE1 0x87 0x86 0x00; U4 0xE1 0x87 0x87 0x00;
   U4 0xE1 0x87 0x88 0x00; U4 0xE1 0x87 0x89 0x00; U4 0xE1 0x87 0x8A 0x00; U4 0xE1 0x87 0x8B 0x00;
   U4 0xE1 0x87 0x8C 0x00; U4 0xE1 0x87 0x8D 0x00; U4 0xE1 0x87 0x8E 0x00; U4 0xE1 0x87 0x8F 0x00;
   U4 0xE1 0x87 0x90 0x00; U4 0xE1 0x87 0x91 0x00; U4 0xE1 0x87 0x92 0x00; U4 0xE1 0x87 0x93 0x00;
   U4 0xE1 0x87 0x94 0x00; U4 0xE1 0x87 0x95 0x00; U4 0xE1 0x87 0x96 0x00; U4 0xE1 0x87 0x97 0x00;
   U4 0xE1 0x87 0x98 0x00; U4 0xE1 0x87 0x99 0x00; U4 0xE1 0x87 0x9A 0x00; U4 0xE1 0x87 0x9B 0x00;
   U4 0xE1 0x87 0x9C 0x00; U4 0xE1 0x87 0x9D 0x00; U4 0xE1 0x87 0x9E 0x00; U4 0xE1 0x87 0x9F 0x00;
   U4 0xE1 0x87 0xA0 0x00; U4 0xE1 0x87 0xA1 0x00; U4 0xE1 0x87 0xA2 0x00; U4 0xE1 0x87 0xA3 0x00;
   U4 0xE1 0x87 0xA4 0x00; U4 0xE1 0x87 0xA5 0x00; U4 0xE1 0x87 0xA6 0x00; U4 0xE1 0x87 0xA7 0x00;
   U4 0xE1 0x87 0xA8 0x00; U4 0xE1 0x87 0xA9 0x00; U4 0xE1 0x87 0xAA 0x00; U4 0xE1 0x87 0xAB 0x00;
   U4 0xE1 0x87 0xAC 0x00; U4 0xE1 0x87 0xAD 0x00; U4 0xE1 0x87 0xAE 0x00; U4 0xE1 0x87 0xAF 0x00;
   U4 0xE1 0x87 0xB0 0x00; U4 0xE1 0x87 0xB1 0x00; U4 0xE1 0x87 0xB2 0x00; U4 0xE1 0x87 0xB3 0x00;
   U4 0xE1 0x87 0xB4 0x00; U4 0xE1 0x87 0xB5 0x00; U4 0xE1 0x87 0xB6 0x00; U4 0xE1 0x87 0xB7 0x00;
   U4 0xE1 0x87 0xB8 0x00; U4 0xE1 0x87 0xB9 0x00; U4 0xE1 0x87 0xBA 0x00; U4 0xE1 0x87 0xBB 0x00;
   U4 0xE1 0x87 0xBC 0x00; U4 0xE1 0x87 0xBD 0x00; U4 0xE1 0x87 0xBE 0x00; U4 0xE1 0x87 0xBF 0x00].

Definition PLANE_3_E1_88 : Plane4Bytes :=
  [U4 0xE1 0x88 0x80 0x00; U4 0xE1 0x88 0x81 0x00; U4 0xE1 0x88 0x82 0x00; U4 0xE1 0x88 0x83 0x00;
   U4 0xE1 0x88 0x84 0x00; U4 0xE1 0x88 0x85 0x00; U4 0xE1 0x88 0x86 0x00; U4 0xE1 0x88 0x87 0x00;
   U4 0xE1 0x88 0x88 0x00; U4 0xE1 0x88 0x89 0x00; U4 0xE1 0x88 0x8A 0x00; U4 0xE1 0x88 0x8B 0x00;
   U4 0xE1 0x88 0x8C 0x00; U4 0xE1 0x88 0x8D 0x00; U4 0xE1 0x88 0x8E 0x00; U4 0xE1 0x88 0x8F 0x00;
   U4 0xE1 0x88 0x90 0x00; U4 0xE1 0x88 0x91 0x00; U4 0xE1 0x88 0x92 0x00; U4 0xE1 0x88 0x93 0x00;
   U4 0xE1 0x88 0x94 0x00; U4 0xE1 0x88 0x95 0x00; U4 0xE1 0x88 0x96 0x00; U4 0xE1 0x88 0x97 0x00;
   U4 0xE1 0x88 0x98 0x00; U4 0xE1 0x88 0x99 0x00; U4 0xE1 0x88 0x9A 0x00; U4 0xE1 0x88 0x9B 0x00;
   U4 0xE1 0x88 0x9C 0x00; U4 0xE1 0x88 0x9D 0x00; U4 0xE1 0x88 0x9E 0x00; U4 0xE1 0x88 0x9F 0x00;
   U4 0xE1 0x88 0xA0 0x00; U4 0xE1 0x88 0xA1 0x00; U4 0xE1 0x88 0xA2 0x00; U4 0xE1 0x88 0xA3 0x00;
   U4 0xE1 0x88 0xA4 0x00; U4 0xE1 0x88 0xA5 0x00; U4 0xE1 0x88 0xA6 0x00; U4 0xE1 0x88 0xA7 0x00;
   U4 0xE1 0x88 0xA8 0x00; U4 0xE1 0x88 0xA9 0x00; U4 0xE1 0x88 0xAA 0x00; U4 0xE1 0x88 0xAB 0x00;
   U4 0xE1 0x88 0xAC 0x00; U4 0xE1 0x88 0xAD 0x00; U4 0xE1 0x88 0xAE 0x00; U4 0xE1 0x88 0xAF 0x00;
   U4 0xE1 0x88 0xB0 0x00; U4 0xE1 0x88 0xB1 0x00; U4 0xE1 0x88 0xB2 0x00; U4 0xE1 0x88 0xB3 0x00;
   U4 0xE1 0x88 0xB4 0x00; U4 0xE1 0x88 0xB5 0x00; U4 0xE1 0x88 0xB6 0x00; U4 0xE1 0x88 0xB7 0x00;
   U4 0xE1 0x88 0xB8 0x00; U4 0xE1 0x88 0xB9 0x00; U4 0xE1 0x88 0xBA 0x00; U4 0xE1 0x88 0xBB 0x00;
   U4 0xE1 0x88 0xBC 0x00; U4 0xE1 0x88 0xBD 0x00; U4 0xE1 0x88 0xBE 0x00; U4 0xE1 0x88 0xBF 0x00].

Definition PLANE_3_E1_89 : Plane4Bytes :=
  [U4 0xE1 0x89 0x80 0x00; U4 0xE1 0x89 0x81 0x00; U4 0xE1 0x89 0x82 0x00; U4 0xE1 0x89 0x83 0x00;
   U4 0xE1 0x89 0x84 0x00; U4 0xE1 0x89 0x85 0x00; U4 0xE1 0x89 0x86 0x00; U4 0xE1 0x89 0x87 0x00;
   U4 0xE1 0x89 0x88 0x00; U4 0xE1 0x89 0x89 0x00; U4 0xE1 0x89 0x8A 0x00; U4 0xE1 0x89 0x8B 0x00;
   U4 0xE1 0x89 0x8C 0x00; U4 0xE1 0x89 0x8D 0x00; U4 0xE1 0x89 0x8E 0x00; U4 0xE1 0x89 0x8F 0x00;
   U4 0xE1 0x89 0x90 0x00; U4 0xE1 0x89 0x91 0x00; U4 0xE1 0x89 0x92 0x00; U4 0xE1 0x89 0x93 0x00;
   U4 0xE1 0x89 0x94 0x00; U4 0xE1 0x89 0x95 0x00; U4 0xE1 0x89 0x96 0x00; U4 0xE1 0x89 0x97 0x00;
   U4 0xE1 0x89 0x98 0x00; U4 0xE1 0x89 0x99 0x00; U4 0xE1 0x89 0x9A 0x00; U4 0xE1 0x89 0x9B 0x00;
   U4 0xE1 0x89 0x9C 0x00; U4 0xE1 0x89 0x9D 0x00; U4 0xE1 0x89 0x9E 0x00; U4 0xE1 0x89 0x9F 0x00;
   U4 0xE1 0x89 0xA0 0x00; U4 0xE1 0x89 0xA1 0x00; U4 0xE1 0x89 0xA2 0x00; U4 0xE1 0x89 0xA3 0x00;
   U4 0xE1 0x89 0xA4 0x00; U4 0xE1 0x89 0xA5 0x00; U4 0xE1 0x89 0xA6 0x00; U4 0xE1 0x89 0xA7 0x00;
   U4 0xE1 0x89 0xA8 0x00; U4 0xE1 0x89 0xA9 0x00; U4 0xE1 0x89 0xAA 0x00; U4 0xE1 0x89 0xAB 0x00;
   U4 0xE1 0x89 0xAC 0x00; U4 0xE1 0x89 0xAD 0x00; U4 0xE1 0x89 0xAE 0x00; U4 0xE1 0x89 0xAF 0x00;
   U4 0xE1 0x89 0xB0 0x00; U4 0xE1 0x89 0xB1 0x00; U4 0xE1 0x89 0xB2 0x00; U4 0xE1 0x89 0xB3 0x00;
   U4 0xE1 0x89 0xB4 0x00; U4 0xE1 0x89 0xB5 0x00; U4 0xE1 0x89 0xB6 0x00; U4 0xE1 0x89 0xB7 0x00;
   U4 0xE1 0x89 0xB8 0x00; U4 0xE1 0x89 0xB9 0x00; U4 0xE1 0x89 0xBA 0x00; U4 0xE1 0x89 0xBB 0x00;
   U4 0xE1 0x89 0xBC 0x00; U4 0xE1 0x89 0xBD 0x00; U4 0xE1 0x89 0xBE 0x00; U4 0xE1 0x89 0xBF 0x00].

Definition PLANE_3_E1_8A : Plane4Bytes :=
  [U4 0xE1 0x8A 0x80 0x00; U4 0xE1 0x8A 0x81 0x00; U4 0xE1 0x8A 0x82 0x00; U4 0xE1 0x8A 0x83 0x00;
   U4 0xE1 0x8A 0x84 0x00; U4 0xE1 0x8A 0x85 0x00; U4 0xE1 0x8A 0x86 0x00; U4 0xE1 0x8A 0x87 0x00;
   U4 0xE1 0x8A 0x88 0x00; U4 0xE1 0x8A 0x89 0x00; U4 0xE1 0x8A 0x8A 0x00; U4 0xE1 0x8A 0x8B 0x00;
   U4 0xE1 0x8A 0x8C 0x00; U4 0xE1 0x8A 0x8D 0x00; U4 0xE1 0x8A 0x8E 0x00; U4 0xE1 0x8A 0x8F 0x00;
   U4 0xE1 0x8A 0x90 0x00; U4 0xE1 0x8A 0x91 0x00; U4 0xE1 0x8A 0x92 0x00; U4 0xE1 0x8A 0x93 0x00;
   U4 0xE1 0x8A 0x94 0x00; U4 0xE1 0x8A 0x95 0x00; U4 0xE1 0x8A 0x96 0x00; U4 0xE1 0x8A 0x97 0x00;
   U4 0xE1 0x8A 0x98 0x00; U4 0xE1 0x8A 0x99 0x00; U4 0xE1 0x8A 0x9A 0x00; U4 0xE1 0x8A 0x9B 0x00;
   U4 0xE1 0x8A 0x9C 0x00; U4 0xE1 0x8A 0x9D 0x00; U4 0xE1 0x8A 0x9E 0x00; U4 0xE1 0x8A 0x9F 0x00;
   U4 0xE1 0x8A 0xA0 0x00; U4 0xE1 0x8A 0xA1 0x00; U4 0xE1 0x8A 0xA2 0x00; U4 0xE1 0x8A 0xA3 0x00;
   U4 0xE1 0x8A 0xA4 0x00; U4 0xE1 0x8A 0xA5 0x00; U4 0xE1 0x8A 0xA6 0x00; U4 0xE1 0x8A 0xA7 0x00;
   U4 0xE1 0x8A 0xA8 0x00; U4 0xE1 0x8A 0xA9 0x00; U4 0xE1 0x8A 0xAA 0x00; U4 0xE1 0x8A 0xAB 0x00;
   U4 0xE1 0x8A 0xAC 0x00; U4 0xE1 0x8A 0xAD 0x00; U4 0xE1 0x8A 0xAE 0x00; U4 0xE1 0x8A 0xAF 0x00;
   U4 0xE1 0x8A 0xB0 0x00; U4 0xE1 0x8A 0xB1 0x00; U4 0xE1 0x8A 0xB2 0x00; U4 0xE1 0x8A 0xB3 0x00;
   U4 0xE1 0x8A 0xB4 0x00; U4 0xE1 0x8A 0xB5 0x00; U4 0xE1 0x8A 0xB6 0x00; U4 0xE1 0x8A 0xB7 0x00;
   U4 0xE1 0x8A 0xB8 0x00; U4 0xE1 0x8A 0xB9 0x00; U4 0xE1 0x8A 0xBA 0x00; U4 0xE1 0x8A 0xBB 0x00;
   U4 0xE1 0x8A 0xBC 0x00; U4 0xE1 0x8A 0xBD 0x00; U4 0xE1 0x8A 0xBE 0x00; U4 0xE1 0x8A 0xBF 0x00].

Definition PLANE_3_E1_8B : Plane4Bytes :=
  [U4 0xE1 0x8B 0x80 0x00; U4 0xE1 0x8B 0x81 0x00; U4 0xE1 0x8B 0x82 0x00; U4 0xE1 0x8B 0x83 0x00;
   U4 0xE1 0x8B 0x84 0x00; U4 0xE1 0x8B 0x85 0x00; U4 0xE1 0x8B 0x86 0x00; U4 0xE1 0x8B 0x87 0x00;
   U4 0xE1 0x8B 0x88 0x00; U4 0xE1 0x8B 0x89 0x00; U4 0xE1 0x8B 0x8A 0x00; U4 0xE1 0x8B 0x8B 0x00;
   U4 0xE1 0x8B 0x8C 0x00; U4 0xE1 0x8B 0x8D 0x00; U4 0xE1 0x8B 0x8E 0x00; U4 0xE1 0x8B 0x8F 0x00;
   U4 0xE1 0x8B 0x90 0x00; U4 0xE1 0x8B 0x91 0x00; U4 0xE1 0x8B 0x92 0x00; U4 0xE1 0x8B 0x93 0x00;
   U4 0xE1 0x8B 0x94 0x00; U4 0xE1 0x8B 0x95 0x00; U4 0xE1 0x8B 0x96 0x00; U4 0xE1 0x8B 0x97 0x00;
   U4 0xE1 0x8B 0x98 0x00; U4 0xE1 0x8B 0x99 0x00; U4 0xE1 0x8B 0x9A 0x00; U4 0xE1 0x8B 0x9B 0x00;
   U4 0xE1 0x8B 0x9C 0x00; U4 0xE1 0x8B 0x9D 0x00; U4 0xE1 0x8B 0x9E 0x00; U4 0xE1 0x8B 0x9F 0x00;
   U4 0xE1 0x8B 0xA0 0x00; U4 0xE1 0x8B 0xA1 0x00; U4 0xE1 0x8B 0xA2 0x00; U4 0xE1 0x8B 0xA3 0x00;
   U4 0xE1 0x8B 0xA4 0x00; U4 0xE1 0x8B 0xA5 0x00; U4 0xE1 0x8B 0xA6 0x00; U4 0xE1 0x8B 0xA7 0x00;
   U4 0xE1 0x8B 0xA8 0x00; U4 0xE1 0x8B 0xA9 0x00; U4 0xE1 0x8B 0xAA 0x00; U4 0xE1 0x8B 0xAB 0x00;
   U4 0xE1 0x8B 0xAC 0x00; U4 0xE1 0x8B 0xAD 0x00; U4 0xE1 0x8B 0xAE 0x00; U4 0xE1 0x8B 0xAF 0x00;
   U4 0xE1 0x8B 0xB0 0x00; U4 0xE1 0x8B 0xB1 0x00; U4 0xE1 0x8B 0xB2 0x00; U4 0xE1 0x8B 0xB3 0x00;
   U4 0xE1 0x8B 0xB4 0x00; U4 0xE1 0x8B 0xB5 0x00; U4 0xE1 0x8B 0xB6 0x00; U4 0xE1 0x8B 0xB7 0x00;
   U4 0xE1 0x8B 0xB8 0x00; U4 0xE1 0x8B 0xB9 0x00; U4 0xE1 0x8B 0xBA 0x00; U4 0xE1 0x8B 0xBB 0x00;
   U4 0xE1 0x8B 0xBC 0x00; U4 0xE1 0x8B 0xBD 0x00; U4 0xE1 0x8B 0xBE 0x00; U4 0xE1 0x8B 0xBF 0x00].

Definition PLANE_3_E1_8C : Plane4Bytes :=
  [U4 0xE1 0x8C 0x80 0x00; U4 0xE1 0x8C 0x81 0x00; U4 0xE1 0x8C 0x82 0x00; U4 0xE1 0x8C 0x83 0x00;
   U4 0xE1 0x8C 0x84 0x00; U4 0xE1 0x8C 0x85 0x00; U4 0xE1 0x8C 0x86 0x00; U4 0xE1 0x8C 0x87 0x00;
   U4 0xE1 0x8C 0x88 0x00; U4 0xE1 0x8C 0x89 0x00; U4 0xE1 0x8C 0x8A 0x00; U4 0xE1 0x8C 0x8B 0x00;
   U4 0xE1 0x8C 0x8C 0x00; U4 0xE1 0x8C 0x8D 0x00; U4 0xE1 0x8C 0x8E 0x00; U4 0xE1 0x8C 0x8F 0x00;
   U4 0xE1 0x8C 0x90 0x00; U4 0xE1 0x8C 0x91 0x00; U4 0xE1 0x8C 0x92 0x00; U4 0xE1 0x8C 0x93 0x00;
   U4 0xE1 0x8C 0x94 0x00; U4 0xE1 0x8C 0x95 0x00; U4 0xE1 0x8C 0x96 0x00; U4 0xE1 0x8C 0x97 0x00;
   U4 0xE1 0x8C 0x98 0x00; U4 0xE1 0x8C 0x99 0x00; U4 0xE1 0x8C 0x9A 0x00; U4 0xE1 0x8C 0x9B 0x00;
   U4 0xE1 0x8C 0x9C 0x00; U4 0xE1 0x8C 0x9D 0x00; U4 0xE1 0x8C 0x9E 0x00; U4 0xE1 0x8C 0x9F 0x00;
   U4 0xE1 0x8C 0xA0 0x00; U4 0xE1 0x8C 0xA1 0x00; U4 0xE1 0x8C 0xA2 0x00; U4 0xE1 0x8C 0xA3 0x00;
   U4 0xE1 0x8C 0xA4 0x00; U4 0xE1 0x8C 0xA5 0x00; U4 0xE1 0x8C 0xA6 0x00; U4 0xE1 0x8C 0xA7 0x00;
   U4 0xE1 0x8C 0xA8 0x00; U4 0xE1 0x8C 0xA9 0x00; U4 0xE1 0x8C 0xAA 0x00; U4 0xE1 0x8C 0xAB 0x00;
   U4 0xE1 0x8C 0xAC 0x00; U4 0xE1 0x8C 0xAD 0x00; U4 0xE1 0x8C 0xAE 0x00; U4 0xE1 0x8C 0xAF 0x00;
   U4 0xE1 0x8C 0xB0 0x00; U4 0xE1 0x8C 0xB1 0x00; U4 0xE1 0x8C 0xB2 0x00; U4 0xE1 0x8C 0xB3 0x00;
   U4 0xE1 0x8C 0xB4 0x00; U4 0xE1 0x8C 0xB5 0x00; U4 0xE1 0x8C 0xB6 0x00; U4 0xE1 0x8C 0xB7 0x00;
   U4 0xE1 0x8C 0xB8 0x00; U4 0xE1 0x8C 0xB9 0x00; U4 0xE1 0x8C 0xBA 0x00; U4 0xE1 0x8C 0xBB 0x00;
   U4 0xE1 0x8C 0xBC 0x00; U4 0xE1 0x8C 0xBD 0x00; U4 0xE1 0x8C 0xBE 0x00; U4 0xE1 0x8C 0xBF 0x00].

Definition PLANE_3_E1_8D : Plane4Bytes :=
  [U4 0xE1 0x8D 0x80 0x00; U4 0xE1 0x8D 0x81 0x00; U4 0xE1 0x8D 0x82 0x00; U4 0xE1 0x8D 0x83 0x00;
   U4 0xE1 0x8D 0x84 0x00; U4 0xE1 0x8D 0x85 0x00; U4 0xE1 0x8D 0x86 0x00; U4 0xE1 0x8D 0x87 0x00;
   U4 0xE1 0x8D 0x88 0x00; U4 0xE1 0x8D 0x89 0x00; U4 0xE1 0x8D 0x8A 0x00; U4 0xE1 0x8D 0x8B 0x00;
   U4 0xE1 0x8D 0x8C 0x00; U4 0xE1 0x8D 0x8D 0x00; U4 0xE1 0x8D 0x8E 0x00; U4 0xE1 0x8D 0x8F 0x00;
   U4 0xE1 0x8D 0x90 0x00; U4 0xE1 0x8D 0x91 0x00; U4 0xE1 0x8D 0x92 0x00; U4 0xE1 0x8D 0x93 0x00;
   U4 0xE1 0x8D 0x94 0x00; U4 0xE1 0x8D 0x95 0x00; U4 0xE1 0x8D 0x96 0x00; U4 0xE1 0x8D 0x97 0x00;
   U4 0xE1 0x8D 0x98 0x00; U4 0xE1 0x8D 0x99 0x00; U4 0xE1 0x8D 0x9A 0x00; U4 0xE1 0x8D 0x9B 0x00;
   U4 0xE1 0x8D 0x9C 0x00; U4 0xE1 0x8D 0x9D 0x00; U4 0xE1 0x8D 0x9E 0x00; U4 0xE1 0x8D 0x9F 0x00;
   U4 0xE1 0x8D 0xA0 0x00; U4 0xE1 0x8D 0xA1 0x00; U4 0xE1 0x8D 0xA2 0x00; U4 0xE1 0x8D 0xA3 0x00;
   U4 0xE1 0x8D 0xA4 0x00; U4 0xE1 0x8D 0xA5 0x00; U4 0xE1 0x8D 0xA6 0x00; U4 0xE1 0x8D 0xA7 0x00;
   U4 0xE1 0x8D 0xA8 0x00; U4 0xE1 0x8D 0xA9 0x00; U4 0xE1 0x8D 0xAA 0x00; U4 0xE1 0x8D 0xAB 0x00;
   U4 0xE1 0x8D 0xAC 0x00; U4 0xE1 0x8D 0xAD 0x00; U4 0xE1 0x8D 0xAE 0x00; U4 0xE1 0x8D 0xAF 0x00;
   U4 0xE1 0x8D 0xB0 0x00; U4 0xE1 0x8D 0xB1 0x00; U4 0xE1 0x8D 0xB2 0x00; U4 0xE1 0x8D 0xB3 0x00;
   U4 0xE1 0x8D 0xB4 0x00; U4 0xE1 0x8D 0xB5 0x00; U4 0xE1 0x8D 0xB6 0x00; U4 0xE1 0x8D 0xB7 0x00;
   U4 0xE1 0x8D 0xB8 0x00; U4 0xE1 0x8D 0xB9 0x00; U4 0xE1 0x8D 0xBA 0x00; U4 0xE1 0x8D 0xBB 0x00;
   U4 0xE1 0x8D 0xBC 0x00; U4 0xE1 0x8D 0xBD 0x00; U4 0xE1 0x8D 0xBE 0x00; U4 0xE1 0x8D 0xBF 0x00].

Definition PLANE_3_E1_8E : Plane4Bytes :=
  [U4 0xE1 0x8E 0x80 0x00; U4 0xE1 0x8E 0x81 0x00; U4 0xE1 0x8E 0x82 0x00; U4 0xE1 0x8E 0x83 0x00;
   U4 0xE1 0x8E 0x84 0x00; U4 0xE1 0x8E 0x85 0x00; U4 0xE1 0x8E 0x86 0x00; U4 0xE1 0x8E 0x87 0x00;
   U4 0xE1 0x8E 0x88 0x00; U4 0xE1 0x8E 0x89 0x00; U4 0xE1 0x8E 0x8A 0x00; U4 0xE1 0x8E 0x8B 0x00;
   U4 0xE1 0x8E 0x8C 0x00; U4 0xE1 0x8E 0x8D 0x00; U4 0xE1 0x8E 0x8E 0x00; U4 0xE1 0x8E 0x8F 0x00;
   U4 0xE1 0x8E 0x90 0x00; U4 0xE1 0x8E 0x91 0x00; U4 0xE1 0x8E 0x92 0x00; U4 0xE1 0x8E 0x93 0x00;
   U4 0xE1 0x8E 0x94 0x00; U4 0xE1 0x8E 0x95 0x00; U4 0xE1 0x8E 0x96 0x00; U4 0xE1 0x8E 0x97 0x00;
   U4 0xE1 0x8E 0x98 0x00; U4 0xE1 0x8E 0x99 0x00; U4 0xE1 0x8E 0x9A 0x00; U4 0xE1 0x8E 0x9B 0x00;
   U4 0xE1 0x8E 0x9C 0x00; U4 0xE1 0x8E 0x9D 0x00; U4 0xE1 0x8E 0x9E 0x00; U4 0xE1 0x8E 0x9F 0x00;
   U4 0xEA 0xAD 0xB0 0x00; U4 0xEA 0xAD 0xB1 0x00; U4 0xEA 0xAD 0xB2 0x00; U4 0xEA 0xAD 0xB3 0x00;
   U4 0xEA 0xAD 0xB4 0x00; U4 0xEA 0xAD 0xB5 0x00; U4 0xEA 0xAD 0xB6 0x00; U4 0xEA 0xAD 0xB7 0x00;
   U4 0xEA 0xAD 0xB8 0x00; U4 0xEA 0xAD 0xB9 0x00; U4 0xEA 0xAD 0xBA 0x00; U4 0xEA 0xAD 0xBB 0x00;
   U4 0xEA 0xAD 0xBC 0x00; U4 0xEA 0xAD 0xBD 0x00; U4 0xEA 0xAD 0xBE 0x00; U4 0xEA 0xAD 0xBF 0x00;
   U4 0xEA 0xAE 0x80 0x00; U4 0xEA 0xAE 0x81 0x00; U4 0xEA 0xAE 0x82 0x00; U4 0xEA 0xAE 0x83 0x00;
   U4 0xEA 0xAE 0x84 0x00; U4 0xEA 0xAE 0x85 0x00; U4 0xEA 0xAE 0x86 0x00; U4 0xEA 0xAE 0x87 0x00;
   U4 0xEA 0xAE 0x88 0x00; U4 0xEA 0xAE 0x89 0x00; U4 0xEA 0xAE 0x8A 0x00; U4 0xEA 0xAE 0x8B 0x00;
   U4 0xEA 0xAE 0x8C 0x00; U4 0xEA 0xAE 0x8D 0x00; U4 0xEA 0xAE 0x8E 0x00; U4 0xEA 0xAE 0x8F 0x00].

Definition PLANE_3_E1_8F : Plane4Bytes :=
  [U4 0xEA 0xAE 0x90 0x00; U4 0xEA 0xAE 0x91 0x00; U4 0xEA 0xAE 0x92 0x00; U4 0xEA 0xAE 0x93 0x00;
   U4 0xEA 0xAE 0x94 0x00; U4 0xEA 0xAE 0x95 0x00; U4 0xEA 0xAE 0x96 0x00; U4 0xEA 0xAE 0x97 0x00;
   U4 0xEA 0xAE 0x98 0x00; U4 0xEA 0xAE 0x99 0x00; U4 0xEA 0xAE 0x9A 0x00; U4 0xEA 0xAE 0x9B 0x00;
   U4 0xEA 0xAE 0x9C 0x00; U4 0xEA 0xAE 0x9D 0x00; U4 0xEA 0xAE 0x9E 0x00; U4 0xEA 0xAE 0x9F 0x00;
   U4 0xEA 0xAE 0xA0 0x00; U4 0xEA 0xAE 0xA1 0x00; U4 0xEA 0xAE 0xA2 0x00; U4 0xEA 0xAE 0xA3 0x00;
   U4 0xEA 0xAE 0xA4 0x00; U4 0xEA 0xAE 0xA5 0x00; U4 0xEA 0xAE 0xA6 0x00; U4 0xEA 0xAE 0xA7 0x00;
   U4 0xEA 0xAE 0xA8 0x00; U4 0xEA 0xAE 0xA9 0x00; U4 0xEA 0xAE 0xAA 0x00; U4 0xEA 0xAE 0xAB 0x00;
   U4 0xEA 0xAE 0xAC 0x00; U4 0xEA 0xAE 0xAD 0x00; U4 0xEA 0xAE 0xAE 0x00; U4 0xEA 0xAE 0xAF 0x00;
   U4 0xEA 0xAE 0xB0 0x00; U4 0xEA 0xAE 0xB1 0x00; U4 0xEA 0xAE 0xB2 0x00; U4 0xEA 0xAE 0xB3 0x00;
   U4 0xEA 0xAE 0xB4 0x00; U4 0xEA 0xAE 0xB5 0x00; U4 0xEA 0xAE 0xB6 0x00; U4 0xEA 0xAE 0xB7 0x00;
   U4 0xEA 0xAE 0xB8 0x00; U4 0xEA 0xAE 0xB9 0x00; U4 0xEA 0xAE 0xBA 0x00; U4 0xEA 0xAE 0xBB 0x00;
   U4 0xEA 0xAE 0xBC 0x00; U4 0xEA 0xAE 0xBD 0x00; U4 0xEA 0xAE 0xBE 0x00; U4 0xEA 0xAE 0xBF 0x00;
   U4 0xE1 0x8F 0xB8 0x00; U4 0xE1 0x8F 0xB9 0x00; U4 0xE1 0x8F 0xBA 0x00; U4 0xE1 0x8F 0xBB 0x00;
   U4 0xE1 0x8F 0xBC 0x00; U4 0xE1 0x8F 0xBD 0x00; U4 0xE1 0x8F 0xB6 0x00; U4 0xE1 0x8F 0xB7 0x00;
   U4 0xE1 0x8F 0xB8 0x00; U4 0xE1 0x8F 0xB9 0x00; U4 0xE1 0x8F 0xBA 0x00; U4 0xE1 0x8F 0xBB 0x00;
   U4 0xE1 0x8F 0xBC 0x00; U4 0xE1 0x8F 0xBD 0x00; U4 0xE1 0x8F 0xBE 0x00; U4 0xE1 0x8F 0xBF 0x00].

Definition PLANE_3_E1_90 : Plane4Bytes :=
  [U4 0xE1 0x90 0x80 0x00; U4 0xE1 0x90 0x81 0x00; U4 0xE1 0x90 0x82 0x00; U4 0xE1 0x90 0x83 0x00;
   U4 0xE1 0x90 0x84 0x00; U4 0xE1 0x90 0x85 0x00; U4 0xE1 0x90 0x86 0x00; U4 0xE1 0x90 0x87 0x00;
   U4 0xE1 0x90 0x88 0x00; U4 0xE1 0x90 0x89 0x00; U4 0xE1 0x90 0x8A 0x00; U4 0xE1 0x90 0x8B 0x00;
   U4 0xE1 0x90 0x8C 0x00; U4 0xE1 0x90 0x8D 0x00; U4 0xE1 0x90 0x8E 0x00; U4 0xE1 0x90 0x8F 0x00;
   U4 0xE1 0x90 0x90 0x00; U4 0xE1 0x90 0x91 0x00; U4 0xE1 0x90 0x92 0x00; U4 0xE1 0x90 0x93 0x00;
   U4 0xE1 0x90 0x94 0x00; U4 0xE1 0x90 0x95 0x00; U4 0xE1 0x90 0x96 0x00; U4 0xE1 0x90 0x97 0x00;
   U4 0xE1 0x90 0x98 0x00; U4 0xE1 0x90 0x99 0x00; U4 0xE1 0x90 0x9A 0x00; U4 0xE1 0x90 0x9B 0x00;
   U4 0xE1 0x90 0x9C 0x00; U4 0xE1 0x90 0x9D 0x00; U4 0xE1 0x90 0x9E 0x00; U4 0xE1 0x90 0x9F 0x00;
   U4 0xE1 0x90 0xA0 0x00; U4 0xE1 0x90 0xA1 0x00; U4 0xE1 0x90 0xA2 0x00; U4 0xE1 0x90 0xA3 0x00;
   U4 0xE1 0x90 0xA4 0x00; U4 0xE1 0x90 0xA5 0x00; U4 0xE1 0x90 0xA6 0x00; U4 0xE1 0x90 0xA7 0x00;
   U4 0xE1 0x90 0xA8 0x00; U4 0xE1 0x90 0xA9 0x00; U4 0xE1 0x90 0xAA 0x00; U4 0xE1 0x90 0xAB 0x00;
   U4 0xE1 0x90 0xAC 0x00; U4 0xE1 0x90 0xAD 0x00; U4 0xE1 0x90 0xAE 0x00; U4 0xE1 0x90 0xAF 0x00;
   U4 0xE1 0x90 0xB0 0x00; U4 0xE1 0x90 0xB1 0x00; U4 0xE1 0x90 0xB2 0x00; U4 0xE1 0x90 0xB3 0x00;
   U4 0xE1 0x90 0xB4 0x00; U4 0xE1 0x90 0xB5 0x00; U4 0xE1 0x90 0xB6 0x00; U4 0xE1 0x90 0xB7 0x00;
   U4 0xE1 0x90 0xB8 0x00; U4 0xE1 0x90 0xB9 0x00; U4 0xE1 0x90 0xBA 0x00; U4 0xE1 0x90 0xBB 0x00;
   U4 0xE1 0x90 0xBC 0x00; U4 0xE1 0x90 0xBD 0x00; U4 0xE1 0x90 0xBE 0x00; U4 0xE1 0x90 0xBF 0x00].

Definition PLANE_3_E1_91 : Plane4Bytes :=
  [U4 0xE1 0x91 0x80 0x00; U4 0xE1 0x91 0x81 0x00; U4 0xE1 0x91 0x82 0x00; U4 0xE1 0x91 0x83 0x00;
   U4 0xE1 0x91 0x84 0x00; U4 0xE1 0x91 0x85 0x00; U4 0xE1 0x91 0x86 0x00; U4 0xE1 0x91 0x87 0x00;
   U4 0xE1 0x91 0x88 0x00; U4 0xE1 0x91 0x89 0x00; U4 0xE1 0x91 0x8A 0x00; U4 0xE1 0x91 0x8B 0x00;
   U4 0xE1 0x91 0x8C 0x00; U4 0xE1 0x91 0x8D 0x00; U4 0xE1 0x91 0x8E 0x00; U4 0xE1 0x91 0x8F 0x00;
   U4 0xE1 0x91 0x90 0x00; U4 0xE1 0x91 0x91 0x00; U4 0xE1 0x91 0x92 0x00; U4 0xE1 0x91 0x93 0x00;
   U4 0xE1 0x91 0x94 0x00; U4 0xE1 0x91 0x95 0x00; U4 0xE1 0x91 0x96 0x00; U4 0xE1 0x91 0x97 0x00;
   U4 0xE1 0x91 0x98 0x00; U4 0xE1 0x91 0x99 0x00; U4 0xE1 0x91 0x9A 0x00; U4 0xE1 0x91 0x9B 0x00;
   U4 0xE1 0x91 0x9C 0x00; U4 0xE1 0x91 0x9D 0x00; U4 0xE1 0x91 0x9E 0x00; U4 0xE1 0x91 0x9F 0x00;
   U4 0xE1 0x91 0xA0 0x00; U4 0xE1 0x91 0xA1 0x00; U4 0xE1 0x91 0xA2 0x00; U4 0xE1 0x91 0xA3 0x00;
   U4 0xE1 0x91 0xA4 0x00; U4 0xE1 0x91 0xA5 0x00; U4 0xE1 0x91 0xA6 0x00; U4 0xE1 0x91 0xA7 0x00;
   U4 0xE1 0x91 0xA8 0x00; U4 0xE1 0x91 0xA9 0x00; U4 0xE1 0x91 0xAA 0x00; U4 0xE1 0x91 0xAB 0x00;
   U4 0xE1 0x91 0xAC 0x00; U4 0xE1 0x91 0xAD 0x00; U4 0xE1 0x91 0xAE 0x00; U4 0xE1 0x91 0xAF 0x00;
   U4 0xE1 0x91 0xB0 0x00; U4 0xE1 0x91 0xB1 0x00; U4 0xE1 0x91 0xB2 0x00; U4 0xE1 0x91 0xB3 0x00;
   U4 0xE1 0x91 0xB4 0x00; U4 0xE1 0x91 0xB5 0x00; U4 0xE1 0x91 0xB6 0x00; U4 0xE1 0x91 0xB7 0x00;
   U4 0xE1 0x91 0xB8 0x00; U4 0xE1 0x91 0xB9 0x00; U4 0xE1 0x91 0xBA 0x00; U4 0xE1 0x91 0xBB 0x00;
   U4 0xE1 0x91 0xBC 0x00; U4 0xE1 0x91 0xBD 0x00; U4 0xE1 0x91 0xBE 0x00; U4 0xE1 0x91 0xBF 0x00].

Definition PLANE_3_E1_92 : Plane4Bytes :=
  [U4 0xE1 0x92 0x80 0x00; U4 0xE1 0x92 0x81 0x00; U4 0xE1 0x92 0x82 0x00; U4 0xE1 0x92 0x83 0x00;
   U4 0xE1 0x92 0x84 0x00; U4 0xE1 0x92 0x85 0x00; U4 0xE1 0x92 0x86 0x00; U4 0xE1 0x92 0x87 0x00;
   U4 0xE1 0x92 0x88 0x00; U4 0xE1 0x92 0x89 0x00; U4 0xE1 0x92 0x8A 0x00; U4 0xE1 0x92 0x8B 0x00;
   U4 0xE1 0x92 0x8C 0x00; U4 0xE1 0x92 0x8D 0x00; U4 0xE1 0x92 0x8E 0x00; U4 0xE1 0x92 0x8F 0x00;
   U4 0xE1 0x92 0x90 0x00; U4 0xE1 0x92 0x91 0x00; U4 0xE1 0x92 0x92 0x00; U4 0xE1 0x92 0x93 0x00;
   U4 0xE1 0x92 0x94 0x00; U4 0xE1 0x92 0x95 0x00; U4 0xE1 0x92 0x96 0x00; U4 0xE1 0x92 0x97 0x00;
   U4 0xE1 0x92 0x98 0x00; U4 0xE1 0x92 0x99 0x00; U4 0xE1 0x92 0x9A 0x00; U4 0xE1 0x92 0x9B 0x00;
   U4 0xE1 0x92 0x9C 0x00; U4 0xE1 0x92 0x9D 0x00; U4 0xE1 0x92 0x9E 0x00; U4 0xE1 0x92 0x9F 0x00;
   U4 0xE1 0x92 0xA0 0x00; U4 0xE1 0x92 0xA1 0x00; U4 0xE1 0x92 0xA2 0x00; U4 0xE1 0x92 0xA3 0x00;
   U4 0xE1 0x92 0xA4 0x00; U4 0xE1 0x92 0xA5 0x00; U4 0xE1 0x92 0xA6 0x00; U4 0xE1 0x92 0xA7 0x00;
   U4 0xE1 0x92 0xA8 0x00; U4 0xE1 0x92 0xA9 0x00; U4 0xE1 0x92 0xAA 0x00; U4 0xE1 0x92 0xAB 0x00;
   U4 0xE1 0x92 0xAC 0x00; U4 0xE1 0x92 0xAD 0x00; U4 0xE1 0x92 0xAE 0x00; U4 0xE1 0x92 0xAF 0x00;
   U4 0xE1 0x92 0xB0 0x00; U4 0xE1 0x92 0xB1 0x00; U4 0xE1 0x92 0xB2 0x00; U4 0xE1 0x92 0xB3 0x00;
   U4 0xE1 0x92 0xB4 0x00; U4 0xE1 0x92 0xB5 0x00; U4 0xE1 0x92 0xB6 0x00; U4 0xE1 0x92 0xB7 0x00;
   U4 0xE1 0x92 0xB8 0x00; U4 0xE1 0x92 0xB9 0x00; U4 0xE1 0x92 0xBA 0x00; U4 0xE1 0x92 0xBB 0x00;
   U4 0xE1 0x92 0xBC 0x00; U4 0xE1 0x92 0xBD 0x00; U4 0xE1 0x92 0xBE 0x00; U4 0xE1 0x92 0xBF 0x00].

Definition PLANE_3_E1_93 : Plane4Bytes :=
  [U4 0xE1 0x93 0x80 0x00; U4 0xE1 0x93 0x81 0x00; U4 0xE1 0x93 0x82 0x00; U4 0xE1 0x93 0x83 0x00;
   U4 0xE1 0x93 0x84 0x00; U4 0xE1 0x93 0x85 0x00; U4 0xE1 0x93 0x86 0x00; U4 0xE1 0x93 0x87 0x00;
   U4 0xE1 0x93 0x88 0x00; U4 0xE1 0x93 0x89 0x00; U4 0xE1 0x93 0x8A 0x00; U4 0xE1 0x93 0x8B 0x00;
   U4 0xE1 0x93 0x8C 0x00; U4 0xE1 0x93 0x8D 0x00; U4 0xE1 0x93 0x8E 0x00; U4 0xE1 0x93 0x8F 0x00;
   U4 0xE1 0x93 0x90 0x00; U4 0xE1 0x93 0x91 0x00; U4 0xE1 0x93 0x92 0x00; U4 0xE1 0x93 0x93 0x00;
   U4 0xE1 0x93 0x94 0x00; U4 0xE1 0x93 0x95 0x00; U4 0xE1 0x93 0x96 0x00; U4 0xE1 0x93 0x97 0x00;
   U4 0xE1 0x93 0x98 0x00; U4 0xE1 0x93 0x99 0x00; U4 0xE1 0x93 0x9A 0x00; U4 0xE1 0x93 0x9B 0x00;
   U4 0xE1 0x93 0x9C 0x00; U4 0xE1 0x93 0x9D 0x00; U4 0xE1 0x93 0x9E 0x00; U4 0xE1 0x93 0x9F 0x00;
   U4 0xE1 0x93 0xA0 0x00; U4 0xE1 0x93 0xA1 0x00; U4 0xE1 0x93 0xA2 0x00; U4 0xE1 0x93 0xA3 0x00;
   U4 0xE1 0x93 0xA4 0x00; U4 0xE1 0x93 0xA5 0x00; U4 0xE1 0x93 0xA6 0x00; U4 0xE1 0x93 0xA7 0x00;
   U4 0xE1 0x93 0xA8 0x00; U4 0xE1 0x93 0xA9 0x00; U4 0xE1 0x93 0xAA 0x00; U4 0xE1 0x93 0xAB 0x00;
   U4 0xE1 0x93 0xAC 0x00; U4 0xE1 0x93 0xAD 0x00; U4 0xE1 0x93 0xAE 0x00; U4 0xE1 0x93 0xAF 0x00;
   U4 0xE1 0x93 0xB0 0x00; U4 0xE1 0x93 0xB1 0x00; U4 0xE1 0x93 0xB2 0x00; U4 0xE1 0x93 0xB3 0x00;
   U4 0xE1 0x93 0xB4 0x00; U4 0xE1 0x93 0xB5 0x00; U4 0xE1 0x93 0xB6 0x00; U4 0xE1 0x93 0xB7 0x00;
   U4 0xE1 0x93 0xB8 0x00; U4 0xE1 0x93 0xB9 0x00; U4 0xE1 0x93 0xBA 0x00; U4 0xE1 0x93 0xBB 0x00;
   U4 0xE1 0x93 0xBC 0x00; U4 0xE1 0x93 0xBD 0x00; U4 0xE1 0x93 0xBE 0x00; U4 0xE1 0x93 0xBF 0x00].

Definition PLANE_3_E1_94 : Plane4Bytes :=
  [U4 0xE1 0x94 0x80 0x00; U4 0xE1 0x94 0x81 0x00; U4 0xE1 0x94 0x82 0x00; U4 0xE1 0x94 0x83 0x00;
   U4 0xE1 0x94 0x84 0x00; U4 0xE1 0x94 0x85 0x00; U4 0xE1 0x94 0x86 0x00; U4 0xE1 0x94 0x87 0x00;
   U4 0xE1 0x94 0x88 0x00; U4 0xE1 0x94 0x89 0x00; U4 0xE1 0x94 0x8A 0x00; U4 0xE1 0x94 0x8B 0x00;
   U4 0xE1 0x94 0x8C 0x00; U4 0xE1 0x94 0x8D 0x00; U4 0xE1 0x94 0x8E 0x00; U4 0xE1 0x94 0x8F 0x00;
   U4 0xE1 0x94 0x90 0x00; U4 0xE1 0x94 0x91 0x00; U4 0xE1 0x94 0x92 0x00; U4 0xE1 0x94 0x93 0x00;
   U4 0xE1 0x94 0x94 0x00; U4 0xE1 0x94 0x95 0x00; U4 0xE1 0x94 0x96 0x00; U4 0xE1 0x94 0x97 0x00;
   U4 0xE1 0x94 0x98 0x00; U4 0xE1 0x94 0x99 0x00; U4 0xE1 0x94 0x9A 0x00; U4 0xE1 0x94 0x9B 0x00;
   U4 0xE1 0x94 0x9C 0x00; U4 0xE1 0x94 0x9D 0x00; U4 0xE1 0x94 0x9E 0x00; U4 0xE1 0x94 0x9F 0x00;
   U4 0xE1 0x94 0xA0 0x00; U4 0xE1 0x94 0xA1 0x00; U4 0xE1 0x94 0xA2 0x00; U4 0xE1 0x94 0xA3 0x00;
   U4 0xE1 0x94 0xA4 0x00; U4 0xE1 0x94 0xA5 0x00; U4 0xE1 0x94 0xA6 0x00; U4 0xE1 0x94 0xA7 0x00;
   U4 0xE1 0x94 0xA8 0x00; U4 0xE1 0x94 0xA9 0x00; U4 0xE1 0x94 0xAA 0x00; U4 0xE1 0x94 0xAB 0x00;
   U4 0xE1 0x94 0xAC 0x00; U4 0xE1 0x94 0xAD 0x00; U4 0xE1 0x94 0xAE 0x00; U4 0xE1 0x94 0xAF 0x00;
   U4 0xE1 0x94 0xB0 0x00; U4 0xE1 0x94 0xB1 0x00; U4 0xE1 0x94 0xB2 0x00; U4 0xE1 0x94 0xB3 0x00;
   U4 0xE1 0x94 0xB4 0x00; U4 0xE1 0x94 0xB5 0x00; U4 0xE1 0x94 0xB6 0x00; U4 0xE1 0x94 0xB7 0x00;
   U4 0xE1 0x94 0xB8 0x00; U4 0xE1 0x94 0xB9 0x00; U4 0xE1 0x94 0xBA 0x00; U4 0xE1 0x94 0xBB 0x00;
   U4 0xE1 0x94 0xBC 0x00; U4 0xE1 0x94 0xBD 0x00; U4 0xE1 0x94 0xBE 0x00; U4 0xE1 0x94 0xBF 0x00].

Definition PLANE_3_E1_95 : Plane4Bytes :=
  [U4 0xE1 0x95 0x80 0x00; U4 0xE1 0x95 0x81 0x00; U4 0xE1 0x95 0x82 0x00; U4 0xE1 0x95 0x83 0x00;
   U4 0xE1 0x95 0x84 0x00; U4 0xE1 0x95 0x85 0x00; U4 0xE1 0x95 0x86 0x00; U4 0xE1 0x95 0x87 0x00;
   U4 0xE1 0x95 0x88 0x00; U4 0xE1 0x95 0x89 0x00; U4 0xE1 0x95 0x8A 0x00; U4 0xE1 0x95 0x8B 0x00;
   U4 0xE1 0x95 0x8C 0x00; U4 0xE1 0x95 0x8D 0x00; U4 0xE1 0x95 0x8E 0x00; U4 0xE1 0x95 0x8F 0x00;
   U4 0xE1 0x95 0x90 0x00; U4 0xE1 0x95 0x91 0x00; U4 0xE1 0x95 0x92 0x00; U4 0xE1 0x95 0x93 0x00;
   U4 0xE1 0x95 0x94 0x00; U4 0xE1 0x95 0x95 0x00; U4 0xE1 0x95 0x96 0x00; U4 0xE1 0x95 0x97 0x00;
   U4 0xE1 0x95 0x98 0x00; U4 0xE1 0x95 0x99 0x00; U4 0xE1 0x95 0x9A 0x00; U4 0xE1 0x95 0x9B 0x00;
   U4 0xE1 0x95 0x9C 0x00; U4 0xE1 0x95 0x9D 0x00; U4 0xE1 0x95 0x9E 0x00; U4 0xE1 0x95 0x9F 0x00;
   U4 0xE1 0x95 0xA0 0x00; U4 0xE1 0x95 0xA1 0x00; U4 0xE1 0x95 0xA2 0x00; U4 0xE1 0x95 0xA3 0x00;
   U4 0xE1 0x95 0xA4 0x00; U4 0xE1 0x95 0xA5 0x00; U4 0xE1 0x95 0xA6 0x00; U4 0xE1 0x95 0xA7 0x00;
   U4 0xE1 0x95 0xA8 0x00; U4 0xE1 0x95 0xA9 0x00; U4 0xE1 0x95 0xAA 0x00; U4 0xE1 0x95 0xAB 0x00;
   U4 0xE1 0x95 0xAC 0x00; U4 0xE1 0x95 0xAD 0x00; U4 0xE1 0x95 0xAE 0x00; U4 0xE1 0x95 0xAF 0x00;
   U4 0xE1 0x95 0xB0 0x00; U4 0xE1 0x95 0xB1 0x00; U4 0xE1 0x95 0xB2 0x00; U4 0xE1 0x95 0xB3 0x00;
   U4 0xE1 0x95 0xB4 0x00; U4 0xE1 0x95 0xB5 0x00; U4 0xE1 0x95 0xB6 0x00; U4 0xE1 0x95 0xB7 0x00;
   U4 0xE1 0x95 0xB8 0x00; U4 0xE1 0x95 0xB9 0x00; U4 0xE1 0x95 0xBA 0x00; U4 0xE1 0x95 0xBB 0x00;
   U4 0xE1 0x95 0xBC 0x00; U4 0xE1 0x95 0xBD 0x00; U4 0xE1 0x95 0xBE 0x00; U4 0xE1 0x95 0xBF 0x00].

Definition PLANE_3_E1_96 : Plane4Bytes :=
  [U4 0xE1 0x96 0x80 0x00; U4 0xE1 0x96 0x81 0x00; U4 0xE1 0x96 0x82 0x00; U4 0xE1 0x96 0x83 0x00;
   U4 0xE1 0x96 0x84 0x00; U4 0xE1 0x96 0x85 0x00; U4 0xE1 0x96 0x86 0x00; U4 0xE1 0x96 0x87 0x00;
   U4 0xE1 0x96 0x88 0x00; U4 0xE1 0x96 0x89 0x00; U4 0xE1 0x96 0x8A 0x00; U4 0xE1 0x96 0x8B 0x00;
   U4 0xE1 0x96 0x8C 0x00; U4 0xE1 0x96 0x8D 0x00; U4 0xE1 0x96 0x8E 0x00; U4 0xE1 0x96 0x8F 0x00;
   U4 0xE1 0x96 0x90 0x00; U4 0xE1 0x96 0x91 0x00; U4 0xE1 0x96 0x92 0x00; U4 0xE1 0x96 0x93 0x00;
   U4 0xE1 0x96 0x94 0x00; U4 0xE1 0x96 0x95 0x00; U4 0xE1 0x96 0x96 0x00; U4 0xE1 0x96 0x97 0x00;
   U4 0xE1 0x96 0x98 0x00; U4 0xE1 0x96 0x99 0x00; U4 0xE1 0x96 0x9A 0x00; U4 0xE1 0x96 0x9B 0x00;
   U4 0xE1 0x96 0x9C 0x00; U4 0xE1 0x96 0x9D 0x00; U4 0xE1 0x96 0x9E 0x00; U4 0xE1 0x96 0x9F 0x00;
   U4 0xE1 0x96 0xA0 0x00; U4 0xE1 0x96 0xA1 0x00; U4 0xE1 0x96 0xA2 0x00; U4 0xE1 0x96 0xA3 0x00;
   U4 0xE1 0x96 0xA4 0x00; U4 0xE1 0x96 0xA5 0x00; U4 0xE1 0x96 0xA6 0x00; U4 0xE1 0x96 0xA7 0x00;
   U4 0xE1 0x96 0xA8 0x00; U4 0xE1 0x96 0xA9 0x00; U4 0xE1 0x96 0xAA 0x00; U4 0xE1 0x96 0xAB 0x00;
   U4 0xE1 0x96 0xAC 0x00; U4 0xE1 0x96 0xAD 0x00; U4 0xE1 0x96 0xAE 0x00; U4 0xE1 0x96 0xAF 0x00;
   U4 0xE1 0x96 0xB0 0x00; U4 0xE1 0x96 0xB1 0x00; U4 0xE1 0x96 0xB2 0x00; U4 0xE1 0x96 0xB3 0x00;
   U4 0xE1 0x96 0xB4 0x00; U4 0xE1 0x96 0xB5 0x00; U4 0xE1 0x96 0xB6 0x00; U4 0xE1 0x96 0xB7 0x00;
   U4 0xE1 0x96 0xB8 0x00; U4 0xE1 0x96 0xB9 0x00; U4 0xE1 0x96 0xBA 0x00; U4 0xE1 0x96 0xBB 0x00;
   U4 0xE1 0x96 0xBC 0x00; U4 0xE1 0x96 0xBD 0x00; U4 0xE1 0x96 0xBE 0x00; U4 0xE1 0x96 0xBF 0x00].

Definition PLANE_3_E1_97 : Plane4Bytes :=
  [U4 0xE1 0x97 0x80 0x00; U4 0xE1 0x97 0x81 0x00; U4 0xE1 0x97 0x82 0x00; U4 0xE1 0x97 0x83 0x00;
   U4 0xE1 0x97 0x84 0x00; U4 0xE1 0x97 0x85 0x00; U4 0xE1 0x97 0x86 0x00; U4 0xE1 0x97 0x87 0x00;
   U4 0xE1 0x97 0x88 0x00; U4 0xE1 0x97 0x89 0x00; U4 0xE1 0x97 0x8A 0x00; U4 0xE1 0x97 0x8B 0x00;
   U4 0xE1 0x97 0x8C 0x00; U4 0xE1 0x97 0x8D 0x00; U4 0xE1 0x97 0x8E 0x00; U4 0xE1 0x97 0x8F 0x00;
   U4 0xE1 0x97 0x90 0x00; U4 0xE1 0x97 0x91 0x00; U4 0xE1 0x97 0x92 0x00; U4 0xE1 0x97 0x93 0x00;
   U4 0xE1 0x97 0x94 0x00; U4 0xE1 0x97 0x95 0x00; U4 0xE1 0x97 0x96 0x00; U4 0xE1 0x97 0x97 0x00;
   U4 0xE1 0x97 0x98 0x00; U4 0xE1 0x97 0x99 0x00; U4 0xE1 0x97 0x9A 0x00; U4 0xE1 0x97 0x9B 0x00;
   U4 0xE1 0x97 0x9C 0x00; U4 0xE1 0x97 0x9D 0x00; U4 0xE1 0x97 0x9E 0x00; U4 0xE1 0x97 0x9F 0x00;
   U4 0xE1 0x97 0xA0 0x00; U4 0xE1 0x97 0xA1 0x00; U4 0xE1 0x97 0xA2 0x00; U4 0xE1 0x97 0xA3 0x00;
   U4 0xE1 0x97 0xA4 0x00; U4 0xE1 0x97 0xA5 0x00; U4 0xE1 0x97 0xA6 0x00; U4 0xE1 0x97 0xA7 0x00;
   U4 0xE1 0x97 0xA8 0x00; U4 0xE1 0x97 0xA9 0x00; U4 0xE1 0x97 0xAA 0x00; U4 0xE1 0x97 0xAB 0x00;
   U4 0xE1 0x97 0xAC 0x00; U4 0xE1 0x97 0xAD 0x00; U4 0xE1 0x97 0xAE 0x00; U4 0xE1 0x97 0xAF 0x00;
   U4 0xE1 0x97 0xB0 0x00; U4 0xE1 0x97 0xB1 0x00; U4 0xE1 0x97 0xB2 0x00; U4 0xE1 0x97 0xB3 0x00;
   U4 0xE1 0x97 0xB4 0x00; U4 0xE1 0x97 0xB5 0x00; U4 0xE1 0x97 0xB6 0x00; U4 0xE1 0x97 0xB7 0x00;
   U4 0xE1 0x97 0xB8 0x00; U4 0xE1 0x97 0xB9 0x00; U4 0xE1 0x97 0xBA 0x00; U4 0xE1 0x97 0xBB 0x00;
   U4 0xE1 0x97 0xBC 0x00; U4 0xE1 0x97 0xBD 0x00; U4 0xE1 0x97 0xBE 0x00; U4 0xE1 0x97 0xBF 0x00].

Definition PLANE_3_E1_98 : Plane4Bytes :=
  [U4 0xE1 0x98 0x80 0x00; U4 0xE1 0x98 0x81 0x00; U4 0xE1 0x98 0x82 0x00; U4 0xE1 0x98 0x83 0x00;
   U4 0xE1 0x98 0x84 0x00; U4 0xE1 0x98 0x85 0x00; U4 0xE1 0x98 0x86 0x00; U4 0xE1 0x98 0x87 0x00;
   U4 0xE1 0x98 0x88 0x00; U4 0xE1 0x98 0x89 0x00; U4 0xE1 0x98 0x8A 0x00; U4 0xE1 0x98 0x8B 0x00;
   U4 0xE1 0x98 0x8C 0x00; U4 0xE1 0x98 0x8D 0x00; U4 0xE1 0x98 0x8E 0x00; U4 0xE1 0x98 0x8F 0x00;
   U4 0xE1 0x98 0x90 0x00; U4 0xE1 0x98 0x91 0x00; U4 0xE1 0x98 0x92 0x00; U4 0xE1 0x98 0x93 0x00;
   U4 0xE1 0x98 0x94 0x00; U4 0xE1 0x98 0x95 0x00; U4 0xE1 0x98 0x96 0x00; U4 0xE1 0x98 0x97 0x00;
   U4 0xE1 0x98 0x98 0x00; U4 0xE1 0x98 0x99 0x00; U4 0xE1 0x98 0x9A 0x00; U4 0xE1 0x98 0x9B 0x00;
   U4 0xE1 0x98 0x9C 0x00; U4 0xE1 0x98 0x9D 0x00; U4 0xE1 0x98 0x9E 0x00; U4 0xE1 0x98 0x9F 0x00;
   U4 0xE1 0x98 0xA0 0x00; U4 0xE1 0x98 0xA1 0x00; U4 0xE1 0x98 0xA2 0x00; U4 0xE1 0x98 0xA3 0x00;
   U4 0xE1 0x98 0xA4 0x00; U4 0xE1 0x98 0xA5 0x00; U4 0xE1 0x98 0xA6 0x00; U4 0xE1 0x98 0xA7 0x00;
   U4 0xE1 0x98 0xA8 0x00; U4 0xE1 0x98 0xA9 0x00; U4 0xE1 0x98 0xAA 0x00; U4 0xE1 0x98 0xAB 0x00;
   U4 0xE1 0x98 0xAC 0x00; U4 0xE1 0x98 0xAD 0x00; U4 0xE1 0x98 0xAE 0x00; U4 0xE1 0x98 0xAF 0x00;
   U4 0xE1 0x98 0xB0 0x00; U4 0xE1 0x98 0xB1 0x00; U4 0xE1 0x98 0xB2 0x00; U4 0xE1 0x98 0xB3 0x00;
   U4 0xE1 0x98 0xB4 0x00; U4 0xE1 0x98 0xB5 0x00; U4 0xE1 0x98 0xB6 0x00; U4 0xE1 0x98 0xB7 0x00;
   U4 0xE1 0x98 0xB8 0x00; U4 0xE1 0x98 0xB9 0x00; U4 0xE1 0x98 0xBA 0x00; U4 0xE1 0x98 0xBB 0x00;
   U4 0xE1 0x98 0xBC 0x00; U4 0xE1 0x98 0xBD 0x00; U4 0xE1 0x98 0xBE 0x00; U4 0xE1 0x98 0xBF 0x00].

Definition PLANE_3_E1_99 : Plane4Bytes :=
  [U4 0xE1 0x99 0x80 0x00; U4 0xE1 0x99 0x81 0x00; U4 0xE1 0x99 0x82 0x00; U4 0xE1 0x99 0x83 0x00;
   U4 0xE1 0x99 0x84 0x00; U4 0xE1 0x99 0x85 0x00; U4 0xE1 0x99 0x86 0x00; U4 0xE1 0x99 0x87 0x00;
   U4 0xE1 0x99 0x88 0x00; U4 0xE1 0x99 0x89 0x00; U4 0xE1 0x99 0x8A 0x00; U4 0xE1 0x99 0x8B 0x00;
   U4 0xE1 0x99 0x8C 0x00; U4 0xE1 0x99 0x8D 0x00; U4 0xE1 0x99 0x8E 0x00; U4 0xE1 0x99 0x8F 0x00;
   U4 0xE1 0x99 0x90 0x00; U4 0xE1 0x99 0x91 0x00; U4 0xE1 0x99 0x92 0x00; U4 0xE1 0x99 0x93 0x00;
   U4 0xE1 0x99 0x94 0x00; U4 0xE1 0x99 0x95 0x00; U4 0xE1 0x99 0x96 0x00; U4 0xE1 0x99 0x97 0x00;
   U4 0xE1 0x99 0x98 0x00; U4 0xE1 0x99 0x99 0x00; U4 0xE1 0x99 0x9A 0x00; U4 0xE1 0x99 0x9B 0x00;
   U4 0xE1 0x99 0x9C 0x00; U4 0xE1 0x99 0x9D 0x00; U4 0xE1 0x99 0x9E 0x00; U4 0xE1 0x99 0x9F 0x00;
   U4 0xE1 0x99 0xA0 0x00; U4 0xE1 0x99 0xA1 0x00; U4 0xE1 0x99 0xA2 0x00; U4 0xE1 0x99 0xA3 0x00;
   U4 0xE1 0x99 0xA4 0x00; U4 0xE1 0x99 0xA5 0x00; U4 0xE1 0x99 0xA6 0x00; U4 0xE1 0x99 0xA7 0x00;
   U4 0xE1 0x99 0xA8 0x00; U4 0xE1 0x99 0xA9 0x00; U4 0xE1 0x99 0xAA 0x00; U4 0xE1 0x99 0xAB 0x00;
   U4 0xE1 0x99 0xAC 0x00; U4 0xE1 0x99 0xAD 0x00; U4 0xE1 0x99 0xAE 0x00; U4 0xE1 0x99 0xAF 0x00;
   U4 0xE1 0x99 0xB0 0x00; U4 0xE1 0x99 0xB1 0x00; U4 0xE1 0x99 0xB2 0x00; U4 0xE1 0x99 0xB3 0x00;
   U4 0xE1 0x99 0xB4 0x00; U4 0xE1 0x99 0xB5 0x00; U4 0xE1 0x99 0xB6 0x00; U4 0xE1 0x99 0xB7 0x00;
   U4 0xE1 0x99 0xB8 0x00; U4 0xE1 0x99 0xB9 0x00; U4 0xE1 0x99 0xBA 0x00; U4 0xE1 0x99 0xBB 0x00;
   U4 0xE1 0x99 0xBC 0x00; U4 0xE1 0x99 0xBD 0x00; U4 0xE1 0x99 0xBE 0x00; U4 0xE1 0x99 0xBF 0x00].

Definition PLANE_3_E1_9A : Plane4Bytes :=
  [U4 0xE1 0x9A 0x80 0x00; U4 0xE1 0x9A 0x81 0x00; U4 0xE1 0x9A 0x82 0x00; U4 0xE1 0x9A 0x83 0x00;
   U4 0xE1 0x9A 0x84 0x00; U4 0xE1 0x9A 0x85 0x00; U4 0xE1 0x9A 0x86 0x00; U4 0xE1 0x9A 0x87 0x00;
   U4 0xE1 0x9A 0x88 0x00; U4 0xE1 0x9A 0x89 0x00; U4 0xE1 0x9A 0x8A 0x00; U4 0xE1 0x9A 0x8B 0x00;
   U4 0xE1 0x9A 0x8C 0x00; U4 0xE1 0x9A 0x8D 0x00; U4 0xE1 0x9A 0x8E 0x00; U4 0xE1 0x9A 0x8F 0x00;
   U4 0xE1 0x9A 0x90 0x00; U4 0xE1 0x9A 0x91 0x00; U4 0xE1 0x9A 0x92 0x00; U4 0xE1 0x9A 0x93 0x00;
   U4 0xE1 0x9A 0x94 0x00; U4 0xE1 0x9A 0x95 0x00; U4 0xE1 0x9A 0x96 0x00; U4 0xE1 0x9A 0x97 0x00;
   U4 0xE1 0x9A 0x98 0x00; U4 0xE1 0x9A 0x99 0x00; U4 0xE1 0x9A 0x9A 0x00; U4 0xE1 0x9A 0x9B 0x00;
   U4 0xE1 0x9A 0x9C 0x00; U4 0xE1 0x9A 0x9D 0x00; U4 0xE1 0x9A 0x9E 0x00; U4 0xE1 0x9A 0x9F 0x00;
   U4 0xE1 0x9A 0xA0 0x00; U4 0xE1 0x9A 0xA1 0x00; U4 0xE1 0x9A 0xA2 0x00; U4 0xE1 0x9A 0xA3 0x00;
   U4 0xE1 0x9A 0xA4 0x00; U4 0xE1 0x9A 0xA5 0x00; U4 0xE1 0x9A 0xA6 0x00; U4 0xE1 0x9A 0xA7 0x00;
   U4 0xE1 0x9A 0xA8 0x00; U4 0xE1 0x9A 0xA9 0x00; U4 0xE1 0x9A 0xAA 0x00; U4 0xE1 0x9A 0xAB 0x00;
   U4 0xE1 0x9A 0xAC 0x00; U4 0xE1 0x9A 0xAD 0x00; U4 0xE1 0x9A 0xAE 0x00; U4 0xE1 0x9A 0xAF 0x00;
   U4 0xE1 0x9A 0xB0 0x00; U4 0xE1 0x9A 0xB1 0x00; U4 0xE1 0x9A 0xB2 0x00; U4 0xE1 0x9A 0xB3 0x00;
   U4 0xE1 0x9A 0xB4 0x00; U4 0xE1 0x9A 0xB5 0x00; U4 0xE1 0x9A 0xB6 0x00; U4 0xE1 0x9A 0xB7 0x00;
   U4 0xE1 0x9A 0xB8 0x00; U4 0xE1 0x9A 0xB9 0x00; U4 0xE1 0x9A 0xBA 0x00; U4 0xE1 0x9A 0xBB 0x00;
   U4 0xE1 0x9A 0xBC 0x00; U4 0xE1 0x9A 0xBD 0x00; U4 0xE1 0x9A 0xBE 0x00; U4 0xE1 0x9A 0xBF 0x00].

Definition PLANE_3_E1_9B : Plane4Bytes :=
  [U4 0xE1 0x9B 0x80 0x00; U4 0xE1 0x9B 0x81 0x00; U4 0xE1 0x9B 0x82 0x00; U4 0xE1 0x9B 0x83 0x00;
   U4 0xE1 0x9B 0x84 0x00; U4 0xE1 0x9B 0x85 0x00; U4 0xE1 0x9B 0x86 0x00; U4 0xE1 0x9B 0x87 0x00;
   U4 0xE1 0x9B 0x88 0x00; U4 0xE1 0x9B 0x89 0x00; U4 0xE1 0x9B 0x8A 0x00; U4 0xE1 0x9B 0x8B 0x00;
   U4 0xE1 0x9B 0x8C 0x00; U4 0xE1 0x9B 0x8D 0x00; U4 0xE1 0x9B 0x8E 0x00; U4 0xE1 0x9B 0x8F 0x00;
   U4 0xE1 0x9B 0x90 0x00; U4 0xE1 0x9B 0x91 0x00; U4 0xE1 0x9B 0x92 0x00; U4 0xE1 0x9B 0x93 0x00;
   U4 0xE1 0x9B 0x94 0x00; U4 0xE1 0x9B 0x95 0x00; U4 0xE1 0x9B 0x96 0x00; U4 0xE1 0x9B 0x97 0x00;
   U4 0xE1 0x9B 0x98 0x00; U4 0xE1 0x9B 0x99 0x00; U4 0xE1 0x9B 0x9A 0x00; U4 0xE1 0x9B 0x9B 0x00;
   U4 0xE1 0x9B 0x9C 0x00; U4 0xE1 0x9B 0x9D 0x00; U4 0xE1 0x9B 0x9E 0x00; U4 0xE1 0x9B 0x9F 0x00;
   U4 0xE1 0x9B 0xA0 0x00; U4 0xE1 0x9B 0xA1 0x00; U4 0xE1 0x9B 0xA2 0x00; U4 0xE1 0x9B 0xA3 0x00;
   U4 0xE1 0x9B 0xA4 0x00; U4 0xE1 0x9B 0xA5 0x00; U4 0xE1 0x9B 0xA6 0x00; U4 0xE1 0x9B 0xA7 0x00;
   U4 0xE1 0x9B 0xA8 0x00; U4 0xE1 0x9B 0xA9 0x00; U4 0xE1 0x9B 0xAA 0x00; U4 0xE1 0x9B 0xAB 0x00;
   U4 0xE1 0x9B 0xAC 0x00; U4 0xE1 0x9B 0xAD 0x00; U4 0xE1 0x9B 0xAE 0x00; U4 0xE1 0x9B 0xAF 0x00;
   U4 0xE1 0x9B 0xB0 0x00; U4 0xE1 0x9B 0xB1 0x00; U4 0xE1 0x9B 0xB2 0x00; U4 0xE1 0x9B 0xB3 0x00;
   U4 0xE1 0x9B 0xB4 0x00; U4 0xE1 0x9B 0xB5 0x00; U4 0xE1 0x9B 0xB6 0x00; U4 0xE1 0x9B 0xB7 0x00;
   U4 0xE1 0x9B 0xB8 0x00; U4 0xE1 0x9B 0xB9 0x00; U4 0xE1 0x9B 0xBA 0x00; U4 0xE1 0x9B 0xBB 0x00;
   U4 0xE1 0x9B 0xBC 0x00; U4 0xE1 0x9B 0xBD 0x00; U4 0xE1 0x9B 0xBE 0x00; U4 0xE1 0x9B 0xBF 0x00].

Definition PLANE_3_E1_9C : Plane4Bytes :=
  [U4 0xE1 0x9C 0x80 0x00; U4 0xE1 0x9C 0x81 0x00; U4 0xE1 0x9C 0x82 0x00; U4 0xE1 0x9C 0x83 0x00;
   U4 0xE1 0x9C 0x84 0x00; U4 0xE1 0x9C 0x85 0x00; U4 0xE1 0x9C 0x86 0x00; U4 0xE1 0x9C 0x87 0x00;
   U4 0xE1 0x9C 0x88 0x00; U4 0xE1 0x9C 0x89 0x00; U4 0xE1 0x9C 0x8A 0x00; U4 0xE1 0x9C 0x8B 0x00;
   U4 0xE1 0x9C 0x8C 0x00; U4 0xE1 0x9C 0x8D 0x00; U4 0xE1 0x9C 0x8E 0x00; U4 0xE1 0x9C 0x8F 0x00;
   U4 0xE1 0x9C 0x90 0x00; U4 0xE1 0x9C 0x91 0x00; U4 0xE1 0x9C 0x92 0x00; U4 0xE1 0x9C 0x93 0x00;
   U4 0xE1 0x9C 0x94 0x00; U4 0xE1 0x9C 0x95 0x00; U4 0xE1 0x9C 0x96 0x00; U4 0xE1 0x9C 0x97 0x00;
   U4 0xE1 0x9C 0x98 0x00; U4 0xE1 0x9C 0x99 0x00; U4 0xE1 0x9C 0x9A 0x00; U4 0xE1 0x9C 0x9B 0x00;
   U4 0xE1 0x9C 0x9C 0x00; U4 0xE1 0x9C 0x9D 0x00; U4 0xE1 0x9C 0x9E 0x00; U4 0xE1 0x9C 0x9F 0x00;
   U4 0xE1 0x9C 0xA0 0x00; U4 0xE1 0x9C 0xA1 0x00; U4 0xE1 0x9C 0xA2 0x00; U4 0xE1 0x9C 0xA3 0x00;
   U4 0xE1 0x9C 0xA4 0x00; U4 0xE1 0x9C 0xA5 0x00; U4 0xE1 0x9C 0xA6 0x00; U4 0xE1 0x9C 0xA7 0x00;
   U4 0xE1 0x9C 0xA8 0x00; U4 0xE1 0x9C 0xA9 0x00; U4 0xE1 0x9C 0xAA 0x00; U4 0xE1 0x9C 0xAB 0x00;
   U4 0xE1 0x9C 0xAC 0x00; U4 0xE1 0x9C 0xAD 0x00; U4 0xE1 0x9C 0xAE 0x00; U4 0xE1 0x9C 0xAF 0x00;
   U4 0xE1 0x9C 0xB0 0x00; U4 0xE1 0x9C 0xB1 0x00; U4 0xE1 0x9C 0xB2 0x00; U4 0xE1 0x9C 0xB3 0x00;
   U4 0xE1 0x9C 0xB4 0x00; U4 0xE1 0x9C 0xB5 0x00; U4 0xE1 0x9C 0xB6 0x00; U4 0xE1 0x9C 0xB7 0x00;
   U4 0xE1 0x9C 0xB8 0x00; U4 0xE1 0x9C 0xB9 0x00; U4 0xE1 0x9C 0xBA 0x00; U4 0xE1 0x9C 0xBB 0x00;
   U4 0xE1 0x9C 0xBC 0x00; U4 0xE1 0x9C 0xBD 0x00; U4 0xE1 0x9C 0xBE 0x00; U4 0xE1 0x9C 0xBF 0x00].

Definition PLANE_3_E1_9D : Plane4Bytes :=
  [U4 0xE1 0x9D 0x80 0x00; U4 0xE1 0x9D 0x81 0x00; U4 0xE1 0x9D 0x82 0x00; U4 0xE1 0x9D 0x83 0x00;
   U4 0xE1 0x9D 0x84 0x00; U4 0xE1 0x9D 0x85 0x00; U4 0xE1 0x9D 0x86 0x00; U4 0xE1 0x9D 0x87 0x00;
   U4 0xE1 0x9D 0x88 0x00; U4 0xE1 0x9D 0x89 0x00; U4 0xE1 0x9D 0x8A 0x00; U4 0xE1 0x9D 0x8B 0x00;
   U4 0xE1 0x9D 0x8C 0x00; U4 0xE1 0x9D 0x8D 0x00; U4 0xE1 0x9D 0x8E 0x00; U4 0xE1 0x9D 0x8F 0x00;
   U4 0xE1 0x9D 0x90 0x00; U4 0xE1 0x9D 0x91 0x00; U4 0xE1 0x9D 0x92 0x00; U4 0xE1 0x9D 0x93 0x00;
   U4 0xE1 0x9D 0x94 0x00; U4 0xE1 0x9D 0x95 0x00; U4 0xE1 0x9D 0x96 0x00; U4 0xE1 0x9D 0x97 0x00;
   U4 0xE1 0x9D 0x98 0x00; U4 0xE1 0x9D 0x99 0x00; U4 0xE1 0x9D 0x9A 0x00; U4 0xE1 0x9D 0x9B 0x00;
   U4 0xE1 0x9D 0x9C 0x00; U4 0xE1 0x9D 0x9D 0x00; U4 0xE1 0x9D 0x9E 0x00; U4 0xE1 0x9D 0x9F 0x00;
   U4 0xE1 0x9D 0xA0 0x00; U4 0xE1 0x9D 0xA1 0x00; U4 0xE1 0x9D 0xA2 0x00; U4 0xE1 0x9D 0xA3 0x00;
   U4 0xE1 0x9D 0xA4 0x00; U4 0xE1 0x9D 0xA5 0x00; U4 0xE1 0x9D 0xA6 0x00; U4 0xE1 0x9D 0xA7 0x00;
   U4 0xE1 0x9D 0xA8 0x00; U4 0xE1 0x9D 0xA9 0x00; U4 0xE1 0x9D 0xAA 0x00; U4 0xE1 0x9D 0xAB 0x00;
   U4 0xE1 0x9D 0xAC 0x00; U4 0xE1 0x9D 0xAD 0x00; U4 0xE1 0x9D 0xAE 0x00; U4 0xE1 0x9D 0xAF 0x00;
   U4 0xE1 0x9D 0xB0 0x00; U4 0xE1 0x9D 0xB1 0x00; U4 0xE1 0x9D 0xB2 0x00; U4 0xE1 0x9D 0xB3 0x00;
   U4 0xE1 0x9D 0xB4 0x00; U4 0xE1 0x9D 0xB5 0x00; U4 0xE1 0x9D 0xB6 0x00; U4 0xE1 0x9D 0xB7 0x00;
   U4 0xE1 0x9D 0xB8 0x00; U4 0xE1 0x9D 0xB9 0x00; U4 0xE1 0x9D 0xBA 0x00; U4 0xE1 0x9D 0xBB 0x00;
   U4 0xE1 0x9D 0xBC 0x00; U4 0xE1 0x9D 0xBD 0x00; U4 0xE1 0x9D 0xBE 0x00; U4 0xE1 0x9D 0xBF 0x00].

Definition PLANE_3_E1_9E : Plane4Bytes :=
  [U4 0xE1 0x9E 0x80 0x00; U4 0xE1 0x9E 0x81 0x00; U4 0xE1 0x9E 0x82 0x00; U4 0xE1 0x9E 0x83 0x00;
   U4 0xE1 0x9E 0x84 0x00; U4 0xE1 0x9E 0x85 0x00; U4 0xE1 0x9E 0x86 0x00; U4 0xE1 0x9E 0x87 0x00;
   U4 0xE1 0x9E 0x88 0x00; U4 0xE1 0x9E 0x89 0x00; U4 0xE1 0x9E 0x8A 0x00; U4 0xE1 0x9E 0x8B 0x00;
   U4 0xE1 0x9E 0x8C 0x00; U4 0xE1 0x9E 0x8D 0x00; U4 0xE1 0x9E 0x8E 0x00; U4 0xE1 0x9E 0x8F 0x00;
   U4 0xE1 0x9E 0x90 0x00; U4 0xE1 0x9E 0x91 0x00; U4 0xE1 0x9E 0x92 0x00; U4 0xE1 0x9E 0x93 0x00;
   U4 0xE1 0x9E 0x94 0x00; U4 0xE1 0x9E 0x95 0x00; U4 0xE1 0x9E 0x96 0x00; U4 0xE1 0x9E 0x97 0x00;
   U4 0xE1 0x9E 0x98 0x00; U4 0xE1 0x9E 0x99 0x00; U4 0xE1 0x9E 0x9A 0x00; U4 0xE1 0x9E 0x9B 0x00;
   U4 0xE1 0x9E 0x9C 0x00; U4 0xE1 0x9E 0x9D 0x00; U4 0xE1 0x9E 0x9E 0x00; U4 0xE1 0x9E 0x9F 0x00;
   U4 0xE1 0x9E 0xA0 0x00; U4 0xE1 0x9E 0xA1 0x00; U4 0xE1 0x9E 0xA2 0x00; U4 0xE1 0x9E 0xA3 0x00;
   U4 0xE1 0x9E 0xA4 0x00; U4 0xE1 0x9E 0xA5 0x00; U4 0xE1 0x9E 0xA6 0x00; U4 0xE1 0x9E 0xA7 0x00;
   U4 0xE1 0x9E 0xA8 0x00; U4 0xE1 0x9E 0xA9 0x00; U4 0xE1 0x9E 0xAA 0x00; U4 0xE1 0x9E 0xAB 0x00;
   U4 0xE1 0x9E 0xAC 0x00; U4 0xE1 0x9E 0xAD 0x00; U4 0xE1 0x9E 0xAE 0x00; U4 0xE1 0x9E 0xAF 0x00;
   U4 0xE1 0x9E 0xB0 0x00; U4 0xE1 0x9E 0xB1 0x00; U4 0xE1 0x9E 0xB2 0x00; U4 0xE1 0x9E 0xB3 0x00;
   U4 0xE1 0x9E 0xB4 0x00; U4 0xE1 0x9E 0xB5 0x00; U4 0xE1 0x9E 0xB6 0x00; U4 0xE1 0x9E 0xB7 0x00;
   U4 0xE1 0x9E 0xB8 0x00; U4 0xE1 0x9E 0xB9 0x00; U4 0xE1 0x9E 0xBA 0x00; U4 0xE1 0x9E 0xBB 0x00;
   U4 0xE1 0x9E 0xBC 0x00; U4 0xE1 0x9E 0xBD 0x00; U4 0xE1 0x9E 0xBE 0x00; U4 0xE1 0x9E 0xBF 0x00].

Definition PLANE_3_E1_9F : Plane4Bytes :=
  [U4 0xE1 0x9F 0x80 0x00; U4 0xE1 0x9F 0x81 0x00; U4 0xE1 0x9F 0x82 0x00; U4 0xE1 0x9F 0x83 0x00;
   U4 0xE1 0x9F 0x84 0x00; U4 0xE1 0x9F 0x85 0x00; U4 0xE1 0x9F 0x86 0x00; U4 0xE1 0x9F 0x87 0x00;
   U4 0xE1 0x9F 0x88 0x00; U4 0xE1 0x9F 0x89 0x00; U4 0xE1 0x9F 0x8A 0x00; U4 0xE1 0x9F 0x8B 0x00;
   U4 0xE1 0x9F 0x8C 0x00; U4 0xE1 0x9F 0x8D 0x00; U4 0xE1 0x9F 0x8E 0x00; U4 0xE1 0x9F 0x8F 0x00;
   U4 0xE1 0x9F 0x90 0x00; U4 0xE1 0x9F 0x91 0x00; U4 0xE1 0x9F 0x92 0x00; U4 0xE1 0x9F 0x93 0x00;
   U4 0xE1 0x9F 0x94 0x00; U4 0xE1 0x9F 0x95 0x00; U4 0xE1 0x9F 0x96 0x00; U4 0xE1 0x9F 0x97 0x00;
   U4 0xE1 0x9F 0x98 0x00; U4 0xE1 0x9F 0x99 0x00; U4 0xE1 0x9F 0x9A 0x00; U4 0xE1 0x9F 0x9B 0x00;
   U4 0xE1 0x9F 0x9C 0x00; U4 0xE1 0x9F 0x9D 0x00; U4 0xE1 0x9F 0x9E 0x00; U4 0xE1 0x9F 0x9F 0x00;
   U4 0xE1 0x9F 0xA0 0x00; U4 0xE1 0x9F 0xA1 0x00; U4 0xE1 0x9F 0xA2 0x00; U4 0xE1 0x9F 0xA3 0x00;
   U4 0xE1 0x9F 0xA4 0x00; U4 0xE1 0x9F 0xA5 0x00; U4 0xE1 0x9F 0xA6 0x00; U4 0xE1 0x9F 0xA7 0x00;
   U4 0xE1 0x9F 0xA8 0x00; U4 0xE1 0x9F 0xA9 0x00; U4 0xE1 0x9F 0xAA 0x00; U4 0xE1 0x9F 0xAB 0x00;
   U4 0xE1 0x9F 0xAC 0x00; U4 0xE1 0x9F 0xAD 0x00; U4 0xE1 0x9F 0xAE 0x00; U4 0xE1 0x9F 0xAF 0x00;
   U4 0xE1 0x9F 0xB0 0x00; U4 0xE1 0x9F 0xB1 0x00; U4 0xE1 0x9F 0xB2 0x00; U4 0xE1 0x9F 0xB3 0x00;
   U4 0xE1 0x9F 0xB4 0x00; U4 0xE1 0x9F 0xB5 0x00; U4 0xE1 0x9F 0xB6 0x00; U4 0xE1 0x9F 0xB7 0x00;
   U4 0xE1 0x9F 0xB8 0x00; U4 0xE1 0x9F 0xB9 0x00; U4 0xE1 0x9F 0xBA 0x00; U4 0xE1 0x9F 0xBB 0x00;
   U4 0xE1 0x9F 0xBC 0x00; U4 0xE1 0x9F 0xBD 0x00; U4 0xE1 0x9F 0xBE 0x00; U4 0xE1 0x9F 0xBF 0x00].

Definition PLANE_3_E1_A0 : Plane4Bytes :=
  [U4 0xE1 0xA0 0x80 0x00; U4 0xE1 0xA0 0x81 0x00; U4 0xE1 0xA0 0x82 0x00; U4 0xE1 0xA0 0x83 0x00;
   U4 0xE1 0xA0 0x84 0x00; U4 0xE1 0xA0 0x85 0x00; U4 0xE1 0xA0 0x86 0x00; U4 0xE1 0xA0 0x87 0x00;
   U4 0xE1 0xA0 0x88 0x00; U4 0xE1 0xA0 0x89 0x00; U4 0xE1 0xA0 0x8A 0x00; U4 0xE1 0xA0 0x8B 0x00;
   U4 0xE1 0xA0 0x8C 0x00; U4 0xE1 0xA0 0x8D 0x00; U4 0xE1 0xA0 0x8E 0x00; U4 0xE1 0xA0 0x8F 0x00;
   U4 0xE1 0xA0 0x90 0x00; U4 0xE1 0xA0 0x91 0x00; U4 0xE1 0xA0 0x92 0x00; U4 0xE1 0xA0 0x93 0x00;
   U4 0xE1 0xA0 0x94 0x00; U4 0xE1 0xA0 0x95 0x00; U4 0xE1 0xA0 0x96 0x00; U4 0xE1 0xA0 0x97 0x00;
   U4 0xE1 0xA0 0x98 0x00; U4 0xE1 0xA0 0x99 0x00; U4 0xE1 0xA0 0x9A 0x00; U4 0xE1 0xA0 0x9B 0x00;
   U4 0xE1 0xA0 0x9C 0x00; U4 0xE1 0xA0 0x9D 0x00; U4 0xE1 0xA0 0x9E 0x00; U4 0xE1 0xA0 0x9F 0x00;
   U4 0xE1 0xA0 0xA0 0x00; U4 0xE1 0xA0 0xA1 0x00; U4 0xE1 0xA0 0xA2 0x00; U4 0xE1 0xA0 0xA3 0x00;
   U4 0xE1 0xA0 0xA4 0x00; U4 0xE1 0xA0 0xA5 0x00; U4 0xE1 0xA0 0xA6 0x00; U4 0xE1 0xA0 0xA7 0x00;
   U4 0xE1 0xA0 0xA8 0x00; U4 0xE1 0xA0 0xA9 0x00; U4 0xE1 0xA0 0xAA 0x00; U4 0xE1 0xA0 0xAB 0x00;
   U4 0xE1 0xA0 0xAC 0x00; U4 0xE1 0xA0 0xAD 0x00; U4 0xE1 0xA0 0xAE 0x00; U4 0xE1 0xA0 0xAF 0x00;
   U4 0xE1 0xA0 0xB0 0x00; U4 0xE1 0xA0 0xB1 0x00; U4 0xE1 0xA0 0xB2 0x00; U4 0xE1 0xA0 0xB3 0x00;
   U4 0xE1 0xA0 0xB4 0x00; U4 0xE1 0xA0 0xB5 0x00; U4 0xE1 0xA0 0xB6 0x00; U4 0xE1 0xA0 0xB7 0x00;
   U4 0xE1 0xA0 0xB8 0x00; U4 0xE1 0xA0 0xB9 0x00; U4 0xE1 0xA0 0xBA 0x00; U4 0xE1 0xA0 0xBB 0x00;
   U4 0xE1 0xA0 0xBC 0x00; U4 0xE1 0xA0 0xBD 0x00; U4 0xE1 0xA0 0xBE 0x00; U4 0xE1 0xA0 0xBF 0x00].

Definition PLANE_3_E1_A1 : Plane4Bytes :=
  [U4 0xE1 0xA1 0x80 0x00; U4 0xE1 0xA1 0x81 0x00; U4 0xE1 0xA1 0x82 0x00; U4 0xE1 0xA1 0x83 0x00;
   U4 0xE1 0xA1 0x84 0x00; U4 0xE1 0xA1 0x85 0x00; U4 0xE1 0xA1 0x86 0x00; U4 0xE1 0xA1 0x87 0x00;
   U4 0xE1 0xA1 0x88 0x00; U4 0xE1 0xA1 0x89 0x00; U4 0xE1 0xA1 0x8A 0x00; U4 0xE1 0xA1 0x8B 0x00;
   U4 0xE1 0xA1 0x8C 0x00; U4 0xE1 0xA1 0x8D 0x00; U4 0xE1 0xA1 0x8E 0x00; U4 0xE1 0xA1 0x8F 0x00;
   U4 0xE1 0xA1 0x90 0x00; U4 0xE1 0xA1 0x91 0x00; U4 0xE1 0xA1 0x92 0x00; U4 0xE1 0xA1 0x93 0x00;
   U4 0xE1 0xA1 0x94 0x00; U4 0xE1 0xA1 0x95 0x00; U4 0xE1 0xA1 0x96 0x00; U4 0xE1 0xA1 0x97 0x00;
   U4 0xE1 0xA1 0x98 0x00; U4 0xE1 0xA1 0x99 0x00; U4 0xE1 0xA1 0x9A 0x00; U4 0xE1 0xA1 0x9B 0x00;
   U4 0xE1 0xA1 0x9C 0x00; U4 0xE1 0xA1 0x9D 0x00; U4 0xE1 0xA1 0x9E 0x00; U4 0xE1 0xA1 0x9F 0x00;
   U4 0xE1 0xA1 0xA0 0x00; U4 0xE1 0xA1 0xA1 0x00; U4 0xE1 0xA1 0xA2 0x00; U4 0xE1 0xA1 0xA3 0x00;
   U4 0xE1 0xA1 0xA4 0x00; U4 0xE1 0xA1 0xA5 0x00; U4 0xE1 0xA1 0xA6 0x00; U4 0xE1 0xA1 0xA7 0x00;
   U4 0xE1 0xA1 0xA8 0x00; U4 0xE1 0xA1 0xA9 0x00; U4 0xE1 0xA1 0xAA 0x00; U4 0xE1 0xA1 0xAB 0x00;
   U4 0xE1 0xA1 0xAC 0x00; U4 0xE1 0xA1 0xAD 0x00; U4 0xE1 0xA1 0xAE 0x00; U4 0xE1 0xA1 0xAF 0x00;
   U4 0xE1 0xA1 0xB0 0x00; U4 0xE1 0xA1 0xB1 0x00; U4 0xE1 0xA1 0xB2 0x00; U4 0xE1 0xA1 0xB3 0x00;
   U4 0xE1 0xA1 0xB4 0x00; U4 0xE1 0xA1 0xB5 0x00; U4 0xE1 0xA1 0xB6 0x00; U4 0xE1 0xA1 0xB7 0x00;
   U4 0xE1 0xA1 0xB8 0x00; U4 0xE1 0xA1 0xB9 0x00; U4 0xE1 0xA1 0xBA 0x00; U4 0xE1 0xA1 0xBB 0x00;
   U4 0xE1 0xA1 0xBC 0x00; U4 0xE1 0xA1 0xBD 0x00; U4 0xE1 0xA1 0xBE 0x00; U4 0xE1 0xA1 0xBF 0x00].

Definition PLANE_3_E1_A2 : Plane4Bytes :=
  [U4 0xE1 0xA2 0x80 0x00; U4 0xE1 0xA2 0x81 0x00; U4 0xE1 0xA2 0x82 0x00; U4 0xE1 0xA2 0x83 0x00;
   U4 0xE1 0xA2 0x84 0x00; U4 0xE1 0xA2 0x85 0x00; U4 0xE1 0xA2 0x86 0x00; U4 0xE1 0xA2 0x87 0x00;
   U4 0xE1 0xA2 0x88 0x00; U4 0xE1 0xA2 0x89 0x00; U4 0xE1 0xA2 0x8A 0x00; U4 0xE1 0xA2 0x8B 0x00;
   U4 0xE1 0xA2 0x8C 0x00; U4 0xE1 0xA2 0x8D 0x00; U4 0xE1 0xA2 0x8E 0x00; U4 0xE1 0xA2 0x8F 0x00;
   U4 0xE1 0xA2 0x90 0x00; U4 0xE1 0xA2 0x91 0x00; U4 0xE1 0xA2 0x92 0x00; U4 0xE1 0xA2 0x93 0x00;
   U4 0xE1 0xA2 0x94 0x00; U4 0xE1 0xA2 0x95 0x00; U4 0xE1 0xA2 0x96 0x00; U4 0xE1 0xA2 0x97 0x00;
   U4 0xE1 0xA2 0x98 0x00; U4 0xE1 0xA2 0x99 0x00; U4 0xE1 0xA2 0x9A 0x00; U4 0xE1 0xA2 0x9B 0x00;
   U4 0xE1 0xA2 0x9C 0x00; U4 0xE1 0xA2 0x9D 0x00; U4 0xE1 0xA2 0x9E 0x00; U4 0xE1 0xA2 0x9F 0x00;
   U4 0xE1 0xA2 0xA0 0x00; U4 0xE1 0xA2 0xA1 0x00; U4 0xE1 0xA2 0xA2 0x00; U4 0xE1 0xA2 0xA3 0x00;
   U4 0xE1 0xA2 0xA4 0x00; U4 0xE1 0xA2 0xA5 0x00; U4 0xE1 0xA2 0xA6 0x00; U4 0xE1 0xA2 0xA7 0x00;
   U4 0xE1 0xA2 0xA8 0x00; U4 0xE1 0xA2 0xA9 0x00; U4 0xE1 0xA2 0xAA 0x00; U4 0xE1 0xA2 0xAB 0x00;
   U4 0xE1 0xA2 0xAC 0x00; U4 0xE1 0xA2 0xAD 0x00; U4 0xE1 0xA2 0xAE 0x00; U4 0xE1 0xA2 0xAF 0x00;
   U4 0xE1 0xA2 0xB0 0x00; U4 0xE1 0xA2 0xB1 0x00; U4 0xE1 0xA2 0xB2 0x00; U4 0xE1 0xA2 0xB3 0x00;
   U4 0xE1 0xA2 0xB4 0x00; U4 0xE1 0xA2 0xB5 0x00; U4 0xE1 0xA2 0xB6 0x00; U4 0xE1 0xA2 0xB7 0x00;
   U4 0xE1 0xA2 0xB8 0x00; U4 0xE1 0xA2 0xB9 0x00; U4 0xE1 0xA2 0xBA 0x00; U4 0xE1 0xA2 0xBB 0x00;
   U4 0xE1 0xA2 0xBC 0x00; U4 0xE1 0xA2 0xBD 0x00; U4 0xE1 0xA2 0xBE 0x00; U4 0xE1 0xA2 0xBF 0x00].

Definition PLANE_3_E1_A3 : Plane4Bytes :=
  [U4 0xE1 0xA3 0x80 0x00; U4 0xE1 0xA3 0x81 0x00; U4 0xE1 0xA3 0x82 0x00; U4 0xE1 0xA3 0x83 0x00;
   U4 0xE1 0xA3 0x84 0x00; U4 0xE1 0xA3 0x85 0x00; U4 0xE1 0xA3 0x86 0x00; U4 0xE1 0xA3 0x87 0x00;
   U4 0xE1 0xA3 0x88 0x00; U4 0xE1 0xA3 0x89 0x00; U4 0xE1 0xA3 0x8A 0x00; U4 0xE1 0xA3 0x8B 0x00;
   U4 0xE1 0xA3 0x8C 0x00; U4 0xE1 0xA3 0x8D 0x00; U4 0xE1 0xA3 0x8E 0x00; U4 0xE1 0xA3 0x8F 0x00;
   U4 0xE1 0xA3 0x90 0x00; U4 0xE1 0xA3 0x91 0x00; U4 0xE1 0xA3 0x92 0x00; U4 0xE1 0xA3 0x93 0x00;
   U4 0xE1 0xA3 0x94 0x00; U4 0xE1 0xA3 0x95 0x00; U4 0xE1 0xA3 0x96 0x00; U4 0xE1 0xA3 0x97 0x00;
   U4 0xE1 0xA3 0x98 0x00; U4 0xE1 0xA3 0x99 0x00; U4 0xE1 0xA3 0x9A 0x00; U4 0xE1 0xA3 0x9B 0x00;
   U4 0xE1 0xA3 0x9C 0x00; U4 0xE1 0xA3 0x9D 0x00; U4 0xE1 0xA3 0x9E 0x00; U4 0xE1 0xA3 0x9F 0x00;
   U4 0xE1 0xA3 0xA0 0x00; U4 0xE1 0xA3 0xA1 0x00; U4 0xE1 0xA3 0xA2 0x00; U4 0xE1 0xA3 0xA3 0x00;
   U4 0xE1 0xA3 0xA4 0x00; U4 0xE1 0xA3 0xA5 0x00; U4 0xE1 0xA3 0xA6 0x00; U4 0xE1 0xA3 0xA7 0x00;
   U4 0xE1 0xA3 0xA8 0x00; U4 0xE1 0xA3 0xA9 0x00; U4 0xE1 0xA3 0xAA 0x00; U4 0xE1 0xA3 0xAB 0x00;
   U4 0xE1 0xA3 0xAC 0x00; U4 0xE1 0xA3 0xAD 0x00; U4 0xE1 0xA3 0xAE 0x00; U4 0xE1 0xA3 0xAF 0x00;
   U4 0xE1 0xA3 0xB0 0x00; U4 0xE1 0xA3 0xB1 0x00; U4 0xE1 0xA3 0xB2 0x00; U4 0xE1 0xA3 0xB3 0x00;
   U4 0xE1 0xA3 0xB4 0x00; U4 0xE1 0xA3 0xB5 0x00; U4 0xE1 0xA3 0xB6 0x00; U4 0xE1 0xA3 0xB7 0x00;
   U4 0xE1 0xA3 0xB8 0x00; U4 0xE1 0xA3 0xB9 0x00; U4 0xE1 0xA3 0xBA 0x00; U4 0xE1 0xA3 0xBB 0x00;
   U4 0xE1 0xA3 0xBC 0x00; U4 0xE1 0xA3 0xBD 0x00; U4 0xE1 0xA3 0xBE 0x00; U4 0xE1 0xA3 0xBF 0x00].

Definition PLANE_3_E1_A4 : Plane4Bytes :=
  [U4 0xE1 0xA4 0x80 0x00; U4 0xE1 0xA4 0x81 0x00; U4 0xE1 0xA4 0x82 0x00; U4 0xE1 0xA4 0x83 0x00;
   U4 0xE1 0xA4 0x84 0x00; U4 0xE1 0xA4 0x85 0x00; U4 0xE1 0xA4 0x86 0x00; U4 0xE1 0xA4 0x87 0x00;
   U4 0xE1 0xA4 0x88 0x00; U4 0xE1 0xA4 0x89 0x00; U4 0xE1 0xA4 0x8A 0x00; U4 0xE1 0xA4 0x8B 0x00;
   U4 0xE1 0xA4 0x8C 0x00; U4 0xE1 0xA4 0x8D 0x00; U4 0xE1 0xA4 0x8E 0x00; U4 0xE1 0xA4 0x8F 0x00;
   U4 0xE1 0xA4 0x90 0x00; U4 0xE1 0xA4 0x91 0x00; U4 0xE1 0xA4 0x92 0x00; U4 0xE1 0xA4 0x93 0x00;
   U4 0xE1 0xA4 0x94 0x00; U4 0xE1 0xA4 0x95 0x00; U4 0xE1 0xA4 0x96 0x00; U4 0xE1 0xA4 0x97 0x00;
   U4 0xE1 0xA4 0x98 0x00; U4 0xE1 0xA4 0x99 0x00; U4 0xE1 0xA4 0x9A 0x00; U4 0xE1 0xA4 0x9B 0x00;
   U4 0xE1 0xA4 0x9C 0x00; U4 0xE1 0xA4 0x9D 0x00; U4 0xE1 0xA4 0x9E 0x00; U4 0xE1 0xA4 0x9F 0x00;
   U4 0xE1 0xA4 0xA0 0x00; U4 0xE1 0xA4 0xA1 0x00; U4 0xE1 0xA4 0xA2 0x00; U4 0xE1 0xA4 0xA3 0x00;
   U4 0xE1 0xA4 0xA4 0x00; U4 0xE1 0xA4 0xA5 0x00; U4 0xE1 0xA4 0xA6 0x00; U4 0xE1 0xA4 0xA7 0x00;
   U4 0xE1 0xA4 0xA8 0x00; U4 0xE1 0xA4 0xA9 0x00; U4 0xE1 0xA4 0xAA 0x00; U4 0xE1 0xA4 0xAB 0x00;
   U4 0xE1 0xA4 0xAC 0x00; U4 0xE1 0xA4 0xAD 0x00; U4 0xE1 0xA4 0xAE 0x00; U4 0xE1 0xA4 0xAF 0x00;
   U4 0xE1 0xA4 0xB0 0x00; U4 0xE1 0xA4 0xB1 0x00; U4 0xE1 0xA4 0xB2 0x00; U4 0xE1 0xA4 0xB3 0x00;
   U4 0xE1 0xA4 0xB4 0x00; U4 0xE1 0xA4 0xB5 0x00; U4 0xE1 0xA4 0xB6 0x00; U4 0xE1 0xA4 0xB7 0x00;
   U4 0xE1 0xA4 0xB8 0x00; U4 0xE1 0xA4 0xB9 0x00; U4 0xE1 0xA4 0xBA 0x00; U4 0xE1 0xA4 0xBB 0x00;
   U4 0xE1 0xA4 0xBC 0x00; U4 0xE1 0xA4 0xBD 0x00; U4 0xE1 0xA4 0xBE 0x00; U4 0xE1 0xA4 0xBF 0x00].

Definition PLANE_3_E1_A5 : Plane4Bytes :=
  [U4 0xE1 0xA5 0x80 0x00; U4 0xE1 0xA5 0x81 0x00; U4 0xE1 0xA5 0x82 0x00; U4 0xE1 0xA5 0x83 0x00;
   U4 0xE1 0xA5 0x84 0x00; U4 0xE1 0xA5 0x85 0x00; U4 0xE1 0xA5 0x86 0x00; U4 0xE1 0xA5 0x87 0x00;
   U4 0xE1 0xA5 0x88 0x00; U4 0xE1 0xA5 0x89 0x00; U4 0xE1 0xA5 0x8A 0x00; U4 0xE1 0xA5 0x8B 0x00;
   U4 0xE1 0xA5 0x8C 0x00; U4 0xE1 0xA5 0x8D 0x00; U4 0xE1 0xA5 0x8E 0x00; U4 0xE1 0xA5 0x8F 0x00;
   U4 0xE1 0xA5 0x90 0x00; U4 0xE1 0xA5 0x91 0x00; U4 0xE1 0xA5 0x92 0x00; U4 0xE1 0xA5 0x93 0x00;
   U4 0xE1 0xA5 0x94 0x00; U4 0xE1 0xA5 0x95 0x00; U4 0xE1 0xA5 0x96 0x00; U4 0xE1 0xA5 0x97 0x00;
   U4 0xE1 0xA5 0x98 0x00; U4 0xE1 0xA5 0x99 0x00; U4 0xE1 0xA5 0x9A 0x00; U4 0xE1 0xA5 0x9B 0x00;
   U4 0xE1 0xA5 0x9C 0x00; U4 0xE1 0xA5 0x9D 0x00; U4 0xE1 0xA5 0x9E 0x00; U4 0xE1 0xA5 0x9F 0x00;
   U4 0xE1 0xA5 0xA0 0x00; U4 0xE1 0xA5 0xA1 0x00; U4 0xE1 0xA5 0xA2 0x00; U4 0xE1 0xA5 0xA3 0x00;
   U4 0xE1 0xA5 0xA4 0x00; U4 0xE1 0xA5 0xA5 0x00; U4 0xE1 0xA5 0xA6 0x00; U4 0xE1 0xA5 0xA7 0x00;
   U4 0xE1 0xA5 0xA8 0x00; U4 0xE1 0xA5 0xA9 0x00; U4 0xE1 0xA5 0xAA 0x00; U4 0xE1 0xA5 0xAB 0x00;
   U4 0xE1 0xA5 0xAC 0x00; U4 0xE1 0xA5 0xAD 0x00; U4 0xE1 0xA5 0xAE 0x00; U4 0xE1 0xA5 0xAF 0x00;
   U4 0xE1 0xA5 0xB0 0x00; U4 0xE1 0xA5 0xB1 0x00; U4 0xE1 0xA5 0xB2 0x00; U4 0xE1 0xA5 0xB3 0x00;
   U4 0xE1 0xA5 0xB4 0x00; U4 0xE1 0xA5 0xB5 0x00; U4 0xE1 0xA5 0xB6 0x00; U4 0xE1 0xA5 0xB7 0x00;
   U4 0xE1 0xA5 0xB8 0x00; U4 0xE1 0xA5 0xB9 0x00; U4 0xE1 0xA5 0xBA 0x00; U4 0xE1 0xA5 0xBB 0x00;
   U4 0xE1 0xA5 0xBC 0x00; U4 0xE1 0xA5 0xBD 0x00; U4 0xE1 0xA5 0xBE 0x00; U4 0xE1 0xA5 0xBF 0x00].

Definition PLANE_3_E1_A6 : Plane4Bytes :=
  [U4 0xE1 0xA6 0x80 0x00; U4 0xE1 0xA6 0x81 0x00; U4 0xE1 0xA6 0x82 0x00; U4 0xE1 0xA6 0x83 0x00;
   U4 0xE1 0xA6 0x84 0x00; U4 0xE1 0xA6 0x85 0x00; U4 0xE1 0xA6 0x86 0x00; U4 0xE1 0xA6 0x87 0x00;
   U4 0xE1 0xA6 0x88 0x00; U4 0xE1 0xA6 0x89 0x00; U4 0xE1 0xA6 0x8A 0x00; U4 0xE1 0xA6 0x8B 0x00;
   U4 0xE1 0xA6 0x8C 0x00; U4 0xE1 0xA6 0x8D 0x00; U4 0xE1 0xA6 0x8E 0x00; U4 0xE1 0xA6 0x8F 0x00;
   U4 0xE1 0xA6 0x90 0x00; U4 0xE1 0xA6 0x91 0x00; U4 0xE1 0xA6 0x92 0x00; U4 0xE1 0xA6 0x93 0x00;
   U4 0xE1 0xA6 0x94 0x00; U4 0xE1 0xA6 0x95 0x00; U4 0xE1 0xA6 0x96 0x00; U4 0xE1 0xA6 0x97 0x00;
   U4 0xE1 0xA6 0x98 0x00; U4 0xE1 0xA6 0x99 0x00; U4 0xE1 0xA6 0x9A 0x00; U4 0xE1 0xA6 0x9B 0x00;
   U4 0xE1 0xA6 0x9C 0x00; U4 0xE1 0xA6 0x9D 0x00; U4 0xE1 0xA6 0x9E 0x00; U4 0xE1 0xA6 0x9F 0x00;
   U4 0xE1 0xA6 0xA0 0x00; U4 0xE1 0xA6 0xA1 0x00; U4 0xE1 0xA6 0xA2 0x00; U4 0xE1 0xA6 0xA3 0x00;
   U4 0xE1 0xA6 0xA4 0x00; U4 0xE1 0xA6 0xA5 0x00; U4 0xE1 0xA6 0xA6 0x00; U4 0xE1 0xA6 0xA7 0x00;
   U4 0xE1 0xA6 0xA8 0x00; U4 0xE1 0xA6 0xA9 0x00; U4 0xE1 0xA6 0xAA 0x00; U4 0xE1 0xA6 0xAB 0x00;
   U4 0xE1 0xA6 0xAC 0x00; U4 0xE1 0xA6 0xAD 0x00; U4 0xE1 0xA6 0xAE 0x00; U4 0xE1 0xA6 0xAF 0x00;
   U4 0xE1 0xA6 0xB0 0x00; U4 0xE1 0xA6 0xB1 0x00; U4 0xE1 0xA6 0xB2 0x00; U4 0xE1 0xA6 0xB3 0x00;
   U4 0xE1 0xA6 0xB4 0x00; U4 0xE1 0xA6 0xB5 0x00; U4 0xE1 0xA6 0xB6 0x00; U4 0xE1 0xA6 0xB7 0x00;
   U4 0xE1 0xA6 0xB8 0x00; U4 0xE1 0xA6 0xB9 0x00; U4 0xE1 0xA6 0xBA 0x00; U4 0xE1 0xA6 0xBB 0x00;
   U4 0xE1 0xA6 0xBC 0x00; U4 0xE1 0xA6 0xBD 0x00; U4 0xE1 0xA6 0xBE 0x00; U4 0xE1 0xA6 0xBF 0x00].

Definition PLANE_3_E1_A7 : Plane4Bytes :=
  [U4 0xE1 0xA7 0x80 0x00; U4 0xE1 0xA7 0x81 0x00; U4 0xE1 0xA7 0x82 0x00; U4 0xE1 0xA7 0x83 0x00;
   U4 0xE1 0xA7 0x84 0x00; U4 0xE1 0xA7 0x85 0x00; U4 0xE1 0xA7 0x86 0x00; U4 0xE1 0xA7 0x87 0x00;
   U4 0xE1 0xA7 0x88 0x00; U4 0xE1 0xA7 0x89 0x00; U4 0xE1 0xA7 0x8A 0x00; U4 0xE1 0xA7 0x8B 0x00;
   U4 0xE1 0xA7 0x8C 0x00; U4 0xE1 0xA7 0x8D 0x00; U4 0xE1 0xA7 0x8E 0x00; U4 0xE1 0xA7 0x8F 0x00;
   U4 0xE1 0xA7 0x90 0x00; U4 0xE1 0xA7 0x91 0x00; U4 0xE1 0xA7 0x92 0x00; U4 0xE1 0xA7 0x93 0x00;
   U4 0xE1 0xA7 0x94 0x00; U4 0xE1 0xA7 0x95 0x00; U4 0xE1 0xA7 0x96 0x00; U4 0xE1 0xA7 0x97 0x00;
   U4 0xE1 0xA7 0x98 0x00; U4 0xE1 0xA7 0x99 0x00; U4 0xE1 0xA7 0x9A 0x00; U4 0xE1 0xA7 0x9B 0x00;
   U4 0xE1 0xA7 0x9C 0x00; U4 0xE1 0xA7 0x9D 0x00; U4 0xE1 0xA7 0x9E 0x00; U4 0xE1 0xA7 0x9F 0x00;
   U4 0xE1 0xA7 0xA0 0x00; U4 0xE1 0xA7 0xA1 0x00; U4 0xE1 0xA7 0xA2 0x00; U4 0xE1 0xA7 0xA3 0x00;
   U4 0xE1 0xA7 0xA4 0x00; U4 0xE1 0xA7 0xA5 0x00; U4 0xE1 0xA7 0xA6 0x00; U4 0xE1 0xA7 0xA7 0x00;
   U4 0xE1 0xA7 0xA8 0x00; U4 0xE1 0xA7 0xA9 0x00; U4 0xE1 0xA7 0xAA 0x00; U4 0xE1 0xA7 0xAB 0x00;
   U4 0xE1 0xA7 0xAC 0x00; U4 0xE1 0xA7 0xAD 0x00; U4 0xE1 0xA7 0xAE 0x00; U4 0xE1 0xA7 0xAF 0x00;
   U4 0xE1 0xA7 0xB0 0x00; U4 0xE1 0xA7 0xB1 0x00; U4 0xE1 0xA7 0xB2 0x00; U4 0xE1 0xA7 0xB3 0x00;
   U4 0xE1 0xA7 0xB4 0x00; U4 0xE1 0xA7 0xB5 0x00; U4 0xE1 0xA7 0xB6 0x00; U4 0xE1 0xA7 0xB7 0x00;
   U4 0xE1 0xA7 0xB8 0x00; U4 0xE1 0xA7 0xB9 0x00; U4 0xE1 0xA7 0xBA 0x00; U4 0xE1 0xA7 0xBB 0x00;
   U4 0xE1 0xA7 0xBC 0x00; U4 0xE1 0xA7 0xBD 0x00; U4 0xE1 0xA7 0xBE 0x00; U4 0xE1 0xA7 0xBF 0x00].

Definition PLANE_3_E1_A8 : Plane4Bytes :=
  [U4 0xE1 0xA8 0x80 0x00; U4 0xE1 0xA8 0x81 0x00; U4 0xE1 0xA8 0x82 0x00; U4 0xE1 0xA8 0x83 0x00;
   U4 0xE1 0xA8 0x84 0x00; U4 0xE1 0xA8 0x85 0x00; U4 0xE1 0xA8 0x86 0x00; U4 0xE1 0xA8 0x87 0x00;
   U4 0xE1 0xA8 0x88 0x00; U4 0xE1 0xA8 0x89 0x00; U4 0xE1 0xA8 0x8A 0x00; U4 0xE1 0xA8 0x8B 0x00;
   U4 0xE1 0xA8 0x8C 0x00; U4 0xE1 0xA8 0x8D 0x00; U4 0xE1 0xA8 0x8E 0x00; U4 0xE1 0xA8 0x8F 0x00;
   U4 0xE1 0xA8 0x90 0x00; U4 0xE1 0xA8 0x91 0x00; U4 0xE1 0xA8 0x92 0x00; U4 0xE1 0xA8 0x93 0x00;
   U4 0xE1 0xA8 0x94 0x00; U4 0xE1 0xA8 0x95 0x00; U4 0xE1 0xA8 0x96 0x00; U4 0xE1 0xA8 0x97 0x00;
   U4 0xE1 0xA8 0x98 0x00; U4 0xE1 0xA8 0x99 0x00; U4 0xE1 0xA8 0x9A 0x00; U4 0xE1 0xA8 0x9B 0x00;
   U4 0xE1 0xA8 0x9C 0x00; U4 0xE1 0xA8 0x9D 0x00; U4 0xE1 0xA8 0x9E 0x00; U4 0xE1 0xA8 0x9F 0x00;
   U4 0xE1 0xA8 0xA0 0x00; U4 0xE1 0xA8 0xA1 0x00; U4 0xE1 0xA8 0xA2 0x00; U4 0xE1 0xA8 0xA3 0x00;
   U4 0xE1 0xA8 0xA4 0x00; U4 0xE1 0xA8 0xA5 0x00; U4 0xE1 0xA8 0xA6 0x00; U4 0xE1 0xA8 0xA7 0x00;
   U4 0xE1 0xA8 0xA8 0x00; U4 0xE1 0xA8 0xA9 0x00; U4 0xE1 0xA8 0xAA 0x00; U4 0xE1 0xA8 0xAB 0x00;
   U4 0xE1 0xA8 0xAC 0x00; U4 0xE1 0xA8 0xAD 0x00; U4 0xE1 0xA8 0xAE 0x00; U4 0xE1 0xA8 0xAF 0x00;
   U4 0xE1 0xA8 0xB0 0x00; U4 0xE1 0xA8 0xB1 0x00; U4 0xE1 0xA8 0xB2 0x00; U4 0xE1 0xA8 0xB3 0x00;
   U4 0xE1 0xA8 0xB4 0x00; U4 0xE1 0xA8 0xB5 0x00; U4 0xE1 0xA8 0xB6 0x00; U4 0xE1 0xA8 0xB7 0x00;
   U4 0xE1 0xA8 0xB8 0x00; U4 0xE1 0xA8 0xB9 0x00; U4 0xE1 0xA8 0xBA 0x00; U4 0xE1 0xA8 0xBB 0x00;
   U4 0xE1 0xA8 0xBC 0x00; U4 0xE1 0xA8 0xBD 0x00; U4 0xE1 0xA8 0xBE 0x00; U4 0xE1 0xA8 0xBF 0x00].

Definition PLANE_3_E1_A9 : Plane4Bytes :=
  [U4 0xE1 0xA9 0x80 0x00; U4 0xE1 0xA9 0x81 0x00; U4 0xE1 0xA9 0x82 0x00; U4 0xE1 0xA9 0x83 0x00;
   U4 0xE1 0xA9 0x84 0x00; U4 0xE1 0xA9 0x85 0x00; U4 0xE1 0xA9 0x86 0x00; U4 0xE1 0xA9 0x87 0x00;
   U4 0xE1 0xA9 0x88 0x00; U4 0xE1 0xA9 0x89 0x00; U4 0xE1 0xA9 0x8A 0x00; U4 0xE1 0xA9 0x8B 0x00;
   U4 0xE1 0xA9 0x8C 0x00; U4 0xE1 0xA9 0x8D 0x00; U4 0xE1 0xA9 0x8E 0x00; U4 0xE1 0xA9 0x8F 0x00;
   U4 0xE1 0xA9 0x90 0x00; U4 0xE1 0xA9 0x91 0x00; U4 0xE1 0xA9 0x92 0x00; U4 0xE1 0xA9 0x93 0x00;
   U4 0xE1 0xA9 0x94 0x00; U4 0xE1 0xA9 0x95 0x00; U4 0xE1 0xA9 0x96 0x00; U4 0xE1 0xA9 0x97 0x00;
   U4 0xE1 0xA9 0x98 0x00; U4 0xE1 0xA9 0x99 0x00; U4 0xE1 0xA9 0x9A 0x00; U4 0xE1 0xA9 0x9B 0x00;
   U4 0xE1 0xA9 0x9C 0x00; U4 0xE1 0xA9 0x9D 0x00; U4 0xE1 0xA9 0x9E 0x00; U4 0xE1 0xA9 0x9F 0x00;
   U4 0xE1 0xA9 0xA0 0x00; U4 0xE1 0xA9 0xA1 0x00; U4 0xE1 0xA9 0xA2 0x00; U4 0xE1 0xA9 0xA3 0x00;
   U4 0xE1 0xA9 0xA4 0x00; U4 0xE1 0xA9 0xA5 0x00; U4 0xE1 0xA9 0xA6 0x00; U4 0xE1 0xA9 0xA7 0x00;
   U4 0xE1 0xA9 0xA8 0x00; U4 0xE1 0xA9 0xA9 0x00; U4 0xE1 0xA9 0xAA 0x00; U4 0xE1 0xA9 0xAB 0x00;
   U4 0xE1 0xA9 0xAC 0x00; U4 0xE1 0xA9 0xAD 0x00; U4 0xE1 0xA9 0xAE 0x00; U4 0xE1 0xA9 0xAF 0x00;
   U4 0xE1 0xA9 0xB0 0x00; U4 0xE1 0xA9 0xB1 0x00; U4 0xE1 0xA9 0xB2 0x00; U4 0xE1 0xA9 0xB3 0x00;
   U4 0xE1 0xA9 0xB4 0x00; U4 0xE1 0xA9 0xB5 0x00; U4 0xE1 0xA9 0xB6 0x00; U4 0xE1 0xA9 0xB7 0x00;
   U4 0xE1 0xA9 0xB8 0x00; U4 0xE1 0xA9 0xB9 0x00; U4 0xE1 0xA9 0xBA 0x00; U4 0xE1 0xA9 0xBB 0x00;
   U4 0xE1 0xA9 0xBC 0x00; U4 0xE1 0xA9 0xBD 0x00; U4 0xE1 0xA9 0xBE 0x00; U4 0xE1 0xA9 0xBF 0x00].

Definition PLANE_3_E1_AA : Plane4Bytes :=
  [U4 0xE1 0xAA 0x80 0x00; U4 0xE1 0xAA 0x81 0x00; U4 0xE1 0xAA 0x82 0x00; U4 0xE1 0xAA 0x83 0x00;
   U4 0xE1 0xAA 0x84 0x00; U4 0xE1 0xAA 0x85 0x00; U4 0xE1 0xAA 0x86 0x00; U4 0xE1 0xAA 0x87 0x00;
   U4 0xE1 0xAA 0x88 0x00; U4 0xE1 0xAA 0x89 0x00; U4 0xE1 0xAA 0x8A 0x00; U4 0xE1 0xAA 0x8B 0x00;
   U4 0xE1 0xAA 0x8C 0x00; U4 0xE1 0xAA 0x8D 0x00; U4 0xE1 0xAA 0x8E 0x00; U4 0xE1 0xAA 0x8F 0x00;
   U4 0xE1 0xAA 0x90 0x00; U4 0xE1 0xAA 0x91 0x00; U4 0xE1 0xAA 0x92 0x00; U4 0xE1 0xAA 0x93 0x00;
   U4 0xE1 0xAA 0x94 0x00; U4 0xE1 0xAA 0x95 0x00; U4 0xE1 0xAA 0x96 0x00; U4 0xE1 0xAA 0x97 0x00;
   U4 0xE1 0xAA 0x98 0x00; U4 0xE1 0xAA 0x99 0x00; U4 0xE1 0xAA 0x9A 0x00; U4 0xE1 0xAA 0x9B 0x00;
   U4 0xE1 0xAA 0x9C 0x00; U4 0xE1 0xAA 0x9D 0x00; U4 0xE1 0xAA 0x9E 0x00; U4 0xE1 0xAA 0x9F 0x00;
   U4 0xE1 0xAA 0xA0 0x00; U4 0xE1 0xAA 0xA1 0x00; U4 0xE1 0xAA 0xA2 0x00; U4 0xE1 0xAA 0xA3 0x00;
   U4 0xE1 0xAA 0xA4 0x00; U4 0xE1 0xAA 0xA5 0x00; U4 0xE1 0xAA 0xA6 0x00; U4 0xE1 0xAA 0xA7 0x00;
   U4 0xE1 0xAA 0xA8 0x00; U4 0xE1 0xAA 0xA9 0x00; U4 0xE1 0xAA 0xAA 0x00; U4 0xE1 0xAA 0xAB 0x00;
   U4 0xE1 0xAA 0xAC 0x00; U4 0xE1 0xAA 0xAD 0x00; U4 0xE1 0xAA 0xAE 0x00; U4 0xE1 0xAA 0xAF 0x00;
   U4 0xE1 0xAA 0xB0 0x00; U4 0xE1 0xAA 0xB1 0x00; U4 0xE1 0xAA 0xB2 0x00; U4 0xE1 0xAA 0xB3 0x00;
   U4 0xE1 0xAA 0xB4 0x00; U4 0xE1 0xAA 0xB5 0x00; U4 0xE1 0xAA 0xB6 0x00; U4 0xE1 0xAA 0xB7 0x00;
   U4 0xE1 0xAA 0xB8 0x00; U4 0xE1 0xAA 0xB9 0x00; U4 0xE1 0xAA 0xBA 0x00; U4 0xE1 0xAA 0xBB 0x00;
   U4 0xE1 0xAA 0xBC 0x00; U4 0xE1 0xAA 0xBD 0x00; U4 0xE1 0xAA 0xBE 0x00; U4 0xE1 0xAA 0xBF 0x00].

Definition PLANE_3_E1_AB : Plane4Bytes :=
  [U4 0xE1 0xAB 0x80 0x00; U4 0xE1 0xAB 0x81 0x00; U4 0xE1 0xAB 0x82 0x00; U4 0xE1 0xAB 0x83 0x00;
   U4 0xE1 0xAB 0x84 0x00; U4 0xE1 0xAB 0x85 0x00; U4 0xE1 0xAB 0x86 0x00; U4 0xE1 0xAB 0x87 0x00;
   U4 0xE1 0xAB 0x88 0x00; U4 0xE1 0xAB 0x89 0x00; U4 0xE1 0xAB 0x8A 0x00; U4 0xE1 0xAB 0x8B 0x00;
   U4 0xE1 0xAB 0x8C 0x00; U4 0xE1 0xAB 0x8D 0x00; U4 0xE1 0xAB 0x8E 0x00; U4 0xE1 0xAB 0x8F 0x00;
   U4 0xE1 0xAB 0x90 0x00; U4 0xE1 0xAB 0x91 0x00; U4 0xE1 0xAB 0x92 0x00; U4 0xE1 0xAB 0x93 0x00;
   U4 0xE1 0xAB 0x94 0x00; U4 0xE1 0xAB 0x95 0x00; U4 0xE1 0xAB 0x96 0x00; U4 0xE1 0xAB 0x97 0x00;
   U4 0xE1 0xAB 0x98 0x00; U4 0xE1 0xAB 0x99 0x00; U4 0xE1 0xAB 0x9A 0x00; U4 0xE1 0xAB 0x9B 0x00;
   U4 0xE1 0xAB 0x9C 0x00; U4 0xE1 0xAB 0x9D 0x00; U4 0xE1 0xAB 0x9E 0x00; U4 0xE1 0xAB 0x9F 0x00;
   U4 0xE1 0xAB 0xA0 0x00; U4 0xE1 0xAB 0xA1 0x00; U4 0xE1 0xAB 0xA2 0x00; U4 0xE1 0xAB 0xA3 0x00;
   U4 0xE1 0xAB 0xA4 0x00; U4 0xE1 0xAB 0xA5 0x00; U4 0xE1 0xAB 0xA6 0x00; U4 0xE1 0xAB 0xA7 0x00;
   U4 0xE1 0xAB 0xA8 0x00; U4 0xE1 0xAB 0xA9 0x00; U4 0xE1 0xAB 0xAA 0x00; U4 0xE1 0xAB 0xAB 0x00;
   U4 0xE1 0xAB 0xAC 0x00; U4 0xE1 0xAB 0xAD 0x00; U4 0xE1 0xAB 0xAE 0x00; U4 0xE1 0xAB 0xAF 0x00;
   U4 0xE1 0xAB 0xB0 0x00; U4 0xE1 0xAB 0xB1 0x00; U4 0xE1 0xAB 0xB2 0x00; U4 0xE1 0xAB 0xB3 0x00;
   U4 0xE1 0xAB 0xB4 0x00; U4 0xE1 0xAB 0xB5 0x00; U4 0xE1 0xAB 0xB6 0x00; U4 0xE1 0xAB 0xB7 0x00;
   U4 0xE1 0xAB 0xB8 0x00; U4 0xE1 0xAB 0xB9 0x00; U4 0xE1 0xAB 0xBA 0x00; U4 0xE1 0xAB 0xBB 0x00;
   U4 0xE1 0xAB 0xBC 0x00; U4 0xE1 0xAB 0xBD 0x00; U4 0xE1 0xAB 0xBE 0x00; U4 0xE1 0xAB 0xBF 0x00].

Definition PLANE_3_E1_AC : Plane4Bytes :=
  [U4 0xE1 0xAC 0x80 0x00; U4 0xE1 0xAC 0x81 0x00; U4 0xE1 0xAC 0x82 0x00; U4 0xE1 0xAC 0x83 0x00;
   U4 0xE1 0xAC 0x84 0x00; U4 0xE1 0xAC 0x85 0x00; U4 0xE1 0xAC 0x86 0x00; U4 0xE1 0xAC 0x87 0x00;
   U4 0xE1 0xAC 0x88 0x00; U4 0xE1 0xAC 0x89 0x00; U4 0xE1 0xAC 0x8A 0x00; U4 0xE1 0xAC 0x8B 0x00;
   U4 0xE1 0xAC 0x8C 0x00; U4 0xE1 0xAC 0x8D 0x00; U4 0xE1 0xAC 0x8E 0x00; U4 0xE1 0xAC 0x8F 0x00;
   U4 0xE1 0xAC 0x90 0x00; U4 0xE1 0xAC 0x91 0x00; U4 0xE1 0xAC 0x92 0x00; U4 0xE1 0xAC 0x93 0x00;
   U4 0xE1 0xAC 0x94 0x00; U4 0xE1 0xAC 0x95 0x00; U4 0xE1 0xAC 0x96 0x00; U4 0xE1 0xAC 0x97 0x00;
   U4 0xE1 0xAC 0x98 0x00; U4 0xE1 0xAC 0x99 0x00; U4 0xE1 0xAC 0x9A 0x00; U4 0xE1 0xAC 0x9B 0x00;
   U4 0xE1 0xAC 0x9C 0x00; U4 0xE1 0xAC 0x9D 0x00; U4 0xE1 0xAC 0x9E 0x00; U4 0xE1 0xAC 0x9F 0x00;
   U4 0xE1 0xAC 0xA0 0x00; U4 0xE1 0xAC 0xA1 0x00; U4 0xE1 0xAC 0xA2 0x00; U4 0xE1 0xAC 0xA3 0x00;
   U4 0xE1 0xAC 0xA4 0x00; U4 0xE1 0xAC 0xA5 0x00; U4 0xE1 0xAC 0xA6 0x00; U4 0xE1 0xAC 0xA7 0x00;
   U4 0xE1 0xAC 0xA8 0x00; U4 0xE1 0xAC 0xA9 0x00; U4 0xE1 0xAC 0xAA 0x00; U4 0xE1 0xAC 0xAB 0x00;
   U4 0xE1 0xAC 0xAC 0x00; U4 0xE1 0xAC 0xAD 0x00; U4 0xE1 0xAC 0xAE 0x00; U4 0xE1 0xAC 0xAF 0x00;
   U4 0xE1 0xAC 0xB0 0x00; U4 0xE1 0xAC 0xB1 0x00; U4 0xE1 0xAC 0xB2 0x00; U4 0xE1 0xAC 0xB3 0x00;
   U4 0xE1 0xAC 0xB4 0x00; U4 0xE1 0xAC 0xB5 0x00; U4 0xE1 0xAC 0xB6 0x00; U4 0xE1 0xAC 0xB7 0x00;
   U4 0xE1 0xAC 0xB8 0x00; U4 0xE1 0xAC 0xB9 0x00; U4 0xE1 0xAC 0xBA 0x00; U4 0xE1 0xAC 0xBB 0x00;
   U4 0xE1 0xAC 0xBC 0x00; U4 0xE1 0xAC 0xBD 0x00; U4 0xE1 0xAC 0xBE 0x00; U4 0xE1 0xAC 0xBF 0x00].

Definition PLANE_3_E1_AD : Plane4Bytes :=
  [U4 0xE1 0xAD 0x80 0x00; U4 0xE1 0xAD 0x81 0x00; U4 0xE1 0xAD 0x82 0x00; U4 0xE1 0xAD 0x83 0x00;
   U4 0xE1 0xAD 0x84 0x00; U4 0xE1 0xAD 0x85 0x00; U4 0xE1 0xAD 0x86 0x00; U4 0xE1 0xAD 0x87 0x00;
   U4 0xE1 0xAD 0x88 0x00; U4 0xE1 0xAD 0x89 0x00; U4 0xE1 0xAD 0x8A 0x00; U4 0xE1 0xAD 0x8B 0x00;
   U4 0xE1 0xAD 0x8C 0x00; U4 0xE1 0xAD 0x8D 0x00; U4 0xE1 0xAD 0x8E 0x00; U4 0xE1 0xAD 0x8F 0x00;
   U4 0xE1 0xAD 0x90 0x00; U4 0xE1 0xAD 0x91 0x00; U4 0xE1 0xAD 0x92 0x00; U4 0xE1 0xAD 0x93 0x00;
   U4 0xE1 0xAD 0x94 0x00; U4 0xE1 0xAD 0x95 0x00; U4 0xE1 0xAD 0x96 0x00; U4 0xE1 0xAD 0x97 0x00;
   U4 0xE1 0xAD 0x98 0x00; U4 0xE1 0xAD 0x99 0x00; U4 0xE1 0xAD 0x9A 0x00; U4 0xE1 0xAD 0x9B 0x00;
   U4 0xE1 0xAD 0x9C 0x00; U4 0xE1 0xAD 0x9D 0x00; U4 0xE1 0xAD 0x9E 0x00; U4 0xE1 0xAD 0x9F 0x00;
   U4 0xE1 0xAD 0xA0 0x00; U4 0xE1 0xAD 0xA1 0x00; U4 0xE1 0xAD 0xA2 0x00; U4 0xE1 0xAD 0xA3 0x00;
   U4 0xE1 0xAD 0xA4 0x00; U4 0xE1 0xAD 0xA5 0x00; U4 0xE1 0xAD 0xA6 0x00; U4 0xE1 0xAD 0xA7 0x00;
   U4 0xE1 0xAD 0xA8 0x00; U4 0xE1 0xAD 0xA9 0x00; U4 0xE1 0xAD 0xAA 0x00; U4 0xE1 0xAD 0xAB 0x00;
   U4 0xE1 0xAD 0xAC 0x00; U4 0xE1 0xAD 0xAD 0x00; U4 0xE1 0xAD 0xAE 0x00; U4 0xE1 0xAD 0xAF 0x00;
   U4 0xE1 0xAD 0xB0 0x00; U4 0xE1 0xAD 0xB1 0x00; U4 0xE1 0xAD 0xB2 0x00; U4 0xE1 0xAD 0xB3 0x00;
   U4 0xE1 0xAD 0xB4 0x00; U4 0xE1 0xAD 0xB5 0x00; U4 0xE1 0xAD 0xB6 0x00; U4 0xE1 0xAD 0xB7 0x00;
   U4 0xE1 0xAD 0xB8 0x00; U4 0xE1 0xAD 0xB9 0x00; U4 0xE1 0xAD 0xBA 0x00; U4 0xE1 0xAD 0xBB 0x00;
   U4 0xE1 0xAD 0xBC 0x00; U4 0xE1 0xAD 0xBD 0x00; U4 0xE1 0xAD 0xBE 0x00; U4 0xE1 0xAD 0xBF 0x00].

Definition PLANE_3_E1_AE : Plane4Bytes :=
  [U4 0xE1 0xAE 0x80 0x00; U4 0xE1 0xAE 0x81 0x00; U4 0xE1 0xAE 0x82 0x00; U4 0xE1 0xAE 0x83 0x00;
   U4 0xE1 0xAE 0x84 0x00; U4 0xE1 0xAE 0x85 0x00; U4 0xE1 0xAE 0x86 0x00; U4 0xE1 0xAE 0x87 0x00;
   U4 0xE1 0xAE 0x88 0x00; U4 0xE1 0xAE 0x89 0x00; U4 0xE1 0xAE 0x8A 0x00; U4 0xE1 0xAE 0x8B 0x00;
   U4 0xE1 0xAE 0x8C 0x00; U4 0xE1 0xAE 0x8D 0x00; U4 0xE1 0xAE 0x8E 0x00; U4 0xE1 0xAE 0x8F 0x00;
   U4 0xE1 0xAE 0x90 0x00; U4 0xE1 0xAE 0x91 0x00; U4 0xE1 0xAE 0x92 0x00; U4 0xE1 0xAE 0x93 0x00;
   U4 0xE1 0xAE 0x94 0x00; U4 0xE1 0xAE 0x95 0x00; U4 0xE1 0xAE 0x96 0x00; U4 0xE1 0xAE 0x97 0x00;
   U4 0xE1 0xAE 0x98 0x00; U4 0xE1 0xAE 0x99 0x00; U4 0xE1 0xAE 0x9A 0x00; U4 0xE1 0xAE 0x9B 0x00;
   U4 0xE1 0xAE 0x9C 0x00; U4 0xE1 0xAE 0x9D 0x00; U4 0xE1 0xAE 0x9E 0x00; U4 0xE1 0xAE 0x9F 0x00;
   U4 0xE1 0xAE 0xA0 0x00; U4 0xE1 0xAE 0xA1 0x00; U4 0xE1 0xAE 0xA2 0x00; U4 0xE1 0xAE 0xA3 0x00;
   U4 0xE1 0xAE 0xA4 0x00; U4 0xE1 0xAE 0xA5 0x00; U4 0xE1 0xAE 0xA6 0x00; U4 0xE1 0xAE 0xA7 0x00;
   U4 0xE1 0xAE 0xA8 0x00; U4 0xE1 0xAE 0xA9 0x00; U4 0xE1 0xAE 0xAA 0x00; U4 0xE1 0xAE 0xAB 0x00;
   U4 0xE1 0xAE 0xAC 0x00; U4 0xE1 0xAE 0xAD 0x00; U4 0xE1 0xAE 0xAE 0x00; U4 0xE1 0xAE 0xAF 0x00;
   U4 0xE1 0xAE 0xB0 0x00; U4 0xE1 0xAE 0xB1 0x00; U4 0xE1 0xAE 0xB2 0x00; U4 0xE1 0xAE 0xB3 0x00;
   U4 0xE1 0xAE 0xB4 0x00; U4 0xE1 0xAE 0xB5 0x00; U4 0xE1 0xAE 0xB6 0x00; U4 0xE1 0xAE 0xB7 0x00;
   U4 0xE1 0xAE 0xB8 0x00; U4 0xE1 0xAE 0xB9 0x00; U4 0xE1 0xAE 0xBA 0x00; U4 0xE1 0xAE 0xBB 0x00;
   U4 0xE1 0xAE 0xBC 0x00; U4 0xE1 0xAE 0xBD 0x00; U4 0xE1 0xAE 0xBE 0x00; U4 0xE1 0xAE 0xBF 0x00].

Definition PLANE_3_E1_AF : Plane4Bytes :=
  [U4 0xE1 0xAF 0x80 0x00; U4 0xE1 0xAF 0x81 0x00; U4 0xE1 0xAF 0x82 0x00; U4 0xE1 0xAF 0x83 0x00;
   U4 0xE1 0xAF 0x84 0x00; U4 0xE1 0xAF 0x85 0x00; U4 0xE1 0xAF 0x86 0x00; U4 0xE1 0xAF 0x87 0x00;
   U4 0xE1 0xAF 0x88 0x00; U4 0xE1 0xAF 0x89 0x00; U4 0xE1 0xAF 0x8A 0x00; U4 0xE1 0xAF 0x8B 0x00;
   U4 0xE1 0xAF 0x8C 0x00; U4 0xE1 0xAF 0x8D 0x00; U4 0xE1 0xAF 0x8E 0x00; U4 0xE1 0xAF 0x8F 0x00;
   U4 0xE1 0xAF 0x90 0x00; U4 0xE1 0xAF 0x91 0x00; U4 0xE1 0xAF 0x92 0x00; U4 0xE1 0xAF 0x93 0x00;
   U4 0xE1 0xAF 0x94 0x00; U4 0xE1 0xAF 0x95 0x00; U4 0xE1 0xAF 0x96 0x00; U4 0xE1 0xAF 0x97 0x00;
   U4 0xE1 0xAF 0x98 0x00; U4 0xE1 0xAF 0x99 0x00; U4 0xE1 0xAF 0x9A 0x00; U4 0xE1 0xAF 0x9B 0x00;
   U4 0xE1 0xAF 0x9C 0x00; U4 0xE1 0xAF 0x9D 0x00; U4 0xE1 0xAF 0x9E 0x00; U4 0xE1 0xAF 0x9F 0x00;
   U4 0xE1 0xAF 0xA0 0x00; U4 0xE1 0xAF 0xA1 0x00; U4 0xE1 0xAF 0xA2 0x00; U4 0xE1 0xAF 0xA3 0x00;
   U4 0xE1 0xAF 0xA4 0x00; U4 0xE1 0xAF 0xA5 0x00; U4 0xE1 0xAF 0xA6 0x00; U4 0xE1 0xAF 0xA7 0x00;
   U4 0xE1 0xAF 0xA8 0x00; U4 0xE1 0xAF 0xA9 0x00; U4 0xE1 0xAF 0xAA 0x00; U4 0xE1 0xAF 0xAB 0x00;
   U4 0xE1 0xAF 0xAC 0x00; U4 0xE1 0xAF 0xAD 0x00; U4 0xE1 0xAF 0xAE 0x00; U4 0xE1 0xAF 0xAF 0x00;
   U4 0xE1 0xAF 0xB0 0x00; U4 0xE1 0xAF 0xB1 0x00; U4 0xE1 0xAF 0xB2 0x00; U4 0xE1 0xAF 0xB3 0x00;
   U4 0xE1 0xAF 0xB4 0x00; U4 0xE1 0xAF 0xB5 0x00; U4 0xE1 0xAF 0xB6 0x00; U4 0xE1 0xAF 0xB7 0x00;
   U4 0xE1 0xAF 0xB8 0x00; U4 0xE1 0xAF 0xB9 0x00; U4 0xE1 0xAF 0xBA 0x00; U4 0xE1 0xAF 0xBB 0x00;
   U4 0xE1 0xAF 0xBC 0x00; U4 0xE1 0xAF 0xBD 0x00; U4 0xE1 0xAF 0xBE 0x00; U4 0xE1 0xAF 0xBF 0x00].

Definition PLANE_3_E1_B0 : Plane4Bytes :=
  [U4 0xE1 0xB0 0x80 0x00; U4 0xE1 0xB0 0x81 0x00; U4 0xE1 0xB0 0x82 0x00; U4 0xE1 0xB0 0x83 0x00;
   U4 0xE1 0xB0 0x84 0x00; U4 0xE1 0xB0 0x85 0x00; U4 0xE1 0xB0 0x86 0x00; U4 0xE1 0xB0 0x87 0x00;
   U4 0xE1 0xB0 0x88 0x00; U4 0xE1 0xB0 0x89 0x00; U4 0xE1 0xB0 0x8A 0x00; U4 0xE1 0xB0 0x8B 0x00;
   U4 0xE1 0xB0 0x8C 0x00; U4 0xE1 0xB0 0x8D 0x00; U4 0xE1 0xB0 0x8E 0x00; U4 0xE1 0xB0 0x8F 0x00;
   U4 0xE1 0xB0 0x90 0x00; U4 0xE1 0xB0 0x91 0x00; U4 0xE1 0xB0 0x92 0x00; U4 0xE1 0xB0 0x93 0x00;
   U4 0xE1 0xB0 0x94 0x00; U4 0xE1 0xB0 0x95 0x00; U4 0xE1 0xB0 0x96 0x00; U4 0xE1 0xB0 0x97 0x00;
   U4 0xE1 0xB0 0x98 0x00; U4 0xE1 0xB0 0x99 0x00; U4 0xE1 0xB0 0x9A 0x00; U4 0xE1 0xB0 0x9B 0x00;
   U4 0xE1 0xB0 0x9C 0x00; U4 0xE1 0xB0 0x9D 0x00; U4 0xE1 0xB0 0x9E 0x00; U4 0xE1 0xB0 0x9F 0x00;
   U4 0xE1 0xB0 0xA0 0x00; U4 0xE1 0xB0 0xA1 0x00; U4 0xE1 0xB0 0xA2 0x00; U4 0xE1 0xB0 0xA3 0x00;
   U4 0xE1 0xB0 0xA4 0x00; U4 0xE1 0xB0 0xA5 0x00; U4 0xE1 0xB0 0xA6 0x00; U4 0xE1 0xB0 0xA7 0x00;
   U4 0xE1 0xB0 0xA8 0x00; U4 0xE1 0xB0 0xA9 0x00; U4 0xE1 0xB0 0xAA 0x00; U4 0xE1 0xB0 0xAB 0x00;
   U4 0xE1 0xB0 0xAC 0x00; U4 0xE1 0xB0 0xAD 0x00; U4 0xE1 0xB0 0xAE 0x00; U4 0xE1 0xB0 0xAF 0x00;
   U4 0xE1 0xB0 0xB0 0x00; U4 0xE1 0xB0 0xB1 0x00; U4 0xE1 0xB0 0xB2 0x00; U4 0xE1 0xB0 0xB3 0x00;
   U4 0xE1 0xB0 0xB4 0x00; U4 0xE1 0xB0 0xB5 0x00; U4 0xE1 0xB0 0xB6 0x00; U4 0xE1 0xB0 0xB7 0x00;
   U4 0xE1 0xB0 0xB8 0x00; U4 0xE1 0xB0 0xB9 0x00; U4 0xE1 0xB0 0xBA 0x00; U4 0xE1 0xB0 0xBB 0x00;
   U4 0xE1 0xB0 0xBC 0x00; U4 0xE1 0xB0 0xBD 0x00; U4 0xE1 0xB0 0xBE 0x00; U4 0xE1 0xB0 0xBF 0x00].

Definition PLANE_3_E1_B1 : Plane4Bytes :=
  [U4 0xE1 0xB1 0x80 0x00; U4 0xE1 0xB1 0x81 0x00; U4 0xE1 0xB1 0x82 0x00; U4 0xE1 0xB1 0x83 0x00;
   U4 0xE1 0xB1 0x84 0x00; U4 0xE1 0xB1 0x85 0x00; U4 0xE1 0xB1 0x86 0x00; U4 0xE1 0xB1 0x87 0x00;
   U4 0xE1 0xB1 0x88 0x00; U4 0xE1 0xB1 0x89 0x00; U4 0xE1 0xB1 0x8A 0x00; U4 0xE1 0xB1 0x8B 0x00;
   U4 0xE1 0xB1 0x8C 0x00; U4 0xE1 0xB1 0x8D 0x00; U4 0xE1 0xB1 0x8E 0x00; U4 0xE1 0xB1 0x8F 0x00;
   U4 0xE1 0xB1 0x90 0x00; U4 0xE1 0xB1 0x91 0x00; U4 0xE1 0xB1 0x92 0x00; U4 0xE1 0xB1 0x93 0x00;
   U4 0xE1 0xB1 0x94 0x00; U4 0xE1 0xB1 0x95 0x00; U4 0xE1 0xB1 0x96 0x00; U4 0xE1 0xB1 0x97 0x00;
   U4 0xE1 0xB1 0x98 0x00; U4 0xE1 0xB1 0x99 0x00; U4 0xE1 0xB1 0x9A 0x00; U4 0xE1 0xB1 0x9B 0x00;
   U4 0xE1 0xB1 0x9C 0x00; U4 0xE1 0xB1 0x9D 0x00; U4 0xE1 0xB1 0x9E 0x00; U4 0xE1 0xB1 0x9F 0x00;
   U4 0xE1 0xB1 0xA0 0x00; U4 0xE1 0xB1 0xA1 0x00; U4 0xE1 0xB1 0xA2 0x00; U4 0xE1 0xB1 0xA3 0x00;
   U4 0xE1 0xB1 0xA4 0x00; U4 0xE1 0xB1 0xA5 0x00; U4 0xE1 0xB1 0xA6 0x00; U4 0xE1 0xB1 0xA7 0x00;
   U4 0xE1 0xB1 0xA8 0x00; U4 0xE1 0xB1 0xA9 0x00; U4 0xE1 0xB1 0xAA 0x00; U4 0xE1 0xB1 0xAB 0x00;
   U4 0xE1 0xB1 0xAC 0x00; U4 0xE1 0xB1 0xAD 0x00; U4 0xE1 0xB1 0xAE 0x00; U4 0xE1 0xB1 0xAF 0x00;
   U4 0xE1 0xB1 0xB0 0x00; U4 0xE1 0xB1 0xB1 0x00; U4 0xE1 0xB1 0xB2 0x00; U4 0xE1 0xB1 0xB3 0x00;
   U4 0xE1 0xB1 0xB4 0x00; U4 0xE1 0xB1 0xB5 0x00; U4 0xE1 0xB1 0xB6 0x00; U4 0xE1 0xB1 0xB7 0x00;
   U4 0xE1 0xB1 0xB8 0x00; U4 0xE1 0xB1 0xB9 0x00; U4 0xE1 0xB1 0xBA 0x00; U4 0xE1 0xB1 0xBB 0x00;
   U4 0xE1 0xB1 0xBC 0x00; U4 0xE1 0xB1 0xBD 0x00; U4 0xE1 0xB1 0xBE 0x00; U4 0xE1 0xB1 0xBF 0x00].

Definition PLANE_3_E1_B2 : Plane4Bytes :=
  [U4 0xE1 0xB2 0x80 0x00; U4 0xE1 0xB2 0x81 0x00; U4 0xE1 0xB2 0x82 0x00; U4 0xE1 0xB2 0x83 0x00;
   U4 0xE1 0xB2 0x84 0x00; U4 0xE1 0xB2 0x85 0x00; U4 0xE1 0xB2 0x86 0x00; U4 0xE1 0xB2 0x87 0x00;
   U4 0xE1 0xB2 0x88 0x00; U4 0xE1 0xB2 0x89 0x00; U4 0xE1 0xB2 0x8A 0x00; U4 0xE1 0xB2 0x8B 0x00;
   U4 0xE1 0xB2 0x8C 0x00; U4 0xE1 0xB2 0x8D 0x00; U4 0xE1 0xB2 0x8E 0x00; U4 0xE1 0xB2 0x8F 0x00;
   U4 0xE1 0xB2 0x90 0x00; U4 0xE1 0xB2 0x91 0x00; U4 0xE1 0xB2 0x92 0x00; U4 0xE1 0xB2 0x93 0x00;
   U4 0xE1 0xB2 0x94 0x00; U4 0xE1 0xB2 0x95 0x00; U4 0xE1 0xB2 0x96 0x00; U4 0xE1 0xB2 0x97 0x00;
   U4 0xE1 0xB2 0x98 0x00; U4 0xE1 0xB2 0x99 0x00; U4 0xE1 0xB2 0x9A 0x00; U4 0xE1 0xB2 0x9B 0x00;
   U4 0xE1 0xB2 0x9C 0x00; U4 0xE1 0xB2 0x9D 0x00; U4 0xE1 0xB2 0x9E 0x00; U4 0xE1 0xB2 0x9F 0x00;
   U4 0xE1 0xB2 0xA0 0x00; U4 0xE1 0xB2 0xA1 0x00; U4 0xE1 0xB2 0xA2 0x00; U4 0xE1 0xB2 0xA3 0x00;
   U4 0xE1 0xB2 0xA4 0x00; U4 0xE1 0xB2 0xA5 0x00; U4 0xE1 0xB2 0xA6 0x00; U4 0xE1 0xB2 0xA7 0x00;
   U4 0xE1 0xB2 0xA8 0x00; U4 0xE1 0xB2 0xA9 0x00; U4 0xE1 0xB2 0xAA 0x00; U4 0xE1 0xB2 0xAB 0x00;
   U4 0xE1 0xB2 0xAC 0x00; U4 0xE1 0xB2 0xAD 0x00; U4 0xE1 0xB2 0xAE 0x00; U4 0xE1 0xB2 0xAF 0x00;
   U4 0xE1 0xB2 0xB0 0x00; U4 0xE1 0xB2 0xB1 0x00; U4 0xE1 0xB2 0xB2 0x00; U4 0xE1 0xB2 0xB3 0x00;
   U4 0xE1 0xB2 0xB4 0x00; U4 0xE1 0xB2 0xB5 0x00; U4 0xE1 0xB2 0xB6 0x00; U4 0xE1 0xB2 0xB7 0x00;
   U4 0xE1 0xB2 0xB8 0x00; U4 0xE1 0xB2 0xB9 0x00; U4 0xE1 0xB2 0xBA 0x00; U4 0xE1 0xB2 0xBB 0x00;
   U4 0xE1 0xB2 0xBC 0x00; U4 0xE1 0xB2 0xBD 0x00; U4 0xE1 0xB2 0xBE 0x00; U4 0xE1 0xB2 0xBF 0x00].

Definition PLANE_3_E1_B3 : Plane4Bytes :=
  [U4 0xE1 0xB3 0x80 0x00; U4 0xE1 0xB3 0x81 0x00; U4 0xE1 0xB3 0x82 0x00; U4 0xE1 0xB3 0x83 0x00;
   U4 0xE1 0xB3 0x84 0x00; U4 0xE1 0xB3 0x85 0x00; U4 0xE1 0xB3 0x86 0x00; U4 0xE1 0xB3 0x87 0x00;
   U4 0xE1 0xB3 0x88 0x00; U4 0xE1 0xB3 0x89 0x00; U4 0xE1 0xB3 0x8A 0x00; U4 0xE1 0xB3 0x8B 0x00;
   U4 0xE1 0xB3 0x8C 0x00; U4 0xE1 0xB3 0x8D 0x00; U4 0xE1 0xB3 0x8E 0x00; U4 0xE1 0xB3 0x8F 0x00;
   U4 0xE1 0xB3 0x90 0x00; U4 0xE1 0xB3 0x91 0x00; U4 0xE1 0xB3 0x92 0x00; U4 0xE1 0xB3 0x93 0x00;
   U4 0xE1 0xB3 0x94 0x00; U4 0xE1 0xB3 0x95 0x00; U4 0xE1 0xB3 0x96 0x00; U4 0xE1 0xB3 0x97 0x00;
   U4 0xE1 0xB3 0x98 0x00; U4 0xE1 0xB3 0x99 0x00; U4 0xE1 0xB3 0x9A 0x00; U4 0xE1 0xB3 0x9B 0x00;
   U4 0xE1 0xB3 0x9C 0x00; U4 0xE1 0xB3 0x9D 0x00; U4 0xE1 0xB3 0x9E 0x00; U4 0xE1 0xB3 0x9F 0x00;
   U4 0xE1 0xB3 0xA0 0x00; U4 0xE1 0xB3 0xA1 0x00; U4 0xE1 0xB3 0xA2 0x00; U4 0xE1 0xB3 0xA3 0x00;
   U4 0xE1 0xB3 0xA4 0x00; U4 0xE1 0xB3 0xA5 0x00; U4 0xE1 0xB3 0xA6 0x00; U4 0xE1 0xB3 0xA7 0x00;
   U4 0xE1 0xB3 0xA8 0x00; U4 0xE1 0xB3 0xA9 0x00; U4 0xE1 0xB3 0xAA 0x00; U4 0xE1 0xB3 0xAB 0x00;
   U4 0xE1 0xB3 0xAC 0x00; U4 0xE1 0xB3 0xAD 0x00; U4 0xE1 0xB3 0xAE 0x00; U4 0xE1 0xB3 0xAF 0x00;
   U4 0xE1 0xB3 0xB0 0x00; U4 0xE1 0xB3 0xB1 0x00; U4 0xE1 0xB3 0xB2 0x00; U4 0xE1 0xB3 0xB3 0x00;
   U4 0xE1 0xB3 0xB4 0x00; U4 0xE1 0xB3 0xB5 0x00; U4 0xE1 0xB3 0xB6 0x00; U4 0xE1 0xB3 0xB7 0x00;
   U4 0xE1 0xB3 0xB8 0x00; U4 0xE1 0xB3 0xB9 0x00; U4 0xE1 0xB3 0xBA 0x00; U4 0xE1 0xB3 0xBB 0x00;
   U4 0xE1 0xB3 0xBC 0x00; U4 0xE1 0xB3 0xBD 0x00; U4 0xE1 0xB3 0xBE 0x00; U4 0xE1 0xB3 0xBF 0x00].

Definition PLANE_3_E1_B4 : Plane4Bytes :=
  [U4 0xE1 0xB4 0x80 0x00; U4 0xE1 0xB4 0x81 0x00; U4 0xE1 0xB4 0x82 0x00; U4 0xE1 0xB4 0x83 0x00;
   U4 0xE1 0xB4 0x84 0x00; U4 0xE1 0xB4 0x85 0x00; U4 0xE1 0xB4 0x86 0x00; U4 0xE1 0xB4 0x87 0x00;
   U4 0xE1 0xB4 0x88 0x00; U4 0xE1 0xB4 0x89 0x00; U4 0xE1 0xB4 0x8A 0x00; U4 0xE1 0xB4 0x8B 0x00;
   U4 0xE1 0xB4 0x8C 0x00; U4 0xE1 0xB4 0x8D 0x00; U4 0xE1 0xB4 0x8E 0x00; U4 0xE1 0xB4 0x8F 0x00;
   U4 0xE1 0xB4 0x90 0x00; U4 0xE1 0xB4 0x91 0x00; U4 0xE1 0xB4 0x92 0x00; U4 0xE1 0xB4 0x93 0x00;
   U4 0xE1 0xB4 0x94 0x00; U4 0xE1 0xB4 0x95 0x00; U4 0xE1 0xB4 0x96 0x00; U4 0xE1 0xB4 0x97 0x00;
   U4 0xE1 0xB4 0x98 0x00; U4 0xE1 0xB4 0x99 0x00; U4 0xE1 0xB4 0x9A 0x00; U4 0xE1 0xB4 0x9B 0x00;
   U4 0xE1 0xB4 0x9C 0x00; U4 0xE1 0xB4 0x9D 0x00; U4 0xE1 0xB4 0x9E 0x00; U4 0xE1 0xB4 0x9F 0x00;
   U4 0xE1 0xB4 0xA0 0x00; U4 0xE1 0xB4 0xA1 0x00; U4 0xE1 0xB4 0xA2 0x00; U4 0xE1 0xB4 0xA3 0x00;
   U4 0xE1 0xB4 0xA4 0x00; U4 0xE1 0xB4 0xA5 0x00; U4 0xE1 0xB4 0xA6 0x00; U4 0xE1 0xB4 0xA7 0x00;
   U4 0xE1 0xB4 0xA8 0x00; U4 0xE1 0xB4 0xA9 0x00; U4 0xE1 0xB4 0xAA 0x00; U4 0xE1 0xB4 0xAB 0x00;
   U4 0xE1 0xB4 0xAC 0x00; U4 0xE1 0xB4 0xAD 0x00; U4 0xE1 0xB4 0xAE 0x00; U4 0xE1 0xB4 0xAF 0x00;
   U4 0xE1 0xB4 0xB0 0x00; U4 0xE1 0xB4 0xB1 0x00; U4 0xE1 0xB4 0xB2 0x00; U4 0xE1 0xB4 0xB3 0x00;
   U4 0xE1 0xB4 0xB4 0x00; U4 0xE1 0xB4 0xB5 0x00; U4 0xE1 0xB4 0xB6 0x00; U4 0xE1 0xB4 0xB7 0x00;
   U4 0xE1 0xB4 0xB8 0x00; U4 0xE1 0xB4 0xB9 0x00; U4 0xE1 0xB4 0xBA 0x00; U4 0xE1 0xB4 0xBB 0x00;
   U4 0xE1 0xB4 0xBC 0x00; U4 0xE1 0xB4 0xBD 0x00; U4 0xE1 0xB4 0xBE 0x00; U4 0xE1 0xB4 0xBF 0x00].

Definition PLANE_3_E1_B5 : Plane4Bytes :=
  [U4 0xE1 0xB5 0x80 0x00; U4 0xE1 0xB5 0x81 0x00; U4 0xE1 0xB5 0x82 0x00; U4 0xE1 0xB5 0x83 0x00;
   U4 0xE1 0xB5 0x84 0x00; U4 0xE1 0xB5 0x85 0x00; U4 0xE1 0xB5 0x86 0x00; U4 0xE1 0xB5 0x87 0x00;
   U4 0xE1 0xB5 0x88 0x00; U4 0xE1 0xB5 0x89 0x00; U4 0xE1 0xB5 0x8A 0x00; U4 0xE1 0xB5 0x8B 0x00;
   U4 0xE1 0xB5 0x8C 0x00; U4 0xE1 0xB5 0x8D 0x00; U4 0xE1 0xB5 0x8E 0x00; U4 0xE1 0xB5 0x8F 0x00;
   U4 0xE1 0xB5 0x90 0x00; U4 0xE1 0xB5 0x91 0x00; U4 0xE1 0xB5 0x92 0x00; U4 0xE1 0xB5 0x93 0x00;
   U4 0xE1 0xB5 0x94 0x00; U4 0xE1 0xB5 0x95 0x00; U4 0xE1 0xB5 0x96 0x00; U4 0xE1 0xB5 0x97 0x00;
   U4 0xE1 0xB5 0x98 0x00; U4 0xE1 0xB5 0x99 0x00; U4 0xE1 0xB5 0x9A 0x00; U4 0xE1 0xB5 0x9B 0x00;
   U4 0xE1 0xB5 0x9C 0x00; U4 0xE1 0xB5 0x9D 0x00; U4 0xE1 0xB5 0x9E 0x00; U4 0xE1 0xB5 0x9F 0x00;
   U4 0xE1 0xB5 0xA0 0x00; U4 0xE1 0xB5 0xA1 0x00; U4 0xE1 0xB5 0xA2 0x00; U4 0xE1 0xB5 0xA3 0x00;
   U4 0xE1 0xB5 0xA4 0x00; U4 0xE1 0xB5 0xA5 0x00; U4 0xE1 0xB5 0xA6 0x00; U4 0xE1 0xB5 0xA7 0x00;
   U4 0xE1 0xB5 0xA8 0x00; U4 0xE1 0xB5 0xA9 0x00; U4 0xE1 0xB5 0xAA 0x00; U4 0xE1 0xB5 0xAB 0x00;
   U4 0xE1 0xB5 0xAC 0x00; U4 0xE1 0xB5 0xAD 0x00; U4 0xE1 0xB5 0xAE 0x00; U4 0xE1 0xB5 0xAF 0x00;
   U4 0xE1 0xB5 0xB0 0x00; U4 0xE1 0xB5 0xB1 0x00; U4 0xE1 0xB5 0xB2 0x00; U4 0xE1 0xB5 0xB3 0x00;
   U4 0xE1 0xB5 0xB4 0x00; U4 0xE1 0xB5 0xB5 0x00; U4 0xE1 0xB5 0xB6 0x00; U4 0xE1 0xB5 0xB7 0x00;
   U4 0xE1 0xB5 0xB8 0x00; U4 0xE1 0xB5 0xB9 0x00; U4 0xE1 0xB5 0xBA 0x00; U4 0xE1 0xB5 0xBB 0x00;
   U4 0xE1 0xB5 0xBC 0x00; U4 0xE1 0xB5 0xBD 0x00; U4 0xE1 0xB5 0xBE 0x00; U4 0xE1 0xB5 0xBF 0x00].

Definition PLANE_3_E1_B6 : Plane4Bytes :=
  [U4 0xE1 0xB6 0x80 0x00; U4 0xE1 0xB6 0x81 0x00; U4 0xE1 0xB6 0x82 0x00; U4 0xE1 0xB6 0x83 0x00;
   U4 0xE1 0xB6 0x84 0x00; U4 0xE1 0xB6 0x85 0x00; U4 0xE1 0xB6 0x86 0x00; U4 0xE1 0xB6 0x87 0x00;
   U4 0xE1 0xB6 0x88 0x00; U4 0xE1 0xB6 0x89 0x00; U4 0xE1 0xB6 0x8A 0x00; U4 0xE1 0xB6 0x8B 0x00;
   U4 0xE1 0xB6 0x8C 0x00; U4 0xE1 0xB6 0x8D 0x00; U4 0xE1 0xB6 0x8E 0x00; U4 0xE1 0xB6 0x8F 0x00;
   U4 0xE1 0xB6 0x90 0x00; U4 0xE1 0xB6 0x91 0x00; U4 0xE1 0xB6 0x92 0x00; U4 0xE1 0xB6 0x93 0x00;
   U4 0xE1 0xB6 0x94 0x00; U4 0xE1 0xB6 0x95 0x00; U4 0xE1 0xB6 0x96 0x00; U4 0xE1 0xB6 0x97 0x00;
   U4 0xE1 0xB6 0x98 0x00; U4 0xE1 0xB6 0x99 0x00; U4 0xE1 0xB6 0x9A 0x00; U4 0xE1 0xB6 0x9B 0x00;
   U4 0xE1 0xB6 0x9C 0x00; U4 0xE1 0xB6 0x9D 0x00; U4 0xE1 0xB6 0x9E 0x00; U4 0xE1 0xB6 0x9F 0x00;
   U4 0xE1 0xB6 0xA0 0x00; U4 0xE1 0xB6 0xA1 0x00; U4 0xE1 0xB6 0xA2 0x00; U4 0xE1 0xB6 0xA3 0x00;
   U4 0xE1 0xB6 0xA4 0x00; U4 0xE1 0xB6 0xA5 0x00; U4 0xE1 0xB6 0xA6 0x00; U4 0xE1 0xB6 0xA7 0x00;
   U4 0xE1 0xB6 0xA8 0x00; U4 0xE1 0xB6 0xA9 0x00; U4 0xE1 0xB6 0xAA 0x00; U4 0xE1 0xB6 0xAB 0x00;
   U4 0xE1 0xB6 0xAC 0x00; U4 0xE1 0xB6 0xAD 0x00; U4 0xE1 0xB6 0xAE 0x00; U4 0xE1 0xB6 0xAF 0x00;
   U4 0xE1 0xB6 0xB0 0x00; U4 0xE1 0xB6 0xB1 0x00; U4 0xE1 0xB6 0xB2 0x00; U4 0xE1 0xB6 0xB3 0x00;
   U4 0xE1 0xB6 0xB4 0x00; U4 0xE1 0xB6 0xB5 0x00; U4 0xE1 0xB6 0xB6 0x00; U4 0xE1 0xB6 0xB7 0x00;
   U4 0xE1 0xB6 0xB8 0x00; U4 0xE1 0xB6 0xB9 0x00; U4 0xE1 0xB6 0xBA 0x00; U4 0xE1 0xB6 0xBB 0x00;
   U4 0xE1 0xB6 0xBC 0x00; U4 0xE1 0xB6 0xBD 0x00; U4 0xE1 0xB6 0xBE 0x00; U4 0xE1 0xB6 0xBF 0x00].

Definition PLANE_3_E1_B7 : Plane4Bytes :=
  [U4 0xE1 0xB7 0x80 0x00; U4 0xE1 0xB7 0x81 0x00; U4 0xE1 0xB7 0x82 0x00; U4 0xE1 0xB7 0x83 0x00;
   U4 0xE1 0xB7 0x84 0x00; U4 0xE1 0xB7 0x85 0x00; U4 0xE1 0xB7 0x86 0x00; U4 0xE1 0xB7 0x87 0x00;
   U4 0xE1 0xB7 0x88 0x00; U4 0xE1 0xB7 0x89 0x00; U4 0xE1 0xB7 0x8A 0x00; U4 0xE1 0xB7 0x8B 0x00;
   U4 0xE1 0xB7 0x8C 0x00; U4 0xE1 0xB7 0x8D 0x00; U4 0xE1 0xB7 0x8E 0x00; U4 0xE1 0xB7 0x8F 0x00;
   U4 0xE1 0xB7 0x90 0x00; U4 0xE1 0xB7 0x91 0x00; U4 0xE1 0xB7 0x92 0x00; U4 0xE1 0xB7 0x93 0x00;
   U4 0xE1 0xB7 0x94 0x00; U4 0xE1 0xB7 0x95 0x00; U4 0xE1 0xB7 0x96 0x00; U4 0xE1 0xB7 0x97 0x00;
   U4 0xE1 0xB7 0x98 0x00; U4 0xE1 0xB7 0x99 0x00; U4 0xE1 0xB7 0x9A 0x00; U4 0xE1 0xB7 0x9B 0x00;
   U4 0xE1 0xB7 0x9C 0x00; U4 0xE1 0xB7 0x9D 0x00; U4 0xE1 0xB7 0x9E 0x00; U4 0xE1 0xB7 0x9F 0x00;
   U4 0xE1 0xB7 0xA0 0x00; U4 0xE1 0xB7 0xA1 0x00; U4 0xE1 0xB7 0xA2 0x00; U4 0xE1 0xB7 0xA3 0x00;
   U4 0xE1 0xB7 0xA4 0x00; U4 0xE1 0xB7 0xA5 0x00; U4 0xE1 0xB7 0xA6 0x00; U4 0xE1 0xB7 0xA7 0x00;
   U4 0xE1 0xB7 0xA8 0x00; U4 0xE1 0xB7 0xA9 0x00; U4 0xE1 0xB7 0xAA 0x00; U4 0xE1 0xB7 0xAB 0x00;
   U4 0xE1 0xB7 0xAC 0x00; U4 0xE1 0xB7 0xAD 0x00; U4 0xE1 0xB7 0xAE 0x00; U4 0xE1 0xB7 0xAF 0x00;
   U4 0xE1 0xB7 0xB0 0x00; U4 0xE1 0xB7 0xB1 0x00; U4 0xE1 0xB7 0xB2 0x00; U4 0xE1 0xB7 0xB3 0x00;
   U4 0xE1 0xB7 0xB4 0x00; U4 0xE1 0xB7 0xB5 0x00; U4 0xE1 0xB7 0xB6 0x00; U4 0xE1 0xB7 0xB7 0x00;
   U4 0xE1 0xB7 0xB8 0x00; U4 0xE1 0xB7 0xB9 0x00; U4 0xE1 0xB7 0xBA 0x00; U4 0xE1 0xB7 0xBB 0x00;
   U4 0xE1 0xB7 0xBC 0x00; U4 0xE1 0xB7 0xBD 0x00; U4 0xE1 0xB7 0xBE 0x00; U4 0xE1 0xB7 0xBF 0x00].

Definition PLANE_3_E1_B8 : Plane4Bytes :=
  [U4 0xE1 0xB8 0x81 0x00; U4 0xE1 0xB8 0x81 0x00; U4 0xE1 0xB8 0x83 0x00; U4 0xE1 0xB8 0x83 0x00;
   U4 0xE1 0xB8 0x85 0x00; U4 0xE1 0xB8 0x85 0x00; U4 0xE1 0xB8 0x87 0x00; U4 0xE1 0xB8 0x87 0x00;
   U4 0xE1 0xB8 0x89 0x00; U4 0xE1 0xB8 0x89 0x00; U4 0xE1 0xB8 0x8B 0x00; U4 0xE1 0xB8 0x8B 0x00;
   U4 0xE1 0xB8 0x8D 0x00; U4 0xE1 0xB8 0x8D 0x00; U4 0xE1 0xB8 0x8F 0x00; U4 0xE1 0xB8 0x8F 0x00;
   U4 0xE1 0xB8 0x91 0x00; U4 0xE1 0xB8 0x91 0x00; U4 0xE1 0xB8 0x93 0x00; U4 0xE1 0xB8 0x93 0x00;
   U4 0xE1 0xB8 0x95 0x00; U4 0xE1 0xB8 0x95 0x00; U4 0xE1 0xB8 0x97 0x00; U4 0xE1 0xB8 0x97 0x00;
   U4 0xE1 0xB8 0x99 0x00; U4 0xE1 0xB8 0x99 0x00; U4 0xE1 0xB8 0x9B 0x00; U4 0xE1 0xB8 0x9B 0x00;
   U4 0xE1 0xB8 0x9D 0x00; U4 0xE1 0xB8 0x9D 0x00; U4 0xE1 0xB8 0x9F 0x00; U4 0xE1 0xB8 0x9F 0x00;
   U4 0xE1 0xB8 0xA1 0x00; U4 0xE1 0xB8 0xA1 0x00; U4 0xE1 0xB8 0xA3 0x00; U4 0xE1 0xB8 0xA3 0x00;
   U4 0xE1 0xB8 0xA5 0x00; U4 0xE1 0xB8 0xA5 0x00; U4 0xE1 0xB8 0xA7 0x00; U4 0xE1 0xB8 0xA7 0x00;
   U4 0xE1 0xB8 0xA9 0x00; U4 0xE1 0xB8 0xA9 0x00; U4 0xE1 0xB8 0xAB 0x00; U4 0xE1 0xB8 0xAB 0x00;
   U4 0xE1 0xB8 0xAD 0x00; U4 0xE1 0xB8 0xAD 0x00; U4 0xE1 0xB8 0xAF 0x00; U4 0xE1 0xB8 0xAF 0x00;
   U4 0xE1 0xB8 0xB1 0x00; U4 0xE1 0xB8 0xB1 0x00; U4 0xE1 0xB8 0xB3 0x00; U4 0xE1 0xB8 0xB3 0x00;
   U4 0xE1 0xB8 0xB5 0x00; U4 0xE1 0xB8 0xB5 0x00; U4 0xE1 0xB8 0xB7 0x00; U4 0xE1 0xB8 0xB7 0x00;
   U4 0xE1 0xB8 0xB9 0x00; U4 0xE1 0xB8 0xB9 0x00; U4 0xE1 0xB8 0xBB 0x00; U4 0xE1 0xB8 0xBB 0x00;
   U4 0xE1 0xB8 0xBD 0x00; U4 0xE1 0xB8 0xBD 0x00; U4 0xE1 0xB8 0xBF 0x00; U4 0xE1 0xB8 0xBF 0x00].

Definition PLANE_3_E1_B9 : Plane4Bytes :=
  [U4 0xE1 0xB9 0x81 0x00; U4 0xE1 0xB9 0x81 0x00; U4 0xE1 0xB9 0x83 0x00; U4 0xE1 0xB9 0x83 0x00;
   U4 0xE1 0xB9 0x85 0x00; U4 0xE1 0xB9 0x85 0x00; U4 0xE1 0xB9 0x87 0x00; U4 0xE1 0xB9 0x87 0x00;
   U4 0xE1 0xB9 0x89 0x00; U4 0xE1 0xB9 0x89 0x00; U4 0xE1 0xB9 0x8B 0x00; U4 0xE1 0xB9 0x8B 0x00;
   U4 0xE1 0xB9 0x8D 0x00; U4 0xE1 0xB9 0x8D 0x00; U4 0xE1 0xB9 0x8F 0x00; U4 0xE1 0xB9 0x8F 0x00;
   U4 0xE1 0xB9 0x91 0x00; U4 0xE1 0xB9 0x91 0x00; U4 0xE1 0xB9 0x93 0x00; U4 0xE1 0xB9 0x93 0x00;
   U4 0xE1 0xB9 0x95 0x00; U4 0xE1 0xB9 0x95 0x00; U4 0xE1 0xB9 0x97 0x00; U4 0xE1 0xB9 0x97 0x00;
   U4 0xE1 0xB9 0x99 0x00; U4 0xE1 0xB9 0x99 0x00; U4 0xE1 0xB9 0x9B 0x00; U4 0xE1 0xB9 0x9B 0x00;
   U4 0xE1 0xB9 0x9D 0x00; U4 0xE1 0xB9 0x9D 0x00; U4 0xE1 0xB9 0x9F 0x00; U4 0xE1 0xB9 0x9F 0x00;
   U4 0xE1 0xB9 0xA1 0x00; U4 0xE1 0xB9 0xA1 0x00; U4 0xE1 0xB9 0xA3 0x00; U4 0xE1 0xB9 0xA3 0x00;
   U4 0xE1 0xB9 0xA5 0x00; U4 0xE1 0xB9 0xA5 0x00; U4 0xE1 0xB9 0xA7 0x00; U4 0xE1 0xB9 0xA7 0x00;
   U4 0xE1 0xB9 0xA9 0x00; U4 0xE1 0xB9 0xA9 0x00; U4 0xE1 0xB9 0xAB 0x00; U4 0xE1 0xB9 0xAB 0x00;
   U4 0xE1 0xB9 0xAD 0x00; U4 0xE1 0xB9 0xAD 0x00; U4 0xE1 0xB9 0xAF 0x00; U4 0xE1 0xB9 0xAF 0x00;
   U4 0xE1 0xB9 0xB1 0x00; U4 0xE1 0xB9 0xB1 0x00; U4 0xE1 0xB9 0xB3 0x00; U4 0xE1 0xB9 0xB3 0x00;
   U4 0xE1 0xB9 0xB5 0x00; U4 0xE1 0xB9 0xB5 0x00; U4 0xE1 0xB9 0xB7 0x00; U4 0xE1 0xB9 0xB7 0x00;
   U4 0xE1 0xB9 0xB9 0x00; U4 0xE1 0xB9 0xB9 0x00; U4 0xE1 0xB9 0xBB 0x00; U4 0xE1 0xB9 0xBB 0x00;
   U4 0xE1 0xB9 0xBD 0x00; U4 0xE1 0xB9 0xBD 0x00; U4 0xE1 0xB9 0xBF 0x00; U4 0xE1 0xB9 0xBF 0x00].

Definition PLANE_3_E1_BA : Plane4Bytes :=
  [U4 0xE1 0xBA 0x81 0x00; U4 0xE1 0xBA 0x81 0x00; U4 0xE1 0xBA 0x83 0x00; U4 0xE1 0xBA 0x83 0x00;
   U4 0xE1 0xBA 0x85 0x00; U4 0xE1 0xBA 0x85 0x00; U4 0xE1 0xBA 0x87 0x00; U4 0xE1 0xBA 0x87 0x00;
   U4 0xE1 0xBA 0x89 0x00; U4 0xE1 0xBA 0x89 0x00; U4 0xE1 0xBA 0x8B 0x00; U4 0xE1 0xBA 0x8B 0x00;
   U4 0xE1 0xBA 0x8D 0x00; U4 0xE1 0xBA 0x8D 0x00; U4 0xE1 0xBA 0x8F 0x00; U4 0xE1 0xBA 0x8F 0x00;
   U4 0xE1 0xBA 0x91 0x00; U4 0xE1 0xBA 0x91 0x00; U4 0xE1 0xBA 0x93 0x00; U4 0xE1 0xBA 0x93 0x00;
   U4 0xE1 0xBA 0x95 0x00; U4 0xE1 0xBA 0x95 0x00; U4 0xE1 0xBA 0x96 0x00; U4 0xE1 0xBA 0x97 0x00;
   U4 0xE1 0xBA 0x98 0x00; U4 0xE1 0xBA 0x99 0x00; U4 0xE1 0xBA 0x9A 0x00; U4 0xE1 0xBA 0x9B 0x00;
   U4 0xE1 0xBA 0x9C 0x00; U4 0xE1 0xBA 0x9D 0x00; U4 0x00 0x00 0x00 0x00; U4 0xE1 0xBA 0x9F 0x00;
   U4 0xE1 0xBA 0xA1 0x00; U4 0xE1 0xBA 0xA1 0x00; U4 0xE1 0xBA 0xA3 0x00; U4 0xE1 0xBA 0xA3 0x00;
   U4 0xE1 0xBA 0xA5 0x00; U4 0xE1 0xBA 0xA5 0x00; U4 0xE1 0xBA 0xA7 0x00; U4 0xE1 0xBA 0xA7 0x00;
   U4 0xE1 0xBA 0xA9 0x00; U4 0xE1 0xBA 0xA9 0x00; U4 0xE1 0xBA 0xAB 0x00; U4 0xE1 0xBA 0xAB 0x00;
   U4 0xE1 0xBA 0xAD 0x00; U4 0xE1 0xBA 0xAD 0x00; U4 0xE1 0xBA 0xAF 0x00; U4 0xE1 0xBA 0xAF 0x00;
   U4 0xE1 0xBA 0xB1 0x00; U4 0xE1 0xBA 0xB1 0x00; U4 0xE1 0xBA 0xB3 0x00; U4 0xE1 0xBA 0xB3 0x00;
   U4 0xE1 0xBA 0xB5 0x00; U4 0xE1 0xBA 0xB5 0x00; U4 0xE1 0xBA 0xB7 0x00; U4 0xE1 0xBA 0xB7 0x00;
   U4 0xE1 0xBA 0xB9 0x00; U4 0xE1 0xBA 0xB9 0x00; U4 0xE1 0xBA 0xBB 0x00; U4 0xE1 0xBA 0xBB 0x00;
   U4 0xE1 0xBA 0xBD 0x00; U4 0xE1 0xBA 0xBD 0x00; U4 0xE1 0xBA 0xBF 0x00; U4 0xE1 0xBA 0xBF 0x00].

Definition PLANE_3_E1_BB : Plane4Bytes :=
  [U4 0xE1 0xBB 0x81 0x00; U4 0xE1 0xBB 0x81 0x00; U4 0xE1 0xBB 0x83 0x00; U4 0xE1 0xBB 0x83 0x00;
   U4 0xE1 0xBB 0x85 0x00; U4 0xE1 0xBB 0x85 0x00; U4 0xE1 0xBB 0x87 0x00; U4 0xE1 0xBB 0x87 0x00;
   U4 0xE1 0xBB 0x89 0x00; U4 0xE1 0xBB 0x89 0x00; U4 0xE1 0xBB 0x8B 0x00; U4 0xE1 0xBB 0x8B 0x00;
   U4 0xE1 0xBB 0x8D 0x00; U4 0xE1 0xBB 0x8D 0x00; U4 0xE1 0xBB 0x8F 0x00; U4 0xE1 0xBB 0x8F 0x00;
   U4 0xE1 0xBB 0x91 0x00; U4 0xE1 0xBB 0x91 0x00; U4 0xE1 0xBB 0x93 0x00; U4 0xE1 0xBB 0x93 0x00;
   U4 0xE1 0xBB 0x95 0x00; U4 0xE1 0xBB 0x95 0x00; U4 0xE1 0xBB 0x97 0x00; U4 0xE1 0xBB 0x97 0x00;
   U4 0xE1 0xBB 0x99 0x00; U4 0xE1 0xBB 0x99 0x00; U4 0xE1 0xBB 0x9B 0x00; U4 0xE1 0xBB 0x9B 0x00;
   U4 0xE1 0xBB 0x9D 0x00; U4 0xE1 0xBB 0x9D 0x00; U4 0xE1 0xBB 0x9F 0x00; U4 0xE1 0xBB 0x9F 0x00;
   U4 0xE1 0xBB 0xA1 0x00; U4 0xE1 0xBB 0xA1 0x00; U4 0xE1 0xBB 0xA3 0x00; U4 0xE1 0xBB 0xA3 0x00;
   U4 0xE1 0xBB 0xA5 0x00; U4 0xE1 0xBB 0xA5 0x00; U4 0xE1 0xBB 0xA7 0x00; U4 0xE1 0xBB 0xA7 0x00;
   U4 0xE1 0xBB 0xA9 0x00; U4 0xE1 0xBB 0xA9 0x00; U4 0xE1 0xBB 0xAB 0x00; U4 0xE1 0xBB 0xAB 0x00;
   U4 0xE1 0xBB 0xAD 0x00; U4 0xE1 0xBB 0xAD 0x00; U4 0xE1 0xBB 0xAF 0x00; U4 0xE1 0xBB 0xAF 0x00;
   U4 0xE1 0xBB 0xB1 0x00; U4 0xE1 0xBB 0xB1 0x00; U4 0xE1 0xBB 0xB3 0x00; U4 0xE1 0xBB 0xB3 0x00;
   U4 0xE1 0xBB 0xB5 0x00; U4 0xE1 0xBB 0xB5 0x00; U4 0xE1 0xBB 0xB7 0x00; U4 0xE1 0xBB 0xB7 0x00;
   U4 0xE1 0xBB 0xB9 0x00; U4 0xE1 0xBB 0xB9 0x00; U4 0xE1 0xBB 0xBB 0x00; U4 0xE1 0xBB 0xBB 0x00;
   U4 0xE1 0xBB 0xBD 0x00; U4 0xE1 0xBB 0xBD 0x00; U4 0xE1 0xBB 0xBF 0x00; U4 0xE1 0xBB 0xBF 0x00].

Definition PLANE_3_E1_BC : Plane4Bytes :=
  [U4 0xE1 0xBC 0x80 0x00; U4 0xE1 0xBC 0x81 0x00; U4 0xE1 0xBC 0x82 0x00; U4 0xE1 0xBC 0x83 0x00;
   U4 0xE1 0xBC 0x84 0x00; U4 0xE1 0xBC 0x85 0x00; U4 0xE1 0xBC 0x86 0x00; U4 0xE1 0xBC 0x87 0x00;
   U4 0xE1 0xBC 0x80 0x00; U4 0xE1 0xBC 0x81 0x00; U4 0xE1 0xBC 0x82 0x00; U4 0xE1 0xBC 0x83 0x00;
   U4 0xE1 0xBC 0x84 0x00; U4 0xE1 0xBC 0x85 0x00; U4 0xE1 0xBC 0x86 0x00; U4 0xE1 0xBC 0x87 0x00;
   U4 0xE1 0xBC 0x90 0x00; U4 0xE1 0xBC 0x91 0x00; U4 0xE1 0xBC 0x92 0x00; U4 0xE1 0xBC 0x93 0x00;
   U4 0xE1 0xBC 0x94 0x00; U4 0xE1 0xBC 0x95 0x00; U4 0xE1 0xBC 0x96 0x00; U4 0xE1 0xBC 0x97 0x00;
   U4 0xE1 0xBC 0x90 0x00; U4 0xE1 0xBC 0x91 0x00; U4 0xE1 0xBC 0x92 0x00; U4 0xE1 0xBC 0x93 0x00;
   U4 0xE1 0xBC 0x94 0x00; U4 0xE1 0xBC 0x95 0x00; U4 0xE1 0xBC 0x9E 0x00; U4 0xE1 0xBC 0x9F 0x00;
   U4 0xE1 0xBC 0xA0 0x00; U4 0xE1 0xBC 0xA1 0x00; U4 0xE1 0xBC 0xA2 0x00; U4 0xE1 0xBC 0xA3 0x00;
   U4 0xE1 0xBC 0xA4 0x00; U4 0xE1 0xBC 0xA5 0x00; U4 0xE1 0xBC 0xA6 0x00; U4 0xE1 0xBC 0xA7 0x00;
   U4 0xE1 0xBC 0xA0 0x00; U4 0xE1 0xBC 0xA1 0x00; U4 0xE1 0xBC 0xA2 0x00; U4 0xE1 0xBC 0xA3 0x00;
   U4 0xE1 0xBC 0xA4 0x00; U4 0xE1 0xBC 0xA5 0x00; U4 0xE1 0xBC 0xA6 0x00; U4 0xE1 0xBC 0xA7 0x00;
   U4 0xE1 0xBC 0xB0 0x00; U4 0xE1 0xBC 0xB1 0x00; U4 0xE1 0xBC 0xB2 0x00; U4 0xE1 0xBC 0xB3 0x00;
   U4 0xE1 0xBC 0xB4 0x00; U4 0xE1 0xBC 0xB5 0x00; U4 0xE1 0xBC 0xB6 0x00; U4 0xE1 0xBC 0xB7 0x00;
   U4 0xE1 0xBC 0xB0 0x00; U4 0xE1 0xBC 0xB1 0x00; U4 0xE1 0xBC 0xB2 0x00; U4 0xE1 0xBC 0xB3 0x00;
   U4 0xE1 0xBC 0xB4 0x00; U4 0xE1 0xBC 0xB5 0x00; U4 0xE1 0xBC 0xB6 0x00; U4 0xE1 0xBC 0xB7 0x00].

Definition PLANE_3_E1_BD : Plane4Bytes :=
  [U4 0xE1 0xBD 0x80 0x00; U4 0xE1 0xBD 0x81 0x00; U4 0xE1 0xBD 0x82 0x00; U4 0xE1 0xBD 0x83 0x00;
   U4 0xE1 0xBD 0x84 0x00; U4 0xE1 0xBD 0x85 0x00; U4 0xE1 0xBD 0x86 0x00; U4 0xE1 0xBD 0x87 0x00;
   U4 0xE1 0xBD 0x80 0x00; U4 0xE1 0xBD 0x81 0x00; U4 0xE1 0xBD 0x82 0x00; U4 0xE1 0xBD 0x83 0x00;
   U4 0xE1 0xBD 0x84 0x00; U4 0xE1 0xBD 0x85 0x00; U4 0xE1 0xBD 0x8E 0x00; U4 0xE1 0xBD 0x8F 0x00;
   U4 0xE1 0xBD 0x90 0x00; U4 0xE1 0xBD 0x91 0x00; U4 0xE1 0xBD 0x92 0x00; U4 0xE1 0xBD 0x93 0x00;
   U4 0xE1 0xBD 0x94 0x00; U4 0xE1 0xBD 0x95 0x00; U4 0xE1 0xBD 0x96 0x00; U4 0xE1 0xBD 0x97 0x00;
   U4 0xE1 0xBD 0x98 0x00; U4 0xE1 0xBD 0x91 0x00; U4 0xE1 0xBD 0x9A 0x00; U4 0xE1 0xBD 0x93 0x00;
   U4 0xE1 0xBD 0x9C 0x00; U4 0xE1 0xBD 0x95 0x00; U4 0xE1 0xBD 0x9E 0x00; U4 0xE1 0xBD 0x97 0x00;
   U4 0xE1 0xBD 0xA0 0x00; U4 0xE1 0xBD 0xA1 0x00; U4 0xE1 0xBD 0xA2 0x00; U4 0xE1 0xBD 0xA3 0x00;
   U4 0xE1 0xBD 0xA4 0x00; U4 0xE1 0xBD 0xA5 0x00; U4 0xE1 0xBD 0xA6 0x00; U4 0xE1 0xBD 0xA7 0x00;
   U4 0xE1 0xBD 0xA0 0x00; U4 0xE1 0xBD 0xA1 0x00; U4 0xE1 0xBD 0xA2 0x00; U4 0xE1 0xBD 0xA3 0x00;
   U4 0xE1 0xBD 0xA4 0x00; U4 0xE1 0xBD 0xA5 0x00; U4 0xE1 0xBD 0xA6 0x00; U4 0xE1 0xBD 0xA7 0x00;
   U4 0xE1 0xBD 0xB0 0x00; U4 0xE1 0xBD 0xB1 0x00; U4 0xE1 0xBD 0xB2 0x00; U4 0xE1 0xBD 0xB3 0x00;
   U4 0xE1 0xBD 0xB4 0x00; U4 0xE1 0xBD 0xB5 0x00; U4 0xE1 0xBD 0xB6 0x00; U4 0xE1 0xBD 0xB7 0x00;
   U4 0xE1 0xBD 0xB8 0x00; U4 0xE1 0xBD 0xB9 0x00; U4 0xE1 0xBD 0xBA 0x00; U4 0xE1 0xBD 0xBB 0x00;
   U4 0xE1 0xBD 0xBC 0x00; U4 0xE1 0xBD 0xBD 0x00; U4 0xE1 0xBD 0xBE 0x00; U4 0xE1 0xBD 0xBF 0x00].

Definition PLANE_3_E1_BE : Plane4Bytes :=
  [U4 0xE1 0xBE 0x80 0x00; U4 0xE1 0xBE 0x81 0x00; U4 0xE1 0xBE 0x82 0x00; U4 0xE1 0xBE 0x83 0x00;
   U4 0xE1 0xBE 0x84 0x00; U4 0xE1 0xBE 0x85 0x00; U4 0xE1 0xBE 0x86 0x00; U4 0xE1 0xBE 0x87 0x00;
   U4 0xE1 0xBE 0x80 0x00; U4 0xE1 0xBE 0x81 0x00; U4 0xE1 0xBE 0x82 0x00; U4 0xE1 0xBE 0x83 0x00;
   U4 0xE1 0xBE 0x84 0x00; U4 0xE1 0xBE 0x85 0x00; U4 0xE1 0xBE 0x86 0x00; U4 0xE1 0xBE 0x87 0x00;
   U4 0xE1 0xBE 0x90 0x00; U4 0xE1 0xBE 0x91 0x00; U4 0xE1 0xBE 0x92 0x00; U4 0xE1 0xBE 0x93 0x00;
   U4 0xE1 0xBE 0x94 0x00; U4 0xE1 0xBE 0x95 0x00; U4 0xE1 0xBE 0x96 0x00; U4 0xE1 0xBE 0x97 0x00;
   U4 0xE1 0xBE 0x90 0x00; U4 0xE1 0xBE 0x91 0x00; U4 0xE1 0xBE 0x92 0x00; U4 0xE1 0xBE 0x93 0x00;
   U4 0xE1 0xBE 0x94 0x00; U4 0xE1 0xBE 0x95 0x00; U4 0xE1 0xBE 0x96 0x00; U4 0xE1 0xBE 0x97 0x00;
   U4 0xE1 0xBE 0xA0 0x00; U4 0xE1 0xBE 0xA1 0x00; U4 0xE1 0xBE 0xA2 0x00; U4 0xE1 0xBE 0xA3 0x00;
   U4 0xE1 0xBE 0xA4 0x00; U4 0xE1 0xBE 0xA5 0x00; U4 0xE1 0xBE 0xA6 0x00; U4 0xE1 0xBE 0xA7 0x00;
   U4 0xE1 0xBE 0xA0 0x00; U4 0xE1 0xBE 0xA1 0x00; U4 0xE1 0xBE 0xA2 0x00; U4 0xE1 0xBE 0xA3 0x00;
   U4 0xE1 0xBE 0xA4 0x00; U4 0xE1 0xBE 0xA5 0x00; U4 0xE1 0xBE 0xA6 0x00; U4 0xE1 0xBE 0xA7 0x00;
   U4 0xE1 0xBE 0xB0 0x00; U4 0xE1 0xBE 0xB1 0x00; U4 0xE1 0xBE 0xB2 0x00; U4 0xE1 0xBE 0xB3 0x00;
   U4 0xE1 0xBE 0xB4 0x00; U4 0xE1 0xBE 0xB5 0x00; U4 0xE1 0xBE 0xB6 0x00; U4 0xE1 0xBE 0xB7 0x00;
   U4 0xE1 0xBE 0xB0 0x00; U4 0xE1 0xBE 0xB1 0x00; U4 0xE1 0xBD 0xB0 0x00; U4 0xE1 0xBD 0xB1 0x00;
   U4 0xE1 0xBE 0xB3 0x00; U4 0xE1 0xBE 0xBD 0x00; U4 0xE1 0xBE 0xBE 0x00; U4 0xE1 0xBE 0xBF 0x00].

Definition PLANE_3_E1_BF : Plane4Bytes :=
  [U4 0xE1 0xBF 0x80 0x00; U4 0xE1 0xBF 0x81 0x00; U4 0xE1 0xBF 0x82 0x00; U4 0xE1 0xBF 0x83 0x00;
   U4 0xE1 0xBF 0x84 0x00; U4 0xE1 0xBF 0x85 0x00; U4 0xE1 0xBF 0x86 0x00; U4 0xE1 0xBF 0x87 0x00;
   U4 0xE1 0xBD 0xB2 0x00; U4 0xE1 0xBD 0xB3 0x00; U4 0xE1 0xBD 0xB4 0x00; U4 0xE1 0xBD 0xB5 0x00;
   U4 0xE1 0xBF 0x83 0x00; U4 0xE1 0xBF 0x8D 0x00; U4 0xE1 0xBF 0x8E 0x00; U4 0xE1 0xBF 0x8F 0x00;
   U4 0xE1 0xBF 0x90 0x00; U4 0xE1 0xBF 0x91 0x00; U4 0xE1 0xBF 0x92 0x00; U4 0xE1 0xBF 0x93 0x00;
   U4 0xE1 0xBF 0x94 0x00; U4 0xE1 0xBF 0x95 0x00; U4 0xE1 0xBF 0x96 0x00; U4 0xE1 0xBF 0x97 0x00;
   U4 0xE1 0xBF 0x90 0x00; U4 0xE1 0xBF 0x91 0x00; U4 0xE1 0xBD 0xB6 0x00; U4 0xE1 0xBD 0xB7 0x00;
   U4 0xE1 0xBF 0x9C 0x00; U4 0xE1 0xBF 0x9D 0x00; U4 0xE1 0xBF 0x9E 0x00; U4 0xE1 0xBF 0x9F 0x00;
   U4 0xE1 0xBF 0xA0 0x00; U4 0xE1 0xBF 0xA1 0x00; U4 0xE1 0xBF 0xA2 0x00; U4 0xE1 0xBF 0xA3 0x00;
   U4 0xE1 0xBF 0xA4 0x00; U4 0xE1 0xBF 0xA5 0x00; U4 0xE1 0xBF 0xA6 0x00; U4 0xE1 0xBF 0xA7 0x00;
   U4 0xE1 0xBF 0xA0 0x00; U4 0xE1 0xBF 0xA1 0x00; U4 0xE1 0xBD 0xBA 0x00; U4 0xE1 0xBD 0xBB 0x00;
   U4 0xE1 0xBF 0xA5 0x00; U4 0xE1 0xBF 0xAD 0x00; U4 0xE1 0xBF 0xAE 0x00; U4 0xE1 0xBF 0xAF 0x00;
   U4 0xE1 0xBF 0xB0 0x00; U4 0xE1 0xBF 0xB1 0x00; U4 0xE1 0xBF 0xB2 0x00; U4 0xE1 0xBF 0xB3 0x00;
   U4 0xE1 0xBF 0xB4 0x00; U4 0xE1 0xBF 0xB5 0x00; U4 0xE1 0xBF 0xB6 0x00; U4 0xE1 0xBF 0xB7 0x00;
   U4 0xE1 0xBD 0xB8 0x00; U4 0xE1 0xBD 0xB9 0x00; U4 0xE1 0xBD 0xBC 0x00; U4 0xE1 0xBD 0xBD 0x00;
   U4 0xE1 0xBF 0xB3 0x00; U4 0xE1 0xBF 0xBD 0x00; U4 0xE1 0xBF 0xBE 0x00; U4 0xE1 0xBF 0xBF 0x00].

Definition TABLE_3_E1 : list Plane4Bytes :=
  [PLANE_3_E1_80; PLANE_3_E1_81; PLANE_3_E1_82; PLANE_3_E1_83;
   PLANE_3_E1_84; PLANE_3_E1_85; PLANE_3_E1_86; PLANE_3_E1_87;
   PLANE_3_E1_88; PLANE_3_E1_89; PLANE_3_E1_8A; PLANE_3_E1_8B;
   PLANE_3_E1_8C; PLANE_3_E1_8D; PLANE_3_E1_8E; PLANE_3_E1_8F;
   PLANE_3_E1_90; PLANE_3_E1_91; PLANE_3_E1_92; PLANE_3_E1_93;
   PLANE_3_E1_94; PLANE_3_E1_95; PLANE_3_E1_96; PLANE_3_E1_97;
   PLANE_3_E1_98; PLANE_3_E1_99; PLANE_3_E1_9A; PLANE_3_E1_9B;
   PLANE_3_E1_9C; PLANE_3_E1_9D; PLANE_3_E1_9E; PLANE_3_E1_9F;
   PLANE_3_E1_A0; PLANE_3_E1_A1; PLANE_3_E1_A2; PLANE_3_E1_A3;
   PLANE_3_E1_A4; PLANE_3_E1_A5; PLANE_3_E1_A6; PLANE_3_E1_A7;
   PLANE_3_E1_A8; PLANE_3_E1_A9; PLANE_3_E1_AA; PLANE_3_E1_AB;
   PLANE_3_E1_AC; PLANE_3_E1_AD; PLANE_3_E1_AE; PLANE_3_E1_AF;
   PLANE_3_E1_B0; PLANE_3_E1_B1; PLANE_3_E1_B2; PLANE_3_E1_B3;
   PLANE_3_E1_B4; PLANE_3_E1_B5; PLANE_3_E1_B6; PLANE_3_E1_B7;
   PLANE_3_E1_B8; PLANE_3_E1_B9; PLANE_3_E1_BA; PLANE_3_E1_BB;
   PLANE_3_E1_BC; PLANE_3_E1_BD; PLANE_3_E1_BE; PLANE_3_E1_BF].

Definition PLANE_3_E2_80 : Plane2Bytes :=
  [U2 0x80 0x80; U2 0x80 0x81; U2 0x80 0x82; U2 0x80 0x83;
   U2 0x80 0x84; U2 0x80 0x85; U2 0x80 0x86; U2 0x80 0x87;
   U2 0x80 0x88; U2 0x80 0x89; U2 0x80 0x8A; U2 0x80 0x8B;
   U2 0x80 0x8C; U2 0x80 0x8D; U2 0x80 0x8E; U2 0x80 0x8F;
   U2 0x80 0x90; U2 0x80 0x91; U2 0x80 0x92; U2 0x80 0x93;
   U2 0x80 0x94; U2 0x80 0x95; U2 0x80 0x96; U2 0x80 0x97;
   U2 0x80 0x98; U2 0x80 0x99; U2 0x80 0x9A; U2 0x80 0x9B;
   U2 0x80 0x9C; U2 0x80 0x9D; U2 0x80 0x9E; U2 0x80 0x9F;
   U2 0x80 0xA0; U2 0x80 0xA1; U2 0x80 0xA2; U2 0x80 0xA3;
   U2 0x80 0xA4; U2 0x80 0xA5; U2 0x80 0xA6; U2 0x80 0xA7;
   U2 0x80 0xA8; U2 0x80 0xA9; U2 0x80 0xAA; U2 0x80 0xAB;
   U2 0x80 0xAC; U2 0x80 0xAD; U2 0x80 0xAE; U2 0x80 0xAF;
   U2 0x80 0xB0; U2 0x80 0xB1; U2 0x80 0xB2; U2 0x80 0xB3;
   U2 0x80 0xB4; U2 0x80 0xB5; U2 0x80 0xB6; U2 0x80 0xB7;
   U2 0x80 0xB8; U2 0x80 0xB9; U2 0x80 0xBA; U2 0x80 0xBB;
   U2 0x80 0xBC; U2 0x80 0xBD; U2 0x80 0xBE; U2 0x80 0xBF].

Definition PLANE_3_E2_81 : Plane2Bytes :=
  [U2 0x81 0x80; U2 0x81 0x81; U2 0x81 0x82; U2 0x81 0x83;
   U2 0x81 0x84; U2 0x81 0x85; U2 0x81 0x86; U2 0x81 0x87;
   U2 0x81 0x88; U2 0x81 0x89; U2 0x81 0x8A; U2 0x81 0x8B;
   U2 0x81 0x8C; U2 0x81 0x8D; U2 0x81 0x8E; U2 0x81 0x8F;
   U2 0x81 0x90; U2 0x81 0x91; U2 0x81 0x92; U2 0x81 0x93;
   U2 0x81 0x94; U2 0x81 0x95; U2 0x81 0x96; U2 0x81 0x97;
   U2 0x81 0x98; U2 0x81 0x99; U2 0x81 0x9A; U2 0x81 0x9B;
   U2 0x81 0x9C; U2 0x81 0x9D; U2 0x81 0x9E; U2 0x81 0x9F;
   U2 0x81 0xA0; U2 0x81 0xA1; U2 0x81 0xA2; U2 0x81 0xA3;
   U2 0x81 0xA4; U2 0x81 0xA5; U2 0x81 0xA6; U2 0x81 0xA7;
   U2 0x81 0xA8; U2 0x81 0xA9; U2 0x81 0xAA; U2 0x81 0xAB;
   U2 0x81 0xAC; U2 0x81 0xAD; U2 0x81 0xAE; U2 0x81 0xAF;
   U2 0x81 0xB0; U2 0x81 0xB1; U2 0x81 0xB2; U2 0x81 0xB3;
   U2 0x81 0xB4; U2 0x81 0xB5; U2 0x81 0xB6; U2 0x81 0xB7;
   U2 0x81 0xB8; U2 0x81 0xB9; U2 0x81 0xBA; U2 0x81 0xBB;
   U2 0x81 0xBC; U2 0x81 0xBD; U2 0x81 0xBE; U2 0x81 0xBF].

Definition PLANE_3_E2_82 : Plane2Bytes :=
  [U2 0x82 0x80; U2 0x82 0x81; U2 0x82 0x82; U2 0x82 0x83;
   U2 0x82 0x84; U2 0x82 0x85; U2 0x82 0x86; U2 0x82 0x87;
   U2 0x82 0x88; U2 0x82 0x89; U2 0x82 0x8A; U2 0x82 0x8B;
   U2 0x82 0x8C; U2 0x82 0x8D; U2 0x82 0x8E; U2 0x82 0x8F;
   U2 0x82 0x90; U2 0x82 0x91; U2 0x82 0x92; U2 0x82 0x93;
   U2 0x82 0x94; U2 0x82 0x95; U2 0x82 0x96; U2 0x82 0x97;
   U2 0x82 0x98; U2 0x82 0x99; U2 0x82 0x9A; U2 0x82 0x9B;
   U2 0x82 0x9C; U2 0x82 0x9D; U2 0x82 0x9E; U2 0x82 0x9F;
   U2 0x82 0xA0; U2 0x82 0xA1; U2 0x82 0xA2; U2 0x82 0xA3;
   U2 0x82 0xA4; U2 0x82 0xA5; U2 0x82 0xA6; U2 0x82 0xA7;
   U2 0x82 0xA8; U2 0x82 0xA9; U2 0x82 0xAA; U2 0x82 0xAB;
   U2 0x82 0xAC; U2 0x82 0xAD; U2 0x82 0xAE; U2 0x82 0xAF;
   U2 0x82 0xB0; U2 0x82 0xB1; U2 0x82 0xB2; U2 0x82 0xB3;
   U2 0x82 0xB4; U2 0x82 0xB5; U2 0x82 0xB6; U2 0x82 0xB7;
   U2 0x82 0xB8; U2 0x82 0xB9; U2 0x82 0xBA; U2 0x82 0xBB;
   U2 0x82 0xBC; U2 0x82 0xBD; U2 0x82 0xBE; U2 0x82 0xBF].

Definition PLANE_3_E2_83 : Plane2Bytes :=
  [U2 0x83 0x80; U2 0x83 0x81; U2 0x83 0x82; U2 0x83 0x83;
   U2 0x83 0x84; U2 0x83 0x85; U2 0x83 0x86; U2 0x83 0x87;
   U2 0x83 0x88; U2 0x83 0x89; U2 0x83 0x8A; U2 0x83 0x8B;
   U2 0x83 0x8C; U2 0x83 0x8D; U2 0x83 0x8E; U2 0x83 0x8F;
   U2 0x83 0x90; U2 0x83 0x91; U2 0x83 0x92; U2 0x83 0x93;
   U2 0x83 0x94; U2 0x83 0x95; U2 0x83 0x96; U2 0x83 0x97;
   U2 0x83 0x98; U2 0x83 0x99; U2 0x83 0x9A; U2 0x83 0x9B;
   U2 0x83 0x9C; U2 0x83 0x9D; U2 0x83 0x9E; U2 0x83 0x9F;
   U2 0x83 0xA0; U2 0x83 0xA1; U2 0x83 0xA2; U2 0x83 0xA3;
   U2 0x83 0xA4; U2 0x83 0xA5; U2 0x83 0xA6; U2 0x83 0xA7;
   U2 0x83 0xA8; U2 0x83 0xA9; U2 0x83 0xAA; U2 0x83 0xAB;
   U2 0x83 0xAC; U2 0x83 0xAD; U2 0x83 0xAE; U2 0x83 0xAF;
   U2 0x83 0xB0; U2 0x83 0xB1; U2 0x83 0xB2; U2 0x83 0xB3;
   U2 0x83 0xB4; U2 0x83 0xB5; U2 0x83 0xB6; U2 0x83 0xB7;
   U2 0x83 0xB8; U2 0x83 0xB9; U2 0x83 0xBA; U2 0x83 0xBB;
   U2 0x83 0xBC; U2 0x83 0xBD; U2 0x83 0xBE; U2 0x83 0xBF].

Definition PLANE_3_E2_84 : Plane2Bytes :=
  [U2 0x84 0x80; U2 0x84 0x81; U2 0x84 0x82; U2 0x84 0x83;
   U2 0x84 0x84; U2 0x84 0x85; U2 0x84 0x86; U2 0x84 0x87;
   U2 0x84 0x88; U2 0x84 0x89; U2 0x84 0x8A; U2 0x84 0x8B;
   U2 0x84 0x8C; U2 0x84 0x8D; U2 0x84 0x8E; U2 0x84 0x8F;
   U2 0x84 0x90; U2 0x84 0x91; U2 0x84 0x92; U2 0x84 0x93;
   U2 0x84 0x94; U2 0x84 0x95; U2 0x84 0x96; U2 0x84 0x97;
   U2 0x84 0x98; U2 0x84 0x99; U2 0x84 0x9A; U2 0x84 0x9B;
   U2 0x84 0x9C; U2 0x84 0x9D; U2 0x84 0x9E; U2 0x84 0x9F;
   U2 0x84 0xA0; U2 0x84 0xA1; U2 0x84 0xA2; U2 0x84 0xA3;
   U2 0x84 0xA4; U2 0x84 0xA5; U2 0x00 0x00; U2 0x84 0xA7;
   U2 0x84 0xA8; U2 0x84 0xA9; U2 0x00 0x00; U2 0x00 0x00;
   U2 0x84 0xAC; U2 0x84 0xAD; U2 0x84 0xAE; U2 0x84 0xAF;
   U2 0x84 0xB0; U2 0x84 0xB1; U2 0x85 0x8E; U2 0x84 0xB3;
   U2 0x84 0xB4; U2 0x84 0xB5; U2 0x84 0xB6; U2 0x84 0xB7;
   U2 0x84 0xB8; U2 0x84 0xB9; U2 0x84 0xBA; U2 0x84 0xBB;
   U2 0x84 0xBC; U2 0x84 0xBD; U2 0x84 0xBE; U2 0x84 0xBF].

Definition PLANE_3_E2_85 : Plane2Bytes :=
  [U2 0x85 0x80; U2 0x85 0x81; U2 0x85 0x82; U2 0x85 0x83;
   U2 0x85 0x84; U2 0x85 0x85; U2 0x85 0x86; U2 0x85 0x87;
   U2 0x85 0x88; U2 0x85 0x89; U2 0x85 0x8A; U2 0x85 0x8B;
   U2 0x85 0x8C; U2 0x85 0x8D; U2 0x85 0x8E; U2 0x85 0x8F;
   U2 0x85 0x90; U2 0x85 0x91; U2 0x85 0x92; U2 0x85 0x93;
   U2 0x85 0x94; U2 0x85 0x95; U2 0x85 0x96; U2 0x85 0x97;
   U2 0x85 0x98; U2 0x85 0x99; U2 0x85 0x9A; U2 0x85 0x9B;
   U2 0x85 0x9C; U2 0x85 0x9D; U2 0x85 0x9E; U2 0x85 0x9F;
   U2 0x85 0xB0; U2 0x85 0xB1; U2 0x85 0xB2; U2 0x85 0xB3;
   U2 0x85 0xB4; U2 0x85 0xB5; U2 0x85 0xB6; U2 0x85 0xB7;
   U2 0x85 0xB8; U2 0x85 0xB9; U2 0x85 0xBA; U2 0x85 0xBB;
   U2 0x85 0xBC; U2 0x85 0xBD; U2 0x85 0xBE; U2 0x85 0xBF;
   U2 0x85 0xB0; U2 0x85 0xB1; U2 0x85 0xB2; U2 0x85 0xB3;
   U2 0x85 0xB4; U2 0x85 0xB5; U2 0x85 0xB6; U2 0x85 0xB7;
   U2 0x85 0xB8; U2 0x85 0xB9; U2 0x85 0xBA; U2 0x85 0xBB;
   U2 0x85 0xBC; U2 0x85 0xBD; U2 0x85 0xBE; U2 0x85 0xBF].

Definition PLANE_3_E2_86 : Plane2Bytes :=
  [U2 0x86 0x80; U2 0x86 0x81; U2 0x86 0x82; U2 0x86 0x84;
   U2 0x86 0x84; U2 0x86 0x85; U2 0x86 0x86; U2 0x86 0x87;
   U2 0x86 0x88; U2 0x86 0x89; U2 0x86 0x8A; U2 0x86 0x8B;
   U2 0x86 0x8C; U2 0x86 0x8D; U2 0x86 0x8E; U2 0x86 0x8F;
   U2 0x86 0x90; U2 0x86 0x91; U2 0x86 0x92; U2 0x86 0x93;
   U2 0x86 0x94; U2 0x86 0x95; U2 0x86 0x96; U2 0x86 0x97;
   U2 0x86 0x98; U2 0x86 0x99; U2 0x86 0x9A; U2 0x86 0x9B;
   U2 0x86 0x9C; U2 0x86 0x9D; U2 0x86 0x9E; U2 0x86 0x9F;
   U2 0x86 0xA0; U2 0x86 0xA1; U2 0x86 0xA2; U2 0x86 0xA3;
   U2 0x86 0xA4; U2 0x86 0xA5; U2 0x86 0xA6; U2 0x86 0xA7;
   U2 0x86 0xA8; U2 0x86 0xA9; U2 0x86 0xAA; U2 0x86 0xAB;
   U2 0x86 0xAC; U2 0x86 0xAD; U2 0x86 0xAE; U2 0x86 0xAF;
   U2 0x86 0xB0; U2 0x86 0xB1; U2 0x86 0xB2; U2 0x86 0xB3;
   U2 0x86 0xB4; U2 0x86 0xB5; U2 0x86 0xB6; U2 0x86 0xB7;
   U2 0x86 0xB8; U2 0x86 0xB9; U2 0x86 0xBA; U2 0x86 0xBB;
   U2 0x86 0xBC; U2 0x86 0xBD; U2 0x86 0xBE; U2 0x86 0xBF].

Definition PLANE_3_E2_87 : Plane2Bytes :=
  [U2 0x87 0x80; U2 0x87 0x81; U2 0x87 0x82; U2 0x87 0x83;
   U2 0x87 0x84; U2 0x87 0x85; U2 0x87 0x86; U2 0x87 0x87;
   U2 0x87 0x88; U2 0x87 0x89; U2 0x87 0x8A; U2 0x87 0x8B;
   U2 0x87 0x8C; U2 0x87 0x8D; U2 0x87 0x8E; U2 0x87 0x8F;
   U2 0x87 0x90; U2 0x87 0x91; U2 0x87 0x92; U2 0x87 0x93;
   U2 0x87 0x94; U2 0x87 0x95; U2 0x87 0x96; U2 0x87 0x97;
   U2 0x87 0x98; U2 0x87 0x99; U2 0x87 0x9A; U2 0x87 0x9B;
   U2 0x87 0x9C; U2 0x87 0x9D; U2 0x87 0x9E; U2 0x87 0x9F;
   U2 0x87 0xA0; U2 0x87 0xA1; U2 0x87 0xA2; U2 0x87 0xA3;
   U2 0x87 0xA4; U2 0x87 0xA5; U2 0x87 0xA6; U2 0x87 0xA7;
   U2 0x87 0xA8; U2 0x87 0xA9; U2 0x87 0xAA; U2 0x87 0xAB;
   U2 0x87 0xAC; U2 0x87 0xAD; U2 0x87 0xAE; U2 0x87 0xAF;
   U2 0x87 0xB0; U2 0x87 0xB1; U2 0x87 0xB2; U2 0x87 0xB3;
   U2 0x87 0xB4; U2 0x87 0xB5; U2 0x87 0xB6; U2 0x87 0xB7;
   U2 0x87 0xB8; U2 0x87 0xB9; U2 0x87 0xBA; U2 0x87 0xBB;
   U2 0x87 0xBC; U2 0x87 0xBD; U2 0x87 0xBE; U2 0x87 0xBF].

Definition PLANE_3_E2_88 : Plane2Bytes :=
  [U2 0x88 0x80; U2 0x88 0x81; U2 0x88 0x82; U2 0x88 0x83;
   U2 0x88 0x84; U2 0x88 0x85; U2 0x88 0x86; U2 0x88 0x87;
   U2 0x88 0x88; U2 0x88 0x89; U2 0x88 0x8A; U2 0x88 0x8B;
   U2 0x88 0x8C; U2 0x88 0x8D; U2 0x88 0x8E; U2 0x88 0x8F;
   U2 0x88 0x90; U2 0x88 0x91; U2 0x88 0x92; U2 0x88 0x93;
   U2 0x88 0x94; U2 0x88 0x95; U2 0x88 0x96; U2 0x88 0x97;
   U2 0x88 0x98; U2 0x88 0x99; U2 0x88 0x9A; U2 0x88 0x9B;
   U2 0x88 0x9C; U2 0x88 0x9D; U2 0x88 0x9E; U2 0x88 0x9F;
   U2 0x88 0xA0; U2 0x88 0xA1; U2 0x88 0xA2; U2 0x88 0xA3;
   U2 0x88 0xA4; U2 0x88 0xA5; U2 0x88 0xA6; U2 0x88 0xA7;
   U2 0x88 0xA8; U2 0x88 0xA9; U2 0x88 0xAA; U2 0x88 0xAB;
   U2 0x88 0xAC; U2 0x88 0xAD; U2 0x88 0xAE; U2 0x88 0xAF;
   U2 0x88 0xB0; U2 0x88 0xB1; U2 0x88 0xB2; U2 0x88 0xB3;
   U2 0x88 0xB4; U2 0x88 0xB5; U2 0x88 0xB6; U2 0x88 0xB7;
   U2 0x88 0xB8; U2 0x88 0xB9; U2 0x88 0xBA; U2 0x88 0xBB;
   U2 0x88 0xBC; U2 0x88 0xBD; U2 0x88 0xBE; U2 0x88 0xBF].

Definition PLANE_3_E2_89 : Plane2Bytes :=
  [U2 0x89 0x80; U2 0x89 0x81; U2 0x89 0x82; U2 0x89 0x83;
   U2 0x89 0x84; U2 0x89 0x85; U2 0x89 0x86; U2 0x89 0x87;
   U2 0x89 0x88; U2 0x89 0x89; U2 0x89 0x8A; U2 0x89 0x8B;
   U2 0x89 0x8C; U2 0x89 0x8D; U2 0x89 0x8E; U2 0x89 0x8F;
   U2 0x89 0x90; U2 0x89 0x91; U2 0x89 0x92; U2 0x89 0x93;
   U2 0x89 0x94; U2 0x89 0x95; U2 0x89 0x96; U2 0x89 0x97;
   U2 0x89 0x98; U2 0x89 0x99; U2 0x89 0x9A; U2 0x89 0x9B;
   U2 0x89 0x9C; U2 0x89 0x9D; U2 0x89 0x9E; U2 0x89 0x9F;
   U2 0x89 0xA0; U2 0x89 0xA1; U2 0x89 0xA2; U2 0x89 0xA3;
   U2 0x89 0xA4; U2 0x89 0xA5; U2 0x89 0xA6; U2 0x89 0xA7;
   U2 0x89 0xA8; U2 0x89 0xA9; U2 0x89 0xAA; U2 0x89 0xAB;
   U2 0x89 0xAC; U2 0x89 0xAD; U2 0x89 0xAE; U2 0x89 0xAF;
   U2 0x89 0xB0; U2 0x89 0xB1; U2 0x89 0xB2; U2 0x89 0xB3;
   U2 0x89 0xB4; U2 0x89 0xB5; U2 0x89 0xB6; U2 0x89 0xB7;
   U2 0x89 0xB8; U2 0x89 0xB9; U2 0x89 0xBA; U2 0x89 0xBB;
   U2 0x89 0xBC; U2 0x89 0xBD; U2 0x89 0xBE; U2 0x89 0xBF].

Definition PLANE_3_E2_8A : Plane2Bytes :=
  [U2 0x8A 0x80; U2 0x8A 0x81; U2 0x8A 0x82; U2 0x8A 0x83;
   U2 0x8A 0x84; U2 0x8A 0x85; U2 0x8A 0x86; U2 0x8A 0x87;
   U2 0x8A 0x88; U2 0x8A 0x89; U2 0x8A 0x8A; U2 0x8A 0x8B;
   U2 0x8A 0x8C; U2 0x8A 0x8D; U2 0x8A 0x8E; U2 0x8A 0x8F;
   U2 0x8A 0x90; U2 0x8A 0x91; U2 0x8A 0x92; U2 0x8A 0x93;
   U2 0x8A 0x94; U2 0x8A 0x95; U2 0x8A 0x96; U2 0x8A 0x97;
   U2 0x8A 0x98; U2 0x8A 0x99; U2 0x8A 0x9A; U2 0x8A 0x9B;
   U2 0x8A 0x9C; U2 0x8A 0x9D; U2 0x8A 0x9E; U2 0x8A 0x9F;
   U2 0x8A 0xA0; U2 0x8A 0xA1; U2 0x8A 0xA2; U2 0x8A 0xA3;
   U2 0x8A 0xA4; U2 0x8A 0xA5; U2 0x8A 0xA6; U2 0x8A 0xA7;
   U2 0x8A 0xA8; U2 0x8A 0xA9; U2 0x8A 0xAA; U2 0x8A 0xAB;
   U2 0x8A 0xAC; U2 0x8A 0xAD; U2 0x8A 0xAE; U2 0x8A 0xAF;
   U2 0x8A 0xB0; U2 0x8A 0xB1; U2 0x8A 0xB2; U2 0x8A 0xB3;
   U2 0x8A 0xB4; U2 0x8A 0xB5; U2 0x8A 0xB6; U2 0x8A 0xB7;
   U2 0x8A 0xB8; U2 0x8A 0xB9; U2 0x8A 0xBA; U2 0x8A 0xBB;
   U2 0x8A 0xBC; U2 0x8A 0xBD; U2 0x8A 0xBE; U2 0x8A 0xBF].

Definition PLANE_3_E2_8B : Plane2Bytes :=
  [U2 0x8B 0x80; U2 0x8B 0x81; U2 0x8B 0x82; U2 0x8B 0x83;
   U2 0x8B 0x84; U2 0x8B 0x85; U2 0x8B 0x86; U2 0x8B 0x87;
   U2 0x8B 0x88; U2 0x8B 0x89; U2 0x8B 0x8A; U2 0x8B 0x8B;
   U2 0x8B 0x8C; U2 0x8B 0x8D; U2 0x8B 0x8E; U2 0x8B 0x8F;
   U2 0x8B 0x90; U2 0x8B 0x91; U2 0x8B 0x92; U2 0x8B 0x93;
   U2 0x8B 0x94; U2 0x8B 0x95; U2 0x8B 0x96; U2 0x8B 0x97;
   U2 0x8B 0x98; U2 0x8B 0x99; U2 0x8B 0x9A; U2 0x8B 0x9B;
   U2 0x8B 0x9C; U2 0x8B 0x9D; U2 0x8B 0x9E; U2 0x8B 0x9F;
   U2 0x8B 0xA0; U2 0x8B 0xA1; U2 0x8B 0xA2; U2 0x8B 0xA3;
   U2 0x8B 0xA4; U2 0x8B 0xA5; U2 0x8B 0xA6; U2 0x8B 0xA7;
   U2 0x8B 0xA8; U2 0x8B 0xA9; U2 0x8B 0xAA; U2 0x8B 0xAB;
   U2 0x8B 0xAC; U2 0x8B 0xAD; U2 0x8B 0xAE; U2 0x8B 0xAF;
   U2 0x8B 0xB0; U2 0x8B 0xB1; U2 0x8B 0xB2; U2 0x8B 0xB3;
   U2 0x8B 0xB4; U2 0x8B 0xB5; U2 0x8B 0xB6; U2 0x8B 0xB7;
   U2 0x8B 0xB8; U2 0x8B 0xB9; U2 0x8B 0xBA; U2 0x8B 0xBB;
   U2 0x8B 0xBC; U2 0x8B 0xBD; U2 0x8B 0xBE; U2 0x8B 0xBF].

Definition PLANE_3_E2_8C : Plane2Bytes :=
  [U2 0x8C 0x80; U2 0x8C 0x81; U2 0x8C 0x82; U2 0x8C 0x83;
   U2 0x8C 0x84; U2 0x8C 0x85; U2 0x8C 0x86; U2 0x8C 0x87;
   U2 0x8C 0x88; U2 0x8C 0x89; U2 0x8C 0x8A; U2 0x8C 0x8B;
   U2 0x8C 0x8C; U2 0x8C 0x8D; U2 0x8C 0x8E; U2 0x8C 0x8F;
   U2 0x8C 0x90; U2 0x8C 0x91; U2 0x8C 0x92; U2 0x8C 0x93;
   U2 0x8C 0x94; U2 0x8C 0x95; U2 0x8C 0x96; U2 0x8C 0x97;
   U2 0x8C 0x98; U2 0x8C 0x99; U2 0x8C 0x9A; U2 0x8C 0x9B;
   U2 0x8C 0x9C; U2 0x8C 0x9D; U2 0x8C 0x9E; U2 0x8C 0x9F;
   U2 0x8C 0xA0; U2 0x8C 0xA1; U2 0x8C 0xA2; U2 0x8C 0xA3;
   U2 0x8C 0xA4; U2 0x8C 0xA5; U2 0x8C 0xA6; U2 0x8C 0xA7;
   U2 0x8C 0xA8; U2 0x8C 0xA9; U2 0x8C 0xAA; U2 0x8C 0xAB;
   U2 0x8C 0xAC; U2 0x8C 0xAD; U2 0x8C 0xAE; U2 0x8C 0xAF;
   U2 0x8C 0xB0; U2 0x8C 0xB1; U2 0x8C 0xB2; U2 0x8C 0xB3;
   U2 0x8C 0xB4; U2 0x8C 0xB5; U2 0x8C 0xB6; U2 0x8C 0xB7;
   U2 0x8C 0xB8; U2 0x8C 0xB9; U2 0x8C 0xBA; U2 0x8C 0xBB;
   U2 0x8C 0xBC; U2 0x8C 0xBD; U2 0x8C 0xBE; U2 0x8C 0xBF].

Definition PLANE_3_E2_8D : Plane2Bytes :=
  [U2 0x8D 0x80; U2 0x8D 0x81; U2 0x8D 0x82; U2 0x8D 0x83;
   U2 0x8D 0x84; U2 0x8D 0x85; U2 0x8D 0x86; U2 0x8D 0x87;
   U2 0x8D 0x88; U2 0x8D 0x89; U2 0x8D 0x8A; U2 0x8D 0x8B;
   U2 0x8D 0x8C; U2 0x8D 0x8D; U2 0x8D 0x8E; U2 0x8D 0x8F;
   U2 0x8D 0x90; U2 0x8D 0x91; U2 0x8D 0x92; U2 0x8D 0x93;
   U2 0x8D 0x94; U2 0x8D 0x95; U2 0x8D 0x96; U2 0x8D 0x97;
   U2 0x8D 0x98; U2 0x8D 0x99; U2 0x8D 0x9A; U2 0x8D 0x9B;
   U2 0x8D 0x9C; U2 0x8D 0x9D; U2 0x8D 0x9E; U2 0x8D 0x9F;
   U2 0x8D 0xA0; U2 0x8D 0xA1; U2 0x8D 0xA2; U2 0x8D 0xA3;
   U2 0x8D 0xA4; U2 0x8D 0xA5; U2 0x8D 0xA6; U2 0x8D 0xA7;
   U2 0x8D 0xA8; U2 0x8D 0xA9; U2 0x8D 0xAA; U2 0x8D 0xAB;
   U2 0x8D 0xAC; U2 0x8D 0xAD; U2 0x8D 0xAE; U2 0x8D 0xAF;
   U2 0x8D 0xB0; U2 0x8D 0xB1; U2 0x8D 0xB2; U2 0x8D 0xB3;
   U2 0x8D 0xB4; U2 0x8D 0xB5; U2 0x8D 0xB6; U2 0x8D 0xB7;
   U2 0x8D 0xB8; U2 0x8D 0xB9; U2 0x8D 0xBA; U2 0x8D 0xBB;
   U2 0x8D 0xBC; U2 0x8D 0xBD; U2 0x8D 0xBE; U2 0x8D 0xBF].

Definition PLANE_3_E2_8E : Plane2Bytes :=
  [U2 0x8E 0x80; U2 0x8E 0x81; U2 0x8E 0x82; U2 0x8E 0x83;
   U2 0x8E 0x84; U2 0x8E 0x85; U2 0x8E 0x86; U2 0x8E 0x87;
   U2 0x8E 0x88; U2 0x8E 0x89; U2 0x8E 0x8A; U2 0x8E 0x8B;
   U2 0x8E 0x8C; U2 0x8E 0x8D; U2 0x8E 0x8E; U2 0x8E 0x8F;
   U2 0x8E 0x90; U2 0x8E 0x91; U2 0x8E 0x92; U2 0x8E 0x93;
   U2 0x8E 0x94; U2 0x8E 0x95; U2 0x8E 0x96; U2 0x8E 0x97;
   U2 0x8E 0x98; U2 0x8E 0x99; U2 0x8E 0x9A; U2 0x8E 0x9B;
   U2 0x8E 0x9C; U2 0x8E 0x9D; U2 0x8E 0x9E; U2 0x8E 0x9F;
   U2 0x8E 0xA0; U2 0x8E 0xA1; U2 0x8E 0xA2; U2 0x8E 0xA3;
   U2 0x8E 0xA4; U2 0x8E 0xA5; U2 0x8E 0xA6; U2 0x8E 0xA7;
   U2 0x8E 0xA8; U2 0x8E 0xA9; U2 0x8E 0xAA; U2 0x8E 0xAB;
   U2 0x8E 0xAC; U2 0x8E 0xAD; U2 0x8E 0xAE; U2 0x8E 0xAF;
   U2 0x8E 0xB0; U2 0x8E 0xB1; U2 0x8E 0xB2; U2 0x8E 0xB3;
   U2 0x8E 0xB4; U2 0x8E 0xB5; U2 0x8E 0xB6; U2 0x8E 0xB7;
   U2 0x8E 0xB8; U2 0x8E 0xB9; U2 0x8E 0xBA; U2 0x8E 0xBB;
   U2 0x8E 0xBC; U2 0x8E 0xBD; U2 0x8E 0xBE; U2 0x8E 0xBF].

Definition PLANE_3_E2_8F : Plane2Bytes :=
  [U2 0x8F 0x80; U2 0x8F 0x81; U2 0x8F 0x82; U2 0x8F 0x83;
   U2 0x8F 0x84; U2 0x8F 0x85; U2 0x8F 0x86; U2 0x8F 0x87;
   U2 0x8F 0x88; U2 0x8F 0x89; U2 0x8F 0x8A; U2 0x8F 0x8B;
   U2 0x8F 0x8C; U2 0x8F 0x8D; U2 0x8F 0x8E; U2 0x8F 0x8F;
   U2 0x8F 0x90; U2 0x8F 0x91; U2 0x8F 0x92; U2 0x8F 0x93;
   U2 0x8F 0x94; U2 0x8F 0x95; U2 0x8F 0x96; U2 0x8F 0x97;
   U2 0x8F 0x98; U2 0x8F 0x99; U2 0x8F 0x9A; U2 0x8F 0x9B;
   U2 0x8F 0x9C; U2 0x8F 0x9D; U2 0x8F 0x9E; U2 0x8F 0x9F;
   U2 0x8F 0xA0; U2 0x8F 0xA1; U2 0x8F 0xA2; U2 0x8F 0xA3;
   U2 0x8F 0xA4; U2 0x8F 0xA5; U2 0x8F 0xA6; U2 0x8F 0xA7;
   U2 0x8F 0xA8; U2 0x8F 0xA9; U2 0x8F 0xAA; U2 0x8F 0xAB;
   U2 0x8F 0xAC; U2 0x8F 0xAD; U2 0x8F 0xAE; U2 0x8F 0xAF;
   U2 0x8F 0xB0; U2 0x8F 0xB1; U2 0x8F 0xB2; U2 0x8F 0xB3;
   U2 0x8F 0xB4; U2 0x8F 0xB5; U2 0x8F 0xB6; U2 0x8F 0xB7;
   U2 0x8F 0xB8; U2 0x8F 0xB9; U2 0x8F 0xBA; U2 0x8F 0xBB;
   U2 0x8F 0xBC; U2 0x8F 0xBD; U2 0x8F 0xBE; U2 0x8F 0xBF].

Definition PLANE_3_E2_90 : Plane2Bytes :=
  [U2 0x90 0x80; U2 0x90 0x81; U2 0x90 0x82; U2 0x90 0x83;
   U2 0x90 0x84; U2 0x90 0x85; U2 0x90 0x86; U2 0x90 0x87;
   U2 0x90 0x88; U2 0x90 0x89; U2 0x90 0x8A; U2 0x90 0x8B;
   U2 0x90 0x8C; U2 0x90 0x8D; U2 0x90 0x8E; U2 0x90 0x8F;
   U2 0x90 0x90; U2 0x90 0x91; U2 0x90 0x92; U2 0x90 0x93;
   U2 0x90 0x94; U2 0x90 0x95; U2 0x90 0x96; U2 0x90 0x97;
   U2 0x90 0x98; U2 0x90 0x99; U2 0x90 0x9A; U2 0x90 0x9B;
   U2 0x90 0x9C; U2 0x90 0x9D; U2 0x90 0x9E; U2 0x90 0x9F;
   U2 0x90 0xA0; U2 0x90 0xA1; U2 0x90 0xA2; U2 0x90 0xA3;
   U2 0x90 0xA4; U2 0x90 0xA5; U2 0x90 0xA6; U2 0x90 0xA7;
   U2 0x90 0xA8; U2 0x90 0xA9; U2 0x90 0xAA; U2 0x90 0xAB;
   U2 0x90 0xAC; U2 0x90 0xAD; U2 0x90 0xAE; U2 0x90 0xAF;
   U2 0x90 0xB0; U2 0x90 0xB1; U2 0x90 0xB2; U2 0x90 0xB3;
   U2 0x90 0xB4; U2 0x90 0xB5; U2 0x90 0xB6; U2 0x90 0xB7;
   U2 0x90 0xB8; U2 0x90 0xB9; U2 0x90 0xBA; U2 0x90 0xBB;
   U2 0x90 0xBC; U2 0x90 0xBD; U2 0x90 0xBE; U2 0x90 0xBF].

Definition PLANE_3_E2_91 : Plane2Bytes :=
  [U2 0x91 0x80; U2 0x91 0x81; U2 0x91 0x82; U2 0x91 0x83;
   U2 0x91 0x84; U2 0x91 0x85; U2 0x91 0x86; U2 0x91 0x87;
   U2 0x91 0x88; U2 0x91 0x89; U2 0x91 0x8A; U2 0x91 0x8B;
   U2 0x91 0x8C; U2 0x91 0x8D; U2 0x91 0x8E; U2 0x91 0x8F;
   U2 0x91 0x90; U2 0x91 0x91; U2 0x91 0x92; U2 0x91 0x93;
   U2 0x91 0x94; U2 0x91 0x95; U2 0x91 0x96; U2 0x91 0x97;
   U2 0x91 0x98; U2 0x91 0x99; U2 0x91 0x9A; U2 0x91 0x9B;
   U2 0x91 0x9C; U2 0x91 0x9D; U2 0x91 0x9E; U2 0x91 0x9F;
   U2 0x91 0xA0; U2 0x91 0xA1; U2 0x91 0xA2; U2 0x91 0xA3;
   U2 0x91 0xA4; U2 0x91 0xA5; U2 0x91 0xA6; U2 0x91 0xA7;
   U2 0x91 0xA8; U2 0x91 0xA9; U2 0x91 0xAA; U2 0x91 0xAB;
   U2 0x91 0xAC; U2 0x91 0xAD; U2 0x91 0xAE; U2 0x91 0xAF;
   U2 0x91 0xB0; U2 0x91 0xB1; U2 0x91 0xB2; U2 0x91 0xB3;
   U2 0x91 0xB4; U2 0x91 0xB5; U2 0x91 0xB6; U2 0x91 0xB7;
   U2 0x91 0xB8; U2 0x91 0xB9; U2 0x91 0xBA; U2 0x91 0xBB;
   U2 0x91 0xBC; U2 0x91 0xBD; U2 0x91 0xBE; U2 0x91 0xBF].

Definition PLANE_3_E2_92 : Plane2Bytes :=
  [U2 0x92 0x80; U2 0x92 0x81; U2 0x92 0x82; U2 0x92 0x83;
   U2 0x92 0x84; U2 0x92 0x85; U2 0x92 0x86; U2 0x92 0x87;
   U2 0x92 0x88; U2 0x92 0x89; U2 0x92 0x8A; U2 0x92 0x8B;
   U2 0x92 0x8C; U2 0x92 0x8D; U2 0x92 0x8E; U2 0x92 0x8F;
   U2 0x92 0x90; U2 0x92 0x91; U2 0x92 0x92; U2 0x92 0x93;
   U2 0x92 0x94; U2 0x92 0x95; U2 0x92 0x96; U2 0x92 0x97;
   U2 0x92 0x98; U2 0x92 0x99; U2 0x92 0x9A; U2 0x92 0x9B;
   U2 0x92 0x9C; U2 0x92 0x9D; U2 0x92 0x9E; U2 0x92 0x9F;
   U2 0x92 0xA0; U2 0x92 0xA1; U2 0x92 0xA2; U2 0x92 0xA3;
   U2 0x92 0xA4; U2 0x92 0xA5; U2 0x92 0xA6; U2 0x92 0xA7;
   U2 0x92 0xA8; U2 0x92 0xA9; U2 0x92 0xAA; U2 0x92 0xAB;
   U2 0x92 0xAC; U2 0x92 0xAD; U2 0x92 0xAE; U2 0x92 0xAF;
   U2 0x92 0xB0; U2 0x92 0xB1; U2 0x92 0xB2; U2 0x92 0xB3;
   U2 0x92 0xB4; U2 0x92 0xB5; U2 0x93 0x90; U2 0x93 0x91;
   U2 0x93 0x92; U2 0x93 0x93; U2 0x93 0x94; U2 0x93 0x95;
   U2 0x93 0x96; U2 0x93 0x97; U2 0x93 0x98; U2 0x93 0x99].

Definition PLANE_3_E2_93 : Plane2Bytes :=
  [U2 0x93 0x9A; U2 0x93 0x9B; U2 0x93 0x9C; U2 0x93 0x9D;
   U2 0x93 0x9E; U2 0x93 0x9F; U2 0x93 0xA0; U2 0x93 0xA1;
   U2 0x93 0xA2; U2 0x93 0xA3; U2 0x93 0xA4; U2 0x93 0xA5;
   U2 0x93 0xA6; U2 0x93 0xA7; U2 0x93 0xA8; U2 0x93 0xA9;
   U2 0x93 0x90; U2 0x93 0x91; U2 0x93 0x92; U2 0x93 0x93;
   U2 0x93 0x94; U2 0x93 0x95; U2 0x93 0x96; U2 0x93 0x97;
   U2 0x93 0x98; U2 0x93 0x99; U2 0x93 0x9A; U2 0x93 0x9B;
   U2 0x93 0x9C; U2 0x93 0x9D; U2 0x93 0x9E; U2 0x93 0x9F;
   U2 0x93 0xA0; U2 0x93 0xA1; U2 0x93 0xA2; U2 0x93 0xA3;
   U2 0x93 0xA4; U2 0x93 0xA5; U2 0x93 0xA6; U2 0x93 0xA7;
   U2 0x93 0xA8; U2 0x93 0xA9; U2 0x93 0xAA; U2 0x93 0xAB;
   U2 0x93 0xAC; U2 0x93 0xAD; U2 0x93 0xAE; U2 0x93 0xAF;
   U2 0x93 0xB0; U2 0x93 0xB1; U2 0x93 0xB2; U2 0x93 0xB3;
   U2 0x93 0xB4; U2 0x93 0xB5; U2 0x93 0xB6; U2 0x93 0xB7;
   U2 0x93 0xB8; U2 0x93 0xB9; U2 0x93 0xBA; U2 0x93 0xBB;
   U2 0x93 0xBC; U2 0x93 0xBD; U2 0x93 0xBE; U2 0x93 0xBF].

Definition PLANE_3_E2_94 : Plane2Bytes :=
  [U2 0x94 0x80; U2 0x94 0x81; U2 0x94 0x82; U2 0x94 0x83;
   U2 0x94 0x84; U2 0x94 0x85; U2 0x94 0x86; U2 0x94 0x87;
   U2 0x94 0x88; U2 0x94 0x89; U2 0x94 0x8A; U2 0x94 0x8B;
   U2 0x94 0x8C; U2 0x94 0x8D; U2 0x94 0x8E; U2 0x94 0x8F;
   U2 0x94 0x90; U2 0x94 0x91; U2 0x94 0x92; U2 0x94 0x93;
   U2 0x94 0x94; U2 0x94 0x95; U2 0x94 0x96; U2 0x94 0x97;
   U2 0x94 0x98; U2 0x94 0x99; U2 0x94 0x9A; U2 0x94 0x9B;
   U2 0x94 0x9C; U2 0x94 0x9D; U2 0x94 0x9E; U2 0x94 0x9F;
   U2 0x94 0xA0; U2 0x94 0xA1; U2 0x94 0xA2; U2 0x94 0xA3;
   U2 0x94 0xA4; U2 0x94 0xA5; U2 0x94 0xA6; U2 0x94 0xA7;
   U2 0x94 0xA8; U2 0x94 0xA9; U2 0x94 0xAA; U2 0x94 0xAB;
   U2 0x94 0xAC; U2 0x94 0xAD; U2 0x94 0xAE; U2 0x94 0xAF;
   U2 0x94 0xB0; U2 0x94 0xB1; U2 0x94 0xB2; U2 0x94 0xB3;
   U2 0x94 0xB4; U2 0x94 0xB5; U2 0x94 0xB6; U2 0x94 0xB7;
   U2 0x94 0xB8; U2 0x94 0xB9; U2 0x94 0xBA; U2 0x94 0xBB;
   U2 0x94 0xBC; U2 0x94 0xBD; U2 0x94 0xBE; U2 0x94 0xBF].

Definition PLANE_3_E2_95 : Plane2Bytes :=
  [U2 0x95 0x80; U2 0x95 0x81; U2 0x95 0x82; U2 0x95 0x83;
   U2 0x95 0x84; U2 0x95 0x85; U2 0x95 0x86; U2 0x95 0x87;
   U2 0x95 0x88; U2 0x95 0x89; U2 0x95 0x8A; U2 0x95 0x8B;
   U2 0x95 0x8C; U2 0x95 0x8D; U2 0x95 0x8E; U2 0x95 0x8F;
   U2 0x95 0x90; U2 0x95 0x91; U2 0x95 0x92; U2 0x95 0x93;
   U2 0x95 0x94; U2 0x95 0x95; U2 0x95 0x96; U2 0x95 0x97;
   U2 0x95 0x98; U2 0x95 0x99; U2 0x95 0x9A; U2 0x95 0x9B;
   U2 0x95 0x9C; U2 0x95 0x9D; U2 0x95 0x9E; U2 0x95 0x9F;
   U2 0x95 0xA0; U2 0x95 0xA1; U2 0x95 0xA2; U2 0x95 0xA3;
   U2 0x95 0xA4; U2 0x95 0xA5; U2 0x95 0xA6; U2 0x95 0xA7;
   U2 0x95 0xA8; U2 0x95 0xA9; U2 0x95 0xAA; U2 0x95 0xAB;
   U2 0x95 0xAC; U2 0x95 0xAD; U2 0x95 0xAE; U2 0x95 0xAF;
   U2 0x95 0xB0; U2 0x95 0xB1; U2 0x95 0xB2; U2 0x95 0xB3;
   U2 0x95 0xB4; U2 0x95 0xB5; U2 0x95 0xB6; U2 0x95 0xB7;
   U2 0x95 0xB8; U2 0x95 0xB9; U2 0x95 0xBA; U2 0x95 0xBB;
   U2 0x95 0xBC; U2 0x95 0xBD; U2 0x95 0xBE; U2 0x95 0xBF].

Definition PLANE_3_E2_96 : Plane2Bytes :=
  [U2 0x96 0x80; U2 0x96 0x81; U2 0x96 0x82; U2 0x96 0x83;
   U2 0x96 0x84; U2 0x96 0x85; U2 0x96 0x86; U2 0x96 0x87;
   U2 0x96 0x88; U2 0x96 0x89; U2 0x96 0x8A; U2 0x96 0x8B;
   U2 0x96 0x8C; U2 0x96 0x8D; U2 0x96 0x8E; U2 0x96 0x8F;
   U2 0x96 0x90; U2 0x96 0x91; U2 0x96 0x92; U2 0x96 0x93;
   U2 0x96 0x94; U2 0x96 0x95; U2 0x96 0x96; U2 0x96 0x97;
   U2 0x96 0x98; U2 0x96 0x99; U2 0x96 0x9A; U2 0x96 0x9B;
   U2 0x96 0x9C; U2 0x96 0x9D; U2 0x96 0x9E; U2 0x96 0x9F;
   U2 0x96 0xA0; U2 0x96 0xA1; U2 0x96 0xA2; U2 0x96 0xA3;
   U2 0x96 0xA4; U2 0x96 0xA5; U2 0x96 0xA6; U2 0x96 0xA7;
   U2 0x96 0xA8; U2 0x96 0xA9; U2 0x96 0xAA; U2 0x96 0xAB;
   U2 0x96 0xAC; U2 0x96 0xAD; U2 0x96 0xAE; U2 0x96 0xAF;
   U2 0x96 0xB0; U2 0x96 0xB1; U2 0x96 0xB2; U2 0x96 0xB3;
   U2 0x96 0xB4; U2 0x96 0xB5; U2 0x96 0xB6; U2 0x96 0xB7;
   U2 0x96 0xB8; U2 0x96 0xB9; U2 0x96 0xBA; U2 0x96 0xBB;
   U2 0x96 0xBC; U2 0x96 0xBD; U2 0x96 0xBE; U2 0x96 0xBF].

Definition PLANE_3_E2_97 : Plane2Bytes :=
  [U2 0x97 0x80; U2 0x97 0x81; U2 0x97 0x82; U2 0x97 0x83;
   U2 0x97 0x84; U2 0x97 0x85; U2 0x97 0x86; U2 0x97 0x87;
   U2 0x97 0x88; U2 0x97 0x89; U2 0x97 0x8A; U2 0x97 0x8B;
   U2 0x97 0x8C; U2 0x97 0x8D; U2 0x97 0x8E; U2 0x97 0x8F;
   U2 0x97 0x90; U2 0x97 0x91; U2 0x97 0x92; U2 0x97 0x93;
   U2 0x97 0x94; U2 0x97 0x95; U2 0x97 0x96; U2 0x97 0x97;
   U2 0x97 0x98; U2 0x97 0x99; U2 0x97 0x9A; U2 0x97 0x9B;
   U2 0x97 0x9C; U2 0x97 0x9D; U2 0x97 0x9E; U2 0x97 0x9F;
   U2 0x97 0xA0; U2 0x97 0xA1; U2 0x97 0xA2; U2 0x97 0xA3;
   U2 0x97 0xA4; U2 0x97 0xA5; U2 0x97 0xA6; U2 0x97 0xA7;
   U2 0x97 0xA8; U2 0x97 0xA9; U2 0x97 0xAA; U2 0x97 0xAB;
   U2 0x97 0xAC; U2 0x97 0xAD; U2 0x97 0xAE; U2 0x97 0xAF;
   U2 0x97 0xB0; U2 0x97 0xB1; U2 0x97 0xB2; U2 0x97 0xB3;
   U2 0x97 0xB4; U2 0x97 0xB5; U2 0x97 0xB6; U2 0x97 0xB7;
   U2 0x97 0xB8; U2 0x97 0xB9; U2 0x97 0xBA; U2 0x97 0xBB;
   U2 0x97 0xBC; U2 0x97 0xBD; U2 0x97 0xBE; U2 0x97 0xBF].

Definition PLANE_3_E2_98 : Plane2Bytes :=
  [U2 0x98 0x80; U2 0x98 0x81; U2 0x98 0x82; U2 0x98 0x83;
   U2 0x98 0x84; U2 0x98 0x85; U2 0x98 0x86; U2 0x98 0x87;
   U2 0x98 0x88; U2 0x98 0x89; U2 0x98 0x8A; U2 0x98 0x8B;
   U2 0x98 0x8C; U2 0x98 0x8D; U2 0x98 0x8E; U2 0x98 0x8F;
   U2 0x98 0x90; U2 0x98 0x91; U2 0x98 0x92; U2 0x98 0x93;
   U2 0x98 0x94; U2 0x98 0x95; U2 0x98 0x96; U2 0x98 0x97;
   U2 0x98 0x98; U2 0x98 0x99; U2 0x98 0x9A; U2 0x98 0x9B;
   U2 0x98 0x9C; U2 0x98 0x9D; U2 0x98 0x9E; U2 0x98 0x9F;
   U2 0x98 0xA0; U2 0x98 0xA1; U2 0x98 0xA2; U2 0x98 0xA3;
   U2 0x98 0xA4; U2 0x98 0xA5; U2 0x98 0xA6; U2 0x98 0xA7;
   U2 0x98 0xA8; U2 0x98 0xA9; U2 0x98 0xAA; U2 0x98 0xAB;
   U2 0x98 0xAC; U2 0x98 0xAD; U2 0x98 0xAE; U2 0x98 0xAF;
   U2 0x98 0xB0; U2 0x98 0xB1; U2 0x98 0xB2; U2 0x98 0xB3;
   U2 0x98 0xB4; U2 0x98 0xB5; U2 0x98 0xB6; U2 0x98 0xB7;
   U2 0x98 0xB8; U2 0x98 0xB9; U2 0x98 0xBA; U2 0x98 0xBB;
   U2 0x98 0xBC; U2 0x98 0xBD; U2 0x98 0xBE; U2 0x98 0xBF].

Definition PLANE_3_E2_99 : Plane2Bytes :=
  [U2 0x99 0x80; U2 0x99 0x81; U2 0x99 0x82; U2 0x99 0x83;
   U2 0x99 0x84; U2 0x99 0x85; U2 0x99 0x86; U2 0x99 0x87;
   U2 0x99 0x88; U2 0x99 0x89; U2 0x99 0x8A; U2 0x99 0x8B;
   U2 0x99 0x8C; U2 0x99 0x8D; U2 0x99 0x8E; U2 0x99 0x8F;
   U2 0x99 0x90; U2 0x99 0x91; U2 0x99 0x92; U2 0x99 0x93;
   U2 0x99 0x94; U2 0x99 0x95; U2 0x99 0x96; U2 0x99 0x97;
   U2 0x99 0x98; U2 0x99 0x99; U2 0x99 0x9A; U2 0x99 0x9B;
   U2 0x99 0x9C; U2 0x99 0x9D; U2 0x99 0x9E; U2 0x99 0x9F;
   U2 0x99 0xA0; U2 0x99 0xA1; U2 0x99 0xA2; U2 0x99 0xA3;
   U2 0x99 0xA4; U2 0x99 0xA5; U2 0x99 0xA6; U2 0x99 0xA7;
   U2 0x99 0xA8; U2 0x99 0xA9; U2 0x99 0xAA; U2 0x99 0xAB;
   U2 0x99 0xAC; U2 0x99 0xAD; U2 0x99 0xAE; U2 0x99 0xAF;
   U2 0x99 0xB0; U2 0x99 0xB1; U2 0x99 0xB2; U2 0x99 0xB3;
   U2 0x99 0xB4; U2 0x99 0xB5; U2 0x99 0xB6; U2 0x99 0xB7;
   U2 0x99 0xB8; U2 0x99 0xB9; U2 0x99 0xBA; U2 0x99 0xBB;
   U2 0x99 0xBC; U2 0x99 0xBD; U2 0x99 0xBE; U2 0x99 0xBF].

Definition PLANE_3_E2_9A : Plane2Bytes :=
  [U2 0x9A 0x80; U2 0x9A 0x81; U2 0x9A 0x82; U2 0x9A 0x83;
   U2 0x9A 0x84; U2 0x9A 0x85; U2 0x9A 0x86; U2 0x9A 0x87;
   U2 0x9A 0x88; U2 0x9A 0x89; U2 0x9A 0x8A; U2 0x9A 0x8B;
   U2 0x9A 0x8C; U2 0x9A 0x8D; U2 0x9A 0x8E; U2 0x9A 0x8F;
   U2 0x9A 0x90; U2 0x9A 0x91; U2 0x9A 0x92; U2 0x9A 0x93;
   U2 0x9A 0x94; U2 0x9A 0x95; U2 0x9A 0x96; U2 0x9A 0x97;
   U2 0x9A 0x98; U2 0x9A 0x99; U2 0x9A 0x9A; U2 0x9A 0x9B;
   U2 0x9A 0x9C; U2 0x9A 0x9D; U2 0x9A 0x9E; U2 0x9A 0x9F;
   U2 0x9A 0xA0; U2 0x9A 0xA1; U2 0x9A 0xA2; U2 0x9A 0xA3;
   U2 0x9A 0xA4; U2 0x9A 0xA5; U2 0x9A 0xA6; U2 0x9A 0xA7;
   U2 0x9A 0xA8; U2 0x9A 0xA9; U2 0x9A 0xAA; U2 0x9A 0xAB;
   U2 0x9A 0xAC; U2 0x9A 0xAD; U2 0x9A 0xAE; U2 0x9A 0xAF;
   U2 0x9A 0xB0; U2 0x9A 0xB1; U2 0x9A 0xB2; U2 0x9A 0xB3;
   U2 0x9A 0xB4; U2 0x9A 0xB5; U2 0x9A 0xB6; U2 0x9A 0xB7;
   U2 0x9A 0xB8; U2 0x9A 0xB9; U2 0x9A 0xBA; U2 0x9A 0xBB;
   U2 0x9A 0xBC; U2 0x9A 0xBD; U2 0x9A 0xBE; U2 0x9A 0xBF].

Definition PLANE_3_E2_9B : Plane2Bytes :=
  [U2 0x9B 0x80; U2 0x9B 0x81; U2 0x9B 0x82; U2 0x9B 0x83;
   U2 0x9B 0x84; U2 0x9B 0x85; U2 0x9B 0x86; U2 0x9B 0x87;
   U2 0x9B 0x88; U2 0x9B 0x89; U2 0x9B 0x8A; U2 0x9B 0x8B;
   U2 0x9B 0x8C; U2 0x9B 0x8D; U2 0x9B 0x8E; U2 0x9B 0x8F;
   U2 0x9B 0x90; U2 0x9B 0x91; U2 0x9B 0x92; U2 0x9B 0x93;
   U2 0x9B 0x94; U2 0x9B 0x95; U2 0x9B 0x96; U2 0x9B 0x97;
   U2 0x9B 0x98; U2 0x9B 0x99; U2 0x9B 0x9A; U2 0x9B 0x9B;
   U2 0x9B 0x9C; U2 0x9B 0x9D; U2 0x9B 0x9E; U2 0x9B 0x9F;
   U2 0x9B 0xA0; U2 0x9B 0xA1; U2 0x9B 0xA2; U2 0x9B 0xA3;
   U2 0x9B 0xA4; U2 0x9B 0xA5; U2 0x9B 0xA6; U2 0x9B 0xA7;
   U2 0x9B 0xA8; U2 0x9B 0xA9; U2 0x9B 0xAA; U2 0x9B 0xAB;
   U2 0x9B 0xAC; U2 0x9B 0xAD; U2 0x9B 0xAE; U2 0x9B 0xAF;
   U2 0x9B 0xB0; U2 0x9B 0xB1; U2 0x9B 0xB2; U2 0x9B 0xB3;
   U2 0x9B 0xB4; U2 0x9B 0xB5; U2 0x9B 0xB6; U2 0x9B 0xB7;
   U2 0x9B 0xB8; U2 0x9B 0xB9; U2 0x9B 0xBA; U2 0x9B 0xBB;
   U2 0x9B 0xBC; U2 0x9B 0xBD; U2 0x9B 0xBE; U2 0x9B 0xBF].

Definition PLANE_3_E2_9C : Plane2Bytes :=
  [U2 0x9C 0x80; U2 0x9C 0x81; U2 0x9C 0x82; U2 0x9C 0x83;
   U2 0x9C 0x84; U2 0x9C 0x85; U2 0x9C 0x86; U2 0x9C 0x87;
   U2 0x9C 0x88; U2 0x9C 0x89; U2 0x9C 0x8A; U2 0x9C 0x8B;
   U2 0x9C 0x8C; U2 0x9C 0x8D; U2 0x9C 0x8E; U2 0x9C 0x8F;
   U2 0x9C 0x90; U2 0x9C 0x91; U2 0x9C 0x92; U2 0x9C 0x93;
   U2 0x9C 0x94; U2 0x9C 0x95; U2 0x9C 0x96; U2 0x9C 0x97;
   U2 0x9C 0x98; U2 0x9C 0x99; U2 0x9C 0x9A; U2 0x9C 0x9B;
   U2 0x9C 0x9C; U2 0x9C 0x9D; U2 0x9C 0x9E; U2 0x9C 0x9F;
   U2 0x9C 0xA0; U2 0x9C 0xA1; U2 0x9C 0xA2; U2 0x9C 0xA3;
   U2 0x9C 0xA4; U2 0x9C 0xA5; U2 0x9C 0xA6; U2 0x9C 0xA7;
   U2 0x9C 0xA8; U2 0x9C 0xA9; U2 0x9C 0xAA; U2 0x9C 0xAB;
   U2 0x9C 0xAC; U2 0x9C 0xAD; U2 0x9C 0xAE; U2 0x9C 0xAF;
   U2 0x9C 0xB0; U2 0x9C 0xB1; U2 0x9C 0xB2; U2 0x9C 0xB3;
   U2 0x9C 0xB4; U2 0x9C 0xB5; U2 0x9C 0xB6; U2 0x9C 0xB7;
   U2 0x9C 0xB8; U2 0x9C 0xB9; U2 0x9C 0xBA; U2 0x9C 0xBB;
   U2 0x9C 0xBC; U2 0x9C 0xBD; U2 0x9C 0xBE; U2 0x9C 0xBF].

Definition PLANE_3_E2_9D : Plane2Bytes :=
  [U2 0x9D 0x80; U2 0x9D 0x81; U2 0x9D 0x82; U2 0x9D 0x83;
   U2 0x9D 0x84; U2 0x9D 0x85; U2 0x9D 0x86; U2 0x9D 0x87;
   U2 0x9D 0x88; U2 0x9D 0x89; U2 0x9D 0x8A; U2 0x9D 0x8B;
   U2 0x9D 0x8C; U2 0x9D 0x8D; U2 0x9D 0x8E; U2 0x9D 0x8F;
   U2 0x9D 0x90; U2 0x9D 0x91; U2 0x9D 0x92; U2 0x9D 0x93;
   U2 0x9D 0x94; U2 0x9D 0x95; U2 0x9D 0x96; U2 0x9D 0x97;
   U2 0x9D 0x98; U2 0x9D 0x99; U2 0x9D 0x9A; U2 0x9D 0x9B;
   U2 0x9D 0x9C; U2 0x9D 0x9D; U2 0x9D 0x9E; U2 0x9D 0x9F;
   U2 0x9D 0xA0; U2 0x9D 0xA1; U2 0x9D 0xA2; U2 0x9D 0xA3;
   U2 0x9D 0xA4; U2 0x9D 0xA5; U2 0x9D 0xA6; U2 0x9D 0xA7;
   U2 0x9D 0xA8; U2 0x9D 0xA9; U2 0x9D 0xAA; U2 0x9D 0xAB;
   U2 0x9D 0xAC; U2 0x9D 0xAD; U2 0x9D 0xAE; U2 0x9D 0xAF;
   U2 0x9D 0xB0; U2 0x9D 0xB1; U2 0x9D 0xB2; U2 0x9D 0xB3;
   U2 0x9D 0xB4; U2 0x9D 0xB5; U2 0x9D 0xB6; U2 0x9D 0xB7;
   U2 0x9D 0xB8; U2 0x9D 0xB9; U2 0x9D 0xBA; U2 0x9D 0xBB;
   U2 0x9D 0xBC; U2 0x9D 0xBD; U2 0x9D 0xBE; U2 0x9D 0xBF].

Definition PLANE_3_E2_9E : Plane2Bytes :=
  [U2 0x9E 0x80; U2 0x9E 0x81; U2 0x9E 0x82; U2 0x9E 0x83;
   U2 0x9E 0x84; U2 0x9E 0x85; U2 0x9E 0x86; U2 0x9E 0x87;
   U2 0x9E 0x88; U2 0x9E 0x89; U2 0x9E 0x8A; U2 0x9E 0x8B;
   U2 0x9E 0x8C; U2 0x9E 0x8D; U2 0x9E 0x8E; U2 0x9E 0x8F;
   U2 0x9E 0x90; U2 0x9E 0x91; U2 0x9E 0x92; U2 0x9E 0x93;
   U2 0x9E 0x94; U2 0x9E 0x95; U2 0x9E 0x96; U2 0x9E 0x97;
   U2 0x9E 0x98; U2 0x9E 0x99; U2 0x9E 0x9A; U2 0x9E 0x9B;
   U2 0x9E 0x9C; U2 0x9E 0x9D; U2 0x9E 0x9E; U2 0x9E 0x9F;
   U2 0x9E 0xA0; U2 0x9E 0xA1; U2 0x9E 0xA2; U2 0x9E 0xA3;
   U2 0x9E 0xA4; U2 0x9E 0xA5; U2 0x9E 0xA6; U2 0x9E 0xA7;
   U2 0x9E 0xA8; U2 0x9E 0xA9; U2 0x9E 0xAA; U2 0x9E 0xAB;
   U2 0x9E 0xAC; U2 0x9E 0xAD; U2 0x9E 0xAE; U2 0x9E 0xAF;
   U2 0x9E 0xB0; U2 0x9E 0xB1; U2 0x9E 0xB2; U2 0x9E 0xB3;
   U2 0x9E 0xB4; U2 0x9E 0xB5; U2 0x9E 0xB6; U2 0x9E 0xB7;
   U2 0x9E 0xB8; U2 0x9E 0xB9; U2 0x9E 0xBA; U2 0x9E 0xBB;
   U2 0x9E 0xBC; U2 0x9E 0xBD; U2 0x9E 0xBE; U2 0x9E 0xBF].

Definition PLANE_3_E2_9F : Plane2Bytes :=
  [U2 0x9F 0x80; U2 0x9F 0x81; U2 0x9F 0x82; U2 0x9F 0x83;
   U2 0x9F 0x84; U2 0x9F 0x85; U2 0x9F 0x86; U2 0x9F 0x87;
   U2 0x9F 0x88; U2 0x9F 0x89; U2 0x9F 0x8A; U2 0x9F 0x8B;
   U2 0x9F 0x8C; U2 0x9F 0x8D; U2 0x9F 0x8E; U2 0x9F 0x8F;
   U2 0x9F 0x90; U2 0x9F 0x91; U2 0x9F 0x92; U2 0x9F 0x93;
   U2 0x9F 0x94; U2 0x9F 0x95; U2 0x9F 0x96; U2 0x9F 0x97;
   U2 0x9F 0x98; U2 0x9F 0x99; U2 0x9F 0x9A; U2 0x9F 0x9B;
   U2 0x9F 0x9C; U2 0x9F 0x9D; U2 0x9F 0x9E; U2 0x9F 0x9F;
   U2 0x9F 0xA0; U2 0x9F 0xA1; U2 0x9F 0xA2; U2 0x9F 0xA3;
   U2 0x9F 0xA4; U2 0x9F 0xA5; U2 0x9F 0xA6; U2 0x9F 0xA7;
   U2 0x9F 0xA8; U2 0x9F 0xA9; U2 0x9F 0xAA; U2 0x9F 0xAB;
   U2 0x9F 0xAC; U2 0x9F 0xAD; U2 0x9F 0xAE; U2 0x9F 0xAF;
   U2 0x9F 0xB0; U2 0x9F 0xB1; U2 0x9F 0xB2; U2 0x9F 0xB3;
   U2 0x9F 0xB4; U2 0x9F 0xB5; U2 0x9F 0xB6; U2 0x9F 0xB7;
   U2 0x9F 0xB8; U2 0x9F 0xB9; U2 0x9F 0xBA; U2 0x9F 0xBB;
   U2 0x9F 0xBC; U2 0x9F 0xBD; U2 0x9F 0xBE; U2 0x9F 0xBF].

Definition PLANE_3_E2_A0 : Plane2Bytes :=
  [U2 0xA0 0x80; U2 0xA0 0x81; U2 0xA0 0x82; U2 0xA0 0x83;
   U2 0xA0 0x84; U2 0xA0 0x85; U2 0xA0 0x86; U2 0xA0 0x87;
   U2 0xA0 0x88; U2 0xA0 0x89; U2 0xA0 0x8A; U2 0xA0 0x8B;
   U2 0xA0 0x8C; U2 0xA0 0x8D; U2 0xA0 0x8E; U2 0xA0 0x8F;
   U2 0xA0 0x90; U2 0xA0 0x91; U2 0xA0 0x92; U2 0xA0 0x93;
   U2 0xA0 0x94; U2 0xA0 0x95; U2 0xA0 0x96; U2 0xA0 0x97;
   U2 0xA0 0x98; U2 0xA0 0x99; U2 0xA0 0x9A; U2 0xA0 0x9B;
   U2 0xA0 0x9C; U2 0xA0 0x9D; U2 0xA0 0x9E; U2 0xA0 0x9F;
   U2 0xA0 0xA0; U2 0xA0 0xA1; U2 0xA0 0xA2; U2 0xA0 0xA3;
   U2 0xA0 0xA4; U2 0xA0 0xA5; U2 0xA0 0xA6; U2 0xA0 0xA7;
   U2 0xA0 0xA8; U2 0xA0 0xA9; U2 0xA0 0xAA; U2 0xA0 0xAB;
   U2 0xA0 0xAC; U2 0xA0 0xAD; U2 0xA0 0xAE; U2 0xA0 0xAF;
   U2 0xA0 0xB0; U2 0xA0 0xB1; U2 0xA0 0xB2; U2 0xA0 0xB3;
   U2 0xA0 0xB4; U2 0xA0 0xB5; U2 0xA0 0xB6; U2 0xA0 0xB7;
   U2 0xA0 0xB8; U2 0xA0 0xB9; U2 0xA0 0xBA; U2 0xA0 0xBB;
   U2 0xA0 0xBC; U2 0xA0 0xBD; U2 0xA0 0xBE; U2 0xA0 0xBF].

Definition PLANE_3_E2_A1 : Plane2Bytes :=
  [U2 0xA1 0x80; U2 0xA1 0x81; U2 0xA1 0x82; U2 0xA1 0x83;
   U2 0xA1 0x84; U2 0xA1 0x85; U2 0xA1 0x86; U2 0xA1 0x87;
   U2 0xA1 0x88; U2 0xA1 0x89; U2 0xA1 0x8A; U2 0xA1 0x8B;
   U2 0xA1 0x8C; U2 0xA1 0x8D; U2 0xA1 0x8E; U2 0xA1 0x8F;
   U2 0xA1 0x90; U2 0xA1 0x91; U2 0xA1 0x92; U2 0xA1 0x93;
   U2 0xA1 0x94; U2 0xA1 0x95; U2 0xA1 0x96; U2 0xA1 0x97;
   U2 0xA1 0x98; U2 0xA1 0x99; U2 0xA1 0x9A; U2 0xA1 0x9B;
   U2 0xA1 0x9C; U2 0xA1 0x9D; U2 0xA1 0x9E; U2 0xA1 0x9F;
   U2 0xA1 0xA0; U2 0xA1 0xA1; U2 0xA1 0xA2; U2 0xA1 0xA3;
   U2 0xA1 0xA4; U2 0xA1 0xA5; U2 0xA1 0xA6; U2 0xA1 0xA7;
   U2 0xA1 0xA8; U2 0xA1 0xA9; U2 0xA1 0xAA; U2 0xA1 0xAB;
   U2 0xA1 0xAC; U2 0xA1 0xAD; U2 0xA1 0xAE; U2 0xA1 0xAF;
   U2 0xA1 0xB0; U2 0xA1 0xB1; U2 0xA1 0xB2; U2 0xA1 0xB3;
   U2 0xA1 0xB4; U2 0xA1 0xB5; U2 0xA1 0xB6; U2 0xA1 0xB7;
   U2 0xA1 0xB8; U2 0xA1 0xB9; U2 0xA1 0xBA; U2 0xA1 0xBB;
   U2 0xA1 0xBC; U2 0xA1 0xBD; U2 0xA1 0xBE; U2 0xA1 0xBF].

Definition PLANE_3_E2_A2 : Plane2Bytes :=
  [U2 0xA2 0x80; U2 0xA2 0x81; U2 0xA2 0x82; U2 0xA2 0x83;
   U2 0xA2 0x84; U2 0xA2 0x85; U2 0xA2 0x86; U2 0xA2 0x87;
   U2 0xA2 0x88; U2 0xA2 0x89; U2 0xA2 0x8A; U2 0xA2 0x8B;
   U2 0xA2 0x8C; U2 0xA2 0x8D; U2 0xA2 0x8E; U2 0xA2 0x8F;
   U2 0xA2 0x90; U2 0xA2 0x91; U2 0xA2 0x92; U2 0xA2 0x93;
   U2 0xA2 0x94; U2 0xA2 0x95; U2 0xA2 0x96; U2 0xA2 0x97;
   U2 0xA2 0x98; U2 0xA2 0x99; U2 0xA2 0x9A; U2 0xA2 0x9B;
   U2 0xA2 0x9C; U2 0xA2 0x9D; U2 0xA2 0x9E; U2 0xA2 0x9F;
   U2 0xA2 0xA0; U2 0xA2 0xA1; U2 0xA2 0xA2; U2 0xA2 0xA3;
   U2 0xA2 0xA4; U2 0xA2 0xA5; U2 0xA2 0xA6; U2 0xA2 0xA7;
   U2 0xA2 0xA8; U2 0xA2 0xA9; U2 0xA2 0xAA; U2 0xA2 0xAB;
   U2 0xA2 0xAC; U2 0xA2 0xAD; U2 0xA2 0xAE; U2 0xA2 0xAF;
   U2 0xA2 0xB0; U2 0xA2 0xB1; U2 0xA2 0xB2; U2 0xA2 0xB3;
   U2 0xA2 0xB4; U2 0xA2 0xB5; U2 0xA2 0xB6; U2 0xA2 0xB7;
   U2 0xA2 0xB8; U2 0xA2 0xB9; U2 0xA2 0xBA; U2 0xA2 0xBB;
   U2 0xA2 0xBC; U2 0xA2 0xBD; U2 0xA2 0xBE; U2 0xA2 0xBF].

Definition PLANE_3_E2_A3 : Plane2Bytes :=
  [U2 0xA3 0x80; U2 0xA3 0x81; U2 0xA3 0x82; U2 0xA3 0x83;
   U2 0xA3 0x84; U2 0xA3 0x85; U2 0xA3 0x86; U2 0xA3 0x87;
   U2 0xA3 0x88; U2 0xA3 0x89; U2 0xA3 0x8A; U2 0xA3 0x8B;
   U2 0xA3 0x8C; U2 0xA3 0x8D; U2 0xA3 0x8E; U2 0xA3 0x8F;
   U2 0xA3 0x90; U2 0xA3 0x91; U2 0xA3 0x92; U2 0xA3 0x93;
   U2 0xA3 0x94; U2 0xA3 0x95; U2 0xA3 0x96; U2 0xA3 0x97;
   U2 0xA3 0x98; U2 0xA3 0x99; U2 0xA3 0x9A; U2 0xA3 0x9B;
   U2 0xA3 0x9C; U2 0xA3 0x9D; U2 0xA3 0x9E; U2 0xA3 0x9F;
   U2 0xA3 0xA0; U2 0xA3 0xA1; U2 0xA3 0xA2; U2 0xA3 0xA3;
   U2 0xA3 0xA4; U2 0xA3 0xA5; U2 0xA3 0xA6; U2 0xA3 0xA7;
   U2 0xA3 0xA8; U2 0xA3 0xA9; U2 0xA3 0xAA; U2 0xA3 0xAB;
   U2 0xA3 0xAC; U2 0xA3 0xAD; U2 0xA3 0xAE; U2 0xA3 0xAF;
   U2 0xA3 0xB0; U2 0xA3 0xB1; U2 0xA3 0xB2; U2 0xA3 0xB3;
   U2 0xA3 0xB4; U2 0xA3 0xB5; U2 0xA3 0xB6; U2 0xA3 0xB7;
   U2 0xA3 0xB8; U2 0xA3 0xB9; U2 0xA3 0xBA; U2 0xA3 0xBB;
   U2 0xA3 0xBC; U2 0xA3 0xBD; U2 0xA3 0xBE; U2 0xA3 0xBF].

Definition PLANE_3_E2_A4 : Plane2Bytes :=
  [U2 0xA4 0x80; U2 0xA4 0x81; U2 0xA4 0x82; U2 0xA4 0x83;
   U2 0xA4 0x84; U2 0xA4 0x85; U2 0xA4 0x86; U2 0xA4 0x87;
   U2 0xA4 0x88; U2 0xA4 0x89; U2 0xA4 0x8A; U2 0xA4 0x8B;
   U2 0xA4 0x8C; U2 0xA4 0x8D; U2 0xA4 0x8E; U2 0xA4 0x8F;
   U2 0xA4 0x90; U2 0xA4 0x91; U2 0xA4 0x92; U2 0xA4 0x93;
   U2 0xA4 0x94; U2 0xA4 0x95; U2 0xA4 0x96; U2 0xA4 0x97;
   U2 0xA4 0x98; U2 0xA4 0x99; U2 0xA4 0x9A; U2 0xA4 0x9B;
   U2 0xA4 0x9C; U2 0xA4 0x9D; U2 0xA4 0x9E; U2 0xA4 0x9F;
   U2 0xA4 0xA0; U2 0xA4 0xA1; U2 0xA4 0xA2; U2 0xA4 0xA3;
   U2 0xA4 0xA4; U2 0xA4 0xA5; U2 0xA4 0xA6; U2 0xA4 0xA7;
   U2 0xA4 0xA8; U2 0xA4 0xA9; U2 0xA4 0xAA; U2 0xA4 0xAB;
   U2 0xA4 0xAC; U2 0xA4 0xAD; U2 0xA4 0xAE; U2 0xA4 0xAF;
   U2 0xA4 0xB0; U2 0xA4 0xB1; U2 0xA4 0xB2; U2 0xA4 0xB3;
   U2 0xA4 0xB4; U2 0xA4 0xB5; U2 0xA4 0xB6; U2 0xA4 0xB7;
   U2 0xA4 0xB8; U2 0xA4 0xB9; U2 0xA4 0xBA; U2 0xA4 0xBB;
   U2 0xA4 0xBC; U2 0xA4 0xBD; U2 0xA4 0xBE; U2 0xA4 0xBF].

Definition PLANE_3_E2_A5 : Plane2Bytes :=
  [U2 0xA5 0x80; U2 0xA5 0x81; U2 0xA5 0x82; U2 0xA5 0x83;
   U2 0xA5 0x84; U2 0xA5 0x85; U2 0xA5 0x86; U2 0xA5 0x87;
   U2 0xA5 0x88; U2 0xA5 0x89; U2 0xA5 0x8A; U2 0xA5 0x8B;
   U2 0xA5 0x8C; U2 0xA5 0x8D; U2 0xA5 0x8E; U2 0xA5 0x8F;
   U2 0xA5 0x90; U2 0xA5 0x91; U2 0xA5 0x92; U2 0xA5 0x93;
   U2 0xA5 0x94; U2 0xA5 0x95; U2 0xA5 0x96; U2 0xA5 0x97;
   U2 0xA5 0x98; U2 0xA5 0x99; U2 0xA5 0x9A; U2 0xA5 0x9B;
   U2 0xA5 0x9C; U2 0xA5 0x9D; U2 0xA5 0x9E; U2 0xA5 0x9F;
   U2 0xA5 0xA0; U2 0xA5 0xA1; U2 0xA5 0xA2; U2 0xA5 0xA3;
   U2 0xA5 0xA4; U2 0xA5 0xA5; U2 0xA5 0xA6; U2 0xA5 0xA7;
   U2 0xA5 0xA8; U2 0xA5 0xA9; U2 0xA5 0xAA; U2 0xA5 0xAB;
   U2 0xA5 0xAC; U2 0xA5 0xAD; U2 0xA5 0xAE; U2 0xA5 0xAF;
   U2 0xA5 0xB0; U2 0xA5 0xB1; U2 0xA5 0xB2; U2 0xA5 0xB3;
   U2 0xA5 0xB4; U2 0xA5 0xB5; U2 0xA5 0xB6; U2 0xA5 0xB7;
   U2 0xA5 0xB8; U2 0xA5 0xB9; U2 0xA5 0xBA; U2 0xA5 0xBB;
   U2 0xA5 0xBC; U2 0xA5 0xBD; U2 0xA5 0xBE; U2 0xA5 0xBF].

Definition PLANE_3_E2_A6 : Plane2Bytes :=
  [U2 0xA6 0x80; U2 0xA6 0x81; U2 0xA6 0x82; U2 0xA6 0x83;
   U2 0xA6 0x84; U2 0xA6 0x85; U2 0xA6 0x86; U2 0xA6 0x87;
   U2 0xA6 0x88; U2 0xA6 0x89; U2 0xA6 0x8A; U2 0xA6 0x8B;
   U2 0xA6 0x8C; U2 0xA6 0x8D; U2 0xA6 0x8E; U2 0xA6 0x8F;
   U2 0xA6 0x90; U2 0xA6 0x91; U2 0xA6 0x92; U2 0xA6 0x93;
   U2 0xA6 0x94; U2 0xA6 0x95; U2 0xA6 0x96; U2 0xA6 0x97;
   U2 0xA6 0x98; U2 0xA6 0x99; U2 0xA6 0x9A; U2 0xA6 0x9B;
   U2 0xA6 0x9C; U2 0xA6 0x9D; U2 0xA6 0x9E; U2 0xA6 0x9F;
   U2 0xA6 0xA0; U2 0xA6 0xA1; U2 0xA6 0xA2; U2 0xA6 0xA3;
   U2 0xA6 0xA4; U2 0xA6 0xA5; U2 0xA6 0xA6; U2 0xA6 0xA7;
   U2 0xA6 0xA8; U2 0xA6 0xA9; U2 0xA6 0xAA; U2 0xA6 0xAB;
   U2 0xA6 0xAC; U2 0xA6 0xAD; U2 0xA6 0xAE; U2 0xA6 0xAF;
   U2 0xA6 0xB0; U2 0xA6 0xB1; U2 0xA6 0xB2; U2 0xA6 0xB3;
   U2 0xA6 0xB4; U2 0xA6 0xB5; U2 0xA6 0xB6; U2 0xA6 0xB7;
   U2 0xA6 0xB8; U2 0xA6 0xB9; U2 0xA6 0xBA; U2 0xA6 0xBB;
   U2 0xA6 0xBC; U2 0xA6 0xBD; U2 0xA6 0xBE; U2 0xA6 0xBF].

Definition PLANE_3_E2_A7 : Plane2Bytes :=
  [U2 0xA7 0x80; U2 0xA7 0x81; U2 0xA7 0x82; U2 0xA7 0x83;
   U2 0xA7 0x84; U2 0xA7 0x85; U2 0xA7 0x86; U2 0xA7 0x87;
   U2 0xA7 0x88; U2 0xA7 0x89; U2 0xA7 0x8A; U2 0xA7 0x8B;
   U2 0xA7 0x8C; U2 0xA7 0x8D; U2 0xA7 0x8E; U2 0xA7 0x8F;
   U2 0xA7 0x90; U2 0xA7 0x91; U2 0xA7 0x92; U2 0xA7 0x93;
   U2 0xA7 0x94; U2 0xA7 0x95; U2 0xA7 0x96; U2 0xA7 0x97;
   U2 0xA7 0x98; U2 0xA7 0x99; U2 0xA7 0x9A; U2 0xA7 0x9B;
   U2 0xA7 0x9C; U2 0xA7 0x9D; U2 0xA7 0x9E; U2 0xA7 0x9F;
   U2 0xA7 0xA0; U2 0xA7 0xA1; U2 0xA7 0xA2; U2 0xA7 0xA3;
   U2 0xA7 0xA4; U2 0xA7 0xA5; U2 0xA7 0xA6; U2 0xA7 0xA7;
   U2 0xA7 0xA8; U2 0xA7 0xA9; U2 0xA7 0xAA; U2 0xA7 0xAB;
   U2 0xA7 0xAC; U2 0xA7 0xAD; U2 0xA7 0xAE; U2 0xA7 0xAF;
   U2 0xA7 0xB0; U2 0xA7 0xB1; U2 0xA7 0xB2; U2 0xA7 0xB3;
   U2 0xA7 0xB4; U2 0xA7 0xB5; U2 0xA7 0xB6; U2 0xA7 0xB7;
   U2 0xA7 0xB8; U2 0xA7 0xB9; U2 0xA7 0xBA; U2 0xA7 0xBB;
   U2 0xA7 0xBC; U2 0xA7 0xBD; U2 0xA7 0xBE; U2 0xA7 0xBF].

Definition PLANE_3_E2_A8 : Plane2Bytes :=
  [U2 0xA8 0x80; U2 0xA8 0x81; U2 0xA8 0x82; U2 0xA8 0x83;
   U2 0xA8 0x84; U2 0xA8 0x85; U2 0xA8 0x86; U2 0xA8 0x87;
   U2 0xA8 0x88; U2 0xA8 0x89; U2 0xA8 0x8A; U2 0xA8 0x8B;
   U2 0xA8 0x8C; U2 0xA8 0x8D; U2 0xA8 0x8E; U2 0xA8 0x8F;
   U2 0xA8 0x90; U2 0xA8 0x91; U2 0xA8 0x92; U2 0xA8 0x93;
   U2 0xA8 0x94; U2 0xA8 0x95; U2 0xA8 0x96; U2 0xA8 0x97;
   U2 0xA8 0x98; U2 0xA8 0x99; U2 0xA8 0x9A; U2 0xA8 0x9B;
   U2 0xA8 0x9C; U2 0xA8 0x9D; U2 0xA8 0x9E; U2 0xA8 0x9F;
   U2 0xA8 0xA0; U2 0xA8 0xA1; U2 0xA8 0xA2; U2 0xA8 0xA3;
   U2 0xA8 0xA4; U2 0xA8 0xA5; U2 0xA8 0xA6; U2 0xA8 0xA7;
   U2 0xA8 0xA8; U2 0xA8 0xA9; U2 0xA8 0xAA; U2 0xA8 0xAB;
   U2 0xA8 0xAC; U2 0xA8 0xAD; U2 0xA8 0xAE; U2 0xA8 0xAF;
   U2 0xA8 0xB0; U2 0xA8 0xB1; U2 0xA8 0xB2; U2 0xA8 0xB3;
   U2 0xA8 0xB4; U2 0xA8 0xB5; U2 0xA8 0xB6; U2 0xA8 0xB7;
   U2 0xA8 0xB8; U2 0xA8 0xB9; U2 0xA8 0xBA; U2 0xA8 0xBB;
   U2 0xA8 0xBC; U2 0xA8 0xBD; U2 0xA8 0xBE; U2 0xA8 0xBF].

Definition PLANE_3_E2_A9 : Plane2Bytes :=
  [U2 0xA9 0x80; U2 0xA9 0x81; U2 0xA9 0x82; U2 0xA9 0x83;
   U2 0xA9 0x84; U2 0xA9 0x85; U2 0xA9 0x86; U2 0xA9 0x87;
   U2 0xA9 0x88; U2 0xA9 0x89; U2 0xA9 0x8A; U2 0xA9 0x8B;
   U2 0xA9 0x8C; U2 0xA9 0x8D; U2 0xA9 0x8E; U2 0xA9 0x8F;
   U2 0xA9 0x90; U2 0xA9 0x91; U2 0xA9 0x92; U2 0xA9 0x93;
   U2 0xA9 0x94; U2 0xA9 0x95; U2 0xA9 0x96; U2 0xA9 0x97;
   U2 0xA9 0x98; U2 0xA9 0x99; U2 0xA9 0x9A; U2 0xA9 0x9B;
   U2 0xA9 0x9C; U2 0xA9 0x9D; U2 0xA9 0x9E; U2 0xA9 0x9F;
   U2 0xA9 0xA0; U2 0xA9 0xA1; U2 0xA9 0xA2; U2 0xA9 0xA3;
   U2 0xA9 0xA4; U2 0xA9 0xA5; U2 0xA9 0xA6; U2 0xA9 0xA7;
   U2 0xA9 0xA8; U2 0xA9 0xA9; U2 0xA9 0xAA; U2 0xA9 0xAB;
   U2 0xA9 0xAC; U2 0xA9 0xAD; U2 0xA9 0xAE; U2 0xA9 0xAF;
   U2 0xA9 0xB0; U2 0xA9 0xB1; U2 0xA9 0xB2; U2 0xA9 0xB3;
   U2 0xA9 0xB4; U2 0xA9 0xB5; U2 0xA9 0xB6; U2 0xA9 0xB7;
   U2 0xA9 0xB8; U2 0xA9 0xB9; U2 0xA9 0xBA; U2 0xA9 0xBB;
   U2 0xA9 0xBC; U2 0xA9 0xBD; U2 0xA9 0xBE; U2 0xA9 0xBF].

Definition PLANE_3_E2_AA : Plane2Bytes :=
  [U2 0xAA 0x80; U2 0xAA 0x81; U2 0xAA 0x82; U2 0xAA 0x83;
   U2 0xAA 0x84; U2 0xAA 0x85; U2 0xAA 0x86; U2 0xAA 0x87;
   U2 0xAA 0x88; U2 0xAA 0x89; U2 0xAA 0x8A; U2 0xAA 0x8B;
   U2 0xAA 0x8C; U2 0xAA 0x8D; U2 0xAA 0x8E; U2 0xAA 0x8F;
   U2 0xAA 0x90; U2 0xAA 0x91; U2 0xAA 0x92; U2 0xAA 0x93;
   U2 0xAA 0x94; U2 0xAA 0x95; U2 0xAA 0x96; U2 0xAA 0x97;
   U2 0xAA 0x98; U2 0xAA 0x99; U2 0xAA 0x9A; U2 0xAA 0x9B;
   U2 0xAA 0x9C; U2 0xAA 0x9D; U2 0xAA 0x9E; U2 0xAA 0x9F;
   U2 0xAA 0xA0; U2 0xAA 0xA1; U2 0xAA 0xA2; U2 0xAA 0xA3;
   U2 0xAA 0xA4; U2 0xAA 0xA5; U2 0xAA 0xA6; U2 0xAA 0xA7;
   U2 0xAA 0xA8; U2 0xAA 0xA9; U2 0xAA 0xAA; U2 0xAA 0xAB;
   U2 0xAA 0xAC; U2 0xAA 0xAD; U2 0xAA 0xAE; U2 0xAA 0xAF;
   U2 0xAA 0xB0; U2 0xAA 0xB1; U2 0xAA 0xB2; U2 0xAA 0xB3;
   U2 0xAA 0xB4; U2 0xAA 0xB5; U2 0xAA 0xB6; U2 0xAA 0xB7;
   U2 0xAA 0xB8; U2 0xAA 0xB9; U2 0xAA 0xBA; U2 0xAA 0xBB;
   U2 0xAA 0xBC; U2 0xAA 0xBD; U2 0xAA 0xBE; U2 0xAA 0xBF].

Definition PLANE_3_E2_AB : Plane2Bytes :=
  [U2 0xAB 0x80; U2 0xAB 0x81; U2 0xAB 0x82; U2 0xAB 0x83;
   U2 0xAB 0x84; U2 0xAB 0x85; U2 0xAB 0x86; U2 0xAB 0x87;
   U2 0xAB 0x88; U2 0xAB 0x89; U2 0xAB 0x8A; U2 0xAB 0x8B;
   U2 0xAB 0x8C; U2 0xAB 0x8D; U2 0xAB 0x8E; U2 0xAB 0x8F;
   U2 0xAB 0x90; U2 0xAB 0x91; U2 0xAB 0x92; U2 0xAB 0x93;
   U2 0xAB 0x94; U2 0xAB 0x95; U2 0xAB 0x96; U2 0xAB 0x97;
   U2 0xAB 0x98; U2 0xAB 0x99; U2 0xAB 0x9A; U2 0xAB 0x9B;
   U2 0xAB 0x9C; U2 0xAB 0x9D; U2 0xAB 0x9E; U2 0xAB 0x9F;
   U2 0xAB 0xA0; U2 0xAB 0xA1; U2 0xAB 0xA2; U2 0xAB 0xA3;
   U2 0xAB 0xA4; U2 0xAB 0xA5; U2 0xAB 0xA6; U2 0xAB 0xA7;
   U2 0xAB 0xA8; U2 0xAB 0xA9; U2 0xAB 0xAA; U2 0xAB 0xAB;
   U2 0xAB 0xAC; U2 0xAB 0xAD; U2 0xAB 0xAE; U2 0xAB 0xAF;
   U2 0xAB 0xB0; U2 0xAB 0xB1; U2 0xAB 0xB2; U2 0xAB 0xB3;
   U2 0xAB 0xB4; U2 0xAB 0xB5; U2 0xAB 0xB6; U2 0xAB 0xB7;
   U2 0xAB 0xB8; U2 0xAB 0xB9; U2 0xAB 0xBA; U2 0xAB 0xBB;
   U2 0xAB 0xBC; U2 0xAB 0xBD; U2 0xAB 0xBE; U2 0xAB 0xBF].

Definition PLANE_3_E2_AC : Plane2Bytes :=
  [U2 0xAC 0x80; U2 0xAC 0x81; U2 0xAC 0x82; U2 0xAC 0x83;
   U2 0xAC 0x84; U2 0xAC 0x85; U2 0xAC 0x86; U2 0xAC 0x87;
   U2 0xAC 0x88; U2 0xAC 0x89; U2 0xAC 0x8A; U2 0xAC 0x8B;
   U2 0xAC 0x8C; U2 0xAC 0x8D; U2 0xAC 0x8E; U2 0xAC 0x8F;
   U2 0xAC 0x90; U2 0xAC 0x91; U2 0xAC 0x92; U2 0xAC 0x93;
   U2 0xAC 0x94; U2 0xAC 0x95; U2 0xAC 0x96; U2 0xAC 0x97;
   U2 0xAC 0x98; U2 0xAC 0x99; U2 0xAC 0x9A; U2 0xAC 0x9B;
   U2 0xAC 0x9C; U2 0xAC 0x9D; U2 0xAC 0x9E; U2 0xAC 0x9F;
   U2 0xAC 0xA0; U2 0xAC 0xA1; U2 0xAC 0xA2; U2 0xAC 0xA3;
   U2 0xAC 0xA4; U2 0xAC 0xA5; U2 0xAC 0xA6; U2 0xAC 0xA7;
   U2 0xAC 0xA8; U2 0xAC 0xA9; U2 0xAC 0xAA; U2 0xAC 0xAB;
   U2 0xAC 0xAC; U2 0xAC 0xAD; U2 0xAC 0xAE; U2 0xAC 0xAF;
   U2 0xAC 0xB0; U2 0xAC 0xB1; U2 0xAC 0xB2; U2 0xAC 0xB3;
   U2 0xAC 0xB4; U2 0xAC 0xB5; U2 0xAC 0xB6; U2 0xAC 0xB7;
   U2 0xAC 0xB8; U2 0xAC 0xB9; U2 0xAC 0xBA; U2 0xAC 0xBB;
   U2 0xAC 0xBC; U2 0xAC 0xBD; U2 0xAC 0xBE; U2 0xAC 0xBF].

Definition PLANE_3_E2_AD : Plane2Bytes :=
  [U2 0xAD 0x80; U2 0xAD 0x81; U2 0xAD 0x82; U2 0xAD 0x83;
   U2 0xAD 0x84; U2 0xAD 0x85; U2 0xAD 0x86; U2 0xAD 0x87;
   U2 0xAD 0x88; U2 0xAD 0x89; U2 0xAD 0x8A; U2 0xAD 0x8B;
   U2 0xAD 0x8C; U2 0xAD 0x8D; U2 0xAD 0x8E; U2 0xAD 0x8F;
   U2 0xAD 0x90; U2 0xAD 0x91; U2 0xAD 0x92; U2 0xAD 0x93;
   U2 0xAD 0x94; U2 0xAD 0x95; U2 0xAD 0x96; U2 0xAD 0x97;
   U2 0xAD 0x98; U2 0xAD 0x99; U2 0xAD 0x9A; U2 0xAD 0x9B;
   U2 0xAD 0x9C; U2 0xAD 0x9D; U2 0xAD 0x9E; U2 0xAD 0x9F;
   U2 0xAD 0xA0; U2 0xAD 0xA1; U2 0xAD 0xA2; U2 0xAD 0xA3;
   U2 0xAD 0xA4; U2 0xAD 0xA5; U2 0xAD 0xA6; U2 0xAD 0xA7;
   U2 0xAD 0xA8; U2 0xAD 0xA9; U2 0xAD 0xAA; U2 0xAD 0xAB;
   U2 0xAD 0xAC; U2 0xAD 0xAD; U2 0xAD 0xAE; U2 0xAD 0xAF;
   U2 0xAD 0xB0; U2 0xAD 0xB1; U2 0xAD 0xB2; U2 0xAD 0xB3;
   U2 0xAD 0xB4; U2 0xAD 0xB5; U2 0xAD 0xB6; U2 0xAD 0xB7;
   U2 0xAD 0xB8; U2 0xAD 0xB9; U2 0xAD 0xBA; U2 0xAD 0xBB;
   U2 0xAD 0xBC; U2 0xAD 0xBD; U2 0xAD 0xBE; U2 0xAD 0xBF].

Definition PLANE_3_E2_AE : Plane2Bytes :=
  [U2 0xAE 0x80; U2 0xAE 0x81; U2 0xAE 0x82; U2 0xAE 0x83;
   U2 0xAE 0x84; U2 0xAE 0x85; U2 0xAE 0x86; U2 0xAE 0x87;
   U2 0xAE 0x88; U2 0xAE 0x89; U2 0xAE 0x8A; U2 0xAE 0x8B;
   U2 0xAE 0x8C; U2 0xAE 0x8D; U2 0xAE 0x8E; U2 0xAE 0x8F;
   U2 0xAE 0x90; U2 0xAE 0x91; U2 0xAE 0x92; U2 0xAE 0x93;
   U2 0xAE 0x94; U2 0xAE 0x95; U2 0xAE 0x96; U2 0xAE 0x97;
   U2 0xAE 0x98; U2 0xAE 0x99; U2 0xAE 0x9A; U2 0xAE 0x9B;
   U2 0xAE 0x9C; U2 0xAE 0x9D; U2 0xAE 0x9E; U2 0xAE 0x9F;
   U2 0xAE 0xA0; U2 0xAE 0xA1; U2 0xAE 0xA2; U2 0xAE 0xA3;
   U2 0xAE 0xA4; U2 0xAE 0xA5; U2 0xAE 0xA6; U2 0xAE 0xA7;
   U2 0xAE 0xA8; U2 0xAE 0xA9; U2 0xAE 0xAA; U2 0xAE 0xAB;
   U2 0xAE 0xAC; U2 0xAE 0xAD; U2 0xAE 0xAE; U2 0xAE 0xAF;
   U2 0xAE 0xB0; U2 0xAE 0xB1; U2 0xAE 0xB2; U2 0xAE 0xB3;
   U2 0xAE 0xB4; U2 0xAE 0xB5; U2 0xAE 0xB6; U2 0xAE 0xB7;
   U2 0xAE 0xB8; U2 0xAE 0xB9; U2 0xAE 0xBA; U2 0xAE 0xBB;
   U2 0xAE 0xBC; U2 0xAE 0xBD; U2 0xAE 0xBE; U2 0xAE 0xBF].

Definition PLANE_3_E2_AF : Plane2Bytes :=
  [U2 0xAF 0x80; U2 0xAF 0x81; U2 0xAF 0x82; U2 0xAF 0x83;
   U2 0xAF 0x84; U2 0xAF 0x85; U2 0xAF 0x86; U2 0xAF 0x87;
   U2 0xAF 0x88; U2 0xAF 0x89; U2 0xAF 0x8A; U2 0xAF 0x8B;
   U2 0xAF 0x8C; U2 0xAF 0x8D; U2 0xAF 0x8E; U2 0xAF 0x8F;
   U2 0xAF 0x90; U2 0xAF 0x91; U2 0xAF 0x92; U2 0xAF 0x93;
   U2 0xAF 0x94; U2 0xAF 0x95; U2 0xAF 0x96; U2 0xAF 0x97;
   U2 0xAF 0x98; U2 0xAF 0x99; U2 0xAF 0x9A; U2 0xAF 0x9B;
   U2 0xAF 0x9C; U2 0xAF 0x9D; U2 0xAF 0x9E; U2 0xAF 0x9F;
   U2 0xAF 0xA0; U2 0xAF 0xA1; U2 0xAF 0xA2; U2 0xAF 0xA3;
   U2 0xAF 0xA4; U2 0xAF 0xA5; U2 0xAF 0xA6; U2 0xAF 0xA7;
   U2 0xAF 0xA8; U2 0xAF 0xA9; U2 0xAF 0xAA; U2 0xAF 0xAB;
   U2 0xAF 0xAC; U2 0xAF 0xAD; U2 0xAF 0xAE; U2 0xAF 0xAF;
   U2 0xAF 0xB0; U2 0xAF 0xB1; U2 0xAF 0xB2; U2 0xAF 0xB3;
   U2 0xAF 0xB4; U2 0xAF 0xB5; U2 0xAF 0xB6; U2 0xAF 0xB7;
   U2 0xAF 0xB8; U2 0xAF 0xB9; U2 0xAF 0xBA; U2 0xAF 0xBB;
   U2 0xAF 0xBC; U2 0xAF 0xBD; U2 0xAF 0xBE; U2 0xAF 0xBF].

Definition PLANE_3_E2_B0 : Plane2Bytes :=
  [U2 0xB0 0xB0; U2 0xB0 0xB1; U2 0xB0 0xB2; U2 0xB0 0xB3;
   U2 0xB0 0xB4; U2 0xB0 0xB5; U2 0xB0 0xB6; U2 0xB0 0xB7;
   U2 0xB0 0xB8; U2 0xB0 0xB9; U2 0xB0 0xBA; U2 0xB0 0xBB;
   U2 0xB0 0xBC; U2 0xB0 0xBD; U2 0xB0 0xBE; U2 0xB0 0xBF;
   U2 0xB1 0x80; U2 0xB1 0x81; U2 0xB1 0x82; U2 0xB1 0x83;
   U2 0xB1 0x84; U2 0xB1 0x85; U2 0xB1 0x86; U2 0xB1 0x87;
   U2 0xB1 0x88; U2 0xB1 0x89; U2 0xB1 0x8A; U2 0xB1 0x8B;
   U2 0xB1 0x8C; U2 0xB1 0x8D; U2 0xB1 0x8E; U2 0xB1 0x8F;
   U2 0xB1 0x90; U2 0xB1 0x91; U2 0xB1 0x92; U2 0xB1 0x93;
   U2 0xB1 0x94; U2 0xB1 0x95; U2 0xB1 0x96; U2 0xB1 0x97;
   U2 0xB1 0x98; U2 0xB1 0x99; U2 0xB1 0x9A; U2 0xB1 0x9B;
   U2 0xB1 0x9C; U2 0xB1 0x9D; U2 0xB1 0x9E; U2 0xB0 0xAF;
   U2 0xB0 0xB0; U2 0xB0 0xB1; U2 0xB0 0xB2; U2 0xB0 0xB3;
   U2 0xB0 0xB4; U2 0xB0 0xB5; U2 0xB0 0xB6; U2 0xB0 0xB7;
   U2 0xB0 0xB8; U2 0xB0 0xB9; U2 0xB0 0xBA; U2 0xB0 0xBB;
   U2 0xB0 0xBC; U2 0xB0 0xBD; U2 0xB0 0xBE; U2 0xB0 0xBF].

Definition PLANE_3_E2_B1 : Plane2Bytes :=
  [U2 0xB1 0x80; U2 0xB1 0x81; U2 0xB1 0x82; U2 0xB1 0x83;
   U2 0xB1 0x84; U2 0xB1 0x85; U2 0xB1 0x86; U2 0xB1 0x87;
   U2 0xB1 0x88; U2 0xB1 0x89; U2 0xB1 0x8A; U2 0xB1 0x8B;
   U2 0xB1 0x8C; U2 0xB1 0x8D; U2 0xB1 0x8E; U2 0xB1 0x8F;
   U2 0xB1 0x90; U2 0xB1 0x91; U2 0xB1 0x92; U2 0xB1 0x93;
   U2 0xB1 0x94; U2 0xB1 0x95; U2 0xB1 0x96; U2 0xB1 0x97;
   U2 0xB1 0x98; U2 0xB1 0x99; U2 0xB1 0x9A; U2 0xB1 0x9B;
   U2 0xB1 0x9C; U2 0xB1 0x9D; U2 0xB1 0x9E; U2 0xB1 0x9F;
   U2 0xB1 0xA1; U2 0xB1 0xA1; U2 0x00 0x00; U2 0x00 0x00;
   U2 0x00 0x00; U2 0xB1 0xA5; U2 0xB1 0xA6; U2 0xB1 0xA8;
   U2 0xB1 0xA8; U2 0xB1 0xAA; U2 0xB1 0xAA; U2 0xB1 0xAC;
   U2 0xB1 0xAC; U2 0x00 0x00; U2 0x00 0x00; U2 0x00 0x00;
   U2 0x00 0x00; U2 0xB1 0xB1; U2 0xB1 0xB3; U2 0xB1 0xB3;
   U2 0xB1 0xB4; U2 0xB1 0xB6; U2 0xB1 0xB6; U2 0xB1 0xB7;
   U2 0xB1 0xB8; U2 0xB1 0xB9; U2 0xB1 0xBA; U2 0xB1 0xBB;
   U2 0xB1 0xBC; U2 0xB1 0xBD; U2 0x00 0x00; U2 0x00 0x00].

Definition PLANE_3_E2_B2 : Plane2Bytes :=
  [U2 0xB2 0x81; U2 0xB2 0x81; U2 0xB2 0x83; U2 0xB2 0x83;
   U2 0xB2 0x85; U2 0xB2 0x85; U2 0xB2 0x87; U2 0xB2 0x87;
   U2 0xB2 0x89; U2 0xB2 0x89; U2 0xB2 0x8B; U2 0xB2 0x8B;
   U2 0xB2 0x8D; U2 0xB2 0x8D; U2 0xB2 0x8F; U2 0xB2 0x8F;
   U2 0xB2 0x91; U2 0xB2 0x91; U2 0xB2 0x93; U2 0xB2 0x93;
   U2 0xB2 0x95; U2 0xB2 0x95; U2 0xB2 0x97; U2 0xB2 0x97;
   U2 0xB2 0x99; U2 0xB2 0x99; U2 0xB2 0x9B; U2 0xB2 0x9B;
   U2 0xB2 0x9D; U2 0xB2 0x9D; U2 0xB2 0x9F; U2 0xB2 0x9F;
   U2 0xB2 0xA1; U2 0xB2 0xA1; U2 0xB2 0xA3; U2 0xB2 0xA3;
   U2 0xB2 0xA5; U2 0xB2 0xA5; U2 0xB2 0xA7; U2 0xB2 0xA7;
   U2 0xB2 0xA9; U2 0xB2 0xA9; U2 0xB2 0xAB; U2 0xB2 0xAB;
   U2 0xB2 0xAD; U2 0xB2 0xAD; U2 0xB2 0xAF; U2 0xB2 0xAF;
   U2 0xB2 0xB1; U2 0xB2 0xB1; U2 0xB2 0xB3; U2 0xB2 0xB3;
   U2 0xB2 0xB5; U2 0xB2 0xB5; U2 0xB2 0xB7; U2 0xB2 0xB7;
   U2 0xB2 0xB9; U2 0xB2 0xB9; U2 0xB2 0xBB; U2 0xB2 0xBB;
   U2 0xB2 0xBD; U2 0xB2 0xBD; U2 0xB2 0xBF; U2 0xB2 0xBF].

Definition PLANE_3_E2_B3 : Plane2Bytes :=
  [U2 0xB3 0x81; U2 0xB3 0x81; U2 0xB3 0x83; U2 0xB3 0x83;
   U2 0xB3 0x85; U2 0xB3 0x85; U2 0xB3 0x87; U2 0xB3 0x87;
   U2 0xB3 0x89; U2 0xB3 0x89; U2 0xB3 0x8B; U2 0xB3 0x8B;
   U2 0xB3 0x8D; U2 0xB3 0x8D; U2 0xB3 0x8F; U2 0xB3 0x8F;
   U2 0xB3 0x91; U2 0xB3 0x91; U2 0xB3 0x93; U2 0xB3 0x93;
   U2 0xB3 0x95; U2 0xB3 0x95; U2 0xB3 0x97; U2 0xB3 0x97;
   U2 0xB3 0x99; U2 0xB3 0x99; U2 0xB3 0x9B; U2 0xB3 0x9B;
   U2 0xB3 0x9D; U2 0xB3 0x9D; U2 0xB3 0x9F; U2 0xB3 0x9F;
   U2 0xB3 0xA1; U2 0xB3 0xA1; U2 0xB3 0xA3; U2 0xB3 0xA3;
   U2 0xB3 0xA4; U2 0xB3 0xA5; U2 0xB3 0xA6; U2 0xB3 0xA7;
   U2 0xB3 0xA8; U2 0xB3 0xA9; U2 0xB3 0xAA; U2 0xB3 0xAC;
   U2 0xB3 0xAC; U2 0xB3 0xAE; U2 0xB3 0xAE; U2 0xB3 0xAF;
   U2 0xB3 0xB0; U2 0xB3 0xB1; U2 0xB3 0xB3; U2 0xB3 0xB3;
   U2 0xB3 0xB4; U2 0xB3 0xB5; U2 0xB3 0xB6; U2 0xB3 0xB7;
   U2 0xB3 0xB8; U2 0xB3 0xB9; U2 0xB3 0xBA; U2 0xB3 0xBB;
   U2 0xB3 0xBC; U2 0xB3 0xBD; U2 0xB3 0xBE; U2 0xB3 0xBF].

Definition PLANE_3_E2_B4 : Plane2Bytes :=
  [U2 0xB4 0x80; U2 0xB4 0x81; U2 0xB4 0x82; U2 0xB4 0x83;
   U2 0xB4 0x84; U2 0xB4 0x85; U2 0xB4 0x86; U2 0xB4 0x87;
   U2 0xB4 0x88; U2 0xB4 0x89; U2 0xB4 0x8A; U2 0xB4 0x8B;
   U2 0xB4 0x8C; U2 0xB4 0x8D; U2 0xB4 0x8E; U2 0xB4 0x8F;
   U2 0xB4 0x90; U2 0xB4 0x91; U2 0xB4 0x92; U2 0xB4 0x93;
   U2 0xB4 0x94; U2 0xB4 0x95; U2 0xB4 0x96; U2 0xB4 0x97;
   U2 0xB4 0x98; U2 0xB4 0x99; U2 0xB4 0x9A; U2 0xB4 0x9B;
   U2 0xB4 0x9C; U2 0xB4 0x9D; U2 0xB4 0x9E; U2 0xB4 0x9F;
   U2 0xB4 0xA0; U2 0xB4 0xA1; U2 0xB4 0xA2; U2 0xB4 0xA3;
   U2 0xB4 0xA4; U2 0xB4 0xA5; U2 0xB4 0xA6; U2 0xB4 0xA7;
   U2 0xB4 0xA8; U2 0xB4 0xA9; U2 0xB4 0xAA; U2 0xB4 0xAB;
   U2 0xB4 0xAC; U2 0xB4 0xAD; U2 0xB4 0xAE; U2 0xB4 0xAF;
   U2 0xB4 0xB0; U2 0xB4 0xB1; U2 0xB4 0xB2; U2 0xB4 0xB3;
   U2 0xB4 0xB4; U2 0xB4 0xB5; U2 0xB4 0xB6; U2 0xB4 0xB7;
   U2 0xB4 0xB8; U2 0xB4 0xB9; U2 0xB4 0xBA; U2 0xB4 0xBB;
   U2 0xB4 0xBC; U2 0xB4 0xBD; U2 0xB4 0xBE; U2 0xB4 0xBF].

Definition PLANE_3_E2_B5 : Plane2Bytes :=
  [U2 0xB5 0x80; U2 0xB5 0x81; U2 0xB5 0x82; U2 0xB5 0x83;
   U2 0xB5 0x84; U2 0xB5 0x85; U2 0xB5 0x86; U2 0xB5 0x87;
   U2 0xB5 0x88; U2 0xB5 0x89; U2 0xB5 0x8A; U2 0xB5 0x8B;
   U2 0xB5 0x8C; U2 0xB5 0x8D; U2 0xB5 0x8E; U2 0xB5 0x8F;
   U2 0xB5 0x90; U2 0xB5 0x91; U2 0xB5 0x92; U2 0xB5 0x93;
   U2 0xB5 0x94; U2 0xB5 0x95; U2 0xB5 0x96; U2 0xB5 0x97;
   U2 0xB5 0x98; U2 0xB5 0x99; U2 0xB5 0x9A; U2 0xB5 0x9B;
   U2 0xB5 0x9C; U2 0xB5 0x9D; U2 0xB5 0x9E; U2 0xB5 0x9F;
   U2 0xB5 0xA0; U2 0xB5 0xA1; U2 0xB5 0xA2; U2 0xB5 0xA3;
   U2 0xB5 0xA4; U2 0xB5 0xA5; U2 0xB5 0xA6; U2 0xB5 0xA7;
   U2 0xB5 0xA8; U2 0xB5 0xA9; U2 0xB5 0xAA; U2 0xB5 0xAB;
   U2 0xB5 0xAC; U2 0xB5 0xAD; U2 0xB5 0xAE; U2 0xB5 0xAF;
   U2 0xB5 0xB0; U2 0xB5 0xB1; U2 0xB5 0xB2; U2 0xB5 0xB3;
   U2 0xB5 0xB4; U2 0xB5 0xB5; U2 0xB5 0xB6; U2 0xB5 0xB7;
   U2 0xB5 0xB8; U2 0xB5 0xB9; U2 0xB5 0xBA; U2 0xB5 0xBB;
   U2 0xB5 0xBC; U2 0xB5 0xBD; U2 0xB5 0xBE; U2 0xB5 0xBF].

Definition PLANE_3_E2_B6 : Plane2Bytes :=
  [U2 0xB6 0x80; U2 0xB6 0x81; U2 0xB6 0x82; U2 0xB6 0x83;
   U2 0xB6 0x84; U2 0xB6 0x85; U2 0xB6 0x86; U2 0xB6 0x87;
   U2 0xB6 0x88; U2 0xB6 0x89; U2 0xB6 0x8A; U2 0xB6 0x8B;
   U2 0xB6 0x8C; U2 0xB6 0x8D; U2 0xB6 0x8E; U2 0xB6 0x8F;
   U2 0xB6 0x90; U2 0xB6 0x91; U2 0xB6 0x92; U2 0xB6 0x93;
   U2 0xB6 0x94; U2 0xB6 0x95; U2 0xB6 0x96; U2 0xB6 0x97;
   U2 0xB6 0x98; U2 0xB6 0x99; U2 0xB6 0x9A; U2 0xB6 0x9B;
   U2 0xB6 0x9C; U2 0xB6 0x9D; U2 0xB6 0x9E; U2 0xB6 0x9F;
   U2 0xB6 0xA0; U2 0xB6 0xA1; U2 0xB6 0xA2; U2 0xB6 0xA3;
   U2 0xB6 0xA4; U2 0xB6 0xA5; U2 0xB6 0xA6; U2 0xB6 0xA7;
   U2 0xB6 0xA8; U2 0xB6 0xA9; U2 0xB6 0xAA; U2 0xB6 0xAB;
   U2 0xB6 0xAC; U2 0xB6 0xAD; U2 0xB6 0xAE; U2 0xB6 0xAF;
   U2 0xB6 0xB0; U2 0xB6 0xB1; U2 0xB6 0xB2; U2 0xB6 0xB3;
   U2 0xB6 0xB4; U2 0xB6 0xB5; U2 0xB6 0xB6; U2 0xB6 0xB7;
   U2 0xB6 0xB8; U2 0xB6 0xB9; U2 0xB6 0xBA; U2 0xB6 0xBB;
   U2 0xB6 0xBC; U2 0xB6 0xBD; U2 0xB6 0xBE; U2 0xB6 0xBF].

Definition PLANE_3_E2_B7 : Plane2Bytes :=
  [U2 0xB7 0x80; U2 0xB7 0x81; U2 0xB7 0x82; U2 0xB7 0x83;
   U2 0xB7 0x84; U2 0xB7 0x85; U2 0xB7 0x86; U2 0xB7 0x87;
   U2 0xB7 0x88; U2 0xB7 0x89; U2 0xB7 0x8A; U2 0xB7 0x8B;
   U2 0xB7 0x8C; U2 0xB7 0x8D; U2 0xB7 0x8E; U2 0xB7 0x8F;
   U2 0xB7 0x90; U2 0xB7 0x91; U2 0xB7 0x92; U2 0xB7 0x93;
   U2 0xB7 0x94; U2 0xB7 0x95; U2 0xB7 0x96; U2 0xB7 0x97;
   U2 0xB7 0x98; U2 0xB7 0x99; U2 0xB7 0x9A; U2 0xB7 0x9B;
   U2 0xB7 0x9C; U2 0xB7 0x9D; U2 0xB7 0x9E; U2 0xB7 0x9F;
   U2 0xB7 0xA0; U2 0xB7 0xA1; U2 0xB7 0xA2; U2 0xB7 0xA3;
   U2 0xB7 0xA4; U2 0xB7 0xA5; U2 0xB7 0xA6; U2 0xB7 0xA7;
   U2 0xB7 0xA8; U2 0xB7 0xA9; U2 0xB7 0xAA; U2 0xB7 0xAB;
   U2 0xB7 0xAC; U2 0xB7 0xAD; U2 0xB7 0xAE; U2 0xB7 0xAF;
   U2 0xB7 0xB0; U2 0xB7 0xB1; U2 0xB7 0xB2; U2 0xB7 0xB3;
   U2 0xB7 0xB4; U2 0xB7 0xB5; U2 0xB7 0xB6; U2 0xB7 0xB7;
   U2 0xB7 0xB8; U2 0xB7 0xB9; U2 0xB7 0xBA; U2 0xB7 0xBB;
   U2 0xB7 0xBC; U2 0xB7 0xBD; U2 0xB7 0xBE; U2 0xB7 0xBF].

Definition PLANE_3_E2_B8 : Plane2Bytes :=
  [U2 0xB8 0x80; U2 0xB8 0x81; U2 0xB8 0x82; U2 0xB8 0x83;
   U2 0xB8 0x84; U2 0xB8 0x85; U2 0xB8 0x86; U2 0xB8 0x87;
   U2 0xB8 0x88; U2 0xB8 0x89; U2 0xB8 0x8A; U2 0xB8 0x8B;
   U2 0xB8 0x8C; U2 0xB8 0x8D; U2 0xB8 0x8E; U2 0xB8 0x8F;
   U2 0xB8 0x90; U2 0xB8 0x91; U2 0xB8 0x92; U2 0xB8 0x93;
   U2 0xB8 0x94; U2 0xB8 0x95; U2 0xB8 0x96; U2 0xB8 0x97;
   U2 0xB8 0x98; U2 0xB8 0x99; U2 0xB8 0x9A; U2 0xB8 0x9B;
   U2 0xB8 0x9C; U2 0xB8 0x9D; U2 0xB8 0x9E; U2 0xB8 0x9F;
   U2 0xB8 0xA0; U2 0xB8 0xA1; U2 0xB8 0xA2; U2 0xB8 0xA3;
   U2 0xB8 0xA4; U2 0xB8 0xA5; U2 0xB8 0xA6; U2 0xB8 0xA7;
   U2 0xB8 0xA8; U2 0xB8 0xA9; U2 0xB8 0xAA; U2 0xB8 0xAB;
   U2 0xB8 0xAC; U2 0xB8 0xAD; U2 0xB8 0xAE; U2 0xB8 0xAF;
   U2 0xB8 0xB0; U2 0xB8 0xB1; U2 0xB8 0xB2; U2 0xB8 0xB3;
   U2 0xB8 0xB4; U2 0xB8 0xB5; U2 0xB8 0xB6; U2 0xB8 0xB7;
   U2 0xB8 0xB8; U2 0xB8 0xB9; U2 0xB8 0xBA; U2 0xB8 0xBB;
   U2 0xB8 0xBC; U2 0xB8 0xBD; U2 0xB8 0xBE; U2 0xB8 0xBF].

Definition PLANE_3_E2_B9 : Plane2Bytes :=
  [U2 0xB9 0x80; U2 0xB9 0x81; U2 0xB9 0x82; U2 0xB9 0x83;
   U2 0xB9 0x84; U2 0xB9 0x85; U2 0xB9 0x86; U2 0xB9 0x87;
   U2 0xB9 0x88; U2 0xB9 0x89; U2 0xB9 0x8A; U2 0xB9 0x8B;
   U2 0xB9 0x8C; U2 0xB9 0x8D; U2 0xB9 0x8E; U2 0xB9 0x8F;
   U2 0xB9 0x90; U2 0xB9 0x91; U2 0xB9 0x92; U2 0xB9 0x93;
   U2 0xB9 0x94; U2 0xB9 0x95; U2 0xB9 0x96; U2 0xB9 0x97;
   U2 0xB9 0x98; U2 0xB9 0x99; U2 0xB9 0x9A; U2 0xB9 0x9B;
   U2 0xB9 0x9C; U2 0xB9 0x9D; U2 0xB9 0x9E; U2 0xB9 0x9F;
   U2 0xB9 0xA0; U2 0xB9 0xA1; U2 0xB9 0xA2; U2 0xB9 0xA3;
   U2 0xB9 0xA4; U2 0xB9 0xA5; U2 0xB9 0xA6; U2 0xB9 0xA7;
   U2 0xB9 0xA8; U2 0xB9 0xA9; U2 0xB9 0xAA; U2 0xB9 0xAB;
   U2 0xB9 0xAC; U2 0xB9 0xAD; U2 0xB9 0xAE; U2 0xB9 0xAF;
   U2 0xB9 0xB0; U2 0xB9 0xB1; U2 0xB9 0xB2; U2 0xB9 0xB3;
   U2 0xB9 0xB4; U2 0xB9 0xB5; U2 0xB9 0xB6; U2 0xB9 0xB7;
   U2 0xB9 0xB8; U2 0xB9 0xB9; U2 0xB9 0xBA; U2 0xB9 0xBB;
   U2 0xB9 0xBC; U2 0xB9 0xBD; U2 0xB9 0xBE; U2 0xB9 0xBF].

Definition PLANE_3_E2_BA : Plane2Bytes :=
  [U2 0xBA 0x80; U2 0xBA 0x81; U2 0xBA 0x82; U2 0xBA 0x83;
   U2 0xBA 0x84; U2 0xBA 0x85; U2 0xBA 0x86; U2 0xBA 0x87;
   U2 0xBA 0x88; U2 0xBA 0x89; U2 0xBA 0x8A; U2 0xBA 0x8B;
   U2 0xBA 0x8C; U2 0xBA 0x8D; U2 0xBA 0x8E; U2 0xBA 0x8F;
   U2 0xBA 0x90; U2 0xBA 0x91; U2 0xBA 0x92; U2 0xBA 0x93;
   U2 0xBA 0x94; U2 0xBA 0x95; U2 0xBA 0x96; U2 0xBA 0x97;
   U2 0xBA 0x98; U2 0xBA 0x99; U2 0xBA 0x9A; U2 0xBA 0x9B;
   U2 0xBA 0x9C; U2 0xBA 0x9D; U2 0xBA 0x9E; U2 0xBA 0x9F;
   U2 0xBA 0xA0; U2 0xBA 0xA1; U2 0xBA 0xA2; U2 0xBA 0xA3;
   U2 0xBA 0xA4; U2 0xBA 0xA5; U2 0xBA 0xA6; U2 0xBA 0xA7;
   U2 0xBA 0xA8; U2 0xBA 0xA9; U2 0xBA 0xAA; U2 0xBA 0xAB;
   U2 0xBA 0xAC; U2 0xBA 0xAD; U2 0xBA 0xAE; U2 0xBA 0xAF;
   U2 0xBA 0xB0; U2 0xBA 0xB1; U2 0xBA 0xB2; U2 0xBA 0xB3;
   U2 0xBA 0xB4; U2 0xBA 0xB5; U2 0xBA 0xB6; U2 0xBA 0xB7;
   U2 0xBA 0xB8; U2 0xBA 0xB9; U2 0xBA 0xBA; U2 0xBA 0xBB;
   U2 0xBA 0xBC; U2 0xBA 0xBD; U2 0xBA 0xBE; U2 0xBA 0xBF].

Definition PLANE_3_E2_BB : Plane2Bytes :=
  [U2 0xBB 0x80; U2 0xBB 0x81; U2 0xBB 0x82; U2 0xBB 0x83;
   U2 0xBB 0x84; U2 0xBB 0x85; U2 0xBB 0x86; U2 0xBB 0x87;
   U2 0xBB 0x88; U2 0xBB 0x89; U2 0xBB 0x8A; U2 0xBB 0x8B;
   U2 0xBB 0x8C; U2 0xBB 0x8D; U2 0xBB 0x8E; U2 0xBB 0x8F;
   U2 0xBB 0x90; U2 0xBB 0x91; U2 0xBB 0x92; U2 0xBB 0x93;
   U2 0xBB 0x94; U2 0xBB 0x95; U2 0xBB 0x96; U2 0xBB 0x97;
   U2 0xBB 0x98; U2 0xBB 0x99; U2 0xBB 0x9A; U2 0xBB 0x9B;
   U2 0xBB 0x9C; U2 0xBB 0x9D; U2 0xBB 0x9E; U2 0xBB 0x9F;
   U2 0xBB 0xA0; U2 0xBB 0xA1; U2 0xBB 0xA2; U2 0xBB 0xA3;
   U2 0xBB 0xA4; U2 0xBB 0xA5; U2 0xBB 0xA6; U2 0xBB 0xA7;
   U2 0xBB 0xA8; U2 0xBB 0xA9; U2 0xBB 0xAA; U2 0xBB 0xAB;
   U2 0xBB 0xAC; U2 0xBB 0xAD; U2 0xBB 0xAE; U2 0xBB 0xAF;
   U2 0xBB 0xB0; U2 0xBB 0xB1; U2 0xBB 0xB2; U2 0xBB 0xB3;
   U2 0xBB 0xB4; U2 0xBB 0xB5; U2 0xBB 0xB6; U2 0xBB 0xB7;
   U2 0xBB 0xB8; U2 0xBB 0xB9; U2 0xBB 0xBA; U2 0xBB 0xBB;
   U2 0xBB 0xBC; U2 0xBB 0xBD; U2 0xBB 0xBE; U2 0xBB 0xBF].

Definition PLANE_3_E2_BC : Plane2Bytes :=
  [U2 0xBC 0x80; U2 0xBC 0x81; U2 0xBC 0x82; U2 0xBC 0x83;
   U2 0xBC 0x84; U2 0xBC 0x85; U2 0xBC 0x86; U2 0xBC 0x87;
   U2 0xBC 0x88; U2 0xBC 0x89; U2 0xBC 0x8A; U2 0xBC 0x8B;
   U2 0xBC 0x8C; U2 0xBC 0x8D; U2 0xBC 0x8E; U2 0xBC 0x8F;
   U2 0xBC 0x90; U2 0xBC 0x91; U2 0xBC 0x92; U2 0xBC 0x93;
   U2 0xBC 0x94; U2 0xBC 0x95; U2 0xBC 0x96; U2 0xBC 0x97;
   U2 0xBC 0x98; U2 0xBC 0x99; U2 0xBC 0x9A; U2 0xBC 0x9B;
   U2 0xBC 0x9C; U2 0xBC 0x9D; U2 0xBC 0x9E; U2 0xBC 0x9F;
   U2 0xBC 0xA0; U2 0xBC 0xA1; U2 0xBC 0xA2; U2 0xBC 0xA3;
   U2 0xBC 0xA4; U2 0xBC 0xA5; U2 0xBC 0xA6; U2 0xBC 0xA7;
   U2 0xBC 0xA8; U2 0xBC 0xA9; U2 0xBC 0xAA; U2 0xBC 0xAB;
   U2 0xBC 0xAC; U2 0xBC 0xAD; U2 0xBC 0xAE; U2 0xBC 0xAF;
   U2 0xBC 0xB0; U2 0xBC 0xB1; U2 0xBC 0xB2; U2 0xBC 0xB3;
   U2 0xBC 0xB4; U2 0xBC 0xB5; U2 0xBC 0xB6; U2 0xBC 0xB7;
   U2 0xBC 0xB8; U2 0xBC 0xB9; U2 0xBC 0xBA; U2 0xBC 0xBB;
   U2 0xBC 0xBC; U2 0xBC 0xBD; U2 0xBC 0xBE; U2 0xBC 0xBF].

Definition PLANE_3_E2_BD : Plane2Bytes :=
  [U2 0xBD 0x80; U2 0xBD 0x81; U2 0xBD 0x82; U2 0xBD 0x83;
   U2 0xBD 0x84; U2 0xBD 0x85; U2 0xBD 0x86; U2 0xBD 0x87;
   U2 0xBD 0x88; U2 0xBD 0x89; U2 0xBD 0x8A; U2 0xBD 0x8B;
   U2 0xBD 0x8C; U2 0xBD 0x8D; U2 0xBD 0x8E; U2 0xBD 0x8F;
   U2 0xBD 0x90; U2 0xBD 0x91; U2 0xBD 0x92; U2 0xBD 0x93;
   U2 0xBD 0x94; U2 0xBD 0x95; U2 0xBD 0x96; U2 0xBD 0x97;
   U2 0xBD 0x98; U2 0xBD 0x99; U2 0xBD 0x9A; U2 0xBD 0x9B;
   U2 0xBD 0x9C; U2 0xBD 0x9D; U2 0xBD 0x9E; U2 0xBD 0x9F;
   U2 0xBD 0xA0; U2 0xBD 0xA1; U2 0xBD 0xA2; U2 0xBD 0xA3;
   U2 0xBD 0xA4; U2 0xBD 0xA5; U2 0xBD 0xA6; U2 0xBD 0xA7;
   U2 0xBD 0xA8; U2 0xBD 0xA9; U2 0xBD 0xAA; U2 0xBD 0xAB;
   U2 0xBD 0xAC; U2 0xBD 0xAD; U2 0xBD 0xAE; U2 0xBD 0xAF;
   U2 0xBD 0xB0; U2 0xBD 0xB1; U2 0xBD 0xB2; U2 0xBD 0xB3;
   U2 0xBD 0xB4; U2 0xBD 0xB5; U2 0xBD 0xB6; U2 0xBD 0xB7;
   U2 0xBD 0xB8; U2 0xBD 0xB9; U2 0xBD 0xBA; U2 0xBD 0xBB;
   U2 0xBD 0xBC; U2 0xBD 0xBD; U2 0xBD 0xBE; U2 0xBD 0xBF].

Definition PLANE_3_E2_BE : Plane2Bytes :=
  [U2 0xBE 0x80; U2 0xBE 0x81; U2 0xBE 0x82; U2 0xBE 0x83;
   U2 0xBE 0x84; U2 0xBE 0x85; U2 0xBE 0x86; U2 0xBE 0x87;
   U2 0xBE 0x88; U2 0xBE 0x89; U2 0xBE 0x8A; U2 0xBE 0x8B;
   U2 0xBE 0x8C; U2 0xBE 0x8D; U2 0xBE 0x8E; U2 0xBE 0x8F;
   U2 0xBE 0x90; U2 0xBE 0x91; U2 0xBE 0x92; U2 0xBE 0x93;
   U2 0xBE 0x94; U2 0xBE 0x95; U2 0xBE 0x96; U2 0xBE 0x97;
   U2 0xBE 0x98; U2 0xBE 0x99; U2 0xBE 0x9A; U2 0xBE 0x9B;
   U2 0xBE 0x9C; U2 0xBE 0x9D; U2 0xBE 0x9E; U2 0xBE 0x9F;
   U2 0xBE 0xA0; U2 0xBE 0xA1; U2 0xBE 0xA2; U2 0xBE 0xA3;
   U2 0xBE 0xA4; U2 0xBE 0xA5; U2 0xBE 0xA6; U2 0xBE 0xA7;
   U2 0xBE 0xA8; U2 0xBE 0xA9; U2 0xBE 0xAA; U2 0xBE 0xAB;
   U2 0xBE 0xAC; U2 0xBE 0xAD; U2 0xBE 0xAE; U2 0xBE 0xAF;
   U2 0xBE 0xB0; U2 0xBE 0xB1; U2 0xBE 0xB2; U2 0xBE 0xB3;
   U2 0xBE 0xB4; U2 0xBE 0xB5; U2 0xBE 0xB6; U2 0xBE 0xB7;
   U2 0xBE 0xB8; U2 0xBE 0xB9; U2 0xBE 0xBA; U2 0xBE 0xBB;
   U2 0xBE 0xBC; U2 0xBE 0xBD; U2 0xBE 0xBE; U2 0xBE 0xBF].

Definition PLANE_3_E2_BF : Plane2Bytes :=
  [U2 0xBF 0x80; U2 0xBF 0x81; U2 0xBF 0x82; U2 0xBF 0x83;
   U2 0xBF 0x84; U2 0xBF 0x85; U2 0xBF 0x86; U2 0xBF 0x87;
   U2 0xBF 0x88; U2 0xBF 0x89; U2 0xBF 0x8A; U2 0xBF 0x8B;
   U2 0xBF 0x8C; U2 0xBF 0x8D; U2 0xBF 0x8E; U2 0xBF 0x8F;
   U2 0xBF 0x90; U2 0xBF 0x91; U2 0xBF 0x92; U2 0xBF 0x93;
   U2 0xBF 0x94; U2 0xBF 0x95; U2 0xBF 0x96; U2 0xBF 0x97;
   U2 0xBF 0x98; U2 0xBF 0x99; U2 0xBF 0x9A; U2 0xBF 0x9B;
   U2 0xBF 0x9C; U2 0xBF 0x9D; U2 0xBF 0x9E; U2 0xBF 0x9F;
   U2 0xBF 0xA0; U2 0xBF 0xA1; U2 0xBF 0xA2; U2 0xBF 0xA3;
   U2 0xBF 0xA4; U2 0xBF 0xA5; U2 0xBF 0xA6; U2 0xBF 0xA7;
   U2 0xBF 0xA8; U2 0xBF 0xA9; U2 0xBF 0xAA; U2 0xBF 0xAB;
   U2 0xBF 0xAC; U2 0xBF 0xAD; U2 0xBF 0xAE; U2 0xBF 0xAF;
   U2 0xBF 0xB0; U2 0xBF 0xB1; U2 0xBF 0xB2; U2 0xBF 0xB3;
   U2 0xBF 0xB4; U2 0xBF 0xB5; U2 0xBF 0xB6; U2 0xBF 0xB7;
   U2 0xBF 0xB8; U2 0xBF 0xB9; U2 0xBF 0xBA; U2 0xBF 0xBB;
   U2 0xBF 0xBC; U2 0xBF 0xBD; U2 0xBF 0xBE; U2 0xBF 0xBF].

Definition TABLE_3_E2 : list Plane2Bytes :=
  [PLANE_3_E2_80; PLANE_3_E2_81; PLANE_3_E2_82; PLANE_3_E2_83;
   PLANE_3_E2_84; PLANE_3_E2_85; PLANE_3_E2_86; PLANE_3_E2_87;
   PLANE_3_E2_88; PLANE_3_E2_89; PLANE_3_E2_8A; PLANE_3_E2_8B;
   PLANE_3_E2_8C; PLANE_3_E2_8D; PLANE_3_E2_8E; PLANE_3_E2_8F;
   PLANE_3_E2_90; PLANE_3_E2_91; PLANE_3_E2_92; PLANE_3_E2_93;
   PLANE_3_E2_94; PLANE_3_E2_95; PLANE_3_E2_96; PLANE_3_E2_97;
   PLANE_3_E2_98; PLANE_3_E2_99; PLANE_3_E2_9A; PLANE_3_E2_9B;
   PLANE_3_E2_9C; PLANE_3_E2_9D; PLANE_3_E2_9E; PLANE_3_E2_9F;
   PLANE_3_E2_A0; PLANE_3_E2_A1; PLANE_3_E2_A2; PLANE_3_E2_A3;
   PLANE_3_E2_A4; PLANE_3_E2_A5; PLANE_3_E2_A6; PLANE_3_E2_A7;
   PLANE_3_E2_A8; PLANE_3_E2_A9; PLANE_3_E2_AA; PLANE_3_E2_AB;
   PLANE_3_E2_AC; PLANE_3_E2_AD; PLANE_3_E2_AE; PLANE_3_E2_AF;
   PLANE_3_E2_B0; PLANE_3_E2_B1; PLANE_3_E2_B2; PLANE_3_E2_B3;
   PLANE_3_E2_B4; PLANE_3_E2_B5; PLANE_3_E2_B6; PLANE_3_E2_B7;
   PLANE_3_E2_B8; PLANE_3_E2_B9; PLANE_3_E2_BA; PLANE_3_E2_BB;
   PLANE_3_E2_BC; PLANE_3_E2_BD; PLANE_3_E2_BE; PLANE_3_E2_BF].

Definition TABLE_3_SP_E2 : list CodeUnit2Bytes :=
  [U2 0x00 0x00; U2 0x00 0x00; U2 0xC9 0xAB; U2 0xE1 0xB5;
   U2 0xC9 0xBD; U2 0x00 0x00; U2 0x00 0x00; U2 0x00 0x00;
   U2 0x00 0x00; U2 0x00 0x00; U2 0x00 0x00; U2 0x00 0x00;
   U2 0x00 0x00; U2 0xC9 0x91; U2 0xC9 0xB1; U2 0xC9 0x90;
   U2 0xC9 0x92; U2 0x00 0x00; U2 0x00 0x00; U2 0x00 0x00;
   U2 0x00 0x00; U2 0x00 0x00; U2 0x00 0x00; U2 0x00 0x00;
   U2 0x00 0x00; U2 0x00 0x00; U2 0x00 0x00; U2 0x00 0x00;
   U2 0x00 0x00; U2 0x00 0x00; U2 0xC8 0xBF; U2 0xC9 0x80].

Definition PLANE_3_EA_99 : Plane2Bytes :=
  [U2 0x99 0x81; U2 0x99 0x81; U2 0x99 0x83; U2 0x99 0x83;
   U2 0x99 0x85; U2 0x99 0x85; U2 0x99 0x87; U2 0x99 0x87;
   U2 0x99 0x89; U2 0x99 0x89; U2 0x99 0x8B; U2 0x99 0x8B;
   U2 0x99 0x8D; U2 0x99 0x8D; U2 0x99 0x8F; U2 0x99 0x8F;
   U2 0x99 0x91; U2 0x99 0x91; U2 0x99 0x93; U2 0x99 0x93;
   U2 0x99 0x95; U2 0x99 0x95; U2 0x99 0x97; U2 0x99 0x97;
   U2 0x99 0x99; U2 0x99 0x99; U2 0x99 0x9B; U2 0x99 0x9B;
   U2 0x99 0x9D; U2 0x99 0x9D; U2 0x99 0x9F; U2 0x99 0x9F;
   U2 0x99 0xA1; U2 0x99 0xA1; U2 0x99 0xA3; U2 0x99 0xA3;
   U2 0x99 0xA5; U2 0x99 0xA5; U2 0x99 0xA7; U2 0x99 0xA7;
   U2 0x99 0xA9; U2 0x99 0xA9; U2 0x99 0xAB; U2 0x99 0xAB;
   U2 0x99 0xAD; U2 0x99 0xAD; U2 0x99 0xAE; U2 0x99 0xAF;
   U2 0x99 0xB0; U2 0x99 0xB1; U2 0x99 0xB2; U2 0x99 0xB3;
   U2 0x99 0xB4; U2 0x99 0xB5; U2 0x99 0xB6; U2 0x99 0xB7;
   U2 0x99 0xB8; U2 0x99 0xB9; U2 0x99 0xBA; U2 0x99 0xBB;
   U2 0x99 0xBC; U2 0x99 0xBD; U2 0x99 0xBE; U2 0x99 0xBF].

Definition PLANE_3_EA_9A : Plane2Bytes :=
  [U2 0x9A 0x81; U2 0x9A 0x81; U2 0x9A 0x83; U2 0x9A 0x83;
   U2 0x9A 0x85; U2 0x9A 0x85; U2 0x9A 0x87; U2 0x9A 0x87;
   U2 0x9A 0x89; U2 0x9A 0x89; U2 0x9A 0x8B; U2 0x9A 0x8B;
   U2 0x9A 0x8D; U2 0x9A 0x8D; U2 0x9A 0x8F; U2 0x9A 0x8F;
   U2 0x9A 0x91; U2 0x9A 0x91; U2 0x9A 0x93; U2 0x9A 0x93;
   U2 0x9A 0x95; U2 0x9A 0x95; U2 0x9A 0x97; U2 0x9A 0x97;
   U2 0x9A 0x99; U2 0x9A 0x99; U2 0x9A 0x9B; U2 0x9A 0x9B;
   U2 0x9A 0x9C; U2 0x9A 0x9D; U2 0x9A 0x9E; U2 0x9A 0x9F;
   U2 0x9A 0xA0; U2 0x9A 0xA1; U2 0x9A 0xA2; U2 0x9A 0xA3;
   U2 0x9A 0xA4; U2 0x9A 0xA5; U2 0x9A 0xA6; U2 0x9A 0xA7;
   U2 0x9A 0xA8; U2 0x9A 0xA9; U2 0x9A 0xAA; U2 0x9A 0xAB;
   U2 0x9A 0xAC; U2 0x9A 0xAD; U2 0x9A 0xAE; U2 0x9A 0xAF;
   U2 0x9A 0xB0; U2 0x9A 0xB1; U2 0x9A 0xB2; U2 0x9A 0xB3;
   U2 0x9A 0xB4; U2 0x9A 0xB5; U2 0x9A 0xB6; U2 0x9A 0xB7;
   U2 0x9A 0xB8; U2 0x9A 0xB9; U2 0x9A 0xBA; U2 0x9A 0xBB;
   U2 0x9A 0xBC; U2 0x9A 0xBD; U2 0x9A 0xBE; U2 0x9A 0xBF].

Definition PLANE_3_EA_9B : Plane2Bytes :=
  [U2 0x9B 0x80; U2 0x9B 0x81; U2 0x9B 0x82; U2 0x9B 0x83;
   U2 0x9B 0x84; U2 0x9B 0x85; U2 0x9B 0x86; U2 0x9B 0x87;
   U2 0x9B 0x88; U2 0x9B 0x89; U2 0x9B 0x8A; U2 0x9B 0x8B;
   U2 0x9B 0x8C; U2 0x9B 0x8D; U2 0x9B 0x8E; U2 0x9B 0x8F;
   U2 0x9B 0x90; U2 0x9B 0x91; U2 0x9B 0x92; U2 0x9B 0x93;
   U2 0x9B 0x94; U2 0x9B 0x95; U2 0x9B 0x96; U2 0x9B 0x97;
   U2 0x9B 0x98; U2 0x9B 0x99; U2 0x9B 0x9A; U2 0x9B 0x9B;
   U2 0x9B 0x9C; U2 0x9B 0x9D; U2 0x9B 0x9E; U2 0x9B 0x9F;
   U2 0x9B 0xA0; U2 0x9B 0xA1; U2 0x9B 0xA2; U2 0x9B 0xA3;
   U2 0x9B 0xA4; U2 0x9B 0xA5; U2 0x9B 0xA6; U2 0x9B 0xA7;
   U2 0x9B 0xA8; U2 0x9B 0xA9; U2 0x9B 0xAA; U2 0x9B 0xAB;
   U2 0x9B 0xAC; U2 0x9B 0xAD; U2 0x9B 0xAE; U2 0x9B 0xAF;
   U2 0x9B 0xB0; U2 0x9B 0xB1; U2 0x9B 0xB2; U2 0x9B 0xB3;
   U2 0x9B 0xB4; U2 0x9B 0xB5; U2 0x9B 0xB6; U2 0x9B 0xB7;
   U2 0x9B 0xB8; U2 0x9B 0xB9; U2 0x9B 0xBA; U2 0x9B 0xBB;
   U2 0x9B 0xBC; U2 0x9B 0xBD; U2 0x9B 0xBE; U2 0x9B 0xBF].

Definition PLANE_3_EA_9C : Plane2Bytes :=
  [U2 0x9C 0x80; U2 0x9C 0x81; U2 0x9C 0x82; U2 0x9C 0x83;
   U2 0x9C 0x84; U2 0x9C 0x85; U2 0x9C 0x86; U2 0x9C 0x87;
   U2 0x9C 0x88; U2 0x9C 0x89; U2 0x9C 0x8A; U2 0x9C 0x8B;
   U2 0x9C 0x8C; U2 0x9C 0x8D; U2 0x9C 0x8E; U2 0x9C 0x8F;
   U2 0x9C 0x90; U2 0x9C 0x91; U2 0x9C 0x92; U2 0x9C 0x93;
   U2 0x9C 0x94; U2 0x9C 0x95; U2 0x9C 0x96; U2 0x9C 0x97;
   U2 0x9C 0x98; U2 0x9C 0x99; U2 0x9C 0x9A; U2 0x9C 0x9B;
   U2 0x9C 0x9C; U2 0x9C 0x9D; U2 0x9C 0x9E; U2 0x9C 0x9F;
   U2 0x9C 0xA0; U2 0x9C 0xA1; U2 0x9C 0xA3; U2 0x9C 0xA3;
   U2 0x9C 0xA5; U2 0x9C 0xA5; U2 0x9C 0xA7; U2 0x9C 0xA7;
   U2 0x9C 0xA9; U2 0x9C 0xA9; U2 0x9C 0xAB; U2 0x9C 0xAB;
   U2 0x9C 0xAD; U2 0x9C 0xAD; U2 0x9C 0xAF; U2 0x9C 0xAF;
   U2 0x9C 0xB0; U2 0x9C 0xB1; U2 0x9C 0xB3; U2 0x9C 0xB3;
   U2 0x9C 0xB5; U2 0x9C 0xB5; U2 0x9C 0xB7; U2 0x9C 0xB7;
   U2 0x9C 0xB9; U2 0x9C 0xB9; U2 0x9C 0xBB; U2 0x9C 0xBB;
   U2 0x9C 0xBD; U2 0x9C 0xBD; U2 0x9C 0xBF; U2 0x9C 0xBF].

Definition PLANE_3_EA_9D : Plane2Bytes :=
  [U2 0x9D 0x81; U2 0x9D 0x81; U2 0x9D 0x83; U2 0x9D 0x83;
   U2 0x9D 0x85; U2 0x9D 0x85; U2 0x9D 0x87; U2 0x9D 0x87;
   U2 0x9D 0x89; U2 0x9D 0x89; U2 0x9D 0x8B; U2 0x9D 0x8B;
   U2 0x9D 0x8D; U2 0x9D 0x8D; U2 0x9D 0x8F; U2 0x9D 0x8F;
   U2 0x9D 0x91; U2 0x9D 0x91; U2 0x9D 0x93; U2 0x9D 0x93;
   U2 0x9D 0x95; U2 0x9D 0x95; U2 0x9D 0x97; U2 0x9D 0x97;
   U2 0x9D 0x99; U2 0x9D 0x99; U2 0x9D 0x9B; U2 0x9D 0x9B;
   U2 0x9D 0x9D; U2 0x9D 0x9D; U2 0x9D 0x9F; U2 0x9D 0x9F;
   U2 0x9D 0xA1; U2 0x9D 0xA1; U2 0x9D 0xA3; U2 0x9D 0xA3;
   U2 0x9D 0xA5; U2 0x9D 0xA5; U2 0x9D 0xA7; U2 0x9D 0xA7;
   U2 0x9D 0xA9; U2 0x9D 0xA9; U2 0x9D 0xAB; U2 0x9D 0xAB;
   U2 0x9D 0xAD; U2 0x9D 0xAD; U2 0x9D 0xAF; U2 0x9D 0xAF;
   U2 0x9D 0xB0; U2 0x9D 0xB1; U2 0x9D 0xB2; U2 0x9D 0xB3;
   U2 0x9D 0xB4; U2 0x9D 0xB5; U2 0x9D 0xB6; U2 0x9D 0xB7;
   U2 0x9D 0xB8; U2 0x9D 0xBA; U2 0x9D 0xBA; U2 0x9D 0xBC;
   U2 0x9D 0xBC; U2 0x00 0x00; U2 0x9D 0xBF; U2 0x9D 0xBF].

Definition PLANE_3_EA_9E : Plane2Bytes :=
  [U2 0x9E 0x81; U2 0x9E 0x81; U2 0x9E 0x83; U2 0x9E 0x83;
   U2 0x9E 0x85; U2 0x9E 0x85; U2 0x9E 0x87; U2 0x9E 0x87;
   U2 0x9E 0x88; U2 0x9E 0x89; U2 0x9E 0x8A; U2 0x9E 0x8C;
   U2 0x9E 0x8C; U2 0x00 0xA5; U2 0x9E 0x8E; U2 0x9E 0x8F;
   U2 0x9E 0x91; U2 0x9E 0x91; U2 0x9E 0x93; U2 0x9E 0x93;
   U2 0x9E 0x94; U2 0x9E 0x95; U2 0x9E 0x97; U2 0x9E 0x97;
   U2 0x9E 0x99; U2 0x9E 0x99; U2 0x9E 0x9B; U2 0x9E 0x9B;
   U2 0x9E 0x9D; U2 0x9E 0x9D; U2 0x9E 0x9F; U2 0x9E 0x9F;
   U2 0x9E 0xA1; U2 0x9E 0xA1; U2 0x9E 0xA3; U2 0x9E 0xA3;
   U2 0x9E 0xA5; U2 0x9E 0xA5; U2 0x9E 0xA7; U2 0x9E 0xA7;
   U2 0x9E 0xA9; U2 0x9E 0xA9; U2 0x00 0xA6; U2 0x00 0x9C;
   U2 0x00 0xA1; U2 0x00 0xAC; U2 0x9E 0xAE; U2 0x9E 0xAF;
   U2 0x00 0x9E; U2 0x00 0x87; U2 0x00 0x9D; U2 0xAD 0x93;
   U2 0x9E 0xB5; U2 0x9E 0xB5; U2 0x9E 0xB7; U2 0x9E 0xB7;
   U2 0x9E 0xB8; U2 0x9E 0xB9; U2 0x9E 0xBA; U2 0x9E 0xBB;
   U2 0x9E 0xBC; U2 0x9E 0xBD; U2 0x9E 0xBE; U2 0x9E 0xBF].

Definition TABLE_3_EA : list Plane2Bytes :=
  [PLANE_3_EA_99; PLANE_3_EA_9A; PLANE_3_EA_9B; PLANE_3_EA_9C;
   PLANE_3_EA_9D; PLANE_3_EA_9E].

Definition TABLE_3_EF : list Z :=
  [0x80; 0x81; 0x82; 0x83; 0x84; 0x85; 0x86; 0x87;
   0x88; 0x89; 0x8A; 0x8B; 0x8C; 0x8D; 0x8E; 0x8F;
   0x90; 0x91; 0x92; 0x93; 0x94; 0x95; 0x96; 0x97;
   0x98; 0x99; 0x9A; 0x9B; 0x9C; 0x9D; 0x9E; 0x9F;
   0xA0; 0x81; 0x82; 0x83; 0x84; 0x85; 0x86; 0x87;
   0x88; 0x89; 0x8A; 0x8B; 0x8C; 0x8D; 0x8E; 0x8F;
   0x90; 0x91; 0x92; 0x93; 0x94; 0x95; 0x96; 0x97;
   0x98; 0x99; 0x9A; 0xBB; 0xBC; 0xBD; 0xBE; 0xBF].

Definition TABLE_4_F0 : list Z :=
  [0xA8; 0xA9; 0xAA; 0xAB; 0xAC; 0xAD; 0xAE; 0xAF;
   0xB0; 0xB1; 0xB2; 0xB3; 0xB4; 0xB5; 0xB6; 0xB7;
   0xB8; 0xB9; 0xBA; 0xBB; 0xBC; 0xBD; 0xBE; 0xBF;
   0x80; 0x81; 0x82; 0x83; 0x84; 0x85; 0x86; 0x87;
   0x88; 0x89; 0x8A; 0x8B; 0x8C; 0x8D; 0x8E; 0x8F;
   0xA8; 0xA9; 0xAA; 0xAB; 0xAC; 0xAD; 0xAE; 0xAF;
   0xB0; 0xB1; 0xB2; 0xB3; 0xB4; 0xB5; 0xB6; 0xB7;
   0xB8; 0xB9; 0xBA; 0xBB; 0xBC; 0xBD; 0xBE; 0xBF].
