(* ===== verification/SimplifyTables.v ===== *)
(** * Tables of the simplification

    The data of [String/UTF8CaseSimplify.cpp], namespace [ToSimplify]: planes of
    code units in the layout of [LowerTables], planes of two bits for a character,
    and the texts [TABLE_x_] that the code units of [TABLE_x] name by their
    number. *)
From S2P Require Import Utf8Tables.
From Stdlib Require Import ZArith List.
Import ListNotations.
Local Open Scope Z_scope.

Definition TABLE_1 : list Z :=
  [0x20; 0x20; 0x20; 0x20; 0x20; 0x20; 0x20; 0x20;
   0x20; 0x20; 0x20; 0x20; 0x20; 0x20; 0x20; 0x20;
   0x20; 0x20; 0x20; 0x20; 0x20; 0x20; 0x20; 0x20;
   0x20; 0x20; 0x20; 0x20; 0x20; 0x20; 0x20; 0x20;
   0x20; 0x20; 0x20; 0x20; 0x20; 0x20; 0x20; 0x20;
   0x20; 0x20; 0x20; 0x20; 0x20; 0x20; 0x20; 0x20;
   0x30; 0x31; 0x32; 0x33; 0x34; 0x35; 0x36; 0x37;
   0x38; 0x39; 0x20; 0x20; 0x20; 0x20; 0x20; 0x20;
   0x20; 0x61; 0x62; 0x63; 0x64; 0x65; 0x66; 0x67;
   0x68; 0x69; 0x6A; 0x6B; 0x6C; 0x6D; 0x6E; 0x6F;
   0x70; 0x71; 0x72; 0x73; 0x74; 0x75; 0x76; 0x77;
   0x78; 0x79; 0x7A; 0x20; 0x20; 0x20; 0x20; 0x20;
   0x20; 0x61; 0x62; 0x63; 0x64; 0x65; 0x66; 0x67;
   0x68; 0x69; 0x6A; 0x6B; 0x6C; 0x6D; 0x6E; 0x6F;
   0x70; 0x71; 0x72; 0x73; 0x74; 0x75; 0x76; 0x77;
   0x78; 0x79; 0x7A; 0x20; 0x20; 0x20; 0x20; 0x20].

Definition PLANE_2_C2 : Plane2Bytes :=
  [U2 0x20 0x00; U2 0x20 0x00; U2 0x20 0x00; U2 0x20 0x00;
   U2 0x20 0x00; U2 0x20 0x00; U2 0x20 0x00; U2 0x20 0x00;
   U2 0x20 0x00; U2 0x20 0x00; U2 0x20 0x00; U2 0x20 0x00;
   U2 0x20 0x00; U2 0x20 0x00; U2 0x20 0x00; U2 0x20 0x00;
   U2 0x20 0x00; U2 0x20 0x00; U2 0x20 0x00; U2 0x20 0x00;
   U2 0x20 0x00; U2 0x20 0x00; U2 0x20 0x00; U2 0x20 0x00;
   U2 0x20 0x00; U2 0x20 0x00; U2 0x20 0x00; U2 0x20 0x00;
   U2 0x20 0x00; U2 0x20 0x00; U2 0x20 0x00; U2 0x20 0x00;
   U2 0x20 0x00; U2 0x20 0x00; U2 0x20 0x00; U2 0x20 0x00;
   U2 0x20 0x00; U2 0x20 0x00; U2 0x20 0x00; U2 0x20 0x00;
   U2 0x20 0x00; U2 0x20 0x00; U2 0x61 0x00; U2 0x20 0x00;
   U2 0x20 0x00; U2 0x20 0x00; U2 0x20 0x00; U2 0x20 0x00;
   U2 0x20 0x00; U2 0x20 0x00; U2 0x32 0x00; U2 0x33 0x00;
   U2 0x20 0x00; U2 0xCE 0xBC; U2 0x20 0x00; U2 0x20 0x00;
   U2 0x20 0x00; U2 0x31 0x00; U2 0x6F 0x00; U2 0x20 0x00;
   U2 0x00 0x01; U2 0x00 0x02; U2 0x00 0x03; U2 0x20 0x00].

Definition PLANE_2_C3 : Plane2Bytes :=
  [U2 0x61 0x00; U2 0x61 0x00; U2 0x61 0x00; U2 0x61 0x00;
   U2 0x61 0x00; U2 0x61 0x00; U2 0xC3 0xA6; U2 0x63 0x00;
   U2 0x65 0x00; U2 0x65 0x00; U2 0x65 0x00; U2 0x65 0x00;
   U2 0x69 0x00; U2 0x69 0x00; U2 0x69 0x00; U2 0x69 0x00;
   U2 0xC3 0xB0; U2 0x6E 0x00; U2 0x6F 0x00; U2 0x6F 0x00;
   U2 0x6F 0x00; U2 0x6F 0x00; U2 0x6F 0x00; U2 0x20 0x00;
   U2 0xC3 0xB8; U2 0x75 0x00; U2 0x75 0x00; U2 0x75 0x00;
   U2 0x75 0x00; U2 0x79 0x00; U2 0xC3 0xBE; U2 0x73 0x73;
   U2 0x61 0x00; U2 0x61 0x00; U2 0x61 0x00; U2 0x61 0x00;
   U2 0x61 0x00; U2 0x61 0x00; U2 0xC3 0xA6; U2 0x63 0x00;
   U2 0x65 0x00; U2 0x65 0x00; U2 0x65 0x00; U2 0x65 0x00;
   U2 0x69 0x00; U2 0x69 0x00; U2 0x69 0x00; U2 0x69 0x00;
   U2 0xC3 0xB0; U2 0x6E 0x00; U2 0x6F 0x00; U2 0x6F 0x00;
   U2 0x6F 0x00; U2 0x6F 0x00; U2 0x6F 0x00; U2 0x20 0x00;
   U2 0xC3 0xB8; U2 0x75 0x00; U2 0x75 0x00; U2 0x75 0x00;
   U2 0x75 0x00; U2 0x79 0x00; U2 0xC3 0xBE; U2 0x79 0x00].

Definition PLANE_2_C4 : Plane2Bytes :=
  [U2 0x61 0x00; U2 0x61 0x00; U2 0x61 0x00; U2 0x61 0x00;
   U2 0x61 0x00; U2 0x61 0x00; U2 0x63 0x00; U2 0x63 0x00;
   U2 0x63 0x00; U2 0x63 0x00; U2 0x63 0x00; U2 0x63 0x00;
   U2 0x63 0x00; U2 0x63 0x00; U2 0x64 0x00; U2 0x64 0x00;
   U2 0xC4 0x91; U2 0xC4 0x91; U2 0x65 0x00; U2 0x65 0x00;
   U2 0x65 0x00; U2 0x65 0x00; U2 0x65 0x00; U2 0x65 0x00;
   U2 0x65 0x00; U2 0x65 0x00; U2 0x65 0x00; U2 0x65 0x00;
   U2 0x67 0x00; U2 0x67 0x00; U2 0x67 0x00; U2 0x67 0x00;
   U2 0x67 0x00; U2 0x67 0x00; U2 0x67 0x00; U2 0x67 0x00;
   U2 0x68 0x00; U2 0x68 0x00; U2 0xC4 0xA7; U2 0xC4 0xA7;
   U2 0x69 0x00; U2 0x69 0x00; U2 0x69 0x00; U2 0x69 0x00;
   U2 0x69 0x00; U2 0x69 0x00; U2 0x69 0x00; U2 0x69 0x00;
   U2 0x69 0x00; U2 0x69 0x00; U2 0x69 0x6A; U2 0x69 0x6A;
   U2 0x6A 0x00; U2 0x6A 0x00; U2 0x6B 0x00; U2 0x6B 0x00;
   U2 0xC4 0xB8; U2 0x6C 0x00; U2 0x6C 0x00; U2 0x6C 0x00;
   U2 0x6C 0x00; U2 0x6C 0x00; U2 0x6C 0x00; U2 0x6C 0x20].

Definition PLANE_2_C5 : Plane2Bytes :=
  [U2 0x6C 0x20; U2 0xC5 0x82; U2 0xC5 0x82; U2 0x6E 0x00;
   U2 0x6E 0x00; U2 0x6E 0x00; U2 0x6E 0x00; U2 0x6E 0x00;
   U2 0x6E 0x00; U2 0x00 0x04; U2 0xC5 0x8B; U2 0xC5 0x8B;
   U2 0x6F 0x00; U2 0x6F 0x00; U2 0x6F 0x00; U2 0x6F 0x00;
   U2 0x6F 0x00; U2 0x6F 0x00; U2 0xC5 0x93; U2 0xC5 0x93;
   U2 0x72 0x00; U2 0x72 0x00; U2 0x72 0x00; U2 0x72 0x00;
   U2 0x72 0x00; U2 0x72 0x00; U2 0x73 0x00; U2 0x73 0x00;
   U2 0x73 0x00; U2 0x73 0x00; U2 0x73 0x00; U2 0x73 0x00;
   U2 0x73 0x00; U2 0x73 0x00; U2 0x74 0x00; U2 0x74 0x00;
   U2 0x74 0x00; U2 0x74 0x00; U2 0xC5 0xA7; U2 0xC5 0xA7;
   U2 0x75 0x00; U2 0x75 0x00; U2 0x75 0x00; U2 0x75 0x00;
   U2 0x75 0x00; U2 0x75 0x00; U2 0x75 0x00; U2 0x75 0x00;
   U2 0x75 0x00; U2 0x75 0x00; U2 0x75 0x00; U2 0x75 0x00;
   U2 0x77 0x00; U2 0x77 0x00; U2 0x79 0x00; U2 0x79 0x00;
   U2 0x79 0x00; U2 0x7A 0x00; U2 0x7A 0x00; U2 0x7A 0x00;
   U2 0x7A 0x00; U2 0x7A 0x00; U2 0x7A 0x00; U2 0x73 0x00].

Definition PLANE_2_C6 : Plane2Bytes :=
  [U2 0xC6 0x80; U2 0xC9 0x93; U2 0xC6 0x83; U2 0xC6 0x83;
   U2 0xC6 0x85; U2 0xC6 0x85; U2 0xC9 0x94; U2 0xC6 0x88;
   U2 0xC6 0x88; U2 0xC9 0x96; U2 0xC9 0x97; U2 0xC6 0x8C;
   U2 0xC6 0x8C; U2 0xC6 0x8D; U2 0xC7 0x9D; U2 0xC9 0x99;
   U2 0xC9 0x9B; U2 0xC6 0x92; U2 0xC6 0x92; U2 0xC9 0xA0;
   U2 0xC9 0xA3; U2 0xC6 0x95; U2 0xC9 0xA9; U2 0xC9 0xA8;
   U2 0xC6 0x99; U2 0xC6 0x99; U2 0xC6 0x9A; U2 0xC6 0x9B;
   U2 0xC9 0xAF; U2 0xC9 0xB2; U2 0xC6 0x9E; U2 0xC9 0xB5;
   U2 0x6F 0x00; U2 0x6F 0x00; U2 0xC6 0xA3; U2 0xC6 0xA3;
   U2 0xC6 0xA5; U2 0xC6 0xA5; U2 0xCA 0x80; U2 0xC6 0xA8;
   U2 0xC6 0xA8; U2 0xCA 0x83; U2 0xC6 0xAA; U2 0xC6 0xAB;
   U2 0xC6 0xAD; U2 0xC6 0xAD; U2 0xCA 0x88; U2 0x75 0x00;
   U2 0x75 0x00; U2 0xCA 0x8A; U2 0xCA 0x8B; U2 0xC6 0xB4;
   U2 0xC6 0xB4; U2 0xC6 0xB6; U2 0xC6 0xB6; U2 0xCA 0x92;
   U2 0xC6 0xB9; U2 0xC6 0xB9; U2 0xC6 0xBA; U2 0xC6 0xBB;
   U2 0xC6 0xBD; U2 0xC6 0xBD; U2 0xC6 0xBE; U2 0xC6 0xBF].

Definition PLANE_2_C7 : Plane2Bytes :=
  [U2 0xC7 0x80; U2 0xC7 0x81; U2 0xC7 0x82; U2 0xC7 0x83;
   U2 0x64 0x7A; U2 0x64 0x7A; U2 0x64 0x7A; U2 0x6C 0x6A;
   U2 0x6C 0x6A; U2 0x6C 0x6A; U2 0x6E 0x6A; U2 0x6E 0x6A;
   U2 0x6E 0x6A; U2 0x61 0x00; U2 0x61 0x00; U2 0x69 0x00;
   U2 0x69 0x00; U2 0x6F 0x00; U2 0x6F 0x00; U2 0x75 0x00;
   U2 0x75 0x00; U2 0x75 0x00; U2 0x75 0x00; U2 0x75 0x00;
   U2 0x75 0x00; U2 0x75 0x00; U2 0x75 0x00; U2 0x75 0x00;
   U2 0x75 0x00; U2 0xC7 0x9D; U2 0x61 0x00; U2 0x61 0x00;
   U2 0x61 0x00; U2 0x61 0x00; U2 0xC3 0xA6; U2 0xC3 0xA6;
   U2 0xC7 0xA5; U2 0xC7 0xA5; U2 0x67 0x00; U2 0x67 0x00;
   U2 0x6B 0x00; U2 0x6B 0x00; U2 0x6F 0x00; U2 0x6F 0x00;
   U2 0x6F 0x00; U2 0x6F 0x00; U2 0xCA 0x92; U2 0xCA 0x92;
   U2 0x6A 0x00; U2 0x64 0x7A; U2 0x64 0x7A; U2 0x64 0x7A;
   U2 0x67 0x00; U2 0x67 0x00; U2 0xC6 0x95; U2 0xC6 0xBF;
   U2 0x6E 0x00; U2 0x6E 0x00; U2 0x61 0x00; U2 0x61 0x00;
   U2 0xC3 0xA6; U2 0xC3 0xA6; U2 0xC3 0xB8; U2 0xC3 0xB8].

Definition PLANE_2_C8 : Plane2Bytes :=
  [U2 0x61 0x00; U2 0x61 0x00; U2 0x61 0x00; U2 0x61 0x00;
   U2 0x65 0x00; U2 0x65 0x00; U2 0x65 0x00; U2 0x65 0x00;
   U2 0x69 0x00; U2 0x69 0x00; U2 0x69 0x00; U2 0x69 0x00;
   U2 0x6F 0x00; U2 0x6F 0x00; U2 0x6F 0x00; U2 0x6F 0x00;
   U2 0x72 0x00; U2 0x72 0x00; U2 0x72 0x00; U2 0x72 0x00;
   U2 0x75 0x00; U2 0x75 0x00; U2 0x75 0x00; U2 0x75 0x00;
   U2 0x73 0x00; U2 0x73 0x00; U2 0x74 0x00; U2 0x74 0x00;
   U2 0xC8 0x9D; U2 0xC8 0x9D; U2 0x68 0x00; U2 0x68 0x00;
   U2 0xC6 0x9E; U2 0xC8 0xA1; U2 0xC8 0xA3; U2 0xC8 0xA3;
   U2 0xC8 0xA5; U2 0xC8 0xA5; U2 0x61 0x00; U2 0x61 0x00;
   U2 0x65 0x00; U2 0x65 0x00; U2 0x6F 0x00; U2 0x6F 0x00;
   U2 0x6F 0x00; U2 0x6F 0x00; U2 0x6F 0x00; U2 0x6F 0x00;
   U2 0x6F 0x00; U2 0x6F 0x00; U2 0x79 0x00; U2 0x79 0x00;
   U2 0xC8 0xB4; U2 0xC8 0xB5; U2 0xC8 0xB6; U2 0xC8 0xB7;
   U2 0xC8 0xB8; U2 0xC8 0xB9; U2 0x00 0x05; U2 0xC8 0xBC;
   U2 0xC8 0xBC; U2 0xC6 0x9A; U2 0x00 0x06; U2 0xC8 0xBF].

Definition PLANE_2_C9 : Plane2Bytes :=
  [U2 0xC9 0x80; U2 0xC9 0x82; U2 0xC9 0x82; U2 0xC6 0x80;
   U2 0xCA 0x89; U2 0xCA 0x8C; U2 0xC9 0x87; U2 0xC9 0x87;
   U2 0xC9 0x89; U2 0xC9 0x89; U2 0xC9 0x8B; U2 0xC9 0x8B;
   U2 0xC9 0x8D; U2 0xC9 0x8D; U2 0xC9 0x8F; U2 0xC9 0x8F;
   U2 0xC9 0x90; U2 0xC9 0x91; U2 0xC9 0x92; U2 0xC9 0x93;
   U2 0xC9 0x94; U2 0xC9 0x95; U2 0xC9 0x96; U2 0xC9 0x97;
   U2 0xC9 0x98; U2 0xC9 0x99; U2 0xC9 0x9A; U2 0xC9 0x9B;
   U2 0xC9 0x9C; U2 0xC9 0x9D; U2 0xC9 0x9E; U2 0xC9 0x9F;
   U2 0xC9 0xA0; U2 0xC9 0xA1; U2 0xC9 0xA2; U2 0xC9 0xA3;
   U2 0xC9 0xA4; U2 0xC9 0xA5; U2 0xC9 0xA6; U2 0xC9 0xA7;
   U2 0xC9 0xA8; U2 0xC9 0xA9; U2 0xC9 0xAA; U2 0xC9 0xAB;
   U2 0xC9 0xAC; U2 0xC9 0xAD; U2 0xC9 0xAE; U2 0xC9 0xAF;
   U2 0xC9 0xB0; U2 0xC9 0xB1; U2 0xC9 0xB2; U2 0xC9 0xB3;
   U2 0xC9 0xB4; U2 0xC9 0xB5; U2 0xC9 0xB6; U2 0xC9 0xB7;
   U2 0xC9 0xB8; U2 0xC9 0xB9; U2 0xC9 0xBA; U2 0xC9 0xBB;
   U2 0xC9 0xBC; U2 0xC9 0xBD; U2 0xC9 0xBE; U2 0xC9 0xBF].

Definition PLANE_2_CA : Plane2Bytes :=
  [U2 0xCA 0x80; U2 0xCA 0x81; U2 0xCA 0x82; U2 0xCA 0x83;
   U2 0xCA 0x84; U2 0xCA 0x85; U2 0xCA 0x86; U2 0xCA 0x87;
   U2 0xCA 0x88; U2 0xCA 0x89; U2 0xCA 0x8A; U2 0xCA 0x8B;
   U2 0xCA 0x8C; U2 0xCA 0x8D; U2 0xCA 0x8E; U2 0xCA 0x8F;
   U2 0xCA 0x90; U2 0xCA 0x91; U2 0xCA 0x92; U2 0xCA 0x93;
   U2 0xCA 0x94; U2 0xCA 0x95; U2 0xCA 0x96; U2 0xCA 0x97;
   U2 0xCA 0x98; U2 0xCA 0x99; U2 0xCA 0x9A; U2 0xCA 0x9B;
   U2 0xCA 0x9C; U2 0xCA 0x9D; U2 0xCA 0x9E; U2 0xCA 0x9F;
   U2 0xCA 0xA0; U2 0xCA 0xA1; U2 0xCA 0xA2; U2 0xCA 0xA3;
   U2 0xCA 0xA4; U2 0xCA 0xA5; U2 0xCA 0xA6; U2 0xCA 0xA7;
   U2 0xCA 0xA8; U2 0xCA 0xA9; U2 0xCA 0xAA; U2 0xCA 0xAB;
   U2 0xCA 0xAC; U2 0xCA 0xAD; U2 0xCA 0xAE; U2 0xCA 0xAF;
   U2 0x68 0x00; U2 0xC9 0xA6; U2 0x6A 0x00; U2 0x72 0x00;
   U2 0xC9 0xB9; U2 0xC9 0xBB; U2 0xCA 0x81; U2 0x77 0x00;
   U2 0x79 0x00; U2 0xCA 0xB9; U2 0xCA 0xBA; U2 0xCA 0xBB;
   U2 0xCA 0xBC; U2 0xCA 0xBD; U2 0xCA 0xBE; U2 0xCA 0xBF].

Definition PLANE_2_CB : Plane2Bytes :=
  [U2 0xCB 0x80; U2 0xCB 0x81; U2 0x20 0x00; U2 0x20 0x00;
   U2 0x20 0x00; U2 0x20 0x00; U2 0xCB 0x86; U2 0xCB 0x87;
   U2 0xCB 0x88; U2 0xCB 0x89; U2 0xCB 0x8A; U2 0xCB 0x8B;
   U2 0xCB 0x8C; U2 0xCB 0x8D; U2 0xCB 0x8E; U2 0xCB 0x8F;
   U2 0xCB 0x90; U2 0xCB 0x91; U2 0x20 0x00; U2 0x20 0x00;
   U2 0x20 0x00; U2 0x20 0x00; U2 0x20 0x00; U2 0x20 0x00;
   U2 0x20 0x00; U2 0x20 0x00; U2 0x20 0x00; U2 0x20 0x00;
   U2 0x20 0x00; U2 0x20 0x00; U2 0x20 0x00; U2 0x20 0x00;
   U2 0xC9 0xA3; U2 0x6C 0x00; U2 0x73 0x00; U2 0x78 0x00;
   U2 0xCA 0x95; U2 0x20 0x00; U2 0x20 0x00; U2 0x20 0x00;
   U2 0x20 0x00; U2 0x20 0x00; U2 0x20 0x00; U2 0x20 0x00;
   U2 0xCB 0xAC; U2 0x20 0x00; U2 0xCB 0xAE; U2 0x20 0x00;
   U2 0x20 0x00; U2 0x20 0x00; U2 0x20 0x00; U2 0x20 0x00;
   U2 0x20 0x00; U2 0x20 0x00; U2 0x20 0x00; U2 0x20 0x00;
   U2 0x20 0x00; U2 0x20 0x00; U2 0x20 0x00; U2 0x20 0x00;
   U2 0x20 0x00; U2 0x20 0x00; U2 0x20 0x00; U2 0x20 0x00].

Definition PLANE_2_CC : Plane2Bytes :=
  [U2 0x00 0x00; U2 0x00 0x00; U2 0x00 0x00; U2 0x00 0x00;
   U2 0x00 0x00; U2 0x00 0x00; U2 0x00 0x00; U2 0x00 0x00;
   U2 0x00 0x00; U2 0x00 0x00; U2 0x00 0x00; U2 0x00 0x00;
   U2 0x00 0x00; U2 0x00 0x00; U2 0x00 0x00; U2 0x00 0x00;
   U2 0x00 0x00; U2 0x00 0x00; U2 0x00 0x00; U2 0x00 0x00;
   U2 0x00 0x00; U2 0x00 0x00; U2 0x00 0x00; U2 0x00 0x00;
   U2 0x00 0x00; U2 0x00 0x00; U2 0x00 0x00; U2 0x00 0x00;
   U2 0x00 0x00; U2 0x00 0x00; U2 0x00 0x00; U2 0x00 0x00;
   U2 0x00 0x00; U2 0x00 0x00; U2 0x00 0x00; U2 0x00 0x00;
   U2 0x00 0x00; U2 0x00 0x00; U2 0x00 0x00; U2 0x00 0x00;
   U2 0x00 0x00; U2 0x00 0x00; U2 0x00 0x00; U2 0x00 0x00;
   U2 0x00 0x00; U2 0x00 0x00; U2 0x00 0x00; U2 0x00 0x00;
   U2 0x00 0x00; U2 0x00 0x00; U2 0x00 0x00; U2 0x00 0x00;
   U2 0x00 0x00; U2 0x00 0x00; U2 0x00 0x00; U2 0x00 0x00;
   U2 0x00 0x00; U2 0x00 0x00; U2 0x00 0x00; U2 0x00 0x00;
   U2 0x00 0x00; U2 0x00 0x00; U2 0x00 0x00; U2 0x00 0x00].

Definition PLANE_2_CD : Plane2Bytes :=
  [U2 0x00 0x00; U2 0x00 0x00; U2 0x00 0x00; U2 0x00 0x00;
   U2 0x00 0x00; U2 0x00 0x00; U2 0x00 0x00; U2 0x00 0x00;
   U2 0x00 0x00; U2 0x00 0x00; U2 0x00 0x00; U2 0x00 0x00;
   U2 0x00 0x00; U2 0x00 0x00; U2 0x00 0x00; U2 0x20 0x00;
   U2 0x00 0x00; U2 0x00 0x00; U2 0x00 0x00; U2 0x00 0x00;
   U2 0x00 0x00; U2 0x00 0x00; U2 0x00 0x00; U2 0x00 0x00;
   U2 0x00 0x00; U2 0x00 0x00; U2 0x00 0x00; U2 0x00 0x00;
   U2 0x00 0x00; U2 0x00 0x00; U2 0x00 0x00; U2 0x00 0x00;
   U2 0x00 0x00; U2 0x00 0x00; U2 0x00 0x00; U2 0x00 0x00;
   U2 0x00 0x00; U2 0x00 0x00; U2 0x00 0x00; U2 0x00 0x00;
   U2 0x00 0x00; U2 0x00 0x00; U2 0x00 0x00; U2 0x00 0x00;
   U2 0x00 0x00; U2 0x00 0x00; U2 0x00 0x00; U2 0x00 0x00;
   U2 0xCD 0xB1; U2 0xCD 0xB1; U2 0xCD 0xB3; U2 0xCD 0xB3;
   U2 0xCA 0xB9; U2 0x20 0x00; U2 0xCD 0xB7; U2 0xCD 0xB7;
   U2 0x20 0x00; U2 0x20 0x00; U2 0x20 0x00; U2 0xCD 0xBB;
   U2 0xCD 0xBC; U2 0xCD 0xBD; U2 0x20 0x00; U2 0xCF 0xB3].

Definition PLANE_2_CE : Plane2Bytes :=
  [U2 0x20 0x00; U2 0x20 0x00; U2 0x20 0x00; U2 0x20 0x00;
   U2 0x20 0x00; U2 0x20 0x00; U2 0xCE 0xB1; U2 0x20 0x00;
   U2 0xCE 0xB5; U2 0xCE 0xB7; U2 0xCE 0xB9; U2 0x20 0x00;
   U2 0xCE 0xBF; U2 0x20 0x00; U2 0xCF 0x85; U2 0xCF 0x89;
   U2 0xCE 0xB9; U2 0xCE 0xB1; U2 0xCE 0xB2; U2 0xCE 0xB3;
   U2 0xCE 0xB4; U2 0xCE 0xB5; U2 0xCE 0xB6; U2 0xCE 0xB7;
   U2 0xCE 0xB8; U2 0xCE 0xB9; U2 0xCE 0xBA; U2 0xCE 0xBB;
   U2 0xCE 0xBC; U2 0xCE 0xBD; U2 0xCE 0xBE; U2 0xCE 0xBF;
   U2 0xCF 0x80; U2 0xCF 0x81; U2 0x20 0x00; U2 0xCF 0x83;
   U2 0xCF 0x84; U2 0xCF 0x85; U2 0xCF 0x86; U2 0xCF 0x87;
   U2 0xCF 0x88; U2 0xCF 0x89; U2 0xCE 0xB9; U2 0xCF 0x85;
   U2 0xCE 0xB1; U2 0xCE 0xB5; U2 0xCE 0xB7; U2 0xCE 0xB9;
   U2 0xCF 0x85; U2 0xCE 0xB1; U2 0xCE 0xB2; U2 0xCE 0xB3;
   U2 0xCE 0xB4; U2 0xCE 0xB5; U2 0xCE 0xB6; U2 0xCE 0xB7;
   U2 0xCE 0xB8; U2 0xCE 0xB9; U2 0xCE 0xBA; U2 0xCE 0xBB;
   U2 0xCE 0xBC; U2 0xCE 0xBD; U2 0xCE 0xBE; U2 0xCE 0xBF].

Definition PLANE_2_CF : Plane2Bytes :=
  [U2 0xCF 0x80; U2 0xCF 0x81; U2 0xCF 0x83; U2 0xCF 0x83;
   U2 0xCF 0x84; U2 0xCF 0x85; U2 0xCF 0x86; U2 0xCF 0x87;
   U2 0xCF 0x88; U2 0xCF 0x89; U2 0xCE 0xB9; U2 0xCF 0x85;
   U2 0xCE 0xBF; U2 0xCF 0x85; U2 0xCF 0x89; U2 0xCF 0x97;
   U2 0xCE 0xB2; U2 0xCE 0xB8; U2 0xCF 0x85; U2 0xCF 0x85;
   U2 0xCF 0x85; U2 0xCF 0x86; U2 0xCF 0x80; U2 0xCF 0x97;
   U2 0xCF 0x99; U2 0xCF 0x99; U2 0xCF 0x9B; U2 0xCF 0x9B;
   U2 0xCF 0x9D; U2 0xCF 0x9D; U2 0xCF 0x9F; U2 0xCF 0x9F;
   U2 0xCF 0xA1; U2 0xCF 0xA1; U2 0xCF 0xA3; U2 0xCF 0xA3;
   U2 0xCF 0xA5; U2 0xCF 0xA5; U2 0xCF 0xA7; U2 0xCF 0xA7;
   U2 0xCF 0xA9; U2 0xCF 0xA9; U2 0xCF 0xAB; U2 0xCF 0xAB;
   U2 0xCF 0xAD; U2 0xCF 0xAD; U2 0xCF 0xAF; U2 0xCF 0xAF;
   U2 0xCE 0xBA; U2 0xCF 0x81; U2 0xCF 0x83; U2 0xCF 0xB3;
   U2 0xCE 0xB8; U2 0xCE 0xB5; U2 0x20 0x00; U2 0xCF 0xB8;
   U2 0xCF 0xB8; U2 0xCF 0x83; U2 0xCF 0xBB; U2 0xCF 0xBB;
   U2 0xCF 0xBC; U2 0xCD 0xBB; U2 0xCD 0xBC; U2 0xCD 0xBD].

Definition PLANE_2_D0 : Plane2Bytes :=
  [U2 0xD0 0xB5; U2 0xD0 0xB5; U2 0xD1 0x92; U2 0xD0 0xB3;
   U2 0xD1 0x94; U2 0xD1 0x95; U2 0xD1 0x96; U2 0xD1 0x96;
   U2 0xD1 0x98; U2 0xD1 0x99; U2 0xD1 0x9A; U2 0xD1 0x9B;
   U2 0xD0 0xBA; U2 0xD0 0xB8; U2 0xD1 0x83; U2 0xD1 0x9F;
   U2 0xD0 0xB0; U2 0xD0 0xB1; U2 0xD0 0xB2; U2 0xD0 0xB3;
   U2 0xD0 0xB4; U2 0xD0 0xB5; U2 0xD0 0xB6; U2 0xD0 0xB7;
   U2 0xD0 0xB8; U2 0xD0 0xB8; U2 0xD0 0xBA; U2 0xD0 0xBB;
   U2 0xD0 0xBC; U2 0xD0 0xBD; U2 0xD0 0xBE; U2 0xD0 0xBF;
   U2 0xD1 0x80; U2 0xD1 0x81; U2 0xD1 0x82; U2 0xD1 0x83;
   U2 0xD1 0x84; U2 0xD1 0x85; U2 0xD1 0x86; U2 0xD1 0x87;
   U2 0xD1 0x88; U2 0xD1 0x89; U2 0xD1 0x8A; U2 0xD1 0x8B;
   U2 0xD1 0x8C; U2 0xD1 0x8D; U2 0xD1 0x8E; U2 0xD1 0x8F;
   U2 0xD0 0xB0; U2 0xD0 0xB1; U2 0xD0 0xB2; U2 0xD0 0xB3;
   U2 0xD0 0xB4; U2 0xD0 0xB5; U2 0xD0 0xB6; U2 0xD0 0xB7;
   U2 0xD0 0xB8; U2 0xD0 0xB8; U2 0xD0 0xBA; U2 0xD0 0xBB;
   U2 0xD0 0xBC; U2 0xD0 0xBD; U2 0xD0 0xBE; U2 0xD0 0xBF].

Definition PLANE_2_D1 : Plane2Bytes :=
  [U2 0xD1 0x80; U2 0xD1 0x81; U2 0xD1 0x82; U2 0xD1 0x83;
   U2 0xD1 0x84; U2 0xD1 0x85; U2 0xD1 0x86; U2 0xD1 0x87;
   U2 0xD1 0x88; U2 0xD1 0x89; U2 0xD1 0x8A; U2 0xD1 0x8B;
   U2 0xD1 0x8C; U2 0xD1 0x8D; U2 0xD1 0x8E; U2 0xD1 0x8F;
   U2 0xD0 0xB5; U2 0xD0 0xB5; U2 0xD1 0x92; U2 0xD0 0xB3;
   U2 0xD1 0x94; U2 0xD1 0x95; U2 0xD1 0x96; U2 0xD1 0x96;
   U2 0xD1 0x98; U2 0xD1 0x99; U2 0xD1 0x9A; U2 0xD1 0x9B;
   U2 0xD0 0xBA; U2 0xD0 0xB8; U2 0xD1 0x83; U2 0xD1 0x9F;
   U2 0xD1 0xA1; U2 0xD1 0xA1; U2 0xD1 0xA3; U2 0xD1 0xA3;
   U2 0xD1 0xA5; U2 0xD1 0xA5; U2 0xD1 0xA7; U2 0xD1 0xA7;
   U2 0xD1 0xA9; U2 0xD1 0xA9; U2 0xD1 0xAB; U2 0xD1 0xAB;
   U2 0xD1 0xAD; U2 0xD1 0xAD; U2 0xD1 0xAF; U2 0xD1 0xAF;
   U2 0xD1 0xB1; U2 0xD1 0xB1; U2 0xD1 0xB3; U2 0xD1 0xB3;
   U2 0xD1 0xB5; U2 0xD1 0xB5; U2 0xD1 0xB5; U2 0xD1 0xB5;
   U2 0xD1 0xB9; U2 0xD1 0xB9; U2 0xD1 0xBB; U2 0xD1 0xBB;
   U2 0xD1 0xBD; U2 0xD1 0xBD; U2 0xD1 0xBF; U2 0xD1 0xBF].

Definition PLANE_2_D2 : Plane2Bytes :=
  [U2 0xD2 0x81; U2 0xD2 0x81; U2 0x20 0x00; U2 0x00 0x00;
   U2 0x00 0x00; U2 0x00 0x00; U2 0x00 0x00; U2 0x00 0x00;
   U2 0x20 0x00; U2 0x20 0x00; U2 0xD2 0x8B; U2 0xD2 0x8B;
   U2 0xD2 0x8D; U2 0xD2 0x8D; U2 0xD2 0x8F; U2 0xD2 0x8F;
   U2 0xD2 0x91; U2 0xD2 0x91; U2 0xD2 0x93; U2 0xD2 0x93;
   U2 0xD2 0x95; U2 0xD2 0x95; U2 0xD2 0x97; U2 0xD2 0x97;
   U2 0xD2 0x99; U2 0xD2 0x99; U2 0xD2 0x9B; U2 0xD2 0x9B;
   U2 0xD2 0x9D; U2 0xD2 0x9D; U2 0xD2 0x9F; U2 0xD2 0x9F;
   U2 0xD2 0xA1; U2 0xD2 0xA1; U2 0xD2 0xA3; U2 0xD2 0xA3;
   U2 0xD2 0xA5; U2 0xD2 0xA5; U2 0xD2 0xA7; U2 0xD2 0xA7;
   U2 0xD2 0xA9; U2 0xD2 0xA9; U2 0xD2 0xAB; U2 0xD2 0xAB;
   U2 0xD2 0xAD; U2 0xD2 0xAD; U2 0xD2 0xAF; U2 0xD2 0xAF;
   U2 0xD2 0xB1; U2 0xD2 0xB1; U2 0xD2 0xB3; U2 0xD2 0xB3;
   U2 0xD2 0xB5; U2 0xD2 0xB5; U2 0xD2 0xB7; U2 0xD2 0xB7;
   U2 0xD2 0xB9; U2 0xD2 0xB9; U2 0xD2 0xBB; U2 0xD2 0xBB;
   U2 0xD2 0xBD; U2 0xD2 0xBD; U2 0xD2 0xBF; U2 0xD2 0xBF].

Definition PLANE_2_D3 : Plane2Bytes :=
  [U2 0xD3 0x8F; U2 0xD0 0xB6; U2 0xD0 0xB6; U2 0xD3 0x84;
   U2 0xD3 0x84; U2 0xD3 0x86; U2 0xD3 0x86; U2 0xD3 0x88;
   U2 0xD3 0x88; U2 0xD3 0x8A; U2 0xD3 0x8A; U2 0xD3 0x8C;
   U2 0xD3 0x8C; U2 0xD3 0x8E; U2 0xD3 0x8E; U2 0xD3 0x8F;
   U2 0xD0 0xB0; U2 0xD0 0xB0; U2 0xD0 0xB0; U2 0xD0 0xB0;
   U2 0xD3 0x95; U2 0xD3 0x95; U2 0xD0 0xB5; U2 0xD0 0xB5;
   U2 0xD3 0x99; U2 0xD3 0x99; U2 0xD3 0x99; U2 0xD3 0x99;
   U2 0xD0 0xB6; U2 0xD0 0xB6; U2 0xD0 0xB7; U2 0xD0 0xB7;
   U2 0xD3 0xA1; U2 0xD3 0xA1; U2 0xD0 0xB8; U2 0xD0 0xB8;
   U2 0xD0 0xB8; U2 0xD0 0xB8; U2 0xD0 0xBE; U2 0xD0 0xBE;
   U2 0xD3 0xA9; U2 0xD3 0xA9; U2 0xD3 0xA9; U2 0xD3 0xA9;
   U2 0xD1 0x8D; U2 0xD1 0x8D; U2 0xD1 0x83; U2 0xD1 0x83;
   U2 0xD1 0x83; U2 0xD1 0x83; U2 0xD1 0x83; U2 0xD1 0x83;
   U2 0xD1 0x87; U2 0xD1 0x87; U2 0xD3 0xB7; U2 0xD3 0xB7;
   U2 0xD1 0x8B; U2 0xD1 0x8B; U2 0xD3 0xBB; U2 0xD3 0xBB;
   U2 0xD3 0xBD; U2 0xD3 0xBD; U2 0xD3 0xBF; U2 0xD3 0xBF].

Definition PLANE_2_D4 : Plane2Bytes :=
  [U2 0xD4 0x81; U2 0xD4 0x81; U2 0xD4 0x83; U2 0xD4 0x83;
   U2 0xD4 0x85; U2 0xD4 0x85; U2 0xD4 0x87; U2 0xD4 0x87;
   U2 0xD4 0x89; U2 0xD4 0x89; U2 0xD4 0x8B; U2 0xD4 0x8B;
   U2 0xD4 0x8D; U2 0xD4 0x8D; U2 0xD4 0x8F; U2 0xD4 0x8F;
   U2 0xD4 0x91; U2 0xD4 0x91; U2 0xD4 0x93; U2 0xD4 0x93;
   U2 0xD4 0x95; U2 0xD4 0x95; U2 0xD4 0x97; U2 0xD4 0x97;
   U2 0xD4 0x99; U2 0xD4 0x99; U2 0xD4 0x9B; U2 0xD4 0x9B;
   U2 0xD4 0x9D; U2 0xD4 0x9D; U2 0xD4 0x9F; U2 0xD4 0x9F;
   U2 0xD4 0xA1; U2 0xD4 0xA1; U2 0xD4 0xA3; U2 0xD4 0xA3;
   U2 0xD4 0xA5; U2 0xD4 0xA5; U2 0xD4 0xA7; U2 0xD4 0xA7;
   U2 0xD4 0xA9; U2 0xD4 0xA9; U2 0xD4 0xAB; U2 0xD4 0xAB;
   U2 0xD4 0xAD; U2 0xD4 0xAD; U2 0xD4 0xAF; U2 0xD4 0xAF;
   U2 0x20 0x00; U2 0xD5 0xA1; U2 0xD5 0xA2; U2 0xD5 0xA3;
   U2 0xD5 0xA4; U2 0xD5 0xA5; U2 0xD5 0xA6; U2 0xD5 0xA7;
   U2 0xD5 0xA8; U2 0xD5 0xA9; U2 0xD5 0xAA; U2 0xD5 0xAB;
   U2 0xD5 0xAC; U2 0xD5 0xAD; U2 0xD5 0xAE; U2 0xD5 0xAF].

Definition PLANE_2_D5 : Plane2Bytes :=
  [U2 0xD5 0xB0; U2 0xD5 0xB1; U2 0xD5 0xB2; U2 0xD5 0xB3;
   U2 0xD5 0xB4; U2 0xD5 0xB5; U2 0xD5 0xB6; U2 0xD5 0xB7;
   U2 0xD5 0xB8; U2 0xD5 0xB9; U2 0xD5 0xBA; U2 0xD5 0xBB;
   U2 0xD5 0xBC; U2 0xD5 0xBD; U2 0xD5 0xBE; U2 0xD5 0xBF;
   U2 0xD6 0x80; U2 0xD6 0x81; U2 0xD6 0x82; U2 0xD6 0x83;
   U2 0xD6 0x84; U2 0xD6 0x85; U2 0xD6 0x86; U2 0x20 0x00;
   U2 0x20 0x00; U2 0xD5 0x99; U2 0x20 0x00; U2 0x20 0x00;
   U2 0x20 0x00; U2 0x20 0x00; U2 0x20 0x00; U2 0x20 0x00;
   U2 0x20 0x00; U2 0xD5 0xA1; U2 0xD5 0xA2; U2 0xD5 0xA3;
   U2 0xD5 0xA4; U2 0xD5 0xA5; U2 0xD5 0xA6; U2 0xD5 0xA7;
   U2 0xD5 0xA8; U2 0xD5 0xA9; U2 0xD5 0xAA; U2 0xD5 0xAB;
   U2 0xD5 0xAC; U2 0xD5 0xAD; U2 0xD5 0xAE; U2 0xD5 0xAF;
   U2 0xD5 0xB0; U2 0xD5 0xB1; U2 0xD5 0xB2; U2 0xD5 0xB3;
   U2 0xD5 0xB4; U2 0xD5 0xB5; U2 0xD5 0xB6; U2 0xD5 0xB7;
   U2 0xD5 0xB8; U2 0xD5 0xB9; U2 0xD5 0xBA; U2 0xD5 0xBB;
   U2 0xD5 0xBC; U2 0xD5 0xBD; U2 0xD5 0xBE; U2 0xD5 0xBF].

Definition PLANE_2_D6 : Plane2Bytes :=
  [U2 0xD6 0x80; U2 0xD6 0x81; U2 0xD6 0x82; U2 0xD6 0x83;
   U2 0xD6 0x84; U2 0xD6 0x85; U2 0xD6 0x86; U2 0x00 0x07;
   U2 0x20 0x00; U2 0x20 0x00; U2 0x20 0x00; U2 0x20 0x00;
   U2 0x20 0x00; U2 0x20 0x00; U2 0x20 0x00; U2 0x20 0x00;
   U2 0x20 0x00; U2 0x00 0x00; U2 0x00 0x00; U2 0x00 0x00;
   U2 0x00 0x00; U2 0x00 0x00; U2 0x00 0x00; U2 0x00 0x00;
   U2 0x00 0x00; U2 0x00 0x00; U2 0x00 0x00; U2 0x00 0x00;
   U2 0x00 0x00; U2 0x00 0x00; U2 0x00 0x00; U2 0x00 0x00;
   U2 0x00 0x00; U2 0x00 0x00; U2 0x00 0x00; U2 0x00 0x00;
   U2 0x00 0x00; U2 0x00 0x00; U2 0x00 0x00; U2 0x00 0x00;
   U2 0x00 0x00; U2 0x00 0x00; U2 0x00 0x00; U2 0x00 0x00;
   U2 0x00 0x00; U2 0x00 0x00; U2 0x00 0x00; U2 0x00 0x00;
   U2 0x00 0x00; U2 0x00 0x00; U2 0x00 0x00; U2 0x00 0x00;
   U2 0x00 0x00; U2 0x00 0x00; U2 0x00 0x00; U2 0x00 0x00;
   U2 0x00 0x00; U2 0x00 0x00; U2 0x00 0x00; U2 0x00 0x00;
   U2 0x00 0x00; U2 0x00 0x00; U2 0x20 0x00; U2 0x00 0x00].

Definition PLANE_2_D7 : Plane2Bytes :=
  [U2 0x20 0x00; U2 0x00 0x00; U2 0x00 0x00; U2 0x20 0x00;
   U2 0x00 0x00; U2 0x00 0x00; U2 0x20 0x00; U2 0x00 0x00;
   U2 0x20 0x00; U2 0x20 0x00; U2 0x20 0x00; U2 0x20 0x00;
   U2 0x20 0x00; U2 0x20 0x00; U2 0x20 0x00; U2 0x20 0x00;
   U2 0xD7 0x90; U2 0xD7 0x91; U2 0xD7 0x92; U2 0xD7 0x93;
   U2 0xD7 0x94; U2 0xD7 0x95; U2 0xD7 0x96; U2 0xD7 0x97;
   U2 0xD7 0x98; U2 0xD7 0x99; U2 0xD7 0x9A; U2 0xD7 0x9B;
   U2 0xD7 0x9C; U2 0xD7 0x9D; U2 0xD7 0x9E; U2 0xD7 0x9F;
   U2 0xD7 0xA0; U2 0xD7 0xA1; U2 0xD7 0xA2; U2 0xD7 0xA3;
   U2 0xD7 0xA4; U2 0xD7 0xA5; U2 0xD7 0xA6; U2 0xD7 0xA7;
   U2 0xD7 0xA8; U2 0xD7 0xA9; U2 0xD7 0xAA; U2 0x20 0x00;
   U2 0x20 0x00; U2 0x20 0x00; U2 0x20 0x00; U2 0x20 0x00;
   U2 0xD7 0xB0; U2 0xD7 0xB1; U2 0xD7 0xB2; U2 0x20 0x00;
   U2 0x20 0x00; U2 0x20 0x00; U2 0x20 0x00; U2 0x20 0x00;
   U2 0x20 0x00; U2 0x20 0x00; U2 0x20 0x00; U2 0x20 0x00;
   U2 0x20 0x00; U2 0x20 0x00; U2 0x20 0x00; U2 0x20 0x00].

Definition PLANE_2_D8 : Plane2Bytes :=
  [U2 0x20 0x00; U2 0x20 0x00; U2 0x20 0x00; U2 0x20 0x00;
   U2 0x20 0x00; U2 0x20 0x00; U2 0x20 0x00; U2 0x20 0x00;
   U2 0x20 0x00; U2 0x20 0x00; U2 0x20 0x00; U2 0x20 0x00;
   U2 0x20 0x00; U2 0x20 0x00; U2 0x20 0x00; U2 0x20 0x00;
   U2 0x00 0x00; U2 0x00 0x00; U2 0x00 0x00; U2 0x00 0x00;
   U2 0x00 0x00; U2 0x00 0x00; U2 0x00 0x00; U2 0x00 0x00;
   U2 0x00 0x00; U2 0x00 0x00; U2 0x00 0x00; U2 0x20 0x00;
   U2 0x20 0x00; U2 0x20 0x00; U2 0x20 0x00; U2 0x20 0x00;
   U2 0xD8 0xA0; U2 0xD8 0xA1; U2 0xD8 0xA7; U2 0xD8 0xA7;
   U2 0xD9 0x88; U2 0xD8 0xA7; U2 0xD9 0x8A; U2 0xD8 0xA7;
   U2 0xD8 0xA8; U2 0xD8 0xA9; U2 0xD8 0xAA; U2 0xD8 0xAB;
   U2 0xD8 0xAC; U2 0xD8 0xAD; U2 0xD8 0xAE; U2 0xD8 0xAF;
   U2 0xD8 0xB0; U2 0xD8 0xB1; U2 0xD8 0xB2; U2 0xD8 0xB3;
   U2 0xD8 0xB4; U2 0xD8 0xB5; U2 0xD8 0xB6; U2 0xD8 0xB7;
   U2 0xD8 0xB8; U2 0xD8 0xB9; U2 0xD8 0xBA; U2 0xD8 0xBB;
   U2 0xD8 0xBC; U2 0xD8 0xBD; U2 0xD8 0xBE; U2 0xD8 0xBF].

Definition PLANE_2_D9 : Plane2Bytes :=
  [U2 0xD9 0x80; U2 0xD9 0x81; U2 0xD9 0x82; U2 0xD9 0x83;
   U2 0xD9 0x84; U2 0xD9 0x85; U2 0xD9 0x86; U2 0xD9 0x87;
   U2 0xD9 0x88; U2 0xD9 0x89; U2 0xD9 0x8A; U2 0x00 0x00;
   U2 0x00 0x00; U2 0x00 0x00; U2 0x00 0x00; U2 0x00 0x00;
   U2 0x00 0x00; U2 0x00 0x00; U2 0x00 0x00; U2 0x00 0x00;
   U2 0x00 0x00; U2 0x00 0x00; U2 0x00 0x00; U2 0x00 0x00;
   U2 0x00 0x00; U2 0x00 0x00; U2 0x00 0x00; U2 0x00 0x00;
   U2 0x00 0x00; U2 0x00 0x00; U2 0x00 0x00; U2 0x00 0x00;
   U2 0xD9 0xA0; U2 0xD9 0xA1; U2 0xD9 0xA2; U2 0xD9 0xA3;
   U2 0xD9 0xA4; U2 0xD9 0xA5; U2 0xD9 0xA6; U2 0xD9 0xA7;
   U2 0xD9 0xA8; U2 0xD9 0xA9; U2 0x20 0x00; U2 0x20 0x00;
   U2 0x20 0x00; U2 0x20 0x00; U2 0xD9 0xAE; U2 0xD9 0xAF;
   U2 0x00 0x00; U2 0xD9 0xB1; U2 0xD9 0xB2; U2 0xD9 0xB3;
   U2 0xD9 0xB4; U2 0x00 0x08; U2 0x00 0x09; U2 0x00 0x0A;
   U2 0x00 0x0B; U2 0xD9 0xB9; U2 0xD9 0xBA; U2 0xD9 0xBB;
   U2 0xD9 0xBC; U2 0xD9 0xBD; U2 0xD9 0xBE; U2 0xD9 0xBF].

Definition PLANE_2_DA : Plane2Bytes :=
  [U2 0xDA 0x80; U2 0xDA 0x81; U2 0xDA 0x82; U2 0xDA 0x83;
   U2 0xDA 0x84; U2 0xDA 0x85; U2 0xDA 0x86; U2 0xDA 0x87;
   U2 0xDA 0x88; U2 0xDA 0x89; U2 0xDA 0x8A; U2 0xDA 0x8B;
   U2 0xDA 0x8C; U2 0xDA 0x8D; U2 0xDA 0x8E; U2 0xDA 0x8F;
   U2 0xDA 0x90; U2 0xDA 0x91; U2 0xDA 0x92; U2 0xDA 0x93;
   U2 0xDA 0x94; U2 0xDA 0x95; U2 0xDA 0x96; U2 0xDA 0x97;
   U2 0xDA 0x98; U2 0xDA 0x99; U2 0xDA 0x9A; U2 0xDA 0x9B;
   U2 0xDA 0x9C; U2 0xDA 0x9D; U2 0xDA 0x9E; U2 0xDA 0x9F;
   U2 0xDA 0xA0; U2 0xDA 0xA1; U2 0xDA 0xA2; U2 0xDA 0xA3;
   U2 0xDA 0xA4; U2 0xDA 0xA5; U2 0xDA 0xA6; U2 0xDA 0xA7;
   U2 0xDA 0xA8; U2 0xDA 0xA9; U2 0xDA 0xAA; U2 0xDA 0xAB;
   U2 0xDA 0xAC; U2 0xDA 0xAD; U2 0xDA 0xAE; U2 0xDA 0xAF;
   U2 0xDA 0xB0; U2 0xDA 0xB1; U2 0xDA 0xB2; U2 0xDA 0xB3;
   U2 0xDA 0xB4; U2 0xDA 0xB5; U2 0xDA 0xB6; U2 0xDA 0xB7;
   U2 0xDA 0xB8; U2 0xDA 0xB9; U2 0xDA 0xBA; U2 0xDA 0xBB;
   U2 0xDA 0xBC; U2 0xDA 0xBD; U2 0xDA 0xBE; U2 0xDA 0xBF].

Definition PLANE_2_DB : Plane2Bytes :=
  [U2 0xDB 0x95; U2 0xDB 0x81; U2 0xDB 0x81; U2 0xDB 0x83;
   U2 0xDB 0x84; U2 0xDB 0x85; U2 0xDB 0x86; U2 0xDB 0x87;
   U2 0xDB 0x88; U2 0xDB 0x89; U2 0xDB 0x8A; U2 0xDB 0x8B;
   U2 0xDB 0x8C; U2 0xDB 0x8D; U2 0xDB 0x8E; U2 0xDB 0x8F;
   U2 0xDB 0x90; U2 0xDB 0x91; U2 0xDB 0x92; U2 0xDB 0x92;
   U2 0x20 0x00; U2 0xDB 0x95; U2 0x00 0x00; U2 0x00 0x00;
   U2 0x00 0x00; U2 0x00 0x00; U2 0x00 0x00; U2 0x00 0x00;
   U2 0x00 0x00; U2 0x20 0x00; U2 0x20 0x00; U2 0x00 0x00;
   U2 0x00 0x00; U2 0x00 0x00; U2 0x00 0x00; U2 0x00 0x00;
   U2 0x00 0x00; U2 0xDB 0xA5; U2 0xDB 0xA6; U2 0x00 0x00;
   U2 0x00 0x00; U2 0x20 0x00; U2 0x00 0x00; U2 0x00 0x00;
   U2 0x00 0x00; U2 0x00 0x00; U2 0xDB 0xAE; U2 0xDB 0xAF;
   U2 0xDB 0xB0; U2 0xDB 0xB1; U2 0xDB 0xB2; U2 0xDB 0xB3;
   U2 0xDB 0xB4; U2 0xDB 0xB5; U2 0xDB 0xB6; U2 0xDB 0xB7;
   U2 0xDB 0xB8; U2 0xDB 0xB9; U2 0xDB 0xBA; U2 0xDB 0xBB;
   U2 0xDB 0xBC; U2 0x20 0x00; U2 0x20 0x00; U2 0xDB 0xBF].

Definition PLANE_2_DC : Plane2Bytes :=
  [U2 0x20 0x00; U2 0x20 0x00; U2 0x20 0x00; U2 0x20 0x00;
   U2 0x20 0x00; U2 0x20 0x00; U2 0x20 0x00; U2 0x20 0x00;
   U2 0x20 0x00; U2 0x20 0x00; U2 0x20 0x00; U2 0x20 0x00;
   U2 0x20 0x00; U2 0x20 0x00; U2 0x20 0x00; U2 0x20 0x00;
   U2 0xDC 0x90; U2 0x00 0x00; U2 0xDC 0x92; U2 0xDC 0x93;
   U2 0xDC 0x94; U2 0xDC 0x95; U2 0xDC 0x96; U2 0xDC 0x97;
   U2 0xDC 0x98; U2 0xDC 0x99; U2 0xDC 0x9A; U2 0xDC 0x9B;
   U2 0xDC 0x9C; U2 0xDC 0x9D; U2 0xDC 0x9E; U2 0xDC 0x9F;
   U2 0xDC 0xA0; U2 0xDC 0xA1; U2 0xDC 0xA2; U2 0xDC 0xA3;
   U2 0xDC 0xA4; U2 0xDC 0xA5; U2 0xDC 0xA6; U2 0xDC 0xA7;
   U2 0xDC 0xA8; U2 0xDC 0xA9; U2 0xDC 0xAA; U2 0xDC 0xAB;
   U2 0xDC 0xAC; U2 0xDC 0xAD; U2 0xDC 0xAE; U2 0xDC 0xAF;
   U2 0x00 0x00; U2 0x00 0x00; U2 0x00 0x00; U2 0x00 0x00;
   U2 0x00 0x00; U2 0x00 0x00; U2 0x00 0x00; U2 0x00 0x00;
   U2 0x00 0x00; U2 0x00 0x00; U2 0x00 0x00; U2 0x00 0x00;
   U2 0x00 0x00; U2 0x00 0x00; U2 0x00 0x00; U2 0x00 0x00].

Definition PLANE_2_DD : Plane2Bytes :=
  [U2 0x00 0x00; U2 0x00 0x00; U2 0x00 0x00; U2 0x00 0x00;
   U2 0x00 0x00; U2 0x00 0x00; U2 0x00 0x00; U2 0x00 0x00;
   U2 0x00 0x00; U2 0x00 0x00; U2 0x00 0x00; U2 0x20 0x00;
   U2 0x20 0x00; U2 0xDD 0x8D; U2 0xDD 0x8E; U2 0xDD 0x8F;
   U2 0xDD 0x90; U2 0xDD 0x91; U2 0xDD 0x92; U2 0xDD 0x93;
   U2 0xDD 0x94; U2 0xDD 0x95; U2 0xDD 0x96; U2 0xDD 0x97;
   U2 0xDD 0x98; U2 0xDD 0x99; U2 0xDD 0x9A; U2 0xDD 0x9B;
   U2 0xDD 0x9C; U2 0xDD 0x9D; U2 0xDD 0x9E; U2 0xDD 0x9F;
   U2 0xDD 0xA0; U2 0xDD 0xA1; U2 0xDD 0xA2; U2 0xDD 0xA3;
   U2 0xDD 0xA4; U2 0xDD 0xA5; U2 0xDD 0xA6; U2 0xDD 0xA7;
   U2 0xDD 0xA8; U2 0xDD 0xA9; U2 0xDD 0xAA; U2 0xDD 0xAB;
   U2 0xDD 0xAC; U2 0xDD 0xAD; U2 0xDD 0xAE; U2 0xDD 0xAF;
   U2 0xDD 0xB0; U2 0xDD 0xB1; U2 0xDD 0xB2; U2 0xDD 0xB3;
   U2 0xDD 0xB4; U2 0xDD 0xB5; U2 0xDD 0xB6; U2 0xDD 0xB7;
   U2 0xDD 0xB8; U2 0xDD 0xB9; U2 0xDD 0xBA; U2 0xDD 0xBB;
   U2 0xDD 0xBC; U2 0xDD 0xBD; U2 0xDD 0xBE; U2 0xDD 0xBF].

Definition PLANE_2_DE : Plane2Bytes :=
  [U2 0xDE 0x80; U2 0xDE 0x81; U2 0xDE 0x82; U2 0xDE 0x83;
   U2 0xDE 0x84; U2 0xDE 0x85; U2 0xDE 0x86; U2 0xDE 0x87;
   U2 0xDE 0x88; U2 0xDE 0x89; U2 0xDE 0x8A; U2 0xDE 0x8B;
   U2 0xDE 0x8C; U2 0xDE 0x8D; U2 0xDE 0x8E; U2 0xDE 0x8F;
   U2 0xDE 0x90; U2 0xDE 0x91; U2 0xDE 0x92; U2 0xDE 0x93;
   U2 0xDE 0x94; U2 0xDE 0x95; U2 0xDE 0x96; U2 0xDE 0x97;
   U2 0xDE 0x98; U2 0xDE 0x99; U2 0xDE 0x9A; U2 0xDE 0x9B;
   U2 0xDE 0x9C; U2 0xDE 0x9D; U2 0xDE 0x9E; U2 0xDE 0x9F;
   U2 0xDE 0xA0; U2 0xDE 0xA1; U2 0xDE 0xA2; U2 0xDE 0xA3;
   U2 0xDE 0xA4; U2 0xDE 0xA5; U2 0x20 0x00; U2 0x20 0x00;
   U2 0x20 0x00; U2 0x20 0x00; U2 0x20 0x00; U2 0x20 0x00;
   U2 0x20 0x00; U2 0x20 0x00; U2 0x20 0x00; U2 0x20 0x00;
   U2 0x20 0x00; U2 0xDE 0xB1; U2 0x20 0x00; U2 0x20 0x00;
   U2 0x20 0x00; U2 0x20 0x00; U2 0x20 0x00; U2 0x20 0x00;
   U2 0x20 0x00; U2 0x20 0x00; U2 0x20 0x00; U2 0x20 0x00;
   U2 0x20 0x00; U2 0x20 0x00; U2 0x20 0x00; U2 0x20 0x00].

Definition PLANE_2_DF : Plane2Bytes :=
  [U2 0xDF 0x80; U2 0xDF 0x81; U2 0xDF 0x82; U2 0xDF 0x83;
   U2 0xDF 0x84; U2 0xDF 0x85; U2 0xDF 0x86; U2 0xDF 0x87;
   U2 0xDF 0x88; U2 0xDF 0x89; U2 0xDF 0x8A; U2 0xDF 0x8B;
   U2 0xDF 0x8C; U2 0xDF 0x8D; U2 0xDF 0x8E; U2 0xDF 0x8F;
   U2 0xDF 0x90; U2 0xDF 0x91; U2 0xDF 0x92; U2 0xDF 0x93;
   U2 0xDF 0x94; U2 0xDF 0x95; U2 0xDF 0x96; U2 0xDF 0x97;
   U2 0xDF 0x98; U2 0xDF 0x99; U2 0xDF 0x9A; U2 0xDF 0x9B;
   U2 0xDF 0x9C; U2 0xDF 0x9D; U2 0xDF 0x9E; U2 0xDF 0x9F;
   U2 0xDF 0xA0; U2 0xDF 0xA1; U2 0xDF 0xA2; U2 0xDF 0xA3;
   U2 0xDF 0xA4; U2 0xDF 0xA5; U2 0xDF 0xA6; U2 0xDF 0xA7;
   U2 0xDF 0xA8; U2 0xDF 0xA9; U2 0xDF 0xAA; U2 0x00 0x00;
   U2 0x00 0x00; U2 0x00 0x00; U2 0x00 0x00; U2 0x00 0x00;
   U2 0x00 0x00; U2 0x00 0x00; U2 0x00 0x00; U2 0x00 0x00;
   U2 0xDF 0xB4; U2 0xDF 0xB5; U2 0x20 0x00; U2 0x20 0x00;
   U2 0x20 0x00; U2 0x20 0x00; U2 0xDF 0xBA; U2 0x20 0x00;
   U2 0x20 0x00; U2 0x20 0x00; U2 0x20 0x00; U2 0x20 0x00].

Definition TABLE_2 : list Plane2Bytes :=
  [PLANE_2_C2; PLANE_2_C3; PLANE_2_C4; PLANE_2_C5;
   PLANE_2_C6; PLANE_2_C7; PLANE_2_C8; PLANE_2_C9;
   PLANE_2_CA; PLANE_2_CB; PLANE_2_CC; PLANE_2_CD;
   PLANE_2_CE; PLANE_2_CF; PLANE_2_D0; PLANE_2_D1;
   PLANE_2_D2; PLANE_2_D3; PLANE_2_D4; PLANE_2_D5;
   PLANE_2_D6; PLANE_2_D7; PLANE_2_D8; PLANE_2_D9;
   PLANE_2_DA; PLANE_2_DB; PLANE_2_DC; PLANE_2_DD;
   PLANE_2_DE; PLANE_2_DF].

Definition TABLE_2_ : list (list Z) :=
  [[];
   [0x31; 0x20; 0x34];
   [0x31; 0x20; 0x32];
   [0x33; 0x20; 0x34];
   [0xCA; 0xBC; 0x6E];
   [0xE2; 0xB1; 0xA5];
   [0xE2; 0xB1; 0xA6];
   [0xD5; 0xA5; 0xD6; 0x82];
   [0xD8; 0xA7; 0xD9; 0xB4];
   [0xD9; 0x88; 0xD9; 0xB4];
   [0xDB; 0x87; 0xD9; 0xB4];
   [0xD9; 0x8A; 0xD9; 0xB4]].

Definition TABLE_3_E0 : list Plane2Bits :=
  [[0x0010055555555555; 0xAAAAAAAAA0010100];
   [0xAA01555555555555; 0xAAAAAAAAAAAAAAAA];
   [0xAAAAAAAAAAAAAAAA; 0xAAAAA95555555555];
   [0xAAAAAAAAAAAAAAAA; 0x000000000000002A];
   [0x55555555555555AA; 0xA4A5575D555D5555];
   [0xFFFFA801A2AAAAAA; 0x5555555655555AA5];
   [0x55555569695556A9; 0xA4A55A9955595555];
   [0xEFAAAAAA92AAAAAA; 0xAAA555A555555AA5];
   [0x555555696A9556AA; 0xA8A5B6D955595555];
   [0xB9FEAAAAA2AAAAAA; 0xAAAAA95A55555AAA];
   [0x55555565655556AA; 0xA4A5565955595555];
   [0xAAAAAAA9A2AAAAAA; 0xAAA6AAAA55555AA5];
   [0x55555569695556AA; 0xA4A5565955595555];
   [0x6FAAAAAAA2AAAAAA; 0xAAAA555655555AA5];
   [0x5996A7595A95566A; 0xAAA555555A95A96A];
   [0xAAAAAAA9A2AAAAAA; 0xAAAAAA9555555AAA];
   [0x55555559595556AA; 0xA6A5555555595555];
   [0xAA9582AAA2AAAAAA; 0x9555AAAA55555AA5];
   [0x55555559595556AA; 0xA4A5565555595555];
   [0x9AAAAAAAA2AAAAAA; 0xAAAAAA9655555AA5];
   [0x55555559595556AA; 0xA695555555555555];
   [0x6AAAAAAA92AAAAAA; 0x555AA55555555AA5];
   [0x555A9555555556AA; 0xA655556555555555];
   [0xAAAAAAAAAA8A9555; 0xAAAAAAAA55555AAA];
   [0x5555555555555556; 0xAA80AAD955555555];
   [0xAAA55555AA009555; 0xAAAAAAAAAAAAAAAA];
   [0x555655AAA6996996; 0xA6A0AAD9565A6656];
   [0x5FA55555AA009955; 0xAAAAAAAAAAAAAAAA];
   [0xAAA0AAAAAAAAAAA9; 0xAAA2225555555555];
   [0x5755D5755D5655D5; 0xA00AA002A95D5555];
   [0xAAAAAAAAA9550800; 0xAAAAAAAAAAAAAAAA];
   [0xAAAAAAAAAAAA8AAA; 0xAAAAAAAAAAAAAAAA]].

Definition TABLE_3_E0_ : list Z :=
  [0x95; 0x96; 0x97; 0x9C; 0xA1; 0xA2; 0xAB; 0xAF].

Definition TABLE_3_E1_1 : list Plane2Bits :=
  [[0x5555555555555555; 0x6A822AAAAA957555];
   [0xA55AA555AAA55555; 0x555556A95AAA96A6];
   [0xAAA5555592AAAAA5; 0xFFFFFFFFFFFFFFFF];
   [0x55555555AEAAEFFF; 0x5795555555555555];
   [0x5555555555555555; 0x5555555555555555];
   [0x5555555555555555; 0x5555555555555555];
   [0x5555555555555555; 0x5555555555555555];
   [0x5555555555555555; 0x5555555555555555];
   [0x5555555555555555; 0x5555555555555555];
   [0xA5599555A5595555; 0x5555555555555555];
   [0x55555555A5595555; 0x9555A55955555555];
   [0x555595555555A559; 0x5555555555555555];
   [0x5555A55955555555; 0x5555555555555555];
   [0x0295555555555555; 0xA95555555556AAAA];
   [0xAAAAAAAA55555555; 0x5555555555555555];
   [0x5555555555555555; 0xAFFFA55555555555];
   [0x5555555555555556; 0x5555555555555555];
   [0x5555555555555555; 0x5555555555555555];
   [0x5555555555555555; 0x5555555555555555];
   [0x5555555555555555; 0x5555555555555555];
   [0x5555555555555555; 0x5555555555555555];
   [0x5555555555555555; 0x5555555555555555];
   [0x5555555555555555; 0x5555555555555555];
   [0x5555555555555555; 0x5555555555555555];
   [0x5555555555555555; 0x5555555555555555];
   [0x5555555555555555; 0x5555555569555555];
   [0xAA95555555555556; 0x5555555555555555];
   [0x5555555555555555; 0xAAA955555A955555];
   [0xAAAAA8A559555555; 0xAAAAA8A555555555];
   [0xAAAAAAA555555555; 0xAAAAAAA959555555];
   [0x5555555555555555; 0xAAAAAA5555555555];
   [0xA1AA6A8AAAAAAAAA; 0xAAA55555AAA55555];
   [0xAAA55555AAAAAAAA; 0x5555555555555555];
   [0x5555555555555555; 0xAAAA555555555555];
   [0x5555555555555555; 0x55555555AA915555];
   [0x5555555555555555; 0xAAAAA55555555555];
   [0x9555555555555555; 0xAA02AAAAAAAAAAAA];
   [0x5555555555555AAA; 0xAAAAA955A5555555];
   [0x5555555555555555; 0x55555555AA555555];
   [0xAA955555AAA55555; 0xAAAAAAAAAAAAAAAA];
   [0xAAA8155555555555; 0x5555555555555555];
   [0xAAAAA95555555555; 0x280002AAAAAAAAA8];
   [0xAAA55555AAA55555; 0xA0000000AAAA6AAA];
   [0xAAAAAAAAAAAAAAAA; 0xAAAAAAAAAAAAAAAA];
   [0x55555575777776AA; 0xAAAAA85555555555];
   [0xAAA55555AA5554AA; 0xAAAAAA00002AAAAA];
   [0x555555555555556A; 0x555555555A0AAAA9];
   [0x5555555555555555; 0xAAAAAA0AAAAA8555];
   [0x5555555555555555; 0xAAAA2AAAAAAAAA55];
   [0x5555555556A55555; 0xA555555555555555];
   [0xAAAAAAAAAAAAAAAA; 0xAAAAAAAAAAAAAAAA];
   [0x00000080AAAAAAAA; 0xAAA094A551540008]].

Definition PLANE_3_E1_2_B4 : Plane2Bytes :=
  [U2 0x00 0xFF; U2 0x00 0xFF; U2 0x00 0xFF; U2 0x00 0xFF;
   U2 0x00 0xFF; U2 0x00 0xFF; U2 0x00 0xFF; U2 0x00 0xFF;
   U2 0x00 0xFF; U2 0x00 0xFF; U2 0x00 0xFF; U2 0x00 0xFF;
   U2 0x00 0xFF; U2 0x00 0xFF; U2 0x00 0xFF; U2 0x00 0xFF;
   U2 0x00 0xFF; U2 0x00 0xFF; U2 0x00 0xFF; U2 0x00 0xFF;
   U2 0x00 0xFF; U2 0x00 0xFF; U2 0x00 0xFF; U2 0x00 0xFF;
   U2 0x00 0xFF; U2 0x00 0xFF; U2 0x00 0xFF; U2 0x00 0xFF;
   U2 0x00 0xFF; U2 0x00 0xFF; U2 0x00 0xFF; U2 0x00 0xFF;
   U2 0x00 0xFF; U2 0x00 0xFF; U2 0x00 0xFF; U2 0x00 0xFF;
   U2 0x00 0xFF; U2 0x00 0xFF; U2 0x00 0xFF; U2 0x00 0xFF;
   U2 0x00 0xFF; U2 0x00 0xFF; U2 0x00 0xFF; U2 0x00 0xFF;
   U2 0x61 0x00; U2 0xC3 0xA6; U2 0x62 0x00; U2 0x00 0xFF;
   U2 0x64 0x00; U2 0x65 0x00; U2 0xC7 0x9D; U2 0x67 0x00;
   U2 0x68 0x00; U2 0x69 0x00; U2 0x6A 0x00; U2 0x6B 0x00;
   U2 0x6C 0x00; U2 0x6D 0x00; U2 0x6E 0x00; U2 0x00 0xFF;
   U2 0x6F 0x00; U2 0xC8 0xA3; U2 0x70 0x00; U2 0x72 0x00].

Definition PLANE_3_E1_2_B5 : Plane2Bytes :=
  [U2 0x74 0x00; U2 0x75 0x00; U2 0x77 0x00; U2 0x61 0x00;
   U2 0xC9 0x90; U2 0xC9 0x91; U2 0x00 0x01; U2 0x62 0x00;
   U2 0x64 0x00; U2 0x65 0x00; U2 0xC9 0x99; U2 0xC9 0x9B;
   U2 0xC9 0x9C; U2 0x67 0x00; U2 0x00 0xFF; U2 0x6B 0x00;
   U2 0x6D 0x00; U2 0xC5 0x8B; U2 0x6F 0x00; U2 0xC9 0x94;
   U2 0x00 0x02; U2 0x00 0x03; U2 0x70 0x00; U2 0x74 0x00;
   U2 0x75 0x00; U2 0x00 0x04; U2 0xC9 0xAF; U2 0x76 0x00;
   U2 0x00 0x05; U2 0xCE 0xB2; U2 0xCE 0xB3; U2 0xCE 0xB4;
   U2 0xCF 0x86; U2 0xCF 0x87; U2 0x69 0x00; U2 0x72 0x00;
   U2 0x75 0x00; U2 0x76 0x00; U2 0xCE 0xB2; U2 0xCE 0xB3;
   U2 0xCF 0x81; U2 0xCF 0x86; U2 0xCF 0x87; U2 0x00 0xFF;
   U2 0x00 0xFF; U2 0x00 0xFF; U2 0x00 0xFF; U2 0x00 0xFF;
   U2 0x00 0xFF; U2 0x00 0xFF; U2 0x00 0xFF; U2 0x00 0xFF;
   U2 0x00 0xFF; U2 0x00 0xFF; U2 0x00 0xFF; U2 0x00 0xFF;
   U2 0xD0 0xBD; U2 0x00 0xFF; U2 0x00 0xFF; U2 0x00 0xFF;
   U2 0x00 0xFF; U2 0x00 0xFF; U2 0x00 0xFF; U2 0x00 0xFF].

Definition PLANE_3_E1_2_B6 : Plane2Bytes :=
  [U2 0x00 0xFF; U2 0x00 0xFF; U2 0x00 0xFF; U2 0x00 0xFF;
   U2 0x00 0xFF; U2 0x00 0xFF; U2 0x00 0xFF; U2 0x00 0xFF;
   U2 0x00 0xFF; U2 0x00 0xFF; U2 0x00 0xFF; U2 0x00 0xFF;
   U2 0x00 0xFF; U2 0x00 0xFF; U2 0x00 0xFF; U2 0x00 0xFF;
   U2 0x00 0xFF; U2 0x00 0xFF; U2 0x00 0xFF; U2 0x00 0xFF;
   U2 0x00 0xFF; U2 0x00 0xFF; U2 0x00 0xFF; U2 0x00 0xFF;
   U2 0x00 0xFF; U2 0x00 0xFF; U2 0x00 0xFF; U2 0xC9 0x92;
   U2 0x63 0x00; U2 0xC9 0x95; U2 0xC3 0xB0; U2 0xC9 0x9C;
   U2 0x66 0x00; U2 0xC9 0x9F; U2 0xC9 0xA1; U2 0xC9 0xA5;
   U2 0xC9 0xA8; U2 0xC9 0xA9; U2 0xC9 0xAA; U2 0x00 0x06;
   U2 0xCA 0x9D; U2 0xC9 0xAD; U2 0x00 0x07; U2 0xCA 0x9F;
   U2 0xC9 0xB1; U2 0xC9 0xB0; U2 0xC9 0xB2; U2 0xC9 0xB3;
   U2 0xC9 0xB4; U2 0xC9 0xB5; U2 0xC9 0xB8; U2 0xCA 0x82;
   U2 0xCA 0x83; U2 0xC6 0xAB; U2 0xCA 0x89; U2 0xCA 0x8A;
   U2 0x00 0x08; U2 0xCA 0x8B; U2 0xCA 0x8C; U2 0x7A 0x00;
   U2 0xCA 0x90; U2 0xCA 0x91; U2 0xCA 0x92; U2 0xCE 0xB8].

Definition PLANE_3_E1_2_B7 : Plane2Bytes :=
  [U2 0x00 0x00; U2 0x00 0x00; U2 0x00 0x00; U2 0x00 0x00;
   U2 0x00 0x00; U2 0x00 0x00; U2 0x00 0x00; U2 0x00 0x00;
   U2 0x00 0x00; U2 0x00 0x00; U2 0x00 0x00; U2 0x00 0x00;
   U2 0x00 0x00; U2 0x00 0x00; U2 0x00 0x00; U2 0x00 0x00;
   U2 0x00 0x00; U2 0x00 0x00; U2 0x00 0x00; U2 0x00 0x00;
   U2 0x00 0x00; U2 0x00 0x00; U2 0x00 0x00; U2 0x00 0x00;
   U2 0x00 0x00; U2 0x00 0x00; U2 0x00 0x00; U2 0x00 0x00;
   U2 0x00 0x00; U2 0x00 0x00; U2 0x00 0x00; U2 0x00 0x00;
   U2 0x00 0x00; U2 0x00 0x00; U2 0x00 0x00; U2 0x00 0x00;
   U2 0x00 0x00; U2 0x00 0x00; U2 0x00 0x00; U2 0x00 0x00;
   U2 0x00 0x00; U2 0x00 0x00; U2 0x00 0x00; U2 0x00 0x00;
   U2 0x00 0x00; U2 0x00 0x00; U2 0x00 0x00; U2 0x00 0x00;
   U2 0x00 0x00; U2 0x00 0x00; U2 0x00 0x00; U2 0x00 0x00;
   U2 0x00 0x00; U2 0x00 0x00; U2 0x20 0x00; U2 0x20 0x00;
   U2 0x20 0x00; U2 0x20 0x00; U2 0x20 0x00; U2 0x20 0x00;
   U2 0x00 0x00; U2 0x00 0x00; U2 0x00 0x00; U2 0x00 0x00].

Definition PLANE_3_E1_2_B8 : Plane2Bytes :=
  [U2 0x61 0x00; U2 0x61 0x00; U2 0x62 0x00; U2 0x62 0x00;
   U2 0x62 0x00; U2 0x62 0x00; U2 0x62 0x00; U2 0x62 0x00;
   U2 0x63 0x00; U2 0x63 0x00; U2 0x64 0x00; U2 0x64 0x00;
   U2 0x64 0x00; U2 0x64 0x00; U2 0x64 0x00; U2 0x64 0x00;
   U2 0x64 0x00; U2 0x64 0x00; U2 0x64 0x00; U2 0x64 0x00;
   U2 0x65 0x00; U2 0x65 0x00; U2 0x65 0x00; U2 0x65 0x00;
   U2 0x65 0x00; U2 0x65 0x00; U2 0x65 0x00; U2 0x65 0x00;
   U2 0x65 0x00; U2 0x65 0x00; U2 0x66 0x00; U2 0x66 0x00;
   U2 0x67 0x00; U2 0x67 0x00; U2 0x68 0x00; U2 0x68 0x00;
   U2 0x68 0x00; U2 0x68 0x00; U2 0x68 0x00; U2 0x68 0x00;
   U2 0x68 0x00; U2 0x68 0x00; U2 0x68 0x00; U2 0x68 0x00;
   U2 0x69 0x00; U2 0x69 0x00; U2 0x69 0x00; U2 0x69 0x00;
   U2 0x6B 0x00; U2 0x6B 0x00; U2 0x6B 0x00; U2 0x6B 0x00;
   U2 0x6B 0x00; U2 0x6B 0x00; U2 0x6C 0x00; U2 0x6C 0x00;
   U2 0x6C 0x00; U2 0x6C 0x00; U2 0x6C 0x00; U2 0x6C 0x00;
   U2 0x6C 0x00; U2 0x6C 0x00; U2 0x6D 0x00; U2 0x6D 0x00].

Definition PLANE_3_E1_2_B9 : Plane2Bytes :=
  [U2 0x6D 0x00; U2 0x6D 0x00; U2 0x6D 0x00; U2 0x6D 0x00;
   U2 0x6E 0x00; U2 0x6E 0x00; U2 0x6E 0x00; U2 0x6E 0x00;
   U2 0x6E 0x00; U2 0x6E 0x00; U2 0x6E 0x00; U2 0x6E 0x00;
   U2 0x6F 0x00; U2 0x6F 0x00; U2 0x6F 0x00; U2 0x6F 0x00;
   U2 0x6F 0x00; U2 0x6F 0x00; U2 0x6F 0x00; U2 0x6F 0x00;
   U2 0x70 0x00; U2 0x70 0x00; U2 0x70 0x00; U2 0x70 0x00;
   U2 0x72 0x00; U2 0x72 0x00; U2 0x72 0x00; U2 0x72 0x00;
   U2 0x72 0x00; U2 0x72 0x00; U2 0x72 0x00; U2 0x72 0x00;
   U2 0x73 0x00; U2 0x73 0x00; U2 0x73 0x00; U2 0x73 0x00;
   U2 0x73 0x00; U2 0x73 0x00; U2 0x73 0x00; U2 0x73 0x00;
   U2 0x73 0x00; U2 0x73 0x00; U2 0x74 0x00; U2 0x74 0x00;
   U2 0x74 0x00; U2 0x74 0x00; U2 0x74 0x00; U2 0x74 0x00;
   U2 0x74 0x00; U2 0x74 0x00; U2 0x75 0x00; U2 0x75 0x00;
   U2 0x75 0x00; U2 0x75 0x00; U2 0x75 0x00; U2 0x75 0x00;
   U2 0x75 0x00; U2 0x75 0x00; U2 0x75 0x00; U2 0x75 0x00;
   U2 0x76 0x00; U2 0x76 0x00; U2 0x76 0x00; U2 0x76 0x00].

Definition PLANE_3_E1_2_BA : Plane2Bytes :=
  [U2 0x77 0x00; U2 0x77 0x00; U2 0x77 0x00; U2 0x77 0x00;
   U2 0x77 0x00; U2 0x77 0x00; U2 0x77 0x00; U2 0x77 0x00;
   U2 0x77 0x00; U2 0x77 0x00; U2 0x78 0x00; U2 0x78 0x00;
   U2 0x78 0x00; U2 0x78 0x00; U2 0x79 0x00; U2 0x79 0x00;
   U2 0x7A 0x00; U2 0x7A 0x00; U2 0x7A 0x00; U2 0x7A 0x00;
   U2 0x7A 0x00; U2 0x7A 0x00; U2 0x68 0x00; U2 0x74 0x00;
   U2 0x77 0x00; U2 0x79 0x00; U2 0x00 0x09; U2 0x73 0x00;
   U2 0x00 0xFF; U2 0x00 0xFF; U2 0x73 0x73; U2 0x00 0xFF;
   U2 0x61 0x00; U2 0x61 0x00; U2 0x61 0x00; U2 0x61 0x00;
   U2 0x61 0x00; U2 0x61 0x00; U2 0x61 0x00; U2 0x61 0x00;
   U2 0x61 0x00; U2 0x61 0x00; U2 0x61 0x00; U2 0x61 0x00;
   U2 0x61 0x00; U2 0x61 0x00; U2 0x61 0x00; U2 0x61 0x00;
   U2 0x61 0x00; U2 0x61 0x00; U2 0x61 0x00; U2 0x61 0x00;
   U2 0x61 0x00; U2 0x61 0x00; U2 0x61 0x00; U2 0x61 0x00;
   U2 0x65 0x00; U2 0x65 0x00; U2 0x65 0x00; U2 0x65 0x00;
   U2 0x65 0x00; U2 0x65 0x00; U2 0x65 0x00; U2 0x65 0x00].

Definition PLANE_3_E1_2_BB : Plane2Bytes :=
  [U2 0x65 0x00; U2 0x65 0x00; U2 0x65 0x00; U2 0x65 0x00;
   U2 0x65 0x00; U2 0x65 0x00; U2 0x65 0x00; U2 0x65 0x00;
   U2 0x69 0x00; U2 0x69 0x00; U2 0x69 0x00; U2 0x69 0x00;
   U2 0x6F 0x00; U2 0x6F 0x00; U2 0x6F 0x00; U2 0x6F 0x00;
   U2 0x6F 0x00; U2 0x6F 0x00; U2 0x6F 0x00; U2 0x6F 0x00;
   U2 0x6F 0x00; U2 0x6F 0x00; U2 0x6F 0x00; U2 0x6F 0x00;
   U2 0x6F 0x00; U2 0x6F 0x00; U2 0x6F 0x00; U2 0x6F 0x00;
   U2 0x6F 0x00; U2 0x6F 0x00; U2 0x6F 0x00; U2 0x6F 0x00;
   U2 0x6F 0x00; U2 0x6F 0x00; U2 0x6F 0x00; U2 0x6F 0x00;
   U2 0x75 0x00; U2 0x75 0x00; U2 0x75 0x00; U2 0x75 0x00;
   U2 0x75 0x00; U2 0x75 0x00; U2 0x75 0x00; U2 0x75 0x00;
   U2 0x75 0x00; U2 0x75 0x00; U2 0x75 0x00; U2 0x75 0x00;
   U2 0x75 0x00; U2 0x75 0x00; U2 0x79 0x00; U2 0x79 0x00;
   U2 0x79 0x00; U2 0x79 0x00; U2 0x79 0x00; U2 0x79 0x00;
   U2 0x79 0x00; U2 0x79 0x00; U2 0x00 0x0A; U2 0x00 0xFF;
   U2 0x00 0x0B; U2 0x00 0xFF; U2 0x00 0x0C; U2 0x00 0xFF].

Definition PLANE_3_E1_2_BC : Plane2Bytes :=
  [U2 0xCE 0xB1; U2 0xCE 0xB1; U2 0xCE 0xB1; U2 0xCE 0xB1;
   U2 0xCE 0xB1; U2 0xCE 0xB1; U2 0xCE 0xB1; U2 0xCE 0xB1;
   U2 0xCE 0xB1; U2 0xCE 0xB1; U2 0xCE 0xB1; U2 0xCE 0xB1;
   U2 0xCE 0xB1; U2 0xCE 0xB1; U2 0xCE 0xB1; U2 0xCE 0xB1;
   U2 0xCE 0xB5; U2 0xCE 0xB5; U2 0xCE 0xB5; U2 0xCE 0xB5;
   U2 0xCE 0xB5; U2 0xCE 0xB5; U2 0x20 0x00; U2 0x20 0x00;
   U2 0xCE 0xB5; U2 0xCE 0xB5; U2 0xCE 0xB5; U2 0xCE 0xB5;
   U2 0xCE 0xB5; U2 0xCE 0xB5; U2 0x20 0x00; U2 0x20 0x00;
   U2 0xCE 0xB7; U2 0xCE 0xB7; U2 0xCE 0xB7; U2 0xCE 0xB7;
   U2 0xCE 0xB7; U2 0xCE 0xB7; U2 0xCE 0xB7; U2 0xCE 0xB7;
   U2 0xCE 0xB7; U2 0xCE 0xB7; U2 0xCE 0xB7; U2 0xCE 0xB7;
   U2 0xCE 0xB7; U2 0xCE 0xB7; U2 0xCE 0xB7; U2 0xCE 0xB7;
   U2 0xCE 0xB9; U2 0xCE 0xB9; U2 0xCE 0xB9; U2 0xCE 0xB9;
   U2 0xCE 0xB9; U2 0xCE 0xB9; U2 0xCE 0xB9; U2 0xCE 0xB9;
   U2 0xCE 0xB9; U2 0xCE 0xB9; U2 0xCE 0xB9; U2 0xCE 0xB9;
   U2 0xCE 0xB9; U2 0xCE 0xB9; U2 0xCE 0xB9; U2 0xCE 0xB9].

Definition PLANE_3_E1_2_BD : Plane2Bytes :=
  [U2 0xCE 0xBF; U2 0xCE 0xBF; U2 0xCE 0xBF; U2 0xCE 0xBF;
   U2 0xCE 0xBF; U2 0xCE 0xBF; U2 0x20 0x00; U2 0x20 0x00;
   U2 0xCE 0xBF; U2 0xCE 0xBF; U2 0xCE 0xBF; U2 0xCE 0xBF;
   U2 0xCE 0xBF; U2 0xCE 0xBF; U2 0x20 0x00; U2 0x20 0x00;
   U2 0xCF 0x85; U2 0xCF 0x85; U2 0xCF 0x85; U2 0xCF 0x85;
   U2 0xCF 0x85; U2 0xCF 0x85; U2 0xCF 0x85; U2 0xCF 0x85;
   U2 0x20 0x00; U2 0xCF 0x85; U2 0x20 0x00; U2 0xCF 0x85;
   U2 0x20 0x00; U2 0xCF 0x85; U2 0x20 0x00; U2 0xCF 0x85;
   U2 0xCF 0x89; U2 0xCF 0x89; U2 0xCF 0x89; U2 0xCF 0x89;
   U2 0xCF 0x89; U2 0xCF 0x89; U2 0xCF 0x89; U2 0xCF 0x89;
   U2 0xCF 0x89; U2 0xCF 0x89; U2 0xCF 0x89; U2 0xCF 0x89;
   U2 0xCF 0x89; U2 0xCF 0x89; U2 0xCF 0x89; U2 0xCF 0x89;
   U2 0xCE 0xB1; U2 0xCE 0xB1; U2 0xCE 0xB5; U2 0xCE 0xB5;
   U2 0xCE 0xB7; U2 0xCE 0xB7; U2 0xCE 0xB9; U2 0xCE 0xB9;
   U2 0xCE 0xBF; U2 0xCE 0xBF; U2 0xCF 0x85; U2 0xCF 0x85;
   U2 0xCF 0x89; U2 0xCF 0x89; U2 0x20 0x00; U2 0x20 0x00].

Definition PLANE_3_E1_2_BE : Plane2Bytes :=
  [U2 0xCE 0xB1; U2 0xCE 0xB1; U2 0xCE 0xB1; U2 0xCE 0xB1;
   U2 0xCE 0xB1; U2 0xCE 0xB1; U2 0xCE 0xB1; U2 0xCE 0xB1;
   U2 0xCE 0xB1; U2 0xCE 0xB1; U2 0xCE 0xB1; U2 0xCE 0xB1;
   U2 0xCE 0xB1; U2 0xCE 0xB1; U2 0xCE 0xB1; U2 0xCE 0xB1;
   U2 0xCE 0xB7; U2 0xCE 0xB7; U2 0xCE 0xB7; U2 0xCE 0xB7;
   U2 0xCE 0xB7; U2 0xCE 0xB7; U2 0xCE 0xB7; U2 0xCE 0xB7;
   U2 0xCE 0xB7; U2 0xCE 0xB7; U2 0xCE 0xB7; U2 0xCE 0xB7;
   U2 0xCE 0xB7; U2 0xCE 0xB7; U2 0xCE 0xB7; U2 0xCE 0xB7;
   U2 0xCF 0x89; U2 0xCF 0x89; U2 0xCF 0x89; U2 0xCF 0x89;
   U2 0xCF 0x89; U2 0xCF 0x89; U2 0xCF 0x89; U2 0xCF 0x89;
   U2 0xCF 0x89; U2 0xCF 0x89; U2 0xCF 0x89; U2 0xCF 0x89;
   U2 0xCF 0x89; U2 0xCF 0x89; U2 0xCF 0x89; U2 0xCF 0x89;
   U2 0xCE 0xB1; U2 0xCE 0xB1; U2 0xCE 0xB1; U2 0xCE 0xB1;
   U2 0xCE 0xB1; U2 0x20 0x00; U2 0xCE 0xB1; U2 0xCE 0xB1;
   U2 0xCE 0xB1; U2 0xCE 0xB1; U2 0xCE 0xB1; U2 0xCE 0xB1;
   U2 0xCE 0xB1; U2 0x20 0x00; U2 0xCE 0xB9; U2 0x20 0x00].

Definition PLANE_3_E1_2_BF : Plane2Bytes :=
  [U2 0x20 0x00; U2 0x20 0x00; U2 0xCE 0xB7; U2 0xCE 0xB7;
   U2 0xCE 0xB7; U2 0x20 0x00; U2 0xCE 0xB7; U2 0xCE 0xB7;
   U2 0xCE 0xB5; U2 0xCE 0xB5; U2 0xCE 0xB7; U2 0xCE 0xB7;
   U2 0xCE 0xB7; U2 0x20 0x00; U2 0x20 0x00; U2 0x20 0x00;
   U2 0xCE 0xB9; U2 0xCE 0xB9; U2 0xCE 0xB9; U2 0xCE 0xB9;
   U2 0x20 0x00; U2 0x20 0x00; U2 0xCE 0xB9; U2 0xCE 0xB9;
   U2 0xCE 0xB9; U2 0xCE 0xB9; U2 0xCE 0xB9; U2 0xCE 0xB9;
   U2 0x20 0x00; U2 0x20 0x00; U2 0x20 0x00; U2 0x20 0x00;
   U2 0xCF 0x85; U2 0xCF 0x85; U2 0xCF 0x85; U2 0xCF 0x85;
   U2 0xCF 0x81; U2 0xCF 0x81; U2 0xCF 0x85; U2 0xCF 0x85;
   U2 0xCF 0x85; U2 0xCF 0x85; U2 0xCF 0x85; U2 0xCF 0x85;
   U2 0xCF 0x81; U2 0x20 0x00; U2 0x20 0x00; U2 0x20 0x00;
   U2 0x20 0x00; U2 0x20 0x00; U2 0xCF 0x89; U2 0xCF 0x89;
   U2 0xCF 0x89; U2 0x20 0x00; U2 0xCF 0x89; U2 0xCF 0x89;
   U2 0xCE 0xBF; U2 0xCE 0xBF; U2 0xCF 0x89; U2 0xCF 0x89;
   U2 0xCF 0x89; U2 0x20 0x00; U2 0x20 0x00; U2 0x20 0x00].

Definition TABLE_3_E1_2 : list Plane2Bytes :=
  [PLANE_3_E1_2_B4; PLANE_3_E1_2_B5; PLANE_3_E1_2_B6; PLANE_3_E1_2_B7;
   PLANE_3_E1_2_B8; PLANE_3_E1_2_B9; PLANE_3_E1_2_BA; PLANE_3_E1_2_BB;
   PLANE_3_E1_2_BC; PLANE_3_E1_2_BD; PLANE_3_E1_2_BE; PLANE_3_E1_2_BF].

Definition TABLE_3_E1_2_ : list (list Z) :=
  [[];
   [0xE1; 0xB4; 0x82];
   [0xE1; 0xB4; 0x96];
   [0xE1; 0xB4; 0x97];
   [0xE1; 0xB4; 0x9D];
   [0xE1; 0xB4; 0xA5];
   [0xE1; 0xB5; 0xBB];
   [0xE1; 0xB6; 0x85];
   [0xE1; 0xB4; 0x9C];
   [0x61; 0xCA; 0xBE];
   [0xE1; 0xBB; 0xBB];
   [0xE1; 0xBB; 0xBD];
   [0xE1; 0xBB; 0xBF]].

Definition PLANE_3_E2_1_80 : Plane1Byte :=
  [0x20; 0x20; 0x20; 0x20; 0x20; 0x20; 0x20; 0x20;
   0x20; 0x20; 0x20; 0x20; 0x20; 0x20; 0x20; 0x20;
   0x20; 0x20; 0x20; 0x20; 0x20; 0x20; 0x20; 0x20;
   0x20; 0x20; 0x20; 0x20; 0x20; 0x20; 0x20; 0x20;
   0x20; 0x20; 0x20; 0x20; 0x20; 0x20; 0x20; 0x20;
   0x20; 0x20; 0x20; 0x20; 0x20; 0x20; 0x20; 0x20;
   0x20; 0x20; 0x20; 0x20; 0x20; 0x20; 0x20; 0x20;
   0x20; 0x20; 0x20; 0x20; 0x20; 0x20; 0x20; 0x20].

Definition PLANE_3_E2_1_81 : Plane1Byte :=
  [0x20; 0x20; 0x20; 0x20; 0x20; 0x20; 0x20; 0x20;
   0x20; 0x20; 0x20; 0x20; 0x20; 0x20; 0x20; 0x20;
   0x20; 0x20; 0x20; 0x20; 0x20; 0x20; 0x20; 0x20;
   0x20; 0x20; 0x20; 0x20; 0x20; 0x20; 0x20; 0x20;
   0x20; 0x20; 0x20; 0x20; 0x20; 0x20; 0x20; 0x20;
   0x20; 0x20; 0x20; 0x20; 0x20; 0x20; 0x20; 0x20;
   0x30; 0x69; 0x20; 0x20; 0x34; 0x35; 0x36; 0x37;
   0x38; 0x39; 0x20; 0x20; 0x20; 0x20; 0x20; 0x6E].

Definition PLANE_3_E2_1_82 : Plane1Byte :=
  [0x30; 0x31; 0x32; 0x33; 0x34; 0x35; 0x36; 0x37;
   0x38; 0x39; 0x20; 0x20; 0x20; 0x20; 0x20; 0x20;
   0x61; 0x65; 0x6F; 0x78; 0x01; 0x68; 0x6B; 0x6C;
   0x6D; 0x6E; 0x70; 0x73; 0x74; 0x20; 0x20; 0x20;
   0x20; 0x20; 0x20; 0x20; 0x20; 0x20; 0x20; 0x20;
   0x02; 0x20; 0x20; 0x20; 0x20; 0x20; 0x20; 0x20;
   0x20; 0x20; 0x20; 0x20; 0x20; 0x20; 0x20; 0x20;
   0x20; 0x20; 0x20; 0x20; 0x20; 0x20; 0x20; 0x20].

Definition PLANE_3_E2_1_83 : Plane1Byte :=
  [0x20; 0x20; 0x20; 0x20; 0x20; 0x20; 0x20; 0x20;
   0x20; 0x20; 0x20; 0x20; 0x20; 0x20; 0x20; 0x20;
   0x00; 0x00; 0x00; 0x00; 0x00; 0x00; 0x00; 0x00;
   0x00; 0x00; 0x00; 0x00; 0x00; 0x20; 0x20; 0x20;
   0x20; 0x00; 0x20; 0x20; 0x20; 0x00; 0x00; 0x00;
   0x00; 0x00; 0x00; 0x00; 0x00; 0x00; 0x00; 0x00;
   0x00; 0x20; 0x20; 0x20; 0x20; 0x20; 0x20; 0x20;
   0x20; 0x20; 0x20; 0x20; 0x20; 0x20; 0x20; 0x20].

Definition PLANE_3_E2_1_84 : Plane1Byte :=
  [0x03; 0x04; 0x63; 0x05; 0x20; 0x06; 0x07; 0x08;
   0x20; 0x09; 0x67; 0x68; 0x68; 0x68; 0x68; 0x0A;
   0x69; 0x69; 0x6C; 0x6C; 0x20; 0x6E; 0x0B; 0x20;
   0x20; 0x70; 0x71; 0x72; 0x72; 0x72; 0x20; 0x20;
   0x0C; 0x0D; 0x0E; 0x20; 0x7A; 0x20; 0x0F; 0x20;
   0x7A; 0x20; 0x6B; 0x61; 0x62; 0x63; 0x20; 0x65;
   0x65; 0x66; 0x10; 0x6D; 0x6F; 0x11; 0x12; 0x13;
   0x14; 0x69; 0x20; 0x15; 0x16; 0x17; 0x18; 0x19].

Definition TABLE_3_E2_1 : list Plane1Byte :=
  [PLANE_3_E2_1_80; PLANE_3_E2_1_81; PLANE_3_E2_1_82; PLANE_3_E2_1_83;
   PLANE_3_E2_1_84].

Definition TABLE_3_E2_1_ : list (list Z) :=
  [[];
   [0xC9; 0x99];
   [0x72; 0x73];
   [0x61; 0x20; 0x63];
   [0x61; 0x20; 0x73];
   [0x20; 0x63];
   [0x63; 0x20; 0x6F];
   [0x63; 0x20; 0x75];
   [0xC9; 0x9B];
   [0x20; 0x66];
   [0xC4; 0xA7];
   [0x6E; 0x6F];
   [0x73; 0x6D];
   [0x74; 0x65; 0x6C];
   [0x74; 0x6D];
   [0xCF; 0x89];
   [0xE2; 0x85; 0x8E];
   [0xD7; 0x90];
   [0xD7; 0x91];
   [0xD7; 0x92];
   [0xD7; 0x93];
   [0x66; 0x61; 0x78];
   [0xCF; 0x80];
   [0xCE; 0xB3];
   [0xCE; 0xB3];
   [0xCF; 0x80]].

Definition PLANE_3_E2_2_85 : Plane4Bytes :=
  [U4 0x20 0x00 0x00 0x00; U4 0x20 0x00 0x00 0x00; U4 0x20 0x00 0x00 0x00; U4 0x20 0x00 0x00 0x00;
   U4 0x20 0x00 0x00 0x00; U4 0x64 0x00 0x00 0x00; U4 0x64 0x00 0x00 0x00; U4 0x65 0x00 0x00 0x00;
   U4 0x69 0x00 0x00 0x00; U4 0x6A 0x00 0x00 0x00; U4 0x20 0x00 0x00 0x00; U4 0x20 0x00 0x00 0x00;
   U4 0x20 0x00 0x00 0x00; U4 0x20 0x00 0x00 0x00; U4 0xE2 0x85 0x8E 0x00; U4 0x20 0x00 0x00 0x00;
   U4 0x31 0x20 0x37 0x00; U4 0x31 0x20 0x39 0x00; U4 0x31 0x20 0x31 0x30; U4 0x31 0x20 0x33 0x00;
   U4 0x32 0x20 0x33 0x00; U4 0x31 0x20 0x35 0x00; U4 0x32 0x20 0x35 0x00; U4 0x33 0x20 0x35 0x00;
   U4 0x34 0x20 0x35 0x00; U4 0x31 0x20 0x36 0x00; U4 0x35 0x20 0x36 0x00; U4 0x31 0x20 0x38 0x00;
   U4 0x33 0x20 0x38 0x00; U4 0x35 0x20 0x38 0x00; U4 0x37 0x20 0x38 0x00; U4 0x31 0x20 0x00 0x00;
   U4 0x69 0x00 0x00 0x00; U4 0x69 0x69 0x00 0x00; U4 0x69 0x69 0x69 0x00; U4 0x69 0x76 0x00 0x00;
   U4 0x76 0x00 0x00 0x00; U4 0x76 0x69 0x00 0x00; U4 0x76 0x69 0x69 0x00; U4 0x76 0x69 0x69 0x69;
   U4 0x69 0x78 0x00 0x00; U4 0x78 0x00 0x00 0x00; U4 0x78 0x69 0x00 0x00; U4 0x78 0x69 0x69 0x00;
   U4 0x6C 0x00 0x00 0x00; U4 0x63 0x00 0x00 0x00; U4 0x64 0x00 0x00 0x00; U4 0x6D 0x00 0x00 0x00;
   U4 0x69 0x00 0x00 0x00; U4 0x69 0x69 0x00 0x00; U4 0x69 0x69 0x69 0x00; U4 0x69 0x76 0x00 0x00;
   U4 0x76 0x00 0x00 0x00; U4 0x76 0x69 0x00 0x00; U4 0x76 0x69 0x69 0x00; U4 0x76 0x69 0x69 0x69;
   U4 0x69 0x78 0x00 0x00; U4 0x78 0x00 0x00 0x00; U4 0x78 0x69 0x00 0x00; U4 0x78 0x69 0x69 0x00;
   U4 0x6C 0x00 0x00 0x00; U4 0x63 0x00 0x00 0x00; U4 0x64 0x00 0x00 0x00; U4 0x6D 0x00 0x00 0x00].

Definition PLANE_3_E2_2_86 : Plane4Bytes :=
  [U4 0xE2 0x86 0x80 0x00; U4 0xE2 0x86 0x81 0x00; U4 0xE2 0x86 0x82 0x00; U4 0xE2 0x86 0x84 0x00;
   U4 0xE2 0x86 0x84 0x00; U4 0xE2 0x86 0x85 0x00; U4 0xE2 0x86 0x86 0x00; U4 0xE2 0x86 0x87 0x00;
   U4 0xE2 0x86 0x88 0x00; U4 0x30 0x20 0x33 0x00; U4 0x20 0x00 0x00 0x00; U4 0x20 0x00 0x00 0x00;
   U4 0x20 0x00 0x00 0x00; U4 0x20 0x00 0x00 0x00; U4 0x20 0x00 0x00 0x00; U4 0x20 0x00 0x00 0x00;
   U4 0x20 0x00 0x00 0x00; U4 0x20 0x00 0x00 0x00; U4 0x20 0x00 0x00 0x00; U4 0x20 0x00 0x00 0x00;
   U4 0x20 0x00 0x00 0x00; U4 0x20 0x00 0x00 0x00; U4 0x20 0x00 0x00 0x00; U4 0x20 0x00 0x00 0x00;
   U4 0x20 0x00 0x00 0x00; U4 0x20 0x00 0x00 0x00; U4 0x20 0x00 0x00 0x00; U4 0x20 0x00 0x00 0x00;
   U4 0x20 0x00 0x00 0x00; U4 0x20 0x00 0x00 0x00; U4 0x20 0x00 0x00 0x00; U4 0x20 0x00 0x00 0x00;
   U4 0x20 0x00 0x00 0x00; U4 0x20 0x00 0x00 0x00; U4 0x20 0x00 0x00 0x00; U4 0x20 0x00 0x00 0x00;
   U4 0x20 0x00 0x00 0x00; U4 0x20 0x00 0x00 0x00; U4 0x20 0x00 0x00 0x00; U4 0x20 0x00 0x00 0x00;
   U4 0x20 0x00 0x00 0x00; U4 0x20 0x00 0x00 0x00; U4 0x20 0x00 0x00 0x00; U4 0x20 0x00 0x00 0x00;
   U4 0x20 0x00 0x00 0x00; U4 0x20 0x00 0x00 0x00; U4 0x20 0x00 0x00 0x00; U4 0x20 0x00 0x00 0x00;
   U4 0x20 0x00 0x00 0x00; U4 0x20 0x00 0x00 0x00; U4 0x20 0x00 0x00 0x00; U4 0x20 0x00 0x00 0x00;
   U4 0x20 0x00 0x00 0x00; U4 0x20 0x00 0x00 0x00; U4 0x20 0x00 0x00 0x00; U4 0x20 0x00 0x00 0x00;
   U4 0x20 0x00 0x00 0x00; U4 0x20 0x00 0x00 0x00; U4 0x20 0x00 0x00 0x00; U4 0x20 0x00 0x00 0x00;
   U4 0x20 0x00 0x00 0x00; U4 0x20 0x00 0x00 0x00; U4 0x20 0x00 0x00 0x00; U4 0x20 0x00 0x00 0x00].

Definition TABLE_3_E2_2 : list Plane4Bytes :=
  [PLANE_3_E2_2_85; PLANE_3_E2_2_86].

Definition PLANE_3_E2_3_91 : Plane4Bytes :=
  [U4 0x20 0x00 0x00 0x00; U4 0x20 0x00 0x00 0x00; U4 0x20 0x00 0x00 0x00; U4 0x20 0x00 0x00 0x00;
   U4 0x20 0x00 0x00 0x00; U4 0x20 0x00 0x00 0x00; U4 0x20 0x00 0x00 0x00; U4 0x20 0x00 0x00 0x00;
   U4 0x20 0x00 0x00 0x00; U4 0x20 0x00 0x00 0x00; U4 0x20 0x00 0x00 0x00; U4 0x20 0x00 0x00 0x00;
   U4 0x20 0x00 0x00 0x00; U4 0x20 0x00 0x00 0x00; U4 0x20 0x00 0x00 0x00; U4 0x20 0x00 0x00 0x00;
   U4 0x20 0x00 0x00 0x00; U4 0x20 0x00 0x00 0x00; U4 0x20 0x00 0x00 0x00; U4 0x20 0x00 0x00 0x00;
   U4 0x20 0x00 0x00 0x00; U4 0x20 0x00 0x00 0x00; U4 0x20 0x00 0x00 0x00; U4 0x20 0x00 0x00 0x00;
   U4 0x20 0x00 0x00 0x00; U4 0x20 0x00 0x00 0x00; U4 0x20 0x00 0x00 0x00; U4 0x20 0x00 0x00 0x00;
   U4 0x20 0x00 0x00 0x00; U4 0x20 0x00 0x00 0x00; U4 0x20 0x00 0x00 0x00; U4 0x20 0x00 0x00 0x00;
   U4 0x31 0x00 0x00 0x00; U4 0x32 0x00 0x00 0x00; U4 0x33 0x00 0x00 0x00; U4 0x34 0x00 0x00 0x00;
   U4 0x35 0x00 0x00 0x00; U4 0x36 0x00 0x00 0x00; U4 0x37 0x00 0x00 0x00; U4 0x38 0x00 0x00 0x00;
   U4 0x39 0x00 0x00 0x00; U4 0x31 0x30 0x00 0x00; U4 0x31 0x31 0x00 0x00; U4 0x31 0x32 0x00 0x00;
   U4 0x31 0x33 0x00 0x00; U4 0x31 0x34 0x00 0x00; U4 0x31 0x35 0x00 0x00; U4 0x31 0x36 0x00 0x00;
   U4 0x31 0x37 0x00 0x00; U4 0x31 0x38 0x00 0x00; U4 0x31 0x39 0x00 0x00; U4 0x32 0x30 0x00 0x00;
   U4 0x20 0x31 0x20 0x00; U4 0x20 0x32 0x20 0x00; U4 0x20 0x33 0x20 0x00; U4 0x20 0x34 0x20 0x00;
   U4 0x20 0x35 0x20 0x00; U4 0x20 0x36 0x20 0x00; U4 0x20 0x37 0x20 0x00; U4 0x20 0x38 0x20 0x00;
   U4 0x20 0x39 0x20 0x00; U4 0x20 0x31 0x30 0x20; U4 0x20 0x31 0x31 0x20; U4 0x20 0x31 0x32 0x20].

Definition PLANE_3_E2_3_92 : Plane4Bytes :=
  [U4 0x20 0x31 0x33 0x20; U4 0x20 0x31 0x34 0x20; U4 0x20 0x31 0x35 0x20; U4 0x20 0x31 0x36 0x20;
   U4 0x20 0x31 0x37 0x20; U4 0x20 0x31 0x38 0x20; U4 0x20 0x31 0x39 0x20; U4 0x20 0x32 0x30 0x20;
   U4 0x31 0x20 0x00 0x00; U4 0x32 0x20 0x00 0x00; U4 0x33 0x20 0x00 0x00; U4 0x34 0x20 0x00 0x00;
   U4 0x35 0x20 0x00 0x00; U4 0x36 0x20 0x00 0x00; U4 0x37 0x20 0x00 0x00; U4 0x38 0x20 0x00 0x00;
   U4 0x39 0x20 0x00 0x00; U4 0x31 0x30 0x20 0x00; U4 0x31 0x31 0x20 0x00; U4 0x31 0x32 0x20 0x00;
   U4 0x31 0x33 0x20 0x00; U4 0x31 0x34 0x20 0x00; U4 0x31 0x35 0x20 0x00; U4 0x31 0x36 0x20 0x00;
   U4 0x31 0x37 0x20 0x00; U4 0x31 0x38 0x20 0x00; U4 0x31 0x39 0x20 0x00; U4 0x32 0x30 0x20 0x00;
   U4 0x20 0x61 0x20 0x00; U4 0x20 0x62 0x20 0x00; U4 0x20 0x63 0x20 0x00; U4 0x20 0x64 0x20 0x00;
   U4 0x20 0x65 0x20 0x00; U4 0x20 0x66 0x20 0x00; U4 0x20 0x67 0x20 0x00; U4 0x20 0x68 0x20 0x00;
   U4 0x20 0x69 0x20 0x00; U4 0x20 0x6A 0x20 0x00; U4 0x20 0x6B 0x20 0x00; U4 0x20 0x6C 0x20 0x00;
   U4 0x20 0x6D 0x20 0x00; U4 0x20 0x6E 0x20 0x00; U4 0x20 0x6F 0x20 0x00; U4 0x20 0x70 0x20 0x00;
   U4 0x20 0x71 0x20 0x00; U4 0x20 0x72 0x20 0x00; U4 0x20 0x73 0x20 0x00; U4 0x20 0x74 0x20 0x00;
   U4 0x20 0x75 0x20 0x00; U4 0x20 0x76 0x20 0x00; U4 0x20 0x77 0x20 0x00; U4 0x20 0x78 0x20 0x00;
   U4 0x20 0x79 0x20 0x00; U4 0x20 0x7A 0x20 0x00; U4 0x61 0x00 0x00 0x00; U4 0x62 0x00 0x00 0x00;
   U4 0x63 0x00 0x00 0x00; U4 0x64 0x00 0x00 0x00; U4 0x65 0x00 0x00 0x00; U4 0x66 0x00 0x00 0x00;
   U4 0x67 0x00 0x00 0x00; U4 0x68 0x00 0x00 0x00; U4 0x69 0x00 0x00 0x00; U4 0x6A 0x00 0x00 0x00].

Definition PLANE_3_E2_3_93 : Plane4Bytes :=
  [U4 0x6B 0x00 0x00 0x00; U4 0x6C 0x00 0x00 0x00; U4 0x6D 0x00 0x00 0x00; U4 0x6E 0x00 0x00 0x00;
   U4 0x6F 0x00 0x00 0x00; U4 0x70 0x00 0x00 0x00; U4 0x71 0x00 0x00 0x00; U4 0x72 0x00 0x00 0x00;
   U4 0x73 0x00 0x00 0x00; U4 0x74 0x00 0x00 0x00; U4 0x75 0x00 0x00 0x00; U4 0x76 0x00 0x00 0x00;
   U4 0x77 0x00 0x00 0x00; U4 0x78 0x00 0x00 0x00; U4 0x79 0x00 0x00 0x00; U4 0x7A 0x00 0x00 0x00;
   U4 0x61 0x00 0x00 0x00; U4 0x62 0x00 0x00 0x00; U4 0x63 0x00 0x00 0x00; U4 0x64 0x00 0x00 0x00;
   U4 0x65 0x00 0x00 0x00; U4 0x66 0x00 0x00 0x00; U4 0x67 0x00 0x00 0x00; U4 0x68 0x00 0x00 0x00;
   U4 0x69 0x00 0x00 0x00; U4 0x6A 0x00 0x00 0x00; U4 0x6B 0x00 0x00 0x00; U4 0x6C 0x00 0x00 0x00;
   U4 0x6D 0x00 0x00 0x00; U4 0x6E 0x00 0x00 0x00; U4 0x6F 0x00 0x00 0x00; U4 0x70 0x00 0x00 0x00;
   U4 0x71 0x00 0x00 0x00; U4 0x72 0x00 0x00 0x00; U4 0x73 0x00 0x00 0x00; U4 0x74 0x00 0x00 0x00;
   U4 0x75 0x00 0x00 0x00; U4 0x76 0x00 0x00 0x00; U4 0x77 0x00 0x00 0x00; U4 0x78 0x00 0x00 0x00;
   U4 0x79 0x00 0x00 0x00; U4 0x7A 0x00 0x00 0x00; U4 0x30 0x00 0x00 0x00; U4 0xE2 0x93 0xAB 0x00;
   U4 0xE2 0x93 0xAC 0x00; U4 0xE2 0x93 0xAD 0x00; U4 0xE2 0x93 0xAE 0x00; U4 0xE2 0x93 0xAF 0x00;
   U4 0xE2 0x93 0xB0 0x00; U4 0xE2 0x93 0xB1 0x00; U4 0xE2 0x93 0xB2 0x00; U4 0xE2 0x93 0xB3 0x00;
   U4 0xE2 0x93 0xB4 0x00; U4 0xE2 0x93 0xB5 0x00; U4 0xE2 0x93 0xB6 0x00; U4 0xE2 0x93 0xB7 0x00;
   U4 0xE2 0x93 0xB8 0x00; U4 0xE2 0x93 0xB9 0x00; U4 0xE2 0x93 0xBA 0x00; U4 0xE2 0x93 0xBB 0x00;
   U4 0xE2 0x93 0xBC 0x00; U4 0xE2 0x93 0xBD 0x00; U4 0xE2 0x93 0xBE 0x00; U4 0xE2 0x93 0xBF 0x00].

Definition TABLE_3_E2_3 : list Plane4Bytes :=
  [PLANE_3_E2_3_91; PLANE_3_E2_3_92; PLANE_3_E2_3_93].

Definition PLANE_3_E2_4_B0 : Plane4Bytes :=
  [U4 0xE2 0xB0 0xB0 0x00; U4 0xE2 0xB0 0xB1 0x00; U4 0xE2 0xB0 0xB2 0x00; U4 0xE2 0xB0 0xB3 0x00;
   U4 0xE2 0xB0 0xB4 0x00; U4 0xE2 0xB0 0xB5 0x00; U4 0xE2 0xB0 0xB6 0x00; U4 0xE2 0xB0 0xB7 0x00;
   U4 0xE2 0xB0 0xB8 0x00; U4 0xE2 0xB0 0xB9 0x00; U4 0xE2 0xB0 0xBA 0x00; U4 0xE2 0xB0 0xBB 0x00;
   U4 0xE2 0xB0 0xBC 0x00; U4 0xE2 0xB0 0xBD 0x00; U4 0xE2 0xB0 0xBE 0x00; U4 0xE2 0xB0 0xBF 0x00;
   U4 0xE2 0xB1 0x80 0x00; U4 0xE2 0xB1 0x81 0x00; U4 0xE2 0xB1 0x82 0x00; U4 0xE2 0xB1 0x83 0x00;
   U4 0xE2 0xB1 0x84 0x00; U4 0xE2 0xB1 0x85 0x00; U4 0xE2 0xB1 0x86 0x00; U4 0xE2 0xB1 0x87 0x00;
   U4 0xE2 0xB1 0x88 0x00; U4 0xE2 0xB1 0x89 0x00; U4 0xE2 0xB1 0x8A 0x00; U4 0xE2 0xB1 0x8B 0x00;
   U4 0xE2 0xB1 0x8C 0x00; U4 0xE2 0xB1 0x8D 0x00; U4 0xE2 0xB1 0x8E 0x00; U4 0xE2 0xB1 0x8F 0x00;
   U4 0xE2 0xB1 0x90 0x00; U4 0xE2 0xB1 0x91 0x00; U4 0xE2 0xB1 0x92 0x00; U4 0xE2 0xB1 0x93 0x00;
   U4 0xE2 0xB1 0x94 0x00; U4 0xE2 0xB1 0x95 0x00; U4 0xE2 0xB1 0x96 0x00; U4 0xE2 0xB1 0x97 0x00;
   U4 0xE2 0xB1 0x98 0x00; U4 0xE2 0xB1 0x99 0x00; U4 0xE2 0xB1 0x9A 0x00; U4 0xE2 0xB1 0x9B 0x00;
   U4 0xE2 0xB1 0x9C 0x00; U4 0xE2 0xB1 0x9D 0x00; U4 0xE2 0xB1 0x9E 0x00; U4 0x20 0x00 0x00 0x00;
   U4 0xE2 0xB0 0xB0 0x00; U4 0xE2 0xB0 0xB1 0x00; U4 0xE2 0xB0 0xB2 0x00; U4 0xE2 0xB0 0xB3 0x00;
   U4 0xE2 0xB0 0xB4 0x00; U4 0xE2 0xB0 0xB5 0x00; U4 0xE2 0xB0 0xB6 0x00; U4 0xE2 0xB0 0xB7 0x00;
   U4 0xE2 0xB0 0xB8 0x00; U4 0xE2 0xB0 0xB9 0x00; U4 0xE2 0xB0 0xBA 0x00; U4 0xE2 0xB0 0xBB 0x00;
   U4 0xE2 0xB0 0xBC 0x00; U4 0xE2 0xB0 0xBD 0x00; U4 0xE2 0xB0 0xBE 0x00; U4 0xE2 0xB0 0xBF 0x00].

Definition PLANE_3_E2_4_B1 : Plane4Bytes :=
  [U4 0xE2 0xB1 0x80 0x00; U4 0xE2 0xB1 0x81 0x00; U4 0xE2 0xB1 0x82 0x00; U4 0xE2 0xB1 0x83 0x00;
   U4 0xE2 0xB1 0x84 0x00; U4 0xE2 0xB1 0x85 0x00; U4 0xE2 0xB1 0x86 0x00; U4 0xE2 0xB1 0x87 0x00;
   U4 0xE2 0xB1 0x88 0x00; U4 0xE2 0xB1 0x89 0x00; U4 0xE2 0xB1 0x8A 0x00; U4 0xE2 0xB1 0x8B 0x00;
   U4 0xE2 0xB1 0x8C 0x00; U4 0xE2 0xB1 0x8D 0x00; U4 0xE2 0xB1 0x8E 0x00; U4 0xE2 0xB1 0x8F 0x00;
   U4 0xE2 0xB1 0x90 0x00; U4 0xE2 0xB1 0x91 0x00; U4 0xE2 0xB1 0x92 0x00; U4 0xE2 0xB1 0x93 0x00;
   U4 0xE2 0xB1 0x94 0x00; U4 0xE2 0xB1 0x95 0x00; U4 0xE2 0xB1 0x96 0x00; U4 0xE2 0xB1 0x97 0x00;
   U4 0xE2 0xB1 0x98 0x00; U4 0xE2 0xB1 0x99 0x00; U4 0xE2 0xB1 0x9A 0x00; U4 0xE2 0xB1 0x9B 0x00;
   U4 0xE2 0xB1 0x9C 0x00; U4 0xE2 0xB1 0x9D 0x00; U4 0xE2 0xB1 0x9E 0x00; U4 0x20 0x00 0x00 0x00;
   U4 0xE2 0xB1 0xA1 0x00; U4 0xE2 0xB1 0xA1 0x00; U4 0xC9 0xAB 0x00 0x00; U4 0xE1 0xB5 0xBD 0x00;
   U4 0xC9 0xBD 0x00 0x00; U4 0xE2 0xB1 0xA5 0x00; U4 0xE2 0xB1 0xA6 0x00; U4 0xE2 0xB1 0xA8 0x00;
   U4 0xE2 0xB1 0xA8 0x00; U4 0xE2 0xB1 0xAA 0x00; U4 0xE2 0xB1 0xAA 0x00; U4 0xE2 0xB1 0xAC 0x00;
   U4 0xE2 0xB1 0xAC 0x00; U4 0xC9 0x91 0x00 0x00; U4 0xC9 0xB1 0x00 0x00; U4 0xC9 0x90 0x00 0x00;
   U4 0xC9 0x92 0x00 0x00; U4 0xE2 0xB1 0xB1 0x00; U4 0xE2 0xB1 0xB3 0x00; U4 0xE2 0xB1 0xB3 0x00;
   U4 0xE2 0xB1 0xB4 0x00; U4 0xE2 0xB1 0xB6 0x00; U4 0xE2 0xB1 0xB6 0x00; U4 0xE2 0xB1 0xB7 0x00;
   U4 0xE2 0xB1 0xB8 0x00; U4 0xE2 0xB1 0xB9 0x00; U4 0xE2 0xB1 0xBA 0x00; U4 0xE2 0xB1 0xBB 0x00;
   U4 0x6A 0x00 0x00 0x00; U4 0x76 0x00 0x00 0x00; U4 0xC8 0xBF 0x00 0x00; U4 0xC9 0x80 0x00 0x00].

Definition PLANE_3_E2_4_B2 : Plane4Bytes :=
  [U4 0xE2 0xB2 0x81 0x00; U4 0xE2 0xB2 0x81 0x00; U4 0xE2 0xB2 0x83 0x00; U4 0xE2 0xB2 0x83 0x00;
   U4 0xE2 0xB2 0x85 0x00; U4 0xE2 0xB2 0x85 0x00; U4 0xE2 0xB2 0x87 0x00; U4 0xE2 0xB2 0x87 0x00;
   U4 0xE2 0xB2 0x89 0x00; U4 0xE2 0xB2 0x89 0x00; U4 0xE2 0xB2 0x8B 0x00; U4 0xE2 0xB2 0x8B 0x00;
   U4 0xE2 0xB2 0x8D 0x00; U4 0xE2 0xB2 0x8D 0x00; U4 0xE2 0xB2 0x8F 0x00; U4 0xE2 0xB2 0x8F 0x00;
   U4 0xE2 0xB2 0x91 0x00; U4 0xE2 0xB2 0x91 0x00; U4 0xE2 0xB2 0x93 0x00; U4 0xE2 0xB2 0x93 0x00;
   U4 0xE2 0xB2 0x95 0x00; U4 0xE2 0xB2 0x95 0x00; U4 0xE2 0xB2 0x97 0x00; U4 0xE2 0xB2 0x97 0x00;
   U4 0xE2 0xB2 0x99 0x00; U4 0xE2 0xB2 0x99 0x00; U4 0xE2 0xB2 0x9B 0x00; U4 0xE2 0xB2 0x9B 0x00;
   U4 0xE2 0xB2 0x9D 0x00; U4 0xE2 0xB2 0x9D 0x00; U4 0xE2 0xB2 0x9F 0x00; U4 0xE2 0xB2 0x9F 0x00;
   U4 0xE2 0xB2 0xA1 0x00; U4 0xE2 0xB2 0xA1 0x00; U4 0xE2 0xB2 0xA3 0x00; U4 0xE2 0xB2 0xA3 0x00;
   U4 0xE2 0xB2 0xA5 0x00; U4 0xE2 0xB2 0xA5 0x00; U4 0xE2 0xB2 0xA7 0x00; U4 0xE2 0xB2 0xA7 0x00;
   U4 0xE2 0xB2 0xA9 0x00; U4 0xE2 0xB2 0xA9 0x00; U4 0xE2 0xB2 0xAB 0x00; U4 0xE2 0xB2 0xAB 0x00;
   U4 0xE2 0xB2 0xAD 0x00; U4 0xE2 0xB2 0xAD 0x00; U4 0xE2 0xB2 0xAF 0x00; U4 0xE2 0xB2 0xAF 0x00;
   U4 0xE2 0xB2 0xB1 0x00; U4 0xE2 0xB2 0xB1 0x00; U4 0xE2 0xB2 0xB3 0x00; U4 0xE2 0xB2 0xB3 0x00;
   U4 0xE2 0xB2 0xB5 0x00; U4 0xE2 0xB2 0xB5 0x00; U4 0xE2 0xB2 0xB7 0x00; U4 0xE2 0xB2 0xB7 0x00;
   U4 0xE2 0xB2 0xB9 0x00; U4 0xE2 0xB2 0xB9 0x00; U4 0xE2 0xB2 0xBB 0x00; U4 0xE2 0xB2 0xBB 0x00;
   U4 0xE2 0xB2 0xBD 0x00; U4 0xE2 0xB2 0xBD 0x00; U4 0xE2 0xB2 0xBF 0x00; U4 0xE2 0xB2 0xBF 0x00].

Definition PLANE_3_E2_4_B3 : Plane4Bytes :=
  [U4 0xE2 0xB3 0x81 0x00; U4 0xE2 0xB3 0x81 0x00; U4 0xE2 0xB3 0x83 0x00; U4 0xE2 0xB3 0x83 0x00;
   U4 0xE2 0xB3 0x85 0x00; U4 0xE2 0xB3 0x85 0x00; U4 0xE2 0xB3 0x87 0x00; U4 0xE2 0xB3 0x87 0x00;
   U4 0xE2 0xB3 0x89 0x00; U4 0xE2 0xB3 0x89 0x00; U4 0xE2 0xB3 0x8B 0x00; U4 0xE2 0xB3 0x8B 0x00;
   U4 0xE2 0xB3 0x8D 0x00; U4 0xE2 0xB3 0x8D 0x00; U4 0xE2 0xB3 0x8F 0x00; U4 0xE2 0xB3 0x8F 0x00;
   U4 0xE2 0xB3 0x91 0x00; U4 0xE2 0xB3 0x91 0x00; U4 0xE2 0xB3 0x93 0x00; U4 0xE2 0xB3 0x93 0x00;
   U4 0xE2 0xB3 0x95 0x00; U4 0xE2 0xB3 0x95 0x00; U4 0xE2 0xB3 0x97 0x00; U4 0xE2 0xB3 0x97 0x00;
   U4 0xE2 0xB3 0x99 0x00; U4 0xE2 0xB3 0x99 0x00; U4 0xE2 0xB3 0x9B 0x00; U4 0xE2 0xB3 0x9B 0x00;
   U4 0xE2 0xB3 0x9D 0x00; U4 0xE2 0xB3 0x9D 0x00; U4 0xE2 0xB3 0x9F 0x00; U4 0xE2 0xB3 0x9F 0x00;
   U4 0xE2 0xB3 0xA1 0x00; U4 0xE2 0xB3 0xA1 0x00; U4 0xE2 0xB3 0xA3 0x00; U4 0xE2 0xB3 0xA3 0x00;
   U4 0xE2 0xB3 0xA4 0x00; U4 0x20 0x00 0x00 0x00; U4 0x20 0x00 0x00 0x00; U4 0x20 0x00 0x00 0x00;
   U4 0x20 0x00 0x00 0x00; U4 0x20 0x00 0x00 0x00; U4 0x20 0x00 0x00 0x00; U4 0xE2 0xB3 0xAC 0x00;
   U4 0xE2 0xB3 0xAC 0x00; U4 0xE2 0xB3 0xAE 0x00; U4 0xE2 0xB3 0xAE 0x00; U4 0x00 0x00 0x00 0x00;
   U4 0x00 0x00 0x00 0x00; U4 0x00 0x00 0x00 0x00; U4 0xE2 0xB3 0xB3 0x00; U4 0xE2 0xB3 0xB3 0x00;
   U4 0x20 0x00 0x00 0x00; U4 0x20 0x00 0x00 0x00; U4 0x20 0x00 0x00 0x00; U4 0x20 0x00 0x00 0x00;
   U4 0x20 0x00 0x00 0x00; U4 0x20 0x00 0x00 0x00; U4 0x20 0x00 0x00 0x00; U4 0x20 0x00 0x00 0x00;
   U4 0x20 0x00 0x00 0x00; U4 0xE2 0xB3 0xBD 0x00; U4 0x20 0x00 0x00 0x00; U4 0x20 0x00 0x00 0x00].

Definition PLANE_3_E2_4_B4 : Plane4Bytes :=
  [U4 0xE2 0xB4 0x80 0x00; U4 0xE2 0xB4 0x81 0x00; U4 0xE2 0xB4 0x82 0x00; U4 0xE2 0xB4 0x83 0x00;
   U4 0xE2 0xB4 0x84 0x00; U4 0xE2 0xB4 0x85 0x00; U4 0xE2 0xB4 0x86 0x00; U4 0xE2 0xB4 0x87 0x00;
   U4 0xE2 0xB4 0x88 0x00; U4 0xE2 0xB4 0x89 0x00; U4 0xE2 0xB4 0x8A 0x00; U4 0xE2 0xB4 0x8B 0x00;
   U4 0xE2 0xB4 0x8C 0x00; U4 0xE2 0xB4 0x8D 0x00; U4 0xE2 0xB4 0x8E 0x00; U4 0xE2 0xB4 0x8F 0x00;
   U4 0xE2 0xB4 0x90 0x00; U4 0xE2 0xB4 0x91 0x00; U4 0xE2 0xB4 0x92 0x00; U4 0xE2 0xB4 0x93 0x00;
   U4 0xE2 0xB4 0x94 0x00; U4 0xE2 0xB4 0x95 0x00; U4 0xE2 0xB4 0x96 0x00; U4 0xE2 0xB4 0x97 0x00;
   U4 0xE2 0xB4 0x98 0x00; U4 0xE2 0xB4 0x99 0x00; U4 0xE2 0xB4 0x9A 0x00; U4 0xE2 0xB4 0x9B 0x00;
   U4 0xE2 0xB4 0x9C 0x00; U4 0xE2 0xB4 0x9D 0x00; U4 0xE2 0xB4 0x9E 0x00; U4 0xE2 0xB4 0x9F 0x00;
   U4 0xE2 0xB4 0xA0 0x00; U4 0xE2 0xB4 0xA1 0x00; U4 0xE2 0xB4 0xA2 0x00; U4 0xE2 0xB4 0xA3 0x00;
   U4 0xE2 0xB4 0xA4 0x00; U4 0xE2 0xB4 0xA5 0x00; U4 0x20 0x00 0x00 0x00; U4 0xE2 0xB4 0xA7 0x00;
   U4 0x20 0x00 0x00 0x00; U4 0x20 0x00 0x00 0x00; U4 0x20 0x00 0x00 0x00; U4 0x20 0x00 0x00 0x00;
   U4 0x20 0x00 0x00 0x00; U4 0xE2 0xB4 0xAD 0x00; U4 0x20 0x00 0x00 0x00; U4 0x20 0x00 0x00 0x00;
   U4 0xE2 0xB4 0xB0 0x00; U4 0xE2 0xB4 0xB1 0x00; U4 0xE2 0xB4 0xB2 0x00; U4 0xE2 0xB4 0xB3 0x00;
   U4 0xE2 0xB4 0xB4 0x00; U4 0xE2 0xB4 0xB5 0x00; U4 0xE2 0xB4 0xB6 0x00; U4 0xE2 0xB4 0xB7 0x00;
   U4 0xE2 0xB4 0xB8 0x00; U4 0xE2 0xB4 0xB9 0x00; U4 0xE2 0xB4 0xBA 0x00; U4 0xE2 0xB4 0xBB 0x00;
   U4 0xE2 0xB4 0xBC 0x00; U4 0xE2 0xB4 0xBD 0x00; U4 0xE2 0xB4 0xBE 0x00; U4 0xE2 0xB4 0xBF 0x00].

Definition PLANE_3_E2_4_B5 : Plane4Bytes :=
  [U4 0xE2 0xB5 0x80 0x00; U4 0xE2 0xB5 0x81 0x00; U4 0xE2 0xB5 0x82 0x00; U4 0xE2 0xB5 0x83 0x00;
   U4 0xE2 0xB5 0x84 0x00; U4 0xE2 0xB5 0x85 0x00; U4 0xE2 0xB5 0x86 0x00; U4 0xE2 0xB5 0x87 0x00;
   U4 0xE2 0xB5 0x88 0x00; U4 0xE2 0xB5 0x89 0x00; U4 0xE2 0xB5 0x8A 0x00; U4 0xE2 0xB5 0x8B 0x00;
   U4 0xE2 0xB5 0x8C 0x00; U4 0xE2 0xB5 0x8D 0x00; U4 0xE2 0xB5 0x8E 0x00; U4 0xE2 0xB5 0x8F 0x00;
   U4 0xE2 0xB5 0x90 0x00; U4 0xE2 0xB5 0x91 0x00; U4 0xE2 0xB5 0x92 0x00; U4 0xE2 0xB5 0x93 0x00;
   U4 0xE2 0xB5 0x94 0x00; U4 0xE2 0xB5 0x95 0x00; U4 0xE2 0xB5 0x96 0x00; U4 0xE2 0xB5 0x97 0x00;
   U4 0xE2 0xB5 0x98 0x00; U4 0xE2 0xB5 0x99 0x00; U4 0xE2 0xB5 0x9A 0x00; U4 0xE2 0xB5 0x9B 0x00;
   U4 0xE2 0xB5 0x9C 0x00; U4 0xE2 0xB5 0x9D 0x00; U4 0xE2 0xB5 0x9E 0x00; U4 0xE2 0xB5 0x9F 0x00;
   U4 0xE2 0xB5 0xA0 0x00; U4 0xE2 0xB5 0xA1 0x00; U4 0xE2 0xB5 0xA2 0x00; U4 0xE2 0xB5 0xA3 0x00;
   U4 0xE2 0xB5 0xA4 0x00; U4 0xE2 0xB5 0xA5 0x00; U4 0xE2 0xB5 0xA6 0x00; U4 0xE2 0xB5 0xA7 0x00;
   U4 0x20 0x00 0x00 0x00; U4 0x20 0x00 0x00 0x00; U4 0x20 0x00 0x00 0x00; U4 0x20 0x00 0x00 0x00;
   U4 0x20 0x00 0x00 0x00; U4 0x20 0x00 0x00 0x00; U4 0x20 0x00 0x00 0x00; U4 0xE2 0xB5 0xA1 0x00;
   U4 0x20 0x00 0x00 0x00; U4 0x20 0x00 0x00 0x00; U4 0x20 0x00 0x00 0x00; U4 0x20 0x00 0x00 0x00;
   U4 0x20 0x00 0x00 0x00; U4 0x20 0x00 0x00 0x00; U4 0x20 0x00 0x00 0x00; U4 0x20 0x00 0x00 0x00;
   U4 0x20 0x00 0x00 0x00; U4 0x20 0x00 0x00 0x00; U4 0x20 0x00 0x00 0x00; U4 0x20 0x00 0x00 0x00;
   U4 0x20 0x00 0x00 0x00; U4 0x20 0x00 0x00 0x00; U4 0x20 0x00 0x00 0x00; U4 0x00 0x00 0x00 0x00].

Definition PLANE_3_E2_4_B6 : Plane4Bytes :=
  [U4 0xE2 0xB6 0x80 0x00; U4 0xE2 0xB6 0x81 0x00; U4 0xE2 0xB6 0x82 0x00; U4 0xE2 0xB6 0x83 0x00;
   U4 0xE2 0xB6 0x84 0x00; U4 0xE2 0xB6 0x85 0x00; U4 0xE2 0xB6 0x86 0x00; U4 0xE2 0xB6 0x87 0x00;
   U4 0xE2 0xB6 0x88 0x00; U4 0xE2 0xB6 0x89 0x00; U4 0xE2 0xB6 0x8A 0x00; U4 0xE2 0xB6 0x8B 0x00;
   U4 0xE2 0xB6 0x8C 0x00; U4 0xE2 0xB6 0x8D 0x00; U4 0xE2 0xB6 0x8E 0x00; U4 0xE2 0xB6 0x8F 0x00;
   U4 0xE2 0xB6 0x90 0x00; U4 0xE2 0xB6 0x91 0x00; U4 0xE2 0xB6 0x92 0x00; U4 0xE2 0xB6 0x93 0x00;
   U4 0xE2 0xB6 0x94 0x00; U4 0xE2 0xB6 0x95 0x00; U4 0xE2 0xB6 0x96 0x00; U4 0x20 0x00 0x00 0x00;
   U4 0x20 0x00 0x00 0x00; U4 0x20 0x00 0x00 0x00; U4 0x20 0x00 0x00 0x00; U4 0x20 0x00 0x00 0x00;
   U4 0x20 0x00 0x00 0x00; U4 0x20 0x00 0x00 0x00; U4 0x20 0x00 0x00 0x00; U4 0x20 0x00 0x00 0x00;
   U4 0xE2 0xB6 0xA0 0x00; U4 0xE2 0xB6 0xA1 0x00; U4 0xE2 0xB6 0xA2 0x00; U4 0xE2 0xB6 0xA3 0x00;
   U4 0xE2 0xB6 0xA4 0x00; U4 0xE2 0xB6 0xA5 0x00; U4 0xE2 0xB6 0xA6 0x00; U4 0x20 0x00 0x00 0x00;
   U4 0xE2 0xB6 0xA8 0x00; U4 0xE2 0xB6 0xA9 0x00; U4 0xE2 0xB6 0xAA 0x00; U4 0xE2 0xB6 0xAB 0x00;
   U4 0xE2 0xB6 0xAC 0x00; U4 0xE2 0xB6 0xAD 0x00; U4 0xE2 0xB6 0xAE 0x00; U4 0x20 0x00 0x00 0x00;
   U4 0xE2 0xB6 0xB0 0x00; U4 0xE2 0xB6 0xB1 0x00; U4 0xE2 0xB6 0xB2 0x00; U4 0xE2 0xB6 0xB3 0x00;
   U4 0xE2 0xB6 0xB4 0x00; U4 0xE2 0xB6 0xB5 0x00; U4 0xE2 0xB6 0xB6 0x00; U4 0x20 0x00 0x00 0x00;
   U4 0xE2 0xB6 0xB8 0x00; U4 0xE2 0xB6 0xB9 0x00; U4 0xE2 0xB6 0xBA 0x00; U4 0xE2 0xB6 0xBB 0x00;
   U4 0xE2 0xB6 0xBC 0x00; U4 0xE2 0xB6 0xBD 0x00; U4 0xE2 0xB6 0xBE 0x00; U4 0x20 0x00 0x00 0x00].

Definition PLANE_3_E2_4_B7 : Plane4Bytes :=
  [U4 0xE2 0xB7 0x80 0x00; U4 0xE2 0xB7 0x81 0x00; U4 0xE2 0xB7 0x82 0x00; U4 0xE2 0xB7 0x83 0x00;
   U4 0xE2 0xB7 0x84 0x00; U4 0xE2 0xB7 0x85 0x00; U4 0xE2 0xB7 0x86 0x00; U4 0x20 0x00 0x00 0x00;
   U4 0xE2 0xB7 0x88 0x00; U4 0xE2 0xB7 0x89 0x00; U4 0xE2 0xB7 0x8A 0x00; U4 0xE2 0xB7 0x8B 0x00;
   U4 0xE2 0xB7 0x8C 0x00; U4 0xE2 0xB7 0x8D 0x00; U4 0xE2 0xB7 0x8E 0x00; U4 0x20 0x00 0x00 0x00;
   U4 0xE2 0xB7 0x90 0x00; U4 0xE2 0xB7 0x91 0x00; U4 0xE2 0xB7 0x92 0x00; U4 0xE2 0xB7 0x93 0x00;
   U4 0xE2 0xB7 0x94 0x00; U4 0xE2 0xB7 0x95 0x00; U4 0xE2 0xB7 0x96 0x00; U4 0x20 0x00 0x00 0x00;
   U4 0xE2 0xB7 0x98 0x00; U4 0xE2 0xB7 0x99 0x00; U4 0xE2 0xB7 0x9A 0x00; U4 0xE2 0xB7 0x9B 0x00;
   U4 0xE2 0xB7 0x9C 0x00; U4 0xE2 0xB7 0x9D 0x00; U4 0xE2 0xB7 0x9E 0x00; U4 0x20 0x00 0x00 0x00;
   U4 0x00 0x00 0x00 0x00; U4 0x00 0x00 0x00 0x00; U4 0x00 0x00 0x00 0x00; U4 0x00 0x00 0x00 0x00;
   U4 0x00 0x00 0x00 0x00; U4 0x00 0x00 0x00 0x00; U4 0x00 0x00 0x00 0x00; U4 0x00 0x00 0x00 0x00;
   U4 0x00 0x00 0x00 0x00; U4 0x00 0x00 0x00 0x00; U4 0x00 0x00 0x00 0x00; U4 0x00 0x00 0x00 0x00;
   U4 0x00 0x00 0x00 0x00; U4 0x00 0x00 0x00 0x00; U4 0x00 0x00 0x00 0x00; U4 0x00 0x00 0x00 0x00;
   U4 0x00 0x00 0x00 0x00; U4 0x00 0x00 0x00 0x00; U4 0x00 0x00 0x00 0x00; U4 0x00 0x00 0x00 0x00;
   U4 0x00 0x00 0x00 0x00; U4 0x00 0x00 0x00 0x00; U4 0x00 0x00 0x00 0x00; U4 0x00 0x00 0x00 0x00;
   U4 0x00 0x00 0x00 0x00; U4 0x00 0x00 0x00 0x00; U4 0x00 0x00 0x00 0x00; U4 0x00 0x00 0x00 0x00;
   U4 0x00 0x00 0x00 0x00; U4 0x00 0x00 0x00 0x00; U4 0x00 0x00 0x00 0x00; U4 0x00 0x00 0x00 0x00].

Definition PLANE_3_E2_4_B8 : Plane4Bytes :=
  [U4 0x20 0x00 0x00 0x00; U4 0x20 0x00 0x00 0x00; U4 0x20 0x00 0x00 0x00; U4 0x20 0x00 0x00 0x00;
   U4 0x20 0x00 0x00 0x00; U4 0x20 0x00 0x00 0x00; U4 0x20 0x00 0x00 0x00; U4 0x20 0x00 0x00 0x00;
   U4 0x20 0x00 0x00 0x00; U4 0x20 0x00 0x00 0x00; U4 0x20 0x00 0x00 0x00; U4 0x20 0x00 0x00 0x00;
   U4 0x20 0x00 0x00 0x00; U4 0x20 0x00 0x00 0x00; U4 0x20 0x00 0x00 0x00; U4 0x20 0x00 0x00 0x00;
   U4 0x20 0x00 0x00 0x00; U4 0x20 0x00 0x00 0x00; U4 0x20 0x00 0x00 0x00; U4 0x20 0x00 0x00 0x00;
   U4 0x20 0x00 0x00 0x00; U4 0x20 0x00 0x00 0x00; U4 0x20 0x00 0x00 0x00; U4 0x20 0x00 0x00 0x00;
   U4 0x20 0x00 0x00 0x00; U4 0x20 0x00 0x00 0x00; U4 0x20 0x00 0x00 0x00; U4 0x20 0x00 0x00 0x00;
   U4 0x20 0x00 0x00 0x00; U4 0x20 0x00 0x00 0x00; U4 0x20 0x00 0x00 0x00; U4 0x20 0x00 0x00 0x00;
   U4 0x20 0x00 0x00 0x00; U4 0x20 0x00 0x00 0x00; U4 0x20 0x00 0x00 0x00; U4 0x20 0x00 0x00 0x00;
   U4 0x20 0x00 0x00 0x00; U4 0x20 0x00 0x00 0x00; U4 0x20 0x00 0x00 0x00; U4 0x20 0x00 0x00 0x00;
   U4 0x20 0x00 0x00 0x00; U4 0x20 0x00 0x00 0x00; U4 0x20 0x00 0x00 0x00; U4 0x20 0x00 0x00 0x00;
   U4 0x20 0x00 0x00 0x00; U4 0x20 0x00 0x00 0x00; U4 0x20 0x00 0x00 0x00; U4 0xE2 0xB8 0xAF 0x00;
   U4 0x20 0x00 0x00 0x00; U4 0x20 0x00 0x00 0x00; U4 0x20 0x00 0x00 0x00; U4 0x20 0x00 0x00 0x00;
   U4 0x20 0x00 0x00 0x00; U4 0x20 0x00 0x00 0x00; U4 0x20 0x00 0x00 0x00; U4 0x20 0x00 0x00 0x00;
   U4 0x20 0x00 0x00 0x00; U4 0x20 0x00 0x00 0x00; U4 0x20 0x00 0x00 0x00; U4 0x20 0x00 0x00 0x00;
   U4 0x20 0x00 0x00 0x00; U4 0x20 0x00 0x00 0x00; U4 0x20 0x00 0x00 0x00; U4 0x20 0x00 0x00 0x00].

Definition PLANE_3_E2_4_B9 : Plane4Bytes :=
  [U4 0x20 0x00 0x00 0x00; U4 0x20 0x00 0x00 0x00; U4 0x20 0x00 0x00 0x00; U4 0x20 0x00 0x00 0x00;
   U4 0x20 0x00 0x00 0x00; U4 0x20 0x00 0x00 0x00; U4 0x20 0x00 0x00 0x00; U4 0x20 0x00 0x00 0x00;
   U4 0x20 0x00 0x00 0x00; U4 0x20 0x00 0x00 0x00; U4 0x20 0x00 0x00 0x00; U4 0x20 0x00 0x00 0x00;
   U4 0x20 0x00 0x00 0x00; U4 0x20 0x00 0x00 0x00; U4 0x20 0x00 0x00 0x00; U4 0x20 0x00 0x00 0x00;
   U4 0x20 0x00 0x00 0x00; U4 0x20 0x00 0x00 0x00; U4 0x20 0x00 0x00 0x00; U4 0x20 0x00 0x00 0x00;
   U4 0x20 0x00 0x00 0x00; U4 0x20 0x00 0x00 0x00; U4 0x20 0x00 0x00 0x00; U4 0x20 0x00 0x00 0x00;
   U4 0x20 0x00 0x00 0x00; U4 0x20 0x00 0x00 0x00; U4 0x20 0x00 0x00 0x00; U4 0x20 0x00 0x00 0x00;
   U4 0x20 0x00 0x00 0x00; U4 0x20 0x00 0x00 0x00; U4 0x20 0x00 0x00 0x00; U4 0x20 0x00 0x00 0x00;
   U4 0x20 0x00 0x00 0x00; U4 0x20 0x00 0x00 0x00; U4 0x20 0x00 0x00 0x00; U4 0x20 0x00 0x00 0x00;
   U4 0x20 0x00 0x00 0x00; U4 0x20 0x00 0x00 0x00; U4 0x20 0x00 0x00 0x00; U4 0x20 0x00 0x00 0x00;
   U4 0x20 0x00 0x00 0x00; U4 0x20 0x00 0x00 0x00; U4 0x20 0x00 0x00 0x00; U4 0x20 0x00 0x00 0x00;
   U4 0x20 0x00 0x00 0x00; U4 0x20 0x00 0x00 0x00; U4 0x20 0x00 0x00 0x00; U4 0x20 0x00 0x00 0x00;
   U4 0x20 0x00 0x00 0x00; U4 0x20 0x00 0x00 0x00; U4 0x20 0x00 0x00 0x00; U4 0x20 0x00 0x00 0x00;
   U4 0x20 0x00 0x00 0x00; U4 0x20 0x00 0x00 0x00; U4 0x20 0x00 0x00 0x00; U4 0x20 0x00 0x00 0x00;
   U4 0x20 0x00 0x00 0x00; U4 0x20 0x00 0x00 0x00; U4 0x20 0x00 0x00 0x00; U4 0x20 0x00 0x00 0x00;
   U4 0x20 0x00 0x00 0x00; U4 0x20 0x00 0x00 0x00; U4 0x20 0x00 0x00 0x00; U4 0x20 0x00 0x00 0x00].

Definition PLANE_3_E2_4_BA : Plane4Bytes :=
  [U4 0x20 0x00 0x00 0x00; U4 0x20 0x00 0x00 0x00; U4 0x20 0x00 0x00 0x00; U4 0x20 0x00 0x00 0x00;
   U4 0x20 0x00 0x00 0x00; U4 0x20 0x00 0x00 0x00; U4 0x20 0x00 0x00 0x00; U4 0x20 0x00 0x00 0x00;
   U4 0x20 0x00 0x00 0x00; U4 0x20 0x00 0x00 0x00; U4 0x20 0x00 0x00 0x00; U4 0x20 0x00 0x00 0x00;
   U4 0x20 0x00 0x00 0x00; U4 0x20 0x00 0x00 0x00; U4 0x20 0x00 0x00 0x00; U4 0x20 0x00 0x00 0x00;
   U4 0x20 0x00 0x00 0x00; U4 0x20 0x00 0x00 0x00; U4 0x20 0x00 0x00 0x00; U4 0x20 0x00 0x00 0x00;
   U4 0x20 0x00 0x00 0x00; U4 0x20 0x00 0x00 0x00; U4 0x20 0x00 0x00 0x00; U4 0x20 0x00 0x00 0x00;
   U4 0x20 0x00 0x00 0x00; U4 0x20 0x00 0x00 0x00; U4 0x20 0x00 0x00 0x00; U4 0x20 0x00 0x00 0x00;
   U4 0x20 0x00 0x00 0x00; U4 0x20 0x00 0x00 0x00; U4 0x20 0x00 0x00 0x00; U4 0xE6 0xAF 0x8D 0x00;
   U4 0x20 0x00 0x00 0x00; U4 0x20 0x00 0x00 0x00; U4 0x20 0x00 0x00 0x00; U4 0x20 0x00 0x00 0x00;
   U4 0x20 0x00 0x00 0x00; U4 0x20 0x00 0x00 0x00; U4 0x20 0x00 0x00 0x00; U4 0x20 0x00 0x00 0x00;
   U4 0x20 0x00 0x00 0x00; U4 0x20 0x00 0x00 0x00; U4 0x20 0x00 0x00 0x00; U4 0x20 0x00 0x00 0x00;
   U4 0x20 0x00 0x00 0x00; U4 0x20 0x00 0x00 0x00; U4 0x20 0x00 0x00 0x00; U4 0x20 0x00 0x00 0x00;
   U4 0x20 0x00 0x00 0x00; U4 0x20 0x00 0x00 0x00; U4 0x20 0x00 0x00 0x00; U4 0x20 0x00 0x00 0x00;
   U4 0x20 0x00 0x00 0x00; U4 0x20 0x00 0x00 0x00; U4 0x20 0x00 0x00 0x00; U4 0x20 0x00 0x00 0x00;
   U4 0x20 0x00 0x00 0x00; U4 0x20 0x00 0x00 0x00; U4 0x20 0x00 0x00 0x00; U4 0x20 0x00 0x00 0x00;
   U4 0x20 0x00 0x00 0x00; U4 0x20 0x00 0x00 0x00; U4 0x20 0x00 0x00 0x00; U4 0x20 0x00 0x00 0x00].

Definition PLANE_3_E2_4_BB : Plane4Bytes :=
  [U4 0x20 0x00 0x00 0x00; U4 0x20 0x00 0x00 0x00; U4 0x20 0x00 0x00 0x00; U4 0x20 0x00 0x00 0x00;
   U4 0x20 0x00 0x00 0x00; U4 0x20 0x00 0x00 0x00; U4 0x20 0x00 0x00 0x00; U4 0x20 0x00 0x00 0x00;
   U4 0x20 0x00 0x00 0x00; U4 0x20 0x00 0x00 0x00; U4 0x20 0x00 0x00 0x00; U4 0x20 0x00 0x00 0x00;
   U4 0x20 0x00 0x00 0x00; U4 0x20 0x00 0x00 0x00; U4 0x20 0x00 0x00 0x00; U4 0x20 0x00 0x00 0x00;
   U4 0x20 0x00 0x00 0x00; U4 0x20 0x00 0x00 0x00; U4 0x20 0x00 0x00 0x00; U4 0x20 0x00 0x00 0x00;
   U4 0x20 0x00 0x00 0x00; U4 0x20 0x00 0x00 0x00; U4 0x20 0x00 0x00 0x00; U4 0x20 0x00 0x00 0x00;
   U4 0x20 0x00 0x00 0x00; U4 0x20 0x00 0x00 0x00; U4 0x20 0x00 0x00 0x00; U4 0x20 0x00 0x00 0x00;
   U4 0x20 0x00 0x00 0x00; U4 0x20 0x00 0x00 0x00; U4 0x20 0x00 0x00 0x00; U4 0x20 0x00 0x00 0x00;
   U4 0x20 0x00 0x00 0x00; U4 0x20 0x00 0x00 0x00; U4 0x20 0x00 0x00 0x00; U4 0x20 0x00 0x00 0x00;
   U4 0x20 0x00 0x00 0x00; U4 0x20 0x00 0x00 0x00; U4 0x20 0x00 0x00 0x00; U4 0x20 0x00 0x00 0x00;
   U4 0x20 0x00 0x00 0x00; U4 0x20 0x00 0x00 0x00; U4 0x20 0x00 0x00 0x00; U4 0x20 0x00 0x00 0x00;
   U4 0x20 0x00 0x00 0x00; U4 0x20 0x00 0x00 0x00; U4 0x20 0x00 0x00 0x00; U4 0x20 0x00 0x00 0x00;
   U4 0x20 0x00 0x00 0x00; U4 0x20 0x00 0x00 0x00; U4 0x20 0x00 0x00 0x00; U4 0xE9 0xBE 0x9F 0x00;
   U4 0x20 0x00 0x00 0x00; U4 0x20 0x00 0x00 0x00; U4 0x20 0x00 0x00 0x00; U4 0x20 0x00 0x00 0x00;
   U4 0x20 0x00 0x00 0x00; U4 0x20 0x00 0x00 0x00; U4 0x20 0x00 0x00 0x00; U4 0x20 0x00 0x00 0x00;
   U4 0x20 0x00 0x00 0x00; U4 0x20 0x00 0x00 0x00; U4 0x20 0x00 0x00 0x00; U4 0x20 0x00 0x00 0x00].

Definition PLANE_3_E2_4_BC : Plane4Bytes :=
  [U4 0xE4 0xB8 0x80 0x00; U4 0xE4 0xB8 0xA8 0x00; U4 0xE4 0xB8 0xB6 0x00; U4 0xE4 0xB8 0xBF 0x00;
   U4 0xE4 0xB9 0x99 0x00; U4 0xE4 0xBA 0x85 0x00; U4 0xE4 0xBA 0x8C 0x00; U4 0xE4 0xBA 0xA0 0x00;
   U4 0xE4 0xBA 0xBA 0x00; U4 0xE5 0x84 0xBF 0x00; U4 0xE5 0x85 0xA5 0x00; U4 0xE5 0x85 0xAB 0x00;
   U4 0xE5 0x86 0x82 0x00; U4 0xE5 0x86 0x96 0x00; U4 0xE5 0x86 0xAB 0x00; U4 0xE5 0x87 0xA0 0x00;
   U4 0xE5 0x87 0xB5 0x00; U4 0xE5 0x88 0x80 0x00; U4 0xE5 0x8A 0x9B 0x00; U4 0xE5 0x8B 0xB9 0x00;
   U4 0xE5 0x8C 0x95 0x00; U4 0xE5 0x8C 0x9A 0x00; U4 0xE5 0x8C 0xB8 0x00; U4 0xE5 0x8D 0x81 0x00;
   U4 0xE5 0x8D 0x9C 0x00; U4 0xE5 0x8D 0xA9 0x00; U4 0xE5 0x8E 0x82 0x00; U4 0xE5 0x8E 0xB6 0x00;
   U4 0xE5 0x8F 0x88 0x00; U4 0xE5 0x8F 0xA3 0x00; U4 0xE5 0x9B 0x97 0x00; U4 0xE5 0x9C 0x9F 0x00;
   U4 0xE5 0xA3 0xAB 0x00; U4 0xE5 0xA4 0x82 0x00; U4 0xE5 0xA4 0x8A 0x00; U4 0xE5 0xA4 0x95 0x00;
   U4 0xE5 0xA4 0xA7 0x00; U4 0xE5 0xA5 0xB3 0x00; U4 0xE5 0xAD 0x90 0x00; U4 0xE5 0xAE 0x80 0x00;
   U4 0xE5 0xAF 0xB8 0x00; U4 0xE5 0xB0 0x8F 0x00; U4 0xE5 0xB0 0xA2 0x00; U4 0xE5 0xB0 0xB8 0x00;
   U4 0xE5 0xB1 0xAE 0x00; U4 0xE5 0xB1 0xB1 0x00; U4 0xE5 0xB7 0x9B 0x00; U4 0xE5 0xB7 0xA5 0x00;
   U4 0xE5 0xB7 0xB1 0x00; U4 0xE5 0xB7 0xBE 0x00; U4 0xE5 0xB9 0xB2 0x00; U4 0xE5 0xB9 0xBA 0x00;
   U4 0xE5 0xB9 0xBF 0x00; U4 0xE5 0xBB 0xB4 0x00; U4 0xE5 0xBB 0xBE 0x00; U4 0xE5 0xBC 0x8B 0x00;
   U4 0xE5 0xBC 0x93 0x00; U4 0xE5 0xBD 0x90 0x00; U4 0xE5 0xBD 0xA1 0x00; U4 0xE5 0xBD 0xB3 0x00;
   U4 0xE5 0xBF 0x83 0x00; U4 0xE6 0x88 0x88 0x00; U4 0xE6 0x88 0xB6 0x00; U4 0xE6 0x89 0x8B 0x00].

Definition PLANE_3_E2_4_BD : Plane4Bytes :=
  [U4 0xE6 0x94 0xAF 0x00; U4 0xE6 0x94 0xB4 0x00; U4 0xE6 0x96 0x87 0x00; U4 0xE6 0x96 0x97 0x00;
   U4 0xE6 0x96 0xA4 0x00; U4 0xE6 0x96 0xB9 0x00; U4 0xE6 0x97 0xA0 0x00; U4 0xE6 0x97 0xA5 0x00;
   U4 0xE6 0x9B 0xB0 0x00; U4 0xE6 0x9C 0x88 0x00; U4 0xE6 0x9C 0xA8 0x00; U4 0xE6 0xAC 0xA0 0x00;
   U4 0xE6 0xAD 0xA2 0x00; U4 0xE6 0xAD 0xB9 0x00; U4 0xE6 0xAE 0xB3 0x00; U4 0xE6 0xAF 0x8B 0x00;
   U4 0xE6 0xAF 0x94 0x00; U4 0xE6 0xAF 0x9B 0x00; U4 0xE6 0xB0 0x8F 0x00; U4 0xE6 0xB0 0x94 0x00;
   U4 0xE6 0xB0 0xB4 0x00; U4 0xE7 0x81 0xAB 0x00; U4 0xE7 0x88 0xAA 0x00; U4 0xE7 0x88 0xB6 0x00;
   U4 0xE7 0x88 0xBB 0x00; U4 0xE7 0x88 0xBF 0x00; U4 0xE7 0x89 0x87 0x00; U4 0xE7 0x89 0x99 0x00;
   U4 0xE7 0x89 0x9B 0x00; U4 0xE7 0x8A 0xAC 0x00; U4 0xE7 0x8E 0x84 0x00; U4 0xE7 0x8E 0x89 0x00;
   U4 0xE7 0x93 0x9C 0x00; U4 0xE7 0x93 0xA6 0x00; U4 0xE7 0x94 0x98 0x00; U4 0xE7 0x94 0x9F 0x00;
   U4 0xE7 0x94 0xA8 0x00; U4 0xE7 0x94 0xB0 0x00; U4 0xE7 0x96 0x8B 0x00; U4 0xE7 0x96 0x92 0x00;
   U4 0xE7 0x99 0xB6 0x00; U4 0xE7 0x99 0xBD 0x00; U4 0xE7 0x9A 0xAE 0x00; U4 0xE7 0x9A 0xBF 0x00;
   U4 0xE7 0x9B 0xAE 0x00; U4 0xE7 0x9F 0x9B 0x00; U4 0xE7 0x9F 0xA2 0x00; U4 0xE7 0x9F 0xB3 0x00;
   U4 0xE7 0xA4 0xBA 0x00; U4 0xE7 0xA6 0xB8 0x00; U4 0xE7 0xA6 0xBE 0x00; U4 0xE7 0xA9 0xB4 0x00;
   U4 0xE7 0xAB 0x8B 0x00; U4 0xE7 0xAB 0xB9 0x00; U4 0xE7 0xB1 0xB3 0x00; U4 0xE7 0xB3 0xB8 0x00;
   U4 0xE7 0xBC 0xB6 0x00; U4 0xE7 0xBD 0x91 0x00; U4 0xE7 0xBE 0x8A 0x00; U4 0xE7 0xBE 0xBD 0x00;
   U4 0xE8 0x80 0x81 0x00; U4 0xE8 0x80 0x8C 0x00; U4 0xE8 0x80 0x92 0x00; U4 0xE8 0x80 0xB3 0x00].

Definition PLANE_3_E2_4_BE : Plane4Bytes :=
  [U4 0xE8 0x81 0xBF 0x00; U4 0xE8 0x82 0x89 0x00; U4 0xE8 0x87 0xA3 0x00; U4 0xE8 0x87 0xAA 0x00;
   U4 0xE8 0x87 0xB3 0x00; U4 0xE8 0x87 0xBC 0x00; U4 0xE8 0x88 0x8C 0x00; U4 0xE8 0x88 0x9B 0x00;
   U4 0xE8 0x88 0x9F 0x00; U4 0xE8 0x89 0xAE 0x00; U4 0xE8 0x89 0xB2 0x00; U4 0xE8 0x89 0xB8 0x00;
   U4 0xE8 0x99 0x8D 0x00; U4 0xE8 0x99 0xAB 0x00; U4 0xE8 0xA1 0x80 0x00; U4 0xE8 0xA1 0x8C 0x00;
   U4 0xE8 0xA1 0xA3 0x00; U4 0xE8 0xA5 0xBE 0x00; U4 0xE8 0xA6 0x8B 0x00; U4 0xE8 0xA7 0x92 0x00;
   U4 0xE8 0xA8 0x80 0x00; U4 0xE8 0xB0 0xB7 0x00; U4 0xE8 0xB1 0x86 0x00; U4 0xE8 0xB1 0x95 0x00;
   U4 0xE8 0xB1 0xB8 0x00; U4 0xE8 0xB2 0x9D 0x00; U4 0xE8 0xB5 0xA4 0x00; U4 0xE8 0xB5 0xB0 0x00;
   U4 0xE8 0xB6 0xB3 0x00; U4 0xE8 0xBA 0xAB 0x00; U4 0xE8 0xBB 0x8A 0x00; U4 0xE8 0xBE 0x9B 0x00;
   U4 0xE8 0xBE 0xB0 0x00; U4 0xE8 0xBE 0xB5 0x00; U4 0xE9 0x82 0x91 0x00; U4 0xE9 0x85 0x89 0x00;
   U4 0xE9 0x87 0x86 0x00; U4 0xE9 0x87 0x8C 0x00; U4 0xE9 0x87 0x91 0x00; U4 0xE9 0x95 0xB7 0x00;
   U4 0xE9 0x96 0x80 0x00; U4 0xE9 0x98 0x9C 0x00; U4 0xE9 0x9A 0xB6 0x00; U4 0xE9 0x9A 0xB9 0x00;
   U4 0xE9 0x9B 0xA8 0x00; U4 0xE9 0x9D 0x91 0x00; U4 0xE9 0x9D 0x9E 0x00; U4 0xE9 0x9D 0xA2 0x00;
   U4 0xE9 0x9D 0xA9 0x00; U4 0xE9 0x9F 0x8B 0x00; U4 0xE9 0x9F 0xAD 0x00; U4 0xE9 0x9F 0xB3 0x00;
   U4 0xE9 0xA0 0x81 0x00; U4 0xE9 0xA2 0xA8 0x00; U4 0xE9 0xA3 0x9B 0x00; U4 0xE9 0xA3 0x9F 0x00;
   U4 0xE9 0xA6 0x96 0x00; U4 0xE9 0xA6 0x99 0x00; U4 0xE9 0xA6 0xAC 0x00; U4 0xE9 0xAA 0xA8 0x00;
   U4 0xE9 0xAB 0x98 0x00; U4 0xE9 0xAB 0x9F 0x00; U4 0xE9 0xAC 0xA5 0x00; U4 0xE9 0xAC 0xAF 0x00].

Definition PLANE_3_E2_4_BF : Plane4Bytes :=
  [U4 0xE9 0xAC 0xB2 0x00; U4 0xE9 0xAC 0xBC 0x00; U4 0xE9 0xAD 0x9A 0x00; U4 0xE9 0xB3 0xA5 0x00;
   U4 0xE9 0xB9 0xB5 0x00; U4 0xE9 0xB9 0xBF 0x00; U4 0xE9 0xBA 0xA5 0x00; U4 0xE9 0xBA 0xBB 0x00;
   U4 0xE9 0xBB 0x83 0x00; U4 0xE9 0xBB 0x8D 0x00; U4 0xE9 0xBB 0x91 0x00; U4 0xE9 0xBB 0xB9 0x00;
   U4 0xE9 0xBB 0xBD 0x00; U4 0xE9 0xBC 0x8E 0x00; U4 0xE9 0xBC 0x93 0x00; U4 0xE9 0xBC 0xA0 0x00;
   U4 0xE9 0xBC 0xBB 0x00; U4 0xE9 0xBD 0x8A 0x00; U4 0xE9 0xBD 0x92 0x00; U4 0xE9 0xBE 0x8D 0x00;
   U4 0xE9 0xBE 0x9C 0x00; U4 0xE9 0xBE 0xA0 0x00; U4 0x20 0x00 0x00 0x00; U4 0x20 0x00 0x00 0x00;
   U4 0x20 0x00 0x00 0x00; U4 0x20 0x00 0x00 0x00; U4 0x20 0x00 0x00 0x00; U4 0x20 0x00 0x00 0x00;
   U4 0x20 0x00 0x00 0x00; U4 0x20 0x00 0x00 0x00; U4 0x20 0x00 0x00 0x00; U4 0x20 0x00 0x00 0x00;
   U4 0x20 0x00 0x00 0x00; U4 0x20 0x00 0x00 0x00; U4 0x20 0x00 0x00 0x00; U4 0x20 0x00 0x00 0x00;
   U4 0x20 0x00 0x00 0x00; U4 0x20 0x00 0x00 0x00; U4 0x20 0x00 0x00 0x00; U4 0x20 0x00 0x00 0x00;
   U4 0x20 0x00 0x00 0x00; U4 0x20 0x00 0x00 0x00; U4 0x20 0x00 0x00 0x00; U4 0x20 0x00 0x00 0x00;
   U4 0x20 0x00 0x00 0x00; U4 0x20 0x00 0x00 0x00; U4 0x20 0x00 0x00 0x00; U4 0x20 0x00 0x00 0x00;
   U4 0x20 0x00 0x00 0x00; U4 0x20 0x00 0x00 0x00; U4 0x20 0x00 0x00 0x00; U4 0x20 0x00 0x00 0x00;
   U4 0x20 0x00 0x00 0x00; U4 0x20 0x00 0x00 0x00; U4 0x20 0x00 0x00 0x00; U4 0x20 0x00 0x00 0x00;
   U4 0x20 0x00 0x00 0x00; U4 0x20 0x00 0x00 0x00; U4 0x20 0x00 0x00 0x00; U4 0x20 0x00 0x00 0x00;
   U4 0x20 0x00 0x00 0x00; U4 0x20 0x00 0x00 0x00; U4 0x20 0x00 0x00 0x00; U4 0x20 0x00 0x00 0x00].

Definition TABLE_3_E2_4 : list Plane4Bytes :=
  [PLANE_3_E2_4_B0; PLANE_3_E2_4_B1; PLANE_3_E2_4_B2; PLANE_3_E2_4_B3;
   PLANE_3_E2_4_B4; PLANE_3_E2_4_B5; PLANE_3_E2_4_B6; PLANE_3_E2_4_B7;
   PLANE_3_E2_4_B8; PLANE_3_E2_4_B9; PLANE_3_E2_4_BA; PLANE_3_E2_4_BB;
   PLANE_3_E2_4_BC; PLANE_3_E2_4_BD; PLANE_3_E2_4_BE; PLANE_3_E2_4_BF].

Definition PLANE_3_E3_80 : Plane4Bytes :=
  [U4 0x20 0x00 0x00 0x00; U4 0x20 0x00 0x00 0x00; U4 0x20 0x00 0x00 0x00; U4 0x20 0x00 0x00 0x00;
   U4 0x20 0x00 0x00 0x00; U4 0xE3 0x80 0x85 0x00; U4 0xE3 0x80 0x86 0x00; U4 0xE3 0x80 0x87 0x00;
   U4 0x20 0x00 0x00 0x00; U4 0x20 0x00 0x00 0x00; U4 0x20 0x00 0x00 0x00; U4 0x20 0x00 0x00 0x00;
   U4 0x20 0x00 0x00 0x00; U4 0x20 0x00 0x00 0x00; U4 0x20 0x00 0x00 0x00; U4 0x20 0x00 0x00 0x00;
   U4 0x20 0x00 0x00 0x00; U4 0x20 0x00 0x00 0x00; U4 0x20 0x00 0x00 0x00; U4 0x20 0x00 0x00 0x00;
   U4 0x20 0x00 0x00 0x00; U4 0x20 0x00 0x00 0x00; U4 0x20 0x00 0x00 0x00; U4 0x20 0x00 0x00 0x00;
   U4 0x20 0x00 0x00 0x00; U4 0x20 0x00 0x00 0x00; U4 0x20 0x00 0x00 0x00; U4 0x20 0x00 0x00 0x00;
   U4 0x20 0x00 0x00 0x00; U4 0x20 0x00 0x00 0x00; U4 0x20 0x00 0x00 0x00; U4 0x20 0x00 0x00 0x00;
   U4 0x20 0x00 0x00 0x00; U4 0xE3 0x80 0xA1 0x00; U4 0xE3 0x80 0xA2 0x00; U4 0xE3 0x80 0xA3 0x00;
   U4 0xE3 0x80 0xA4 0x00; U4 0xE3 0x80 0xA5 0x00; U4 0xE3 0x80 0xA6 0x00; U4 0xE3 0x80 0xA7 0x00;
   U4 0xE3 0x80 0xA8 0x00; U4 0xE3 0x80 0xA9 0x00; U4 0x00 0x00 0x00 0x00; U4 0x00 0x00 0x00 0x00;
   U4 0x00 0x00 0x00 0x00; U4 0x00 0x00 0x00 0x00; U4 0x00 0x00 0x00 0x00; U4 0x00 0x00 0x00 0x00;
   U4 0x20 0x00 0x00 0x00; U4 0xE3 0x80 0xB1 0x00; U4 0xE3 0x80 0xB2 0x00; U4 0xE3 0x80 0xB3 0x00;
   U4 0xE3 0x80 0xB4 0x00; U4 0xE3 0x80 0xB5 0x00; U4 0x20 0x00 0x00 0x00; U4 0x20 0x00 0x00 0x00;
   U4 0xE5 0x8D 0x81 0x00; U4 0xE5 0x8D 0x84 0x00; U4 0xE5 0x8D 0x85 0x00; U4 0xE3 0x80 0xBB 0x00;
   U4 0xE3 0x80 0xBC 0x00; U4 0x20 0x00 0x00 0x00; U4 0x20 0x00 0x00 0x00; U4 0x20 0x00 0x00 0x00].

Definition PLANE_3_E3_81 : Plane4Bytes :=
  [U4 0x20 0x00 0x00 0x00; U4 0xE3 0x81 0x81 0x00; U4 0xE3 0x81 0x82 0x00; U4 0xE3 0x81 0x83 0x00;
   U4 0xE3 0x81 0x84 0x00; U4 0xE3 0x81 0x85 0x00; U4 0xE3 0x81 0x86 0x00; U4 0xE3 0x81 0x87 0x00;
   U4 0xE3 0x81 0x88 0x00; U4 0xE3 0x81 0x89 0x00; U4 0xE3 0x81 0x8A 0x00; U4 0xE3 0x81 0x8B 0x00;
   U4 0xE3 0x81 0x8B 0x00; U4 0xE3 0x81 0x8D 0x00; U4 0xE3 0x81 0x8D 0x00; U4 0xE3 0x81 0x8F 0x00;
   U4 0xE3 0x81 0x8F 0x00; U4 0xE3 0x81 0x91 0x00; U4 0xE3 0x81 0x91 0x00; U4 0xE3 0x81 0x93 0x00;
   U4 0xE3 0x81 0x93 0x00; U4 0xE3 0x81 0x95 0x00; U4 0xE3 0x81 0x95 0x00; U4 0xE3 0x81 0x97 0x00;
   U4 0xE3 0x81 0x97 0x00; U4 0xE3 0x81 0x99 0x00; U4 0xE3 0x81 0x99 0x00; U4 0xE3 0x81 0x9B 0x00;
   U4 0xE3 0x81 0x9B 0x00; U4 0xE3 0x81 0x9D 0x00; U4 0xE3 0x81 0x9D 0x00; U4 0xE3 0x81 0x9F 0x00;
   U4 0xE3 0x81 0x9F 0x00; U4 0xE3 0x81 0xA1 0x00; U4 0xE3 0x81 0xA1 0x00; U4 0xE3 0x81 0xA3 0x00;
   U4 0xE3 0x81 0xA4 0x00; U4 0xE3 0x81 0xA4 0x00; U4 0xE3 0x81 0xA6 0x00; U4 0xE3 0x81 0xA6 0x00;
   U4 0xE3 0x81 0xA8 0x00; U4 0xE3 0x81 0xA8 0x00; U4 0xE3 0x81 0xAA 0x00; U4 0xE3 0x81 0xAB 0x00;
   U4 0xE3 0x81 0xAC 0x00; U4 0xE3 0x81 0xAD 0x00; U4 0xE3 0x81 0xAE 0x00; U4 0xE3 0x81 0xAF 0x00;
   U4 0xE3 0x81 0xAF 0x00; U4 0xE3 0x81 0xAF 0x00; U4 0xE3 0x81 0xB2 0x00; U4 0xE3 0x81 0xB2 0x00;
   U4 0xE3 0x81 0xB2 0x00; U4 0xE3 0x81 0xB5 0x00; U4 0xE3 0x81 0xB5 0x00; U4 0xE3 0x81 0xB5 0x00;
   U4 0xE3 0x81 0xB8 0x00; U4 0xE3 0x81 0xB8 0x00; U4 0xE3 0x81 0xB8 0x00; U4 0xE3 0x81 0xBB 0x00;
   U4 0xE3 0x81 0xBB 0x00; U4 0xE3 0x81 0xBB 0x00; U4 0xE3 0x81 0xBE 0x00; U4 0xE3 0x81 0xBF 0x00].

Definition PLANE_3_E3_82 : Plane4Bytes :=
  [U4 0xE3 0x82 0x80 0x00; U4 0xE3 0x82 0x81 0x00; U4 0xE3 0x82 0x82 0x00; U4 0xE3 0x82 0x83 0x00;
   U4 0xE3 0x82 0x84 0x00; U4 0xE3 0x82 0x85 0x00; U4 0xE3 0x82 0x86 0x00; U4 0xE3 0x82 0x87 0x00;
   U4 0xE3 0x82 0x88 0x00; U4 0xE3 0x82 0x89 0x00; U4 0xE3 0x82 0x8A 0x00; U4 0xE3 0x82 0x8B 0x00;
   U4 0xE3 0x82 0x8C 0x00; U4 0xE3 0x82 0x8D 0x00; U4 0xE3 0x82 0x8E 0x00; U4 0xE3 0x82 0x8F 0x00;
   U4 0xE3 0x82 0x90 0x00; U4 0xE3 0x82 0x91 0x00; U4 0xE3 0x82 0x92 0x00; U4 0xE3 0x82 0x93 0x00;
   U4 0xE3 0x81 0x86 0x00; U4 0xE3 0x82 0x95 0x00; U4 0xE3 0x82 0x96 0x00; U4 0x20 0x00 0x00 0x00;
   U4 0x20 0x00 0x00 0x00; U4 0x00 0x00 0x00 0x00; U4 0x00 0x00 0x00 0x00; U4 0x20 0x00 0x00 0x00;
   U4 0x20 0x00 0x00 0x00; U4 0xE3 0x82 0x9D 0x00; U4 0xE3 0x82 0x9D 0x00; U4 0x00 0x01 0x00 0x00;
   U4 0x20 0x00 0x00 0x00; U4 0xE3 0x82 0xA1 0x00; U4 0xE3 0x82 0xA2 0x00; U4 0xE3 0x82 0xA3 0x00;
   U4 0xE3 0x82 0xA4 0x00; U4 0xE3 0x82 0xA5 0x00; U4 0xE3 0x82 0xA6 0x00; U4 0xE3 0x82 0xA7 0x00;
   U4 0xE3 0x82 0xA8 0x00; U4 0xE3 0x82 0xA9 0x00; U4 0xE3 0x82 0xAA 0x00; U4 0xE3 0x82 0xAB 0x00;
   U4 0xE3 0x82 0xAB 0x00; U4 0xE3 0x82 0xAD 0x00; U4 0xE3 0x82 0xAD 0x00; U4 0xE3 0x82 0xAF 0x00;
   U4 0xE3 0x82 0xAF 0x00; U4 0xE3 0x82 0xB1 0x00; U4 0xE3 0x82 0xB1 0x00; U4 0xE3 0x82 0xB3 0x00;
   U4 0xE3 0x82 0xB3 0x00; U4 0xE3 0x82 0xB5 0x00; U4 0xE3 0x82 0xB5 0x00; U4 0xE3 0x82 0xB7 0x00;
   U4 0xE3 0x82 0xB7 0x00; U4 0xE3 0x82 0xB9 0x00; U4 0xE3 0x82 0xB9 0x00; U4 0xE3 0x82 0xBB 0x00;
   U4 0xE3 0x82 0xBB 0x00; U4 0xE3 0x82 0xBD 0x00; U4 0xE3 0x82 0xBD 0x00; U4 0xE3 0x82 0xBF 0x00].

Definition PLANE_3_E3_83 : Plane4Bytes :=
  [U4 0xE3 0x82 0xBF 0x00; U4 0xE3 0x83 0x81 0x00; U4 0xE3 0x83 0x81 0x00; U4 0xE3 0x83 0x83 0x00;
   U4 0xE3 0x83 0x84 0x00; U4 0xE3 0x83 0x84 0x00; U4 0xE3 0x83 0x86 0x00; U4 0xE3 0x83 0x86 0x00;
   U4 0xE3 0x83 0x88 0x00; U4 0xE3 0x83 0x88 0x00; U4 0xE3 0x83 0x8A 0x00; U4 0xE3 0x83 0x8B 0x00;
   U4 0xE3 0x83 0x8C 0x00; U4 0xE3 0x83 0x8D 0x00; U4 0xE3 0x83 0x8E 0x00; U4 0xE3 0x83 0x8F 0x00;
   U4 0xE3 0x83 0x8F 0x00; U4 0xE3 0x83 0x8F 0x00; U4 0xE3 0x83 0x92 0x00; U4 0xE3 0x83 0x92 0x00;
   U4 0xE3 0x83 0x92 0x00; U4 0xE3 0x83 0x95 0x00; U4 0xE3 0x83 0x95 0x00; U4 0xE3 0x83 0x95 0x00;
   U4 0xE3 0x83 0x98 0x00; U4 0xE3 0x83 0x98 0x00; U4 0xE3 0x83 0x98 0x00; U4 0xE3 0x83 0x9B 0x00;
   U4 0xE3 0x83 0x9B 0x00; U4 0xE3 0x83 0x9B 0x00; U4 0xE3 0x83 0x9E 0x00; U4 0xE3 0x83 0x9F 0x00;
   U4 0xE3 0x83 0xA0 0x00; U4 0xE3 0x83 0xA1 0x00; U4 0xE3 0x83 0xA2 0x00; U4 0xE3 0x83 0xA3 0x00;
   U4 0xE3 0x83 0xA4 0x00; U4 0xE3 0x83 0xA5 0x00; U4 0xE3 0x83 0xA6 0x00; U4 0xE3 0x83 0xA7 0x00;
   U4 0xE3 0x83 0xA8 0x00; U4 0xE3 0x83 0xA9 0x00; U4 0xE3 0x83 0xAA 0x00; U4 0xE3 0x83 0xAB 0x00;
   U4 0xE3 0x83 0xAC 0x00; U4 0xE3 0x83 0xAD 0x00; U4 0xE3 0x83 0xAE 0x00; U4 0xE3 0x83 0xAF 0x00;
   U4 0xE3 0x83 0xB0 0x00; U4 0xE3 0x83 0xB1 0x00; U4 0xE3 0x83 0xB2 0x00; U4 0xE3 0x83 0xB3 0x00;
   U4 0xE3 0x82 0xA6 0x00; U4 0xE3 0x83 0xB5 0x00; U4 0xE3 0x83 0xB6 0x00; U4 0xE3 0x83 0xAF 0x00;
   U4 0xE3 0x83 0xB0 0x00; U4 0xE3 0x83 0xB1 0x00; U4 0xE3 0x83 0xB2 0x00; U4 0x20 0x00 0x00 0x00;
   U4 0xE3 0x83 0xBC 0x00; U4 0xE3 0x83 0xBD 0x00; U4 0xE3 0x83 0xBD 0x00; U4 0x00 0x02 0x00 0x00].

Definition PLANE_3_E3_84 : Plane4Bytes :=
  [U4 0x20 0x00 0x00 0x00; U4 0x20 0x00 0x00 0x00; U4 0x20 0x00 0x00 0x00; U4 0x20 0x00 0x00 0x00;
   U4 0x20 0x00 0x00 0x00; U4 0xE3 0x84 0x85 0x00; U4 0xE3 0x84 0x86 0x00; U4 0xE3 0x84 0x87 0x00;
   U4 0xE3 0x84 0x88 0x00; U4 0xE3 0x84 0x89 0x00; U4 0xE3 0x84 0x8A 0x00; U4 0xE3 0x84 0x8B 0x00;
   U4 0xE3 0x84 0x8C 0x00; U4 0xE3 0x84 0x8D 0x00; U4 0xE3 0x84 0x8E 0x00; U4 0xE3 0x84 0x8F 0x00;
   U4 0xE3 0x84 0x90 0x00; U4 0xE3 0x84 0x91 0x00; U4 0xE3 0x84 0x92 0x00; U4 0xE3 0x84 0x93 0x00;
   U4 0xE3 0x84 0x94 0x00; U4 0xE3 0x84 0x95 0x00; U4 0xE3 0x84 0x96 0x00; U4 0xE3 0x84 0x97 0x00;
   U4 0xE3 0x84 0x98 0x00; U4 0xE3 0x84 0x99 0x00; U4 0xE3 0x84 0x9A 0x00; U4 0xE3 0x84 0x9B 0x00;
   U4 0xE3 0x84 0x9C 0x00; U4 0xE3 0x84 0x9D 0x00; U4 0xE3 0x84 0x9E 0x00; U4 0xE3 0x84 0x9F 0x00;
   U4 0xE3 0x84 0xA0 0x00; U4 0xE3 0x84 0xA1 0x00; U4 0xE3 0x84 0xA2 0x00; U4 0xE3 0x84 0xA3 0x00;
   U4 0xE3 0x84 0xA4 0x00; U4 0xE3 0x84 0xA5 0x00; U4 0xE3 0x84 0xA6 0x00; U4 0xE3 0x84 0xA7 0x00;
   U4 0xE3 0x84 0xA8 0x00; U4 0xE3 0x84 0xA9 0x00; U4 0xE3 0x84 0xAA 0x00; U4 0xE3 0x84 0xAB 0x00;
   U4 0xE3 0x84 0xAC 0x00; U4 0xE3 0x84 0xAD 0x00; U4 0x20 0x00 0x00 0x00; U4 0x20 0x00 0x00 0x00;
   U4 0x20 0x00 0x00 0x00; U4 0xE1 0x84 0x80 0x00; U4 0xE1 0x84 0x81 0x00; U4 0xE1 0x86 0xAA 0x00;
   U4 0xE1 0x84 0x82 0x00; U4 0xE1 0x86 0xAC 0x00; U4 0xE1 0x86 0xAD 0x00; U4 0xE1 0x84 0x83 0x00;
   U4 0xE1 0x84 0x84 0x00; U4 0xE1 0x84 0x85 0x00; U4 0xE1 0x86 0xB0 0x00; U4 0xE1 0x86 0xB1 0x00;
   U4 0xE1 0x86 0xB2 0x00; U4 0xE1 0x86 0xB3 0x00; U4 0xE1 0x86 0xB4 0x00; U4 0xE1 0x86 0xB5 0x00].

Definition PLANE_3_E3_85 : Plane4Bytes :=
  [U4 0xE1 0x84 0x9A 0x00; U4 0xE1 0x84 0x86 0x00; U4 0xE1 0x84 0x87 0x00; U4 0xE1 0x84 0x88 0x00;
   U4 0xE1 0x84 0xA1 0x00; U4 0xE1 0x84 0x89 0x00; U4 0xE1 0x84 0x8A 0x00; U4 0xE1 0x84 0x8B 0x00;
   U4 0xE1 0x84 0x8C 0x00; U4 0xE1 0x84 0x8D 0x00; U4 0xE1 0x84 0x8E 0x00; U4 0xE1 0x84 0x8F 0x00;
   U4 0xE1 0x84 0x90 0x00; U4 0xE1 0x84 0x91 0x00; U4 0xE1 0x84 0x92 0x00; U4 0xE1 0x85 0xA1 0x00;
   U4 0xE1 0x85 0xA2 0x00; U4 0xE1 0x85 0xA3 0x00; U4 0xE1 0x85 0xA4 0x00; U4 0xE1 0x85 0xA5 0x00;
   U4 0xE1 0x85 0xA6 0x00; U4 0xE1 0x85 0xA7 0x00; U4 0xE1 0x85 0xA8 0x00; U4 0xE1 0x85 0xA9 0x00;
   U4 0xE1 0x85 0xAA 0x00; U4 0xE1 0x85 0xAB 0x00; U4 0xE1 0x85 0xAC 0x00; U4 0xE1 0x85 0xAD 0x00;
   U4 0xE1 0x85 0xAE 0x00; U4 0xE1 0x85 0xAF 0x00; U4 0xE1 0x85 0xB0 0x00; U4 0xE1 0x85 0xB1 0x00;
   U4 0xE1 0x85 0xB2 0x00; U4 0xE1 0x85 0xB3 0x00; U4 0xE1 0x85 0xB4 0x00; U4 0xE1 0x85 0xB5 0x00;
   U4 0xE1 0x85 0xA0 0x00; U4 0xE1 0x84 0x94 0x00; U4 0xE1 0x84 0x95 0x00; U4 0xE1 0x87 0x87 0x00;
   U4 0xE1 0x87 0x88 0x00; U4 0xE1 0x87 0x8C 0x00; U4 0xE1 0x87 0x8E 0x00; U4 0xE1 0x87 0x93 0x00;
   U4 0xE1 0x87 0x97 0x00; U4 0xE1 0x87 0x99 0x00; U4 0xE1 0x84 0x9C 0x00; U4 0xE1 0x87 0x9D 0x00;
   U4 0xE1 0x87 0x9F 0x00; U4 0xE1 0x84 0x9D 0x00; U4 0xE1 0x84 0x9E 0x00; U4 0xE1 0x84 0xA0 0x00;
   U4 0xE1 0x84 0xA2 0x00; U4 0xE1 0x84 0xA3 0x00; U4 0xE1 0x84 0xA7 0x00; U4 0xE1 0x84 0xA9 0x00;
   U4 0xE1 0x84 0xAB 0x00; U4 0xE1 0x84 0xAC 0x00; U4 0xE1 0x84 0xAD 0x00; U4 0xE1 0x84 0xAE 0x00;
   U4 0xE1 0x84 0xAF 0x00; U4 0xE1 0x84 0xB2 0x00; U4 0xE1 0x84 0xB6 0x00; U4 0xE1 0x85 0x80 0x00].

Definition PLANE_3_E3_86 : Plane4Bytes :=
  [U4 0xE1 0x85 0x87 0x00; U4 0xE1 0x85 0x8C 0x00; U4 0xE1 0x87 0xB1 0x00; U4 0xE1 0x87 0xB2 0x00;
   U4 0xE1 0x85 0x97 0x00; U4 0xE1 0x85 0x98 0x00; U4 0xE1 0x85 0x99 0x00; U4 0xE1 0x86 0x84 0x00;
   U4 0xE1 0x86 0x85 0x00; U4 0xE1 0x86 0x88 0x00; U4 0xE1 0x86 0x91 0x00; U4 0xE1 0x86 0x92 0x00;
   U4 0xE1 0x86 0x94 0x00; U4 0xE1 0x86 0x9E 0x00; U4 0xE1 0x86 0xA1 0x00; U4 0x20 0x00 0x00 0x00;
   U4 0x20 0x00 0x00 0x00; U4 0x20 0x00 0x00 0x00; U4 0xE4 0xB8 0x80 0x00; U4 0xE4 0xBA 0x8C 0x00;
   U4 0xE4 0xB8 0x89 0x00; U4 0xE5 0x9B 0x9B 0x00; U4 0xE4 0xB8 0x8A 0x00; U4 0xE4 0xB8 0xAD 0x00;
   U4 0xE4 0xB8 0x8B 0x00; U4 0xE7 0x94 0xB2 0x00; U4 0xE4 0xB9 0x99 0x00; U4 0xE4 0xB8 0x99 0x00;
   U4 0xE4 0xB8 0x81 0x00; U4 0xE5 0xA4 0xA9 0x00; U4 0xE5 0x9C 0xB0 0x00; U4 0xE4 0xBA 0xBA 0x00;
   U4 0xE3 0x86 0xA0 0x00; U4 0xE3 0x86 0xA1 0x00; U4 0xE3 0x86 0xA2 0x00; U4 0xE3 0x86 0xA3 0x00;
   U4 0xE3 0x86 0xA4 0x00; U4 0xE3 0x86 0xA5 0x00; U4 0xE3 0x86 0xA6 0x00; U4 0xE3 0x86 0xA7 0x00;
   U4 0xE3 0x86 0xA8 0x00; U4 0xE3 0x86 0xA9 0x00; U4 0xE3 0x86 0xAA 0x00; U4 0xE3 0x86 0xAB 0x00;
   U4 0xE3 0x86 0xAC 0x00; U4 0xE3 0x86 0xAD 0x00; U4 0xE3 0x86 0xAE 0x00; U4 0xE3 0x86 0xAF 0x00;
   U4 0xE3 0x86 0xB0 0x00; U4 0xE3 0x86 0xB1 0x00; U4 0xE3 0x86 0xB2 0x00; U4 0xE3 0x86 0xB3 0x00;
   U4 0xE3 0x86 0xB4 0x00; U4 0xE3 0x86 0xB5 0x00; U4 0xE3 0x86 0xB6 0x00; U4 0xE3 0x86 0xB7 0x00;
   U4 0xE3 0x86 0xB8 0x00; U4 0xE3 0x86 0xB9 0x00; U4 0xE3 0x86 0xBA 0x00; U4 0x20 0x00 0x00 0x00;
   U4 0x20 0x00 0x00 0x00; U4 0x20 0x00 0x00 0x00; U4 0x20 0x00 0x00 0x00; U4 0x20 0x00 0x00 0x00].

Definition PLANE_3_E3_87 : Plane4Bytes :=
  [U4 0x20 0x00 0x00 0x00; U4 0x20 0x00 0x00 0x00; U4 0x20 0x00 0x00 0x00; U4 0x20 0x00 0x00 0x00;
   U4 0x20 0x00 0x00 0x00; U4 0x20 0x00 0x00 0x00; U4 0x20 0x00 0x00 0x00; U4 0x20 0x00 0x00 0x00;
   U4 0x20 0x00 0x00 0x00; U4 0x20 0x00 0x00 0x00; U4 0x20 0x00 0x00 0x00; U4 0x20 0x00 0x00 0x00;
   U4 0x20 0x00 0x00 0x00; U4 0x20 0x00 0x00 0x00; U4 0x20 0x00 0x00 0x00; U4 0x20 0x00 0x00 0x00;
   U4 0x20 0x00 0x00 0x00; U4 0x20 0x00 0x00 0x00; U4 0x20 0x00 0x00 0x00; U4 0x20 0x00 0x00 0x00;
   U4 0x20 0x00 0x00 0x00; U4 0x20 0x00 0x00 0x00; U4 0x20 0x00 0x00 0x00; U4 0x20 0x00 0x00 0x00;
   U4 0x20 0x00 0x00 0x00; U4 0x20 0x00 0x00 0x00; U4 0x20 0x00 0x00 0x00; U4 0x20 0x00 0x00 0x00;
   U4 0x20 0x00 0x00 0x00; U4 0x20 0x00 0x00 0x00; U4 0x20 0x00 0x00 0x00; U4 0x20 0x00 0x00 0x00;
   U4 0x20 0x00 0x00 0x00; U4 0x20 0x00 0x00 0x00; U4 0x20 0x00 0x00 0x00; U4 0x20 0x00 0x00 0x00;
   U4 0x20 0x00 0x00 0x00; U4 0x20 0x00 0x00 0x00; U4 0x20 0x00 0x00 0x00; U4 0x20 0x00 0x00 0x00;
   U4 0x20 0x00 0x00 0x00; U4 0x20 0x00 0x00 0x00; U4 0x20 0x00 0x00 0x00; U4 0x20 0x00 0x00 0x00;
   U4 0x20 0x00 0x00 0x00; U4 0x20 0x00 0x00 0x00; U4 0x20 0x00 0x00 0x00; U4 0x20 0x00 0x00 0x00;
   U4 0xE3 0x87 0xB0 0x00; U4 0xE3 0x87 0xB1 0x00; U4 0xE3 0x87 0xB2 0x00; U4 0xE3 0x87 0xB3 0x00;
   U4 0xE3 0x87 0xB4 0x00; U4 0xE3 0x87 0xB5 0x00; U4 0xE3 0x87 0xB6 0x00; U4 0xE3 0x87 0xB7 0x00;
   U4 0xE3 0x87 0xB8 0x00; U4 0xE3 0x87 0xB9 0x00; U4 0xE3 0x87 0xBA 0x00; U4 0xE3 0x87 0xBB 0x00;
   U4 0xE3 0x87 0xBC 0x00; U4 0xE3 0x87 0xBD 0x00; U4 0xE3 0x87 0xBE 0x00; U4 0xE3 0x87 0xBF 0x00].

Definition PLANE_3_E3_88 : Plane4Bytes :=
  [U4 0x00 0x03 0x00 0x00; U4 0x00 0x04 0x00 0x00; U4 0x00 0x05 0x00 0x00; U4 0x00 0x06 0x00 0x00;
   U4 0x00 0x07 0x00 0x00; U4 0x00 0x08 0x00 0x00; U4 0x00 0x09 0x00 0x00; U4 0x00 0x0A 0x00 0x00;
   U4 0x00 0x0B 0x00 0x00; U4 0x00 0x0C 0x00 0x00; U4 0x00 0x0D 0x00 0x00; U4 0x00 0x0E 0x00 0x00;
   U4 0x00 0x0F 0x00 0x00; U4 0x00 0x10 0x00 0x00; U4 0x00 0x11 0x00 0x00; U4 0x00 0x12 0x00 0x00;
   U4 0x00 0x13 0x00 0x00; U4 0x00 0x14 0x00 0x00; U4 0x00 0x15 0x00 0x00; U4 0x00 0x16 0x00 0x00;
   U4 0x00 0x17 0x00 0x00; U4 0x00 0x18 0x00 0x00; U4 0x00 0x19 0x00 0x00; U4 0x00 0x1A 0x00 0x00;
   U4 0x00 0x1B 0x00 0x00; U4 0x00 0x1C 0x00 0x00; U4 0x00 0x1D 0x00 0x00; U4 0x00 0x1E 0x00 0x00;
   U4 0x00 0x1F 0x00 0x00; U4 0x00 0x20 0x00 0x00; U4 0x00 0x21 0x00 0x00; U4 0x20 0x00 0x00 0x00;
   U4 0x00 0x22 0x00 0x00; U4 0x00 0x23 0x00 0x00; U4 0x00 0x24 0x00 0x00; U4 0x00 0x25 0x00 0x00;
   U4 0x00 0x26 0x00 0x00; U4 0x00 0x27 0x00 0x00; U4 0x00 0x28 0x00 0x00; U4 0x00 0x29 0x00 0x00;
   U4 0x00 0x2A 0x00 0x00; U4 0x00 0x2B 0x00 0x00; U4 0x00 0x2C 0x00 0x00; U4 0x00 0x2D 0x00 0x00;
   U4 0x00 0x2E 0x00 0x00; U4 0x00 0x2F 0x00 0x00; U4 0x00 0x30 0x00 0x00; U4 0x00 0x31 0x00 0x00;
   U4 0x00 0x32 0x00 0x00; U4 0x00 0x33 0x00 0x00; U4 0x00 0x34 0x00 0x00; U4 0x00 0x35 0x00 0x00;
   U4 0x00 0x36 0x00 0x00; U4 0x00 0x37 0x00 0x00; U4 0x00 0x38 0x00 0x00; U4 0x00 0x39 0x00 0x00;
   U4 0x00 0x3A 0x00 0x00; U4 0x00 0x3B 0x00 0x00; U4 0x00 0x3C 0x00 0x00; U4 0x00 0x3D 0x00 0x00;
   U4 0x00 0x3E 0x00 0x00; U4 0x00 0x3F 0x00 0x00; U4 0x00 0x40 0x00 0x00; U4 0x00 0x41 0x00 0x00].

Definition PLANE_3_E3_89 : Plane4Bytes :=
  [U4 0x00 0x42 0x00 0x00; U4 0x00 0x43 0x00 0x00; U4 0x00 0x44 0x00 0x00; U4 0x00 0x45 0x00 0x00;
   U4 0xE5 0x95 0x8F 0x00; U4 0xE5 0xB9 0xBC 0x00; U4 0xE6 0x96 0x87 0x00; U4 0xE7 0xAE 0x8F 0x00;
   U4 0xE3 0x89 0x88 0x00; U4 0xE3 0x89 0x89 0x00; U4 0xE3 0x89 0x8A 0x00; U4 0xE3 0x89 0x8B 0x00;
   U4 0xE3 0x89 0x8C 0x00; U4 0xE3 0x89 0x8D 0x00; U4 0xE3 0x89 0x8E 0x00; U4 0xE3 0x89 0x8F 0x00;
   U4 0x70 0x74 0x65 0x00; U4 0x32 0x31 0x00 0x00; U4 0x32 0x32 0x00 0x00; U4 0x32 0x33 0x00 0x00;
   U4 0x32 0x34 0x00 0x00; U4 0x32 0x35 0x00 0x00; U4 0x32 0x36 0x00 0x00; U4 0x32 0x37 0x00 0x00;
   U4 0x32 0x38 0x00 0x00; U4 0x32 0x39 0x00 0x00; U4 0x33 0x30 0x00 0x00; U4 0x33 0x31 0x00 0x00;
   U4 0x33 0x32 0x00 0x00; U4 0x33 0x33 0x00 0x00; U4 0x33 0x34 0x00 0x00; U4 0x33 0x35 0x00 0x00;
   U4 0xE1 0x84 0x80 0x00; U4 0xE1 0x84 0x82 0x00; U4 0xE1 0x84 0x83 0x00; U4 0xE1 0x84 0x85 0x00;
   U4 0xE1 0x84 0x86 0x00; U4 0xE1 0x84 0x87 0x00; U4 0xE1 0x84 0x89 0x00; U4 0xE1 0x84 0x8B 0x00;
   U4 0xE1 0x84 0x8C 0x00; U4 0xE1 0x84 0x8E 0x00; U4 0xE1 0x84 0x8F 0x00; U4 0xE1 0x84 0x90 0x00;
   U4 0xE1 0x84 0x91 0x00; U4 0xE1 0x84 0x92 0x00; U4 0x00 0x46 0x00 0x00; U4 0x00 0x47 0x00 0x00;
   U4 0x00 0x48 0x00 0x00; U4 0x00 0x49 0x00 0x00; U4 0x00 0x4A 0x00 0x00; U4 0x00 0x4B 0x00 0x00;
   U4 0x00 0x4C 0x00 0x00; U4 0x00 0x4D 0x00 0x00; U4 0x00 0x4E 0x00 0x00; U4 0x00 0x4F 0x00 0x00;
   U4 0x00 0x50 0x00 0x00; U4 0x00 0x51 0x00 0x00; U4 0x00 0x52 0x00 0x00; U4 0x00 0x53 0x00 0x00;
   U4 0x00 0x54 0x00 0x00; U4 0x00 0x55 0x00 0x00; U4 0x00 0x56 0x00 0x00; U4 0x20 0x00 0x00 0x00].

Definition PLANE_3_E3_8A : Plane4Bytes :=
  [U4 0xE4 0xB8 0x80 0x00; U4 0xE4 0xBA 0x8C 0x00; U4 0xE4 0xB8 0x89 0x00; U4 0xE5 0x9B 0x9B 0x00;
   U4 0xE4 0xBA 0x94 0x00; U4 0xE5 0x85 0xAD 0x00; U4 0xE4 0xB8 0x83 0x00; U4 0xE5 0x85 0xAB 0x00;
   U4 0xE4 0xB9 0x9D 0x00; U4 0xE5 0x8D 0x81 0x00; U4 0xE6 0x9C 0x88 0x00; U4 0xE7 0x81 0xAB 0x00;
   U4 0xE6 0xB0 0xB4 0x00; U4 0xE6 0x9C 0xA8 0x00; U4 0xE9 0x87 0x91 0x00; U4 0xE5 0x9C 0x9F 0x00;
   U4 0xE6 0x97 0xA5 0x00; U4 0xE6 0xA0 0xAA 0x00; U4 0xE6 0x9C 0x89 0x00; U4 0xE7 0xA4 0xBE 0x00;
   U4 0xE5 0x90 0x8D 0x00; U4 0xE7 0x89 0xB9 0x00; U4 0xE8 0xB2 0xA1 0x00; U4 0xE7 0xA5 0x9D 0x00;
   U4 0xE5 0x8A 0xB4 0x00; U4 0xE7 0xA7 0x98 0x00; U4 0xE7 0x94 0xB7 0x00; U4 0xE5 0xA5 0xB3 0x00;
   U4 0xE9 0x81 0xA9 0x00; U4 0xE5 0x84 0xAA 0x00; U4 0xE5 0x8D 0xB0 0x00; U4 0xE6 0xB3 0xA8 0x00;
   U4 0xE9 0xA0 0x85 0x00; U4 0xE4 0xBC 0x91 0x00; U4 0xE5 0x86 0x99 0x00; U4 0xE6 0xAD 0xA3 0x00;
   U4 0xE4 0xB8 0x8A 0x00; U4 0xE4 0xB8 0xAD 0x00; U4 0xE4 0xB8 0x8B 0x00; U4 0xE5 0xB7 0xA6 0x00;
   U4 0xE5 0x8F 0xB3 0x00; U4 0xE5 0x8C 0xBB 0x00; U4 0xE5 0xAE 0x97 0x00; U4 0xE5 0xAD 0xA6 0x00;
   U4 0xE7 0x9B 0xA3 0x00; U4 0xE4 0xBC 0x81 0x00; U4 0xE8 0xB3 0x87 0x00; U4 0xE5 0x8D 0x94 0x00;
   U4 0xE5 0xA4 0x9C 0x00; U4 0x33 0x36 0x00 0x00; U4 0x33 0x37 0x00 0x00; U4 0x33 0x38 0x00 0x00;
   U4 0x33 0x39 0x00 0x00; U4 0x34 0x30 0x00 0x00; U4 0x34 0x31 0x00 0x00; U4 0x34 0x32 0x00 0x00;
   U4 0x34 0x33 0x00 0x00; U4 0x34 0x34 0x00 0x00; U4 0x34 0x35 0x00 0x00; U4 0x34 0x36 0x00 0x00;
   U4 0x34 0x37 0x00 0x00; U4 0x34 0x38 0x00 0x00; U4 0x34 0x39 0x00 0x00; U4 0x35 0x30 0x00 0x00].

Definition PLANE_3_E3_8B : Plane4Bytes :=
  [U4 0x31 0xE6 0x9C 0x88; U4 0x32 0xE6 0x9C 0x88; U4 0x33 0xE6 0x9C 0x88; U4 0x34 0xE6 0x9C 0x88;
   U4 0x35 0xE6 0x9C 0x88; U4 0x36 0xE6 0x9C 0x88; U4 0x37 0xE6 0x9C 0x88; U4 0x38 0xE6 0x9C 0x88;
   U4 0x39 0xE6 0x9C 0x88; U4 0x00 0x57 0x00 0x00; U4 0x00 0x58 0x00 0x00; U4 0x00 0x59 0x00 0x00;
   U4 0x68 0x67 0x00 0x00; U4 0x65 0x72 0x67 0x00; U4 0x65 0x76 0x00 0x00; U4 0x6C 0x74 0x64 0x00;
   U4 0xE3 0x82 0xA2 0x00; U4 0xE3 0x82 0xA4 0x00; U4 0xE3 0x82 0xA6 0x00; U4 0xE3 0x82 0xA8 0x00;
   U4 0xE3 0x82 0xAA 0x00; U4 0xE3 0x82 0xAB 0x00; U4 0xE3 0x82 0xAD 0x00; U4 0xE3 0x82 0xAF 0x00;
   U4 0xE3 0x82 0xB1 0x00; U4 0xE3 0x82 0xB3 0x00; U4 0xE3 0x82 0xB5 0x00; U4 0xE3 0x82 0xB7 0x00;
   U4 0xE3 0x82 0xB9 0x00; U4 0xE3 0x82 0xBB 0x00; U4 0xE3 0x82 0xBD 0x00; U4 0xE3 0x82 0xBF 0x00;
   U4 0xE3 0x83 0x81 0x00; U4 0xE3 0x83 0x84 0x00; U4 0xE3 0x83 0x86 0x00; U4 0xE3 0x83 0x88 0x00;
   U4 0xE3 0x83 0x8A 0x00; U4 0xE3 0x83 0x8B 0x00; U4 0xE3 0x83 0x8C 0x00; U4 0xE3 0x83 0x8D 0x00;
   U4 0xE3 0x83 0x8E 0x00; U4 0xE3 0x83 0x8F 0x00; U4 0xE3 0x83 0x92 0x00; U4 0xE3 0x83 0x95 0x00;
   U4 0xE3 0x83 0x98 0x00; U4 0xE3 0x83 0x9B 0x00; U4 0xE3 0x83 0x9E 0x00; U4 0xE3 0x83 0x9F 0x00;
   U4 0xE3 0x83 0xA0 0x00; U4 0xE3 0x83 0xA1 0x00; U4 0xE3 0x83 0xA2 0x00; U4 0xE3 0x83 0xA4 0x00;
   U4 0xE3 0x83 0xA6 0x00; U4 0xE3 0x83 0xA8 0x00; U4 0xE3 0x83 0xA9 0x00; U4 0xE3 0x83 0xAA 0x00;
   U4 0xE3 0x83 0xAB 0x00; U4 0xE3 0x83 0xAC 0x00; U4 0xE3 0x83 0xAD 0x00; U4 0xE3 0x83 0xAF 0x00;
   U4 0xE3 0x83 0xB0 0x00; U4 0xE3 0x83 0xB1 0x00; U4 0xE3 0x83 0xB2 0x00; U4 0x20 0x00 0x00 0x00].

Definition PLANE_3_E3_8C : Plane4Bytes :=
  [U4 0x00 0x5A 0x00 0x00; U4 0x00 0x5B 0x00 0x00; U4 0x00 0x5C 0x00 0x00; U4 0x00 0x5D 0x00 0x00;
   U4 0x00 0x5E 0x00 0x00; U4 0x00 0x5F 0x00 0x00; U4 0x00 0x60 0x00 0x00; U4 0x00 0x61 0x00 0x00;
   U4 0x00 0x62 0x00 0x00; U4 0x00 0x63 0x00 0x00; U4 0x00 0x64 0x00 0x00; U4 0x00 0x65 0x00 0x00;
   U4 0x00 0x66 0x00 0x00; U4 0x00 0x67 0x00 0x00; U4 0x00 0x68 0x00 0x00; U4 0x00 0x69 0x00 0x00;
   U4 0x00 0x6A 0x00 0x00; U4 0x00 0x6B 0x00 0x00; U4 0x00 0x6C 0x00 0x00; U4 0x00 0x6D 0x00 0x00;
   U4 0x00 0x6E 0x00 0x00; U4 0x00 0x6F 0x00 0x00; U4 0x00 0x70 0x00 0x00; U4 0x00 0x71 0x00 0x00;
   U4 0x00 0x72 0x00 0x00; U4 0x00 0x73 0x00 0x00; U4 0x00 0x74 0x00 0x00; U4 0x00 0x75 0x00 0x00;
   U4 0x00 0x76 0x00 0x00; U4 0x00 0x77 0x00 0x00; U4 0x00 0x78 0x00 0x00; U4 0x00 0x79 0x00 0x00;
   U4 0x00 0x7A 0x00 0x00; U4 0x00 0x7B 0x00 0x00; U4 0x00 0x7C 0x00 0x00; U4 0x00 0x7D 0x00 0x00;
   U4 0x00 0x7E 0x00 0x00; U4 0x00 0x7F 0x00 0x00; U4 0x00 0x80 0x00 0x00; U4 0x00 0x81 0x00 0x00;
   U4 0x00 0x82 0x00 0x00; U4 0x00 0x83 0x00 0x00; U4 0x00 0x84 0x00 0x00; U4 0x00 0x85 0x00 0x00;
   U4 0x00 0x86 0x00 0x00; U4 0x00 0x87 0x00 0x00; U4 0x00 0x88 0x00 0x00; U4 0x00 0x89 0x00 0x00;
   U4 0x00 0x8A 0x00 0x00; U4 0x00 0x8B 0x00 0x00; U4 0x00 0x8C 0x00 0x00; U4 0x00 0x8D 0x00 0x00;
   U4 0x00 0x8E 0x00 0x00; U4 0x00 0x8F 0x00 0x00; U4 0x00 0x90 0x00 0x00; U4 0x00 0x91 0x00 0x00;
   U4 0x00 0x92 0x00 0x00; U4 0x00 0x93 0x00 0x00; U4 0x00 0x94 0x00 0x00; U4 0x00 0x95 0x00 0x00;
   U4 0x00 0x96 0x00 0x00; U4 0x00 0x97 0x00 0x00; U4 0x00 0x98 0x00 0x00; U4 0x00 0x99 0x00 0x00].

Definition PLANE_3_E3_8D : Plane4Bytes :=
  [U4 0x00 0x9A 0x00 0x00; U4 0x00 0x9B 0x00 0x00; U4 0x00 0x9C 0x00 0x00; U4 0x00 0x9D 0x00 0x00;
   U4 0x00 0x9E 0x00 0x00; U4 0x00 0x9F 0x00 0x00; U4 0x00 0xA0 0x00 0x00; U4 0x00 0xA1 0x00 0x00;
   U4 0x00 0xA2 0x00 0x00; U4 0x00 0xA3 0x00 0x00; U4 0x00 0xA4 0x00 0x00; U4 0x00 0xA5 0x00 0x00;
   U4 0x00 0xA6 0x00 0x00; U4 0x00 0xA7 0x00 0x00; U4 0x00 0xA8 0x00 0x00; U4 0x00 0xA9 0x00 0x00;
   U4 0x00 0xAA 0x00 0x00; U4 0x00 0xAB 0x00 0x00; U4 0x00 0xAC 0x00 0x00; U4 0x00 0xAD 0x00 0x00;
   U4 0x00 0xAE 0x00 0x00; U4 0x00 0xAF 0x00 0x00; U4 0x00 0xB0 0x00 0x00; U4 0x00 0xB1 0x00 0x00;
   U4 0x30 0xE7 0x82 0xB9; U4 0x31 0xE7 0x82 0xB9; U4 0x32 0xE7 0x82 0xB9; U4 0x33 0xE7 0x82 0xB9;
   U4 0x34 0xE7 0x82 0xB9; U4 0x35 0xE7 0x82 0xB9; U4 0x36 0xE7 0x82 0xB9; U4 0x37 0xE7 0x82 0xB9;
   U4 0x38 0xE7 0x82 0xB9; U4 0x39 0xE7 0x82 0xB9; U4 0x00 0xB2 0x00 0x00; U4 0x00 0xB3 0x00 0x00;
   U4 0x00 0xB4 0x00 0x00; U4 0x00 0xB5 0x00 0x00; U4 0x00 0xB6 0x00 0x00; U4 0x00 0xB7 0x00 0x00;
   U4 0x00 0xB8 0x00 0x00; U4 0x00 0xB9 0x00 0x00; U4 0x00 0xBA 0x00 0x00; U4 0x00 0xBB 0x00 0x00;
   U4 0x00 0xBC 0x00 0x00; U4 0x00 0xBD 0x00 0x00; U4 0x00 0xBE 0x00 0x00; U4 0x00 0xBF 0x00 0x00;
   U4 0x00 0xC0 0x00 0x00; U4 0x68 0x70 0x61 0x00; U4 0x64 0x61 0x00 0x00; U4 0x61 0x75 0x00 0x00;
   U4 0x62 0x61 0x72 0x00; U4 0x6F 0x76 0x00 0x00; U4 0x70 0x63 0x00 0x00; U4 0x64 0x6D 0x00 0x00;
   U4 0x64 0x6D 0x32 0x00; U4 0x64 0x6D 0x33 0x00; U4 0x69 0x75 0x00 0x00; U4 0x00 0xC1 0x00 0x00;
   U4 0x00 0xC2 0x00 0x00; U4 0x00 0xC3 0x00 0x00; U4 0x00 0xC4 0x00 0x00; U4 0x00 0xC5 0x00 0x00].

Definition PLANE_3_E3_8E : Plane4Bytes :=
  [U4 0x70 0x61 0x00 0x00; U4 0x6E 0x61 0x00 0x00; U4 0xCE 0xBC 0x61 0x00; U4 0x6D 0x61 0x00 0x00;
   U4 0x6B 0x61 0x00 0x00; U4 0x6B 0x62 0x00 0x00; U4 0x6D 0x62 0x00 0x00; U4 0x67 0x62 0x00 0x00;
   U4 0x63 0x61 0x6C 0x00; U4 0x6B 0x63 0x61 0x6C; U4 0x70 0x66 0x00 0x00; U4 0x6E 0x66 0x00 0x00;
   U4 0xCE 0xBC 0x66 0x00; U4 0xCE 0xBC 0x67 0x00; U4 0x6D 0x67 0x00 0x00; U4 0x6B 0x67 0x00 0x00;
   U4 0x68 0x7A 0x00 0x00; U4 0x6B 0x68 0x7A 0x00; U4 0x6D 0x68 0x7A 0x00; U4 0x67 0x68 0x7A 0x00;
   U4 0x74 0x68 0x7A 0x00; U4 0xCE 0xBC 0x6C 0x00; U4 0x6D 0x6C 0x00 0x00; U4 0x64 0x6C 0x00 0x00;
   U4 0x6B 0x6C 0x00 0x00; U4 0x66 0x6D 0x00 0x00; U4 0x6E 0x6D 0x00 0x00; U4 0xCE 0xBC 0x6D 0x00;
   U4 0x6D 0x6D 0x00 0x00; U4 0x63 0x6D 0x00 0x00; U4 0x6B 0x6D 0x00 0x00; U4 0x6D 0x6D 0x32 0x00;
   U4 0x63 0x6D 0x32 0x00; U4 0x6D 0x32 0x00 0x00; U4 0x6B 0x6D 0x32 0x00; U4 0x6D 0x6D 0x33 0x00;
   U4 0x63 0x6D 0x33 0x00; U4 0x6D 0x33 0x00 0x00; U4 0x6B 0x6D 0x33 0x00; U4 0x6D 0x20 0x73 0x00;
   U4 0x6D 0x20 0x73 0x32; U4 0x70 0x61 0x00 0x00; U4 0x6B 0x70 0x61 0x00; U4 0x6D 0x70 0x61 0x00;
   U4 0x67 0x70 0x61 0x00; U4 0x72 0x61 0x64 0x00; U4 0x00 0xC6 0x00 0x00; U4 0x00 0xC7 0x00 0x00;
   U4 0x70 0x73 0x00 0x00; U4 0x6E 0x73 0x00 0x00; U4 0xCE 0xBC 0x73 0x00; U4 0x6D 0x73 0x00 0x00;
   U4 0x70 0x76 0x00 0x00; U4 0x6E 0x76 0x00 0x00; U4 0xCE 0xBC 0x76 0x00; U4 0x6D 0x76 0x00 0x00;
   U4 0x6B 0x76 0x00 0x00; U4 0x6D 0x76 0x00 0x00; U4 0x70 0x77 0x00 0x00; U4 0x6E 0x77 0x00 0x00;
   U4 0xCE 0xBC 0x77 0x00; U4 0x6D 0x77 0x00 0x00; U4 0x6B 0x77 0x00 0x00; U4 0x6D 0x77 0x00 0x00].

Definition PLANE_3_E3_8F : Plane4Bytes :=
  [U4 0x6B 0xCF 0x89 0x00; U4 0x6D 0xCF 0x89 0x00; U4 0x61 0x20 0x6D 0x20; U4 0x62 0x71 0x00 0x00;
   U4 0x63 0x63 0x00 0x00; U4 0x63 0x64 0x00 0x00; U4 0x63 0x20 0x6B 0x67; U4 0x63 0x6F 0x20 0x00;
   U4 0x64 0x62 0x00 0x00; U4 0x67 0x79 0x00 0x00; U4 0x68 0x61 0x00 0x00; U4 0x68 0x70 0x00 0x00;
   U4 0x69 0x6E 0x00 0x00; U4 0x6B 0x6B 0x00 0x00; U4 0x6B 0x6D 0x00 0x00; U4 0x6B 0x74 0x00 0x00;
   U4 0x6C 0x6D 0x00 0x00; U4 0x6C 0x6E 0x00 0x00; U4 0x6C 0x6F 0x67 0x00; U4 0x6C 0x78 0x00 0x00;
   U4 0x6D 0x62 0x00 0x00; U4 0x6D 0x69 0x6C 0x00; U4 0x6D 0x6F 0x6C 0x00; U4 0x70 0x68 0x00 0x00;
   U4 0x70 0x20 0x6D 0x20; U4 0x70 0x70 0x6D 0x00; U4 0x70 0x72 0x00 0x00; U4 0x73 0x72 0x00 0x00;
   U4 0x73 0x76 0x00 0x00; U4 0x77 0x62 0x00 0x00; U4 0x76 0x20 0x6D 0x00; U4 0x61 0x20 0x6D 0x00;
   U4 0x31 0xE6 0x97 0xA5; U4 0x32 0xE6 0x97 0xA5; U4 0x33 0xE6 0x97 0xA5; U4 0x34 0xE6 0x97 0xA5;
   U4 0x35 0xE6 0x97 0xA5; U4 0x36 0xE6 0x97 0xA5; U4 0x37 0xE6 0x97 0xA5; U4 0x38 0xE6 0x97 0xA5;
   U4 0x39 0xE6 0x97 0xA5; U4 0x00 0xC8 0x00 0x00; U4 0x00 0xC9 0x00 0x00; U4 0x00 0xCA 0x00 0x00;
   U4 0x00 0xCB 0x00 0x00; U4 0x00 0xCC 0x00 0x00; U4 0x00 0xCD 0x00 0x00; U4 0x00 0xCE 0x00 0x00;
   U4 0x00 0xCF 0x00 0x00; U4 0x00 0xD0 0x00 0x00; U4 0x00 0xD1 0x00 0x00; U4 0x00 0xD2 0x00 0x00;
   U4 0x00 0xD3 0x00 0x00; U4 0x00 0xD4 0x00 0x00; U4 0x00 0xD5 0x00 0x00; U4 0x00 0xD6 0x00 0x00;
   U4 0x00 0xD7 0x00 0x00; U4 0x00 0xD8 0x00 0x00; U4 0x00 0xD9 0x00 0x00; U4 0x00 0xDA 0x00 0x00;
   U4 0x00 0xDB 0x00 0x00; U4 0x00 0xDC 0x00 0x00; U4 0x00 0xDD 0x00 0x00; U4 0x67 0x61 0x6C 0x00].

Definition TABLE_3_E3 : list Plane4Bytes :=
  [PLANE_3_E3_80; PLANE_3_E3_81; PLANE_3_E3_82; PLANE_3_E3_83;
   PLANE_3_E3_84; PLANE_3_E3_85; PLANE_3_E3_86; PLANE_3_E3_87;
   PLANE_3_E3_88; PLANE_3_E3_89; PLANE_3_E3_8A; PLANE_3_E3_8B;
   PLANE_3_E3_8C; PLANE_3_E3_8D; PLANE_3_E3_8E; PLANE_3_E3_8F].

Definition TABLE_3_E3_ : list (list Z) :=
  [[];
   [0xE3; 0x82; 0x88; 0xE3; 0x82; 0x8A];
   [0xE3; 0x82; 0xB3; 0xE3; 0x83; 0x88];
   [0x20; 0xE1; 0x84; 0x80; 0x20];
   [0x20; 0xE1; 0x84; 0x82; 0x20];
   [0x20; 0xE1; 0x84; 0x83; 0x20];
   [0x20; 0xE1; 0x84; 0x85; 0x20];
   [0x20; 0xE1; 0x84; 0x86; 0x20];
   [0x20; 0xE1; 0x84; 0x87; 0x20];
   [0x20; 0xE1; 0x84; 0x89; 0x20];
   [0x20; 0xE1; 0x84; 0x8B; 0x20];
   [0x20; 0xE1; 0x84; 0x8C; 0x20];
   [0x20; 0xE1; 0x84; 0x8E; 0x20];
   [0x20; 0xE1; 0x84; 0x8F; 0x20];
   [0x20; 0xE1; 0x84; 0x90; 0x20];
   [0x20; 0xE1; 0x84; 0x91; 0x20];
   [0x20; 0xE1; 0x84; 0x92; 0x20];
   [0x20; 0xE1; 0x84; 0x80; 0xE1; 0x85; 0xA1; 0x20];
   [0x20; 0xE1; 0x84; 0x82; 0xE1; 0x85; 0xA1; 0x20];
   [0x20; 0xE1; 0x84; 0x83; 0xE1; 0x85; 0xA1; 0x20];
   [0x20; 0xE1; 0x84; 0x85; 0xE1; 0x85; 0xA1; 0x20];
   [0x20; 0xE1; 0x84; 0x86; 0xE1; 0x85; 0xA1; 0x20];
   [0x20; 0xE1; 0x84; 0x87; 0xE1; 0x85; 0xA1; 0x20];
   [0x20; 0xE1; 0x84; 0x89; 0xE1; 0x85; 0xA1; 0x20];
   [0x20; 0xE1; 0x84; 0x8B; 0xE1; 0x85; 0xA1; 0x20];
   [0x20; 0xE1; 0x84; 0x8C; 0xE1; 0x85; 0xA1; 0x20];
   [0x20; 0xE1; 0x84; 0x8E; 0xE1; 0x85; 0xA1; 0x20];
   [0x20; 0xE1; 0x84; 0x8F; 0xE1; 0x85; 0xA1; 0x20];
   [0x20; 0xE1; 0x84; 0x90; 0xE1; 0x85; 0xA1; 0x20];
   [0x20; 0xE1; 0x84; 0x91; 0xE1; 0x85; 0xA1; 0x20];
   [0x20; 0xE1; 0x84; 0x92; 0xE1; 0x85; 0xA1; 0x20];
   [0x20; 0xE1; 0x84; 0x8C; 0xE1; 0x85; 0xAE; 0x20];
   [0x20; 0xE1; 0x84; 0x8B; 0xE1; 0x85; 0xA9; 0xE1; 0x84; 0x8C; 0xE1; 0x85; 0xA5; 0xE1; 0x86; 0xAB; 0x20];
   [0x20; 0xE1; 0x84; 0x8B; 0xE1; 0x85; 0xA9; 0xE1; 0x84; 0x92; 0xE1; 0x85; 0xAE; 0x20];
   [0x20; 0xE4; 0xB8; 0x80; 0x20];
   [0x20; 0xE4; 0xBA; 0x8C; 0x20];
   [0x20; 0xE4; 0xB8; 0x89; 0x20];
   [0x20; 0xE5; 0x9B; 0x9B; 0x20];
   [0x20; 0xE4; 0xBA; 0x94; 0x20];
   [0x20; 0xE5; 0x85; 0xAD; 0x20];
   [0x20; 0xE4; 0xB8; 0x83; 0x20];
   [0x20; 0xE5; 0x85; 0xAB; 0x20];
   [0x20; 0xE4; 0xB9; 0x9D; 0x20];
   [0x20; 0xE5; 0x8D; 0x81; 0x20];
   [0x20; 0xE6; 0x9C; 0x88; 0x20];
   [0x20; 0xE7; 0x81; 0xAB; 0x20];
   [0x20; 0xE6; 0xB0; 0xB4; 0x20];
   [0x20; 0xE6; 0x9C; 0xA8; 0x20];
   [0x20; 0xE9; 0x87; 0x91; 0x20];
   [0x20; 0xE5; 0x9C; 0x9F; 0x20];
   [0x20; 0xE6; 0x97; 0xA5; 0x20];
   [0x20; 0xE6; 0xA0; 0xAA; 0x20];
   [0x20; 0xE6; 0x9C; 0x89; 0x20];
   [0x20; 0xE7; 0xA4; 0xBE; 0x20];
   [0x20; 0xE5; 0x90; 0x8D; 0x20];
   [0x20; 0xE7; 0x89; 0xB9; 0x20];
   [0x20; 0xE8; 0xB2; 0xA1; 0x20];
   [0x20; 0xE7; 0xA5; 0x9D; 0x20];
   [0x20; 0xE5; 0x8A; 0xB4; 0x20];
   [0x20; 0xE4; 0xBB; 0xA3; 0x20];
   [0x20; 0xE5; 0x91; 0xBC; 0x20];
   [0x20; 0xE5; 0xAD; 0xA6; 0x20];
   [0x20; 0xE7; 0x9B; 0xA3; 0x20];
   [0x20; 0xE4; 0xBC; 0x81; 0x20];
   [0x20; 0xE8; 0xB3; 0x87; 0x20];
   [0x20; 0xE5; 0x8D; 0x94; 0x20];
   [0x20; 0xE7; 0xA5; 0xAD; 0x20];
   [0x20; 0xE4; 0xBC; 0x91; 0x20];
   [0x20; 0xE8; 0x87; 0xAA; 0x20];
   [0x20; 0xE8; 0x87; 0xB3; 0x20];
   [0xE1; 0x84; 0x80; 0xE1; 0x85; 0xA1];
   [0xE1; 0x84; 0x82; 0xE1; 0x85; 0xA1];
   [0xE1; 0x84; 0x83; 0xE1; 0x85; 0xA1];
   [0xE1; 0x84; 0x85; 0xE1; 0x85; 0xA1];
   [0xE1; 0x84; 0x86; 0xE1; 0x85; 0xA1];
   [0xE1; 0x84; 0x87; 0xE1; 0x85; 0xA1];
   [0xE1; 0x84; 0x89; 0xE1; 0x85; 0xA1];
   [0xE1; 0x84; 0x8B; 0xE1; 0x85; 0xA1];
   [0xE1; 0x84; 0x8C; 0xE1; 0x85; 0xA1];
   [0xE1; 0x84; 0x8E; 0xE1; 0x85; 0xA1];
   [0xE1; 0x84; 0x8F; 0xE1; 0x85; 0xA1];
   [0xE1; 0x84; 0x90; 0xE1; 0x85; 0xA1];
   [0xE1; 0x84; 0x91; 0xE1; 0x85; 0xA1];
   [0xE1; 0x84; 0x92; 0xE1; 0x85; 0xA1];
   [0xE1; 0x84; 0x8E; 0xE1; 0x85; 0xA1; 0xE1; 0x86; 0xB7; 0xE1; 0x84; 0x80; 0xE1; 0x85; 0xA9];
   [0xE1; 0x84; 0x8C; 0xE1; 0x85; 0xAE; 0xE1; 0x84; 0x8B; 0xE1; 0x85; 0xB4];
   [0xE1; 0x84; 0x8B; 0xE1; 0x85; 0xAE];
   [0x31; 0x30; 0xE6; 0x9C; 0x88];
   [0x31; 0x31; 0xE6; 0x9C; 0x88];
   [0x31; 0x32; 0xE6; 0x9C; 0x88];
   [0xE3; 0x82; 0xA2; 0xE3; 0x83; 0x8F; 0xE3; 0x83; 0xBC; 0xE3; 0x83; 0x88];
   [0xE3; 0x82; 0xA2; 0xE3; 0x83; 0xAB; 0xE3; 0x83; 0x95; 0xE3; 0x82; 0xA1];
   [0xE3; 0x82; 0xA2; 0xE3; 0x83; 0xB3; 0xE3; 0x83; 0x98; 0xE3; 0x82; 0xA2];
   [0xE3; 0x82; 0xA2; 0xE3; 0x83; 0xBC; 0xE3; 0x83; 0xAB];
   [0xE3; 0x82; 0xA4; 0xE3; 0x83; 0x8B; 0xE3; 0x83; 0xB3; 0xE3; 0x82; 0xAF];
   [0xE3; 0x82; 0xA4; 0xE3; 0x83; 0xB3; 0xE3; 0x83; 0x81];
   [0xE3; 0x82; 0xA6; 0xE3; 0x82; 0xA9; 0xE3; 0x83; 0xB3];
   [0xE3; 0x82; 0xA8; 0xE3; 0x82; 0xB9; 0xE3; 0x82; 0xAF; 0xE3; 0x83; 0xBC; 0xE3; 0x83; 0x88];
   [0xE3; 0x82; 0xA8; 0xE3; 0x83; 0xBC; 0xE3; 0x82; 0xAB; 0xE3; 0x83; 0xBC];
   [0xE3; 0x82; 0xAA; 0xE3; 0x83; 0xB3; 0xE3; 0x82; 0xB9];
   [0xE3; 0x82; 0xAA; 0xE3; 0x83; 0xBC; 0xE3; 0x83; 0xA0];
   [0xE3; 0x82; 0xAB; 0xE3; 0x82; 0xA4; 0xE3; 0x83; 0xAA];
   [0xE3; 0x82; 0xAB; 0xE3; 0x83; 0xA9; 0xE3; 0x83; 0x83; 0xE3; 0x83; 0x88];
   [0xE3; 0x82; 0xAB; 0xE3; 0x83; 0xAD; 0xE3; 0x83; 0xAA; 0xE3; 0x83; 0xBC];
   [0xE3; 0x82; 0xAB; 0xE3; 0x83; 0xAD; 0xE3; 0x83; 0xB3];
   [0xE3; 0x82; 0xAB; 0xE3; 0x83; 0xB3; 0xE3; 0x83; 0x9E];
   [0xE3; 0x82; 0xAD; 0xE3; 0x82; 0xAB];
   [0xE3; 0x82; 0xAD; 0xE3; 0x83; 0x8B; 0xE3; 0x83; 0xBC];
   [0xE3; 0x82; 0xAD; 0xE3; 0x83; 0xA5; 0xE3; 0x83; 0xAA; 0xE3; 0x83; 0xBC];
   [0xE3; 0x82; 0xAD; 0xE3; 0x83; 0xAB; 0xE3; 0x82; 0xBF; 0xE3; 0x83; 0xBC];
   [0xE3; 0x82; 0xAD; 0xE3; 0x83; 0xAD];
   [0xE3; 0x82; 0xAD; 0xE3; 0x83; 0xAD; 0xE3; 0x82; 0xAF; 0xE3; 0x83; 0xA9; 0xE3; 0x83; 0xA0];
   [0xE3; 0x82; 0xAD; 0xE3; 0x83; 0xAD; 0xE3; 0x83; 0xA1; 0xE3; 0x83; 0xBC; 0xE3; 0x83; 0x88; 0xE3; 0x83; 0xAB];
   [0xE3; 0x82; 0xAD; 0xE3; 0x83; 0xAD; 0xE3; 0x83; 0xAF; 0xE3; 0x83; 0x83; 0xE3; 0x83; 0x88];
   [0xE3; 0x82; 0xAF; 0xE3; 0x83; 0xA9; 0xE3; 0x83; 0xA0];
   [0xE3; 0x82; 0xAF; 0xE3; 0x83; 0xA9; 0xE3; 0x83; 0xA0; 0xE3; 0x83; 0x88; 0xE3; 0x83; 0xB3];
   [0xE3; 0x82; 0xAF; 0xE3; 0x83; 0xAB; 0xE3; 0x82; 0xBB; 0xE3; 0x82; 0xA4; 0xE3; 0x83; 0xAD];
   [0xE3; 0x82; 0xAF; 0xE3; 0x83; 0xAD; 0xE3; 0x83; 0xBC; 0xE3; 0x83; 0x8D];
   [0xE3; 0x82; 0xB1; 0xE3; 0x83; 0xBC; 0xE3; 0x82; 0xB9];
   [0xE3; 0x82; 0xB3; 0xE3; 0x83; 0xAB; 0xE3; 0x83; 0x8A];
   [0xE3; 0x82; 0xB3; 0xE3; 0x83; 0xBC; 0xE3; 0x83; 0x9B];
   [0xE3; 0x82; 0xB5; 0xE3; 0x82; 0xA4; 0xE3; 0x82; 0xAF; 0xE3; 0x83; 0xAB];
   [0xE3; 0x82; 0xB5; 0xE3; 0x83; 0xB3; 0xE3; 0x83; 0x81; 0xE3; 0x83; 0xBC; 0xE3; 0x83; 0xA0];
   [0xE3; 0x82; 0xB7; 0xE3; 0x83; 0xAA; 0xE3; 0x83; 0xB3; 0xE3; 0x82; 0xAF];
   [0xE3; 0x82; 0xBB; 0xE3; 0x83; 0xB3; 0xE3; 0x83; 0x81];
   [0xE3; 0x82; 0xBB; 0xE3; 0x83; 0xB3; 0xE3; 0x83; 0x88];
   [0xE3; 0x82; 0xBF; 0xE3; 0x83; 0xBC; 0xE3; 0x82; 0xB9];
   [0xE3; 0x83; 0x86; 0xE3; 0x82; 0xB7];
   [0xE3; 0x83; 0x88; 0xE3; 0x83; 0xAB];
   [0xE3; 0x83; 0x88; 0xE3; 0x83; 0xB3];
   [0xE3; 0x83; 0x8A; 0xE3; 0x83; 0x8E];
   [0xE3; 0x83; 0x8E; 0xE3; 0x83; 0x83; 0xE3; 0x83; 0x88];
   [0xE3; 0x83; 0x8F; 0xE3; 0x82; 0xA4; 0xE3; 0x83; 0x84];
   [0xE3; 0x83; 0x8F; 0xE3; 0x83; 0xBC; 0xE3; 0x82; 0xBB; 0xE3; 0x83; 0xB3; 0xE3; 0x83; 0x88];
   [0xE3; 0x83; 0x8F; 0xE3; 0x83; 0xBC; 0xE3; 0x83; 0x84];
   [0xE3; 0x83; 0x8F; 0xE3; 0x83; 0xBC; 0xE3; 0x83; 0xAC; 0xE3; 0x83; 0xAB];
   [0xE3; 0x83; 0x92; 0xE3; 0x82; 0xA2; 0xE3; 0x82; 0xB9; 0xE3; 0x83; 0x88; 0xE3; 0x83; 0xAB];
   [0xE3; 0x83; 0x92; 0xE3; 0x82; 0xAF; 0xE3; 0x83; 0xAB];
   [0xE3; 0x83; 0x92; 0xE3; 0x82; 0xB3];
   [0xE3; 0x83; 0x92; 0xE3; 0x83; 0xAB];
   [0xE3; 0x83; 0x95; 0xE3; 0x82; 0xA1; 0xE3; 0x83; 0xA9; 0xE3; 0x83; 0x83; 0xE3; 0x83; 0x88];
   [0xE3; 0x83; 0x95; 0xE3; 0x82; 0xA3; 0xE3; 0x83; 0xBC; 0xE3; 0x83; 0x88];
   [0xE3; 0x83; 0x95; 0xE3; 0x83; 0x83; 0xE3; 0x82; 0xB7; 0xE3; 0x82; 0xA7; 0xE3; 0x83; 0xAB];
   [0xE3; 0x83; 0x95; 0xE3; 0x83; 0xA9; 0xE3; 0x83; 0xB3];
   [0xE3; 0x83; 0x98; 0xE3; 0x82; 0xAF; 0xE3; 0x82; 0xBF; 0xE3; 0x83; 0xBC; 0xE3; 0x83; 0xAB];
   [0xE3; 0x83; 0x98; 0xE3; 0x82; 0xBD];
   [0xE3; 0x83; 0x98; 0xE3; 0x83; 0x8B; 0xE3; 0x83; 0x92];
   [0xE3; 0x83; 0x98; 0xE3; 0x83; 0xAB; 0xE3; 0x83; 0x84];
   [0xE3; 0x83; 0x98; 0xE3; 0x83; 0xB3; 0xE3; 0x82; 0xB9];
   [0xE3; 0x83; 0x98; 0xE3; 0x83; 0xBC; 0xE3; 0x82; 0xB7];
   [0xE3; 0x83; 0x98; 0xE3; 0x83; 0xBC; 0xE3; 0x82; 0xBF];
   [0xE3; 0x83; 0x9B; 0xE3; 0x82; 0xA4; 0xE3; 0x83; 0xB3; 0xE3; 0x83; 0x88];
   [0xE3; 0x83; 0x9B; 0xE3; 0x83; 0xAB; 0xE3; 0x83; 0x88];
   [0xE3; 0x83; 0x9B; 0xE3; 0x83; 0xB3];
   [0xE3; 0x83; 0x9B; 0xE3; 0x83; 0xB3; 0xE3; 0x83; 0x88];
   [0xE3; 0x83; 0x9B; 0xE3; 0x83; 0xBC; 0xE3; 0x83; 0xAB];
   [0xE3; 0x83; 0x9B; 0xE3; 0x83; 0xBC; 0xE3; 0x83; 0xB3];
   [0xE3; 0x83; 0x9E; 0xE3; 0x82; 0xA4; 0xE3; 0x82; 0xAF; 0xE3; 0x83; 0xAD];
   [0xE3; 0x83; 0x9E; 0xE3; 0x82; 0xA4; 0xE3; 0x83; 0xAB];
   [0xE3; 0x83; 0x9E; 0xE3; 0x83; 0x83; 0xE3; 0x83; 0x8F];
   [0xE3; 0x83; 0x9E; 0xE3; 0x83; 0xAB; 0xE3; 0x82; 0xAF];
   [0xE3; 0x83; 0x9E; 0xE3; 0x83; 0xB3; 0xE3; 0x82; 0xB7; 0xE3; 0x83; 0xA7; 0xE3; 0x83; 0xB3];
   [0xE3; 0x83; 0x9F; 0xE3; 0x82; 0xAF; 0xE3; 0x83; 0xAD; 0xE3; 0x83; 0xB3];
   [0xE3; 0x83; 0x9F; 0xE3; 0x83; 0xAA];
   [0xE3; 0x83; 0x9F; 0xE3; 0x83; 0xAA; 0xE3; 0x83; 0x8F; 0xE3; 0x83; 0xBC; 0xE3; 0x83; 0xAB];
   [0xE3; 0x83; 0xA1; 0xE3; 0x82; 0xAB];
   [0xE3; 0x83; 0xA1; 0xE3; 0x82; 0xAB; 0xE3; 0x83; 0x88; 0xE3; 0x83; 0xB3];
   [0xE3; 0x83; 0xA1; 0xE3; 0x83; 0xBC; 0xE3; 0x83; 0x88; 0xE3; 0x83; 0xAB];
   [0xE3; 0x83; 0xA4; 0xE3; 0x83; 0xBC; 0xE3; 0x83; 0x88];
   [0xE3; 0x83; 0xA4; 0xE3; 0x83; 0xBC; 0xE3; 0x83; 0xAB];
   [0xE3; 0x83; 0xA6; 0xE3; 0x82; 0xA2; 0xE3; 0x83; 0xB3];
   [0xE3; 0x83; 0xAA; 0xE3; 0x83; 0x83; 0xE3; 0x83; 0x88; 0xE3; 0x83; 0xAB];
   [0xE3; 0x83; 0xAA; 0xE3; 0x83; 0xA9];
   [0xE3; 0x83; 0xAB; 0xE3; 0x83; 0x92; 0xE3; 0x83; 0xBC];
   [0xE3; 0x83; 0xAB; 0xE3; 0x83; 0xBC; 0xE3; 0x83; 0x95; 0xE3; 0x83; 0xAB];
   [0xE3; 0x83; 0xAC; 0xE3; 0x83; 0xA0];
   [0xE3; 0x83; 0xAC; 0xE3; 0x83; 0xB3; 0xE3; 0x83; 0x88; 0xE3; 0x82; 0xB1; 0xE3; 0x83; 0xB3];
   [0xE3; 0x83; 0xAF; 0xE3; 0x83; 0x83; 0xE3; 0x83; 0x88];
   [0x31; 0x30; 0xE7; 0x82; 0xB9];
   [0x31; 0x31; 0xE7; 0x82; 0xB9];
   [0x31; 0x32; 0xE7; 0x82; 0xB9];
   [0x31; 0x33; 0xE7; 0x82; 0xB9];
   [0x31; 0x34; 0xE7; 0x82; 0xB9];
   [0x31; 0x35; 0xE7; 0x82; 0xB9];
   [0x31; 0x36; 0xE7; 0x82; 0xB9];
   [0x31; 0x37; 0xE7; 0x82; 0xB9];
   [0x31; 0x38; 0xE7; 0x82; 0xB9];
   [0x31; 0x39; 0xE7; 0x82; 0xB9];
   [0x32; 0x30; 0xE7; 0x82; 0xB9];
   [0x32; 0x31; 0xE7; 0x82; 0xB9];
   [0x32; 0x32; 0xE7; 0x82; 0xB9];
   [0x32; 0x33; 0xE7; 0x82; 0xB9];
   [0x32; 0x34; 0xE7; 0x82; 0xB9];
   [0xE5; 0xB9; 0xB3; 0xE6; 0x88; 0x90];
   [0xE6; 0x98; 0xAD; 0xE5; 0x92; 0x8C];
   [0xE5; 0xA4; 0xA7; 0xE6; 0xAD; 0xA3];
   [0xE6; 0x98; 0x8E; 0xE6; 0xB2; 0xBB];
   [0xE6; 0xA0; 0xAA; 0xE5; 0xBC; 0x8F; 0xE4; 0xBC; 0x9A; 0xE7; 0xA4; 0xBE];
   [0x72; 0x61; 0x64; 0x20; 0x73];
   [0x72; 0x61; 0x64; 0x20; 0x73; 0x32];
   [0x31; 0x30; 0xE6; 0x97; 0xA5];
   [0x31; 0x31; 0xE6; 0x97; 0xA5];
   [0x31; 0x32; 0xE6; 0x97; 0xA5];
   [0x31; 0x33; 0xE6; 0x97; 0xA5];
   [0x31; 0x34; 0xE6; 0x97; 0xA5];
   [0x31; 0x35; 0xE6; 0x97; 0xA5];
   [0x31; 0x36; 0xE6; 0x97; 0xA5];
   [0x31; 0x37; 0xE6; 0x97; 0xA5];
   [0x31; 0x38; 0xE6; 0x97; 0xA5];
   [0x31; 0x39; 0xE6; 0x97; 0xA5];
   [0x32; 0x30; 0xE6; 0x97; 0xA5];
   [0x32; 0x31; 0xE6; 0x97; 0xA5];
   [0x32; 0x32; 0xE6; 0x97; 0xA5];
   [0x32; 0x33; 0xE6; 0x97; 0xA5];
   [0x32; 0x34; 0xE6; 0x97; 0xA5];
   [0x32; 0x35; 0xE6; 0x97; 0xA5];
   [0x32; 0x36; 0xE6; 0x97; 0xA5];
   [0x32; 0x37; 0xE6; 0x97; 0xA5];
   [0x32; 0x38; 0xE6; 0x97; 0xA5];
   [0x32; 0x39; 0xE6; 0x97; 0xA5];
   [0x33; 0x30; 0xE6; 0x97; 0xA5];
   [0x33; 0x31; 0xE6; 0x97; 0xA5]].

Definition PLANE_3_EA_1_99 : Plane4Bytes :=
  [U4 0xEA 0x99 0x81 0x00; U4 0xEA 0x99 0x81 0x00; U4 0xEA 0x99 0x83 0x00; U4 0xEA 0x99 0x83 0x00;
   U4 0xEA 0x99 0x85 0x00; U4 0xEA 0x99 0x85 0x00; U4 0xEA 0x99 0x87 0x00; U4 0xEA 0x99 0x87 0x00;
   U4 0xEA 0x99 0x89 0x00; U4 0xEA 0x99 0x89 0x00; U4 0xEA 0x99 0x8B 0x00; U4 0xEA 0x99 0x8B 0x00;
   U4 0xEA 0x99 0x8D 0x00; U4 0xEA 0x99 0x8D 0x00; U4 0xEA 0x99 0x8F 0x00; U4 0xEA 0x99 0x8F 0x00;
   U4 0xEA 0x99 0x91 0x00; U4 0xEA 0x99 0x91 0x00; U4 0xEA 0x99 0x93 0x00; U4 0xEA 0x99 0x93 0x00;
   U4 0xEA 0x99 0x95 0x00; U4 0xEA 0x99 0x95 0x00; U4 0xEA 0x99 0x97 0x00; U4 0xEA 0x99 0x97 0x00;
   U4 0xEA 0x99 0x99 0x00; U4 0xEA 0x99 0x99 0x00; U4 0xEA 0x99 0x9B 0x00; U4 0xEA 0x99 0x9B 0x00;
   U4 0xEA 0x99 0x9D 0x00; U4 0xEA 0x99 0x9D 0x00; U4 0xEA 0x99 0x9F 0x00; U4 0xEA 0x99 0x9F 0x00;
   U4 0xEA 0x99 0xA1 0x00; U4 0xEA 0x99 0xA1 0x00; U4 0xEA 0x99 0xA3 0x00; U4 0xEA 0x99 0xA3 0x00;
   U4 0xEA 0x99 0xA5 0x00; U4 0xEA 0x99 0xA5 0x00; U4 0xEA 0x99 0xA7 0x00; U4 0xEA 0x99 0xA7 0x00;
   U4 0xEA 0x99 0xA9 0x00; U4 0xEA 0x99 0xA9 0x00; U4 0xEA 0x99 0xAB 0x00; U4 0xEA 0x99 0xAB 0x00;
   U4 0xEA 0x99 0xAD 0x00; U4 0xEA 0x99 0xAD 0x00; U4 0xEA 0x99 0xAE 0x00; U4 0x00 0x00 0x00 0x00;
   U4 0x20 0x00 0x00 0x00; U4 0x20 0x00 0x00 0x00; U4 0x20 0x00 0x00 0x00; U4 0x20 0x00 0x00 0x00;
   U4 0x00 0x00 0x00 0x00; U4 0x00 0x00 0x00 0x00; U4 0x00 0x00 0x00 0x00; U4 0x00 0x00 0x00 0x00;
   U4 0x00 0x00 0x00 0x00; U4 0x00 0x00 0x00 0x00; U4 0x00 0x00 0x00 0x00; U4 0x00 0x00 0x00 0x00;
   U4 0x00 0x00 0x00 0x00; U4 0x00 0x00 0x00 0x00; U4 0x20 0x00 0x00 0x00; U4 0xEA 0x99 0xBF 0x00].

Definition PLANE_3_EA_1_9A : Plane4Bytes :=
  [U4 0xEA 0x9A 0x81 0x00; U4 0xEA 0x9A 0x81 0x00; U4 0xEA 0x9A 0x83 0x00; U4 0xEA 0x9A 0x83 0x00;
   U4 0xEA 0x9A 0x85 0x00; U4 0xEA 0x9A 0x85 0x00; U4 0xEA 0x9A 0x87 0x00; U4 0xEA 0x9A 0x87 0x00;
   U4 0xEA 0x9A 0x89 0x00; U4 0xEA 0x9A 0x89 0x00; U4 0xEA 0x9A 0x8B 0x00; U4 0xEA 0x9A 0x8B 0x00;
   U4 0xEA 0x9A 0x8D 0x00; U4 0xEA 0x9A 0x8D 0x00; U4 0xEA 0x9A 0x8F 0x00; U4 0xEA 0x9A 0x8F 0x00;
   U4 0xEA 0x9A 0x91 0x00; U4 0xEA 0x9A 0x91 0x00; U4 0xEA 0x9A 0x93 0x00; U4 0xEA 0x9A 0x93 0x00;
   U4 0xEA 0x9A 0x95 0x00; U4 0xEA 0x9A 0x95 0x00; U4 0xEA 0x9A 0x97 0x00; U4 0xEA 0x9A 0x97 0x00;
   U4 0xEA 0x9A 0x99 0x00; U4 0xEA 0x9A 0x99 0x00; U4 0xEA 0x9A 0x9B 0x00; U4 0xEA 0x9A 0x9B 0x00;
   U4 0xD1 0x8A 0x00 0x00; U4 0xD1 0x8C 0x00 0x00; U4 0x00 0x00 0x00 0x00; U4 0x00 0x00 0x00 0x00;
   U4 0xEA 0x9A 0xA0 0x00; U4 0xEA 0x9A 0xA1 0x00; U4 0xEA 0x9A 0xA2 0x00; U4 0xEA 0x9A 0xA3 0x00;
   U4 0xEA 0x9A 0xA4 0x00; U4 0xEA 0x9A 0xA5 0x00; U4 0xEA 0x9A 0xA6 0x00; U4 0xEA 0x9A 0xA7 0x00;
   U4 0xEA 0x9A 0xA8 0x00; U4 0xEA 0x9A 0xA9 0x00; U4 0xEA 0x9A 0xAA 0x00; U4 0xEA 0x9A 0xAB 0x00;
   U4 0xEA 0x9A 0xAC 0x00; U4 0xEA 0x9A 0xAD 0x00; U4 0xEA 0x9A 0xAE 0x00; U4 0xEA 0x9A 0xAF 0x00;
   U4 0xEA 0x9A 0xB0 0x00; U4 0xEA 0x9A 0xB1 0x00; U4 0xEA 0x9A 0xB2 0x00; U4 0xEA 0x9A 0xB3 0x00;
   U4 0xEA 0x9A 0xB4 0x00; U4 0xEA 0x9A 0xB5 0x00; U4 0xEA 0x9A 0xB6 0x00; U4 0xEA 0x9A 0xB7 0x00;
   U4 0xEA 0x9A 0xB8 0x00; U4 0xEA 0x9A 0xB9 0x00; U4 0xEA 0x9A 0xBA 0x00; U4 0xEA 0x9A 0xBB 0x00;
   U4 0xEA 0x9A 0xBC 0x00; U4 0xEA 0x9A 0xBD 0x00; U4 0xEA 0x9A 0xBE 0x00; U4 0xEA 0x9A 0xBF 0x00].

Definition PLANE_3_EA_1_9B : Plane4Bytes :=
  [U4 0xEA 0x9B 0x80 0x00; U4 0xEA 0x9B 0x81 0x00; U4 0xEA 0x9B 0x82 0x00; U4 0xEA 0x9B 0x83 0x00;
   U4 0xEA 0x9B 0x84 0x00; U4 0xEA 0x9B 0x85 0x00; U4 0xEA 0x9B 0x86 0x00; U4 0xEA 0x9B 0x87 0x00;
   U4 0xEA 0x9B 0x88 0x00; U4 0xEA 0x9B 0x89 0x00; U4 0xEA 0x9B 0x8A 0x00; U4 0xEA 0x9B 0x8B 0x00;
   U4 0xEA 0x9B 0x8C 0x00; U4 0xEA 0x9B 0x8D 0x00; U4 0xEA 0x9B 0x8E 0x00; U4 0xEA 0x9B 0x8F 0x00;
   U4 0xEA 0x9B 0x90 0x00; U4 0xEA 0x9B 0x91 0x00; U4 0xEA 0x9B 0x92 0x00; U4 0xEA 0x9B 0x93 0x00;
   U4 0xEA 0x9B 0x94 0x00; U4 0xEA 0x9B 0x95 0x00; U4 0xEA 0x9B 0x96 0x00; U4 0xEA 0x9B 0x97 0x00;
   U4 0xEA 0x9B 0x98 0x00; U4 0xEA 0x9B 0x99 0x00; U4 0xEA 0x9B 0x9A 0x00; U4 0xEA 0x9B 0x9B 0x00;
   U4 0xEA 0x9B 0x9C 0x00; U4 0xEA 0x9B 0x9D 0x00; U4 0xEA 0x9B 0x9E 0x00; U4 0xEA 0x9B 0x9F 0x00;
   U4 0xEA 0x9B 0xA0 0x00; U4 0xEA 0x9B 0xA1 0x00; U4 0xEA 0x9B 0xA2 0x00; U4 0xEA 0x9B 0xA3 0x00;
   U4 0xEA 0x9B 0xA4 0x00; U4 0xEA 0x9B 0xA5 0x00; U4 0xEA 0x9B 0xA6 0x00; U4 0xEA 0x9B 0xA7 0x00;
   U4 0xEA 0x9B 0xA8 0x00; U4 0xEA 0x9B 0xA9 0x00; U4 0xEA 0x9B 0xAA 0x00; U4 0xEA 0x9B 0xAB 0x00;
   U4 0xEA 0x9B 0xAC 0x00; U4 0xEA 0x9B 0xAD 0x00; U4 0xEA 0x9B 0xAE 0x00; U4 0xEA 0x9B 0xAF 0x00;
   U4 0x00 0x00 0x00 0x00; U4 0x00 0x00 0x00 0x00; U4 0x20 0x00 0x00 0x00; U4 0x20 0x00 0x00 0x00;
   U4 0x20 0x00 0x00 0x00; U4 0x20 0x00 0x00 0x00; U4 0x20 0x00 0x00 0x00; U4 0x20 0x00 0x00 0x00;
   U4 0x20 0x00 0x00 0x00; U4 0x20 0x00 0x00 0x00; U4 0x20 0x00 0x00 0x00; U4 0x20 0x00 0x00 0x00;
   U4 0x20 0x00 0x00 0x00; U4 0x20 0x00 0x00 0x00; U4 0x20 0x00 0x00 0x00; U4 0x20 0x00 0x00 0x00].

Definition PLANE_3_EA_1_9C : Plane4Bytes :=
  [U4 0x20 0x00 0x00 0x00; U4 0x20 0x00 0x00 0x00; U4 0x20 0x00 0x00 0x00; U4 0x20 0x00 0x00 0x00;
   U4 0x20 0x00 0x00 0x00; U4 0x20 0x00 0x00 0x00; U4 0x20 0x00 0x00 0x00; U4 0x20 0x00 0x00 0x00;
   U4 0x20 0x00 0x00 0x00; U4 0x20 0x00 0x00 0x00; U4 0x20 0x00 0x00 0x00; U4 0x20 0x00 0x00 0x00;
   U4 0x20 0x00 0x00 0x00; U4 0x20 0x00 0x00 0x00; U4 0x20 0x00 0x00 0x00; U4 0x20 0x00 0x00 0x00;
   U4 0x20 0x00 0x00 0x00; U4 0x20 0x00 0x00 0x00; U4 0x20 0x00 0x00 0x00; U4 0x20 0x00 0x00 0x00;
   U4 0x20 0x00 0x00 0x00; U4 0x20 0x00 0x00 0x00; U4 0x20 0x00 0x00 0x00; U4 0xEA 0x9C 0x97 0x00;
   U4 0xEA 0x9C 0x98 0x00; U4 0xEA 0x9C 0x99 0x00; U4 0xEA 0x9C 0x9A 0x00; U4 0xEA 0x9C 0x9B 0x00;
   U4 0xEA 0x9C 0x9C 0x00; U4 0xEA 0x9C 0x9D 0x00; U4 0xEA 0x9C 0x9E 0x00; U4 0xEA 0x9C 0x9F 0x00;
   U4 0x20 0x00 0x00 0x00; U4 0x20 0x00 0x00 0x00; U4 0xEA 0x9C 0xA3 0x00; U4 0xEA 0x9C 0xA3 0x00;
   U4 0xEA 0x9C 0xA5 0x00; U4 0xEA 0x9C 0xA5 0x00; U4 0xEA 0x9C 0xA7 0x00; U4 0xEA 0x9C 0xA7 0x00;
   U4 0xEA 0x9C 0xA9 0x00; U4 0xEA 0x9C 0xA9 0x00; U4 0xEA 0x9C 0xAB 0x00; U4 0xEA 0x9C 0xAB 0x00;
   U4 0xEA 0x9C 0xAD 0x00; U4 0xEA 0x9C 0xAD 0x00; U4 0xEA 0x9C 0xAF 0x00; U4 0xEA 0x9C 0xAF 0x00;
   U4 0xEA 0x9C 0xB0 0x00; U4 0xEA 0x9C 0xB1 0x00; U4 0xEA 0x9C 0xB3 0x00; U4 0xEA 0x9C 0xB3 0x00;
   U4 0xEA 0x9C 0xB5 0x00; U4 0xEA 0x9C 0xB5 0x00; U4 0xEA 0x9C 0xB7 0x00; U4 0xEA 0x9C 0xB7 0x00;
   U4 0xEA 0x9C 0xB9 0x00; U4 0xEA 0x9C 0xB9 0x00; U4 0xEA 0x9C 0xBB 0x00; U4 0xEA 0x9C 0xBB 0x00;
   U4 0xEA 0x9C 0xBD 0x00; U4 0xEA 0x9C 0xBD 0x00; U4 0xEA 0x9C 0xBF 0x00; U4 0xEA 0x9C 0xBF 0x00].

Definition PLANE_3_EA_1_9D : Plane4Bytes :=
  [U4 0xEA 0x9D 0x81 0x00; U4 0xEA 0x9D 0x81 0x00; U4 0xEA 0x9D 0x83 0x00; U4 0xEA 0x9D 0x83 0x00;
   U4 0xEA 0x9D 0x85 0x00; U4 0xEA 0x9D 0x85 0x00; U4 0xEA 0x9D 0x87 0x00; U4 0xEA 0x9D 0x87 0x00;
   U4 0xEA 0x9D 0x89 0x00; U4 0xEA 0x9D 0x89 0x00; U4 0xEA 0x9D 0x8B 0x00; U4 0xEA 0x9D 0x8B 0x00;
   U4 0xEA 0x9D 0x8D 0x00; U4 0xEA 0x9D 0x8D 0x00; U4 0xEA 0x9D 0x8F 0x00; U4 0xEA 0x9D 0x8F 0x00;
   U4 0xEA 0x9D 0x91 0x00; U4 0xEA 0x9D 0x91 0x00; U4 0xEA 0x9D 0x93 0x00; U4 0xEA 0x9D 0x93 0x00;
   U4 0xEA 0x9D 0x95 0x00; U4 0xEA 0x9D 0x95 0x00; U4 0xEA 0x9D 0x97 0x00; U4 0xEA 0x9D 0x97 0x00;
   U4 0xEA 0x9D 0x99 0x00; U4 0xEA 0x9D 0x99 0x00; U4 0xEA 0x9D 0x9B 0x00; U4 0xEA 0x9D 0x9B 0x00;
   U4 0xEA 0x9D 0x9D 0x00; U4 0xEA 0x9D 0x9D 0x00; U4 0xEA 0x9D 0x9F 0x00; U4 0xEA 0x9D 0x9F 0x00;
   U4 0xEA 0x9D 0xA1 0x00; U4 0xEA 0x9D 0xA1 0x00; U4 0xEA 0x9D 0xA3 0x00; U4 0xEA 0x9D 0xA3 0x00;
   U4 0xEA 0x9D 0xA5 0x00; U4 0xEA 0x9D 0xA5 0x00; U4 0xEA 0x9D 0xA7 0x00; U4 0xEA 0x9D 0xA7 0x00;
   U4 0xEA 0x9D 0xA9 0x00; U4 0xEA 0x9D 0xA9 0x00; U4 0xEA 0x9D 0xAB 0x00; U4 0xEA 0x9D 0xAB 0x00;
   U4 0xEA 0x9D 0xAD 0x00; U4 0xEA 0x9D 0xAD 0x00; U4 0xEA 0x9D 0xAF 0x00; U4 0xEA 0x9D 0xAF 0x00;
   U4 0xEA 0x9D 0xAF 0x00; U4 0xEA 0x9D 0xB1 0x00; U4 0xEA 0x9D 0xB2 0x00; U4 0xEA 0x9D 0xB3 0x00;
   U4 0xEA 0x9D 0xB4 0x00; U4 0xEA 0x9D 0xB5 0x00; U4 0xEA 0x9D 0xB6 0x00; U4 0xEA 0x9D 0xB7 0x00;
   U4 0xEA 0x9D 0xB8 0x00; U4 0xEA 0x9D 0xBA 0x00; U4 0xEA 0x9D 0xBA 0x00; U4 0xEA 0x9D 0xBC 0x00;
   U4 0xEA 0x9D 0xBC 0x00; U4 0xE1 0xB5 0xB9 0x00; U4 0xEA 0x9D 0xBF 0x00; U4 0xEA 0x9D 0xBF 0x00].

Definition PLANE_3_EA_1_9E : Plane4Bytes :=
  [U4 0xEA 0x9E 0x81 0x00; U4 0xEA 0x9E 0x81 0x00; U4 0xEA 0x9E 0x83 0x00; U4 0xEA 0x9E 0x83 0x00;
   U4 0xEA 0x9E 0x85 0x00; U4 0xEA 0x9E 0x85 0x00; U4 0xEA 0x9E 0x87 0x00; U4 0xEA 0x9E 0x87 0x00;
   U4 0xEA 0x9E 0x88 0x00; U4 0x20 0x00 0x00 0x00; U4 0x20 0x00 0x00 0x00; U4 0xEA 0x9E 0x8C 0x00;
   U4 0xEA 0x9E 0x8C 0x00; U4 0xC9 0xA5 0x00 0x00; U4 0xEA 0x9E 0x8E 0x00; U4 0xEA 0x9E 0x8F 0x00;
   U4 0xEA 0x9E 0x91 0x00; U4 0xEA 0x9E 0x91 0x00; U4 0xEA 0x9E 0x93 0x00; U4 0xEA 0x9E 0x93 0x00;
   U4 0xEA 0x9E 0x94 0x00; U4 0xEA 0x9E 0x95 0x00; U4 0xEA 0x9E 0x97 0x00; U4 0xEA 0x9E 0x97 0x00;
   U4 0xEA 0x9E 0x99 0x00; U4 0xEA 0x9E 0x99 0x00; U4 0xEA 0x9E 0x9B 0x00; U4 0xEA 0x9E 0x9B 0x00;
   U4 0xEA 0x9E 0x9D 0x00; U4 0xEA 0x9E 0x9D 0x00; U4 0xEA 0x9E 0x9F 0x00; U4 0xEA 0x9E 0x9F 0x00;
   U4 0xEA 0x9E 0xA1 0x00; U4 0xEA 0x9E 0xA1 0x00; U4 0xEA 0x9E 0xA3 0x00; U4 0xEA 0x9E 0xA3 0x00;
   U4 0xEA 0x9E 0xA5 0x00; U4 0xEA 0x9E 0xA5 0x00; U4 0xEA 0x9E 0xA7 0x00; U4 0xEA 0x9E 0xA7 0x00;
   U4 0xEA 0x9E 0xA9 0x00; U4 0xEA 0x9E 0xA9 0x00; U4 0xC9 0xA6 0x00 0x00; U4 0xC9 0x9C 0x00 0x00;
   U4 0xC9 0xA1 0x00 0x00; U4 0xC9 0xAC 0x00 0x00; U4 0x20 0x00 0x00 0x00; U4 0x20 0x00 0x00 0x00;
   U4 0xCA 0x9E 0x00 0x00; U4 0xCA 0x87 0x00 0x00; U4 0xCA 0x9D 0x00 0x00; U4 0xEA 0xAD 0x93 0x00;
   U4 0xEA 0x9E 0xB5 0x00; U4 0xEA 0x9E 0xB5 0x00; U4 0xEA 0x9E 0xB7 0x00; U4 0xEA 0x9E 0xB7 0x00;
   U4 0x20 0x00 0x00 0x00; U4 0x20 0x00 0x00 0x00; U4 0x20 0x00 0x00 0x00; U4 0x20 0x00 0x00 0x00;
   U4 0x20 0x00 0x00 0x00; U4 0x20 0x00 0x00 0x00; U4 0x20 0x00 0x00 0x00; U4 0x20 0x00 0x00 0x00].

Definition PLANE_3_EA_1_9F : Plane4Bytes :=
  [U4 0x20 0x00 0x00 0x00; U4 0x20 0x00 0x00 0x00; U4 0x20 0x00 0x00 0x00; U4 0x20 0x00 0x00 0x00;
   U4 0x20 0x00 0x00 0x00; U4 0x20 0x00 0x00 0x00; U4 0x20 0x00 0x00 0x00; U4 0x20 0x00 0x00 0x00;
   U4 0x20 0x00 0x00 0x00; U4 0x20 0x00 0x00 0x00; U4 0x20 0x00 0x00 0x00; U4 0x20 0x00 0x00 0x00;
   U4 0x20 0x00 0x00 0x00; U4 0x20 0x00 0x00 0x00; U4 0x20 0x00 0x00 0x00; U4 0x20 0x00 0x00 0x00;
   U4 0x20 0x00 0x00 0x00; U4 0x20 0x00 0x00 0x00; U4 0x20 0x00 0x00 0x00; U4 0x20 0x00 0x00 0x00;
   U4 0x20 0x00 0x00 0x00; U4 0x20 0x00 0x00 0x00; U4 0x20 0x00 0x00 0x00; U4 0x20 0x00 0x00 0x00;
   U4 0x20 0x00 0x00 0x00; U4 0x20 0x00 0x00 0x00; U4 0x20 0x00 0x00 0x00; U4 0x20 0x00 0x00 0x00;
   U4 0x20 0x00 0x00 0x00; U4 0x20 0x00 0x00 0x00; U4 0x20 0x00 0x00 0x00; U4 0x20 0x00 0x00 0x00;
   U4 0x20 0x00 0x00 0x00; U4 0x20 0x00 0x00 0x00; U4 0x20 0x00 0x00 0x00; U4 0x20 0x00 0x00 0x00;
   U4 0x20 0x00 0x00 0x00; U4 0x20 0x00 0x00 0x00; U4 0x20 0x00 0x00 0x00; U4 0x20 0x00 0x00 0x00;
   U4 0x20 0x00 0x00 0x00; U4 0x20 0x00 0x00 0x00; U4 0x20 0x00 0x00 0x00; U4 0x20 0x00 0x00 0x00;
   U4 0x20 0x00 0x00 0x00; U4 0x20 0x00 0x00 0x00; U4 0x20 0x00 0x00 0x00; U4 0x20 0x00 0x00 0x00;
   U4 0x20 0x00 0x00 0x00; U4 0x20 0x00 0x00 0x00; U4 0x20 0x00 0x00 0x00; U4 0x20 0x00 0x00 0x00;
   U4 0x20 0x00 0x00 0x00; U4 0x20 0x00 0x00 0x00; U4 0x20 0x00 0x00 0x00; U4 0xEA 0x9F 0xB7 0x00;
   U4 0xC4 0xA7 0x00 0x00; U4 0xC5 0x93 0x00 0x00; U4 0xEA 0x9F 0xBA 0x00; U4 0xEA 0x9F 0xBB 0x00;
   U4 0xEA 0x9F 0xBC 0x00; U4 0xEA 0x9F 0xBD 0x00; U4 0xEA 0x9F 0xBE 0x00; U4 0xEA 0x9F 0xBF 0x00].

Definition TABLE_3_EA_1 : list Plane4Bytes :=
  [PLANE_3_EA_1_99; PLANE_3_EA_1_9A; PLANE_3_EA_1_9B; PLANE_3_EA_1_9C;
   PLANE_3_EA_1_9D; PLANE_3_EA_1_9E; PLANE_3_EA_1_9F].

Definition TABLE_3_EA_2 : list Plane2Bits :=
  [[0x5555555555954565; 0xAAAAA555AAAAAA95];
   [0x5555555555555555; 0xAAAAAA5555555555];
   [0x555555555555555A; 0xAAAAAA5555555555];
   [0xAAA55555AAAAA8AA; 0xA66A555000000000];
   [0x5555555555555555; 0x55555555A02AA555];
   [0xAAAAAA2AAAAA9555; 0xA955555555555555];
   [0x55555555555555AA; 0xAAAAAA1555555555];
   [0xAAA555556AAAAAA8; 0x9555555555555955];
   [0x5555555555555555; 0xAAAAAAAAAAA95555];
   [0xAAA55555AA555595; 0x5A9A955555555555];
   [0x5555555555555555; 0x0554140455555555];
   [0xA56AAAAAAAAAAA91; 0xAAAA895AAA955555];
   [0xAAAA955695569556; 0x5555555595559555];
   [0xFF95555555555555; 0xFFFFFFFFAAAAA555];
   [0xFFFFFFFFFFFFFFFF; 0xFFFFFFFFFFFFFFFF];
   [0x5555555555555555; 0xAAA55555A2AAAA95]].

Definition TABLE_3_EA_2_ : list (list Z) :=
  [[0xEA; 0x9C; 0xA7];
   [0xEA; 0xAC; 0xB7];
   [0xC9; 0xAB];
   [0xEA; 0xAD; 0x92]].

Definition PLANE_3_EF_A4 : Plane4Bytes :=
  [U4 0xE8 0xB1 0x88 0x00; U4 0xE6 0x9B 0xB4 0x00; U4 0xE8 0xBB 0x8A 0x00; U4 0xE8 0xB3 0x88 0x00;
   U4 0xE6 0xBB 0x91 0x00; U4 0xE4 0xB8 0xB2 0x00; U4 0xE5 0x8F 0xA5 0x00; U4 0xE9 0xBE 0x9C 0x00;
   U4 0xE9 0xBE 0x9C 0x00; U4 0xE5 0xA5 0x91 0x00; U4 0xE9 0x87 0x91 0x00; U4 0xE5 0x96 0x87 0x00;
   U4 0xE5 0xA5 0x88 0x00; U4 0xE6 0x87 0xB6 0x00; U4 0xE7 0x99 0xA9 0x00; U4 0xE7 0xBE 0x85 0x00;
   U4 0xE8 0x98 0xBF 0x00; U4 0xE8 0x9E 0xBA 0x00; U4 0xE8 0xA3 0xB8 0x00; U4 0xE9 0x82 0x8F 0x00;
   U4 0xE6 0xA8 0x82 0x00; U4 0xE6 0xB4 0x9B 0x00; U4 0xE7 0x83 0x99 0x00; U4 0xE7 0x8F 0x9E 0x00;
   U4 0xE8 0x90 0xBD 0x00; U4 0xE9 0x85 0xAA 0x00; U4 0xE9 0xA7 0xB1 0x00; U4 0xE4 0xBA 0x82 0x00;
   U4 0xE5 0x8D 0xB5 0x00; U4 0xE6 0xAC 0x84 0x00; U4 0xE7 0x88 0x9B 0x00; U4 0xE8 0x98 0xAD 0x00;
   U4 0xE9 0xB8 0x9E 0x00; U4 0xE5 0xB5 0x90 0x00; U4 0xE6 0xBF 0xAB 0x00; U4 0xE8 0x97 0x8D 0x00;
   U4 0xE8 0xA5 0xA4 0x00; U4 0xE6 0x8B 0x89 0x00; U4 0xE8 0x87 0x98 0x00; U4 0xE8 0xA0 0x9F 0x00;
   U4 0xE5 0xBB 0x8A 0x00; U4 0xE6 0x9C 0x97 0x00; U4 0xE6 0xB5 0xAA 0x00; U4 0xE7 0x8B 0xBC 0x00;
   U4 0xE9 0x83 0x8E 0x00; U4 0xE4 0xBE 0x86 0x00; U4 0xE5 0x86 0xB7 0x00; U4 0xE5 0x8B 0x9E 0x00;
   U4 0xE6 0x93 0x84 0x00; U4 0xE6 0xAB 0x93 0x00; U4 0xE7 0x88 0x90 0x00; U4 0xE7 0x9B 0xA7 0x00;
   U4 0xE8 0x80 0x81 0x00; U4 0xE8 0x98 0x86 0x00; U4 0xE8 0x99 0x9C 0x00; U4 0xE8 0xB7 0xAF 0x00;
   U4 0xE9 0x9C 0xB2 0x00; U4 0xE9 0xAD 0xAF 0x00; U4 0xE9 0xB7 0xBA 0x00; U4 0xE7 0xA2 0x8C 0x00;
   U4 0xE7 0xA5 0xBF 0x00; U4 0xE7 0xB6 0xA0 0x00; U4 0xE8 0x8F 0x89 0x00; U4 0xE9 0x8C 0x84 0x00].

Definition PLANE_3_EF_A5 : Plane4Bytes :=
  [U4 0xE9 0xB9 0xBF 0x00; U4 0xE8 0xAB 0x96 0x00; U4 0xE5 0xA3 0x9F 0x00; U4 0xE5 0xBC 0x84 0x00;
   U4 0xE7 0xB1 0xA0 0x00; U4 0xE8 0x81 0xBE 0x00; U4 0xE7 0x89 0xA2 0x00; U4 0xE7 0xA3 0x8A 0x00;
   U4 0xE8 0xB3 0x82 0x00; U4 0xE9 0x9B 0xB7 0x00; U4 0xE5 0xA3 0x98 0x00; U4 0xE5 0xB1 0xA2 0x00;
   U4 0xE6 0xA8 0x93 0x00; U4 0xE6 0xB7 0x9A 0x00; U4 0xE6 0xBC 0x8F 0x00; U4 0xE7 0xB4 0xAF 0x00;
   U4 0xE7 0xB8 0xB7 0x00; U4 0xE9 0x99 0x8B 0x00; U4 0xE5 0x8B 0x92 0x00; U4 0xE8 0x82 0x8B 0x00;
   U4 0xE5 0x87 0x9C 0x00; U4 0xE5 0x87 0x8C 0x00; U4 0xE7 0xA8 0x9C 0x00; U4 0xE7 0xB6 0xBE 0x00;
   U4 0xE8 0x8F 0xB1 0x00; U4 0xE9 0x99 0xB5 0x00; U4 0xE8 0xAE 0x80 0x00; U4 0xE6 0x8B 0x8F 0x00;
   U4 0xE6 0xA8 0x82 0x00; U4 0xE8 0xAB 0xBE 0x00; U4 0xE4 0xB8 0xB9 0x00; U4 0xE5 0xAF 0xA7 0x00;
   U4 0xE6 0x80 0x92 0x00; U4 0xE7 0x8E 0x87 0x00; U4 0xE7 0x95 0xB0 0x00; U4 0xE5 0x8C 0x97 0x00;
   U4 0xE7 0xA3 0xBB 0x00; U4 0xE4 0xBE 0xBF 0x00; U4 0xE5 0xBE 0xA9 0x00; U4 0xE4 0xB8 0x8D 0x00;
   U4 0xE6 0xB3 0x8C 0x00; U4 0xE6 0x95 0xB8 0x00; U4 0xE7 0xB4 0xA2 0x00; U4 0xE5 0x8F 0x83 0x00;
   U4 0xE5 0xA1 0x9E 0x00; U4 0xE7 0x9C 0x81 0x00; U4 0xE8 0x91 0x89 0x00; U4 0xE8 0xAA 0xAA 0x00;
   U4 0xE6 0xAE 0xBA 0x00; U4 0xE8 0xBE 0xB0 0x00; U4 0xE6 0xB2 0x88 0x00; U4 0xE6 0x8B 0xBE 0x00;
   U4 0xE8 0x8B 0xA5 0x00; U4 0xE6 0x8E 0xA0 0x00; U4 0xE7 0x95 0xA5 0x00; U4 0xE4 0xBA 0xAE 0x00;
   U4 0xE5 0x85 0xA9 0x00; U4 0xE5 0x87 0x89 0x00; U4 0xE6 0xA2 0x81 0x00; U4 0xE7 0xB3 0xA7 0x00;
   U4 0xE8 0x89 0xAF 0x00; U4 0xE8 0xAB 0x92 0x00; U4 0xE9 0x87 0x8F 0x00; U4 0xE5 0x8B 0xB5 0x00].

Definition PLANE_3_EF_A6 : Plane4Bytes :=
  [U4 0xE5 0x91 0x82 0x00; U4 0xE5 0xA5 0xB3 0x00; U4 0xE5 0xBB 0xAC 0x00; U4 0xE6 0x97 0x85 0x00;
   U4 0xE6 0xBF 0xBE 0x00; U4 0xE7 0xA4 0xAA 0x00; U4 0xE9 0x96 0xAD 0x00; U4 0xE9 0xA9 0xAA 0x00;
   U4 0xE9 0xBA 0x97 0x00; U4 0xE9 0xBB 0x8E 0x00; U4 0xE5 0x8A 0x9B 0x00; U4 0xE6 0x9B 0x86 0x00;
   U4 0xE6 0xAD 0xB7 0x00; U4 0xE8 0xBD 0xA2 0x00; U4 0xE5 0xB9 0xB4 0x00; U4 0xE6 0x86 0x90 0x00;
   U4 0xE6 0x88 0x80 0x00; U4 0xE6 0x92 0x9A 0x00; U4 0xE6 0xBC 0xA3 0x00; U4 0xE7 0x85 0x89 0x00;
   U4 0xE7 0x92 0x89 0x00; U4 0xE7 0xA7 0x8A 0x00; U4 0xE7 0xB7 0xB4 0x00; U4 0xE8 0x81 0xAF 0x00;
   U4 0xE8 0xBC 0xA6 0x00; U4 0xE8 0x93 0xAE 0x00; U4 0xE9 0x80 0xA3 0x00; U4 0xE9 0x8D 0x8A 0x00;
   U4 0xE5 0x88 0x97 0x00; U4 0xE5 0x8A 0xA3 0x00; U4 0xE5 0x92 0xBD 0x00; U4 0xE7 0x83 0x88 0x00;
   U4 0xE8 0xA3 0x82 0x00; U4 0xE8 0xAA 0xAA 0x00; U4 0xE5 0xBB 0x89 0x00; U4 0xE5 0xBF 0xB5 0x00;
   U4 0xE6 0x8D 0xBB 0x00; U4 0xE6 0xAE 0xAE 0x00; U4 0xE7 0xB0 0xBE 0x00; U4 0xE7 0x8D 0xB5 0x00;
   U4 0xE4 0xBB 0xA4 0x00; U4 0xE5 0x9B 0xB9 0x00; U4 0xE5 0xAF 0xA7 0x00; U4 0xE5 0xB6 0xBA 0x00;
   U4 0xE6 0x80 0x9C 0x00; U4 0xE7 0x8E 0xB2 0x00; U4 0xE7 0x91 0xA9 0x00; U4 0xE7 0xBE 0x9A 0x00;
   U4 0xE8 0x81 0x86 0x00; U4 0xE9 0x88 0xB4 0x00; U4 0xE9 0x9B 0xB6 0x00; U4 0xE9 0x9D 0x88 0x00;
   U4 0xE9 0xA0 0x98 0x00; U4 0xE4 0xBE 0x8B 0x00; U4 0xE7 0xA6 0xAE 0x00; U4 0xE9 0x86 0xB4 0x00;
   U4 0xE9 0x9A 0xB8 0x00; U4 0xE6 0x83 0xA1 0x00; U4 0xE4 0xBA 0x86 0x00; U4 0xE5 0x83 0x9A 0x00;
   U4 0xE5 0xAF 0xAE 0x00; U4 0xE5 0xB0 0xBF 0x00; U4 0xE6 0x96 0x99 0x00; U4 0xE6 0xA8 0x82 0x00].

Definition PLANE_3_EF_A7 : Plane4Bytes :=
  [U4 0xE7 0x87 0x8E 0x00; U4 0xE7 0x99 0x82 0x00; U4 0xE8 0x93 0xBC 0x00; U4 0xE9 0x81 0xBC 0x00;
   U4 0xE9 0xBE 0x8D 0x00; U4 0xE6 0x9A 0x88 0x00; U4 0xE9 0x98 0xAE 0x00; U4 0xE5 0x8A 0x89 0x00;
   U4 0xE6 0x9D 0xBB 0x00; U4 0xE6 0x9F 0xB3 0x00; U4 0xE6 0xB5 0x81 0x00; U4 0xE6 0xBA 0x9C 0x00;
   U4 0xE7 0x90 0x89 0x00; U4 0xE7 0x95 0x99 0x00; U4 0xE7 0xA1 0xAB 0x00; U4 0xE7 0xB4 0x90 0x00;
   U4 0xE9 0xA1 0x9E 0x00; U4 0xE5 0x85 0xAD 0x00; U4 0xE6 0x88 0xAE 0x00; U4 0xE9 0x99 0xB8 0x00;
   U4 0xE5 0x80 0xAB 0x00; U4 0xE5 0xB4 0x99 0x00; U4 0xE6 0xB7 0xAA 0x00; U4 0xE8 0xBC 0xAA 0x00;
   U4 0xE5 0xBE 0x8B 0x00; U4 0xE6 0x85 0x84 0x00; U4 0xE6 0xA0 0x97 0x00; U4 0xE7 0x8E 0x87 0x00;
   U4 0xE9 0x9A 0x86 0x00; U4 0xE5 0x88 0xA9 0x00; U4 0xE5 0x90 0x8F 0x00; U4 0xE5 0xB1 0xA5 0x00;
   U4 0xE6 0x98 0x93 0x00; U4 0xE6 0x9D 0x8E 0x00; U4 0xE6 0xA2 0xA8 0x00; U4 0xE6 0xB3 0xA5 0x00;
   U4 0xE7 0x90 0x86 0x00; U4 0xE7 0x97 0xA2 0x00; U4 0xE7 0xBD 0xB9 0x00; U4 0xE8 0xA3 0x8F 0x00;
   U4 0xE8 0xA3 0xA1 0x00; U4 0xE9 0x87 0x8C 0x00; U4 0xE9 0x9B 0xA2 0x00; U4 0xE5 0x8C 0xBF 0x00;
   U4 0xE6 0xBA 0xBA 0x00; U4 0xE5 0x90 0x9D 0x00; U4 0xE7 0x87 0x90 0x00; U4 0xE7 0x92 0x98 0x00;
   U4 0xE8 0x97 0xBA 0x00; U4 0xE9 0x9A 0xA3 0x00; U4 0xE9 0xB1 0x97 0x00; U4 0xE9 0xBA 0x9F 0x00;
   U4 0xE6 0x9E 0x97 0x00; U4 0xE6 0xB7 0x8B 0x00; U4 0xE8 0x87 0xA8 0x00; U4 0xE7 0xAB 0x8B 0x00;
   U4 0xE7 0xAC 0xA0 0x00; U4 0xE7 0xB2 0x92 0x00; U4 0xE7 0x8B 0x80 0x00; U4 0xE7 0x82 0x99 0x00;
   U4 0xE8 0xAD 0x98 0x00; U4 0xE4 0xBB 0x80 0x00; U4 0xE8 0x8C 0xB6 0x00; U4 0xE5 0x88 0xBA 0x00].

Definition PLANE_3_EF_A8 : Plane4Bytes :=
  [U4 0xE5 0x88 0x87 0x00; U4 0xE5 0xBA 0xA6 0x00; U4 0xE6 0x8B 0x93 0x00; U4 0xE7 0xB3 0x96 0x00;
   U4 0xE5 0xAE 0x85 0x00; U4 0xE6 0xB4 0x9E 0x00; U4 0xE6 0x9A 0xB4 0x00; U4 0xE8 0xBC 0xBB 0x00;
   U4 0xE8 0xA1 0x8C 0x00; U4 0xE9 0x99 0x8D 0x00; U4 0xE8 0xA6 0x8B 0x00; U4 0xE5 0xBB 0x93 0x00;
   U4 0xE5 0x85 0x80 0x00; U4 0xE5 0x97 0x80 0x00; U4 0xEF 0xA8 0x8E 0x00; U4 0xEF 0xA8 0x8F 0x00;
   U4 0xE5 0xA1 0x9A 0x00; U4 0xEF 0xA8 0x91 0x00; U4 0xE6 0x99 0xB4 0x00; U4 0xEF 0xA8 0x93 0x00;
   U4 0xEF 0xA8 0x94 0x00; U4 0xE5 0x87 0x9E 0x00; U4 0xE7 0x8C 0xAA 0x00; U4 0xE7 0x9B 0x8A 0x00;
   U4 0xE7 0xA4 0xBC 0x00; U4 0xE7 0xA5 0x9E 0x00; U4 0xE7 0xA5 0xA5 0x00; U4 0xE7 0xA6 0x8F 0x00;
   U4 0xE9 0x9D 0x96 0x00; U4 0xE7 0xB2 0xBE 0x00; U4 0xE7 0xBE 0xBD 0x00; U4 0xEF 0xA8 0x9F 0x00;
   U4 0xE8 0x98 0x92 0x00; U4 0xEF 0xA8 0xA1 0x00; U4 0xE8 0xAB 0xB8 0x00; U4 0xEF 0xA8 0xA3 0x00;
   U4 0xEF 0xA8 0xA4 0x00; U4 0xE9 0x80 0xB8 0x00; U4 0xE9 0x83 0xBD 0x00; U4 0xEF 0xA8 0xA7 0x00;
   U4 0xEF 0xA8 0xA8 0x00; U4 0xEF 0xA8 0xA9 0x00; U4 0xE9 0xA3 0xAF 0x00; U4 0xE9 0xA3 0xBC 0x00;
   U4 0xE9 0xA4 0xA8 0x00; U4 0xE9 0xB6 0xB4 0x00; U4 0xE9 0x83 0x9E 0x00; U4 0xE9 0x9A 0xB7 0x00;
   U4 0xE4 0xBE 0xAE 0x00; U4 0xE5 0x83 0xA7 0x00; U4 0xE5 0x85 0x8D 0x00; U4 0xE5 0x8B 0x89 0x00;
   U4 0xE5 0x8B 0xA4 0x00; U4 0xE5 0x8D 0x91 0x00; U4 0xE5 0x96 0x9D 0x00; U4 0xE5 0x98 0x86 0x00;
   U4 0xE5 0x99 0xA8 0x00; U4 0xE5 0xA1 0x80 0x00; U4 0xE5 0xA2 0xA8 0x00; U4 0xE5 0xB1 0xA4 0x00;
   U4 0xE5 0xB1 0xAE 0x00; U4 0xE6 0x82 0x94 0x00; U4 0xE6 0x85 0xA8 0x00; U4 0xE6 0x86 0x8E 0x00].

Definition PLANE_3_EF_A9 : Plane4Bytes :=
  [U4 0xE6 0x87 0xB2 0x00; U4 0xE6 0x95 0x8F 0x00; U4 0xE6 0x97 0xA2 0x00; U4 0xE6 0x9A 0x91 0x00;
   U4 0xE6 0xA2 0x85 0x00; U4 0xE6 0xB5 0xB7 0x00; U4 0xE6 0xB8 0x9A 0x00; U4 0xE6 0xBC 0xA2 0x00;
   U4 0xE7 0x85 0xAE 0x00; U4 0xE7 0x88 0xAB 0x00; U4 0xE7 0x90 0xA2 0x00; U4 0xE7 0xA2 0x91 0x00;
   U4 0xE7 0xA4 0xBE 0x00; U4 0xE7 0xA5 0x89 0x00; U4 0xE7 0xA5 0x88 0x00; U4 0xE7 0xA5 0x90 0x00;
   U4 0xE7 0xA5 0x96 0x00; U4 0xE7 0xA5 0x9D 0x00; U4 0xE7 0xA6 0x8D 0x00; U4 0xE7 0xA6 0x8E 0x00;
   U4 0xE7 0xA9 0x80 0x00; U4 0xE7 0xAA 0x81 0x00; U4 0xE7 0xAF 0x80 0x00; U4 0xE7 0xB7 0xB4 0x00;
   U4 0xE7 0xB8 0x89 0x00; U4 0xE7 0xB9 0x81 0x00; U4 0xE7 0xBD 0xB2 0x00; U4 0xE8 0x80 0x85 0x00;
   U4 0xE8 0x87 0xAD 0x00; U4 0xE8 0x89 0xB9 0x00; U4 0xE8 0x89 0xB9 0x00; U4 0xE8 0x91 0x97 0x00;
   U4 0xE8 0xA4 0x90 0x00; U4 0xE8 0xA6 0x96 0x00; U4 0xE8 0xAC 0x81 0x00; U4 0xE8 0xAC 0xB9 0x00;
   U4 0xE8 0xB3 0x93 0x00; U4 0xE8 0xB4 0x88 0x00; U4 0xE8 0xBE 0xB6 0x00; U4 0xE9 0x80 0xB8 0x00;
   U4 0xE9 0x9B 0xA3 0x00; U4 0xE9 0x9F 0xBF 0x00; U4 0xE9 0xA0 0xBB 0x00; U4 0xE6 0x81 0xB5 0x00;
   U4 0xF0 0xA4 0x8B 0xAE; U4 0xE8 0x88 0x98 0x00; U4 0x20 0x00 0x00 0x00; U4 0x20 0x00 0x00 0x00;
   U4 0xE4 0xB8 0xA6 0x00; U4 0xE5 0x86 0xB5 0x00; U4 0xE5 0x85 0xA8 0x00; U4 0xE4 0xBE 0x80 0x00;
   U4 0xE5 0x85 0x85 0x00; U4 0xE5 0x86 0x80 0x00; U4 0xE5 0x8B 0x87 0x00; U4 0xE5 0x8B 0xBA 0x00;
   U4 0xE5 0x96 0x9D 0x00; U4 0xE5 0x95 0x95 0x00; U4 0xE5 0x96 0x99 0x00; U4 0xE5 0x97 0xA2 0x00;
   U4 0xE5 0xA1 0x9A 0x00; U4 0xE5 0xA2 0xB3 0x00; U4 0xE5 0xA5 0x84 0x00; U4 0xE5 0xA5 0x94 0x00].

Definition PLANE_3_EF_AA : Plane4Bytes :=
  [U4 0xE5 0xA9 0xA2 0x00; U4 0xE5 0xAC 0xA8 0x00; U4 0xE5 0xBB 0x92 0x00; U4 0xE5 0xBB 0x99 0x00;
   U4 0xE5 0xBD 0xA9 0x00; U4 0xE5 0xBE 0xAD 0x00; U4 0xE6 0x83 0x98 0x00; U4 0xE6 0x85 0x8E 0x00;
   U4 0xE6 0x84 0x88 0x00; U4 0xE6 0x86 0x8E 0x00; U4 0xE6 0x85 0xA0 0x00; U4 0xE6 0x87 0xB2 0x00;
   U4 0xE6 0x88 0xB4 0x00; U4 0xE6 0x8F 0x84 0x00; U4 0xE6 0x90 0x9C 0x00; U4 0xE6 0x91 0x92 0x00;
   U4 0xE6 0x95 0x96 0x00; U4 0xE6 0x99 0xB4 0x00; U4 0xE6 0x9C 0x97 0x00; U4 0xE6 0x9C 0x9B 0x00;
   U4 0xE6 0x9D 0x96 0x00; U4 0xE6 0xAD 0xB9 0x00; U4 0xE6 0xAE 0xBA 0x00; U4 0xE6 0xB5 0x81 0x00;
   U4 0xE6 0xBB 0x9B 0x00; U4 0xE6 0xBB 0x8B 0x00; U4 0xE6 0xBC 0xA2 0x00; U4 0xE7 0x80 0x9E 0x00;
   U4 0xE7 0x85 0xAE 0x00; U4 0xE7 0x9E 0xA7 0x00; U4 0xE7 0x88 0xB5 0x00; U4 0xE7 0x8A 0xAF 0x00;
   U4 0xE7 0x8C 0xAA 0x00; U4 0xE7 0x91 0xB1 0x00; U4 0xE7 0x94 0x86 0x00; U4 0xE7 0x94 0xBB 0x00;
   U4 0xE7 0x98 0x9D 0x00; U4 0xE7 0x98 0x9F 0x00; U4 0xE7 0x9B 0x8A 0x00; U4 0xE7 0x9B 0x9B 0x00;
   U4 0xE7 0x9B 0xB4 0x00; U4 0xE7 0x9D 0x8A 0x00; U4 0xE7 0x9D 0x80 0x00; U4 0xE7 0xA3 0x8C 0x00;
   U4 0xE7 0xAA 0xB1 0x00; U4 0xE7 0xAF 0x80 0x00; U4 0xE7 0xB1 0xBB 0x00; U4 0xE7 0xB5 0x9B 0x00;
   U4 0xE7 0xB7 0xB4 0x00; U4 0xE7 0xBC 0xBE 0x00; U4 0xE8 0x80 0x85 0x00; U4 0xE8 0x8D 0x92 0x00;
   U4 0xE8 0x8F 0xAF 0x00; U4 0xE8 0x9D 0xB9 0x00; U4 0xE8 0xA5 0x81 0x00; U4 0xE8 0xA6 0x86 0x00;
   U4 0xE8 0xA6 0x96 0x00; U4 0xE8 0xAA 0xBF 0x00; U4 0xE8 0xAB 0xB8 0x00; U4 0xE8 0xAB 0x8B 0x00;
   U4 0xE8 0xAC 0x81 0x00; U4 0xE8 0xAB 0xBE 0x00; U4 0xE8 0xAB 0xAD 0x00; U4 0xE8 0xAC 0xB9 0x00].

Definition PLANE_3_EF_AB : Plane4Bytes :=
  [U4 0xE8 0xAE 0x8A 0x00; U4 0xE8 0xB4 0x88 0x00; U4 0xE8 0xBC 0xB8 0x00; U4 0xE9 0x81 0xB2 0x00;
   U4 0xE9 0x86 0x99 0x00; U4 0xE9 0x89 0xB6 0x00; U4 0xE9 0x99 0xBC 0x00; U4 0xE9 0x9B 0xA3 0x00;
   U4 0xE9 0x9D 0x96 0x00; U4 0xE9 0x9F 0x9B 0x00; U4 0xE9 0x9F 0xBF 0x00; U4 0xE9 0xA0 0x8B 0x00;
   U4 0xE9 0xA0 0xBB 0x00; U4 0xE9 0xAC 0x92 0x00; U4 0xE9 0xBE 0x9C 0x00; U4 0xF0 0xA2 0xA1 0x8A;
   U4 0xF0 0xA2 0xA1 0x84; U4 0xF0 0xA3 0x8F 0x95; U4 0xE3 0xAE 0x9D 0x00; U4 0xE4 0x80 0x98 0x00;
   U4 0xE4 0x80 0xB9 0x00; U4 0xF0 0xA5 0x89 0x89; U4 0xF0 0xA5 0xB3 0x90; U4 0xF0 0xA7 0xBB 0x93;
   U4 0xE9 0xBD 0x83 0x00; U4 0xE9 0xBE 0x8E 0x00; U4 0x20 0x00 0x00 0x00; U4 0x20 0x00 0x00 0x00;
   U4 0x20 0x00 0x00 0x00; U4 0x20 0x00 0x00 0x00; U4 0x20 0x00 0x00 0x00; U4 0x20 0x00 0x00 0x00;
   U4 0x20 0x00 0x00 0x00; U4 0x20 0x00 0x00 0x00; U4 0x20 0x00 0x00 0x00; U4 0x20 0x00 0x00 0x00;
   U4 0x20 0x00 0x00 0x00; U4 0x20 0x00 0x00 0x00; U4 0x20 0x00 0x00 0x00; U4 0x20 0x00 0x00 0x00;
   U4 0x20 0x00 0x00 0x00; U4 0x20 0x00 0x00 0x00; U4 0x20 0x00 0x00 0x00; U4 0x20 0x00 0x00 0x00;
   U4 0x20 0x00 0x00 0x00; U4 0x20 0x00 0x00 0x00; U4 0x20 0x00 0x00 0x00; U4 0x20 0x00 0x00 0x00;
   U4 0x20 0x00 0x00 0x00; U4 0x20 0x00 0x00 0x00; U4 0x20 0x00 0x00 0x00; U4 0x20 0x00 0x00 0x00;
   U4 0x20 0x00 0x00 0x00; U4 0x20 0x00 0x00 0x00; U4 0x20 0x00 0x00 0x00; U4 0x20 0x00 0x00 0x00;
   U4 0x20 0x00 0x00 0x00; U4 0x20 0x00 0x00 0x00; U4 0x20 0x00 0x00 0x00; U4 0x20 0x00 0x00 0x00;
   U4 0x20 0x00 0x00 0x00; U4 0x20 0x00 0x00 0x00; U4 0x20 0x00 0x00 0x00; U4 0x20 0x00 0x00 0x00].

Definition PLANE_3_EF_AC : Plane4Bytes :=
  [U4 0x66 0x66 0x00 0x00; U4 0x66 0x69 0x00 0x00; U4 0x66 0x6C 0x00 0x00; U4 0x66 0x66 0x69 0x00;
   U4 0x66 0x66 0x6C 0x00; U4 0x73 0x74 0x00 0x00; U4 0x73 0x74 0x00 0x00; U4 0x20 0x00 0x00 0x00;
   U4 0x20 0x00 0x00 0x00; U4 0x20 0x00 0x00 0x00; U4 0x20 0x00 0x00 0x00; U4 0x20 0x00 0x00 0x00;
   U4 0x20 0x00 0x00 0x00; U4 0x20 0x00 0x00 0x00; U4 0x20 0x00 0x00 0x00; U4 0x20 0x00 0x00 0x00;
   U4 0x20 0x00 0x00 0x00; U4 0x20 0x00 0x00 0x00; U4 0x20 0x00 0x00 0x00; U4 0xD5 0xB4 0xD5 0xB6;
   U4 0xD5 0xB4 0xD5 0xA5; U4 0xD5 0xB4 0xD5 0xAB; U4 0xD5 0xBE 0xD5 0xB6; U4 0xD5 0xB4 0xD5 0xAD;
   U4 0x20 0x00 0x00 0x00; U4 0x20 0x00 0x00 0x00; U4 0x20 0x00 0x00 0x00; U4 0x20 0x00 0x00 0x00;
   U4 0x20 0x00 0x00 0x00; U4 0xD7 0x99 0x00 0x00; U4 0x00 0x00 0x00 0x00; U4 0xD7 0xB2 0x00 0x00;
   U4 0xD7 0xA2 0x00 0x00; U4 0xD7 0x90 0x00 0x00; U4 0xD7 0x93 0x00 0x00; U4 0xD7 0x94 0x00 0x00;
   U4 0xD7 0x9B 0x00 0x00; U4 0xD7 0x9C 0x00 0x00; U4 0xD7 0x9D 0x00 0x00; U4 0xD7 0xA8 0x00 0x00;
   U4 0xD7 0xAA 0x00 0x00; U4 0x20 0x00 0x00 0x00; U4 0xD7 0xA9 0x00 0x00; U4 0xD7 0xA9 0x00 0x00;
   U4 0xD7 0xA9 0x00 0x00; U4 0xD7 0xA9 0x00 0x00; U4 0xD7 0x90 0x00 0x00; U4 0xD7 0x90 0x00 0x00;
   U4 0xD7 0x90 0x00 0x00; U4 0xD7 0x91 0x00 0x00; U4 0xD7 0x92 0x00 0x00; U4 0xD7 0x93 0x00 0x00;
   U4 0xD7 0x94 0x00 0x00; U4 0xD7 0x95 0x00 0x00; U4 0xD7 0x96 0x00 0x00; U4 0x20 0x00 0x00 0x00;
   U4 0xD7 0x98 0x00 0x00; U4 0xD7 0x99 0x00 0x00; U4 0xD7 0x9A 0x00 0x00; U4 0xD7 0x9B 0x00 0x00;
   U4 0xD7 0x9C 0x00 0x00; U4 0x20 0x00 0x00 0x00; U4 0xD7 0x9E 0x00 0x00; U4 0x20 0x00 0x00 0x00].

Definition PLANE_3_EF_AD : Plane4Bytes :=
  [U4 0xD7 0xA0 0x00 0x00; U4 0xD7 0xA1 0x00 0x00; U4 0x20 0x00 0x00 0x00; U4 0xD7 0xA3 0x00 0x00;
   U4 0xD7 0xA4 0x00 0x00; U4 0x20 0x00 0x00 0x00; U4 0xD7 0xA6 0x00 0x00; U4 0xD7 0xA7 0x00 0x00;
   U4 0xD7 0xA8 0x00 0x00; U4 0xD7 0xA9 0x00 0x00; U4 0xD7 0xAA 0x00 0x00; U4 0xD7 0x95 0x00 0x00;
   U4 0xD7 0x91 0x00 0x00; U4 0xD7 0x9B 0x00 0x00; U4 0xD7 0xA4 0x00 0x00; U4 0xD7 0x90 0xD7 0x9C;
   U4 0xD9 0xB1 0x00 0x00; U4 0xD9 0xB1 0x00 0x00; U4 0xD9 0xBB 0x00 0x00; U4 0xD9 0xBB 0x00 0x00;
   U4 0xD9 0xBB 0x00 0x00; U4 0xD9 0xBB 0x00 0x00; U4 0xD9 0xBE 0x00 0x00; U4 0xD9 0xBE 0x00 0x00;
   U4 0xD9 0xBE 0x00 0x00; U4 0xD9 0xBE 0x00 0x00; U4 0xDA 0x80 0x00 0x00; U4 0xDA 0x80 0x00 0x00;
   U4 0xDA 0x80 0x00 0x00; U4 0xDA 0x80 0x00 0x00; U4 0xD9 0xBA 0x00 0x00; U4 0xD9 0xBA 0x00 0x00;
   U4 0xD9 0xBA 0x00 0x00; U4 0xD9 0xBA 0x00 0x00; U4 0xD9 0xBF 0x00 0x00; U4 0xD9 0xBF 0x00 0x00;
   U4 0xD9 0xBF 0x00 0x00; U4 0xD9 0xBF 0x00 0x00; U4 0xD9 0xB9 0x00 0x00; U4 0xD9 0xB9 0x00 0x00;
   U4 0xD9 0xB9 0x00 0x00; U4 0xD9 0xB9 0x00 0x00; U4 0xDA 0xA4 0x00 0x00; U4 0xDA 0xA4 0x00 0x00;
   U4 0xDA 0xA4 0x00 0x00; U4 0xDA 0xA4 0x00 0x00; U4 0xDA 0xA6 0x00 0x00; U4 0xDA 0xA6 0x00 0x00;
   U4 0xDA 0xA6 0x00 0x00; U4 0xDA 0xA6 0x00 0x00; U4 0xDA 0x84 0x00 0x00; U4 0xDA 0x84 0x00 0x00;
   U4 0xDA 0x84 0x00 0x00; U4 0xDA 0x84 0x00 0x00; U4 0xDA 0x83 0x00 0x00; U4 0xDA 0x83 0x00 0x00;
   U4 0xDA 0x83 0x00 0x00; U4 0xDA 0x83 0x00 0x00; U4 0xDA 0x86 0x00 0x00; U4 0xDA 0x86 0x00 0x00;
   U4 0xDA 0x86 0x00 0x00; U4 0xDA 0x86 0x00 0x00; U4 0xDA 0x87 0x00 0x00; U4 0xDA 0x87 0x00 0x00].

Definition PLANE_3_EF_AE : Plane4Bytes :=
  [U4 0xDA 0x87 0x00 0x00; U4 0xDA 0x87 0x00 0x00; U4 0xDA 0x8D 0x00 0x00; U4 0xDA 0x8D 0x00 0x00;
   U4 0xDA 0x8C 0x00 0x00; U4 0xDA 0x8C 0x00 0x00; U4 0xDA 0x8E 0x00 0x00; U4 0xDA 0x8E 0x00 0x00;
   U4 0xDA 0x88 0x00 0x00; U4 0xDA 0x88 0x00 0x00; U4 0xDA 0x98 0x00 0x00; U4 0xDA 0x98 0x00 0x00;
   U4 0xDA 0x91 0x00 0x00; U4 0xDA 0x91 0x00 0x00; U4 0xDA 0xA9 0x00 0x00; U4 0xDA 0xA9 0x00 0x00;
   U4 0xDA 0xA9 0x00 0x00; U4 0xDA 0xA9 0x00 0x00; U4 0xDA 0xAF 0x00 0x00; U4 0xDA 0xAF 0x00 0x00;
   U4 0xDA 0xAF 0x00 0x00; U4 0xDA 0xAF 0x00 0x00; U4 0xDA 0xB3 0x00 0x00; U4 0xDA 0xB3 0x00 0x00;
   U4 0xDA 0xB3 0x00 0x00; U4 0xDA 0xB3 0x00 0x00; U4 0xDA 0xB1 0x00 0x00; U4 0xDA 0xB1 0x00 0x00;
   U4 0xDA 0xB1 0x00 0x00; U4 0xDA 0xB1 0x00 0x00; U4 0xDA 0xBA 0x00 0x00; U4 0xDA 0xBA 0x00 0x00;
   U4 0xDA 0xBB 0x00 0x00; U4 0xDA 0xBB 0x00 0x00; U4 0xDA 0xBB 0x00 0x00; U4 0xDA 0xBB 0x00 0x00;
   U4 0xDB 0x95 0x00 0x00; U4 0xDB 0x95 0x00 0x00; U4 0xDB 0x81 0x00 0x00; U4 0xDB 0x81 0x00 0x00;
   U4 0xDB 0x81 0x00 0x00; U4 0xDB 0x81 0x00 0x00; U4 0xDA 0xBE 0x00 0x00; U4 0xDA 0xBE 0x00 0x00;
   U4 0xDA 0xBE 0x00 0x00; U4 0xDA 0xBE 0x00 0x00; U4 0xDB 0x92 0x00 0x00; U4 0xDB 0x92 0x00 0x00;
   U4 0xDB 0x92 0x00 0x00; U4 0xDB 0x92 0x00 0x00; U4 0x20 0x00 0x00 0x00; U4 0x20 0x00 0x00 0x00;
   U4 0x20 0x00 0x00 0x00; U4 0x20 0x00 0x00 0x00; U4 0x20 0x00 0x00 0x00; U4 0x20 0x00 0x00 0x00;
   U4 0x20 0x00 0x00 0x00; U4 0x20 0x00 0x00 0x00; U4 0x20 0x00 0x00 0x00; U4 0x20 0x00 0x00 0x00;
   U4 0x20 0x00 0x00 0x00; U4 0x20 0x00 0x00 0x00; U4 0x20 0x00 0x00 0x00; U4 0x20 0x00 0x00 0x00].

Definition PLANE_3_EF_AF : Plane4Bytes :=
  [U4 0x20 0x00 0x00 0x00; U4 0x20 0x00 0x00 0x00; U4 0x20 0x00 0x00 0x00; U4 0x20 0x00 0x00 0x00;
   U4 0x20 0x00 0x00 0x00; U4 0x20 0x00 0x00 0x00; U4 0x20 0x00 0x00 0x00; U4 0x20 0x00 0x00 0x00;
   U4 0x20 0x00 0x00 0x00; U4 0x20 0x00 0x00 0x00; U4 0x20 0x00 0x00 0x00; U4 0x20 0x00 0x00 0x00;
   U4 0x20 0x00 0x00 0x00; U4 0x20 0x00 0x00 0x00; U4 0x20 0x00 0x00 0x00; U4 0x20 0x00 0x00 0x00;
   U4 0x20 0x00 0x00 0x00; U4 0x20 0x00 0x00 0x00; U4 0x20 0x00 0x00 0x00; U4 0xDA 0xAD 0x00 0x00;
   U4 0xDA 0xAD 0x00 0x00; U4 0xDA 0xAD 0x00 0x00; U4 0xDA 0xAD 0x00 0x00; U4 0xDB 0x87 0x00 0x00;
   U4 0xDB 0x87 0x00 0x00; U4 0xDB 0x86 0x00 0x00; U4 0xDB 0x86 0x00 0x00; U4 0xDB 0x88 0x00 0x00;
   U4 0xDB 0x88 0x00 0x00; U4 0xDB 0x87 0xD9 0xB4; U4 0xDB 0x8B 0x00 0x00; U4 0xDB 0x8B 0x00 0x00;
   U4 0xDB 0x85 0x00 0x00; U4 0xDB 0x85 0x00 0x00; U4 0xDB 0x89 0x00 0x00; U4 0xDB 0x89 0x00 0x00;
   U4 0xDB 0x90 0x00 0x00; U4 0xDB 0x90 0x00 0x00; U4 0xDB 0x90 0x00 0x00; U4 0xDB 0x90 0x00 0x00;
   U4 0xD9 0x89 0x00 0x00; U4 0xD9 0x89 0x00 0x00; U4 0xD9 0x8A 0xD8 0xA7; U4 0xD9 0x8A 0xD8 0xA7;
   U4 0xD9 0x8A 0xDB 0x95; U4 0xD9 0x8A 0xDB 0x95; U4 0xD9 0x8A 0xD9 0x88; U4 0xD9 0x8A 0xD9 0x88;
   U4 0xD9 0x8A 0xDB 0x87; U4 0xD9 0x8A 0xDB 0x87; U4 0xD9 0x8A 0xDB 0x86; U4 0xD9 0x8A 0xDB 0x86;
   U4 0xD9 0x8A 0xDB 0x88; U4 0xD9 0x8A 0xDB 0x88; U4 0xD9 0x8A 0xDB 0x90; U4 0xD9 0x8A 0xDB 0x90;
   U4 0xD9 0x8A 0xDB 0x90; U4 0xD9 0x8A 0xD9 0x89; U4 0xD9 0x8A 0xD9 0x89; U4 0xD9 0x8A 0xD9 0x89;
   U4 0xDB 0x8C 0x00 0x00; U4 0xDB 0x8C 0x00 0x00; U4 0xDB 0x8C 0x00 0x00; U4 0xDB 0x8C 0x00 0x00].

Definition PLANE_3_EF_B0 : Plane4Bytes :=
  [U4 0xD9 0x8A 0xD8 0xAC; U4 0xD9 0x8A 0xD8 0xAD; U4 0xD9 0x8A 0xD9 0x85; U4 0xD9 0x8A 0xD9 0x89;
   U4 0xD9 0x8A 0xD9 0x8A; U4 0xD8 0xA8 0xD8 0xAC; U4 0xD8 0xA8 0xD8 0xAD; U4 0xD8 0xA8 0xD8 0xAE;
   U4 0xD8 0xA8 0xD9 0x85; U4 0xD8 0xA8 0xD9 0x89; U4 0xD8 0xA8 0xD9 0x8A; U4 0xD8 0xAA 0xD8 0xAC;
   U4 0xD8 0xAA 0xD8 0xAD; U4 0xD8 0xAA 0xD8 0xAE; U4 0xD8 0xAA 0xD9 0x85; U4 0xD8 0xAA 0xD9 0x89;
   U4 0xD8 0xAA 0xD9 0x8A; U4 0xD8 0xAB 0xD8 0xAC; U4 0xD8 0xAB 0xD9 0x85; U4 0xD8 0xAB 0xD9 0x89;
   U4 0xD8 0xAB 0xD9 0x8A; U4 0xD8 0xAC 0xD8 0xAD; U4 0xD8 0xAC 0xD9 0x85; U4 0xD8 0xAD 0xD8 0xAC;
   U4 0xD8 0xAD 0xD9 0x85; U4 0xD8 0xAE 0xD8 0xAC; U4 0xD8 0xAE 0xD8 0xAD; U4 0xD8 0xAE 0xD9 0x85;
   U4 0xD8 0xB3 0xD8 0xAC; U4 0xD8 0xB3 0xD8 0xAD; U4 0xD8 0xB3 0xD8 0xAE; U4 0xD8 0xB3 0xD9 0x85;
   U4 0xD8 0xB5 0xD8 0xAD; U4 0xD8 0xB5 0xD9 0x85; U4 0xD8 0xB6 0xD8 0xAC; U4 0xD8 0xB6 0xD8 0xAD;
   U4 0xD8 0xB6 0xD8 0xAE; U4 0xD8 0xB6 0xD9 0x85; U4 0xD8 0xB7 0xD8 0xAD; U4 0xD8 0xB7 0xD9 0x85;
   U4 0xD8 0xB8 0xD9 0x85; U4 0xD8 0xB9 0xD8 0xAC; U4 0xD8 0xB9 0xD9 0x85; U4 0xD8 0xBA 0xD8 0xAC;
   U4 0xD8 0xBA 0xD9 0x85; U4 0xD9 0x81 0xD8 0xAC; U4 0xD9 0x81 0xD8 0xAD; U4 0xD9 0x81 0xD8 0xAE;
   U4 0xD9 0x81 0xD9 0x85; U4 0xD9 0x81 0xD9 0x89; U4 0xD9 0x81 0xD9 0x8A; U4 0xD9 0x82 0xD8 0xAD;
   U4 0xD9 0x82 0xD9 0x85; U4 0xD9 0x82 0xD9 0x89; U4 0xD9 0x82 0xD9 0x8A; U4 0xD9 0x83 0xD8 0xA7;
   U4 0xD9 0x83 0xD8 0xAC; U4 0xD9 0x83 0xD8 0xAD; U4 0xD9 0x83 0xD8 0xAE; U4 0xD9 0x83 0xD9 0x84;
   U4 0xD9 0x83 0xD9 0x85; U4 0xD9 0x83 0xD9 0x89; U4 0xD9 0x83 0xD9 0x8A; U4 0xD9 0x84 0xD8 0xAC].

Definition PLANE_3_EF_B1 : Plane4Bytes :=
  [U4 0xD9 0x84 0xD8 0xAD; U4 0xD9 0x84 0xD8 0xAE; U4 0xD9 0x84 0xD9 0x85; U4 0xD9 0x84 0xD9 0x89;
   U4 0xD9 0x84 0xD9 0x8A; U4 0xD9 0x85 0xD8 0xAC; U4 0xD9 0x85 0xD8 0xAD; U4 0xD9 0x85 0xD8 0xAE;
   U4 0xD9 0x85 0xD9 0x85; U4 0xD9 0x85 0xD9 0x89; U4 0xD9 0x85 0xD9 0x8A; U4 0xD9 0x86 0xD8 0xAC;
   U4 0xD9 0x86 0xD8 0xAD; U4 0xD9 0x86 0xD8 0xAE; U4 0xD9 0x86 0xD9 0x85; U4 0xD9 0x86 0xD9 0x89;
   U4 0xD9 0x86 0xD9 0x8A; U4 0xD9 0x87 0xD8 0xAC; U4 0xD9 0x87 0xD9 0x85; U4 0xD9 0x87 0xD9 0x89;
   U4 0xD9 0x87 0xD9 0x8A; U4 0xD9 0x8A 0xD8 0xAC; U4 0xD9 0x8A 0xD8 0xAD; U4 0xD9 0x8A 0xD8 0xAE;
   U4 0xD9 0x8A 0xD9 0x85; U4 0xD9 0x8A 0xD9 0x89; U4 0xD9 0x8A 0xD9 0x8A; U4 0xD8 0xB0 0x00 0x00;
   U4 0xD8 0xB1 0x00 0x00; U4 0xD9 0x89 0x00 0x00; U4 0x20 0x00 0x00 0x00; U4 0x20 0x00 0x00 0x00;
   U4 0x20 0x00 0x00 0x00; U4 0x20 0x00 0x00 0x00; U4 0x20 0x00 0x00 0x00; U4 0x20 0x00 0x00 0x00;
   U4 0xD9 0x8A 0xD8 0xB1; U4 0xD9 0x8A 0xD8 0xB2; U4 0xD9 0x8A 0xD9 0x85; U4 0xD9 0x8A 0xD9 0x86;
   U4 0xD9 0x8A 0xD9 0x89; U4 0xD9 0x8A 0xD9 0x8A; U4 0xD8 0xA8 0xD8 0xB1; U4 0xD8 0xA8 0xD8 0xB2;
   U4 0xD8 0xA8 0xD9 0x85; U4 0xD8 0xA8 0xD9 0x86; U4 0xD8 0xA8 0xD9 0x89; U4 0xD8 0xA8 0xD9 0x8A;
   U4 0xD8 0xAA 0xD8 0xB1; U4 0xD8 0xAA 0xD8 0xB2; U4 0xD8 0xAA 0xD9 0x85; U4 0xD8 0xAA 0xD9 0x86;
   U4 0xD8 0xAA 0xD9 0x89; U4 0xD8 0xAA 0xD9 0x8A; U4 0xD8 0xAB 0xD8 0xB1; U4 0xD8 0xAB 0xD8 0xB2;
   U4 0xD8 0xAB 0xD9 0x85; U4 0xD8 0xAB 0xD9 0x86; U4 0xD8 0xAB 0xD9 0x89; U4 0xD8 0xAB 0xD9 0x8A;
   U4 0xD9 0x81 0xD9 0x89; U4 0xD9 0x81 0xD9 0x8A; U4 0xD9 0x82 0xD9 0x89; U4 0xD9 0x82 0xD9 0x8A].

Definition PLANE_3_EF_B2 : Plane4Bytes :=
  [U4 0xD9 0x83 0xD8 0xA7; U4 0xD9 0x83 0xD9 0x84; U4 0xD9 0x83 0xD9 0x85; U4 0xD9 0x83 0xD9 0x89;
   U4 0xD9 0x83 0xD9 0x8A; U4 0xD9 0x84 0xD9 0x85; U4 0xD9 0x84 0xD9 0x89; U4 0xD9 0x84 0xD9 0x8A;
   U4 0xD9 0x85 0xD8 0xA7; U4 0xD9 0x85 0xD9 0x85; U4 0xD9 0x86 0xD8 0xB1; U4 0xD9 0x86 0xD8 0xB2;
   U4 0xD9 0x86 0xD9 0x85; U4 0xD9 0x86 0xD9 0x86; U4 0xD9 0x86 0xD9 0x89; U4 0xD9 0x86 0xD9 0x8A;
   U4 0xD9 0x89 0x00 0x00; U4 0xD9 0x8A 0xD8 0xB1; U4 0xD9 0x8A 0xD8 0xB2; U4 0xD9 0x8A 0xD9 0x85;
   U4 0xD9 0x8A 0xD9 0x86; U4 0xD9 0x8A 0xD9 0x89; U4 0xD9 0x8A 0xD9 0x8A; U4 0xD9 0x8A 0xD8 0xAC;
   U4 0xD9 0x8A 0xD8 0xAD; U4 0xD9 0x8A 0xD8 0xAE; U4 0xD9 0x8A 0xD9 0x85; U4 0xD9 0x8A 0xD9 0x87;
   U4 0xD8 0xA8 0xD8 0xAC; U4 0xD8 0xA8 0xD8 0xAD; U4 0xD8 0xA8 0xD8 0xAE; U4 0xD8 0xA8 0xD9 0x85;
   U4 0xD8 0xA8 0xD9 0x87; U4 0xD8 0xAA 0xD8 0xAC; U4 0xD8 0xAA 0xD8 0xAD; U4 0xD8 0xAA 0xD8 0xAE;
   U4 0xD8 0xAA 0xD9 0x85; U4 0xD8 0xAA 0xD9 0x87; U4 0xD8 0xAB 0xD9 0x85; U4 0xD8 0xAC 0xD8 0xAD;
   U4 0xD8 0xAC 0xD9 0x85; U4 0xD8 0xAD 0xD8 0xAC; U4 0xD8 0xAD 0xD9 0x85; U4 0xD8 0xAE 0xD8 0xAC;
   U4 0xD8 0xAE 0xD9 0x85; U4 0xD8 0xB3 0xD8 0xAC; U4 0xD8 0xB3 0xD8 0xAD; U4 0xD8 0xB3 0xD8 0xAE;
   U4 0xD8 0xB3 0xD9 0x85; U4 0xD8 0xB5 0xD8 0xAD; U4 0xD8 0xB5 0xD8 0xAE; U4 0xD8 0xB5 0xD9 0x85;
   U4 0xD8 0xB6 0xD8 0xAC; U4 0xD8 0xB6 0xD8 0xAD; U4 0xD8 0xB6 0xD8 0xAE; U4 0xD8 0xB6 0xD9 0x85;
   U4 0xD8 0xB7 0xD8 0xAD; U4 0xD8 0xB8 0xD9 0x85; U4 0xD8 0xB9 0xD8 0xAC; U4 0xD8 0xB9 0xD9 0x85;
   U4 0xD8 0xBA 0xD8 0xAC; U4 0xD8 0xBA 0xD9 0x85; U4 0xD9 0x81 0xD8 0xAC; U4 0xD9 0x81 0xD8 0xAD].

Definition PLANE_3_EF_B3 : Plane4Bytes :=
  [U4 0xD9 0x81 0xD8 0xAE; U4 0xD9 0x81 0xD9 0x85; U4 0xD9 0x82 0xD8 0xAD; U4 0xD9 0x82 0xD9 0x85;
   U4 0xD9 0x83 0xD8 0xAC; U4 0xD9 0x83 0xD8 0xAD; U4 0xD9 0x83 0xD8 0xAE; U4 0xD9 0x83 0xD9 0x84;
   U4 0xD9 0x83 0xD9 0x85; U4 0xD9 0x84 0xD8 0xAC; U4 0xD9 0x84 0xD8 0xAD; U4 0xD9 0x84 0xD8 0xAE;
   U4 0xD9 0x84 0xD9 0x85; U4 0xD9 0x84 0xD9 0x87; U4 0xD9 0x85 0xD8 0xAC; U4 0xD9 0x85 0xD8 0xAD;
   U4 0xD9 0x85 0xD8 0xAE; U4 0xD9 0x85 0xD9 0x85; U4 0xD9 0x86 0xD8 0xAC; U4 0xD9 0x86 0xD8 0xAD;
   U4 0xD9 0x86 0xD8 0xAE; U4 0xD9 0x86 0xD9 0x85; U4 0xD9 0x86 0xD9 0x87; U4 0xD9 0x87 0xD8 0xAC;
   U4 0xD9 0x87 0xD9 0x85; U4 0xD9 0x87 0x00 0x00; U4 0xD9 0x8A 0xD8 0xAC; U4 0xD9 0x8A 0xD8 0xAD;
   U4 0xD9 0x8A 0xD8 0xAE; U4 0xD9 0x8A 0xD9 0x85; U4 0xD9 0x8A 0xD9 0x87; U4 0xD9 0x8A 0xD9 0x85;
   U4 0xD9 0x8A 0xD9 0x87; U4 0xD8 0xA8 0xD9 0x85; U4 0xD8 0xA8 0xD9 0x87; U4 0xD8 0xAA 0xD9 0x85;
   U4 0xD8 0xAA 0xD9 0x87; U4 0xD8 0xAB 0xD9 0x85; U4 0xD8 0xAB 0xD9 0x87; U4 0xD8 0xB3 0xD9 0x85;
   U4 0xD8 0xB3 0xD9 0x87; U4 0xD8 0xB4 0xD9 0x85; U4 0xD8 0xB4 0xD9 0x87; U4 0xD9 0x83 0xD9 0x84;
   U4 0xD9 0x83 0xD9 0x85; U4 0xD9 0x84 0xD9 0x85; U4 0xD9 0x86 0xD9 0x85; U4 0xD9 0x86 0xD9 0x87;
   U4 0xD9 0x8A 0xD9 0x85; U4 0xD9 0x8A 0xD9 0x87; U4 0xD9 0x80 0x00 0x00; U4 0xD9 0x80 0x00 0x00;
   U4 0xD9 0x80 0x00 0x00; U4 0xD8 0xB7 0xD9 0x89; U4 0xD8 0xB7 0xD9 0x8A; U4 0xD8 0xB9 0xD9 0x89;
   U4 0xD8 0xB9 0xD9 0x8A; U4 0xD8 0xBA 0xD9 0x89; U4 0xD8 0xBA 0xD9 0x8A; U4 0xD8 0xB3 0xD9 0x89;
   U4 0xD8 0xB3 0xD9 0x8A; U4 0xD8 0xB4 0xD9 0x89; U4 0xD8 0xB4 0xD9 0x8A; U4 0xD8 0xAD 0xD9 0x89].

Definition PLANE_3_EF_B4 : Plane4Bytes :=
  [U4 0xD8 0xAD 0xD9 0x8A; U4 0xD8 0xAC 0xD9 0x89; U4 0xD8 0xAC 0xD9 0x8A; U4 0xD8 0xAE 0xD9 0x89;
   U4 0xD8 0xAE 0xD9 0x8A; U4 0xD8 0xB5 0xD9 0x89; U4 0xD8 0xB5 0xD9 0x8A; U4 0xD8 0xB6 0xD9 0x89;
   U4 0xD8 0xB6 0xD9 0x8A; U4 0xD8 0xB4 0xD8 0xAC; U4 0xD8 0xB4 0xD8 0xAD; U4 0xD8 0xB4 0xD8 0xAE;
   U4 0xD8 0xB4 0xD9 0x85; U4 0xD8 0xB4 0xD8 0xB1; U4 0xD8 0xB3 0xD8 0xB1; U4 0xD8 0xB5 0xD8 0xB1;
   U4 0xD8 0xB6 0xD8 0xB1; U4 0xD8 0xB7 0xD9 0x89; U4 0xD8 0xB7 0xD9 0x8A; U4 0xD8 0xB9 0xD9 0x89;
   U4 0xD8 0xB9 0xD9 0x8A; U4 0xD8 0xBA 0xD9 0x89; U4 0xD8 0xBA 0xD9 0x8A; U4 0xD8 0xB3 0xD9 0x89;
   U4 0xD8 0xB3 0xD9 0x8A; U4 0xD8 0xB4 0xD9 0x89; U4 0xD8 0xB4 0xD9 0x8A; U4 0xD8 0xAD 0xD9 0x89;
   U4 0xD8 0xAD 0xD9 0x8A; U4 0xD8 0xAC 0xD9 0x89; U4 0xD8 0xAC 0xD9 0x8A; U4 0xD8 0xAE 0xD9 0x89;
   U4 0xD8 0xAE 0xD9 0x8A; U4 0xD8 0xB5 0xD9 0x89; U4 0xD8 0xB5 0xD9 0x8A; U4 0xD8 0xB6 0xD9 0x89;
   U4 0xD8 0xB6 0xD9 0x8A; U4 0xD8 0xB4 0xD8 0xAC; U4 0xD8 0xB4 0xD8 0xAD; U4 0xD8 0xB4 0xD8 0xAE;
   U4 0xD8 0xB4 0xD9 0x85; U4 0xD8 0xB4 0xD8 0xB1; U4 0xD8 0xB3 0xD8 0xB1; U4 0xD8 0xB5 0xD8 0xB1;
   U4 0xD8 0xB6 0xD8 0xB1; U4 0xD8 0xB4 0xD8 0xAC; U4 0xD8 0xB4 0xD8 0xAD; U4 0xD8 0xB4 0xD8 0xAE;
   U4 0xD8 0xB4 0xD9 0x85; U4 0xD8 0xB3 0xD9 0x87; U4 0xD8 0xB4 0xD9 0x87; U4 0xD8 0xB7 0xD9 0x85;
   U4 0xD8 0xB3 0xD8 0xAC; U4 0xD8 0xB3 0xD8 0xAD; U4 0xD8 0xB3 0xD8 0xAE; U4 0xD8 0xB4 0xD8 0xAC;
   U4 0xD8 0xB4 0xD8 0xAD; U4 0xD8 0xB4 0xD8 0xAE; U4 0xD8 0xB7 0xD9 0x85; U4 0xD8 0xB8 0xD9 0x85;
   U4 0xD8 0xA7 0x00 0x00; U4 0xD8 0xA7 0x00 0x00; U4 0x20 0x00 0x00 0x00; U4 0x20 0x00 0x00 0x00].

Definition PLANE_3_EF_B5 : Plane4Bytes :=
  [U4 0x20 0x00 0x00 0x00; U4 0x20 0x00 0x00 0x00; U4 0x20 0x00 0x00 0x00; U4 0x20 0x00 0x00 0x00;
   U4 0x20 0x00 0x00 0x00; U4 0x20 0x00 0x00 0x00; U4 0x20 0x00 0x00 0x00; U4 0x20 0x00 0x00 0x00;
   U4 0x20 0x00 0x00 0x00; U4 0x20 0x00 0x00 0x00; U4 0x20 0x00 0x00 0x00; U4 0x20 0x00 0x00 0x00;
   U4 0x20 0x00 0x00 0x00; U4 0x20 0x00 0x00 0x00; U4 0x20 0x00 0x00 0x00; U4 0x20 0x00 0x00 0x00;
   U4 0x00 0x01 0x00 0x00; U4 0x00 0x02 0x00 0x00; U4 0x00 0x03 0x00 0x00; U4 0x00 0x04 0x00 0x00;
   U4 0x00 0x05 0x00 0x00; U4 0x00 0x06 0x00 0x00; U4 0x00 0x07 0x00 0x00; U4 0x00 0x08 0x00 0x00;
   U4 0x00 0x09 0x00 0x00; U4 0x00 0x0A 0x00 0x00; U4 0x00 0x0B 0x00 0x00; U4 0x00 0x0C 0x00 0x00;
   U4 0x00 0x0D 0x00 0x00; U4 0x00 0x0E 0x00 0x00; U4 0x00 0x0F 0x00 0x00; U4 0x00 0x10 0x00 0x00;
   U4 0x00 0x11 0x00 0x00; U4 0x00 0x12 0x00 0x00; U4 0x00 0x13 0x00 0x00; U4 0x00 0x14 0x00 0x00;
   U4 0x00 0x15 0x00 0x00; U4 0x00 0x16 0x00 0x00; U4 0x00 0x17 0x00 0x00; U4 0x00 0x18 0x00 0x00;
   U4 0x00 0x19 0x00 0x00; U4 0x00 0x1A 0x00 0x00; U4 0x00 0x1B 0x00 0x00; U4 0x00 0x1C 0x00 0x00;
   U4 0x00 0x1D 0x00 0x00; U4 0x00 0x1E 0x00 0x00; U4 0x00 0x1F 0x00 0x00; U4 0x00 0x20 0x00 0x00;
   U4 0x00 0x21 0x00 0x00; U4 0x00 0x22 0x00 0x00; U4 0x00 0x23 0x00 0x00; U4 0x00 0x24 0x00 0x00;
   U4 0x00 0x25 0x00 0x00; U4 0x00 0x26 0x00 0x00; U4 0x00 0x27 0x00 0x00; U4 0x00 0x28 0x00 0x00;
   U4 0x00 0x29 0x00 0x00; U4 0x00 0x2A 0x00 0x00; U4 0x00 0x2B 0x00 0x00; U4 0x00 0x2C 0x00 0x00;
   U4 0x00 0x2D 0x00 0x00; U4 0x00 0x2E 0x00 0x00; U4 0x00 0x2F 0x00 0x00; U4 0x00 0x30 0x00 0x00].

Definition PLANE_3_EF_B6 : Plane4Bytes :=
  [U4 0x00 0x31 0x00 0x00; U4 0x00 0x32 0x00 0x00; U4 0x00 0x33 0x00 0x00; U4 0x00 0x34 0x00 0x00;
   U4 0x00 0x35 0x00 0x00; U4 0x00 0x36 0x00 0x00; U4 0x00 0x37 0x00 0x00; U4 0x00 0x38 0x00 0x00;
   U4 0x00 0x39 0x00 0x00; U4 0x00 0x3A 0x00 0x00; U4 0x00 0x3B 0x00 0x00; U4 0x00 0x3C 0x00 0x00;
   U4 0x00 0x3D 0x00 0x00; U4 0x00 0x3E 0x00 0x00; U4 0x00 0x3F 0x00 0x00; U4 0x00 0x40 0x00 0x00;
   U4 0x20 0x00 0x00 0x00; U4 0x20 0x00 0x00 0x00; U4 0x00 0x41 0x00 0x00; U4 0x00 0x42 0x00 0x00;
   U4 0x00 0x43 0x00 0x00; U4 0x00 0x44 0x00 0x00; U4 0x00 0x45 0x00 0x00; U4 0x00 0x46 0x00 0x00;
   U4 0x00 0x47 0x00 0x00; U4 0x00 0x48 0x00 0x00; U4 0x00 0x49 0x00 0x00; U4 0x00 0x4A 0x00 0x00;
   U4 0x00 0x4B 0x00 0x00; U4 0x00 0x4C 0x00 0x00; U4 0x00 0x4D 0x00 0x00; U4 0x00 0x4E 0x00 0x00;
   U4 0x00 0x4F 0x00 0x00; U4 0x00 0x50 0x00 0x00; U4 0x00 0x51 0x00 0x00; U4 0x00 0x52 0x00 0x00;
   U4 0x00 0x53 0x00 0x00; U4 0x00 0x54 0x00 0x00; U4 0x00 0x55 0x00 0x00; U4 0x00 0x56 0x00 0x00;
   U4 0x00 0x57 0x00 0x00; U4 0x00 0x58 0x00 0x00; U4 0x00 0x59 0x00 0x00; U4 0x00 0x5A 0x00 0x00;
   U4 0x00 0x5B 0x00 0x00; U4 0x00 0x5C 0x00 0x00; U4 0x00 0x5D 0x00 0x00; U4 0x00 0x5E 0x00 0x00;
   U4 0x00 0x5F 0x00 0x00; U4 0x00 0x60 0x00 0x00; U4 0x00 0x61 0x00 0x00; U4 0x00 0x62 0x00 0x00;
   U4 0x00 0x63 0x00 0x00; U4 0x00 0x64 0x00 0x00; U4 0x00 0x65 0x00 0x00; U4 0x00 0x66 0x00 0x00;
   U4 0x00 0x67 0x00 0x00; U4 0x00 0x68 0x00 0x00; U4 0x00 0x69 0x00 0x00; U4 0x00 0x6A 0x00 0x00;
   U4 0x00 0x6B 0x00 0x00; U4 0x00 0x6C 0x00 0x00; U4 0x00 0x6D 0x00 0x00; U4 0x00 0x6E 0x00 0x00].

Definition PLANE_3_EF_B7 : Plane4Bytes :=
  [U4 0x00 0x6F 0x00 0x00; U4 0x00 0x70 0x00 0x00; U4 0x00 0x71 0x00 0x00; U4 0x00 0x72 0x00 0x00;
   U4 0x00 0x73 0x00 0x00; U4 0x00 0x74 0x00 0x00; U4 0x00 0x75 0x00 0x00; U4 0x00 0x76 0x00 0x00;
   U4 0x20 0x00 0x00 0x00; U4 0x20 0x00 0x00 0x00; U4 0x20 0x00 0x00 0x00; U4 0x20 0x00 0x00 0x00;
   U4 0x20 0x00 0x00 0x00; U4 0x20 0x00 0x00 0x00; U4 0x20 0x00 0x00 0x00; U4 0x20 0x00 0x00 0x00;
   U4 0x20 0x00 0x00 0x00; U4 0x20 0x00 0x00 0x00; U4 0x20 0x00 0x00 0x00; U4 0x20 0x00 0x00 0x00;
   U4 0x20 0x00 0x00 0x00; U4 0x20 0x00 0x00 0x00; U4 0x20 0x00 0x00 0x00; U4 0x20 0x00 0x00 0x00;
   U4 0x20 0x00 0x00 0x00; U4 0x20 0x00 0x00 0x00; U4 0x20 0x00 0x00 0x00; U4 0x20 0x00 0x00 0x00;
   U4 0x20 0x00 0x00 0x00; U4 0x20 0x00 0x00 0x00; U4 0x20 0x00 0x00 0x00; U4 0x20 0x00 0x00 0x00;
   U4 0x20 0x00 0x00 0x00; U4 0x20 0x00 0x00 0x00; U4 0x20 0x00 0x00 0x00; U4 0x20 0x00 0x00 0x00;
   U4 0x20 0x00 0x00 0x00; U4 0x20 0x00 0x00 0x00; U4 0x20 0x00 0x00 0x00; U4 0x20 0x00 0x00 0x00;
   U4 0x20 0x00 0x00 0x00; U4 0x20 0x00 0x00 0x00; U4 0x20 0x00 0x00 0x00; U4 0x20 0x00 0x00 0x00;
   U4 0x20 0x00 0x00 0x00; U4 0x20 0x00 0x00 0x00; U4 0x20 0x00 0x00 0x00; U4 0x20 0x00 0x00 0x00;
   U4 0x00 0x77 0x00 0x00; U4 0x00 0x78 0x00 0x00; U4 0x00 0x79 0x00 0x00; U4 0x00 0x7A 0x00 0x00;
   U4 0x00 0x7B 0x00 0x00; U4 0x00 0x7C 0x00 0x00; U4 0x00 0x7D 0x00 0x00; U4 0x00 0x7E 0x00 0x00;
   U4 0x00 0x7F 0x00 0x00; U4 0x00 0x80 0x00 0x00; U4 0x00 0x81 0x00 0x00; U4 0x00 0x82 0x00 0x00;
   U4 0x00 0x83 0x00 0x00; U4 0x20 0x00 0x00 0x00; U4 0x20 0x00 0x00 0x00; U4 0x20 0x00 0x00 0x00].

Definition PLANE_3_EF_B8 : Plane4Bytes :=
  [U4 0x20 0x00 0x00 0x00; U4 0x20 0x00 0x00 0x00; U4 0x20 0x00 0x00 0x00; U4 0x20 0x00 0x00 0x00;
   U4 0x20 0x00 0x00 0x00; U4 0x20 0x00 0x00 0x00; U4 0x20 0x00 0x00 0x00; U4 0x20 0x00 0x00 0x00;
   U4 0x20 0x00 0x00 0x00; U4 0x20 0x00 0x00 0x00; U4 0x20 0x00 0x00 0x00; U4 0x20 0x00 0x00 0x00;
   U4 0x20 0x00 0x00 0x00; U4 0x20 0x00 0x00 0x00; U4 0x20 0x00 0x00 0x00; U4 0x20 0x00 0x00 0x00;
   U4 0x20 0x00 0x00 0x00; U4 0x20 0x00 0x00 0x00; U4 0x20 0x00 0x00 0x00; U4 0x20 0x00 0x00 0x00;
   U4 0x20 0x00 0x00 0x00; U4 0x20 0x00 0x00 0x00; U4 0x20 0x00 0x00 0x00; U4 0x20 0x00 0x00 0x00;
   U4 0x20 0x00 0x00 0x00; U4 0x20 0x00 0x00 0x00; U4 0x20 0x00 0x00 0x00; U4 0x20 0x00 0x00 0x00;
   U4 0x20 0x00 0x00 0x00; U4 0x20 0x00 0x00 0x00; U4 0x20 0x00 0x00 0x00; U4 0x20 0x00 0x00 0x00;
   U4 0x00 0x00 0x00 0x00; U4 0x00 0x00 0x00 0x00; U4 0x00 0x00 0x00 0x00; U4 0x00 0x00 0x00 0x00;
   U4 0x00 0x00 0x00 0x00; U4 0x00 0x00 0x00 0x00; U4 0x00 0x00 0x00 0x00; U4 0x00 0x00 0x00 0x00;
   U4 0x00 0x00 0x00 0x00; U4 0x00 0x00 0x00 0x00; U4 0x00 0x00 0x00 0x00; U4 0x00 0x00 0x00 0x00;
   U4 0x00 0x00 0x00 0x00; U4 0x00 0x00 0x00 0x00; U4 0x00 0x00 0x00 0x00; U4 0x00 0x00 0x00 0x00;
   U4 0x20 0x00 0x00 0x00; U4 0x20 0x00 0x00 0x00; U4 0x20 0x00 0x00 0x00; U4 0x20 0x00 0x00 0x00;
   U4 0x20 0x00 0x00 0x00; U4 0x20 0x00 0x00 0x00; U4 0x20 0x00 0x00 0x00; U4 0x20 0x00 0x00 0x00;
   U4 0x20 0x00 0x00 0x00; U4 0x20 0x00 0x00 0x00; U4 0x20 0x00 0x00 0x00; U4 0x20 0x00 0x00 0x00;
   U4 0x20 0x00 0x00 0x00; U4 0x20 0x00 0x00 0x00; U4 0x20 0x00 0x00 0x00; U4 0x20 0x00 0x00 0x00].

Definition PLANE_3_EF_B9 : Plane4Bytes :=
  [U4 0x20 0x00 0x00 0x00; U4 0x20 0x00 0x00 0x00; U4 0x20 0x00 0x00 0x00; U4 0x20 0x00 0x00 0x00;
   U4 0x20 0x00 0x00 0x00; U4 0x20 0x00 0x00 0x00; U4 0x20 0x00 0x00 0x00; U4 0x20 0x00 0x00 0x00;
   U4 0x20 0x00 0x00 0x00; U4 0x20 0x00 0x00 0x00; U4 0x20 0x00 0x00 0x00; U4 0x20 0x00 0x00 0x00;
   U4 0x20 0x00 0x00 0x00; U4 0x20 0x00 0x00 0x00; U4 0x20 0x00 0x00 0x00; U4 0x20 0x00 0x00 0x00;
   U4 0x20 0x00 0x00 0x00; U4 0x20 0x00 0x00 0x00; U4 0x20 0x00 0x00 0x00; U4 0x20 0x00 0x00 0x00;
   U4 0x20 0x00 0x00 0x00; U4 0x20 0x00 0x00 0x00; U4 0x20 0x00 0x00 0x00; U4 0x20 0x00 0x00 0x00;
   U4 0x20 0x00 0x00 0x00; U4 0x20 0x00 0x00 0x00; U4 0x20 0x00 0x00 0x00; U4 0x20 0x00 0x00 0x00;
   U4 0x20 0x00 0x00 0x00; U4 0x20 0x00 0x00 0x00; U4 0x20 0x00 0x00 0x00; U4 0x20 0x00 0x00 0x00;
   U4 0x20 0x00 0x00 0x00; U4 0x20 0x00 0x00 0x00; U4 0x20 0x00 0x00 0x00; U4 0x20 0x00 0x00 0x00;
   U4 0x20 0x00 0x00 0x00; U4 0x20 0x00 0x00 0x00; U4 0x20 0x00 0x00 0x00; U4 0x20 0x00 0x00 0x00;
   U4 0x20 0x00 0x00 0x00; U4 0x20 0x00 0x00 0x00; U4 0x20 0x00 0x00 0x00; U4 0x20 0x00 0x00 0x00;
   U4 0x20 0x00 0x00 0x00; U4 0x20 0x00 0x00 0x00; U4 0x20 0x00 0x00 0x00; U4 0x20 0x00 0x00 0x00;
   U4 0x20 0x00 0x00 0x00; U4 0xD9 0x80 0x00 0x00; U4 0x20 0x00 0x00 0x00; U4 0xEF 0xB9 0xB3 0x00;
   U4 0x20 0x00 0x00 0x00; U4 0x20 0x00 0x00 0x00; U4 0x20 0x00 0x00 0x00; U4 0xD9 0x80 0x00 0x00;
   U4 0x20 0x00 0x00 0x00; U4 0xD9 0x80 0x00 0x00; U4 0x20 0x00 0x00 0x00; U4 0xD9 0x80 0x00 0x00;
   U4 0x20 0x00 0x00 0x00; U4 0xD9 0x80 0x00 0x00; U4 0x20 0x00 0x00 0x00; U4 0xD9 0x80 0x00 0x00].

Definition PLANE_3_EF_BA : Plane4Bytes :=
  [U4 0xD8 0xA1 0x00 0x00; U4 0xD8 0xA7 0x00 0x00; U4 0xD8 0xA7 0x00 0x00; U4 0xD8 0xA7 0x00 0x00;
   U4 0xD8 0xA7 0x00 0x00; U4 0xD9 0x88 0x00 0x00; U4 0xD9 0x88 0x00 0x00; U4 0xD8 0xA7 0x00 0x00;
   U4 0xD8 0xA7 0x00 0x00; U4 0xD9 0x8A 0x00 0x00; U4 0xD9 0x8A 0x00 0x00; U4 0xD9 0x8A 0x00 0x00;
   U4 0xD9 0x8A 0x00 0x00; U4 0xD8 0xA7 0x00 0x00; U4 0xD8 0xA7 0x00 0x00; U4 0xD8 0xA8 0x00 0x00;
   U4 0xD8 0xA8 0x00 0x00; U4 0xD8 0xA8 0x00 0x00; U4 0xD8 0xA8 0x00 0x00; U4 0xD8 0xA9 0x00 0x00;
   U4 0xD8 0xA9 0x00 0x00; U4 0xD8 0xAA 0x00 0x00; U4 0xD8 0xAA 0x00 0x00; U4 0xD8 0xAA 0x00 0x00;
   U4 0xD8 0xAA 0x00 0x00; U4 0xD8 0xAB 0x00 0x00; U4 0xD8 0xAB 0x00 0x00; U4 0xD8 0xAB 0x00 0x00;
   U4 0xD8 0xAB 0x00 0x00; U4 0xD8 0xAC 0x00 0x00; U4 0xD8 0xAC 0x00 0x00; U4 0xD8 0xAC 0x00 0x00;
   U4 0xD8 0xAC 0x00 0x00; U4 0xD8 0xAD 0x00 0x00; U4 0xD8 0xAD 0x00 0x00; U4 0xD8 0xAD 0x00 0x00;
   U4 0xD8 0xAD 0x00 0x00; U4 0xD8 0xAE 0x00 0x00; U4 0xD8 0xAE 0x00 0x00; U4 0xD8 0xAE 0x00 0x00;
   U4 0xD8 0xAE 0x00 0x00; U4 0xD8 0xAF 0x00 0x00; U4 0xD8 0xAF 0x00 0x00; U4 0xD8 0xB0 0x00 0x00;
   U4 0xD8 0xB0 0x00 0x00; U4 0xD8 0xB1 0x00 0x00; U4 0xD8 0xB1 0x00 0x00; U4 0xD8 0xB2 0x00 0x00;
   U4 0xD8 0xB2 0x00 0x00; U4 0xD8 0xB3 0x00 0x00; U4 0xD8 0xB3 0x00 0x00; U4 0xD8 0xB3 0x00 0x00;
   U4 0xD8 0xB3 0x00 0x00; U4 0xD8 0xB4 0x00 0x00; U4 0xD8 0xB4 0x00 0x00; U4 0xD8 0xB4 0x00 0x00;
   U4 0xD8 0xB4 0x00 0x00; U4 0xD8 0xB5 0x00 0x00; U4 0xD8 0xB5 0x00 0x00; U4 0xD8 0xB5 0x00 0x00;
   U4 0xD8 0xB5 0x00 0x00; U4 0xD8 0xB6 0x00 0x00; U4 0xD8 0xB6 0x00 0x00; U4 0xD8 0xB6 0x00 0x00].

Definition PLANE_3_EF_BB : Plane4Bytes :=
  [U4 0xD8 0xB6 0x00 0x00; U4 0xD8 0xB7 0x00 0x00; U4 0xD8 0xB7 0x00 0x00; U4 0xD8 0xB7 0x00 0x00;
   U4 0xD8 0xB7 0x00 0x00; U4 0xD8 0xB8 0x00 0x00; U4 0xD8 0xB8 0x00 0x00; U4 0xD8 0xB8 0x00 0x00;
   U4 0xD8 0xB8 0x00 0x00; U4 0xD8 0xB9 0x00 0x00; U4 0xD8 0xB9 0x00 0x00; U4 0xD8 0xB9 0x00 0x00;
   U4 0xD8 0xB9 0x00 0x00; U4 0xD8 0xBA 0x00 0x00; U4 0xD8 0xBA 0x00 0x00; U4 0xD8 0xBA 0x00 0x00;
   U4 0xD8 0xBA 0x00 0x00; U4 0xD9 0x81 0x00 0x00; U4 0xD9 0x81 0x00 0x00; U4 0xD9 0x81 0x00 0x00;
   U4 0xD9 0x81 0x00 0x00; U4 0xD9 0x82 0x00 0x00; U4 0xD9 0x82 0x00 0x00; U4 0xD9 0x82 0x00 0x00;
   U4 0xD9 0x82 0x00 0x00; U4 0xD9 0x83 0x00 0x00; U4 0xD9 0x83 0x00 0x00; U4 0xD9 0x83 0x00 0x00;
   U4 0xD9 0x83 0x00 0x00; U4 0xD9 0x84 0x00 0x00; U4 0xD9 0x84 0x00 0x00; U4 0xD9 0x84 0x00 0x00;
   U4 0xD9 0x84 0x00 0x00; U4 0xD9 0x85 0x00 0x00; U4 0xD9 0x85 0x00 0x00; U4 0xD9 0x85 0x00 0x00;
   U4 0xD9 0x85 0x00 0x00; U4 0xD9 0x86 0x00 0x00; U4 0xD9 0x86 0x00 0x00; U4 0xD9 0x86 0x00 0x00;
   U4 0xD9 0x86 0x00 0x00; U4 0xD9 0x87 0x00 0x00; U4 0xD9 0x87 0x00 0x00; U4 0xD9 0x87 0x00 0x00;
   U4 0xD9 0x87 0x00 0x00; U4 0xD9 0x88 0x00 0x00; U4 0xD9 0x88 0x00 0x00; U4 0xD9 0x89 0x00 0x00;
   U4 0xD9 0x89 0x00 0x00; U4 0xD9 0x8A 0x00 0x00; U4 0xD9 0x8A 0x00 0x00; U4 0xD9 0x8A 0x00 0x00;
   U4 0xD9 0x8A 0x00 0x00; U4 0xD9 0x84 0xD8 0xA7; U4 0xD9 0x84 0xD8 0xA7; U4 0xD9 0x84 0xD8 0xA7;
   U4 0xD9 0x84 0xD8 0xA7; U4 0xD9 0x84 0xD8 0xA7; U4 0xD9 0x84 0xD8 0xA7; U4 0xD9 0x84 0xD8 0xA7;
   U4 0xD9 0x84 0xD8 0xA7; U4 0x20 0x00 0x00 0x00; U4 0x20 0x00 0x00 0x00; U4 0x20 0x00 0x00 0x00].

Definition PLANE_3_EF_BC : Plane4Bytes :=
  [U4 0x20 0x00 0x00 0x00; U4 0x20 0x00 0x00 0x00; U4 0x20 0x00 0x00 0x00; U4 0x20 0x00 0x00 0x00;
   U4 0x20 0x00 0x00 0x00; U4 0x20 0x00 0x00 0x00; U4 0x20 0x00 0x00 0x00; U4 0x20 0x00 0x00 0x00;
   U4 0x20 0x00 0x00 0x00; U4 0x20 0x00 0x00 0x00; U4 0x20 0x00 0x00 0x00; U4 0x20 0x00 0x00 0x00;
   U4 0x20 0x00 0x00 0x00; U4 0x20 0x00 0x00 0x00; U4 0x20 0x00 0x00 0x00; U4 0x20 0x00 0x00 0x00;
   U4 0x30 0x00 0x00 0x00; U4 0x31 0x00 0x00 0x00; U4 0x32 0x00 0x00 0x00; U4 0x33 0x00 0x00 0x00;
   U4 0x34 0x00 0x00 0x00; U4 0x35 0x00 0x00 0x00; U4 0x36 0x00 0x00 0x00; U4 0x37 0x00 0x00 0x00;
   U4 0x38 0x00 0x00 0x00; U4 0x39 0x00 0x00 0x00; U4 0x20 0x00 0x00 0x00; U4 0x20 0x00 0x00 0x00;
   U4 0x20 0x00 0x00 0x00; U4 0x20 0x00 0x00 0x00; U4 0x20 0x00 0x00 0x00; U4 0x20 0x00 0x00 0x00;
   U4 0x20 0x00 0x00 0x00; U4 0x61 0x00 0x00 0x00; U4 0x62 0x00 0x00 0x00; U4 0x63 0x00 0x00 0x00;
   U4 0x64 0x00 0x00 0x00; U4 0x65 0x00 0x00 0x00; U4 0x66 0x00 0x00 0x00; U4 0x67 0x00 0x00 0x00;
   U4 0x68 0x00 0x00 0x00; U4 0x69 0x00 0x00 0x00; U4 0x6A 0x00 0x00 0x00; U4 0x6B 0x00 0x00 0x00;
   U4 0x6C 0x00 0x00 0x00; U4 0x6D 0x00 0x00 0x00; U4 0x6E 0x00 0x00 0x00; U4 0x6F 0x00 0x00 0x00;
   U4 0x70 0x00 0x00 0x00; U4 0x71 0x00 0x00 0x00; U4 0x72 0x00 0x00 0x00; U4 0x73 0x00 0x00 0x00;
   U4 0x74 0x00 0x00 0x00; U4 0x75 0x00 0x00 0x00; U4 0x76 0x00 0x00 0x00; U4 0x77 0x00 0x00 0x00;
   U4 0x78 0x00 0x00 0x00; U4 0x79 0x00 0x00 0x00; U4 0x7A 0x00 0x00 0x00; U4 0x20 0x00 0x00 0x00;
   U4 0x20 0x00 0x00 0x00; U4 0x20 0x00 0x00 0x00; U4 0x20 0x00 0x00 0x00; U4 0x20 0x00 0x00 0x00].

Definition PLANE_3_EF_BD : Plane4Bytes :=
  [U4 0x20 0x00 0x00 0x00; U4 0x61 0x00 0x00 0x00; U4 0x62 0x00 0x00 0x00; U4 0x63 0x00 0x00 0x00;
   U4 0x64 0x00 0x00 0x00; U4 0x65 0x00 0x00 0x00; U4 0x66 0x00 0x00 0x00; U4 0x67 0x00 0x00 0x00;
   U4 0x68 0x00 0x00 0x00; U4 0x69 0x00 0x00 0x00; U4 0x6A 0x00 0x00 0x00; U4 0x6B 0x00 0x00 0x00;
   U4 0x6C 0x00 0x00 0x00; U4 0x6D 0x00 0x00 0x00; U4 0x6E 0x00 0x00 0x00; U4 0x6F 0x00 0x00 0x00;
   U4 0x70 0x00 0x00 0x00; U4 0x71 0x00 0x00 0x00; U4 0x72 0x00 0x00 0x00; U4 0x73 0x00 0x00 0x00;
   U4 0x74 0x00 0x00 0x00; U4 0x75 0x00 0x00 0x00; U4 0x76 0x00 0x00 0x00; U4 0x77 0x00 0x00 0x00;
   U4 0x78 0x00 0x00 0x00; U4 0x79 0x00 0x00 0x00; U4 0x7A 0x00 0x00 0x00; U4 0x20 0x00 0x00 0x00;
   U4 0x20 0x00 0x00 0x00; U4 0x20 0x00 0x00 0x00; U4 0x20 0x00 0x00 0x00; U4 0x20 0x00 0x00 0x00;
   U4 0x20 0x00 0x00 0x00; U4 0x20 0x00 0x00 0x00; U4 0x20 0x00 0x00 0x00; U4 0x20 0x00 0x00 0x00;
   U4 0x20 0x00 0x00 0x00; U4 0x20 0x00 0x00 0x00; U4 0xE3 0x83 0xB2 0x00; U4 0xE3 0x82 0xA1 0x00;
   U4 0xE3 0x82 0xA3 0x00; U4 0xE3 0x82 0xA5 0x00; U4 0xE3 0x82 0xA7 0x00; U4 0xE3 0x82 0xA9 0x00;
   U4 0xE3 0x83 0xA3 0x00; U4 0xE3 0x83 0xA5 0x00; U4 0xE3 0x83 0xA7 0x00; U4 0xE3 0x83 0x83 0x00;
   U4 0xE3 0x83 0xBC 0x00; U4 0xE3 0x82 0xA2 0x00; U4 0xE3 0x82 0xA4 0x00; U4 0xE3 0x82 0xA6 0x00;
   U4 0xE3 0x82 0xA8 0x00; U4 0xE3 0x82 0xAA 0x00; U4 0xE3 0x82 0xAB 0x00; U4 0xE3 0x82 0xAD 0x00;
   U4 0xE3 0x82 0xAF 0x00; U4 0xE3 0x82 0xB1 0x00; U4 0xE3 0x82 0xB3 0x00; U4 0xE3 0x82 0xB5 0x00;
   U4 0xE3 0x82 0xB7 0x00; U4 0xE3 0x82 0xB9 0x00; U4 0xE3 0x82 0xBB 0x00; U4 0xE3 0x82 0xBD 0x00].

Definition PLANE_3_EF_BE : Plane4Bytes :=
  [U4 0xE3 0x82 0xBF 0x00; U4 0xE3 0x83 0x81 0x00; U4 0xE3 0x83 0x84 0x00; U4 0xE3 0x83 0x86 0x00;
   U4 0xE3 0x83 0x88 0x00; U4 0xE3 0x83 0x8A 0x00; U4 0xE3 0x83 0x8B 0x00; U4 0xE3 0x83 0x8C 0x00;
   U4 0xE3 0x83 0x8D 0x00; U4 0xE3 0x83 0x8E 0x00; U4 0xE3 0x83 0x8F 0x00; U4 0xE3 0x83 0x92 0x00;
   U4 0xE3 0x83 0x95 0x00; U4 0xE3 0x83 0x98 0x00; U4 0xE3 0x83 0x9B 0x00; U4 0xE3 0x83 0x9E 0x00;
   U4 0xE3 0x83 0x9F 0x00; U4 0xE3 0x83 0xA0 0x00; U4 0xE3 0x83 0xA1 0x00; U4 0xE3 0x83 0xA2 0x00;
   U4 0xE3 0x83 0xA4 0x00; U4 0xE3 0x83 0xA6 0x00; U4 0xE3 0x83 0xA8 0x00; U4 0xE3 0x83 0xA9 0x00;
   U4 0xE3 0x83 0xAA 0x00; U4 0xE3 0x83 0xAB 0x00; U4 0xE3 0x83 0xAC 0x00; U4 0xE3 0x83 0xAD 0x00;
   U4 0xE3 0x83 0xAF 0x00; U4 0xE3 0x83 0xB3 0x00; U4 0x00 0x00 0x00 0x00; U4 0x00 0x00 0x00 0x00;
   U4 0xE1 0x85 0xA0 0x00; U4 0xE1 0x84 0x80 0x00; U4 0xE1 0x84 0x81 0x00; U4 0xE1 0x86 0xAA 0x00;
   U4 0xE1 0x84 0x82 0x00; U4 0xE1 0x86 0xAC 0x00; U4 0xE1 0x86 0xAD 0x00; U4 0xE1 0x84 0x83 0x00;
   U4 0xE1 0x84 0x84 0x00; U4 0xE1 0x84 0x85 0x00; U4 0xE1 0x86 0xB0 0x00; U4 0xE1 0x86 0xB1 0x00;
   U4 0xE1 0x86 0xB2 0x00; U4 0xE1 0x86 0xB3 0x00; U4 0xE1 0x86 0xB4 0x00; U4 0xE1 0x86 0xB5 0x00;
   U4 0xE1 0x84 0x9A 0x00; U4 0xE1 0x84 0x86 0x00; U4 0xE1 0x84 0x87 0x00; U4 0xE1 0x84 0x88 0x00;
   U4 0xE1 0x84 0xA1 0x00; U4 0xE1 0x84 0x89 0x00; U4 0xE1 0x84 0x8A 0x00; U4 0xE1 0x84 0x8B 0x00;
   U4 0xE1 0x84 0x8C 0x00; U4 0xE1 0x84 0x8D 0x00; U4 0xE1 0x84 0x8E 0x00; U4 0xE1 0x84 0x8F 0x00;
   U4 0xE1 0x84 0x90 0x00; U4 0xE1 0x84 0x91 0x00; U4 0xE1 0x84 0x92 0x00; U4 0x20 0x00 0x00 0x00].

Definition PLANE_3_EF_BF : Plane4Bytes :=
  [U4 0x20 0x00 0x00 0x00; U4 0x20 0x00 0x00 0x00; U4 0xE1 0x85 0xA1 0x00; U4 0xE1 0x85 0xA2 0x00;
   U4 0xE1 0x85 0xA3 0x00; U4 0xE1 0x85 0xA4 0x00; U4 0xE1 0x85 0xA5 0x00; U4 0xE1 0x85 0xA6 0x00;
   U4 0x20 0x00 0x00 0x00; U4 0x20 0x00 0x00 0x00; U4 0xE1 0x85 0xA7 0x00; U4 0xE1 0x85 0xA8 0x00;
   U4 0xE1 0x85 0xA9 0x00; U4 0xE1 0x85 0xAA 0x00; U4 0xE1 0x85 0xAB 0x00; U4 0xE1 0x85 0xAC 0x00;
   U4 0x20 0x00 0x00 0x00; U4 0x20 0x00 0x00 0x00; U4 0xE1 0x85 0xAD 0x00; U4 0xE1 0x85 0xAE 0x00;
   U4 0xE1 0x85 0xAF 0x00; U4 0xE1 0x85 0xB0 0x00; U4 0xE1 0x85 0xB1 0x00; U4 0xE1 0x85 0xB2 0x00;
   U4 0x20 0x00 0x00 0x00; U4 0x20 0x00 0x00 0x00; U4 0xE1 0x85 0xB3 0x00; U4 0xE1 0x85 0xB4 0x00;
   U4 0xE1 0x85 0xB5 0x00; U4 0x20 0x00 0x00 0x00; U4 0x20 0x00 0x00 0x00; U4 0x20 0x00 0x00 0x00;
   U4 0x20 0x00 0x00 0x00; U4 0x20 0x00 0x00 0x00; U4 0x20 0x00 0x00 0x00; U4 0x20 0x00 0x00 0x00;
   U4 0x20 0x00 0x00 0x00; U4 0x20 0x00 0x00 0x00; U4 0x20 0x00 0x00 0x00; U4 0x20 0x00 0x00 0x00;
   U4 0x20 0x00 0x00 0x00; U4 0x20 0x00 0x00 0x00; U4 0x20 0x00 0x00 0x00; U4 0x20 0x00 0x00 0x00;
   U4 0x20 0x00 0x00 0x00; U4 0x20 0x00 0x00 0x00; U4 0x20 0x00 0x00 0x00; U4 0x20 0x00 0x00 0x00;
   U4 0x20 0x00 0x00 0x00; U4 0x20 0x00 0x00 0x00; U4 0x20 0x00 0x00 0x00; U4 0x20 0x00 0x00 0x00;
   U4 0x20 0x00 0x00 0x00; U4 0x20 0x00 0x00 0x00; U4 0x20 0x00 0x00 0x00; U4 0x20 0x00 0x00 0x00;
   U4 0x20 0x00 0x00 0x00; U4 0x20 0x00 0x00 0x00; U4 0x20 0x00 0x00 0x00; U4 0x20 0x00 0x00 0x00;
   U4 0x20 0x00 0x00 0x00; U4 0x20 0x00 0x00 0x00; U4 0x20 0x00 0x00 0x00; U4 0x20 0x00 0x00 0x00].

Definition TABLE_3_EF : list Plane4Bytes :=
  [PLANE_3_EF_A4; PLANE_3_EF_A5; PLANE_3_EF_A6; PLANE_3_EF_A7;
   PLANE_3_EF_A8; PLANE_3_EF_A9; PLANE_3_EF_AA; PLANE_3_EF_AB;
   PLANE_3_EF_AC; PLANE_3_EF_AD; PLANE_3_EF_AE; PLANE_3_EF_AF;
   PLANE_3_EF_B0; PLANE_3_EF_B1; PLANE_3_EF_B2; PLANE_3_EF_B3;
   PLANE_3_EF_B4; PLANE_3_EF_B5; PLANE_3_EF_B6; PLANE_3_EF_B7;
   PLANE_3_EF_B8; PLANE_3_EF_B9; PLANE_3_EF_BA; PLANE_3_EF_BB;
   PLANE_3_EF_BC; PLANE_3_EF_BD; PLANE_3_EF_BE; PLANE_3_EF_BF].

Definition TABLE_3_EF_ : list (list Z) :=
  [[];
   [0xD8; 0xAA; 0xD8; 0xAC; 0xD9; 0x85];
   [0xD8; 0xAA; 0xD8; 0xAD; 0xD8; 0xAC];
   [0xD8; 0xAA; 0xD8; 0xAD; 0xD8; 0xAC];
   [0xD8; 0xAA; 0xD8; 0xAD; 0xD9; 0x85];
   [0xD8; 0xAA; 0xD8; 0xAE; 0xD9; 0x85];
   [0xD8; 0xAA; 0xD9; 0x85; 0xD8; 0xAC];
   [0xD8; 0xAA; 0xD9; 0x85; 0xD8; 0xAD];
   [0xD8; 0xAA; 0xD9; 0x85; 0xD8; 0xAE];
   [0xD8; 0xAC; 0xD9; 0x85; 0xD8; 0xAD];
   [0xD8; 0xAC; 0xD9; 0x85; 0xD8; 0xAD];
   [0xD8; 0xAD; 0xD9; 0x85; 0xD9; 0x8A];
   [0xD8; 0xAD; 0xD9; 0x85; 0xD9; 0x89];
   [0xD8; 0xB3; 0xD8; 0xAD; 0xD8; 0xAC];
   [0xD8; 0xB3; 0xD8; 0xAC; 0xD8; 0xAD];
   [0xD8; 0xB3; 0xD8; 0xAC; 0xD9; 0x89];
   [0xD8; 0xB3; 0xD9; 0x85; 0xD8; 0xAD];
   [0xD8; 0xB3; 0xD9; 0x85; 0xD8; 0xAD];
   [0xD8; 0xB3; 0xD9; 0x85; 0xD8; 0xAC];
   [0xD8; 0xB3; 0xD9; 0x85; 0xD9; 0x85];
   [0xD8; 0xB3; 0xD9; 0x85; 0xD9; 0x85];
   [0xD8; 0xB5; 0xD8; 0xAD; 0xD8; 0xAD];
   [0xD8; 0xB5; 0xD8; 0xAD; 0xD8; 0xAD];
   [0xD8; 0xB5; 0xD9; 0x85; 0xD9; 0x85];
   [0xD8; 0xB4; 0xD8; 0xAD; 0xD9; 0x85];
   [0xD8; 0xB4; 0xD8; 0xAD; 0xD9; 0x85];
   [0xD8; 0xB4; 0xD8; 0xAC; 0xD9; 0x8A];
   [0xD8; 0xB4; 0xD9; 0x85; 0xD8; 0xAE];
   [0xD8; 0xB4; 0xD9; 0x85; 0xD8; 0xAE];
   [0xD8; 0xB4; 0xD9; 0x85; 0xD9; 0x85];
   [0xD8; 0xB4; 0xD9; 0x85; 0xD9; 0x85];
   [0xD8; 0xB6; 0xD8; 0xAD; 0xD9; 0x89];
   [0xD8; 0xB6; 0xD8; 0xAE; 0xD9; 0x85];
   [0xD8; 0xB6; 0xD8; 0xAE; 0xD9; 0x85];
   [0xD8; 0xB7; 0xD9; 0x85; 0xD8; 0xAD];
   [0xD8; 0xB7; 0xD9; 0x85; 0xD8; 0xAD];
   [0xD8; 0xB7; 0xD9; 0x85; 0xD9; 0x85];
   [0xD8; 0xB7; 0xD9; 0x85; 0xD9; 0x8A];
   [0xD8; 0xB9; 0xD8; 0xAC; 0xD9; 0x85];
   [0xD8; 0xB9; 0xD9; 0x85; 0xD9; 0x85];
   [0xD8; 0xB9; 0xD9; 0x85; 0xD9; 0x85];
   [0xD8; 0xB9; 0xD9; 0x85; 0xD9; 0x89];
   [0xD8; 0xBA; 0xD9; 0x85; 0xD9; 0x85];
   [0xD8; 0xBA; 0xD9; 0x85; 0xD9; 0x8A];
   [0xD8; 0xBA; 0xD9; 0x85; 0xD9; 0x89];
   [0xD9; 0x81; 0xD8; 0xAE; 0xD9; 0x85];
   [0xD9; 0x81; 0xD8; 0xAE; 0xD9; 0x85];
   [0xD9; 0x82; 0xD9; 0x85; 0xD8; 0xAD];
   [0xD9; 0x82; 0xD9; 0x85; 0xD9; 0x85];
   [0xD9; 0x84; 0xD8; 0xAD; 0xD9; 0x85];
   [0xD9; 0x84; 0xD8; 0xAD; 0xD9; 0x8A];
   [0xD9; 0x84; 0xD8; 0xAD; 0xD9; 0x89];
   [0xD9; 0x84; 0xD8; 0xAC; 0xD8; 0xAC];
   [0xD9; 0x84; 0xD8; 0xAC; 0xD8; 0xAC];
   [0xD9; 0x84; 0xD8; 0xAE; 0xD9; 0x85];
   [0xD9; 0x84; 0xD8; 0xAE; 0xD9; 0x85];
   [0xD9; 0x84; 0xD9; 0x85; 0xD8; 0xAD];
   [0xD9; 0x84; 0xD9; 0x85; 0xD8; 0xAD];
   [0xD9; 0x85; 0xD8; 0xAD; 0xD8; 0xAC];
   [0xD9; 0x85; 0xD8; 0xAD; 0xD9; 0x85];
   [0xD9; 0x85; 0xD8; 0xAD; 0xD9; 0x8A];
   [0xD9; 0x85; 0xD8; 0xAC; 0xD8; 0xAD];
   [0xD9; 0x85; 0xD8; 0xAC; 0xD9; 0x85];
   [0xD9; 0x85; 0xD8; 0xAE; 0xD8; 0xAC];
   [0xD9; 0x85; 0xD8; 0xAE; 0xD9; 0x85];
   [0xD9; 0x85; 0xD8; 0xAC; 0xD8; 0xAE];
   [0xD9; 0x87; 0xD9; 0x85; 0xD8; 0xAC];
   [0xD9; 0x87; 0xD9; 0x85; 0xD9; 0x85];
   [0xD9; 0x86; 0xD8; 0xAD; 0xD9; 0x85];
   [0xD9; 0x86; 0xD8; 0xAD; 0xD9; 0x89];
   [0xD9; 0x86; 0xD8; 0xAC; 0xD9; 0x85];
   [0xD9; 0x86; 0xD8; 0xAC; 0xD9; 0x85];
   [0xD9; 0x86; 0xD8; 0xAC; 0xD9; 0x89];
   [0xD9; 0x86; 0xD9; 0x85; 0xD9; 0x8A];
   [0xD9; 0x86; 0xD9; 0x85; 0xD9; 0x89];
   [0xD9; 0x8A; 0xD9; 0x85; 0xD9; 0x85];
   [0xD9; 0x8A; 0xD9; 0x85; 0xD9; 0x85];
   [0xD8; 0xA8; 0xD8; 0xAE; 0xD9; 0x8A];
   [0xD8; 0xAA; 0xD8; 0xAC; 0xD9; 0x8A];
   [0xD8; 0xAA; 0xD8; 0xAC; 0xD9; 0x89];
   [0xD8; 0xAA; 0xD8; 0xAE; 0xD9; 0x8A];
   [0xD8; 0xAA; 0xD8; 0xAE; 0xD9; 0x89];
   [0xD8; 0xAA; 0xD9; 0x85; 0xD9; 0x8A];
   [0xD8; 0xAA; 0xD9; 0x85; 0xD9; 0x89];
   [0xD8; 0xAC; 0xD9; 0x85; 0xD9; 0x8A];
   [0xD8; 0xAC; 0xD8; 0xAD; 0xD9; 0x89];
   [0xD8; 0xAC; 0xD9; 0x85; 0xD9; 0x89];
   [0xD8; 0xB3; 0xD8; 0xAE; 0xD9; 0x89];
   [0xD8; 0xB5; 0xD8; 0xAD; 0xD9; 0x8A];
   [0xD8; 0xB4; 0xD8; 0xAD; 0xD9; 0x8A];
   [0xD8; 0xB6; 0xD8; 0xAD; 0xD9; 0x8A];
   [0xD9; 0x84; 0xD8; 0xAC; 0xD9; 0x8A];
   [0xD9; 0x84; 0xD9; 0x85; 0xD9; 0x8A];
   [0xD9; 0x8A; 0xD8; 0xAD; 0xD9; 0x8A];
   [0xD9; 0x8A; 0xD8; 0xAC; 0xD9; 0x8A];
   [0xD9; 0x8A; 0xD9; 0x85; 0xD9; 0x8A];
   [0xD9; 0x85; 0xD9; 0x85; 0xD9; 0x8A];
   [0xD9; 0x82; 0xD9; 0x85; 0xD9; 0x8A];
   [0xD9; 0x86; 0xD8; 0xAD; 0xD9; 0x8A];
   [0xD9; 0x82; 0xD9; 0x85; 0xD8; 0xAD];
   [0xD9; 0x84; 0xD8; 0xAD; 0xD9; 0x85];
   [0xD8; 0xB9; 0xD9; 0x85; 0xD9; 0x8A];
   [0xD9; 0x83; 0xD9; 0x85; 0xD9; 0x8A];
   [0xD9; 0x86; 0xD8; 0xAC; 0xD8; 0xAD];
   [0xD9; 0x85; 0xD8; 0xAE; 0xD9; 0x8A];
   [0xD9; 0x84; 0xD8; 0xAC; 0xD9; 0x85];
   [0xD9; 0x83; 0xD9; 0x85; 0xD9; 0x85];
   [0xD9; 0x84; 0xD8; 0xAC; 0xD9; 0x85];
   [0xD9; 0x86; 0xD8; 0xAC; 0xD8; 0xAD];
   [0xD8; 0xAC; 0xD8; 0xAD; 0xD9; 0x8A];
   [0xD8; 0xAD; 0xD8; 0xAC; 0xD9; 0x8A];
   [0xD9; 0x85; 0xD8; 0xAC; 0xD9; 0x8A];
   [0xD9; 0x81; 0xD9; 0x85; 0xD9; 0x8A];
   [0xD8; 0xA8; 0xD8; 0xAD; 0xD9; 0x8A];
   [0xD9; 0x83; 0xD9; 0x85; 0xD9; 0x85];
   [0xD8; 0xB9; 0xD8; 0xAC; 0xD9; 0x85];
   [0xD8; 0xB5; 0xD9; 0x85; 0xD9; 0x85];
   [0xD8; 0xB3; 0xD8; 0xAE; 0xD9; 0x8A];
   [0xD9; 0x86; 0xD8; 0xAC; 0xD9; 0x8A];
   [0xD8; 0xB5; 0xD9; 0x84; 0xDB; 0x92];
   [0xD9; 0x82; 0xD9; 0x84; 0xDB; 0x92];
   [0xD8; 0xA7; 0xD9; 0x84; 0xD9; 0x84; 0xD9; 0x87];
   [0xD8; 0xA7; 0xD9; 0x83; 0xD8; 0xA8; 0xD8; 0xB1];
   [0xD9; 0x85; 0xD8; 0xAD; 0xD9; 0x85; 0xD8; 0xAF];
   [0xD8; 0xB5; 0xD9; 0x84; 0xD8; 0xB9; 0xD9; 0x85];
   [0xD8; 0xB1; 0xD8; 0xB3; 0xD9; 0x88; 0xD9; 0x84];
   [0xD8; 0xB9; 0xD9; 0x84; 0xD9; 0x8A; 0xD9; 0x87];
   [0xD9; 0x88; 0xD8; 0xB3; 0xD9; 0x84; 0xD9; 0x85];
   [0xD8; 0xB5; 0xD9; 0x84; 0xD9; 0x89];
   [0xD8; 0xB5; 0xD9; 0x84; 0xD9; 0x89; 0x20; 0xD8; 0xA7; 0xD9; 0x84; 0xD9; 0x84; 0xD9; 0x87; 0x20; 0xD8; 0xB9; 0xD9; 0x84; 0xD9; 0x8A; 0xD9; 0x87; 0x20; 0xD9; 0x88; 0xD8; 0xB3; 0xD9; 0x84; 0xD9; 0x85];
   [0xD8; 0xAC; 0xD9; 0x84; 0x20; 0xD8; 0xAC; 0xD9; 0x84; 0xD8; 0xA7; 0xD9; 0x84; 0xD9; 0x87];
   [0xD8; 0xB1; 0xDB; 0x8C; 0xD8; 0xA7; 0xD9; 0x84]].

Definition TABLE_4_F0_90_1 : list Plane2Bits :=
  [[0x5555555556555555; 0x6595555555559555];
   [0xA5555555A5555555; 0xAAAAAAAAAAAAAAAA];
   [0x5555555555555555; 0x5555555555555555];
   [0x5555555555555555; 0xAA95555555555555];
   [0x5555555555556AAA; 0xAAAAAA5555555555];
   [0x5555555555555555; 0xAAA9555555555555];
   [0xAAAAAAAAAA5AAAAA; 0xAAAAAAAAAAAAAAAA];
   [0xAAAAAAAAAAAAAAAA; 0xA2AAAAAAAAAAAAAA];
   [0xAAAAAAAAAAAAAAAA; 0xAAAAAAAAAAAAAAAA];
   [0xAAAAAAAAAAAAAAAA; 0xAAAAAAAAAAAAAAAA];
   [0xA955555555555555; 0x5555555555555555];
   [0xAAAAAAA955555555; 0xAA55555555555554];
   [0x5555555555555555; 0x55555555AAAAAA55];
   [0x55555555AA955555; 0xAA80055555555555];
   [0xA555555555555555; 0x5555555555555555];
   [0xAAAAA5565555AA55; 0xAAAAAAAAAAAAAAAA];
   [0xFFFFFFFFFFFFFFFF; 0x555555555555FFFF];
   [0x5555555555555555; 0x5555555555555555];
   [0xA555555555555555; 0xAAAAAAAAAAA55555];
   [0xAAAAAAAAAAAAAAAA; 0xAAAAAAAAAAAAAAAA];
   [0x5555555555555555; 0x55555555AAAA5555];
   [0x5555555555555555; 0xAAAAAAAAAAAAAA55];
   [0xAAAAAAAAAAAAAAAA; 0xAAAAAAAAAAAAAAAA];
   [0xAAAAAAAAAAAAAAAA; 0xAAAAAAAAAAAAAAAA];
   [0x5555555555555555; 0x5555555555555555];
   [0x5555555555555555; 0x5555555555555555];
   [0x5555555555555555; 0x5555555555555555];
   [0x5555555555555555; 0x5555555555555555];
   [0x5555555555555555; 0xAAAA955555555555];
   [0xAAAAA55555555555; 0xAAAAAAAAAAAA5555];
   [0xAAAAAAAAAAAAAAAA; 0xAAAAAAAAAAAAAAAA];
   [0xAAAAAAAAAAAAAAAA; 0xAAAAAAAAAAAAAAAA];
   [0x555555555559A555; 0x69A9655555555555];
   [0x5555A55555555555; 0x5556955555555555];
   [0x9555555555555555; 0xAAAAAAAA55556AAA];
   [0xAAAAAAAAAAAAAAAA; 0x556AA59555555555];
   [0xAA55555555555555; 0xAAA5555555555555];
   [0xAAAAAAAAAAAAAAAA; 0xAAAAAAAAAAAAAAAA];
   [0x5555555555555555; 0x55AA555555555555];
   [0x5555555A55555555; 0x5555555555555555];
   [0x5556565522AAAAA9; 0x2A80AA5555555555];
   [0xAAAAAAAAAAAA5555; 0x9555555555555555];
   [0x5555555555555555; 0xAAAAAAAAAAAAAAAA];
   [0x5555555555565555; 0xAAAAAAAA556A8155];
   [0x5555555555555555; 0xAAAAA55555555555];
   [0x5555A55555555555; 0x5555AA9555555555];
   [0xAAAAAAA555555555; 0xAAAAAAAA5556AAAA];
   [0xAAAAAAAAAAAAAAAA; 0xAAAAAAAAAAAAAAAA];
   [0x5555555555555555; 0x5555555555555555];
   [0xAAAAAAAAAAA95555; 0xAAAAAAAAAAAAAAAA];
   [0xFFFFFFFFFFFFFFFF; 0xAAAAAABFFFFFFFFF];
   [0x5555555555555555; 0x555AAA9555555555];
   [0xAAAAAAAAAAAAAAAA; 0xAAAAAAAAAAAAAAAA];
   [0xAAAAAAAAAAAAAAAA; 0xAAAAAAAAAAAAAAAA];
   [0xAAAAAAAAAAAAAAAA; 0xAAAAAAAAAAAAAAAA];
   [0xAAAAAAAAAAAAAAAA; 0xAAAAAAAAAAAAAAAA];
   [0xAAAAAAAAAAAAAAAA; 0xAAAAAAAAAAAAAAAA];
   [0xAAAAAAAAAAAAAAAA; 0x9555555555555555];
   [0xAAAAAAAAAAAAAAAA; 0xAAAAAAAAAAAAAAAA];
   [0xAAAAAAAAAAAAAAAA; 0xAAAAAAAAAAAAAAAA];
   [0xAAAAAAAAAAAAAAAA; 0xAAAAAAAAAAAAAAAA];
   [0xAAAAAAAAAAAAAAAA; 0xAAAAAAAAAAAAAAAA];
   [0xAAAAAAAAAAAAAAAA; 0xAAAAAAAAAAAAAAAA];
   [0xAAAAAAAAAAAAAAAA; 0xAAAAAAAAAAAAAAAA]].

Definition PLANE_4_F0_90_2_90 : Plane2Bytes :=
  [U2 0x90 0xA8; U2 0x90 0xA9; U2 0x90 0xAA; U2 0x90 0xAB;
   U2 0x90 0xAC; U2 0x90 0xAD; U2 0x90 0xAE; U2 0x90 0xAF;
   U2 0x90 0xB0; U2 0x90 0xB1; U2 0x90 0xB2; U2 0x90 0xB3;
   U2 0x90 0xB4; U2 0x90 0xB5; U2 0x90 0xB6; U2 0x90 0xB7;
   U2 0x90 0xB8; U2 0x90 0xB9; U2 0x90 0xBA; U2 0x90 0xBB;
   U2 0x90 0xBC; U2 0x90 0xBD; U2 0x90 0xBE; U2 0x90 0xBF;
   U2 0x91 0x80; U2 0x91 0x81; U2 0x91 0x82; U2 0x91 0x83;
   U2 0x91 0x84; U2 0x91 0x85; U2 0x91 0x86; U2 0x91 0x87;
   U2 0x91 0x88; U2 0x91 0x89; U2 0x91 0x8A; U2 0x91 0x8B;
   U2 0x91 0x8C; U2 0x91 0x8D; U2 0x91 0x8E; U2 0x91 0x8F;
   U2 0x90 0xA8; U2 0x90 0xA9; U2 0x90 0xAA; U2 0x90 0xAB;
   U2 0x90 0xAC; U2 0x90 0xAD; U2 0x90 0xAE; U2 0x90 0xAF;
   U2 0x90 0xB0; U2 0x90 0xB1; U2 0x90 0xB2; U2 0x90 0xB3;
   U2 0x90 0xB4; U2 0x90 0xB5; U2 0x90 0xB6; U2 0x90 0xB7;
   U2 0x90 0xB8; U2 0x90 0xB9; U2 0x90 0xBA; U2 0x90 0xBB;
   U2 0x90 0xBC; U2 0x90 0xBD; U2 0x90 0xBE; U2 0x90 0xBF].

Definition TABLE_4_F0_90_2 : list Plane2Bytes :=
  [PLANE_4_F0_90_2_90].

Definition TABLE_4_F0_91 : list Plane2Bits :=
  [[0x555555555555556A; 0xAAAA555555555555];
   [0x5555555AAAAA8AAA; 0x2AAAAAAA55555555];
   [0x577555555555556A; 0xAA82AAAA55D55555];
   [0x55555555AAAAAAAA; 0xAAA55555AAA95555];
   [0x5555555555555540; 0x5555582AAAAA9555];
   [0x55555555AAAAAAAA; 0xAAAA9A1555555555];
   [0x555555555555556A; 0xAAAAAA9555555555];
   [0xA9955555AA8AA954; 0xAAAAA95555555556];
   [0x5555556555555555; 0xAAAA82AAAA555555];
   [0xAAAAAAAAAAAAAAAA; 0xAAAAAAAAAAAAAAAA];
   [0x6555555565599555; 0x55555555AAA95555];
   [0x9555555555555555; 0xAAA55555AA82AAAA];
   [0x55555569695556AA; 0xA4A5565955595555];
   [0x56AAAAA9A2AAAAAA; 0xAAAAA800A8000AA5];
   [0xAAAAAAAAAAAAAAAA; 0xAAAAAAAAAAAAAAAA];
   [0xAAAAAAAAAAAAAAAA; 0xAAAAAAAAAAAAAAAA];
   [0xAAAAAAAAAAAAAAAA; 0xAAAAAAAAAAAAAAAA];
   [0xAAAAAAAAAAAAAAAA; 0xAAAAAAAAAAAAAAAA];
   [0x5555555555555555; 0xAAAAAAAA55555555];
   [0xAAA55555AAAA650A; 0xAAAAAAAAAAAAAAAA];
   [0xAAAAAAAAAAAAAAAA; 0xAAAAAAAAAAAAAAAA];
   [0xAAAAAAAAAAAAAAAA; 0xAAAAAAAAAAAAAAAA];
   [0x5555555555555555; 0x2AAAAAAA95555555];
   [0xAA55AAAAAAAAAAA8; 0xAAAAAAAAAAAAAAAA];
   [0x5555555555555555; 0x2AAAAAAA55555555];
   [0xAAA55555AAAAA9AA; 0xAAAAAAAAAAAAAAAA];
   [0x5555555555555555; 0xAAAA0AAAAA955555];
   [0xAAAAAAAAAAA55555; 0xAAAAAAAAAAAAAAAA];
   [0xAAA5555555555555; 0xAA555555AA2AAAAA]].

Definition TABLE_4_F0_96 : list Plane2Bits :=
  [[0x5555555555555555; 0xAAA9555555555555];
   [0x9555555555555555; 0xAAAAAAAAAAA55555];
   [0xAAAAAAAAAAAAAAAA; 0xAAAAAAAAAAAAAAAA];
   [0x55555555AAAAAAAA; 0xAAAAA800A5555555];
   [0x5555555555555555; 0xAAAA800055555555];
   [0x55655555AAAAAA55; 0x56AA555555555565];
   [0xAAAAAAAA55555555; 0xAAAAAAAAAAAAAAAA];
   [0xAAAAAAAAAAAAAAAA; 0xAAAAAAAAAAAAAAAA];
   [0xAAAAAAAAAAAAAAAA; 0xAAAAAAAAAAAAAAAA];
   [0xAAAAAAAAAAAAAAAA; 0xAAAAAAAAAAAAAAAA];
   [0xAAAAAAAAAAAAAAAA; 0xAAAAAAAAAAAAAAAA];
   [0xAAAAAAAAAAAAAAAA; 0xAAAAAAAAAAAAAAAA];
   [0xAAAAAAAAAAAAAAAA; 0xAAAAAAAAAAAAAAAA];
   [0xAAAAAAAAAAAAAAAA; 0xAAAAAAAAAAAAAAAA];
   [0xAAAAAAAAAAAAAAAA; 0xAAAAAAAAAAAAAAAA];
   [0xAAAAAAAAAAAAAAAA; 0xAAAAAAAAAAAAAAAA];
   [0xAAAAAAAAAAAAAAAA; 0xAAAAAAAAAAAAAAAA];
   [0xAAAAAAAAAAAAAAAA; 0xAAAAAAAAAAAAAAAA];
   [0xAAAAAAAAAAAAAAAA; 0xAAAAAAAAAAAAAAAA];
   [0xAAAAAAAAAAAAAAAA; 0xAAAAAAAAAAAAAAAA];
   [0x5555555555555555; 0x5555555555555555];
   [0xAAAAAAA9AAAAA955; 0xAAAAAAAAAAAAAAAA];
   [0x5555556AAAAAAAAA; 0xAAAAAAAAAAAAAAAA];
   [0xAAAAAAAAAAAAAAAA; 0xAAAAAAAAAAAAAAAA]].

Definition TABLE_4_F0_9B : list Plane2Bits :=
  [[0x5555555555555555; 0xA9555555AA955555];
   [0x8AA55555AAA95555; 0xAAAAAAAAAAAAAAAA]].

Definition TABLE_4_F0_9D_1 : list Plane2Bits :=
  [[0xAAAAAAAAAAAAAAAA; 0xAAAAAAAAAAAAAAAA];
   [0xAAAAAAAAAAAAAAAA; 0xAAAAAAAAAAAAAAAA];
   [0xAAAAAAAAAAAAAAAA; 0xAAAAAAAAAAAAAAAA];
   [0xAAAAAAAAAAAAAAAA; 0xAAAAAAAAAAAAAAAA];
   [0xAAAAAAAAAAAAAAAA; 0xAAAAAAAAAAAAAAAA];
   [0xAAAAAAAAAAAAAAAA; 0x002AAA8002A002AA];
   [0xAAAAAAAAAA000280; 0xAAAAAAAAA00AAAAA];
   [0xAAAAAAAAAAAAAAAA; 0xAAAAAAAAAAAAAAAA];
   [0xAAAAAAAAAAAAAAAA; 0xAAAAAAAAAAAAAAAA];
   [0xAAAAAAAAAAAAA80A; 0xAAAAAAAAAAAAAAAA];
   [0xAAAAAAAAAAAAAAAA; 0xAAAAAAAAAAAAAAAA];
   [0xAAAAAAAAAAAAAAAA; 0xAAAAAAAAAAAAAAAA];
   [0xAAAAAAAAAAAAAAAA; 0xAAAAAAAAAAAAAAAA];
   [0xAAAAAAAAAAAAAAAA; 0xAAAAAAA555555555];
   [0xAAAAAAAAAAAAAAAA; 0xAAAAAAAAAAAAAAAA];
   [0xAAAAAAAAAAAAAAAA; 0xAAAAAAAAAAAAAAAA]].

Definition PLANE_4_F0_9D_2_90 : Plane2Bytes :=
  [U2 0x61 0x00; U2 0x62 0x00; U2 0x63 0x00; U2 0x64 0x00;
   U2 0x65 0x00; U2 0x66 0x00; U2 0x67 0x00; U2 0x68 0x00;
   U2 0x69 0x00; U2 0x6A 0x00; U2 0x6B 0x00; U2 0x6C 0x00;
   U2 0x6D 0x00; U2 0x6E 0x00; U2 0x6F 0x00; U2 0x70 0x00;
   U2 0x71 0x00; U2 0x72 0x00; U2 0x73 0x00; U2 0x74 0x00;
   U2 0x75 0x00; U2 0x76 0x00; U2 0x77 0x00; U2 0x78 0x00;
   U2 0x79 0x00; U2 0x7A 0x00; U2 0x61 0x00; U2 0x62 0x00;
   U2 0x63 0x00; U2 0x64 0x00; U2 0x65 0x00; U2 0x66 0x00;
   U2 0x67 0x00; U2 0x68 0x00; U2 0x69 0x00; U2 0x6A 0x00;
   U2 0x6B 0x00; U2 0x6C 0x00; U2 0x6D 0x00; U2 0x6E 0x00;
   U2 0x6F 0x00; U2 0x70 0x00; U2 0x71 0x00; U2 0x72 0x00;
   U2 0x73 0x00; U2 0x74 0x00; U2 0x75 0x00; U2 0x76 0x00;
   U2 0x77 0x00; U2 0x78 0x00; U2 0x79 0x00; U2 0x7A 0x00;
   U2 0x61 0x00; U2 0x62 0x00; U2 0x63 0x00; U2 0x64 0x00;
   U2 0x65 0x00; U2 0x66 0x00; U2 0x67 0x00; U2 0x68 0x00;
   U2 0x69 0x00; U2 0x6A 0x00; U2 0x6B 0x00; U2 0x6C 0x00].

Definition PLANE_4_F0_9D_2_91 : Plane2Bytes :=
  [U2 0x6D 0x00; U2 0x6E 0x00; U2 0x6F 0x00; U2 0x70 0x00;
   U2 0x71 0x00; U2 0x72 0x00; U2 0x73 0x00; U2 0x74 0x00;
   U2 0x75 0x00; U2 0x76 0x00; U2 0x77 0x00; U2 0x78 0x00;
   U2 0x79 0x00; U2 0x7A 0x00; U2 0x61 0x00; U2 0x62 0x00;
   U2 0x63 0x00; U2 0x64 0x00; U2 0x65 0x00; U2 0x66 0x00;
   U2 0x67 0x00; U2 0x20 0x00; U2 0x69 0x00; U2 0x6A 0x00;
   U2 0x6B 0x00; U2 0x6C 0x00; U2 0x6D 0x00; U2 0x6E 0x00;
   U2 0x6F 0x00; U2 0x70 0x00; U2 0x71 0x00; U2 0x72 0x00;
   U2 0x73 0x00; U2 0x74 0x00; U2 0x75 0x00; U2 0x76 0x00;
   U2 0x77 0x00; U2 0x78 0x00; U2 0x79 0x00; U2 0x7A 0x00;
   U2 0x61 0x00; U2 0x62 0x00; U2 0x63 0x00; U2 0x64 0x00;
   U2 0x65 0x00; U2 0x66 0x00; U2 0x67 0x00; U2 0x68 0x00;
   U2 0x69 0x00; U2 0x6A 0x00; U2 0x6B 0x00; U2 0x6C 0x00;
   U2 0x6D 0x00; U2 0x6E 0x00; U2 0x6F 0x00; U2 0x70 0x00;
   U2 0x71 0x00; U2 0x72 0x00; U2 0x73 0x00; U2 0x74 0x00;
   U2 0x75 0x00; U2 0x76 0x00; U2 0x77 0x00; U2 0x78 0x00].

Definition PLANE_4_F0_9D_2_92 : Plane2Bytes :=
  [U2 0x79 0x00; U2 0x7A 0x00; U2 0x61 0x00; U2 0x62 0x00;
   U2 0x63 0x00; U2 0x64 0x00; U2 0x65 0x00; U2 0x66 0x00;
   U2 0x67 0x00; U2 0x68 0x00; U2 0x69 0x00; U2 0x6A 0x00;
   U2 0x6B 0x00; U2 0x6C 0x00; U2 0x6D 0x00; U2 0x6E 0x00;
   U2 0x6F 0x00; U2 0x70 0x00; U2 0x71 0x00; U2 0x72 0x00;
   U2 0x73 0x00; U2 0x74 0x00; U2 0x75 0x00; U2 0x76 0x00;
   U2 0x77 0x00; U2 0x78 0x00; U2 0x79 0x00; U2 0x7A 0x00;
   U2 0x61 0x00; U2 0x20 0x00; U2 0x63 0x00; U2 0x64 0x00;
   U2 0x20 0x00; U2 0x20 0x00; U2 0x67 0x00; U2 0x20 0x00;
   U2 0x20 0x00; U2 0x6A 0x00; U2 0x6B 0x00; U2 0x20 0x00;
   U2 0x20 0x00; U2 0x6E 0x00; U2 0x6F 0x00; U2 0x70 0x00;
   U2 0x71 0x00; U2 0x20 0x00; U2 0x73 0x00; U2 0x74 0x00;
   U2 0x75 0x00; U2 0x76 0x00; U2 0x77 0x00; U2 0x78 0x00;
   U2 0x79 0x00; U2 0x7A 0x00; U2 0x61 0x00; U2 0x62 0x00;
   U2 0x63 0x00; U2 0x64 0x00; U2 0x20 0x00; U2 0x66 0x00;
   U2 0x20 0x00; U2 0x68 0x00; U2 0x69 0x00; U2 0x6A 0x00].

Definition PLANE_4_F0_9D_2_93 : Plane2Bytes :=
  [U2 0x6B 0x00; U2 0x6C 0x00; U2 0x6D 0x00; U2 0x6E 0x00;
   U2 0x20 0x00; U2 0x70 0x00; U2 0x71 0x00; U2 0x72 0x00;
   U2 0x73 0x00; U2 0x74 0x00; U2 0x75 0x00; U2 0x76 0x00;
   U2 0x77 0x00; U2 0x78 0x00; U2 0x79 0x00; U2 0x7A 0x00;
   U2 0x61 0x00; U2 0x62 0x00; U2 0x63 0x00; U2 0x64 0x00;
   U2 0x65 0x00; U2 0x66 0x00; U2 0x67 0x00; U2 0x68 0x00;
   U2 0x69 0x00; U2 0x6A 0x00; U2 0x6B 0x00; U2 0x6C 0x00;
   U2 0x6D 0x00; U2 0x6E 0x00; U2 0x6F 0x00; U2 0x70 0x00;
   U2 0x71 0x00; U2 0x72 0x00; U2 0x73 0x00; U2 0x74 0x00;
   U2 0x75 0x00; U2 0x76 0x00; U2 0x77 0x00; U2 0x78 0x00;
   U2 0x79 0x00; U2 0x7A 0x00; U2 0x61 0x00; U2 0x62 0x00;
   U2 0x63 0x00; U2 0x64 0x00; U2 0x65 0x00; U2 0x66 0x00;
   U2 0x67 0x00; U2 0x68 0x00; U2 0x69 0x00; U2 0x6A 0x00;
   U2 0x6B 0x00; U2 0x6C 0x00; U2 0x6D 0x00; U2 0x6E 0x00;
   U2 0x6F 0x00; U2 0x70 0x00; U2 0x71 0x00; U2 0x72 0x00;
   U2 0x73 0x00; U2 0x74 0x00; U2 0x75 0x00; U2 0x76 0x00].

Definition PLANE_4_F0_9D_2_94 : Plane2Bytes :=
  [U2 0x77 0x00; U2 0x78 0x00; U2 0x79 0x00; U2 0x7A 0x00;
   U2 0x61 0x00; U2 0x62 0x00; U2 0x20 0x00; U2 0x64 0x00;
   U2 0x65 0x00; U2 0x66 0x00; U2 0x67 0x00; U2 0x20 0x00;
   U2 0x20 0x00; U2 0x6A 0x00; U2 0x6B 0x00; U2 0x6C 0x00;
   U2 0x6D 0x00; U2 0x6E 0x00; U2 0x6F 0x00; U2 0x70 0x00;
   U2 0x71 0x00; U2 0x20 0x00; U2 0x73 0x00; U2 0x74 0x00;
   U2 0x75 0x00; U2 0x76 0x00; U2 0x77 0x00; U2 0x78 0x00;
   U2 0x79 0x00; U2 0x20 0x00; U2 0x61 0x00; U2 0x62 0x00;
   U2 0x63 0x00; U2 0x64 0x00; U2 0x65 0x00; U2 0x66 0x00;
   U2 0x67 0x00; U2 0x68 0x00; U2 0x69 0x00; U2 0x6A 0x00;
   U2 0x6B 0x00; U2 0x6C 0x00; U2 0x6D 0x00; U2 0x6E 0x00;
   U2 0x6F 0x00; U2 0x70 0x00; U2 0x71 0x00; U2 0x72 0x00;
   U2 0x73 0x00; U2 0x74 0x00; U2 0x75 0x00; U2 0x76 0x00;
   U2 0x77 0x00; U2 0x78 0x00; U2 0x79 0x00; U2 0x7A 0x00;
   U2 0x61 0x00; U2 0x62 0x00; U2 0x20 0x00; U2 0x64 0x00;
   U2 0x65 0x00; U2 0x66 0x00; U2 0x67 0x00; U2 0x20 0x00].

Definition PLANE_4_F0_9D_2_95 : Plane2Bytes :=
  [U2 0x69 0x00; U2 0x6A 0x00; U2 0x6B 0x00; U2 0x6C 0x00;
   U2 0x6D 0x00; U2 0x20 0x00; U2 0x6F 0x00; U2 0x20 0x00;
   U2 0x20 0x00; U2 0x20 0x00; U2 0x73 0x00; U2 0x74 0x00;
   U2 0x75 0x00; U2 0x76 0x00; U2 0x77 0x00; U2 0x78 0x00;
   U2 0x79 0x00; U2 0x20 0x00; U2 0x61 0x00; U2 0x62 0x00;
   U2 0x63 0x00; U2 0x64 0x00; U2 0x65 0x00; U2 0x66 0x00;
   U2 0x67 0x00; U2 0x68 0x00; U2 0x69 0x00; U2 0x6A 0x00;
   U2 0x6B 0x00; U2 0x6C 0x00; U2 0x6D 0x00; U2 0x6E 0x00;
   U2 0x6F 0x00; U2 0x70 0x00; U2 0x71 0x00; U2 0x72 0x00;
   U2 0x73 0x00; U2 0x74 0x00; U2 0x75 0x00; U2 0x76 0x00;
   U2 0x77 0x00; U2 0x78 0x00; U2 0x79 0x00; U2 0x7A 0x00;
   U2 0x61 0x00; U2 0x62 0x00; U2 0x63 0x00; U2 0x64 0x00;
   U2 0x65 0x00; U2 0x66 0x00; U2 0x67 0x00; U2 0x68 0x00;
   U2 0x69 0x00; U2 0x6A 0x00; U2 0x6B 0x00; U2 0x6C 0x00;
   U2 0x6D 0x00; U2 0x6E 0x00; U2 0x6F 0x00; U2 0x70 0x00;
   U2 0x71 0x00; U2 0x72 0x00; U2 0x73 0x00; U2 0x74 0x00].

Definition PLANE_4_F0_9D_2_96 : Plane2Bytes :=
  [U2 0x75 0x00; U2 0x76 0x00; U2 0x77 0x00; U2 0x78 0x00;
   U2 0x79 0x00; U2 0x7A 0x00; U2 0x61 0x00; U2 0x62 0x00;
   U2 0x63 0x00; U2 0x64 0x00; U2 0x65 0x00; U2 0x66 0x00;
   U2 0x67 0x00; U2 0x68 0x00; U2 0x69 0x00; U2 0x6A 0x00;
   U2 0x6B 0x00; U2 0x6C 0x00; U2 0x6D 0x00; U2 0x6E 0x00;
   U2 0x6F 0x00; U2 0x70 0x00; U2 0x71 0x00; U2 0x72 0x00;
   U2 0x73 0x00; U2 0x74 0x00; U2 0x75 0x00; U2 0x76 0x00;
   U2 0x77 0x00; U2 0x78 0x00; U2 0x79 0x00; U2 0x7A 0x00;
   U2 0x61 0x00; U2 0x62 0x00; U2 0x63 0x00; U2 0x64 0x00;
   U2 0x65 0x00; U2 0x66 0x00; U2 0x67 0x00; U2 0x68 0x00;
   U2 0x69 0x00; U2 0x6A 0x00; U2 0x6B 0x00; U2 0x6C 0x00;
   U2 0x6D 0x00; U2 0x6E 0x00; U2 0x6F 0x00; U2 0x70 0x00;
   U2 0x71 0x00; U2 0x72 0x00; U2 0x73 0x00; U2 0x74 0x00;
   U2 0x75 0x00; U2 0x76 0x00; U2 0x77 0x00; U2 0x78 0x00;
   U2 0x79 0x00; U2 0x7A 0x00; U2 0x61 0x00; U2 0x62 0x00;
   U2 0x63 0x00; U2 0x64 0x00; U2 0x65 0x00; U2 0x66 0x00].

Definition PLANE_4_F0_9D_2_97 : Plane2Bytes :=
  [U2 0x67 0x00; U2 0x68 0x00; U2 0x69 0x00; U2 0x6A 0x00;
   U2 0x6B 0x00; U2 0x6C 0x00; U2 0x6D 0x00; U2 0x6E 0x00;
   U2 0x6F 0x00; U2 0x70 0x00; U2 0x71 0x00; U2 0x72 0x00;
   U2 0x73 0x00; U2 0x74 0x00; U2 0x75 0x00; U2 0x76 0x00;
   U2 0x77 0x00; U2 0x78 0x00; U2 0x79 0x00; U2 0x7A 0x00;
   U2 0x61 0x00; U2 0x62 0x00; U2 0x63 0x00; U2 0x64 0x00;
   U2 0x65 0x00; U2 0x66 0x00; U2 0x67 0x00; U2 0x68 0x00;
   U2 0x69 0x00; U2 0x6A 0x00; U2 0x6B 0x00; U2 0x6C 0x00;
   U2 0x6D 0x00; U2 0x6E 0x00; U2 0x6F 0x00; U2 0x70 0x00;
   U2 0x71 0x00; U2 0x72 0x00; U2 0x73 0x00; U2 0x74 0x00;
   U2 0x75 0x00; U2 0x76 0x00; U2 0x77 0x00; U2 0x78 0x00;
   U2 0x79 0x00; U2 0x7A 0x00; U2 0x61 0x00; U2 0x62 0x00;
   U2 0x63 0x00; U2 0x64 0x00; U2 0x65 0x00; U2 0x66 0x00;
   U2 0x67 0x00; U2 0x68 0x00; U2 0x69 0x00; U2 0x6A 0x00;
   U2 0x6B 0x00; U2 0x6C 0x00; U2 0x6D 0x00; U2 0x6E 0x00;
   U2 0x6F 0x00; U2 0x70 0x00; U2 0x71 0x00; U2 0x72 0x00].

Definition PLANE_4_F0_9D_2_98 : Plane2Bytes :=
  [U2 0x73 0x00; U2 0x74 0x00; U2 0x75 0x00; U2 0x76 0x00;
   U2 0x77 0x00; U2 0x78 0x00; U2 0x79 0x00; U2 0x7A 0x00;
   U2 0x61 0x00; U2 0x62 0x00; U2 0x63 0x00; U2 0x64 0x00;
   U2 0x65 0x00; U2 0x66 0x00; U2 0x67 0x00; U2 0x68 0x00;
   U2 0x69 0x00; U2 0x6A 0x00; U2 0x6B 0x00; U2 0x6C 0x00;
   U2 0x6D 0x00; U2 0x6E 0x00; U2 0x6F 0x00; U2 0x70 0x00;
   U2 0x71 0x00; U2 0x72 0x00; U2 0x73 0x00; U2 0x74 0x00;
   U2 0x75 0x00; U2 0x76 0x00; U2 0x77 0x00; U2 0x78 0x00;
   U2 0x79 0x00; U2 0x7A 0x00; U2 0x61 0x00; U2 0x62 0x00;
   U2 0x63 0x00; U2 0x64 0x00; U2 0x65 0x00; U2 0x66 0x00;
   U2 0x67 0x00; U2 0x68 0x00; U2 0x69 0x00; U2 0x6A 0x00;
   U2 0x6B 0x00; U2 0x6C 0x00; U2 0x6D 0x00; U2 0x6E 0x00;
   U2 0x6F 0x00; U2 0x70 0x00; U2 0x71 0x00; U2 0x72 0x00;
   U2 0x73 0x00; U2 0x74 0x00; U2 0x75 0x00; U2 0x76 0x00;
   U2 0x77 0x00; U2 0x78 0x00; U2 0x79 0x00; U2 0x7A 0x00;
   U2 0x61 0x00; U2 0x62 0x00; U2 0x63 0x00; U2 0x64 0x00].

Definition PLANE_4_F0_9D_2_99 : Plane2Bytes :=
  [U2 0x65 0x00; U2 0x66 0x00; U2 0x67 0x00; U2 0x68 0x00;
   U2 0x69 0x00; U2 0x6A 0x00; U2 0x6B 0x00; U2 0x6C 0x00;
   U2 0x6D 0x00; U2 0x6E 0x00; U2 0x6F 0x00; U2 0x70 0x00;
   U2 0x71 0x00; U2 0x72 0x00; U2 0x73 0x00; U2 0x74 0x00;
   U2 0x75 0x00; U2 0x76 0x00; U2 0x77 0x00; U2 0x78 0x00;
   U2 0x79 0x00; U2 0x7A 0x00; U2 0x61 0x00; U2 0x62 0x00;
   U2 0x63 0x00; U2 0x64 0x00; U2 0x65 0x00; U2 0x66 0x00;
   U2 0x67 0x00; U2 0x68 0x00; U2 0x69 0x00; U2 0x6A 0x00;
   U2 0x6B 0x00; U2 0x6C 0x00; U2 0x6D 0x00; U2 0x6E 0x00;
   U2 0x6F 0x00; U2 0x70 0x00; U2 0x71 0x00; U2 0x72 0x00;
   U2 0x73 0x00; U2 0x74 0x00; U2 0x75 0x00; U2 0x76 0x00;
   U2 0x77 0x00; U2 0x78 0x00; U2 0x79 0x00; U2 0x7A 0x00;
   U2 0x61 0x00; U2 0x62 0x00; U2 0x63 0x00; U2 0x64 0x00;
   U2 0x65 0x00; U2 0x66 0x00; U2 0x67 0x00; U2 0x68 0x00;
   U2 0x69 0x00; U2 0x6A 0x00; U2 0x6B 0x00; U2 0x6C 0x00;
   U2 0x6D 0x00; U2 0x6E 0x00; U2 0x6F 0x00; U2 0x70 0x00].

Definition PLANE_4_F0_9D_2_9A : Plane2Bytes :=
  [U2 0x71 0x00; U2 0x72 0x00; U2 0x73 0x00; U2 0x74 0x00;
   U2 0x75 0x00; U2 0x76 0x00; U2 0x77 0x00; U2 0x78 0x00;
   U2 0x79 0x00; U2 0x7A 0x00; U2 0x61 0x00; U2 0x62 0x00;
   U2 0x63 0x00; U2 0x64 0x00; U2 0x65 0x00; U2 0x66 0x00;
   U2 0x67 0x00; U2 0x68 0x00; U2 0x69 0x00; U2 0x6A 0x00;
   U2 0x6B 0x00; U2 0x6C 0x00; U2 0x6D 0x00; U2 0x6E 0x00;
   U2 0x6F 0x00; U2 0x70 0x00; U2 0x71 0x00; U2 0x72 0x00;
   U2 0x73 0x00; U2 0x74 0x00; U2 0x75 0x00; U2 0x76 0x00;
   U2 0x77 0x00; U2 0x78 0x00; U2 0x79 0x00; U2 0x7A 0x00;
   U2 0xC4 0xB1; U2 0xC8 0xB7; U2 0x20 0x00; U2 0x20 0x00;
   U2 0xCE 0xB1; U2 0xCE 0xB2; U2 0xCE 0xB3; U2 0xCE 0xB4;
   U2 0xCE 0xB5; U2 0xCE 0xB6; U2 0xCE 0xB7; U2 0xCE 0xB8;
   U2 0xCE 0xB9; U2 0xCE 0xBA; U2 0xCE 0xBB; U2 0xCE 0xBC;
   U2 0xCE 0xBD; U2 0xCE 0xBE; U2 0xCE 0xBF; U2 0xCF 0x80;
   U2 0xCF 0x81; U2 0xCE 0xB8; U2 0xCF 0x83; U2 0xCF 0x84;
   U2 0xCF 0x85; U2 0xCF 0x86; U2 0xCF 0x87; U2 0xCF 0x88].

Definition PLANE_4_F0_9D_2_9B : Plane2Bytes :=
  [U2 0xCF 0x89; U2 0x20 0x00; U2 0xCE 0xB1; U2 0xCE 0xB2;
   U2 0xCE 0xB3; U2 0xCE 0xB4; U2 0xCE 0xB5; U2 0xCE 0xB6;
   U2 0xCE 0xB7; U2 0xCE 0xB8; U2 0xCE 0xB9; U2 0xCE 0xBA;
   U2 0xCE 0xBB; U2 0xCE 0xBC; U2 0xCE 0xBD; U2 0xCE 0xBE;
   U2 0xCE 0xBF; U2 0xCF 0x80; U2 0xCF 0x81; U2 0xCF 0x83;
   U2 0xCF 0x83; U2 0xCF 0x84; U2 0xCF 0x85; U2 0xCF 0x86;
   U2 0xCF 0x87; U2 0xCF 0x88; U2 0xCF 0x89; U2 0x20 0x00;
   U2 0xCE 0xB5; U2 0xCE 0xB8; U2 0xCE 0xBA; U2 0xCF 0x86;
   U2 0xCF 0x81; U2 0xCF 0x80; U2 0xCE 0xB1; U2 0xCE 0xB2;
   U2 0xCE 0xB3; U2 0xCE 0xB4; U2 0xCE 0xB5; U2 0xCE 0xB6;
   U2 0xCE 0xB7; U2 0xCE 0xB8; U2 0xCE 0xB9; U2 0xCE 0xBA;
   U2 0xCE 0xBB; U2 0xCE 0xBC; U2 0xCE 0xBD; U2 0xCE 0xBE;
   U2 0xCE 0xBF; U2 0xCF 0x80; U2 0xCF 0x81; U2 0xCE 0xB8;
   U2 0xCF 0x83; U2 0xCF 0x84; U2 0xCF 0x85; U2 0xCF 0x86;
   U2 0xCF 0x87; U2 0xCF 0x88; U2 0xCF 0x89; U2 0x20 0x00;
   U2 0xCE 0xB1; U2 0xCE 0xB2; U2 0xCE 0xB3; U2 0xCE 0xB4].

Definition PLANE_4_F0_9D_2_9C : Plane2Bytes :=
  [U2 0xCE 0xB5; U2 0xCE 0xB6; U2 0xCE 0xB7; U2 0xCE 0xB8;
   U2 0xCE 0xB9; U2 0xCE 0xBA; U2 0xCE 0xBB; U2 0xCE 0xBC;
   U2 0xCE 0xBD; U2 0xCE 0xBE; U2 0xCE 0xBF; U2 0xCF 0x80;
   U2 0xCF 0x81; U2 0xCF 0x83; U2 0xCF 0x83; U2 0xCF 0x84;
   U2 0xCF 0x85; U2 0xCF 0x86; U2 0xCF 0x87; U2 0xCF 0x88;
   U2 0xCF 0x89; U2 0x20 0x00; U2 0xCE 0xB5; U2 0xCE 0xB8;
   U2 0xCE 0xBA; U2 0xCF 0x86; U2 0xCF 0x81; U2 0xCF 0x80;
   U2 0xCE 0xB1; U2 0xCE 0xB2; U2 0xCE 0xB3; U2 0xCE 0xB4;
   U2 0xCE 0xB5; U2 0xCE 0xB6; U2 0xCE 0xB7; U2 0xCE 0xB8;
   U2 0xCE 0xB9; U2 0xCE 0xBA; U2 0xCE 0xBB; U2 0xCE 0xBC;
   U2 0xCE 0xBD; U2 0xCE 0xBE; U2 0xCE 0xBF; U2 0xCF 0x80;
   U2 0xCF 0x81; U2 0xCE 0xB8; U2 0xCF 0x83; U2 0xCF 0x84;
   U2 0xCF 0x85; U2 0xCF 0x86; U2 0xCF 0x87; U2 0xCF 0x88;
   U2 0xCF 0x89; U2 0x20 0x00; U2 0xCE 0xB1; U2 0xCE 0xB2;
   U2 0xCE 0xB3; U2 0xCE 0xB4; U2 0xCE 0xB5; U2 0xCE 0xB6;
   U2 0xCE 0xB7; U2 0xCE 0xB8; U2 0xCE 0xB9; U2 0xCE 0xBA].

Definition PLANE_4_F0_9D_2_9D : Plane2Bytes :=
  [U2 0xCE 0xBB; U2 0xCE 0xBC; U2 0xCE 0xBD; U2 0xCE 0xBE;
   U2 0xCE 0xBF; U2 0xCF 0x80; U2 0xCF 0x81; U2 0xCF 0x83;
   U2 0xCF 0x83; U2 0xCF 0x84; U2 0xCF 0x85; U2 0xCF 0x86;
   U2 0xCF 0x87; U2 0xCF 0x88; U2 0xCF 0x89; U2 0x20 0x00;
   U2 0xCE 0xB5; U2 0xCE 0xB8; U2 0xCE 0xBA; U2 0xCF 0x86;
   U2 0xCF 0x81; U2 0xCF 0x80; U2 0xCE 0xB1; U2 0xCE 0xB2;
   U2 0xCE 0xB3; U2 0xCE 0xB4; U2 0xCE 0xB5; U2 0xCE 0xB6;
   U2 0xCE 0xB7; U2 0xCE 0xB8; U2 0xCE 0xB9; U2 0xCE 0xBA;
   U2 0xCE 0xBB; U2 0xCE 0xBC; U2 0xCE 0xBD; U2 0xCE 0xBE;
   U2 0xCE 0xBF; U2 0xCF 0x80; U2 0xCF 0x81; U2 0xCE 0xB8;
   U2 0xCF 0x83; U2 0xCF 0x84; U2 0xCF 0x85; U2 0xCF 0x86;
   U2 0xCF 0x87; U2 0xCF 0x88; U2 0xCF 0x89; U2 0x20 0x00;
   U2 0xCE 0xB1; U2 0xCE 0xB2; U2 0xCE 0xB3; U2 0xCE 0xB4;
   U2 0xCE 0xB5; U2 0xCE 0xB6; U2 0xCE 0xB7; U2 0xCE 0xB8;
   U2 0xCE 0xB9; U2 0xCE 0xBA; U2 0xCE 0xBB; U2 0xCE 0xBC;
   U2 0xCE 0xBD; U2 0xCE 0xBE; U2 0xCE 0xBF; U2 0xCF 0x80].

Definition PLANE_4_F0_9D_2_9E : Plane2Bytes :=
  [U2 0xCF 0x81; U2 0xCF 0x83; U2 0xCF 0x83; U2 0xCF 0x84;
   U2 0xCF 0x85; U2 0xCF 0x86; U2 0xCF 0x87; U2 0xCF 0x88;
   U2 0xCF 0x89; U2 0x20 0x00; U2 0xCE 0xB5; U2 0xCE 0xB8;
   U2 0xCE 0xBA; U2 0xCF 0x86; U2 0xCF 0x81; U2 0xCF 0x80;
   U2 0xCE 0xB1; U2 0xCE 0xB2; U2 0xCE 0xB3; U2 0xCE 0xB4;
   U2 0xCE 0xB5; U2 0xCE 0xB6; U2 0xCE 0xB7; U2 0xCE 0xB8;
   U2 0xCE 0xB9; U2 0xCE 0xBA; U2 0xCE 0xBB; U2 0xCE 0xBC;
   U2 0xCE 0xBD; U2 0xCE 0xBE; U2 0xCE 0xBF; U2 0xCF 0x80;
   U2 0xCF 0x81; U2 0xCE 0xB8; U2 0xCF 0x83; U2 0xCF 0x84;
   U2 0xCF 0x85; U2 0xCF 0x86; U2 0xCF 0x87; U2 0xCF 0x88;
   U2 0xCF 0x89; U2 0x20 0x00; U2 0xCE 0xB1; U2 0xCE 0xB2;
   U2 0xCE 0xB3; U2 0xCE 0xB4; U2 0xCE 0xB5; U2 0xCE 0xB6;
   U2 0xCE 0xB7; U2 0xCE 0xB8; U2 0xCE 0xB9; U2 0xCE 0xBA;
   U2 0xCE 0xBB; U2 0xCE 0xBC; U2 0xCE 0xBD; U2 0xCE 0xBE;
   U2 0xCE 0xBF; U2 0xCF 0x80; U2 0xCF 0x81; U2 0xCF 0x83;
   U2 0xCF 0x83; U2 0xCF 0x84; U2 0xCF 0x85; U2 0xCF 0x86].

Definition PLANE_4_F0_9D_2_9F : Plane2Bytes :=
  [U2 0xCF 0x87; U2 0xCF 0x88; U2 0xCF 0x89; U2 0x20 0x00;
   U2 0xCE 0xB5; U2 0xCE 0xB8; U2 0xCE 0xBA; U2 0xCF 0x86;
   U2 0xCF 0x81; U2 0xCF 0x80; U2 0xCF 0x9D; U2 0xCF 0x9D;
   U2 0x20 0x00; U2 0x20 0x00; U2 0x30 0x00; U2 0x31 0x00;
   U2 0x32 0x00; U2 0x33 0x00; U2 0x34 0x00; U2 0x35 0x00;
   U2 0x36 0x00; U2 0x37 0x00; U2 0x38 0x00; U2 0x39 0x00;
   U2 0x30 0x00; U2 0x31 0x00; U2 0x32 0x00; U2 0x33 0x00;
   U2 0x34 0x00; U2 0x35 0x00; U2 0x36 0x00; U2 0x37 0x00;
   U2 0x38 0x00; U2 0x39 0x00; U2 0x30 0x00; U2 0x31 0x00;
   U2 0x32 0x00; U2 0x33 0x00; U2 0x34 0x00; U2 0x35 0x00;
   U2 0x36 0x00; U2 0x37 0x00; U2 0x38 0x00; U2 0x39 0x00;
   U2 0x30 0x00; U2 0x31 0x00; U2 0x32 0x00; U2 0x33 0x00;
   U2 0x34 0x00; U2 0x35 0x00; U2 0x36 0x00; U2 0x37 0x00;
   U2 0x38 0x00; U2 0x39 0x00; U2 0x30 0x00; U2 0x31 0x00;
   U2 0x32 0x00; U2 0x33 0x00; U2 0x34 0x00; U2 0x35 0x00;
   U2 0x36 0x00; U2 0x37 0x00; U2 0x38 0x00; U2 0x39 0x00].

Definition TABLE_4_F0_9D_2 : list Plane2Bytes :=
  [PLANE_4_F0_9D_2_90; PLANE_4_F0_9D_2_91; PLANE_4_F0_9D_2_92; PLANE_4_F0_9D_2_93;
   PLANE_4_F0_9D_2_94; PLANE_4_F0_9D_2_95; PLANE_4_F0_9D_2_96; PLANE_4_F0_9D_2_97;
   PLANE_4_F0_9D_2_98; PLANE_4_F0_9D_2_99; PLANE_4_F0_9D_2_9A; PLANE_4_F0_9D_2_9B;
   PLANE_4_F0_9D_2_9C; PLANE_4_F0_9D_2_9D; PLANE_4_F0_9D_2_9E; PLANE_4_F0_9D_2_9F].

Definition TABLE_4_F0_9E_1 : list Plane2Bits :=
  [[0xAAAA800055556955; 0xAAAAAAAAAAAAAAAA]].

Definition PLANE_4_F0_9E_2_B8 : Plane2Bytes :=
  [U2 0xD8 0xA7; U2 0xD8 0xA8; U2 0xD8 0xAC; U2 0xD8 0xAF;
   U2 0x20 0x00; U2 0xD9 0x88; U2 0xD8 0xB2; U2 0xD8 0xAD;
   U2 0xD8 0xB7; U2 0xD9 0x8A; U2 0xD9 0x83; U2 0xD9 0x84;
   U2 0xD9 0x85; U2 0xD9 0x86; U2 0xD8 0xB3; U2 0xD8 0xB9;
   U2 0xD9 0x81; U2 0xD8 0xB5; U2 0xD9 0x82; U2 0xD8 0xB1;
   U2 0xD8 0xB4; U2 0xD8 0xAA; U2 0xD8 0xAB; U2 0xD8 0xAE;
   U2 0xD8 0xB0; U2 0xD8 0xB6; U2 0xD8 0xB8; U2 0xD8 0xBA;
   U2 0xD9 0xAE; U2 0xDA 0xBA; U2 0xDA 0xA1; U2 0xD9 0xAF;
   U2 0x20 0x00; U2 0xD8 0xA8; U2 0xD8 0xAC; U2 0x20 0x00;
   U2 0xD9 0x87; U2 0x20 0x00; U2 0x20 0x00; U2 0xD8 0xAD;
   U2 0x20 0x00; U2 0xD9 0x8A; U2 0xD9 0x83; U2 0xD9 0x84;
   U2 0xD9 0x85; U2 0xD9 0x86; U2 0xD8 0xB3; U2 0xD8 0xB9;
   U2 0xD9 0x81; U2 0xD8 0xB5; U2 0xD9 0x82; U2 0x20 0x00;
   U2 0xD8 0xB4; U2 0xD8 0xAA; U2 0xD8 0xAB; U2 0xD8 0xAE;
   U2 0x20 0x00; U2 0xD8 0xB6; U2 0x20 0x00; U2 0xD8 0xBA;
   U2 0x20 0x00; U2 0x20 0x00; U2 0x20 0x00; U2 0x20 0x00].

Definition PLANE_4_F0_9E_2_B9 : Plane2Bytes :=
  [U2 0x20 0x00; U2 0x20 0x00; U2 0xD8 0xAC; U2 0x20 0x00;
   U2 0x20 0x00; U2 0x20 0x00; U2 0x20 0x00; U2 0xD8 0xAD;
   U2 0x20 0x00; U2 0xD9 0x8A; U2 0x20 0x00; U2 0xD9 0x84;
   U2 0x20 0x00; U2 0xD9 0x86; U2 0xD8 0xB3; U2 0xD8 0xB9;
   U2 0x20 0x00; U2 0xD8 0xB5; U2 0xD9 0x82; U2 0x20 0x00;
   U2 0xD8 0xB4; U2 0x20 0x00; U2 0x20 0x00; U2 0xD8 0xAE;
   U2 0x20 0x00; U2 0xD8 0xB6; U2 0x20 0x00; U2 0xD8 0xBA;
   U2 0x20 0x00; U2 0xDA 0xBA; U2 0x20 0x00; U2 0xD9 0xAF;
   U2 0x20 0x00; U2 0xD8 0xA8; U2 0xD8 0xAC; U2 0x20 0x00;
   U2 0xD9 0x87; U2 0x20 0x00; U2 0x20 0x00; U2 0xD8 0xAD;
   U2 0xD8 0xB7; U2 0xD9 0x8A; U2 0xD9 0x83; U2 0x20 0x00;
   U2 0xD9 0x85; U2 0xD9 0x86; U2 0xD8 0xB3; U2 0xD8 0xB9;
   U2 0xD9 0x81; U2 0xD8 0xB5; U2 0xD9 0x82; U2 0x20 0x00;
   U2 0xD8 0xB4; U2 0xD8 0xAA; U2 0xD8 0xAB; U2 0xD8 0xAE;
   U2 0x20 0x00; U2 0xD8 0xB6; U2 0xD8 0xB8; U2 0xD8 0xBA;
   U2 0xD9 0xAE; U2 0x20 0x00; U2 0xDA 0xA1; U2 0x20 0x00].

Definition PLANE_4_F0_9E_2_BA : Plane2Bytes :=
  [U2 0xD8 0xA7; U2 0xD8 0xA8; U2 0xD8 0xAC; U2 0xD8 0xAF;
   U2 0xD9 0x87; U2 0xD9 0x88; U2 0xD8 0xB2; U2 0xD8 0xAD;
   U2 0xD8 0xB7; U2 0xD9 0x8A; U2 0x20 0x00; U2 0xD9 0x84;
   U2 0xD9 0x85; U2 0xD9 0x86; U2 0xD8 0xB3; U2 0xD8 0xB9;
   U2 0xD9 0x81; U2 0xD8 0xB5; U2 0xD9 0x82; U2 0xD8 0xB1;
   U2 0xD8 0xB4; U2 0xD8 0xAA; U2 0xD8 0xAB; U2 0xD8 0xAE;
   U2 0xD8 0xB0; U2 0xD8 0xB6; U2 0xD8 0xB8; U2 0xD8 0xBA;
   U2 0x20 0x00; U2 0x20 0x00; U2 0x20 0x00; U2 0x20 0x00;
   U2 0x20 0x00; U2 0xD8 0xA8; U2 0xD8 0xAC; U2 0xD8 0xAF;
   U2 0x20 0x00; U2 0xD9 0x88; U2 0xD8 0xB2; U2 0xD8 0xAD;
   U2 0xD8 0xB7; U2 0xD9 0x8A; U2 0x20 0x00; U2 0xD9 0x84;
   U2 0xD9 0x85; U2 0xD9 0x86; U2 0xD8 0xB3; U2 0xD8 0xB9;
   U2 0xD9 0x81; U2 0xD8 0xB5; U2 0xD9 0x82; U2 0xD8 0xB1;
   U2 0xD8 0xB4; U2 0xD8 0xAA; U2 0xD8 0xAB; U2 0xD8 0xAE;
   U2 0xD8 0xB0; U2 0xD8 0xB6; U2 0xD8 0xB8; U2 0xD8 0xBA;
   U2 0x20 0x00; U2 0x20 0x00; U2 0x20 0x00; U2 0x20 0x00].

Definition TABLE_4_F0_9E_2 : list Plane2Bytes :=
  [PLANE_4_F0_9E_2_B8; PLANE_4_F0_9E_2_B9; PLANE_4_F0_9E_2_BA].

Definition PLANE_4_F0_9F_84 : Plane4Bytes :=
  [U4 0x30 0x20 0x00 0x00; U4 0x30 0x20 0x00 0x00; U4 0x31 0x20 0x00 0x00; U4 0x32 0x20 0x00 0x00;
   U4 0x33 0x20 0x00 0x00; U4 0x34 0x20 0x00 0x00; U4 0x35 0x20 0x00 0x00; U4 0x36 0x20 0x00 0x00;
   U4 0x37 0x20 0x00 0x00; U4 0x38 0x20 0x00 0x00; U4 0x39 0x20 0x00 0x00; U4 0xF0 0x9F 0x84 0x8B;
   U4 0xF0 0x9F 0x84 0x8C; U4 0x20 0x00 0x00 0x00; U4 0x20 0x00 0x00 0x00; U4 0x20 0x00 0x00 0x00;
   U4 0x20 0x61 0x20 0x00; U4 0x20 0x62 0x20 0x00; U4 0x20 0x63 0x20 0x00; U4 0x20 0x64 0x20 0x00;
   U4 0x20 0x65 0x20 0x00; U4 0x20 0x66 0x20 0x00; U4 0x20 0x67 0x20 0x00; U4 0x20 0x68 0x20 0x00;
   U4 0x20 0x69 0x20 0x00; U4 0x20 0x6A 0x20 0x00; U4 0x20 0x6B 0x20 0x00; U4 0x20 0x6C 0x20 0x00;
   U4 0x20 0x6D 0x20 0x00; U4 0x20 0x6E 0x20 0x00; U4 0x20 0x6F 0x20 0x00; U4 0x20 0x70 0x20 0x00;
   U4 0x20 0x71 0x20 0x00; U4 0x20 0x72 0x20 0x00; U4 0x20 0x73 0x20 0x00; U4 0x20 0x74 0x20 0x00;
   U4 0x20 0x75 0x20 0x00; U4 0x20 0x76 0x20 0x00; U4 0x20 0x77 0x20 0x00; U4 0x20 0x78 0x20 0x00;
   U4 0x20 0x79 0x20 0x00; U4 0x20 0x7A 0x20 0x00; U4 0x20 0x73 0x20 0x00; U4 0x63 0x00 0x00 0x00;
   U4 0x72 0x00 0x00 0x00; U4 0x63 0x64 0x00 0x00; U4 0x77 0x7A 0x00 0x00; U4 0x20 0x00 0x00 0x00;
   U4 0x61 0x00 0x00 0x00; U4 0x62 0x00 0x00 0x00; U4 0x63 0x00 0x00 0x00; U4 0x64 0x00 0x00 0x00;
   U4 0x65 0x00 0x00 0x00; U4 0x66 0x00 0x00 0x00; U4 0x67 0x00 0x00 0x00; U4 0x68 0x00 0x00 0x00;
   U4 0x69 0x00 0x00 0x00; U4 0x6A 0x00 0x00 0x00; U4 0x6B 0x00 0x00 0x00; U4 0x6C 0x00 0x00 0x00;
   U4 0x6D 0x00 0x00 0x00; U4 0x6E 0x00 0x00 0x00; U4 0x6F 0x00 0x00 0x00; U4 0x70 0x00 0x00 0x00].

Definition PLANE_4_F0_9F_85 : Plane4Bytes :=
  [U4 0x71 0x00 0x00 0x00; U4 0x72 0x00 0x00 0x00; U4 0x73 0x00 0x00 0x00; U4 0x74 0x00 0x00 0x00;
   U4 0x75 0x00 0x00 0x00; U4 0x76 0x00 0x00 0x00; U4 0x77 0x00 0x00 0x00; U4 0x78 0x00 0x00 0x00;
   U4 0x79 0x00 0x00 0x00; U4 0x7A 0x00 0x00 0x00; U4 0x68 0x76 0x00 0x00; U4 0x6D 0x76 0x00 0x00;
   U4 0x73 0x64 0x00 0x00; U4 0x73 0x73 0x00 0x00; U4 0x70 0x70 0x76 0x00; U4 0x77 0x63 0x00 0x00;
   U4 0x20 0x00 0x00 0x00; U4 0x20 0x00 0x00 0x00; U4 0x20 0x00 0x00 0x00; U4 0x20 0x00 0x00 0x00;
   U4 0x20 0x00 0x00 0x00; U4 0x20 0x00 0x00 0x00; U4 0x20 0x00 0x00 0x00; U4 0x20 0x00 0x00 0x00;
   U4 0x20 0x00 0x00 0x00; U4 0x20 0x00 0x00 0x00; U4 0x20 0x00 0x00 0x00; U4 0x20 0x00 0x00 0x00;
   U4 0x20 0x00 0x00 0x00; U4 0x20 0x00 0x00 0x00; U4 0x20 0x00 0x00 0x00; U4 0x20 0x00 0x00 0x00;
   U4 0x20 0x00 0x00 0x00; U4 0x20 0x00 0x00 0x00; U4 0x20 0x00 0x00 0x00; U4 0x20 0x00 0x00 0x00;
   U4 0x20 0x00 0x00 0x00; U4 0x20 0x00 0x00 0x00; U4 0x20 0x00 0x00 0x00; U4 0x20 0x00 0x00 0x00;
   U4 0x20 0x00 0x00 0x00; U4 0x20 0x00 0x00 0x00; U4 0x6D 0x63 0x00 0x00; U4 0x6D 0x64 0x00 0x00;
   U4 0x20 0x00 0x00 0x00; U4 0x20 0x00 0x00 0x00; U4 0x20 0x00 0x00 0x00; U4 0x20 0x00 0x00 0x00;
   U4 0x20 0x00 0x00 0x00; U4 0x20 0x00 0x00 0x00; U4 0x20 0x00 0x00 0x00; U4 0x20 0x00 0x00 0x00;
   U4 0x20 0x00 0x00 0x00; U4 0x20 0x00 0x00 0x00; U4 0x20 0x00 0x00 0x00; U4 0x20 0x00 0x00 0x00;
   U4 0x20 0x00 0x00 0x00; U4 0x20 0x00 0x00 0x00; U4 0x20 0x00 0x00 0x00; U4 0x20 0x00 0x00 0x00;
   U4 0x20 0x00 0x00 0x00; U4 0x20 0x00 0x00 0x00; U4 0x20 0x00 0x00 0x00; U4 0x20 0x00 0x00 0x00].

Definition PLANE_4_F0_9F_86 : Plane4Bytes :=
  [U4 0x20 0x00 0x00 0x00; U4 0x20 0x00 0x00 0x00; U4 0x20 0x00 0x00 0x00; U4 0x20 0x00 0x00 0x00;
   U4 0x20 0x00 0x00 0x00; U4 0x20 0x00 0x00 0x00; U4 0x20 0x00 0x00 0x00; U4 0x20 0x00 0x00 0x00;
   U4 0x20 0x00 0x00 0x00; U4 0x20 0x00 0x00 0x00; U4 0x20 0x00 0x00 0x00; U4 0x20 0x00 0x00 0x00;
   U4 0x20 0x00 0x00 0x00; U4 0x20 0x00 0x00 0x00; U4 0x20 0x00 0x00 0x00; U4 0x20 0x00 0x00 0x00;
   U4 0x64 0x6A 0x00 0x00; U4 0x20 0x00 0x00 0x00; U4 0x20 0x00 0x00 0x00; U4 0x20 0x00 0x00 0x00;
   U4 0x20 0x00 0x00 0x00; U4 0x20 0x00 0x00 0x00; U4 0x20 0x00 0x00 0x00; U4 0x20 0x00 0x00 0x00;
   U4 0x20 0x00 0x00 0x00; U4 0x20 0x00 0x00 0x00; U4 0x20 0x00 0x00 0x00; U4 0x20 0x00 0x00 0x00;
   U4 0x20 0x00 0x00 0x00; U4 0x20 0x00 0x00 0x00; U4 0x20 0x00 0x00 0x00; U4 0x20 0x00 0x00 0x00;
   U4 0x20 0x00 0x00 0x00; U4 0x20 0x00 0x00 0x00; U4 0x20 0x00 0x00 0x00; U4 0x20 0x00 0x00 0x00;
   U4 0x20 0x00 0x00 0x00; U4 0x20 0x00 0x00 0x00; U4 0x20 0x00 0x00 0x00; U4 0x20 0x00 0x00 0x00;
   U4 0x20 0x00 0x00 0x00; U4 0x20 0x00 0x00 0x00; U4 0x20 0x00 0x00 0x00; U4 0x20 0x00 0x00 0x00;
   U4 0x20 0x00 0x00 0x00; U4 0x20 0x00 0x00 0x00; U4 0x20 0x00 0x00 0x00; U4 0x20 0x00 0x00 0x00;
   U4 0x20 0x00 0x00 0x00; U4 0x20 0x00 0x00 0x00; U4 0x20 0x00 0x00 0x00; U4 0x20 0x00 0x00 0x00;
   U4 0x20 0x00 0x00 0x00; U4 0x20 0x00 0x00 0x00; U4 0x20 0x00 0x00 0x00; U4 0x20 0x00 0x00 0x00;
   U4 0x20 0x00 0x00 0x00; U4 0x20 0x00 0x00 0x00; U4 0x20 0x00 0x00 0x00; U4 0x20 0x00 0x00 0x00;
   U4 0x20 0x00 0x00 0x00; U4 0x20 0x00 0x00 0x00; U4 0x20 0x00 0x00 0x00; U4 0x20 0x00 0x00 0x00].

Definition PLANE_4_F0_9F_87 : Plane4Bytes :=
  [U4 0x20 0x00 0x00 0x00; U4 0x20 0x00 0x00 0x00; U4 0x20 0x00 0x00 0x00; U4 0x20 0x00 0x00 0x00;
   U4 0x20 0x00 0x00 0x00; U4 0x20 0x00 0x00 0x00; U4 0x20 0x00 0x00 0x00; U4 0x20 0x00 0x00 0x00;
   U4 0x20 0x00 0x00 0x00; U4 0x20 0x00 0x00 0x00; U4 0x20 0x00 0x00 0x00; U4 0x20 0x00 0x00 0x00;
   U4 0x20 0x00 0x00 0x00; U4 0x20 0x00 0x00 0x00; U4 0x20 0x00 0x00 0x00; U4 0x20 0x00 0x00 0x00;
   U4 0x20 0x00 0x00 0x00; U4 0x20 0x00 0x00 0x00; U4 0x20 0x00 0x00 0x00; U4 0x20 0x00 0x00 0x00;
   U4 0x20 0x00 0x00 0x00; U4 0x20 0x00 0x00 0x00; U4 0x20 0x00 0x00 0x00; U4 0x20 0x00 0x00 0x00;
   U4 0x20 0x00 0x00 0x00; U4 0x20 0x00 0x00 0x00; U4 0x20 0x00 0x00 0x00; U4 0x20 0x00 0x00 0x00;
   U4 0x20 0x00 0x00 0x00; U4 0x20 0x00 0x00 0x00; U4 0x20 0x00 0x00 0x00; U4 0x20 0x00 0x00 0x00;
   U4 0x20 0x00 0x00 0x00; U4 0x20 0x00 0x00 0x00; U4 0x20 0x00 0x00 0x00; U4 0x20 0x00 0x00 0x00;
   U4 0x20 0x00 0x00 0x00; U4 0x20 0x00 0x00 0x00; U4 0x20 0x00 0x00 0x00; U4 0x20 0x00 0x00 0x00;
   U4 0x20 0x00 0x00 0x00; U4 0x20 0x00 0x00 0x00; U4 0x20 0x00 0x00 0x00; U4 0x20 0x00 0x00 0x00;
   U4 0x20 0x00 0x00 0x00; U4 0x20 0x00 0x00 0x00; U4 0x20 0x00 0x00 0x00; U4 0x20 0x00 0x00 0x00;
   U4 0x20 0x00 0x00 0x00; U4 0x20 0x00 0x00 0x00; U4 0x20 0x00 0x00 0x00; U4 0x20 0x00 0x00 0x00;
   U4 0x20 0x00 0x00 0x00; U4 0x20 0x00 0x00 0x00; U4 0x20 0x00 0x00 0x00; U4 0x20 0x00 0x00 0x00;
   U4 0x20 0x00 0x00 0x00; U4 0x20 0x00 0x00 0x00; U4 0x20 0x00 0x00 0x00; U4 0x20 0x00 0x00 0x00;
   U4 0x20 0x00 0x00 0x00; U4 0x20 0x00 0x00 0x00; U4 0x20 0x00 0x00 0x00; U4 0x20 0x00 0x00 0x00].

Definition PLANE_4_F0_9F_88 : Plane4Bytes :=
  [U4 0x00 0x01 0x00 0x00; U4 0x00 0x02 0x00 0x00; U4 0xE3 0x82 0xB5 0x00; U4 0x20 0x00 0x00 0x00;
   U4 0x20 0x00 0x00 0x00; U4 0x20 0x00 0x00 0x00; U4 0x20 0x00 0x00 0x00; U4 0x20 0x00 0x00 0x00;
   U4 0x20 0x00 0x00 0x00; U4 0x20 0x00 0x00 0x00; U4 0x20 0x00 0x00 0x00; U4 0x20 0x00 0x00 0x00;
   U4 0x20 0x00 0x00 0x00; U4 0x20 0x00 0x00 0x00; U4 0x20 0x00 0x00 0x00; U4 0x20 0x00 0x00 0x00;
   U4 0xE6 0x89 0x8B 0x00; U4 0xE5 0xAD 0x97 0x00; U4 0xE5 0x8F 0x8C 0x00; U4 0xE3 0x83 0x86 0x00;
   U4 0xE4 0xBA 0x8C 0x00; U4 0xE5 0xA4 0x9A 0x00; U4 0xE8 0xA7 0xA3 0x00; U4 0xE5 0xA4 0xA9 0x00;
   U4 0xE4 0xBA 0xA4 0x00; U4 0xE6 0x98 0xA0 0x00; U4 0xE7 0x84 0xA1 0x00; U4 0xE6 0x96 0x99 0x00;
   U4 0xE5 0x89 0x8D 0x00; U4 0xE5 0xBE 0x8C 0x00; U4 0xE5 0x86 0x8D 0x00; U4 0xE6 0x96 0xB0 0x00;
   U4 0xE5 0x88 0x9D 0x00; U4 0xE7 0xB5 0x82 0x00; U4 0xE7 0x94 0x9F 0x00; U4 0xE8 0xB2 0xA9 0x00;
   U4 0xE5 0xA3 0xB0 0x00; U4 0xE5 0x90 0xB9 0x00; U4 0xE6 0xBC 0x94 0x00; U4 0xE6 0x8A 0x95 0x00;
   U4 0xE6 0x8D 0x95 0x00; U4 0xE4 0xB8 0x80 0x00; U4 0xE4 0xB8 0x89 0x00; U4 0xE9 0x81 0x8A 0x00;
   U4 0xE5 0xB7 0xA6 0x00; U4 0xE4 0xB8 0xAD 0x00; U4 0xE5 0x8F 0xB3 0x00; U4 0xE6 0x8C 0x87 0x00;
   U4 0xE8 0xB5 0xB0 0x00; U4 0xE6 0x89 0x93 0x00; U4 0xE7 0xA6 0x81 0x00; U4 0xE7 0xA9 0xBA 0x00;
   U4 0xE5 0x90 0x88 0x00; U4 0xE6 0xBA 0x80 0x00; U4 0xE6 0x9C 0x89 0x00; U4 0xE6 0x9C 0x88 0x00;
   U4 0xE7 0x94 0xB3 0x00; U4 0xE5 0x89 0xB2 0x00; U4 0xE5 0x96 0xB6 0x00; U4 0x20 0x00 0x00 0x00;
   U4 0x20 0x00 0x00 0x00; U4 0x20 0x00 0x00 0x00; U4 0x20 0x00 0x00 0x00; U4 0x20 0x00 0x00 0x00].

Definition PLANE_4_F0_9F_89 : Plane4Bytes :=
  [U4 0x00 0x03 0x00 0x00; U4 0x00 0x04 0x00 0x00; U4 0x00 0x05 0x00 0x00; U4 0x00 0x06 0x00 0x00;
   U4 0x00 0x07 0x00 0x00; U4 0x00 0x08 0x00 0x00; U4 0x00 0x09 0x00 0x00; U4 0x00 0x0A 0x00 0x00;
   U4 0x00 0x0B 0x00 0x00; U4 0x20 0x00 0x00 0x00; U4 0x20 0x00 0x00 0x00; U4 0x20 0x00 0x00 0x00;
   U4 0x20 0x00 0x00 0x00; U4 0x20 0x00 0x00 0x00; U4 0x20 0x00 0x00 0x00; U4 0x20 0x00 0x00 0x00;
   U4 0xE5 0xBE 0x97 0x00; U4 0xE5 0x8F 0xAF 0x00; U4 0x20 0x00 0x00 0x00; U4 0x20 0x00 0x00 0x00;
   U4 0x20 0x00 0x00 0x00; U4 0x20 0x00 0x00 0x00; U4 0x20 0x00 0x00 0x00; U4 0x20 0x00 0x00 0x00;
   U4 0x20 0x00 0x00 0x00; U4 0x20 0x00 0x00 0x00; U4 0x20 0x00 0x00 0x00; U4 0x20 0x00 0x00 0x00;
   U4 0x20 0x00 0x00 0x00; U4 0x20 0x00 0x00 0x00; U4 0x20 0x00 0x00 0x00; U4 0x20 0x00 0x00 0x00;
   U4 0x20 0x00 0x00 0x00; U4 0x20 0x00 0x00 0x00; U4 0x20 0x00 0x00 0x00; U4 0x20 0x00 0x00 0x00;
   U4 0x20 0x00 0x00 0x00; U4 0x20 0x00 0x00 0x00; U4 0x20 0x00 0x00 0x00; U4 0x20 0x00 0x00 0x00;
   U4 0x20 0x00 0x00 0x00; U4 0x20 0x00 0x00 0x00; U4 0x20 0x00 0x00 0x00; U4 0x20 0x00 0x00 0x00;
   U4 0x20 0x00 0x00 0x00; U4 0x20 0x00 0x00 0x00; U4 0x20 0x00 0x00 0x00; U4 0x20 0x00 0x00 0x00;
   U4 0x20 0x00 0x00 0x00; U4 0x20 0x00 0x00 0x00; U4 0x20 0x00 0x00 0x00; U4 0x20 0x00 0x00 0x00;
   U4 0x20 0x00 0x00 0x00; U4 0x20 0x00 0x00 0x00; U4 0x20 0x00 0x00 0x00; U4 0x20 0x00 0x00 0x00;
   U4 0x20 0x00 0x00 0x00; U4 0x20 0x00 0x00 0x00; U4 0x20 0x00 0x00 0x00; U4 0x20 0x00 0x00 0x00;
   U4 0x20 0x00 0x00 0x00; U4 0x20 0x00 0x00 0x00; U4 0x20 0x00 0x00 0x00; U4 0x20 0x00 0x00 0x00].

Definition TABLE_4_F0_9F : list Plane4Bytes :=
  [PLANE_4_F0_9F_84; PLANE_4_F0_9F_85; PLANE_4_F0_9F_86; PLANE_4_F0_9F_87;
   PLANE_4_F0_9F_88; PLANE_4_F0_9F_89].

Definition TABLE_4_F0_9F_ : list (list Z) :=
  [[];
   [0xE3; 0x81; 0xBB; 0xE3; 0x81; 0x8B];
   [0xE3; 0x82; 0xB3; 0xE3; 0x82; 0xB3];
   [0x20; 0xE6; 0x9C; 0xAC; 0x20];
   [0x20; 0xE4; 0xB8; 0x89; 0x20];
   [0x20; 0xE4; 0xBA; 0x8C; 0x20];
   [0x20; 0xE5; 0xAE; 0x89; 0x20];
   [0x20; 0xE7; 0x82; 0xB9; 0x20];
   [0x20; 0xE6; 0x89; 0x93; 0x20];
   [0x20; 0xE7; 0x9B; 0x97; 0x20];
   [0x20; 0xE5; 0x8B; 0x9D; 0x20];
   [0x20; 0xE6; 0x95; 0x97; 0x20]].

Definition PLANE_4_F0_AF_A0 : Plane4Bytes :=
  [U4 0xE4 0xB8 0xBD 0x00; U4 0xE4 0xB8 0xB8 0x00; U4 0xE4 0xB9 0x81 0x00; U4 0xF0 0xA0 0x84 0xA2;
   U4 0xE4 0xBD 0xA0 0x00; U4 0xE4 0xBE 0xAE 0x00; U4 0xE4 0xBE 0xBB 0x00; U4 0xE5 0x80 0x82 0x00;
   U4 0xE5 0x81 0xBA 0x00; U4 0xE5 0x82 0x99 0x00; U4 0xE5 0x83 0xA7 0x00; U4 0xE5 0x83 0x8F 0x00;
   U4 0xE3 0x92 0x9E 0x00; U4 0xF0 0xA0 0x98 0xBA; U4 0xE5 0x85 0x8D 0x00; U4 0xE5 0x85 0x94 0x00;
   U4 0xE5 0x85 0xA4 0x00; U4 0xE5 0x85 0xB7 0x00; U4 0xF0 0xA0 0x94 0x9C; U4 0xE3 0x92 0xB9 0x00;
   U4 0xE5 0x85 0xA7 0x00; U4 0xE5 0x86 0x8D 0x00; U4 0xF0 0xA0 0x95 0x8B; U4 0xE5 0x86 0x97 0x00;
   U4 0xE5 0x86 0xA4 0x00; U4 0xE4 0xBB 0x8C 0x00; U4 0xE5 0x86 0xAC 0x00; U4 0xE5 0x86 0xB5 0x00;
   U4 0xF0 0xA9 0x87 0x9F; U4 0xE5 0x87 0xB5 0x00; U4 0xE5 0x88 0x83 0x00; U4 0xE3 0x93 0x9F 0x00;
   U4 0xE5 0x88 0xBB 0x00; U4 0xE5 0x89 0x86 0x00; U4 0xE5 0x89 0xB2 0x00; U4 0xE5 0x89 0xB7 0x00;
   U4 0xE3 0x94 0x95 0x00; U4 0xE5 0x8B 0x87 0x00; U4 0xE5 0x8B 0x89 0x00; U4 0xE5 0x8B 0xA4 0x00;
   U4 0xE5 0x8B 0xBA 0x00; U4 0xE5 0x8C 0x85 0x00; U4 0xE5 0x8C 0x86 0x00; U4 0xE5 0x8C 0x97 0x00;
   U4 0xE5 0x8D 0x89 0x00; U4 0xE5 0x8D 0x91 0x00; U4 0xE5 0x8D 0x9A 0x00; U4 0xE5 0x8D 0xB3 0x00;
   U4 0xE5 0x8D 0xBD 0x00; U4 0xE5 0x8D 0xBF 0x00; U4 0xE5 0x8D 0xBF 0x00; U4 0xE5 0x8D 0xBF 0x00;
   U4 0xF0 0xA0 0xA8 0xAC; U4 0xE7 0x81 0xB0 0x00; U4 0xE5 0x8F 0x8A 0x00; U4 0xE5 0x8F 0x9F 0x00;
   U4 0xF0 0xA0 0xAD 0xA3; U4 0xE5 0x8F 0xAB 0x00; U4 0xE5 0x8F 0xB1 0x00; U4 0xE5 0x90 0x86 0x00;
   U4 0xE5 0x92 0x9E 0x00; U4 0xE5 0x90 0xB8 0x00; U4 0xE5 0x91 0x88 0x00; U4 0xE5 0x91 0xA8 0x00].

Definition PLANE_4_F0_AF_A1 : Plane4Bytes :=
  [U4 0xE5 0x92 0xA2 0x00; U4 0xE5 0x93 0xB6 0x00; U4 0xE5 0x94 0x90 0x00; U4 0xE5 0x95 0x93 0x00;
   U4 0xE5 0x95 0xA3 0x00; U4 0xE5 0x96 0x84 0x00; U4 0xE5 0x96 0x84 0x00; U4 0xE5 0x96 0x99 0x00;
   U4 0xE5 0x96 0xAB 0x00; U4 0xE5 0x96 0xB3 0x00; U4 0xE5 0x97 0x82 0x00; U4 0xE5 0x9C 0x96 0x00;
   U4 0xE5 0x98 0x86 0x00; U4 0xE5 0x9C 0x97 0x00; U4 0xE5 0x99 0x91 0x00; U4 0xE5 0x99 0xB4 0x00;
   U4 0xE5 0x88 0x87 0x00; U4 0xE5 0xA3 0xAE 0x00; U4 0xE5 0x9F 0x8E 0x00; U4 0xE5 0x9F 0xB4 0x00;
   U4 0xE5 0xA0 0x8D 0x00; U4 0xE5 0x9E 0x8B 0x00; U4 0xE5 0xA0 0xB2 0x00; U4 0xE5 0xA0 0xB1 0x00;
   U4 0xE5 0xA2 0xAC 0x00; U4 0xF0 0xA1 0x93 0xA4; U4 0xE5 0xA3 0xB2 0x00; U4 0xE5 0xA3 0xB7 0x00;
   U4 0xE5 0xA4 0x86 0x00; U4 0xE5 0xA4 0x9A 0x00; U4 0xE5 0xA4 0xA2 0x00; U4 0xE5 0xA5 0xA2 0x00;
   U4 0xF0 0xA1 0x9A 0xA8; U4 0xF0 0xA1 0x9B 0xAA; U4 0xE5 0xA7 0xAC 0x00; U4 0xE5 0xA8 0x9B 0x00;
   U4 0xE5 0xA8 0xA7 0x00; U4 0xE5 0xA7 0x98 0x00; U4 0xE5 0xA9 0xA6 0x00; U4 0xE3 0x9B 0xAE 0x00;
   U4 0xE3 0x9B 0xBC 0x00; U4 0xE5 0xAC 0x88 0x00; U4 0xE5 0xAC 0xBE 0x00; U4 0xE5 0xAC 0xBE 0x00;
   U4 0xF0 0xA1 0xA7 0x88; U4 0xE5 0xAF 0x83 0x00; U4 0xE5 0xAF 0x98 0x00; U4 0xE5 0xAF 0xA7 0x00;
   U4 0xE5 0xAF 0xB3 0x00; U4 0xF0 0xA1 0xAC 0x98; U4 0xE5 0xAF 0xBF 0x00; U4 0xE5 0xB0 0x86 0x00;
   U4 0xE5 0xBD 0x93 0x00; U4 0xE5 0xB0 0xA2 0x00; U4 0xE3 0x9E 0x81 0x00; U4 0xE5 0xB1 0xA0 0x00;
   U4 0xE5 0xB1 0xAE 0x00; U4 0xE5 0xB3 0x80 0x00; U4 0xE5 0xB2 0x8D 0x00; U4 0xF0 0xA1 0xB7 0xA4;
   U4 0xE5 0xB5 0x83 0x00; U4 0xF0 0xA1 0xB7 0xA6; U4 0xE5 0xB5 0xAE 0x00; U4 0xE5 0xB5 0xAB 0x00].

Definition PLANE_4_F0_AF_A2 : Plane4Bytes :=
  [U4 0xE5 0xB5 0xBC 0x00; U4 0xE5 0xB7 0xA1 0x00; U4 0xE5 0xB7 0xA2 0x00; U4 0xE3 0xA0 0xAF 0x00;
   U4 0xE5 0xB7 0xBD 0x00; U4 0xE5 0xB8 0xA8 0x00; U4 0xE5 0xB8 0xBD 0x00; U4 0xE5 0xB9 0xA9 0x00;
   U4 0xE3 0xA1 0xA2 0x00; U4 0xF0 0xA2 0x86 0x83; U4 0xE3 0xA1 0xBC 0x00; U4 0xE5 0xBA 0xB0 0x00;
   U4 0xE5 0xBA 0xB3 0x00; U4 0xE5 0xBA 0xB6 0x00; U4 0xE5 0xBB 0x8A 0x00; U4 0xF0 0xAA 0x8E 0x92;
   U4 0xE5 0xBB 0xBE 0x00; U4 0xF0 0xA2 0x8C 0xB1; U4 0xF0 0xA2 0x8C 0xB1; U4 0xE8 0x88 0x81 0x00;
   U4 0xE5 0xBC 0xA2 0x00; U4 0xE5 0xBC 0xA2 0x00; U4 0xE3 0xA3 0x87 0x00; U4 0xF0 0xA3 0x8A 0xB8;
   U4 0xF0 0xA6 0x87 0x9A; U4 0xE5 0xBD 0xA2 0x00; U4 0xE5 0xBD 0xAB 0x00; U4 0xE3 0xA3 0xA3 0x00;
   U4 0xE5 0xBE 0x9A 0x00; U4 0xE5 0xBF 0x8D 0x00; U4 0xE5 0xBF 0x97 0x00; U4 0xE5 0xBF 0xB9 0x00;
   U4 0xE6 0x82 0x81 0x00; U4 0xE3 0xA4 0xBA 0x00; U4 0xE3 0xA4 0x9C 0x00; U4 0xE6 0x82 0x94 0x00;
   U4 0xF0 0xA2 0x9B 0x94; U4 0xE6 0x83 0x87 0x00; U4 0xE6 0x85 0x88 0x00; U4 0xE6 0x85 0x8C 0x00;
   U4 0xE6 0x85 0x8E 0x00; U4 0xE6 0x85 0x8C 0x00; U4 0xE6 0x85 0xBA 0x00; U4 0xE6 0x86 0x8E 0x00;
   U4 0xE6 0x86 0xB2 0x00; U4 0xE6 0x86 0xA4 0x00; U4 0xE6 0x86 0xAF 0x00; U4 0xE6 0x87 0x9E 0x00;
   U4 0xE6 0x87 0xB2 0x00; U4 0xE6 0x87 0xB6 0x00; U4 0xE6 0x88 0x90 0x00; U4 0xE6 0x88 0x9B 0x00;
   U4 0xE6 0x89 0x9D 0x00; U4 0xE6 0x8A 0xB1 0x00; U4 0xE6 0x8B 0x94 0x00; U4 0xE6 0x8D 0x90 0x00;
   U4 0xF0 0xA2 0xAC 0x8C; U4 0xE6 0x8C 0xBD 0x00; U4 0xE6 0x8B 0xBC 0x00; U4 0xE6 0x8D 0xA8 0x00;
   U4 0xE6 0x8E 0x83 0x00; U4 0xE6 0x8F 0xA4 0x00; U4 0xF0 0xA2 0xAF 0xB1; U4 0xE6 0x90 0xA2 0x00].

Definition PLANE_4_F0_AF_A3 : Plane4Bytes :=
  [U4 0xE6 0x8F 0x85 0x00; U4 0xE6 0x8E 0xA9 0x00; U4 0xE3 0xA8 0xAE 0x00; U4 0xE6 0x91 0xA9 0x00;
   U4 0xE6 0x91 0xBE 0x00; U4 0xE6 0x92 0x9D 0x00; U4 0xE6 0x91 0xB7 0x00; U4 0xE3 0xA9 0xAC 0x00;
   U4 0xE6 0x95 0x8F 0x00; U4 0xE6 0x95 0xAC 0x00; U4 0xF0 0xA3 0x80 0x8A; U4 0xE6 0x97 0xA3 0x00;
   U4 0xE6 0x9B 0xB8 0x00; U4 0xE6 0x99 0x89 0x00; U4 0xE3 0xAC 0x99 0x00; U4 0xE6 0x9A 0x91 0x00;
   U4 0xE3 0xAC 0x88 0x00; U4 0xE3 0xAB 0xA4 0x00; U4 0xE5 0x86 0x92 0x00; U4 0xE5 0x86 0x95 0x00;
   U4 0xE6 0x9C 0x80 0x00; U4 0xE6 0x9A 0x9C 0x00; U4 0xE8 0x82 0xAD 0x00; U4 0xE4 0x8F 0x99 0x00;
   U4 0xE6 0x9C 0x97 0x00; U4 0xE6 0x9C 0x9B 0x00; U4 0xE6 0x9C 0xA1 0x00; U4 0xE6 0x9D 0x9E 0x00;
   U4 0xE6 0x9D 0x93 0x00; U4 0xF0 0xA3 0x8F 0x83; U4 0xE3 0xAD 0x89 0x00; U4 0xE6 0x9F 0xBA 0x00;
   U4 0xE6 0x9E 0x85 0x00; U4 0xE6 0xA1 0x92 0x00; U4 0xE6 0xA2 0x85 0x00; U4 0xF0 0xA3 0x91 0xAD;
   U4 0xE6 0xA2 0x8E 0x00; U4 0xE6 0xA0 0x9F 0x00; U4 0xE6 0xA4 0x94 0x00; U4 0xE3 0xAE 0x9D 0x00;
   U4 0xE6 0xA5 0x82 0x00; U4 0xE6 0xA6 0xA3 0x00; U4 0xE6 0xA7 0xAA 0x00; U4 0xE6 0xAA 0xA8 0x00;
   U4 0xF0 0xA3 0x9A 0xA3; U4 0xE6 0xAB 0x9B 0x00; U4 0xE3 0xB0 0x98 0x00; U4 0xE6 0xAC 0xA1 0x00;
   U4 0xF0 0xA3 0xA2 0xA7; U4 0xE6 0xAD 0x94 0x00; U4 0xE3 0xB1 0x8E 0x00; U4 0xE6 0xAD 0xB2 0x00;
   U4 0xE6 0xAE 0x9F 0x00; U4 0xE6 0xAE 0xBA 0x00; U4 0xE6 0xAE 0xBB 0x00; U4 0xF0 0xA3 0xAA 0x8D;
   U4 0xF0 0xA1 0xB4 0x8B; U4 0xF0 0xA3 0xAB 0xBA; U4 0xE6 0xB1 0x8E 0x00; U4 0xF0 0xA3 0xB2 0xBC;
   U4 0xE6 0xB2 0xBF 0x00; U4 0xE6 0xB3 0x8D 0x00; U4 0xE6 0xB1 0xA7 0x00; U4 0xE6 0xB4 0x96 0x00].

Definition PLANE_4_F0_AF_A4 : Plane4Bytes :=
  [U4 0xE6 0xB4 0xBE 0x00; U4 0xE6 0xB5 0xB7 0x00; U4 0xE6 0xB5 0x81 0x00; U4 0xE6 0xB5 0xA9 0x00;
   U4 0xE6 0xB5 0xB8 0x00; U4 0xE6 0xB6 0x85 0x00; U4 0xF0 0xA3 0xB4 0x9E; U4 0xE6 0xB4 0xB4 0x00;
   U4 0xE6 0xB8 0xAF 0x00; U4 0xE6 0xB9 0xAE 0x00; U4 0xE3 0xB4 0xB3 0x00; U4 0xE6 0xBB 0x8B 0x00;
   U4 0xE6 0xBB 0x87 0x00; U4 0xF0 0xA3 0xBB 0x91; U4 0xE6 0xB7 0xB9 0x00; U4 0xE6 0xBD 0xAE 0x00;
   U4 0xF0 0xA3 0xBD 0x9E; U4 0xF0 0xA3 0xBE 0x8E; U4 0xE6 0xBF 0x86 0x00; U4 0xE7 0x80 0xB9 0x00;
   U4 0xE7 0x80 0x9E 0x00; U4 0xE7 0x80 0x9B 0x00; U4 0xE3 0xB6 0x96 0x00; U4 0xE7 0x81 0x8A 0x00;
   U4 0xE7 0x81 0xBD 0x00; U4 0xE7 0x81 0xB7 0x00; U4 0xE7 0x82 0xAD 0x00; U4 0xF0 0xA0 0x94 0xA5;
   U4 0xE7 0x85 0x85 0x00; U4 0xF0 0xA4 0x89 0xA3; U4 0xE7 0x86 0x9C 0x00; U4 0xF0 0xA4 0x8E 0xAB;
   U4 0xE7 0x88 0xA8 0x00; U4 0xE7 0x88 0xB5 0x00; U4 0xE7 0x89 0x90 0x00; U4 0xF0 0xA4 0x98 0x88;
   U4 0xE7 0x8A 0x80 0x00; U4 0xE7 0x8A 0x95 0x00; U4 0xF0 0xA4 0x9C 0xB5; U4 0xF0 0xA4 0xA0 0x94;
   U4 0xE7 0x8D 0xBA 0x00; U4 0xE7 0x8E 0x8B 0x00; U4 0xE3 0xBA 0xAC 0x00; U4 0xE7 0x8E 0xA5 0x00;
   U4 0xE3 0xBA 0xB8 0x00; U4 0xE3 0xBA 0xB8 0x00; U4 0xE7 0x91 0x87 0x00; U4 0xE7 0x91 0x9C 0x00;
   U4 0xE7 0x91 0xB1 0x00; U4 0xE7 0x92 0x85 0x00; U4 0xE7 0x93 0x8A 0x00; U4 0xE3 0xBC 0x9B 0x00;
   U4 0xE7 0x94 0xA4 0x00; U4 0xF0 0xA4 0xB0 0xB6; U4 0xE7 0x94 0xBE 0x00; U4 0xF0 0xA4 0xB2 0x92;
   U4 0xE7 0x95 0xB0 0x00; U4 0xF0 0xA2 0x86 0x9F; U4 0xE7 0x98 0x90 0x00; U4 0xF0 0xA4 0xBE 0xA1;
   U4 0xF0 0xA4 0xBE 0xB8; U4 0xF0 0xA5 0x81 0x84; U4 0xE3 0xBF 0xBC 0x00; U4 0xE4 0x80 0x88 0x00].

Definition PLANE_4_F0_AF_A5 : Plane4Bytes :=
  [U4 0xE7 0x9B 0xB4 0x00; U4 0xF0 0xA5 0x83 0xB3; U4 0xF0 0xA5 0x83 0xB2; U4 0xF0 0xA5 0x84 0x99;
   U4 0xF0 0xA5 0x84 0xB3; U4 0xE7 0x9C 0x9E 0x00; U4 0xE7 0x9C 0x9F 0x00; U4 0xE7 0x9C 0x9F 0x00;
   U4 0xE7 0x9D 0x8A 0x00; U4 0xE4 0x80 0xB9 0x00; U4 0xE7 0x9E 0x8B 0x00; U4 0xE4 0x81 0x86 0x00;
   U4 0xE4 0x82 0x96 0x00; U4 0xF0 0xA5 0x90 0x9D; U4 0xE7 0xA1 0x8E 0x00; U4 0xE7 0xA2 0x8C 0x00;
   U4 0xE7 0xA3 0x8C 0x00; U4 0xE4 0x83 0xA3 0x00; U4 0xF0 0xA5 0x98 0xA6; U4 0xE7 0xA5 0x96 0x00;
   U4 0xF0 0xA5 0x9A 0x9A; U4 0xF0 0xA5 0x9B 0x85; U4 0xE7 0xA6 0x8F 0x00; U4 0xE7 0xA7 0xAB 0x00;
   U4 0xE4 0x84 0xAF 0x00; U4 0xE7 0xA9 0x80 0x00; U4 0xE7 0xA9 0x8A 0x00; U4 0xE7 0xA9 0x8F 0x00;
   U4 0xF0 0xA5 0xA5 0xBC; U4 0xF0 0xA5 0xAA 0xA7; U4 0xF0 0xA5 0xAA 0xA7; U4 0xE7 0xAB 0xAE 0x00;
   U4 0xE4 0x88 0x82 0x00; U4 0xF0 0xA5 0xAE 0xAB; U4 0xE7 0xAF 0x86 0x00; U4 0xE7 0xAF 0x89 0x00;
   U4 0xE4 0x88 0xA7 0x00; U4 0xF0 0xA5 0xB2 0x80; U4 0xE7 0xB3 0x92 0x00; U4 0xE4 0x8A 0xA0 0x00;
   U4 0xE7 0xB3 0xA8 0x00; U4 0xE7 0xB3 0xA3 0x00; U4 0xE7 0xB4 0x80 0x00; U4 0xF0 0xA5 0xBE 0x86;
   U4 0xE7 0xB5 0xA3 0x00; U4 0xE4 0x8C 0x81 0x00; U4 0xE7 0xB7 0x87 0x00; U4 0xE7 0xB8 0x82 0x00;
   U4 0xE7 0xB9 0x85 0x00; U4 0xE4 0x8C 0xB4 0x00; U4 0xF0 0xA6 0x88 0xA8; U4 0xF0 0xA6 0x89 0x87;
   U4 0xE4 0x8D 0x99 0x00; U4 0xF0 0xA6 0x8B 0x99; U4 0xE7 0xBD 0xBA 0x00; U4 0xF0 0xA6 0x8C 0xBE;
   U4 0xE7 0xBE 0x95 0x00; U4 0xE7 0xBF 0xBA 0x00; U4 0xE8 0x80 0x85 0x00; U4 0xF0 0xA6 0x93 0x9A;
   U4 0xF0 0xA6 0x94 0xA3; U4 0xE8 0x81 0xA0 0x00; U4 0xF0 0xA6 0x96 0xA8; U4 0xE8 0x81 0xB0 0x00].

Definition PLANE_4_F0_AF_A6 : Plane4Bytes :=
  [U4 0xF0 0xA3 0x8D 0x9F; U4 0xE4 0x8F 0x95 0x00; U4 0xE8 0x82 0xB2 0x00; U4 0xE8 0x84 0x83 0x00;
   U4 0xE4 0x90 0x8B 0x00; U4 0xE8 0x84 0xBE 0x00; U4 0xE5 0xAA 0xB5 0x00; U4 0xF0 0xA6 0x9E 0xA7;
   U4 0xF0 0xA6 0x9E 0xB5; U4 0xF0 0xA3 0x8E 0x93; U4 0xF0 0xA3 0x8E 0x9C; U4 0xE8 0x88 0x81 0x00;
   U4 0xE8 0x88 0x84 0x00; U4 0xE8 0xBE 0x9E 0x00; U4 0xE4 0x91 0xAB 0x00; U4 0xE8 0x8A 0x91 0x00;
   U4 0xE8 0x8A 0x8B 0x00; U4 0xE8 0x8A 0x9D 0x00; U4 0xE5 0x8A 0xB3 0x00; U4 0xE8 0x8A 0xB1 0x00;
   U4 0xE8 0x8A 0xB3 0x00; U4 0xE8 0x8A 0xBD 0x00; U4 0xE8 0x8B 0xA6 0x00; U4 0xF0 0xA6 0xAC 0xBC;
   U4 0xE8 0x8B 0xA5 0x00; U4 0xE8 0x8C 0x9D 0x00; U4 0xE8 0x8D 0xA3 0x00; U4 0xE8 0x8E 0xAD 0x00;
   U4 0xE8 0x8C 0xA3 0x00; U4 0xE8 0x8E 0xBD 0x00; U4 0xE8 0x8F 0xA7 0x00; U4 0xE8 0x91 0x97 0x00;
   U4 0xE8 0x8D 0x93 0x00; U4 0xE8 0x8F 0x8A 0x00; U4 0xE8 0x8F 0x8C 0x00; U4 0xE8 0x8F 0x9C 0x00;
   U4 0xF0 0xA6 0xB0 0xB6; U4 0xF0 0xA6 0xB5 0xAB; U4 0xF0 0xA6 0xB3 0x95; U4 0xE4 0x94 0xAB 0x00;
   U4 0xE8 0x93 0xB1 0x00; U4 0xE8 0x93 0xB3 0x00; U4 0xE8 0x94 0x96 0x00; U4 0xF0 0xA7 0x8F 0x8A;
   U4 0xE8 0x95 0xA4 0x00; U4 0xF0 0xA6 0xBC 0xAC; U4 0xE4 0x95 0x9D 0x00; U4 0xE4 0x95 0xA1 0x00;
   U4 0xF0 0xA6 0xBE 0xB1; U4 0xF0 0xA7 0x83 0x92; U4 0xE4 0x95 0xAB 0x00; U4 0xE8 0x99 0x90 0x00;
   U4 0xE8 0x99 0x9C 0x00; U4 0xE8 0x99 0xA7 0x00; U4 0xE8 0x99 0xA9 0x00; U4 0xE8 0x9A 0xA9 0x00;
   U4 0xE8 0x9A 0x88 0x00; U4 0xE8 0x9C 0x8E 0x00; U4 0xE8 0x9B 0xA2 0x00; U4 0xE8 0x9D 0xB9 0x00;
   U4 0xE8 0x9C 0xA8 0x00; U4 0xE8 0x9D 0xAB 0x00; U4 0xE8 0x9E 0x86 0x00; U4 0xE4 0x97 0x97 0x00].

Definition PLANE_4_F0_AF_A7 : Plane4Bytes :=
  [U4 0xE8 0x9F 0xA1 0x00; U4 0xE8 0xA0 0x81 0x00; U4 0xE4 0x97 0xB9 0x00; U4 0xE8 0xA1 0xA0 0x00;
   U4 0xE8 0xA1 0xA3 0x00; U4 0xF0 0xA7 0x99 0xA7; U4 0xE8 0xA3 0x97 0x00; U4 0xE8 0xA3 0x9E 0x00;
   U4 0xE4 0x98 0xB5 0x00; U4 0xE8 0xA3 0xBA 0x00; U4 0xE3 0x92 0xBB 0x00; U4 0xF0 0xA7 0xA2 0xAE;
   U4 0xF0 0xA7 0xA5 0xA6; U4 0xE4 0x9A 0xBE 0x00; U4 0xE4 0x9B 0x87 0x00; U4 0xE8 0xAA 0xA0 0x00;
   U4 0xE8 0xAB 0xAD 0x00; U4 0xE8 0xAE 0x8A 0x00; U4 0xE8 0xB1 0x95 0x00; U4 0xF0 0xA7 0xB2 0xA8;
   U4 0xE8 0xB2 0xAB 0x00; U4 0xE8 0xB3 0x81 0x00; U4 0xE8 0xB4 0x9B 0x00; U4 0xE8 0xB5 0xB7 0x00;
   U4 0xF0 0xA7 0xBC 0xAF; U4 0xF0 0xA0 0xA0 0x84; U4 0xE8 0xB7 0x8B 0x00; U4 0xE8 0xB6 0xBC 0x00;
   U4 0xE8 0xB7 0xB0 0x00; U4 0xF0 0xA0 0xA3 0x9E; U4 0xE8 0xBB 0x94 0x00; U4 0xE8 0xBC 0xB8 0x00;
   U4 0xF0 0xA8 0x97 0x92; U4 0xF0 0xA8 0x97 0xAD; U4 0xE9 0x82 0x94 0x00; U4 0xE9 0x83 0xB1 0x00;
   U4 0xE9 0x84 0x91 0x00; U4 0xF0 0xA8 0x9C 0xAE; U4 0xE9 0x84 0x9B 0x00; U4 0xE9 0x88 0xB8 0x00;
   U4 0xE9 0x8B 0x97 0x00; U4 0xE9 0x8B 0x98 0x00; U4 0xE9 0x89 0xBC 0x00; U4 0xE9 0x8F 0xB9 0x00;
   U4 0xE9 0x90 0x95 0x00; U4 0xF0 0xA8 0xAF 0xBA; U4 0xE9 0x96 0x8B 0x00; U4 0xE4 0xA6 0x95 0x00;
   U4 0xE9 0x96 0xB7 0x00; U4 0xF0 0xA8 0xB5 0xB7; U4 0xE4 0xA7 0xA6 0x00; U4 0xE9 0x9B 0x83 0x00;
   U4 0xE5 0xB6 0xB2 0x00; U4 0xE9 0x9C 0xA3 0x00; U4 0xF0 0xA9 0x85 0x85; U4 0xF0 0xA9 0x88 0x9A;
   U4 0xE4 0xA9 0xAE 0x00; U4 0xE4 0xA9 0xB6 0x00; U4 0xE9 0x9F 0xA0 0x00; U4 0xF0 0xA9 0x90 0x8A;
   U4 0xE4 0xAA 0xB2 0x00; U4 0xF0 0xA9 0x92 0x96; U4 0xE9 0xA0 0x8B 0x00; U4 0xE9 0xA0 0x8B 0x00].

Definition PLANE_4_F0_AF_A8 : Plane4Bytes :=
  [U4 0xE9 0xA0 0xA9 0x00; U4 0xF0 0xA9 0x96 0xB6; U4 0xE9 0xA3 0xA2 0x00; U4 0xE4 0xAC 0xB3 0x00;
   U4 0xE9 0xA4 0xA9 0x00; U4 0xE9 0xA6 0xA7 0x00; U4 0xE9 0xA7 0x82 0x00; U4 0xE9 0xA7 0xBE 0x00;
   U4 0xE4 0xAF 0x8E 0x00; U4 0xF0 0xA9 0xAC 0xB0; U4 0xE9 0xAC 0x92 0x00; U4 0xE9 0xB1 0x80 0x00;
   U4 0xE9 0xB3 0xBD 0x00; U4 0xE4 0xB3 0x8E 0x00; U4 0xE4 0xB3 0xAD 0x00; U4 0xE9 0xB5 0xA7 0x00;
   U4 0xF0 0xAA 0x83 0x8E; U4 0xE4 0xB3 0xB8 0x00; U4 0xF0 0xAA 0x84 0x85; U4 0xF0 0xAA 0x88 0x8E;
   U4 0xF0 0xAA 0x8A 0x91; U4 0xE9 0xBA 0xBB 0x00; U4 0xE4 0xB5 0x96 0x00; U4 0xE9 0xBB 0xB9 0x00;
   U4 0xE9 0xBB 0xBE 0x00; U4 0xE9 0xBC 0x85 0x00; U4 0xE9 0xBC 0x8F 0x00; U4 0xE9 0xBC 0x96 0x00;
   U4 0xE9 0xBC 0xBB 0x00; U4 0xF0 0xAA 0x98 0x80; U4 0x20 0x00 0x00 0x00; U4 0x20 0x00 0x00 0x00;
   U4 0x20 0x00 0x00 0x00; U4 0x20 0x00 0x00 0x00; U4 0x20 0x00 0x00 0x00; U4 0x20 0x00 0x00 0x00;
   U4 0x20 0x00 0x00 0x00; U4 0x20 0x00 0x00 0x00; U4 0x20 0x00 0x00 0x00; U4 0x20 0x00 0x00 0x00;
   U4 0x20 0x00 0x00 0x00; U4 0x20 0x00 0x00 0x00; U4 0x20 0x00 0x00 0x00; U4 0x20 0x00 0x00 0x00;
   U4 0x20 0x00 0x00 0x00; U4 0x20 0x00 0x00 0x00; U4 0x20 0x00 0x00 0x00; U4 0x20 0x00 0x00 0x00;
   U4 0x20 0x00 0x00 0x00; U4 0x20 0x00 0x00 0x00; U4 0x20 0x00 0x00 0x00; U4 0x20 0x00 0x00 0x00;
   U4 0x20 0x00 0x00 0x00; U4 0x20 0x00 0x00 0x00; U4 0x20 0x00 0x00 0x00; U4 0x20 0x00 0x00 0x00;
   U4 0x20 0x00 0x00 0x00; U4 0x20 0x00 0x00 0x00; U4 0x20 0x00 0x00 0x00; U4 0x20 0x00 0x00 0x00;
   U4 0x20 0x00 0x00 0x00; U4 0x20 0x00 0x00 0x00; U4 0x20 0x00 0x00 0x00; U4 0x20 0x00 0x00 0x00].

Definition TABLE_4_F0_AF : list Plane4Bytes :=
  [PLANE_4_F0_AF_A0; PLANE_4_F0_AF_A1; PLANE_4_F0_AF_A2; PLANE_4_F0_AF_A3;
   PLANE_4_F0_AF_A4; PLANE_4_F0_AF_A5; PLANE_4_F0_AF_A6; PLANE_4_F0_AF_A7;
   PLANE_4_F0_AF_A8].
