(* ===== verification/Utf8Case.v ===== *)
(** * Utf8Case: case conversions of UTF-8 text

    Models [String/UTF8Case.hpp] and the functions of [String/UTF8CaseLower.hpp],
    [UTF8CaseUpper.hpp] and [UTF8CaseUniform.hpp]; [Utf8Simplify] has the one of
    [UTF8CaseSimplify.hpp], and [CaseText] the theorems.

    A [Helper::Iterator] is the list of the octets it has still to deliver:
    [exhausted] is the test for the empty list, [forward] takes the head, and
    [backward] goes back to a list that was named before.  What is written through
    [dest] is the list of the octets.  The counter is far below the width of its
    type, since every turn of a loop takes an octet and adds at most three. *)
From S2P Require Import Prelude Utf8 Utf8Tables LowerTables UpperTables UniformTables.
Local Open Scope Z_scope.
Local Open Scope outcome_scope.

(** [T[i][j]] *)
Definition cell2 {A} (t : list (list A)) (i j : Z) : outcome A :=
  let* plane := cell t i in
  cell plane j.

(** ** The loops of [to_lower], [to_upper] and [to_uniform]

    What a character makes the loop do: [return false], or write some octets and
    add some to the counter in addition to the one of the loop. *)
Definition put : Type := outcome (option (list Z * Z)).

Definition ill_formed : put := Ret None.
Definition emit (w : list Z) : put := Ret (Some (w, 0)).
Definition emit_more (w : list Z) (more : Z) : put := Ret (Some (w, more)).

(** [(ch & 0xC0) != 0x80] *)
Definition not_cont (ch : Z) : bool := negb (Z.land ch 0xC0 =? 0x80).

Definition advance (p : put) (it : list Z) : outcome (option (list Z * Z * list Z)) :=
  let* r := p in
  Ret (match r with
       | Some (w, more) => Some (w, more, it)
       | None => None
       end).

(** The characters of two, three and four octets: the octets the three functions
    read and check before they look into their tables. *)
Definition case_2 (k : Z -> put) (it : list Z) : outcome (option (list Z * Z * list Z)) :=
  match it with
  | [] => Ret None
  | SECOND :: it => if not_cont SECOND then Ret None else advance (k SECOND) it
  end.

Definition case_3 (FIRST : Z) (k : Z -> Z -> put) (it : list Z)
    : outcome (option (list Z * Z * list Z)) :=
  match it with
  | SECOND :: THIRD :: it =>
    if not_cont THIRD then Ret None
    else if (if FIRST =? 0xE0 then negb (Z.land SECOND 0xE0 =? 0xA0)
             else if FIRST =? 0xED then negb (Z.land SECOND 0xE0 =? 0x80)
             else not_cont SECOND) then Ret None
    else advance (k SECOND THIRD) it
  | _ => Ret None
  end.

Definition case_4 (k : Z -> Z -> Z -> put) (it : list Z)
    : outcome (option (list Z * Z * list Z)) :=
  match it with
  | SECOND :: THIRD :: FOURTH :: it =>
    if not_cont THIRD then Ret None
    else if not_cont FOURTH then Ret None
    else advance (k SECOND THIRD FOURTH) it
  | _ => Ret None
  end.

(** The parts in which the three functions differ. *)
Record conversion : Type := {
  one : list Z;
  two : Z -> Z -> put;
  three : Z -> Z -> Z -> put;
  four : Z -> Z -> Z -> Z -> put }.

Definition case_turn (c : conversion) (FIRST : Z) (it : list Z)
    : outcome (option (list Z * Z * list Z)) :=
  match get_octet_count FIRST with
  | 1 =>
    let* ch := cell (one c) FIRST in
    Ret (Some ([ch], 0, it))
  | 2 => case_2 (two c FIRST) it
  | 3 => case_3 FIRST (three c FIRST) it
  | 4 => case_4 (four c FIRST) it
  | _ => Ret None
  end.

Fixpoint case_loop (c : conversion) (fuel : nat) (it dest : list Z) (counter : Z)
    : outcome (bool * list Z * Z) :=
  match it with
  | [] => Ret (true, dest, counter)
  | FIRST :: it =>
    match fuel with
    | O => Undef
    | S fuel =>
      let* r := case_turn c FIRST it in
      match r with
      | None => Ret (false, dest, counter)
      | Some (w, more, it) => case_loop c fuel it (dest ++ w) (counter + more + 1)
      end
    end
  end.

(** The check of the second octet of four, after the cases the tables change. *)
Definition four_rest (FIRST SECOND THIRD FOURTH : Z) : put :=
  if (if FIRST <? 0xF4 then
        if FIRST =? 0xF0 then (SECOND <? 0x90) || (0xBF <? SECOND)
        else not_cont SECOND
      else if FIRST =? 0xF4 then negb (Z.land SECOND 0xF0 =? 0x80)
      else true)
  then ill_formed
  else emit [FIRST; SECOND; THIRD; FOURTH].

(** ** [to_lower] *)

Definition lower_2 (FIRST SECOND : Z) : put :=
  let SLOT_NUMBER := u8 (FIRST - 0xC3) in
  if 18 <? SLOT_NUMBER then emit [FIRST; SECOND]
  else
    let* MODIFIED := cell2 LowerTables.TABLE_2 SLOT_NUMBER (Z.land SECOND 0x3F) in
    if unit2_0 MODIFIED =? 0 then
      if FIRST =? 0xC4 then emit [0x69]
      else emit [0xE2; 0xB1; unit2_1 MODIFIED]
    else emit [unit2_0 MODIFIED; unit2_1 MODIFIED].

(** The characters of [0xE2] and [0xEA] that leave their plane, which
    [to_uniform] treats alike. *)
Definition special_E2 (TABLE_3_SP_E2 : list CodeUnit2Bytes) (SECOND THIRD : Z) : put :=
  if SECOND =? 0x84 then
    if THIRD <? 0xAA then emit [0xCF; 0x89]
    else if THIRD =? 0xAA then emit [0x6B]
    else emit [0xC3; 0xA5]
  else
    let* MODIFIED_SP := cell TABLE_3_SP_E2 (Z.land THIRD 0x1F) in
    emit ([unit2_0 MODIFIED_SP; unit2_1 MODIFIED_SP] ++
          (if THIRD =? 0xA3 then [0xBD] else [])).

Definition case_E2 (TABLE_3_E2 : list Plane2Bytes) (TABLE_3_SP_E2 : list CodeUnit2Bytes)
    (FIRST SECOND THIRD : Z) : put :=
  let* MODIFIED := cell2 TABLE_3_E2 (Z.land SECOND 0x3F) (Z.land THIRD 0x3F) in
  if unit2_0 MODIFIED =? 0 then special_E2 TABLE_3_SP_E2 SECOND THIRD
  else emit [FIRST; unit2_0 MODIFIED; unit2_1 MODIFIED].

Definition case_EA (TABLE_3_EA : list Plane2Bytes) (FIRST SECOND THIRD : Z) : put :=
  let* MODIFIED := cell2 TABLE_3_EA (u8 (SECOND - 0x99)) (Z.land THIRD 0x3F) in
  if unit2_0 MODIFIED =? 0 then
    if SECOND =? 0x9D then emit [0xE1; 0xB5; 0xB9]
    else emit [if THIRD <? 0xB0 then 0xC9 else 0xCA; unit2_1 MODIFIED]
  else emit [FIRST; unit2_0 MODIFIED; unit2_1 MODIFIED].

Definition lower_3 (FIRST SECOND THIRD : Z) : put :=
  if FIRST =? 0xE1 then
    let* MODIFIED := cell2 LowerTables.TABLE_3_E1 (Z.land SECOND 0x3F) (Z.land THIRD 0x3F) in
    if unit4_0 MODIFIED =? 0 then emit [0xC3; 0x9F]
    else emit [unit4_0 MODIFIED; unit4_1 MODIFIED; unit4_2 MODIFIED]
  else if FIRST =? 0xE2 then
    case_E2 LowerTables.TABLE_3_E2 LowerTables.TABLE_3_SP_E2 FIRST SECOND THIRD
  else if (FIRST =? 0xEA) && (u8 (SECOND - 0x99) <? 6) then
    case_EA LowerTables.TABLE_3_EA FIRST SECOND THIRD
  else if (FIRST =? 0xEF) && (SECOND =? 0xBC) && (0xA1 <=? THIRD) && (THIRD <=? 0xBA) then
    let* ch := cell LowerTables.TABLE_3_EF (Z.land THIRD 0x3F) in
    emit [FIRST; 0xBD; ch]
  else emit [FIRST; SECOND; THIRD].

Definition lower_4 (FIRST SECOND THIRD FOURTH : Z) : put :=
  if (FIRST =? 0xF0) && (SECOND =? 0x90) && (THIRD =? 0x90) then
    let* ch := cell LowerTables.TABLE_4_F0 (Z.land FOURTH 0x3F) in
    emit [FIRST; SECOND; if (0x98 <=? FOURTH) && (FOURTH <=? 0xA7) then 0x91 else THIRD; ch]
  else if (FIRST =? 0xF0) && (SECOND =? 0x90) && (THIRD =? 0xB2) then
    emit [FIRST; SECOND; if FOURTH <? 0xB3 then 0xB3 else THIRD; FOURTH]
  else if (FIRST =? 0xF0) && (SECOND =? 0x91) && (THIRD =? 0xA2) && (0xA0 <=? FOURTH) then
    emit [FIRST; SECOND; 0xA3; u8 (FOURTH - 0x20)]
  else four_rest FIRST SECOND THIRD FOURTH.

Definition lower : conversion :=
  {| one := LowerTables.TABLE_1; two := lower_2; three := lower_3; four := lower_4 |}.

Definition to_lower (it : list Z) : outcome (bool * list Z * Z) :=
  case_loop lower (length it) it [] 0.

(** ** [to_upper] *)

Definition upper_2 (FIRST SECOND : Z) : put :=
  let SLOT_NUMBER := u8 (FIRST - 0xC2) in
  if 20 <? SLOT_NUMBER then emit [FIRST; SECOND]
  else
    let* MODIFIED := cell2 UpperTables.TABLE_2 SLOT_NUMBER (Z.land SECOND 0x3F) in
    if unit2_0 MODIFIED =? 0 then
      if FIRST <? 0xC5 then emit [0x49]
      else if FIRST =? 0xC5 then emit [0x53]
      else if (FIRST =? 0xCA) || ((0x9C <=? SECOND) && (SECOND <=? 0xA6)) || (SECOND =? 0xAC) then
        emit [0xEA; 0x9E; unit2_1 MODIFIED]
      else emit [0xE2; 0xB1; unit2_1 MODIFIED]
    else emit [unit2_0 MODIFIED; unit2_1 MODIFIED].

(** The Cherokee letters of [0xEA 0xAE], which [to_uniform] treats alike. *)
Definition case_EA_AE (THIRD : Z) : put :=
  if THIRD <? 0x90 then emit [0xE1; 0x8E; u8 (THIRD + 0x30)]
  else emit [0xE1; 0x8F; u8 (THIRD - 0x10)].

Definition upper_3 (FIRST SECOND THIRD : Z) : put :=
  let same := emit [FIRST; SECOND; THIRD] in
  if FIRST =? 0xE1 then
    let* MODIFIED := cell2 UpperTables.TABLE_3_E1 (Z.land SECOND 0x3F) (Z.land THIRD 0x3F) in
    if unit4_0 MODIFIED =? 0 then emit [0xCE; 0x99]
    else emit [unit4_0 MODIFIED; unit4_1 MODIFIED; unit4_2 MODIFIED]
  else if FIRST =? 0xE2 then
    let* MODIFIED := cell2 UpperTables.TABLE_3_E2 (Z.land SECOND 0x3F) (Z.land THIRD 0x3F) in
    if (SECOND =? 0xB4) && ((THIRD <? 0xA6) || (THIRD =? 0xA7) || (THIRD =? 0xAD)) then
      emit [0xE1; unit2_0 MODIFIED; unit2_1 MODIFIED]
    else if unit2_0 MODIFIED =? 0 then emit [0xC8; if THIRD =? 0xA5 then 0xBA else 0xBE]
    else emit [FIRST; unit2_0 MODIFIED; unit2_1 MODIFIED]
  else if FIRST =? 0xEA then
    if u8 (SECOND - 0x99) <? 6 then
      let* MODIFIED := cell2 UpperTables.TABLE_3_EA (u8 (SECOND - 0x99)) (Z.land THIRD 0x3F) in
      emit [FIRST; unit2_0 MODIFIED; unit2_1 MODIFIED]
    else if SECOND =? 0xAD then
      if 0xB0 <=? THIRD then emit [0xE1; 0x8E; u8 (THIRD - 0x10)]
      else if THIRD =? 0x93 then emit [FIRST; 0x9E; 0xB3]
      else same
    else if SECOND =? 0xAE then case_EA_AE THIRD
    else same
  else if FIRST =? 0xEF then
    if not_cont SECOND then ill_formed
    else if (SECOND =? 0xBD) && (0x81 <=? THIRD) && (THIRD <=? 0x9A) then
      let* ch := cell UpperTables.TABLE_3_EF (Z.land THIRD 0x3F) in
      emit [FIRST; 0xBC; ch]
    else same
  else same.

Definition upper_4 (FIRST SECOND THIRD FOURTH : Z) : put :=
  if (FIRST =? 0xF0) && (SECOND =? 0x90) && (THIRD =? 0x90) then
    let* ch := cell UpperTables.TABLE_4_F0_90 (Z.land FOURTH 0x3F) in
    emit [FIRST; SECOND; THIRD; ch]
  else if (FIRST =? 0xF0) && (SECOND =? 0x90) && (THIRD =? 0x91) && (FOURTH <=? 0x8F) then
    let* ch := cell UpperTables.TABLE_4_F0_91 (Z.land FOURTH 0x3F) in
    emit [FIRST; SECOND; 0x90; ch]
  else if (FIRST =? 0xF0) && (SECOND =? 0x90) && (THIRD =? 0xB3) && (FOURTH <? 0xB3) then
    emit [FIRST; SECOND; 0xB2; FOURTH]
  else if (FIRST =? 0xF0) && (SECOND =? 0x91) && (THIRD =? 0xA3) && (FOURTH <=? 0x9F) then
    emit [FIRST; SECOND; 0xA2; u8 (FOURTH + 0x20)]
  else four_rest FIRST SECOND THIRD FOURTH.

Definition upper : conversion :=
  {| one := UpperTables.TABLE_1; two := upper_2; three := upper_3; four := upper_4 |}.

Definition to_upper (it : list Z) : outcome (bool * list Z * Z) :=
  case_loop upper (length it) it [] 0.

(** ** [to_uniform] *)

Definition uniform_special_2 (FIRST SECOND : Z) (MODIFIED : CodeUnit2Bytes) : put :=
  if FIRST =? 0xC3 then emit_more [0x73; 0x73] 1
  else if FIRST =? 0xC4 then emit_more [0x69; 0xCC; 0x87] 1
  else if FIRST =? 0xC5 then
    if SECOND =? 0x89 then emit_more [0xCA; 0xBC; 0x6E] 1 else emit [0x73]
  else if FIRST =? 0xC7 then emit_more [0x6A; 0xCC; 0x8C] 1
  else if FIRST =? 0xC8 then emit [0xE2; 0xB1; unit2_1 MODIFIED]
  else if FIRST =? 0xCE then
    emit_more ((if SECOND =? 0x90 then [0xCE; 0xB9] else [0xCF; 0x85]) ++
               [0xCC; 0x88; 0xCC; 0x81]) 2
  else if FIRST =? 0xD6 then emit_more [0xD5; 0xA5; 0xD6; 0x82] 1
  else emit [].

Definition uniform_2 (FIRST SECOND : Z) : put :=
  let SLOT_NUMBER := u8 (FIRST - 0xC2) in
  if 20 <? SLOT_NUMBER then emit [FIRST; SECOND]
  else
    let* MODIFIED := cell2 UniformTables.TABLE_2 SLOT_NUMBER (Z.land SECOND 0x3F) in
    if unit2_0 MODIFIED =? 0 then uniform_special_2 FIRST SECOND MODIFIED
    else emit [unit2_0 MODIFIED; unit2_1 MODIFIED].

Definition uniform_special_E1 (SECOND THIRD : Z) (MODIFIED : CodeUnit4Bytes) : put :=
  if SECOND =? 0xBA then
    if THIRD =? 0x9E then emit_more [0x73; 0x73] 1
    else emit_more [unit4_1 MODIFIED; if THIRD =? 0x9A then 0xCA else 0xCC; unit4_2 MODIFIED] 1
  else if SECOND =? 0xBD then
    if 0x90 <? THIRD then
      emit_more [0xCF; 0x85; 0xCC; 0x93; unit4_1 MODIFIED; unit4_2 MODIFIED] 2
    else emit_more [0xCF; 0x85; 0xCC; 0x93] 1
  else if SECOND =? 0xBE then
    if THIRD <? 0xB3 then
      emit_more [0xE1; unit4_1 MODIFIED; unit4_2 MODIFIED; 0xCE; 0xB9] 1
    else if THIRD =? 0xBE then emit [0xCE; 0xB9]
    else if THIRD =? 0xB7 then
      emit_more [0xCE; unit4_1 MODIFIED; unit4_2 MODIFIED; unit4_3 MODIFIED; 0xCE; 0xB9] 2
    else emit_more [0xCE; unit4_1 MODIFIED; unit4_2 MODIFIED; unit4_3 MODIFIED] 1
  else if SECOND =? 0xBF then
    let* MODIFIED := cell UniformTables.TABLE_3_E1_BF (Z.land THIRD 0x3F) in
    emit_more (substr MODIFIED) (symbols MODIFIED)
  else emit [].

Definition uniform_3 (FIRST SECOND THIRD : Z) : put :=
  let same := emit [FIRST; SECOND; THIRD] in
  if FIRST =? 0xE1 then
    let* MODIFIED := cell2 UniformTables.TABLE_3_E1 (Z.land SECOND 0x3F) (Z.land THIRD 0x3F) in
    if unit4_0 MODIFIED =? 0 then uniform_special_E1 SECOND THIRD MODIFIED
    else emit [unit4_0 MODIFIED; unit4_1 MODIFIED; unit4_2 MODIFIED]
  else if FIRST =? 0xE2 then
    case_E2 UniformTables.TABLE_3_E2 UniformTables.TABLE_3_SP_E2 FIRST SECOND THIRD
  else if FIRST =? 0xEA then
    if u8 (SECOND - 0x99) <? 6 then case_EA UniformTables.TABLE_3_EA FIRST SECOND THIRD
    else if SECOND =? 0xAD then
      if 0xB0 <=? THIRD then emit [0xE1; 0x8E; u8 (THIRD - 0x10)] else same
    else if SECOND =? 0xAE then case_EA_AE THIRD
    else same
  else if FIRST =? 0xEF then
    if not_cont SECOND then ill_formed
    else if SECOND =? 0xAC then
      if THIRD <=? 0x86 then
        if THIRD <? 0x83 then
          emit_more [0x66; if THIRD =? 0x80 then 0x66 else if THIRD =? 0x81 then 0x69 else 0x6C] 1
        else if THIRD <? 0x85 then
          emit_more [0x66; 0x66; if THIRD =? 0x83 then 0x69 else 0x6C] 2
        else emit_more [0x73; 0x74] 1
      else if (0x93 <=? THIRD) && (THIRD <=? 0x97) then
        let* MODIFIED := cell UniformTables.TABLE_3_EF_AC (Z.land THIRD 0x7) in
        emit_more [0xD5; unit2_0 MODIFIED; 0xD5; unit2_1 MODIFIED] 1
      else same
    else if (SECOND =? 0xBC) && (0xA1 <=? THIRD) && (THIRD <=? 0xBA) then
      let* ch := cell UniformTables.TABLE_3_EF_BC (Z.land THIRD 0x1F) in
      emit [FIRST; 0xBD; ch]
    else same
  else same.

Definition uniform_4 (FIRST SECOND THIRD FOURTH : Z) : put :=
  if (FIRST =? 0xF0) && (SECOND =? 0x90) && (THIRD =? 0x90) then
    let* ch := cell UniformTables.TABLE_4_F0 (Z.land FOURTH 0x3F) in
    emit [FIRST; SECOND; if (0x98 <=? FOURTH) && (FOURTH <=? 0xA7) then 0x91 else THIRD; ch]
  else if (FIRST =? 0xF0) && (SECOND =? 0x90) && (THIRD =? 0xB2) && (FOURTH <? 0xB3) then
    emit [FIRST; SECOND; 0xB3; FOURTH]
  else if (FIRST =? 0xF0) && (SECOND =? 0x91) && (THIRD =? 0xA2) && (0xA0 <=? FOURTH) then
    emit [FIRST; SECOND; 0xA3; u8 (FOURTH - 0x20)]
  else four_rest FIRST SECOND THIRD FOURTH.

Definition uniform : conversion :=
  {| one := UniformTables.TABLE_1; two := uniform_2; three := uniform_3; four := uniform_4 |}.

Definition to_uniform (it : list Z) : outcome (bool * list Z * Z) :=
  case_loop uniform (length it) it [] 0.

(** ** [case_change]

    The structs [Lower], [Upper], [Uniform] and [Simplify] that select a
    conversion. *)
Class Action : Type := {
  MULTIPLIER : Z;
  doit : list Z -> outcome (bool * list Z * Z) }.

Definition Lower : Action := {| MULTIPLIER := 2; doit := to_lower |}.
Definition Upper : Action := {| MULTIPLIER := 2; doit := to_upper |}.
Definition Uniform : Action := {| MULTIPLIER := 3; doit := to_uniform |}.

(** The overload for a pointer: the result, what was written from it on and the
    counter. *)
Definition case_change_ptr (A : Action) (src : list Z) : outcome (bool * list Z * Z) :=
  doit src.

(** The overload for a string makes it [MULTIPLIER] times as long as the text;
    writing past its end is undefined. *)
Definition case_change (A : Action) (src : list Z) : outcome (bool * list Z * Z) :=
  let size := Z.of_nat (length src) * MULTIPLIER in
  let* (result, out, counter) := doit src in
  guard (Z.of_nat (length out) <=? size) (Ret (result, out, counter)).
