(* ===== verification/Utf8Simplify.v ===== *)
(** * Utf8Simplify: simplification of UTF-8 text

    Models [String/UTF8CaseSimplify.hpp], which folds case, replaces compatibility
    characters and ligatures, drops marks and turns what is no letter or digit into
    spaces.  Ill-formed octets become spaces too: the function does not fail.

    In a branch of the code [break] leaves the character as it is and [continue]
    has written what stands for it. *)
From S2P Require Import Prelude Utf8 Utf8Tables SimplifyTables Utf8Case.
Local Open Scope Z_scope.
Local Open Scope outcome_scope.

(** ** Helpers *)

Definition status (TABLE : list Plane2Bits) (SECOND BASE THIRD : Z) : outcome Z :=
  let OFFSET := Z.land THIRD 0x3F in
  let* bits := cell2 TABLE (SECOND - BASE) (Z.shiftr OFFSET 5) in
  Ret (Z.land (Z.shiftr bits (Z.shiftl (Z.land OFFSET 0x1F) 1)) 3).

(** [replace] of one octet *)
Definition replace_1 (MODIFIED : Z) (REPL : list (list Z)) : outcome (list Z) :=
  if MODIFIED <? 0x20 then
    if MODIFIED =? 0 then Ret []
    else cell REPL MODIFIED
  else Ret [MODIFIED].

(** [replace] of a code unit of two octets; a null [REPL] is the empty list. *)
Definition replace_2 (MODIFIED : CodeUnit2Bytes) (REPL : list (list Z))
    : outcome (bool * list Z) :=
  let '(U2 m0 m1) := MODIFIED in
  if m0 =? 0 then
    if m1 =? 0 then Ret (true, [])
    else if m1 =? 0xFF then Ret (false, [])
    else
      let* str := cell REPL m1 in
      Ret (true, str)
  else if m1 =? 0 then Ret (true, [m0])
  else Ret (true, [m0; m1]).

(** [replace] of a code unit of four octets *)
Definition replace_4 (MODIFIED : CodeUnit4Bytes) (REPL : list (list Z)) : outcome (list Z) :=
  let '(U4 m0 m1 m2 m3) := MODIFIED in
  if m0 =? 0 then
    if m1 =? 0 then Ret [] else cell REPL m1
  else if m1 =? 0 then Ret [m0]
  else if m2 =? 0 then Ret [m0; m1]
  else if m3 =? 0 then Ret [m0; m1; m2]
  else Ret [m0; m1; m2; m3].

Definition out_hangul (ch : Z) : list Z :=
  [u8 (Z.lor (Z.shiftr ch 12) 0xE0);
   Z.lor (Z.land (Z.shiftr ch 6) 0x3F) 0x80;
   Z.lor (Z.land ch 0x3F) 0x80].

Definition decompose_hangul (FIRST SECOND THIRD : Z) : list Z :=
  let ch := u32 (Z.lor (Z.lor (Z.shiftl (Z.land FIRST 0x0F) 12)
                              (Z.shiftl (Z.land SECOND 0x3F) 6))
                       (Z.land THIRD 0x3F) - 0xAC00) in
  let l := ch / 588 in
  let v := (ch mod 588) / 28 in
  let t := ch mod 28 in
  out_hangul (0x1100 + l) ++ out_hangul (0x1161 + v) ++
  (if t =? 0 then [] else out_hangul (0x11A7 + t)).

(** ** One character *)

(** What a branch does: [None] for [break], [Some] for [continue] after writing. *)
Definition branch : Type := outcome (option (list Z)).

Definition break : branch := Ret None.
Definition continue (w : list Z) : branch := Ret (Some w).
Definition space : branch := continue [0x20].

Definition replaced (m : outcome (list Z)) : branch :=
  let* w := m in
  continue w.

(** The switch on [status]: 0 drops the character, 1 keeps it, 2 makes it a space;
    [modified] is case 3. *)
Definition by_status (TABLE : list Plane2Bits) (SECOND BASE THIRD : Z) (modified : branch)
    : branch :=
  let* st := status TABLE SECOND BASE THIRD in
  if st =? 0 then continue []
  else if st =? 1 then break
  else if st =? 2 then space
  else modified.

Definition simplify_E0_BD (THIRD : Z) : list Z :=
  if THIRD =? 0x83 then [0x82]
  else if THIRD =? 0x8D then [0x8C]
  else if THIRD =? 0x92 then [0x91]
  else if THIRD =? 0x97 then [0x96]
  else if THIRD =? 0x9C then [0x9B]
  else if THIRD =? 0xA9 then [0x80]
  else [].

Definition simplify_E0 (SECOND THIRD : Z) : branch :=
  by_status TABLE_3_E0 SECOND 0xA0 THIRD
    (if SECOND =? 0xA4 then continue [0xE0; 0xA4; u8 (THIRD - 1)]
     else if SECOND =? 0xA5 then
       let* ch := cell TABLE_3_E0_ (THIRD - 0x98) in
       continue [0xE0; 0xA4; ch]
     else if SECOND =? 0xA7 then
       continue [0xE0; 0xA6; if THIRD =? 0x9F then 0xAF else u8 (THIRD + 5)]
     else if SECOND =? 0xA8 then
       continue [0xE0; 0xA8; if THIRD =? 0xB3 then 0xB2 else 0xB8]
     else if SECOND =? 0xA9 then
       continue [0xE0; 0xA8; if THIRD =? 0x9B then 0x9C
                             else if THIRD =? 0x9E then 0xAB else u8 (THIRD - 3)]
     else if SECOND =? 0xAD then continue [0xE0; 0xAC; u8 (THIRD + 5)]
     else if SECOND =? 0xAE then continue [0xE0; 0xAE; 0x92; 0x20]
     else if SECOND =? 0xB8 then continue [0x20; 0xE0; 0xB8; 0xB2]
     else if SECOND =? 0xBA then continue [0x20; 0xE0; 0xBA; 0xB2]
     else if SECOND =? 0xBB then
       continue [0xE0; 0xBA; 0xAB; 0xE0; 0xBA; if THIRD =? 0x9C then 0x99 else 0xA1]
     else if SECOND =? 0xBD then continue ([0xE0; 0xBD] ++ simplify_E0_BD THIRD ++ [0x20])
     else continue []).

Definition simplify_E1 (FIRST SECOND THIRD : Z) : branch :=
  if SECOND <? 0xB4 then
    by_status TABLE_3_E1_1 SECOND 0x80 THIRD
      (if SECOND =? 0x80 then continue [0xE1; 0x80; 0xA5; 0x20]
       else if SECOND =? 0x82 then continue [0xE2; 0xB4; u8 (THIRD - 0x20)]
       else if SECOND =? 0x83 then
         if THIRD =? 0xBC then continue [0xE1; 0x83; 0x9C]
         else continue [0xE2; 0xB4; u8 (THIRD + 0x20)]
       else if SECOND =? 0x8F then continue [FIRST; SECOND; u8 (THIRD - 0x8)]
       else if (SECOND =? 0x9A) || (SECOND =? 0xA0) then space
       else if SECOND =? 0xAC then continue [0xE1; 0xAC; u8 (THIRD - 1); 0x20]
       else continue [])
  else
    let* MODIFIED := cell2 TABLE_3_E1_2 (SECOND - 0xB4) (Z.land THIRD 0x3F) in
    let* (done, w) := replace_2 MODIFIED TABLE_3_E1_2_ in
    if done : bool then continue w else break.

Definition simplify_E2 (SECOND THIRD : Z) : branch :=
  if SECOND <? 0x91 then
    if SECOND <? 0x85 then
      let* MODIFIED := cell2 TABLE_3_E2_1 (SECOND - 0x80) (Z.land THIRD 0x3F) in
      replaced (replace_1 MODIFIED TABLE_3_E2_1_)
    else if SECOND <? 0x87 then
      let* MODIFIED := cell2 TABLE_3_E2_2 (SECOND - 0x85) (Z.land THIRD 0x3F) in
      replaced (replace_4 MODIFIED [])
    else space
  else if SECOND <? 0xB0 then
    if SECOND <? 0x94 then
      let* MODIFIED := cell2 TABLE_3_E2_3 (SECOND - 0x91) (Z.land THIRD 0x3F) in
      replaced (replace_4 MODIFIED [])
    else if ((SECOND =? 0x9D) && (0xB6 <=? THIRD)) || ((SECOND =? 0x9E) && (THIRD <=? 0x93)) then
      break
    else space
  else
    let* MODIFIED := cell2 TABLE_3_E2_4 (SECOND - 0xB0) (Z.land THIRD 0x3F) in
    replaced (replace_4 MODIFIED []).

Definition simplify_EA (FIRST SECOND THIRD : Z) : branch :=
  if SECOND <? 0xA0 then
    if SECOND <? 0x99 then
      if SECOND <? 0x94 then
        if (if SECOND =? 0x92 then 0x8D <=? THIRD
            else (SECOND =? 0x93) && ((THIRD <=? 0x8F) || (0xBE <=? THIRD))) then space
        else break
      else if (SECOND =? 0x98) && ((0x8D <=? THIRD) && ((THIRD <=? 0x8F) || (0xAC <=? THIRD))) then space
      else break
    else
      let* MODIFIED := cell2 TABLE_3_EA_1 (SECOND - 0x99) (Z.land THIRD 0x3F) in
      replaced (replace_4 MODIFIED [])
  else if SECOND <? 0xB0 then
    by_status TABLE_3_EA_2 SECOND 0xA0 THIRD
      (if SECOND =? 0xAD then
         if THIRD <? 0xB0 then replaced (cell TABLE_3_EA_2_ (THIRD - 0x9C))
         else continue [0xE1; 0x8E; u8 (THIRD - 0x10)]
       else if THIRD <? 0x90 then continue [0xE1; 0x8E; u8 (THIRD + 0x30)]
       else continue [0xE1; 0x8F; u8 (THIRD - 0x10)])
  else continue (decompose_hangul FIRST SECOND THIRD).

Definition simplify_ED (FIRST SECOND THIRD : Z) : branch :=
  if SECOND <? 0x9E then continue (decompose_hangul FIRST SECOND THIRD)
  else if SECOND =? 0x9E then
    if THIRD <=? 0xA3 then continue (decompose_hangul FIRST SECOND THIRD)
    else if THIRD <=? 0xAF then space
    else break
  else if SECOND =? 0x9F then
    if ((0x87 <=? THIRD) && (THIRD <=? 0x8A)) || (0xBC <=? THIRD) then space else break
  else space.

Definition simplify_3 (FIRST SECOND THIRD : Z) : branch :=
  if FIRST =? 0xE0 then simplify_E0 SECOND THIRD
  else if FIRST =? 0xE1 then simplify_E1 FIRST SECOND THIRD
  else if FIRST =? 0xE2 then simplify_E2 SECOND THIRD
  else if FIRST =? 0xE3 then
    if SECOND <? 0x90 then
      let* MODIFIED := cell2 TABLE_3_E3 (SECOND - 0x80) (Z.land THIRD 0x3F) in
      replaced (replace_4 MODIFIED TABLE_3_E3_)
    else break
  else if FIRST =? 0xE4 then
    if ((SECOND =? 0xB6) && (0xB6 <=? THIRD)) || (SECOND =? 0xB7) then space else break
  else if FIRST =? 0xE9 then
    if (SECOND =? 0xBF) && (0x96 <=? THIRD) then space else break
  else if FIRST =? 0xEA then simplify_EA FIRST SECOND THIRD
  else if (FIRST =? 0xEB) || (FIRST =? 0xEC) then continue (decompose_hangul FIRST SECOND THIRD)
  else if FIRST =? 0xED then simplify_ED FIRST SECOND THIRD
  else if FIRST =? 0xEE then space
  else if FIRST =? 0xEF then
    if SECOND <? 0xA4 then space
    else
      let* MODIFIED := cell2 TABLE_3_EF (SECOND - 0xA4) (Z.land THIRD 0x3F) in
      replaced (replace_4 MODIFIED TABLE_3_EF_)
  else break.

Definition simplify_F0_90 (FIRST SECOND THIRD FOURTH : Z) : branch :=
  by_status TABLE_4_F0_90_1 THIRD 0x80 FOURTH
    (if THIRD =? 0x90 then
       let* MODIFIED := cell2 TABLE_4_F0_90_2 0 (Z.land FOURTH 0x3F) in
       continue [0xF0; 0x90; unit2_0 MODIFIED; unit2_1 MODIFIED]
     else continue [FIRST; SECOND; 0xB3; FOURTH]).

Definition simplify_F0_91 (FIRST SECOND THIRD FOURTH : Z) : branch :=
  if THIRD <? 0x9D then
    by_status TABLE_4_F0_91 THIRD 0x80 FOURTH
      (continue [0xF0; 0x91; 0x82; if FOURTH =? 0xAB then 0xA5 else u8 (FOURTH - 1)])
  else if THIRD =? 0xA2 then
    if 0xA0 <=? FOURTH then continue [FIRST; SECOND; 0xA3; u8 (FOURTH - 0x20)] else space
  else if THIRD =? 0xA3 then
    if (FOURTH <? 0xB3) || (0xBE <? FOURTH) then break else space
  else if THIRD =? 0xAB then
    if FOURTH <? 0xB9 then break else space
  else space.

(** The planes [0x92] to [0x96] and [0x9B] *)
Definition simplify_F0_92 (THIRD FOURTH : Z) : branch :=
  if (if THIRD <? 0x90 then (0x8E <? THIRD) || ((THIRD =? 0x8E) && (0x9A <=? FOURTH))
      else if 0x91 <? THIRD then (0x95 <? THIRD) || ((THIRD =? 0x95) && (0x84 <=? FOURTH))
      else (THIRD =? 0x91) && (0xAF <=? FOURTH)) then space else break.

Definition simplify_F0_96 (THIRD FOURTH : Z) : branch :=
  if THIRD <? 0xA8 then
    if THIRD <? 0xA0 then space else break
  else by_status TABLE_4_F0_96 THIRD 0xA8 FOURTH (continue []).

Definition simplify_F0_9B (THIRD FOURTH : Z) : branch :=
  if THIRD <? 0x81 then
    if 0x82 <=? FOURTH then space else break
  else if (THIRD <? 0xB0) || (0xB2 <? THIRD) then space
  else if THIRD =? 0xB0 then break
  else by_status TABLE_4_F0_9B THIRD 0xB1 FOURTH (continue []).

(** The results of the [replace] of two octets that the code ignores. *)
Definition replaced_2 (m : outcome (bool * list Z)) : branch :=
  let* (_, w) := m in
  continue w.

Definition simplify_F0_9D (THIRD FOURTH : Z) : branch :=
  if THIRD <? 0x90 then by_status TABLE_4_F0_9D_1 THIRD 0x80 FOURTH (continue [])
  else if THIRD <? 0xA0 then
    let* MODIFIED := cell2 TABLE_4_F0_9D_2 (THIRD - 0x90) (Z.land FOURTH 0x3F) in
    replaced_2 (replace_2 MODIFIED [])
  else space.

Definition simplify_F0_9E (THIRD FOURTH : Z) : branch :=
  if THIRD <=? 0xA3 then
    if THIRD =? 0xA3 then by_status TABLE_4_F0_9E_1 THIRD 0xA3 FOURTH (continue [])
    else if THIRD <? 0xA0 then space
    else break
  else if (0xB8 <=? THIRD) && (THIRD <? 0xBB) then
    let* MODIFIED := cell2 TABLE_4_F0_9E_2 (THIRD - 0xB8) (Z.land FOURTH 0x3F) in
    replaced_2 (replace_2 MODIFIED [])
  else space.

Definition simplify_F0_9F (THIRD FOURTH : Z) : branch :=
  if (0x84 <=? THIRD) && (THIRD <? 0x8A) then
    let* MODIFIED := cell2 TABLE_4_F0_9F (THIRD - 0x84) (Z.land FOURTH 0x3F) in
    replaced (replace_4 MODIFIED TABLE_4_F0_9F_)
  else space.

Definition simplify_F0_AF (THIRD FOURTH : Z) : branch :=
  if (0xA0 <=? THIRD) && (THIRD <=? 0xA8) then
    let* MODIFIED := cell2 TABLE_4_F0_AF (THIRD - 0xA0) (Z.land FOURTH 0x3F) in
    replaced (replace_4 MODIFIED [])
  else space.

Definition simplify_F0 (FIRST SECOND THIRD FOURTH : Z) : branch :=
  if SECOND =? 0x90 then simplify_F0_90 FIRST SECOND THIRD FOURTH
  else if SECOND =? 0x91 then simplify_F0_91 FIRST SECOND THIRD FOURTH
  else if SECOND =? 0x92 then simplify_F0_92 THIRD FOURTH
  else if SECOND =? 0x93 then
    if (0x90 <? THIRD) || ((THIRD =? 0x90) && (0xAF <=? FOURTH)) then space else break
  else if SECOND =? 0x94 then
    if (THIRD <? 0x90) || (0x99 <? THIRD) || ((THIRD =? 0x99) && (0x87 <=? FOURTH)) then space
    else break
  else if SECOND =? 0x96 then simplify_F0_96 THIRD FOURTH
  else if SECOND =? 0x9B then simplify_F0_9B THIRD FOURTH
  else if SECOND =? 0x9D then simplify_F0_9D THIRD FOURTH
  else if SECOND =? 0x9E then simplify_F0_9E THIRD FOURTH
  else if SECOND =? 0x9F then simplify_F0_9F THIRD FOURTH
  else if SECOND =? 0xAA then
    if (THIRD =? 0x9B) && (0x97 <=? FOURTH) then space else break
  else if SECOND =? 0xAB then
    if ((THIRD =? 0x9C) && (0xB5 <=? FOURTH)) ||
       ((THIRD =? 0xA0) && (0x9E <=? FOURTH) && (FOURTH <=? 0x9F)) then space else break
  else if SECOND =? 0xAC then
    if (0xBA <? THIRD) || ((THIRD =? 0xBA) && (0xA2 <=? FOURTH)) then space else break
  else if SECOND =? 0xAF then simplify_F0_AF THIRD FOURTH
  else if (SECOND =? 0x95) || (SECOND =? 0x9C) || (SECOND =? 0xAE) then space
  else if negb ((0x97 <=? SECOND) &&
                ((0xB0 <=? SECOND) || (SECOND <=? 0x9A) || ((0xAD <=? SECOND) && (SECOND <=? 0xAE))))
  then break
  else space.

(** ** The loop

    A turn gives what it wrote and the octets it leaves, or [None] for
    [return true]. *)

(** What is written for a character that is not broken off, and the character
    itself after [break] *)
Definition simplified (b : branch) (same it : list Z) : outcome (option (list Z * list Z)) :=
  let* r := b in
  Ret (Some (match r with Some w => w | None => same end, it)).

(** [*dest++ = ' '; it.backward(...)] to the octet after the first *)
Definition junk (it : list Z) : outcome (option (list Z * list Z)) := Ret (Some ([0x20], it)).

Definition simplify_turn_2 (FIRST : Z) (it : list Z) : outcome (option (list Z * list Z)) :=
  match it with
  | [] => Ret None
  | SECOND :: it' =>
    if not_cont SECOND then junk it
    else
      let* MODIFIED := cell2 TABLE_2 (FIRST - 0xC2) (Z.land SECOND 0x3F) in
      simplified (replaced_2 (replace_2 MODIFIED TABLE_2_)) [] it'
  end.

Definition simplify_turn_3 (FIRST : Z) (it : list Z) : outcome (option (list Z * list Z)) :=
  match it with
  | SECOND :: THIRD :: it' =>
    if not_cont THIRD then junk it
    else if (if FIRST =? 0xE0 then negb (Z.land SECOND 0xE0 =? 0xA0)
             else negb (Z.land SECOND (if FIRST =? 0xED then 0xE0 else 0xC0) =? 0x80)) then junk it
    else simplified (simplify_3 FIRST SECOND THIRD) [FIRST; SECOND; THIRD] it'
  | _ => Ret None
  end.

Definition simplify_turn_4 (FIRST : Z) (it : list Z) : outcome (option (list Z * list Z)) :=
  match it with
  | SECOND :: THIRD :: FOURTH :: it' =>
    if not_cont FOURTH then junk it
    else if FIRST =? 0xF0 then
      if (SECOND <? 0x90) || (0xBF <? SECOND) || not_cont THIRD then junk it
      else simplified (simplify_F0 FIRST SECOND THIRD FOURTH) [FIRST; SECOND; THIRD; FOURTH] it'
    else if FIRST <? 0xF4 then
      Ret (Some ([0x20], if not_cont SECOND || not_cont THIRD then it else it'))
    else if FIRST =? 0xF4 then
      Ret (Some ([0x20],
        if negb (Z.land SECOND 0xF0 =? 0x80) || not_cont THIRD then it else it'))
    else junk it
  | _ => Ret None
  end.

Definition simplify_turn (FIRST : Z) (it : list Z) : outcome (option (list Z * list Z)) :=
  match get_octet_count FIRST with
  | 1 =>
    let* ch := cell TABLE_1 FIRST in
    Ret (Some ([ch], it))
  | 2 => simplify_turn_2 FIRST it
  | 3 => simplify_turn_3 FIRST it
  | 4 => simplify_turn_4 FIRST it
  | _ => Ret (Some ([0x20], it))
  end.

Fixpoint simplify_loop (fuel : nat) (it dest : list Z) : outcome (list Z) :=
  match it with
  | [] => Ret dest
  | FIRST :: it =>
    match fuel with
    | O => Undef
    | S fuel =>
      let* r := simplify_turn FIRST it in
      match r with
      | None => Ret dest
      | Some (w, it) => simplify_loop fuel it (dest ++ w)
      end
    end
  end.

(** The result is always [true] and the counter stays 0. *)
Definition to_simplify (it : list Z) : outcome (bool * list Z * Z) :=
  let* dest := simplify_loop (length it) it [] in
  Ret (true, dest, 0).

Definition Simplify : Action := {| MULTIPLIER := 11; doit := to_simplify |}.
