(* ===== verification/CaseText.v ===== *)
(** * CaseText: the case conversions on texts

    What the functions of [Utf8Case] and [Utf8Simplify] do with a text: they are
    total, stay within their buffers, decide whether the text is well formed and
    convert it character by character.  The tables are evaluated once, on the
    characters the code looks up; all other characters stand for themselves. *)
From S2P Require Import Prelude Utf8 Utf8Tables LowerTables UpperTables UniformTables SimplifyTables.
From S2P Require Import Utf8Case Utf8Simplify.
Local Open Scope Z_scope.
Local Open Scope outcome_scope.

(** ** Well-formed sequences at the head of a text *)

Abbreviation wf seq := (utf8_well_formed seq = true).

(** The sequence a text begins with, and what follows it *)
Definition first_sequence (s : list Z) : option (list Z * list Z) :=
  match s with
  | [] => None
  | a :: s1 =>
    if utf8_well_formed [a] then Some ([a], s1)
    else match s1 with
    | [] => None
    | b :: s2 =>
      if utf8_well_formed [a; b] then Some ([a; b], s2)
      else match s2 with
      | [] => None
      | c :: s3 =>
        if utf8_well_formed [a; b; c] then Some ([a; b; c], s3)
        else match s3 with
        | [] => None
        | d :: s4 => if utf8_well_formed [a; b; c; d] then Some ([a; b; c; d], s4) else None
        end
      end
    end
  end.

(** The sequences of a text *)
Fixpoint sequences_of (fuel : nat) (s : list Z) : option (list (list Z)) :=
  match s, fuel with
  | [], _ => Some []
  | _, O => None
  | _, S fuel =>
    match first_sequence s with
    | Some (q, r) =>
      match sequences_of fuel r with
      | Some qs => Some (q :: qs)
      | None => None
      end
    | None => None
    end
  end.

Definition sequences (s : list Z) : option (list (list Z)) := sequences_of (length s) s.

(** A text of [n] characters *)
Definition is_text (s : list Z) (n : Z) : Prop :=
  exists seqs, s = concat seqs /\ Forall (fun q => wf q) seqs /\ n = Z.of_nat (length seqs).

Lemma wf_cases seq : wf seq ->
  (exists a, seq = [a] /\ 0 <= a <= 0x7F) \/
  (exists a b, seq = [a; b] /\ 0xC2 <= a <= 0xDF /\ 0x80 <= b <= 0xBF) \/
  (exists a b c, seq = [a; b; c] /\ 0xE0 <= a <= 0xEF /\ second_octet_ok a b = true /\ 0x80 <= c <= 0xBF) \/
  (exists a b c d, seq = [a; b; c; d] /\ 0xF0 <= a <= 0xF4 /\ second_octet_ok a b = true /\
     0x80 <= c <= 0xBF /\ 0x80 <= d <= 0xBF).
Proof.
  destruct seq as [|a [|b [|c [|d [|]]]]]; cbn [utf8_well_formed]; try discriminate;
    rewrite ?andb_true_iff, ?between_spec; intros H.
  - left. eauto.
  - right. left. exists a, b. tauto.
  - right. right. left. exists a, b, c. tauto.
  - right. right. right. exists a, b, c, d. tauto.
Qed.

Lemma second_octet_range a b : second_octet_ok a b = true -> 0x80 <= b <= 0xBF.
Proof. unfold second_octet_ok. repeat case_Z; rewrite between_spec; lia. Qed.

Lemma wf_count seq : wf seq ->
  match seq with
  | [] => False
  | h :: t => get_octet_count h = Z.of_nat (length seq) /\ is_byte h /\ bytes_ok t
  end.
Proof.
  intros H. apply wf_cases in H as [(a & -> & Ha)|[(a & b & -> & Ha & Hb)|
    [(a & b & c & -> & Ha & Hb & Hc)|(a & b & c & d & -> & Ha & Hb & Hc & Hd)]]];
    try apply second_octet_range in Hb;
    (split; [|unfold is_byte; split; [lia|repeat constructor; lia]]);
    rewrite get_octet_count_val by (unfold is_byte; lia); by decide_Z.
Qed.

Lemma wf_bytes seq : wf seq -> bytes_ok seq.
Proof. intros H. apply wf_count in H. destruct seq; [done|]. constructor; tauto. Qed.

Lemma wf_length seq : wf seq -> (0 < length seq)%nat.
Proof. intros H. apply wf_count in H. destruct seq; [done|]. simpl. lia. Qed.

Lemma wf_prefix q r q' r' : wf q -> wf q' -> q ++ r = q' ++ r' -> q = q' /\ r = r'.
Proof.
  intros Hq Hq' E. pose proof (wf_count _ Hq) as C. pose proof (wf_count _ Hq') as C'.
  destruct q as [|h t], q' as [|h' t']; try done. injection E as -> E.
  destruct C as [C _], C' as [C' _]. rewrite C in C'. simpl in C'.
  apply app_inj_1 in E as [-> ->]; [done|]. lia.
Qed.

Lemma first_sequence_spec s q r : first_sequence s = Some (q, r) -> s = q ++ r /\ wf q.
Proof.
  destruct s as [|a [|b [|c [|d s]]]]; cbn [first_sequence]; intros H;
    repeat match goal with
    | H : (if utf8_well_formed ?x then _ else _) = _ |- _ =>
      destruct (utf8_well_formed x) eqn:?; [injection H as <- <-; auto|]
    end; discriminate.
Qed.

Lemma first_sequence_none s q r : first_sequence s = None -> wf q -> s <> q ++ r.
Proof.
  intros H Hq ->. apply wf_cases in Hq as W.
  destruct W as [(a & -> & _)|[(a & b & -> & _)|[(a & b & c & -> & _)|(a & b & c & d & -> & _)]]];
    cbn [first_sequence app] in H; rewrite Hq in H;
    repeat match goal with
    | H : (if utf8_well_formed ?x then _ else _) = _ |- _ =>
      destruct (utf8_well_formed x); [discriminate|]
    end; discriminate.
Qed.

Lemma first_sequence_app q r : wf q -> first_sequence (q ++ r) = Some (q, r).
Proof.
  intros Hq. destruct (first_sequence (q ++ r)) as [[q' r']|] eqn:E.
  - apply first_sequence_spec in E as [E Hq']. by destruct (wf_prefix _ _ _ _ Hq Hq' E) as [-> ->].
  - by destruct (first_sequence_none _ q r E Hq).
Qed.

Lemma sequences_of_sound fuel : forall s qs,
  sequences_of fuel s = Some qs -> s = concat qs /\ Forall (fun q => wf q) qs.
Proof.
  induction fuel as [|fuel IH]; intros s qs H; destruct s as [|a s]; cbn [sequences_of] in H;
    try (injection H as <-; done); try discriminate.
  destruct (first_sequence _) as [[q r]|] eqn:F; [|discriminate].
  destruct (sequences_of fuel r) as [qs'|] eqn:E; [|discriminate]. injection H as <-.
  apply first_sequence_spec in F as [-> Hq]. apply IH in E as [-> Hqs]. auto.
Qed.

Lemma sequences_sound s qs : sequences s = Some qs -> s = concat qs /\ Forall (fun q => wf q) qs.
Proof. apply sequences_of_sound. Qed.

(** The characters of a text are determined. *)
Lemma concat_inj qs : forall qs', Forall (fun q => wf q) qs -> Forall (fun q => wf q) qs' ->
  concat qs = concat qs' -> qs = qs'.
Proof.
  induction qs as [|q qs IH]; intros [|q' qs'] H H' E; [done|..]; simpl in E.
  - inversion H' as [|? ? W]; subst. apply wf_length in W. destruct q'; simpl in *; [lia|done].
  - inversion H as [|? ? W]; subst. apply wf_length in W. destruct q; simpl in *; [lia|done].
  - inversion H as [|? ? W Hs]; inversion H' as [|? ? W' Hs']; subst.
    destruct (wf_prefix _ _ _ _ W W' E) as [-> E']. f_equal. auto.
Qed.

Lemma is_text_count s n n' : is_text s n -> is_text s n' -> n = n'.
Proof.
  intros (qs & -> & Hqs & ->) (qs' & E & Hqs' & ->). by rewrite (concat_inj _ _ Hqs Hqs' E).
Qed.

(** Every text is cut at its first ill-formed octet in one way. *)
Lemma cut_text s : exists seqs rest,
  s = concat seqs ++ rest /\ Forall (fun q => wf q) seqs /\ first_sequence rest = None.
Proof.
  induction s as [s IH] using (induction_ltof1 _ (@length Z)); unfold ltof in IH.
  destruct (first_sequence s) as [[q r]|] eqn:F; [|by exists [], s].
  apply first_sequence_spec in F as [-> Hq]. destruct (IH r) as (seqs & rest & -> & H & Hr).
  { rewrite length_app. apply wf_length in Hq. lia. }
  exists (q :: seqs), rest. simpl. rewrite app_assoc. auto.
Qed.

(** ** Conversions character by character *)

(** What a conversion does with one sequence *)
Definition conv (c : conversion) (seq : list Z) : put :=
  match seq with
  | [a] =>
    let* ch := cell (one c) a in
    emit [ch]
  | [a; b] => two c a b
  | [a; b; d] => three c a b d
  | [a; b; d; e] => four c a b d e
  | _ => ill_formed
  end.

Definition image (c : conversion) (seq : list Z) : list Z :=
  match conv c seq with
  | Ret (Some (w, _)) => w
  | _ => []
  end.

Definition extra (c : conversion) (seq : list Z) : Z :=
  match conv c seq with
  | Ret (Some (_, more)) => more
  | _ => 0
  end.

(** What the theorems need of a conversion: every well-formed sequence becomes a
    text of at most [m] times its length, the counter counts its characters, and
    every one of them stands for itself; and four octets that are ill formed are
    refused. *)
Class Converts (c : conversion) (m : Z) : Prop := {
  conv_text : forall seq, wf seq ->
    conv c seq = Ret (Some (image c seq, extra c seq)) /\
    is_text (image c seq) (1 + extra c seq) /\
    Z.of_nat (length (image c seq)) <= m * Z.of_nat (length seq);
  conv_again : forall seq qs, wf seq -> image c seq = concat qs -> Forall (fun q => wf q) qs ->
    Forall (fun q => conv c q = emit q) qs;
  conv_refuses : forall a b d e, 0xF0 <= a < 0xF8 -> is_byte b ->
    0x80 <= d <= 0xBF -> 0x80 <= e <= 0xBF -> utf8_well_formed [a; b; d; e] = false ->
    four c a b d e = ill_formed }.

Lemma not_cont_val ch : is_byte ch -> not_cont ch = negb (between 0x80 ch 0xBF).
Proof. intros H. unfold not_cont. by rewrite cont_mask. Qed.

(** The check of the second of three octets *)
Lemma second_of_three a b : is_byte b -> 0xE0 <= a <= 0xEF ->
  (if a =? 0xE0 then negb (Z.land b 0xE0 =? 0xA0)
   else if a =? 0xED then negb (Z.land b 0xE0 =? 0x80)
   else not_cont b) = negb (second_octet_ok a b).
Proof.
  intros Hb Ha. rewrite <- second_mask by done. unfold not_cont.
  repeat case_Z; try reflexivity; lia.
Qed.

Lemma case_turn_wf c h t rest : wf (h :: t) ->
  case_turn c h (t ++ rest) = advance (conv c (h :: t)) rest.
Proof.
  intros H. pose proof (wf_count _ H) as (C & _ & Ht). unfold case_turn. rewrite C.
  apply wf_cases in H as [(a & E & Ha)|[(a & b & E & Ha & Hb)|
    [(a & b & d & E & Ha & Hb & Hd)|(a & b & d & e & E & Ha & Hb & Hd & He)]]];
    injection E as -> ->; cbn [length app case_2 case_3 case_4 conv]; decompose_Forall_hyps.
  - unfold advance. by destruct (cell _ _).
  - rewrite not_cont_val, between_true by (done || lia). done.
  - rewrite not_cont_val, between_true by (done || lia). cbn [negb].
    by rewrite second_of_three, Hb.
  - by rewrite !not_cont_val, !between_true by (done || lia).
Qed.

Lemma case_turn_ill c m h it : Converts c m -> bytes_ok (h :: it) ->
  first_sequence (h :: it) = None -> case_turn c h it = Ret None.
Proof.
  intros HC Hb F. inversion Hb as [|? ? Hh Hit]; subst.
  assert (N : forall q r, wf q -> h :: it <> q ++ r) by (intros q r; by apply first_sequence_none).
  unfold case_turn. rewrite get_octet_count_val by done. unfold is_byte in Hh.
  assert (W : forall b, b = false \/ b = true) by (intros []; auto).
  repeat case_Z; try done; try lia.
  - destruct (N [h] it); [|done]. cbn. apply between_true. lia.
  - destruct it as [|b it]; [done|]. cbn [case_2]. decompose_Forall_hyps.
    rewrite not_cont_val by done. destruct (between 0x80 b 0xBF) eqn:Eb; [|done].
    destruct (N [h; b] it); [|done]. cbn [utf8_well_formed]. rewrite Eb, between_true by lia. done.
  - destruct it as [|b [|d it]]; [done..|]. cbn [case_3]. decompose_Forall_hyps.
    rewrite not_cont_val by done. destruct (between 0x80 d 0xBF) eqn:Ed; [|done].
    rewrite second_of_three by (done || lia). destruct (second_octet_ok h b) eqn:Eb; [|done].
    destruct (N [h; b; d] it); [|done]. cbn [utf8_well_formed]. rewrite Ed, Eb, between_true by lia. done.
  - destruct it as [|b [|d [|e it]]]; [done..|]. cbn [case_4]. decompose_Forall_hyps.
    rewrite !not_cont_val by done. destruct (between 0x80 d 0xBF) eqn:Ed; [|done].
    destruct (between 0x80 e 0xBF) eqn:Ee; [|done]. cbn [negb].
    rewrite conv_refuses; [done|lia|done|by apply between_spec..|].
    destruct (W (utf8_well_formed [h; b; d; e])) as [E|E]; [done|].
    by destruct (N _ it E).
Qed.

Definition count (c : conversion) (seqs : list (list Z)) : Z :=
  Z.of_nat (length seqs) + fold_right (fun q n => extra c q + n) 0 seqs.

Lemma case_loop_spec c m (HC : Converts c m) : forall fuel seqs rest dest n,
  Forall (fun q => wf q) seqs -> first_sequence rest = None -> bytes_ok rest ->
  (length (concat seqs ++ rest) <= fuel)%nat ->
  case_loop c fuel (concat seqs ++ rest) dest n =
  Ret (bool_decide (rest = []), dest ++ concat (map (image c) seqs), n + count c seqs).
Proof.
  induction fuel as [|fuel IH]; intros [|q seqs] rest dest n Hs F Hb L; cbn [concat map] in *.
  - destruct rest; [|simpl in L; lia]. rewrite (app_nil_r dest). change (count c []) with 0. by rewrite Z.add_0_r.
  - inversion Hs as [|? ? W]; subst. apply wf_length in W. rewrite !length_app in L. lia.
  - rewrite (app_nil_r dest). change (count c []) with 0. rewrite Z.add_0_r. destruct rest as [|h it]; [done|]. cbn [app case_loop].
    by rewrite (case_turn_ill _ m).
  - inversion Hs as [|? ? Hq Hqs]; subst. pose proof (wf_count _ Hq) as W.
    destruct q as [|h t]; [done|]. rewrite <- app_assoc. cbn [app case_loop].
    rewrite case_turn_wf by done. destruct (conv_text _ Hq) as (E & _ & _).
    unfold advance. rewrite E. cbn [obind]. rewrite IH; try done.
    + unfold count. cbn [length fold_right]. rewrite <- app_assoc.
      f_equal. f_equal. lia.
    + rewrite <- app_assoc, !length_app in L. simpl in L. rewrite length_app. lia.
Qed.

(** ** The characters the tables are asked for *)

(** Sequences the three conversions may change *)
Definition touched (seq : list Z) : bool :=
  match seq with
  | [a; b; _] =>
    (a =? 0xE1) || (a =? 0xE2) ||
    ((a =? 0xEA) && (between 0x99 b 0x9E || (b =? 0xAD) || (b =? 0xAE))) ||
    ((a =? 0xEF) && ((b =? 0xAC) || (b =? 0xBC) || (b =? 0xBD)))
  | [a; b; c; _] =>
    (a =? 0xF0) &&
    (((b =? 0x90) && ((c =? 0x90) || (c =? 0x91) || (c =? 0xB2) || (c =? 0xB3))) ||
     ((b =? 0x91) && ((c =? 0xA2) || (c =? 0xA3))))
  | _ => true
  end.

Definition octets (lo : Z) (n : nat) : list Z := map (Z.add lo) (all_below n).
Definition conts : list Z := octets 0x80 64.

(** A prefix with all its last octets *)
Definition plane (prefix : list Z) : list (list Z) := map (fun x => prefix ++ [x]) conts.

Definition touched_prefixes : list (list Z) :=
  map (fun a => [a]) (octets 0xC2 30) ++
  map (fun b => [0xE1; b]) conts ++ map (fun b => [0xE2; b]) conts ++
  map (fun b => [0xEA; b]) (octets 0x99 6 ++ [0xAD; 0xAE]) ++
  map (fun b => [0xEF; b]) [0xAC; 0xBC; 0xBD] ++
  [[0xF0; 0x90; 0x90]; [0xF0; 0x90; 0x91]; [0xF0; 0x90; 0xB2]; [0xF0; 0x90; 0xB3];
   [0xF0; 0x91; 0xA2]; [0xF0; 0x91; 0xA3]].

(** A property of all characters of the tables, as one evaluation *)
Definition on_touched (P : list Z -> bool) : bool :=
  forallb (fun a => P [a]) (all_below 128) &&
  forallb (fun prefix => forallb P (plane prefix)) touched_prefixes.

Lemma in_octets lo n x : lo <= x < lo + Z.of_nat n -> In x (octets lo n).
Proof.
  intros H. apply in_map_iff. exists (x - lo). split; [lia|]. apply in_all_below. lia.
Qed.

Lemma in_plane prefix x : 0x80 <= x <= 0xBF -> In (prefix ++ [x]) (plane prefix).
Proof. intros H. apply (in_map (fun x => prefix ++ [x])), in_octets. lia. Qed.

Lemma on_touched_spec P seq : on_touched P = true -> wf seq -> touched seq = true -> P seq = true.
Proof.
  intros H W T. apply andb_true_iff in H as [H1 H2]. rewrite forallb_forall in H1, H2.
  assert (HP : forall prefix x, In prefix touched_prefixes -> 0x80 <= x <= 0xBF -> P (prefix ++ [x]) = true).
  { intros prefix x Hp Hx. apply H2 in Hp. rewrite forallb_forall in Hp. by apply Hp, in_plane. }
  unfold touched_prefixes in HP.
  apply wf_cases in W as [(a & -> & Ha)|[(a & b & -> & Ha & Hb)|
    [(a & b & d & -> & Ha & Hb & Hd)|(a & b & d & e & -> & Ha & Hb & Hd & He)]]];
    try apply second_octet_range in Hb; cbn [touched] in T;
    rewrite ?orb_true_iff, ?andb_true_iff, ?orb_true_iff, ?andb_true_iff, ?orb_true_iff, ?between_spec, ?Z.eqb_eq in T.
  - apply H1, in_all_below. lia.
  - apply (HP [a]); [|lia]. rewrite in_app_iff. left. apply (in_map (fun a => [a])), in_octets. lia.
  - apply (HP [a; b]); [|lia]. rewrite !in_app_iff.
    destruct T as [[[->| ->]|[-> T]]|[-> T]].
    + right. left. apply (in_map (fun b => [0xE1; b])), in_octets. lia.
    + right. right. left. apply (in_map (fun b => [0xE2; b])), in_octets. lia.
    + right. right. right. left. apply (in_map (fun b => [0xEA; b])), in_app_iff.
      destruct T as [[T|T]|T]; [left; apply in_octets; lia|subst; right; simpl; auto..].
    + right. right. right. right. left. apply (in_map (fun b => [0xEF; b])).
      destruct T as [[T|T]|T]; subst; simpl; auto.
  - apply (HP [a; b; d]); [|lia]. rewrite !in_app_iff. do 5 right. simpl.
    destruct T as [-> [[-> T]|[-> T]]]; [destruct T as [[[T|T]|T]|T]|destruct T as [T|T]]; subst; tauto.
Qed.

(** The other sequences stand for themselves. *)
Lemma slot_EA b : 0x80 <= b <= 0xBF -> (u8 (b - 0x99) <? 6) = between 0x99 b 0x9E.
Proof.
  intros H. assert (Hb : is_byte b) by (unfold is_byte; lia). clear H. apply eqb_prop. byte_eval b.
Qed.

Definition keeps_untouched (c : conversion) : Prop :=
  forall seq, wf seq -> touched seq = false -> conv c seq = emit seq.

Lemma four_rest_val a b d e : 0xF0 <= a < 0xF8 -> is_byte b ->
  0x80 <= d <= 0xBF -> 0x80 <= e <= 0xBF ->
  four_rest a b d e = if utf8_well_formed [a; b; d; e] then emit [a; b; d; e] else ill_formed.
Proof.
  intros Ha Hb Hd He. unfold four_rest. cbn [utf8_well_formed].
  rewrite (between_true _ d), (between_true _ e), !andb_true_r by lia.
  rewrite <- second_mask by done. unfold between, not_cont.
  repeat case_Z; try lia; try reflexivity; by destruct (_ =? _).
Qed.

(** [branches T] goes through the comparisons of the goal and of the hypothesis
    [T] and leaves the branches that are possible. *)
Ltac branches T :=
  repeat (case_Z; cbn [andb orb negb] in *; try discriminate T; try lia); try reflexivity.

Lemma untouched_cases (P : list Z -> Prop) :
  (forall a b d, wf [a; b; d] -> touched [a; b; d] = false ->
    0xE0 <= a <= 0xEF -> 0x80 <= b <= 0xBF -> 0x80 <= d <= 0xBF -> P [a; b; d]) ->
  (forall a b d e, wf [a; b; d; e] -> touched [a; b; d; e] = false ->
    0xF0 <= a <= 0xF4 -> 0x80 <= b <= 0xBF -> 0x80 <= d <= 0xBF -> 0x80 <= e <= 0xBF ->
    P [a; b; d; e]) ->
  forall seq, wf seq -> touched seq = false -> P seq.
Proof.
  intros P3 P4 seq W T. apply wf_cases in W as W'.
  destruct W' as [(a & -> & Ha)|[(a & b & -> & Ha & Hb)|
    [(a & b & d & -> & Ha & Hb & Hd)|(a & b & d & e & -> & Ha & Hb & Hd & He)]]]; try discriminate T;
    apply second_octet_range in Hb; auto.
Qed.

Lemma lower_untouched : keeps_untouched lower.
Proof.
  unfold keeps_untouched. apply untouched_cases; intros * W T; intros; cbn [conv].
  - unfold lower, three, lower_3. rewrite slot_EA by lia. unfold touched, between in *. branches T.
  - unfold lower, four, lower_4. unfold touched in *. rewrite four_rest_val, W by (unfold is_byte; lia).
    branches T.
Qed.

Lemma upper_untouched : keeps_untouched upper.
Proof.
  unfold keeps_untouched. apply untouched_cases; intros * W T; intros; cbn [conv].
  - unfold upper, three, upper_3. rewrite slot_EA by lia.
    rewrite not_cont_val, (between_true 0x80 b) by (unfold is_byte; lia).
    unfold touched, between in *. branches T.
  - unfold upper, four, upper_4. unfold touched in *. rewrite four_rest_val, W by (unfold is_byte; lia).
    branches T.
Qed.

Lemma uniform_untouched : keeps_untouched uniform.
Proof.
  unfold keeps_untouched. apply untouched_cases; intros * W T; intros; cbn [conv].
  - unfold uniform, three, uniform_3. rewrite slot_EA by lia.
    rewrite not_cont_val, (between_true 0x80 b) by (unfold is_byte; lia).
    unfold touched, between in *. branches T.
  - unfold uniform, four, uniform_4. unfold touched in *. rewrite four_rest_val, W by (unfold is_byte; lia).
    branches T.
Qed.

Fixpoint same (s t : list Z) : bool :=
  match s, t with
  | [], [] => true
  | x :: s, y :: t => (x =? y) && same s t
  | _, _ => false
  end.

Lemma same_spec s : forall t, same s t = true -> s = t.
Proof.
  induction s as [|x s IH]; intros [|y t]; simpl; try done.
  rewrite andb_true_iff, Z.eqb_eq. intros [-> H]. f_equal. auto.
Qed.

Definition fixed (c : conversion) (q : list Z) : bool :=
  match conv c q with
  | Ret (Some (w, more)) => same w q && (more =? 0)
  | _ => false
  end.

Lemma fixed_spec c q : fixed c q = true -> conv c q = emit q.
Proof.
  unfold fixed. destruct (conv c q) as [[[w more]|]| |]; try discriminate.
  rewrite andb_true_iff, Z.eqb_eq. intros [H ->]. by rewrite (same_spec _ _ H).
Qed.

(** The promises of [Converts] for one sequence, as an evaluation *)
Definition converted (c : conversion) (m : Z) (seq : list Z) : bool :=
  match conv c seq with
  | Ret (Some (w, more)) =>
    match sequences w with
    | Some qs =>
      (Z.of_nat (length qs) =? 1 + more) &&
      (Z.of_nat (length w) <=? m * Z.of_nat (length seq)) && forallb (fixed c) qs
    | None => false
    end
  | _ => false
  end.

Lemma lower_tables : on_touched (converted lower 2) = true.
Proof. vm_cast_no_check (eq_refl true). Qed.

Lemma upper_tables : on_touched (converted upper 2) = true.
Proof. vm_cast_no_check (eq_refl true). Qed.

Lemma uniform_tables : on_touched (converted uniform 3) = true.
Proof. vm_cast_no_check (eq_refl true). Qed.

Lemma is_text_one seq : wf seq -> is_text seq 1.
Proof. intros W. exists [seq]. simpl. rewrite app_nil_r. auto. Qed.

Lemma converted_spec c m seq : converted c m seq = true ->
  conv c seq = Ret (Some (image c seq, extra c seq)) /\
  Z.of_nat (length (image c seq)) <= m * Z.of_nat (length seq) /\
  exists qs, image c seq = concat qs /\ Forall (fun q => wf q) qs /\
    1 + extra c seq = Z.of_nat (length qs) /\ Forall (fun q => conv c q = emit q) qs.
Proof.
  unfold converted, image, extra. destruct (conv c seq) as [[[w more]|]| |]; try discriminate.
  destruct (sequences w) as [qs|] eqn:E; [|discriminate].
  rewrite !andb_true_iff, Z.eqb_eq, Z.leb_le, forallb_forall. intros [[Hn Hl] Hf].
  apply sequences_sound in E as [-> Hq]. repeat split; [done|]. exists qs. repeat split; [done|done|].
  rewrite Forall_forall. intros q Hin. apply fixed_spec, Hf. by apply list_elem_of_In.
Qed.

Lemma converted_fixed c m seq : 1 <= m -> wf seq -> conv c seq = emit seq ->
  conv c seq = Ret (Some (image c seq, extra c seq)) /\
  Z.of_nat (length (image c seq)) <= m * Z.of_nat (length seq) /\
  exists qs, image c seq = concat qs /\ Forall (fun q => wf q) qs /\
    1 + extra c seq = Z.of_nat (length qs) /\ Forall (fun q => conv c q = emit q) qs.
Proof.
  intros Hm W E. unfold image, extra. rewrite E. cbn. repeat split; [nia|].
  exists [seq]. simpl. rewrite app_nil_r. auto.
Qed.

Lemma Converts_tables c m : 1 <= m -> keeps_untouched c -> on_touched (converted c m) = true ->
  (forall a b d e, 0xF0 <= a < 0xF8 -> is_byte b ->
    0x80 <= d <= 0xBF -> 0x80 <= e <= 0xBF -> utf8_well_formed [a; b; d; e] = false ->
    four c a b d e = ill_formed) ->
  Converts c m.
Proof.
  intros Hm HU HT HR.
  assert (H : forall seq, wf seq -> conv c seq = Ret (Some (image c seq, extra c seq)) /\
    Z.of_nat (length (image c seq)) <= m * Z.of_nat (length seq) /\
    exists qs, image c seq = concat qs /\ Forall (fun q => wf q) qs /\
      1 + extra c seq = Z.of_nat (length qs) /\ Forall (fun q => conv c q = emit q) qs).
  { intros seq W. destruct (touched seq) eqn:T.
    - apply converted_spec. by apply on_touched_spec.
    - apply converted_fixed; auto. }
  split; [| |done].
  - intros seq W. destruct (H seq W) as (E & L & qs & Eq & Hq & Hn & _).
    split; [done|]. split; [|done]. exists qs. auto.
  - intros seq qs W E Hqs. destruct (H seq W) as (_ & _ & qs' & E' & Hq' & _ & Hf).
    rewrite E' in E. by rewrite <- (concat_inj _ _ Hq' Hqs E).
Qed.

(** Ill-formed sequences take none of the branches before the check. *)
Ltac refuses f :=
  intros a b d e Ha Hb Hd He W; unfold four, f; rewrite four_rest_val, W by done;
  cbn [utf8_well_formed] in W;
  rewrite (between_true _ d), (between_true _ e), !andb_true_r in W by lia;
  unfold second_octet_ok, between in W;
  repeat (case_Z; cbn [andb orb] in *; try discriminate W; try lia); reflexivity.

#[export] Instance Converts_lower : Converts lower 2.
Proof. apply Converts_tables; [lia|exact lower_untouched|exact lower_tables|]. unfold lower. refuses lower_4. Qed.

#[export] Instance Converts_upper : Converts upper 2.
Proof. apply Converts_tables; [lia|exact upper_untouched|exact upper_tables|]. unfold upper. refuses upper_4. Qed.

#[export] Instance Converts_uniform : Converts uniform 3.
Proof. apply Converts_tables; [lia|exact uniform_untouched|exact uniform_tables|]. unfold uniform. refuses uniform_4. Qed.

(** ** [case_change] with a conversion *)

Definition action_of (c : conversion) (m : Z) : Action :=
  {| MULTIPLIER := m; doit := fun it => case_loop c (length it) it [] 0 |}.

Lemma concat_text (f : list Z -> list Z) (k : list Z -> Z) m seqs :
  (forall q, wf q -> is_text (f q) (k q) /\ Z.of_nat (length (f q)) <= m * Z.of_nat (length q)) ->
  Forall (fun q => wf q) seqs ->
  is_text (concat (map f seqs)) (fold_right (fun q n => k q + n) 0 seqs) /\
  Z.of_nat (length (concat (map f seqs))) <= m * Z.of_nat (length (concat seqs)).
Proof.
  intros H. induction 1 as [|q seqs W _ [IH IL]]; [by split; [exists []|simpl; lia]|].
  destruct (H q W) as [(qs & E & Hq & En) L]. cbn [map concat fold_right]. split.
  - destruct IH as (qs' & E' & Hq' & En'). exists (qs ++ qs').
    rewrite E, E', concat_app, En, En', length_app. repeat split; [by apply Forall_app|lia].
  - rewrite !length_app. nia.
Qed.

Lemma count_sum c seqs : count c seqs = fold_right (fun q n => 1 + extra c q + n) 0 seqs.
Proof. unfold count. induction seqs as [|q seqs IH]; [done|]. simpl length. simpl fold_right. lia. Qed.

Lemma images_text c m seqs : Converts c m -> Forall (fun q => wf q) seqs ->
  is_text (concat (map (image c) seqs)) (count c seqs) /\
  Z.of_nat (length (concat (map (image c) seqs))) <= m * Z.of_nat (length (concat seqs)).
Proof.
  intros HC Hs. rewrite count_sum. apply concat_text; [|done].
  intros q W. destruct (conv_text q W) as (_ & T & L). auto.
Qed.

Lemma case_change_conv c m seqs rest : Converts c m -> 1 <= m ->
  Forall (fun q => wf q) seqs -> first_sequence rest = None -> bytes_ok rest ->
  case_change (action_of c m) (concat seqs ++ rest) =
  Ret (bool_decide (rest = []), concat (map (image c) seqs), count c seqs).
Proof.
  intros HC Hm Hs F Hb. unfold case_change, action_of. cbn [doit MULTIPLIER].
  rewrite (case_loop_spec c m) by done. cbn [obind app]. unfold guard.
  destruct (images_text c m seqs HC Hs) as [_ L]. rewrite (proj2 (Z.leb_le _ _)); [done|].
  rewrite length_app. nia.
Qed.

(** A well-formed text *)
Lemma case_change_text c m seqs : Converts c m -> 1 <= m -> Forall (fun q => wf q) seqs ->
  case_change (action_of c m) (concat seqs) = Ret (true, concat (map (image c) seqs), count c seqs).
Proof.
  intros HC Hm Hs. rewrite <- (app_nil_r (concat seqs)). by rewrite (case_change_conv c m).
Qed.

Lemma images_fixed c qs : Forall (fun q => conv c q = emit q) qs -> map (image c) qs = qs.
Proof. induction 1 as [|q qs E _ IH]; [done|]. cbn [map]. unfold image at 1. rewrite E. cbn. by f_equal. Qed.

(** The sequences of an image *)
Lemma split_images (f : list Z -> list Z) (P : list Z -> Prop) seqs :
  Forall (fun q => exists qs, f q = concat qs /\ Forall (fun p => wf p) qs /\ Forall P qs) seqs ->
  exists qs, concat (map f seqs) = concat qs /\ Forall (fun p => wf p) qs /\ Forall P qs.
Proof.
  induction 1 as [|q seqs (qs & E & Hq & HP) _ (qs' & E' & Hq' & HP')]; [by exists []|].
  exists (qs ++ qs'). cbn [map concat]. rewrite E, E', concat_app.
  repeat split; by apply Forall_app.
Qed.

Lemma images_split c m seqs : Converts c m -> Forall (fun q => wf q) seqs ->
  exists qs, concat (map (image c) seqs) = concat qs /\ Forall (fun q => wf q) qs /\
    Forall (fun q => conv c q = emit q) qs.
Proof.
  intros HC Hs. apply split_images. eapply Forall_impl; [exact Hs|]. intros q W.
  destruct (conv_text q W) as (_ & (qs & E & Hq & _) & _). exists qs.
  repeat split; [done|done|]. by apply (conv_again q).
Qed.

Lemma image_length_count c m seqs qs : Converts c m -> Forall (fun q => wf q) seqs ->
  Forall (fun q => wf q) qs -> concat (map (image c) seqs) = concat qs ->
  count c seqs = Z.of_nat (length qs).
Proof.
  intros HC Hs Hq E. destruct (images_text c m seqs HC Hs) as [T _].
  apply (is_text_count (concat (map (image c) seqs))); [done|]. exists qs. auto.
Qed.

(** ** Simplification of one sequence *)

Definition kept (b : branch) (seq : list Z) : outcome (list Z) :=
  let* r := b in
  Ret (match r with Some w => w | None => seq end).

Definition simple (seq : list Z) : outcome (list Z) :=
  match seq with
  | [a] =>
    let* ch := cell SimplifyTables.TABLE_1 a in
    Ret [ch]
  | [a; b] =>
    let* MODIFIED := cell2 SimplifyTables.TABLE_2 (a - 0xC2) (Z.land b 0x3F) in
    kept (replaced_2 (replace_2 MODIFIED TABLE_2_)) []
  | [a; b; d] => kept (simplify_3 a b d) seq
  | [a; b; d; e] => if a =? 0xF0 then kept (simplify_F0 a b d e) seq else Ret [0x20]
  | _ => Undef
  end.

Definition simple_image (seq : list Z) : list Z :=
  match simple seq with
  | Ret w => w
  | _ => []
  end.

(** The continuation octets a first octet announces *)
Definition announced (h : Z) : nat :=
  match get_octet_count h with
  | 2 => 1
  | 3 => 2
  | 4 => 3
  | _ => 0
  end.

Lemma simplified_kept b same it : simplified b same it = let* w := kept b same in Ret (Some (w, it)).
Proof. unfold simplified, kept. by destruct b. Qed.

Lemma second_of_three_simplify a b : is_byte b -> 0xE0 <= a <= 0xEF ->
  (if a =? 0xE0 then negb (Z.land b 0xE0 =? 0xA0)
   else negb (Z.land b (if a =? 0xED then 0xE0 else 0xC0) =? 0x80)) = negb (second_octet_ok a b).
Proof.
  intros Hb Ha. rewrite <- second_of_three by done. unfold not_cont. by repeat case_Z.
Qed.

Lemma second_of_F4 b : is_byte b -> negb (Z.land b 0xF0 =? 0x80) = negb (second_octet_ok 0xF4 b).
Proof. intros Hb. by rewrite <- second_mask. Qed.

Lemma second_of_four a b : is_byte b -> 0xF1 <= a <= 0xF3 -> not_cont b = negb (second_octet_ok a b).
Proof. intros Hb Ha. rewrite not_cont_val by done. unfold second_octet_ok. by decide_Z. Qed.

Lemma simplify_turn_wf h t rest : wf (h :: t) ->
  simplify_turn h (t ++ rest) = let* w := simple (h :: t) in Ret (Some (w, rest)).
Proof.
  intros H. pose proof (wf_count _ H) as (C & Hh & Ht). unfold simplify_turn. rewrite C.
  apply wf_cases in H as [(a & E & Ha)|[(a & b & E & Ha & Hb)|
    [(a & b & d & E & Ha & Hb & Hd)|(a & b & d & e & E & Ha & Hb & Hd & He)]]];
    injection E as -> ->;
    cbn [length app simplify_turn_2 simplify_turn_3 simplify_turn_4 simple]; decompose_Forall_hyps.
  - by destruct (cell _ _).
  - rewrite not_cont_val, between_true by (done || lia). cbn [negb].
    destruct (cell2 _ _ _); [|done..]. cbn [obind]. apply simplified_kept.
  - rewrite not_cont_val, between_true by (done || lia). cbn [negb].
    rewrite second_of_three_simplify, Hb by done. apply simplified_kept.
  - rewrite !(not_cont_val d), !(not_cont_val e), !(between_true 0x80 d), !(between_true 0x80 e) by (done || lia).
    cbn [negb]. destruct (Z.eqb_spec a 0xF0) as [->|N].
    + assert (B : 0x90 <= b <= 0xBF) by (by apply between_spec). decide_Z. apply simplified_kept.
    + destruct (Z.ltb_spec a 0xF4); [by rewrite (second_of_four a), Hb by (done || lia)|].
      assert (a = 0xF4) as -> by lia. by rewrite second_of_F4, Hb.
Qed.

Lemma simplify_turn_ill h it : bytes_ok (h :: it) -> first_sequence (h :: it) = None ->
  simplify_turn h it =
  if (length it <? announced h)%nat then Ret None else Ret (Some ([0x20], it)).
Proof.
  intros Hb F. inversion Hb as [|? ? Hh Hit]; subst.
  assert (N : forall q r, wf q -> h :: it <> q ++ r) by (intros q r; by apply first_sequence_none).
  unfold simplify_turn, announced. rewrite get_octet_count_val by done. unfold is_byte in Hh.
  repeat case_Z; try done; try lia.
  - destruct (N [h] it); [|done]. cbn. apply between_true. lia.
  - destruct it as [|b it]; [done|]. cbn [simplify_turn_2 length Nat.ltb Nat.leb]. decompose_Forall_hyps.
    rewrite not_cont_val by done. destruct (between 0x80 b 0xBF) eqn:Eb; [|done].
    destruct (N [h; b] it); [|done]. cbn [utf8_well_formed]. rewrite Eb, between_true by lia. done.
  - destruct it as [|b [|d it]]; [done..|]. cbn [simplify_turn_3 length Nat.ltb Nat.leb].
    decompose_Forall_hyps. rewrite not_cont_val by done. destruct (between 0x80 d 0xBF) eqn:Ed; [|done].
    rewrite second_of_three_simplify by (done || lia). destruct (second_octet_ok h b) eqn:Eb; [|done].
    destruct (N [h; b; d] it); [|done]. cbn [utf8_well_formed]. rewrite Ed, Eb, between_true by lia. done.
  - destruct it as [|b [|d [|e it]]]; [done..|]. cbn [simplify_turn_4 length Nat.ltb Nat.leb].
    decompose_Forall_hyps. rewrite (not_cont_val d), (not_cont_val e) by done.
    destruct (between 0x80 e 0xBF) eqn:Ee; [|done]. cbn [negb].
    assert (W : h <= 0xF4 -> second_octet_ok h b && between 0x80 d 0xBF = false).
    { intros Hle. apply not_true_iff_false. intros W. apply andb_true_iff in W as [Eb Ed].
      destruct (N [h; b; d; e] it); [|done]. cbn [utf8_well_formed]. by rewrite Ed, Ee, Eb, between_true by lia. }
    destruct (Z.eqb_spec h 0xF0) as [->|].
    { specialize (W ltac:(lia)). cbn [second_octet_ok Z.eqb] in W.
      destruct (between 0x80 d 0xBF); [|by rewrite orb_true_r].
      rewrite andb_true_r in W. unfold second_octet_ok, between in W. cbn in W. revert W. repeat case_Z; done || lia. }
    destruct (Z.ltb_spec h 0xF4); [|destruct (Z.eqb_spec h 0xF4) as [->|]; [|done]].
    + rewrite (second_of_four h) by (done || lia). specialize (W ltac:(lia)).
      destruct (second_octet_ok h b), (between 0x80 d 0xBF); done.
    + rewrite second_of_F4 by done. specialize (W ltac:(lia)).
      destruct (second_octet_ok 0xF4 b), (between 0x80 d 0xBF); done.
Qed.

(** Sequences whose simplification is looked up or computed *)
Definition simplify_prefixes : list (list Z) :=
  map (fun a => [a]) (octets 0xC2 30) ++
  map (fun b => [0xE0; b]) (octets 0xA0 32) ++
  map (fun b => [0xE1; b]) conts ++ map (fun b => [0xE2; b]) conts ++
  map (fun b => [0xE3; b]) (octets 0x80 16) ++ map (fun b => [0xEA; b]) (octets 0x99 39) ++
  map (fun b => [0xEB; b]) conts ++ map (fun b => [0xEC; b]) conts ++
  map (fun b => [0xED; b]) (octets 0x80 31) ++ map (fun b => [0xEF; b]) (octets 0xA4 28) ++
  flat_map (fun b => map (fun d => [0xF0; b; d]) conts) [0x90; 0x91; 0x96; 0x9B; 0x9D; 0x9E; 0x9F; 0xAF].

Definition on_simplified (P : list Z -> bool) : bool :=
  forallb (fun a => P [a]) (all_below 128) &&
  forallb (fun prefix => forallb P (plane prefix)) simplify_prefixes.

(** U+1D6A4, whose simplification can be simplified further *)
Definition dotless_i : list Z := [0xF0; 0x9D; 0x9A; 0xA4].

Definition simple_fixed (q : list Z) : bool :=
  match simple q with
  | Ret w => same w q
  | _ => false
  end.

Definition simple_ok (seq : list Z) : bool :=
  match simple seq with
  | Ret w =>
    match sequences w with
    | Some qs =>
      (Z.of_nat (length w) <=? 11 * Z.of_nat (length seq)) &&
      (same seq dotless_i || forallb simple_fixed qs)
    | None => false
    end
  | _ => false
  end.

Lemma simplify_tables : on_simplified simple_ok = true.
Proof. vm_cast_no_check (eq_refl true). Qed.

Definition simplify_row (a b : Z) : bool :=
  (a =? 0xE0) || (a =? 0xE1) || (a =? 0xE2) || ((a =? 0xE3) && (b <? 0x90)) ||
  ((a =? 0xEA) && (0x99 <=? b)) || (a =? 0xEB) || (a =? 0xEC) ||
  ((a =? 0xED) && (b <=? 0x9E)) || ((a =? 0xEF) && (0xA4 <=? b)).

Lemma simplify_row_in a b : second_octet_ok a b = true -> simplify_row a b = true ->
  In [a; b] simplify_prefixes.
Proof.
  intros Hb R. apply second_octet_range in Hb as Hr. unfold simplify_row in R.
  assert (HE0 : a = 0xE0 -> 0xA0 <= b) by (intros ->; change (between 0xA0 b 0xBF = true) in Hb; apply between_spec in Hb; lia).
  rewrite !orb_true_iff, !andb_true_iff, !Z.eqb_eq, Z.ltb_lt, !Z.leb_le in R.
  unfold simplify_prefixes. rewrite !in_app_iff.
  assert (In_row : forall x lo n, a = x -> lo <= b < lo + Z.of_nat n ->
    In [a; b] (map (fun b => [x; b]) (octets lo n))).
  { intros x lo n -> Hn. by apply (in_map (fun b => [x; b])), in_octets. }
  destruct R as [[[[[[[[R|R]|R]|[R R']]|[R R']]|R]|R]|[R R']]|[R R']].
  - right. left. apply In_row; lia.
  - do 2 right. left. apply In_row; lia.
  - do 3 right. left. apply In_row; lia.
  - do 4 right. left. apply In_row; lia.
  - do 5 right. left. apply In_row; lia.
  - do 6 right. left. apply In_row; lia.
  - do 7 right. left. apply In_row; lia.
  - do 8 right. left. apply In_row; lia.
  - do 9 right. left. apply In_row; lia.
Qed.

Lemma simplify_row_out a b d : 0xE0 <= a <= 0xEF -> simplify_row a b = false ->
  simple [a; b; d] = Ret [a; b; d] \/ simple [a; b; d] = Ret [0x20].
Proof.
  intros Ha R. cbn [simple]. unfold simplify_3, simplify_EA, simplify_ED, simplify_row in *.
  repeat (case_Z; cbn [andb orb] in *; try discriminate R; try lia); auto.
Qed.

Definition simplify_plane (a b : Z) : bool :=
  (a =? 0xF0) &&
  ((b =? 0x90) || (b =? 0x91) || (b =? 0x96) || (b =? 0x9B) || (b =? 0x9D) || (b =? 0x9E) ||
   (b =? 0x9F) || (b =? 0xAF)).

Lemma simplify_plane_in a b d : 0x80 <= d <= 0xBF -> simplify_plane a b = true ->
  In [a; b; d] simplify_prefixes.
Proof.
  intros Hd R. unfold simplify_plane in R.
  rewrite andb_true_iff, !orb_true_iff, !Z.eqb_eq in R. destruct R as [-> R].
  unfold simplify_prefixes. rewrite !in_app_iff. do 10 right. apply in_flat_map. exists b.
  split; [simpl; intuition congruence|]. apply (in_map (fun d => [0xF0; b; d])), in_octets. lia.
Qed.

Lemma simplify_plane_out a b d e : simplify_plane a b = false ->
  simple [a; b; d; e] = Ret [a; b; d; e] \/ simple [a; b; d; e] = Ret [0x20].
Proof.
  intros R. cbn [simple]. destruct (Z.eqb_spec a 0xF0) as [->|]; [|auto].
  unfold simplify_plane in R. cbn [Z.eqb Pos.eqb andb] in R. rewrite !orb_false_iff in R.
  unfold simplify_F0.
  destruct R as [[[[[[[-> ->] ->] ->] ->] ->] ->] ->].
  assert (K : forall (p : bool), kept (if p then space else break) [0xF0; b; d; e] = Ret [0xF0; b; d; e] \/
    kept (if p then space else break) [0xF0; b; d; e] = Ret [0x20]) by (intros []; auto).
  assert (K' : forall (p : bool), kept (if p then break else space) [0xF0; b; d; e] = Ret [0xF0; b; d; e] \/
    kept (if p then break else space) [0xF0; b; d; e] = Ret [0x20]) by (intros []; auto).
  unfold simplify_F0_92.
  repeat match goal with
  | |- context [kept (if b =? ?x then _ else _) _] => destruct (b =? x); [apply K|]
  end.
  destruct (_ || _ || _); [by right|]. apply K'.
Qed.

(** A property of the characters the tables are asked for holds of a sequence,
    unless it stays or becomes a space. *)
Lemma on_simplified_spec P seq : on_simplified P = true -> wf seq ->
  P seq = true \/ simple seq = Ret seq \/ simple seq = Ret [0x20].
Proof.
  intros H W. apply andb_true_iff in H as [H1 H2]. rewrite forallb_forall in H1, H2.
  assert (HP : forall prefix x, In prefix simplify_prefixes -> 0x80 <= x <= 0xBF -> P (prefix ++ [x]) = true).
  { intros prefix x Hp Hx. apply H2 in Hp. rewrite forallb_forall in Hp. by apply Hp, in_plane. }
  apply wf_cases in W as [(a & -> & Ha)|[(a & b & -> & Ha & Hb)|
    [(a & b & d & -> & Ha & Hb & Hd)|(a & b & d & e & -> & Ha & Hb & Hd & He)]]].
  - left. apply H1, in_all_below. lia.
  - left. apply (HP [a]); [|lia]. apply in_app_iff. left.
    apply (in_map (fun a => [a])), in_octets. lia.
  - destruct (simplify_row a b) eqn:R.
    + left. apply (HP [a; b]); [|lia]. by apply simplify_row_in.
    + right. by apply simplify_row_out.
  - destruct (simplify_plane a b) eqn:R.
    + left. apply (HP [a; b; d]); [|lia]. by apply simplify_plane_in.
    + right. by apply simplify_plane_out.
Qed.

(** What the theorems need of the simplification of a sequence *)
Lemma simple_space : simple [0x20] = Ret [0x20].
Proof. reflexivity. Qed.

Lemma simple_text seq : wf seq ->
  simple seq = Ret (simple_image seq) /\
  Z.of_nat (length (simple_image seq)) <= 11 * Z.of_nat (length seq) /\
  exists qs, simple_image seq = concat qs /\ Forall (fun q => wf q) qs /\
    (seq <> dotless_i -> Forall (fun q => simple q = Ret q) qs).
Proof.
  intros W. pose proof (wf_length seq W). unfold simple_image.
  destruct (on_simplified_spec _ seq simplify_tables W) as [H'|[E|E]].
  - unfold simple_ok in H'. destruct (simple seq) as [w| |]; try discriminate.
    destruct (sequences w) as [qs|] eqn:E; [|discriminate].
    apply andb_true_iff in H' as [L F]. apply sequences_sound in E as [-> Hq]. split; [done|].
    split; [lia|]. exists qs. repeat split; [done|]. intros N. apply orb_true_iff in F as [F|F].
    { by apply same_spec in F. }
    rewrite forallb_forall in F. apply Forall_forall. intros q Hin. apply list_elem_of_In, F in Hin.
    unfold simple_fixed in Hin. destruct (simple q); try discriminate. by rewrite (same_spec _ _ Hin).
  - rewrite E. split; [done|]. split; [lia|]. exists [seq]. simpl. rewrite app_nil_r. auto.
  - rewrite E. split; [done|]. split; [cbn [length]; lia|]. exists [[0x20]]. repeat constructor.
Qed.

(** ** The loop of [to_simplify]

    The characters of any octets: an ill-formed octet counts as a space, and the
    text ends where fewer octets are left than a first octet announces. *)
Fixpoint pieces_of (fuel : nat) (s : list Z) : list (list Z) :=
  match s, fuel with
  | h :: it, S fuel =>
    match first_sequence s with
    | Some (q, r) => q :: pieces_of fuel r
    | None =>
      if (length it <? announced h)%nat then [] else [0x20] :: pieces_of fuel it
    end
  | _, _ => []
  end.

Definition pieces (s : list Z) : list (list Z) := pieces_of (length s) s.

Lemma pieces_of_wf fuel : forall s, Forall (fun q => wf q) (pieces_of fuel s).
Proof.
  induction fuel as [|fuel IH]; intros [|h it]; try constructor. cbn [pieces_of].
  destruct (first_sequence _) as [[q r]|] eqn:F.
  - apply first_sequence_spec in F as [_ W]. by constructor.
  - destruct (_ <? _)%nat; [constructor|]. by constructor.
Qed.

Lemma pieces_of_length fuel : forall s, (length (concat (pieces_of fuel s)) <= length s)%nat.
Proof.
  induction fuel as [|fuel IH]; intros [|h it]; cbn [pieces_of concat length]; try lia.
  destruct (first_sequence _) as [[q r]|] eqn:F.
  - apply first_sequence_spec in F as [E _]. apply (f_equal length) in E. rewrite length_app in E.
    cbn [concat length] in *. rewrite length_app. specialize (IH r). lia.
  - destruct (_ <? _)%nat; cbn [concat length app]; [lia|]. specialize (IH it). lia.
Qed.

Lemma pieces_of_text fuel : forall seqs, Forall (fun q => wf q) seqs ->
  (length (concat seqs) <= fuel)%nat -> pieces_of fuel (concat seqs) = seqs.
Proof.
  induction fuel as [|fuel IH]; intros [|q seqs] Hs L; try done.
  - inversion Hs as [|? ? W]; subst. apply wf_length in W. cbn [concat] in L.
    rewrite length_app in L. lia.
  - inversion Hs as [|? ? W Hqs]; subst. cbn [concat] in *.
    pose proof (first_sequence_app q (concat seqs) W) as F. apply wf_length in W as Wl.
    rewrite length_app in L. destruct q as [|h t]; [simpl in Wl; lia|]. cbn [app] in *.
    cbn [pieces_of]. rewrite F. f_equal. apply IH; [done|]. simpl in L. lia.
Qed.

Lemma simplify_loop_spec fuel : forall s dest, bytes_ok s -> (length s <= fuel)%nat ->
  simplify_loop fuel s dest = Ret (dest ++ concat (map simple_image (pieces_of fuel s))).
Proof.
  induction fuel as [|fuel IH]; intros s dest Hb L; destruct s as [|h it];
    try (by rewrite app_nil_r); try (simpl in L; lia).
  cbn [simplify_loop pieces_of]. destruct (first_sequence (h :: it)) as [[q r]|] eqn:F.
  - apply first_sequence_spec in F as [E W]. pose proof (wf_length q W).
    destruct q as [|h' t]; [simpl in *; lia|]. injection E as <- ->.
    rewrite simplify_turn_wf by done. destruct (simple_text _ W) as [-> _]. cbn [obind].
    simpl in L. rewrite length_app in L.
    rewrite IH; [|by inversion Hb as [|? ? ? Hb']; apply Forall_app in Hb' as [_ ?]|lia].
    cbn [map concat]. by rewrite <- app_assoc.
  - rewrite simplify_turn_ill by done. destruct (_ <? _)%nat; cbn [obind]; [by rewrite app_nil_r|].
    simpl in L. rewrite IH; [|by inversion Hb|lia]. cbn [map concat].
    change (simple_image [0x20]) with [0x20]. by rewrite <- app_assoc.
Qed.

Lemma simple_images_text seqs : Forall (fun q => wf q) seqs ->
  (exists n, is_text (concat (map simple_image seqs)) n) /\
  Z.of_nat (length (concat (map simple_image seqs))) <= 11 * Z.of_nat (length (concat seqs)).
Proof.
  induction 1 as [|q seqs W _ [(n & qs & E & Hqs & ->) IL]]; [by split; [exists 0, []|simpl; lia]|].
  destruct (simple_text q W) as (_ & L & qs' & E' & Hq' & _). cbn [map concat]. split.
  - exists (Z.of_nat (length (qs' ++ qs))), (qs' ++ qs).
    rewrite E, E', concat_app. repeat split. by apply Forall_app.
  - rewrite !length_app. lia.
Qed.

Lemma case_change_simplify src : bytes_ok src ->
  case_change Simplify src = Ret (true, concat (map simple_image (pieces src)), 0).
Proof.
  intros Hb. unfold case_change, Simplify, doit, MULTIPLIER, to_simplify.
  rewrite simplify_loop_spec by done. cbn [obind app]. unfold guard.
  destruct (simple_images_text (pieces src)) as [_ L]; [apply pieces_of_wf|].
  rewrite (proj2 (Z.leb_le _ _)); [done|]. pose proof (pieces_of_length (length src) src). unfold pieces in *. lia.
Qed.

Lemma text_bytes seqs : Forall (fun q => wf q) seqs -> bytes_ok (concat seqs).
Proof. induction 1 as [|q seqs W _ IH]; [done|]. cbn [concat]. apply Forall_app. auto using wf_bytes. Qed.

Lemma case_change_simplify_text seqs : Forall (fun q => wf q) seqs ->
  case_change Simplify (concat seqs) = Ret (true, concat (map simple_image seqs), 0).
Proof.
  intros Hs. rewrite case_change_simplify by by apply text_bytes.
  unfold pieces. by rewrite pieces_of_text.
Qed.

Lemma simple_images_fixed qs : Forall (fun q => simple q = Ret q) qs -> map simple_image qs = qs.
Proof.
  induction 1 as [|q qs E _ IH]; [done|]. cbn [map]. unfold simple_image at 1. rewrite E. by f_equal.
Qed.

(** ** Conversions after one another *)

Definition folds (f g : list Z -> list Z) (seq : list Z) : bool :=
  same (f seq) seq ||
  match sequences (f seq) with
  | Some qs => same (concat (map g qs)) (g seq)
  | None => false
  end.

Definition capital_i_dot : list Z := [0xC4; 0xB0].
Definition small_dotless_i : list Z := [0xC4; 0xB1].

Lemma lower_uniform_tables :
  on_touched (fun seq => same seq capital_i_dot || folds (image lower) (image uniform) seq) = true.
Proof. vm_cast_no_check (eq_refl true). Qed.

Lemma upper_uniform_tables :
  on_touched (fun seq => same seq small_dotless_i || folds (image upper) (image uniform) seq) = true.
Proof. vm_cast_no_check (eq_refl true). Qed.

Lemma lower_simplify_tables : on_touched (folds (image lower) simple_image) = true.
Proof. vm_cast_no_check (eq_refl true). Qed.

Lemma folds_spec f g seq qs : folds f g seq = true -> wf seq -> Forall (fun q => wf q) qs ->
  f seq = concat qs -> concat (map g qs) = g seq.
Proof.
  intros H W Hq E. apply orb_true_iff in H as [H|H].
  - apply same_spec in H. rewrite E in H. replace qs with [seq]; [simpl; by rewrite app_nil_r|].
    apply concat_inj; [by constructor|done|]. simpl. by rewrite app_nil_r.
  - destruct (sequences (f seq)) as [qs'|] eqn:S; [|discriminate]. apply sequences_sound in S as [S Hq'].
    rewrite E in S. rewrite (concat_inj _ _ Hq Hq' S). by apply same_spec.
Qed.

Lemma untouched_folds c g seq : keeps_untouched c -> wf seq -> touched seq = false ->
  folds (image c) g seq = true.
Proof.
  intros H W T. unfold folds, image. rewrite (H seq W T). cbn [emit].
  assert (R : forall s, same s s = true) by (induction s; simpl; rewrite ?Z.eqb_refl; auto).
  by rewrite R.
Qed.

Lemma folds_all c g skip seq : keeps_untouched c ->
  on_touched (fun seq => same seq skip || folds (image c) g seq) = true ->
  wf seq -> seq <> skip -> folds (image c) g seq = true.
Proof.
  intros HU HT W N. destruct (touched seq) eqn:T; [|by apply untouched_folds].
  apply (on_touched_spec _ seq HT W) in T. apply orb_true_iff in T as [T|T]; [|done].
  by apply same_spec in T.
Qed.

(** [g] after [c] is [g], on texts *)
Lemma folds_text c m (g : list Z -> list Z) seqs : Converts c m -> Forall (fun q => wf q) seqs ->
  Forall (fun q => folds (image c) g q = true) seqs ->
  exists qs, concat (map (image c) seqs) = concat qs /\ Forall (fun q => wf q) qs /\
    concat (map g qs) = concat (map g seqs).
Proof.
  intros HC. induction 1 as [|q seqs W _ IH]; intros HF; [by exists []|].
  inversion HF as [|? ? F HF']; subst. destruct (IH HF') as (qs & E & Hq & Eg).
  destruct (conv_text q W) as (_ & (qs' & E' & Hq' & _) & _).
  exists (qs' ++ qs). cbn [map concat]. rewrite E, E', concat_app, map_app, concat_app, Eg.
  rewrite (folds_spec _ _ _ _ F W Hq' E'). repeat split. by apply Forall_app.
Qed.

Lemma uniform_after c m seqs : Converts c m -> 1 <= m -> Forall (fun q => wf q) seqs ->
  Forall (fun q => folds (image c) (image uniform) q = true) seqs ->
  exists w n, case_change (action_of c m) (concat seqs) = Ret (true, w, n) /\
    case_change Uniform w = case_change Uniform (concat seqs).
Proof.
  intros HC Hm Hs HF. destruct (folds_text c m (image uniform) seqs HC Hs HF) as (qs & E & Hq & Eg).
  eexists _, _. split; [by apply case_change_text|]. rewrite E. change Uniform with (action_of uniform 3).
  rewrite !(case_change_text uniform 3) by (exact _ || done || lia). rewrite Eg. do 2 f_equal.
  destruct (images_text uniform 3 qs _ Hq) as [T _], (images_text uniform 3 seqs _ Hs) as [T' _].
  rewrite Eg in T. exact (is_text_count _ _ _ T T').
Qed.

(** ** Theorems *)

Definition conversions : list (Action * conversion) :=
  [(Lower, lower); (Upper, upper); (Uniform, uniform)].

Lemma conversions_cases A c : In (A, c) conversions ->
  Converts c (@MULTIPLIER A) /\ 1 <= @MULTIPLIER A /\ A = action_of c (@MULTIPLIER A).
Proof.
  intros [E|[E|[E|[]]]]; injection E as <- <-; (split; [exact _|]); (split; [simpl; lia|reflexivity]).
Qed.

(** C25: on any octets [case_change] with [Lower], [Upper] or [Uniform] returns:
    no table is read out of its bounds and the string of [MULTIPLIER] times the
    size is never written past its end.  The octets are cut in the one way into
    well-formed sequences and a rest that begins with none; what is written is the
    text of the images of the sequences, the counter is the number of its
    characters, and the result is [true] exactly when nothing is left over. *)
Theorem case_change_correct (A : Action) (c : conversion) (src : list Z) :
  In (A, c) conversions -> bytes_ok src ->
  exists seqs rest n,
    src = concat seqs ++ rest /\ Forall (fun q => wf q) seqs /\ first_sequence rest = None /\
    case_change A src = Ret (bool_decide (rest = []), concat (map (image c) seqs), n) /\
    is_text (concat (map (image c) seqs)) n /\
    Z.of_nat (length (concat (map (image c) seqs))) <= @MULTIPLIER A * Z.of_nat (length src).
Proof.
  intros HA Hb. destruct (conversions_cases A c HA) as (HC & Hm & EA).
  destruct (cut_text src) as (seqs & rest & -> & Hs & F). apply Forall_app in Hb as [_ Hb].
  destruct (images_text c _ seqs HC Hs) as [T L].
  exists seqs, rest, (count c seqs). rewrite EA at 1. rewrite (case_change_conv c _) by done.
  do 3 (split; [done|]). split; [done|]. split; [done|]. rewrite length_app. nia.
Qed.

Lemma case_change_correct_witness :
  exists seqs rest n,
    [0xC3; 0x84; 0x78; 0xC3] = concat seqs ++ rest /\ Forall (fun q => wf q) seqs /\
    first_sequence rest = None /\
    case_change Lower [0xC3; 0x84; 0x78; 0xC3] =
      Ret (bool_decide (rest = []), concat (map (image lower) seqs), n) /\
    is_text (concat (map (image lower) seqs)) n /\
    Z.of_nat (length (concat (map (image lower) seqs))) <= 2 * Z.of_nat 4.
Proof. apply (case_change_correct Lower lower); [by left|repeat constructor; lia]. Defined.

(** What [Lower], [Upper] or [Uniform] made of a text is a text they leave
    as it is, with the same number of characters. *)
Theorem case_change_idempotent (A : Action) (c : conversion) (src out : list Z) (n : Z) :
  In (A, c) conversions -> bytes_ok src -> case_change A src = Ret (true, out, n) ->
  case_change A out = Ret (true, out, n).
Proof.
  intros HA Hb E. destruct (conversions_cases A c HA) as (HC & Hm & EA).
  destruct (cut_text src) as (seqs & rest & -> & Hs & F). apply Forall_app in Hb as [_ Hb].
  rewrite EA, (case_change_conv c _) in E by done. injection E as _ <- <-.
  destruct (images_split c _ seqs HC Hs) as (qs & E & Hq & Hf). rewrite E, EA.
  rewrite (case_change_text c _) by done. rewrite (images_fixed c qs Hf). do 2 f_equal.
  rewrite (image_length_count c _ seqs qs HC Hs Hq E).
  apply (image_length_count c _ qs qs HC Hq Hq). by rewrite (images_fixed c qs Hf).
Qed.

Lemma case_change_idempotent_witness :
  case_change Uniform [0x73; 0x73; 0x61] = Ret (true, [0x73; 0x73; 0x61], 3).
Proof.
  apply (case_change_idempotent Uniform uniform [0xC3; 0x9F; 0x41]);
    [by right; right; left|repeat constructor; lia|reflexivity].
Defined.

(** C27: the uniform case does not depend on the case of a text: the text in lower
    case and, where no dotless i is in it, in upper case has the uniform case of
    the text itself; in lower case, only a capital I with a dot makes a
    difference. *)
Theorem uniform_folds_case (seqs : list (list Z)) :
  Forall (fun q => wf q) seqs ->
  (~ In capital_i_dot seqs -> exists lo n,
    case_change Lower (concat seqs) = Ret (true, lo, n) /\
    case_change Uniform lo = case_change Uniform (concat seqs)) /\
  (~ In small_dotless_i seqs -> exists up n,
    case_change Upper (concat seqs) = Ret (true, up, n) /\
    case_change Uniform up = case_change Uniform (concat seqs)).
Proof.
  intros Hs. rewrite !Forall_forall in Hs.
  assert (HF : forall c skip, keeps_untouched c ->
    on_touched (fun seq => same seq skip || folds (image c) (image uniform) seq) = true ->
    ~ In skip seqs -> Forall (fun q => folds (image c) (image uniform) q = true) seqs).
  { intros c skip HU HT N. apply Forall_forall. intros q Hin. apply (folds_all c _ skip); auto.
    intros ->. by apply N, list_elem_of_In. }
  split; intros N.
  - apply (uniform_after lower 2); [exact _|lia|by apply Forall_forall|].
    exact (HF _ _ lower_untouched lower_uniform_tables N).
  - apply (uniform_after upper 2); [exact _|lia|by apply Forall_forall|].
    exact (HF _ _ upper_untouched upper_uniform_tables N).
Qed.

Lemma uniform_folds_case_witness : exists up n,
  case_change Upper [0xC3; 0x9F; 0xCE; 0x90; 0x61] = Ret (true, up, n) /\
  case_change Uniform up = case_change Uniform [0xC3; 0x9F; 0xCE; 0x90; 0x61].
Proof.
  assert (W : Forall (fun q => wf q) [[0xC3; 0x9F]; [0xCE; 0x90]; [0x61]]) by (repeat constructor).
  apply (proj2 (uniform_folds_case _ W)). by intros [|[|[|]]].
Defined.

(** The two exceptions are real. *)
Lemma capital_i_dot_folds :
  case_change Uniform capital_i_dot = Ret (true, [0x69; 0xCC; 0x87], 2) /\
  case_change Lower capital_i_dot = Ret (true, [0x69], 1) /\
  case_change Uniform [0x69] = Ret (true, [0x69], 1).
Proof. repeat split. Qed.

Lemma small_dotless_i_folds :
  case_change Uniform small_dotless_i = Ret (true, small_dotless_i, 1) /\
  case_change Upper small_dotless_i = Ret (true, [0x49], 1) /\
  case_change Uniform [0x49] = Ret (true, [0x69], 1).
Proof. repeat split. Qed.

(** What [Simplify] does with any octets, also those the documentation of
    [case_change] wants refused: the result is [true], an ill-formed octet counts as
    a space and an incomplete last character ends the text. *)
Theorem simplify_octets (src : list Z) :
  bytes_ok src ->
  exists out,
    case_change Simplify src = Ret (true, out, 0) /\
    out = concat (map simple_image (pieces src)) /\ Forall (fun q => wf q) (pieces src) /\
    (exists n, is_text out n) /\
    (~ In dotless_i (pieces src) -> case_change Simplify out = Ret (true, out, 0)).
Proof.
  intros Hb. pose proof (pieces_of_wf (length src) src : Forall _ (pieces src)) as Hp.
  eexists. split; [by apply case_change_simplify|]. split; [done|]. split; [done|].
  split; [apply simple_images_text, Hp|]. intros N.
  destruct (split_images simple_image (fun q => simple q = Ret q) (pieces src)) as (qs & E & Hq & Hf).
  { rewrite Forall_forall in Hp |- *. intros q Hin.
    destruct (simple_text q (Hp q Hin)) as (_ & _ & qs & E & Hq & Hf). exists qs.
    repeat split; [done|done|]. apply Hf. intros ->. by apply N, list_elem_of_In. }
  rewrite E, case_change_simplify_text by done. by rewrite simple_images_fixed.
Qed.

(** The simplification folds case: a text in lower case is simplified to the same
    text. *)
Theorem simplify_folds_lower (seqs : list (list Z)) :
  Forall (fun q => wf q) seqs ->
  exists lo n, case_change Lower (concat seqs) = Ret (true, lo, n) /\
    case_change Simplify lo = case_change Simplify (concat seqs).
Proof.
  intros Hs. destruct (folds_text lower 2 simple_image seqs _ Hs) as (qs & E & Hq & Eg).
  { eapply Forall_impl; [exact Hs|]. intros q W. destruct (touched q) eqn:T.
    - exact (on_touched_spec _ q lower_simplify_tables W T).
    - by apply untouched_folds; [exact lower_untouched|..]. }
  eexists _, _. split; [apply (case_change_text lower 2); [exact _|lia|done]|].
  rewrite E, !case_change_simplify_text by done. by rewrite Eg.
Qed.

(** C26: a well-formed text is simplified: [case_change] with [Simplify] returns [true],
    all reads are within the tables, and what it writes is a well-formed text of at most
    eleven times the size, the simplifications of the characters in their order.  The
    text in lower case has the same simplification, and without U+1D6A4 the result
    stays as it is when it is simplified again. *)
Theorem simplify_correct (seqs : list (list Z)) :
  Forall (fun q => wf q) seqs ->
  exists out counter, case_change Simplify (concat seqs) = Ret (true, out, counter) /\
    out = concat (map simple_image seqs) /\ (exists n, is_text out n) /\
    Z.of_nat (length out) <= 11 * Z.of_nat (length (concat seqs)) /\
    (exists lo n, case_change Lower (concat seqs) = Ret (true, lo, n) /\
      case_change Simplify lo = Ret (true, out, counter)) /\
    (~ In dotless_i seqs -> case_change Simplify out = Ret (true, out, counter)).
Proof.
  intros Hs. pose proof (case_change_simplify_text seqs Hs) as E. eexists _, _. split; [exact E|]. split; [done|].
  destruct (simple_images_text seqs Hs) as [T L]. split; [exact T|]. split; [exact L|]. split.
  - destruct (simplify_folds_lower seqs Hs) as (lo & n & El & Es). exists lo, n. split; [done|]. by rewrite Es, E.
  - assert (Ep : pieces (concat seqs) = seqs) by (by apply pieces_of_text). intros N. rewrite <- Ep in N. destruct (simplify_octets (concat seqs)) as (out & Eo & -> & _ & _ & H).
    { by apply text_bytes. }
    specialize (H N). by rewrite Ep in H.
Qed.

Lemma simplify_correct_witness :
  exists out counter, case_change Simplify [0xC3; 0x89; 0x2D; 0xE1; 0xBA; 0x9A] = Ret (true, out, counter) /\
    out = concat (map simple_image [[0xC3; 0x89]; [0x2D]; [0xE1; 0xBA; 0x9A]]) /\
    case_change Simplify out = Ret (true, out, counter).
Proof.
  assert (W : Forall (fun q => wf q) [[0xC3; 0x89]; [0x2D]; [0xE1; 0xBA; 0x9A]]) by repeat constructor.
  destruct (simplify_correct _ W) as (out & counter & E & Eo & _ & _ & _ & Hf). exists out, counter.
  split; [exact E|]. split; [exact Eo|]. apply Hf. by intros [|[|[|]]].
Defined.

(** An incomplete last character takes the octets after it along, the counter is
    not kept, and U+1D6A4 takes two rounds. *)
Lemma simplify_deviations :
  case_change Simplify [0x61; 0xE1; 0x41] = Ret (true, [0x61], 0) /\
  case_change Simplify [0x61; 0xE1; 0x41; 0x41] = Ret (true, [0x61; 0x20; 0x61; 0x61], 0) /\
  case_change Simplify dotless_i = Ret (true, small_dotless_i, 0) /\
  case_change Simplify small_dotless_i = Ret (true, [0x69], 0).
Proof. repeat split; vm_compute; reflexivity. Qed.

(** ASCII letters are converted as [AsciiStringManip] does. *)
Lemma ascii_lower a : 0 <= a < 128 ->
  image lower [a] = [if between 0x41 a 0x5A then a + 0x20 else a] /\
  image upper [a] = [if between 0x61 a 0x7A then a - 0x20 else a] /\
  image uniform [a] = image lower [a].
Proof.
  intros Ha.
  assert (H : forall P : Z -> bool, forallb P (all_below 128) = true -> P a = true)
    by (intros P HP; apply (forall_below 128); [done|lia]).
  split; [|split]; apply same_spec.
  - apply (H (fun a => same (image lower [a]) [if between 0x41 a 0x5A then a + 0x20 else a])). reflexivity.
  - apply (H (fun a => same (image upper [a]) [if between 0x61 a 0x7A then a - 0x20 else a])). reflexivity.
  - apply (H (fun a => same (image uniform [a]) (image lower [a]))). reflexivity.
Qed.
