(* ===== verification/SpaceTree.v ===== *)
(** * The tree of the spaces

    The data of [String/UTF8IsSpace.cpp].  A node is the list of its 64 arcs, and the
    tree the list of the 256 nodes for a first octet. *)
From S2P Require Import Utf8Category.
From Stdlib Require Import ZArith List.
Import ListNotations.
Local Open Scope Z_scope.

#[local] Abbreviation z := (Leaf 0x0000000000000000).

Definition NODE_E1 : list Node :=
  [z; z; z; z; z; z; z; z; z; z; z; z; z; z; z; z; z; z; z; z; z; z; z; z; z; z;
   Leaf 0x0000000000000001; z; z; z; z; z; z; z; z; z; z; z; z; z; z; z; z; z; z; z; z; z; z; z;
   z; z; z; z; z; z; z; z; z; z; z; z; z; z].

Definition NODE_E2 : list Node :=
  [Leaf 0x00008000000007FF; Leaf 0x0000000080000000; z; z; z; z; z; z; z; z; z; z; z; z; z; z; z;
   z; z; z; z; z; z; z; z; z; z; z; z; z; z; z; z; z; z; z; z; z; z; z; z; z; z; z; z; z; z; z; z;
   z; z; z; z; z; z; z; z; z; z; z; z; z; z; z].

Definition NODE_E3 : list Node :=
  [Leaf 0x0000000000000001; z; z; z; z; z; z; z; z; z; z; z; z; z; z; z; z; z; z; z; z; z; z; z;
   z; z; z; z; z; z; z; z; z; z; z; z; z; z; z; z; z; z; z; z; z; z; z; z; z; z; z; z; z; z; z; z;
   z; z; z; z; z; z; z; z].

Definition SPACE_TREE : list Node :=
  [Null; Null; Null; Null; Null; Null; Null; Null; Null; Stop; Stop; Stop; Stop; Stop; Null; Null;
   Null; Null; Null; Null; Null; Null; Null; Null; Null; Null; Null; Null; Null; Null; Null; Null;
   Stop; Null; Null; Null; Null; Null; Null; Null; Null; Null; Null; Null; Null; Null; Null; Null;
   Null; Null; Null; Null; Null; Null; Null; Null; Null; Null; Null; Null; Null; Null; Null; Null;
   Null; Null; Null; Null; Null; Null; Null; Null; Null; Null; Null; Null; Null; Null; Null; Null;
   Null; Null; Null; Null; Null; Null; Null; Null; Null; Null; Null; Null; Null; Null; Null; Null;
   Null; Null; Null; Null; Null; Null; Null; Null; Null; Null; Null; Null; Null; Null; Null; Null;
   Null; Null; Null; Null; Null; Null; Null; Null; Null; Null; Null; Null; Null; Null; Null; Null;
   Null; Null; Null; Null; Null; Null; Null; Null; Null; Null; Null; Null; Null; Null; Null; Null;
   Null; Null; Null; Null; Null; Null; Null; Null; Null; Null; Null; Null; Null; Null; Null; Null;
   Null; Null; Null; Null; Null; Null; Null; Null; Null; Null; Null; Null; Null; Null; Null; Null;
   Null; Null; Null; Null; Null; Null; Null; Null; Null; Null; Null; Null; Null; Null; Null; Null;
   Null; Null; Leaf 0x0000000100000000; z; z; z; z; z; z; z; z; z; z; z; z; z; z; z; z; z; z; z;
   z; z; z; z; z; z; z; z; z; z; Null; Children NODE_E1; Children NODE_E2; Children NODE_E3; Null;
   Null; Null; Null; Null; Null; Null; Null; Null; Null; Null; Null; Null; Null; Null; Null; Null;
   Null; Null; Null; Null; Null; Null; Null; Null; Null; Null; Null].
