(* ===== verification/DigitTree.v ===== *)
(** * The tree of the digits

    The data of [String/UTF8IsDigit.cpp].  A node is the list of its 64 arcs, and the
    tree the list of the 256 nodes for a first octet. *)
From S2P Require Import Utf8Category.
From Stdlib Require Import ZArith List.
Import ListNotations.
Local Open Scope Z_scope.

#[local] Abbreviation z := (Leaf 0x0000000000000000).

Definition NODE_E0 : list Node :=
  [z; z; z; z; z; z; z; z; z; z; z; z; z; z; z; z; z; z; z; z; z; z; z; z; z; z; z; z; z; z; z; z;
   z; z; z; z; z; Leaf 0x0000FFC000000000; z; Leaf 0x03F0FFC000000000; z; Leaf 0x0000FFC000000000;
   z; Leaf 0x0000FFC000000000; z; Leaf 0x00FCFFC000000000; z; Leaf 0x0007FFC000000000; z;
   Leaf 0x7F00FFC000000000; z; Leaf 0x0000FFC000000000; z; Leaf 0x003FFFC000000000; z;
   Leaf 0x0000FFC000000000; z; Leaf 0x0000000003FF0000; z; Leaf 0x0000000003FF0000;
   Leaf 0x000FFFFF00000000; z; z; z].

Definition NODE_E1 : list Node :=
  [z; Leaf 0x00000000000003FF; Leaf 0x0000000003FF0000; z; z; z; z; z; z; z; z; z; z;
   Leaf 0x1FFFFE0000000000; z; z; z; z; z; z; z; z; z; z; z; z; z; Leaf 0x0001C00000000000; z; z;
   z; Leaf 0x03FF03FF00000000; Leaf 0x0000000003FF0000; z; z; z; z; Leaf 0x000000000000FFC0; z;
   Leaf 0x0000000007FF0000; z; z; Leaf 0x0000000003FF03FF; z; z; Leaf 0x0000000003FF0000;
   Leaf 0x03FF000000000000; z; z; Leaf 0x0000000003FF03FF; z; z; z; z; z; z; z; z; z; z; z; z; z; z].

Definition NODE_E2 : list Node :=
  [z; Leaf 0x03F1000000000000; Leaf 0x00000000000003FF; z; z; Leaf 0xFFFFFFFFFFFF0000;
   Leaf 0x00000000000003E7; z; z; z; z; z; z; z; z; z; z; Leaf 0xFFFFFFFF00000000;
   Leaf 0x000000000FFFFFFF; Leaf 0xFFFFFC0000000000; z; z; z; z; z; z; z; z; z;
   Leaf 0xFFC0000000000000; Leaf 0x00000000000FFFFF; z; z; z; z; z; z; z; z; z; z; z; z; z; z; z;
   z; z; z; z; z; Leaf 0x2000000000000000; z; z; z; z; z; z; z; z; z; z; z; z].

Definition NODE_E3 : list Node :=
  [Leaf 0x070003FE00000080; z; z; z; z; z; Leaf 0x00000000003C0000; z; Leaf 0x000003FF00000000;
   Leaf 0x00000000FFFEFF00; Leaf 0xFFFE0000000003FF; z; z; z; z; z; z; z; z; z; z; z; z; z; z; z;
   z; z; z; z; z; z; z; z; z; z; z; z; z; z; z; z; z; z; z; z; z; z; z; z; z; z; z; z; z; z; z; z;
   z; z; z; z; z; z].

Definition NODE_EA : list Node :=
  [z; z; z; z; z; z; z; z; z; z; z; z; z; z; z; z; z; z; z; z; z; z; z; z;
   Leaf 0x000003FF00000000; z; z; Leaf 0x0000FFC000000000; z; z; z; z; Leaf 0x003F000000000000; z;
   z; Leaf 0x0000000003FF0000; Leaf 0x00000000000003FF; z; z; Leaf 0x03FF000003FF0000; z;
   Leaf 0x0000000003FF0000; z; z; z; z; z; Leaf 0x03FF000000000000; z; z; z; z; z; z; z; z; z; z;
   z; z; z; z; z; z].

Definition NODE_EF : list Node :=
  [z; z; z; z; z; z; z; z; z; z; z; z; z; z; z; z; z; z; z; z; z; z; z; z; z; z; z; z; z; z; z; z;
   z; z; z; z; z; z; z; z; z; z; z; z; z; z; z; z; z; z; z; z; z; z; z; z; z; z; z; z;
   Leaf 0x0000000003FF0000; z; z; z].

Definition NODE_F0_90 : list Node :=
  [z; z; z; z; Leaf 0x000FFFFFFFFFFF80; Leaf 0x01FFFFFFFFFFFFFF; Leaf 0x0000000000000C00; z; z; z;
   z; Leaf 0x0FFFFFFE00000000; Leaf 0x0000000F00000000; Leaf 0x0000000000000402; z;
   Leaf 0x00000000003E0000; z; z; Leaf 0x000003FF00000000; z; z; z; z; z; z; z; z; z; z; z; z; z;
   z; Leaf 0xFE000000FF000000; Leaf 0x0000FF8000000000; Leaf 0xF800000000000000;
   Leaf 0x000000000FC00000; z; Leaf 0x3000000000000000; Leaf 0xFFFFFFFFFFFCFFFF; z;
   Leaf 0x60000000000000FF; Leaf 0x00000000E0000000; Leaf 0x0000F80000000000; z;
   Leaf 0xFF000000FF000000; Leaf 0x0000FE0000000000; z; z; z; z; Leaf 0xFC00000000000000; z; z; z;
   z; z; Leaf 0x7FFFFFFF00000000; z; z; z; z; z; z].

Definition NODE_F0_91 : list Node :=
  [z; Leaf 0x0000FFFFFFFC0000; z; Leaf 0x03FF000000000000; Leaf 0xFFC0000000000000; z; z;
   Leaf 0x001FFFFE03FF0000; z; z; z; Leaf 0x03FF000000000000; z; z; z; z; z; z; z;
   Leaf 0x0000000003FF0000; z; z; z; z; z; Leaf 0x0000000003FF0000; z; Leaf 0x00000000000003FF;
   Leaf 0x0FFF000000000000; z; z; z; z; z; z; Leaf 0x0007FFFF00000000; z; z; z; z; z; z; z; z; z;
   z; z; z; z; z; z; z; z; z; z; z; z; z; z; z; z; z; z; z].

Definition NODE_F0_92 : list Node :=
  [z; z; z; z; z; z; z; z; z; z; z; z; z; z; z; z; Leaf 0xFFFFFFFFFFFFFFFF;
   Leaf 0x00007FFFFFFFFFFF; z; z; z; z; z; z; z; z; z; z; z; z; z; z; z; z; z; z; z; z; z; z; z;
   z; z; z; z; z; z; z; z; z; z; z; z; z; z; z; z; z; z; z; z; z; z; z].

Definition NODE_F0_96 : list Node :=
  [z; z; z; z; z; z; z; z; z; z; z; z; z; z; z; z; z; z; z; z; z; z; z; z; z; z; z; z; z; z; z; z;
   z; z; z; z; z; z; z; z; z; Leaf 0x000003FF00000000; z; z; z; Leaf 0x00000003FBFF0000; z; z; z;
   z; z; z; z; z; z; z; z; z; z; z; z; z; z; z].

Definition NODE_F0_9D : list Node :=
  [z; z; z; z; z; z; z; z; z; z; z; z; z; Leaf 0x0003FFFF00000000; z; z; z; z; z; z; z; z; z; z;
   z; z; z; z; z; z; z; Leaf 0xFFFFFFFFFFFFC000; z; z; z; z; z; z; z; z; z; z; z; z; z; z; z; z;
   z; z; z; z; z; z; z; z; z; z; z; z; z; z; z; z].

Definition NODE_F0_9E : list Node :=
  [z; z; z; z; z; z; z; z; z; z; z; z; z; z; z; z; z; z; z; z; z; z; z; z; z; z; z; z; z; z; z; z;
   z; z; z; Leaf 0x000000000000FF80; z; z; z; z; z; z; z; z; z; z; z; z; z; z; z; z; z; z; z; z;
   z; z; z; z; z; z; z; z].

Definition NODE_F0_9F : list Node :=
  [z; z; z; z; Leaf 0x0000000000001FFF; z; z; z; z; z; z; z; z; z; z; z; z; z; z; z; z; z; z; z;
   z; z; z; z; z; z; z; z; z; z; z; z; z; z; z; z; z; z; z; z; z; z; z; z; z; z; z; z; z; z; z; z;
   z; z; z; z; z; z; z; z].

Definition NODE_F0 : list Node :=
  [Null; Null; Null; Null; Null; Null; Null; Null; Null; Null; Null; Null; Null; Null; Null; Null;
   Children NODE_F0_90; Children NODE_F0_91; Children NODE_F0_92; Null; Null; Null;
   Children NODE_F0_96; Null; Null; Null; Null; Null; Null; Children NODE_F0_9D;
   Children NODE_F0_9E; Children NODE_F0_9F; Null; Null; Null; Null; Null; Null; Null; Null; Null;
   Null; Null; Null; Null; Null; Null; Null; Null; Null; Null; Null; Null; Null; Null; Null; Null;
   Null; Null; Null; Null; Null; Null; Null].

Definition DIGIT_TREE : list Node :=
  [Null; Null; Null; Null; Null; Null; Null; Null; Null; Null; Null; Null; Null; Null; Null; Null;
   Null; Null; Null; Null; Null; Null; Null; Null; Null; Null; Null; Null; Null; Null; Null; Null;
   Null; Null; Null; Null; Null; Null; Null; Null; Null; Null; Null; Null; Null; Null; Null; Null;
   Stop; Stop; Stop; Stop; Stop; Stop; Stop; Stop; Stop; Stop; Null; Null; Null; Null; Null; Null;
   Null; Null; Null; Null; Null; Null; Null; Null; Null; Null; Null; Null; Null; Null; Null; Null;
   Null; Null; Null; Null; Null; Null; Null; Null; Null; Null; Null; Null; Null; Null; Null; Null;
   Null; Null; Null; Null; Null; Null; Null; Null; Null; Null; Null; Null; Null; Null; Null; Null;
   Null; Null; Null; Null; Null; Null; Null; Null; Null; Null; Null; Null; Null; Null; Null; Null;
   Null; Null; Null; Null; Null; Null; Null; Null; Null; Null; Null; Null; Null; Null; Null; Null;
   Null; Null; Null; Null; Null; Null; Null; Null; Null; Null; Null; Null; Null; Null; Null; Null;
   Null; Null; Null; Null; Null; Null; Null; Null; Null; Null; Null; Null; Null; Null; Null; Null;
   Null; Null; Null; Null; Null; Null; Null; Null; Null; Null; Null; Null; Null; Null; Null; Null;
   Null; Null; Leaf 0x720C000000000000; z; z; z; z; z; z; z; z; z; z; z; z; z; z; z; z; z; z; z;
   z; z; z; Leaf 0x000003FF00000000; z; Leaf 0x03FF000000000000; z; z; z; Leaf 0x00000000000003FF;
   Children NODE_E0; Children NODE_E1; Children NODE_E2; Children NODE_E3; Null; Null; Null; Null;
   Null; Null; Children NODE_EA; Null; Null; Null; Null; Children NODE_EF; Children NODE_F0; Null;
   Null; Null; Null; Null; Null; Null; Null; Null; Null; Null; Null; Null; Null; Null].
