(* ===== verification/LetterTree.v ===== *)
(** * The tree of the letters

    The data of [String/UTF8IsLetter.cpp].  A node is the list of its 64 arcs, and the
    tree the list of the 256 nodes for a first octet. *)
From S2P Require Import Utf8Category.
From Stdlib Require Import ZArith List.
Import ListNotations.
Local Open Scope Z_scope.

#[local] Abbreviation z := (Leaf 0x0000000000000000).

Definition NODE_E0 : list Node :=
  [z; z; z; z; z; z; z; z; z; z; z; z; z; z; z; z; z; z; z; z; z; z; z; z; z; z; z; z; z; z; z; z;
   Leaf 0x00000110043FFFFF; Leaf 0x0000000001FFFFFF; Leaf 0x001FFFFF00000000; z;
   Leaf 0x23FFFFFFFFFFFFF0; Leaf 0xFFFE0003FF010000; Leaf 0x23C5FDFFFFF99FE1;
   Leaf 0x00030003B0004000; Leaf 0x036DFDFFFFF987E0; Leaf 0x001C00005E000000;
   Leaf 0x23EDFDFFFFFBBFE0; Leaf 0x0200000300010000; Leaf 0x23EDFDFFFFF99FE0;
   Leaf 0x00020003B0000000; Leaf 0x03FFC718D63DC7E8; Leaf 0x0000000000010000;
   Leaf 0x23FFFDFFFFFDDFE0; Leaf 0x0000000307000000; Leaf 0x23EFFDFFFFFDDFE0;
   Leaf 0x0006000340000000; Leaf 0x27FFFFFFFFFDDFE0; Leaf 0xFC00000380004000;
   Leaf 0x2FFBFFFFFC7FFFE0; Leaf 0x000000000000007F; Leaf 0x000DFFFFFFFFFFFE;
   Leaf 0x000000000000007F; Leaf 0x200DECAEFEF02596; Leaf 0x00000000F000005F;
   Leaf 0x0000000000000001; Leaf 0x00001FFFFFFFFEFF; Leaf 0x0000000000001F00; z].

Definition NODE_E1 : list Node :=
  [Leaf 0x800007FFFFFFFFFF; Leaf 0xFFE1C0623C3F0000; Leaf 0xFFFFFFFF00004003;
   Leaf 0xF7FFFFFFFFFF20BF; Leaf 0xFFFFFFFFFFFFFFFF; Leaf 0xFFFFFFFFFFFFFFFF;
   Leaf 0xFFFFFFFFFFFFFFFF; Leaf 0xFFFFFFFFFFFFFFFF; Leaf 0xFFFFFFFFFFFFFFFF;
   Leaf 0xFFFFFFFF3D7F3DFF; Leaf 0x7F3DFFFFFFFF3DFF; Leaf 0xFFFFFFFFFF7FFF3D;
   Leaf 0xFFFFFFFFFF3DFFFF; Leaf 0x0000000007FFFFFF; Leaf 0xFFFFFFFF0000FFFF;
   Leaf 0x3F3FFFFFFFFFFFFF; Leaf 0xFFFFFFFFFFFFFFFE; Leaf 0xFFFFFFFFFFFFFFFF;
   Leaf 0xFFFFFFFFFFFFFFFF; Leaf 0xFFFFFFFFFFFFFFFF; Leaf 0xFFFFFFFFFFFFFFFF;
   Leaf 0xFFFFFFFFFFFFFFFF; Leaf 0xFFFFFFFFFFFFFFFF; Leaf 0xFFFFFFFFFFFFFFFF;
   Leaf 0xFFFFFFFFFFFFFFFF; Leaf 0xFFFF9FFFFFFFFFFF; Leaf 0xFFFFFFFF07FFFFFE;
   Leaf 0x01FE07FFFFFFFFFF; Leaf 0x0003FFFF0003DFFF; Leaf 0x0001DFFF0003FFFF;
   Leaf 0x000FFFFFFFFFFFFF; Leaf 0x0000000010800000; Leaf 0xFFFFFFFF00000000;
   Leaf 0x00FFFFFFFFFFFFFF; Leaf 0xFFFF05FFFFFFFFFF; Leaf 0x003FFFFFFFFFFFFF;
   Leaf 0x000000007FFFFFFF; Leaf 0x001F3FFFFFFF0000; Leaf 0xFFFF0FFFFFFFFFFF;
   Leaf 0x00000000000003FF; Leaf 0xFFFFFFFF007FFFFF; Leaf 0x00000000001FFFFF;
   Leaf 0x0000008000000000; z; Leaf 0x000FFFFFFFFFFFE0; Leaf 0x0000000000000FE0;
   Leaf 0xFC00C001FFFFFFF8; Leaf 0x0000003FFFFFFFFF; Leaf 0x0000000FFFFFFFFF;
   Leaf 0x3FFFFFFFFC00E000; z; Leaf 0x0063DE0000000000; Leaf 0xFFFFFFFFFFFFFFFF;
   Leaf 0xFFFFFFFFFFFFFFFF; Leaf 0xFFFFFFFFFFFFFFFF; z; Leaf 0xFFFFFFFFFFFFFFFF;
   Leaf 0xFFFFFFFFFFFFFFFF; Leaf 0xFFFFFFFFFFFFFFFF; Leaf 0xFFFFFFFFFFFFFFFF;
   Leaf 0xFFFFFFFF3F3FFFFF; Leaf 0x3FFFFFFFAAFF3F3F; Leaf 0x5FDFFFFFFFFFFFFF;
   Leaf 0x1FDC1FFF0FCF1FDC].

Definition NODE_E2 : list Node :=
  [z; Leaf 0x8002000000000000; Leaf 0x000000001FFF0000; z; Leaf 0xF3FFBD503E2FFC84;
   Leaf 0x00000000000043E0; Leaf 0x0000000000000018; z; z; z; z; z; z; z; z; z; z; z; z; z; z; z;
   z; z; z; z; z; z; z; z; z; z; z; z; z; z; z; z; z; z; z; z; z; z; z; z; z; z;
   Leaf 0xFFFF7FFFFFFFFFFF; Leaf 0xFFFFFFFF7FFFFFFF; Leaf 0xFFFFFFFFFFFFFFFF;
   Leaf 0x000C781FFFFFFFFF; Leaf 0xFFFF20BFFFFFFFFF; Leaf 0x000080FFFFFFFFFF;
   Leaf 0x7F7F7F7F007FFFFF; Leaf 0x000000007F7F7F7F; Leaf 0x0000800000000000; z; z; z; z; z; z; z].

Definition NODE_E3 : list Node :=
  [Leaf 0x183E000000000060; Leaf 0xFFFFFFFFFFFFFFFE; Leaf 0xFFFFFFFEE07FFFFF;
   Leaf 0xF7FFFFFFFFFFFFFF; Leaf 0xFFFE3FFFFFFFFFE0; Leaf 0xFFFFFFFFFFFFFFFF;
   Leaf 0x07FFFFFF00007FFF; Leaf 0xFFFF000000000000; z; z; z; z; z; z; z; z;
   Leaf 0xFFFFFFFFFFFFFFFF; Leaf 0xFFFFFFFFFFFFFFFF; Leaf 0xFFFFFFFFFFFFFFFF;
   Leaf 0xFFFFFFFFFFFFFFFF; Leaf 0xFFFFFFFFFFFFFFFF; Leaf 0xFFFFFFFFFFFFFFFF;
   Leaf 0xFFFFFFFFFFFFFFFF; Leaf 0xFFFFFFFFFFFFFFFF; Leaf 0xFFFFFFFFFFFFFFFF;
   Leaf 0xFFFFFFFFFFFFFFFF; Leaf 0xFFFFFFFFFFFFFFFF; Leaf 0xFFFFFFFFFFFFFFFF;
   Leaf 0xFFFFFFFFFFFFFFFF; Leaf 0xFFFFFFFFFFFFFFFF; Leaf 0xFFFFFFFFFFFFFFFF;
   Leaf 0xFFFFFFFFFFFFFFFF; Leaf 0xFFFFFFFFFFFFFFFF; Leaf 0xFFFFFFFFFFFFFFFF;
   Leaf 0xFFFFFFFFFFFFFFFF; Leaf 0xFFFFFFFFFFFFFFFF; Leaf 0xFFFFFFFFFFFFFFFF;
   Leaf 0xFFFFFFFFFFFFFFFF; Leaf 0xFFFFFFFFFFFFFFFF; Leaf 0xFFFFFFFFFFFFFFFF;
   Leaf 0xFFFFFFFFFFFFFFFF; Leaf 0xFFFFFFFFFFFFFFFF; Leaf 0xFFFFFFFFFFFFFFFF;
   Leaf 0xFFFFFFFFFFFFFFFF; Leaf 0xFFFFFFFFFFFFFFFF; Leaf 0xFFFFFFFFFFFFFFFF;
   Leaf 0xFFFFFFFFFFFFFFFF; Leaf 0xFFFFFFFFFFFFFFFF; Leaf 0xFFFFFFFFFFFFFFFF;
   Leaf 0xFFFFFFFFFFFFFFFF; Leaf 0xFFFFFFFFFFFFFFFF; Leaf 0xFFFFFFFFFFFFFFFF;
   Leaf 0xFFFFFFFFFFFFFFFF; Leaf 0xFFFFFFFFFFFFFFFF; Leaf 0xFFFFFFFFFFFFFFFF;
   Leaf 0xFFFFFFFFFFFFFFFF; Leaf 0xFFFFFFFFFFFFFFFF; Leaf 0xFFFFFFFFFFFFFFFF;
   Leaf 0xFFFFFFFFFFFFFFFF; Leaf 0xFFFFFFFFFFFFFFFF; Leaf 0xFFFFFFFFFFFFFFFF;
   Leaf 0xFFFFFFFFFFFFFFFF; Leaf 0xFFFFFFFFFFFFFFFF; Leaf 0xFFFFFFFFFFFFFFFF].

Definition NODE_E4 : list Node :=
  [Leaf 0xFFFFFFFFFFFFFFFF; Leaf 0xFFFFFFFFFFFFFFFF; Leaf 0xFFFFFFFFFFFFFFFF;
   Leaf 0xFFFFFFFFFFFFFFFF; Leaf 0xFFFFFFFFFFFFFFFF; Leaf 0xFFFFFFFFFFFFFFFF;
   Leaf 0xFFFFFFFFFFFFFFFF; Leaf 0xFFFFFFFFFFFFFFFF; Leaf 0xFFFFFFFFFFFFFFFF;
   Leaf 0xFFFFFFFFFFFFFFFF; Leaf 0xFFFFFFFFFFFFFFFF; Leaf 0xFFFFFFFFFFFFFFFF;
   Leaf 0xFFFFFFFFFFFFFFFF; Leaf 0xFFFFFFFFFFFFFFFF; Leaf 0xFFFFFFFFFFFFFFFF;
   Leaf 0xFFFFFFFFFFFFFFFF; Leaf 0xFFFFFFFFFFFFFFFF; Leaf 0xFFFFFFFFFFFFFFFF;
   Leaf 0xFFFFFFFFFFFFFFFF; Leaf 0xFFFFFFFFFFFFFFFF; Leaf 0xFFFFFFFFFFFFFFFF;
   Leaf 0xFFFFFFFFFFFFFFFF; Leaf 0xFFFFFFFFFFFFFFFF; Leaf 0xFFFFFFFFFFFFFFFF;
   Leaf 0xFFFFFFFFFFFFFFFF; Leaf 0xFFFFFFFFFFFFFFFF; Leaf 0xFFFFFFFFFFFFFFFF;
   Leaf 0xFFFFFFFFFFFFFFFF; Leaf 0xFFFFFFFFFFFFFFFF; Leaf 0xFFFFFFFFFFFFFFFF;
   Leaf 0xFFFFFFFFFFFFFFFF; Leaf 0xFFFFFFFFFFFFFFFF; Leaf 0xFFFFFFFFFFFFFFFF;
   Leaf 0xFFFFFFFFFFFFFFFF; Leaf 0xFFFFFFFFFFFFFFFF; Leaf 0xFFFFFFFFFFFFFFFF;
   Leaf 0xFFFFFFFFFFFFFFFF; Leaf 0xFFFFFFFFFFFFFFFF; Leaf 0xFFFFFFFFFFFFFFFF;
   Leaf 0xFFFFFFFFFFFFFFFF; Leaf 0xFFFFFFFFFFFFFFFF; Leaf 0xFFFFFFFFFFFFFFFF;
   Leaf 0xFFFFFFFFFFFFFFFF; Leaf 0xFFFFFFFFFFFFFFFF; Leaf 0xFFFFFFFFFFFFFFFF;
   Leaf 0xFFFFFFFFFFFFFFFF; Leaf 0xFFFFFFFFFFFFFFFF; Leaf 0xFFFFFFFFFFFFFFFF;
   Leaf 0xFFFFFFFFFFFFFFFF; Leaf 0xFFFFFFFFFFFFFFFF; Leaf 0xFFFFFFFFFFFFFFFF;
   Leaf 0xFFFFFFFFFFFFFFFF; Leaf 0xFFFFFFFFFFFFFFFF; Leaf 0xFFFFFFFFFFFFFFFF;
   Leaf 0x003FFFFFFFFFFFFF; z; Leaf 0xFFFFFFFFFFFFFFFF; Leaf 0xFFFFFFFFFFFFFFFF;
   Leaf 0xFFFFFFFFFFFFFFFF; Leaf 0xFFFFFFFFFFFFFFFF; Leaf 0xFFFFFFFFFFFFFFFF;
   Leaf 0xFFFFFFFFFFFFFFFF; Leaf 0xFFFFFFFFFFFFFFFF; Leaf 0xFFFFFFFFFFFFFFFF].

Definition NODE_E9 : list Node :=
  [Leaf 0xFFFFFFFFFFFFFFFF; Leaf 0xFFFFFFFFFFFFFFFF; Leaf 0xFFFFFFFFFFFFFFFF;
   Leaf 0xFFFFFFFFFFFFFFFF; Leaf 0xFFFFFFFFFFFFFFFF; Leaf 0xFFFFFFFFFFFFFFFF;
   Leaf 0xFFFFFFFFFFFFFFFF; Leaf 0xFFFFFFFFFFFFFFFF; Leaf 0xFFFFFFFFFFFFFFFF;
   Leaf 0xFFFFFFFFFFFFFFFF; Leaf 0xFFFFFFFFFFFFFFFF; Leaf 0xFFFFFFFFFFFFFFFF;
   Leaf 0xFFFFFFFFFFFFFFFF; Leaf 0xFFFFFFFFFFFFFFFF; Leaf 0xFFFFFFFFFFFFFFFF;
   Leaf 0xFFFFFFFFFFFFFFFF; Leaf 0xFFFFFFFFFFFFFFFF; Leaf 0xFFFFFFFFFFFFFFFF;
   Leaf 0xFFFFFFFFFFFFFFFF; Leaf 0xFFFFFFFFFFFFFFFF; Leaf 0xFFFFFFFFFFFFFFFF;
   Leaf 0xFFFFFFFFFFFFFFFF; Leaf 0xFFFFFFFFFFFFFFFF; Leaf 0xFFFFFFFFFFFFFFFF;
   Leaf 0xFFFFFFFFFFFFFFFF; Leaf 0xFFFFFFFFFFFFFFFF; Leaf 0xFFFFFFFFFFFFFFFF;
   Leaf 0xFFFFFFFFFFFFFFFF; Leaf 0xFFFFFFFFFFFFFFFF; Leaf 0xFFFFFFFFFFFFFFFF;
   Leaf 0xFFFFFFFFFFFFFFFF; Leaf 0xFFFFFFFFFFFFFFFF; Leaf 0xFFFFFFFFFFFFFFFF;
   Leaf 0xFFFFFFFFFFFFFFFF; Leaf 0xFFFFFFFFFFFFFFFF; Leaf 0xFFFFFFFFFFFFFFFF;
   Leaf 0xFFFFFFFFFFFFFFFF; Leaf 0xFFFFFFFFFFFFFFFF; Leaf 0xFFFFFFFFFFFFFFFF;
   Leaf 0xFFFFFFFFFFFFFFFF; Leaf 0xFFFFFFFFFFFFFFFF; Leaf 0xFFFFFFFFFFFFFFFF;
   Leaf 0xFFFFFFFFFFFFFFFF; Leaf 0xFFFFFFFFFFFFFFFF; Leaf 0xFFFFFFFFFFFFFFFF;
   Leaf 0xFFFFFFFFFFFFFFFF; Leaf 0xFFFFFFFFFFFFFFFF; Leaf 0xFFFFFFFFFFFFFFFF;
   Leaf 0xFFFFFFFFFFFFFFFF; Leaf 0xFFFFFFFFFFFFFFFF; Leaf 0xFFFFFFFFFFFFFFFF;
   Leaf 0xFFFFFFFFFFFFFFFF; Leaf 0xFFFFFFFFFFFFFFFF; Leaf 0xFFFFFFFFFFFFFFFF;
   Leaf 0xFFFFFFFFFFFFFFFF; Leaf 0xFFFFFFFFFFFFFFFF; Leaf 0xFFFFFFFFFFFFFFFF;
   Leaf 0xFFFFFFFFFFFFFFFF; Leaf 0xFFFFFFFFFFFFFFFF; Leaf 0xFFFFFFFFFFFFFFFF;
   Leaf 0xFFFFFFFFFFFFFFFF; Leaf 0xFFFFFFFFFFFFFFFF; Leaf 0xFFFFFFFFFFFFFFFF;
   Leaf 0x00000000003FFFFF].

Definition NODE_EA : list Node :=
  [Leaf 0xFFFFFFFFFFFFFFFF; Leaf 0xFFFFFFFFFFFFFFFF; Leaf 0xFFFFFFFFFFFFFFFF;
   Leaf 0xFFFFFFFFFFFFFFFF; Leaf 0xFFFFFFFFFFFFFFFF; Leaf 0xFFFFFFFFFFFFFFFF;
   Leaf 0xFFFFFFFFFFFFFFFF; Leaf 0xFFFFFFFFFFFFFFFF; Leaf 0xFFFFFFFFFFFFFFFF;
   Leaf 0xFFFFFFFFFFFFFFFF; Leaf 0xFFFFFFFFFFFFFFFF; Leaf 0xFFFFFFFFFFFFFFFF;
   Leaf 0xFFFFFFFFFFFFFFFF; Leaf 0xFFFFFFFFFFFFFFFF; Leaf 0xFFFFFFFFFFFFFFFF;
   Leaf 0xFFFFFFFFFFFFFFFF; Leaf 0xFFFFFFFFFFFFFFFF; Leaf 0xFFFFFFFFFFFFFFFF;
   Leaf 0x0000000000001FFF; Leaf 0x3FFFFFFFFFFF0000; Leaf 0xFFFFFFFFFFFFFFFF;
   Leaf 0xFFFFFFFFFFFFFFFF; Leaf 0xFFFFFFFFFFFFFFFF; Leaf 0xFFFFFFFFFFFFFFFF;
   Leaf 0x00000C00FFFF1FFF; Leaf 0x80007FFFFFFFFFFF; Leaf 0xFFFFFFFF3FFFFFFF;
   Leaf 0x0000003FFFFFFFFF; Leaf 0xFFFFFFFCFF800000; Leaf 0xFFFFFFFFFFFFFFFF;
   Leaf 0x00FF3FFFFFFFF9FF; Leaf 0xFF80000000000000; Leaf 0x00000007FFFFF7BB;
   Leaf 0x000FFFFFFFFFFFFF; Leaf 0x000FFFFFFFFFFFFC; Leaf 0x28FC000000000000;
   Leaf 0xFFFF003FFFFFFC00; Leaf 0x1FFFFFFF0000007F; Leaf 0x0007FFFFFFFFFFF0;
   Leaf 0x7C00FFDF00008000; Leaf 0x000001FFFFFFFFFF; Leaf 0xC47FFFFF00000FF7;
   Leaf 0x3E62FFFFFFFFFFFF; Leaf 0x001C07FF38000005; Leaf 0xFFFF7F7F007E7E7E;
   Leaf 0xFFFF003FF7FFFFFF; Leaf 0xFFFFFFFFFFFFFFFF; Leaf 0x00000007FFFFFFFF;
   Leaf 0xFFFFFFFFFFFFFFFF; Leaf 0xFFFFFFFFFFFFFFFF; Leaf 0xFFFFFFFFFFFFFFFF;
   Leaf 0xFFFFFFFFFFFFFFFF; Leaf 0xFFFFFFFFFFFFFFFF; Leaf 0xFFFFFFFFFFFFFFFF;
   Leaf 0xFFFFFFFFFFFFFFFF; Leaf 0xFFFFFFFFFFFFFFFF; Leaf 0xFFFFFFFFFFFFFFFF;
   Leaf 0xFFFFFFFFFFFFFFFF; Leaf 0xFFFFFFFFFFFFFFFF; Leaf 0xFFFFFFFFFFFFFFFF;
   Leaf 0xFFFFFFFFFFFFFFFF; Leaf 0xFFFFFFFFFFFFFFFF; Leaf 0xFFFFFFFFFFFFFFFF;
   Leaf 0xFFFFFFFFFFFFFFFF].

Definition NODE_ED : list Node :=
  [Leaf 0xFFFFFFFFFFFFFFFF; Leaf 0xFFFFFFFFFFFFFFFF; Leaf 0xFFFFFFFFFFFFFFFF;
   Leaf 0xFFFFFFFFFFFFFFFF; Leaf 0xFFFFFFFFFFFFFFFF; Leaf 0xFFFFFFFFFFFFFFFF;
   Leaf 0xFFFFFFFFFFFFFFFF; Leaf 0xFFFFFFFFFFFFFFFF; Leaf 0xFFFFFFFFFFFFFFFF;
   Leaf 0xFFFFFFFFFFFFFFFF; Leaf 0xFFFFFFFFFFFFFFFF; Leaf 0xFFFFFFFFFFFFFFFF;
   Leaf 0xFFFFFFFFFFFFFFFF; Leaf 0xFFFFFFFFFFFFFFFF; Leaf 0xFFFFFFFFFFFFFFFF;
   Leaf 0xFFFFFFFFFFFFFFFF; Leaf 0xFFFFFFFFFFFFFFFF; Leaf 0xFFFFFFFFFFFFFFFF;
   Leaf 0xFFFFFFFFFFFFFFFF; Leaf 0xFFFFFFFFFFFFFFFF; Leaf 0xFFFFFFFFFFFFFFFF;
   Leaf 0xFFFFFFFFFFFFFFFF; Leaf 0xFFFFFFFFFFFFFFFF; Leaf 0xFFFFFFFFFFFFFFFF;
   Leaf 0xFFFFFFFFFFFFFFFF; Leaf 0xFFFFFFFFFFFFFFFF; Leaf 0xFFFFFFFFFFFFFFFF;
   Leaf 0xFFFFFFFFFFFFFFFF; Leaf 0xFFFFFFFFFFFFFFFF; Leaf 0xFFFFFFFFFFFFFFFF;
   Leaf 0xFFFF000FFFFFFFFF; Leaf 0x0FFFFFFFFFFFF87F; z; z; z; z; z; z; z; z; z; z; z; z; z; z; z;
   z; z; z; z; z; z; z; z; z; z; z; z; z; z; z; z; z].

Definition NODE_EF : list Node :=
  [z; z; z; z; z; z; z; z; z; z; z; z; z; z; z; z; z; z; z; z; z; z; z; z; z; z; z; z; z; z; z; z;
   z; z; z; z; Leaf 0xFFFFFFFFFFFFFFFF; Leaf 0xFFFFFFFFFFFFFFFF; Leaf 0xFFFFFFFFFFFFFFFF;
   Leaf 0xFFFFFFFFFFFFFFFF; Leaf 0xFFFFFFFFFFFFFFFF; Leaf 0xFFFF3FFFFFFFFFFF;
   Leaf 0xFFFFFFFFFFFFFFFF; Leaf 0x0000000003FFFFFF; Leaf 0x5F7FFDFFA0F8007F;
   Leaf 0xFFFFFFFFFFFFFFDB; Leaf 0x0003FFFFFFFFFFFF; Leaf 0xFFFFFFFFFFF80000;
   Leaf 0xFFFFFFFFFFFFFFFF; Leaf 0xFFFFFFFFFFFFFFFF; Leaf 0xFFFFFFFFFFFFFFFF;
   Leaf 0xFFFFFFFFFFFFFFFF; Leaf 0x3FFFFFFFFFFFFFFF; Leaf 0xFFFFFFFFFFFF0000;
   Leaf 0xFFFFFFFFFFFCFFFF; Leaf 0x0FFF0000000000FF; z; Leaf 0xFFDF000000000000;
   Leaf 0xFFFFFFFFFFFFFFFF; Leaf 0x1FFFFFFFFFFFFFFF; Leaf 0x07FFFFFE00000000;
   Leaf 0xFFFFFFC007FFFFFE; Leaf 0x7FFFFFFFFFFFFFFF; Leaf 0x000000001CFCFCFC].

Definition NODE_F0_90 : list Node :=
  [Leaf 0xB7FFFF7FFFFFEFFF; Leaf 0x000000003FFF3FFF; Leaf 0xFFFFFFFFFFFFFFFF;
   Leaf 0x07FFFFFFFFFFFFFF; z; z; z; z; z; z; Leaf 0xFFFFFFFF1FFFFFFF; Leaf 0x000000000001FFFF;
   Leaf 0xFFFF0000FFFFFFFF; Leaf 0x003FFFFFFFFF03FD; Leaf 0xFFFFFFFF3FFFFFFF;
   Leaf 0x000000000000FF0F; Leaf 0xFFFFFFFFFFFFFFFF; Leaf 0xFFFFFFFFFFFFFFFF;
   Leaf 0x000000003FFFFFFF; z; Leaf 0xFFFF00FFFFFFFFFF; Leaf 0x0000000FFFFFFFFF; z; z;
   Leaf 0xFFFFFFFFFFFFFFFF; Leaf 0xFFFFFFFFFFFFFFFF; Leaf 0xFFFFFFFFFFFFFFFF;
   Leaf 0xFFFFFFFFFFFFFFFF; Leaf 0x007FFFFFFFFFFFFF; Leaf 0x000000FF003FFFFF; z; z;
   Leaf 0x91BFFFFFFFFFFD3F; Leaf 0x007FFFFF003FFFFF; Leaf 0x000000007FFFFFFF;
   Leaf 0x0037FFFF00000000; Leaf 0x03FFFFFF003FFFFF; z; Leaf 0xC0FFFFFFFFFFFFFF; z;
   Leaf 0x000FFFFFFEEF0001; Leaf 0x1FFFFFFF00000000; Leaf 0x000000001FFFFFFF;
   Leaf 0x0000001FFFFFFEFF; Leaf 0x003FFFFFFFFFFFFF; Leaf 0x0007FFFF003FFFFF;
   Leaf 0x000000000003FFFF; z; Leaf 0xFFFFFFFFFFFFFFFF; Leaf 0x00000000000001FF;
   Leaf 0x0007FFFFFFFFFFFF; Leaf 0x0007FFFFFFFFFFFF; z; z; z; z; z; z; z; z; z; z; z; z].

Definition NODE_F0_91 : list Node :=
  [Leaf 0x00FFFFFFFFFFFFF8; z; Leaf 0x0000FFFFFFFFFFF8; Leaf 0x000001FFFFFF0000;
   Leaf 0x0000007FFFFFFFF8; Leaf 0x0047FFFFFFFF0000; Leaf 0x0007FFFFFFFFFFF8;
   Leaf 0x000000001400001E; Leaf 0x00000FFFFFFBFFFF; z; Leaf 0xFFFF01FFBFFFBD7F;
   Leaf 0x000000007FFFFFFF; Leaf 0x23EDFDFFFFF99FE0; Leaf 0x00000003E0010000; z; z; z; z;
   Leaf 0x0000FFFFFFFFFFFF; Leaf 0x00000000000000B0; z; z; Leaf 0x00007FFFFFFFFFFF;
   Leaf 0x000000000F000000; Leaf 0x0000FFFFFFFFFFFF; Leaf 0x0000000000000010;
   Leaf 0x000007FFFFFFFFFF; z; Leaf 0x0000000003FFFFFF; z; z; z; z; z; Leaf 0xFFFFFFFF00000000;
   Leaf 0x80000000FFFFFFFF; z; z; z; z; z; z; z; Leaf 0x01FFFFFFFFFFFFFF; z; z; z; z; z; z; z; z;
   z; z; z; z; z; z; z; z; z; z; z; z].

Definition NODE_F0_92 : list Node :=
  [Leaf 0xFFFFFFFFFFFFFFFF; Leaf 0xFFFFFFFFFFFFFFFF; Leaf 0xFFFFFFFFFFFFFFFF;
   Leaf 0xFFFFFFFFFFFFFFFF; Leaf 0xFFFFFFFFFFFFFFFF; Leaf 0xFFFFFFFFFFFFFFFF;
   Leaf 0xFFFFFFFFFFFFFFFF; Leaf 0xFFFFFFFFFFFFFFFF; Leaf 0xFFFFFFFFFFFFFFFF;
   Leaf 0xFFFFFFFFFFFFFFFF; Leaf 0xFFFFFFFFFFFFFFFF; Leaf 0xFFFFFFFFFFFFFFFF;
   Leaf 0xFFFFFFFFFFFFFFFF; Leaf 0xFFFFFFFFFFFFFFFF; Leaf 0x0000000003FFFFFF; z; z; z;
   Leaf 0xFFFFFFFFFFFFFFFF; Leaf 0xFFFFFFFFFFFFFFFF; Leaf 0xFFFFFFFFFFFFFFFF;
   Leaf 0x000000000000000F; z; z; z; z; z; z; z; z; z; z; z; z; z; z; z; z; z; z; z; z; z; z; z;
   z; z; z; z; z; z; z; z; z; z; z; z; z; z; z; z; z; z; z].

Definition NODE_F0_93 : list Node :=
  [Leaf 0xFFFFFFFFFFFFFFFF; Leaf 0xFFFFFFFFFFFFFFFF; Leaf 0xFFFFFFFFFFFFFFFF;
   Leaf 0xFFFFFFFFFFFFFFFF; Leaf 0xFFFFFFFFFFFFFFFF; Leaf 0xFFFFFFFFFFFFFFFF;
   Leaf 0xFFFFFFFFFFFFFFFF; Leaf 0xFFFFFFFFFFFFFFFF; Leaf 0xFFFFFFFFFFFFFFFF;
   Leaf 0xFFFFFFFFFFFFFFFF; Leaf 0xFFFFFFFFFFFFFFFF; Leaf 0xFFFFFFFFFFFFFFFF;
   Leaf 0xFFFFFFFFFFFFFFFF; Leaf 0xFFFFFFFFFFFFFFFF; Leaf 0xFFFFFFFFFFFFFFFF;
   Leaf 0xFFFFFFFFFFFFFFFF; Leaf 0x00007FFFFFFFFFFF; z; z; z; z; z; z; z; z; z; z; z; z; z; z; z;
   z; z; z; z; z; z; z; z; z; z; z; z; z; z; z; z; z; z; z; z; z; z; z; z; z; z; z; z; z; z; z; z].

Definition NODE_F0_94 : list Node :=
  [z; z; z; z; z; z; z; z; z; z; z; z; z; z; z; z; Leaf 0xFFFFFFFFFFFFFFFF;
   Leaf 0xFFFFFFFFFFFFFFFF; Leaf 0xFFFFFFFFFFFFFFFF; Leaf 0xFFFFFFFFFFFFFFFF;
   Leaf 0xFFFFFFFFFFFFFFFF; Leaf 0xFFFFFFFFFFFFFFFF; Leaf 0xFFFFFFFFFFFFFFFF;
   Leaf 0xFFFFFFFFFFFFFFFF; Leaf 0xFFFFFFFFFFFFFFFF; Leaf 0x000000000000007F; z; z; z; z; z; z; z;
   z; z; z; z; z; z; z; z; z; z; z; z; z; z; z; z; z; z; z; z; z; z; z; z; z; z; z; z; z; z; z].

Definition NODE_F0_96 : list Node :=
  [z; z; z; z; z; z; z; z; z; z; z; z; z; z; z; z; z; z; z; z; z; z; z; z; z; z; z; z; z; z; z; z;
   Leaf 0xFFFFFFFFFFFFFFFF; Leaf 0xFFFFFFFFFFFFFFFF; Leaf 0xFFFFFFFFFFFFFFFF;
   Leaf 0xFFFFFFFFFFFFFFFF; Leaf 0xFFFFFFFFFFFFFFFF; Leaf 0xFFFFFFFFFFFFFFFF;
   Leaf 0xFFFFFFFFFFFFFFFF; Leaf 0xFFFFFFFFFFFFFFFF; Leaf 0x01FFFFFFFFFFFFFF;
   Leaf 0x000000007FFFFFFF; z; Leaf 0x00003FFFFFFF0000; Leaf 0x0000FFFFFFFFFFFF;
   Leaf 0xE0FFFFF80000000F; Leaf 0x000000000000FFFF; z; z; z; z; z; z; z; z; z; z; z; z; z;
   Leaf 0xFFFFFFFFFFFFFFFF; Leaf 0x000000000001001F; Leaf 0x00000000FFF80000; z].

Definition NODE_F0_9B : list Node :=
  [Leaf 0x0000000000000003; z; z; z; z; z; z; z; z; z; z; z; z; z; z; z; z; z; z; z; z; z; z; z;
   z; z; z; z; z; z; z; z; z; z; z; z; z; z; z; z; z; z; z; z; z; z; z; z;
   Leaf 0xFFFFFFFFFFFFFFFF; Leaf 0x1FFF07FFFFFFFFFF; Leaf 0x0000000003FF01FF; z; z; z; z; z; z; z;
   z; z; z; z; z; z].

Definition NODE_F0_9D : list Node :=
  [z; z; z; z; z; z; z; z; z; z; z; z; z; z; z; z; Leaf 0xFFFFFFFFFFFFFFFF;
   Leaf 0xFFFFFFFFFFDFFFFF; Leaf 0xEBFFDE64DFFFFFFF; Leaf 0xFFFFFFFFFFFFFFEF;
   Leaf 0x7BFFFFFFDFDFE7BF; Leaf 0xFFFFFFFFFFFDFC5F; Leaf 0xFFFFFFFFFFFFFFFF;
   Leaf 0xFFFFFFFFFFFFFFFF; Leaf 0xFFFFFFFFFFFFFFFF; Leaf 0xFFFFFFFFFFFFFFFF;
   Leaf 0xFFFFFF3FFFFFFFFF; Leaf 0xF7FFFFFFF7FFFFFD; Leaf 0xFFDFFFFFFFDFFFFF;
   Leaf 0xFFFF7FFFFFFF7FFF; Leaf 0xFFFFFDFFFFFFFDFF; Leaf 0x0000000000000FF7; z; z; z; z; z; z; z;
   z; z; z; z; z; z; z; z; z; z; z; z; z; z; z; z; z; z; z; z; z; z; z; z; z].

Definition NODE_F0_9E : list Node :=
  [z; z; z; z; z; z; z; z; z; z; z; z; z; z; z; z; z; z; z; z; z; z; z; z; z; z; z; z; z; z; z; z;
   Leaf 0xFFFFFFFFFFFFFFFF; Leaf 0xFFFFFFFFFFFFFFFF; Leaf 0xFFFFFFFFFFFFFFFF;
   Leaf 0x000000000000001F; z; z; z; z; z; z; z; z; z; z; z; z; z; z; z; z; z; z; z; z;
   Leaf 0x0AF7FE96FFFFFFEF; Leaf 0x5EF7F796AA96EA84; Leaf 0x0FFFFBEE0FFFFBFF; z; z; z; z; z].

Definition NODE_F0_AA : list Node :=
  [Leaf 0xFFFFFFFFFFFFFFFF; Leaf 0xFFFFFFFFFFFFFFFF; Leaf 0xFFFFFFFFFFFFFFFF;
   Leaf 0xFFFFFFFFFFFFFFFF; Leaf 0xFFFFFFFFFFFFFFFF; Leaf 0xFFFFFFFFFFFFFFFF;
   Leaf 0xFFFFFFFFFFFFFFFF; Leaf 0xFFFFFFFFFFFFFFFF; Leaf 0xFFFFFFFFFFFFFFFF;
   Leaf 0xFFFFFFFFFFFFFFFF; Leaf 0xFFFFFFFFFFFFFFFF; Leaf 0xFFFFFFFFFFFFFFFF;
   Leaf 0xFFFFFFFFFFFFFFFF; Leaf 0xFFFFFFFFFFFFFFFF; Leaf 0xFFFFFFFFFFFFFFFF;
   Leaf 0xFFFFFFFFFFFFFFFF; Leaf 0xFFFFFFFFFFFFFFFF; Leaf 0xFFFFFFFFFFFFFFFF;
   Leaf 0xFFFFFFFFFFFFFFFF; Leaf 0xFFFFFFFFFFFFFFFF; Leaf 0xFFFFFFFFFFFFFFFF;
   Leaf 0xFFFFFFFFFFFFFFFF; Leaf 0xFFFFFFFFFFFFFFFF; Leaf 0xFFFFFFFFFFFFFFFF;
   Leaf 0xFFFFFFFFFFFFFFFF; Leaf 0xFFFFFFFFFFFFFFFF; Leaf 0xFFFFFFFFFFFFFFFF;
   Leaf 0x00000000007FFFFF; Leaf 0xFFFFFFFFFFFFFFFF; Leaf 0xFFFFFFFFFFFFFFFF;
   Leaf 0xFFFFFFFFFFFFFFFF; Leaf 0xFFFFFFFFFFFFFFFF; Leaf 0xFFFFFFFFFFFFFFFF;
   Leaf 0xFFFFFFFFFFFFFFFF; Leaf 0xFFFFFFFFFFFFFFFF; Leaf 0xFFFFFFFFFFFFFFFF;
   Leaf 0xFFFFFFFFFFFFFFFF; Leaf 0xFFFFFFFFFFFFFFFF; Leaf 0xFFFFFFFFFFFFFFFF;
   Leaf 0xFFFFFFFFFFFFFFFF; Leaf 0xFFFFFFFFFFFFFFFF; Leaf 0xFFFFFFFFFFFFFFFF;
   Leaf 0xFFFFFFFFFFFFFFFF; Leaf 0xFFFFFFFFFFFFFFFF; Leaf 0xFFFFFFFFFFFFFFFF;
   Leaf 0xFFFFFFFFFFFFFFFF; Leaf 0xFFFFFFFFFFFFFFFF; Leaf 0xFFFFFFFFFFFFFFFF;
   Leaf 0xFFFFFFFFFFFFFFFF; Leaf 0xFFFFFFFFFFFFFFFF; Leaf 0xFFFFFFFFFFFFFFFF;
   Leaf 0xFFFFFFFFFFFFFFFF; Leaf 0xFFFFFFFFFFFFFFFF; Leaf 0xFFFFFFFFFFFFFFFF;
   Leaf 0xFFFFFFFFFFFFFFFF; Leaf 0xFFFFFFFFFFFFFFFF; Leaf 0xFFFFFFFFFFFFFFFF;
   Leaf 0xFFFFFFFFFFFFFFFF; Leaf 0xFFFFFFFFFFFFFFFF; Leaf 0xFFFFFFFFFFFFFFFF;
   Leaf 0xFFFFFFFFFFFFFFFF; Leaf 0xFFFFFFFFFFFFFFFF; Leaf 0xFFFFFFFFFFFFFFFF;
   Leaf 0xFFFFFFFFFFFFFFFF].

Definition NODE_F0_AB : list Node :=
  [Leaf 0xFFFFFFFFFFFFFFFF; Leaf 0xFFFFFFFFFFFFFFFF; Leaf 0xFFFFFFFFFFFFFFFF;
   Leaf 0xFFFFFFFFFFFFFFFF; Leaf 0xFFFFFFFFFFFFFFFF; Leaf 0xFFFFFFFFFFFFFFFF;
   Leaf 0xFFFFFFFFFFFFFFFF; Leaf 0xFFFFFFFFFFFFFFFF; Leaf 0xFFFFFFFFFFFFFFFF;
   Leaf 0xFFFFFFFFFFFFFFFF; Leaf 0xFFFFFFFFFFFFFFFF; Leaf 0xFFFFFFFFFFFFFFFF;
   Leaf 0xFFFFFFFFFFFFFFFF; Leaf 0xFFFFFFFFFFFFFFFF; Leaf 0xFFFFFFFFFFFFFFFF;
   Leaf 0xFFFFFFFFFFFFFFFF; Leaf 0xFFFFFFFFFFFFFFFF; Leaf 0xFFFFFFFFFFFFFFFF;
   Leaf 0xFFFFFFFFFFFFFFFF; Leaf 0xFFFFFFFFFFFFFFFF; Leaf 0xFFFFFFFFFFFFFFFF;
   Leaf 0xFFFFFFFFFFFFFFFF; Leaf 0xFFFFFFFFFFFFFFFF; Leaf 0xFFFFFFFFFFFFFFFF;
   Leaf 0xFFFFFFFFFFFFFFFF; Leaf 0xFFFFFFFFFFFFFFFF; Leaf 0xFFFFFFFFFFFFFFFF;
   Leaf 0xFFFFFFFFFFFFFFFF; Leaf 0x001FFFFFFFFFFFFF; Leaf 0xFFFFFFFFFFFFFFFF;
   Leaf 0xFFFFFFFFFFFFFFFF; Leaf 0xFFFFFFFFFFFFFFFF; Leaf 0xFFFFFFFF3FFFFFFF;
   Leaf 0xFFFFFFFFFFFFFFFF; Leaf 0xFFFFFFFFFFFFFFFF; Leaf 0xFFFFFFFFFFFFFFFF;
   Leaf 0xFFFFFFFFFFFFFFFF; Leaf 0xFFFFFFFFFFFFFFFF; Leaf 0xFFFFFFFFFFFFFFFF;
   Leaf 0xFFFFFFFFFFFFFFFF; Leaf 0xFFFFFFFFFFFFFFFF; Leaf 0xFFFFFFFFFFFFFFFF;
   Leaf 0xFFFFFFFFFFFFFFFF; Leaf 0xFFFFFFFFFFFFFFFF; Leaf 0xFFFFFFFFFFFFFFFF;
   Leaf 0xFFFFFFFFFFFFFFFF; Leaf 0xFFFFFFFFFFFFFFFF; Leaf 0xFFFFFFFFFFFFFFFF;
   Leaf 0xFFFFFFFFFFFFFFFF; Leaf 0xFFFFFFFFFFFFFFFF; Leaf 0xFFFFFFFFFFFFFFFF;
   Leaf 0xFFFFFFFFFFFFFFFF; Leaf 0xFFFFFFFFFFFFFFFF; Leaf 0xFFFFFFFFFFFFFFFF;
   Leaf 0xFFFFFFFFFFFFFFFF; Leaf 0xFFFFFFFFFFFFFFFF; Leaf 0xFFFFFFFFFFFFFFFF;
   Leaf 0xFFFFFFFFFFFFFFFF; Leaf 0xFFFFFFFFFFFFFFFF; Leaf 0xFFFFFFFFFFFFFFFF;
   Leaf 0xFFFFFFFFFFFFFFFF; Leaf 0xFFFFFFFFFFFFFFFF; Leaf 0xFFFFFFFFFFFFFFFF;
   Leaf 0xFFFFFFFFFFFFFFFF].

Definition NODE_F0_AC : list Node :=
  [Leaf 0xFFFFFFFFFFFFFFFF; Leaf 0xFFFFFFFFFFFFFFFF; Leaf 0xFFFFFFFFFFFFFFFF;
   Leaf 0xFFFFFFFFFFFFFFFF; Leaf 0xFFFFFFFFFFFFFFFF; Leaf 0xFFFFFFFFFFFFFFFF;
   Leaf 0xFFFFFFFFFFFFFFFF; Leaf 0xFFFFFFFFFFFFFFFF; Leaf 0xFFFFFFFFFFFFFFFF;
   Leaf 0xFFFFFFFFFFFFFFFF; Leaf 0xFFFFFFFFFFFFFFFF; Leaf 0xFFFFFFFFFFFFFFFF;
   Leaf 0xFFFFFFFFFFFFFFFF; Leaf 0xFFFFFFFFFFFFFFFF; Leaf 0xFFFFFFFFFFFFFFFF;
   Leaf 0xFFFFFFFFFFFFFFFF; Leaf 0xFFFFFFFFFFFFFFFF; Leaf 0xFFFFFFFFFFFFFFFF;
   Leaf 0xFFFFFFFFFFFFFFFF; Leaf 0xFFFFFFFFFFFFFFFF; Leaf 0xFFFFFFFFFFFFFFFF;
   Leaf 0xFFFFFFFFFFFFFFFF; Leaf 0xFFFFFFFFFFFFFFFF; Leaf 0xFFFFFFFFFFFFFFFF;
   Leaf 0xFFFFFFFFFFFFFFFF; Leaf 0xFFFFFFFFFFFFFFFF; Leaf 0xFFFFFFFFFFFFFFFF;
   Leaf 0xFFFFFFFFFFFFFFFF; Leaf 0xFFFFFFFFFFFFFFFF; Leaf 0xFFFFFFFFFFFFFFFF;
   Leaf 0xFFFFFFFFFFFFFFFF; Leaf 0xFFFFFFFFFFFFFFFF; Leaf 0xFFFFFFFFFFFFFFFF;
   Leaf 0xFFFFFFFFFFFFFFFF; Leaf 0xFFFFFFFFFFFFFFFF; Leaf 0xFFFFFFFFFFFFFFFF;
   Leaf 0xFFFFFFFFFFFFFFFF; Leaf 0xFFFFFFFFFFFFFFFF; Leaf 0xFFFFFFFFFFFFFFFF;
   Leaf 0xFFFFFFFFFFFFFFFF; Leaf 0xFFFFFFFFFFFFFFFF; Leaf 0xFFFFFFFFFFFFFFFF;
   Leaf 0xFFFFFFFFFFFFFFFF; Leaf 0xFFFFFFFFFFFFFFFF; Leaf 0xFFFFFFFFFFFFFFFF;
   Leaf 0xFFFFFFFFFFFFFFFF; Leaf 0xFFFFFFFFFFFFFFFF; Leaf 0xFFFFFFFFFFFFFFFF;
   Leaf 0xFFFFFFFFFFFFFFFF; Leaf 0xFFFFFFFFFFFFFFFF; Leaf 0xFFFFFFFFFFFFFFFF;
   Leaf 0xFFFFFFFFFFFFFFFF; Leaf 0xFFFFFFFFFFFFFFFF; Leaf 0xFFFFFFFFFFFFFFFF;
   Leaf 0xFFFFFFFFFFFFFFFF; Leaf 0xFFFFFFFFFFFFFFFF; Leaf 0xFFFFFFFFFFFFFFFF;
   Leaf 0xFFFFFFFFFFFFFFFF; Leaf 0x00000003FFFFFFFF; z; z; z; z; z].

Definition NODE_F0_AF : list Node :=
  [z; z; z; z; z; z; z; z; z; z; z; z; z; z; z; z; z; z; z; z; z; z; z; z; z; z; z; z; z; z; z; z;
   Leaf 0xFFFFFFFFFFFFFFFF; Leaf 0xFFFFFFFFFFFFFFFF; Leaf 0xFFFFFFFFFFFFFFFF;
   Leaf 0xFFFFFFFFFFFFFFFF; Leaf 0xFFFFFFFFFFFFFFFF; Leaf 0xFFFFFFFFFFFFFFFF;
   Leaf 0xFFFFFFFFFFFFFFFF; Leaf 0xFFFFFFFFFFFFFFFF; Leaf 0x000000003FFFFFFF; z; z; z; z; z; z; z;
   z; z; z; z; z; z; z; z; z; z; z; z; z; z; z; z].

Definition NODE_F0 : list Node :=
  [Null; Null; Null; Null; Null; Null; Null; Null; Null; Null; Null; Null; Null; Null; Null; Null;
   Children NODE_F0_90; Children NODE_F0_91; Children NODE_F0_92; Children NODE_F0_93;
   Children NODE_F0_94; Null; Children NODE_F0_96; Null; Null; Null; Null; Children NODE_F0_9B;
   Null; Children NODE_F0_9D; Children NODE_F0_9E; Null; Stop; Stop; Stop; Stop; Stop; Stop; Stop;
   Stop; Stop; Stop; Children NODE_F0_AA; Children NODE_F0_AB; Children NODE_F0_AC; Null; Null;
   Children NODE_F0_AF; Null; Null; Null; Null; Null; Null; Null; Null; Null; Null; Null; Null;
   Null; Null; Null; Null].

Definition LETTER_TREE : list Node :=
  [Null; Null; Null; Null; Null; Null; Null; Null; Null; Null; Null; Null; Null; Null; Null; Null;
   Null; Null; Null; Null; Null; Null; Null; Null; Null; Null; Null; Null; Null; Null; Null; Null;
   Null; Null; Null; Null; Null; Null; Null; Null; Null; Null; Null; Null; Null; Null; Null; Null;
   Null; Null; Null; Null; Null; Null; Null; Null; Null; Null; Null; Null; Null; Null; Null; Null;
   Null; Stop; Stop; Stop; Stop; Stop; Stop; Stop; Stop; Stop; Stop; Stop; Stop; Stop; Stop; Stop;
   Stop; Stop; Stop; Stop; Stop; Stop; Stop; Stop; Stop; Stop; Stop; Null; Null; Null; Null; Null;
   Null; Stop; Stop; Stop; Stop; Stop; Stop; Stop; Stop; Stop; Stop; Stop; Stop; Stop; Stop; Stop;
   Stop; Stop; Stop; Stop; Stop; Stop; Stop; Stop; Stop; Stop; Stop; Null; Null; Null; Null; Null;
   Null; Null; Null; Null; Null; Null; Null; Null; Null; Null; Null; Null; Null; Null; Null; Null;
   Null; Null; Null; Null; Null; Null; Null; Null; Null; Null; Null; Null; Null; Null; Null; Null;
   Null; Null; Null; Null; Null; Null; Null; Null; Null; Null; Null; Null; Null; Null; Null; Null;
   Null; Null; Null; Null; Null; Null; Null; Null; Null; Null; Null; Null; Null; Null; Null; Null;
   Null; Null; Leaf 0x0420040000000000; Leaf 0xFF7FFFFFFF7FFFFF; Leaf 0xFFFFFFFFFFFFFFFF;
   Leaf 0xFFFFFFFFFFFFFFFF; Leaf 0xFFFFFFFFFFFFFFFF; Leaf 0xFFFFFFFFFFFFFFFF;
   Leaf 0xFFFFFFFFFFFFFFFF; Leaf 0xFFFFFFFFFFFFFFFF; Leaf 0xFFFFFFFFFFFFFFFF;
   Leaf 0x0000501F0003FFC3; z; Leaf 0xBCDF000000000000; Leaf 0xFFFFFFFBFFFFD740;
   Leaf 0xFFBFFFFFFFFFFFFF; Leaf 0xFFFFFFFFFFFFFFFF; Leaf 0xFFFFFFFFFFFFFFFF;
   Leaf 0xFFFFFFFFFFFFFC03; Leaf 0xFFFFFFFFFFFFFFFF; Leaf 0xFFFEFFFFFFFFFFFF;
   Leaf 0xFFFFFFFE027FFFFF; Leaf 0x00000000000000FF; Leaf 0x000707FFFFFF0000;
   Leaf 0xFFFFFFFF00000000; Leaf 0xFFFEC000000007FF; Leaf 0xFFFFFFFFFFFFFFFF;
   Leaf 0x9C00C060002FFFFF; Leaf 0x0000FFFFFFFD0000; Leaf 0xFFFFFFFFFFFFE000;
   Leaf 0x0002003FFFFFFFFF; Leaf 0x043007FFFFFFFC00; Children NODE_E0; Children NODE_E1;
   Children NODE_E2; Children NODE_E3; Children NODE_E4; Stop; Stop; Stop; Stop; Children NODE_E9;
   Children NODE_EA; Stop; Stop; Children NODE_ED; Null; Children NODE_EF; Children NODE_F0; Null;
   Null; Null; Null; Null; Null; Null; Null; Null; Null; Null; Null; Null; Null; Null].
