(* ===== verification/LowerLetterTree.v ===== *)
(** * The tree of the lower case letters

    The data of [String/UTF8IsLowerLetter.cpp].  A node is the list of its 64 arcs, and the
    tree the list of the 256 nodes for a first octet. *)
From S2P Require Import Utf8Category.
From Stdlib Require Import ZArith List.
Import ListNotations.
Local Open Scope Z_scope.

#[local] Abbreviation z := (Leaf 0x0000000000000000).

Definition NODE_E1 : list Node :=
  [z; z; z; z; z; z; z; z; z; z; z; z; z; z; z; Leaf 0x3F00000000000000; z; z; z; z; z; z; z; z;
   z; z; z; z; z; z; z; z; z; z; z; z; z; z; z; z; z; z; z; z; z; z; z; z; z; z; z; z;
   Leaf 0x00000FFFFFFFFFFF; Leaf 0xFEFFF80000000000; Leaf 0x0000000007FFFFFF; z;
   Leaf 0xAAAAAAAAAAAAAAAA; Leaf 0xAAAAAAAAAAAAAAAA; Leaf 0xAAAAAAAABFEAAAAA;
   Leaf 0xAAAAAAAAAAAAAAAA; Leaf 0x00FF00FF003F00FF; Leaf 0x3FFF00FF00FF003F;
   Leaf 0x40DF00FF00FF00FF; Leaf 0x00DC00FF00CF00DC].

Definition NODE_E2 : list Node :=
  [z; z; z; z; Leaf 0x321080000008C400; Leaf 0x00000000000043C0; Leaf 0x0000000000000010; z; z; z;
   z; z; z; z; z; z; z; z; z; z; z; z; z; z; z; z; z; z; z; z; z; z; z; z; z; z; z; z; z; z; z; z;
   z; z; z; z; z; z; Leaf 0xFFFF000000000000; Leaf 0x0FDA15627FFFFFFF; Leaf 0xAAAAAAAAAAAAAAAA;
   Leaf 0x0008501AAAAAAAAA; Leaf 0x000020BFFFFFFFFF; z; z; z; z; z; z; z; z; z; z; z].

Definition NODE_EA : list Node :=
  [z; z; z; z; z; z; z; z; z; z; z; z; z; z; z; z; z; z; z; z; z; z; z; z; z;
   Leaf 0x00002AAAAAAAAAAA; Leaf 0x000000000AAAAAAA; z; Leaf 0xAAABAAA800000000;
   Leaf 0x95FEAAAAAAAAAAAA; Leaf 0x00A002AAAABA50AA; Leaf 0x0400000000000000; z; z; z; z; z; z; z;
   z; z; z; z; z; Leaf 0xFFFF000000000000; Leaf 0xFFFF003F07FFFFFF; Leaf 0xFFFFFFFFFFFFFFFF; z; z;
   z; z; z; z; z; z; z; z; z; z; z; z; z; z; z].

Definition NODE_EF : list Node :=
  [z; z; z; z; z; z; z; z; z; z; z; z; z; z; z; z; z; z; z; z; z; z; z; z; z; z; z; z; z; z; z; z;
   z; z; z; z; z; z; z; z; z; z; z; z; Leaf 0x0000000000F8007F; z; z; z; z; z; z; z; z; z; z; z;
   z; z; z; z; z; Leaf 0x0000000007FFFFFE; z; z].

Definition NODE_F0_90 : list Node :=
  [z; z; z; z; z; z; z; z; z; z; z; z; z; z; z; z; Leaf 0xFFFFFF0000000000;
   Leaf 0x000000000000FFFF; z; z; z; z; z; z; z; z; z; z; z; z; z; z; z; z; z; z; z; z; z; z; z;
   z; z; z; z; z; z; z; z; z; z; Leaf 0x0007FFFFFFFFFFFF; z; z; z; z; z; z; z; z; z; z; z; z].

Definition NODE_F0_91 : list Node :=
  [z; z; z; z; z; z; z; z; z; z; z; z; z; z; z; z; z; z; z; z; z; z; z; z; z; z; z; z; z; z; z; z;
   z; z; z; Leaf 0x00000000FFFFFFFF; z; z; z; z; z; z; z; z; z; z; z; z; z; z; z; z; z; z; z; z;
   z; z; z; z; z; z; z; z].

Definition NODE_F0_9D : list Node :=
  [z; z; z; z; z; z; z; z; z; z; z; z; z; z; z; z; Leaf 0x000FFFFFFC000000;
   Leaf 0x000000FFFFDFC000; Leaf 0xEBC000000FFFFFFC; Leaf 0xFFFFFC000000FFEF;
   Leaf 0x00FFFFFFC000000F; Leaf 0x00000FFFFFFC0000; Leaf 0xFC000000FFFFFFC0;
   Leaf 0xFFFFC000000FFFFF; Leaf 0x0FFFFFFC000000FF; Leaf 0x0000FFFFFFC00000;
   Leaf 0x0000003FFFFFFC00; Leaf 0xF0000003F7FFFFFC; Leaf 0xFFC000000FDFFFFF;
   Leaf 0xFFFF0000003F7FFF; Leaf 0xFFFFFC000000FDFF; Leaf 0x0000000000000BF7; z; z; z; z; z; z; z;
   z; z; z; z; z; z; z; z; z; z; z; z; z; z; z; z; z; z; z; z; z; z; z; z; z].

Definition NODE_F0 : list Node :=
  [Null; Null; Null; Null; Null; Null; Null; Null; Null; Null; Null; Null; Null; Null; Null; Null;
   Children NODE_F0_90; Children NODE_F0_91; Null; Null; Null; Null; Null; Null; Null; Null; Null;
   Null; Null; Children NODE_F0_9D; Null; Null; Null; Null; Null; Null; Null; Null; Null; Null;
   Null; Null; Null; Null; Null; Null; Null; Null; Null; Null; Null; Null; Null; Null; Null; Null;
   Null; Null; Null; Null; Null; Null; Null; Null].

Definition LETTER_LOWER_TREE : list Node :=
  [Null; Null; Null; Null; Null; Null; Null; Null; Null; Null; Null; Null; Null; Null; Null; Null;
   Null; Null; Null; Null; Null; Null; Null; Null; Null; Null; Null; Null; Null; Null; Null; Null;
   Null; Null; Null; Null; Null; Null; Null; Null; Null; Null; Null; Null; Null; Null; Null; Null;
   Null; Null; Null; Null; Null; Null; Null; Null; Null; Null; Null; Null; Null; Null; Null; Null;
   Null; Null; Null; Null; Null; Null; Null; Null; Null; Null; Null; Null; Null; Null; Null; Null;
   Null; Null; Null; Null; Null; Null; Null; Null; Null; Null; Null; Null; Null; Null; Null; Null;
   Null; Stop; Stop; Stop; Stop; Stop; Stop; Stop; Stop; Stop; Stop; Stop; Stop; Stop; Stop; Stop;
   Stop; Stop; Stop; Stop; Stop; Stop; Stop; Stop; Stop; Stop; Stop; Null; Null; Null; Null; Null;
   Null; Null; Null; Null; Null; Null; Null; Null; Null; Null; Null; Null; Null; Null; Null; Null;
   Null; Null; Null; Null; Null; Null; Null; Null; Null; Null; Null; Null; Null; Null; Null; Null;
   Null; Null; Null; Null; Null; Null; Null; Null; Null; Null; Null; Null; Null; Null; Null; Null;
   Null; Null; Null; Null; Null; Null; Null; Null; Null; Null; Null; Null; Null; Null; Null; Null;
   Null; Null; Leaf 0x0020000000000000; Leaf 0xFF7FFFFF80000000; Leaf 0x55AAAAAAAAAAAAAA;
   Leaf 0xD4AAAAAAAAAAAB55; Leaf 0xE6512D2A4E243129; Leaf 0xAA29AAAAB5555240;
   Leaf 0x93FAAAAAAAAAAAAA; Leaf 0xFFFFFFFFFFFFAA85; Leaf 0x0000FFFFFFEFFFFF; z; z;
   Leaf 0x388A000000000000; Leaf 0xFFFFF00000010000; Leaf 0x192FAAAAAAE37FFF;
   Leaf 0xFFFF000000000000; Leaf 0xAAAAAAAAFFFFFFFF; Leaf 0xAAAAAAAAAAAAA802;
   Leaf 0xAAAAAAAAAAAAD554; Leaf 0x0000AAAAAAAAAAAA; Leaf 0xFFFFFFFE00000000;
   Leaf 0x00000000000000FF; z; z; z; z; z; z; z; z; z; Null; Children NODE_E1; Children NODE_E2;
   Null; Null; Null; Null; Null; Null; Null; Children NODE_EA; Null; Null; Null; Null;
   Children NODE_EF; Children NODE_F0; Null; Null; Null; Null; Null; Null; Null; Null; Null; Null;
   Null; Null; Null; Null; Null].
