(* ===== verification/TitleLetterTree.v ===== *)
(** * The tree of the title case letters

    The data of [String/UTF8IsTitleLetter.cpp].  A node is the list of its 64 arcs, and the
    tree the list of the 256 nodes for a first octet. *)
From S2P Require Import Utf8Category.
From Stdlib Require Import ZArith List.
Import ListNotations.
Local Open Scope Z_scope.

#[local] Abbreviation z := (Leaf 0x0000000000000000).

Definition NODE_E1 : list Node :=
  [z; z; z; z; z; z; z; z; z; z; z; z; z; z; z; z; z; z; z; z; z; z; z; z; z; z; z; z; z; z; z; z;
   z; z; z; z; z; z; z; z; z; z; z; z; z; z; z; z; z; z; z; z; z; z; z; z; z; z; z; z; z; z;
   Leaf 0x1000FF00FF00FF00; Leaf 0x1000000000001000].

Definition LETTER_TITLE_TREE : list Node :=
  [Null; Null; Null; Null; Null; Null; Null; Null; Null; Null; Null; Null; Null; Null; Null; Null;
   Null; Null; Null; Null; Null; Null; Null; Null; Null; Null; Null; Null; Null; Null; Null; Null;
   Null; Null; Null; Null; Null; Null; Null; Null; Null; Null; Null; Null; Null; Null; Null; Null;
   Null; Null; Null; Null; Null; Null; Null; Null; Null; Null; Null; Null; Null; Null; Null; Null;
   Null; Null; Null; Null; Null; Null; Null; Null; Null; Null; Null; Null; Null; Null; Null; Null;
   Null; Null; Null; Null; Null; Null; Null; Null; Null; Null; Null; Null; Null; Null; Null; Null;
   Null; Null; Null; Null; Null; Null; Null; Null; Null; Null; Null; Null; Null; Null; Null; Null;
   Null; Null; Null; Null; Null; Null; Null; Null; Null; Null; Null; Null; Null; Null; Null; Null;
   Null; Null; Null; Null; Null; Null; Null; Null; Null; Null; Null; Null; Null; Null; Null; Null;
   Null; Null; Null; Null; Null; Null; Null; Null; Null; Null; Null; Null; Null; Null; Null; Null;
   Null; Null; Null; Null; Null; Null; Null; Null; Null; Null; Null; Null; Null; Null; Null; Null;
   Null; Null; Null; Null; Null; Null; Null; Null; Null; Null; Null; Null; Null; Null; Null; Null;
   Null; Null; z; z; z; z; z; Leaf 0x0004000000000920; z; z; z; z; z; z; z; z; z; z; z; z; z; z;
   z; z; z; z; z; z; z; z; z; z; Null; Children NODE_E1; Null; Null; Null; Null; Null; Null; Null;
   Null; Null; Null; Null; Null; Null; Null; Null; Null; Null; Null; Null; Null; Null; Null; Null;
   Null; Null; Null; Null; Null; Null; Null].
