(* ===== verification/UpperLetterTree.v ===== *)
(** * The tree of the upper case letters

    The data of [String/UTF8IsUpperLetter.cpp].  A node is the list of its 64 arcs, and the
    tree the list of the 256 nodes for a first octet. *)
From S2P Require Import Utf8Category.
From Stdlib Require Import ZArith List.
Import ListNotations.
Local Open Scope Z_scope.

#[local] Abbreviation z := (Leaf 0x0000000000000000).

Definition NODE_E1 : list Node :=
  [z; z; Leaf 0xFFFFFFFF00000000; Leaf 0x00000000000020BF; z; z; z; z; z; z; z; z; z; z;
   Leaf 0xFFFFFFFF00000000; Leaf 0x003FFFFFFFFFFFFF; z; z; z; z; z; z; z; z; z; z; z; z; z; z; z;
   z; z; z; z; z; z; z; z; z; z; z; z; z; z; z; z; z; z; z; z; z; z; z; z; z;
   Leaf 0x5555555555555555; Leaf 0x5555555555555555; Leaf 0x5555555540155555;
   Leaf 0x5555555555555555; Leaf 0xFF00FF003F00FF00; Leaf 0x0000FF00AA003F00;
   Leaf 0x0F00000000000000; Leaf 0x0F001F000F000F00].

Definition NODE_E2 : list Node :=
  [z; z; z; z; Leaf 0xC00F3D503E273884; Leaf 0x0000000000000020; Leaf 0x0000000000000008; z; z; z;
   z; z; z; z; z; z; z; z; z; z; z; z; z; z; z; z; z; z; z; z; z; z; z; z; z; z; z; z; z; z; z; z;
   z; z; z; z; z; z; Leaf 0x00007FFFFFFFFFFF; Leaf 0xC025EA9D00000000; Leaf 0x5555555555555555;
   Leaf 0x0004280555555555; z; z; z; z; z; z; z; z; z; z; z; z].

Definition NODE_EA : list Node :=
  [z; z; z; z; z; z; z; z; z; z; z; z; z; z; z; z; z; z; z; z; z; z; z; z; z;
   Leaf 0x0000155555555555; Leaf 0x0000000005555555; z; Leaf 0x5554555400000000;
   Leaf 0x6A00555555555555; Leaf 0x005F3D5555452855; z; z; z; z; z; z; z; z; z; z; z; z; z; z; z;
   z; z; z; z; z; z; z; z; z; z; z; z; z; z; z; z; z; z].

Definition NODE_EF : list Node :=
  [z; z; z; z; z; z; z; z; z; z; z; z; z; z; z; z; z; z; z; z; z; z; z; z; z; z; z; z; z; z; z; z;
   z; z; z; z; z; z; z; z; z; z; z; z; z; z; z; z; z; z; z; z; z; z; z; z; z; z; z; z;
   Leaf 0x07FFFFFE00000000; z; z; z].

Definition NODE_F0_90 : list Node :=
  [z; z; z; z; z; z; z; z; z; z; z; z; z; z; z; z; Leaf 0x000000FFFFFFFFFF; z; z; z; z; z; z; z;
   z; z; z; z; z; z; z; z; z; z; z; z; z; z; z; z; z; z; z; z; z; z; z; z; z; z;
   Leaf 0x0007FFFFFFFFFFFF; z; z; z; z; z; z; z; z; z; z; z; z; z].

Definition NODE_F0_91 : list Node :=
  [z; z; z; z; z; z; z; z; z; z; z; z; z; z; z; z; z; z; z; z; z; z; z; z; z; z; z; z; z; z; z; z;
   z; z; Leaf 0xFFFFFFFF00000000; z; z; z; z; z; z; z; z; z; z; z; z; z; z; z; z; z; z; z; z; z;
   z; z; z; z; z; z; z; z].

Definition NODE_F0_9D : list Node :=
  [z; z; z; z; z; z; z; z; z; z; z; z; z; z; z; z; Leaf 0xFFF0000003FFFFFF;
   Leaf 0xFFFFFF0000003FFF; Leaf 0x003FDE64D0000003; Leaf 0x000003FFFFFF0000;
   Leaf 0x7B0000001FDFE7B0; Leaf 0xFFFFF0000001FC5F; Leaf 0x03FFFFFF0000003F;
   Leaf 0x00003FFFFFF00000; Leaf 0xF0000003FFFFFF00; Leaf 0xFFFF0000003FFFFF;
   Leaf 0xFFFFFF00000003FF; Leaf 0x07FFFFFC00000001; Leaf 0x001FFFFFF0000000;
   Leaf 0x00007FFFFFC00000; Leaf 0x000001FFFFFF0000; Leaf 0x0000000000000400; z; z; z; z; z; z; z;
   z; z; z; z; z; z; z; z; z; z; z; z; z; z; z; z; z; z; z; z; z; z; z; z; z].

Definition NODE_F0 : list Node :=
  [Null; Null; Null; Null; Null; Null; Null; Null; Null; Null; Null; Null; Null; Null; Null; Null;
   Children NODE_F0_90; Children NODE_F0_91; Null; Null; Null; Null; Null; Null; Null; Null; Null;
   Null; Null; Children NODE_F0_9D; Null; Null; Null; Null; Null; Null; Null; Null; Null; Null;
   Null; Null; Null; Null; Null; Null; Null; Null; Null; Null; Null; Null; Null; Null; Null; Null;
   Null; Null; Null; Null; Null; Null; Null; Null].

Definition LETTER_UPPER_TREE : list Node :=
  [Null; Null; Null; Null; Null; Null; Null; Null; Null; Null; Null; Null; Null; Null; Null; Null;
   Null; Null; Null; Null; Null; Null; Null; Null; Null; Null; Null; Null; Null; Null; Null; Null;
   Null; Null; Null; Null; Null; Null; Null; Null; Null; Null; Null; Null; Null; Null; Null; Null;
   Null; Null; Null; Null; Null; Null; Null; Null; Null; Null; Null; Null; Null; Null; Null; Null;
   Null; Stop; Stop; Stop; Stop; Stop; Stop; Stop; Stop; Stop; Stop; Stop; Stop; Stop; Stop; Stop;
   Stop; Stop; Stop; Stop; Stop; Stop; Stop; Stop; Stop; Stop; Stop; Null; Null; Null; Null; Null;
   Null; Null; Null; Null; Null; Null; Null; Null; Null; Null; Null; Null; Null; Null; Null; Null;
   Null; Null; Null; Null; Null; Null; Null; Null; Null; Null; Null; Null; Null; Null; Null; Null;
   Null; Null; Null; Null; Null; Null; Null; Null; Null; Null; Null; Null; Null; Null; Null; Null;
   Null; Null; Null; Null; Null; Null; Null; Null; Null; Null; Null; Null; Null; Null; Null; Null;
   Null; Null; Null; Null; Null; Null; Null; Null; Null; Null; Null; Null; Null; Null; Null; Null;
   Null; Null; Null; Null; Null; Null; Null; Null; Null; Null; Null; Null; Null; Null; Null; Null;
   Null; Null; z; Leaf 0x000000007F7FFFFF; Leaf 0xAA55555555555555; Leaf 0x2B555555555554AA;
   Leaf 0x11AED2D5B1DBCED6; Leaf 0x55D255554AAAA490; Leaf 0x6C05555555555555;
   Leaf 0x000000000000557A; z; z; z; Leaf 0x8045000000000000; Leaf 0x00000FFBFFFED740;
   Leaf 0xE6905555551C8000; Leaf 0x0000FFFFFFFFFFFF; Leaf 0x5555555500000000;
   Leaf 0x5555555555555401; Leaf 0x5555555555552AAB; Leaf 0xFFFE555555555555;
   Leaf 0x00000000007FFFFF; z; z; z; z; z; z; z; z; z; z; Null; Children NODE_E1;
   Children NODE_E2; Null; Null; Null; Null; Null; Null; Null; Children NODE_EA; Null; Null; Null;
   Null; Children NODE_EF; Children NODE_F0; Null; Null; Null; Null; Null; Null; Null; Null; Null;
   Null; Null; Null; Null; Null; Null].
