(* ===== verification/AllTree.v ===== *)
(** * The tree of all properties

    The data of [String/UTF8AllProperties.cpp]: the masks of the properties of the
    ASCII characters, and a tree whose leaves are the masks of 64 characters; the
    masks are in decimal (36 is 0x24, an upper case letter). *)
From Stdlib Require Import ZArith List.
Import ListNotations.
Local Open Scope Z_scope.

Local Set Warnings "-register-all".

(** What a [const void*] of the tree points to *)
Inductive AllNode : Type :=
| AllNull
| AllStop
| AllChildren (nodes : list AllNode)
| AllLeaf (leaf : list Z).

#[local] Abbreviation N0 := AllNull.
#[local] Abbreviation St := AllStop.
#[local] Abbreviation Nd := AllChildren.
#[local] Abbreviation Lf := AllLeaf.

Definition LEAF_00 : list Z :=
  [0; 0; 0; 0; 0; 0; 0; 0; 0; 0; 0; 0; 0; 0; 0; 0; 0; 0; 0; 0; 0; 0; 0; 0; 0; 0;
   0; 0; 0; 0; 0; 0; 1; 0; 0; 0; 0; 0; 0; 0; 0; 0; 4; 0; 0; 0; 0; 0; 0; 0; 2; 2;
   0; 12; 0; 0; 0; 2; 4; 0; 2; 2; 2; 0].

Definition LEAF_01 : list Z :=
  [36; 36; 36; 36; 36; 36; 36; 36; 36; 36; 36; 36; 36; 36; 36; 36; 36; 36; 36; 36;
   36; 36; 36; 0; 36; 36; 36; 36; 36; 36; 36; 12; 12; 12; 12; 12; 12; 12; 12; 12;
   12; 12; 12; 12; 12; 12; 12; 12; 12; 12; 12; 12; 12; 12; 12; 0; 12; 12; 12; 12;
   12; 12; 12; 12].

Definition LEAF_02 : list Z :=
  [36; 12; 36; 12; 36; 12; 36; 12; 36; 12; 36; 12; 36; 12; 36; 12; 36; 12; 36; 12;
   36; 12; 36; 12; 36; 12; 36; 12; 36; 12; 36; 12; 36; 12; 36; 12; 36; 12; 36; 12;
   36; 12; 36; 12; 36; 12; 36; 12; 36; 12; 36; 12; 36; 12; 36; 12; 12; 36; 12; 36;
   12; 36; 12; 36].

Definition LEAF_03 : list Z :=
  [12; 36; 12; 36; 12; 36; 12; 36; 12; 12; 36; 12; 36; 12; 36; 12; 36; 12; 36; 12;
   36; 12; 36; 12; 36; 12; 36; 12; 36; 12; 36; 12; 36; 12; 36; 12; 36; 12; 36; 12;
   36; 12; 36; 12; 36; 12; 36; 12; 36; 12; 36; 12; 36; 12; 36; 12; 36; 36; 12; 36;
   12; 36; 12; 12].

Definition LEAF_04 : list Z :=
  [12; 36; 36; 12; 36; 12; 36; 36; 12; 36; 36; 36; 12; 12; 36; 36; 36; 36; 12; 36;
   36; 12; 36; 36; 36; 12; 12; 12; 36; 36; 12; 36; 36; 12; 36; 12; 36; 12; 36; 36;
   12; 36; 12; 12; 36; 12; 36; 36; 12; 36; 36; 36; 12; 36; 12; 36; 36; 12; 12; 4;
   36; 12; 12; 12].

Definition LEAF_05 : list Z :=
  [4; 4; 4; 4; 36; 20; 12; 36; 20; 12; 36; 20; 12; 36; 12; 36; 12; 36; 12; 36; 12;
   36; 12; 36; 12; 36; 12; 36; 12; 12; 36; 12; 36; 12; 36; 12; 36; 12; 36; 12; 36;
   12; 36; 12; 36; 12; 36; 12; 12; 36; 20; 12; 36; 12; 36; 36; 36; 12; 36; 12; 36;
   12; 36; 12].

Definition LEAF_06 : list Z :=
  [36; 12; 36; 12; 36; 12; 36; 12; 36; 12; 36; 12; 36; 12; 36; 12; 36; 12; 36; 12;
   36; 12; 36; 12; 36; 12; 36; 12; 36; 12; 36; 12; 36; 12; 36; 12; 36; 12; 36; 12;
   36; 12; 36; 12; 36; 12; 36; 12; 36; 12; 36; 12; 12; 12; 12; 12; 12; 12; 36; 36;
   12; 36; 36; 12].

Definition LEAF_07 : list Z :=
  [12; 36; 12; 36; 36; 36; 36; 12; 36; 12; 36; 12; 36; 12; 36; 12; 12; 12; 12; 12;
   12; 12; 12; 12; 12; 12; 12; 12; 12; 12; 12; 12; 12; 12; 12; 12; 12; 12; 12; 12;
   12; 12; 12; 12; 12; 12; 12; 12; 12; 12; 12; 12; 12; 12; 12; 12; 12; 12; 12; 12;
   12; 12; 12; 12].

Definition LEAF_08 : list Z :=
  [12; 12; 12; 12; 12; 12; 12; 12; 12; 12; 12; 12; 12; 12; 12; 12; 12; 12; 12; 12;
   4; 12; 12; 12; 12; 12; 12; 12; 12; 12; 12; 12; 12; 12; 12; 12; 12; 12; 12; 12;
   12; 12; 12; 12; 12; 12; 12; 12; 4; 4; 4; 4; 4; 4; 4; 4; 4; 4; 4; 4; 4; 4; 4; 4].

Definition LEAF_09 : list Z :=
  [4; 4; 0; 0; 0; 0; 4; 4; 4; 4; 4; 4; 4; 4; 4; 4; 4; 4; 0; 0; 0; 0; 0; 0; 0; 0;
   0; 0; 0; 0; 0; 0; 4; 4; 4; 4; 4; 0; 0; 0; 0; 0; 0; 0; 4; 0; 4; 0; 0; 0; 0; 0;
   0; 0; 0; 0; 0; 0; 0; 0; 0; 0; 0; 0].

Definition LEAF_0A : list Z :=
  [0; 0; 0; 0; 0; 0; 0; 0; 0; 0; 0; 0; 0; 0; 0; 0; 0; 0; 0; 0; 0; 0; 0; 0; 0; 0;
   0; 0; 0; 0; 0; 0; 0; 0; 0; 0; 0; 0; 0; 0; 0; 0; 0; 0; 0; 0; 0; 0; 36; 12; 36;
   12; 4; 0; 36; 12; 0; 0; 4; 12; 12; 12; 0; 36].

Definition LEAF_0B : list Z :=
  [0; 0; 0; 0; 0; 0; 36; 0; 36; 36; 36; 0; 36; 0; 36; 36; 12; 36; 36; 36; 36; 36;
   36; 36; 36; 36; 36; 36; 36; 36; 36; 36; 36; 36; 0; 36; 36; 36; 36; 36; 36; 36;
   36; 36; 12; 12; 12; 12; 12; 12; 12; 12; 12; 12; 12; 12; 12; 12; 12; 12; 12; 12;
   12; 12].

Definition LEAF_0C : list Z :=
  [12; 12; 12; 12; 12; 12; 12; 12; 12; 12; 12; 12; 12; 12; 12; 36; 12; 12; 36; 36;
   36; 12; 12; 12; 36; 12; 36; 12; 36; 12; 36; 12; 36; 12; 36; 12; 36; 12; 36; 12;
   36; 12; 36; 12; 36; 12; 36; 12; 12; 12; 12; 12; 36; 12; 0; 36; 12; 36; 36; 12;
   12; 36; 36; 36].

Definition LEAF_0D : list Z :=
  [36; 36; 36; 36; 36; 36; 36; 36; 36; 36; 36; 36; 36; 36; 36; 36; 36; 36; 36; 36;
   36; 36; 36; 36; 36; 36; 36; 36; 36; 36; 36; 36; 36; 36; 36; 36; 36; 36; 36; 36;
   36; 36; 36; 36; 36; 36; 36; 36; 12; 12; 12; 12; 12; 12; 12; 12; 12; 12; 12; 12;
   12; 12; 12; 12].

Definition LEAF_0E : list Z :=
  [12; 12; 12; 12; 12; 12; 12; 12; 12; 12; 12; 12; 12; 12; 12; 12; 12; 12; 12; 12;
   12; 12; 12; 12; 12; 12; 12; 12; 12; 12; 12; 12; 36; 12; 36; 12; 36; 12; 36; 12;
   36; 12; 36; 12; 36; 12; 36; 12; 36; 12; 36; 12; 36; 12; 36; 12; 36; 12; 36; 12;
   36; 12; 36; 12].

Definition LEAF_0F : list Z :=
  [36; 12; 0; 0; 0; 0; 0; 0; 0; 0; 36; 12; 36; 12; 36; 12; 36; 12; 36; 12; 36; 12;
   36; 12; 36; 12; 36; 12; 36; 12; 36; 12; 36; 12; 36; 12; 36; 12; 36; 12; 36; 12;
   36; 12; 36; 12; 36; 12; 36; 12; 36; 12; 36; 12; 36; 12; 36; 12; 36; 12; 36; 12;
   36; 12].

Definition LEAF_10 : list Z :=
  [36; 36; 12; 36; 12; 36; 12; 36; 12; 36; 12; 36; 12; 36; 12; 12; 36; 12; 36; 12;
   36; 12; 36; 12; 36; 12; 36; 12; 36; 12; 36; 12; 36; 12; 36; 12; 36; 12; 36; 12;
   36; 12; 36; 12; 36; 12; 36; 12; 36; 12; 36; 12; 36; 12; 36; 12; 36; 12; 36; 12;
   36; 12; 36; 12].

Definition LEAF_11 : list Z :=
  [36; 12; 36; 12; 36; 12; 36; 12; 36; 12; 36; 12; 36; 12; 36; 12; 36; 12; 36; 12;
   36; 12; 36; 12; 36; 12; 36; 12; 36; 12; 36; 12; 36; 12; 36; 12; 36; 12; 36; 12;
   36; 12; 36; 12; 36; 12; 36; 12; 0; 36; 36; 36; 36; 36; 36; 36; 36; 36; 36; 36;
   36; 36; 36; 36].

Definition LEAF_12 : list Z :=
  [36; 36; 36; 36; 36; 36; 36; 36; 36; 36; 36; 36; 36; 36; 36; 36; 36; 36; 36; 36;
   36; 36; 36; 0; 0; 4; 0; 0; 0; 0; 0; 0; 0; 12; 12; 12; 12; 12; 12; 12; 12; 12;
   12; 12; 12; 12; 12; 12; 12; 12; 12; 12; 12; 12; 12; 12; 12; 12; 12; 12; 12; 12;
   12; 12].

Definition LEAF_13 : list Z :=
  [12; 12; 12; 12; 12; 12; 12; 12; 0; 0; 0; 0; 0; 0; 0; 0; 0; 0; 0; 0; 0; 0; 0; 0;
   0; 0; 0; 0; 0; 0; 0; 0; 0; 0; 0; 0; 0; 0; 0; 0; 0; 0; 0; 0; 0; 0; 0; 0; 0; 0;
   0; 0; 0; 0; 0; 0; 0; 0; 0; 0; 0; 0; 0; 0].

Definition LEAF_14 : list Z :=
  [0; 0; 0; 0; 0; 0; 0; 0; 0; 0; 0; 0; 0; 0; 0; 0; 4; 4; 4; 4; 4; 4; 4; 4; 4; 4;
   4; 4; 4; 4; 4; 4; 4; 4; 4; 4; 4; 4; 4; 4; 4; 4; 4; 0; 0; 0; 0; 0; 4; 4; 4; 0;
   0; 0; 0; 0; 0; 0; 0; 0; 0; 0; 0; 0].

Definition LEAF_15 : list Z :=
  [0; 0; 0; 0; 0; 0; 0; 0; 0; 0; 0; 0; 0; 0; 0; 0; 0; 0; 0; 0; 0; 0; 0; 0; 0; 0;
   0; 0; 0; 0; 0; 0; 4; 4; 4; 4; 4; 4; 4; 4; 4; 4; 4; 4; 4; 4; 4; 4; 4; 4; 4; 4;
   4; 4; 4; 4; 4; 4; 4; 4; 4; 4; 4; 4].

Definition LEAF_16 : list Z :=
  [4; 4; 4; 4; 4; 4; 4; 4; 4; 4; 4; 0; 0; 0; 0; 0; 0; 0; 0; 0; 0; 0; 0; 0; 0; 0;
   0; 0; 0; 0; 0; 0; 2; 2; 2; 2; 2; 2; 2; 2; 2; 2; 0; 0; 0; 0; 4; 4; 0; 4; 4; 4;
   4; 4; 4; 4; 4; 4; 4; 4; 4; 4; 4; 4].

Definition LEAF_18 : list Z :=
  [4; 4; 4; 4; 4; 4; 4; 4; 4; 4; 4; 4; 4; 4; 4; 4; 4; 4; 4; 4; 0; 4; 0; 0; 0; 0;
   0; 0; 0; 0; 0; 0; 0; 0; 0; 0; 0; 4; 4; 0; 0; 0; 0; 0; 0; 0; 4; 4; 2; 2; 2; 2;
   2; 2; 2; 2; 2; 2; 4; 4; 4; 0; 0; 4].

Definition LEAF_19 : list Z :=
  [0; 0; 0; 0; 0; 0; 0; 0; 0; 0; 0; 0; 0; 0; 0; 0; 4; 0; 4; 4; 4; 4; 4; 4; 4; 4;
   4; 4; 4; 4; 4; 4; 4; 4; 4; 4; 4; 4; 4; 4; 4; 4; 4; 4; 4; 4; 4; 4; 0; 0; 0; 0;
   0; 0; 0; 0; 0; 0; 0; 0; 0; 0; 0; 0].

Definition LEAF_1A : list Z :=
  [0; 0; 0; 0; 0; 0; 0; 0; 0; 0; 0; 0; 0; 4; 4; 4; 4; 4; 4; 4; 4; 4; 4; 4; 4; 4;
   4; 4; 4; 4; 4; 4; 4; 4; 4; 4; 4; 4; 4; 4; 4; 4; 4; 4; 4; 4; 4; 4; 4; 4; 4; 4;
   4; 4; 4; 4; 4; 4; 4; 4; 4; 4; 4; 4].

Definition LEAF_1B : list Z :=
  [4; 4; 4; 4; 4; 4; 4; 4; 4; 4; 4; 4; 4; 4; 4; 4; 4; 4; 4; 4; 4; 4; 4; 4; 4; 4;
   4; 4; 4; 4; 4; 4; 4; 4; 4; 4; 4; 4; 0; 0; 0; 0; 0; 0; 0; 0; 0; 0; 0; 4; 0; 0;
   0; 0; 0; 0; 0; 0; 0; 0; 0; 0; 0; 0].

Definition LEAF_1C : list Z :=
  [2; 2; 2; 2; 2; 2; 2; 2; 2; 2; 4; 4; 4; 4; 4; 4; 4; 4; 4; 4; 4; 4; 4; 4; 4; 4;
   4; 4; 4; 4; 4; 4; 4; 4; 4; 4; 4; 4; 4; 4; 4; 4; 4; 0; 0; 0; 0; 0; 0; 0; 0; 0;
   4; 4; 0; 0; 0; 0; 4; 0; 0; 0; 0; 0].

Definition LEAF_1D : list Z :=
  [4; 4; 4; 4; 4; 4; 4; 4; 4; 4; 4; 4; 4; 4; 4; 4; 4; 4; 4; 4; 4; 4; 0; 0; 0; 0;
   4; 0; 0; 0; 0; 0; 0; 0; 0; 0; 4; 0; 0; 0; 4; 0; 0; 0; 0; 0; 0; 0; 0; 0; 0; 0;
   0; 0; 0; 0; 0; 0; 0; 0; 0; 0; 0; 0].

Definition LEAF_1E : list Z :=
  [4; 4; 4; 4; 4; 4; 4; 4; 4; 4; 4; 4; 4; 4; 4; 4; 4; 4; 4; 4; 4; 4; 4; 4; 4; 0;
   0; 0; 0; 0; 0; 0; 0; 0; 0; 0; 0; 0; 0; 0; 0; 0; 0; 0; 0; 0; 0; 0; 0; 0; 0; 0;
   0; 0; 0; 0; 0; 0; 0; 0; 0; 0; 0; 0].

Definition LEAF_1F : list Z :=
  [0; 0; 0; 0; 0; 0; 0; 0; 0; 0; 0; 0; 0; 0; 0; 0; 0; 0; 0; 0; 0; 0; 0; 0; 0; 0;
   0; 0; 0; 0; 0; 0; 4; 4; 4; 4; 4; 4; 4; 4; 4; 4; 4; 4; 4; 4; 4; 4; 4; 4; 4; 4;
   4; 0; 0; 0; 0; 0; 0; 0; 0; 0; 0; 0].

Definition LEAF_20 : list Z :=
  [0; 0; 0; 0; 4; 4; 4; 4; 4; 4; 4; 4; 4; 4; 4; 4; 4; 4; 4; 4; 4; 4; 4; 4; 4; 4;
   4; 4; 4; 4; 4; 4; 4; 4; 4; 4; 4; 4; 4; 4; 4; 4; 4; 4; 4; 4; 4; 4; 4; 4; 4; 4;
   4; 4; 4; 4; 4; 4; 0; 0; 0; 4; 0; 0].

Definition LEAF_21 : list Z :=
  [0; 0; 0; 0; 0; 0; 0; 0; 0; 0; 0; 0; 0; 0; 0; 0; 4; 0; 0; 0; 0; 0; 0; 0; 4; 4;
   4; 4; 4; 4; 4; 4; 4; 4; 0; 0; 0; 0; 2; 2; 2; 2; 2; 2; 2; 2; 2; 2; 0; 4; 4; 4;
   4; 4; 4; 4; 4; 4; 4; 4; 4; 4; 4; 4].

Definition LEAF_22 : list Z :=
  [4; 0; 0; 0; 0; 4; 4; 4; 4; 4; 4; 4; 4; 0; 0; 4; 4; 0; 0; 4; 4; 4; 4; 4; 4; 4;
   4; 4; 4; 4; 4; 4; 4; 4; 4; 4; 4; 4; 4; 4; 4; 0; 4; 4; 4; 4; 4; 4; 4; 0; 4; 0;
   0; 0; 4; 4; 4; 4; 0; 0; 0; 4; 0; 0].

Definition LEAF_23 : list Z :=
  [0; 0; 0; 0; 0; 0; 0; 0; 0; 0; 0; 0; 0; 0; 4; 0; 0; 0; 0; 0; 0; 0; 0; 0; 0; 0;
   0; 0; 4; 4; 0; 4; 4; 4; 0; 0; 0; 0; 2; 2; 2; 2; 2; 2; 2; 2; 2; 2; 4; 4; 0; 0;
   2; 2; 2; 2; 2; 2; 0; 0; 0; 0; 0; 0].

Definition LEAF_24 : list Z :=
  [0; 0; 0; 0; 0; 4; 4; 4; 4; 4; 4; 0; 0; 0; 0; 4; 4; 0; 0; 4; 4; 4; 4; 4; 4; 4;
   4; 4; 4; 4; 4; 4; 4; 4; 4; 4; 4; 4; 4; 4; 4; 0; 4; 4; 4; 4; 4; 4; 4; 0; 4; 4;
   0; 4; 4; 0; 4; 4; 0; 0; 0; 0; 0; 0].

Definition LEAF_25 : list Z :=
  [0; 0; 0; 0; 0; 0; 0; 0; 0; 0; 0; 0; 0; 0; 0; 0; 0; 0; 0; 0; 0; 0; 0; 0; 0; 4;
   4; 4; 4; 0; 4; 0; 0; 0; 0; 0; 0; 0; 2; 2; 2; 2; 2; 2; 2; 2; 2; 2; 0; 0; 4; 4;
   4; 0; 0; 0; 0; 0; 0; 0; 0; 0; 0; 0].

Definition LEAF_26 : list Z :=
  [0; 0; 0; 0; 0; 4; 4; 4; 4; 4; 4; 4; 4; 4; 0; 4; 4; 4; 0; 4; 4; 4; 4; 4; 4; 4;
   4; 4; 4; 4; 4; 4; 4; 4; 4; 4; 4; 4; 4; 4; 4; 0; 4; 4; 4; 4; 4; 4; 4; 0; 4; 4;
   0; 4; 4; 4; 4; 4; 0; 0; 0; 4; 0; 0].

Definition LEAF_27 : list Z :=
  [0; 0; 0; 0; 0; 0; 0; 0; 0; 0; 0; 0; 0; 0; 0; 0; 4; 0; 0; 0; 0; 0; 0; 0; 0; 0;
   0; 0; 0; 0; 0; 0; 4; 4; 0; 0; 0; 0; 2; 2; 2; 2; 2; 2; 2; 2; 2; 2; 0; 0; 0; 0;
   0; 0; 0; 0; 0; 4; 0; 0; 0; 0; 0; 0].

Definition LEAF_28 : list Z :=
  [0; 0; 0; 0; 0; 4; 4; 4; 4; 4; 4; 4; 4; 0; 0; 4; 4; 0; 0; 4; 4; 4; 4; 4; 4; 4;
   4; 4; 4; 4; 4; 4; 4; 4; 4; 4; 4; 4; 4; 4; 4; 0; 4; 4; 4; 4; 4; 4; 4; 0; 4; 4;
   0; 4; 4; 4; 4; 4; 0; 0; 0; 4; 0; 0].

Definition LEAF_29 : list Z :=
  [0; 0; 0; 0; 0; 0; 0; 0; 0; 0; 0; 0; 0; 0; 0; 0; 0; 0; 0; 0; 0; 0; 0; 0; 0; 0;
   0; 0; 4; 4; 0; 4; 4; 4; 0; 0; 0; 0; 2; 2; 2; 2; 2; 2; 2; 2; 2; 2; 0; 4; 2; 2;
   2; 2; 2; 2; 0; 0; 0; 0; 0; 0; 0; 0].

Definition LEAF_2A : list Z :=
  [0; 0; 0; 4; 0; 4; 4; 4; 4; 4; 4; 0; 0; 0; 4; 4; 4; 0; 4; 4; 4; 4; 0; 0; 0; 4;
   4; 0; 4; 0; 4; 4; 0; 0; 0; 4; 4; 0; 0; 0; 4; 4; 4; 0; 0; 0; 4; 4; 4; 4; 4; 4;
   4; 4; 4; 4; 4; 4; 0; 0; 0; 0; 0; 0].

Definition LEAF_2B : list Z :=
  [0; 0; 0; 0; 0; 0; 0; 0; 0; 0; 0; 0; 0; 0; 0; 0; 4; 0; 0; 0; 0; 0; 0; 0; 0; 0;
   0; 0; 0; 0; 0; 0; 0; 0; 0; 0; 0; 0; 2; 2; 2; 2; 2; 2; 2; 2; 2; 2; 2; 2; 2; 0;
   0; 0; 0; 0; 0; 0; 0; 0; 0; 0; 0; 0].

Definition LEAF_2C : list Z :=
  [0; 0; 0; 0; 0; 4; 4; 4; 4; 4; 4; 4; 4; 0; 4; 4; 4; 0; 4; 4; 4; 4; 4; 4; 4; 4;
   4; 4; 4; 4; 4; 4; 4; 4; 4; 4; 4; 4; 4; 4; 4; 0; 4; 4; 4; 4; 4; 4; 4; 4; 4; 4;
   4; 4; 4; 4; 4; 4; 0; 0; 0; 4; 0; 0].

Definition LEAF_2D : list Z :=
  [0; 0; 0; 0; 0; 0; 0; 0; 0; 0; 0; 0; 0; 0; 0; 0; 0; 0; 0; 0; 0; 0; 0; 0; 4; 4;
   4; 0; 0; 0; 0; 0; 4; 4; 0; 0; 0; 0; 2; 2; 2; 2; 2; 2; 2; 2; 2; 2; 0; 0; 0; 0;
   0; 0; 0; 0; 2; 2; 2; 2; 2; 2; 2; 0].

Definition LEAF_2E : list Z :=
  [0; 0; 0; 0; 0; 4; 4; 4; 4; 4; 4; 4; 4; 0; 4; 4; 4; 0; 4; 4; 4; 4; 4; 4; 4; 4;
   4; 4; 4; 4; 4; 4; 4; 4; 4; 4; 4; 4; 4; 4; 4; 0; 4; 4; 4; 4; 4; 4; 4; 4; 4; 4;
   0; 4; 4; 4; 4; 4; 0; 0; 0; 4; 0; 0].

Definition LEAF_2F : list Z :=
  [0; 0; 0; 0; 0; 0; 0; 0; 0; 0; 0; 0; 0; 0; 0; 0; 0; 0; 0; 0; 0; 0; 0; 0; 0; 0;
   0; 0; 0; 0; 4; 0; 4; 4; 0; 0; 0; 0; 2; 2; 2; 2; 2; 2; 2; 2; 2; 2; 0; 4; 4; 0;
   0; 0; 0; 0; 0; 0; 0; 0; 0; 0; 0; 0].

Definition LEAF_30 : list Z :=
  [0; 0; 0; 0; 0; 4; 4; 4; 4; 4; 4; 4; 4; 0; 4; 4; 4; 0; 4; 4; 4; 4; 4; 4; 4; 4;
   4; 4; 4; 4; 4; 4; 4; 4; 4; 4; 4; 4; 4; 4; 4; 4; 4; 4; 4; 4; 4; 4; 4; 4; 4; 4;
   4; 4; 4; 4; 4; 4; 4; 0; 0; 4; 0; 0].

Definition LEAF_31 : list Z :=
  [0; 0; 0; 0; 0; 0; 0; 0; 0; 0; 0; 0; 0; 0; 4; 0; 0; 0; 0; 0; 0; 0; 0; 0; 0; 0;
   0; 0; 0; 0; 0; 4; 4; 4; 0; 0; 0; 0; 2; 2; 2; 2; 2; 2; 2; 2; 2; 2; 2; 2; 2; 2;
   2; 2; 0; 0; 0; 0; 4; 4; 4; 4; 4; 4].

Definition LEAF_32 : list Z :=
  [0; 0; 0; 0; 0; 4; 4; 4; 4; 4; 4; 4; 4; 4; 4; 4; 4; 4; 4; 4; 4; 4; 4; 0; 0; 0;
   4; 4; 4; 4; 4; 4; 4; 4; 4; 4; 4; 4; 4; 4; 4; 4; 4; 4; 4; 4; 4; 4; 4; 4; 0; 4;
   4; 4; 4; 4; 4; 4; 4; 4; 0; 4; 0; 0].

Definition LEAF_33 : list Z :=
  [4; 4; 4; 4; 4; 4; 4; 0; 0; 0; 0; 0; 0; 0; 0; 0; 0; 0; 0; 0; 0; 0; 0; 0; 0; 0;
   0; 0; 0; 0; 0; 0; 0; 0; 0; 0; 0; 0; 2; 2; 2; 2; 2; 2; 2; 2; 2; 2; 0; 0; 0; 0;
   0; 0; 0; 0; 0; 0; 0; 0; 0; 0; 0; 0].

Definition LEAF_34 : list Z :=
  [0; 4; 4; 4; 4; 4; 4; 4; 4; 4; 4; 4; 4; 4; 4; 4; 4; 4; 4; 4; 4; 4; 4; 4; 4; 4;
   4; 4; 4; 4; 4; 4; 4; 4; 4; 4; 4; 4; 4; 4; 4; 4; 4; 4; 4; 4; 4; 4; 4; 0; 4; 4;
   0; 0; 0; 0; 0; 0; 0; 0; 0; 0; 0; 0].

Definition LEAF_35 : list Z :=
  [4; 4; 4; 4; 4; 4; 4; 0; 0; 0; 0; 0; 0; 0; 0; 0; 2; 2; 2; 2; 2; 2; 2; 2; 2; 2;
   0; 0; 0; 0; 0; 0; 0; 0; 0; 0; 0; 0; 0; 0; 0; 0; 0; 0; 0; 0; 0; 0; 0; 0; 0; 0;
   0; 0; 0; 0; 0; 0; 0; 0; 0; 0; 0; 0].

Definition LEAF_36 : list Z :=
  [0; 4; 4; 0; 4; 0; 0; 4; 4; 0; 4; 0; 0; 4; 0; 0; 0; 0; 0; 0; 4; 4; 4; 4; 0; 4;
   4; 4; 4; 4; 4; 4; 0; 4; 4; 4; 0; 4; 0; 4; 0; 0; 4; 4; 0; 4; 4; 4; 4; 0; 4; 4;
   0; 0; 0; 0; 0; 0; 0; 0; 0; 4; 0; 0].

Definition LEAF_37 : list Z :=
  [4; 4; 4; 4; 4; 0; 4; 0; 0; 0; 0; 0; 0; 0; 0; 0; 2; 2; 2; 2; 2; 2; 2; 2; 2; 2;
   0; 0; 4; 4; 4; 4; 0; 0; 0; 0; 0; 0; 0; 0; 0; 0; 0; 0; 0; 0; 0; 0; 0; 0; 0; 0;
   0; 0; 0; 0; 0; 0; 0; 0; 0; 0; 0; 0].

Definition LEAF_38 : list Z :=
  [4; 0; 0; 0; 0; 0; 0; 0; 0; 0; 0; 0; 0; 0; 0; 0; 0; 0; 0; 0; 0; 0; 0; 0; 0; 0;
   0; 0; 0; 0; 0; 0; 2; 2; 2; 2; 2; 2; 2; 2; 2; 2; 2; 2; 2; 2; 2; 2; 2; 2; 2; 2;
   0; 0; 0; 0; 0; 0; 0; 0; 0; 0; 0; 0].

Definition LEAF_39 : list Z :=
  [4; 4; 4; 4; 4; 4; 4; 4; 0; 4; 4; 4; 4; 4; 4; 4; 4; 4; 4; 4; 4; 4; 4; 4; 4; 4;
   4; 4; 4; 4; 4; 4; 4; 4; 4; 4; 4; 4; 4; 4; 4; 4; 4; 4; 4; 0; 0; 0; 0; 0; 0; 0;
   0; 0; 0; 0; 0; 0; 0; 0; 0; 0; 0; 0].

Definition LEAF_3A : list Z :=
  [0; 0; 0; 0; 0; 0; 0; 0; 4; 4; 4; 4; 4; 0; 0; 0; 0; 0; 0; 0; 0; 0; 0; 0; 0; 0;
   0; 0; 0; 0; 0; 0; 0; 0; 0; 0; 0; 0; 0; 0; 0; 0; 0; 0; 0; 0; 0; 0; 0; 0; 0; 0;
   0; 0; 0; 0; 0; 0; 0; 0; 0; 0; 0; 0].

Definition LEAF_3B : list Z :=
  [4; 4; 4; 4; 4; 4; 4; 4; 4; 4; 4; 4; 4; 4; 4; 4; 4; 4; 4; 4; 4; 4; 4; 4; 4; 4;
   4; 4; 4; 4; 4; 4; 4; 4; 4; 4; 4; 4; 4; 4; 4; 4; 4; 0; 0; 0; 0; 0; 0; 0; 0; 0;
   0; 0; 0; 0; 0; 0; 0; 0; 0; 0; 0; 4].

Definition LEAF_3C : list Z :=
  [2; 2; 2; 2; 2; 2; 2; 2; 2; 2; 0; 0; 0; 0; 0; 0; 4; 4; 4; 4; 4; 4; 0; 0; 0; 0;
   4; 4; 4; 4; 0; 0; 0; 4; 0; 0; 0; 4; 4; 0; 0; 0; 0; 0; 0; 0; 4; 4; 4; 0; 0; 0;
   0; 4; 4; 4; 4; 4; 4; 4; 4; 4; 4; 4].

Definition LEAF_3D : list Z :=
  [4; 4; 0; 0; 0; 0; 0; 0; 0; 0; 0; 0; 0; 0; 4; 0; 2; 2; 2; 2; 2; 2; 2; 2; 2; 2;
   0; 0; 0; 0; 0; 0; 36; 36; 36; 36; 36; 36; 36; 36; 36; 36; 36; 36; 36; 36; 36;
   36; 36; 36; 36; 36; 36; 36; 36; 36; 36; 36; 36; 36; 36; 36; 36; 36].

Definition LEAF_3E : list Z :=
  [36; 36; 36; 36; 36; 36; 0; 36; 0; 0; 0; 0; 0; 36; 0; 0; 4; 4; 4; 4; 4; 4; 4; 4;
   4; 4; 4; 4; 4; 4; 4; 4; 4; 4; 4; 4; 4; 4; 4; 4; 4; 4; 4; 4; 4; 4; 4; 4; 4; 4;
   4; 4; 4; 4; 4; 4; 4; 4; 4; 0; 4; 4; 4; 4].

Definition LEAF_3F : list Z :=
  [4; 4; 4; 4; 4; 4; 4; 4; 4; 0; 4; 4; 4; 4; 0; 0; 4; 4; 4; 4; 4; 4; 4; 0; 4; 0;
   4; 4; 4; 4; 0; 0; 4; 4; 4; 4; 4; 4; 4; 4; 4; 4; 4; 4; 4; 4; 4; 4; 4; 4; 4; 4;
   4; 4; 4; 4; 4; 4; 4; 4; 4; 4; 4; 4].

Definition LEAF_40 : list Z :=
  [4; 4; 4; 4; 4; 4; 4; 4; 4; 0; 4; 4; 4; 4; 0; 0; 4; 4; 4; 4; 4; 4; 4; 4; 4; 4;
   4; 4; 4; 4; 4; 4; 4; 4; 4; 4; 4; 4; 4; 4; 4; 4; 4; 4; 4; 4; 4; 4; 4; 0; 4; 4;
   4; 4; 0; 0; 4; 4; 4; 4; 4; 4; 4; 0].

Definition LEAF_41 : list Z :=
  [4; 0; 4; 4; 4; 4; 0; 0; 4; 4; 4; 4; 4; 4; 4; 4; 4; 4; 4; 4; 4; 4; 4; 0; 4; 4;
   4; 4; 4; 4; 4; 4; 4; 4; 4; 4; 4; 4; 4; 4; 4; 4; 4; 4; 4; 4; 4; 4; 4; 4; 4; 4;
   4; 4; 4; 4; 4; 4; 4; 4; 4; 4; 4; 4].

Definition LEAF_42 : list Z :=
  [4; 4; 4; 4; 4; 4; 4; 4; 4; 4; 4; 4; 4; 4; 4; 4; 4; 0; 4; 4; 4; 4; 0; 0; 4; 4;
   4; 4; 4; 4; 4; 4; 4; 4; 4; 4; 4; 4; 4; 4; 4; 4; 4; 4; 4; 4; 4; 4; 4; 4; 4; 4;
   4; 4; 4; 4; 4; 4; 4; 4; 4; 4; 4; 4].

Definition LEAF_43 : list Z :=
  [4; 4; 4; 4; 4; 4; 4; 4; 4; 4; 4; 4; 4; 4; 4; 4; 4; 4; 4; 4; 4; 4; 4; 4; 4; 4;
   4; 0; 0; 0; 0; 0; 0; 0; 0; 0; 0; 0; 0; 0; 0; 2; 2; 2; 2; 2; 2; 2; 2; 2; 2; 2;
   2; 2; 2; 2; 2; 2; 2; 2; 2; 0; 0; 0].

Definition LEAF_44 : list Z :=
  [4; 4; 4; 4; 4; 4; 4; 4; 4; 4; 4; 4; 4; 4; 4; 4; 0; 0; 0; 0; 0; 0; 0; 0; 0; 0;
   0; 0; 0; 0; 0; 0; 36; 36; 36; 36; 36; 36; 36; 36; 36; 36; 36; 36; 36; 36; 36;
   36; 36; 36; 36; 36; 36; 36; 36; 36; 36; 36; 36; 36; 36; 36; 36; 36].

Definition LEAF_45 : list Z :=
  [36; 36; 36; 36; 36; 36; 36; 36; 36; 36; 36; 36; 36; 36; 36; 36; 36; 36; 36; 36;
   36; 36; 36; 36; 36; 36; 36; 36; 36; 36; 36; 36; 36; 36; 36; 36; 36; 36; 36; 36;
   36; 36; 36; 36; 36; 36; 36; 36; 36; 36; 36; 36; 36; 36; 0; 0; 12; 12; 12; 12;
   12; 12; 0; 0].

Definition LEAF_46 : list Z :=
  [0; 4; 4; 4; 4; 4; 4; 4; 4; 4; 4; 4; 4; 4; 4; 4; 4; 4; 4; 4; 4; 4; 4; 4; 4; 4;
   4; 4; 4; 4; 4; 4; 4; 4; 4; 4; 4; 4; 4; 4; 4; 4; 4; 4; 4; 4; 4; 4; 4; 4; 4; 4;
   4; 4; 4; 4; 4; 4; 4; 4; 4; 4; 4; 4].

Definition LEAF_47 : list Z :=
  [4; 4; 4; 4; 4; 4; 4; 4; 4; 4; 4; 4; 4; 4; 4; 4; 4; 4; 4; 4; 4; 4; 4; 4; 4; 4;
   4; 4; 4; 4; 4; 4; 4; 4; 4; 4; 4; 4; 4; 4; 4; 4; 4; 4; 4; 0; 0; 4; 4; 4; 4; 4;
   4; 4; 4; 4; 4; 4; 4; 4; 4; 4; 4; 4].

Definition LEAF_48 : list Z :=
  [1; 4; 4; 4; 4; 4; 4; 4; 4; 4; 4; 4; 4; 4; 4; 4; 4; 4; 4; 4; 4; 4; 4; 4; 4; 4;
   4; 0; 0; 0; 0; 0; 4; 4; 4; 4; 4; 4; 4; 4; 4; 4; 4; 4; 4; 4; 4; 4; 4; 4; 4; 4;
   4; 4; 4; 4; 4; 4; 4; 4; 4; 4; 4; 4].

Definition LEAF_49 : list Z :=
  [4; 4; 4; 4; 4; 4; 4; 4; 4; 4; 4; 4; 4; 4; 4; 4; 4; 4; 4; 4; 4; 4; 4; 4; 4; 4;
   4; 4; 4; 4; 4; 4; 4; 4; 4; 4; 4; 4; 4; 4; 4; 4; 4; 0; 0; 0; 2; 2; 2; 4; 4; 4;
   4; 4; 4; 4; 4; 0; 0; 0; 0; 0; 0; 0].

Definition LEAF_4A : list Z :=
  [4; 4; 4; 4; 4; 4; 4; 4; 4; 4; 4; 4; 4; 0; 4; 4; 4; 4; 0; 0; 0; 0; 0; 0; 0; 0;
   0; 0; 0; 0; 0; 0; 4; 4; 4; 4; 4; 4; 4; 4; 4; 4; 4; 4; 4; 4; 4; 4; 4; 4; 0; 0;
   0; 0; 0; 0; 0; 0; 0; 0; 0; 0; 0; 0].

Definition LEAF_4B : list Z :=
  [4; 4; 4; 4; 4; 4; 4; 4; 4; 4; 4; 4; 4; 4; 4; 4; 4; 4; 0; 0; 0; 0; 0; 0; 0; 0;
   0; 0; 0; 0; 0; 0; 4; 4; 4; 4; 4; 4; 4; 4; 4; 4; 4; 4; 4; 0; 4; 4; 4; 0; 0; 0;
   0; 0; 0; 0; 0; 0; 0; 0; 0; 0; 0; 0].

Definition LEAF_4C : list Z :=
  [4; 4; 4; 4; 4; 4; 4; 4; 4; 4; 4; 4; 4; 4; 4; 4; 4; 4; 4; 4; 4; 4; 4; 4; 4; 4;
   4; 4; 4; 4; 4; 4; 4; 4; 4; 4; 4; 4; 4; 4; 4; 4; 4; 4; 4; 4; 4; 4; 4; 4; 4; 4;
   0; 0; 0; 0; 0; 0; 0; 0; 0; 0; 0; 0].

Definition LEAF_4D : list Z :=
  [0; 0; 0; 0; 0; 0; 0; 0; 0; 0; 0; 0; 0; 0; 0; 0; 0; 0; 0; 0; 0; 0; 0; 4; 0; 0;
   0; 0; 4; 0; 0; 0; 2; 2; 2; 2; 2; 2; 2; 2; 2; 2; 0; 0; 0; 0; 0; 0; 2; 2; 2; 2;
   2; 2; 2; 2; 2; 2; 0; 0; 0; 0; 0; 0].

Definition LEAF_4E : list Z :=
  [0; 0; 0; 0; 0; 0; 0; 0; 0; 0; 0; 0; 0; 0; 0; 0; 2; 2; 2; 2; 2; 2; 2; 2; 2; 2;
   0; 0; 0; 0; 0; 0; 4; 4; 4; 4; 4; 4; 4; 4; 4; 4; 4; 4; 4; 4; 4; 4; 4; 4; 4; 4;
   4; 4; 4; 4; 4; 4; 4; 4; 4; 4; 4; 4].

Definition LEAF_4F : list Z :=
  [4; 4; 4; 4; 4; 4; 4; 4; 4; 4; 4; 4; 4; 4; 4; 4; 4; 4; 4; 4; 4; 4; 4; 4; 4; 4;
   4; 4; 4; 4; 4; 4; 4; 4; 4; 4; 4; 4; 4; 4; 4; 4; 4; 4; 4; 4; 4; 4; 4; 4; 4; 4;
   4; 4; 4; 4; 0; 0; 0; 0; 0; 0; 0; 0].

Definition LEAF_50 : list Z :=
  [4; 4; 4; 4; 4; 4; 4; 4; 4; 4; 4; 4; 4; 4; 4; 4; 4; 4; 4; 4; 4; 4; 4; 4; 4; 4;
   4; 4; 4; 4; 4; 4; 4; 4; 4; 4; 4; 4; 4; 4; 4; 0; 4; 0; 0; 0; 0; 0; 4; 4; 4; 4;
   4; 4; 4; 4; 4; 4; 4; 4; 4; 4; 4; 4].

Definition LEAF_51 : list Z :=
  [4; 4; 4; 4; 4; 4; 4; 4; 4; 4; 4; 4; 4; 4; 4; 4; 4; 4; 4; 4; 4; 4; 4; 4; 4; 4;
   4; 4; 4; 4; 4; 4; 4; 4; 4; 4; 4; 4; 4; 4; 4; 4; 4; 4; 4; 4; 4; 4; 4; 4; 4; 4;
   4; 4; 0; 0; 0; 0; 0; 0; 0; 0; 0; 0].

Definition LEAF_52 : list Z :=
  [4; 4; 4; 4; 4; 4; 4; 4; 4; 4; 4; 4; 4; 4; 4; 4; 4; 4; 4; 4; 4; 4; 4; 4; 4; 4;
   4; 4; 4; 4; 4; 0; 0; 0; 0; 0; 0; 0; 0; 0; 0; 0; 0; 0; 0; 0; 0; 0; 0; 0; 0; 0;
   0; 0; 0; 0; 0; 0; 0; 0; 0; 0; 0; 0].

Definition LEAF_53 : list Z :=
  [0; 0; 0; 0; 0; 0; 2; 2; 2; 2; 2; 2; 2; 2; 2; 2; 4; 4; 4; 4; 4; 4; 4; 4; 4; 4;
   4; 4; 4; 4; 4; 4; 4; 4; 4; 4; 4; 4; 4; 4; 4; 4; 4; 4; 4; 4; 0; 0; 4; 4; 4; 4;
   4; 0; 0; 0; 0; 0; 0; 0; 0; 0; 0; 0].

Definition LEAF_54 : list Z :=
  [4; 4; 4; 4; 4; 4; 4; 4; 4; 4; 4; 4; 4; 4; 4; 4; 4; 4; 4; 4; 4; 4; 4; 4; 4; 4;
   4; 4; 4; 4; 4; 4; 4; 4; 4; 4; 4; 4; 4; 4; 4; 4; 4; 4; 0; 0; 0; 0; 4; 4; 4; 4;
   4; 4; 4; 4; 4; 4; 4; 4; 4; 4; 4; 4].

Definition LEAF_55 : list Z :=
  [4; 4; 4; 4; 4; 4; 4; 4; 4; 4; 0; 0; 0; 0; 0; 0; 2; 2; 2; 2; 2; 2; 2; 2; 2; 2;
   2; 0; 0; 0; 0; 0; 0; 0; 0; 0; 0; 0; 0; 0; 0; 0; 0; 0; 0; 0; 0; 0; 0; 0; 0; 0;
   0; 0; 0; 0; 0; 0; 0; 0; 0; 0; 0; 0].

Definition LEAF_56 : list Z :=
  [4; 4; 4; 4; 4; 4; 4; 4; 4; 4; 4; 4; 4; 4; 4; 4; 4; 4; 4; 4; 4; 4; 4; 0; 0; 0;
   0; 0; 0; 0; 0; 0; 4; 4; 4; 4; 4; 4; 4; 4; 4; 4; 4; 4; 4; 4; 4; 4; 4; 4; 4; 4;
   4; 4; 4; 4; 4; 4; 4; 4; 4; 4; 4; 4].

Definition LEAF_57 : list Z :=
  [4; 4; 4; 4; 4; 4; 4; 4; 4; 4; 4; 4; 4; 4; 4; 4; 4; 4; 4; 4; 4; 0; 0; 0; 0; 0;
   0; 0; 0; 0; 0; 0; 0; 0; 0; 0; 0; 0; 0; 0; 0; 0; 0; 0; 0; 0; 0; 0; 0; 0; 0; 0;
   0; 0; 0; 0; 0; 0; 0; 0; 0; 0; 0; 0].

Definition LEAF_58 : list Z :=
  [2; 2; 2; 2; 2; 2; 2; 2; 2; 2; 0; 0; 0; 0; 0; 0; 2; 2; 2; 2; 2; 2; 2; 2; 2; 2;
   0; 0; 0; 0; 0; 0; 0; 0; 0; 0; 0; 0; 0; 4; 0; 0; 0; 0; 0; 0; 0; 0; 0; 0; 0; 0;
   0; 0; 0; 0; 0; 0; 0; 0; 0; 0; 0; 0].

Definition LEAF_59 : list Z :=
  [0; 0; 0; 0; 0; 4; 4; 4; 4; 4; 4; 4; 4; 4; 4; 4; 4; 4; 4; 4; 4; 4; 4; 4; 4; 4;
   4; 4; 4; 4; 4; 4; 4; 4; 4; 4; 4; 4; 4; 4; 4; 4; 4; 4; 4; 4; 4; 4; 4; 4; 4; 4;
   0; 0; 0; 0; 0; 0; 0; 0; 0; 0; 0; 0].

Definition LEAF_5A : list Z :=
  [0; 0; 0; 0; 0; 4; 4; 4; 4; 4; 4; 4; 0; 0; 0; 0; 2; 2; 2; 2; 2; 2; 2; 2; 2; 2;
   0; 0; 0; 0; 0; 0; 0; 0; 0; 0; 0; 0; 0; 0; 0; 0; 0; 0; 0; 0; 0; 0; 0; 0; 0; 0;
   0; 0; 0; 0; 0; 0; 0; 0; 0; 0; 0; 0].

Definition LEAF_5B : list Z :=
  [0; 0; 0; 4; 4; 4; 4; 4; 4; 4; 4; 4; 4; 4; 4; 4; 4; 4; 4; 4; 4; 4; 4; 4; 4; 4;
   4; 4; 4; 4; 4; 4; 4; 0; 0; 0; 0; 0; 0; 0; 0; 0; 0; 0; 0; 0; 4; 4; 2; 2; 2; 2;
   2; 2; 2; 2; 2; 2; 4; 4; 4; 4; 4; 4].

Definition LEAF_5C : list Z :=
  [4; 4; 4; 4; 4; 4; 4; 4; 4; 4; 4; 4; 4; 4; 4; 4; 4; 4; 4; 4; 4; 4; 4; 4; 4; 4;
   4; 4; 4; 4; 4; 4; 4; 4; 4; 4; 4; 4; 0; 0; 0; 0; 0; 0; 0; 0; 0; 0; 0; 0; 0; 0;
   0; 0; 0; 0; 0; 0; 0; 0; 0; 0; 0; 0].

Definition LEAF_5D : list Z :=
  [4; 4; 4; 4; 4; 4; 4; 4; 4; 4; 4; 4; 4; 4; 4; 4; 4; 4; 4; 4; 4; 4; 4; 4; 4; 4;
   4; 4; 4; 4; 4; 4; 4; 4; 4; 4; 0; 0; 0; 0; 0; 0; 0; 0; 0; 0; 0; 0; 0; 0; 0; 0;
   0; 0; 0; 0; 0; 0; 0; 0; 0; 0; 0; 0].

Definition LEAF_5E : list Z :=
  [2; 2; 2; 2; 2; 2; 2; 2; 2; 2; 0; 0; 0; 4; 4; 4; 2; 2; 2; 2; 2; 2; 2; 2; 2; 2;
   4; 4; 4; 4; 4; 4; 4; 4; 4; 4; 4; 4; 4; 4; 4; 4; 4; 4; 4; 4; 4; 4; 4; 4; 4; 4;
   4; 4; 4; 4; 4; 4; 4; 4; 4; 4; 0; 0].

Definition LEAF_5F : list Z :=
  [0; 0; 0; 0; 0; 0; 0; 0; 0; 0; 0; 0; 0; 0; 0; 0; 0; 0; 0; 0; 0; 0; 0; 0; 0; 0;
   0; 0; 0; 0; 0; 0; 0; 0; 0; 0; 0; 0; 0; 0; 0; 4; 4; 4; 4; 0; 4; 4; 4; 4; 0; 0;
   0; 4; 4; 0; 0; 0; 0; 0; 0; 0; 0; 0].

Definition LEAF_60 : list Z :=
  [12; 12; 12; 12; 12; 12; 12; 12; 12; 12; 12; 12; 12; 12; 12; 12; 12; 12; 12; 12;
   12; 12; 12; 12; 12; 12; 12; 12; 12; 12; 12; 12; 12; 12; 12; 12; 12; 12; 12; 12;
   12; 12; 12; 12; 4; 4; 4; 4; 4; 4; 4; 4; 4; 4; 4; 4; 4; 4; 4; 4; 4; 4; 4; 4].

Definition LEAF_61 : list Z :=
  [4; 4; 4; 4; 4; 4; 4; 4; 4; 4; 4; 4; 4; 4; 4; 4; 4; 4; 4; 4; 4; 4; 4; 4; 4; 4;
   4; 4; 4; 4; 4; 4; 4; 4; 4; 4; 4; 4; 4; 4; 4; 4; 4; 12; 12; 12; 12; 12; 12; 12;
   12; 12; 12; 12; 12; 12; 4; 12; 12; 12; 12; 12; 12; 12].

Definition LEAF_62 : list Z :=
  [12; 12; 12; 12; 12; 12; 12; 12; 12; 12; 12; 12; 12; 12; 12; 12; 12; 12; 12; 12;
   12; 12; 12; 12; 12; 12; 12; 4; 4; 4; 4; 4; 4; 4; 4; 4; 4; 4; 4; 4; 4; 4; 4; 4;
   4; 4; 4; 4; 4; 4; 4; 4; 4; 4; 4; 4; 4; 4; 4; 4; 4; 4; 4; 4].

Definition LEAF_63 : list Z :=
  [36; 12; 36; 12; 36; 12; 36; 12; 36; 12; 36; 12; 36; 12; 36; 12; 36; 12; 36; 12;
   36; 12; 36; 12; 36; 12; 36; 12; 36; 12; 36; 12; 36; 12; 36; 12; 36; 12; 36; 12;
   36; 12; 36; 12; 36; 12; 36; 12; 36; 12; 36; 12; 36; 12; 36; 12; 36; 12; 36; 12;
   36; 12; 36; 12].

Definition LEAF_64 : list Z :=
  [36; 12; 36; 12; 36; 12; 36; 12; 36; 12; 36; 12; 36; 12; 36; 12; 36; 12; 36; 12;
   36; 12; 12; 12; 12; 12; 12; 12; 12; 12; 36; 12; 36; 12; 36; 12; 36; 12; 36; 12;
   36; 12; 36; 12; 36; 12; 36; 12; 36; 12; 36; 12; 36; 12; 36; 12; 36; 12; 36; 12;
   36; 12; 36; 12].

Definition LEAF_65 : list Z :=
  [12; 12; 12; 12; 12; 12; 12; 12; 36; 36; 36; 36; 36; 36; 36; 36; 12; 12; 12; 12;
   12; 12; 0; 0; 36; 36; 36; 36; 36; 36; 0; 0; 12; 12; 12; 12; 12; 12; 12; 12; 36;
   36; 36; 36; 36; 36; 36; 36; 12; 12; 12; 12; 12; 12; 12; 12; 36; 36; 36; 36; 36;
   36; 36; 36].

Definition LEAF_66 : list Z :=
  [12; 12; 12; 12; 12; 12; 0; 0; 36; 36; 36; 36; 36; 36; 0; 0; 12; 12; 12; 12; 12;
   12; 12; 12; 0; 36; 0; 36; 0; 36; 0; 36; 12; 12; 12; 12; 12; 12; 12; 12; 36; 36;
   36; 36; 36; 36; 36; 36; 12; 12; 12; 12; 12; 12; 12; 12; 12; 12; 12; 12; 12; 12;
   0; 0].

Definition LEAF_67 : list Z :=
  [12; 12; 12; 12; 12; 12; 12; 12; 20; 20; 20; 20; 20; 20; 20; 20; 12; 12; 12; 12;
   12; 12; 12; 12; 20; 20; 20; 20; 20; 20; 20; 20; 12; 12; 12; 12; 12; 12; 12; 12;
   20; 20; 20; 20; 20; 20; 20; 20; 12; 12; 12; 12; 12; 0; 12; 12; 36; 36; 36; 36;
   20; 0; 12; 0].

Definition LEAF_68 : list Z :=
  [0; 0; 12; 12; 12; 0; 12; 12; 36; 36; 36; 36; 20; 0; 0; 0; 12; 12; 12; 12; 0; 0;
   12; 12; 36; 36; 36; 36; 0; 0; 0; 0; 12; 12; 12; 12; 12; 12; 12; 12; 36; 36; 36;
   36; 36; 0; 0; 0; 0; 0; 12; 12; 12; 0; 12; 12; 36; 36; 36; 36; 20; 0; 0; 0].

Definition LEAF_69 : list Z :=
  [1; 1; 1; 1; 1; 1; 1; 1; 1; 1; 1; 0; 0; 0; 0; 0; 0; 0; 0; 0; 0; 0; 0; 0; 0; 0;
   0; 0; 0; 0; 0; 0; 0; 0; 0; 0; 0; 0; 0; 0; 0; 0; 0; 0; 0; 0; 0; 1; 0; 0; 0; 0;
   0; 0; 0; 0; 0; 0; 0; 0; 0; 0; 0; 0].

Definition LEAF_6A : list Z :=
  [0; 0; 0; 0; 0; 0; 0; 0; 0; 0; 0; 0; 0; 0; 0; 0; 0; 0; 0; 0; 0; 0; 0; 0; 0; 0;
   0; 0; 0; 0; 0; 1; 0; 0; 0; 0; 0; 0; 0; 0; 0; 0; 0; 0; 0; 0; 0; 0; 2; 4; 0; 0;
   2; 2; 2; 2; 2; 2; 0; 0; 0; 0; 0; 4].

Definition LEAF_6B : list Z :=
  [2; 2; 2; 2; 2; 2; 2; 2; 2; 2; 0; 0; 0; 0; 0; 0; 4; 4; 4; 4; 4; 4; 4; 4; 4; 4;
   4; 4; 4; 0; 0; 0; 0; 0; 0; 0; 0; 0; 0; 0; 0; 0; 0; 0; 0; 0; 0; 0; 0; 0; 0; 0;
   0; 0; 0; 0; 0; 0; 0; 0; 0; 0; 0; 0].

Definition LEAF_6C : list Z :=
  [0; 0; 36; 0; 0; 0; 0; 36; 0; 0; 12; 36; 36; 36; 12; 12; 36; 36; 36; 12; 0; 36;
   0; 0; 0; 36; 36; 36; 36; 36; 0; 0; 0; 0; 0; 0; 36; 0; 36; 0; 36; 0; 36; 36; 36;
   36; 0; 12; 36; 36; 36; 36; 12; 4; 4; 4; 4; 12; 0; 0; 12; 12; 36; 36].

Definition LEAF_6D : list Z :=
  [0; 0; 0; 0; 0; 36; 12; 12; 12; 12; 0; 0; 0; 0; 12; 0; 2; 2; 2; 2; 2; 2; 2; 2;
   2; 2; 2; 2; 2; 2; 2; 2; 2; 2; 2; 2; 2; 2; 2; 2; 2; 2; 2; 2; 2; 2; 2; 2; 2; 2;
   2; 2; 2; 2; 2; 2; 2; 2; 2; 2; 2; 2; 2; 2].

Definition LEAF_6E : list Z :=
  [2; 2; 2; 36; 12; 2; 2; 2; 2; 2; 0; 0; 0; 0; 0; 0; 0; 0; 0; 0; 0; 0; 0; 0; 0; 0;
   0; 0; 0; 0; 0; 0; 0; 0; 0; 0; 0; 0; 0; 0; 0; 0; 0; 0; 0; 0; 0; 0; 0; 0; 0; 0;
   0; 0; 0; 0; 0; 0; 0; 0; 0; 0; 0; 0].

Definition LEAF_6F : list Z :=
  [0; 0; 0; 0; 0; 0; 0; 0; 0; 0; 0; 0; 0; 0; 0; 0; 0; 0; 0; 0; 0; 0; 0; 0; 0; 0;
   0; 0; 0; 0; 0; 0; 2; 2; 2; 2; 2; 2; 2; 2; 2; 2; 2; 2; 2; 2; 2; 2; 2; 2; 2; 2;
   2; 2; 2; 2; 2; 2; 2; 2; 2; 2; 2; 2].

Definition LEAF_70 : list Z :=
  [2; 2; 2; 2; 2; 2; 2; 2; 2; 2; 2; 2; 2; 2; 2; 2; 2; 2; 2; 2; 2; 2; 2; 2; 2; 2;
   2; 2; 0; 0; 0; 0; 0; 0; 0; 0; 0; 0; 0; 0; 0; 0; 0; 0; 0; 0; 0; 0; 0; 0; 0; 0;
   0; 0; 0; 0; 0; 0; 0; 0; 0; 0; 0; 0].

Definition LEAF_71 : list Z :=
  [0; 0; 0; 0; 0; 0; 0; 0; 0; 0; 0; 0; 0; 0; 0; 0; 0; 0; 0; 0; 0; 0; 0; 0; 0; 0;
   0; 0; 0; 0; 0; 0; 0; 0; 0; 0; 0; 0; 0; 0; 0; 0; 2; 2; 2; 2; 2; 2; 2; 2; 2; 2;
   2; 2; 2; 2; 2; 2; 2; 2; 2; 2; 2; 2].

Definition LEAF_72 : list Z :=
  [0; 0; 0; 0; 0; 0; 0; 0; 0; 0; 0; 0; 0; 0; 0; 0; 0; 0; 0; 0; 0; 0; 0; 0; 0; 0;
   0; 0; 0; 0; 0; 0; 0; 0; 0; 0; 0; 0; 0; 0; 0; 0; 0; 0; 0; 0; 0; 0; 0; 0; 0; 0;
   0; 0; 2; 2; 2; 2; 2; 2; 2; 2; 2; 2].

Definition LEAF_73 : list Z :=
  [2; 2; 2; 2; 2; 2; 2; 2; 2; 2; 2; 2; 2; 2; 2; 2; 2; 2; 2; 2; 0; 0; 0; 0; 0; 0;
   0; 0; 0; 0; 0; 0; 0; 0; 0; 0; 0; 0; 0; 0; 0; 0; 0; 0; 0; 0; 0; 0; 0; 0; 0; 0;
   0; 0; 0; 0; 0; 0; 0; 0; 0; 0; 0; 0].

Definition LEAF_74 : list Z :=
  [36; 36; 36; 36; 36; 36; 36; 36; 36; 36; 36; 36; 36; 36; 36; 36; 36; 36; 36; 36;
   36; 36; 36; 36; 36; 36; 36; 36; 36; 36; 36; 36; 36; 36; 36; 36; 36; 36; 36; 36;
   36; 36; 36; 36; 36; 36; 36; 0; 12; 12; 12; 12; 12; 12; 12; 12; 12; 12; 12; 12;
   12; 12; 12; 12].

Definition LEAF_75 : list Z :=
  [12; 12; 12; 12; 12; 12; 12; 12; 12; 12; 12; 12; 12; 12; 12; 12; 12; 12; 12; 12;
   12; 12; 12; 12; 12; 12; 12; 12; 12; 12; 12; 0; 36; 12; 36; 36; 36; 12; 12; 36;
   12; 36; 12; 36; 12; 36; 36; 36; 36; 12; 36; 12; 12; 36; 12; 12; 12; 12; 12; 12;
   4; 4; 36; 36].

Definition LEAF_76 : list Z :=
  [36; 12; 36; 12; 36; 12; 36; 12; 36; 12; 36; 12; 36; 12; 36; 12; 36; 12; 36; 12;
   36; 12; 36; 12; 36; 12; 36; 12; 36; 12; 36; 12; 36; 12; 36; 12; 12; 0; 0; 0; 0;
   0; 0; 36; 12; 36; 12; 0; 0; 0; 36; 12; 0; 0; 0; 0; 0; 0; 0; 0; 0; 2; 0; 0].

Definition LEAF_77 : list Z :=
  [12; 12; 12; 12; 12; 12; 12; 12; 12; 12; 12; 12; 12; 12; 12; 12; 12; 12; 12; 12;
   12; 12; 12; 12; 12; 12; 12; 12; 12; 12; 12; 12; 12; 12; 12; 12; 12; 12; 0; 12;
   0; 0; 0; 0; 0; 12; 0; 0; 4; 4; 4; 4; 4; 4; 4; 4; 4; 4; 4; 4; 4; 4; 4; 4].

Definition LEAF_78 : list Z :=
  [4; 4; 4; 4; 4; 4; 4; 4; 4; 4; 4; 4; 4; 4; 4; 4; 4; 4; 4; 4; 4; 4; 4; 4; 4; 4;
   4; 4; 4; 4; 4; 4; 4; 4; 4; 4; 4; 4; 4; 4; 0; 0; 0; 0; 0; 0; 0; 4; 0; 0; 0; 0;
   0; 0; 0; 0; 0; 0; 0; 0; 0; 0; 0; 0].

Definition LEAF_79 : list Z :=
  [4; 4; 4; 4; 4; 4; 4; 4; 4; 4; 4; 4; 4; 4; 4; 4; 4; 4; 4; 4; 4; 4; 4; 0; 0; 0;
   0; 0; 0; 0; 0; 0; 4; 4; 4; 4; 4; 4; 4; 0; 4; 4; 4; 4; 4; 4; 4; 0; 4; 4; 4; 4;
   4; 4; 4; 0; 4; 4; 4; 4; 4; 4; 4; 0].

Definition LEAF_7A : list Z :=
  [4; 4; 4; 4; 4; 4; 4; 0; 4; 4; 4; 4; 4; 4; 4; 0; 4; 4; 4; 4; 4; 4; 4; 0; 4; 4;
   4; 4; 4; 4; 4; 0; 0; 0; 0; 0; 0; 0; 0; 0; 0; 0; 0; 0; 0; 0; 0; 0; 0; 0; 0; 0;
   0; 0; 0; 0; 0; 0; 0; 0; 0; 0; 0; 0].

Definition LEAF_7B : list Z :=
  [0; 0; 0; 0; 0; 0; 0; 0; 0; 0; 0; 0; 0; 0; 0; 0; 0; 0; 0; 0; 0; 0; 0; 0; 0; 0;
   0; 0; 0; 0; 0; 0; 0; 0; 0; 0; 0; 0; 0; 0; 0; 0; 0; 0; 0; 0; 0; 4; 0; 0; 0; 0;
   0; 0; 0; 0; 0; 0; 0; 0; 0; 0; 0; 0].

Definition LEAF_7C : list Z :=
  [1; 0; 0; 0; 0; 4; 4; 2; 0; 0; 0; 0; 0; 0; 0; 0; 0; 0; 0; 0; 0; 0; 0; 0; 0; 0;
   0; 0; 0; 0; 0; 0; 0; 2; 2; 2; 2; 2; 2; 2; 2; 2; 0; 0; 0; 0; 0; 0; 0; 4; 4; 4;
   4; 4; 0; 0; 2; 2; 2; 4; 4; 0; 0; 0].

Definition LEAF_7D : list Z :=
  [4; 4; 4; 4; 4; 4; 4; 4; 4; 4; 4; 4; 4; 4; 4; 4; 4; 4; 4; 4; 4; 4; 4; 0; 0; 0;
   0; 0; 0; 4; 4; 4; 0; 4; 4; 4; 4; 4; 4; 4; 4; 4; 4; 4; 4; 4; 4; 4; 4; 4; 4; 4;
   4; 4; 4; 4; 4; 4; 4; 4; 4; 4; 4; 4].

Definition LEAF_7E : list Z :=
  [4; 4; 4; 4; 4; 4; 4; 4; 4; 4; 4; 4; 4; 4; 4; 4; 4; 4; 4; 4; 4; 4; 4; 4; 4; 4;
   4; 4; 4; 4; 4; 4; 4; 4; 4; 4; 4; 4; 4; 4; 4; 4; 4; 4; 4; 4; 4; 4; 4; 4; 4; 4;
   4; 4; 4; 4; 4; 4; 4; 0; 4; 4; 4; 4].

Definition LEAF_7F : list Z :=
  [0; 0; 0; 0; 0; 4; 4; 4; 4; 4; 4; 4; 4; 4; 4; 4; 4; 4; 4; 4; 4; 4; 4; 4; 4; 4;
   4; 4; 4; 4; 4; 4; 4; 4; 4; 4; 4; 4; 4; 4; 4; 4; 4; 4; 4; 4; 0; 0; 0; 4; 4; 4;
   4; 4; 4; 4; 4; 4; 4; 4; 4; 4; 4; 4].

Definition LEAF_80 : list Z :=
  [4; 4; 4; 4; 4; 4; 4; 4; 4; 4; 4; 4; 4; 4; 4; 0; 0; 0; 2; 2; 2; 2; 0; 0; 0; 0;
   0; 0; 0; 0; 0; 0; 4; 4; 4; 4; 4; 4; 4; 4; 4; 4; 4; 4; 4; 4; 4; 4; 4; 4; 4; 4;
   4; 4; 4; 4; 4; 4; 4; 0; 0; 0; 0; 0].

Definition LEAF_81 : list Z :=
  [0; 0; 0; 0; 0; 0; 0; 0; 0; 0; 0; 0; 0; 0; 0; 0; 0; 0; 0; 0; 0; 0; 0; 0; 0; 0;
   0; 0; 0; 0; 0; 0; 0; 0; 0; 0; 0; 0; 0; 0; 0; 0; 0; 0; 0; 0; 0; 0; 4; 4; 4; 4;
   4; 4; 4; 4; 4; 4; 4; 4; 4; 4; 4; 4].

Definition LEAF_82 : list Z :=
  [0; 0; 0; 0; 0; 0; 0; 0; 0; 0; 0; 0; 0; 0; 0; 0; 0; 0; 0; 0; 0; 0; 0; 0; 0; 0;
   0; 0; 0; 0; 0; 0; 2; 2; 2; 2; 2; 2; 2; 2; 2; 2; 0; 0; 0; 0; 0; 0; 0; 0; 0; 0;
   0; 0; 0; 0; 0; 0; 0; 0; 0; 0; 0; 0].

Definition LEAF_83 : list Z :=
  [0; 0; 0; 0; 0; 0; 0; 0; 2; 2; 2; 2; 2; 2; 2; 2; 0; 2; 2; 2; 2; 2; 2; 2; 2; 2;
   2; 2; 2; 2; 2; 2; 0; 0; 0; 0; 0; 0; 0; 0; 0; 0; 0; 0; 0; 0; 0; 0; 0; 0; 0; 0;
   0; 0; 0; 0; 0; 0; 0; 0; 0; 0; 0; 0].

Definition LEAF_84 : list Z :=
  [2; 2; 2; 2; 2; 2; 2; 2; 2; 2; 0; 0; 0; 0; 0; 0; 0; 0; 0; 0; 0; 0; 0; 0; 0; 0;
   0; 0; 0; 0; 0; 0; 0; 0; 0; 0; 0; 0; 0; 0; 0; 0; 0; 0; 0; 0; 0; 0; 0; 2; 2; 2;
   2; 2; 2; 2; 2; 2; 2; 2; 2; 2; 2; 2].

Definition LEAF_85 : list Z :=
  [4; 4; 4; 4; 4; 4; 4; 4; 4; 4; 4; 4; 4; 4; 4; 4; 4; 4; 4; 4; 4; 4; 0; 0; 0; 0;
   0; 0; 0; 0; 0; 0; 0; 0; 0; 0; 0; 0; 0; 0; 0; 0; 0; 0; 0; 0; 0; 0; 0; 0; 0; 0;
   0; 0; 0; 0; 0; 0; 0; 0; 0; 0; 0; 0].

Definition LEAF_86 : list Z :=
  [4; 4; 4; 4; 4; 4; 4; 4; 4; 4; 4; 4; 4; 0; 0; 0; 0; 0; 0; 0; 0; 0; 0; 0; 0; 0;
   0; 0; 0; 0; 0; 0; 0; 0; 0; 0; 0; 0; 0; 0; 0; 0; 0; 0; 0; 0; 0; 0; 0; 0; 0; 0;
   0; 0; 0; 0; 0; 0; 0; 0; 0; 0; 0; 0].

Definition LEAF_87 : list Z :=
  [0; 0; 0; 0; 0; 0; 0; 0; 0; 0; 0; 0; 0; 0; 0; 0; 4; 4; 4; 4; 4; 4; 4; 4; 4; 4;
   4; 4; 4; 4; 4; 4; 4; 4; 4; 4; 4; 4; 4; 4; 4; 4; 4; 4; 4; 4; 4; 4; 4; 4; 4; 4;
   4; 4; 4; 4; 4; 4; 4; 4; 4; 4; 0; 0].

Definition LEAF_88 : list Z :=
  [4; 4; 4; 4; 4; 4; 4; 4; 4; 4; 4; 4; 4; 0; 0; 0; 4; 4; 4; 4; 4; 4; 4; 4; 4; 4;
   4; 4; 4; 4; 4; 4; 2; 2; 2; 2; 2; 2; 2; 2; 2; 2; 4; 4; 0; 0; 0; 0; 0; 0; 0; 0;
   0; 0; 0; 0; 0; 0; 0; 0; 0; 0; 0; 0].

Definition LEAF_89 : list Z :=
  [36; 12; 36; 12; 36; 12; 36; 12; 36; 12; 36; 12; 36; 12; 36; 12; 36; 12; 36; 12;
   36; 12; 36; 12; 36; 12; 36; 12; 36; 12; 36; 12; 36; 12; 36; 12; 36; 12; 36; 12;
   36; 12; 36; 12; 36; 12; 4; 0; 0; 0; 0; 0; 0; 0; 0; 0; 0; 0; 0; 0; 0; 0; 0; 4].

Definition LEAF_8A : list Z :=
  [36; 12; 36; 12; 36; 12; 36; 12; 36; 12; 36; 12; 36; 12; 36; 12; 36; 12; 36; 12;
   36; 12; 36; 12; 36; 12; 36; 12; 4; 4; 0; 0; 4; 4; 4; 4; 4; 4; 4; 4; 4; 4; 4; 4;
   4; 4; 4; 4; 4; 4; 4; 4; 4; 4; 4; 4; 4; 4; 4; 4; 4; 4; 4; 4].

Definition LEAF_8B : list Z :=
  [4; 4; 4; 4; 4; 4; 4; 4; 4; 4; 4; 4; 4; 4; 4; 4; 4; 4; 4; 4; 4; 4; 4; 4; 4; 4;
   4; 4; 4; 4; 4; 4; 4; 4; 4; 4; 4; 4; 2; 2; 2; 2; 2; 2; 2; 2; 2; 2; 0; 0; 0; 0;
   0; 0; 0; 0; 0; 0; 0; 0; 0; 0; 0; 0].

Definition LEAF_8C : list Z :=
  [0; 0; 0; 0; 0; 0; 0; 0; 0; 0; 0; 0; 0; 0; 0; 0; 0; 0; 0; 0; 0; 0; 0; 4; 4; 4;
   4; 4; 4; 4; 4; 4; 0; 0; 36; 12; 36; 12; 36; 12; 36; 12; 36; 12; 36; 12; 36; 12;
   12; 12; 36; 12; 36; 12; 36; 12; 36; 12; 36; 12; 36; 12; 36; 12].

Definition LEAF_8D : list Z :=
  [36; 12; 36; 12; 36; 12; 36; 12; 36; 12; 36; 12; 36; 12; 36; 12; 36; 12; 36; 12;
   36; 12; 36; 12; 36; 12; 36; 12; 36; 12; 36; 12; 36; 12; 36; 12; 36; 12; 36; 12;
   36; 12; 36; 12; 36; 12; 36; 12; 4; 12; 12; 12; 12; 12; 12; 12; 12; 36; 12; 36;
   12; 36; 36; 12].

Definition LEAF_8E : list Z :=
  [36; 12; 36; 12; 36; 12; 36; 12; 4; 0; 0; 36; 12; 36; 12; 4; 36; 12; 36; 12; 12;
   12; 36; 12; 36; 12; 36; 12; 36; 12; 36; 12; 36; 12; 36; 12; 36; 12; 36; 12; 36;
   12; 36; 36; 36; 36; 0; 0; 36; 36; 36; 36; 36; 12; 36; 12; 0; 0; 0; 0; 0; 0; 0; 0].

Definition LEAF_8F : list Z :=
  [0; 0; 0; 0; 0; 0; 0; 0; 0; 0; 0; 0; 0; 0; 0; 0; 0; 0; 0; 0; 0; 0; 0; 0; 0; 0;
   0; 0; 0; 0; 0; 0; 0; 0; 0; 0; 0; 0; 0; 0; 0; 0; 0; 0; 0; 0; 0; 0; 0; 0; 0; 0;
   0; 0; 0; 4; 4; 4; 12; 4; 4; 4; 4; 4].

Definition LEAF_90 : list Z :=
  [4; 4; 0; 4; 4; 4; 0; 4; 4; 4; 4; 0; 4; 4; 4; 4; 4; 4; 4; 4; 4; 4; 4; 4; 4; 4;
   4; 4; 4; 4; 4; 4; 4; 4; 4; 0; 0; 0; 0; 0; 0; 0; 0; 0; 0; 0; 0; 0; 2; 2; 2; 2;
   2; 2; 0; 0; 0; 0; 0; 0; 0; 0; 0; 0].

Definition LEAF_91 : list Z :=
  [0; 0; 4; 4; 4; 4; 4; 4; 4; 4; 4; 4; 4; 4; 4; 4; 4; 4; 4; 4; 4; 4; 4; 4; 4; 4;
   4; 4; 4; 4; 4; 4; 4; 4; 4; 4; 4; 4; 4; 4; 4; 4; 4; 4; 4; 4; 4; 4; 4; 4; 4; 4;
   0; 0; 0; 0; 0; 0; 0; 0; 0; 0; 0; 0].

Definition LEAF_92 : list Z :=
  [0; 0; 0; 0; 0; 0; 0; 0; 0; 0; 0; 0; 0; 0; 0; 0; 2; 2; 2; 2; 2; 2; 2; 2; 2; 2;
   0; 0; 0; 0; 0; 0; 0; 0; 0; 0; 0; 0; 0; 0; 0; 0; 0; 0; 0; 0; 0; 0; 0; 0; 4; 4;
   4; 4; 4; 4; 0; 0; 0; 4; 0; 4; 0; 0].

Definition LEAF_93 : list Z :=
  [2; 2; 2; 2; 2; 2; 2; 2; 2; 2; 4; 4; 4; 4; 4; 4; 4; 4; 4; 4; 4; 4; 4; 4; 4; 4;
   4; 4; 4; 4; 4; 4; 4; 4; 4; 4; 4; 4; 0; 0; 0; 0; 0; 0; 0; 0; 0; 0; 4; 4; 4; 4;
   4; 4; 4; 4; 4; 4; 4; 4; 4; 4; 4; 4].

Definition LEAF_94 : list Z :=
  [4; 4; 4; 4; 4; 4; 4; 0; 0; 0; 0; 0; 0; 0; 0; 0; 0; 0; 0; 0; 0; 0; 0; 0; 0; 0;
   0; 0; 0; 0; 0; 0; 4; 4; 4; 4; 4; 4; 4; 4; 4; 4; 4; 4; 4; 4; 4; 4; 4; 4; 4; 4;
   4; 4; 4; 4; 4; 4; 4; 4; 4; 0; 0; 0].

Definition LEAF_95 : list Z :=
  [0; 0; 0; 0; 4; 4; 4; 4; 4; 4; 4; 4; 4; 4; 4; 4; 4; 4; 4; 4; 4; 4; 4; 4; 4; 4;
   4; 4; 4; 4; 4; 4; 4; 4; 4; 4; 4; 4; 4; 4; 4; 4; 4; 4; 4; 4; 4; 4; 4; 4; 4; 0;
   0; 0; 0; 0; 0; 0; 0; 0; 0; 0; 0; 0].

Definition LEAF_96 : list Z :=
  [0; 0; 0; 0; 0; 0; 0; 0; 0; 0; 0; 0; 0; 0; 0; 4; 2; 2; 2; 2; 2; 2; 2; 2; 2; 2;
   0; 0; 0; 0; 0; 0; 4; 4; 4; 4; 4; 0; 4; 4; 4; 4; 4; 4; 4; 4; 4; 4; 2; 2; 2; 2;
   2; 2; 2; 2; 2; 2; 4; 4; 4; 4; 4; 0].

Definition LEAF_97 : list Z :=
  [4; 4; 4; 4; 4; 4; 4; 4; 4; 4; 4; 4; 4; 4; 4; 4; 4; 4; 4; 4; 4; 4; 4; 4; 4; 4;
   4; 4; 4; 4; 4; 4; 4; 4; 4; 4; 4; 4; 4; 4; 4; 0; 0; 0; 0; 0; 0; 0; 0; 0; 0; 0;
   0; 0; 0; 0; 0; 0; 0; 0; 0; 0; 0; 0].

Definition LEAF_98 : list Z :=
  [4; 4; 4; 0; 4; 4; 4; 4; 4; 4; 4; 4; 0; 0; 0; 0; 2; 2; 2; 2; 2; 2; 2; 2; 2; 2;
   0; 0; 0; 0; 0; 0; 4; 4; 4; 4; 4; 4; 4; 4; 4; 4; 4; 4; 4; 4; 4; 4; 4; 4; 4; 4;
   4; 4; 4; 0; 0; 0; 4; 0; 0; 0; 4; 4].

Definition LEAF_99 : list Z :=
  [4; 4; 4; 4; 4; 4; 4; 4; 4; 4; 4; 4; 4; 4; 4; 4; 4; 4; 4; 4; 4; 4; 4; 4; 4; 4;
   4; 4; 4; 4; 4; 4; 4; 4; 4; 4; 4; 4; 4; 4; 4; 4; 4; 4; 4; 4; 4; 4; 0; 4; 0; 0;
   0; 4; 4; 0; 0; 4; 4; 4; 4; 4; 0; 0].

Definition LEAF_9A : list Z :=
  [4; 0; 4; 0; 0; 0; 0; 0; 0; 0; 0; 0; 0; 0; 0; 0; 0; 0; 0; 0; 0; 0; 0; 0; 0; 0;
   0; 4; 4; 4; 0; 0; 4; 4; 4; 4; 4; 4; 4; 4; 4; 4; 4; 0; 0; 0; 0; 0; 0; 0; 4; 4;
   4; 0; 0; 0; 0; 0; 0; 0; 0; 0; 0; 0].

Definition LEAF_9B : list Z :=
  [0; 4; 4; 4; 4; 4; 4; 0; 0; 4; 4; 4; 4; 4; 4; 0; 0; 4; 4; 4; 4; 4; 4; 0; 0; 0;
   0; 0; 0; 0; 0; 0; 4; 4; 4; 4; 4; 4; 4; 0; 4; 4; 4; 4; 4; 4; 4; 0; 12; 12; 12;
   12; 12; 12; 12; 12; 12; 12; 12; 12; 12; 12; 12; 12].

Definition LEAF_9C : list Z :=
  [12; 12; 12; 12; 12; 12; 12; 12; 12; 12; 12; 12; 12; 12; 12; 12; 12; 12; 12; 12;
   12; 12; 12; 12; 12; 12; 12; 0; 4; 4; 4; 4; 12; 12; 12; 12; 12; 12; 0; 0; 0; 0;
   0; 0; 0; 0; 0; 0; 12; 12; 12; 12; 12; 12; 12; 12; 12; 12; 12; 12; 12; 12; 12; 12].

Definition LEAF_9D : list Z :=
  [12; 12; 12; 12; 12; 12; 12; 12; 12; 12; 12; 12; 12; 12; 12; 12; 12; 12; 12; 12;
   12; 12; 12; 12; 12; 12; 12; 12; 12; 12; 12; 12; 12; 12; 12; 12; 12; 12; 12; 12;
   12; 12; 12; 12; 12; 12; 12; 12; 12; 12; 12; 12; 12; 12; 12; 12; 12; 12; 12; 12;
   12; 12; 12; 12].

Definition LEAF_9E : list Z :=
  [4; 4; 4; 4; 4; 4; 4; 4; 4; 4; 4; 4; 4; 4; 4; 4; 4; 4; 4; 4; 4; 4; 4; 4; 4; 4;
   4; 4; 4; 4; 4; 4; 4; 4; 4; 0; 0; 0; 0; 0; 0; 0; 0; 0; 0; 0; 0; 0; 2; 2; 2; 2;
   2; 2; 2; 2; 2; 2; 0; 0; 0; 0; 0; 0].

Definition LEAF_9F : list Z :=
  [4; 4; 4; 4; 4; 4; 4; 4; 4; 4; 4; 4; 4; 4; 4; 4; 4; 4; 4; 4; 4; 4; 4; 4; 4; 4;
   4; 4; 4; 4; 4; 4; 4; 4; 4; 4; 0; 0; 0; 0; 0; 0; 0; 0; 0; 0; 0; 0; 4; 4; 4; 4;
   4; 4; 4; 4; 4; 4; 4; 4; 4; 4; 4; 4].

Definition LEAF_A0 : list Z :=
  [4; 4; 4; 4; 4; 4; 4; 0; 0; 0; 0; 4; 4; 4; 4; 4; 4; 4; 4; 4; 4; 4; 4; 4; 4; 4;
   4; 4; 4; 4; 4; 4; 4; 4; 4; 4; 4; 4; 4; 4; 4; 4; 4; 4; 4; 4; 4; 4; 4; 4; 4; 4;
   4; 4; 4; 4; 4; 4; 4; 4; 0; 0; 0; 0].

Definition LEAF_A1 : list Z :=
  [4; 4; 4; 4; 4; 4; 4; 4; 4; 4; 4; 4; 4; 4; 4; 4; 4; 4; 4; 4; 4; 4; 4; 4; 4; 4;
   4; 4; 4; 4; 4; 4; 4; 4; 4; 4; 4; 4; 4; 4; 4; 4; 4; 4; 4; 4; 0; 0; 4; 4; 4; 4;
   4; 4; 4; 4; 4; 4; 4; 4; 4; 4; 4; 4].

Definition LEAF_A2 : list Z :=
  [4; 4; 4; 4; 4; 4; 4; 4; 4; 4; 4; 4; 4; 4; 4; 4; 4; 4; 4; 4; 4; 4; 4; 4; 4; 4;
   0; 0; 0; 0; 0; 0; 0; 0; 0; 0; 0; 0; 0; 0; 0; 0; 0; 0; 0; 0; 0; 0; 0; 0; 0; 0;
   0; 0; 0; 0; 0; 0; 0; 0; 0; 0; 0; 0].

Definition LEAF_A3 : list Z :=
  [12; 12; 12; 12; 12; 12; 12; 0; 0; 0; 0; 0; 0; 0; 0; 0; 0; 0; 0; 12; 12; 12; 12;
   12; 0; 0; 0; 0; 0; 4; 0; 4; 4; 4; 4; 4; 4; 4; 4; 4; 4; 0; 4; 4; 4; 4; 4; 4; 4;
   4; 4; 4; 4; 4; 4; 0; 4; 4; 4; 4; 4; 0; 4; 0].

Definition LEAF_A4 : list Z :=
  [4; 4; 0; 4; 4; 0; 4; 4; 4; 4; 4; 4; 4; 4; 4; 4; 4; 4; 4; 4; 4; 4; 4; 4; 4; 4;
   4; 4; 4; 4; 4; 4; 4; 4; 4; 4; 4; 4; 4; 4; 4; 4; 4; 4; 4; 4; 4; 4; 4; 4; 4; 4;
   4; 4; 4; 4; 4; 4; 4; 4; 4; 4; 4; 4].

Definition LEAF_A5 : list Z :=
  [4; 4; 4; 4; 4; 4; 4; 4; 4; 4; 4; 4; 4; 4; 4; 4; 4; 4; 4; 4; 4; 4; 4; 4; 4; 4;
   4; 4; 4; 4; 4; 4; 4; 4; 4; 4; 4; 4; 4; 4; 4; 4; 4; 4; 4; 4; 4; 4; 4; 4; 0; 0;
   0; 0; 0; 0; 0; 0; 0; 0; 0; 0; 0; 0].

Definition LEAF_A6 : list Z :=
  [0; 0; 0; 0; 0; 0; 0; 0; 0; 0; 0; 0; 0; 0; 0; 0; 0; 0; 0; 4; 4; 4; 4; 4; 4; 4;
   4; 4; 4; 4; 4; 4; 4; 4; 4; 4; 4; 4; 4; 4; 4; 4; 4; 4; 4; 4; 4; 4; 4; 4; 4; 4;
   4; 4; 4; 4; 4; 4; 4; 4; 4; 4; 4; 4].

Definition LEAF_A7 : list Z :=
  [4; 4; 4; 4; 4; 4; 4; 4; 4; 4; 4; 4; 4; 4; 4; 4; 4; 4; 4; 4; 4; 4; 4; 4; 4; 4;
   4; 4; 4; 4; 4; 4; 4; 4; 4; 4; 4; 4; 4; 4; 4; 4; 4; 4; 4; 4; 4; 4; 4; 4; 4; 4;
   4; 4; 4; 4; 4; 4; 4; 4; 4; 4; 0; 0].

Definition LEAF_A8 : list Z :=
  [0; 0; 0; 0; 0; 0; 0; 0; 0; 0; 0; 0; 0; 0; 0; 0; 4; 4; 4; 4; 4; 4; 4; 4; 4; 4;
   4; 4; 4; 4; 4; 4; 4; 4; 4; 4; 4; 4; 4; 4; 4; 4; 4; 4; 4; 4; 4; 4; 4; 4; 4; 4;
   4; 4; 4; 4; 4; 4; 4; 4; 4; 4; 4; 4].

Definition LEAF_A9 : list Z :=
  [4; 4; 4; 4; 4; 4; 4; 4; 4; 4; 4; 4; 4; 4; 4; 4; 0; 0; 4; 4; 4; 4; 4; 4; 4; 4;
   4; 4; 4; 4; 4; 4; 4; 4; 4; 4; 4; 4; 4; 4; 4; 4; 4; 4; 4; 4; 4; 4; 4; 4; 4; 4;
   4; 4; 4; 4; 4; 4; 4; 4; 4; 4; 4; 4].

Definition LEAF_AA : list Z :=
  [4; 4; 4; 4; 4; 4; 4; 4; 0; 0; 0; 0; 0; 0; 0; 0; 0; 0; 0; 0; 0; 0; 0; 0; 0; 0;
   0; 0; 0; 0; 0; 0; 0; 0; 0; 0; 0; 0; 0; 0; 0; 0; 0; 0; 0; 0; 0; 0; 4; 4; 4; 4;
   4; 4; 4; 4; 4; 4; 4; 4; 0; 0; 0; 0].

Definition LEAF_AB : list Z :=
  [0; 0; 0; 0; 0; 0; 0; 0; 0; 0; 0; 0; 0; 0; 0; 0; 0; 0; 0; 0; 0; 0; 0; 0; 0; 0;
   0; 0; 0; 0; 0; 0; 0; 0; 0; 0; 0; 0; 0; 0; 0; 0; 0; 0; 0; 0; 0; 0; 4; 4; 4; 4;
   4; 0; 4; 4; 4; 4; 4; 4; 4; 4; 4; 4].

Definition LEAF_AC : list Z :=
  [4; 4; 4; 4; 4; 4; 4; 4; 4; 4; 4; 4; 4; 4; 4; 4; 4; 4; 4; 4; 4; 4; 4; 4; 4; 4;
   4; 4; 4; 4; 4; 4; 4; 4; 4; 4; 4; 4; 4; 4; 4; 4; 4; 4; 4; 4; 4; 4; 4; 4; 4; 4;
   4; 4; 4; 4; 4; 4; 4; 4; 4; 0; 0; 0].

Definition LEAF_AD : list Z :=
  [0; 0; 0; 0; 0; 0; 0; 0; 0; 0; 0; 0; 0; 0; 0; 0; 2; 2; 2; 2; 2; 2; 2; 2; 2; 2;
   0; 0; 0; 0; 0; 0; 0; 36; 36; 36; 36; 36; 36; 36; 36; 36; 36; 36; 36; 36; 36;
   36; 36; 36; 36; 36; 36; 36; 36; 36; 36; 36; 36; 0; 0; 0; 0; 0].

Definition LEAF_AE : list Z :=
  [0; 12; 12; 12; 12; 12; 12; 12; 12; 12; 12; 12; 12; 12; 12; 12; 12; 12; 12; 12;
   12; 12; 12; 12; 12; 12; 12; 0; 0; 0; 0; 0; 0; 0; 0; 0; 0; 0; 4; 4; 4; 4; 4; 4;
   4; 4; 4; 4; 4; 4; 4; 4; 4; 4; 4; 4; 4; 4; 4; 4; 4; 4; 4; 4].

Definition LEAF_AF : list Z :=
  [4; 4; 4; 4; 4; 4; 4; 4; 4; 4; 4; 4; 4; 4; 4; 4; 4; 4; 4; 4; 4; 4; 4; 4; 4; 4;
   4; 4; 4; 4; 4; 4; 4; 4; 4; 4; 4; 4; 4; 4; 4; 4; 4; 4; 4; 4; 4; 4; 4; 4; 4; 4;
   4; 4; 4; 4; 4; 4; 4; 4; 4; 4; 4; 0].

Definition LEAF_B0 : list Z :=
  [0; 0; 4; 4; 4; 4; 4; 4; 0; 0; 4; 4; 4; 4; 4; 4; 0; 0; 4; 4; 4; 4; 4; 4; 0; 0;
   4; 4; 4; 0; 0; 0; 0; 0; 0; 0; 0; 0; 0; 0; 0; 0; 0; 0; 0; 0; 0; 0; 0; 0; 0; 0;
   0; 0; 0; 0; 0; 0; 0; 0; 0; 0; 0; 0].

Definition LEAF_B1 : list Z :=
  [4; 4; 4; 4; 4; 4; 4; 4; 4; 4; 4; 4; 0; 4; 4; 4; 4; 4; 4; 4; 4; 4; 4; 4; 4; 4;
   4; 4; 4; 4; 4; 4; 4; 4; 4; 4; 4; 4; 4; 0; 4; 4; 4; 4; 4; 4; 4; 4; 4; 4; 4; 4;
   4; 4; 4; 4; 4; 4; 4; 0; 4; 4; 0; 4].

Definition LEAF_B2 : list Z :=
  [4; 4; 4; 4; 4; 4; 4; 4; 4; 4; 4; 4; 4; 4; 0; 0; 4; 4; 4; 4; 4; 4; 4; 4; 4; 4;
   4; 4; 4; 4; 0; 0; 0; 0; 0; 0; 0; 0; 0; 0; 0; 0; 0; 0; 0; 0; 0; 0; 0; 0; 0; 0;
   0; 0; 0; 0; 0; 0; 0; 0; 0; 0; 0; 0].

Definition LEAF_B3 : list Z :=
  [4; 4; 4; 4; 4; 4; 4; 4; 4; 4; 4; 4; 4; 4; 4; 4; 4; 4; 4; 4; 4; 4; 4; 4; 4; 4;
   4; 4; 4; 4; 4; 4; 4; 4; 4; 4; 4; 4; 4; 4; 4; 4; 4; 4; 4; 4; 4; 4; 4; 4; 4; 4;
   4; 4; 4; 4; 4; 4; 4; 0; 0; 0; 0; 0].

Definition LEAF_B4 : list Z :=
  [0; 0; 0; 0; 0; 0; 0; 2; 2; 2; 2; 2; 2; 2; 2; 2; 2; 2; 2; 2; 2; 2; 2; 2; 2; 2;
   2; 2; 2; 2; 2; 2; 2; 2; 2; 2; 2; 2; 2; 2; 2; 2; 2; 2; 2; 2; 2; 2; 2; 2; 2; 2;
   0; 0; 0; 0; 0; 0; 0; 0; 0; 0; 0; 0].

Definition LEAF_B5 : list Z :=
  [2; 2; 2; 2; 2; 2; 2; 2; 2; 2; 2; 2; 2; 2; 2; 2; 2; 2; 2; 2; 2; 2; 2; 2; 2; 2;
   2; 2; 2; 2; 2; 2; 2; 2; 2; 2; 2; 2; 2; 2; 2; 2; 2; 2; 2; 2; 2; 2; 2; 2; 2; 2;
   2; 2; 2; 2; 2; 0; 0; 0; 0; 0; 0; 0].

Definition LEAF_B6 : list Z :=
  [0; 0; 0; 0; 0; 0; 0; 0; 0; 0; 2; 2; 0; 0; 0; 0; 0; 0; 0; 0; 0; 0; 0; 0; 0; 0;
   0; 0; 0; 0; 0; 0; 0; 0; 0; 0; 0; 0; 0; 0; 0; 0; 0; 0; 0; 0; 0; 0; 0; 0; 0; 0;
   0; 0; 0; 0; 0; 0; 0; 0; 0; 0; 0; 0].

Definition LEAF_B7 : list Z :=
  [4; 4; 4; 4; 4; 4; 4; 4; 4; 4; 4; 4; 4; 4; 4; 4; 4; 4; 4; 4; 4; 4; 4; 4; 4; 4;
   4; 4; 4; 0; 0; 0; 4; 4; 4; 4; 4; 4; 4; 4; 4; 4; 4; 4; 4; 4; 4; 4; 4; 4; 4; 4;
   4; 4; 4; 4; 4; 4; 4; 4; 4; 4; 4; 4].

Definition LEAF_B8 : list Z :=
  [4; 4; 4; 4; 4; 4; 4; 4; 4; 4; 4; 4; 4; 4; 4; 4; 4; 0; 0; 0; 0; 0; 0; 0; 0; 0;
   0; 0; 0; 0; 0; 0; 0; 2; 2; 2; 2; 2; 2; 2; 2; 2; 2; 2; 2; 2; 2; 2; 2; 2; 2; 2;
   2; 2; 2; 2; 2; 2; 2; 2; 0; 0; 0; 0].

Definition LEAF_B9 : list Z :=
  [4; 4; 4; 4; 4; 4; 4; 4; 4; 4; 4; 4; 4; 4; 4; 4; 4; 4; 4; 4; 4; 4; 4; 4; 4; 4;
   4; 4; 4; 4; 4; 4; 2; 2; 2; 2; 0; 0; 0; 0; 0; 0; 0; 0; 0; 0; 0; 0; 4; 4; 4; 4;
   4; 4; 4; 4; 4; 4; 4; 4; 4; 4; 4; 4].

Definition LEAF_BA : list Z :=
  [4; 2; 4; 4; 4; 4; 4; 4; 4; 4; 2; 0; 0; 0; 0; 0; 4; 4; 4; 4; 4; 4; 4; 4; 4; 4;
   4; 4; 4; 4; 4; 4; 4; 4; 4; 4; 4; 4; 4; 4; 4; 4; 4; 4; 4; 4; 4; 4; 4; 4; 4; 4;
   4; 4; 0; 0; 0; 0; 0; 0; 0; 0; 0; 0].

Definition LEAF_BB : list Z :=
  [4; 4; 4; 4; 4; 4; 4; 4; 4; 4; 4; 4; 4; 4; 4; 4; 4; 4; 4; 4; 4; 4; 4; 4; 4; 4;
   4; 4; 4; 4; 0; 0; 4; 4; 4; 4; 4; 4; 4; 4; 4; 4; 4; 4; 4; 4; 4; 4; 4; 4; 4; 4;
   4; 4; 4; 4; 4; 4; 4; 4; 4; 4; 4; 4].

Definition LEAF_BC : list Z :=
  [4; 4; 4; 4; 0; 0; 0; 0; 4; 4; 4; 4; 4; 4; 4; 4; 0; 2; 2; 2; 2; 2; 0; 0; 0; 0;
   0; 0; 0; 0; 0; 0; 0; 0; 0; 0; 0; 0; 0; 0; 0; 0; 0; 0; 0; 0; 0; 0; 0; 0; 0; 0;
   0; 0; 0; 0; 0; 0; 0; 0; 0; 0; 0; 0].

Definition LEAF_BD : list Z :=
  [36; 36; 36; 36; 36; 36; 36; 36; 36; 36; 36; 36; 36; 36; 36; 36; 36; 36; 36; 36;
   36; 36; 36; 36; 36; 36; 36; 36; 36; 36; 36; 36; 36; 36; 36; 36; 36; 36; 36; 36;
   12; 12; 12; 12; 12; 12; 12; 12; 12; 12; 12; 12; 12; 12; 12; 12; 12; 12; 12; 12;
   12; 12; 12; 12].

Definition LEAF_BE : list Z :=
  [12; 12; 12; 12; 12; 12; 12; 12; 12; 12; 12; 12; 12; 12; 12; 12; 4; 4; 4; 4; 4;
   4; 4; 4; 4; 4; 4; 4; 4; 4; 4; 4; 4; 4; 4; 4; 4; 4; 4; 4; 4; 4; 4; 4; 4; 4; 4;
   4; 4; 4; 4; 4; 4; 4; 4; 4; 4; 4; 4; 4; 4; 4; 4; 4].

Definition LEAF_BF : list Z :=
  [4; 4; 4; 4; 4; 4; 4; 4; 4; 4; 4; 4; 4; 4; 4; 4; 4; 4; 4; 4; 4; 4; 4; 4; 4; 4;
   4; 4; 4; 4; 0; 0; 2; 2; 2; 2; 2; 2; 2; 2; 2; 2; 0; 0; 0; 0; 0; 0; 0; 0; 0; 0;
   0; 0; 0; 0; 0; 0; 0; 0; 0; 0; 0; 0].

Definition LEAF_C0 : list Z :=
  [4; 4; 4; 4; 4; 4; 4; 4; 4; 4; 4; 4; 4; 4; 4; 4; 4; 4; 4; 4; 4; 4; 4; 4; 4; 4;
   4; 4; 4; 4; 4; 4; 4; 4; 4; 4; 4; 4; 4; 4; 0; 0; 0; 0; 0; 0; 0; 0; 4; 4; 4; 4;
   4; 4; 4; 4; 4; 4; 4; 4; 4; 4; 4; 4].

Definition LEAF_C1 : list Z :=
  [4; 4; 4; 4; 4; 4; 4; 4; 4; 4; 4; 4; 4; 4; 4; 4; 4; 4; 4; 4; 4; 4; 4; 4; 4; 4;
   4; 4; 4; 4; 4; 4; 4; 4; 4; 4; 4; 4; 4; 4; 4; 4; 4; 4; 4; 4; 4; 4; 4; 4; 4; 4;
   4; 4; 4; 0; 0; 0; 0; 0; 0; 0; 0; 0].

Definition LEAF_C2 : list Z :=
  [4; 4; 4; 4; 4; 4; 4; 4; 4; 4; 4; 4; 4; 4; 4; 4; 4; 4; 4; 4; 4; 4; 0; 0; 0; 0;
   0; 0; 0; 0; 0; 0; 4; 4; 4; 4; 4; 4; 4; 4; 0; 0; 0; 0; 0; 0; 0; 0; 0; 0; 0; 0;
   0; 0; 0; 0; 0; 0; 0; 0; 0; 0; 0; 0].

Definition LEAF_C3 : list Z :=
  [4; 4; 4; 4; 4; 4; 0; 0; 4; 0; 4; 4; 4; 4; 4; 4; 4; 4; 4; 4; 4; 4; 4; 4; 4; 4;
   4; 4; 4; 4; 4; 4; 4; 4; 4; 4; 4; 4; 4; 4; 4; 4; 4; 4; 4; 4; 4; 4; 4; 4; 4; 4;
   4; 4; 0; 4; 4; 0; 0; 0; 4; 0; 0; 4].

Definition LEAF_C4 : list Z :=
  [4; 4; 4; 4; 4; 4; 4; 4; 4; 4; 4; 4; 4; 4; 4; 4; 4; 4; 4; 4; 4; 4; 0; 0; 2; 2;
   2; 2; 2; 2; 2; 2; 4; 4; 4; 4; 4; 4; 4; 4; 4; 4; 4; 4; 4; 4; 4; 4; 4; 4; 4; 4;
   4; 4; 4; 0; 0; 2; 2; 2; 2; 2; 2; 2].

Definition LEAF_C5 : list Z :=
  [4; 4; 4; 4; 4; 4; 4; 4; 4; 4; 4; 4; 4; 4; 4; 4; 4; 4; 4; 4; 4; 4; 4; 4; 4; 4;
   4; 4; 4; 4; 4; 0; 0; 0; 0; 0; 0; 0; 0; 2; 2; 2; 2; 2; 2; 2; 2; 2; 0; 0; 0; 0;
   0; 0; 0; 0; 0; 0; 0; 0; 0; 0; 0; 0].

Definition LEAF_C6 : list Z :=
  [0; 0; 0; 0; 0; 0; 0; 0; 0; 0; 0; 0; 0; 0; 0; 0; 0; 0; 0; 0; 0; 0; 0; 0; 0; 0;
   0; 0; 0; 0; 0; 0; 4; 4; 4; 4; 4; 4; 4; 4; 4; 4; 4; 4; 4; 4; 4; 4; 4; 4; 4; 0;
   4; 4; 0; 0; 0; 0; 0; 2; 2; 2; 2; 2].

Definition LEAF_C7 : list Z :=
  [4; 4; 4; 4; 4; 4; 4; 4; 4; 4; 4; 4; 4; 4; 4; 4; 4; 4; 4; 4; 4; 4; 2; 2; 2; 2;
   2; 2; 0; 0; 0; 0; 4; 4; 4; 4; 4; 4; 4; 4; 4; 4; 4; 4; 4; 4; 4; 4; 4; 4; 4; 4;
   4; 4; 4; 4; 4; 4; 0; 0; 0; 0; 0; 0].

Definition LEAF_C8 : list Z :=
  [4; 4; 4; 4; 4; 4; 4; 4; 4; 4; 4; 4; 4; 4; 4; 4; 4; 4; 4; 4; 4; 4; 4; 4; 4; 4;
   4; 4; 4; 4; 4; 4; 4; 4; 4; 4; 4; 4; 4; 4; 4; 4; 4; 4; 4; 4; 4; 4; 4; 4; 4; 4;
   4; 4; 4; 4; 0; 0; 0; 0; 2; 2; 4; 4].

Definition LEAF_C9 : list Z :=
  [2; 2; 2; 2; 2; 2; 2; 2; 2; 2; 2; 2; 2; 2; 2; 2; 0; 0; 2; 2; 2; 2; 2; 2; 2; 2;
   2; 2; 2; 2; 2; 2; 2; 2; 2; 2; 2; 2; 2; 2; 2; 2; 2; 2; 2; 2; 2; 2; 2; 2; 2; 2;
   2; 2; 2; 2; 2; 2; 2; 2; 2; 2; 2; 2].

Definition LEAF_CA : list Z :=
  [4; 0; 0; 0; 0; 0; 0; 0; 0; 0; 0; 0; 0; 0; 0; 0; 4; 4; 4; 4; 0; 4; 4; 4; 0; 4;
   4; 4; 4; 4; 4; 4; 4; 4; 4; 4; 4; 4; 4; 4; 4; 4; 4; 4; 4; 4; 4; 4; 4; 4; 4; 4;
   0; 0; 0; 0; 0; 0; 0; 0; 0; 0; 0; 0].

Definition LEAF_CB : list Z :=
  [2; 2; 2; 2; 2; 2; 2; 2; 0; 0; 0; 0; 0; 0; 0; 0; 0; 0; 0; 0; 0; 0; 0; 0; 0; 0;
   0; 0; 0; 0; 0; 0; 4; 4; 4; 4; 4; 4; 4; 4; 4; 4; 4; 4; 4; 4; 4; 4; 4; 4; 4; 4;
   4; 4; 4; 4; 4; 4; 4; 4; 4; 2; 2; 0].

Definition LEAF_CC : list Z :=
  [4; 4; 4; 4; 4; 4; 4; 4; 4; 4; 4; 4; 4; 4; 4; 4; 4; 4; 4; 4; 4; 4; 4; 4; 4; 4;
   4; 4; 4; 2; 2; 2; 0; 0; 0; 0; 0; 0; 0; 0; 0; 0; 0; 0; 0; 0; 0; 0; 0; 0; 0; 0;
   0; 0; 0; 0; 0; 0; 0; 0; 0; 0; 0; 0].

Definition LEAF_CD : list Z :=
  [4; 4; 4; 4; 4; 4; 4; 4; 0; 4; 4; 4; 4; 4; 4; 4; 4; 4; 4; 4; 4; 4; 4; 4; 4; 4;
   4; 4; 4; 4; 4; 4; 4; 4; 4; 4; 4; 0; 0; 0; 0; 0; 0; 2; 2; 2; 2; 2; 0; 0; 0; 0;
   0; 0; 0; 0; 0; 0; 0; 0; 0; 0; 0; 0].

Definition LEAF_CE : list Z :=
  [4; 4; 4; 4; 4; 4; 4; 4; 4; 4; 4; 4; 4; 4; 4; 4; 4; 4; 4; 4; 4; 4; 0; 0; 2; 2;
   2; 2; 2; 2; 2; 2; 4; 4; 4; 4; 4; 4; 4; 4; 4; 4; 4; 4; 4; 4; 4; 4; 4; 4; 4; 0;
   0; 0; 0; 0; 2; 2; 2; 2; 2; 2; 2; 2].

Definition LEAF_CF : list Z :=
  [4; 4; 4; 4; 4; 4; 4; 4; 4; 4; 4; 4; 4; 4; 4; 4; 4; 4; 0; 0; 0; 0; 0; 0; 0; 0;
   0; 0; 0; 0; 0; 0; 0; 0; 0; 0; 0; 0; 0; 0; 0; 2; 2; 2; 2; 2; 2; 2; 0; 0; 0; 0;
   0; 0; 0; 0; 0; 0; 0; 0; 0; 0; 0; 0].

Definition LEAF_D0 : list Z :=
  [4; 4; 4; 4; 4; 4; 4; 4; 4; 0; 0; 0; 0; 0; 0; 0; 0; 0; 0; 0; 0; 0; 0; 0; 0; 0;
   0; 0; 0; 0; 0; 0; 0; 0; 0; 0; 0; 0; 0; 0; 0; 0; 0; 0; 0; 0; 0; 0; 0; 0; 0; 0;
   0; 0; 0; 0; 0; 0; 0; 0; 0; 0; 0; 0].

Definition LEAF_D1 : list Z :=
  [36; 36; 36; 36; 36; 36; 36; 36; 36; 36; 36; 36; 36; 36; 36; 36; 36; 36; 36; 36;
   36; 36; 36; 36; 36; 36; 36; 36; 36; 36; 36; 36; 36; 36; 36; 36; 36; 36; 36; 36;
   36; 36; 36; 36; 36; 36; 36; 36; 36; 36; 36; 0; 0; 0; 0; 0; 0; 0; 0; 0; 0; 0; 0;
   0].

Definition LEAF_D2 : list Z :=
  [12; 12; 12; 12; 12; 12; 12; 12; 12; 12; 12; 12; 12; 12; 12; 12; 12; 12; 12; 12;
   12; 12; 12; 12; 12; 12; 12; 12; 12; 12; 12; 12; 12; 12; 12; 12; 12; 12; 12; 12;
   12; 12; 12; 12; 12; 12; 12; 12; 12; 12; 12; 0; 0; 0; 0; 0; 0; 0; 2; 2; 2; 2; 2;
   2].

Definition LEAF_D3 : list Z :=
  [0; 0; 0; 0; 0; 0; 0; 0; 0; 0; 0; 0; 0; 0; 0; 0; 0; 0; 0; 0; 0; 0; 0; 0; 0; 0;
   0; 0; 0; 0; 0; 0; 2; 2; 2; 2; 2; 2; 2; 2; 2; 2; 2; 2; 2; 2; 2; 2; 2; 2; 2; 2;
   2; 2; 2; 2; 2; 2; 2; 2; 2; 2; 2; 0].

Definition LEAF_D4 : list Z :=
  [0; 0; 0; 4; 4; 4; 4; 4; 4; 4; 4; 4; 4; 4; 4; 4; 4; 4; 4; 4; 4; 4; 4; 4; 4; 4;
   4; 4; 4; 4; 4; 4; 4; 4; 4; 4; 4; 4; 4; 4; 4; 4; 4; 4; 4; 4; 4; 4; 4; 4; 4; 4;
   4; 4; 4; 4; 0; 0; 0; 0; 0; 0; 0; 0].

Definition LEAF_D5 : list Z :=
  [0; 0; 0; 0; 0; 0; 0; 0; 0; 0; 0; 0; 0; 0; 0; 0; 0; 0; 2; 2; 2; 2; 2; 2; 2; 2;
   2; 2; 2; 2; 2; 2; 2; 2; 2; 2; 2; 2; 2; 2; 2; 2; 2; 2; 2; 2; 2; 2; 0; 0; 0; 0;
   0; 0; 0; 0; 0; 0; 0; 0; 0; 0; 0; 0].

Definition LEAF_D6 : list Z :=
  [0; 0; 0; 4; 4; 4; 4; 4; 4; 4; 4; 4; 4; 4; 4; 4; 4; 4; 4; 4; 4; 4; 4; 4; 4; 4;
   4; 4; 4; 4; 4; 4; 4; 4; 4; 4; 4; 4; 4; 4; 4; 4; 4; 4; 4; 4; 4; 4; 0; 0; 0; 0;
   0; 0; 0; 0; 0; 0; 0; 0; 0; 0; 0; 0].

Definition LEAF_D7 : list Z :=
  [0; 0; 0; 0; 0; 0; 0; 0; 0; 0; 0; 0; 0; 0; 0; 0; 4; 4; 4; 4; 4; 4; 4; 4; 4; 4;
   4; 4; 4; 4; 4; 4; 4; 4; 4; 4; 4; 4; 4; 4; 4; 0; 0; 0; 0; 0; 0; 0; 2; 2; 2; 2;
   2; 2; 2; 2; 2; 2; 0; 0; 0; 0; 0; 0].

Definition LEAF_D8 : list Z :=
  [0; 0; 0; 4; 4; 4; 4; 4; 4; 4; 4; 4; 4; 4; 4; 4; 4; 4; 4; 4; 4; 4; 4; 4; 4; 4;
   4; 4; 4; 4; 4; 4; 4; 4; 4; 4; 4; 4; 4; 0; 0; 0; 0; 0; 0; 0; 0; 0; 0; 0; 0; 0;
   0; 0; 2; 2; 2; 2; 2; 2; 2; 2; 2; 2].

Definition LEAF_D9 : list Z :=
  [0; 0; 0; 0; 0; 0; 0; 0; 0; 0; 0; 0; 0; 0; 0; 0; 4; 4; 4; 4; 4; 4; 4; 4; 4; 4;
   4; 4; 4; 4; 4; 4; 4; 4; 4; 4; 4; 4; 4; 4; 4; 4; 4; 4; 4; 4; 4; 4; 4; 4; 4; 0;
   0; 0; 4; 0; 0; 0; 0; 0; 0; 0; 0; 0].

Definition LEAF_DA : list Z :=
  [0; 0; 0; 4; 4; 4; 4; 4; 4; 4; 4; 4; 4; 4; 4; 4; 4; 4; 4; 4; 4; 4; 4; 4; 4; 4;
   4; 4; 4; 4; 4; 4; 4; 4; 4; 4; 4; 4; 4; 4; 4; 4; 4; 4; 4; 4; 4; 4; 4; 4; 4; 0;
   0; 0; 0; 0; 0; 0; 0; 0; 0; 0; 0; 0].

Definition LEAF_DB : list Z :=
  [0; 4; 4; 4; 4; 0; 0; 0; 0; 0; 0; 0; 0; 0; 0; 0; 2; 2; 2; 2; 2; 2; 2; 2; 2; 2;
   4; 0; 4; 0; 0; 0; 0; 2; 2; 2; 2; 2; 2; 2; 2; 2; 2; 2; 2; 2; 2; 2; 2; 2; 2; 2;
   2; 0; 0; 0; 0; 0; 0; 0; 0; 0; 0; 0].

Definition LEAF_DC : list Z :=
  [4; 4; 4; 4; 4; 4; 4; 4; 4; 4; 4; 4; 4; 4; 4; 4; 4; 4; 0; 4; 4; 4; 4; 4; 4; 4;
   4; 4; 4; 4; 4; 4; 4; 4; 4; 4; 4; 4; 4; 4; 4; 4; 4; 4; 0; 0; 0; 0; 0; 0; 0; 0;
   0; 0; 0; 0; 0; 0; 0; 0; 0; 0; 0; 0].

Definition LEAF_DD : list Z :=
  [4; 4; 4; 4; 4; 4; 4; 0; 4; 0; 4; 4; 4; 4; 0; 4; 4; 4; 4; 4; 4; 4; 4; 4; 4; 4;
   4; 4; 4; 4; 0; 4; 4; 4; 4; 4; 4; 4; 4; 4; 4; 0; 0; 0; 0; 0; 0; 0; 4; 4; 4; 4;
   4; 4; 4; 4; 4; 4; 4; 4; 4; 4; 4; 4].

Definition LEAF_DE : list Z :=
  [4; 4; 4; 4; 4; 4; 4; 4; 4; 4; 4; 4; 4; 4; 4; 4; 4; 4; 4; 4; 4; 4; 4; 4; 4; 4;
   4; 4; 4; 4; 4; 0; 0; 0; 0; 0; 0; 0; 0; 0; 0; 0; 0; 0; 0; 0; 0; 0; 2; 2; 2; 2;
   2; 2; 2; 2; 2; 2; 0; 0; 0; 0; 0; 0].

Definition LEAF_DF : list Z :=
  [0; 0; 0; 0; 0; 0; 0; 0; 0; 0; 0; 0; 0; 0; 0; 0; 4; 0; 0; 0; 0; 0; 0; 0; 0; 0;
   0; 0; 0; 4; 4; 4; 4; 4; 0; 0; 0; 0; 0; 0; 0; 0; 0; 0; 0; 0; 0; 0; 0; 0; 0; 0;
   0; 0; 0; 0; 0; 0; 0; 0; 0; 0; 0; 0].

Definition LEAF_E0 : list Z :=
  [4; 4; 4; 4; 4; 4; 4; 4; 4; 4; 4; 4; 4; 4; 4; 4; 4; 4; 4; 4; 4; 4; 4; 4; 4; 4;
   4; 4; 4; 4; 4; 4; 4; 4; 4; 4; 4; 4; 4; 4; 4; 4; 4; 4; 4; 4; 4; 4; 0; 0; 0; 0;
   0; 0; 0; 0; 0; 0; 0; 0; 0; 0; 0; 0].

Definition LEAF_E1 : list Z :=
  [0; 0; 0; 0; 4; 4; 0; 4; 0; 0; 0; 0; 0; 0; 0; 0; 2; 2; 2; 2; 2; 2; 2; 2; 2; 2;
   0; 0; 0; 0; 0; 0; 0; 0; 0; 0; 0; 0; 0; 0; 0; 0; 0; 0; 0; 0; 0; 0; 0; 0; 0; 0;
   0; 0; 0; 0; 0; 0; 0; 0; 0; 0; 0; 0].

Definition LEAF_E2 : list Z :=
  [4; 4; 4; 4; 4; 4; 4; 4; 4; 4; 4; 4; 4; 4; 4; 4; 4; 4; 4; 4; 4; 4; 4; 4; 4; 4;
   4; 4; 4; 4; 4; 4; 4; 4; 4; 4; 4; 4; 4; 4; 4; 4; 4; 4; 4; 4; 4; 0; 0; 0; 0; 0;
   0; 0; 0; 0; 0; 0; 0; 0; 0; 0; 0; 0].

Definition LEAF_E3 : list Z :=
  [0; 0; 0; 0; 0; 0; 0; 0; 0; 0; 0; 0; 0; 0; 0; 0; 0; 0; 0; 0; 0; 0; 0; 0; 4; 4;
   4; 4; 0; 0; 0; 0; 0; 0; 0; 0; 0; 0; 0; 0; 0; 0; 0; 0; 0; 0; 0; 0; 0; 0; 0; 0;
   0; 0; 0; 0; 0; 0; 0; 0; 0; 0; 0; 0].

Definition LEAF_E4 : list Z :=
  [0; 0; 0; 0; 4; 0; 0; 0; 0; 0; 0; 0; 0; 0; 0; 0; 2; 2; 2; 2; 2; 2; 2; 2; 2; 2;
   0; 0; 0; 0; 0; 0; 0; 0; 0; 0; 0; 0; 0; 0; 0; 0; 0; 0; 0; 0; 0; 0; 0; 0; 0; 0;
   0; 0; 0; 0; 0; 0; 0; 0; 0; 0; 0; 0].

Definition LEAF_E5 : list Z :=
  [4; 4; 4; 4; 4; 4; 4; 4; 4; 4; 4; 4; 4; 4; 4; 4; 4; 4; 4; 4; 4; 4; 4; 4; 4; 4;
   4; 4; 4; 4; 4; 4; 4; 4; 4; 4; 4; 4; 4; 4; 4; 4; 4; 0; 0; 0; 0; 0; 0; 0; 0; 0;
   0; 0; 0; 0; 0; 0; 0; 0; 0; 0; 0; 0].

Definition LEAF_E6 : list Z :=
  [2; 2; 2; 2; 2; 2; 2; 2; 2; 2; 0; 0; 0; 0; 0; 0; 0; 0; 0; 0; 0; 0; 0; 0; 0; 0;
   0; 0; 0; 0; 0; 0; 0; 0; 0; 0; 0; 0; 0; 0; 0; 0; 0; 0; 0; 0; 0; 0; 0; 0; 0; 0;
   0; 0; 0; 0; 0; 0; 0; 0; 0; 0; 0; 0].

Definition LEAF_E7 : list Z :=
  [4; 4; 4; 4; 4; 4; 4; 4; 4; 4; 4; 4; 4; 4; 4; 4; 4; 4; 4; 4; 4; 4; 4; 4; 4; 4;
   0; 0; 0; 0; 0; 0; 0; 0; 0; 0; 0; 0; 0; 0; 0; 0; 0; 0; 0; 0; 0; 0; 2; 2; 2; 2;
   2; 2; 2; 2; 2; 2; 2; 2; 0; 0; 0; 0].

Definition LEAF_E8 : list Z :=
  [0; 0; 0; 0; 0; 0; 0; 0; 0; 0; 0; 0; 0; 0; 0; 0; 0; 0; 0; 0; 0; 0; 0; 0; 0; 0;
   0; 0; 0; 0; 0; 0; 36; 36; 36; 36; 36; 36; 36; 36; 36; 36; 36; 36; 36; 36; 36;
   36; 36; 36; 36; 36; 36; 36; 36; 36; 36; 36; 36; 36; 36; 36; 36; 36].

Definition LEAF_E9 : list Z :=
  [12; 12; 12; 12; 12; 12; 12; 12; 12; 12; 12; 12; 12; 12; 12; 12; 12; 12; 12; 12;
   12; 12; 12; 12; 12; 12; 12; 12; 12; 12; 12; 12; 2; 2; 2; 2; 2; 2; 2; 2; 2; 2;
   2; 2; 2; 2; 2; 2; 2; 2; 2; 0; 0; 0; 0; 0; 0; 0; 0; 0; 0; 0; 0; 4].

Definition LEAF_EA : list Z :=
  [4; 4; 4; 4; 4; 4; 4; 4; 4; 4; 4; 4; 4; 4; 4; 4; 4; 4; 4; 4; 4; 4; 4; 4; 4; 4;
   4; 4; 4; 4; 4; 4; 4; 4; 4; 4; 4; 4; 4; 4; 4; 4; 4; 4; 4; 4; 4; 4; 4; 4; 4; 4;
   4; 4; 4; 4; 4; 0; 0; 0; 0; 0; 0; 0].

Definition LEAF_EB : list Z :=
  [2; 2; 2; 2; 2; 2; 2; 2; 2; 2; 2; 2; 2; 2; 2; 2; 2; 2; 2; 2; 2; 2; 2; 2; 2; 2;
   2; 2; 2; 2; 2; 2; 2; 2; 2; 2; 2; 2; 2; 2; 2; 2; 2; 2; 2; 2; 2; 2; 2; 2; 2; 2;
   2; 2; 2; 2; 2; 2; 2; 2; 2; 2; 2; 2].

Definition LEAF_EC : list Z :=
  [2; 2; 2; 2; 2; 2; 2; 2; 2; 2; 2; 2; 2; 2; 2; 2; 2; 2; 2; 2; 2; 2; 2; 2; 2; 2;
   2; 2; 2; 2; 2; 2; 2; 2; 2; 2; 2; 2; 2; 2; 2; 2; 2; 2; 2; 2; 2; 0; 0; 0; 0; 0;
   0; 0; 0; 0; 0; 0; 0; 0; 0; 0; 0; 0].

Definition LEAF_ED : list Z :=
  [4; 4; 4; 4; 0; 0; 0; 0; 0; 0; 0; 0; 0; 0; 0; 0; 0; 0; 0; 0; 0; 0; 0; 0; 0; 0;
   0; 0; 0; 0; 0; 0; 0; 0; 0; 0; 0; 0; 0; 0; 0; 0; 0; 0; 0; 0; 0; 0; 0; 0; 0; 0;
   0; 0; 0; 0; 0; 0; 0; 0; 0; 0; 0; 0].

Definition LEAF_EE : list Z :=
  [4; 4; 4; 4; 4; 4; 4; 0; 0; 0; 0; 0; 0; 0; 0; 0; 0; 0; 0; 0; 0; 0; 0; 0; 0; 0;
   0; 0; 0; 0; 0; 0; 0; 0; 0; 0; 0; 0; 0; 0; 0; 0; 0; 0; 0; 0; 0; 0; 0; 0; 0; 0;
   0; 0; 0; 0; 0; 0; 0; 0; 0; 0; 0; 0].

Definition LEAF_EF : list Z :=
  [4; 4; 4; 4; 4; 4; 4; 4; 4; 4; 4; 4; 4; 4; 4; 4; 4; 4; 4; 4; 4; 4; 4; 4; 4; 4;
   4; 4; 4; 4; 4; 0; 2; 2; 2; 2; 2; 2; 2; 2; 2; 2; 0; 0; 0; 0; 0; 0; 0; 0; 0; 0;
   0; 0; 0; 0; 0; 0; 0; 0; 0; 0; 0; 0].

Definition LEAF_F0 : list Z :=
  [0; 0; 0; 0; 0; 0; 0; 0; 0; 0; 0; 0; 0; 0; 0; 0; 4; 4; 4; 4; 4; 4; 4; 4; 4; 4;
   4; 4; 4; 4; 4; 4; 4; 4; 4; 4; 4; 4; 4; 4; 4; 4; 4; 4; 4; 4; 0; 0; 0; 0; 0; 0;
   0; 0; 0; 0; 0; 0; 0; 0; 0; 0; 0; 0].

Definition LEAF_F1 : list Z :=
  [4; 4; 4; 4; 0; 0; 0; 0; 0; 0; 0; 0; 0; 0; 0; 0; 2; 2; 2; 2; 2; 2; 2; 2; 2; 2;
   0; 2; 2; 2; 2; 2; 2; 2; 0; 4; 4; 4; 4; 4; 4; 4; 4; 4; 4; 4; 4; 4; 4; 4; 4; 4;
   4; 4; 4; 4; 0; 0; 0; 0; 0; 4; 4; 4].

Definition LEAF_F2 : list Z :=
  [4; 4; 4; 4; 4; 4; 4; 4; 4; 4; 4; 4; 4; 4; 4; 4; 0; 0; 0; 0; 0; 0; 0; 0; 0; 0;
   0; 0; 0; 0; 0; 0; 0; 0; 0; 0; 0; 0; 0; 0; 0; 0; 0; 0; 0; 0; 0; 0; 0; 0; 0; 0;
   0; 0; 0; 0; 0; 0; 0; 0; 0; 0; 0; 0].

Definition LEAF_F3 : list Z :=
  [4; 4; 4; 4; 4; 0; 0; 0; 0; 0; 0; 0; 0; 0; 0; 0; 4; 0; 0; 0; 0; 0; 0; 0; 0; 0;
   0; 0; 0; 0; 0; 0; 0; 0; 0; 0; 0; 0; 0; 0; 0; 0; 0; 0; 0; 0; 0; 0; 0; 0; 0; 0;
   0; 0; 0; 0; 0; 0; 0; 0; 0; 0; 0; 0].

Definition LEAF_F4 : list Z :=
  [0; 0; 0; 0; 0; 0; 0; 0; 0; 0; 0; 0; 0; 0; 0; 0; 0; 0; 0; 4; 4; 4; 4; 4; 4; 4;
   4; 4; 4; 4; 4; 4; 0; 0; 0; 0; 0; 0; 0; 0; 0; 0; 0; 0; 0; 0; 0; 0; 0; 0; 0; 0;
   0; 0; 0; 0; 0; 0; 0; 0; 0; 0; 0; 0].

Definition LEAF_F5 : list Z :=
  [4; 4; 0; 0; 0; 0; 0; 0; 0; 0; 0; 0; 0; 0; 0; 0; 0; 0; 0; 0; 0; 0; 0; 0; 0; 0;
   0; 0; 0; 0; 0; 0; 0; 0; 0; 0; 0; 0; 0; 0; 0; 0; 0; 0; 0; 0; 0; 0; 0; 0; 0; 0;
   0; 0; 0; 0; 0; 0; 0; 0; 0; 0; 0; 0].

Definition LEAF_F6 : list Z :=
  [4; 4; 4; 4; 4; 4; 4; 4; 4; 4; 4; 4; 4; 4; 4; 4; 4; 4; 4; 4; 4; 4; 4; 4; 4; 4;
   4; 4; 4; 4; 4; 4; 4; 4; 4; 4; 4; 4; 4; 4; 4; 4; 4; 0; 0; 0; 0; 0; 4; 4; 4; 4;
   4; 4; 4; 4; 4; 4; 4; 4; 4; 0; 0; 0].

Definition LEAF_F7 : list Z :=
  [4; 4; 4; 4; 4; 4; 4; 4; 4; 0; 0; 0; 0; 0; 0; 0; 4; 4; 4; 4; 4; 4; 4; 4; 4; 4;
   0; 0; 0; 0; 0; 0; 0; 0; 0; 0; 0; 0; 0; 0; 0; 0; 0; 0; 0; 0; 0; 0; 0; 0; 0; 0;
   0; 0; 0; 0; 0; 0; 0; 0; 0; 0; 0; 0].

Definition LEAF_F8 : list Z :=
  [0; 0; 0; 0; 0; 0; 0; 0; 0; 0; 0; 0; 0; 0; 0; 0; 0; 0; 0; 0; 0; 0; 0; 0; 0; 0;
   0; 0; 0; 0; 0; 0; 2; 2; 2; 2; 2; 2; 2; 2; 2; 2; 2; 2; 2; 2; 2; 2; 2; 2; 0; 0;
   0; 0; 0; 0; 0; 0; 0; 0; 0; 0; 0; 0].

Definition LEAF_F9 : list Z :=
  [36; 36; 36; 36; 36; 36; 36; 36; 36; 36; 36; 36; 36; 36; 36; 36; 36; 36; 36; 36;
   36; 36; 36; 36; 36; 36; 12; 12; 12; 12; 12; 12; 12; 12; 12; 12; 12; 12; 12; 12;
   12; 12; 12; 12; 12; 12; 12; 12; 12; 12; 12; 12; 36; 36; 36; 36; 36; 36; 36; 36;
   36; 36; 36; 36].

Definition LEAF_FA : list Z :=
  [36; 36; 36; 36; 36; 36; 36; 36; 36; 36; 36; 36; 36; 36; 12; 12; 12; 12; 12; 12;
   12; 0; 12; 12; 12; 12; 12; 12; 12; 12; 12; 12; 12; 12; 12; 12; 12; 12; 12; 12;
   36; 36; 36; 36; 36; 36; 36; 36; 36; 36; 36; 36; 36; 36; 36; 36; 36; 36; 36; 36;
   36; 36; 36; 36].

Definition LEAF_FB : list Z :=
  [36; 36; 12; 12; 12; 12; 12; 12; 12; 12; 12; 12; 12; 12; 12; 12; 12; 12; 12; 12;
   12; 12; 12; 12; 12; 12; 12; 12; 36; 0; 36; 36; 0; 0; 36; 0; 0; 36; 36; 0; 0;
   36; 36; 36; 36; 0; 36; 36; 36; 36; 36; 36; 36; 36; 12; 12; 12; 12; 0; 12; 0;
   12; 12; 12].

Definition LEAF_FC : list Z :=
  [12; 12; 12; 12; 0; 12; 12; 12; 12; 12; 12; 12; 12; 12; 12; 12; 36; 36; 36; 36;
   36; 36; 36; 36; 36; 36; 36; 36; 36; 36; 36; 36; 36; 36; 36; 36; 36; 36; 36; 36;
   36; 36; 12; 12; 12; 12; 12; 12; 12; 12; 12; 12; 12; 12; 12; 12; 12; 12; 12; 12;
   12; 12; 12; 12].

Definition LEAF_FD : list Z :=
  [12; 12; 12; 12; 36; 36; 0; 36; 36; 36; 36; 0; 0; 36; 36; 36; 36; 36; 36; 36;
   36; 0; 36; 36; 36; 36; 36; 36; 36; 0; 12; 12; 12; 12; 12; 12; 12; 12; 12; 12;
   12; 12; 12; 12; 12; 12; 12; 12; 12; 12; 12; 12; 12; 12; 12; 12; 36; 36; 0; 36;
   36; 36; 36; 0].

Definition LEAF_FE : list Z :=
  [36; 36; 36; 36; 36; 0; 36; 0; 0; 0; 36; 36; 36; 36; 36; 36; 36; 0; 12; 12; 12;
   12; 12; 12; 12; 12; 12; 12; 12; 12; 12; 12; 12; 12; 12; 12; 12; 12; 12; 12; 12;
   12; 12; 12; 36; 36; 36; 36; 36; 36; 36; 36; 36; 36; 36; 36; 36; 36; 36; 36; 36;
   36; 36; 36].

Definition LEAF_FF : list Z :=
  [36; 36; 36; 36; 36; 36; 12; 12; 12; 12; 12; 12; 12; 12; 12; 12; 12; 12; 12; 12;
   12; 12; 12; 12; 12; 12; 12; 12; 12; 12; 12; 12; 36; 36; 36; 36; 36; 36; 36; 36;
   36; 36; 36; 36; 36; 36; 36; 36; 36; 36; 36; 36; 36; 36; 36; 36; 36; 36; 12; 12;
   12; 12; 12; 12].

Definition LEAF_100 : list Z :=
  [12; 12; 12; 12; 12; 12; 12; 12; 12; 12; 12; 12; 12; 12; 12; 12; 12; 12; 12; 12;
   36; 36; 36; 36; 36; 36; 36; 36; 36; 36; 36; 36; 36; 36; 36; 36; 36; 36; 36; 36;
   36; 36; 36; 36; 36; 36; 12; 12; 12; 12; 12; 12; 12; 12; 12; 12; 12; 12; 12; 12;
   12; 12; 12; 12].

Definition LEAF_101 : list Z :=
  [12; 12; 12; 12; 12; 12; 12; 12; 36; 36; 36; 36; 36; 36; 36; 36; 36; 36; 36; 36;
   36; 36; 36; 36; 36; 36; 36; 36; 36; 36; 36; 36; 36; 36; 12; 12; 12; 12; 12; 12;
   12; 12; 12; 12; 12; 12; 12; 12; 12; 12; 12; 12; 12; 12; 12; 12; 12; 12; 12; 12;
   36; 36; 36; 36].

Definition LEAF_102 : list Z :=
  [36; 36; 36; 36; 36; 36; 36; 36; 36; 36; 36; 36; 36; 36; 36; 36; 36; 36; 36; 36;
   36; 36; 12; 12; 12; 12; 12; 12; 12; 12; 12; 12; 12; 12; 12; 12; 12; 12; 12; 12;
   12; 12; 12; 12; 12; 12; 12; 12; 36; 36; 36; 36; 36; 36; 36; 36; 36; 36; 36; 36;
   36; 36; 36; 36].

Definition LEAF_103 : list Z :=
  [36; 36; 36; 36; 36; 36; 36; 36; 36; 36; 12; 12; 12; 12; 12; 12; 12; 12; 12; 12;
   12; 12; 12; 12; 12; 12; 12; 12; 12; 12; 12; 12; 12; 12; 12; 12; 12; 12; 0; 0;
   36; 36; 36; 36; 36; 36; 36; 36; 36; 36; 36; 36; 36; 36; 36; 36; 36; 36; 36; 36;
   36; 36; 36; 36].

Definition LEAF_104 : list Z :=
  [36; 0; 12; 12; 12; 12; 12; 12; 12; 12; 12; 12; 12; 12; 12; 12; 12; 12; 12; 12;
   12; 12; 12; 12; 12; 12; 12; 0; 12; 12; 12; 12; 12; 12; 36; 36; 36; 36; 36; 36;
   36; 36; 36; 36; 36; 36; 36; 36; 36; 36; 36; 36; 36; 36; 36; 36; 36; 36; 36; 0;
   12; 12; 12; 12].

Definition LEAF_105 : list Z :=
  [12; 12; 12; 12; 12; 12; 12; 12; 12; 12; 12; 12; 12; 12; 12; 12; 12; 12; 12; 12;
   12; 0; 12; 12; 12; 12; 12; 12; 36; 36; 36; 36; 36; 36; 36; 36; 36; 36; 36; 36;
   36; 36; 36; 36; 36; 36; 36; 36; 36; 36; 36; 36; 36; 0; 12; 12; 12; 12; 12; 12;
   12; 12; 12; 12].

Definition LEAF_106 : list Z :=
  [12; 12; 12; 12; 12; 12; 12; 12; 12; 12; 12; 12; 12; 12; 12; 0; 12; 12; 12; 12;
   12; 12; 36; 36; 36; 36; 36; 36; 36; 36; 36; 36; 36; 36; 36; 36; 36; 36; 36; 36;
   36; 36; 36; 36; 36; 36; 36; 0; 12; 12; 12; 12; 12; 12; 12; 12; 12; 12; 12; 12;
   12; 12; 12; 12].

Definition LEAF_107 : list Z :=
  [12; 12; 12; 12; 12; 12; 12; 12; 12; 0; 12; 12; 12; 12; 12; 12; 36; 36; 36; 36;
   36; 36; 36; 36; 36; 36; 36; 36; 36; 36; 36; 36; 36; 36; 36; 36; 36; 36; 36; 36;
   36; 0; 12; 12; 12; 12; 12; 12; 12; 12; 12; 12; 12; 12; 12; 12; 12; 12; 12; 12;
   12; 12; 12; 12].

Definition LEAF_108 : list Z :=
  [12; 12; 12; 0; 12; 12; 12; 12; 12; 12; 36; 12; 0; 0; 2; 2; 2; 2; 2; 2; 2; 2; 2;
   2; 2; 2; 2; 2; 2; 2; 2; 2; 2; 2; 2; 2; 2; 2; 2; 2; 2; 2; 2; 2; 2; 2; 2; 2; 2;
   2; 2; 2; 2; 2; 2; 2; 2; 2; 2; 2; 2; 2; 2; 2].

Definition LEAF_109 : list Z :=
  [4; 4; 4; 4; 4; 0; 0; 2; 2; 2; 2; 2; 2; 2; 2; 2; 0; 0; 0; 0; 0; 0; 0; 0; 0; 0;
   0; 0; 0; 0; 0; 0; 0; 0; 0; 0; 0; 0; 0; 0; 0; 0; 0; 0; 0; 0; 0; 0; 0; 0; 0; 0;
   0; 0; 0; 0; 0; 0; 0; 0; 0; 0; 0; 0].

Definition LEAF_10A : list Z :=
  [4; 4; 4; 4; 0; 4; 4; 4; 4; 4; 4; 4; 4; 4; 4; 4; 4; 4; 4; 4; 4; 4; 4; 4; 4; 4;
   4; 4; 4; 4; 4; 4; 0; 4; 4; 0; 4; 0; 0; 4; 0; 4; 4; 4; 4; 4; 4; 4; 4; 4; 4; 0;
   4; 4; 4; 4; 0; 4; 0; 4; 0; 0; 0; 0].

Definition LEAF_10B : list Z :=
  [0; 0; 4; 0; 0; 0; 0; 4; 0; 4; 0; 4; 0; 4; 4; 4; 0; 4; 4; 0; 4; 0; 0; 4; 0; 4;
   0; 4; 0; 4; 0; 4; 0; 4; 4; 0; 4; 0; 0; 4; 4; 4; 4; 0; 4; 4; 4; 4; 4; 4; 4; 0;
   4; 4; 4; 4; 0; 4; 4; 4; 4; 0; 4; 0].

Definition LEAF_10C : list Z :=
  [4; 4; 4; 4; 4; 4; 4; 4; 4; 4; 0; 4; 4; 4; 4; 4; 4; 4; 4; 4; 4; 4; 4; 4; 4; 4;
   4; 4; 0; 0; 0; 0; 0; 4; 4; 4; 0; 4; 4; 4; 4; 4; 0; 4; 4; 4; 4; 4; 4; 4; 4; 4;
   4; 4; 4; 4; 4; 4; 4; 4; 0; 0; 0; 0].

Definition LEAF_10D : list Z :=
  [2; 2; 2; 2; 2; 2; 2; 2; 2; 2; 2; 2; 2; 0; 0; 0; 0; 0; 0; 0; 0; 0; 0; 0; 0; 0;
   0; 0; 0; 0; 0; 0; 0; 0; 0; 0; 0; 0; 0; 0; 0; 0; 0; 0; 0; 0; 0; 0; 0; 0; 0; 0;
   0; 0; 0; 0; 0; 0; 0; 0; 0; 0; 0; 0].

Definition LEAF_10E : list Z :=
  [4; 4; 4; 4; 4; 4; 4; 4; 4; 4; 4; 4; 4; 4; 4; 4; 4; 4; 4; 4; 4; 4; 4; 0; 0; 0;
   0; 0; 0; 0; 0; 0; 0; 0; 0; 0; 0; 0; 0; 0; 0; 0; 0; 0; 0; 0; 0; 0; 0; 0; 0; 0;
   0; 0; 0; 0; 0; 0; 0; 0; 0; 0; 0; 0].

Definition LEAF_10F : list Z :=
  [4; 4; 4; 4; 4; 4; 4; 4; 4; 4; 4; 4; 4; 4; 4; 4; 4; 4; 4; 4; 4; 4; 4; 4; 4; 4;
   4; 4; 4; 4; 4; 4; 4; 4; 4; 4; 4; 4; 4; 4; 4; 4; 4; 4; 4; 4; 4; 4; 4; 4; 4; 4;
   4; 0; 0; 0; 0; 0; 0; 0; 0; 0; 0; 0].

Definition LEAF_110 : list Z :=
  [4; 4; 4; 4; 4; 4; 4; 4; 4; 4; 4; 4; 4; 4; 4; 4; 4; 4; 4; 4; 4; 4; 4; 4; 4; 4;
   4; 4; 4; 4; 4; 4; 4; 4; 0; 0; 0; 0; 0; 0; 0; 0; 0; 0; 0; 0; 0; 0; 0; 0; 0; 0;
   0; 0; 0; 0; 0; 0; 0; 0; 0; 0; 0; 0].

Definition LEAF_111 : list Z :=
  [4; 4; 4; 4; 4; 4; 4; 4; 4; 4; 4; 4; 4; 4; 4; 4; 4; 4; 4; 4; 4; 4; 4; 4; 4; 4;
   4; 4; 4; 4; 0; 0; 0; 0; 0; 0; 0; 0; 0; 0; 0; 0; 0; 0; 0; 0; 0; 0; 0; 0; 0; 0;
   0; 0; 0; 0; 0; 0; 0; 0; 0; 0; 0; 0].

Definition NODE_E0 : list AllNode :=
  [N0; N0; N0; N0; N0; N0; N0; N0; N0; N0; N0; N0; N0; N0; N0; N0; N0; N0; N0; N0; N0; N0; N0; N0;
   N0; N0; N0; N0; N0; N0; N0; N0; Lf LEAF_1D; Lf LEAF_1E; Lf LEAF_1F; N0; Lf LEAF_20; Lf LEAF_21;
   Lf LEAF_22; Lf LEAF_23; Lf LEAF_24; Lf LEAF_25; Lf LEAF_26; Lf LEAF_27; Lf LEAF_28; Lf LEAF_29;
   Lf LEAF_2A; Lf LEAF_2B; Lf LEAF_2C; Lf LEAF_2D; Lf LEAF_2E; Lf LEAF_2F; Lf LEAF_30; Lf LEAF_31;
   Lf LEAF_32; Lf LEAF_33; Lf LEAF_34; Lf LEAF_35; Lf LEAF_36; Lf LEAF_37; Lf LEAF_38; Lf LEAF_39;
   Lf LEAF_3A; N0].

Definition NODE_E1 : list AllNode :=
  [Lf LEAF_3B; Lf LEAF_3C; Lf LEAF_3D; Lf LEAF_3E; St; St; St; St; St; Lf LEAF_3F; Lf LEAF_40;
   Lf LEAF_41; Lf LEAF_42; Lf LEAF_43; Lf LEAF_44; Lf LEAF_45; Lf LEAF_46; St; St; St; St; St; St;
   St; St; Lf LEAF_47; Lf LEAF_48; Lf LEAF_49; Lf LEAF_4A; Lf LEAF_4B; Lf LEAF_4C; Lf LEAF_4D;
   Lf LEAF_4E; Lf LEAF_4F; Lf LEAF_50; Lf LEAF_51; Lf LEAF_52; Lf LEAF_53; Lf LEAF_54; Lf LEAF_55;
   Lf LEAF_56; Lf LEAF_57; Lf LEAF_58; N0; Lf LEAF_59; Lf LEAF_5A; Lf LEAF_5B; Lf LEAF_5C;
   Lf LEAF_5D; Lf LEAF_5E; N0; Lf LEAF_5F; Lf LEAF_60; Lf LEAF_61; Lf LEAF_62; N0; Lf LEAF_63;
   Lf LEAF_63; Lf LEAF_64; Lf LEAF_63; Lf LEAF_65; Lf LEAF_66; Lf LEAF_67; Lf LEAF_68].

Definition NODE_E2 : list AllNode :=
  [Lf LEAF_69; Lf LEAF_6A; Lf LEAF_6B; N0; Lf LEAF_6C; Lf LEAF_6D; Lf LEAF_6E; N0; N0; N0; N0; N0;
   N0; N0; N0; N0; N0; Lf LEAF_6F; Lf LEAF_70; Lf LEAF_71; N0; N0; N0; N0; N0; N0; N0; N0; N0;
   Lf LEAF_72; Lf LEAF_73; N0; N0; N0; N0; N0; N0; N0; N0; N0; N0; N0; N0; N0; N0; N0; N0; N0;
   Lf LEAF_74; Lf LEAF_75; Lf LEAF_63; Lf LEAF_76; Lf LEAF_77; Lf LEAF_78; Lf LEAF_79; Lf LEAF_7A;
   Lf LEAF_7B; N0; N0; N0; N0; N0; N0; N0].

Definition NODE_E3 : list AllNode :=
  [Lf LEAF_7C; Lf LEAF_46; Lf LEAF_7D; Lf LEAF_7E; Lf LEAF_7F; St; Lf LEAF_80; Lf LEAF_81;
   Lf LEAF_82; Lf LEAF_83; Lf LEAF_84; N0; N0; N0; N0; N0; St; St; St; St; St; St; St; St; St; St;
   St; St; St; St; St; St; St; St; St; St; St; St; St; St; St; St; St; St; St; St; St; St; St; St;
   St; St; St; St; St; St; St; St; St; St; St; St; St; St].

Definition NODE_E4 : list AllNode :=
  [St; St; St; St; St; St; St; St; St; St; St; St; St; St; St; St; St; St; St; St; St; St; St; St;
   St; St; St; St; St; St; St; St; St; St; St; St; St; St; St; St; St; St; St; St; St; St; St; St;
   St; St; St; St; St; St; Lf LEAF_51; N0; St; St; St; St; St; St; St; St].

Definition NODE_E9 : list AllNode :=
  [St; St; St; St; St; St; St; St; St; St; St; St; St; St; St; St; St; St; St; St; St; St; St; St;
   St; St; St; St; St; St; St; St; St; St; St; St; St; St; St; St; St; St; St; St; St; St; St; St;
   St; St; St; St; St; St; St; St; St; St; St; St; St; St; St; Lf LEAF_85].

Definition NODE_EA : list AllNode :=
  [St; St; St; St; St; St; St; St; St; St; St; St; St; St; St; St; St; St; Lf LEAF_86; Lf LEAF_87;
   St; St; St; St; Lf LEAF_88; Lf LEAF_89; Lf LEAF_8A; Lf LEAF_8B; Lf LEAF_8C; Lf LEAF_8D;
   Lf LEAF_8E; Lf LEAF_8F; Lf LEAF_90; Lf LEAF_4C; Lf LEAF_91; Lf LEAF_92; Lf LEAF_93; Lf LEAF_94;
   Lf LEAF_95; Lf LEAF_96; Lf LEAF_97; Lf LEAF_98; Lf LEAF_99; Lf LEAF_9A; Lf LEAF_9B; Lf LEAF_9C;
   Lf LEAF_9D; Lf LEAF_9E; St; St; St; St; St; St; St; St; St; St; St; St; St; St; St; St].

Definition NODE_ED : list AllNode :=
  [St; St; St; St; St; St; St; St; St; St; St; St; St; St; St; St; St; St; St; St; St; St; St; St;
   St; St; St; St; St; St; Lf LEAF_9F; Lf LEAF_A0; N0; N0; N0; N0; N0; N0; N0; N0; N0; N0; N0; N0;
   N0; N0; N0; N0; N0; N0; N0; N0; N0; N0; N0; N0; N0; N0; N0; N0; N0; N0; N0; N0].

Definition NODE_EF : list AllNode :=
  [N0; N0; N0; N0; N0; N0; N0; N0; N0; N0; N0; N0; N0; N0; N0; N0; N0; N0; N0; N0; N0; N0; N0; N0;
   N0; N0; N0; N0; N0; N0; N0; N0; N0; N0; N0; N0; St; St; St; St; St; Lf LEAF_A1; St; Lf LEAF_A2;
   Lf LEAF_A3; Lf LEAF_A4; Lf LEAF_A5; Lf LEAF_A6; St; St; St; St; Lf LEAF_A7; Lf LEAF_A8;
   Lf LEAF_A9; Lf LEAF_AA; N0; Lf LEAF_AB; St; Lf LEAF_AC; Lf LEAF_AD; Lf LEAF_AE; Lf LEAF_AF;
   Lf LEAF_B0].

Definition NODE_F0_90 : list AllNode :=
  [Lf LEAF_B1; Lf LEAF_B2; St; Lf LEAF_B3; Lf LEAF_B4; Lf LEAF_B5; Lf LEAF_B6; N0; N0; N0;
   Lf LEAF_B7; Lf LEAF_B8; Lf LEAF_B9; Lf LEAF_BA; Lf LEAF_BB; Lf LEAF_BC; Lf LEAF_BD; Lf LEAF_BE;
   Lf LEAF_BF; N0; Lf LEAF_C0; Lf LEAF_5D; N0; N0; St; St; St; St; Lf LEAF_C1; Lf LEAF_C2; N0; N0;
   Lf LEAF_C3; Lf LEAF_C4; Lf LEAF_C5; Lf LEAF_C6; Lf LEAF_C7; N0; Lf LEAF_C8; Lf LEAF_C9;
   Lf LEAF_CA; Lf LEAF_CB; Lf LEAF_CC; Lf LEAF_CD; Lf LEAF_51; Lf LEAF_CE; Lf LEAF_CF; N0; St;
   Lf LEAF_D0; Lf LEAF_D1; Lf LEAF_D2; N0; N0; N0; N0; N0; Lf LEAF_D3; N0; N0; N0; N0; N0; N0].

Definition NODE_F0_91 : list AllNode :=
  [Lf LEAF_D4; Lf LEAF_D5; Lf LEAF_D6; Lf LEAF_D7; Lf LEAF_D8; Lf LEAF_D9; Lf LEAF_DA; Lf LEAF_DB;
   Lf LEAF_DC; N0; Lf LEAF_DD; Lf LEAF_DE; Lf LEAF_28; Lf LEAF_DF; N0; N0; N0; N0; Lf LEAF_E0;
   Lf LEAF_E1; N0; N0; Lf LEAF_E2; Lf LEAF_E3; Lf LEAF_E0; Lf LEAF_E4; Lf LEAF_E5; Lf LEAF_E6;
   Lf LEAF_E7; N0; N0; N0; N0; N0; Lf LEAF_E8; Lf LEAF_E9; N0; N0; N0; N0; N0; N0; N0; Lf LEAF_EA;
   N0; N0; N0; N0; N0; N0; N0; N0; N0; N0; N0; N0; N0; N0; N0; N0; N0; N0; N0; N0].

Definition NODE_F0_92 : list AllNode :=
  [St; St; St; St; St; St; St; St; St; St; St; St; St; St; Lf LEAF_A2; N0; Lf LEAF_EB; Lf LEAF_EC;
   St; St; St; Lf LEAF_ED; N0; N0; N0; N0; N0; N0; N0; N0; N0; N0; N0; N0; N0; N0; N0; N0; N0; N0;
   N0; N0; N0; N0; N0; N0; N0; N0; N0; N0; N0; N0; N0; N0; N0; N0; N0; N0; N0; N0; N0; N0; N0; N0].

Definition NODE_F0_93 : list AllNode :=
  [St; St; St; St; St; St; St; St; St; St; St; St; St; St; St; St; Lf LEAF_E2; N0; N0; N0; N0; N0;
   N0; N0; N0; N0; N0; N0; N0; N0; N0; N0; N0; N0; N0; N0; N0; N0; N0; N0; N0; N0; N0; N0; N0; N0;
   N0; N0; N0; N0; N0; N0; N0; N0; N0; N0; N0; N0; N0; N0; N0; N0; N0; N0].

Definition NODE_F0_94 : list AllNode :=
  [N0; N0; N0; N0; N0; N0; N0; N0; N0; N0; N0; N0; N0; N0; N0; N0; St; St; St; St; St; St; St; St;
   St; Lf LEAF_EE; N0; N0; N0; N0; N0; N0; N0; N0; N0; N0; N0; N0; N0; N0; N0; N0; N0; N0; N0; N0;
   N0; N0; N0; N0; N0; N0; N0; N0; N0; N0; N0; N0; N0; N0; N0; N0; N0; N0].

Definition NODE_F0_96 : list AllNode :=
  [N0; N0; N0; N0; N0; N0; N0; N0; N0; N0; N0; N0; N0; N0; N0; N0; N0; N0; N0; N0; N0; N0; N0; N0;
   N0; N0; N0; N0; N0; N0; N0; N0; St; St; St; St; St; St; St; St; Lf LEAF_EA; Lf LEAF_EF; N0;
   Lf LEAF_F0; Lf LEAF_E0; Lf LEAF_F1; Lf LEAF_F2; N0; N0; N0; N0; N0; N0; N0; N0; N0; N0; N0; N0;
   N0; St; Lf LEAF_F3; Lf LEAF_F4; N0].

Definition NODE_F0_9B : list AllNode :=
  [Lf LEAF_F5; N0; N0; N0; N0; N0; N0; N0; N0; N0; N0; N0; N0; N0; N0; N0; N0; N0; N0; N0; N0; N0;
   N0; N0; N0; N0; N0; N0; N0; N0; N0; N0; N0; N0; N0; N0; N0; N0; N0; N0; N0; N0; N0; N0; N0; N0;
   N0; N0; St; Lf LEAF_F6; Lf LEAF_F7; N0; N0; N0; N0; N0; N0; N0; N0; N0; N0; N0; N0; N0].

Definition NODE_F0_9D : list AllNode :=
  [N0; N0; N0; N0; N0; N0; N0; N0; N0; N0; N0; N0; N0; Lf LEAF_F8; N0; N0; Lf LEAF_F9; Lf LEAF_FA;
   Lf LEAF_FB; Lf LEAF_FC; Lf LEAF_FD; Lf LEAF_FE; Lf LEAF_FF; Lf LEAF_100; Lf LEAF_101;
   Lf LEAF_102; Lf LEAF_103; Lf LEAF_104; Lf LEAF_105; Lf LEAF_106; Lf LEAF_107; Lf LEAF_108; N0;
   N0; N0; N0; N0; N0; N0; N0; N0; N0; N0; N0; N0; N0; N0; N0; N0; N0; N0; N0; N0; N0; N0; N0; N0;
   N0; N0; N0; N0; N0; N0; N0].

Definition NODE_F0_9E : list AllNode :=
  [N0; N0; N0; N0; N0; N0; N0; N0; N0; N0; N0; N0; N0; N0; N0; N0; N0; N0; N0; N0; N0; N0; N0; N0;
   N0; N0; N0; N0; N0; N0; N0; N0; St; St; St; Lf LEAF_109; N0; N0; N0; N0; N0; N0; N0; N0; N0;
   N0; N0; N0; N0; N0; N0; N0; N0; N0; N0; N0; Lf LEAF_10A; Lf LEAF_10B; Lf LEAF_10C; N0; N0; N0;
   N0; N0].

Definition NODE_F0_9F : list AllNode :=
  [N0; N0; N0; N0; Lf LEAF_10D; N0; N0; N0; N0; N0; N0; N0; N0; N0; N0; N0; N0; N0; N0; N0; N0;
   N0; N0; N0; N0; N0; N0; N0; N0; N0; N0; N0; N0; N0; N0; N0; N0; N0; N0; N0; N0; N0; N0; N0; N0;
   N0; N0; N0; N0; N0; N0; N0; N0; N0; N0; N0; N0; N0; N0; N0; N0; N0; N0; N0].

Definition NODE_F0_AA : list AllNode :=
  [St; St; St; St; St; St; St; St; St; St; St; St; St; St; St; St; St; St; St; St; St; St; St; St;
   St; St; St; Lf LEAF_10E; St; St; St; St; St; St; St; St; St; St; St; St; St; St; St; St; St;
   St; St; St; St; St; St; St; St; St; St; St; St; St; St; St; St; St; St; St].

Definition NODE_F0_AB : list AllNode :=
  [St; St; St; St; St; St; St; St; St; St; St; St; St; St; St; St; St; St; St; St; St; St; St; St;
   St; St; St; St; Lf LEAF_10F; St; St; St; Lf LEAF_BB; St; St; St; St; St; St; St; St; St; St;
   St; St; St; St; St; St; St; St; St; St; St; St; St; St; St; St; St; St; St; St; St].

Definition NODE_F0_AC : list AllNode :=
  [St; St; St; St; St; St; St; St; St; St; St; St; St; St; St; St; St; St; St; St; St; St; St; St;
   St; St; St; St; St; St; St; St; St; St; St; St; St; St; St; St; St; St; St; St; St; St; St; St;
   St; St; St; St; St; St; St; St; St; St; Lf LEAF_110; N0; N0; N0; N0; N0].

Definition NODE_F0_AF : list AllNode :=
  [N0; N0; N0; N0; N0; N0; N0; N0; N0; N0; N0; N0; N0; N0; N0; N0; N0; N0; N0; N0; N0; N0; N0; N0;
   N0; N0; N0; N0; N0; N0; N0; N0; St; St; St; St; St; St; St; St; Lf LEAF_111; N0; N0; N0; N0;
   N0; N0; N0; N0; N0; N0; N0; N0; N0; N0; N0; N0; N0; N0; N0; N0; N0; N0; N0].

Definition NODE_F0 : list AllNode :=
  [N0; N0; N0; N0; N0; N0; N0; N0; N0; N0; N0; N0; N0; N0; N0; N0; Nd NODE_F0_90; Nd NODE_F0_91;
   Nd NODE_F0_92; Nd NODE_F0_93; Nd NODE_F0_94; N0; Nd NODE_F0_96; N0; N0; N0; N0; Nd NODE_F0_9B;
   N0; Nd NODE_F0_9D; Nd NODE_F0_9E; Nd NODE_F0_9F; St; St; St; St; St; St; St; St; St; St;
   Nd NODE_F0_AA; Nd NODE_F0_AB; Nd NODE_F0_AC; N0; N0; Nd NODE_F0_AF; N0; N0; N0; N0; N0; N0; N0;
   N0; N0; N0; N0; N0; N0; N0; N0; N0].

Definition ALL_PROPERTIES_READY_VALUES : list Z :=
  [0; 0; 0; 0; 0; 0; 0; 0; 0; 1; 1; 1; 1; 1; 0; 0; 0; 0; 0; 0; 0; 0; 0; 0; 0; 0;
   0; 0; 0; 0; 0; 0; 1; 0; 0; 0; 0; 0; 0; 0; 0; 0; 0; 0; 0; 0; 0; 0; 2; 2; 2; 2;
   2; 2; 2; 2; 2; 2; 0; 0; 0; 0; 0; 0; 0; 36; 36; 36; 36; 36; 36; 36; 36; 36; 36;
   36; 36; 36; 36; 36; 36; 36; 36; 36; 36; 36; 36; 36; 36; 36; 36; 0; 0; 0; 0; 0;
   0; 12; 12; 12; 12; 12; 12; 12; 12; 12; 12; 12; 12; 12; 12; 12; 12; 12; 12; 12;
   12; 12; 12; 12; 12; 12; 12; 0; 0; 0; 0; 0].

Definition ALL_PROPERTIES_TREE : list AllNode :=
  [N0; N0; N0; N0; N0; N0; N0; N0; N0; N0; N0; N0; N0; N0; N0; N0; N0; N0; N0; N0; N0; N0; N0; N0;
   N0; N0; N0; N0; N0; N0; N0; N0; N0; N0; N0; N0; N0; N0; N0; N0; N0; N0; N0; N0; N0; N0; N0; N0;
   N0; N0; N0; N0; N0; N0; N0; N0; N0; N0; N0; N0; N0; N0; N0; N0; N0; N0; Lf LEAF_00; Lf LEAF_01;
   Lf LEAF_02; Lf LEAF_03; Lf LEAF_04; Lf LEAF_05; Lf LEAF_06; Lf LEAF_07; Lf LEAF_08; Lf LEAF_09;
   N0; Lf LEAF_0A; Lf LEAF_0B; Lf LEAF_0C; Lf LEAF_0D; Lf LEAF_0E; Lf LEAF_0F; Lf LEAF_10;
   Lf LEAF_11; Lf LEAF_12; Lf LEAF_13; Lf LEAF_14; Lf LEAF_15; Lf LEAF_16; St; Lf LEAF_18;
   Lf LEAF_19; Lf LEAF_1A; Lf LEAF_1B; Lf LEAF_1C; Nd NODE_E0; Nd NODE_E1; Nd NODE_E2; Nd NODE_E3;
   Nd NODE_E4; St; St; St; St; Nd NODE_E9; Nd NODE_EA; St; St; Nd NODE_ED; N0; Nd NODE_EF;
   Nd NODE_F0; N0; N0; N0; N0; N0; N0; N0; N0; N0; N0; N0; N0; N0; N0; N0].
