(* ===== verification/Utf8Properties.v ===== *)
(** * Utf8Properties: character properties

    Models [String/UTF8IsProperty.hpp] and [String/UTF8AllProperties.hpp]: the tests
    of one property, each with a tree of its own, and [all_properties], which finds
    the properties of a character together.  The trees are in [SpaceTree],
    [DigitTree], [LetterTree], [LowerLetterTree], [TitleLetterTree],
    [UpperLetterTree] and [AllTree]; [belong] is in [Utf8Category]. *)
From S2P Require Import Prelude Utf8 Utf8Category SpaceTree DigitTree LetterTree.
From S2P Require Import LowerLetterTree TitleLetterTree UpperLetterTree AllTree CaseText.
Local Open Scope Z_scope.
Local Open Scope outcome_scope.

(** ** Tests of one property *)

Definition is_space (str : list Z) : outcome bool := belong SPACE_TREE str.
Definition is_digit (str : list Z) : outcome bool := belong DIGIT_TREE str.
Definition is_letter (str : list Z) : outcome bool := belong LETTER_TREE str.
Definition is_lower_letter (str : list Z) : outcome bool := belong LETTER_LOWER_TREE str.
Definition is_title_letter (str : list Z) : outcome bool := belong LETTER_TITLE_TREE str.
Definition is_upper_letter (str : list Z) : outcome bool := belong LETTER_UPPER_TREE str.

(** ** All properties *)

Definition CUP_SPACE : Z := 0x01.
Definition CUP_DIGIT : Z := 0x02.
Definition CUP_LETTER : Z := 0x04.
Definition CUP_LOWER_LETTER : Z := 0x08.
Definition CUP_TITLE_LETTER : Z := 0x10.
Definition CUP_UPPER_LETTER : Z := 0x20.

(** The loop of [all_properties]; [str] is what follows the octet before.  A node
    that is read as a leaf, or a leaf as a node, is undefined. *)
Fixpoint all_loop (current_tree : AllNode) (str : list Z) (depth : Z) : outcome Z :=
  match current_tree with
  | AllStop => Ret CUP_LETTER
  | AllNull => Ret 0
  | AllChildren nodes =>
    let depth := u64 (depth - 1) in
    if depth <? 2 then Undef
    else
      match str with
      | [] => Undef
      | ch :: str =>
        let* current_tree := rd nodes (Z.to_nat (Z.land ch 0x3F)) in
        all_loop current_tree str depth
      end
  | AllLeaf leaf =>
    let depth := u64 (depth - 1) in
    if depth <? 2 then
      match str with
      | [] => Undef
      | ch :: _ => rd leaf (Z.to_nat (Z.land ch 0x3F))
      end
    else Undef
  end.

Definition all_properties (str : list Z) : outcome Z :=
  match str with
  | [] => Undef
  | ch :: str =>
    if ch <? 0x80 then cell ALL_PROPERTIES_READY_VALUES ch
    else
      let* current_tree := cell ALL_PROPERTIES_TREE (ch - 0x80) in
      all_loop current_tree str (get_octet_count ch)
  end.

(** The tests of the class [AllProperties]: [cumulative_value_ & mask] *)
Definition has (mask cumulative_value_ : Z) : bool := negb (Z.land cumulative_value_ mask =? 0).

Definition AllProperties_is_space : Z -> bool := has CUP_SPACE.
Definition AllProperties_is_digit : Z -> bool := has CUP_DIGIT.
Definition AllProperties_is_letter : Z -> bool := has CUP_LETTER.
Definition AllProperties_is_lower_letter : Z -> bool := has CUP_LOWER_LETTER.
Definition AllProperties_is_title_letter : Z -> bool := has CUP_TITLE_LETTER.
Definition AllProperties_is_upper_letter : Z -> bool := has CUP_UPPER_LETTER.

(** ** Comparison of the trees

    [agree mask d n a]: the node [n] of a property and the node [a] of the tree of
    all properties, both [d] arcs above their leaves, hold the same characters.
    Where one tree has stopped, what it says goes on to the arcs of the other. *)
Definition ones : Z := 2 ^ 64 - 1.

Definition arc (d : nat) (n : Node) (i : nat) : option Node :=
  match n with
  | Null => Some Null
  | Stop => Some (if d is O then Leaf ones else Stop)
  | Children l => l !! i
  | Leaf _ => None
  end.

Definition all_arc (a : AllNode) (i : nat) : option AllNode :=
  match a with
  | AllChildren l => l !! i
  | AllLeaf _ => None
  | _ => Some a
  end.

Definition mask_at (a : AllNode) (i : nat) : option Z :=
  match a with
  | AllNull => Some 0
  | AllStop => Some CUP_LETTER
  | AllLeaf leaf => leaf !! i
  | AllChildren _ => None
  end.

Definition classes : list Z := [0; 0x01; 0x02; 0x04; 0x0C; 0x14; 0x24].

Fixpoint agree (mask : Z) (d : nat) (n : Node) (a : AllNode) : bool :=
  match d with
  | O =>
    match leaf_of n with
    | Ret leaf =>
      forallb (fun i =>
        match mask_at a i with
        | Some v =>
          existsb (Z.eqb v) classes && eqb (Z.testbit leaf (Z.of_nat i)) (has mask v)
        | None => false
        end) (seq 0 64)
    | _ => false
    end
  | S d =>
    match n, a with
    | Null, AllNull => true
    | Null, AllStop => negb (has mask CUP_LETTER)
    | Stop, AllStop => has mask CUP_LETTER
    | _, _ =>
      forallb (fun i =>
        match arc d n i, all_arc a i with
        | Some n, Some a => agree mask d n a
        | _, _ => false
        end) (seq 0 64)
    end
  end.

Definition first_agrees (mask : Z) (tree : list Node) (ch : Z) : bool :=
  match tree !! Z.to_nat ch, ALL_PROPERTIES_TREE !! Z.to_nat (ch - 0x80) with
  | Some n, Some a => agree mask (Z.to_nat (get_octet_count ch - 2)) n a
  | _, _ => false
  end.

Definition ascii_agrees (mask : Z) (tree : list Node) (ch : Z) : bool :=
  match tree !! Z.to_nat ch, ALL_PROPERTIES_READY_VALUES !! Z.to_nat ch with
  | Some n, Some v =>
    existsb (Z.eqb v) classes &&
    match n with
    | Null => negb (has mask v)
    | Stop => has mask v
    | _ => false
    end
  | _, _ => false
  end.

Definition tree_agrees (mask : Z) (tree : list Node) : bool :=
  forallb (ascii_agrees mask tree) (all_below 128) &&
  forallb (first_agrees mask tree) (octets 0xC2 51).

Definition property_trees : list (Z * list Node) :=
  [(CUP_SPACE, SPACE_TREE); (CUP_DIGIT, DIGIT_TREE); (CUP_LETTER, LETTER_TREE);
   (CUP_LOWER_LETTER, LETTER_LOWER_TREE); (CUP_TITLE_LETTER, LETTER_TITLE_TREE);
   (CUP_UPPER_LETTER, LETTER_UPPER_TREE)].

Lemma trees_agree : forallb (fun p => tree_agrees p.1 p.2) property_trees = true.
Proof. vm_cast_no_check (eq_refl true). Qed.

(** ** What the comparison shows *)

Lemma low_six ch : (Z.to_nat (Z.land ch 0x3F) < 64)%nat.
Proof. rewrite land63. pose proof (Z.mod_pos_bound ch 64). lia. Qed.

Lemma bit_test leaf ch :
  negb (Z.land leaf (Z.shiftl 1 (Z.land ch 0x3F)) =? 0) =
  Z.testbit leaf (Z.of_nat (Z.to_nat (Z.land ch 0x3F))).
Proof.
  pose proof (Z.mod_pos_bound ch 64 ltac:(lia)). rewrite land63, Z2Nat.id by lia. apply land_bit. lia.
Qed.

Lemma classes_in v : existsb (Z.eqb v) classes = true -> In v classes.
Proof. intros H. apply existsb_exists in H as (x & Hx & E). by apply Z.eqb_eq in E as ->. Qed.

Lemma ones_bit i : (i < 64)%nat -> Z.testbit ones (Z.of_nat i) = true.
Proof. intros H. unfold ones. change (2 ^ 64 - 1) with (Z.ones 64). apply Z.ones_spec_low. lia. Qed.

(** The tests of one node go through one arc at a time. *)
Lemma belong_arc d n i n' ch rest b : (S d <= 4)%nat -> i = Z.to_nat (Z.land ch 0x3F) ->
  arc d n i = Some n' -> belong_loop n' rest (Z.of_nat d + 2) = Ret b -> (d < length rest)%nat ->
  belong_loop n (ch :: rest) (Z.of_nat (S d) + 2) = Ret b.
Proof.
  intros Hd Ei Ha Hb Hl. cbn [belong_loop]. rewrite (proj2 (Z.eqb_neq _ _)) by lia.
  destruct n as [| |l|leaf]; cbn [arc] in Ha.
  - injection Ha as <-. rewrite <- Hb. destruct d, rest as [|ch' rest]; try (simpl in Hl; lia); [done|].
    cbn [belong_loop]. by rewrite (proj2 (Z.eqb_neq _ _)) by lia.
  - injection Ha as <-. rewrite <- Hb. destruct d, rest as [|ch' rest]; try (simpl in Hl; lia).
    + cbn [belong_loop leaf_of obind Z.of_nat Z.add Z.eqb Pos.eqb]. by rewrite bit_test, ones_bit by apply low_six.
    + cbn [belong_loop]. by rewrite (proj2 (Z.eqb_neq _ _)) by lia.
  - rewrite <- Ei. unfold rd. rewrite Ha. cbn [obind].
    replace (u64 (Z.of_nat (S d) + 2 - 1)) with (Z.of_nat d + 2) by (unfold u64; rewrite Z.mod_small; lia).
    done.
  - discriminate.
Qed.

Lemma all_loop_arc d a i a' ch rest v : (S d <= 4)%nat -> i = Z.to_nat (Z.land ch 0x3F) ->
  all_arc a i = Some a' -> all_loop a' rest (Z.of_nat d + 2) = Ret v -> (d < length rest)%nat ->
  all_loop a (ch :: rest) (Z.of_nat (S d) + 2) = Ret v.
Proof.
  intros Hd Ei Ha Hv Hl. destruct a as [| |l|leaf]; cbn [all_arc] in Ha.
  - injection Ha as <-. by destruct rest.
  - injection Ha as <-. by destruct rest.
  - cbn [all_loop]. replace (u64 (Z.of_nat (S d) + 2 - 1)) with (Z.of_nat d + 2) by (unfold u64; rewrite Z.mod_small; lia).
    rewrite (proj2 (Z.ltb_ge _ _)) by lia. rewrite <- Ei. unfold rd. by rewrite Ha.
  - discriminate.
Qed.

Definition tests_agree (mask : Z) (test : outcome bool) (all : outcome Z) : Prop :=
  exists v, all = Ret v /\ In v classes /\ test = Ret (has mask v).

Lemma agree_spec mask d : (d <= 4)%nat -> forall n a path rest, agree mask d n a = true ->
  length path = S d ->
  tests_agree mask (belong_loop n (path ++ rest) (Z.of_nat d + 2))
    (all_loop a (path ++ rest) (Z.of_nat d + 2)).
Proof.
  induction d as [|d IH]; intros Hd n a [|ch path] rest H Hl; try discriminate Hl.
  - cbn [agree] in H. cbn [app].
    destruct (leaf_of n) as [leaf| |] eqn:El; try discriminate.
    rewrite forallb_forall in H. specialize (H (Z.to_nat (Z.land ch 0x3F))).
    rewrite in_seq in H. pose proof (low_six ch). specialize (H ltac:(lia)).
    destruct (mask_at a _) as [v|] eqn:Em; [|discriminate]. apply andb_true_iff in H as [Hc Hb].
    exists v. split; [|split; [by apply classes_in|]].
    + destruct a; cbn [mask_at] in Em; try discriminate; try (by injection Em as <-).
      cbn [all_loop]. replace (u64 _) with 1 by reflexivity. cbn [Z.ltb Z.compare Pos.compare Pos.compare_cont].
      unfold rd. by rewrite Em.
    + cbn [belong_loop Z.of_nat Z.add Z.eqb Pos.eqb]. rewrite El. cbn [obind].
      rewrite bit_test. by rewrite (eqb_prop _ _ Hb).
  - cbn [agree] in H.
    assert (Step : forallb (fun i => match arc d n i, all_arc a i with
        | Some n, Some a => agree mask d n a | _, _ => false end) (seq 0 64) = true ->
      tests_agree mask (belong_loop n ((ch :: path) ++ rest) (Z.of_nat (S d) + 2))
        (all_loop a ((ch :: path) ++ rest) (Z.of_nat (S d) + 2))).
    { intros F. rewrite forallb_forall in F. specialize (F (Z.to_nat (Z.land ch 0x3F))).
      rewrite in_seq in F. pose proof (low_six ch). specialize (F ltac:(lia)).
      destruct (arc d n _) as [n'|] eqn:En; [|discriminate].
      destruct (all_arc a _) as [a'|] eqn:Ea; [|discriminate].
      destruct (IH ltac:(lia) n' a' path rest F ltac:(simpl in Hl; lia)) as (v & Ev & Hv & Eb).
      exists v. cbn [app]. assert (d < length (path ++ rest))%nat by (rewrite length_app; simpl in Hl; lia).
      split; [by eapply all_loop_arc|]. split; [done|]. by eapply belong_arc. }
    assert (T : (Z.of_nat (S d) + 2 =? 2) = false) by (apply Z.eqb_neq; lia).
    destruct n as [| | |], a as [| | |]; try (by apply Step); unfold tests_agree; cbn [app belong_loop all_loop]; rewrite T.
    + by exists 0; split; [|split; [left|]].
    + exists CUP_LETTER. split; [done|]. split; [simpl; auto|]. apply negb_true_iff in H. by rewrite H.
    + exists CUP_LETTER. split; [done|]. split; [simpl; auto|]. by rewrite H.
Qed.

Lemma tree_agrees_spec mask tree seq rest : tree_agrees mask tree = true -> wf seq ->
  tests_agree mask (belong tree (seq ++ rest)) (all_properties (seq ++ rest)).
Proof.
  intros H W. apply andb_true_iff in H as [H1 H2]. rewrite forallb_forall in H1, H2.
  pose proof (wf_count _ W) as C. destruct seq as [|h t]; [done|]. destruct C as (C & Hb & _).
  unfold is_byte in Hb. cbn [app belong all_properties]. unfold rd, cell.
  destruct (Z.ltb_spec h 0x80) as [L|L].
  - specialize (H1 h ltac:(apply in_all_below; lia)). unfold ascii_agrees in H1.
    destruct (tree !! Z.to_nat h) as [n|]; [|discriminate].
    rewrite (proj2 (Z.ltb_ge h 0)) by lia. unfold rd.
    destruct (ALL_PROPERTIES_READY_VALUES !! Z.to_nat h) as [v|]; [|discriminate].
    apply andb_true_iff in H1 as [Hc Hn]. exists v. split; [done|]. split; [by apply classes_in|].
    cbn [obind]. rewrite get_octet_count_val by (unfold is_byte; lia). rewrite (proj2 (Z.ltb_lt h 128)) by lia.
    destruct n; try discriminate; [apply negb_true_iff in Hn|]; destruct (t ++ rest); cbn; by rewrite Hn.
  - assert (Hh : 0xC2 <= h <= 0xF4).
    { apply wf_cases in W as [(a & E & Ha)|[(a & b & E & Ha & _)|
        [(a & b & d & E & Ha & _)|(a & b & d & e & E & Ha & _)]]]; injection E as -> ->; lia. }
    specialize (H2 h ltac:(apply in_octets; lia)). unfold first_agrees in H2.
    destruct (tree !! Z.to_nat h) as [n|]; [|discriminate].
    rewrite (proj2 (Z.ltb_ge (h - 0x80) 0)) by lia. unfold rd.
    destruct (ALL_PROPERTIES_TREE !! Z.to_nat (h - 0x80)) as [a|]; [|discriminate]. cbn [obind].
    assert (Hc : 2 <= get_octet_count h <= 4).
    { rewrite get_octet_count_val by (unfold is_byte; lia). repeat case_Z; lia. }
    replace (get_octet_count h) with (Z.of_nat (Z.to_nat (get_octet_count h - 2)) + 2) by lia.
    apply agree_spec; [lia|done|]. rewrite C. cbn [length]. rewrite C in Hc. cbn [length] in Hc. lia.
Qed.

(** A space, a digit, a letter, or a letter of one case *)
Lemma classes_letters v : In v classes ->
  (AllProperties_is_lower_letter v || AllProperties_is_title_letter v || AllProperties_is_upper_letter v = true ->
    AllProperties_is_letter v = true) /\
  (AllProperties_is_letter v = true -> AllProperties_is_digit v || AllProperties_is_space v = false) /\
  AllProperties_is_lower_letter v && AllProperties_is_upper_letter v = false.
Proof. intros H. simpl in H. intuition (subst; done). Qed.

(** C28: for every well-formed sequence, whatever follows it, the search in the
    tree of all properties and the searches in the trees of one property return and
    agree: each of the six tests is the bit of its property, and the properties are
    those of a space, a digit, a letter without case or a letter of one case. *)
Theorem all_properties_agree (seq rest : list Z) :
  wf seq ->
  exists v, all_properties (seq ++ rest) = Ret v /\ In v classes /\
    is_space (seq ++ rest) = Ret (AllProperties_is_space v) /\
    is_digit (seq ++ rest) = Ret (AllProperties_is_digit v) /\
    is_letter (seq ++ rest) = Ret (AllProperties_is_letter v) /\
    is_lower_letter (seq ++ rest) = Ret (AllProperties_is_lower_letter v) /\
    is_title_letter (seq ++ rest) = Ret (AllProperties_is_title_letter v) /\
    is_upper_letter (seq ++ rest) = Ret (AllProperties_is_upper_letter v).
Proof.
  intros W. pose proof trees_agree as T. rewrite forallb_forall in T.
  assert (A : forall mask tree, In (mask, tree) property_trees ->
    tests_agree mask (belong tree (seq ++ rest)) (all_properties (seq ++ rest)))
    by (intros mask tree Hin; apply tree_agrees_spec; [exact (T _ Hin)|done]).
  destruct (A CUP_SPACE SPACE_TREE) as (v & E & Hv & _); [by left|]. exists v.
  assert (B : forall mask tree, In (mask, tree) property_trees -> belong tree (seq ++ rest) = Ret (has mask v)).
  { intros mask tree Hin. destruct (A _ _ Hin) as (v' & E' & _ & Eb). rewrite E in E'. by injection E' as <-. }
  repeat split; [done|done|..]; apply B; simpl; auto 10.
Qed.

Lemma all_properties_agree_witness :
  exists v, all_properties [0xC7; 0x85; 0x21] = Ret v /\ In v classes /\
    is_space [0xC7; 0x85; 0x21] = Ret (AllProperties_is_space v) /\
    is_digit [0xC7; 0x85; 0x21] = Ret (AllProperties_is_digit v) /\
    is_letter [0xC7; 0x85; 0x21] = Ret (AllProperties_is_letter v) /\
    is_lower_letter [0xC7; 0x85; 0x21] = Ret (AllProperties_is_lower_letter v) /\
    is_title_letter [0xC7; 0x85; 0x21] = Ret (AllProperties_is_title_letter v) /\
    is_upper_letter [0xC7; 0x85; 0x21] = Ret (AllProperties_is_upper_letter v).
Proof. apply (all_properties_agree [0xC7; 0x85] [0x21]). reflexivity. Defined.

(** U+01C5 is a title case letter, U+0660 a digit and U+4E00 a letter. *)
Lemma all_properties_examples :
  all_properties [0xC7; 0x85] = Ret 0x14 /\ all_properties [0xD9; 0xA0] = Ret 0x02 /\
  all_properties [0xE4; 0xB8; 0x80] = Ret 0x04 /\ is_digit [0xD9; 0xA0] = Ret true.
Proof. repeat split; vm_compute; reflexivity. Qed.
