(* ===== verification/UnicodeNormalizer.v ===== *)
(** * Unicode normalization

    [String/UnicodeNormalizer.cpp] over the tables of [NormTables]: the
    decompositions of [IDNA2008] and [IDNA2003], the canonical ordering of the
    decomposed text, and the composition in place, as [lower_and_normalize]
    composes them.

    A table is read with [cell], so an index outside it is [Undef].  The text
    under construction is a buffer of fixed size with positions; a decomposer
    yields the characters it stores at [output] ([None] is the null pointer), and
    [normalize] stores them in the buffer.  The loops over the buffer take fuel,
    the number of characters left to read. *)
From S2P Require Import Prelude NormTables.
Local Open Scope Z_scope.
Local Open Scope outcome_scope.

(** ** Hangul *)

Definition S_BASE : Z := 0xAC00.
Definition L_BASE : Z := 0x1100.
Definition V_BASE : Z := 0x1161.
Definition T_BASE : Z := 0x11A7.
Definition L_COUNT : Z := 19.
Definition V_COUNT : Z := 21.
Definition T_COUNT : Z := 28.
Definition N_COUNT : Z := V_COUNT * T_COUNT.
Definition S_COUNT : Z := L_COUNT * N_COUNT.

Definition hangul_decompose (wch : Z) : list Z :=
  if (wch <? S_BASE) || (S_BASE + S_COUNT <=? wch) then [wch]
  else
    let s_index := wch - S_BASE in
    let t := T_BASE + s_index mod T_COUNT in
    [L_BASE + s_index / N_COUNT; V_BASE + (s_index mod N_COUNT) / T_COUNT] ++
    (if negb (t =? T_BASE) then [t] else []).

(** ** Decompositions *)

(** [do { *output++ = *cur++; } while (cur != END)] over [n] cells *)
Fixpoint copy_cells (body : list Z) (cur : Z) (n : nat) : outcome (list Z) :=
  match n with
  | O => Ret []
  | S n' =>
    let* c := cell body cur in
    let* rest := copy_cells body (cur + 1) n' in
    Ret (c :: rest)
  end.

(** [decompose (body, indices, wch, start, output)]; an [END] before [cur] makes
    the loop run out of the table *)
Definition decompose_indexed (body indices : list Z) (wch start : Z) : outcome (option (list Z)) :=
  let* cur := cell indices (wch - start) in
  let* END := cell indices (wch - start + 1) in
  if negb (cur =? END) then
    let* c := cell body cur in
    if c =? 0 then Ret None
    else if END <? cur then Undef
    else let* cs := copy_cells body cur (Z.to_nat (END - cur)) in Ret (Some cs)
  else Ret (Some []).

(** [decompose (const uint64_t* body, wch, start, output)] *)
Definition decompose_bits (body : list Z) (wch start : Z) : outcome (option (list Z)) :=
  let start := wch - start in
  let* word := cell body (Z.shiftr start 6) in
  if Z.land word (Z.shiftl 1 (Z.land start 0x3F)) =? 0 then Ret None
  else Ret (Some [wch]).

(** [decompose (const Table* body, wch, start, output)] *)
Definition decompose_mapped (body : list Z) (wch start : Z) : outcome (option (list Z)) :=
  let* wch := cell body (wch - start) in
  if wch =? 0 then Ret None else Ret (Some [wch]).

(** the end of [decompose_2008]: the flag [prohibited] decides *)
Definition unless (prohibited : bool) (wch : Z) : outcome (option (list Z)) :=
  if prohibited then Ret None else Ret (Some [wch]).

Definition decompose_2008 (wch : Z) : outcome (option (list Z)) :=
  if wch <=? 0x33FF then
    decompose_indexed MAPPING_0000_33FF MAPPING_INDEX_0000_33FF wch 0x0000
  else if wch <? 0xE01F0 then
    if wch <? 0x11740 then
      if wch <? 0xAC00 then
        if wch <? 0xA48D then
          if wch <? 0x4DC0 then unless (0x4DB6 <=? wch) wch
          else unless ((0x9FD6 <=? wch) && (wch <=? 0x9FFF)) wch
        else if wch <? 0xA4D0 then unless ((wch <? 0xA490) || (0xA4C6 <? wch)) wch
        else if wch <? 0xA640 then unless (0xA62C <=? wch) wch
        else decompose_mapped MAPPING_A640_ABFF wch 0xA640
      else if wch <? 0xD7FC then
        if wch <? 0xD7B0 then
          if wch <? 0xD7A4 then Ret (Some (hangul_decompose wch))
          else unless true wch
        else unless ((0xD7C7 <=? wch) && (wch <=? 0xD7CA)) wch
      else if wch <? 0x10400 then
        if wch <? 0xF900 then unless true wch
        else if wch <? 0xFFEF then
          decompose_indexed MAPPING_F900_FFEE MAPPING_INDEX_F900_FFEE wch 0xF900
        else decompose_bits MAPPING_FFEF_103FF wch 0xFFEF
      else if wch <? 0x10C80 then
        if wch <? 0x10428 then decompose_mapped MAPPING_10400_10427 wch 0x10400
        else decompose_bits MAPPING_10428_10C7F wch 0x10428
      else if wch <? 0x10CB3 then Ret (Some [])
      else decompose_bits MAPPING_10CB3_1173F wch 0x10CB3
    else if wch <? 0x1D800 then
      if wch <? 0x13000 then
        if wch <? 0x1239A then
          if wch <? 0x11900 then
            if wch <? 0x118C0 then
              if wch <? 0x118A0 then unless true wch
              else decompose_mapped MAPPING_118A0_118BF wch 0x118A0
            else unless ((0x118F3 <=? wch) && (wch <=? 0x118FE)) wch
          else if wch <? 0x11AF9 then unless (wch <? 0x11AC0) wch
          else unless (wch <? 0x12000) wch
        else if wch <? 0x12544 then decompose_bits MAPPING_1239A_12543 wch 0x1239A
        else unless true wch
      else if wch <? 0x16A39 then
        if wch <? 0x14647 then unless ((0x1342F <=? wch) && (wch <=? 0x143FF)) wch
        else unless (wch <? 0x16800) wch
      else if wch <? 0x1D000 then
        if wch <? 0x1B000 then
          if wch <? 0x16FA0 then
            if wch <? 0x16F00 then
              if wch <? 0x16B90 then decompose_bits MAPPING_16A39_16B8F wch 0x16A39
              else unless true wch
            else decompose_bits MAPPING_16F00_16F9F wch 0x16F00
          else unless true wch
        else if wch <? 0x1BC00 then unless (0x1B002 <=? wch) wch
        else if wch <? 0x1BCA0 then decompose_bits MAPPING_1BC00_1BC9F wch 0x1BC00
        else if wch <? 0x1BCA4 then Ret (Some [])
        else unless true wch
      else decompose_indexed MAPPING_1D000_1D7FF MAPPING_INDEX_1D000_1D7FF wch 0x1D000
    else if wch <? 0x2A700 then
      if wch <? 0x1F9C1 then
        if wch <? 0x1EE00 then
          if wch <? 0x1E8C5 then
            if wch <? 0x1DAB0 then
              if wch <? 0x1DA8C then unless false wch
              else decompose_bits MAPPING_1DA8C_1DAAF wch 0x1DA8C
            else unless (wch <? 0x1E800) wch
          else unless ((wch <? 0x1E8C7) || (0x1E8D7 <=? wch)) wch
        else decompose_indexed MAPPING_1EE00_1F9C0 MAPPING_INDEX_1EE00_1F9C0 wch 0x1EE00
      else unless ((wch <? 0x20000) || (0x2A6D6 <? wch)) wch
    else if wch <? 0x2B81E then unless ((0x2B735 <=? wch) && (wch <=? 0x2B73F)) wch
    else if wch <? 0x2FA1E then
      if wch <? 0x2F800 then unless ((wch <? 0x2B820) || (0x2CEA1 <? wch)) wch
      else decompose_mapped MAPPING_2F800_2FA1D wch 0x2F800
    else if wch <? 0xE0100 then unless true wch
    else Ret (Some [])
  else unless true wch.

(** [std::lower_bound] over a sorted range of [uint32_t]: from the first element
    that is not less *)
Fixpoint lower_bound (t : list Z) (wch : Z) : list Z :=
  match t with
  | [] => []
  | x :: t' => if x <? u32 wch then lower_bound t' wch else t
  end.

Definition decompose_2003 (wch : Z) : outcome (option (list Z)) :=
  let* res := decompose_2008 wch in
  match res with
  | Some cs => Ret (Some cs)
  | None =>
    if wch =? 0x1806 then Ret (Some [])
    else
      match lower_bound MAP wch with
      | elem :: _ => if elem =? wch then Ret (Some [wch]) else Ret None
      | [] => Ret None
      end
  end.

(** ** Combining classes *)

Definition get_non_zero_combining_class (wch : Z) : outcome Z :=
  let* block := cell COMBINING_CLASS_INDEX (Z.shiftr (u32 wch) 8) in
  cell block (Z.land (u32 wch) 0xFF).

Definition get_combining_class (wch : Z) : outcome Z :=
  if 0x1D244 <? u32 wch then Ret 0 else get_non_zero_combining_class wch.

Definition is_starter (wch : Z) : outcome bool :=
  let* c := get_combining_class wch in Ret (c =? 0).

(** ** Canonical ordering *)

(** [std::stable_sort] by [canonical_order]: the classes of the characters are
    compared, and characters of one class keep their order; one character alone
    is not compared *)
Fixpoint with_classes (l : list Z) : outcome (list (Z * Z)) :=
  match l with
  | [] => Ret []
  | c :: l' =>
    let* k := get_non_zero_combining_class c in
    let* rest := with_classes l' in
    Ret ((k, c) :: rest)
  end.

Fixpoint insert_class (x : Z * Z) (l : list (Z * Z)) : list (Z * Z) :=
  match l with
  | [] => [x]
  | y :: l' => if y.1 <? x.1 then y :: insert_class x l' else x :: l
  end.

Definition stable_sort (l : list Z) : outcome (list Z) :=
  if (length l <=? 1)%nat then Ret l
  else let* kl := with_classes l in Ret (map snd (foldr insert_class [] kl)).

(** [stable_sort] of the range from [first] to [last] of the buffer *)
Definition sort_range (buf : list Z) (first last : nat) : outcome (list Z) :=
  let* l := stable_sort (take (last - first) (drop first buf)) in
  Ret (take first buf ++ l ++ drop last buf).

(** storing the characters [cs] of a decomposition at [output] *)
Definition store (buf : list Z) (output : nat) (cs : list Z) : outcome (list Z) :=
  guard (output + length cs <=? length buf)%nat
    (Ret (take output buf ++ cs ++ drop (output + length cs) buf)).

(** the variables of [normalize] *)
Record nstate : Type := {
  out_buf : list Z;
  first_combiner : nat;
  beyond_last : nat;
  output : nat;
  first_symbol_flag : bool }.

(** [p[-k]] of a pointer into the buffer *)
Definition rd_back (buf : list Z) (p k : nat) : outcome Z :=
  guard (k <=? p)%nat (rd buf (p - k)).

(** One character [*input] of the loop of [normalize]; [None] is [return 0]. *)
Definition normalize_step (decomposer : Z -> outcome (option (list Z))) (ch : Z)
    (st : nstate) : outcome (option nstate) :=
  let* res := decomposer ch in
  match res with
  | None => Ret None
  | Some cs =>
    let* buf := store (out_buf st) (output st) cs in
    let beyond := (output st + length cs)%nat in
    if (beyond =? output st)%nat then
      Ret (Some {| out_buf := buf; first_combiner := first_combiner st; beyond_last := beyond;
                   output := output st; first_symbol_flag := first_symbol_flag st |})
    else
      let* c0 := rd buf (output st) in
      let* s0 := is_starter c0 in
      if s0 then
        let* buf := (if (first_combiner st <? output st)%nat
                     then sort_range buf (first_combiner st) (output st) else Ret buf) in
        let* c1 := rd_back buf beyond 1 in
        let* s1 := is_starter c1 in
        let* fc := (if s1 then Ret beyond
                    else
                      let* c2 := rd_back buf beyond 2 in
                      let* s2 := is_starter c2 in
                      Ret (if s2 then beyond - 1 else output st + 1)%nat) in
        Ret (Some {| out_buf := buf; first_combiner := fc; beyond_last := beyond;
                     output := beyond; first_symbol_flag := false |})
      else if first_symbol_flag st then Ret None
      else
        Ret (Some {| out_buf := buf; first_combiner := first_combiner st; beyond_last := beyond;
                     output := beyond; first_symbol_flag := first_symbol_flag st |})
  end.

Fixpoint normalize_loop (decomposer : Z -> outcome (option (list Z))) (input : list Z)
    (st : nstate) : outcome (option nstate) :=
  match input with
  | [] => Ret (Some st)
  | ch :: input' =>
    let* r := normalize_step decomposer ch st in
    match r with
    | None => Ret None
    | Some st' => normalize_loop decomposer input' st'
    end
  end.

(** [normalize (input, last, output, decomposer)] at the start of the buffer: the
    buffer and the position beyond the written characters *)
Definition normalize (input buf : list Z) (decomposer : Z -> outcome (option (list Z))) :
    outcome (option (list Z * nat)) :=
  let* r := normalize_loop decomposer input
    {| out_buf := buf; first_combiner := 0; beyond_last := 0; output := 0;
       first_symbol_flag := true |} in
  match r with
  | None => Ret None
  | Some st =>
    let* buf := (if negb (first_combiner st =? beyond_last st)%nat
                 then sort_range (out_buf st) (first_combiner st) (beyond_last st)
                 else Ret (out_buf st)) in
    Ret (Some (buf, output st))
  end.

(** ** Composition *)

Definition hash (starter combiner : Z) : Z :=
  let hash := u32 starter in
  let hash := Z.lxor hash (Z.shiftr (Z.land hash 0x800) 6) in
  let hash := Z.lxor hash (Z.shiftr (Z.land hash 0x200) 4) in
  let hash := Z.lxor hash (Z.land combiner 0x20) in
  let hash := Z.land hash 0x5FF in
  let hash := Z.lxor hash (Z.shiftl (Z.land combiner 0x1F) 9) in
  hash mod 6584.

(** The variables of [compose] and [pair_compose]; [maybe_starter] is a reference
    into the buffer, its position. *)
Record cstate : Type := {
  text_buf : list Z;
  maybe_starter : nat;
  last_class : Z;
  first : nat;
  write_pos : nat }.

Definition set_starter (st : cstate) (v : Z) : outcome (bool * cstate) :=
  let* buf := wr (text_buf st) (maybe_starter st) v in
  Ret (true, {| text_buf := buf; maybe_starter := maybe_starter st; last_class := last_class st;
                first := first st + 1; write_pos := write_pos st |}).

Definition pair_compose (st : cstate) : outcome (bool * cstate) :=
  let* s := rd (text_buf st) (maybe_starter st) in
  let* c := rd (text_buf st) (first st) in
  let* combiner_class := get_combining_class c in
  let keep :=
    if combiner_class =? 0 then Ret (false, st)
    else
      let* buf := wr (text_buf st) (write_pos st) c in
      Ret (true, {| text_buf := buf; maybe_starter := maybe_starter st;
                    last_class := combiner_class; first := first st + 1;
                    write_pos := write_pos st + 1 |}) in
  if (last_class st <? combiner_class) || (combiner_class =? 0) then
    if (L_BASE <=? s) && (s <? L_BASE + L_COUNT) && (V_BASE <=? c) && (c <? V_BASE + V_COUNT) then
      set_starter st (S_BASE + ((s - L_BASE) * V_COUNT + (c - V_BASE)) * T_COUNT)
    else if (S_BASE <=? s) && (s <? S_BASE + S_COUNT) && (Z.rem (s - S_BASE) T_COUNT =? 0) &&
            (T_BASE <=? c) && (c <? T_BASE + T_COUNT) then
      set_starter st (s + (c - T_BASE))
    else
      let* record := cell COMPOSITE_HASH (hash s c) in
      if (s32 (starter record) =? s) && (s32 (combiner record) =? c) then
        set_starter st (s32 (value record))
      else keep
  else keep.

(** [while (first < last && pair_compose (...)) {}] *)
Fixpoint compose_loop (fuel : nat) (last : nat) (st : cstate) : outcome cstate :=
  if (first st <? last)%nat then
    match fuel with
    | O => Undef
    | S fuel' =>
      let* r := pair_compose st in
      if r.1 then compose_loop fuel' last r.2 else Ret r.2
    end
  else Ret st.

(** [compose (first, last, output)]: the buffer, [first] and the result *)
Definition compose (buf : list Z) (begin last output : nat) : outcome (list Z * nat * nat) :=
  let* c := rd buf begin in
  let* buf := wr buf output c in
  if (S begin =? last)%nat then Ret (buf, S begin, S output)
  else
    let* s := rd buf output in
    let* last_class := get_combining_class s in
    let* st := compose_loop (last - S begin) last
      {| text_buf := buf; maybe_starter := output; last_class := last_class;
         first := S begin; write_pos := S output |} in
    Ret (text_buf st, first st, write_pos st).

Fixpoint compose_string_loop (fuel : nat) (buf : list Z) (first last write_pos : nat) :
    outcome (list Z * nat) :=
  if negb (first =? last)%nat then
    match fuel with
    | O => Undef
    | S fuel' =>
      let* r := compose buf first last write_pos in
      let '(buf, first, write_pos) := r in
      compose_string_loop fuel' buf first last write_pos
    end
  else Ret (buf, write_pos).

Definition compose_string (buf : list Z) (last : nat) : outcome (list Z * nat) :=
  compose_string_loop last buf 0 last 0.

(** ** [lower_and_normalize]; the text of [output] before the call is an argument,
    and the result is [output] with the returned flag *)

(** [std::wstring::resize] *)
Definition resize (s : list Z) (n : nat) : list Z := take n s ++ replicate (n - length s) 0.

Definition lower_and_normalize (input output : list Z) (idna2008 : bool) :
    outcome (list Z * bool) :=
  let output := resize output (length input * 18) in
  if (length input =? 0)%nat then Ret (output, false)
  else
    let* r := normalize input output (if idna2008 then decompose_2008 else decompose_2003) in
    match r with
    | None => Ret ([], false)
    | Some (output, out) =>
      let* r := compose_string output out in
      Ret (resize r.1 r.2, true)
    end.
