(* ===== verification/NormTableFacts.v ===== *)
(** * Facts about the tables of the normalizer

    What [UnicodeNormalizer] needs of its tables, established by evaluating them
    once: every combining class that can be asked for is in the tables, the
    offsets of a decomposition table partition it, every decomposition has a
    shape [normalize] can order, and the composite characters sit in the cells
    their hash selects. *)

From S2P Require Import Prelude NormTables UnicodeNormalizer.
Local Open Scope Z_scope.
Local Open Scope outcome_scope.

#[export] Set Warnings "-abstract-large-number".

(** ** Cells *)

Lemma cell_drop {A} (t : list A) i x rest : 0 <= i -> drop (Z.to_nat i) t = x :: rest -> cell t i = Ret x.
Proof.
  intros Hi H. apply cell_lookup; [done|].
  replace (Z.to_nat i) with (Z.to_nat i + 0)%nat by lia. by rewrite <- lookup_drop, H.
Qed.

(** ** Combining classes *)

Definition class_blocks_ok : bool :=
  forallb (fun b => (Z.of_nat (length b) =? 256) && forallb byteb b) COMBINING_CLASS_INDEX.

Lemma class_blocks_checked : class_blocks_ok = true.
Proof. vm_compute. reflexivity. Qed.

Lemma class_index_length : Z.of_nat (length COMBINING_CLASS_INDEX) = 489.
Proof. vm_compute. reflexivity. Qed.

(** every class of the tables is found *)
Lemma non_zero_class_total w : 0 <= w < 489 * 256 ->
  exists k, get_non_zero_combining_class w = Ret k /\ 0 <= k < 256.
Proof.
  intros Hw. unfold get_non_zero_combining_class. assert (Eu : u32 w = w) by (unfold u32; zlia). rewrite Eu.
  rewrite Z.shiftr_div_pow2 by lia. change 0xFF with (Z.ones 8). rewrite Z.land_ones by lia.
  change (2 ^ 8) with 256.
  destruct (cell_in COMBINING_CLASS_INDEX (w / 256)) as (b & Eb & Hb); [rewrite class_index_length; zlia|].
  rewrite Eb. cbn [obind]. pose proof class_blocks_checked as C. unfold class_blocks_ok in C.
  rewrite forallb_forall in C. specialize (C b Hb). apply andb_prop in C as [Cl Cb].
  destruct (cell_in b (w mod 256)) as (k & Ek & Hk); [case_Z; zlia|].
  rewrite Ek. exists k. split; [done|]. rewrite forallb_forall in Cb. by apply byteb_spec, Cb.
Qed.

(** the canonical combining class as a number *)
Definition ccc (w : Z) : Z :=
  match get_combining_class w with Ret k => k | _ => 0 end.

Lemma class_total w : get_combining_class w = Ret (ccc w) /\ 0 <= ccc w < 256.
Proof.
  unfold ccc, get_combining_class. case_Z; [done|].
  assert (Hu : 0 <= u32 w) by (unfold u32; zlia).
  destruct (non_zero_class_total (u32 w)) as (k & Ek & Hk); [lia|].
  unfold get_non_zero_combining_class in *. replace (u32 (u32 w)) with (u32 w) in Ek by (unfold u32; zlia).
  by rewrite Ek.
Qed.

Definition starterb (w : Z) : bool := ccc w =? 0.

Lemma is_starter_total w : is_starter w = Ret (starterb w).
Proof. unfold is_starter. destruct (class_total w) as [-> _]. done. Qed.

(** a character with a class is in the tables, so the comparison of
    [stable_sort] finds it *)
Lemma class_of_combiner w : starterb w = false -> get_non_zero_combining_class w = Ret (ccc w).
Proof.
  pose proof (proj1 (class_total w)) as E. unfold starterb. revert E. generalize (ccc w). intros k.
  unfold get_combining_class. destruct (Z.ltb_spec 0x1D244 (u32 w)); [|done]. by intros [= <-].
Qed.

(** ** Offsets that partition a table *)

(** the code points of a table of offsets, each with its cells *)
Fixpoint rows (body idx : list Z) (cp : Z) : list (Z * list Z) :=
  match idx with
  | i :: (j :: _) as idx' =>
    let n := Z.to_nat (j - i) in (cp, take n body) :: rows (drop n body) idx' (cp + 1)
  | _ => []
  end.

(** the offsets do not decrease and stay within the table *)
Fixpoint offsets_ok (len : Z) (idx : list Z) : bool :=
  match idx with
  | i :: (j :: _) as idx' => (0 <=? i) && (i <=? j) && offsets_ok len idx'
  | [i] => i <=? len
  | [] => false
  end.

(** what a decomposition with these cells yields: a zero prohibits *)
Definition reading (seg : list Z) : option (list Z) :=
  match seg with
  | c :: _ => if c =? 0 then None else Some seg
  | [] => Some []
  end.

Lemma offsets_head len i idx : offsets_ok len (i :: idx) = true -> i <= len.
Proof.
  revert i. induction idx as [|j idx IH]; intros i; cbn [offsets_ok].
  - intros H. by case_Z.
  - intros H. apply andb_prop in H as [H H2]. apply IH in H2. case_Z; [|done]. lia.
Qed.

Lemma copy_cells_take body cur n : 0 <= cur -> (Z.to_nat cur + n <= length body)%nat ->
  copy_cells body cur n = Ret (take n (drop (Z.to_nat cur) body)).
Proof.
  revert cur. induction n as [|n IH]; intros cur Hc Hn; [done|].
  destruct (drop (Z.to_nat cur) body) as [|x rest] eqn:Ed.
  { apply (f_equal length) in Ed. rewrite length_drop in Ed. cbn [length] in Ed. lia. }
  cbn [copy_cells]. rewrite (cell_drop _ _ _ _ Hc Ed). cbn [obind]. rewrite IH by lia.
  replace (Z.to_nat (cur + 1)) with (Z.to_nat cur + 1)%nat by lia.
  rewrite <- drop_drop, Ed. done.
Qed.

Lemma rows_step body i j idx cp : rows body (i :: j :: idx) cp =
  (cp, take (Z.to_nat (j - i)) body) :: rows (drop (Z.to_nat (j - i)) body) (j :: idx) (cp + 1).
Proof. reflexivity. Qed.

Lemma rows_lookup body len i0 idx cp k i j : offsets_ok len (i0 :: idx) = true ->
  (i0 :: idx) !! k = Some i -> idx !! k = Some j ->
  0 <= i /\ i <= j <= len /\
  rows (drop (Z.to_nat i0) body) (i0 :: idx) cp !! k =
    Some (cp + Z.of_nat k, take (Z.to_nat (j - i)) (drop (Z.to_nat i) body)).
Proof.
  revert i0 idx cp. induction k as [|k IH]; intros i0 idx cp Hok Hi Hj.
  - destruct idx as [|j' idx]; [done|]. injection Hi as <-. injection Hj as <-.
    cbn [offsets_ok] in Hok. apply andb_prop in Hok as [H H2]. apply offsets_head in H2.
    apply andb_prop in H as [H H1]. apply Z.leb_le in H, H1. split; [done|]. split; [lia|].
    rewrite rows_step. cbn [lookup list_lookup]. by rewrite Z.add_0_r.
  - destruct idx as [|j' idx]; [done|]. cbn [offsets_ok] in Hok. apply andb_prop in Hok as [H H2].
    apply andb_prop in H as [H H1]. apply Z.leb_le in H, H1.
    destruct (IH j' idx (cp + 1) H2 Hi Hj) as (Ha & Hb & Hr). split; [done|]. split; [done|].
    rewrite rows_step, drop_drop.
    replace (Z.to_nat i0 + Z.to_nat (j' - i0))%nat with (Z.to_nat j') by lia.
    etransitivity; [exact Hr|]. f_equal. f_equal. lia.
Qed.

Lemma rows_length body idx cp : length (rows body idx cp) = (length idx - 1)%nat.
Proof.
  revert body cp. induction idx as [|i idx IH]; intros body cp; [done|].
  destruct idx as [|j idx]; [done|]. rewrite rows_step. cbn [length]. rewrite IH. cbn [length]. lia.
Qed.

(** a table with its offsets: [size] code points *)
Definition table_ok (body idx : list Z) (size : Z) : bool :=
  match idx with
  | i :: _ => (i =? 0) && offsets_ok (Z.of_nat (length body)) idx && (Z.of_nat (length idx) =? size + 1)
  | [] => false
  end.

(** Reading a table through its offsets reads the row of the code point. *)
Lemma decompose_indexed_at body idx size start k : table_ok body idx size = true ->
  0 <= Z.of_nat k < size ->
  exists seg, rows body idx start !! k = Some (start + Z.of_nat k, seg) /\
    decompose_indexed body idx (start + Z.of_nat k) start = Ret (reading seg).
Proof.
  intros Hok Hk. destruct idx as [|i0 idx]; [done|]. unfold table_ok in Hok.
  apply andb_prop in Hok as [Hok Hl]. apply andb_prop in Hok as [H0 Hok].
  apply Z.eqb_eq in H0 as ->. apply Z.eqb_eq in Hl. cbn [length] in Hl.
  destruct (lookup_lt_is_Some_2 idx k) as [j Hj]; [lia|].
  destruct (lookup_lt_is_Some_2 (0 :: idx) k) as [i Hi]; [cbn [length]; lia|].
  destruct (rows_lookup body _ 0 idx start k i j Hok Hi Hj) as (H0 & Hij & Hr).
  cbn [Z.to_nat drop] in Hr. eexists. split; [exact Hr|].
  unfold decompose_indexed. replace (start + Z.of_nat k - start) with (Z.of_nat k) by lia.
  rewrite (cell_lookup _ (Z.of_nat k) i) by (lia || by rewrite Nat2Z.id).
  rewrite (cell_lookup _ (Z.of_nat k + 1) j);
    [|lia|replace (Z.to_nat (Z.of_nat k + 1)) with (S k) by lia; done].
  cbn [obind]. destruct (Z.eqb_spec i j) as [->|Hne]; cbn [negb].
  - by rewrite Z.sub_diag.
  - destruct (drop (Z.to_nat i) body) as [|c rest] eqn:Ed.
    { apply (f_equal length) in Ed. rewrite length_drop in Ed. cbn [length] in Ed. lia. }
    rewrite (cell_drop _ _ _ _ H0 Ed). cbn [obind].
    rewrite copy_cells_take, Ed by lia. replace (Z.to_nat (j - i)) with (S (Z.to_nat (j - i - 1))) by lia.
    cbn [take reading obind]. decide_Z. by destruct (Z.eqb_spec c 0).
Qed.

Lemma decompose_indexed_row body idx size start wch : table_ok body idx size = true ->
  0 <= wch - start < size ->
  exists seg, In (wch, seg) (rows body idx start) /\
    decompose_indexed body idx wch start = Ret (reading seg).
Proof.
  intros Hok Hw. destruct (decompose_indexed_at body idx size start (Z.to_nat (wch - start)) Hok)
    as (seg & Hr & Hd); [lia|].
  replace (start + Z.of_nat (Z.to_nat (wch - start))) with wch in Hr, Hd by lia.
  exists seg. split; [|done]. apply list_elem_of_In. by eapply list_elem_of_lookup_2.
Qed.

Lemma decompose_indexed_of_row body idx size start wch seg : table_ok body idx size = true ->
  In (wch, seg) (rows body idx start) ->
  0 <= wch - start < size /\ decompose_indexed body idx wch start = Ret (reading seg).
Proof.
  intros Hok Hin. apply list_elem_of_In, list_elem_of_lookup_1 in Hin as [k Hk].
  pose proof (lookup_lt_Some _ _ _ Hk) as Hl. rewrite rows_length in Hl.
  assert (Hs : Z.of_nat (length idx) = size + 1).
  { destruct idx as [|i idx]; [done|]. unfold table_ok in Hok. apply andb_prop in Hok as [_ H]. lia. }
  destruct (decompose_indexed_at body idx size start k Hok) as (seg' & Hr & Hd); [lia|].
  rewrite Hk in Hr. injection Hr as -> ->. split; [lia|done].
Qed.

(** the same for a table with one cell for each code point *)
Fixpoint mapped_rows (body : list Z) (cp : Z) : list (Z * list Z) :=
  match body with
  | [] => []
  | c :: body' => (cp, [c]) :: mapped_rows body' (cp + 1)
  end.

Lemma mapped_rows_lookup body cp k c : body !! k = Some c ->
  mapped_rows body cp !! k = Some (cp + Z.of_nat k, [c]).
Proof.
  revert body cp. induction k as [|k IH]; intros [|x body] cp H; try done.
  - injection H as ->. cbn [mapped_rows lookup list_lookup]. by rewrite Z.add_0_r.
  - etransitivity; [exact (IH _ _ H)|]. f_equal. f_equal. lia.
Qed.

Lemma decompose_mapped_row body start wch : 0 <= wch - start < Z.of_nat (length body) ->
  exists seg, In (wch, seg) (mapped_rows body start) /\
    decompose_mapped body wch start = Ret (reading seg).
Proof.
  intros Hw. destruct (lookup_lt_is_Some_2 body (Z.to_nat (wch - start))) as [c Hc]; [lia|].
  exists [c]. split.
  - pose proof (mapped_rows_lookup body start _ c Hc) as H.
    replace (start + Z.of_nat (Z.to_nat (wch - start))) with wch in H by lia.
    apply list_elem_of_In. by eapply list_elem_of_lookup_2.
  - unfold decompose_mapped. rewrite (cell_lookup _ _ c) by (done || lia). cbn [obind reading].
    by destruct (c =? 0).
Qed.

Lemma decompose_bits_row body start wch : 0 <= wch - start < 64 * Z.of_nat (length body) ->
  decompose_bits body wch start = Ret None \/ decompose_bits body wch start = Ret (Some [wch]).
Proof.
  intros Hw. unfold decompose_bits. rewrite Z.shiftr_div_pow2 by lia. change (2 ^ 6) with 64.
  destruct (cell_in body ((wch - start) / 64)) as (x & -> & _); [zlia|].
  cbn [obind]. destruct (_ =? 0); auto.
Qed.

(** ** The shape of a decomposition *)

Fixpoint leading_starters (cs : list Z) : nat :=
  match cs with
  | c :: cs' => if starterb c then S (leading_starters cs') else O
  | [] => O
  end.

(** Starters and then combiners, and at most one of the former or at most one of
    the latter: [normalize] finds the combiners of such a decomposition. *)
Definition shapeb (cs : list Z) : bool :=
  let n := leading_starters cs in
  forallb (fun c => negb (starterb c)) (drop n cs) && ((n <=? 1) || (length cs - n <=? 1))%nat.


Definition is_hangul (c : Z) : bool := (S_BASE <=? c) && (c <? S_BASE + S_COUNT).

(** a character that decomposes to itself *)
Definition fixedb (c : Z) : bool :=
  match decompose_2008 c with Ret (Some [c']) => c' =? c | _ => false end.

(** ** Sets of code points *)

Inductive trie : Type := Empty | Node (b : bool) (l r : trie).

Fixpoint add (p : positive) (t : trie) : trie :=
  match p, t with
  | xH, Empty => Node true Empty Empty
  | xH, Node _ l r => Node true l r
  | xO p', Empty => Node false (add p' Empty) Empty
  | xO p', Node b l r => Node b (add p' l) r
  | xI p', Empty => Node false Empty (add p' Empty)
  | xI p', Node b l r => Node b l (add p' r)
  end.

Fixpoint mem (p : positive) (t : trie) {struct t} : bool :=
  match t with
  | Empty => false
  | Node b l r => match p with xH => b | xO p' => mem p' l | xI p' => mem p' r end
  end.

Lemma mem_add p q t : mem q (add p t) = true -> q = p \/ mem q t = true.
Proof.
  revert q t. induction p as [p IH|p IH|]; intros [q|q|] [|b l r]; cbn [add mem]; auto;
    intros H; (discriminate || (apply IH in H as [-> | H]; auto)).
Qed.

(** the code points with a row that yields themselves *)
Fixpoint self_rows (l : list (Z * list Z)) : trie :=
  match l with
  | (Zpos p, [c]) :: l' => if c =? Zpos p then add p (self_rows l') else self_rows l'
  | _ :: l' => self_rows l'
  | [] => Empty
  end.

Lemma self_rows_in p l : mem p (self_rows l) = true -> In (Zpos p, [Zpos p]) l.
Proof.
  induction l as [|[[|q|q] [|c [|d seg]]] l IH]; cbn [self_rows mem In]; auto; try done.
  destruct (Z.eqb_spec c (Zpos q)) as [->|_]; auto.
  intros H. apply mem_add in H as [-> | H]; auto.
Qed.

(** ** Evaluating the tables

    Classes without the conversion to [uint32_t], for the characters that occur. *)

Definition quick_class (c : Z) : Z :=
  if 0x1D244 <? c then 0 else tab 0 (tab [] COMBINING_CLASS_INDEX (Z.shiftr c 8)) (Z.land c 0xFF).

Definition quick_starterb (c : Z) : bool := quick_class c =? 0.

Fixpoint quick_leading (cs : list Z) : nat :=
  match cs with
  | c :: cs' => if quick_starterb c then S (quick_leading cs') else O
  | [] => O
  end.

Definition quick_shapeb (cs : list Z) : bool :=
  let n := quick_leading cs in
  forallb (fun c => negb (quick_starterb c)) (drop n cs) && ((n <=? 1) || (length cs - n <=? 1))%nat.

Lemma cell_tab {A} (d : A) t i x : cell t i = Ret x -> tab d t i = x.
Proof.
  unfold cell, rd, tab. destruct (i <? 0); [done|]. destruct (t !! Z.to_nat i) as [y|] eqn:E; [|done].
  intros [= <-]. apply nth_lookup_Some with (d := d) in E. done.
Qed.

Lemma quick_class_eq c : 0 <= c < 2 ^ 31 -> quick_class c = ccc c.
Proof.
  intros Hc. pose proof (proj1 (class_total c)) as E. revert E. generalize (ccc c). intros k.
  unfold get_combining_class, quick_class. replace (u32 c) with c by (unfold u32; zlia).
  destruct (Z.ltb_spec 0x1D244 c) as [_|_]; [by intros [= <-]|].
  unfold get_non_zero_combining_class. replace (u32 c) with c by (unfold u32; zlia).
  destruct (cell COMBINING_CLASS_INDEX (Z.shiftr c 8)) as [b| |] eqn:Eb; [|done|done].
  cbn [obind]. intros E. by rewrite (cell_tab [] _ _ _ Eb), (cell_tab 0 _ _ _ E).
Qed.

Definition charb (c : Z) : bool := (0 <? c) && (c <? 0x110000).

Lemma quick_starterb_eq c : charb c = true -> quick_starterb c = starterb c.
Proof.
  intros H. unfold quick_starterb, starterb. rewrite quick_class_eq; [done|].
  unfold charb in H. apply andb_prop in H as [H1 H2]. lia.
Qed.

Lemma quick_shapeb_eq cs : forallb charb cs = true -> quick_shapeb cs = shapeb cs.
Proof.
  intros H. assert (El : quick_leading cs = leading_starters cs).
  { revert H. induction cs as [|c cs IH]; [done|]. cbn [forallb quick_leading leading_starters].
    intros H. apply andb_prop in H as [H1 H2]. by rewrite quick_starterb_eq, IH. }
  unfold quick_shapeb, shapeb. rewrite El. f_equal.
  assert (Hd : forallb charb (drop (leading_starters cs) cs) = true).
  { rewrite <- (take_drop (leading_starters cs) cs), forallb_app in H. by apply andb_prop in H as [_ H]. }
  revert Hd. generalize (drop (leading_starters cs) cs). intros l. induction l as [|c l IH]; [done|].
  cbn [forallb]. intros Hd. apply andb_prop in Hd as [H1 H2]. by rewrite quick_starterb_eq, IH.
Qed.

(** What is checked of a row: the characters decompose to themselves or are
    syllables, and have a shape; [low] holds the characters below [0x3400] that
    decompose to themselves. *)
Definition quick_stableb (low : trie) (c : Z) : bool :=
  if c <=? 0x33FF then match c with Zpos p => mem p low | _ => false end
  else (c <? 0x110000) && (is_hangul c || fixedb c).

Definition quick_rowb (low : trie) (r : Z * list Z) : bool :=
  match r.2 with
  | [] => true
  | [c] => (c =? 0) || (c =? r.1) || quick_stableb low c
  | c :: _ => (c =? 0) || (forallb (quick_stableb low) r.2 && quick_shapeb r.2 && (length r.2 <=? 18)%nat)
  end.

Definition rows_ok (low_rows others : list (Z * list Z)) : bool :=
  let low := self_rows low_rows in
  forallb (quick_rowb low) low_rows && forallb (quick_rowb low) others.

Definition low_rows : list (Z * list Z) := rows MAPPING_0000_33FF MAPPING_INDEX_0000_33FF 0.

Definition other_rows : list (Z * list Z) :=
  rows MAPPING_F900_FFEE MAPPING_INDEX_F900_FFEE 0xF900 ++
  rows MAPPING_1D000_1D7FF MAPPING_INDEX_1D000_1D7FF 0x1D000 ++
  rows MAPPING_1EE00_1F9C0 MAPPING_INDEX_1EE00_1F9C0 0x1EE00 ++
  mapped_rows MAPPING_A640_ABFF 0xA640 ++ mapped_rows MAPPING_10400_10427 0x10400 ++
  mapped_rows MAPPING_118A0_118BF 0x118A0 ++ mapped_rows MAPPING_2F800_2FA1D 0x2F800.

#[global] Strategy expand [low_rows other_rows].

Lemma rows_checked : rows_ok low_rows other_rows = true.
Proof. vm_cast_no_check (eq_refl true). Qed.

Lemma low_table_ok : table_ok MAPPING_0000_33FF MAPPING_INDEX_0000_33FF 0x3400 = true.
Proof. vm_cast_no_check (eq_refl true). Qed.

Lemma F900_table_ok : table_ok MAPPING_F900_FFEE MAPPING_INDEX_F900_FFEE (0xFFEF - 0xF900) = true.
Proof. vm_cast_no_check (eq_refl true). Qed.

Lemma table_ok_1D000 : table_ok MAPPING_1D000_1D7FF MAPPING_INDEX_1D000_1D7FF 0x800 = true.
Proof. vm_cast_no_check (eq_refl true). Qed.

Lemma table_ok_1EE00 : table_ok MAPPING_1EE00_1F9C0 MAPPING_INDEX_1EE00_1F9C0 (0x1F9C1 - 0x1EE00) = true.
Proof. vm_cast_no_check (eq_refl true). Qed.

(** the sizes of the other tables *)
Lemma table_sizes :
  Z.of_nat (length MAPPING_A640_ABFF) = 1472 /\
  Z.of_nat (length MAPPING_10400_10427) = 40 /\
  Z.of_nat (length MAPPING_118A0_118BF) = 32 /\
  Z.of_nat (length MAPPING_2F800_2FA1D) = 542 /\
  Z.of_nat (length MAPPING_FFEF_103FF) = 17 /\
  Z.of_nat (length MAPPING_10428_10C7F) = 34 /\
  Z.of_nat (length MAPPING_10CB3_1173F) = 43 /\
  Z.of_nat (length MAPPING_1239A_12543) = 7 /\
  Z.of_nat (length MAPPING_16A39_16B8F) = 6 /\
  Z.of_nat (length MAPPING_16F00_16F9F) = 3 /\
  Z.of_nat (length MAPPING_1BC00_1BC9F) = 3 /\
  Z.of_nat (length MAPPING_1DA8C_1DAAF) = 1.
Proof. repeat apply conj; vm_compute; reflexivity. Qed.

(** ** The decompositions *)

(** Decomposition never continues: a character it yields is its own
    decomposition, or a precomposed syllable. *)
Definition settled (c : Z) : Prop := charb c = true /\ (fixedb c = true \/ is_hangul c = true).

Definition decomposition_ok (cs : list Z) : Prop :=
  shapeb cs = true /\ (length cs <= 18)%nat /\ Forall settled cs.

Definition decomposes_well (decomposer : Z -> outcome (option (list Z))) (w : Z) : Prop :=
  exists r, decomposer w = Ret r /\ match r with Some cs => decomposition_ok cs | None => True end.

Lemma decompose_2008_low w : w <= 0x33FF ->
  decompose_2008 w = decompose_indexed MAPPING_0000_33FF MAPPING_INDEX_0000_33FF w 0.
Proof. intros H. unfold decompose_2008. by rewrite (proj2 (Z.leb_le w 0x33FF)). Qed.

Lemma self_row_reads body idx size p : table_ok body idx size = true ->
  mem p (self_rows (rows body idx 0)) = true ->
  Zpos p < size /\ decompose_indexed body idx (Zpos p) 0 = Ret (Some [Zpos p]).
Proof.
  intros Hok H. apply self_rows_in in H.
  apply (decompose_indexed_of_row _ _ _ _ _ _ Hok) in H as [Hp Hd]. split; [lia|exact Hd].
Qed.

Lemma fixed_single w : decompose_2008 w = Ret (Some [w]) -> fixedb w = true.
Proof. unfold fixedb. intros ->. apply Z.eqb_refl. Qed.

Lemma low_fixed_sound p : mem p (self_rows low_rows) = true -> fixedb (Zpos p) = true.
Proof.
  intros H. destruct (self_row_reads _ _ _ p low_table_ok H) as [Hp Hd].
  apply fixed_single. rewrite decompose_2008_low by lia. exact Hd.
Qed.

Lemma single_shape c : shapeb [c] = true.
Proof. unfold shapeb. cbn [leading_starters]. destruct (starterb c) eqn:E; cbn; by rewrite ?E. Qed.

Lemma single_ok w : charb w = true -> decompose_2008 w = Ret (Some [w]) -> decomposition_ok [w].
Proof.
  intros Hc H. split; [apply single_shape|]. split; [cbn; lia|]. constructor; [|constructor].
  split; [done|]. left. by apply fixed_single.
Qed.

Section Checked.
Context (low : trie) (low_sound : forall p, mem p low = true -> fixedb (Zpos p) = true).

Lemma quick_stable_sound c : quick_stableb low c = true -> settled c.
Proof using low_sound.
  unfold quick_stableb, settled, charb. destruct (Z.leb_spec c 0x33FF) as [Hc|Hc].
  - destruct c as [|p|p]; try discriminate. intros H. split; [|left; by apply low_sound].
    apply andb_true_intro. split; lia.
  - intros H. apply andb_prop in H as [H1 H2]. split; [apply andb_true_intro; split; lia|].
    by apply orb_prop in H2 as [H2|H2]; auto.
Qed.

Lemma quick_row_sound w seg : quick_rowb low (w, seg) = true -> charb w = true \/ seg <> [w] ->
  decompose_2008 w = Ret (reading seg) -> decomposes_well decompose_2008 w.
Proof using low_sound.
  intros Hq Hw Hd. exists (reading seg). split; [done|].
  unfold quick_rowb in Hq. cbn [fst snd] in Hq.
  destruct seg as [|c seg]; [split; [done|]; split; [cbn; lia|constructor]|].
  cbn [reading] in *. destruct (Z.eqb_spec c 0) as [->|Hc]; [done|].
  destruct seg as [|d seg].
  - cbn [orb] in Hq. apply orb_prop in Hq as [Hq|Hq].
    + apply Z.eqb_eq in Hq as ->. destruct Hw as [Hw|Hw]; [|done]. by apply single_ok.
    + split; [apply single_shape|]. split; [cbn; lia|]. constructor; [|constructor]. by apply quick_stable_sound.
  - cbn [orb] in Hq. apply andb_prop in Hq as [Hq Hlen]. apply andb_prop in Hq as [Hst Hsh].
    assert (Hs : Forall settled (c :: d :: seg)).
    { apply Forall_forall. intros x Hx. apply list_elem_of_In in Hx. apply quick_stable_sound.
      rewrite forallb_forall in Hst. by apply Hst. }
    split; [|split; [by apply Nat.leb_le|done]]. rewrite <- quick_shapeb_eq; [done|].
    apply forallb_forall. intros x Hx. apply list_elem_of_In in Hx. rewrite Forall_forall in Hs.
    by apply Hs.
Qed.

Lemma rows_sound l w seg : forallb (quick_rowb low) l = true -> In (w, seg) l ->
  charb w = true \/ seg <> [w] -> decompose_2008 w = Ret (reading seg) -> decomposes_well decompose_2008 w.
Proof using low_sound. intros C Hin. rewrite forallb_forall in C. by apply quick_row_sound, C. Qed.
End Checked.

Lemma rows_ok_split l others : rows_ok l others = true ->
  forallb (quick_rowb (self_rows l)) l = true /\ forallb (quick_rowb (self_rows l)) others = true.
Proof. apply andb_prop. Qed.

Lemma row_sound w seg : In (w, seg) low_rows \/ In (w, seg) other_rows -> charb w = true \/ seg <> [w] ->
  decompose_2008 w = Ret (reading seg) -> decomposes_well decompose_2008 w.
Proof.
  destruct (rows_ok_split _ _ rows_checked) as [C1 C2].
  intros [Hin|Hin]; [exact (rows_sound _ low_fixed_sound _ _ _ C1 Hin)|exact (rows_sound _ low_fixed_sound _ _ _ C2 Hin)].
Qed.

(** the jamo of the syllables *)
Definition jamo : list Z :=
  map (Z.add L_BASE) (all_below 19) ++ map (Z.add V_BASE) (all_below 21) ++
  map (Z.add T_BASE) (all_below 28).

Lemma jamo_checked : forallb (fun c => charb c && fixedb c && quick_starterb c) jamo = true.
Proof. vm_cast_no_check (eq_refl true). Qed.

Lemma jamo_settled c : In c jamo -> charb c = true /\ fixedb c = true /\ starterb c = true.
Proof.
  intros H. pose proof jamo_checked as C. rewrite forallb_forall in C. specialize (C c H).
  apply andb_prop in C as [C Cs]. apply andb_prop in C as [Cc Cf]. by rewrite <- quick_starterb_eq.
Qed.

Lemma in_jamo_L i : 0 <= i < 19 -> In (L_BASE + i) jamo.
Proof. intros H. apply in_app_iff. left. apply in_map, in_all_below. lia. Qed.

Lemma in_jamo_V i : 0 <= i < 21 -> In (V_BASE + i) jamo.
Proof. intros H. apply in_app_iff. right. apply in_app_iff. left. apply in_map, in_all_below. lia. Qed.

Lemma in_jamo_T i : 0 <= i < 28 -> In (T_BASE + i) jamo.
Proof. intros H. apply in_app_iff. right. apply in_app_iff. right. apply in_map, in_all_below. lia. Qed.

Lemma starters_shape cs : Forall (fun c => starterb c = true) cs ->
  leading_starters cs = length cs /\ shapeb cs = true.
Proof.
  intros H. assert (E : leading_starters cs = length cs).
  { induction H as [|c cs Hc _ IH]; [done|]. cbn [leading_starters length]. by rewrite Hc, IH. }
  split; [done|]. unfold shapeb. rewrite E, drop_all, Nat.sub_diag. cbn. by rewrite orb_true_r.
Qed.

Lemma hangul_jamo w : is_hangul w = true -> Forall (fun c => In c jamo) (hangul_decompose w).
Proof.
  unfold is_hangul. intros H. apply andb_prop in H as [H1 H2]. unfold hangul_decompose.
  decide_Z. cbn [orb]. unfold S_BASE, S_COUNT, N_COUNT, L_COUNT, V_COUNT, T_COUNT in *.
  cbn [app]. constructor; [apply in_jamo_L; zlia|]. constructor; [apply in_jamo_V; zlia|].
  destruct (negb _); [|constructor]. constructor; [apply in_jamo_T; zlia|constructor].
Qed.

Lemma hangul_ok w : is_hangul w = true -> decomposition_ok (hangul_decompose w).
Proof.
  intros H. apply hangul_jamo in H as Hj.
  split; [|split].
  - apply starters_shape. eapply Forall_impl; [exact Hj|]. intros c Hc. by apply jamo_settled.
  - unfold hangul_decompose. destruct (_ || _); [cbn; lia|]. destruct (negb _); cbn; lia.
  - eapply Forall_impl; [exact Hj|]. intros c Hc. apply jamo_settled in Hc as (H1 & H2 & _). split; auto.
Qed.

(** ** [decompose_2008] and [decompose_2003] *)

(** the rows are those of the tables *)
Lemma in_other_rows r :
  In r (rows MAPPING_F900_FFEE MAPPING_INDEX_F900_FFEE 0xF900) \/
  In r (rows MAPPING_1D000_1D7FF MAPPING_INDEX_1D000_1D7FF 0x1D000) \/
  In r (rows MAPPING_1EE00_1F9C0 MAPPING_INDEX_1EE00_1F9C0 0x1EE00) \/
  In r (mapped_rows MAPPING_A640_ABFF 0xA640) \/ In r (mapped_rows MAPPING_10400_10427 0x10400) \/
  In r (mapped_rows MAPPING_118A0_118BF 0x118A0) \/ In r (mapped_rows MAPPING_2F800_2FA1D 0x2F800) ->
  In r other_rows.
Proof. intros H. unfold other_rows. rewrite !in_app_iff. exact H. Qed.

(** proves a disjunction one side of which is literally the type of [H] *)
Ltac pick H :=
  let T := type of H in
  repeat match goal with
  | |- ?A \/ _ => constr_eq A T; left; exact H
  | |- ?A => constr_eq A T; exact H
  | |- _ \/ _ => right
  end.

Lemma leaf_unless w b : decompose_2008 w = unless b w -> charb w = true -> decomposes_well decompose_2008 w.
Proof.
  unfold unless. destruct b; intros H Hc; eexists; (split; [exact H|]); [done|]. by apply single_ok.
Qed.

Lemma leaf_bits w body size start : decompose_2008 w = decompose_bits body w start ->
  Z.of_nat (length body) = size -> 0 <= w - start < 64 * size -> charb w = true ->
  decomposes_well decompose_2008 w.
Proof.
  intros H <- Hw Hc. destruct (decompose_bits_row body start w Hw) as [E|E]; rewrite E in H;
    eexists; (split; [exact H|]); [done|]. by apply single_ok.
Qed.

Lemma leaf_mapped w body size start : decompose_2008 w = decompose_mapped body w start ->
  Z.of_nat (length body) = size -> 0 <= w - start < size -> charb w = true ->
  (forall r, In r (mapped_rows body start) -> In r other_rows) ->
  decomposes_well decompose_2008 w.
Proof.
  intros H <- Hw Hc Hin. destruct (decompose_mapped_row body start w Hw) as (seg & Hs & E).
  rewrite E in H. apply (row_sound w seg); auto.
Qed.

Lemma leaf_indexed w body idx size start : decompose_2008 w = decompose_indexed body idx w start ->
  table_ok body idx size = true -> 0 <= w - start < size -> charb w = true \/ w = 0 ->
  (forall r, In r (rows body idx start) -> In r low_rows \/ In r other_rows) ->
  decomposes_well decompose_2008 w.
Proof.
  intros H Hok Hw Hc Hin. destruct (decompose_indexed_row body idx size start w Hok Hw) as (seg & Hs & E).
  rewrite E in H. destruct Hc as [Hc| ->]; [apply (row_sound w seg); auto|].
  destruct (decide (seg = [0])) as [->|Hne]; [exists None; done|]. apply (row_sound 0 seg); auto.
Qed.

Lemma leaf_empty w : decompose_2008 w = Ret (Some []) -> decomposes_well decompose_2008 w.
Proof. intros H. eexists. split; [exact H|]. split; [done|]. split; [cbn; lia|constructor]. Qed.

Lemma leaf_hangul w : decompose_2008 w = Ret (Some (hangul_decompose w)) -> is_hangul w = true ->
  decomposes_well decompose_2008 w.
Proof. intros H Hw. eexists. split; [exact H|]. by apply hangul_ok. Qed.

(** Every character decomposes, from inside the tables. *)
Lemma decompose_2008_well w : 0 <= w -> decomposes_well decompose_2008 w.
Proof.
  intros H0. destruct (Z.leb_spec w 0x33FF) as [Hl|Hl].
  { apply (leaf_indexed w _ _ _ _ (decompose_2008_low w Hl) low_table_ok); [lia| |tauto].
    unfold charb. destruct (Z.eqb_spec w 0); [auto|left]. apply andb_true_intro. lia. }
  destruct table_sizes as (T1 & T2 & T3 & T4 & T5 & T6 & T7 & T8 & T9 & T10 & T11 & T12).
  assert (E : decompose_2008 w = decompose_2008 w) by reflexivity.
  unfold decompose_2008 at 2 in E. rewrite (proj2 (Z.leb_gt w 0x33FF)) in E by lia.
  assert (Hc : w < 0xE01F0 -> charb w = true) by (intros; unfold charb; apply andb_true_intro; lia).
  repeat match type of E with
  | _ = (if ?a <? ?b then _ else _) => destruct (Z.ltb_spec a b)
  end.
  all: try (apply (leaf_unless w _ E); apply Hc; lia).
  all: try (apply (leaf_empty w E)).
  all: try (apply (leaf_bits w _ _ _ E); [eassumption|lia|apply Hc; lia]).
  all: try (exists None; split; [exact E|done]).
  all: try (apply (leaf_hangul w E); unfold is_hangul, S_BASE, S_COUNT, L_COUNT, N_COUNT, V_COUNT, T_COUNT;
    apply andb_true_intro; lia).
  all: match type of E with
  | _ = decompose_bits ?b _ _ =>
    match goal with T : Z.of_nat (length b) = _ |- _ =>
      apply (leaf_bits w _ _ _ E T); [lia|apply Hc; lia] end
  | _ = decompose_mapped ?b _ _ =>
    match goal with T : Z.of_nat (length b) = _ |- _ =>
      apply (leaf_mapped w _ _ _ E T); [lia|apply Hc; lia|intros r Hr; apply in_other_rows; pick Hr] end
  | _ => idtac
  end.
  - apply (leaf_indexed w _ _ _ _ E F900_table_ok); [lia|left; apply Hc; lia|].
    intros r Hr. right. apply in_other_rows. pick Hr.
  - apply (leaf_indexed w _ _ _ _ E table_ok_1D000); [lia|left; apply Hc; lia|].
    intros r Hr. right. apply in_other_rows. pick Hr.
  - apply (leaf_indexed w _ _ _ _ E table_ok_1EE00); [lia|left; apply Hc; lia|].
    intros r Hr. right. apply in_other_rows. pick Hr.
Qed.

Lemma lower_bound_in t w elem rest : lower_bound t w = elem :: rest -> In elem t.
Proof.
  induction t as [|x t IH]; [done|]. cbn [lower_bound In]. destruct (x <? u32 w); [auto|].
  intros [= -> _]. auto.
Qed.

Lemma MAP_checked : forallb charb MAP = true.
Proof. vm_compute. reflexivity. Qed.

(** ** The interface of a decomposer *)

(** What [normalize] relies on: every character is prohibited or decomposes to at
    most 18 characters of a shape it can order, which are their own
    decompositions or syllables; a syllable decomposes to its jamo. *)
Class Decomposer (decomposer : Z -> outcome (option (list Z))) : Prop := {
  decomposer_total w : 0 <= w -> exists r, decomposer w = Ret r /\
    forall cs, r = Some cs -> shapeb cs = true /\ (length cs <= 18)%nat /\
      Forall (fun c => charb c = true /\ (decomposer c = Ret (Some [c]) \/ is_hangul c = true)) cs;
  decomposer_hangul w : is_hangul w = true -> decomposer w = Ret (Some (hangul_decompose w));
  decomposer_fixed c : fixedb c = true -> decomposer c = Ret (Some [c]) }.

Lemma fixedb_eq c : fixedb c = true -> decompose_2008 c = Ret (Some [c]).
Proof.
  unfold fixedb. destruct (decompose_2008 c) as [[[|c' [|? ?]]|]| |]; try done.
  intros H. by apply Z.eqb_eq in H as ->.
Qed.

Lemma decompose_2008_hangul w : is_hangul w = true -> decompose_2008 w = Ret (Some (hangul_decompose w)).
Proof.
  unfold is_hangul, S_COUNT, N_COUNT, S_BASE, L_COUNT, V_COUNT, T_COUNT. intros H.
  apply andb_prop in H as [H1 H2]. unfold decompose_2008.
  rewrite (proj2 (Z.leb_gt w 0x33FF)), (proj2 (Z.ltb_lt w 0xE01F0)), (proj2 (Z.ltb_lt w 0x11740)),
    (proj2 (Z.ltb_ge w 0xAC00)), (proj2 (Z.ltb_lt w 0xD7FC)), (proj2 (Z.ltb_lt w 0xD7B0)),
    (proj2 (Z.ltb_lt w 0xD7A4)) by lia. reflexivity.
Qed.

#[export] Instance decompose_2008_Decomposer : Decomposer decompose_2008.
Proof.
  split; [|exact decompose_2008_hangul|exact fixedb_eq].
  intros w Hw. destruct (decompose_2008_well w Hw) as (r & E & Hr). exists r. split; [done|].
  intros cs ->. destruct Hr as (Hs & Hl & Hf). split; [done|]. split; [done|].
  eapply Forall_impl; [exact Hf|]. intros c [H1 [H2|H2]]; split; auto. left. by apply fixedb_eq.
Qed.

Lemma decompose_2003_of_2008 w cs : decompose_2008 w = Ret (Some cs) -> decompose_2003 w = Ret (Some cs).
Proof. unfold decompose_2003. by intros ->. Qed.

#[export] Instance decompose_2003_Decomposer : Decomposer decompose_2003.
Proof.
  split.
  - intros w Hw. destruct (decomposer_total w Hw) as ([cs|] & E & Hr).
    + exists (Some cs). split; [by apply decompose_2003_of_2008|]. intros ? [= <-].
      destruct (Hr cs eq_refl) as (Hs & Hl & Hf). split; [done|]. split; [done|].
      eapply Forall_impl; [exact Hf|]. intros c [H1 [H2|H2]]; split; auto. left. by apply decompose_2003_of_2008.
    + assert (E3 : forall r, decompose_2003 w = r -> decompose_2003 w = r) by done.
      specialize (E3 _ eq_refl). unfold decompose_2003 at 2 in E3. rewrite E in E3. cbn [obind] in E3.
      destruct (w =? 0x1806); [|].
      { exists (Some []). split; [done|]. intros ? [= <-]. split; [done|]. split; [cbn; lia|constructor]. }
      destruct (lower_bound MAP w) as [|elem rest] eqn:El; [by exists None|].
      destruct (Z.eqb_spec elem w) as [->|_]; [|by exists None].
      exists (Some [w]). split; [done|]. intros ? [= <-]. split; [apply single_shape|]. split; [cbn; lia|].
      constructor; [|constructor]. split; [|by left]. apply lower_bound_in in El.
      pose proof MAP_checked as C. rewrite forallb_forall in C. by apply C.
  - intros w Hw. by apply decompose_2003_of_2008, decompose_2008_hangul.
  - intros c Hc. by apply decompose_2003_of_2008, fixedb_eq.
Qed.

(** ** The hash table of composite characters *)

Definition no_record (r : CompositeHashRecord) : bool :=
  (value r =? 0) && (starter r =? 0) && (combiner r =? 0).

(** every record sits in the cell its hash selects *)
Fixpoint placed (i : Z) (l : list CompositeHashRecord) : bool :=
  match l with
  | [] => true
  | r :: l' => (no_record r || (hash (starter r) (combiner r) =? i)) && placed (i + 1) l'
  end.

Definition values (l : list CompositeHashRecord) : trie :=
  foldr (fun r t => add (Z.to_pos (value r)) t) Empty l.

Definition jamo_L (c : Z) : bool := (L_BASE <=? c) && (c <? L_BASE + L_COUNT).
Definition jamo_V (c : Z) : bool := (V_BASE <=? c) && (c <? V_BASE + V_COUNT).
Definition jamo_T (c : Z) : bool := (T_BASE <=? c) && (c <? T_BASE + T_COUNT).

(** What is checked of a record, with the set of all composites: they are starters
    and their own decompositions, no composite is a second character, Hangul is
    not in the table, and a composite joins no combiner of a lower class than the one
    it ends with. *)
Definition recordb (low composites : trie) (l : list CompositeHashRecord) (r : CompositeHashRecord) : bool :=
  charb (value r) && charb (starter r) && charb (combiner r) &&
  quick_stableb low (value r) && quick_starterb (value r) &&
  negb (is_hangul (value r)) && negb (jamo_V (value r)) && negb (jamo_T (value r)) &&
  negb (mem (Z.to_pos (combiner r)) composites) && negb (is_hangul (combiner r)) &&
  negb (jamo_L (combiner r)) &&
  (negb (mem (Z.to_pos (starter r)) composites) || quick_starterb (combiner r) ||
   forallb (fun q => negb (value q =? starter r) || (quick_class (combiner q) <=? quick_class (combiner r))) l).

Definition records : list CompositeHashRecord := filter (fun r => no_record r = false) COMPOSITE_HASH.

Definition records_ok (low : trie) (l : list CompositeHashRecord) : bool :=
  let composites := values l in forallb (recordb low composites l) l.

#[global] Strategy expand [records].

Lemma placed_checked : placed 0 COMPOSITE_HASH = true.
Proof. vm_cast_no_check (eq_refl true). Qed.

Lemma records_checked : records_ok (self_rows low_rows) records = true.
Proof. vm_cast_no_check (eq_refl true). Qed.

Lemma hash_table_size : Z.of_nat (length COMPOSITE_HASH) = 6584.
Proof. vm_compute. reflexivity. Qed.

(** the composite of a pair, as a search for its record *)
Definition composite_in (l : list CompositeHashRecord) (s c : Z) : option Z :=
  option_map value (find (fun r => (starter r =? s) && (combiner r =? c)) l).

Definition composite : Z -> Z -> option Z := composite_in records.

Lemma placed_at l i k r : placed i l = true -> l !! k = Some r -> no_record r = false ->
  hash (starter r) (combiner r) = i + Z.of_nat k.
Proof.
  revert i k. induction l as [|x l IH]; intros i k; [done|]. cbn [placed]. intros H Hk Hr.
  apply andb_prop in H as [H1 H2]. destruct k as [|k].
  - injection Hk as ->. rewrite Hr in H1. apply Z.eqb_eq in H1. lia.
  - rewrite (IH _ _ H2 Hk Hr). lia.
Qed.

Section HashTable.
Context (t : list CompositeHashRecord) (t_placed : placed 0 t = true)
  (t_size : Z.of_nat (length t) = 6584).

Lemma hash_cell s c : exists r, cell t (hash s c) = Ret r /\ t !! Z.to_nat (hash s c) = Some r.
Proof using t_size.
  assert (H : 0 <= hash s c < 6584) by (unfold hash; apply Z.mod_pos_bound; lia).
  destruct (lookup_lt_is_Some_2 t (Z.to_nat (hash s c))) as [r Hr]; [lia|].
  exists r. split; [|done]. apply cell_lookup; [lia|done].
Qed.

(** The cell the hash selects decides whether the pair is in the table. *)
Lemma hash_cell_decides s c : 0 < s -> (forall r, In r t -> no_record r = false -> 
    charb (value r) = true /\ charb (starter r) = true /\ charb (combiner r) = true) ->
  exists r, cell t (hash s c) = Ret r /\
    (if (s32 (starter r) =? s) && (s32 (combiner r) =? c) then Some (s32 (value r)) else None) =
    composite_in (filter (fun r => no_record r = false) t) s c.
Proof using t_placed t_size.
  intros Hs Hok. destruct (hash_cell s c) as (r & Ec & Er). exists r. split; [done|].
  assert (Hid : forall x, charb x = true -> s32 x = x).
  { intros x Hx. unfold charb in Hx. apply andb_prop in Hx as [? ?]. unfold s32. zlia. }
  assert (Hin : In r t) by (apply list_elem_of_In; by eapply list_elem_of_lookup_2).
  unfold composite_in. destruct (find _ _) as [q|] eqn:Ef; cbn [option_map].
  - apply find_some in Ef as [Hq Hm]. apply andb_prop in Hm as [M1 M2]. apply Z.eqb_eq in M1, M2.
    apply list_elem_of_In, list_elem_of_filter in Hq as [Hn Hq].
    destruct (Hok q) as (Q1 & Q2 & Q3); [by apply list_elem_of_In|done|].
    apply list_elem_of_lookup_1 in Hq as [k Hk]. pose proof (placed_at t 0 k q t_placed Hk Hn) as Hp.
    rewrite M1, M2 in Hp. rewrite Hp, Z.add_0_l, Nat2Z.id, Hk in Er. injection Er as ->.
    rewrite !Hid by done. by rewrite M1, M2, !Z.eqb_refl.
  - destruct (_ && _) eqn:Em; [|done]. exfalso. apply andb_prop in Em as [M1 M2].
    apply Z.eqb_eq in M1, M2. destruct (no_record r) eqn:En.
    { unfold no_record in En. apply andb_prop in En as [En _]. apply andb_prop in En as [_ En].
      apply Z.eqb_eq in En. rewrite En in M1. unfold s32 in M1. zlia. }
    destruct (Hok r Hin En) as (Q1 & Q2 & Q3). rewrite Hid in M1, M2 by done.
    apply (find_none _ _) with (x := r) in Ef; [|by apply list_elem_of_In, list_elem_of_filter; split; [|apply list_elem_of_In]].
    by rewrite M1, M2, !Z.eqb_refl in Ef.
Qed.
End HashTable.

Lemma composite_in_record l s c v : composite_in l s c = Some v ->
  exists r, In r l /\ starter r = s /\ combiner r = c /\ value r = v.
Proof.
  unfold composite_in. destruct (find _ _) as [r|] eqn:Ef; [|done]. intros [= <-].
  apply find_some in Ef as [Hr Hm]. apply andb_prop in Hm as [M1 M2]. apply Z.eqb_eq in M1, M2. eauto.
Qed.

Lemma values_in l r : In r l -> mem (Z.to_pos (value r)) (values l) = true.
Proof.
  assert (Hadd : forall p t, mem p (add p t) = true).
  { intros p. induction p as [p IH|p IH|]; intros [|b lt rt]; cbn; auto. }
  assert (Hmono : forall p q t, mem q t = true -> mem q (add p t) = true).
  { intros p. induction p as [p IH|p IH|]; intros [q|q|] [|b lt rt]; cbn; auto; discriminate. }
  induction l as [|x l IH]; [done|]. cbn [values foldr]. intros [-> | H]; [apply Hadd|].
  apply Hmono. by apply IH.
Qed.

Section Records.
Context (low : trie) (low_sound : forall p, mem p low = true -> fixedb (Zpos p) = true)
  (l : list CompositeHashRecord) (l_ok : records_ok low l = true).

Lemma record_checked r : In r l -> recordb low (values l) l r = true.
Proof using l_ok. intros H. unfold records_ok in l_ok. rewrite forallb_forall in l_ok. by apply l_ok. Qed.

(** A composite is a starter that decomposes to itself, and Hangul is apart. *)
Lemma composite_value s c v : composite_in l s c = Some v ->
  charb v = true /\ charb c = true /\ starterb v = true /\ fixedb v = true /\ is_hangul v = false /\
  jamo_V v = false /\ jamo_T v = false /\ is_hangul c = false /\ jamo_L c = false.
Proof using low_sound l_ok.
  intros H. apply composite_in_record in H as (r & Hr & <- & <- & <-). apply record_checked in Hr.
  unfold recordb in Hr. do 11 (apply andb_prop in Hr as [Hr ?]).
  repeat match goal with H : negb _ = true |- _ => apply negb_true_iff in H end.
  assert (Hset : settled (value r)) by (by apply (quick_stable_sound low)).
  destruct Hset as [_ [Hf|Hf]]; [|congruence]. rewrite <- quick_starterb_eq by done. tauto.
Qed.

(** No composite is the second character of a pair. *)
Lemma composite_not_combiner s c v s' c' v' : composite_in l s c = Some v ->
  composite_in l s' c' = Some v' -> c' <> v.
Proof using l_ok.
  intros H H'. apply composite_in_record in H as (r & Hr & <- & <- & <-).
  apply composite_in_record in H' as (r' & Hr' & <- & <- & <-). intros E.
  pose proof (record_checked r' Hr') as C. unfold recordb in C. do 11 (apply andb_prop in C as [C ?]).
  match goal with H : negb (mem _ _) = true |- _ => rewrite E, (values_in l r Hr) in H; discriminate end.
Qed.

(** A composite joins no combiner of a lower class than the one it ends with. *)
Lemma composite_classes s c v c' v' : composite_in l s c = Some v -> composite_in l v c' = Some v' ->
  ccc c' = 0 \/ ccc c <= ccc c'.
Proof using l_ok.
  intros H H'. apply composite_in_record in H as (r & Hr & <- & <- & <-).
  apply composite_in_record in H' as (r' & Hr' & E & <- & <-).
  pose proof (record_checked r' Hr') as C. unfold recordb in C. do 11 (apply andb_prop in C as [C ?]).
  pose proof (record_checked r Hr) as D. unfold recordb in D. do 11 (apply andb_prop in D as [D ?]).
  match goal with H : (_ || _) = true |- _ =>
    rewrite E, (values_in l r Hr) in H; cbn [negb orb] in H; apply orb_prop in H as [H|H] end.
  - left. rewrite quick_starterb_eq in * by done. unfold starterb in *. lia.
  - right. match goal with H : forallb _ _ = true |- _ => rewrite forallb_forall in H; specialize (H r Hr) end.
    rewrite Z.eqb_refl in *. cbn [negb orb] in *.
    rewrite !quick_class_eq in * by (unfold charb in *; lia). lia.
Qed.
End Records.

(** syllables are starters *)
Lemma hangul_blocks_checked :
  forallb (fun i => forallb (Z.eqb 0) (tab [] COMBINING_CLASS_INDEX (0xAC + i))) (all_below 44) = true.
Proof. vm_cast_no_check (eq_refl true). Qed.

Lemma hangul_starter c : is_hangul c = true -> ccc c = 0.
Proof.
  unfold is_hangul, S_COUNT, N_COUNT, S_BASE, L_COUNT, V_COUNT, T_COUNT. intros H.
  apply andb_prop in H as [H1 H2]. rewrite <- quick_class_eq by lia. unfold quick_class.
  rewrite (proj2 (Z.ltb_ge 0x1D244 c)) by lia. rewrite Z.shiftr_div_pow2 by lia. change (2 ^ 8) with 256.
  pose proof hangul_blocks_checked as C. rewrite forallb_forall in C.
  specialize (C (c / 256 - 0xAC) ltac:(apply in_all_below; zlia)).
  replace (0xAC + (c / 256 - 0xAC)) with (c / 256) in C by lia.
  unfold tab at 1. generalize dependent (tab [] COMBINING_CLASS_INDEX (c / 256)). intros block C.
  generalize (Z.to_nat (Z.land c 0xFF)). intros n. revert n. induction block as [|x block IH]; intros [|n]; cbn [nth]; try done.
  - cbn [forallb] in C. apply andb_prop in C as [C _]. lia.
  - apply IH. cbn [forallb] in C. by apply andb_prop in C as [_ C].
Qed.
