(* ===== verification/Normalization.v ===== *)
(** * Normalized text

    What [lower_and_normalize] computes.  [normalize] is shown to bring the
    decomposed text into the canonical order of the Unicode standard (exchanges of
    neighbouring combiners until none is out of order), for every decomposer with
    the laws of [Decomposer]; [compose_string] is shown to compute in place the
    function [compose_text] on texts, with the hash table as a search for the pair;
    the text returned is a fixed point where no composing starter follows a
    combiner.  The points where the code departs from the standard are stated too. *)
From stdpp Require Import relations.
From S2P Require Import Prelude NormTables UnicodeNormalizer NormTableFacts.
Local Open Scope Z_scope.
Local Open Scope outcome_scope.

#[local] Opaque ccc decompose_2008 decompose_2003.

(** ** Canonical order *)

Definition is_combiner (c : Z) : Prop := starterb c = false.

Lemma combiner_class c : is_combiner c <-> 0 < ccc c.
Proof.
  unfold is_combiner, starterb. pose proof (proj2 (class_total c)) as H.
  destruct (Z.eqb_spec (ccc c) 0); split; (done || lia).
Qed.

Lemma starter_class c : starterb c = true <-> ccc c = 0.
Proof. unfold starterb. apply Z.eqb_eq. Qed.

(** a reorderable pair is exchanged *)
Inductive exchange : list Z -> list Z -> Prop :=
| exchange_pair p a b q : 0 < ccc b < ccc a -> exchange (p ++ a :: b :: q) (p ++ b :: a :: q).

(** no pair is reorderable *)
Definition canonical (l : list Z) : Prop :=
  forall p a b q, l = p ++ a :: b :: q -> ~ 0 < ccc b < ccc a.

Fixpoint insert_ccc (x : Z) (l : list Z) : list Z :=
  match l with
  | [] => [x]
  | y :: l' => if ccc y <? ccc x then y :: insert_ccc x l' else x :: l
  end.

Definition sort_run (l : list Z) : list Z := foldr insert_ccc [] l.

(** every run of combiners is sorted; [run] is the current one *)
Fixpoint reorder (run l : list Z) : list Z :=
  match l with
  | [] => sort_run run
  | c :: l' => if starterb c then sort_run run ++ c :: reorder [] l' else reorder (run ++ [c]) l'
  end.

Lemma insert_perm x l : insert_ccc x l ≡ₚ x :: l.
Proof.
  induction l as [|y l IH]; [done|]. cbn [insert_ccc]. destruct (_ <? _); [|done].
  rewrite IH. apply perm_swap.
Qed.

Lemma sort_perm l : sort_run l ≡ₚ l.
Proof. induction l as [|x l IH]; [done|]. cbn [sort_run foldr]. rewrite insert_perm. by constructor. Qed.

Lemma sort_combiners l : Forall is_combiner l -> Forall is_combiner (sort_run l).
Proof. intros H. by rewrite sort_perm. Qed.

#[export] Instance exchange_cons_proper x : Proper (rtc exchange ==> rtc exchange) (cons x).
Proof.
  intros l l' H. induction H as [|l l' l'' H _ IH]; [done|]. eapply rtc_l; [|exact IH].
  destruct H as [p a b q H]. apply (exchange_pair (x :: p) a b q H).
Qed.

Lemma exchange_app_l p l l' : rtc exchange l l' -> rtc exchange (p ++ l) (p ++ l').
Proof. intros H. induction p as [|x p IH]; [done|]. cbn [app]. by apply exchange_cons_proper. Qed.

Lemma exchange_app_r q l l' : rtc exchange l l' -> rtc exchange (l ++ q) (l' ++ q).
Proof.
  intros H. induction H as [|l l' l'' H _ IH]; [done|]. eapply rtc_l; [|exact IH].
  destruct H as [p a b r H]. rewrite <- !app_assoc. cbn [app]. by constructor.
Qed.

Lemma insert_exchange x l : Forall is_combiner l -> rtc exchange (x :: l) (insert_ccc x l).
Proof.
  intros H. induction H as [|y l Hy _ IH]; [done|]. cbn [insert_ccc].
  destruct (Z.ltb_spec (ccc y) (ccc x)) as [Hlt|_]; [|done].
  apply combiner_class in Hy. eapply rtc_l; [apply (exchange_pair [] x y l); lia|].
  cbn [app]. by apply exchange_cons_proper.
Qed.

Lemma sort_exchange l : Forall is_combiner l -> rtc exchange l (sort_run l).
Proof.
  intros H. induction H as [|x l Hx Hl IH]; [done|]. cbn [sort_run foldr].
  etransitivity; [apply exchange_cons_proper, IH|]. apply insert_exchange. by apply sort_combiners.
Qed.

Lemma reorder_exchange run l : Forall is_combiner run -> rtc exchange (run ++ l) (reorder run l).
Proof.
  revert run. induction l as [|c l IH]; intros run Hrun; cbn [reorder].
  - rewrite app_nil_r. by apply sort_exchange.
  - destruct (starterb c) eqn:Ec.
    + etransitivity; [apply exchange_app_r, sort_exchange, Hrun|]. apply exchange_app_l, exchange_cons_proper.
      apply (IH []). constructor.
    + rewrite cons_middle, app_assoc. apply IH. apply Forall_app. split; [done|]. by constructor.
Qed.

(** [ordered_from k l]: the classes of [l] do not decrease within a run that
    follows a character of class [k] *)
Fixpoint ordered_from (k : Z) (l : list Z) : Prop :=
  match l with
  | [] => True
  | c :: l' => (ccc c = 0 \/ k <= ccc c) /\ ordered_from (ccc c) l'
  end.

Lemma ordered_canonical k l : ordered_from k l -> canonical l.
Proof.
  intros H p a b q ->. revert k H. induction p as [|x p IH]; cbn [app ordered_from].
  - intros k [_ [H _]]. lia.
  - intros k [_ H]. by apply (IH _ H).
Qed.

Lemma ordered_weaken k k' l : k <= k' -> ordered_from k' l -> ordered_from k l.
Proof. intros Hk. destruct l as [|c l]; [done|]. intros [H1 H2]. split; [lia|done]. Qed.

Lemma ordered_insert k x l : k <= ccc x -> ordered_from k l -> Forall is_combiner l ->
  ordered_from k (insert_ccc x l).
Proof.
  intros Hx Hl Hc. revert k Hx Hl. induction Hc as [|y l Hy Hc IH]; intros k Hx Hl; cbn [insert_ccc].
  - split; [lia|done].
  - destruct Hl as [H1 H2]. apply combiner_class in Hy. destruct (Z.ltb_spec (ccc y) (ccc x)).
    + split; [done|]. apply IH; [lia|done].
    + split; [lia|]. split; [lia|done].
Qed.

Lemma ordered_sort l : Forall is_combiner l -> ordered_from 0 (sort_run l).
Proof.
  intros H. induction H as [|x l Hx Hl IH]; [done|]. cbn [sort_run foldr].
  apply ordered_insert; [|done|by apply sort_combiners]. apply combiner_class in Hx. lia.
Qed.

Lemma ordered_text_app k l c l' : ordered_from k l -> ccc c = 0 -> ordered_from 0 l' -> ordered_from k (l ++ c :: l').
Proof.
  intros H Hc Hl'. revert k H. induction l as [|x l IH]; intros k H; cbn [app ordered_from] in *.
  - rewrite Hc. auto.
  - destruct H. auto.
Qed.

Lemma reorder_ordered run l : Forall is_combiner run -> ordered_from 0 (reorder run l).
Proof.
  revert run. induction l as [|c l IH]; intros run Hrun; cbn [reorder]; [by apply ordered_sort|].
  destruct (starterb c) eqn:Ec.
  - apply ordered_text_app; [by apply ordered_sort|by apply starter_class|apply IH; constructor].
  - apply IH, Forall_app. split; [done|]. by constructor.
Qed.

(** The canonical order of a text is unique: exchanges do not change what
    [reorder] computes, and a text in canonical order is left as it is. *)
Lemma insert_comm a b l : ccc a <> ccc b -> insert_ccc a (insert_ccc b l) = insert_ccc b (insert_ccc a l).
Proof.
  intros H. induction l as [|y l IH]; cbn [insert_ccc].
  - destruct (Z.ltb_spec (ccc b) (ccc a)), (Z.ltb_spec (ccc a) (ccc b)); (done || lia).
  - destruct (Z.ltb_spec (ccc y) (ccc a)) as [Ha|Ha], (Z.ltb_spec (ccc y) (ccc b)) as [Hb|Hb]; cbn [insert_ccc];
      repeat (case_Z; cbn [insert_ccc]); rewrite ?IH; (done || lia).
Qed.

Lemma sort_exchange_eq r a b t : ccc a <> ccc b -> sort_run (r ++ a :: b :: t) = sort_run (r ++ b :: a :: t).
Proof.
  intros H. unfold sort_run. rewrite !foldr_app. f_equal. cbn [foldr]. by apply insert_comm.
Qed.

Lemma reorder_runs r1 r2 l : (forall t, sort_run (r1 ++ t) = sort_run (r2 ++ t)) -> reorder r1 l = reorder r2 l.
Proof.
  revert r1 r2. induction l as [|c l IH]; intros r1 r2 H; cbn [reorder].
  - specialize (H []). by rewrite !app_nil_r in H.
  - destruct (starterb c); [specialize (H []); rewrite !app_nil_r in H; by rewrite H|].
    apply IH. intros t. rewrite <- !app_assoc. apply H.
Qed.

Lemma reorder_exchange_eq l l' : exchange l l' -> forall run, reorder run l = reorder run l'.
Proof.
  intros [p a b q H]. induction p as [|x p IH]; intros run; cbn [app reorder].
  - pose proof (proj2 (combiner_class a) ltac:(lia)) as Ha. pose proof (proj2 (combiner_class b) ltac:(lia)) as Hb.
    unfold is_combiner in Ha, Hb. rewrite Ha, Hb. apply reorder_runs. intros t.
    rewrite <- !app_assoc. apply sort_exchange_eq. lia.
  - destruct (starterb x); by rewrite IH.
Qed.

Lemma sort_ordered l : Forall is_combiner l -> ordered_from 0 l -> sort_run l = l.
Proof.
  intros Hc. generalize 0. induction Hc as [|x l Hx Hc IH]; intros k H; [done|].
  destruct H as [_ H]. cbn [sort_run foldr]. rewrite (IH _ H : foldr insert_ccc [] l = l).
  destruct l as [|y l]; [done|]. cbn [insert_ccc]. destruct H as [H _]. inversion Hc as [|? ? Hy _].
  apply combiner_class in Hy. destruct (Z.ltb_spec (ccc y) (ccc x)); [lia|done].
Qed.

Lemma ordered_app_inv k l l' : ordered_from k (l ++ l') -> ordered_from k l.
Proof.
  revert k. induction l as [|x l IH]; intros k; [done|]. cbn [app ordered_from]. intros [H1 H2]. split; [done|].
  by apply IH.
Qed.

Lemma reorder_ordered_id run l : Forall is_combiner run -> ordered_from 0 (run ++ l) -> reorder run l = run ++ l.
Proof.
  revert run. induction l as [|c l IH]; intros run Hrun H; cbn [reorder].
  - rewrite app_nil_r in *. by apply sort_ordered.
  - destruct (starterb c) eqn:Ec.
    + rewrite sort_ordered; [|done|by eapply ordered_app_inv]. do 2 f_equal. apply (IH []); [constructor|].
      clear IH. revert H. generalize 0 at 1. induction run as [|x run IHr]; cbn [app ordered_from]; intros k H.
      * destruct H as [_ H]. apply starter_class in Ec. by rewrite Ec in H.
      * inversion Hrun; subst. destruct H as [_ H]. eapply IHr; [done|exact H].
    + rewrite cons_middle, app_assoc in H. rewrite IH; [by rewrite <- app_assoc| |done]. apply Forall_app. split; [done|]. by constructor.
Qed.

Lemma canonical_ordered l : canonical l -> ordered_from 0 l.
Proof.
  assert (G : forall l k, (forall c l', l = c :: l' -> ccc c = 0 \/ k <= ccc c) -> canonical l -> ordered_from k l).
  { clear l. induction l as [|c l IH]; intros k Hk H; [done|]. split; [by eapply Hk|]. apply IH.
    - intros d l' ->. specialize (H [] c d l' eq_refl). pose proof (proj2 (class_total d)). lia.
    - intros p a b q E. apply (H (c :: p) a b q). by rewrite E. }
  intros H. apply G; [|done]. intros c l' _. pose proof (proj2 (class_total c)). lia.
Qed.

Lemma reorder_unique l r : rtc exchange l r -> canonical r -> r = reorder [] l.
Proof.
  intros H Hr. assert (E : reorder [] l = reorder [] r).
  { clear Hr. induction H as [|l l' l'' H _ IH]; [done|]. by rewrite (reorder_exchange_eq _ _ H). }
  rewrite E. rewrite reorder_ordered_id; [done|constructor|]. by apply canonical_ordered.
Qed.

(** ** [stable_sort] and the buffer *)

Lemma with_classes_ok l : Forall is_combiner l -> with_classes l = Ret (map (fun c => (ccc c, c)) l).
Proof.
  intros H. induction H as [|c l Hc _ IH]; [done|]. cbn [with_classes map].
  by rewrite (class_of_combiner c Hc), IH.
Qed.

Lemma insert_class_map x l : map snd (insert_class (ccc x, x) (map (fun c => (ccc c, c)) l)) = insert_ccc x l /\
  insert_class (ccc x, x) (map (fun c => (ccc c, c)) l) = map (fun c => (ccc c, c)) (insert_ccc x l).
Proof.
  induction l as [|y l [IH1 IH2]]; [done|]. cbn [map insert_class insert_ccc fst].
  destruct (ccc y <? ccc x); cbn [map snd]; [by rewrite IH1, IH2|].
  split; [|done]. by rewrite map_map, map_id.
Qed.

Lemma stable_sort_ok l : Forall is_combiner l -> stable_sort l = Ret (sort_run l).
Proof.
  intros H. unfold stable_sort. destruct (Nat.leb_spec (length l) 1) as [Hl|Hl].
  { destruct l as [|x [|y l]]; [done|done|cbn [length] in Hl; lia]. }
  rewrite with_classes_ok by done. cbn [obind]. f_equal. clear Hl H.
  assert (E : foldr insert_class [] (map (fun c => (ccc c, c)) l) = map (fun c => (ccc c, c)) (sort_run l)).
  { induction l as [|x l IH]; [done|]. cbn [map foldr sort_run]. rewrite IH. apply insert_class_map. }
  by rewrite E, map_map, map_id.
Qed.

Lemma sort_range_ok p run q : Forall is_combiner run ->
  sort_range (p ++ run ++ q) (length p) (length p + length run) = Ret (p ++ sort_run run ++ q).
Proof.
  intros H. unfold sort_range. rewrite drop_app_length, take_app_length.
  replace (length p + length run - length p)%nat with (length run) by lia. rewrite take_app_length.
  rewrite stable_sort_ok by done. cbn [obind]. rewrite <- drop_drop, !drop_app_length. done.
Qed.

Lemma store_text_ok p cs q : (length cs <= length q)%nat ->
  store (p ++ q) (length p) cs = Ret (p ++ cs ++ drop (length cs) q).
Proof.
  intros H. unfold store, guard. rewrite length_app.
  destruct (Nat.leb_spec (length p + length cs) (length p + length q)); [|lia].
  by rewrite take_app_length, <- drop_drop, drop_app_length.
Qed.

(** ** Decompositions in order *)

Lemma leading_split cs : Forall (fun c => starterb c = true) (take (leading_starters cs) cs).
Proof.
  induction cs as [|c cs IH]; [constructor|]. cbn [leading_starters]. destruct (starterb c) eqn:E; [|constructor].
  cbn [take]. by constructor.
Qed.

Lemma shape_split cs : shapeb cs = true -> exists ss cc, cs = ss ++ cc /\
  Forall (fun c => starterb c = true) ss /\ Forall is_combiner cc /\ (length ss <= 1 \/ length cc <= 1)%nat.
Proof.
  intros H. exists (take (leading_starters cs) cs), (drop (leading_starters cs) cs).
  rewrite take_drop. split; [done|]. split; [apply leading_split|].
  unfold shapeb in H. apply andb_prop in H as [H1 H2]. split.
  - apply Forall_forall. intros c Hc. rewrite forallb_forall in H1. apply list_elem_of_In in Hc.
    apply H1 in Hc. by apply negb_true_iff in Hc.
  - rewrite length_take, length_drop. apply orb_prop in H2 as [H2|H2]; apply Nat.leb_le in H2; lia.
Qed.

Lemma reorder_starters run ss l : Forall (fun c => starterb c = true) ss -> ss <> [] ->
  reorder run (ss ++ l) = sort_run run ++ ss ++ reorder [] l.
Proof.
  intros H. revert run. induction H as [|s ss Hs Hss IH]; intros run Hne; [done|]. cbn [app reorder].
  rewrite Hs. do 2 f_equal. destruct ss as [|t ss]; [done|]. by rewrite IH.
Qed.

Lemma reorder_combiners run cc l : Forall is_combiner cc -> reorder run (cc ++ l) = reorder (run ++ cc) l.
Proof.
  intros H. revert run. induction H as [|c cc Hc _ IH]; intros run; [by rewrite app_nil_r|].
  cbn [app reorder]. unfold is_combiner in Hc. rewrite Hc, IH. by rewrite <- app_assoc.
Qed.

(** What the loop of [normalize] has done with the decomposed text [d]: [w] is
    written in order and [run] are the combiners after it. *)
Definition loop_inv (d : list Z) (st : nstate) : Prop :=
  exists w run rest, out_buf st = w ++ run ++ rest /\ first_combiner st = length w /\
    output st = (length w + length run)%nat /\ beyond_last st = output st /\
    Forall is_combiner run /\ (first_symbol_flag st = true -> d = []) /\
    (first_symbol_flag st = false -> exists c d', d = c :: d' /\ starterb c = true) /\
    (forall l, reorder [] (d ++ l) = w ++ reorder run l).

Definition room (st : nstate) : nat := (length (out_buf st) - output st)%nat.

Lemma rd_back_at p x (q : list Z) n k : n = (length p + k)%nat -> rd_back (p ++ x :: q) n k = Ret x.
Proof.
  intros ->. unfold rd_back, guard. destruct (Nat.leb_spec k (length p + k)); [|lia].
  replace (length p + k - k)%nat with (length p) by lia. apply rd_at.
Qed.

(** the combiners of a decomposition are found from its end *)
Lemma combiners_found p ss cc q out : ss <> [] -> Forall (fun c => starterb c = true) ss ->
  Forall is_combiner cc -> (length ss <= 1 \/ length cc <= 1)%nat -> out = length p ->
  (let* c1 := rd_back (p ++ (ss ++ cc) ++ q) (out + length (ss ++ cc)) 1 in
   let* s1 := is_starter c1 in
   if s1 then Ret (out + length (ss ++ cc))%nat
   else
     let* c2 := rd_back (p ++ (ss ++ cc) ++ q) (out + length (ss ++ cc)) 2 in
     let* s2 := is_starter c2 in
     Ret (if s2 then out + length (ss ++ cc) - 1 else out + 1)%nat) = Ret (out + length ss)%nat.
Proof.
  intros Hne Hss Hcc Hlen ->. rewrite length_app.
  destruct cc as [|cl cc _] using rev_ind.
  - rewrite app_nil_r. destruct ss as [|sl ss _] using rev_ind; [done|]. apply Forall_app in Hss as [_ Hsl].
    inversion Hsl as [|? ? Es _]. rewrite length_app. cbn [length].
    rewrite <- app_assoc, app_assoc. cbn [app]. rewrite (rd_back_at (p ++ ss) sl q) by (rewrite length_app; lia).
    cbn [obind]. rewrite is_starter_total. cbn [obind]. rewrite Es. f_equal. lia.
  - apply Forall_app in Hcc as [Hcc Hcl]. inversion Hcl as [|? ? Ec _]. unfold is_combiner in Ec.
    rewrite length_app in *. cbn [length] in *.
    replace (p ++ (ss ++ cc ++ [cl]) ++ q) with ((p ++ ss ++ cc) ++ cl :: q) by (by rewrite <- !app_assoc).
    rewrite (rd_back_at (p ++ ss ++ cc) cl q _ 1) by (rewrite !length_app; lia).
    cbn [obind]. rewrite is_starter_total. cbn [obind]. rewrite Ec.
    destruct cc as [|ck cc _] using rev_ind.
    + destruct ss as [|sl ss _] using rev_ind; [done|]. apply Forall_app in Hss as [_ Hsl].
      inversion Hsl as [|? ? Es _]. rewrite length_app in *. cbn [length] in *. rewrite app_nil_r.
      replace ((p ++ ss ++ [sl]) ++ cl :: q) with ((p ++ ss) ++ sl :: cl :: q) by (by rewrite <- !app_assoc).
      rewrite (rd_back_at (p ++ ss) sl _ _ 2) by (rewrite !length_app; lia).
      cbn [obind]. rewrite is_starter_total. cbn [obind]. rewrite Es. f_equal. lia.
    + apply Forall_app in Hcc as [_ Hck]. inversion Hck as [|? ? Ek _]. unfold is_combiner in Ek.
      rewrite length_app in *. cbn [length] in *.
      replace ((p ++ ss ++ cc ++ [ck]) ++ cl :: q) with ((p ++ ss ++ cc) ++ ck :: cl :: q) by (by rewrite <- !app_assoc).
      rewrite (rd_back_at (p ++ ss ++ cc) ck _ _ 2) by (rewrite !length_app; lia).
      cbn [obind]. rewrite is_starter_total. cbn [obind]. rewrite Ek. f_equal.
      destruct ss as [|s [|? ?]]; [done|done|]. cbn [length] in *. lia.
Qed.

Lemma sort_when w run q : Forall is_combiner run ->
  (if (length w <? length w + length run)%nat then sort_range (w ++ run ++ q) (length w) (length w + length run)
   else Ret (w ++ run ++ q)) = Ret (w ++ sort_run run ++ q).
Proof.
  intros H. destruct (Nat.ltb_spec (length w) (length w + length run)); [by apply sort_range_ok|].
  destruct run as [|x run]; [done|]. cbn [length] in *. lia.
Qed.

Section Steps.
Context (decomposer : Z -> outcome (option (list Z))) (ch : Z) (d cs : list Z) (st : nstate)
  (decomposed_ch : decomposer ch = Ret (Some cs)) (st_inv : loop_inv d st)
  (st_room : (length cs <= room st)%nat).

Lemma step_empty : cs = [] -> exists st', normalize_step decomposer ch st = Ret (Some st') /\
  loop_inv (d ++ cs) st' /\ (room st' = room st - length cs)%nat.
Proof using All.
  intros ->. destruct st_inv as (w & run & rest & Eb & Ef & Eo & Ebl & Hrun & Ht & Hfl & Hre).
  unfold normalize_step. rewrite decomposed_ch. cbn [obind]. rewrite Eb, Eo, Ef, app_assoc.
  rewrite <- length_app, store_text_ok by (cbn; lia). cbn [obind length app drop].
  rewrite Nat.add_0_r, Nat.eqb_refl, app_nil_r, drop_0. eexists. split; [reflexivity|].
  unfold room. cbn [out_buf output length]. rewrite Eb, Eo. split; [|rewrite !length_app; lia].
  exists w, run, rest. cbn [out_buf first_combiner output beyond_last first_symbol_flag].
  rewrite <- app_assoc, length_app. auto 9.
Qed.

Lemma step_starter c0 cs' : cs = c0 :: cs' -> shapeb cs = true -> starterb c0 = true ->
  exists st', normalize_step decomposer ch st = Ret (Some st') /\
  loop_inv (d ++ cs) st' /\ (room st' = room st - length cs)%nat.
Proof using All.
  intros Ecs Hsh Hc0. destruct st_inv as (w & run & rest & Eb & Ef & Eo & Ebl & Hrun & Ht & Hfl & Hre).
  destruct (shape_split cs Hsh) as (ss & cc & Esp & Hss & Hcc & Hlen).
  assert (Hne : ss <> []).
  { intros ->. cbn [app] in Esp. rewrite <- Esp, Ecs in Hcc. inversion Hcc as [|? ? H _]. unfold is_combiner in H. congruence. }
  unfold room in st_room. rewrite Eb, Eo, !length_app in st_room.
  unfold normalize_step. rewrite decomposed_ch. cbn [obind]. rewrite Eb, Eo, Ef, (app_assoc w run rest).
  rewrite <- length_app, store_text_ok by lia. cbn [obind].
  set (rest' := drop (length cs) rest).
  destruct (Nat.eqb_spec (length (w ++ run) + length cs) (length (w ++ run))) as [E|_]; [rewrite Ecs in E; cbn [length] in E; lia|].
  assert (Hrd : rd ((w ++ run) ++ cs ++ rest') (length (w ++ run)) = Ret c0) by (rewrite Ecs; apply rd_at).
  rewrite Hrd. cbn [obind]. rewrite is_starter_total. cbn [obind]. rewrite Hc0.
  rewrite <- (app_assoc w run), length_app, sort_when by done. cbn [obind].
  rewrite (app_assoc w (sort_run run)), Esp.
  assert (El : length (w ++ sort_run run) = (length w + length run)%nat) by (by rewrite length_app, (Permutation_length (sort_perm run))).
  assert (Efc := combiners_found (w ++ sort_run run) ss cc rest' _ Hne Hss Hcc Hlen (eq_sym El)).
  destruct (rd_back ((w ++ sort_run run) ++ (ss ++ cc) ++ rest') (length w + length run + length (ss ++ cc)) 1) as [c1| |];
    [|discriminate|discriminate]. cbn [obind] in Efc |- *. rewrite is_starter_total in Efc |- *. cbn [obind] in Efc |- *.
  rewrite Efc. cbn [obind]. eexists. split; [reflexivity|].
  unfold room. cbn [out_buf output]. rewrite Eb, Eo. split.
  - exists (w ++ sort_run run ++ ss), cc, rest'.
    cbn [out_buf first_combiner output beyond_last first_symbol_flag]. rewrite !length_app in El. rewrite !length_app.
    split; [by rewrite <- !app_assoc|]. split; [lia|]. split; [lia|]. split; [done|]. split; [done|].
    split; [done|]. split.
    { intros _. rewrite <- Esp. destruct (first_symbol_flag st) eqn:Efl.
      - rewrite (Ht eq_refl), Ecs. cbn [app]. eauto.
      - destruct (Hfl eq_refl) as (c & d' & -> & Hc). cbn [app]. eauto. }
    intros l. rewrite <- app_assoc, Hre. rewrite <- !app_assoc, reorder_starters by done.
    by rewrite reorder_combiners.
  - rewrite <- Esp. rewrite !length_app in El. rewrite !length_app. unfold rest'. rewrite length_drop, Esp, length_app in *. lia.
Qed.

Lemma step_combiner c0 cs' : cs = c0 :: cs' -> shapeb cs = true -> starterb c0 = false ->
  if first_symbol_flag st then normalize_step decomposer ch st = Ret None
  else exists st', normalize_step decomposer ch st = Ret (Some st') /\
    loop_inv (d ++ cs) st' /\ (room st' = room st - length cs)%nat.
Proof using All.
  intros Ecs Hsh Hc0. destruct st_inv as (w & run & rest & Eb & Ef & Eo & Ebl & Hrun & Ht & Hfl & Hre).
  destruct (shape_split cs Hsh) as (ss & cc & Esp & Hss & Hcc & Hlen).
  assert (ss = []) as ->.
  { destruct ss as [|s ss]; [done|]. rewrite Ecs in Esp. injection Esp as -> _. inversion Hss. congruence. }
  cbn [app] in Esp.
  unfold room in st_room. rewrite Eb, Eo, !length_app in st_room.
  unfold normalize_step. rewrite decomposed_ch. cbn [obind]. rewrite Eb, Eo, Ef, (app_assoc w run rest).
  rewrite <- length_app, store_text_ok by lia. cbn [obind].
  destruct (Nat.eqb_spec (length (w ++ run) + length cs) (length (w ++ run))) as [E|_]; [rewrite Ecs in E; cbn [length] in E; lia|].
  assert (Hrd : rd ((w ++ run) ++ cs ++ drop (length cs) rest) (length (w ++ run)) = Ret c0) by (rewrite Ecs; apply rd_at).
  rewrite Hrd. cbn [obind]. rewrite is_starter_total. cbn [obind]. rewrite Hc0.
  destruct (first_symbol_flag st) eqn:Efl; [done|]. eexists. split; [reflexivity|].
  unfold room. cbn [out_buf output]. rewrite Eb, Eo. split.
  - exists w, (run ++ cs), (drop (length cs) rest).
    cbn [out_buf first_combiner output beyond_last first_symbol_flag]. rewrite !length_app.
    split; [by rewrite <- !app_assoc|]. split; [done|]. split; [lia|]. split; [done|].
    split; [rewrite Esp; by apply Forall_app|]. split; [done|]. split.
    { intros _. destruct (Hfl eq_refl) as (c & d' & -> & Hc). cbn [app]. eauto. }
    intros l. rewrite <- app_assoc, Hre. rewrite Esp. by apply f_equal, reorder_combiners.
  - rewrite !length_app, length_drop. lia.
Qed.
End Steps.

(** ** What [normalize] computes *)

(** the decompositions of a text one after the other; [None] if a character is
    prohibited *)
Fixpoint decomposed (decomposer : Z -> outcome (option (list Z))) (input : list Z) : option (list Z) :=
  match input with
  | [] => Some []
  | ch :: input' =>
    match decomposer ch, decomposed decomposer input' with
    | Ret (Some cs), Some l => Some (cs ++ l)
    | _, _ => None
    end
  end.

Definition starts_well (d : list Z) : bool :=
  match d with
  | c :: _ => starterb c
  | [] => true
  end.

(** the decomposed text in canonical order; it may not begin with a combiner *)
Definition normal_text (decomposer : Z -> outcome (option (list Z))) (input : list Z) : option (list Z) :=
  match decomposed decomposer input with
  | Some d => if starts_well d then Some (reorder [] d) else None
  | None => None
  end.

Definition wtext (l : list Z) : Prop := Forall (fun c => 0 <= c) l.

Lemma loop_inv_starts d st : loop_inv d st ->
  if first_symbol_flag st then d = [] else exists c d', d = c :: d' /\ starterb c = true.
Proof. intros (w & run & rest & _ & _ & _ & _ & _ & Ht & Hf & _). destruct (first_symbol_flag st); auto. Qed.

Section Normalize.
Context (decomposer : Z -> outcome (option (list Z))) `{!Decomposer decomposer}.

Lemma normalize_loop_ok input d st : wtext input -> loop_inv d st -> (length input * 18 <= room st)%nat ->
  match decomposed decomposer input with
  | Some e =>
    if starts_well (d ++ e)
    then exists st', normalize_loop decomposer input st = Ret (Some st') /\ loop_inv (d ++ e) st'
    else normalize_loop decomposer input st = Ret None
  | None => normalize_loop decomposer input st = Ret None
  end.
Proof using All.
  revert d st. induction input as [|ch input IH]; intros d st Hw Hinv Hroom.
  - cbn [decomposed normalize_loop]. rewrite app_nil_r.
    assert (Hs : starts_well d = true).
    { pose proof (loop_inv_starts d st Hinv) as H. destruct (first_symbol_flag st); [by rewrite H|].
      by destruct H as (c & d' & -> & Hc). }
    rewrite Hs. eauto.
  - inversion Hw as [|? ? Hch Hw']; subst. cbn [length] in Hroom.
    destruct (decomposer_total ch Hch) as ([cs|] & Ed & Hok); cbn [decomposed normalize_loop].
    2: { unfold normalize_step. rewrite Ed. done. }
    destruct (Hok cs eq_refl) as (Hsh & Hlen & _).
    assert (Hgo : (exists st', normalize_step decomposer ch st = Ret (Some st') /\
      loop_inv (d ++ cs) st' /\ (room st' = room st - length cs)%nat) \/
      (normalize_step decomposer ch st = Ret None /\ forall e, starts_well (d ++ cs ++ e) = false)).
    { destruct cs as [|c0 cs].
      - left. apply (step_empty _ ch d [] st Ed Hinv); [cbn; lia|done].
      - destruct (starterb c0) eqn:Ec0; [left; apply (step_starter _ ch d (c0 :: cs) st Ed Hinv ltac:(lia) c0 cs); done|].
        pose proof (step_combiner _ ch d (c0 :: cs) st Ed Hinv ltac:(lia) c0 cs eq_refl Hsh Ec0) as Hst.
        pose proof (loop_inv_starts d st Hinv) as H. destruct (first_symbol_flag st); [|by left].
        right. split; [done|]. intros e. rewrite H. exact Ec0. }
    rewrite Ed. destruct Hgo as [(st' & -> & Hinv' & Hr)|(-> & Hf)]; cbn [obind].
    + specialize (IH (d ++ cs) st' Hw' Hinv' ltac:(lia)). destruct (decomposed decomposer input) as [e|]; [|done].
      by rewrite <- app_assoc in IH.
    + destruct (decomposed decomposer input) as [e|]; [|done]. by rewrite Hf.
Qed.

Lemma normalize_ok input buf : wtext input -> (length input * 18 <= length buf)%nat ->
  match normal_text decomposer input with
  | Some n => exists rest, normalize input buf decomposer = Ret (Some (n ++ rest, length n))
  | None => normalize input buf decomposer = Ret None
  end.
Proof using All.
  intros Hw Hb. unfold normal_text, normalize.
  set (st0 := {| out_buf := buf; first_combiner := 0; beyond_last := 0; output := 0; first_symbol_flag := true |}).
  assert (Hinv : loop_inv [] st0).
  { exists [], [], buf. cbn [app length]. do 4 (split; [done|]). split; [constructor|]. done. }
  pose proof (normalize_loop_ok input [] st0 Hw Hinv) as H. cbn [app] in H.
  destruct (decomposed decomposer input) as [d|].
  2: { by rewrite H by (unfold room; cbn; lia). }
  destruct (starts_well d); [|by rewrite H by (unfold room; cbn; lia)].
  destruct H as (st & -> & (w & run & rest & Eb & Ef & Eo & Ebl & Hrun & _ & _ & Hre)); [unfold room; cbn; lia|].
  cbn [obind]. specialize (Hre []). rewrite app_nil_r in Hre. cbn [reorder] in Hre. rewrite Hre.
  exists rest. rewrite Ebl, Ef, Eo, Eb.
  assert (E : (if negb (length w =? length w + length run)%nat
    then sort_range (w ++ run ++ rest) (length w) (length w + length run) else Ret (w ++ run ++ rest)) =
    Ret (w ++ sort_run run ++ rest)).
  { destruct (Nat.eqb_spec (length w) (length w + length run)); cbn [negb]; [|by apply sort_range_ok].
    destruct run as [|x run]; [done|]. cbn [length] in *. lia. }
  rewrite E. cbn [obind]. rewrite length_app, (Permutation_length (sort_perm run)), <- app_assoc. done.
Qed.
End Normalize.

(** ** Primary composites *)

Definition primary (s c : Z) : option Z :=
  if jamo_L s && jamo_V c then Some (S_BASE + ((s - L_BASE) * V_COUNT + (c - V_BASE)) * T_COUNT)
  else if is_hangul s && ((s - S_BASE) mod T_COUNT =? 0) && jamo_T c then Some (s + (c - T_BASE))
  else composite s c.

Lemma hash_decides s c : 0 < s -> exists r, cell COMPOSITE_HASH (hash s c) = Ret r /\
  (if (s32 (starter r) =? s) && (s32 (combiner r) =? c) then Some (s32 (value r)) else None) = composite s c.
Proof.
  intros Hs. apply (hash_cell_decides COMPOSITE_HASH placed_checked hash_table_size s c Hs).
  intros r Hr Hn. assert (Hin : In r records).
  { apply list_elem_of_In. apply (proj2 (list_elem_of_filter (fun r => no_record r = false) COMPOSITE_HASH r)).
    split; [done|]. by apply list_elem_of_In. }
  pose proof (record_checked _ _ records_checked r Hin) as C. unfold recordb in C.
  do 11 (apply andb_prop in C as [C ?]). auto.
Qed.

(** the composition of a pair of characters: what [pair_compose] does with it *)
Definition joined (lc s c : Z) : option Z :=
  if (lc <? ccc c) || (ccc c =? 0) then primary s c else None.

Lemma pair_compose_ok st s c : rd (text_buf st) (maybe_starter st) = Ret s -> rd (text_buf st) (first st) = Ret c ->
  0 < s -> pair_compose st =
  match joined (last_class st) s c with
  | Some v => set_starter st v
  | None =>
    if ccc c =? 0 then Ret (false, st)
    else
      let* buf := wr (text_buf st) (write_pos st) c in
      Ret (true, {| text_buf := buf; maybe_starter := maybe_starter st; last_class := ccc c;
                    first := first st + 1; write_pos := write_pos st + 1 |})
  end.
Proof.
  intros Es Ec Hs. unfold pair_compose, joined. rewrite Es. cbn [obind]. rewrite Ec. cbn [obind].
  rewrite (proj1 (class_total c)). cbn [obind].
  destruct ((last_class st <? ccc c) || (ccc c =? 0)); [|done].
  unfold primary, jamo_L, jamo_V, jamo_T, is_hangul. rewrite !andb_assoc.
  destruct (_ && _ && _ && _); [done|].
  assert (E : (Z.rem (s - S_BASE) T_COUNT =? 0) = ((s - S_BASE) mod T_COUNT =? 0)).
  { unfold T_COUNT, S_BASE. pose proof (Z.quot_rem' (s - 0xAC00) 28). pose proof (Z.div_mod (s - 0xAC00) 28 ltac:(lia)).
    pose proof (Z.rem_bound_abs (s - 0xAC00) 28 ltac:(lia)). pose proof (Z.mod_pos_bound (s - 0xAC00) 28 ltac:(lia)).
    destruct (Z.eqb_spec (Z.rem (s - 0xAC00) 28) 0), (Z.eqb_spec ((s - 0xAC00) mod 28) 0); lia. }
  rewrite E. destruct (_ && _ && _ && _ && _); [done|].
  destruct (hash_decides s c Hs) as (r & -> & <-). cbn [obind]. by destruct (_ && _).
Qed.

(** ** Composition of a text *)

(** a starter [s], the combiners [kept] after it and the text [l] to read *)
Fixpoint comp (s lc : Z) (kept l : list Z) : list Z :=
  match l with
  | [] => s :: kept
  | c :: l' =>
    match joined lc s c with
    | Some v => comp v lc kept l'
    | None => if ccc c =? 0 then s :: kept ++ comp c 0 [] l' else comp s (ccc c) (kept ++ [c]) l'
    end
  end.

Definition compose_text (l : list Z) : list Z :=
  match l with
  | [] => []
  | c :: l' => comp c (ccc c) [] l'
  end.

(** the same up to the next starter that is not joined *)
Fixpoint scan (s lc : Z) (kept l : list Z) : Z * list Z * list Z :=
  match l with
  | [] => (s, kept, [])
  | c :: l' =>
    match joined lc s c with
    | Some v => scan v lc kept l'
    | None => if ccc c =? 0 then (s, kept, l) else scan s (ccc c) (kept ++ [c]) l'
    end
  end.

Lemma comp_scan s lc kept l : let '(s', kept', l') := scan s lc kept l in
  comp s lc kept l = s' :: kept' ++ compose_text l'.
Proof.
  revert s lc kept. induction l as [|c l IH]; intros s lc kept; cbn [scan comp].
  - by rewrite app_nil_r.
  - destruct (joined lc s c) as [v|]; [apply IH|]. destruct (Z.eqb_spec (ccc c) 0) as [E|_]; [|apply IH].
    cbn [compose_text]. by rewrite E.
Qed.

Lemma scan_length s lc kept l : let '(s', kept', l') := scan s lc kept l in
  (length kept <= length kept' /\ length kept' + length l' <= length kept + length l)%nat.
Proof.
  revert s lc kept. induction l as [|c l IH]; intros s lc kept; cbn [scan length].
  - cbn [length]. lia.
  - destruct (joined lc s c) as [v|].
    + specialize (IH v lc kept). destruct (scan v lc kept l) as [[? ?] ?]. lia.
    + destruct (ccc c =? 0); [cbn [length]; lia|]. specialize (IH s (ccc c) (kept ++ [c])).
      destruct (scan s (ccc c) (kept ++ [c]) l) as [[? ?] ?]. rewrite length_app in IH. cbn [length] in IH. lia.
Qed.

(** ** The composition in place *)

Lemma composite_facts s c v : composite s c = Some v ->
  charb v = true /\ charb c = true /\ starterb v = true /\ fixedb v = true /\ is_hangul v = false /\
  jamo_V v = false /\ jamo_T v = false /\ is_hangul c = false /\ jamo_L c = false.
Proof. apply (composite_value _ low_fixed_sound _ records_checked). Qed.

Lemma primary_hangul s c v : jamo_L s && jamo_V c = true \/
    is_hangul s && ((s - S_BASE) mod T_COUNT =? 0) && jamo_T c = true -> primary s c = Some v -> is_hangul v = true.
Proof.
  unfold primary, jamo_L, jamo_V, jamo_T, is_hangul, S_BASE, L_BASE, V_BASE, T_BASE, S_COUNT, N_COUNT, L_COUNT, V_COUNT, T_COUNT.
  intros H. destruct ((4352 <=? s) && _ && _) eqn:E1; [|destruct ((44032 <=? s) && _ && _ && _) eqn:E2].
  - intros [= <-]. apply andb_true_intro. lia.
  - intros [= <-]. apply andb_true_intro. zlia.
  - exfalso. destruct H; congruence.
Qed.

(** a composite is a syllable or a composite of the table *)
Lemma primary_cases s c v : primary s c = Some v -> is_hangul v = true \/ composite s c = Some v.
Proof.
  intros H. destruct (jamo_L s && jamo_V c) eqn:E1; [left; eapply primary_hangul; eauto|].
  destruct (is_hangul s && ((s - S_BASE) mod T_COUNT =? 0) && jamo_T c) eqn:E2; [left; eapply primary_hangul; eauto|].
  right. unfold primary in H. by rewrite E1, E2 in H.
Qed.

Lemma hangul_char v : is_hangul v = true -> charb v = true.
Proof.
  unfold is_hangul, charb, S_COUNT, N_COUNT, S_BASE, L_COUNT, V_COUNT, T_COUNT. intros H. apply andb_true_intro. lia.
Qed.

Lemma primary_char s c v : primary s c = Some v -> charb v = true.
Proof. intros H. apply primary_cases in H as [H|H]; [by apply hangul_char|]. by apply composite_facts in H as [H _]. Qed.

Lemma joined_primary lc s c v : joined lc s c = Some v -> primary s c = Some v.
Proof. unfold joined. by destruct (_ || _). Qed.

Lemma charb_pos c : charb c = true -> 0 < c.
Proof. unfold charb. lia. Qed.

Lemma wr_mid {A} (p : list A) x c q n : n = length p -> wr (p ++ x :: q) n c = Ret (p ++ c :: q).
Proof. intros ->. apply wr_at. Qed.

Lemma rd_mid {A} (p : list A) x q n : n = length p -> rd (p ++ x :: q) n = Ret x.
Proof. intros ->. apply rd_at. Qed.

(** A character is moved to the end of the written text; the gap keeps its size. *)
Lemma store_next (out : list Z) s kept gap c q : exists gap2, length gap2 = length gap /\
  wr (out ++ s :: kept ++ gap ++ c :: q) (length out + 1 + length kept) c =
  Ret (out ++ s :: (kept ++ [c]) ++ gap2 ++ q).
Proof.
  destruct gap as [|g gap]; [exists []|exists (gap ++ [c])]; (split; [rewrite ?length_app; cbn [length]; lia|]);
    rewrite <- !app_assoc; cbn [app]; rewrite (app_comm_cons kept), (app_assoc out), wr_mid by
      (rewrite length_app; cbn [length]; lia); by rewrite <- app_assoc.
Qed.

(** The loop of [compose] on a buffer that holds the finished text [out], the
    starter, the combiners kept, a gap, and the text to read. *)
Lemma compose_loop_ok out s lc kept gap l tail fuel : Forall (fun c => charb c = true) (s :: l) ->
  (length l <= fuel)%nat ->
  let '(s', kept', l') := scan s lc kept l in
  exists gap' lc', length gap' = (length kept + length gap + length l - length kept' - length l')%nat /\
  compose_loop fuel (length out + 1 + length kept + length gap + length l)
    {| text_buf := out ++ s :: kept ++ gap ++ l ++ tail; maybe_starter := length out; last_class := lc;
       first := length out + 1 + length kept + length gap; write_pos := length out + 1 + length kept |} =
  Ret {| text_buf := out ++ s' :: kept' ++ gap' ++ l' ++ tail; maybe_starter := length out; last_class := lc';
         first := length out + 1 + length kept + length gap + (length l - length l');
         write_pos := length out + 1 + length kept' |}.
Proof.
  revert s lc kept gap fuel. induction l as [|c l IH]; intros s lc kept gap fuel Hch Hf; cbn [scan].
  - exists gap, lc. split; [cbn [length]; lia|]. destruct fuel; cbn [compose_loop first length];
      destruct (Nat.ltb_spec (length out + 1 + length kept + length gap) (length out + 1 + length kept + length gap + 0)); try lia;
      by rewrite Nat.add_0_r.
  - inversion Hch as [|? ? Hs Hcl]; subst. inversion Hcl as [|? ? Hc Hl]; subst.
    destruct fuel as [|fuel]; [cbn [length] in Hf; lia|]. cbn [length] in Hf.
    cbn [compose_loop first].
    destruct (Nat.ltb_spec (length out + 1 + length kept + length gap) (length out + 1 + length kept + length gap + length (c :: l)));
      [|cbn [length] in *; lia].
    rewrite (pair_compose_ok _ s c); cbn [text_buf maybe_starter first last_class write_pos];
      [|by apply rd_mid| |by apply charb_pos].
    2: { replace (out ++ s :: kept ++ gap ++ (c :: l) ++ tail) with ((out ++ s :: kept ++ gap) ++ c :: l ++ tail)
           by (rewrite <- !app_assoc; cbn [app]; by rewrite <- !app_assoc).
         apply rd_mid. rewrite !length_app. cbn [length]. rewrite length_app. lia. }
    destruct (joined lc s c) as [v|] eqn:Ej.
    + specialize (IH v lc kept (gap ++ [c]) fuel).
      assert (Hv : charb v = true) by (eapply primary_char, joined_primary, Ej).
      assert (IH' := IH ltac:(by constructor) ltac:(lia)). clear IH. pose proof (scan_length v lc kept l) as Hsl.
      destruct (scan v lc kept l) as [[s' kept'] l']. destruct IH' as (gap' & lc' & Hg & IH).
      exists gap', lc'. rewrite length_app in Hg. cbn [length] in Hg |- *. split; [lia|].
      unfold set_starter. cbn [text_buf maybe_starter first last_class write_pos].
      rewrite (wr_mid out s v) by done. cbn [obind fst snd].
      rewrite length_app in IH. cbn [length] in IH.
      replace (length out + 1 + length kept + length gap + S (length l))%nat
        with (length out + 1 + length kept + (length gap + 1) + length l)%nat by lia.
      replace (length out + 1 + length kept + length gap + 1)%nat
        with (length out + 1 + length kept + (length gap + 1))%nat by lia.
      rewrite <- (app_assoc gap [c]) in IH. cbn [app] in IH |- *. rewrite IH. do 2 f_equal. lia.
    + destruct (Z.eqb_spec (ccc c) 0) as [E0|E0].
      * cbn [obind fst snd]. exists gap, lc. split; [lia|]. do 2 f_equal. lia.
      * specialize (IH s (ccc c) (kept ++ [c])). pose proof (scan_length s (ccc c) (kept ++ [c]) l) as Hsl.
        rewrite length_app in Hsl. cbn [length] in Hsl.
        destruct (store_next out s kept gap c (l ++ tail)) as (gap2 & Hg2 & Ew).
        cbn [app]. rewrite Ew.
        cbn [obind fst snd].
        assert (IH' := IH gap2 fuel ltac:(by constructor) ltac:(lia)). clear IH.
        destruct (scan s (ccc c) (kept ++ [c]) l) as [[s' kept'] l']. destruct IH' as (gap' & lc' & Hg & IH).
        exists gap', lc'. rewrite length_app in Hg, IH. cbn [length] in Hg, IH |- *. split; [lia|].
        rewrite Hg2 in IH.
        replace (length out + 1 + length kept + length gap + S (length l))%nat
          with (length out + 1 + (length kept + 1) + length gap + length l)%nat by lia.
        replace (length out + 1 + length kept + length gap + 1)%nat
          with (length out + 1 + (length kept + 1) + length gap)%nat by lia.
        replace (length out + 1 + length kept + 1)%nat with (length out + 1 + (length kept + 1))%nat by lia.
        rewrite IH. do 2 f_equal. lia.
Qed.

Lemma scan_suffix s lc kept l : let '(_, _, l') := scan s lc kept l in exists p, l = p ++ l'.
Proof.
  revert s lc kept. induction l as [|c l IH]; intros s lc kept; cbn [scan]; [by exists []|].
  destruct (joined lc s c) as [v|].
  - specialize (IH v lc kept). destruct (scan v lc kept l) as [[? ?] ?]. destruct IH as [p ->]. by exists (c :: p).
  - destruct (ccc c =? 0); [by exists []|]. specialize (IH s (ccc c) (kept ++ [c])).
    destruct (scan s (ccc c) (kept ++ [c]) l) as [[? ?] ?]. destruct IH as [p ->]. by exists (c :: p).
Qed.

(** one call of [compose] *)
Lemma compose_ok out gap c l tail : Forall (fun c => charb c = true) (c :: l) ->
  let '(s', kept', l') := scan c (ccc c) [] l in
  exists gap', length gap' = (length gap + length l - length kept' - length l')%nat /\
  compose (out ++ gap ++ (c :: l) ++ tail) (length out + length gap)
    (length out + length gap + length (c :: l)) (length out) =
  Ret (out ++ s' :: kept' ++ gap' ++ l' ++ tail,
       (length out + 1 + length kept' + length gap')%nat, (length out + 1 + length kept')%nat).
Proof.
  intros Hch. unfold compose.
  assert (Hrd : rd (out ++ gap ++ (c :: l) ++ tail) (length out + length gap) = Ret c).
  { rewrite app_assoc. cbn [app]. apply rd_mid. by rewrite length_app. }
  rewrite Hrd. cbn [obind].
  assert (Hw : exists gap2, length gap2 = length gap /\
    wr (out ++ gap ++ (c :: l) ++ tail) (length out) c = Ret (out ++ c :: gap2 ++ l ++ tail)).
  { destruct gap as [|g gap]; [exists []|exists (gap ++ [c])]; (split; [rewrite ?length_app; cbn [length]; lia|]);
      cbn [app]; rewrite wr_mid by done; by rewrite <- ?app_assoc. }
  destruct Hw as (gap2 & Hg2 & ->). cbn [obind length].
  destruct (Nat.eqb_spec (S (length out + length gap)) (length out + length gap + S (length l))) as [E|E].
  - destruct l as [|x l]; [|cbn [length] in E; lia]. cbn [scan]. exists gap2. cbn [length app] in *.
    split; [lia|]. f_equal. f_equal; [f_equal|]; lia.
  - rewrite rd_mid by done. cbn [obind]. rewrite (proj1 (class_total c)). cbn [obind].
    pose proof (compose_loop_ok out c (ccc c) [] gap2 l tail (length l) Hch ltac:(lia)) as H.
    pose proof (scan_length c (ccc c) [] l) as Hsl. cbn [length app] in H, Hsl.
    destruct (scan c (ccc c) [] l) as [[s' kept'] l']. destruct H as (gap' & lc' & Hg & H).
    exists gap'. split; [lia|].
    replace (length out + length gap + S (length l) - S (length out + length gap))%nat with (length l) by lia.
    replace (length out + length gap + S (length l))%nat with (length out + 1 + 0 + length gap2 + length l)%nat by lia.
    replace (S (length out + length gap)) with (length out + 1 + 0 + length gap2)%nat by lia.
    replace (S (length out)) with (length out + 1 + 0)%nat by lia.
    rewrite H. cbn [obind text_buf first write_pos]. f_equal. f_equal. f_equal. lia.
Qed.

Lemma compose_string_loop_ok fuel out gap l tail : Forall (fun c => charb c = true) l -> (length l <= fuel)%nat ->
  exists rest, compose_string_loop fuel (out ++ gap ++ l ++ tail) (length out + length gap)
    (length out + length gap + length l) (length out) =
  Ret (out ++ compose_text l ++ rest, (length out + length (compose_text l))%nat).
Proof.
  revert out gap l. induction fuel as [|fuel IH]; intros out gap l Hch Hf.
  - destruct l as [|c l]; [|cbn [length] in Hf; lia]. cbn [compose_string_loop length].
    rewrite Nat.add_0_r, Nat.eqb_refl. cbn [negb compose_text app length]. rewrite Nat.add_0_r. by exists (gap ++ tail).
  - cbn [compose_string_loop]. destruct l as [|c l].
    { cbn [length]. rewrite Nat.add_0_r, Nat.eqb_refl. cbn [negb compose_text app length]. rewrite Nat.add_0_r. by exists (gap ++ tail). }
    destruct (Nat.eqb_spec (length out + length gap) (length out + length gap + length (c :: l))) as [E|_];
      [cbn [length] in E; lia|]. cbn [negb].
    pose proof (compose_ok out gap c l tail Hch) as H. pose proof (scan_length c (ccc c) [] l) as Hsl.
    pose proof (scan_suffix c (ccc c) [] l) as Hsu. pose proof (comp_scan c (ccc c) [] l) as Hcs.
    destruct (scan c (ccc c) [] l) as [[s' kept'] l']. destruct H as (gap' & Hg & ->). destruct Hsu as [p Ep].
    cbn [obind]. cbn [length] in *.
    destruct (IH (out ++ s' :: kept') gap' l') as [rest Hr]; [|lia|].
    { rewrite Ep in Hch. inversion Hch as [|? ? _ Hl]; subst. by apply Forall_app in Hl as [_ Hl]. }
    exists rest. rewrite length_app in Hr. cbn [length] in Hr. rewrite <- !app_assoc in Hr. cbn [app] in Hr.
    replace (length out + length gap + S (length l))%nat
      with (length out + S (length kept') + length gap' + length l')%nat by lia.
    replace (length out + 1 + length kept')%nat with (length out + S (length kept'))%nat by lia.
    rewrite Hr. cbn [compose_text]. rewrite Hcs. cbn [length app]. rewrite <- !app_assoc, length_app.
    f_equal. f_equal. lia.
Qed.

Lemma compose_string_ok l tail : Forall (fun c => charb c = true) l ->
  exists rest, compose_string (l ++ tail) (length l) = Ret (compose_text l ++ rest, length (compose_text l)).
Proof. intros H. apply (compose_string_loop_ok (length l) [] [] l tail H). lia. Qed.

(** ** The result of [lower_and_normalize] *)

Lemma reorder_perm run l : reorder run l ≡ₚ run ++ l.
Proof.
  revert run. induction l as [|c l IH]; intros run; cbn [reorder]; [by rewrite app_nil_r, sort_perm|].
  destruct (starterb c); rewrite IH; [by rewrite sort_perm|]. by rewrite <- app_assoc.
Qed.

Section Text.
Context (decomposer : Z -> outcome (option (list Z))) `{!Decomposer decomposer}.

(** a character that the decomposer leaves alone, or a syllable *)
Definition quiet (c : Z) : Prop := charb c = true /\ (decomposer c = Ret (Some [c]) \/ is_hangul c = true).

Lemma decomposed_quiet input d : wtext input -> decomposed decomposer input = Some d -> Forall quiet d.
Proof using All.
  intros Hw. revert d. induction Hw as [|ch input Hch _ IH]; intros d; cbn [decomposed]; [by intros [= <-]; constructor|].
  destruct (decomposer_total ch Hch) as ([cs|] & Ed & Hok); rewrite Ed; [|done].
  destruct (decomposed decomposer input) as [l|]; [|done]. intros [= <-]. apply Forall_app. split; [|by apply IH].
  by apply Hok.
Qed.

Lemma normal_text_quiet input n : wtext input -> normal_text decomposer input = Some n -> Forall quiet n.
Proof using All.
  intros Hw. unfold normal_text. destruct (decomposed decomposer input) as [d|] eqn:Ed; [|done].
  destruct (starts_well d); [|done]. intros [= <-]. rewrite reorder_perm. by apply (decomposed_quiet input).
Qed.
End Text.

Definition decomposer_of (idna2008 : bool) : Z -> outcome (option (list Z)) :=
  if idna2008 then decompose_2008 else decompose_2003.

#[export] Instance decomposer_of_laws idna2008 : Decomposer (decomposer_of idna2008).
Proof. destruct idna2008; apply _. Qed.

Lemma resize_length s n : length (resize s n) = n.
Proof. unfold resize. rewrite length_app, length_take, length_replicate. lia. Qed.

Lemma resize_take s t : resize (s ++ t) (length s) = s.
Proof.
  unfold resize. rewrite take_app_length, length_app.
  replace (length s - (length s + length t))%nat with O by lia. apply app_nil_r.
Qed.

Lemma lower_and_normalize_text input before idna2008 : wtext input ->
  lower_and_normalize input before idna2008 =
  match input, normal_text (decomposer_of idna2008) input with
  | _ :: _, Some n => Ret (compose_text n, true)
  | _, _ => Ret ([], false)
  end.
Proof.
  intros Hw. unfold lower_and_normalize. destruct input as [|c input]; [done|].
  set (inp := c :: input) in *. change (length inp =? 0)%nat with false.
  pose proof (normalize_ok (decomposer_of idna2008) inp (resize before (length inp * 18)) Hw) as H.
  rewrite resize_length in H. specialize (H ltac:(lia)). unfold decomposer_of in *.
  destruct (normal_text _ inp) as [n|] eqn:En.
  - destruct H as [rest ->]. cbn [obind].
    destruct (compose_string_ok n rest) as [rest' ->].
    { eapply Forall_impl; [apply (normal_text_quiet (decomposer_of idna2008) inp n Hw En)|]. by intros x [Hx _]. }
    cbn [obind fst snd]. by rewrite resize_take.
  - by rewrite H.
Qed.

(** ** Normalizing again *)

(** the decomposition of a quiet character *)
Definition settle (c : Z) : list Z := if is_hangul c then hangul_decompose c else [c].

Definition settle_text (l : list Z) : list Z := concat (map settle l).

Definition lclass (kept : list Z) : Z := match last kept with Some r => ccc r | None => 0 end.

Lemma lclass_snoc kept c : lclass (kept ++ [c]) = ccc c.
Proof. unfold lclass. by rewrite last_snoc. Qed.

Lemma jamo_starter c : jamo_L c = true \/ jamo_V c = true \/ jamo_T c = true -> ccc c = 0.
Proof.
  unfold jamo_L, jamo_V, jamo_T, L_COUNT, V_COUNT, T_COUNT. intros H. apply starter_class, jamo_settled.
  destruct H as [H|[H|H]]; apply andb_prop in H as [H1 H2].
  - replace c with (L_BASE + (c - L_BASE)) by lia. apply in_jamo_L. lia.
  - replace c with (V_BASE + (c - V_BASE)) by lia. apply in_jamo_V. lia.
  - replace c with (T_BASE + (c - T_BASE)) by lia. apply in_jamo_T. lia.
Qed.

(** a composite made with a combiner is one of the table *)
Lemma primary_combiner s c v : 0 < ccc c -> primary s c = Some v -> composite s c = Some v.
Proof.
  intros Hc. unfold primary.
  destruct (jamo_V c) eqn:E1; [rewrite jamo_starter in Hc by auto; lia|]. rewrite andb_false_r.
  destruct (jamo_T c) eqn:E2; [rewrite jamo_starter in Hc by auto; lia|]. by rewrite andb_false_r.
Qed.

(** after joining [c], the combiners kept before it do not join *)
Lemma kept_inert s c v r : primary s c = Some v -> 0 < ccc c -> 0 < ccc r -> ccc r < ccc c -> primary v r = None.
Proof.
  intros H Hc Hr Hlt. apply primary_combiner in H; [|done]. destruct (primary v r) as [v'|] eqn:E; [|done].
  apply primary_combiner in E; [|done]. exfalso.
  pose proof (composite_classes _ _ records_checked s c v r v' H E). lia.
Qed.

Lemma comp_skip v k0 kept rest : Forall is_combiner kept -> Forall (fun r => primary v r = None) kept ->
  comp v (lclass k0) k0 (kept ++ rest) = comp v (lclass (k0 ++ kept)) (k0 ++ kept) rest.
Proof.
  intros Hc. revert k0. induction Hc as [|r kept Hr _ IH]; intros k0 Hp; [by rewrite app_nil_r|].
  inversion Hp as [|? ? Hpr Hp']; subst. cbn [app comp].
  assert (E : joined (lclass k0) v r = None) by (unfold joined; by destruct (_ || _)). rewrite E.
  apply combiner_class in Hr. destruct (Z.eqb_spec (ccc r) 0); [lia|].
  rewrite <- (lclass_snoc k0 r), IH by done. by rewrite <- app_assoc.
Qed.

(** ** Hangul syllables *)

Lemma joined_starter lc s c : ccc c = 0 -> joined lc s c = primary s c.
Proof. intros H. unfold joined. rewrite H, Z.eqb_refl, orb_true_r. done. Qed.

Lemma comp_join lc s c v l : ccc c = 0 -> primary s c = Some v -> comp s lc [] (c :: l) = comp v lc [] l.
Proof. intros Hc Hp. cbn [comp]. by rewrite joined_starter, Hp by done. Qed.

Lemma jamo_pair l v : 0 <= l < 19 -> 0 <= v < 21 ->
  primary (L_BASE + l) (V_BASE + v) = Some (S_BASE + (l * V_COUNT + v) * T_COUNT).
Proof.
  intros Hl Hv. unfold primary, jamo_L, jamo_V, L_COUNT, V_COUNT. decide_Z. cbn [andb]. f_equal. unfold T_COUNT. lia.
Qed.

Lemma syllable_pair i t : 0 <= i < 399 -> 0 <= t < 28 ->
  primary (S_BASE + i * T_COUNT) (T_BASE + t) = Some (S_BASE + i * T_COUNT + t).
Proof.
  intros Hi Ht. unfold primary, jamo_L, is_hangul, jamo_T, S_COUNT, N_COUNT, S_BASE, L_BASE, T_BASE, L_COUNT, V_COUNT, T_COUNT in *.
  rewrite (proj2 (Z.ltb_ge (0xAC00 + i * 28) (0x1100 + 19))) by lia. rewrite andb_false_r. cbn [andb].
  replace ((0xAC00 + i * 28 - 0xAC00) mod 28) with 0 by (replace (0xAC00 + i * 28 - 0xAC00) with (i * 28) by lia; by rewrite Z.mod_mul).
  decide_Z. cbn [andb]. f_equal. lia.
Qed.

(** the jamo of a syllable compose to it again *)
Lemma hangul_recompose s : is_hangul s = true -> exists x xs, hangul_decompose s = x :: xs /\ jamo_L x = true /\
  (forall rest, comp x 0 [] (xs ++ rest) = comp s 0 [] rest) /\ Forall (fun c => ccc c = 0) (x :: xs).
Proof.
  intros H. assert (Hj : Forall (fun c => ccc c = 0) (hangul_decompose s)).
  { eapply Forall_impl; [apply hangul_jamo, H|]. intros c Hc. apply starter_class. by apply jamo_settled. }
  unfold is_hangul in H. apply andb_prop in H as [H1 H2]. revert Hj. unfold hangul_decompose.
  rewrite (proj2 (Z.ltb_ge s S_BASE)), (proj2 (Z.leb_gt (S_BASE + S_COUNT) s)) by lia. cbn [orb].
  unfold S_COUNT, N_COUNT, L_COUNT, V_COUNT, T_COUNT in H2 |- *.
  set (i := s - S_BASE). assert (Ei : 0 <= i < 11172) by lia.
  set (l := i / (21 * 28)). set (v := i mod (21 * 28) / 28). set (t := i mod 28).
  assert (El : 0 <= l < 19 /\ 0 <= v < 21 /\ 0 <= t < 28 /\ i = (l * 21 + v) * 28 + t) by (unfold l, v, t; clearbody i; zlia).
  clearbody l v t. destruct El as (Hl & Hv & Ht & Hi). cbn [app].
  intros Hj. eexists _, _. split; [reflexivity|]. split; [unfold jamo_L, L_COUNT; apply andb_true_intro; lia|].
  split; [|exact Hj]. inversion Hj as [|? ? _ Hj1]; subst. inversion Hj1 as [|? ? HV Hj2]; subst. intros rest.
  cbn [app]. rewrite (comp_join 0 _ _ _ _ HV (jamo_pair l v Hl Hv)). unfold V_COUNT.
  destruct (Z.eqb_spec (T_BASE + t) T_BASE) as [Et|Et]; cbn [negb app] in *.
  - replace (S_BASE + (l * 21 + v) * T_COUNT) with s by (unfold T_COUNT; lia). done.
  - inversion Hj2 as [|? ? HT _]; subst. rewrite (comp_join 0 _ _ _ _ HT (syllable_pair (l * 21 + v) t ltac:(lia) Ht)).
    by replace (S_BASE + (l * 21 + v) * T_COUNT + t) with s by (unfold T_COUNT; lia).
Qed.

(** the settled form of a starter: its first character joins nothing the starter
    does not join, and it composes to the starter again *)
Lemma settle_starter c : ccc c = 0 -> exists x xs, settle c = x :: xs /\ ccc x = 0 /\
  (x = c /\ is_hangul c = false \/ jamo_L x = true) /\ Forall (fun c => ccc c = 0) xs /\
  (forall rest, compose_text (x :: xs ++ rest) = comp c 0 [] rest).
Proof.
  intros Hc. unfold settle. destruct (is_hangul c) eqn:Eh.
  - destruct (hangul_recompose c Eh) as (x & xs & E & Hx & Hr & Hj). inversion Hj as [|? ? Hx0 Hxs]; subst.
    exists x, xs. split; [done|]. split; [done|]. split; [by right|]. split; [done|].
    intros rest. cbn [compose_text]. by rewrite Hx0.
  - exists c, []. split; [done|]. split; [done|]. split; [by left|]. split; [constructor|].
    intros rest. cbn [compose_text app]. by rewrite Hc.
Qed.

(** a leading jamo or a composite is no second character *)
Lemma jamo_L_no_second s x : jamo_L x = true -> primary s x = None.
Proof.
  intros H. unfold primary.
  assert (E1 : jamo_V x = false).
  { unfold jamo_L, jamo_V, L_COUNT, V_COUNT, L_BASE, V_BASE in *. destruct (0x1161 <=? x) eqn:E; [|done]. lia. }
  assert (E2 : jamo_T x = false).
  { unfold jamo_L, jamo_T, L_COUNT, T_COUNT, L_BASE, T_BASE in *. destruct (0x11A7 <=? x) eqn:E; [|done]. lia. }
  rewrite E1, E2, !andb_false_r. destruct (composite s x) as [v|] eqn:E; [|done].
  apply composite_facts in E as (_ & _ & _ & _ & _ & _ & _ & _ & E). congruence.
Qed.

Lemma composite_no_second s s0 c0 v : composite s0 c0 = Some v -> primary s v = None.
Proof.
  intros H. destruct (composite_facts _ _ _ H) as (_ & _ & _ & _ & _ & EV & ET & _ & _). unfold primary.
  rewrite EV, ET, !andb_false_r. destruct (composite s v) as [v'|] eqn:E; [|done]. exfalso.
  by apply (composite_not_combiner _ _ records_checked s0 c0 v s v v' H E).
Qed.

Lemma primary_starter s c v : primary s c = Some v -> ccc v = 0.
Proof.
  intros H. apply primary_cases in H as [H|H]; [by apply hangul_starter|].
  apply starter_class. by apply composite_facts in H as (_ & _ & H & _).
Qed.

Lemma comp_head s lc kept l : exists f t, comp s lc kept l = f :: t /\
  (f = s \/ exists s0 c0, primary s0 c0 = Some f).
Proof.
  revert s lc kept. induction l as [|c l IH]; intros s lc kept; cbn [comp]; [eauto|].
  destruct (joined lc s c) as [v|] eqn:Ej.
  - destruct (IH v lc kept) as (f & t & -> & H). exists f, t. split; [done|]. right.
    destruct H as [-> | H]; [|done]. apply joined_primary in Ej. eauto.
  - destruct (ccc c =? 0); [eauto|apply IH].
Qed.

(** a starter that [s] does not join is still not joined when its own composition
    has been taken apart *)
Lemma head_not_joined s c f x xs : primary s c = None ->
  (f = c \/ exists s0 c0, primary s0 c0 = Some f) -> settle f = x :: xs ->
  (x = f /\ is_hangul f = false \/ jamo_L x = true) -> primary s x = None.
Proof.
  intros Hp Hf Hs [[-> Hh]|Hx]; [|by apply jamo_L_no_second].
  destruct Hf as [-> | (s0 & c0 & Hf)]; [done|]. apply primary_cases in Hf as [Hf|Hf]; [congruence|].
  by eapply composite_no_second.
Qed.

(** ** A normalized text stays as it is *)

(** no starter that joins a character before it comes directly after a combiner;
    [after]: a combiner comes before [l] *)
Fixpoint late_ok (after : bool) (l : list Z) : Prop :=
  match l with
  | [] => True
  | c :: l' => (after = true -> starterb c = true -> forall s, primary s c = None) /\ late_ok (negb (starterb c)) l'
  end.

Lemma settle_combiners kept : Forall is_combiner kept -> settle_text kept = kept.
Proof.
  intros H. induction H as [|r kept Hr _ IH]; [done|]. unfold settle_text in *. cbn [map concat].
  unfold settle at 1. destruct (is_hangul r) eqn:E; [|by rewrite IH].
  apply hangul_starter, starter_class in E. unfold is_combiner in Hr. congruence.
Qed.

Lemma settle_app l l' : settle_text (l ++ l') = settle_text l ++ settle_text l'.
Proof. unfold settle_text. by rewrite map_app, concat_app. Qed.

(** a state of the composition that reading its own output reaches again *)
Record replayed (s : Z) (kept : list Z) : Prop := {
  replayed_starter : ccc s = 0;
  replayed_kept : Forall is_combiner kept;
  replayed_classes : Forall (fun r => ccc r <= lclass kept) kept;
  replayed_ordered : ordered_from 0 kept;
  replayed_run rest : comp s 0 [] (kept ++ rest) = comp s (lclass kept) kept rest }.

Lemma replayed_nil s : ccc s = 0 -> replayed s [].
Proof. intros H. split; try done; constructor. Qed.

Lemma replayed_join s c v kept : replayed s kept -> primary s c = Some v ->
  (kept = [] \/ lclass kept < ccc c) -> replayed v kept.
Proof.
  intros [Hs Hk Hc Ho Hr] Hp Hor. pose proof (primary_starter _ _ _ Hp) as Hv.
  destruct Hor as [-> | Hlt]; [by apply replayed_nil|]. split; try done.
  intros rest. rewrite <- (app_nil_l kept) at 2 3. apply (comp_skip v []); [done|].
  apply Forall_forall. intros r Hin. rewrite Forall_forall in Hk, Hc. specialize (Hk r Hin). specialize (Hc r Hin).
  apply combiner_class in Hk. cbn beta in Hc. apply (kept_inert s c v r Hp); lia.
Qed.

Lemma ordered_snoc k kept c : ordered_from k kept -> (kept = [] -> k <= ccc c) -> lclass kept <= ccc c ->
  ordered_from k (kept ++ [c]).
Proof.
  revert k. induction kept as [|r kept IH]; intros k; cbn [app ordered_from]; [intros _ H _; split; [right; auto|done]|].
  intros [H1 H2] Hk Hl. split; [done|]. destruct kept as [|q kept].
  - apply IH; [done|intros _; exact Hl|exact (proj1 (proj2 (class_total c)))].
  - apply IH; [done|done|exact Hl].
Qed.

Lemma replayed_keep s c kept : replayed s kept -> is_combiner c -> joined (lclass kept) s c = None ->
  lclass kept <= ccc c -> replayed s (kept ++ [c]).
Proof.
  intros [Hs Hk Hc Ho Hr] Hcc Hj Hle. apply combiner_class in Hcc as Hpos. split; [done| | | |].
  - apply Forall_app. split; [done|]. by constructor.
  - rewrite lclass_snoc. apply Forall_app. split; [|by constructor].
    eapply Forall_impl; [exact Hc|]. intros r H. cbn beta in *. lia.
  - apply ordered_snoc; [done|lia|done].
  - intros rest. rewrite <- app_assoc, Hr. cbn [app comp]. rewrite Hj.
    destruct (Z.eqb_spec (ccc c) 0); [lia|]. by rewrite lclass_snoc.
Qed.

Lemma replay_rest s kept rest : replayed s kept ->
  compose_text (settle_text (s :: kept) ++ rest) = comp s (lclass kept) kept rest.
Proof.
  intros [Hs Hk _ _ Hr]. destruct (settle_starter s Hs) as (x & xs & E & _ & _ & _ & Hx).
  change (s :: kept) with ([s] ++ kept). rewrite settle_app, (settle_combiners kept Hk).
  unfold settle_text. cbn [map concat]. rewrite E, app_nil_r, <- app_assoc. cbn [app]. by rewrite Hx, Hr.
Qed.

(** Composing the decomposed result gives the result. *)
Lemma comp_again l : forall s kept after, replayed s kept -> (kept <> [] -> after = true) ->
  ordered_from (lclass kept) l -> late_ok after l ->
  let y := comp s (lclass kept) kept l in compose_text (settle_text y) = y /\ ordered_from 0 y.
Proof.
  induction l as [|c l IH]; intros s kept after Hrep Haf Hord Hlate; cbn [comp].
  - split.
    + rewrite <- (app_nil_r (settle_text _)). by rewrite replay_rest.
    + destruct Hrep as [Hs _ _ Ho _]. split; [by left|]. by rewrite Hs.
  - destruct Hord as [Hc Hord]. destruct Hlate as [Hl Hlate].
    destruct (joined (lclass kept) s c) as [v|] eqn:Ej.
    + assert (Hp : primary s c = Some v) by (by eapply joined_primary).
      assert (Hor : kept = [] \/ lclass kept < ccc c).
      { destruct (decide (kept = [])) as [|Hne]; [by left|right]. destruct (Z.eqb_spec (ccc c) 0) as [E0|E0].
        - rewrite Hl in Hp; [done|by apply Haf|by apply starter_class].
        - unfold joined in Ej. destruct (Z.ltb_spec (lclass kept) (ccc c)); [done|].
          by rewrite (proj2 (Z.eqb_neq _ _) E0) in Ej. }
      apply (IH v kept (negb (starterb c))); [by eapply replayed_join| | |done].
      * intros Hne. destruct Hor as [|Hlt]; [done|]. unfold starterb. rewrite (proj2 (Z.eqb_neq _ _)); [done|].
        intros E0. rewrite Hl in Hp; [done|by apply Haf|by apply starter_class].
      * destruct Hor as [-> | Hlt]; [|apply (ordered_weaken _ (ccc c)); [lia|done]].
        apply (ordered_weaken _ (ccc c)); [|done]. apply class_total.
    + destruct (Z.eqb_spec (ccc c) 0) as [E0|E0].
      * rewrite joined_starter in Ej by done.
        assert (Hst : starterb c = true) by (by apply starter_class).
        destruct (IH c [] false (replayed_nil c E0) ltac:(done)) as [IH1 IH2]; [by rewrite E0 in Hord|by rewrite Hst in Hlate|].
        cbn [lclass last] in IH1, IH2. destruct (comp_head c 0 [] l) as (f & t & Ey & Hf). rewrite Ey in *.
        assert (Hf0 : ccc f = 0).
        { destruct Hf as [-> | (s0 & c0 & Hf)]; [done|]. by eapply primary_starter. }
        split.
        { change (s :: kept ++ f :: t) with ((s :: kept) ++ f :: t). rewrite settle_app, replay_rest by done.
          destruct (settle_starter f Hf0) as (x & xs & Es & Hx0 & Hx & _ & _).
          assert (Hn : primary s x = None) by (by eapply head_not_joined).
          unfold settle_text in IH1 |- *. cbn [map concat] in IH1 |- *. rewrite Es in IH1 |- *. cbn [app comp] in IH1 |- *.
          rewrite joined_starter, Hn, Hx0 by done. cbn [compose_text] in IH1. rewrite Hx0 in IH1. by rewrite IH1. }
        destruct Hrep as [Hs _ _ Ho _]. split; [by left|]. rewrite Hs. apply ordered_text_app; [done|done|].
        destruct IH2 as [_ IH2]. by rewrite Hf0 in IH2.
      * assert (Hcc : is_combiner c) by (apply combiner_class; pose proof (proj2 (class_total c)); lia).
        assert (Hk : replayed s (kept ++ [c])) by (apply replayed_keep; try done; lia).
        pose proof (IH s (kept ++ [c]) true Hk ltac:(done)) as H. rewrite lclass_snoc in H. apply H; [done|].
        by rewrite Hcc in Hlate.
Qed.

(** the same condition on a text, by its neighbouring characters *)
Definition joins_in_place (l : list Z) : Prop :=
  forall p r c q, l = p ++ r :: c :: q -> 0 < ccc r -> ccc c = 0 -> forall s, primary s c = None.

Lemma joins_late r l : joins_in_place (r :: l) -> late_ok (negb (starterb r)) l.
Proof.
  revert r. induction l as [|c l IH]; intros r H; [done|]. split.
  - intros Hr Hc. apply (H [] r c l eq_refl); [apply combiner_class; by apply negb_true_iff in Hr|by apply starter_class].
  - apply IH. intros p a b q E. apply (H (r :: p) a b q). by rewrite E.
Qed.

Lemma ordered_zeros zs l : Forall (fun c => ccc c = 0) zs -> ordered_from 0 l -> ordered_from 0 (zs ++ l).
Proof.
  intros H Hl. induction H as [|z zs Hz _ IH]; [done|]. cbn [app ordered_from]. split; [by left|]. by rewrite Hz.
Qed.

Lemma settle_ordered k y : ordered_from k y -> ordered_from k (settle_text y).
Proof.
  revert k. induction y as [|c y IH]; intros k; [done|]. intros [H1 H2].
  change (c :: y) with ([c] ++ y). rewrite settle_app. unfold settle_text at 1. cbn [map concat]. rewrite app_nil_r.
  unfold settle. destruct (is_hangul c) eqn:Eh.
  - destruct (hangul_recompose c Eh) as (x & xs & -> & _ & _ & Hj). inversion Hj as [|? ? Hx Hxs]; subst.
    cbn [app ordered_from]. split; [by left|]. rewrite Hx. apply ordered_zeros; [done|]. apply IH.
    by rewrite (hangul_starter c Eh) in H2.
  - cbn [app ordered_from]. split; [done|]. by apply IH.
Qed.

Lemma comp_forall (P : Z -> Prop) s lc kept l : (forall s c v, primary s c = Some v -> P v) ->
  Forall P (s :: kept ++ l) -> Forall P (comp s lc kept l).
Proof.
  intros HP. revert s lc kept. induction l as [|c l IH]; intros s lc kept H; cbn [comp]; [by rewrite app_nil_r in H|].
  inversion H as [|? ? Hs Hkl]; subst. apply Forall_app in Hkl as [Hk Hcl]. inversion Hcl as [|? ? Hc Hl]; subst.
  destruct (joined lc s c) as [v|] eqn:Ej.
  - apply IH. constructor; [by eapply HP, joined_primary|]. by apply Forall_app.
  - destruct (ccc c =? 0).
    + constructor; [done|]. apply Forall_app. split; [done|]. apply IH. by constructor.
    + apply IH. constructor; [done|]. rewrite <- app_assoc. by apply Forall_app.
Qed.

Section Again.
Context (decomposer : Z -> outcome (option (list Z))) `{!Decomposer decomposer}.

Lemma compose_text_quiet n : Forall (quiet decomposer) n -> Forall (quiet decomposer) (compose_text n).
Proof using All.
  destruct n as [|c n]; [done|]. intros H. apply comp_forall; [|done].
  intros s x v Hv. split; [by eapply primary_char|].
  apply primary_cases in Hv as [Hv|Hv]; [by right|left]. apply composite_facts in Hv as (_ & _ & _ & Hf & _).
  by apply decomposer_fixed.
Qed.

Lemma decomposed_settle y : Forall (quiet decomposer) y -> decomposed decomposer y = Some (settle_text y).
Proof using All.
  intros H. induction H as [|c y [Hc Hq] _ IH]; [done|]. cbn [decomposed]. rewrite IH.
  change (c :: y) with ([c] ++ y). rewrite settle_app. unfold settle_text at 2. cbn [map concat]. rewrite app_nil_r.
  unfold settle. destruct (is_hangul c) eqn:Eh; [by rewrite (decomposer_hangul c Eh)|].
  destruct Hq as [Hq|Hq]; [|done]. by rewrite Hq.
Qed.

Lemma settle_starts f t : ccc f = 0 -> starts_well (settle_text (f :: t)) = true.
Proof using.
  intros Hf. destruct (settle_starter f Hf) as (x & xs & E & Hx & _). unfold settle_text. cbn [map concat].
  rewrite E. by apply starter_class.
Qed.

(** The composed text decomposes to a text in canonical order that composes to it. *)
Lemma normal_text_again n : Forall (quiet decomposer) n -> starts_well n = true -> ordered_from 0 n ->
  joins_in_place n ->
  exists m, normal_text decomposer (compose_text n) = Some m /\ compose_text m = compose_text n.
Proof using All.
  intros Hq Hs Ho Hj. destruct n as [|c n]; [by exists []|].
  apply starter_class in Hs as Hc. pose proof (compose_text_quiet _ Hq) as Hqy.
  pose proof (joins_late c n Hj) as Hlate. rewrite (Hs : starterb c = true) in Hlate. destruct Ho as [_ Ho]. rewrite Hc in Ho.
  destruct (comp_again n c [] false (replayed_nil c Hc) ltac:(done) Ho Hlate) as [Ha Hord].
  cbn [lclass last] in Ha, Hord. cbn [compose_text] in Hqy |- *. rewrite Hc in Hqy |- *.
  exists (settle_text (comp c 0 [] n)). split; [|done]. unfold normal_text. rewrite decomposed_settle by done.
  destruct (comp_head c 0 [] n) as (f & t & E & Hf). rewrite E in *.
  rewrite settle_starts; [|destruct Hf as [-> | (s0 & c0 & Hf)]; [done|by eapply primary_starter]].
  f_equal. apply reorder_ordered_id; [constructor|]. by apply settle_ordered.
Qed.
End Again.

(** ** The theorems *)

Lemma normal_text_starts decomposer input n : normal_text decomposer input = Some n ->
  starts_well n = true /\ ordered_from 0 n.
Proof.
  unfold normal_text. destruct (decomposed decomposer input) as [d|]; [|done].
  destruct (starts_well d) eqn:Es; [|done]. intros [= <-]. split; [|apply reorder_ordered; constructor].
  destruct d as [|c d]; [done|]. cbn [starts_well reorder] in *. by rewrite Es.
Qed.

(** [decompose_2008] and [decompose_2003] return for every character that is
    not negative: they never read outside their tables, a character is prohibited
    or decomposes to at most 18 characters, starters and then combiners, and each
    of these is its own decomposition or a Hangul syllable. *)
Theorem decomposers_total (idna2008 : bool) w : 0 <= w ->
  (if idna2008 then decompose_2008 else decompose_2003) w = Ret None \/
  exists cs, (if idna2008 then decompose_2008 else decompose_2003) w = Ret (Some cs) /\
    (length cs <= 18)%nat /\
    (exists ss cc, cs = ss ++ cc /\ Forall (fun c => ccc c = 0) ss /\ Forall (fun c => 0 < ccc c) cc) /\
    Forall (fun c => 0 < c < 0x110000 /\
      ((if idna2008 then decompose_2008 else decompose_2003) c = Ret (Some [c]) \/
       S_BASE <= c < S_BASE + S_COUNT)) cs.
Proof.
  intros Hw. destruct (decomposer_of_laws idna2008) as [Ht _ _]. unfold decomposer_of in Ht.
  destruct (Ht w Hw) as ([cs|] & Ed & Hok); [right|by left]. destruct (Hok cs eq_refl) as (Hsh & Hl & Hq).
  exists cs. split; [done|]. split; [done|]. split.
  - destruct (shape_split cs Hsh) as (ss & cc & -> & Hss & Hcc & _). exists ss, cc. split; [done|]. split.
    + eapply Forall_impl; [exact Hss|]. intros c. apply starter_class.
    + eapply Forall_impl; [exact Hcc|]. intros c. apply combiner_class.
  - eapply Forall_impl; [exact Hq|]. intros c [Hc Hs]. split; [unfold charb in Hc; lia|].
    destruct Hs as [Hs|Hs]; [by left|right]. unfold is_hangul in Hs. lia.
Qed.

Lemma decomposers_total_witness : 0 <= 0x1F82 /\
  (decompose_2008 0x1F82 = Ret None \/
  exists cs, decompose_2008 0x1F82 = Ret (Some cs) /\ (length cs <= 18)%nat /\
    (exists ss cc, cs = ss ++ cc /\ Forall (fun c => ccc c = 0) ss /\ Forall (fun c => 0 < ccc c) cc) /\
    Forall (fun c => 0 < c < 0x110000 /\
      (decompose_2008 c = Ret (Some [c]) \/ S_BASE <= c < S_BASE + S_COUNT)) cs).
Proof. split; [lia|]. apply (decomposers_total true 0x1F82). lia. Defined.

(** C9: [normalize] with a buffer of 18 characters for each character of the input, and
    any decomposer with these laws, stays in the buffer and returns null exactly when a
    character is prohibited or the decomposed text begins with a combiner; otherwise the
    text written is the decomposed text in the order of the combining classes that
    [get_combining_class] gives (the table of the repository, and 0 above [U+1D244]):
    neighbouring combiners were exchanged until none was out of this order, and there is
    only one such text. *)
Theorem normalize_canonical decomposer `{!Decomposer decomposer} input buf :
  Forall (fun c => 0 <= c) input -> (length input * 18 <= length buf)%nat ->
  match decomposed decomposer input with
  | Some d =>
    if starts_well d then
      exists n rest, normalize input buf decomposer = Ret (Some (n ++ rest, length n)) /\
        rtc exchange d n /\ canonical n /\ (forall m, rtc exchange d m -> canonical m -> m = n)
    else normalize input buf decomposer = Ret None
  | None => normalize input buf decomposer = Ret None
  end.
Proof.
  intros Hw Hb. pose proof (normalize_ok decomposer input buf Hw Hb) as H. unfold normal_text in H.
  destruct (decomposed decomposer input) as [d|]; [|done]. destruct (starts_well d); [|done].
  destruct H as [rest Hn]. exists (reorder [] d), rest. split; [done|].
  split; [apply (reorder_exchange [] d); constructor|].
  split; [apply (ordered_canonical 0), reorder_ordered; constructor|]. apply reorder_unique.
Qed.

Lemma normalize_canonical_witness :
  exists n rest : list Z, normalize [0x61; 0x301; 0x323] (replicate 54 0) decompose_2008 = Ret (Some (n ++ rest, length n)) /\
    rtc exchange [0x61; 0x301; 0x323] n /\ canonical n /\
    (forall m, rtc exchange [0x61; 0x301; 0x323] m -> canonical m -> m = n).
Proof.
  apply (normalize_canonical decompose_2008 [0x61; 0x301; 0x323] (replicate 54 0)).
  - repeat (apply List.Forall_cons; [lia|]); apply List.Forall_nil.
  - vm_compute. lia.
Defined.

(** C24: [compose_string] composes in place: on a text of characters at the start of
    the buffer it returns, within the buffer, and leaves there the composition
    [compose_text] of the text, in which the hash table is a search for the pair;
    what it writes never overtakes what it reads. *)
Theorem compose_string_in_place l tail : Forall (fun c => 0 < c < 0x110000) l ->
  exists rest, compose_string (l ++ tail) (length l) = Ret (compose_text l ++ rest, length (compose_text l)) /\
    (length (compose_text l) <= length l)%nat.
Proof.
  intros H. assert (Hc : Forall (fun c => charb c = true) l).
  { eapply Forall_impl; [exact H|]. intros c Hc. cbn beta in Hc. unfold charb. apply andb_true_intro. lia. }
  destruct (compose_string_ok l tail Hc) as [rest E]. exists rest. split; [done|].
  clear. destruct l as [|c l]; [done|]. cbn [compose_text length].
  assert (G : forall l s lc kept, (length (comp s lc kept l) <= 1 + length kept + length l)%nat).
  { clear. induction l as [|c l IH]; intros s lc kept; cbn [comp length]; [lia|].
    destruct (joined lc s c) as [v|]; [specialize (IH v lc kept); lia|].
    destruct (ccc c =? 0).
    - cbn [length]. rewrite length_app. specialize (IH c 0 []). cbn [length] in IH. lia.
    - specialize (IH s (ccc c) (kept ++ [c])). rewrite length_app in IH. cbn [length] in IH. lia. }
  specialize (G l c (ccc c) []). cbn [length] in G. lia.
Qed.

Lemma compose_string_in_place_witness :
  exists rest, compose_string ([0x1112; 0x1161; 0x11AB; 0x65; 0x301] ++ [7]) 5 =
    Ret (compose_text [0x1112; 0x1161; 0x11AB; 0x65; 0x301] ++ rest,
         length (compose_text [0x1112; 0x1161; 0x11AB; 0x65; 0x301])) /\
    (length (compose_text [0x1112; 0x1161; 0x11AB; 0x65; 0x301]%Z) <= 5)%nat.
Proof. apply (compose_string_in_place [0x1112; 0x1161; 0x11AB; 0x65; 0x301] [7]). repeat (apply List.Forall_cons; [lia|]); apply List.Forall_nil. Defined.

(** A normalized text is left as it is by a second call, where the decomposed
    text has no starter directly after a combiner that could join a character
    before it. *)
Theorem lower_and_normalize_idempotent input before before' (idna2008 : bool) n :
  Forall (fun c => 0 <= c) input -> input <> [] ->
  normal_text (if idna2008 then decompose_2008 else decompose_2003) input = Some n -> joins_in_place n ->
  exists y, lower_and_normalize input before idna2008 = Ret (y, true) /\
    lower_and_normalize y before' idna2008 = Ret (y, negb (length y =? 0)%nat).
Proof.
  intros Hw Hne En Hj. exists (compose_text n). split.
  { rewrite lower_and_normalize_text by done. destruct input as [|c input]; [done|]. unfold decomposer_of. by rewrite En. }
  pose proof (normal_text_quiet (decomposer_of idna2008) input n Hw En) as Hq.
  destruct (normal_text_starts _ _ _ En) as [Hs Ho].
  destruct (normal_text_again (decomposer_of idna2008) n Hq Hs Ho Hj) as (m & Em & Ec).
  rewrite lower_and_normalize_text.
  - destruct (compose_text n) as [|c y]; [done|]. by rewrite Em, Ec.
  - eapply Forall_impl; [apply (compose_text_quiet (decomposer_of idna2008) n Hq)|].
    intros c [Hc _]. unfold charb in Hc. lia.
Qed.

Lemma lower_and_normalize_idempotent_witness :
  exists y, lower_and_normalize [0xD55C; 0x41; 0x301; 0x323] [] true = Ret (y, true) /\
    lower_and_normalize y [1; 2] true = Ret (y, negb (length y =? 0)%nat).
Proof.
  apply (lower_and_normalize_idempotent [0xD55C; 0x41; 0x301; 0x323] [] [1; 2] true [0x1112; 0x1161; 0x11AB; 0x61; 0x323; 0x301]).
  - repeat (apply List.Forall_cons; [lia|]); apply List.Forall_nil.
  - done.
  - vm_compute. reflexivity.
  - intros p r c q E Hr Hc s. exfalso.
    destruct p as [|? [|? [|? [|? [|? [|? [|? ?]]]]]]]; try discriminate E;
      injection E; intros; subst; vm_compute in Hr, Hc; discriminate.
Defined.

(** ** The composition of the Unicode standard

    A character is blocked from the starter before it by a character between them that is
    a starter or whose class is not below its own; a primary composite is a syllable of
    Hangul, whose trailing consonants begin after [T_BASE], or a pair of the table
    (UAX 15, the composition algorithm, over the classes and pairs of the repository). *)
Definition blocked (kept : list Z) (c : Z) : bool := existsb (fun b => (ccc b =? 0) || (ccc c <=? ccc b)) kept.

Definition primary_composite (s c : Z) : option Z :=
  if jamo_L s && jamo_V c then Some (S_BASE + ((s - L_BASE) * V_COUNT + (c - V_BASE)) * T_COUNT)
  else if is_hangul s && ((s - S_BASE) mod T_COUNT =? 0) && (T_BASE <? c) && (c <? T_BASE + T_COUNT) then Some (s + (c - T_BASE))
  else composite s c.

(** the last starter [s], what was kept after it, and the text to read *)
Fixpoint composition (s : Z) (kept l : list Z) : list Z :=
  match l with
  | [] => s :: kept
  | c :: l' =>
    match if blocked kept c then None else primary_composite s c with
    | Some v => composition v kept l'
    | None => if ccc c =? 0 then s :: kept ++ composition c [] l' else composition s (kept ++ [c]) l'
    end
  end.

Definition canonical_composition (l : list Z) : list Z :=
  match l with [] => [] | s :: l' => composition s [] l' end.

Definition is_composed (c : Z) : bool := is_hangul c || existsb (fun r => value r =? c) records.

(** A decomposed text without what the code treats differently: characters that the standard
    takes apart and the decomposition leaves, characters whose class is not looked up,
    [U+11A7], and starters after a combiner that could join a character before it. *)
Record regular (n : list Z) : Prop := {
  regular_decomposed : Forall (fun c => is_composed c = false) n;
  regular_classes : Forall (fun c => c <= 0x1D244) n;
  regular_trailing : Forall (fun c => c <> T_BASE) n;
  regular_joins : joins_in_place n
}.

Lemma primary_standard s c : c <> T_BASE -> primary s c = primary_composite s c.
Proof.
  intros Hc. unfold primary, primary_composite, jamo_T. destruct (_ && jamo_V c); [done|].
  assert (E : (T_BASE <=? c) = (T_BASE <? c)) by (destruct (Z.leb_spec T_BASE c), (Z.ltb_spec T_BASE c); lia). by rewrite E, andb_assoc.
Qed.

Lemma blocked_last kept c : Forall (fun b => 0 < ccc b <= lclass kept) kept -> 0 < ccc c ->
  blocked kept c = negb (lclass kept <? ccc c).
Proof.
  intros Hk Hc. destruct (Z.ltb_spec (lclass kept) (ccc c)) as [Hlt|Hle]; cbn [negb]; unfold blocked.
  - apply not_true_iff_false. rewrite existsb_exists. intros (b & Hin & Hb). apply list_elem_of_In in Hin.
    rewrite Forall_forall in Hk. specialize (Hk b Hin). lia.
  - destruct kept as [|b kept _] using rev_ind; [cbn in Hle; lia|]. rewrite lclass_snoc in Hle.
    rewrite existsb_app. cbn [existsb]. rewrite (proj2 (Z.leb_le _ _) Hle). by rewrite !orb_true_r.
Qed.

Lemma joined_standard s kept c : Forall (fun b => 0 < ccc b <= lclass kept) kept -> c <> T_BASE ->
  (ccc c = 0 -> kept <> [] -> primary s c = None) ->
  joined (lclass kept) s c = if blocked kept c then None else primary_composite s c.
Proof.
  intros Hk Hc Hn. rewrite <- primary_standard by done. unfold joined. pose proof (proj2 (class_total c)) as H0.
  destruct (Z.eqb_spec (ccc c) 0) as [E|E].
  - rewrite orb_true_r. destruct kept as [|b kept]; [done|]. rewrite Hn by done. by destruct (blocked _ _).
  - rewrite orb_false_r, blocked_last by (done || lia). by destruct (_ <? _).
Qed.

Lemma comp_standard l : forall s kept after, Forall (fun b => 0 < ccc b <= lclass kept) kept ->
  (kept <> [] -> after = true) -> ordered_from (lclass kept) l -> late_ok after l -> Forall (fun c => c <> T_BASE) l ->
  comp s (lclass kept) kept l = composition s kept l.
Proof.
  induction l as [|c l IH]; intros s kept after Hk Ha Ho Hl Ht; cbn [comp composition]; [done|].
  destruct Ho as [Hc Ho], Hl as [Hj Hl]. inversion_clear Ht as [|? ? Hct Ht'].
  assert (Hn : ccc c = 0 -> kept <> [] -> primary s c = None).
  { intros E0 Hne. apply Hj; [by apply Ha|by apply starter_class]. }
  rewrite joined_standard by done. pose proof (proj2 (class_total c)) as H0.
  destruct (if blocked kept c then None else primary_composite s c) as [v|] eqn:Ej.
  - rewrite <- joined_standard in Ej by done. apply (IH v kept (negb (starterb c))); [done| | |done|done].
    + intros Hne. destruct (starterb c) eqn:Es; [|done]. apply starter_class in Es.
      rewrite joined_starter, Hn in Ej by done. done.
    + destruct (decide (kept = [])) as [->|Hne]; [apply (ordered_weaken _ (ccc c)); [apply H0|done]|].
      apply (ordered_weaken _ (ccc c)); [|done]. destruct Hc as [E0|]; [|done].
      rewrite joined_starter, Hn in Ej by done. done.
  - destruct (Z.eqb_spec (ccc c) 0) as [E0|E0].
    + f_equal. f_equal. change 0 with (lclass []). apply (IH c [] false); [done|done|by rewrite E0 in Ho| |done].
      rewrite (proj2 (starter_class c) E0) in Hl. done.
    + rewrite <- (lclass_snoc kept c). apply (IH s (kept ++ [c]) true); [|done|by rewrite lclass_snoc| |done].
      * rewrite lclass_snoc. apply Forall_app. split; [|by constructor; [lia|]].
        eapply Forall_impl; [exact Hk|]. cbn. intros b ?. lia.
      * assert (Hs : is_combiner c) by (apply combiner_class; lia). by rewrite Hs in Hl.
Qed.

(** On such texts the composition is the standard's. *)
Lemma compose_text_standard n : starts_well n = true -> ordered_from 0 n -> regular n ->
  compose_text n = canonical_composition n.
Proof.
  intros Hs Ho [_ _ Ht Hj]. destruct n as [|c n]; [done|]. cbn [compose_text canonical_composition].
  apply starter_class in Hs as Hc. rewrite Hc. inversion_clear Ht. destruct Ho as [_ Ho]. rewrite Hc in Ho.
  change 0 with (lclass []). apply (comp_standard n c [] false); [done|done|done| |done].
  pose proof (joins_late c n Hj) as Hl. by rewrite (Hs : starterb c = true) in Hl.
Qed.

(** C8: [lower_and_normalize] of a text returns, without undefined behaviour and
    whatever [output] held before: it fails with an empty [output] exactly when the
    text is empty, holds a prohibited character or begins with a combiner after
    decomposition; otherwise it succeeds.  Where the decomposed text, put in the order of
    its combining classes, is regular (no composed character is left in it, no character is
    above [U+1D244], no [U+11A7], and no starter that could join follows a combiner), the
    result is its composition by the algorithm of the Unicode standard over the
    repository's table of pairs, and a second call changes nothing. *)
Theorem lower_and_normalize_correct input before (idna2008 : bool) : Forall (fun c => 0 <= c) input ->
  match decomposed (if idna2008 then decompose_2008 else decompose_2003) input with
  | Some d =>
    if negb (length input =? 0)%nat && starts_well d then
      exists n y, rtc exchange d n /\ canonical n /\ lower_and_normalize input before idna2008 = Ret (y, true) /\
        (regular n -> y = canonical_composition n /\
          forall before', lower_and_normalize y before' idna2008 = Ret (y, negb (length y =? 0)%nat))
    else lower_and_normalize input before idna2008 = Ret ([], false)
  | None => lower_and_normalize input before idna2008 = Ret ([], false)
  end.
Proof.
  intros Hw. pose proof (lower_and_normalize_text input before idna2008 Hw) as El.
  pose proof (fun b' => lower_and_normalize_idempotent input before b' idna2008) as Hi.
  assert (Hn : forall n, normal_text (decomposer_of idna2008) input = Some n -> starts_well n = true /\ ordered_from 0 n)
    by (intros n; apply normal_text_starts).
  unfold normal_text, decomposer_of in El, Hi, Hn. destruct input as [|c input]; [by destruct (decomposed _ [])|].
  cbn [length Nat.eqb negb andb]. destruct (decomposed _ (c :: input)) as [d|]; [|done]. destruct (starts_well d); [|done].
  destruct (Hn _ eq_refl) as [Hs Ho]. exists (reorder [] d), (compose_text (reorder [] d)).
  split; [apply (reorder_exchange [] d); constructor|]. split; [by apply (ordered_canonical 0)|]. split; [done|].
  intros Hr. split; [by apply compose_text_standard|]. intros before'.
  destruct (Hi before' _ Hw ltac:(done) eq_refl (regular_joins _ Hr)) as (y & Ey & Ey'). rewrite El in Ey. by injection Ey as <-.
Qed.

Lemma lower_and_normalize_correct_witness :
  exists y, lower_and_normalize [0x41; 0x301; 0x323] [0x20] true = Ret (y, true) /\
    y = canonical_composition [0x61; 0x323; 0x301] /\
    lower_and_normalize y [1] true = Ret (y, negb (length y =? 0)%nat).
Proof.
  assert (Hw : Forall (fun c => 0 <= c) [0x41; 0x301; 0x323]) by (repeat (apply List.Forall_cons; [lia|]); apply List.Forall_nil).
  assert (T : exists n y, rtc exchange [0x61; 0x301; 0x323] n /\ canonical n /\
    lower_and_normalize [0x41; 0x301; 0x323] [0x20] true = Ret (y, true) /\
    (regular n -> y = canonical_composition n /\
      forall before', lower_and_normalize y before' true = Ret (y, negb (length y =? 0)%nat)))
    by exact (lower_and_normalize_correct [0x41; 0x301; 0x323] [0x20] true Hw).
  destruct T as (n & y & Hx & Hc & E & H).
  assert (n = [0x61; 0x323; 0x301]) as -> by (rewrite (reorder_unique [0x61; 0x301; 0x323] n Hx Hc); vm_compute; reflexivity).
  exists y. split; [exact E|]. destruct H as [Ey Hs]; [|split; [exact Ey|apply Hs]].
  split; [repeat (apply List.Forall_cons; [vm_compute; reflexivity|]); apply List.Forall_nil
         |repeat (apply List.Forall_cons; [lia|]); apply List.Forall_nil
         |repeat (apply List.Forall_cons; [vm_compute; discriminate|]); apply List.Forall_nil|].
  clear. intros p r c q E Hr Hc s. exfalso.
  destruct p as [|? [|? [|? [|? ?]]]]; try discriminate E; injection E; intros; subst; vm_compute in Hr, Hc; discriminate.
Defined.

(** ** Where the code departs from the standard *)

(** A starter joins over the combiners between: [U+1100 U+0300 U+1161] becomes a
    syllable and [U+0300], and a second call may reorder what the first left. *)
Lemma blocked_starter_joins :
  lower_and_normalize [0x1100; 0x300; 0x1161] [] true = Ret ([0xAC00; 0x300], true) /\
  lower_and_normalize [0x1B05; 0x300; 0x1B35; 0x3099] [] true = Ret ([0x1B06; 0x300; 0x3099], true) /\
  lower_and_normalize [0x1B06; 0x300; 0x3099] [] true = Ret ([0x1B06; 0x3099; 0x300], true).
Proof. vm_compute. auto. Qed.

(** [U+11A7], which is no trailing consonant, is dropped after a syllable. *)
Lemma trailing_base_dropped : lower_and_normalize [0xAC00; 0x11A7] [] true = Ret ([0xAC00], true).
Proof. vm_compute. reflexivity. Qed.

(** Composed letters are not taken apart: two spellings of one text that differ
    in the order of their accents only stay different. *)
Lemma spellings_differ :
  lower_and_normalize [0x65; 0x327; 0x301] [] true = Ret ([0x229; 0x301], true) /\
  lower_and_normalize [0xE9; 0x327] [] true = Ret ([0xE9; 0x327], true).
Proof. vm_compute. auto. Qed.

(** The classes above [U+1D244] in the tables are never used. *)
Lemma class_of_1E8D0 : get_non_zero_combining_class 0x1E8D0 = Ret 220 /\ get_combining_class 0x1E8D0 = Ret 0.
Proof. vm_compute. auto. Qed.
