(* ===== verification/IdnaNormalizer.v ===== *)
(** * Host names with the normalizer

    [Idna] models the addresses of browsers with [lower_and_normalize] as an
    argument; this file supplies the normalizer of [Normalization] with its tables,
    and runs both together on addresses with letters outside ASCII. *)
From S2P Require Import Prelude Utf8 Punycode Idna NormTableFacts Normalization.
From S2P Require UnicodeNormalizer.
Local Open Scope Z_scope.
Local Open Scope outcome_scope.

(** [String::lower_and_normalize] for [Idna]: [None] is the result [false] *)
Definition normalizer (input : list Z) (idna2008 : bool) : option (list Z) :=
  match UnicodeNormalizer.lower_and_normalize input [] idna2008 with
  | Ret (output, true) => Some output
  | _ => None
  end.

(** On the texts that occur the option of [normalizer] loses nothing: the call
    returns, and its result does not depend on what [output] held. *)
Lemma normalizer_returns input before idna2008 : wtext input ->
  UnicodeNormalizer.lower_and_normalize input before idna2008 =
  Ret (match normalizer input idna2008 with Some output => (output, true) | None => ([], false) end).
Proof.
  intros H. unfold normalizer. rewrite !lower_and_normalize_text by done.
  destruct input as [|c input]; [done|]. by destruct (normal_text _ _).
Qed.

(** A prohibited character, or an empty text, is refused. *)
Lemma normalizer_refuses input idna2008 : wtext input ->
  decomposed (decomposer_of idna2008) input = None \/ input = [] -> normalizer input idna2008 = None.
Proof.
  intros Hw H. unfold normalizer. rewrite lower_and_normalize_text by done.
  destruct H as [H| ->]; [|done]. destruct input as [|c input]; [done|]. unfold normal_text. by rewrite H.
Qed.

(** Addresses with a host in German, in Korean, and in Punycode: normalized,
    encoded, and unchanged. *)
Example normalize_bucher : normalize_http_address normalizer (bytes "http://BÜCHER.Example/a") =
  Ret (bytes "http://xn--bcher-kva.example/a").
Proof. vm_compute. reflexivity. Qed.

Example normalize_hangul : normalize_http_address normalizer (bytes "http://한국.kr/") =
  Ret (bytes "http://xn--3e0b707e.kr/").
Proof. vm_compute. reflexivity. Qed.

Example normalize_encoded : normalize_http_address normalizer (bytes "http://xn--bcher-kva.example/a") =
  Ret (bytes "http://xn--bcher-kva.example/a").
Proof. vm_compute. reflexivity. Qed.

(** Two spellings of a host, precomposed and with a combining accent, are one name. *)
Example normalize_spellings : normalize_http_address normalizer (bytes "http://bu" ++ [0xCC; 0x88] ++ bytes "cher.example/a") =
  normalize_http_address normalizer (bytes "http://bücher.example/a").
Proof. vm_compute. reflexivity. Qed.
