(* ===== verification/ActiveObject.v ===== *)
(** * ActiveObject: objects with a life cycle, alone and composed

    Models the interface [ActiveObject] and [SimpleActiveObject]
    ([src/Generics/ActiveObject.hpp], [ActiveObject.cpp]) and
    [CompositeActiveObjectBase] over a deque
    ([src/Generics/CompositeActiveObject.hpp]).

    The interface is a class of operations; [Lifecycle] states what its clients
    may rely on, namely that every call is a step of the life cycle [life].
    [SimpleActiveObject] implements it for any hooks that respect the state,
    and [CompositeActiveObject] supplies such hooks over children that are
    themselves active objects, so a composite is a child like any other.  A
    call runs alone: [Blocked] is a call that has to wait for another thread.
    The ghost field [calls] records the calls a composite makes. *)
From S2P Require Import Prelude.

Inductive ACTIVE_STATE : Type := AS_ACTIVE | AS_DEACTIVATING | AS_NOT_ACTIVE.

#[export] Instance ACTIVE_STATE_eq_dec : EqDecision ACTIVE_STATE.
Proof. solve_decision. Defined.

Inductive result : Type := Returned | Thrown | Blocked.

#[export] Instance result_eq_dec : EqDecision result.
Proof. solve_decision. Defined.

(** ** The interface *)

Inductive call : Type := Activate | Deactivate | Wait.

Class ActiveObject (O : Type) : Type := {
  get_state : O -> ACTIVE_STATE;
  invoke : call -> O -> result * O
}.

Definition active {O} `{ActiveObject O} (o : O) : bool := bool_decide (get_state o = AS_ACTIVE).

(** The life cycle. *)
Inductive life : ACTIVE_STATE -> call -> result -> ACTIVE_STATE -> Prop :=
| life_activate : life AS_NOT_ACTIVE Activate Returned AS_ACTIVE
| life_activate_fails : life AS_NOT_ACTIVE Activate Thrown AS_NOT_ACTIVE
| life_already_active st : st <> AS_NOT_ACTIVE -> life st Activate Thrown st
| life_deactivate : life AS_ACTIVE Deactivate Returned AS_DEACTIVATING
| life_deactivate_fails : life AS_ACTIVE Deactivate Thrown AS_ACTIVE
| life_deactivated st : st <> AS_ACTIVE -> life st Deactivate Returned st
| life_wait : life AS_DEACTIVATING Wait Returned AS_NOT_ACTIVE
| life_waited : life AS_NOT_ACTIVE Wait Returned AS_NOT_ACTIVE
| life_wait_fails st : st <> AS_ACTIVE -> life st Wait Thrown st
| life_blocked st c st' : life st c Blocked st'.

Class Lifecycle (O : Type) `{ActiveObject O} : Prop :=
  lifecycle c (o o' : O) r : invoke c o = (r, o') -> life (get_state o) c r (get_state o').

(** An object whose deactivation does not fail. *)
Class Reliable (O : Type) `{ActiveObject O} : Prop := {
  reliable_deactivate (o : O) : (invoke Deactivate o).1 <> Thrown;
  reliable_wait (o : O) : (invoke Wait o).1 <> Thrown
}.

(** A sequence of calls that come back, and the histories the life cycle allows. *)
Fixpoint invoke_all {O} `{ActiveObject O} (cs : list call) (o : O) :
    option (list (call * result) * O) :=
  match cs with
  | [] => Some ([], o)
  | c :: cs =>
    match invoke c o with
    | (Blocked, _) => None
    | (r, o) => '(h, o) ← invoke_all cs o; Some ((c, r) :: h, o)
    end
  end.

Inductive history : ACTIVE_STATE -> list (call * result) -> ACTIVE_STATE -> Prop :=
| history_nil st : history st [] st
| history_cons st c r st1 h st' :
    r <> Blocked -> life st c r st1 -> history st1 h st' -> history st ((c, r) :: h) st'.

Lemma invoke_all_history {O} `{Lifecycle O} cs (o o' : O) h :
  invoke_all cs o = Some (h, o') -> history (get_state o) h (get_state o').
Proof.
  revert o h. induction cs as [|c cs IH]; intros o h E; simpl in E.
  - injection E as <- <-. constructor.
  - destruct (invoke c o) as [r o1] eqn:Ei.
    assert (Hr : r <> Blocked) by (intros ->; done). apply lifecycle in Ei.
    destruct (invoke_all cs o1) as [[h1 o2]|] eqn:Ea; [|by destruct r].
    assert (h = (c, r) :: h1 /\ o2 = o') as [-> <-] by (destruct r; by simplify_eq/=).
    econstructor; [done|done|]. by apply IH.
Qed.

(** ** SimpleActiveObject *)

Record Simple (D : Type) : Type := mkSimple { state_ : ACTIVE_STATE; data : D }.
Arguments mkSimple {D} state_ data.
Arguments state_ {D} s.
Arguments data {D} s.

Definition with_state {D} (st : ACTIVE_STATE) (s : Simple D) : Simple D := mkSimple st (data s).

(** Its virtual functions. *)
Class Hooks (D : Type) : Type := {
  activate_object_ : Simple D -> result * Simple D;
  deactivate_object_ : Simple D -> result * Simple D;
  wait_more_ : Simple D -> bool;
  wait_object_ : Simple D -> result * Simple D
}.

(** The bodies [SimpleActiveObject] gives them. *)
Definition default_hooks (D : Type) : Hooks D := {|
  activate_object_ s := (Returned, s);
  deactivate_object_ s := (Returned, s);
  wait_more_ _ := false;
  wait_object_ s := (Returned, s)
|}.

Section Simple.
  Context {D : Type} `{Hooks D}.

Definition Simple_init (d : D) : Simple D := mkSimple AS_NOT_ACTIVE d.

Definition activate_object (s : Simple D) : result * Simple D :=
  if bool_decide (state_ s = AS_NOT_ACTIVE) then
    match activate_object_ s with
    | (Returned, s) => (Returned, with_state AS_ACTIVE s)
    | (r, s) => (r, s)
    end
  else (Thrown, s).

Definition deactivate_object (s : Simple D) : result * Simple D :=
  if negb (bool_decide (state_ s = AS_ACTIVE)) then (Returned, s)
  else
    match deactivate_object_ (with_state AS_DEACTIVATING s) with
    | (Thrown, s) => (Thrown, with_state AS_ACTIVE s)
    | (r, s) => (r, s)
    end.

Definition wait_object (s : Simple D) : result * Simple D :=
  if bool_decide (state_ s = AS_ACTIVE) || wait_more_ s then (Blocked, s)
  else
    match wait_object_ s with
    | (Returned, s) =>
      (Returned, if bool_decide (state_ s = AS_DEACTIVATING) then with_state AS_NOT_ACTIVE s else s)
    | (r, s) => (r, s)
    end.

#[export] Instance Simple_ActiveObject : ActiveObject (Simple D) := {|
  get_state := state_;
  invoke c :=
    match c with
    | Activate => activate_object
    | Deactivate => deactivate_object
    | Wait => wait_object
    end
|}.

End Simple.

(** Hooks that leave the state to [SimpleActiveObject]. *)
Class HooksOk (D : Type) `{Hooks D} : Prop := {
  hook_activate (s s' : Simple D) :
    state_ s = AS_NOT_ACTIVE -> activate_object_ s = (Thrown, s') -> state_ s' = AS_NOT_ACTIVE;
  hook_deactivate (s s' : Simple D) : deactivate_object_ s = (Returned, s') -> state_ s' = state_ s;
  hook_wait (s s' : Simple D) r : wait_object_ s = (r, s') -> r <> Blocked -> state_ s' = state_ s
}.

#[export] Instance Simple_Lifecycle D `{HooksOk D} : Lifecycle (Simple D).
Proof.
  intros c s s' r E. destruct c; cbn in *.
  - unfold activate_object in E. case_bool_decide as Hs; [|injection E as <- <-; by constructor].
    destruct (activate_object_ s) as [[] s1] eqn:Eh; injection E as <- <-; simpl; rewrite ?Hs;
      [constructor| |constructor]. rewrite (hook_activate _ _ Hs Eh). constructor.
  - unfold deactivate_object in E. case_bool_decide as Hs; simpl in E;
      [|injection E as <- <-; by constructor].
    destruct (deactivate_object_ _) as [[] s1] eqn:Eh; injection E as <- <-; simpl; rewrite ?Hs;
      [|constructor..]. rewrite (hook_deactivate _ _ Eh). constructor.
  - unfold wait_object in E. case_bool_decide as Hs; simpl in E;
      [injection E as <- <-; constructor|].
    destruct (wait_more_ s); [injection E as <- <-; constructor|].
    destruct (wait_object_ s) as [[] s1] eqn:Eh; injection E as <- <-; [| |constructor];
      pose proof (hook_wait _ _ _ Eh ltac:(done)) as Hst.
    + case_bool_decide as Hd; simpl; rewrite <- Hst in *; [rewrite Hd; constructor|].
      destruct (state_ s1); try done. constructor.
    + rewrite Hst. by constructor.
Qed.

(** ** CompositeActiveObject *)

Record Composite (O : Type) : Type := mkComposite {
  SYNCHRONOUS_ : bool;
  child_objects_ : list O;
  calls : list (call * nat)
}.
Arguments mkComposite {O} SYNCHRONOUS_ child_objects_ calls.
Arguments SYNCHRONOUS_ {O} c.
Arguments child_objects_ {O} c.
Arguments calls {O} c.

Abbreviation CompositeActiveObject O := (Simple (Composite O)).

Section Composite.
  Context {O : Type} `{ActiveObject O}.

(** A call of the child at a position. *)
Definition call_child (c : call) (i : nat) (d : Composite O) : result * Composite O :=
  match child_objects_ d !! i with
  | Some o =>
    let (r, o') := invoke c o in
    (r, mkComposite (SYNCHRONOUS_ d) (<[i := o']> (child_objects_ d)) (calls d ++ [(c, i)]))
  | None => (Blocked, d)
  end.

(** The loop of [activate_object_], with the position it has reached. *)
Fixpoint activate_loop (n it : nat) (d : Composite O) : result * nat * Composite O :=
  match n with
  | 0 => (Returned, it, d)
  | S n =>
    match call_child Activate it d with
    | (Returned, d) => activate_loop n (S it) d
    | (r, d) => (r, it, d)
    end
  end.

(** [deactivate_object_(rit)] over the first [n] children, the last one first. *)
Fixpoint deactivate_loop (n : nat) (all_errors : bool) (d : Composite O) : result * Composite O :=
  match n with
  | 0 => (if all_errors then Thrown else Returned, d)
  | S i =>
    match call_child Deactivate i d with
    | (Returned, d) =>
      if SYNCHRONOUS_ d then
        match call_child Wait i d with
        | (Returned, d) => deactivate_loop i all_errors d
        | (Thrown, d) => deactivate_loop i true d
        | (Blocked, d) => (Blocked, d)
        end
      else deactivate_loop i all_errors d
    | (Thrown, d) => deactivate_loop i true d
    | (Blocked, d) => (Blocked, d)
    end
  end.

(** [wait_for_some_objects_] *)
Fixpoint wait_loop (n : nat) (all_errors : bool) (d : Composite O) : result * Composite O :=
  match n with
  | 0 => (if all_errors then Thrown else Returned, d)
  | S i =>
    match call_child Wait i d with
    | (Returned, d) => wait_loop i all_errors d
    | (Thrown, d) => wait_loop i true d
    | (Blocked, d) => (Blocked, d)
    end
  end.

(** Deactivation followed by waiting, unless the first one throws. *)
Definition stop_children (n : nat) (d : Composite O) : result * Composite O :=
  match deactivate_loop n false d with
  | (Returned, d) => wait_loop n false d
  | (r, d) => (r, d)
  end.

Definition Composite_activate_object_ (s : CompositeActiveObject O) :
    result * CompositeActiveObject O :=
  match activate_loop (length (child_objects_ (data s))) 0 (data s) with
  | (Returned, _, d) => (Returned, mkSimple (state_ s) d)
  | (Blocked, _, d) => (Blocked, mkSimple (state_ s) d)
  | (Thrown, it, d) =>
    match stop_children it d with
    | (Blocked, d) => (Blocked, mkSimple AS_DEACTIVATING d)
    | (_, d) => (Thrown, mkSimple AS_NOT_ACTIVE d)
    end
  end.

Definition Composite_deactivate_object_ (s : CompositeActiveObject O) :
    result * CompositeActiveObject O :=
  let (r, d) := deactivate_loop (length (child_objects_ (data s))) false (data s) in
  (r, mkSimple (state_ s) d).

Definition Composite_wait_object_ (s : CompositeActiveObject O) :
    result * CompositeActiveObject O :=
  let (r, d) := wait_loop (length (child_objects_ (data s))) false (data s) in
  (r, mkSimple (state_ s) d).

#[export] Instance Composite_hooks : Hooks (Composite O) := {|
  activate_object_ := Composite_activate_object_;
  deactivate_object_ := Composite_deactivate_object_;
  wait_more_ _ := false;
  wait_object_ := Composite_wait_object_
|}.

Definition Composite_init (sync_termination : bool) : CompositeActiveObject O :=
  Simple_init (mkComposite sync_termination [] []).

Definition insert_child (add_to_head : bool) (child : O) (s : CompositeActiveObject O) :
    CompositeActiveObject O :=
  let d := data s in
  mkSimple (state_ s)
    (mkComposite (SYNCHRONOUS_ d)
       (if add_to_head then child :: child_objects_ d else child_objects_ d ++ [child]) (calls d)).

(** A child whose calls have thrown is not added; it is left to its owner. *)
Definition add_child_object (child : O) (add_to_head : bool) (s : CompositeActiveObject O) :
    result * CompositeActiveObject O :=
  if bool_decide (state_ s = AS_ACTIVE) then
    if active child then (Returned, insert_child add_to_head child s)
    else
      match invoke Activate child with
      | (Returned, child) => (Returned, insert_child add_to_head child s)
      | (r, _) => (r, s)
      end
  else if active child then
    match invoke Deactivate child with
    | (Returned, child) =>
      match invoke Wait child with
      | (Returned, child) => (Returned, insert_child add_to_head child s)
      | (r, _) => (r, s)
      end
    | (r, _) => (r, s)
    end
  else (Returned, insert_child add_to_head child s).

Definition clear_children (s : CompositeActiveObject O) : result * CompositeActiveObject O :=
  let d := data s in
  if bool_decide (state_ s = AS_NOT_ACTIVE)
  then (Returned, mkSimple (state_ s) (mkComposite (SYNCHRONOUS_ d) [] (calls d)))
  else
    match stop_children (length (child_objects_ d)) d with
    | (Returned, d) => (Returned, mkSimple AS_NOT_ACTIVE (mkComposite (SYNCHRONOUS_ d) [] (calls d)))
    | (r, d) => (r, mkSimple (state_ s) d)
    end.

End Composite.

(** A composite keeps the life cycle whatever its children do. *)
#[export] Instance Composite_HooksOk O `{ActiveObject O} : HooksOk (Composite O).
Proof.
  split; intros s s'; cbn.
  - intros _. unfold Composite_activate_object_. destruct (activate_loop _ _ _) as [[[] it] d]; try done.
    destruct (stop_children it d) as [[] d']; try done; by intros [= <-].
  - unfold Composite_deactivate_object_. destruct (deactivate_loop _ _ _) as [r d].
    by intros [= -> <-].
  - unfold Composite_wait_object_. intros r. destruct (wait_loop _ _ _) as [r' d].
    by intros [= <- <-].
Qed.

(** ** The states of the children *)

Section Children.
  Context {O : Type} `{Lifecycle O}.

Definition states (d : Composite O) : list ACTIVE_STATE := get_state <$> child_objects_ d.

Lemma length_states d : length (states d) = length (child_objects_ d).
Proof. apply length_fmap. Qed.

Lemma call_child_life c i d r d' : call_child c i d = (r, d') -> r <> Blocked ->
  exists st st', states d !! i = Some st /\ life st c r st' /\
    states d' = <[i := st']> (states d) /\ SYNCHRONOUS_ d' = SYNCHRONOUS_ d /\
    calls d' = calls d ++ [(c, i)].
Proof.
  unfold call_child. destruct (child_objects_ d !! i) as [o|] eqn:Eo; [|by intros [= <- <-]].
  destruct (invoke c o) as [r' o'] eqn:Ec. intros [= <- <-] _.
  exists (get_state o), (get_state o'). unfold states. rewrite list_lookup_fmap, Eo. simpl.
  split; [done|]. split; [by apply lifecycle|]. split; [by rewrite list_fmap_insert|done].
Qed.

(** Activation from the first child on. *)
Lemma activate_loop_ok n it d r it' d' pre :
  activate_loop n it d = (r, it', d') -> r <> Blocked ->
  states d = pre ++ replicate n AS_NOT_ACTIVE -> length pre = it ->
  exists k, it' = it + k /\ k <= n /\ SYNCHRONOUS_ d' = SYNCHRONOUS_ d /\
    (r = Returned -> k = n) /\
    states d' = pre ++ replicate k AS_ACTIVE ++ replicate (n - k) AS_NOT_ACTIVE.
Proof.
  revert it d pre. induction n as [|n IH]; intros it d pre E Hr Hs Hp; simpl in *.
  - injection E as <- <- <-. exists 0. by repeat split; [lia..|].
  - destruct (call_child Activate it d) as [rc d1] eqn:Ec.
    assert (Hb : rc <> Blocked) by (intros ->; by injection E as <- _ _).
    destruct (call_child_life _ _ _ _ _ Ec Hb) as (st & st' & Hst & Hl & Hs1 & Hsy & _).
    rewrite Hs, <- Hp, list_lookup_middle in Hst by done. injection Hst as <-.
    rewrite Hs, <- Hp, insert_at in Hs1. inversion Hl; subst; try done.
    + destruct (IH (S (length pre)) d1 (pre ++ [AS_ACTIVE])) as (k & -> & Hk & Hsy' & Hall & Hst);
        try done.
      * rewrite Hs1, <- app_assoc. done.
      * rewrite length_app. simpl. lia.
      * exists (S k). rewrite Hsy', Hst, <- app_assoc. repeat split; auto with lia.
    + injection E as <- <- <-. exists 0. repeat split; [lia|lia|done|done|]. exact Hs1.
Qed.

Context `{!Reliable O}.

Lemma call_child_reliable c i d d' : c <> Activate -> call_child c i d <> (Thrown, d').
Proof.
  intros Hc. unfold call_child. destruct (child_objects_ d !! i) as [o|]; [|done].
  pose proof (reliable_deactivate o). pose proof (reliable_wait o).
  destruct (invoke c o) as [r o'] eqn:E. destruct c; try done; rewrite E in *; by intros [= -> _].
Qed.

Lemma drop_insert_here {A} (l : list A) i x y :
  l !! i = Some y -> drop i (<[i := x]> l) = x :: drop (S i) l.
Proof.
  revert i. induction l as [|z l IH]; intros [|i] Hi; try done. apply IH. exact Hi.
Qed.

Lemma wait_loop_ok n d r d' :
  wait_loop n false d = (r, d') -> r <> Blocked -> n <= length (states d) ->
  r = Returned /\ states d' = replicate n AS_NOT_ACTIVE ++ drop n (states d).
Proof.
  revert d. induction n as [|n IH]; intros d E Hr Hn; simpl in *.
  - by injection E as <- <-.
  - destruct (call_child Wait n d) as [rc d1] eqn:Ec.
    destruct rc; [|by apply call_child_reliable in Ec|by injection E as <- _].
    destruct (call_child_life _ _ _ _ _ Ec) as (st & st' & Hst & Hl & Hs1 & _); [done|].
    destruct (IH d1 E Hr) as [-> Hs]; [rewrite Hs1, length_insert; lia|]. split; [done|].
    rewrite Hs, Hs1, (drop_insert_here _ _ _ st Hst).
    assert (st' = AS_NOT_ACTIVE) as -> by (by inversion Hl).
    by rewrite app_comm_cons, replicate_cons_app, <- app_assoc.
Qed.

Lemma deactivate_loop_ok n d r d' :
  deactivate_loop n false d = (r, d') -> r <> Blocked -> n <= length (states d) ->
  r = Returned /\ exists pre, states d' = pre ++ drop n (states d) /\ length pre = n /\
    Forall (fun st => st <> AS_ACTIVE) pre.
Proof.
  revert d. induction n as [|n IH]; intros d E Hr Hn; simpl in *.
  - injection E as <- <-. split; [done|]. by exists [].
  - destruct (call_child Deactivate n d) as [rc d1] eqn:Ec.
    destruct rc; [|by apply call_child_reliable in Ec|by injection E as <- _].
    destruct (call_child_life _ _ _ _ _ Ec) as (st & st1 & Hst & Hl & Hs1 & _); [done|].
    assert (Hlt : n < length (states d)) by lia.
    assert (H1 : states d1 !! n = Some st1) by (rewrite Hs1; by apply list_lookup_insert_eq).
    assert (exists d2 st2, deactivate_loop n false d2 = (r, d') /\ st2 <> AS_ACTIVE /\
      states d2 = <[n := st2]> (states d)) as (d2 & st2 & E2 & Hne & Hs2).
    { destruct (SYNCHRONOUS_ d1).
      - destruct (call_child Wait n d1) as [rw d2] eqn:Ew.
        destruct rw; [|by apply call_child_reliable in Ew|by injection E as <- _].
        destruct (call_child_life _ _ _ _ _ Ew) as (st' & st2 & _ & Hl2 & Hs2 & _); [done|].
        exists d2, st2. split; [done|]. split; [by inversion Hl2|].
        by rewrite Hs2, Hs1, list_insert_insert_eq.
      - exists d1, st1. split; [done|]. split; [|done]. inversion Hl; congruence. }
    destruct (IH d2 E2 Hr) as [-> (pre & Hs & Hp & Hf)]; [rewrite Hs2, length_insert; lia|].
    split; [done|]. exists (pre ++ [st2]).
    rewrite Hs, Hs2, (drop_insert_here _ _ _ st Hst), <- app_assoc, length_app, Hp. simpl.
    repeat split; [lia|]. apply Forall_app. by repeat constructor.
Qed.

Lemma stop_children_ok n d r d' :
  stop_children n d = (r, d') -> r <> Blocked -> n <= length (states d) ->
  r = Returned /\ states d' = replicate n AS_NOT_ACTIVE ++ drop n (states d).
Proof.
  unfold stop_children. intros E Hr Hn.
  destruct (deactivate_loop n false d) as [rd d1] eqn:Ed.
  assert (Hb : rd <> Blocked) by (intros ->; by injection E as <- _).
  destruct (deactivate_loop_ok _ _ _ _ Ed Hb Hn) as [-> (pre & Hs & Hp & _)].
  destruct (wait_loop_ok _ _ _ _ E Hr) as [-> Hs'].
  - rewrite Hs, length_app, Hp. lia.
  - split; [done|]. rewrite Hs', Hs. by rewrite <- Hp, drop_app_length.
Qed.

(** ** Consistency of a composite *)

Definition child_ok (st child : ACTIVE_STATE) : Prop :=
  match st with
  | AS_ACTIVE => child = AS_ACTIVE
  | AS_DEACTIVATING => child <> AS_ACTIVE
  | AS_NOT_ACTIVE => child = AS_NOT_ACTIVE
  end.

Definition consistent (s : CompositeActiveObject O) : Prop :=
  Forall (child_ok (state_ s)) (states (data s)).

Inductive composite_call : Type :=
| CCall (c : call) | CAdd (child : O) (add_to_head : bool) | CClear.

Definition composite_step (op : composite_call) (s : CompositeActiveObject O) :
    result * CompositeActiveObject O :=
  match op with
  | CCall c => invoke c s
  | CAdd child add_to_head => add_child_object child add_to_head s
  | CClear => clear_children s
  end.

(** A sequence of calls that all come back, with their results. *)
Fixpoint composite_run (ops : list composite_call) (s : CompositeActiveObject O) :
    option (list result * CompositeActiveObject O) :=
  match ops with
  | [] => Some ([], s)
  | op :: ops =>
    match composite_step op s with
    | (Blocked, _) => None
    | (r, s) => '(rs, s) ← composite_run ops s; Some (r :: rs, s)
    end
  end.

Lemma all_same st (l : list ACTIVE_STATE) : st <> AS_DEACTIVATING ->
  Forall (child_ok st) l <-> l = replicate (length l) st.
Proof.
  intros Hst. split.
  - induction 1 as [|x l Hx _ IH]; [done|]. simpl. rewrite <- IH. f_equal. by destruct st.
  - intros ->. apply Forall_replicate. by destruct st.
Qed.

Lemma activate_consistent s r s' : consistent s -> invoke Activate s = (r, s') -> r <> Blocked ->
  consistent s'.
Proof.
  cbn. unfold activate_object, consistent. intros Hc E Hr.
  case_bool_decide as Hst; [|by injection E as <- <-]. rewrite Hst in Hc.
  apply all_same in Hc; [|done]. cbn in E. unfold Composite_activate_object_ in E.
  rewrite <- length_states in E.
  destruct (activate_loop _ 0 (data s)) as [[ra it] d] eqn:Ea.
  assert (Hb : ra <> Blocked) by (intros ->; by injection E as <- _).
  destruct (activate_loop_ok _ _ _ _ _ _ [] Ea Hb Hc eq_refl) as (k & -> & Hk & _ & Hall & Hs).
  cbn [app Nat.add] in *. destruct ra; [| |done].
  - injection E as <- <-. simpl. rewrite Hs, (Hall eq_refl), Nat.sub_diag, app_nil_r.
    by apply Forall_replicate.
  - destruct (stop_children k d) as [rs d'] eqn:Es.
    assert (Hbs : rs <> Blocked) by (intros ->; by injection E as <- _).
    destruct (stop_children_ok _ _ _ _ Es Hbs) as [-> Hs'].
    { rewrite Hs, length_app, !length_replicate. lia. }
    injection E as <- <-. simpl. rewrite Hs', Hs, drop_app_length' by (by rewrite length_replicate).
    apply Forall_app. split; by apply Forall_replicate.
Qed.

Lemma deactivate_consistent s r s' : consistent s -> invoke Deactivate s = (r, s') ->
  r <> Blocked -> consistent s'.
Proof.
  cbn. unfold deactivate_object, consistent. intros Hc E Hr.
  case_bool_decide as Hst; simpl in E; [|by injection E as <- <-].
  unfold Composite_deactivate_object_ in E. cbn in E. rewrite <- length_states in E.
  destruct (deactivate_loop _ false (data s)) as [rd d] eqn:Ed.
  assert (Hb : rd <> Blocked) by (intros ->; by injection E as <- _).
  destruct (deactivate_loop_ok _ _ _ _ Ed Hb ltac:(done)) as [-> (pre & Hs & _ & Hf)].
  injection E as <- <-. simpl. by rewrite Hs, drop_all, app_nil_r.
Qed.

Lemma wait_consistent s r s' : consistent s -> invoke Wait s = (r, s') ->
  r <> Blocked -> consistent s'.
Proof.
  cbn. unfold wait_object, consistent. intros Hc E Hr.
  case_bool_decide as Hst; simpl in E; [by injection E as <- <-|].
  unfold Composite_wait_object_ in E. rewrite <- length_states in E.
  destruct (wait_loop _ false (data s)) as [rd d] eqn:Ed.
  assert (Hb : rd <> Blocked) by (intros ->; by injection E as <- _).
  destruct (wait_loop_ok _ _ _ _ Ed Hb ltac:(done)) as [-> Hs].
  rewrite drop_all, app_nil_r in Hs. injection E as <- <-. cbn [state_].
  case_bool_decide as Hd; simpl; rewrite Hs; apply Forall_replicate.
  - done.
  - by destruct (state_ s).
Qed.

Lemma insert_consistent child add_to_head s :
  consistent s -> child_ok (state_ s) (get_state child) ->
  consistent (insert_child add_to_head child s).
Proof.
  unfold consistent, states. intros Hc Hk. simpl. destruct add_to_head; simpl.
  - by constructor.
  - rewrite fmap_app. apply Forall_app. by repeat constructor.
Qed.

Lemma add_child_consistent child add_to_head s r s' :
  consistent s -> get_state child <> AS_DEACTIVATING ->
  add_child_object child add_to_head s = (r, s') -> consistent s'.
Proof.
  intros Hc Hk. unfold add_child_object, active.
  case_bool_decide as Hst; case_bool_decide as Hact; intros E.
  - injection E as <- <-. apply insert_consistent; [done|]. by rewrite Hst.
  - destruct (invoke Activate child) as [ra child'] eqn:Ea.
    apply lifecycle in Ea. destruct ra; injection E as <- <-; try done.
    apply insert_consistent; [done|]. rewrite Hst. by inversion Ea.
  - destruct (invoke Deactivate child) as [rd child1] eqn:Ed.
    destruct rd; [|by injection E as <- <-..].
    destruct (invoke Wait child1) as [rw child2] eqn:Ew. apply lifecycle in Ed, Ew.
    destruct rw; injection E as <- <-; try done.
    apply insert_consistent; [done|].
    assert (get_state child2 = AS_NOT_ACTIVE) as -> by (by inversion Ew).
    by destruct (state_ s).
  - injection E as <- <-. apply insert_consistent; [done|].
    by destruct (get_state child), (state_ s).
Qed.

Lemma clear_consistent s r s' : consistent s -> clear_children s = (r, s') -> r <> Blocked ->
  consistent s'.
Proof.
  unfold clear_children, consistent. intros Hc E Hr.
  case_bool_decide; [by injection E as <- <-|].
  destruct (stop_children _ _) as [rs d] eqn:Es.
  assert (Hb : rs <> Blocked) by (intros ->; by injection E as <- _).
  destruct (stop_children_ok _ _ _ _ Es Hb) as [-> _]; [by rewrite length_states|].
  by injection E as <- <-.
Qed.

Definition settled (op : composite_call) : Prop :=
  match op with
  | CAdd child _ => get_state child <> AS_DEACTIVATING
  | _ => True
  end.

Lemma composite_step_consistent op s r s' :
  settled op -> consistent s -> composite_step op s = (r, s') -> r <> Blocked -> consistent s'.
Proof.
  destruct op as [[]|child add_to_head|]; simpl; intros Hop Hc E Hr.
  - by eapply activate_consistent.
  - by eapply deactivate_consistent.
  - by eapply wait_consistent.
  - by eapply add_child_consistent.
  - by eapply clear_consistent.
Qed.

Lemma composite_run_consistent ops s rs s' :
  Forall settled ops -> consistent s -> composite_run ops s = Some (rs, s') -> consistent s'.
Proof.
  intros Hops. revert s rs. induction Hops as [|op ops Hop _ IH]; intros s rs Hc E; simpl in E.
  - by injection E as _ <-.
  - destruct (composite_step op s) as [r s1] eqn:Es.
    assert (Hr : r <> Blocked) by (intros ->; done).
    destruct (composite_run ops s1) as [[rs1 s2]|] eqn:Er; [|by destruct r].
    assert (s2 = s') as <- by (destruct r; by simplify_eq/=).
    eapply IH; [|exact Er]. by eapply composite_step_consistent.
Qed.

(** ** A composite stops *)

(** Children that block only in a wait for a deactivation nobody asked for. *)
Class Prompt : Prop := {
  prompt_deactivate (o : O) : (invoke Deactivate o).1 <> Blocked;
  prompt_wait (o : O) : get_state o <> AS_ACTIVE -> (invoke Wait o).1 <> Blocked
}.
Context `{!Prompt}.

Lemma call_child_prompt c i d st : c <> Activate -> states d !! i = Some st ->
  (c = Wait -> st <> AS_ACTIVE) ->
  exists d' st', call_child c i d = (Returned, d') /\ life st c Returned st' /\
    states d' = <[i := st']> (states d).
Proof.
  intros Hc Hi Hst. destruct (call_child c i d) as [r d'] eqn:Ec.
  assert (r <> Blocked) as Hb.
  { unfold call_child in Ec. unfold states in Hi. rewrite list_lookup_fmap in Hi.
    destruct (child_objects_ d !! i) as [o|]; [|done]. injection Hi as <-.
    pose proof (prompt_deactivate o). pose proof (prompt_wait o).
    destruct (invoke c o) as [r' o'] eqn:E. injection Ec as <- <-.
    destruct c; try done; rewrite E in *; auto. }
  destruct (call_child_life _ _ _ _ _ Ec Hb) as (st1 & st' & Hi' & Hl & Hs & _).
  rewrite Hi in Hi'. injection Hi' as <-.
  destruct r; [|by apply call_child_reliable in Ec|done]. by exists d', st'.
Qed.

Lemma wait_loop_returns n d : n <= length (states d) ->
  Forall (fun st => st <> AS_ACTIVE) (states d) ->
  exists d', wait_loop n false d = (Returned, d').
Proof.
  revert d. induction n as [|n IH]; intros d Hn Hf; simpl; [by exists d|].
  destruct (lookup_lt_is_Some_2 (states d) n) as [st Hst]; [lia|].
  pose proof (proj1 (Forall_lookup _ _) Hf n st Hst) as Hne. simpl in Hne.
  destruct (call_child_prompt Wait n d st) as (d1 & st' & -> & Hl & Hs); try done.
  apply IH; rewrite Hs; [rewrite length_insert; lia|].
  apply Forall_insert; [done|]. by inversion Hl.
Qed.

Lemma deactivate_loop_returns n d : n <= length (states d) ->
  exists d', deactivate_loop n false d = (Returned, d').
Proof.
  revert d. induction n as [|n IH]; intros d Hn; simpl; [by exists d|].
  destruct (lookup_lt_is_Some_2 (states d) n) as [st Hst]; [lia|].
  destruct (call_child_prompt Deactivate n d st) as (d1 & st1 & -> & Hl & Hs); try done.
  destruct (SYNCHRONOUS_ d1); [|apply IH; rewrite Hs, length_insert; lia].
  destruct (call_child_prompt Wait n d1 st1) as (d2 & st2 & -> & Hl2 & Hs2); try done.
  - rewrite Hs. apply list_lookup_insert_eq. lia.
  - intros _. inversion Hl; congruence.
  - apply IH. rewrite Hs2, Hs, !length_insert. lia.
Qed.

Lemma composite_stop_ok s : consistent s -> state_ s = AS_ACTIVE ->
  exists s1 s2, invoke Deactivate s = (Returned, s1) /\ state_ s1 = AS_DEACTIVATING /\
    invoke Wait s1 = (Returned, s2) /\ state_ s2 = AS_NOT_ACTIVE /\
    Forall (fun st => st = AS_NOT_ACTIVE) (states (data s2)).
Proof.
  intros Hc Hst.
  destruct (deactivate_loop_returns (length (child_objects_ (data s))) (data s)) as [d1 E1];
    [by rewrite length_states|].
  assert (Hd : invoke Deactivate s = (Returned, mkSimple AS_DEACTIVATING d1)).
  { cbn. unfold deactivate_object. rewrite bool_decide_eq_true_2 by done. simpl.
    unfold Composite_deactivate_object_. cbn. by rewrite E1. }
  pose proof (deactivate_consistent _ _ _ Hc Hd ltac:(done)) as Hc1.
  destruct (wait_loop_returns (length (child_objects_ d1)) d1) as [d2 E2];
    [by rewrite length_states|done|].
  assert (Hw : invoke Wait (mkSimple AS_DEACTIVATING d1) = (Returned, mkSimple AS_NOT_ACTIVE d2)).
  { cbn. unfold wait_object. simpl. unfold Composite_wait_object_. cbn. by rewrite E2. }
  exists (mkSimple AS_DEACTIVATING d1), (mkSimple AS_NOT_ACTIVE d2).
  repeat split; try done. exact (wait_consistent _ _ _ Hc1 Hw ltac:(done)).
Qed.

End Children.

Section ReliableComposite.
  Context {O : Type} `{Reliable O}.

Lemma wait_loop_reliable n d d' : wait_loop n false d <> (Thrown, d').
Proof.
  revert d. induction n as [|n IH]; intros d; simpl; [done|].
  destruct (call_child Wait n d) as [[] d1] eqn:E; [apply IH|by apply call_child_reliable in E|done].
Qed.

Lemma deactivate_loop_reliable n d d' : deactivate_loop n false d <> (Thrown, d').
Proof.
  revert d. induction n as [|n IH]; intros d; simpl; [done|].
  destruct (call_child Deactivate n d) as [[] d1] eqn:E; [|by apply call_child_reliable in E|done].
  destruct (SYNCHRONOUS_ d1); [|apply IH].
  destruct (call_child Wait n d1) as [[] d2] eqn:E2; [apply IH|by apply call_child_reliable in E2|done].
Qed.

(** A composite of reliable objects is reliable. *)
#[export] Instance Composite_Reliable : Reliable (CompositeActiveObject O).
Proof.
  split; intros s; cbn.
  - unfold deactivate_object. case_bool_decide; [|done]. cbn.
    unfold Composite_deactivate_object_. cbn.
    destruct (deactivate_loop _ _ _) as [[] d] eqn:E; try done.
    by apply deactivate_loop_reliable in E.
  - unfold wait_object. case_bool_decide; [done|]. cbn. unfold Composite_wait_object_.
    destruct (wait_loop _ _ _) as [[] d] eqn:E; try done. by apply wait_loop_reliable in E.
Qed.

End ReliableComposite.

(** ** The order of the calls *)

Section Order.
  Context {O : Type} `{ActiveObject O}.

Lemma call_child_calls c i (d : Composite O) r d' : call_child c i d = (r, d') -> r <> Blocked ->
  calls d' = calls d ++ [(c, i)] /\ SYNCHRONOUS_ d' = SYNCHRONOUS_ d.
Proof.
  unfold call_child. destruct (child_objects_ d !! i) as [o|]; [|by intros [= <- <-]].
  destruct (invoke c o). by intros [= <- <-].
Qed.

Lemma activate_loop_calls n it (d : Composite O) it' d' :
  activate_loop n it d = (Returned, it', d') ->
  calls d' = calls d ++ map (pair Activate) (seq it n).
Proof.
  revert it d. induction n as [|n IH]; intros it d E; simpl in *.
  - injection E as _ <-. by rewrite app_nil_r.
  - destruct (call_child Activate it d) as [[] d1] eqn:Ec; try done.
    apply call_child_calls in Ec as [Ec _]; [|done].
    by rewrite (IH _ _ E), Ec, <- app_assoc.
Qed.

Lemma wait_loop_calls n e (d : Composite O) d' :
  wait_loop n e d = (Returned, d') ->
  e = false /\ calls d' = calls d ++ map (pair Wait) (rev (seq 0 n)).
Proof.
  revert e d. induction n as [|n IH]; intros e d E; simpl wait_loop in E.
  - destruct e; [done|]. injection E as <-. by rewrite app_nil_r.
  - destruct (call_child Wait n d) as [[] d1] eqn:Ec; [| |done].
    + apply IH in E as [-> E]. apply call_child_calls in Ec as [Ec _]; [|done].
      split; [done|]. by rewrite E, Ec, <- app_assoc, seq_S, rev_app_distr.
    + by apply IH in E as [? _].
Qed.

(** The calls that stop one child. *)
Definition stop_calls (sync : bool) (i : nat) : list (call * nat) :=
  (Deactivate, i) :: if sync then [(Wait, i)] else [].

Lemma deactivate_loop_calls n e (d : Composite O) d' :
  deactivate_loop n e d = (Returned, d') ->
  e = false /\ calls d' = calls d ++ flat_map (stop_calls (SYNCHRONOUS_ d)) (rev (seq 0 n)).
Proof.
  revert e d. induction n as [|n IH]; intros e d E; simpl deactivate_loop in E.
  - destruct e; [done|]. injection E as <-. by rewrite app_nil_r.
  - rewrite seq_S, rev_app_distr. cbn [rev app Nat.add flat_map].
    destruct (call_child Deactivate n d) as [[] d1] eqn:Ec; [| |done];
      [|by apply IH in E as [? _]].
    apply call_child_calls in Ec as [Ec Hsy]; [|done]. rewrite <- Hsy.
    destruct (SYNCHRONOUS_ d1) eqn:Es.
    + destruct (call_child Wait n d1) as [[] d2] eqn:Ew; [| |done]; [|by apply IH in E as [? _]].
      apply call_child_calls in Ew as [Ew Hsy2]; [|done]. apply IH in E as [-> E].
      split; [done|]. by rewrite E, Ew, Ec, Hsy2, Es, <- !app_assoc.
    + apply IH in E as [-> E]. split; [done|]. by rewrite E, Ec, Es, <- !app_assoc.
Qed.

End Order.

(** ** Properties *)

(** C4: A composite whose children never throw in [deactivate_object] and [wait_object]
    ([Reliable], although the interface lets them throw) is consistent after every
    sequence of calls that all come back and add no child that is deactivating, failed
    activations included: while it is active all its children are, when it is not active
    none is, and a child that is added to it is brought into its state. *)
Theorem CompositeActiveObject_consistent {O} `{Lifecycle O} `{!Reliable O} sync ops rs
    (s : CompositeActiveObject O) :
  Forall settled ops -> composite_run ops (Composite_init sync) = Some (rs, s) -> consistent s.
Proof. intros Hops. apply composite_run_consistent; [done|]. by apply Forall_nil. Qed.

(** Children are activated in the order they have in the composite,
    deactivated and waited for in the reverse order, and with synchronous
    termination each one is waited for before the next is deactivated. *)
Theorem CompositeActiveObject_order {O} `{ActiveObject O} c (s s' : CompositeActiveObject O) :
  invoke c s = (Returned, s') ->
  let positions := seq 0 (length (child_objects_ (data s))) in
  exists cs, calls (data s') = calls (data s) ++ cs /\
    cs = match c with
         | Activate => map (pair Activate) positions
         | Deactivate =>
           if active s then flat_map (stop_calls (SYNCHRONOUS_ (data s))) (rev positions) else []
         | Wait => map (pair Wait) (rev positions)
         end.
Proof.
  intros E positions. eexists. split; [|done]. destruct c; cbn in E.
  - unfold activate_object in E. case_bool_decide; [|done]. cbn in E.
    unfold Composite_activate_object_ in E.
    destruct (activate_loop _ _ _) as [[[] it] d] eqn:Ea; [|by destruct (stop_children it d) as [[] ?]|done].
    injection E as <-. by apply activate_loop_calls in Ea.
  - unfold deactivate_object in E. unfold active. cbn [get_state Simple_ActiveObject].
    case_bool_decide; cbn in E; [|injection E as <-; by rewrite app_nil_r].
    unfold Composite_deactivate_object_ in E. cbn in E.
    destruct (deactivate_loop _ _ _) as [[] d] eqn:Ed; try done. injection E as <-.
    by apply deactivate_loop_calls in Ed as [_ ?].
  - unfold wait_object in E. case_bool_decide; [done|]. cbn in E.
    unfold Composite_wait_object_ in E. destruct (wait_loop _ _ _) as [[] d] eqn:Ed; try done.
    injection E as <-. apply wait_loop_calls in Ed as [_ Ed]. by case_bool_decide.
Qed.

(** C38: A consistent and active composite whose children never throw in
    [deactivate_object] and [wait_object] ([Reliable]) and block only in a wait for a
    deactivation nobody asked for ([Prompt]) stops: its deactivation and the wait after
    it return, and then the composite and all its children are not active. *)
Theorem CompositeActiveObject_stops {O} `{Lifecycle O} `{!Reliable O} `{!Prompt}
    (s : CompositeActiveObject O) :
  consistent s -> state_ s = AS_ACTIVE ->
  exists s1 s2, invoke Deactivate s = (Returned, s1) /\ state_ s1 = AS_DEACTIVATING /\
    invoke Wait s1 = (Returned, s2) /\ state_ s2 = AS_NOT_ACTIVE /\
    Forall (fun st => st = AS_NOT_ACTIVE) (states (data s2)).
Proof. apply composite_stop_ok. Qed.

(** Whatever its children do, the calls of a composite follow the life cycle
    of an active object: it is activated only when it is not active, a second
    activation throws, a deactivation that throws leaves it active, and a wait
    returns only after a deactivation and makes it not active. *)
Theorem CompositeActiveObject_lifecycle {O} `{ActiveObject O} cs h (s s' : CompositeActiveObject O) :
  invoke_all cs s = Some (h, s') -> history (state_ s) h (state_ s').
Proof. exact (invoke_all_history cs s s' h). Qed.

(** ** Concrete objects *)

(** An object whose activation fails when its flag is set. *)
Definition flag_hooks : Hooks bool := {|
  activate_object_ (s : Simple bool) := (if data s then Thrown else Returned, s);
  deactivate_object_ s := (Returned, s);
  wait_more_ _ := false;
  wait_object_ s := (Returned, s)
|}.
#[local] Existing Instance flag_hooks.

#[local] Instance flag_HooksOk : HooksOk bool.
Proof.
  split; intros s s'; cbn.
  - intros Hs. by destruct (data s); intros [= <-].
  - by intros [= <-].
  - by intros r [= <- <-].
Qed.

#[local] Instance flag_Reliable : Reliable (Simple bool).
Proof.
  split; intros s; cbn.
  - unfold deactivate_object. by case_bool_decide.
  - unfold wait_object. by case_bool_decide.
Qed.

#[local] Instance flag_Prompt : Prompt (O := Simple bool).
Proof.
  split; intros s; cbn.
  - unfold deactivate_object. by case_bool_decide.
  - intros Hs. unfold wait_object. by rewrite bool_decide_eq_false_2.
Qed.

Definition leaf (fails : bool) : Simple bool := Simple_init fails.

(** The second child fails, so the activation of the composite is rolled back. *)
Lemma CompositeActiveObject_consistent_witness :
  let ops := [CAdd (leaf false) false; CAdd (leaf true) false; CCall Activate; CClear;
              CAdd (leaf false) false; CCall Activate; CAdd (leaf false) true; CCall Deactivate;
              CCall Wait] in
  let rs := [Returned; Returned; Thrown; Returned; Returned; Returned; Returned; Returned; Returned] in
  let s := mkSimple AS_NOT_ACTIVE (mkComposite true [leaf false; leaf false]
             [(Activate, 0); (Activate, 1); (Deactivate, 0); (Wait, 0); (Wait, 0);
              (Activate, 0); (Deactivate, 1); (Wait, 1); (Deactivate, 0); (Wait, 0);
              (Wait, 1); (Wait, 0)]) in
  composite_run ops (Composite_init true) = Some (rs, s) /\ consistent s.
Proof.
  intros ops rs s.
  assert (E : composite_run ops (Composite_init true) = Some (rs, s)) by (vm_compute; reflexivity).
  split; [exact E|].
  refine (CompositeActiveObject_consistent true ops rs s _ E). repeat constructor; done.
Defined.

Lemma CompositeActiveObject_order_witness :
  let d := mkComposite true [leaf false; leaf false] [] in
  let s' := mkSimple AS_ACTIVE (mkComposite true [mkSimple AS_ACTIVE false; mkSimple AS_ACTIVE false]
              [(Activate, 0); (Activate, 1)]) in
  invoke Activate (mkSimple AS_NOT_ACTIVE d) = (Returned, s') /\
  exists cs, calls (data s') = [] ++ cs /\ cs = [(Activate, 0); (Activate, 1)].
Proof.
  intros d s'.
  assert (E : invoke Activate (mkSimple AS_NOT_ACTIVE d) = (Returned, s')) by (vm_compute; reflexivity).
  split; [exact E|]. exact (CompositeActiveObject_order Activate (mkSimple AS_NOT_ACTIVE d) s' E).
Defined.

Lemma CompositeActiveObject_stops_witness :
  let s := mkSimple AS_ACTIVE
             (mkComposite false [mkSimple AS_ACTIVE false; mkSimple AS_ACTIVE true] []) in
  consistent s /\
  exists s1 s2, invoke Deactivate s = (Returned, s1) /\ state_ s1 = AS_DEACTIVATING /\
    invoke Wait s1 = (Returned, s2) /\ state_ s2 = AS_NOT_ACTIVE /\
    Forall (fun st => st = AS_NOT_ACTIVE) (states (data s2)).
Proof.
  intros s. assert (Hc : consistent s) by (repeat constructor).
  split; [exact Hc|]. exact (CompositeActiveObject_stops s Hc eq_refl).
Defined.

(** Composites inside a composite. *)
Lemma CompositeActiveObject_lifecycle_witness :
  let inner cs := Simple_init (mkComposite true [leaf false] cs) in
  let s := Simple_init (mkComposite false [inner []; inner []] []) in
  let h := [(Activate, Returned); (Activate, Thrown); (Deactivate, Returned); (Wait, Returned)] in
  let inner_calls := [(Activate, 0); (Deactivate, 0); (Wait, 0); (Wait, 0)] in
  let s' := Simple_init (mkComposite false [inner inner_calls; inner inner_calls]
              [(Activate, 0); (Activate, 1); (Deactivate, 1); (Deactivate, 0); (Wait, 1); (Wait, 0)]) in
  invoke_all [Activate; Activate; Deactivate; Wait] s = Some (h, s') /\
  history AS_NOT_ACTIVE h AS_NOT_ACTIVE.
Proof.
  intros inner s h inner_calls s'.
  assert (E : invoke_all [Activate; Activate; Deactivate; Wait] s = Some (h, s'))
    by (vm_compute; reflexivity).
  split; [exact E|].
  exact (CompositeActiveObject_lifecycle [Activate; Activate; Deactivate; Wait] h s s' E).
Defined.
