(* ===== verification/ThreadRunner.v ===== *)
(** * ThreadRunner: the threads of an active object

    Models [ThreadRunner] ([src/Generics/ThreadRunner.cpp]): [start], [start_one],
    [wait_for_completion] and the beginning of a thread, at the grain of single
    accesses to the shared members.  The class takes no lock ("thread unsafe" in
    its header), so its clients interleave these steps.

    [jobs_] holds the [thread_id] of every slot that names a thread which was
    not joined.  A slot outside the array, and a join of a slot that names no
    such thread, are undefined behaviour: the flag [undefined].  An access to
    [number_running_] is one step; so are its increment and the two reads of it
    for the arguments of [pthread_create], which another caller could only divide
    where two of them are inside the class at once. *)
From S2P Require Import Prelude.

Record runner : Type := {
  number_running_ : nat;
  interrupt_start_ : bool;
  start_semaphore_ : nat;
  jobs_ : list (option nat);
  undefined : bool
}.

Definition with_number (n : nat) (r : runner) : runner :=
  {| number_running_ := n; interrupt_start_ := interrupt_start_ r;
     start_semaphore_ := start_semaphore_ r; jobs_ := jobs_ r; undefined := undefined r |}.

Definition with_interrupt (b : bool) (r : runner) : runner :=
  {| number_running_ := number_running_ r; interrupt_start_ := b;
     start_semaphore_ := start_semaphore_ r; jobs_ := jobs_ r; undefined := undefined r |}.

Definition with_semaphore (n : nat) (r : runner) : runner :=
  {| number_running_ := number_running_ r; interrupt_start_ := interrupt_start_ r;
     start_semaphore_ := n; jobs_ := jobs_ r; undefined := undefined r |}.

Definition with_job (i : nat) (id : option nat) (r : runner) : runner :=
  {| number_running_ := number_running_ r; interrupt_start_ := interrupt_start_ r;
     start_semaphore_ := start_semaphore_ r; jobs_ := <[i := id]> (jobs_ r);
     undefined := undefined r |}.

Definition with_undefined (r : runner) : runner :=
  {| number_running_ := number_running_ r; interrupt_start_ := interrupt_start_ r;
     start_semaphore_ := start_semaphore_ r; jobs_ := jobs_ r; undefined := true |}.

Definition ThreadRunner_init (number_of_jobs : nat) : runner :=
  {| number_running_ := 0; interrupt_start_ := false; start_semaphore_ := 0;
     jobs_ := replicate number_of_jobs None; undefined := false |}.

(** ** The beginning of a thread: [thread_func_] up to [job.work()] *)

Inductive gate : Type := GAcquire | GRelease | GTest.

(** [inr true]: the job works; [inr false]: the thread returns. *)
Definition gate_step (g : gate) (r : runner) : option (runner * (gate + bool)) :=
  match g with
  | GAcquire =>
    match start_semaphore_ r with
    | O => None
    | S n => Some (with_semaphore n r, inl GRelease)
    end
  | GRelease => Some (with_semaphore (S (start_semaphore_ r)) r, inl GTest)
  | GTest => Some (r, inr (negb (interrupt_start_ r)))
  end.

(** ** The callers *)

(** What a step of a caller does to the threads. *)
Inductive event : Type := Quiet | Created | Joined (id : nat).

(** Where a caller of [wait_for_completion] is. *)
Inductive joining : Type :=
| JCheck            (** before [if (number_running_)] *)
| JLoop (i : nat)   (** before [i < number_running_] *)
| JJoin (i : nat)   (** in [pthread_join] *)
| JAcquire          (** before [start_semaphore_.acquire()] *)
| JReset            (** before [number_running_ = 0] *)
| JDone.

(** [ended] tells which threads have returned; [None] is a wait. *)
Definition join_step (ended : nat -> bool) (j : joining) (r : runner) :
    option (runner * joining * event) :=
  match j with
  | JCheck => Some (r, if (number_running_ r =? 0)%nat then JDone else JLoop 0, Quiet)
  | JLoop i => Some (r, if (i <? number_running_ r)%nat then JJoin i else JAcquire, Quiet)
  | JJoin i =>
    match jobs_ r !! i with
    | Some (Some id) => if ended id then Some (with_job i None r, JLoop (S i), Joined id) else None
    | _ => Some (with_undefined r, JJoin i, Quiet)
    end
  | JAcquire =>
    match start_semaphore_ r with
    | O => None
    | S n => Some (with_semaphore n r, JReset, Quiet)
    end
  | JReset => Some (with_number 0 r, JDone, Quiet)
  | JDone => None
  end.

(** The call of [pthread_create] in [start_one_thread_], where it succeeds. *)
Definition create_thread (id : nat) (r : runner) : runner :=
  if (number_running_ r <? length (jobs_ r))%nat then with_job (number_running_ r) (Some id) r
  else with_undefined r.

(** The end of [start_one_thread_]. *)
Definition count_thread (r : runner) : runner := with_number (S (number_running_ r)) r.

(** The adjustment of [to_start]. *)
Definition threads_to_start (number_of_jobs to_start : nat) : nat :=
  if (to_start =? 0)%nat || (number_of_jobs <? to_start)%nat then number_of_jobs else to_start.

(** Where a caller of [start] is. *)
Inductive start_place : Type :=
| SCheck                  (** before [if (number_running_)] *)
| SLoop                   (** before the test of the loop *)
| SCreate                 (** before [pthread_create] *)
| SIncrement              (** before [++number_running_] *)
| SRelease                (** before [start_semaphore_.release()] *)
| SFailed                 (** in the handler, before [start_semaphore_.release()] *)
| SWait (j : joining)     (** in the handler, in [wait_for_completion] *)
| SReturned
| SThrown.

(** [created] is the result of [pthread_create], [id] a name for the thread. *)
Definition start_step (to_start : nat) (created : bool) (ended : nat -> bool) (id : nat)
    (p : start_place) (r : runner) : option (runner * start_place * event) :=
  match p with
  | SCheck =>
    if (number_running_ r =? 0)%nat then Some (with_interrupt false r, SLoop, Quiet)
    else Some (r, SThrown, Quiet)
  | SLoop =>
    Some (r, if (number_running_ r <? threads_to_start (length (jobs_ r)) to_start)%nat
             then SCreate else SRelease, Quiet)
  | SCreate =>
    if created then Some (create_thread id r, SIncrement, Created)
    else Some (with_interrupt true r, SFailed, Quiet)
  | SIncrement => Some (count_thread r, SLoop, Quiet)
  | SRelease => Some (with_semaphore (S (start_semaphore_ r)) r, SReturned, Quiet)
  | SFailed => Some (with_semaphore (S (start_semaphore_ r)) r, SWait JCheck, Quiet)
  | SWait j =>
    '(r', j', e) ← join_step ended j r;
    Some (r', match j' with JDone => SThrown | _ => SWait j' end, e)
  | SReturned | SThrown => None
  end.

(** ** The slots

    [lo] slots were joined and [hi] were filled; [unjoined] are the threads
    that exist.  As long as nobody overwrites a slot every thread is in one. *)

Definition filled (r : runner) (j : nat) : Prop := exists id, jobs_ r !! j = Some (Some id).

Record slots (number_of_jobs lo hi : nat) (unjoined : nat -> Prop) (r : runner) : Prop := {
  sl_length : length (jobs_ r) = number_of_jobs;
  sl_defined : undefined r = false;
  sl_room : (hi <= number_of_jobs)%nat;
  sl_filled : forall j, filled r j <-> (lo <= j < hi)%nat;
  sl_owner : forall id, unjoined id -> exists j, jobs_ r !! j = Some (Some id)
}.

Lemma to_start_le number_of_jobs to_start :
  (threads_to_start number_of_jobs to_start <= number_of_jobs)%nat /\
  ((0 < to_start)%nat -> (threads_to_start number_of_jobs to_start <= to_start)%nat).
Proof.
  unfold threads_to_start. destruct (Nat.eqb_spec to_start 0), (Nat.ltb_spec number_of_jobs to_start);
    cbn [orb]; lia.
Qed.

Lemma slots_init number_of_jobs : slots number_of_jobs 0 0 (fun _ => False) (ThreadRunner_init number_of_jobs).
Proof.
  split; cbn; [by rewrite length_replicate|done|lia| |done].
  intros j. split; [|lia]. intros [id H]. cbn in H. by apply lookup_replicate in H as [? _].
Qed.

(** The slots depend on the threads as a set and on nothing but the array. *)
Lemma slots_frame number_of_jobs lo hi U V r r' :
  slots number_of_jobs lo hi U r -> jobs_ r' = jobs_ r -> undefined r' = undefined r ->
  (forall id, V id -> U id) -> slots number_of_jobs lo hi V r'.
Proof.
  intros [H1 H2 H3 H4 H5] Ej Eu HV. unfold filled in *.
  split; unfold filled; rewrite ?Ej, ?Eu; auto.
Qed.

Lemma slots_create number_of_jobs lo U id r :
  slots number_of_jobs lo (number_running_ r) U r -> (lo <= number_running_ r < number_of_jobs)%nat ->
  slots number_of_jobs lo (S (number_running_ r)) (fun x => U x \/ x = id) (create_thread id r).
Proof.
  intros [H1 H2 H3 H4 H5] Hn. unfold create_thread. rewrite H1, (proj2 (Nat.ltb_lt _ _)) by lia.
  assert (Hfree : forall x, jobs_ r !! number_running_ r <> Some (Some x)).
  { intros x Hx. assert (Hf : filled r (number_running_ r)) by (by exists x). apply H4 in Hf. lia. }
  split; cbn; [by rewrite length_insert|done|lia| |].
  - intros j. unfold filled. cbn. destruct (decide (j = number_running_ r)) as [->|Hj].
    + rewrite list_lookup_insert_eq by lia. split; [lia|by eexists].
    + rewrite list_lookup_insert_ne by done. fold (filled r j). rewrite H4. lia.
  - intros x [Hx| ->].
    + destruct (H5 x Hx) as [j Hj]. exists j. rewrite list_lookup_insert_ne; [done|].
      intros <-. by destruct (Hfree x).
    + exists (number_running_ r). apply list_lookup_insert_eq. lia.
Qed.

Lemma slots_join number_of_jobs i hi U id r :
  slots number_of_jobs i hi U r -> jobs_ r !! i = Some (Some id) ->
  slots number_of_jobs (S i) hi (fun x => U x /\ x <> id) (with_job i None r).
Proof.
  intros [H1 H2 H3 H4 H5] Hi. apply lookup_lt_Some in Hi as Hl.
  split; cbn; [by rewrite length_insert|done|lia| |].
  - intros j. unfold filled. cbn. destruct (decide (j = i)) as [->|Hj].
    + rewrite list_lookup_insert_eq by done. split; [by intros [? [=]]|lia].
    + rewrite list_lookup_insert_ne by done. fold (filled r j). rewrite H4. lia.
  - intros x [Hx Hne]. destruct (H5 x Hx) as [j Hj]. exists j.
    rewrite list_lookup_insert_ne; [done|]. intros <-. congruence.
Qed.

(** When all that was filled is joined no thread is left. *)
Lemma slots_empty number_of_jobs n U r : slots number_of_jobs n n U r ->
  (forall id, ~ U id) /\ forall j, ~ filled r j.
Proof.
  intros [_ _ _ H4 H5]. assert (He : forall j, ~ filled r j) by (intros j Hj%H4; lia).
  split; [|done]. intros id Hid. destruct (H5 id Hid) as [j Hj]. apply (He j). by exists id.
Qed.

Lemma slots_reset number_of_jobs n U r : slots number_of_jobs n n U r ->
  slots number_of_jobs 0 0 U (with_number 0 r).
Proof.
  intros Hs. destruct (slots_empty _ _ _ _ Hs) as [HU Hf]. destruct Hs as [H1 H2 H3 H4 H5].
  split; cbn; [done|done|lia| |done]. intros j. split; [intros Hj; by destruct (Hf j)|lia].
Qed.

(** ** Counting the threads *)

Lemma length_omap_le {A B} (f : A -> option B) (l : list A) : (length (omap f l) <= length l)%nat.
Proof. induction l as [|a l IH]; [done|]. cbn. destruct (f a); cbn; lia. Qed.

Lemma length_filled number_of_jobs lo hi U r : slots number_of_jobs lo hi U r ->
  (length (omap id (jobs_ r)) <= hi)%nat.
Proof.
  intros [H1 H2 H3 H4 H5]. rewrite <- (take_drop hi (jobs_ r)), omap_app, length_app.
  pose proof (length_omap_le id (take hi (jobs_ r))) as Hle. rewrite length_take in Hle.
  assert (E : omap id (drop hi (jobs_ r)) = []); [|rewrite E; cbn; lia].
  assert (Hn : forall x, x ∈ drop hi (jobs_ r) -> x = None).
  { intros x Hx. apply list_elem_of_lookup in Hx as [j Hj]. rewrite lookup_drop in Hj.
    destruct x as [x|]; [|done]. assert (Hf : filled r (hi + j)) by (by exists x).
    apply H4 in Hf. lia. }
  induction (drop hi (jobs_ r)) as [|x l IH]; [done|].
  rewrite (Hn x) by (by left). cbn. apply IH. intros y Hy. apply Hn. by right.
Qed.

(** The places of the elements with a property. *)
Lemma length_positions {A} (P : A -> bool) (l : list A) :
  exists ids : list nat, NoDup ids /\ length ids = length (filter P l) /\
    forall i, i ∈ ids -> exists a, l !! i = Some a /\ P a = true.
Proof.
  induction l as [|a l (ids & Hnd & Hl & Hp)] using rev_ind.
  { exists []. split; [constructor|]. split; [done|]. by intros i ?%not_elem_of_nil. }
  rewrite filter_app, length_app, filter_cons, filter_nil.
  assert (Hold : forall i, i ∈ ids -> exists b, (l ++ [a]) !! i = Some b /\ P b = true).
  { intros i Hi. destruct (Hp i Hi) as (b & Hb & HP). exists b. split; [|done].
    by apply lookup_app_l_Some. }
  case_decide as Hd.
  - exists (length l :: ids). split; [|split; [cbn; lia|]].
    + constructor; [|done]. intros Hi. destruct (Hp _ Hi) as (b & Hb & _).
      apply lookup_lt_Some in Hb. lia.
    + intros i [->|Hi]%elem_of_cons; [|by apply Hold]. exists a. split; [|by destruct (P a)].
      by apply list_lookup_middle.
  - exists ids. split; [done|]. split; [cbn; lia|]. done.
Qed.

(** There are no more threads than filled slots. *)
Lemma slots_count {A} number_of_jobs lo hi U r (P : A -> bool) (l : list A) :
  slots number_of_jobs lo hi U r ->
  (forall id a, l !! id = Some a -> P a = true -> U id) ->
  (length (filter P l) <= hi)%nat.
Proof.
  intros Hs HU. destruct (length_positions P l) as (ids & Hnd & <- & Hp).
  etrans; [|by eapply length_filled]. apply submseteq_length, NoDup_submseteq; [done|].
  intros i Hi. destruct (Hp i Hi) as (a & Ha & HP).
  destruct (sl_owner _ _ _ _ _ Hs i (HU i a Ha HP)) as [j Hj].
  apply list_elem_of_omap. exists (Some i). split; [by apply list_elem_of_lookup; exists j|done].
Qed.

(** ** The slots under the steps of one caller

    [adding] threads are created but not yet counted by another caller. *)

Definition join_lo (j : joining) (r : runner) : nat :=
  match j with
  | JLoop i | JJoin i => i
  | JAcquire | JReset => number_running_ r
  | JCheck | JDone => 0
  end.

Definition join_ok (j : joining) (r : runner) : Prop :=
  match j with
  | JLoop i => (i <= number_running_ r)%nat
  | JJoin i => (i < number_running_ r)%nat
  | _ => True
  end.

Definition start_lo (p : start_place) (r : runner) : nat :=
  match p with SWait j => join_lo j r | _ => 0 end.

Definition start_adding (p : start_place) : nat := match p with SIncrement => 1 | _ => 0 end.

Definition start_ok (limit : nat) (p : start_place) (r : runner) : Prop :=
  match p with
  | SLoop | SRelease | SReturned => (number_running_ r <= limit)%nat
  | SCreate | SIncrement => (number_running_ r < limit)%nat
  | SWait j => join_ok j r
  | _ => True
  end.

Definition after (e : event) (id : nat) (U : nat -> Prop) (x : nat) : Prop :=
  match e with
  | Quiet => U x
  | Created => U x \/ x = id
  | Joined y => U x /\ x <> y
  end.

Lemma join_step_slots number_of_jobs adding U ended id j r r' j' e :
  slots number_of_jobs (join_lo j r) (number_running_ r + adding) U r -> join_ok j r ->
  (j = JReset -> adding = 0%nat) -> join_step ended j r = Some (r', j', e) ->
  slots number_of_jobs (join_lo j' r') (number_running_ r' + adding) (after e id U) r' /\ join_ok j' r'.
Proof.
  intros Hs Hok Hadd H. destruct j as [|i|i| | |]; cbn [join_step] in H; [..|done].
  - injection H as <- <- <-. destruct (Nat.eqb_spec (number_running_ r) 0); cbn; (split; [done|done || lia]).
  - injection H as <- <- <-. cbn in Hs, Hok.
    destruct (Nat.ltb_spec i (number_running_ r)); cbn; (split; [|done || lia]); [done|].
    by replace (number_running_ r) with i at 1 by lia.
  - cbn in Hs, Hok. assert (Hf : filled r i) by (apply (sl_filled _ _ _ _ _ Hs); lia).
    destruct Hf as [x Hx]. rewrite Hx in H. destruct (ended x); [|done]. injection H as <- <- <-.
    cbn. split; [by apply slots_join|lia].
  - destruct (start_semaphore_ r); [done|]. injection H as <- <- <-. cbn. split; [|done].
    by eapply slots_frame.
  - injection H as <- <- <-. rewrite Hadd in * by done. cbn in *. split; [|done].
    rewrite Nat.add_0_r in Hs. by apply slots_reset in Hs.
Qed.

Lemma start_step_slots number_of_jobs to_start created ended id U p r r' p' e :
  slots number_of_jobs (start_lo p r) (number_running_ r + start_adding p) U r ->
  start_ok (threads_to_start number_of_jobs to_start) p r ->
  start_step to_start created ended id p r = Some (r', p', e) ->
  slots number_of_jobs (start_lo p' r') (number_running_ r' + start_adding p') (after e id U) r' /\
  start_ok (threads_to_start number_of_jobs to_start) p' r'.
Proof.
  intros Hs Hok H. pose proof (proj1 (to_start_le number_of_jobs to_start)) as Hle.
  destruct p as [| | | | | |j| |]; cbn [start_step] in H; [..|done|done]; cbn [start_lo start_adding start_ok] in *;
    rewrite ?Nat.add_0_r in Hs.
  - destruct (Nat.eqb_spec (number_running_ r) 0) as [E|]; injection H as <- <- <-; cbn;
      rewrite ?Nat.add_0_r; (split; [by eapply slots_frame|done || lia]).
  - rewrite (sl_length _ _ _ _ _ Hs) in H. injection H as <- <- <-.
    destruct (Nat.ltb_spec (number_running_ r) (threads_to_start number_of_jobs to_start)); cbn;
      rewrite Nat.add_0_r; (split; [done|done || lia]).
  - destruct created; injection H as <- <- <-; cbn.
    + assert (E : number_running_ (create_thread id r) = number_running_ r)
        by (unfold create_thread; by destruct (_ <? _)%nat).
      rewrite E, Nat.add_1_r. split; [|done]. apply slots_create; [done|lia].
    + rewrite Nat.add_0_r. split; [by eapply slots_frame|done].
  - injection H as <- <- <-. cbn. rewrite Nat.add_0_r. rewrite Nat.add_1_r in Hs.
    split; [by eapply slots_frame|lia].
  - injection H as <- <- <-. cbn. rewrite Nat.add_0_r. split; [by eapply slots_frame|done].
  - injection H as <- <- <-. cbn. rewrite Nat.add_0_r. split; [by eapply slots_frame|done].
  - destruct (join_step ended j r) as [[[r1 j1] e1]|] eqn:E; [|done]. cbn in H.
    injection H as <- <- <-. rewrite <- (Nat.add_0_r (number_running_ r)) in Hs.
    destruct (join_step_slots _ _ _ _ id _ _ _ _ _ Hs Hok (fun _ => eq_refl) E) as [H1 H2].
    by destruct j1.
Qed.
