(* ===== verification/CommonImpl.v ===== *)
(** * CommonImpl: the life cycle of active objects with threads

    Models [ActiveObjectCommonImpl] ([src/Generics/ActiveObject.cpp]), the base
    of the task runner and of the planner, over [ThreadRunner].

    [activate_object] holds [work_mutex_] while it starts the threads and
    [wait_object] holds [termination_mutex_]; [activator] and [waiter] are where
    the holders are.  [wait_object] reads [active_state_], joins the threads and
    calls [terminated] without [work_mutex_], so these are steps of their own. *)
From S2P Require Import Prelude ActiveObject ThreadRunner.

(** Where a caller of [wait_object] is. *)
Inductive waiting : Type :=
| VTest                 (** before the test of [active_state_] *)
| VWait (j : joining)   (** in [wait_for_completion] *)
| VTerminated           (** before [terminated()] *)
| VLock.                (** before the lock of [work_mutex_] *)

Record common : Type := {
  active_state_ : ACTIVE_STATE;
  terminating_ : bool;
  thread_runner_ : runner;
  activator : option start_place;
  waiter : option waiting
}.

Definition with_active (st : ACTIVE_STATE) (c : common) : common :=
  {| active_state_ := st; terminating_ := terminating_ c; thread_runner_ := thread_runner_ c;
     activator := activator c; waiter := waiter c |}.

Definition with_terminating (b : bool) (c : common) : common :=
  {| active_state_ := active_state_ c; terminating_ := b; thread_runner_ := thread_runner_ c;
     activator := activator c; waiter := waiter c |}.

Definition with_runner (r : runner) (c : common) : common :=
  {| active_state_ := active_state_ c; terminating_ := terminating_ c; thread_runner_ := r;
     activator := activator c; waiter := waiter c |}.

Definition with_activator (p : option start_place) (c : common) : common :=
  {| active_state_ := active_state_ c; terminating_ := terminating_ c;
     thread_runner_ := thread_runner_ c; activator := p; waiter := waiter c |}.

Definition with_waiter (w : option waiting) (c : common) : common :=
  {| active_state_ := active_state_ c; terminating_ := terminating_ c;
     thread_runner_ := thread_runner_ c; activator := activator c; waiter := w |}.

Definition CommonImpl_init (threads_number : nat) : common :=
  {| active_state_ := AS_NOT_ACTIVE; terminating_ := false;
     thread_runner_ := ThreadRunner_init threads_number; activator := None; waiter := None |}.

(** ** The operations

    [None] is a wait for a mutex, a semaphore or a thread. *)

(** [activate_object] up to the call of [start]; an object that is not inactive
    throws and stays as it is. *)
Definition activate_object (c : common) : option common :=
  match activator c with
  | Some _ => None
  | None =>
    match active_state_ c with
    | AS_NOT_ACTIVE => Some (with_activator (Some SCheck) (with_active AS_ACTIVE c))
    | _ => Some c
    end
  end.

(** A step of the caller that starts the threads, with what it does to them. *)
Definition activate_step (start_threads_ : nat) (created : bool) (ended : nat -> bool) (id : nat)
    (c : common) : option (common * event) :=
  match activator c with
  | None => None
  | Some SReturned => Some (with_activator None c, Quiet)
  | Some SThrown => Some (with_activator None (with_active AS_NOT_ACTIVE c), Quiet)
  | Some p =>
    '(r, p', e) ← start_step start_threads_ created ended id p (thread_runner_ c);
    Some (with_activator (Some p') (with_runner r c), e)
  end.

(** [deactivate_object] with [make_terminate], without [terminate]. *)
Definition deactivate_object (c : common) : option common :=
  match activator c with
  | Some _ => None
  | None =>
    Some (match active_state_ c with
          | AS_ACTIVE => with_terminating true (with_active AS_DEACTIVATING c)
          | _ => c
          end)
  end.

(** [wait_object] takes [termination_mutex_]. *)
Definition wait_object (c : common) : option common :=
  match waiter c with
  | Some _ => None
  | None => Some (with_waiter (Some VTest) c)
  end.

(** A step of its holder. *)
Definition wait_step (ended : nat -> bool) (c : common) : option (common * event) :=
  match waiter c with
  | None => None
  | Some VTest =>
    Some (with_waiter (Some (if decide (active_state_ c = AS_NOT_ACTIVE) then VLock else VWait JCheck)) c,
          Quiet)
  | Some (VWait j) =>
    '(r, j', e) ← join_step ended j (thread_runner_ c);
    Some (with_waiter (Some (match j' with JDone => VTerminated | _ => VWait j' end)) (with_runner r c), e)
  | Some VTerminated => Some (with_waiter (Some VLock) (with_terminating false c), Quiet)
  | Some VLock =>
    match activator c with
    | Some _ => None
    | None =>
      Some (with_waiter None
              (match active_state_ c with
               | AS_DEACTIVATING => with_active AS_NOT_ACTIVE c
               | _ => c
               end), Quiet)
    end
  end.

(** ** Callers that meet inside the thread runner *)

(** One starts the threads while another waits for them. *)
Definition contended (c : common) : bool :=
  match activator c, waiter c with
  | Some _, Some (VWait _) => true
  | _, _ => false
  end.

(** A caller of [wait_for_completion] has seen that all threads are joined. *)
Definition finishing (c : common) : bool :=
  match waiter c with
  | Some (VWait JAcquire) | Some (VWait JReset) => true
  | _ => false
  end.

(** ** The slots of the threads *)

Definition lo (c : common) : nat :=
  match activator c, waiter c with
  | Some (SWait j), _ => join_lo j (thread_runner_ c)
  | _, Some (VWait j) => join_lo j (thread_runner_ c)
  | _, _ => 0
  end.

Definition starting_one (c : common) : nat :=
  match activator c with Some p => start_adding p | None => 0 end.

(** [adding] threads are created and not yet counted by [start_one]. *)
Record threads_ok (threads_number start_threads_ adding : nat) (unjoined : nat -> Prop)
    (c : common) : Prop := {
  t_slots : slots threads_number (lo c)
    (number_running_ (thread_runner_ c) + starting_one c + adding) unjoined (thread_runner_ c);
  t_start : forall p, activator c = Some p ->
    start_ok (threads_to_start threads_number start_threads_) p (thread_runner_ c);
  t_join : forall j, waiter c = Some (VWait j) -> join_ok j (thread_runner_ c)
}.

Section Steps.
  Context (threads_number start_threads_ adding : nat).
  Local Abbreviation threads_ok := (threads_ok threads_number start_threads_).

Lemma threads_init : threads_ok 0 (fun _ => False) (CommonImpl_init threads_number).
Proof. split; cbn; [apply slots_init|done|done]. Qed.

Lemma threads_weaken U V c : threads_ok adding U c -> (forall id, V id -> U id) ->
  threads_ok adding V c.
Proof. intros [H1 H2 H3] HV. split; [exact (slots_frame _ _ _ U V _ _ H1 eq_refl eq_refl HV)|done|done]. Qed.

Lemma activate_threads U c c' : threads_ok adding U c -> activate_object c = Some c' ->
  threads_ok adding U c'.
Proof.
  intros Hall H. unfold activate_object in H. destruct (activator c) eqn:Ea; [done|].
  destruct (active_state_ c); injection H as <-; [done|done|]. destruct Hall as [H1 H2 H3].
  split; cbn; [|by intros p [= <-]|done]. unfold lo, starting_one in *. by rewrite Ea in H1.
Qed.

Lemma activate_step_threads U created ended id c c' e :
  threads_ok adding U c -> contended c = false -> adding = 0%nat ->
  activate_step start_threads_ created ended id c = Some (c', e) ->
  threads_ok adding (after e id U) c'.
Proof.
  intros [H1 H2 H3] Hc -> H. unfold activate_step in H. unfold contended in Hc.
  unfold lo, starting_one in H1. destruct (activator c) as [p|] eqn:Ea; [|done].
  assert (Hw : forall j, waiter c <> Some (VWait j)) by (intros j E; by rewrite E in Hc).
  specialize (H2 p eq_refl). rewrite Nat.add_0_r in H1.
  assert (Hlo : slots threads_number (start_lo p (thread_runner_ c))
    (number_running_ (thread_runner_ c) + start_adding p) U (thread_runner_ c)).
  { destruct p; try done; destruct (waiter c) as [[|j| |]|]; try done; by destruct (Hw j). }
  assert (Hstep : forall r p' e0,
    start_step start_threads_ created ended id p (thread_runner_ c) = Some (r, p', e0) ->
    threads_ok 0 (after e0 id U) (with_activator (Some p') (with_runner r c))).
  { intros r p' e0 E. destruct (start_step_slots _ _ _ _ _ _ _ _ _ _ _ Hlo H2 E) as [Hs Hok].
    split; cbn; [|by intros q [= <-]|by intros j ?%Hw].
    unfold lo, starting_one. cbn. rewrite Nat.add_0_r.
    destruct p'; try done; destruct (waiter c) as [[|j| |]|]; try done; by destruct (Hw j). }
  assert (Hend : forall c0, waiter c0 = waiter c -> thread_runner_ c0 = thread_runner_ c ->
    start_adding p = 0%nat -> start_lo p (thread_runner_ c) = 0%nat -> activator c0 = None ->
    threads_ok 0 U c0).
  { intros c0 E1 E2 E3 E4 E5. split; [|by rewrite E5|by rewrite E1; intros j ?%Hw].
    unfold lo, starting_one. rewrite E1, E2, E5, !Nat.add_0_r. rewrite E3, E4, Nat.add_0_r in Hlo.
    destruct (waiter c) as [[|j| |]|]; try done; by destruct (Hw j). }
  destruct p; try (destruct (start_step _ _ _ _ _ _) as [[[r p'] e0]|] eqn:E; [|done]; cbn in H;
    injection H as <- <-; by apply Hstep);
    injection H as <- <-; by apply Hend.
Qed.

Lemma deactivate_threads U c c' : threads_ok adding U c -> deactivate_object c = Some c' ->
  threads_ok adding U c'.
Proof.
  intros Hall H. unfold deactivate_object in H. destruct (activator c) eqn:Ea; [done|].
  injection H as <-. destruct Hall as [H1 H2 H3]. unfold lo, starting_one in H1. rewrite Ea in H1.
  destruct (active_state_ c); split; cbn; unfold lo, starting_one; cbn; rewrite ?Ea; done.
Qed.

Lemma wait_threads U c c' : threads_ok adding U c -> wait_object c = Some c' ->
  threads_ok adding U c'.
Proof.
  intros [H1 H2 H3] H. unfold wait_object in H. destruct (waiter c) eqn:Ew; [done|].
  injection H as <-. unfold lo in H1. rewrite Ew in H1. by split.
Qed.

Lemma wait_step_threads U ended id c c' e :
  threads_ok adding U c -> contended c = false -> (finishing c = true -> adding = 0%nat) ->
  wait_step ended c = Some (c', e) -> threads_ok adding (after e id U) c'.
Proof.
  intros [H1 H2 H3] Hc Hf H. unfold wait_step in H. unfold contended in Hc. unfold finishing in Hf.
  unfold lo in H1.
  destruct (waiter c) as [[|j| |]|] eqn:Ew; [..|done].
  - injection H as <- <-. split; cbn; [|done|].
    + unfold lo. cbn. destruct (decide _); cbn; destruct (activator c) as [[]|]; done.
    + intros j. destruct (decide _); [done|]. by intros [= <-].
  - destruct (join_step ended j (thread_runner_ c)) as [[[r j'] e0]|] eqn:E; [|done]. cbn in H.
    injection H as <- <-. destruct (activator c) as [p|] eqn:Ea; [done|].
    unfold starting_one in H1. rewrite Ea, Nat.add_0_r in H1.
    destruct (join_step_slots _ _ _ _ id _ _ _ _ _ H1 (H3 j eq_refl)
      ltac:(intros ->; by apply Hf) E) as [Hs Hok].
    split; cbn; [|by rewrite Ea|].
    + unfold lo, starting_one. cbn. rewrite Ea, Nat.add_0_r. by destruct j'.
    + intros j0. destruct j'; try done; by intros [= <-].
  - injection H as <- <-. split; cbn; [|done|done]. unfold lo, starting_one in *. cbn.
    by destruct (activator c) as [[]|].
  - destruct (activator c) as [p|] eqn:Ea; [done|]. injection H as <- <-.
    unfold starting_one in H1. rewrite Ea in H1.
    destruct (active_state_ c); split; cbn; unfold lo, starting_one; cbn; rewrite ?Ea; done.
Qed.

(** [start_one]: the thread is created, and counted later. *)
Lemma create_one_threads U id c :
  threads_ok 0 U c -> activator c = None ->
  (number_running_ (thread_runner_ c) < threads_number)%nat ->
  threads_ok 1 (fun x => U x \/ x = id) (with_runner (create_thread id (thread_runner_ c)) c).
Proof.
  intros [H1 H2 H3] Ha Hn. unfold lo, starting_one in H1. rewrite Ha, !Nat.add_0_r in H1.
  assert (En : number_running_ (create_thread id (thread_runner_ c)) = number_running_ (thread_runner_ c))
    by (unfold create_thread; by destruct (_ <? _)%nat).
  assert (Hj : forall j, join_lo j (create_thread id (thread_runner_ c)) = join_lo j (thread_runner_ c))
    by (intros []; cbn; congruence).
  assert (Hlo : (match waiter c with
     | Some (VWait j) => join_lo j (thread_runner_ c) | _ => 0 end <= number_running_ (thread_runner_ c))%nat).
  { destruct (waiter c) as [[|j| |]|]; try lia. specialize (H3 j eq_refl). destruct j; cbn in *; lia. }
  split; cbn.
  - unfold lo, starting_one. cbn. rewrite Ha, En, Nat.add_0_r, Nat.add_1_r.
    apply (slots_create _ _ _ id) in H1; [|lia]. destruct (waiter c) as [[|j| |]|]; try done. by rewrite Hj.
  - by rewrite Ha.
  - intros j Ew. specialize (H3 j Ew). destruct j; cbn in *; rewrite ?En; done.
Qed.

Lemma count_one_threads U c :
  threads_ok 1 U c -> activator c = None -> finishing c = false ->
  threads_ok 0 U (with_runner (count_thread (thread_runner_ c)) c).
Proof.
  intros [H1 H2 H3] Ha Hf. unfold lo, starting_one in H1. rewrite Ha, Nat.add_0_r, Nat.add_1_r in H1.
  unfold finishing in Hf. split; cbn; [|by rewrite Ha|].
  - unfold lo, starting_one. cbn. rewrite Ha, !Nat.add_0_r.
    apply (slots_frame _ _ _ U U _ (count_thread (thread_runner_ c))) in H1; [|done..].
    destruct (waiter c) as [[|[]| |]|]; done.
  - intros j Ew. specialize (H3 j Ew). destruct j; cbn in *; lia || done.
Qed.

End Steps.
