(* ===== verification/TaskRunner.v ===== *)
(** * TaskRunner: the pool of working threads

    Models [TaskRunner] and [TaskRunnerJob] ([src/Generics/TaskRunner.cpp]) over
    the life cycle of [CommonImpl] and the threads of [ThreadRunner], as a
    transition system over all interleavings of the threads.

    A step of a thread is what it does from one acquisition of [tasks_lock_], of
    an atomic counter or of a member without a lock to the next.  A wait on a
    condition may end at any time, so the signals need no state; a call that may
    fail for a reason outside the program ([pthread_create], a timeout) takes its
    result from the label of the step.  The ghost fields [enqueued], [out] and
    [activations] record the history.

    [enqueue_task] creates threads without the lock under which [activate_object]
    starts them, and [wait_object] resets their number without any.  [executes]
    are the states of all executions; [reachable] those of the executions in
    which no two callers meet where one of them changes the slots of the threads
    ([overlap]); [creates_all] those in which the activation never fails to create
    a thread. *)
From S2P Require Import Prelude ActiveObject ThreadRunner CommonImpl.
Local Open Scope Z_scope.

(** Where a working thread is. *)
Inductive worker : Type :=
| WGate (g : gate)          (** in [thread_func_], before [work] *)
| WHead (increased : bool)  (** before the lock; [number_of_unused_threads_increased] *)
| WWait                     (** in [guard.wait()] *)
| WRun (task : nat)         (** has a task, outside the lock *)
| WDone                     (** has returned *)
| WJoined.

(** Where a caller is in [enqueue_task]. *)
Inductive producer : Type :=
| PEnter (task : nat)       (** before the lock *)
| PBlock (task : nat)       (** in [lock.timed_wait] *)
| POverflow                 (** has thrown [Overflow] *)
| PAdd (try_add_thread : bool)
| PGrow                     (** in [add_thread_i_], before its lock *)
| PStart                    (** after its lock, before [!thread_runner.running()] *)
| PFull                     (** before the second [running()] *)
| PStartOne                 (** before the test of [start_one] *)
| PCreate                   (** before [pthread_create] *)
| PIncrement                (** before [++number_running_] *)
| PUncount                  (** in the handler, before its lock *)
| PLeave                    (** before [--adding_thread_] *)
| PDone.

Inductive fate : Type := Taken | Cleared.

Record state : Type := {
  base : common;
  tasks_ : list nat;
  number_of_unused_threads_ : Z;
  waiting_threads_ : Z;
  adding_thread_ : Z;
  workers : list worker;
  producers : list producer;
  failed : bool;                 (** an [assert] has failed *)
  enqueued : list nat;
  out : list (nat * fate);
  activations : nat
}.

(** ** Updates *)

Definition with_base (c : common) (s : state) : state :=
  {| base := c; tasks_ := tasks_ s; number_of_unused_threads_ := number_of_unused_threads_ s;
     waiting_threads_ := waiting_threads_ s; adding_thread_ := adding_thread_ s;
     workers := workers s; producers := producers s; failed := failed s;
     enqueued := enqueued s; out := out s; activations := activations s |}.

Definition with_workers (ws : list worker) (s : state) : state :=
  {| base := base s; tasks_ := tasks_ s;
     number_of_unused_threads_ := number_of_unused_threads_ s;
     waiting_threads_ := waiting_threads_ s; adding_thread_ := adding_thread_ s; workers := ws;
     producers := producers s; failed := failed s; enqueued := enqueued s; out := out s;
     activations := activations s |}.

Definition with_unused (v : Z) (s : state) : state :=
  {| base := base s; tasks_ := tasks_ s; number_of_unused_threads_ := v;
     waiting_threads_ := waiting_threads_ s; adding_thread_ := adding_thread_ s;
     workers := workers s; producers := producers s; failed := failed s;
     enqueued := enqueued s; out := out s; activations := activations s |}.

Definition with_waiting (v : Z) (s : state) : state :=
  {| base := base s; tasks_ := tasks_ s;
     number_of_unused_threads_ := number_of_unused_threads_ s; waiting_threads_ := v;
     adding_thread_ := adding_thread_ s; workers := workers s; producers := producers s;
     failed := failed s; enqueued := enqueued s; out := out s; activations := activations s |}.

Definition with_adding (v : Z) (s : state) : state :=
  {| base := base s; tasks_ := tasks_ s;
     number_of_unused_threads_ := number_of_unused_threads_ s;
     waiting_threads_ := waiting_threads_ s; adding_thread_ := v; workers := workers s;
     producers := producers s; failed := failed s; enqueued := enqueued s; out := out s;
     activations := activations s |}.

Definition with_producers (ps : list producer) (s : state) : state :=
  {| base := base s; tasks_ := tasks_ s;
     number_of_unused_threads_ := number_of_unused_threads_ s;
     waiting_threads_ := waiting_threads_ s; adding_thread_ := adding_thread_ s;
     workers := workers s; producers := ps; failed := failed s; enqueued := enqueued s;
     out := out s; activations := activations s |}.

Definition with_tasks (ts : list nat) (en : list nat) (o : list (nat * fate)) (s : state) : state :=
  {| base := base s; tasks_ := ts; number_of_unused_threads_ := number_of_unused_threads_ s;
     waiting_threads_ := waiting_threads_ s; adding_thread_ := adding_thread_ s;
     workers := workers s; producers := producers s; failed := failed s; enqueued := en;
     out := o; activations := activations s |}.

Definition with_failed (s : state) : state :=
  {| base := base s; tasks_ := tasks_ s;
     number_of_unused_threads_ := number_of_unused_threads_ s;
     waiting_threads_ := waiting_threads_ s; adding_thread_ := adding_thread_ s;
     workers := workers s; producers := producers s; failed := true; enqueued := enqueued s;
     out := out s; activations := activations s |}.

Definition with_activations (n : nat) (s : state) : state :=
  {| base := base s; tasks_ := tasks_ s;
     number_of_unused_threads_ := number_of_unused_threads_ s;
     waiting_threads_ := waiting_threads_ s; adding_thread_ := adding_thread_ s;
     workers := workers s; producers := producers s; failed := failed s;
     enqueued := enqueued s; out := out s; activations := n |}.

(** [--] on an [unsigned int]. *)
Definition decrement (v : Z) : Z := if v =? 0 then 2 ^ 32 - 1 else v - 1.

(** ** The operations *)

Section Runner.
  (** The arguments of the constructor. *)
  Context (threads_number max_pending_tasks start_threads : nat).

  (** [std::max(start_threads, 1u)] *)
Definition START : nat := Nat.max start_threads 1.

Definition TaskRunner_init : state :=
  {| base := CommonImpl_init threads_number;
     tasks_ := []; number_of_unused_threads_ := Z.of_nat START; waiting_threads_ := 0;
     adding_thread_ := 0; workers := []; producers := []; failed := false;
     enqueued := []; out := []; activations := 0 |}.

(** The thread [id] has returned. *)
Definition ended (s : state) (id : nat) : bool :=
  match workers s !! id with Some WDone => true | _ => false end.

(** What a step of a caller does to the threads. *)
Definition apply_event (e : event) (ws : list worker) : list worker :=
  match e with
  | Quiet => ws
  | Created => ws ++ [WGate GAcquire]
  | Joined id => <[id := WJoined]> ws
  end.

(** [TaskRunner::activate_object]: the call, with the count of the activations. *)
Definition activate (s : state) : option state :=
  c ← activate_object (base s);
  Some (with_activations
          (match activator c with Some _ => S (activations s) | None => activations s end)
          (with_base c s)).

(** A step of the activation.  One that fails before any has succeeded is not
    counted. *)
Definition start (created : bool) (s : state) : option state :=
  '(c, e) ← activate_step START created (ended s) (length (workers s)) (base s);
  Some (with_activations
          (match activator (base s), activations s with
           | Some SThrown, 1%nat => 0
           | _, n => n
           end) (with_workers (apply_event e (workers s)) (with_base c s))).

(** A step of [wait_object]. *)
Definition wait (s : state) : option state :=
  '(c, e) ← wait_step (ended s) (base s);
  Some (with_workers (apply_event e (workers s)) (with_base c s)).

(** [TaskRunnerJob::clear] *)
Definition clear (s : state) : state :=
  with_tasks [] (enqueued s) (out s ++ map (fun t => (t, Cleared)) (tasks_ s)) s.

(** A critical section of [work] leaves the thread at the returned place. *)

(** From [while (tasks_.empty())] to the end of the block. *)
Definition work_get (s : state) : state * worker :=
  match tasks_ s with
  | [] => (with_waiting (waiting_threads_ s + 1) s, WWait)
  | t :: ts =>
    let s := with_tasks ts (enqueued s) (out s ++ [(t, Taken)]) s in
    if 0 <? number_of_unused_threads_ s
    then (with_unused (decrement (number_of_unused_threads_ s)) s, WRun t)
    else (with_failed s, WRun t)
  end.

(** From the lock on. *)
Definition work_enter (increased : bool) (s : state) : state * worker :=
  let s := with_unused (number_of_unused_threads_ s + (if increased then 0 else 1)) s in
  if terminating_ (base s) then (with_unused (decrement (number_of_unused_threads_ s)) s, WDone)
  else work_get s.

(** After [guard.wait()]. *)
Definition work_wake (s : state) : state * worker :=
  let s := with_waiting (waiting_threads_ s - 1) s in
  if terminating_ (base s) then (with_unused (decrement (number_of_unused_threads_ s)) s, WDone)
  else work_get s.

(** A step of a working thread. *)
Definition work_step (w : worker) (s : state) : option (state * worker) :=
  match w with
  | WGate g =>
    '(r, g') ← gate_step g (thread_runner_ (base s));
    Some (with_base (with_runner r (base s)) s,
          match g' with inl g => WGate g | inr true => WHead true | inr false => WDone end)
  | WHead increased => Some (work_enter increased s)
  | WWait => Some (work_wake s)
  | WRun _ => Some (s, WHead false)
  | WDone | WJoined => None
  end.

(** The critical section of [add_thread_i_]. *)
Definition add_thread_lock (s : state) : state * producer :=
  if Z.of_nat (length (tasks_ s)) <=? number_of_unused_threads_ s then (s, PLeave)
  else (with_unused (number_of_unused_threads_ s + 1) s, PStart).

(** Its second part, with [ThreadRunner::start_one]; [ok] is the result of
    [pthread_create]. *)
Definition add_thread_start (p : producer) (ok : bool) (s : state) : state * producer :=
  let r := thread_runner_ (base s) in
  match p with
  | PStart => (s, if (number_running_ r =? 0)%nat then PLeave else PFull)
  | PFull => (s, if (number_running_ r =? threads_number)%nat then PLeave else PStartOne)
  | PStartOne => (s, if (number_running_ r =? threads_number)%nat then PUncount else PCreate)
  | PCreate =>
    if ok then
      (with_workers (apply_event Created (workers s))
         (with_base (with_runner (create_thread (length (workers s)) r) (base s)) s), PIncrement)
    else (s, PUncount)
  | PIncrement => (with_base (with_runner (count_thread r) (base s)) s, PLeave)
  | _ => (with_unused (decrement (number_of_unused_threads_ s)) s, PLeave)
  end.

(** A step of [enqueue_task]; [ok] is the result of [timed_wait] or of
    [pthread_create]. *)
Definition enqueue_step (p : producer) (ok : bool) (s : state) : option (state * producer) :=
  match p with
  | PEnter t =>
    let try_add_thread := number_of_unused_threads_ s <? Z.of_nat (length (tasks_ s)) in
    if (max_pending_tasks =? 0)%nat || (length (tasks_ s) <? max_pending_tasks)%nat
    then Some (with_tasks (tasks_ s ++ [t]) (enqueued s ++ [t]) (out s) s, PAdd try_add_thread)
    else Some (s, PBlock t)
  | PBlock t => Some (s, if ok then PEnter t else POverflow)
  | PAdd false => Some (s, PDone)
  | PAdd true =>
    let s := with_adding (adding_thread_ s + 1) s in
    Some (s, if adding_thread_ s =? 1 then PGrow else PLeave)
  | PGrow => Some (add_thread_lock s)
  | PStart | PFull | PStartOne | PCreate | PIncrement | PUncount => Some (add_thread_start p ok s)
  | PLeave => Some (with_adding (adding_thread_ s - 1) s, PDone)
  | POverflow | PDone => None
  end.

(** ** The transition system *)

Inductive label : Type :=
| LActivate | LStart (created : bool) | LDeactivate | LWait | LWaiter | LClear
| LCall (task : nat) | LProducer (i : nat) (ok : bool) | LWorker (i : nat).

Definition step (l : label) (s : state) : option state :=
  if failed s || undefined (thread_runner_ (base s)) then None
  else
    match l with
    | LActivate => activate s
    | LStart created => start created s
    | LDeactivate => c ← deactivate_object (base s); Some (with_base c s)
    | LWait => c ← wait_object (base s); Some (with_base c s)
    | LWaiter => wait s
    | LClear => Some (clear s)
    | LCall t => Some (with_producers (producers s ++ [PEnter t]) s)
    | LProducer i ok =>
      p ← producers s !! i;
      '(s', p') ← enqueue_step p ok s;
      Some (with_producers (<[i := p']> (producers s')) s')
    | LWorker i =>
      w ← workers s !! i;
      '(s', w') ← work_step w s;
      Some (with_workers (<[i := w']> (workers s')) s')
    end.

(** A caller of [enqueue_task] that creates a thread. *)
Definition creating (p : producer) : bool :=
  match p with PCreate | PIncrement => true | _ => false end.

(** Two callers meet inside the thread runner: one starts the threads while
    another waits for them, or one creates a thread while another starts the
    threads or is about to reset their number.  A thread may be created while
    another caller still joins the threads. *)
Definition overlap (s : state) : bool :=
  contended (base s) ||
  existsb creating (producers s) &&
    (match activator (base s) with Some _ => true | None => false end || finishing (base s)).

(** All executions, and those without such a meeting before their last state. *)
Inductive executes : state -> Prop :=
| exec_init : executes TaskRunner_init
| exec_step s l s' : executes s -> step l s = Some s' -> executes s'.

Inductive reachable : state -> Prop :=
| reach_init : reachable TaskRunner_init
| reach_step s l s' : reachable s -> overlap s = false -> step l s = Some s' -> reachable s'.

(** All executions in which the activation never fails to create a thread. *)
Inductive creates_all : state -> Prop :=
| all_init : creates_all TaskRunner_init
| all_step s l s' : creates_all s -> l <> LStart false -> step l s = Some s' -> creates_all s'.

Fixpoint run (ls : list label) (s : state) : option state :=
  match ls with
  | [] => Some s
  | l :: ls' => s' ← step l s; run ls' s'
  end.

(** The same, up to the first meeting. *)
Fixpoint run_apart (ls : list label) (s : state) : option state :=
  match ls with
  | [] => Some s
  | l :: ls' => if overlap s then None else s' ← step l s; run_apart ls' s'
  end.

Lemma run_executes ls : forall s s', executes s -> run ls s = Some s' -> executes s'.
Proof.
  induction ls as [|l ls IH]; intros s s' Hr H; cbn in H; [by injection H as <-|].
  destruct (step l s) as [s1|] eqn:E; [|done]. eapply IH; [|exact H]. by eapply exec_step.
Qed.

Lemma run_reachable ls : forall s s', reachable s -> run_apart ls s = Some s' -> reachable s'.
Proof.
  induction ls as [|l ls IH]; intros s s' Hr H; cbn in H; [by injection H as <-|].
  destruct (overlap s) eqn:Eo; [done|]. destruct (step l s) as [s1|] eqn:E; [|done].
  eapply IH; [|exact H]. by eapply reach_step.
Qed.

Lemma reachable_executes s : reachable s -> executes s.
Proof. induction 1; [apply exec_init|by eapply exec_step]. Qed.

Lemma creates_all_executes s : creates_all s -> executes s.
Proof. induction 1; [apply exec_init|by eapply exec_step]. Qed.

End Runner.

(** ** Counting threads *)

Fixpoint total {A} (f : A -> Z) (l : list A) : Z :=
  match l with
  | [] => 0
  | a :: l' => f a + total f l'
  end.

Lemma total_app {A} (f : A -> Z) l1 l2 : total f (l1 ++ l2) = total f l1 + total f l2.
Proof. induction l1 as [|a l1 IH]; cbn [app total]; lia. Qed.

Lemma total_insert {A} (f : A -> Z) l i x y :
  l !! i = Some x -> total f (<[i := y]> l) = total f l - f x + f y.
Proof.
  revert i. induction l as [|a l IH]; intros [|i] H; try done.
  - injection H as ->. cbn [total insert list_insert]. lia.
  - change (f a + total f (<[i := y]> l) = f a + total f l - f x + f y).
    rewrite (IH i H). lia.
Qed.

Lemma total_replicate {A} (f : A -> Z) n a : total f (replicate n a) = Z.of_nat n * f a.
Proof. induction n as [|n IH]; [done|]. cbn [replicate total]. lia. Qed.

Lemma total_nonneg {A} (f : A -> Z) l : (forall a, 0 <= f a) -> 0 <= total f l.
Proof. intros Hf. induction l as [|a l IH]; [done|]. cbn [total]. specialize (Hf a). lia. Qed.

Lemma total_ge {A} (f : A -> Z) l i x :
  (forall a, 0 <= f a) -> l !! i = Some x -> f x <= total f l.
Proof.
  intros Hf. revert i. induction l as [|a l IH]; intros [|i] H; try done; cbn [total].
  - injection H as ->. pose proof (total_nonneg f l Hf). lia.
  - specialize (IH i H). specialize (Hf a). lia.
Qed.

(** A thread that [number_of_unused_threads_] counts. *)
Definition unused_worker (w : worker) : Z :=
  match w with WGate _ | WHead true | WWait => 1 | _ => 0 end.

(** A thread that has not returned, and one that was not joined. *)
Definition alive (w : worker) : Z := match w with WDone | WJoined => 0 | _ => 1 end.
Definition unjoined (w : worker) : bool := match w with WJoined => false | _ => true end.

(** A caller that has counted a thread it is about to create. *)
Definition starting (p : producer) : Z :=
  match p with PStart | PFull | PStartOne | PCreate | PUncount => 1 | _ => 0 end.

(** A caller inside [add_thread_i_], and one that holds [adding_thread_]. *)
Definition in_add_thread (p : producer) : Z :=
  match p with PGrow | PStart | PFull | PStartOne | PCreate | PIncrement | PUncount => 1 | _ => 0 end.
Definition adding (p : producer) : Z :=
  match p with PLeave => 1 | _ => in_add_thread p end.

(** A caller that has created a thread and not counted it in [number_running_]. *)
Definition counting (p : producer) : Z := match p with PIncrement => 1 | _ => 0 end.

Lemma unused_worker_nonneg w : 0 <= unused_worker w.
Proof. destruct w as [|[]| | | |]; cbn; lia. Qed.
Lemma starting_nonneg p : 0 <= starting p.
Proof. destruct p; cbn; lia. Qed.
Lemma in_add_thread_le p : 0 <= in_add_thread p <= adding p.
Proof. destruct p; cbn; lia. Qed.
Lemma counting_le p : 0 <= counting p <= in_add_thread p.
Proof. destruct p; cbn; lia. Qed.

#[export] Hint Resolve unused_worker_nonneg starting_nonneg : unixcommons.

Lemma total_mono {A} (f g : A -> Z) l : (forall a, f a <= g a) -> total f l <= total g l.
Proof. intros H. induction l as [|a l IH]; cbn [total]; [lia|]. specialize (H a). lia. Qed.

Lemma total_alive ws : total alive ws <= Z.of_nat (length (filter unjoined ws)).
Proof.
  induction ws as [|w ws IH]; [done|]. cbn [total]. rewrite filter_cons.
  case_decide as Hd; [rewrite length_cons; destruct w; cbn [alive]; lia|].
  destruct w; try (by destruct Hd); cbn [alive]; lia.
Qed.

(** ** The queue, in all executions *)

Section RunnerFacts.
  Context (threads_number max_pending_tasks start_threads : nat).

  Local Abbreviation executes := (executes threads_number max_pending_tasks start_threads).
  Local Abbreviation reachable := (reachable threads_number max_pending_tasks start_threads).
  Local Abbreviation creates_all := (creates_all threads_number max_pending_tasks start_threads).
  Local Abbreviation step := (step threads_number max_pending_tasks start_threads).
  Local Abbreviation enqueue_step := (enqueue_step threads_number max_pending_tasks).
  Local Abbreviation START := (START start_threads).

Record queue_inv (s : state) : Prop := {
  q_fifo : enqueued s = map fst (out s) ++ tasks_ s;
  q_bound : (0 < max_pending_tasks)%nat -> (length (tasks_ s) <= max_pending_tasks)%nat;
  q_adding : adding_thread_ s = total adding (producers s);
  q_excl : total in_add_thread (producers s) <= 1
}.

(** Of the base a working thread changes only the semaphore. *)
Definition same_base (c c' : common) : Prop :=
  exists n, c' = with_runner (with_semaphore n (thread_runner_ c)) c.

Lemma same_base_refl c : same_base c c.
Proof. exists (start_semaphore_ (thread_runner_ c)). by destruct c as [? ? [] ? ?]. Qed.

(** A step of a working thread changes only these fields. *)
Lemma work_step_frame w s s' w' : work_step w s = Some (s', w') ->
  same_base (base s) (base s') /\
  workers s' = workers s /\ producers s' = producers s /\ adding_thread_ s' = adding_thread_ s /\
  enqueued s' = enqueued s /\ activations s' = activations s /\ unjoined w' = true /\
  (tasks_ s' = tasks_ s /\ out s' = out s \/
   exists t, tasks_ s = t :: tasks_ s' /\ out s' = out s ++ [(t, Taken)]).
Proof.
  assert (Hg : forall s0 s1 w1, work_get s0 = (s1, w1) ->
    base s1 = base s0 /\
    workers s1 = workers s0 /\ producers s1 = producers s0 /\ adding_thread_ s1 = adding_thread_ s0 /\
    enqueued s1 = enqueued s0 /\ activations s1 = activations s0 /\ unjoined w1 = true /\
    (tasks_ s1 = tasks_ s0 /\ out s1 = out s0 \/
     exists t, tasks_ s0 = t :: tasks_ s1 /\ out s1 = out s0 ++ [(t, Taken)])).
  { intros s0 s1 w1. unfold work_get. destruct (tasks_ s0) as [|t ts] eqn:Et.
    - intros [= <- <-]. cbn. rewrite Et. tauto.
    - case_Z; intros [= <- <-]; cbn; repeat (split; [done|]); right; by exists t. }
  pose proof (same_base_refl (base s)) as Hb.
  destruct w as [g|inc| | | |]; cbn [work_step]; intros H; [|injection H as H..| |done|done].
  - destruct g; cbn in H; [destruct (start_semaphore_ _); [done|]|..]; injection H as <- <-; cbn.
    + split; [by eexists|]. tauto.
    + split; [by eexists|]. tauto.
    + split; [|destruct (interrupt_start_ _); cbn; tauto]. by destruct s as [[? ? [] ? ?]].
  - unfold work_enter in H. cbn in H. destruct (terminating_ (base s)).
    + injection H as <- <-. cbn. tauto.
    + apply Hg in H as (E & H). cbn in *. rewrite E. split; [done|exact H].
  - unfold work_wake in H. cbn in H. destruct (terminating_ (base s)).
    + injection H as <- <-. cbn. tauto.
    + apply Hg in H as (E & H). cbn in *. rewrite E. split; [done|exact H].
  - injection H as <- <-. tauto.
Qed.

Lemma queue_inv_init : queue_inv (TaskRunner_init threads_number start_threads).
Proof. split; cbn; done || lia. Qed.

(** What the callers and the life cycle leave alone. *)
Lemma queue_inv_frame s s' : queue_inv s -> tasks_ s' = tasks_ s -> enqueued s' = enqueued s ->
  out s' = out s -> adding_thread_ s' = adding_thread_ s -> producers s' = producers s ->
  queue_inv s'.
Proof. intros [Hf Hb Ha He] E1 E2 E3 E4 E5. split; by rewrite ?E1, ?E2, ?E3, ?E4, ?E5. Qed.

Lemma queue_inv_worker s i w s' w' :
  queue_inv s -> work_step w s = Some (s', w') ->
  queue_inv (with_workers (<[i := w']> (workers s')) s').
Proof.
  intros [Hf Hb Ha He] Hs.
  destruct (work_step_frame _ _ _ _ Hs) as (_ & _ & E2 & E3 & E4 & _ & _ & Ht).
  split; cbn; rewrite ?E2, ?E3, ?E4; try done.
  - destruct Ht as [[-> ->]|(t & Et & ->)]; [done|].
    rewrite Hf, Et, map_app, <- app_assoc. done.
  - intros Hm. specialize (Hb Hm). destruct Ht as [[-> _]|(t & Et & _)]; [done|].
    rewrite Et in Hb. cbn in Hb. lia.
Qed.

(** The second part of [add_thread_i_]: what it changes. *)
Lemma add_thread_start_frame p ok s s' p' : in_add_thread p = 1 -> p <> PGrow ->
  add_thread_start threads_number p ok s = (s', p') ->
  tasks_ s' = tasks_ s /\ enqueued s' = enqueued s /\ out s' = out s /\
  adding_thread_ s' = adding_thread_ s /\ producers s' = producers s /\
  failed s' = failed s /\ activations s' = activations s /\
  adding p' = 1 /\ 0 <= in_add_thread p' <= 1.
Proof.
  intros Hp Hg H. destruct p; try done; cbn [add_thread_start] in H;
    repeat case_match; simplify_eq; cbn; repeat split; lia.
Qed.

Lemma queue_inv_producer s i p ok s' p' :
  queue_inv s -> producers s !! i = Some p -> enqueue_step p ok s = Some (s', p') ->
  queue_inv (with_producers (<[i := p']> (producers s')) s').
Proof.
  intros [Hf Hb Ha He] Hi Hs.
  assert (Hge : in_add_thread p <= total in_add_thread (producers s))
    by (apply (total_ge _ _ i); [intros q; pose proof (in_add_thread_le q); lia|done]).
  pose proof (total_mono in_add_thread adding (producers s)
    (fun q => proj2 (in_add_thread_le q))) as Hle.
  assert (Hadd : in_add_thread p = 1 -> p <> PGrow ->
    Some (add_thread_start threads_number p ok s) = Some (s', p') ->
    queue_inv (with_producers (<[i := p']> (producers s')) s')).
  { intros H1 H2 [= H]. destruct (add_thread_start_frame _ _ _ _ _ H1 H2 H)
      as (E1 & E2 & E3 & E4 & E5 & _ & _ & E6 & E7).
    split; cbn; rewrite ?E1, ?E2, ?E3, ?E4, ?E5, ?(total_insert _ _ _ _ _ Hi); try done; [|lia].
    destruct p; cbn in H1; try done; cbn [adding in_add_thread]; lia. }
  destruct p as [t|t| |[]| | | | | | | | |]; cbn [TaskRunner.enqueue_step] in Hs; try done;
    try (by apply Hadd).
  - destruct (Nat.eqb_spec max_pending_tasks 0), (Nat.ltb_spec (length (tasks_ s)) max_pending_tasks);
      cbn [orb] in Hs; injection Hs as <- <-; split; cbn;
      rewrite ?(total_insert _ _ _ _ _ Hi), ?length_app; cbn; try done; try lia;
      by rewrite Hf, <- app_assoc.
  - injection Hs as <- <-. destruct ok; split; cbn; rewrite ?(total_insert _ _ _ _ _ Hi); cbn; done || lia.
  - injection Hs as <- <-. cbn. split; cbn; rewrite ?(total_insert _ _ _ _ _ Hi); try done;
      destruct (Z.eqb_spec (adding_thread_ s + 1) 1); cbn; lia.
  - injection Hs as <- <-. split; cbn; rewrite ?(total_insert _ _ _ _ _ Hi); cbn; done || lia.
  - unfold add_thread_lock in Hs.
    destruct (Z.of_nat (length (tasks_ s)) <=? number_of_unused_threads_ s); injection Hs as <- <-;
      split; cbn; rewrite ?(total_insert _ _ _ _ _ Hi); cbn; done || lia.
  - injection Hs as <- <-. split; cbn; rewrite ?(total_insert _ _ _ _ _ Hi); cbn; done || lia.
Qed.

(** A step, by cases. *)
Lemma step_cases s l s' (P : Prop) : step l s = Some s' ->
  (failed s = false -> undefined (thread_runner_ (base s)) = false ->
   match l with
   | LActivate => activate s = Some s'
   | LStart created => start start_threads created s = Some s'
   | LDeactivate => exists c, deactivate_object (base s) = Some c /\ s' = with_base c s
   | LWait => exists c, wait_object (base s) = Some c /\ s' = with_base c s
   | LWaiter => wait s = Some s'
   | LClear => s' = clear s
   | LCall t => s' = with_producers (producers s ++ [PEnter t]) s
   | LProducer i ok => exists p s1 p', producers s !! i = Some p /\
       enqueue_step p ok s = Some (s1, p') /\ s' = with_producers (<[i := p']> (producers s1)) s1
   | LWorker i => exists w s1 w', workers s !! i = Some w /\
       work_step w s = Some (s1, w') /\ s' = with_workers (<[i := w']> (workers s1)) s1
   end -> P) -> P.
Proof.
  intros H HP. unfold TaskRunner.step in H. destruct (failed s); [done|]. cbn [orb] in H.
  destruct (undefined _); [done|]. apply HP; [done|done|].
  destruct l as [|created| | | | |t|i ok|i]; try done.
  - destruct (deactivate_object _) as [c|]; [|done]. injection H as <-. by exists c.
  - destruct (wait_object _) as [c|]; [|done]. injection H as <-. by exists c.
  - by injection H as <-.
  - by injection H as <-.
  - destruct (producers s !! i) as [p|]; [|done]. cbn in H.
    destruct (enqueue_step p ok s) as [[s1 p']|] eqn:E; [|done]. injection H as <-. by exists p, s1, p'.
  - destruct (workers s !! i) as [w|]; [|done]. cbn in H.
    destruct (work_step w s) as [[s1 w']|] eqn:E; [|done]. injection H as <-. by exists w, s1, w'.
Qed.

Lemma queue_inv_step s l s' : queue_inv s -> step l s = Some s' -> queue_inv s'.
Proof.
  intros Hq H. apply (step_cases _ _ _ _ H). intros _ _.
  destruct l as [|created| | | | |t|i ok|i].
  - unfold activate. destruct (activate_object _); [|done]. intros [= <-]. by eapply queue_inv_frame.
  - unfold start. destruct (activate_step _ _ _ _ _) as [[c e]|]; [|done]. intros [= <-].
    by eapply queue_inv_frame.
  - intros (c & _ & ->). by eapply queue_inv_frame.
  - intros (c & _ & ->). by eapply queue_inv_frame.
  - unfold wait. destruct (wait_step _ _) as [[c e]|]; [|done]. intros [= <-]. by eapply queue_inv_frame.
  - intros ->. destruct Hq as [Hf Hb Ha He]. split; cbn; try done; [|lia].
    rewrite map_app, map_map, app_nil_r. cbn. by rewrite map_id.
  - intros ->. destruct Hq as [Hf Hb Ha He]. split; cbn; rewrite ?total_app; cbn; done || lia.
  - intros (p & s1 & p' & Hi & Hs & ->). by eapply queue_inv_producer.
  - intros (w & s1 & w' & Hi & Hs & ->). by eapply queue_inv_worker.
Qed.

Lemma queue_inv_executes s : executes s -> queue_inv s.
Proof. induction 1; [apply queue_inv_init|by eapply queue_inv_step]. Qed.

(** ** The threads, while callers keep apart *)

Definition unjoined_ids (ws : list worker) (id : nat) : Prop :=
  exists w, ws !! id = Some w /\ unjoined w = true.

(** Threads created and not yet counted by [enqueue_task]. *)
Definition uncounted (s : state) : nat := Z.to_nat (total counting (producers s)).

Record safe_inv (s : state) : Prop := {
  s_threads : threads_ok threads_number START (uncounted s) (unjoined_ids (workers s)) (base s);
  s_room : existsb creating (producers s) = true ->
    (number_running_ (thread_runner_ (base s)) < threads_number)%nat
}.

Lemma unjoined_event e ws id : unjoined_ids (apply_event e ws) id ->
  after e (length ws) (unjoined_ids ws) id.
Proof.
  destruct e as [| |x]; cbn; [done|..]; intros (w & Hw & Hu).
  - apply lookup_app_Some in Hw as [Hw|[Hl Hw]]; [left; by exists w|right].
    apply list_lookup_singleton_Some in Hw as [Hw _]. lia.
  - destruct (decide (id = x)) as [->|Hne].
    + destruct (decide (x < length ws)%nat).
      * rewrite list_lookup_insert_eq in Hw by done. by injection Hw as <-.
      * rewrite list_insert_ge in Hw by lia. apply lookup_lt_Some in Hw. lia.
    + rewrite list_lookup_insert_ne in Hw by done. split; [by exists w|done].
Qed.

Lemma existsb_insert (ps : list producer) i p p' : ps !! i = Some p -> creating p' = creating p ->
  existsb creating (<[i := p']> ps) = existsb creating ps.
Proof.
  revert i. induction ps as [|q ps IH]; intros [|i] H E; try done; cbn.
  - injection H as ->. by rewrite E.
  - f_equal. by apply IH.
Qed.

Lemma none_creating (ps : list producer) : total in_add_thread ps <= 0 ->
  existsb creating ps = false /\ total counting ps = 0.
Proof.
  induction ps as [|q ps IH]; [done|]. cbn [total existsb]. intros H.
  pose proof (in_add_thread_le q). pose proof (total_nonneg in_add_thread ps
    (fun x => proj1 (in_add_thread_le x))). destruct IH as [-> ->]; [lia|].
  assert (in_add_thread q = 0) by lia. destruct q; cbn in *; done || lia.
Qed.

(** At most one caller creates a thread, so none does when another is adding. *)
Lemma excl_creating s i p : queue_inv s -> producers s !! i = Some p -> in_add_thread p = 1 ->
  (creating p = false -> existsb creating (producers s) = false) /\
  total counting (producers s) = counting p.
Proof.
  intros [_ _ _ He] Hi Hp. revert i He Hi. induction (producers s) as [|q ps IH]; intros [|i] He Hi; try done;
    cbn [total] in *; cbn [existsb].
  - injection Hi as ->. destruct (none_creating ps) as [-> ->]; [lia|]. split; [intros ->; done|lia].
  - pose proof (in_add_thread_le q). pose proof (total_ge in_add_thread ps i p
      (fun x => proj1 (in_add_thread_le x)) Hi). destruct (IH i ltac:(lia) Hi) as [H1 ->].
    assert (in_add_thread q = 0) by lia. assert (creating q = false /\ counting q = 0) as [-> ->]
      by (destruct q; cbn in *; done || lia). split; [done|lia].
Qed.

Lemma safe_inv_init : safe_inv (TaskRunner_init threads_number start_threads).
Proof.
  split; [|done]. cbn. eapply threads_weaken; [apply threads_init|]. by intros id (w & Hw & _).
Qed.

(** Without a meeting, who creates a thread is alone. *)
Lemma apart s : overlap s = false ->
  contended (base s) = false /\
  (existsb creating (producers s) = true -> activator (base s) = None /\ finishing (base s) = false) /\
  (activator (base s) <> None \/ finishing (base s) = true -> uncounted s = 0%nat).
Proof.
  unfold overlap. intros [Hc Ho]%orb_false_iff. split; [done|].
  assert (H1 : existsb creating (producers s) = true ->
    activator (base s) = None /\ finishing (base s) = false).
  { intros E. rewrite E in Ho. cbn in Ho. apply orb_false_iff in Ho as [Ha Hf].
    by destruct (activator (base s)). }
  split; [done|]. intros H2. unfold uncounted.
  destruct (existsb creating (producers s)) eqn:E.
  { destruct (H1 eq_refl) as [Ha Hf]. destruct H2; congruence. }
  clear -E. induction (producers s) as [|q ps IH]; [done|]. cbn [existsb total] in *.
  apply orb_false_iff in E as [Eq E]. assert (counting q = 0) as -> by (by destruct q). auto.
Qed.

Lemma safe_inv_worker s i w s1 w' : safe_inv s -> workers s !! i = Some w ->
  work_step w s = Some (s1, w') -> safe_inv (with_workers (<[i := w']> (workers s1)) s1).
Proof.
  intros [Ht Hr] Hi Hs. destruct (work_step_frame _ _ _ _ Hs) as ([n Eb] & E1 & E2 & _ & _ & _ & Eu & _).
  assert (Hw : unjoined w = true) by (by destruct w).
  split; cbn; unfold uncounted; cbn; rewrite ?E1, ?E2, Eb; [|done]. destruct Ht as [H1 H2 H3].
  split; [|done|done]. eapply slots_frame; [exact H1|done|done|].
  intros id (w0 & Hl & Hu). destruct (decide (i = id)) as [<-|Hne]; [by exists w|].
  rewrite list_lookup_insert_ne in Hl by done. by exists w0.
Qed.

Lemma safe_inv_producer s i p ok s1 p' : queue_inv s -> safe_inv s -> overlap s = false ->
  producers s !! i = Some p -> enqueue_step p ok s = Some (s1, p') ->
  safe_inv (with_producers (<[i := p']> (producers s1)) s1).
Proof.
  intros Hq [Ht Hr] Ho Hi Hs. destruct (apart s Ho) as (_ & Ha & _).
  assert (Hsame : forall s0 q, base s0 = base s -> workers s0 = workers s -> producers s0 = producers s ->
    counting q = counting p ->
    (creating q = creating p \/ (number_running_ (thread_runner_ (base s)) < threads_number)%nat) ->
    safe_inv (with_producers (<[i := q]> (producers s0)) s0)).
  { intros s0 q E1 E2 E3 E4 E5. split; cbn; unfold uncounted; cbn; rewrite ?E1, ?E2, E3.
    - rewrite (total_insert _ _ _ _ _ Hi), E4. by replace (_ - counting p + counting p)
        with (total counting (producers s)) by lia.
    - destruct E5 as [E5|Hn]; [|done]. by rewrite (existsb_insert _ _ _ _ Hi E5). }
  assert (Hroom : (number_running_ (thread_runner_ (base s)) <= threads_number)%nat).
  { destruct Ht as [[_ _ H _ _] _ _]. lia. }
  destruct p as [t|t| |[]| | | | | | | | |]; cbn [TaskRunner.enqueue_step] in Hs; try done;
    cbn [add_thread_start] in Hs.
  - destruct (_ || _); injection Hs as <- <-; by apply Hsame; [..|left].
  - injection Hs as <- <-. destruct ok; by apply Hsame; [..|left].
  - injection Hs as <- <-. case_Z; by apply Hsame; [..|left].
  - injection Hs as <- <-. by apply Hsame; [..|left].
  - unfold add_thread_lock in Hs. destruct (_ <=? _); injection Hs as <- <-; by apply Hsame; [..|left].
  - injection Hs as <- <-. destruct (_ =? _)%nat; by apply Hsame; [..|left].
  - injection Hs as <- <-. destruct (_ =? _)%nat; by apply Hsame; [..|left].
  - injection Hs as <- <-. destruct (Nat.eqb_spec (number_running_ (thread_runner_ (base s))) threads_number);
      [by apply Hsame; [..|left]|]. apply Hsame; [done..|right; lia].
  - destruct (excl_creating s i _ Hq Hi eq_refl) as [_ Ec].
    assert (Ex : existsb creating (producers s) = true).
    { apply existsb_exists. exists PCreate. split; [|done]. apply list_elem_of_In.
      by eapply list_elem_of_lookup_2. }
    destruct (Ha Ex) as [Hact _]. specialize (Hr Ex).
    destruct ok; injection Hs as <- <-; [|apply Hsame; try done; by right].
    split; cbn; unfold uncounted; cbn.
    + rewrite (total_insert _ _ _ _ _ Hi), Ec. cbn. unfold uncounted in Ht. rewrite Ec in Ht.
      eapply threads_weaken; [exact (create_one_threads _ _ _ (length (workers s)) _ Ht Hact Hr)|].
      intros id Hid. by apply (unjoined_event Created) in Hid.
    + intros _. unfold create_thread. by destruct (_ <? _)%nat.
  - destruct (excl_creating s i _ Hq Hi eq_refl) as [_ Ec].
    assert (Ex : existsb creating (producers s) = true).
    { apply existsb_exists. exists PIncrement. split; [|done]. apply list_elem_of_In.
      by eapply list_elem_of_lookup_2. }
    destruct (Ha Ex) as [Hact Hfin]. injection Hs as <- <-. unfold uncounted in Ht. rewrite Ec in Ht.
    split; cbn; unfold uncounted; cbn.
    + rewrite (total_insert _ _ _ _ _ Hi), Ec. cbn. by apply count_one_threads.
    + destruct (none_creating (<[i := PLeave]> (producers s))) as [-> _]; [|done].
      rewrite (total_insert _ _ _ _ _ Hi). pose proof (q_excl _ Hq). cbn. lia.
  - injection Hs as <- <-. by apply Hsame; [..|left].
  - injection Hs as <- <-. by apply Hsame; [..|left].
Qed.

(** The life cycle. *)
Lemma safe_inv_base s c e : threads_ok threads_number START (uncounted s)
    (after e (length (workers s)) (unjoined_ids (workers s))) c ->
  (existsb creating (producers s) = true ->
   number_running_ (thread_runner_ c) = number_running_ (thread_runner_ (base s))) ->
  safe_inv s -> forall n, safe_inv (with_activations n (with_workers (apply_event e (workers s)) (with_base c s))).
Proof.
  intros Ht Hn [_ Hr] n. split; cbn.
  - eapply threads_weaken; [exact Ht|]. intros id. apply unjoined_event.
  - intros H. rewrite (Hn H). by apply Hr.
Qed.

Lemma safe_inv_step s l s' : queue_inv s -> safe_inv s -> overlap s = false ->
  step l s = Some s' -> safe_inv s'.
Proof.
  intros Hq Hs Ho H. destruct (apart s Ho) as (Hc & Ha & Hu).
  pose proof (s_threads _ Hs) as Ht. pose proof (s_room _ Hs) as Hr.
  apply (step_cases _ _ _ _ H). intros _ _. destruct l as [|created| | | | |t|i ok|i].
  - unfold activate. destruct (activate_object (base s)) as [c|] eqn:E; [|done]. intros [= <-].
    apply (safe_inv_base s c Quiet); [by eapply activate_threads| |done]. intros _.
    unfold activate_object in E. repeat case_match; by simplify_eq.
  - unfold start. destruct (activate_step _ _ _ _ _) as [[c e]|] eqn:E; [|done]. intros [= <-].
    assert (Hact : activator (base s) <> None) by (unfold activate_step in E; by destruct (activator _)).
    apply safe_inv_base; [|intros [? _]%Ha; done|done].
    eapply activate_step_threads; [done|done|apply Hu; by left|done].
  - intros (c & E & ->). split; cbn; [by eapply deactivate_threads|]. intros Hx. specialize (Hr Hx).
    unfold deactivate_object in E. repeat case_match; by simplify_eq.
  - intros (c & E & ->). split; cbn; [by eapply wait_threads|]. intros Hx. specialize (Hr Hx).
    unfold wait_object in E. by destruct (waiter (base s)); simplify_eq.
  - unfold wait. destruct (wait_step _ _) as [[c e]|] eqn:E; [|done]. intros [= <-].
    refine (safe_inv_base s c e _ _ Hs (activations s)).
    + eapply wait_step_threads; [done|done| |done]. intros ?. apply Hu. by right.
    + intros Hx. destruct (Ha Hx) as [Hact Hfin]. clear -E Hfin Hact.
      unfold wait_step, finishing in *. rewrite Hact in E.
      destruct (waiter (base s)) as [[|[]| |]|]; try done; cbn in E; repeat case_match; cbn in E; by simplify_eq.
  - intros ->. by destruct Hs.
  - intros ->. split; cbn; unfold uncounted; cbn.
    + rewrite total_app. cbn. by rewrite Z.add_0_r.
    + rewrite existsb_app. cbn. by rewrite orb_false_r.
  - intros (p & s1 & p' & Hi & E & ->). by eapply safe_inv_producer.
  - intros (w & s1 & w' & Hi & E & ->). by eapply safe_inv_worker.
Qed.

Lemma safe_inv_reachable s : reachable s -> safe_inv s.
Proof.
  induction 1 as [|s l s' Hr IH Ho Hs]; [apply safe_inv_init|].
  eapply safe_inv_step; [|done..]. eapply queue_inv_executes, reachable_executes, Hr.
Qed.

(** ** The counter of unused threads *)

(** The activations that have succeeded, of the first and the one going on. *)
Definition completed (s : state) : nat :=
  match activator (base s) with Some _ => pred (activations s) | None => activations s end.

(** Before the first activation has succeeded the threads it starts are counted
    already. *)
Definition first_start (s : state) : Prop :=
  Z.of_nat START + total unused_worker (workers s) + total starting (producers s)
    <= number_of_unused_threads_ s + total alive (workers s) /\
  terminating_ (base s) = false /\ active_state_ (base s) <> AS_DEACTIVATING /\
  (activator (base s) = None -> active_state_ (base s) = AS_NOT_ACTIVE).

Definition counter_inv (s : state) : Prop :=
  (activations s <= 1)%nat ->
  failed s = false /\
  total unused_worker (workers s) + total starting (producers s) <= number_of_unused_threads_ s /\
  (completed s = 0%nat -> first_start s).

(** A working thread gives back what it is counted for, and its [assert]
    holds. *)
Lemma work_step_counter w s s' w' :
  work_step w s = Some (s', w') -> failed s = false ->
  unused_worker w <= number_of_unused_threads_ s ->
  failed s' = false /\
  number_of_unused_threads_ s' - unused_worker w' >= number_of_unused_threads_ s - unused_worker w /\
  (terminating_ (base s) = false ->
   number_of_unused_threads_ s' - unused_worker w' + alive w' =
     number_of_unused_threads_ s - unused_worker w + alive w).
Proof.
  assert (Hg : forall s0 s1 w1, work_get s0 = (s1, w1) -> failed s0 = false ->
    1 <= number_of_unused_threads_ s0 -> failed s1 = false /\ alive w1 = 1 /\
    number_of_unused_threads_ s1 - unused_worker w1 = number_of_unused_threads_ s0 - 1).
  { intros s0 s1 w1. unfold work_get. destruct (tasks_ s0) as [|t ts].
    - intros [= <- <-]. cbn. auto.
    - cbn. intros H Hf Hu. revert H. decide_Z. intros [= <- <-]. cbn. split; [done|]. split; [done|].
      unfold decrement. decide_Z. lia. }
  destruct w as [g|inc| | | |]; cbn [work_step]; intros H Hf Hu; [|injection H as H..| |done|done].
  - destruct g; cbn in H; [destruct (start_semaphore_ _); [done|]|..]; injection H as <- <-;
      [..|destruct (interrupt_start_ _)]; cbn in *; (split; [done|lia]).
  - unfold work_enter in H. cbn in H. destruct (terminating_ (base s)) eqn:Et.
    + injection H as <- <-. destruct inc; cbn in *; (split; [done|]);
        unfold decrement; decide_Z; (split; [lia|congruence]).
    + apply Hg in H; [|done|destruct inc; cbn in *; lia]. destruct H as (H1 & H2 & H3). split; [done|].
      destruct inc; cbn in *; lia.
  - unfold work_wake in H. cbn in H. destruct (terminating_ (base s)) eqn:Et.
    + injection H as <- <-. cbn in *. split; [done|]. unfold decrement. decide_Z.
      split; [lia|congruence].
    + apply Hg in H; [|done|cbn in *; lia]. destruct H as (H1 & H2 & H3). split; [done|]. cbn in *. lia.
  - injection H as <- <-. cbn. split; [done|lia].
Qed.

Lemma enqueue_step_counter p ok s s' p' :
  enqueue_step p ok s = Some (s', p') -> starting p <= number_of_unused_threads_ s ->
  failed s' = failed s /\ activations s' = activations s /\ producers s' = producers s /\
  activator (base s') = activator (base s) /\ active_state_ (base s') = active_state_ (base s) /\
  terminating_ (base s') = terminating_ (base s) /\
  total unused_worker (workers s') + starting p' + number_of_unused_threads_ s <=
    total unused_worker (workers s) + starting p + number_of_unused_threads_ s' /\
  total alive (workers s) <= total alive (workers s').
Proof.
  destruct p as [t|t| |[]| | | | | | | | |]; cbn [TaskRunner.enqueue_step add_thread_start]; intros H Hu; try done;
    unfold add_thread_lock in H; cbn [starting] in Hu; repeat case_match; simplify_eq;
    cbn [failed activations producers base workers number_of_unused_threads_ with_unused with_base with_workers
         with_adding with_tasks starting apply_event]; repeat (split; [done|]);
    rewrite ?total_app; cbn [total unused_worker alive]; unfold decrement; decide_Z; lia.
Qed.

(** A join concerns a thread that has returned. *)
Lemma join_step_event s j r r' j' e : join_step (ended s) j r = Some (r', j', e) ->
  match e with Quiet => True | Created => False | Joined id => workers s !! id = Some WDone end.
Proof.
  unfold ended. destruct j; cbn; intros H; repeat case_match; by simplify_eq.
Qed.

Lemma quiet_event (s : state) e (f : worker -> Z) : f WJoined = f WDone ->
  match e with Quiet => True | Created => False | Joined id => workers s !! id = Some WDone end ->
  total f (apply_event e (workers s)) = total f (workers s).
Proof.
  intros Hf He. destruct e as [| |id]; [done|done|]. cbn [apply_event].
  rewrite (total_insert _ _ _ _ _ He). lia.
Qed.

(** When the first activation creates a thread, fewer than [START] are alive. *)
Lemma first_alive s : safe_inv s -> overlap s = false -> activator (base s) = Some SCreate ->
  total alive (workers s) < Z.of_nat START.
Proof.
  intros Hs Ho Ea. destruct (apart s Ho) as (_ & _ & Hu). pose proof (s_threads _ Hs) as [H1 H2 _].
  unfold starting_one in H1. rewrite Ea, Hu in H1 by (left; congruence).
  specialize (H2 _ Ea). cbn in H2.
  pose proof (slots_count _ _ _ _ _ unjoined (workers s) H1) as Hc.
  assert (Hlen : (length (filter unjoined (workers s)) <=
    number_running_ (thread_runner_ (base s)) + 0 + 0)%nat).
  { apply Hc. intros id w Hw Hj. by exists w. }
  pose proof (total_alive (workers s)).
  assert (Hst : (0 < START)%nat) by (unfold TaskRunner.START; lia).
  pose proof (proj2 (to_start_le threads_number START) Hst). lia.
Qed.

(** An activation that goes on is counted. *)
Lemma activator_counted s : executes s -> activator (base s) <> None -> (1 <= activations s)%nat.
Proof.
  induction 1 as [|s l s' _ IH H]; [done|]. revert H. intros H. apply (step_cases _ _ _ _ H).
  intros _ _. clear H. destruct l as [|created| | | | |t|i ok|i].
  - unfold activate. destruct (activate_object _) as [c|]; [|done]. intros [= <-]. cbn.
    destruct (activator c); [lia|done].
  - unfold start, activate_step. destruct (activator (base s)) as [p|]; [|done].
    specialize (IH ltac:(done)).
    destruct p; try (destruct (start_step _ _ _ _ _ _) as [[[r p'] e]|]; [|done]);
      cbn; intros [= <-]; done.
  - intros (c & E & ->). unfold deactivate_object in E. destruct (activator (base s)) eqn:Ea; [done|].
    injection E as <-. by destruct (active_state_ (base s)); cbn; rewrite Ea.
  - intros (c & E & ->). unfold wait_object in E. by destruct (waiter (base s)); simplify_eq.
  - unfold wait, wait_step. destruct (waiter (base s)) as [[|j| |]|]; [..|done];
      [|destruct (join_step _ _ _) as [[[r j'] e]|]; [|done]| |
       destruct (activator (base s)) eqn:Ea; [done|]]; cbn; intros [= <-]; [done..|].
    by destruct (active_state_ (base s)); cbn; rewrite Ea.
  - by intros ->.
  - by intros ->.
  - intros (p & s1 & p' & Hi & E & ->). cbn.
    assert (activator (base s1) = activator (base s) /\ activations s1 = activations s) as [-> ->].
    { destruct p as [t|t| |[]| | | | | | | | |]; cbn [TaskRunner.enqueue_step add_thread_start] in E;
        unfold add_thread_lock in E; repeat case_match; by simplify_eq. }
    done.
  - intros (w & s1 & w' & Hi & E & ->). cbn.
    destruct (work_step_frame _ _ _ _ E) as ([n ->] & _ & _ & _ & _ & -> & _). done.
Qed.

Lemma counter_inv_start s created s' : executes s -> safe_inv s -> overlap s = false -> counter_inv s ->
  failed s = false -> start start_threads created s = Some s' -> counter_inv s'.
Proof.
  intros He Hs Ho Hc Ef H. pose proof (activator_counted s He) as Hcount. unfold start in H.
  destruct (activate_step _ _ _ _ _) as [[c e]|] eqn:E; [|done]. cbn in H. injection H as <-.
  unfold activate_step in E. destruct (activator (base s)) as [p|] eqn:Ea; [|done].
  assert (Hquiet : p <> SThrown -> p <> SReturned ->
    match e with Quiet => True | Created => False | Joined id => workers s !! id = Some WDone end ->
    activator c <> None -> active_state_ c = active_state_ (base s) ->
    terminating_ c = terminating_ (base s) ->
    counter_inv (with_activations (match p, activations s with SThrown, 1%nat => 0%nat | _, n => n end)
      (with_workers (apply_event e (workers s)) (with_base c s)))).
  { intros Hp1 Hp2 Hev H1 H2 H3 Ha'. unfold completed, first_start in *. cbn in *.
    assert (Ea' : (match p, activations s with SThrown, 1%nat => 0%nat | _, n => n end) = activations s)
      by (by destruct p). rewrite Ea' in *. destruct (Hc Ha') as (_ & Hle & Hfirst).
    rewrite !(quiet_event s e) by done. split; [done|]. split; [done|].
    unfold completed, first_start in Hfirst. rewrite Ea in Hfirst.
    destruct (activator c); [|done]. intros Hz. destruct (Hfirst Hz) as (F1 & F2 & F3 & F4).
    rewrite H2, H3. repeat split; done. }
  destruct p.
  all: try (destruct (start_step _ _ _ _ _ _) as [[[r p'] e0]|] eqn:E0; [|done]; cbn in E;
    injection E as <- <-; cbn [start_step] in E0).
  - apply Hquiet; try done. by destruct (_ =? _)%nat; simplify_eq.
  - apply Hquiet; try done. by simplify_eq.
  - destruct created; injection E0 as <- <- <-; [|by apply Hquiet].
    pose proof (first_alive s Hs Ho Ea) as Hal. intros Ha'. cbn in Ha'.
    destruct (Hc Ha') as (_ & Hle & Hfirst). unfold completed, first_start in *. cbn in *.
    rewrite Ea in Hfirst. destruct (Hfirst ltac:(lia)) as (F1 & F2 & F3 & F4).
    rewrite !total_app. cbn. split; [done|]. split; [lia|]. intros _. by split; [lia|].
  - apply Hquiet; try done. by simplify_eq.
  - apply Hquiet; try done. by simplify_eq.
  - apply Hquiet; try done. by simplify_eq.
  - destruct (join_step _ _ _) as [[[r1 j1] e1]|] eqn:Ej; [|done]. cbn in E0. injection E0 as <- <- <-.
    apply Hquiet; try done. by eapply join_step_event.
  - injection E as <- <-. intros Ha'. cbn in Ha'. destruct (Hc Ha') as (_ & Hle & _).
    unfold completed. cbn. split; [done|]. split; [done|]. specialize (Hcount ltac:(done)). lia.
  - injection E as <- <-. specialize (Hcount ltac:(done)).
    destruct (activations s) as [|[|n]] eqn:En; [lia| |intros Ha'; cbn in Ha'; lia].
    intros _. destruct (Hc ltac:(lia)) as (_ & Hle & Hfirst). unfold completed, first_start in *. cbn.
    rewrite Ea, En in Hfirst. destruct (Hfirst eq_refl) as (F1 & F2 & _). repeat split; done.
Qed.

Lemma counter_inv_step s l s' : executes s -> safe_inv s -> overlap s = false -> counter_inv s ->
  step l s = Some s' -> counter_inv s'.
Proof.
  intros He Hs Ho Hc H. apply (step_cases _ _ _ _ H). intros Ef _. clear H.
  pose proof (total_nonneg unused_worker (workers s) unused_worker_nonneg) as Hwn.
  pose proof (total_nonneg starting (producers s) starting_nonneg) as Hpn.
  destruct l as [|created| | | | |t|i ok|i].
  - unfold activate, activate_object. destruct (activator (base s)) eqn:Ea; [done|].
    destruct (active_state_ (base s)) eqn:Est; intros [= <-]; cbn; rewrite ?Ea; [exact Hc|exact Hc|].
    intros Ha'. cbn in Ha'. destruct (Hc ltac:(lia)) as (_ & Hle & Hfirst).
    unfold completed, first_start in *. rewrite Ea in Hfirst. cbn. split; [done|]. split; [done|].
    intros Hz. destruct (Hfirst Hz) as (F1 & F2 & _). repeat split; done.
  - by apply counter_inv_start.
  - intros (c & E & ->) Ha'. destruct (Hc Ha') as (_ & Hle & Hfirst). cbn in *.
    unfold deactivate_object in E. destruct (activator (base s)) eqn:Ea; [done|]. injection E as <-.
    unfold completed, first_start in *. cbn. rewrite Ea in Hfirst. split; [done|]. split; [done|].
    destruct (active_state_ (base s)) eqn:Est; cbn; rewrite ?Ea, ?Est; [|done|done].
    intros Hz. destruct (Hfirst Hz) as (_ & _ & _ & F4). by discriminate F4.
  - intros (c & E & ->) Ha'. destruct (Hc Ha') as (_ & Hle & Hfirst).
    unfold wait_object in E. destruct (waiter (base s)); [done|]. by injection E as <-.
  - unfold wait, wait_step. intros H Ha'.
    destruct (waiter (base s)) as [[|j| |]|]; [..|done].
    + injection H as <-. by apply Hc.
    + destruct (join_step _ _ _) as [[[r j'] e]|] eqn:Ej; [|done]. injection H as <-.
      pose proof (join_step_event _ _ _ _ _ _ Ej) as Hev. destruct (Hc Ha') as (_ & Hle & Hfirst).
      unfold completed, first_start in *. cbn. rewrite !(quiet_event s e) by done. done.
    + injection H as <-. destruct (Hc Ha') as (_ & Hle & Hfirst). split; [done|]. split; [done|].
      unfold completed, first_start in *. cbn. intros Hz. destruct (Hfirst Hz) as (F1 & F2 & F3). split; [done|split; done].
    + destruct (activator (base s)) eqn:Ea; [done|]. injection H as <-.
      destruct (Hc Ha') as (_ & Hle & Hfirst). split; [done|]. split; [done|].
      unfold completed, first_start in *. rewrite Ea in Hfirst. cbn.
      destruct (active_state_ (base s)) eqn:Est; cbn; rewrite ?Ea, ?Est; try done.
      intros Hz. by destruct (Hfirst Hz) as (_ & _ & F3 & _).
  - intros ->. exact Hc.
  - intros -> Ha'. destruct (Hc Ha') as (_ & Hle & Hfirst). unfold completed, first_start in *. cbn.
    rewrite total_app. cbn. rewrite Z.add_0_r. done.
  - intros (p & s1 & p' & Hi & E & ->) Ha'. cbn in Ha'.
    pose proof (total_ge starting _ _ _ starting_nonneg Hi) as Hp.
    assert (Ha1 : activations s1 = activations s).
    { clear - E. destruct p as [t|t| |[]| | | | | | | | |]; cbn [TaskRunner.enqueue_step add_thread_start] in E;
        unfold add_thread_lock in E; repeat case_match; by simplify_eq. }
    rewrite Ha1 in Ha'. destruct (Hc Ha') as (_ & Hle & Hfirst).
    destruct (enqueue_step_counter _ _ _ _ _ E ltac:(lia)) as (E1 & _ & E3 & E4 & E5 & E6 & E7 & E8).
    unfold completed, first_start in *. cbn. rewrite E1, Ha1, E3, E4, E5, E6, (total_insert _ _ _ _ _ Hi).
    split; [done|]. split; [lia|]. intros Hz. destruct (Hfirst Hz) as (F1 & F2 & F3).
    split; [lia|done].
  - intros (w & s1 & w' & Hi & E & ->) Ha'. cbn in Ha'.
    destruct (work_step_frame _ _ _ _ E) as ([n Eb] & E1 & E2 & _ & _ & E6 & _). rewrite E6 in Ha'.
    destruct (Hc Ha') as (_ & Hle & Hfirst).
    pose proof (total_ge unused_worker _ _ _ unused_worker_nonneg Hi) as Hp.
    destruct (work_step_counter _ _ _ _ E Ef ltac:(lia)) as (H1 & H2 & H3).
    unfold completed, first_start in *. cbn. rewrite E1, E2, E6, Eb, !(total_insert _ _ _ _ _ Hi).
    split; [done|]. split; [lia|]. cbn. intros Hz. destruct (Hfirst Hz) as (F1 & F2 & F3).
    specialize (H3 F2). split; [lia|done].
Qed.

Lemma counter_inv_reachable s : reachable s -> counter_inv s.
Proof.
  induction 1 as [|s l s' Hr IH Ho Hs].
  - intros _. split; [done|]. split; [cbn; lia|]. intros _. unfold first_start. cbn. split; [lia|done].
  - eapply counter_inv_step; [by eapply reachable_executes|by apply safe_inv_reachable|done..].
Qed.

(** *** Callers that meet

    When its creation of threads never fails, the activation creates at most
    [START] threads, whoever else creates some: [K] is how many it has created.
    Until the first activation is over no thread ends, so nobody resets their
    number. *)

Record first_phase (K : nat) (s : state) : Prop := {
  fp_terminating : terminating_ (base s) = false;
  fp_state : active_state_ (base s) <> AS_DEACTIVATING /\
    (activator (base s) = None -> active_state_ (base s) = AS_NOT_ACTIVE);
  fp_interrupt : interrupt_start_ (thread_runner_ (base s)) = false;
  fp_workers : Forall (fun w => w <> WDone) (workers s);
  fp_waiter : match waiter (base s) with
    | Some (VWait JCheck) | Some (VWait (JJoin 0)) => True
    | Some (VWait (JLoop 0)) => (0 < number_running_ (thread_runner_ (base s)))%nat
    | Some (VWait _) => False
    | _ => True
    end;
  fp_created : match activator (base s) with
    | None | Some SCheck | Some SThrown => K = 0%nat
    | Some SLoop => (K <= number_running_ (thread_runner_ (base s)))%nat
    | Some SCreate => (K <= number_running_ (thread_runner_ (base s)) /\ K < START)%nat
    | Some SIncrement => (K <= S (number_running_ (thread_runner_ (base s))))%nat
    | Some SRelease | Some SReturned => True
    | _ => False
    end
}.

Definition race_inv (s : state) : Prop :=
  (activations s <= 1)%nat ->
  failed s = false /\
  exists K, (K <= START)%nat /\
    Z.of_nat START - Z.of_nat K + total unused_worker (workers s) + total starting (producers s)
      <= number_of_unused_threads_ s /\
    (completed s = 0%nat -> first_phase K s).

(** What the steps of others leave of the phase. *)
Lemma first_phase_frame K s s' : first_phase K s ->
  terminating_ (base s') = terminating_ (base s) -> active_state_ (base s') = active_state_ (base s) ->
  activator (base s') = activator (base s) -> waiter (base s') = waiter (base s) ->
  interrupt_start_ (thread_runner_ (base s')) = interrupt_start_ (thread_runner_ (base s)) ->
  (number_running_ (thread_runner_ (base s)) <= number_running_ (thread_runner_ (base s')))%nat ->
  Forall (fun w => w <> WDone) (workers s') -> first_phase K s'.
Proof.
  intros [H1 H2 H3 H4 H5 H6] E1 E2 E3 E4 E5 Hn Hw. split; rewrite ?E1, ?E2, ?E3, ?E4, ?E5; try done.
  - destruct (waiter (base s)) as [[|[|[|]|[|]| | |]| |]|]; try done. lia.
  - destruct (activator (base s)) as [[]|]; try done; lia.
Qed.

Lemma enqueue_step_phase K p ok s s' p' : enqueue_step p ok s = Some (s', p') -> first_phase K s -> first_phase K s'.
Proof.
  intros H Hp. pose proof (fp_workers _ _ Hp) as Hw. apply (first_phase_frame K s); [done|..];
    destruct p as [t|t| |[]| | | | | | | | |]; cbn [TaskRunner.enqueue_step add_thread_start] in H; try done;
    unfold add_thread_lock, create_thread in H; repeat case_match; simplify_eq; cbn; try done; try lia;
    (apply Forall_app_2; [done|by apply Forall_singleton]).
Qed.

Lemma work_step_phase K i w s s' w' : work_step w s = Some (s', w') -> first_phase K s ->
  first_phase K (with_workers (<[i := w']> (workers s')) s').
Proof.
  intros H Hp. destruct (work_step_frame _ _ _ _ H) as ([n Eb] & Ew & _).
  apply (first_phase_frame K s); cbn; rewrite ?Eb, ?Ew; try done.
  apply Forall_insert; [apply Hp|]. pose proof (fp_terminating _ _ Hp) as Ht. pose proof (fp_interrupt _ _ Hp) as Hi.
  assert (Hg : forall s0, (work_get s0).2 <> WDone) by (intros s0; unfold work_get; by repeat case_match).
  destruct w as [g|inc| | | |]; cbn [work_step] in H; [|injection H as H..| |done|done].
  - destruct g; cbn in H; rewrite ?Hi in H; [destruct (start_semaphore_ _); [done|]|..]; by injection H as _ <-.
  - unfold work_enter in H. cbn in H. rewrite Ht in H. apply (f_equal snd) in H. cbn [snd] in H. by rewrite <- H.
  - unfold work_wake in H. cbn in H. rewrite Ht in H. apply (f_equal snd) in H. cbn [snd] in H. by rewrite <- H.
  - by injection H as _ <-.
Qed.

Lemma wait_phase K s s' : wait s = Some s' -> first_phase K s ->
  first_phase K s' /\ workers s' = workers s.
Proof.
  intros H Hp. pose proof Hp as [H1 [H2 H2'] H3 H4 H5 H6]. unfold wait, wait_step in H.
  destruct (waiter (base s)) as [[|j| |]|] eqn:Ew; [..|done].
  - injection H as <-. split; [|done]. split; cbn; try done. by destruct (decide _).
  - destruct j as [|[|i]|[|i]| | |]; try done; cbn in H.
    + destruct (Nat.eqb_spec (number_running_ (thread_runner_ (base s))) 0); injection H as <-; cbn; (split; [|done]); split; cbn; done || lia.
    + destruct (number_running_ (thread_runner_ (base s))) as [|n] eqn:En; [lia|]. injection H as <-. split; [|done].
      split; cbn; by rewrite ?En.
    + destruct (jobs_ (thread_runner_ (base s)) !! 0%nat) as [[id|]|]; cbn in H.
      * assert (Ee : ended s id = false).
        { unfold ended. destruct (workers s !! id) as [[]|] eqn:Ei; try done. by destruct (proj1 (Forall_lookup _ _) H4 id WDone Ei). }
        by rewrite Ee in H.
      * injection H as <-. split; [|done]. by split.
      * injection H as <-. split; [|done]. by split.
  - injection H as <-. split; [|done]. by split.
  - destruct (activator (base s)) eqn:Ea; [done|]. injection H as <-. split; [|done]. specialize (H2' eq_refl).
    split; cbn; rewrite ?H2'; cbn; rewrite ?Ea; try done.
Qed.

(** A step of the activation in its first phase; [d] threads are created. *)
Lemma start_phase K s s' : start start_threads true s = Some s' -> (activations s <= 1)%nat -> first_phase K s ->
  activator (base s) <> Some SReturned ->
  exists d, number_of_unused_threads_ s' = number_of_unused_threads_ s /\ producers s' = producers s /\
    total unused_worker (workers s') = total unused_worker (workers s) + Z.of_nat d /\
    failed s' = failed s /\ (d + K <= START \/ d = 0)%nat /\ first_phase (d + K) s'.
Proof.
  intros H Ha Hp Hr. pose proof Hp as [H1 [H2 H2'] H3 H4 H5 H6]. unfold start, activate_step in H.
  assert (Hst : (0 < START)%nat) by (unfold TaskRunner.START; lia).
  destruct (activator (base s)) as [[]|] eqn:Ea; try done; cbn -[Nat.ltb] in H.
  - exists 0%nat. destruct (Nat.eqb_spec (number_running_ (thread_runner_ (base s))) 0); injection H as <-; cbn;
      repeat (split; [done || lia|]); split; cbn; try done; lia.
  - exists 0%nat. set (limit := threads_to_start _ _) in H.
    pose proof (proj2 (to_start_le (length (jobs_ (thread_runner_ (base s)))) START) Hst : (limit <= _)%nat).
    destruct (Nat.ltb_spec (number_running_ (thread_runner_ (base s))) limit); injection H as <-; cbn;
      repeat (split; [done || lia|]); split; cbn; try done; lia.
  - exists 1%nat. injection H as <-. cbn. rewrite total_app. cbn. repeat (split; [done || lia|]).
    unfold create_thread. destruct (_ <? _)%nat; split; cbn; try done; try lia;
      (apply Forall_app_2; [done|by apply Forall_singleton]).
  - exists 0%nat. injection H as <-. cbn. repeat (split; [done || lia|]). split; cbn; try done; try lia.
    destruct (waiter (base s)) as [[|[|[|]|[|]| | |]| |]|]; done || lia.
  - exists 0%nat. injection H as <-. cbn. repeat (split; [done || lia|]). by split.
  - exists 0%nat. injection H as <-. cbn. repeat (split; [done || lia|]). split; cbn; done.
Qed.

Lemma race_inv_step s l s' : executes s -> race_inv s -> l <> LStart false -> step l s = Some s' -> race_inv s'.
Proof.
  intros He Hc Hl H. apply (step_cases _ _ _ _ H). intros Ef _. clear H.
  pose proof (activator_counted s He) as Hcount.
  pose proof (total_nonneg unused_worker (workers s) unused_worker_nonneg) as Hwn.
  pose proof (total_nonneg starting (producers s) starting_nonneg) as Hpn.
  destruct l as [|[|]| | | | |t|i ok|i]; try done.
  - unfold activate, activate_object. destruct (activator (base s)) eqn:Ea; [done|].
    assert (Hid : with_activations (activations s) (with_base (base s) s) = s) by (by destruct s).
    destruct (active_state_ (base s)) eqn:Est; intros [= <-]; cbn; rewrite ?Ea, ?Hid; [exact Hc|exact Hc|].
    intros Ha'. cbn in Ha'. destruct (Hc ltac:(lia)) as (_ & K & HK & Hle & Hp). split; [done|]. exists K.
    split; [done|]. split; [done|]. intros _. unfold completed in Hp. rewrite Ea in Hp.
    destruct (Hp ltac:(lia)) as [H1 H2 H3 H4 H5 H6]. rewrite Ea in H6. by split.
  - intros H Ha'. assert (Hact : activator (base s) <> None) by (intros E; unfold start, activate_step in H; by rewrite E in H).
    specialize (Hcount Hact).
    assert (Ha : (activations s <= 1)%nat).
    { unfold start in H. destruct (activate_step _ _ _ _ _) as [[c e]|]; [|done]. injection H as <-. cbn in Ha'.
      destruct (activator (base s)) as [[]|], (activations s) as [|[|n]]; cbn in Ha'; lia. }
    destruct (Hc Ha) as (_ & K & HK & Hle & Hp). assert (Hz : completed s = 0%nat).
    { unfold completed. destruct (activator (base s)); [lia|done]. }
    specialize (Hp Hz). assert (Er : activator (base s) = Some SReturned \/ activator (base s) <> Some SReturned)
      by (destruct (activator (base s)) as [[]|]; by auto). destruct Er as [Er|Er].
    + unfold start, activate_step in H. rewrite Er in H. injection H as <-. cbn. split; [done|]. exists K.
      split; [done|]. split; [done|]. unfold completed. cbn. lia.
    + destruct (start_phase K s s' H Ha Hp Er) as (d & E1 & E2 & E3 & E4 & Hd & Hp'). split; [by rewrite E4|].
      exists (d + K)%nat. rewrite E1, E2, E3. split; [lia|]. split; [lia|]. done.
  - intros (c & E & ->) Ha'. destruct (Hc Ha') as (_ & K & HK & Hle & Hp). split; [done|]. exists K. split; [done|].
    split; [done|]. unfold deactivate_object in E. destruct (activator (base s)) eqn:Ea; [done|]. injection E as <-.
    unfold completed in *. cbn. rewrite Ea in Hp. destruct (active_state_ (base s)) eqn:Est; cbn; rewrite ?Ea; intros Hz;
      destruct (Hp Hz) as [H1 [H2 H2'] H3 H4 H5 H6]; [by specialize (H2' Ea); rewrite Est in H2'|..]; split; cbn; try done.
  - intros (c & E & ->) Ha'. destruct (Hc Ha') as (_ & K & HK & Hle & Hp). split; [done|]. exists K. split; [done|].
    split; [done|]. unfold wait_object in E. destruct (waiter (base s)); [done|]. injection E as <-. intros Hz.
    destruct (Hp Hz) as [H1 [H2 H2'] H3 H4 H5 H6]. by split.
  - intros H Ha'.
    assert (Hev : failed s' = failed s /\ activations s' = activations s /\ producers s' = producers s /\
      number_of_unused_threads_ s' = number_of_unused_threads_ s /\ completed s' = completed s /\
      total unused_worker (workers s') = total unused_worker (workers s)).
    { unfold wait, wait_step in H. destruct (waiter (base s)) as [[|j| |]|]; [..|done];
        [|destruct (join_step _ _ _) as [[[r j'] e]|] eqn:Ej; [|done]| |destruct (activator (base s)) eqn:Ea; [done|]];
        injection H as <-; unfold completed; cbn; [done| |done|by destruct (active_state_ (base s)); cbn; rewrite Ea].
      rewrite (quiet_event s e); [done..|]. by eapply join_step_event. }
    destruct Hev as (E1 & E2 & E3 & E4 & E5 & E6). rewrite E2 in Ha'. destruct (Hc Ha') as (Hf & K & HK & Hle & Hp).
    rewrite E1. split; [done|]. exists K. rewrite E3, E4, E5, E6. split; [done|]. split; [done|]. intros Hz.
    exact (proj1 (wait_phase K s s' H (Hp Hz))).
  - intros -> Ha'. destruct (Hc Ha') as (_ & K & HK & Hle & Hp). split; [done|]. exists K. split; [done|].
    split; [done|]. intros Hz. destruct (Hp Hz). by split.
  - intros -> Ha'. destruct (Hc Ha') as (_ & K & HK & Hle & Hp). split; [done|]. exists K. cbn. rewrite total_app. cbn.
    split; [done|]. split; [lia|]. intros Hz. destruct (Hp Hz). by split.
  - intros (p & s1 & p' & Hi & E & ->) Ha'. cbn in Ha'.
    assert (Ha1 : activations s1 = activations s).
    { clear - E. destruct p as [t|t| |[]| | | | | | | | |]; cbn [TaskRunner.enqueue_step add_thread_start] in E;
        unfold add_thread_lock in E; repeat case_match; by simplify_eq. }
    rewrite Ha1 in Ha'. destruct (Hc Ha') as (_ & K & HK & Hle & Hp).
    pose proof (total_ge starting _ _ _ starting_nonneg Hi) as Hs.
    destruct (enqueue_step_counter _ _ _ _ _ E ltac:(lia)) as (E1 & _ & E3 & E4 & _ & _ & E7 & _).
    cbn. rewrite E1. split; [done|]. exists K. rewrite E3, (total_insert _ _ _ _ _ Hi). split; [done|]. split; [lia|].
    unfold completed. cbn. rewrite E4, Ha1. intros Hz. destruct (enqueue_step_phase K _ _ _ _ _ E (Hp Hz)). by split.
  - intros (w & s1 & w' & Hi & E & ->) Ha'. cbn in Ha'.
    destruct (work_step_frame _ _ _ _ E) as ([n Eb] & E1 & E2 & _ & _ & E6 & _). rewrite E6 in Ha'.
    destruct (Hc Ha') as (_ & K & HK & Hle & Hp).
    pose proof (total_ge unused_worker _ _ _ unused_worker_nonneg Hi) as Hs.
    destruct (work_step_counter _ _ _ _ E Ef ltac:(lia)) as (H1 & H2 & _).
    cbn. split; [done|]. exists K. rewrite E1, E2, (total_insert _ _ _ _ _ Hi). split; [done|]. split; [lia|].
    unfold completed. cbn. rewrite E6, Eb. intros Hz. rewrite <- E1. by apply (work_step_phase K i w s s1 w' E), Hp.
Qed.

Lemma race_inv_creates_all s : creates_all s -> race_inv s.
Proof.
  induction 1 as [|s l s' Hr IH Hl Hs]; [|by eapply race_inv_step; [apply creates_all_executes|..]].
  intros _. split; [done|]. exists 0%nat. cbn. split; [lia|]. split; [lia|]. intros _. by split.
Qed.

End RunnerFacts.

(** ** Properties *)

(** C1: however the calls and the threads interleave, the tasks leave the queue
    in the order they were put into it and none is lost or taken twice, the
    queue never exceeds its limit and at most one caller at a time is in
    [add_thread_i_].  As long as no two callers meet inside the thread runner
    (see [overlap]) there are never more threads than [threads_number], no slot
    outside the array is written and only existing threads are joined. *)
Theorem TaskRunner_queue (threads_number max_pending_tasks start_threads : nat) (s : state) :
  executes threads_number max_pending_tasks start_threads s ->
  enqueued s = map fst (out s) ++ tasks_ s /\
  ((0 < max_pending_tasks)%nat -> (length (tasks_ s) <= max_pending_tasks)%nat) /\
  total in_add_thread (producers s) <= 1 /\
  (reachable threads_number max_pending_tasks start_threads s ->
   (length (filter unjoined (workers s)) <= threads_number)%nat /\
   undefined (thread_runner_ (base s)) = false).
Proof.
  intros He. destruct (queue_inv_executes _ _ _ s He) as [Hf Hb _ Hx].
  split; [done|]. split; [done|]. split; [done|]. intros Hr.
  destruct (safe_inv_reachable _ _ _ s Hr) as [[Hs _ _] _]. split; [|apply Hs].
  etrans; [|apply Hs]. eapply slots_count; [exact Hs|]. intros id w Hw Hu. by exists w.
Qed.

(** One caller, two working threads. *)
Definition sample_run : list label :=
  [LActivate] ++ replicate 10 (LStart true) ++
  [LCall 7%nat; LProducer 0 true; LCall 8%nat; LProducer 1 true] ++
  replicate 4 (LWorker 0) ++ replicate 4 (LWorker 1) ++ [LProducer 0 true].

Lemma TaskRunner_queue_witness :
  exists s, run 4 2 2 sample_run (TaskRunner_init 4 2) = Some s /\
    enqueued s = map fst (out s) ++ tasks_ s /\ out s = [(7%nat, Taken); (8%nat, Taken)] /\
    (length (filter unjoined (workers s)) <= 4)%nat.
Proof.
  destruct (run_apart 4 2 2 sample_run (TaskRunner_init 4 2)) as [s|] eqn:E; [|by vm_compute in E].
  assert (Hr : reachable 4 2 2 s) by (eapply run_reachable; [apply reach_init|exact E]).
  destruct (TaskRunner_queue 4 2 2 s (reachable_executes _ _ _ s Hr)) as (H1 & _ & _ & H2).
  exists s. split; [vm_compute in E; injection E as <-; vm_compute; reflexivity|].
  split; [exact H1|]. split; [|apply (H2 Hr)]. vm_compute in E. by injection E as <-.
Defined.

(** C2: in the first life of the runner the counter of unused threads covers
    every thread that waits or is about to look for a task, so the [assert] of
    [work] never fails and the counter never falls below zero: in every execution
    in which the activation does not fail to create a thread, whoever meets inside
    the thread runner, and in every execution in which no two callers meet there,
    with failed activations too. *)
Theorem TaskRunner_no_assert (threads_number max_pending_tasks start_threads : nat) (s : state) :
  creates_all threads_number max_pending_tasks start_threads s \/
    reachable threads_number max_pending_tasks start_threads s -> (activations s <= 1)%nat ->
  failed s = false /\
  0 <= total unused_worker (workers s) <= number_of_unused_threads_ s.
Proof.
  intros Hr Ha. pose proof (total_nonneg unused_worker (workers s) unused_worker_nonneg).
  pose proof (total_nonneg starting (producers s) starting_nonneg). destruct Hr as [Hr|Hr].
  - destruct (race_inv_creates_all _ _ _ s Hr Ha) as (Hf & K & HK & Hle & _). split; [done|]. lia.
  - destruct (counter_inv_reachable _ _ _ s Hr Ha) as (Hf & Hle & _). split; [done|]. lia.
Qed.

Lemma TaskRunner_no_assert_witness :
  exists s, run 4 2 2 sample_run (TaskRunner_init 4 2) = Some s /\ failed s = false.
Proof.
  destruct (run_apart 4 2 2 sample_run (TaskRunner_init 4 2)) as [s|] eqn:E; [|by vm_compute in E].
  exists s. split; [vm_compute in E; injection E as <-; vm_compute; reflexivity|].
  apply (TaskRunner_no_assert 4 2 2 s).
  - right. eapply run_reachable; [apply reach_init|exact E].
  - vm_compute in E. injection E as <-. cbn. lia.
Defined.

(** A life of the runner with one thread: activation, deactivation, waiting. *)
Definition first_life : list label :=
  [LActivate] ++ replicate 7 (LStart true) ++ [LDeactivate] ++ replicate 4 (LWorker 0) ++
  [LWait] ++ replicate 9 LWaiter.

(** A second activation breaks the counter: its threads enter [work] as
    already counted, but the threads of the first life have taken their count
    away, so the first task of the second life fails the [assert] (and without
    it the counter wraps around).  A task put before the first activation also
    leaves a thread counted that does not exist. *)
Theorem TaskRunner_reactivation :
  (exists s, run 1 0 1 (first_life ++ [LActivate] ++ replicate 7 (LStart true) ++
       [LCall 7%nat; LProducer 0 true] ++ replicate 4 (LWorker 1))
     (TaskRunner_init 1 1) = Some s /\ failed s = true) /\
  (exists s, run 2 0 1 ([LCall 1%nat; LProducer 0 true; LCall 2%nat; LProducer 1 true;
       LCall 3%nat; LProducer 2 true; LProducer 2 true; LProducer 2 true; LProducer 2 true;
       LProducer 2 true; LActivate] ++ replicate 7 (LStart true)) (TaskRunner_init 2 1) = Some s /\
     total unused_worker (workers s) + 1 = number_of_unused_threads_ s /\
     total starting (producers s) = 0).
Proof. split; eexists; (split; [vm_compute; reflexivity|]); done. Qed.

(** Tasks are put while the activation has started one of two threads. *)
Definition crossing : list label :=
  [LActivate] ++ replicate 5 (LStart true) ++
  [LCall 1%nat; LProducer 0 true; LCall 2%nat; LProducer 1 true; LCall 3%nat; LProducer 2 true;
   LCall 4%nat] ++ replicate 6 (LProducer 3 true) ++ [LStart true; LProducer 3 true; LProducer 3 true].

(** The caller creates its thread in the slot the activation uses next.  Three
    threads exist where two are allowed, and the next one is created outside
    the array. *)
Theorem TaskRunner_overlap :
  (exists s, run 2 0 2 crossing (TaskRunner_init 2 2) = Some s /\
     length (filter unjoined (workers s)) = 3%nat) /\
  (exists s, run 2 0 2 (crossing ++ [LStart true; LProducer 3 true; LCall 5%nat] ++
       replicate 7 (LProducer 4 true)) (TaskRunner_init 2 2) = Some s /\
     undefined (thread_runner_ (base s)) = true).
Proof. split; eexists; (split; [vm_compute; reflexivity|]); done. Qed.

(** The first creation of a thread fails: [start] releases the semaphore and
    waits for no thread, so the semaphore stays open and the threads of the next
    activation work before they are all created. *)
Theorem start_semaphore_stays_open :
  exists s, run 2 0 2
    ([LActivate; LStart true; LStart true; LStart false] ++ replicate 3 (LStart true) ++
     [LActivate] ++ replicate 3 (LStart true) ++ replicate 4 (LWorker 0))
    (TaskRunner_init 2 2) = Some s /\
    activator (base s) = Some SIncrement /\ workers s = [WWait].
Proof. eexists. split; [vm_compute; reflexivity|]. done. Qed.
