(* ===== verification/Scheduler.v ===== *)
(** * Scheduler: the planner of timed goals

    Models [Planner] and [PlannerJob] ([src/Generics/Scheduler.cpp]) over the life
    cycle of [CommonImpl] and the thread of [ThreadRunner], as a transition system
    over all interleavings of the callers and the working thread.

    A step is what a thread does from one acquisition of the mutex to the next,
    to a reading of the clock or to an access to a member without the mutex; the
    readings are labels.  [activate_object] holds the mutex of the planner while
    it starts the thread ([locked]).  A wait ends by a signal, by a timeout or for
    no reason.  [signals] counts the callers that have released the mutex and are
    about to signal the condition.  The ghost fields [scheduled], [delivered] and
    [removed] record the history. *)
From S2P Require Import Prelude Time ActiveObject ThreadRunner CommonImpl.
From Stdlib Require Import Sorted Permutation.
Local Open Scope Z_scope.

(** [TimedMessage]: a time and the goal, which is only compared and called. *)
Definition TimedMessage : Type := (Time * nat)%type.

(** Where the working thread is in [work]. *)
Inductive place : Type :=
| AtGate (g : gate)                      (** in [thread_func_], before [work] *)
| AtTop                                  (** before [get_time_of_day] *)
| AtLock (cur_time : Time)               (** before the first lock *)
| AtCond (pabs_time : option Time)       (** before the lock of the condition *)
| Asleep (pabs_time : option Time)       (** in [timed_wait] *)
| Woken (pabs_time : option Time)        (** signalled, before it has the mutex again *)
| AtWake (pabs_time : Time)              (** before [wake_tm] is read *)
| AtDeliver (pending : list TimedMessage) (cur_time shift : Time)
| NoThread.                              (** has returned, or was not started *)

Record planner : Type := {
  base : common;
  messages_ : list TimedMessage;
  have_new_events_ : bool;
  delivery_time_shift_ : Time;
  thread : place;
  signals : nat;
  scheduled : list TimedMessage;
  delivered : list (TimedMessage * (Time * Time));  (** with the clock and the shift *)
  removed : list TimedMessage
}.

Definition ZERO : Time := mkTime 0 0.

(** ** Updates *)

Definition with_base (c : common) (s : planner) : planner :=
  {| base := c; messages_ := messages_ s;
     have_new_events_ := have_new_events_ s; delivery_time_shift_ := delivery_time_shift_ s;
     thread := thread s; signals := signals s; scheduled := scheduled s;
     delivered := delivered s; removed := removed s |}.

Definition with_thread (p : place) (s : planner) : planner :=
  {| base := base s; messages_ := messages_ s;
     have_new_events_ := have_new_events_ s; delivery_time_shift_ := delivery_time_shift_ s;
     thread := p; signals := signals s; scheduled := scheduled s;
     delivered := delivered s; removed := removed s |}.

Definition with_event (e : bool) (n : nat) (s : planner) : planner :=
  {| base := base s; messages_ := messages_ s;
     have_new_events_ := e; delivery_time_shift_ := delivery_time_shift_ s;
     thread := thread s; signals := n; scheduled := scheduled s;
     delivered := delivered s; removed := removed s |}.

Definition with_messages (ms sch rem : list TimedMessage) (s : planner) : planner :=
  {| base := base s; messages_ := ms;
     have_new_events_ := have_new_events_ s; delivery_time_shift_ := delivery_time_shift_ s;
     thread := thread s; signals := signals s; scheduled := sch;
     delivered := delivered s; removed := rem |}.

Definition with_shift (t : Time) (s : planner) : planner :=
  {| base := base s; messages_ := messages_ s;
     have_new_events_ := have_new_events_ s; delivery_time_shift_ := t;
     thread := thread s; signals := signals s; scheduled := scheduled s;
     delivered := delivered s; removed := removed s |}.

Definition with_delivery (d : TimedMessage * (Time * Time)) (s : planner) : planner :=
  {| base := base s; messages_ := messages_ s;
     have_new_events_ := have_new_events_ s; delivery_time_shift_ := delivery_time_shift_ s;
     thread := thread s; signals := signals s; scheduled := scheduled s;
     delivered := delivered s ++ [d]; removed := removed s |}.

(** ** The callers *)

(** The search of [schedule] goes from the end of the list to the beginning;
    the second result tells that it has reached it. *)
Fixpoint insert_back (rmessages : list TimedMessage) (m : TimedMessage) :
    list TimedMessage * bool :=
  match rmessages with
  | [] => ([m], true)
  | x :: rest =>
    if Time_lt x.1 m.1 then (m :: rmessages, false)
    else let (r, at_begin) := insert_back rest m in (x :: r, at_begin)
  end.

(** [schedule] up to the end of its critical section; [None] is a null goal,
    for which it throws. *)
Definition schedule (goal : option nat) (time : Time) (s : planner) : option planner :=
  match goal with
  | None => None
  | Some g =>
    let m := (if Time_lt ZERO time then time else ZERO, g) in
    let (r, signal) := insert_back (rev (messages_ s)) m in
    let s := with_messages (rev r) (scheduled s ++ [m]) (removed s) s in
    Some (if signal then with_event true (S (signals s)) s else s)
  end.

(** [unschedule], with the number it returns. *)
Definition unschedule (goal : nat) (s : planner) : nat * planner :=
  let gone := filter (fun m => m.2 = goal) (messages_ s) in
  (length gone,
   with_messages (filter (fun m => m.2 <> goal) (messages_ s)) (scheduled s) (removed s ++ gone) s).

Definition clear (s : planner) : planner :=
  with_messages [] (scheduled s) (removed s ++ messages_ s) s.

(** [new_event_in_schedule_.signal()] *)
Definition signal (s : planner) : planner :=
  match thread s with
  | Asleep pabs_time => with_thread (Woken pabs_time) s
  | _ => s
  end.

(** A caller of [activate_object] holds the mutex. *)
Definition locked (s : planner) : bool :=
  match activator (base s) with Some _ => true | None => false end.

(** [deactivate_object] with [make_terminate] and [terminate]. *)
Definition deactivate (s : planner) : option planner :=
  c ← deactivate_object (base s);
  Some (match active_state_ (base s) with
        | AS_ACTIVE => signal (with_event true (signals s) (with_base c s))
        | _ => with_base c s
        end).

(** The working thread has returned. *)
Definition ended (s : planner) (id : nat) : bool :=
  match thread s with NoThread => true | _ => false end.

(** A step of [activate_object] inside [start]; [created] is the result of
    [pthread_create].  The planner has one thread. *)
Definition start (created : bool) (s : planner) : option planner :=
  '(c, e) ← activate_step 0 created (ended s) 0 (base s);
  let s := with_base c s in
  Some (match e with Created => with_thread (AtGate GAcquire) s | _ => s end).

(** A step of [wait_object]. *)
Definition wait (s : planner) : option planner :=
  '(c, _) ← wait_step (ended s) (base s);
  Some (with_base c s).

(** ** The working thread *)

Section Work.
  Context (delivery_time_adjustment_ : bool).

(** The time a message is compared by. *)
Definition due (shift : Time) (time : Time) : Time :=
  if delivery_time_adjustment_ then if Time_lt shift time then Time_sub time shift else ZERO
  else time.

(** The loop that pumps messages to [pending]: the messages taken, the ones
    left and the time of the first of these. *)
Fixpoint pump (cur_time shift : Time) (messages : list TimedMessage) :
    list TimedMessage * list TimedMessage * option Time :=
  match messages with
  | [] => ([], [], None)
  | m :: rest =>
    let abs_time := due shift m.1 in
    if Time_le abs_time cur_time then
      let '(pending, later, pabs_time) := pump cur_time shift rest in
      (m :: pending, later, pabs_time)
    else ([], messages, Some abs_time)
  end.

(** The end of the block that waits, with [new_event_in_schedule]. *)
Definition waited (new_event_in_schedule : bool) (pabs_time : option Time) (s : planner) : planner :=
  if terminating_ (base s) then with_thread NoThread s
  else if new_event_in_schedule then
    let s := with_event false (signals s) s in
    match pabs_time with
    | Some p => if delivery_time_adjustment_ then with_thread (AtWake p) s else with_thread AtTop s
    | None => with_thread AtTop s
    end
  else with_thread AtTop s.

(** A step of the thread; [now] is the reading of the clock where one is taken
    and [ok] the result of [timed_wait]. *)
Definition work_step (now : Time) (ok : bool) (s : planner) : option planner :=
  match thread s with
  | AtGate g =>
    '(r, g') ← gate_step g (thread_runner_ (base s));
    Some (with_thread (match g' with inl g => AtGate g | inr true => AtTop | inr false => NoThread end)
            (with_base (with_runner r (base s)) s))
  | AtTop => Some (with_thread (AtLock now) s)
  | AtLock cur_time =>
    if locked s then None
    else if terminating_ (base s) then Some (with_thread NoThread s)
    else
      let '(pending, later, pabs_time) := pump cur_time (delivery_time_shift_ s) (messages_ s) in
      let s := with_messages later (scheduled s) (removed s) s in
      Some (with_thread
              (match pending with
               | [] => AtCond pabs_time
               | _ => AtDeliver pending cur_time (delivery_time_shift_ s)
               end) s)
  | AtCond pabs_time =>
    if locked s then None
    else Some (if have_new_events_ s then waited true pabs_time s else with_thread (Asleep pabs_time) s)
  | Asleep pabs_time | Woken pabs_time =>
    if locked s then None
    else Some (waited (have_new_events_ s && ok) pabs_time s)
  | AtWake p =>
    let s := with_thread AtTop s in
    Some (if Time_lt p now then with_shift (Time_div (Time_sub now p) 2) s else s)
  | AtDeliver [] _ _ => Some (with_thread AtTop s)
  | AtDeliver (m :: pending) cur_time shift =>
    Some (with_delivery (m, (cur_time, shift)) (with_thread (AtDeliver pending cur_time shift) s))
  | NoThread => None
  end.

(** ** The transition system *)

Inductive label : Type :=
| LSchedule (goal : option nat) (time : Time) | LUnschedule (goal : nat) | LClear | LSignal
| LActivate | LStart (created : bool) | LDeactivate | LWait | LWaiter | LWork (now : Time) (ok : bool).

Definition step (l : label) (s : planner) : option planner :=
  if undefined (thread_runner_ (base s)) then None
  else
    match l with
    | LSchedule goal time => if locked s then None else schedule goal time s
    | LUnschedule goal => if locked s then None else Some (unschedule goal s).2
    | LClear => if locked s then None else Some (clear s)
    | LSignal =>
      match signals s with
      | O => None
      | S n => Some (signal (with_event (have_new_events_ s) n s))
      end
    | LActivate => c ← activate_object (base s); Some (with_base c s)
    | LStart created => start created s
    | LDeactivate => deactivate s
    | LWait => c ← wait_object (base s); Some (with_base c s)
    | LWaiter => wait s
    | LWork now ok => work_step now ok s
    end.

(** The times callers pass and the clock returns are values of [Time]. *)
Definition valid (l : label) : Prop :=
  match l with
  | LSchedule _ time => normalized time
  | LWork now _ => normalized now
  | _ => True
  end.

Definition Planner_init : planner :=
  {| base := CommonImpl_init 1; messages_ := [];
     have_new_events_ := false; delivery_time_shift_ := ZERO; thread := NoThread; signals := 0;
     scheduled := []; delivered := []; removed := [] |}.

Inductive reachable : planner -> Prop :=
| reach_init : reachable Planner_init
| reach_step s l s' : reachable s -> valid l -> step l s = Some s' -> reachable s'.

Fixpoint run (ls : list label) (s : planner) : option planner :=
  match ls with
  | [] => Some s
  | l :: ls => s' ← step l s; run ls s'
  end.

Lemma run_reaches ls s s' : reachable s -> Forall valid ls -> run ls s = Some s' -> reachable s'.
Proof.
  intros Hr Hv. revert s Hr. induction Hv as [|l ls Hl _ IH]; intros s Hr E; simpl in E.
  - by injection E as <-.
  - destruct (step l s) as [s1|] eqn:Es; [|done]. simpl in E. eapply IH; [|exact E].
    by eapply reach_step.
Qed.

End Work.

(** ** The order of the messages *)

Abbreviation us := (fun m : TimedMessage => microseconds m.1).
Abbreviation ordered := (StronglySorted (fun a b : TimedMessage => us a <= us b)).

(** A time from the epoch on. *)
Definition good (t : Time) : Prop := normalized t /\ 0 <= microseconds t.
Abbreviation good_messages := (Forall (fun m : TimedMessage => good m.1)).

Lemma good_ZERO : good ZERO.
Proof. split; [by_eval|done]. Qed.

Lemma good_schedule time : normalized time -> good (if Time_lt ZERO time then time else ZERO).
Proof.
  intros H. rewrite Time_lt_us by (done || apply good_ZERO). case_Z; [|apply good_ZERO].
  split; [done|]. change (microseconds ZERO) with 0 in *. lia.
Qed.

Lemma ordered_app l1 l2 : ordered (l1 ++ l2) <->
  ordered l1 /\ ordered l2 /\ Forall (fun a => Forall (fun b => us a <= us b) l2) l1.
Proof.
  induction l1 as [|a l1 IH]; simpl.
  - split; [intros H; repeat split; [constructor|done|constructor]|by intros (_ & H & _)].
  - split.
    + intros [Hs Hf]%StronglySorted_inv. apply IH in Hs as (H1 & H2 & H3).
      apply Forall_app in Hf as [Hf1 Hf2]. repeat split; [by constructor|done|by constructor].
    + intros (Hs & H2 & H3). apply StronglySorted_inv in Hs as [H1 Hf].
      apply Forall_cons in H3 as [H3 H4]. constructor; [by apply IH|]. by apply Forall_app.
Qed.

(** A message goes before those of the same or a later time. *)
Lemma insert_back_spec l m : good_messages l -> good m.1 -> ordered l ->
  exists pre post,
    l = pre ++ post /\ Forall (fun x => us x < us m) pre /\ Forall (fun x => us m <= us x) post /\
    insert_back (rev l) m = (rev (pre ++ m :: post), bool_decide (pre = [])).
Proof.
  intros Hg Hm Hs. induction l as [|x l IH] using rev_ind.
  { exists [], []. repeat split; constructor. }
  apply Forall_app in Hg as [Hg Hx]. apply Forall_cons in Hx as [Hx _].
  apply ordered_app in Hs as (Hs & _ & Hle). rewrite rev_app_distr. simpl.
  rewrite Time_lt_us by (apply Hx || apply Hm).
  destruct (Z.ltb_spec (us x) (us m)) as [Hlt|Hge].
  - exists (l ++ [x]), []. rewrite app_nil_r. split; [done|].
    split; [|split; [constructor|]].
    + apply Forall_app. split; [|by repeat constructor].
      eapply Forall_impl; [exact Hle|]. intros y Hy. apply Forall_cons in Hy as [Hy _].
      simpl in *. lia.
    + rewrite rev_app_distr. simpl. rewrite rev_app_distr. simpl.
      by rewrite bool_decide_eq_false_2 by (by destruct l).
  - destruct (IH Hg Hs) as (pre & post & -> & Hpre & Hpost & E). rewrite E.
    exists pre, (post ++ [x]). rewrite <- app_assoc. split; [done|]. split; [done|].
    split; [apply Forall_app; by repeat constructor|].
    by rewrite app_comm_cons, app_assoc, (rev_app_distr (pre ++ m :: post)).
Qed.

Section Due.
  Context (delivery_time_adjustment_ : bool).

Lemma due_us shift t : good shift -> good t ->
  good (due delivery_time_adjustment_ shift t) /\
  microseconds (due delivery_time_adjustment_ shift t) =
    if delivery_time_adjustment_ then Z.max 0 (microseconds t - microseconds shift)
    else microseconds t.
Proof.
  intros Hs Ht. unfold due. destruct delivery_time_adjustment_; [|done].
  rewrite Time_lt_us by (apply Hs || apply Ht). case_Z.
  - destruct (Time_sub_us t shift) as [Hn E]; [apply Ht|apply Hs|]. unfold good. rewrite E.
    split; [split; [exact Hn|lia]|lia].
  - split; [apply good_ZERO|]. change (microseconds ZERO) with 0. lia.
Qed.

Abbreviation due_m shift := (fun m : TimedMessage => microseconds (due delivery_time_adjustment_ shift m.1)).

Lemma due_mono shift a b : good shift -> good a.1 -> good b.1 -> us a <= us b ->
  due_m shift a <= due_m shift b.
Proof.
  intros Hs Ha Hb Hle. cbv beta in *.
  destruct (due_us shift a.1 Hs Ha) as [_ ->], (due_us shift b.1 Hs Hb) as [_ ->].
  destruct delivery_time_adjustment_; lia.
Qed.

(** The loop takes exactly the messages that are due. *)
Lemma pump_spec cur shift l : normalized cur -> good shift -> good_messages l -> ordered l ->
  exists pending later,
    pump delivery_time_adjustment_ cur shift l =
      (pending, later, due delivery_time_adjustment_ shift ∘ fst <$> head later) /\
    l = pending ++ later /\
    Forall (fun m => due_m shift m <= microseconds cur) pending /\
    Forall (fun m => microseconds cur < due_m shift m) later.
Proof.
  intros Hc Hs Hg Ho. induction l as [|m l IH]; [by exists [], []|]. simpl.
  apply Forall_cons in Hg as [Hm Hg]. apply StronglySorted_inv in Ho as [Ho Hle].
  destruct (due_us shift m.1 Hs Hm) as [[Hn _] _].
  rewrite Time_le_us by done. case_Z.
  - destruct (IH Hg Ho) as (pending & later & -> & -> & Hp & Hl).
    exists (m :: pending), later. repeat split; [|done]. by constructor.
  - exists [], (m :: l). repeat split; [constructor|]. constructor; [done|].
    rewrite Forall_forall in Hle, Hg. apply Forall_forall. intros x Hx.
    pose proof (due_mono shift m x Hs Hm (Hg x Hx) (Hle x Hx)). simpl in *. lia.
Qed.

(** ** The invariant *)

#[export] Instance no_thread_dec (p : place) : Decision (p = NoThread).
Proof. destruct p; (by left) || (by right). Defined.

Definition pending_of (p : place) : list TimedMessage :=
  match p with
  | AtDeliver pending _ _ => pending
  | _ => []
  end.

Definition pabs_ok (pabs_time : option Time) : Prop :=
  match pabs_time with Some p => normalized p | None => True end.

(** The wait ends when the first message is due, or before. *)
Definition waits_for (pabs_time : option Time) (s : planner) : Prop :=
  match messages_ s with
  | [] => True
  | m :: _ => exists p, pabs_time = Some p /\ microseconds p <= due_m (delivery_time_shift_ s) m
  end.

Definition wake_ok (pabs_time : option Time) (s : planner) : Prop :=
  pabs_ok pabs_time /\ (have_new_events_ s = true \/ waits_for pabs_time s).

(** A message that was due when it was taken. *)
Definition taken (cur_time shift : Time) (m : TimedMessage) : Prop :=
  good m.1 /\ good shift /\ due_m shift m <= microseconds cur_time.

Definition thread_ok (s : planner) : Prop :=
  match thread s with
  | AtGate _ | AtTop | NoThread => True
  | AtLock cur_time => normalized cur_time
  | AtCond pabs_time => wake_ok pabs_time s
  | Asleep pabs_time =>
    wake_ok pabs_time s /\ terminating_ (base s) = false /\
    (have_new_events_ s = true -> (0 < signals s)%nat)
  | Woken pabs_time => pabs_ok pabs_time
  | AtWake p => normalized p
  | AtDeliver pending cur_time shift => Forall (taken cur_time shift) pending
  end.

(** ** The life of the thread *)

(** A thread the activation has created and that waits for the mutex at most. *)
Definition early (p : place) : bool :=
  match p with AtGate _ | AtTop | AtLock _ => true | _ => false end.

(** The thread was joined and [number_running_] is not yet reset. *)
Definition joined (w : option waiting) : bool :=
  match w with
  | Some (VWait (JLoop (S _))) | Some (VWait JAcquire) | Some (VWait JReset) => true
  | _ => false
  end.

(** The one slot names the thread. *)
Definition slot (a : option start_place) (w : option waiting) (n : nat) : option nat :=
  match a with
  | Some SIncrement => Some 0%nat
  | _ => if (n =? 1)%nat && negb (joined w) then Some 0%nat else None
  end.

(** What holds where the activation is. *)
Definition activator_ok (a : option start_place) (r : runner) (th : place) : Prop :=
  match a with
  | Some SLoop =>
    interrupt_start_ r = false /\
    (number_running_ r = 0%nat \/ number_running_ r = 1%nat /\ early th = true)
  | Some SCreate => number_running_ r = 0%nat /\ interrupt_start_ r = false
  | Some SIncrement => number_running_ r = 0%nat /\ early th = true
  | Some SRelease | Some SReturned => number_running_ r = 1%nat /\ early th = true
  | Some SFailed => number_running_ r = 0%nat
  | Some (SWait j) => number_running_ r = 0%nat /\ j = JCheck
  | _ => (number_running_ r <= 1)%nat
  end.

Definition waiter_ok (w : option waiting) (n : nat) : Prop :=
  match w with
  | Some (VWait (JLoop i)) => n = 1%nat /\ (i <= 1)%nat
  | Some (VWait (JJoin i)) => n = 1%nat /\ i = 0%nat
  | Some (VWait JAcquire) | Some (VWait JReset) => n = 1%nat
  | Some (VWait JDone) => False
  | _ => True
  end.

(** The thread waits for the semaphore that the activation has still to
    release, or that is open. *)
Definition held (a : option start_place) (r : runner) : Prop :=
  match a with
  | Some SIncrement | Some SLoop | Some SRelease => True
  | _ => (0 < start_semaphore_ r)%nat
  end.

Record life (a : option start_place) (w : option waiting) (r : runner) (th : place) : Prop := {
  l_jobs : jobs_ r = [slot a w (number_running_ r)];
  l_defined : undefined r = false;
  l_activator : activator_ok a r th;
  l_waiter : waiter_ok w (number_running_ r);
  l_thread : th <> NoThread ->
    (number_running_ r = 1%nat \/ a = Some SIncrement) /\ joined w = false /\ interrupt_start_ r = false;
  l_held : th = AtGate GAcquire -> held a r
}.

Definition life_ok (s : planner) : Prop :=
  life (activator (base s)) (waiter (base s)) (thread_runner_ (base s)) (thread s).

(** A delivery is not early. *)
Definition on_time (d : TimedMessage * (Time * Time)) : Prop :=
  taken d.2.1 d.2.2 d.1.

Record inv (s : planner) : Prop := {
  inv_good : good_messages (messages_ s);
  inv_order : ordered (messages_ s);
  inv_shift : good (delivery_time_shift_ s);
  inv_perm : scheduled s ≡ₚ
    messages_ s ++ pending_of (thread s) ++ map fst (delivered s) ++ removed s;
  inv_time : Forall on_time (delivered s);
  inv_thread : thread_ok s;
  inv_term : terminating_ (base s) = true -> have_new_events_ s = true
}.

Lemma inv_init : inv Planner_init.
Proof. split; try constructor; done. Qed.

(** Moves of the thread that leave the rest as it is. *)
Lemma inv_with_thread p s : inv s -> pending_of p = pending_of (thread s) ->
  thread_ok (with_thread p s) -> inv (with_thread p s).
Proof. intros [] Hp Ht. split; try done. simpl. by rewrite Hp. Qed.

Lemma inv_schedule goal time s s' : inv s -> normalized time ->
  schedule goal time s = Some s' -> inv s'.
Proof.
  intros [Hg Ho Hsh Hp Hd Ht Hte] Hn E. unfold schedule in E. destruct goal as [g|]; [|done].
  set (m := (if Time_lt ZERO time then time else ZERO, g)) in *.
  assert (Hm : good m.1) by (by apply good_schedule).
  destruct (insert_back_spec (messages_ s) m Hg Hm Ho) as (pre & post & El & Hpre & Hpost & Ei).
  rewrite Ei, rev_involutive in E. injection E as <-.
  set (s1 := with_messages (pre ++ m :: post) (scheduled s ++ [m]) (removed s) s).
  assert (Hg1 : good_messages (pre ++ m :: post)).
  { rewrite El in Hg. apply Forall_app in Hg as [? ?]. apply Forall_app. split; [done|by constructor]. }
  assert (Ho1 : ordered (pre ++ m :: post)).
  { rewrite El in Ho. apply ordered_app in Ho as (H1 & H2 & H3). apply ordered_app.
    split; [done|]. split; [by constructor|]. apply Forall_forall. intros x Hx.
    rewrite Forall_forall in H3, Hpre. constructor; [|by apply H3].
    specialize (Hpre x Hx). simpl in *. lia. }
  assert (Hp1 : scheduled s1 ≡ₚ
    messages_ s1 ++ pending_of (thread s1) ++ map fst (delivered s1) ++ removed s1).
  { simpl. rewrite Hp, El. solve_Permutation. }
  destruct (bool_decide (pre = [])) eqn:Eb.
  - split; try done. simpl. unfold thread_ok, wake_ok in *. simpl.
    destruct (thread s); try done; intuition lia.
  - apply bool_decide_eq_false in Eb. destruct pre as [|x pre]; [done|].
    split; try done. simpl in *. unfold thread_ok, wake_ok, waits_for in *. simpl in *.
    by rewrite El in Ht.
Qed.

(** A filter keeps the order and can only delay the first message. *)
Lemma ordered_filter (P : TimedMessage -> Prop) `{!forall m, Decision (P m)} (l : list TimedMessage) :
  ordered l -> ordered (filter P l).
Proof.
  intros Ho. induction Ho as [|m l Hl IH Hm]; [constructor|]. rewrite filter_cons.
  case_decide; [|done]. constructor; [done|]. apply Forall_forall. intros x Hx.
  rewrite Forall_forall in Hm. apply Hm. by apply list_elem_of_filter in Hx as [_ Hx].
Qed.

Lemma waits_for_sublist pabs_time s ms sch rem :
  inv s -> waits_for pabs_time s -> Forall (fun m => m ∈ messages_ s) ms ->
  waits_for pabs_time (with_messages ms sch rem s).
Proof.
  intros [Hg Ho Hsh _ _ _ _] Hw Hin. unfold waits_for in *. simpl.
  destruct Hin as [|m ms Hm _]; [done|].
  destruct (messages_ s) as [|m0 l]; [by apply not_elem_of_nil in Hm|].
  destruct Hw as (p & -> & Hle). exists p. split; [done|].
  apply Forall_cons in Hg as [Hg0 Hg]. apply StronglySorted_inv in Ho as [_ Ho].
  apply elem_of_cons in Hm as [->|Hm]; [done|]. rewrite Forall_forall in Hg, Ho.
  pose proof (due_mono _ m0 m Hsh Hg0 (Hg m Hm) (Ho m Hm)). simpl in *. lia.
Qed.

Lemma inv_remove s ms gone :
  inv s -> Forall (fun m => m ∈ messages_ s) ms -> ordered ms -> messages_ s ≡ₚ ms ++ gone ->
  inv (with_messages ms (scheduled s) (removed s ++ gone) s).
Proof.
  intros Hi Hin Ho Hperm. pose proof Hi as [Hg _ Hsh Hp Hd Ht Hte].
  assert (Hw := fun p H => waits_for_sublist p s ms (scheduled s) (removed s ++ gone) Hi H Hin).
  split; try done; simpl.
  - rewrite Forall_forall in Hg, Hin. apply Forall_forall. auto.
  - rewrite Hp, Hperm. solve_Permutation.
  - unfold thread_ok, wake_ok in *. simpl. destruct (thread s); try done; intuition auto.
Qed.

Lemma inv_unschedule goal s : inv s -> inv (unschedule goal s).2.
Proof.
  intros Hi. apply inv_remove; [done| |by apply ordered_filter, inv_order|].
  - apply Forall_forall. intros m [_ Hm]%list_elem_of_filter. done.
  - induction (messages_ s) as [|m l IH]; [done|]. rewrite !filter_cons.
    destruct (decide (m.2 = goal)); [rewrite decide_False by naive_solver|rewrite decide_True by done];
      rewrite IH at 1; solve_Permutation.
Qed.

Lemma inv_clear s : inv s -> inv (clear s).
Proof. intros Hi. by apply inv_remove; [|constructor|constructor|]. Qed.

Lemma inv_signal s : inv s -> inv (signal s).
Proof.
  intros Hi. unfold signal. destruct (thread s) eqn:E; try done.
  apply inv_with_thread; [done|by rewrite E|]. apply inv_thread in Hi.
  unfold thread_ok in *. rewrite E in Hi. apply Hi.
Qed.

(** A signal is taken away when nobody sleeps, or wakes the sleeper. *)
Lemma inv_take_signal n s : inv s -> signals s = S n ->
  inv (signal (with_event (have_new_events_ s) n s)).
Proof.
  intros [Hg Ho Hsh Hp Hd Ht Hte] Hn. unfold signal. simpl. unfold thread_ok in *.
  destruct (thread s) eqn:E; simpl; split; simpl; unfold thread_ok; simpl; rewrite ?E; try done.
  apply Ht.
Qed.

(** The life cycle leaves the messages alone, and the sleeper when it does not
    begin to terminate. *)
Lemma inv_with_base c s : inv s ->
  (terminating_ c = true -> terminating_ (base s) = true) -> inv (with_base c s).
Proof.
  intros [Hg Ho Hsh Hp Hd Ht Hte] Hc. split; try done; [|by intros ?%Hc%Hte].
  unfold thread_ok, wake_ok in *. simpl. destruct (thread s); try done.
  destruct Ht as (H1 & H2 & H3). split; [done|]. split; [|done]. destruct (terminating_ c); [|done].
  by rewrite Hc in H2.
Qed.

Lemma inv_deactivate s s' : inv s -> deactivate s = Some s' -> inv s'.
Proof.
  intros Hi E. unfold deactivate in E. destruct (deactivate_object (base s)) as [c|] eqn:Ec; [|done].
  injection E as <-. unfold deactivate_object in Ec. destruct (activator (base s)); [done|].
  injection Ec as <-. destruct (active_state_ (base s)); [|by apply inv_with_base..].
  destruct Hi as [Hg Ho Hsh Hp Hd Ht Hte]. unfold signal. unfold thread_ok in Ht. simpl.
  destruct (thread s) eqn:E; simpl; split; simpl; unfold thread_ok, wake_ok in *; simpl;
    rewrite ?E; try done; intuition (congruence || auto).
Qed.

Lemma inv_waited b pabs_time s : inv s -> pabs_ok pabs_time ->
  pending_of (thread s) = [] -> inv (waited delivery_time_adjustment_ b pabs_time s).
Proof.
  intros Hi Hpa Hpe. pose proof Hi as [Hg Ho Hsh Hp Hd Ht Hte]. rewrite Hpe in Hp.
  unfold waited. destruct (terminating_ (base s)) eqn:Et; [by apply inv_with_thread|].
  destruct b; [|by apply inv_with_thread].
  destruct pabs_time as [p|]; [destruct delivery_time_adjustment_|];
    (split; try done; simpl; congruence).
Qed.

Lemma inv_pump cur s : inv s -> normalized cur -> thread s = AtLock cur ->
  let '(pending, later, pabs_time) :=
    pump delivery_time_adjustment_ cur (delivery_time_shift_ s) (messages_ s) in
  inv (with_thread
         (match pending with
          | [] => AtCond pabs_time
          | _ => AtDeliver pending cur (delivery_time_shift_ s)
          end) (with_messages later (scheduled s) (removed s) s)).
Proof.
  intros [Hg Ho Hsh Hp Hd Ht Hte] Hc Eth.
  destruct (pump_spec cur (delivery_time_shift_ s) (messages_ s) Hc Hsh Hg Ho)
    as (pending & later & -> & El & Hdue & Hlater).
  rewrite El in Hg, Ho. apply Forall_app in Hg as [Hg1 Hg2]. apply ordered_app in Ho as (_ & Ho2 & _).
  rewrite Eth in Hp. simpl in Hp.
  destruct pending as [|m pending]; (split; try done); simpl.
  - rewrite Hp, El. done.
  - unfold thread_ok, wake_ok, waits_for. simpl. destruct later as [|m later]; simpl; [auto|].
    apply Forall_cons in Hg2 as [Hm _]. destruct (due_us _ _ Hsh Hm) as [[Hn _] _].
    split; [done|]. right. eexists. split; [done|]. simpl. lia.
  - rewrite Hp, El. solve_Permutation.
  - rewrite Forall_forall in Hg1, Hdue. apply Forall_forall. intros x Hx. unfold taken. auto.
Qed.

Lemma inv_wake p now s : inv s -> normalized p -> normalized now -> pending_of (thread s) = [] ->
  inv (if Time_lt p now then with_shift (Time_div (Time_sub now p) 2) (with_thread AtTop s)
       else with_thread AtTop s).
Proof.
  intros [Hg Ho Hsh Hp Hd Ht Hte] Hpn Hn Hpe. rewrite Hpe in Hp. rewrite Time_lt_us by done.
  case_Z; (split; try done); simpl.
  destruct (Time_sub_us now p) as [Hs Es]; [done..|].
  destruct (Time_div_us (Time_sub now p) 2) as [Hq Eq]; [done|lia|].
  split; [done|]. rewrite Eq, Es. apply Z.quot_pos; lia.
Qed.

Lemma inv_deliver m pending cur shift s : inv s -> thread s = AtDeliver (m :: pending) cur shift ->
  inv (with_delivery (m, (cur, shift)) (with_thread (AtDeliver pending cur shift) s)).
Proof.
  intros [Hg Ho Hsh Hp Hd Ht Hte] Eth. unfold thread_ok in Ht. rewrite Eth in Hp, Ht. simpl in Hp.
  apply Forall_cons in Ht as [Hm Ht]. split; try done; simpl.
  - rewrite Hp, map_app. simpl. solve_Permutation.
  - apply Forall_app. split; [done|]. by apply Forall_singleton.
Qed.

Lemma inv_gate g s s' : inv s -> thread s = AtGate g ->
  ('(r, g') ← gate_step g (thread_runner_ (base s));
   Some (with_thread (match g' with inl g => AtGate g | inr true => AtTop | inr false => NoThread end)
           (with_base (with_runner r (base s)) s))) = Some s' -> inv s'.
Proof.
  intros Hi Eth E. destruct (gate_step g _) as [[r g']|]; [|done]. injection E as <-.
  apply inv_with_thread; [by apply inv_with_base|simpl; rewrite Eth; by destruct g' as [|[]]|].
  by destruct g' as [|[]].
Qed.

Lemma inv_work now ok s s' : inv s -> normalized now ->
  work_step delivery_time_adjustment_ now ok s = Some s' -> inv s'.
Proof.
  intros Hi Hn E. pose proof (inv_thread _ Hi) as Ht. pose proof (inv_term _ Hi) as Hte.
  unfold work_step in E. unfold thread_ok in Ht.
  destruct (thread s) as [g| |cur|pabs|pabs|pabs|p|[|m pending] cur shift|] eqn:Eth;
    [by eapply inv_gate|..|done]; try (destruct (locked s); [done|]); try (injection E as <-).
  - apply inv_with_thread; [done|by rewrite Eth|done].
  - destruct (terminating_ (base s)) eqn:Et.
    + injection E as <-. apply inv_with_thread; [done|by rewrite Eth|done].
    + pose proof (inv_pump cur s Hi Ht Eth) as Hpu. destruct (pump _ _ _ _) as [[pending later] pabs].
      by injection E as <-.
  - destruct (have_new_events_ s) eqn:Eh; [apply inv_waited; [done|apply Ht|by rewrite Eth]|].
    apply inv_with_thread; [done|by rewrite Eth|]. unfold thread_ok. simpl. split; [done|].
    destruct (terminating_ (base s)); [by discriminate Hte|]. split; [done|]. by rewrite Eh.
  - apply inv_waited; [done|apply Ht|by rewrite Eth].
  - apply inv_waited; [done|apply Ht|by rewrite Eth].
  - apply inv_wake; [done..|by rewrite Eth].
  - apply inv_with_thread; [done|by rewrite Eth|done].
  - by apply inv_deliver.
Qed.

(** ** The life of the thread is kept *)

(** It depends on the base and the place of the thread only. *)
Lemma life_frame s s' : life_ok s -> base s' = base s -> thread s' = thread s -> life_ok s'.
Proof. unfold life_ok. by intros Hl -> ->. Qed.

(** The thread moves on. *)
Lemma life_move p s : life_ok s -> thread s <> NoThread -> p <> AtGate GAcquire ->
  (early (thread s) = true -> early p = true \/ locked s = false) -> life_ok (with_thread p s).
Proof.
  intros [H1 H2 H3 H4 H5 H6] Hth Hp He. split; simpl; [done|done| |done|by intros _; apply H5|done].
  unfold activator_ok, locked in *. destruct (activator (base s)) as [[]|]; intuition congruence.
Qed.

Lemma life_schedule goal time s s' : life_ok s -> schedule goal time s = Some s' -> life_ok s'.
Proof.
  intros Hl E. unfold schedule in E. destruct goal as [g|]; [|done].
  destruct (insert_back _ _) as [r []]; injection E as <-; by apply (life_frame s).
Qed.

Lemma life_signal s : life_ok s -> life_ok (signal s).
Proof.
  intros Hl. unfold signal. destruct (thread s) eqn:E; try done.
  apply life_move; rewrite ?E; done.
Qed.

Lemma life_waited b pabs_time s : life_ok s -> thread s <> NoThread -> locked s = false ->
  life_ok (waited delivery_time_adjustment_ b pabs_time s).
Proof.
  intros Hl Hth Hk. assert (Hm : forall p, p <> AtGate GAcquire -> life_ok (with_thread p s))
    by (intros p Hp; apply life_move; auto).
  unfold waited. destruct (terminating_ (base s)); [by apply Hm|]. destruct b; [|by apply Hm].
  destruct pabs_time as [p|]; [destruct delivery_time_adjustment_|];
    [by apply (life_frame _ _ (Hm (AtWake p) ltac:(done)))|
     by apply (life_frame _ _ (Hm AtTop ltac:(done)))..].
Qed.

Lemma gate_life a w r g r' g' : life a w r (AtGate g) -> gate_step g r = Some (r', g') ->
  life a w r' (match g' with inl g => AtGate g | inr true => AtTop | inr false => NoThread end).
Proof.
  intros [H1 H2 H3 H4 H5 H6] E. destruct (H5 ltac:(done)) as (H7 & H8 & H9).
  destruct g; simpl in E; [destruct (start_semaphore_ r) eqn:Es; [done|]|..|rewrite H9 in E];
    injection E as <- <-; (split; simpl; try done; by destruct a as [[]|]).
Qed.

Lemma life_work now ok s s' : life_ok s ->
  work_step delivery_time_adjustment_ now ok s = Some s' -> life_ok s'.
Proof.
  intros Hl E. unfold work_step in E.
  assert (Hth : thread s <> NoThread) by (intros Eth; by rewrite Eth in E).
  assert (Hm : forall p, p <> AtGate GAcquire -> (early (thread s) = true -> early p = true \/ locked s = false) ->
    life_ok (with_thread p s)) by (intros p Hp He; by apply life_move).
  destruct (thread s) as [g| |cur|pabs|pabs|pabs|p|[|m pending] cur shift|] eqn:Eth;
    [|..|done]; [|rewrite <- Eth in Hth..];
    try (destruct (locked s) eqn:Ek; [done|]); try (injection E as <-).
  - destruct (gate_step g _) as [[r g']|] eqn:Eg; [|done]. injection E as <-.
    unfold life_ok in *. rewrite Eth in Hl. exact (gate_life _ _ _ _ _ _ Hl Eg).
  - apply Hm; auto.
  - destruct (terminating_ (base s)); [injection E as <-; apply Hm; auto|].
    destruct (pump _ _ _ _) as [[pending later] pabs]. injection E as <-.
    eapply life_frame; [apply (Hm (match pending with [] => AtCond pabs | _ => AtDeliver pending cur (delivery_time_shift_ s) end))|done|done].
    + by destruct pending.
    + auto.
  - destruct (have_new_events_ s); [by apply life_waited|]. apply Hm; auto.
  - by apply life_waited.
  - by apply life_waited.
  - destruct (Time_lt p now); [eapply life_frame; [apply (Hm AtTop)|done|done]|apply Hm]; auto.
  - apply Hm; auto.
  - eapply life_frame; [apply (Hm (AtDeliver pending cur shift))|done|done]; [done|]. simpl. auto.
Qed.

Lemma activate_life c c' th : life (activator c) (waiter c) (thread_runner_ c) th ->
  activate_object c = Some c' -> life (activator c') (waiter c') (thread_runner_ c') th.
Proof.
  intros Hl E. unfold activate_object in E. destruct (activator c) eqn:Ea; [done|].
  destruct (active_state_ c); injection E as <-; simpl; rewrite ?Ea; [done|done|].
  destruct Hl as [H1 H2 H3 H4 H5 H6]. split; simpl; try done.
  intros Ht. destruct (H5 Ht) as ([H|H] & ?); [auto|done].
Qed.

Lemma deactivate_life c c' th : life (activator c) (waiter c) (thread_runner_ c) th ->
  deactivate_object c = Some c' -> life (activator c') (waiter c') (thread_runner_ c') th.
Proof.
  intros Hl E. unfold deactivate_object in E. destruct (activator c) eqn:Ea; [done|].
  injection E as <-. destruct (active_state_ c); simpl; by rewrite Ea.
Qed.

Lemma life_deactivate s s' : life_ok s -> deactivate s = Some s' -> life_ok s'.
Proof.
  intros Hl E. unfold deactivate in E. destruct (deactivate_object (base s)) as [c|] eqn:Ec; [|done].
  assert (Hc : life_ok (with_base c s)) by exact (deactivate_life _ _ _ Hl Ec).
  injection E as <-. destruct (active_state_ (base s)); [|done..].
  apply life_signal. by apply (life_frame (with_base c s)).
Qed.

Lemma waiter_ok_0 w : waiter_ok w 0 -> joined w = false /\ waiter_ok w 1.
Proof. destruct w as [[|[|[]|[]| | |]| |]|]; simpl; intuition lia. Qed.

(** A step of the activation, with the thread it creates. *)
Lemma start_life created w p r r' p' e th : life (Some p) w r th ->
  start_step 0 created (fun _ => match th with NoThread => true | _ => false end) 0 p r = Some (r', p', e) ->
  life (Some p') w r' (match e with Created => AtGate GAcquire | _ => th end).
Proof.
  intros Hl E. destruct Hl as [H1 H2 H3 H4 H5 H6].
  assert (Hno : number_running_ r = 0%nat -> p <> SIncrement -> th = NoThread).
  { intros Hn Hp. destruct (decide (th = NoThread)) as [|Ht]; [done|].
    destruct (H5 Ht) as ([H|H] & _); [lia|congruence]. }
  assert (H50 : number_running_ r <> 0%nat -> forall q : start_place, th <> NoThread ->
    (number_running_ r = 1%nat \/ Some q = Some SIncrement) /\ joined w = false /\ interrupt_start_ r = false).
  { intros Hn q Ht. destruct (H5 Ht) as ([H|[= ->]] & ?); [auto|]. by destruct H3. }
  destruct p as [| | | | | |j| |]; simpl in E, H3; [..|done|done].
  - destruct (Nat.eqb_spec (number_running_ r) 0) as [En|En]; injection E as <- <- <-;
      (split; simpl; try done); auto; try (by rewrite Hno).
  - rewrite H1 in E. simpl in E. injection E as <- <- <-. destruct H3 as [Hi [Hn|[Hn He]]]; rewrite Hn; simpl;
      (split; simpl; rewrite ?Hn in *; simpl in *; try done); try (by rewrite Hno); auto.
  - destruct H3 as [Hn Hi]. rewrite Hn in H1, H4. destruct (waiter_ok_0 _ H4) as [Hj _].
    destruct created; injection E as <- <- <-.
    + unfold create_thread. rewrite Hn, H1. simpl. split; simpl; rewrite ?Hn, ?H1; try done. auto.
    + split; simpl; rewrite ?Hn, ?H1; try done; by rewrite Hno.
  - destruct H3 as [Hn He]. injection E as <- <- <-. rewrite Hn in H1, H4.
    assert (Ht : th <> NoThread) by (by intros ->). destruct (H5 Ht) as (_ & Hj & Hi).
    destruct (waiter_ok_0 _ H4) as [_ H41]. split; simpl; rewrite ?Hn; simpl; try done; auto. by rewrite Hj.
  - injection E as <- <- <-. split; simpl; try done; [apply H50|]; lia.
  - injection E as <- <- <-. split; simpl; try done; by rewrite Hno.
  - destruct H3 as [Hn ->]. simpl in E. rewrite Hn in E. injection E as <- <- <-.
    rewrite Hno by done. rewrite Hn in H1, H4.
    split; simpl; rewrite ?Hn; done || lia.
Qed.

Lemma life_start created s s' : life_ok s -> start created s = Some s' -> life_ok s'.
Proof.
  intros Hl E. unfold start, activate_step in E. unfold life_ok in *.
  destruct (activator (base s)) as [p|] eqn:Ea; [|done].
  assert (Hstep : forall r p' e,
    start_step 0 created (ended s) 0 p (thread_runner_ (base s)) = Some (r, p', e) ->
    life (Some p') (waiter (base s)) r (match e with Created => AtGate GAcquire | _ => thread s end)).
  { intros r p' e. by apply (start_life created). }
  assert (Hend : p = SReturned \/ p = SThrown -> life None (waiter (base s)) (thread_runner_ (base s)) (thread s)).
  { intros Hp. destruct Hl as [H1 H2 H3 H4 H5 H6].
    split; try done; destruct Hp as [->| ->]; simpl in *; try done; try lia;
      intros Ht; destruct (H5 Ht) as ([H|H] & ?); auto; done. }
  destruct p; try (destruct (start_step _ _ _ _ _ _) as [[[r p'] e]|]; [|done];
    injection E as <-; specialize (Hstep r p' e eq_refl); by destruct e);
    injection E as <-; apply Hend; auto.
Qed.

(** A step of [wait_object]. *)
Lemma wait_life a w r r' j j' e th : life a (Some (VWait j)) r th -> w = VWait j ->
  join_step (fun _ => match th with NoThread => true | _ => false end) j r = Some (r', j', e) ->
  life a (Some (match j' with JDone => VTerminated | _ => VWait j' end)) r' th.
Proof.
  intros [H1 H2 H3 H4 H5 H6] -> E. destruct j as [|i|i| | |]; simpl in E, H4; [..|done].
  - injection E as <- <- <-. assert (Hn : (number_running_ r = 0 \/ number_running_ r = 1)%nat)
      by (destruct a as [[]|]; simpl in H3; lia).
    destruct Hn as [Hn|Hn]; rewrite Hn in *; simpl; (split; simpl; rewrite ?Hn; done || auto).
  - destruct H4 as [Hn Hi]. rewrite Hn in *. injection E as <- <- <-.
    destruct i as [|[|i]]; [..|lia]; simpl; (split; simpl; rewrite ?Hn; done || auto).
  - destruct H4 as [Hn ->]. rewrite H1 in E. simpl in E.
    assert (Ha : slot a (Some (VWait (JJoin 0))) (number_running_ r) = Some 0%nat).
    { rewrite Hn. by destruct a as [[]|]. }
    rewrite Ha in E. destruct th eqn:Eth; try done. injection E as <- <- <-.
    split; simpl; rewrite ?Hn, ?H1; try done; auto.
    destruct a as [[]|]; simpl in H3; try done; lia.
  - destruct (start_semaphore_ r); [done|]. injection E as <- <- <-.
    assert (Ht : th = NoThread) by (destruct (decide (th = NoThread)) as [|Hth]; [done|];
      by destruct (H5 Hth) as (_ & ? & _)). subst th. by split.
  - injection E as <- <- <-.
    assert (Ht : th = NoThread) by (destruct (decide (th = NoThread)) as [|Hth]; [done|];
      by destruct (H5 Hth) as (_ & ? & _)). subst th.
    rewrite H4 in H1.
    split; simpl; try done; destruct a as [[]|]; simpl in *; intuition (lia || congruence || auto).
Qed.

Lemma life_wait s s' : life_ok s -> wait s = Some s' -> life_ok s'.
Proof.
  intros Hl E. unfold wait, wait_step in E. unfold life_ok in *.
  destruct (waiter (base s)) as [[|j| |]|] eqn:Ew; [..|done].
  - injection E as <-. simpl. destruct Hl as [H1 H2 H3 H4 H5 H6].
    destruct (decide _); simpl; by split.
  - destruct (join_step _ _ _) as [[[r j'] e]|] eqn:Ej; [|done]. injection E as <-.
    exact (wait_life _ _ _ _ _ _ _ _ Hl eq_refl Ej).
  - injection E as <-. by destruct Hl as [H1 H2 H3 H4 H5 H6].
  - destruct (activator (base s)) eqn:Ea; [done|]. injection E as <-.
    destruct Hl as [H1 H2 H3 H4 H5 H6]. destruct (active_state_ (base s)); simpl; rewrite Ea; by split.
Qed.

Lemma life_step l s s' : life_ok s -> step delivery_time_adjustment_ l s = Some s' -> life_ok s'.
Proof.
  intros Hl E. unfold step in E. destruct (undefined _); [done|].
  destruct l as [goal time|goal| | | |created| | | |now ok]; try (destruct (locked s); [done|]).
  - by eapply life_schedule.
  - by injection E as <-.
  - by injection E as <-.
  - destruct (signals s) as [|n]; [done|]. injection E as <-. apply life_signal. by apply (life_frame s).
  - destruct (activate_object _) as [c|] eqn:Ec; [|done]. injection E as <-.
    exact (activate_life _ _ _ Hl Ec).
  - by eapply life_start.
  - by eapply life_deactivate.
  - destruct (wait_object _) as [c|] eqn:Ec; [|done]. injection E as <-. unfold wait_object in Ec.
    unfold life_ok in *. destruct (waiter (base s)); [done|]. injection Ec as <-. destruct Hl. by split.
  - by eapply life_wait.
  - by eapply life_work.
Qed.

(** The thread is created when there is none, so it takes no message away. *)
Lemma inv_start created s s' : inv s -> life_ok s -> start created s = Some s' -> inv s'.
Proof.
  intros Hi Hl E. unfold start in E. destruct (activate_step _ _ _ _ _) as [[c e]|] eqn:Ec; [|done].
  unfold activate_step in Ec. destruct (activator (base s)) as [p|] eqn:Ea; [|done].
  assert (Hc : inv (with_base c s)).
  { apply inv_with_base; [done|].
    destruct p; try (destruct (start_step _ _ _ _ _ _) as [[[r p'] e']|]; [|done]);
      by injection Ec as <- <-. }
  injection E as <-. destruct e; [done| |done].
  assert (Hno : thread s = NoThread).
  { unfold life_ok in Hl. rewrite Ea in Hl. destruct Hl as [H1 H2 H3 H4 H5 H6].
    destruct (decide (thread s = NoThread)) as [|Ht]; [done|]. destruct (H5 Ht) as ([Hn|[= ->]] & _); [|done].
    destruct p; try done; simpl in Ec; try (by repeat case_match; simplify_eq); [destruct H3; congruence|].
    destruct (join_step _ j _) as [[[r j'] e']|] eqn:Ej; [|done]. injection Ec as _ ->.
    destruct H3 as [_ ->]. by injection Ej. }
  apply inv_with_thread; [done|simpl; by rewrite Hno|done].
Qed.

(** ** The invariant is kept *)

Lemma inv_step l s s' : inv s -> life_ok s -> valid l ->
  step delivery_time_adjustment_ l s = Some s' -> inv s'.
Proof.
  intros Hi Hl Hv E. unfold step in E. destruct (undefined _); [done|].
  destruct l as [goal time|goal| | | |created| | | |now ok]; try (destruct (locked s); [done|]).
  - by eapply inv_schedule.
  - injection E as <-. by apply inv_unschedule.
  - injection E as <-. by apply inv_clear.
  - destruct (signals s) as [|n] eqn:En; [done|]. injection E as <-. by apply inv_take_signal.
  - destruct (activate_object _) as [c|] eqn:Ec; [|done]. injection E as <-. apply inv_with_base; [done|].
    unfold activate_object in Ec. repeat case_match; by simplify_eq.
  - by eapply inv_start.
  - by eapply inv_deactivate.
  - destruct (wait_object _) as [c|] eqn:Ec; [|done]. injection E as <-. apply inv_with_base; [done|].
    unfold wait_object in Ec. by destruct (waiter (base s)); simplify_eq.
  - unfold wait in E. destruct (wait_step _ _) as [[c e]|] eqn:Ec; [|done]. injection E as <-.
    apply inv_with_base; [done|]. unfold wait_step in Ec.
    destruct (waiter (base s)) as [[|j| |]|]; [..|done]; repeat case_match; simplify_eq; try done.
    destruct (join_step _ _ _) as [[[r j'] e']|]; [|done]. by injection Ec as <- <-.
  - by eapply inv_work.
Qed.

Lemma planner_inv s : reachable delivery_time_adjustment_ s -> inv s /\ life_ok s.
Proof.
  induction 1 as [|s l s' _ [IHi IHl] Hv Hs]; [split; [apply inv_init|split; simpl; done || lia]|].
  split; [by eapply inv_step|by eapply life_step].
Qed.

(** ** Termination *)

(** How many steps the thread still makes once it is to terminate. *)
Definition remaining (p : place) : nat :=
  match p with
  | NoThread => 0
  | AtLock _ | AtCond _ | Asleep _ | Woken _ => 1
  | AtTop => 2
  | AtWake _ => 3
  | AtDeliver pending _ _ => 3 + length pending
  | AtGate GTest => 3
  | AtGate GRelease => 4
  | AtGate GAcquire => 5
  end.

(** How many steps a caller of [activate_object] still makes while the thread
    runs. *)
Definition start_remaining (a : option start_place) : nat :=
  match a with
  | Some SCheck => 4
  | Some SLoop => 3
  | Some SRelease => 2
  | Some _ => 1
  | None => 0
  end.

(** The planner is to terminate, its thread is counted, and no [wait_object]
    that has found no thread is about to call [terminated()]. *)
Definition ending (s : planner) : Prop :=
  terminating_ (base s) = true /\ number_running_ (thread_runner_ (base s)) = 1%nat /\
  waiter (base s) <> Some VTerminated.

Lemma waited_ends b pabs_time s : terminating_ (base s) = true ->
  waited delivery_time_adjustment_ b pabs_time s = with_thread NoThread s.
Proof. unfold waited. by intros ->. Qed.

Lemma work_step_ends now ok s : inv s -> life_ok s -> ending s -> thread s <> NoThread ->
  activator (base s) = None ->
  exists s', work_step delivery_time_adjustment_ now ok s = Some s' /\
    (remaining (thread s') < remaining (thread s))%nat.
Proof.
  intros Hi Hl (Ht & _) Hth Ha. pose proof (inv_term _ Hi Ht) as Hev. pose proof (inv_thread _ Hi) as Hok.
  destruct Hl as [_ _ _ _ H5 H6]. destruct (H5 Hth) as (_ & _ & Hint).
  assert (Hk : locked s = false) by (unfold locked; by rewrite Ha).
  unfold work_step, thread_ok in *. rewrite Hk. unfold held in H6. rewrite Ha in H6.
  destruct (thread s) as [[]| |cur|pabs|pabs|pabs|p|[|m pending] cur shift|]; [..|done].
  - specialize (H6 eq_refl). simpl. destruct (start_semaphore_ _); [lia|]. eexists. split; [done|]. simpl. lia.
  - eexists. split; [done|]. simpl. lia.
  - simpl. rewrite Hint. eexists. split; [done|]. simpl. lia.
  - eexists. split; [done|]. simpl. lia.
  - rewrite Ht. eexists. split; [done|]. simpl. lia.
  - rewrite Hev, waited_ends by done. eexists. split; [done|]. simpl. lia.
  - destruct Hok as (_ & Hf & _). congruence.
  - rewrite waited_ends by done. eexists. split; [done|]. simpl. lia.
  - destruct (Time_lt p now); eexists; (split; [done|]); simpl; lia.
  - eexists. split; [done|]. simpl. lia.
  - eexists. split; [done|]. simpl. lia.
Qed.

(** A caller that holds the mutex lets go of it. *)
Lemma start_ends created s : life_ok s -> ending s -> thread s <> NoThread ->
  activator (base s) <> None ->
  exists s', step delivery_time_adjustment_ (LStart created) s = Some s' /\
    (start_remaining (activator (base s')) < start_remaining (activator (base s)))%nat.
Proof.
  intros [H1 H2 H3 H4 H5 H6] (_ & Hn & _) Hth Ha. unfold step. rewrite H2. unfold start, activate_step.
  destruct (activator (base s)) as [p|]; [|done]. clear Ha. unfold activator_ok in H3.
  assert (Hz : number_running_ (thread_runner_ (base s)) <> 0%nat) by congruence.
  destruct p; simpl; try (by destruct Hz; destruct H3); rewrite ?H1, ?Hn; simpl;
    try (eexists; split; [done|]; simpl; lia).
Qed.

Lemma ending_base s s' : ending s -> base s' = base s -> ending s'.
Proof. unfold ending. by intros H ->. Qed.

Lemma signal_remaining s : (remaining (thread (signal s)) <= remaining (thread s))%nat /\
  base (signal s) = base s.
Proof. unfold signal. destruct (thread s) eqn:E; simpl; rewrite ?E; simpl; split; lia || done. Qed.

Lemma work_remaining now ok s s' : life_ok s -> ending s -> thread s <> NoThread ->
  work_step delivery_time_adjustment_ now ok s = Some s' ->
  (remaining (thread s') <= remaining (thread s))%nat /\ ending s'.
Proof.
  intros Hl He Hth E. destruct (l_thread _ _ _ _ Hl Hth) as (_ & _ & Hint). pose proof He as (Ht & _).
  unfold work_step in E.
  destruct (thread s) as [g| |cur|pabs|pabs|pabs|p|[|m pending] cur shift|] eqn:Eth; [..|done];
    try (destruct (locked s); [done|]); rewrite ?Ht, ?waited_ends in E by done.
  - destruct g; simpl in E; [destruct (start_semaphore_ _); [done|]|..|rewrite Hint in E];
      injection E as <-; simpl; (split; [lia|exact He]).
  - injection E as <-. simpl. split; [lia|exact He].
  - injection E as <-. simpl. split; [lia|exact He].
  - injection E as <-. destruct (have_new_events_ s); rewrite ?waited_ends by done; simpl; (split; [lia|exact He]).
  - injection E as <-. simpl. split; [lia|exact He].
  - injection E as <-. simpl. split; [lia|exact He].
  - injection E as <-. destruct (Time_lt p now); simpl; (split; [lia|exact He]).
  - injection E as <-. simpl. split; [lia|exact He].
  - injection E as <-. simpl. split; [lia|exact He].
Qed.

Lemma wait_remaining s s' : life_ok s -> ending s -> thread s <> NoThread ->
  wait s = Some s' -> thread s' = thread s /\ ending s'.
Proof.
  intros Hl (Ht & Hn & Hw) Hth E. destruct (l_thread _ _ _ _ Hl Hth) as (_ & Hj & _).
  pose proof (l_jobs _ _ _ _ Hl) as Hjobs. pose proof (l_waiter _ _ _ _ Hl) as Hwok.
  unfold wait, wait_step in E. unfold ending.
  destruct (waiter (base s)) as [[|j| |]|] eqn:Ew; [..|done].
  - injection E as <-. simpl. by destruct (decide _).
  - destruct j as [|[|i]|i| | |]; simpl in E, Hj, Hwok; try done; rewrite ?Hn in E; simpl in E.
    + by injection E as <-.
    + by injection E as <-.
    + destruct Hwok as [_ ->]. rewrite Hjobs, Hn in E. unfold ended in E.
      assert (Es : slot (activator (base s)) (Some (VWait (JJoin 0))) 1 = Some 0%nat)
        by (by destruct (activator (base s)) as [[]|]).
      simpl in E. rewrite Es in E. by destruct (thread s).
  - done.
  - destruct (activator (base s)); [done|]. injection E as <-. simpl. by destruct (active_state_ (base s)).
Qed.

(** No step gives the thread more work or ends the ending before the thread
    has ended. *)
Lemma step_remaining l s s' : life_ok s -> ending s -> thread s <> NoThread ->
  step delivery_time_adjustment_ l s = Some s' ->
  (remaining (thread s') <= remaining (thread s))%nat /\ ending s'.
Proof.
  intros Hl He Hth E. unfold step in E. destruct (undefined _); [done|].
  destruct l as [goal time|goal| | | |created| | | |now ok]; try (destruct (locked s); [done|]).
  - unfold schedule in E. destruct goal as [g|]; [|done].
    destruct (insert_back _ _) as [r []]; injection E as <-; simpl; auto with lia.
  - injection E as <-. simpl. auto with lia.
  - injection E as <-. simpl. auto with lia.
  - destruct (signals s) as [|n]; [done|]. injection E as <-.
    destruct (signal_remaining (with_event (have_new_events_ s) n s)) as [H1 H2].
    split; [done|]. by apply (ending_base s).
  - unfold activate_object in E. destruct (activator (base s)); [done|].
    destruct (active_state_ (base s)); injection E as <-; simpl; auto with lia.
  - destruct He as (Ht & Hn & Hw). unfold start, activate_step in E.
    pose proof (l_activator _ _ _ _ Hl) as Ha. pose proof (l_jobs _ _ _ _ Hl) as Hjobs.
    destruct (activator (base s)) as [p|]; [|done]. unfold activator_ok in Ha. unfold ending.
    destruct p; simpl in E; rewrite ?Hjobs, ?Hn in E; simpl in E; try (exfalso; lia);
      injection E as <-; simpl; auto with lia.
  - unfold deactivate, deactivate_object in E. destruct (activator (base s)); [done|]. injection E as <-.
    destruct He as (Ht & Hn & Hw). destruct (active_state_ (base s)) eqn:Ea; [|simpl; by split..].
    simpl. match goal with |- context [signal ?x] => destruct (signal_remaining x) as [H1 H2] end.
    split; [done|]. unfold ending. by rewrite H2.
  - unfold wait_object in E. destruct (waiter (base s)) eqn:Ew; [done|]. injection E as <-.
    destruct He as (Ht & Hn & Hw). simpl. split; [lia|]. by split.
  - destruct (wait_remaining s s' Hl He Hth E) as [-> ?]. auto with lia.
  - by eapply work_remaining.
Qed.

End Due.

(** ** Properties *)

(** C6: However callers and the working thread interleave, the messages of the
    planner are ordered by time, every scheduled message is waiting, about to
    be delivered, delivered or removed and none is so twice, and no message is
    delivered before its time, less the shift when the planner adjusts it. *)
Theorem Planner_messages (delivery_time_adjustment_ : bool) (s : planner) :
  reachable delivery_time_adjustment_ s ->
  ordered (messages_ s) /\
  scheduled s ≡ₚ messages_ s ++ pending_of (thread s) ++ map fst (delivered s) ++ removed s /\
  Forall (fun '((time, _), (clock, shift)) =>
    microseconds time <= microseconds clock +
      if delivery_time_adjustment_ then microseconds shift else 0) (delivered s).
Proof.
  intros Hr. destruct (planner_inv _ s Hr) as [[_ Ho _ Hp Hd _ _] _].
  split; [done|]. split; [done|]. eapply Forall_impl; [exact Hd|].
  intros [[time g] [clock shift]] (Ht & Hs & Hle). cbn in *.
  destruct (due_us delivery_time_adjustment_ shift time Hs Ht) as [_ E]. rewrite E in Hle.
  destruct delivery_time_adjustment_; lia.
Qed.

(** C5: The working thread sleeps only while nothing is to be done: the planner
    is not terminating, and a caller is about to signal it, or there is no
    message, or the wait ends no later than the first message is due. *)
Theorem Planner_no_lost_wakeup (delivery_time_adjustment_ : bool) (s : planner) pabs_time :
  reachable delivery_time_adjustment_ s -> thread s = Asleep pabs_time ->
  terminating_ (base s) = false /\
  ((0 < signals s)%nat \/
   match messages_ s with
   | [] => True
   | m :: _ => exists p, pabs_time = Some p /\
       microseconds p <= microseconds (due delivery_time_adjustment_ (delivery_time_shift_ s) m.1)
   end).
Proof.
  intros Hr Hth. pose proof (inv_thread _ _ (proj1 (planner_inv _ s Hr))) as Ht. unfold thread_ok in Ht.
  rewrite Hth in Ht. destruct Ht as ([_ [Hev|Hw]] & Hte & Hs); [by auto|]. split; [done|]. by right.
Qed.

(** C7: Deactivation of an active planner whose thread runs begins its ending
    (see [ending]), unless a [wait_object] that found no thread is about to call
    [terminated()].  While it is ending, the thread has ended or its next step
    brings it nearer to its end, whatever the clock and the wait return, or a
    caller of [activate_object] holds the mutex and lets go of it within four
    steps; and no step of anyone takes the thread further away or stops the
    ending. *)
Theorem Planner_terminates (delivery_time_adjustment_ : bool) (s : planner) now ok created :
  reachable delivery_time_adjustment_ s ->
  (active_state_ (base s) = AS_ACTIVE -> activator (base s) = None -> thread s <> NoThread ->
   waiter (base s) <> Some VTerminated ->
   exists s', step delivery_time_adjustment_ LDeactivate s = Some s' /\ ending s') /\
  (ending s ->
   thread s = NoThread \/
   match activator (base s) with
   | None => exists s', step delivery_time_adjustment_ (LWork now ok) s = Some s' /\
       (remaining (thread s') < remaining (thread s))%nat
   | Some _ => exists s', step delivery_time_adjustment_ (LStart created) s = Some s' /\
       (start_remaining (activator (base s')) < start_remaining (activator (base s)) <= 4)%nat
   end /\
   forall l s', step delivery_time_adjustment_ l s = Some s' ->
     (remaining (thread s') <= remaining (thread s))%nat /\ ending s').
Proof.
  intros Hr. destruct (planner_inv _ s Hr) as [Hi Hl]. pose proof (l_defined _ _ _ _ Hl) as Hu. split.
  - intros Hst Ha Hth Hw. destruct (l_thread _ _ _ _ Hl Hth) as ([Hn|Hn] & _); [|congruence].
    unfold step. rewrite Hu. unfold deactivate, deactivate_object. rewrite Ha, Hst. eexists. split; [done|].
    match goal with |- ending (signal ?x) => destruct (signal_remaining x) as [_ E] end.
    unfold ending. by rewrite E.
  - intros He. destruct (decide (thread s = NoThread)) as [|Hth]; [by left|right]. split.
    + destruct (activator (base s)) as [p|] eqn:Ea.
      * destruct (start_ends delivery_time_adjustment_ created s Hl He Hth) as (s' & E & H); [congruence|].
        exists s'. split; [done|]. rewrite Ea in H. split; [done|]. destruct p; simpl; lia.
      * unfold step. rewrite Hu. by apply work_step_ends.
    + intros l s' E. by eapply step_remaining.
Qed.

(** ** A run *)

(** Two goals are scheduled out of order, a third one for later; the thread
    delivers the first two in the order of their times and goes to sleep. *)
Definition sample_labels : list label :=
  let work := LWork (mkTime 10 0) true in
  [LActivate] ++ replicate 7 (LStart true) ++
  [LSchedule (Some 1%nat) (mkTime 7 0); LSchedule (Some 2%nat) (mkTime 5 500000);
   LSchedule (Some 3%nat) (mkTime 20 0); LSignal; LSignal; work; work; work; work; work; work; work; work;
   work; work; work; work; work; work].

Definition sample_state : planner :=
  {| base := {| active_state_ := AS_ACTIVE; terminating_ := false;
                thread_runner_ := {| number_running_ := 1; interrupt_start_ := false;
                                     start_semaphore_ := 1; jobs_ := [Some 0%nat]; undefined := false |};
                activator := None; waiter := None |};
     messages_ := [(mkTime 20 0, 3%nat)]; have_new_events_ := false; delivery_time_shift_ := ZERO;
     thread := Asleep (Some (mkTime 20 0)); signals := 0;
     scheduled := [(mkTime 7 0, 1%nat); (mkTime 5 500000, 2%nat); (mkTime 20 0, 3%nat)];
     delivered := [((mkTime 5 500000, 2%nat), (mkTime 10 0, ZERO));
                   ((mkTime 7 0, 1%nat), (mkTime 10 0, ZERO))];
     removed := [] |}.

Example sample_run_ok : run false sample_labels Planner_init = Some sample_state.
Proof. vm_compute. reflexivity. Qed.

Lemma sample_reachable : reachable false sample_state.
Proof.
  eapply run_reaches; [apply reach_init| |exact sample_run_ok].
  repeat constructor; simpl; by_eval.
Qed.

Lemma Planner_messages_witness :
  ordered (messages_ sample_state) /\
  scheduled sample_state ≡ₚ messages_ sample_state ++ pending_of (thread sample_state) ++
    map fst (delivered sample_state) ++ removed sample_state /\
  Forall (fun '((time, _), (clock, shift)) => microseconds time <= microseconds clock + 0)
    (delivered sample_state).
Proof. exact (Planner_messages false sample_state sample_reachable). Defined.

Lemma Planner_no_lost_wakeup_witness :
  terminating_ (base sample_state) = false /\
  ((0 < 0)%nat \/ exists p, Some (mkTime 20 0) = Some p /\ microseconds p <= 20000000).
Proof.
  exact (Planner_no_lost_wakeup false sample_state (Some (mkTime 20 0)) sample_reachable eq_refl).
Defined.

Lemma Planner_terminates_witness :
  exists s, run false (sample_labels ++ [LDeactivate]) Planner_init = Some s /\
    ending s /\ thread s = Woken (Some (mkTime 20 0)) /\
    exists s', step false (LWork (mkTime 11 0) true) s = Some s' /\
      (remaining (thread s') < remaining (thread s))%nat.
Proof.
  destruct (deactivate sample_state) as [s|] eqn:Es; [|by vm_compute in Es]. exists s.
  assert (Hr : reachable false s).
  { apply (reach_step false sample_state LDeactivate); [exact sample_reachable|exact I|exact Es]. }
  assert (He : ending s).
  { destruct (Planner_terminates false sample_state (mkTime 11 0) true true sample_reachable) as [H _].
    destruct (H eq_refl eq_refl ltac:(discriminate) ltac:(discriminate)) as (s1 & E & He). change (deactivate sample_state = Some s1) in E.
    rewrite Es in E. by injection E as ->. }
  assert (Et : thread s = Woken (Some (mkTime 20 0))) by (vm_compute in Es; by injection Es as <-).
  split; [vm_compute in Es; injection Es as <-; vm_compute; reflexivity|]. split; [exact He|]. split; [exact Et|].
  destruct (Planner_terminates false s (mkTime 11 0) true true Hr) as [_ H].
  destruct (H He) as [H'|[H' _]]; [by rewrite Et in H'|].
  replace (activator (base s)) with (@None start_place) in H' by (vm_compute in Es; by injection Es as <-).
  exact H'.
Defined.

(** A [wait_object] that runs while [activate_object] has set the state and not
    yet created the thread finds no thread to wait for.  When it goes on after a
    deactivation it takes the order to terminate back and reports the planner as
    not active, while the thread sleeps on. *)
Theorem Planner_wait_race :
  exists s, run false ([LActivate; LStart true; LWait; LWaiter; LWaiter] ++ replicate 6 (LStart true) ++
      replicate 6 (LWork (mkTime 10 0) true) ++ [LDeactivate; LWaiter; LWaiter] ++
      replicate 4 (LWork (mkTime 10 0) true)) Planner_init = Some s /\
    active_state_ (base s) = AS_NOT_ACTIVE /\ terminating_ (base s) = false /\
    thread s = Asleep None /\ messages_ s = [] /\ have_new_events_ s = false.
Proof. eexists. split; [vm_compute; reflexivity|]. done. Qed.
